(* ===== verification/_CoqProject ===== *)
-Q . S2P
Prelude.v
IntCodec.v
HuffTables.v
Huffman.v
HuffPairs.v
HencTable.v
HuffEnc.v
StrCodec.v
Xxhash.v
StaticTable.v
Ringbuf.v
Rfc9204.v
Monad.v
History.v
EncTable.v
EncHinfo.v
Float.v
EncState.v
EncPolicy.v
EncEncode.v
Encoder.v
EncInv.v
EncChoice.v
EncAbs.v
EncWire.v
EncExec.v
EncField.v
EncOps.v
EncPeer.v
EncTrace.v
EncBlock.v
EncExamples.v
HuffStream.v
HdecTable.v
HuffDec.v
DecTable.v
DecState.v
DecStream.v
DecSpec.v
DecBlocked.v
DecStrings.v
DecReading.v
DecCore.v
DecRounds.v
DecWinr.v
DecWonr.v
DecWonrValue.v
DecEncIn.v
DecCleanup.v
DecTrace.v
DecHeader.v
DecParse.v
DecHblock.v
DecHset.v
DecOut.v
DecCompose.v
DecWrite.v
DecLine.v
DecBegin.v
DecData.v
DecText.v
DecLoop.v
DecPrefix.v
DecBlock.v
DecView.v
DecProcess.v
DecCall.v
DecFrame.v
DecApi.v
DecRfc.v
DecChunks.v
DecWaits.v
DecHeaders.v
DecInterface.v
Connection.v
PeerStream.v
Acknowledge.v
DecExamples.v
HeaderExamples.v
