(* ===== verification/Prelude.v ===== *)
(** * ls-qpack: a verification library for the QPACK encoder and decoder

    The library under src/ is a QPACK (RFC 9204) encoder and decoder, nearly all of
    it src/lsqpack.c.  QPACK compresses the header fields of HTTP/3: the encoder
    keeps a dynamic table of fields, tells the decoder of insertions over one stream
    (the encoder stream), writes header blocks that refer to the table, and learns
    over another stream (the decoder stream) what the decoder has received.  This
    development models the code function by function and proves that both sides do
    what RFC 9204 says and stay in step.

    ** The parts and the files

    Primitives.
    - [Prelude], this file: machine integers as [Z] with their wrap-around written
      out, byte strings, C's truth tests, [malloc] as an oracle, tactics and generic
      lemmas.  [Monad]: the partial state monad in which stateful code is written, and
      its weakest preconditions [wp]; [None] is undefined behaviour, a failed
      assertion or a loop that has run out of the rounds the model allows, so that a
      [wp] says that none of them happens.
    - [IntCodec]: lsqpack_val2len, lsqpack_enc_int, lsqpack_enc_int_nocheck,
      lsqpack_dec_int (resumable), lsqpack_dec_int24.
    - [HuffTables], [Huffman]: src/huff-tables.h, qenc_huffman_enc, qenc_enc_str_size,
      qdec_huff_dec4bits, lsqpack_huff_decode_full (resumable at either side).
      [HuffStream]: a Huffman-coded string in any number of calls.
    - [HuffPairs], [HencTable], [HdecTable], [HuffEnc], [HuffDec]: the same codec with
      the large tables hencs and hdecs (LS_QPACK_USE_LARGE_TABLES, the default).  The
      output of the encoder is that of [Huffman] ([HuffEnc.large_encoder]), which the
      rest uses.  lsqpack_huff_decode keeps to what [HuffStream] says of a call
      ([HuffDec.decode_call]), and the decoder below is built on it.
    - [StrCodec]: lsqpack_enc_enc_str.  [Xxhash]: XXH32 of src/deps/xxhash/xxhash.c.
    - [StaticTable]: the static table and its perfect-hash lookups.  [Ringbuf]: the
      ring buffer of the decoder's table, refined to a list.  [Float]: the
      single and double precision operations of the heuristics.

    The specification.
    - [Rfc9204]: the dynamic table as a list of fields with an insertion count and a
      capacity, the encoder instructions, the field line representations, their
      readers and their meaning.  Ids start at 1, as in the code.

    The encoder, [struct lsqpack_enc].
    - [History], [EncTable], [EncHinfo]: the components of the state with their own
      invariants: the history ring, the dynamic table with its double hash chains,
      the header infos with the list of streams at risk.  [EncState]: the record, and
      lsqpack_enc_init.
    - [EncPolicy], [EncEncode], [Encoder]: the operations: the indexing policy,
      lsqpack_enc_encode with qenc_dup_draining, and the rest of the interface
      (start_header, end_header, cancel_header, set_max_capacity, decoder_in, ratio).
    - [EncInv], [EncChoice], [EncAbs], [EncWire], [EncExec], [EncField], [EncOps],
      [EncPeer]: the invariant [enc_ok] and the proofs operation by operation, in the
      order they build on each other.  [EncTrace]: the interface as a transition
      system, and what holds after any run of calls.  [EncExamples]: concrete runs.

    The decoder, [struct lsqpack_dec].
    - [DecTable]: the heap of reference-counted entries, the table over it, lookups,
      insertion and eviction.  [DecState]: the record, the header block contexts, the
      hash of blocked ones, the application's interface [HsetIf].
    - [DecStream]: lsqpack_dec_enc_in, one definition per state of its state machine.
    - [DecSpec], [DecBlocked], [DecStrings], [DecReading], [DecCore],
      [DecRounds], [DecWinr], [DecWonr], [DecWonrValue], [DecEncIn]: the proof
      that every round of that machine keeps to [step_post] of [DecReading]: it goes
      on reading the same instruction, completes it and acts on it, or refuses it.
    - [DecCleanup]: lsqpack_dec_cleanup.  [DecTrace]: the encoder stream over any
      number of calls, in any chunks.  [DecExamples]: concrete runs.
    - [DecHeader], [DecParse], [DecHblock]: header blocks: the functions that hand a
      field to the application, parse_header_prefix and parse_header_data with their
      state machines, and the interface (lsqpack_dec_header_in, header_read, write_ici,
      cancel_stream, unref_stream).
    - [DecHset]: what an application promises ([HsetOk]).  [DecOut], [DecCompose],
      [DecWrite], [DecLine], [DecBegin], [DecData], [DecText], [DecLoop],
      [DecPrefix], [DecBlock], [DecView], [DecProcess], [DecCall], [DecFrame], [DecApi]:
      the proofs, from one call of the application up to the interface.  They are
      about the decoder's own reading of a header block; [DecRfc] relates it to
      [Rfc9204], [DecChunks], [DecWaits] and [DecHeaders] cover blocks in pieces and
      blocks that wait.  [DecInterface]: the decoder's interface as a transition system.

    Both sides.
    - [EncBlock]: a client of the encoder that has a whole header block encoded.
      [Connection]: its bytes at a decoder.  [PeerStream]: the decoder stream at the
      encoder.  [Acknowledge]: the way there and back.  [HeaderExamples]: an application
      and concrete header blocks.

    ** How state and operations correspond to the code

    A struct is a record with the members' names; a state number beside a union is
    an inductive type whose constructors are the state numbers and carry the union's
    members.  A pointer to an object that is shared or may dangle is an address in a
    store ([gmap]); reading through an address that is not there is undefined.  The
    intrusive lists and hash chains are lists of addresses or entries.  Output
    buffers are lists: a function gets the contents of the buffer before the call and
    returns the bytes written or, where a call can fail with bytes already stored
    (lsqpack_enc_encode, lsqpack_enc_end_header), the contents afterwards.  Members
    that nothing reads, logging and the loggers are left out.  Floating point is that of the Standard Library's
    [spec_float] at the widths of [float] and [double].

    Bounds and fuel.  Loops that are not structural get fuel, and the theorems that
    the calls return show that it suffices: a chain of entries is at most as long as
    the table; the duplication loop ends because every round lengthens the output;
    the eviction loops take at most as many rounds as there are entries; the loops over
    the encoder stream and over a header block take at most 64 rounds a byte, and that
    many only while a Huffman-coded string outgrows its space.  The capacity of the dynamic
    table is below 2^31 in the theorems about the whole encoder and decoder.

    ** What the theorems show

    - The codecs: round trips, exact bounds, independence of how the input is cut.
    - The encoder: the bytes on the encoder stream rebuild its table on the other
      side ([EncTrace.stream_in_sync]); an encoded field resolves to the field
      ([EncField.encode_refines]); no run of calls gets stuck
      ([EncTrace.calls_never_stuck]); the blocked-stream limit holds
      ([EncTrace.blocked_streams_bounded]); the handlers of the decoder stream do what
      they promise, and the stream is read exactly as RFC 9204 says
      ([PeerStream.decoder_stream_heard]).
    - The decoder: lsqpack_dec_enc_in reads exactly what RFC 9204 says from any bytes
      in any chunks ([DecTrace.enc_in_reads_stream]) and accepts every valid stream.  A
      valid header block gives the application its fields
      ([DecInterface.header_block_delivered]), if need be after the insertions it
      waits for ([DecInterface.blocked_block_completes]).  No run of calls with any
      bytes gets stuck, and lsqpack_dec_cleanup frees everything once
      ([DecInterface.decoder_calls_safe]).
    - Both: the decoder accepts whatever the encoder writes and has its table
      ([DecTrace.encoder_decoder_in_sync]), and gets the fields the encoder was asked
      to encode ([Connection.header_roundtrip]); the encoder accepts the acknowledgement
      and knows then what has been received ([Acknowledge.block_acknowledged]).

    Assumptions: a little-endian machine (XXH32, the encoder's two-byte look-ups) with
    64-bit words; allocation may fail at any call, and the theorems say where success
    is assumed.  The calling conventions of the encoder's interface are
    [EncTrace.call_ok]: in particular, what the peer sent is processed between header
    blocks.  The theorems about runs of calls need that: between
    lsqpack_enc_start_header and lsqpack_enc_end_header a Stream Cancellation can free
    the header info in use ([EncExamples.cancel_current_stream]), and a Section
    Acknowledgment, though by itself processed as it should be
    ([EncPeer.header_ack_correct]), can make the encoder lose count of the streams at
    risk ([EncExamples.ack_uncounts_stream]).

    ** Not modelled

    lsqpack_enc_cleanup only frees.  Logging and the statistics that feed it do not
    change what the library does.  The programs under src/bin, the tests and the
    headers for Windows are not part of the library's logic.

    The application's callbacks change the application's own state: that they call
    the decoder again, dhi_unblocked for instance within qdec_process_blocked_headers,
    is not modelled.  Nor are headers whose name and value were never given but for an
    index into the static table (lsxpack_header_set_qpack_idx): [EncChoice.xhdr_wf] asks
    for the name that goes with the index.  A history of 2^31 elements or more, 16
    gigabytes, counts as one that malloc refuses.  After a failed lsqpack_enc_init the record is not
    used again; the model does not keep its dangling pointers. *)

From Stdlib Require Export ZArith Lia.
From stdpp Require Export base numbers option decidable list.

#[global] Open Scope Z_scope.

(** ** Machine integers *)

Declare Scope qpack_scope.
Delimit Scope qpack_scope with qpack.

(** [uN z] is the value of the C expression [(uintN_t) z]. *)
Definition u8 (z : Z) : Z := z mod 2 ^ 8.
Definition u16 (z : Z) : Z := z mod 2 ^ 16.
Definition u32 (z : Z) : Z := z mod 2 ^ 32.
Definition u64 (z : Z) : Z := z mod 2 ^ 64.

(** [(int32_t) z], as the compilers in use define it. *)
Definition i32 (z : Z) : Z := (z + 2 ^ 31) mod 2 ^ 32 - 2 ^ 31.

(** The ranges of the unsigned types the library uses. *)
Definition is_u8 (z : Z) : Prop := 0 <= z < 2 ^ 8.
Definition is_u32 (z : Z) : Prop := 0 <= z < 2 ^ 32.
Definition is_u64 (z : Z) : Prop := 0 <= z < 2 ^ 64.

(** A buffer of [unsigned char]: one [Z] per byte. *)
Abbreviation bytes := (list Z).
Definition is_bytes (l : bytes) : Prop := Forall is_u8 l.

(** C truth value of a masked test, [(x & m) != 0]. *)
Definition has_bits (x m : Z) : bool := negb (Z.land x m =? 0).

Notation "x .& y" := (Z.land x y) (at level 40, left associativity) : qpack_scope.
Notation "x .| y" := (Z.lor x y) (at level 50, left associativity) : qpack_scope.
Notation "x .<< y" := (Z.shiftl x y) (at level 45, left associativity) : qpack_scope.
Notation "x .>> y" := (Z.shiftr x y) (at level 45, left associativity) : qpack_scope.

(** *** Allocation

    The outcomes of the successive calls of [malloc] are an oracle: [None] for a
    failure, else the arbitrary contents of the block, word by word.  When the
    list is exhausted allocation succeeds. *)
Abbreviation mem_words := (Z -> Z).
Abbreviation mallocs := (list (option mem_words)).

Definition malloc (ms : mallocs) : option mem_words * mallocs :=
  match ms with
  | [] => (Some (fun _ => 0), [])
  | m :: ms => (m, ms)
  end.

(** *** Tactics *)

(** [dlia]: [lia] extended with the Euclidean equations of [/] and [mod]. *)
Ltac dlia := Z.to_euclidean_division_equations; lia.

(** [ulia]: unfold the machine-integer wrappers and ranges, then [dlia]. *)
Ltac unfold_words :=
  unfold u8, u16, u32, u64, is_u8, is_u32, is_u64 in *;
  change (2 ^ 7) with 128 in *;
  change (2 ^ 8) with 256 in *;
  change (2 ^ 16) with 65536 in *;
  change (2 ^ 24) with 16777216 in *;
  change (2 ^ 32) with 4294967296 in *;
  change (2 ^ 62) with 4611686018427387904 in *;
  change (2 ^ 63) with 9223372036854775808 in *;
  change (2 ^ 64) with 18446744073709551616 in *.
Ltac ulia := unfold_words; dlia.

(** [zbool]: turn every boolean comparison on [Z] into the proposition it
    decides, splitting the [if]s of the goal. *)
Ltac zbool :=
  repeat match goal with
  | |- context [if ?a <? ?b then _ else _] => destruct (Z.ltb_spec a b)
  | |- context [if ?a <=? ?b then _ else _] => destruct (Z.leb_spec a b)
  | |- context [if ?a =? ?b then _ else _] => destruct (Z.eqb_spec a b)
  | |- context [if ?a >? ?b then _ else _] => rewrite (Z.gtb_ltb a b)
  | |- context [if ?a >=? ?b then _ else _] => rewrite (Z.geb_leb a b)
  end.

(** [case_if_all]: split every [if] and [match] scrutinee of the goal. *)
Ltac split_ifs :=
  repeat match goal with
  | |- context [if ?b then _ else _] =>
      match b with context [if _ then _ else _] => fail 1 | _ => destruct b eqn:? end
  end.

Create HintDb qpack.
Create HintDb words.
Create Rewrite HintDb words.
Create Rewrite HintDb bits.

(** *** Ranges *)

Lemma u8_range z : is_u8 (u8 z).
Proof. ulia. Qed.
Lemma u32_range z : is_u32 (u32 z).
Proof. ulia. Qed.
Lemma u64_range z : is_u64 (u64 z).
Proof. ulia. Qed.

Lemma u8_id z : is_u8 z -> u8 z = z.
Proof. ulia. Qed.
Lemma u16_id z : 0 <= z < 2 ^ 16 -> u16 z = z.
Proof. ulia. Qed.
Lemma u32_id z : is_u32 z -> u32 z = z.
Proof. ulia. Qed.
Lemma u64_id z : is_u64 z -> u64 z = z.
Proof. ulia. Qed.

#[export] Hint Resolve u8_range u32_range u64_range : words.
#[export] Hint Rewrite u8_id u32_id u64_id using (solve [auto with words | ulia]) : words.

#[global] Instance is_u8_dec z : Decision (is_u8 z).
Proof. unfold is_u8. apply _. Defined.
#[global] Instance is_u32_dec z : Decision (is_u32 z).
Proof. unfold is_u32. apply _. Defined.
#[global] Instance is_u64_dec z : Decision (is_u64 z).
Proof. unfold is_u64. apply _. Defined.
#[global] Instance is_bytes_dec l : Decision (is_bytes l).
Proof. unfold is_bytes. apply _. Defined.

(** *** Masks and shifts as arithmetic *)

Lemma land_ones_mod z n : 0 <= n -> Z.land z (2 ^ n - 1) = z mod 2 ^ n.
Proof. intros. rewrite <- Z.land_ones by lia. f_equal. rewrite Z.ones_equiv. lia. Qed.

(** Bits at or above the width of a bounded number are clear. *)
Lemma testbit_high z n i : 0 <= z < 2 ^ n -> n <= i -> Z.testbit z i = false.
Proof.
  intros Hz Hi. destruct (Z.eq_dec z 0) as [->|]; [apply Z.bits_0|].
  apply Z.bits_above_log2; [lia|].
  apply Z.log2_lt_pow2; [lia|].
  destruct (Z.le_gt_cases 0 n).
  - pose proof (Z.pow_le_mono_r 2 n i). lia.
  - rewrite Z.pow_neg_r in Hz by lia. lia.
Qed.

(** [lor] of numbers with disjoint bit ranges is a sum. *)
Lemma lor_disjoint a b n :
  0 <= n -> a mod 2 ^ n = 0 -> 0 <= b < 2 ^ n -> Z.lor a b = a + b.
Proof.
  intros Hn Ha Hb. rewrite <- Z.add_lor_land.
  replace (Z.land a b) with 0; [lia|].
  symmetry. apply Z.bits_inj'. intros i Hi. rewrite Z.land_spec, Z.bits_0.
  destruct (Z.lt_ge_cases i n).
  - rewrite (Z.div_mod a (2 ^ n)), Ha, Z.add_0_r by lia.
    rewrite Z.mul_comm, Z.mul_pow2_bits_low by lia. done.
  - rewrite (testbit_high b n i) by lia. apply andb_false_r.
Qed.

Lemma land_range a b n : 0 <= n -> 0 <= a < 2 ^ n -> 0 <= Z.land a b < 2 ^ n.
Proof.
  intros Hn Ha. assert (Z.land a b = Z.land a b mod 2 ^ n) as ->.
  { rewrite <- Z.land_ones, <- Z.land_assoc, (Z.land_comm b), Z.land_assoc, Z.land_ones by lia.
    by rewrite Z.mod_small by lia. }
  apply Z.mod_pos_bound. lia.
Qed.

Lemma lxor_range a b n :
  0 <= n -> 0 <= a < 2 ^ n -> 0 <= b < 2 ^ n -> 0 <= Z.lxor a b < 2 ^ n.
Proof.
  intros Hn Ha Hb. assert (Z.lxor a b = Z.lxor a b mod 2 ^ n) as ->.
  { rewrite <- Z.land_ones by lia. apply Z.bits_inj'. intros k Hk.
    rewrite Z.land_spec, Z.lxor_spec, Z.testbit_ones_nonneg by lia.
    destruct (Z.ltb_spec k n); [by rewrite andb_true_r|].
    by rewrite (testbit_high a n k), (testbit_high b n k) by lia. }
  apply Z.mod_pos_bound. lia.
Qed.

Lemma lor_range a b n : 0 <= a < 2 ^ n -> 0 <= b < 2 ^ n -> 0 <= Z.lor a b < 2 ^ n.
Proof.
  intros Ha Hb. assert (0 <= n).
  { destruct (Z.le_gt_cases 0 n); [done|]. rewrite Z.pow_neg_r in Ha by lia. lia. }
  assert (0 <= Z.lor a b) by (apply Z.lor_nonneg; lia). split; [done|].
  destruct (Z.eq_dec (Z.lor a b) 0) as [->|]; [lia|].
  apply Z.log2_lt_pow2; [lia|]. rewrite Z.log2_lor by lia.
  assert (0 < n \/ n = 0) as [|E] by lia; [|subst n; change (2 ^ 0) with 1 in *; 
    replace a with 0 in * by lia; replace b with 0 in * by lia; done].
  apply Z.max_lub_lt.
  - destruct (Z.eq_dec a 0) as [->|]; [simpl; lia|]. apply Z.log2_lt_pow2; lia.
  - destruct (Z.eq_dec b 0) as [->|]; [simpl; lia|]. apply Z.log2_lt_pow2; lia.
Qed.

(** Testing one bit. *)
Lemma land_pow2 b p : 0 <= p -> Z.land b (2 ^ p) = Z.b2z (Z.testbit b p) * 2 ^ p.
Proof.
  intros Hp. apply Z.bits_inj'. intros i Hi. rewrite Z.land_spec, Z.pow2_bits_eqb by lia.
  destruct (Z.testbit b p) eqn:E; simpl Z.b2z; rewrite ?Z.mul_1_l, ?Z.mul_0_l.
  - rewrite Z.pow2_bits_eqb by lia. destruct (Z.eqb_spec p i) as [<-|]; [by rewrite E|].
    apply andb_false_r.
  - rewrite Z.bits_0. destruct (Z.eqb_spec p i) as [<-|]; [by rewrite E|]. apply andb_false_r.
Qed.

Lemma has_bits_lor_self x b : 0 < b -> has_bits (Z.lor x b) b = true.
Proof.
  intros Hb. unfold has_bits. apply negb_true_iff, Z.eqb_neq. intros E.
  assert (Z.land (Z.lor x b) b = b) as E2.
  { apply Z.bits_inj'. intros k _. rewrite Z.land_spec, Z.lor_spec.
    destruct (Z.testbit x k), (Z.testbit b k); done. }
  lia.
Qed.

Lemma has_bits_lor x a b : has_bits x (Z.lor a b) = has_bits x a || has_bits x b.
Proof.
  unfold has_bits. rewrite Z.land_lor_distr_r.
  destruct (Z.eqb_spec (Z.land x a) 0) as [Ea|Ea], (Z.eqb_spec (Z.land x b) 0) as [Eb|Eb];
    cbn [negb orb]; [by rewrite Ea, Eb|..]; apply negb_true_iff, Z.eqb_neq; intros E;
    apply Z.lor_eq_0_iff in E as [? ?]; done.
Qed.

(** Setting a bit leaves the test of another one alone. *)
Lemma has_bits_set x a b : Z.land a b = 0 -> has_bits (Z.lor x a) b = has_bits x b.
Proof. intros H. unfold has_bits. by rewrite Z.land_lor_distr_l, H, Z.lor_0_r. Qed.

Lemma has_bits_pow2 b p : 0 <= p -> has_bits b (2 ^ p) = Z.testbit b p.
Proof.
  intros Hp. unfold has_bits. rewrite land_pow2 by done. pose proof (Z.pow_pos_nonneg 2 p).
  destruct (Z.testbit b p); simpl Z.b2z; [|done].
  rewrite Z.mul_1_l, (proj2 (Z.eqb_neq _ 0)); lia || done.
Qed.

(** The top bit of a bounded number. *)
Lemma testbit_top v n : 0 <= n -> 0 <= v < 2 ^ (n + 1) -> Z.testbit v n = (2 ^ n <=? v).
Proof.
  intros Hn Hv. rewrite Z.pow_add_r in Hv by lia. change (2 ^ 1) with 2 in Hv.
  pose proof (Z.pow_pos_nonneg 2 n).
  rewrite Z.testbit_eqb by lia. destruct (Z.leb_spec (2 ^ n) v).
  - assert (v / 2 ^ n = 1) as -> by (symmetry; apply Z.div_unique with (v - 2 ^ n); lia). done.
  - rewrite Z.div_small by lia. done.
Qed.

(** ** Bit strings, most significant bit first *)

(** [z_bits n z]: the [n] low bits of [z]. *)
Fixpoint z_bits (n : nat) (z : Z) : list bool :=
  match n with
  | O => []
  | S n' => Z.testbit z (Z.of_nat n') :: z_bits n' z
  end.

(** The number a bit string writes in binary. *)
Definition bits_z (l : list bool) : Z :=
  fold_left (fun acc b => 2 * acc + Z.b2z b) l 0.

(** The bits of a byte string. *)
Definition bytes_bits (l : bytes) : list bool := l ≫= z_bits 8.

Lemma length_z_bits n z : length (z_bits n z) = n.
Proof. induction n; simpl; congruence. Qed.

Lemma z_bits_ext n a b :
  (forall i, 0 <= i < Z.of_nat n -> Z.testbit a i = Z.testbit b i) -> z_bits n a = z_bits n b.
Proof.
  induction n as [|n IH]; intros H; [done|]. simpl. f_equal.
  - apply H. lia.
  - apply IH. intros i Hi. apply H. lia.
Qed.

Lemma z_bits_mod n a : z_bits n (a mod 2 ^ Z.of_nat n) = z_bits n a.
Proof. apply z_bits_ext. intros. apply Z.mod_pow2_bits_low. lia. Qed.

Lemma z_bits_u64 n a : (n <= 64)%nat -> z_bits n (u64 a) = z_bits n a.
Proof. intros. apply z_bits_ext. intros. unfold u64. apply Z.mod_pow2_bits_low. lia. Qed.

Lemma z_bits_u8 a : z_bits 8 (u8 a) = z_bits 8 a.
Proof. apply (z_bits_mod 8). Qed.

(** The high part of a bit string is a right shift. *)
Lemma z_bits_app n m a :
  z_bits (n + m) a = z_bits n (a ≫ Z.of_nat m) ++ z_bits m a.
Proof.
  induction n as [|n IH]; [done|]. simpl. rewrite <- IH. f_equal.
  rewrite Z.shiftr_spec by lia. f_equal. lia.
Qed.

(** Appending [m] bits below a shifted number. *)
Lemma z_bits_lor_shiftl n m a c :
  0 <= c < 2 ^ Z.of_nat m ->
  z_bits (n + m) (Z.lor (a ≪ Z.of_nat m) c) = z_bits n a ++ z_bits m c.
Proof.
  intros Hc. rewrite z_bits_app. f_equal; apply z_bits_ext; intros i Hi.
  - rewrite Z.shiftr_spec, Z.lor_spec, Z.shiftl_spec by lia.
    rewrite (testbit_high c (Z.of_nat m)) by lia.
    rewrite orb_false_r. f_equal. lia.
  - rewrite Z.lor_spec, Z.shiftl_spec_low by lia. done.
Qed.

Lemma fold_bits_app acc l :
  fold_left (fun acc b => 2 * acc + Z.b2z b) l acc = acc * 2 ^ Z.of_nat (length l) + bits_z l.
Proof.
  unfold bits_z. revert acc. induction l as [|b l IH]; intros acc; cbn [fold_left length]; [lia|].
  rewrite IH, (IH (2 * 0 + Z.b2z b)).
  replace (Z.of_nat (S (length l))) with (Z.of_nat (length l) + 1) by lia.
  rewrite Z.pow_add_r by lia. lia.
Qed.

Lemma bits_z_cons b l : bits_z (b :: l) = Z.b2z b * 2 ^ Z.of_nat (length l) + bits_z l.
Proof. unfold bits_z at 1. cbn [fold_left]. rewrite fold_bits_app. lia. Qed.

Lemma bits_z_app l l' : bits_z (l ++ l') = bits_z l * 2 ^ Z.of_nat (length l') + bits_z l'.
Proof. unfold bits_z at 1. rewrite fold_left_app. apply fold_bits_app. Qed.

Lemma bits_z_range l : 0 <= bits_z l < 2 ^ Z.of_nat (length l).
Proof.
  induction l as [|b l IH]; [done|]. rewrite bits_z_cons. simpl length.
  replace (Z.of_nat (S (length l))) with (Z.of_nat (length l) + 1) by lia.
  rewrite Z.pow_add_r by lia. destruct b; simpl; lia.
Qed.

(** Reading back a bit string. *)
Lemma bits_z_z_bits n z : bits_z (z_bits n z) = z mod 2 ^ Z.of_nat n.
Proof.
  induction n as [|n IH]; simpl z_bits; [rewrite Z.mod_1_r; done|].
  rewrite bits_z_cons, IH, length_z_bits.
  replace (Z.of_nat (S n)) with (Z.of_nat n + 1) by lia.
  rewrite Z.pow_add_r, Z.testbit_spec' by lia. change (2 ^ 1) with 2.
  rewrite (Z.rem_mul_r z (2 ^ Z.of_nat n) 2) by lia. lia.
Qed.

Lemma z_bits_inj n a b :
  0 <= a < 2 ^ Z.of_nat n -> 0 <= b < 2 ^ Z.of_nat n -> z_bits n a = z_bits n b -> a = b.
Proof.
  intros Ha Hb H. apply (f_equal bits_z) in H. rewrite !bits_z_z_bits in H.
  by rewrite !Z.mod_small in H by lia.
Qed.

Lemma bytes_bits_cons b l : bytes_bits (b :: l) = z_bits 8 b ++ bytes_bits l.
Proof. done. Qed.

Lemma bytes_bits_app l l' : bytes_bits (l ++ l') = bytes_bits l ++ bytes_bits l'.
Proof. apply bind_app. Qed.

Lemma length_bytes_bits l : length (bytes_bits l) = (8 * length l)%nat.
Proof.
  induction l as [|b l IH]; [done|].
  rewrite bytes_bits_cons, length_app, length_z_bits, IH. simpl length. lia.
Qed.

Lemma is_bytes_take n (l : bytes) : is_bytes l -> is_bytes (take n l).
Proof. apply Forall_take. Qed.

Lemma is_bytes_drop n (l : bytes) : is_bytes l -> is_bytes (drop n l).
Proof. apply Forall_drop. Qed.

Lemma is_bytes_app (l1 l2 : bytes) : is_bytes l1 -> is_bytes l2 -> is_bytes (l1 ++ l2).
Proof. intros. by apply Forall_app. Qed.

Lemma bytes_bits_inj l l' :
  is_bytes l -> is_bytes l' -> bytes_bits l = bytes_bits l' -> l = l'.
Proof.
  revert l'. induction l as [|b l IH]; intros [|b' l'] Hl Hl' H; try done.
  rewrite !bytes_bits_cons in H. apply Forall_cons_1 in Hl as [??]; apply Forall_cons_1 in Hl' as [??].
  apply app_inj_1 in H as [Hb Hr]; [|by rewrite !length_z_bits].
  f_equal; [by apply (z_bits_inj 8)|by apply IH].
Qed.
