(* ===== verification/IntCodec.v ===== *)
(** * Prefixed integers (RFC 7541, Section 5.1)

    The integer codec every other part of the library is written with:
    [lsqpack_val2len], [lsqpack_enc_int], [lsqpack_enc_int_nocheck],
    [lsqpack_dec_int] and [lsqpack_dec_int24] of src/lsqpack.c.

    Both C routines assume that one byte of the buffer is available; the
    models take that byte as an argument of its own, so the assumption is
    part of the type.  A buffer is the list of its bytes from the current
    pointer up to its end. *)

From S2P Require Import Prelude.

(** "It takes 11 bytes to encode UINT64_MAX as HPACK integer" *)
Definition LSQPACK_UINT64_ENC_SZ : Z := 11.

(** ** Encoding *)

Definition lsqpack_val2len (value prefix_bits : Z) : Z :=
  let mask := u64 (Z.shiftl 1 prefix_bits - 1) in
  1
  + Z.b2z (mask <=? value)
  + Z.b2z (u64 (Z.shiftl 1 7 + mask) <=? value)
  + Z.b2z (u64 (Z.shiftl 1 14 + mask) <=? value)
  + Z.b2z (u64 (Z.shiftl 1 21 + mask) <=? value)
  + Z.b2z (u64 (Z.shiftl 1 28 + mask) <=? value)
  + Z.b2z (u64 (Z.shiftl 1 35 + mask) <=? value)
  + Z.b2z (u64 (Z.shiftl 1 42 + mask) <=? value)
  + Z.b2z (u64 (Z.shiftl 1 49 + mask) <=? value)
  + Z.b2z (u64 (Z.shiftl 1 56 + mask) <=? value)
  + Z.b2z (u64 (Z.shiftl 1 63 + mask) <=? value).

(** The [while (value >= 128)] loop and the final store, over the room left
    in the buffer.  The result is the new content of that room and the number
    of bytes written, [None] when the room ran out ([return dst_orig]). *)
Fixpoint enc_int_tail (value : Z) (room : bytes) : bytes * option nat :=
  match room with
  | [] => ([], None)
  | _ :: room' =>
      if 128 <=? value then
        let '(r, n) := enc_int_tail (Z.shiftr value 7) room' in
        (Z.lor 0x80 (u8 value) :: r, S <$> n)
      else (u8 value :: room', Some 1%nat)
  end.

(** [dst0] is [*dst] on entry, [room] the bytes from [dst + 1] to [end].
    The result is the buffer after the call and [dst - dst_orig]: zero is the
    C function's [return dst_orig]. *)
Definition lsqpack_enc_int (dst0 : Z) (room : bytes) (value prefix_bits : Z)
  : bytes * nat :=
  if value <? u64 (Z.shiftl 1 prefix_bits) - 1 then
    (u8 (Z.lor dst0 value) :: room, 1%nat)
  else
    let dst0' := u8 (Z.lor dst0 (Z.shiftl 1 prefix_bits - 1)) in
    let value' := u64 (value - (Z.shiftl 1 prefix_bits - 1)) in
    let '(r, n) := enc_int_tail value' room in
    (dst0' :: r, match n with Some n => S n | None => O end).

(** Ten rounds are enough for any 64-bit value: nine shifts by seven leave at
    most one bit. *)
Fixpoint enc_int_nocheck_tail (fuel : nat) (value : Z) : bytes :=
  match fuel with
  | O => []
  | S fuel' =>
      if 128 <=? value then
        Z.lor 0x80 (u8 value) :: enc_int_nocheck_tail fuel' (Z.shiftr value 7)
      else [u8 value]
  end.

(** The bytes [lsqpack_enc_int_nocheck] stores at [dst]. *)
Definition lsqpack_enc_int_nocheck (dst0 value prefix_bits : Z) : bytes :=
  if value <? u64 (Z.shiftl 1 prefix_bits) - 1 then [u8 (Z.lor dst0 value)]
  else
    u8 (Z.lor dst0 (Z.shiftl 1 prefix_bits - 1))
    :: enc_int_nocheck_tail 10 (u64 (value - (Z.shiftl 1 prefix_bits - 1))).

(** ** Decoding *)

(** [struct lsqpack_dec_int_state] *)
Record dec_int_state := {
  dis_resume : bool;
  dis_M : Z;
  dis_nread : Z;
  dis_val : Z;
}.

(** A state whose [resume] is zero; the other members are not read then. *)
Definition dec_int_fresh : dec_int_state :=
  {| dis_resume := false; dis_M := 0; dis_nread := 0; dis_val := 0 |}.

(** Return value 0 with [*value_p] and the advanced [*src_p], return value -1
    with the updated state, return value -2. *)
Inductive dec_int_result :=
  | DecIntOk (value : Z) (rest : bytes)
  | DecIntMore (state : dec_int_state)
  | DecIntOverflow.

(** The [do ... while] loop.  [consumed] is [src - orig_src]. *)
Fixpoint dec_int_loop (state : dec_int_state) (consumed val M : Z) (src : bytes)
  : dec_int_result :=
  match src with
  | [] =>
      let nread := u32 ((if dis_resume state then dis_nread state else 0) + consumed) in
      if nread <? LSQPACK_UINT64_ENC_SZ then
        DecIntMore {| dis_resume := true; dis_M := M; dis_nread := nread; dis_val := val |}
      else DecIntOverflow
  | B :: src' =>
      let val' := u64 (val + u64 (Z.shiftl (Z.land B 0x7f) M)) in
      let M' := M + 7 in
      if has_bits B 0x80 && (M' <? 64) then
        dec_int_loop state (consumed + 1) val' M' src'
      else if (M' <=? 63)
              || ((M' =? 70) && (B <=? 1) && has_bits val' (Z.shiftl 1 63)) then
        DecIntOk val' src'
      else DecIntOverflow
  end.

(** [b0] is the byte at [*src_p], [src] the bytes after it. *)
Definition lsqpack_dec_int (b0 : Z) (src : bytes) (prefix_bits : Z)
    (state : dec_int_state) : dec_int_result :=
  if dis_resume state then
    dec_int_loop state 0 (dis_val state) (dis_M state) (b0 :: src)
  else
    let prefix_max := u8 (Z.shiftl 1 prefix_bits - 1) in
    let val := Z.land b0 prefix_max in
    if val <? prefix_max then DecIntOk val src
    else dec_int_loop state 1 val 0 src.

Definition lsqpack_dec_int24 (b0 : Z) (src : bytes) (prefix_bits : Z)
    (state : dec_int_state) : dec_int_result :=
  match lsqpack_dec_int b0 src prefix_bits state with
  | DecIntOk val rest =>
      if val <? Z.shiftl 1 24 then DecIntOk val rest else DecIntOverflow
  | r => r
  end.

(** ** The format *)

(** The value of a continuation sequence, and its shape: every byte but the
    last has its top bit set. *)
Fixpoint tail_value (l : bytes) : Z :=
  match l with
  | [] => 0
  | b :: l' => b mod 128 + 128 * tail_value l'
  end.

Fixpoint tail_wf (l : bytes) : bool :=
  match l with
  | [] => false
  | [b] => b <? 128
  | b :: l' => (128 <=? b) && tail_wf l'
  end.

(** [int_denotes p l v]: [l] is an encoding of [v] with a [p]-bit prefix. *)
Definition int_denotes (p : Z) (l : bytes) (v : Z) : Prop :=
  match l with
  | [] => False
  | b0 :: t =>
      (t = [] /\ v = b0 mod 2 ^ p /\ v < 2 ^ p - 1)
      \/ (b0 mod 2 ^ p = 2 ^ p - 1 /\ tail_wf t = true /\ v = 2 ^ p - 1 + tail_value t)
  end.

(** The states [lsqpack_dec_int] itself stores. *)
Definition dec_int_wf (st : dec_int_state) : Prop :=
  dis_resume st = true ->
  1 <= dis_nread st <= 10 /\ dis_M st = 7 * (dis_nread st - 1)
  /\ 0 <= dis_val st < 255 + 2 ^ dis_M st.

(** ** Lemmas on one byte *)

Lemma has_bits_128 b : is_u8 b -> has_bits b 0x80 = (128 <=? b).
Proof.
  intros Hb. change 0x80 with (2 ^ 7).
  rewrite has_bits_pow2, testbit_top by (done || lia). done.
Qed.

Lemma land_7f b : Z.land b 0x7f = b mod 128.
Proof. apply (land_ones_mod b 7). lia. Qed.

Lemma lor_80 v : Z.lor 0x80 (u8 v) = 128 + v mod 128.
Proof.
  replace (u8 v) with (Z.lor (u8 v - v mod 128) (v mod 128)).
  - rewrite Z.lor_assoc. replace (Z.lor 128 (u8 v - v mod 128)) with 128.
    + apply (lor_disjoint _ _ 7); [lia|done|ulia].
    + assert (u8 v - v mod 128 = 0 \/ u8 v - v mod 128 = 128) as [-> | ->] by ulia; done.
  - rewrite (lor_disjoint _ _ 7); [lia|lia|ulia|ulia].
Qed.

Lemma has_bits_63 v : is_u64 v -> has_bits v (Z.shiftl 1 63) = (2 ^ 63 <=? v).
Proof.
  intros Hv. change (Z.shiftl 1 63) with (2 ^ 63).
  rewrite has_bits_pow2, testbit_top by (done || lia). done.
Qed.

(** ** Encoding: length and bounds *)

Lemma pow128_S (f : nat) : 128 ^ Z.of_nat (S f) = 128 * 128 ^ Z.of_nat f.
Proof. rewrite Nat2Z.inj_succ, Z.pow_succ_r by lia. done. Qed.

Lemma shiftr_7 v : Z.shiftr v 7 = v / 128.
Proof. apply (Z.shiftr_div_pow2 v 7). lia. Qed.

(** The number of thresholds [128^1 .. 128^f] that [v] reaches. *)
Fixpoint count_ge (f : nat) (v : Z) : Z :=
  match f with
  | O => 0
  | S f' => Z.b2z (128 ^ Z.of_nat f <=? v) + count_ge f' v
  end.

Lemma count_ge_small f v : v < 128 -> count_ge f v = 0.
Proof.
  intros Hv. induction f as [|f IH]; [done|]. cbn [count_ge]. rewrite IH.
  destruct (Z.leb_spec (128 ^ Z.of_nat (S f)) v) as [Hle|]; [|done].
  rewrite pow128_S in Hle. pose proof (Z.pow_pos_nonneg 128 (Z.of_nat f)). lia.
Qed.

Lemma count_ge_step f v : 128 <= v -> count_ge (S f) v = 1 + count_ge f (v / 128).
Proof.
  intros Hv. induction f as [|f IH].
  - change (count_ge 1 v) with (Z.b2z (128 <=? v) + 0).
    rewrite (proj2 (Z.leb_le 128 v)) by lia. done.
  - change (count_ge (S (S f)) v)
      with (Z.b2z (128 ^ Z.of_nat (S (S f)) <=? v) + count_ge (S f) v).
    rewrite IH. cbn [count_ge]. rewrite (pow128_S (S f)).
    generalize (128 ^ Z.of_nat (S f)). intros x.
    destruct (Z.leb_spec (128 * x) v), (Z.leb_spec x (v / 128)); simpl; dlia.
Qed.

Lemma nocheck_tail_S f v :
  enc_int_nocheck_tail (S f) v =
  if 128 <=? v then Z.lor 0x80 (u8 v) :: enc_int_nocheck_tail f (Z.shiftr v 7) else [u8 v].
Proof. done. Qed.

Lemma length_nocheck_tail f v :
  0 <= v -> Z.of_nat (length (enc_int_nocheck_tail (S f) v)) = 1 + count_ge f v.
Proof.
  revert v. induction f as [|f IH]; intros v Hv.
  - cbn. destruct (128 <=? v); done.
  - rewrite nocheck_tail_S. destruct (Z.leb_spec 128 v).
    + rewrite count_ge_step by done. cbn [length]. rewrite Nat2Z.inj_succ, shiftr_7.
      rewrite (IH (v / 128)) by dlia. lia.
    + rewrite count_ge_small by lia. done.
Qed.

Lemma shiftl_1 n : 0 <= n -> Z.shiftl 1 n = 2 ^ n.
Proof. intros. rewrite Z.shiftl_mul_pow2 by lia. lia. Qed.

(** The prefixes the library uses. *)
Lemma prefix_range p : 1 <= p <= 8 -> 2 <= 2 ^ p <= 256.
Proof.
  intros Hp. change 2 with (2 ^ 1) at 1. change 256 with (2 ^ 8).
  split; apply Z.pow_le_mono_r; lia.
Qed.

Lemma count_ge_9 v : count_ge 9 v =
  Z.b2z (128 <=? v) + Z.b2z (128^2 <=? v) + Z.b2z (128^3 <=? v) + Z.b2z (128^4 <=? v)
  + Z.b2z (128^5 <=? v) + Z.b2z (128^6 <=? v) + Z.b2z (128^7 <=? v)
  + Z.b2z (128^8 <=? v) + Z.b2z (128^9 <=? v).
Proof.
  cbn [count_ge].
  repeat match goal with |- context [Z.of_nat ?n] =>
    let k := eval vm_compute in (Z.of_nat n) in change (Z.of_nat n) with k end.
  change (128 ^ 1) with 128. ring.
Qed.

Lemma b2z_leb_shift x k v : Z.b2z (x + k <=? v) = Z.b2z (x <=? v - k).
Proof. f_equal. destruct (Z.leb_spec (x + k) v), (Z.leb_spec x (v - k)); lia. Qed.

(** [lsqpack_val2len] is the length of the encoding. *)
Lemma length_nocheck dst0 v p :
  is_u64 v -> 1 <= p <= 8 ->
  Z.of_nat (length (lsqpack_enc_int_nocheck dst0 v p)) = lsqpack_val2len v p.
Proof.
  intros Hv Hp. pose proof (prefix_range p Hp) as Hm.
  unfold lsqpack_enc_int_nocheck, lsqpack_val2len. rewrite !(shiftl_1 p) by lia.
  rewrite (u64_id (2 ^ p)), (u64_id (2 ^ p - 1)) by (unfold_words; lia).
  set (m := 2 ^ p - 1) in *. assert (Hm' : 1 <= m <= 255) by lia.
  rewrite !shiftl_1 by lia.
  rewrite !(u64_id (_ + m)) by (unfold_words; simpl; lia).
  destruct (Z.ltb_spec v m).
  - cbn [length]. rewrite !(proj2 (Z.leb_gt _ _)) by (simpl; lia). done.
  - cbn [length]. rewrite Nat2Z.inj_succ, u64_id by ulia.
    rewrite length_nocheck_tail, count_ge_9 by lia.
    rewrite !b2z_leb_shift, (proj2 (Z.leb_le m v)) by lia.
    cbn [Z.b2z]. change (2 ^ 7) with 128. change (128 ^ 2) with (2 ^ 14).
    change (128 ^ 3) with (2 ^ 21). change (128 ^ 4) with (2 ^ 28).
    change (128 ^ 5) with (2 ^ 35). change (128 ^ 6) with (2 ^ 42).
    change (128 ^ 7) with (2 ^ 49). change (128 ^ 8) with (2 ^ 56).
    change (128 ^ 9) with (2 ^ 63). lia.
Qed.

Lemma nocheck_tail_nonempty f v : (0 < f)%nat -> enc_int_nocheck_tail f v <> [].
Proof. destruct f; [lia|]. simpl. by destruct (128 <=? v). Qed.

(** The bounded loop stores the same bytes as the unbounded one when they fit,
    and stops at the end of the room otherwise. *)
Lemma enc_int_tail_spec f v room :
  0 <= v < 128 ^ Z.of_nat f -> (0 < f)%nat ->
  let t := enc_int_nocheck_tail f v in
  let '(r, n) := enc_int_tail v room in
  length r = length room
  /\ if decide (length t <= length room)%nat
     then n = Some (length t) /\ r = t ++ drop (length t) room
     else n = None.
Proof.
  revert f v. induction room as [|b room IH]; intros f v Hv Hf; cbn zeta.
  - pose proof (nocheck_tail_nonempty f v Hf) as Hne. cbn [enc_int_tail].
    split; [done|]. case_decide as Hd; [|done].
    destruct (enc_int_nocheck_tail f v); [done|]. simpl in Hd. lia.
  - destruct f as [|f]; [lia|]. rewrite nocheck_tail_S. cbn [enc_int_tail].
    destruct (Z.leb_spec 128 v) as [Hge|Hlt].
    + assert (Hf' : (0 < f)%nat).
      { destruct f; [|lia]. change (128 ^ Z.of_nat 1) with 128 in Hv. lia. }
      assert (Hv' : 0 <= Z.shiftr v 7 < 128 ^ Z.of_nat f).
      { rewrite shiftr_7. rewrite pow128_S in Hv. dlia. }
      specialize (IH f _ Hv' Hf'). cbn zeta in IH.
      destruct (enc_int_tail (Z.shiftr v 7) room) as [r n].
      destruct IH as [Hlen IH]. simpl. split; [lia|].
      case_decide; case_decide; try lia; [|by subst n].
      destruct IH as [-> ->]. simpl. done.
    + cbn [length]. split; [done|]. rewrite decide_True by lia. done.
Qed.

Lemma tail_fuel_enough v : is_u64 v -> 0 <= v < 128 ^ Z.of_nat 10.
Proof. intros Hv. change (128 ^ Z.of_nat 10) with (2 ^ 70). ulia. Qed.

(** The checked encoder against the unchecked one. *)
Lemma enc_int_spec dst0 room v p :
  is_u64 v -> 1 <= p <= 8 ->
  let bs := lsqpack_enc_int_nocheck dst0 v p in
  let '(buf, n) := lsqpack_enc_int dst0 room v p in
  length buf = S (length room)
  /\ if decide (length bs <= S (length room))%nat
     then n = length bs /\ buf = bs ++ drop (length bs) (dst0 :: room)
     else n = 0%nat.
Proof.
  intros Hv Hp. pose proof (prefix_range p Hp) as Hm.
  unfold lsqpack_enc_int_nocheck, lsqpack_enc_int. rewrite !(shiftl_1 p) by lia.
  rewrite (u64_id (2 ^ p)) by (unfold_words; lia).
  destruct (Z.ltb_spec v (2 ^ p - 1)); cbn zeta.
  - cbn [length]. split; [done|]. rewrite decide_True by lia. done.
  - rewrite (u64_id (v - _)) by ulia.
    pose proof (enc_int_tail_spec 10 (v - (2 ^ p - 1)) room) as Ht.
    cbn zeta in Ht. destruct (enc_int_tail _ room) as [r n].
    destruct Ht as [Hr Ht]; [apply tail_fuel_enough; ulia|lia|].
    cbn [length]. split; [lia|].
    case_decide; case_decide; try lia; [|by subst n].
    destruct Ht as [-> ->]. done.
Qed.

(** ** Decoding one continuation byte *)

Lemma pow2_add7 M : 0 <= M -> 2 ^ (M + 7) = 128 * 2 ^ M.
Proof. intros. rewrite Z.pow_add_r by lia. change (2 ^ 7) with 128. lia. Qed.

Lemma dec_step_val val M B :
  0 <= M -> 0 <= val -> val + (B mod 128) * 2 ^ M < 2 ^ 64 ->
  u64 (val + u64 (Z.shiftl (Z.land B 0x7f) M)) = val + (B mod 128) * 2 ^ M.
Proof.
  intros HM Hval Hlt. rewrite land_7f, Z.shiftl_mul_pow2 by lia.
  pose proof (Z.pow_pos_nonneg 2 M).
  assert (0 <= (B mod 128) * 2 ^ M) by (apply Z.mul_nonneg_nonneg; dlia).
  rewrite (u64_id (_ * _)), u64_id by (unfold is_u64; lia). done.
Qed.

(** The decoder inverts the continuation bytes of the encoder.  [k] bytes have
    been read before, so the next byte is shifted by [7 * k]. *)
Lemma dec_loop_tail f v st c val k rest :
  0 <= v < 128 ^ Z.of_nat f -> (0 < f)%nat -> 0 <= val ->
  0 <= k <= 9 -> val + v * 2 ^ (7 * k) < 2 ^ 64 -> (k = 9 -> 1 <= v) ->
  dec_int_loop st c val (7 * k) (enc_int_nocheck_tail f v ++ rest)
  = DecIntOk (val + v * 2 ^ (7 * k)) rest.
Proof.
  revert v c val k. induction f as [|f IH]; intros v c val k Hv Hf Hval Hk Hlt Hc; [lia|].
  rewrite nocheck_tail_S. pose proof (Z.pow_pos_nonneg 2 (7 * k)) as Hpos.
  destruct (Z.leb_spec 128 v) as [Hge|Hsmall].
  - assert (k < 9).
    { destruct (Z.eq_dec k 9) as [->|]; [|lia]. change (2 ^ (7 * 9)) with (2 ^ 63) in *. ulia. }
    assert ((v mod 128) * 2 ^ (7 * k) <= v * 2 ^ (7 * k))
      by (apply Z.mul_le_mono_nonneg_r; dlia).
    simpl app. cbn [dec_int_loop]. rewrite lor_80.
    rewrite has_bits_128 by ulia. rewrite (proj2 (Z.leb_le 128 _)) by dlia.
    rewrite (proj2 (Z.ltb_lt _ 64)) by lia. simpl andb.
    replace ((128 + v mod 128) mod 128) with (v mod 128) by dlia.
    rewrite dec_step_val; replace ((128 + v mod 128) mod 128) with (v mod 128) by dlia;
      [|lia|lia|lia].
    replace (7 * k + 7) with (7 * (k + 1)) by lia.
    assert (Hp : 2 ^ (7 * (k + 1)) = 128 * 2 ^ (7 * k)).
    { replace (7 * (k + 1)) with (7 * k + 7) by lia. apply pow2_add7. lia. }
    assert (Hsplit : v mod 128 * 2 ^ (7 * k) + v / 128 * (128 * 2 ^ (7 * k)) = v * 2 ^ (7 * k)).
    { generalize (2 ^ (7 * k)). intros x. rewrite (Z.div_mod v 128) at 3 by lia. ring. }
    rewrite shiftr_7, IH.
    + rewrite Hp. f_equal. lia.
    + rewrite pow128_S in Hv. dlia.
    + destruct f; [|lia]. change (128 ^ Z.of_nat 1) with 128 in Hv. lia.
    + assert (0 <= v mod 128 * 2 ^ (7 * k)) by (apply Z.mul_nonneg_nonneg; dlia). lia.
    + lia.
    + rewrite Hp. lia.
    + intros. dlia.
  - simpl app. cbn [dec_int_loop].
    replace (u8 v) with v by ulia. replace (v mod 128) with v by dlia.
    rewrite has_bits_128 by ulia. rewrite (proj2 (Z.leb_gt 128 v)) by lia. simpl andb.
    rewrite dec_step_val; replace (v mod 128) with v by dlia; [|lia|lia|lia].
    destruct (Z.leb_spec (7 * k + 7) 63); [done|]. simpl orb.
    assert (k = 9) as -> by lia. change (2 ^ (7 * 9)) with (2 ^ 63) in *.
    assert (v = 1) as -> by ulia.
    rewrite has_bits_63 by ulia.
    rewrite (proj2 (Z.leb_le (2 ^ 63) _)) by lia. done.
Qed.

(** The first byte: flag bits above the prefix, the value below. *)
Lemma first_byte_land dst0 x p :
  1 <= p <= 8 -> is_u8 dst0 -> dst0 mod 2 ^ p = 0 -> 0 <= x < 2 ^ p ->
  Z.land (u8 (Z.lor dst0 x)) (2 ^ p - 1) = x /\ u8 (Z.lor dst0 x) = dst0 + x.
Proof.
  intros Hp Hd Hz Hx. pose proof (prefix_range p Hp).
  rewrite (lor_disjoint dst0 x p) by lia.
  assert (dst0 + x < 256).
  { unfold is_u8 in Hd. change (2 ^ 8) with 256 in Hd.
    assert (He : 256 = 2 ^ p * 2 ^ (8 - p))
      by (rewrite <- Z.pow_add_r by lia; by replace (p + (8 - p)) with 8 by lia).
    pose proof (Z.pow_pos_nonneg 2 (8 - p)).
    assert (dst0 = 2 ^ p * (dst0 / 2 ^ p)) by (pose proof (Z.div_mod dst0 (2 ^ p)); lia).
    assert (dst0 / 2 ^ p < 2 ^ (8 - p)) by (apply Z.div_lt_upper_bound; lia). nia. }
  rewrite u8_id by (unfold_words; lia). split; [|done].
  rewrite land_ones_mod by lia. rewrite Z.add_mod, Hz, Z.add_0_l, Z.mod_mod by lia.
  apply Z.mod_small. lia.
Qed.

Lemma dec_enc_nocheck dst0 v p rest :
  1 <= p <= 8 -> is_u8 dst0 -> dst0 mod 2 ^ p = 0 -> is_u64 v ->
  match lsqpack_enc_int_nocheck dst0 v p ++ rest with
  | b0 :: src => lsqpack_dec_int b0 src p dec_int_fresh = DecIntOk v rest
  | [] => False
  end.
Proof.
  intros Hp Hd Hz Hv. pose proof (prefix_range p Hp) as Hm.
  unfold lsqpack_enc_int_nocheck, lsqpack_dec_int. cbn [dis_resume dec_int_fresh].
  rewrite !(shiftl_1 p) by lia.
  rewrite (u64_id (2 ^ p)), (u8_id (2 ^ p - 1)) by (unfold_words; lia).
  destruct (Z.ltb_spec v (2 ^ p - 1)) as [Hlt|Hge]; rewrite <- ?app_comm_cons; cbn iota.
  - destruct (first_byte_land dst0 v p) as [-> _]; [lia|done|done|unfold_words; lia|].
    rewrite (proj2 (Z.ltb_lt _ _)) by lia. done.
  - destruct (first_byte_land dst0 (2 ^ p - 1) p) as [-> _]; [lia|done|done|lia|].
    rewrite Z.ltb_irrefl. rewrite (u64_id (v - _)) by (unfold_words; lia).
    rewrite (dec_loop_tail 10 _ _ _ _ 0); change (2 ^ (7 * 0)) with 1.
    + f_equal. lia.
    + apply tail_fuel_enough. unfold_words. lia.
    + lia.
    + lia.
    + lia.
    + unfold_words. lia.
    + lia.
Qed.

(** ** Decoding arbitrary input *)

Lemma val_bound_step val k B :
  0 <= k <= 8 -> 0 <= val < 255 + 2 ^ (7 * k) ->
  0 <= val + (B mod 128) * 2 ^ (7 * k) < 255 + 2 ^ (7 * (k + 1))
  /\ val + (B mod 128) * 2 ^ (7 * k) < 2 ^ 64.
Proof.
  intros Hk Hval. replace (7 * (k + 1)) with (7 * k + 7) by lia.
  rewrite pow2_add7 by lia. pose proof (Z.pow_pos_nonneg 2 (7 * k)).
  assert (Hle : 2 ^ (7 * k) <= 2 ^ 56) by (apply Z.pow_le_mono_r; lia).
  pose proof (Z.mod_pos_bound B 128). change (2 ^ 56) with 72057594037927936 in Hle.
  change (2 ^ 64) with 18446744073709551616. nia.
Qed.

Lemma tail_wf_cons b l :
  tail_wf (b :: l) = match l with [] => b <? 128 | _ => (128 <=? b) && tail_wf l end.
Proof. done. Qed.

(** Whatever the decoder accepts is the exact value of the bytes it consumed:
    no wrap-around survives the final check. *)
Lemma dec_loop_sound src st c val k v rest :
  is_bytes src -> 0 <= k <= 9 -> 0 <= val < 255 + 2 ^ (7 * k) ->
  dec_int_loop st c val (7 * k) src = DecIntOk v rest ->
  exists used, src = used ++ rest /\ tail_wf used = true /\ (length used <= 10 - Z.to_nat k)%nat
    /\ v = val + 2 ^ (7 * k) * tail_value used /\ is_u64 v.
Proof.
  revert c val k. induction src as [|B src IH]; intros c val k Hsrc Hk Hval Hdec;
    cbn [dec_int_loop] in Hdec; [by case_match|].
  apply Forall_cons_1 in Hsrc as [HB Hsrc]. pose proof (Z.mod_pos_bound B 128).
  destruct (Z.eq_dec k 9) as [->|Hk9].
  - change (7 * 9 + 7) with 70 in Hdec. change (70 <? 64) with false in Hdec.
    change (70 <=? 63) with false in Hdec. change (70 =? 70) with true in Hdec.
    change (7 * 9) with 63 in *. rewrite andb_false_r in Hdec. simpl orb in Hdec.
    destruct (Z.leb_spec B 1) as [HB1|]; [|done]. simpl andb in Hdec.
    rewrite land_7f, Z.shiftl_mul_pow2 in Hdec by lia.
    rewrite has_bits_63 in Hdec by auto with words.
    destruct (Z.leb_spec (2 ^ 63) (u64 (val + u64 (B mod 128 * 2 ^ 63)))); [|done].
    injection Hdec as <- <-. exists [B].
    assert (B = 0 \/ B = 1) as [-> | ->] by ulia; simpl; repeat split; simpl; ulia.
  - destruct (val_bound_step val k B ltac:(lia) Hval) as [Hval' Hlt].
    rewrite dec_step_val in Hdec by (lia || exact Hlt).
    rewrite has_bits_128 in Hdec by done.
    destruct (Z.leb_spec 128 B) as [Hcont|Hlast]; simpl andb in Hdec.
    + rewrite (proj2 (Z.ltb_lt (7 * k + 7) 64)) in Hdec by lia.
      replace (7 * k + 7) with (7 * (k + 1)) in Hdec by lia.
      destruct (IH (c + 1) _ (k + 1) Hsrc ltac:(lia) Hval' Hdec) as (used & -> & Hwf & Hl & -> & Hu).
      exists (B :: used). rewrite tail_wf_cons. repeat split.
      * destruct used; [done|]. rewrite Hwf, (proj2 (Z.leb_le 128 B)) by lia. done.
      * simpl. lia.
      * cbn [tail_value]. replace (7 * (k + 1)) with (7 * k + 7) by lia.
        rewrite pow2_add7 by lia. ring.
      * apply Hu.
      * apply Hu.
    + rewrite (proj2 (Z.leb_le (7 * k + 7) 63)) in Hdec by lia. simpl orb in Hdec.
      injection Hdec as <- <-. exists [B]. repeat split; simpl.
      * by apply Z.ltb_lt.
      * lia.
      * lia.
      * lia.
      * lia.
Qed.

(** Running out of input is reported as such, never as an overflow, and the
    saved state describes the bytes read so far. *)
Lemma dec_loop_more src st c val k st' :
  is_bytes src -> 0 <= k <= 9 -> 0 <= val < 255 + 2 ^ (7 * k) ->
  (if dis_resume st then dis_nread st else 0) + c = k + 1 ->
  dec_int_loop st c val (7 * k) src = DecIntMore st' ->
  dis_resume st' = true /\ dec_int_wf st' /\ dis_nread st' = k + 1 + Z.of_nat (length src).
Proof.
  revert c val k. induction src as [|B src IH]; intros c val k Hsrc Hk Hval Hn Hdec;
    cbn [dec_int_loop] in Hdec.
  - rewrite Hn, u32_id in Hdec by ulia. unfold LSQPACK_UINT64_ENC_SZ in Hdec.
    rewrite (proj2 (Z.ltb_lt _ 11)) in Hdec by lia. injection Hdec as <-.
    unfold dec_int_wf; simpl. split; [done|]. split; [|lia]. intros _.
    replace (k + 1 - 1) with k by lia. lia.
  - apply Forall_cons_1 in Hsrc as [HB Hsrc].
    destruct (_ && _) eqn:Ec; [|by case_match].
    apply andb_prop in Ec as [_ Ec]. apply Z.ltb_lt in Ec.
    destruct (val_bound_step val k B ltac:(lia) Hval) as [Hval' Hlt].
    rewrite dec_step_val in Hdec by (lia || exact Hlt).
    replace (7 * k + 7) with (7 * (k + 1)) in Hdec by lia.
    destruct (IH (c + 1) _ (k + 1) Hsrc ltac:(lia) Hval' ltac:(lia) Hdec) as (? & ? & Hnr).
    split; [done|]. split; [done|]. rewrite Hnr. simpl length. lia.
Qed.

(** The loop sees its state only through the byte count. *)
Lemma dec_loop_state src st st' c c' val M :
  (if dis_resume st then dis_nread st else 0) + c
  = (if dis_resume st' then dis_nread st' else 0) + c' ->
  dec_int_loop st c val M src = dec_int_loop st' c' val M src.
Proof.
  revert c c' val M. induction src as [|B src IH]; intros c c' val M Hn; cbn [dec_int_loop].
  - by rewrite Hn.
  - destruct (_ && _); [|done]. apply IH. lia.
Qed.

Lemma dec_loop_app src rest st c val k :
  is_bytes src -> 0 <= k <= 9 -> 0 <= val < 255 + 2 ^ (7 * k) ->
  (if dis_resume st then dis_nread st else 0) + c = k + 1 ->
  dec_int_loop st c val (7 * k) (src ++ rest) =
  match dec_int_loop st c val (7 * k) src with
  | DecIntOk v r => DecIntOk v (r ++ rest)
  | DecIntMore st' => dec_int_loop st' 0 (dis_val st') (dis_M st') rest
  | DecIntOverflow => DecIntOverflow
  end.
Proof.
  revert c val k. induction src as [|B src IH]; intros c val k Hsrc Hk Hval Hn.
  - cbn [dec_int_loop app]. rewrite Hn, u32_id by ulia. unfold LSQPACK_UINT64_ENC_SZ.
    rewrite (proj2 (Z.ltb_lt _ 11)) by lia. cbn [dis_val dis_M].
    apply dec_loop_state. simpl. lia.
  - apply Forall_cons_1 in Hsrc as [HB Hsrc]. simpl app. cbn [dec_int_loop].
    destruct (_ && _) eqn:Ec; [|by destruct (_ || _)].
    apply andb_prop in Ec as [_ Ec]. apply Z.ltb_lt in Ec.
    destruct (val_bound_step val k B ltac:(lia) Hval) as [Hval' Hlt].
    rewrite dec_step_val by (lia || exact Hlt). replace (7 * k + 7) with (7 * (k + 1)) by lia.
    apply IH; [done|lia|done|lia].
Qed.

Lemma tail_value_nonneg l : 0 <= tail_value l.
Proof. induction l as [|b l IH]; simpl; [lia|]. pose proof (Z.mod_pos_bound b 128). lia. Qed.

(** Ten continuation bytes are too many for a value without bit 63. *)
Definition accepted_length (n : nat) (v : Z) : bool :=
  (n <=? 9)%nat || ((n =? 10)%nat && (2 ^ 63 <=? v)).

(** A terminated sequence whose value fits is accepted when it is at most nine
    bytes long, or ten with a value that needs them; [k] bytes have been read. *)
Lemma dec_loop_complete used rest st c val k :
  is_bytes used -> tail_wf used = true -> 0 <= k <= 9 ->
  0 <= val -> val + 2 ^ (7 * k) * tail_value used < 2 ^ 64 ->
  dec_int_loop st c val (7 * k) (used ++ rest)
  = let v := val + 2 ^ (7 * k) * tail_value used in
    if accepted_length (Z.to_nat k + length used) v then DecIntOk v rest else DecIntOverflow.
Proof.
  revert c val k. induction used as [|B used IH]; intros c val k Hb Hwf Hk Hval Hlt; [done|].
  apply Forall_cons_1 in Hb as [HB Hb]. rewrite tail_wf_cons in Hwf. cbn zeta.
  pose proof (Z.pow_pos_nonneg 2 (7 * k)) as Hpos. pose proof (tail_value_nonneg used) as Ht.
  pose proof (Z.mod_pos_bound B 128) as Hm. cbn [tail_value] in *.
  assert (Hd : 0 <= 2 ^ (7 * k) * (128 * tail_value used)) by nia.
  rewrite <- app_comm_cons. cbn [dec_int_loop].
  rewrite dec_step_val, has_bits_128 by (done || lia). unfold accepted_length.
  destruct used as [|B' used].
  - rewrite (proj2 (Z.leb_gt 128 B)) by (by apply Z.ltb_lt). cbn [tail_value length] in *.
    replace (val + 2 ^ (7 * k) * (B mod 128 + 128 * 0)) with (val + B mod 128 * 2 ^ (7 * k)) in * by ring.
    destruct (Z.leb_spec (7 * k + 7) 63).
    { by rewrite (proj2 (Nat.leb_le _ 9)) by lia. }
    assert (k = 9) as -> by lia. change (7 * 9) with 63 in *. cbn [andb orb Z.eqb].
    rewrite has_bits_63 by (unfold_words; lia). replace (B mod 128) with B in * by ulia.
    rewrite (proj2 (Z.leb_le B 1)) by (unfold_words; nia). done.
  - apply andb_prop in Hwf as [HB1 Hwf]. rewrite HB1. cbn [andb].
    assert (Hp : 2 ^ (7 * (k + 1)) = 128 * 2 ^ (7 * k)).
    { replace (7 * (k + 1)) with (7 * k + 7) by lia. apply pow2_add7. lia. }
    destruct (Z.ltb_spec (7 * k + 7) 64).
    + replace (7 * k + 7) with (7 * (k + 1)) by lia.
      rewrite IH; [|done|done|lia|nia|rewrite Hp; lia]. cbn zeta. unfold accepted_length.
      replace (val + B mod 128 * 2 ^ (7 * k) + 2 ^ (7 * (k + 1)) * tail_value (B' :: used))
        with (val + 2 ^ (7 * k) * (B mod 128 + 128 * tail_value (B' :: used))) by (rewrite Hp; ring).
      by replace (Z.to_nat (k + 1) + length (B' :: used))%nat
        with (Z.to_nat k + length (B :: B' :: used))%nat by (cbn; lia).
    + assert (k = 9) as -> by lia. apply Z.leb_le in HB1.
      rewrite (proj2 (Z.leb_gt B 1)) by lia. by destruct (length used).
Qed.

(** ** Properties *)

(** C25: [lsqpack_enc_int] never writes outside the buffer it is given, uses
    exactly [lsqpack_val2len] bytes when they fit (storing what
    [lsqpack_enc_int_nocheck] stores and leaving the rest of the buffer
    alone), and reports failure otherwise. *)
Theorem enc_int_bounds dst0 room v p :
  is_u64 v -> 1 <= p <= 8 ->
  let '(buf, n) := lsqpack_enc_int dst0 room v p in
  length buf = length (dst0 :: room)
  /\ if lsqpack_val2len v p <=? Z.of_nat (length (dst0 :: room))
     then Z.of_nat n = lsqpack_val2len v p
          /\ buf = lsqpack_enc_int_nocheck dst0 v p ++ drop n (dst0 :: room)
     else n = 0%nat.
Proof.
  intros Hv Hp. pose proof (enc_int_spec dst0 room v p Hv Hp) as H.
  pose proof (length_nocheck dst0 v p Hv Hp) as Hl. cbn zeta in H.
  destruct (lsqpack_enc_int dst0 room v p) as [buf n]. destruct H as [Hlen H].
  split; [done|]. rewrite <- Hl.
  destruct (Z.leb_spec (Z.of_nat (length (lsqpack_enc_int_nocheck dst0 v p)))
    (Z.of_nat (length (dst0 :: room)))); simpl length in *.
  - rewrite decide_True in H by lia. destruct H as [-> ->]. done.
  - rewrite decide_False in H by lia. done.
Qed.

Lemma enc_int_bounds_witness :
  lsqpack_enc_int 0x20 [0; 0; 0] 1337 5 = ([63; 154; 10; 0], 3%nat)
  /\ length (fst (lsqpack_enc_int 0x20 [0; 0; 0] 1337 5)) = 4%nat.
Proof.
  split; [reflexivity|].
  pose proof (enc_int_bounds 0x20 [0; 0; 0] 1337 5 ltac:(unfold is_u64; lia) ltac:(lia)) as H.
  destruct (lsqpack_enc_int 0x20 [0; 0; 0] 1337 5) as [buf n] eqn:E.
  exact (proj1 H).
Defined.

(** C20: what the encoder writes, the decoder reads back, for every 64-bit
    value, every prefix width and every setting of the flag bits above the
    prefix, and the decoder stops exactly where the encoder stopped. *)
Theorem int_roundtrip dst0 room v p buf n :
  1 <= p <= 8 -> is_u8 dst0 -> dst0 mod 2 ^ p = 0 -> is_u64 v ->
  lsqpack_enc_int dst0 room v p = (buf, n) -> n <> 0%nat ->
  exists b0 src, buf = b0 :: src
    /\ lsqpack_dec_int b0 src p dec_int_fresh = DecIntOk v (drop n buf).
Proof.
  intros Hp Hd Hz Hv He Hn. pose proof (enc_int_spec dst0 room v p Hv Hp) as H.
  cbn zeta in H. rewrite He in H. destruct H as [_ H]. case_decide; [|done].
  destruct H as [Hlen Hbuf]. rewrite <- Hlen in Hbuf.
  pose proof (dec_enc_nocheck dst0 v p (drop n (dst0 :: room)) Hp Hd Hz Hv) as Hdec.
  rewrite <- Hbuf in Hdec. destruct buf as [|b0 src]; [done|]. exists b0, src.
  split; [done|]. rewrite Hdec. f_equal. rewrite Hbuf, Hlen.
  rewrite drop_app_length. done.
Qed.

Lemma int_roundtrip_witness :
  exists b0 src, fst (lsqpack_enc_int 0x40 [0; 0; 7] 300 6) = b0 :: src
    /\ lsqpack_dec_int b0 src 6 dec_int_fresh = DecIntOk 300 [7].
Proof.
  destruct (int_roundtrip 0x40 [0; 0; 7] 300 6 _ _ ltac:(lia)
    ltac:(unfold is_u8; lia) eq_refl ltac:(unfold is_u64; lia) eq_refl ltac:(discriminate))
    as (b0 & src & Hb & Hd).
  exists b0, src. split; [exact Hb|exact Hd].
Defined.

(** What a call leaves for the next one. *)
Lemma dec_int_ok b0 src p st :
  is_bytes (b0 :: src) -> dec_int_wf st -> (dis_resume st = false -> 1 <= p <= 8) ->
  match lsqpack_dec_int b0 src p st with
  | DecIntOk v rest => is_u64 v /\ exists used, src = used ++ rest
  | DecIntMore st' => dis_resume st' = true /\ dec_int_wf st'
  | DecIntOverflow => True
  end.
Proof.
  intros Hb Hwf Hp. unfold lsqpack_dec_int. destruct (dis_resume st) eqn:Hr.
  - destruct (Hwf Hr) as (Hn & HM & Hv). rewrite HM in *.
    destruct (dec_int_loop st 0 _ _ (b0 :: src)) as [v rest|st'|] eqn:E; [| |done].
    + apply dec_loop_sound in E as (used & Hu & Hw & _ & _ & Hv64); [|done|lia|lia].
      split; [done|]. destruct used as [|x used]; [done|]. injection Hu as -> ->. by exists used.
    + apply dec_loop_more in E as (? & ? & _); [done|done|lia|lia|rewrite Hr; lia].
  - specialize (Hp eq_refl). pose proof (prefix_range p Hp) as Hm.
    rewrite shiftl_1, u8_id by (unfold_words; lia).
    apply Forall_cons_1 in Hb as [Hb0 Hb]. rewrite land_ones_mod by lia.
    assert (Hbm : 0 <= b0 mod 2 ^ p < 2 ^ p) by (apply Z.mod_pos_bound; lia).
    destruct (b0 mod 2 ^ p <? 2 ^ p - 1); [split; [unfold_words; lia|by exists []]|].
    destruct (dec_int_loop st 1 _ _ src) as [v rest|st'|] eqn:E; [| |done].
    + apply (dec_loop_sound _ _ _ _ 0) in E as (used & -> & _ & _ & _ & Hv64); [|done|lia|simpl; lia].
      split; [done|]. by exists used.
    + apply (dec_loop_more _ _ _ _ 0) in E as (? & ? & _); [done|done|lia|simpl; lia|rewrite Hr; lia].
Qed.

(** The prefix width does not matter when a call resumes. *)
Lemma dec_int_resumed b0 src p p' st :
  dis_resume st = true -> lsqpack_dec_int b0 src p st = lsqpack_dec_int b0 src p' st.
Proof. intros Hr. unfold lsqpack_dec_int. by rewrite Hr. Qed.

Lemma dec_int_app b0 src b1 src' p p' st :
  is_bytes (b0 :: src) -> dec_int_wf st -> 1 <= p <= 8 ->
  lsqpack_dec_int b0 (src ++ b1 :: src') p st =
  match lsqpack_dec_int b0 src p st with
  | DecIntOk v rest => DecIntOk v (rest ++ b1 :: src')
  | DecIntMore st' => lsqpack_dec_int b1 src' p' st'
  | DecIntOverflow => DecIntOverflow
  end.
Proof.
  intros Hb Hwf Hp. pose proof (prefix_range p Hp) as Hm.
  assert (Hres : forall st', dis_resume st' = true ->
    lsqpack_dec_int b1 src' p' st' = dec_int_loop st' 0 (dis_val st') (dis_M st') (b1 :: src')).
  { intros st' Hr. unfold lsqpack_dec_int. by rewrite Hr. }
  unfold lsqpack_dec_int at 1 2. destruct (dis_resume st) eqn:Hr.
  - destruct (Hwf Hr) as (Hn & HM & Hv). rewrite HM in *.
    rewrite app_comm_cons. rewrite dec_loop_app; [|done|lia|lia|rewrite Hr; lia].
    destruct (dec_int_loop st 0 _ _ (b0 :: src)) eqn:E; [done| |done].
    apply dec_loop_more in E as (? & _); [by rewrite Hres|done|lia|lia|rewrite Hr; lia].
  - rewrite shiftl_1, u8_id by (unfold_words; lia).
    apply Forall_cons_1 in Hb as [Hb0 Hb]. rewrite land_ones_mod by lia.
    assert (Hbm : 0 <= b0 mod 2 ^ p < 2 ^ p) by (apply Z.mod_pos_bound; lia).
    destruct (b0 mod 2 ^ p <? 2 ^ p - 1); [done|].
    rewrite (dec_loop_app _ _ _ _ _ 0); [|done|lia|simpl; lia|rewrite Hr; lia].
    destruct (dec_int_loop st 1 _ _ src) eqn:E; [done| |done].
    apply (dec_loop_more _ _ _ _ 0) in E as (? & _);
      [by rewrite Hres|done|lia|simpl; lia|rewrite Hr; lia].
Qed.

(** C22: the decoder accepts a chunk boundary anywhere: decoding a sequence in
    two pieces, resuming from the saved state, gives the result of decoding
    it in one piece.  The prefix width of the resumed call is irrelevant, as
    the comment in [lsqpack_enc_decoder_in] says. *)
Theorem dec_int_streaming b0 src b1 src' p p' st :
  is_bytes (b0 :: src) -> dec_int_wf st -> 1 <= p <= 8 ->
  lsqpack_dec_int b0 (src ++ b1 :: src') p st =
  match lsqpack_dec_int b0 src p st with
  | DecIntOk v rest => DecIntOk v (rest ++ b1 :: src')
  | DecIntMore st' => lsqpack_dec_int b1 src' p' st'
  | DecIntOverflow => DecIntOverflow
  end.
Proof. exact (dec_int_app b0 src b1 src' p p' st). Qed.

Lemma dec_int_streaming_witness :
  lsqpack_dec_int 0x1f ([0x9a] ++ 0x0a :: [5]) 5 dec_int_fresh
  = match lsqpack_dec_int 0x1f [0x9a] 5 dec_int_fresh with
    | DecIntOk v rest => DecIntOk v (rest ++ 0x0a :: [5])
    | DecIntMore st' => lsqpack_dec_int 0x0a [5] 0 st'
    | DecIntOverflow => DecIntOverflow
    end
  /\ lsqpack_dec_int 0x1f [0x9a; 0x0a; 5] 5 dec_int_fresh = DecIntOk 1337 [5].
Proof.
  split; [|reflexivity]. apply dec_int_streaming.
  - repeat constructor; unfold is_u8; lia.
  - intros H. discriminate H.
  - lia.
Defined.

(** C23: a value is returned only when it is exactly the number the consumed
    bytes denote and fits in 64 bits: arithmetic wrap-around inside the loop
    is always caught. *)
Theorem dec_int_sound b0 src p v rest :
  is_bytes (b0 :: src) -> 1 <= p <= 8 ->
  lsqpack_dec_int b0 src p dec_int_fresh = DecIntOk v rest ->
  exists used, src = used ++ rest /\ int_denotes p (b0 :: used) v /\ is_u64 v
    /\ (length used <= 10)%nat.
Proof.
  intros Hb Hp Hdec. pose proof (prefix_range p Hp) as Hm.
  apply Forall_cons_1 in Hb as [Hb0 Hb]. assert (Hbm : 0 <= b0 mod 2 ^ p < 2 ^ p) by (apply Z.mod_pos_bound; lia).
  unfold lsqpack_dec_int in Hdec. cbn [dis_resume dec_int_fresh] in Hdec.
  rewrite shiftl_1, u8_id, land_ones_mod in Hdec by (unfold_words; lia).
  destruct (Z.ltb_spec (b0 mod 2 ^ p) (2 ^ p - 1)).
  - injection Hdec as <- <-. exists []. split; [done|].
    split; [left; split; [done|lia]|]. split; [unfold_words; lia|simpl; lia].
  - apply (dec_loop_sound _ _ _ _ 0) in Hdec as (used & -> & Hwf & Hl & -> & Hu);
      [|done|lia|simpl; lia].
    exists used. split; [done|]. split; [|split; [done|lia]]. right.
    split; [lia|]. split; [done|]. change (2 ^ (7 * 0)) with 1. lia.
Qed.

Lemma dec_int_sound_witness :
  exists used, [0x9a; 0x0a; 5] = used ++ [5] /\ int_denotes 5 (0x1f :: used) 1337
    /\ is_u64 1337 /\ (length used <= 10)%nat.
Proof.
  apply (dec_int_sound 0x1f [0x9a; 0x0a; 5] 5).
  - repeat constructor; unfold is_u8; lia.
  - lia.
  - reflexivity.
Defined.

(** C24: what becomes of any terminated encoding of a 64-bit value: it is accepted,
    with that value and the bytes after it, when its continuation has at most
    nine bytes, or ten and a value of at least [2 ^ 63]; every longer padding of
    the value is refused, never read as another value. *)
Theorem dec_int_complete b0 used rest p v :
  is_bytes (b0 :: used) -> 1 <= p <= 8 -> int_denotes p (b0 :: used) v -> is_u64 v ->
  lsqpack_dec_int b0 (used ++ rest) p dec_int_fresh
  = if accepted_length (length used) v then DecIntOk v rest else DecIntOverflow.
Proof.
  intros Hb Hp Hden Hv. pose proof (prefix_range p Hp) as Hm.
  apply Forall_cons_1 in Hb as [Hb0 Hb].
  unfold lsqpack_dec_int. cbn [dis_resume dec_int_fresh].
  rewrite shiftl_1, u8_id, land_ones_mod by (unfold_words; lia).
  destruct Hden as [(-> & -> & Hlt)|(Hb0' & Hwf & ->)].
  - rewrite (proj2 (Z.ltb_lt _ _)) by lia. done.
  - rewrite Hb0', Z.ltb_irrefl. unfold is_u64 in Hv.
    pose proof (dec_loop_complete used rest dec_int_fresh 1 (2 ^ p - 1) 0 Hb Hwf) as H.
    change (2 ^ (7 * 0)) with 1 in H. rewrite Z.mul_1_l in H. apply H; lia.
Qed.

Lemma dec_int_complete_witness :
  lsqpack_dec_int 0x1f (replicate 9 0x80 ++ [0] ++ [5]) 5 dec_int_fresh = DecIntOverflow
  /\ lsqpack_dec_int 0x1f (replicate 9 0xff ++ [0] ++ [5]) 5 dec_int_fresh = DecIntOk (2 ^ 63 + 30) [5].
Proof.
  split.
  - apply (dec_int_complete 0x1f (replicate 9 0x80 ++ [0]) [5] 5 31).
    + by repeat constructor.
    + lia.
    + right. by vm_compute.
    + by vm_compute.
  - apply (dec_int_complete 0x1f (replicate 9 0xff ++ [0]) [5] 5 (2 ^ 63 + 30)).
    + by repeat constructor.
    + lia.
    + right. by vm_compute.
    + by vm_compute.
Defined.
