(* ===== verification/Huffman.v ===== *)
(** * The Huffman string codec (RFC 7541, Section 5.2)

    [qenc_huffman_enc], [qenc_enc_str_size], [qdec_huff_dec4bits] and
    [lsqpack_huff_decode_full] of src/lsqpack.c on a 64-bit platform
    ([uintptr_t] of eight bytes), as built with LS_QPACK_USE_LARGE_TABLES set
    to 0; [lsqpack_huff_decode] is then the same function as
    [lsqpack_huff_decode_full].

    The encoder is proved to write the concatenated codes followed by at most
    seven one bits, the decoding automaton to walk the code tree, and hence
    the decoder to invert the encoder and to accept nothing else.  The decoder
    may be stopped and resumed at any input or output boundary. *)

From S2P Require Import Prelude HuffTables.

(** ** Encoder *)

(** [encode_table[c]] *)
Definition enc_el (c : Z) : encode_el := nth (Z.to_nat c) encode_table (EncodeEl 0 0).

(** The stores [*dst++ = (unsigned char)(bits >> 8*(n-1)); ...; *dst++ =
    (unsigned char)bits]. *)
Fixpoint store_be (n : nat) (bits : Z) : bytes :=
  match n with
  | O => []
  | S n' => u8 (Z.shiftr bits (8 * Z.of_nat n')) :: store_be n' bits
  end.

(** The code after the loop: [if (bits_used) ...]. *)
Definition huffman_flush (bits bits_used : Z) : bytes :=
  if bits_used =? 0 then []
  else
    let adj := Z.land (bits_used + 7) (u32 (-8)) in
    let bits := u64 (Z.shiftl bits (adj - bits_used)) in
    let bits := Z.lor bits (Z.shiftl 1 (adj - bits_used) - 1) in
    store_be (Z.to_nat (Z.shiftr adj 3)) bits.

(** The [while (src != src_end)] loop. *)
Fixpoint huffman_loop (src : bytes) (bits bits_used : Z) : bytes :=
  match src with
  | [] => huffman_flush bits bits_used
  | c :: src' =>
      let cur := enc_el c in
      if bits_used + ee_bits cur <? 64 then
        huffman_loop src' (Z.lor (u64 (Z.shiftl bits (ee_bits cur))) (ee_code cur))
          (bits_used + ee_bits cur)
      else
        let hi := u64 (Z.shiftl bits (64 - bits_used)) in
        let bits_used' := ee_bits cur - (64 - bits_used) in
        store_be 8 (Z.lor hi (Z.shiftr (ee_code cur) bits_used'))
        ++ huffman_loop src' (ee_code cur) bits_used'
  end.

(** The bytes written at [dst].  [bits0] is the initial content of the
    variable [bits], which the code leaves uninitialised. *)
Definition qenc_huffman_enc (bits0 : Z) (src : bytes) : bytes := huffman_loop src bits0 0.

Definition qenc_enc_str_size (str : bytes) : Z :=
  let enc_size_bits := fold_left (fun acc c => u32 (acc + ee_bits (enc_el c))) str 0 in
  u32 (enc_size_bits / 8 + Z.b2z (negb (Z.land enc_size_bits 7 =? 0))).

(** ** Decoder *)

Definition HPACK_HUFFMAN_FLAG_ACCEPTED : Z := 0x01.
Definition HPACK_HUFFMAN_FLAG_SYM : Z := 0x02.
Definition HPACK_HUFFMAN_FLAG_FAIL : Z := 0x04.

(** [struct lsqpack_decode_status] *)
Record decode_status := { ds_state : Z; ds_eos : bool }.

(** [struct lsqpack_huff_decode_state] *)
Record huff_decode_state := { hds_resume : Z; hds_status : decode_status }.

(** [decode_tables[state][nibble]] *)
Definition dec_el (state nibble : Z) : decode_el :=
  nth (Z.to_nat nibble) (nth (Z.to_nat state) decode_tables []) (DecodeEl 0 0 0).

(** [None] is the NULL return; otherwise the byte stored at [dst], if any, and
    the new status. *)
Definition qdec_huff_dec4bits (src_4bits : Z) (status : decode_status)
  : option (bytes * decode_status) :=
  let cur := dec_el (ds_state status) src_4bits in
  if has_bits (de_flags cur) HPACK_HUFFMAN_FLAG_FAIL then None
  else Some (if has_bits (de_flags cur) HPACK_HUFFMAN_FLAG_SYM then [u8 (de_sym cur)] else [],
             {| ds_state := de_state cur;
                ds_eos := has_bits (de_flags cur) HPACK_HUFFMAN_FLAG_ACCEPTED |}).

(** How the [while (p_src != src_end)] loop is left: at the end of the source,
    at the end of the destination (with the resumption point it stores), or by
    a decoding failure. *)
Inductive huff_exit :=
  | HuffEnd
  | HuffDstFull (resume : Z)
  | HuffFail.

(** Bytes written, source bytes consumed, last status. *)
Record huff_run := { hr_exit : huff_exit; hr_out : bytes; hr_nsrc : nat; hr_status : decode_status }.

Definition run_add (out : bytes) (n : nat) (r : huff_run) : huff_run :=
  {| hr_exit := hr_exit r; hr_out := out ++ hr_out r; hr_nsrc := n + hr_nsrc r;
     hr_status := hr_status r |}.

Section huff_body.
(** The rest of the loop, entered at [case 1] after a byte was consumed. *)
Variable continue_loop : bytes -> nat -> decode_status -> huff_run.

(** From [case 3]: the low nibble of the current byte. *)
Definition huff_lo (b : Z) (src' : bytes) (room : nat) (st : decode_status) : huff_run :=
  match qdec_huff_dec4bits (Z.land b 0xf) st with
  | None => {| hr_exit := HuffFail; hr_out := []; hr_nsrc := 0; hr_status := st |}
  | Some (o, st') => run_add o 1 (continue_loop src' (room - length o) st')
  end.

(** From [case 2]: the high nibble, then the destination check. *)
Definition huff_hi (b : Z) (src' : bytes) (room : nat) (st : decode_status) : huff_run :=
  match qdec_huff_dec4bits (Z.shiftr b 4) st with
  | None => {| hr_exit := HuffFail; hr_out := []; hr_nsrc := 0; hr_status := st |}
  | Some (o, st') =>
      if decide (room - length o = 0)%nat then
        {| hr_exit := HuffDstFull 3; hr_out := o; hr_nsrc := 0; hr_status := st' |}
      else run_add o 0 (huff_lo b src' (room - length o) st')
  end.
End huff_body.

(** The loop from [case 1]. *)
Fixpoint huff_loop (src : bytes) (room : nat) (st : decode_status) : huff_run :=
  match src with
  | [] => {| hr_exit := HuffEnd; hr_out := []; hr_nsrc := 0; hr_status := st |}
  | b :: src' =>
      if decide (room = 0)%nat then
        {| hr_exit := HuffDstFull 2; hr_out := []; hr_nsrc := 0; hr_status := st |}
      else huff_hi huff_loop b src' room st
  end.

(** [switch (state->resume)].  Cases 2 and 3 dereference [p_src] at once; with an
    empty source that is undefined, which [HuffDec.lsqpack_huff_decode] says before
    it comes here. *)
Definition huff_switch (resume : Z) (src : bytes) (room : nat) (st : decode_status) : huff_run :=
  match resume, src with
  | 2, b :: src' => huff_hi huff_loop b src' room st
  | 3, b :: src' => huff_lo huff_loop b src' room st
  | _, _ => huff_loop src room st
  end.

Inductive huff_dec_status := HUFF_DEC_OK | HUFF_DEC_END_SRC | HUFF_DEC_END_DST | HUFF_DEC_ERROR.

(** [struct huff_decode_retval]; [hdr_out] holds the [n_dst] bytes written. *)
Record huff_decode_retval := { hdr_status : huff_dec_status; hdr_out : bytes; hdr_n_src : nat }.

Definition lsqpack_huff_decode_full (src : bytes) (dst_len : nat)
    (state : huff_decode_state) (final : bool) : huff_decode_retval * huff_decode_state :=
  if decide (dst_len = 0)%nat then
    ({| hdr_status := HUFF_DEC_END_DST; hdr_out := []; hdr_n_src := 0 |}, state)
  else
    let status := if hds_resume state =? 0 then {| ds_state := 0; ds_eos := true |}
                  else hds_status state in
    let r := huff_switch (hds_resume state) src dst_len status in
    match hr_exit r with
    | HuffFail =>
        ({| hdr_status := HUFF_DEC_ERROR; hdr_out := []; hdr_n_src := 0 |},
         {| hds_resume := hds_resume state; hds_status := hr_status r |})
    | HuffDstFull m =>
        ({| hdr_status := HUFF_DEC_END_DST; hdr_out := hr_out r; hdr_n_src := hr_nsrc r |},
         {| hds_resume := m; hds_status := hr_status r |})
    | HuffEnd =>
        if final then
          ({| hdr_status := if ds_eos (hr_status r) then HUFF_DEC_OK else HUFF_DEC_ERROR;
              hdr_out := hr_out r; hdr_n_src := hr_nsrc r |},
           {| hds_resume := hds_resume state; hds_status := hr_status r |})
        else
          ({| hdr_status := HUFF_DEC_END_SRC; hdr_out := hr_out r; hdr_n_src := hr_nsrc r |},
           {| hds_resume := 1; hds_status := hr_status r |})
    end.

(** A state with [resume] zero. *)
Definition huff_fresh : huff_decode_state :=
  {| hds_resume := 0; hds_status := {| ds_state := 0; ds_eos := true |} |}.

(** ** The code as bit strings *)

Definition sym_bits (c : Z) : list bool := z_bits (Z.to_nat (ee_bits (enc_el c))) (ee_code (enc_el c)).
Definition code_bits (s : bytes) : list bool := s ≫= sym_bits.

Lemma code_bits_cons c s : code_bits (c :: s) = sym_bits c ++ code_bits s.
Proof. done. Qed.

(** Every code has 5 to 30 bits and fits its length. *)
Definition el_ok (e : encode_el) : bool :=
  (5 <=? ee_bits e) && (ee_bits e <=? 30) && (0 <=? ee_code e) && (ee_code e <? 2 ^ ee_bits e).

Lemma encode_table_ok : forallb el_ok encode_table = true.
Proof. vm_compute. reflexivity. Qed.

Lemma enc_el_ok c :
  is_u8 c -> 5 <= ee_bits (enc_el c) <= 30 /\ 0 <= ee_code (enc_el c) < 2 ^ ee_bits (enc_el c).
Proof.
  intros Hc. pose proof (proj1 (forallb_forall el_ok encode_table) encode_table_ok) as H.
  assert (Hin : In (enc_el c) encode_table).
  { apply nth_In. change (length encode_table) with 257%nat. ulia. }
  specialize (H _ Hin). unfold el_ok in H.
  apply andb_prop in H as [H H4]. apply andb_prop in H as [H H3]. apply andb_prop in H as [H1 H2].
  lia.
Qed.

(** ** The encoder writes the codes *)

Lemma store_be_bits n x : bytes_bits (store_be n x) = z_bits (8 * n) x.
Proof.
  induction n as [|n IH]; [done|]. cbn [store_be].
  rewrite bytes_bits_cons, IH, z_bits_u8.
  replace (8 * S n)%nat with (8 + 8 * n)%nat by lia. rewrite (z_bits_app 8 (8 * n)).
  do 3 f_equal. lia.
Qed.

Lemma store_be_bytes n x : is_bytes (store_be n x).
Proof. induction n as [|n IH]; constructor; [apply u8_range|done]. Qed.

Lemma z_bits_ones k : z_bits k (2 ^ Z.of_nat k - 1) = replicate k true.
Proof.
  replace (2 ^ Z.of_nat k - 1) with (Z.ones (Z.of_nat k)) by (rewrite Z.ones_equiv; lia).
  revert k.
  assert (forall m k, (k <= m)%nat -> z_bits k (Z.ones (Z.of_nat m)) = replicate k true) as H.
  { intros m k. induction k as [|k IH]; intros Hk; [done|]. cbn [z_bits replicate].
    rewrite IH by lia. f_equal. apply Z.ones_spec_low. lia. }
  intros k. by apply H.
Qed.

(** Shifting left inside the 64-bit accumulator and adding a short code. *)
Lemma accumulate_bits used len bits code :
  0 <= used -> 0 <= len -> used + len <= 64 -> 0 <= code < 2 ^ len ->
  z_bits (Z.to_nat (used + len)) (Z.lor (u64 (Z.shiftl bits len)) code)
  = z_bits (Z.to_nat used) bits ++ z_bits (Z.to_nat len) code.
Proof.
  intros Hu Hl Hs Hc. rewrite Z2Nat.inj_add by lia.
  rewrite <- (z_bits_lor_shiftl (Z.to_nat used) (Z.to_nat len)) by (rewrite Z2Nat.id by lia; lia).
  rewrite Z2Nat.id by lia. apply z_bits_ext. intros i Hi. rewrite !Z.lor_spec.
  f_equal. unfold u64. apply Z.mod_pow2_bits_low. lia.
Qed.

Lemma adj_round used :
  0 <= used < 64 ->
  let adj := Z.land (used + 7) (u32 (-8)) in
  adj mod 8 = 0 /\ used <= adj < used + 8 /\ adj <= 64.
Proof.
  intros Hu.
  assert (H : forallb (fun n => let u := Z.of_nat n in
      let adj := Z.land (u + 7) (u32 (-8)) in
      (adj mod 8 =? 0) && (u <=? adj) && (adj <? u + 8) && (adj <=? 64)) (seq 0 64) = true)
    by (vm_compute; reflexivity).
  rewrite forallb_forall in H. specialize (H (Z.to_nat used)).
  rewrite in_seq, Z2Nat.id in H by lia. specialize (H ltac:(lia)). cbn zeta in *.
  apply andb_prop in H as [H H4]. apply andb_prop in H as [H H3]. apply andb_prop in H as [H1 H2].
  lia.
Qed.

Lemma huffman_flush_bits bits used :
  0 <= used < 64 ->
  exists k, (k < 8)%nat
    /\ bytes_bits (huffman_flush bits used) = z_bits (Z.to_nat used) bits ++ replicate k true.
Proof.
  intros Hu. unfold huffman_flush. destruct (Z.eqb_spec used 0) as [->|Hnz].
  { exists 0%nat. split; [lia|done]. }
  destruct (adj_round used Hu) as (Hm & Hadj & H64). cbn zeta in *.
  set (adj := Z.land (used + 7) (u32 (-8))) in *.
  exists (Z.to_nat (adj - used)). split; [lia|]. rewrite store_be_bits.
  replace (8 * Z.to_nat (Z.shiftr adj 3))%nat with (Z.to_nat (used + (adj - used)));
    [|rewrite Z.shiftr_div_pow2 by lia; change (2 ^ 3) with 8; dlia].
  rewrite (Z.shiftl_mul_pow2 1), Z.mul_1_l by lia.
  pose proof (Z.pow_pos_nonneg 2 (adj - used)).
  rewrite accumulate_bits by lia. f_equal.
  rewrite <- (z_bits_ones (Z.to_nat (adj - used))). rewrite Z2Nat.id by lia. done.
Qed.

Lemma huffman_loop_bits src bits used :
  is_bytes src -> 0 <= used < 64 ->
  exists k, (k < 8)%nat
    /\ bytes_bits (huffman_loop src bits used)
       = z_bits (Z.to_nat used) bits ++ code_bits src ++ replicate k true.
Proof.
  revert bits used. induction src as [|c src IH]; intros bits used Hb Hu.
  { apply huffman_flush_bits. done. }
  apply Forall_cons_1 in Hb as [Hc Hb]. destruct (enc_el_ok c Hc) as [Hlen Hcode].
  cbn [huffman_loop]. rewrite code_bits_cons. unfold sym_bits. destruct (Z.ltb_spec (used + ee_bits (enc_el c)) 64).
  - destruct (IH (Z.lor (u64 (Z.shiftl bits (ee_bits (enc_el c)))) (ee_code (enc_el c)))
      (used + ee_bits (enc_el c)) Hb ltac:(lia)) as (k & Hk & Heq).
    exists k. split; [done|]. rewrite Heq, accumulate_bits by lia.
    by rewrite <- !app_assoc.
  - set (used' := ee_bits (enc_el c) - (64 - used)).
    destruct (IH (ee_code (enc_el c)) used' Hb ltac:(lia)) as (k & Hk & Heq).
    exists k. split; [done|]. rewrite bytes_bits_app, Heq, store_be_bits.
    replace (8 * 8)%nat with (Z.to_nat (used + (64 - used))) by lia.
    assert (Hsh : 0 <= Z.shiftr (ee_code (enc_el c)) used' < 2 ^ (64 - used)).
    { rewrite Z.shiftr_div_pow2 by lia. pose proof (Z.pow_pos_nonneg 2 used').
      split; [apply Z.div_pos; lia|]. apply Z.div_lt_upper_bound; [lia|].
      rewrite <- Z.pow_add_r by lia. replace (used' + (64 - used)) with (ee_bits (enc_el c)) by lia.
      lia. }
    rewrite accumulate_bits by lia. rewrite <- !app_assoc. f_equal.
    rewrite app_assoc. f_equal.
    replace (Z.to_nat (ee_bits (enc_el c))) with (Z.to_nat (64 - used) + Z.to_nat used')%nat by lia.
    rewrite z_bits_app, Z2Nat.id by lia. done.
Qed.

Lemma huffman_loop_bytes src bits used : is_bytes (huffman_loop src bits used).
Proof.
  revert bits used. induction src as [|c src IH]; intros bits used; cbn [huffman_loop].
  - unfold huffman_flush. destruct (used =? 0); [constructor|apply store_be_bytes].
  - destruct (_ <? _); [apply IH|]. apply Forall_app. split; [apply store_be_bytes|apply IH].
Qed.

Lemma qenc_huffman_enc_bits bits0 s :
  is_bytes s ->
  exists k, (k < 8)%nat /\ bytes_bits (qenc_huffman_enc bits0 s) = code_bits s ++ replicate k true.
Proof. intros Hs. apply (huffman_loop_bits s bits0 0 Hs). lia. Qed.

(** The number of padding bits is determined by the length in bits. *)
Lemma pad_unique (l : list bool) (x y : bytes) k k' :
  (k < 8)%nat -> (k' < 8)%nat ->
  bytes_bits x = l ++ replicate k true -> bytes_bits y = l ++ replicate k' true ->
  is_bytes x -> is_bytes y -> x = y.
Proof.
  intros Hk Hk' Hx Hy Bx By. apply bytes_bits_inj; [done..|]. rewrite Hx, Hy.
  apply (f_equal length) in Hx. apply (f_equal length) in Hy.
  rewrite length_bytes_bits, length_app, length_replicate in Hx, Hy.
  f_equal. f_equal. lia.
Qed.

(** ** Sizes *)

Fixpoint code_len (s : bytes) : Z :=
  match s with
  | [] => 0
  | c :: s' => ee_bits (enc_el c) + code_len s'
  end.

Lemma code_len_length s : is_bytes s -> Z.of_nat (length (code_bits s)) = code_len s.
Proof.
  induction s as [|c s IH]; intros Hs; [done|]. apply Forall_cons_1 in Hs as [Hc Hs].
  destruct (enc_el_ok c Hc). rewrite code_bits_cons, length_app. unfold sym_bits. rewrite length_z_bits. simpl. rewrite <- IH by done. lia.
Qed.

Lemma code_len_bound s :
  is_bytes s -> 5 * Z.of_nat (length s) <= code_len s <= 30 * Z.of_nat (length s).
Proof.
  induction s as [|c s IH]; intros Hs; simpl; [lia|]. apply Forall_cons_1 in Hs as [Hc Hs].
  destruct (enc_el_ok c Hc). specialize (IH Hs). lia.
Qed.

Lemma enc_size_bits_fold s acc :
  is_bytes s -> 0 <= acc -> acc + code_len s < 2 ^ 32 ->
  fold_left (fun acc c => u32 (acc + ee_bits (enc_el c))) s acc = acc + code_len s.
Proof.
  revert acc. induction s as [|c s IH]; intros acc Hs Ha Hlt; cbn [fold_left code_len] in *; [lia|].
  apply Forall_cons_1 in Hs as [Hc Hs]. destruct (enc_el_ok c Hc).
  pose proof (code_len_bound s Hs). rewrite u32_id by (unfold is_u32; lia).
  rewrite IH by (done || lia). lia.
Qed.

Lemma qenc_enc_str_size_eq s :
  is_bytes s -> Z.of_nat (length s) <= 2 ^ 26 -> qenc_enc_str_size s = (code_len s + 7) / 8.
Proof.
  intros Hs Hl. unfold qenc_enc_str_size. pose proof (code_len_bound s Hs).
  change (2 ^ 26) with 67108864 in Hl.
  rewrite enc_size_bits_fold by (done || lia || (change (2 ^ 32) with 4294967296; lia)).
  rewrite Z.add_0_l. cbn zeta. rewrite (land_ones_mod _ 3) by lia. change (2 ^ 3) with 8.
  destruct (Z.eqb_spec (code_len s mod 8) 0); simpl; ulia.
Qed.

(** ** The code tree *)

(** A node of the code tree is named by the bits that lead to it, written
    after a leading one: the root is 1. *)
Definition path_bits (p : Z) : list bool := z_bits (Z.to_nat (Z.log2 p)) p.

(** The leaves, in symbol order (EOS last). *)
Definition leaves : list Z :=
  Eval vm_compute in map (fun e => 2 ^ ee_bits e + ee_code e) encode_table.

Fixpoint find_leaf (p : Z) (l : list Z) (c : Z) : option Z :=
  match l with
  | [] => None
  | q :: l' => if p =? q then Some c else find_leaf p l' (c + 1)
  end.

(** Follow [bs] from node [p]: the symbols met and the last node; [None] when
    EOS is met. *)
Fixpoint walk (p : Z) (bs : list bool) : option (bytes * Z) :=
  match bs with
  | [] => Some ([], p)
  | b :: bs' =>
      let q := 2 * p + Z.b2z b in
      match find_leaf q leaves 0 with
      | Some c =>
          if c =? 256 then None
          else '(o, r) ← walk 1 bs'; Some (c :: o, r)
      | None => walk q bs'
      end
  end.

(** The node each state of the automaton stands for. *)
Definition state_nodes : list Z := [
  1; 2; 4; 8; 16; 17; 9; 18;
  19; 5; 10; 20; 21; 42; 43; 11;
  22; 44; 45; 23; 46; 47; 3; 6;
  12; 24; 48; 49; 25; 50; 51; 13;
  26; 52; 53; 27; 54; 55; 110; 111;
  7; 14; 28; 56; 112; 113; 57; 114;
  115; 29; 58; 116; 117; 59; 118; 119;
  15; 30; 60; 120; 121; 61; 122; 123;
  31; 62; 124; 125; 63; 126; 252; 253;
  127; 254; 255; 510; 1020; 1021; 511; 1022;
  2045; 1023; 2046; 4093; 2047; 4094; 8188; 8189;
  4095; 8190; 8191; 16382; 16383; 32766; 32767; 65535;
  131070; 262140; 524280; 524281; 1048563; 262141; 524282; 1048564;
  1048565; 524283; 1048566; 1048567; 2097134; 2097135; 131071; 262142;
  524284; 1048568; 2097136; 2097137; 1048569; 2097138; 2097139; 524285;
  1048570; 2097140; 4194281; 2097141; 4194282; 4194283; 1048571; 2097142;
  4194284; 4194285; 2097143; 4194286; 4194287; 262143; 524286; 1048572;
  2097144; 4194288; 4194289; 2097145; 4194290; 4194291; 1048573; 2097146;
  4194292; 4194293; 2097147; 4194294; 8388588; 8388589; 4194295; 8388590;
  8388591; 524287; 1048574; 2097148; 4194296; 8388592; 8388593; 4194297;
  8388594; 8388595; 2097149; 4194298; 8388596; 8388597; 4194299; 8388598;
  8388599; 1048575; 2097150; 4194300; 8388600; 8388601; 4194301; 8388602;
  16777205; 8388603; 16777206; 16777207; 2097151; 4194302; 8388604; 16777208;
  16777209; 8388605; 16777210; 16777211; 33554422; 33554423; 4194303; 8388606;
  16777212; 33554424; 67108848; 67108849; 33554425; 67108850; 67108851; 16777213;
  33554426; 67108852; 67108853; 33554427; 67108854; 67108855; 134217711; 8388607;
  16777214; 33554428; 67108856; 134217712; 134217713; 67108857; 134217714; 134217715;
  33554429; 67108858; 134217716; 134217717; 67108859; 134217718; 134217719; 16777215;
  33554430; 67108860; 134217720; 268435441; 134217721; 268435442; 268435443; 67108861;
  134217722; 268435444; 268435445; 134217723; 268435446; 268435447; 33554431; 67108862;
  134217724; 268435448; 268435449; 134217725; 268435450; 268435451; 67108863; 134217726;
  268435452; 268435453; 134217727; 268435454; 268435455; 536870911; 1073741822; 1073741823
].
Definition state_node (s : Z) : Z := nth (Z.to_nat s) state_nodes 1.

(** The nodes at which a string may end: up to seven bits of EOS, all ones. *)
Definition node_accepts (p : Z) : bool := (p <? 256) && (Z.land p (p + 1) =? 0).

(** One row entry against the tree. *)
Definition entry_ok (s n : Z) : bool :=
  match qdec_huff_dec4bits n {| ds_state := s; ds_eos := false |},
        walk (state_node s) (z_bits 4 n) with
  | Some (o, st), Some (o', q) =>
      bool_decide (o = o') && (state_node (ds_state st) =? q)
      && Bool.eqb (ds_eos st) (node_accepts q)
      && (0 <=? ds_state st) && (ds_state st <? 256)
  | None, None => true
  | _, _ => false
  end.

Lemma decode_tables_ok :
  forallb (fun s => forallb (fun n => entry_ok (Z.of_nat s) (Z.of_nat n)) (seq 0 16)) (seq 0 256)
  = true.
Proof. vm_compute. reflexivity. Qed.

(** A status the automaton can be in. *)
Definition status_wf (st : decode_status) : Prop := 0 <= ds_state st < 256.

(** Every transition of the automaton follows four edges of the tree. *)
Lemma dec4bits_walk n st :
  0 <= n < 16 -> status_wf st ->
  match qdec_huff_dec4bits n st with
  | Some (o, st') =>
      status_wf st' /\ ds_eos st' = node_accepts (state_node (ds_state st'))
      /\ walk (state_node (ds_state st)) (z_bits 4 n) = Some (o, state_node (ds_state st'))
  | None => walk (state_node (ds_state st)) (z_bits 4 n) = None
  end.
Proof.
  intros Hn Hst. pose proof decode_tables_ok as H. rewrite forallb_forall in H.
  specialize (H (Z.to_nat (ds_state st))). rewrite in_seq in H. unfold status_wf in *.
  specialize (H ltac:(lia)). rewrite forallb_forall in H.
  specialize (H (Z.to_nat n)). rewrite in_seq in H. specialize (H ltac:(lia)).
  rewrite !Z2Nat.id in H by lia. unfold entry_ok in H.
  change (qdec_huff_dec4bits n {| ds_state := ds_state st; ds_eos := false |})
    with (qdec_huff_dec4bits n st) in H.
  destruct (qdec_huff_dec4bits n st) as [[o st']|], (walk _ _) as [[o' q]|]; try done.
  repeat apply andb_prop in H as [H ?]. apply bool_decide_eq_true in H as ->.
  repeat match goal with
  | Hx : (_ =? _) = true |- _ => apply Z.eqb_eq in Hx
  | Hx : (_ <=? _) = true |- _ => apply Z.leb_le in Hx
  | Hx : (_ <? _) = true |- _ => apply Z.ltb_lt in Hx
  | Hx : Bool.eqb _ _ = true |- _ => apply Bool.eqb_prop in Hx
  end. subst q. done.
Qed.

Lemma walk_app p bs bs' :
  walk p (bs ++ bs') =
  match walk p bs with
  | Some (o, q) => '(o', r) ← walk q bs'; Some (o ++ o', r)
  | None => None
  end.
Proof.
  revert p. induction bs as [|b bs IH]; intros p.
  - simpl. destruct (walk p bs') as [[??]|]; done.
  - simpl app. cbn [walk]. destruct (find_leaf _ _ _) as [c|]; [|apply IH].
    destruct (c =? 256); [done|]. rewrite IH. cbn [mbind option_bind].
    destruct (walk 1 bs) as [[o q]|]; [|done]. cbn.
    destruct (walk q bs') as [[??]|]; done.
Qed.

(** Walking a whole code from the root yields its symbol. *)
Lemma walk_sym c : is_u8 c -> walk 1 (sym_bits c) = Some ([c], 1).
Proof.
  intros Hc.
  assert (H : forallb (fun c => bool_decide (walk 1 (sym_bits (Z.of_nat c)) = Some ([Z.of_nat c], 1)))
    (seq 0 256) = true) by (vm_compute; reflexivity).
  rewrite forallb_forall in H. specialize (H (Z.to_nat c)).
  rewrite in_seq, Z2Nat.id in H by ulia. specialize (H ltac:(ulia)).
  by apply bool_decide_eq_true in H.
Qed.

Lemma walk_codes s bs :
  is_bytes s -> walk 1 (code_bits s ++ bs) = '(o, r) ← walk 1 bs; Some (s ++ o, r).
Proof.
  intros Hs. induction s as [|c s IH].
  - simpl. destruct (walk 1 bs) as [[??]|]; done.
  - apply Forall_cons_1 in Hs as [Hc Hs]. rewrite code_bits_cons, <- app_assoc, walk_app, walk_sym by done.
    rewrite IH by done. cbn. destruct (walk 1 bs) as [[??]|]; done.
Qed.

Lemma walk_pad k :
  (k < 8)%nat -> exists q, walk 1 (replicate k true) = Some ([], q) /\ node_accepts q = true.
Proof.
  intros Hk. do 8 (destruct k as [|k]; [eexists; split; vm_compute; reflexivity|]). lia.
Qed.

(** ** What a walk has read *)

Lemma path_bits_snoc p b : 1 <= p -> path_bits (2 * p + Z.b2z b) = path_bits p ++ [b].
Proof.
  intros Hp. unfold path_bits.
  assert (Hlog : Z.log2 (2 * p + Z.b2z b) = Z.log2 p + 1).
  { destruct b; simpl Z.b2z.
    - rewrite Z.log2_succ_double by lia. lia.
    - rewrite Z.add_0_r, Z.log2_double by lia. lia. }
  rewrite Hlog. pose proof (Z.log2_nonneg p).
  rewrite Z2Nat.inj_add by lia. change (Z.to_nat 1) with 1%nat. rewrite z_bits_app.
  f_equal.
  - f_equal. change (Z.of_nat 1) with 1. rewrite Z.shiftr_div_pow2 by lia.
    change (2 ^ 1) with 2. destruct b; simpl Z.b2z; dlia.
  - cbn [z_bits]. change (Z.of_nat 0) with 0. by rewrite Z.testbit_0_r.
Qed.

Lemma find_leaf_sound p l c0 c :
  find_leaf p l c0 = Some c -> exists i, l !! i = Some p /\ c = c0 + Z.of_nat i.
Proof.
  revert c0. induction l as [|q l IH]; intros c0 H; simpl in H; [done|].
  destruct (Z.eqb_spec p q) as [->|].
  - injection H as <-. exists 0%nat. split; [done|lia].
  - apply IH in H as (i & Hi & ->). exists (S i). split; [done|lia].
Qed.

Lemma leaves_sym c :
  0 <= c < 257 -> exists p, leaves !! Z.to_nat c = Some p /\ path_bits p = sym_bits c /\ 1 <= p.
Proof.
  intros Hc.
  assert (H : forallb (fun c => match leaves !! c with
      | Some p => bool_decide (path_bits p = sym_bits (Z.of_nat c)) && (1 <=? p)
      | None => false end) (seq 0 257) = true) by (vm_compute; reflexivity).
  rewrite forallb_forall in H. specialize (H (Z.to_nat c)).
  rewrite in_seq, Z2Nat.id in H by lia. specialize (H ltac:(lia)).
  destruct (leaves !! Z.to_nat c) as [p|]; [|done]. apply andb_prop in H as [H1 H2].
  apply bool_decide_eq_true in H1. exists p. split; [done|]. split; [done|lia].
Qed.

Lemma find_leaf_bits p c :
  find_leaf p leaves 0 = Some c -> 0 <= c < 257 /\ path_bits p = sym_bits c.
Proof.
  intros H. apply find_leaf_sound in H as (i & Hi & ->).
  assert (Hl : (i < 257)%nat) by (apply lookup_lt_Some in Hi; exact Hi).
  destruct (leaves_sym (0 + Z.of_nat i) ltac:(lia)) as (p' & Hp' & Hb & _).
  replace (Z.to_nat (0 + Z.of_nat i)) with i in Hp' by lia. simplify_eq. split; [lia|done].
Qed.

(** The bits read are the codes of the symbols met, then the path to the last
    node. *)
Lemma walk_sound p bs o q :
  1 <= p -> walk p bs = Some (o, q) ->
  is_bytes o /\ 1 <= q /\ path_bits p ++ bs = code_bits o ++ path_bits q.
Proof.
  revert p o q. induction bs as [|b bs IH]; intros p o q Hp H; cbn [walk] in H.
  - injection H as <- <-. split; [constructor|]. by rewrite app_nil_r.
  - assert (Hq : 1 <= 2 * p + Z.b2z b) by (destruct b; simpl; lia).
    rewrite cons_middle, app_assoc, <- path_bits_snoc by done.
    destruct (find_leaf _ _ _) as [c|] eqn:E; [|by apply IH].
    apply find_leaf_bits in E as [Hc ->]. destruct (Z.eqb_spec c 256); [done|].
    destruct (walk 1 bs) as [[o' r]|] eqn:W; [|done]. simpl in H. injection H as <- <-.
    apply IH in W as (Ho & Hr & Heq); [|lia]. change (path_bits 1) with (@nil bool) in Heq.
    simpl in Heq. split; [constructor; [ulia|done]|]. split; [done|].
    rewrite code_bits_cons, <- app_assoc. by f_equal.
Qed.

(** Every symbol takes five bits or more. *)
Lemma code_bits_min s : is_bytes s -> (5 * length s <= length (code_bits s))%nat.
Proof.
  intros Hs. pose proof (code_len_bound s Hs). pose proof (code_len_length s Hs). lia.
Qed.

Lemma walk_length bs o q : walk 1 bs = Some (o, q) -> (5 * length o <= length bs)%nat.
Proof.
  intros H. apply walk_sound in H as (Ho & _ & Hb); [|lia].
  change (path_bits 1) with (@nil bool) in Hb. cbn [app] in Hb.
  apply (f_equal length) in Hb. rewrite length_app in Hb. pose proof (code_bits_min o Ho). lia.
Qed.

Lemma node_accepts_bits q :
  1 <= q -> node_accepts q = true -> exists k, (k < 8)%nat /\ path_bits q = replicate k true.
Proof.
  intros Hq H. unfold node_accepts in H. apply andb_prop in H as [H1 H2].
  apply Z.ltb_lt in H1.
  assert (Hf : forallb (fun n => let q := Z.of_nat n in
      negb (Z.land q (q + 1) =? 0)
      || existsb (fun k => bool_decide (path_bits q = replicate k true)) (seq 0 8)) (seq 1 255)
      = true) by (vm_compute; reflexivity).
  rewrite forallb_forall in Hf. specialize (Hf (Z.to_nat q)).
  rewrite in_seq, Z2Nat.id in Hf by lia. specialize (Hf ltac:(lia)). cbn zeta in Hf.
  rewrite H2 in Hf. cbn [negb orb] in Hf. apply existsb_exists in Hf as (k & Hk & Hb).
  apply in_seq in Hk. apply bool_decide_eq_true in Hb. exists k. split; [lia|done].
Qed.

(** ** The automaton walks the tree *)

(** From here on the tables are used only through the lemmas above. *)
#[global] Opaque encode_table decode_tables leaves state_nodes.

Definition status_ok (st : decode_status) : Prop :=
  status_wf st /\ ds_eos st = node_accepts (state_node (ds_state st)).

Definition node_of (st : decode_status) : Z := state_node (ds_state st).

Lemma byte_nibbles b :
  is_u8 b -> 0 <= Z.shiftr b 4 < 16 /\ 0 <= Z.land b 0xf < 16
  /\ z_bits 8 b = z_bits 4 (Z.shiftr b 4) ++ z_bits 4 (Z.land b 0xf).
Proof.
  intros Hb. change 0xf with (2 ^ 4 - 1).
  rewrite Z.shiftr_div_pow2, (land_ones_mod b 4) by lia. change (2 ^ 4) with 16.
  split; [ulia|]. split; [ulia|]. rewrite (z_bits_app 4 4).
  rewrite Z.shiftr_div_pow2 by lia. f_equal. symmetry. apply (z_bits_mod 4).
Qed.

Lemma dec4bits_len n st o st' : qdec_huff_dec4bits n st = Some (o, st') -> (length o <= 1)%nat.
Proof.
  unfold qdec_huff_dec4bits. destruct (has_bits _ _); [done|]. intros [= <- <-].
  destruct (has_bits _ _); simpl; lia.
Qed.

(** What a run says about the walk over the rest of the input. *)
Definition run_spec (p : Z) (bs : list bool) (nbytes room : nat) (r : huff_run) : Prop :=
  status_ok (hr_status r) /\
  match hr_exit r with
  | HuffEnd =>
      walk p bs = Some (hr_out r, node_of (hr_status r))
      /\ hr_nsrc r = nbytes /\ (length (hr_out r) <= room)%nat
  | HuffDstFull _ =>
      length (hr_out r) = room /\ (hr_nsrc r < nbytes)%nat
      /\ forall o q, walk p bs = Some (o, q) -> (room <= length o)%nat
  | HuffFail => walk p bs = None
  end.

Lemma run_spec_add p q o bs bs' n m room r :
  walk p bs = Some (o, q) -> (length o <= room)%nat ->
  run_spec q bs' m (room - length o) r -> run_spec p (bs ++ bs') (n + m) room (run_add o n r).
Proof.
  intros W Hl [Hst H]. split; [done|]. rewrite walk_app, W. cbn [run_add hr_exit hr_out hr_nsrc hr_status].
  destruct (hr_exit r).
  - destruct H as (-> & -> & ?). rewrite length_app. repeat split; lia.
  - destruct H as (Hr & Hn & H). rewrite length_app. split; [lia|]. split; [lia|].
    intros o' r' Ho'. destruct (walk q bs') as [[o2 q2]|]; [|done].
    simpl in Ho'. injection Ho' as <- <-. specialize (H _ _ eq_refl).
    rewrite length_app. lia.
  - by rewrite H.
Qed.

Lemma huff_lo_spec k b src room st :
  is_u8 b -> status_ok st -> (0 < room)%nat ->
  (forall room' st', status_ok st' ->
     run_spec (node_of st') (bytes_bits src) (length src) room' (k src room' st')) ->
  run_spec (node_of st) (z_bits 4 (Z.land b 0xf) ++ bytes_bits src) (S (length src)) room
    (huff_lo k b src room st).
Proof.
  intros Hb [Hwf Heos] Hroom IH. destruct (byte_nibbles b Hb) as (_ & Hn & _).
  pose proof (dec4bits_walk _ st Hn Hwf) as Hw. unfold huff_lo.
  destruct (qdec_huff_dec4bits _ st) as [[o st']|] eqn:E.
  - destruct Hw as (Hwf' & Heos' & Hw). apply dec4bits_len in E.
    apply (run_spec_add _ (node_of st') o _ _ 1); [done|lia|]. by apply IH.
  - split; [done|]. cbn [hr_exit]. unfold node_of. by rewrite walk_app, Hw.
Qed.

Lemma huff_hi_spec k b src room st :
  is_u8 b -> status_ok st -> (0 < room)%nat ->
  (forall room' st', status_ok st' ->
     run_spec (node_of st') (bytes_bits src) (length src) room' (k src room' st')) ->
  run_spec (node_of st) (bytes_bits (b :: src)) (S (length src)) room (huff_hi k b src room st).
Proof.
  intros Hb [Hwf Heos] Hroom IH. destruct (byte_nibbles b Hb) as (Hn & _ & Hbits).
  rewrite bytes_bits_cons, Hbits, <- app_assoc.
  pose proof (dec4bits_walk _ st Hn Hwf) as Hw. unfold huff_hi.
  destruct (qdec_huff_dec4bits _ st) as [[o st']|] eqn:E.
  - destruct Hw as (Hwf' & Heos' & Hw). apply dec4bits_len in E. case_decide as Hd.
    + split; [done|]. cbn [hr_exit hr_out hr_nsrc]. split; [lia|]. split; [lia|].
      intros o' q. rewrite walk_app. unfold node_of. rewrite Hw.
      destruct (walk _ (z_bits 4 _ ++ _)) as [[??]|]; [|done]. simpl. intros [= <- <-].
      rewrite length_app. lia.
    + apply (run_spec_add _ (node_of st') o _ _ 0); [done|lia|].
      apply huff_lo_spec; [done..|lia|done].
  - split; [done|]. cbn [hr_exit]. unfold node_of. by rewrite walk_app, Hw.
Qed.

Lemma huff_loop_spec src room st :
  is_bytes src -> status_ok st ->
  run_spec (node_of st) (bytes_bits src) (length src) room (huff_loop src room st).
Proof.
  intros Hs. revert room st. induction src as [|b src IH]; intros room st Hst.
  - split; [exact Hst|]. split; [reflexivity|]. split; [reflexivity|apply Nat.le_0_l].
  - apply Forall_cons_1 in Hs as [Hb Hs]. cbn [huff_loop].
    destruct (decide (room = 0%nat)) as [->|Hd].
    + split; [exact Hst|]. split; [reflexivity|]. split; [apply Nat.lt_0_succ|].
      intros. apply Nat.le_0_l.
    + apply huff_hi_spec; [done|done|lia|]. intros room' st' Hst'. by apply IH.
Qed.

(** ** Stopping and resuming *)

(** Enlarging the destination continues the run where it stopped. *)
Definition dst_resume_ok (run : nat -> huff_run) (src : bytes) (room : nat) : Prop :=
  forall m extra, hr_exit (run room) = HuffDstFull m -> (0 < extra)%nat ->
  run (room + extra)%nat =
  run_add (hr_out (run room)) (hr_nsrc (run room))
    (huff_switch m (drop (hr_nsrc (run room)) src) extra (hr_status (run room))).

Lemma run_add_add o n o' n' r : run_add o n (run_add o' n' r) = run_add (o ++ o') (n + n') r.
Proof. unfold run_add. simpl. f_equal; [apply app_assoc|lia]. Qed.

Lemma run_add_nil r : run_add [] 0 r = r.
Proof. by destruct r. Qed.

Lemma huff_lo_resume b src room st :
  (forall room' st', dst_resume_ok (fun x => huff_loop src x st') src room') -> (0 < room)%nat ->
  dst_resume_ok (fun x => huff_lo huff_loop b src x st) (b :: src) room.
Proof.
  intros IH Hroom m extra He Hx. unfold huff_lo in *.
  destruct (qdec_huff_dec4bits _ st) as [[o st']|] eqn:E; [|done].
  apply dec4bits_len in E. cbn [run_add hr_exit hr_out hr_nsrc hr_status] in *.
  replace (room + extra - length o)%nat with (room - length o + extra)%nat by lia.
  rewrite (IH _ _ _ _ He Hx), run_add_add. done.
Qed.

Lemma huff_hi_resume b src room st :
  (forall room' st', dst_resume_ok (fun x => huff_loop src x st') src room') -> (0 < room)%nat ->
  dst_resume_ok (fun x => huff_hi huff_loop b src x st) (b :: src) room.
Proof.
  intros IH Hroom m extra He Hx. unfold huff_hi in *.
  destruct (qdec_huff_dec4bits _ st) as [[o st']|] eqn:E; [|done]. apply dec4bits_len in E.
  rewrite (decide_False (P := (room + extra - length o = 0)%nat)) by lia.
  destruct (decide (room - length o = 0)%nat) as [Hd|Hd].
  - cbn [hr_exit] in He. injection He as <-. cbn. 
    replace (room + extra - length o)%nat with extra by lia. done.
  - cbn [run_add hr_exit hr_out hr_nsrc hr_status] in *.
    replace (room + extra - length o)%nat with (room - length o + extra)%nat by lia.
    rewrite (huff_lo_resume b src (room - length o) st' IH ltac:(lia) m extra He Hx), run_add_add. done.
Qed.

Lemma huff_loop_resume src room st : dst_resume_ok (fun x => huff_loop src x st) src room.
Proof.
  revert room st. induction src as [|b src IH]; intros room st m extra He Hx; [done|].
  cbn [huff_loop] in *. rewrite (decide_False (P := (room + extra = 0)%nat)) by lia.
  destruct (decide (room = 0)%nat) as [->|].
  - cbn [hr_exit] in He. injection He as <-. cbn. by rewrite run_add_nil.
  - by apply (huff_hi_resume b src room st IH ltac:(lia)).
Qed.

(** Appending input continues the run after its last byte. *)
Lemma huff_loop_app src src' room st :
  hr_exit (huff_loop src room st) = HuffEnd ->
  huff_loop (src ++ src') room st =
  run_add (hr_out (huff_loop src room st)) (length src)
    (huff_loop src' (room - length (hr_out (huff_loop src room st)))
       (hr_status (huff_loop src room st))).
Proof.
  revert room st. induction src as [|b src IH]; intros room st He.
  - cbn. rewrite Nat.sub_0_r. by rewrite run_add_nil.
  - rewrite <- app_comm_cons. cbn [huff_loop] in *. case_decide; [done|].
    unfold huff_hi in *. destruct (qdec_huff_dec4bits _ st) as [[o st']|]; [|done].
    case_decide; [done|]. unfold huff_lo in *.
    destruct (qdec_huff_dec4bits _ st') as [[o2 st2]|]; [|done].
    cbn [run_add hr_exit hr_out hr_nsrc hr_status] in *.
    rewrite IH by done. rewrite !run_add_add. rewrite !length_app. simpl length.
    replace (room - length o - length o2
      - length (hr_out (huff_loop src (room - length o - length o2) st2)))%nat
      with (room - (length o + (length o2
        + length (hr_out (huff_loop src (room - length o - length o2) st2)))))%nat by lia.
    f_equal. by rewrite app_assoc.
Qed.

Lemma huff_switch_other m src room st :
  m <> 2 -> m <> 3 -> huff_switch m src room st = huff_loop src room st.
Proof. intros. unfold huff_switch. repeat case_match; congruence. Qed.

Lemma huff_switch_nil m room st : huff_switch m [] room st = huff_loop [] room st.
Proof. unfold huff_switch. by repeat case_match. Qed.

Lemma huff_switch_resume m src room st :
  (0 < room)%nat -> dst_resume_ok (fun x => huff_switch m src x st) src room.
Proof.
  intros Hr k extra. destruct (decide (m = 2)) as [->|]; [|destruct (decide (m = 3)) as [->|]].
  - destruct src as [|b src]; [apply (huff_loop_resume [])|].
    apply (huff_hi_resume b src room st); [intros; apply huff_loop_resume|done].
  - destruct src as [|b src]; [apply (huff_loop_resume [])|].
    apply (huff_lo_resume b src room st); [intros; apply huff_loop_resume|done].
  - rewrite !huff_switch_other by done. apply (huff_loop_resume src room st).
Qed.

(** Where the code may resume with an empty source. *)
Definition resume_src_ok (m : Z) (src : bytes) : Prop := (m = 2 \/ m = 3) -> src <> [].

Lemma huff_lo_app b src src' room st :
  hr_exit (huff_lo huff_loop b src room st) = HuffEnd ->
  let r := huff_lo huff_loop b src room st in
  huff_lo huff_loop b (src ++ src') room st =
  run_add (hr_out r) (S (length src)) (huff_loop src' (room - length (hr_out r)) (hr_status r)).
Proof.
  unfold huff_lo. destruct (qdec_huff_dec4bits _ st) as [[o st']|]; [|done].
  cbn [run_add hr_exit hr_out hr_nsrc hr_status]. intros He.
  rewrite huff_loop_app by done. rewrite run_add_add, length_app. simpl.
  by rewrite Nat.sub_add_distr.
Qed.

Lemma huff_hi_app b src src' room st :
  hr_exit (huff_hi huff_loop b src room st) = HuffEnd ->
  let r := huff_hi huff_loop b src room st in
  huff_hi huff_loop b (src ++ src') room st =
  run_add (hr_out r) (S (length src)) (huff_loop src' (room - length (hr_out r)) (hr_status r)).
Proof.
  unfold huff_hi. destruct (qdec_huff_dec4bits _ st) as [[o st']|]; [|done].
  case_decide; [done|]. cbn [run_add hr_exit hr_out hr_nsrc hr_status]. intros He.
  rewrite (huff_lo_app _ _ _ _ _ He). cbn zeta. rewrite run_add_add, length_app. simpl.
  by rewrite Nat.sub_add_distr.
Qed.

Lemma huff_switch_app m src src' room st :
  resume_src_ok m src -> hr_exit (huff_switch m src room st) = HuffEnd ->
  let r := huff_switch m src room st in
  huff_switch m (src ++ src') room st =
  run_add (hr_out r) (length src) (huff_loop src' (room - length (hr_out r)) (hr_status r)).
Proof.
  intros Hm He. cbn zeta.
  destruct (decide (m = 2)) as [->|]; [|destruct (decide (m = 3)) as [->|]].
  - destruct src as [|b src]; [by destruct Hm; auto|]. by apply huff_hi_app.
  - destruct src as [|b src]; [by destruct Hm; auto|]. by apply huff_lo_app.
  - rewrite !huff_switch_other in * by done. by apply huff_loop_app.
Qed.

Lemma huff_initial_ok : status_ok {| ds_state := 0; ds_eos := true |}.
Proof. split; [unfold status_wf; simpl; lia|]. vm_compute. reflexivity. Qed.

Lemma node_initial : node_of {| ds_state := 0; ds_eos := true |} = 1.
Proof. vm_compute. reflexivity. Qed.

Lemma huff_full_fresh src dst_len :
  (0 < dst_len)%nat ->
  let r := huff_loop src dst_len {| ds_state := 0; ds_eos := true |} in
  fst (lsqpack_huff_decode_full src dst_len huff_fresh true) =
  match hr_exit r with
  | HuffFail => {| hdr_status := HUFF_DEC_ERROR; hdr_out := []; hdr_n_src := 0 |}
  | HuffDstFull m =>
      {| hdr_status := HUFF_DEC_END_DST; hdr_out := hr_out r; hdr_n_src := hr_nsrc r |}
  | HuffEnd => {| hdr_status := if ds_eos (hr_status r) then HUFF_DEC_OK else HUFF_DEC_ERROR;
                  hdr_out := hr_out r; hdr_n_src := hr_nsrc r |}
  end.
Proof.
  intros Hd. unfold lsqpack_huff_decode_full. rewrite decide_False by lia.
  cbn [huff_fresh hds_resume hds_status huff_switch Z.eqb]. by destruct (hr_exit _).
Qed.

(** ** Properties *)

Lemma huffman_enc_codes bits0 s :
  is_bytes s -> Z.of_nat (length s) <= 2 ^ 26 ->
  let out := qenc_huffman_enc bits0 s in
  is_bytes out /\ out = qenc_huffman_enc 0 s
  /\ Z.of_nat (length out) = qenc_enc_str_size s
  /\ exists k, (k < 8)%nat /\ bytes_bits out = code_bits s ++ replicate k true.
Proof.
  intros Hs Hl. cbn zeta. destruct (qenc_huffman_enc_bits bits0 s Hs) as (k & Hk & Hb).
  destruct (qenc_huffman_enc_bits 0 s Hs) as (k' & Hk' & Hb').
  split; [apply huffman_loop_bytes|]. split.
  { apply (pad_unique (code_bits s) _ _ k k'); try done; apply huffman_loop_bytes. }
  split; [|by exists k]. rewrite qenc_enc_str_size_eq, <- code_len_length by done.
  apply (f_equal length) in Hb.
  rewrite length_bytes_bits, length_app, length_replicate in Hb. dlia.
Qed.

(** C34: the encoder writes the codes of the bytes of the string, padded with
    fewer than eight one bits; the number of bytes is what
    [qenc_enc_str_size] announced; the uninitialised accumulator does not
    influence the output. *)
Theorem huffman_enc_correct bits0 s :
  is_bytes s -> Z.of_nat (length s) <= 2 ^ 26 ->
  let out := qenc_huffman_enc bits0 s in
  is_bytes out /\ out = qenc_huffman_enc 0 s
  /\ Z.of_nat (length out) = qenc_enc_str_size s
  /\ exists k, (k < 8)%nat /\ bytes_bits out = code_bits s ++ replicate k true.
Proof. exact (huffman_enc_codes bits0 s). Qed.

Lemma huffman_enc_correct_witness :
  qenc_huffman_enc 0xdead [119; 119; 119; 46; 97] = [0xf1; 0xe3; 0xc2; 0xe3] /\
  Z.of_nat (length (qenc_huffman_enc 0xdead [119; 119; 119; 46; 97]))
  = qenc_enc_str_size [119; 119; 119; 46; 97].
Proof.
  split; [vm_compute; reflexivity|].
  apply (huffman_enc_correct 0xdead [119; 119; 119; 46; 97]).
  - repeat constructor; unfold is_u8; lia.
  - simpl. lia.
Defined.

Lemma huff_dec_enc bits0 s dst_len :
  is_bytes s -> (length s < dst_len)%nat ->
  fst (lsqpack_huff_decode_full (qenc_huffman_enc bits0 s) dst_len huff_fresh true)
  = {| hdr_status := HUFF_DEC_OK; hdr_out := s;
       hdr_n_src := length (qenc_huffman_enc bits0 s) |}.
Proof.
  intros Hs Hd. rewrite huff_full_fresh by lia. cbn zeta.
  destruct (qenc_huffman_enc_bits bits0 s Hs) as (k & Hk & Hb).
  destruct (walk_pad k Hk) as (q & Hq & Hacc).
  pose proof (huff_loop_spec (qenc_huffman_enc bits0 s) dst_len _
    (huffman_loop_bytes _ _ _) huff_initial_ok) as [Hst H].
  rewrite Hb, node_initial, walk_codes, Hq in H by done. cbn [mbind option_bind] in H.
  rewrite app_nil_r in H. destruct (hr_exit _).
  - destruct H as (Hw & Hn & _). injection Hw as Hout Hnode. destruct Hst as [_ Heos].
    unfold node_of in Hnode. rewrite Heos, <- Hnode, Hacc, Hn, <- Hout. done.
  - destruct H as (_ & _ & H). specialize (H _ _ eq_refl). lia.
  - done.
Qed.

(** C21: decoding what was encoded gives the string back, whenever the
    destination has room to spare. *)
Theorem huff_roundtrip bits0 s dst_len :
  is_bytes s -> (length s < dst_len)%nat ->
  fst (lsqpack_huff_decode_full (qenc_huffman_enc bits0 s) dst_len huff_fresh true)
  = {| hdr_status := HUFF_DEC_OK; hdr_out := s;
       hdr_n_src := length (qenc_huffman_enc bits0 s) |}.
Proof. exact (huff_dec_enc bits0 s dst_len). Qed.

Lemma huff_roundtrip_witness :
  fst (lsqpack_huff_decode_full (qenc_huffman_enc 7 [104; 105; 0]) 4 huff_fresh true)
  = {| hdr_status := HUFF_DEC_OK; hdr_out := [104; 105; 0];
       hdr_n_src := length (qenc_huffman_enc 7 [104; 105; 0]) |}.
Proof.
  apply huff_roundtrip; [repeat constructor; unfold is_u8; lia|simpl; lia].
Defined.

(** C35: the decoder accepts only canonical encodings: if it succeeds on [src],
    then [src] is exactly what the encoder produces for the result (so any
    padding is a proper prefix of EOS, shorter than a byte). *)
Theorem huff_decode_sound bits0 src dst_len out n :
  is_bytes src -> (0 < dst_len)%nat ->
  fst (lsqpack_huff_decode_full src dst_len huff_fresh true)
  = {| hdr_status := HUFF_DEC_OK; hdr_out := out; hdr_n_src := n |} ->
  is_bytes out /\ n = length src /\ src = qenc_huffman_enc bits0 out.
Proof.
  intros Hs Hd. rewrite huff_full_fresh by lia. cbn zeta.
  pose proof (huff_loop_spec src dst_len _ Hs huff_initial_ok) as [Hst H].
  rewrite node_initial in H. destruct (hr_exit _); [|done..].
  destruct (ds_eos _) eqn:He; [|done]. intros [= <- <-]. destruct H as (H & Hn & _).
  apply walk_sound in H as (Ho & Hq & Hb); [|lia].
  change (path_bits 1) with (@nil bool) in Hb. cbn [app] in Hb.
  split; [done|]. split; [done|]. destruct Hst as [_ Heos]. rewrite He in Heos.
  destruct (node_accepts_bits _ Hq (eq_sym Heos)) as (k & Hk & Hp). rewrite Hp in Hb.
  destruct (qenc_huffman_enc_bits bits0 _ Ho) as (k' & Hk' & Hb').
  apply (pad_unique _ _ _ k k' Hk Hk' Hb Hb' Hs). apply huffman_loop_bytes.
Qed.

Lemma huff_decode_sound_witness :
  is_bytes [104; 105] /\ 2%nat = length [0x9c; 0xdf] /\ [0x9c; 0xdf] = qenc_huffman_enc 0 [104; 105].
Proof.
  apply (huff_decode_sound 0 [0x9c; 0xdf] 8).
  - repeat constructor; unfold is_u8; lia.
  - lia.
  - vm_compute. reflexivity.
Defined.

(** Two results agree up to the bytes that were delivered before. *)
Definition continues (out : bytes) (n : nat) (whole rest : huff_decode_retval) : Prop :=
  hdr_status whole = hdr_status rest
  /\ (hdr_status whole <> HUFF_DEC_ERROR ->
      hdr_out whole = out ++ hdr_out rest /\ hdr_n_src whole = (n + hdr_n_src rest)%nat).

(** The part of [lsqpack_huff_decode_full] after the loop. *)
Lemma full_after_switch src room st final status m' (r : huff_run) out n st' :
  (0 < room)%nat ->
  status = (if hds_resume st =? 0 then {| ds_state := 0; ds_eos := true |} else hds_status st) ->
  huff_switch (hds_resume st) src room status = run_add out n r ->
  m' <> 0 -> (0 < st')%nat ->
  forall src2 status2, huff_switch m' src2 st' status2 = r ->
  continues out n (fst (lsqpack_huff_decode_full src room st final))
    (fst (lsqpack_huff_decode_full src2 st' {| hds_resume := m'; hds_status := status2 |} final)).
Proof.
  intros Hr -> Hrun Hm Hr2 src2 status2 Hrun2. unfold lsqpack_huff_decode_full, continues.
  rewrite (decide_False (P := (room = 0)%nat)), (decide_False (P := (st' = 0)%nat)) by lia.
  cbn [hds_resume hds_status]. rewrite (proj2 (Z.eqb_neq m' 0)) by done.
  rewrite Hrun, Hrun2. cbn [run_add hr_exit hr_out hr_nsrc hr_status].
  destruct (hr_exit r), final; try done; by destruct (ds_eos _).
Qed.

(** The resumption points stored on a full destination. *)
Definition resume_point (r : huff_run) : Prop :=
  forall m, hr_exit r = HuffDstFull m -> m = 2 \/ m = 3.

Lemma huff_lo_point b src room st :
  (forall room' st', resume_point (huff_loop src room' st')) ->
  resume_point (huff_lo huff_loop b src room st).
Proof.
  intros IH m. unfold huff_lo. destruct (qdec_huff_dec4bits _ st) as [[o st']|]; [|done]. apply IH.
Qed.

Lemma huff_hi_point b src room st :
  (forall room' st', resume_point (huff_loop src room' st')) ->
  resume_point (huff_hi huff_loop b src room st).
Proof.
  intros IH m. unfold huff_hi. destruct (qdec_huff_dec4bits _ st) as [[o st']|]; [|done].
  case_decide; [|by apply huff_lo_point]. intros [= <-]. by right.
Qed.

Lemma huff_loop_point src room st : resume_point (huff_loop src room st).
Proof.
  revert room st. induction src as [|b src IH]; intros room st; [done|].
  cbn [huff_loop]. case_decide; [|by apply huff_hi_point]. intros m [= <-]. by left.
Qed.

Lemma huff_switch_point m src room st : resume_point (huff_switch m src room st).
Proof.
  pose proof (huff_loop_point src).
  destruct (decide (m = 2)) as [->|]; [|destruct (decide (m = 3)) as [->|]].
  - destruct src; [apply huff_loop_point|]. apply huff_hi_point. apply huff_loop_point.
  - destruct src; [apply huff_loop_point|]. apply huff_lo_point. apply huff_loop_point.
  - by rewrite huff_switch_other.
Qed.

(** When the decoder stops because the destination is full, decoding the
    unread source into more room continues exactly as if the room had been
    there from the start. *)
Theorem huff_decode_dst_resume src dst_len extra st final r st' :
  (0 < dst_len)%nat -> (0 < extra)%nat ->
  lsqpack_huff_decode_full src dst_len st final = (r, st') ->
  hdr_status r = HUFF_DEC_END_DST ->
  continues (hdr_out r) (hdr_n_src r)
    (fst (lsqpack_huff_decode_full src (dst_len + extra) st final))
    (fst (lsqpack_huff_decode_full (drop (hdr_n_src r) src) extra st' final)).
Proof.
  intros Hd Hx Hfull Hr. unfold lsqpack_huff_decode_full in Hfull.
  rewrite decide_False in Hfull by lia.
  set (status := if hds_resume st =? 0 then _ else _) in *.
  destruct (hr_exit (huff_switch (hds_resume st) src dst_len status)) as [|m|] eqn:He.
  - destruct final; injection Hfull as <- <-; simpl in Hr; [|done].
    by destruct (ds_eos _).
  - injection Hfull as <- <-. cbn [hdr_out hdr_n_src].
    pose proof (huff_switch_resume (hds_resume st) src dst_len status Hd m extra He Hx) as Hrun.
    pose proof (huff_switch_point _ _ _ _ _ He).
    eapply (full_after_switch _ _ _ _ status); [lia|done|exact Hrun|lia|done|done].
  - injection Hfull as <- <-. done.
Qed.

(** When the decoder runs out of source in the middle of a string, feeding
    it the next chunk continues exactly as if the chunks had come together. *)
Theorem huff_decode_src_resume src src' dst_len st final r st' :
  (0 < dst_len)%nat -> resume_src_ok (hds_resume st) src ->
  lsqpack_huff_decode_full src dst_len st false = (r, st') ->
  hdr_status r = HUFF_DEC_END_SRC -> (length (hdr_out r) < dst_len)%nat ->
  hdr_n_src r = length src /\
  continues (hdr_out r) (length src)
    (fst (lsqpack_huff_decode_full (src ++ src') dst_len st final))
    (fst (lsqpack_huff_decode_full src' (dst_len - length (hdr_out r)) st' final)).
Proof.
  intros Hd Hok Hfull Hr Hlen. unfold lsqpack_huff_decode_full in Hfull.
  rewrite decide_False in Hfull by lia.
  set (status := if hds_resume st =? 0 then _ else _) in *.
  destruct (hr_exit (huff_switch (hds_resume st) src dst_len status)) as [|m|] eqn:He;
    injection Hfull as <- <-; [|done..].
  cbn [hdr_out hdr_n_src] in *.
  pose proof (huff_switch_app _ _ src' _ _ Hok He) as Hrun. cbn zeta in Hrun. split.
  - pose proof (huff_switch_app _ _ [] _ _ Hok He) as H0. cbn zeta in H0.
    rewrite app_nil_r in H0. apply (f_equal hr_nsrc) in H0. cbn in H0. lia.
  - eapply (full_after_switch _ _ _ _ status); [lia|done|exact Hrun|done|lia|].
    apply huff_switch_other; lia.
Qed.

