(* ===== verification/HuffPairs.v ===== *)
(** * What the large Huffman tables of src/huff-tables.h hold

    With LS_QPACK_USE_LARGE_TABLES, which is the default, the encoder looks two bytes
    up at once in [hencs] and the decoder sixteen bits in [hdecs].  Here are the types
    of their elements and what the elements should be: the codes of the two bytes
    ([pair_entry]), and the symbols that a walk through the code tree meets on the
    sixteen bits ([scan_entry]).  [HencTable] and [HdecTable] have the tables and compare
    them with this. *)

From S2P Require Import Prelude HuffTables Huffman.

(** [struct henc] *)
Record henc := Henc { henc_lens : Z; henc_code : Z }.

(** [struct hdec] *)
Record hdec := Hdec { hdec_lens : Z; hdec_out : list Z }.

Lemma code_bits_app s s' : code_bits (s ++ s') = code_bits s ++ code_bits s'.
Proof. apply bind_app. Qed.

(** ** Two bytes *)

(** The codes of the bytes [a] and [b], when they fit 32 bits; 64 bits stand for
    an invalid element. *)
Definition pair_entry (a b : encode_el) : henc :=
  let lens := ee_bits a + ee_bits b in
  if lens <=? 32 then Henc lens (Z.lor (Z.shiftl (ee_code a) (ee_bits b)) (ee_code b)) else Henc 64 0.

(** The elements for all first bytes and one second byte. *)
Definition pair_row (b : encode_el) : list henc := (fun a => pair_entry a b) <$> take 256 encode_table.

(** ** Sixteen bits *)

(** The code tree down to some depth; inner nodes are named as in [Huffman.walk]. *)
Inductive code_tree :=
  | Leaf (c : Z)
  | Node (p : Z) (zero one : code_tree)
  | Cut (p : Z).

Fixpoint grow_tree (depth : nat) (p : Z) : code_tree :=
  match find_leaf p leaves 0 with
  | Some c => Leaf c
  | None =>
      match depth with
      | O => Cut p
      | S depth => Node p (grow_tree depth (2 * p)) (grow_tree depth (2 * p + 1))
      end
  end.

Definition tree16 : code_tree := Eval vm_compute in grow_tree 16 1.

(** A walk: where it is, the symbols met, the bits of their codes, and the bits since. *)
Record scan := Scan { sc_tree : code_tree; sc_syms : list Z; sc_used : Z; sc_path : Z }.

Definition scan_start : scan := Scan tree16 [] 0 0.

Definition scan_bit (s : scan) (b : bool) : scan :=
  match sc_tree s with
  | Node _ zero one =>
      match (if b then one else zero) with
      | Leaf c => Scan tree16 (sc_syms s ++ [c]) (sc_used s + sc_path s + 1) 0
      | t => Scan t (sc_syms s) (sc_used s) (sc_path s + 1)
      end
  | _ => s
  end.

(** All walks that go [d] bits on, in the order of the bits. *)
Fixpoint spread (d : nat) (s : scan) : list scan :=
  match d with
  | O => [s]
  | S d => spread d (scan_bit s false) ++ spread d (scan_bit s true)
  end.

(** The bits and the number of the symbols, and the symbols, filled up to three. *)
Definition scan_entry (s : scan) : hdec :=
  Hdec (Z.lor (Z.shiftl (sc_used s) 2) (Z.of_nat (length (sc_syms s)))) (take 3 (sc_syms s ++ [0; 0; 0])).

(** The rows are by high byte. *)
Definition scans8 : list scan := spread 8 scan_start.

(** ** The walk of a scan *)

Lemma spread_lookup d : forall s v, 0 <= v < 2 ^ Z.of_nat d ->
  spread d s !! Z.to_nat v = Some (fold_left scan_bit (z_bits d v) s).
Proof.
  assert (forall d s, length (spread d s) = (2 ^ d)%nat) as Hlen.
  { clear. induction d as [|d IH]; intros s; [done|]. cbn [spread]. rewrite length_app, !IH. cbn. lia. }
  induction d as [|d IH]; intros s v Hv.
  { change (2 ^ Z.of_nat 0) with 1 in Hv. by replace v with 0 by lia. }
  cbn [spread z_bits fold_left].
  assert (Z.of_nat (2 ^ d) = 2 ^ Z.of_nat d) as Epow by (rewrite Nat2Z.inj_pow; done).
  assert (2 ^ Z.of_nat (S d) = 2 * 2 ^ Z.of_nat d) as E2 by (rewrite Nat2Z.inj_succ; by apply Z.pow_succ_r, Nat2Z.is_nonneg).
  assert (Z.testbit v (Z.of_nat d) = (2 ^ Z.of_nat d <=? v)) as ->.
  { rewrite Z.testbit_eqb by lia. destruct (Z.leb_spec (2 ^ Z.of_nat d) v) as [Hle|Hlt].
    - rewrite <- (Z.div_unique_pos v (2 ^ Z.of_nat d) 1 (v - 2 ^ Z.of_nat d)) by lia. done.
    - by rewrite Z.div_small by lia. }
  destruct (Z.leb_spec (2 ^ Z.of_nat d) v) as [Hle|Hlt].
  - rewrite lookup_app_r by (rewrite Hlen; lia). rewrite Hlen.
    replace (Z.to_nat v - 2 ^ d)%nat with (Z.to_nat (v - 2 ^ Z.of_nat d)) by lia. rewrite IH by lia. do 2 f_equal.
    rewrite <- (z_bits_mod d v), <- (z_bits_mod d (v - 2 ^ Z.of_nat d)). f_equal.
    rewrite <- (Z_mod_plus_full (v - 2 ^ Z.of_nat d) 1). f_equal. lia.
  - rewrite lookup_app_l by (rewrite Hlen; lia). apply IH. lia.
Qed.

(** [s] is the walk along [bs]. *)
Record scanned (bs : list bool) (s : scan) : Prop := {
  sd_walk : exists p, walk 1 bs = Some (sc_syms s, p) /\ 1 <= p < 2 ^ (1 + Z.of_nat (length bs))
    /\ find_leaf p leaves 0 = None /\ sc_path s = Z.log2 p
    /\ exists d, (16 <= d + length bs)%nat /\ sc_tree s = grow_tree d p;
  sd_bits : sc_used s + sc_path s = Z.of_nat (length bs);
}.

Lemma tree16_grown : tree16 = grow_tree 16 1.
Proof. vm_compute. reflexivity. Qed.

Lemma root_inner : find_leaf 1 leaves 0 = None.
Proof. vm_compute. reflexivity. Qed.

Lemma eos_leaf p : find_leaf p leaves 0 = Some 256 -> p = 2 ^ 31 - 1.
Proof.
  intros (i & Hi & E)%find_leaf_sound. assert (i = 256%nat) as -> by lia.
  assert (leaves !! 256%nat = Some (2 ^ 31 - 1)) as E2 by (vm_compute; reflexivity). congruence.
Qed.

Lemma scanned_start : scanned [] scan_start.
Proof.
  constructor; [|done]. exists 1. split; [done|]. split; [by cbn|]. split; [apply root_inner|]. split; [done|].
  exists 16%nat. split; [cbn; lia|apply tree16_grown].
Qed.

Lemma grow_inner d p : find_leaf p leaves 0 = None ->
  grow_tree (S d) p = Node p (grow_tree d (2 * p)) (grow_tree d (2 * p + 1)).
Proof. intros H. cbn [grow_tree]. by rewrite H. Qed.

Lemma scanned_bit bs s b : scanned bs s -> (length bs < 16)%nat -> scanned (bs ++ [b]) (scan_bit s b).
Proof.
  intros [(p & Hw & Hp & Hin & Hpath & d & Hd & Ht) Hb] Hlen. destruct d as [|d]; [lia|].
  unfold scan_bit. rewrite Ht, grow_inner by done. set (q := 2 * p + Z.b2z b).
  assert ((if b then grow_tree d (2 * p + 1) else grow_tree d (2 * p)) = grow_tree d q) as ->
    by (unfold q; destruct b; cbn [Z.b2z]; [done|by rewrite Z.add_0_r]).
  assert (1 + Z.of_nat (length (bs ++ [b])) = Z.succ (1 + Z.of_nat (length bs))) as El by (rewrite length_app; cbn; lia).
  assert (1 <= q < 2 ^ (1 + Z.of_nat (length (bs ++ [b])))) as Hq.
  { rewrite El, Z.pow_succ_r by lia. unfold q. destruct b; cbn [Z.b2z]; lia. }
  assert (Z.log2 q = Z.log2 p + 1) as Hlog.
  { unfold q. destruct b; cbn [Z.b2z]; [rewrite Z.log2_succ_double by lia|rewrite Z.add_0_r, Z.log2_double by lia]; lia. }
  assert (walk 1 (bs ++ [b]) = match find_leaf q leaves 0 with
    | Some c => if c =? 256 then None else Some (sc_syms s ++ [c], 1) | None => Some (sc_syms s, q) end) as Hw2.
  { rewrite walk_app, Hw. cbn [walk]. fold q. destruct (find_leaf q leaves 0) as [c|]; [destruct (c =? 256)|]; cbn; [done|done|by rewrite app_nil_r]. }
  rewrite length_app in *. cbn [length] in *.
  destruct (find_leaf q leaves 0) as [c|] eqn:E.
  - destruct (Z.eqb_spec c 256) as [->|Hc].
    { apply eos_leaf in E. assert (2 ^ (1 + Z.of_nat (length bs + 1)) <= 2 ^ 17) by (apply Z.pow_le_mono_r; lia).
      change (2 ^ 31) with 2147483648 in E. change (2 ^ 17) with 131072 in *. lia. }
    assert (grow_tree d q = Leaf c) as -> by (destruct d; cbn [grow_tree]; by rewrite E).
    constructor; cbn [sc_syms sc_used sc_path sc_tree]; rewrite length_app; cbn [length]; [|lia]. exists 1. split; [done|].
    split; [split; [lia|]; apply (Z.pow_gt_1 2); lia|]. split; [apply root_inner|]. split; [done|].
    exists 16%nat. split; [lia|apply tree16_grown].
  - assert (match grow_tree d q with Leaf c => Scan tree16 (sc_syms s ++ [c]) (sc_used s + sc_path s + 1) 0
      | t => Scan t (sc_syms s) (sc_used s) (sc_path s + 1) end = Scan (grow_tree d q) (sc_syms s) (sc_used s) (sc_path s + 1)) as ->
      by (destruct d; cbn [grow_tree]; by rewrite E).
    constructor; cbn [sc_syms sc_used sc_path sc_tree]; rewrite length_app; cbn [length]; [|lia]. exists q. split; [done|]. split; [done|]. split; [done|].
    split; [lia|]. exists d. split; [lia|done].
Qed.

Lemma scanned_all bs : (length bs <= 16)%nat -> scanned bs (fold_left scan_bit bs scan_start).
Proof.
  induction bs as [|b bs IH] using rev_ind; intros Hl; [apply scanned_start|]. rewrite length_app in Hl. cbn in Hl.
  rewrite fold_left_app. cbn [fold_left]. apply scanned_bit; [apply IH|]; lia.
Qed.

(** ** What an element says *)

(** [h] has the symbols [syms]; their codes take [used] bits. *)
Record hdec_for (bs : list bool) (h : hdec) : Prop := {
  hf_symbols : exists syms q, walk 1 bs = Some (syms, q)
    /\ Z.land (hdec_lens h) 3 = Z.of_nat (length syms)
    /\ Z.shiftr (hdec_lens h) 2 = Z.of_nat (length (code_bits syms))
    /\ take (length syms) (hdec_out h) = syms;
  hf_three : length (hdec_out h) = 3%nat;
}.

Lemma scan_entry_for bs : length bs = 16%nat -> hdec_for bs (scan_entry (fold_left scan_bit bs scan_start)).
Proof.
  intros Hl. destruct (scanned_all bs) as [(p & Hw & Hp & _ & Hpath & _) Hb]; [lia|].
  set (s := fold_left scan_bit bs scan_start) in *. pose proof (walk_length _ _ _ Hw) as H5.
  apply walk_sound in Hw as Hs; [|lia]. destruct Hs as (_ & _ & Hs). change (path_bits 1) with (@nil bool) in Hs.
  cbn [app] in Hs. apply (f_equal length) in Hs. rewrite length_app in Hs. unfold path_bits in Hs. rewrite length_z_bits in Hs.
  pose proof (Z.log2_nonneg p) as Hlog. assert (length (sc_syms s) <= 3)%nat as H3 by lia.
  assert (sc_used s = Z.of_nat (length (code_bits (sc_syms s)))) as Hu by lia.
  constructor; [|unfold scan_entry; cbn [hdec_out]; rewrite length_take, length_app; change (length [0; 0; 0]) with 3%nat; lia].
  exists (sc_syms s), p. split; [done|]. unfold scan_entry. cbn [hdec_lens hdec_out].
  set (n := Z.of_nat (length (sc_syms s))) in *. assert (0 <= n < 4) as Hn by lia.
  assert (Z.lor (sc_used s ≪ 2) n = sc_used s * 4 + n) as ->.
  { rewrite <- Z.add_lor_land, Z.shiftl_mul_pow2 by lia. change (2 ^ 2) with 4.
    assert (Z.land (sc_used s * 4) n = 0) as ->; [|lia]. apply Z.bits_inj'. intros i Hi. rewrite Z.land_spec, Z.bits_0.
    destruct (Z.lt_ge_cases i 2) as [Hlt|Hge].
    - change 4 with (2 ^ 2). rewrite Z.mul_pow2_bits_low by lia. done.
    - rewrite (testbit_high n 2) by (change (2 ^ 2) with 4; lia). apply andb_false_r. }
  split; [|split].
  - change 3 with (Z.ones 2). rewrite Z.land_ones by lia. change (2 ^ 2) with 4. rewrite Z.add_comm, Z_mod_plus_full, Z.mod_small by lia. done.
  - rewrite Z.shiftr_div_pow2 by lia. change (2 ^ 2) with 4. rewrite Z.div_add_l by lia. rewrite Z.div_small by lia. lia.
  - rewrite take_take, Nat.min_l by lia. apply take_app_length.
Qed.
