(* ===== verification/HencTable.v ===== *)
(** * The table [hencs]

    [hencs_<j>] has the elements [[I(0,j)]] to [[I(255,j)]] of src/huff-tables.h: [X]
    is the invalid one, {64,0}, and X32 is 32.  They are the codes of the two bytes
    ([hencs_rows]). *)

From S2P Require Import Prelude HuffTables Huffman HuffPairs.

#[local] Abbreviation E := Henc.
#[local] Abbreviation X := (Henc 64 0).

Definition hencs_0 : list henc := [
  E 26 0x3ff1ff8; X; X; X; X; X; X; X; X; X; X; X; X; X; X; X; X; X; X; X; X; X; X; X; X; X; X; X; X; X; X; X;
  E 19 0x29ff8; E 23 0x7f1ff8; E 23 0x7f3ff8; E 25 0x1ff5ff8; E 26 0x3ff3ff8; E 19 0x2bff8; E 21 0x1f1ff8;
  E 24 0xff5ff8; E 23 0x7f5ff8; E 23 0x7f7ff8; E 21 0x1f3ff8; E 24 0xff7ff8; E 21 0x1f5ff8; E 19 0x2dff8;
  E 19 0x2fff8; E 19 0x31ff8; E 18 0x1ff8; E 18 0x3ff8; E 18 0x5ff8; E 19 0x33ff8; E 19 0x35ff8; E 19 0x37ff8;
  E 19 0x39ff8; E 19 0x3bff8; E 19 0x3dff8; E 19 0x3fff8; E 20 0xb9ff8; E 21 0x1f7ff8; E 28 0xfff9ff8; E 19 0x41ff8;
  E 25 0x1ff7ff8; E 23 0x7f9ff8; E 26 0x3ff5ff8; E 19 0x43ff8; E 20 0xbbff8; E 20 0xbdff8; E 20 0xbfff8; E 20 0xc1ff8;
  E 20 0xc3ff8; E 20 0xc5ff8; E 20 0xc7ff8; E 20 0xc9ff8; E 20 0xcbff8; E 20 0xcdff8; E 20 0xcfff8; E 20 0xd1ff8;
  E 20 0xd3ff8; E 20 0xd5ff8; E 20 0xd7ff8; E 20 0xd9ff8; E 20 0xdbff8; E 20 0xddff8; E 20 0xdfff8; E 20 0xe1ff8;
  E 20 0xe3ff8; E 20 0xe5ff8; E 21 0x1f9ff8; E 20 0xe7ff8; E 21 0x1fbff8; E 26 0x3ff7ff8; E 32 0xfffe1ff8;
  E 26 0x3ff9ff8; E 27 0x7ff9ff8; E 19 0x45ff8; E 28 0xfffbff8; E 18 0x7ff8; E 19 0x47ff8; E 18 0x9ff8; E 19 0x49ff8;
  E 18 0xbff8; E 19 0x4bff8; E 19 0x4dff8; E 19 0x4fff8; E 18 0xdff8; E 20 0xe9ff8; E 20 0xebff8; E 19 0x51ff8;
  E 19 0x53ff8; E 19 0x55ff8; E 18 0xfff8; E 19 0x57ff8; E 20 0xedff8; E 19 0x59ff8; E 18 0x11ff8; E 18 0x13ff8;
  E 19 0x5bff8; E 20 0xefff8; E 20 0xf1ff8; E 20 0xf3ff8; E 20 0xf5ff8; E 20 0xf7ff8; E 28 0xfffdff8; E 24 0xff9ff8;
  E 27 0x7ffbff8; E 26 0x3ffbff8; X; X; X; X; X; X; X; X; X; X; X; X; X; X; X; X; X; X; X; X; X; X; X; X; X; X; X; X;
  X; X; X; X; X; X; X; X; X; X; X; X; X; X; X; X; X; X; X; X; X; X; X; X; X; X; X; X; X; X; X; X; X; X; X; X; X; X; X;
  X; E 32 0xfffe3ff8; X; X; X; X; X; X; X; X; X; X; X; X; E 32 0xfffe5ff8; X; X; X; X; X; X; X; X; X; X; X; X; X; X;
  X; X; X; X; X; X; X; X; X; X; X; X; X; X; X; X; X; X; X; X; X; X; X; X; X; X; X; X; X; X; X; X; X].
Definition hencs_1 : list henc := [
  X; X; X; X; X; X; X; X; X; X; X; X; X; X; X; X; X; X; X; X; X; X; X; X; X; X; X; X; X; X; X; X; E 29 0xa7fffd8; X;
  X; X; X; E 29 0xaffffd8; E 31 0x7c7fffd8; X; X; X; E 31 0x7cffffd8; X; E 31 0x7d7fffd8; E 29 0xb7fffd8;
  E 29 0xbffffd8; E 29 0xc7fffd8; E 28 0x7fffd8; E 28 0xffffd8; E 28 0x17fffd8; E 29 0xcffffd8; E 29 0xd7fffd8;
  E 29 0xdffffd8; E 29 0xe7fffd8; E 29 0xeffffd8; E 29 0xf7fffd8; E 29 0xfffffd8; E 30 0x2e7fffd8; E 31 0x7dffffd8; X;
  E 29 0x107fffd8; X; X; X; E 29 0x10ffffd8; E 30 0x2effffd8; E 30 0x2f7fffd8; E 30 0x2fffffd8; E 30 0x307fffd8;
  E 30 0x30ffffd8; E 30 0x317fffd8; E 30 0x31ffffd8; E 30 0x327fffd8; E 30 0x32ffffd8; E 30 0x337fffd8;
  E 30 0x33ffffd8; E 30 0x347fffd8; E 30 0x34ffffd8; E 30 0x357fffd8; E 30 0x35ffffd8; E 30 0x367fffd8;
  E 30 0x36ffffd8; E 30 0x377fffd8; E 30 0x37ffffd8; E 30 0x387fffd8; E 30 0x38ffffd8; E 30 0x397fffd8;
  E 31 0x7e7fffd8; E 30 0x39ffffd8; E 31 0x7effffd8; X; X; X; X; E 29 0x117fffd8; X; E 28 0x1ffffd8; E 29 0x11ffffd8;
  E 28 0x27fffd8; E 29 0x127fffd8; E 28 0x2ffffd8; E 29 0x12ffffd8; E 29 0x137fffd8; E 29 0x13ffffd8; E 28 0x37fffd8;
  E 30 0x3a7fffd8; E 30 0x3affffd8; E 29 0x147fffd8; E 29 0x14ffffd8; E 29 0x157fffd8; E 28 0x3ffffd8;
  E 29 0x15ffffd8; E 30 0x3b7fffd8; E 29 0x167fffd8; E 28 0x47fffd8; E 28 0x4ffffd8; E 29 0x16ffffd8; E 30 0x3bffffd8;
  E 30 0x3c7fffd8; E 30 0x3cffffd8; E 30 0x3d7fffd8; E 30 0x3dffffd8; X; X; X; X; X; X; X; X; X; X; X; X; X; X; X; X;
  X; X; X; X; X; X; X; X; X; X; X; X; X; X; X; X; X; X; X; X; X; X; X; X; X; X; X; X; X; X; X; X; X; X; X; X; X; X; X;
  X; X; X; X; X; X; X; X; X; X; X; X; X; X; X; X; X; X; X; X; X; X; X; X; X; X; X; X; X; X; X; X; X; X; X; X; X; X; X;
  X; X; X; X; X; X; X; X; X; X; X; X; X; X; X; X; X; X; X; X; X; X; X; X; X; X; X; X; X; X; X; X; X; X; X; X; X; X; X].
Definition hencs_2 : list henc := [
  X; X; X; X; X; X; X; X; X; X; X; X; X; X; X; X; X; X; X; X; X; X; X; X; X; X; X; X; X; X; X; X; X; X; X; X; X; X; X;
  X; X; X; X; X; X; X; X; X; X; X; X; X; X; X; X; X; X; X; X; X; X; X; X; X; X; X; X; X; X; X; X; X; X; X; X; X; X; X;
  X; X; X; X; X; X; X; X; X; X; X; X; X; X; X; X; X; X; X; X; X; X; X; X; X; X; X; X; X; X; X; X; X; X; X; X; X; X; X;
  X; X; X; X; X; X; X; X; X; X; X; X; X; X; X; X; X; X; X; X; X; X; X; X; X; X; X; X; X; X; X; X; X; X; X; X; X; X; X;
  X; X; X; X; X; X; X; X; X; X; X; X; X; X; X; X; X; X; X; X; X; X; X; X; X; X; X; X; X; X; X; X; X; X; X; X; X; X; X;
  X; X; X; X; X; X; X; X; X; X; X; X; X; X; X; X; X; X; X; X; X; X; X; X; X; X; X; X; X; X; X; X; X; X; X; X; X; X; X;
  X; X; X; X; X; X; X; X; X; X; X; X; X; X; X; X; X; X; X; X; X; X].
Definition hencs_3 : list henc := [
  X; X; X; X; X; X; X; X; X; X; X; X; X; X; X; X; X; X; X; X; X; X; X; X; X; X; X; X; X; X; X; X; X; X; X; X; X; X; X;
  X; X; X; X; X; X; X; X; X; X; X; X; X; X; X; X; X; X; X; X; X; X; X; X; X; X; X; X; X; X; X; X; X; X; X; X; X; X; X;
  X; X; X; X; X; X; X; X; X; X; X; X; X; X; X; X; X; X; X; X; X; X; X; X; X; X; X; X; X; X; X; X; X; X; X; X; X; X; X;
  X; X; X; X; X; X; X; X; X; X; X; X; X; X; X; X; X; X; X; X; X; X; X; X; X; X; X; X; X; X; X; X; X; X; X; X; X; X; X;
  X; X; X; X; X; X; X; X; X; X; X; X; X; X; X; X; X; X; X; X; X; X; X; X; X; X; X; X; X; X; X; X; X; X; X; X; X; X; X;
  X; X; X; X; X; X; X; X; X; X; X; X; X; X; X; X; X; X; X; X; X; X; X; X; X; X; X; X; X; X; X; X; X; X; X; X; X; X; X;
  X; X; X; X; X; X; X; X; X; X; X; X; X; X; X; X; X; X; X; X; X; X].
Definition hencs_4 : list henc := [
  X; X; X; X; X; X; X; X; X; X; X; X; X; X; X; X; X; X; X; X; X; X; X; X; X; X; X; X; X; X; X; X; X; X; X; X; X; X; X;
  X; X; X; X; X; X; X; X; X; X; X; X; X; X; X; X; X; X; X; X; X; X; X; X; X; X; X; X; X; X; X; X; X; X; X; X; X; X; X;
  X; X; X; X; X; X; X; X; X; X; X; X; X; X; X; X; X; X; X; X; X; X; X; X; X; X; X; X; X; X; X; X; X; X; X; X; X; X; X;
  X; X; X; X; X; X; X; X; X; X; X; X; X; X; X; X; X; X; X; X; X; X; X; X; X; X; X; X; X; X; X; X; X; X; X; X; X; X; X;
  X; X; X; X; X; X; X; X; X; X; X; X; X; X; X; X; X; X; X; X; X; X; X; X; X; X; X; X; X; X; X; X; X; X; X; X; X; X; X;
  X; X; X; X; X; X; X; X; X; X; X; X; X; X; X; X; X; X; X; X; X; X; X; X; X; X; X; X; X; X; X; X; X; X; X; X; X; X; X;
  X; X; X; X; X; X; X; X; X; X; X; X; X; X; X; X; X; X; X; X; X; X].
Definition hencs_5 : list henc := [
  X; X; X; X; X; X; X; X; X; X; X; X; X; X; X; X; X; X; X; X; X; X; X; X; X; X; X; X; X; X; X; X; X; X; X; X; X; X; X;
  X; X; X; X; X; X; X; X; X; X; X; X; X; X; X; X; X; X; X; X; X; X; X; X; X; X; X; X; X; X; X; X; X; X; X; X; X; X; X;
  X; X; X; X; X; X; X; X; X; X; X; X; X; X; X; X; X; X; X; X; X; X; X; X; X; X; X; X; X; X; X; X; X; X; X; X; X; X; X;
  X; X; X; X; X; X; X; X; X; X; X; X; X; X; X; X; X; X; X; X; X; X; X; X; X; X; X; X; X; X; X; X; X; X; X; X; X; X; X;
  X; X; X; X; X; X; X; X; X; X; X; X; X; X; X; X; X; X; X; X; X; X; X; X; X; X; X; X; X; X; X; X; X; X; X; X; X; X; X;
  X; X; X; X; X; X; X; X; X; X; X; X; X; X; X; X; X; X; X; X; X; X; X; X; X; X; X; X; X; X; X; X; X; X; X; X; X; X; X;
  X; X; X; X; X; X; X; X; X; X; X; X; X; X; X; X; X; X; X; X; X; X].
Definition hencs_6 : list henc := [
  X; X; X; X; X; X; X; X; X; X; X; X; X; X; X; X; X; X; X; X; X; X; X; X; X; X; X; X; X; X; X; X; X; X; X; X; X; X; X;
  X; X; X; X; X; X; X; X; X; X; X; X; X; X; X; X; X; X; X; X; X; X; X; X; X; X; X; X; X; X; X; X; X; X; X; X; X; X; X;
  X; X; X; X; X; X; X; X; X; X; X; X; X; X; X; X; X; X; X; X; X; X; X; X; X; X; X; X; X; X; X; X; X; X; X; X; X; X; X;
  X; X; X; X; X; X; X; X; X; X; X; X; X; X; X; X; X; X; X; X; X; X; X; X; X; X; X; X; X; X; X; X; X; X; X; X; X; X; X;
  X; X; X; X; X; X; X; X; X; X; X; X; X; X; X; X; X; X; X; X; X; X; X; X; X; X; X; X; X; X; X; X; X; X; X; X; X; X; X;
  X; X; X; X; X; X; X; X; X; X; X; X; X; X; X; X; X; X; X; X; X; X; X; X; X; X; X; X; X; X; X; X; X; X; X; X; X; X; X;
  X; X; X; X; X; X; X; X; X; X; X; X; X; X; X; X; X; X; X; X; X; X].
Definition hencs_7 : list henc := [
  X; X; X; X; X; X; X; X; X; X; X; X; X; X; X; X; X; X; X; X; X; X; X; X; X; X; X; X; X; X; X; X; X; X; X; X; X; X; X;
  X; X; X; X; X; X; X; X; X; X; X; X; X; X; X; X; X; X; X; X; X; X; X; X; X; X; X; X; X; X; X; X; X; X; X; X; X; X; X;
  X; X; X; X; X; X; X; X; X; X; X; X; X; X; X; X; X; X; X; X; X; X; X; X; X; X; X; X; X; X; X; X; X; X; X; X; X; X; X;
  X; X; X; X; X; X; X; X; X; X; X; X; X; X; X; X; X; X; X; X; X; X; X; X; X; X; X; X; X; X; X; X; X; X; X; X; X; X; X;
  X; X; X; X; X; X; X; X; X; X; X; X; X; X; X; X; X; X; X; X; X; X; X; X; X; X; X; X; X; X; X; X; X; X; X; X; X; X; X;
  X; X; X; X; X; X; X; X; X; X; X; X; X; X; X; X; X; X; X; X; X; X; X; X; X; X; X; X; X; X; X; X; X; X; X; X; X; X; X;
  X; X; X; X; X; X; X; X; X; X; X; X; X; X; X; X; X; X; X; X; X; X].
Definition hencs_8 : list henc := [
  X; X; X; X; X; X; X; X; X; X; X; X; X; X; X; X; X; X; X; X; X; X; X; X; X; X; X; X; X; X; X; X; X; X; X; X; X; X; X;
  X; X; X; X; X; X; X; X; X; X; X; X; X; X; X; X; X; X; X; X; X; X; X; X; X; X; X; X; X; X; X; X; X; X; X; X; X; X; X;
  X; X; X; X; X; X; X; X; X; X; X; X; X; X; X; X; X; X; X; X; X; X; X; X; X; X; X; X; X; X; X; X; X; X; X; X; X; X; X;
  X; X; X; X; X; X; X; X; X; X; X; X; X; X; X; X; X; X; X; X; X; X; X; X; X; X; X; X; X; X; X; X; X; X; X; X; X; X; X;
  X; X; X; X; X; X; X; X; X; X; X; X; X; X; X; X; X; X; X; X; X; X; X; X; X; X; X; X; X; X; X; X; X; X; X; X; X; X; X;
  X; X; X; X; X; X; X; X; X; X; X; X; X; X; X; X; X; X; X; X; X; X; X; X; X; X; X; X; X; X; X; X; X; X; X; X; X; X; X;
  X; X; X; X; X; X; X; X; X; X; X; X; X; X; X; X; X; X; X; X; X; X].
Definition hencs_9 : list henc := [
  X; X; X; X; X; X; X; X; X; X; X; X; X; X; X; X; X; X; X; X; X; X; X; X; X; X; X; X; X; X; X; X; E 30 0x14ffffea; X;
  X; X; X; E 30 0x15ffffea; E 32 0xf8ffffea; X; X; X; E 32 0xf9ffffea; X; E 32 0xfaffffea; E 30 0x16ffffea;
  E 30 0x17ffffea; E 30 0x18ffffea; E 29 0xffffea; E 29 0x1ffffea; E 29 0x2ffffea; E 30 0x19ffffea; E 30 0x1affffea;
  E 30 0x1bffffea; E 30 0x1cffffea; E 30 0x1dffffea; E 30 0x1effffea; E 30 0x1fffffea; E 31 0x5cffffea;
  E 32 0xfbffffea; X; E 30 0x20ffffea; X; X; X; E 30 0x21ffffea; E 31 0x5dffffea; E 31 0x5effffea; E 31 0x5fffffea;
  E 31 0x60ffffea; E 31 0x61ffffea; E 31 0x62ffffea; E 31 0x63ffffea; E 31 0x64ffffea; E 31 0x65ffffea;
  E 31 0x66ffffea; E 31 0x67ffffea; E 31 0x68ffffea; E 31 0x69ffffea; E 31 0x6affffea; E 31 0x6bffffea;
  E 31 0x6cffffea; E 31 0x6dffffea; E 31 0x6effffea; E 31 0x6fffffea; E 31 0x70ffffea; E 31 0x71ffffea;
  E 31 0x72ffffea; E 32 0xfcffffea; E 31 0x73ffffea; E 32 0xfdffffea; X; X; X; X; E 30 0x22ffffea; X; E 29 0x3ffffea;
  E 30 0x23ffffea; E 29 0x4ffffea; E 30 0x24ffffea; E 29 0x5ffffea; E 30 0x25ffffea; E 30 0x26ffffea; E 30 0x27ffffea;
  E 29 0x6ffffea; E 31 0x74ffffea; E 31 0x75ffffea; E 30 0x28ffffea; E 30 0x29ffffea; E 30 0x2affffea; E 29 0x7ffffea;
  E 30 0x2bffffea; E 31 0x76ffffea; E 30 0x2cffffea; E 29 0x8ffffea; E 29 0x9ffffea; E 30 0x2dffffea; E 31 0x77ffffea;
  E 31 0x78ffffea; E 31 0x79ffffea; E 31 0x7affffea; E 31 0x7bffffea; X; X; X; X; X; X; X; X; X; X; X; X; X; X; X; X;
  X; X; X; X; X; X; X; X; X; X; X; X; X; X; X; X; X; X; X; X; X; X; X; X; X; X; X; X; X; X; X; X; X; X; X; X; X; X; X;
  X; X; X; X; X; X; X; X; X; X; X; X; X; X; X; X; X; X; X; X; X; X; X; X; X; X; X; X; X; X; X; X; X; X; X; X; X; X; X;
  X; X; X; X; X; X; X; X; X; X; X; X; X; X; X; X; X; X; X; X; X; X; X; X; X; X; X; X; X; X; X; X; X; X; X; X; X; X; X].
Definition hencs_10 : list henc := [
  X; X; X; X; X; X; X; X; X; X; X; X; X; X; X; X; X; X; X; X; X; X; X; X; X; X; X; X; X; X; X; X; X; X; X; X; X; X; X;
  X; X; X; X; X; X; X; X; X; X; X; X; X; X; X; X; X; X; X; X; X; X; X; X; X; X; X; X; X; X; X; X; X; X; X; X; X; X; X;
  X; X; X; X; X; X; X; X; X; X; X; X; X; X; X; X; X; X; X; X; X; X; X; X; X; X; X; X; X; X; X; X; X; X; X; X; X; X; X;
  X; X; X; X; X; X; X; X; X; X; X; X; X; X; X; X; X; X; X; X; X; X; X; X; X; X; X; X; X; X; X; X; X; X; X; X; X; X; X;
  X; X; X; X; X; X; X; X; X; X; X; X; X; X; X; X; X; X; X; X; X; X; X; X; X; X; X; X; X; X; X; X; X; X; X; X; X; X; X;
  X; X; X; X; X; X; X; X; X; X; X; X; X; X; X; X; X; X; X; X; X; X; X; X; X; X; X; X; X; X; X; X; X; X; X; X; X; X; X;
  X; X; X; X; X; X; X; X; X; X; X; X; X; X; X; X; X; X; X; X; X; X].
Definition hencs_11 : list henc := [
  X; X; X; X; X; X; X; X; X; X; X; X; X; X; X; X; X; X; X; X; X; X; X; X; X; X; X; X; X; X; X; X; X; X; X; X; X; X; X;
  X; X; X; X; X; X; X; X; X; X; X; X; X; X; X; X; X; X; X; X; X; X; X; X; X; X; X; X; X; X; X; X; X; X; X; X; X; X; X;
  X; X; X; X; X; X; X; X; X; X; X; X; X; X; X; X; X; X; X; X; X; X; X; X; X; X; X; X; X; X; X; X; X; X; X; X; X; X; X;
  X; X; X; X; X; X; X; X; X; X; X; X; X; X; X; X; X; X; X; X; X; X; X; X; X; X; X; X; X; X; X; X; X; X; X; X; X; X; X;
  X; X; X; X; X; X; X; X; X; X; X; X; X; X; X; X; X; X; X; X; X; X; X; X; X; X; X; X; X; X; X; X; X; X; X; X; X; X; X;
  X; X; X; X; X; X; X; X; X; X; X; X; X; X; X; X; X; X; X; X; X; X; X; X; X; X; X; X; X; X; X; X; X; X; X; X; X; X; X;
  X; X; X; X; X; X; X; X; X; X; X; X; X; X; X; X; X; X; X; X; X; X].
Definition hencs_12 : list henc := [
  X; X; X; X; X; X; X; X; X; X; X; X; X; X; X; X; X; X; X; X; X; X; X; X; X; X; X; X; X; X; X; X; X; X; X; X; X; X; X;
  X; X; X; X; X; X; X; X; X; X; X; X; X; X; X; X; X; X; X; X; X; X; X; X; X; X; X; X; X; X; X; X; X; X; X; X; X; X; X;
  X; X; X; X; X; X; X; X; X; X; X; X; X; X; X; X; X; X; X; X; X; X; X; X; X; X; X; X; X; X; X; X; X; X; X; X; X; X; X;
  X; X; X; X; X; X; X; X; X; X; X; X; X; X; X; X; X; X; X; X; X; X; X; X; X; X; X; X; X; X; X; X; X; X; X; X; X; X; X;
  X; X; X; X; X; X; X; X; X; X; X; X; X; X; X; X; X; X; X; X; X; X; X; X; X; X; X; X; X; X; X; X; X; X; X; X; X; X; X;
  X; X; X; X; X; X; X; X; X; X; X; X; X; X; X; X; X; X; X; X; X; X; X; X; X; X; X; X; X; X; X; X; X; X; X; X; X; X; X;
  X; X; X; X; X; X; X; X; X; X; X; X; X; X; X; X; X; X; X; X; X; X].
Definition hencs_13 : list henc := [
  X; X; X; X; X; X; X; X; X; X; X; X; X; X; X; X; X; X; X; X; X; X; X; X; X; X; X; X; X; X; X; X; X; X; X; X; X; X; X;
  X; X; X; X; X; X; X; X; X; X; X; X; X; X; X; X; X; X; X; X; X; X; X; X; X; X; X; X; X; X; X; X; X; X; X; X; X; X; X;
  X; X; X; X; X; X; X; X; X; X; X; X; X; X; X; X; X; X; X; X; X; X; X; X; X; X; X; X; X; X; X; X; X; X; X; X; X; X; X;
  X; X; X; X; X; X; X; X; X; X; X; X; X; X; X; X; X; X; X; X; X; X; X; X; X; X; X; X; X; X; X; X; X; X; X; X; X; X; X;
  X; X; X; X; X; X; X; X; X; X; X; X; X; X; X; X; X; X; X; X; X; X; X; X; X; X; X; X; X; X; X; X; X; X; X; X; X; X; X;
  X; X; X; X; X; X; X; X; X; X; X; X; X; X; X; X; X; X; X; X; X; X; X; X; X; X; X; X; X; X; X; X; X; X; X; X; X; X; X;
  X; X; X; X; X; X; X; X; X; X; X; X; X; X; X; X; X; X; X; X; X; X].
Definition hencs_14 : list henc := [
  X; X; X; X; X; X; X; X; X; X; X; X; X; X; X; X; X; X; X; X; X; X; X; X; X; X; X; X; X; X; X; X; X; X; X; X; X; X; X;
  X; X; X; X; X; X; X; X; X; X; X; X; X; X; X; X; X; X; X; X; X; X; X; X; X; X; X; X; X; X; X; X; X; X; X; X; X; X; X;
  X; X; X; X; X; X; X; X; X; X; X; X; X; X; X; X; X; X; X; X; X; X; X; X; X; X; X; X; X; X; X; X; X; X; X; X; X; X; X;
  X; X; X; X; X; X; X; X; X; X; X; X; X; X; X; X; X; X; X; X; X; X; X; X; X; X; X; X; X; X; X; X; X; X; X; X; X; X; X;
  X; X; X; X; X; X; X; X; X; X; X; X; X; X; X; X; X; X; X; X; X; X; X; X; X; X; X; X; X; X; X; X; X; X; X; X; X; X; X;
  X; X; X; X; X; X; X; X; X; X; X; X; X; X; X; X; X; X; X; X; X; X; X; X; X; X; X; X; X; X; X; X; X; X; X; X; X; X; X;
  X; X; X; X; X; X; X; X; X; X; X; X; X; X; X; X; X; X; X; X; X; X].
Definition hencs_15 : list henc := [
  X; X; X; X; X; X; X; X; X; X; X; X; X; X; X; X; X; X; X; X; X; X; X; X; X; X; X; X; X; X; X; X; X; X; X; X; X; X; X;
  X; X; X; X; X; X; X; X; X; X; X; X; X; X; X; X; X; X; X; X; X; X; X; X; X; X; X; X; X; X; X; X; X; X; X; X; X; X; X;
  X; X; X; X; X; X; X; X; X; X; X; X; X; X; X; X; X; X; X; X; X; X; X; X; X; X; X; X; X; X; X; X; X; X; X; X; X; X; X;
  X; X; X; X; X; X; X; X; X; X; X; X; X; X; X; X; X; X; X; X; X; X; X; X; X; X; X; X; X; X; X; X; X; X; X; X; X; X; X;
  X; X; X; X; X; X; X; X; X; X; X; X; X; X; X; X; X; X; X; X; X; X; X; X; X; X; X; X; X; X; X; X; X; X; X; X; X; X; X;
  X; X; X; X; X; X; X; X; X; X; X; X; X; X; X; X; X; X; X; X; X; X; X; X; X; X; X; X; X; X; X; X; X; X; X; X; X; X; X;
  X; X; X; X; X; X; X; X; X; X; X; X; X; X; X; X; X; X; X; X; X; X].
Definition hencs_16 : list henc := [
  X; X; X; X; X; X; X; X; X; X; X; X; X; X; X; X; X; X; X; X; X; X; X; X; X; X; X; X; X; X; X; X; X; X; X; X; X; X; X;
  X; X; X; X; X; X; X; X; X; X; X; X; X; X; X; X; X; X; X; X; X; X; X; X; X; X; X; X; X; X; X; X; X; X; X; X; X; X; X;
  X; X; X; X; X; X; X; X; X; X; X; X; X; X; X; X; X; X; X; X; X; X; X; X; X; X; X; X; X; X; X; X; X; X; X; X; X; X; X;
  X; X; X; X; X; X; X; X; X; X; X; X; X; X; X; X; X; X; X; X; X; X; X; X; X; X; X; X; X; X; X; X; X; X; X; X; X; X; X;
  X; X; X; X; X; X; X; X; X; X; X; X; X; X; X; X; X; X; X; X; X; X; X; X; X; X; X; X; X; X; X; X; X; X; X; X; X; X; X;
  X; X; X; X; X; X; X; X; X; X; X; X; X; X; X; X; X; X; X; X; X; X; X; X; X; X; X; X; X; X; X; X; X; X; X; X; X; X; X;
  X; X; X; X; X; X; X; X; X; X; X; X; X; X; X; X; X; X; X; X; X; X].
Definition hencs_17 : list henc := [
  X; X; X; X; X; X; X; X; X; X; X; X; X; X; X; X; X; X; X; X; X; X; X; X; X; X; X; X; X; X; X; X; X; X; X; X; X; X; X;
  X; X; X; X; X; X; X; X; X; X; X; X; X; X; X; X; X; X; X; X; X; X; X; X; X; X; X; X; X; X; X; X; X; X; X; X; X; X; X;
  X; X; X; X; X; X; X; X; X; X; X; X; X; X; X; X; X; X; X; X; X; X; X; X; X; X; X; X; X; X; X; X; X; X; X; X; X; X; X;
  X; X; X; X; X; X; X; X; X; X; X; X; X; X; X; X; X; X; X; X; X; X; X; X; X; X; X; X; X; X; X; X; X; X; X; X; X; X; X;
  X; X; X; X; X; X; X; X; X; X; X; X; X; X; X; X; X; X; X; X; X; X; X; X; X; X; X; X; X; X; X; X; X; X; X; X; X; X; X;
  X; X; X; X; X; X; X; X; X; X; X; X; X; X; X; X; X; X; X; X; X; X; X; X; X; X; X; X; X; X; X; X; X; X; X; X; X; X; X;
  X; X; X; X; X; X; X; X; X; X; X; X; X; X; X; X; X; X; X; X; X; X].
Definition hencs_18 : list henc := [
  X; X; X; X; X; X; X; X; X; X; X; X; X; X; X; X; X; X; X; X; X; X; X; X; X; X; X; X; X; X; X; X; X; X; X; X; X; X; X;
  X; X; X; X; X; X; X; X; X; X; X; X; X; X; X; X; X; X; X; X; X; X; X; X; X; X; X; X; X; X; X; X; X; X; X; X; X; X; X;
  X; X; X; X; X; X; X; X; X; X; X; X; X; X; X; X; X; X; X; X; X; X; X; X; X; X; X; X; X; X; X; X; X; X; X; X; X; X; X;
  X; X; X; X; X; X; X; X; X; X; X; X; X; X; X; X; X; X; X; X; X; X; X; X; X; X; X; X; X; X; X; X; X; X; X; X; X; X; X;
  X; X; X; X; X; X; X; X; X; X; X; X; X; X; X; X; X; X; X; X; X; X; X; X; X; X; X; X; X; X; X; X; X; X; X; X; X; X; X;
  X; X; X; X; X; X; X; X; X; X; X; X; X; X; X; X; X; X; X; X; X; X; X; X; X; X; X; X; X; X; X; X; X; X; X; X; X; X; X;
  X; X; X; X; X; X; X; X; X; X; X; X; X; X; X; X; X; X; X; X; X; X].
Definition hencs_19 : list henc := [
  X; X; X; X; X; X; X; X; X; X; X; X; X; X; X; X; X; X; X; X; X; X; X; X; X; X; X; X; X; X; X; X; X; X; X; X; X; X; X;
  X; X; X; X; X; X; X; X; X; X; X; X; X; X; X; X; X; X; X; X; X; X; X; X; X; X; X; X; X; X; X; X; X; X; X; X; X; X; X;
  X; X; X; X; X; X; X; X; X; X; X; X; X; X; X; X; X; X; X; X; X; X; X; X; X; X; X; X; X; X; X; X; X; X; X; X; X; X; X;
  X; X; X; X; X; X; X; X; X; X; X; X; X; X; X; X; X; X; X; X; X; X; X; X; X; X; X; X; X; X; X; X; X; X; X; X; X; X; X;
  X; X; X; X; X; X; X; X; X; X; X; X; X; X; X; X; X; X; X; X; X; X; X; X; X; X; X; X; X; X; X; X; X; X; X; X; X; X; X;
  X; X; X; X; X; X; X; X; X; X; X; X; X; X; X; X; X; X; X; X; X; X; X; X; X; X; X; X; X; X; X; X; X; X; X; X; X; X; X;
  X; X; X; X; X; X; X; X; X; X; X; X; X; X; X; X; X; X; X; X; X; X].
Definition hencs_20 : list henc := [
  X; X; X; X; X; X; X; X; X; X; X; X; X; X; X; X; X; X; X; X; X; X; X; X; X; X; X; X; X; X; X; X; X; X; X; X; X; X; X;
  X; X; X; X; X; X; X; X; X; X; X; X; X; X; X; X; X; X; X; X; X; X; X; X; X; X; X; X; X; X; X; X; X; X; X; X; X; X; X;
  X; X; X; X; X; X; X; X; X; X; X; X; X; X; X; X; X; X; X; X; X; X; X; X; X; X; X; X; X; X; X; X; X; X; X; X; X; X; X;
  X; X; X; X; X; X; X; X; X; X; X; X; X; X; X; X; X; X; X; X; X; X; X; X; X; X; X; X; X; X; X; X; X; X; X; X; X; X; X;
  X; X; X; X; X; X; X; X; X; X; X; X; X; X; X; X; X; X; X; X; X; X; X; X; X; X; X; X; X; X; X; X; X; X; X; X; X; X; X;
  X; X; X; X; X; X; X; X; X; X; X; X; X; X; X; X; X; X; X; X; X; X; X; X; X; X; X; X; X; X; X; X; X; X; X; X; X; X; X;
  X; X; X; X; X; X; X; X; X; X; X; X; X; X; X; X; X; X; X; X; X; X].
Definition hencs_21 : list henc := [
  X; X; X; X; X; X; X; X; X; X; X; X; X; X; X; X; X; X; X; X; X; X; X; X; X; X; X; X; X; X; X; X; X; X; X; X; X; X; X;
  X; X; X; X; X; X; X; X; X; X; X; X; X; X; X; X; X; X; X; X; X; X; X; X; X; X; X; X; X; X; X; X; X; X; X; X; X; X; X;
  X; X; X; X; X; X; X; X; X; X; X; X; X; X; X; X; X; X; X; X; X; X; X; X; X; X; X; X; X; X; X; X; X; X; X; X; X; X; X;
  X; X; X; X; X; X; X; X; X; X; X; X; X; X; X; X; X; X; X; X; X; X; X; X; X; X; X; X; X; X; X; X; X; X; X; X; X; X; X;
  X; X; X; X; X; X; X; X; X; X; X; X; X; X; X; X; X; X; X; X; X; X; X; X; X; X; X; X; X; X; X; X; X; X; X; X; X; X; X;
  X; X; X; X; X; X; X; X; X; X; X; X; X; X; X; X; X; X; X; X; X; X; X; X; X; X; X; X; X; X; X; X; X; X; X; X; X; X; X;
  X; X; X; X; X; X; X; X; X; X; X; X; X; X; X; X; X; X; X; X; X; X].
Definition hencs_22 : list henc := [
  X; X; X; X; X; X; X; X; X; X; X; X; X; X; X; X; X; X; X; X; X; X; X; X; X; X; X; X; X; X; X; X; X; X; X; X; X; X; X;
  X; X; X; X; X; X; X; X; X; X; X; X; X; X; X; X; X; X; X; X; X; X; X; X; X; X; X; X; X; X; X; X; X; X; X; X; X; X; X;
  X; X; X; X; X; X; X; X; X; X; X; X; X; X; X; X; X; X; X; X; X; X; X; X; X; X; X; X; X; X; X; X; X; X; X; X; X; X; X;
  X; X; X; X; X; X; X; X; X; X; X; X; X; X; X; X; X; X; X; X; X; X; X; X; X; X; X; X; X; X; X; X; X; X; X; X; X; X; X;
  X; X; X; X; X; X; X; X; X; X; X; X; X; X; X; X; X; X; X; X; X; X; X; X; X; X; X; X; X; X; X; X; X; X; X; X; X; X; X;
  X; X; X; X; X; X; X; X; X; X; X; X; X; X; X; X; X; X; X; X; X; X; X; X; X; X; X; X; X; X; X; X; X; X; X; X; X; X; X;
  X; X; X; X; X; X; X; X; X; X; X; X; X; X; X; X; X; X; X; X; X; X].
Definition hencs_23 : list henc := [
  X; X; X; X; X; X; X; X; X; X; X; X; X; X; X; X; X; X; X; X; X; X; X; X; X; X; X; X; X; X; X; X; X; X; X; X; X; X; X;
  X; X; X; X; X; X; X; X; X; X; X; X; X; X; X; X; X; X; X; X; X; X; X; X; X; X; X; X; X; X; X; X; X; X; X; X; X; X; X;
  X; X; X; X; X; X; X; X; X; X; X; X; X; X; X; X; X; X; X; X; X; X; X; X; X; X; X; X; X; X; X; X; X; X; X; X; X; X; X;
  X; X; X; X; X; X; X; X; X; X; X; X; X; X; X; X; X; X; X; X; X; X; X; X; X; X; X; X; X; X; X; X; X; X; X; X; X; X; X;
  X; X; X; X; X; X; X; X; X; X; X; X; X; X; X; X; X; X; X; X; X; X; X; X; X; X; X; X; X; X; X; X; X; X; X; X; X; X; X;
  X; X; X; X; X; X; X; X; X; X; X; X; X; X; X; X; X; X; X; X; X; X; X; X; X; X; X; X; X; X; X; X; X; X; X; X; X; X; X;
  X; X; X; X; X; X; X; X; X; X; X; X; X; X; X; X; X; X; X; X; X; X].
Definition hencs_24 : list henc := [
  X; X; X; X; X; X; X; X; X; X; X; X; X; X; X; X; X; X; X; X; X; X; X; X; X; X; X; X; X; X; X; X; X; X; X; X; X; X; X;
  X; X; X; X; X; X; X; X; X; X; X; X; X; X; X; X; X; X; X; X; X; X; X; X; X; X; X; X; X; X; X; X; X; X; X; X; X; X; X;
  X; X; X; X; X; X; X; X; X; X; X; X; X; X; X; X; X; X; X; X; X; X; X; X; X; X; X; X; X; X; X; X; X; X; X; X; X; X; X;
  X; X; X; X; X; X; X; X; X; X; X; X; X; X; X; X; X; X; X; X; X; X; X; X; X; X; X; X; X; X; X; X; X; X; X; X; X; X; X;
  X; X; X; X; X; X; X; X; X; X; X; X; X; X; X; X; X; X; X; X; X; X; X; X; X; X; X; X; X; X; X; X; X; X; X; X; X; X; X;
  X; X; X; X; X; X; X; X; X; X; X; X; X; X; X; X; X; X; X; X; X; X; X; X; X; X; X; X; X; X; X; X; X; X; X; X; X; X; X;
  X; X; X; X; X; X; X; X; X; X; X; X; X; X; X; X; X; X; X; X; X; X].
Definition hencs_25 : list henc := [
  X; X; X; X; X; X; X; X; X; X; X; X; X; X; X; X; X; X; X; X; X; X; X; X; X; X; X; X; X; X; X; X; X; X; X; X; X; X; X;
  X; X; X; X; X; X; X; X; X; X; X; X; X; X; X; X; X; X; X; X; X; X; X; X; X; X; X; X; X; X; X; X; X; X; X; X; X; X; X;
  X; X; X; X; X; X; X; X; X; X; X; X; X; X; X; X; X; X; X; X; X; X; X; X; X; X; X; X; X; X; X; X; X; X; X; X; X; X; X;
  X; X; X; X; X; X; X; X; X; X; X; X; X; X; X; X; X; X; X; X; X; X; X; X; X; X; X; X; X; X; X; X; X; X; X; X; X; X; X;
  X; X; X; X; X; X; X; X; X; X; X; X; X; X; X; X; X; X; X; X; X; X; X; X; X; X; X; X; X; X; X; X; X; X; X; X; X; X; X;
  X; X; X; X; X; X; X; X; X; X; X; X; X; X; X; X; X; X; X; X; X; X; X; X; X; X; X; X; X; X; X; X; X; X; X; X; X; X; X;
  X; X; X; X; X; X; X; X; X; X; X; X; X; X; X; X; X; X; X; X; X; X].
Definition hencs_26 : list henc := [
  X; X; X; X; X; X; X; X; X; X; X; X; X; X; X; X; X; X; X; X; X; X; X; X; X; X; X; X; X; X; X; X; X; X; X; X; X; X; X;
  X; X; X; X; X; X; X; X; X; X; X; X; X; X; X; X; X; X; X; X; X; X; X; X; X; X; X; X; X; X; X; X; X; X; X; X; X; X; X;
  X; X; X; X; X; X; X; X; X; X; X; X; X; X; X; X; X; X; X; X; X; X; X; X; X; X; X; X; X; X; X; X; X; X; X; X; X; X; X;
  X; X; X; X; X; X; X; X; X; X; X; X; X; X; X; X; X; X; X; X; X; X; X; X; X; X; X; X; X; X; X; X; X; X; X; X; X; X; X;
  X; X; X; X; X; X; X; X; X; X; X; X; X; X; X; X; X; X; X; X; X; X; X; X; X; X; X; X; X; X; X; X; X; X; X; X; X; X; X;
  X; X; X; X; X; X; X; X; X; X; X; X; X; X; X; X; X; X; X; X; X; X; X; X; X; X; X; X; X; X; X; X; X; X; X; X; X; X; X;
  X; X; X; X; X; X; X; X; X; X; X; X; X; X; X; X; X; X; X; X; X; X].
Definition hencs_27 : list henc := [
  X; X; X; X; X; X; X; X; X; X; X; X; X; X; X; X; X; X; X; X; X; X; X; X; X; X; X; X; X; X; X; X; X; X; X; X; X; X; X;
  X; X; X; X; X; X; X; X; X; X; X; X; X; X; X; X; X; X; X; X; X; X; X; X; X; X; X; X; X; X; X; X; X; X; X; X; X; X; X;
  X; X; X; X; X; X; X; X; X; X; X; X; X; X; X; X; X; X; X; X; X; X; X; X; X; X; X; X; X; X; X; X; X; X; X; X; X; X; X;
  X; X; X; X; X; X; X; X; X; X; X; X; X; X; X; X; X; X; X; X; X; X; X; X; X; X; X; X; X; X; X; X; X; X; X; X; X; X; X;
  X; X; X; X; X; X; X; X; X; X; X; X; X; X; X; X; X; X; X; X; X; X; X; X; X; X; X; X; X; X; X; X; X; X; X; X; X; X; X;
  X; X; X; X; X; X; X; X; X; X; X; X; X; X; X; X; X; X; X; X; X; X; X; X; X; X; X; X; X; X; X; X; X; X; X; X; X; X; X;
  X; X; X; X; X; X; X; X; X; X; X; X; X; X; X; X; X; X; X; X; X; X].
Definition hencs_28 : list henc := [
  X; X; X; X; X; X; X; X; X; X; X; X; X; X; X; X; X; X; X; X; X; X; X; X; X; X; X; X; X; X; X; X; X; X; X; X; X; X; X;
  X; X; X; X; X; X; X; X; X; X; X; X; X; X; X; X; X; X; X; X; X; X; X; X; X; X; X; X; X; X; X; X; X; X; X; X; X; X; X;
  X; X; X; X; X; X; X; X; X; X; X; X; X; X; X; X; X; X; X; X; X; X; X; X; X; X; X; X; X; X; X; X; X; X; X; X; X; X; X;
  X; X; X; X; X; X; X; X; X; X; X; X; X; X; X; X; X; X; X; X; X; X; X; X; X; X; X; X; X; X; X; X; X; X; X; X; X; X; X;
  X; X; X; X; X; X; X; X; X; X; X; X; X; X; X; X; X; X; X; X; X; X; X; X; X; X; X; X; X; X; X; X; X; X; X; X; X; X; X;
  X; X; X; X; X; X; X; X; X; X; X; X; X; X; X; X; X; X; X; X; X; X; X; X; X; X; X; X; X; X; X; X; X; X; X; X; X; X; X;
  X; X; X; X; X; X; X; X; X; X; X; X; X; X; X; X; X; X; X; X; X; X].
Definition hencs_29 : list henc := [
  X; X; X; X; X; X; X; X; X; X; X; X; X; X; X; X; X; X; X; X; X; X; X; X; X; X; X; X; X; X; X; X; X; X; X; X; X; X; X;
  X; X; X; X; X; X; X; X; X; X; X; X; X; X; X; X; X; X; X; X; X; X; X; X; X; X; X; X; X; X; X; X; X; X; X; X; X; X; X;
  X; X; X; X; X; X; X; X; X; X; X; X; X; X; X; X; X; X; X; X; X; X; X; X; X; X; X; X; X; X; X; X; X; X; X; X; X; X; X;
  X; X; X; X; X; X; X; X; X; X; X; X; X; X; X; X; X; X; X; X; X; X; X; X; X; X; X; X; X; X; X; X; X; X; X; X; X; X; X;
  X; X; X; X; X; X; X; X; X; X; X; X; X; X; X; X; X; X; X; X; X; X; X; X; X; X; X; X; X; X; X; X; X; X; X; X; X; X; X;
  X; X; X; X; X; X; X; X; X; X; X; X; X; X; X; X; X; X; X; X; X; X; X; X; X; X; X; X; X; X; X; X; X; X; X; X; X; X; X;
  X; X; X; X; X; X; X; X; X; X; X; X; X; X; X; X; X; X; X; X; X; X].
Definition hencs_30 : list henc := [
  X; X; X; X; X; X; X; X; X; X; X; X; X; X; X; X; X; X; X; X; X; X; X; X; X; X; X; X; X; X; X; X; X; X; X; X; X; X; X;
  X; X; X; X; X; X; X; X; X; X; X; X; X; X; X; X; X; X; X; X; X; X; X; X; X; X; X; X; X; X; X; X; X; X; X; X; X; X; X;
  X; X; X; X; X; X; X; X; X; X; X; X; X; X; X; X; X; X; X; X; X; X; X; X; X; X; X; X; X; X; X; X; X; X; X; X; X; X; X;
  X; X; X; X; X; X; X; X; X; X; X; X; X; X; X; X; X; X; X; X; X; X; X; X; X; X; X; X; X; X; X; X; X; X; X; X; X; X; X;
  X; X; X; X; X; X; X; X; X; X; X; X; X; X; X; X; X; X; X; X; X; X; X; X; X; X; X; X; X; X; X; X; X; X; X; X; X; X; X;
  X; X; X; X; X; X; X; X; X; X; X; X; X; X; X; X; X; X; X; X; X; X; X; X; X; X; X; X; X; X; X; X; X; X; X; X; X; X; X;
  X; X; X; X; X; X; X; X; X; X; X; X; X; X; X; X; X; X; X; X; X; X].
Definition hencs_31 : list henc := [
  X; X; X; X; X; X; X; X; X; X; X; X; X; X; X; X; X; X; X; X; X; X; X; X; X; X; X; X; X; X; X; X; X; X; X; X; X; X; X;
  X; X; X; X; X; X; X; X; X; X; X; X; X; X; X; X; X; X; X; X; X; X; X; X; X; X; X; X; X; X; X; X; X; X; X; X; X; X; X;
  X; X; X; X; X; X; X; X; X; X; X; X; X; X; X; X; X; X; X; X; X; X; X; X; X; X; X; X; X; X; X; X; X; X; X; X; X; X; X;
  X; X; X; X; X; X; X; X; X; X; X; X; X; X; X; X; X; X; X; X; X; X; X; X; X; X; X; X; X; X; X; X; X; X; X; X; X; X; X;
  X; X; X; X; X; X; X; X; X; X; X; X; X; X; X; X; X; X; X; X; X; X; X; X; X; X; X; X; X; X; X; X; X; X; X; X; X; X; X;
  X; X; X; X; X; X; X; X; X; X; X; X; X; X; X; X; X; X; X; X; X; X; X; X; X; X; X; X; X; X; X; X; X; X; X; X; X; X; X;
  X; X; X; X; X; X; X; X; X; X; X; X; X; X; X; X; X; X; X; X; X; X].
Definition hencs_32 : list henc := [
  E 19 0x7fe14; E 29 0x1ffff614; X; X; X; X; X; X; X; E 30 0x3ffffa94; X; X; X; X; X; X; X; X; X; X; X; X; X; X; X; X;
  X; X; X; X; X; X; E 12 0x514; E 16 0xfe14; E 16 0xfe54; E 18 0x3fe94; E 19 0x7fe54; E 12 0x554; E 14 0x3e14;
  E 17 0x1fe94; E 16 0xfe94; E 16 0xfed4; E 14 0x3e54; E 17 0x1fed4; E 14 0x3e94; E 12 0x594; E 12 0x5d4; E 12 0x614;
  E 11 0x14; E 11 0x54; E 11 0x94; E 12 0x654; E 12 0x694; E 12 0x6d4; E 12 0x714; E 12 0x754; E 12 0x794; E 12 0x7d4;
  E 13 0x1714; E 14 0x3ed4; E 21 0x1fff14; E 12 0x814; E 18 0x3fed4; E 16 0xff14; E 19 0x7fe94; E 12 0x854;
  E 13 0x1754; E 13 0x1794; E 13 0x17d4; E 13 0x1814; E 13 0x1854; E 13 0x1894; E 13 0x18d4; E 13 0x1914; E 13 0x1954;
  E 13 0x1994; E 13 0x19d4; E 13 0x1a14; E 13 0x1a54; E 13 0x1a94; E 13 0x1ad4; E 13 0x1b14; E 13 0x1b54; E 13 0x1b94;
  E 13 0x1bd4; E 13 0x1c14; E 13 0x1c54; E 13 0x1c94; E 14 0x3f14; E 13 0x1cd4; E 14 0x3f54; E 19 0x7fed4;
  E 25 0x1fffc14; E 19 0x7ff14; E 20 0xfff14; E 12 0x894; E 21 0x1fff54; E 11 0xd4; E 12 0x8d4; E 11 0x114;
  E 12 0x914; E 11 0x154; E 12 0x954; E 12 0x994; E 12 0x9d4; E 11 0x194; E 13 0x1d14; E 13 0x1d54; E 12 0xa14;
  E 12 0xa54; E 12 0xa94; E 11 0x1d4; E 12 0xad4; E 13 0x1d94; E 12 0xb14; E 11 0x214; E 11 0x254; E 12 0xb54;
  E 13 0x1dd4; E 13 0x1e14; E 13 0x1e54; E 13 0x1e94; E 13 0x1ed4; E 21 0x1fff94; E 17 0x1ff14; E 20 0xfff54;
  E 19 0x7ff54; X; E 26 0x3fff994; E 28 0xffff494; E 26 0x3fff9d4; E 26 0x3fffa14; E 28 0xffff4d4; E 28 0xffff514;
  E 28 0xffff554; E 29 0x1ffff654; E 28 0xffff594; E 29 0x1ffff694; E 29 0x1ffff6d4; E 29 0x1ffff714; E 29 0x1ffff754;
  E 29 0x1ffff794; E 30 0x3ffffad4; E 29 0x1ffff7d4; E 30 0x3ffffb14; E 30 0x3ffffb54; E 28 0xffff5d4;
  E 29 0x1ffff814; E 30 0x3ffffb94; E 29 0x1ffff854; E 29 0x1ffff894; E 29 0x1ffff8d4; E 29 0x1ffff914;
  E 27 0x7fff714; E 28 0xffff614; E 29 0x1ffff954; E 28 0xffff654; E 29 0x1ffff994; E 29 0x1ffff9d4; E 30 0x3ffffbd4;
  E 28 0xffff694; E 27 0x7fff754; E 26 0x3fffa54; E 28 0xffff6d4; E 28 0xffff714; E 29 0x1ffffa14; E 29 0x1ffffa54;
  E 27 0x7fff794; E 29 0x1ffffa94; E 28 0xffff754; E 28 0xffff794; E 30 0x3ffffc14; E 27 0x7fff7d4; E 28 0xffff7d4;
  E 29 0x1ffffad4; E 29 0x1ffffb14; E 27 0x7fff814; E 27 0x7fff854; E 28 0xffff814; E 27 0x7fff894; E 29 0x1ffffb54;
  E 28 0xffff854; E 29 0x1ffffb94; E 29 0x1ffffbd4; E 26 0x3fffa94; E 28 0xffff894; E 28 0xffff8d4; E 28 0xffff914;
  E 29 0x1ffffc14; E 28 0xffff954; E 28 0xffff994; E 29 0x1ffffc54; E 32 0xfffff814; E 32 0xfffff854; E 26 0x3fffad4;
  E 25 0x1fffc54; E 28 0xffff9d4; E 29 0x1ffffc94; E 28 0xffffa14; E 31 0x7ffffb14; E 32 0xfffff894; E 32 0xfffff8d4;
  E 32 0xfffff914; X; X; E 32 0xfffff954; E 30 0x3ffffc54; E 31 0x7ffffb54; E 25 0x1fffc94; E 27 0x7fff8d4;
  E 32 0xfffff994; X; X; E 32 0xfffff9d4; X; E 30 0x3ffffc94; E 27 0x7fff914; E 27 0x7fff954; E 32 0xfffffa14;
  E 32 0xfffffa54; X; X; X; X; E 26 0x3fffb14; E 30 0x3ffffcd4; E 26 0x3fffb54; E 27 0x7fff994; E 28 0xffffa54;
  E 27 0x7fff9d4; E 27 0x7fffa14; E 29 0x1ffffcd4; E 28 0xffffa94; E 28 0xffffad4; E 31 0x7ffffb94; E 31 0x7ffffbd4;
  E 30 0x3ffffd14; E 30 0x3ffffd54; E 32 0xfffffa94; E 29 0x1ffffd14; E 32 0xfffffad4; X; E 32 0xfffffb14;
  E 32 0xfffffb54; X; X; X; X; X; X; X; X; X; X; X; E 32 0xfffffb94].
Definition hencs_33 : list henc := [
  E 23 0x7fe3f8; X; X; X; X; X; X; X; X; X; X; X; X; X; X; X; X; X; X; X; X; X; X; X; X; X; X; X; X; X; X; X;
  E 16 0x53f8; E 20 0xfe3f8; E 20 0xfe7f8; E 22 0x3febf8; E 23 0x7fe7f8; E 16 0x57f8; E 18 0x3e3f8; E 21 0x1febf8;
  E 20 0xfebf8; E 20 0xfeff8; E 18 0x3e7f8; E 21 0x1feff8; E 18 0x3ebf8; E 16 0x5bf8; E 16 0x5ff8; E 16 0x63f8;
  E 15 0x3f8; E 15 0x7f8; E 15 0xbf8; E 16 0x67f8; E 16 0x6bf8; E 16 0x6ff8; E 16 0x73f8; E 16 0x77f8; E 16 0x7bf8;
  E 16 0x7ff8; E 17 0x173f8; E 18 0x3eff8; E 25 0x1fff3f8; E 16 0x83f8; E 22 0x3feff8; E 20 0xff3f8; E 23 0x7febf8;
  E 16 0x87f8; E 17 0x177f8; E 17 0x17bf8; E 17 0x17ff8; E 17 0x183f8; E 17 0x187f8; E 17 0x18bf8; E 17 0x18ff8;
  E 17 0x193f8; E 17 0x197f8; E 17 0x19bf8; E 17 0x19ff8; E 17 0x1a3f8; E 17 0x1a7f8; E 17 0x1abf8; E 17 0x1aff8;
  E 17 0x1b3f8; E 17 0x1b7f8; E 17 0x1bbf8; E 17 0x1bff8; E 17 0x1c3f8; E 17 0x1c7f8; E 17 0x1cbf8; E 18 0x3f3f8;
  E 17 0x1cff8; E 18 0x3f7f8; E 23 0x7feff8; E 29 0x1fffc3f8; E 23 0x7ff3f8; E 24 0xfff3f8; E 16 0x8bf8;
  E 25 0x1fff7f8; E 15 0xff8; E 16 0x8ff8; E 15 0x13f8; E 16 0x93f8; E 15 0x17f8; E 16 0x97f8; E 16 0x9bf8;
  E 16 0x9ff8; E 15 0x1bf8; E 17 0x1d3f8; E 17 0x1d7f8; E 16 0xa3f8; E 16 0xa7f8; E 16 0xabf8; E 15 0x1ff8;
  E 16 0xaff8; E 17 0x1dbf8; E 16 0xb3f8; E 15 0x23f8; E 15 0x27f8; E 16 0xb7f8; E 17 0x1dff8; E 17 0x1e3f8;
  E 17 0x1e7f8; E 17 0x1ebf8; E 17 0x1eff8; E 25 0x1fffbf8; E 21 0x1ff3f8; E 24 0xfff7f8; E 23 0x7ff7f8; X;
  E 30 0x3fff9bf8; E 32 0xffff4bf8; E 30 0x3fff9ff8; E 30 0x3fffa3f8; E 32 0xffff4ff8; E 32 0xffff53f8;
  E 32 0xffff57f8; X; E 32 0xffff5bf8; X; X; X; X; X; X; X; X; X; E 32 0xffff5ff8; X; X; X; X; X; X; E 31 0x7fff73f8;
  E 32 0xffff63f8; X; E 32 0xffff67f8; X; X; X; E 32 0xffff6bf8; E 31 0x7fff77f8; E 30 0x3fffa7f8; E 32 0xffff6ff8;
  E 32 0xffff73f8; X; X; E 31 0x7fff7bf8; X; E 32 0xffff77f8; E 32 0xffff7bf8; X; E 31 0x7fff7ff8; E 32 0xffff7ff8; X;
  X; E 31 0x7fff83f8; E 31 0x7fff87f8; E 32 0xffff83f8; E 31 0x7fff8bf8; X; E 32 0xffff87f8; X; X; E 30 0x3fffabf8;
  E 32 0xffff8bf8; E 32 0xffff8ff8; E 32 0xffff93f8; X; E 32 0xffff97f8; E 32 0xffff9bf8; X; X; X; E 30 0x3fffaff8;
  E 29 0x1fffc7f8; E 32 0xffff9ff8; X; E 32 0xffffa3f8; X; X; X; X; X; X; X; X; X; E 29 0x1fffcbf8; E 31 0x7fff8ff8;
  X; X; X; X; X; X; E 31 0x7fff93f8; E 31 0x7fff97f8; X; X; X; X; X; X; E 30 0x3fffb3f8; X; E 30 0x3fffb7f8;
  E 31 0x7fff9bf8; E 32 0xffffa7f8; E 31 0x7fff9ff8; E 31 0x7fffa3f8; X; E 32 0xffffabf8; E 32 0xffffaff8; X; X; X; X;
  X; X; X; X; X; X; X; X; X; X; X; X; X; X; X; X; X; X].
Definition hencs_34 : list henc := [
  E 23 0x7fe3f9; X; X; X; X; X; X; X; X; X; X; X; X; X; X; X; X; X; X; X; X; X; X; X; X; X; X; X; X; X; X; X;
  E 16 0x53f9; E 20 0xfe3f9; E 20 0xfe7f9; E 22 0x3febf9; E 23 0x7fe7f9; E 16 0x57f9; E 18 0x3e3f9; E 21 0x1febf9;
  E 20 0xfebf9; E 20 0xfeff9; E 18 0x3e7f9; E 21 0x1feff9; E 18 0x3ebf9; E 16 0x5bf9; E 16 0x5ff9; E 16 0x63f9;
  E 15 0x3f9; E 15 0x7f9; E 15 0xbf9; E 16 0x67f9; E 16 0x6bf9; E 16 0x6ff9; E 16 0x73f9; E 16 0x77f9; E 16 0x7bf9;
  E 16 0x7ff9; E 17 0x173f9; E 18 0x3eff9; E 25 0x1fff3f9; E 16 0x83f9; E 22 0x3feff9; E 20 0xff3f9; E 23 0x7febf9;
  E 16 0x87f9; E 17 0x177f9; E 17 0x17bf9; E 17 0x17ff9; E 17 0x183f9; E 17 0x187f9; E 17 0x18bf9; E 17 0x18ff9;
  E 17 0x193f9; E 17 0x197f9; E 17 0x19bf9; E 17 0x19ff9; E 17 0x1a3f9; E 17 0x1a7f9; E 17 0x1abf9; E 17 0x1aff9;
  E 17 0x1b3f9; E 17 0x1b7f9; E 17 0x1bbf9; E 17 0x1bff9; E 17 0x1c3f9; E 17 0x1c7f9; E 17 0x1cbf9; E 18 0x3f3f9;
  E 17 0x1cff9; E 18 0x3f7f9; E 23 0x7feff9; E 29 0x1fffc3f9; E 23 0x7ff3f9; E 24 0xfff3f9; E 16 0x8bf9;
  E 25 0x1fff7f9; E 15 0xff9; E 16 0x8ff9; E 15 0x13f9; E 16 0x93f9; E 15 0x17f9; E 16 0x97f9; E 16 0x9bf9;
  E 16 0x9ff9; E 15 0x1bf9; E 17 0x1d3f9; E 17 0x1d7f9; E 16 0xa3f9; E 16 0xa7f9; E 16 0xabf9; E 15 0x1ff9;
  E 16 0xaff9; E 17 0x1dbf9; E 16 0xb3f9; E 15 0x23f9; E 15 0x27f9; E 16 0xb7f9; E 17 0x1dff9; E 17 0x1e3f9;
  E 17 0x1e7f9; E 17 0x1ebf9; E 17 0x1eff9; E 25 0x1fffbf9; E 21 0x1ff3f9; E 24 0xfff7f9; E 23 0x7ff7f9; X;
  E 30 0x3fff9bf9; E 32 0xffff4bf9; E 30 0x3fff9ff9; E 30 0x3fffa3f9; E 32 0xffff4ff9; E 32 0xffff53f9;
  E 32 0xffff57f9; X; E 32 0xffff5bf9; X; X; X; X; X; X; X; X; X; E 32 0xffff5ff9; X; X; X; X; X; X; E 31 0x7fff73f9;
  E 32 0xffff63f9; X; E 32 0xffff67f9; X; X; X; E 32 0xffff6bf9; E 31 0x7fff77f9; E 30 0x3fffa7f9; E 32 0xffff6ff9;
  E 32 0xffff73f9; X; X; E 31 0x7fff7bf9; X; E 32 0xffff77f9; E 32 0xffff7bf9; X; E 31 0x7fff7ff9; E 32 0xffff7ff9; X;
  X; E 31 0x7fff83f9; E 31 0x7fff87f9; E 32 0xffff83f9; E 31 0x7fff8bf9; X; E 32 0xffff87f9; X; X; E 30 0x3fffabf9;
  E 32 0xffff8bf9; E 32 0xffff8ff9; E 32 0xffff93f9; X; E 32 0xffff97f9; E 32 0xffff9bf9; X; X; X; E 30 0x3fffaff9;
  E 29 0x1fffc7f9; E 32 0xffff9ff9; X; E 32 0xffffa3f9; X; X; X; X; X; X; X; X; X; E 29 0x1fffcbf9; E 31 0x7fff8ff9;
  X; X; X; X; X; X; E 31 0x7fff93f9; E 31 0x7fff97f9; X; X; X; X; X; X; E 30 0x3fffb3f9; X; E 30 0x3fffb7f9;
  E 31 0x7fff9bf9; E 32 0xffffa7f9; E 31 0x7fff9ff9; E 31 0x7fffa3f9; X; E 32 0xffffabf9; E 32 0xffffaff9; X; X; X; X;
  X; X; X; X; X; X; X; X; X; X; X; X; X; X; X; X; X; X].
Definition hencs_35 : list henc := [
  E 25 0x1ff8ffa; X; X; X; X; X; X; X; X; X; X; X; X; X; X; X; X; X; X; X; X; X; X; X; X; X; X; X; X; X; X; X;
  E 18 0x14ffa; E 22 0x3f8ffa; E 22 0x3f9ffa; E 24 0xffaffa; E 25 0x1ff9ffa; E 18 0x15ffa; E 20 0xf8ffa;
  E 23 0x7faffa; E 22 0x3faffa; E 22 0x3fbffa; E 20 0xf9ffa; E 23 0x7fbffa; E 20 0xfaffa; E 18 0x16ffa; E 18 0x17ffa;
  E 18 0x18ffa; E 17 0xffa; E 17 0x1ffa; E 17 0x2ffa; E 18 0x19ffa; E 18 0x1affa; E 18 0x1bffa; E 18 0x1cffa;
  E 18 0x1dffa; E 18 0x1effa; E 18 0x1fffa; E 19 0x5cffa; E 20 0xfbffa; E 27 0x7ffcffa; E 18 0x20ffa; E 24 0xffbffa;
  E 22 0x3fcffa; E 25 0x1ffaffa; E 18 0x21ffa; E 19 0x5dffa; E 19 0x5effa; E 19 0x5fffa; E 19 0x60ffa; E 19 0x61ffa;
  E 19 0x62ffa; E 19 0x63ffa; E 19 0x64ffa; E 19 0x65ffa; E 19 0x66ffa; E 19 0x67ffa; E 19 0x68ffa; E 19 0x69ffa;
  E 19 0x6affa; E 19 0x6bffa; E 19 0x6cffa; E 19 0x6dffa; E 19 0x6effa; E 19 0x6fffa; E 19 0x70ffa; E 19 0x71ffa;
  E 19 0x72ffa; E 20 0xfcffa; E 19 0x73ffa; E 20 0xfdffa; E 25 0x1ffbffa; E 31 0x7fff0ffa; E 25 0x1ffcffa;
  E 26 0x3ffcffa; E 18 0x22ffa; E 27 0x7ffdffa; E 17 0x3ffa; E 18 0x23ffa; E 17 0x4ffa; E 18 0x24ffa; E 17 0x5ffa;
  E 18 0x25ffa; E 18 0x26ffa; E 18 0x27ffa; E 17 0x6ffa; E 19 0x74ffa; E 19 0x75ffa; E 18 0x28ffa; E 18 0x29ffa;
  E 18 0x2affa; E 17 0x7ffa; E 18 0x2bffa; E 19 0x76ffa; E 18 0x2cffa; E 17 0x8ffa; E 17 0x9ffa; E 18 0x2dffa;
  E 19 0x77ffa; E 19 0x78ffa; E 19 0x79ffa; E 19 0x7affa; E 19 0x7bffa; E 27 0x7ffeffa; E 23 0x7fcffa; E 26 0x3ffdffa;
  E 25 0x1ffdffa; X; E 32 0xfffe6ffa; X; E 32 0xfffe7ffa; E 32 0xfffe8ffa; X; X; X; X; X; X; X; X; X; X; X; X; X; X;
  X; X; X; X; X; X; X; X; X; X; X; X; X; X; X; X; E 32 0xfffe9ffa; X; X; X; X; X; X; X; X; X; X; X; X; X; X; X; X; X;
  X; X; X; X; E 32 0xfffeaffa; X; X; X; X; X; X; X; X; X; E 32 0xfffebffa; E 31 0x7fff1ffa; X; X; X; X; X; X; X; X; X;
  X; X; X; E 31 0x7fff2ffa; X; X; X; X; X; X; X; X; X; X; X; X; X; X; X; E 32 0xfffecffa; X; E 32 0xfffedffa; X; X; X;
  X; X; X; X; X; X; X; X; X; X; X; X; X; X; X; X; X; X; X; X; X; X; X; X; X; X].
Definition hencs_36 : list henc := [
  E 26 0x3ff1ff9; X; X; X; X; X; X; X; X; X; X; X; X; X; X; X; X; X; X; X; X; X; X; X; X; X; X; X; X; X; X; X;
  E 19 0x29ff9; E 23 0x7f1ff9; E 23 0x7f3ff9; E 25 0x1ff5ff9; E 26 0x3ff3ff9; E 19 0x2bff9; E 21 0x1f1ff9;
  E 24 0xff5ff9; E 23 0x7f5ff9; E 23 0x7f7ff9; E 21 0x1f3ff9; E 24 0xff7ff9; E 21 0x1f5ff9; E 19 0x2dff9;
  E 19 0x2fff9; E 19 0x31ff9; E 18 0x1ff9; E 18 0x3ff9; E 18 0x5ff9; E 19 0x33ff9; E 19 0x35ff9; E 19 0x37ff9;
  E 19 0x39ff9; E 19 0x3bff9; E 19 0x3dff9; E 19 0x3fff9; E 20 0xb9ff9; E 21 0x1f7ff9; E 28 0xfff9ff9; E 19 0x41ff9;
  E 25 0x1ff7ff9; E 23 0x7f9ff9; E 26 0x3ff5ff9; E 19 0x43ff9; E 20 0xbbff9; E 20 0xbdff9; E 20 0xbfff9; E 20 0xc1ff9;
  E 20 0xc3ff9; E 20 0xc5ff9; E 20 0xc7ff9; E 20 0xc9ff9; E 20 0xcbff9; E 20 0xcdff9; E 20 0xcfff9; E 20 0xd1ff9;
  E 20 0xd3ff9; E 20 0xd5ff9; E 20 0xd7ff9; E 20 0xd9ff9; E 20 0xdbff9; E 20 0xddff9; E 20 0xdfff9; E 20 0xe1ff9;
  E 20 0xe3ff9; E 20 0xe5ff9; E 21 0x1f9ff9; E 20 0xe7ff9; E 21 0x1fbff9; E 26 0x3ff7ff9; E 32 0xfffe1ff9;
  E 26 0x3ff9ff9; E 27 0x7ff9ff9; E 19 0x45ff9; E 28 0xfffbff9; E 18 0x7ff9; E 19 0x47ff9; E 18 0x9ff9; E 19 0x49ff9;
  E 18 0xbff9; E 19 0x4bff9; E 19 0x4dff9; E 19 0x4fff9; E 18 0xdff9; E 20 0xe9ff9; E 20 0xebff9; E 19 0x51ff9;
  E 19 0x53ff9; E 19 0x55ff9; E 18 0xfff9; E 19 0x57ff9; E 20 0xedff9; E 19 0x59ff9; E 18 0x11ff9; E 18 0x13ff9;
  E 19 0x5bff9; E 20 0xefff9; E 20 0xf1ff9; E 20 0xf3ff9; E 20 0xf5ff9; E 20 0xf7ff9; E 28 0xfffdff9; E 24 0xff9ff9;
  E 27 0x7ffbff9; E 26 0x3ffbff9; X; X; X; X; X; X; X; X; X; X; X; X; X; X; X; X; X; X; X; X; X; X; X; X; X; X; X; X;
  X; X; X; X; X; X; X; X; X; X; X; X; X; X; X; X; X; X; X; X; X; X; X; X; X; X; X; X; X; X; X; X; X; X; X; X; X; X; X;
  X; E 32 0xfffe3ff9; X; X; X; X; X; X; X; X; X; X; X; X; E 32 0xfffe5ff9; X; X; X; X; X; X; X; X; X; X; X; X; X; X;
  X; X; X; X; X; X; X; X; X; X; X; X; X; X; X; X; X; X; X; X; X; X; X; X; X; X; X; X; X; X; X; X; X].
Definition hencs_37 : list henc := [
  E 19 0x7fe15; E 29 0x1ffff615; X; X; X; X; X; X; X; E 30 0x3ffffa95; X; X; X; X; X; X; X; X; X; X; X; X; X; X; X; X;
  X; X; X; X; X; X; E 12 0x515; E 16 0xfe15; E 16 0xfe55; E 18 0x3fe95; E 19 0x7fe55; E 12 0x555; E 14 0x3e15;
  E 17 0x1fe95; E 16 0xfe95; E 16 0xfed5; E 14 0x3e55; E 17 0x1fed5; E 14 0x3e95; E 12 0x595; E 12 0x5d5; E 12 0x615;
  E 11 0x15; E 11 0x55; E 11 0x95; E 12 0x655; E 12 0x695; E 12 0x6d5; E 12 0x715; E 12 0x755; E 12 0x795; E 12 0x7d5;
  E 13 0x1715; E 14 0x3ed5; E 21 0x1fff15; E 12 0x815; E 18 0x3fed5; E 16 0xff15; E 19 0x7fe95; E 12 0x855;
  E 13 0x1755; E 13 0x1795; E 13 0x17d5; E 13 0x1815; E 13 0x1855; E 13 0x1895; E 13 0x18d5; E 13 0x1915; E 13 0x1955;
  E 13 0x1995; E 13 0x19d5; E 13 0x1a15; E 13 0x1a55; E 13 0x1a95; E 13 0x1ad5; E 13 0x1b15; E 13 0x1b55; E 13 0x1b95;
  E 13 0x1bd5; E 13 0x1c15; E 13 0x1c55; E 13 0x1c95; E 14 0x3f15; E 13 0x1cd5; E 14 0x3f55; E 19 0x7fed5;
  E 25 0x1fffc15; E 19 0x7ff15; E 20 0xfff15; E 12 0x895; E 21 0x1fff55; E 11 0xd5; E 12 0x8d5; E 11 0x115;
  E 12 0x915; E 11 0x155; E 12 0x955; E 12 0x995; E 12 0x9d5; E 11 0x195; E 13 0x1d15; E 13 0x1d55; E 12 0xa15;
  E 12 0xa55; E 12 0xa95; E 11 0x1d5; E 12 0xad5; E 13 0x1d95; E 12 0xb15; E 11 0x215; E 11 0x255; E 12 0xb55;
  E 13 0x1dd5; E 13 0x1e15; E 13 0x1e55; E 13 0x1e95; E 13 0x1ed5; E 21 0x1fff95; E 17 0x1ff15; E 20 0xfff55;
  E 19 0x7ff55; X; E 26 0x3fff995; E 28 0xffff495; E 26 0x3fff9d5; E 26 0x3fffa15; E 28 0xffff4d5; E 28 0xffff515;
  E 28 0xffff555; E 29 0x1ffff655; E 28 0xffff595; E 29 0x1ffff695; E 29 0x1ffff6d5; E 29 0x1ffff715; E 29 0x1ffff755;
  E 29 0x1ffff795; E 30 0x3ffffad5; E 29 0x1ffff7d5; E 30 0x3ffffb15; E 30 0x3ffffb55; E 28 0xffff5d5;
  E 29 0x1ffff815; E 30 0x3ffffb95; E 29 0x1ffff855; E 29 0x1ffff895; E 29 0x1ffff8d5; E 29 0x1ffff915;
  E 27 0x7fff715; E 28 0xffff615; E 29 0x1ffff955; E 28 0xffff655; E 29 0x1ffff995; E 29 0x1ffff9d5; E 30 0x3ffffbd5;
  E 28 0xffff695; E 27 0x7fff755; E 26 0x3fffa55; E 28 0xffff6d5; E 28 0xffff715; E 29 0x1ffffa15; E 29 0x1ffffa55;
  E 27 0x7fff795; E 29 0x1ffffa95; E 28 0xffff755; E 28 0xffff795; E 30 0x3ffffc15; E 27 0x7fff7d5; E 28 0xffff7d5;
  E 29 0x1ffffad5; E 29 0x1ffffb15; E 27 0x7fff815; E 27 0x7fff855; E 28 0xffff815; E 27 0x7fff895; E 29 0x1ffffb55;
  E 28 0xffff855; E 29 0x1ffffb95; E 29 0x1ffffbd5; E 26 0x3fffa95; E 28 0xffff895; E 28 0xffff8d5; E 28 0xffff915;
  E 29 0x1ffffc15; E 28 0xffff955; E 28 0xffff995; E 29 0x1ffffc55; E 32 0xfffff815; E 32 0xfffff855; E 26 0x3fffad5;
  E 25 0x1fffc55; E 28 0xffff9d5; E 29 0x1ffffc95; E 28 0xffffa15; E 31 0x7ffffb15; E 32 0xfffff895; E 32 0xfffff8d5;
  E 32 0xfffff915; X; X; E 32 0xfffff955; E 30 0x3ffffc55; E 31 0x7ffffb55; E 25 0x1fffc95; E 27 0x7fff8d5;
  E 32 0xfffff995; X; X; E 32 0xfffff9d5; X; E 30 0x3ffffc95; E 27 0x7fff915; E 27 0x7fff955; E 32 0xfffffa15;
  E 32 0xfffffa55; X; X; X; X; E 26 0x3fffb15; E 30 0x3ffffcd5; E 26 0x3fffb55; E 27 0x7fff995; E 28 0xffffa55;
  E 27 0x7fff9d5; E 27 0x7fffa15; E 29 0x1ffffcd5; E 28 0xffffa95; E 28 0xffffad5; E 31 0x7ffffb95; E 31 0x7ffffbd5;
  E 30 0x3ffffd15; E 30 0x3ffffd55; E 32 0xfffffa95; E 29 0x1ffffd15; E 32 0xfffffad5; X; E 32 0xfffffb15;
  E 32 0xfffffb55; X; X; X; X; X; X; X; X; X; X; X; E 32 0xfffffb95].
Definition hencs_38 : list henc := [
  E 21 0x1ff8f8; E 31 0x7fffd8f8; X; X; X; X; X; X; X; E 32 0xffffeaf8; X; X; X; X; X; X; X; X; X; X; X; X; X; X; X;
  X; X; X; X; X; X; X; E 14 0x14f8; E 18 0x3f8f8; E 18 0x3f9f8; E 20 0xffaf8; E 21 0x1ff9f8; E 14 0x15f8; E 16 0xf8f8;
  E 19 0x7faf8; E 18 0x3faf8; E 18 0x3fbf8; E 16 0xf9f8; E 19 0x7fbf8; E 16 0xfaf8; E 14 0x16f8; E 14 0x17f8;
  E 14 0x18f8; E 13 0xf8; E 13 0x1f8; E 13 0x2f8; E 14 0x19f8; E 14 0x1af8; E 14 0x1bf8; E 14 0x1cf8; E 14 0x1df8;
  E 14 0x1ef8; E 14 0x1ff8; E 15 0x5cf8; E 16 0xfbf8; E 23 0x7ffcf8; E 14 0x20f8; E 20 0xffbf8; E 18 0x3fcf8;
  E 21 0x1ffaf8; E 14 0x21f8; E 15 0x5df8; E 15 0x5ef8; E 15 0x5ff8; E 15 0x60f8; E 15 0x61f8; E 15 0x62f8;
  E 15 0x63f8; E 15 0x64f8; E 15 0x65f8; E 15 0x66f8; E 15 0x67f8; E 15 0x68f8; E 15 0x69f8; E 15 0x6af8; E 15 0x6bf8;
  E 15 0x6cf8; E 15 0x6df8; E 15 0x6ef8; E 15 0x6ff8; E 15 0x70f8; E 15 0x71f8; E 15 0x72f8; E 16 0xfcf8; E 15 0x73f8;
  E 16 0xfdf8; E 21 0x1ffbf8; E 27 0x7fff0f8; E 21 0x1ffcf8; E 22 0x3ffcf8; E 14 0x22f8; E 23 0x7ffdf8; E 13 0x3f8;
  E 14 0x23f8; E 13 0x4f8; E 14 0x24f8; E 13 0x5f8; E 14 0x25f8; E 14 0x26f8; E 14 0x27f8; E 13 0x6f8; E 15 0x74f8;
  E 15 0x75f8; E 14 0x28f8; E 14 0x29f8; E 14 0x2af8; E 13 0x7f8; E 14 0x2bf8; E 15 0x76f8; E 14 0x2cf8; E 13 0x8f8;
  E 13 0x9f8; E 14 0x2df8; E 15 0x77f8; E 15 0x78f8; E 15 0x79f8; E 15 0x7af8; E 15 0x7bf8; E 23 0x7ffef8;
  E 19 0x7fcf8; E 22 0x3ffdf8; E 21 0x1ffdf8; X; E 28 0xfffe6f8; E 30 0x3fffd2f8; E 28 0xfffe7f8; E 28 0xfffe8f8;
  E 30 0x3fffd3f8; E 30 0x3fffd4f8; E 30 0x3fffd5f8; E 31 0x7fffd9f8; E 30 0x3fffd6f8; E 31 0x7fffdaf8;
  E 31 0x7fffdbf8; E 31 0x7fffdcf8; E 31 0x7fffddf8; E 31 0x7fffdef8; E 32 0xffffebf8; E 31 0x7fffdff8;
  E 32 0xffffecf8; E 32 0xffffedf8; E 30 0x3fffd7f8; E 31 0x7fffe0f8; E 32 0xffffeef8; E 31 0x7fffe1f8;
  E 31 0x7fffe2f8; E 31 0x7fffe3f8; E 31 0x7fffe4f8; E 29 0x1fffdcf8; E 30 0x3fffd8f8; E 31 0x7fffe5f8;
  E 30 0x3fffd9f8; E 31 0x7fffe6f8; E 31 0x7fffe7f8; E 32 0xffffeff8; E 30 0x3fffdaf8; E 29 0x1fffddf8;
  E 28 0xfffe9f8; E 30 0x3fffdbf8; E 30 0x3fffdcf8; E 31 0x7fffe8f8; E 31 0x7fffe9f8; E 29 0x1fffdef8;
  E 31 0x7fffeaf8; E 30 0x3fffddf8; E 30 0x3fffdef8; E 32 0xfffff0f8; E 29 0x1fffdff8; E 30 0x3fffdff8;
  E 31 0x7fffebf8; E 31 0x7fffecf8; E 29 0x1fffe0f8; E 29 0x1fffe1f8; E 30 0x3fffe0f8; E 29 0x1fffe2f8;
  E 31 0x7fffedf8; E 30 0x3fffe1f8; E 31 0x7fffeef8; E 31 0x7fffeff8; E 28 0xfffeaf8; E 30 0x3fffe2f8;
  E 30 0x3fffe3f8; E 30 0x3fffe4f8; E 31 0x7ffff0f8; E 30 0x3fffe5f8; E 30 0x3fffe6f8; E 31 0x7ffff1f8; X; X;
  E 28 0xfffebf8; E 27 0x7fff1f8; E 30 0x3fffe7f8; E 31 0x7ffff2f8; E 30 0x3fffe8f8; X; X; X; X; X; X; X;
  E 32 0xfffff1f8; X; E 27 0x7fff2f8; E 29 0x1fffe3f8; X; X; X; X; X; E 32 0xfffff2f8; E 29 0x1fffe4f8;
  E 29 0x1fffe5f8; X; X; X; X; X; X; E 28 0xfffecf8; E 32 0xfffff3f8; E 28 0xfffedf8; E 29 0x1fffe6f8;
  E 30 0x3fffe9f8; E 29 0x1fffe7f8; E 29 0x1fffe8f8; E 31 0x7ffff3f8; E 30 0x3fffeaf8; E 30 0x3fffebf8; X; X;
  E 32 0xfffff4f8; E 32 0xfffff5f8; X; E 31 0x7ffff4f8; X; X; X; X; X; X; X; X; X; X; X; X; X; X; X; X].
Definition hencs_39 : list henc := [
  E 24 0xffc7fa; X; X; X; X; X; X; X; X; X; X; X; X; X; X; X; X; X; X; X; X; X; X; X; X; X; X; X; X; X; X; X;
  E 17 0xa7fa; E 21 0x1fc7fa; E 21 0x1fcffa; E 23 0x7fd7fa; E 24 0xffcffa; E 17 0xaffa; E 19 0x7c7fa; E 22 0x3fd7fa;
  E 21 0x1fd7fa; E 21 0x1fdffa; E 19 0x7cffa; E 22 0x3fdffa; E 19 0x7d7fa; E 17 0xb7fa; E 17 0xbffa; E 17 0xc7fa;
  E 16 0x7fa; E 16 0xffa; E 16 0x17fa; E 17 0xcffa; E 17 0xd7fa; E 17 0xdffa; E 17 0xe7fa; E 17 0xeffa; E 17 0xf7fa;
  E 17 0xfffa; E 18 0x2e7fa; E 19 0x7dffa; E 26 0x3ffe7fa; E 17 0x107fa; E 23 0x7fdffa; E 21 0x1fe7fa; E 24 0xffd7fa;
  E 17 0x10ffa; E 18 0x2effa; E 18 0x2f7fa; E 18 0x2fffa; E 18 0x307fa; E 18 0x30ffa; E 18 0x317fa; E 18 0x31ffa;
  E 18 0x327fa; E 18 0x32ffa; E 18 0x337fa; E 18 0x33ffa; E 18 0x347fa; E 18 0x34ffa; E 18 0x357fa; E 18 0x35ffa;
  E 18 0x367fa; E 18 0x36ffa; E 18 0x377fa; E 18 0x37ffa; E 18 0x387fa; E 18 0x38ffa; E 18 0x397fa; E 19 0x7e7fa;
  E 18 0x39ffa; E 19 0x7effa; E 24 0xffdffa; E 30 0x3fff87fa; E 24 0xffe7fa; E 25 0x1ffe7fa; E 17 0x117fa;
  E 26 0x3ffeffa; E 16 0x1ffa; E 17 0x11ffa; E 16 0x27fa; E 17 0x127fa; E 16 0x2ffa; E 17 0x12ffa; E 17 0x137fa;
  E 17 0x13ffa; E 16 0x37fa; E 18 0x3a7fa; E 18 0x3affa; E 17 0x147fa; E 17 0x14ffa; E 17 0x157fa; E 16 0x3ffa;
  E 17 0x15ffa; E 18 0x3b7fa; E 17 0x167fa; E 16 0x47fa; E 16 0x4ffa; E 17 0x16ffa; E 18 0x3bffa; E 18 0x3c7fa;
  E 18 0x3cffa; E 18 0x3d7fa; E 18 0x3dffa; E 26 0x3fff7fa; E 22 0x3fe7fa; E 25 0x1ffeffa; E 24 0xffeffa; X;
  E 31 0x7fff37fa; X; E 31 0x7fff3ffa; E 31 0x7fff47fa; X; X; X; X; X; X; X; X; X; X; X; X; X; X; X; X; X; X; X; X; X;
  E 32 0xfffee7fa; X; X; X; X; X; X; X; E 32 0xfffeeffa; E 31 0x7fff4ffa; X; X; X; X; E 32 0xfffef7fa; X; X; X; X;
  E 32 0xfffefffa; X; X; X; E 32 0xffff07fa; E 32 0xffff0ffa; X; E 32 0xffff17fa; X; X; X; X; E 31 0x7fff57fa; X; X;
  X; X; X; X; X; X; X; E 31 0x7fff5ffa; E 30 0x3fff8ffa; X; X; X; X; X; X; X; X; X; X; X; X; E 30 0x3fff97fa;
  E 32 0xffff1ffa; X; X; X; X; X; X; E 32 0xffff27fa; E 32 0xffff2ffa; X; X; X; X; X; X; E 31 0x7fff67fa; X;
  E 31 0x7fff6ffa; E 32 0xffff37fa; X; E 32 0xffff3ffa; E 32 0xffff47fa; X; X; X; X; X; X; X; X; X; X; X; X; X; X; X;
  X; X; X; X; X; X; X; X; X; X].
Definition hencs_40 : list henc := [
  E 23 0x7fe3fa; X; X; X; X; X; X; X; X; X; X; X; X; X; X; X; X; X; X; X; X; X; X; X; X; X; X; X; X; X; X; X;
  E 16 0x53fa; E 20 0xfe3fa; E 20 0xfe7fa; E 22 0x3febfa; E 23 0x7fe7fa; E 16 0x57fa; E 18 0x3e3fa; E 21 0x1febfa;
  E 20 0xfebfa; E 20 0xfeffa; E 18 0x3e7fa; E 21 0x1feffa; E 18 0x3ebfa; E 16 0x5bfa; E 16 0x5ffa; E 16 0x63fa;
  E 15 0x3fa; E 15 0x7fa; E 15 0xbfa; E 16 0x67fa; E 16 0x6bfa; E 16 0x6ffa; E 16 0x73fa; E 16 0x77fa; E 16 0x7bfa;
  E 16 0x7ffa; E 17 0x173fa; E 18 0x3effa; E 25 0x1fff3fa; E 16 0x83fa; E 22 0x3feffa; E 20 0xff3fa; E 23 0x7febfa;
  E 16 0x87fa; E 17 0x177fa; E 17 0x17bfa; E 17 0x17ffa; E 17 0x183fa; E 17 0x187fa; E 17 0x18bfa; E 17 0x18ffa;
  E 17 0x193fa; E 17 0x197fa; E 17 0x19bfa; E 17 0x19ffa; E 17 0x1a3fa; E 17 0x1a7fa; E 17 0x1abfa; E 17 0x1affa;
  E 17 0x1b3fa; E 17 0x1b7fa; E 17 0x1bbfa; E 17 0x1bffa; E 17 0x1c3fa; E 17 0x1c7fa; E 17 0x1cbfa; E 18 0x3f3fa;
  E 17 0x1cffa; E 18 0x3f7fa; E 23 0x7feffa; E 29 0x1fffc3fa; E 23 0x7ff3fa; E 24 0xfff3fa; E 16 0x8bfa;
  E 25 0x1fff7fa; E 15 0xffa; E 16 0x8ffa; E 15 0x13fa; E 16 0x93fa; E 15 0x17fa; E 16 0x97fa; E 16 0x9bfa;
  E 16 0x9ffa; E 15 0x1bfa; E 17 0x1d3fa; E 17 0x1d7fa; E 16 0xa3fa; E 16 0xa7fa; E 16 0xabfa; E 15 0x1ffa;
  E 16 0xaffa; E 17 0x1dbfa; E 16 0xb3fa; E 15 0x23fa; E 15 0x27fa; E 16 0xb7fa; E 17 0x1dffa; E 17 0x1e3fa;
  E 17 0x1e7fa; E 17 0x1ebfa; E 17 0x1effa; E 25 0x1fffbfa; E 21 0x1ff3fa; E 24 0xfff7fa; E 23 0x7ff7fa; X;
  E 30 0x3fff9bfa; E 32 0xffff4bfa; E 30 0x3fff9ffa; E 30 0x3fffa3fa; E 32 0xffff4ffa; E 32 0xffff53fa;
  E 32 0xffff57fa; X; E 32 0xffff5bfa; X; X; X; X; X; X; X; X; X; E 32 0xffff5ffa; X; X; X; X; X; X; E 31 0x7fff73fa;
  E 32 0xffff63fa; X; E 32 0xffff67fa; X; X; X; E 32 0xffff6bfa; E 31 0x7fff77fa; E 30 0x3fffa7fa; E 32 0xffff6ffa;
  E 32 0xffff73fa; X; X; E 31 0x7fff7bfa; X; E 32 0xffff77fa; E 32 0xffff7bfa; X; E 31 0x7fff7ffa; E 32 0xffff7ffa; X;
  X; E 31 0x7fff83fa; E 31 0x7fff87fa; E 32 0xffff83fa; E 31 0x7fff8bfa; X; E 32 0xffff87fa; X; X; E 30 0x3fffabfa;
  E 32 0xffff8bfa; E 32 0xffff8ffa; E 32 0xffff93fa; X; E 32 0xffff97fa; E 32 0xffff9bfa; X; X; X; E 30 0x3fffaffa;
  E 29 0x1fffc7fa; E 32 0xffff9ffa; X; E 32 0xffffa3fa; X; X; X; X; X; X; X; X; X; E 29 0x1fffcbfa; E 31 0x7fff8ffa;
  X; X; X; X; X; X; E 31 0x7fff93fa; E 31 0x7fff97fa; X; X; X; X; X; X; E 30 0x3fffb3fa; X; E 30 0x3fffb7fa;
  E 31 0x7fff9bfa; E 32 0xffffa7fa; E 31 0x7fff9ffa; E 31 0x7fffa3fa; X; E 32 0xffffabfa; E 32 0xffffaffa; X; X; X; X;
  X; X; X; X; X; X; X; X; X; X; X; X; X; X; X; X; X; X].
Definition hencs_41 : list henc := [
  E 23 0x7fe3fb; X; X; X; X; X; X; X; X; X; X; X; X; X; X; X; X; X; X; X; X; X; X; X; X; X; X; X; X; X; X; X;
  E 16 0x53fb; E 20 0xfe3fb; E 20 0xfe7fb; E 22 0x3febfb; E 23 0x7fe7fb; E 16 0x57fb; E 18 0x3e3fb; E 21 0x1febfb;
  E 20 0xfebfb; E 20 0xfeffb; E 18 0x3e7fb; E 21 0x1feffb; E 18 0x3ebfb; E 16 0x5bfb; E 16 0x5ffb; E 16 0x63fb;
  E 15 0x3fb; E 15 0x7fb; E 15 0xbfb; E 16 0x67fb; E 16 0x6bfb; E 16 0x6ffb; E 16 0x73fb; E 16 0x77fb; E 16 0x7bfb;
  E 16 0x7ffb; E 17 0x173fb; E 18 0x3effb; E 25 0x1fff3fb; E 16 0x83fb; E 22 0x3feffb; E 20 0xff3fb; E 23 0x7febfb;
  E 16 0x87fb; E 17 0x177fb; E 17 0x17bfb; E 17 0x17ffb; E 17 0x183fb; E 17 0x187fb; E 17 0x18bfb; E 17 0x18ffb;
  E 17 0x193fb; E 17 0x197fb; E 17 0x19bfb; E 17 0x19ffb; E 17 0x1a3fb; E 17 0x1a7fb; E 17 0x1abfb; E 17 0x1affb;
  E 17 0x1b3fb; E 17 0x1b7fb; E 17 0x1bbfb; E 17 0x1bffb; E 17 0x1c3fb; E 17 0x1c7fb; E 17 0x1cbfb; E 18 0x3f3fb;
  E 17 0x1cffb; E 18 0x3f7fb; E 23 0x7feffb; E 29 0x1fffc3fb; E 23 0x7ff3fb; E 24 0xfff3fb; E 16 0x8bfb;
  E 25 0x1fff7fb; E 15 0xffb; E 16 0x8ffb; E 15 0x13fb; E 16 0x93fb; E 15 0x17fb; E 16 0x97fb; E 16 0x9bfb;
  E 16 0x9ffb; E 15 0x1bfb; E 17 0x1d3fb; E 17 0x1d7fb; E 16 0xa3fb; E 16 0xa7fb; E 16 0xabfb; E 15 0x1ffb;
  E 16 0xaffb; E 17 0x1dbfb; E 16 0xb3fb; E 15 0x23fb; E 15 0x27fb; E 16 0xb7fb; E 17 0x1dffb; E 17 0x1e3fb;
  E 17 0x1e7fb; E 17 0x1ebfb; E 17 0x1effb; E 25 0x1fffbfb; E 21 0x1ff3fb; E 24 0xfff7fb; E 23 0x7ff7fb; X;
  E 30 0x3fff9bfb; E 32 0xffff4bfb; E 30 0x3fff9ffb; E 30 0x3fffa3fb; E 32 0xffff4ffb; E 32 0xffff53fb;
  E 32 0xffff57fb; X; E 32 0xffff5bfb; X; X; X; X; X; X; X; X; X; E 32 0xffff5ffb; X; X; X; X; X; X; E 31 0x7fff73fb;
  E 32 0xffff63fb; X; E 32 0xffff67fb; X; X; X; E 32 0xffff6bfb; E 31 0x7fff77fb; E 30 0x3fffa7fb; E 32 0xffff6ffb;
  E 32 0xffff73fb; X; X; E 31 0x7fff7bfb; X; E 32 0xffff77fb; E 32 0xffff7bfb; X; E 31 0x7fff7ffb; E 32 0xffff7ffb; X;
  X; E 31 0x7fff83fb; E 31 0x7fff87fb; E 32 0xffff83fb; E 31 0x7fff8bfb; X; E 32 0xffff87fb; X; X; E 30 0x3fffabfb;
  E 32 0xffff8bfb; E 32 0xffff8ffb; E 32 0xffff93fb; X; E 32 0xffff97fb; E 32 0xffff9bfb; X; X; X; E 30 0x3fffaffb;
  E 29 0x1fffc7fb; E 32 0xffff9ffb; X; E 32 0xffffa3fb; X; X; X; X; X; X; X; X; X; E 29 0x1fffcbfb; E 31 0x7fff8ffb;
  X; X; X; X; X; X; E 31 0x7fff93fb; E 31 0x7fff97fb; X; X; X; X; X; X; E 30 0x3fffb3fb; X; E 30 0x3fffb7fb;
  E 31 0x7fff9bfb; E 32 0xffffa7fb; E 31 0x7fff9ffb; E 31 0x7fffa3fb; X; E 32 0xffffabfb; E 32 0xffffaffb; X; X; X; X;
  X; X; X; X; X; X; X; X; X; X; X; X; X; X; X; X; X; X].
Definition hencs_42 : list henc := [
  E 21 0x1ff8f9; E 31 0x7fffd8f9; X; X; X; X; X; X; X; E 32 0xffffeaf9; X; X; X; X; X; X; X; X; X; X; X; X; X; X; X;
  X; X; X; X; X; X; X; E 14 0x14f9; E 18 0x3f8f9; E 18 0x3f9f9; E 20 0xffaf9; E 21 0x1ff9f9; E 14 0x15f9; E 16 0xf8f9;
  E 19 0x7faf9; E 18 0x3faf9; E 18 0x3fbf9; E 16 0xf9f9; E 19 0x7fbf9; E 16 0xfaf9; E 14 0x16f9; E 14 0x17f9;
  E 14 0x18f9; E 13 0xf9; E 13 0x1f9; E 13 0x2f9; E 14 0x19f9; E 14 0x1af9; E 14 0x1bf9; E 14 0x1cf9; E 14 0x1df9;
  E 14 0x1ef9; E 14 0x1ff9; E 15 0x5cf9; E 16 0xfbf9; E 23 0x7ffcf9; E 14 0x20f9; E 20 0xffbf9; E 18 0x3fcf9;
  E 21 0x1ffaf9; E 14 0x21f9; E 15 0x5df9; E 15 0x5ef9; E 15 0x5ff9; E 15 0x60f9; E 15 0x61f9; E 15 0x62f9;
  E 15 0x63f9; E 15 0x64f9; E 15 0x65f9; E 15 0x66f9; E 15 0x67f9; E 15 0x68f9; E 15 0x69f9; E 15 0x6af9; E 15 0x6bf9;
  E 15 0x6cf9; E 15 0x6df9; E 15 0x6ef9; E 15 0x6ff9; E 15 0x70f9; E 15 0x71f9; E 15 0x72f9; E 16 0xfcf9; E 15 0x73f9;
  E 16 0xfdf9; E 21 0x1ffbf9; E 27 0x7fff0f9; E 21 0x1ffcf9; E 22 0x3ffcf9; E 14 0x22f9; E 23 0x7ffdf9; E 13 0x3f9;
  E 14 0x23f9; E 13 0x4f9; E 14 0x24f9; E 13 0x5f9; E 14 0x25f9; E 14 0x26f9; E 14 0x27f9; E 13 0x6f9; E 15 0x74f9;
  E 15 0x75f9; E 14 0x28f9; E 14 0x29f9; E 14 0x2af9; E 13 0x7f9; E 14 0x2bf9; E 15 0x76f9; E 14 0x2cf9; E 13 0x8f9;
  E 13 0x9f9; E 14 0x2df9; E 15 0x77f9; E 15 0x78f9; E 15 0x79f9; E 15 0x7af9; E 15 0x7bf9; E 23 0x7ffef9;
  E 19 0x7fcf9; E 22 0x3ffdf9; E 21 0x1ffdf9; X; E 28 0xfffe6f9; E 30 0x3fffd2f9; E 28 0xfffe7f9; E 28 0xfffe8f9;
  E 30 0x3fffd3f9; E 30 0x3fffd4f9; E 30 0x3fffd5f9; E 31 0x7fffd9f9; E 30 0x3fffd6f9; E 31 0x7fffdaf9;
  E 31 0x7fffdbf9; E 31 0x7fffdcf9; E 31 0x7fffddf9; E 31 0x7fffdef9; E 32 0xffffebf9; E 31 0x7fffdff9;
  E 32 0xffffecf9; E 32 0xffffedf9; E 30 0x3fffd7f9; E 31 0x7fffe0f9; E 32 0xffffeef9; E 31 0x7fffe1f9;
  E 31 0x7fffe2f9; E 31 0x7fffe3f9; E 31 0x7fffe4f9; E 29 0x1fffdcf9; E 30 0x3fffd8f9; E 31 0x7fffe5f9;
  E 30 0x3fffd9f9; E 31 0x7fffe6f9; E 31 0x7fffe7f9; E 32 0xffffeff9; E 30 0x3fffdaf9; E 29 0x1fffddf9;
  E 28 0xfffe9f9; E 30 0x3fffdbf9; E 30 0x3fffdcf9; E 31 0x7fffe8f9; E 31 0x7fffe9f9; E 29 0x1fffdef9;
  E 31 0x7fffeaf9; E 30 0x3fffddf9; E 30 0x3fffdef9; E 32 0xfffff0f9; E 29 0x1fffdff9; E 30 0x3fffdff9;
  E 31 0x7fffebf9; E 31 0x7fffecf9; E 29 0x1fffe0f9; E 29 0x1fffe1f9; E 30 0x3fffe0f9; E 29 0x1fffe2f9;
  E 31 0x7fffedf9; E 30 0x3fffe1f9; E 31 0x7fffeef9; E 31 0x7fffeff9; E 28 0xfffeaf9; E 30 0x3fffe2f9;
  E 30 0x3fffe3f9; E 30 0x3fffe4f9; E 31 0x7ffff0f9; E 30 0x3fffe5f9; E 30 0x3fffe6f9; E 31 0x7ffff1f9; X; X;
  E 28 0xfffebf9; E 27 0x7fff1f9; E 30 0x3fffe7f9; E 31 0x7ffff2f9; E 30 0x3fffe8f9; X; X; X; X; X; X; X;
  E 32 0xfffff1f9; X; E 27 0x7fff2f9; E 29 0x1fffe3f9; X; X; X; X; X; E 32 0xfffff2f9; E 29 0x1fffe4f9;
  E 29 0x1fffe5f9; X; X; X; X; X; X; E 28 0xfffecf9; E 32 0xfffff3f9; E 28 0xfffedf9; E 29 0x1fffe6f9;
  E 30 0x3fffe9f9; E 29 0x1fffe7f9; E 29 0x1fffe8f9; E 31 0x7ffff3f9; E 30 0x3fffeaf9; E 30 0x3fffebf9; X; X;
  E 32 0xfffff4f9; E 32 0xfffff5f9; X; E 31 0x7ffff4f9; X; X; X; X; X; X; X; X; X; X; X; X; X; X; X; X].
Definition hencs_43 : list henc := [
  E 24 0xffc7fb; X; X; X; X; X; X; X; X; X; X; X; X; X; X; X; X; X; X; X; X; X; X; X; X; X; X; X; X; X; X; X;
  E 17 0xa7fb; E 21 0x1fc7fb; E 21 0x1fcffb; E 23 0x7fd7fb; E 24 0xffcffb; E 17 0xaffb; E 19 0x7c7fb; E 22 0x3fd7fb;
  E 21 0x1fd7fb; E 21 0x1fdffb; E 19 0x7cffb; E 22 0x3fdffb; E 19 0x7d7fb; E 17 0xb7fb; E 17 0xbffb; E 17 0xc7fb;
  E 16 0x7fb; E 16 0xffb; E 16 0x17fb; E 17 0xcffb; E 17 0xd7fb; E 17 0xdffb; E 17 0xe7fb; E 17 0xeffb; E 17 0xf7fb;
  E 17 0xfffb; E 18 0x2e7fb; E 19 0x7dffb; E 26 0x3ffe7fb; E 17 0x107fb; E 23 0x7fdffb; E 21 0x1fe7fb; E 24 0xffd7fb;
  E 17 0x10ffb; E 18 0x2effb; E 18 0x2f7fb; E 18 0x2fffb; E 18 0x307fb; E 18 0x30ffb; E 18 0x317fb; E 18 0x31ffb;
  E 18 0x327fb; E 18 0x32ffb; E 18 0x337fb; E 18 0x33ffb; E 18 0x347fb; E 18 0x34ffb; E 18 0x357fb; E 18 0x35ffb;
  E 18 0x367fb; E 18 0x36ffb; E 18 0x377fb; E 18 0x37ffb; E 18 0x387fb; E 18 0x38ffb; E 18 0x397fb; E 19 0x7e7fb;
  E 18 0x39ffb; E 19 0x7effb; E 24 0xffdffb; E 30 0x3fff87fb; E 24 0xffe7fb; E 25 0x1ffe7fb; E 17 0x117fb;
  E 26 0x3ffeffb; E 16 0x1ffb; E 17 0x11ffb; E 16 0x27fb; E 17 0x127fb; E 16 0x2ffb; E 17 0x12ffb; E 17 0x137fb;
  E 17 0x13ffb; E 16 0x37fb; E 18 0x3a7fb; E 18 0x3affb; E 17 0x147fb; E 17 0x14ffb; E 17 0x157fb; E 16 0x3ffb;
  E 17 0x15ffb; E 18 0x3b7fb; E 17 0x167fb; E 16 0x47fb; E 16 0x4ffb; E 17 0x16ffb; E 18 0x3bffb; E 18 0x3c7fb;
  E 18 0x3cffb; E 18 0x3d7fb; E 18 0x3dffb; E 26 0x3fff7fb; E 22 0x3fe7fb; E 25 0x1ffeffb; E 24 0xffeffb; X;
  E 31 0x7fff37fb; X; E 31 0x7fff3ffb; E 31 0x7fff47fb; X; X; X; X; X; X; X; X; X; X; X; X; X; X; X; X; X; X; X; X; X;
  E 32 0xfffee7fb; X; X; X; X; X; X; X; E 32 0xfffeeffb; E 31 0x7fff4ffb; X; X; X; X; E 32 0xfffef7fb; X; X; X; X;
  E 32 0xfffefffb; X; X; X; E 32 0xffff07fb; E 32 0xffff0ffb; X; E 32 0xffff17fb; X; X; X; X; E 31 0x7fff57fb; X; X;
  X; X; X; X; X; X; X; E 31 0x7fff5ffb; E 30 0x3fff8ffb; X; X; X; X; X; X; X; X; X; X; X; X; E 30 0x3fff97fb;
  E 32 0xffff1ffb; X; X; X; X; X; X; E 32 0xffff27fb; E 32 0xffff2ffb; X; X; X; X; X; X; E 31 0x7fff67fb; X;
  E 31 0x7fff6ffb; E 32 0xffff37fb; X; E 32 0xffff3ffb; E 32 0xffff47fb; X; X; X; X; X; X; X; X; X; X; X; X; X; X; X;
  X; X; X; X; X; X; X; X; X; X].
Definition hencs_44 : list henc := [
  E 21 0x1ff8fa; E 31 0x7fffd8fa; X; X; X; X; X; X; X; E 32 0xffffeafa; X; X; X; X; X; X; X; X; X; X; X; X; X; X; X;
  X; X; X; X; X; X; X; E 14 0x14fa; E 18 0x3f8fa; E 18 0x3f9fa; E 20 0xffafa; E 21 0x1ff9fa; E 14 0x15fa; E 16 0xf8fa;
  E 19 0x7fafa; E 18 0x3fafa; E 18 0x3fbfa; E 16 0xf9fa; E 19 0x7fbfa; E 16 0xfafa; E 14 0x16fa; E 14 0x17fa;
  E 14 0x18fa; E 13 0xfa; E 13 0x1fa; E 13 0x2fa; E 14 0x19fa; E 14 0x1afa; E 14 0x1bfa; E 14 0x1cfa; E 14 0x1dfa;
  E 14 0x1efa; E 14 0x1ffa; E 15 0x5cfa; E 16 0xfbfa; E 23 0x7ffcfa; E 14 0x20fa; E 20 0xffbfa; E 18 0x3fcfa;
  E 21 0x1ffafa; E 14 0x21fa; E 15 0x5dfa; E 15 0x5efa; E 15 0x5ffa; E 15 0x60fa; E 15 0x61fa; E 15 0x62fa;
  E 15 0x63fa; E 15 0x64fa; E 15 0x65fa; E 15 0x66fa; E 15 0x67fa; E 15 0x68fa; E 15 0x69fa; E 15 0x6afa; E 15 0x6bfa;
  E 15 0x6cfa; E 15 0x6dfa; E 15 0x6efa; E 15 0x6ffa; E 15 0x70fa; E 15 0x71fa; E 15 0x72fa; E 16 0xfcfa; E 15 0x73fa;
  E 16 0xfdfa; E 21 0x1ffbfa; E 27 0x7fff0fa; E 21 0x1ffcfa; E 22 0x3ffcfa; E 14 0x22fa; E 23 0x7ffdfa; E 13 0x3fa;
  E 14 0x23fa; E 13 0x4fa; E 14 0x24fa; E 13 0x5fa; E 14 0x25fa; E 14 0x26fa; E 14 0x27fa; E 13 0x6fa; E 15 0x74fa;
  E 15 0x75fa; E 14 0x28fa; E 14 0x29fa; E 14 0x2afa; E 13 0x7fa; E 14 0x2bfa; E 15 0x76fa; E 14 0x2cfa; E 13 0x8fa;
  E 13 0x9fa; E 14 0x2dfa; E 15 0x77fa; E 15 0x78fa; E 15 0x79fa; E 15 0x7afa; E 15 0x7bfa; E 23 0x7ffefa;
  E 19 0x7fcfa; E 22 0x3ffdfa; E 21 0x1ffdfa; X; E 28 0xfffe6fa; E 30 0x3fffd2fa; E 28 0xfffe7fa; E 28 0xfffe8fa;
  E 30 0x3fffd3fa; E 30 0x3fffd4fa; E 30 0x3fffd5fa; E 31 0x7fffd9fa; E 30 0x3fffd6fa; E 31 0x7fffdafa;
  E 31 0x7fffdbfa; E 31 0x7fffdcfa; E 31 0x7fffddfa; E 31 0x7fffdefa; E 32 0xffffebfa; E 31 0x7fffdffa;
  E 32 0xffffecfa; E 32 0xffffedfa; E 30 0x3fffd7fa; E 31 0x7fffe0fa; E 32 0xffffeefa; E 31 0x7fffe1fa;
  E 31 0x7fffe2fa; E 31 0x7fffe3fa; E 31 0x7fffe4fa; E 29 0x1fffdcfa; E 30 0x3fffd8fa; E 31 0x7fffe5fa;
  E 30 0x3fffd9fa; E 31 0x7fffe6fa; E 31 0x7fffe7fa; E 32 0xffffeffa; E 30 0x3fffdafa; E 29 0x1fffddfa;
  E 28 0xfffe9fa; E 30 0x3fffdbfa; E 30 0x3fffdcfa; E 31 0x7fffe8fa; E 31 0x7fffe9fa; E 29 0x1fffdefa;
  E 31 0x7fffeafa; E 30 0x3fffddfa; E 30 0x3fffdefa; E 32 0xfffff0fa; E 29 0x1fffdffa; E 30 0x3fffdffa;
  E 31 0x7fffebfa; E 31 0x7fffecfa; E 29 0x1fffe0fa; E 29 0x1fffe1fa; E 30 0x3fffe0fa; E 29 0x1fffe2fa;
  E 31 0x7fffedfa; E 30 0x3fffe1fa; E 31 0x7fffeefa; E 31 0x7fffeffa; E 28 0xfffeafa; E 30 0x3fffe2fa;
  E 30 0x3fffe3fa; E 30 0x3fffe4fa; E 31 0x7ffff0fa; E 30 0x3fffe5fa; E 30 0x3fffe6fa; E 31 0x7ffff1fa; X; X;
  E 28 0xfffebfa; E 27 0x7fff1fa; E 30 0x3fffe7fa; E 31 0x7ffff2fa; E 30 0x3fffe8fa; X; X; X; X; X; X; X;
  E 32 0xfffff1fa; X; E 27 0x7fff2fa; E 29 0x1fffe3fa; X; X; X; X; X; E 32 0xfffff2fa; E 29 0x1fffe4fa;
  E 29 0x1fffe5fa; X; X; X; X; X; X; E 28 0xfffecfa; E 32 0xfffff3fa; E 28 0xfffedfa; E 29 0x1fffe6fa;
  E 30 0x3fffe9fa; E 29 0x1fffe7fa; E 29 0x1fffe8fa; E 31 0x7ffff3fa; E 30 0x3fffeafa; E 30 0x3fffebfa; X; X;
  E 32 0xfffff4fa; E 32 0xfffff5fa; X; E 31 0x7ffff4fa; X; X; X; X; X; X; X; X; X; X; X; X; X; X; X; X].
Definition hencs_45 : list henc := [
  E 19 0x7fe16; E 29 0x1ffff616; X; X; X; X; X; X; X; E 30 0x3ffffa96; X; X; X; X; X; X; X; X; X; X; X; X; X; X; X; X;
  X; X; X; X; X; X; E 12 0x516; E 16 0xfe16; E 16 0xfe56; E 18 0x3fe96; E 19 0x7fe56; E 12 0x556; E 14 0x3e16;
  E 17 0x1fe96; E 16 0xfe96; E 16 0xfed6; E 14 0x3e56; E 17 0x1fed6; E 14 0x3e96; E 12 0x596; E 12 0x5d6; E 12 0x616;
  E 11 0x16; E 11 0x56; E 11 0x96; E 12 0x656; E 12 0x696; E 12 0x6d6; E 12 0x716; E 12 0x756; E 12 0x796; E 12 0x7d6;
  E 13 0x1716; E 14 0x3ed6; E 21 0x1fff16; E 12 0x816; E 18 0x3fed6; E 16 0xff16; E 19 0x7fe96; E 12 0x856;
  E 13 0x1756; E 13 0x1796; E 13 0x17d6; E 13 0x1816; E 13 0x1856; E 13 0x1896; E 13 0x18d6; E 13 0x1916; E 13 0x1956;
  E 13 0x1996; E 13 0x19d6; E 13 0x1a16; E 13 0x1a56; E 13 0x1a96; E 13 0x1ad6; E 13 0x1b16; E 13 0x1b56; E 13 0x1b96;
  E 13 0x1bd6; E 13 0x1c16; E 13 0x1c56; E 13 0x1c96; E 14 0x3f16; E 13 0x1cd6; E 14 0x3f56; E 19 0x7fed6;
  E 25 0x1fffc16; E 19 0x7ff16; E 20 0xfff16; E 12 0x896; E 21 0x1fff56; E 11 0xd6; E 12 0x8d6; E 11 0x116;
  E 12 0x916; E 11 0x156; E 12 0x956; E 12 0x996; E 12 0x9d6; E 11 0x196; E 13 0x1d16; E 13 0x1d56; E 12 0xa16;
  E 12 0xa56; E 12 0xa96; E 11 0x1d6; E 12 0xad6; E 13 0x1d96; E 12 0xb16; E 11 0x216; E 11 0x256; E 12 0xb56;
  E 13 0x1dd6; E 13 0x1e16; E 13 0x1e56; E 13 0x1e96; E 13 0x1ed6; E 21 0x1fff96; E 17 0x1ff16; E 20 0xfff56;
  E 19 0x7ff56; X; E 26 0x3fff996; E 28 0xffff496; E 26 0x3fff9d6; E 26 0x3fffa16; E 28 0xffff4d6; E 28 0xffff516;
  E 28 0xffff556; E 29 0x1ffff656; E 28 0xffff596; E 29 0x1ffff696; E 29 0x1ffff6d6; E 29 0x1ffff716; E 29 0x1ffff756;
  E 29 0x1ffff796; E 30 0x3ffffad6; E 29 0x1ffff7d6; E 30 0x3ffffb16; E 30 0x3ffffb56; E 28 0xffff5d6;
  E 29 0x1ffff816; E 30 0x3ffffb96; E 29 0x1ffff856; E 29 0x1ffff896; E 29 0x1ffff8d6; E 29 0x1ffff916;
  E 27 0x7fff716; E 28 0xffff616; E 29 0x1ffff956; E 28 0xffff656; E 29 0x1ffff996; E 29 0x1ffff9d6; E 30 0x3ffffbd6;
  E 28 0xffff696; E 27 0x7fff756; E 26 0x3fffa56; E 28 0xffff6d6; E 28 0xffff716; E 29 0x1ffffa16; E 29 0x1ffffa56;
  E 27 0x7fff796; E 29 0x1ffffa96; E 28 0xffff756; E 28 0xffff796; E 30 0x3ffffc16; E 27 0x7fff7d6; E 28 0xffff7d6;
  E 29 0x1ffffad6; E 29 0x1ffffb16; E 27 0x7fff816; E 27 0x7fff856; E 28 0xffff816; E 27 0x7fff896; E 29 0x1ffffb56;
  E 28 0xffff856; E 29 0x1ffffb96; E 29 0x1ffffbd6; E 26 0x3fffa96; E 28 0xffff896; E 28 0xffff8d6; E 28 0xffff916;
  E 29 0x1ffffc16; E 28 0xffff956; E 28 0xffff996; E 29 0x1ffffc56; E 32 0xfffff816; E 32 0xfffff856; E 26 0x3fffad6;
  E 25 0x1fffc56; E 28 0xffff9d6; E 29 0x1ffffc96; E 28 0xffffa16; E 31 0x7ffffb16; E 32 0xfffff896; E 32 0xfffff8d6;
  E 32 0xfffff916; X; X; E 32 0xfffff956; E 30 0x3ffffc56; E 31 0x7ffffb56; E 25 0x1fffc96; E 27 0x7fff8d6;
  E 32 0xfffff996; X; X; E 32 0xfffff9d6; X; E 30 0x3ffffc96; E 27 0x7fff916; E 27 0x7fff956; E 32 0xfffffa16;
  E 32 0xfffffa56; X; X; X; X; E 26 0x3fffb16; E 30 0x3ffffcd6; E 26 0x3fffb56; E 27 0x7fff996; E 28 0xffffa56;
  E 27 0x7fff9d6; E 27 0x7fffa16; E 29 0x1ffffcd6; E 28 0xffffa96; E 28 0xffffad6; E 31 0x7ffffb96; E 31 0x7ffffbd6;
  E 30 0x3ffffd16; E 30 0x3ffffd56; E 32 0xfffffa96; E 29 0x1ffffd16; E 32 0xfffffad6; X; E 32 0xfffffb16;
  E 32 0xfffffb56; X; X; X; X; X; X; X; X; X; X; X; E 32 0xfffffb96].
Definition hencs_46 : list henc := [
  E 19 0x7fe17; E 29 0x1ffff617; X; X; X; X; X; X; X; E 30 0x3ffffa97; X; X; X; X; X; X; X; X; X; X; X; X; X; X; X; X;
  X; X; X; X; X; X; E 12 0x517; E 16 0xfe17; E 16 0xfe57; E 18 0x3fe97; E 19 0x7fe57; E 12 0x557; E 14 0x3e17;
  E 17 0x1fe97; E 16 0xfe97; E 16 0xfed7; E 14 0x3e57; E 17 0x1fed7; E 14 0x3e97; E 12 0x597; E 12 0x5d7; E 12 0x617;
  E 11 0x17; E 11 0x57; E 11 0x97; E 12 0x657; E 12 0x697; E 12 0x6d7; E 12 0x717; E 12 0x757; E 12 0x797; E 12 0x7d7;
  E 13 0x1717; E 14 0x3ed7; E 21 0x1fff17; E 12 0x817; E 18 0x3fed7; E 16 0xff17; E 19 0x7fe97; E 12 0x857;
  E 13 0x1757; E 13 0x1797; E 13 0x17d7; E 13 0x1817; E 13 0x1857; E 13 0x1897; E 13 0x18d7; E 13 0x1917; E 13 0x1957;
  E 13 0x1997; E 13 0x19d7; E 13 0x1a17; E 13 0x1a57; E 13 0x1a97; E 13 0x1ad7; E 13 0x1b17; E 13 0x1b57; E 13 0x1b97;
  E 13 0x1bd7; E 13 0x1c17; E 13 0x1c57; E 13 0x1c97; E 14 0x3f17; E 13 0x1cd7; E 14 0x3f57; E 19 0x7fed7;
  E 25 0x1fffc17; E 19 0x7ff17; E 20 0xfff17; E 12 0x897; E 21 0x1fff57; E 11 0xd7; E 12 0x8d7; E 11 0x117;
  E 12 0x917; E 11 0x157; E 12 0x957; E 12 0x997; E 12 0x9d7; E 11 0x197; E 13 0x1d17; E 13 0x1d57; E 12 0xa17;
  E 12 0xa57; E 12 0xa97; E 11 0x1d7; E 12 0xad7; E 13 0x1d97; E 12 0xb17; E 11 0x217; E 11 0x257; E 12 0xb57;
  E 13 0x1dd7; E 13 0x1e17; E 13 0x1e57; E 13 0x1e97; E 13 0x1ed7; E 21 0x1fff97; E 17 0x1ff17; E 20 0xfff57;
  E 19 0x7ff57; X; E 26 0x3fff997; E 28 0xffff497; E 26 0x3fff9d7; E 26 0x3fffa17; E 28 0xffff4d7; E 28 0xffff517;
  E 28 0xffff557; E 29 0x1ffff657; E 28 0xffff597; E 29 0x1ffff697; E 29 0x1ffff6d7; E 29 0x1ffff717; E 29 0x1ffff757;
  E 29 0x1ffff797; E 30 0x3ffffad7; E 29 0x1ffff7d7; E 30 0x3ffffb17; E 30 0x3ffffb57; E 28 0xffff5d7;
  E 29 0x1ffff817; E 30 0x3ffffb97; E 29 0x1ffff857; E 29 0x1ffff897; E 29 0x1ffff8d7; E 29 0x1ffff917;
  E 27 0x7fff717; E 28 0xffff617; E 29 0x1ffff957; E 28 0xffff657; E 29 0x1ffff997; E 29 0x1ffff9d7; E 30 0x3ffffbd7;
  E 28 0xffff697; E 27 0x7fff757; E 26 0x3fffa57; E 28 0xffff6d7; E 28 0xffff717; E 29 0x1ffffa17; E 29 0x1ffffa57;
  E 27 0x7fff797; E 29 0x1ffffa97; E 28 0xffff757; E 28 0xffff797; E 30 0x3ffffc17; E 27 0x7fff7d7; E 28 0xffff7d7;
  E 29 0x1ffffad7; E 29 0x1ffffb17; E 27 0x7fff817; E 27 0x7fff857; E 28 0xffff817; E 27 0x7fff897; E 29 0x1ffffb57;
  E 28 0xffff857; E 29 0x1ffffb97; E 29 0x1ffffbd7; E 26 0x3fffa97; E 28 0xffff897; E 28 0xffff8d7; E 28 0xffff917;
  E 29 0x1ffffc17; E 28 0xffff957; E 28 0xffff997; E 29 0x1ffffc57; E 32 0xfffff817; E 32 0xfffff857; E 26 0x3fffad7;
  E 25 0x1fffc57; E 28 0xffff9d7; E 29 0x1ffffc97; E 28 0xffffa17; E 31 0x7ffffb17; E 32 0xfffff897; E 32 0xfffff8d7;
  E 32 0xfffff917; X; X; E 32 0xfffff957; E 30 0x3ffffc57; E 31 0x7ffffb57; E 25 0x1fffc97; E 27 0x7fff8d7;
  E 32 0xfffff997; X; X; E 32 0xfffff9d7; X; E 30 0x3ffffc97; E 27 0x7fff917; E 27 0x7fff957; E 32 0xfffffa17;
  E 32 0xfffffa57; X; X; X; X; E 26 0x3fffb17; E 30 0x3ffffcd7; E 26 0x3fffb57; E 27 0x7fff997; E 28 0xffffa57;
  E 27 0x7fff9d7; E 27 0x7fffa17; E 29 0x1ffffcd7; E 28 0xffffa97; E 28 0xffffad7; E 31 0x7ffffb97; E 31 0x7ffffbd7;
  E 30 0x3ffffd17; E 30 0x3ffffd57; E 32 0xfffffa97; E 29 0x1ffffd17; E 32 0xfffffad7; X; E 32 0xfffffb17;
  E 32 0xfffffb57; X; X; X; X; X; X; X; X; X; X; X; E 32 0xfffffb97].
Definition hencs_47 : list henc := [
  E 19 0x7fe18; E 29 0x1ffff618; X; X; X; X; X; X; X; E 30 0x3ffffa98; X; X; X; X; X; X; X; X; X; X; X; X; X; X; X; X;
  X; X; X; X; X; X; E 12 0x518; E 16 0xfe18; E 16 0xfe58; E 18 0x3fe98; E 19 0x7fe58; E 12 0x558; E 14 0x3e18;
  E 17 0x1fe98; E 16 0xfe98; E 16 0xfed8; E 14 0x3e58; E 17 0x1fed8; E 14 0x3e98; E 12 0x598; E 12 0x5d8; E 12 0x618;
  E 11 0x18; E 11 0x58; E 11 0x98; E 12 0x658; E 12 0x698; E 12 0x6d8; E 12 0x718; E 12 0x758; E 12 0x798; E 12 0x7d8;
  E 13 0x1718; E 14 0x3ed8; E 21 0x1fff18; E 12 0x818; E 18 0x3fed8; E 16 0xff18; E 19 0x7fe98; E 12 0x858;
  E 13 0x1758; E 13 0x1798; E 13 0x17d8; E 13 0x1818; E 13 0x1858; E 13 0x1898; E 13 0x18d8; E 13 0x1918; E 13 0x1958;
  E 13 0x1998; E 13 0x19d8; E 13 0x1a18; E 13 0x1a58; E 13 0x1a98; E 13 0x1ad8; E 13 0x1b18; E 13 0x1b58; E 13 0x1b98;
  E 13 0x1bd8; E 13 0x1c18; E 13 0x1c58; E 13 0x1c98; E 14 0x3f18; E 13 0x1cd8; E 14 0x3f58; E 19 0x7fed8;
  E 25 0x1fffc18; E 19 0x7ff18; E 20 0xfff18; E 12 0x898; E 21 0x1fff58; E 11 0xd8; E 12 0x8d8; E 11 0x118;
  E 12 0x918; E 11 0x158; E 12 0x958; E 12 0x998; E 12 0x9d8; E 11 0x198; E 13 0x1d18; E 13 0x1d58; E 12 0xa18;
  E 12 0xa58; E 12 0xa98; E 11 0x1d8; E 12 0xad8; E 13 0x1d98; E 12 0xb18; E 11 0x218; E 11 0x258; E 12 0xb58;
  E 13 0x1dd8; E 13 0x1e18; E 13 0x1e58; E 13 0x1e98; E 13 0x1ed8; E 21 0x1fff98; E 17 0x1ff18; E 20 0xfff58;
  E 19 0x7ff58; X; E 26 0x3fff998; E 28 0xffff498; E 26 0x3fff9d8; E 26 0x3fffa18; E 28 0xffff4d8; E 28 0xffff518;
  E 28 0xffff558; E 29 0x1ffff658; E 28 0xffff598; E 29 0x1ffff698; E 29 0x1ffff6d8; E 29 0x1ffff718; E 29 0x1ffff758;
  E 29 0x1ffff798; E 30 0x3ffffad8; E 29 0x1ffff7d8; E 30 0x3ffffb18; E 30 0x3ffffb58; E 28 0xffff5d8;
  E 29 0x1ffff818; E 30 0x3ffffb98; E 29 0x1ffff858; E 29 0x1ffff898; E 29 0x1ffff8d8; E 29 0x1ffff918;
  E 27 0x7fff718; E 28 0xffff618; E 29 0x1ffff958; E 28 0xffff658; E 29 0x1ffff998; E 29 0x1ffff9d8; E 30 0x3ffffbd8;
  E 28 0xffff698; E 27 0x7fff758; E 26 0x3fffa58; E 28 0xffff6d8; E 28 0xffff718; E 29 0x1ffffa18; E 29 0x1ffffa58;
  E 27 0x7fff798; E 29 0x1ffffa98; E 28 0xffff758; E 28 0xffff798; E 30 0x3ffffc18; E 27 0x7fff7d8; E 28 0xffff7d8;
  E 29 0x1ffffad8; E 29 0x1ffffb18; E 27 0x7fff818; E 27 0x7fff858; E 28 0xffff818; E 27 0x7fff898; E 29 0x1ffffb58;
  E 28 0xffff858; E 29 0x1ffffb98; E 29 0x1ffffbd8; E 26 0x3fffa98; E 28 0xffff898; E 28 0xffff8d8; E 28 0xffff918;
  E 29 0x1ffffc18; E 28 0xffff958; E 28 0xffff998; E 29 0x1ffffc58; E 32 0xfffff818; E 32 0xfffff858; E 26 0x3fffad8;
  E 25 0x1fffc58; E 28 0xffff9d8; E 29 0x1ffffc98; E 28 0xffffa18; E 31 0x7ffffb18; E 32 0xfffff898; E 32 0xfffff8d8;
  E 32 0xfffff918; X; X; E 32 0xfffff958; E 30 0x3ffffc58; E 31 0x7ffffb58; E 25 0x1fffc98; E 27 0x7fff8d8;
  E 32 0xfffff998; X; X; E 32 0xfffff9d8; X; E 30 0x3ffffc98; E 27 0x7fff918; E 27 0x7fff958; E 32 0xfffffa18;
  E 32 0xfffffa58; X; X; X; X; E 26 0x3fffb18; E 30 0x3ffffcd8; E 26 0x3fffb58; E 27 0x7fff998; E 28 0xffffa58;
  E 27 0x7fff9d8; E 27 0x7fffa18; E 29 0x1ffffcd8; E 28 0xffffa98; E 28 0xffffad8; E 31 0x7ffffb98; E 31 0x7ffffbd8;
  E 30 0x3ffffd18; E 30 0x3ffffd58; E 32 0xfffffa98; E 29 0x1ffffd18; E 32 0xfffffad8; X; E 32 0xfffffb18;
  E 32 0xfffffb58; X; X; X; X; X; X; X; X; X; X; X; E 32 0xfffffb98].
Definition hencs_48 : list henc := [
  E 18 0x3ff00; E 28 0xffffb00; X; X; X; X; X; X; X; E 29 0x1ffffd40; X; X; X; X; X; X; X; X; X; X; X; X; X; X; X; X;
  X; X; X; X; X; X; E 11 0x280; E 15 0x7f00; E 15 0x7f20; E 17 0x1ff40; E 18 0x3ff20; E 11 0x2a0; E 13 0x1f00;
  E 16 0xff40; E 15 0x7f40; E 15 0x7f60; E 13 0x1f20; E 16 0xff60; E 13 0x1f40; E 11 0x2c0; E 11 0x2e0; E 11 0x300;
  E 10 0x0; E 10 0x20; E 10 0x40; E 11 0x320; E 11 0x340; E 11 0x360; E 11 0x380; E 11 0x3a0; E 11 0x3c0; E 11 0x3e0;
  E 12 0xb80; E 13 0x1f60; E 20 0xfff80; E 11 0x400; E 17 0x1ff60; E 15 0x7f80; E 18 0x3ff40; E 11 0x420; E 12 0xba0;
  E 12 0xbc0; E 12 0xbe0; E 12 0xc00; E 12 0xc20; E 12 0xc40; E 12 0xc60; E 12 0xc80; E 12 0xca0; E 12 0xcc0;
  E 12 0xce0; E 12 0xd00; E 12 0xd20; E 12 0xd40; E 12 0xd60; E 12 0xd80; E 12 0xda0; E 12 0xdc0; E 12 0xde0;
  E 12 0xe00; E 12 0xe20; E 12 0xe40; E 13 0x1f80; E 12 0xe60; E 13 0x1fa0; E 18 0x3ff60; E 24 0xfffe00; E 18 0x3ff80;
  E 19 0x7ff80; E 11 0x440; E 20 0xfffa0; E 10 0x60; E 11 0x460; E 10 0x80; E 11 0x480; E 10 0xa0; E 11 0x4a0;
  E 11 0x4c0; E 11 0x4e0; E 10 0xc0; E 12 0xe80; E 12 0xea0; E 11 0x500; E 11 0x520; E 11 0x540; E 10 0xe0;
  E 11 0x560; E 12 0xec0; E 11 0x580; E 10 0x100; E 10 0x120; E 11 0x5a0; E 12 0xee0; E 12 0xf00; E 12 0xf20;
  E 12 0xf40; E 12 0xf60; E 20 0xfffc0; E 16 0xff80; E 19 0x7ffa0; E 18 0x3ffa0; X; E 25 0x1fffcc0; E 27 0x7fffa40;
  E 25 0x1fffce0; E 25 0x1fffd00; E 27 0x7fffa60; E 27 0x7fffa80; E 27 0x7fffaa0; E 28 0xffffb20; E 27 0x7fffac0;
  E 28 0xffffb40; E 28 0xffffb60; E 28 0xffffb80; E 28 0xffffba0; E 28 0xffffbc0; E 29 0x1ffffd60; E 28 0xffffbe0;
  E 29 0x1ffffd80; E 29 0x1ffffda0; E 27 0x7fffae0; E 28 0xffffc00; E 29 0x1ffffdc0; E 28 0xffffc20; E 28 0xffffc40;
  E 28 0xffffc60; E 28 0xffffc80; E 26 0x3fffb80; E 27 0x7fffb00; E 28 0xffffca0; E 27 0x7fffb20; E 28 0xffffcc0;
  E 28 0xffffce0; E 29 0x1ffffde0; E 27 0x7fffb40; E 26 0x3fffba0; E 25 0x1fffd20; E 27 0x7fffb60; E 27 0x7fffb80;
  E 28 0xffffd00; E 28 0xffffd20; E 26 0x3fffbc0; E 28 0xffffd40; E 27 0x7fffba0; E 27 0x7fffbc0; E 29 0x1ffffe00;
  E 26 0x3fffbe0; E 27 0x7fffbe0; E 28 0xffffd60; E 28 0xffffd80; E 26 0x3fffc00; E 26 0x3fffc20; E 27 0x7fffc00;
  E 26 0x3fffc40; E 28 0xffffda0; E 27 0x7fffc20; E 28 0xffffdc0; E 28 0xffffde0; E 25 0x1fffd40; E 27 0x7fffc40;
  E 27 0x7fffc60; E 27 0x7fffc80; E 28 0xffffe00; E 27 0x7fffca0; E 27 0x7fffcc0; E 28 0xffffe20; E 31 0x7ffffc00;
  E 31 0x7ffffc20; E 25 0x1fffd60; E 24 0xfffe20; E 27 0x7fffce0; E 28 0xffffe40; E 27 0x7fffd00; E 30 0x3ffffd80;
  E 31 0x7ffffc40; E 31 0x7ffffc60; E 31 0x7ffffc80; E 32 0xfffffbc0; E 32 0xfffffbe0; E 31 0x7ffffca0;
  E 29 0x1ffffe20; E 30 0x3ffffda0; E 24 0xfffe40; E 26 0x3fffc60; E 31 0x7ffffcc0; E 32 0xfffffc00; E 32 0xfffffc20;
  E 31 0x7ffffce0; E 32 0xfffffc40; E 29 0x1ffffe40; E 26 0x3fffc80; E 26 0x3fffca0; E 31 0x7ffffd00; E 31 0x7ffffd20;
  X; E 32 0xfffffc60; E 32 0xfffffc80; E 32 0xfffffca0; E 25 0x1fffd80; E 29 0x1ffffe60; E 25 0x1fffda0;
  E 26 0x3fffcc0; E 27 0x7fffd20; E 26 0x3fffce0; E 26 0x3fffd00; E 28 0xffffe60; E 27 0x7fffd40; E 27 0x7fffd60;
  E 30 0x3ffffdc0; E 30 0x3ffffde0; E 29 0x1ffffe80; E 29 0x1ffffea0; E 31 0x7ffffd40; E 28 0xffffe80;
  E 31 0x7ffffd60; E 32 0xfffffcc0; E 31 0x7ffffd80; E 31 0x7ffffda0; E 32 0xfffffce0; E 32 0xfffffd00;
  E 32 0xfffffd20; E 32 0xfffffd40; E 32 0xfffffd60; X; E 32 0xfffffd80; E 32 0xfffffda0; E 32 0xfffffdc0;
  E 32 0xfffffde0; E 32 0xfffffe00; E 31 0x7ffffdc0].
Definition hencs_49 : list henc := [
  E 18 0x3ff01; E 28 0xffffb01; X; X; X; X; X; X; X; E 29 0x1ffffd41; X; X; X; X; X; X; X; X; X; X; X; X; X; X; X; X;
  X; X; X; X; X; X; E 11 0x281; E 15 0x7f01; E 15 0x7f21; E 17 0x1ff41; E 18 0x3ff21; E 11 0x2a1; E 13 0x1f01;
  E 16 0xff41; E 15 0x7f41; E 15 0x7f61; E 13 0x1f21; E 16 0xff61; E 13 0x1f41; E 11 0x2c1; E 11 0x2e1; E 11 0x301;
  E 10 0x1; E 10 0x21; E 10 0x41; E 11 0x321; E 11 0x341; E 11 0x361; E 11 0x381; E 11 0x3a1; E 11 0x3c1; E 11 0x3e1;
  E 12 0xb81; E 13 0x1f61; E 20 0xfff81; E 11 0x401; E 17 0x1ff61; E 15 0x7f81; E 18 0x3ff41; E 11 0x421; E 12 0xba1;
  E 12 0xbc1; E 12 0xbe1; E 12 0xc01; E 12 0xc21; E 12 0xc41; E 12 0xc61; E 12 0xc81; E 12 0xca1; E 12 0xcc1;
  E 12 0xce1; E 12 0xd01; E 12 0xd21; E 12 0xd41; E 12 0xd61; E 12 0xd81; E 12 0xda1; E 12 0xdc1; E 12 0xde1;
  E 12 0xe01; E 12 0xe21; E 12 0xe41; E 13 0x1f81; E 12 0xe61; E 13 0x1fa1; E 18 0x3ff61; E 24 0xfffe01; E 18 0x3ff81;
  E 19 0x7ff81; E 11 0x441; E 20 0xfffa1; E 10 0x61; E 11 0x461; E 10 0x81; E 11 0x481; E 10 0xa1; E 11 0x4a1;
  E 11 0x4c1; E 11 0x4e1; E 10 0xc1; E 12 0xe81; E 12 0xea1; E 11 0x501; E 11 0x521; E 11 0x541; E 10 0xe1;
  E 11 0x561; E 12 0xec1; E 11 0x581; E 10 0x101; E 10 0x121; E 11 0x5a1; E 12 0xee1; E 12 0xf01; E 12 0xf21;
  E 12 0xf41; E 12 0xf61; E 20 0xfffc1; E 16 0xff81; E 19 0x7ffa1; E 18 0x3ffa1; X; E 25 0x1fffcc1; E 27 0x7fffa41;
  E 25 0x1fffce1; E 25 0x1fffd01; E 27 0x7fffa61; E 27 0x7fffa81; E 27 0x7fffaa1; E 28 0xffffb21; E 27 0x7fffac1;
  E 28 0xffffb41; E 28 0xffffb61; E 28 0xffffb81; E 28 0xffffba1; E 28 0xffffbc1; E 29 0x1ffffd61; E 28 0xffffbe1;
  E 29 0x1ffffd81; E 29 0x1ffffda1; E 27 0x7fffae1; E 28 0xffffc01; E 29 0x1ffffdc1; E 28 0xffffc21; E 28 0xffffc41;
  E 28 0xffffc61; E 28 0xffffc81; E 26 0x3fffb81; E 27 0x7fffb01; E 28 0xffffca1; E 27 0x7fffb21; E 28 0xffffcc1;
  E 28 0xffffce1; E 29 0x1ffffde1; E 27 0x7fffb41; E 26 0x3fffba1; E 25 0x1fffd21; E 27 0x7fffb61; E 27 0x7fffb81;
  E 28 0xffffd01; E 28 0xffffd21; E 26 0x3fffbc1; E 28 0xffffd41; E 27 0x7fffba1; E 27 0x7fffbc1; E 29 0x1ffffe01;
  E 26 0x3fffbe1; E 27 0x7fffbe1; E 28 0xffffd61; E 28 0xffffd81; E 26 0x3fffc01; E 26 0x3fffc21; E 27 0x7fffc01;
  E 26 0x3fffc41; E 28 0xffffda1; E 27 0x7fffc21; E 28 0xffffdc1; E 28 0xffffde1; E 25 0x1fffd41; E 27 0x7fffc41;
  E 27 0x7fffc61; E 27 0x7fffc81; E 28 0xffffe01; E 27 0x7fffca1; E 27 0x7fffcc1; E 28 0xffffe21; E 31 0x7ffffc01;
  E 31 0x7ffffc21; E 25 0x1fffd61; E 24 0xfffe21; E 27 0x7fffce1; E 28 0xffffe41; E 27 0x7fffd01; E 30 0x3ffffd81;
  E 31 0x7ffffc41; E 31 0x7ffffc61; E 31 0x7ffffc81; E 32 0xfffffbc1; E 32 0xfffffbe1; E 31 0x7ffffca1;
  E 29 0x1ffffe21; E 30 0x3ffffda1; E 24 0xfffe41; E 26 0x3fffc61; E 31 0x7ffffcc1; E 32 0xfffffc01; E 32 0xfffffc21;
  E 31 0x7ffffce1; E 32 0xfffffc41; E 29 0x1ffffe41; E 26 0x3fffc81; E 26 0x3fffca1; E 31 0x7ffffd01; E 31 0x7ffffd21;
  X; E 32 0xfffffc61; E 32 0xfffffc81; E 32 0xfffffca1; E 25 0x1fffd81; E 29 0x1ffffe61; E 25 0x1fffda1;
  E 26 0x3fffcc1; E 27 0x7fffd21; E 26 0x3fffce1; E 26 0x3fffd01; E 28 0xffffe61; E 27 0x7fffd41; E 27 0x7fffd61;
  E 30 0x3ffffdc1; E 30 0x3ffffde1; E 29 0x1ffffe81; E 29 0x1ffffea1; E 31 0x7ffffd41; E 28 0xffffe81;
  E 31 0x7ffffd61; E 32 0xfffffcc1; E 31 0x7ffffd81; E 31 0x7ffffda1; E 32 0xfffffce1; E 32 0xfffffd01;
  E 32 0xfffffd21; E 32 0xfffffd41; E 32 0xfffffd61; X; E 32 0xfffffd81; E 32 0xfffffda1; E 32 0xfffffdc1;
  E 32 0xfffffde1; E 32 0xfffffe01; E 31 0x7ffffdc1].
Definition hencs_50 : list henc := [
  E 18 0x3ff02; E 28 0xffffb02; X; X; X; X; X; X; X; E 29 0x1ffffd42; X; X; X; X; X; X; X; X; X; X; X; X; X; X; X; X;
  X; X; X; X; X; X; E 11 0x282; E 15 0x7f02; E 15 0x7f22; E 17 0x1ff42; E 18 0x3ff22; E 11 0x2a2; E 13 0x1f02;
  E 16 0xff42; E 15 0x7f42; E 15 0x7f62; E 13 0x1f22; E 16 0xff62; E 13 0x1f42; E 11 0x2c2; E 11 0x2e2; E 11 0x302;
  E 10 0x2; E 10 0x22; E 10 0x42; E 11 0x322; E 11 0x342; E 11 0x362; E 11 0x382; E 11 0x3a2; E 11 0x3c2; E 11 0x3e2;
  E 12 0xb82; E 13 0x1f62; E 20 0xfff82; E 11 0x402; E 17 0x1ff62; E 15 0x7f82; E 18 0x3ff42; E 11 0x422; E 12 0xba2;
  E 12 0xbc2; E 12 0xbe2; E 12 0xc02; E 12 0xc22; E 12 0xc42; E 12 0xc62; E 12 0xc82; E 12 0xca2; E 12 0xcc2;
  E 12 0xce2; E 12 0xd02; E 12 0xd22; E 12 0xd42; E 12 0xd62; E 12 0xd82; E 12 0xda2; E 12 0xdc2; E 12 0xde2;
  E 12 0xe02; E 12 0xe22; E 12 0xe42; E 13 0x1f82; E 12 0xe62; E 13 0x1fa2; E 18 0x3ff62; E 24 0xfffe02; E 18 0x3ff82;
  E 19 0x7ff82; E 11 0x442; E 20 0xfffa2; E 10 0x62; E 11 0x462; E 10 0x82; E 11 0x482; E 10 0xa2; E 11 0x4a2;
  E 11 0x4c2; E 11 0x4e2; E 10 0xc2; E 12 0xe82; E 12 0xea2; E 11 0x502; E 11 0x522; E 11 0x542; E 10 0xe2;
  E 11 0x562; E 12 0xec2; E 11 0x582; E 10 0x102; E 10 0x122; E 11 0x5a2; E 12 0xee2; E 12 0xf02; E 12 0xf22;
  E 12 0xf42; E 12 0xf62; E 20 0xfffc2; E 16 0xff82; E 19 0x7ffa2; E 18 0x3ffa2; X; E 25 0x1fffcc2; E 27 0x7fffa42;
  E 25 0x1fffce2; E 25 0x1fffd02; E 27 0x7fffa62; E 27 0x7fffa82; E 27 0x7fffaa2; E 28 0xffffb22; E 27 0x7fffac2;
  E 28 0xffffb42; E 28 0xffffb62; E 28 0xffffb82; E 28 0xffffba2; E 28 0xffffbc2; E 29 0x1ffffd62; E 28 0xffffbe2;
  E 29 0x1ffffd82; E 29 0x1ffffda2; E 27 0x7fffae2; E 28 0xffffc02; E 29 0x1ffffdc2; E 28 0xffffc22; E 28 0xffffc42;
  E 28 0xffffc62; E 28 0xffffc82; E 26 0x3fffb82; E 27 0x7fffb02; E 28 0xffffca2; E 27 0x7fffb22; E 28 0xffffcc2;
  E 28 0xffffce2; E 29 0x1ffffde2; E 27 0x7fffb42; E 26 0x3fffba2; E 25 0x1fffd22; E 27 0x7fffb62; E 27 0x7fffb82;
  E 28 0xffffd02; E 28 0xffffd22; E 26 0x3fffbc2; E 28 0xffffd42; E 27 0x7fffba2; E 27 0x7fffbc2; E 29 0x1ffffe02;
  E 26 0x3fffbe2; E 27 0x7fffbe2; E 28 0xffffd62; E 28 0xffffd82; E 26 0x3fffc02; E 26 0x3fffc22; E 27 0x7fffc02;
  E 26 0x3fffc42; E 28 0xffffda2; E 27 0x7fffc22; E 28 0xffffdc2; E 28 0xffffde2; E 25 0x1fffd42; E 27 0x7fffc42;
  E 27 0x7fffc62; E 27 0x7fffc82; E 28 0xffffe02; E 27 0x7fffca2; E 27 0x7fffcc2; E 28 0xffffe22; E 31 0x7ffffc02;
  E 31 0x7ffffc22; E 25 0x1fffd62; E 24 0xfffe22; E 27 0x7fffce2; E 28 0xffffe42; E 27 0x7fffd02; E 30 0x3ffffd82;
  E 31 0x7ffffc42; E 31 0x7ffffc62; E 31 0x7ffffc82; E 32 0xfffffbc2; E 32 0xfffffbe2; E 31 0x7ffffca2;
  E 29 0x1ffffe22; E 30 0x3ffffda2; E 24 0xfffe42; E 26 0x3fffc62; E 31 0x7ffffcc2; E 32 0xfffffc02; E 32 0xfffffc22;
  E 31 0x7ffffce2; E 32 0xfffffc42; E 29 0x1ffffe42; E 26 0x3fffc82; E 26 0x3fffca2; E 31 0x7ffffd02; E 31 0x7ffffd22;
  X; E 32 0xfffffc62; E 32 0xfffffc82; E 32 0xfffffca2; E 25 0x1fffd82; E 29 0x1ffffe62; E 25 0x1fffda2;
  E 26 0x3fffcc2; E 27 0x7fffd22; E 26 0x3fffce2; E 26 0x3fffd02; E 28 0xffffe62; E 27 0x7fffd42; E 27 0x7fffd62;
  E 30 0x3ffffdc2; E 30 0x3ffffde2; E 29 0x1ffffe82; E 29 0x1ffffea2; E 31 0x7ffffd42; E 28 0xffffe82;
  E 31 0x7ffffd62; E 32 0xfffffcc2; E 31 0x7ffffd82; E 31 0x7ffffda2; E 32 0xfffffce2; E 32 0xfffffd02;
  E 32 0xfffffd22; E 32 0xfffffd42; E 32 0xfffffd62; X; E 32 0xfffffd82; E 32 0xfffffda2; E 32 0xfffffdc2;
  E 32 0xfffffde2; E 32 0xfffffe02; E 31 0x7ffffdc2].
Definition hencs_51 : list henc := [
  E 19 0x7fe19; E 29 0x1ffff619; X; X; X; X; X; X; X; E 30 0x3ffffa99; X; X; X; X; X; X; X; X; X; X; X; X; X; X; X; X;
  X; X; X; X; X; X; E 12 0x519; E 16 0xfe19; E 16 0xfe59; E 18 0x3fe99; E 19 0x7fe59; E 12 0x559; E 14 0x3e19;
  E 17 0x1fe99; E 16 0xfe99; E 16 0xfed9; E 14 0x3e59; E 17 0x1fed9; E 14 0x3e99; E 12 0x599; E 12 0x5d9; E 12 0x619;
  E 11 0x19; E 11 0x59; E 11 0x99; E 12 0x659; E 12 0x699; E 12 0x6d9; E 12 0x719; E 12 0x759; E 12 0x799; E 12 0x7d9;
  E 13 0x1719; E 14 0x3ed9; E 21 0x1fff19; E 12 0x819; E 18 0x3fed9; E 16 0xff19; E 19 0x7fe99; E 12 0x859;
  E 13 0x1759; E 13 0x1799; E 13 0x17d9; E 13 0x1819; E 13 0x1859; E 13 0x1899; E 13 0x18d9; E 13 0x1919; E 13 0x1959;
  E 13 0x1999; E 13 0x19d9; E 13 0x1a19; E 13 0x1a59; E 13 0x1a99; E 13 0x1ad9; E 13 0x1b19; E 13 0x1b59; E 13 0x1b99;
  E 13 0x1bd9; E 13 0x1c19; E 13 0x1c59; E 13 0x1c99; E 14 0x3f19; E 13 0x1cd9; E 14 0x3f59; E 19 0x7fed9;
  E 25 0x1fffc19; E 19 0x7ff19; E 20 0xfff19; E 12 0x899; E 21 0x1fff59; E 11 0xd9; E 12 0x8d9; E 11 0x119;
  E 12 0x919; E 11 0x159; E 12 0x959; E 12 0x999; E 12 0x9d9; E 11 0x199; E 13 0x1d19; E 13 0x1d59; E 12 0xa19;
  E 12 0xa59; E 12 0xa99; E 11 0x1d9; E 12 0xad9; E 13 0x1d99; E 12 0xb19; E 11 0x219; E 11 0x259; E 12 0xb59;
  E 13 0x1dd9; E 13 0x1e19; E 13 0x1e59; E 13 0x1e99; E 13 0x1ed9; E 21 0x1fff99; E 17 0x1ff19; E 20 0xfff59;
  E 19 0x7ff59; X; E 26 0x3fff999; E 28 0xffff499; E 26 0x3fff9d9; E 26 0x3fffa19; E 28 0xffff4d9; E 28 0xffff519;
  E 28 0xffff559; E 29 0x1ffff659; E 28 0xffff599; E 29 0x1ffff699; E 29 0x1ffff6d9; E 29 0x1ffff719; E 29 0x1ffff759;
  E 29 0x1ffff799; E 30 0x3ffffad9; E 29 0x1ffff7d9; E 30 0x3ffffb19; E 30 0x3ffffb59; E 28 0xffff5d9;
  E 29 0x1ffff819; E 30 0x3ffffb99; E 29 0x1ffff859; E 29 0x1ffff899; E 29 0x1ffff8d9; E 29 0x1ffff919;
  E 27 0x7fff719; E 28 0xffff619; E 29 0x1ffff959; E 28 0xffff659; E 29 0x1ffff999; E 29 0x1ffff9d9; E 30 0x3ffffbd9;
  E 28 0xffff699; E 27 0x7fff759; E 26 0x3fffa59; E 28 0xffff6d9; E 28 0xffff719; E 29 0x1ffffa19; E 29 0x1ffffa59;
  E 27 0x7fff799; E 29 0x1ffffa99; E 28 0xffff759; E 28 0xffff799; E 30 0x3ffffc19; E 27 0x7fff7d9; E 28 0xffff7d9;
  E 29 0x1ffffad9; E 29 0x1ffffb19; E 27 0x7fff819; E 27 0x7fff859; E 28 0xffff819; E 27 0x7fff899; E 29 0x1ffffb59;
  E 28 0xffff859; E 29 0x1ffffb99; E 29 0x1ffffbd9; E 26 0x3fffa99; E 28 0xffff899; E 28 0xffff8d9; E 28 0xffff919;
  E 29 0x1ffffc19; E 28 0xffff959; E 28 0xffff999; E 29 0x1ffffc59; E 32 0xfffff819; E 32 0xfffff859; E 26 0x3fffad9;
  E 25 0x1fffc59; E 28 0xffff9d9; E 29 0x1ffffc99; E 28 0xffffa19; E 31 0x7ffffb19; E 32 0xfffff899; E 32 0xfffff8d9;
  E 32 0xfffff919; X; X; E 32 0xfffff959; E 30 0x3ffffc59; E 31 0x7ffffb59; E 25 0x1fffc99; E 27 0x7fff8d9;
  E 32 0xfffff999; X; X; E 32 0xfffff9d9; X; E 30 0x3ffffc99; E 27 0x7fff919; E 27 0x7fff959; E 32 0xfffffa19;
  E 32 0xfffffa59; X; X; X; X; E 26 0x3fffb19; E 30 0x3ffffcd9; E 26 0x3fffb59; E 27 0x7fff999; E 28 0xffffa59;
  E 27 0x7fff9d9; E 27 0x7fffa19; E 29 0x1ffffcd9; E 28 0xffffa99; E 28 0xffffad9; E 31 0x7ffffb99; E 31 0x7ffffbd9;
  E 30 0x3ffffd19; E 30 0x3ffffd59; E 32 0xfffffa99; E 29 0x1ffffd19; E 32 0xfffffad9; X; E 32 0xfffffb19;
  E 32 0xfffffb59; X; X; X; X; X; X; X; X; X; X; X; E 32 0xfffffb99].
Definition hencs_52 : list henc := [
  E 19 0x7fe1a; E 29 0x1ffff61a; X; X; X; X; X; X; X; E 30 0x3ffffa9a; X; X; X; X; X; X; X; X; X; X; X; X; X; X; X; X;
  X; X; X; X; X; X; E 12 0x51a; E 16 0xfe1a; E 16 0xfe5a; E 18 0x3fe9a; E 19 0x7fe5a; E 12 0x55a; E 14 0x3e1a;
  E 17 0x1fe9a; E 16 0xfe9a; E 16 0xfeda; E 14 0x3e5a; E 17 0x1feda; E 14 0x3e9a; E 12 0x59a; E 12 0x5da; E 12 0x61a;
  E 11 0x1a; E 11 0x5a; E 11 0x9a; E 12 0x65a; E 12 0x69a; E 12 0x6da; E 12 0x71a; E 12 0x75a; E 12 0x79a; E 12 0x7da;
  E 13 0x171a; E 14 0x3eda; E 21 0x1fff1a; E 12 0x81a; E 18 0x3feda; E 16 0xff1a; E 19 0x7fe9a; E 12 0x85a;
  E 13 0x175a; E 13 0x179a; E 13 0x17da; E 13 0x181a; E 13 0x185a; E 13 0x189a; E 13 0x18da; E 13 0x191a; E 13 0x195a;
  E 13 0x199a; E 13 0x19da; E 13 0x1a1a; E 13 0x1a5a; E 13 0x1a9a; E 13 0x1ada; E 13 0x1b1a; E 13 0x1b5a; E 13 0x1b9a;
  E 13 0x1bda; E 13 0x1c1a; E 13 0x1c5a; E 13 0x1c9a; E 14 0x3f1a; E 13 0x1cda; E 14 0x3f5a; E 19 0x7feda;
  E 25 0x1fffc1a; E 19 0x7ff1a; E 20 0xfff1a; E 12 0x89a; E 21 0x1fff5a; E 11 0xda; E 12 0x8da; E 11 0x11a;
  E 12 0x91a; E 11 0x15a; E 12 0x95a; E 12 0x99a; E 12 0x9da; E 11 0x19a; E 13 0x1d1a; E 13 0x1d5a; E 12 0xa1a;
  E 12 0xa5a; E 12 0xa9a; E 11 0x1da; E 12 0xada; E 13 0x1d9a; E 12 0xb1a; E 11 0x21a; E 11 0x25a; E 12 0xb5a;
  E 13 0x1dda; E 13 0x1e1a; E 13 0x1e5a; E 13 0x1e9a; E 13 0x1eda; E 21 0x1fff9a; E 17 0x1ff1a; E 20 0xfff5a;
  E 19 0x7ff5a; X; E 26 0x3fff99a; E 28 0xffff49a; E 26 0x3fff9da; E 26 0x3fffa1a; E 28 0xffff4da; E 28 0xffff51a;
  E 28 0xffff55a; E 29 0x1ffff65a; E 28 0xffff59a; E 29 0x1ffff69a; E 29 0x1ffff6da; E 29 0x1ffff71a; E 29 0x1ffff75a;
  E 29 0x1ffff79a; E 30 0x3ffffada; E 29 0x1ffff7da; E 30 0x3ffffb1a; E 30 0x3ffffb5a; E 28 0xffff5da;
  E 29 0x1ffff81a; E 30 0x3ffffb9a; E 29 0x1ffff85a; E 29 0x1ffff89a; E 29 0x1ffff8da; E 29 0x1ffff91a;
  E 27 0x7fff71a; E 28 0xffff61a; E 29 0x1ffff95a; E 28 0xffff65a; E 29 0x1ffff99a; E 29 0x1ffff9da; E 30 0x3ffffbda;
  E 28 0xffff69a; E 27 0x7fff75a; E 26 0x3fffa5a; E 28 0xffff6da; E 28 0xffff71a; E 29 0x1ffffa1a; E 29 0x1ffffa5a;
  E 27 0x7fff79a; E 29 0x1ffffa9a; E 28 0xffff75a; E 28 0xffff79a; E 30 0x3ffffc1a; E 27 0x7fff7da; E 28 0xffff7da;
  E 29 0x1ffffada; E 29 0x1ffffb1a; E 27 0x7fff81a; E 27 0x7fff85a; E 28 0xffff81a; E 27 0x7fff89a; E 29 0x1ffffb5a;
  E 28 0xffff85a; E 29 0x1ffffb9a; E 29 0x1ffffbda; E 26 0x3fffa9a; E 28 0xffff89a; E 28 0xffff8da; E 28 0xffff91a;
  E 29 0x1ffffc1a; E 28 0xffff95a; E 28 0xffff99a; E 29 0x1ffffc5a; E 32 0xfffff81a; E 32 0xfffff85a; E 26 0x3fffada;
  E 25 0x1fffc5a; E 28 0xffff9da; E 29 0x1ffffc9a; E 28 0xffffa1a; E 31 0x7ffffb1a; E 32 0xfffff89a; E 32 0xfffff8da;
  E 32 0xfffff91a; X; X; E 32 0xfffff95a; E 30 0x3ffffc5a; E 31 0x7ffffb5a; E 25 0x1fffc9a; E 27 0x7fff8da;
  E 32 0xfffff99a; X; X; E 32 0xfffff9da; X; E 30 0x3ffffc9a; E 27 0x7fff91a; E 27 0x7fff95a; E 32 0xfffffa1a;
  E 32 0xfffffa5a; X; X; X; X; E 26 0x3fffb1a; E 30 0x3ffffcda; E 26 0x3fffb5a; E 27 0x7fff99a; E 28 0xffffa5a;
  E 27 0x7fff9da; E 27 0x7fffa1a; E 29 0x1ffffcda; E 28 0xffffa9a; E 28 0xffffada; E 31 0x7ffffb9a; E 31 0x7ffffbda;
  E 30 0x3ffffd1a; E 30 0x3ffffd5a; E 32 0xfffffa9a; E 29 0x1ffffd1a; E 32 0xfffffada; X; E 32 0xfffffb1a;
  E 32 0xfffffb5a; X; X; X; X; X; X; X; X; X; X; X; E 32 0xfffffb9a].
Definition hencs_53 : list henc := [
  E 19 0x7fe1b; E 29 0x1ffff61b; X; X; X; X; X; X; X; E 30 0x3ffffa9b; X; X; X; X; X; X; X; X; X; X; X; X; X; X; X; X;
  X; X; X; X; X; X; E 12 0x51b; E 16 0xfe1b; E 16 0xfe5b; E 18 0x3fe9b; E 19 0x7fe5b; E 12 0x55b; E 14 0x3e1b;
  E 17 0x1fe9b; E 16 0xfe9b; E 16 0xfedb; E 14 0x3e5b; E 17 0x1fedb; E 14 0x3e9b; E 12 0x59b; E 12 0x5db; E 12 0x61b;
  E 11 0x1b; E 11 0x5b; E 11 0x9b; E 12 0x65b; E 12 0x69b; E 12 0x6db; E 12 0x71b; E 12 0x75b; E 12 0x79b; E 12 0x7db;
  E 13 0x171b; E 14 0x3edb; E 21 0x1fff1b; E 12 0x81b; E 18 0x3fedb; E 16 0xff1b; E 19 0x7fe9b; E 12 0x85b;
  E 13 0x175b; E 13 0x179b; E 13 0x17db; E 13 0x181b; E 13 0x185b; E 13 0x189b; E 13 0x18db; E 13 0x191b; E 13 0x195b;
  E 13 0x199b; E 13 0x19db; E 13 0x1a1b; E 13 0x1a5b; E 13 0x1a9b; E 13 0x1adb; E 13 0x1b1b; E 13 0x1b5b; E 13 0x1b9b;
  E 13 0x1bdb; E 13 0x1c1b; E 13 0x1c5b; E 13 0x1c9b; E 14 0x3f1b; E 13 0x1cdb; E 14 0x3f5b; E 19 0x7fedb;
  E 25 0x1fffc1b; E 19 0x7ff1b; E 20 0xfff1b; E 12 0x89b; E 21 0x1fff5b; E 11 0xdb; E 12 0x8db; E 11 0x11b;
  E 12 0x91b; E 11 0x15b; E 12 0x95b; E 12 0x99b; E 12 0x9db; E 11 0x19b; E 13 0x1d1b; E 13 0x1d5b; E 12 0xa1b;
  E 12 0xa5b; E 12 0xa9b; E 11 0x1db; E 12 0xadb; E 13 0x1d9b; E 12 0xb1b; E 11 0x21b; E 11 0x25b; E 12 0xb5b;
  E 13 0x1ddb; E 13 0x1e1b; E 13 0x1e5b; E 13 0x1e9b; E 13 0x1edb; E 21 0x1fff9b; E 17 0x1ff1b; E 20 0xfff5b;
  E 19 0x7ff5b; X; E 26 0x3fff99b; E 28 0xffff49b; E 26 0x3fff9db; E 26 0x3fffa1b; E 28 0xffff4db; E 28 0xffff51b;
  E 28 0xffff55b; E 29 0x1ffff65b; E 28 0xffff59b; E 29 0x1ffff69b; E 29 0x1ffff6db; E 29 0x1ffff71b; E 29 0x1ffff75b;
  E 29 0x1ffff79b; E 30 0x3ffffadb; E 29 0x1ffff7db; E 30 0x3ffffb1b; E 30 0x3ffffb5b; E 28 0xffff5db;
  E 29 0x1ffff81b; E 30 0x3ffffb9b; E 29 0x1ffff85b; E 29 0x1ffff89b; E 29 0x1ffff8db; E 29 0x1ffff91b;
  E 27 0x7fff71b; E 28 0xffff61b; E 29 0x1ffff95b; E 28 0xffff65b; E 29 0x1ffff99b; E 29 0x1ffff9db; E 30 0x3ffffbdb;
  E 28 0xffff69b; E 27 0x7fff75b; E 26 0x3fffa5b; E 28 0xffff6db; E 28 0xffff71b; E 29 0x1ffffa1b; E 29 0x1ffffa5b;
  E 27 0x7fff79b; E 29 0x1ffffa9b; E 28 0xffff75b; E 28 0xffff79b; E 30 0x3ffffc1b; E 27 0x7fff7db; E 28 0xffff7db;
  E 29 0x1ffffadb; E 29 0x1ffffb1b; E 27 0x7fff81b; E 27 0x7fff85b; E 28 0xffff81b; E 27 0x7fff89b; E 29 0x1ffffb5b;
  E 28 0xffff85b; E 29 0x1ffffb9b; E 29 0x1ffffbdb; E 26 0x3fffa9b; E 28 0xffff89b; E 28 0xffff8db; E 28 0xffff91b;
  E 29 0x1ffffc1b; E 28 0xffff95b; E 28 0xffff99b; E 29 0x1ffffc5b; E 32 0xfffff81b; E 32 0xfffff85b; E 26 0x3fffadb;
  E 25 0x1fffc5b; E 28 0xffff9db; E 29 0x1ffffc9b; E 28 0xffffa1b; E 31 0x7ffffb1b; E 32 0xfffff89b; E 32 0xfffff8db;
  E 32 0xfffff91b; X; X; E 32 0xfffff95b; E 30 0x3ffffc5b; E 31 0x7ffffb5b; E 25 0x1fffc9b; E 27 0x7fff8db;
  E 32 0xfffff99b; X; X; E 32 0xfffff9db; X; E 30 0x3ffffc9b; E 27 0x7fff91b; E 27 0x7fff95b; E 32 0xfffffa1b;
  E 32 0xfffffa5b; X; X; X; X; E 26 0x3fffb1b; E 30 0x3ffffcdb; E 26 0x3fffb5b; E 27 0x7fff99b; E 28 0xffffa5b;
  E 27 0x7fff9db; E 27 0x7fffa1b; E 29 0x1ffffcdb; E 28 0xffffa9b; E 28 0xffffadb; E 31 0x7ffffb9b; E 31 0x7ffffbdb;
  E 30 0x3ffffd1b; E 30 0x3ffffd5b; E 32 0xfffffa9b; E 29 0x1ffffd1b; E 32 0xfffffadb; X; E 32 0xfffffb1b;
  E 32 0xfffffb5b; X; X; X; X; X; X; X; X; X; X; X; E 32 0xfffffb9b].
Definition hencs_54 : list henc := [
  E 19 0x7fe1c; E 29 0x1ffff61c; X; X; X; X; X; X; X; E 30 0x3ffffa9c; X; X; X; X; X; X; X; X; X; X; X; X; X; X; X; X;
  X; X; X; X; X; X; E 12 0x51c; E 16 0xfe1c; E 16 0xfe5c; E 18 0x3fe9c; E 19 0x7fe5c; E 12 0x55c; E 14 0x3e1c;
  E 17 0x1fe9c; E 16 0xfe9c; E 16 0xfedc; E 14 0x3e5c; E 17 0x1fedc; E 14 0x3e9c; E 12 0x59c; E 12 0x5dc; E 12 0x61c;
  E 11 0x1c; E 11 0x5c; E 11 0x9c; E 12 0x65c; E 12 0x69c; E 12 0x6dc; E 12 0x71c; E 12 0x75c; E 12 0x79c; E 12 0x7dc;
  E 13 0x171c; E 14 0x3edc; E 21 0x1fff1c; E 12 0x81c; E 18 0x3fedc; E 16 0xff1c; E 19 0x7fe9c; E 12 0x85c;
  E 13 0x175c; E 13 0x179c; E 13 0x17dc; E 13 0x181c; E 13 0x185c; E 13 0x189c; E 13 0x18dc; E 13 0x191c; E 13 0x195c;
  E 13 0x199c; E 13 0x19dc; E 13 0x1a1c; E 13 0x1a5c; E 13 0x1a9c; E 13 0x1adc; E 13 0x1b1c; E 13 0x1b5c; E 13 0x1b9c;
  E 13 0x1bdc; E 13 0x1c1c; E 13 0x1c5c; E 13 0x1c9c; E 14 0x3f1c; E 13 0x1cdc; E 14 0x3f5c; E 19 0x7fedc;
  E 25 0x1fffc1c; E 19 0x7ff1c; E 20 0xfff1c; E 12 0x89c; E 21 0x1fff5c; E 11 0xdc; E 12 0x8dc; E 11 0x11c;
  E 12 0x91c; E 11 0x15c; E 12 0x95c; E 12 0x99c; E 12 0x9dc; E 11 0x19c; E 13 0x1d1c; E 13 0x1d5c; E 12 0xa1c;
  E 12 0xa5c; E 12 0xa9c; E 11 0x1dc; E 12 0xadc; E 13 0x1d9c; E 12 0xb1c; E 11 0x21c; E 11 0x25c; E 12 0xb5c;
  E 13 0x1ddc; E 13 0x1e1c; E 13 0x1e5c; E 13 0x1e9c; E 13 0x1edc; E 21 0x1fff9c; E 17 0x1ff1c; E 20 0xfff5c;
  E 19 0x7ff5c; X; E 26 0x3fff99c; E 28 0xffff49c; E 26 0x3fff9dc; E 26 0x3fffa1c; E 28 0xffff4dc; E 28 0xffff51c;
  E 28 0xffff55c; E 29 0x1ffff65c; E 28 0xffff59c; E 29 0x1ffff69c; E 29 0x1ffff6dc; E 29 0x1ffff71c; E 29 0x1ffff75c;
  E 29 0x1ffff79c; E 30 0x3ffffadc; E 29 0x1ffff7dc; E 30 0x3ffffb1c; E 30 0x3ffffb5c; E 28 0xffff5dc;
  E 29 0x1ffff81c; E 30 0x3ffffb9c; E 29 0x1ffff85c; E 29 0x1ffff89c; E 29 0x1ffff8dc; E 29 0x1ffff91c;
  E 27 0x7fff71c; E 28 0xffff61c; E 29 0x1ffff95c; E 28 0xffff65c; E 29 0x1ffff99c; E 29 0x1ffff9dc; E 30 0x3ffffbdc;
  E 28 0xffff69c; E 27 0x7fff75c; E 26 0x3fffa5c; E 28 0xffff6dc; E 28 0xffff71c; E 29 0x1ffffa1c; E 29 0x1ffffa5c;
  E 27 0x7fff79c; E 29 0x1ffffa9c; E 28 0xffff75c; E 28 0xffff79c; E 30 0x3ffffc1c; E 27 0x7fff7dc; E 28 0xffff7dc;
  E 29 0x1ffffadc; E 29 0x1ffffb1c; E 27 0x7fff81c; E 27 0x7fff85c; E 28 0xffff81c; E 27 0x7fff89c; E 29 0x1ffffb5c;
  E 28 0xffff85c; E 29 0x1ffffb9c; E 29 0x1ffffbdc; E 26 0x3fffa9c; E 28 0xffff89c; E 28 0xffff8dc; E 28 0xffff91c;
  E 29 0x1ffffc1c; E 28 0xffff95c; E 28 0xffff99c; E 29 0x1ffffc5c; E 32 0xfffff81c; E 32 0xfffff85c; E 26 0x3fffadc;
  E 25 0x1fffc5c; E 28 0xffff9dc; E 29 0x1ffffc9c; E 28 0xffffa1c; E 31 0x7ffffb1c; E 32 0xfffff89c; E 32 0xfffff8dc;
  E 32 0xfffff91c; X; X; E 32 0xfffff95c; E 30 0x3ffffc5c; E 31 0x7ffffb5c; E 25 0x1fffc9c; E 27 0x7fff8dc;
  E 32 0xfffff99c; X; X; E 32 0xfffff9dc; X; E 30 0x3ffffc9c; E 27 0x7fff91c; E 27 0x7fff95c; E 32 0xfffffa1c;
  E 32 0xfffffa5c; X; X; X; X; E 26 0x3fffb1c; E 30 0x3ffffcdc; E 26 0x3fffb5c; E 27 0x7fff99c; E 28 0xffffa5c;
  E 27 0x7fff9dc; E 27 0x7fffa1c; E 29 0x1ffffcdc; E 28 0xffffa9c; E 28 0xffffadc; E 31 0x7ffffb9c; E 31 0x7ffffbdc;
  E 30 0x3ffffd1c; E 30 0x3ffffd5c; E 32 0xfffffa9c; E 29 0x1ffffd1c; E 32 0xfffffadc; X; E 32 0xfffffb1c;
  E 32 0xfffffb5c; X; X; X; X; X; X; X; X; X; X; X; E 32 0xfffffb9c].
Definition hencs_55 : list henc := [
  E 19 0x7fe1d; E 29 0x1ffff61d; X; X; X; X; X; X; X; E 30 0x3ffffa9d; X; X; X; X; X; X; X; X; X; X; X; X; X; X; X; X;
  X; X; X; X; X; X; E 12 0x51d; E 16 0xfe1d; E 16 0xfe5d; E 18 0x3fe9d; E 19 0x7fe5d; E 12 0x55d; E 14 0x3e1d;
  E 17 0x1fe9d; E 16 0xfe9d; E 16 0xfedd; E 14 0x3e5d; E 17 0x1fedd; E 14 0x3e9d; E 12 0x59d; E 12 0x5dd; E 12 0x61d;
  E 11 0x1d; E 11 0x5d; E 11 0x9d; E 12 0x65d; E 12 0x69d; E 12 0x6dd; E 12 0x71d; E 12 0x75d; E 12 0x79d; E 12 0x7dd;
  E 13 0x171d; E 14 0x3edd; E 21 0x1fff1d; E 12 0x81d; E 18 0x3fedd; E 16 0xff1d; E 19 0x7fe9d; E 12 0x85d;
  E 13 0x175d; E 13 0x179d; E 13 0x17dd; E 13 0x181d; E 13 0x185d; E 13 0x189d; E 13 0x18dd; E 13 0x191d; E 13 0x195d;
  E 13 0x199d; E 13 0x19dd; E 13 0x1a1d; E 13 0x1a5d; E 13 0x1a9d; E 13 0x1add; E 13 0x1b1d; E 13 0x1b5d; E 13 0x1b9d;
  E 13 0x1bdd; E 13 0x1c1d; E 13 0x1c5d; E 13 0x1c9d; E 14 0x3f1d; E 13 0x1cdd; E 14 0x3f5d; E 19 0x7fedd;
  E 25 0x1fffc1d; E 19 0x7ff1d; E 20 0xfff1d; E 12 0x89d; E 21 0x1fff5d; E 11 0xdd; E 12 0x8dd; E 11 0x11d;
  E 12 0x91d; E 11 0x15d; E 12 0x95d; E 12 0x99d; E 12 0x9dd; E 11 0x19d; E 13 0x1d1d; E 13 0x1d5d; E 12 0xa1d;
  E 12 0xa5d; E 12 0xa9d; E 11 0x1dd; E 12 0xadd; E 13 0x1d9d; E 12 0xb1d; E 11 0x21d; E 11 0x25d; E 12 0xb5d;
  E 13 0x1ddd; E 13 0x1e1d; E 13 0x1e5d; E 13 0x1e9d; E 13 0x1edd; E 21 0x1fff9d; E 17 0x1ff1d; E 20 0xfff5d;
  E 19 0x7ff5d; X; E 26 0x3fff99d; E 28 0xffff49d; E 26 0x3fff9dd; E 26 0x3fffa1d; E 28 0xffff4dd; E 28 0xffff51d;
  E 28 0xffff55d; E 29 0x1ffff65d; E 28 0xffff59d; E 29 0x1ffff69d; E 29 0x1ffff6dd; E 29 0x1ffff71d; E 29 0x1ffff75d;
  E 29 0x1ffff79d; E 30 0x3ffffadd; E 29 0x1ffff7dd; E 30 0x3ffffb1d; E 30 0x3ffffb5d; E 28 0xffff5dd;
  E 29 0x1ffff81d; E 30 0x3ffffb9d; E 29 0x1ffff85d; E 29 0x1ffff89d; E 29 0x1ffff8dd; E 29 0x1ffff91d;
  E 27 0x7fff71d; E 28 0xffff61d; E 29 0x1ffff95d; E 28 0xffff65d; E 29 0x1ffff99d; E 29 0x1ffff9dd; E 30 0x3ffffbdd;
  E 28 0xffff69d; E 27 0x7fff75d; E 26 0x3fffa5d; E 28 0xffff6dd; E 28 0xffff71d; E 29 0x1ffffa1d; E 29 0x1ffffa5d;
  E 27 0x7fff79d; E 29 0x1ffffa9d; E 28 0xffff75d; E 28 0xffff79d; E 30 0x3ffffc1d; E 27 0x7fff7dd; E 28 0xffff7dd;
  E 29 0x1ffffadd; E 29 0x1ffffb1d; E 27 0x7fff81d; E 27 0x7fff85d; E 28 0xffff81d; E 27 0x7fff89d; E 29 0x1ffffb5d;
  E 28 0xffff85d; E 29 0x1ffffb9d; E 29 0x1ffffbdd; E 26 0x3fffa9d; E 28 0xffff89d; E 28 0xffff8dd; E 28 0xffff91d;
  E 29 0x1ffffc1d; E 28 0xffff95d; E 28 0xffff99d; E 29 0x1ffffc5d; E 32 0xfffff81d; E 32 0xfffff85d; E 26 0x3fffadd;
  E 25 0x1fffc5d; E 28 0xffff9dd; E 29 0x1ffffc9d; E 28 0xffffa1d; E 31 0x7ffffb1d; E 32 0xfffff89d; E 32 0xfffff8dd;
  E 32 0xfffff91d; X; X; E 32 0xfffff95d; E 30 0x3ffffc5d; E 31 0x7ffffb5d; E 25 0x1fffc9d; E 27 0x7fff8dd;
  E 32 0xfffff99d; X; X; E 32 0xfffff9dd; X; E 30 0x3ffffc9d; E 27 0x7fff91d; E 27 0x7fff95d; E 32 0xfffffa1d;
  E 32 0xfffffa5d; X; X; X; X; E 26 0x3fffb1d; E 30 0x3ffffcdd; E 26 0x3fffb5d; E 27 0x7fff99d; E 28 0xffffa5d;
  E 27 0x7fff9dd; E 27 0x7fffa1d; E 29 0x1ffffcdd; E 28 0xffffa9d; E 28 0xffffadd; E 31 0x7ffffb9d; E 31 0x7ffffbdd;
  E 30 0x3ffffd1d; E 30 0x3ffffd5d; E 32 0xfffffa9d; E 29 0x1ffffd1d; E 32 0xfffffadd; X; E 32 0xfffffb1d;
  E 32 0xfffffb5d; X; X; X; X; X; X; X; X; X; X; X; E 32 0xfffffb9d].
Definition hencs_56 : list henc := [
  E 19 0x7fe1e; E 29 0x1ffff61e; X; X; X; X; X; X; X; E 30 0x3ffffa9e; X; X; X; X; X; X; X; X; X; X; X; X; X; X; X; X;
  X; X; X; X; X; X; E 12 0x51e; E 16 0xfe1e; E 16 0xfe5e; E 18 0x3fe9e; E 19 0x7fe5e; E 12 0x55e; E 14 0x3e1e;
  E 17 0x1fe9e; E 16 0xfe9e; E 16 0xfede; E 14 0x3e5e; E 17 0x1fede; E 14 0x3e9e; E 12 0x59e; E 12 0x5de; E 12 0x61e;
  E 11 0x1e; E 11 0x5e; E 11 0x9e; E 12 0x65e; E 12 0x69e; E 12 0x6de; E 12 0x71e; E 12 0x75e; E 12 0x79e; E 12 0x7de;
  E 13 0x171e; E 14 0x3ede; E 21 0x1fff1e; E 12 0x81e; E 18 0x3fede; E 16 0xff1e; E 19 0x7fe9e; E 12 0x85e;
  E 13 0x175e; E 13 0x179e; E 13 0x17de; E 13 0x181e; E 13 0x185e; E 13 0x189e; E 13 0x18de; E 13 0x191e; E 13 0x195e;
  E 13 0x199e; E 13 0x19de; E 13 0x1a1e; E 13 0x1a5e; E 13 0x1a9e; E 13 0x1ade; E 13 0x1b1e; E 13 0x1b5e; E 13 0x1b9e;
  E 13 0x1bde; E 13 0x1c1e; E 13 0x1c5e; E 13 0x1c9e; E 14 0x3f1e; E 13 0x1cde; E 14 0x3f5e; E 19 0x7fede;
  E 25 0x1fffc1e; E 19 0x7ff1e; E 20 0xfff1e; E 12 0x89e; E 21 0x1fff5e; E 11 0xde; E 12 0x8de; E 11 0x11e;
  E 12 0x91e; E 11 0x15e; E 12 0x95e; E 12 0x99e; E 12 0x9de; E 11 0x19e; E 13 0x1d1e; E 13 0x1d5e; E 12 0xa1e;
  E 12 0xa5e; E 12 0xa9e; E 11 0x1de; E 12 0xade; E 13 0x1d9e; E 12 0xb1e; E 11 0x21e; E 11 0x25e; E 12 0xb5e;
  E 13 0x1dde; E 13 0x1e1e; E 13 0x1e5e; E 13 0x1e9e; E 13 0x1ede; E 21 0x1fff9e; E 17 0x1ff1e; E 20 0xfff5e;
  E 19 0x7ff5e; X; E 26 0x3fff99e; E 28 0xffff49e; E 26 0x3fff9de; E 26 0x3fffa1e; E 28 0xffff4de; E 28 0xffff51e;
  E 28 0xffff55e; E 29 0x1ffff65e; E 28 0xffff59e; E 29 0x1ffff69e; E 29 0x1ffff6de; E 29 0x1ffff71e; E 29 0x1ffff75e;
  E 29 0x1ffff79e; E 30 0x3ffffade; E 29 0x1ffff7de; E 30 0x3ffffb1e; E 30 0x3ffffb5e; E 28 0xffff5de;
  E 29 0x1ffff81e; E 30 0x3ffffb9e; E 29 0x1ffff85e; E 29 0x1ffff89e; E 29 0x1ffff8de; E 29 0x1ffff91e;
  E 27 0x7fff71e; E 28 0xffff61e; E 29 0x1ffff95e; E 28 0xffff65e; E 29 0x1ffff99e; E 29 0x1ffff9de; E 30 0x3ffffbde;
  E 28 0xffff69e; E 27 0x7fff75e; E 26 0x3fffa5e; E 28 0xffff6de; E 28 0xffff71e; E 29 0x1ffffa1e; E 29 0x1ffffa5e;
  E 27 0x7fff79e; E 29 0x1ffffa9e; E 28 0xffff75e; E 28 0xffff79e; E 30 0x3ffffc1e; E 27 0x7fff7de; E 28 0xffff7de;
  E 29 0x1ffffade; E 29 0x1ffffb1e; E 27 0x7fff81e; E 27 0x7fff85e; E 28 0xffff81e; E 27 0x7fff89e; E 29 0x1ffffb5e;
  E 28 0xffff85e; E 29 0x1ffffb9e; E 29 0x1ffffbde; E 26 0x3fffa9e; E 28 0xffff89e; E 28 0xffff8de; E 28 0xffff91e;
  E 29 0x1ffffc1e; E 28 0xffff95e; E 28 0xffff99e; E 29 0x1ffffc5e; E 32 0xfffff81e; E 32 0xfffff85e; E 26 0x3fffade;
  E 25 0x1fffc5e; E 28 0xffff9de; E 29 0x1ffffc9e; E 28 0xffffa1e; E 31 0x7ffffb1e; E 32 0xfffff89e; E 32 0xfffff8de;
  E 32 0xfffff91e; X; X; E 32 0xfffff95e; E 30 0x3ffffc5e; E 31 0x7ffffb5e; E 25 0x1fffc9e; E 27 0x7fff8de;
  E 32 0xfffff99e; X; X; E 32 0xfffff9de; X; E 30 0x3ffffc9e; E 27 0x7fff91e; E 27 0x7fff95e; E 32 0xfffffa1e;
  E 32 0xfffffa5e; X; X; X; X; E 26 0x3fffb1e; E 30 0x3ffffcde; E 26 0x3fffb5e; E 27 0x7fff99e; E 28 0xffffa5e;
  E 27 0x7fff9de; E 27 0x7fffa1e; E 29 0x1ffffcde; E 28 0xffffa9e; E 28 0xffffade; E 31 0x7ffffb9e; E 31 0x7ffffbde;
  E 30 0x3ffffd1e; E 30 0x3ffffd5e; E 32 0xfffffa9e; E 29 0x1ffffd1e; E 32 0xfffffade; X; E 32 0xfffffb1e;
  E 32 0xfffffb5e; X; X; X; X; X; X; X; X; X; X; X; E 32 0xfffffb9e].
Definition hencs_57 : list henc := [
  E 19 0x7fe1f; E 29 0x1ffff61f; X; X; X; X; X; X; X; E 30 0x3ffffa9f; X; X; X; X; X; X; X; X; X; X; X; X; X; X; X; X;
  X; X; X; X; X; X; E 12 0x51f; E 16 0xfe1f; E 16 0xfe5f; E 18 0x3fe9f; E 19 0x7fe5f; E 12 0x55f; E 14 0x3e1f;
  E 17 0x1fe9f; E 16 0xfe9f; E 16 0xfedf; E 14 0x3e5f; E 17 0x1fedf; E 14 0x3e9f; E 12 0x59f; E 12 0x5df; E 12 0x61f;
  E 11 0x1f; E 11 0x5f; E 11 0x9f; E 12 0x65f; E 12 0x69f; E 12 0x6df; E 12 0x71f; E 12 0x75f; E 12 0x79f; E 12 0x7df;
  E 13 0x171f; E 14 0x3edf; E 21 0x1fff1f; E 12 0x81f; E 18 0x3fedf; E 16 0xff1f; E 19 0x7fe9f; E 12 0x85f;
  E 13 0x175f; E 13 0x179f; E 13 0x17df; E 13 0x181f; E 13 0x185f; E 13 0x189f; E 13 0x18df; E 13 0x191f; E 13 0x195f;
  E 13 0x199f; E 13 0x19df; E 13 0x1a1f; E 13 0x1a5f; E 13 0x1a9f; E 13 0x1adf; E 13 0x1b1f; E 13 0x1b5f; E 13 0x1b9f;
  E 13 0x1bdf; E 13 0x1c1f; E 13 0x1c5f; E 13 0x1c9f; E 14 0x3f1f; E 13 0x1cdf; E 14 0x3f5f; E 19 0x7fedf;
  E 25 0x1fffc1f; E 19 0x7ff1f; E 20 0xfff1f; E 12 0x89f; E 21 0x1fff5f; E 11 0xdf; E 12 0x8df; E 11 0x11f;
  E 12 0x91f; E 11 0x15f; E 12 0x95f; E 12 0x99f; E 12 0x9df; E 11 0x19f; E 13 0x1d1f; E 13 0x1d5f; E 12 0xa1f;
  E 12 0xa5f; E 12 0xa9f; E 11 0x1df; E 12 0xadf; E 13 0x1d9f; E 12 0xb1f; E 11 0x21f; E 11 0x25f; E 12 0xb5f;
  E 13 0x1ddf; E 13 0x1e1f; E 13 0x1e5f; E 13 0x1e9f; E 13 0x1edf; E 21 0x1fff9f; E 17 0x1ff1f; E 20 0xfff5f;
  E 19 0x7ff5f; X; E 26 0x3fff99f; E 28 0xffff49f; E 26 0x3fff9df; E 26 0x3fffa1f; E 28 0xffff4df; E 28 0xffff51f;
  E 28 0xffff55f; E 29 0x1ffff65f; E 28 0xffff59f; E 29 0x1ffff69f; E 29 0x1ffff6df; E 29 0x1ffff71f; E 29 0x1ffff75f;
  E 29 0x1ffff79f; E 30 0x3ffffadf; E 29 0x1ffff7df; E 30 0x3ffffb1f; E 30 0x3ffffb5f; E 28 0xffff5df;
  E 29 0x1ffff81f; E 30 0x3ffffb9f; E 29 0x1ffff85f; E 29 0x1ffff89f; E 29 0x1ffff8df; E 29 0x1ffff91f;
  E 27 0x7fff71f; E 28 0xffff61f; E 29 0x1ffff95f; E 28 0xffff65f; E 29 0x1ffff99f; E 29 0x1ffff9df; E 30 0x3ffffbdf;
  E 28 0xffff69f; E 27 0x7fff75f; E 26 0x3fffa5f; E 28 0xffff6df; E 28 0xffff71f; E 29 0x1ffffa1f; E 29 0x1ffffa5f;
  E 27 0x7fff79f; E 29 0x1ffffa9f; E 28 0xffff75f; E 28 0xffff79f; E 30 0x3ffffc1f; E 27 0x7fff7df; E 28 0xffff7df;
  E 29 0x1ffffadf; E 29 0x1ffffb1f; E 27 0x7fff81f; E 27 0x7fff85f; E 28 0xffff81f; E 27 0x7fff89f; E 29 0x1ffffb5f;
  E 28 0xffff85f; E 29 0x1ffffb9f; E 29 0x1ffffbdf; E 26 0x3fffa9f; E 28 0xffff89f; E 28 0xffff8df; E 28 0xffff91f;
  E 29 0x1ffffc1f; E 28 0xffff95f; E 28 0xffff99f; E 29 0x1ffffc5f; E 32 0xfffff81f; E 32 0xfffff85f; E 26 0x3fffadf;
  E 25 0x1fffc5f; E 28 0xffff9df; E 29 0x1ffffc9f; E 28 0xffffa1f; E 31 0x7ffffb1f; E 32 0xfffff89f; E 32 0xfffff8df;
  E 32 0xfffff91f; X; X; E 32 0xfffff95f; E 30 0x3ffffc5f; E 31 0x7ffffb5f; E 25 0x1fffc9f; E 27 0x7fff8df;
  E 32 0xfffff99f; X; X; E 32 0xfffff9df; X; E 30 0x3ffffc9f; E 27 0x7fff91f; E 27 0x7fff95f; E 32 0xfffffa1f;
  E 32 0xfffffa5f; X; X; X; X; E 26 0x3fffb1f; E 30 0x3ffffcdf; E 26 0x3fffb5f; E 27 0x7fff99f; E 28 0xffffa5f;
  E 27 0x7fff9df; E 27 0x7fffa1f; E 29 0x1ffffcdf; E 28 0xffffa9f; E 28 0xffffadf; E 31 0x7ffffb9f; E 31 0x7ffffbdf;
  E 30 0x3ffffd1f; E 30 0x3ffffd5f; E 32 0xfffffa9f; E 29 0x1ffffd1f; E 32 0xfffffadf; X; E 32 0xfffffb1f;
  E 32 0xfffffb5f; X; X; X; X; X; X; X; X; X; X; X; E 32 0xfffffb9f].
Definition hencs_58 : list henc := [
  E 20 0xffc5c; E 30 0x3fffec5c; X; X; X; X; X; X; X; E 31 0x7ffff55c; X; X; X; X; X; X; X; X; X; X; X; X; X; X; X; X;
  X; X; X; X; X; X; E 13 0xa5c; E 17 0x1fc5c; E 17 0x1fcdc; E 19 0x7fd5c; E 20 0xffcdc; E 13 0xadc; E 15 0x7c5c;
  E 18 0x3fd5c; E 17 0x1fd5c; E 17 0x1fddc; E 15 0x7cdc; E 18 0x3fddc; E 15 0x7d5c; E 13 0xb5c; E 13 0xbdc;
  E 13 0xc5c; E 12 0x5c; E 12 0xdc; E 12 0x15c; E 13 0xcdc; E 13 0xd5c; E 13 0xddc; E 13 0xe5c; E 13 0xedc;
  E 13 0xf5c; E 13 0xfdc; E 14 0x2e5c; E 15 0x7ddc; E 22 0x3ffe5c; E 13 0x105c; E 19 0x7fddc; E 17 0x1fe5c;
  E 20 0xffd5c; E 13 0x10dc; E 14 0x2edc; E 14 0x2f5c; E 14 0x2fdc; E 14 0x305c; E 14 0x30dc; E 14 0x315c;
  E 14 0x31dc; E 14 0x325c; E 14 0x32dc; E 14 0x335c; E 14 0x33dc; E 14 0x345c; E 14 0x34dc; E 14 0x355c; E 14 0x35dc;
  E 14 0x365c; E 14 0x36dc; E 14 0x375c; E 14 0x37dc; E 14 0x385c; E 14 0x38dc; E 14 0x395c; E 15 0x7e5c; E 14 0x39dc;
  E 15 0x7edc; E 20 0xffddc; E 26 0x3fff85c; E 20 0xffe5c; E 21 0x1ffe5c; E 13 0x115c; E 22 0x3ffedc; E 12 0x1dc;
  E 13 0x11dc; E 12 0x25c; E 13 0x125c; E 12 0x2dc; E 13 0x12dc; E 13 0x135c; E 13 0x13dc; E 12 0x35c; E 14 0x3a5c;
  E 14 0x3adc; E 13 0x145c; E 13 0x14dc; E 13 0x155c; E 12 0x3dc; E 13 0x15dc; E 14 0x3b5c; E 13 0x165c; E 12 0x45c;
  E 12 0x4dc; E 13 0x16dc; E 14 0x3bdc; E 14 0x3c5c; E 14 0x3cdc; E 14 0x3d5c; E 14 0x3ddc; E 22 0x3fff5c;
  E 18 0x3fe5c; E 21 0x1ffedc; E 20 0xffedc; X; E 27 0x7fff35c; E 29 0x1fffe95c; E 27 0x7fff3dc; E 27 0x7fff45c;
  E 29 0x1fffe9dc; E 29 0x1fffea5c; E 29 0x1fffeadc; E 30 0x3fffecdc; E 29 0x1fffeb5c; E 30 0x3fffed5c;
  E 30 0x3fffeddc; E 30 0x3fffee5c; E 30 0x3fffeedc; E 30 0x3fffef5c; E 31 0x7ffff5dc; E 30 0x3fffefdc;
  E 31 0x7ffff65c; E 31 0x7ffff6dc; E 29 0x1fffebdc; E 30 0x3ffff05c; E 31 0x7ffff75c; E 30 0x3ffff0dc;
  E 30 0x3ffff15c; E 30 0x3ffff1dc; E 30 0x3ffff25c; E 28 0xfffee5c; E 29 0x1fffec5c; E 30 0x3ffff2dc;
  E 29 0x1fffecdc; E 30 0x3ffff35c; E 30 0x3ffff3dc; E 31 0x7ffff7dc; E 29 0x1fffed5c; E 28 0xfffeedc; E 27 0x7fff4dc;
  E 29 0x1fffeddc; E 29 0x1fffee5c; E 30 0x3ffff45c; E 30 0x3ffff4dc; E 28 0xfffef5c; E 30 0x3ffff55c;
  E 29 0x1fffeedc; E 29 0x1fffef5c; E 31 0x7ffff85c; E 28 0xfffefdc; E 29 0x1fffefdc; E 30 0x3ffff5dc;
  E 30 0x3ffff65c; E 28 0xffff05c; E 28 0xffff0dc; E 29 0x1ffff05c; E 28 0xffff15c; E 30 0x3ffff6dc; E 29 0x1ffff0dc;
  E 30 0x3ffff75c; E 30 0x3ffff7dc; E 27 0x7fff55c; E 29 0x1ffff15c; E 29 0x1ffff1dc; E 29 0x1ffff25c;
  E 30 0x3ffff85c; E 29 0x1ffff2dc; E 29 0x1ffff35c; E 30 0x3ffff8dc; X; X; E 27 0x7fff5dc; E 26 0x3fff8dc;
  E 29 0x1ffff3dc; E 30 0x3ffff95c; E 29 0x1ffff45c; E 32 0xfffff65c; X; X; X; X; X; X; E 31 0x7ffff8dc;
  E 32 0xfffff6dc; E 26 0x3fff95c; E 28 0xffff1dc; X; X; X; X; X; E 31 0x7ffff95c; E 28 0xffff25c; E 28 0xffff2dc; X;
  X; X; X; X; X; E 27 0x7fff65c; E 31 0x7ffff9dc; E 27 0x7fff6dc; E 28 0xffff35c; E 29 0x1ffff4dc; E 28 0xffff3dc;
  E 28 0xffff45c; E 30 0x3ffff9dc; E 29 0x1ffff55c; E 29 0x1ffff5dc; E 32 0xfffff75c; E 32 0xfffff7dc;
  E 31 0x7ffffa5c; E 31 0x7ffffadc; X; E 30 0x3ffffa5c; X; X; X; X; X; X; X; X; X; X; X; X; X; X; X; X].
Definition hencs_59 : list henc := [
  E 21 0x1ff8fb; E 31 0x7fffd8fb; X; X; X; X; X; X; X; E 32 0xffffeafb; X; X; X; X; X; X; X; X; X; X; X; X; X; X; X;
  X; X; X; X; X; X; X; E 14 0x14fb; E 18 0x3f8fb; E 18 0x3f9fb; E 20 0xffafb; E 21 0x1ff9fb; E 14 0x15fb; E 16 0xf8fb;
  E 19 0x7fafb; E 18 0x3fafb; E 18 0x3fbfb; E 16 0xf9fb; E 19 0x7fbfb; E 16 0xfafb; E 14 0x16fb; E 14 0x17fb;
  E 14 0x18fb; E 13 0xfb; E 13 0x1fb; E 13 0x2fb; E 14 0x19fb; E 14 0x1afb; E 14 0x1bfb; E 14 0x1cfb; E 14 0x1dfb;
  E 14 0x1efb; E 14 0x1ffb; E 15 0x5cfb; E 16 0xfbfb; E 23 0x7ffcfb; E 14 0x20fb; E 20 0xffbfb; E 18 0x3fcfb;
  E 21 0x1ffafb; E 14 0x21fb; E 15 0x5dfb; E 15 0x5efb; E 15 0x5ffb; E 15 0x60fb; E 15 0x61fb; E 15 0x62fb;
  E 15 0x63fb; E 15 0x64fb; E 15 0x65fb; E 15 0x66fb; E 15 0x67fb; E 15 0x68fb; E 15 0x69fb; E 15 0x6afb; E 15 0x6bfb;
  E 15 0x6cfb; E 15 0x6dfb; E 15 0x6efb; E 15 0x6ffb; E 15 0x70fb; E 15 0x71fb; E 15 0x72fb; E 16 0xfcfb; E 15 0x73fb;
  E 16 0xfdfb; E 21 0x1ffbfb; E 27 0x7fff0fb; E 21 0x1ffcfb; E 22 0x3ffcfb; E 14 0x22fb; E 23 0x7ffdfb; E 13 0x3fb;
  E 14 0x23fb; E 13 0x4fb; E 14 0x24fb; E 13 0x5fb; E 14 0x25fb; E 14 0x26fb; E 14 0x27fb; E 13 0x6fb; E 15 0x74fb;
  E 15 0x75fb; E 14 0x28fb; E 14 0x29fb; E 14 0x2afb; E 13 0x7fb; E 14 0x2bfb; E 15 0x76fb; E 14 0x2cfb; E 13 0x8fb;
  E 13 0x9fb; E 14 0x2dfb; E 15 0x77fb; E 15 0x78fb; E 15 0x79fb; E 15 0x7afb; E 15 0x7bfb; E 23 0x7ffefb;
  E 19 0x7fcfb; E 22 0x3ffdfb; E 21 0x1ffdfb; X; E 28 0xfffe6fb; E 30 0x3fffd2fb; E 28 0xfffe7fb; E 28 0xfffe8fb;
  E 30 0x3fffd3fb; E 30 0x3fffd4fb; E 30 0x3fffd5fb; E 31 0x7fffd9fb; E 30 0x3fffd6fb; E 31 0x7fffdafb;
  E 31 0x7fffdbfb; E 31 0x7fffdcfb; E 31 0x7fffddfb; E 31 0x7fffdefb; E 32 0xffffebfb; E 31 0x7fffdffb;
  E 32 0xffffecfb; E 32 0xffffedfb; E 30 0x3fffd7fb; E 31 0x7fffe0fb; E 32 0xffffeefb; E 31 0x7fffe1fb;
  E 31 0x7fffe2fb; E 31 0x7fffe3fb; E 31 0x7fffe4fb; E 29 0x1fffdcfb; E 30 0x3fffd8fb; E 31 0x7fffe5fb;
  E 30 0x3fffd9fb; E 31 0x7fffe6fb; E 31 0x7fffe7fb; E 32 0xffffeffb; E 30 0x3fffdafb; E 29 0x1fffddfb;
  E 28 0xfffe9fb; E 30 0x3fffdbfb; E 30 0x3fffdcfb; E 31 0x7fffe8fb; E 31 0x7fffe9fb; E 29 0x1fffdefb;
  E 31 0x7fffeafb; E 30 0x3fffddfb; E 30 0x3fffdefb; E 32 0xfffff0fb; E 29 0x1fffdffb; E 30 0x3fffdffb;
  E 31 0x7fffebfb; E 31 0x7fffecfb; E 29 0x1fffe0fb; E 29 0x1fffe1fb; E 30 0x3fffe0fb; E 29 0x1fffe2fb;
  E 31 0x7fffedfb; E 30 0x3fffe1fb; E 31 0x7fffeefb; E 31 0x7fffeffb; E 28 0xfffeafb; E 30 0x3fffe2fb;
  E 30 0x3fffe3fb; E 30 0x3fffe4fb; E 31 0x7ffff0fb; E 30 0x3fffe5fb; E 30 0x3fffe6fb; E 31 0x7ffff1fb; X; X;
  E 28 0xfffebfb; E 27 0x7fff1fb; E 30 0x3fffe7fb; E 31 0x7ffff2fb; E 30 0x3fffe8fb; X; X; X; X; X; X; X;
  E 32 0xfffff1fb; X; E 27 0x7fff2fb; E 29 0x1fffe3fb; X; X; X; X; X; E 32 0xfffff2fb; E 29 0x1fffe4fb;
  E 29 0x1fffe5fb; X; X; X; X; X; X; E 28 0xfffecfb; E 32 0xfffff3fb; E 28 0xfffedfb; E 29 0x1fffe6fb;
  E 30 0x3fffe9fb; E 29 0x1fffe7fb; E 29 0x1fffe8fb; E 31 0x7ffff3fb; E 30 0x3fffeafb; E 30 0x3fffebfb; X; X;
  E 32 0xfffff4fb; E 32 0xfffff5fb; X; E 31 0x7ffff4fb; X; X; X; X; X; X; X; X; X; X; X; X; X; X; X; X].
Definition hencs_60 : list henc := [
  E 28 0xffc7ffc; X; X; X; X; X; X; X; X; X; X; X; X; X; X; X; X; X; X; X; X; X; X; X; X; X; X; X; X; X; X; X;
  E 21 0xa7ffc; E 25 0x1fc7ffc; E 25 0x1fcfffc; E 27 0x7fd7ffc; E 28 0xffcfffc; E 21 0xafffc; E 23 0x7c7ffc;
  E 26 0x3fd7ffc; E 25 0x1fd7ffc; E 25 0x1fdfffc; E 23 0x7cfffc; E 26 0x3fdfffc; E 23 0x7d7ffc; E 21 0xb7ffc;
  E 21 0xbfffc; E 21 0xc7ffc; E 20 0x7ffc; E 20 0xfffc; E 20 0x17ffc; E 21 0xcfffc; E 21 0xd7ffc; E 21 0xdfffc;
  E 21 0xe7ffc; E 21 0xefffc; E 21 0xf7ffc; E 21 0xffffc; E 22 0x2e7ffc; E 23 0x7dfffc; E 30 0x3ffe7ffc;
  E 21 0x107ffc; E 27 0x7fdfffc; E 25 0x1fe7ffc; E 28 0xffd7ffc; E 21 0x10fffc; E 22 0x2efffc; E 22 0x2f7ffc;
  E 22 0x2ffffc; E 22 0x307ffc; E 22 0x30fffc; E 22 0x317ffc; E 22 0x31fffc; E 22 0x327ffc; E 22 0x32fffc;
  E 22 0x337ffc; E 22 0x33fffc; E 22 0x347ffc; E 22 0x34fffc; E 22 0x357ffc; E 22 0x35fffc; E 22 0x367ffc;
  E 22 0x36fffc; E 22 0x377ffc; E 22 0x37fffc; E 22 0x387ffc; E 22 0x38fffc; E 22 0x397ffc; E 23 0x7e7ffc;
  E 22 0x39fffc; E 23 0x7efffc; E 28 0xffdfffc; X; E 28 0xffe7ffc; E 29 0x1ffe7ffc; E 21 0x117ffc; E 30 0x3ffefffc;
  E 20 0x1fffc; E 21 0x11fffc; E 20 0x27ffc; E 21 0x127ffc; E 20 0x2fffc; E 21 0x12fffc; E 21 0x137ffc; E 21 0x13fffc;
  E 20 0x37ffc; E 22 0x3a7ffc; E 22 0x3afffc; E 21 0x147ffc; E 21 0x14fffc; E 21 0x157ffc; E 20 0x3fffc;
  E 21 0x15fffc; E 22 0x3b7ffc; E 21 0x167ffc; E 20 0x47ffc; E 20 0x4fffc; E 21 0x16fffc; E 22 0x3bfffc;
  E 22 0x3c7ffc; E 22 0x3cfffc; E 22 0x3d7ffc; E 22 0x3dfffc; E 30 0x3fff7ffc; E 26 0x3fe7ffc; E 29 0x1ffefffc;
  E 28 0xffefffc; X; X; X; X; X; X; X; X; X; X; X; X; X; X; X; X; X; X; X; X; X; X; X; X; X; X; X; X; X; X; X; X; X;
  X; X; X; X; X; X; X; X; X; X; X; X; X; X; X; X; X; X; X; X; X; X; X; X; X; X; X; X; X; X; X; X; X; X; X; X; X; X; X;
  X; X; X; X; X; X; X; X; X; X; X; X; X; X; X; X; X; X; X; X; X; X; X; X; X; X; X; X; X; X; X; X; X; X; X; X; X; X; X;
  X; X; X; X; X; X; X; X; X; X; X; X; X; X; X; X; X; X].
Definition hencs_61 : list henc := [
  E 19 0x7fe20; E 29 0x1ffff620; X; X; X; X; X; X; X; E 30 0x3ffffaa0; X; X; X; X; X; X; X; X; X; X; X; X; X; X; X; X;
  X; X; X; X; X; X; E 12 0x520; E 16 0xfe20; E 16 0xfe60; E 18 0x3fea0; E 19 0x7fe60; E 12 0x560; E 14 0x3e20;
  E 17 0x1fea0; E 16 0xfea0; E 16 0xfee0; E 14 0x3e60; E 17 0x1fee0; E 14 0x3ea0; E 12 0x5a0; E 12 0x5e0; E 12 0x620;
  E 11 0x20; E 11 0x60; E 11 0xa0; E 12 0x660; E 12 0x6a0; E 12 0x6e0; E 12 0x720; E 12 0x760; E 12 0x7a0; E 12 0x7e0;
  E 13 0x1720; E 14 0x3ee0; E 21 0x1fff20; E 12 0x820; E 18 0x3fee0; E 16 0xff20; E 19 0x7fea0; E 12 0x860;
  E 13 0x1760; E 13 0x17a0; E 13 0x17e0; E 13 0x1820; E 13 0x1860; E 13 0x18a0; E 13 0x18e0; E 13 0x1920; E 13 0x1960;
  E 13 0x19a0; E 13 0x19e0; E 13 0x1a20; E 13 0x1a60; E 13 0x1aa0; E 13 0x1ae0; E 13 0x1b20; E 13 0x1b60; E 13 0x1ba0;
  E 13 0x1be0; E 13 0x1c20; E 13 0x1c60; E 13 0x1ca0; E 14 0x3f20; E 13 0x1ce0; E 14 0x3f60; E 19 0x7fee0;
  E 25 0x1fffc20; E 19 0x7ff20; E 20 0xfff20; E 12 0x8a0; E 21 0x1fff60; E 11 0xe0; E 12 0x8e0; E 11 0x120;
  E 12 0x920; E 11 0x160; E 12 0x960; E 12 0x9a0; E 12 0x9e0; E 11 0x1a0; E 13 0x1d20; E 13 0x1d60; E 12 0xa20;
  E 12 0xa60; E 12 0xaa0; E 11 0x1e0; E 12 0xae0; E 13 0x1da0; E 12 0xb20; E 11 0x220; E 11 0x260; E 12 0xb60;
  E 13 0x1de0; E 13 0x1e20; E 13 0x1e60; E 13 0x1ea0; E 13 0x1ee0; E 21 0x1fffa0; E 17 0x1ff20; E 20 0xfff60;
  E 19 0x7ff60; X; E 26 0x3fff9a0; E 28 0xffff4a0; E 26 0x3fff9e0; E 26 0x3fffa20; E 28 0xffff4e0; E 28 0xffff520;
  E 28 0xffff560; E 29 0x1ffff660; E 28 0xffff5a0; E 29 0x1ffff6a0; E 29 0x1ffff6e0; E 29 0x1ffff720; E 29 0x1ffff760;
  E 29 0x1ffff7a0; E 30 0x3ffffae0; E 29 0x1ffff7e0; E 30 0x3ffffb20; E 30 0x3ffffb60; E 28 0xffff5e0;
  E 29 0x1ffff820; E 30 0x3ffffba0; E 29 0x1ffff860; E 29 0x1ffff8a0; E 29 0x1ffff8e0; E 29 0x1ffff920;
  E 27 0x7fff720; E 28 0xffff620; E 29 0x1ffff960; E 28 0xffff660; E 29 0x1ffff9a0; E 29 0x1ffff9e0; E 30 0x3ffffbe0;
  E 28 0xffff6a0; E 27 0x7fff760; E 26 0x3fffa60; E 28 0xffff6e0; E 28 0xffff720; E 29 0x1ffffa20; E 29 0x1ffffa60;
  E 27 0x7fff7a0; E 29 0x1ffffaa0; E 28 0xffff760; E 28 0xffff7a0; E 30 0x3ffffc20; E 27 0x7fff7e0; E 28 0xffff7e0;
  E 29 0x1ffffae0; E 29 0x1ffffb20; E 27 0x7fff820; E 27 0x7fff860; E 28 0xffff820; E 27 0x7fff8a0; E 29 0x1ffffb60;
  E 28 0xffff860; E 29 0x1ffffba0; E 29 0x1ffffbe0; E 26 0x3fffaa0; E 28 0xffff8a0; E 28 0xffff8e0; E 28 0xffff920;
  E 29 0x1ffffc20; E 28 0xffff960; E 28 0xffff9a0; E 29 0x1ffffc60; E 32 0xfffff820; E 32 0xfffff860; E 26 0x3fffae0;
  E 25 0x1fffc60; E 28 0xffff9e0; E 29 0x1ffffca0; E 28 0xffffa20; E 31 0x7ffffb20; E 32 0xfffff8a0; E 32 0xfffff8e0;
  E 32 0xfffff920; X; X; E 32 0xfffff960; E 30 0x3ffffc60; E 31 0x7ffffb60; E 25 0x1fffca0; E 27 0x7fff8e0;
  E 32 0xfffff9a0; X; X; E 32 0xfffff9e0; X; E 30 0x3ffffca0; E 27 0x7fff920; E 27 0x7fff960; E 32 0xfffffa20;
  E 32 0xfffffa60; X; X; X; X; E 26 0x3fffb20; E 30 0x3ffffce0; E 26 0x3fffb60; E 27 0x7fff9a0; E 28 0xffffa60;
  E 27 0x7fff9e0; E 27 0x7fffa20; E 29 0x1ffffce0; E 28 0xffffaa0; E 28 0xffffae0; E 31 0x7ffffba0; E 31 0x7ffffbe0;
  E 30 0x3ffffd20; E 30 0x3ffffd60; E 32 0xfffffaa0; E 29 0x1ffffd20; E 32 0xfffffae0; X; E 32 0xfffffb20;
  E 32 0xfffffb60; X; X; X; X; X; X; X; X; X; X; X; E 32 0xfffffba0].
Definition hencs_62 : list henc := [
  E 25 0x1ff8ffb; X; X; X; X; X; X; X; X; X; X; X; X; X; X; X; X; X; X; X; X; X; X; X; X; X; X; X; X; X; X; X;
  E 18 0x14ffb; E 22 0x3f8ffb; E 22 0x3f9ffb; E 24 0xffaffb; E 25 0x1ff9ffb; E 18 0x15ffb; E 20 0xf8ffb;
  E 23 0x7faffb; E 22 0x3faffb; E 22 0x3fbffb; E 20 0xf9ffb; E 23 0x7fbffb; E 20 0xfaffb; E 18 0x16ffb; E 18 0x17ffb;
  E 18 0x18ffb; E 17 0xffb; E 17 0x1ffb; E 17 0x2ffb; E 18 0x19ffb; E 18 0x1affb; E 18 0x1bffb; E 18 0x1cffb;
  E 18 0x1dffb; E 18 0x1effb; E 18 0x1fffb; E 19 0x5cffb; E 20 0xfbffb; E 27 0x7ffcffb; E 18 0x20ffb; E 24 0xffbffb;
  E 22 0x3fcffb; E 25 0x1ffaffb; E 18 0x21ffb; E 19 0x5dffb; E 19 0x5effb; E 19 0x5fffb; E 19 0x60ffb; E 19 0x61ffb;
  E 19 0x62ffb; E 19 0x63ffb; E 19 0x64ffb; E 19 0x65ffb; E 19 0x66ffb; E 19 0x67ffb; E 19 0x68ffb; E 19 0x69ffb;
  E 19 0x6affb; E 19 0x6bffb; E 19 0x6cffb; E 19 0x6dffb; E 19 0x6effb; E 19 0x6fffb; E 19 0x70ffb; E 19 0x71ffb;
  E 19 0x72ffb; E 20 0xfcffb; E 19 0x73ffb; E 20 0xfdffb; E 25 0x1ffbffb; E 31 0x7fff0ffb; E 25 0x1ffcffb;
  E 26 0x3ffcffb; E 18 0x22ffb; E 27 0x7ffdffb; E 17 0x3ffb; E 18 0x23ffb; E 17 0x4ffb; E 18 0x24ffb; E 17 0x5ffb;
  E 18 0x25ffb; E 18 0x26ffb; E 18 0x27ffb; E 17 0x6ffb; E 19 0x74ffb; E 19 0x75ffb; E 18 0x28ffb; E 18 0x29ffb;
  E 18 0x2affb; E 17 0x7ffb; E 18 0x2bffb; E 19 0x76ffb; E 18 0x2cffb; E 17 0x8ffb; E 17 0x9ffb; E 18 0x2dffb;
  E 19 0x77ffb; E 19 0x78ffb; E 19 0x79ffb; E 19 0x7affb; E 19 0x7bffb; E 27 0x7ffeffb; E 23 0x7fcffb; E 26 0x3ffdffb;
  E 25 0x1ffdffb; X; E 32 0xfffe6ffb; X; E 32 0xfffe7ffb; E 32 0xfffe8ffb; X; X; X; X; X; X; X; X; X; X; X; X; X; X;
  X; X; X; X; X; X; X; X; X; X; X; X; X; X; X; X; E 32 0xfffe9ffb; X; X; X; X; X; X; X; X; X; X; X; X; X; X; X; X; X;
  X; X; X; X; E 32 0xfffeaffb; X; X; X; X; X; X; X; X; X; E 32 0xfffebffb; E 31 0x7fff1ffb; X; X; X; X; X; X; X; X; X;
  X; X; X; E 31 0x7fff2ffb; X; X; X; X; X; X; X; X; X; X; X; X; X; X; X; E 32 0xfffecffb; X; E 32 0xfffedffb; X; X; X;
  X; X; X; X; X; X; X; X; X; X; X; X; X; X; X; X; X; X; X; X; X; X; X; X; X; X].
Definition hencs_63 : list henc := [
  E 23 0x7fe3fc; X; X; X; X; X; X; X; X; X; X; X; X; X; X; X; X; X; X; X; X; X; X; X; X; X; X; X; X; X; X; X;
  E 16 0x53fc; E 20 0xfe3fc; E 20 0xfe7fc; E 22 0x3febfc; E 23 0x7fe7fc; E 16 0x57fc; E 18 0x3e3fc; E 21 0x1febfc;
  E 20 0xfebfc; E 20 0xfeffc; E 18 0x3e7fc; E 21 0x1feffc; E 18 0x3ebfc; E 16 0x5bfc; E 16 0x5ffc; E 16 0x63fc;
  E 15 0x3fc; E 15 0x7fc; E 15 0xbfc; E 16 0x67fc; E 16 0x6bfc; E 16 0x6ffc; E 16 0x73fc; E 16 0x77fc; E 16 0x7bfc;
  E 16 0x7ffc; E 17 0x173fc; E 18 0x3effc; E 25 0x1fff3fc; E 16 0x83fc; E 22 0x3feffc; E 20 0xff3fc; E 23 0x7febfc;
  E 16 0x87fc; E 17 0x177fc; E 17 0x17bfc; E 17 0x17ffc; E 17 0x183fc; E 17 0x187fc; E 17 0x18bfc; E 17 0x18ffc;
  E 17 0x193fc; E 17 0x197fc; E 17 0x19bfc; E 17 0x19ffc; E 17 0x1a3fc; E 17 0x1a7fc; E 17 0x1abfc; E 17 0x1affc;
  E 17 0x1b3fc; E 17 0x1b7fc; E 17 0x1bbfc; E 17 0x1bffc; E 17 0x1c3fc; E 17 0x1c7fc; E 17 0x1cbfc; E 18 0x3f3fc;
  E 17 0x1cffc; E 18 0x3f7fc; E 23 0x7feffc; E 29 0x1fffc3fc; E 23 0x7ff3fc; E 24 0xfff3fc; E 16 0x8bfc;
  E 25 0x1fff7fc; E 15 0xffc; E 16 0x8ffc; E 15 0x13fc; E 16 0x93fc; E 15 0x17fc; E 16 0x97fc; E 16 0x9bfc;
  E 16 0x9ffc; E 15 0x1bfc; E 17 0x1d3fc; E 17 0x1d7fc; E 16 0xa3fc; E 16 0xa7fc; E 16 0xabfc; E 15 0x1ffc;
  E 16 0xaffc; E 17 0x1dbfc; E 16 0xb3fc; E 15 0x23fc; E 15 0x27fc; E 16 0xb7fc; E 17 0x1dffc; E 17 0x1e3fc;
  E 17 0x1e7fc; E 17 0x1ebfc; E 17 0x1effc; E 25 0x1fffbfc; E 21 0x1ff3fc; E 24 0xfff7fc; E 23 0x7ff7fc; X;
  E 30 0x3fff9bfc; E 32 0xffff4bfc; E 30 0x3fff9ffc; E 30 0x3fffa3fc; E 32 0xffff4ffc; E 32 0xffff53fc;
  E 32 0xffff57fc; X; E 32 0xffff5bfc; X; X; X; X; X; X; X; X; X; E 32 0xffff5ffc; X; X; X; X; X; X; E 31 0x7fff73fc;
  E 32 0xffff63fc; X; E 32 0xffff67fc; X; X; X; E 32 0xffff6bfc; E 31 0x7fff77fc; E 30 0x3fffa7fc; E 32 0xffff6ffc;
  E 32 0xffff73fc; X; X; E 31 0x7fff7bfc; X; E 32 0xffff77fc; E 32 0xffff7bfc; X; E 31 0x7fff7ffc; E 32 0xffff7ffc; X;
  X; E 31 0x7fff83fc; E 31 0x7fff87fc; E 32 0xffff83fc; E 31 0x7fff8bfc; X; E 32 0xffff87fc; X; X; E 30 0x3fffabfc;
  E 32 0xffff8bfc; E 32 0xffff8ffc; E 32 0xffff93fc; X; E 32 0xffff97fc; E 32 0xffff9bfc; X; X; X; E 30 0x3fffaffc;
  E 29 0x1fffc7fc; E 32 0xffff9ffc; X; E 32 0xffffa3fc; X; X; X; X; X; X; X; X; X; E 29 0x1fffcbfc; E 31 0x7fff8ffc;
  X; X; X; X; X; X; E 31 0x7fff93fc; E 31 0x7fff97fc; X; X; X; X; X; X; E 30 0x3fffb3fc; X; E 30 0x3fffb7fc;
  E 31 0x7fff9bfc; E 32 0xffffa7fc; E 31 0x7fff9ffc; E 31 0x7fffa3fc; X; E 32 0xffffabfc; E 32 0xffffaffc; X; X; X; X;
  X; X; X; X; X; X; X; X; X; X; X; X; X; X; X; X; X; X].
Definition hencs_64 : list henc := [
  E 26 0x3ff1ffa; X; X; X; X; X; X; X; X; X; X; X; X; X; X; X; X; X; X; X; X; X; X; X; X; X; X; X; X; X; X; X;
  E 19 0x29ffa; E 23 0x7f1ffa; E 23 0x7f3ffa; E 25 0x1ff5ffa; E 26 0x3ff3ffa; E 19 0x2bffa; E 21 0x1f1ffa;
  E 24 0xff5ffa; E 23 0x7f5ffa; E 23 0x7f7ffa; E 21 0x1f3ffa; E 24 0xff7ffa; E 21 0x1f5ffa; E 19 0x2dffa;
  E 19 0x2fffa; E 19 0x31ffa; E 18 0x1ffa; E 18 0x3ffa; E 18 0x5ffa; E 19 0x33ffa; E 19 0x35ffa; E 19 0x37ffa;
  E 19 0x39ffa; E 19 0x3bffa; E 19 0x3dffa; E 19 0x3fffa; E 20 0xb9ffa; E 21 0x1f7ffa; E 28 0xfff9ffa; E 19 0x41ffa;
  E 25 0x1ff7ffa; E 23 0x7f9ffa; E 26 0x3ff5ffa; E 19 0x43ffa; E 20 0xbbffa; E 20 0xbdffa; E 20 0xbfffa; E 20 0xc1ffa;
  E 20 0xc3ffa; E 20 0xc5ffa; E 20 0xc7ffa; E 20 0xc9ffa; E 20 0xcbffa; E 20 0xcdffa; E 20 0xcfffa; E 20 0xd1ffa;
  E 20 0xd3ffa; E 20 0xd5ffa; E 20 0xd7ffa; E 20 0xd9ffa; E 20 0xdbffa; E 20 0xddffa; E 20 0xdfffa; E 20 0xe1ffa;
  E 20 0xe3ffa; E 20 0xe5ffa; E 21 0x1f9ffa; E 20 0xe7ffa; E 21 0x1fbffa; E 26 0x3ff7ffa; E 32 0xfffe1ffa;
  E 26 0x3ff9ffa; E 27 0x7ff9ffa; E 19 0x45ffa; E 28 0xfffbffa; E 18 0x7ffa; E 19 0x47ffa; E 18 0x9ffa; E 19 0x49ffa;
  E 18 0xbffa; E 19 0x4bffa; E 19 0x4dffa; E 19 0x4fffa; E 18 0xdffa; E 20 0xe9ffa; E 20 0xebffa; E 19 0x51ffa;
  E 19 0x53ffa; E 19 0x55ffa; E 18 0xfffa; E 19 0x57ffa; E 20 0xedffa; E 19 0x59ffa; E 18 0x11ffa; E 18 0x13ffa;
  E 19 0x5bffa; E 20 0xefffa; E 20 0xf1ffa; E 20 0xf3ffa; E 20 0xf5ffa; E 20 0xf7ffa; E 28 0xfffdffa; E 24 0xff9ffa;
  E 27 0x7ffbffa; E 26 0x3ffbffa; X; X; X; X; X; X; X; X; X; X; X; X; X; X; X; X; X; X; X; X; X; X; X; X; X; X; X; X;
  X; X; X; X; X; X; X; X; X; X; X; X; X; X; X; X; X; X; X; X; X; X; X; X; X; X; X; X; X; X; X; X; X; X; X; X; X; X; X;
  X; E 32 0xfffe3ffa; X; X; X; X; X; X; X; X; X; X; X; X; E 32 0xfffe5ffa; X; X; X; X; X; X; X; X; X; X; X; X; X; X;
  X; X; X; X; X; X; X; X; X; X; X; X; X; X; X; X; X; X; X; X; X; X; X; X; X; X; X; X; X; X; X; X; X].
Definition hencs_65 : list henc := [
  E 19 0x7fe21; E 29 0x1ffff621; X; X; X; X; X; X; X; E 30 0x3ffffaa1; X; X; X; X; X; X; X; X; X; X; X; X; X; X; X; X;
  X; X; X; X; X; X; E 12 0x521; E 16 0xfe21; E 16 0xfe61; E 18 0x3fea1; E 19 0x7fe61; E 12 0x561; E 14 0x3e21;
  E 17 0x1fea1; E 16 0xfea1; E 16 0xfee1; E 14 0x3e61; E 17 0x1fee1; E 14 0x3ea1; E 12 0x5a1; E 12 0x5e1; E 12 0x621;
  E 11 0x21; E 11 0x61; E 11 0xa1; E 12 0x661; E 12 0x6a1; E 12 0x6e1; E 12 0x721; E 12 0x761; E 12 0x7a1; E 12 0x7e1;
  E 13 0x1721; E 14 0x3ee1; E 21 0x1fff21; E 12 0x821; E 18 0x3fee1; E 16 0xff21; E 19 0x7fea1; E 12 0x861;
  E 13 0x1761; E 13 0x17a1; E 13 0x17e1; E 13 0x1821; E 13 0x1861; E 13 0x18a1; E 13 0x18e1; E 13 0x1921; E 13 0x1961;
  E 13 0x19a1; E 13 0x19e1; E 13 0x1a21; E 13 0x1a61; E 13 0x1aa1; E 13 0x1ae1; E 13 0x1b21; E 13 0x1b61; E 13 0x1ba1;
  E 13 0x1be1; E 13 0x1c21; E 13 0x1c61; E 13 0x1ca1; E 14 0x3f21; E 13 0x1ce1; E 14 0x3f61; E 19 0x7fee1;
  E 25 0x1fffc21; E 19 0x7ff21; E 20 0xfff21; E 12 0x8a1; E 21 0x1fff61; E 11 0xe1; E 12 0x8e1; E 11 0x121;
  E 12 0x921; E 11 0x161; E 12 0x961; E 12 0x9a1; E 12 0x9e1; E 11 0x1a1; E 13 0x1d21; E 13 0x1d61; E 12 0xa21;
  E 12 0xa61; E 12 0xaa1; E 11 0x1e1; E 12 0xae1; E 13 0x1da1; E 12 0xb21; E 11 0x221; E 11 0x261; E 12 0xb61;
  E 13 0x1de1; E 13 0x1e21; E 13 0x1e61; E 13 0x1ea1; E 13 0x1ee1; E 21 0x1fffa1; E 17 0x1ff21; E 20 0xfff61;
  E 19 0x7ff61; X; E 26 0x3fff9a1; E 28 0xffff4a1; E 26 0x3fff9e1; E 26 0x3fffa21; E 28 0xffff4e1; E 28 0xffff521;
  E 28 0xffff561; E 29 0x1ffff661; E 28 0xffff5a1; E 29 0x1ffff6a1; E 29 0x1ffff6e1; E 29 0x1ffff721; E 29 0x1ffff761;
  E 29 0x1ffff7a1; E 30 0x3ffffae1; E 29 0x1ffff7e1; E 30 0x3ffffb21; E 30 0x3ffffb61; E 28 0xffff5e1;
  E 29 0x1ffff821; E 30 0x3ffffba1; E 29 0x1ffff861; E 29 0x1ffff8a1; E 29 0x1ffff8e1; E 29 0x1ffff921;
  E 27 0x7fff721; E 28 0xffff621; E 29 0x1ffff961; E 28 0xffff661; E 29 0x1ffff9a1; E 29 0x1ffff9e1; E 30 0x3ffffbe1;
  E 28 0xffff6a1; E 27 0x7fff761; E 26 0x3fffa61; E 28 0xffff6e1; E 28 0xffff721; E 29 0x1ffffa21; E 29 0x1ffffa61;
  E 27 0x7fff7a1; E 29 0x1ffffaa1; E 28 0xffff761; E 28 0xffff7a1; E 30 0x3ffffc21; E 27 0x7fff7e1; E 28 0xffff7e1;
  E 29 0x1ffffae1; E 29 0x1ffffb21; E 27 0x7fff821; E 27 0x7fff861; E 28 0xffff821; E 27 0x7fff8a1; E 29 0x1ffffb61;
  E 28 0xffff861; E 29 0x1ffffba1; E 29 0x1ffffbe1; E 26 0x3fffaa1; E 28 0xffff8a1; E 28 0xffff8e1; E 28 0xffff921;
  E 29 0x1ffffc21; E 28 0xffff961; E 28 0xffff9a1; E 29 0x1ffffc61; E 32 0xfffff821; E 32 0xfffff861; E 26 0x3fffae1;
  E 25 0x1fffc61; E 28 0xffff9e1; E 29 0x1ffffca1; E 28 0xffffa21; E 31 0x7ffffb21; E 32 0xfffff8a1; E 32 0xfffff8e1;
  E 32 0xfffff921; X; X; E 32 0xfffff961; E 30 0x3ffffc61; E 31 0x7ffffb61; E 25 0x1fffca1; E 27 0x7fff8e1;
  E 32 0xfffff9a1; X; X; E 32 0xfffff9e1; X; E 30 0x3ffffca1; E 27 0x7fff921; E 27 0x7fff961; E 32 0xfffffa21;
  E 32 0xfffffa61; X; X; X; X; E 26 0x3fffb21; E 30 0x3ffffce1; E 26 0x3fffb61; E 27 0x7fff9a1; E 28 0xffffa61;
  E 27 0x7fff9e1; E 27 0x7fffa21; E 29 0x1ffffce1; E 28 0xffffaa1; E 28 0xffffae1; E 31 0x7ffffba1; E 31 0x7ffffbe1;
  E 30 0x3ffffd21; E 30 0x3ffffd61; E 32 0xfffffaa1; E 29 0x1ffffd21; E 32 0xfffffae1; X; E 32 0xfffffb21;
  E 32 0xfffffb61; X; X; X; X; X; X; X; X; X; X; X; E 32 0xfffffba1].
Definition hencs_66 : list henc := [
  E 20 0xffc5d; E 30 0x3fffec5d; X; X; X; X; X; X; X; E 31 0x7ffff55d; X; X; X; X; X; X; X; X; X; X; X; X; X; X; X; X;
  X; X; X; X; X; X; E 13 0xa5d; E 17 0x1fc5d; E 17 0x1fcdd; E 19 0x7fd5d; E 20 0xffcdd; E 13 0xadd; E 15 0x7c5d;
  E 18 0x3fd5d; E 17 0x1fd5d; E 17 0x1fddd; E 15 0x7cdd; E 18 0x3fddd; E 15 0x7d5d; E 13 0xb5d; E 13 0xbdd;
  E 13 0xc5d; E 12 0x5d; E 12 0xdd; E 12 0x15d; E 13 0xcdd; E 13 0xd5d; E 13 0xddd; E 13 0xe5d; E 13 0xedd;
  E 13 0xf5d; E 13 0xfdd; E 14 0x2e5d; E 15 0x7ddd; E 22 0x3ffe5d; E 13 0x105d; E 19 0x7fddd; E 17 0x1fe5d;
  E 20 0xffd5d; E 13 0x10dd; E 14 0x2edd; E 14 0x2f5d; E 14 0x2fdd; E 14 0x305d; E 14 0x30dd; E 14 0x315d;
  E 14 0x31dd; E 14 0x325d; E 14 0x32dd; E 14 0x335d; E 14 0x33dd; E 14 0x345d; E 14 0x34dd; E 14 0x355d; E 14 0x35dd;
  E 14 0x365d; E 14 0x36dd; E 14 0x375d; E 14 0x37dd; E 14 0x385d; E 14 0x38dd; E 14 0x395d; E 15 0x7e5d; E 14 0x39dd;
  E 15 0x7edd; E 20 0xffddd; E 26 0x3fff85d; E 20 0xffe5d; E 21 0x1ffe5d; E 13 0x115d; E 22 0x3ffedd; E 12 0x1dd;
  E 13 0x11dd; E 12 0x25d; E 13 0x125d; E 12 0x2dd; E 13 0x12dd; E 13 0x135d; E 13 0x13dd; E 12 0x35d; E 14 0x3a5d;
  E 14 0x3add; E 13 0x145d; E 13 0x14dd; E 13 0x155d; E 12 0x3dd; E 13 0x15dd; E 14 0x3b5d; E 13 0x165d; E 12 0x45d;
  E 12 0x4dd; E 13 0x16dd; E 14 0x3bdd; E 14 0x3c5d; E 14 0x3cdd; E 14 0x3d5d; E 14 0x3ddd; E 22 0x3fff5d;
  E 18 0x3fe5d; E 21 0x1ffedd; E 20 0xffedd; X; E 27 0x7fff35d; E 29 0x1fffe95d; E 27 0x7fff3dd; E 27 0x7fff45d;
  E 29 0x1fffe9dd; E 29 0x1fffea5d; E 29 0x1fffeadd; E 30 0x3fffecdd; E 29 0x1fffeb5d; E 30 0x3fffed5d;
  E 30 0x3fffeddd; E 30 0x3fffee5d; E 30 0x3fffeedd; E 30 0x3fffef5d; E 31 0x7ffff5dd; E 30 0x3fffefdd;
  E 31 0x7ffff65d; E 31 0x7ffff6dd; E 29 0x1fffebdd; E 30 0x3ffff05d; E 31 0x7ffff75d; E 30 0x3ffff0dd;
  E 30 0x3ffff15d; E 30 0x3ffff1dd; E 30 0x3ffff25d; E 28 0xfffee5d; E 29 0x1fffec5d; E 30 0x3ffff2dd;
  E 29 0x1fffecdd; E 30 0x3ffff35d; E 30 0x3ffff3dd; E 31 0x7ffff7dd; E 29 0x1fffed5d; E 28 0xfffeedd; E 27 0x7fff4dd;
  E 29 0x1fffeddd; E 29 0x1fffee5d; E 30 0x3ffff45d; E 30 0x3ffff4dd; E 28 0xfffef5d; E 30 0x3ffff55d;
  E 29 0x1fffeedd; E 29 0x1fffef5d; E 31 0x7ffff85d; E 28 0xfffefdd; E 29 0x1fffefdd; E 30 0x3ffff5dd;
  E 30 0x3ffff65d; E 28 0xffff05d; E 28 0xffff0dd; E 29 0x1ffff05d; E 28 0xffff15d; E 30 0x3ffff6dd; E 29 0x1ffff0dd;
  E 30 0x3ffff75d; E 30 0x3ffff7dd; E 27 0x7fff55d; E 29 0x1ffff15d; E 29 0x1ffff1dd; E 29 0x1ffff25d;
  E 30 0x3ffff85d; E 29 0x1ffff2dd; E 29 0x1ffff35d; E 30 0x3ffff8dd; X; X; E 27 0x7fff5dd; E 26 0x3fff8dd;
  E 29 0x1ffff3dd; E 30 0x3ffff95d; E 29 0x1ffff45d; E 32 0xfffff65d; X; X; X; X; X; X; E 31 0x7ffff8dd;
  E 32 0xfffff6dd; E 26 0x3fff95d; E 28 0xffff1dd; X; X; X; X; X; E 31 0x7ffff95d; E 28 0xffff25d; E 28 0xffff2dd; X;
  X; X; X; X; X; E 27 0x7fff65d; E 31 0x7ffff9dd; E 27 0x7fff6dd; E 28 0xffff35d; E 29 0x1ffff4dd; E 28 0xffff3dd;
  E 28 0xffff45d; E 30 0x3ffff9dd; E 29 0x1ffff55d; E 29 0x1ffff5dd; E 32 0xfffff75d; E 32 0xfffff7dd;
  E 31 0x7ffffa5d; E 31 0x7ffffadd; X; E 30 0x3ffffa5d; X; X; X; X; X; X; X; X; X; X; X; X; X; X; X; X].
Definition hencs_67 : list henc := [
  E 20 0xffc5e; E 30 0x3fffec5e; X; X; X; X; X; X; X; E 31 0x7ffff55e; X; X; X; X; X; X; X; X; X; X; X; X; X; X; X; X;
  X; X; X; X; X; X; E 13 0xa5e; E 17 0x1fc5e; E 17 0x1fcde; E 19 0x7fd5e; E 20 0xffcde; E 13 0xade; E 15 0x7c5e;
  E 18 0x3fd5e; E 17 0x1fd5e; E 17 0x1fdde; E 15 0x7cde; E 18 0x3fdde; E 15 0x7d5e; E 13 0xb5e; E 13 0xbde;
  E 13 0xc5e; E 12 0x5e; E 12 0xde; E 12 0x15e; E 13 0xcde; E 13 0xd5e; E 13 0xdde; E 13 0xe5e; E 13 0xede;
  E 13 0xf5e; E 13 0xfde; E 14 0x2e5e; E 15 0x7dde; E 22 0x3ffe5e; E 13 0x105e; E 19 0x7fdde; E 17 0x1fe5e;
  E 20 0xffd5e; E 13 0x10de; E 14 0x2ede; E 14 0x2f5e; E 14 0x2fde; E 14 0x305e; E 14 0x30de; E 14 0x315e;
  E 14 0x31de; E 14 0x325e; E 14 0x32de; E 14 0x335e; E 14 0x33de; E 14 0x345e; E 14 0x34de; E 14 0x355e; E 14 0x35de;
  E 14 0x365e; E 14 0x36de; E 14 0x375e; E 14 0x37de; E 14 0x385e; E 14 0x38de; E 14 0x395e; E 15 0x7e5e; E 14 0x39de;
  E 15 0x7ede; E 20 0xffdde; E 26 0x3fff85e; E 20 0xffe5e; E 21 0x1ffe5e; E 13 0x115e; E 22 0x3ffede; E 12 0x1de;
  E 13 0x11de; E 12 0x25e; E 13 0x125e; E 12 0x2de; E 13 0x12de; E 13 0x135e; E 13 0x13de; E 12 0x35e; E 14 0x3a5e;
  E 14 0x3ade; E 13 0x145e; E 13 0x14de; E 13 0x155e; E 12 0x3de; E 13 0x15de; E 14 0x3b5e; E 13 0x165e; E 12 0x45e;
  E 12 0x4de; E 13 0x16de; E 14 0x3bde; E 14 0x3c5e; E 14 0x3cde; E 14 0x3d5e; E 14 0x3dde; E 22 0x3fff5e;
  E 18 0x3fe5e; E 21 0x1ffede; E 20 0xffede; X; E 27 0x7fff35e; E 29 0x1fffe95e; E 27 0x7fff3de; E 27 0x7fff45e;
  E 29 0x1fffe9de; E 29 0x1fffea5e; E 29 0x1fffeade; E 30 0x3fffecde; E 29 0x1fffeb5e; E 30 0x3fffed5e;
  E 30 0x3fffedde; E 30 0x3fffee5e; E 30 0x3fffeede; E 30 0x3fffef5e; E 31 0x7ffff5de; E 30 0x3fffefde;
  E 31 0x7ffff65e; E 31 0x7ffff6de; E 29 0x1fffebde; E 30 0x3ffff05e; E 31 0x7ffff75e; E 30 0x3ffff0de;
  E 30 0x3ffff15e; E 30 0x3ffff1de; E 30 0x3ffff25e; E 28 0xfffee5e; E 29 0x1fffec5e; E 30 0x3ffff2de;
  E 29 0x1fffecde; E 30 0x3ffff35e; E 30 0x3ffff3de; E 31 0x7ffff7de; E 29 0x1fffed5e; E 28 0xfffeede; E 27 0x7fff4de;
  E 29 0x1fffedde; E 29 0x1fffee5e; E 30 0x3ffff45e; E 30 0x3ffff4de; E 28 0xfffef5e; E 30 0x3ffff55e;
  E 29 0x1fffeede; E 29 0x1fffef5e; E 31 0x7ffff85e; E 28 0xfffefde; E 29 0x1fffefde; E 30 0x3ffff5de;
  E 30 0x3ffff65e; E 28 0xffff05e; E 28 0xffff0de; E 29 0x1ffff05e; E 28 0xffff15e; E 30 0x3ffff6de; E 29 0x1ffff0de;
  E 30 0x3ffff75e; E 30 0x3ffff7de; E 27 0x7fff55e; E 29 0x1ffff15e; E 29 0x1ffff1de; E 29 0x1ffff25e;
  E 30 0x3ffff85e; E 29 0x1ffff2de; E 29 0x1ffff35e; E 30 0x3ffff8de; X; X; E 27 0x7fff5de; E 26 0x3fff8de;
  E 29 0x1ffff3de; E 30 0x3ffff95e; E 29 0x1ffff45e; E 32 0xfffff65e; X; X; X; X; X; X; E 31 0x7ffff8de;
  E 32 0xfffff6de; E 26 0x3fff95e; E 28 0xffff1de; X; X; X; X; X; E 31 0x7ffff95e; E 28 0xffff25e; E 28 0xffff2de; X;
  X; X; X; X; X; E 27 0x7fff65e; E 31 0x7ffff9de; E 27 0x7fff6de; E 28 0xffff35e; E 29 0x1ffff4de; E 28 0xffff3de;
  E 28 0xffff45e; E 30 0x3ffff9de; E 29 0x1ffff55e; E 29 0x1ffff5de; E 32 0xfffff75e; E 32 0xfffff7de;
  E 31 0x7ffffa5e; E 31 0x7ffffade; X; E 30 0x3ffffa5e; X; X; X; X; X; X; X; X; X; X; X; X; X; X; X; X].
Definition hencs_68 : list henc := [
  E 20 0xffc5f; E 30 0x3fffec5f; X; X; X; X; X; X; X; E 31 0x7ffff55f; X; X; X; X; X; X; X; X; X; X; X; X; X; X; X; X;
  X; X; X; X; X; X; E 13 0xa5f; E 17 0x1fc5f; E 17 0x1fcdf; E 19 0x7fd5f; E 20 0xffcdf; E 13 0xadf; E 15 0x7c5f;
  E 18 0x3fd5f; E 17 0x1fd5f; E 17 0x1fddf; E 15 0x7cdf; E 18 0x3fddf; E 15 0x7d5f; E 13 0xb5f; E 13 0xbdf;
  E 13 0xc5f; E 12 0x5f; E 12 0xdf; E 12 0x15f; E 13 0xcdf; E 13 0xd5f; E 13 0xddf; E 13 0xe5f; E 13 0xedf;
  E 13 0xf5f; E 13 0xfdf; E 14 0x2e5f; E 15 0x7ddf; E 22 0x3ffe5f; E 13 0x105f; E 19 0x7fddf; E 17 0x1fe5f;
  E 20 0xffd5f; E 13 0x10df; E 14 0x2edf; E 14 0x2f5f; E 14 0x2fdf; E 14 0x305f; E 14 0x30df; E 14 0x315f;
  E 14 0x31df; E 14 0x325f; E 14 0x32df; E 14 0x335f; E 14 0x33df; E 14 0x345f; E 14 0x34df; E 14 0x355f; E 14 0x35df;
  E 14 0x365f; E 14 0x36df; E 14 0x375f; E 14 0x37df; E 14 0x385f; E 14 0x38df; E 14 0x395f; E 15 0x7e5f; E 14 0x39df;
  E 15 0x7edf; E 20 0xffddf; E 26 0x3fff85f; E 20 0xffe5f; E 21 0x1ffe5f; E 13 0x115f; E 22 0x3ffedf; E 12 0x1df;
  E 13 0x11df; E 12 0x25f; E 13 0x125f; E 12 0x2df; E 13 0x12df; E 13 0x135f; E 13 0x13df; E 12 0x35f; E 14 0x3a5f;
  E 14 0x3adf; E 13 0x145f; E 13 0x14df; E 13 0x155f; E 12 0x3df; E 13 0x15df; E 14 0x3b5f; E 13 0x165f; E 12 0x45f;
  E 12 0x4df; E 13 0x16df; E 14 0x3bdf; E 14 0x3c5f; E 14 0x3cdf; E 14 0x3d5f; E 14 0x3ddf; E 22 0x3fff5f;
  E 18 0x3fe5f; E 21 0x1ffedf; E 20 0xffedf; X; E 27 0x7fff35f; E 29 0x1fffe95f; E 27 0x7fff3df; E 27 0x7fff45f;
  E 29 0x1fffe9df; E 29 0x1fffea5f; E 29 0x1fffeadf; E 30 0x3fffecdf; E 29 0x1fffeb5f; E 30 0x3fffed5f;
  E 30 0x3fffeddf; E 30 0x3fffee5f; E 30 0x3fffeedf; E 30 0x3fffef5f; E 31 0x7ffff5df; E 30 0x3fffefdf;
  E 31 0x7ffff65f; E 31 0x7ffff6df; E 29 0x1fffebdf; E 30 0x3ffff05f; E 31 0x7ffff75f; E 30 0x3ffff0df;
  E 30 0x3ffff15f; E 30 0x3ffff1df; E 30 0x3ffff25f; E 28 0xfffee5f; E 29 0x1fffec5f; E 30 0x3ffff2df;
  E 29 0x1fffecdf; E 30 0x3ffff35f; E 30 0x3ffff3df; E 31 0x7ffff7df; E 29 0x1fffed5f; E 28 0xfffeedf; E 27 0x7fff4df;
  E 29 0x1fffeddf; E 29 0x1fffee5f; E 30 0x3ffff45f; E 30 0x3ffff4df; E 28 0xfffef5f; E 30 0x3ffff55f;
  E 29 0x1fffeedf; E 29 0x1fffef5f; E 31 0x7ffff85f; E 28 0xfffefdf; E 29 0x1fffefdf; E 30 0x3ffff5df;
  E 30 0x3ffff65f; E 28 0xffff05f; E 28 0xffff0df; E 29 0x1ffff05f; E 28 0xffff15f; E 30 0x3ffff6df; E 29 0x1ffff0df;
  E 30 0x3ffff75f; E 30 0x3ffff7df; E 27 0x7fff55f; E 29 0x1ffff15f; E 29 0x1ffff1df; E 29 0x1ffff25f;
  E 30 0x3ffff85f; E 29 0x1ffff2df; E 29 0x1ffff35f; E 30 0x3ffff8df; X; X; E 27 0x7fff5df; E 26 0x3fff8df;
  E 29 0x1ffff3df; E 30 0x3ffff95f; E 29 0x1ffff45f; E 32 0xfffff65f; X; X; X; X; X; X; E 31 0x7ffff8df;
  E 32 0xfffff6df; E 26 0x3fff95f; E 28 0xffff1df; X; X; X; X; X; E 31 0x7ffff95f; E 28 0xffff25f; E 28 0xffff2df; X;
  X; X; X; X; X; E 27 0x7fff65f; E 31 0x7ffff9df; E 27 0x7fff6df; E 28 0xffff35f; E 29 0x1ffff4df; E 28 0xffff3df;
  E 28 0xffff45f; E 30 0x3ffff9df; E 29 0x1ffff55f; E 29 0x1ffff5df; E 32 0xfffff75f; E 32 0xfffff7df;
  E 31 0x7ffffa5f; E 31 0x7ffffadf; X; E 30 0x3ffffa5f; X; X; X; X; X; X; X; X; X; X; X; X; X; X; X; X].
Definition hencs_69 : list henc := [
  E 20 0xffc60; E 30 0x3fffec60; X; X; X; X; X; X; X; E 31 0x7ffff560; X; X; X; X; X; X; X; X; X; X; X; X; X; X; X; X;
  X; X; X; X; X; X; E 13 0xa60; E 17 0x1fc60; E 17 0x1fce0; E 19 0x7fd60; E 20 0xffce0; E 13 0xae0; E 15 0x7c60;
  E 18 0x3fd60; E 17 0x1fd60; E 17 0x1fde0; E 15 0x7ce0; E 18 0x3fde0; E 15 0x7d60; E 13 0xb60; E 13 0xbe0;
  E 13 0xc60; E 12 0x60; E 12 0xe0; E 12 0x160; E 13 0xce0; E 13 0xd60; E 13 0xde0; E 13 0xe60; E 13 0xee0;
  E 13 0xf60; E 13 0xfe0; E 14 0x2e60; E 15 0x7de0; E 22 0x3ffe60; E 13 0x1060; E 19 0x7fde0; E 17 0x1fe60;
  E 20 0xffd60; E 13 0x10e0; E 14 0x2ee0; E 14 0x2f60; E 14 0x2fe0; E 14 0x3060; E 14 0x30e0; E 14 0x3160;
  E 14 0x31e0; E 14 0x3260; E 14 0x32e0; E 14 0x3360; E 14 0x33e0; E 14 0x3460; E 14 0x34e0; E 14 0x3560; E 14 0x35e0;
  E 14 0x3660; E 14 0x36e0; E 14 0x3760; E 14 0x37e0; E 14 0x3860; E 14 0x38e0; E 14 0x3960; E 15 0x7e60; E 14 0x39e0;
  E 15 0x7ee0; E 20 0xffde0; E 26 0x3fff860; E 20 0xffe60; E 21 0x1ffe60; E 13 0x1160; E 22 0x3ffee0; E 12 0x1e0;
  E 13 0x11e0; E 12 0x260; E 13 0x1260; E 12 0x2e0; E 13 0x12e0; E 13 0x1360; E 13 0x13e0; E 12 0x360; E 14 0x3a60;
  E 14 0x3ae0; E 13 0x1460; E 13 0x14e0; E 13 0x1560; E 12 0x3e0; E 13 0x15e0; E 14 0x3b60; E 13 0x1660; E 12 0x460;
  E 12 0x4e0; E 13 0x16e0; E 14 0x3be0; E 14 0x3c60; E 14 0x3ce0; E 14 0x3d60; E 14 0x3de0; E 22 0x3fff60;
  E 18 0x3fe60; E 21 0x1ffee0; E 20 0xffee0; X; E 27 0x7fff360; E 29 0x1fffe960; E 27 0x7fff3e0; E 27 0x7fff460;
  E 29 0x1fffe9e0; E 29 0x1fffea60; E 29 0x1fffeae0; E 30 0x3fffece0; E 29 0x1fffeb60; E 30 0x3fffed60;
  E 30 0x3fffede0; E 30 0x3fffee60; E 30 0x3fffeee0; E 30 0x3fffef60; E 31 0x7ffff5e0; E 30 0x3fffefe0;
  E 31 0x7ffff660; E 31 0x7ffff6e0; E 29 0x1fffebe0; E 30 0x3ffff060; E 31 0x7ffff760; E 30 0x3ffff0e0;
  E 30 0x3ffff160; E 30 0x3ffff1e0; E 30 0x3ffff260; E 28 0xfffee60; E 29 0x1fffec60; E 30 0x3ffff2e0;
  E 29 0x1fffece0; E 30 0x3ffff360; E 30 0x3ffff3e0; E 31 0x7ffff7e0; E 29 0x1fffed60; E 28 0xfffeee0; E 27 0x7fff4e0;
  E 29 0x1fffede0; E 29 0x1fffee60; E 30 0x3ffff460; E 30 0x3ffff4e0; E 28 0xfffef60; E 30 0x3ffff560;
  E 29 0x1fffeee0; E 29 0x1fffef60; E 31 0x7ffff860; E 28 0xfffefe0; E 29 0x1fffefe0; E 30 0x3ffff5e0;
  E 30 0x3ffff660; E 28 0xffff060; E 28 0xffff0e0; E 29 0x1ffff060; E 28 0xffff160; E 30 0x3ffff6e0; E 29 0x1ffff0e0;
  E 30 0x3ffff760; E 30 0x3ffff7e0; E 27 0x7fff560; E 29 0x1ffff160; E 29 0x1ffff1e0; E 29 0x1ffff260;
  E 30 0x3ffff860; E 29 0x1ffff2e0; E 29 0x1ffff360; E 30 0x3ffff8e0; X; X; E 27 0x7fff5e0; E 26 0x3fff8e0;
  E 29 0x1ffff3e0; E 30 0x3ffff960; E 29 0x1ffff460; E 32 0xfffff660; X; X; X; X; X; X; E 31 0x7ffff8e0;
  E 32 0xfffff6e0; E 26 0x3fff960; E 28 0xffff1e0; X; X; X; X; X; E 31 0x7ffff960; E 28 0xffff260; E 28 0xffff2e0; X;
  X; X; X; X; X; E 27 0x7fff660; E 31 0x7ffff9e0; E 27 0x7fff6e0; E 28 0xffff360; E 29 0x1ffff4e0; E 28 0xffff3e0;
  E 28 0xffff460; E 30 0x3ffff9e0; E 29 0x1ffff560; E 29 0x1ffff5e0; E 32 0xfffff760; E 32 0xfffff7e0;
  E 31 0x7ffffa60; E 31 0x7ffffae0; X; E 30 0x3ffffa60; X; X; X; X; X; X; X; X; X; X; X; X; X; X; X; X].
Definition hencs_70 : list henc := [
  E 20 0xffc61; E 30 0x3fffec61; X; X; X; X; X; X; X; E 31 0x7ffff561; X; X; X; X; X; X; X; X; X; X; X; X; X; X; X; X;
  X; X; X; X; X; X; E 13 0xa61; E 17 0x1fc61; E 17 0x1fce1; E 19 0x7fd61; E 20 0xffce1; E 13 0xae1; E 15 0x7c61;
  E 18 0x3fd61; E 17 0x1fd61; E 17 0x1fde1; E 15 0x7ce1; E 18 0x3fde1; E 15 0x7d61; E 13 0xb61; E 13 0xbe1;
  E 13 0xc61; E 12 0x61; E 12 0xe1; E 12 0x161; E 13 0xce1; E 13 0xd61; E 13 0xde1; E 13 0xe61; E 13 0xee1;
  E 13 0xf61; E 13 0xfe1; E 14 0x2e61; E 15 0x7de1; E 22 0x3ffe61; E 13 0x1061; E 19 0x7fde1; E 17 0x1fe61;
  E 20 0xffd61; E 13 0x10e1; E 14 0x2ee1; E 14 0x2f61; E 14 0x2fe1; E 14 0x3061; E 14 0x30e1; E 14 0x3161;
  E 14 0x31e1; E 14 0x3261; E 14 0x32e1; E 14 0x3361; E 14 0x33e1; E 14 0x3461; E 14 0x34e1; E 14 0x3561; E 14 0x35e1;
  E 14 0x3661; E 14 0x36e1; E 14 0x3761; E 14 0x37e1; E 14 0x3861; E 14 0x38e1; E 14 0x3961; E 15 0x7e61; E 14 0x39e1;
  E 15 0x7ee1; E 20 0xffde1; E 26 0x3fff861; E 20 0xffe61; E 21 0x1ffe61; E 13 0x1161; E 22 0x3ffee1; E 12 0x1e1;
  E 13 0x11e1; E 12 0x261; E 13 0x1261; E 12 0x2e1; E 13 0x12e1; E 13 0x1361; E 13 0x13e1; E 12 0x361; E 14 0x3a61;
  E 14 0x3ae1; E 13 0x1461; E 13 0x14e1; E 13 0x1561; E 12 0x3e1; E 13 0x15e1; E 14 0x3b61; E 13 0x1661; E 12 0x461;
  E 12 0x4e1; E 13 0x16e1; E 14 0x3be1; E 14 0x3c61; E 14 0x3ce1; E 14 0x3d61; E 14 0x3de1; E 22 0x3fff61;
  E 18 0x3fe61; E 21 0x1ffee1; E 20 0xffee1; X; E 27 0x7fff361; E 29 0x1fffe961; E 27 0x7fff3e1; E 27 0x7fff461;
  E 29 0x1fffe9e1; E 29 0x1fffea61; E 29 0x1fffeae1; E 30 0x3fffece1; E 29 0x1fffeb61; E 30 0x3fffed61;
  E 30 0x3fffede1; E 30 0x3fffee61; E 30 0x3fffeee1; E 30 0x3fffef61; E 31 0x7ffff5e1; E 30 0x3fffefe1;
  E 31 0x7ffff661; E 31 0x7ffff6e1; E 29 0x1fffebe1; E 30 0x3ffff061; E 31 0x7ffff761; E 30 0x3ffff0e1;
  E 30 0x3ffff161; E 30 0x3ffff1e1; E 30 0x3ffff261; E 28 0xfffee61; E 29 0x1fffec61; E 30 0x3ffff2e1;
  E 29 0x1fffece1; E 30 0x3ffff361; E 30 0x3ffff3e1; E 31 0x7ffff7e1; E 29 0x1fffed61; E 28 0xfffeee1; E 27 0x7fff4e1;
  E 29 0x1fffede1; E 29 0x1fffee61; E 30 0x3ffff461; E 30 0x3ffff4e1; E 28 0xfffef61; E 30 0x3ffff561;
  E 29 0x1fffeee1; E 29 0x1fffef61; E 31 0x7ffff861; E 28 0xfffefe1; E 29 0x1fffefe1; E 30 0x3ffff5e1;
  E 30 0x3ffff661; E 28 0xffff061; E 28 0xffff0e1; E 29 0x1ffff061; E 28 0xffff161; E 30 0x3ffff6e1; E 29 0x1ffff0e1;
  E 30 0x3ffff761; E 30 0x3ffff7e1; E 27 0x7fff561; E 29 0x1ffff161; E 29 0x1ffff1e1; E 29 0x1ffff261;
  E 30 0x3ffff861; E 29 0x1ffff2e1; E 29 0x1ffff361; E 30 0x3ffff8e1; X; X; E 27 0x7fff5e1; E 26 0x3fff8e1;
  E 29 0x1ffff3e1; E 30 0x3ffff961; E 29 0x1ffff461; E 32 0xfffff661; X; X; X; X; X; X; E 31 0x7ffff8e1;
  E 32 0xfffff6e1; E 26 0x3fff961; E 28 0xffff1e1; X; X; X; X; X; E 31 0x7ffff961; E 28 0xffff261; E 28 0xffff2e1; X;
  X; X; X; X; X; E 27 0x7fff661; E 31 0x7ffff9e1; E 27 0x7fff6e1; E 28 0xffff361; E 29 0x1ffff4e1; E 28 0xffff3e1;
  E 28 0xffff461; E 30 0x3ffff9e1; E 29 0x1ffff561; E 29 0x1ffff5e1; E 32 0xfffff761; E 32 0xfffff7e1;
  E 31 0x7ffffa61; E 31 0x7ffffae1; X; E 30 0x3ffffa61; X; X; X; X; X; X; X; X; X; X; X; X; X; X; X; X].
Definition hencs_71 : list henc := [
  E 20 0xffc62; E 30 0x3fffec62; X; X; X; X; X; X; X; E 31 0x7ffff562; X; X; X; X; X; X; X; X; X; X; X; X; X; X; X; X;
  X; X; X; X; X; X; E 13 0xa62; E 17 0x1fc62; E 17 0x1fce2; E 19 0x7fd62; E 20 0xffce2; E 13 0xae2; E 15 0x7c62;
  E 18 0x3fd62; E 17 0x1fd62; E 17 0x1fde2; E 15 0x7ce2; E 18 0x3fde2; E 15 0x7d62; E 13 0xb62; E 13 0xbe2;
  E 13 0xc62; E 12 0x62; E 12 0xe2; E 12 0x162; E 13 0xce2; E 13 0xd62; E 13 0xde2; E 13 0xe62; E 13 0xee2;
  E 13 0xf62; E 13 0xfe2; E 14 0x2e62; E 15 0x7de2; E 22 0x3ffe62; E 13 0x1062; E 19 0x7fde2; E 17 0x1fe62;
  E 20 0xffd62; E 13 0x10e2; E 14 0x2ee2; E 14 0x2f62; E 14 0x2fe2; E 14 0x3062; E 14 0x30e2; E 14 0x3162;
  E 14 0x31e2; E 14 0x3262; E 14 0x32e2; E 14 0x3362; E 14 0x33e2; E 14 0x3462; E 14 0x34e2; E 14 0x3562; E 14 0x35e2;
  E 14 0x3662; E 14 0x36e2; E 14 0x3762; E 14 0x37e2; E 14 0x3862; E 14 0x38e2; E 14 0x3962; E 15 0x7e62; E 14 0x39e2;
  E 15 0x7ee2; E 20 0xffde2; E 26 0x3fff862; E 20 0xffe62; E 21 0x1ffe62; E 13 0x1162; E 22 0x3ffee2; E 12 0x1e2;
  E 13 0x11e2; E 12 0x262; E 13 0x1262; E 12 0x2e2; E 13 0x12e2; E 13 0x1362; E 13 0x13e2; E 12 0x362; E 14 0x3a62;
  E 14 0x3ae2; E 13 0x1462; E 13 0x14e2; E 13 0x1562; E 12 0x3e2; E 13 0x15e2; E 14 0x3b62; E 13 0x1662; E 12 0x462;
  E 12 0x4e2; E 13 0x16e2; E 14 0x3be2; E 14 0x3c62; E 14 0x3ce2; E 14 0x3d62; E 14 0x3de2; E 22 0x3fff62;
  E 18 0x3fe62; E 21 0x1ffee2; E 20 0xffee2; X; E 27 0x7fff362; E 29 0x1fffe962; E 27 0x7fff3e2; E 27 0x7fff462;
  E 29 0x1fffe9e2; E 29 0x1fffea62; E 29 0x1fffeae2; E 30 0x3fffece2; E 29 0x1fffeb62; E 30 0x3fffed62;
  E 30 0x3fffede2; E 30 0x3fffee62; E 30 0x3fffeee2; E 30 0x3fffef62; E 31 0x7ffff5e2; E 30 0x3fffefe2;
  E 31 0x7ffff662; E 31 0x7ffff6e2; E 29 0x1fffebe2; E 30 0x3ffff062; E 31 0x7ffff762; E 30 0x3ffff0e2;
  E 30 0x3ffff162; E 30 0x3ffff1e2; E 30 0x3ffff262; E 28 0xfffee62; E 29 0x1fffec62; E 30 0x3ffff2e2;
  E 29 0x1fffece2; E 30 0x3ffff362; E 30 0x3ffff3e2; E 31 0x7ffff7e2; E 29 0x1fffed62; E 28 0xfffeee2; E 27 0x7fff4e2;
  E 29 0x1fffede2; E 29 0x1fffee62; E 30 0x3ffff462; E 30 0x3ffff4e2; E 28 0xfffef62; E 30 0x3ffff562;
  E 29 0x1fffeee2; E 29 0x1fffef62; E 31 0x7ffff862; E 28 0xfffefe2; E 29 0x1fffefe2; E 30 0x3ffff5e2;
  E 30 0x3ffff662; E 28 0xffff062; E 28 0xffff0e2; E 29 0x1ffff062; E 28 0xffff162; E 30 0x3ffff6e2; E 29 0x1ffff0e2;
  E 30 0x3ffff762; E 30 0x3ffff7e2; E 27 0x7fff562; E 29 0x1ffff162; E 29 0x1ffff1e2; E 29 0x1ffff262;
  E 30 0x3ffff862; E 29 0x1ffff2e2; E 29 0x1ffff362; E 30 0x3ffff8e2; X; X; E 27 0x7fff5e2; E 26 0x3fff8e2;
  E 29 0x1ffff3e2; E 30 0x3ffff962; E 29 0x1ffff462; E 32 0xfffff662; X; X; X; X; X; X; E 31 0x7ffff8e2;
  E 32 0xfffff6e2; E 26 0x3fff962; E 28 0xffff1e2; X; X; X; X; X; E 31 0x7ffff962; E 28 0xffff262; E 28 0xffff2e2; X;
  X; X; X; X; X; E 27 0x7fff662; E 31 0x7ffff9e2; E 27 0x7fff6e2; E 28 0xffff362; E 29 0x1ffff4e2; E 28 0xffff3e2;
  E 28 0xffff462; E 30 0x3ffff9e2; E 29 0x1ffff562; E 29 0x1ffff5e2; E 32 0xfffff762; E 32 0xfffff7e2;
  E 31 0x7ffffa62; E 31 0x7ffffae2; X; E 30 0x3ffffa62; X; X; X; X; X; X; X; X; X; X; X; X; X; X; X; X].
Definition hencs_72 : list henc := [
  E 20 0xffc63; E 30 0x3fffec63; X; X; X; X; X; X; X; E 31 0x7ffff563; X; X; X; X; X; X; X; X; X; X; X; X; X; X; X; X;
  X; X; X; X; X; X; E 13 0xa63; E 17 0x1fc63; E 17 0x1fce3; E 19 0x7fd63; E 20 0xffce3; E 13 0xae3; E 15 0x7c63;
  E 18 0x3fd63; E 17 0x1fd63; E 17 0x1fde3; E 15 0x7ce3; E 18 0x3fde3; E 15 0x7d63; E 13 0xb63; E 13 0xbe3;
  E 13 0xc63; E 12 0x63; E 12 0xe3; E 12 0x163; E 13 0xce3; E 13 0xd63; E 13 0xde3; E 13 0xe63; E 13 0xee3;
  E 13 0xf63; E 13 0xfe3; E 14 0x2e63; E 15 0x7de3; E 22 0x3ffe63; E 13 0x1063; E 19 0x7fde3; E 17 0x1fe63;
  E 20 0xffd63; E 13 0x10e3; E 14 0x2ee3; E 14 0x2f63; E 14 0x2fe3; E 14 0x3063; E 14 0x30e3; E 14 0x3163;
  E 14 0x31e3; E 14 0x3263; E 14 0x32e3; E 14 0x3363; E 14 0x33e3; E 14 0x3463; E 14 0x34e3; E 14 0x3563; E 14 0x35e3;
  E 14 0x3663; E 14 0x36e3; E 14 0x3763; E 14 0x37e3; E 14 0x3863; E 14 0x38e3; E 14 0x3963; E 15 0x7e63; E 14 0x39e3;
  E 15 0x7ee3; E 20 0xffde3; E 26 0x3fff863; E 20 0xffe63; E 21 0x1ffe63; E 13 0x1163; E 22 0x3ffee3; E 12 0x1e3;
  E 13 0x11e3; E 12 0x263; E 13 0x1263; E 12 0x2e3; E 13 0x12e3; E 13 0x1363; E 13 0x13e3; E 12 0x363; E 14 0x3a63;
  E 14 0x3ae3; E 13 0x1463; E 13 0x14e3; E 13 0x1563; E 12 0x3e3; E 13 0x15e3; E 14 0x3b63; E 13 0x1663; E 12 0x463;
  E 12 0x4e3; E 13 0x16e3; E 14 0x3be3; E 14 0x3c63; E 14 0x3ce3; E 14 0x3d63; E 14 0x3de3; E 22 0x3fff63;
  E 18 0x3fe63; E 21 0x1ffee3; E 20 0xffee3; X; E 27 0x7fff363; E 29 0x1fffe963; E 27 0x7fff3e3; E 27 0x7fff463;
  E 29 0x1fffe9e3; E 29 0x1fffea63; E 29 0x1fffeae3; E 30 0x3fffece3; E 29 0x1fffeb63; E 30 0x3fffed63;
  E 30 0x3fffede3; E 30 0x3fffee63; E 30 0x3fffeee3; E 30 0x3fffef63; E 31 0x7ffff5e3; E 30 0x3fffefe3;
  E 31 0x7ffff663; E 31 0x7ffff6e3; E 29 0x1fffebe3; E 30 0x3ffff063; E 31 0x7ffff763; E 30 0x3ffff0e3;
  E 30 0x3ffff163; E 30 0x3ffff1e3; E 30 0x3ffff263; E 28 0xfffee63; E 29 0x1fffec63; E 30 0x3ffff2e3;
  E 29 0x1fffece3; E 30 0x3ffff363; E 30 0x3ffff3e3; E 31 0x7ffff7e3; E 29 0x1fffed63; E 28 0xfffeee3; E 27 0x7fff4e3;
  E 29 0x1fffede3; E 29 0x1fffee63; E 30 0x3ffff463; E 30 0x3ffff4e3; E 28 0xfffef63; E 30 0x3ffff563;
  E 29 0x1fffeee3; E 29 0x1fffef63; E 31 0x7ffff863; E 28 0xfffefe3; E 29 0x1fffefe3; E 30 0x3ffff5e3;
  E 30 0x3ffff663; E 28 0xffff063; E 28 0xffff0e3; E 29 0x1ffff063; E 28 0xffff163; E 30 0x3ffff6e3; E 29 0x1ffff0e3;
  E 30 0x3ffff763; E 30 0x3ffff7e3; E 27 0x7fff563; E 29 0x1ffff163; E 29 0x1ffff1e3; E 29 0x1ffff263;
  E 30 0x3ffff863; E 29 0x1ffff2e3; E 29 0x1ffff363; E 30 0x3ffff8e3; X; X; E 27 0x7fff5e3; E 26 0x3fff8e3;
  E 29 0x1ffff3e3; E 30 0x3ffff963; E 29 0x1ffff463; E 32 0xfffff663; X; X; X; X; X; X; E 31 0x7ffff8e3;
  E 32 0xfffff6e3; E 26 0x3fff963; E 28 0xffff1e3; X; X; X; X; X; E 31 0x7ffff963; E 28 0xffff263; E 28 0xffff2e3; X;
  X; X; X; X; X; E 27 0x7fff663; E 31 0x7ffff9e3; E 27 0x7fff6e3; E 28 0xffff363; E 29 0x1ffff4e3; E 28 0xffff3e3;
  E 28 0xffff463; E 30 0x3ffff9e3; E 29 0x1ffff563; E 29 0x1ffff5e3; E 32 0xfffff763; E 32 0xfffff7e3;
  E 31 0x7ffffa63; E 31 0x7ffffae3; X; E 30 0x3ffffa63; X; X; X; X; X; X; X; X; X; X; X; X; X; X; X; X].
Definition hencs_73 : list henc := [
  E 20 0xffc64; E 30 0x3fffec64; X; X; X; X; X; X; X; E 31 0x7ffff564; X; X; X; X; X; X; X; X; X; X; X; X; X; X; X; X;
  X; X; X; X; X; X; E 13 0xa64; E 17 0x1fc64; E 17 0x1fce4; E 19 0x7fd64; E 20 0xffce4; E 13 0xae4; E 15 0x7c64;
  E 18 0x3fd64; E 17 0x1fd64; E 17 0x1fde4; E 15 0x7ce4; E 18 0x3fde4; E 15 0x7d64; E 13 0xb64; E 13 0xbe4;
  E 13 0xc64; E 12 0x64; E 12 0xe4; E 12 0x164; E 13 0xce4; E 13 0xd64; E 13 0xde4; E 13 0xe64; E 13 0xee4;
  E 13 0xf64; E 13 0xfe4; E 14 0x2e64; E 15 0x7de4; E 22 0x3ffe64; E 13 0x1064; E 19 0x7fde4; E 17 0x1fe64;
  E 20 0xffd64; E 13 0x10e4; E 14 0x2ee4; E 14 0x2f64; E 14 0x2fe4; E 14 0x3064; E 14 0x30e4; E 14 0x3164;
  E 14 0x31e4; E 14 0x3264; E 14 0x32e4; E 14 0x3364; E 14 0x33e4; E 14 0x3464; E 14 0x34e4; E 14 0x3564; E 14 0x35e4;
  E 14 0x3664; E 14 0x36e4; E 14 0x3764; E 14 0x37e4; E 14 0x3864; E 14 0x38e4; E 14 0x3964; E 15 0x7e64; E 14 0x39e4;
  E 15 0x7ee4; E 20 0xffde4; E 26 0x3fff864; E 20 0xffe64; E 21 0x1ffe64; E 13 0x1164; E 22 0x3ffee4; E 12 0x1e4;
  E 13 0x11e4; E 12 0x264; E 13 0x1264; E 12 0x2e4; E 13 0x12e4; E 13 0x1364; E 13 0x13e4; E 12 0x364; E 14 0x3a64;
  E 14 0x3ae4; E 13 0x1464; E 13 0x14e4; E 13 0x1564; E 12 0x3e4; E 13 0x15e4; E 14 0x3b64; E 13 0x1664; E 12 0x464;
  E 12 0x4e4; E 13 0x16e4; E 14 0x3be4; E 14 0x3c64; E 14 0x3ce4; E 14 0x3d64; E 14 0x3de4; E 22 0x3fff64;
  E 18 0x3fe64; E 21 0x1ffee4; E 20 0xffee4; X; E 27 0x7fff364; E 29 0x1fffe964; E 27 0x7fff3e4; E 27 0x7fff464;
  E 29 0x1fffe9e4; E 29 0x1fffea64; E 29 0x1fffeae4; E 30 0x3fffece4; E 29 0x1fffeb64; E 30 0x3fffed64;
  E 30 0x3fffede4; E 30 0x3fffee64; E 30 0x3fffeee4; E 30 0x3fffef64; E 31 0x7ffff5e4; E 30 0x3fffefe4;
  E 31 0x7ffff664; E 31 0x7ffff6e4; E 29 0x1fffebe4; E 30 0x3ffff064; E 31 0x7ffff764; E 30 0x3ffff0e4;
  E 30 0x3ffff164; E 30 0x3ffff1e4; E 30 0x3ffff264; E 28 0xfffee64; E 29 0x1fffec64; E 30 0x3ffff2e4;
  E 29 0x1fffece4; E 30 0x3ffff364; E 30 0x3ffff3e4; E 31 0x7ffff7e4; E 29 0x1fffed64; E 28 0xfffeee4; E 27 0x7fff4e4;
  E 29 0x1fffede4; E 29 0x1fffee64; E 30 0x3ffff464; E 30 0x3ffff4e4; E 28 0xfffef64; E 30 0x3ffff564;
  E 29 0x1fffeee4; E 29 0x1fffef64; E 31 0x7ffff864; E 28 0xfffefe4; E 29 0x1fffefe4; E 30 0x3ffff5e4;
  E 30 0x3ffff664; E 28 0xffff064; E 28 0xffff0e4; E 29 0x1ffff064; E 28 0xffff164; E 30 0x3ffff6e4; E 29 0x1ffff0e4;
  E 30 0x3ffff764; E 30 0x3ffff7e4; E 27 0x7fff564; E 29 0x1ffff164; E 29 0x1ffff1e4; E 29 0x1ffff264;
  E 30 0x3ffff864; E 29 0x1ffff2e4; E 29 0x1ffff364; E 30 0x3ffff8e4; X; X; E 27 0x7fff5e4; E 26 0x3fff8e4;
  E 29 0x1ffff3e4; E 30 0x3ffff964; E 29 0x1ffff464; E 32 0xfffff664; X; X; X; X; X; X; E 31 0x7ffff8e4;
  E 32 0xfffff6e4; E 26 0x3fff964; E 28 0xffff1e4; X; X; X; X; X; E 31 0x7ffff964; E 28 0xffff264; E 28 0xffff2e4; X;
  X; X; X; X; X; E 27 0x7fff664; E 31 0x7ffff9e4; E 27 0x7fff6e4; E 28 0xffff364; E 29 0x1ffff4e4; E 28 0xffff3e4;
  E 28 0xffff464; E 30 0x3ffff9e4; E 29 0x1ffff564; E 29 0x1ffff5e4; E 32 0xfffff764; E 32 0xfffff7e4;
  E 31 0x7ffffa64; E 31 0x7ffffae4; X; E 30 0x3ffffa64; X; X; X; X; X; X; X; X; X; X; X; X; X; X; X; X].
Definition hencs_74 : list henc := [
  E 20 0xffc65; E 30 0x3fffec65; X; X; X; X; X; X; X; E 31 0x7ffff565; X; X; X; X; X; X; X; X; X; X; X; X; X; X; X; X;
  X; X; X; X; X; X; E 13 0xa65; E 17 0x1fc65; E 17 0x1fce5; E 19 0x7fd65; E 20 0xffce5; E 13 0xae5; E 15 0x7c65;
  E 18 0x3fd65; E 17 0x1fd65; E 17 0x1fde5; E 15 0x7ce5; E 18 0x3fde5; E 15 0x7d65; E 13 0xb65; E 13 0xbe5;
  E 13 0xc65; E 12 0x65; E 12 0xe5; E 12 0x165; E 13 0xce5; E 13 0xd65; E 13 0xde5; E 13 0xe65; E 13 0xee5;
  E 13 0xf65; E 13 0xfe5; E 14 0x2e65; E 15 0x7de5; E 22 0x3ffe65; E 13 0x1065; E 19 0x7fde5; E 17 0x1fe65;
  E 20 0xffd65; E 13 0x10e5; E 14 0x2ee5; E 14 0x2f65; E 14 0x2fe5; E 14 0x3065; E 14 0x30e5; E 14 0x3165;
  E 14 0x31e5; E 14 0x3265; E 14 0x32e5; E 14 0x3365; E 14 0x33e5; E 14 0x3465; E 14 0x34e5; E 14 0x3565; E 14 0x35e5;
  E 14 0x3665; E 14 0x36e5; E 14 0x3765; E 14 0x37e5; E 14 0x3865; E 14 0x38e5; E 14 0x3965; E 15 0x7e65; E 14 0x39e5;
  E 15 0x7ee5; E 20 0xffde5; E 26 0x3fff865; E 20 0xffe65; E 21 0x1ffe65; E 13 0x1165; E 22 0x3ffee5; E 12 0x1e5;
  E 13 0x11e5; E 12 0x265; E 13 0x1265; E 12 0x2e5; E 13 0x12e5; E 13 0x1365; E 13 0x13e5; E 12 0x365; E 14 0x3a65;
  E 14 0x3ae5; E 13 0x1465; E 13 0x14e5; E 13 0x1565; E 12 0x3e5; E 13 0x15e5; E 14 0x3b65; E 13 0x1665; E 12 0x465;
  E 12 0x4e5; E 13 0x16e5; E 14 0x3be5; E 14 0x3c65; E 14 0x3ce5; E 14 0x3d65; E 14 0x3de5; E 22 0x3fff65;
  E 18 0x3fe65; E 21 0x1ffee5; E 20 0xffee5; X; E 27 0x7fff365; E 29 0x1fffe965; E 27 0x7fff3e5; E 27 0x7fff465;
  E 29 0x1fffe9e5; E 29 0x1fffea65; E 29 0x1fffeae5; E 30 0x3fffece5; E 29 0x1fffeb65; E 30 0x3fffed65;
  E 30 0x3fffede5; E 30 0x3fffee65; E 30 0x3fffeee5; E 30 0x3fffef65; E 31 0x7ffff5e5; E 30 0x3fffefe5;
  E 31 0x7ffff665; E 31 0x7ffff6e5; E 29 0x1fffebe5; E 30 0x3ffff065; E 31 0x7ffff765; E 30 0x3ffff0e5;
  E 30 0x3ffff165; E 30 0x3ffff1e5; E 30 0x3ffff265; E 28 0xfffee65; E 29 0x1fffec65; E 30 0x3ffff2e5;
  E 29 0x1fffece5; E 30 0x3ffff365; E 30 0x3ffff3e5; E 31 0x7ffff7e5; E 29 0x1fffed65; E 28 0xfffeee5; E 27 0x7fff4e5;
  E 29 0x1fffede5; E 29 0x1fffee65; E 30 0x3ffff465; E 30 0x3ffff4e5; E 28 0xfffef65; E 30 0x3ffff565;
  E 29 0x1fffeee5; E 29 0x1fffef65; E 31 0x7ffff865; E 28 0xfffefe5; E 29 0x1fffefe5; E 30 0x3ffff5e5;
  E 30 0x3ffff665; E 28 0xffff065; E 28 0xffff0e5; E 29 0x1ffff065; E 28 0xffff165; E 30 0x3ffff6e5; E 29 0x1ffff0e5;
  E 30 0x3ffff765; E 30 0x3ffff7e5; E 27 0x7fff565; E 29 0x1ffff165; E 29 0x1ffff1e5; E 29 0x1ffff265;
  E 30 0x3ffff865; E 29 0x1ffff2e5; E 29 0x1ffff365; E 30 0x3ffff8e5; X; X; E 27 0x7fff5e5; E 26 0x3fff8e5;
  E 29 0x1ffff3e5; E 30 0x3ffff965; E 29 0x1ffff465; E 32 0xfffff665; X; X; X; X; X; X; E 31 0x7ffff8e5;
  E 32 0xfffff6e5; E 26 0x3fff965; E 28 0xffff1e5; X; X; X; X; X; E 31 0x7ffff965; E 28 0xffff265; E 28 0xffff2e5; X;
  X; X; X; X; X; E 27 0x7fff665; E 31 0x7ffff9e5; E 27 0x7fff6e5; E 28 0xffff365; E 29 0x1ffff4e5; E 28 0xffff3e5;
  E 28 0xffff465; E 30 0x3ffff9e5; E 29 0x1ffff565; E 29 0x1ffff5e5; E 32 0xfffff765; E 32 0xfffff7e5;
  E 31 0x7ffffa65; E 31 0x7ffffae5; X; E 30 0x3ffffa65; X; X; X; X; X; X; X; X; X; X; X; X; X; X; X; X].
Definition hencs_75 : list henc := [
  E 20 0xffc66; E 30 0x3fffec66; X; X; X; X; X; X; X; E 31 0x7ffff566; X; X; X; X; X; X; X; X; X; X; X; X; X; X; X; X;
  X; X; X; X; X; X; E 13 0xa66; E 17 0x1fc66; E 17 0x1fce6; E 19 0x7fd66; E 20 0xffce6; E 13 0xae6; E 15 0x7c66;
  E 18 0x3fd66; E 17 0x1fd66; E 17 0x1fde6; E 15 0x7ce6; E 18 0x3fde6; E 15 0x7d66; E 13 0xb66; E 13 0xbe6;
  E 13 0xc66; E 12 0x66; E 12 0xe6; E 12 0x166; E 13 0xce6; E 13 0xd66; E 13 0xde6; E 13 0xe66; E 13 0xee6;
  E 13 0xf66; E 13 0xfe6; E 14 0x2e66; E 15 0x7de6; E 22 0x3ffe66; E 13 0x1066; E 19 0x7fde6; E 17 0x1fe66;
  E 20 0xffd66; E 13 0x10e6; E 14 0x2ee6; E 14 0x2f66; E 14 0x2fe6; E 14 0x3066; E 14 0x30e6; E 14 0x3166;
  E 14 0x31e6; E 14 0x3266; E 14 0x32e6; E 14 0x3366; E 14 0x33e6; E 14 0x3466; E 14 0x34e6; E 14 0x3566; E 14 0x35e6;
  E 14 0x3666; E 14 0x36e6; E 14 0x3766; E 14 0x37e6; E 14 0x3866; E 14 0x38e6; E 14 0x3966; E 15 0x7e66; E 14 0x39e6;
  E 15 0x7ee6; E 20 0xffde6; E 26 0x3fff866; E 20 0xffe66; E 21 0x1ffe66; E 13 0x1166; E 22 0x3ffee6; E 12 0x1e6;
  E 13 0x11e6; E 12 0x266; E 13 0x1266; E 12 0x2e6; E 13 0x12e6; E 13 0x1366; E 13 0x13e6; E 12 0x366; E 14 0x3a66;
  E 14 0x3ae6; E 13 0x1466; E 13 0x14e6; E 13 0x1566; E 12 0x3e6; E 13 0x15e6; E 14 0x3b66; E 13 0x1666; E 12 0x466;
  E 12 0x4e6; E 13 0x16e6; E 14 0x3be6; E 14 0x3c66; E 14 0x3ce6; E 14 0x3d66; E 14 0x3de6; E 22 0x3fff66;
  E 18 0x3fe66; E 21 0x1ffee6; E 20 0xffee6; X; E 27 0x7fff366; E 29 0x1fffe966; E 27 0x7fff3e6; E 27 0x7fff466;
  E 29 0x1fffe9e6; E 29 0x1fffea66; E 29 0x1fffeae6; E 30 0x3fffece6; E 29 0x1fffeb66; E 30 0x3fffed66;
  E 30 0x3fffede6; E 30 0x3fffee66; E 30 0x3fffeee6; E 30 0x3fffef66; E 31 0x7ffff5e6; E 30 0x3fffefe6;
  E 31 0x7ffff666; E 31 0x7ffff6e6; E 29 0x1fffebe6; E 30 0x3ffff066; E 31 0x7ffff766; E 30 0x3ffff0e6;
  E 30 0x3ffff166; E 30 0x3ffff1e6; E 30 0x3ffff266; E 28 0xfffee66; E 29 0x1fffec66; E 30 0x3ffff2e6;
  E 29 0x1fffece6; E 30 0x3ffff366; E 30 0x3ffff3e6; E 31 0x7ffff7e6; E 29 0x1fffed66; E 28 0xfffeee6; E 27 0x7fff4e6;
  E 29 0x1fffede6; E 29 0x1fffee66; E 30 0x3ffff466; E 30 0x3ffff4e6; E 28 0xfffef66; E 30 0x3ffff566;
  E 29 0x1fffeee6; E 29 0x1fffef66; E 31 0x7ffff866; E 28 0xfffefe6; E 29 0x1fffefe6; E 30 0x3ffff5e6;
  E 30 0x3ffff666; E 28 0xffff066; E 28 0xffff0e6; E 29 0x1ffff066; E 28 0xffff166; E 30 0x3ffff6e6; E 29 0x1ffff0e6;
  E 30 0x3ffff766; E 30 0x3ffff7e6; E 27 0x7fff566; E 29 0x1ffff166; E 29 0x1ffff1e6; E 29 0x1ffff266;
  E 30 0x3ffff866; E 29 0x1ffff2e6; E 29 0x1ffff366; E 30 0x3ffff8e6; X; X; E 27 0x7fff5e6; E 26 0x3fff8e6;
  E 29 0x1ffff3e6; E 30 0x3ffff966; E 29 0x1ffff466; E 32 0xfffff666; X; X; X; X; X; X; E 31 0x7ffff8e6;
  E 32 0xfffff6e6; E 26 0x3fff966; E 28 0xffff1e6; X; X; X; X; X; E 31 0x7ffff966; E 28 0xffff266; E 28 0xffff2e6; X;
  X; X; X; X; X; E 27 0x7fff666; E 31 0x7ffff9e6; E 27 0x7fff6e6; E 28 0xffff366; E 29 0x1ffff4e6; E 28 0xffff3e6;
  E 28 0xffff466; E 30 0x3ffff9e6; E 29 0x1ffff566; E 29 0x1ffff5e6; E 32 0xfffff766; E 32 0xfffff7e6;
  E 31 0x7ffffa66; E 31 0x7ffffae6; X; E 30 0x3ffffa66; X; X; X; X; X; X; X; X; X; X; X; X; X; X; X; X].
Definition hencs_76 : list henc := [
  E 20 0xffc67; E 30 0x3fffec67; X; X; X; X; X; X; X; E 31 0x7ffff567; X; X; X; X; X; X; X; X; X; X; X; X; X; X; X; X;
  X; X; X; X; X; X; E 13 0xa67; E 17 0x1fc67; E 17 0x1fce7; E 19 0x7fd67; E 20 0xffce7; E 13 0xae7; E 15 0x7c67;
  E 18 0x3fd67; E 17 0x1fd67; E 17 0x1fde7; E 15 0x7ce7; E 18 0x3fde7; E 15 0x7d67; E 13 0xb67; E 13 0xbe7;
  E 13 0xc67; E 12 0x67; E 12 0xe7; E 12 0x167; E 13 0xce7; E 13 0xd67; E 13 0xde7; E 13 0xe67; E 13 0xee7;
  E 13 0xf67; E 13 0xfe7; E 14 0x2e67; E 15 0x7de7; E 22 0x3ffe67; E 13 0x1067; E 19 0x7fde7; E 17 0x1fe67;
  E 20 0xffd67; E 13 0x10e7; E 14 0x2ee7; E 14 0x2f67; E 14 0x2fe7; E 14 0x3067; E 14 0x30e7; E 14 0x3167;
  E 14 0x31e7; E 14 0x3267; E 14 0x32e7; E 14 0x3367; E 14 0x33e7; E 14 0x3467; E 14 0x34e7; E 14 0x3567; E 14 0x35e7;
  E 14 0x3667; E 14 0x36e7; E 14 0x3767; E 14 0x37e7; E 14 0x3867; E 14 0x38e7; E 14 0x3967; E 15 0x7e67; E 14 0x39e7;
  E 15 0x7ee7; E 20 0xffde7; E 26 0x3fff867; E 20 0xffe67; E 21 0x1ffe67; E 13 0x1167; E 22 0x3ffee7; E 12 0x1e7;
  E 13 0x11e7; E 12 0x267; E 13 0x1267; E 12 0x2e7; E 13 0x12e7; E 13 0x1367; E 13 0x13e7; E 12 0x367; E 14 0x3a67;
  E 14 0x3ae7; E 13 0x1467; E 13 0x14e7; E 13 0x1567; E 12 0x3e7; E 13 0x15e7; E 14 0x3b67; E 13 0x1667; E 12 0x467;
  E 12 0x4e7; E 13 0x16e7; E 14 0x3be7; E 14 0x3c67; E 14 0x3ce7; E 14 0x3d67; E 14 0x3de7; E 22 0x3fff67;
  E 18 0x3fe67; E 21 0x1ffee7; E 20 0xffee7; X; E 27 0x7fff367; E 29 0x1fffe967; E 27 0x7fff3e7; E 27 0x7fff467;
  E 29 0x1fffe9e7; E 29 0x1fffea67; E 29 0x1fffeae7; E 30 0x3fffece7; E 29 0x1fffeb67; E 30 0x3fffed67;
  E 30 0x3fffede7; E 30 0x3fffee67; E 30 0x3fffeee7; E 30 0x3fffef67; E 31 0x7ffff5e7; E 30 0x3fffefe7;
  E 31 0x7ffff667; E 31 0x7ffff6e7; E 29 0x1fffebe7; E 30 0x3ffff067; E 31 0x7ffff767; E 30 0x3ffff0e7;
  E 30 0x3ffff167; E 30 0x3ffff1e7; E 30 0x3ffff267; E 28 0xfffee67; E 29 0x1fffec67; E 30 0x3ffff2e7;
  E 29 0x1fffece7; E 30 0x3ffff367; E 30 0x3ffff3e7; E 31 0x7ffff7e7; E 29 0x1fffed67; E 28 0xfffeee7; E 27 0x7fff4e7;
  E 29 0x1fffede7; E 29 0x1fffee67; E 30 0x3ffff467; E 30 0x3ffff4e7; E 28 0xfffef67; E 30 0x3ffff567;
  E 29 0x1fffeee7; E 29 0x1fffef67; E 31 0x7ffff867; E 28 0xfffefe7; E 29 0x1fffefe7; E 30 0x3ffff5e7;
  E 30 0x3ffff667; E 28 0xffff067; E 28 0xffff0e7; E 29 0x1ffff067; E 28 0xffff167; E 30 0x3ffff6e7; E 29 0x1ffff0e7;
  E 30 0x3ffff767; E 30 0x3ffff7e7; E 27 0x7fff567; E 29 0x1ffff167; E 29 0x1ffff1e7; E 29 0x1ffff267;
  E 30 0x3ffff867; E 29 0x1ffff2e7; E 29 0x1ffff367; E 30 0x3ffff8e7; X; X; E 27 0x7fff5e7; E 26 0x3fff8e7;
  E 29 0x1ffff3e7; E 30 0x3ffff967; E 29 0x1ffff467; E 32 0xfffff667; X; X; X; X; X; X; E 31 0x7ffff8e7;
  E 32 0xfffff6e7; E 26 0x3fff967; E 28 0xffff1e7; X; X; X; X; X; E 31 0x7ffff967; E 28 0xffff267; E 28 0xffff2e7; X;
  X; X; X; X; X; E 27 0x7fff667; E 31 0x7ffff9e7; E 27 0x7fff6e7; E 28 0xffff367; E 29 0x1ffff4e7; E 28 0xffff3e7;
  E 28 0xffff467; E 30 0x3ffff9e7; E 29 0x1ffff567; E 29 0x1ffff5e7; E 32 0xfffff767; E 32 0xfffff7e7;
  E 31 0x7ffffa67; E 31 0x7ffffae7; X; E 30 0x3ffffa67; X; X; X; X; X; X; X; X; X; X; X; X; X; X; X; X].
Definition hencs_77 : list henc := [
  E 20 0xffc68; E 30 0x3fffec68; X; X; X; X; X; X; X; E 31 0x7ffff568; X; X; X; X; X; X; X; X; X; X; X; X; X; X; X; X;
  X; X; X; X; X; X; E 13 0xa68; E 17 0x1fc68; E 17 0x1fce8; E 19 0x7fd68; E 20 0xffce8; E 13 0xae8; E 15 0x7c68;
  E 18 0x3fd68; E 17 0x1fd68; E 17 0x1fde8; E 15 0x7ce8; E 18 0x3fde8; E 15 0x7d68; E 13 0xb68; E 13 0xbe8;
  E 13 0xc68; E 12 0x68; E 12 0xe8; E 12 0x168; E 13 0xce8; E 13 0xd68; E 13 0xde8; E 13 0xe68; E 13 0xee8;
  E 13 0xf68; E 13 0xfe8; E 14 0x2e68; E 15 0x7de8; E 22 0x3ffe68; E 13 0x1068; E 19 0x7fde8; E 17 0x1fe68;
  E 20 0xffd68; E 13 0x10e8; E 14 0x2ee8; E 14 0x2f68; E 14 0x2fe8; E 14 0x3068; E 14 0x30e8; E 14 0x3168;
  E 14 0x31e8; E 14 0x3268; E 14 0x32e8; E 14 0x3368; E 14 0x33e8; E 14 0x3468; E 14 0x34e8; E 14 0x3568; E 14 0x35e8;
  E 14 0x3668; E 14 0x36e8; E 14 0x3768; E 14 0x37e8; E 14 0x3868; E 14 0x38e8; E 14 0x3968; E 15 0x7e68; E 14 0x39e8;
  E 15 0x7ee8; E 20 0xffde8; E 26 0x3fff868; E 20 0xffe68; E 21 0x1ffe68; E 13 0x1168; E 22 0x3ffee8; E 12 0x1e8;
  E 13 0x11e8; E 12 0x268; E 13 0x1268; E 12 0x2e8; E 13 0x12e8; E 13 0x1368; E 13 0x13e8; E 12 0x368; E 14 0x3a68;
  E 14 0x3ae8; E 13 0x1468; E 13 0x14e8; E 13 0x1568; E 12 0x3e8; E 13 0x15e8; E 14 0x3b68; E 13 0x1668; E 12 0x468;
  E 12 0x4e8; E 13 0x16e8; E 14 0x3be8; E 14 0x3c68; E 14 0x3ce8; E 14 0x3d68; E 14 0x3de8; E 22 0x3fff68;
  E 18 0x3fe68; E 21 0x1ffee8; E 20 0xffee8; X; E 27 0x7fff368; E 29 0x1fffe968; E 27 0x7fff3e8; E 27 0x7fff468;
  E 29 0x1fffe9e8; E 29 0x1fffea68; E 29 0x1fffeae8; E 30 0x3fffece8; E 29 0x1fffeb68; E 30 0x3fffed68;
  E 30 0x3fffede8; E 30 0x3fffee68; E 30 0x3fffeee8; E 30 0x3fffef68; E 31 0x7ffff5e8; E 30 0x3fffefe8;
  E 31 0x7ffff668; E 31 0x7ffff6e8; E 29 0x1fffebe8; E 30 0x3ffff068; E 31 0x7ffff768; E 30 0x3ffff0e8;
  E 30 0x3ffff168; E 30 0x3ffff1e8; E 30 0x3ffff268; E 28 0xfffee68; E 29 0x1fffec68; E 30 0x3ffff2e8;
  E 29 0x1fffece8; E 30 0x3ffff368; E 30 0x3ffff3e8; E 31 0x7ffff7e8; E 29 0x1fffed68; E 28 0xfffeee8; E 27 0x7fff4e8;
  E 29 0x1fffede8; E 29 0x1fffee68; E 30 0x3ffff468; E 30 0x3ffff4e8; E 28 0xfffef68; E 30 0x3ffff568;
  E 29 0x1fffeee8; E 29 0x1fffef68; E 31 0x7ffff868; E 28 0xfffefe8; E 29 0x1fffefe8; E 30 0x3ffff5e8;
  E 30 0x3ffff668; E 28 0xffff068; E 28 0xffff0e8; E 29 0x1ffff068; E 28 0xffff168; E 30 0x3ffff6e8; E 29 0x1ffff0e8;
  E 30 0x3ffff768; E 30 0x3ffff7e8; E 27 0x7fff568; E 29 0x1ffff168; E 29 0x1ffff1e8; E 29 0x1ffff268;
  E 30 0x3ffff868; E 29 0x1ffff2e8; E 29 0x1ffff368; E 30 0x3ffff8e8; X; X; E 27 0x7fff5e8; E 26 0x3fff8e8;
  E 29 0x1ffff3e8; E 30 0x3ffff968; E 29 0x1ffff468; E 32 0xfffff668; X; X; X; X; X; X; E 31 0x7ffff8e8;
  E 32 0xfffff6e8; E 26 0x3fff968; E 28 0xffff1e8; X; X; X; X; X; E 31 0x7ffff968; E 28 0xffff268; E 28 0xffff2e8; X;
  X; X; X; X; X; E 27 0x7fff668; E 31 0x7ffff9e8; E 27 0x7fff6e8; E 28 0xffff368; E 29 0x1ffff4e8; E 28 0xffff3e8;
  E 28 0xffff468; E 30 0x3ffff9e8; E 29 0x1ffff568; E 29 0x1ffff5e8; E 32 0xfffff768; E 32 0xfffff7e8;
  E 31 0x7ffffa68; E 31 0x7ffffae8; X; E 30 0x3ffffa68; X; X; X; X; X; X; X; X; X; X; X; X; X; X; X; X].
Definition hencs_78 : list henc := [
  E 20 0xffc69; E 30 0x3fffec69; X; X; X; X; X; X; X; E 31 0x7ffff569; X; X; X; X; X; X; X; X; X; X; X; X; X; X; X; X;
  X; X; X; X; X; X; E 13 0xa69; E 17 0x1fc69; E 17 0x1fce9; E 19 0x7fd69; E 20 0xffce9; E 13 0xae9; E 15 0x7c69;
  E 18 0x3fd69; E 17 0x1fd69; E 17 0x1fde9; E 15 0x7ce9; E 18 0x3fde9; E 15 0x7d69; E 13 0xb69; E 13 0xbe9;
  E 13 0xc69; E 12 0x69; E 12 0xe9; E 12 0x169; E 13 0xce9; E 13 0xd69; E 13 0xde9; E 13 0xe69; E 13 0xee9;
  E 13 0xf69; E 13 0xfe9; E 14 0x2e69; E 15 0x7de9; E 22 0x3ffe69; E 13 0x1069; E 19 0x7fde9; E 17 0x1fe69;
  E 20 0xffd69; E 13 0x10e9; E 14 0x2ee9; E 14 0x2f69; E 14 0x2fe9; E 14 0x3069; E 14 0x30e9; E 14 0x3169;
  E 14 0x31e9; E 14 0x3269; E 14 0x32e9; E 14 0x3369; E 14 0x33e9; E 14 0x3469; E 14 0x34e9; E 14 0x3569; E 14 0x35e9;
  E 14 0x3669; E 14 0x36e9; E 14 0x3769; E 14 0x37e9; E 14 0x3869; E 14 0x38e9; E 14 0x3969; E 15 0x7e69; E 14 0x39e9;
  E 15 0x7ee9; E 20 0xffde9; E 26 0x3fff869; E 20 0xffe69; E 21 0x1ffe69; E 13 0x1169; E 22 0x3ffee9; E 12 0x1e9;
  E 13 0x11e9; E 12 0x269; E 13 0x1269; E 12 0x2e9; E 13 0x12e9; E 13 0x1369; E 13 0x13e9; E 12 0x369; E 14 0x3a69;
  E 14 0x3ae9; E 13 0x1469; E 13 0x14e9; E 13 0x1569; E 12 0x3e9; E 13 0x15e9; E 14 0x3b69; E 13 0x1669; E 12 0x469;
  E 12 0x4e9; E 13 0x16e9; E 14 0x3be9; E 14 0x3c69; E 14 0x3ce9; E 14 0x3d69; E 14 0x3de9; E 22 0x3fff69;
  E 18 0x3fe69; E 21 0x1ffee9; E 20 0xffee9; X; E 27 0x7fff369; E 29 0x1fffe969; E 27 0x7fff3e9; E 27 0x7fff469;
  E 29 0x1fffe9e9; E 29 0x1fffea69; E 29 0x1fffeae9; E 30 0x3fffece9; E 29 0x1fffeb69; E 30 0x3fffed69;
  E 30 0x3fffede9; E 30 0x3fffee69; E 30 0x3fffeee9; E 30 0x3fffef69; E 31 0x7ffff5e9; E 30 0x3fffefe9;
  E 31 0x7ffff669; E 31 0x7ffff6e9; E 29 0x1fffebe9; E 30 0x3ffff069; E 31 0x7ffff769; E 30 0x3ffff0e9;
  E 30 0x3ffff169; E 30 0x3ffff1e9; E 30 0x3ffff269; E 28 0xfffee69; E 29 0x1fffec69; E 30 0x3ffff2e9;
  E 29 0x1fffece9; E 30 0x3ffff369; E 30 0x3ffff3e9; E 31 0x7ffff7e9; E 29 0x1fffed69; E 28 0xfffeee9; E 27 0x7fff4e9;
  E 29 0x1fffede9; E 29 0x1fffee69; E 30 0x3ffff469; E 30 0x3ffff4e9; E 28 0xfffef69; E 30 0x3ffff569;
  E 29 0x1fffeee9; E 29 0x1fffef69; E 31 0x7ffff869; E 28 0xfffefe9; E 29 0x1fffefe9; E 30 0x3ffff5e9;
  E 30 0x3ffff669; E 28 0xffff069; E 28 0xffff0e9; E 29 0x1ffff069; E 28 0xffff169; E 30 0x3ffff6e9; E 29 0x1ffff0e9;
  E 30 0x3ffff769; E 30 0x3ffff7e9; E 27 0x7fff569; E 29 0x1ffff169; E 29 0x1ffff1e9; E 29 0x1ffff269;
  E 30 0x3ffff869; E 29 0x1ffff2e9; E 29 0x1ffff369; E 30 0x3ffff8e9; X; X; E 27 0x7fff5e9; E 26 0x3fff8e9;
  E 29 0x1ffff3e9; E 30 0x3ffff969; E 29 0x1ffff469; E 32 0xfffff669; X; X; X; X; X; X; E 31 0x7ffff8e9;
  E 32 0xfffff6e9; E 26 0x3fff969; E 28 0xffff1e9; X; X; X; X; X; E 31 0x7ffff969; E 28 0xffff269; E 28 0xffff2e9; X;
  X; X; X; X; X; E 27 0x7fff669; E 31 0x7ffff9e9; E 27 0x7fff6e9; E 28 0xffff369; E 29 0x1ffff4e9; E 28 0xffff3e9;
  E 28 0xffff469; E 30 0x3ffff9e9; E 29 0x1ffff569; E 29 0x1ffff5e9; E 32 0xfffff769; E 32 0xfffff7e9;
  E 31 0x7ffffa69; E 31 0x7ffffae9; X; E 30 0x3ffffa69; X; X; X; X; X; X; X; X; X; X; X; X; X; X; X; X].
Definition hencs_79 : list henc := [
  E 20 0xffc6a; E 30 0x3fffec6a; X; X; X; X; X; X; X; E 31 0x7ffff56a; X; X; X; X; X; X; X; X; X; X; X; X; X; X; X; X;
  X; X; X; X; X; X; E 13 0xa6a; E 17 0x1fc6a; E 17 0x1fcea; E 19 0x7fd6a; E 20 0xffcea; E 13 0xaea; E 15 0x7c6a;
  E 18 0x3fd6a; E 17 0x1fd6a; E 17 0x1fdea; E 15 0x7cea; E 18 0x3fdea; E 15 0x7d6a; E 13 0xb6a; E 13 0xbea;
  E 13 0xc6a; E 12 0x6a; E 12 0xea; E 12 0x16a; E 13 0xcea; E 13 0xd6a; E 13 0xdea; E 13 0xe6a; E 13 0xeea;
  E 13 0xf6a; E 13 0xfea; E 14 0x2e6a; E 15 0x7dea; E 22 0x3ffe6a; E 13 0x106a; E 19 0x7fdea; E 17 0x1fe6a;
  E 20 0xffd6a; E 13 0x10ea; E 14 0x2eea; E 14 0x2f6a; E 14 0x2fea; E 14 0x306a; E 14 0x30ea; E 14 0x316a;
  E 14 0x31ea; E 14 0x326a; E 14 0x32ea; E 14 0x336a; E 14 0x33ea; E 14 0x346a; E 14 0x34ea; E 14 0x356a; E 14 0x35ea;
  E 14 0x366a; E 14 0x36ea; E 14 0x376a; E 14 0x37ea; E 14 0x386a; E 14 0x38ea; E 14 0x396a; E 15 0x7e6a; E 14 0x39ea;
  E 15 0x7eea; E 20 0xffdea; E 26 0x3fff86a; E 20 0xffe6a; E 21 0x1ffe6a; E 13 0x116a; E 22 0x3ffeea; E 12 0x1ea;
  E 13 0x11ea; E 12 0x26a; E 13 0x126a; E 12 0x2ea; E 13 0x12ea; E 13 0x136a; E 13 0x13ea; E 12 0x36a; E 14 0x3a6a;
  E 14 0x3aea; E 13 0x146a; E 13 0x14ea; E 13 0x156a; E 12 0x3ea; E 13 0x15ea; E 14 0x3b6a; E 13 0x166a; E 12 0x46a;
  E 12 0x4ea; E 13 0x16ea; E 14 0x3bea; E 14 0x3c6a; E 14 0x3cea; E 14 0x3d6a; E 14 0x3dea; E 22 0x3fff6a;
  E 18 0x3fe6a; E 21 0x1ffeea; E 20 0xffeea; X; E 27 0x7fff36a; E 29 0x1fffe96a; E 27 0x7fff3ea; E 27 0x7fff46a;
  E 29 0x1fffe9ea; E 29 0x1fffea6a; E 29 0x1fffeaea; E 30 0x3fffecea; E 29 0x1fffeb6a; E 30 0x3fffed6a;
  E 30 0x3fffedea; E 30 0x3fffee6a; E 30 0x3fffeeea; E 30 0x3fffef6a; E 31 0x7ffff5ea; E 30 0x3fffefea;
  E 31 0x7ffff66a; E 31 0x7ffff6ea; E 29 0x1fffebea; E 30 0x3ffff06a; E 31 0x7ffff76a; E 30 0x3ffff0ea;
  E 30 0x3ffff16a; E 30 0x3ffff1ea; E 30 0x3ffff26a; E 28 0xfffee6a; E 29 0x1fffec6a; E 30 0x3ffff2ea;
  E 29 0x1fffecea; E 30 0x3ffff36a; E 30 0x3ffff3ea; E 31 0x7ffff7ea; E 29 0x1fffed6a; E 28 0xfffeeea; E 27 0x7fff4ea;
  E 29 0x1fffedea; E 29 0x1fffee6a; E 30 0x3ffff46a; E 30 0x3ffff4ea; E 28 0xfffef6a; E 30 0x3ffff56a;
  E 29 0x1fffeeea; E 29 0x1fffef6a; E 31 0x7ffff86a; E 28 0xfffefea; E 29 0x1fffefea; E 30 0x3ffff5ea;
  E 30 0x3ffff66a; E 28 0xffff06a; E 28 0xffff0ea; E 29 0x1ffff06a; E 28 0xffff16a; E 30 0x3ffff6ea; E 29 0x1ffff0ea;
  E 30 0x3ffff76a; E 30 0x3ffff7ea; E 27 0x7fff56a; E 29 0x1ffff16a; E 29 0x1ffff1ea; E 29 0x1ffff26a;
  E 30 0x3ffff86a; E 29 0x1ffff2ea; E 29 0x1ffff36a; E 30 0x3ffff8ea; X; X; E 27 0x7fff5ea; E 26 0x3fff8ea;
  E 29 0x1ffff3ea; E 30 0x3ffff96a; E 29 0x1ffff46a; E 32 0xfffff66a; X; X; X; X; X; X; E 31 0x7ffff8ea;
  E 32 0xfffff6ea; E 26 0x3fff96a; E 28 0xffff1ea; X; X; X; X; X; E 31 0x7ffff96a; E 28 0xffff26a; E 28 0xffff2ea; X;
  X; X; X; X; X; E 27 0x7fff66a; E 31 0x7ffff9ea; E 27 0x7fff6ea; E 28 0xffff36a; E 29 0x1ffff4ea; E 28 0xffff3ea;
  E 28 0xffff46a; E 30 0x3ffff9ea; E 29 0x1ffff56a; E 29 0x1ffff5ea; E 32 0xfffff76a; E 32 0xfffff7ea;
  E 31 0x7ffffa6a; E 31 0x7ffffaea; X; E 30 0x3ffffa6a; X; X; X; X; X; X; X; X; X; X; X; X; X; X; X; X].
Definition hencs_80 : list henc := [
  E 20 0xffc6b; E 30 0x3fffec6b; X; X; X; X; X; X; X; E 31 0x7ffff56b; X; X; X; X; X; X; X; X; X; X; X; X; X; X; X; X;
  X; X; X; X; X; X; E 13 0xa6b; E 17 0x1fc6b; E 17 0x1fceb; E 19 0x7fd6b; E 20 0xffceb; E 13 0xaeb; E 15 0x7c6b;
  E 18 0x3fd6b; E 17 0x1fd6b; E 17 0x1fdeb; E 15 0x7ceb; E 18 0x3fdeb; E 15 0x7d6b; E 13 0xb6b; E 13 0xbeb;
  E 13 0xc6b; E 12 0x6b; E 12 0xeb; E 12 0x16b; E 13 0xceb; E 13 0xd6b; E 13 0xdeb; E 13 0xe6b; E 13 0xeeb;
  E 13 0xf6b; E 13 0xfeb; E 14 0x2e6b; E 15 0x7deb; E 22 0x3ffe6b; E 13 0x106b; E 19 0x7fdeb; E 17 0x1fe6b;
  E 20 0xffd6b; E 13 0x10eb; E 14 0x2eeb; E 14 0x2f6b; E 14 0x2feb; E 14 0x306b; E 14 0x30eb; E 14 0x316b;
  E 14 0x31eb; E 14 0x326b; E 14 0x32eb; E 14 0x336b; E 14 0x33eb; E 14 0x346b; E 14 0x34eb; E 14 0x356b; E 14 0x35eb;
  E 14 0x366b; E 14 0x36eb; E 14 0x376b; E 14 0x37eb; E 14 0x386b; E 14 0x38eb; E 14 0x396b; E 15 0x7e6b; E 14 0x39eb;
  E 15 0x7eeb; E 20 0xffdeb; E 26 0x3fff86b; E 20 0xffe6b; E 21 0x1ffe6b; E 13 0x116b; E 22 0x3ffeeb; E 12 0x1eb;
  E 13 0x11eb; E 12 0x26b; E 13 0x126b; E 12 0x2eb; E 13 0x12eb; E 13 0x136b; E 13 0x13eb; E 12 0x36b; E 14 0x3a6b;
  E 14 0x3aeb; E 13 0x146b; E 13 0x14eb; E 13 0x156b; E 12 0x3eb; E 13 0x15eb; E 14 0x3b6b; E 13 0x166b; E 12 0x46b;
  E 12 0x4eb; E 13 0x16eb; E 14 0x3beb; E 14 0x3c6b; E 14 0x3ceb; E 14 0x3d6b; E 14 0x3deb; E 22 0x3fff6b;
  E 18 0x3fe6b; E 21 0x1ffeeb; E 20 0xffeeb; X; E 27 0x7fff36b; E 29 0x1fffe96b; E 27 0x7fff3eb; E 27 0x7fff46b;
  E 29 0x1fffe9eb; E 29 0x1fffea6b; E 29 0x1fffeaeb; E 30 0x3fffeceb; E 29 0x1fffeb6b; E 30 0x3fffed6b;
  E 30 0x3fffedeb; E 30 0x3fffee6b; E 30 0x3fffeeeb; E 30 0x3fffef6b; E 31 0x7ffff5eb; E 30 0x3fffefeb;
  E 31 0x7ffff66b; E 31 0x7ffff6eb; E 29 0x1fffebeb; E 30 0x3ffff06b; E 31 0x7ffff76b; E 30 0x3ffff0eb;
  E 30 0x3ffff16b; E 30 0x3ffff1eb; E 30 0x3ffff26b; E 28 0xfffee6b; E 29 0x1fffec6b; E 30 0x3ffff2eb;
  E 29 0x1fffeceb; E 30 0x3ffff36b; E 30 0x3ffff3eb; E 31 0x7ffff7eb; E 29 0x1fffed6b; E 28 0xfffeeeb; E 27 0x7fff4eb;
  E 29 0x1fffedeb; E 29 0x1fffee6b; E 30 0x3ffff46b; E 30 0x3ffff4eb; E 28 0xfffef6b; E 30 0x3ffff56b;
  E 29 0x1fffeeeb; E 29 0x1fffef6b; E 31 0x7ffff86b; E 28 0xfffefeb; E 29 0x1fffefeb; E 30 0x3ffff5eb;
  E 30 0x3ffff66b; E 28 0xffff06b; E 28 0xffff0eb; E 29 0x1ffff06b; E 28 0xffff16b; E 30 0x3ffff6eb; E 29 0x1ffff0eb;
  E 30 0x3ffff76b; E 30 0x3ffff7eb; E 27 0x7fff56b; E 29 0x1ffff16b; E 29 0x1ffff1eb; E 29 0x1ffff26b;
  E 30 0x3ffff86b; E 29 0x1ffff2eb; E 29 0x1ffff36b; E 30 0x3ffff8eb; X; X; E 27 0x7fff5eb; E 26 0x3fff8eb;
  E 29 0x1ffff3eb; E 30 0x3ffff96b; E 29 0x1ffff46b; E 32 0xfffff66b; X; X; X; X; X; X; E 31 0x7ffff8eb;
  E 32 0xfffff6eb; E 26 0x3fff96b; E 28 0xffff1eb; X; X; X; X; X; E 31 0x7ffff96b; E 28 0xffff26b; E 28 0xffff2eb; X;
  X; X; X; X; X; E 27 0x7fff66b; E 31 0x7ffff9eb; E 27 0x7fff6eb; E 28 0xffff36b; E 29 0x1ffff4eb; E 28 0xffff3eb;
  E 28 0xffff46b; E 30 0x3ffff9eb; E 29 0x1ffff56b; E 29 0x1ffff5eb; E 32 0xfffff76b; E 32 0xfffff7eb;
  E 31 0x7ffffa6b; E 31 0x7ffffaeb; X; E 30 0x3ffffa6b; X; X; X; X; X; X; X; X; X; X; X; X; X; X; X; X].
Definition hencs_81 : list henc := [
  E 20 0xffc6c; E 30 0x3fffec6c; X; X; X; X; X; X; X; E 31 0x7ffff56c; X; X; X; X; X; X; X; X; X; X; X; X; X; X; X; X;
  X; X; X; X; X; X; E 13 0xa6c; E 17 0x1fc6c; E 17 0x1fcec; E 19 0x7fd6c; E 20 0xffcec; E 13 0xaec; E 15 0x7c6c;
  E 18 0x3fd6c; E 17 0x1fd6c; E 17 0x1fdec; E 15 0x7cec; E 18 0x3fdec; E 15 0x7d6c; E 13 0xb6c; E 13 0xbec;
  E 13 0xc6c; E 12 0x6c; E 12 0xec; E 12 0x16c; E 13 0xcec; E 13 0xd6c; E 13 0xdec; E 13 0xe6c; E 13 0xeec;
  E 13 0xf6c; E 13 0xfec; E 14 0x2e6c; E 15 0x7dec; E 22 0x3ffe6c; E 13 0x106c; E 19 0x7fdec; E 17 0x1fe6c;
  E 20 0xffd6c; E 13 0x10ec; E 14 0x2eec; E 14 0x2f6c; E 14 0x2fec; E 14 0x306c; E 14 0x30ec; E 14 0x316c;
  E 14 0x31ec; E 14 0x326c; E 14 0x32ec; E 14 0x336c; E 14 0x33ec; E 14 0x346c; E 14 0x34ec; E 14 0x356c; E 14 0x35ec;
  E 14 0x366c; E 14 0x36ec; E 14 0x376c; E 14 0x37ec; E 14 0x386c; E 14 0x38ec; E 14 0x396c; E 15 0x7e6c; E 14 0x39ec;
  E 15 0x7eec; E 20 0xffdec; E 26 0x3fff86c; E 20 0xffe6c; E 21 0x1ffe6c; E 13 0x116c; E 22 0x3ffeec; E 12 0x1ec;
  E 13 0x11ec; E 12 0x26c; E 13 0x126c; E 12 0x2ec; E 13 0x12ec; E 13 0x136c; E 13 0x13ec; E 12 0x36c; E 14 0x3a6c;
  E 14 0x3aec; E 13 0x146c; E 13 0x14ec; E 13 0x156c; E 12 0x3ec; E 13 0x15ec; E 14 0x3b6c; E 13 0x166c; E 12 0x46c;
  E 12 0x4ec; E 13 0x16ec; E 14 0x3bec; E 14 0x3c6c; E 14 0x3cec; E 14 0x3d6c; E 14 0x3dec; E 22 0x3fff6c;
  E 18 0x3fe6c; E 21 0x1ffeec; E 20 0xffeec; X; E 27 0x7fff36c; E 29 0x1fffe96c; E 27 0x7fff3ec; E 27 0x7fff46c;
  E 29 0x1fffe9ec; E 29 0x1fffea6c; E 29 0x1fffeaec; E 30 0x3fffecec; E 29 0x1fffeb6c; E 30 0x3fffed6c;
  E 30 0x3fffedec; E 30 0x3fffee6c; E 30 0x3fffeeec; E 30 0x3fffef6c; E 31 0x7ffff5ec; E 30 0x3fffefec;
  E 31 0x7ffff66c; E 31 0x7ffff6ec; E 29 0x1fffebec; E 30 0x3ffff06c; E 31 0x7ffff76c; E 30 0x3ffff0ec;
  E 30 0x3ffff16c; E 30 0x3ffff1ec; E 30 0x3ffff26c; E 28 0xfffee6c; E 29 0x1fffec6c; E 30 0x3ffff2ec;
  E 29 0x1fffecec; E 30 0x3ffff36c; E 30 0x3ffff3ec; E 31 0x7ffff7ec; E 29 0x1fffed6c; E 28 0xfffeeec; E 27 0x7fff4ec;
  E 29 0x1fffedec; E 29 0x1fffee6c; E 30 0x3ffff46c; E 30 0x3ffff4ec; E 28 0xfffef6c; E 30 0x3ffff56c;
  E 29 0x1fffeeec; E 29 0x1fffef6c; E 31 0x7ffff86c; E 28 0xfffefec; E 29 0x1fffefec; E 30 0x3ffff5ec;
  E 30 0x3ffff66c; E 28 0xffff06c; E 28 0xffff0ec; E 29 0x1ffff06c; E 28 0xffff16c; E 30 0x3ffff6ec; E 29 0x1ffff0ec;
  E 30 0x3ffff76c; E 30 0x3ffff7ec; E 27 0x7fff56c; E 29 0x1ffff16c; E 29 0x1ffff1ec; E 29 0x1ffff26c;
  E 30 0x3ffff86c; E 29 0x1ffff2ec; E 29 0x1ffff36c; E 30 0x3ffff8ec; X; X; E 27 0x7fff5ec; E 26 0x3fff8ec;
  E 29 0x1ffff3ec; E 30 0x3ffff96c; E 29 0x1ffff46c; E 32 0xfffff66c; X; X; X; X; X; X; E 31 0x7ffff8ec;
  E 32 0xfffff6ec; E 26 0x3fff96c; E 28 0xffff1ec; X; X; X; X; X; E 31 0x7ffff96c; E 28 0xffff26c; E 28 0xffff2ec; X;
  X; X; X; X; X; E 27 0x7fff66c; E 31 0x7ffff9ec; E 27 0x7fff6ec; E 28 0xffff36c; E 29 0x1ffff4ec; E 28 0xffff3ec;
  E 28 0xffff46c; E 30 0x3ffff9ec; E 29 0x1ffff56c; E 29 0x1ffff5ec; E 32 0xfffff76c; E 32 0xfffff7ec;
  E 31 0x7ffffa6c; E 31 0x7ffffaec; X; E 30 0x3ffffa6c; X; X; X; X; X; X; X; X; X; X; X; X; X; X; X; X].
Definition hencs_82 : list henc := [
  E 20 0xffc6d; E 30 0x3fffec6d; X; X; X; X; X; X; X; E 31 0x7ffff56d; X; X; X; X; X; X; X; X; X; X; X; X; X; X; X; X;
  X; X; X; X; X; X; E 13 0xa6d; E 17 0x1fc6d; E 17 0x1fced; E 19 0x7fd6d; E 20 0xffced; E 13 0xaed; E 15 0x7c6d;
  E 18 0x3fd6d; E 17 0x1fd6d; E 17 0x1fded; E 15 0x7ced; E 18 0x3fded; E 15 0x7d6d; E 13 0xb6d; E 13 0xbed;
  E 13 0xc6d; E 12 0x6d; E 12 0xed; E 12 0x16d; E 13 0xced; E 13 0xd6d; E 13 0xded; E 13 0xe6d; E 13 0xeed;
  E 13 0xf6d; E 13 0xfed; E 14 0x2e6d; E 15 0x7ded; E 22 0x3ffe6d; E 13 0x106d; E 19 0x7fded; E 17 0x1fe6d;
  E 20 0xffd6d; E 13 0x10ed; E 14 0x2eed; E 14 0x2f6d; E 14 0x2fed; E 14 0x306d; E 14 0x30ed; E 14 0x316d;
  E 14 0x31ed; E 14 0x326d; E 14 0x32ed; E 14 0x336d; E 14 0x33ed; E 14 0x346d; E 14 0x34ed; E 14 0x356d; E 14 0x35ed;
  E 14 0x366d; E 14 0x36ed; E 14 0x376d; E 14 0x37ed; E 14 0x386d; E 14 0x38ed; E 14 0x396d; E 15 0x7e6d; E 14 0x39ed;
  E 15 0x7eed; E 20 0xffded; E 26 0x3fff86d; E 20 0xffe6d; E 21 0x1ffe6d; E 13 0x116d; E 22 0x3ffeed; E 12 0x1ed;
  E 13 0x11ed; E 12 0x26d; E 13 0x126d; E 12 0x2ed; E 13 0x12ed; E 13 0x136d; E 13 0x13ed; E 12 0x36d; E 14 0x3a6d;
  E 14 0x3aed; E 13 0x146d; E 13 0x14ed; E 13 0x156d; E 12 0x3ed; E 13 0x15ed; E 14 0x3b6d; E 13 0x166d; E 12 0x46d;
  E 12 0x4ed; E 13 0x16ed; E 14 0x3bed; E 14 0x3c6d; E 14 0x3ced; E 14 0x3d6d; E 14 0x3ded; E 22 0x3fff6d;
  E 18 0x3fe6d; E 21 0x1ffeed; E 20 0xffeed; X; E 27 0x7fff36d; E 29 0x1fffe96d; E 27 0x7fff3ed; E 27 0x7fff46d;
  E 29 0x1fffe9ed; E 29 0x1fffea6d; E 29 0x1fffeaed; E 30 0x3fffeced; E 29 0x1fffeb6d; E 30 0x3fffed6d;
  E 30 0x3fffeded; E 30 0x3fffee6d; E 30 0x3fffeeed; E 30 0x3fffef6d; E 31 0x7ffff5ed; E 30 0x3fffefed;
  E 31 0x7ffff66d; E 31 0x7ffff6ed; E 29 0x1fffebed; E 30 0x3ffff06d; E 31 0x7ffff76d; E 30 0x3ffff0ed;
  E 30 0x3ffff16d; E 30 0x3ffff1ed; E 30 0x3ffff26d; E 28 0xfffee6d; E 29 0x1fffec6d; E 30 0x3ffff2ed;
  E 29 0x1fffeced; E 30 0x3ffff36d; E 30 0x3ffff3ed; E 31 0x7ffff7ed; E 29 0x1fffed6d; E 28 0xfffeeed; E 27 0x7fff4ed;
  E 29 0x1fffeded; E 29 0x1fffee6d; E 30 0x3ffff46d; E 30 0x3ffff4ed; E 28 0xfffef6d; E 30 0x3ffff56d;
  E 29 0x1fffeeed; E 29 0x1fffef6d; E 31 0x7ffff86d; E 28 0xfffefed; E 29 0x1fffefed; E 30 0x3ffff5ed;
  E 30 0x3ffff66d; E 28 0xffff06d; E 28 0xffff0ed; E 29 0x1ffff06d; E 28 0xffff16d; E 30 0x3ffff6ed; E 29 0x1ffff0ed;
  E 30 0x3ffff76d; E 30 0x3ffff7ed; E 27 0x7fff56d; E 29 0x1ffff16d; E 29 0x1ffff1ed; E 29 0x1ffff26d;
  E 30 0x3ffff86d; E 29 0x1ffff2ed; E 29 0x1ffff36d; E 30 0x3ffff8ed; X; X; E 27 0x7fff5ed; E 26 0x3fff8ed;
  E 29 0x1ffff3ed; E 30 0x3ffff96d; E 29 0x1ffff46d; E 32 0xfffff66d; X; X; X; X; X; X; E 31 0x7ffff8ed;
  E 32 0xfffff6ed; E 26 0x3fff96d; E 28 0xffff1ed; X; X; X; X; X; E 31 0x7ffff96d; E 28 0xffff26d; E 28 0xffff2ed; X;
  X; X; X; X; X; E 27 0x7fff66d; E 31 0x7ffff9ed; E 27 0x7fff6ed; E 28 0xffff36d; E 29 0x1ffff4ed; E 28 0xffff3ed;
  E 28 0xffff46d; E 30 0x3ffff9ed; E 29 0x1ffff56d; E 29 0x1ffff5ed; E 32 0xfffff76d; E 32 0xfffff7ed;
  E 31 0x7ffffa6d; E 31 0x7ffffaed; X; E 30 0x3ffffa6d; X; X; X; X; X; X; X; X; X; X; X; X; X; X; X; X].
Definition hencs_83 : list henc := [
  E 20 0xffc6e; E 30 0x3fffec6e; X; X; X; X; X; X; X; E 31 0x7ffff56e; X; X; X; X; X; X; X; X; X; X; X; X; X; X; X; X;
  X; X; X; X; X; X; E 13 0xa6e; E 17 0x1fc6e; E 17 0x1fcee; E 19 0x7fd6e; E 20 0xffcee; E 13 0xaee; E 15 0x7c6e;
  E 18 0x3fd6e; E 17 0x1fd6e; E 17 0x1fdee; E 15 0x7cee; E 18 0x3fdee; E 15 0x7d6e; E 13 0xb6e; E 13 0xbee;
  E 13 0xc6e; E 12 0x6e; E 12 0xee; E 12 0x16e; E 13 0xcee; E 13 0xd6e; E 13 0xdee; E 13 0xe6e; E 13 0xeee;
  E 13 0xf6e; E 13 0xfee; E 14 0x2e6e; E 15 0x7dee; E 22 0x3ffe6e; E 13 0x106e; E 19 0x7fdee; E 17 0x1fe6e;
  E 20 0xffd6e; E 13 0x10ee; E 14 0x2eee; E 14 0x2f6e; E 14 0x2fee; E 14 0x306e; E 14 0x30ee; E 14 0x316e;
  E 14 0x31ee; E 14 0x326e; E 14 0x32ee; E 14 0x336e; E 14 0x33ee; E 14 0x346e; E 14 0x34ee; E 14 0x356e; E 14 0x35ee;
  E 14 0x366e; E 14 0x36ee; E 14 0x376e; E 14 0x37ee; E 14 0x386e; E 14 0x38ee; E 14 0x396e; E 15 0x7e6e; E 14 0x39ee;
  E 15 0x7eee; E 20 0xffdee; E 26 0x3fff86e; E 20 0xffe6e; E 21 0x1ffe6e; E 13 0x116e; E 22 0x3ffeee; E 12 0x1ee;
  E 13 0x11ee; E 12 0x26e; E 13 0x126e; E 12 0x2ee; E 13 0x12ee; E 13 0x136e; E 13 0x13ee; E 12 0x36e; E 14 0x3a6e;
  E 14 0x3aee; E 13 0x146e; E 13 0x14ee; E 13 0x156e; E 12 0x3ee; E 13 0x15ee; E 14 0x3b6e; E 13 0x166e; E 12 0x46e;
  E 12 0x4ee; E 13 0x16ee; E 14 0x3bee; E 14 0x3c6e; E 14 0x3cee; E 14 0x3d6e; E 14 0x3dee; E 22 0x3fff6e;
  E 18 0x3fe6e; E 21 0x1ffeee; E 20 0xffeee; X; E 27 0x7fff36e; E 29 0x1fffe96e; E 27 0x7fff3ee; E 27 0x7fff46e;
  E 29 0x1fffe9ee; E 29 0x1fffea6e; E 29 0x1fffeaee; E 30 0x3fffecee; E 29 0x1fffeb6e; E 30 0x3fffed6e;
  E 30 0x3fffedee; E 30 0x3fffee6e; E 30 0x3fffeeee; E 30 0x3fffef6e; E 31 0x7ffff5ee; E 30 0x3fffefee;
  E 31 0x7ffff66e; E 31 0x7ffff6ee; E 29 0x1fffebee; E 30 0x3ffff06e; E 31 0x7ffff76e; E 30 0x3ffff0ee;
  E 30 0x3ffff16e; E 30 0x3ffff1ee; E 30 0x3ffff26e; E 28 0xfffee6e; E 29 0x1fffec6e; E 30 0x3ffff2ee;
  E 29 0x1fffecee; E 30 0x3ffff36e; E 30 0x3ffff3ee; E 31 0x7ffff7ee; E 29 0x1fffed6e; E 28 0xfffeeee; E 27 0x7fff4ee;
  E 29 0x1fffedee; E 29 0x1fffee6e; E 30 0x3ffff46e; E 30 0x3ffff4ee; E 28 0xfffef6e; E 30 0x3ffff56e;
  E 29 0x1fffeeee; E 29 0x1fffef6e; E 31 0x7ffff86e; E 28 0xfffefee; E 29 0x1fffefee; E 30 0x3ffff5ee;
  E 30 0x3ffff66e; E 28 0xffff06e; E 28 0xffff0ee; E 29 0x1ffff06e; E 28 0xffff16e; E 30 0x3ffff6ee; E 29 0x1ffff0ee;
  E 30 0x3ffff76e; E 30 0x3ffff7ee; E 27 0x7fff56e; E 29 0x1ffff16e; E 29 0x1ffff1ee; E 29 0x1ffff26e;
  E 30 0x3ffff86e; E 29 0x1ffff2ee; E 29 0x1ffff36e; E 30 0x3ffff8ee; X; X; E 27 0x7fff5ee; E 26 0x3fff8ee;
  E 29 0x1ffff3ee; E 30 0x3ffff96e; E 29 0x1ffff46e; E 32 0xfffff66e; X; X; X; X; X; X; E 31 0x7ffff8ee;
  E 32 0xfffff6ee; E 26 0x3fff96e; E 28 0xffff1ee; X; X; X; X; X; E 31 0x7ffff96e; E 28 0xffff26e; E 28 0xffff2ee; X;
  X; X; X; X; X; E 27 0x7fff66e; E 31 0x7ffff9ee; E 27 0x7fff6ee; E 28 0xffff36e; E 29 0x1ffff4ee; E 28 0xffff3ee;
  E 28 0xffff46e; E 30 0x3ffff9ee; E 29 0x1ffff56e; E 29 0x1ffff5ee; E 32 0xfffff76e; E 32 0xfffff7ee;
  E 31 0x7ffffa6e; E 31 0x7ffffaee; X; E 30 0x3ffffa6e; X; X; X; X; X; X; X; X; X; X; X; X; X; X; X; X].
Definition hencs_84 : list henc := [
  E 20 0xffc6f; E 30 0x3fffec6f; X; X; X; X; X; X; X; E 31 0x7ffff56f; X; X; X; X; X; X; X; X; X; X; X; X; X; X; X; X;
  X; X; X; X; X; X; E 13 0xa6f; E 17 0x1fc6f; E 17 0x1fcef; E 19 0x7fd6f; E 20 0xffcef; E 13 0xaef; E 15 0x7c6f;
  E 18 0x3fd6f; E 17 0x1fd6f; E 17 0x1fdef; E 15 0x7cef; E 18 0x3fdef; E 15 0x7d6f; E 13 0xb6f; E 13 0xbef;
  E 13 0xc6f; E 12 0x6f; E 12 0xef; E 12 0x16f; E 13 0xcef; E 13 0xd6f; E 13 0xdef; E 13 0xe6f; E 13 0xeef;
  E 13 0xf6f; E 13 0xfef; E 14 0x2e6f; E 15 0x7def; E 22 0x3ffe6f; E 13 0x106f; E 19 0x7fdef; E 17 0x1fe6f;
  E 20 0xffd6f; E 13 0x10ef; E 14 0x2eef; E 14 0x2f6f; E 14 0x2fef; E 14 0x306f; E 14 0x30ef; E 14 0x316f;
  E 14 0x31ef; E 14 0x326f; E 14 0x32ef; E 14 0x336f; E 14 0x33ef; E 14 0x346f; E 14 0x34ef; E 14 0x356f; E 14 0x35ef;
  E 14 0x366f; E 14 0x36ef; E 14 0x376f; E 14 0x37ef; E 14 0x386f; E 14 0x38ef; E 14 0x396f; E 15 0x7e6f; E 14 0x39ef;
  E 15 0x7eef; E 20 0xffdef; E 26 0x3fff86f; E 20 0xffe6f; E 21 0x1ffe6f; E 13 0x116f; E 22 0x3ffeef; E 12 0x1ef;
  E 13 0x11ef; E 12 0x26f; E 13 0x126f; E 12 0x2ef; E 13 0x12ef; E 13 0x136f; E 13 0x13ef; E 12 0x36f; E 14 0x3a6f;
  E 14 0x3aef; E 13 0x146f; E 13 0x14ef; E 13 0x156f; E 12 0x3ef; E 13 0x15ef; E 14 0x3b6f; E 13 0x166f; E 12 0x46f;
  E 12 0x4ef; E 13 0x16ef; E 14 0x3bef; E 14 0x3c6f; E 14 0x3cef; E 14 0x3d6f; E 14 0x3def; E 22 0x3fff6f;
  E 18 0x3fe6f; E 21 0x1ffeef; E 20 0xffeef; X; E 27 0x7fff36f; E 29 0x1fffe96f; E 27 0x7fff3ef; E 27 0x7fff46f;
  E 29 0x1fffe9ef; E 29 0x1fffea6f; E 29 0x1fffeaef; E 30 0x3fffecef; E 29 0x1fffeb6f; E 30 0x3fffed6f;
  E 30 0x3fffedef; E 30 0x3fffee6f; E 30 0x3fffeeef; E 30 0x3fffef6f; E 31 0x7ffff5ef; E 30 0x3fffefef;
  E 31 0x7ffff66f; E 31 0x7ffff6ef; E 29 0x1fffebef; E 30 0x3ffff06f; E 31 0x7ffff76f; E 30 0x3ffff0ef;
  E 30 0x3ffff16f; E 30 0x3ffff1ef; E 30 0x3ffff26f; E 28 0xfffee6f; E 29 0x1fffec6f; E 30 0x3ffff2ef;
  E 29 0x1fffecef; E 30 0x3ffff36f; E 30 0x3ffff3ef; E 31 0x7ffff7ef; E 29 0x1fffed6f; E 28 0xfffeeef; E 27 0x7fff4ef;
  E 29 0x1fffedef; E 29 0x1fffee6f; E 30 0x3ffff46f; E 30 0x3ffff4ef; E 28 0xfffef6f; E 30 0x3ffff56f;
  E 29 0x1fffeeef; E 29 0x1fffef6f; E 31 0x7ffff86f; E 28 0xfffefef; E 29 0x1fffefef; E 30 0x3ffff5ef;
  E 30 0x3ffff66f; E 28 0xffff06f; E 28 0xffff0ef; E 29 0x1ffff06f; E 28 0xffff16f; E 30 0x3ffff6ef; E 29 0x1ffff0ef;
  E 30 0x3ffff76f; E 30 0x3ffff7ef; E 27 0x7fff56f; E 29 0x1ffff16f; E 29 0x1ffff1ef; E 29 0x1ffff26f;
  E 30 0x3ffff86f; E 29 0x1ffff2ef; E 29 0x1ffff36f; E 30 0x3ffff8ef; X; X; E 27 0x7fff5ef; E 26 0x3fff8ef;
  E 29 0x1ffff3ef; E 30 0x3ffff96f; E 29 0x1ffff46f; E 32 0xfffff66f; X; X; X; X; X; X; E 31 0x7ffff8ef;
  E 32 0xfffff6ef; E 26 0x3fff96f; E 28 0xffff1ef; X; X; X; X; X; E 31 0x7ffff96f; E 28 0xffff26f; E 28 0xffff2ef; X;
  X; X; X; X; X; E 27 0x7fff66f; E 31 0x7ffff9ef; E 27 0x7fff6ef; E 28 0xffff36f; E 29 0x1ffff4ef; E 28 0xffff3ef;
  E 28 0xffff46f; E 30 0x3ffff9ef; E 29 0x1ffff56f; E 29 0x1ffff5ef; E 32 0xfffff76f; E 32 0xfffff7ef;
  E 31 0x7ffffa6f; E 31 0x7ffffaef; X; E 30 0x3ffffa6f; X; X; X; X; X; X; X; X; X; X; X; X; X; X; X; X].
Definition hencs_85 : list henc := [
  E 20 0xffc70; E 30 0x3fffec70; X; X; X; X; X; X; X; E 31 0x7ffff570; X; X; X; X; X; X; X; X; X; X; X; X; X; X; X; X;
  X; X; X; X; X; X; E 13 0xa70; E 17 0x1fc70; E 17 0x1fcf0; E 19 0x7fd70; E 20 0xffcf0; E 13 0xaf0; E 15 0x7c70;
  E 18 0x3fd70; E 17 0x1fd70; E 17 0x1fdf0; E 15 0x7cf0; E 18 0x3fdf0; E 15 0x7d70; E 13 0xb70; E 13 0xbf0;
  E 13 0xc70; E 12 0x70; E 12 0xf0; E 12 0x170; E 13 0xcf0; E 13 0xd70; E 13 0xdf0; E 13 0xe70; E 13 0xef0;
  E 13 0xf70; E 13 0xff0; E 14 0x2e70; E 15 0x7df0; E 22 0x3ffe70; E 13 0x1070; E 19 0x7fdf0; E 17 0x1fe70;
  E 20 0xffd70; E 13 0x10f0; E 14 0x2ef0; E 14 0x2f70; E 14 0x2ff0; E 14 0x3070; E 14 0x30f0; E 14 0x3170;
  E 14 0x31f0; E 14 0x3270; E 14 0x32f0; E 14 0x3370; E 14 0x33f0; E 14 0x3470; E 14 0x34f0; E 14 0x3570; E 14 0x35f0;
  E 14 0x3670; E 14 0x36f0; E 14 0x3770; E 14 0x37f0; E 14 0x3870; E 14 0x38f0; E 14 0x3970; E 15 0x7e70; E 14 0x39f0;
  E 15 0x7ef0; E 20 0xffdf0; E 26 0x3fff870; E 20 0xffe70; E 21 0x1ffe70; E 13 0x1170; E 22 0x3ffef0; E 12 0x1f0;
  E 13 0x11f0; E 12 0x270; E 13 0x1270; E 12 0x2f0; E 13 0x12f0; E 13 0x1370; E 13 0x13f0; E 12 0x370; E 14 0x3a70;
  E 14 0x3af0; E 13 0x1470; E 13 0x14f0; E 13 0x1570; E 12 0x3f0; E 13 0x15f0; E 14 0x3b70; E 13 0x1670; E 12 0x470;
  E 12 0x4f0; E 13 0x16f0; E 14 0x3bf0; E 14 0x3c70; E 14 0x3cf0; E 14 0x3d70; E 14 0x3df0; E 22 0x3fff70;
  E 18 0x3fe70; E 21 0x1ffef0; E 20 0xffef0; X; E 27 0x7fff370; E 29 0x1fffe970; E 27 0x7fff3f0; E 27 0x7fff470;
  E 29 0x1fffe9f0; E 29 0x1fffea70; E 29 0x1fffeaf0; E 30 0x3fffecf0; E 29 0x1fffeb70; E 30 0x3fffed70;
  E 30 0x3fffedf0; E 30 0x3fffee70; E 30 0x3fffeef0; E 30 0x3fffef70; E 31 0x7ffff5f0; E 30 0x3fffeff0;
  E 31 0x7ffff670; E 31 0x7ffff6f0; E 29 0x1fffebf0; E 30 0x3ffff070; E 31 0x7ffff770; E 30 0x3ffff0f0;
  E 30 0x3ffff170; E 30 0x3ffff1f0; E 30 0x3ffff270; E 28 0xfffee70; E 29 0x1fffec70; E 30 0x3ffff2f0;
  E 29 0x1fffecf0; E 30 0x3ffff370; E 30 0x3ffff3f0; E 31 0x7ffff7f0; E 29 0x1fffed70; E 28 0xfffeef0; E 27 0x7fff4f0;
  E 29 0x1fffedf0; E 29 0x1fffee70; E 30 0x3ffff470; E 30 0x3ffff4f0; E 28 0xfffef70; E 30 0x3ffff570;
  E 29 0x1fffeef0; E 29 0x1fffef70; E 31 0x7ffff870; E 28 0xfffeff0; E 29 0x1fffeff0; E 30 0x3ffff5f0;
  E 30 0x3ffff670; E 28 0xffff070; E 28 0xffff0f0; E 29 0x1ffff070; E 28 0xffff170; E 30 0x3ffff6f0; E 29 0x1ffff0f0;
  E 30 0x3ffff770; E 30 0x3ffff7f0; E 27 0x7fff570; E 29 0x1ffff170; E 29 0x1ffff1f0; E 29 0x1ffff270;
  E 30 0x3ffff870; E 29 0x1ffff2f0; E 29 0x1ffff370; E 30 0x3ffff8f0; X; X; E 27 0x7fff5f0; E 26 0x3fff8f0;
  E 29 0x1ffff3f0; E 30 0x3ffff970; E 29 0x1ffff470; E 32 0xfffff670; X; X; X; X; X; X; E 31 0x7ffff8f0;
  E 32 0xfffff6f0; E 26 0x3fff970; E 28 0xffff1f0; X; X; X; X; X; E 31 0x7ffff970; E 28 0xffff270; E 28 0xffff2f0; X;
  X; X; X; X; X; E 27 0x7fff670; E 31 0x7ffff9f0; E 27 0x7fff6f0; E 28 0xffff370; E 29 0x1ffff4f0; E 28 0xffff3f0;
  E 28 0xffff470; E 30 0x3ffff9f0; E 29 0x1ffff570; E 29 0x1ffff5f0; E 32 0xfffff770; E 32 0xfffff7f0;
  E 31 0x7ffffa70; E 31 0x7ffffaf0; X; E 30 0x3ffffa70; X; X; X; X; X; X; X; X; X; X; X; X; X; X; X; X].
Definition hencs_86 : list henc := [
  E 20 0xffc71; E 30 0x3fffec71; X; X; X; X; X; X; X; E 31 0x7ffff571; X; X; X; X; X; X; X; X; X; X; X; X; X; X; X; X;
  X; X; X; X; X; X; E 13 0xa71; E 17 0x1fc71; E 17 0x1fcf1; E 19 0x7fd71; E 20 0xffcf1; E 13 0xaf1; E 15 0x7c71;
  E 18 0x3fd71; E 17 0x1fd71; E 17 0x1fdf1; E 15 0x7cf1; E 18 0x3fdf1; E 15 0x7d71; E 13 0xb71; E 13 0xbf1;
  E 13 0xc71; E 12 0x71; E 12 0xf1; E 12 0x171; E 13 0xcf1; E 13 0xd71; E 13 0xdf1; E 13 0xe71; E 13 0xef1;
  E 13 0xf71; E 13 0xff1; E 14 0x2e71; E 15 0x7df1; E 22 0x3ffe71; E 13 0x1071; E 19 0x7fdf1; E 17 0x1fe71;
  E 20 0xffd71; E 13 0x10f1; E 14 0x2ef1; E 14 0x2f71; E 14 0x2ff1; E 14 0x3071; E 14 0x30f1; E 14 0x3171;
  E 14 0x31f1; E 14 0x3271; E 14 0x32f1; E 14 0x3371; E 14 0x33f1; E 14 0x3471; E 14 0x34f1; E 14 0x3571; E 14 0x35f1;
  E 14 0x3671; E 14 0x36f1; E 14 0x3771; E 14 0x37f1; E 14 0x3871; E 14 0x38f1; E 14 0x3971; E 15 0x7e71; E 14 0x39f1;
  E 15 0x7ef1; E 20 0xffdf1; E 26 0x3fff871; E 20 0xffe71; E 21 0x1ffe71; E 13 0x1171; E 22 0x3ffef1; E 12 0x1f1;
  E 13 0x11f1; E 12 0x271; E 13 0x1271; E 12 0x2f1; E 13 0x12f1; E 13 0x1371; E 13 0x13f1; E 12 0x371; E 14 0x3a71;
  E 14 0x3af1; E 13 0x1471; E 13 0x14f1; E 13 0x1571; E 12 0x3f1; E 13 0x15f1; E 14 0x3b71; E 13 0x1671; E 12 0x471;
  E 12 0x4f1; E 13 0x16f1; E 14 0x3bf1; E 14 0x3c71; E 14 0x3cf1; E 14 0x3d71; E 14 0x3df1; E 22 0x3fff71;
  E 18 0x3fe71; E 21 0x1ffef1; E 20 0xffef1; X; E 27 0x7fff371; E 29 0x1fffe971; E 27 0x7fff3f1; E 27 0x7fff471;
  E 29 0x1fffe9f1; E 29 0x1fffea71; E 29 0x1fffeaf1; E 30 0x3fffecf1; E 29 0x1fffeb71; E 30 0x3fffed71;
  E 30 0x3fffedf1; E 30 0x3fffee71; E 30 0x3fffeef1; E 30 0x3fffef71; E 31 0x7ffff5f1; E 30 0x3fffeff1;
  E 31 0x7ffff671; E 31 0x7ffff6f1; E 29 0x1fffebf1; E 30 0x3ffff071; E 31 0x7ffff771; E 30 0x3ffff0f1;
  E 30 0x3ffff171; E 30 0x3ffff1f1; E 30 0x3ffff271; E 28 0xfffee71; E 29 0x1fffec71; E 30 0x3ffff2f1;
  E 29 0x1fffecf1; E 30 0x3ffff371; E 30 0x3ffff3f1; E 31 0x7ffff7f1; E 29 0x1fffed71; E 28 0xfffeef1; E 27 0x7fff4f1;
  E 29 0x1fffedf1; E 29 0x1fffee71; E 30 0x3ffff471; E 30 0x3ffff4f1; E 28 0xfffef71; E 30 0x3ffff571;
  E 29 0x1fffeef1; E 29 0x1fffef71; E 31 0x7ffff871; E 28 0xfffeff1; E 29 0x1fffeff1; E 30 0x3ffff5f1;
  E 30 0x3ffff671; E 28 0xffff071; E 28 0xffff0f1; E 29 0x1ffff071; E 28 0xffff171; E 30 0x3ffff6f1; E 29 0x1ffff0f1;
  E 30 0x3ffff771; E 30 0x3ffff7f1; E 27 0x7fff571; E 29 0x1ffff171; E 29 0x1ffff1f1; E 29 0x1ffff271;
  E 30 0x3ffff871; E 29 0x1ffff2f1; E 29 0x1ffff371; E 30 0x3ffff8f1; X; X; E 27 0x7fff5f1; E 26 0x3fff8f1;
  E 29 0x1ffff3f1; E 30 0x3ffff971; E 29 0x1ffff471; E 32 0xfffff671; X; X; X; X; X; X; E 31 0x7ffff8f1;
  E 32 0xfffff6f1; E 26 0x3fff971; E 28 0xffff1f1; X; X; X; X; X; E 31 0x7ffff971; E 28 0xffff271; E 28 0xffff2f1; X;
  X; X; X; X; X; E 27 0x7fff671; E 31 0x7ffff9f1; E 27 0x7fff6f1; E 28 0xffff371; E 29 0x1ffff4f1; E 28 0xffff3f1;
  E 28 0xffff471; E 30 0x3ffff9f1; E 29 0x1ffff571; E 29 0x1ffff5f1; E 32 0xfffff771; E 32 0xfffff7f1;
  E 31 0x7ffffa71; E 31 0x7ffffaf1; X; E 30 0x3ffffa71; X; X; X; X; X; X; X; X; X; X; X; X; X; X; X; X].
Definition hencs_87 : list henc := [
  E 20 0xffc72; E 30 0x3fffec72; X; X; X; X; X; X; X; E 31 0x7ffff572; X; X; X; X; X; X; X; X; X; X; X; X; X; X; X; X;
  X; X; X; X; X; X; E 13 0xa72; E 17 0x1fc72; E 17 0x1fcf2; E 19 0x7fd72; E 20 0xffcf2; E 13 0xaf2; E 15 0x7c72;
  E 18 0x3fd72; E 17 0x1fd72; E 17 0x1fdf2; E 15 0x7cf2; E 18 0x3fdf2; E 15 0x7d72; E 13 0xb72; E 13 0xbf2;
  E 13 0xc72; E 12 0x72; E 12 0xf2; E 12 0x172; E 13 0xcf2; E 13 0xd72; E 13 0xdf2; E 13 0xe72; E 13 0xef2;
  E 13 0xf72; E 13 0xff2; E 14 0x2e72; E 15 0x7df2; E 22 0x3ffe72; E 13 0x1072; E 19 0x7fdf2; E 17 0x1fe72;
  E 20 0xffd72; E 13 0x10f2; E 14 0x2ef2; E 14 0x2f72; E 14 0x2ff2; E 14 0x3072; E 14 0x30f2; E 14 0x3172;
  E 14 0x31f2; E 14 0x3272; E 14 0x32f2; E 14 0x3372; E 14 0x33f2; E 14 0x3472; E 14 0x34f2; E 14 0x3572; E 14 0x35f2;
  E 14 0x3672; E 14 0x36f2; E 14 0x3772; E 14 0x37f2; E 14 0x3872; E 14 0x38f2; E 14 0x3972; E 15 0x7e72; E 14 0x39f2;
  E 15 0x7ef2; E 20 0xffdf2; E 26 0x3fff872; E 20 0xffe72; E 21 0x1ffe72; E 13 0x1172; E 22 0x3ffef2; E 12 0x1f2;
  E 13 0x11f2; E 12 0x272; E 13 0x1272; E 12 0x2f2; E 13 0x12f2; E 13 0x1372; E 13 0x13f2; E 12 0x372; E 14 0x3a72;
  E 14 0x3af2; E 13 0x1472; E 13 0x14f2; E 13 0x1572; E 12 0x3f2; E 13 0x15f2; E 14 0x3b72; E 13 0x1672; E 12 0x472;
  E 12 0x4f2; E 13 0x16f2; E 14 0x3bf2; E 14 0x3c72; E 14 0x3cf2; E 14 0x3d72; E 14 0x3df2; E 22 0x3fff72;
  E 18 0x3fe72; E 21 0x1ffef2; E 20 0xffef2; X; E 27 0x7fff372; E 29 0x1fffe972; E 27 0x7fff3f2; E 27 0x7fff472;
  E 29 0x1fffe9f2; E 29 0x1fffea72; E 29 0x1fffeaf2; E 30 0x3fffecf2; E 29 0x1fffeb72; E 30 0x3fffed72;
  E 30 0x3fffedf2; E 30 0x3fffee72; E 30 0x3fffeef2; E 30 0x3fffef72; E 31 0x7ffff5f2; E 30 0x3fffeff2;
  E 31 0x7ffff672; E 31 0x7ffff6f2; E 29 0x1fffebf2; E 30 0x3ffff072; E 31 0x7ffff772; E 30 0x3ffff0f2;
  E 30 0x3ffff172; E 30 0x3ffff1f2; E 30 0x3ffff272; E 28 0xfffee72; E 29 0x1fffec72; E 30 0x3ffff2f2;
  E 29 0x1fffecf2; E 30 0x3ffff372; E 30 0x3ffff3f2; E 31 0x7ffff7f2; E 29 0x1fffed72; E 28 0xfffeef2; E 27 0x7fff4f2;
  E 29 0x1fffedf2; E 29 0x1fffee72; E 30 0x3ffff472; E 30 0x3ffff4f2; E 28 0xfffef72; E 30 0x3ffff572;
  E 29 0x1fffeef2; E 29 0x1fffef72; E 31 0x7ffff872; E 28 0xfffeff2; E 29 0x1fffeff2; E 30 0x3ffff5f2;
  E 30 0x3ffff672; E 28 0xffff072; E 28 0xffff0f2; E 29 0x1ffff072; E 28 0xffff172; E 30 0x3ffff6f2; E 29 0x1ffff0f2;
  E 30 0x3ffff772; E 30 0x3ffff7f2; E 27 0x7fff572; E 29 0x1ffff172; E 29 0x1ffff1f2; E 29 0x1ffff272;
  E 30 0x3ffff872; E 29 0x1ffff2f2; E 29 0x1ffff372; E 30 0x3ffff8f2; X; X; E 27 0x7fff5f2; E 26 0x3fff8f2;
  E 29 0x1ffff3f2; E 30 0x3ffff972; E 29 0x1ffff472; E 32 0xfffff672; X; X; X; X; X; X; E 31 0x7ffff8f2;
  E 32 0xfffff6f2; E 26 0x3fff972; E 28 0xffff1f2; X; X; X; X; X; E 31 0x7ffff972; E 28 0xffff272; E 28 0xffff2f2; X;
  X; X; X; X; X; E 27 0x7fff672; E 31 0x7ffff9f2; E 27 0x7fff6f2; E 28 0xffff372; E 29 0x1ffff4f2; E 28 0xffff3f2;
  E 28 0xffff472; E 30 0x3ffff9f2; E 29 0x1ffff572; E 29 0x1ffff5f2; E 32 0xfffff772; E 32 0xfffff7f2;
  E 31 0x7ffffa72; E 31 0x7ffffaf2; X; E 30 0x3ffffa72; X; X; X; X; X; X; X; X; X; X; X; X; X; X; X; X].
Definition hencs_88 : list henc := [
  E 21 0x1ff8fc; E 31 0x7fffd8fc; X; X; X; X; X; X; X; E 32 0xffffeafc; X; X; X; X; X; X; X; X; X; X; X; X; X; X; X;
  X; X; X; X; X; X; X; E 14 0x14fc; E 18 0x3f8fc; E 18 0x3f9fc; E 20 0xffafc; E 21 0x1ff9fc; E 14 0x15fc; E 16 0xf8fc;
  E 19 0x7fafc; E 18 0x3fafc; E 18 0x3fbfc; E 16 0xf9fc; E 19 0x7fbfc; E 16 0xfafc; E 14 0x16fc; E 14 0x17fc;
  E 14 0x18fc; E 13 0xfc; E 13 0x1fc; E 13 0x2fc; E 14 0x19fc; E 14 0x1afc; E 14 0x1bfc; E 14 0x1cfc; E 14 0x1dfc;
  E 14 0x1efc; E 14 0x1ffc; E 15 0x5cfc; E 16 0xfbfc; E 23 0x7ffcfc; E 14 0x20fc; E 20 0xffbfc; E 18 0x3fcfc;
  E 21 0x1ffafc; E 14 0x21fc; E 15 0x5dfc; E 15 0x5efc; E 15 0x5ffc; E 15 0x60fc; E 15 0x61fc; E 15 0x62fc;
  E 15 0x63fc; E 15 0x64fc; E 15 0x65fc; E 15 0x66fc; E 15 0x67fc; E 15 0x68fc; E 15 0x69fc; E 15 0x6afc; E 15 0x6bfc;
  E 15 0x6cfc; E 15 0x6dfc; E 15 0x6efc; E 15 0x6ffc; E 15 0x70fc; E 15 0x71fc; E 15 0x72fc; E 16 0xfcfc; E 15 0x73fc;
  E 16 0xfdfc; E 21 0x1ffbfc; E 27 0x7fff0fc; E 21 0x1ffcfc; E 22 0x3ffcfc; E 14 0x22fc; E 23 0x7ffdfc; E 13 0x3fc;
  E 14 0x23fc; E 13 0x4fc; E 14 0x24fc; E 13 0x5fc; E 14 0x25fc; E 14 0x26fc; E 14 0x27fc; E 13 0x6fc; E 15 0x74fc;
  E 15 0x75fc; E 14 0x28fc; E 14 0x29fc; E 14 0x2afc; E 13 0x7fc; E 14 0x2bfc; E 15 0x76fc; E 14 0x2cfc; E 13 0x8fc;
  E 13 0x9fc; E 14 0x2dfc; E 15 0x77fc; E 15 0x78fc; E 15 0x79fc; E 15 0x7afc; E 15 0x7bfc; E 23 0x7ffefc;
  E 19 0x7fcfc; E 22 0x3ffdfc; E 21 0x1ffdfc; X; E 28 0xfffe6fc; E 30 0x3fffd2fc; E 28 0xfffe7fc; E 28 0xfffe8fc;
  E 30 0x3fffd3fc; E 30 0x3fffd4fc; E 30 0x3fffd5fc; E 31 0x7fffd9fc; E 30 0x3fffd6fc; E 31 0x7fffdafc;
  E 31 0x7fffdbfc; E 31 0x7fffdcfc; E 31 0x7fffddfc; E 31 0x7fffdefc; E 32 0xffffebfc; E 31 0x7fffdffc;
  E 32 0xffffecfc; E 32 0xffffedfc; E 30 0x3fffd7fc; E 31 0x7fffe0fc; E 32 0xffffeefc; E 31 0x7fffe1fc;
  E 31 0x7fffe2fc; E 31 0x7fffe3fc; E 31 0x7fffe4fc; E 29 0x1fffdcfc; E 30 0x3fffd8fc; E 31 0x7fffe5fc;
  E 30 0x3fffd9fc; E 31 0x7fffe6fc; E 31 0x7fffe7fc; E 32 0xffffeffc; E 30 0x3fffdafc; E 29 0x1fffddfc;
  E 28 0xfffe9fc; E 30 0x3fffdbfc; E 30 0x3fffdcfc; E 31 0x7fffe8fc; E 31 0x7fffe9fc; E 29 0x1fffdefc;
  E 31 0x7fffeafc; E 30 0x3fffddfc; E 30 0x3fffdefc; E 32 0xfffff0fc; E 29 0x1fffdffc; E 30 0x3fffdffc;
  E 31 0x7fffebfc; E 31 0x7fffecfc; E 29 0x1fffe0fc; E 29 0x1fffe1fc; E 30 0x3fffe0fc; E 29 0x1fffe2fc;
  E 31 0x7fffedfc; E 30 0x3fffe1fc; E 31 0x7fffeefc; E 31 0x7fffeffc; E 28 0xfffeafc; E 30 0x3fffe2fc;
  E 30 0x3fffe3fc; E 30 0x3fffe4fc; E 31 0x7ffff0fc; E 30 0x3fffe5fc; E 30 0x3fffe6fc; E 31 0x7ffff1fc; X; X;
  E 28 0xfffebfc; E 27 0x7fff1fc; E 30 0x3fffe7fc; E 31 0x7ffff2fc; E 30 0x3fffe8fc; X; X; X; X; X; X; X;
  E 32 0xfffff1fc; X; E 27 0x7fff2fc; E 29 0x1fffe3fc; X; X; X; X; X; E 32 0xfffff2fc; E 29 0x1fffe4fc;
  E 29 0x1fffe5fc; X; X; X; X; X; X; E 28 0xfffecfc; E 32 0xfffff3fc; E 28 0xfffedfc; E 29 0x1fffe6fc;
  E 30 0x3fffe9fc; E 29 0x1fffe7fc; E 29 0x1fffe8fc; E 31 0x7ffff3fc; E 30 0x3fffeafc; E 30 0x3fffebfc; X; X;
  E 32 0xfffff4fc; E 32 0xfffff5fc; X; E 31 0x7ffff4fc; X; X; X; X; X; X; X; X; X; X; X; X; X; X; X; X].
Definition hencs_89 : list henc := [
  E 20 0xffc73; E 30 0x3fffec73; X; X; X; X; X; X; X; E 31 0x7ffff573; X; X; X; X; X; X; X; X; X; X; X; X; X; X; X; X;
  X; X; X; X; X; X; E 13 0xa73; E 17 0x1fc73; E 17 0x1fcf3; E 19 0x7fd73; E 20 0xffcf3; E 13 0xaf3; E 15 0x7c73;
  E 18 0x3fd73; E 17 0x1fd73; E 17 0x1fdf3; E 15 0x7cf3; E 18 0x3fdf3; E 15 0x7d73; E 13 0xb73; E 13 0xbf3;
  E 13 0xc73; E 12 0x73; E 12 0xf3; E 12 0x173; E 13 0xcf3; E 13 0xd73; E 13 0xdf3; E 13 0xe73; E 13 0xef3;
  E 13 0xf73; E 13 0xff3; E 14 0x2e73; E 15 0x7df3; E 22 0x3ffe73; E 13 0x1073; E 19 0x7fdf3; E 17 0x1fe73;
  E 20 0xffd73; E 13 0x10f3; E 14 0x2ef3; E 14 0x2f73; E 14 0x2ff3; E 14 0x3073; E 14 0x30f3; E 14 0x3173;
  E 14 0x31f3; E 14 0x3273; E 14 0x32f3; E 14 0x3373; E 14 0x33f3; E 14 0x3473; E 14 0x34f3; E 14 0x3573; E 14 0x35f3;
  E 14 0x3673; E 14 0x36f3; E 14 0x3773; E 14 0x37f3; E 14 0x3873; E 14 0x38f3; E 14 0x3973; E 15 0x7e73; E 14 0x39f3;
  E 15 0x7ef3; E 20 0xffdf3; E 26 0x3fff873; E 20 0xffe73; E 21 0x1ffe73; E 13 0x1173; E 22 0x3ffef3; E 12 0x1f3;
  E 13 0x11f3; E 12 0x273; E 13 0x1273; E 12 0x2f3; E 13 0x12f3; E 13 0x1373; E 13 0x13f3; E 12 0x373; E 14 0x3a73;
  E 14 0x3af3; E 13 0x1473; E 13 0x14f3; E 13 0x1573; E 12 0x3f3; E 13 0x15f3; E 14 0x3b73; E 13 0x1673; E 12 0x473;
  E 12 0x4f3; E 13 0x16f3; E 14 0x3bf3; E 14 0x3c73; E 14 0x3cf3; E 14 0x3d73; E 14 0x3df3; E 22 0x3fff73;
  E 18 0x3fe73; E 21 0x1ffef3; E 20 0xffef3; X; E 27 0x7fff373; E 29 0x1fffe973; E 27 0x7fff3f3; E 27 0x7fff473;
  E 29 0x1fffe9f3; E 29 0x1fffea73; E 29 0x1fffeaf3; E 30 0x3fffecf3; E 29 0x1fffeb73; E 30 0x3fffed73;
  E 30 0x3fffedf3; E 30 0x3fffee73; E 30 0x3fffeef3; E 30 0x3fffef73; E 31 0x7ffff5f3; E 30 0x3fffeff3;
  E 31 0x7ffff673; E 31 0x7ffff6f3; E 29 0x1fffebf3; E 30 0x3ffff073; E 31 0x7ffff773; E 30 0x3ffff0f3;
  E 30 0x3ffff173; E 30 0x3ffff1f3; E 30 0x3ffff273; E 28 0xfffee73; E 29 0x1fffec73; E 30 0x3ffff2f3;
  E 29 0x1fffecf3; E 30 0x3ffff373; E 30 0x3ffff3f3; E 31 0x7ffff7f3; E 29 0x1fffed73; E 28 0xfffeef3; E 27 0x7fff4f3;
  E 29 0x1fffedf3; E 29 0x1fffee73; E 30 0x3ffff473; E 30 0x3ffff4f3; E 28 0xfffef73; E 30 0x3ffff573;
  E 29 0x1fffeef3; E 29 0x1fffef73; E 31 0x7ffff873; E 28 0xfffeff3; E 29 0x1fffeff3; E 30 0x3ffff5f3;
  E 30 0x3ffff673; E 28 0xffff073; E 28 0xffff0f3; E 29 0x1ffff073; E 28 0xffff173; E 30 0x3ffff6f3; E 29 0x1ffff0f3;
  E 30 0x3ffff773; E 30 0x3ffff7f3; E 27 0x7fff573; E 29 0x1ffff173; E 29 0x1ffff1f3; E 29 0x1ffff273;
  E 30 0x3ffff873; E 29 0x1ffff2f3; E 29 0x1ffff373; E 30 0x3ffff8f3; X; X; E 27 0x7fff5f3; E 26 0x3fff8f3;
  E 29 0x1ffff3f3; E 30 0x3ffff973; E 29 0x1ffff473; E 32 0xfffff673; X; X; X; X; X; X; E 31 0x7ffff8f3;
  E 32 0xfffff6f3; E 26 0x3fff973; E 28 0xffff1f3; X; X; X; X; X; E 31 0x7ffff973; E 28 0xffff273; E 28 0xffff2f3; X;
  X; X; X; X; X; E 27 0x7fff673; E 31 0x7ffff9f3; E 27 0x7fff6f3; E 28 0xffff373; E 29 0x1ffff4f3; E 28 0xffff3f3;
  E 28 0xffff473; E 30 0x3ffff9f3; E 29 0x1ffff573; E 29 0x1ffff5f3; E 32 0xfffff773; E 32 0xfffff7f3;
  E 31 0x7ffffa73; E 31 0x7ffffaf3; X; E 30 0x3ffffa73; X; X; X; X; X; X; X; X; X; X; X; X; X; X; X; X].
Definition hencs_90 : list henc := [
  E 21 0x1ff8fd; E 31 0x7fffd8fd; X; X; X; X; X; X; X; E 32 0xffffeafd; X; X; X; X; X; X; X; X; X; X; X; X; X; X; X;
  X; X; X; X; X; X; X; E 14 0x14fd; E 18 0x3f8fd; E 18 0x3f9fd; E 20 0xffafd; E 21 0x1ff9fd; E 14 0x15fd; E 16 0xf8fd;
  E 19 0x7fafd; E 18 0x3fafd; E 18 0x3fbfd; E 16 0xf9fd; E 19 0x7fbfd; E 16 0xfafd; E 14 0x16fd; E 14 0x17fd;
  E 14 0x18fd; E 13 0xfd; E 13 0x1fd; E 13 0x2fd; E 14 0x19fd; E 14 0x1afd; E 14 0x1bfd; E 14 0x1cfd; E 14 0x1dfd;
  E 14 0x1efd; E 14 0x1ffd; E 15 0x5cfd; E 16 0xfbfd; E 23 0x7ffcfd; E 14 0x20fd; E 20 0xffbfd; E 18 0x3fcfd;
  E 21 0x1ffafd; E 14 0x21fd; E 15 0x5dfd; E 15 0x5efd; E 15 0x5ffd; E 15 0x60fd; E 15 0x61fd; E 15 0x62fd;
  E 15 0x63fd; E 15 0x64fd; E 15 0x65fd; E 15 0x66fd; E 15 0x67fd; E 15 0x68fd; E 15 0x69fd; E 15 0x6afd; E 15 0x6bfd;
  E 15 0x6cfd; E 15 0x6dfd; E 15 0x6efd; E 15 0x6ffd; E 15 0x70fd; E 15 0x71fd; E 15 0x72fd; E 16 0xfcfd; E 15 0x73fd;
  E 16 0xfdfd; E 21 0x1ffbfd; E 27 0x7fff0fd; E 21 0x1ffcfd; E 22 0x3ffcfd; E 14 0x22fd; E 23 0x7ffdfd; E 13 0x3fd;
  E 14 0x23fd; E 13 0x4fd; E 14 0x24fd; E 13 0x5fd; E 14 0x25fd; E 14 0x26fd; E 14 0x27fd; E 13 0x6fd; E 15 0x74fd;
  E 15 0x75fd; E 14 0x28fd; E 14 0x29fd; E 14 0x2afd; E 13 0x7fd; E 14 0x2bfd; E 15 0x76fd; E 14 0x2cfd; E 13 0x8fd;
  E 13 0x9fd; E 14 0x2dfd; E 15 0x77fd; E 15 0x78fd; E 15 0x79fd; E 15 0x7afd; E 15 0x7bfd; E 23 0x7ffefd;
  E 19 0x7fcfd; E 22 0x3ffdfd; E 21 0x1ffdfd; X; E 28 0xfffe6fd; E 30 0x3fffd2fd; E 28 0xfffe7fd; E 28 0xfffe8fd;
  E 30 0x3fffd3fd; E 30 0x3fffd4fd; E 30 0x3fffd5fd; E 31 0x7fffd9fd; E 30 0x3fffd6fd; E 31 0x7fffdafd;
  E 31 0x7fffdbfd; E 31 0x7fffdcfd; E 31 0x7fffddfd; E 31 0x7fffdefd; E 32 0xffffebfd; E 31 0x7fffdffd;
  E 32 0xffffecfd; E 32 0xffffedfd; E 30 0x3fffd7fd; E 31 0x7fffe0fd; E 32 0xffffeefd; E 31 0x7fffe1fd;
  E 31 0x7fffe2fd; E 31 0x7fffe3fd; E 31 0x7fffe4fd; E 29 0x1fffdcfd; E 30 0x3fffd8fd; E 31 0x7fffe5fd;
  E 30 0x3fffd9fd; E 31 0x7fffe6fd; E 31 0x7fffe7fd; E 32 0xffffeffd; E 30 0x3fffdafd; E 29 0x1fffddfd;
  E 28 0xfffe9fd; E 30 0x3fffdbfd; E 30 0x3fffdcfd; E 31 0x7fffe8fd; E 31 0x7fffe9fd; E 29 0x1fffdefd;
  E 31 0x7fffeafd; E 30 0x3fffddfd; E 30 0x3fffdefd; E 32 0xfffff0fd; E 29 0x1fffdffd; E 30 0x3fffdffd;
  E 31 0x7fffebfd; E 31 0x7fffecfd; E 29 0x1fffe0fd; E 29 0x1fffe1fd; E 30 0x3fffe0fd; E 29 0x1fffe2fd;
  E 31 0x7fffedfd; E 30 0x3fffe1fd; E 31 0x7fffeefd; E 31 0x7fffeffd; E 28 0xfffeafd; E 30 0x3fffe2fd;
  E 30 0x3fffe3fd; E 30 0x3fffe4fd; E 31 0x7ffff0fd; E 30 0x3fffe5fd; E 30 0x3fffe6fd; E 31 0x7ffff1fd; X; X;
  E 28 0xfffebfd; E 27 0x7fff1fd; E 30 0x3fffe7fd; E 31 0x7ffff2fd; E 30 0x3fffe8fd; X; X; X; X; X; X; X;
  E 32 0xfffff1fd; X; E 27 0x7fff2fd; E 29 0x1fffe3fd; X; X; X; X; X; E 32 0xfffff2fd; E 29 0x1fffe4fd;
  E 29 0x1fffe5fd; X; X; X; X; X; X; E 28 0xfffecfd; E 32 0xfffff3fd; E 28 0xfffedfd; E 29 0x1fffe6fd;
  E 30 0x3fffe9fd; E 29 0x1fffe7fd; E 29 0x1fffe8fd; E 31 0x7ffff3fd; E 30 0x3fffeafd; E 30 0x3fffebfd; X; X;
  E 32 0xfffff4fd; E 32 0xfffff5fd; X; E 31 0x7ffff4fd; X; X; X; X; X; X; X; X; X; X; X; X; X; X; X; X].
Definition hencs_91 : list henc := [
  E 26 0x3ff1ffb; X; X; X; X; X; X; X; X; X; X; X; X; X; X; X; X; X; X; X; X; X; X; X; X; X; X; X; X; X; X; X;
  E 19 0x29ffb; E 23 0x7f1ffb; E 23 0x7f3ffb; E 25 0x1ff5ffb; E 26 0x3ff3ffb; E 19 0x2bffb; E 21 0x1f1ffb;
  E 24 0xff5ffb; E 23 0x7f5ffb; E 23 0x7f7ffb; E 21 0x1f3ffb; E 24 0xff7ffb; E 21 0x1f5ffb; E 19 0x2dffb;
  E 19 0x2fffb; E 19 0x31ffb; E 18 0x1ffb; E 18 0x3ffb; E 18 0x5ffb; E 19 0x33ffb; E 19 0x35ffb; E 19 0x37ffb;
  E 19 0x39ffb; E 19 0x3bffb; E 19 0x3dffb; E 19 0x3fffb; E 20 0xb9ffb; E 21 0x1f7ffb; E 28 0xfff9ffb; E 19 0x41ffb;
  E 25 0x1ff7ffb; E 23 0x7f9ffb; E 26 0x3ff5ffb; E 19 0x43ffb; E 20 0xbbffb; E 20 0xbdffb; E 20 0xbfffb; E 20 0xc1ffb;
  E 20 0xc3ffb; E 20 0xc5ffb; E 20 0xc7ffb; E 20 0xc9ffb; E 20 0xcbffb; E 20 0xcdffb; E 20 0xcfffb; E 20 0xd1ffb;
  E 20 0xd3ffb; E 20 0xd5ffb; E 20 0xd7ffb; E 20 0xd9ffb; E 20 0xdbffb; E 20 0xddffb; E 20 0xdfffb; E 20 0xe1ffb;
  E 20 0xe3ffb; E 20 0xe5ffb; E 21 0x1f9ffb; E 20 0xe7ffb; E 21 0x1fbffb; E 26 0x3ff7ffb; E 32 0xfffe1ffb;
  E 26 0x3ff9ffb; E 27 0x7ff9ffb; E 19 0x45ffb; E 28 0xfffbffb; E 18 0x7ffb; E 19 0x47ffb; E 18 0x9ffb; E 19 0x49ffb;
  E 18 0xbffb; E 19 0x4bffb; E 19 0x4dffb; E 19 0x4fffb; E 18 0xdffb; E 20 0xe9ffb; E 20 0xebffb; E 19 0x51ffb;
  E 19 0x53ffb; E 19 0x55ffb; E 18 0xfffb; E 19 0x57ffb; E 20 0xedffb; E 19 0x59ffb; E 18 0x11ffb; E 18 0x13ffb;
  E 19 0x5bffb; E 20 0xefffb; E 20 0xf1ffb; E 20 0xf3ffb; E 20 0xf5ffb; E 20 0xf7ffb; E 28 0xfffdffb; E 24 0xff9ffb;
  E 27 0x7ffbffb; E 26 0x3ffbffb; X; X; X; X; X; X; X; X; X; X; X; X; X; X; X; X; X; X; X; X; X; X; X; X; X; X; X; X;
  X; X; X; X; X; X; X; X; X; X; X; X; X; X; X; X; X; X; X; X; X; X; X; X; X; X; X; X; X; X; X; X; X; X; X; X; X; X; X;
  X; E 32 0xfffe3ffb; X; X; X; X; X; X; X; X; X; X; X; X; E 32 0xfffe5ffb; X; X; X; X; X; X; X; X; X; X; X; X; X; X;
  X; X; X; X; X; X; X; X; X; X; X; X; X; X; X; X; X; X; X; X; X; X; X; X; X; X; X; X; X; X; X; X; X].
Definition hencs_92 : list henc := [
  E 32 0xffc7fff0; X; X; X; X; X; X; X; X; X; X; X; X; X; X; X; X; X; X; X; X; X; X; X; X; X; X; X; X; X; X; X;
  E 25 0xa7fff0; E 29 0x1fc7fff0; E 29 0x1fcffff0; E 31 0x7fd7fff0; E 32 0xffcffff0; E 25 0xaffff0; E 27 0x7c7fff0;
  E 30 0x3fd7fff0; E 29 0x1fd7fff0; E 29 0x1fdffff0; E 27 0x7cffff0; E 30 0x3fdffff0; E 27 0x7d7fff0; E 25 0xb7fff0;
  E 25 0xbffff0; E 25 0xc7fff0; E 24 0x7fff0; E 24 0xffff0; E 24 0x17fff0; E 25 0xcffff0; E 25 0xd7fff0;
  E 25 0xdffff0; E 25 0xe7fff0; E 25 0xeffff0; E 25 0xf7fff0; E 25 0xfffff0; E 26 0x2e7fff0; E 27 0x7dffff0; X;
  E 25 0x107fff0; E 31 0x7fdffff0; E 29 0x1fe7fff0; E 32 0xffd7fff0; E 25 0x10ffff0; E 26 0x2effff0; E 26 0x2f7fff0;
  E 26 0x2fffff0; E 26 0x307fff0; E 26 0x30ffff0; E 26 0x317fff0; E 26 0x31ffff0; E 26 0x327fff0; E 26 0x32ffff0;
  E 26 0x337fff0; E 26 0x33ffff0; E 26 0x347fff0; E 26 0x34ffff0; E 26 0x357fff0; E 26 0x35ffff0; E 26 0x367fff0;
  E 26 0x36ffff0; E 26 0x377fff0; E 26 0x37ffff0; E 26 0x387fff0; E 26 0x38ffff0; E 26 0x397fff0; E 27 0x7e7fff0;
  E 26 0x39ffff0; E 27 0x7effff0; E 32 0xffdffff0; X; E 32 0xffe7fff0; X; E 25 0x117fff0; X; E 24 0x1ffff0;
  E 25 0x11ffff0; E 24 0x27fff0; E 25 0x127fff0; E 24 0x2ffff0; E 25 0x12ffff0; E 25 0x137fff0; E 25 0x13ffff0;
  E 24 0x37fff0; E 26 0x3a7fff0; E 26 0x3affff0; E 25 0x147fff0; E 25 0x14ffff0; E 25 0x157fff0; E 24 0x3ffff0;
  E 25 0x15ffff0; E 26 0x3b7fff0; E 25 0x167fff0; E 24 0x47fff0; E 24 0x4ffff0; E 25 0x16ffff0; E 26 0x3bffff0;
  E 26 0x3c7fff0; E 26 0x3cffff0; E 26 0x3d7fff0; E 26 0x3dffff0; X; E 30 0x3fe7fff0; X; E 32 0xffeffff0; X; X; X; X;
  X; X; X; X; X; X; X; X; X; X; X; X; X; X; X; X; X; X; X; X; X; X; X; X; X; X; X; X; X; X; X; X; X; X; X; X; X; X; X;
  X; X; X; X; X; X; X; X; X; X; X; X; X; X; X; X; X; X; X; X; X; X; X; X; X; X; X; X; X; X; X; X; X; X; X; X; X; X; X;
  X; X; X; X; X; X; X; X; X; X; X; X; X; X; X; X; X; X; X; X; X; X; X; X; X; X; X; X; X; X; X; X; X; X; X; X; X; X; X;
  X; X; X; X; X; X; X; X].
Definition hencs_93 : list henc := [
  E 26 0x3ff1ffc; X; X; X; X; X; X; X; X; X; X; X; X; X; X; X; X; X; X; X; X; X; X; X; X; X; X; X; X; X; X; X;
  E 19 0x29ffc; E 23 0x7f1ffc; E 23 0x7f3ffc; E 25 0x1ff5ffc; E 26 0x3ff3ffc; E 19 0x2bffc; E 21 0x1f1ffc;
  E 24 0xff5ffc; E 23 0x7f5ffc; E 23 0x7f7ffc; E 21 0x1f3ffc; E 24 0xff7ffc; E 21 0x1f5ffc; E 19 0x2dffc;
  E 19 0x2fffc; E 19 0x31ffc; E 18 0x1ffc; E 18 0x3ffc; E 18 0x5ffc; E 19 0x33ffc; E 19 0x35ffc; E 19 0x37ffc;
  E 19 0x39ffc; E 19 0x3bffc; E 19 0x3dffc; E 19 0x3fffc; E 20 0xb9ffc; E 21 0x1f7ffc; E 28 0xfff9ffc; E 19 0x41ffc;
  E 25 0x1ff7ffc; E 23 0x7f9ffc; E 26 0x3ff5ffc; E 19 0x43ffc; E 20 0xbbffc; E 20 0xbdffc; E 20 0xbfffc; E 20 0xc1ffc;
  E 20 0xc3ffc; E 20 0xc5ffc; E 20 0xc7ffc; E 20 0xc9ffc; E 20 0xcbffc; E 20 0xcdffc; E 20 0xcfffc; E 20 0xd1ffc;
  E 20 0xd3ffc; E 20 0xd5ffc; E 20 0xd7ffc; E 20 0xd9ffc; E 20 0xdbffc; E 20 0xddffc; E 20 0xdfffc; E 20 0xe1ffc;
  E 20 0xe3ffc; E 20 0xe5ffc; E 21 0x1f9ffc; E 20 0xe7ffc; E 21 0x1fbffc; E 26 0x3ff7ffc; E 32 0xfffe1ffc;
  E 26 0x3ff9ffc; E 27 0x7ff9ffc; E 19 0x45ffc; E 28 0xfffbffc; E 18 0x7ffc; E 19 0x47ffc; E 18 0x9ffc; E 19 0x49ffc;
  E 18 0xbffc; E 19 0x4bffc; E 19 0x4dffc; E 19 0x4fffc; E 18 0xdffc; E 20 0xe9ffc; E 20 0xebffc; E 19 0x51ffc;
  E 19 0x53ffc; E 19 0x55ffc; E 18 0xfffc; E 19 0x57ffc; E 20 0xedffc; E 19 0x59ffc; E 18 0x11ffc; E 18 0x13ffc;
  E 19 0x5bffc; E 20 0xefffc; E 20 0xf1ffc; E 20 0xf3ffc; E 20 0xf5ffc; E 20 0xf7ffc; E 28 0xfffdffc; E 24 0xff9ffc;
  E 27 0x7ffbffc; E 26 0x3ffbffc; X; X; X; X; X; X; X; X; X; X; X; X; X; X; X; X; X; X; X; X; X; X; X; X; X; X; X; X;
  X; X; X; X; X; X; X; X; X; X; X; X; X; X; X; X; X; X; X; X; X; X; X; X; X; X; X; X; X; X; X; X; X; X; X; X; X; X; X;
  X; E 32 0xfffe3ffc; X; X; X; X; X; X; X; X; X; X; X; X; E 32 0xfffe5ffc; X; X; X; X; X; X; X; X; X; X; X; X; X; X;
  X; X; X; X; X; X; X; X; X; X; X; X; X; X; X; X; X; X; X; X; X; X; X; X; X; X; X; X; X; X; X; X; X].
Definition hencs_94 : list henc := [
  E 27 0x7fe3ffc; X; X; X; X; X; X; X; X; X; X; X; X; X; X; X; X; X; X; X; X; X; X; X; X; X; X; X; X; X; X; X;
  E 20 0x53ffc; E 24 0xfe3ffc; E 24 0xfe7ffc; E 26 0x3febffc; E 27 0x7fe7ffc; E 20 0x57ffc; E 22 0x3e3ffc;
  E 25 0x1febffc; E 24 0xfebffc; E 24 0xfefffc; E 22 0x3e7ffc; E 25 0x1fefffc; E 22 0x3ebffc; E 20 0x5bffc;
  E 20 0x5fffc; E 20 0x63ffc; E 19 0x3ffc; E 19 0x7ffc; E 19 0xbffc; E 20 0x67ffc; E 20 0x6bffc; E 20 0x6fffc;
  E 20 0x73ffc; E 20 0x77ffc; E 20 0x7bffc; E 20 0x7fffc; E 21 0x173ffc; E 22 0x3efffc; E 29 0x1fff3ffc; E 20 0x83ffc;
  E 26 0x3fefffc; E 24 0xff3ffc; E 27 0x7febffc; E 20 0x87ffc; E 21 0x177ffc; E 21 0x17bffc; E 21 0x17fffc;
  E 21 0x183ffc; E 21 0x187ffc; E 21 0x18bffc; E 21 0x18fffc; E 21 0x193ffc; E 21 0x197ffc; E 21 0x19bffc;
  E 21 0x19fffc; E 21 0x1a3ffc; E 21 0x1a7ffc; E 21 0x1abffc; E 21 0x1afffc; E 21 0x1b3ffc; E 21 0x1b7ffc;
  E 21 0x1bbffc; E 21 0x1bfffc; E 21 0x1c3ffc; E 21 0x1c7ffc; E 21 0x1cbffc; E 22 0x3f3ffc; E 21 0x1cfffc;
  E 22 0x3f7ffc; E 27 0x7fefffc; X; E 27 0x7ff3ffc; E 28 0xfff3ffc; E 20 0x8bffc; E 29 0x1fff7ffc; E 19 0xfffc;
  E 20 0x8fffc; E 19 0x13ffc; E 20 0x93ffc; E 19 0x17ffc; E 20 0x97ffc; E 20 0x9bffc; E 20 0x9fffc; E 19 0x1bffc;
  E 21 0x1d3ffc; E 21 0x1d7ffc; E 20 0xa3ffc; E 20 0xa7ffc; E 20 0xabffc; E 19 0x1fffc; E 20 0xafffc; E 21 0x1dbffc;
  E 20 0xb3ffc; E 19 0x23ffc; E 19 0x27ffc; E 20 0xb7ffc; E 21 0x1dfffc; E 21 0x1e3ffc; E 21 0x1e7ffc; E 21 0x1ebffc;
  E 21 0x1efffc; E 29 0x1fffbffc; E 25 0x1ff3ffc; E 28 0xfff7ffc; E 27 0x7ff7ffc; X; X; X; X; X; X; X; X; X; X; X; X;
  X; X; X; X; X; X; X; X; X; X; X; X; X; X; X; X; X; X; X; X; X; X; X; X; X; X; X; X; X; X; X; X; X; X; X; X; X; X; X;
  X; X; X; X; X; X; X; X; X; X; X; X; X; X; X; X; X; X; X; X; X; X; X; X; X; X; X; X; X; X; X; X; X; X; X; X; X; X; X;
  X; X; X; X; X; X; X; X; X; X; X; X; X; X; X; X; X; X; X; X; X; X; X; X; X; X; X; X; X; X; X; X; X; X; X; X; X; X; X].
Definition hencs_95 : list henc := [
  E 19 0x7fe22; E 29 0x1ffff622; X; X; X; X; X; X; X; E 30 0x3ffffaa2; X; X; X; X; X; X; X; X; X; X; X; X; X; X; X; X;
  X; X; X; X; X; X; E 12 0x522; E 16 0xfe22; E 16 0xfe62; E 18 0x3fea2; E 19 0x7fe62; E 12 0x562; E 14 0x3e22;
  E 17 0x1fea2; E 16 0xfea2; E 16 0xfee2; E 14 0x3e62; E 17 0x1fee2; E 14 0x3ea2; E 12 0x5a2; E 12 0x5e2; E 12 0x622;
  E 11 0x22; E 11 0x62; E 11 0xa2; E 12 0x662; E 12 0x6a2; E 12 0x6e2; E 12 0x722; E 12 0x762; E 12 0x7a2; E 12 0x7e2;
  E 13 0x1722; E 14 0x3ee2; E 21 0x1fff22; E 12 0x822; E 18 0x3fee2; E 16 0xff22; E 19 0x7fea2; E 12 0x862;
  E 13 0x1762; E 13 0x17a2; E 13 0x17e2; E 13 0x1822; E 13 0x1862; E 13 0x18a2; E 13 0x18e2; E 13 0x1922; E 13 0x1962;
  E 13 0x19a2; E 13 0x19e2; E 13 0x1a22; E 13 0x1a62; E 13 0x1aa2; E 13 0x1ae2; E 13 0x1b22; E 13 0x1b62; E 13 0x1ba2;
  E 13 0x1be2; E 13 0x1c22; E 13 0x1c62; E 13 0x1ca2; E 14 0x3f22; E 13 0x1ce2; E 14 0x3f62; E 19 0x7fee2;
  E 25 0x1fffc22; E 19 0x7ff22; E 20 0xfff22; E 12 0x8a2; E 21 0x1fff62; E 11 0xe2; E 12 0x8e2; E 11 0x122;
  E 12 0x922; E 11 0x162; E 12 0x962; E 12 0x9a2; E 12 0x9e2; E 11 0x1a2; E 13 0x1d22; E 13 0x1d62; E 12 0xa22;
  E 12 0xa62; E 12 0xaa2; E 11 0x1e2; E 12 0xae2; E 13 0x1da2; E 12 0xb22; E 11 0x222; E 11 0x262; E 12 0xb62;
  E 13 0x1de2; E 13 0x1e22; E 13 0x1e62; E 13 0x1ea2; E 13 0x1ee2; E 21 0x1fffa2; E 17 0x1ff22; E 20 0xfff62;
  E 19 0x7ff62; X; E 26 0x3fff9a2; E 28 0xffff4a2; E 26 0x3fff9e2; E 26 0x3fffa22; E 28 0xffff4e2; E 28 0xffff522;
  E 28 0xffff562; E 29 0x1ffff662; E 28 0xffff5a2; E 29 0x1ffff6a2; E 29 0x1ffff6e2; E 29 0x1ffff722; E 29 0x1ffff762;
  E 29 0x1ffff7a2; E 30 0x3ffffae2; E 29 0x1ffff7e2; E 30 0x3ffffb22; E 30 0x3ffffb62; E 28 0xffff5e2;
  E 29 0x1ffff822; E 30 0x3ffffba2; E 29 0x1ffff862; E 29 0x1ffff8a2; E 29 0x1ffff8e2; E 29 0x1ffff922;
  E 27 0x7fff722; E 28 0xffff622; E 29 0x1ffff962; E 28 0xffff662; E 29 0x1ffff9a2; E 29 0x1ffff9e2; E 30 0x3ffffbe2;
  E 28 0xffff6a2; E 27 0x7fff762; E 26 0x3fffa62; E 28 0xffff6e2; E 28 0xffff722; E 29 0x1ffffa22; E 29 0x1ffffa62;
  E 27 0x7fff7a2; E 29 0x1ffffaa2; E 28 0xffff762; E 28 0xffff7a2; E 30 0x3ffffc22; E 27 0x7fff7e2; E 28 0xffff7e2;
  E 29 0x1ffffae2; E 29 0x1ffffb22; E 27 0x7fff822; E 27 0x7fff862; E 28 0xffff822; E 27 0x7fff8a2; E 29 0x1ffffb62;
  E 28 0xffff862; E 29 0x1ffffba2; E 29 0x1ffffbe2; E 26 0x3fffaa2; E 28 0xffff8a2; E 28 0xffff8e2; E 28 0xffff922;
  E 29 0x1ffffc22; E 28 0xffff962; E 28 0xffff9a2; E 29 0x1ffffc62; E 32 0xfffff822; E 32 0xfffff862; E 26 0x3fffae2;
  E 25 0x1fffc62; E 28 0xffff9e2; E 29 0x1ffffca2; E 28 0xffffa22; E 31 0x7ffffb22; E 32 0xfffff8a2; E 32 0xfffff8e2;
  E 32 0xfffff922; X; X; E 32 0xfffff962; E 30 0x3ffffc62; E 31 0x7ffffb62; E 25 0x1fffca2; E 27 0x7fff8e2;
  E 32 0xfffff9a2; X; X; E 32 0xfffff9e2; X; E 30 0x3ffffca2; E 27 0x7fff922; E 27 0x7fff962; E 32 0xfffffa22;
  E 32 0xfffffa62; X; X; X; X; E 26 0x3fffb22; E 30 0x3ffffce2; E 26 0x3fffb62; E 27 0x7fff9a2; E 28 0xffffa62;
  E 27 0x7fff9e2; E 27 0x7fffa22; E 29 0x1ffffce2; E 28 0xffffaa2; E 28 0xffffae2; E 31 0x7ffffba2; E 31 0x7ffffbe2;
  E 30 0x3ffffd22; E 30 0x3ffffd62; E 32 0xfffffaa2; E 29 0x1ffffd22; E 32 0xfffffae2; X; E 32 0xfffffb22;
  E 32 0xfffffb62; X; X; X; X; X; X; X; X; X; X; X; E 32 0xfffffba2].
Definition hencs_96 : list henc := [
  E 28 0xffc7ffd; X; X; X; X; X; X; X; X; X; X; X; X; X; X; X; X; X; X; X; X; X; X; X; X; X; X; X; X; X; X; X;
  E 21 0xa7ffd; E 25 0x1fc7ffd; E 25 0x1fcfffd; E 27 0x7fd7ffd; E 28 0xffcfffd; E 21 0xafffd; E 23 0x7c7ffd;
  E 26 0x3fd7ffd; E 25 0x1fd7ffd; E 25 0x1fdfffd; E 23 0x7cfffd; E 26 0x3fdfffd; E 23 0x7d7ffd; E 21 0xb7ffd;
  E 21 0xbfffd; E 21 0xc7ffd; E 20 0x7ffd; E 20 0xfffd; E 20 0x17ffd; E 21 0xcfffd; E 21 0xd7ffd; E 21 0xdfffd;
  E 21 0xe7ffd; E 21 0xefffd; E 21 0xf7ffd; E 21 0xffffd; E 22 0x2e7ffd; E 23 0x7dfffd; E 30 0x3ffe7ffd;
  E 21 0x107ffd; E 27 0x7fdfffd; E 25 0x1fe7ffd; E 28 0xffd7ffd; E 21 0x10fffd; E 22 0x2efffd; E 22 0x2f7ffd;
  E 22 0x2ffffd; E 22 0x307ffd; E 22 0x30fffd; E 22 0x317ffd; E 22 0x31fffd; E 22 0x327ffd; E 22 0x32fffd;
  E 22 0x337ffd; E 22 0x33fffd; E 22 0x347ffd; E 22 0x34fffd; E 22 0x357ffd; E 22 0x35fffd; E 22 0x367ffd;
  E 22 0x36fffd; E 22 0x377ffd; E 22 0x37fffd; E 22 0x387ffd; E 22 0x38fffd; E 22 0x397ffd; E 23 0x7e7ffd;
  E 22 0x39fffd; E 23 0x7efffd; E 28 0xffdfffd; X; E 28 0xffe7ffd; E 29 0x1ffe7ffd; E 21 0x117ffd; E 30 0x3ffefffd;
  E 20 0x1fffd; E 21 0x11fffd; E 20 0x27ffd; E 21 0x127ffd; E 20 0x2fffd; E 21 0x12fffd; E 21 0x137ffd; E 21 0x13fffd;
  E 20 0x37ffd; E 22 0x3a7ffd; E 22 0x3afffd; E 21 0x147ffd; E 21 0x14fffd; E 21 0x157ffd; E 20 0x3fffd;
  E 21 0x15fffd; E 22 0x3b7ffd; E 21 0x167ffd; E 20 0x47ffd; E 20 0x4fffd; E 21 0x16fffd; E 22 0x3bfffd;
  E 22 0x3c7ffd; E 22 0x3cfffd; E 22 0x3d7ffd; E 22 0x3dfffd; E 30 0x3fff7ffd; E 26 0x3fe7ffd; E 29 0x1ffefffd;
  E 28 0xffefffd; X; X; X; X; X; X; X; X; X; X; X; X; X; X; X; X; X; X; X; X; X; X; X; X; X; X; X; X; X; X; X; X; X;
  X; X; X; X; X; X; X; X; X; X; X; X; X; X; X; X; X; X; X; X; X; X; X; X; X; X; X; X; X; X; X; X; X; X; X; X; X; X; X;
  X; X; X; X; X; X; X; X; X; X; X; X; X; X; X; X; X; X; X; X; X; X; X; X; X; X; X; X; X; X; X; X; X; X; X; X; X; X; X;
  X; X; X; X; X; X; X; X; X; X; X; X; X; X; X; X; X; X].
Definition hencs_97 : list henc := [
  E 18 0x3ff03; E 28 0xffffb03; X; X; X; X; X; X; X; E 29 0x1ffffd43; X; X; X; X; X; X; X; X; X; X; X; X; X; X; X; X;
  X; X; X; X; X; X; E 11 0x283; E 15 0x7f03; E 15 0x7f23; E 17 0x1ff43; E 18 0x3ff23; E 11 0x2a3; E 13 0x1f03;
  E 16 0xff43; E 15 0x7f43; E 15 0x7f63; E 13 0x1f23; E 16 0xff63; E 13 0x1f43; E 11 0x2c3; E 11 0x2e3; E 11 0x303;
  E 10 0x3; E 10 0x23; E 10 0x43; E 11 0x323; E 11 0x343; E 11 0x363; E 11 0x383; E 11 0x3a3; E 11 0x3c3; E 11 0x3e3;
  E 12 0xb83; E 13 0x1f63; E 20 0xfff83; E 11 0x403; E 17 0x1ff63; E 15 0x7f83; E 18 0x3ff43; E 11 0x423; E 12 0xba3;
  E 12 0xbc3; E 12 0xbe3; E 12 0xc03; E 12 0xc23; E 12 0xc43; E 12 0xc63; E 12 0xc83; E 12 0xca3; E 12 0xcc3;
  E 12 0xce3; E 12 0xd03; E 12 0xd23; E 12 0xd43; E 12 0xd63; E 12 0xd83; E 12 0xda3; E 12 0xdc3; E 12 0xde3;
  E 12 0xe03; E 12 0xe23; E 12 0xe43; E 13 0x1f83; E 12 0xe63; E 13 0x1fa3; E 18 0x3ff63; E 24 0xfffe03; E 18 0x3ff83;
  E 19 0x7ff83; E 11 0x443; E 20 0xfffa3; E 10 0x63; E 11 0x463; E 10 0x83; E 11 0x483; E 10 0xa3; E 11 0x4a3;
  E 11 0x4c3; E 11 0x4e3; E 10 0xc3; E 12 0xe83; E 12 0xea3; E 11 0x503; E 11 0x523; E 11 0x543; E 10 0xe3;
  E 11 0x563; E 12 0xec3; E 11 0x583; E 10 0x103; E 10 0x123; E 11 0x5a3; E 12 0xee3; E 12 0xf03; E 12 0xf23;
  E 12 0xf43; E 12 0xf63; E 20 0xfffc3; E 16 0xff83; E 19 0x7ffa3; E 18 0x3ffa3; X; E 25 0x1fffcc3; E 27 0x7fffa43;
  E 25 0x1fffce3; E 25 0x1fffd03; E 27 0x7fffa63; E 27 0x7fffa83; E 27 0x7fffaa3; E 28 0xffffb23; E 27 0x7fffac3;
  E 28 0xffffb43; E 28 0xffffb63; E 28 0xffffb83; E 28 0xffffba3; E 28 0xffffbc3; E 29 0x1ffffd63; E 28 0xffffbe3;
  E 29 0x1ffffd83; E 29 0x1ffffda3; E 27 0x7fffae3; E 28 0xffffc03; E 29 0x1ffffdc3; E 28 0xffffc23; E 28 0xffffc43;
  E 28 0xffffc63; E 28 0xffffc83; E 26 0x3fffb83; E 27 0x7fffb03; E 28 0xffffca3; E 27 0x7fffb23; E 28 0xffffcc3;
  E 28 0xffffce3; E 29 0x1ffffde3; E 27 0x7fffb43; E 26 0x3fffba3; E 25 0x1fffd23; E 27 0x7fffb63; E 27 0x7fffb83;
  E 28 0xffffd03; E 28 0xffffd23; E 26 0x3fffbc3; E 28 0xffffd43; E 27 0x7fffba3; E 27 0x7fffbc3; E 29 0x1ffffe03;
  E 26 0x3fffbe3; E 27 0x7fffbe3; E 28 0xffffd63; E 28 0xffffd83; E 26 0x3fffc03; E 26 0x3fffc23; E 27 0x7fffc03;
  E 26 0x3fffc43; E 28 0xffffda3; E 27 0x7fffc23; E 28 0xffffdc3; E 28 0xffffde3; E 25 0x1fffd43; E 27 0x7fffc43;
  E 27 0x7fffc63; E 27 0x7fffc83; E 28 0xffffe03; E 27 0x7fffca3; E 27 0x7fffcc3; E 28 0xffffe23; E 31 0x7ffffc03;
  E 31 0x7ffffc23; E 25 0x1fffd63; E 24 0xfffe23; E 27 0x7fffce3; E 28 0xffffe43; E 27 0x7fffd03; E 30 0x3ffffd83;
  E 31 0x7ffffc43; E 31 0x7ffffc63; E 31 0x7ffffc83; E 32 0xfffffbc3; E 32 0xfffffbe3; E 31 0x7ffffca3;
  E 29 0x1ffffe23; E 30 0x3ffffda3; E 24 0xfffe43; E 26 0x3fffc63; E 31 0x7ffffcc3; E 32 0xfffffc03; E 32 0xfffffc23;
  E 31 0x7ffffce3; E 32 0xfffffc43; E 29 0x1ffffe43; E 26 0x3fffc83; E 26 0x3fffca3; E 31 0x7ffffd03; E 31 0x7ffffd23;
  X; E 32 0xfffffc63; E 32 0xfffffc83; E 32 0xfffffca3; E 25 0x1fffd83; E 29 0x1ffffe63; E 25 0x1fffda3;
  E 26 0x3fffcc3; E 27 0x7fffd23; E 26 0x3fffce3; E 26 0x3fffd03; E 28 0xffffe63; E 27 0x7fffd43; E 27 0x7fffd63;
  E 30 0x3ffffdc3; E 30 0x3ffffde3; E 29 0x1ffffe83; E 29 0x1ffffea3; E 31 0x7ffffd43; E 28 0xffffe83;
  E 31 0x7ffffd63; E 32 0xfffffcc3; E 31 0x7ffffd83; E 31 0x7ffffda3; E 32 0xfffffce3; E 32 0xfffffd03;
  E 32 0xfffffd23; E 32 0xfffffd43; E 32 0xfffffd63; X; E 32 0xfffffd83; E 32 0xfffffda3; E 32 0xfffffdc3;
  E 32 0xfffffde3; E 32 0xfffffe03; E 31 0x7ffffdc3].
Definition hencs_98 : list henc := [
  E 19 0x7fe23; E 29 0x1ffff623; X; X; X; X; X; X; X; E 30 0x3ffffaa3; X; X; X; X; X; X; X; X; X; X; X; X; X; X; X; X;
  X; X; X; X; X; X; E 12 0x523; E 16 0xfe23; E 16 0xfe63; E 18 0x3fea3; E 19 0x7fe63; E 12 0x563; E 14 0x3e23;
  E 17 0x1fea3; E 16 0xfea3; E 16 0xfee3; E 14 0x3e63; E 17 0x1fee3; E 14 0x3ea3; E 12 0x5a3; E 12 0x5e3; E 12 0x623;
  E 11 0x23; E 11 0x63; E 11 0xa3; E 12 0x663; E 12 0x6a3; E 12 0x6e3; E 12 0x723; E 12 0x763; E 12 0x7a3; E 12 0x7e3;
  E 13 0x1723; E 14 0x3ee3; E 21 0x1fff23; E 12 0x823; E 18 0x3fee3; E 16 0xff23; E 19 0x7fea3; E 12 0x863;
  E 13 0x1763; E 13 0x17a3; E 13 0x17e3; E 13 0x1823; E 13 0x1863; E 13 0x18a3; E 13 0x18e3; E 13 0x1923; E 13 0x1963;
  E 13 0x19a3; E 13 0x19e3; E 13 0x1a23; E 13 0x1a63; E 13 0x1aa3; E 13 0x1ae3; E 13 0x1b23; E 13 0x1b63; E 13 0x1ba3;
  E 13 0x1be3; E 13 0x1c23; E 13 0x1c63; E 13 0x1ca3; E 14 0x3f23; E 13 0x1ce3; E 14 0x3f63; E 19 0x7fee3;
  E 25 0x1fffc23; E 19 0x7ff23; E 20 0xfff23; E 12 0x8a3; E 21 0x1fff63; E 11 0xe3; E 12 0x8e3; E 11 0x123;
  E 12 0x923; E 11 0x163; E 12 0x963; E 12 0x9a3; E 12 0x9e3; E 11 0x1a3; E 13 0x1d23; E 13 0x1d63; E 12 0xa23;
  E 12 0xa63; E 12 0xaa3; E 11 0x1e3; E 12 0xae3; E 13 0x1da3; E 12 0xb23; E 11 0x223; E 11 0x263; E 12 0xb63;
  E 13 0x1de3; E 13 0x1e23; E 13 0x1e63; E 13 0x1ea3; E 13 0x1ee3; E 21 0x1fffa3; E 17 0x1ff23; E 20 0xfff63;
  E 19 0x7ff63; X; E 26 0x3fff9a3; E 28 0xffff4a3; E 26 0x3fff9e3; E 26 0x3fffa23; E 28 0xffff4e3; E 28 0xffff523;
  E 28 0xffff563; E 29 0x1ffff663; E 28 0xffff5a3; E 29 0x1ffff6a3; E 29 0x1ffff6e3; E 29 0x1ffff723; E 29 0x1ffff763;
  E 29 0x1ffff7a3; E 30 0x3ffffae3; E 29 0x1ffff7e3; E 30 0x3ffffb23; E 30 0x3ffffb63; E 28 0xffff5e3;
  E 29 0x1ffff823; E 30 0x3ffffba3; E 29 0x1ffff863; E 29 0x1ffff8a3; E 29 0x1ffff8e3; E 29 0x1ffff923;
  E 27 0x7fff723; E 28 0xffff623; E 29 0x1ffff963; E 28 0xffff663; E 29 0x1ffff9a3; E 29 0x1ffff9e3; E 30 0x3ffffbe3;
  E 28 0xffff6a3; E 27 0x7fff763; E 26 0x3fffa63; E 28 0xffff6e3; E 28 0xffff723; E 29 0x1ffffa23; E 29 0x1ffffa63;
  E 27 0x7fff7a3; E 29 0x1ffffaa3; E 28 0xffff763; E 28 0xffff7a3; E 30 0x3ffffc23; E 27 0x7fff7e3; E 28 0xffff7e3;
  E 29 0x1ffffae3; E 29 0x1ffffb23; E 27 0x7fff823; E 27 0x7fff863; E 28 0xffff823; E 27 0x7fff8a3; E 29 0x1ffffb63;
  E 28 0xffff863; E 29 0x1ffffba3; E 29 0x1ffffbe3; E 26 0x3fffaa3; E 28 0xffff8a3; E 28 0xffff8e3; E 28 0xffff923;
  E 29 0x1ffffc23; E 28 0xffff963; E 28 0xffff9a3; E 29 0x1ffffc63; E 32 0xfffff823; E 32 0xfffff863; E 26 0x3fffae3;
  E 25 0x1fffc63; E 28 0xffff9e3; E 29 0x1ffffca3; E 28 0xffffa23; E 31 0x7ffffb23; E 32 0xfffff8a3; E 32 0xfffff8e3;
  E 32 0xfffff923; X; X; E 32 0xfffff963; E 30 0x3ffffc63; E 31 0x7ffffb63; E 25 0x1fffca3; E 27 0x7fff8e3;
  E 32 0xfffff9a3; X; X; E 32 0xfffff9e3; X; E 30 0x3ffffca3; E 27 0x7fff923; E 27 0x7fff963; E 32 0xfffffa23;
  E 32 0xfffffa63; X; X; X; X; E 26 0x3fffb23; E 30 0x3ffffce3; E 26 0x3fffb63; E 27 0x7fff9a3; E 28 0xffffa63;
  E 27 0x7fff9e3; E 27 0x7fffa23; E 29 0x1ffffce3; E 28 0xffffaa3; E 28 0xffffae3; E 31 0x7ffffba3; E 31 0x7ffffbe3;
  E 30 0x3ffffd23; E 30 0x3ffffd63; E 32 0xfffffaa3; E 29 0x1ffffd23; E 32 0xfffffae3; X; E 32 0xfffffb23;
  E 32 0xfffffb63; X; X; X; X; X; X; X; X; X; X; X; E 32 0xfffffba3].
Definition hencs_99 : list henc := [
  E 18 0x3ff04; E 28 0xffffb04; X; X; X; X; X; X; X; E 29 0x1ffffd44; X; X; X; X; X; X; X; X; X; X; X; X; X; X; X; X;
  X; X; X; X; X; X; E 11 0x284; E 15 0x7f04; E 15 0x7f24; E 17 0x1ff44; E 18 0x3ff24; E 11 0x2a4; E 13 0x1f04;
  E 16 0xff44; E 15 0x7f44; E 15 0x7f64; E 13 0x1f24; E 16 0xff64; E 13 0x1f44; E 11 0x2c4; E 11 0x2e4; E 11 0x304;
  E 10 0x4; E 10 0x24; E 10 0x44; E 11 0x324; E 11 0x344; E 11 0x364; E 11 0x384; E 11 0x3a4; E 11 0x3c4; E 11 0x3e4;
  E 12 0xb84; E 13 0x1f64; E 20 0xfff84; E 11 0x404; E 17 0x1ff64; E 15 0x7f84; E 18 0x3ff44; E 11 0x424; E 12 0xba4;
  E 12 0xbc4; E 12 0xbe4; E 12 0xc04; E 12 0xc24; E 12 0xc44; E 12 0xc64; E 12 0xc84; E 12 0xca4; E 12 0xcc4;
  E 12 0xce4; E 12 0xd04; E 12 0xd24; E 12 0xd44; E 12 0xd64; E 12 0xd84; E 12 0xda4; E 12 0xdc4; E 12 0xde4;
  E 12 0xe04; E 12 0xe24; E 12 0xe44; E 13 0x1f84; E 12 0xe64; E 13 0x1fa4; E 18 0x3ff64; E 24 0xfffe04; E 18 0x3ff84;
  E 19 0x7ff84; E 11 0x444; E 20 0xfffa4; E 10 0x64; E 11 0x464; E 10 0x84; E 11 0x484; E 10 0xa4; E 11 0x4a4;
  E 11 0x4c4; E 11 0x4e4; E 10 0xc4; E 12 0xe84; E 12 0xea4; E 11 0x504; E 11 0x524; E 11 0x544; E 10 0xe4;
  E 11 0x564; E 12 0xec4; E 11 0x584; E 10 0x104; E 10 0x124; E 11 0x5a4; E 12 0xee4; E 12 0xf04; E 12 0xf24;
  E 12 0xf44; E 12 0xf64; E 20 0xfffc4; E 16 0xff84; E 19 0x7ffa4; E 18 0x3ffa4; X; E 25 0x1fffcc4; E 27 0x7fffa44;
  E 25 0x1fffce4; E 25 0x1fffd04; E 27 0x7fffa64; E 27 0x7fffa84; E 27 0x7fffaa4; E 28 0xffffb24; E 27 0x7fffac4;
  E 28 0xffffb44; E 28 0xffffb64; E 28 0xffffb84; E 28 0xffffba4; E 28 0xffffbc4; E 29 0x1ffffd64; E 28 0xffffbe4;
  E 29 0x1ffffd84; E 29 0x1ffffda4; E 27 0x7fffae4; E 28 0xffffc04; E 29 0x1ffffdc4; E 28 0xffffc24; E 28 0xffffc44;
  E 28 0xffffc64; E 28 0xffffc84; E 26 0x3fffb84; E 27 0x7fffb04; E 28 0xffffca4; E 27 0x7fffb24; E 28 0xffffcc4;
  E 28 0xffffce4; E 29 0x1ffffde4; E 27 0x7fffb44; E 26 0x3fffba4; E 25 0x1fffd24; E 27 0x7fffb64; E 27 0x7fffb84;
  E 28 0xffffd04; E 28 0xffffd24; E 26 0x3fffbc4; E 28 0xffffd44; E 27 0x7fffba4; E 27 0x7fffbc4; E 29 0x1ffffe04;
  E 26 0x3fffbe4; E 27 0x7fffbe4; E 28 0xffffd64; E 28 0xffffd84; E 26 0x3fffc04; E 26 0x3fffc24; E 27 0x7fffc04;
  E 26 0x3fffc44; E 28 0xffffda4; E 27 0x7fffc24; E 28 0xffffdc4; E 28 0xffffde4; E 25 0x1fffd44; E 27 0x7fffc44;
  E 27 0x7fffc64; E 27 0x7fffc84; E 28 0xffffe04; E 27 0x7fffca4; E 27 0x7fffcc4; E 28 0xffffe24; E 31 0x7ffffc04;
  E 31 0x7ffffc24; E 25 0x1fffd64; E 24 0xfffe24; E 27 0x7fffce4; E 28 0xffffe44; E 27 0x7fffd04; E 30 0x3ffffd84;
  E 31 0x7ffffc44; E 31 0x7ffffc64; E 31 0x7ffffc84; E 32 0xfffffbc4; E 32 0xfffffbe4; E 31 0x7ffffca4;
  E 29 0x1ffffe24; E 30 0x3ffffda4; E 24 0xfffe44; E 26 0x3fffc64; E 31 0x7ffffcc4; E 32 0xfffffc04; E 32 0xfffffc24;
  E 31 0x7ffffce4; E 32 0xfffffc44; E 29 0x1ffffe44; E 26 0x3fffc84; E 26 0x3fffca4; E 31 0x7ffffd04; E 31 0x7ffffd24;
  X; E 32 0xfffffc64; E 32 0xfffffc84; E 32 0xfffffca4; E 25 0x1fffd84; E 29 0x1ffffe64; E 25 0x1fffda4;
  E 26 0x3fffcc4; E 27 0x7fffd24; E 26 0x3fffce4; E 26 0x3fffd04; E 28 0xffffe64; E 27 0x7fffd44; E 27 0x7fffd64;
  E 30 0x3ffffdc4; E 30 0x3ffffde4; E 29 0x1ffffe84; E 29 0x1ffffea4; E 31 0x7ffffd44; E 28 0xffffe84;
  E 31 0x7ffffd64; E 32 0xfffffcc4; E 31 0x7ffffd84; E 31 0x7ffffda4; E 32 0xfffffce4; E 32 0xfffffd04;
  E 32 0xfffffd24; E 32 0xfffffd44; E 32 0xfffffd64; X; E 32 0xfffffd84; E 32 0xfffffda4; E 32 0xfffffdc4;
  E 32 0xfffffde4; E 32 0xfffffe04; E 31 0x7ffffdc4].
Definition hencs_100 : list henc := [
  E 19 0x7fe24; E 29 0x1ffff624; X; X; X; X; X; X; X; E 30 0x3ffffaa4; X; X; X; X; X; X; X; X; X; X; X; X; X; X; X; X;
  X; X; X; X; X; X; E 12 0x524; E 16 0xfe24; E 16 0xfe64; E 18 0x3fea4; E 19 0x7fe64; E 12 0x564; E 14 0x3e24;
  E 17 0x1fea4; E 16 0xfea4; E 16 0xfee4; E 14 0x3e64; E 17 0x1fee4; E 14 0x3ea4; E 12 0x5a4; E 12 0x5e4; E 12 0x624;
  E 11 0x24; E 11 0x64; E 11 0xa4; E 12 0x664; E 12 0x6a4; E 12 0x6e4; E 12 0x724; E 12 0x764; E 12 0x7a4; E 12 0x7e4;
  E 13 0x1724; E 14 0x3ee4; E 21 0x1fff24; E 12 0x824; E 18 0x3fee4; E 16 0xff24; E 19 0x7fea4; E 12 0x864;
  E 13 0x1764; E 13 0x17a4; E 13 0x17e4; E 13 0x1824; E 13 0x1864; E 13 0x18a4; E 13 0x18e4; E 13 0x1924; E 13 0x1964;
  E 13 0x19a4; E 13 0x19e4; E 13 0x1a24; E 13 0x1a64; E 13 0x1aa4; E 13 0x1ae4; E 13 0x1b24; E 13 0x1b64; E 13 0x1ba4;
  E 13 0x1be4; E 13 0x1c24; E 13 0x1c64; E 13 0x1ca4; E 14 0x3f24; E 13 0x1ce4; E 14 0x3f64; E 19 0x7fee4;
  E 25 0x1fffc24; E 19 0x7ff24; E 20 0xfff24; E 12 0x8a4; E 21 0x1fff64; E 11 0xe4; E 12 0x8e4; E 11 0x124;
  E 12 0x924; E 11 0x164; E 12 0x964; E 12 0x9a4; E 12 0x9e4; E 11 0x1a4; E 13 0x1d24; E 13 0x1d64; E 12 0xa24;
  E 12 0xa64; E 12 0xaa4; E 11 0x1e4; E 12 0xae4; E 13 0x1da4; E 12 0xb24; E 11 0x224; E 11 0x264; E 12 0xb64;
  E 13 0x1de4; E 13 0x1e24; E 13 0x1e64; E 13 0x1ea4; E 13 0x1ee4; E 21 0x1fffa4; E 17 0x1ff24; E 20 0xfff64;
  E 19 0x7ff64; X; E 26 0x3fff9a4; E 28 0xffff4a4; E 26 0x3fff9e4; E 26 0x3fffa24; E 28 0xffff4e4; E 28 0xffff524;
  E 28 0xffff564; E 29 0x1ffff664; E 28 0xffff5a4; E 29 0x1ffff6a4; E 29 0x1ffff6e4; E 29 0x1ffff724; E 29 0x1ffff764;
  E 29 0x1ffff7a4; E 30 0x3ffffae4; E 29 0x1ffff7e4; E 30 0x3ffffb24; E 30 0x3ffffb64; E 28 0xffff5e4;
  E 29 0x1ffff824; E 30 0x3ffffba4; E 29 0x1ffff864; E 29 0x1ffff8a4; E 29 0x1ffff8e4; E 29 0x1ffff924;
  E 27 0x7fff724; E 28 0xffff624; E 29 0x1ffff964; E 28 0xffff664; E 29 0x1ffff9a4; E 29 0x1ffff9e4; E 30 0x3ffffbe4;
  E 28 0xffff6a4; E 27 0x7fff764; E 26 0x3fffa64; E 28 0xffff6e4; E 28 0xffff724; E 29 0x1ffffa24; E 29 0x1ffffa64;
  E 27 0x7fff7a4; E 29 0x1ffffaa4; E 28 0xffff764; E 28 0xffff7a4; E 30 0x3ffffc24; E 27 0x7fff7e4; E 28 0xffff7e4;
  E 29 0x1ffffae4; E 29 0x1ffffb24; E 27 0x7fff824; E 27 0x7fff864; E 28 0xffff824; E 27 0x7fff8a4; E 29 0x1ffffb64;
  E 28 0xffff864; E 29 0x1ffffba4; E 29 0x1ffffbe4; E 26 0x3fffaa4; E 28 0xffff8a4; E 28 0xffff8e4; E 28 0xffff924;
  E 29 0x1ffffc24; E 28 0xffff964; E 28 0xffff9a4; E 29 0x1ffffc64; E 32 0xfffff824; E 32 0xfffff864; E 26 0x3fffae4;
  E 25 0x1fffc64; E 28 0xffff9e4; E 29 0x1ffffca4; E 28 0xffffa24; E 31 0x7ffffb24; E 32 0xfffff8a4; E 32 0xfffff8e4;
  E 32 0xfffff924; X; X; E 32 0xfffff964; E 30 0x3ffffc64; E 31 0x7ffffb64; E 25 0x1fffca4; E 27 0x7fff8e4;
  E 32 0xfffff9a4; X; X; E 32 0xfffff9e4; X; E 30 0x3ffffca4; E 27 0x7fff924; E 27 0x7fff964; E 32 0xfffffa24;
  E 32 0xfffffa64; X; X; X; X; E 26 0x3fffb24; E 30 0x3ffffce4; E 26 0x3fffb64; E 27 0x7fff9a4; E 28 0xffffa64;
  E 27 0x7fff9e4; E 27 0x7fffa24; E 29 0x1ffffce4; E 28 0xffffaa4; E 28 0xffffae4; E 31 0x7ffffba4; E 31 0x7ffffbe4;
  E 30 0x3ffffd24; E 30 0x3ffffd64; E 32 0xfffffaa4; E 29 0x1ffffd24; E 32 0xfffffae4; X; E 32 0xfffffb24;
  E 32 0xfffffb64; X; X; X; X; X; X; X; X; X; X; X; E 32 0xfffffba4].
Definition hencs_101 : list henc := [
  E 18 0x3ff05; E 28 0xffffb05; X; X; X; X; X; X; X; E 29 0x1ffffd45; X; X; X; X; X; X; X; X; X; X; X; X; X; X; X; X;
  X; X; X; X; X; X; E 11 0x285; E 15 0x7f05; E 15 0x7f25; E 17 0x1ff45; E 18 0x3ff25; E 11 0x2a5; E 13 0x1f05;
  E 16 0xff45; E 15 0x7f45; E 15 0x7f65; E 13 0x1f25; E 16 0xff65; E 13 0x1f45; E 11 0x2c5; E 11 0x2e5; E 11 0x305;
  E 10 0x5; E 10 0x25; E 10 0x45; E 11 0x325; E 11 0x345; E 11 0x365; E 11 0x385; E 11 0x3a5; E 11 0x3c5; E 11 0x3e5;
  E 12 0xb85; E 13 0x1f65; E 20 0xfff85; E 11 0x405; E 17 0x1ff65; E 15 0x7f85; E 18 0x3ff45; E 11 0x425; E 12 0xba5;
  E 12 0xbc5; E 12 0xbe5; E 12 0xc05; E 12 0xc25; E 12 0xc45; E 12 0xc65; E 12 0xc85; E 12 0xca5; E 12 0xcc5;
  E 12 0xce5; E 12 0xd05; E 12 0xd25; E 12 0xd45; E 12 0xd65; E 12 0xd85; E 12 0xda5; E 12 0xdc5; E 12 0xde5;
  E 12 0xe05; E 12 0xe25; E 12 0xe45; E 13 0x1f85; E 12 0xe65; E 13 0x1fa5; E 18 0x3ff65; E 24 0xfffe05; E 18 0x3ff85;
  E 19 0x7ff85; E 11 0x445; E 20 0xfffa5; E 10 0x65; E 11 0x465; E 10 0x85; E 11 0x485; E 10 0xa5; E 11 0x4a5;
  E 11 0x4c5; E 11 0x4e5; E 10 0xc5; E 12 0xe85; E 12 0xea5; E 11 0x505; E 11 0x525; E 11 0x545; E 10 0xe5;
  E 11 0x565; E 12 0xec5; E 11 0x585; E 10 0x105; E 10 0x125; E 11 0x5a5; E 12 0xee5; E 12 0xf05; E 12 0xf25;
  E 12 0xf45; E 12 0xf65; E 20 0xfffc5; E 16 0xff85; E 19 0x7ffa5; E 18 0x3ffa5; X; E 25 0x1fffcc5; E 27 0x7fffa45;
  E 25 0x1fffce5; E 25 0x1fffd05; E 27 0x7fffa65; E 27 0x7fffa85; E 27 0x7fffaa5; E 28 0xffffb25; E 27 0x7fffac5;
  E 28 0xffffb45; E 28 0xffffb65; E 28 0xffffb85; E 28 0xffffba5; E 28 0xffffbc5; E 29 0x1ffffd65; E 28 0xffffbe5;
  E 29 0x1ffffd85; E 29 0x1ffffda5; E 27 0x7fffae5; E 28 0xffffc05; E 29 0x1ffffdc5; E 28 0xffffc25; E 28 0xffffc45;
  E 28 0xffffc65; E 28 0xffffc85; E 26 0x3fffb85; E 27 0x7fffb05; E 28 0xffffca5; E 27 0x7fffb25; E 28 0xffffcc5;
  E 28 0xffffce5; E 29 0x1ffffde5; E 27 0x7fffb45; E 26 0x3fffba5; E 25 0x1fffd25; E 27 0x7fffb65; E 27 0x7fffb85;
  E 28 0xffffd05; E 28 0xffffd25; E 26 0x3fffbc5; E 28 0xffffd45; E 27 0x7fffba5; E 27 0x7fffbc5; E 29 0x1ffffe05;
  E 26 0x3fffbe5; E 27 0x7fffbe5; E 28 0xffffd65; E 28 0xffffd85; E 26 0x3fffc05; E 26 0x3fffc25; E 27 0x7fffc05;
  E 26 0x3fffc45; E 28 0xffffda5; E 27 0x7fffc25; E 28 0xffffdc5; E 28 0xffffde5; E 25 0x1fffd45; E 27 0x7fffc45;
  E 27 0x7fffc65; E 27 0x7fffc85; E 28 0xffffe05; E 27 0x7fffca5; E 27 0x7fffcc5; E 28 0xffffe25; E 31 0x7ffffc05;
  E 31 0x7ffffc25; E 25 0x1fffd65; E 24 0xfffe25; E 27 0x7fffce5; E 28 0xffffe45; E 27 0x7fffd05; E 30 0x3ffffd85;
  E 31 0x7ffffc45; E 31 0x7ffffc65; E 31 0x7ffffc85; E 32 0xfffffbc5; E 32 0xfffffbe5; E 31 0x7ffffca5;
  E 29 0x1ffffe25; E 30 0x3ffffda5; E 24 0xfffe45; E 26 0x3fffc65; E 31 0x7ffffcc5; E 32 0xfffffc05; E 32 0xfffffc25;
  E 31 0x7ffffce5; E 32 0xfffffc45; E 29 0x1ffffe45; E 26 0x3fffc85; E 26 0x3fffca5; E 31 0x7ffffd05; E 31 0x7ffffd25;
  X; E 32 0xfffffc65; E 32 0xfffffc85; E 32 0xfffffca5; E 25 0x1fffd85; E 29 0x1ffffe65; E 25 0x1fffda5;
  E 26 0x3fffcc5; E 27 0x7fffd25; E 26 0x3fffce5; E 26 0x3fffd05; E 28 0xffffe65; E 27 0x7fffd45; E 27 0x7fffd65;
  E 30 0x3ffffdc5; E 30 0x3ffffde5; E 29 0x1ffffe85; E 29 0x1ffffea5; E 31 0x7ffffd45; E 28 0xffffe85;
  E 31 0x7ffffd65; E 32 0xfffffcc5; E 31 0x7ffffd85; E 31 0x7ffffda5; E 32 0xfffffce5; E 32 0xfffffd05;
  E 32 0xfffffd25; E 32 0xfffffd45; E 32 0xfffffd65; X; E 32 0xfffffd85; E 32 0xfffffda5; E 32 0xfffffdc5;
  E 32 0xfffffde5; E 32 0xfffffe05; E 31 0x7ffffdc5].
Definition hencs_102 : list henc := [
  E 19 0x7fe25; E 29 0x1ffff625; X; X; X; X; X; X; X; E 30 0x3ffffaa5; X; X; X; X; X; X; X; X; X; X; X; X; X; X; X; X;
  X; X; X; X; X; X; E 12 0x525; E 16 0xfe25; E 16 0xfe65; E 18 0x3fea5; E 19 0x7fe65; E 12 0x565; E 14 0x3e25;
  E 17 0x1fea5; E 16 0xfea5; E 16 0xfee5; E 14 0x3e65; E 17 0x1fee5; E 14 0x3ea5; E 12 0x5a5; E 12 0x5e5; E 12 0x625;
  E 11 0x25; E 11 0x65; E 11 0xa5; E 12 0x665; E 12 0x6a5; E 12 0x6e5; E 12 0x725; E 12 0x765; E 12 0x7a5; E 12 0x7e5;
  E 13 0x1725; E 14 0x3ee5; E 21 0x1fff25; E 12 0x825; E 18 0x3fee5; E 16 0xff25; E 19 0x7fea5; E 12 0x865;
  E 13 0x1765; E 13 0x17a5; E 13 0x17e5; E 13 0x1825; E 13 0x1865; E 13 0x18a5; E 13 0x18e5; E 13 0x1925; E 13 0x1965;
  E 13 0x19a5; E 13 0x19e5; E 13 0x1a25; E 13 0x1a65; E 13 0x1aa5; E 13 0x1ae5; E 13 0x1b25; E 13 0x1b65; E 13 0x1ba5;
  E 13 0x1be5; E 13 0x1c25; E 13 0x1c65; E 13 0x1ca5; E 14 0x3f25; E 13 0x1ce5; E 14 0x3f65; E 19 0x7fee5;
  E 25 0x1fffc25; E 19 0x7ff25; E 20 0xfff25; E 12 0x8a5; E 21 0x1fff65; E 11 0xe5; E 12 0x8e5; E 11 0x125;
  E 12 0x925; E 11 0x165; E 12 0x965; E 12 0x9a5; E 12 0x9e5; E 11 0x1a5; E 13 0x1d25; E 13 0x1d65; E 12 0xa25;
  E 12 0xa65; E 12 0xaa5; E 11 0x1e5; E 12 0xae5; E 13 0x1da5; E 12 0xb25; E 11 0x225; E 11 0x265; E 12 0xb65;
  E 13 0x1de5; E 13 0x1e25; E 13 0x1e65; E 13 0x1ea5; E 13 0x1ee5; E 21 0x1fffa5; E 17 0x1ff25; E 20 0xfff65;
  E 19 0x7ff65; X; E 26 0x3fff9a5; E 28 0xffff4a5; E 26 0x3fff9e5; E 26 0x3fffa25; E 28 0xffff4e5; E 28 0xffff525;
  E 28 0xffff565; E 29 0x1ffff665; E 28 0xffff5a5; E 29 0x1ffff6a5; E 29 0x1ffff6e5; E 29 0x1ffff725; E 29 0x1ffff765;
  E 29 0x1ffff7a5; E 30 0x3ffffae5; E 29 0x1ffff7e5; E 30 0x3ffffb25; E 30 0x3ffffb65; E 28 0xffff5e5;
  E 29 0x1ffff825; E 30 0x3ffffba5; E 29 0x1ffff865; E 29 0x1ffff8a5; E 29 0x1ffff8e5; E 29 0x1ffff925;
  E 27 0x7fff725; E 28 0xffff625; E 29 0x1ffff965; E 28 0xffff665; E 29 0x1ffff9a5; E 29 0x1ffff9e5; E 30 0x3ffffbe5;
  E 28 0xffff6a5; E 27 0x7fff765; E 26 0x3fffa65; E 28 0xffff6e5; E 28 0xffff725; E 29 0x1ffffa25; E 29 0x1ffffa65;
  E 27 0x7fff7a5; E 29 0x1ffffaa5; E 28 0xffff765; E 28 0xffff7a5; E 30 0x3ffffc25; E 27 0x7fff7e5; E 28 0xffff7e5;
  E 29 0x1ffffae5; E 29 0x1ffffb25; E 27 0x7fff825; E 27 0x7fff865; E 28 0xffff825; E 27 0x7fff8a5; E 29 0x1ffffb65;
  E 28 0xffff865; E 29 0x1ffffba5; E 29 0x1ffffbe5; E 26 0x3fffaa5; E 28 0xffff8a5; E 28 0xffff8e5; E 28 0xffff925;
  E 29 0x1ffffc25; E 28 0xffff965; E 28 0xffff9a5; E 29 0x1ffffc65; E 32 0xfffff825; E 32 0xfffff865; E 26 0x3fffae5;
  E 25 0x1fffc65; E 28 0xffff9e5; E 29 0x1ffffca5; E 28 0xffffa25; E 31 0x7ffffb25; E 32 0xfffff8a5; E 32 0xfffff8e5;
  E 32 0xfffff925; X; X; E 32 0xfffff965; E 30 0x3ffffc65; E 31 0x7ffffb65; E 25 0x1fffca5; E 27 0x7fff8e5;
  E 32 0xfffff9a5; X; X; E 32 0xfffff9e5; X; E 30 0x3ffffca5; E 27 0x7fff925; E 27 0x7fff965; E 32 0xfffffa25;
  E 32 0xfffffa65; X; X; X; X; E 26 0x3fffb25; E 30 0x3ffffce5; E 26 0x3fffb65; E 27 0x7fff9a5; E 28 0xffffa65;
  E 27 0x7fff9e5; E 27 0x7fffa25; E 29 0x1ffffce5; E 28 0xffffaa5; E 28 0xffffae5; E 31 0x7ffffba5; E 31 0x7ffffbe5;
  E 30 0x3ffffd25; E 30 0x3ffffd65; E 32 0xfffffaa5; E 29 0x1ffffd25; E 32 0xfffffae5; X; E 32 0xfffffb25;
  E 32 0xfffffb65; X; X; X; X; X; X; X; X; X; X; X; E 32 0xfffffba5].
Definition hencs_103 : list henc := [
  E 19 0x7fe26; E 29 0x1ffff626; X; X; X; X; X; X; X; E 30 0x3ffffaa6; X; X; X; X; X; X; X; X; X; X; X; X; X; X; X; X;
  X; X; X; X; X; X; E 12 0x526; E 16 0xfe26; E 16 0xfe66; E 18 0x3fea6; E 19 0x7fe66; E 12 0x566; E 14 0x3e26;
  E 17 0x1fea6; E 16 0xfea6; E 16 0xfee6; E 14 0x3e66; E 17 0x1fee6; E 14 0x3ea6; E 12 0x5a6; E 12 0x5e6; E 12 0x626;
  E 11 0x26; E 11 0x66; E 11 0xa6; E 12 0x666; E 12 0x6a6; E 12 0x6e6; E 12 0x726; E 12 0x766; E 12 0x7a6; E 12 0x7e6;
  E 13 0x1726; E 14 0x3ee6; E 21 0x1fff26; E 12 0x826; E 18 0x3fee6; E 16 0xff26; E 19 0x7fea6; E 12 0x866;
  E 13 0x1766; E 13 0x17a6; E 13 0x17e6; E 13 0x1826; E 13 0x1866; E 13 0x18a6; E 13 0x18e6; E 13 0x1926; E 13 0x1966;
  E 13 0x19a6; E 13 0x19e6; E 13 0x1a26; E 13 0x1a66; E 13 0x1aa6; E 13 0x1ae6; E 13 0x1b26; E 13 0x1b66; E 13 0x1ba6;
  E 13 0x1be6; E 13 0x1c26; E 13 0x1c66; E 13 0x1ca6; E 14 0x3f26; E 13 0x1ce6; E 14 0x3f66; E 19 0x7fee6;
  E 25 0x1fffc26; E 19 0x7ff26; E 20 0xfff26; E 12 0x8a6; E 21 0x1fff66; E 11 0xe6; E 12 0x8e6; E 11 0x126;
  E 12 0x926; E 11 0x166; E 12 0x966; E 12 0x9a6; E 12 0x9e6; E 11 0x1a6; E 13 0x1d26; E 13 0x1d66; E 12 0xa26;
  E 12 0xa66; E 12 0xaa6; E 11 0x1e6; E 12 0xae6; E 13 0x1da6; E 12 0xb26; E 11 0x226; E 11 0x266; E 12 0xb66;
  E 13 0x1de6; E 13 0x1e26; E 13 0x1e66; E 13 0x1ea6; E 13 0x1ee6; E 21 0x1fffa6; E 17 0x1ff26; E 20 0xfff66;
  E 19 0x7ff66; X; E 26 0x3fff9a6; E 28 0xffff4a6; E 26 0x3fff9e6; E 26 0x3fffa26; E 28 0xffff4e6; E 28 0xffff526;
  E 28 0xffff566; E 29 0x1ffff666; E 28 0xffff5a6; E 29 0x1ffff6a6; E 29 0x1ffff6e6; E 29 0x1ffff726; E 29 0x1ffff766;
  E 29 0x1ffff7a6; E 30 0x3ffffae6; E 29 0x1ffff7e6; E 30 0x3ffffb26; E 30 0x3ffffb66; E 28 0xffff5e6;
  E 29 0x1ffff826; E 30 0x3ffffba6; E 29 0x1ffff866; E 29 0x1ffff8a6; E 29 0x1ffff8e6; E 29 0x1ffff926;
  E 27 0x7fff726; E 28 0xffff626; E 29 0x1ffff966; E 28 0xffff666; E 29 0x1ffff9a6; E 29 0x1ffff9e6; E 30 0x3ffffbe6;
  E 28 0xffff6a6; E 27 0x7fff766; E 26 0x3fffa66; E 28 0xffff6e6; E 28 0xffff726; E 29 0x1ffffa26; E 29 0x1ffffa66;
  E 27 0x7fff7a6; E 29 0x1ffffaa6; E 28 0xffff766; E 28 0xffff7a6; E 30 0x3ffffc26; E 27 0x7fff7e6; E 28 0xffff7e6;
  E 29 0x1ffffae6; E 29 0x1ffffb26; E 27 0x7fff826; E 27 0x7fff866; E 28 0xffff826; E 27 0x7fff8a6; E 29 0x1ffffb66;
  E 28 0xffff866; E 29 0x1ffffba6; E 29 0x1ffffbe6; E 26 0x3fffaa6; E 28 0xffff8a6; E 28 0xffff8e6; E 28 0xffff926;
  E 29 0x1ffffc26; E 28 0xffff966; E 28 0xffff9a6; E 29 0x1ffffc66; E 32 0xfffff826; E 32 0xfffff866; E 26 0x3fffae6;
  E 25 0x1fffc66; E 28 0xffff9e6; E 29 0x1ffffca6; E 28 0xffffa26; E 31 0x7ffffb26; E 32 0xfffff8a6; E 32 0xfffff8e6;
  E 32 0xfffff926; X; X; E 32 0xfffff966; E 30 0x3ffffc66; E 31 0x7ffffb66; E 25 0x1fffca6; E 27 0x7fff8e6;
  E 32 0xfffff9a6; X; X; E 32 0xfffff9e6; X; E 30 0x3ffffca6; E 27 0x7fff926; E 27 0x7fff966; E 32 0xfffffa26;
  E 32 0xfffffa66; X; X; X; X; E 26 0x3fffb26; E 30 0x3ffffce6; E 26 0x3fffb66; E 27 0x7fff9a6; E 28 0xffffa66;
  E 27 0x7fff9e6; E 27 0x7fffa26; E 29 0x1ffffce6; E 28 0xffffaa6; E 28 0xffffae6; E 31 0x7ffffba6; E 31 0x7ffffbe6;
  E 30 0x3ffffd26; E 30 0x3ffffd66; E 32 0xfffffaa6; E 29 0x1ffffd26; E 32 0xfffffae6; X; E 32 0xfffffb26;
  E 32 0xfffffb66; X; X; X; X; X; X; X; X; X; X; X; E 32 0xfffffba6].
Definition hencs_104 : list henc := [
  E 19 0x7fe27; E 29 0x1ffff627; X; X; X; X; X; X; X; E 30 0x3ffffaa7; X; X; X; X; X; X; X; X; X; X; X; X; X; X; X; X;
  X; X; X; X; X; X; E 12 0x527; E 16 0xfe27; E 16 0xfe67; E 18 0x3fea7; E 19 0x7fe67; E 12 0x567; E 14 0x3e27;
  E 17 0x1fea7; E 16 0xfea7; E 16 0xfee7; E 14 0x3e67; E 17 0x1fee7; E 14 0x3ea7; E 12 0x5a7; E 12 0x5e7; E 12 0x627;
  E 11 0x27; E 11 0x67; E 11 0xa7; E 12 0x667; E 12 0x6a7; E 12 0x6e7; E 12 0x727; E 12 0x767; E 12 0x7a7; E 12 0x7e7;
  E 13 0x1727; E 14 0x3ee7; E 21 0x1fff27; E 12 0x827; E 18 0x3fee7; E 16 0xff27; E 19 0x7fea7; E 12 0x867;
  E 13 0x1767; E 13 0x17a7; E 13 0x17e7; E 13 0x1827; E 13 0x1867; E 13 0x18a7; E 13 0x18e7; E 13 0x1927; E 13 0x1967;
  E 13 0x19a7; E 13 0x19e7; E 13 0x1a27; E 13 0x1a67; E 13 0x1aa7; E 13 0x1ae7; E 13 0x1b27; E 13 0x1b67; E 13 0x1ba7;
  E 13 0x1be7; E 13 0x1c27; E 13 0x1c67; E 13 0x1ca7; E 14 0x3f27; E 13 0x1ce7; E 14 0x3f67; E 19 0x7fee7;
  E 25 0x1fffc27; E 19 0x7ff27; E 20 0xfff27; E 12 0x8a7; E 21 0x1fff67; E 11 0xe7; E 12 0x8e7; E 11 0x127;
  E 12 0x927; E 11 0x167; E 12 0x967; E 12 0x9a7; E 12 0x9e7; E 11 0x1a7; E 13 0x1d27; E 13 0x1d67; E 12 0xa27;
  E 12 0xa67; E 12 0xaa7; E 11 0x1e7; E 12 0xae7; E 13 0x1da7; E 12 0xb27; E 11 0x227; E 11 0x267; E 12 0xb67;
  E 13 0x1de7; E 13 0x1e27; E 13 0x1e67; E 13 0x1ea7; E 13 0x1ee7; E 21 0x1fffa7; E 17 0x1ff27; E 20 0xfff67;
  E 19 0x7ff67; X; E 26 0x3fff9a7; E 28 0xffff4a7; E 26 0x3fff9e7; E 26 0x3fffa27; E 28 0xffff4e7; E 28 0xffff527;
  E 28 0xffff567; E 29 0x1ffff667; E 28 0xffff5a7; E 29 0x1ffff6a7; E 29 0x1ffff6e7; E 29 0x1ffff727; E 29 0x1ffff767;
  E 29 0x1ffff7a7; E 30 0x3ffffae7; E 29 0x1ffff7e7; E 30 0x3ffffb27; E 30 0x3ffffb67; E 28 0xffff5e7;
  E 29 0x1ffff827; E 30 0x3ffffba7; E 29 0x1ffff867; E 29 0x1ffff8a7; E 29 0x1ffff8e7; E 29 0x1ffff927;
  E 27 0x7fff727; E 28 0xffff627; E 29 0x1ffff967; E 28 0xffff667; E 29 0x1ffff9a7; E 29 0x1ffff9e7; E 30 0x3ffffbe7;
  E 28 0xffff6a7; E 27 0x7fff767; E 26 0x3fffa67; E 28 0xffff6e7; E 28 0xffff727; E 29 0x1ffffa27; E 29 0x1ffffa67;
  E 27 0x7fff7a7; E 29 0x1ffffaa7; E 28 0xffff767; E 28 0xffff7a7; E 30 0x3ffffc27; E 27 0x7fff7e7; E 28 0xffff7e7;
  E 29 0x1ffffae7; E 29 0x1ffffb27; E 27 0x7fff827; E 27 0x7fff867; E 28 0xffff827; E 27 0x7fff8a7; E 29 0x1ffffb67;
  E 28 0xffff867; E 29 0x1ffffba7; E 29 0x1ffffbe7; E 26 0x3fffaa7; E 28 0xffff8a7; E 28 0xffff8e7; E 28 0xffff927;
  E 29 0x1ffffc27; E 28 0xffff967; E 28 0xffff9a7; E 29 0x1ffffc67; E 32 0xfffff827; E 32 0xfffff867; E 26 0x3fffae7;
  E 25 0x1fffc67; E 28 0xffff9e7; E 29 0x1ffffca7; E 28 0xffffa27; E 31 0x7ffffb27; E 32 0xfffff8a7; E 32 0xfffff8e7;
  E 32 0xfffff927; X; X; E 32 0xfffff967; E 30 0x3ffffc67; E 31 0x7ffffb67; E 25 0x1fffca7; E 27 0x7fff8e7;
  E 32 0xfffff9a7; X; X; E 32 0xfffff9e7; X; E 30 0x3ffffca7; E 27 0x7fff927; E 27 0x7fff967; E 32 0xfffffa27;
  E 32 0xfffffa67; X; X; X; X; E 26 0x3fffb27; E 30 0x3ffffce7; E 26 0x3fffb67; E 27 0x7fff9a7; E 28 0xffffa67;
  E 27 0x7fff9e7; E 27 0x7fffa27; E 29 0x1ffffce7; E 28 0xffffaa7; E 28 0xffffae7; E 31 0x7ffffba7; E 31 0x7ffffbe7;
  E 30 0x3ffffd27; E 30 0x3ffffd67; E 32 0xfffffaa7; E 29 0x1ffffd27; E 32 0xfffffae7; X; E 32 0xfffffb27;
  E 32 0xfffffb67; X; X; X; X; X; X; X; X; X; X; X; E 32 0xfffffba7].
Definition hencs_105 : list henc := [
  E 18 0x3ff06; E 28 0xffffb06; X; X; X; X; X; X; X; E 29 0x1ffffd46; X; X; X; X; X; X; X; X; X; X; X; X; X; X; X; X;
  X; X; X; X; X; X; E 11 0x286; E 15 0x7f06; E 15 0x7f26; E 17 0x1ff46; E 18 0x3ff26; E 11 0x2a6; E 13 0x1f06;
  E 16 0xff46; E 15 0x7f46; E 15 0x7f66; E 13 0x1f26; E 16 0xff66; E 13 0x1f46; E 11 0x2c6; E 11 0x2e6; E 11 0x306;
  E 10 0x6; E 10 0x26; E 10 0x46; E 11 0x326; E 11 0x346; E 11 0x366; E 11 0x386; E 11 0x3a6; E 11 0x3c6; E 11 0x3e6;
  E 12 0xb86; E 13 0x1f66; E 20 0xfff86; E 11 0x406; E 17 0x1ff66; E 15 0x7f86; E 18 0x3ff46; E 11 0x426; E 12 0xba6;
  E 12 0xbc6; E 12 0xbe6; E 12 0xc06; E 12 0xc26; E 12 0xc46; E 12 0xc66; E 12 0xc86; E 12 0xca6; E 12 0xcc6;
  E 12 0xce6; E 12 0xd06; E 12 0xd26; E 12 0xd46; E 12 0xd66; E 12 0xd86; E 12 0xda6; E 12 0xdc6; E 12 0xde6;
  E 12 0xe06; E 12 0xe26; E 12 0xe46; E 13 0x1f86; E 12 0xe66; E 13 0x1fa6; E 18 0x3ff66; E 24 0xfffe06; E 18 0x3ff86;
  E 19 0x7ff86; E 11 0x446; E 20 0xfffa6; E 10 0x66; E 11 0x466; E 10 0x86; E 11 0x486; E 10 0xa6; E 11 0x4a6;
  E 11 0x4c6; E 11 0x4e6; E 10 0xc6; E 12 0xe86; E 12 0xea6; E 11 0x506; E 11 0x526; E 11 0x546; E 10 0xe6;
  E 11 0x566; E 12 0xec6; E 11 0x586; E 10 0x106; E 10 0x126; E 11 0x5a6; E 12 0xee6; E 12 0xf06; E 12 0xf26;
  E 12 0xf46; E 12 0xf66; E 20 0xfffc6; E 16 0xff86; E 19 0x7ffa6; E 18 0x3ffa6; X; E 25 0x1fffcc6; E 27 0x7fffa46;
  E 25 0x1fffce6; E 25 0x1fffd06; E 27 0x7fffa66; E 27 0x7fffa86; E 27 0x7fffaa6; E 28 0xffffb26; E 27 0x7fffac6;
  E 28 0xffffb46; E 28 0xffffb66; E 28 0xffffb86; E 28 0xffffba6; E 28 0xffffbc6; E 29 0x1ffffd66; E 28 0xffffbe6;
  E 29 0x1ffffd86; E 29 0x1ffffda6; E 27 0x7fffae6; E 28 0xffffc06; E 29 0x1ffffdc6; E 28 0xffffc26; E 28 0xffffc46;
  E 28 0xffffc66; E 28 0xffffc86; E 26 0x3fffb86; E 27 0x7fffb06; E 28 0xffffca6; E 27 0x7fffb26; E 28 0xffffcc6;
  E 28 0xffffce6; E 29 0x1ffffde6; E 27 0x7fffb46; E 26 0x3fffba6; E 25 0x1fffd26; E 27 0x7fffb66; E 27 0x7fffb86;
  E 28 0xffffd06; E 28 0xffffd26; E 26 0x3fffbc6; E 28 0xffffd46; E 27 0x7fffba6; E 27 0x7fffbc6; E 29 0x1ffffe06;
  E 26 0x3fffbe6; E 27 0x7fffbe6; E 28 0xffffd66; E 28 0xffffd86; E 26 0x3fffc06; E 26 0x3fffc26; E 27 0x7fffc06;
  E 26 0x3fffc46; E 28 0xffffda6; E 27 0x7fffc26; E 28 0xffffdc6; E 28 0xffffde6; E 25 0x1fffd46; E 27 0x7fffc46;
  E 27 0x7fffc66; E 27 0x7fffc86; E 28 0xffffe06; E 27 0x7fffca6; E 27 0x7fffcc6; E 28 0xffffe26; E 31 0x7ffffc06;
  E 31 0x7ffffc26; E 25 0x1fffd66; E 24 0xfffe26; E 27 0x7fffce6; E 28 0xffffe46; E 27 0x7fffd06; E 30 0x3ffffd86;
  E 31 0x7ffffc46; E 31 0x7ffffc66; E 31 0x7ffffc86; E 32 0xfffffbc6; E 32 0xfffffbe6; E 31 0x7ffffca6;
  E 29 0x1ffffe26; E 30 0x3ffffda6; E 24 0xfffe46; E 26 0x3fffc66; E 31 0x7ffffcc6; E 32 0xfffffc06; E 32 0xfffffc26;
  E 31 0x7ffffce6; E 32 0xfffffc46; E 29 0x1ffffe46; E 26 0x3fffc86; E 26 0x3fffca6; E 31 0x7ffffd06; E 31 0x7ffffd26;
  X; E 32 0xfffffc66; E 32 0xfffffc86; E 32 0xfffffca6; E 25 0x1fffd86; E 29 0x1ffffe66; E 25 0x1fffda6;
  E 26 0x3fffcc6; E 27 0x7fffd26; E 26 0x3fffce6; E 26 0x3fffd06; E 28 0xffffe66; E 27 0x7fffd46; E 27 0x7fffd66;
  E 30 0x3ffffdc6; E 30 0x3ffffde6; E 29 0x1ffffe86; E 29 0x1ffffea6; E 31 0x7ffffd46; E 28 0xffffe86;
  E 31 0x7ffffd66; E 32 0xfffffcc6; E 31 0x7ffffd86; E 31 0x7ffffda6; E 32 0xfffffce6; E 32 0xfffffd06;
  E 32 0xfffffd26; E 32 0xfffffd46; E 32 0xfffffd66; X; E 32 0xfffffd86; E 32 0xfffffda6; E 32 0xfffffdc6;
  E 32 0xfffffde6; E 32 0xfffffe06; E 31 0x7ffffdc6].
Definition hencs_106 : list henc := [
  E 20 0xffc74; E 30 0x3fffec74; X; X; X; X; X; X; X; E 31 0x7ffff574; X; X; X; X; X; X; X; X; X; X; X; X; X; X; X; X;
  X; X; X; X; X; X; E 13 0xa74; E 17 0x1fc74; E 17 0x1fcf4; E 19 0x7fd74; E 20 0xffcf4; E 13 0xaf4; E 15 0x7c74;
  E 18 0x3fd74; E 17 0x1fd74; E 17 0x1fdf4; E 15 0x7cf4; E 18 0x3fdf4; E 15 0x7d74; E 13 0xb74; E 13 0xbf4;
  E 13 0xc74; E 12 0x74; E 12 0xf4; E 12 0x174; E 13 0xcf4; E 13 0xd74; E 13 0xdf4; E 13 0xe74; E 13 0xef4;
  E 13 0xf74; E 13 0xff4; E 14 0x2e74; E 15 0x7df4; E 22 0x3ffe74; E 13 0x1074; E 19 0x7fdf4; E 17 0x1fe74;
  E 20 0xffd74; E 13 0x10f4; E 14 0x2ef4; E 14 0x2f74; E 14 0x2ff4; E 14 0x3074; E 14 0x30f4; E 14 0x3174;
  E 14 0x31f4; E 14 0x3274; E 14 0x32f4; E 14 0x3374; E 14 0x33f4; E 14 0x3474; E 14 0x34f4; E 14 0x3574; E 14 0x35f4;
  E 14 0x3674; E 14 0x36f4; E 14 0x3774; E 14 0x37f4; E 14 0x3874; E 14 0x38f4; E 14 0x3974; E 15 0x7e74; E 14 0x39f4;
  E 15 0x7ef4; E 20 0xffdf4; E 26 0x3fff874; E 20 0xffe74; E 21 0x1ffe74; E 13 0x1174; E 22 0x3ffef4; E 12 0x1f4;
  E 13 0x11f4; E 12 0x274; E 13 0x1274; E 12 0x2f4; E 13 0x12f4; E 13 0x1374; E 13 0x13f4; E 12 0x374; E 14 0x3a74;
  E 14 0x3af4; E 13 0x1474; E 13 0x14f4; E 13 0x1574; E 12 0x3f4; E 13 0x15f4; E 14 0x3b74; E 13 0x1674; E 12 0x474;
  E 12 0x4f4; E 13 0x16f4; E 14 0x3bf4; E 14 0x3c74; E 14 0x3cf4; E 14 0x3d74; E 14 0x3df4; E 22 0x3fff74;
  E 18 0x3fe74; E 21 0x1ffef4; E 20 0xffef4; X; E 27 0x7fff374; E 29 0x1fffe974; E 27 0x7fff3f4; E 27 0x7fff474;
  E 29 0x1fffe9f4; E 29 0x1fffea74; E 29 0x1fffeaf4; E 30 0x3fffecf4; E 29 0x1fffeb74; E 30 0x3fffed74;
  E 30 0x3fffedf4; E 30 0x3fffee74; E 30 0x3fffeef4; E 30 0x3fffef74; E 31 0x7ffff5f4; E 30 0x3fffeff4;
  E 31 0x7ffff674; E 31 0x7ffff6f4; E 29 0x1fffebf4; E 30 0x3ffff074; E 31 0x7ffff774; E 30 0x3ffff0f4;
  E 30 0x3ffff174; E 30 0x3ffff1f4; E 30 0x3ffff274; E 28 0xfffee74; E 29 0x1fffec74; E 30 0x3ffff2f4;
  E 29 0x1fffecf4; E 30 0x3ffff374; E 30 0x3ffff3f4; E 31 0x7ffff7f4; E 29 0x1fffed74; E 28 0xfffeef4; E 27 0x7fff4f4;
  E 29 0x1fffedf4; E 29 0x1fffee74; E 30 0x3ffff474; E 30 0x3ffff4f4; E 28 0xfffef74; E 30 0x3ffff574;
  E 29 0x1fffeef4; E 29 0x1fffef74; E 31 0x7ffff874; E 28 0xfffeff4; E 29 0x1fffeff4; E 30 0x3ffff5f4;
  E 30 0x3ffff674; E 28 0xffff074; E 28 0xffff0f4; E 29 0x1ffff074; E 28 0xffff174; E 30 0x3ffff6f4; E 29 0x1ffff0f4;
  E 30 0x3ffff774; E 30 0x3ffff7f4; E 27 0x7fff574; E 29 0x1ffff174; E 29 0x1ffff1f4; E 29 0x1ffff274;
  E 30 0x3ffff874; E 29 0x1ffff2f4; E 29 0x1ffff374; E 30 0x3ffff8f4; X; X; E 27 0x7fff5f4; E 26 0x3fff8f4;
  E 29 0x1ffff3f4; E 30 0x3ffff974; E 29 0x1ffff474; E 32 0xfffff674; X; X; X; X; X; X; E 31 0x7ffff8f4;
  E 32 0xfffff6f4; E 26 0x3fff974; E 28 0xffff1f4; X; X; X; X; X; E 31 0x7ffff974; E 28 0xffff274; E 28 0xffff2f4; X;
  X; X; X; X; X; E 27 0x7fff674; E 31 0x7ffff9f4; E 27 0x7fff6f4; E 28 0xffff374; E 29 0x1ffff4f4; E 28 0xffff3f4;
  E 28 0xffff474; E 30 0x3ffff9f4; E 29 0x1ffff574; E 29 0x1ffff5f4; E 32 0xfffff774; E 32 0xfffff7f4;
  E 31 0x7ffffa74; E 31 0x7ffffaf4; X; E 30 0x3ffffa74; X; X; X; X; X; X; X; X; X; X; X; X; X; X; X; X].
Definition hencs_107 : list henc := [
  E 20 0xffc75; E 30 0x3fffec75; X; X; X; X; X; X; X; E 31 0x7ffff575; X; X; X; X; X; X; X; X; X; X; X; X; X; X; X; X;
  X; X; X; X; X; X; E 13 0xa75; E 17 0x1fc75; E 17 0x1fcf5; E 19 0x7fd75; E 20 0xffcf5; E 13 0xaf5; E 15 0x7c75;
  E 18 0x3fd75; E 17 0x1fd75; E 17 0x1fdf5; E 15 0x7cf5; E 18 0x3fdf5; E 15 0x7d75; E 13 0xb75; E 13 0xbf5;
  E 13 0xc75; E 12 0x75; E 12 0xf5; E 12 0x175; E 13 0xcf5; E 13 0xd75; E 13 0xdf5; E 13 0xe75; E 13 0xef5;
  E 13 0xf75; E 13 0xff5; E 14 0x2e75; E 15 0x7df5; E 22 0x3ffe75; E 13 0x1075; E 19 0x7fdf5; E 17 0x1fe75;
  E 20 0xffd75; E 13 0x10f5; E 14 0x2ef5; E 14 0x2f75; E 14 0x2ff5; E 14 0x3075; E 14 0x30f5; E 14 0x3175;
  E 14 0x31f5; E 14 0x3275; E 14 0x32f5; E 14 0x3375; E 14 0x33f5; E 14 0x3475; E 14 0x34f5; E 14 0x3575; E 14 0x35f5;
  E 14 0x3675; E 14 0x36f5; E 14 0x3775; E 14 0x37f5; E 14 0x3875; E 14 0x38f5; E 14 0x3975; E 15 0x7e75; E 14 0x39f5;
  E 15 0x7ef5; E 20 0xffdf5; E 26 0x3fff875; E 20 0xffe75; E 21 0x1ffe75; E 13 0x1175; E 22 0x3ffef5; E 12 0x1f5;
  E 13 0x11f5; E 12 0x275; E 13 0x1275; E 12 0x2f5; E 13 0x12f5; E 13 0x1375; E 13 0x13f5; E 12 0x375; E 14 0x3a75;
  E 14 0x3af5; E 13 0x1475; E 13 0x14f5; E 13 0x1575; E 12 0x3f5; E 13 0x15f5; E 14 0x3b75; E 13 0x1675; E 12 0x475;
  E 12 0x4f5; E 13 0x16f5; E 14 0x3bf5; E 14 0x3c75; E 14 0x3cf5; E 14 0x3d75; E 14 0x3df5; E 22 0x3fff75;
  E 18 0x3fe75; E 21 0x1ffef5; E 20 0xffef5; X; E 27 0x7fff375; E 29 0x1fffe975; E 27 0x7fff3f5; E 27 0x7fff475;
  E 29 0x1fffe9f5; E 29 0x1fffea75; E 29 0x1fffeaf5; E 30 0x3fffecf5; E 29 0x1fffeb75; E 30 0x3fffed75;
  E 30 0x3fffedf5; E 30 0x3fffee75; E 30 0x3fffeef5; E 30 0x3fffef75; E 31 0x7ffff5f5; E 30 0x3fffeff5;
  E 31 0x7ffff675; E 31 0x7ffff6f5; E 29 0x1fffebf5; E 30 0x3ffff075; E 31 0x7ffff775; E 30 0x3ffff0f5;
  E 30 0x3ffff175; E 30 0x3ffff1f5; E 30 0x3ffff275; E 28 0xfffee75; E 29 0x1fffec75; E 30 0x3ffff2f5;
  E 29 0x1fffecf5; E 30 0x3ffff375; E 30 0x3ffff3f5; E 31 0x7ffff7f5; E 29 0x1fffed75; E 28 0xfffeef5; E 27 0x7fff4f5;
  E 29 0x1fffedf5; E 29 0x1fffee75; E 30 0x3ffff475; E 30 0x3ffff4f5; E 28 0xfffef75; E 30 0x3ffff575;
  E 29 0x1fffeef5; E 29 0x1fffef75; E 31 0x7ffff875; E 28 0xfffeff5; E 29 0x1fffeff5; E 30 0x3ffff5f5;
  E 30 0x3ffff675; E 28 0xffff075; E 28 0xffff0f5; E 29 0x1ffff075; E 28 0xffff175; E 30 0x3ffff6f5; E 29 0x1ffff0f5;
  E 30 0x3ffff775; E 30 0x3ffff7f5; E 27 0x7fff575; E 29 0x1ffff175; E 29 0x1ffff1f5; E 29 0x1ffff275;
  E 30 0x3ffff875; E 29 0x1ffff2f5; E 29 0x1ffff375; E 30 0x3ffff8f5; X; X; E 27 0x7fff5f5; E 26 0x3fff8f5;
  E 29 0x1ffff3f5; E 30 0x3ffff975; E 29 0x1ffff475; E 32 0xfffff675; X; X; X; X; X; X; E 31 0x7ffff8f5;
  E 32 0xfffff6f5; E 26 0x3fff975; E 28 0xffff1f5; X; X; X; X; X; E 31 0x7ffff975; E 28 0xffff275; E 28 0xffff2f5; X;
  X; X; X; X; X; E 27 0x7fff675; E 31 0x7ffff9f5; E 27 0x7fff6f5; E 28 0xffff375; E 29 0x1ffff4f5; E 28 0xffff3f5;
  E 28 0xffff475; E 30 0x3ffff9f5; E 29 0x1ffff575; E 29 0x1ffff5f5; E 32 0xfffff775; E 32 0xfffff7f5;
  E 31 0x7ffffa75; E 31 0x7ffffaf5; X; E 30 0x3ffffa75; X; X; X; X; X; X; X; X; X; X; X; X; X; X; X; X].
Definition hencs_108 : list henc := [
  E 19 0x7fe28; E 29 0x1ffff628; X; X; X; X; X; X; X; E 30 0x3ffffaa8; X; X; X; X; X; X; X; X; X; X; X; X; X; X; X; X;
  X; X; X; X; X; X; E 12 0x528; E 16 0xfe28; E 16 0xfe68; E 18 0x3fea8; E 19 0x7fe68; E 12 0x568; E 14 0x3e28;
  E 17 0x1fea8; E 16 0xfea8; E 16 0xfee8; E 14 0x3e68; E 17 0x1fee8; E 14 0x3ea8; E 12 0x5a8; E 12 0x5e8; E 12 0x628;
  E 11 0x28; E 11 0x68; E 11 0xa8; E 12 0x668; E 12 0x6a8; E 12 0x6e8; E 12 0x728; E 12 0x768; E 12 0x7a8; E 12 0x7e8;
  E 13 0x1728; E 14 0x3ee8; E 21 0x1fff28; E 12 0x828; E 18 0x3fee8; E 16 0xff28; E 19 0x7fea8; E 12 0x868;
  E 13 0x1768; E 13 0x17a8; E 13 0x17e8; E 13 0x1828; E 13 0x1868; E 13 0x18a8; E 13 0x18e8; E 13 0x1928; E 13 0x1968;
  E 13 0x19a8; E 13 0x19e8; E 13 0x1a28; E 13 0x1a68; E 13 0x1aa8; E 13 0x1ae8; E 13 0x1b28; E 13 0x1b68; E 13 0x1ba8;
  E 13 0x1be8; E 13 0x1c28; E 13 0x1c68; E 13 0x1ca8; E 14 0x3f28; E 13 0x1ce8; E 14 0x3f68; E 19 0x7fee8;
  E 25 0x1fffc28; E 19 0x7ff28; E 20 0xfff28; E 12 0x8a8; E 21 0x1fff68; E 11 0xe8; E 12 0x8e8; E 11 0x128;
  E 12 0x928; E 11 0x168; E 12 0x968; E 12 0x9a8; E 12 0x9e8; E 11 0x1a8; E 13 0x1d28; E 13 0x1d68; E 12 0xa28;
  E 12 0xa68; E 12 0xaa8; E 11 0x1e8; E 12 0xae8; E 13 0x1da8; E 12 0xb28; E 11 0x228; E 11 0x268; E 12 0xb68;
  E 13 0x1de8; E 13 0x1e28; E 13 0x1e68; E 13 0x1ea8; E 13 0x1ee8; E 21 0x1fffa8; E 17 0x1ff28; E 20 0xfff68;
  E 19 0x7ff68; X; E 26 0x3fff9a8; E 28 0xffff4a8; E 26 0x3fff9e8; E 26 0x3fffa28; E 28 0xffff4e8; E 28 0xffff528;
  E 28 0xffff568; E 29 0x1ffff668; E 28 0xffff5a8; E 29 0x1ffff6a8; E 29 0x1ffff6e8; E 29 0x1ffff728; E 29 0x1ffff768;
  E 29 0x1ffff7a8; E 30 0x3ffffae8; E 29 0x1ffff7e8; E 30 0x3ffffb28; E 30 0x3ffffb68; E 28 0xffff5e8;
  E 29 0x1ffff828; E 30 0x3ffffba8; E 29 0x1ffff868; E 29 0x1ffff8a8; E 29 0x1ffff8e8; E 29 0x1ffff928;
  E 27 0x7fff728; E 28 0xffff628; E 29 0x1ffff968; E 28 0xffff668; E 29 0x1ffff9a8; E 29 0x1ffff9e8; E 30 0x3ffffbe8;
  E 28 0xffff6a8; E 27 0x7fff768; E 26 0x3fffa68; E 28 0xffff6e8; E 28 0xffff728; E 29 0x1ffffa28; E 29 0x1ffffa68;
  E 27 0x7fff7a8; E 29 0x1ffffaa8; E 28 0xffff768; E 28 0xffff7a8; E 30 0x3ffffc28; E 27 0x7fff7e8; E 28 0xffff7e8;
  E 29 0x1ffffae8; E 29 0x1ffffb28; E 27 0x7fff828; E 27 0x7fff868; E 28 0xffff828; E 27 0x7fff8a8; E 29 0x1ffffb68;
  E 28 0xffff868; E 29 0x1ffffba8; E 29 0x1ffffbe8; E 26 0x3fffaa8; E 28 0xffff8a8; E 28 0xffff8e8; E 28 0xffff928;
  E 29 0x1ffffc28; E 28 0xffff968; E 28 0xffff9a8; E 29 0x1ffffc68; E 32 0xfffff828; E 32 0xfffff868; E 26 0x3fffae8;
  E 25 0x1fffc68; E 28 0xffff9e8; E 29 0x1ffffca8; E 28 0xffffa28; E 31 0x7ffffb28; E 32 0xfffff8a8; E 32 0xfffff8e8;
  E 32 0xfffff928; X; X; E 32 0xfffff968; E 30 0x3ffffc68; E 31 0x7ffffb68; E 25 0x1fffca8; E 27 0x7fff8e8;
  E 32 0xfffff9a8; X; X; E 32 0xfffff9e8; X; E 30 0x3ffffca8; E 27 0x7fff928; E 27 0x7fff968; E 32 0xfffffa28;
  E 32 0xfffffa68; X; X; X; X; E 26 0x3fffb28; E 30 0x3ffffce8; E 26 0x3fffb68; E 27 0x7fff9a8; E 28 0xffffa68;
  E 27 0x7fff9e8; E 27 0x7fffa28; E 29 0x1ffffce8; E 28 0xffffaa8; E 28 0xffffae8; E 31 0x7ffffba8; E 31 0x7ffffbe8;
  E 30 0x3ffffd28; E 30 0x3ffffd68; E 32 0xfffffaa8; E 29 0x1ffffd28; E 32 0xfffffae8; X; E 32 0xfffffb28;
  E 32 0xfffffb68; X; X; X; X; X; X; X; X; X; X; X; E 32 0xfffffba8].
Definition hencs_109 : list henc := [
  E 19 0x7fe29; E 29 0x1ffff629; X; X; X; X; X; X; X; E 30 0x3ffffaa9; X; X; X; X; X; X; X; X; X; X; X; X; X; X; X; X;
  X; X; X; X; X; X; E 12 0x529; E 16 0xfe29; E 16 0xfe69; E 18 0x3fea9; E 19 0x7fe69; E 12 0x569; E 14 0x3e29;
  E 17 0x1fea9; E 16 0xfea9; E 16 0xfee9; E 14 0x3e69; E 17 0x1fee9; E 14 0x3ea9; E 12 0x5a9; E 12 0x5e9; E 12 0x629;
  E 11 0x29; E 11 0x69; E 11 0xa9; E 12 0x669; E 12 0x6a9; E 12 0x6e9; E 12 0x729; E 12 0x769; E 12 0x7a9; E 12 0x7e9;
  E 13 0x1729; E 14 0x3ee9; E 21 0x1fff29; E 12 0x829; E 18 0x3fee9; E 16 0xff29; E 19 0x7fea9; E 12 0x869;
  E 13 0x1769; E 13 0x17a9; E 13 0x17e9; E 13 0x1829; E 13 0x1869; E 13 0x18a9; E 13 0x18e9; E 13 0x1929; E 13 0x1969;
  E 13 0x19a9; E 13 0x19e9; E 13 0x1a29; E 13 0x1a69; E 13 0x1aa9; E 13 0x1ae9; E 13 0x1b29; E 13 0x1b69; E 13 0x1ba9;
  E 13 0x1be9; E 13 0x1c29; E 13 0x1c69; E 13 0x1ca9; E 14 0x3f29; E 13 0x1ce9; E 14 0x3f69; E 19 0x7fee9;
  E 25 0x1fffc29; E 19 0x7ff29; E 20 0xfff29; E 12 0x8a9; E 21 0x1fff69; E 11 0xe9; E 12 0x8e9; E 11 0x129;
  E 12 0x929; E 11 0x169; E 12 0x969; E 12 0x9a9; E 12 0x9e9; E 11 0x1a9; E 13 0x1d29; E 13 0x1d69; E 12 0xa29;
  E 12 0xa69; E 12 0xaa9; E 11 0x1e9; E 12 0xae9; E 13 0x1da9; E 12 0xb29; E 11 0x229; E 11 0x269; E 12 0xb69;
  E 13 0x1de9; E 13 0x1e29; E 13 0x1e69; E 13 0x1ea9; E 13 0x1ee9; E 21 0x1fffa9; E 17 0x1ff29; E 20 0xfff69;
  E 19 0x7ff69; X; E 26 0x3fff9a9; E 28 0xffff4a9; E 26 0x3fff9e9; E 26 0x3fffa29; E 28 0xffff4e9; E 28 0xffff529;
  E 28 0xffff569; E 29 0x1ffff669; E 28 0xffff5a9; E 29 0x1ffff6a9; E 29 0x1ffff6e9; E 29 0x1ffff729; E 29 0x1ffff769;
  E 29 0x1ffff7a9; E 30 0x3ffffae9; E 29 0x1ffff7e9; E 30 0x3ffffb29; E 30 0x3ffffb69; E 28 0xffff5e9;
  E 29 0x1ffff829; E 30 0x3ffffba9; E 29 0x1ffff869; E 29 0x1ffff8a9; E 29 0x1ffff8e9; E 29 0x1ffff929;
  E 27 0x7fff729; E 28 0xffff629; E 29 0x1ffff969; E 28 0xffff669; E 29 0x1ffff9a9; E 29 0x1ffff9e9; E 30 0x3ffffbe9;
  E 28 0xffff6a9; E 27 0x7fff769; E 26 0x3fffa69; E 28 0xffff6e9; E 28 0xffff729; E 29 0x1ffffa29; E 29 0x1ffffa69;
  E 27 0x7fff7a9; E 29 0x1ffffaa9; E 28 0xffff769; E 28 0xffff7a9; E 30 0x3ffffc29; E 27 0x7fff7e9; E 28 0xffff7e9;
  E 29 0x1ffffae9; E 29 0x1ffffb29; E 27 0x7fff829; E 27 0x7fff869; E 28 0xffff829; E 27 0x7fff8a9; E 29 0x1ffffb69;
  E 28 0xffff869; E 29 0x1ffffba9; E 29 0x1ffffbe9; E 26 0x3fffaa9; E 28 0xffff8a9; E 28 0xffff8e9; E 28 0xffff929;
  E 29 0x1ffffc29; E 28 0xffff969; E 28 0xffff9a9; E 29 0x1ffffc69; E 32 0xfffff829; E 32 0xfffff869; E 26 0x3fffae9;
  E 25 0x1fffc69; E 28 0xffff9e9; E 29 0x1ffffca9; E 28 0xffffa29; E 31 0x7ffffb29; E 32 0xfffff8a9; E 32 0xfffff8e9;
  E 32 0xfffff929; X; X; E 32 0xfffff969; E 30 0x3ffffc69; E 31 0x7ffffb69; E 25 0x1fffca9; E 27 0x7fff8e9;
  E 32 0xfffff9a9; X; X; E 32 0xfffff9e9; X; E 30 0x3ffffca9; E 27 0x7fff929; E 27 0x7fff969; E 32 0xfffffa29;
  E 32 0xfffffa69; X; X; X; X; E 26 0x3fffb29; E 30 0x3ffffce9; E 26 0x3fffb69; E 27 0x7fff9a9; E 28 0xffffa69;
  E 27 0x7fff9e9; E 27 0x7fffa29; E 29 0x1ffffce9; E 28 0xffffaa9; E 28 0xffffae9; E 31 0x7ffffba9; E 31 0x7ffffbe9;
  E 30 0x3ffffd29; E 30 0x3ffffd69; E 32 0xfffffaa9; E 29 0x1ffffd29; E 32 0xfffffae9; X; E 32 0xfffffb29;
  E 32 0xfffffb69; X; X; X; X; X; X; X; X; X; X; X; E 32 0xfffffba9].
Definition hencs_110 : list henc := [
  E 19 0x7fe2a; E 29 0x1ffff62a; X; X; X; X; X; X; X; E 30 0x3ffffaaa; X; X; X; X; X; X; X; X; X; X; X; X; X; X; X; X;
  X; X; X; X; X; X; E 12 0x52a; E 16 0xfe2a; E 16 0xfe6a; E 18 0x3feaa; E 19 0x7fe6a; E 12 0x56a; E 14 0x3e2a;
  E 17 0x1feaa; E 16 0xfeaa; E 16 0xfeea; E 14 0x3e6a; E 17 0x1feea; E 14 0x3eaa; E 12 0x5aa; E 12 0x5ea; E 12 0x62a;
  E 11 0x2a; E 11 0x6a; E 11 0xaa; E 12 0x66a; E 12 0x6aa; E 12 0x6ea; E 12 0x72a; E 12 0x76a; E 12 0x7aa; E 12 0x7ea;
  E 13 0x172a; E 14 0x3eea; E 21 0x1fff2a; E 12 0x82a; E 18 0x3feea; E 16 0xff2a; E 19 0x7feaa; E 12 0x86a;
  E 13 0x176a; E 13 0x17aa; E 13 0x17ea; E 13 0x182a; E 13 0x186a; E 13 0x18aa; E 13 0x18ea; E 13 0x192a; E 13 0x196a;
  E 13 0x19aa; E 13 0x19ea; E 13 0x1a2a; E 13 0x1a6a; E 13 0x1aaa; E 13 0x1aea; E 13 0x1b2a; E 13 0x1b6a; E 13 0x1baa;
  E 13 0x1bea; E 13 0x1c2a; E 13 0x1c6a; E 13 0x1caa; E 14 0x3f2a; E 13 0x1cea; E 14 0x3f6a; E 19 0x7feea;
  E 25 0x1fffc2a; E 19 0x7ff2a; E 20 0xfff2a; E 12 0x8aa; E 21 0x1fff6a; E 11 0xea; E 12 0x8ea; E 11 0x12a;
  E 12 0x92a; E 11 0x16a; E 12 0x96a; E 12 0x9aa; E 12 0x9ea; E 11 0x1aa; E 13 0x1d2a; E 13 0x1d6a; E 12 0xa2a;
  E 12 0xa6a; E 12 0xaaa; E 11 0x1ea; E 12 0xaea; E 13 0x1daa; E 12 0xb2a; E 11 0x22a; E 11 0x26a; E 12 0xb6a;
  E 13 0x1dea; E 13 0x1e2a; E 13 0x1e6a; E 13 0x1eaa; E 13 0x1eea; E 21 0x1fffaa; E 17 0x1ff2a; E 20 0xfff6a;
  E 19 0x7ff6a; X; E 26 0x3fff9aa; E 28 0xffff4aa; E 26 0x3fff9ea; E 26 0x3fffa2a; E 28 0xffff4ea; E 28 0xffff52a;
  E 28 0xffff56a; E 29 0x1ffff66a; E 28 0xffff5aa; E 29 0x1ffff6aa; E 29 0x1ffff6ea; E 29 0x1ffff72a; E 29 0x1ffff76a;
  E 29 0x1ffff7aa; E 30 0x3ffffaea; E 29 0x1ffff7ea; E 30 0x3ffffb2a; E 30 0x3ffffb6a; E 28 0xffff5ea;
  E 29 0x1ffff82a; E 30 0x3ffffbaa; E 29 0x1ffff86a; E 29 0x1ffff8aa; E 29 0x1ffff8ea; E 29 0x1ffff92a;
  E 27 0x7fff72a; E 28 0xffff62a; E 29 0x1ffff96a; E 28 0xffff66a; E 29 0x1ffff9aa; E 29 0x1ffff9ea; E 30 0x3ffffbea;
  E 28 0xffff6aa; E 27 0x7fff76a; E 26 0x3fffa6a; E 28 0xffff6ea; E 28 0xffff72a; E 29 0x1ffffa2a; E 29 0x1ffffa6a;
  E 27 0x7fff7aa; E 29 0x1ffffaaa; E 28 0xffff76a; E 28 0xffff7aa; E 30 0x3ffffc2a; E 27 0x7fff7ea; E 28 0xffff7ea;
  E 29 0x1ffffaea; E 29 0x1ffffb2a; E 27 0x7fff82a; E 27 0x7fff86a; E 28 0xffff82a; E 27 0x7fff8aa; E 29 0x1ffffb6a;
  E 28 0xffff86a; E 29 0x1ffffbaa; E 29 0x1ffffbea; E 26 0x3fffaaa; E 28 0xffff8aa; E 28 0xffff8ea; E 28 0xffff92a;
  E 29 0x1ffffc2a; E 28 0xffff96a; E 28 0xffff9aa; E 29 0x1ffffc6a; E 32 0xfffff82a; E 32 0xfffff86a; E 26 0x3fffaea;
  E 25 0x1fffc6a; E 28 0xffff9ea; E 29 0x1ffffcaa; E 28 0xffffa2a; E 31 0x7ffffb2a; E 32 0xfffff8aa; E 32 0xfffff8ea;
  E 32 0xfffff92a; X; X; E 32 0xfffff96a; E 30 0x3ffffc6a; E 31 0x7ffffb6a; E 25 0x1fffcaa; E 27 0x7fff8ea;
  E 32 0xfffff9aa; X; X; E 32 0xfffff9ea; X; E 30 0x3ffffcaa; E 27 0x7fff92a; E 27 0x7fff96a; E 32 0xfffffa2a;
  E 32 0xfffffa6a; X; X; X; X; E 26 0x3fffb2a; E 30 0x3ffffcea; E 26 0x3fffb6a; E 27 0x7fff9aa; E 28 0xffffa6a;
  E 27 0x7fff9ea; E 27 0x7fffa2a; E 29 0x1ffffcea; E 28 0xffffaaa; E 28 0xffffaea; E 31 0x7ffffbaa; E 31 0x7ffffbea;
  E 30 0x3ffffd2a; E 30 0x3ffffd6a; E 32 0xfffffaaa; E 29 0x1ffffd2a; E 32 0xfffffaea; X; E 32 0xfffffb2a;
  E 32 0xfffffb6a; X; X; X; X; X; X; X; X; X; X; X; E 32 0xfffffbaa].
Definition hencs_111 : list henc := [
  E 18 0x3ff07; E 28 0xffffb07; X; X; X; X; X; X; X; E 29 0x1ffffd47; X; X; X; X; X; X; X; X; X; X; X; X; X; X; X; X;
  X; X; X; X; X; X; E 11 0x287; E 15 0x7f07; E 15 0x7f27; E 17 0x1ff47; E 18 0x3ff27; E 11 0x2a7; E 13 0x1f07;
  E 16 0xff47; E 15 0x7f47; E 15 0x7f67; E 13 0x1f27; E 16 0xff67; E 13 0x1f47; E 11 0x2c7; E 11 0x2e7; E 11 0x307;
  E 10 0x7; E 10 0x27; E 10 0x47; E 11 0x327; E 11 0x347; E 11 0x367; E 11 0x387; E 11 0x3a7; E 11 0x3c7; E 11 0x3e7;
  E 12 0xb87; E 13 0x1f67; E 20 0xfff87; E 11 0x407; E 17 0x1ff67; E 15 0x7f87; E 18 0x3ff47; E 11 0x427; E 12 0xba7;
  E 12 0xbc7; E 12 0xbe7; E 12 0xc07; E 12 0xc27; E 12 0xc47; E 12 0xc67; E 12 0xc87; E 12 0xca7; E 12 0xcc7;
  E 12 0xce7; E 12 0xd07; E 12 0xd27; E 12 0xd47; E 12 0xd67; E 12 0xd87; E 12 0xda7; E 12 0xdc7; E 12 0xde7;
  E 12 0xe07; E 12 0xe27; E 12 0xe47; E 13 0x1f87; E 12 0xe67; E 13 0x1fa7; E 18 0x3ff67; E 24 0xfffe07; E 18 0x3ff87;
  E 19 0x7ff87; E 11 0x447; E 20 0xfffa7; E 10 0x67; E 11 0x467; E 10 0x87; E 11 0x487; E 10 0xa7; E 11 0x4a7;
  E 11 0x4c7; E 11 0x4e7; E 10 0xc7; E 12 0xe87; E 12 0xea7; E 11 0x507; E 11 0x527; E 11 0x547; E 10 0xe7;
  E 11 0x567; E 12 0xec7; E 11 0x587; E 10 0x107; E 10 0x127; E 11 0x5a7; E 12 0xee7; E 12 0xf07; E 12 0xf27;
  E 12 0xf47; E 12 0xf67; E 20 0xfffc7; E 16 0xff87; E 19 0x7ffa7; E 18 0x3ffa7; X; E 25 0x1fffcc7; E 27 0x7fffa47;
  E 25 0x1fffce7; E 25 0x1fffd07; E 27 0x7fffa67; E 27 0x7fffa87; E 27 0x7fffaa7; E 28 0xffffb27; E 27 0x7fffac7;
  E 28 0xffffb47; E 28 0xffffb67; E 28 0xffffb87; E 28 0xffffba7; E 28 0xffffbc7; E 29 0x1ffffd67; E 28 0xffffbe7;
  E 29 0x1ffffd87; E 29 0x1ffffda7; E 27 0x7fffae7; E 28 0xffffc07; E 29 0x1ffffdc7; E 28 0xffffc27; E 28 0xffffc47;
  E 28 0xffffc67; E 28 0xffffc87; E 26 0x3fffb87; E 27 0x7fffb07; E 28 0xffffca7; E 27 0x7fffb27; E 28 0xffffcc7;
  E 28 0xffffce7; E 29 0x1ffffde7; E 27 0x7fffb47; E 26 0x3fffba7; E 25 0x1fffd27; E 27 0x7fffb67; E 27 0x7fffb87;
  E 28 0xffffd07; E 28 0xffffd27; E 26 0x3fffbc7; E 28 0xffffd47; E 27 0x7fffba7; E 27 0x7fffbc7; E 29 0x1ffffe07;
  E 26 0x3fffbe7; E 27 0x7fffbe7; E 28 0xffffd67; E 28 0xffffd87; E 26 0x3fffc07; E 26 0x3fffc27; E 27 0x7fffc07;
  E 26 0x3fffc47; E 28 0xffffda7; E 27 0x7fffc27; E 28 0xffffdc7; E 28 0xffffde7; E 25 0x1fffd47; E 27 0x7fffc47;
  E 27 0x7fffc67; E 27 0x7fffc87; E 28 0xffffe07; E 27 0x7fffca7; E 27 0x7fffcc7; E 28 0xffffe27; E 31 0x7ffffc07;
  E 31 0x7ffffc27; E 25 0x1fffd67; E 24 0xfffe27; E 27 0x7fffce7; E 28 0xffffe47; E 27 0x7fffd07; E 30 0x3ffffd87;
  E 31 0x7ffffc47; E 31 0x7ffffc67; E 31 0x7ffffc87; E 32 0xfffffbc7; E 32 0xfffffbe7; E 31 0x7ffffca7;
  E 29 0x1ffffe27; E 30 0x3ffffda7; E 24 0xfffe47; E 26 0x3fffc67; E 31 0x7ffffcc7; E 32 0xfffffc07; E 32 0xfffffc27;
  E 31 0x7ffffce7; E 32 0xfffffc47; E 29 0x1ffffe47; E 26 0x3fffc87; E 26 0x3fffca7; E 31 0x7ffffd07; E 31 0x7ffffd27;
  X; E 32 0xfffffc67; E 32 0xfffffc87; E 32 0xfffffca7; E 25 0x1fffd87; E 29 0x1ffffe67; E 25 0x1fffda7;
  E 26 0x3fffcc7; E 27 0x7fffd27; E 26 0x3fffce7; E 26 0x3fffd07; E 28 0xffffe67; E 27 0x7fffd47; E 27 0x7fffd67;
  E 30 0x3ffffdc7; E 30 0x3ffffde7; E 29 0x1ffffe87; E 29 0x1ffffea7; E 31 0x7ffffd47; E 28 0xffffe87;
  E 31 0x7ffffd67; E 32 0xfffffcc7; E 31 0x7ffffd87; E 31 0x7ffffda7; E 32 0xfffffce7; E 32 0xfffffd07;
  E 32 0xfffffd27; E 32 0xfffffd47; E 32 0xfffffd67; X; E 32 0xfffffd87; E 32 0xfffffda7; E 32 0xfffffdc7;
  E 32 0xfffffde7; E 32 0xfffffe07; E 31 0x7ffffdc7].
Definition hencs_112 : list henc := [
  E 19 0x7fe2b; E 29 0x1ffff62b; X; X; X; X; X; X; X; E 30 0x3ffffaab; X; X; X; X; X; X; X; X; X; X; X; X; X; X; X; X;
  X; X; X; X; X; X; E 12 0x52b; E 16 0xfe2b; E 16 0xfe6b; E 18 0x3feab; E 19 0x7fe6b; E 12 0x56b; E 14 0x3e2b;
  E 17 0x1feab; E 16 0xfeab; E 16 0xfeeb; E 14 0x3e6b; E 17 0x1feeb; E 14 0x3eab; E 12 0x5ab; E 12 0x5eb; E 12 0x62b;
  E 11 0x2b; E 11 0x6b; E 11 0xab; E 12 0x66b; E 12 0x6ab; E 12 0x6eb; E 12 0x72b; E 12 0x76b; E 12 0x7ab; E 12 0x7eb;
  E 13 0x172b; E 14 0x3eeb; E 21 0x1fff2b; E 12 0x82b; E 18 0x3feeb; E 16 0xff2b; E 19 0x7feab; E 12 0x86b;
  E 13 0x176b; E 13 0x17ab; E 13 0x17eb; E 13 0x182b; E 13 0x186b; E 13 0x18ab; E 13 0x18eb; E 13 0x192b; E 13 0x196b;
  E 13 0x19ab; E 13 0x19eb; E 13 0x1a2b; E 13 0x1a6b; E 13 0x1aab; E 13 0x1aeb; E 13 0x1b2b; E 13 0x1b6b; E 13 0x1bab;
  E 13 0x1beb; E 13 0x1c2b; E 13 0x1c6b; E 13 0x1cab; E 14 0x3f2b; E 13 0x1ceb; E 14 0x3f6b; E 19 0x7feeb;
  E 25 0x1fffc2b; E 19 0x7ff2b; E 20 0xfff2b; E 12 0x8ab; E 21 0x1fff6b; E 11 0xeb; E 12 0x8eb; E 11 0x12b;
  E 12 0x92b; E 11 0x16b; E 12 0x96b; E 12 0x9ab; E 12 0x9eb; E 11 0x1ab; E 13 0x1d2b; E 13 0x1d6b; E 12 0xa2b;
  E 12 0xa6b; E 12 0xaab; E 11 0x1eb; E 12 0xaeb; E 13 0x1dab; E 12 0xb2b; E 11 0x22b; E 11 0x26b; E 12 0xb6b;
  E 13 0x1deb; E 13 0x1e2b; E 13 0x1e6b; E 13 0x1eab; E 13 0x1eeb; E 21 0x1fffab; E 17 0x1ff2b; E 20 0xfff6b;
  E 19 0x7ff6b; X; E 26 0x3fff9ab; E 28 0xffff4ab; E 26 0x3fff9eb; E 26 0x3fffa2b; E 28 0xffff4eb; E 28 0xffff52b;
  E 28 0xffff56b; E 29 0x1ffff66b; E 28 0xffff5ab; E 29 0x1ffff6ab; E 29 0x1ffff6eb; E 29 0x1ffff72b; E 29 0x1ffff76b;
  E 29 0x1ffff7ab; E 30 0x3ffffaeb; E 29 0x1ffff7eb; E 30 0x3ffffb2b; E 30 0x3ffffb6b; E 28 0xffff5eb;
  E 29 0x1ffff82b; E 30 0x3ffffbab; E 29 0x1ffff86b; E 29 0x1ffff8ab; E 29 0x1ffff8eb; E 29 0x1ffff92b;
  E 27 0x7fff72b; E 28 0xffff62b; E 29 0x1ffff96b; E 28 0xffff66b; E 29 0x1ffff9ab; E 29 0x1ffff9eb; E 30 0x3ffffbeb;
  E 28 0xffff6ab; E 27 0x7fff76b; E 26 0x3fffa6b; E 28 0xffff6eb; E 28 0xffff72b; E 29 0x1ffffa2b; E 29 0x1ffffa6b;
  E 27 0x7fff7ab; E 29 0x1ffffaab; E 28 0xffff76b; E 28 0xffff7ab; E 30 0x3ffffc2b; E 27 0x7fff7eb; E 28 0xffff7eb;
  E 29 0x1ffffaeb; E 29 0x1ffffb2b; E 27 0x7fff82b; E 27 0x7fff86b; E 28 0xffff82b; E 27 0x7fff8ab; E 29 0x1ffffb6b;
  E 28 0xffff86b; E 29 0x1ffffbab; E 29 0x1ffffbeb; E 26 0x3fffaab; E 28 0xffff8ab; E 28 0xffff8eb; E 28 0xffff92b;
  E 29 0x1ffffc2b; E 28 0xffff96b; E 28 0xffff9ab; E 29 0x1ffffc6b; E 32 0xfffff82b; E 32 0xfffff86b; E 26 0x3fffaeb;
  E 25 0x1fffc6b; E 28 0xffff9eb; E 29 0x1ffffcab; E 28 0xffffa2b; E 31 0x7ffffb2b; E 32 0xfffff8ab; E 32 0xfffff8eb;
  E 32 0xfffff92b; X; X; E 32 0xfffff96b; E 30 0x3ffffc6b; E 31 0x7ffffb6b; E 25 0x1fffcab; E 27 0x7fff8eb;
  E 32 0xfffff9ab; X; X; E 32 0xfffff9eb; X; E 30 0x3ffffcab; E 27 0x7fff92b; E 27 0x7fff96b; E 32 0xfffffa2b;
  E 32 0xfffffa6b; X; X; X; X; E 26 0x3fffb2b; E 30 0x3ffffceb; E 26 0x3fffb6b; E 27 0x7fff9ab; E 28 0xffffa6b;
  E 27 0x7fff9eb; E 27 0x7fffa2b; E 29 0x1ffffceb; E 28 0xffffaab; E 28 0xffffaeb; E 31 0x7ffffbab; E 31 0x7ffffbeb;
  E 30 0x3ffffd2b; E 30 0x3ffffd6b; E 32 0xfffffaab; E 29 0x1ffffd2b; E 32 0xfffffaeb; X; E 32 0xfffffb2b;
  E 32 0xfffffb6b; X; X; X; X; X; X; X; X; X; X; X; E 32 0xfffffbab].
Definition hencs_113 : list henc := [
  E 20 0xffc76; E 30 0x3fffec76; X; X; X; X; X; X; X; E 31 0x7ffff576; X; X; X; X; X; X; X; X; X; X; X; X; X; X; X; X;
  X; X; X; X; X; X; E 13 0xa76; E 17 0x1fc76; E 17 0x1fcf6; E 19 0x7fd76; E 20 0xffcf6; E 13 0xaf6; E 15 0x7c76;
  E 18 0x3fd76; E 17 0x1fd76; E 17 0x1fdf6; E 15 0x7cf6; E 18 0x3fdf6; E 15 0x7d76; E 13 0xb76; E 13 0xbf6;
  E 13 0xc76; E 12 0x76; E 12 0xf6; E 12 0x176; E 13 0xcf6; E 13 0xd76; E 13 0xdf6; E 13 0xe76; E 13 0xef6;
  E 13 0xf76; E 13 0xff6; E 14 0x2e76; E 15 0x7df6; E 22 0x3ffe76; E 13 0x1076; E 19 0x7fdf6; E 17 0x1fe76;
  E 20 0xffd76; E 13 0x10f6; E 14 0x2ef6; E 14 0x2f76; E 14 0x2ff6; E 14 0x3076; E 14 0x30f6; E 14 0x3176;
  E 14 0x31f6; E 14 0x3276; E 14 0x32f6; E 14 0x3376; E 14 0x33f6; E 14 0x3476; E 14 0x34f6; E 14 0x3576; E 14 0x35f6;
  E 14 0x3676; E 14 0x36f6; E 14 0x3776; E 14 0x37f6; E 14 0x3876; E 14 0x38f6; E 14 0x3976; E 15 0x7e76; E 14 0x39f6;
  E 15 0x7ef6; E 20 0xffdf6; E 26 0x3fff876; E 20 0xffe76; E 21 0x1ffe76; E 13 0x1176; E 22 0x3ffef6; E 12 0x1f6;
  E 13 0x11f6; E 12 0x276; E 13 0x1276; E 12 0x2f6; E 13 0x12f6; E 13 0x1376; E 13 0x13f6; E 12 0x376; E 14 0x3a76;
  E 14 0x3af6; E 13 0x1476; E 13 0x14f6; E 13 0x1576; E 12 0x3f6; E 13 0x15f6; E 14 0x3b76; E 13 0x1676; E 12 0x476;
  E 12 0x4f6; E 13 0x16f6; E 14 0x3bf6; E 14 0x3c76; E 14 0x3cf6; E 14 0x3d76; E 14 0x3df6; E 22 0x3fff76;
  E 18 0x3fe76; E 21 0x1ffef6; E 20 0xffef6; X; E 27 0x7fff376; E 29 0x1fffe976; E 27 0x7fff3f6; E 27 0x7fff476;
  E 29 0x1fffe9f6; E 29 0x1fffea76; E 29 0x1fffeaf6; E 30 0x3fffecf6; E 29 0x1fffeb76; E 30 0x3fffed76;
  E 30 0x3fffedf6; E 30 0x3fffee76; E 30 0x3fffeef6; E 30 0x3fffef76; E 31 0x7ffff5f6; E 30 0x3fffeff6;
  E 31 0x7ffff676; E 31 0x7ffff6f6; E 29 0x1fffebf6; E 30 0x3ffff076; E 31 0x7ffff776; E 30 0x3ffff0f6;
  E 30 0x3ffff176; E 30 0x3ffff1f6; E 30 0x3ffff276; E 28 0xfffee76; E 29 0x1fffec76; E 30 0x3ffff2f6;
  E 29 0x1fffecf6; E 30 0x3ffff376; E 30 0x3ffff3f6; E 31 0x7ffff7f6; E 29 0x1fffed76; E 28 0xfffeef6; E 27 0x7fff4f6;
  E 29 0x1fffedf6; E 29 0x1fffee76; E 30 0x3ffff476; E 30 0x3ffff4f6; E 28 0xfffef76; E 30 0x3ffff576;
  E 29 0x1fffeef6; E 29 0x1fffef76; E 31 0x7ffff876; E 28 0xfffeff6; E 29 0x1fffeff6; E 30 0x3ffff5f6;
  E 30 0x3ffff676; E 28 0xffff076; E 28 0xffff0f6; E 29 0x1ffff076; E 28 0xffff176; E 30 0x3ffff6f6; E 29 0x1ffff0f6;
  E 30 0x3ffff776; E 30 0x3ffff7f6; E 27 0x7fff576; E 29 0x1ffff176; E 29 0x1ffff1f6; E 29 0x1ffff276;
  E 30 0x3ffff876; E 29 0x1ffff2f6; E 29 0x1ffff376; E 30 0x3ffff8f6; X; X; E 27 0x7fff5f6; E 26 0x3fff8f6;
  E 29 0x1ffff3f6; E 30 0x3ffff976; E 29 0x1ffff476; E 32 0xfffff676; X; X; X; X; X; X; E 31 0x7ffff8f6;
  E 32 0xfffff6f6; E 26 0x3fff976; E 28 0xffff1f6; X; X; X; X; X; E 31 0x7ffff976; E 28 0xffff276; E 28 0xffff2f6; X;
  X; X; X; X; X; E 27 0x7fff676; E 31 0x7ffff9f6; E 27 0x7fff6f6; E 28 0xffff376; E 29 0x1ffff4f6; E 28 0xffff3f6;
  E 28 0xffff476; E 30 0x3ffff9f6; E 29 0x1ffff576; E 29 0x1ffff5f6; E 32 0xfffff776; E 32 0xfffff7f6;
  E 31 0x7ffffa76; E 31 0x7ffffaf6; X; E 30 0x3ffffa76; X; X; X; X; X; X; X; X; X; X; X; X; X; X; X; X].
Definition hencs_114 : list henc := [
  E 19 0x7fe2c; E 29 0x1ffff62c; X; X; X; X; X; X; X; E 30 0x3ffffaac; X; X; X; X; X; X; X; X; X; X; X; X; X; X; X; X;
  X; X; X; X; X; X; E 12 0x52c; E 16 0xfe2c; E 16 0xfe6c; E 18 0x3feac; E 19 0x7fe6c; E 12 0x56c; E 14 0x3e2c;
  E 17 0x1feac; E 16 0xfeac; E 16 0xfeec; E 14 0x3e6c; E 17 0x1feec; E 14 0x3eac; E 12 0x5ac; E 12 0x5ec; E 12 0x62c;
  E 11 0x2c; E 11 0x6c; E 11 0xac; E 12 0x66c; E 12 0x6ac; E 12 0x6ec; E 12 0x72c; E 12 0x76c; E 12 0x7ac; E 12 0x7ec;
  E 13 0x172c; E 14 0x3eec; E 21 0x1fff2c; E 12 0x82c; E 18 0x3feec; E 16 0xff2c; E 19 0x7feac; E 12 0x86c;
  E 13 0x176c; E 13 0x17ac; E 13 0x17ec; E 13 0x182c; E 13 0x186c; E 13 0x18ac; E 13 0x18ec; E 13 0x192c; E 13 0x196c;
  E 13 0x19ac; E 13 0x19ec; E 13 0x1a2c; E 13 0x1a6c; E 13 0x1aac; E 13 0x1aec; E 13 0x1b2c; E 13 0x1b6c; E 13 0x1bac;
  E 13 0x1bec; E 13 0x1c2c; E 13 0x1c6c; E 13 0x1cac; E 14 0x3f2c; E 13 0x1cec; E 14 0x3f6c; E 19 0x7feec;
  E 25 0x1fffc2c; E 19 0x7ff2c; E 20 0xfff2c; E 12 0x8ac; E 21 0x1fff6c; E 11 0xec; E 12 0x8ec; E 11 0x12c;
  E 12 0x92c; E 11 0x16c; E 12 0x96c; E 12 0x9ac; E 12 0x9ec; E 11 0x1ac; E 13 0x1d2c; E 13 0x1d6c; E 12 0xa2c;
  E 12 0xa6c; E 12 0xaac; E 11 0x1ec; E 12 0xaec; E 13 0x1dac; E 12 0xb2c; E 11 0x22c; E 11 0x26c; E 12 0xb6c;
  E 13 0x1dec; E 13 0x1e2c; E 13 0x1e6c; E 13 0x1eac; E 13 0x1eec; E 21 0x1fffac; E 17 0x1ff2c; E 20 0xfff6c;
  E 19 0x7ff6c; X; E 26 0x3fff9ac; E 28 0xffff4ac; E 26 0x3fff9ec; E 26 0x3fffa2c; E 28 0xffff4ec; E 28 0xffff52c;
  E 28 0xffff56c; E 29 0x1ffff66c; E 28 0xffff5ac; E 29 0x1ffff6ac; E 29 0x1ffff6ec; E 29 0x1ffff72c; E 29 0x1ffff76c;
  E 29 0x1ffff7ac; E 30 0x3ffffaec; E 29 0x1ffff7ec; E 30 0x3ffffb2c; E 30 0x3ffffb6c; E 28 0xffff5ec;
  E 29 0x1ffff82c; E 30 0x3ffffbac; E 29 0x1ffff86c; E 29 0x1ffff8ac; E 29 0x1ffff8ec; E 29 0x1ffff92c;
  E 27 0x7fff72c; E 28 0xffff62c; E 29 0x1ffff96c; E 28 0xffff66c; E 29 0x1ffff9ac; E 29 0x1ffff9ec; E 30 0x3ffffbec;
  E 28 0xffff6ac; E 27 0x7fff76c; E 26 0x3fffa6c; E 28 0xffff6ec; E 28 0xffff72c; E 29 0x1ffffa2c; E 29 0x1ffffa6c;
  E 27 0x7fff7ac; E 29 0x1ffffaac; E 28 0xffff76c; E 28 0xffff7ac; E 30 0x3ffffc2c; E 27 0x7fff7ec; E 28 0xffff7ec;
  E 29 0x1ffffaec; E 29 0x1ffffb2c; E 27 0x7fff82c; E 27 0x7fff86c; E 28 0xffff82c; E 27 0x7fff8ac; E 29 0x1ffffb6c;
  E 28 0xffff86c; E 29 0x1ffffbac; E 29 0x1ffffbec; E 26 0x3fffaac; E 28 0xffff8ac; E 28 0xffff8ec; E 28 0xffff92c;
  E 29 0x1ffffc2c; E 28 0xffff96c; E 28 0xffff9ac; E 29 0x1ffffc6c; E 32 0xfffff82c; E 32 0xfffff86c; E 26 0x3fffaec;
  E 25 0x1fffc6c; E 28 0xffff9ec; E 29 0x1ffffcac; E 28 0xffffa2c; E 31 0x7ffffb2c; E 32 0xfffff8ac; E 32 0xfffff8ec;
  E 32 0xfffff92c; X; X; E 32 0xfffff96c; E 30 0x3ffffc6c; E 31 0x7ffffb6c; E 25 0x1fffcac; E 27 0x7fff8ec;
  E 32 0xfffff9ac; X; X; E 32 0xfffff9ec; X; E 30 0x3ffffcac; E 27 0x7fff92c; E 27 0x7fff96c; E 32 0xfffffa2c;
  E 32 0xfffffa6c; X; X; X; X; E 26 0x3fffb2c; E 30 0x3ffffcec; E 26 0x3fffb6c; E 27 0x7fff9ac; E 28 0xffffa6c;
  E 27 0x7fff9ec; E 27 0x7fffa2c; E 29 0x1ffffcec; E 28 0xffffaac; E 28 0xffffaec; E 31 0x7ffffbac; E 31 0x7ffffbec;
  E 30 0x3ffffd2c; E 30 0x3ffffd6c; E 32 0xfffffaac; E 29 0x1ffffd2c; E 32 0xfffffaec; X; E 32 0xfffffb2c;
  E 32 0xfffffb6c; X; X; X; X; X; X; X; X; X; X; X; E 32 0xfffffbac].
Definition hencs_115 : list henc := [
  E 18 0x3ff08; E 28 0xffffb08; X; X; X; X; X; X; X; E 29 0x1ffffd48; X; X; X; X; X; X; X; X; X; X; X; X; X; X; X; X;
  X; X; X; X; X; X; E 11 0x288; E 15 0x7f08; E 15 0x7f28; E 17 0x1ff48; E 18 0x3ff28; E 11 0x2a8; E 13 0x1f08;
  E 16 0xff48; E 15 0x7f48; E 15 0x7f68; E 13 0x1f28; E 16 0xff68; E 13 0x1f48; E 11 0x2c8; E 11 0x2e8; E 11 0x308;
  E 10 0x8; E 10 0x28; E 10 0x48; E 11 0x328; E 11 0x348; E 11 0x368; E 11 0x388; E 11 0x3a8; E 11 0x3c8; E 11 0x3e8;
  E 12 0xb88; E 13 0x1f68; E 20 0xfff88; E 11 0x408; E 17 0x1ff68; E 15 0x7f88; E 18 0x3ff48; E 11 0x428; E 12 0xba8;
  E 12 0xbc8; E 12 0xbe8; E 12 0xc08; E 12 0xc28; E 12 0xc48; E 12 0xc68; E 12 0xc88; E 12 0xca8; E 12 0xcc8;
  E 12 0xce8; E 12 0xd08; E 12 0xd28; E 12 0xd48; E 12 0xd68; E 12 0xd88; E 12 0xda8; E 12 0xdc8; E 12 0xde8;
  E 12 0xe08; E 12 0xe28; E 12 0xe48; E 13 0x1f88; E 12 0xe68; E 13 0x1fa8; E 18 0x3ff68; E 24 0xfffe08; E 18 0x3ff88;
  E 19 0x7ff88; E 11 0x448; E 20 0xfffa8; E 10 0x68; E 11 0x468; E 10 0x88; E 11 0x488; E 10 0xa8; E 11 0x4a8;
  E 11 0x4c8; E 11 0x4e8; E 10 0xc8; E 12 0xe88; E 12 0xea8; E 11 0x508; E 11 0x528; E 11 0x548; E 10 0xe8;
  E 11 0x568; E 12 0xec8; E 11 0x588; E 10 0x108; E 10 0x128; E 11 0x5a8; E 12 0xee8; E 12 0xf08; E 12 0xf28;
  E 12 0xf48; E 12 0xf68; E 20 0xfffc8; E 16 0xff88; E 19 0x7ffa8; E 18 0x3ffa8; X; E 25 0x1fffcc8; E 27 0x7fffa48;
  E 25 0x1fffce8; E 25 0x1fffd08; E 27 0x7fffa68; E 27 0x7fffa88; E 27 0x7fffaa8; E 28 0xffffb28; E 27 0x7fffac8;
  E 28 0xffffb48; E 28 0xffffb68; E 28 0xffffb88; E 28 0xffffba8; E 28 0xffffbc8; E 29 0x1ffffd68; E 28 0xffffbe8;
  E 29 0x1ffffd88; E 29 0x1ffffda8; E 27 0x7fffae8; E 28 0xffffc08; E 29 0x1ffffdc8; E 28 0xffffc28; E 28 0xffffc48;
  E 28 0xffffc68; E 28 0xffffc88; E 26 0x3fffb88; E 27 0x7fffb08; E 28 0xffffca8; E 27 0x7fffb28; E 28 0xffffcc8;
  E 28 0xffffce8; E 29 0x1ffffde8; E 27 0x7fffb48; E 26 0x3fffba8; E 25 0x1fffd28; E 27 0x7fffb68; E 27 0x7fffb88;
  E 28 0xffffd08; E 28 0xffffd28; E 26 0x3fffbc8; E 28 0xffffd48; E 27 0x7fffba8; E 27 0x7fffbc8; E 29 0x1ffffe08;
  E 26 0x3fffbe8; E 27 0x7fffbe8; E 28 0xffffd68; E 28 0xffffd88; E 26 0x3fffc08; E 26 0x3fffc28; E 27 0x7fffc08;
  E 26 0x3fffc48; E 28 0xffffda8; E 27 0x7fffc28; E 28 0xffffdc8; E 28 0xffffde8; E 25 0x1fffd48; E 27 0x7fffc48;
  E 27 0x7fffc68; E 27 0x7fffc88; E 28 0xffffe08; E 27 0x7fffca8; E 27 0x7fffcc8; E 28 0xffffe28; E 31 0x7ffffc08;
  E 31 0x7ffffc28; E 25 0x1fffd68; E 24 0xfffe28; E 27 0x7fffce8; E 28 0xffffe48; E 27 0x7fffd08; E 30 0x3ffffd88;
  E 31 0x7ffffc48; E 31 0x7ffffc68; E 31 0x7ffffc88; E 32 0xfffffbc8; E 32 0xfffffbe8; E 31 0x7ffffca8;
  E 29 0x1ffffe28; E 30 0x3ffffda8; E 24 0xfffe48; E 26 0x3fffc68; E 31 0x7ffffcc8; E 32 0xfffffc08; E 32 0xfffffc28;
  E 31 0x7ffffce8; E 32 0xfffffc48; E 29 0x1ffffe48; E 26 0x3fffc88; E 26 0x3fffca8; E 31 0x7ffffd08; E 31 0x7ffffd28;
  X; E 32 0xfffffc68; E 32 0xfffffc88; E 32 0xfffffca8; E 25 0x1fffd88; E 29 0x1ffffe68; E 25 0x1fffda8;
  E 26 0x3fffcc8; E 27 0x7fffd28; E 26 0x3fffce8; E 26 0x3fffd08; E 28 0xffffe68; E 27 0x7fffd48; E 27 0x7fffd68;
  E 30 0x3ffffdc8; E 30 0x3ffffde8; E 29 0x1ffffe88; E 29 0x1ffffea8; E 31 0x7ffffd48; E 28 0xffffe88;
  E 31 0x7ffffd68; E 32 0xfffffcc8; E 31 0x7ffffd88; E 31 0x7ffffda8; E 32 0xfffffce8; E 32 0xfffffd08;
  E 32 0xfffffd28; E 32 0xfffffd48; E 32 0xfffffd68; X; E 32 0xfffffd88; E 32 0xfffffda8; E 32 0xfffffdc8;
  E 32 0xfffffde8; E 32 0xfffffe08; E 31 0x7ffffdc8].
Definition hencs_116 : list henc := [
  E 18 0x3ff09; E 28 0xffffb09; X; X; X; X; X; X; X; E 29 0x1ffffd49; X; X; X; X; X; X; X; X; X; X; X; X; X; X; X; X;
  X; X; X; X; X; X; E 11 0x289; E 15 0x7f09; E 15 0x7f29; E 17 0x1ff49; E 18 0x3ff29; E 11 0x2a9; E 13 0x1f09;
  E 16 0xff49; E 15 0x7f49; E 15 0x7f69; E 13 0x1f29; E 16 0xff69; E 13 0x1f49; E 11 0x2c9; E 11 0x2e9; E 11 0x309;
  E 10 0x9; E 10 0x29; E 10 0x49; E 11 0x329; E 11 0x349; E 11 0x369; E 11 0x389; E 11 0x3a9; E 11 0x3c9; E 11 0x3e9;
  E 12 0xb89; E 13 0x1f69; E 20 0xfff89; E 11 0x409; E 17 0x1ff69; E 15 0x7f89; E 18 0x3ff49; E 11 0x429; E 12 0xba9;
  E 12 0xbc9; E 12 0xbe9; E 12 0xc09; E 12 0xc29; E 12 0xc49; E 12 0xc69; E 12 0xc89; E 12 0xca9; E 12 0xcc9;
  E 12 0xce9; E 12 0xd09; E 12 0xd29; E 12 0xd49; E 12 0xd69; E 12 0xd89; E 12 0xda9; E 12 0xdc9; E 12 0xde9;
  E 12 0xe09; E 12 0xe29; E 12 0xe49; E 13 0x1f89; E 12 0xe69; E 13 0x1fa9; E 18 0x3ff69; E 24 0xfffe09; E 18 0x3ff89;
  E 19 0x7ff89; E 11 0x449; E 20 0xfffa9; E 10 0x69; E 11 0x469; E 10 0x89; E 11 0x489; E 10 0xa9; E 11 0x4a9;
  E 11 0x4c9; E 11 0x4e9; E 10 0xc9; E 12 0xe89; E 12 0xea9; E 11 0x509; E 11 0x529; E 11 0x549; E 10 0xe9;
  E 11 0x569; E 12 0xec9; E 11 0x589; E 10 0x109; E 10 0x129; E 11 0x5a9; E 12 0xee9; E 12 0xf09; E 12 0xf29;
  E 12 0xf49; E 12 0xf69; E 20 0xfffc9; E 16 0xff89; E 19 0x7ffa9; E 18 0x3ffa9; X; E 25 0x1fffcc9; E 27 0x7fffa49;
  E 25 0x1fffce9; E 25 0x1fffd09; E 27 0x7fffa69; E 27 0x7fffa89; E 27 0x7fffaa9; E 28 0xffffb29; E 27 0x7fffac9;
  E 28 0xffffb49; E 28 0xffffb69; E 28 0xffffb89; E 28 0xffffba9; E 28 0xffffbc9; E 29 0x1ffffd69; E 28 0xffffbe9;
  E 29 0x1ffffd89; E 29 0x1ffffda9; E 27 0x7fffae9; E 28 0xffffc09; E 29 0x1ffffdc9; E 28 0xffffc29; E 28 0xffffc49;
  E 28 0xffffc69; E 28 0xffffc89; E 26 0x3fffb89; E 27 0x7fffb09; E 28 0xffffca9; E 27 0x7fffb29; E 28 0xffffcc9;
  E 28 0xffffce9; E 29 0x1ffffde9; E 27 0x7fffb49; E 26 0x3fffba9; E 25 0x1fffd29; E 27 0x7fffb69; E 27 0x7fffb89;
  E 28 0xffffd09; E 28 0xffffd29; E 26 0x3fffbc9; E 28 0xffffd49; E 27 0x7fffba9; E 27 0x7fffbc9; E 29 0x1ffffe09;
  E 26 0x3fffbe9; E 27 0x7fffbe9; E 28 0xffffd69; E 28 0xffffd89; E 26 0x3fffc09; E 26 0x3fffc29; E 27 0x7fffc09;
  E 26 0x3fffc49; E 28 0xffffda9; E 27 0x7fffc29; E 28 0xffffdc9; E 28 0xffffde9; E 25 0x1fffd49; E 27 0x7fffc49;
  E 27 0x7fffc69; E 27 0x7fffc89; E 28 0xffffe09; E 27 0x7fffca9; E 27 0x7fffcc9; E 28 0xffffe29; E 31 0x7ffffc09;
  E 31 0x7ffffc29; E 25 0x1fffd69; E 24 0xfffe29; E 27 0x7fffce9; E 28 0xffffe49; E 27 0x7fffd09; E 30 0x3ffffd89;
  E 31 0x7ffffc49; E 31 0x7ffffc69; E 31 0x7ffffc89; E 32 0xfffffbc9; E 32 0xfffffbe9; E 31 0x7ffffca9;
  E 29 0x1ffffe29; E 30 0x3ffffda9; E 24 0xfffe49; E 26 0x3fffc69; E 31 0x7ffffcc9; E 32 0xfffffc09; E 32 0xfffffc29;
  E 31 0x7ffffce9; E 32 0xfffffc49; E 29 0x1ffffe49; E 26 0x3fffc89; E 26 0x3fffca9; E 31 0x7ffffd09; E 31 0x7ffffd29;
  X; E 32 0xfffffc69; E 32 0xfffffc89; E 32 0xfffffca9; E 25 0x1fffd89; E 29 0x1ffffe69; E 25 0x1fffda9;
  E 26 0x3fffcc9; E 27 0x7fffd29; E 26 0x3fffce9; E 26 0x3fffd09; E 28 0xffffe69; E 27 0x7fffd49; E 27 0x7fffd69;
  E 30 0x3ffffdc9; E 30 0x3ffffde9; E 29 0x1ffffe89; E 29 0x1ffffea9; E 31 0x7ffffd49; E 28 0xffffe89;
  E 31 0x7ffffd69; E 32 0xfffffcc9; E 31 0x7ffffd89; E 31 0x7ffffda9; E 32 0xfffffce9; E 32 0xfffffd09;
  E 32 0xfffffd29; E 32 0xfffffd49; E 32 0xfffffd69; X; E 32 0xfffffd89; E 32 0xfffffda9; E 32 0xfffffdc9;
  E 32 0xfffffde9; E 32 0xfffffe09; E 31 0x7ffffdc9].
Definition hencs_117 : list henc := [
  E 19 0x7fe2d; E 29 0x1ffff62d; X; X; X; X; X; X; X; E 30 0x3ffffaad; X; X; X; X; X; X; X; X; X; X; X; X; X; X; X; X;
  X; X; X; X; X; X; E 12 0x52d; E 16 0xfe2d; E 16 0xfe6d; E 18 0x3fead; E 19 0x7fe6d; E 12 0x56d; E 14 0x3e2d;
  E 17 0x1fead; E 16 0xfead; E 16 0xfeed; E 14 0x3e6d; E 17 0x1feed; E 14 0x3ead; E 12 0x5ad; E 12 0x5ed; E 12 0x62d;
  E 11 0x2d; E 11 0x6d; E 11 0xad; E 12 0x66d; E 12 0x6ad; E 12 0x6ed; E 12 0x72d; E 12 0x76d; E 12 0x7ad; E 12 0x7ed;
  E 13 0x172d; E 14 0x3eed; E 21 0x1fff2d; E 12 0x82d; E 18 0x3feed; E 16 0xff2d; E 19 0x7fead; E 12 0x86d;
  E 13 0x176d; E 13 0x17ad; E 13 0x17ed; E 13 0x182d; E 13 0x186d; E 13 0x18ad; E 13 0x18ed; E 13 0x192d; E 13 0x196d;
  E 13 0x19ad; E 13 0x19ed; E 13 0x1a2d; E 13 0x1a6d; E 13 0x1aad; E 13 0x1aed; E 13 0x1b2d; E 13 0x1b6d; E 13 0x1bad;
  E 13 0x1bed; E 13 0x1c2d; E 13 0x1c6d; E 13 0x1cad; E 14 0x3f2d; E 13 0x1ced; E 14 0x3f6d; E 19 0x7feed;
  E 25 0x1fffc2d; E 19 0x7ff2d; E 20 0xfff2d; E 12 0x8ad; E 21 0x1fff6d; E 11 0xed; E 12 0x8ed; E 11 0x12d;
  E 12 0x92d; E 11 0x16d; E 12 0x96d; E 12 0x9ad; E 12 0x9ed; E 11 0x1ad; E 13 0x1d2d; E 13 0x1d6d; E 12 0xa2d;
  E 12 0xa6d; E 12 0xaad; E 11 0x1ed; E 12 0xaed; E 13 0x1dad; E 12 0xb2d; E 11 0x22d; E 11 0x26d; E 12 0xb6d;
  E 13 0x1ded; E 13 0x1e2d; E 13 0x1e6d; E 13 0x1ead; E 13 0x1eed; E 21 0x1fffad; E 17 0x1ff2d; E 20 0xfff6d;
  E 19 0x7ff6d; X; E 26 0x3fff9ad; E 28 0xffff4ad; E 26 0x3fff9ed; E 26 0x3fffa2d; E 28 0xffff4ed; E 28 0xffff52d;
  E 28 0xffff56d; E 29 0x1ffff66d; E 28 0xffff5ad; E 29 0x1ffff6ad; E 29 0x1ffff6ed; E 29 0x1ffff72d; E 29 0x1ffff76d;
  E 29 0x1ffff7ad; E 30 0x3ffffaed; E 29 0x1ffff7ed; E 30 0x3ffffb2d; E 30 0x3ffffb6d; E 28 0xffff5ed;
  E 29 0x1ffff82d; E 30 0x3ffffbad; E 29 0x1ffff86d; E 29 0x1ffff8ad; E 29 0x1ffff8ed; E 29 0x1ffff92d;
  E 27 0x7fff72d; E 28 0xffff62d; E 29 0x1ffff96d; E 28 0xffff66d; E 29 0x1ffff9ad; E 29 0x1ffff9ed; E 30 0x3ffffbed;
  E 28 0xffff6ad; E 27 0x7fff76d; E 26 0x3fffa6d; E 28 0xffff6ed; E 28 0xffff72d; E 29 0x1ffffa2d; E 29 0x1ffffa6d;
  E 27 0x7fff7ad; E 29 0x1ffffaad; E 28 0xffff76d; E 28 0xffff7ad; E 30 0x3ffffc2d; E 27 0x7fff7ed; E 28 0xffff7ed;
  E 29 0x1ffffaed; E 29 0x1ffffb2d; E 27 0x7fff82d; E 27 0x7fff86d; E 28 0xffff82d; E 27 0x7fff8ad; E 29 0x1ffffb6d;
  E 28 0xffff86d; E 29 0x1ffffbad; E 29 0x1ffffbed; E 26 0x3fffaad; E 28 0xffff8ad; E 28 0xffff8ed; E 28 0xffff92d;
  E 29 0x1ffffc2d; E 28 0xffff96d; E 28 0xffff9ad; E 29 0x1ffffc6d; E 32 0xfffff82d; E 32 0xfffff86d; E 26 0x3fffaed;
  E 25 0x1fffc6d; E 28 0xffff9ed; E 29 0x1ffffcad; E 28 0xffffa2d; E 31 0x7ffffb2d; E 32 0xfffff8ad; E 32 0xfffff8ed;
  E 32 0xfffff92d; X; X; E 32 0xfffff96d; E 30 0x3ffffc6d; E 31 0x7ffffb6d; E 25 0x1fffcad; E 27 0x7fff8ed;
  E 32 0xfffff9ad; X; X; E 32 0xfffff9ed; X; E 30 0x3ffffcad; E 27 0x7fff92d; E 27 0x7fff96d; E 32 0xfffffa2d;
  E 32 0xfffffa6d; X; X; X; X; E 26 0x3fffb2d; E 30 0x3ffffced; E 26 0x3fffb6d; E 27 0x7fff9ad; E 28 0xffffa6d;
  E 27 0x7fff9ed; E 27 0x7fffa2d; E 29 0x1ffffced; E 28 0xffffaad; E 28 0xffffaed; E 31 0x7ffffbad; E 31 0x7ffffbed;
  E 30 0x3ffffd2d; E 30 0x3ffffd6d; E 32 0xfffffaad; E 29 0x1ffffd2d; E 32 0xfffffaed; X; E 32 0xfffffb2d;
  E 32 0xfffffb6d; X; X; X; X; X; X; X; X; X; X; X; E 32 0xfffffbad].
Definition hencs_118 : list henc := [
  E 20 0xffc77; E 30 0x3fffec77; X; X; X; X; X; X; X; E 31 0x7ffff577; X; X; X; X; X; X; X; X; X; X; X; X; X; X; X; X;
  X; X; X; X; X; X; E 13 0xa77; E 17 0x1fc77; E 17 0x1fcf7; E 19 0x7fd77; E 20 0xffcf7; E 13 0xaf7; E 15 0x7c77;
  E 18 0x3fd77; E 17 0x1fd77; E 17 0x1fdf7; E 15 0x7cf7; E 18 0x3fdf7; E 15 0x7d77; E 13 0xb77; E 13 0xbf7;
  E 13 0xc77; E 12 0x77; E 12 0xf7; E 12 0x177; E 13 0xcf7; E 13 0xd77; E 13 0xdf7; E 13 0xe77; E 13 0xef7;
  E 13 0xf77; E 13 0xff7; E 14 0x2e77; E 15 0x7df7; E 22 0x3ffe77; E 13 0x1077; E 19 0x7fdf7; E 17 0x1fe77;
  E 20 0xffd77; E 13 0x10f7; E 14 0x2ef7; E 14 0x2f77; E 14 0x2ff7; E 14 0x3077; E 14 0x30f7; E 14 0x3177;
  E 14 0x31f7; E 14 0x3277; E 14 0x32f7; E 14 0x3377; E 14 0x33f7; E 14 0x3477; E 14 0x34f7; E 14 0x3577; E 14 0x35f7;
  E 14 0x3677; E 14 0x36f7; E 14 0x3777; E 14 0x37f7; E 14 0x3877; E 14 0x38f7; E 14 0x3977; E 15 0x7e77; E 14 0x39f7;
  E 15 0x7ef7; E 20 0xffdf7; E 26 0x3fff877; E 20 0xffe77; E 21 0x1ffe77; E 13 0x1177; E 22 0x3ffef7; E 12 0x1f7;
  E 13 0x11f7; E 12 0x277; E 13 0x1277; E 12 0x2f7; E 13 0x12f7; E 13 0x1377; E 13 0x13f7; E 12 0x377; E 14 0x3a77;
  E 14 0x3af7; E 13 0x1477; E 13 0x14f7; E 13 0x1577; E 12 0x3f7; E 13 0x15f7; E 14 0x3b77; E 13 0x1677; E 12 0x477;
  E 12 0x4f7; E 13 0x16f7; E 14 0x3bf7; E 14 0x3c77; E 14 0x3cf7; E 14 0x3d77; E 14 0x3df7; E 22 0x3fff77;
  E 18 0x3fe77; E 21 0x1ffef7; E 20 0xffef7; X; E 27 0x7fff377; E 29 0x1fffe977; E 27 0x7fff3f7; E 27 0x7fff477;
  E 29 0x1fffe9f7; E 29 0x1fffea77; E 29 0x1fffeaf7; E 30 0x3fffecf7; E 29 0x1fffeb77; E 30 0x3fffed77;
  E 30 0x3fffedf7; E 30 0x3fffee77; E 30 0x3fffeef7; E 30 0x3fffef77; E 31 0x7ffff5f7; E 30 0x3fffeff7;
  E 31 0x7ffff677; E 31 0x7ffff6f7; E 29 0x1fffebf7; E 30 0x3ffff077; E 31 0x7ffff777; E 30 0x3ffff0f7;
  E 30 0x3ffff177; E 30 0x3ffff1f7; E 30 0x3ffff277; E 28 0xfffee77; E 29 0x1fffec77; E 30 0x3ffff2f7;
  E 29 0x1fffecf7; E 30 0x3ffff377; E 30 0x3ffff3f7; E 31 0x7ffff7f7; E 29 0x1fffed77; E 28 0xfffeef7; E 27 0x7fff4f7;
  E 29 0x1fffedf7; E 29 0x1fffee77; E 30 0x3ffff477; E 30 0x3ffff4f7; E 28 0xfffef77; E 30 0x3ffff577;
  E 29 0x1fffeef7; E 29 0x1fffef77; E 31 0x7ffff877; E 28 0xfffeff7; E 29 0x1fffeff7; E 30 0x3ffff5f7;
  E 30 0x3ffff677; E 28 0xffff077; E 28 0xffff0f7; E 29 0x1ffff077; E 28 0xffff177; E 30 0x3ffff6f7; E 29 0x1ffff0f7;
  E 30 0x3ffff777; E 30 0x3ffff7f7; E 27 0x7fff577; E 29 0x1ffff177; E 29 0x1ffff1f7; E 29 0x1ffff277;
  E 30 0x3ffff877; E 29 0x1ffff2f7; E 29 0x1ffff377; E 30 0x3ffff8f7; X; X; E 27 0x7fff5f7; E 26 0x3fff8f7;
  E 29 0x1ffff3f7; E 30 0x3ffff977; E 29 0x1ffff477; E 32 0xfffff677; X; X; X; X; X; X; E 31 0x7ffff8f7;
  E 32 0xfffff6f7; E 26 0x3fff977; E 28 0xffff1f7; X; X; X; X; X; E 31 0x7ffff977; E 28 0xffff277; E 28 0xffff2f7; X;
  X; X; X; X; X; E 27 0x7fff677; E 31 0x7ffff9f7; E 27 0x7fff6f7; E 28 0xffff377; E 29 0x1ffff4f7; E 28 0xffff3f7;
  E 28 0xffff477; E 30 0x3ffff9f7; E 29 0x1ffff577; E 29 0x1ffff5f7; E 32 0xfffff777; E 32 0xfffff7f7;
  E 31 0x7ffffa77; E 31 0x7ffffaf7; X; E 30 0x3ffffa77; X; X; X; X; X; X; X; X; X; X; X; X; X; X; X; X].
Definition hencs_119 : list henc := [
  E 20 0xffc78; E 30 0x3fffec78; X; X; X; X; X; X; X; E 31 0x7ffff578; X; X; X; X; X; X; X; X; X; X; X; X; X; X; X; X;
  X; X; X; X; X; X; E 13 0xa78; E 17 0x1fc78; E 17 0x1fcf8; E 19 0x7fd78; E 20 0xffcf8; E 13 0xaf8; E 15 0x7c78;
  E 18 0x3fd78; E 17 0x1fd78; E 17 0x1fdf8; E 15 0x7cf8; E 18 0x3fdf8; E 15 0x7d78; E 13 0xb78; E 13 0xbf8;
  E 13 0xc78; E 12 0x78; E 12 0xf8; E 12 0x178; E 13 0xcf8; E 13 0xd78; E 13 0xdf8; E 13 0xe78; E 13 0xef8;
  E 13 0xf78; E 13 0xff8; E 14 0x2e78; E 15 0x7df8; E 22 0x3ffe78; E 13 0x1078; E 19 0x7fdf8; E 17 0x1fe78;
  E 20 0xffd78; E 13 0x10f8; E 14 0x2ef8; E 14 0x2f78; E 14 0x2ff8; E 14 0x3078; E 14 0x30f8; E 14 0x3178;
  E 14 0x31f8; E 14 0x3278; E 14 0x32f8; E 14 0x3378; E 14 0x33f8; E 14 0x3478; E 14 0x34f8; E 14 0x3578; E 14 0x35f8;
  E 14 0x3678; E 14 0x36f8; E 14 0x3778; E 14 0x37f8; E 14 0x3878; E 14 0x38f8; E 14 0x3978; E 15 0x7e78; E 14 0x39f8;
  E 15 0x7ef8; E 20 0xffdf8; E 26 0x3fff878; E 20 0xffe78; E 21 0x1ffe78; E 13 0x1178; E 22 0x3ffef8; E 12 0x1f8;
  E 13 0x11f8; E 12 0x278; E 13 0x1278; E 12 0x2f8; E 13 0x12f8; E 13 0x1378; E 13 0x13f8; E 12 0x378; E 14 0x3a78;
  E 14 0x3af8; E 13 0x1478; E 13 0x14f8; E 13 0x1578; E 12 0x3f8; E 13 0x15f8; E 14 0x3b78; E 13 0x1678; E 12 0x478;
  E 12 0x4f8; E 13 0x16f8; E 14 0x3bf8; E 14 0x3c78; E 14 0x3cf8; E 14 0x3d78; E 14 0x3df8; E 22 0x3fff78;
  E 18 0x3fe78; E 21 0x1ffef8; E 20 0xffef8; X; E 27 0x7fff378; E 29 0x1fffe978; E 27 0x7fff3f8; E 27 0x7fff478;
  E 29 0x1fffe9f8; E 29 0x1fffea78; E 29 0x1fffeaf8; E 30 0x3fffecf8; E 29 0x1fffeb78; E 30 0x3fffed78;
  E 30 0x3fffedf8; E 30 0x3fffee78; E 30 0x3fffeef8; E 30 0x3fffef78; E 31 0x7ffff5f8; E 30 0x3fffeff8;
  E 31 0x7ffff678; E 31 0x7ffff6f8; E 29 0x1fffebf8; E 30 0x3ffff078; E 31 0x7ffff778; E 30 0x3ffff0f8;
  E 30 0x3ffff178; E 30 0x3ffff1f8; E 30 0x3ffff278; E 28 0xfffee78; E 29 0x1fffec78; E 30 0x3ffff2f8;
  E 29 0x1fffecf8; E 30 0x3ffff378; E 30 0x3ffff3f8; E 31 0x7ffff7f8; E 29 0x1fffed78; E 28 0xfffeef8; E 27 0x7fff4f8;
  E 29 0x1fffedf8; E 29 0x1fffee78; E 30 0x3ffff478; E 30 0x3ffff4f8; E 28 0xfffef78; E 30 0x3ffff578;
  E 29 0x1fffeef8; E 29 0x1fffef78; E 31 0x7ffff878; E 28 0xfffeff8; E 29 0x1fffeff8; E 30 0x3ffff5f8;
  E 30 0x3ffff678; E 28 0xffff078; E 28 0xffff0f8; E 29 0x1ffff078; E 28 0xffff178; E 30 0x3ffff6f8; E 29 0x1ffff0f8;
  E 30 0x3ffff778; E 30 0x3ffff7f8; E 27 0x7fff578; E 29 0x1ffff178; E 29 0x1ffff1f8; E 29 0x1ffff278;
  E 30 0x3ffff878; E 29 0x1ffff2f8; E 29 0x1ffff378; E 30 0x3ffff8f8; X; X; E 27 0x7fff5f8; E 26 0x3fff8f8;
  E 29 0x1ffff3f8; E 30 0x3ffff978; E 29 0x1ffff478; E 32 0xfffff678; X; X; X; X; X; X; E 31 0x7ffff8f8;
  E 32 0xfffff6f8; E 26 0x3fff978; E 28 0xffff1f8; X; X; X; X; X; E 31 0x7ffff978; E 28 0xffff278; E 28 0xffff2f8; X;
  X; X; X; X; X; E 27 0x7fff678; E 31 0x7ffff9f8; E 27 0x7fff6f8; E 28 0xffff378; E 29 0x1ffff4f8; E 28 0xffff3f8;
  E 28 0xffff478; E 30 0x3ffff9f8; E 29 0x1ffff578; E 29 0x1ffff5f8; E 32 0xfffff778; E 32 0xfffff7f8;
  E 31 0x7ffffa78; E 31 0x7ffffaf8; X; E 30 0x3ffffa78; X; X; X; X; X; X; X; X; X; X; X; X; X; X; X; X].
Definition hencs_120 : list henc := [
  E 20 0xffc79; E 30 0x3fffec79; X; X; X; X; X; X; X; E 31 0x7ffff579; X; X; X; X; X; X; X; X; X; X; X; X; X; X; X; X;
  X; X; X; X; X; X; E 13 0xa79; E 17 0x1fc79; E 17 0x1fcf9; E 19 0x7fd79; E 20 0xffcf9; E 13 0xaf9; E 15 0x7c79;
  E 18 0x3fd79; E 17 0x1fd79; E 17 0x1fdf9; E 15 0x7cf9; E 18 0x3fdf9; E 15 0x7d79; E 13 0xb79; E 13 0xbf9;
  E 13 0xc79; E 12 0x79; E 12 0xf9; E 12 0x179; E 13 0xcf9; E 13 0xd79; E 13 0xdf9; E 13 0xe79; E 13 0xef9;
  E 13 0xf79; E 13 0xff9; E 14 0x2e79; E 15 0x7df9; E 22 0x3ffe79; E 13 0x1079; E 19 0x7fdf9; E 17 0x1fe79;
  E 20 0xffd79; E 13 0x10f9; E 14 0x2ef9; E 14 0x2f79; E 14 0x2ff9; E 14 0x3079; E 14 0x30f9; E 14 0x3179;
  E 14 0x31f9; E 14 0x3279; E 14 0x32f9; E 14 0x3379; E 14 0x33f9; E 14 0x3479; E 14 0x34f9; E 14 0x3579; E 14 0x35f9;
  E 14 0x3679; E 14 0x36f9; E 14 0x3779; E 14 0x37f9; E 14 0x3879; E 14 0x38f9; E 14 0x3979; E 15 0x7e79; E 14 0x39f9;
  E 15 0x7ef9; E 20 0xffdf9; E 26 0x3fff879; E 20 0xffe79; E 21 0x1ffe79; E 13 0x1179; E 22 0x3ffef9; E 12 0x1f9;
  E 13 0x11f9; E 12 0x279; E 13 0x1279; E 12 0x2f9; E 13 0x12f9; E 13 0x1379; E 13 0x13f9; E 12 0x379; E 14 0x3a79;
  E 14 0x3af9; E 13 0x1479; E 13 0x14f9; E 13 0x1579; E 12 0x3f9; E 13 0x15f9; E 14 0x3b79; E 13 0x1679; E 12 0x479;
  E 12 0x4f9; E 13 0x16f9; E 14 0x3bf9; E 14 0x3c79; E 14 0x3cf9; E 14 0x3d79; E 14 0x3df9; E 22 0x3fff79;
  E 18 0x3fe79; E 21 0x1ffef9; E 20 0xffef9; X; E 27 0x7fff379; E 29 0x1fffe979; E 27 0x7fff3f9; E 27 0x7fff479;
  E 29 0x1fffe9f9; E 29 0x1fffea79; E 29 0x1fffeaf9; E 30 0x3fffecf9; E 29 0x1fffeb79; E 30 0x3fffed79;
  E 30 0x3fffedf9; E 30 0x3fffee79; E 30 0x3fffeef9; E 30 0x3fffef79; E 31 0x7ffff5f9; E 30 0x3fffeff9;
  E 31 0x7ffff679; E 31 0x7ffff6f9; E 29 0x1fffebf9; E 30 0x3ffff079; E 31 0x7ffff779; E 30 0x3ffff0f9;
  E 30 0x3ffff179; E 30 0x3ffff1f9; E 30 0x3ffff279; E 28 0xfffee79; E 29 0x1fffec79; E 30 0x3ffff2f9;
  E 29 0x1fffecf9; E 30 0x3ffff379; E 30 0x3ffff3f9; E 31 0x7ffff7f9; E 29 0x1fffed79; E 28 0xfffeef9; E 27 0x7fff4f9;
  E 29 0x1fffedf9; E 29 0x1fffee79; E 30 0x3ffff479; E 30 0x3ffff4f9; E 28 0xfffef79; E 30 0x3ffff579;
  E 29 0x1fffeef9; E 29 0x1fffef79; E 31 0x7ffff879; E 28 0xfffeff9; E 29 0x1fffeff9; E 30 0x3ffff5f9;
  E 30 0x3ffff679; E 28 0xffff079; E 28 0xffff0f9; E 29 0x1ffff079; E 28 0xffff179; E 30 0x3ffff6f9; E 29 0x1ffff0f9;
  E 30 0x3ffff779; E 30 0x3ffff7f9; E 27 0x7fff579; E 29 0x1ffff179; E 29 0x1ffff1f9; E 29 0x1ffff279;
  E 30 0x3ffff879; E 29 0x1ffff2f9; E 29 0x1ffff379; E 30 0x3ffff8f9; X; X; E 27 0x7fff5f9; E 26 0x3fff8f9;
  E 29 0x1ffff3f9; E 30 0x3ffff979; E 29 0x1ffff479; E 32 0xfffff679; X; X; X; X; X; X; E 31 0x7ffff8f9;
  E 32 0xfffff6f9; E 26 0x3fff979; E 28 0xffff1f9; X; X; X; X; X; E 31 0x7ffff979; E 28 0xffff279; E 28 0xffff2f9; X;
  X; X; X; X; X; E 27 0x7fff679; E 31 0x7ffff9f9; E 27 0x7fff6f9; E 28 0xffff379; E 29 0x1ffff4f9; E 28 0xffff3f9;
  E 28 0xffff479; E 30 0x3ffff9f9; E 29 0x1ffff579; E 29 0x1ffff5f9; E 32 0xfffff779; E 32 0xfffff7f9;
  E 31 0x7ffffa79; E 31 0x7ffffaf9; X; E 30 0x3ffffa79; X; X; X; X; X; X; X; X; X; X; X; X; X; X; X; X].
Definition hencs_121 : list henc := [
  E 20 0xffc7a; E 30 0x3fffec7a; X; X; X; X; X; X; X; E 31 0x7ffff57a; X; X; X; X; X; X; X; X; X; X; X; X; X; X; X; X;
  X; X; X; X; X; X; E 13 0xa7a; E 17 0x1fc7a; E 17 0x1fcfa; E 19 0x7fd7a; E 20 0xffcfa; E 13 0xafa; E 15 0x7c7a;
  E 18 0x3fd7a; E 17 0x1fd7a; E 17 0x1fdfa; E 15 0x7cfa; E 18 0x3fdfa; E 15 0x7d7a; E 13 0xb7a; E 13 0xbfa;
  E 13 0xc7a; E 12 0x7a; E 12 0xfa; E 12 0x17a; E 13 0xcfa; E 13 0xd7a; E 13 0xdfa; E 13 0xe7a; E 13 0xefa;
  E 13 0xf7a; E 13 0xffa; E 14 0x2e7a; E 15 0x7dfa; E 22 0x3ffe7a; E 13 0x107a; E 19 0x7fdfa; E 17 0x1fe7a;
  E 20 0xffd7a; E 13 0x10fa; E 14 0x2efa; E 14 0x2f7a; E 14 0x2ffa; E 14 0x307a; E 14 0x30fa; E 14 0x317a;
  E 14 0x31fa; E 14 0x327a; E 14 0x32fa; E 14 0x337a; E 14 0x33fa; E 14 0x347a; E 14 0x34fa; E 14 0x357a; E 14 0x35fa;
  E 14 0x367a; E 14 0x36fa; E 14 0x377a; E 14 0x37fa; E 14 0x387a; E 14 0x38fa; E 14 0x397a; E 15 0x7e7a; E 14 0x39fa;
  E 15 0x7efa; E 20 0xffdfa; E 26 0x3fff87a; E 20 0xffe7a; E 21 0x1ffe7a; E 13 0x117a; E 22 0x3ffefa; E 12 0x1fa;
  E 13 0x11fa; E 12 0x27a; E 13 0x127a; E 12 0x2fa; E 13 0x12fa; E 13 0x137a; E 13 0x13fa; E 12 0x37a; E 14 0x3a7a;
  E 14 0x3afa; E 13 0x147a; E 13 0x14fa; E 13 0x157a; E 12 0x3fa; E 13 0x15fa; E 14 0x3b7a; E 13 0x167a; E 12 0x47a;
  E 12 0x4fa; E 13 0x16fa; E 14 0x3bfa; E 14 0x3c7a; E 14 0x3cfa; E 14 0x3d7a; E 14 0x3dfa; E 22 0x3fff7a;
  E 18 0x3fe7a; E 21 0x1ffefa; E 20 0xffefa; X; E 27 0x7fff37a; E 29 0x1fffe97a; E 27 0x7fff3fa; E 27 0x7fff47a;
  E 29 0x1fffe9fa; E 29 0x1fffea7a; E 29 0x1fffeafa; E 30 0x3fffecfa; E 29 0x1fffeb7a; E 30 0x3fffed7a;
  E 30 0x3fffedfa; E 30 0x3fffee7a; E 30 0x3fffeefa; E 30 0x3fffef7a; E 31 0x7ffff5fa; E 30 0x3fffeffa;
  E 31 0x7ffff67a; E 31 0x7ffff6fa; E 29 0x1fffebfa; E 30 0x3ffff07a; E 31 0x7ffff77a; E 30 0x3ffff0fa;
  E 30 0x3ffff17a; E 30 0x3ffff1fa; E 30 0x3ffff27a; E 28 0xfffee7a; E 29 0x1fffec7a; E 30 0x3ffff2fa;
  E 29 0x1fffecfa; E 30 0x3ffff37a; E 30 0x3ffff3fa; E 31 0x7ffff7fa; E 29 0x1fffed7a; E 28 0xfffeefa; E 27 0x7fff4fa;
  E 29 0x1fffedfa; E 29 0x1fffee7a; E 30 0x3ffff47a; E 30 0x3ffff4fa; E 28 0xfffef7a; E 30 0x3ffff57a;
  E 29 0x1fffeefa; E 29 0x1fffef7a; E 31 0x7ffff87a; E 28 0xfffeffa; E 29 0x1fffeffa; E 30 0x3ffff5fa;
  E 30 0x3ffff67a; E 28 0xffff07a; E 28 0xffff0fa; E 29 0x1ffff07a; E 28 0xffff17a; E 30 0x3ffff6fa; E 29 0x1ffff0fa;
  E 30 0x3ffff77a; E 30 0x3ffff7fa; E 27 0x7fff57a; E 29 0x1ffff17a; E 29 0x1ffff1fa; E 29 0x1ffff27a;
  E 30 0x3ffff87a; E 29 0x1ffff2fa; E 29 0x1ffff37a; E 30 0x3ffff8fa; X; X; E 27 0x7fff5fa; E 26 0x3fff8fa;
  E 29 0x1ffff3fa; E 30 0x3ffff97a; E 29 0x1ffff47a; E 32 0xfffff67a; X; X; X; X; X; X; E 31 0x7ffff8fa;
  E 32 0xfffff6fa; E 26 0x3fff97a; E 28 0xffff1fa; X; X; X; X; X; E 31 0x7ffff97a; E 28 0xffff27a; E 28 0xffff2fa; X;
  X; X; X; X; X; E 27 0x7fff67a; E 31 0x7ffff9fa; E 27 0x7fff6fa; E 28 0xffff37a; E 29 0x1ffff4fa; E 28 0xffff3fa;
  E 28 0xffff47a; E 30 0x3ffff9fa; E 29 0x1ffff57a; E 29 0x1ffff5fa; E 32 0xfffff77a; E 32 0xfffff7fa;
  E 31 0x7ffffa7a; E 31 0x7ffffafa; X; E 30 0x3ffffa7a; X; X; X; X; X; X; X; X; X; X; X; X; X; X; X; X].
Definition hencs_122 : list henc := [
  E 20 0xffc7b; E 30 0x3fffec7b; X; X; X; X; X; X; X; E 31 0x7ffff57b; X; X; X; X; X; X; X; X; X; X; X; X; X; X; X; X;
  X; X; X; X; X; X; E 13 0xa7b; E 17 0x1fc7b; E 17 0x1fcfb; E 19 0x7fd7b; E 20 0xffcfb; E 13 0xafb; E 15 0x7c7b;
  E 18 0x3fd7b; E 17 0x1fd7b; E 17 0x1fdfb; E 15 0x7cfb; E 18 0x3fdfb; E 15 0x7d7b; E 13 0xb7b; E 13 0xbfb;
  E 13 0xc7b; E 12 0x7b; E 12 0xfb; E 12 0x17b; E 13 0xcfb; E 13 0xd7b; E 13 0xdfb; E 13 0xe7b; E 13 0xefb;
  E 13 0xf7b; E 13 0xffb; E 14 0x2e7b; E 15 0x7dfb; E 22 0x3ffe7b; E 13 0x107b; E 19 0x7fdfb; E 17 0x1fe7b;
  E 20 0xffd7b; E 13 0x10fb; E 14 0x2efb; E 14 0x2f7b; E 14 0x2ffb; E 14 0x307b; E 14 0x30fb; E 14 0x317b;
  E 14 0x31fb; E 14 0x327b; E 14 0x32fb; E 14 0x337b; E 14 0x33fb; E 14 0x347b; E 14 0x34fb; E 14 0x357b; E 14 0x35fb;
  E 14 0x367b; E 14 0x36fb; E 14 0x377b; E 14 0x37fb; E 14 0x387b; E 14 0x38fb; E 14 0x397b; E 15 0x7e7b; E 14 0x39fb;
  E 15 0x7efb; E 20 0xffdfb; E 26 0x3fff87b; E 20 0xffe7b; E 21 0x1ffe7b; E 13 0x117b; E 22 0x3ffefb; E 12 0x1fb;
  E 13 0x11fb; E 12 0x27b; E 13 0x127b; E 12 0x2fb; E 13 0x12fb; E 13 0x137b; E 13 0x13fb; E 12 0x37b; E 14 0x3a7b;
  E 14 0x3afb; E 13 0x147b; E 13 0x14fb; E 13 0x157b; E 12 0x3fb; E 13 0x15fb; E 14 0x3b7b; E 13 0x167b; E 12 0x47b;
  E 12 0x4fb; E 13 0x16fb; E 14 0x3bfb; E 14 0x3c7b; E 14 0x3cfb; E 14 0x3d7b; E 14 0x3dfb; E 22 0x3fff7b;
  E 18 0x3fe7b; E 21 0x1ffefb; E 20 0xffefb; X; E 27 0x7fff37b; E 29 0x1fffe97b; E 27 0x7fff3fb; E 27 0x7fff47b;
  E 29 0x1fffe9fb; E 29 0x1fffea7b; E 29 0x1fffeafb; E 30 0x3fffecfb; E 29 0x1fffeb7b; E 30 0x3fffed7b;
  E 30 0x3fffedfb; E 30 0x3fffee7b; E 30 0x3fffeefb; E 30 0x3fffef7b; E 31 0x7ffff5fb; E 30 0x3fffeffb;
  E 31 0x7ffff67b; E 31 0x7ffff6fb; E 29 0x1fffebfb; E 30 0x3ffff07b; E 31 0x7ffff77b; E 30 0x3ffff0fb;
  E 30 0x3ffff17b; E 30 0x3ffff1fb; E 30 0x3ffff27b; E 28 0xfffee7b; E 29 0x1fffec7b; E 30 0x3ffff2fb;
  E 29 0x1fffecfb; E 30 0x3ffff37b; E 30 0x3ffff3fb; E 31 0x7ffff7fb; E 29 0x1fffed7b; E 28 0xfffeefb; E 27 0x7fff4fb;
  E 29 0x1fffedfb; E 29 0x1fffee7b; E 30 0x3ffff47b; E 30 0x3ffff4fb; E 28 0xfffef7b; E 30 0x3ffff57b;
  E 29 0x1fffeefb; E 29 0x1fffef7b; E 31 0x7ffff87b; E 28 0xfffeffb; E 29 0x1fffeffb; E 30 0x3ffff5fb;
  E 30 0x3ffff67b; E 28 0xffff07b; E 28 0xffff0fb; E 29 0x1ffff07b; E 28 0xffff17b; E 30 0x3ffff6fb; E 29 0x1ffff0fb;
  E 30 0x3ffff77b; E 30 0x3ffff7fb; E 27 0x7fff57b; E 29 0x1ffff17b; E 29 0x1ffff1fb; E 29 0x1ffff27b;
  E 30 0x3ffff87b; E 29 0x1ffff2fb; E 29 0x1ffff37b; E 30 0x3ffff8fb; X; X; E 27 0x7fff5fb; E 26 0x3fff8fb;
  E 29 0x1ffff3fb; E 30 0x3ffff97b; E 29 0x1ffff47b; E 32 0xfffff67b; X; X; X; X; X; X; E 31 0x7ffff8fb;
  E 32 0xfffff6fb; E 26 0x3fff97b; E 28 0xffff1fb; X; X; X; X; X; E 31 0x7ffff97b; E 28 0xffff27b; E 28 0xffff2fb; X;
  X; X; X; X; X; E 27 0x7fff67b; E 31 0x7ffff9fb; E 27 0x7fff6fb; E 28 0xffff37b; E 29 0x1ffff4fb; E 28 0xffff3fb;
  E 28 0xffff47b; E 30 0x3ffff9fb; E 29 0x1ffff57b; E 29 0x1ffff5fb; E 32 0xfffff77b; E 32 0xfffff7fb;
  E 31 0x7ffffa7b; E 31 0x7ffffafb; X; E 30 0x3ffffa7b; X; X; X; X; X; X; X; X; X; X; X; X; X; X; X; X].
Definition hencs_123 : list henc := [
  E 28 0xffc7ffe; X; X; X; X; X; X; X; X; X; X; X; X; X; X; X; X; X; X; X; X; X; X; X; X; X; X; X; X; X; X; X;
  E 21 0xa7ffe; E 25 0x1fc7ffe; E 25 0x1fcfffe; E 27 0x7fd7ffe; E 28 0xffcfffe; E 21 0xafffe; E 23 0x7c7ffe;
  E 26 0x3fd7ffe; E 25 0x1fd7ffe; E 25 0x1fdfffe; E 23 0x7cfffe; E 26 0x3fdfffe; E 23 0x7d7ffe; E 21 0xb7ffe;
  E 21 0xbfffe; E 21 0xc7ffe; E 20 0x7ffe; E 20 0xfffe; E 20 0x17ffe; E 21 0xcfffe; E 21 0xd7ffe; E 21 0xdfffe;
  E 21 0xe7ffe; E 21 0xefffe; E 21 0xf7ffe; E 21 0xffffe; E 22 0x2e7ffe; E 23 0x7dfffe; E 30 0x3ffe7ffe;
  E 21 0x107ffe; E 27 0x7fdfffe; E 25 0x1fe7ffe; E 28 0xffd7ffe; E 21 0x10fffe; E 22 0x2efffe; E 22 0x2f7ffe;
  E 22 0x2ffffe; E 22 0x307ffe; E 22 0x30fffe; E 22 0x317ffe; E 22 0x31fffe; E 22 0x327ffe; E 22 0x32fffe;
  E 22 0x337ffe; E 22 0x33fffe; E 22 0x347ffe; E 22 0x34fffe; E 22 0x357ffe; E 22 0x35fffe; E 22 0x367ffe;
  E 22 0x36fffe; E 22 0x377ffe; E 22 0x37fffe; E 22 0x387ffe; E 22 0x38fffe; E 22 0x397ffe; E 23 0x7e7ffe;
  E 22 0x39fffe; E 23 0x7efffe; E 28 0xffdfffe; X; E 28 0xffe7ffe; E 29 0x1ffe7ffe; E 21 0x117ffe; E 30 0x3ffefffe;
  E 20 0x1fffe; E 21 0x11fffe; E 20 0x27ffe; E 21 0x127ffe; E 20 0x2fffe; E 21 0x12fffe; E 21 0x137ffe; E 21 0x13fffe;
  E 20 0x37ffe; E 22 0x3a7ffe; E 22 0x3afffe; E 21 0x147ffe; E 21 0x14fffe; E 21 0x157ffe; E 20 0x3fffe;
  E 21 0x15fffe; E 22 0x3b7ffe; E 21 0x167ffe; E 20 0x47ffe; E 20 0x4fffe; E 21 0x16fffe; E 22 0x3bfffe;
  E 22 0x3c7ffe; E 22 0x3cfffe; E 22 0x3d7ffe; E 22 0x3dfffe; E 30 0x3fff7ffe; E 26 0x3fe7ffe; E 29 0x1ffefffe;
  E 28 0xffefffe; X; X; X; X; X; X; X; X; X; X; X; X; X; X; X; X; X; X; X; X; X; X; X; X; X; X; X; X; X; X; X; X; X;
  X; X; X; X; X; X; X; X; X; X; X; X; X; X; X; X; X; X; X; X; X; X; X; X; X; X; X; X; X; X; X; X; X; X; X; X; X; X; X;
  X; X; X; X; X; X; X; X; X; X; X; X; X; X; X; X; X; X; X; X; X; X; X; X; X; X; X; X; X; X; X; X; X; X; X; X; X; X; X;
  X; X; X; X; X; X; X; X; X; X; X; X; X; X; X; X; X; X].
Definition hencs_124 : list henc := [
  E 24 0xffc7fc; X; X; X; X; X; X; X; X; X; X; X; X; X; X; X; X; X; X; X; X; X; X; X; X; X; X; X; X; X; X; X;
  E 17 0xa7fc; E 21 0x1fc7fc; E 21 0x1fcffc; E 23 0x7fd7fc; E 24 0xffcffc; E 17 0xaffc; E 19 0x7c7fc; E 22 0x3fd7fc;
  E 21 0x1fd7fc; E 21 0x1fdffc; E 19 0x7cffc; E 22 0x3fdffc; E 19 0x7d7fc; E 17 0xb7fc; E 17 0xbffc; E 17 0xc7fc;
  E 16 0x7fc; E 16 0xffc; E 16 0x17fc; E 17 0xcffc; E 17 0xd7fc; E 17 0xdffc; E 17 0xe7fc; E 17 0xeffc; E 17 0xf7fc;
  E 17 0xfffc; E 18 0x2e7fc; E 19 0x7dffc; E 26 0x3ffe7fc; E 17 0x107fc; E 23 0x7fdffc; E 21 0x1fe7fc; E 24 0xffd7fc;
  E 17 0x10ffc; E 18 0x2effc; E 18 0x2f7fc; E 18 0x2fffc; E 18 0x307fc; E 18 0x30ffc; E 18 0x317fc; E 18 0x31ffc;
  E 18 0x327fc; E 18 0x32ffc; E 18 0x337fc; E 18 0x33ffc; E 18 0x347fc; E 18 0x34ffc; E 18 0x357fc; E 18 0x35ffc;
  E 18 0x367fc; E 18 0x36ffc; E 18 0x377fc; E 18 0x37ffc; E 18 0x387fc; E 18 0x38ffc; E 18 0x397fc; E 19 0x7e7fc;
  E 18 0x39ffc; E 19 0x7effc; E 24 0xffdffc; E 30 0x3fff87fc; E 24 0xffe7fc; E 25 0x1ffe7fc; E 17 0x117fc;
  E 26 0x3ffeffc; E 16 0x1ffc; E 17 0x11ffc; E 16 0x27fc; E 17 0x127fc; E 16 0x2ffc; E 17 0x12ffc; E 17 0x137fc;
  E 17 0x13ffc; E 16 0x37fc; E 18 0x3a7fc; E 18 0x3affc; E 17 0x147fc; E 17 0x14ffc; E 17 0x157fc; E 16 0x3ffc;
  E 17 0x15ffc; E 18 0x3b7fc; E 17 0x167fc; E 16 0x47fc; E 16 0x4ffc; E 17 0x16ffc; E 18 0x3bffc; E 18 0x3c7fc;
  E 18 0x3cffc; E 18 0x3d7fc; E 18 0x3dffc; E 26 0x3fff7fc; E 22 0x3fe7fc; E 25 0x1ffeffc; E 24 0xffeffc; X;
  E 31 0x7fff37fc; X; E 31 0x7fff3ffc; E 31 0x7fff47fc; X; X; X; X; X; X; X; X; X; X; X; X; X; X; X; X; X; X; X; X; X;
  E 32 0xfffee7fc; X; X; X; X; X; X; X; E 32 0xfffeeffc; E 31 0x7fff4ffc; X; X; X; X; E 32 0xfffef7fc; X; X; X; X;
  E 32 0xfffefffc; X; X; X; E 32 0xffff07fc; E 32 0xffff0ffc; X; E 32 0xffff17fc; X; X; X; X; E 31 0x7fff57fc; X; X;
  X; X; X; X; X; X; X; E 31 0x7fff5ffc; E 30 0x3fff8ffc; X; X; X; X; X; X; X; X; X; X; X; X; E 30 0x3fff97fc;
  E 32 0xffff1ffc; X; X; X; X; X; X; E 32 0xffff27fc; E 32 0xffff2ffc; X; X; X; X; X; X; E 31 0x7fff67fc; X;
  E 31 0x7fff6ffc; E 32 0xffff37fc; X; E 32 0xffff3ffc; E 32 0xffff47fc; X; X; X; X; X; X; X; X; X; X; X; X; X; X; X;
  X; X; X; X; X; X; X; X; X; X].
Definition hencs_125 : list henc := [
  E 27 0x7fe3ffd; X; X; X; X; X; X; X; X; X; X; X; X; X; X; X; X; X; X; X; X; X; X; X; X; X; X; X; X; X; X; X;
  E 20 0x53ffd; E 24 0xfe3ffd; E 24 0xfe7ffd; E 26 0x3febffd; E 27 0x7fe7ffd; E 20 0x57ffd; E 22 0x3e3ffd;
  E 25 0x1febffd; E 24 0xfebffd; E 24 0xfefffd; E 22 0x3e7ffd; E 25 0x1fefffd; E 22 0x3ebffd; E 20 0x5bffd;
  E 20 0x5fffd; E 20 0x63ffd; E 19 0x3ffd; E 19 0x7ffd; E 19 0xbffd; E 20 0x67ffd; E 20 0x6bffd; E 20 0x6fffd;
  E 20 0x73ffd; E 20 0x77ffd; E 20 0x7bffd; E 20 0x7fffd; E 21 0x173ffd; E 22 0x3efffd; E 29 0x1fff3ffd; E 20 0x83ffd;
  E 26 0x3fefffd; E 24 0xff3ffd; E 27 0x7febffd; E 20 0x87ffd; E 21 0x177ffd; E 21 0x17bffd; E 21 0x17fffd;
  E 21 0x183ffd; E 21 0x187ffd; E 21 0x18bffd; E 21 0x18fffd; E 21 0x193ffd; E 21 0x197ffd; E 21 0x19bffd;
  E 21 0x19fffd; E 21 0x1a3ffd; E 21 0x1a7ffd; E 21 0x1abffd; E 21 0x1afffd; E 21 0x1b3ffd; E 21 0x1b7ffd;
  E 21 0x1bbffd; E 21 0x1bfffd; E 21 0x1c3ffd; E 21 0x1c7ffd; E 21 0x1cbffd; E 22 0x3f3ffd; E 21 0x1cfffd;
  E 22 0x3f7ffd; E 27 0x7fefffd; X; E 27 0x7ff3ffd; E 28 0xfff3ffd; E 20 0x8bffd; E 29 0x1fff7ffd; E 19 0xfffd;
  E 20 0x8fffd; E 19 0x13ffd; E 20 0x93ffd; E 19 0x17ffd; E 20 0x97ffd; E 20 0x9bffd; E 20 0x9fffd; E 19 0x1bffd;
  E 21 0x1d3ffd; E 21 0x1d7ffd; E 20 0xa3ffd; E 20 0xa7ffd; E 20 0xabffd; E 19 0x1fffd; E 20 0xafffd; E 21 0x1dbffd;
  E 20 0xb3ffd; E 19 0x23ffd; E 19 0x27ffd; E 20 0xb7ffd; E 21 0x1dfffd; E 21 0x1e3ffd; E 21 0x1e7ffd; E 21 0x1ebffd;
  E 21 0x1efffd; E 29 0x1fffbffd; E 25 0x1ff3ffd; E 28 0xfff7ffd; E 27 0x7ff7ffd; X; X; X; X; X; X; X; X; X; X; X; X;
  X; X; X; X; X; X; X; X; X; X; X; X; X; X; X; X; X; X; X; X; X; X; X; X; X; X; X; X; X; X; X; X; X; X; X; X; X; X; X;
  X; X; X; X; X; X; X; X; X; X; X; X; X; X; X; X; X; X; X; X; X; X; X; X; X; X; X; X; X; X; X; X; X; X; X; X; X; X; X;
  X; X; X; X; X; X; X; X; X; X; X; X; X; X; X; X; X; X; X; X; X; X; X; X; X; X; X; X; X; X; X; X; X; X; X; X; X; X; X].
Definition hencs_126 : list henc := [
  E 26 0x3ff1ffd; X; X; X; X; X; X; X; X; X; X; X; X; X; X; X; X; X; X; X; X; X; X; X; X; X; X; X; X; X; X; X;
  E 19 0x29ffd; E 23 0x7f1ffd; E 23 0x7f3ffd; E 25 0x1ff5ffd; E 26 0x3ff3ffd; E 19 0x2bffd; E 21 0x1f1ffd;
  E 24 0xff5ffd; E 23 0x7f5ffd; E 23 0x7f7ffd; E 21 0x1f3ffd; E 24 0xff7ffd; E 21 0x1f5ffd; E 19 0x2dffd;
  E 19 0x2fffd; E 19 0x31ffd; E 18 0x1ffd; E 18 0x3ffd; E 18 0x5ffd; E 19 0x33ffd; E 19 0x35ffd; E 19 0x37ffd;
  E 19 0x39ffd; E 19 0x3bffd; E 19 0x3dffd; E 19 0x3fffd; E 20 0xb9ffd; E 21 0x1f7ffd; E 28 0xfff9ffd; E 19 0x41ffd;
  E 25 0x1ff7ffd; E 23 0x7f9ffd; E 26 0x3ff5ffd; E 19 0x43ffd; E 20 0xbbffd; E 20 0xbdffd; E 20 0xbfffd; E 20 0xc1ffd;
  E 20 0xc3ffd; E 20 0xc5ffd; E 20 0xc7ffd; E 20 0xc9ffd; E 20 0xcbffd; E 20 0xcdffd; E 20 0xcfffd; E 20 0xd1ffd;
  E 20 0xd3ffd; E 20 0xd5ffd; E 20 0xd7ffd; E 20 0xd9ffd; E 20 0xdbffd; E 20 0xddffd; E 20 0xdfffd; E 20 0xe1ffd;
  E 20 0xe3ffd; E 20 0xe5ffd; E 21 0x1f9ffd; E 20 0xe7ffd; E 21 0x1fbffd; E 26 0x3ff7ffd; E 32 0xfffe1ffd;
  E 26 0x3ff9ffd; E 27 0x7ff9ffd; E 19 0x45ffd; E 28 0xfffbffd; E 18 0x7ffd; E 19 0x47ffd; E 18 0x9ffd; E 19 0x49ffd;
  E 18 0xbffd; E 19 0x4bffd; E 19 0x4dffd; E 19 0x4fffd; E 18 0xdffd; E 20 0xe9ffd; E 20 0xebffd; E 19 0x51ffd;
  E 19 0x53ffd; E 19 0x55ffd; E 18 0xfffd; E 19 0x57ffd; E 20 0xedffd; E 19 0x59ffd; E 18 0x11ffd; E 18 0x13ffd;
  E 19 0x5bffd; E 20 0xefffd; E 20 0xf1ffd; E 20 0xf3ffd; E 20 0xf5ffd; E 20 0xf7ffd; E 28 0xfffdffd; E 24 0xff9ffd;
  E 27 0x7ffbffd; E 26 0x3ffbffd; X; X; X; X; X; X; X; X; X; X; X; X; X; X; X; X; X; X; X; X; X; X; X; X; X; X; X; X;
  X; X; X; X; X; X; X; X; X; X; X; X; X; X; X; X; X; X; X; X; X; X; X; X; X; X; X; X; X; X; X; X; X; X; X; X; X; X; X;
  X; E 32 0xfffe3ffd; X; X; X; X; X; X; X; X; X; X; X; X; E 32 0xfffe5ffd; X; X; X; X; X; X; X; X; X; X; X; X; X; X;
  X; X; X; X; X; X; X; X; X; X; X; X; X; X; X; X; X; X; X; X; X; X; X; X; X; X; X; X; X; X; X; X; X].
Definition hencs_127 : list henc := [
  X; X; X; X; X; X; X; X; X; X; X; X; X; X; X; X; X; X; X; X; X; X; X; X; X; X; X; X; X; X; X; X; X; X; X; X; X; X; X;
  X; X; X; X; X; X; X; X; X; X; X; X; X; X; X; X; X; X; X; X; X; X; X; X; X; X; X; X; X; X; X; X; X; X; X; X; X; X; X;
  X; X; X; X; X; X; X; X; X; X; X; X; X; X; X; X; X; X; X; X; X; X; X; X; X; X; X; X; X; X; X; X; X; X; X; X; X; X; X;
  X; X; X; X; X; X; X; X; X; X; X; X; X; X; X; X; X; X; X; X; X; X; X; X; X; X; X; X; X; X; X; X; X; X; X; X; X; X; X;
  X; X; X; X; X; X; X; X; X; X; X; X; X; X; X; X; X; X; X; X; X; X; X; X; X; X; X; X; X; X; X; X; X; X; X; X; X; X; X;
  X; X; X; X; X; X; X; X; X; X; X; X; X; X; X; X; X; X; X; X; X; X; X; X; X; X; X; X; X; X; X; X; X; X; X; X; X; X; X;
  X; X; X; X; X; X; X; X; X; X; X; X; X; X; X; X; X; X; X; X; X; X].
Definition hencs_128 : list henc := [
  X; X; X; X; X; X; X; X; X; X; X; X; X; X; X; X; X; X; X; X; X; X; X; X; X; X; X; X; X; X; X; X; E 26 0x14fffe6;
  E 30 0x3f8fffe6; E 30 0x3f9fffe6; E 32 0xffafffe6; X; E 26 0x15fffe6; E 28 0xf8fffe6; E 31 0x7fafffe6;
  E 30 0x3fafffe6; E 30 0x3fbfffe6; E 28 0xf9fffe6; E 31 0x7fbfffe6; E 28 0xfafffe6; E 26 0x16fffe6; E 26 0x17fffe6;
  E 26 0x18fffe6; E 25 0xfffe6; E 25 0x1fffe6; E 25 0x2fffe6; E 26 0x19fffe6; E 26 0x1afffe6; E 26 0x1bfffe6;
  E 26 0x1cfffe6; E 26 0x1dfffe6; E 26 0x1efffe6; E 26 0x1ffffe6; E 27 0x5cfffe6; E 28 0xfbfffe6; X; E 26 0x20fffe6;
  E 32 0xffbfffe6; E 30 0x3fcfffe6; X; E 26 0x21fffe6; E 27 0x5dfffe6; E 27 0x5efffe6; E 27 0x5ffffe6; E 27 0x60fffe6;
  E 27 0x61fffe6; E 27 0x62fffe6; E 27 0x63fffe6; E 27 0x64fffe6; E 27 0x65fffe6; E 27 0x66fffe6; E 27 0x67fffe6;
  E 27 0x68fffe6; E 27 0x69fffe6; E 27 0x6afffe6; E 27 0x6bfffe6; E 27 0x6cfffe6; E 27 0x6dfffe6; E 27 0x6efffe6;
  E 27 0x6ffffe6; E 27 0x70fffe6; E 27 0x71fffe6; E 27 0x72fffe6; E 28 0xfcfffe6; E 27 0x73fffe6; E 28 0xfdfffe6; X;
  X; X; X; E 26 0x22fffe6; X; E 25 0x3fffe6; E 26 0x23fffe6; E 25 0x4fffe6; E 26 0x24fffe6; E 25 0x5fffe6;
  E 26 0x25fffe6; E 26 0x26fffe6; E 26 0x27fffe6; E 25 0x6fffe6; E 27 0x74fffe6; E 27 0x75fffe6; E 26 0x28fffe6;
  E 26 0x29fffe6; E 26 0x2afffe6; E 25 0x7fffe6; E 26 0x2bfffe6; E 27 0x76fffe6; E 26 0x2cfffe6; E 25 0x8fffe6;
  E 25 0x9fffe6; E 26 0x2dfffe6; E 27 0x77fffe6; E 27 0x78fffe6; E 27 0x79fffe6; E 27 0x7afffe6; E 27 0x7bfffe6; X;
  E 31 0x7fcfffe6; X; X; X; X; X; X; X; X; X; X; X; X; X; X; X; X; X; X; X; X; X; X; X; X; X; X; X; X; X; X; X; X; X;
  X; X; X; X; X; X; X; X; X; X; X; X; X; X; X; X; X; X; X; X; X; X; X; X; X; X; X; X; X; X; X; X; X; X; X; X; X; X; X;
  X; X; X; X; X; X; X; X; X; X; X; X; X; X; X; X; X; X; X; X; X; X; X; X; X; X; X; X; X; X; X; X; X; X; X; X; X; X; X;
  X; X; X; X; X; X; X; X; X; X; X; X; X; X; X; X; X; X; X; X].
Definition hencs_129 : list henc := [
  X; X; X; X; X; X; X; X; X; X; X; X; X; X; X; X; X; X; X; X; X; X; X; X; X; X; X; X; X; X; X; X; E 28 0x53fffd2;
  E 32 0xfe3fffd2; E 32 0xfe7fffd2; X; X; E 28 0x57fffd2; E 30 0x3e3fffd2; X; E 32 0xfebfffd2; E 32 0xfeffffd2;
  E 30 0x3e7fffd2; X; E 30 0x3ebfffd2; E 28 0x5bfffd2; E 28 0x5ffffd2; E 28 0x63fffd2; E 27 0x3fffd2; E 27 0x7fffd2;
  E 27 0xbfffd2; E 28 0x67fffd2; E 28 0x6bfffd2; E 28 0x6ffffd2; E 28 0x73fffd2; E 28 0x77fffd2; E 28 0x7bfffd2;
  E 28 0x7ffffd2; E 29 0x173fffd2; E 30 0x3effffd2; X; E 28 0x83fffd2; X; E 32 0xff3fffd2; X; E 28 0x87fffd2;
  E 29 0x177fffd2; E 29 0x17bfffd2; E 29 0x17ffffd2; E 29 0x183fffd2; E 29 0x187fffd2; E 29 0x18bfffd2;
  E 29 0x18ffffd2; E 29 0x193fffd2; E 29 0x197fffd2; E 29 0x19bfffd2; E 29 0x19ffffd2; E 29 0x1a3fffd2;
  E 29 0x1a7fffd2; E 29 0x1abfffd2; E 29 0x1affffd2; E 29 0x1b3fffd2; E 29 0x1b7fffd2; E 29 0x1bbfffd2;
  E 29 0x1bffffd2; E 29 0x1c3fffd2; E 29 0x1c7fffd2; E 29 0x1cbfffd2; E 30 0x3f3fffd2; E 29 0x1cffffd2;
  E 30 0x3f7fffd2; X; X; X; X; E 28 0x8bfffd2; X; E 27 0xffffd2; E 28 0x8ffffd2; E 27 0x13fffd2; E 28 0x93fffd2;
  E 27 0x17fffd2; E 28 0x97fffd2; E 28 0x9bfffd2; E 28 0x9ffffd2; E 27 0x1bfffd2; E 29 0x1d3fffd2; E 29 0x1d7fffd2;
  E 28 0xa3fffd2; E 28 0xa7fffd2; E 28 0xabfffd2; E 27 0x1ffffd2; E 28 0xaffffd2; E 29 0x1dbfffd2; E 28 0xb3fffd2;
  E 27 0x23fffd2; E 27 0x27fffd2; E 28 0xb7fffd2; E 29 0x1dffffd2; E 29 0x1e3fffd2; E 29 0x1e7fffd2; E 29 0x1ebfffd2;
  E 29 0x1effffd2; X; X; X; X; X; X; X; X; X; X; X; X; X; X; X; X; X; X; X; X; X; X; X; X; X; X; X; X; X; X; X; X; X;
  X; X; X; X; X; X; X; X; X; X; X; X; X; X; X; X; X; X; X; X; X; X; X; X; X; X; X; X; X; X; X; X; X; X; X; X; X; X; X;
  X; X; X; X; X; X; X; X; X; X; X; X; X; X; X; X; X; X; X; X; X; X; X; X; X; X; X; X; X; X; X; X; X; X; X; X; X; X; X;
  X; X; X; X; X; X; X; X; X; X; X; X; X; X; X; X; X; X; X; X; X; X].
Definition hencs_130 : list henc := [
  X; X; X; X; X; X; X; X; X; X; X; X; X; X; X; X; X; X; X; X; X; X; X; X; X; X; X; X; X; X; X; X; E 26 0x14fffe7;
  E 30 0x3f8fffe7; E 30 0x3f9fffe7; E 32 0xffafffe7; X; E 26 0x15fffe7; E 28 0xf8fffe7; E 31 0x7fafffe7;
  E 30 0x3fafffe7; E 30 0x3fbfffe7; E 28 0xf9fffe7; E 31 0x7fbfffe7; E 28 0xfafffe7; E 26 0x16fffe7; E 26 0x17fffe7;
  E 26 0x18fffe7; E 25 0xfffe7; E 25 0x1fffe7; E 25 0x2fffe7; E 26 0x19fffe7; E 26 0x1afffe7; E 26 0x1bfffe7;
  E 26 0x1cfffe7; E 26 0x1dfffe7; E 26 0x1efffe7; E 26 0x1ffffe7; E 27 0x5cfffe7; E 28 0xfbfffe7; X; E 26 0x20fffe7;
  E 32 0xffbfffe7; E 30 0x3fcfffe7; X; E 26 0x21fffe7; E 27 0x5dfffe7; E 27 0x5efffe7; E 27 0x5ffffe7; E 27 0x60fffe7;
  E 27 0x61fffe7; E 27 0x62fffe7; E 27 0x63fffe7; E 27 0x64fffe7; E 27 0x65fffe7; E 27 0x66fffe7; E 27 0x67fffe7;
  E 27 0x68fffe7; E 27 0x69fffe7; E 27 0x6afffe7; E 27 0x6bfffe7; E 27 0x6cfffe7; E 27 0x6dfffe7; E 27 0x6efffe7;
  E 27 0x6ffffe7; E 27 0x70fffe7; E 27 0x71fffe7; E 27 0x72fffe7; E 28 0xfcfffe7; E 27 0x73fffe7; E 28 0xfdfffe7; X;
  X; X; X; E 26 0x22fffe7; X; E 25 0x3fffe7; E 26 0x23fffe7; E 25 0x4fffe7; E 26 0x24fffe7; E 25 0x5fffe7;
  E 26 0x25fffe7; E 26 0x26fffe7; E 26 0x27fffe7; E 25 0x6fffe7; E 27 0x74fffe7; E 27 0x75fffe7; E 26 0x28fffe7;
  E 26 0x29fffe7; E 26 0x2afffe7; E 25 0x7fffe7; E 26 0x2bfffe7; E 27 0x76fffe7; E 26 0x2cfffe7; E 25 0x8fffe7;
  E 25 0x9fffe7; E 26 0x2dfffe7; E 27 0x77fffe7; E 27 0x78fffe7; E 27 0x79fffe7; E 27 0x7afffe7; E 27 0x7bfffe7; X;
  E 31 0x7fcfffe7; X; X; X; X; X; X; X; X; X; X; X; X; X; X; X; X; X; X; X; X; X; X; X; X; X; X; X; X; X; X; X; X; X;
  X; X; X; X; X; X; X; X; X; X; X; X; X; X; X; X; X; X; X; X; X; X; X; X; X; X; X; X; X; X; X; X; X; X; X; X; X; X; X;
  X; X; X; X; X; X; X; X; X; X; X; X; X; X; X; X; X; X; X; X; X; X; X; X; X; X; X; X; X; X; X; X; X; X; X; X; X; X; X;
  X; X; X; X; X; X; X; X; X; X; X; X; X; X; X; X; X; X; X; X].
Definition hencs_131 : list henc := [
  X; X; X; X; X; X; X; X; X; X; X; X; X; X; X; X; X; X; X; X; X; X; X; X; X; X; X; X; X; X; X; X; E 26 0x14fffe8;
  E 30 0x3f8fffe8; E 30 0x3f9fffe8; E 32 0xffafffe8; X; E 26 0x15fffe8; E 28 0xf8fffe8; E 31 0x7fafffe8;
  E 30 0x3fafffe8; E 30 0x3fbfffe8; E 28 0xf9fffe8; E 31 0x7fbfffe8; E 28 0xfafffe8; E 26 0x16fffe8; E 26 0x17fffe8;
  E 26 0x18fffe8; E 25 0xfffe8; E 25 0x1fffe8; E 25 0x2fffe8; E 26 0x19fffe8; E 26 0x1afffe8; E 26 0x1bfffe8;
  E 26 0x1cfffe8; E 26 0x1dfffe8; E 26 0x1efffe8; E 26 0x1ffffe8; E 27 0x5cfffe8; E 28 0xfbfffe8; X; E 26 0x20fffe8;
  E 32 0xffbfffe8; E 30 0x3fcfffe8; X; E 26 0x21fffe8; E 27 0x5dfffe8; E 27 0x5efffe8; E 27 0x5ffffe8; E 27 0x60fffe8;
  E 27 0x61fffe8; E 27 0x62fffe8; E 27 0x63fffe8; E 27 0x64fffe8; E 27 0x65fffe8; E 27 0x66fffe8; E 27 0x67fffe8;
  E 27 0x68fffe8; E 27 0x69fffe8; E 27 0x6afffe8; E 27 0x6bfffe8; E 27 0x6cfffe8; E 27 0x6dfffe8; E 27 0x6efffe8;
  E 27 0x6ffffe8; E 27 0x70fffe8; E 27 0x71fffe8; E 27 0x72fffe8; E 28 0xfcfffe8; E 27 0x73fffe8; E 28 0xfdfffe8; X;
  X; X; X; E 26 0x22fffe8; X; E 25 0x3fffe8; E 26 0x23fffe8; E 25 0x4fffe8; E 26 0x24fffe8; E 25 0x5fffe8;
  E 26 0x25fffe8; E 26 0x26fffe8; E 26 0x27fffe8; E 25 0x6fffe8; E 27 0x74fffe8; E 27 0x75fffe8; E 26 0x28fffe8;
  E 26 0x29fffe8; E 26 0x2afffe8; E 25 0x7fffe8; E 26 0x2bfffe8; E 27 0x76fffe8; E 26 0x2cfffe8; E 25 0x8fffe8;
  E 25 0x9fffe8; E 26 0x2dfffe8; E 27 0x77fffe8; E 27 0x78fffe8; E 27 0x79fffe8; E 27 0x7afffe8; E 27 0x7bfffe8; X;
  E 31 0x7fcfffe8; X; X; X; X; X; X; X; X; X; X; X; X; X; X; X; X; X; X; X; X; X; X; X; X; X; X; X; X; X; X; X; X; X;
  X; X; X; X; X; X; X; X; X; X; X; X; X; X; X; X; X; X; X; X; X; X; X; X; X; X; X; X; X; X; X; X; X; X; X; X; X; X; X;
  X; X; X; X; X; X; X; X; X; X; X; X; X; X; X; X; X; X; X; X; X; X; X; X; X; X; X; X; X; X; X; X; X; X; X; X; X; X; X;
  X; X; X; X; X; X; X; X; X; X; X; X; X; X; X; X; X; X; X; X].
Definition hencs_132 : list henc := [
  X; X; X; X; X; X; X; X; X; X; X; X; X; X; X; X; X; X; X; X; X; X; X; X; X; X; X; X; X; X; X; X; E 28 0x53fffd3;
  E 32 0xfe3fffd3; E 32 0xfe7fffd3; X; X; E 28 0x57fffd3; E 30 0x3e3fffd3; X; E 32 0xfebfffd3; E 32 0xfeffffd3;
  E 30 0x3e7fffd3; X; E 30 0x3ebfffd3; E 28 0x5bfffd3; E 28 0x5ffffd3; E 28 0x63fffd3; E 27 0x3fffd3; E 27 0x7fffd3;
  E 27 0xbfffd3; E 28 0x67fffd3; E 28 0x6bfffd3; E 28 0x6ffffd3; E 28 0x73fffd3; E 28 0x77fffd3; E 28 0x7bfffd3;
  E 28 0x7ffffd3; E 29 0x173fffd3; E 30 0x3effffd3; X; E 28 0x83fffd3; X; E 32 0xff3fffd3; X; E 28 0x87fffd3;
  E 29 0x177fffd3; E 29 0x17bfffd3; E 29 0x17ffffd3; E 29 0x183fffd3; E 29 0x187fffd3; E 29 0x18bfffd3;
  E 29 0x18ffffd3; E 29 0x193fffd3; E 29 0x197fffd3; E 29 0x19bfffd3; E 29 0x19ffffd3; E 29 0x1a3fffd3;
  E 29 0x1a7fffd3; E 29 0x1abfffd3; E 29 0x1affffd3; E 29 0x1b3fffd3; E 29 0x1b7fffd3; E 29 0x1bbfffd3;
  E 29 0x1bffffd3; E 29 0x1c3fffd3; E 29 0x1c7fffd3; E 29 0x1cbfffd3; E 30 0x3f3fffd3; E 29 0x1cffffd3;
  E 30 0x3f7fffd3; X; X; X; X; E 28 0x8bfffd3; X; E 27 0xffffd3; E 28 0x8ffffd3; E 27 0x13fffd3; E 28 0x93fffd3;
  E 27 0x17fffd3; E 28 0x97fffd3; E 28 0x9bfffd3; E 28 0x9ffffd3; E 27 0x1bfffd3; E 29 0x1d3fffd3; E 29 0x1d7fffd3;
  E 28 0xa3fffd3; E 28 0xa7fffd3; E 28 0xabfffd3; E 27 0x1ffffd3; E 28 0xaffffd3; E 29 0x1dbfffd3; E 28 0xb3fffd3;
  E 27 0x23fffd3; E 27 0x27fffd3; E 28 0xb7fffd3; E 29 0x1dffffd3; E 29 0x1e3fffd3; E 29 0x1e7fffd3; E 29 0x1ebfffd3;
  E 29 0x1effffd3; X; X; X; X; X; X; X; X; X; X; X; X; X; X; X; X; X; X; X; X; X; X; X; X; X; X; X; X; X; X; X; X; X;
  X; X; X; X; X; X; X; X; X; X; X; X; X; X; X; X; X; X; X; X; X; X; X; X; X; X; X; X; X; X; X; X; X; X; X; X; X; X; X;
  X; X; X; X; X; X; X; X; X; X; X; X; X; X; X; X; X; X; X; X; X; X; X; X; X; X; X; X; X; X; X; X; X; X; X; X; X; X; X;
  X; X; X; X; X; X; X; X; X; X; X; X; X; X; X; X; X; X; X; X; X; X].
Definition hencs_133 : list henc := [
  X; X; X; X; X; X; X; X; X; X; X; X; X; X; X; X; X; X; X; X; X; X; X; X; X; X; X; X; X; X; X; X; E 28 0x53fffd4;
  E 32 0xfe3fffd4; E 32 0xfe7fffd4; X; X; E 28 0x57fffd4; E 30 0x3e3fffd4; X; E 32 0xfebfffd4; E 32 0xfeffffd4;
  E 30 0x3e7fffd4; X; E 30 0x3ebfffd4; E 28 0x5bfffd4; E 28 0x5ffffd4; E 28 0x63fffd4; E 27 0x3fffd4; E 27 0x7fffd4;
  E 27 0xbfffd4; E 28 0x67fffd4; E 28 0x6bfffd4; E 28 0x6ffffd4; E 28 0x73fffd4; E 28 0x77fffd4; E 28 0x7bfffd4;
  E 28 0x7ffffd4; E 29 0x173fffd4; E 30 0x3effffd4; X; E 28 0x83fffd4; X; E 32 0xff3fffd4; X; E 28 0x87fffd4;
  E 29 0x177fffd4; E 29 0x17bfffd4; E 29 0x17ffffd4; E 29 0x183fffd4; E 29 0x187fffd4; E 29 0x18bfffd4;
  E 29 0x18ffffd4; E 29 0x193fffd4; E 29 0x197fffd4; E 29 0x19bfffd4; E 29 0x19ffffd4; E 29 0x1a3fffd4;
  E 29 0x1a7fffd4; E 29 0x1abfffd4; E 29 0x1affffd4; E 29 0x1b3fffd4; E 29 0x1b7fffd4; E 29 0x1bbfffd4;
  E 29 0x1bffffd4; E 29 0x1c3fffd4; E 29 0x1c7fffd4; E 29 0x1cbfffd4; E 30 0x3f3fffd4; E 29 0x1cffffd4;
  E 30 0x3f7fffd4; X; X; X; X; E 28 0x8bfffd4; X; E 27 0xffffd4; E 28 0x8ffffd4; E 27 0x13fffd4; E 28 0x93fffd4;
  E 27 0x17fffd4; E 28 0x97fffd4; E 28 0x9bfffd4; E 28 0x9ffffd4; E 27 0x1bfffd4; E 29 0x1d3fffd4; E 29 0x1d7fffd4;
  E 28 0xa3fffd4; E 28 0xa7fffd4; E 28 0xabfffd4; E 27 0x1ffffd4; E 28 0xaffffd4; E 29 0x1dbfffd4; E 28 0xb3fffd4;
  E 27 0x23fffd4; E 27 0x27fffd4; E 28 0xb7fffd4; E 29 0x1dffffd4; E 29 0x1e3fffd4; E 29 0x1e7fffd4; E 29 0x1ebfffd4;
  E 29 0x1effffd4; X; X; X; X; X; X; X; X; X; X; X; X; X; X; X; X; X; X; X; X; X; X; X; X; X; X; X; X; X; X; X; X; X;
  X; X; X; X; X; X; X; X; X; X; X; X; X; X; X; X; X; X; X; X; X; X; X; X; X; X; X; X; X; X; X; X; X; X; X; X; X; X; X;
  X; X; X; X; X; X; X; X; X; X; X; X; X; X; X; X; X; X; X; X; X; X; X; X; X; X; X; X; X; X; X; X; X; X; X; X; X; X; X;
  X; X; X; X; X; X; X; X; X; X; X; X; X; X; X; X; X; X; X; X; X; X].
Definition hencs_134 : list henc := [
  X; X; X; X; X; X; X; X; X; X; X; X; X; X; X; X; X; X; X; X; X; X; X; X; X; X; X; X; X; X; X; X; E 28 0x53fffd5;
  E 32 0xfe3fffd5; E 32 0xfe7fffd5; X; X; E 28 0x57fffd5; E 30 0x3e3fffd5; X; E 32 0xfebfffd5; E 32 0xfeffffd5;
  E 30 0x3e7fffd5; X; E 30 0x3ebfffd5; E 28 0x5bfffd5; E 28 0x5ffffd5; E 28 0x63fffd5; E 27 0x3fffd5; E 27 0x7fffd5;
  E 27 0xbfffd5; E 28 0x67fffd5; E 28 0x6bfffd5; E 28 0x6ffffd5; E 28 0x73fffd5; E 28 0x77fffd5; E 28 0x7bfffd5;
  E 28 0x7ffffd5; E 29 0x173fffd5; E 30 0x3effffd5; X; E 28 0x83fffd5; X; E 32 0xff3fffd5; X; E 28 0x87fffd5;
  E 29 0x177fffd5; E 29 0x17bfffd5; E 29 0x17ffffd5; E 29 0x183fffd5; E 29 0x187fffd5; E 29 0x18bfffd5;
  E 29 0x18ffffd5; E 29 0x193fffd5; E 29 0x197fffd5; E 29 0x19bfffd5; E 29 0x19ffffd5; E 29 0x1a3fffd5;
  E 29 0x1a7fffd5; E 29 0x1abfffd5; E 29 0x1affffd5; E 29 0x1b3fffd5; E 29 0x1b7fffd5; E 29 0x1bbfffd5;
  E 29 0x1bffffd5; E 29 0x1c3fffd5; E 29 0x1c7fffd5; E 29 0x1cbfffd5; E 30 0x3f3fffd5; E 29 0x1cffffd5;
  E 30 0x3f7fffd5; X; X; X; X; E 28 0x8bfffd5; X; E 27 0xffffd5; E 28 0x8ffffd5; E 27 0x13fffd5; E 28 0x93fffd5;
  E 27 0x17fffd5; E 28 0x97fffd5; E 28 0x9bfffd5; E 28 0x9ffffd5; E 27 0x1bfffd5; E 29 0x1d3fffd5; E 29 0x1d7fffd5;
  E 28 0xa3fffd5; E 28 0xa7fffd5; E 28 0xabfffd5; E 27 0x1ffffd5; E 28 0xaffffd5; E 29 0x1dbfffd5; E 28 0xb3fffd5;
  E 27 0x23fffd5; E 27 0x27fffd5; E 28 0xb7fffd5; E 29 0x1dffffd5; E 29 0x1e3fffd5; E 29 0x1e7fffd5; E 29 0x1ebfffd5;
  E 29 0x1effffd5; X; X; X; X; X; X; X; X; X; X; X; X; X; X; X; X; X; X; X; X; X; X; X; X; X; X; X; X; X; X; X; X; X;
  X; X; X; X; X; X; X; X; X; X; X; X; X; X; X; X; X; X; X; X; X; X; X; X; X; X; X; X; X; X; X; X; X; X; X; X; X; X; X;
  X; X; X; X; X; X; X; X; X; X; X; X; X; X; X; X; X; X; X; X; X; X; X; X; X; X; X; X; X; X; X; X; X; X; X; X; X; X; X;
  X; X; X; X; X; X; X; X; X; X; X; X; X; X; X; X; X; X; X; X; X; X].
Definition hencs_135 : list henc := [
  X; X; X; X; X; X; X; X; X; X; X; X; X; X; X; X; X; X; X; X; X; X; X; X; X; X; X; X; X; X; X; X; E 29 0xa7fffd9; X;
  X; X; X; E 29 0xaffffd9; E 31 0x7c7fffd9; X; X; X; E 31 0x7cffffd9; X; E 31 0x7d7fffd9; E 29 0xb7fffd9;
  E 29 0xbffffd9; E 29 0xc7fffd9; E 28 0x7fffd9; E 28 0xffffd9; E 28 0x17fffd9; E 29 0xcffffd9; E 29 0xd7fffd9;
  E 29 0xdffffd9; E 29 0xe7fffd9; E 29 0xeffffd9; E 29 0xf7fffd9; E 29 0xfffffd9; E 30 0x2e7fffd9; E 31 0x7dffffd9; X;
  E 29 0x107fffd9; X; X; X; E 29 0x10ffffd9; E 30 0x2effffd9; E 30 0x2f7fffd9; E 30 0x2fffffd9; E 30 0x307fffd9;
  E 30 0x30ffffd9; E 30 0x317fffd9; E 30 0x31ffffd9; E 30 0x327fffd9; E 30 0x32ffffd9; E 30 0x337fffd9;
  E 30 0x33ffffd9; E 30 0x347fffd9; E 30 0x34ffffd9; E 30 0x357fffd9; E 30 0x35ffffd9; E 30 0x367fffd9;
  E 30 0x36ffffd9; E 30 0x377fffd9; E 30 0x37ffffd9; E 30 0x387fffd9; E 30 0x38ffffd9; E 30 0x397fffd9;
  E 31 0x7e7fffd9; E 30 0x39ffffd9; E 31 0x7effffd9; X; X; X; X; E 29 0x117fffd9; X; E 28 0x1ffffd9; E 29 0x11ffffd9;
  E 28 0x27fffd9; E 29 0x127fffd9; E 28 0x2ffffd9; E 29 0x12ffffd9; E 29 0x137fffd9; E 29 0x13ffffd9; E 28 0x37fffd9;
  E 30 0x3a7fffd9; E 30 0x3affffd9; E 29 0x147fffd9; E 29 0x14ffffd9; E 29 0x157fffd9; E 28 0x3ffffd9;
  E 29 0x15ffffd9; E 30 0x3b7fffd9; E 29 0x167fffd9; E 28 0x47fffd9; E 28 0x4ffffd9; E 29 0x16ffffd9; E 30 0x3bffffd9;
  E 30 0x3c7fffd9; E 30 0x3cffffd9; E 30 0x3d7fffd9; E 30 0x3dffffd9; X; X; X; X; X; X; X; X; X; X; X; X; X; X; X; X;
  X; X; X; X; X; X; X; X; X; X; X; X; X; X; X; X; X; X; X; X; X; X; X; X; X; X; X; X; X; X; X; X; X; X; X; X; X; X; X;
  X; X; X; X; X; X; X; X; X; X; X; X; X; X; X; X; X; X; X; X; X; X; X; X; X; X; X; X; X; X; X; X; X; X; X; X; X; X; X;
  X; X; X; X; X; X; X; X; X; X; X; X; X; X; X; X; X; X; X; X; X; X; X; X; X; X; X; X; X; X; X; X; X; X; X; X; X; X; X].
Definition hencs_136 : list henc := [
  X; X; X; X; X; X; X; X; X; X; X; X; X; X; X; X; X; X; X; X; X; X; X; X; X; X; X; X; X; X; X; X; E 28 0x53fffd6;
  E 32 0xfe3fffd6; E 32 0xfe7fffd6; X; X; E 28 0x57fffd6; E 30 0x3e3fffd6; X; E 32 0xfebfffd6; E 32 0xfeffffd6;
  E 30 0x3e7fffd6; X; E 30 0x3ebfffd6; E 28 0x5bfffd6; E 28 0x5ffffd6; E 28 0x63fffd6; E 27 0x3fffd6; E 27 0x7fffd6;
  E 27 0xbfffd6; E 28 0x67fffd6; E 28 0x6bfffd6; E 28 0x6ffffd6; E 28 0x73fffd6; E 28 0x77fffd6; E 28 0x7bfffd6;
  E 28 0x7ffffd6; E 29 0x173fffd6; E 30 0x3effffd6; X; E 28 0x83fffd6; X; E 32 0xff3fffd6; X; E 28 0x87fffd6;
  E 29 0x177fffd6; E 29 0x17bfffd6; E 29 0x17ffffd6; E 29 0x183fffd6; E 29 0x187fffd6; E 29 0x18bfffd6;
  E 29 0x18ffffd6; E 29 0x193fffd6; E 29 0x197fffd6; E 29 0x19bfffd6; E 29 0x19ffffd6; E 29 0x1a3fffd6;
  E 29 0x1a7fffd6; E 29 0x1abfffd6; E 29 0x1affffd6; E 29 0x1b3fffd6; E 29 0x1b7fffd6; E 29 0x1bbfffd6;
  E 29 0x1bffffd6; E 29 0x1c3fffd6; E 29 0x1c7fffd6; E 29 0x1cbfffd6; E 30 0x3f3fffd6; E 29 0x1cffffd6;
  E 30 0x3f7fffd6; X; X; X; X; E 28 0x8bfffd6; X; E 27 0xffffd6; E 28 0x8ffffd6; E 27 0x13fffd6; E 28 0x93fffd6;
  E 27 0x17fffd6; E 28 0x97fffd6; E 28 0x9bfffd6; E 28 0x9ffffd6; E 27 0x1bfffd6; E 29 0x1d3fffd6; E 29 0x1d7fffd6;
  E 28 0xa3fffd6; E 28 0xa7fffd6; E 28 0xabfffd6; E 27 0x1ffffd6; E 28 0xaffffd6; E 29 0x1dbfffd6; E 28 0xb3fffd6;
  E 27 0x23fffd6; E 27 0x27fffd6; E 28 0xb7fffd6; E 29 0x1dffffd6; E 29 0x1e3fffd6; E 29 0x1e7fffd6; E 29 0x1ebfffd6;
  E 29 0x1effffd6; X; X; X; X; X; X; X; X; X; X; X; X; X; X; X; X; X; X; X; X; X; X; X; X; X; X; X; X; X; X; X; X; X;
  X; X; X; X; X; X; X; X; X; X; X; X; X; X; X; X; X; X; X; X; X; X; X; X; X; X; X; X; X; X; X; X; X; X; X; X; X; X; X;
  X; X; X; X; X; X; X; X; X; X; X; X; X; X; X; X; X; X; X; X; X; X; X; X; X; X; X; X; X; X; X; X; X; X; X; X; X; X; X;
  X; X; X; X; X; X; X; X; X; X; X; X; X; X; X; X; X; X; X; X; X; X].
Definition hencs_137 : list henc := [
  X; X; X; X; X; X; X; X; X; X; X; X; X; X; X; X; X; X; X; X; X; X; X; X; X; X; X; X; X; X; X; X; E 29 0xa7fffda; X;
  X; X; X; E 29 0xaffffda; E 31 0x7c7fffda; X; X; X; E 31 0x7cffffda; X; E 31 0x7d7fffda; E 29 0xb7fffda;
  E 29 0xbffffda; E 29 0xc7fffda; E 28 0x7fffda; E 28 0xffffda; E 28 0x17fffda; E 29 0xcffffda; E 29 0xd7fffda;
  E 29 0xdffffda; E 29 0xe7fffda; E 29 0xeffffda; E 29 0xf7fffda; E 29 0xfffffda; E 30 0x2e7fffda; E 31 0x7dffffda; X;
  E 29 0x107fffda; X; X; X; E 29 0x10ffffda; E 30 0x2effffda; E 30 0x2f7fffda; E 30 0x2fffffda; E 30 0x307fffda;
  E 30 0x30ffffda; E 30 0x317fffda; E 30 0x31ffffda; E 30 0x327fffda; E 30 0x32ffffda; E 30 0x337fffda;
  E 30 0x33ffffda; E 30 0x347fffda; E 30 0x34ffffda; E 30 0x357fffda; E 30 0x35ffffda; E 30 0x367fffda;
  E 30 0x36ffffda; E 30 0x377fffda; E 30 0x37ffffda; E 30 0x387fffda; E 30 0x38ffffda; E 30 0x397fffda;
  E 31 0x7e7fffda; E 30 0x39ffffda; E 31 0x7effffda; X; X; X; X; E 29 0x117fffda; X; E 28 0x1ffffda; E 29 0x11ffffda;
  E 28 0x27fffda; E 29 0x127fffda; E 28 0x2ffffda; E 29 0x12ffffda; E 29 0x137fffda; E 29 0x13ffffda; E 28 0x37fffda;
  E 30 0x3a7fffda; E 30 0x3affffda; E 29 0x147fffda; E 29 0x14ffffda; E 29 0x157fffda; E 28 0x3ffffda;
  E 29 0x15ffffda; E 30 0x3b7fffda; E 29 0x167fffda; E 28 0x47fffda; E 28 0x4ffffda; E 29 0x16ffffda; E 30 0x3bffffda;
  E 30 0x3c7fffda; E 30 0x3cffffda; E 30 0x3d7fffda; E 30 0x3dffffda; X; X; X; X; X; X; X; X; X; X; X; X; X; X; X; X;
  X; X; X; X; X; X; X; X; X; X; X; X; X; X; X; X; X; X; X; X; X; X; X; X; X; X; X; X; X; X; X; X; X; X; X; X; X; X; X;
  X; X; X; X; X; X; X; X; X; X; X; X; X; X; X; X; X; X; X; X; X; X; X; X; X; X; X; X; X; X; X; X; X; X; X; X; X; X; X;
  X; X; X; X; X; X; X; X; X; X; X; X; X; X; X; X; X; X; X; X; X; X; X; X; X; X; X; X; X; X; X; X; X; X; X; X; X; X; X].
Definition hencs_138 : list henc := [
  X; X; X; X; X; X; X; X; X; X; X; X; X; X; X; X; X; X; X; X; X; X; X; X; X; X; X; X; X; X; X; X; E 29 0xa7fffdb; X;
  X; X; X; E 29 0xaffffdb; E 31 0x7c7fffdb; X; X; X; E 31 0x7cffffdb; X; E 31 0x7d7fffdb; E 29 0xb7fffdb;
  E 29 0xbffffdb; E 29 0xc7fffdb; E 28 0x7fffdb; E 28 0xffffdb; E 28 0x17fffdb; E 29 0xcffffdb; E 29 0xd7fffdb;
  E 29 0xdffffdb; E 29 0xe7fffdb; E 29 0xeffffdb; E 29 0xf7fffdb; E 29 0xfffffdb; E 30 0x2e7fffdb; E 31 0x7dffffdb; X;
  E 29 0x107fffdb; X; X; X; E 29 0x10ffffdb; E 30 0x2effffdb; E 30 0x2f7fffdb; E 30 0x2fffffdb; E 30 0x307fffdb;
  E 30 0x30ffffdb; E 30 0x317fffdb; E 30 0x31ffffdb; E 30 0x327fffdb; E 30 0x32ffffdb; E 30 0x337fffdb;
  E 30 0x33ffffdb; E 30 0x347fffdb; E 30 0x34ffffdb; E 30 0x357fffdb; E 30 0x35ffffdb; E 30 0x367fffdb;
  E 30 0x36ffffdb; E 30 0x377fffdb; E 30 0x37ffffdb; E 30 0x387fffdb; E 30 0x38ffffdb; E 30 0x397fffdb;
  E 31 0x7e7fffdb; E 30 0x39ffffdb; E 31 0x7effffdb; X; X; X; X; E 29 0x117fffdb; X; E 28 0x1ffffdb; E 29 0x11ffffdb;
  E 28 0x27fffdb; E 29 0x127fffdb; E 28 0x2ffffdb; E 29 0x12ffffdb; E 29 0x137fffdb; E 29 0x13ffffdb; E 28 0x37fffdb;
  E 30 0x3a7fffdb; E 30 0x3affffdb; E 29 0x147fffdb; E 29 0x14ffffdb; E 29 0x157fffdb; E 28 0x3ffffdb;
  E 29 0x15ffffdb; E 30 0x3b7fffdb; E 29 0x167fffdb; E 28 0x47fffdb; E 28 0x4ffffdb; E 29 0x16ffffdb; E 30 0x3bffffdb;
  E 30 0x3c7fffdb; E 30 0x3cffffdb; E 30 0x3d7fffdb; E 30 0x3dffffdb; X; X; X; X; X; X; X; X; X; X; X; X; X; X; X; X;
  X; X; X; X; X; X; X; X; X; X; X; X; X; X; X; X; X; X; X; X; X; X; X; X; X; X; X; X; X; X; X; X; X; X; X; X; X; X; X;
  X; X; X; X; X; X; X; X; X; X; X; X; X; X; X; X; X; X; X; X; X; X; X; X; X; X; X; X; X; X; X; X; X; X; X; X; X; X; X;
  X; X; X; X; X; X; X; X; X; X; X; X; X; X; X; X; X; X; X; X; X; X; X; X; X; X; X; X; X; X; X; X; X; X; X; X; X; X; X].
Definition hencs_139 : list henc := [
  X; X; X; X; X; X; X; X; X; X; X; X; X; X; X; X; X; X; X; X; X; X; X; X; X; X; X; X; X; X; X; X; E 29 0xa7fffdc; X;
  X; X; X; E 29 0xaffffdc; E 31 0x7c7fffdc; X; X; X; E 31 0x7cffffdc; X; E 31 0x7d7fffdc; E 29 0xb7fffdc;
  E 29 0xbffffdc; E 29 0xc7fffdc; E 28 0x7fffdc; E 28 0xffffdc; E 28 0x17fffdc; E 29 0xcffffdc; E 29 0xd7fffdc;
  E 29 0xdffffdc; E 29 0xe7fffdc; E 29 0xeffffdc; E 29 0xf7fffdc; E 29 0xfffffdc; E 30 0x2e7fffdc; E 31 0x7dffffdc; X;
  E 29 0x107fffdc; X; X; X; E 29 0x10ffffdc; E 30 0x2effffdc; E 30 0x2f7fffdc; E 30 0x2fffffdc; E 30 0x307fffdc;
  E 30 0x30ffffdc; E 30 0x317fffdc; E 30 0x31ffffdc; E 30 0x327fffdc; E 30 0x32ffffdc; E 30 0x337fffdc;
  E 30 0x33ffffdc; E 30 0x347fffdc; E 30 0x34ffffdc; E 30 0x357fffdc; E 30 0x35ffffdc; E 30 0x367fffdc;
  E 30 0x36ffffdc; E 30 0x377fffdc; E 30 0x37ffffdc; E 30 0x387fffdc; E 30 0x38ffffdc; E 30 0x397fffdc;
  E 31 0x7e7fffdc; E 30 0x39ffffdc; E 31 0x7effffdc; X; X; X; X; E 29 0x117fffdc; X; E 28 0x1ffffdc; E 29 0x11ffffdc;
  E 28 0x27fffdc; E 29 0x127fffdc; E 28 0x2ffffdc; E 29 0x12ffffdc; E 29 0x137fffdc; E 29 0x13ffffdc; E 28 0x37fffdc;
  E 30 0x3a7fffdc; E 30 0x3affffdc; E 29 0x147fffdc; E 29 0x14ffffdc; E 29 0x157fffdc; E 28 0x3ffffdc;
  E 29 0x15ffffdc; E 30 0x3b7fffdc; E 29 0x167fffdc; E 28 0x47fffdc; E 28 0x4ffffdc; E 29 0x16ffffdc; E 30 0x3bffffdc;
  E 30 0x3c7fffdc; E 30 0x3cffffdc; E 30 0x3d7fffdc; E 30 0x3dffffdc; X; X; X; X; X; X; X; X; X; X; X; X; X; X; X; X;
  X; X; X; X; X; X; X; X; X; X; X; X; X; X; X; X; X; X; X; X; X; X; X; X; X; X; X; X; X; X; X; X; X; X; X; X; X; X; X;
  X; X; X; X; X; X; X; X; X; X; X; X; X; X; X; X; X; X; X; X; X; X; X; X; X; X; X; X; X; X; X; X; X; X; X; X; X; X; X;
  X; X; X; X; X; X; X; X; X; X; X; X; X; X; X; X; X; X; X; X; X; X; X; X; X; X; X; X; X; X; X; X; X; X; X; X; X; X; X].
Definition hencs_140 : list henc := [
  X; X; X; X; X; X; X; X; X; X; X; X; X; X; X; X; X; X; X; X; X; X; X; X; X; X; X; X; X; X; X; X; E 29 0xa7fffdd; X;
  X; X; X; E 29 0xaffffdd; E 31 0x7c7fffdd; X; X; X; E 31 0x7cffffdd; X; E 31 0x7d7fffdd; E 29 0xb7fffdd;
  E 29 0xbffffdd; E 29 0xc7fffdd; E 28 0x7fffdd; E 28 0xffffdd; E 28 0x17fffdd; E 29 0xcffffdd; E 29 0xd7fffdd;
  E 29 0xdffffdd; E 29 0xe7fffdd; E 29 0xeffffdd; E 29 0xf7fffdd; E 29 0xfffffdd; E 30 0x2e7fffdd; E 31 0x7dffffdd; X;
  E 29 0x107fffdd; X; X; X; E 29 0x10ffffdd; E 30 0x2effffdd; E 30 0x2f7fffdd; E 30 0x2fffffdd; E 30 0x307fffdd;
  E 30 0x30ffffdd; E 30 0x317fffdd; E 30 0x31ffffdd; E 30 0x327fffdd; E 30 0x32ffffdd; E 30 0x337fffdd;
  E 30 0x33ffffdd; E 30 0x347fffdd; E 30 0x34ffffdd; E 30 0x357fffdd; E 30 0x35ffffdd; E 30 0x367fffdd;
  E 30 0x36ffffdd; E 30 0x377fffdd; E 30 0x37ffffdd; E 30 0x387fffdd; E 30 0x38ffffdd; E 30 0x397fffdd;
  E 31 0x7e7fffdd; E 30 0x39ffffdd; E 31 0x7effffdd; X; X; X; X; E 29 0x117fffdd; X; E 28 0x1ffffdd; E 29 0x11ffffdd;
  E 28 0x27fffdd; E 29 0x127fffdd; E 28 0x2ffffdd; E 29 0x12ffffdd; E 29 0x137fffdd; E 29 0x13ffffdd; E 28 0x37fffdd;
  E 30 0x3a7fffdd; E 30 0x3affffdd; E 29 0x147fffdd; E 29 0x14ffffdd; E 29 0x157fffdd; E 28 0x3ffffdd;
  E 29 0x15ffffdd; E 30 0x3b7fffdd; E 29 0x167fffdd; E 28 0x47fffdd; E 28 0x4ffffdd; E 29 0x16ffffdd; E 30 0x3bffffdd;
  E 30 0x3c7fffdd; E 30 0x3cffffdd; E 30 0x3d7fffdd; E 30 0x3dffffdd; X; X; X; X; X; X; X; X; X; X; X; X; X; X; X; X;
  X; X; X; X; X; X; X; X; X; X; X; X; X; X; X; X; X; X; X; X; X; X; X; X; X; X; X; X; X; X; X; X; X; X; X; X; X; X; X;
  X; X; X; X; X; X; X; X; X; X; X; X; X; X; X; X; X; X; X; X; X; X; X; X; X; X; X; X; X; X; X; X; X; X; X; X; X; X; X;
  X; X; X; X; X; X; X; X; X; X; X; X; X; X; X; X; X; X; X; X; X; X; X; X; X; X; X; X; X; X; X; X; X; X; X; X; X; X; X].
Definition hencs_141 : list henc := [
  X; X; X; X; X; X; X; X; X; X; X; X; X; X; X; X; X; X; X; X; X; X; X; X; X; X; X; X; X; X; X; X; E 29 0xa7fffde; X;
  X; X; X; E 29 0xaffffde; E 31 0x7c7fffde; X; X; X; E 31 0x7cffffde; X; E 31 0x7d7fffde; E 29 0xb7fffde;
  E 29 0xbffffde; E 29 0xc7fffde; E 28 0x7fffde; E 28 0xffffde; E 28 0x17fffde; E 29 0xcffffde; E 29 0xd7fffde;
  E 29 0xdffffde; E 29 0xe7fffde; E 29 0xeffffde; E 29 0xf7fffde; E 29 0xfffffde; E 30 0x2e7fffde; E 31 0x7dffffde; X;
  E 29 0x107fffde; X; X; X; E 29 0x10ffffde; E 30 0x2effffde; E 30 0x2f7fffde; E 30 0x2fffffde; E 30 0x307fffde;
  E 30 0x30ffffde; E 30 0x317fffde; E 30 0x31ffffde; E 30 0x327fffde; E 30 0x32ffffde; E 30 0x337fffde;
  E 30 0x33ffffde; E 30 0x347fffde; E 30 0x34ffffde; E 30 0x357fffde; E 30 0x35ffffde; E 30 0x367fffde;
  E 30 0x36ffffde; E 30 0x377fffde; E 30 0x37ffffde; E 30 0x387fffde; E 30 0x38ffffde; E 30 0x397fffde;
  E 31 0x7e7fffde; E 30 0x39ffffde; E 31 0x7effffde; X; X; X; X; E 29 0x117fffde; X; E 28 0x1ffffde; E 29 0x11ffffde;
  E 28 0x27fffde; E 29 0x127fffde; E 28 0x2ffffde; E 29 0x12ffffde; E 29 0x137fffde; E 29 0x13ffffde; E 28 0x37fffde;
  E 30 0x3a7fffde; E 30 0x3affffde; E 29 0x147fffde; E 29 0x14ffffde; E 29 0x157fffde; E 28 0x3ffffde;
  E 29 0x15ffffde; E 30 0x3b7fffde; E 29 0x167fffde; E 28 0x47fffde; E 28 0x4ffffde; E 29 0x16ffffde; E 30 0x3bffffde;
  E 30 0x3c7fffde; E 30 0x3cffffde; E 30 0x3d7fffde; E 30 0x3dffffde; X; X; X; X; X; X; X; X; X; X; X; X; X; X; X; X;
  X; X; X; X; X; X; X; X; X; X; X; X; X; X; X; X; X; X; X; X; X; X; X; X; X; X; X; X; X; X; X; X; X; X; X; X; X; X; X;
  X; X; X; X; X; X; X; X; X; X; X; X; X; X; X; X; X; X; X; X; X; X; X; X; X; X; X; X; X; X; X; X; X; X; X; X; X; X; X;
  X; X; X; X; X; X; X; X; X; X; X; X; X; X; X; X; X; X; X; X; X; X; X; X; X; X; X; X; X; X; X; X; X; X; X; X; X; X; X].
Definition hencs_142 : list henc := [
  X; X; X; X; X; X; X; X; X; X; X; X; X; X; X; X; X; X; X; X; X; X; X; X; X; X; X; X; X; X; X; X; E 30 0x14ffffeb; X;
  X; X; X; E 30 0x15ffffeb; E 32 0xf8ffffeb; X; X; X; E 32 0xf9ffffeb; X; E 32 0xfaffffeb; E 30 0x16ffffeb;
  E 30 0x17ffffeb; E 30 0x18ffffeb; E 29 0xffffeb; E 29 0x1ffffeb; E 29 0x2ffffeb; E 30 0x19ffffeb; E 30 0x1affffeb;
  E 30 0x1bffffeb; E 30 0x1cffffeb; E 30 0x1dffffeb; E 30 0x1effffeb; E 30 0x1fffffeb; E 31 0x5cffffeb;
  E 32 0xfbffffeb; X; E 30 0x20ffffeb; X; X; X; E 30 0x21ffffeb; E 31 0x5dffffeb; E 31 0x5effffeb; E 31 0x5fffffeb;
  E 31 0x60ffffeb; E 31 0x61ffffeb; E 31 0x62ffffeb; E 31 0x63ffffeb; E 31 0x64ffffeb; E 31 0x65ffffeb;
  E 31 0x66ffffeb; E 31 0x67ffffeb; E 31 0x68ffffeb; E 31 0x69ffffeb; E 31 0x6affffeb; E 31 0x6bffffeb;
  E 31 0x6cffffeb; E 31 0x6dffffeb; E 31 0x6effffeb; E 31 0x6fffffeb; E 31 0x70ffffeb; E 31 0x71ffffeb;
  E 31 0x72ffffeb; E 32 0xfcffffeb; E 31 0x73ffffeb; E 32 0xfdffffeb; X; X; X; X; E 30 0x22ffffeb; X; E 29 0x3ffffeb;
  E 30 0x23ffffeb; E 29 0x4ffffeb; E 30 0x24ffffeb; E 29 0x5ffffeb; E 30 0x25ffffeb; E 30 0x26ffffeb; E 30 0x27ffffeb;
  E 29 0x6ffffeb; E 31 0x74ffffeb; E 31 0x75ffffeb; E 30 0x28ffffeb; E 30 0x29ffffeb; E 30 0x2affffeb; E 29 0x7ffffeb;
  E 30 0x2bffffeb; E 31 0x76ffffeb; E 30 0x2cffffeb; E 29 0x8ffffeb; E 29 0x9ffffeb; E 30 0x2dffffeb; E 31 0x77ffffeb;
  E 31 0x78ffffeb; E 31 0x79ffffeb; E 31 0x7affffeb; E 31 0x7bffffeb; X; X; X; X; X; X; X; X; X; X; X; X; X; X; X; X;
  X; X; X; X; X; X; X; X; X; X; X; X; X; X; X; X; X; X; X; X; X; X; X; X; X; X; X; X; X; X; X; X; X; X; X; X; X; X; X;
  X; X; X; X; X; X; X; X; X; X; X; X; X; X; X; X; X; X; X; X; X; X; X; X; X; X; X; X; X; X; X; X; X; X; X; X; X; X; X;
  X; X; X; X; X; X; X; X; X; X; X; X; X; X; X; X; X; X; X; X; X; X; X; X; X; X; X; X; X; X; X; X; X; X; X; X; X; X; X].
Definition hencs_143 : list henc := [
  X; X; X; X; X; X; X; X; X; X; X; X; X; X; X; X; X; X; X; X; X; X; X; X; X; X; X; X; X; X; X; X; E 29 0xa7fffdf; X;
  X; X; X; E 29 0xaffffdf; E 31 0x7c7fffdf; X; X; X; E 31 0x7cffffdf; X; E 31 0x7d7fffdf; E 29 0xb7fffdf;
  E 29 0xbffffdf; E 29 0xc7fffdf; E 28 0x7fffdf; E 28 0xffffdf; E 28 0x17fffdf; E 29 0xcffffdf; E 29 0xd7fffdf;
  E 29 0xdffffdf; E 29 0xe7fffdf; E 29 0xeffffdf; E 29 0xf7fffdf; E 29 0xfffffdf; E 30 0x2e7fffdf; E 31 0x7dffffdf; X;
  E 29 0x107fffdf; X; X; X; E 29 0x10ffffdf; E 30 0x2effffdf; E 30 0x2f7fffdf; E 30 0x2fffffdf; E 30 0x307fffdf;
  E 30 0x30ffffdf; E 30 0x317fffdf; E 30 0x31ffffdf; E 30 0x327fffdf; E 30 0x32ffffdf; E 30 0x337fffdf;
  E 30 0x33ffffdf; E 30 0x347fffdf; E 30 0x34ffffdf; E 30 0x357fffdf; E 30 0x35ffffdf; E 30 0x367fffdf;
  E 30 0x36ffffdf; E 30 0x377fffdf; E 30 0x37ffffdf; E 30 0x387fffdf; E 30 0x38ffffdf; E 30 0x397fffdf;
  E 31 0x7e7fffdf; E 30 0x39ffffdf; E 31 0x7effffdf; X; X; X; X; E 29 0x117fffdf; X; E 28 0x1ffffdf; E 29 0x11ffffdf;
  E 28 0x27fffdf; E 29 0x127fffdf; E 28 0x2ffffdf; E 29 0x12ffffdf; E 29 0x137fffdf; E 29 0x13ffffdf; E 28 0x37fffdf;
  E 30 0x3a7fffdf; E 30 0x3affffdf; E 29 0x147fffdf; E 29 0x14ffffdf; E 29 0x157fffdf; E 28 0x3ffffdf;
  E 29 0x15ffffdf; E 30 0x3b7fffdf; E 29 0x167fffdf; E 28 0x47fffdf; E 28 0x4ffffdf; E 29 0x16ffffdf; E 30 0x3bffffdf;
  E 30 0x3c7fffdf; E 30 0x3cffffdf; E 30 0x3d7fffdf; E 30 0x3dffffdf; X; X; X; X; X; X; X; X; X; X; X; X; X; X; X; X;
  X; X; X; X; X; X; X; X; X; X; X; X; X; X; X; X; X; X; X; X; X; X; X; X; X; X; X; X; X; X; X; X; X; X; X; X; X; X; X;
  X; X; X; X; X; X; X; X; X; X; X; X; X; X; X; X; X; X; X; X; X; X; X; X; X; X; X; X; X; X; X; X; X; X; X; X; X; X; X;
  X; X; X; X; X; X; X; X; X; X; X; X; X; X; X; X; X; X; X; X; X; X; X; X; X; X; X; X; X; X; X; X; X; X; X; X; X; X; X].
Definition hencs_144 : list henc := [
  X; X; X; X; X; X; X; X; X; X; X; X; X; X; X; X; X; X; X; X; X; X; X; X; X; X; X; X; X; X; X; X; E 30 0x14ffffec; X;
  X; X; X; E 30 0x15ffffec; E 32 0xf8ffffec; X; X; X; E 32 0xf9ffffec; X; E 32 0xfaffffec; E 30 0x16ffffec;
  E 30 0x17ffffec; E 30 0x18ffffec; E 29 0xffffec; E 29 0x1ffffec; E 29 0x2ffffec; E 30 0x19ffffec; E 30 0x1affffec;
  E 30 0x1bffffec; E 30 0x1cffffec; E 30 0x1dffffec; E 30 0x1effffec; E 30 0x1fffffec; E 31 0x5cffffec;
  E 32 0xfbffffec; X; E 30 0x20ffffec; X; X; X; E 30 0x21ffffec; E 31 0x5dffffec; E 31 0x5effffec; E 31 0x5fffffec;
  E 31 0x60ffffec; E 31 0x61ffffec; E 31 0x62ffffec; E 31 0x63ffffec; E 31 0x64ffffec; E 31 0x65ffffec;
  E 31 0x66ffffec; E 31 0x67ffffec; E 31 0x68ffffec; E 31 0x69ffffec; E 31 0x6affffec; E 31 0x6bffffec;
  E 31 0x6cffffec; E 31 0x6dffffec; E 31 0x6effffec; E 31 0x6fffffec; E 31 0x70ffffec; E 31 0x71ffffec;
  E 31 0x72ffffec; E 32 0xfcffffec; E 31 0x73ffffec; E 32 0xfdffffec; X; X; X; X; E 30 0x22ffffec; X; E 29 0x3ffffec;
  E 30 0x23ffffec; E 29 0x4ffffec; E 30 0x24ffffec; E 29 0x5ffffec; E 30 0x25ffffec; E 30 0x26ffffec; E 30 0x27ffffec;
  E 29 0x6ffffec; E 31 0x74ffffec; E 31 0x75ffffec; E 30 0x28ffffec; E 30 0x29ffffec; E 30 0x2affffec; E 29 0x7ffffec;
  E 30 0x2bffffec; E 31 0x76ffffec; E 30 0x2cffffec; E 29 0x8ffffec; E 29 0x9ffffec; E 30 0x2dffffec; E 31 0x77ffffec;
  E 31 0x78ffffec; E 31 0x79ffffec; E 31 0x7affffec; E 31 0x7bffffec; X; X; X; X; X; X; X; X; X; X; X; X; X; X; X; X;
  X; X; X; X; X; X; X; X; X; X; X; X; X; X; X; X; X; X; X; X; X; X; X; X; X; X; X; X; X; X; X; X; X; X; X; X; X; X; X;
  X; X; X; X; X; X; X; X; X; X; X; X; X; X; X; X; X; X; X; X; X; X; X; X; X; X; X; X; X; X; X; X; X; X; X; X; X; X; X;
  X; X; X; X; X; X; X; X; X; X; X; X; X; X; X; X; X; X; X; X; X; X; X; X; X; X; X; X; X; X; X; X; X; X; X; X; X; X; X].
Definition hencs_145 : list henc := [
  X; X; X; X; X; X; X; X; X; X; X; X; X; X; X; X; X; X; X; X; X; X; X; X; X; X; X; X; X; X; X; X; E 30 0x14ffffed; X;
  X; X; X; E 30 0x15ffffed; E 32 0xf8ffffed; X; X; X; E 32 0xf9ffffed; X; E 32 0xfaffffed; E 30 0x16ffffed;
  E 30 0x17ffffed; E 30 0x18ffffed; E 29 0xffffed; E 29 0x1ffffed; E 29 0x2ffffed; E 30 0x19ffffed; E 30 0x1affffed;
  E 30 0x1bffffed; E 30 0x1cffffed; E 30 0x1dffffed; E 30 0x1effffed; E 30 0x1fffffed; E 31 0x5cffffed;
  E 32 0xfbffffed; X; E 30 0x20ffffed; X; X; X; E 30 0x21ffffed; E 31 0x5dffffed; E 31 0x5effffed; E 31 0x5fffffed;
  E 31 0x60ffffed; E 31 0x61ffffed; E 31 0x62ffffed; E 31 0x63ffffed; E 31 0x64ffffed; E 31 0x65ffffed;
  E 31 0x66ffffed; E 31 0x67ffffed; E 31 0x68ffffed; E 31 0x69ffffed; E 31 0x6affffed; E 31 0x6bffffed;
  E 31 0x6cffffed; E 31 0x6dffffed; E 31 0x6effffed; E 31 0x6fffffed; E 31 0x70ffffed; E 31 0x71ffffed;
  E 31 0x72ffffed; E 32 0xfcffffed; E 31 0x73ffffed; E 32 0xfdffffed; X; X; X; X; E 30 0x22ffffed; X; E 29 0x3ffffed;
  E 30 0x23ffffed; E 29 0x4ffffed; E 30 0x24ffffed; E 29 0x5ffffed; E 30 0x25ffffed; E 30 0x26ffffed; E 30 0x27ffffed;
  E 29 0x6ffffed; E 31 0x74ffffed; E 31 0x75ffffed; E 30 0x28ffffed; E 30 0x29ffffed; E 30 0x2affffed; E 29 0x7ffffed;
  E 30 0x2bffffed; E 31 0x76ffffed; E 30 0x2cffffed; E 29 0x8ffffed; E 29 0x9ffffed; E 30 0x2dffffed; E 31 0x77ffffed;
  E 31 0x78ffffed; E 31 0x79ffffed; E 31 0x7affffed; E 31 0x7bffffed; X; X; X; X; X; X; X; X; X; X; X; X; X; X; X; X;
  X; X; X; X; X; X; X; X; X; X; X; X; X; X; X; X; X; X; X; X; X; X; X; X; X; X; X; X; X; X; X; X; X; X; X; X; X; X; X;
  X; X; X; X; X; X; X; X; X; X; X; X; X; X; X; X; X; X; X; X; X; X; X; X; X; X; X; X; X; X; X; X; X; X; X; X; X; X; X;
  X; X; X; X; X; X; X; X; X; X; X; X; X; X; X; X; X; X; X; X; X; X; X; X; X; X; X; X; X; X; X; X; X; X; X; X; X; X; X].
Definition hencs_146 : list henc := [
  X; X; X; X; X; X; X; X; X; X; X; X; X; X; X; X; X; X; X; X; X; X; X; X; X; X; X; X; X; X; X; X; E 28 0x53fffd7;
  E 32 0xfe3fffd7; E 32 0xfe7fffd7; X; X; E 28 0x57fffd7; E 30 0x3e3fffd7; X; E 32 0xfebfffd7; E 32 0xfeffffd7;
  E 30 0x3e7fffd7; X; E 30 0x3ebfffd7; E 28 0x5bfffd7; E 28 0x5ffffd7; E 28 0x63fffd7; E 27 0x3fffd7; E 27 0x7fffd7;
  E 27 0xbfffd7; E 28 0x67fffd7; E 28 0x6bfffd7; E 28 0x6ffffd7; E 28 0x73fffd7; E 28 0x77fffd7; E 28 0x7bfffd7;
  E 28 0x7ffffd7; E 29 0x173fffd7; E 30 0x3effffd7; X; E 28 0x83fffd7; X; E 32 0xff3fffd7; X; E 28 0x87fffd7;
  E 29 0x177fffd7; E 29 0x17bfffd7; E 29 0x17ffffd7; E 29 0x183fffd7; E 29 0x187fffd7; E 29 0x18bfffd7;
  E 29 0x18ffffd7; E 29 0x193fffd7; E 29 0x197fffd7; E 29 0x19bfffd7; E 29 0x19ffffd7; E 29 0x1a3fffd7;
  E 29 0x1a7fffd7; E 29 0x1abfffd7; E 29 0x1affffd7; E 29 0x1b3fffd7; E 29 0x1b7fffd7; E 29 0x1bbfffd7;
  E 29 0x1bffffd7; E 29 0x1c3fffd7; E 29 0x1c7fffd7; E 29 0x1cbfffd7; E 30 0x3f3fffd7; E 29 0x1cffffd7;
  E 30 0x3f7fffd7; X; X; X; X; E 28 0x8bfffd7; X; E 27 0xffffd7; E 28 0x8ffffd7; E 27 0x13fffd7; E 28 0x93fffd7;
  E 27 0x17fffd7; E 28 0x97fffd7; E 28 0x9bfffd7; E 28 0x9ffffd7; E 27 0x1bfffd7; E 29 0x1d3fffd7; E 29 0x1d7fffd7;
  E 28 0xa3fffd7; E 28 0xa7fffd7; E 28 0xabfffd7; E 27 0x1ffffd7; E 28 0xaffffd7; E 29 0x1dbfffd7; E 28 0xb3fffd7;
  E 27 0x23fffd7; E 27 0x27fffd7; E 28 0xb7fffd7; E 29 0x1dffffd7; E 29 0x1e3fffd7; E 29 0x1e7fffd7; E 29 0x1ebfffd7;
  E 29 0x1effffd7; X; X; X; X; X; X; X; X; X; X; X; X; X; X; X; X; X; X; X; X; X; X; X; X; X; X; X; X; X; X; X; X; X;
  X; X; X; X; X; X; X; X; X; X; X; X; X; X; X; X; X; X; X; X; X; X; X; X; X; X; X; X; X; X; X; X; X; X; X; X; X; X; X;
  X; X; X; X; X; X; X; X; X; X; X; X; X; X; X; X; X; X; X; X; X; X; X; X; X; X; X; X; X; X; X; X; X; X; X; X; X; X; X;
  X; X; X; X; X; X; X; X; X; X; X; X; X; X; X; X; X; X; X; X; X; X].
Definition hencs_147 : list henc := [
  X; X; X; X; X; X; X; X; X; X; X; X; X; X; X; X; X; X; X; X; X; X; X; X; X; X; X; X; X; X; X; X; E 29 0xa7fffe0; X;
  X; X; X; E 29 0xaffffe0; E 31 0x7c7fffe0; X; X; X; E 31 0x7cffffe0; X; E 31 0x7d7fffe0; E 29 0xb7fffe0;
  E 29 0xbffffe0; E 29 0xc7fffe0; E 28 0x7fffe0; E 28 0xffffe0; E 28 0x17fffe0; E 29 0xcffffe0; E 29 0xd7fffe0;
  E 29 0xdffffe0; E 29 0xe7fffe0; E 29 0xeffffe0; E 29 0xf7fffe0; E 29 0xfffffe0; E 30 0x2e7fffe0; E 31 0x7dffffe0; X;
  E 29 0x107fffe0; X; X; X; E 29 0x10ffffe0; E 30 0x2effffe0; E 30 0x2f7fffe0; E 30 0x2fffffe0; E 30 0x307fffe0;
  E 30 0x30ffffe0; E 30 0x317fffe0; E 30 0x31ffffe0; E 30 0x327fffe0; E 30 0x32ffffe0; E 30 0x337fffe0;
  E 30 0x33ffffe0; E 30 0x347fffe0; E 30 0x34ffffe0; E 30 0x357fffe0; E 30 0x35ffffe0; E 30 0x367fffe0;
  E 30 0x36ffffe0; E 30 0x377fffe0; E 30 0x37ffffe0; E 30 0x387fffe0; E 30 0x38ffffe0; E 30 0x397fffe0;
  E 31 0x7e7fffe0; E 30 0x39ffffe0; E 31 0x7effffe0; X; X; X; X; E 29 0x117fffe0; X; E 28 0x1ffffe0; E 29 0x11ffffe0;
  E 28 0x27fffe0; E 29 0x127fffe0; E 28 0x2ffffe0; E 29 0x12ffffe0; E 29 0x137fffe0; E 29 0x13ffffe0; E 28 0x37fffe0;
  E 30 0x3a7fffe0; E 30 0x3affffe0; E 29 0x147fffe0; E 29 0x14ffffe0; E 29 0x157fffe0; E 28 0x3ffffe0;
  E 29 0x15ffffe0; E 30 0x3b7fffe0; E 29 0x167fffe0; E 28 0x47fffe0; E 28 0x4ffffe0; E 29 0x16ffffe0; E 30 0x3bffffe0;
  E 30 0x3c7fffe0; E 30 0x3cffffe0; E 30 0x3d7fffe0; E 30 0x3dffffe0; X; X; X; X; X; X; X; X; X; X; X; X; X; X; X; X;
  X; X; X; X; X; X; X; X; X; X; X; X; X; X; X; X; X; X; X; X; X; X; X; X; X; X; X; X; X; X; X; X; X; X; X; X; X; X; X;
  X; X; X; X; X; X; X; X; X; X; X; X; X; X; X; X; X; X; X; X; X; X; X; X; X; X; X; X; X; X; X; X; X; X; X; X; X; X; X;
  X; X; X; X; X; X; X; X; X; X; X; X; X; X; X; X; X; X; X; X; X; X; X; X; X; X; X; X; X; X; X; X; X; X; X; X; X; X; X].
Definition hencs_148 : list henc := [
  X; X; X; X; X; X; X; X; X; X; X; X; X; X; X; X; X; X; X; X; X; X; X; X; X; X; X; X; X; X; X; X; E 30 0x14ffffee; X;
  X; X; X; E 30 0x15ffffee; E 32 0xf8ffffee; X; X; X; E 32 0xf9ffffee; X; E 32 0xfaffffee; E 30 0x16ffffee;
  E 30 0x17ffffee; E 30 0x18ffffee; E 29 0xffffee; E 29 0x1ffffee; E 29 0x2ffffee; E 30 0x19ffffee; E 30 0x1affffee;
  E 30 0x1bffffee; E 30 0x1cffffee; E 30 0x1dffffee; E 30 0x1effffee; E 30 0x1fffffee; E 31 0x5cffffee;
  E 32 0xfbffffee; X; E 30 0x20ffffee; X; X; X; E 30 0x21ffffee; E 31 0x5dffffee; E 31 0x5effffee; E 31 0x5fffffee;
  E 31 0x60ffffee; E 31 0x61ffffee; E 31 0x62ffffee; E 31 0x63ffffee; E 31 0x64ffffee; E 31 0x65ffffee;
  E 31 0x66ffffee; E 31 0x67ffffee; E 31 0x68ffffee; E 31 0x69ffffee; E 31 0x6affffee; E 31 0x6bffffee;
  E 31 0x6cffffee; E 31 0x6dffffee; E 31 0x6effffee; E 31 0x6fffffee; E 31 0x70ffffee; E 31 0x71ffffee;
  E 31 0x72ffffee; E 32 0xfcffffee; E 31 0x73ffffee; E 32 0xfdffffee; X; X; X; X; E 30 0x22ffffee; X; E 29 0x3ffffee;
  E 30 0x23ffffee; E 29 0x4ffffee; E 30 0x24ffffee; E 29 0x5ffffee; E 30 0x25ffffee; E 30 0x26ffffee; E 30 0x27ffffee;
  E 29 0x6ffffee; E 31 0x74ffffee; E 31 0x75ffffee; E 30 0x28ffffee; E 30 0x29ffffee; E 30 0x2affffee; E 29 0x7ffffee;
  E 30 0x2bffffee; E 31 0x76ffffee; E 30 0x2cffffee; E 29 0x8ffffee; E 29 0x9ffffee; E 30 0x2dffffee; E 31 0x77ffffee;
  E 31 0x78ffffee; E 31 0x79ffffee; E 31 0x7affffee; E 31 0x7bffffee; X; X; X; X; X; X; X; X; X; X; X; X; X; X; X; X;
  X; X; X; X; X; X; X; X; X; X; X; X; X; X; X; X; X; X; X; X; X; X; X; X; X; X; X; X; X; X; X; X; X; X; X; X; X; X; X;
  X; X; X; X; X; X; X; X; X; X; X; X; X; X; X; X; X; X; X; X; X; X; X; X; X; X; X; X; X; X; X; X; X; X; X; X; X; X; X;
  X; X; X; X; X; X; X; X; X; X; X; X; X; X; X; X; X; X; X; X; X; X; X; X; X; X; X; X; X; X; X; X; X; X; X; X; X; X; X].
Definition hencs_149 : list henc := [
  X; X; X; X; X; X; X; X; X; X; X; X; X; X; X; X; X; X; X; X; X; X; X; X; X; X; X; X; X; X; X; X; E 29 0xa7fffe1; X;
  X; X; X; E 29 0xaffffe1; E 31 0x7c7fffe1; X; X; X; E 31 0x7cffffe1; X; E 31 0x7d7fffe1; E 29 0xb7fffe1;
  E 29 0xbffffe1; E 29 0xc7fffe1; E 28 0x7fffe1; E 28 0xffffe1; E 28 0x17fffe1; E 29 0xcffffe1; E 29 0xd7fffe1;
  E 29 0xdffffe1; E 29 0xe7fffe1; E 29 0xeffffe1; E 29 0xf7fffe1; E 29 0xfffffe1; E 30 0x2e7fffe1; E 31 0x7dffffe1; X;
  E 29 0x107fffe1; X; X; X; E 29 0x10ffffe1; E 30 0x2effffe1; E 30 0x2f7fffe1; E 30 0x2fffffe1; E 30 0x307fffe1;
  E 30 0x30ffffe1; E 30 0x317fffe1; E 30 0x31ffffe1; E 30 0x327fffe1; E 30 0x32ffffe1; E 30 0x337fffe1;
  E 30 0x33ffffe1; E 30 0x347fffe1; E 30 0x34ffffe1; E 30 0x357fffe1; E 30 0x35ffffe1; E 30 0x367fffe1;
  E 30 0x36ffffe1; E 30 0x377fffe1; E 30 0x37ffffe1; E 30 0x387fffe1; E 30 0x38ffffe1; E 30 0x397fffe1;
  E 31 0x7e7fffe1; E 30 0x39ffffe1; E 31 0x7effffe1; X; X; X; X; E 29 0x117fffe1; X; E 28 0x1ffffe1; E 29 0x11ffffe1;
  E 28 0x27fffe1; E 29 0x127fffe1; E 28 0x2ffffe1; E 29 0x12ffffe1; E 29 0x137fffe1; E 29 0x13ffffe1; E 28 0x37fffe1;
  E 30 0x3a7fffe1; E 30 0x3affffe1; E 29 0x147fffe1; E 29 0x14ffffe1; E 29 0x157fffe1; E 28 0x3ffffe1;
  E 29 0x15ffffe1; E 30 0x3b7fffe1; E 29 0x167fffe1; E 28 0x47fffe1; E 28 0x4ffffe1; E 29 0x16ffffe1; E 30 0x3bffffe1;
  E 30 0x3c7fffe1; E 30 0x3cffffe1; E 30 0x3d7fffe1; E 30 0x3dffffe1; X; X; X; X; X; X; X; X; X; X; X; X; X; X; X; X;
  X; X; X; X; X; X; X; X; X; X; X; X; X; X; X; X; X; X; X; X; X; X; X; X; X; X; X; X; X; X; X; X; X; X; X; X; X; X; X;
  X; X; X; X; X; X; X; X; X; X; X; X; X; X; X; X; X; X; X; X; X; X; X; X; X; X; X; X; X; X; X; X; X; X; X; X; X; X; X;
  X; X; X; X; X; X; X; X; X; X; X; X; X; X; X; X; X; X; X; X; X; X; X; X; X; X; X; X; X; X; X; X; X; X; X; X; X; X; X].
Definition hencs_150 : list henc := [
  X; X; X; X; X; X; X; X; X; X; X; X; X; X; X; X; X; X; X; X; X; X; X; X; X; X; X; X; X; X; X; X; E 29 0xa7fffe2; X;
  X; X; X; E 29 0xaffffe2; E 31 0x7c7fffe2; X; X; X; E 31 0x7cffffe2; X; E 31 0x7d7fffe2; E 29 0xb7fffe2;
  E 29 0xbffffe2; E 29 0xc7fffe2; E 28 0x7fffe2; E 28 0xffffe2; E 28 0x17fffe2; E 29 0xcffffe2; E 29 0xd7fffe2;
  E 29 0xdffffe2; E 29 0xe7fffe2; E 29 0xeffffe2; E 29 0xf7fffe2; E 29 0xfffffe2; E 30 0x2e7fffe2; E 31 0x7dffffe2; X;
  E 29 0x107fffe2; X; X; X; E 29 0x10ffffe2; E 30 0x2effffe2; E 30 0x2f7fffe2; E 30 0x2fffffe2; E 30 0x307fffe2;
  E 30 0x30ffffe2; E 30 0x317fffe2; E 30 0x31ffffe2; E 30 0x327fffe2; E 30 0x32ffffe2; E 30 0x337fffe2;
  E 30 0x33ffffe2; E 30 0x347fffe2; E 30 0x34ffffe2; E 30 0x357fffe2; E 30 0x35ffffe2; E 30 0x367fffe2;
  E 30 0x36ffffe2; E 30 0x377fffe2; E 30 0x37ffffe2; E 30 0x387fffe2; E 30 0x38ffffe2; E 30 0x397fffe2;
  E 31 0x7e7fffe2; E 30 0x39ffffe2; E 31 0x7effffe2; X; X; X; X; E 29 0x117fffe2; X; E 28 0x1ffffe2; E 29 0x11ffffe2;
  E 28 0x27fffe2; E 29 0x127fffe2; E 28 0x2ffffe2; E 29 0x12ffffe2; E 29 0x137fffe2; E 29 0x13ffffe2; E 28 0x37fffe2;
  E 30 0x3a7fffe2; E 30 0x3affffe2; E 29 0x147fffe2; E 29 0x14ffffe2; E 29 0x157fffe2; E 28 0x3ffffe2;
  E 29 0x15ffffe2; E 30 0x3b7fffe2; E 29 0x167fffe2; E 28 0x47fffe2; E 28 0x4ffffe2; E 29 0x16ffffe2; E 30 0x3bffffe2;
  E 30 0x3c7fffe2; E 30 0x3cffffe2; E 30 0x3d7fffe2; E 30 0x3dffffe2; X; X; X; X; X; X; X; X; X; X; X; X; X; X; X; X;
  X; X; X; X; X; X; X; X; X; X; X; X; X; X; X; X; X; X; X; X; X; X; X; X; X; X; X; X; X; X; X; X; X; X; X; X; X; X; X;
  X; X; X; X; X; X; X; X; X; X; X; X; X; X; X; X; X; X; X; X; X; X; X; X; X; X; X; X; X; X; X; X; X; X; X; X; X; X; X;
  X; X; X; X; X; X; X; X; X; X; X; X; X; X; X; X; X; X; X; X; X; X; X; X; X; X; X; X; X; X; X; X; X; X; X; X; X; X; X].
Definition hencs_151 : list henc := [
  X; X; X; X; X; X; X; X; X; X; X; X; X; X; X; X; X; X; X; X; X; X; X; X; X; X; X; X; X; X; X; X; E 29 0xa7fffe3; X;
  X; X; X; E 29 0xaffffe3; E 31 0x7c7fffe3; X; X; X; E 31 0x7cffffe3; X; E 31 0x7d7fffe3; E 29 0xb7fffe3;
  E 29 0xbffffe3; E 29 0xc7fffe3; E 28 0x7fffe3; E 28 0xffffe3; E 28 0x17fffe3; E 29 0xcffffe3; E 29 0xd7fffe3;
  E 29 0xdffffe3; E 29 0xe7fffe3; E 29 0xeffffe3; E 29 0xf7fffe3; E 29 0xfffffe3; E 30 0x2e7fffe3; E 31 0x7dffffe3; X;
  E 29 0x107fffe3; X; X; X; E 29 0x10ffffe3; E 30 0x2effffe3; E 30 0x2f7fffe3; E 30 0x2fffffe3; E 30 0x307fffe3;
  E 30 0x30ffffe3; E 30 0x317fffe3; E 30 0x31ffffe3; E 30 0x327fffe3; E 30 0x32ffffe3; E 30 0x337fffe3;
  E 30 0x33ffffe3; E 30 0x347fffe3; E 30 0x34ffffe3; E 30 0x357fffe3; E 30 0x35ffffe3; E 30 0x367fffe3;
  E 30 0x36ffffe3; E 30 0x377fffe3; E 30 0x37ffffe3; E 30 0x387fffe3; E 30 0x38ffffe3; E 30 0x397fffe3;
  E 31 0x7e7fffe3; E 30 0x39ffffe3; E 31 0x7effffe3; X; X; X; X; E 29 0x117fffe3; X; E 28 0x1ffffe3; E 29 0x11ffffe3;
  E 28 0x27fffe3; E 29 0x127fffe3; E 28 0x2ffffe3; E 29 0x12ffffe3; E 29 0x137fffe3; E 29 0x13ffffe3; E 28 0x37fffe3;
  E 30 0x3a7fffe3; E 30 0x3affffe3; E 29 0x147fffe3; E 29 0x14ffffe3; E 29 0x157fffe3; E 28 0x3ffffe3;
  E 29 0x15ffffe3; E 30 0x3b7fffe3; E 29 0x167fffe3; E 28 0x47fffe3; E 28 0x4ffffe3; E 29 0x16ffffe3; E 30 0x3bffffe3;
  E 30 0x3c7fffe3; E 30 0x3cffffe3; E 30 0x3d7fffe3; E 30 0x3dffffe3; X; X; X; X; X; X; X; X; X; X; X; X; X; X; X; X;
  X; X; X; X; X; X; X; X; X; X; X; X; X; X; X; X; X; X; X; X; X; X; X; X; X; X; X; X; X; X; X; X; X; X; X; X; X; X; X;
  X; X; X; X; X; X; X; X; X; X; X; X; X; X; X; X; X; X; X; X; X; X; X; X; X; X; X; X; X; X; X; X; X; X; X; X; X; X; X;
  X; X; X; X; X; X; X; X; X; X; X; X; X; X; X; X; X; X; X; X; X; X; X; X; X; X; X; X; X; X; X; X; X; X; X; X; X; X; X].
Definition hencs_152 : list henc := [
  X; X; X; X; X; X; X; X; X; X; X; X; X; X; X; X; X; X; X; X; X; X; X; X; X; X; X; X; X; X; X; X; E 29 0xa7fffe4; X;
  X; X; X; E 29 0xaffffe4; E 31 0x7c7fffe4; X; X; X; E 31 0x7cffffe4; X; E 31 0x7d7fffe4; E 29 0xb7fffe4;
  E 29 0xbffffe4; E 29 0xc7fffe4; E 28 0x7fffe4; E 28 0xffffe4; E 28 0x17fffe4; E 29 0xcffffe4; E 29 0xd7fffe4;
  E 29 0xdffffe4; E 29 0xe7fffe4; E 29 0xeffffe4; E 29 0xf7fffe4; E 29 0xfffffe4; E 30 0x2e7fffe4; E 31 0x7dffffe4; X;
  E 29 0x107fffe4; X; X; X; E 29 0x10ffffe4; E 30 0x2effffe4; E 30 0x2f7fffe4; E 30 0x2fffffe4; E 30 0x307fffe4;
  E 30 0x30ffffe4; E 30 0x317fffe4; E 30 0x31ffffe4; E 30 0x327fffe4; E 30 0x32ffffe4; E 30 0x337fffe4;
  E 30 0x33ffffe4; E 30 0x347fffe4; E 30 0x34ffffe4; E 30 0x357fffe4; E 30 0x35ffffe4; E 30 0x367fffe4;
  E 30 0x36ffffe4; E 30 0x377fffe4; E 30 0x37ffffe4; E 30 0x387fffe4; E 30 0x38ffffe4; E 30 0x397fffe4;
  E 31 0x7e7fffe4; E 30 0x39ffffe4; E 31 0x7effffe4; X; X; X; X; E 29 0x117fffe4; X; E 28 0x1ffffe4; E 29 0x11ffffe4;
  E 28 0x27fffe4; E 29 0x127fffe4; E 28 0x2ffffe4; E 29 0x12ffffe4; E 29 0x137fffe4; E 29 0x13ffffe4; E 28 0x37fffe4;
  E 30 0x3a7fffe4; E 30 0x3affffe4; E 29 0x147fffe4; E 29 0x14ffffe4; E 29 0x157fffe4; E 28 0x3ffffe4;
  E 29 0x15ffffe4; E 30 0x3b7fffe4; E 29 0x167fffe4; E 28 0x47fffe4; E 28 0x4ffffe4; E 29 0x16ffffe4; E 30 0x3bffffe4;
  E 30 0x3c7fffe4; E 30 0x3cffffe4; E 30 0x3d7fffe4; E 30 0x3dffffe4; X; X; X; X; X; X; X; X; X; X; X; X; X; X; X; X;
  X; X; X; X; X; X; X; X; X; X; X; X; X; X; X; X; X; X; X; X; X; X; X; X; X; X; X; X; X; X; X; X; X; X; X; X; X; X; X;
  X; X; X; X; X; X; X; X; X; X; X; X; X; X; X; X; X; X; X; X; X; X; X; X; X; X; X; X; X; X; X; X; X; X; X; X; X; X; X;
  X; X; X; X; X; X; X; X; X; X; X; X; X; X; X; X; X; X; X; X; X; X; X; X; X; X; X; X; X; X; X; X; X; X; X; X; X; X; X].
Definition hencs_153 : list henc := [
  X; X; X; X; X; X; X; X; X; X; X; X; X; X; X; X; X; X; X; X; X; X; X; X; X; X; X; X; X; X; X; X; E 27 0x29fffdc;
  E 31 0x7f1fffdc; E 31 0x7f3fffdc; X; X; E 27 0x2bfffdc; E 29 0x1f1fffdc; E 32 0xff5fffdc; E 31 0x7f5fffdc;
  E 31 0x7f7fffdc; E 29 0x1f3fffdc; E 32 0xff7fffdc; E 29 0x1f5fffdc; E 27 0x2dfffdc; E 27 0x2ffffdc; E 27 0x31fffdc;
  E 26 0x1fffdc; E 26 0x3fffdc; E 26 0x5fffdc; E 27 0x33fffdc; E 27 0x35fffdc; E 27 0x37fffdc; E 27 0x39fffdc;
  E 27 0x3bfffdc; E 27 0x3dfffdc; E 27 0x3ffffdc; E 28 0xb9fffdc; E 29 0x1f7fffdc; X; E 27 0x41fffdc; X;
  E 31 0x7f9fffdc; X; E 27 0x43fffdc; E 28 0xbbfffdc; E 28 0xbdfffdc; E 28 0xbffffdc; E 28 0xc1fffdc; E 28 0xc3fffdc;
  E 28 0xc5fffdc; E 28 0xc7fffdc; E 28 0xc9fffdc; E 28 0xcbfffdc; E 28 0xcdfffdc; E 28 0xcffffdc; E 28 0xd1fffdc;
  E 28 0xd3fffdc; E 28 0xd5fffdc; E 28 0xd7fffdc; E 28 0xd9fffdc; E 28 0xdbfffdc; E 28 0xddfffdc; E 28 0xdffffdc;
  E 28 0xe1fffdc; E 28 0xe3fffdc; E 28 0xe5fffdc; E 29 0x1f9fffdc; E 28 0xe7fffdc; E 29 0x1fbfffdc; X; X; X; X;
  E 27 0x45fffdc; X; E 26 0x7fffdc; E 27 0x47fffdc; E 26 0x9fffdc; E 27 0x49fffdc; E 26 0xbfffdc; E 27 0x4bfffdc;
  E 27 0x4dfffdc; E 27 0x4ffffdc; E 26 0xdfffdc; E 28 0xe9fffdc; E 28 0xebfffdc; E 27 0x51fffdc; E 27 0x53fffdc;
  E 27 0x55fffdc; E 26 0xffffdc; E 27 0x57fffdc; E 28 0xedfffdc; E 27 0x59fffdc; E 26 0x11fffdc; E 26 0x13fffdc;
  E 27 0x5bfffdc; E 28 0xeffffdc; E 28 0xf1fffdc; E 28 0xf3fffdc; E 28 0xf5fffdc; E 28 0xf7fffdc; X; E 32 0xff9fffdc;
  X; X; X; X; X; X; X; X; X; X; X; X; X; X; X; X; X; X; X; X; X; X; X; X; X; X; X; X; X; X; X; X; X; X; X; X; X; X; X;
  X; X; X; X; X; X; X; X; X; X; X; X; X; X; X; X; X; X; X; X; X; X; X; X; X; X; X; X; X; X; X; X; X; X; X; X; X; X; X;
  X; X; X; X; X; X; X; X; X; X; X; X; X; X; X; X; X; X; X; X; X; X; X; X; X; X; X; X; X; X; X; X; X; X; X; X; X; X; X;
  X; X; X; X; X; X; X; X; X; X; X; X; X; X].
Definition hencs_154 : list henc := [
  X; X; X; X; X; X; X; X; X; X; X; X; X; X; X; X; X; X; X; X; X; X; X; X; X; X; X; X; X; X; X; X; E 28 0x53fffd8;
  E 32 0xfe3fffd8; E 32 0xfe7fffd8; X; X; E 28 0x57fffd8; E 30 0x3e3fffd8; X; E 32 0xfebfffd8; E 32 0xfeffffd8;
  E 30 0x3e7fffd8; X; E 30 0x3ebfffd8; E 28 0x5bfffd8; E 28 0x5ffffd8; E 28 0x63fffd8; E 27 0x3fffd8; E 27 0x7fffd8;
  E 27 0xbfffd8; E 28 0x67fffd8; E 28 0x6bfffd8; E 28 0x6ffffd8; E 28 0x73fffd8; E 28 0x77fffd8; E 28 0x7bfffd8;
  E 28 0x7ffffd8; E 29 0x173fffd8; E 30 0x3effffd8; X; E 28 0x83fffd8; X; E 32 0xff3fffd8; X; E 28 0x87fffd8;
  E 29 0x177fffd8; E 29 0x17bfffd8; E 29 0x17ffffd8; E 29 0x183fffd8; E 29 0x187fffd8; E 29 0x18bfffd8;
  E 29 0x18ffffd8; E 29 0x193fffd8; E 29 0x197fffd8; E 29 0x19bfffd8; E 29 0x19ffffd8; E 29 0x1a3fffd8;
  E 29 0x1a7fffd8; E 29 0x1abfffd8; E 29 0x1affffd8; E 29 0x1b3fffd8; E 29 0x1b7fffd8; E 29 0x1bbfffd8;
  E 29 0x1bffffd8; E 29 0x1c3fffd8; E 29 0x1c7fffd8; E 29 0x1cbfffd8; E 30 0x3f3fffd8; E 29 0x1cffffd8;
  E 30 0x3f7fffd8; X; X; X; X; E 28 0x8bfffd8; X; E 27 0xffffd8; E 28 0x8ffffd8; E 27 0x13fffd8; E 28 0x93fffd8;
  E 27 0x17fffd8; E 28 0x97fffd8; E 28 0x9bfffd8; E 28 0x9ffffd8; E 27 0x1bfffd8; E 29 0x1d3fffd8; E 29 0x1d7fffd8;
  E 28 0xa3fffd8; E 28 0xa7fffd8; E 28 0xabfffd8; E 27 0x1ffffd8; E 28 0xaffffd8; E 29 0x1dbfffd8; E 28 0xb3fffd8;
  E 27 0x23fffd8; E 27 0x27fffd8; E 28 0xb7fffd8; E 29 0x1dffffd8; E 29 0x1e3fffd8; E 29 0x1e7fffd8; E 29 0x1ebfffd8;
  E 29 0x1effffd8; X; X; X; X; X; X; X; X; X; X; X; X; X; X; X; X; X; X; X; X; X; X; X; X; X; X; X; X; X; X; X; X; X;
  X; X; X; X; X; X; X; X; X; X; X; X; X; X; X; X; X; X; X; X; X; X; X; X; X; X; X; X; X; X; X; X; X; X; X; X; X; X; X;
  X; X; X; X; X; X; X; X; X; X; X; X; X; X; X; X; X; X; X; X; X; X; X; X; X; X; X; X; X; X; X; X; X; X; X; X; X; X; X;
  X; X; X; X; X; X; X; X; X; X; X; X; X; X; X; X; X; X; X; X; X; X].
Definition hencs_155 : list henc := [
  X; X; X; X; X; X; X; X; X; X; X; X; X; X; X; X; X; X; X; X; X; X; X; X; X; X; X; X; X; X; X; X; E 29 0xa7fffe5; X;
  X; X; X; E 29 0xaffffe5; E 31 0x7c7fffe5; X; X; X; E 31 0x7cffffe5; X; E 31 0x7d7fffe5; E 29 0xb7fffe5;
  E 29 0xbffffe5; E 29 0xc7fffe5; E 28 0x7fffe5; E 28 0xffffe5; E 28 0x17fffe5; E 29 0xcffffe5; E 29 0xd7fffe5;
  E 29 0xdffffe5; E 29 0xe7fffe5; E 29 0xeffffe5; E 29 0xf7fffe5; E 29 0xfffffe5; E 30 0x2e7fffe5; E 31 0x7dffffe5; X;
  E 29 0x107fffe5; X; X; X; E 29 0x10ffffe5; E 30 0x2effffe5; E 30 0x2f7fffe5; E 30 0x2fffffe5; E 30 0x307fffe5;
  E 30 0x30ffffe5; E 30 0x317fffe5; E 30 0x31ffffe5; E 30 0x327fffe5; E 30 0x32ffffe5; E 30 0x337fffe5;
  E 30 0x33ffffe5; E 30 0x347fffe5; E 30 0x34ffffe5; E 30 0x357fffe5; E 30 0x35ffffe5; E 30 0x367fffe5;
  E 30 0x36ffffe5; E 30 0x377fffe5; E 30 0x37ffffe5; E 30 0x387fffe5; E 30 0x38ffffe5; E 30 0x397fffe5;
  E 31 0x7e7fffe5; E 30 0x39ffffe5; E 31 0x7effffe5; X; X; X; X; E 29 0x117fffe5; X; E 28 0x1ffffe5; E 29 0x11ffffe5;
  E 28 0x27fffe5; E 29 0x127fffe5; E 28 0x2ffffe5; E 29 0x12ffffe5; E 29 0x137fffe5; E 29 0x13ffffe5; E 28 0x37fffe5;
  E 30 0x3a7fffe5; E 30 0x3affffe5; E 29 0x147fffe5; E 29 0x14ffffe5; E 29 0x157fffe5; E 28 0x3ffffe5;
  E 29 0x15ffffe5; E 30 0x3b7fffe5; E 29 0x167fffe5; E 28 0x47fffe5; E 28 0x4ffffe5; E 29 0x16ffffe5; E 30 0x3bffffe5;
  E 30 0x3c7fffe5; E 30 0x3cffffe5; E 30 0x3d7fffe5; E 30 0x3dffffe5; X; X; X; X; X; X; X; X; X; X; X; X; X; X; X; X;
  X; X; X; X; X; X; X; X; X; X; X; X; X; X; X; X; X; X; X; X; X; X; X; X; X; X; X; X; X; X; X; X; X; X; X; X; X; X; X;
  X; X; X; X; X; X; X; X; X; X; X; X; X; X; X; X; X; X; X; X; X; X; X; X; X; X; X; X; X; X; X; X; X; X; X; X; X; X; X;
  X; X; X; X; X; X; X; X; X; X; X; X; X; X; X; X; X; X; X; X; X; X; X; X; X; X; X; X; X; X; X; X; X; X; X; X; X; X; X].
Definition hencs_156 : list henc := [
  X; X; X; X; X; X; X; X; X; X; X; X; X; X; X; X; X; X; X; X; X; X; X; X; X; X; X; X; X; X; X; X; E 28 0x53fffd9;
  E 32 0xfe3fffd9; E 32 0xfe7fffd9; X; X; E 28 0x57fffd9; E 30 0x3e3fffd9; X; E 32 0xfebfffd9; E 32 0xfeffffd9;
  E 30 0x3e7fffd9; X; E 30 0x3ebfffd9; E 28 0x5bfffd9; E 28 0x5ffffd9; E 28 0x63fffd9; E 27 0x3fffd9; E 27 0x7fffd9;
  E 27 0xbfffd9; E 28 0x67fffd9; E 28 0x6bfffd9; E 28 0x6ffffd9; E 28 0x73fffd9; E 28 0x77fffd9; E 28 0x7bfffd9;
  E 28 0x7ffffd9; E 29 0x173fffd9; E 30 0x3effffd9; X; E 28 0x83fffd9; X; E 32 0xff3fffd9; X; E 28 0x87fffd9;
  E 29 0x177fffd9; E 29 0x17bfffd9; E 29 0x17ffffd9; E 29 0x183fffd9; E 29 0x187fffd9; E 29 0x18bfffd9;
  E 29 0x18ffffd9; E 29 0x193fffd9; E 29 0x197fffd9; E 29 0x19bfffd9; E 29 0x19ffffd9; E 29 0x1a3fffd9;
  E 29 0x1a7fffd9; E 29 0x1abfffd9; E 29 0x1affffd9; E 29 0x1b3fffd9; E 29 0x1b7fffd9; E 29 0x1bbfffd9;
  E 29 0x1bffffd9; E 29 0x1c3fffd9; E 29 0x1c7fffd9; E 29 0x1cbfffd9; E 30 0x3f3fffd9; E 29 0x1cffffd9;
  E 30 0x3f7fffd9; X; X; X; X; E 28 0x8bfffd9; X; E 27 0xffffd9; E 28 0x8ffffd9; E 27 0x13fffd9; E 28 0x93fffd9;
  E 27 0x17fffd9; E 28 0x97fffd9; E 28 0x9bfffd9; E 28 0x9ffffd9; E 27 0x1bfffd9; E 29 0x1d3fffd9; E 29 0x1d7fffd9;
  E 28 0xa3fffd9; E 28 0xa7fffd9; E 28 0xabfffd9; E 27 0x1ffffd9; E 28 0xaffffd9; E 29 0x1dbfffd9; E 28 0xb3fffd9;
  E 27 0x23fffd9; E 27 0x27fffd9; E 28 0xb7fffd9; E 29 0x1dffffd9; E 29 0x1e3fffd9; E 29 0x1e7fffd9; E 29 0x1ebfffd9;
  E 29 0x1effffd9; X; X; X; X; X; X; X; X; X; X; X; X; X; X; X; X; X; X; X; X; X; X; X; X; X; X; X; X; X; X; X; X; X;
  X; X; X; X; X; X; X; X; X; X; X; X; X; X; X; X; X; X; X; X; X; X; X; X; X; X; X; X; X; X; X; X; X; X; X; X; X; X; X;
  X; X; X; X; X; X; X; X; X; X; X; X; X; X; X; X; X; X; X; X; X; X; X; X; X; X; X; X; X; X; X; X; X; X; X; X; X; X; X;
  X; X; X; X; X; X; X; X; X; X; X; X; X; X; X; X; X; X; X; X; X; X].
Definition hencs_157 : list henc := [
  X; X; X; X; X; X; X; X; X; X; X; X; X; X; X; X; X; X; X; X; X; X; X; X; X; X; X; X; X; X; X; X; E 29 0xa7fffe6; X;
  X; X; X; E 29 0xaffffe6; E 31 0x7c7fffe6; X; X; X; E 31 0x7cffffe6; X; E 31 0x7d7fffe6; E 29 0xb7fffe6;
  E 29 0xbffffe6; E 29 0xc7fffe6; E 28 0x7fffe6; E 28 0xffffe6; E 28 0x17fffe6; E 29 0xcffffe6; E 29 0xd7fffe6;
  E 29 0xdffffe6; E 29 0xe7fffe6; E 29 0xeffffe6; E 29 0xf7fffe6; E 29 0xfffffe6; E 30 0x2e7fffe6; E 31 0x7dffffe6; X;
  E 29 0x107fffe6; X; X; X; E 29 0x10ffffe6; E 30 0x2effffe6; E 30 0x2f7fffe6; E 30 0x2fffffe6; E 30 0x307fffe6;
  E 30 0x30ffffe6; E 30 0x317fffe6; E 30 0x31ffffe6; E 30 0x327fffe6; E 30 0x32ffffe6; E 30 0x337fffe6;
  E 30 0x33ffffe6; E 30 0x347fffe6; E 30 0x34ffffe6; E 30 0x357fffe6; E 30 0x35ffffe6; E 30 0x367fffe6;
  E 30 0x36ffffe6; E 30 0x377fffe6; E 30 0x37ffffe6; E 30 0x387fffe6; E 30 0x38ffffe6; E 30 0x397fffe6;
  E 31 0x7e7fffe6; E 30 0x39ffffe6; E 31 0x7effffe6; X; X; X; X; E 29 0x117fffe6; X; E 28 0x1ffffe6; E 29 0x11ffffe6;
  E 28 0x27fffe6; E 29 0x127fffe6; E 28 0x2ffffe6; E 29 0x12ffffe6; E 29 0x137fffe6; E 29 0x13ffffe6; E 28 0x37fffe6;
  E 30 0x3a7fffe6; E 30 0x3affffe6; E 29 0x147fffe6; E 29 0x14ffffe6; E 29 0x157fffe6; E 28 0x3ffffe6;
  E 29 0x15ffffe6; E 30 0x3b7fffe6; E 29 0x167fffe6; E 28 0x47fffe6; E 28 0x4ffffe6; E 29 0x16ffffe6; E 30 0x3bffffe6;
  E 30 0x3c7fffe6; E 30 0x3cffffe6; E 30 0x3d7fffe6; E 30 0x3dffffe6; X; X; X; X; X; X; X; X; X; X; X; X; X; X; X; X;
  X; X; X; X; X; X; X; X; X; X; X; X; X; X; X; X; X; X; X; X; X; X; X; X; X; X; X; X; X; X; X; X; X; X; X; X; X; X; X;
  X; X; X; X; X; X; X; X; X; X; X; X; X; X; X; X; X; X; X; X; X; X; X; X; X; X; X; X; X; X; X; X; X; X; X; X; X; X; X;
  X; X; X; X; X; X; X; X; X; X; X; X; X; X; X; X; X; X; X; X; X; X; X; X; X; X; X; X; X; X; X; X; X; X; X; X; X; X; X].
Definition hencs_158 : list henc := [
  X; X; X; X; X; X; X; X; X; X; X; X; X; X; X; X; X; X; X; X; X; X; X; X; X; X; X; X; X; X; X; X; E 29 0xa7fffe7; X;
  X; X; X; E 29 0xaffffe7; E 31 0x7c7fffe7; X; X; X; E 31 0x7cffffe7; X; E 31 0x7d7fffe7; E 29 0xb7fffe7;
  E 29 0xbffffe7; E 29 0xc7fffe7; E 28 0x7fffe7; E 28 0xffffe7; E 28 0x17fffe7; E 29 0xcffffe7; E 29 0xd7fffe7;
  E 29 0xdffffe7; E 29 0xe7fffe7; E 29 0xeffffe7; E 29 0xf7fffe7; E 29 0xfffffe7; E 30 0x2e7fffe7; E 31 0x7dffffe7; X;
  E 29 0x107fffe7; X; X; X; E 29 0x10ffffe7; E 30 0x2effffe7; E 30 0x2f7fffe7; E 30 0x2fffffe7; E 30 0x307fffe7;
  E 30 0x30ffffe7; E 30 0x317fffe7; E 30 0x31ffffe7; E 30 0x327fffe7; E 30 0x32ffffe7; E 30 0x337fffe7;
  E 30 0x33ffffe7; E 30 0x347fffe7; E 30 0x34ffffe7; E 30 0x357fffe7; E 30 0x35ffffe7; E 30 0x367fffe7;
  E 30 0x36ffffe7; E 30 0x377fffe7; E 30 0x37ffffe7; E 30 0x387fffe7; E 30 0x38ffffe7; E 30 0x397fffe7;
  E 31 0x7e7fffe7; E 30 0x39ffffe7; E 31 0x7effffe7; X; X; X; X; E 29 0x117fffe7; X; E 28 0x1ffffe7; E 29 0x11ffffe7;
  E 28 0x27fffe7; E 29 0x127fffe7; E 28 0x2ffffe7; E 29 0x12ffffe7; E 29 0x137fffe7; E 29 0x13ffffe7; E 28 0x37fffe7;
  E 30 0x3a7fffe7; E 30 0x3affffe7; E 29 0x147fffe7; E 29 0x14ffffe7; E 29 0x157fffe7; E 28 0x3ffffe7;
  E 29 0x15ffffe7; E 30 0x3b7fffe7; E 29 0x167fffe7; E 28 0x47fffe7; E 28 0x4ffffe7; E 29 0x16ffffe7; E 30 0x3bffffe7;
  E 30 0x3c7fffe7; E 30 0x3cffffe7; E 30 0x3d7fffe7; E 30 0x3dffffe7; X; X; X; X; X; X; X; X; X; X; X; X; X; X; X; X;
  X; X; X; X; X; X; X; X; X; X; X; X; X; X; X; X; X; X; X; X; X; X; X; X; X; X; X; X; X; X; X; X; X; X; X; X; X; X; X;
  X; X; X; X; X; X; X; X; X; X; X; X; X; X; X; X; X; X; X; X; X; X; X; X; X; X; X; X; X; X; X; X; X; X; X; X; X; X; X;
  X; X; X; X; X; X; X; X; X; X; X; X; X; X; X; X; X; X; X; X; X; X; X; X; X; X; X; X; X; X; X; X; X; X; X; X; X; X; X].
Definition hencs_159 : list henc := [
  X; X; X; X; X; X; X; X; X; X; X; X; X; X; X; X; X; X; X; X; X; X; X; X; X; X; X; X; X; X; X; X; E 30 0x14ffffef; X;
  X; X; X; E 30 0x15ffffef; E 32 0xf8ffffef; X; X; X; E 32 0xf9ffffef; X; E 32 0xfaffffef; E 30 0x16ffffef;
  E 30 0x17ffffef; E 30 0x18ffffef; E 29 0xffffef; E 29 0x1ffffef; E 29 0x2ffffef; E 30 0x19ffffef; E 30 0x1affffef;
  E 30 0x1bffffef; E 30 0x1cffffef; E 30 0x1dffffef; E 30 0x1effffef; E 30 0x1fffffef; E 31 0x5cffffef;
  E 32 0xfbffffef; X; E 30 0x20ffffef; X; X; X; E 30 0x21ffffef; E 31 0x5dffffef; E 31 0x5effffef; E 31 0x5fffffef;
  E 31 0x60ffffef; E 31 0x61ffffef; E 31 0x62ffffef; E 31 0x63ffffef; E 31 0x64ffffef; E 31 0x65ffffef;
  E 31 0x66ffffef; E 31 0x67ffffef; E 31 0x68ffffef; E 31 0x69ffffef; E 31 0x6affffef; E 31 0x6bffffef;
  E 31 0x6cffffef; E 31 0x6dffffef; E 31 0x6effffef; E 31 0x6fffffef; E 31 0x70ffffef; E 31 0x71ffffef;
  E 31 0x72ffffef; E 32 0xfcffffef; E 31 0x73ffffef; E 32 0xfdffffef; X; X; X; X; E 30 0x22ffffef; X; E 29 0x3ffffef;
  E 30 0x23ffffef; E 29 0x4ffffef; E 30 0x24ffffef; E 29 0x5ffffef; E 30 0x25ffffef; E 30 0x26ffffef; E 30 0x27ffffef;
  E 29 0x6ffffef; E 31 0x74ffffef; E 31 0x75ffffef; E 30 0x28ffffef; E 30 0x29ffffef; E 30 0x2affffef; E 29 0x7ffffef;
  E 30 0x2bffffef; E 31 0x76ffffef; E 30 0x2cffffef; E 29 0x8ffffef; E 29 0x9ffffef; E 30 0x2dffffef; E 31 0x77ffffef;
  E 31 0x78ffffef; E 31 0x79ffffef; E 31 0x7affffef; E 31 0x7bffffef; X; X; X; X; X; X; X; X; X; X; X; X; X; X; X; X;
  X; X; X; X; X; X; X; X; X; X; X; X; X; X; X; X; X; X; X; X; X; X; X; X; X; X; X; X; X; X; X; X; X; X; X; X; X; X; X;
  X; X; X; X; X; X; X; X; X; X; X; X; X; X; X; X; X; X; X; X; X; X; X; X; X; X; X; X; X; X; X; X; X; X; X; X; X; X; X;
  X; X; X; X; X; X; X; X; X; X; X; X; X; X; X; X; X; X; X; X; X; X; X; X; X; X; X; X; X; X; X; X; X; X; X; X; X; X; X].
Definition hencs_160 : list henc := [
  X; X; X; X; X; X; X; X; X; X; X; X; X; X; X; X; X; X; X; X; X; X; X; X; X; X; X; X; X; X; X; X; E 28 0x53fffda;
  E 32 0xfe3fffda; E 32 0xfe7fffda; X; X; E 28 0x57fffda; E 30 0x3e3fffda; X; E 32 0xfebfffda; E 32 0xfeffffda;
  E 30 0x3e7fffda; X; E 30 0x3ebfffda; E 28 0x5bfffda; E 28 0x5ffffda; E 28 0x63fffda; E 27 0x3fffda; E 27 0x7fffda;
  E 27 0xbfffda; E 28 0x67fffda; E 28 0x6bfffda; E 28 0x6ffffda; E 28 0x73fffda; E 28 0x77fffda; E 28 0x7bfffda;
  E 28 0x7ffffda; E 29 0x173fffda; E 30 0x3effffda; X; E 28 0x83fffda; X; E 32 0xff3fffda; X; E 28 0x87fffda;
  E 29 0x177fffda; E 29 0x17bfffda; E 29 0x17ffffda; E 29 0x183fffda; E 29 0x187fffda; E 29 0x18bfffda;
  E 29 0x18ffffda; E 29 0x193fffda; E 29 0x197fffda; E 29 0x19bfffda; E 29 0x19ffffda; E 29 0x1a3fffda;
  E 29 0x1a7fffda; E 29 0x1abfffda; E 29 0x1affffda; E 29 0x1b3fffda; E 29 0x1b7fffda; E 29 0x1bbfffda;
  E 29 0x1bffffda; E 29 0x1c3fffda; E 29 0x1c7fffda; E 29 0x1cbfffda; E 30 0x3f3fffda; E 29 0x1cffffda;
  E 30 0x3f7fffda; X; X; X; X; E 28 0x8bfffda; X; E 27 0xffffda; E 28 0x8ffffda; E 27 0x13fffda; E 28 0x93fffda;
  E 27 0x17fffda; E 28 0x97fffda; E 28 0x9bfffda; E 28 0x9ffffda; E 27 0x1bfffda; E 29 0x1d3fffda; E 29 0x1d7fffda;
  E 28 0xa3fffda; E 28 0xa7fffda; E 28 0xabfffda; E 27 0x1ffffda; E 28 0xaffffda; E 29 0x1dbfffda; E 28 0xb3fffda;
  E 27 0x23fffda; E 27 0x27fffda; E 28 0xb7fffda; E 29 0x1dffffda; E 29 0x1e3fffda; E 29 0x1e7fffda; E 29 0x1ebfffda;
  E 29 0x1effffda; X; X; X; X; X; X; X; X; X; X; X; X; X; X; X; X; X; X; X; X; X; X; X; X; X; X; X; X; X; X; X; X; X;
  X; X; X; X; X; X; X; X; X; X; X; X; X; X; X; X; X; X; X; X; X; X; X; X; X; X; X; X; X; X; X; X; X; X; X; X; X; X; X;
  X; X; X; X; X; X; X; X; X; X; X; X; X; X; X; X; X; X; X; X; X; X; X; X; X; X; X; X; X; X; X; X; X; X; X; X; X; X; X;
  X; X; X; X; X; X; X; X; X; X; X; X; X; X; X; X; X; X; X; X; X; X].
Definition hencs_161 : list henc := [
  X; X; X; X; X; X; X; X; X; X; X; X; X; X; X; X; X; X; X; X; X; X; X; X; X; X; X; X; X; X; X; X; E 27 0x29fffdd;
  E 31 0x7f1fffdd; E 31 0x7f3fffdd; X; X; E 27 0x2bfffdd; E 29 0x1f1fffdd; E 32 0xff5fffdd; E 31 0x7f5fffdd;
  E 31 0x7f7fffdd; E 29 0x1f3fffdd; E 32 0xff7fffdd; E 29 0x1f5fffdd; E 27 0x2dfffdd; E 27 0x2ffffdd; E 27 0x31fffdd;
  E 26 0x1fffdd; E 26 0x3fffdd; E 26 0x5fffdd; E 27 0x33fffdd; E 27 0x35fffdd; E 27 0x37fffdd; E 27 0x39fffdd;
  E 27 0x3bfffdd; E 27 0x3dfffdd; E 27 0x3ffffdd; E 28 0xb9fffdd; E 29 0x1f7fffdd; X; E 27 0x41fffdd; X;
  E 31 0x7f9fffdd; X; E 27 0x43fffdd; E 28 0xbbfffdd; E 28 0xbdfffdd; E 28 0xbffffdd; E 28 0xc1fffdd; E 28 0xc3fffdd;
  E 28 0xc5fffdd; E 28 0xc7fffdd; E 28 0xc9fffdd; E 28 0xcbfffdd; E 28 0xcdfffdd; E 28 0xcffffdd; E 28 0xd1fffdd;
  E 28 0xd3fffdd; E 28 0xd5fffdd; E 28 0xd7fffdd; E 28 0xd9fffdd; E 28 0xdbfffdd; E 28 0xddfffdd; E 28 0xdffffdd;
  E 28 0xe1fffdd; E 28 0xe3fffdd; E 28 0xe5fffdd; E 29 0x1f9fffdd; E 28 0xe7fffdd; E 29 0x1fbfffdd; X; X; X; X;
  E 27 0x45fffdd; X; E 26 0x7fffdd; E 27 0x47fffdd; E 26 0x9fffdd; E 27 0x49fffdd; E 26 0xbfffdd; E 27 0x4bfffdd;
  E 27 0x4dfffdd; E 27 0x4ffffdd; E 26 0xdfffdd; E 28 0xe9fffdd; E 28 0xebfffdd; E 27 0x51fffdd; E 27 0x53fffdd;
  E 27 0x55fffdd; E 26 0xffffdd; E 27 0x57fffdd; E 28 0xedfffdd; E 27 0x59fffdd; E 26 0x11fffdd; E 26 0x13fffdd;
  E 27 0x5bfffdd; E 28 0xeffffdd; E 28 0xf1fffdd; E 28 0xf3fffdd; E 28 0xf5fffdd; E 28 0xf7fffdd; X; E 32 0xff9fffdd;
  X; X; X; X; X; X; X; X; X; X; X; X; X; X; X; X; X; X; X; X; X; X; X; X; X; X; X; X; X; X; X; X; X; X; X; X; X; X; X;
  X; X; X; X; X; X; X; X; X; X; X; X; X; X; X; X; X; X; X; X; X; X; X; X; X; X; X; X; X; X; X; X; X; X; X; X; X; X; X;
  X; X; X; X; X; X; X; X; X; X; X; X; X; X; X; X; X; X; X; X; X; X; X; X; X; X; X; X; X; X; X; X; X; X; X; X; X; X; X;
  X; X; X; X; X; X; X; X; X; X; X; X; X; X].
Definition hencs_162 : list henc := [
  X; X; X; X; X; X; X; X; X; X; X; X; X; X; X; X; X; X; X; X; X; X; X; X; X; X; X; X; X; X; X; X; E 26 0x14fffe9;
  E 30 0x3f8fffe9; E 30 0x3f9fffe9; E 32 0xffafffe9; X; E 26 0x15fffe9; E 28 0xf8fffe9; E 31 0x7fafffe9;
  E 30 0x3fafffe9; E 30 0x3fbfffe9; E 28 0xf9fffe9; E 31 0x7fbfffe9; E 28 0xfafffe9; E 26 0x16fffe9; E 26 0x17fffe9;
  E 26 0x18fffe9; E 25 0xfffe9; E 25 0x1fffe9; E 25 0x2fffe9; E 26 0x19fffe9; E 26 0x1afffe9; E 26 0x1bfffe9;
  E 26 0x1cfffe9; E 26 0x1dfffe9; E 26 0x1efffe9; E 26 0x1ffffe9; E 27 0x5cfffe9; E 28 0xfbfffe9; X; E 26 0x20fffe9;
  E 32 0xffbfffe9; E 30 0x3fcfffe9; X; E 26 0x21fffe9; E 27 0x5dfffe9; E 27 0x5efffe9; E 27 0x5ffffe9; E 27 0x60fffe9;
  E 27 0x61fffe9; E 27 0x62fffe9; E 27 0x63fffe9; E 27 0x64fffe9; E 27 0x65fffe9; E 27 0x66fffe9; E 27 0x67fffe9;
  E 27 0x68fffe9; E 27 0x69fffe9; E 27 0x6afffe9; E 27 0x6bfffe9; E 27 0x6cfffe9; E 27 0x6dfffe9; E 27 0x6efffe9;
  E 27 0x6ffffe9; E 27 0x70fffe9; E 27 0x71fffe9; E 27 0x72fffe9; E 28 0xfcfffe9; E 27 0x73fffe9; E 28 0xfdfffe9; X;
  X; X; X; E 26 0x22fffe9; X; E 25 0x3fffe9; E 26 0x23fffe9; E 25 0x4fffe9; E 26 0x24fffe9; E 25 0x5fffe9;
  E 26 0x25fffe9; E 26 0x26fffe9; E 26 0x27fffe9; E 25 0x6fffe9; E 27 0x74fffe9; E 27 0x75fffe9; E 26 0x28fffe9;
  E 26 0x29fffe9; E 26 0x2afffe9; E 25 0x7fffe9; E 26 0x2bfffe9; E 27 0x76fffe9; E 26 0x2cfffe9; E 25 0x8fffe9;
  E 25 0x9fffe9; E 26 0x2dfffe9; E 27 0x77fffe9; E 27 0x78fffe9; E 27 0x79fffe9; E 27 0x7afffe9; E 27 0x7bfffe9; X;
  E 31 0x7fcfffe9; X; X; X; X; X; X; X; X; X; X; X; X; X; X; X; X; X; X; X; X; X; X; X; X; X; X; X; X; X; X; X; X; X;
  X; X; X; X; X; X; X; X; X; X; X; X; X; X; X; X; X; X; X; X; X; X; X; X; X; X; X; X; X; X; X; X; X; X; X; X; X; X; X;
  X; X; X; X; X; X; X; X; X; X; X; X; X; X; X; X; X; X; X; X; X; X; X; X; X; X; X; X; X; X; X; X; X; X; X; X; X; X; X;
  X; X; X; X; X; X; X; X; X; X; X; X; X; X; X; X; X; X; X; X].
Definition hencs_163 : list henc := [
  X; X; X; X; X; X; X; X; X; X; X; X; X; X; X; X; X; X; X; X; X; X; X; X; X; X; X; X; X; X; X; X; E 28 0x53fffdb;
  E 32 0xfe3fffdb; E 32 0xfe7fffdb; X; X; E 28 0x57fffdb; E 30 0x3e3fffdb; X; E 32 0xfebfffdb; E 32 0xfeffffdb;
  E 30 0x3e7fffdb; X; E 30 0x3ebfffdb; E 28 0x5bfffdb; E 28 0x5ffffdb; E 28 0x63fffdb; E 27 0x3fffdb; E 27 0x7fffdb;
  E 27 0xbfffdb; E 28 0x67fffdb; E 28 0x6bfffdb; E 28 0x6ffffdb; E 28 0x73fffdb; E 28 0x77fffdb; E 28 0x7bfffdb;
  E 28 0x7ffffdb; E 29 0x173fffdb; E 30 0x3effffdb; X; E 28 0x83fffdb; X; E 32 0xff3fffdb; X; E 28 0x87fffdb;
  E 29 0x177fffdb; E 29 0x17bfffdb; E 29 0x17ffffdb; E 29 0x183fffdb; E 29 0x187fffdb; E 29 0x18bfffdb;
  E 29 0x18ffffdb; E 29 0x193fffdb; E 29 0x197fffdb; E 29 0x19bfffdb; E 29 0x19ffffdb; E 29 0x1a3fffdb;
  E 29 0x1a7fffdb; E 29 0x1abfffdb; E 29 0x1affffdb; E 29 0x1b3fffdb; E 29 0x1b7fffdb; E 29 0x1bbfffdb;
  E 29 0x1bffffdb; E 29 0x1c3fffdb; E 29 0x1c7fffdb; E 29 0x1cbfffdb; E 30 0x3f3fffdb; E 29 0x1cffffdb;
  E 30 0x3f7fffdb; X; X; X; X; E 28 0x8bfffdb; X; E 27 0xffffdb; E 28 0x8ffffdb; E 27 0x13fffdb; E 28 0x93fffdb;
  E 27 0x17fffdb; E 28 0x97fffdb; E 28 0x9bfffdb; E 28 0x9ffffdb; E 27 0x1bfffdb; E 29 0x1d3fffdb; E 29 0x1d7fffdb;
  E 28 0xa3fffdb; E 28 0xa7fffdb; E 28 0xabfffdb; E 27 0x1ffffdb; E 28 0xaffffdb; E 29 0x1dbfffdb; E 28 0xb3fffdb;
  E 27 0x23fffdb; E 27 0x27fffdb; E 28 0xb7fffdb; E 29 0x1dffffdb; E 29 0x1e3fffdb; E 29 0x1e7fffdb; E 29 0x1ebfffdb;
  E 29 0x1effffdb; X; X; X; X; X; X; X; X; X; X; X; X; X; X; X; X; X; X; X; X; X; X; X; X; X; X; X; X; X; X; X; X; X;
  X; X; X; X; X; X; X; X; X; X; X; X; X; X; X; X; X; X; X; X; X; X; X; X; X; X; X; X; X; X; X; X; X; X; X; X; X; X; X;
  X; X; X; X; X; X; X; X; X; X; X; X; X; X; X; X; X; X; X; X; X; X; X; X; X; X; X; X; X; X; X; X; X; X; X; X; X; X; X;
  X; X; X; X; X; X; X; X; X; X; X; X; X; X; X; X; X; X; X; X; X; X].
Definition hencs_164 : list henc := [
  X; X; X; X; X; X; X; X; X; X; X; X; X; X; X; X; X; X; X; X; X; X; X; X; X; X; X; X; X; X; X; X; E 28 0x53fffdc;
  E 32 0xfe3fffdc; E 32 0xfe7fffdc; X; X; E 28 0x57fffdc; E 30 0x3e3fffdc; X; E 32 0xfebfffdc; E 32 0xfeffffdc;
  E 30 0x3e7fffdc; X; E 30 0x3ebfffdc; E 28 0x5bfffdc; E 28 0x5ffffdc; E 28 0x63fffdc; E 27 0x3fffdc; E 27 0x7fffdc;
  E 27 0xbfffdc; E 28 0x67fffdc; E 28 0x6bfffdc; E 28 0x6ffffdc; E 28 0x73fffdc; E 28 0x77fffdc; E 28 0x7bfffdc;
  E 28 0x7ffffdc; E 29 0x173fffdc; E 30 0x3effffdc; X; E 28 0x83fffdc; X; E 32 0xff3fffdc; X; E 28 0x87fffdc;
  E 29 0x177fffdc; E 29 0x17bfffdc; E 29 0x17ffffdc; E 29 0x183fffdc; E 29 0x187fffdc; E 29 0x18bfffdc;
  E 29 0x18ffffdc; E 29 0x193fffdc; E 29 0x197fffdc; E 29 0x19bfffdc; E 29 0x19ffffdc; E 29 0x1a3fffdc;
  E 29 0x1a7fffdc; E 29 0x1abfffdc; E 29 0x1affffdc; E 29 0x1b3fffdc; E 29 0x1b7fffdc; E 29 0x1bbfffdc;
  E 29 0x1bffffdc; E 29 0x1c3fffdc; E 29 0x1c7fffdc; E 29 0x1cbfffdc; E 30 0x3f3fffdc; E 29 0x1cffffdc;
  E 30 0x3f7fffdc; X; X; X; X; E 28 0x8bfffdc; X; E 27 0xffffdc; E 28 0x8ffffdc; E 27 0x13fffdc; E 28 0x93fffdc;
  E 27 0x17fffdc; E 28 0x97fffdc; E 28 0x9bfffdc; E 28 0x9ffffdc; E 27 0x1bfffdc; E 29 0x1d3fffdc; E 29 0x1d7fffdc;
  E 28 0xa3fffdc; E 28 0xa7fffdc; E 28 0xabfffdc; E 27 0x1ffffdc; E 28 0xaffffdc; E 29 0x1dbfffdc; E 28 0xb3fffdc;
  E 27 0x23fffdc; E 27 0x27fffdc; E 28 0xb7fffdc; E 29 0x1dffffdc; E 29 0x1e3fffdc; E 29 0x1e7fffdc; E 29 0x1ebfffdc;
  E 29 0x1effffdc; X; X; X; X; X; X; X; X; X; X; X; X; X; X; X; X; X; X; X; X; X; X; X; X; X; X; X; X; X; X; X; X; X;
  X; X; X; X; X; X; X; X; X; X; X; X; X; X; X; X; X; X; X; X; X; X; X; X; X; X; X; X; X; X; X; X; X; X; X; X; X; X; X;
  X; X; X; X; X; X; X; X; X; X; X; X; X; X; X; X; X; X; X; X; X; X; X; X; X; X; X; X; X; X; X; X; X; X; X; X; X; X; X;
  X; X; X; X; X; X; X; X; X; X; X; X; X; X; X; X; X; X; X; X; X; X].
Definition hencs_165 : list henc := [
  X; X; X; X; X; X; X; X; X; X; X; X; X; X; X; X; X; X; X; X; X; X; X; X; X; X; X; X; X; X; X; X; E 29 0xa7fffe8; X;
  X; X; X; E 29 0xaffffe8; E 31 0x7c7fffe8; X; X; X; E 31 0x7cffffe8; X; E 31 0x7d7fffe8; E 29 0xb7fffe8;
  E 29 0xbffffe8; E 29 0xc7fffe8; E 28 0x7fffe8; E 28 0xffffe8; E 28 0x17fffe8; E 29 0xcffffe8; E 29 0xd7fffe8;
  E 29 0xdffffe8; E 29 0xe7fffe8; E 29 0xeffffe8; E 29 0xf7fffe8; E 29 0xfffffe8; E 30 0x2e7fffe8; E 31 0x7dffffe8; X;
  E 29 0x107fffe8; X; X; X; E 29 0x10ffffe8; E 30 0x2effffe8; E 30 0x2f7fffe8; E 30 0x2fffffe8; E 30 0x307fffe8;
  E 30 0x30ffffe8; E 30 0x317fffe8; E 30 0x31ffffe8; E 30 0x327fffe8; E 30 0x32ffffe8; E 30 0x337fffe8;
  E 30 0x33ffffe8; E 30 0x347fffe8; E 30 0x34ffffe8; E 30 0x357fffe8; E 30 0x35ffffe8; E 30 0x367fffe8;
  E 30 0x36ffffe8; E 30 0x377fffe8; E 30 0x37ffffe8; E 30 0x387fffe8; E 30 0x38ffffe8; E 30 0x397fffe8;
  E 31 0x7e7fffe8; E 30 0x39ffffe8; E 31 0x7effffe8; X; X; X; X; E 29 0x117fffe8; X; E 28 0x1ffffe8; E 29 0x11ffffe8;
  E 28 0x27fffe8; E 29 0x127fffe8; E 28 0x2ffffe8; E 29 0x12ffffe8; E 29 0x137fffe8; E 29 0x13ffffe8; E 28 0x37fffe8;
  E 30 0x3a7fffe8; E 30 0x3affffe8; E 29 0x147fffe8; E 29 0x14ffffe8; E 29 0x157fffe8; E 28 0x3ffffe8;
  E 29 0x15ffffe8; E 30 0x3b7fffe8; E 29 0x167fffe8; E 28 0x47fffe8; E 28 0x4ffffe8; E 29 0x16ffffe8; E 30 0x3bffffe8;
  E 30 0x3c7fffe8; E 30 0x3cffffe8; E 30 0x3d7fffe8; E 30 0x3dffffe8; X; X; X; X; X; X; X; X; X; X; X; X; X; X; X; X;
  X; X; X; X; X; X; X; X; X; X; X; X; X; X; X; X; X; X; X; X; X; X; X; X; X; X; X; X; X; X; X; X; X; X; X; X; X; X; X;
  X; X; X; X; X; X; X; X; X; X; X; X; X; X; X; X; X; X; X; X; X; X; X; X; X; X; X; X; X; X; X; X; X; X; X; X; X; X; X;
  X; X; X; X; X; X; X; X; X; X; X; X; X; X; X; X; X; X; X; X; X; X; X; X; X; X; X; X; X; X; X; X; X; X; X; X; X; X; X].
Definition hencs_166 : list henc := [
  X; X; X; X; X; X; X; X; X; X; X; X; X; X; X; X; X; X; X; X; X; X; X; X; X; X; X; X; X; X; X; X; E 29 0xa7fffe9; X;
  X; X; X; E 29 0xaffffe9; E 31 0x7c7fffe9; X; X; X; E 31 0x7cffffe9; X; E 31 0x7d7fffe9; E 29 0xb7fffe9;
  E 29 0xbffffe9; E 29 0xc7fffe9; E 28 0x7fffe9; E 28 0xffffe9; E 28 0x17fffe9; E 29 0xcffffe9; E 29 0xd7fffe9;
  E 29 0xdffffe9; E 29 0xe7fffe9; E 29 0xeffffe9; E 29 0xf7fffe9; E 29 0xfffffe9; E 30 0x2e7fffe9; E 31 0x7dffffe9; X;
  E 29 0x107fffe9; X; X; X; E 29 0x10ffffe9; E 30 0x2effffe9; E 30 0x2f7fffe9; E 30 0x2fffffe9; E 30 0x307fffe9;
  E 30 0x30ffffe9; E 30 0x317fffe9; E 30 0x31ffffe9; E 30 0x327fffe9; E 30 0x32ffffe9; E 30 0x337fffe9;
  E 30 0x33ffffe9; E 30 0x347fffe9; E 30 0x34ffffe9; E 30 0x357fffe9; E 30 0x35ffffe9; E 30 0x367fffe9;
  E 30 0x36ffffe9; E 30 0x377fffe9; E 30 0x37ffffe9; E 30 0x387fffe9; E 30 0x38ffffe9; E 30 0x397fffe9;
  E 31 0x7e7fffe9; E 30 0x39ffffe9; E 31 0x7effffe9; X; X; X; X; E 29 0x117fffe9; X; E 28 0x1ffffe9; E 29 0x11ffffe9;
  E 28 0x27fffe9; E 29 0x127fffe9; E 28 0x2ffffe9; E 29 0x12ffffe9; E 29 0x137fffe9; E 29 0x13ffffe9; E 28 0x37fffe9;
  E 30 0x3a7fffe9; E 30 0x3affffe9; E 29 0x147fffe9; E 29 0x14ffffe9; E 29 0x157fffe9; E 28 0x3ffffe9;
  E 29 0x15ffffe9; E 30 0x3b7fffe9; E 29 0x167fffe9; E 28 0x47fffe9; E 28 0x4ffffe9; E 29 0x16ffffe9; E 30 0x3bffffe9;
  E 30 0x3c7fffe9; E 30 0x3cffffe9; E 30 0x3d7fffe9; E 30 0x3dffffe9; X; X; X; X; X; X; X; X; X; X; X; X; X; X; X; X;
  X; X; X; X; X; X; X; X; X; X; X; X; X; X; X; X; X; X; X; X; X; X; X; X; X; X; X; X; X; X; X; X; X; X; X; X; X; X; X;
  X; X; X; X; X; X; X; X; X; X; X; X; X; X; X; X; X; X; X; X; X; X; X; X; X; X; X; X; X; X; X; X; X; X; X; X; X; X; X;
  X; X; X; X; X; X; X; X; X; X; X; X; X; X; X; X; X; X; X; X; X; X; X; X; X; X; X; X; X; X; X; X; X; X; X; X; X; X; X].
Definition hencs_167 : list henc := [
  X; X; X; X; X; X; X; X; X; X; X; X; X; X; X; X; X; X; X; X; X; X; X; X; X; X; X; X; X; X; X; X; E 27 0x29fffde;
  E 31 0x7f1fffde; E 31 0x7f3fffde; X; X; E 27 0x2bfffde; E 29 0x1f1fffde; E 32 0xff5fffde; E 31 0x7f5fffde;
  E 31 0x7f7fffde; E 29 0x1f3fffde; E 32 0xff7fffde; E 29 0x1f5fffde; E 27 0x2dfffde; E 27 0x2ffffde; E 27 0x31fffde;
  E 26 0x1fffde; E 26 0x3fffde; E 26 0x5fffde; E 27 0x33fffde; E 27 0x35fffde; E 27 0x37fffde; E 27 0x39fffde;
  E 27 0x3bfffde; E 27 0x3dfffde; E 27 0x3ffffde; E 28 0xb9fffde; E 29 0x1f7fffde; X; E 27 0x41fffde; X;
  E 31 0x7f9fffde; X; E 27 0x43fffde; E 28 0xbbfffde; E 28 0xbdfffde; E 28 0xbffffde; E 28 0xc1fffde; E 28 0xc3fffde;
  E 28 0xc5fffde; E 28 0xc7fffde; E 28 0xc9fffde; E 28 0xcbfffde; E 28 0xcdfffde; E 28 0xcffffde; E 28 0xd1fffde;
  E 28 0xd3fffde; E 28 0xd5fffde; E 28 0xd7fffde; E 28 0xd9fffde; E 28 0xdbfffde; E 28 0xddfffde; E 28 0xdffffde;
  E 28 0xe1fffde; E 28 0xe3fffde; E 28 0xe5fffde; E 29 0x1f9fffde; E 28 0xe7fffde; E 29 0x1fbfffde; X; X; X; X;
  E 27 0x45fffde; X; E 26 0x7fffde; E 27 0x47fffde; E 26 0x9fffde; E 27 0x49fffde; E 26 0xbfffde; E 27 0x4bfffde;
  E 27 0x4dfffde; E 27 0x4ffffde; E 26 0xdfffde; E 28 0xe9fffde; E 28 0xebfffde; E 27 0x51fffde; E 27 0x53fffde;
  E 27 0x55fffde; E 26 0xffffde; E 27 0x57fffde; E 28 0xedfffde; E 27 0x59fffde; E 26 0x11fffde; E 26 0x13fffde;
  E 27 0x5bfffde; E 28 0xeffffde; E 28 0xf1fffde; E 28 0xf3fffde; E 28 0xf5fffde; E 28 0xf7fffde; X; E 32 0xff9fffde;
  X; X; X; X; X; X; X; X; X; X; X; X; X; X; X; X; X; X; X; X; X; X; X; X; X; X; X; X; X; X; X; X; X; X; X; X; X; X; X;
  X; X; X; X; X; X; X; X; X; X; X; X; X; X; X; X; X; X; X; X; X; X; X; X; X; X; X; X; X; X; X; X; X; X; X; X; X; X; X;
  X; X; X; X; X; X; X; X; X; X; X; X; X; X; X; X; X; X; X; X; X; X; X; X; X; X; X; X; X; X; X; X; X; X; X; X; X; X; X;
  X; X; X; X; X; X; X; X; X; X; X; X; X; X].
Definition hencs_168 : list henc := [
  X; X; X; X; X; X; X; X; X; X; X; X; X; X; X; X; X; X; X; X; X; X; X; X; X; X; X; X; X; X; X; X; E 29 0xa7fffea; X;
  X; X; X; E 29 0xaffffea; E 31 0x7c7fffea; X; X; X; E 31 0x7cffffea; X; E 31 0x7d7fffea; E 29 0xb7fffea;
  E 29 0xbffffea; E 29 0xc7fffea; E 28 0x7fffea; E 28 0xffffea; E 28 0x17fffea; E 29 0xcffffea; E 29 0xd7fffea;
  E 29 0xdffffea; E 29 0xe7fffea; E 29 0xeffffea; E 29 0xf7fffea; E 29 0xfffffea; E 30 0x2e7fffea; E 31 0x7dffffea; X;
  E 29 0x107fffea; X; X; X; E 29 0x10ffffea; E 30 0x2effffea; E 30 0x2f7fffea; E 30 0x2fffffea; E 30 0x307fffea;
  E 30 0x30ffffea; E 30 0x317fffea; E 30 0x31ffffea; E 30 0x327fffea; E 30 0x32ffffea; E 30 0x337fffea;
  E 30 0x33ffffea; E 30 0x347fffea; E 30 0x34ffffea; E 30 0x357fffea; E 30 0x35ffffea; E 30 0x367fffea;
  E 30 0x36ffffea; E 30 0x377fffea; E 30 0x37ffffea; E 30 0x387fffea; E 30 0x38ffffea; E 30 0x397fffea;
  E 31 0x7e7fffea; E 30 0x39ffffea; E 31 0x7effffea; X; X; X; X; E 29 0x117fffea; X; E 28 0x1ffffea; E 29 0x11ffffea;
  E 28 0x27fffea; E 29 0x127fffea; E 28 0x2ffffea; E 29 0x12ffffea; E 29 0x137fffea; E 29 0x13ffffea; E 28 0x37fffea;
  E 30 0x3a7fffea; E 30 0x3affffea; E 29 0x147fffea; E 29 0x14ffffea; E 29 0x157fffea; E 28 0x3ffffea;
  E 29 0x15ffffea; E 30 0x3b7fffea; E 29 0x167fffea; E 28 0x47fffea; E 28 0x4ffffea; E 29 0x16ffffea; E 30 0x3bffffea;
  E 30 0x3c7fffea; E 30 0x3cffffea; E 30 0x3d7fffea; E 30 0x3dffffea; X; X; X; X; X; X; X; X; X; X; X; X; X; X; X; X;
  X; X; X; X; X; X; X; X; X; X; X; X; X; X; X; X; X; X; X; X; X; X; X; X; X; X; X; X; X; X; X; X; X; X; X; X; X; X; X;
  X; X; X; X; X; X; X; X; X; X; X; X; X; X; X; X; X; X; X; X; X; X; X; X; X; X; X; X; X; X; X; X; X; X; X; X; X; X; X;
  X; X; X; X; X; X; X; X; X; X; X; X; X; X; X; X; X; X; X; X; X; X; X; X; X; X; X; X; X; X; X; X; X; X; X; X; X; X; X].
Definition hencs_169 : list henc := [
  X; X; X; X; X; X; X; X; X; X; X; X; X; X; X; X; X; X; X; X; X; X; X; X; X; X; X; X; X; X; X; X; E 28 0x53fffdd;
  E 32 0xfe3fffdd; E 32 0xfe7fffdd; X; X; E 28 0x57fffdd; E 30 0x3e3fffdd; X; E 32 0xfebfffdd; E 32 0xfeffffdd;
  E 30 0x3e7fffdd; X; E 30 0x3ebfffdd; E 28 0x5bfffdd; E 28 0x5ffffdd; E 28 0x63fffdd; E 27 0x3fffdd; E 27 0x7fffdd;
  E 27 0xbfffdd; E 28 0x67fffdd; E 28 0x6bfffdd; E 28 0x6ffffdd; E 28 0x73fffdd; E 28 0x77fffdd; E 28 0x7bfffdd;
  E 28 0x7ffffdd; E 29 0x173fffdd; E 30 0x3effffdd; X; E 28 0x83fffdd; X; E 32 0xff3fffdd; X; E 28 0x87fffdd;
  E 29 0x177fffdd; E 29 0x17bfffdd; E 29 0x17ffffdd; E 29 0x183fffdd; E 29 0x187fffdd; E 29 0x18bfffdd;
  E 29 0x18ffffdd; E 29 0x193fffdd; E 29 0x197fffdd; E 29 0x19bfffdd; E 29 0x19ffffdd; E 29 0x1a3fffdd;
  E 29 0x1a7fffdd; E 29 0x1abfffdd; E 29 0x1affffdd; E 29 0x1b3fffdd; E 29 0x1b7fffdd; E 29 0x1bbfffdd;
  E 29 0x1bffffdd; E 29 0x1c3fffdd; E 29 0x1c7fffdd; E 29 0x1cbfffdd; E 30 0x3f3fffdd; E 29 0x1cffffdd;
  E 30 0x3f7fffdd; X; X; X; X; E 28 0x8bfffdd; X; E 27 0xffffdd; E 28 0x8ffffdd; E 27 0x13fffdd; E 28 0x93fffdd;
  E 27 0x17fffdd; E 28 0x97fffdd; E 28 0x9bfffdd; E 28 0x9ffffdd; E 27 0x1bfffdd; E 29 0x1d3fffdd; E 29 0x1d7fffdd;
  E 28 0xa3fffdd; E 28 0xa7fffdd; E 28 0xabfffdd; E 27 0x1ffffdd; E 28 0xaffffdd; E 29 0x1dbfffdd; E 28 0xb3fffdd;
  E 27 0x23fffdd; E 27 0x27fffdd; E 28 0xb7fffdd; E 29 0x1dffffdd; E 29 0x1e3fffdd; E 29 0x1e7fffdd; E 29 0x1ebfffdd;
  E 29 0x1effffdd; X; X; X; X; X; X; X; X; X; X; X; X; X; X; X; X; X; X; X; X; X; X; X; X; X; X; X; X; X; X; X; X; X;
  X; X; X; X; X; X; X; X; X; X; X; X; X; X; X; X; X; X; X; X; X; X; X; X; X; X; X; X; X; X; X; X; X; X; X; X; X; X; X;
  X; X; X; X; X; X; X; X; X; X; X; X; X; X; X; X; X; X; X; X; X; X; X; X; X; X; X; X; X; X; X; X; X; X; X; X; X; X; X;
  X; X; X; X; X; X; X; X; X; X; X; X; X; X; X; X; X; X; X; X; X; X].
Definition hencs_170 : list henc := [
  X; X; X; X; X; X; X; X; X; X; X; X; X; X; X; X; X; X; X; X; X; X; X; X; X; X; X; X; X; X; X; X; E 28 0x53fffde;
  E 32 0xfe3fffde; E 32 0xfe7fffde; X; X; E 28 0x57fffde; E 30 0x3e3fffde; X; E 32 0xfebfffde; E 32 0xfeffffde;
  E 30 0x3e7fffde; X; E 30 0x3ebfffde; E 28 0x5bfffde; E 28 0x5ffffde; E 28 0x63fffde; E 27 0x3fffde; E 27 0x7fffde;
  E 27 0xbfffde; E 28 0x67fffde; E 28 0x6bfffde; E 28 0x6ffffde; E 28 0x73fffde; E 28 0x77fffde; E 28 0x7bfffde;
  E 28 0x7ffffde; E 29 0x173fffde; E 30 0x3effffde; X; E 28 0x83fffde; X; E 32 0xff3fffde; X; E 28 0x87fffde;
  E 29 0x177fffde; E 29 0x17bfffde; E 29 0x17ffffde; E 29 0x183fffde; E 29 0x187fffde; E 29 0x18bfffde;
  E 29 0x18ffffde; E 29 0x193fffde; E 29 0x197fffde; E 29 0x19bfffde; E 29 0x19ffffde; E 29 0x1a3fffde;
  E 29 0x1a7fffde; E 29 0x1abfffde; E 29 0x1affffde; E 29 0x1b3fffde; E 29 0x1b7fffde; E 29 0x1bbfffde;
  E 29 0x1bffffde; E 29 0x1c3fffde; E 29 0x1c7fffde; E 29 0x1cbfffde; E 30 0x3f3fffde; E 29 0x1cffffde;
  E 30 0x3f7fffde; X; X; X; X; E 28 0x8bfffde; X; E 27 0xffffde; E 28 0x8ffffde; E 27 0x13fffde; E 28 0x93fffde;
  E 27 0x17fffde; E 28 0x97fffde; E 28 0x9bfffde; E 28 0x9ffffde; E 27 0x1bfffde; E 29 0x1d3fffde; E 29 0x1d7fffde;
  E 28 0xa3fffde; E 28 0xa7fffde; E 28 0xabfffde; E 27 0x1ffffde; E 28 0xaffffde; E 29 0x1dbfffde; E 28 0xb3fffde;
  E 27 0x23fffde; E 27 0x27fffde; E 28 0xb7fffde; E 29 0x1dffffde; E 29 0x1e3fffde; E 29 0x1e7fffde; E 29 0x1ebfffde;
  E 29 0x1effffde; X; X; X; X; X; X; X; X; X; X; X; X; X; X; X; X; X; X; X; X; X; X; X; X; X; X; X; X; X; X; X; X; X;
  X; X; X; X; X; X; X; X; X; X; X; X; X; X; X; X; X; X; X; X; X; X; X; X; X; X; X; X; X; X; X; X; X; X; X; X; X; X; X;
  X; X; X; X; X; X; X; X; X; X; X; X; X; X; X; X; X; X; X; X; X; X; X; X; X; X; X; X; X; X; X; X; X; X; X; X; X; X; X;
  X; X; X; X; X; X; X; X; X; X; X; X; X; X; X; X; X; X; X; X; X; X].
Definition hencs_171 : list henc := [
  X; X; X; X; X; X; X; X; X; X; X; X; X; X; X; X; X; X; X; X; X; X; X; X; X; X; X; X; X; X; X; X; E 30 0x14fffff0; X;
  X; X; X; E 30 0x15fffff0; E 32 0xf8fffff0; X; X; X; E 32 0xf9fffff0; X; E 32 0xfafffff0; E 30 0x16fffff0;
  E 30 0x17fffff0; E 30 0x18fffff0; E 29 0xfffff0; E 29 0x1fffff0; E 29 0x2fffff0; E 30 0x19fffff0; E 30 0x1afffff0;
  E 30 0x1bfffff0; E 30 0x1cfffff0; E 30 0x1dfffff0; E 30 0x1efffff0; E 30 0x1ffffff0; E 31 0x5cfffff0;
  E 32 0xfbfffff0; X; E 30 0x20fffff0; X; X; X; E 30 0x21fffff0; E 31 0x5dfffff0; E 31 0x5efffff0; E 31 0x5ffffff0;
  E 31 0x60fffff0; E 31 0x61fffff0; E 31 0x62fffff0; E 31 0x63fffff0; E 31 0x64fffff0; E 31 0x65fffff0;
  E 31 0x66fffff0; E 31 0x67fffff0; E 31 0x68fffff0; E 31 0x69fffff0; E 31 0x6afffff0; E 31 0x6bfffff0;
  E 31 0x6cfffff0; E 31 0x6dfffff0; E 31 0x6efffff0; E 31 0x6ffffff0; E 31 0x70fffff0; E 31 0x71fffff0;
  E 31 0x72fffff0; E 32 0xfcfffff0; E 31 0x73fffff0; E 32 0xfdfffff0; X; X; X; X; E 30 0x22fffff0; X; E 29 0x3fffff0;
  E 30 0x23fffff0; E 29 0x4fffff0; E 30 0x24fffff0; E 29 0x5fffff0; E 30 0x25fffff0; E 30 0x26fffff0; E 30 0x27fffff0;
  E 29 0x6fffff0; E 31 0x74fffff0; E 31 0x75fffff0; E 30 0x28fffff0; E 30 0x29fffff0; E 30 0x2afffff0; E 29 0x7fffff0;
  E 30 0x2bfffff0; E 31 0x76fffff0; E 30 0x2cfffff0; E 29 0x8fffff0; E 29 0x9fffff0; E 30 0x2dfffff0; E 31 0x77fffff0;
  E 31 0x78fffff0; E 31 0x79fffff0; E 31 0x7afffff0; E 31 0x7bfffff0; X; X; X; X; X; X; X; X; X; X; X; X; X; X; X; X;
  X; X; X; X; X; X; X; X; X; X; X; X; X; X; X; X; X; X; X; X; X; X; X; X; X; X; X; X; X; X; X; X; X; X; X; X; X; X; X;
  X; X; X; X; X; X; X; X; X; X; X; X; X; X; X; X; X; X; X; X; X; X; X; X; X; X; X; X; X; X; X; X; X; X; X; X; X; X; X;
  X; X; X; X; X; X; X; X; X; X; X; X; X; X; X; X; X; X; X; X; X; X; X; X; X; X; X; X; X; X; X; X; X; X; X; X; X; X; X].
Definition hencs_172 : list henc := [
  X; X; X; X; X; X; X; X; X; X; X; X; X; X; X; X; X; X; X; X; X; X; X; X; X; X; X; X; X; X; X; X; E 27 0x29fffdf;
  E 31 0x7f1fffdf; E 31 0x7f3fffdf; X; X; E 27 0x2bfffdf; E 29 0x1f1fffdf; E 32 0xff5fffdf; E 31 0x7f5fffdf;
  E 31 0x7f7fffdf; E 29 0x1f3fffdf; E 32 0xff7fffdf; E 29 0x1f5fffdf; E 27 0x2dfffdf; E 27 0x2ffffdf; E 27 0x31fffdf;
  E 26 0x1fffdf; E 26 0x3fffdf; E 26 0x5fffdf; E 27 0x33fffdf; E 27 0x35fffdf; E 27 0x37fffdf; E 27 0x39fffdf;
  E 27 0x3bfffdf; E 27 0x3dfffdf; E 27 0x3ffffdf; E 28 0xb9fffdf; E 29 0x1f7fffdf; X; E 27 0x41fffdf; X;
  E 31 0x7f9fffdf; X; E 27 0x43fffdf; E 28 0xbbfffdf; E 28 0xbdfffdf; E 28 0xbffffdf; E 28 0xc1fffdf; E 28 0xc3fffdf;
  E 28 0xc5fffdf; E 28 0xc7fffdf; E 28 0xc9fffdf; E 28 0xcbfffdf; E 28 0xcdfffdf; E 28 0xcffffdf; E 28 0xd1fffdf;
  E 28 0xd3fffdf; E 28 0xd5fffdf; E 28 0xd7fffdf; E 28 0xd9fffdf; E 28 0xdbfffdf; E 28 0xddfffdf; E 28 0xdffffdf;
  E 28 0xe1fffdf; E 28 0xe3fffdf; E 28 0xe5fffdf; E 29 0x1f9fffdf; E 28 0xe7fffdf; E 29 0x1fbfffdf; X; X; X; X;
  E 27 0x45fffdf; X; E 26 0x7fffdf; E 27 0x47fffdf; E 26 0x9fffdf; E 27 0x49fffdf; E 26 0xbfffdf; E 27 0x4bfffdf;
  E 27 0x4dfffdf; E 27 0x4ffffdf; E 26 0xdfffdf; E 28 0xe9fffdf; E 28 0xebfffdf; E 27 0x51fffdf; E 27 0x53fffdf;
  E 27 0x55fffdf; E 26 0xffffdf; E 27 0x57fffdf; E 28 0xedfffdf; E 27 0x59fffdf; E 26 0x11fffdf; E 26 0x13fffdf;
  E 27 0x5bfffdf; E 28 0xeffffdf; E 28 0xf1fffdf; E 28 0xf3fffdf; E 28 0xf5fffdf; E 28 0xf7fffdf; X; E 32 0xff9fffdf;
  X; X; X; X; X; X; X; X; X; X; X; X; X; X; X; X; X; X; X; X; X; X; X; X; X; X; X; X; X; X; X; X; X; X; X; X; X; X; X;
  X; X; X; X; X; X; X; X; X; X; X; X; X; X; X; X; X; X; X; X; X; X; X; X; X; X; X; X; X; X; X; X; X; X; X; X; X; X; X;
  X; X; X; X; X; X; X; X; X; X; X; X; X; X; X; X; X; X; X; X; X; X; X; X; X; X; X; X; X; X; X; X; X; X; X; X; X; X; X;
  X; X; X; X; X; X; X; X; X; X; X; X; X; X].
Definition hencs_173 : list henc := [
  X; X; X; X; X; X; X; X; X; X; X; X; X; X; X; X; X; X; X; X; X; X; X; X; X; X; X; X; X; X; X; X; E 28 0x53fffdf;
  E 32 0xfe3fffdf; E 32 0xfe7fffdf; X; X; E 28 0x57fffdf; E 30 0x3e3fffdf; X; E 32 0xfebfffdf; E 32 0xfeffffdf;
  E 30 0x3e7fffdf; X; E 30 0x3ebfffdf; E 28 0x5bfffdf; E 28 0x5ffffdf; E 28 0x63fffdf; E 27 0x3fffdf; E 27 0x7fffdf;
  E 27 0xbfffdf; E 28 0x67fffdf; E 28 0x6bfffdf; E 28 0x6ffffdf; E 28 0x73fffdf; E 28 0x77fffdf; E 28 0x7bfffdf;
  E 28 0x7ffffdf; E 29 0x173fffdf; E 30 0x3effffdf; X; E 28 0x83fffdf; X; E 32 0xff3fffdf; X; E 28 0x87fffdf;
  E 29 0x177fffdf; E 29 0x17bfffdf; E 29 0x17ffffdf; E 29 0x183fffdf; E 29 0x187fffdf; E 29 0x18bfffdf;
  E 29 0x18ffffdf; E 29 0x193fffdf; E 29 0x197fffdf; E 29 0x19bfffdf; E 29 0x19ffffdf; E 29 0x1a3fffdf;
  E 29 0x1a7fffdf; E 29 0x1abfffdf; E 29 0x1affffdf; E 29 0x1b3fffdf; E 29 0x1b7fffdf; E 29 0x1bbfffdf;
  E 29 0x1bffffdf; E 29 0x1c3fffdf; E 29 0x1c7fffdf; E 29 0x1cbfffdf; E 30 0x3f3fffdf; E 29 0x1cffffdf;
  E 30 0x3f7fffdf; X; X; X; X; E 28 0x8bfffdf; X; E 27 0xffffdf; E 28 0x8ffffdf; E 27 0x13fffdf; E 28 0x93fffdf;
  E 27 0x17fffdf; E 28 0x97fffdf; E 28 0x9bfffdf; E 28 0x9ffffdf; E 27 0x1bfffdf; E 29 0x1d3fffdf; E 29 0x1d7fffdf;
  E 28 0xa3fffdf; E 28 0xa7fffdf; E 28 0xabfffdf; E 27 0x1ffffdf; E 28 0xaffffdf; E 29 0x1dbfffdf; E 28 0xb3fffdf;
  E 27 0x23fffdf; E 27 0x27fffdf; E 28 0xb7fffdf; E 29 0x1dffffdf; E 29 0x1e3fffdf; E 29 0x1e7fffdf; E 29 0x1ebfffdf;
  E 29 0x1effffdf; X; X; X; X; X; X; X; X; X; X; X; X; X; X; X; X; X; X; X; X; X; X; X; X; X; X; X; X; X; X; X; X; X;
  X; X; X; X; X; X; X; X; X; X; X; X; X; X; X; X; X; X; X; X; X; X; X; X; X; X; X; X; X; X; X; X; X; X; X; X; X; X; X;
  X; X; X; X; X; X; X; X; X; X; X; X; X; X; X; X; X; X; X; X; X; X; X; X; X; X; X; X; X; X; X; X; X; X; X; X; X; X; X;
  X; X; X; X; X; X; X; X; X; X; X; X; X; X; X; X; X; X; X; X; X; X].
Definition hencs_174 : list henc := [
  X; X; X; X; X; X; X; X; X; X; X; X; X; X; X; X; X; X; X; X; X; X; X; X; X; X; X; X; X; X; X; X; E 29 0xa7fffeb; X;
  X; X; X; E 29 0xaffffeb; E 31 0x7c7fffeb; X; X; X; E 31 0x7cffffeb; X; E 31 0x7d7fffeb; E 29 0xb7fffeb;
  E 29 0xbffffeb; E 29 0xc7fffeb; E 28 0x7fffeb; E 28 0xffffeb; E 28 0x17fffeb; E 29 0xcffffeb; E 29 0xd7fffeb;
  E 29 0xdffffeb; E 29 0xe7fffeb; E 29 0xeffffeb; E 29 0xf7fffeb; E 29 0xfffffeb; E 30 0x2e7fffeb; E 31 0x7dffffeb; X;
  E 29 0x107fffeb; X; X; X; E 29 0x10ffffeb; E 30 0x2effffeb; E 30 0x2f7fffeb; E 30 0x2fffffeb; E 30 0x307fffeb;
  E 30 0x30ffffeb; E 30 0x317fffeb; E 30 0x31ffffeb; E 30 0x327fffeb; E 30 0x32ffffeb; E 30 0x337fffeb;
  E 30 0x33ffffeb; E 30 0x347fffeb; E 30 0x34ffffeb; E 30 0x357fffeb; E 30 0x35ffffeb; E 30 0x367fffeb;
  E 30 0x36ffffeb; E 30 0x377fffeb; E 30 0x37ffffeb; E 30 0x387fffeb; E 30 0x38ffffeb; E 30 0x397fffeb;
  E 31 0x7e7fffeb; E 30 0x39ffffeb; E 31 0x7effffeb; X; X; X; X; E 29 0x117fffeb; X; E 28 0x1ffffeb; E 29 0x11ffffeb;
  E 28 0x27fffeb; E 29 0x127fffeb; E 28 0x2ffffeb; E 29 0x12ffffeb; E 29 0x137fffeb; E 29 0x13ffffeb; E 28 0x37fffeb;
  E 30 0x3a7fffeb; E 30 0x3affffeb; E 29 0x147fffeb; E 29 0x14ffffeb; E 29 0x157fffeb; E 28 0x3ffffeb;
  E 29 0x15ffffeb; E 30 0x3b7fffeb; E 29 0x167fffeb; E 28 0x47fffeb; E 28 0x4ffffeb; E 29 0x16ffffeb; E 30 0x3bffffeb;
  E 30 0x3c7fffeb; E 30 0x3cffffeb; E 30 0x3d7fffeb; E 30 0x3dffffeb; X; X; X; X; X; X; X; X; X; X; X; X; X; X; X; X;
  X; X; X; X; X; X; X; X; X; X; X; X; X; X; X; X; X; X; X; X; X; X; X; X; X; X; X; X; X; X; X; X; X; X; X; X; X; X; X;
  X; X; X; X; X; X; X; X; X; X; X; X; X; X; X; X; X; X; X; X; X; X; X; X; X; X; X; X; X; X; X; X; X; X; X; X; X; X; X;
  X; X; X; X; X; X; X; X; X; X; X; X; X; X; X; X; X; X; X; X; X; X; X; X; X; X; X; X; X; X; X; X; X; X; X; X; X; X; X].
Definition hencs_175 : list henc := [
  X; X; X; X; X; X; X; X; X; X; X; X; X; X; X; X; X; X; X; X; X; X; X; X; X; X; X; X; X; X; X; X; E 29 0xa7fffec; X;
  X; X; X; E 29 0xaffffec; E 31 0x7c7fffec; X; X; X; E 31 0x7cffffec; X; E 31 0x7d7fffec; E 29 0xb7fffec;
  E 29 0xbffffec; E 29 0xc7fffec; E 28 0x7fffec; E 28 0xffffec; E 28 0x17fffec; E 29 0xcffffec; E 29 0xd7fffec;
  E 29 0xdffffec; E 29 0xe7fffec; E 29 0xeffffec; E 29 0xf7fffec; E 29 0xfffffec; E 30 0x2e7fffec; E 31 0x7dffffec; X;
  E 29 0x107fffec; X; X; X; E 29 0x10ffffec; E 30 0x2effffec; E 30 0x2f7fffec; E 30 0x2fffffec; E 30 0x307fffec;
  E 30 0x30ffffec; E 30 0x317fffec; E 30 0x31ffffec; E 30 0x327fffec; E 30 0x32ffffec; E 30 0x337fffec;
  E 30 0x33ffffec; E 30 0x347fffec; E 30 0x34ffffec; E 30 0x357fffec; E 30 0x35ffffec; E 30 0x367fffec;
  E 30 0x36ffffec; E 30 0x377fffec; E 30 0x37ffffec; E 30 0x387fffec; E 30 0x38ffffec; E 30 0x397fffec;
  E 31 0x7e7fffec; E 30 0x39ffffec; E 31 0x7effffec; X; X; X; X; E 29 0x117fffec; X; E 28 0x1ffffec; E 29 0x11ffffec;
  E 28 0x27fffec; E 29 0x127fffec; E 28 0x2ffffec; E 29 0x12ffffec; E 29 0x137fffec; E 29 0x13ffffec; E 28 0x37fffec;
  E 30 0x3a7fffec; E 30 0x3affffec; E 29 0x147fffec; E 29 0x14ffffec; E 29 0x157fffec; E 28 0x3ffffec;
  E 29 0x15ffffec; E 30 0x3b7fffec; E 29 0x167fffec; E 28 0x47fffec; E 28 0x4ffffec; E 29 0x16ffffec; E 30 0x3bffffec;
  E 30 0x3c7fffec; E 30 0x3cffffec; E 30 0x3d7fffec; E 30 0x3dffffec; X; X; X; X; X; X; X; X; X; X; X; X; X; X; X; X;
  X; X; X; X; X; X; X; X; X; X; X; X; X; X; X; X; X; X; X; X; X; X; X; X; X; X; X; X; X; X; X; X; X; X; X; X; X; X; X;
  X; X; X; X; X; X; X; X; X; X; X; X; X; X; X; X; X; X; X; X; X; X; X; X; X; X; X; X; X; X; X; X; X; X; X; X; X; X; X;
  X; X; X; X; X; X; X; X; X; X; X; X; X; X; X; X; X; X; X; X; X; X; X; X; X; X; X; X; X; X; X; X; X; X; X; X; X; X; X].
Definition hencs_176 : list henc := [
  X; X; X; X; X; X; X; X; X; X; X; X; X; X; X; X; X; X; X; X; X; X; X; X; X; X; X; X; X; X; X; X; E 27 0x29fffe0;
  E 31 0x7f1fffe0; E 31 0x7f3fffe0; X; X; E 27 0x2bfffe0; E 29 0x1f1fffe0; E 32 0xff5fffe0; E 31 0x7f5fffe0;
  E 31 0x7f7fffe0; E 29 0x1f3fffe0; E 32 0xff7fffe0; E 29 0x1f5fffe0; E 27 0x2dfffe0; E 27 0x2ffffe0; E 27 0x31fffe0;
  E 26 0x1fffe0; E 26 0x3fffe0; E 26 0x5fffe0; E 27 0x33fffe0; E 27 0x35fffe0; E 27 0x37fffe0; E 27 0x39fffe0;
  E 27 0x3bfffe0; E 27 0x3dfffe0; E 27 0x3ffffe0; E 28 0xb9fffe0; E 29 0x1f7fffe0; X; E 27 0x41fffe0; X;
  E 31 0x7f9fffe0; X; E 27 0x43fffe0; E 28 0xbbfffe0; E 28 0xbdfffe0; E 28 0xbffffe0; E 28 0xc1fffe0; E 28 0xc3fffe0;
  E 28 0xc5fffe0; E 28 0xc7fffe0; E 28 0xc9fffe0; E 28 0xcbfffe0; E 28 0xcdfffe0; E 28 0xcffffe0; E 28 0xd1fffe0;
  E 28 0xd3fffe0; E 28 0xd5fffe0; E 28 0xd7fffe0; E 28 0xd9fffe0; E 28 0xdbfffe0; E 28 0xddfffe0; E 28 0xdffffe0;
  E 28 0xe1fffe0; E 28 0xe3fffe0; E 28 0xe5fffe0; E 29 0x1f9fffe0; E 28 0xe7fffe0; E 29 0x1fbfffe0; X; X; X; X;
  E 27 0x45fffe0; X; E 26 0x7fffe0; E 27 0x47fffe0; E 26 0x9fffe0; E 27 0x49fffe0; E 26 0xbfffe0; E 27 0x4bfffe0;
  E 27 0x4dfffe0; E 27 0x4ffffe0; E 26 0xdfffe0; E 28 0xe9fffe0; E 28 0xebfffe0; E 27 0x51fffe0; E 27 0x53fffe0;
  E 27 0x55fffe0; E 26 0xffffe0; E 27 0x57fffe0; E 28 0xedfffe0; E 27 0x59fffe0; E 26 0x11fffe0; E 26 0x13fffe0;
  E 27 0x5bfffe0; E 28 0xeffffe0; E 28 0xf1fffe0; E 28 0xf3fffe0; E 28 0xf5fffe0; E 28 0xf7fffe0; X; E 32 0xff9fffe0;
  X; X; X; X; X; X; X; X; X; X; X; X; X; X; X; X; X; X; X; X; X; X; X; X; X; X; X; X; X; X; X; X; X; X; X; X; X; X; X;
  X; X; X; X; X; X; X; X; X; X; X; X; X; X; X; X; X; X; X; X; X; X; X; X; X; X; X; X; X; X; X; X; X; X; X; X; X; X; X;
  X; X; X; X; X; X; X; X; X; X; X; X; X; X; X; X; X; X; X; X; X; X; X; X; X; X; X; X; X; X; X; X; X; X; X; X; X; X; X;
  X; X; X; X; X; X; X; X; X; X; X; X; X; X].
Definition hencs_177 : list henc := [
  X; X; X; X; X; X; X; X; X; X; X; X; X; X; X; X; X; X; X; X; X; X; X; X; X; X; X; X; X; X; X; X; E 27 0x29fffe1;
  E 31 0x7f1fffe1; E 31 0x7f3fffe1; X; X; E 27 0x2bfffe1; E 29 0x1f1fffe1; E 32 0xff5fffe1; E 31 0x7f5fffe1;
  E 31 0x7f7fffe1; E 29 0x1f3fffe1; E 32 0xff7fffe1; E 29 0x1f5fffe1; E 27 0x2dfffe1; E 27 0x2ffffe1; E 27 0x31fffe1;
  E 26 0x1fffe1; E 26 0x3fffe1; E 26 0x5fffe1; E 27 0x33fffe1; E 27 0x35fffe1; E 27 0x37fffe1; E 27 0x39fffe1;
  E 27 0x3bfffe1; E 27 0x3dfffe1; E 27 0x3ffffe1; E 28 0xb9fffe1; E 29 0x1f7fffe1; X; E 27 0x41fffe1; X;
  E 31 0x7f9fffe1; X; E 27 0x43fffe1; E 28 0xbbfffe1; E 28 0xbdfffe1; E 28 0xbffffe1; E 28 0xc1fffe1; E 28 0xc3fffe1;
  E 28 0xc5fffe1; E 28 0xc7fffe1; E 28 0xc9fffe1; E 28 0xcbfffe1; E 28 0xcdfffe1; E 28 0xcffffe1; E 28 0xd1fffe1;
  E 28 0xd3fffe1; E 28 0xd5fffe1; E 28 0xd7fffe1; E 28 0xd9fffe1; E 28 0xdbfffe1; E 28 0xddfffe1; E 28 0xdffffe1;
  E 28 0xe1fffe1; E 28 0xe3fffe1; E 28 0xe5fffe1; E 29 0x1f9fffe1; E 28 0xe7fffe1; E 29 0x1fbfffe1; X; X; X; X;
  E 27 0x45fffe1; X; E 26 0x7fffe1; E 27 0x47fffe1; E 26 0x9fffe1; E 27 0x49fffe1; E 26 0xbfffe1; E 27 0x4bfffe1;
  E 27 0x4dfffe1; E 27 0x4ffffe1; E 26 0xdfffe1; E 28 0xe9fffe1; E 28 0xebfffe1; E 27 0x51fffe1; E 27 0x53fffe1;
  E 27 0x55fffe1; E 26 0xffffe1; E 27 0x57fffe1; E 28 0xedfffe1; E 27 0x59fffe1; E 26 0x11fffe1; E 26 0x13fffe1;
  E 27 0x5bfffe1; E 28 0xeffffe1; E 28 0xf1fffe1; E 28 0xf3fffe1; E 28 0xf5fffe1; E 28 0xf7fffe1; X; E 32 0xff9fffe1;
  X; X; X; X; X; X; X; X; X; X; X; X; X; X; X; X; X; X; X; X; X; X; X; X; X; X; X; X; X; X; X; X; X; X; X; X; X; X; X;
  X; X; X; X; X; X; X; X; X; X; X; X; X; X; X; X; X; X; X; X; X; X; X; X; X; X; X; X; X; X; X; X; X; X; X; X; X; X; X;
  X; X; X; X; X; X; X; X; X; X; X; X; X; X; X; X; X; X; X; X; X; X; X; X; X; X; X; X; X; X; X; X; X; X; X; X; X; X; X;
  X; X; X; X; X; X; X; X; X; X; X; X; X; X].
Definition hencs_178 : list henc := [
  X; X; X; X; X; X; X; X; X; X; X; X; X; X; X; X; X; X; X; X; X; X; X; X; X; X; X; X; X; X; X; X; E 28 0x53fffe0;
  E 32 0xfe3fffe0; E 32 0xfe7fffe0; X; X; E 28 0x57fffe0; E 30 0x3e3fffe0; X; E 32 0xfebfffe0; E 32 0xfeffffe0;
  E 30 0x3e7fffe0; X; E 30 0x3ebfffe0; E 28 0x5bfffe0; E 28 0x5ffffe0; E 28 0x63fffe0; E 27 0x3fffe0; E 27 0x7fffe0;
  E 27 0xbfffe0; E 28 0x67fffe0; E 28 0x6bfffe0; E 28 0x6ffffe0; E 28 0x73fffe0; E 28 0x77fffe0; E 28 0x7bfffe0;
  E 28 0x7ffffe0; E 29 0x173fffe0; E 30 0x3effffe0; X; E 28 0x83fffe0; X; E 32 0xff3fffe0; X; E 28 0x87fffe0;
  E 29 0x177fffe0; E 29 0x17bfffe0; E 29 0x17ffffe0; E 29 0x183fffe0; E 29 0x187fffe0; E 29 0x18bfffe0;
  E 29 0x18ffffe0; E 29 0x193fffe0; E 29 0x197fffe0; E 29 0x19bfffe0; E 29 0x19ffffe0; E 29 0x1a3fffe0;
  E 29 0x1a7fffe0; E 29 0x1abfffe0; E 29 0x1affffe0; E 29 0x1b3fffe0; E 29 0x1b7fffe0; E 29 0x1bbfffe0;
  E 29 0x1bffffe0; E 29 0x1c3fffe0; E 29 0x1c7fffe0; E 29 0x1cbfffe0; E 30 0x3f3fffe0; E 29 0x1cffffe0;
  E 30 0x3f7fffe0; X; X; X; X; E 28 0x8bfffe0; X; E 27 0xffffe0; E 28 0x8ffffe0; E 27 0x13fffe0; E 28 0x93fffe0;
  E 27 0x17fffe0; E 28 0x97fffe0; E 28 0x9bfffe0; E 28 0x9ffffe0; E 27 0x1bfffe0; E 29 0x1d3fffe0; E 29 0x1d7fffe0;
  E 28 0xa3fffe0; E 28 0xa7fffe0; E 28 0xabfffe0; E 27 0x1ffffe0; E 28 0xaffffe0; E 29 0x1dbfffe0; E 28 0xb3fffe0;
  E 27 0x23fffe0; E 27 0x27fffe0; E 28 0xb7fffe0; E 29 0x1dffffe0; E 29 0x1e3fffe0; E 29 0x1e7fffe0; E 29 0x1ebfffe0;
  E 29 0x1effffe0; X; X; X; X; X; X; X; X; X; X; X; X; X; X; X; X; X; X; X; X; X; X; X; X; X; X; X; X; X; X; X; X; X;
  X; X; X; X; X; X; X; X; X; X; X; X; X; X; X; X; X; X; X; X; X; X; X; X; X; X; X; X; X; X; X; X; X; X; X; X; X; X; X;
  X; X; X; X; X; X; X; X; X; X; X; X; X; X; X; X; X; X; X; X; X; X; X; X; X; X; X; X; X; X; X; X; X; X; X; X; X; X; X;
  X; X; X; X; X; X; X; X; X; X; X; X; X; X; X; X; X; X; X; X; X; X].
Definition hencs_179 : list henc := [
  X; X; X; X; X; X; X; X; X; X; X; X; X; X; X; X; X; X; X; X; X; X; X; X; X; X; X; X; X; X; X; X; E 27 0x29fffe2;
  E 31 0x7f1fffe2; E 31 0x7f3fffe2; X; X; E 27 0x2bfffe2; E 29 0x1f1fffe2; E 32 0xff5fffe2; E 31 0x7f5fffe2;
  E 31 0x7f7fffe2; E 29 0x1f3fffe2; E 32 0xff7fffe2; E 29 0x1f5fffe2; E 27 0x2dfffe2; E 27 0x2ffffe2; E 27 0x31fffe2;
  E 26 0x1fffe2; E 26 0x3fffe2; E 26 0x5fffe2; E 27 0x33fffe2; E 27 0x35fffe2; E 27 0x37fffe2; E 27 0x39fffe2;
  E 27 0x3bfffe2; E 27 0x3dfffe2; E 27 0x3ffffe2; E 28 0xb9fffe2; E 29 0x1f7fffe2; X; E 27 0x41fffe2; X;
  E 31 0x7f9fffe2; X; E 27 0x43fffe2; E 28 0xbbfffe2; E 28 0xbdfffe2; E 28 0xbffffe2; E 28 0xc1fffe2; E 28 0xc3fffe2;
  E 28 0xc5fffe2; E 28 0xc7fffe2; E 28 0xc9fffe2; E 28 0xcbfffe2; E 28 0xcdfffe2; E 28 0xcffffe2; E 28 0xd1fffe2;
  E 28 0xd3fffe2; E 28 0xd5fffe2; E 28 0xd7fffe2; E 28 0xd9fffe2; E 28 0xdbfffe2; E 28 0xddfffe2; E 28 0xdffffe2;
  E 28 0xe1fffe2; E 28 0xe3fffe2; E 28 0xe5fffe2; E 29 0x1f9fffe2; E 28 0xe7fffe2; E 29 0x1fbfffe2; X; X; X; X;
  E 27 0x45fffe2; X; E 26 0x7fffe2; E 27 0x47fffe2; E 26 0x9fffe2; E 27 0x49fffe2; E 26 0xbfffe2; E 27 0x4bfffe2;
  E 27 0x4dfffe2; E 27 0x4ffffe2; E 26 0xdfffe2; E 28 0xe9fffe2; E 28 0xebfffe2; E 27 0x51fffe2; E 27 0x53fffe2;
  E 27 0x55fffe2; E 26 0xffffe2; E 27 0x57fffe2; E 28 0xedfffe2; E 27 0x59fffe2; E 26 0x11fffe2; E 26 0x13fffe2;
  E 27 0x5bfffe2; E 28 0xeffffe2; E 28 0xf1fffe2; E 28 0xf3fffe2; E 28 0xf5fffe2; E 28 0xf7fffe2; X; E 32 0xff9fffe2;
  X; X; X; X; X; X; X; X; X; X; X; X; X; X; X; X; X; X; X; X; X; X; X; X; X; X; X; X; X; X; X; X; X; X; X; X; X; X; X;
  X; X; X; X; X; X; X; X; X; X; X; X; X; X; X; X; X; X; X; X; X; X; X; X; X; X; X; X; X; X; X; X; X; X; X; X; X; X; X;
  X; X; X; X; X; X; X; X; X; X; X; X; X; X; X; X; X; X; X; X; X; X; X; X; X; X; X; X; X; X; X; X; X; X; X; X; X; X; X;
  X; X; X; X; X; X; X; X; X; X; X; X; X; X].
Definition hencs_180 : list henc := [
  X; X; X; X; X; X; X; X; X; X; X; X; X; X; X; X; X; X; X; X; X; X; X; X; X; X; X; X; X; X; X; X; E 29 0xa7fffed; X;
  X; X; X; E 29 0xaffffed; E 31 0x7c7fffed; X; X; X; E 31 0x7cffffed; X; E 31 0x7d7fffed; E 29 0xb7fffed;
  E 29 0xbffffed; E 29 0xc7fffed; E 28 0x7fffed; E 28 0xffffed; E 28 0x17fffed; E 29 0xcffffed; E 29 0xd7fffed;
  E 29 0xdffffed; E 29 0xe7fffed; E 29 0xeffffed; E 29 0xf7fffed; E 29 0xfffffed; E 30 0x2e7fffed; E 31 0x7dffffed; X;
  E 29 0x107fffed; X; X; X; E 29 0x10ffffed; E 30 0x2effffed; E 30 0x2f7fffed; E 30 0x2fffffed; E 30 0x307fffed;
  E 30 0x30ffffed; E 30 0x317fffed; E 30 0x31ffffed; E 30 0x327fffed; E 30 0x32ffffed; E 30 0x337fffed;
  E 30 0x33ffffed; E 30 0x347fffed; E 30 0x34ffffed; E 30 0x357fffed; E 30 0x35ffffed; E 30 0x367fffed;
  E 30 0x36ffffed; E 30 0x377fffed; E 30 0x37ffffed; E 30 0x387fffed; E 30 0x38ffffed; E 30 0x397fffed;
  E 31 0x7e7fffed; E 30 0x39ffffed; E 31 0x7effffed; X; X; X; X; E 29 0x117fffed; X; E 28 0x1ffffed; E 29 0x11ffffed;
  E 28 0x27fffed; E 29 0x127fffed; E 28 0x2ffffed; E 29 0x12ffffed; E 29 0x137fffed; E 29 0x13ffffed; E 28 0x37fffed;
  E 30 0x3a7fffed; E 30 0x3affffed; E 29 0x147fffed; E 29 0x14ffffed; E 29 0x157fffed; E 28 0x3ffffed;
  E 29 0x15ffffed; E 30 0x3b7fffed; E 29 0x167fffed; E 28 0x47fffed; E 28 0x4ffffed; E 29 0x16ffffed; E 30 0x3bffffed;
  E 30 0x3c7fffed; E 30 0x3cffffed; E 30 0x3d7fffed; E 30 0x3dffffed; X; X; X; X; X; X; X; X; X; X; X; X; X; X; X; X;
  X; X; X; X; X; X; X; X; X; X; X; X; X; X; X; X; X; X; X; X; X; X; X; X; X; X; X; X; X; X; X; X; X; X; X; X; X; X; X;
  X; X; X; X; X; X; X; X; X; X; X; X; X; X; X; X; X; X; X; X; X; X; X; X; X; X; X; X; X; X; X; X; X; X; X; X; X; X; X;
  X; X; X; X; X; X; X; X; X; X; X; X; X; X; X; X; X; X; X; X; X; X; X; X; X; X; X; X; X; X; X; X; X; X; X; X; X; X; X].
Definition hencs_181 : list henc := [
  X; X; X; X; X; X; X; X; X; X; X; X; X; X; X; X; X; X; X; X; X; X; X; X; X; X; X; X; X; X; X; X; E 28 0x53fffe1;
  E 32 0xfe3fffe1; E 32 0xfe7fffe1; X; X; E 28 0x57fffe1; E 30 0x3e3fffe1; X; E 32 0xfebfffe1; E 32 0xfeffffe1;
  E 30 0x3e7fffe1; X; E 30 0x3ebfffe1; E 28 0x5bfffe1; E 28 0x5ffffe1; E 28 0x63fffe1; E 27 0x3fffe1; E 27 0x7fffe1;
  E 27 0xbfffe1; E 28 0x67fffe1; E 28 0x6bfffe1; E 28 0x6ffffe1; E 28 0x73fffe1; E 28 0x77fffe1; E 28 0x7bfffe1;
  E 28 0x7ffffe1; E 29 0x173fffe1; E 30 0x3effffe1; X; E 28 0x83fffe1; X; E 32 0xff3fffe1; X; E 28 0x87fffe1;
  E 29 0x177fffe1; E 29 0x17bfffe1; E 29 0x17ffffe1; E 29 0x183fffe1; E 29 0x187fffe1; E 29 0x18bfffe1;
  E 29 0x18ffffe1; E 29 0x193fffe1; E 29 0x197fffe1; E 29 0x19bfffe1; E 29 0x19ffffe1; E 29 0x1a3fffe1;
  E 29 0x1a7fffe1; E 29 0x1abfffe1; E 29 0x1affffe1; E 29 0x1b3fffe1; E 29 0x1b7fffe1; E 29 0x1bbfffe1;
  E 29 0x1bffffe1; E 29 0x1c3fffe1; E 29 0x1c7fffe1; E 29 0x1cbfffe1; E 30 0x3f3fffe1; E 29 0x1cffffe1;
  E 30 0x3f7fffe1; X; X; X; X; E 28 0x8bfffe1; X; E 27 0xffffe1; E 28 0x8ffffe1; E 27 0x13fffe1; E 28 0x93fffe1;
  E 27 0x17fffe1; E 28 0x97fffe1; E 28 0x9bfffe1; E 28 0x9ffffe1; E 27 0x1bfffe1; E 29 0x1d3fffe1; E 29 0x1d7fffe1;
  E 28 0xa3fffe1; E 28 0xa7fffe1; E 28 0xabfffe1; E 27 0x1ffffe1; E 28 0xaffffe1; E 29 0x1dbfffe1; E 28 0xb3fffe1;
  E 27 0x23fffe1; E 27 0x27fffe1; E 28 0xb7fffe1; E 29 0x1dffffe1; E 29 0x1e3fffe1; E 29 0x1e7fffe1; E 29 0x1ebfffe1;
  E 29 0x1effffe1; X; X; X; X; X; X; X; X; X; X; X; X; X; X; X; X; X; X; X; X; X; X; X; X; X; X; X; X; X; X; X; X; X;
  X; X; X; X; X; X; X; X; X; X; X; X; X; X; X; X; X; X; X; X; X; X; X; X; X; X; X; X; X; X; X; X; X; X; X; X; X; X; X;
  X; X; X; X; X; X; X; X; X; X; X; X; X; X; X; X; X; X; X; X; X; X; X; X; X; X; X; X; X; X; X; X; X; X; X; X; X; X; X;
  X; X; X; X; X; X; X; X; X; X; X; X; X; X; X; X; X; X; X; X; X; X].
Definition hencs_182 : list henc := [
  X; X; X; X; X; X; X; X; X; X; X; X; X; X; X; X; X; X; X; X; X; X; X; X; X; X; X; X; X; X; X; X; E 29 0xa7fffee; X;
  X; X; X; E 29 0xaffffee; E 31 0x7c7fffee; X; X; X; E 31 0x7cffffee; X; E 31 0x7d7fffee; E 29 0xb7fffee;
  E 29 0xbffffee; E 29 0xc7fffee; E 28 0x7fffee; E 28 0xffffee; E 28 0x17fffee; E 29 0xcffffee; E 29 0xd7fffee;
  E 29 0xdffffee; E 29 0xe7fffee; E 29 0xeffffee; E 29 0xf7fffee; E 29 0xfffffee; E 30 0x2e7fffee; E 31 0x7dffffee; X;
  E 29 0x107fffee; X; X; X; E 29 0x10ffffee; E 30 0x2effffee; E 30 0x2f7fffee; E 30 0x2fffffee; E 30 0x307fffee;
  E 30 0x30ffffee; E 30 0x317fffee; E 30 0x31ffffee; E 30 0x327fffee; E 30 0x32ffffee; E 30 0x337fffee;
  E 30 0x33ffffee; E 30 0x347fffee; E 30 0x34ffffee; E 30 0x357fffee; E 30 0x35ffffee; E 30 0x367fffee;
  E 30 0x36ffffee; E 30 0x377fffee; E 30 0x37ffffee; E 30 0x387fffee; E 30 0x38ffffee; E 30 0x397fffee;
  E 31 0x7e7fffee; E 30 0x39ffffee; E 31 0x7effffee; X; X; X; X; E 29 0x117fffee; X; E 28 0x1ffffee; E 29 0x11ffffee;
  E 28 0x27fffee; E 29 0x127fffee; E 28 0x2ffffee; E 29 0x12ffffee; E 29 0x137fffee; E 29 0x13ffffee; E 28 0x37fffee;
  E 30 0x3a7fffee; E 30 0x3affffee; E 29 0x147fffee; E 29 0x14ffffee; E 29 0x157fffee; E 28 0x3ffffee;
  E 29 0x15ffffee; E 30 0x3b7fffee; E 29 0x167fffee; E 28 0x47fffee; E 28 0x4ffffee; E 29 0x16ffffee; E 30 0x3bffffee;
  E 30 0x3c7fffee; E 30 0x3cffffee; E 30 0x3d7fffee; E 30 0x3dffffee; X; X; X; X; X; X; X; X; X; X; X; X; X; X; X; X;
  X; X; X; X; X; X; X; X; X; X; X; X; X; X; X; X; X; X; X; X; X; X; X; X; X; X; X; X; X; X; X; X; X; X; X; X; X; X; X;
  X; X; X; X; X; X; X; X; X; X; X; X; X; X; X; X; X; X; X; X; X; X; X; X; X; X; X; X; X; X; X; X; X; X; X; X; X; X; X;
  X; X; X; X; X; X; X; X; X; X; X; X; X; X; X; X; X; X; X; X; X; X; X; X; X; X; X; X; X; X; X; X; X; X; X; X; X; X; X].
Definition hencs_183 : list henc := [
  X; X; X; X; X; X; X; X; X; X; X; X; X; X; X; X; X; X; X; X; X; X; X; X; X; X; X; X; X; X; X; X; E 29 0xa7fffef; X;
  X; X; X; E 29 0xaffffef; E 31 0x7c7fffef; X; X; X; E 31 0x7cffffef; X; E 31 0x7d7fffef; E 29 0xb7fffef;
  E 29 0xbffffef; E 29 0xc7fffef; E 28 0x7fffef; E 28 0xffffef; E 28 0x17fffef; E 29 0xcffffef; E 29 0xd7fffef;
  E 29 0xdffffef; E 29 0xe7fffef; E 29 0xeffffef; E 29 0xf7fffef; E 29 0xfffffef; E 30 0x2e7fffef; E 31 0x7dffffef; X;
  E 29 0x107fffef; X; X; X; E 29 0x10ffffef; E 30 0x2effffef; E 30 0x2f7fffef; E 30 0x2fffffef; E 30 0x307fffef;
  E 30 0x30ffffef; E 30 0x317fffef; E 30 0x31ffffef; E 30 0x327fffef; E 30 0x32ffffef; E 30 0x337fffef;
  E 30 0x33ffffef; E 30 0x347fffef; E 30 0x34ffffef; E 30 0x357fffef; E 30 0x35ffffef; E 30 0x367fffef;
  E 30 0x36ffffef; E 30 0x377fffef; E 30 0x37ffffef; E 30 0x387fffef; E 30 0x38ffffef; E 30 0x397fffef;
  E 31 0x7e7fffef; E 30 0x39ffffef; E 31 0x7effffef; X; X; X; X; E 29 0x117fffef; X; E 28 0x1ffffef; E 29 0x11ffffef;
  E 28 0x27fffef; E 29 0x127fffef; E 28 0x2ffffef; E 29 0x12ffffef; E 29 0x137fffef; E 29 0x13ffffef; E 28 0x37fffef;
  E 30 0x3a7fffef; E 30 0x3affffef; E 29 0x147fffef; E 29 0x14ffffef; E 29 0x157fffef; E 28 0x3ffffef;
  E 29 0x15ffffef; E 30 0x3b7fffef; E 29 0x167fffef; E 28 0x47fffef; E 28 0x4ffffef; E 29 0x16ffffef; E 30 0x3bffffef;
  E 30 0x3c7fffef; E 30 0x3cffffef; E 30 0x3d7fffef; E 30 0x3dffffef; X; X; X; X; X; X; X; X; X; X; X; X; X; X; X; X;
  X; X; X; X; X; X; X; X; X; X; X; X; X; X; X; X; X; X; X; X; X; X; X; X; X; X; X; X; X; X; X; X; X; X; X; X; X; X; X;
  X; X; X; X; X; X; X; X; X; X; X; X; X; X; X; X; X; X; X; X; X; X; X; X; X; X; X; X; X; X; X; X; X; X; X; X; X; X; X;
  X; X; X; X; X; X; X; X; X; X; X; X; X; X; X; X; X; X; X; X; X; X; X; X; X; X; X; X; X; X; X; X; X; X; X; X; X; X; X].
Definition hencs_184 : list henc := [
  X; X; X; X; X; X; X; X; X; X; X; X; X; X; X; X; X; X; X; X; X; X; X; X; X; X; X; X; X; X; X; X; E 26 0x14fffea;
  E 30 0x3f8fffea; E 30 0x3f9fffea; E 32 0xffafffea; X; E 26 0x15fffea; E 28 0xf8fffea; E 31 0x7fafffea;
  E 30 0x3fafffea; E 30 0x3fbfffea; E 28 0xf9fffea; E 31 0x7fbfffea; E 28 0xfafffea; E 26 0x16fffea; E 26 0x17fffea;
  E 26 0x18fffea; E 25 0xfffea; E 25 0x1fffea; E 25 0x2fffea; E 26 0x19fffea; E 26 0x1afffea; E 26 0x1bfffea;
  E 26 0x1cfffea; E 26 0x1dfffea; E 26 0x1efffea; E 26 0x1ffffea; E 27 0x5cfffea; E 28 0xfbfffea; X; E 26 0x20fffea;
  E 32 0xffbfffea; E 30 0x3fcfffea; X; E 26 0x21fffea; E 27 0x5dfffea; E 27 0x5efffea; E 27 0x5ffffea; E 27 0x60fffea;
  E 27 0x61fffea; E 27 0x62fffea; E 27 0x63fffea; E 27 0x64fffea; E 27 0x65fffea; E 27 0x66fffea; E 27 0x67fffea;
  E 27 0x68fffea; E 27 0x69fffea; E 27 0x6afffea; E 27 0x6bfffea; E 27 0x6cfffea; E 27 0x6dfffea; E 27 0x6efffea;
  E 27 0x6ffffea; E 27 0x70fffea; E 27 0x71fffea; E 27 0x72fffea; E 28 0xfcfffea; E 27 0x73fffea; E 28 0xfdfffea; X;
  X; X; X; E 26 0x22fffea; X; E 25 0x3fffea; E 26 0x23fffea; E 25 0x4fffea; E 26 0x24fffea; E 25 0x5fffea;
  E 26 0x25fffea; E 26 0x26fffea; E 26 0x27fffea; E 25 0x6fffea; E 27 0x74fffea; E 27 0x75fffea; E 26 0x28fffea;
  E 26 0x29fffea; E 26 0x2afffea; E 25 0x7fffea; E 26 0x2bfffea; E 27 0x76fffea; E 26 0x2cfffea; E 25 0x8fffea;
  E 25 0x9fffea; E 26 0x2dfffea; E 27 0x77fffea; E 27 0x78fffea; E 27 0x79fffea; E 27 0x7afffea; E 27 0x7bfffea; X;
  E 31 0x7fcfffea; X; X; X; X; X; X; X; X; X; X; X; X; X; X; X; X; X; X; X; X; X; X; X; X; X; X; X; X; X; X; X; X; X;
  X; X; X; X; X; X; X; X; X; X; X; X; X; X; X; X; X; X; X; X; X; X; X; X; X; X; X; X; X; X; X; X; X; X; X; X; X; X; X;
  X; X; X; X; X; X; X; X; X; X; X; X; X; X; X; X; X; X; X; X; X; X; X; X; X; X; X; X; X; X; X; X; X; X; X; X; X; X; X;
  X; X; X; X; X; X; X; X; X; X; X; X; X; X; X; X; X; X; X; X].
Definition hencs_185 : list henc := [
  X; X; X; X; X; X; X; X; X; X; X; X; X; X; X; X; X; X; X; X; X; X; X; X; X; X; X; X; X; X; X; X; E 28 0x53fffe2;
  E 32 0xfe3fffe2; E 32 0xfe7fffe2; X; X; E 28 0x57fffe2; E 30 0x3e3fffe2; X; E 32 0xfebfffe2; E 32 0xfeffffe2;
  E 30 0x3e7fffe2; X; E 30 0x3ebfffe2; E 28 0x5bfffe2; E 28 0x5ffffe2; E 28 0x63fffe2; E 27 0x3fffe2; E 27 0x7fffe2;
  E 27 0xbfffe2; E 28 0x67fffe2; E 28 0x6bfffe2; E 28 0x6ffffe2; E 28 0x73fffe2; E 28 0x77fffe2; E 28 0x7bfffe2;
  E 28 0x7ffffe2; E 29 0x173fffe2; E 30 0x3effffe2; X; E 28 0x83fffe2; X; E 32 0xff3fffe2; X; E 28 0x87fffe2;
  E 29 0x177fffe2; E 29 0x17bfffe2; E 29 0x17ffffe2; E 29 0x183fffe2; E 29 0x187fffe2; E 29 0x18bfffe2;
  E 29 0x18ffffe2; E 29 0x193fffe2; E 29 0x197fffe2; E 29 0x19bfffe2; E 29 0x19ffffe2; E 29 0x1a3fffe2;
  E 29 0x1a7fffe2; E 29 0x1abfffe2; E 29 0x1affffe2; E 29 0x1b3fffe2; E 29 0x1b7fffe2; E 29 0x1bbfffe2;
  E 29 0x1bffffe2; E 29 0x1c3fffe2; E 29 0x1c7fffe2; E 29 0x1cbfffe2; E 30 0x3f3fffe2; E 29 0x1cffffe2;
  E 30 0x3f7fffe2; X; X; X; X; E 28 0x8bfffe2; X; E 27 0xffffe2; E 28 0x8ffffe2; E 27 0x13fffe2; E 28 0x93fffe2;
  E 27 0x17fffe2; E 28 0x97fffe2; E 28 0x9bfffe2; E 28 0x9ffffe2; E 27 0x1bfffe2; E 29 0x1d3fffe2; E 29 0x1d7fffe2;
  E 28 0xa3fffe2; E 28 0xa7fffe2; E 28 0xabfffe2; E 27 0x1ffffe2; E 28 0xaffffe2; E 29 0x1dbfffe2; E 28 0xb3fffe2;
  E 27 0x23fffe2; E 27 0x27fffe2; E 28 0xb7fffe2; E 29 0x1dffffe2; E 29 0x1e3fffe2; E 29 0x1e7fffe2; E 29 0x1ebfffe2;
  E 29 0x1effffe2; X; X; X; X; X; X; X; X; X; X; X; X; X; X; X; X; X; X; X; X; X; X; X; X; X; X; X; X; X; X; X; X; X;
  X; X; X; X; X; X; X; X; X; X; X; X; X; X; X; X; X; X; X; X; X; X; X; X; X; X; X; X; X; X; X; X; X; X; X; X; X; X; X;
  X; X; X; X; X; X; X; X; X; X; X; X; X; X; X; X; X; X; X; X; X; X; X; X; X; X; X; X; X; X; X; X; X; X; X; X; X; X; X;
  X; X; X; X; X; X; X; X; X; X; X; X; X; X; X; X; X; X; X; X; X; X].
Definition hencs_186 : list henc := [
  X; X; X; X; X; X; X; X; X; X; X; X; X; X; X; X; X; X; X; X; X; X; X; X; X; X; X; X; X; X; X; X; E 28 0x53fffe3;
  E 32 0xfe3fffe3; E 32 0xfe7fffe3; X; X; E 28 0x57fffe3; E 30 0x3e3fffe3; X; E 32 0xfebfffe3; E 32 0xfeffffe3;
  E 30 0x3e7fffe3; X; E 30 0x3ebfffe3; E 28 0x5bfffe3; E 28 0x5ffffe3; E 28 0x63fffe3; E 27 0x3fffe3; E 27 0x7fffe3;
  E 27 0xbfffe3; E 28 0x67fffe3; E 28 0x6bfffe3; E 28 0x6ffffe3; E 28 0x73fffe3; E 28 0x77fffe3; E 28 0x7bfffe3;
  E 28 0x7ffffe3; E 29 0x173fffe3; E 30 0x3effffe3; X; E 28 0x83fffe3; X; E 32 0xff3fffe3; X; E 28 0x87fffe3;
  E 29 0x177fffe3; E 29 0x17bfffe3; E 29 0x17ffffe3; E 29 0x183fffe3; E 29 0x187fffe3; E 29 0x18bfffe3;
  E 29 0x18ffffe3; E 29 0x193fffe3; E 29 0x197fffe3; E 29 0x19bfffe3; E 29 0x19ffffe3; E 29 0x1a3fffe3;
  E 29 0x1a7fffe3; E 29 0x1abfffe3; E 29 0x1affffe3; E 29 0x1b3fffe3; E 29 0x1b7fffe3; E 29 0x1bbfffe3;
  E 29 0x1bffffe3; E 29 0x1c3fffe3; E 29 0x1c7fffe3; E 29 0x1cbfffe3; E 30 0x3f3fffe3; E 29 0x1cffffe3;
  E 30 0x3f7fffe3; X; X; X; X; E 28 0x8bfffe3; X; E 27 0xffffe3; E 28 0x8ffffe3; E 27 0x13fffe3; E 28 0x93fffe3;
  E 27 0x17fffe3; E 28 0x97fffe3; E 28 0x9bfffe3; E 28 0x9ffffe3; E 27 0x1bfffe3; E 29 0x1d3fffe3; E 29 0x1d7fffe3;
  E 28 0xa3fffe3; E 28 0xa7fffe3; E 28 0xabfffe3; E 27 0x1ffffe3; E 28 0xaffffe3; E 29 0x1dbfffe3; E 28 0xb3fffe3;
  E 27 0x23fffe3; E 27 0x27fffe3; E 28 0xb7fffe3; E 29 0x1dffffe3; E 29 0x1e3fffe3; E 29 0x1e7fffe3; E 29 0x1ebfffe3;
  E 29 0x1effffe3; X; X; X; X; X; X; X; X; X; X; X; X; X; X; X; X; X; X; X; X; X; X; X; X; X; X; X; X; X; X; X; X; X;
  X; X; X; X; X; X; X; X; X; X; X; X; X; X; X; X; X; X; X; X; X; X; X; X; X; X; X; X; X; X; X; X; X; X; X; X; X; X; X;
  X; X; X; X; X; X; X; X; X; X; X; X; X; X; X; X; X; X; X; X; X; X; X; X; X; X; X; X; X; X; X; X; X; X; X; X; X; X; X;
  X; X; X; X; X; X; X; X; X; X; X; X; X; X; X; X; X; X; X; X; X; X].
Definition hencs_187 : list henc := [
  X; X; X; X; X; X; X; X; X; X; X; X; X; X; X; X; X; X; X; X; X; X; X; X; X; X; X; X; X; X; X; X; E 28 0x53fffe4;
  E 32 0xfe3fffe4; E 32 0xfe7fffe4; X; X; E 28 0x57fffe4; E 30 0x3e3fffe4; X; E 32 0xfebfffe4; E 32 0xfeffffe4;
  E 30 0x3e7fffe4; X; E 30 0x3ebfffe4; E 28 0x5bfffe4; E 28 0x5ffffe4; E 28 0x63fffe4; E 27 0x3fffe4; E 27 0x7fffe4;
  E 27 0xbfffe4; E 28 0x67fffe4; E 28 0x6bfffe4; E 28 0x6ffffe4; E 28 0x73fffe4; E 28 0x77fffe4; E 28 0x7bfffe4;
  E 28 0x7ffffe4; E 29 0x173fffe4; E 30 0x3effffe4; X; E 28 0x83fffe4; X; E 32 0xff3fffe4; X; E 28 0x87fffe4;
  E 29 0x177fffe4; E 29 0x17bfffe4; E 29 0x17ffffe4; E 29 0x183fffe4; E 29 0x187fffe4; E 29 0x18bfffe4;
  E 29 0x18ffffe4; E 29 0x193fffe4; E 29 0x197fffe4; E 29 0x19bfffe4; E 29 0x19ffffe4; E 29 0x1a3fffe4;
  E 29 0x1a7fffe4; E 29 0x1abfffe4; E 29 0x1affffe4; E 29 0x1b3fffe4; E 29 0x1b7fffe4; E 29 0x1bbfffe4;
  E 29 0x1bffffe4; E 29 0x1c3fffe4; E 29 0x1c7fffe4; E 29 0x1cbfffe4; E 30 0x3f3fffe4; E 29 0x1cffffe4;
  E 30 0x3f7fffe4; X; X; X; X; E 28 0x8bfffe4; X; E 27 0xffffe4; E 28 0x8ffffe4; E 27 0x13fffe4; E 28 0x93fffe4;
  E 27 0x17fffe4; E 28 0x97fffe4; E 28 0x9bfffe4; E 28 0x9ffffe4; E 27 0x1bfffe4; E 29 0x1d3fffe4; E 29 0x1d7fffe4;
  E 28 0xa3fffe4; E 28 0xa7fffe4; E 28 0xabfffe4; E 27 0x1ffffe4; E 28 0xaffffe4; E 29 0x1dbfffe4; E 28 0xb3fffe4;
  E 27 0x23fffe4; E 27 0x27fffe4; E 28 0xb7fffe4; E 29 0x1dffffe4; E 29 0x1e3fffe4; E 29 0x1e7fffe4; E 29 0x1ebfffe4;
  E 29 0x1effffe4; X; X; X; X; X; X; X; X; X; X; X; X; X; X; X; X; X; X; X; X; X; X; X; X; X; X; X; X; X; X; X; X; X;
  X; X; X; X; X; X; X; X; X; X; X; X; X; X; X; X; X; X; X; X; X; X; X; X; X; X; X; X; X; X; X; X; X; X; X; X; X; X; X;
  X; X; X; X; X; X; X; X; X; X; X; X; X; X; X; X; X; X; X; X; X; X; X; X; X; X; X; X; X; X; X; X; X; X; X; X; X; X; X;
  X; X; X; X; X; X; X; X; X; X; X; X; X; X; X; X; X; X; X; X; X; X].
Definition hencs_188 : list henc := [
  X; X; X; X; X; X; X; X; X; X; X; X; X; X; X; X; X; X; X; X; X; X; X; X; X; X; X; X; X; X; X; X; E 29 0xa7ffff0; X;
  X; X; X; E 29 0xafffff0; E 31 0x7c7ffff0; X; X; X; E 31 0x7cfffff0; X; E 31 0x7d7ffff0; E 29 0xb7ffff0;
  E 29 0xbfffff0; E 29 0xc7ffff0; E 28 0x7ffff0; E 28 0xfffff0; E 28 0x17ffff0; E 29 0xcfffff0; E 29 0xd7ffff0;
  E 29 0xdfffff0; E 29 0xe7ffff0; E 29 0xefffff0; E 29 0xf7ffff0; E 29 0xffffff0; E 30 0x2e7ffff0; E 31 0x7dfffff0; X;
  E 29 0x107ffff0; X; X; X; E 29 0x10fffff0; E 30 0x2efffff0; E 30 0x2f7ffff0; E 30 0x2ffffff0; E 30 0x307ffff0;
  E 30 0x30fffff0; E 30 0x317ffff0; E 30 0x31fffff0; E 30 0x327ffff0; E 30 0x32fffff0; E 30 0x337ffff0;
  E 30 0x33fffff0; E 30 0x347ffff0; E 30 0x34fffff0; E 30 0x357ffff0; E 30 0x35fffff0; E 30 0x367ffff0;
  E 30 0x36fffff0; E 30 0x377ffff0; E 30 0x37fffff0; E 30 0x387ffff0; E 30 0x38fffff0; E 30 0x397ffff0;
  E 31 0x7e7ffff0; E 30 0x39fffff0; E 31 0x7efffff0; X; X; X; X; E 29 0x117ffff0; X; E 28 0x1fffff0; E 29 0x11fffff0;
  E 28 0x27ffff0; E 29 0x127ffff0; E 28 0x2fffff0; E 29 0x12fffff0; E 29 0x137ffff0; E 29 0x13fffff0; E 28 0x37ffff0;
  E 30 0x3a7ffff0; E 30 0x3afffff0; E 29 0x147ffff0; E 29 0x14fffff0; E 29 0x157ffff0; E 28 0x3fffff0;
  E 29 0x15fffff0; E 30 0x3b7ffff0; E 29 0x167ffff0; E 28 0x47ffff0; E 28 0x4fffff0; E 29 0x16fffff0; E 30 0x3bfffff0;
  E 30 0x3c7ffff0; E 30 0x3cfffff0; E 30 0x3d7ffff0; E 30 0x3dfffff0; X; X; X; X; X; X; X; X; X; X; X; X; X; X; X; X;
  X; X; X; X; X; X; X; X; X; X; X; X; X; X; X; X; X; X; X; X; X; X; X; X; X; X; X; X; X; X; X; X; X; X; X; X; X; X; X;
  X; X; X; X; X; X; X; X; X; X; X; X; X; X; X; X; X; X; X; X; X; X; X; X; X; X; X; X; X; X; X; X; X; X; X; X; X; X; X;
  X; X; X; X; X; X; X; X; X; X; X; X; X; X; X; X; X; X; X; X; X; X; X; X; X; X; X; X; X; X; X; X; X; X; X; X; X; X; X].
Definition hencs_189 : list henc := [
  X; X; X; X; X; X; X; X; X; X; X; X; X; X; X; X; X; X; X; X; X; X; X; X; X; X; X; X; X; X; X; X; E 28 0x53fffe5;
  E 32 0xfe3fffe5; E 32 0xfe7fffe5; X; X; E 28 0x57fffe5; E 30 0x3e3fffe5; X; E 32 0xfebfffe5; E 32 0xfeffffe5;
  E 30 0x3e7fffe5; X; E 30 0x3ebfffe5; E 28 0x5bfffe5; E 28 0x5ffffe5; E 28 0x63fffe5; E 27 0x3fffe5; E 27 0x7fffe5;
  E 27 0xbfffe5; E 28 0x67fffe5; E 28 0x6bfffe5; E 28 0x6ffffe5; E 28 0x73fffe5; E 28 0x77fffe5; E 28 0x7bfffe5;
  E 28 0x7ffffe5; E 29 0x173fffe5; E 30 0x3effffe5; X; E 28 0x83fffe5; X; E 32 0xff3fffe5; X; E 28 0x87fffe5;
  E 29 0x177fffe5; E 29 0x17bfffe5; E 29 0x17ffffe5; E 29 0x183fffe5; E 29 0x187fffe5; E 29 0x18bfffe5;
  E 29 0x18ffffe5; E 29 0x193fffe5; E 29 0x197fffe5; E 29 0x19bfffe5; E 29 0x19ffffe5; E 29 0x1a3fffe5;
  E 29 0x1a7fffe5; E 29 0x1abfffe5; E 29 0x1affffe5; E 29 0x1b3fffe5; E 29 0x1b7fffe5; E 29 0x1bbfffe5;
  E 29 0x1bffffe5; E 29 0x1c3fffe5; E 29 0x1c7fffe5; E 29 0x1cbfffe5; E 30 0x3f3fffe5; E 29 0x1cffffe5;
  E 30 0x3f7fffe5; X; X; X; X; E 28 0x8bfffe5; X; E 27 0xffffe5; E 28 0x8ffffe5; E 27 0x13fffe5; E 28 0x93fffe5;
  E 27 0x17fffe5; E 28 0x97fffe5; E 28 0x9bfffe5; E 28 0x9ffffe5; E 27 0x1bfffe5; E 29 0x1d3fffe5; E 29 0x1d7fffe5;
  E 28 0xa3fffe5; E 28 0xa7fffe5; E 28 0xabfffe5; E 27 0x1ffffe5; E 28 0xaffffe5; E 29 0x1dbfffe5; E 28 0xb3fffe5;
  E 27 0x23fffe5; E 27 0x27fffe5; E 28 0xb7fffe5; E 29 0x1dffffe5; E 29 0x1e3fffe5; E 29 0x1e7fffe5; E 29 0x1ebfffe5;
  E 29 0x1effffe5; X; X; X; X; X; X; X; X; X; X; X; X; X; X; X; X; X; X; X; X; X; X; X; X; X; X; X; X; X; X; X; X; X;
  X; X; X; X; X; X; X; X; X; X; X; X; X; X; X; X; X; X; X; X; X; X; X; X; X; X; X; X; X; X; X; X; X; X; X; X; X; X; X;
  X; X; X; X; X; X; X; X; X; X; X; X; X; X; X; X; X; X; X; X; X; X; X; X; X; X; X; X; X; X; X; X; X; X; X; X; X; X; X;
  X; X; X; X; X; X; X; X; X; X; X; X; X; X; X; X; X; X; X; X; X; X].
Definition hencs_190 : list henc := [
  X; X; X; X; X; X; X; X; X; X; X; X; X; X; X; X; X; X; X; X; X; X; X; X; X; X; X; X; X; X; X; X; E 28 0x53fffe6;
  E 32 0xfe3fffe6; E 32 0xfe7fffe6; X; X; E 28 0x57fffe6; E 30 0x3e3fffe6; X; E 32 0xfebfffe6; E 32 0xfeffffe6;
  E 30 0x3e7fffe6; X; E 30 0x3ebfffe6; E 28 0x5bfffe6; E 28 0x5ffffe6; E 28 0x63fffe6; E 27 0x3fffe6; E 27 0x7fffe6;
  E 27 0xbfffe6; E 28 0x67fffe6; E 28 0x6bfffe6; E 28 0x6ffffe6; E 28 0x73fffe6; E 28 0x77fffe6; E 28 0x7bfffe6;
  E 28 0x7ffffe6; E 29 0x173fffe6; E 30 0x3effffe6; X; E 28 0x83fffe6; X; E 32 0xff3fffe6; X; E 28 0x87fffe6;
  E 29 0x177fffe6; E 29 0x17bfffe6; E 29 0x17ffffe6; E 29 0x183fffe6; E 29 0x187fffe6; E 29 0x18bfffe6;
  E 29 0x18ffffe6; E 29 0x193fffe6; E 29 0x197fffe6; E 29 0x19bfffe6; E 29 0x19ffffe6; E 29 0x1a3fffe6;
  E 29 0x1a7fffe6; E 29 0x1abfffe6; E 29 0x1affffe6; E 29 0x1b3fffe6; E 29 0x1b7fffe6; E 29 0x1bbfffe6;
  E 29 0x1bffffe6; E 29 0x1c3fffe6; E 29 0x1c7fffe6; E 29 0x1cbfffe6; E 30 0x3f3fffe6; E 29 0x1cffffe6;
  E 30 0x3f7fffe6; X; X; X; X; E 28 0x8bfffe6; X; E 27 0xffffe6; E 28 0x8ffffe6; E 27 0x13fffe6; E 28 0x93fffe6;
  E 27 0x17fffe6; E 28 0x97fffe6; E 28 0x9bfffe6; E 28 0x9ffffe6; E 27 0x1bfffe6; E 29 0x1d3fffe6; E 29 0x1d7fffe6;
  E 28 0xa3fffe6; E 28 0xa7fffe6; E 28 0xabfffe6; E 27 0x1ffffe6; E 28 0xaffffe6; E 29 0x1dbfffe6; E 28 0xb3fffe6;
  E 27 0x23fffe6; E 27 0x27fffe6; E 28 0xb7fffe6; E 29 0x1dffffe6; E 29 0x1e3fffe6; E 29 0x1e7fffe6; E 29 0x1ebfffe6;
  E 29 0x1effffe6; X; X; X; X; X; X; X; X; X; X; X; X; X; X; X; X; X; X; X; X; X; X; X; X; X; X; X; X; X; X; X; X; X;
  X; X; X; X; X; X; X; X; X; X; X; X; X; X; X; X; X; X; X; X; X; X; X; X; X; X; X; X; X; X; X; X; X; X; X; X; X; X; X;
  X; X; X; X; X; X; X; X; X; X; X; X; X; X; X; X; X; X; X; X; X; X; X; X; X; X; X; X; X; X; X; X; X; X; X; X; X; X; X;
  X; X; X; X; X; X; X; X; X; X; X; X; X; X; X; X; X; X; X; X; X; X].
Definition hencs_191 : list henc := [
  X; X; X; X; X; X; X; X; X; X; X; X; X; X; X; X; X; X; X; X; X; X; X; X; X; X; X; X; X; X; X; X; E 29 0xa7ffff1; X;
  X; X; X; E 29 0xafffff1; E 31 0x7c7ffff1; X; X; X; E 31 0x7cfffff1; X; E 31 0x7d7ffff1; E 29 0xb7ffff1;
  E 29 0xbfffff1; E 29 0xc7ffff1; E 28 0x7ffff1; E 28 0xfffff1; E 28 0x17ffff1; E 29 0xcfffff1; E 29 0xd7ffff1;
  E 29 0xdfffff1; E 29 0xe7ffff1; E 29 0xefffff1; E 29 0xf7ffff1; E 29 0xffffff1; E 30 0x2e7ffff1; E 31 0x7dfffff1; X;
  E 29 0x107ffff1; X; X; X; E 29 0x10fffff1; E 30 0x2efffff1; E 30 0x2f7ffff1; E 30 0x2ffffff1; E 30 0x307ffff1;
  E 30 0x30fffff1; E 30 0x317ffff1; E 30 0x31fffff1; E 30 0x327ffff1; E 30 0x32fffff1; E 30 0x337ffff1;
  E 30 0x33fffff1; E 30 0x347ffff1; E 30 0x34fffff1; E 30 0x357ffff1; E 30 0x35fffff1; E 30 0x367ffff1;
  E 30 0x36fffff1; E 30 0x377ffff1; E 30 0x37fffff1; E 30 0x387ffff1; E 30 0x38fffff1; E 30 0x397ffff1;
  E 31 0x7e7ffff1; E 30 0x39fffff1; E 31 0x7efffff1; X; X; X; X; E 29 0x117ffff1; X; E 28 0x1fffff1; E 29 0x11fffff1;
  E 28 0x27ffff1; E 29 0x127ffff1; E 28 0x2fffff1; E 29 0x12fffff1; E 29 0x137ffff1; E 29 0x13fffff1; E 28 0x37ffff1;
  E 30 0x3a7ffff1; E 30 0x3afffff1; E 29 0x147ffff1; E 29 0x14fffff1; E 29 0x157ffff1; E 28 0x3fffff1;
  E 29 0x15fffff1; E 30 0x3b7ffff1; E 29 0x167ffff1; E 28 0x47ffff1; E 28 0x4fffff1; E 29 0x16fffff1; E 30 0x3bfffff1;
  E 30 0x3c7ffff1; E 30 0x3cfffff1; E 30 0x3d7ffff1; E 30 0x3dfffff1; X; X; X; X; X; X; X; X; X; X; X; X; X; X; X; X;
  X; X; X; X; X; X; X; X; X; X; X; X; X; X; X; X; X; X; X; X; X; X; X; X; X; X; X; X; X; X; X; X; X; X; X; X; X; X; X;
  X; X; X; X; X; X; X; X; X; X; X; X; X; X; X; X; X; X; X; X; X; X; X; X; X; X; X; X; X; X; X; X; X; X; X; X; X; X; X;
  X; X; X; X; X; X; X; X; X; X; X; X; X; X; X; X; X; X; X; X; X; X; X; X; X; X; X; X; X; X; X; X; X; X; X; X; X; X; X].
Definition hencs_192 : list henc := [
  X; X; X; X; X; X; X; X; X; X; X; X; X; X; X; X; X; X; X; X; X; X; X; X; X; X; X; X; X; X; X; X; E 32 0x53ffffe0; X;
  X; X; X; E 32 0x57ffffe0; X; X; X; X; X; X; X; E 32 0x5bffffe0; E 32 0x5fffffe0; E 32 0x63ffffe0; E 31 0x3ffffe0;
  E 31 0x7ffffe0; E 31 0xbffffe0; E 32 0x67ffffe0; E 32 0x6bffffe0; E 32 0x6fffffe0; E 32 0x73ffffe0; E 32 0x77ffffe0;
  E 32 0x7bffffe0; E 32 0x7fffffe0; X; X; X; E 32 0x83ffffe0; X; X; X; E 32 0x87ffffe0; X; X; X; X; X; X; X; X; X; X;
  X; X; X; X; X; X; X; X; X; X; X; X; X; X; X; X; X; X; X; E 32 0x8bffffe0; X; E 31 0xfffffe0; E 32 0x8fffffe0;
  E 31 0x13ffffe0; E 32 0x93ffffe0; E 31 0x17ffffe0; E 32 0x97ffffe0; E 32 0x9bffffe0; E 32 0x9fffffe0;
  E 31 0x1bffffe0; X; X; E 32 0xa3ffffe0; E 32 0xa7ffffe0; E 32 0xabffffe0; E 31 0x1fffffe0; E 32 0xafffffe0; X;
  E 32 0xb3ffffe0; E 31 0x23ffffe0; E 31 0x27ffffe0; E 32 0xb7ffffe0; X; X; X; X; X; X; X; X; X; X; X; X; X; X; X; X;
  X; X; X; X; X; X; X; X; X; X; X; X; X; X; X; X; X; X; X; X; X; X; X; X; X; X; X; X; X; X; X; X; X; X; X; X; X; X; X;
  X; X; X; X; X; X; X; X; X; X; X; X; X; X; X; X; X; X; X; X; X; X; X; X; X; X; X; X; X; X; X; X; X; X; X; X; X; X; X;
  X; X; X; X; X; X; X; X; X; X; X; X; X; X; X; X; X; X; X; X; X; X; X; X; X; X; X; X; X; X; X; X; X; X; X; X; X; X; X;
  X; X; X; X; X].
Definition hencs_193 : list henc := [
  X; X; X; X; X; X; X; X; X; X; X; X; X; X; X; X; X; X; X; X; X; X; X; X; X; X; X; X; X; X; X; X; E 32 0x53ffffe1; X;
  X; X; X; E 32 0x57ffffe1; X; X; X; X; X; X; X; E 32 0x5bffffe1; E 32 0x5fffffe1; E 32 0x63ffffe1; E 31 0x3ffffe1;
  E 31 0x7ffffe1; E 31 0xbffffe1; E 32 0x67ffffe1; E 32 0x6bffffe1; E 32 0x6fffffe1; E 32 0x73ffffe1; E 32 0x77ffffe1;
  E 32 0x7bffffe1; E 32 0x7fffffe1; X; X; X; E 32 0x83ffffe1; X; X; X; E 32 0x87ffffe1; X; X; X; X; X; X; X; X; X; X;
  X; X; X; X; X; X; X; X; X; X; X; X; X; X; X; X; X; X; X; E 32 0x8bffffe1; X; E 31 0xfffffe1; E 32 0x8fffffe1;
  E 31 0x13ffffe1; E 32 0x93ffffe1; E 31 0x17ffffe1; E 32 0x97ffffe1; E 32 0x9bffffe1; E 32 0x9fffffe1;
  E 31 0x1bffffe1; X; X; E 32 0xa3ffffe1; E 32 0xa7ffffe1; E 32 0xabffffe1; E 31 0x1fffffe1; E 32 0xafffffe1; X;
  E 32 0xb3ffffe1; E 31 0x23ffffe1; E 31 0x27ffffe1; E 32 0xb7ffffe1; X; X; X; X; X; X; X; X; X; X; X; X; X; X; X; X;
  X; X; X; X; X; X; X; X; X; X; X; X; X; X; X; X; X; X; X; X; X; X; X; X; X; X; X; X; X; X; X; X; X; X; X; X; X; X; X;
  X; X; X; X; X; X; X; X; X; X; X; X; X; X; X; X; X; X; X; X; X; X; X; X; X; X; X; X; X; X; X; X; X; X; X; X; X; X; X;
  X; X; X; X; X; X; X; X; X; X; X; X; X; X; X; X; X; X; X; X; X; X; X; X; X; X; X; X; X; X; X; X; X; X; X; X; X; X; X;
  X; X; X; X; X].
Definition hencs_194 : list henc := [
  X; X; X; X; X; X; X; X; X; X; X; X; X; X; X; X; X; X; X; X; X; X; X; X; X; X; X; X; X; X; X; X; E 26 0x14fffeb;
  E 30 0x3f8fffeb; E 30 0x3f9fffeb; E 32 0xffafffeb; X; E 26 0x15fffeb; E 28 0xf8fffeb; E 31 0x7fafffeb;
  E 30 0x3fafffeb; E 30 0x3fbfffeb; E 28 0xf9fffeb; E 31 0x7fbfffeb; E 28 0xfafffeb; E 26 0x16fffeb; E 26 0x17fffeb;
  E 26 0x18fffeb; E 25 0xfffeb; E 25 0x1fffeb; E 25 0x2fffeb; E 26 0x19fffeb; E 26 0x1afffeb; E 26 0x1bfffeb;
  E 26 0x1cfffeb; E 26 0x1dfffeb; E 26 0x1efffeb; E 26 0x1ffffeb; E 27 0x5cfffeb; E 28 0xfbfffeb; X; E 26 0x20fffeb;
  E 32 0xffbfffeb; E 30 0x3fcfffeb; X; E 26 0x21fffeb; E 27 0x5dfffeb; E 27 0x5efffeb; E 27 0x5ffffeb; E 27 0x60fffeb;
  E 27 0x61fffeb; E 27 0x62fffeb; E 27 0x63fffeb; E 27 0x64fffeb; E 27 0x65fffeb; E 27 0x66fffeb; E 27 0x67fffeb;
  E 27 0x68fffeb; E 27 0x69fffeb; E 27 0x6afffeb; E 27 0x6bfffeb; E 27 0x6cfffeb; E 27 0x6dfffeb; E 27 0x6efffeb;
  E 27 0x6ffffeb; E 27 0x70fffeb; E 27 0x71fffeb; E 27 0x72fffeb; E 28 0xfcfffeb; E 27 0x73fffeb; E 28 0xfdfffeb; X;
  X; X; X; E 26 0x22fffeb; X; E 25 0x3fffeb; E 26 0x23fffeb; E 25 0x4fffeb; E 26 0x24fffeb; E 25 0x5fffeb;
  E 26 0x25fffeb; E 26 0x26fffeb; E 26 0x27fffeb; E 25 0x6fffeb; E 27 0x74fffeb; E 27 0x75fffeb; E 26 0x28fffeb;
  E 26 0x29fffeb; E 26 0x2afffeb; E 25 0x7fffeb; E 26 0x2bfffeb; E 27 0x76fffeb; E 26 0x2cfffeb; E 25 0x8fffeb;
  E 25 0x9fffeb; E 26 0x2dfffeb; E 27 0x77fffeb; E 27 0x78fffeb; E 27 0x79fffeb; E 27 0x7afffeb; E 27 0x7bfffeb; X;
  E 31 0x7fcfffeb; X; X; X; X; X; X; X; X; X; X; X; X; X; X; X; X; X; X; X; X; X; X; X; X; X; X; X; X; X; X; X; X; X;
  X; X; X; X; X; X; X; X; X; X; X; X; X; X; X; X; X; X; X; X; X; X; X; X; X; X; X; X; X; X; X; X; X; X; X; X; X; X; X;
  X; X; X; X; X; X; X; X; X; X; X; X; X; X; X; X; X; X; X; X; X; X; X; X; X; X; X; X; X; X; X; X; X; X; X; X; X; X; X;
  X; X; X; X; X; X; X; X; X; X; X; X; X; X; X; X; X; X; X; X].
Definition hencs_195 : list henc := [
  E 32 0xffc7fff1; X; X; X; X; X; X; X; X; X; X; X; X; X; X; X; X; X; X; X; X; X; X; X; X; X; X; X; X; X; X; X;
  E 25 0xa7fff1; E 29 0x1fc7fff1; E 29 0x1fcffff1; E 31 0x7fd7fff1; E 32 0xffcffff1; E 25 0xaffff1; E 27 0x7c7fff1;
  E 30 0x3fd7fff1; E 29 0x1fd7fff1; E 29 0x1fdffff1; E 27 0x7cffff1; E 30 0x3fdffff1; E 27 0x7d7fff1; E 25 0xb7fff1;
  E 25 0xbffff1; E 25 0xc7fff1; E 24 0x7fff1; E 24 0xffff1; E 24 0x17fff1; E 25 0xcffff1; E 25 0xd7fff1;
  E 25 0xdffff1; E 25 0xe7fff1; E 25 0xeffff1; E 25 0xf7fff1; E 25 0xfffff1; E 26 0x2e7fff1; E 27 0x7dffff1; X;
  E 25 0x107fff1; E 31 0x7fdffff1; E 29 0x1fe7fff1; E 32 0xffd7fff1; E 25 0x10ffff1; E 26 0x2effff1; E 26 0x2f7fff1;
  E 26 0x2fffff1; E 26 0x307fff1; E 26 0x30ffff1; E 26 0x317fff1; E 26 0x31ffff1; E 26 0x327fff1; E 26 0x32ffff1;
  E 26 0x337fff1; E 26 0x33ffff1; E 26 0x347fff1; E 26 0x34ffff1; E 26 0x357fff1; E 26 0x35ffff1; E 26 0x367fff1;
  E 26 0x36ffff1; E 26 0x377fff1; E 26 0x37ffff1; E 26 0x387fff1; E 26 0x38ffff1; E 26 0x397fff1; E 27 0x7e7fff1;
  E 26 0x39ffff1; E 27 0x7effff1; E 32 0xffdffff1; X; E 32 0xffe7fff1; X; E 25 0x117fff1; X; E 24 0x1ffff1;
  E 25 0x11ffff1; E 24 0x27fff1; E 25 0x127fff1; E 24 0x2ffff1; E 25 0x12ffff1; E 25 0x137fff1; E 25 0x13ffff1;
  E 24 0x37fff1; E 26 0x3a7fff1; E 26 0x3affff1; E 25 0x147fff1; E 25 0x14ffff1; E 25 0x157fff1; E 24 0x3ffff1;
  E 25 0x15ffff1; E 26 0x3b7fff1; E 25 0x167fff1; E 24 0x47fff1; E 24 0x4ffff1; E 25 0x16ffff1; E 26 0x3bffff1;
  E 26 0x3c7fff1; E 26 0x3cffff1; E 26 0x3d7fff1; E 26 0x3dffff1; X; E 30 0x3fe7fff1; X; E 32 0xffeffff1; X; X; X; X;
  X; X; X; X; X; X; X; X; X; X; X; X; X; X; X; X; X; X; X; X; X; X; X; X; X; X; X; X; X; X; X; X; X; X; X; X; X; X; X;
  X; X; X; X; X; X; X; X; X; X; X; X; X; X; X; X; X; X; X; X; X; X; X; X; X; X; X; X; X; X; X; X; X; X; X; X; X; X; X;
  X; X; X; X; X; X; X; X; X; X; X; X; X; X; X; X; X; X; X; X; X; X; X; X; X; X; X; X; X; X; X; X; X; X; X; X; X; X; X;
  X; X; X; X; X; X; X; X].
Definition hencs_196 : list henc := [
  X; X; X; X; X; X; X; X; X; X; X; X; X; X; X; X; X; X; X; X; X; X; X; X; X; X; X; X; X; X; X; X; E 28 0x53fffe7;
  E 32 0xfe3fffe7; E 32 0xfe7fffe7; X; X; E 28 0x57fffe7; E 30 0x3e3fffe7; X; E 32 0xfebfffe7; E 32 0xfeffffe7;
  E 30 0x3e7fffe7; X; E 30 0x3ebfffe7; E 28 0x5bfffe7; E 28 0x5ffffe7; E 28 0x63fffe7; E 27 0x3fffe7; E 27 0x7fffe7;
  E 27 0xbfffe7; E 28 0x67fffe7; E 28 0x6bfffe7; E 28 0x6ffffe7; E 28 0x73fffe7; E 28 0x77fffe7; E 28 0x7bfffe7;
  E 28 0x7ffffe7; E 29 0x173fffe7; E 30 0x3effffe7; X; E 28 0x83fffe7; X; E 32 0xff3fffe7; X; E 28 0x87fffe7;
  E 29 0x177fffe7; E 29 0x17bfffe7; E 29 0x17ffffe7; E 29 0x183fffe7; E 29 0x187fffe7; E 29 0x18bfffe7;
  E 29 0x18ffffe7; E 29 0x193fffe7; E 29 0x197fffe7; E 29 0x19bfffe7; E 29 0x19ffffe7; E 29 0x1a3fffe7;
  E 29 0x1a7fffe7; E 29 0x1abfffe7; E 29 0x1affffe7; E 29 0x1b3fffe7; E 29 0x1b7fffe7; E 29 0x1bbfffe7;
  E 29 0x1bffffe7; E 29 0x1c3fffe7; E 29 0x1c7fffe7; E 29 0x1cbfffe7; E 30 0x3f3fffe7; E 29 0x1cffffe7;
  E 30 0x3f7fffe7; X; X; X; X; E 28 0x8bfffe7; X; E 27 0xffffe7; E 28 0x8ffffe7; E 27 0x13fffe7; E 28 0x93fffe7;
  E 27 0x17fffe7; E 28 0x97fffe7; E 28 0x9bfffe7; E 28 0x9ffffe7; E 27 0x1bfffe7; E 29 0x1d3fffe7; E 29 0x1d7fffe7;
  E 28 0xa3fffe7; E 28 0xa7fffe7; E 28 0xabfffe7; E 27 0x1ffffe7; E 28 0xaffffe7; E 29 0x1dbfffe7; E 28 0xb3fffe7;
  E 27 0x23fffe7; E 27 0x27fffe7; E 28 0xb7fffe7; E 29 0x1dffffe7; E 29 0x1e3fffe7; E 29 0x1e7fffe7; E 29 0x1ebfffe7;
  E 29 0x1effffe7; X; X; X; X; X; X; X; X; X; X; X; X; X; X; X; X; X; X; X; X; X; X; X; X; X; X; X; X; X; X; X; X; X;
  X; X; X; X; X; X; X; X; X; X; X; X; X; X; X; X; X; X; X; X; X; X; X; X; X; X; X; X; X; X; X; X; X; X; X; X; X; X; X;
  X; X; X; X; X; X; X; X; X; X; X; X; X; X; X; X; X; X; X; X; X; X; X; X; X; X; X; X; X; X; X; X; X; X; X; X; X; X; X;
  X; X; X; X; X; X; X; X; X; X; X; X; X; X; X; X; X; X; X; X; X; X].
Definition hencs_197 : list henc := [
  X; X; X; X; X; X; X; X; X; X; X; X; X; X; X; X; X; X; X; X; X; X; X; X; X; X; X; X; X; X; X; X; E 29 0xa7ffff2; X;
  X; X; X; E 29 0xafffff2; E 31 0x7c7ffff2; X; X; X; E 31 0x7cfffff2; X; E 31 0x7d7ffff2; E 29 0xb7ffff2;
  E 29 0xbfffff2; E 29 0xc7ffff2; E 28 0x7ffff2; E 28 0xfffff2; E 28 0x17ffff2; E 29 0xcfffff2; E 29 0xd7ffff2;
  E 29 0xdfffff2; E 29 0xe7ffff2; E 29 0xefffff2; E 29 0xf7ffff2; E 29 0xffffff2; E 30 0x2e7ffff2; E 31 0x7dfffff2; X;
  E 29 0x107ffff2; X; X; X; E 29 0x10fffff2; E 30 0x2efffff2; E 30 0x2f7ffff2; E 30 0x2ffffff2; E 30 0x307ffff2;
  E 30 0x30fffff2; E 30 0x317ffff2; E 30 0x31fffff2; E 30 0x327ffff2; E 30 0x32fffff2; E 30 0x337ffff2;
  E 30 0x33fffff2; E 30 0x347ffff2; E 30 0x34fffff2; E 30 0x357ffff2; E 30 0x35fffff2; E 30 0x367ffff2;
  E 30 0x36fffff2; E 30 0x377ffff2; E 30 0x37fffff2; E 30 0x387ffff2; E 30 0x38fffff2; E 30 0x397ffff2;
  E 31 0x7e7ffff2; E 30 0x39fffff2; E 31 0x7efffff2; X; X; X; X; E 29 0x117ffff2; X; E 28 0x1fffff2; E 29 0x11fffff2;
  E 28 0x27ffff2; E 29 0x127ffff2; E 28 0x2fffff2; E 29 0x12fffff2; E 29 0x137ffff2; E 29 0x13fffff2; E 28 0x37ffff2;
  E 30 0x3a7ffff2; E 30 0x3afffff2; E 29 0x147ffff2; E 29 0x14fffff2; E 29 0x157ffff2; E 28 0x3fffff2;
  E 29 0x15fffff2; E 30 0x3b7ffff2; E 29 0x167ffff2; E 28 0x47ffff2; E 28 0x4fffff2; E 29 0x16fffff2; E 30 0x3bfffff2;
  E 30 0x3c7ffff2; E 30 0x3cfffff2; E 30 0x3d7ffff2; E 30 0x3dfffff2; X; X; X; X; X; X; X; X; X; X; X; X; X; X; X; X;
  X; X; X; X; X; X; X; X; X; X; X; X; X; X; X; X; X; X; X; X; X; X; X; X; X; X; X; X; X; X; X; X; X; X; X; X; X; X; X;
  X; X; X; X; X; X; X; X; X; X; X; X; X; X; X; X; X; X; X; X; X; X; X; X; X; X; X; X; X; X; X; X; X; X; X; X; X; X; X;
  X; X; X; X; X; X; X; X; X; X; X; X; X; X; X; X; X; X; X; X; X; X; X; X; X; X; X; X; X; X; X; X; X; X; X; X; X; X; X].
Definition hencs_198 : list henc := [
  X; X; X; X; X; X; X; X; X; X; X; X; X; X; X; X; X; X; X; X; X; X; X; X; X; X; X; X; X; X; X; X; E 28 0x53fffe8;
  E 32 0xfe3fffe8; E 32 0xfe7fffe8; X; X; E 28 0x57fffe8; E 30 0x3e3fffe8; X; E 32 0xfebfffe8; E 32 0xfeffffe8;
  E 30 0x3e7fffe8; X; E 30 0x3ebfffe8; E 28 0x5bfffe8; E 28 0x5ffffe8; E 28 0x63fffe8; E 27 0x3fffe8; E 27 0x7fffe8;
  E 27 0xbfffe8; E 28 0x67fffe8; E 28 0x6bfffe8; E 28 0x6ffffe8; E 28 0x73fffe8; E 28 0x77fffe8; E 28 0x7bfffe8;
  E 28 0x7ffffe8; E 29 0x173fffe8; E 30 0x3effffe8; X; E 28 0x83fffe8; X; E 32 0xff3fffe8; X; E 28 0x87fffe8;
  E 29 0x177fffe8; E 29 0x17bfffe8; E 29 0x17ffffe8; E 29 0x183fffe8; E 29 0x187fffe8; E 29 0x18bfffe8;
  E 29 0x18ffffe8; E 29 0x193fffe8; E 29 0x197fffe8; E 29 0x19bfffe8; E 29 0x19ffffe8; E 29 0x1a3fffe8;
  E 29 0x1a7fffe8; E 29 0x1abfffe8; E 29 0x1affffe8; E 29 0x1b3fffe8; E 29 0x1b7fffe8; E 29 0x1bbfffe8;
  E 29 0x1bffffe8; E 29 0x1c3fffe8; E 29 0x1c7fffe8; E 29 0x1cbfffe8; E 30 0x3f3fffe8; E 29 0x1cffffe8;
  E 30 0x3f7fffe8; X; X; X; X; E 28 0x8bfffe8; X; E 27 0xffffe8; E 28 0x8ffffe8; E 27 0x13fffe8; E 28 0x93fffe8;
  E 27 0x17fffe8; E 28 0x97fffe8; E 28 0x9bfffe8; E 28 0x9ffffe8; E 27 0x1bfffe8; E 29 0x1d3fffe8; E 29 0x1d7fffe8;
  E 28 0xa3fffe8; E 28 0xa7fffe8; E 28 0xabfffe8; E 27 0x1ffffe8; E 28 0xaffffe8; E 29 0x1dbfffe8; E 28 0xb3fffe8;
  E 27 0x23fffe8; E 27 0x27fffe8; E 28 0xb7fffe8; E 29 0x1dffffe8; E 29 0x1e3fffe8; E 29 0x1e7fffe8; E 29 0x1ebfffe8;
  E 29 0x1effffe8; X; X; X; X; X; X; X; X; X; X; X; X; X; X; X; X; X; X; X; X; X; X; X; X; X; X; X; X; X; X; X; X; X;
  X; X; X; X; X; X; X; X; X; X; X; X; X; X; X; X; X; X; X; X; X; X; X; X; X; X; X; X; X; X; X; X; X; X; X; X; X; X; X;
  X; X; X; X; X; X; X; X; X; X; X; X; X; X; X; X; X; X; X; X; X; X; X; X; X; X; X; X; X; X; X; X; X; X; X; X; X; X; X;
  X; X; X; X; X; X; X; X; X; X; X; X; X; X; X; X; X; X; X; X; X; X].
Definition hencs_199 : list henc := [
  X; X; X; X; X; X; X; X; X; X; X; X; X; X; X; X; X; X; X; X; X; X; X; X; X; X; X; X; X; X; X; X; E 31 0x29ffffec; X;
  X; X; X; E 31 0x2bffffec; X; X; X; X; X; X; X; E 31 0x2dffffec; E 31 0x2fffffec; E 31 0x31ffffec; E 30 0x1ffffec;
  E 30 0x3ffffec; E 30 0x5ffffec; E 31 0x33ffffec; E 31 0x35ffffec; E 31 0x37ffffec; E 31 0x39ffffec; E 31 0x3bffffec;
  E 31 0x3dffffec; E 31 0x3fffffec; E 32 0xb9ffffec; X; X; E 31 0x41ffffec; X; X; X; E 31 0x43ffffec; E 32 0xbbffffec;
  E 32 0xbdffffec; E 32 0xbfffffec; E 32 0xc1ffffec; E 32 0xc3ffffec; E 32 0xc5ffffec; E 32 0xc7ffffec;
  E 32 0xc9ffffec; E 32 0xcbffffec; E 32 0xcdffffec; E 32 0xcfffffec; E 32 0xd1ffffec; E 32 0xd3ffffec;
  E 32 0xd5ffffec; E 32 0xd7ffffec; E 32 0xd9ffffec; E 32 0xdbffffec; E 32 0xddffffec; E 32 0xdfffffec;
  E 32 0xe1ffffec; E 32 0xe3ffffec; E 32 0xe5ffffec; X; E 32 0xe7ffffec; X; X; X; X; X; E 31 0x45ffffec; X;
  E 30 0x7ffffec; E 31 0x47ffffec; E 30 0x9ffffec; E 31 0x49ffffec; E 30 0xbffffec; E 31 0x4bffffec; E 31 0x4dffffec;
  E 31 0x4fffffec; E 30 0xdffffec; E 32 0xe9ffffec; E 32 0xebffffec; E 31 0x51ffffec; E 31 0x53ffffec;
  E 31 0x55ffffec; E 30 0xfffffec; E 31 0x57ffffec; E 32 0xedffffec; E 31 0x59ffffec; E 30 0x11ffffec;
  E 30 0x13ffffec; E 31 0x5bffffec; E 32 0xefffffec; E 32 0xf1ffffec; E 32 0xf3ffffec; E 32 0xf5ffffec;
  E 32 0xf7ffffec; X; X; X; X; X; X; X; X; X; X; X; X; X; X; X; X; X; X; X; X; X; X; X; X; X; X; X; X; X; X; X; X; X;
  X; X; X; X; X; X; X; X; X; X; X; X; X; X; X; X; X; X; X; X; X; X; X; X; X; X; X; X; X; X; X; X; X; X; X; X; X; X; X;
  X; X; X; X; X; X; X; X; X; X; X; X; X; X; X; X; X; X; X; X; X; X; X; X; X; X; X; X; X; X; X; X; X; X; X; X; X; X; X;
  X; X; X; X; X; X; X; X; X; X; X; X; X; X; X; X; X; X; X; X; X; X].
Definition hencs_200 : list henc := [
  X; X; X; X; X; X; X; X; X; X; X; X; X; X; X; X; X; X; X; X; X; X; X; X; X; X; X; X; X; X; X; X; E 32 0x53ffffe2; X;
  X; X; X; E 32 0x57ffffe2; X; X; X; X; X; X; X; E 32 0x5bffffe2; E 32 0x5fffffe2; E 32 0x63ffffe2; E 31 0x3ffffe2;
  E 31 0x7ffffe2; E 31 0xbffffe2; E 32 0x67ffffe2; E 32 0x6bffffe2; E 32 0x6fffffe2; E 32 0x73ffffe2; E 32 0x77ffffe2;
  E 32 0x7bffffe2; E 32 0x7fffffe2; X; X; X; E 32 0x83ffffe2; X; X; X; E 32 0x87ffffe2; X; X; X; X; X; X; X; X; X; X;
  X; X; X; X; X; X; X; X; X; X; X; X; X; X; X; X; X; X; X; E 32 0x8bffffe2; X; E 31 0xfffffe2; E 32 0x8fffffe2;
  E 31 0x13ffffe2; E 32 0x93ffffe2; E 31 0x17ffffe2; E 32 0x97ffffe2; E 32 0x9bffffe2; E 32 0x9fffffe2;
  E 31 0x1bffffe2; X; X; E 32 0xa3ffffe2; E 32 0xa7ffffe2; E 32 0xabffffe2; E 31 0x1fffffe2; E 32 0xafffffe2; X;
  E 32 0xb3ffffe2; E 31 0x23ffffe2; E 31 0x27ffffe2; E 32 0xb7ffffe2; X; X; X; X; X; X; X; X; X; X; X; X; X; X; X; X;
  X; X; X; X; X; X; X; X; X; X; X; X; X; X; X; X; X; X; X; X; X; X; X; X; X; X; X; X; X; X; X; X; X; X; X; X; X; X; X;
  X; X; X; X; X; X; X; X; X; X; X; X; X; X; X; X; X; X; X; X; X; X; X; X; X; X; X; X; X; X; X; X; X; X; X; X; X; X; X;
  X; X; X; X; X; X; X; X; X; X; X; X; X; X; X; X; X; X; X; X; X; X; X; X; X; X; X; X; X; X; X; X; X; X; X; X; X; X; X;
  X; X; X; X; X].
Definition hencs_201 : list henc := [
  X; X; X; X; X; X; X; X; X; X; X; X; X; X; X; X; X; X; X; X; X; X; X; X; X; X; X; X; X; X; X; X; E 32 0x53ffffe3; X;
  X; X; X; E 32 0x57ffffe3; X; X; X; X; X; X; X; E 32 0x5bffffe3; E 32 0x5fffffe3; E 32 0x63ffffe3; E 31 0x3ffffe3;
  E 31 0x7ffffe3; E 31 0xbffffe3; E 32 0x67ffffe3; E 32 0x6bffffe3; E 32 0x6fffffe3; E 32 0x73ffffe3; E 32 0x77ffffe3;
  E 32 0x7bffffe3; E 32 0x7fffffe3; X; X; X; E 32 0x83ffffe3; X; X; X; E 32 0x87ffffe3; X; X; X; X; X; X; X; X; X; X;
  X; X; X; X; X; X; X; X; X; X; X; X; X; X; X; X; X; X; X; E 32 0x8bffffe3; X; E 31 0xfffffe3; E 32 0x8fffffe3;
  E 31 0x13ffffe3; E 32 0x93ffffe3; E 31 0x17ffffe3; E 32 0x97ffffe3; E 32 0x9bffffe3; E 32 0x9fffffe3;
  E 31 0x1bffffe3; X; X; E 32 0xa3ffffe3; E 32 0xa7ffffe3; E 32 0xabffffe3; E 31 0x1fffffe3; E 32 0xafffffe3; X;
  E 32 0xb3ffffe3; E 31 0x23ffffe3; E 31 0x27ffffe3; E 32 0xb7ffffe3; X; X; X; X; X; X; X; X; X; X; X; X; X; X; X; X;
  X; X; X; X; X; X; X; X; X; X; X; X; X; X; X; X; X; X; X; X; X; X; X; X; X; X; X; X; X; X; X; X; X; X; X; X; X; X; X;
  X; X; X; X; X; X; X; X; X; X; X; X; X; X; X; X; X; X; X; X; X; X; X; X; X; X; X; X; X; X; X; X; X; X; X; X; X; X; X;
  X; X; X; X; X; X; X; X; X; X; X; X; X; X; X; X; X; X; X; X; X; X; X; X; X; X; X; X; X; X; X; X; X; X; X; X; X; X; X;
  X; X; X; X; X].
Definition hencs_202 : list henc := [
  X; X; X; X; X; X; X; X; X; X; X; X; X; X; X; X; X; X; X; X; X; X; X; X; X; X; X; X; X; X; X; X; E 32 0x53ffffe4; X;
  X; X; X; E 32 0x57ffffe4; X; X; X; X; X; X; X; E 32 0x5bffffe4; E 32 0x5fffffe4; E 32 0x63ffffe4; E 31 0x3ffffe4;
  E 31 0x7ffffe4; E 31 0xbffffe4; E 32 0x67ffffe4; E 32 0x6bffffe4; E 32 0x6fffffe4; E 32 0x73ffffe4; E 32 0x77ffffe4;
  E 32 0x7bffffe4; E 32 0x7fffffe4; X; X; X; E 32 0x83ffffe4; X; X; X; E 32 0x87ffffe4; X; X; X; X; X; X; X; X; X; X;
  X; X; X; X; X; X; X; X; X; X; X; X; X; X; X; X; X; X; X; E 32 0x8bffffe4; X; E 31 0xfffffe4; E 32 0x8fffffe4;
  E 31 0x13ffffe4; E 32 0x93ffffe4; E 31 0x17ffffe4; E 32 0x97ffffe4; E 32 0x9bffffe4; E 32 0x9fffffe4;
  E 31 0x1bffffe4; X; X; E 32 0xa3ffffe4; E 32 0xa7ffffe4; E 32 0xabffffe4; E 31 0x1fffffe4; E 32 0xafffffe4; X;
  E 32 0xb3ffffe4; E 31 0x23ffffe4; E 31 0x27ffffe4; E 32 0xb7ffffe4; X; X; X; X; X; X; X; X; X; X; X; X; X; X; X; X;
  X; X; X; X; X; X; X; X; X; X; X; X; X; X; X; X; X; X; X; X; X; X; X; X; X; X; X; X; X; X; X; X; X; X; X; X; X; X; X;
  X; X; X; X; X; X; X; X; X; X; X; X; X; X; X; X; X; X; X; X; X; X; X; X; X; X; X; X; X; X; X; X; X; X; X; X; X; X; X;
  X; X; X; X; X; X; X; X; X; X; X; X; X; X; X; X; X; X; X; X; X; X; X; X; X; X; X; X; X; X; X; X; X; X; X; X; X; X; X;
  X; X; X; X; X].
Definition hencs_203 : list henc := [
  X; X; X; X; X; X; X; X; X; X; X; X; X; X; X; X; X; X; X; X; X; X; X; X; X; X; X; X; X; X; X; X; X; X; X; X; X; X; X;
  X; X; X; X; X; X; X; X; X; E 32 0x7ffffde; E 32 0xfffffde; E 32 0x17ffffde; X; X; X; X; X; X; X; X; X; X; X; X; X;
  X; X; X; X; X; X; X; X; X; X; X; X; X; X; X; X; X; X; X; X; X; X; X; X; X; X; X; X; X; X; X; X; X; E 32 0x1fffffde;
  X; E 32 0x27ffffde; X; E 32 0x2fffffde; X; X; X; E 32 0x37ffffde; X; X; X; X; X; E 32 0x3fffffde; X; X; X;
  E 32 0x47ffffde; E 32 0x4fffffde; X; X; X; X; X; X; X; X; X; X; X; X; X; X; X; X; X; X; X; X; X; X; X; X; X; X; X;
  X; X; X; X; X; X; X; X; X; X; X; X; X; X; X; X; X; X; X; X; X; X; X; X; X; X; X; X; X; X; X; X; X; X; X; X; X; X; X;
  X; X; X; X; X; X; X; X; X; X; X; X; X; X; X; X; X; X; X; X; X; X; X; X; X; X; X; X; X; X; X; X; X; X; X; X; X; X; X;
  X; X; X; X; X; X; X; X; X; X; X; X; X; X; X; X; X; X; X; X; X; X; X; X; X; X; X; X; X; X; X; X; X; X].
Definition hencs_204 : list henc := [
  X; X; X; X; X; X; X; X; X; X; X; X; X; X; X; X; X; X; X; X; X; X; X; X; X; X; X; X; X; X; X; X; X; X; X; X; X; X; X;
  X; X; X; X; X; X; X; X; X; E 32 0x7ffffdf; E 32 0xfffffdf; E 32 0x17ffffdf; X; X; X; X; X; X; X; X; X; X; X; X; X;
  X; X; X; X; X; X; X; X; X; X; X; X; X; X; X; X; X; X; X; X; X; X; X; X; X; X; X; X; X; X; X; X; X; E 32 0x1fffffdf;
  X; E 32 0x27ffffdf; X; E 32 0x2fffffdf; X; X; X; E 32 0x37ffffdf; X; X; X; X; X; E 32 0x3fffffdf; X; X; X;
  E 32 0x47ffffdf; E 32 0x4fffffdf; X; X; X; X; X; X; X; X; X; X; X; X; X; X; X; X; X; X; X; X; X; X; X; X; X; X; X;
  X; X; X; X; X; X; X; X; X; X; X; X; X; X; X; X; X; X; X; X; X; X; X; X; X; X; X; X; X; X; X; X; X; X; X; X; X; X; X;
  X; X; X; X; X; X; X; X; X; X; X; X; X; X; X; X; X; X; X; X; X; X; X; X; X; X; X; X; X; X; X; X; X; X; X; X; X; X; X;
  X; X; X; X; X; X; X; X; X; X; X; X; X; X; X; X; X; X; X; X; X; X; X; X; X; X; X; X; X; X; X; X; X; X].
Definition hencs_205 : list henc := [
  X; X; X; X; X; X; X; X; X; X; X; X; X; X; X; X; X; X; X; X; X; X; X; X; X; X; X; X; X; X; X; X; E 32 0x53ffffe5; X;
  X; X; X; E 32 0x57ffffe5; X; X; X; X; X; X; X; E 32 0x5bffffe5; E 32 0x5fffffe5; E 32 0x63ffffe5; E 31 0x3ffffe5;
  E 31 0x7ffffe5; E 31 0xbffffe5; E 32 0x67ffffe5; E 32 0x6bffffe5; E 32 0x6fffffe5; E 32 0x73ffffe5; E 32 0x77ffffe5;
  E 32 0x7bffffe5; E 32 0x7fffffe5; X; X; X; E 32 0x83ffffe5; X; X; X; E 32 0x87ffffe5; X; X; X; X; X; X; X; X; X; X;
  X; X; X; X; X; X; X; X; X; X; X; X; X; X; X; X; X; X; X; E 32 0x8bffffe5; X; E 31 0xfffffe5; E 32 0x8fffffe5;
  E 31 0x13ffffe5; E 32 0x93ffffe5; E 31 0x17ffffe5; E 32 0x97ffffe5; E 32 0x9bffffe5; E 32 0x9fffffe5;
  E 31 0x1bffffe5; X; X; E 32 0xa3ffffe5; E 32 0xa7ffffe5; E 32 0xabffffe5; E 31 0x1fffffe5; E 32 0xafffffe5; X;
  E 32 0xb3ffffe5; E 31 0x23ffffe5; E 31 0x27ffffe5; E 32 0xb7ffffe5; X; X; X; X; X; X; X; X; X; X; X; X; X; X; X; X;
  X; X; X; X; X; X; X; X; X; X; X; X; X; X; X; X; X; X; X; X; X; X; X; X; X; X; X; X; X; X; X; X; X; X; X; X; X; X; X;
  X; X; X; X; X; X; X; X; X; X; X; X; X; X; X; X; X; X; X; X; X; X; X; X; X; X; X; X; X; X; X; X; X; X; X; X; X; X; X;
  X; X; X; X; X; X; X; X; X; X; X; X; X; X; X; X; X; X; X; X; X; X; X; X; X; X; X; X; X; X; X; X; X; X; X; X; X; X; X;
  X; X; X; X; X].
Definition hencs_206 : list henc := [
  X; X; X; X; X; X; X; X; X; X; X; X; X; X; X; X; X; X; X; X; X; X; X; X; X; X; X; X; X; X; X; X; E 30 0x14fffff1; X;
  X; X; X; E 30 0x15fffff1; E 32 0xf8fffff1; X; X; X; E 32 0xf9fffff1; X; E 32 0xfafffff1; E 30 0x16fffff1;
  E 30 0x17fffff1; E 30 0x18fffff1; E 29 0xfffff1; E 29 0x1fffff1; E 29 0x2fffff1; E 30 0x19fffff1; E 30 0x1afffff1;
  E 30 0x1bfffff1; E 30 0x1cfffff1; E 30 0x1dfffff1; E 30 0x1efffff1; E 30 0x1ffffff1; E 31 0x5cfffff1;
  E 32 0xfbfffff1; X; E 30 0x20fffff1; X; X; X; E 30 0x21fffff1; E 31 0x5dfffff1; E 31 0x5efffff1; E 31 0x5ffffff1;
  E 31 0x60fffff1; E 31 0x61fffff1; E 31 0x62fffff1; E 31 0x63fffff1; E 31 0x64fffff1; E 31 0x65fffff1;
  E 31 0x66fffff1; E 31 0x67fffff1; E 31 0x68fffff1; E 31 0x69fffff1; E 31 0x6afffff1; E 31 0x6bfffff1;
  E 31 0x6cfffff1; E 31 0x6dfffff1; E 31 0x6efffff1; E 31 0x6ffffff1; E 31 0x70fffff1; E 31 0x71fffff1;
  E 31 0x72fffff1; E 32 0xfcfffff1; E 31 0x73fffff1; E 32 0xfdfffff1; X; X; X; X; E 30 0x22fffff1; X; E 29 0x3fffff1;
  E 30 0x23fffff1; E 29 0x4fffff1; E 30 0x24fffff1; E 29 0x5fffff1; E 30 0x25fffff1; E 30 0x26fffff1; E 30 0x27fffff1;
  E 29 0x6fffff1; E 31 0x74fffff1; E 31 0x75fffff1; E 30 0x28fffff1; E 30 0x29fffff1; E 30 0x2afffff1; E 29 0x7fffff1;
  E 30 0x2bfffff1; E 31 0x76fffff1; E 30 0x2cfffff1; E 29 0x8fffff1; E 29 0x9fffff1; E 30 0x2dfffff1; E 31 0x77fffff1;
  E 31 0x78fffff1; E 31 0x79fffff1; E 31 0x7afffff1; E 31 0x7bfffff1; X; X; X; X; X; X; X; X; X; X; X; X; X; X; X; X;
  X; X; X; X; X; X; X; X; X; X; X; X; X; X; X; X; X; X; X; X; X; X; X; X; X; X; X; X; X; X; X; X; X; X; X; X; X; X; X;
  X; X; X; X; X; X; X; X; X; X; X; X; X; X; X; X; X; X; X; X; X; X; X; X; X; X; X; X; X; X; X; X; X; X; X; X; X; X; X;
  X; X; X; X; X; X; X; X; X; X; X; X; X; X; X; X; X; X; X; X; X; X; X; X; X; X; X; X; X; X; X; X; X; X; X; X; X; X; X].
Definition hencs_207 : list henc := [
  X; X; X; X; X; X; X; X; X; X; X; X; X; X; X; X; X; X; X; X; X; X; X; X; X; X; X; X; X; X; X; X; E 31 0x29ffffed; X;
  X; X; X; E 31 0x2bffffed; X; X; X; X; X; X; X; E 31 0x2dffffed; E 31 0x2fffffed; E 31 0x31ffffed; E 30 0x1ffffed;
  E 30 0x3ffffed; E 30 0x5ffffed; E 31 0x33ffffed; E 31 0x35ffffed; E 31 0x37ffffed; E 31 0x39ffffed; E 31 0x3bffffed;
  E 31 0x3dffffed; E 31 0x3fffffed; E 32 0xb9ffffed; X; X; E 31 0x41ffffed; X; X; X; E 31 0x43ffffed; E 32 0xbbffffed;
  E 32 0xbdffffed; E 32 0xbfffffed; E 32 0xc1ffffed; E 32 0xc3ffffed; E 32 0xc5ffffed; E 32 0xc7ffffed;
  E 32 0xc9ffffed; E 32 0xcbffffed; E 32 0xcdffffed; E 32 0xcfffffed; E 32 0xd1ffffed; E 32 0xd3ffffed;
  E 32 0xd5ffffed; E 32 0xd7ffffed; E 32 0xd9ffffed; E 32 0xdbffffed; E 32 0xddffffed; E 32 0xdfffffed;
  E 32 0xe1ffffed; E 32 0xe3ffffed; E 32 0xe5ffffed; X; E 32 0xe7ffffed; X; X; X; X; X; E 31 0x45ffffed; X;
  E 30 0x7ffffed; E 31 0x47ffffed; E 30 0x9ffffed; E 31 0x49ffffed; E 30 0xbffffed; E 31 0x4bffffed; E 31 0x4dffffed;
  E 31 0x4fffffed; E 30 0xdffffed; E 32 0xe9ffffed; E 32 0xebffffed; E 31 0x51ffffed; E 31 0x53ffffed;
  E 31 0x55ffffed; E 30 0xfffffed; E 31 0x57ffffed; E 32 0xedffffed; E 31 0x59ffffed; E 30 0x11ffffed;
  E 30 0x13ffffed; E 31 0x5bffffed; E 32 0xefffffed; E 32 0xf1ffffed; E 32 0xf3ffffed; E 32 0xf5ffffed;
  E 32 0xf7ffffed; X; X; X; X; X; X; X; X; X; X; X; X; X; X; X; X; X; X; X; X; X; X; X; X; X; X; X; X; X; X; X; X; X;
  X; X; X; X; X; X; X; X; X; X; X; X; X; X; X; X; X; X; X; X; X; X; X; X; X; X; X; X; X; X; X; X; X; X; X; X; X; X; X;
  X; X; X; X; X; X; X; X; X; X; X; X; X; X; X; X; X; X; X; X; X; X; X; X; X; X; X; X; X; X; X; X; X; X; X; X; X; X; X;
  X; X; X; X; X; X; X; X; X; X; X; X; X; X; X; X; X; X; X; X; X; X].
Definition hencs_208 : list henc := [
  E 32 0xffc7fff2; X; X; X; X; X; X; X; X; X; X; X; X; X; X; X; X; X; X; X; X; X; X; X; X; X; X; X; X; X; X; X;
  E 25 0xa7fff2; E 29 0x1fc7fff2; E 29 0x1fcffff2; E 31 0x7fd7fff2; E 32 0xffcffff2; E 25 0xaffff2; E 27 0x7c7fff2;
  E 30 0x3fd7fff2; E 29 0x1fd7fff2; E 29 0x1fdffff2; E 27 0x7cffff2; E 30 0x3fdffff2; E 27 0x7d7fff2; E 25 0xb7fff2;
  E 25 0xbffff2; E 25 0xc7fff2; E 24 0x7fff2; E 24 0xffff2; E 24 0x17fff2; E 25 0xcffff2; E 25 0xd7fff2;
  E 25 0xdffff2; E 25 0xe7fff2; E 25 0xeffff2; E 25 0xf7fff2; E 25 0xfffff2; E 26 0x2e7fff2; E 27 0x7dffff2; X;
  E 25 0x107fff2; E 31 0x7fdffff2; E 29 0x1fe7fff2; E 32 0xffd7fff2; E 25 0x10ffff2; E 26 0x2effff2; E 26 0x2f7fff2;
  E 26 0x2fffff2; E 26 0x307fff2; E 26 0x30ffff2; E 26 0x317fff2; E 26 0x31ffff2; E 26 0x327fff2; E 26 0x32ffff2;
  E 26 0x337fff2; E 26 0x33ffff2; E 26 0x347fff2; E 26 0x34ffff2; E 26 0x357fff2; E 26 0x35ffff2; E 26 0x367fff2;
  E 26 0x36ffff2; E 26 0x377fff2; E 26 0x37ffff2; E 26 0x387fff2; E 26 0x38ffff2; E 26 0x397fff2; E 27 0x7e7fff2;
  E 26 0x39ffff2; E 27 0x7effff2; E 32 0xffdffff2; X; E 32 0xffe7fff2; X; E 25 0x117fff2; X; E 24 0x1ffff2;
  E 25 0x11ffff2; E 24 0x27fff2; E 25 0x127fff2; E 24 0x2ffff2; E 25 0x12ffff2; E 25 0x137fff2; E 25 0x13ffff2;
  E 24 0x37fff2; E 26 0x3a7fff2; E 26 0x3affff2; E 25 0x147fff2; E 25 0x14ffff2; E 25 0x157fff2; E 24 0x3ffff2;
  E 25 0x15ffff2; E 26 0x3b7fff2; E 25 0x167fff2; E 24 0x47fff2; E 24 0x4ffff2; E 25 0x16ffff2; E 26 0x3bffff2;
  E 26 0x3c7fff2; E 26 0x3cffff2; E 26 0x3d7fff2; E 26 0x3dffff2; X; E 30 0x3fe7fff2; X; E 32 0xffeffff2; X; X; X; X;
  X; X; X; X; X; X; X; X; X; X; X; X; X; X; X; X; X; X; X; X; X; X; X; X; X; X; X; X; X; X; X; X; X; X; X; X; X; X; X;
  X; X; X; X; X; X; X; X; X; X; X; X; X; X; X; X; X; X; X; X; X; X; X; X; X; X; X; X; X; X; X; X; X; X; X; X; X; X; X;
  X; X; X; X; X; X; X; X; X; X; X; X; X; X; X; X; X; X; X; X; X; X; X; X; X; X; X; X; X; X; X; X; X; X; X; X; X; X; X;
  X; X; X; X; X; X; X; X].
Definition hencs_209 : list henc := [
  X; X; X; X; X; X; X; X; X; X; X; X; X; X; X; X; X; X; X; X; X; X; X; X; X; X; X; X; X; X; X; X; E 27 0x29fffe3;
  E 31 0x7f1fffe3; E 31 0x7f3fffe3; X; X; E 27 0x2bfffe3; E 29 0x1f1fffe3; E 32 0xff5fffe3; E 31 0x7f5fffe3;
  E 31 0x7f7fffe3; E 29 0x1f3fffe3; E 32 0xff7fffe3; E 29 0x1f5fffe3; E 27 0x2dfffe3; E 27 0x2ffffe3; E 27 0x31fffe3;
  E 26 0x1fffe3; E 26 0x3fffe3; E 26 0x5fffe3; E 27 0x33fffe3; E 27 0x35fffe3; E 27 0x37fffe3; E 27 0x39fffe3;
  E 27 0x3bfffe3; E 27 0x3dfffe3; E 27 0x3ffffe3; E 28 0xb9fffe3; E 29 0x1f7fffe3; X; E 27 0x41fffe3; X;
  E 31 0x7f9fffe3; X; E 27 0x43fffe3; E 28 0xbbfffe3; E 28 0xbdfffe3; E 28 0xbffffe3; E 28 0xc1fffe3; E 28 0xc3fffe3;
  E 28 0xc5fffe3; E 28 0xc7fffe3; E 28 0xc9fffe3; E 28 0xcbfffe3; E 28 0xcdfffe3; E 28 0xcffffe3; E 28 0xd1fffe3;
  E 28 0xd3fffe3; E 28 0xd5fffe3; E 28 0xd7fffe3; E 28 0xd9fffe3; E 28 0xdbfffe3; E 28 0xddfffe3; E 28 0xdffffe3;
  E 28 0xe1fffe3; E 28 0xe3fffe3; E 28 0xe5fffe3; E 29 0x1f9fffe3; E 28 0xe7fffe3; E 29 0x1fbfffe3; X; X; X; X;
  E 27 0x45fffe3; X; E 26 0x7fffe3; E 27 0x47fffe3; E 26 0x9fffe3; E 27 0x49fffe3; E 26 0xbfffe3; E 27 0x4bfffe3;
  E 27 0x4dfffe3; E 27 0x4ffffe3; E 26 0xdfffe3; E 28 0xe9fffe3; E 28 0xebfffe3; E 27 0x51fffe3; E 27 0x53fffe3;
  E 27 0x55fffe3; E 26 0xffffe3; E 27 0x57fffe3; E 28 0xedfffe3; E 27 0x59fffe3; E 26 0x11fffe3; E 26 0x13fffe3;
  E 27 0x5bfffe3; E 28 0xeffffe3; E 28 0xf1fffe3; E 28 0xf3fffe3; E 28 0xf5fffe3; E 28 0xf7fffe3; X; E 32 0xff9fffe3;
  X; X; X; X; X; X; X; X; X; X; X; X; X; X; X; X; X; X; X; X; X; X; X; X; X; X; X; X; X; X; X; X; X; X; X; X; X; X; X;
  X; X; X; X; X; X; X; X; X; X; X; X; X; X; X; X; X; X; X; X; X; X; X; X; X; X; X; X; X; X; X; X; X; X; X; X; X; X; X;
  X; X; X; X; X; X; X; X; X; X; X; X; X; X; X; X; X; X; X; X; X; X; X; X; X; X; X; X; X; X; X; X; X; X; X; X; X; X; X;
  X; X; X; X; X; X; X; X; X; X; X; X; X; X].
Definition hencs_210 : list henc := [
  X; X; X; X; X; X; X; X; X; X; X; X; X; X; X; X; X; X; X; X; X; X; X; X; X; X; X; X; X; X; X; X; E 32 0x53ffffe6; X;
  X; X; X; E 32 0x57ffffe6; X; X; X; X; X; X; X; E 32 0x5bffffe6; E 32 0x5fffffe6; E 32 0x63ffffe6; E 31 0x3ffffe6;
  E 31 0x7ffffe6; E 31 0xbffffe6; E 32 0x67ffffe6; E 32 0x6bffffe6; E 32 0x6fffffe6; E 32 0x73ffffe6; E 32 0x77ffffe6;
  E 32 0x7bffffe6; E 32 0x7fffffe6; X; X; X; E 32 0x83ffffe6; X; X; X; E 32 0x87ffffe6; X; X; X; X; X; X; X; X; X; X;
  X; X; X; X; X; X; X; X; X; X; X; X; X; X; X; X; X; X; X; E 32 0x8bffffe6; X; E 31 0xfffffe6; E 32 0x8fffffe6;
  E 31 0x13ffffe6; E 32 0x93ffffe6; E 31 0x17ffffe6; E 32 0x97ffffe6; E 32 0x9bffffe6; E 32 0x9fffffe6;
  E 31 0x1bffffe6; X; X; E 32 0xa3ffffe6; E 32 0xa7ffffe6; E 32 0xabffffe6; E 31 0x1fffffe6; E 32 0xafffffe6; X;
  E 32 0xb3ffffe6; E 31 0x23ffffe6; E 31 0x27ffffe6; E 32 0xb7ffffe6; X; X; X; X; X; X; X; X; X; X; X; X; X; X; X; X;
  X; X; X; X; X; X; X; X; X; X; X; X; X; X; X; X; X; X; X; X; X; X; X; X; X; X; X; X; X; X; X; X; X; X; X; X; X; X; X;
  X; X; X; X; X; X; X; X; X; X; X; X; X; X; X; X; X; X; X; X; X; X; X; X; X; X; X; X; X; X; X; X; X; X; X; X; X; X; X;
  X; X; X; X; X; X; X; X; X; X; X; X; X; X; X; X; X; X; X; X; X; X; X; X; X; X; X; X; X; X; X; X; X; X; X; X; X; X; X;
  X; X; X; X; X].
Definition hencs_211 : list henc := [
  X; X; X; X; X; X; X; X; X; X; X; X; X; X; X; X; X; X; X; X; X; X; X; X; X; X; X; X; X; X; X; X; X; X; X; X; X; X; X;
  X; X; X; X; X; X; X; X; X; E 32 0x7ffffe0; E 32 0xfffffe0; E 32 0x17ffffe0; X; X; X; X; X; X; X; X; X; X; X; X; X;
  X; X; X; X; X; X; X; X; X; X; X; X; X; X; X; X; X; X; X; X; X; X; X; X; X; X; X; X; X; X; X; X; X; E 32 0x1fffffe0;
  X; E 32 0x27ffffe0; X; E 32 0x2fffffe0; X; X; X; E 32 0x37ffffe0; X; X; X; X; X; E 32 0x3fffffe0; X; X; X;
  E 32 0x47ffffe0; E 32 0x4fffffe0; X; X; X; X; X; X; X; X; X; X; X; X; X; X; X; X; X; X; X; X; X; X; X; X; X; X; X;
  X; X; X; X; X; X; X; X; X; X; X; X; X; X; X; X; X; X; X; X; X; X; X; X; X; X; X; X; X; X; X; X; X; X; X; X; X; X; X;
  X; X; X; X; X; X; X; X; X; X; X; X; X; X; X; X; X; X; X; X; X; X; X; X; X; X; X; X; X; X; X; X; X; X; X; X; X; X; X;
  X; X; X; X; X; X; X; X; X; X; X; X; X; X; X; X; X; X; X; X; X; X; X; X; X; X; X; X; X; X; X; X; X; X].
Definition hencs_212 : list henc := [
  X; X; X; X; X; X; X; X; X; X; X; X; X; X; X; X; X; X; X; X; X; X; X; X; X; X; X; X; X; X; X; X; X; X; X; X; X; X; X;
  X; X; X; X; X; X; X; X; X; E 32 0x7ffffe1; E 32 0xfffffe1; E 32 0x17ffffe1; X; X; X; X; X; X; X; X; X; X; X; X; X;
  X; X; X; X; X; X; X; X; X; X; X; X; X; X; X; X; X; X; X; X; X; X; X; X; X; X; X; X; X; X; X; X; X; E 32 0x1fffffe1;
  X; E 32 0x27ffffe1; X; E 32 0x2fffffe1; X; X; X; E 32 0x37ffffe1; X; X; X; X; X; E 32 0x3fffffe1; X; X; X;
  E 32 0x47ffffe1; E 32 0x4fffffe1; X; X; X; X; X; X; X; X; X; X; X; X; X; X; X; X; X; X; X; X; X; X; X; X; X; X; X;
  X; X; X; X; X; X; X; X; X; X; X; X; X; X; X; X; X; X; X; X; X; X; X; X; X; X; X; X; X; X; X; X; X; X; X; X; X; X; X;
  X; X; X; X; X; X; X; X; X; X; X; X; X; X; X; X; X; X; X; X; X; X; X; X; X; X; X; X; X; X; X; X; X; X; X; X; X; X; X;
  X; X; X; X; X; X; X; X; X; X; X; X; X; X; X; X; X; X; X; X; X; X; X; X; X; X; X; X; X; X; X; X; X; X].
Definition hencs_213 : list henc := [
  X; X; X; X; X; X; X; X; X; X; X; X; X; X; X; X; X; X; X; X; X; X; X; X; X; X; X; X; X; X; X; X; E 32 0x53ffffe7; X;
  X; X; X; E 32 0x57ffffe7; X; X; X; X; X; X; X; E 32 0x5bffffe7; E 32 0x5fffffe7; E 32 0x63ffffe7; E 31 0x3ffffe7;
  E 31 0x7ffffe7; E 31 0xbffffe7; E 32 0x67ffffe7; E 32 0x6bffffe7; E 32 0x6fffffe7; E 32 0x73ffffe7; E 32 0x77ffffe7;
  E 32 0x7bffffe7; E 32 0x7fffffe7; X; X; X; E 32 0x83ffffe7; X; X; X; E 32 0x87ffffe7; X; X; X; X; X; X; X; X; X; X;
  X; X; X; X; X; X; X; X; X; X; X; X; X; X; X; X; X; X; X; E 32 0x8bffffe7; X; E 31 0xfffffe7; E 32 0x8fffffe7;
  E 31 0x13ffffe7; E 32 0x93ffffe7; E 31 0x17ffffe7; E 32 0x97ffffe7; E 32 0x9bffffe7; E 32 0x9fffffe7;
  E 31 0x1bffffe7; X; X; E 32 0xa3ffffe7; E 32 0xa7ffffe7; E 32 0xabffffe7; E 31 0x1fffffe7; E 32 0xafffffe7; X;
  E 32 0xb3ffffe7; E 31 0x23ffffe7; E 31 0x27ffffe7; E 32 0xb7ffffe7; X; X; X; X; X; X; X; X; X; X; X; X; X; X; X; X;
  X; X; X; X; X; X; X; X; X; X; X; X; X; X; X; X; X; X; X; X; X; X; X; X; X; X; X; X; X; X; X; X; X; X; X; X; X; X; X;
  X; X; X; X; X; X; X; X; X; X; X; X; X; X; X; X; X; X; X; X; X; X; X; X; X; X; X; X; X; X; X; X; X; X; X; X; X; X; X;
  X; X; X; X; X; X; X; X; X; X; X; X; X; X; X; X; X; X; X; X; X; X; X; X; X; X; X; X; X; X; X; X; X; X; X; X; X; X; X;
  X; X; X; X; X].
Definition hencs_214 : list henc := [
  X; X; X; X; X; X; X; X; X; X; X; X; X; X; X; X; X; X; X; X; X; X; X; X; X; X; X; X; X; X; X; X; X; X; X; X; X; X; X;
  X; X; X; X; X; X; X; X; X; E 32 0x7ffffe2; E 32 0xfffffe2; E 32 0x17ffffe2; X; X; X; X; X; X; X; X; X; X; X; X; X;
  X; X; X; X; X; X; X; X; X; X; X; X; X; X; X; X; X; X; X; X; X; X; X; X; X; X; X; X; X; X; X; X; X; E 32 0x1fffffe2;
  X; E 32 0x27ffffe2; X; E 32 0x2fffffe2; X; X; X; E 32 0x37ffffe2; X; X; X; X; X; E 32 0x3fffffe2; X; X; X;
  E 32 0x47ffffe2; E 32 0x4fffffe2; X; X; X; X; X; X; X; X; X; X; X; X; X; X; X; X; X; X; X; X; X; X; X; X; X; X; X;
  X; X; X; X; X; X; X; X; X; X; X; X; X; X; X; X; X; X; X; X; X; X; X; X; X; X; X; X; X; X; X; X; X; X; X; X; X; X; X;
  X; X; X; X; X; X; X; X; X; X; X; X; X; X; X; X; X; X; X; X; X; X; X; X; X; X; X; X; X; X; X; X; X; X; X; X; X; X; X;
  X; X; X; X; X; X; X; X; X; X; X; X; X; X; X; X; X; X; X; X; X; X; X; X; X; X; X; X; X; X; X; X; X; X].
Definition hencs_215 : list henc := [
  X; X; X; X; X; X; X; X; X; X; X; X; X; X; X; X; X; X; X; X; X; X; X; X; X; X; X; X; X; X; X; X; E 30 0x14fffff2; X;
  X; X; X; E 30 0x15fffff2; E 32 0xf8fffff2; X; X; X; E 32 0xf9fffff2; X; E 32 0xfafffff2; E 30 0x16fffff2;
  E 30 0x17fffff2; E 30 0x18fffff2; E 29 0xfffff2; E 29 0x1fffff2; E 29 0x2fffff2; E 30 0x19fffff2; E 30 0x1afffff2;
  E 30 0x1bfffff2; E 30 0x1cfffff2; E 30 0x1dfffff2; E 30 0x1efffff2; E 30 0x1ffffff2; E 31 0x5cfffff2;
  E 32 0xfbfffff2; X; E 30 0x20fffff2; X; X; X; E 30 0x21fffff2; E 31 0x5dfffff2; E 31 0x5efffff2; E 31 0x5ffffff2;
  E 31 0x60fffff2; E 31 0x61fffff2; E 31 0x62fffff2; E 31 0x63fffff2; E 31 0x64fffff2; E 31 0x65fffff2;
  E 31 0x66fffff2; E 31 0x67fffff2; E 31 0x68fffff2; E 31 0x69fffff2; E 31 0x6afffff2; E 31 0x6bfffff2;
  E 31 0x6cfffff2; E 31 0x6dfffff2; E 31 0x6efffff2; E 31 0x6ffffff2; E 31 0x70fffff2; E 31 0x71fffff2;
  E 31 0x72fffff2; E 32 0xfcfffff2; E 31 0x73fffff2; E 32 0xfdfffff2; X; X; X; X; E 30 0x22fffff2; X; E 29 0x3fffff2;
  E 30 0x23fffff2; E 29 0x4fffff2; E 30 0x24fffff2; E 29 0x5fffff2; E 30 0x25fffff2; E 30 0x26fffff2; E 30 0x27fffff2;
  E 29 0x6fffff2; E 31 0x74fffff2; E 31 0x75fffff2; E 30 0x28fffff2; E 30 0x29fffff2; E 30 0x2afffff2; E 29 0x7fffff2;
  E 30 0x2bfffff2; E 31 0x76fffff2; E 30 0x2cfffff2; E 29 0x8fffff2; E 29 0x9fffff2; E 30 0x2dfffff2; E 31 0x77fffff2;
  E 31 0x78fffff2; E 31 0x79fffff2; E 31 0x7afffff2; E 31 0x7bfffff2; X; X; X; X; X; X; X; X; X; X; X; X; X; X; X; X;
  X; X; X; X; X; X; X; X; X; X; X; X; X; X; X; X; X; X; X; X; X; X; X; X; X; X; X; X; X; X; X; X; X; X; X; X; X; X; X;
  X; X; X; X; X; X; X; X; X; X; X; X; X; X; X; X; X; X; X; X; X; X; X; X; X; X; X; X; X; X; X; X; X; X; X; X; X; X; X;
  X; X; X; X; X; X; X; X; X; X; X; X; X; X; X; X; X; X; X; X; X; X; X; X; X; X; X; X; X; X; X; X; X; X; X; X; X; X; X].
Definition hencs_216 : list henc := [
  X; X; X; X; X; X; X; X; X; X; X; X; X; X; X; X; X; X; X; X; X; X; X; X; X; X; X; X; X; X; X; X; E 27 0x29fffe4;
  E 31 0x7f1fffe4; E 31 0x7f3fffe4; X; X; E 27 0x2bfffe4; E 29 0x1f1fffe4; E 32 0xff5fffe4; E 31 0x7f5fffe4;
  E 31 0x7f7fffe4; E 29 0x1f3fffe4; E 32 0xff7fffe4; E 29 0x1f5fffe4; E 27 0x2dfffe4; E 27 0x2ffffe4; E 27 0x31fffe4;
  E 26 0x1fffe4; E 26 0x3fffe4; E 26 0x5fffe4; E 27 0x33fffe4; E 27 0x35fffe4; E 27 0x37fffe4; E 27 0x39fffe4;
  E 27 0x3bfffe4; E 27 0x3dfffe4; E 27 0x3ffffe4; E 28 0xb9fffe4; E 29 0x1f7fffe4; X; E 27 0x41fffe4; X;
  E 31 0x7f9fffe4; X; E 27 0x43fffe4; E 28 0xbbfffe4; E 28 0xbdfffe4; E 28 0xbffffe4; E 28 0xc1fffe4; E 28 0xc3fffe4;
  E 28 0xc5fffe4; E 28 0xc7fffe4; E 28 0xc9fffe4; E 28 0xcbfffe4; E 28 0xcdfffe4; E 28 0xcffffe4; E 28 0xd1fffe4;
  E 28 0xd3fffe4; E 28 0xd5fffe4; E 28 0xd7fffe4; E 28 0xd9fffe4; E 28 0xdbfffe4; E 28 0xddfffe4; E 28 0xdffffe4;
  E 28 0xe1fffe4; E 28 0xe3fffe4; E 28 0xe5fffe4; E 29 0x1f9fffe4; E 28 0xe7fffe4; E 29 0x1fbfffe4; X; X; X; X;
  E 27 0x45fffe4; X; E 26 0x7fffe4; E 27 0x47fffe4; E 26 0x9fffe4; E 27 0x49fffe4; E 26 0xbfffe4; E 27 0x4bfffe4;
  E 27 0x4dfffe4; E 27 0x4ffffe4; E 26 0xdfffe4; E 28 0xe9fffe4; E 28 0xebfffe4; E 27 0x51fffe4; E 27 0x53fffe4;
  E 27 0x55fffe4; E 26 0xffffe4; E 27 0x57fffe4; E 28 0xedfffe4; E 27 0x59fffe4; E 26 0x11fffe4; E 26 0x13fffe4;
  E 27 0x5bfffe4; E 28 0xeffffe4; E 28 0xf1fffe4; E 28 0xf3fffe4; E 28 0xf5fffe4; E 28 0xf7fffe4; X; E 32 0xff9fffe4;
  X; X; X; X; X; X; X; X; X; X; X; X; X; X; X; X; X; X; X; X; X; X; X; X; X; X; X; X; X; X; X; X; X; X; X; X; X; X; X;
  X; X; X; X; X; X; X; X; X; X; X; X; X; X; X; X; X; X; X; X; X; X; X; X; X; X; X; X; X; X; X; X; X; X; X; X; X; X; X;
  X; X; X; X; X; X; X; X; X; X; X; X; X; X; X; X; X; X; X; X; X; X; X; X; X; X; X; X; X; X; X; X; X; X; X; X; X; X; X;
  X; X; X; X; X; X; X; X; X; X; X; X; X; X].
Definition hencs_217 : list henc := [
  X; X; X; X; X; X; X; X; X; X; X; X; X; X; X; X; X; X; X; X; X; X; X; X; X; X; X; X; X; X; X; X; E 27 0x29fffe5;
  E 31 0x7f1fffe5; E 31 0x7f3fffe5; X; X; E 27 0x2bfffe5; E 29 0x1f1fffe5; E 32 0xff5fffe5; E 31 0x7f5fffe5;
  E 31 0x7f7fffe5; E 29 0x1f3fffe5; E 32 0xff7fffe5; E 29 0x1f5fffe5; E 27 0x2dfffe5; E 27 0x2ffffe5; E 27 0x31fffe5;
  E 26 0x1fffe5; E 26 0x3fffe5; E 26 0x5fffe5; E 27 0x33fffe5; E 27 0x35fffe5; E 27 0x37fffe5; E 27 0x39fffe5;
  E 27 0x3bfffe5; E 27 0x3dfffe5; E 27 0x3ffffe5; E 28 0xb9fffe5; E 29 0x1f7fffe5; X; E 27 0x41fffe5; X;
  E 31 0x7f9fffe5; X; E 27 0x43fffe5; E 28 0xbbfffe5; E 28 0xbdfffe5; E 28 0xbffffe5; E 28 0xc1fffe5; E 28 0xc3fffe5;
  E 28 0xc5fffe5; E 28 0xc7fffe5; E 28 0xc9fffe5; E 28 0xcbfffe5; E 28 0xcdfffe5; E 28 0xcffffe5; E 28 0xd1fffe5;
  E 28 0xd3fffe5; E 28 0xd5fffe5; E 28 0xd7fffe5; E 28 0xd9fffe5; E 28 0xdbfffe5; E 28 0xddfffe5; E 28 0xdffffe5;
  E 28 0xe1fffe5; E 28 0xe3fffe5; E 28 0xe5fffe5; E 29 0x1f9fffe5; E 28 0xe7fffe5; E 29 0x1fbfffe5; X; X; X; X;
  E 27 0x45fffe5; X; E 26 0x7fffe5; E 27 0x47fffe5; E 26 0x9fffe5; E 27 0x49fffe5; E 26 0xbfffe5; E 27 0x4bfffe5;
  E 27 0x4dfffe5; E 27 0x4ffffe5; E 26 0xdfffe5; E 28 0xe9fffe5; E 28 0xebfffe5; E 27 0x51fffe5; E 27 0x53fffe5;
  E 27 0x55fffe5; E 26 0xffffe5; E 27 0x57fffe5; E 28 0xedfffe5; E 27 0x59fffe5; E 26 0x11fffe5; E 26 0x13fffe5;
  E 27 0x5bfffe5; E 28 0xeffffe5; E 28 0xf1fffe5; E 28 0xf3fffe5; E 28 0xf5fffe5; E 28 0xf7fffe5; X; E 32 0xff9fffe5;
  X; X; X; X; X; X; X; X; X; X; X; X; X; X; X; X; X; X; X; X; X; X; X; X; X; X; X; X; X; X; X; X; X; X; X; X; X; X; X;
  X; X; X; X; X; X; X; X; X; X; X; X; X; X; X; X; X; X; X; X; X; X; X; X; X; X; X; X; X; X; X; X; X; X; X; X; X; X; X;
  X; X; X; X; X; X; X; X; X; X; X; X; X; X; X; X; X; X; X; X; X; X; X; X; X; X; X; X; X; X; X; X; X; X; X; X; X; X; X;
  X; X; X; X; X; X; X; X; X; X; X; X; X; X].
Definition hencs_218 : list henc := [
  X; X; X; X; X; X; X; X; X; X; X; X; X; X; X; X; X; X; X; X; X; X; X; X; X; X; X; X; X; X; X; X; E 32 0x53ffffe8; X;
  X; X; X; E 32 0x57ffffe8; X; X; X; X; X; X; X; E 32 0x5bffffe8; E 32 0x5fffffe8; E 32 0x63ffffe8; E 31 0x3ffffe8;
  E 31 0x7ffffe8; E 31 0xbffffe8; E 32 0x67ffffe8; E 32 0x6bffffe8; E 32 0x6fffffe8; E 32 0x73ffffe8; E 32 0x77ffffe8;
  E 32 0x7bffffe8; E 32 0x7fffffe8; X; X; X; E 32 0x83ffffe8; X; X; X; E 32 0x87ffffe8; X; X; X; X; X; X; X; X; X; X;
  X; X; X; X; X; X; X; X; X; X; X; X; X; X; X; X; X; X; X; E 32 0x8bffffe8; X; E 31 0xfffffe8; E 32 0x8fffffe8;
  E 31 0x13ffffe8; E 32 0x93ffffe8; E 31 0x17ffffe8; E 32 0x97ffffe8; E 32 0x9bffffe8; E 32 0x9fffffe8;
  E 31 0x1bffffe8; X; X; E 32 0xa3ffffe8; E 32 0xa7ffffe8; E 32 0xabffffe8; E 31 0x1fffffe8; E 32 0xafffffe8; X;
  E 32 0xb3ffffe8; E 31 0x23ffffe8; E 31 0x27ffffe8; E 32 0xb7ffffe8; X; X; X; X; X; X; X; X; X; X; X; X; X; X; X; X;
  X; X; X; X; X; X; X; X; X; X; X; X; X; X; X; X; X; X; X; X; X; X; X; X; X; X; X; X; X; X; X; X; X; X; X; X; X; X; X;
  X; X; X; X; X; X; X; X; X; X; X; X; X; X; X; X; X; X; X; X; X; X; X; X; X; X; X; X; X; X; X; X; X; X; X; X; X; X; X;
  X; X; X; X; X; X; X; X; X; X; X; X; X; X; X; X; X; X; X; X; X; X; X; X; X; X; X; X; X; X; X; X; X; X; X; X; X; X; X;
  X; X; X; X; X].
Definition hencs_219 : list henc := [
  X; X; X; X; X; X; X; X; X; X; X; X; X; X; X; X; X; X; X; X; X; X; X; X; X; X; X; X; X; X; X; X; E 32 0x53ffffe9; X;
  X; X; X; E 32 0x57ffffe9; X; X; X; X; X; X; X; E 32 0x5bffffe9; E 32 0x5fffffe9; E 32 0x63ffffe9; E 31 0x3ffffe9;
  E 31 0x7ffffe9; E 31 0xbffffe9; E 32 0x67ffffe9; E 32 0x6bffffe9; E 32 0x6fffffe9; E 32 0x73ffffe9; E 32 0x77ffffe9;
  E 32 0x7bffffe9; E 32 0x7fffffe9; X; X; X; E 32 0x83ffffe9; X; X; X; E 32 0x87ffffe9; X; X; X; X; X; X; X; X; X; X;
  X; X; X; X; X; X; X; X; X; X; X; X; X; X; X; X; X; X; X; E 32 0x8bffffe9; X; E 31 0xfffffe9; E 32 0x8fffffe9;
  E 31 0x13ffffe9; E 32 0x93ffffe9; E 31 0x17ffffe9; E 32 0x97ffffe9; E 32 0x9bffffe9; E 32 0x9fffffe9;
  E 31 0x1bffffe9; X; X; E 32 0xa3ffffe9; E 32 0xa7ffffe9; E 32 0xabffffe9; E 31 0x1fffffe9; E 32 0xafffffe9; X;
  E 32 0xb3ffffe9; E 31 0x23ffffe9; E 31 0x27ffffe9; E 32 0xb7ffffe9; X; X; X; X; X; X; X; X; X; X; X; X; X; X; X; X;
  X; X; X; X; X; X; X; X; X; X; X; X; X; X; X; X; X; X; X; X; X; X; X; X; X; X; X; X; X; X; X; X; X; X; X; X; X; X; X;
  X; X; X; X; X; X; X; X; X; X; X; X; X; X; X; X; X; X; X; X; X; X; X; X; X; X; X; X; X; X; X; X; X; X; X; X; X; X; X;
  X; X; X; X; X; X; X; X; X; X; X; X; X; X; X; X; X; X; X; X; X; X; X; X; X; X; X; X; X; X; X; X; X; X; X; X; X; X; X;
  X; X; X; X; X].
Definition hencs_220 : list henc := [
  X; X; X; X; X; X; X; X; X; X; X; X; X; X; X; X; X; X; X; X; X; X; X; X; X; X; X; X; X; X; X; X; X; X; X; X; X; X; X;
  X; X; X; X; X; X; X; X; X; X; X; X; X; X; X; X; X; X; X; X; X; X; X; X; X; X; X; X; X; X; X; X; X; X; X; X; X; X; X;
  X; X; X; X; X; X; X; X; X; X; X; X; X; X; X; X; X; X; X; X; X; X; X; X; X; X; X; X; X; X; X; X; X; X; X; X; X; X; X;
  X; X; X; X; X; X; X; X; X; X; X; X; X; X; X; X; X; X; X; X; X; X; X; X; X; X; X; X; X; X; X; X; X; X; X; X; X; X; X;
  X; X; X; X; X; X; X; X; X; X; X; X; X; X; X; X; X; X; X; X; X; X; X; X; X; X; X; X; X; X; X; X; X; X; X; X; X; X; X;
  X; X; X; X; X; X; X; X; X; X; X; X; X; X; X; X; X; X; X; X; X; X; X; X; X; X; X; X; X; X; X; X; X; X; X; X; X; X; X;
  X; X; X; X; X; X; X; X; X; X; X; X; X; X; X; X; X; X; X; X; X; X].
Definition hencs_221 : list henc := [
  X; X; X; X; X; X; X; X; X; X; X; X; X; X; X; X; X; X; X; X; X; X; X; X; X; X; X; X; X; X; X; X; X; X; X; X; X; X; X;
  X; X; X; X; X; X; X; X; X; E 32 0x7ffffe3; E 32 0xfffffe3; E 32 0x17ffffe3; X; X; X; X; X; X; X; X; X; X; X; X; X;
  X; X; X; X; X; X; X; X; X; X; X; X; X; X; X; X; X; X; X; X; X; X; X; X; X; X; X; X; X; X; X; X; X; E 32 0x1fffffe3;
  X; E 32 0x27ffffe3; X; E 32 0x2fffffe3; X; X; X; E 32 0x37ffffe3; X; X; X; X; X; E 32 0x3fffffe3; X; X; X;
  E 32 0x47ffffe3; E 32 0x4fffffe3; X; X; X; X; X; X; X; X; X; X; X; X; X; X; X; X; X; X; X; X; X; X; X; X; X; X; X;
  X; X; X; X; X; X; X; X; X; X; X; X; X; X; X; X; X; X; X; X; X; X; X; X; X; X; X; X; X; X; X; X; X; X; X; X; X; X; X;
  X; X; X; X; X; X; X; X; X; X; X; X; X; X; X; X; X; X; X; X; X; X; X; X; X; X; X; X; X; X; X; X; X; X; X; X; X; X; X;
  X; X; X; X; X; X; X; X; X; X; X; X; X; X; X; X; X; X; X; X; X; X; X; X; X; X; X; X; X; X; X; X; X; X].
Definition hencs_222 : list henc := [
  X; X; X; X; X; X; X; X; X; X; X; X; X; X; X; X; X; X; X; X; X; X; X; X; X; X; X; X; X; X; X; X; X; X; X; X; X; X; X;
  X; X; X; X; X; X; X; X; X; E 32 0x7ffffe4; E 32 0xfffffe4; E 32 0x17ffffe4; X; X; X; X; X; X; X; X; X; X; X; X; X;
  X; X; X; X; X; X; X; X; X; X; X; X; X; X; X; X; X; X; X; X; X; X; X; X; X; X; X; X; X; X; X; X; X; E 32 0x1fffffe4;
  X; E 32 0x27ffffe4; X; E 32 0x2fffffe4; X; X; X; E 32 0x37ffffe4; X; X; X; X; X; E 32 0x3fffffe4; X; X; X;
  E 32 0x47ffffe4; E 32 0x4fffffe4; X; X; X; X; X; X; X; X; X; X; X; X; X; X; X; X; X; X; X; X; X; X; X; X; X; X; X;
  X; X; X; X; X; X; X; X; X; X; X; X; X; X; X; X; X; X; X; X; X; X; X; X; X; X; X; X; X; X; X; X; X; X; X; X; X; X; X;
  X; X; X; X; X; X; X; X; X; X; X; X; X; X; X; X; X; X; X; X; X; X; X; X; X; X; X; X; X; X; X; X; X; X; X; X; X; X; X;
  X; X; X; X; X; X; X; X; X; X; X; X; X; X; X; X; X; X; X; X; X; X; X; X; X; X; X; X; X; X; X; X; X; X].
Definition hencs_223 : list henc := [
  X; X; X; X; X; X; X; X; X; X; X; X; X; X; X; X; X; X; X; X; X; X; X; X; X; X; X; X; X; X; X; X; X; X; X; X; X; X; X;
  X; X; X; X; X; X; X; X; X; E 32 0x7ffffe5; E 32 0xfffffe5; E 32 0x17ffffe5; X; X; X; X; X; X; X; X; X; X; X; X; X;
  X; X; X; X; X; X; X; X; X; X; X; X; X; X; X; X; X; X; X; X; X; X; X; X; X; X; X; X; X; X; X; X; X; E 32 0x1fffffe5;
  X; E 32 0x27ffffe5; X; E 32 0x2fffffe5; X; X; X; E 32 0x37ffffe5; X; X; X; X; X; E 32 0x3fffffe5; X; X; X;
  E 32 0x47ffffe5; E 32 0x4fffffe5; X; X; X; X; X; X; X; X; X; X; X; X; X; X; X; X; X; X; X; X; X; X; X; X; X; X; X;
  X; X; X; X; X; X; X; X; X; X; X; X; X; X; X; X; X; X; X; X; X; X; X; X; X; X; X; X; X; X; X; X; X; X; X; X; X; X; X;
  X; X; X; X; X; X; X; X; X; X; X; X; X; X; X; X; X; X; X; X; X; X; X; X; X; X; X; X; X; X; X; X; X; X; X; X; X; X; X;
  X; X; X; X; X; X; X; X; X; X; X; X; X; X; X; X; X; X; X; X; X; X; X; X; X; X; X; X; X; X; X; X; X; X].
Definition hencs_224 : list henc := [
  X; X; X; X; X; X; X; X; X; X; X; X; X; X; X; X; X; X; X; X; X; X; X; X; X; X; X; X; X; X; X; X; E 26 0x14fffec;
  E 30 0x3f8fffec; E 30 0x3f9fffec; E 32 0xffafffec; X; E 26 0x15fffec; E 28 0xf8fffec; E 31 0x7fafffec;
  E 30 0x3fafffec; E 30 0x3fbfffec; E 28 0xf9fffec; E 31 0x7fbfffec; E 28 0xfafffec; E 26 0x16fffec; E 26 0x17fffec;
  E 26 0x18fffec; E 25 0xfffec; E 25 0x1fffec; E 25 0x2fffec; E 26 0x19fffec; E 26 0x1afffec; E 26 0x1bfffec;
  E 26 0x1cfffec; E 26 0x1dfffec; E 26 0x1efffec; E 26 0x1ffffec; E 27 0x5cfffec; E 28 0xfbfffec; X; E 26 0x20fffec;
  E 32 0xffbfffec; E 30 0x3fcfffec; X; E 26 0x21fffec; E 27 0x5dfffec; E 27 0x5efffec; E 27 0x5ffffec; E 27 0x60fffec;
  E 27 0x61fffec; E 27 0x62fffec; E 27 0x63fffec; E 27 0x64fffec; E 27 0x65fffec; E 27 0x66fffec; E 27 0x67fffec;
  E 27 0x68fffec; E 27 0x69fffec; E 27 0x6afffec; E 27 0x6bfffec; E 27 0x6cfffec; E 27 0x6dfffec; E 27 0x6efffec;
  E 27 0x6ffffec; E 27 0x70fffec; E 27 0x71fffec; E 27 0x72fffec; E 28 0xfcfffec; E 27 0x73fffec; E 28 0xfdfffec; X;
  X; X; X; E 26 0x22fffec; X; E 25 0x3fffec; E 26 0x23fffec; E 25 0x4fffec; E 26 0x24fffec; E 25 0x5fffec;
  E 26 0x25fffec; E 26 0x26fffec; E 26 0x27fffec; E 25 0x6fffec; E 27 0x74fffec; E 27 0x75fffec; E 26 0x28fffec;
  E 26 0x29fffec; E 26 0x2afffec; E 25 0x7fffec; E 26 0x2bfffec; E 27 0x76fffec; E 26 0x2cfffec; E 25 0x8fffec;
  E 25 0x9fffec; E 26 0x2dfffec; E 27 0x77fffec; E 27 0x78fffec; E 27 0x79fffec; E 27 0x7afffec; E 27 0x7bfffec; X;
  E 31 0x7fcfffec; X; X; X; X; X; X; X; X; X; X; X; X; X; X; X; X; X; X; X; X; X; X; X; X; X; X; X; X; X; X; X; X; X;
  X; X; X; X; X; X; X; X; X; X; X; X; X; X; X; X; X; X; X; X; X; X; X; X; X; X; X; X; X; X; X; X; X; X; X; X; X; X; X;
  X; X; X; X; X; X; X; X; X; X; X; X; X; X; X; X; X; X; X; X; X; X; X; X; X; X; X; X; X; X; X; X; X; X; X; X; X; X; X;
  X; X; X; X; X; X; X; X; X; X; X; X; X; X; X; X; X; X; X; X].
Definition hencs_225 : list henc := [
  X; X; X; X; X; X; X; X; X; X; X; X; X; X; X; X; X; X; X; X; X; X; X; X; X; X; X; X; X; X; X; X; E 30 0x14fffff3; X;
  X; X; X; E 30 0x15fffff3; E 32 0xf8fffff3; X; X; X; E 32 0xf9fffff3; X; E 32 0xfafffff3; E 30 0x16fffff3;
  E 30 0x17fffff3; E 30 0x18fffff3; E 29 0xfffff3; E 29 0x1fffff3; E 29 0x2fffff3; E 30 0x19fffff3; E 30 0x1afffff3;
  E 30 0x1bfffff3; E 30 0x1cfffff3; E 30 0x1dfffff3; E 30 0x1efffff3; E 30 0x1ffffff3; E 31 0x5cfffff3;
  E 32 0xfbfffff3; X; E 30 0x20fffff3; X; X; X; E 30 0x21fffff3; E 31 0x5dfffff3; E 31 0x5efffff3; E 31 0x5ffffff3;
  E 31 0x60fffff3; E 31 0x61fffff3; E 31 0x62fffff3; E 31 0x63fffff3; E 31 0x64fffff3; E 31 0x65fffff3;
  E 31 0x66fffff3; E 31 0x67fffff3; E 31 0x68fffff3; E 31 0x69fffff3; E 31 0x6afffff3; E 31 0x6bfffff3;
  E 31 0x6cfffff3; E 31 0x6dfffff3; E 31 0x6efffff3; E 31 0x6ffffff3; E 31 0x70fffff3; E 31 0x71fffff3;
  E 31 0x72fffff3; E 32 0xfcfffff3; E 31 0x73fffff3; E 32 0xfdfffff3; X; X; X; X; E 30 0x22fffff3; X; E 29 0x3fffff3;
  E 30 0x23fffff3; E 29 0x4fffff3; E 30 0x24fffff3; E 29 0x5fffff3; E 30 0x25fffff3; E 30 0x26fffff3; E 30 0x27fffff3;
  E 29 0x6fffff3; E 31 0x74fffff3; E 31 0x75fffff3; E 30 0x28fffff3; E 30 0x29fffff3; E 30 0x2afffff3; E 29 0x7fffff3;
  E 30 0x2bfffff3; E 31 0x76fffff3; E 30 0x2cfffff3; E 29 0x8fffff3; E 29 0x9fffff3; E 30 0x2dfffff3; E 31 0x77fffff3;
  E 31 0x78fffff3; E 31 0x79fffff3; E 31 0x7afffff3; E 31 0x7bfffff3; X; X; X; X; X; X; X; X; X; X; X; X; X; X; X; X;
  X; X; X; X; X; X; X; X; X; X; X; X; X; X; X; X; X; X; X; X; X; X; X; X; X; X; X; X; X; X; X; X; X; X; X; X; X; X; X;
  X; X; X; X; X; X; X; X; X; X; X; X; X; X; X; X; X; X; X; X; X; X; X; X; X; X; X; X; X; X; X; X; X; X; X; X; X; X; X;
  X; X; X; X; X; X; X; X; X; X; X; X; X; X; X; X; X; X; X; X; X; X; X; X; X; X; X; X; X; X; X; X; X; X; X; X; X; X; X].
Definition hencs_226 : list henc := [
  X; X; X; X; X; X; X; X; X; X; X; X; X; X; X; X; X; X; X; X; X; X; X; X; X; X; X; X; X; X; X; X; E 26 0x14fffed;
  E 30 0x3f8fffed; E 30 0x3f9fffed; E 32 0xffafffed; X; E 26 0x15fffed; E 28 0xf8fffed; E 31 0x7fafffed;
  E 30 0x3fafffed; E 30 0x3fbfffed; E 28 0xf9fffed; E 31 0x7fbfffed; E 28 0xfafffed; E 26 0x16fffed; E 26 0x17fffed;
  E 26 0x18fffed; E 25 0xfffed; E 25 0x1fffed; E 25 0x2fffed; E 26 0x19fffed; E 26 0x1afffed; E 26 0x1bfffed;
  E 26 0x1cfffed; E 26 0x1dfffed; E 26 0x1efffed; E 26 0x1ffffed; E 27 0x5cfffed; E 28 0xfbfffed; X; E 26 0x20fffed;
  E 32 0xffbfffed; E 30 0x3fcfffed; X; E 26 0x21fffed; E 27 0x5dfffed; E 27 0x5efffed; E 27 0x5ffffed; E 27 0x60fffed;
  E 27 0x61fffed; E 27 0x62fffed; E 27 0x63fffed; E 27 0x64fffed; E 27 0x65fffed; E 27 0x66fffed; E 27 0x67fffed;
  E 27 0x68fffed; E 27 0x69fffed; E 27 0x6afffed; E 27 0x6bfffed; E 27 0x6cfffed; E 27 0x6dfffed; E 27 0x6efffed;
  E 27 0x6ffffed; E 27 0x70fffed; E 27 0x71fffed; E 27 0x72fffed; E 28 0xfcfffed; E 27 0x73fffed; E 28 0xfdfffed; X;
  X; X; X; E 26 0x22fffed; X; E 25 0x3fffed; E 26 0x23fffed; E 25 0x4fffed; E 26 0x24fffed; E 25 0x5fffed;
  E 26 0x25fffed; E 26 0x26fffed; E 26 0x27fffed; E 25 0x6fffed; E 27 0x74fffed; E 27 0x75fffed; E 26 0x28fffed;
  E 26 0x29fffed; E 26 0x2afffed; E 25 0x7fffed; E 26 0x2bfffed; E 27 0x76fffed; E 26 0x2cfffed; E 25 0x8fffed;
  E 25 0x9fffed; E 26 0x2dfffed; E 27 0x77fffed; E 27 0x78fffed; E 27 0x79fffed; E 27 0x7afffed; E 27 0x7bfffed; X;
  E 31 0x7fcfffed; X; X; X; X; X; X; X; X; X; X; X; X; X; X; X; X; X; X; X; X; X; X; X; X; X; X; X; X; X; X; X; X; X;
  X; X; X; X; X; X; X; X; X; X; X; X; X; X; X; X; X; X; X; X; X; X; X; X; X; X; X; X; X; X; X; X; X; X; X; X; X; X; X;
  X; X; X; X; X; X; X; X; X; X; X; X; X; X; X; X; X; X; X; X; X; X; X; X; X; X; X; X; X; X; X; X; X; X; X; X; X; X; X;
  X; X; X; X; X; X; X; X; X; X; X; X; X; X; X; X; X; X; X; X].
Definition hencs_227 : list henc := [
  X; X; X; X; X; X; X; X; X; X; X; X; X; X; X; X; X; X; X; X; X; X; X; X; X; X; X; X; X; X; X; X; E 27 0x29fffe6;
  E 31 0x7f1fffe6; E 31 0x7f3fffe6; X; X; E 27 0x2bfffe6; E 29 0x1f1fffe6; E 32 0xff5fffe6; E 31 0x7f5fffe6;
  E 31 0x7f7fffe6; E 29 0x1f3fffe6; E 32 0xff7fffe6; E 29 0x1f5fffe6; E 27 0x2dfffe6; E 27 0x2ffffe6; E 27 0x31fffe6;
  E 26 0x1fffe6; E 26 0x3fffe6; E 26 0x5fffe6; E 27 0x33fffe6; E 27 0x35fffe6; E 27 0x37fffe6; E 27 0x39fffe6;
  E 27 0x3bfffe6; E 27 0x3dfffe6; E 27 0x3ffffe6; E 28 0xb9fffe6; E 29 0x1f7fffe6; X; E 27 0x41fffe6; X;
  E 31 0x7f9fffe6; X; E 27 0x43fffe6; E 28 0xbbfffe6; E 28 0xbdfffe6; E 28 0xbffffe6; E 28 0xc1fffe6; E 28 0xc3fffe6;
  E 28 0xc5fffe6; E 28 0xc7fffe6; E 28 0xc9fffe6; E 28 0xcbfffe6; E 28 0xcdfffe6; E 28 0xcffffe6; E 28 0xd1fffe6;
  E 28 0xd3fffe6; E 28 0xd5fffe6; E 28 0xd7fffe6; E 28 0xd9fffe6; E 28 0xdbfffe6; E 28 0xddfffe6; E 28 0xdffffe6;
  E 28 0xe1fffe6; E 28 0xe3fffe6; E 28 0xe5fffe6; E 29 0x1f9fffe6; E 28 0xe7fffe6; E 29 0x1fbfffe6; X; X; X; X;
  E 27 0x45fffe6; X; E 26 0x7fffe6; E 27 0x47fffe6; E 26 0x9fffe6; E 27 0x49fffe6; E 26 0xbfffe6; E 27 0x4bfffe6;
  E 27 0x4dfffe6; E 27 0x4ffffe6; E 26 0xdfffe6; E 28 0xe9fffe6; E 28 0xebfffe6; E 27 0x51fffe6; E 27 0x53fffe6;
  E 27 0x55fffe6; E 26 0xffffe6; E 27 0x57fffe6; E 28 0xedfffe6; E 27 0x59fffe6; E 26 0x11fffe6; E 26 0x13fffe6;
  E 27 0x5bfffe6; E 28 0xeffffe6; E 28 0xf1fffe6; E 28 0xf3fffe6; E 28 0xf5fffe6; E 28 0xf7fffe6; X; E 32 0xff9fffe6;
  X; X; X; X; X; X; X; X; X; X; X; X; X; X; X; X; X; X; X; X; X; X; X; X; X; X; X; X; X; X; X; X; X; X; X; X; X; X; X;
  X; X; X; X; X; X; X; X; X; X; X; X; X; X; X; X; X; X; X; X; X; X; X; X; X; X; X; X; X; X; X; X; X; X; X; X; X; X; X;
  X; X; X; X; X; X; X; X; X; X; X; X; X; X; X; X; X; X; X; X; X; X; X; X; X; X; X; X; X; X; X; X; X; X; X; X; X; X; X;
  X; X; X; X; X; X; X; X; X; X; X; X; X; X].
Definition hencs_228 : list henc := [
  X; X; X; X; X; X; X; X; X; X; X; X; X; X; X; X; X; X; X; X; X; X; X; X; X; X; X; X; X; X; X; X; E 28 0x53fffe9;
  E 32 0xfe3fffe9; E 32 0xfe7fffe9; X; X; E 28 0x57fffe9; E 30 0x3e3fffe9; X; E 32 0xfebfffe9; E 32 0xfeffffe9;
  E 30 0x3e7fffe9; X; E 30 0x3ebfffe9; E 28 0x5bfffe9; E 28 0x5ffffe9; E 28 0x63fffe9; E 27 0x3fffe9; E 27 0x7fffe9;
  E 27 0xbfffe9; E 28 0x67fffe9; E 28 0x6bfffe9; E 28 0x6ffffe9; E 28 0x73fffe9; E 28 0x77fffe9; E 28 0x7bfffe9;
  E 28 0x7ffffe9; E 29 0x173fffe9; E 30 0x3effffe9; X; E 28 0x83fffe9; X; E 32 0xff3fffe9; X; E 28 0x87fffe9;
  E 29 0x177fffe9; E 29 0x17bfffe9; E 29 0x17ffffe9; E 29 0x183fffe9; E 29 0x187fffe9; E 29 0x18bfffe9;
  E 29 0x18ffffe9; E 29 0x193fffe9; E 29 0x197fffe9; E 29 0x19bfffe9; E 29 0x19ffffe9; E 29 0x1a3fffe9;
  E 29 0x1a7fffe9; E 29 0x1abfffe9; E 29 0x1affffe9; E 29 0x1b3fffe9; E 29 0x1b7fffe9; E 29 0x1bbfffe9;
  E 29 0x1bffffe9; E 29 0x1c3fffe9; E 29 0x1c7fffe9; E 29 0x1cbfffe9; E 30 0x3f3fffe9; E 29 0x1cffffe9;
  E 30 0x3f7fffe9; X; X; X; X; E 28 0x8bfffe9; X; E 27 0xffffe9; E 28 0x8ffffe9; E 27 0x13fffe9; E 28 0x93fffe9;
  E 27 0x17fffe9; E 28 0x97fffe9; E 28 0x9bfffe9; E 28 0x9ffffe9; E 27 0x1bfffe9; E 29 0x1d3fffe9; E 29 0x1d7fffe9;
  E 28 0xa3fffe9; E 28 0xa7fffe9; E 28 0xabfffe9; E 27 0x1ffffe9; E 28 0xaffffe9; E 29 0x1dbfffe9; E 28 0xb3fffe9;
  E 27 0x23fffe9; E 27 0x27fffe9; E 28 0xb7fffe9; E 29 0x1dffffe9; E 29 0x1e3fffe9; E 29 0x1e7fffe9; E 29 0x1ebfffe9;
  E 29 0x1effffe9; X; X; X; X; X; X; X; X; X; X; X; X; X; X; X; X; X; X; X; X; X; X; X; X; X; X; X; X; X; X; X; X; X;
  X; X; X; X; X; X; X; X; X; X; X; X; X; X; X; X; X; X; X; X; X; X; X; X; X; X; X; X; X; X; X; X; X; X; X; X; X; X; X;
  X; X; X; X; X; X; X; X; X; X; X; X; X; X; X; X; X; X; X; X; X; X; X; X; X; X; X; X; X; X; X; X; X; X; X; X; X; X; X;
  X; X; X; X; X; X; X; X; X; X; X; X; X; X; X; X; X; X; X; X; X; X].
Definition hencs_229 : list henc := [
  X; X; X; X; X; X; X; X; X; X; X; X; X; X; X; X; X; X; X; X; X; X; X; X; X; X; X; X; X; X; X; X; E 27 0x29fffe7;
  E 31 0x7f1fffe7; E 31 0x7f3fffe7; X; X; E 27 0x2bfffe7; E 29 0x1f1fffe7; E 32 0xff5fffe7; E 31 0x7f5fffe7;
  E 31 0x7f7fffe7; E 29 0x1f3fffe7; E 32 0xff7fffe7; E 29 0x1f5fffe7; E 27 0x2dfffe7; E 27 0x2ffffe7; E 27 0x31fffe7;
  E 26 0x1fffe7; E 26 0x3fffe7; E 26 0x5fffe7; E 27 0x33fffe7; E 27 0x35fffe7; E 27 0x37fffe7; E 27 0x39fffe7;
  E 27 0x3bfffe7; E 27 0x3dfffe7; E 27 0x3ffffe7; E 28 0xb9fffe7; E 29 0x1f7fffe7; X; E 27 0x41fffe7; X;
  E 31 0x7f9fffe7; X; E 27 0x43fffe7; E 28 0xbbfffe7; E 28 0xbdfffe7; E 28 0xbffffe7; E 28 0xc1fffe7; E 28 0xc3fffe7;
  E 28 0xc5fffe7; E 28 0xc7fffe7; E 28 0xc9fffe7; E 28 0xcbfffe7; E 28 0xcdfffe7; E 28 0xcffffe7; E 28 0xd1fffe7;
  E 28 0xd3fffe7; E 28 0xd5fffe7; E 28 0xd7fffe7; E 28 0xd9fffe7; E 28 0xdbfffe7; E 28 0xddfffe7; E 28 0xdffffe7;
  E 28 0xe1fffe7; E 28 0xe3fffe7; E 28 0xe5fffe7; E 29 0x1f9fffe7; E 28 0xe7fffe7; E 29 0x1fbfffe7; X; X; X; X;
  E 27 0x45fffe7; X; E 26 0x7fffe7; E 27 0x47fffe7; E 26 0x9fffe7; E 27 0x49fffe7; E 26 0xbfffe7; E 27 0x4bfffe7;
  E 27 0x4dfffe7; E 27 0x4ffffe7; E 26 0xdfffe7; E 28 0xe9fffe7; E 28 0xebfffe7; E 27 0x51fffe7; E 27 0x53fffe7;
  E 27 0x55fffe7; E 26 0xffffe7; E 27 0x57fffe7; E 28 0xedfffe7; E 27 0x59fffe7; E 26 0x11fffe7; E 26 0x13fffe7;
  E 27 0x5bfffe7; E 28 0xeffffe7; E 28 0xf1fffe7; E 28 0xf3fffe7; E 28 0xf5fffe7; E 28 0xf7fffe7; X; E 32 0xff9fffe7;
  X; X; X; X; X; X; X; X; X; X; X; X; X; X; X; X; X; X; X; X; X; X; X; X; X; X; X; X; X; X; X; X; X; X; X; X; X; X; X;
  X; X; X; X; X; X; X; X; X; X; X; X; X; X; X; X; X; X; X; X; X; X; X; X; X; X; X; X; X; X; X; X; X; X; X; X; X; X; X;
  X; X; X; X; X; X; X; X; X; X; X; X; X; X; X; X; X; X; X; X; X; X; X; X; X; X; X; X; X; X; X; X; X; X; X; X; X; X; X;
  X; X; X; X; X; X; X; X; X; X; X; X; X; X].
Definition hencs_230 : list henc := [
  X; X; X; X; X; X; X; X; X; X; X; X; X; X; X; X; X; X; X; X; X; X; X; X; X; X; X; X; X; X; X; X; E 27 0x29fffe8;
  E 31 0x7f1fffe8; E 31 0x7f3fffe8; X; X; E 27 0x2bfffe8; E 29 0x1f1fffe8; E 32 0xff5fffe8; E 31 0x7f5fffe8;
  E 31 0x7f7fffe8; E 29 0x1f3fffe8; E 32 0xff7fffe8; E 29 0x1f5fffe8; E 27 0x2dfffe8; E 27 0x2ffffe8; E 27 0x31fffe8;
  E 26 0x1fffe8; E 26 0x3fffe8; E 26 0x5fffe8; E 27 0x33fffe8; E 27 0x35fffe8; E 27 0x37fffe8; E 27 0x39fffe8;
  E 27 0x3bfffe8; E 27 0x3dfffe8; E 27 0x3ffffe8; E 28 0xb9fffe8; E 29 0x1f7fffe8; X; E 27 0x41fffe8; X;
  E 31 0x7f9fffe8; X; E 27 0x43fffe8; E 28 0xbbfffe8; E 28 0xbdfffe8; E 28 0xbffffe8; E 28 0xc1fffe8; E 28 0xc3fffe8;
  E 28 0xc5fffe8; E 28 0xc7fffe8; E 28 0xc9fffe8; E 28 0xcbfffe8; E 28 0xcdfffe8; E 28 0xcffffe8; E 28 0xd1fffe8;
  E 28 0xd3fffe8; E 28 0xd5fffe8; E 28 0xd7fffe8; E 28 0xd9fffe8; E 28 0xdbfffe8; E 28 0xddfffe8; E 28 0xdffffe8;
  E 28 0xe1fffe8; E 28 0xe3fffe8; E 28 0xe5fffe8; E 29 0x1f9fffe8; E 28 0xe7fffe8; E 29 0x1fbfffe8; X; X; X; X;
  E 27 0x45fffe8; X; E 26 0x7fffe8; E 27 0x47fffe8; E 26 0x9fffe8; E 27 0x49fffe8; E 26 0xbfffe8; E 27 0x4bfffe8;
  E 27 0x4dfffe8; E 27 0x4ffffe8; E 26 0xdfffe8; E 28 0xe9fffe8; E 28 0xebfffe8; E 27 0x51fffe8; E 27 0x53fffe8;
  E 27 0x55fffe8; E 26 0xffffe8; E 27 0x57fffe8; E 28 0xedfffe8; E 27 0x59fffe8; E 26 0x11fffe8; E 26 0x13fffe8;
  E 27 0x5bfffe8; E 28 0xeffffe8; E 28 0xf1fffe8; E 28 0xf3fffe8; E 28 0xf5fffe8; E 28 0xf7fffe8; X; E 32 0xff9fffe8;
  X; X; X; X; X; X; X; X; X; X; X; X; X; X; X; X; X; X; X; X; X; X; X; X; X; X; X; X; X; X; X; X; X; X; X; X; X; X; X;
  X; X; X; X; X; X; X; X; X; X; X; X; X; X; X; X; X; X; X; X; X; X; X; X; X; X; X; X; X; X; X; X; X; X; X; X; X; X; X;
  X; X; X; X; X; X; X; X; X; X; X; X; X; X; X; X; X; X; X; X; X; X; X; X; X; X; X; X; X; X; X; X; X; X; X; X; X; X; X;
  X; X; X; X; X; X; X; X; X; X; X; X; X; X].
Definition hencs_231 : list henc := [
  X; X; X; X; X; X; X; X; X; X; X; X; X; X; X; X; X; X; X; X; X; X; X; X; X; X; X; X; X; X; X; X; E 29 0xa7ffff3; X;
  X; X; X; E 29 0xafffff3; E 31 0x7c7ffff3; X; X; X; E 31 0x7cfffff3; X; E 31 0x7d7ffff3; E 29 0xb7ffff3;
  E 29 0xbfffff3; E 29 0xc7ffff3; E 28 0x7ffff3; E 28 0xfffff3; E 28 0x17ffff3; E 29 0xcfffff3; E 29 0xd7ffff3;
  E 29 0xdfffff3; E 29 0xe7ffff3; E 29 0xefffff3; E 29 0xf7ffff3; E 29 0xffffff3; E 30 0x2e7ffff3; E 31 0x7dfffff3; X;
  E 29 0x107ffff3; X; X; X; E 29 0x10fffff3; E 30 0x2efffff3; E 30 0x2f7ffff3; E 30 0x2ffffff3; E 30 0x307ffff3;
  E 30 0x30fffff3; E 30 0x317ffff3; E 30 0x31fffff3; E 30 0x327ffff3; E 30 0x32fffff3; E 30 0x337ffff3;
  E 30 0x33fffff3; E 30 0x347ffff3; E 30 0x34fffff3; E 30 0x357ffff3; E 30 0x35fffff3; E 30 0x367ffff3;
  E 30 0x36fffff3; E 30 0x377ffff3; E 30 0x37fffff3; E 30 0x387ffff3; E 30 0x38fffff3; E 30 0x397ffff3;
  E 31 0x7e7ffff3; E 30 0x39fffff3; E 31 0x7efffff3; X; X; X; X; E 29 0x117ffff3; X; E 28 0x1fffff3; E 29 0x11fffff3;
  E 28 0x27ffff3; E 29 0x127ffff3; E 28 0x2fffff3; E 29 0x12fffff3; E 29 0x137ffff3; E 29 0x13fffff3; E 28 0x37ffff3;
  E 30 0x3a7ffff3; E 30 0x3afffff3; E 29 0x147ffff3; E 29 0x14fffff3; E 29 0x157ffff3; E 28 0x3fffff3;
  E 29 0x15fffff3; E 30 0x3b7ffff3; E 29 0x167ffff3; E 28 0x47ffff3; E 28 0x4fffff3; E 29 0x16fffff3; E 30 0x3bfffff3;
  E 30 0x3c7ffff3; E 30 0x3cfffff3; E 30 0x3d7ffff3; E 30 0x3dfffff3; X; X; X; X; X; X; X; X; X; X; X; X; X; X; X; X;
  X; X; X; X; X; X; X; X; X; X; X; X; X; X; X; X; X; X; X; X; X; X; X; X; X; X; X; X; X; X; X; X; X; X; X; X; X; X; X;
  X; X; X; X; X; X; X; X; X; X; X; X; X; X; X; X; X; X; X; X; X; X; X; X; X; X; X; X; X; X; X; X; X; X; X; X; X; X; X;
  X; X; X; X; X; X; X; X; X; X; X; X; X; X; X; X; X; X; X; X; X; X; X; X; X; X; X; X; X; X; X; X; X; X; X; X; X; X; X].
Definition hencs_232 : list henc := [
  X; X; X; X; X; X; X; X; X; X; X; X; X; X; X; X; X; X; X; X; X; X; X; X; X; X; X; X; X; X; X; X; E 28 0x53fffea;
  E 32 0xfe3fffea; E 32 0xfe7fffea; X; X; E 28 0x57fffea; E 30 0x3e3fffea; X; E 32 0xfebfffea; E 32 0xfeffffea;
  E 30 0x3e7fffea; X; E 30 0x3ebfffea; E 28 0x5bfffea; E 28 0x5ffffea; E 28 0x63fffea; E 27 0x3fffea; E 27 0x7fffea;
  E 27 0xbfffea; E 28 0x67fffea; E 28 0x6bfffea; E 28 0x6ffffea; E 28 0x73fffea; E 28 0x77fffea; E 28 0x7bfffea;
  E 28 0x7ffffea; E 29 0x173fffea; E 30 0x3effffea; X; E 28 0x83fffea; X; E 32 0xff3fffea; X; E 28 0x87fffea;
  E 29 0x177fffea; E 29 0x17bfffea; E 29 0x17ffffea; E 29 0x183fffea; E 29 0x187fffea; E 29 0x18bfffea;
  E 29 0x18ffffea; E 29 0x193fffea; E 29 0x197fffea; E 29 0x19bfffea; E 29 0x19ffffea; E 29 0x1a3fffea;
  E 29 0x1a7fffea; E 29 0x1abfffea; E 29 0x1affffea; E 29 0x1b3fffea; E 29 0x1b7fffea; E 29 0x1bbfffea;
  E 29 0x1bffffea; E 29 0x1c3fffea; E 29 0x1c7fffea; E 29 0x1cbfffea; E 30 0x3f3fffea; E 29 0x1cffffea;
  E 30 0x3f7fffea; X; X; X; X; E 28 0x8bfffea; X; E 27 0xffffea; E 28 0x8ffffea; E 27 0x13fffea; E 28 0x93fffea;
  E 27 0x17fffea; E 28 0x97fffea; E 28 0x9bfffea; E 28 0x9ffffea; E 27 0x1bfffea; E 29 0x1d3fffea; E 29 0x1d7fffea;
  E 28 0xa3fffea; E 28 0xa7fffea; E 28 0xabfffea; E 27 0x1ffffea; E 28 0xaffffea; E 29 0x1dbfffea; E 28 0xb3fffea;
  E 27 0x23fffea; E 27 0x27fffea; E 28 0xb7fffea; E 29 0x1dffffea; E 29 0x1e3fffea; E 29 0x1e7fffea; E 29 0x1ebfffea;
  E 29 0x1effffea; X; X; X; X; X; X; X; X; X; X; X; X; X; X; X; X; X; X; X; X; X; X; X; X; X; X; X; X; X; X; X; X; X;
  X; X; X; X; X; X; X; X; X; X; X; X; X; X; X; X; X; X; X; X; X; X; X; X; X; X; X; X; X; X; X; X; X; X; X; X; X; X; X;
  X; X; X; X; X; X; X; X; X; X; X; X; X; X; X; X; X; X; X; X; X; X; X; X; X; X; X; X; X; X; X; X; X; X; X; X; X; X; X;
  X; X; X; X; X; X; X; X; X; X; X; X; X; X; X; X; X; X; X; X; X; X].
Definition hencs_233 : list henc := [
  X; X; X; X; X; X; X; X; X; X; X; X; X; X; X; X; X; X; X; X; X; X; X; X; X; X; X; X; X; X; X; X; E 28 0x53fffeb;
  E 32 0xfe3fffeb; E 32 0xfe7fffeb; X; X; E 28 0x57fffeb; E 30 0x3e3fffeb; X; E 32 0xfebfffeb; E 32 0xfeffffeb;
  E 30 0x3e7fffeb; X; E 30 0x3ebfffeb; E 28 0x5bfffeb; E 28 0x5ffffeb; E 28 0x63fffeb; E 27 0x3fffeb; E 27 0x7fffeb;
  E 27 0xbfffeb; E 28 0x67fffeb; E 28 0x6bfffeb; E 28 0x6ffffeb; E 28 0x73fffeb; E 28 0x77fffeb; E 28 0x7bfffeb;
  E 28 0x7ffffeb; E 29 0x173fffeb; E 30 0x3effffeb; X; E 28 0x83fffeb; X; E 32 0xff3fffeb; X; E 28 0x87fffeb;
  E 29 0x177fffeb; E 29 0x17bfffeb; E 29 0x17ffffeb; E 29 0x183fffeb; E 29 0x187fffeb; E 29 0x18bfffeb;
  E 29 0x18ffffeb; E 29 0x193fffeb; E 29 0x197fffeb; E 29 0x19bfffeb; E 29 0x19ffffeb; E 29 0x1a3fffeb;
  E 29 0x1a7fffeb; E 29 0x1abfffeb; E 29 0x1affffeb; E 29 0x1b3fffeb; E 29 0x1b7fffeb; E 29 0x1bbfffeb;
  E 29 0x1bffffeb; E 29 0x1c3fffeb; E 29 0x1c7fffeb; E 29 0x1cbfffeb; E 30 0x3f3fffeb; E 29 0x1cffffeb;
  E 30 0x3f7fffeb; X; X; X; X; E 28 0x8bfffeb; X; E 27 0xffffeb; E 28 0x8ffffeb; E 27 0x13fffeb; E 28 0x93fffeb;
  E 27 0x17fffeb; E 28 0x97fffeb; E 28 0x9bfffeb; E 28 0x9ffffeb; E 27 0x1bfffeb; E 29 0x1d3fffeb; E 29 0x1d7fffeb;
  E 28 0xa3fffeb; E 28 0xa7fffeb; E 28 0xabfffeb; E 27 0x1ffffeb; E 28 0xaffffeb; E 29 0x1dbfffeb; E 28 0xb3fffeb;
  E 27 0x23fffeb; E 27 0x27fffeb; E 28 0xb7fffeb; E 29 0x1dffffeb; E 29 0x1e3fffeb; E 29 0x1e7fffeb; E 29 0x1ebfffeb;
  E 29 0x1effffeb; X; X; X; X; X; X; X; X; X; X; X; X; X; X; X; X; X; X; X; X; X; X; X; X; X; X; X; X; X; X; X; X; X;
  X; X; X; X; X; X; X; X; X; X; X; X; X; X; X; X; X; X; X; X; X; X; X; X; X; X; X; X; X; X; X; X; X; X; X; X; X; X; X;
  X; X; X; X; X; X; X; X; X; X; X; X; X; X; X; X; X; X; X; X; X; X; X; X; X; X; X; X; X; X; X; X; X; X; X; X; X; X; X;
  X; X; X; X; X; X; X; X; X; X; X; X; X; X; X; X; X; X; X; X; X; X].
Definition hencs_234 : list henc := [
  X; X; X; X; X; X; X; X; X; X; X; X; X; X; X; X; X; X; X; X; X; X; X; X; X; X; X; X; X; X; X; X; E 31 0x29ffffee; X;
  X; X; X; E 31 0x2bffffee; X; X; X; X; X; X; X; E 31 0x2dffffee; E 31 0x2fffffee; E 31 0x31ffffee; E 30 0x1ffffee;
  E 30 0x3ffffee; E 30 0x5ffffee; E 31 0x33ffffee; E 31 0x35ffffee; E 31 0x37ffffee; E 31 0x39ffffee; E 31 0x3bffffee;
  E 31 0x3dffffee; E 31 0x3fffffee; E 32 0xb9ffffee; X; X; E 31 0x41ffffee; X; X; X; E 31 0x43ffffee; E 32 0xbbffffee;
  E 32 0xbdffffee; E 32 0xbfffffee; E 32 0xc1ffffee; E 32 0xc3ffffee; E 32 0xc5ffffee; E 32 0xc7ffffee;
  E 32 0xc9ffffee; E 32 0xcbffffee; E 32 0xcdffffee; E 32 0xcfffffee; E 32 0xd1ffffee; E 32 0xd3ffffee;
  E 32 0xd5ffffee; E 32 0xd7ffffee; E 32 0xd9ffffee; E 32 0xdbffffee; E 32 0xddffffee; E 32 0xdfffffee;
  E 32 0xe1ffffee; E 32 0xe3ffffee; E 32 0xe5ffffee; X; E 32 0xe7ffffee; X; X; X; X; X; E 31 0x45ffffee; X;
  E 30 0x7ffffee; E 31 0x47ffffee; E 30 0x9ffffee; E 31 0x49ffffee; E 30 0xbffffee; E 31 0x4bffffee; E 31 0x4dffffee;
  E 31 0x4fffffee; E 30 0xdffffee; E 32 0xe9ffffee; E 32 0xebffffee; E 31 0x51ffffee; E 31 0x53ffffee;
  E 31 0x55ffffee; E 30 0xfffffee; E 31 0x57ffffee; E 32 0xedffffee; E 31 0x59ffffee; E 30 0x11ffffee;
  E 30 0x13ffffee; E 31 0x5bffffee; E 32 0xefffffee; E 32 0xf1ffffee; E 32 0xf3ffffee; E 32 0xf5ffffee;
  E 32 0xf7ffffee; X; X; X; X; X; X; X; X; X; X; X; X; X; X; X; X; X; X; X; X; X; X; X; X; X; X; X; X; X; X; X; X; X;
  X; X; X; X; X; X; X; X; X; X; X; X; X; X; X; X; X; X; X; X; X; X; X; X; X; X; X; X; X; X; X; X; X; X; X; X; X; X; X;
  X; X; X; X; X; X; X; X; X; X; X; X; X; X; X; X; X; X; X; X; X; X; X; X; X; X; X; X; X; X; X; X; X; X; X; X; X; X; X;
  X; X; X; X; X; X; X; X; X; X; X; X; X; X; X; X; X; X; X; X; X; X].
Definition hencs_235 : list henc := [
  X; X; X; X; X; X; X; X; X; X; X; X; X; X; X; X; X; X; X; X; X; X; X; X; X; X; X; X; X; X; X; X; E 31 0x29ffffef; X;
  X; X; X; E 31 0x2bffffef; X; X; X; X; X; X; X; E 31 0x2dffffef; E 31 0x2fffffef; E 31 0x31ffffef; E 30 0x1ffffef;
  E 30 0x3ffffef; E 30 0x5ffffef; E 31 0x33ffffef; E 31 0x35ffffef; E 31 0x37ffffef; E 31 0x39ffffef; E 31 0x3bffffef;
  E 31 0x3dffffef; E 31 0x3fffffef; E 32 0xb9ffffef; X; X; E 31 0x41ffffef; X; X; X; E 31 0x43ffffef; E 32 0xbbffffef;
  E 32 0xbdffffef; E 32 0xbfffffef; E 32 0xc1ffffef; E 32 0xc3ffffef; E 32 0xc5ffffef; E 32 0xc7ffffef;
  E 32 0xc9ffffef; E 32 0xcbffffef; E 32 0xcdffffef; E 32 0xcfffffef; E 32 0xd1ffffef; E 32 0xd3ffffef;
  E 32 0xd5ffffef; E 32 0xd7ffffef; E 32 0xd9ffffef; E 32 0xdbffffef; E 32 0xddffffef; E 32 0xdfffffef;
  E 32 0xe1ffffef; E 32 0xe3ffffef; E 32 0xe5ffffef; X; E 32 0xe7ffffef; X; X; X; X; X; E 31 0x45ffffef; X;
  E 30 0x7ffffef; E 31 0x47ffffef; E 30 0x9ffffef; E 31 0x49ffffef; E 30 0xbffffef; E 31 0x4bffffef; E 31 0x4dffffef;
  E 31 0x4fffffef; E 30 0xdffffef; E 32 0xe9ffffef; E 32 0xebffffef; E 31 0x51ffffef; E 31 0x53ffffef;
  E 31 0x55ffffef; E 30 0xfffffef; E 31 0x57ffffef; E 32 0xedffffef; E 31 0x59ffffef; E 30 0x11ffffef;
  E 30 0x13ffffef; E 31 0x5bffffef; E 32 0xefffffef; E 32 0xf1ffffef; E 32 0xf3ffffef; E 32 0xf5ffffef;
  E 32 0xf7ffffef; X; X; X; X; X; X; X; X; X; X; X; X; X; X; X; X; X; X; X; X; X; X; X; X; X; X; X; X; X; X; X; X; X;
  X; X; X; X; X; X; X; X; X; X; X; X; X; X; X; X; X; X; X; X; X; X; X; X; X; X; X; X; X; X; X; X; X; X; X; X; X; X; X;
  X; X; X; X; X; X; X; X; X; X; X; X; X; X; X; X; X; X; X; X; X; X; X; X; X; X; X; X; X; X; X; X; X; X; X; X; X; X; X;
  X; X; X; X; X; X; X; X; X; X; X; X; X; X; X; X; X; X; X; X; X; X].
Definition hencs_236 : list henc := [
  X; X; X; X; X; X; X; X; X; X; X; X; X; X; X; X; X; X; X; X; X; X; X; X; X; X; X; X; X; X; X; X; E 30 0x14fffff4; X;
  X; X; X; E 30 0x15fffff4; E 32 0xf8fffff4; X; X; X; E 32 0xf9fffff4; X; E 32 0xfafffff4; E 30 0x16fffff4;
  E 30 0x17fffff4; E 30 0x18fffff4; E 29 0xfffff4; E 29 0x1fffff4; E 29 0x2fffff4; E 30 0x19fffff4; E 30 0x1afffff4;
  E 30 0x1bfffff4; E 30 0x1cfffff4; E 30 0x1dfffff4; E 30 0x1efffff4; E 30 0x1ffffff4; E 31 0x5cfffff4;
  E 32 0xfbfffff4; X; E 30 0x20fffff4; X; X; X; E 30 0x21fffff4; E 31 0x5dfffff4; E 31 0x5efffff4; E 31 0x5ffffff4;
  E 31 0x60fffff4; E 31 0x61fffff4; E 31 0x62fffff4; E 31 0x63fffff4; E 31 0x64fffff4; E 31 0x65fffff4;
  E 31 0x66fffff4; E 31 0x67fffff4; E 31 0x68fffff4; E 31 0x69fffff4; E 31 0x6afffff4; E 31 0x6bfffff4;
  E 31 0x6cfffff4; E 31 0x6dfffff4; E 31 0x6efffff4; E 31 0x6ffffff4; E 31 0x70fffff4; E 31 0x71fffff4;
  E 31 0x72fffff4; E 32 0xfcfffff4; E 31 0x73fffff4; E 32 0xfdfffff4; X; X; X; X; E 30 0x22fffff4; X; E 29 0x3fffff4;
  E 30 0x23fffff4; E 29 0x4fffff4; E 30 0x24fffff4; E 29 0x5fffff4; E 30 0x25fffff4; E 30 0x26fffff4; E 30 0x27fffff4;
  E 29 0x6fffff4; E 31 0x74fffff4; E 31 0x75fffff4; E 30 0x28fffff4; E 30 0x29fffff4; E 30 0x2afffff4; E 29 0x7fffff4;
  E 30 0x2bfffff4; E 31 0x76fffff4; E 30 0x2cfffff4; E 29 0x8fffff4; E 29 0x9fffff4; E 30 0x2dfffff4; E 31 0x77fffff4;
  E 31 0x78fffff4; E 31 0x79fffff4; E 31 0x7afffff4; E 31 0x7bfffff4; X; X; X; X; X; X; X; X; X; X; X; X; X; X; X; X;
  X; X; X; X; X; X; X; X; X; X; X; X; X; X; X; X; X; X; X; X; X; X; X; X; X; X; X; X; X; X; X; X; X; X; X; X; X; X; X;
  X; X; X; X; X; X; X; X; X; X; X; X; X; X; X; X; X; X; X; X; X; X; X; X; X; X; X; X; X; X; X; X; X; X; X; X; X; X; X;
  X; X; X; X; X; X; X; X; X; X; X; X; X; X; X; X; X; X; X; X; X; X; X; X; X; X; X; X; X; X; X; X; X; X; X; X; X; X; X].
Definition hencs_237 : list henc := [
  X; X; X; X; X; X; X; X; X; X; X; X; X; X; X; X; X; X; X; X; X; X; X; X; X; X; X; X; X; X; X; X; E 30 0x14fffff5; X;
  X; X; X; E 30 0x15fffff5; E 32 0xf8fffff5; X; X; X; E 32 0xf9fffff5; X; E 32 0xfafffff5; E 30 0x16fffff5;
  E 30 0x17fffff5; E 30 0x18fffff5; E 29 0xfffff5; E 29 0x1fffff5; E 29 0x2fffff5; E 30 0x19fffff5; E 30 0x1afffff5;
  E 30 0x1bfffff5; E 30 0x1cfffff5; E 30 0x1dfffff5; E 30 0x1efffff5; E 30 0x1ffffff5; E 31 0x5cfffff5;
  E 32 0xfbfffff5; X; E 30 0x20fffff5; X; X; X; E 30 0x21fffff5; E 31 0x5dfffff5; E 31 0x5efffff5; E 31 0x5ffffff5;
  E 31 0x60fffff5; E 31 0x61fffff5; E 31 0x62fffff5; E 31 0x63fffff5; E 31 0x64fffff5; E 31 0x65fffff5;
  E 31 0x66fffff5; E 31 0x67fffff5; E 31 0x68fffff5; E 31 0x69fffff5; E 31 0x6afffff5; E 31 0x6bfffff5;
  E 31 0x6cfffff5; E 31 0x6dfffff5; E 31 0x6efffff5; E 31 0x6ffffff5; E 31 0x70fffff5; E 31 0x71fffff5;
  E 31 0x72fffff5; E 32 0xfcfffff5; E 31 0x73fffff5; E 32 0xfdfffff5; X; X; X; X; E 30 0x22fffff5; X; E 29 0x3fffff5;
  E 30 0x23fffff5; E 29 0x4fffff5; E 30 0x24fffff5; E 29 0x5fffff5; E 30 0x25fffff5; E 30 0x26fffff5; E 30 0x27fffff5;
  E 29 0x6fffff5; E 31 0x74fffff5; E 31 0x75fffff5; E 30 0x28fffff5; E 30 0x29fffff5; E 30 0x2afffff5; E 29 0x7fffff5;
  E 30 0x2bfffff5; E 31 0x76fffff5; E 30 0x2cfffff5; E 29 0x8fffff5; E 29 0x9fffff5; E 30 0x2dfffff5; E 31 0x77fffff5;
  E 31 0x78fffff5; E 31 0x79fffff5; E 31 0x7afffff5; E 31 0x7bfffff5; X; X; X; X; X; X; X; X; X; X; X; X; X; X; X; X;
  X; X; X; X; X; X; X; X; X; X; X; X; X; X; X; X; X; X; X; X; X; X; X; X; X; X; X; X; X; X; X; X; X; X; X; X; X; X; X;
  X; X; X; X; X; X; X; X; X; X; X; X; X; X; X; X; X; X; X; X; X; X; X; X; X; X; X; X; X; X; X; X; X; X; X; X; X; X; X;
  X; X; X; X; X; X; X; X; X; X; X; X; X; X; X; X; X; X; X; X; X; X; X; X; X; X; X; X; X; X; X; X; X; X; X; X; X; X; X].
Definition hencs_238 : list henc := [
  X; X; X; X; X; X; X; X; X; X; X; X; X; X; X; X; X; X; X; X; X; X; X; X; X; X; X; X; X; X; X; X; E 32 0x53ffffea; X;
  X; X; X; E 32 0x57ffffea; X; X; X; X; X; X; X; E 32 0x5bffffea; E 32 0x5fffffea; E 32 0x63ffffea; E 31 0x3ffffea;
  E 31 0x7ffffea; E 31 0xbffffea; E 32 0x67ffffea; E 32 0x6bffffea; E 32 0x6fffffea; E 32 0x73ffffea; E 32 0x77ffffea;
  E 32 0x7bffffea; E 32 0x7fffffea; X; X; X; E 32 0x83ffffea; X; X; X; E 32 0x87ffffea; X; X; X; X; X; X; X; X; X; X;
  X; X; X; X; X; X; X; X; X; X; X; X; X; X; X; X; X; X; X; E 32 0x8bffffea; X; E 31 0xfffffea; E 32 0x8fffffea;
  E 31 0x13ffffea; E 32 0x93ffffea; E 31 0x17ffffea; E 32 0x97ffffea; E 32 0x9bffffea; E 32 0x9fffffea;
  E 31 0x1bffffea; X; X; E 32 0xa3ffffea; E 32 0xa7ffffea; E 32 0xabffffea; E 31 0x1fffffea; E 32 0xafffffea; X;
  E 32 0xb3ffffea; E 31 0x23ffffea; E 31 0x27ffffea; E 32 0xb7ffffea; X; X; X; X; X; X; X; X; X; X; X; X; X; X; X; X;
  X; X; X; X; X; X; X; X; X; X; X; X; X; X; X; X; X; X; X; X; X; X; X; X; X; X; X; X; X; X; X; X; X; X; X; X; X; X; X;
  X; X; X; X; X; X; X; X; X; X; X; X; X; X; X; X; X; X; X; X; X; X; X; X; X; X; X; X; X; X; X; X; X; X; X; X; X; X; X;
  X; X; X; X; X; X; X; X; X; X; X; X; X; X; X; X; X; X; X; X; X; X; X; X; X; X; X; X; X; X; X; X; X; X; X; X; X; X; X;
  X; X; X; X; X].
Definition hencs_239 : list henc := [
  X; X; X; X; X; X; X; X; X; X; X; X; X; X; X; X; X; X; X; X; X; X; X; X; X; X; X; X; X; X; X; X; E 29 0xa7ffff4; X;
  X; X; X; E 29 0xafffff4; E 31 0x7c7ffff4; X; X; X; E 31 0x7cfffff4; X; E 31 0x7d7ffff4; E 29 0xb7ffff4;
  E 29 0xbfffff4; E 29 0xc7ffff4; E 28 0x7ffff4; E 28 0xfffff4; E 28 0x17ffff4; E 29 0xcfffff4; E 29 0xd7ffff4;
  E 29 0xdfffff4; E 29 0xe7ffff4; E 29 0xefffff4; E 29 0xf7ffff4; E 29 0xffffff4; E 30 0x2e7ffff4; E 31 0x7dfffff4; X;
  E 29 0x107ffff4; X; X; X; E 29 0x10fffff4; E 30 0x2efffff4; E 30 0x2f7ffff4; E 30 0x2ffffff4; E 30 0x307ffff4;
  E 30 0x30fffff4; E 30 0x317ffff4; E 30 0x31fffff4; E 30 0x327ffff4; E 30 0x32fffff4; E 30 0x337ffff4;
  E 30 0x33fffff4; E 30 0x347ffff4; E 30 0x34fffff4; E 30 0x357ffff4; E 30 0x35fffff4; E 30 0x367ffff4;
  E 30 0x36fffff4; E 30 0x377ffff4; E 30 0x37fffff4; E 30 0x387ffff4; E 30 0x38fffff4; E 30 0x397ffff4;
  E 31 0x7e7ffff4; E 30 0x39fffff4; E 31 0x7efffff4; X; X; X; X; E 29 0x117ffff4; X; E 28 0x1fffff4; E 29 0x11fffff4;
  E 28 0x27ffff4; E 29 0x127ffff4; E 28 0x2fffff4; E 29 0x12fffff4; E 29 0x137ffff4; E 29 0x13fffff4; E 28 0x37ffff4;
  E 30 0x3a7ffff4; E 30 0x3afffff4; E 29 0x147ffff4; E 29 0x14fffff4; E 29 0x157ffff4; E 28 0x3fffff4;
  E 29 0x15fffff4; E 30 0x3b7ffff4; E 29 0x167ffff4; E 28 0x47ffff4; E 28 0x4fffff4; E 29 0x16fffff4; E 30 0x3bfffff4;
  E 30 0x3c7ffff4; E 30 0x3cfffff4; E 30 0x3d7ffff4; E 30 0x3dfffff4; X; X; X; X; X; X; X; X; X; X; X; X; X; X; X; X;
  X; X; X; X; X; X; X; X; X; X; X; X; X; X; X; X; X; X; X; X; X; X; X; X; X; X; X; X; X; X; X; X; X; X; X; X; X; X; X;
  X; X; X; X; X; X; X; X; X; X; X; X; X; X; X; X; X; X; X; X; X; X; X; X; X; X; X; X; X; X; X; X; X; X; X; X; X; X; X;
  X; X; X; X; X; X; X; X; X; X; X; X; X; X; X; X; X; X; X; X; X; X; X; X; X; X; X; X; X; X; X; X; X; X; X; X; X; X; X].
Definition hencs_240 : list henc := [
  X; X; X; X; X; X; X; X; X; X; X; X; X; X; X; X; X; X; X; X; X; X; X; X; X; X; X; X; X; X; X; X; E 32 0x53ffffeb; X;
  X; X; X; E 32 0x57ffffeb; X; X; X; X; X; X; X; E 32 0x5bffffeb; E 32 0x5fffffeb; E 32 0x63ffffeb; E 31 0x3ffffeb;
  E 31 0x7ffffeb; E 31 0xbffffeb; E 32 0x67ffffeb; E 32 0x6bffffeb; E 32 0x6fffffeb; E 32 0x73ffffeb; E 32 0x77ffffeb;
  E 32 0x7bffffeb; E 32 0x7fffffeb; X; X; X; E 32 0x83ffffeb; X; X; X; E 32 0x87ffffeb; X; X; X; X; X; X; X; X; X; X;
  X; X; X; X; X; X; X; X; X; X; X; X; X; X; X; X; X; X; X; E 32 0x8bffffeb; X; E 31 0xfffffeb; E 32 0x8fffffeb;
  E 31 0x13ffffeb; E 32 0x93ffffeb; E 31 0x17ffffeb; E 32 0x97ffffeb; E 32 0x9bffffeb; E 32 0x9fffffeb;
  E 31 0x1bffffeb; X; X; E 32 0xa3ffffeb; E 32 0xa7ffffeb; E 32 0xabffffeb; E 31 0x1fffffeb; E 32 0xafffffeb; X;
  E 32 0xb3ffffeb; E 31 0x23ffffeb; E 31 0x27ffffeb; E 32 0xb7ffffeb; X; X; X; X; X; X; X; X; X; X; X; X; X; X; X; X;
  X; X; X; X; X; X; X; X; X; X; X; X; X; X; X; X; X; X; X; X; X; X; X; X; X; X; X; X; X; X; X; X; X; X; X; X; X; X; X;
  X; X; X; X; X; X; X; X; X; X; X; X; X; X; X; X; X; X; X; X; X; X; X; X; X; X; X; X; X; X; X; X; X; X; X; X; X; X; X;
  X; X; X; X; X; X; X; X; X; X; X; X; X; X; X; X; X; X; X; X; X; X; X; X; X; X; X; X; X; X; X; X; X; X; X; X; X; X; X;
  X; X; X; X; X].
Definition hencs_241 : list henc := [
  X; X; X; X; X; X; X; X; X; X; X; X; X; X; X; X; X; X; X; X; X; X; X; X; X; X; X; X; X; X; X; X; X; X; X; X; X; X; X;
  X; X; X; X; X; X; X; X; X; E 32 0x7ffffe6; E 32 0xfffffe6; E 32 0x17ffffe6; X; X; X; X; X; X; X; X; X; X; X; X; X;
  X; X; X; X; X; X; X; X; X; X; X; X; X; X; X; X; X; X; X; X; X; X; X; X; X; X; X; X; X; X; X; X; X; E 32 0x1fffffe6;
  X; E 32 0x27ffffe6; X; E 32 0x2fffffe6; X; X; X; E 32 0x37ffffe6; X; X; X; X; X; E 32 0x3fffffe6; X; X; X;
  E 32 0x47ffffe6; E 32 0x4fffffe6; X; X; X; X; X; X; X; X; X; X; X; X; X; X; X; X; X; X; X; X; X; X; X; X; X; X; X;
  X; X; X; X; X; X; X; X; X; X; X; X; X; X; X; X; X; X; X; X; X; X; X; X; X; X; X; X; X; X; X; X; X; X; X; X; X; X; X;
  X; X; X; X; X; X; X; X; X; X; X; X; X; X; X; X; X; X; X; X; X; X; X; X; X; X; X; X; X; X; X; X; X; X; X; X; X; X; X;
  X; X; X; X; X; X; X; X; X; X; X; X; X; X; X; X; X; X; X; X; X; X; X; X; X; X; X; X; X; X; X; X; X; X].
Definition hencs_242 : list henc := [
  X; X; X; X; X; X; X; X; X; X; X; X; X; X; X; X; X; X; X; X; X; X; X; X; X; X; X; X; X; X; X; X; E 32 0x53ffffec; X;
  X; X; X; E 32 0x57ffffec; X; X; X; X; X; X; X; E 32 0x5bffffec; E 32 0x5fffffec; E 32 0x63ffffec; E 31 0x3ffffec;
  E 31 0x7ffffec; E 31 0xbffffec; E 32 0x67ffffec; E 32 0x6bffffec; E 32 0x6fffffec; E 32 0x73ffffec; E 32 0x77ffffec;
  E 32 0x7bffffec; E 32 0x7fffffec; X; X; X; E 32 0x83ffffec; X; X; X; E 32 0x87ffffec; X; X; X; X; X; X; X; X; X; X;
  X; X; X; X; X; X; X; X; X; X; X; X; X; X; X; X; X; X; X; E 32 0x8bffffec; X; E 31 0xfffffec; E 32 0x8fffffec;
  E 31 0x13ffffec; E 32 0x93ffffec; E 31 0x17ffffec; E 32 0x97ffffec; E 32 0x9bffffec; E 32 0x9fffffec;
  E 31 0x1bffffec; X; X; E 32 0xa3ffffec; E 32 0xa7ffffec; E 32 0xabffffec; E 31 0x1fffffec; E 32 0xafffffec; X;
  E 32 0xb3ffffec; E 31 0x23ffffec; E 31 0x27ffffec; E 32 0xb7ffffec; X; X; X; X; X; X; X; X; X; X; X; X; X; X; X; X;
  X; X; X; X; X; X; X; X; X; X; X; X; X; X; X; X; X; X; X; X; X; X; X; X; X; X; X; X; X; X; X; X; X; X; X; X; X; X; X;
  X; X; X; X; X; X; X; X; X; X; X; X; X; X; X; X; X; X; X; X; X; X; X; X; X; X; X; X; X; X; X; X; X; X; X; X; X; X; X;
  X; X; X; X; X; X; X; X; X; X; X; X; X; X; X; X; X; X; X; X; X; X; X; X; X; X; X; X; X; X; X; X; X; X; X; X; X; X; X;
  X; X; X; X; X].
Definition hencs_243 : list henc := [
  X; X; X; X; X; X; X; X; X; X; X; X; X; X; X; X; X; X; X; X; X; X; X; X; X; X; X; X; X; X; X; X; E 32 0x53ffffed; X;
  X; X; X; E 32 0x57ffffed; X; X; X; X; X; X; X; E 32 0x5bffffed; E 32 0x5fffffed; E 32 0x63ffffed; E 31 0x3ffffed;
  E 31 0x7ffffed; E 31 0xbffffed; E 32 0x67ffffed; E 32 0x6bffffed; E 32 0x6fffffed; E 32 0x73ffffed; E 32 0x77ffffed;
  E 32 0x7bffffed; E 32 0x7fffffed; X; X; X; E 32 0x83ffffed; X; X; X; E 32 0x87ffffed; X; X; X; X; X; X; X; X; X; X;
  X; X; X; X; X; X; X; X; X; X; X; X; X; X; X; X; X; X; X; E 32 0x8bffffed; X; E 31 0xfffffed; E 32 0x8fffffed;
  E 31 0x13ffffed; E 32 0x93ffffed; E 31 0x17ffffed; E 32 0x97ffffed; E 32 0x9bffffed; E 32 0x9fffffed;
  E 31 0x1bffffed; X; X; E 32 0xa3ffffed; E 32 0xa7ffffed; E 32 0xabffffed; E 31 0x1fffffed; E 32 0xafffffed; X;
  E 32 0xb3ffffed; E 31 0x23ffffed; E 31 0x27ffffed; E 32 0xb7ffffed; X; X; X; X; X; X; X; X; X; X; X; X; X; X; X; X;
  X; X; X; X; X; X; X; X; X; X; X; X; X; X; X; X; X; X; X; X; X; X; X; X; X; X; X; X; X; X; X; X; X; X; X; X; X; X; X;
  X; X; X; X; X; X; X; X; X; X; X; X; X; X; X; X; X; X; X; X; X; X; X; X; X; X; X; X; X; X; X; X; X; X; X; X; X; X; X;
  X; X; X; X; X; X; X; X; X; X; X; X; X; X; X; X; X; X; X; X; X; X; X; X; X; X; X; X; X; X; X; X; X; X; X; X; X; X; X;
  X; X; X; X; X].
Definition hencs_244 : list henc := [
  X; X; X; X; X; X; X; X; X; X; X; X; X; X; X; X; X; X; X; X; X; X; X; X; X; X; X; X; X; X; X; X; X; X; X; X; X; X; X;
  X; X; X; X; X; X; X; X; X; E 32 0x7ffffe7; E 32 0xfffffe7; E 32 0x17ffffe7; X; X; X; X; X; X; X; X; X; X; X; X; X;
  X; X; X; X; X; X; X; X; X; X; X; X; X; X; X; X; X; X; X; X; X; X; X; X; X; X; X; X; X; X; X; X; X; E 32 0x1fffffe7;
  X; E 32 0x27ffffe7; X; E 32 0x2fffffe7; X; X; X; E 32 0x37ffffe7; X; X; X; X; X; E 32 0x3fffffe7; X; X; X;
  E 32 0x47ffffe7; E 32 0x4fffffe7; X; X; X; X; X; X; X; X; X; X; X; X; X; X; X; X; X; X; X; X; X; X; X; X; X; X; X;
  X; X; X; X; X; X; X; X; X; X; X; X; X; X; X; X; X; X; X; X; X; X; X; X; X; X; X; X; X; X; X; X; X; X; X; X; X; X; X;
  X; X; X; X; X; X; X; X; X; X; X; X; X; X; X; X; X; X; X; X; X; X; X; X; X; X; X; X; X; X; X; X; X; X; X; X; X; X; X;
  X; X; X; X; X; X; X; X; X; X; X; X; X; X; X; X; X; X; X; X; X; X; X; X; X; X; X; X; X; X; X; X; X; X].
Definition hencs_245 : list henc := [
  X; X; X; X; X; X; X; X; X; X; X; X; X; X; X; X; X; X; X; X; X; X; X; X; X; X; X; X; X; X; X; X; X; X; X; X; X; X; X;
  X; X; X; X; X; X; X; X; X; E 32 0x7ffffe8; E 32 0xfffffe8; E 32 0x17ffffe8; X; X; X; X; X; X; X; X; X; X; X; X; X;
  X; X; X; X; X; X; X; X; X; X; X; X; X; X; X; X; X; X; X; X; X; X; X; X; X; X; X; X; X; X; X; X; X; E 32 0x1fffffe8;
  X; E 32 0x27ffffe8; X; E 32 0x2fffffe8; X; X; X; E 32 0x37ffffe8; X; X; X; X; X; E 32 0x3fffffe8; X; X; X;
  E 32 0x47ffffe8; E 32 0x4fffffe8; X; X; X; X; X; X; X; X; X; X; X; X; X; X; X; X; X; X; X; X; X; X; X; X; X; X; X;
  X; X; X; X; X; X; X; X; X; X; X; X; X; X; X; X; X; X; X; X; X; X; X; X; X; X; X; X; X; X; X; X; X; X; X; X; X; X; X;
  X; X; X; X; X; X; X; X; X; X; X; X; X; X; X; X; X; X; X; X; X; X; X; X; X; X; X; X; X; X; X; X; X; X; X; X; X; X; X;
  X; X; X; X; X; X; X; X; X; X; X; X; X; X; X; X; X; X; X; X; X; X; X; X; X; X; X; X; X; X; X; X; X; X].
Definition hencs_246 : list henc := [
  X; X; X; X; X; X; X; X; X; X; X; X; X; X; X; X; X; X; X; X; X; X; X; X; X; X; X; X; X; X; X; X; X; X; X; X; X; X; X;
  X; X; X; X; X; X; X; X; X; E 32 0x7ffffe9; E 32 0xfffffe9; E 32 0x17ffffe9; X; X; X; X; X; X; X; X; X; X; X; X; X;
  X; X; X; X; X; X; X; X; X; X; X; X; X; X; X; X; X; X; X; X; X; X; X; X; X; X; X; X; X; X; X; X; X; E 32 0x1fffffe9;
  X; E 32 0x27ffffe9; X; E 32 0x2fffffe9; X; X; X; E 32 0x37ffffe9; X; X; X; X; X; E 32 0x3fffffe9; X; X; X;
  E 32 0x47ffffe9; E 32 0x4fffffe9; X; X; X; X; X; X; X; X; X; X; X; X; X; X; X; X; X; X; X; X; X; X; X; X; X; X; X;
  X; X; X; X; X; X; X; X; X; X; X; X; X; X; X; X; X; X; X; X; X; X; X; X; X; X; X; X; X; X; X; X; X; X; X; X; X; X; X;
  X; X; X; X; X; X; X; X; X; X; X; X; X; X; X; X; X; X; X; X; X; X; X; X; X; X; X; X; X; X; X; X; X; X; X; X; X; X; X;
  X; X; X; X; X; X; X; X; X; X; X; X; X; X; X; X; X; X; X; X; X; X; X; X; X; X; X; X; X; X; X; X; X; X].
Definition hencs_247 : list henc := [
  X; X; X; X; X; X; X; X; X; X; X; X; X; X; X; X; X; X; X; X; X; X; X; X; X; X; X; X; X; X; X; X; X; X; X; X; X; X; X;
  X; X; X; X; X; X; X; X; X; E 32 0x7ffffea; E 32 0xfffffea; E 32 0x17ffffea; X; X; X; X; X; X; X; X; X; X; X; X; X;
  X; X; X; X; X; X; X; X; X; X; X; X; X; X; X; X; X; X; X; X; X; X; X; X; X; X; X; X; X; X; X; X; X; E 32 0x1fffffea;
  X; E 32 0x27ffffea; X; E 32 0x2fffffea; X; X; X; E 32 0x37ffffea; X; X; X; X; X; E 32 0x3fffffea; X; X; X;
  E 32 0x47ffffea; E 32 0x4fffffea; X; X; X; X; X; X; X; X; X; X; X; X; X; X; X; X; X; X; X; X; X; X; X; X; X; X; X;
  X; X; X; X; X; X; X; X; X; X; X; X; X; X; X; X; X; X; X; X; X; X; X; X; X; X; X; X; X; X; X; X; X; X; X; X; X; X; X;
  X; X; X; X; X; X; X; X; X; X; X; X; X; X; X; X; X; X; X; X; X; X; X; X; X; X; X; X; X; X; X; X; X; X; X; X; X; X; X;
  X; X; X; X; X; X; X; X; X; X; X; X; X; X; X; X; X; X; X; X; X; X; X; X; X; X; X; X; X; X; X; X; X; X].
Definition hencs_248 : list henc := [
  X; X; X; X; X; X; X; X; X; X; X; X; X; X; X; X; X; X; X; X; X; X; X; X; X; X; X; X; X; X; X; X; X; X; X; X; X; X; X;
  X; X; X; X; X; X; X; X; X; E 32 0x7ffffeb; E 32 0xfffffeb; E 32 0x17ffffeb; X; X; X; X; X; X; X; X; X; X; X; X; X;
  X; X; X; X; X; X; X; X; X; X; X; X; X; X; X; X; X; X; X; X; X; X; X; X; X; X; X; X; X; X; X; X; X; E 32 0x1fffffeb;
  X; E 32 0x27ffffeb; X; E 32 0x2fffffeb; X; X; X; E 32 0x37ffffeb; X; X; X; X; X; E 32 0x3fffffeb; X; X; X;
  E 32 0x47ffffeb; E 32 0x4fffffeb; X; X; X; X; X; X; X; X; X; X; X; X; X; X; X; X; X; X; X; X; X; X; X; X; X; X; X;
  X; X; X; X; X; X; X; X; X; X; X; X; X; X; X; X; X; X; X; X; X; X; X; X; X; X; X; X; X; X; X; X; X; X; X; X; X; X; X;
  X; X; X; X; X; X; X; X; X; X; X; X; X; X; X; X; X; X; X; X; X; X; X; X; X; X; X; X; X; X; X; X; X; X; X; X; X; X; X;
  X; X; X; X; X; X; X; X; X; X; X; X; X; X; X; X; X; X; X; X; X; X; X; X; X; X; X; X; X; X; X; X; X; X].
Definition hencs_249 : list henc := [
  X; X; X; X; X; X; X; X; X; X; X; X; X; X; X; X; X; X; X; X; X; X; X; X; X; X; X; X; X; X; X; X; X; X; X; X; X; X; X;
  X; X; X; X; X; X; X; X; X; X; X; X; X; X; X; X; X; X; X; X; X; X; X; X; X; X; X; X; X; X; X; X; X; X; X; X; X; X; X;
  X; X; X; X; X; X; X; X; X; X; X; X; X; X; X; X; X; X; X; X; X; X; X; X; X; X; X; X; X; X; X; X; X; X; X; X; X; X; X;
  X; X; X; X; X; X; X; X; X; X; X; X; X; X; X; X; X; X; X; X; X; X; X; X; X; X; X; X; X; X; X; X; X; X; X; X; X; X; X;
  X; X; X; X; X; X; X; X; X; X; X; X; X; X; X; X; X; X; X; X; X; X; X; X; X; X; X; X; X; X; X; X; X; X; X; X; X; X; X;
  X; X; X; X; X; X; X; X; X; X; X; X; X; X; X; X; X; X; X; X; X; X; X; X; X; X; X; X; X; X; X; X; X; X; X; X; X; X; X;
  X; X; X; X; X; X; X; X; X; X; X; X; X; X; X; X; X; X; X; X; X; X].
Definition hencs_250 : list henc := [
  X; X; X; X; X; X; X; X; X; X; X; X; X; X; X; X; X; X; X; X; X; X; X; X; X; X; X; X; X; X; X; X; X; X; X; X; X; X; X;
  X; X; X; X; X; X; X; X; X; E 32 0x7ffffec; E 32 0xfffffec; E 32 0x17ffffec; X; X; X; X; X; X; X; X; X; X; X; X; X;
  X; X; X; X; X; X; X; X; X; X; X; X; X; X; X; X; X; X; X; X; X; X; X; X; X; X; X; X; X; X; X; X; X; E 32 0x1fffffec;
  X; E 32 0x27ffffec; X; E 32 0x2fffffec; X; X; X; E 32 0x37ffffec; X; X; X; X; X; E 32 0x3fffffec; X; X; X;
  E 32 0x47ffffec; E 32 0x4fffffec; X; X; X; X; X; X; X; X; X; X; X; X; X; X; X; X; X; X; X; X; X; X; X; X; X; X; X;
  X; X; X; X; X; X; X; X; X; X; X; X; X; X; X; X; X; X; X; X; X; X; X; X; X; X; X; X; X; X; X; X; X; X; X; X; X; X; X;
  X; X; X; X; X; X; X; X; X; X; X; X; X; X; X; X; X; X; X; X; X; X; X; X; X; X; X; X; X; X; X; X; X; X; X; X; X; X; X;
  X; X; X; X; X; X; X; X; X; X; X; X; X; X; X; X; X; X; X; X; X; X; X; X; X; X; X; X; X; X; X; X; X; X].
Definition hencs_251 : list henc := [
  X; X; X; X; X; X; X; X; X; X; X; X; X; X; X; X; X; X; X; X; X; X; X; X; X; X; X; X; X; X; X; X; X; X; X; X; X; X; X;
  X; X; X; X; X; X; X; X; X; E 32 0x7ffffed; E 32 0xfffffed; E 32 0x17ffffed; X; X; X; X; X; X; X; X; X; X; X; X; X;
  X; X; X; X; X; X; X; X; X; X; X; X; X; X; X; X; X; X; X; X; X; X; X; X; X; X; X; X; X; X; X; X; X; E 32 0x1fffffed;
  X; E 32 0x27ffffed; X; E 32 0x2fffffed; X; X; X; E 32 0x37ffffed; X; X; X; X; X; E 32 0x3fffffed; X; X; X;
  E 32 0x47ffffed; E 32 0x4fffffed; X; X; X; X; X; X; X; X; X; X; X; X; X; X; X; X; X; X; X; X; X; X; X; X; X; X; X;
  X; X; X; X; X; X; X; X; X; X; X; X; X; X; X; X; X; X; X; X; X; X; X; X; X; X; X; X; X; X; X; X; X; X; X; X; X; X; X;
  X; X; X; X; X; X; X; X; X; X; X; X; X; X; X; X; X; X; X; X; X; X; X; X; X; X; X; X; X; X; X; X; X; X; X; X; X; X; X;
  X; X; X; X; X; X; X; X; X; X; X; X; X; X; X; X; X; X; X; X; X; X; X; X; X; X; X; X; X; X; X; X; X; X].
Definition hencs_252 : list henc := [
  X; X; X; X; X; X; X; X; X; X; X; X; X; X; X; X; X; X; X; X; X; X; X; X; X; X; X; X; X; X; X; X; X; X; X; X; X; X; X;
  X; X; X; X; X; X; X; X; X; E 32 0x7ffffee; E 32 0xfffffee; E 32 0x17ffffee; X; X; X; X; X; X; X; X; X; X; X; X; X;
  X; X; X; X; X; X; X; X; X; X; X; X; X; X; X; X; X; X; X; X; X; X; X; X; X; X; X; X; X; X; X; X; X; E 32 0x1fffffee;
  X; E 32 0x27ffffee; X; E 32 0x2fffffee; X; X; X; E 32 0x37ffffee; X; X; X; X; X; E 32 0x3fffffee; X; X; X;
  E 32 0x47ffffee; E 32 0x4fffffee; X; X; X; X; X; X; X; X; X; X; X; X; X; X; X; X; X; X; X; X; X; X; X; X; X; X; X;
  X; X; X; X; X; X; X; X; X; X; X; X; X; X; X; X; X; X; X; X; X; X; X; X; X; X; X; X; X; X; X; X; X; X; X; X; X; X; X;
  X; X; X; X; X; X; X; X; X; X; X; X; X; X; X; X; X; X; X; X; X; X; X; X; X; X; X; X; X; X; X; X; X; X; X; X; X; X; X;
  X; X; X; X; X; X; X; X; X; X; X; X; X; X; X; X; X; X; X; X; X; X; X; X; X; X; X; X; X; X; X; X; X; X].
Definition hencs_253 : list henc := [
  X; X; X; X; X; X; X; X; X; X; X; X; X; X; X; X; X; X; X; X; X; X; X; X; X; X; X; X; X; X; X; X; X; X; X; X; X; X; X;
  X; X; X; X; X; X; X; X; X; E 32 0x7ffffef; E 32 0xfffffef; E 32 0x17ffffef; X; X; X; X; X; X; X; X; X; X; X; X; X;
  X; X; X; X; X; X; X; X; X; X; X; X; X; X; X; X; X; X; X; X; X; X; X; X; X; X; X; X; X; X; X; X; X; E 32 0x1fffffef;
  X; E 32 0x27ffffef; X; E 32 0x2fffffef; X; X; X; E 32 0x37ffffef; X; X; X; X; X; E 32 0x3fffffef; X; X; X;
  E 32 0x47ffffef; E 32 0x4fffffef; X; X; X; X; X; X; X; X; X; X; X; X; X; X; X; X; X; X; X; X; X; X; X; X; X; X; X;
  X; X; X; X; X; X; X; X; X; X; X; X; X; X; X; X; X; X; X; X; X; X; X; X; X; X; X; X; X; X; X; X; X; X; X; X; X; X; X;
  X; X; X; X; X; X; X; X; X; X; X; X; X; X; X; X; X; X; X; X; X; X; X; X; X; X; X; X; X; X; X; X; X; X; X; X; X; X; X;
  X; X; X; X; X; X; X; X; X; X; X; X; X; X; X; X; X; X; X; X; X; X; X; X; X; X; X; X; X; X; X; X; X; X].
Definition hencs_254 : list henc := [
  X; X; X; X; X; X; X; X; X; X; X; X; X; X; X; X; X; X; X; X; X; X; X; X; X; X; X; X; X; X; X; X; X; X; X; X; X; X; X;
  X; X; X; X; X; X; X; X; X; E 32 0x7fffff0; E 32 0xffffff0; E 32 0x17fffff0; X; X; X; X; X; X; X; X; X; X; X; X; X;
  X; X; X; X; X; X; X; X; X; X; X; X; X; X; X; X; X; X; X; X; X; X; X; X; X; X; X; X; X; X; X; X; X; E 32 0x1ffffff0;
  X; E 32 0x27fffff0; X; E 32 0x2ffffff0; X; X; X; E 32 0x37fffff0; X; X; X; X; X; E 32 0x3ffffff0; X; X; X;
  E 32 0x47fffff0; E 32 0x4ffffff0; X; X; X; X; X; X; X; X; X; X; X; X; X; X; X; X; X; X; X; X; X; X; X; X; X; X; X;
  X; X; X; X; X; X; X; X; X; X; X; X; X; X; X; X; X; X; X; X; X; X; X; X; X; X; X; X; X; X; X; X; X; X; X; X; X; X; X;
  X; X; X; X; X; X; X; X; X; X; X; X; X; X; X; X; X; X; X; X; X; X; X; X; X; X; X; X; X; X; X; X; X; X; X; X; X; X; X;
  X; X; X; X; X; X; X; X; X; X; X; X; X; X; X; X; X; X; X; X; X; X; X; X; X; X; X; X; X; X; X; X; X; X].
Definition hencs_255 : list henc := [
  X; X; X; X; X; X; X; X; X; X; X; X; X; X; X; X; X; X; X; X; X; X; X; X; X; X; X; X; X; X; X; X; E 32 0x53ffffee; X;
  X; X; X; E 32 0x57ffffee; X; X; X; X; X; X; X; E 32 0x5bffffee; E 32 0x5fffffee; E 32 0x63ffffee; E 31 0x3ffffee;
  E 31 0x7ffffee; E 31 0xbffffee; E 32 0x67ffffee; E 32 0x6bffffee; E 32 0x6fffffee; E 32 0x73ffffee; E 32 0x77ffffee;
  E 32 0x7bffffee; E 32 0x7fffffee; X; X; X; E 32 0x83ffffee; X; X; X; E 32 0x87ffffee; X; X; X; X; X; X; X; X; X; X;
  X; X; X; X; X; X; X; X; X; X; X; X; X; X; X; X; X; X; X; E 32 0x8bffffee; X; E 31 0xfffffee; E 32 0x8fffffee;
  E 31 0x13ffffee; E 32 0x93ffffee; E 31 0x17ffffee; E 32 0x97ffffee; E 32 0x9bffffee; E 32 0x9fffffee;
  E 31 0x1bffffee; X; X; E 32 0xa3ffffee; E 32 0xa7ffffee; E 32 0xabffffee; E 31 0x1fffffee; E 32 0xafffffee; X;
  E 32 0xb3ffffee; E 31 0x23ffffee; E 31 0x27ffffee; E 32 0xb7ffffee; X; X; X; X; X; X; X; X; X; X; X; X; X; X; X; X;
  X; X; X; X; X; X; X; X; X; X; X; X; X; X; X; X; X; X; X; X; X; X; X; X; X; X; X; X; X; X; X; X; X; X; X; X; X; X; X;
  X; X; X; X; X; X; X; X; X; X; X; X; X; X; X; X; X; X; X; X; X; X; X; X; X; X; X; X; X; X; X; X; X; X; X; X; X; X; X;
  X; X; X; X; X; X; X; X; X; X; X; X; X; X; X; X; X; X; X; X; X; X; X; X; X; X; X; X; X; X; X; X; X; X; X; X; X; X; X;
  X; X; X; X; X].

Definition hencs : list (list henc) := [
  hencs_0; hencs_1; hencs_2; hencs_3; hencs_4; hencs_5; hencs_6; hencs_7; hencs_8; hencs_9; hencs_10; hencs_11;
  hencs_12; hencs_13; hencs_14; hencs_15; hencs_16; hencs_17; hencs_18; hencs_19; hencs_20; hencs_21; hencs_22;
  hencs_23; hencs_24; hencs_25; hencs_26; hencs_27; hencs_28; hencs_29; hencs_30; hencs_31; hencs_32; hencs_33;
  hencs_34; hencs_35; hencs_36; hencs_37; hencs_38; hencs_39; hencs_40; hencs_41; hencs_42; hencs_43; hencs_44;
  hencs_45; hencs_46; hencs_47; hencs_48; hencs_49; hencs_50; hencs_51; hencs_52; hencs_53; hencs_54; hencs_55;
  hencs_56; hencs_57; hencs_58; hencs_59; hencs_60; hencs_61; hencs_62; hencs_63; hencs_64; hencs_65; hencs_66;
  hencs_67; hencs_68; hencs_69; hencs_70; hencs_71; hencs_72; hencs_73; hencs_74; hencs_75; hencs_76; hencs_77;
  hencs_78; hencs_79; hencs_80; hencs_81; hencs_82; hencs_83; hencs_84; hencs_85; hencs_86; hencs_87; hencs_88;
  hencs_89; hencs_90; hencs_91; hencs_92; hencs_93; hencs_94; hencs_95; hencs_96; hencs_97; hencs_98; hencs_99;
  hencs_100; hencs_101; hencs_102; hencs_103; hencs_104; hencs_105; hencs_106; hencs_107; hencs_108; hencs_109;
  hencs_110; hencs_111; hencs_112; hencs_113; hencs_114; hencs_115; hencs_116; hencs_117; hencs_118; hencs_119;
  hencs_120; hencs_121; hencs_122; hencs_123; hencs_124; hencs_125; hencs_126; hencs_127; hencs_128; hencs_129;
  hencs_130; hencs_131; hencs_132; hencs_133; hencs_134; hencs_135; hencs_136; hencs_137; hencs_138; hencs_139;
  hencs_140; hencs_141; hencs_142; hencs_143; hencs_144; hencs_145; hencs_146; hencs_147; hencs_148; hencs_149;
  hencs_150; hencs_151; hencs_152; hencs_153; hencs_154; hencs_155; hencs_156; hencs_157; hencs_158; hencs_159;
  hencs_160; hencs_161; hencs_162; hencs_163; hencs_164; hencs_165; hencs_166; hencs_167; hencs_168; hencs_169;
  hencs_170; hencs_171; hencs_172; hencs_173; hencs_174; hencs_175; hencs_176; hencs_177; hencs_178; hencs_179;
  hencs_180; hencs_181; hencs_182; hencs_183; hencs_184; hencs_185; hencs_186; hencs_187; hencs_188; hencs_189;
  hencs_190; hencs_191; hencs_192; hencs_193; hencs_194; hencs_195; hencs_196; hencs_197; hencs_198; hencs_199;
  hencs_200; hencs_201; hencs_202; hencs_203; hencs_204; hencs_205; hencs_206; hencs_207; hencs_208; hencs_209;
  hencs_210; hencs_211; hencs_212; hencs_213; hencs_214; hencs_215; hencs_216; hencs_217; hencs_218; hencs_219;
  hencs_220; hencs_221; hencs_222; hencs_223; hencs_224; hencs_225; hencs_226; hencs_227; hencs_228; hencs_229;
  hencs_230; hencs_231; hencs_232; hencs_233; hencs_234; hencs_235; hencs_236; hencs_237; hencs_238; hencs_239;
  hencs_240; hencs_241; hencs_242; hencs_243; hencs_244; hencs_245; hencs_246; hencs_247; hencs_248; hencs_249;
  hencs_250; hencs_251; hencs_252; hencs_253; hencs_254; hencs_255].

(** The table is right. *)
Lemma hencs_rows : hencs = pair_row <$> take 256 encode_table.
Proof. vm_compute. reflexivity. Qed.
