(* ===== verification/HuffEnc.v ===== *)
(** * The Huffman encoder with the large tables

    qenc_huffman_enc as built by default, with LS_QPACK_USE_LARGE_TABLES: as long as
    there is input enough it takes two bytes at once, and the bytewise loop of [Huffman]
    does the rest.  Its output is that of the bytewise encoder alone ([large_encoder]),
    which the rest of the development uses. *)

From S2P Require Import Prelude HuffTables Huffman HuffPairs HencTable.

(** [hencs[idx]]; the row is the high byte. *)
Definition henc_at (idx : Z) : henc :=
  nth (Z.to_nat (idx mod 256)) (nth (Z.to_nat (idx / 256)) hencs []) (Henc 0 0).

(** [memcpy(&idx, src, 2)] on a little-endian machine; [None] beyond the input. *)
Definition read_idx (src : bytes) : option Z :=
  match src with
  | a :: b :: _ => Some (Z.lor a (Z.shiftl b 8))
  | _ => None
  end.

(** The inner loop, from reading [idx]: the source from that pair on, its element,
    and the accumulator.  A pair has ten bits or more. *)
Fixpoint pairs_fill (fuel : nat) (src : bytes) (bits bits_used : Z) : option (bytes * henc * Z * Z) :=
  idx ← read_idx src;
  let henc := henc_at idx in
  if bits_used + henc_lens henc <? 64 then
    match fuel with
    | O => None
    | S fuel =>
        pairs_fill fuel (drop 2 src)
          (Z.lor (u64 (Z.shiftl bits (henc_lens henc))) (henc_code henc)) (bits_used + henc_lens henc)
    end
  else Some (src, henc, bits, bits_used).

(** The outer loop, then the bytewise one. *)
Fixpoint pairs_loop (fuel : nat) (src : bytes) (bits bits_used : Z) : option bytes :=
  if 14 <? Z.of_nat (length src) then
    match fuel with
    | O => None
    | S fuel =>
        '(src, henc, bits, bits_used) ← pairs_fill 7 src bits bits_used;
        if henc_lens henc <? 64 then
          let bits := u64 (Z.shiftl bits (64 - bits_used)) in
          let bits_used := henc_lens henc - (64 - bits_used) in
          let bits := Z.lor bits (Z.shiftr (henc_code henc) bits_used) in
          out ← pairs_loop fuel (drop 2 src) (henc_code henc) bits_used;
          Some (store_be 8 bits ++ out)
        else Some (huffman_loop src bits bits_used)
    end
  else Some (huffman_loop src bits bits_used).

(** [None] if it were to read beyond the input or not to end. *)
Definition qenc_huffman_enc_large (bits0 : Z) (src : bytes) : option bytes :=
  pairs_loop (length src) src bits0 0.

(** ** The table *)

Lemma enc_el_lookup c : is_u8 c -> take 256 encode_table !! Z.to_nat c = Some (enc_el c).
Proof.
  intros Hc. assert (length encode_table = 257%nat) as Hl by (vm_compute; reflexivity).
  rewrite lookup_take_lt by ulia. destruct (lookup_lt_is_Some_2 encode_table (Z.to_nat c)) as [e He]; [rewrite Hl; ulia|].
  rewrite He. f_equal. unfold enc_el. by rewrite (nth_lookup_Some _ _ _ _ He).
Qed.

Lemma henc_at_pair a b : is_u8 a -> is_u8 b ->
  henc_at (Z.lor a (Z.shiftl b 8)) = pair_entry (enc_el a) (enc_el b).
Proof.
  intros Ha Hb. assert (Z.lor a (b ≪ 8) = a + b * 256) as ->.
  { rewrite Z.lor_comm, Z.shiftl_mul_pow2 by lia. change (2 ^ 8) with 256.
    rewrite (lor_disjoint _ _ 8); [lia|lia|by apply Z_mod_mult|done]. }
  unfold henc_at. rewrite Z.div_add, Z.mod_add, Z.div_small, Z.mod_small, Z.add_0_l by ulia. rewrite hencs_rows.
  assert ((pair_row <$> take 256 encode_table) !! Z.to_nat b = Some (pair_row (enc_el b))) as E
    by (by rewrite list_lookup_fmap, enc_el_lookup).
  rewrite (nth_lookup_Some _ _ _ _ E).
  assert (pair_row (enc_el b) !! Z.to_nat a = Some (pair_entry (enc_el a) (enc_el b))) as E2
    by (unfold pair_row; by rewrite list_lookup_fmap, enc_el_lookup).
  by rewrite (nth_lookup_Some _ _ _ _ E2).
Qed.

(** A pair is invalid, or it is the codes of its bytes. *)
Lemma pair_entry_ok a b : is_u8 a -> is_u8 b ->
  let h := pair_entry (enc_el a) (enc_el b) in
  (henc_lens h = 64
   \/ (10 <= henc_lens h <= 32 /\ 0 <= henc_code h < 2 ^ henc_lens h
       /\ z_bits (Z.to_nat (henc_lens h)) (henc_code h) = code_bits [a; b])).
Proof.
  intros Ha Hb. destruct (enc_el_ok a Ha) as [La Ca], (enc_el_ok b Hb) as [Lb Cb]. unfold pair_entry. cbn zeta.
  destruct (Z.leb_spec (ee_bits (enc_el a) + ee_bits (enc_el b)) 32); [right|by left]. cbn [henc_lens henc_code].
  split; [lia|]. set (la := ee_bits (enc_el a)) in *. set (lb := ee_bits (enc_el b)) in *.
  assert (0 <= Z.lor (ee_code (enc_el a) ≪ lb) (ee_code (enc_el b)) < 2 ^ (la + lb)) as Hr.
  { apply lor_range.
    - rewrite Z.shiftl_mul_pow2, Z.pow_add_r by lia. pose proof (Z.pow_pos_nonneg 2 lb). nia.
    - rewrite Z.pow_add_r by lia. pose proof (Z.pow_pos_nonneg 2 la). nia. }
  split; [done|]. rewrite Z2Nat.inj_add by lia. replace lb with (Z.of_nat (Z.to_nat lb)) at 2 by lia.
  rewrite z_bits_lor_shiftl by (rewrite Z2Nat.id by lia; lia). cbn. unfold sym_bits. by rewrite app_nil_r.
Qed.

(** ** The loops *)

(** How a pair is read. *)
Lemma read_idx_ok src : is_bytes src -> (2 <= length src)%nat ->
  exists a b rest idx, src = a :: b :: rest /\ is_u8 a /\ is_u8 b /\ is_bytes rest
    /\ read_idx src = Some idx /\ henc_at idx = pair_entry (enc_el a) (enc_el b).
Proof.
  intros Hs Hl. destruct src as [|a [|b rest]]; [cbn in Hl; lia..|].
  apply Forall_cons in Hs as [Ha [Hb Hs]%Forall_cons].
  exists a, b, rest, (Z.lor a (b ≪ 8)). split_and!; try done. by apply henc_at_pair.
Qed.

(** The accumulator takes up pairs until the next one does not fit: nothing is lost,
    and that one, if it is valid, fills the accumulator up. *)
Lemma pairs_fill_ok fuel : forall src bits used,
  is_bytes src -> 0 <= used < 64 -> (2 * fuel < length src)%nat -> 64 <= used + 10 * Z.of_nat fuel ->
  exists src' henc bits' used', pairs_fill fuel src bits used = Some (src', henc, bits', used')
    /\ is_bytes src' /\ 0 <= used' < 64 /\ (length src' <= length src)%nat
    /\ z_bits (Z.to_nat used) bits ++ code_bits src = z_bits (Z.to_nat used') bits' ++ code_bits src'
    /\ 64 <= used' + henc_lens henc
    /\ (henc_lens henc = 64 \/ exists a b rest, src' = a :: b :: rest
         /\ 10 <= henc_lens henc <= 32 /\ 0 <= henc_code henc < 2 ^ henc_lens henc
         /\ z_bits (Z.to_nat (henc_lens henc)) (henc_code henc) = code_bits [a; b]).
Proof.
  induction fuel as [|fuel IH]; intros src bits used Hs Hu Hl Hf; cbn [pairs_fill]; [lia|].
  destruct (read_idx_ok src Hs) as (a & b & rest & idx & -> & Ha & Hb & Hr & Ei & Eh); [lia|].
  rewrite Ei. cbn [mbind option_bind]. rewrite Eh. set (h := pair_entry _ _) in *.
  pose proof (pair_entry_ok a b Ha Hb) as Hh. cbn zeta in Hh. fold h in Hh.
  destruct (Z.ltb_spec (used + henc_lens h) 64) as [Hlt|Hge].
  - destruct Hh as [?|(Hlen & Hc & Hbits)]; [lia|]. cbn [drop].
    destruct (IH rest (Z.lor (u64 (bits ≪ henc_lens h)) (henc_code h)) (used + henc_lens h)) as
      (src' & henc & bits' & used' & E & H1 & H2 & H3 & H4 & H5); [done|lia|cbn in Hl; lia|lia|].
    exists src', henc, bits', used'. split; [done|]. split; [done|]. split; [done|]. split; [cbn; lia|]. split; [|done].
    rewrite <- H4, accumulate_bits, Hbits, <- app_assoc by lia. f_equal.
    change (a :: b :: rest) with ([a; b] ++ rest). apply code_bits_app.
  - exists (a :: b :: rest), h, bits, used. split_and!; try done; try lia.
    destruct Hh as [?|?]; [by left|right]. by exists a, b, rest.
Qed.

(** The loop writes the accumulator, the codes and the padding. *)
Lemma pairs_loop_bits fuel : forall src bits used,
  is_bytes src -> 0 <= used < 64 -> (length src <= fuel)%nat ->
  exists out k, pairs_loop fuel src bits used = Some out /\ is_bytes out /\ (k < 8)%nat
    /\ bytes_bits out = z_bits (Z.to_nat used) bits ++ code_bits src ++ replicate k true.
Proof.
  assert (forall src bits used, is_bytes src -> 0 <= used < 64 ->
    exists out k, Some (huffman_loop src bits used) = Some out /\ is_bytes out /\ (k < 8)%nat
      /\ bytes_bits out = z_bits (Z.to_nat used) bits ++ code_bits src ++ replicate k true) as Hsmall.
  { intros src bits used Hs Hu. destruct (huffman_loop_bits src bits used Hs Hu) as (k & Hk & E).
    exists (huffman_loop src bits used), k. split_and!; try done. apply huffman_loop_bytes. }
  induction fuel as [|fuel IH]; intros src bits used Hs Hu Hl; cbn [pairs_loop];
    (destruct (Z.ltb_spec 14 (Z.of_nat (length src))) as [Hlong|]; [|by apply Hsmall]); [lia|].
  destruct (pairs_fill_ok 7 src bits used) as (src' & h & bits' & used' & E & Hs' & Hu' & Hl' & Hcode & Hfull & Hh); [done|done|lia|lia|].
  rewrite E. cbn [mbind option_bind]. destruct (Z.ltb_spec (henc_lens h) 64) as [Hlt|Hge].
  - destruct Hh as [?|(a & b & rest & -> & Hlen & Hc & Hbits)]; [lia|]. cbn [drop].
    apply Forall_cons in Hs' as [Ha [Hb Hr]%Forall_cons]. set (n := henc_lens h - (64 - used')).
    destruct (IH rest (henc_code h) n) as (out & k & E2 & Ho & Hk & Hob); [done|lia|cbn in Hl'; lia|].
    cbn beta iota zeta. fold n. rewrite drop_0, E2. cbn [mbind option_bind]. eexists _, k. split; [done|].
    split; [apply Forall_app; split; [apply store_be_bytes|done]|]. split; [done|].
    rewrite bytes_bits_app, Hob, store_be_bits, (app_assoc (z_bits (Z.to_nat used) bits)), Hcode.
    change (a :: b :: rest) with ([a; b] ++ rest). rewrite code_bits_app, <- Hbits, <- !app_assoc, app_assoc, (app_assoc (z_bits (Z.to_nat used') bits')). f_equal.
    replace (8 * 8)%nat with (Z.to_nat (used' + (64 - used'))) by lia.
    assert (0 <= Z.shiftr (henc_code h) n < 2 ^ (64 - used')) as Hsh.
    { rewrite Z.shiftr_div_pow2 by lia. pose proof (Z.pow_pos_nonneg 2 n).
      split; [apply Z.div_pos; lia|]. apply Z.div_lt_upper_bound; [lia|].
      rewrite <- Z.pow_add_r by lia. replace (n + (64 - used')) with (henc_lens h) by lia. lia. }
    rewrite accumulate_bits, <- app_assoc by lia. f_equal.
    replace (Z.to_nat (henc_lens h)) with (Z.to_nat (64 - used') + Z.to_nat n)%nat by lia.
    by rewrite z_bits_app, Z2Nat.id by lia.
  - destruct (Hsmall src' bits' used' Hs' Hu') as (out & k & E2 & Ho & Hk & Hob). exists out, k.
    split; [done|]. split; [done|]. split; [done|]. by rewrite Hob, (app_assoc (z_bits (Z.to_nat used) bits)), Hcode, <- app_assoc.
Qed.

(** C28: as built by default the encoder writes what the bytewise encoder does: whatever
    the string, whatever the two leave uninitialised; it never reads beyond the input. *)
Theorem large_encoder bits0 bits1 s :
  is_bytes s -> qenc_huffman_enc_large bits0 s = Some (qenc_huffman_enc bits1 s).
Proof.
  intros Hs. destruct (pairs_loop_bits (length s) s bits0 0 Hs ltac:(lia) ltac:(lia)) as (out & k & E & Ho & Hk & Hb).
  unfold qenc_huffman_enc_large. rewrite E. f_equal. destruct (qenc_huffman_enc_bits bits1 s Hs) as (k' & Hk' & Hb').
  apply (pad_unique (code_bits s) _ _ k k'); try done. apply huffman_loop_bytes.
Qed.

Lemma large_encoder_witness :
  qenc_huffman_enc_large 5 (replicate 20 97) = Some (qenc_huffman_enc 0 (replicate 20 97)).
Proof. apply large_encoder. apply Forall_replicate. unfold is_u8. lia. Defined.
