(* ===== verification/StrCodec.v ===== *)
(** * String literals (RFC 7541, Section 5.2)

    [lsqpack_enc_enc_str] of src/lsqpack.c: a length with an H bit in front of
    it, then the string, Huffman-coded when that is shorter.  [read_str] is a
    one-shot reference reader built from the library's own integer and
    Huffman decoders; the streaming readers in the decoder do the same work
    state by state. *)

From S2P Require Import Prelude IntCodec HuffTables Huffman.

(** [memcpy(buf + off, src, n)]. *)
Definition put_bytes (off : nat) (src buf : bytes) : bytes :=
  take off buf ++ src ++ drop (off + length src) buf.

(** [dst] holds the [dst_len] bytes of the destination.  The result is its new
    content and the return value. *)
Definition lsqpack_enc_enc_str (bits0 prefix_bits : Z) (dst str : bytes) : bytes * Z :=
  let dst_len := Z.of_nat (length dst) in
  let str_len := Z.of_nat (length str) in
  let enc_size_bytes := qenc_enc_str_size str in
  let clear d := Z.land d (Z.lnot (Z.shiftl 1 (prefix_bits + 1) - 1)) in
  if enc_size_bytes <? str_len then
    let len_size := lsqpack_val2len enc_size_bytes prefix_bits in
    if len_size + enc_size_bytes <=? dst_len then
      let d0 := Z.lor (clear (nth 0 dst 0)) (Z.shiftl 1 prefix_bits) in
      let buf := put_bytes 0 (lsqpack_enc_int_nocheck d0 enc_size_bytes prefix_bits) dst in
      let huff := qenc_huffman_enc bits0 str in
      (put_bytes (Z.to_nat len_size) huff buf, len_size + Z.of_nat (length huff))
    else (dst, -1)
  else
    let len_size := lsqpack_val2len str_len prefix_bits in
    if len_size + str_len <=? dst_len then
      let d0 := clear (nth 0 dst 0) in
      let buf := put_bytes 0 (lsqpack_enc_int_nocheck d0 str_len prefix_bits) dst in
      (put_bytes (Z.to_nat len_size) str buf, len_size + str_len)
    else (dst, -1).

(** Reference reader: a string and the bytes after it. *)
Definition read_str (p : Z) (buf : bytes) : option (bytes * bytes) :=
  match buf with
  | [] => None
  | b0 :: src =>
      match lsqpack_dec_int b0 src p dec_int_fresh with
      | DecIntOk n rest =>
          if Z.of_nat (length rest) <? n then None
          else
            let raw := take (Z.to_nat n) rest in
            let rest' := drop (Z.to_nat n) rest in
            if has_bits b0 (Z.shiftl 1 p) then
              let r := fst (lsqpack_huff_decode_full raw (S (2 * Z.to_nat n)) huff_fresh true) in
              match hdr_status r with
              | HUFF_DEC_OK => Some (hdr_out r, rest')
              | _ => None
              end
            else Some (raw, rest')
      | _ => None
      end
  end.

(** ** Lemmas *)

Lemma put_bytes_length off src buf :
  (off + length src <= length buf)%nat -> length (put_bytes off src buf) = length buf.
Proof. intros. unfold put_bytes. rewrite !length_app, length_take, length_drop. lia. Qed.

(** A header followed by a payload. *)
Lemma put_put hdr payload buf :
  (length hdr + length payload <= length buf)%nat ->
  put_bytes (length hdr) payload (put_bytes 0 hdr buf)
  = hdr ++ payload ++ drop (length hdr + length payload) buf.
Proof.
  intros. unfold put_bytes. simpl app. rewrite take_app_length.
  f_equal. f_equal. rewrite <- drop_drop, drop_app_length, drop_drop. done.
Qed.

(** The first byte of a string literal, with and without the H bit. *)
Lemma clear_spec d p :
  1 <= p <= 7 -> is_u8 d ->
  let c := Z.land d (Z.lnot (Z.shiftl 1 (p + 1) - 1)) in
  c = d - d mod 2 ^ (p + 1) /\ c mod 2 ^ (p + 1) = 0 /\ 0 <= c <= d.
Proof.
  intros Hp Hd. cbn zeta. rewrite shiftl_1 by lia.
  pose proof (Z.pow_pos_nonneg 2 (p + 1)) as Hpos.
  replace (2 ^ (p + 1) - 1) with (Z.ones (p + 1)) by (rewrite Z.ones_equiv; lia).
  rewrite <- Z.ldiff_land, Z.ldiff_ones_r by lia.
  rewrite Z.shiftl_mul_pow2, Z.shiftr_div_pow2 by lia.
  pose proof (Z.div_mod d (2 ^ (p + 1))). pose proof (Z.mod_pos_bound d (2 ^ (p + 1))).
  rewrite Z.mod_mul by lia. unfold is_u8 in Hd.
  assert (0 <= d / 2 ^ (p + 1)) by (apply Z.div_pos; lia).
  split; [lia|]. split; [done|]. lia.
Qed.

Lemma pow2_succ p : 0 <= p -> 2 ^ (p + 1) = 2 * 2 ^ p.
Proof. intros. rewrite Z.pow_add_r by lia. lia. Qed.

Lemma mod_mod_mul c p : 0 <= p -> c mod 2 ^ (p + 1) = 0 -> c mod 2 ^ p = 0.
Proof.
  intros Hp H. rewrite pow2_succ in H by lia. pose proof (Z.pow_pos_nonneg 2 p).
  rewrite Z.mul_comm in H. apply Z.mod_divide in H; [|lia]. apply Z.mod_divide; [lia|].
  destruct H as [k ->]. exists (k * 2). ring.
Qed.

Lemma has_bits_H b p : 0 <= p -> has_bits b (Z.shiftl 1 p) = Z.testbit b p.
Proof. intros. rewrite shiftl_1 by lia. by apply has_bits_pow2. Qed.

(** The first byte of an encoded integer keeps the flag bits. *)
Lemma nocheck_head d0 n p :
  1 <= p <= 8 -> is_u8 d0 -> d0 mod 2 ^ p = 0 -> is_u64 n ->
  exists x t, lsqpack_enc_int_nocheck d0 n p = (d0 + x) :: t /\ 0 <= x < 2 ^ p.
Proof.
  intros Hp Hd Hz Hn. pose proof (prefix_range p Hp). unfold lsqpack_enc_int_nocheck.
  rewrite !(shiftl_1 p) by lia. rewrite (u64_id (2 ^ p)) by (unfold_words; lia).
  destruct (Z.ltb_spec n (2 ^ p - 1)).
  - exists n, []. destruct (first_byte_land d0 n p) as [_ ->]; [done..|unfold_words; lia|].
    split; [done|unfold_words; lia].
  - eexists (2 ^ p - 1), _. destruct (first_byte_land d0 (2 ^ p - 1) p) as [_ ->]; [done..|lia|].
    split; [done|lia].
Qed.

Lemma testbit_add_low d x p :
  0 <= p -> d mod 2 ^ p = 0 -> 0 <= x < 2 ^ p -> Z.testbit (d + x) p = Z.testbit d p.
Proof.
  intros Hp Hd Hx. rewrite <- (lor_disjoint d x p), Z.lor_spec by lia.
  rewrite (testbit_high x p p) by lia. apply orb_false_r.
Qed.

(** Reading a header and its payload. *)
Lemma read_str_app d0 p payload rest :
  1 <= p <= 8 -> is_u8 d0 -> d0 mod 2 ^ p = 0 -> Z.of_nat (length payload) < 2 ^ 64 ->
  let n := Z.of_nat (length payload) in
  read_str p (lsqpack_enc_int_nocheck d0 n p ++ payload ++ rest) =
  if Z.testbit d0 p then
    let r := fst (lsqpack_huff_decode_full payload (S (2 * length payload)) huff_fresh true) in
    match hdr_status r with HUFF_DEC_OK => Some (hdr_out r, rest) | _ => None end
  else Some (payload, rest).
Proof.
  intros Hp Hd Hz Hl n. assert (Hn : is_u64 n) by (unfold is_u64; lia).
  destruct (nocheck_head d0 n p Hp Hd Hz Hn) as (x & t & Ht & Hx).
  pose proof (dec_enc_nocheck d0 n p (payload ++ rest) Hp Hd Hz Hn) as Hdec.
  rewrite Ht in *. rewrite <- app_comm_cons in *. unfold read_str. rewrite Hdec.
  rewrite (proj2 (Z.ltb_ge _ _)) by (rewrite length_app; lia).
  rewrite has_bits_H, testbit_add_low by lia. unfold n. rewrite Nat2Z.id.
  rewrite take_app_length, drop_app_length. done.
Qed.

(** A Huffman code has at least five bits, so a string is at most 8/5 as long
    as its encoding. *)
Lemma huffman_enc_expand bits0 s :
  is_bytes s -> (length s < S (2 * length (qenc_huffman_enc bits0 s)))%nat.
Proof.
  intros Hs. destruct (qenc_huffman_enc_bits bits0 s Hs) as (k & Hk & Hb).
  apply (f_equal length) in Hb. rewrite length_bytes_bits, length_app, length_replicate in Hb.
  pose proof (code_len_bound s Hs). pose proof (code_len_length s Hs). lia.
Qed.

(** LSXPACK_MAX_STRLEN *)
Definition LSXPACK_MAX_STRLEN : Z := 65535.

Lemma val2len_pos v p : is_u64 v -> 1 <= p <= 8 -> 1 <= lsqpack_val2len v p.
Proof.
  intros Hv Hp. unfold lsqpack_val2len.
  repeat match goal with |- context [Z.b2z ?b] =>
    lazymatch goal with H : 0 <= Z.b2z b |- _ => fail | _ =>
      assert (0 <= Z.b2z b) by (destruct b; simpl; lia);
      generalize dependent (Z.b2z b); intros end end. lia.
Qed.

(** One literal written at the front of [dst]. *)
Lemma put_literal d0 n p payload dst :
  is_u64 n -> 1 <= p <= 8 -> n = Z.of_nat (length payload) ->
  lsqpack_val2len n p + n <= Z.of_nat (length dst) ->
  let hdr := lsqpack_enc_int_nocheck d0 n p in
  put_bytes (Z.to_nat (lsqpack_val2len n p)) payload (put_bytes 0 hdr dst)
  = hdr ++ payload ++ drop (Z.to_nat (lsqpack_val2len n p + n)) dst.
Proof.
  intros Hn Hp Hl Hfit. cbn zeta. pose proof (length_nocheck d0 n p Hn Hp) as Hlen.
  rewrite <- Hlen, Nat2Z.id. rewrite put_put by lia. do 3 f_equal. lia.
Qed.

Lemma nth_0_u8 dst : is_bytes dst -> is_u8 (nth 0 dst 0).
Proof. destruct 1; simpl; [unfold is_u8; lia|done]. Qed.

Lemma nocheck_buf_head d0 n p l : 1 <= p <= 8 -> is_u8 d0 -> d0 mod 2 ^ p = 0 -> is_u64 n ->
  exists x, nth 0 (lsqpack_enc_int_nocheck d0 n p ++ l) 0 = d0 + x /\ 0 <= x < 2 ^ p.
Proof.
  intros Hp Hd Hz Hn. destruct (nocheck_head d0 n p Hp Hd Hz Hn) as (x & t & -> & Hx).
  exists x. done.
Qed.

(** What a literal at the front of a buffer guarantees. *)
Definition literal_at (p r : Z) (dst buf str : bytes) : Prop :=
  0 < r <= Z.of_nat (length dst) /\ length buf = length dst
  /\ drop (Z.to_nat r) buf = drop (Z.to_nat r) dst
  /\ (forall tail, read_str p (take (Z.to_nat r) buf ++ tail) = Some (str, tail))
  /\ nth 0 buf 0 / 2 ^ (p + 1) = nth 0 dst 0 / 2 ^ (p + 1).

Lemma literal_written d0 n p payload dst str :
  1 <= p <= 7 -> is_u8 d0 -> d0 mod 2 ^ p = 0 ->
  (forall x, 0 <= x < 2 ^ p -> (d0 + x) / 2 ^ (p + 1) = nth 0 dst 0 / 2 ^ (p + 1)) ->
  is_u64 n -> n = Z.of_nat (length payload) ->
  lsqpack_val2len n p + n <= Z.of_nat (length dst) ->
  (forall rest, read_str p (lsqpack_enc_int_nocheck d0 n p ++ payload ++ rest) = Some (str, rest)) ->
  literal_at p (lsqpack_val2len n p + n) dst
    (put_bytes (Z.to_nat (lsqpack_val2len n p)) payload
       (put_bytes 0 (lsqpack_enc_int_nocheck d0 n p) dst)) str.
Proof.
  intros Hp Hu Hz Hdiv Hn Hl Hfit Hread. pose proof (val2len_pos n p Hn ltac:(lia)).
  rewrite put_literal by (done || lia). set (l := drop _ dst).
  set (hdr := lsqpack_enc_int_nocheck _ _ _).
  pose proof (length_nocheck d0 n p Hn ltac:(lia)) as Hh. fold hdr in Hh.
  assert (Hdrop : drop (Z.to_nat (lsqpack_val2len n p + n)) (hdr ++ payload ++ l) = l).
  { rewrite app_assoc, drop_app_length'; [done|]. rewrite length_app. lia. }
  split; [lia|]. split; [unfold l; rewrite !length_app, length_drop; lia|].
  rewrite Hdrop. split; [done|]. split.
  { intros tail. rewrite app_assoc, take_app_length' by (rewrite length_app; lia).
    rewrite <- app_assoc. apply Hread. }
  destruct (nocheck_buf_head d0 n p (payload ++ l) ltac:(lia) Hu Hz Hn) as (x & Hx & Hr).
  fold hdr in Hx. rewrite Hx. by apply Hdiv.
Qed.

Lemma clear_div d c p x :
  0 <= p -> c = d - d mod 2 ^ (p + 1) -> c mod 2 ^ (p + 1) = 0 -> 0 <= x < 2 ^ (p + 1) ->
  (c + x) / 2 ^ (p + 1) = d / 2 ^ (p + 1).
Proof.
  intros Hp Hc Hz Hx. pose proof (Z.pow_pos_nonneg 2 (p + 1)).
  apply Z.mod_divide in Hz as [k Hk]; [|lia]. rewrite Hk, Z.div_add_l by lia.
  rewrite (Z.div_small x) by lia. pose proof (Z.div_mod d (2 ^ (p + 1))).
  apply Z.div_unique with (d mod 2 ^ (p + 1)); [left; apply Z.mod_pos_bound; lia|lia].
Qed.

(** The first byte with the H bit set. *)
Lemma set_H c p :
  1 <= p <= 7 -> is_u8 c -> c mod 2 ^ (p + 1) = 0 ->
  Z.lor c (Z.shiftl 1 p) = c + 2 ^ p /\ is_u8 (c + 2 ^ p)
  /\ (c + 2 ^ p) mod 2 ^ p = 0 /\ Z.testbit (c + 2 ^ p) p = true.
Proof.
  intros Hp Hc Hz. pose proof (Z.pow_pos_nonneg 2 p) as Hpos. pose proof (pow2_succ p) as Hs.
  assert (Hor : Z.lor c (Z.shiftl 1 p) = c + 2 ^ p).
  { rewrite shiftl_1 by lia. apply (lor_disjoint _ _ (p + 1)); lia. }
  split; [done|]. split.
  { rewrite <- Hor. apply lor_range; [done|]. rewrite shiftl_1 by lia.
    split; [lia|]. apply Z.pow_lt_mono_r; lia. }
  split.
  { rewrite <- (Z.mul_1_l (2 ^ p)) at 1. rewrite Z.mod_add by lia. by apply mod_mod_mul; [lia|]. }
  rewrite <- Hor, Z.lor_spec, shiftl_1, Z.pow2_bits_true by lia. apply orb_true_r.
Qed.

(** ** Properties *)

Lemma enc_str_literal bits0 p dst str buf r :
  1 <= p <= 7 -> is_bytes dst -> is_bytes str ->
  Z.of_nat (length str) <= LSXPACK_MAX_STRLEN ->
  lsqpack_enc_enc_str bits0 p dst str = (buf, r) -> r <> -1 ->
  literal_at p r dst buf str.
Proof.
  intros Hp Hdst Hstr Hlen Henc Hr. unfold LSXPACK_MAX_STRLEN in Hlen.
  pose proof (nth_0_u8 dst Hdst) as Hd0.
  destruct (clear_spec (nth 0 dst 0) p Hp Hd0) as (Hc & Hcz & Hcr). cbn zeta in *.
  pose proof (Z.pow_pos_nonneg 2 p) as Hpos. pose proof (pow2_succ p) as Hs.
  destruct (huffman_enc_codes bits0 str Hstr ltac:(change (2 ^ 26) with 67108864; lia))
    as (Hhb & _ & Hhl & _).
  unfold lsqpack_enc_enc_str in Henc. set (c := Z.land (nth 0 dst 0) _) in *.
  assert (Hu : is_u8 c) by (unfold is_u8 in *; lia).
  destruct (Z.ltb_spec (qenc_enc_str_size str) (Z.of_nat (length str))); case_match eqn:Hfit;
    try congruence; apply Z.leb_le in Hfit; injection Henc as <- <-.
  - destruct (set_H c p Hp Hu Hcz) as (Hor & Hu' & Hz' & Hb). rewrite Hor, Hhl.
    apply literal_written; try done; [|unfold_words; lia|].
    + intros x Hx. rewrite <- Z.add_assoc. apply clear_div; lia || done.
    + intros rest. rewrite <- Hhl. rewrite read_str_app by (lia || done).
      rewrite Hb, huff_dec_enc by (done || apply huffman_enc_expand; done). done.
  - pose proof (mod_mod_mul c p ltac:(lia) Hcz).
    apply literal_written; try done; [|unfold_words; lia|].
    + intros x Hx. apply clear_div; lia || done.
    + intros rest. rewrite read_str_app by (lia || done || (unfold_words; lia)).
      assert (Z.testbit c p = false) as ->; [|done].
      rewrite <- (Z.mod_pow2_bits_low c (p + 1) p), Hcz by lia. apply Z.bits_0.
Qed.

(** C26: a string literal that was written can be read back, the reader stops
    right after it, nothing outside the announced bytes changes, and the
    instruction bits above the H bit of the first byte are kept. *)
Theorem enc_str_roundtrip bits0 p dst str buf r :
  1 <= p <= 7 -> is_bytes dst -> is_bytes str ->
  Z.of_nat (length str) <= LSXPACK_MAX_STRLEN ->
  lsqpack_enc_enc_str bits0 p dst str = (buf, r) -> r <> -1 ->
  literal_at p r dst buf str.
Proof. exact (enc_str_literal bits0 p dst str buf r). Qed.

Lemma enc_str_roundtrip_witness :
  literal_at 5 6 [0x40; 1; 1; 1; 1; 1; 9] [0x65; 0; 0; 0; 0; 0; 9] (replicate 8 48).
Proof.
  apply (enc_str_roundtrip 0 5 [0x40; 1; 1; 1; 1; 1; 9] (replicate 8 48)).
  - lia.
  - repeat constructor; unfold is_u8; lia.
  - repeat constructor; unfold is_u8; lia.
  - unfold LSXPACK_MAX_STRLEN; simpl; lia.
  - vm_compute. reflexivity.
  - discriminate.
Defined.

(** C36: the encoder picks the shorter of the two representations and fails,
    leaving the destination untouched, exactly when that one does not fit. *)
Theorem enc_str_size bits0 p dst str :
  1 <= p <= 7 -> is_bytes str -> Z.of_nat (length str) <= LSXPACK_MAX_STRLEN ->
  let n := Z.min (qenc_enc_str_size str) (Z.of_nat (length str)) in
  let '(buf, r) := lsqpack_enc_enc_str bits0 p dst str in
  if lsqpack_val2len n p + n <=? Z.of_nat (length dst)
  then r = lsqpack_val2len n p + n
  else buf = dst /\ r = -1.
Proof.
  intros Hp Hstr Hlen. unfold LSXPACK_MAX_STRLEN in Hlen. cbn zeta.
  destruct (huffman_enc_codes bits0 str Hstr ltac:(change (2 ^ 26) with 67108864; lia))
    as (_ & _ & Hhl & _).
  unfold lsqpack_enc_enc_str.
  destruct (Z.ltb_spec (qenc_enc_str_size str) (Z.of_nat (length str)));
    [rewrite Z.min_l by lia|rewrite Z.min_r by lia];
    destruct (_ <=? Z.of_nat (length dst)); try done; by rewrite ?Hhl.
Qed.

Lemma enc_str_size_witness :
  let '(buf, r) := lsqpack_enc_enc_str 0 7 [0; 0] [97; 98; 99] in buf = [0; 0] /\ r = -1.
Proof.
  pose proof (enc_str_size 0 7 [0; 0] [97; 98; 99] ltac:(lia)
    ltac:(repeat constructor; unfold is_u8; lia)
    ltac:(unfold LSXPACK_MAX_STRLEN; simpl; lia)) as H.
  vm_compute in H. vm_compute. exact H.
Defined.
