(* ===== verification/Xxhash.v ===== *)
(** * The 32-bit hash XXH32 (src/deps/xxhash/xxhash.c)

    [XXH32_endian_align] on a little-endian machine; [XXH32] only selects the
    byte order and the alignment of the loads. *)

From S2P Require Import Prelude.

Definition PRIME32_1 : Z := 2654435761.
Definition PRIME32_2 : Z := 2246822519.
Definition PRIME32_3 : Z := 3266489917.
Definition PRIME32_4 : Z := 668265263.
Definition PRIME32_5 : Z := 374761393.

Definition XXH_rotl32 (x r : Z) : Z := Z.lor (u32 (Z.shiftl x r)) (Z.shiftr x (32 - r)).

(** [XXH_get32bits(p)]: a little-endian load of four bytes. *)
Definition XXH_get32bits (b0 b1 b2 b3 : Z) : Z :=
  Z.lor b0 (Z.lor (Z.shiftl b1 8) (Z.lor (Z.shiftl b2 16) (Z.shiftl b3 24))).

(** [v += XXH_get32bits(p) * PRIME32_2; v = XXH_rotl32(v, 13); v *= PRIME32_1] *)
Definition xxh32_round (v w : Z) : Z :=
  u32 (XXH_rotl32 (u32 (v + u32 (w * PRIME32_2))) 13 * PRIME32_1).

(** The [do ... while (p <= limit)] loop over stripes of sixteen bytes. *)
Fixpoint xxh32_stripes (p : bytes) (v1 v2 v3 v4 : Z) : Z * bytes :=
  match p with
  | a0 :: a1 :: a2 :: a3 :: b0 :: b1 :: b2 :: b3
    :: c0 :: c1 :: c2 :: c3 :: d0 :: d1 :: d2 :: d3 :: p' =>
      xxh32_stripes p'
        (xxh32_round v1 (XXH_get32bits a0 a1 a2 a3)) (xxh32_round v2 (XXH_get32bits b0 b1 b2 b3))
        (xxh32_round v3 (XXH_get32bits c0 c1 c2 c3)) (xxh32_round v4 (XXH_get32bits d0 d1 d2 d3))
  | _ =>
      (u32 (XXH_rotl32 v1 1 + XXH_rotl32 v2 7 + XXH_rotl32 v3 12 + XXH_rotl32 v4 18), p)
  end.

(** [while (p + 4 <= bEnd)] *)
Fixpoint xxh32_words (p : bytes) (h32 : Z) : Z * bytes :=
  match p with
  | b0 :: b1 :: b2 :: b3 :: p' =>
      let h32 := u32 (h32 + u32 (XXH_get32bits b0 b1 b2 b3 * PRIME32_3)) in
      xxh32_words p' (u32 (XXH_rotl32 h32 17 * PRIME32_4))
  | _ => (h32, p)
  end.

(** [while (p < bEnd)] *)
Fixpoint xxh32_bytes (p : bytes) (h32 : Z) : Z :=
  match p with
  | [] => h32
  | b :: p' =>
      let h32 := u32 (h32 + u32 (b * PRIME32_5)) in
      xxh32_bytes p' (u32 (XXH_rotl32 h32 11 * PRIME32_1))
  end.

Definition XXH32 (input : bytes) (seed : Z) : Z :=
  let len := Z.of_nat (length input) in
  let '(h32, p) :=
    if 16 <=? len then
      xxh32_stripes input (u32 (seed + PRIME32_1 + PRIME32_2)) (u32 (seed + PRIME32_2))
        (u32 (seed + 0)) (u32 (seed - PRIME32_1))
    else (u32 (seed + PRIME32_5), input) in
  let h32 := u32 (h32 + u32 len) in
  let '(h32, p) := xxh32_words p h32 in
  let h32 := xxh32_bytes p h32 in
  let h32 := Z.lxor h32 (Z.shiftr h32 15) in
  let h32 := u32 (h32 * PRIME32_2) in
  let h32 := Z.lxor h32 (Z.shiftr h32 13) in
  let h32 := u32 (h32 * PRIME32_3) in
  Z.lxor h32 (Z.shiftr h32 16).

Lemma xor_shift_range z k : 0 <= k -> is_u32 z -> is_u32 (Z.lxor z (Z.shiftr z k)).
Proof.
  intros Hk Hz. apply lxor_range; [lia|exact Hz|]. rewrite Z.shiftr_div_pow2 by done.
  assert (0 < 2 ^ k) by (by apply Z.pow_pos_nonneg). unfold is_u32 in *.
  split; [apply Z.div_pos; lia|]. apply Z.div_lt_upper_bound; nia.
Qed.

Lemma XXH32_range input seed : is_u32 (XXH32 input seed).
Proof.
  unfold XXH32. destruct (if _ <=? _ then _ else _) as [h p]. destruct (xxh32_words _ _) as [h' p'].
  apply xor_shift_range; [lia|]. apply u32_range.
Qed.
