(* ===== verification/StaticTable.v ===== *)
(** * The static table and its hash index

    [static_table], [name2id_plus_one], [nameval2id_plus_one], [name_hashes],
    [nameval_hashes], [find_in_static_full] and
    [lsqpack_find_in_static_headers] of src/lsqpack.c.

    The two lookup functions find an entry through a nine-bit hash and one
    comparison.  They are proved equal to a linear search of the table when
    the hashes are those XXH32 computes, and the precomputed hash arrays are
    proved to be those hashes. *)

From stdpp Require Import strings.
From Stdlib Require Import Ascii String.
From S2P Require Import Prelude Xxhash.

#[local] Open Scope Z_scope.
#[local] Open Scope list_scope.

(** The bytes of a C string literal. *)
Fixpoint str_bytes (s : string) : bytes :=
  match s with
  | EmptyString => []
  | String c s' => Z.of_N (N_of_ascii c) :: str_bytes s'
  end.

(** [struct static_table_entry] *)
Record static_table_entry := Ste {
  ste_name : bytes;
  ste_val : bytes;
  ste_name_len : Z;
  ste_val_len : Z;
}.

#[local] Notation "{{ n , v , nl , vl }}" :=
  (Ste (str_bytes n%string) (str_bytes v%string) nl vl).

Definition static_table : list static_table_entry := [
  {{ ":authority", "", 10, 0 }};
  {{ ":path", "/", 5, 1 }};
  {{ "age", "0", 3, 1 }};
  {{ "content-disposition", "", 19, 0 }};
  {{ "content-length", "0", 14, 1 }};
  {{ "cookie", "", 6, 0 }};
  {{ "date", "", 4, 0 }};
  {{ "etag", "", 4, 0 }};
  {{ "if-modified-since", "", 17, 0 }};
  {{ "if-none-match", "", 13, 0 }};
  {{ "last-modified", "", 13, 0 }};
  {{ "link", "", 4, 0 }};
  {{ "location", "", 8, 0 }};
  {{ "referer", "", 7, 0 }};
  {{ "set-cookie", "", 10, 0 }};
  {{ ":method", "CONNECT", 7, 7 }};
  {{ ":method", "DELETE", 7, 6 }};
  {{ ":method", "GET", 7, 3 }};
  {{ ":method", "HEAD", 7, 4 }};
  {{ ":method", "OPTIONS", 7, 7 }};
  {{ ":method", "POST", 7, 4 }};
  {{ ":method", "PUT", 7, 3 }};
  {{ ":scheme", "http", 7, 4 }};
  {{ ":scheme", "https", 7, 5 }};
  {{ ":status", "103", 7, 3 }};
  {{ ":status", "200", 7, 3 }};
  {{ ":status", "304", 7, 3 }};
  {{ ":status", "404", 7, 3 }};
  {{ ":status", "503", 7, 3 }};
  {{ "accept", "*/*", 6, 3 }};
  {{ "accept", "application/dns-message", 6, 23 }};
  {{ "accept-encoding", "gzip, deflate, br", 15, 17 }};
  {{ "accept-ranges", "bytes", 13, 5 }};
  {{ "access-control-allow-headers", "cache-control", 28, 13 }};
  {{ "access-control-allow-headers", "content-type", 28, 12 }};
  {{ "access-control-allow-origin", "*", 27, 1 }};
  {{ "cache-control", "max-age=0", 13, 9 }};
  {{ "cache-control", "max-age=2592000", 13, 15 }};
  {{ "cache-control", "max-age=604800", 13, 14 }};
  {{ "cache-control", "no-cache", 13, 8 }};
  {{ "cache-control", "no-store", 13, 8 }};
  {{ "cache-control", "public, max-age=31536000", 13, 24 }};
  {{ "content-encoding", "br", 16, 2 }};
  {{ "content-encoding", "gzip", 16, 4 }};
  {{ "content-type", "application/dns-message", 12, 23 }};
  {{ "content-type", "application/javascript", 12, 22 }};
  {{ "content-type", "application/json", 12, 16 }};
  {{ "content-type", "application/x-www-form-urlencoded", 12, 33 }};
  {{ "content-type", "image/gif", 12, 9 }};
  {{ "content-type", "image/jpeg", 12, 10 }};
  {{ "content-type", "image/png", 12, 9 }};
  {{ "content-type", "text/css", 12, 8 }};
  {{ "content-type", "text/html; charset=utf-8", 12, 24 }};
  {{ "content-type", "text/plain", 12, 10 }};
  {{ "content-type", "text/plain;charset=utf-8", 12, 24 }};
  {{ "range", "bytes=0-", 5, 8 }};
  {{ "strict-transport-security", "max-age=31536000", 25, 16 }};
  {{ "strict-transport-security", "max-age=31536000; includesubdomains", 25, 35 }};
  {{ "strict-transport-security", "max-age=31536000; includesubdomains; preload", 25, 44 }};
  {{ "vary", "accept-encoding", 4, 15 }};
  {{ "vary", "origin", 4, 6 }};
  {{ "x-content-type-options", "nosniff", 22, 7 }};
  {{ "x-xss-protection", "1; mode=block", 16, 13 }};
  {{ ":status", "100", 7, 3 }};
  {{ ":status", "204", 7, 3 }};
  {{ ":status", "206", 7, 3 }};
  {{ ":status", "302", 7, 3 }};
  {{ ":status", "400", 7, 3 }};
  {{ ":status", "403", 7, 3 }};
  {{ ":status", "421", 7, 3 }};
  {{ ":status", "425", 7, 3 }};
  {{ ":status", "500", 7, 3 }};
  {{ "accept-language", "", 15, 0 }};
  {{ "access-control-allow-credentials", "FALSE", 32, 5 }};
  {{ "access-control-allow-credentials", "TRUE", 32, 4 }};
  {{ "access-control-allow-headers", "*", 28, 1 }};
  {{ "access-control-allow-methods", "get", 28, 3 }};
  {{ "access-control-allow-methods", "get, post, options", 28, 18 }};
  {{ "access-control-allow-methods", "options", 28, 7 }};
  {{ "access-control-expose-headers", "content-length", 29, 14 }};
  {{ "access-control-request-headers", "content-type", 30, 12 }};
  {{ "access-control-request-method", "get", 29, 3 }};
  {{ "access-control-request-method", "post", 29, 4 }};
  {{ "alt-svc", "clear", 7, 5 }};
  {{ "authorization", "", 13, 0 }};
  {{ "content-security-policy", "script-src 'none'; object-src 'none'; base-uri 'none'", 23, 53 }};
  {{ "early-data", "1", 10, 1 }};
  {{ "expect-ct", "", 9, 0 }};
  {{ "forwarded", "", 9, 0 }};
  {{ "if-range", "", 8, 0 }};
  {{ "origin", "", 6, 0 }};
  {{ "purpose", "prefetch", 7, 8 }};
  {{ "server", "", 6, 0 }};
  {{ "timing-allow-origin", "*", 19, 1 }};
  {{ "upgrade-insecure-requests", "1", 25, 1 }};
  {{ "user-agent", "", 10, 0 }};
  {{ "x-forwarded-for", "", 15, 0 }};
  {{ "x-frame-options", "deny", 15, 4 }};
  {{ "x-frame-options", "sameorigin", 15, 10 }}
].

(** [QPACK_STATIC_TABLE_SIZE] *)
Definition QPACK_STATIC_TABLE_SIZE : Z := Z.of_nat (length static_table).

Definition LSQPACK_XXH_SEED : Z := 39378473.
Definition XXH_NAME_WIDTH : Z := 9.
Definition XXH_NAME_SHIFT : Z := 0.
Definition XXH_NAMEVAL_WIDTH : Z := 9.
Definition XXH_NAMEVAL_SHIFT : Z := 0.

(** An array given by designated initializers: unmentioned elements are zero. *)
Fixpoint designated (inits : list (Z * Z)) (i : Z) : Z :=
  match inits with
  | [] => 0
  | (k, v) :: inits' => if k =? i then v else designated inits' i
  end.

Definition name2id_plus_one : Z -> Z := designated [
  (347, 1); (397, 2); (64, 3); (144, 4); (25, 5);
  (216, 6); (361, 7); (442, 8); (190, 9); (404, 10);
  (181, 11); (210, 12); (38, 13); (51, 14); (318, 15);
  (484, 16); (81, 23); (83, 25); (248, 30); (169, 32);
  (456, 33); (479, 34); (59, 36); (498, 37); (401, 43);
  (453, 45); (266, 56); (88, 57); (317, 60); (74, 62);
  (189, 63); (211, 73); (334, 74); (365, 77); (382, 80);
  (377, 81); (257, 82); (56, 84); (321, 85); (79, 86);
  (384, 87); (357, 88); (438, 89); (84, 90); (264, 91);
  (146, 92); (225, 93); (490, 94); (305, 95); (362, 96);
  (486, 97); (497, 98)
].

Definition nameval2id_plus_one : Z -> Z := designated [
  (150, 1); (502, 2); (353, 3); (262, 4); (443, 5);
  (164, 6); (463, 7); (84, 8); (205, 9); (228, 10);
  (451, 11); (444, 12); (176, 13); (75, 14); (399, 15);
  (56, 16); (384, 17); (21, 18); (484, 19); (382, 20);
  (439, 21); (329, 22); (360, 23); (67, 24); (105, 25);
  (342, 26); (457, 27); (161, 28); (337, 29); (135, 30);
  (314, 31); (370, 32); (404, 33); (184, 34); (156, 35);
  (139, 36); (339, 37); (508, 38); (267, 39); (375, 40);
  (122, 41); (297, 42); (144, 43); (85, 44); (466, 45);
  (38, 46); (320, 47); (273, 48); (277, 49); (136, 50);
  (454, 51); (477, 52); (91, 53); (227, 54); (301, 55);
  (272, 56); (319, 57); (142, 58); (268, 59); (65, 60);
  (410, 61); (4, 62); (373, 63); (1, 64); (210, 65);
  (224, 66); (423, 67); (222, 68); (386, 69); (12, 70);
  (7, 71); (391, 72); (73, 73); (307, 74); (27, 75);
  (256, 76); (154, 77); (204, 78); (310, 79); (198, 80);
  (162, 81); (334, 82); (438, 83); (69, 84); (188, 85);
  (244, 86); (190, 87); (465, 88); (468, 89); (417, 90);
  (110, 91); (107, 92); (368, 93); (460, 94); (54, 95);
  (492, 96); (402, 97); (196, 98); (383, 99)
].

Definition name_hashes : list Z := [
  0x653A915B; 0x3513518D; 0xBEC8E440; 0x16020A90; 0x48F5CC19;
  0x0B486ED8; 0x1A7AA369; 0x6DE855BA; 0xF2BADABE; 0xD8CA2594;
  0x6B86C0B5; 0xC62FECD2; 0x8DA64A26; 0x01F10233; 0x8F7E493E;
  0xC7742BE4; 0xC7742BE4; 0xC7742BE4; 0xC7742BE4; 0xC7742BE4;
  0xC7742BE4; 0xC7742BE4; 0xF49F1451; 0xF49F1451; 0x672BDA53;
  0x672BDA53; 0x672BDA53; 0x672BDA53; 0x672BDA53; 0x1AB214F8;
  0x1AB214F8; 0xF93AD8A9; 0x1DC691C8; 0x7C21CFDF; 0x7C21CFDF;
  0x7D3B7A3B; 0xC25511F2; 0xC25511F2; 0xC25511F2; 0xC25511F2;
  0xC25511F2; 0xC25511F2; 0x48011191; 0x48011191; 0x085EF7C5;
  0x085EF7C5; 0x085EF7C5; 0x085EF7C5; 0x085EF7C5; 0x085EF7C5;
  0x085EF7C5; 0x085EF7C5; 0x085EF7C5; 0x085EF7C5; 0x085EF7C5;
  0xB396750A; 0x85E74C58; 0x85E74C58; 0x85E74C58; 0x1A04DF3D;
  0x1A04DF3D; 0x28686A4A; 0x9F8BCEBD; 0x672BDA53; 0x672BDA53;
  0x672BDA53; 0x672BDA53; 0x672BDA53; 0x672BDA53; 0x672BDA53;
  0x672BDA53; 0x672BDA53; 0x98BD32D3; 0x0A829D4E; 0x0A829D4E;
  0x7C21CFDF; 0x363F796D; 0x363F796D; 0x363F796D; 0xD8A0B17E;
  0xAAF9FD79; 0x617E4501; 0x617E4501; 0x1E6DBE38; 0x19D88141;
  0x3392084F; 0x5579EF80; 0x8F3D7765; 0x7EDC71B6; 0xFBA64C54;
  0x3ECDA708; 0xEBA96E92; 0x82E1B4E1; 0x5AD275EA; 0xDD09E931;
  0x34C0456A; 0x5EF889E6; 0x4B1BB7F1; 0x4B1BB7F1
].

Definition nameval_hashes : list Z := [
  0xF8614896; 0xC8C267F6; 0xF4617F61; 0x8410A906; 0xC8D109BB;
  0x51D448A4; 0x52C167CF; 0xFB22AA54; 0x4F5272CD; 0x9D4170E4;
  0x4E8C1DC3; 0x684BDDBC; 0xE113A2B0; 0x5010D24B; 0xBCA5998F;
  0xC8490E38; 0x19094780; 0x25D95A15; 0x342283E4; 0x15893F7E;
  0x33968BB7; 0x4C856F49; 0x98573F68; 0x16DDE443; 0x813C3469;
  0x352A6556; 0xD7988BC9; 0x65E6ECA1; 0x7EEE2551; 0x77EBAE87;
  0xBDF5A53A; 0x7F49F172; 0xC06A7994; 0xDB2FBCB8; 0x343EA49C;
  0xD143768B; 0x3E2D8753; 0xA2EA09FC; 0x467B5D0B; 0xCEB7F977;
  0x7119DC7A; 0xDEFDA129; 0x3F6EBC90; 0x14E09A55; 0x43C8B9D2;
  0xA707C426; 0xFE372940; 0x77591711; 0xA6410F15; 0xEACDE488;
  0x8B2C4DC6; 0x8C2B11DD; 0x9703CE5B; 0x0FAA28E3; 0x13CCE32D;
  0xDCD68310; 0x416F0B3F; 0x3BB4D68E; 0xF81F070C; 0xBDD89641;
  0x3915039A; 0xF609E604; 0x1C9DBB75; 0x7ACD6A01; 0xD4F462D2;
  0x125E66E0; 0x0AD44FA7; 0x4C3C90DE; 0x27AD6982; 0x0673640C;
  0x65C03607; 0xB05B7B87; 0x97E01849; 0xBA18BD33; 0xDEF6041B;
  0xE227F500; 0x8A871E9A; 0xCB120ACC; 0x4B1B6336; 0xEBDA42C6;
  0xFF166CA2; 0x3A5E054E; 0x027207B6; 0x04E3E645; 0xAA95A0BC;
  0x77BFA4F4; 0x3C95E0BE; 0xD506A9D1; 0x443EDFD4; 0xD4E28BA1;
  0xA60BF66E; 0x46201E6B; 0xB2DE5570; 0xF19F5DCC; 0x73B6C636;
  0xDC83E7EC; 0xAA333392; 0x4EDB46C4; 0xF64F937F
].

(** [static_table[id]] *)
Definition ste_at (id : Z) : static_table_entry := nth (Z.to_nat id) static_table (Ste [] [] 0 0).

(** [memcmp(a, b, n) == 0] *)
Definition memcmp_eq (n : Z) (a b : bytes) : bool :=
  bool_decide (take (Z.to_nat n) a = take (Z.to_nat n) b).

Definition find_in_static_full (nameval_hash : Z) (name : bytes) (name_len : Z)
    (val : bytes) (val_len : Z) : Z :=
  let id := nameval2id_plus_one
    (Z.land (Z.shiftr nameval_hash XXH_NAMEVAL_SHIFT) (Z.shiftl 1 XXH_NAMEVAL_WIDTH - 1)) in
  if id =? 0 then -1
  else
    let id := id - 1 in
    if (ste_name_len (ste_at id) =? name_len)
       && (ste_val_len (ste_at id) =? val_len)
       && memcmp_eq name_len (ste_name (ste_at id)) name
       && memcmp_eq val_len (ste_val (ste_at id)) val
    then id else -1.

Definition lsqpack_find_in_static_headers (name_hash : Z) (name : bytes) (name_len : Z) : Z :=
  let id := name2id_plus_one
    (Z.land (Z.shiftr name_hash XXH_NAME_SHIFT) (Z.shiftl 1 XXH_NAME_WIDTH - 1)) in
  if id =? 0 then -1
  else
    let id := id - 1 in
    if (ste_name_len (ste_at id) =? name_len)
       && memcmp_eq name_len (ste_name (ste_at id)) name
    then id else -1.

(** ** Reference: linear search *)

Fixpoint search {A} (P : A -> bool) (l : list A) (i : Z) : Z :=
  match l with
  | [] => -1
  | x :: l' => if P x then i else search P l' (i + 1)
  end.

Definition has_nameval (name val : bytes) (e : static_table_entry) : bool :=
  bool_decide (ste_name e = name) && bool_decide (ste_val e = val).
Definition has_name (name : bytes) (e : static_table_entry) : bool := bool_decide (ste_name e = name).

Definition static_search (name val : bytes) : Z := search (has_nameval name val) static_table 0.
Definition static_search_name (name : bytes) : Z := search (has_name name) static_table 0.

(** The hashes of a header field, as [lsqpack_enc_encode] computes them. *)
Definition name_hash_of (name : bytes) : Z := XXH32 name LSQPACK_XXH_SEED.
Definition nameval_hash_of (name val : bytes) : Z := XXH32 val (name_hash_of name).

(** The low nine bits of the hashes of a row: its places in the two indices. *)
Definition name_slot (e : static_table_entry) : Z := Z.land (name_hash_of (ste_name e)) 511.
Definition nameval_slot (e : static_table_entry) : Z :=
  Z.land (nameval_hash_of (ste_name e) (ste_val e)) 511.

(** ** Lemmas *)

(** The table against its own length members, hashes and index, by
    evaluation on all of its entries. *)
Definition entry_checks (i : nat) (e : static_table_entry) : bool :=
  (ste_name_len e =? Z.of_nat (length (ste_name e)))
  && (ste_val_len e =? Z.of_nat (length (ste_val e)))
  && bool_decide (name_hashes !! i = Some (name_hash_of (ste_name e)))
  && bool_decide (nameval_hashes !! i = Some (nameval_hash_of (ste_name e) (ste_val e)))
  && (static_search (ste_name e) (ste_val e) =? Z.of_nat i)
  && (find_in_static_full (nameval_hash_of (ste_name e) (ste_val e))
        (ste_name e) (ste_name_len e) (ste_val e) (ste_val_len e) =? Z.of_nat i)
  && (lsqpack_find_in_static_headers (name_hash_of (ste_name e)) (ste_name e) (ste_name_len e)
        =? static_search_name (ste_name e))
  && (nameval2id_plus_one (nameval_slot e) =? Z.of_nat i + 1)
  && (name2id_plus_one (name_slot e) =? static_search_name (ste_name e) + 1).

Lemma static_table_checked :
  forallb (fun i => match static_table !! i with
                    | Some e => entry_checks i e
                    | None => false end) (seq 0 99) = true.
Proof. vm_compute. reflexivity. Qed.

Lemma static_entry_checked i e : static_table !! i = Some e -> entry_checks i e = true.
Proof.
  intros Hi. pose proof static_table_checked as H. rewrite forallb_forall in H.
  specialize (H i). rewrite Hi in H. apply H. apply in_seq.
  apply lookup_lt_Some in Hi. change (length static_table) with 99%nat in Hi. lia.
Qed.

(** The two hash indices hold one-based positions of the table. *)
Lemma designated_range inits i :
  forallb (fun '(_, v) => (1 <=? v) && (v <=? 99)) inits = true ->
  0 <= designated inits i <= 99.
Proof.
  induction inits as [|[k v] inits IH]; simpl; [lia|]. intros H.
  apply andb_prop in H as [Hv H]. apply andb_prop in Hv as [H1 H2].
  destruct (k =? i); [lia|]. by apply IH.
Qed.

Lemma nameval2id_range i : 0 <= nameval2id_plus_one i <= 99.
Proof. apply designated_range. reflexivity. Qed.
Lemma name2id_range i : 0 <= name2id_plus_one i <= 99.
Proof. apply designated_range. reflexivity. Qed.

Lemma ste_at_lookup id : 0 <= id < 99 -> static_table !! Z.to_nat id = Some (ste_at id).
Proof.
  intros Hid. unfold ste_at. rewrite nth_lookup.
  destruct (static_table !! Z.to_nat id) as [e|] eqn:E; [done|].
  apply lookup_ge_None in E. change (length static_table) with 99%nat in E. lia.
Qed.

Lemma memcmp_eq_full n a b :
  n = Z.of_nat (length a) -> n = Z.of_nat (length b) -> memcmp_eq n a b = bool_decide (a = b).
Proof.
  intros -> Hb. apply Nat2Z.inj in Hb. unfold memcmp_eq.
  rewrite Nat2Z.id, firstn_all, Hb, firstn_all. done.
Qed.

Lemma search_sound {A} (P : A -> bool) l i j :
  0 <= i -> search P l i = j -> j <> -1 ->
  exists k x, j = i + Z.of_nat k /\ l !! k = Some x /\ P x = true.
Proof.
  revert i. induction l as [|x l IH]; intros i Hi Hs Hj; simpl in Hs; [done|].
  destruct (P x) eqn:HP.
  - exists 0%nat, x. split; [lia|done].
  - apply IH in Hs as (k & y & -> & Hk & Hy); [|lia|done].
    exists (S k), y. split; [lia|done].
Qed.

Lemma search_complete {A} (P : A -> bool) l i k x :
  0 <= i -> l !! k = Some x -> P x = true -> search P l i <> -1.
Proof.
  revert i k. induction l as [|y l IH]; intros i k Hi Hk HP; [done|]. simpl.
  destruct (P y) eqn:Hy; [lia|]. destruct k as [|k]; simpl in Hk; [congruence|].
  apply (IH (i + 1) k); [lia|done|done].
Qed.

Ltac split_checks H :=
  unfold entry_checks in H;
  let H7 := fresh "Hnamefind" in let H6 := fresh "Hfind" in let H5 := fresh "Hsearch" in
  let H4 := fresh "Hnv" in let H3 := fresh "Hnh" in let H2 := fresh "Hvl" in
  let H1 := fresh "Hnl" in let H8 := fresh "Hvslot" in let H9 := fresh "Hnslot" in
  apply andb_prop in H as [H H9]; apply andb_prop in H as [H H8]; apply andb_prop in H as [H H7]; apply andb_prop in H as [H H6];
  apply andb_prop in H as [H H5]; apply andb_prop in H as [H H4];
  apply andb_prop in H as [H H3]; apply andb_prop in H as [H1 H2];
  apply Z.eqb_eq in H1, H2, H5, H6, H7, H8, H9; apply bool_decide_eq_true in H3, H4.

(** A hit is a real match, whatever the hash. *)
Lemma find_in_static_full_hit h name val id :
  find_in_static_full h name (Z.of_nat (length name)) val (Z.of_nat (length val)) = id ->
  id <> -1 ->
  0 <= id < 99 /\ ste_name (ste_at id) = name /\ ste_val (ste_at id) = val.
Proof.
  unfold find_in_static_full. set (k := Z.land _ _). pose proof (nameval2id_range k) as Hr.
  destruct (Z.eqb_spec (nameval2id_plus_one k) 0); [congruence|].
  set (i := nameval2id_plus_one k - 1). assert (Hi : 0 <= i < 99) by lia.
  pose proof (static_entry_checked _ _ (ste_at_lookup i Hi)) as Hc. split_checks Hc.
  destruct (_ && _) eqn:E; [|congruence]. intros <- _.
  apply andb_prop in E as [E E4]. apply andb_prop in E as [E E3]. apply andb_prop in E as [E1 E2].
  apply Z.eqb_eq in E1, E2.
  rewrite memcmp_eq_full in E3, E4 by congruence.
  apply bool_decide_eq_true in E3, E4. done.
Qed.

Lemma find_in_static_headers_hit h name id :
  lsqpack_find_in_static_headers h name (Z.of_nat (length name)) = id -> id <> -1 ->
  0 <= id < 99 /\ ste_name (ste_at id) = name.
Proof.
  unfold lsqpack_find_in_static_headers. set (k := Z.land _ _). pose proof (name2id_range k) as Hr.
  destruct (Z.eqb_spec (name2id_plus_one k) 0); [congruence|].
  set (i := name2id_plus_one k - 1). assert (Hi : 0 <= i < 99) by lia.
  pose proof (static_entry_checked _ _ (ste_at_lookup i Hi)) as Hc. split_checks Hc.
  destruct (_ && _) eqn:E; [|congruence]. intros <- _.
  apply andb_prop in E as [E1 E2]. apply Z.eqb_eq in E1.
  rewrite memcmp_eq_full in E2 by congruence. apply bool_decide_eq_true in E2. done.
Qed.

Definition small_row (e : static_table_entry) : bool :=
  (Z.of_nat (length (ste_name e)) <=? 100) && (Z.of_nat (length (ste_val e)) <=? 100)
  && forallb (fun b => (0 <=? b) && (b <? 256)) (ste_name e ++ ste_val e).

Lemma static_small_checked : forallb small_row static_table = true.
Proof. vm_compute. reflexivity. Qed.

(** What the decoder takes from a row. *)
Lemma ste_facts id : 0 <= id < 99 ->
  let e := ste_at id in
  ste_name_len e = Z.of_nat (length (ste_name e)) /\ ste_val_len e = Z.of_nat (length (ste_val e))
  /\ nth (Z.to_nat id) name_hashes 0 = XXH32 (ste_name e) LSQPACK_XXH_SEED
  /\ nth (Z.to_nat id) nameval_hashes 0 = nameval_hash_of (ste_name e) (ste_val e)
  /\ ste_name_len e <= 100 /\ ste_val_len e <= 100
  /\ is_bytes (ste_name e) /\ is_bytes (ste_val e).
Proof.
  intros Hid e. pose proof (ste_at_lookup id Hid) as Hl.
  pose proof (static_entry_checked _ _ Hl) as Hc. unfold entry_checks in Hc. fold e in Hc, Hl.
  rewrite !andb_true_iff in Hc. destruct Hc as ((((((((H1 & H2) & H3) & H4) & _) & _) & _) & _) & _).
  apply Z.eqb_eq in H1, H2. apply bool_decide_eq_true in H3, H4.
  pose proof static_small_checked as Hs. rewrite forallb_forall in Hs.
  specialize (Hs e (proj1 (list_elem_of_In _ _) (list_elem_of_lookup_2 _ _ _ Hl))).
  unfold small_row in Hs. rewrite !andb_true_iff in Hs. destruct Hs as ((Hn & Hv) & Hb).
  apply Z.leb_le in Hn, Hv.
  assert (is_bytes (ste_name e ++ ste_val e)) as Hbytes.
  { apply Forall_forall. intros b Hin. rewrite forallb_forall in Hb. specialize (Hb b (proj1 (list_elem_of_In _ _) Hin)).
    apply andb_prop in Hb as [?%Z.leb_le ?%Z.ltb_lt]. unfold is_u8. lia. }
  apply Forall_app in Hbytes as [Hb1 Hb2].
  split; [done|]. split; [done|]. rewrite !nth_lookup, H3, H4. split; [done|]. split; [done|].
  split; [lia|]. split; [lia|]. done.
Qed.

(** The indices hold nothing else, by evaluation on all of their elements: what is
    not zero is a row, and that row belongs there. *)
Definition slot_checks (index : Z -> Z) (belongs : Z -> static_table_entry -> bool) (k : Z) : bool :=
  (index k =? 0)
  || match static_table !! Z.to_nat (index k - 1) with Some e => belongs k e | None => false end.

Definition nameval_belongs (k : Z) (e : static_table_entry) : bool := nameval_slot e =? k.
Definition name_belongs (k : Z) (e : static_table_entry) : bool :=
  (name_slot e =? k) && (static_search_name (ste_name e) =? name2id_plus_one k - 1).

Lemma slots_checked :
  forallb (slot_checks nameval2id_plus_one nameval_belongs) (seqZ 0 512) = true
  /\ forallb (slot_checks name2id_plus_one name_belongs) (seqZ 0 512) = true.
Proof. split; vm_compute; reflexivity. Qed.

Lemma slot_checked index belongs k :
  forallb (slot_checks index belongs) (seqZ 0 512) = true -> 0 <= k < 512 -> index k <> 0 ->
  exists e, static_table !! Z.to_nat (index k - 1) = Some e /\ belongs k e = true.
Proof.
  intros H Hk Hne. rewrite forallb_forall in H.
  specialize (H k ltac:(apply list_elem_of_In, elem_of_seqZ; lia)). unfold slot_checks in H.
  rewrite (proj2 (Z.eqb_neq _ _) Hne) in H. destruct (static_table !! _) as [e|]; [|done]. by exists e.
Qed.

(** From here on the table is used only through the lemmas above. *)
#[global] Opaque static_table name_hashes nameval_hashes.

(** ** Properties *)

(** C37: the static table and its four derived tables agree.  Every row's length
    members are the lengths of its strings, its precomputed hashes are the XXH32
    values the encoder would compute, the index by name and value holds the row's
    number at the low bits of its hash, and the index by name that of the first row
    with its name; and neither index, anywhere, holds a row that does not belong
    there. *)
Theorem static_table_consistent :
  (forall i e, static_table !! i = Some e ->
     ste_name_len e = Z.of_nat (length (ste_name e)) /\ ste_val_len e = Z.of_nat (length (ste_val e))
     /\ name_hashes !! i = Some (name_hash_of (ste_name e))
     /\ nameval_hashes !! i = Some (nameval_hash_of (ste_name e) (ste_val e))
     /\ nameval2id_plus_one (nameval_slot e) = Z.of_nat i + 1
     /\ name2id_plus_one (name_slot e) = static_search_name (ste_name e) + 1)
  /\ (forall k, 0 <= k < 512 -> nameval2id_plus_one k <> 0 ->
       exists e, static_table !! Z.to_nat (nameval2id_plus_one k - 1) = Some e /\ nameval_slot e = k)
  /\ (forall k, 0 <= k < 512 -> name2id_plus_one k <> 0 ->
       exists e, static_table !! Z.to_nat (name2id_plus_one k - 1) = Some e /\ name_slot e = k
         /\ static_search_name (ste_name e) = name2id_plus_one k - 1).
Proof.
  split; [|split].
  - intros i e Hi. pose proof (static_entry_checked i e Hi) as Hc. split_checks Hc. done.
  - intros k Hk Hne. destruct (slot_checked _ _ k (proj1 slots_checked) Hk Hne) as (e & He & Hb).
    exists e. by apply Z.eqb_eq in Hb.
  - intros k Hk Hne. destruct (slot_checked _ _ k (proj2 slots_checked) Hk Hne) as (e & He & Hb).
    exists e. apply andb_prop in Hb as [H1%Z.eqb_eq H2%Z.eqb_eq]. done.
Qed.

Lemma static_table_consistent_witness :
  name_hashes !! 1%nat = Some (name_hash_of (str_bytes ":path"))
  /\ exists e, static_table !! Z.to_nat (nameval2id_plus_one 402 - 1) = Some e /\ nameval_slot e = 402.
Proof.
  pose proof static_table_consistent as (H & Hk & _). split.
  - apply (H 1%nat (Ste (str_bytes ":path") (str_bytes "/") 5 1)). by vm_compute.
  - apply Hk; by vm_compute.
Defined.

(** C38: the hashed full-match lookup is a linear search of the static table. *)
Theorem find_in_static_full_search name val :
  find_in_static_full (nameval_hash_of name val) name (Z.of_nat (length name))
    val (Z.of_nat (length val)) = static_search name val.
Proof.
  set (id := find_in_static_full _ _ _ _ _).
  destruct (decide (id = -1)) as [Hid|Hid].
  - destruct (decide (static_search name val = -1)) as [->|Hs]; [done|].
    unfold static_search in Hs.
    apply (search_sound _ _ 0 _ ltac:(lia) eq_refl) in Hs as (k & e & _ & Hk & He).
    apply andb_prop in He as [Hn Hv]. apply bool_decide_eq_true in Hn, Hv. subst name val.
    pose proof (static_entry_checked k e Hk) as Hc. split_checks Hc.
    unfold id in Hid. rewrite <- Hnl, <- Hvl in Hid. lia.
  - destruct (find_in_static_full_hit _ _ _ id eq_refl Hid) as (Hr & Hn & Hv).
    pose proof (static_entry_checked _ _ (ste_at_lookup id Hr)) as Hc. split_checks Hc.
    rewrite Hn, Hv in Hsearch. lia.
Qed.

(** The hashed name lookup is a linear search for the first entry with
    that name. *)
Theorem find_in_static_headers_search name :
  lsqpack_find_in_static_headers (name_hash_of name) name (Z.of_nat (length name))
  = static_search_name name.
Proof.
  set (id := lsqpack_find_in_static_headers _ _ _).
  assert (Hin : forall k e, static_table !! k = Some e -> ste_name e = name ->
    id = static_search_name name).
  { intros k e Hk <-. pose proof (static_entry_checked k e Hk) as Hc. split_checks Hc.
    unfold id. rewrite <- Hnl. done. }
  destruct (decide (id = -1)) as [Hid|Hid].
  - destruct (decide (static_search_name name = -1)) as [->|Hs]; [done|].
    apply (search_sound _ _ 0 _ ltac:(lia) eq_refl) in Hs as (k & e & _ & Hk & He).
    apply bool_decide_eq_true in He. by apply (Hin k e).
  - destruct (find_in_static_headers_hit _ _ id eq_refl Hid) as (Hr & Hn).
    by apply (Hin _ _ (ste_at_lookup id Hr)).
Qed.
