(* ===== verification/Ringbuf.v ===== *)
(** * The ring buffer behind the decoder's dynamic table

    [struct lsqpack_ringbuf] and the [ringbuf_*] functions of src/lsqpack.c.
    The buffer holds pointers; the model is generic in what they point to.
    Slots that were allocated and never written are [None].

    The buffer is proved to refine a list, oldest element first: [rb_rep rb l]
    relates the two, and every operation preserves it. *)

From S2P Require Import Prelude.

Section ringbuf.
Context {A : Type}.

(** [struct lsqpack_ringbuf] *)
Record ringbuf := {
  rb_nalloc : Z;
  rb_head : Z;
  rb_tail : Z;
  rb_els : list (option A);
}.

Definition ringbuf_empty_buf : ringbuf :=
  {| rb_nalloc := 0; rb_head := 0; rb_tail := 0; rb_els := [] |}.

Definition ringbuf_count (rbuf : ringbuf) : Z :=
  if rb_nalloc rbuf =? 0 then 0
  else if rb_tail rbuf <=? rb_head rbuf then u32 (rb_head rbuf - rb_tail rbuf)
  else u32 (rb_nalloc rbuf - u32 (rb_tail rbuf - rb_head rbuf)).

Definition ringbuf_full (rbuf : ringbuf) : bool :=
  (rb_nalloc rbuf =? 0)
  || (u32 (rb_head rbuf + 1) mod rb_nalloc rbuf =? rb_tail rbuf).

Definition ringbuf_empty (rbuf : ringbuf) : bool := rb_head rbuf =? rb_tail rbuf.

(** [rb_els[i]], read. *)
Definition rb_at (rbuf : ringbuf) (i : Z) : option A := mjoin (rb_els rbuf !! Z.to_nat i).

(** [struct ringbuf_iter]: the member [end] is never used. *)
Record ringbuf_iter := { it_rbuf : ringbuf; it_next : Z }.

(** The element, NULL being [None], and the advanced iterator. *)
Definition ringbuf_iter_next (iter : ringbuf_iter) : option A * ringbuf_iter :=
  if it_next iter =? rb_head (it_rbuf iter) then (None, iter)
  else (rb_at (it_rbuf iter) (it_next iter),
        {| it_rbuf := it_rbuf iter;
           it_next := u32 (it_next iter + 1) mod rb_nalloc (it_rbuf iter) |}).

Definition ringbuf_iter_first (iter : ringbuf_iter) (rbuf : ringbuf)
  : option A * ringbuf_iter :=
  if ringbuf_empty rbuf then (None, iter)
  else ringbuf_iter_next {| it_rbuf := rbuf; it_next := rb_tail rbuf |}.

Definition ringbuf_cleanup (rbuf : ringbuf) : ringbuf := ringbuf_empty_buf.

Definition ringbuf_get_head (rbuf : ringbuf) (off : Z) : option A :=
  let i := u32 (rb_nalloc rbuf + rb_head rbuf - off) mod rb_nalloc rbuf in
  rb_at rbuf i.

Definition ringbuf_advance_tail (rbuf : ringbuf) : option A * ringbuf :=
  (rb_at rbuf (rb_tail rbuf),
   {| rb_nalloc := rb_nalloc rbuf; rb_head := rb_head rbuf;
      rb_tail := u32 (rb_tail rbuf + 1) mod rb_nalloc rbuf;
      rb_els := rb_els rbuf |}).

(** The code at the label [insert]. *)
Definition ringbuf_insert (rbuf : ringbuf) (el : A) : ringbuf :=
  {| rb_nalloc := rb_nalloc rbuf;
     rb_head := u32 (rb_head rbuf + 1) mod rb_nalloc rbuf;
     rb_tail := rb_tail rbuf;
     rb_els := <[Z.to_nat (rb_head rbuf) := Some el]> (rb_els rbuf) |}.

(** The reallocation of a full buffer: a block of twice the size, filled by
    one or two [memcpy]s. *)
Definition ringbuf_grow (rbuf : ringbuf) : ringbuf :=
  let n := Z.to_nat (rb_nalloc rbuf) in
  let h := Z.to_nat (rb_head rbuf) in
  let t := Z.to_nat (rb_tail rbuf) in
  if rb_tail rbuf <=? rb_head rbuf then
    let count := u32 (rb_head rbuf - rb_tail rbuf + 1) in
    {| rb_nalloc := u32 (rb_nalloc rbuf * 2);
       rb_head := u32 (count - 1);
       rb_tail := 0;
       rb_els := take (Z.to_nat count) (drop t (rb_els rbuf))
                 ++ replicate (2 * n - Z.to_nat count) None |}
  else
    {| rb_nalloc := u32 (rb_nalloc rbuf * 2);
       rb_head := rb_head rbuf;
       rb_tail := u32 (rb_tail rbuf + rb_nalloc rbuf);
       rb_els := take (h + 1) (rb_els rbuf)
                 ++ replicate (n + t - (h + 1)) None
                 ++ take (n - t) (drop t (rb_els rbuf)) |}.

(** [malloc_ok]: whether the allocation the call may need succeeds.  The
    result is the return value (true for 0) and the buffer. *)
Definition ringbuf_add (malloc_ok : bool) (rbuf : ringbuf) (el : A) : bool * ringbuf :=
  if negb (ringbuf_full rbuf) then (true, ringbuf_insert rbuf el)
  else if negb (rb_nalloc rbuf =? 0) then
    if malloc_ok then (true, ringbuf_insert (ringbuf_grow rbuf) el) else (false, rbuf)
  else if malloc_ok then
    (true, ringbuf_insert {| rb_nalloc := 4; rb_head := rb_head rbuf; rb_tail := rb_tail rbuf;
                             rb_els := replicate 4 None |} el)
  else (false, rbuf).

(** ** Representation *)

Definition rb_rep (rb : ringbuf) (l : list A) : Prop :=
  (rb = ringbuf_empty_buf /\ l = [])
  \/ (0 < rb_nalloc rb < 2 ^ 31
      /\ 0 <= rb_head rb < rb_nalloc rb /\ 0 <= rb_tail rb < rb_nalloc rb
      /\ length (rb_els rb) = Z.to_nat (rb_nalloc rb)
      /\ Z.of_nat (length l) < rb_nalloc rb
      /\ rb_head rb = (rb_tail rb + Z.of_nat (length l)) mod rb_nalloc rb
      /\ forall i x, l !! i = Some x ->
           rb_els rb !! Z.to_nat ((rb_tail rb + Z.of_nat i) mod rb_nalloc rb) = Some (Some x)).

(** Index arithmetic modulo the size, for indices below twice the size. *)
Lemma wrap_index n a : 0 < n -> 0 <= a < 2 * n -> a mod n = if a <? n then a else a - n.
Proof.
  intros Hn Ha. destruct (Z.ltb_spec a n); [apply Z.mod_small; lia|].
  symmetry. apply Z.mod_unique with 1; lia.
Qed.

(** A live buffer knows its length from head and tail. *)
Lemma rb_rep_length rb l :
  rb_rep rb l -> rb_nalloc rb <> 0 ->
  Z.of_nat (length l) =
  if rb_tail rb <=? rb_head rb then rb_head rb - rb_tail rb
  else rb_nalloc rb - (rb_tail rb - rb_head rb).
Proof.
  intros [[-> ->]|(Hn & Hh & Ht & He & Hl & Heq & _)] Hnz; [done|].
  rewrite wrap_index in Heq by lia.
  destruct (Z.ltb_spec (rb_tail rb + Z.of_nat (length l)) (rb_nalloc rb)); zbool; lia.
Qed.

Lemma rb_rep_bounds rb l :
  rb_rep rb l ->
  0 <= rb_nalloc rb < 2 ^ 31 /\ 0 <= rb_head rb < 2 ^ 31 /\ 0 <= rb_tail rb < 2 ^ 31.
Proof. intros [[-> ->]|H]; cbn; lia. Qed.

Lemma ringbuf_count_rep rb l :
  rb_rep rb l -> ringbuf_count rb = Z.of_nat (length l).
Proof.
  intros Hr. pose proof (rb_rep_bounds _ _ Hr). unfold ringbuf_count.
  destruct (Z.eqb_spec (rb_nalloc rb) 0) as [H0|H0].
  - destruct Hr as [[-> ->]|Hr]; [done|lia].
  - rewrite (rb_rep_length _ _ Hr H0). destruct Hr as [[-> ->]|Hr]; [done|].
    zbool; ulia.
Qed.

Lemma ringbuf_empty_rep rb l :
  rb_rep rb l -> ringbuf_empty rb = true <-> l = [].
Proof.
  intros Hr. unfold ringbuf_empty. rewrite Z.eqb_eq. rewrite <- length_zero_iff_nil.
  destruct Hr as [[-> ->]|(Hn & Hh & Ht & _ & Hl & -> & _)]; [done|].
  rewrite wrap_index by lia.
  destruct (Z.ltb_spec (rb_tail rb + Z.of_nat (length l)) (rb_nalloc rb)); lia.
Qed.

(** Fullness leaves one slot unused. *)
Lemma ringbuf_full_rep rb l :
  rb_rep rb l -> rb_nalloc rb <> 0 ->
  ringbuf_full rb = (Z.of_nat (length l) + 1 =? rb_nalloc rb).
Proof.
  intros Hr H0. unfold ringbuf_full.
  destruct Hr as [[-> ->]|(Hn & Hh & Ht & _ & Hl & Heq & _)]; [done|].
  apply eq_bool_prop_intro. rewrite !orb_True, !Is_true_true, !Z.eqb_eq.
  rewrite u32_id by ulia. rewrite wrap_index in Heq by lia. rewrite wrap_index by lia.
  destruct (Z.ltb_spec (rb_tail rb + Z.of_nat (length l)) (rb_nalloc rb));
    destruct (Z.ltb_spec (rb_head rb + 1) (rb_nalloc rb)); lia.
Qed.

(** [ringbuf_get_head rb off] is the [off]-th element from the newest end. *)
Lemma ringbuf_get_head_rep rb l off :
  rb_rep rb l -> 1 <= off <= Z.of_nat (length l) ->
  ringbuf_get_head rb off = l !! (length l - Z.to_nat off)%nat.
Proof.
  intros [[-> ->]|(Hn & Hh & Ht & He & Hl & Heq & Hel)] Hoff; [cbn in Hoff; lia|].
  destruct (lookup_lt_is_Some_2 l (length l - Z.to_nat off)) as [x Hx]; [lia|].
  rewrite Hx. unfold ringbuf_get_head, rb_at.
  rewrite u32_id by (split; [lia|unfold_words; change (2 ^ 31) with 2147483648 in *; lia]).
  apply Hel in Hx. revert Hx. rewrite Nat2Z.inj_sub, Z2Nat.id by lia.
  assert ((rb_nalloc rb + rb_head rb - off) mod rb_nalloc rb
          = (rb_tail rb + (Z.of_nat (length l) - off)) mod rb_nalloc rb) as ->.
  { rewrite Heq, <- Z.add_sub_assoc, Z.add_comm, <- Z.add_sub_swap.
    rewrite <- (Z.mul_1_l (rb_nalloc rb)) at 2.
    replace ((rb_tail rb + Z.of_nat (length l)) mod rb_nalloc rb + 1 * rb_nalloc rb - off)
      with ((rb_tail rb + Z.of_nat (length l)) mod rb_nalloc rb - off + 1 * rb_nalloc rb) by lia.
    rewrite Z.mod_add by lia. rewrite Zminus_mod_idemp_l. f_equal. lia. }
  intros ->. done.
Qed.

(** Popping: the tail element leaves. *)
Lemma ringbuf_advance_tail_rep rb x l :
  rb_rep rb (x :: l) ->
  fst (ringbuf_advance_tail rb) = Some x /\ rb_rep (snd (ringbuf_advance_tail rb)) l.
Proof.
  intros [[_ ?]|(Hn & Hh & Ht & He & Hl & Heq & Hel)]; [done|].
  cbn [length] in *. unfold ringbuf_advance_tail. cbn [fst snd]. split.
  - pose proof (Hel 0%nat x eq_refl) as Hx. rewrite Z.add_0_r, Z.mod_small in Hx by lia.
    unfold rb_at. by rewrite Hx.
  - right. cbn. rewrite u32_id by (split; [lia|unfold_words; change (2 ^ 31) with 2147483648 in *; lia]).
    assert (0 <= (rb_tail rb + 1) mod rb_nalloc rb < rb_nalloc rb)
      by (apply Z.mod_pos_bound; lia).
    split_and!; try lia.
    + rewrite Zplus_mod_idemp_l, Heq. f_equal. lia.
    + intros i y Hy. rewrite Zplus_mod_idemp_l.
      rewrite <- (Hel (S i) y Hy). do 3 f_equal. lia.
Qed.

(** Inserting in a buffer with room. *)
Lemma ringbuf_insert_rep rb l x :
  rb_rep rb l -> Z.of_nat (length l) + 1 < rb_nalloc rb ->
  rb_rep (ringbuf_insert rb x) (l ++ [x]).
Proof.
  intros [[-> ->]|(Hn & Hh & Ht & He & Hl & Heq & Hel)] Hroom; [cbn in Hroom; lia|].
  right. unfold ringbuf_insert. cbn.
  rewrite u32_id by (split; [lia|unfold_words; change (2 ^ 31) with 2147483648 in *; lia]).
  assert (0 <= (rb_head rb + 1) mod rb_nalloc rb < rb_nalloc rb)
    by (apply Z.mod_pos_bound; lia).
  rewrite length_insert, length_app. cbn [length]. split_and!; try lia.
  - rewrite Heq, Zplus_mod_idemp_l. f_equal. lia.
  - intros i y [Hy|[? Hy]]%lookup_app_Some.
    + pose proof (lookup_lt_Some _ _ _ Hy).
      rewrite list_lookup_insert_ne; [by apply Hel|].
      rewrite wrap_index in Heq by lia. rewrite wrap_index by lia.
      destruct (Z.ltb_spec (rb_tail rb + Z.of_nat (length l)) (rb_nalloc rb));
        destruct (Z.ltb_spec (rb_tail rb + Z.of_nat i) (rb_nalloc rb)); lia.
    + apply list_lookup_singleton_Some in Hy as [Hi ->].
      replace (Z.of_nat i) with (Z.of_nat (length l)) by lia. rewrite <- Heq.
      apply list_lookup_insert_eq. lia.
Qed.

(** Growing a full buffer keeps its contents. *)
Lemma ringbuf_grow_rep rb l :
  rb_rep rb l -> 0 < rb_nalloc rb < 2 ^ 30 ->
  Z.of_nat (length l) + 1 = rb_nalloc rb ->
  rb_rep (ringbuf_grow rb) l /\ rb_nalloc (ringbuf_grow rb) = 2 * rb_nalloc rb.
Proof.
  intros Hr H0 Hfull. pose proof (rb_rep_length _ _ Hr ltac:(lia)) as Hlen.
  destruct Hr as [[-> ->]|(Hn & Hh & Ht & He & Hl & Heq & Hel)]; [cbn in H0; lia|].
  unfold ringbuf_grow. change (2 ^ 30) with 1073741824 in *.
  destruct (Z.leb_spec (rb_tail rb) (rb_head rb)) as [Hth|Hth].
  - rewrite !u32_id by ulia. cbn [rb_nalloc]. split; [|lia].
    right. cbn. rewrite length_app, length_take, length_drop, length_replicate.
    split_and!; try lia.
    + rewrite Z.mod_small by lia. lia.
    + intros i x Hx. pose proof (lookup_lt_Some _ _ _ Hx).
      rewrite Z.mod_small by lia. rewrite lookup_app_l
        by (rewrite length_take, length_drop; lia).
      rewrite lookup_take_lt by lia. rewrite lookup_drop.
      rewrite <- (Hel i x Hx). f_equal. rewrite Z.mod_small by lia. lia.
  - rewrite !u32_id by ulia. cbn [rb_nalloc]. split; [|lia].
    right. cbn. rewrite !length_app, !length_take, length_drop, length_replicate.
    split_and!; try lia.
    + rewrite wrap_index by lia. zbool; lia.
    + intros i x Hx. pose proof (lookup_lt_Some _ _ _ Hx).
      rewrite <- (Hel i x Hx). rewrite !wrap_index by lia.
      destruct (Z.ltb_spec (rb_tail rb + Z.of_nat i) (rb_nalloc rb)).
      * destruct (Z.ltb_spec (rb_tail rb + rb_nalloc rb + Z.of_nat i) (rb_nalloc rb * 2)); [|lia].
        rewrite !lookup_app_r by (rewrite ?length_take, ?length_replicate; lia).
        rewrite length_take, length_replicate, lookup_take_lt, lookup_drop by lia.
        f_equal. lia.
      * destruct (Z.ltb_spec (rb_tail rb + rb_nalloc rb + Z.of_nat i) (rb_nalloc rb * 2)); [lia|].
        rewrite lookup_app_l by (rewrite length_take; lia).
        rewrite lookup_take_lt by lia. f_equal. lia.
Qed.

(** The loop [for (el = ringbuf_iter_first(..); el; el = ringbuf_iter_next(..))]
    of the callers: the elements visited, within [fuel] calls of
    [ringbuf_iter_next]. *)
Fixpoint iterate_from (fuel : nat) (r : option A * ringbuf_iter) : option (list A) :=
  match r with
  | (None, _) => Some []
  | (Some el, iter) =>
      match fuel with
      | O => None
      | S fuel => (el ::.) <$> iterate_from fuel (ringbuf_iter_next iter)
      end
  end.

Definition ringbuf_iterate (fuel : nat) (rbuf : ringbuf) : option (list A) :=
  iterate_from fuel (ringbuf_iter_first {| it_rbuf := rbuf; it_next := 0 |} rbuf).

Lemma iterate_from_rep rb l : rb_rep rb l -> rb_nalloc rb <> 0 ->
  forall k, (k <= length l)%nat ->
  iterate_from (length l - k) (ringbuf_iter_next
     {| it_rbuf := rb; it_next := (rb_tail rb + Z.of_nat k) mod rb_nalloc rb |})
  = Some (drop k l).
Proof.
  intros [[-> ->]|(Hn & Hh & Ht & He & Hl & Heq & Hel)] H0 k Hk; [done|].
  remember (length l - k)%nat as f eqn:Hf. revert k Hk Hf.
  induction f as [|f IH]; intros k Hk Hf; unfold ringbuf_iter_next; cbn [it_next it_rbuf].
  - replace k with (length l) by lia. rewrite <- Heq, Z.eqb_refl, drop_all. done.
  - destruct (lookup_lt_is_Some_2 l k) as [x Hx]; [lia|].
    destruct (Z.eqb_spec ((rb_tail rb + Z.of_nat k) mod rb_nalloc rb) (rb_head rb)) as [E|E].
    + exfalso. revert E. rewrite Heq, !wrap_index by lia. zbool; lia.
    + unfold rb_at. rewrite (Hel k x Hx). cbn [mjoin option_join iterate_from].
      rewrite u32_id by (assert (0 <= (rb_tail rb + Z.of_nat k) mod rb_nalloc rb < rb_nalloc rb)
        by (apply Z.mod_pos_bound; lia); ulia).
      rewrite Zplus_mod_idemp_l.
      replace (rb_tail rb + Z.of_nat k + 1) with (rb_tail rb + Z.of_nat (S k)) by lia.
      rewrite IH by lia. cbn. by rewrite (drop_S l x k Hx).
Qed.

(** The array grows only when it is full. *)
Lemma ringbuf_add_nalloc malloc_ok rb l el bound :
  rb_rep rb l -> 4 <= bound < 2 ^ 30 -> rb_nalloc rb <= bound -> 2 * (Z.of_nat (length l) + 1) <= bound ->
  rb_nalloc (snd (ringbuf_add malloc_ok rb el)) <= bound.
Proof.
  intros Hr Hb Hn Hl. change (2 ^ 30) with 1073741824 in *. unfold ringbuf_add.
  destruct (ringbuf_full rb) eqn:Hfull; [|done]. cbn [negb].
  destruct (Z.eqb_spec (rb_nalloc rb) 0) as [H0|H0]; cbn [negb];
    (destruct malloc_ok; [cbn [snd ringbuf_insert rb_nalloc]; try lia|done]).
  rewrite (ringbuf_full_rep _ _ Hr H0) in Hfull. apply Z.eqb_eq in Hfull.
  pose proof (rb_rep_bounds _ _ Hr). unfold ringbuf_grow.
  destruct (_ <=? _); cbn [rb_nalloc]; rewrite u32_id by ulia; lia.
Qed.

Lemma ringbuf_add_rep malloc_ok rb l el :
  rb_rep rb l -> rb_nalloc rb < 2 ^ 30 ->
  match ringbuf_add malloc_ok rb el with
  | (true, rb') => rb_rep rb' (l ++ [el])
  | (false, rb') => malloc_ok = false /\ ringbuf_full rb = true /\ rb' = rb
  end.
Proof.
  intros Hr Hn. unfold ringbuf_add.
  destruct (ringbuf_full rb) eqn:Hfull; cbn [negb].
  - destruct (Z.eqb_spec (rb_nalloc rb) 0) as [H0|H0]; cbn [negb].
    + destruct malloc_ok; [|done].
      destruct Hr as [[-> ->]|Hr]; [|lia].
      apply ringbuf_insert_rep; [|cbn; lia]. right. cbn. split_and!; try lia; done.
    + destruct malloc_ok; [|done].
      rewrite (ringbuf_full_rep _ _ Hr H0) in Hfull. apply Z.eqb_eq in Hfull.
      destruct (ringbuf_grow_rep _ _ Hr) as [Hg Hna]; [lia|done|].
      apply ringbuf_insert_rep; [done|lia].
  - destruct (Z.eqb_spec (rb_nalloc rb) 0) as [H0|H0].
    { unfold ringbuf_full in Hfull. rewrite H0 in Hfull. done. }
    rewrite (ringbuf_full_rep _ _ Hr H0) in Hfull. apply Z.eqb_neq in Hfull.
    apply ringbuf_insert_rep; [done|].
    destruct Hr as [[-> ->]|Hr]; [done|lia].
Qed.

(** C39: adding an element to a buffer that represents [l] appends it: the call
    either succeeds and the buffer represents [l ++ [el]], growing (a first
    block of four slots, then doubling, on either side of the wrap-around point) when it
    must, or it fails because an allocation failed and the buffer is unchanged. *)
Theorem ringbuf_add_refines malloc_ok rb l el :
  rb_rep rb l -> rb_nalloc rb < 2 ^ 30 ->
  match ringbuf_add malloc_ok rb el with
  | (true, rb') => rb_rep rb' (l ++ [el])
  | (false, rb') => malloc_ok = false /\ ringbuf_full rb = true /\ rb' = rb
  end.
Proof. exact (ringbuf_add_rep malloc_ok rb l el). Qed.

(** C40: the read side of the buffer. For a buffer that represents [l], oldest
    element first: the count is the length; it is empty exactly for []; the
    element at offset [off] from the head is the [off]-th newest; advancing the
    tail returns and removes the oldest; and the iterator loop visits exactly
    the elements of [l], oldest first, and ends. *)
Theorem ringbuf_reads_refine rb l :
  rb_rep rb l ->
  ringbuf_count rb = Z.of_nat (length l)
  /\ (ringbuf_empty rb = true <-> l = [])
  /\ (forall off, 1 <= off <= Z.of_nat (length l) ->
        ringbuf_get_head rb off = l !! (length l - Z.to_nat off)%nat)
  /\ (forall x l', l = x :: l' ->
        fst (ringbuf_advance_tail rb) = Some x /\ rb_rep (snd (ringbuf_advance_tail rb)) l')
  /\ ringbuf_iterate (length l) rb = Some l.
Proof.
  intros Hr. split_and!.
  - by apply ringbuf_count_rep.
  - by apply ringbuf_empty_rep.
  - intros off. by apply ringbuf_get_head_rep.
  - intros x l' ->. by apply ringbuf_advance_tail_rep.
  - unfold ringbuf_iterate, ringbuf_iter_first. destruct (ringbuf_empty rb) eqn:He.
    + apply (ringbuf_empty_rep _ _ Hr) in He as ->. done.
    + destruct (decide (rb_nalloc rb = 0)) as [H0|H0].
      { destruct Hr as [[-> ->]|Hr]; [done|lia]. }
      pose proof (iterate_from_rep _ _ Hr H0 0 ltac:(lia)) as Hi.
      destruct Hr as [[-> ->]|Hr]; [done|].
      rewrite Z.add_0_r, Z.mod_small, Nat.sub_0_r in Hi by lia. exact Hi.
Qed.
End ringbuf.

Arguments ringbuf : clear implicits.
Arguments ringbuf_iter : clear implicits.

(** A buffer of four slots whose contents wrap around, with no slot left. *)
Definition wrapped_ringbuf : ringbuf Z :=
  {| rb_nalloc := 4; rb_head := 1; rb_tail := 2; rb_els := [Some 3; None; Some 1; Some 2] |}.

Lemma wrapped_ringbuf_rep : rb_rep wrapped_ringbuf [1; 2; 3].
Proof.
  right. split_and!; try (cbn; lia); try reflexivity.
  intros i x Hi. destruct i as [|[|[|i]]]; cbn in Hi; simplify_eq; reflexivity.
Qed.

Lemma ringbuf_add_refines_witness :
  rb_rep wrapped_ringbuf [1; 2; 3]
  /\ rb_rep (snd (ringbuf_add true wrapped_ringbuf 4)) [1; 2; 3; 4]
  /\ rb_nalloc (snd (ringbuf_add true wrapped_ringbuf 4)) = 8.
Proof.
  split_and!; [apply wrapped_ringbuf_rep| |reflexivity].
  apply (ringbuf_add_refines true wrapped_ringbuf [1; 2; 3] 4);
    [apply wrapped_ringbuf_rep|cbn; lia].
Defined.

Lemma ringbuf_reads_refine_witness :
  rb_rep wrapped_ringbuf [1; 2; 3]
  /\ ringbuf_iterate 3 wrapped_ringbuf = Some [1; 2; 3]
  /\ ringbuf_get_head wrapped_ringbuf 1 = Some 3.
Proof.
  split_and!; [apply wrapped_ringbuf_rep| |reflexivity].
  apply (ringbuf_reads_refine wrapped_ringbuf [1; 2; 3] wrapped_ringbuf_rep).
Defined.
