(* ===== verification/Rfc9204.v ===== *)
(** * QPACK on the wire: the abstract specification

    Encoder instructions and field line representations of RFC 9204 (sections
    3.2, 4.3 and 4.5), their readers, and the dynamic table they act on as a list
    of names and values.  Encoder and decoder are each related to this.

    Ids of dynamic table entries are absolute and start with 1, as in the code:
    the entry with id [i] is the RFC's absolute index [i - 1]. *)

From S2P Require Import Prelude IntCodec HuffTables Huffman StrCodec Xxhash StaticTable.

(** ** The dynamic table *)

Definition hfield : Type := bytes * bytes.

Definition field_size (f : hfield) : Z :=
  32 + Z.of_nat (length (fst f)) + Z.of_nat (length (snd f)).

Fixpoint fields_size (l : list hfield) : Z :=
  match l with [] => 0 | f :: l => field_size f + fields_size l end.

(** The number of insertions so far, the capacity and the entries, oldest first. *)
Record dyn_table := Dyn {
  dt_inserted : Z;
  dt_capacity : Z;
  dt_entries : list hfield;
}.

(** The id of the oldest entry. *)
Definition dt_oldest (t : dyn_table) : Z := dt_inserted t - Z.of_nat (length (dt_entries t)) + 1.

Definition dt_get (t : dyn_table) (id : Z) : option hfield :=
  if (dt_oldest t <=? id) && (id <=? dt_inserted t)
  then dt_entries t !! Z.to_nat (id - dt_oldest t) else None.

(** Eviction (section 3.2.2): the oldest entries leave until [l] fits. *)
Fixpoint dt_evict (capacity : Z) (l : list hfield) : list hfield :=
  match l with
  | [] => []
  | _ :: rest => if fields_size l >? capacity then dt_evict capacity rest else l
  end.

(** An entry that does not fit the table's capacity is an error; else entries are
    evicted to make room, and it is added. *)
Definition dt_insert (f : hfield) (t : dyn_table) : option dyn_table :=
  if field_size f >? dt_capacity t then None
  else Some (Dyn (dt_inserted t + 1) (dt_capacity t)
               (dt_evict (dt_capacity t - field_size f) (dt_entries t) ++ [f])).

Definition dt_set_capacity (capacity : Z) (t : dyn_table) : dyn_table :=
  Dyn (dt_inserted t) capacity (dt_evict capacity (dt_entries t)).

(** ** Reading *)

Definition read_int (p : Z) (buf : bytes) : option (Z * bytes) :=
  match buf with
  | [] => None
  | b0 :: src => match lsqpack_dec_int b0 src p dec_int_fresh with
                 | DecIntOk v rest => Some (v, rest)
                 | _ => None
                 end
  end.

(** An integer and a string. *)
Definition read_int_str (p : Z) (buf : bytes) : option (Z * bytes * bytes) :=
  '(n, buf) ← read_int p buf;
  '(v, buf) ← read_str 7 buf;
  Some (n, v, buf).

Definition read_str_str (p : Z) (buf : bytes) : option (bytes * bytes * bytes) :=
  '(n, buf) ← read_str p buf;
  '(v, buf) ← read_str 7 buf;
  Some (n, v, buf).

(** ** Encoder instructions (section 4.3) *)

Inductive instruction :=
  | ISetCapacity (capacity : Z)
  | IInsertStaticName (index : Z) (value : bytes)
  | IInsertDynName (relative : Z) (value : bytes)
  | IInsertLiteral (name value : bytes)
  | IDuplicate (relative : Z).

Definition read_instruction (buf : bytes) : option (instruction * bytes) :=
  match buf with
  | [] => None
  | b :: _ =>
      if Z.testbit b 7 then
        '(n, v, buf) ← read_int_str 6 buf;
        Some (if Z.testbit b 6 then IInsertStaticName n v else IInsertDynName n v, buf)
      else if Z.testbit b 6 then
        '(n, v, buf) ← read_str_str 5 buf; Some (IInsertLiteral n v, buf)
      else if Z.testbit b 5 then
        '(n, buf) ← read_int 5 buf; Some (ISetCapacity n, buf)
      else
        '(n, buf) ← read_int 5 buf; Some (IDuplicate n, buf)
  end.

(** [b] is one instruction, whatever follows it. *)
Definition is_instruction (b : bytes) (i : instruction) : Prop :=
  forall tail, read_instruction (b ++ tail) = Some (i, tail).

(** [instructions buf l]: [buf] is exactly the instructions [l]. *)
Inductive instructions : bytes -> list instruction -> Prop :=
  | instructions_nil : instructions [] []
  | instructions_cons b i bs l :
      is_instruction b i -> instructions bs l -> instructions (b ++ bs) (i :: l).

(** A relative index counts from the newest entry. *)
Definition apply_instruction (t : dyn_table) (i : instruction) : option dyn_table :=
  match i with
  | ISetCapacity c => Some (dt_set_capacity c t)
  | IInsertStaticName k v =>
      if (0 <=? k) && (k <? 99) then dt_insert (ste_name (ste_at k), v) t else None
  | IInsertDynName r v =>
      f ← dt_get t (dt_inserted t - r);
      dt_insert (fst f, v) t
  | IInsertLiteral n v => dt_insert (n, v) t
  | IDuplicate r =>
      f ← dt_get t (dt_inserted t - r);
      dt_insert f t
  end.

Fixpoint apply_instructions (t : dyn_table) (l : list instruction) : option dyn_table :=
  match l with
  | [] => Some t
  | i :: l => t ← apply_instruction t i; apply_instructions t l
  end.

(** The decoder's limit (section 4.3.1): a larger capacity is an error. *)
Definition capacity_within (max : Z) (i : instruction) : Prop :=
  match i with ISetCapacity c => c <= max | _ => True end.

(** ** Field line representations (section 4.5) *)

(** References to the dynamic table are ids; the flag is the N bit. *)
Inductive representation :=
  | RIndexedStatic (index : Z)
  | RIndexedDyn (id : Z)
  | RLiteralStatic (never : bool) (index : Z) (value : bytes)
  | RLiteralDyn (never : bool) (id : Z) (value : bytes)
  | RLiteral (never : bool) (name value : bytes).

Definition read_representation (base : Z) (buf : bytes) : option (representation * bytes) :=
  match buf with
  | [] => None
  | b :: _ =>
      if Z.testbit b 7 then
        '(n, buf) ← read_int 6 buf;
        Some (if Z.testbit b 6 then RIndexedStatic n else RIndexedDyn (base - n), buf)
      else if Z.testbit b 6 then
        '(n, v, buf) ← read_int_str 4 buf;
        let never := Z.testbit b 5 in
        Some (if Z.testbit b 4 then RLiteralStatic never n v else RLiteralDyn never (base - n) v, buf)
      else if Z.testbit b 5 then
        '(n, v, buf) ← read_str_str 3 buf; Some (RLiteral (Z.testbit b 4) n v, buf)
      else if Z.testbit b 4 then
        '(n, buf) ← read_int 4 buf; Some (RIndexedDyn (base + n + 1), buf)
      else
        '(n, v, buf) ← read_int_str 3 buf; Some (RLiteralDyn (Z.testbit b 3) (base + n + 1) v, buf)
  end.

Definition is_representation (base : Z) (b : bytes) (r : representation) : Prop :=
  forall tail, read_representation base (b ++ tail) = Some (r, tail).

(** The field line a representation stands for. *)
Definition resolve (t : dyn_table) (r : representation) : option hfield :=
  match r with
  | RIndexedStatic k =>
      if (0 <=? k) && (k <? 99) then Some (ste_name (ste_at k), ste_val (ste_at k)) else None
  | RIndexedDyn id => dt_get t id
  | RLiteralStatic _ k v =>
      if (0 <=? k) && (k <? 99) then Some (ste_name (ste_at k), v) else None
  | RLiteralDyn _ id v => f ← dt_get t id; Some (fst f, v)
  | RLiteral _ n v => Some (n, v)
  end.

(** The dynamic table entry a representation refers to. *)
Definition reference (r : representation) : option Z :=
  match r with
  | RIndexedDyn id | RLiteralDyn _ id _ => Some id
  | _ => None
  end.

(** The N bit. *)
Definition never_indexed (r : representation) : bool :=
  match r with
  | RLiteralStatic n _ _ | RLiteralDyn n _ _ | RLiteral n _ _ => n
  | _ => false
  end.

(** ** Lemmas about the table *)

Lemma fields_size_app l1 l2 : fields_size (l1 ++ l2) = fields_size l1 + fields_size l2.
Proof. induction l1; cbn; lia. Qed.

Lemma field_size_pos f : 32 <= field_size f.
Proof. unfold field_size. lia. Qed.

Lemma fields_size_nonneg l : 0 <= fields_size l.
Proof. induction l as [|f l IH]; cbn; [lia|]. pose proof (field_size_pos f). lia. Qed.

Lemma dt_evict_suffix cap l : exists pre, l = pre ++ dt_evict cap l.
Proof.
  induction l as [|f l [pre IH]]; [by exists []|]. cbn [dt_evict].
  destruct (_ >? _); [exists (f :: pre); by rewrite IH at 1|by exists []].
Qed.

Lemma dt_evict_fits cap l : 0 <= cap -> fields_size (dt_evict cap l) <= cap.
Proof.
  intros Hc. induction l as [|f l IH]; [done|]. cbn [dt_evict].
  rewrite Z.gtb_ltb. destruct (Z.ltb_spec cap (fields_size (f :: l))); [done|lia].
Qed.

(** An instruction that inserts does not set the capacity. *)
Lemma insert_within max f t t' i :
  dt_insert f t = Some t' -> apply_instruction t i = Some t' -> capacity_within max i.
Proof.
  unfold dt_insert. destruct (_ >? _); [done|]. intros [= <-]. destruct i; [|done..].
  cbn. unfold dt_set_capacity. intros H. injection H. lia.
Qed.

(** Making room first and inserting is inserting and making room afterwards. *)
Lemma dt_evict_insert cap l f :
  field_size f <= cap -> dt_evict cap (l ++ [f]) = dt_evict (cap - field_size f) l ++ [f].
Proof.
  intros Hf. induction l as [|g l IH]; cbn [app dt_evict].
  - cbn [fields_size]. rewrite Z.gtb_ltb. destruct (Z.ltb_spec cap (field_size f + 0)); [lia|done].
  - change (g :: l ++ [f]) with ((g :: l) ++ [f]). rewrite fields_size_app. cbn [fields_size].
    rewrite !Z.gtb_ltb.
    destruct (Z.ltb_spec cap (field_size g + fields_size l + (field_size f + 0))),
      (Z.ltb_spec (cap - field_size f) (field_size g + fields_size l)); try lia; done.
Qed.

Lemma dt_evict_all cap l : fields_size l <= cap -> dt_evict cap l = l.
Proof.
  destruct l as [|f l]; [done|]. intros H. cbn [dt_evict]. rewrite Z.gtb_ltb.
  destruct (Z.ltb_spec cap (fields_size (f :: l))); [lia|done].
Qed.

Lemma instructions_app b1 l1 b2 l2 :
  instructions b1 l1 -> instructions b2 l2 -> instructions (b1 ++ b2) (l1 ++ l2).
Proof.
  intros H1 H2. induction H1; [done|]. rewrite <- app_assoc. by constructor.
Qed.

Lemma apply_instructions_app l1 l2 t t1 :
  apply_instructions t l1 = Some t1 -> apply_instructions t (l1 ++ l2) = apply_instructions t1 l2.
Proof.
  revert t. induction l1 as [|i l1 IH]; intros t; cbn [app apply_instructions]; [by intros [= ->]|].
  destruct (apply_instruction t i); [apply IH|done].
Qed.

(** Reading the instructions one after the other gives back the list. *)
Fixpoint read_instructions (fuel : nat) (buf : bytes) : option (list instruction) :=
  match buf, fuel with
  | [], _ => Some []
  | _, O => None
  | _, S fuel =>
      '(i, rest) ← read_instruction buf;
      l ← read_instructions fuel rest;
      Some (i :: l)
  end.

Lemma read_instructions_complete buf l :
  instructions buf l -> forall fuel, (length buf <= fuel)%nat -> read_instructions fuel buf = Some l.
Proof.
  induction 1 as [|b i bs l Hi Hl IH]; intros fuel Hf; [by destruct fuel|].
  assert (b <> []) as Hne by (intros ->; by specialize (Hi [])).
  assert (0 < length b)%nat by (destruct b; [done|cbn; lia]). rewrite length_app in Hf.
  destruct fuel as [|fuel]; [lia|]. pose proof (Hi bs) as Hr.
  destruct (b ++ bs) as [|x r] eqn:E; [by destruct b|]. cbn [read_instructions].
  rewrite Hr. cbn [mbind option_bind]. rewrite IH by lia. done.
Qed.

(** ** The prefix of a header block (section 4.5.1) *)

(** The Required Insert Count from its encoding, given the number of insertions
    the decoder has seen. *)
Definition decode_insert_count (max_entries total encoded : Z) : option Z :=
  if encoded =? 0 then Some 0
  else
    let full_range := 2 * max_entries in
    if encoded >? full_range then None
    else
      let max_value := total + max_entries in
      let max_wrapped := max_value / full_range * full_range in
      let ric := max_wrapped + encoded - 1 in
      if ric >? max_value then
        if ric <=? full_range then None
        else let ric := ric - full_range in if ric =? 0 then None else Some ric
      else if ric =? 0 then None else Some ric.

(** The Required Insert Count and the Base. *)
Definition read_prefix (max_entries total : Z) (buf : bytes) : option (Z * Z * bytes) :=
  '(encoded, buf) ← read_int 8 buf;
  ric ← decode_insert_count max_entries total encoded;
  match buf with
  | [] => None
  | b :: _ =>
      '(delta, buf) ← read_int 7 buf;
      if Z.testbit b 7 then
        if ric - delta - 1 <? 0 then None else Some (ric, ric - delta - 1, buf)
      else Some (ric, ric + delta, buf)
  end.

Lemma decode_insert_count_ok max_entries total ric :
  0 < max_entries -> 0 <= total -> 0 < ric -> total - max_entries < ric <= total + max_entries ->
  decode_insert_count max_entries total (ric mod (2 * max_entries) + 1) = Some ric.
Proof.
  intros Hm Ht Hr Hrange. unfold decode_insert_count. set (fr := 2 * max_entries).
  assert (0 <= ric mod fr < fr) as Hmod by (apply Z.mod_pos_bound; lia).
  destruct (Z.eqb_spec (ric mod fr + 1) 0); [lia|]. rewrite !Z.gtb_ltb.
  destruct (Z.ltb_spec fr (ric mod fr + 1)); [lia|].
  set (mv := total + max_entries). pose proof (Z.div_mod mv fr ltac:(lia)) as Hmv.
  assert (0 <= mv mod fr < fr) as Hmvm by (apply Z.mod_pos_bound; lia).
  pose proof (Z.div_mod ric fr ltac:(lia)) as Hric.
  rewrite (Z.mul_comm (mv / fr)).
  assert (ric / fr = mv / fr \/ ric / fr = mv / fr - 1) as Hq.
  { assert (mv - fr < ric <= mv) by lia.
    assert (fr * (ric / fr) < fr * (mv / fr + 1)) by lia.
    assert (fr * (mv / fr - 2) < fr * (ric / fr)) by lia. nia. }
  destruct Hq as [Hq|Hq]; rewrite Hq in Hric.
  - destruct (Z.ltb_spec mv (fr * (mv / fr) + (ric mod fr + 1) - 1)); [lia|].
    destruct (Z.eqb_spec (fr * (mv / fr) + (ric mod fr + 1) - 1) 0); [lia|]. f_equal. lia.
  - destruct (Z.ltb_spec mv (fr * (mv / fr) + (ric mod fr + 1) - 1)); [|lia].
    destruct (Z.leb_spec (fr * (mv / fr) + (ric mod fr + 1) - 1) fr).
    + exfalso. lia.
    + destruct (Z.eqb_spec (fr * (mv / fr) + (ric mod fr + 1) - 1 - fr) 0); [lia|]. f_equal. lia.
Qed.

(** ** Decoder instructions (section 4.4) *)

Inductive dec_instruction :=
  | DSectionAck (stream_id : Z)
  | DStreamCancel (stream_id : Z)
  | DInsertCount (increment : Z).

Definition read_dec_instruction (buf : bytes) : option (dec_instruction * bytes) :=
  match buf with
  | [] => None
  | b :: _ =>
      if Z.testbit b 7 then '(n, buf) ← read_int 7 buf; Some (DSectionAck n, buf)
      else '(n, buf) ← read_int 6 buf;
           Some (if Z.testbit b 6 then DStreamCancel n else DInsertCount n, buf)
  end.

(** [b] is one instruction, whatever follows it; [buf] is exactly the instructions [l]. *)
Definition is_dec_instruction (b : bytes) (i : dec_instruction) : Prop :=
  forall tail, read_dec_instruction (b ++ tail) = Some (i, tail).

Inductive dec_instructions : bytes -> list dec_instruction -> Prop :=
  | dec_instructions_nil : dec_instructions [] []
  | dec_instructions_cons b i bs l :
      is_dec_instruction b i -> dec_instructions bs l -> dec_instructions (b ++ bs) (i :: l).

(** ** Header blocks (section 4.5) *)

(** The field lines: each representation with the field it stands for. *)
Inductive field_section (t : dyn_table) (base : Z) : bytes -> list (representation * hfield) -> Prop :=
  | section_nil : field_section t base [] []
  | section_cons b r f bs l :
      is_representation base b r -> resolve t r = Some f -> field_section t base bs l ->
      field_section t base (b ++ bs) ((r, f) :: l).

(** The Required Insert Count is that of the largest reference, 0 if there is none
    (sections 2.1.2 and 4.5.1.1). *)
Definition required_by (ric : Z) (l : list (representation * hfield)) : Prop :=
  (forall r f id, (r, f) ∈ l -> reference r = Some id -> id <= ric)
  /\ (0 < ric -> exists r f, (r, f) ∈ l /\ reference r = Some ric).

(** A header block: the decoder had seen [total] insertions when its prefix was read;
    [t] is a table that has what it refers to. *)
Definition header_block (max_entries total : Z) (t : dyn_table) (buf : bytes) (ric base : Z)
  (l : list (representation * hfield)) : Prop :=
  exists rest, read_prefix max_entries total buf = Some (ric, base, rest)
    /\ field_section t base rest l /\ required_by ric l.

Lemma field_section_app t base b1 l1 b2 l2 :
  field_section t base b1 l1 -> field_section t base b2 l2 -> field_section t base (b1 ++ b2) (l1 ++ l2).
Proof. intros H1 H2. induction H1; [done|]. rewrite <- app_assoc. by econstructor. Qed.

(** Only an entry that is there can be referred to. *)
Lemma dt_get_range t id f : dt_get t id = Some f -> dt_oldest t <= id <= dt_inserted t.
Proof. unfold dt_get. destruct (Z.leb_spec (dt_oldest t) id), (Z.leb_spec id (dt_inserted t)); try done. Qed.

Lemma resolve_reference t r f id : resolve t r = Some f -> reference r = Some id -> dt_oldest t <= id <= dt_inserted t.
Proof.
  destruct r; cbn; intros H [= ->]; [by apply dt_get_range in H|].
  destruct (dt_get t id) eqn:E; [|done]. by apply dt_get_range in E.
Qed.
