(* ===== verification/Monad.v ===== *)
(** * Stateful code that may be undefined

    The monad in which the encoder and the decoder are written: a computation
    takes a state and gives a result and the next state, or [None] where the
    behaviour of the C code is undefined (a failed assertion, a read through a
    dangling pointer, a write outside a block, a corrupted list) or where a loop
    has run out of the rounds the model gives it.  [wp m s Q] says that [m] runs
    from [s] without any of that and that [Q] holds of the result and the state. *)

From S2P Require Import Prelude.

Definition st_m (S A : Type) : Type := S -> option (A * S).

#[global] Instance st_m_ret {S} : MRet (st_m S) := fun A x s => Some (x, s).
#[global] Instance st_m_bind {S} : MBind (st_m S) := fun A B f m s =>
  match m s with
  | Some (x, s') => f x s'
  | None => None
  end.

Section primitives.
Context {S : Type}.

Definition get : st_m S S := fun s => Some (s, s).
Definition gets {A} (f : S -> A) : st_m S A := fun s => Some (f s, s).
Definition modify (f : S -> S) : st_m S unit := fun s => Some (tt, f s).

(** Undefined behaviour. *)
Definition stuck {A} : st_m S A := fun _ => None.

(** [assert(b)] *)
Definition assert_that (b : bool) : st_m S unit := fun s => if b then Some (tt, s) else None.

(** A value the code relies on to be there. *)
Definition demand {A} (o : option A) : st_m S A := fun s =>
  match o with Some x => Some (x, s) | None => None end.

(** An operation on a part of the state that may be undefined. *)
Definition part {P} (getp : S -> P) (setp : P -> S -> S) (f : P -> option P) : st_m S unit :=
  fun s =>
  match f (getp s) with
  | Some x => Some (tt, setp x s)
  | None => None
  end.

(** ** Weakest preconditions *)

Definition wp {A} (m : st_m S A) (s : S) (Q : A -> S -> Prop) : Prop :=
  match m s with
  | Some (x, s') => Q x s'
  | None => False
  end.

Lemma wp_ret {A} (x : A) s (Q : A -> S -> Prop) : Q x s -> wp (mret x) s Q.
Proof. done. Qed.

Lemma wp_bind {A B} (m : st_m S A) (f : A -> st_m S B) s Q :
  wp m s (fun x s' => wp (f x) s' Q) -> wp (m ≫= f) s Q.
Proof. unfold wp, mbind, st_m_bind. by destruct (m s) as [[x s']|]. Qed.

Lemma wp_bind_assoc {A B C} (m : st_m S A) (f : A -> st_m S B) (g : B -> st_m S C) s Q :
  wp ((m ≫= f) ≫= g) s Q <-> wp (m ≫= (fun x => f x ≫= g)) s Q.
Proof. unfold wp, mbind, st_m_bind. by destruct (m s) as [[x s']|]. Qed.

Lemma wp_mono {A} (m : st_m S A) s (P Q : A -> S -> Prop) :
  wp m s P -> (forall x s', P x s' -> Q x s') -> wp m s Q.
Proof. unfold wp. destruct (m s) as [[x s']|]; auto. Qed.

Lemma wp_both {A} (m : st_m S A) s (P Q : A -> S -> Prop) :
  wp m s P -> wp m s Q -> wp m s (fun x s' => P x s' /\ Q x s').
Proof. unfold wp. by destruct (m s) as [[x s']|]. Qed.

Lemma wp_gets {A} (f : S -> A) s (Q : A -> S -> Prop) : Q (f s) s -> wp (gets f) s Q.
Proof. done. Qed.

Lemma wp_get s (Q : S -> S -> Prop) : Q s s -> wp get s Q.
Proof. done. Qed.

Lemma wp_modify f s (Q : unit -> S -> Prop) : Q tt (f s) -> wp (modify f) s Q.
Proof. done. Qed.

Lemma wp_assert b s (Q : unit -> S -> Prop) : b = true -> Q tt s -> wp (assert_that b) s Q.
Proof. unfold wp, assert_that. by intros ->. Qed.

Lemma wp_demand {A} (o : option A) x s (Q : A -> S -> Prop) :
  o = Some x -> Q x s -> wp (demand o) s Q.
Proof. unfold wp, demand. by intros ->. Qed.

Lemma wp_part {P} (getp : S -> P) setp f x s (Q : unit -> S -> Prop) :
  f (getp s) = Some x -> Q tt (setp x s) -> wp (part getp setp f) s Q.
Proof. unfold wp, part. by intros ->. Qed.

Lemma wp_run {A} (m : st_m S A) s Q :
  wp m s Q -> exists x s', m s = Some (x, s') /\ Q x s'.
Proof. unfold wp. destruct (m s) as [[x s']|]; [eauto|done]. Qed.
End primitives.

(** [wpstep]: peel the first primitive off a computation. *)
Ltac wpstep :=
  lazymatch goal with
  | |- wp (_ ≫= _) _ _ => apply wp_bind
  | |- wp (mret _) _ _ => apply wp_ret
  | |- wp (gets _) _ _ => apply wp_gets
  | |- wp get _ _ => apply wp_get
  | |- wp (modify _) _ _ => apply wp_modify
  end.

Ltac wpsteps := repeat (wpstep; cbn beta).

(** ** Linked lists *)

(** [TAILQ_REMOVE]: [None] when the element is not on the list. *)
Definition tailq_remove (p : Z) (l : list Z) : option (list Z) :=
  if decide (p ∈ l) then Some (filter (fun q => q <> p) l) else None.

Lemma tailq_remove_Some p l : p ∈ l -> tailq_remove p l = Some (filter (fun q => q <> p) l).
Proof. intros H. unfold tailq_remove. by rewrite decide_True. Qed.
