(* ===== verification/History.v ===== *)
(** * The encoder's history of header fields

    [qenc_hist_update_size], [qenc_hist_add] and [qenc_hist_seen] of
    src/lsqpack.c.  The history is a ring of hash pairs with one slot more than
    its size, which [qenc_hist_seen] uses for a sentinel.

    A block returned by [malloc] is not initialised: its contents are the
    argument [mem] of the model, an arbitrary function of the word's position.

    [recorded h] is the abstract contents.  The sentinel search is proved to be
    membership in it, and the two updates are described on it. *)

From stdpp Require Import sets.
From S2P Require Import Prelude.

(** [enum he] *)
Inductive he := HE_NAME | HE_NAMEVAL.

(** [struct lsqpack_hist_el] *)
Record hist_el := HistEl { he_name : Z; he_nameval : Z }.

#[global] Instance hist_el_eq_dec : EqDecision hist_el.
Proof. solve_decision. Defined.

Definition he_hashes (e : he) (el : hist_el) : Z :=
  match e with HE_NAME => he_name el | HE_NAMEVAL => he_nameval el end.

Definition set_he_hash (e : he) (hash : Z) (el : hist_el) : hist_el :=
  match e with
  | HE_NAME => HistEl hash (he_nameval el)
  | HE_NAMEVAL => HistEl (he_name el) hash
  end.

(** The history members of [struct lsqpack_enc]; [qpe_hist_els] is [None] for
    NULL. *)
Record history := {
  qpe_hist_els : option (list hist_el);
  qpe_hist_idx : Z;
  qpe_hist_nels : Z;
  qpe_hist_wrapped : bool;
}.

(** The elements of a fresh block. *)
Definition fresh_els (mem : mem_words) (n : Z) : list hist_el :=
  (fun i => HistEl (mem (2 * i)) (mem (2 * i + 1))) <$> seqZ 0 n.

(** The array element at a position; the code only uses positions inside. *)
Definition el_at (els : list hist_el) (i : Z) : hist_el :=
  default (HistEl 0 0) (els !! Z.to_nat i).

(** The copy loop: [count] elements from position [first] of the old ring. *)
Fixpoint hist_copy (old : list hist_el) (nels first i : Z) (room count : nat)
  : list hist_el :=
  match count, room with
  | S count, S room =>
      el_at old (u32 (first + i) mod nels) :: hist_copy old nels first (i + 1) room count
  | _, _ => []
  end.

(** [malloc] is the outcome of the allocation: [None] when it fails. *)
Definition qenc_hist_update_size (malloc : option mem_words) (h : history) (new_size : Z)
  : history :=
  if new_size =? qpe_hist_nels h then h
  else if new_size =? 0 then
    {| qpe_hist_els := qpe_hist_els h; qpe_hist_idx := 0; qpe_hist_nels := 0;
       qpe_hist_wrapped := false |}
  else
    match malloc with
    | None => h
    | Some mem =>
        let els := fresh_els mem (new_size + 1) in
        let '(first, count) :=
          if qpe_hist_wrapped h
          then (u32 (qpe_hist_idx h + 1) mod qpe_hist_nels h, qpe_hist_nels h)
          else (0, qpe_hist_idx h) in
        let copied := hist_copy (default [] (qpe_hist_els h)) (qpe_hist_nels h) first 0
                        (Z.to_nat new_size) (Z.to_nat count) in
        let idx := Z.of_nat (length copied) mod new_size in
        {| qpe_hist_els := Some (copied ++ drop (length copied) els);
           qpe_hist_idx := idx;
           qpe_hist_nels := new_size;
           qpe_hist_wrapped := idx =? 0 |}
    end.

Definition qenc_hist_add (h : history) (name_hash nameval_hash : Z) : history :=
  if qpe_hist_nels h =? 0 then h
  else
    let idx := u32 (qpe_hist_idx h + 1) mod qpe_hist_nels h in
    {| qpe_hist_els :=
         <[Z.to_nat (qpe_hist_idx h) := HistEl name_hash nameval_hash]> <$> qpe_hist_els h;
       qpe_hist_idx := idx;
       qpe_hist_nels := qpe_hist_nels h;
       qpe_hist_wrapped := qpe_hist_wrapped h || (idx =? 0) |}.

(** [for (el = els; el->he_hashes[he] != hash; ++el)]: the index where the
    search stops, [None] when it would run off the array. *)
Fixpoint hist_search (e : he) (hash : Z) (els : list hist_el) (i : Z) : option Z :=
  match els with
  | [] => None
  | el :: els => if he_hashes e el =? hash then Some i else hist_search e hash els (i + 1)
  end.

(** The return value and the history after the sentinel was stored; [None] for
    the answer would be a read past the array. *)
Definition qenc_hist_seen (h : history) (e : he) (hash : Z) : option bool * history :=
  match qpe_hist_els h with
  | Some els =>
      let last_idx := if qpe_hist_wrapped h then qpe_hist_nels h else qpe_hist_idx h in
      let els := alter (set_he_hash e hash) (Z.to_nat last_idx) els in
      ((fun i => i <? last_idx) <$> hist_search e hash els 0,
       {| qpe_hist_els := Some els; qpe_hist_idx := qpe_hist_idx h;
          qpe_hist_nels := qpe_hist_nels h; qpe_hist_wrapped := qpe_hist_wrapped h |})
  | None => (Some true, h)
  end.

(** ** The abstract history *)

(** The history is absent, or an array with room for the sentinel. *)
Definition hist_wf (h : history) : Prop :=
  0 <= qpe_hist_nels h < 2 ^ 31
  /\ match qpe_hist_els h with
     | None => qpe_hist_nels h = 0
     | Some els => qpe_hist_nels h + 1 <= Z.of_nat (length els)
     end
  /\ 0 <= qpe_hist_idx h
  /\ (if qpe_hist_nels h =? 0 then qpe_hist_idx h = 0 /\ qpe_hist_wrapped h = false
      else qpe_hist_idx h < qpe_hist_nels h).

Definition hist_filled (h : history) : Z :=
  if qpe_hist_wrapped h then qpe_hist_nels h else qpe_hist_idx h.

(** The elements that count as history. *)
Definition recorded (h : history) : list hist_el :=
  take (Z.to_nat (hist_filled h)) (default [] (qpe_hist_els h)).

Definition in_history (h : history) (e : he) (hash : Z) : bool :=
  bool_decide (hash ∈ he_hashes e <$> recorded h).

(** ** Proofs *)

Lemma hist_filled_range h els :
  hist_wf h -> qpe_hist_els h = Some els ->
  0 <= hist_filled h < Z.of_nat (length els).
Proof.
  unfold hist_wf, hist_filled. intros (Hn & He & Hi & Hc) Hels. rewrite Hels in He.
  destruct (Z.eqb_spec (qpe_hist_nels h) 0); destruct (qpe_hist_wrapped h); lia.
Qed.

Lemma set_he_hash_same e hash el : he_hashes e (set_he_hash e hash el) = hash.
Proof. by destruct e. Qed.

(** A search with a sentinel at position [k] stops at the first occurrence. *)
Lemma hist_search_sentinel e hash l s r i :
  he_hashes e s = hash ->
  exists j, hist_search e hash (l ++ s :: r) i = Some j
         /\ (j <? i + Z.of_nat (length l)) = bool_decide (hash ∈ he_hashes e <$> l).
Proof.
  intros Hs. revert i. induction l as [|x l IH]; intros i; cbn [app hist_search length].
  - rewrite Hs, Z.eqb_refl. eexists; split; [done|].
    rewrite bool_decide_eq_false_2 by set_solver. cbn. apply Z.ltb_ge. lia.
  - destruct (Z.eqb_spec (he_hashes e x) hash) as [E|E].
    + eexists; split; [done|]. rewrite bool_decide_eq_true_2 by set_solver.
      apply Z.ltb_lt. lia.
    + destruct (IH (i + 1)) as (j & -> & Hj). eexists; split; [done|].
      replace (i + Z.of_nat (S (length l))) with (i + 1 + Z.of_nat (length l)) by lia.
      rewrite Hj. apply bool_decide_ext. rewrite fmap_cons, elem_of_cons. intuition congruence.
Qed.

Lemma hist_seen_answer h e hash :
  hist_wf h ->
  fst (qenc_hist_seen h e hash)
    = Some (match qpe_hist_els h with None => true | Some _ => in_history h e hash end)
  /\ recorded (snd (qenc_hist_seen h e hash)) = recorded h
  /\ hist_wf (snd (qenc_hist_seen h e hash)).
Proof.
  intros Hwf. unfold qenc_hist_seen. destruct (qpe_hist_els h) as [els|] eqn:Hels; [|done].
  pose proof (hist_filled_range h els Hwf Hels) as Hf.
  fold (hist_filled h). set (k := Z.to_nat (hist_filled h)).
  destruct (lookup_lt_is_Some_2 els k) as [s Hs]; [lia|].
  pose proof (take_drop_middle els k s Hs) as Hsplit.
  assert (alter (set_he_hash e hash) k els
          = take k els ++ set_he_hash e hash s :: drop (S k) els) as Halt.
  { rewrite <- Hsplit at 1. rewrite alter_app_r_alt by (rewrite length_take; lia).
    rewrite length_take_le by lia. by rewrite Nat.sub_diag. }
  cbn [fst snd]. split_and!.
  - rewrite Halt.
    destruct (hist_search_sentinel e hash (take k els) (set_he_hash e hash s)
                (drop (S k) els) 0) as (j & -> & Hj); [apply set_he_hash_same|].
    cbn [fmap option_fmap option_map]. f_equal. unfold in_history, recorded.
    rewrite Hels. change (default [] (Some els)) with els. fold k. rewrite <- Hj, length_take_le by lia.
    do 2 f_equal. lia.
  - unfold recorded, hist_filled. cbn [qpe_hist_els qpe_hist_wrapped qpe_hist_nels qpe_hist_idx].
    fold (hist_filled h). fold k. rewrite Hels, Halt. cbn [from_option].
    unfold id.
    rewrite take_app_le by (rewrite length_take; lia).
    rewrite take_take. f_equal. lia.
  - unfold hist_wf in *. cbn. rewrite Hels in Hwf. by rewrite length_alter.
Qed.

(** The search runs, keeps the history well formed and does not create one. *)
Lemma hist_seen_wf h e hash :
  hist_wf h ->
  exists b h', qenc_hist_seen h e hash = (Some b, h') /\ hist_wf h'
    /\ (match qpe_hist_els h' with Some _ => true | None => false end)
       = (match qpe_hist_els h with Some _ => true | None => false end).
Proof.
  intros Hwf. destruct (hist_seen_answer h e hash Hwf) as (H1 & _ & H2).
  destruct (qenc_hist_seen h e hash) as [b h'] eqn:E. cbn [fst snd] in *. subst b.
  eexists _, _. split; [done|]. split; [done|].
  apply (f_equal snd) in E. cbn [snd] in E. subst h'. unfold qenc_hist_seen.
  destruct (qpe_hist_els h) eqn:E'; [done|]. cbn [snd]. by rewrite E'.
Qed.

(** Adding keeps the history well formed, and the pair just added is seen. *)
Lemma hist_add_wf h name_hash nameval_hash :
  hist_wf h -> hist_wf (qenc_hist_add h name_hash nameval_hash).
Proof.
  unfold qenc_hist_add, hist_wf. destruct (Z.eqb_spec (qpe_hist_nels h) 0) as [E|E].
  - rewrite E. cbn. tauto.
  - cbn [qpe_hist_els qpe_hist_idx qpe_hist_nels qpe_hist_wrapped].
    intros (Hn & He & Hi & Hc).
    assert (0 <= u32 (qpe_hist_idx h + 1) mod qpe_hist_nels h < qpe_hist_nels h)
      by (apply Z.mod_pos_bound; lia).
    destruct (qpe_hist_els h); cbn [fmap option_fmap option_map]; rewrite ?length_insert;
      destruct (Z.eqb_spec (qpe_hist_nels h) 0); lia.
Qed.

(** [qenc_hist_add] writes the pair over the oldest slot of the ring: the
    recorded history afterwards is the previous one with the slot at the index
    replaced, or extended by the pair while the ring has not filled up. *)
Theorem hist_add_spec h els name_hash nameval_hash :
  hist_wf h -> qpe_hist_els h = Some els -> qpe_hist_nels h <> 0 ->
  let h' := qenc_hist_add h name_hash nameval_hash in
  hist_wf h'
  /\ recorded h' = (if qpe_hist_wrapped h
                    then <[Z.to_nat (qpe_hist_idx h) := HistEl name_hash nameval_hash]> (recorded h)
                    else recorded h ++ [HistEl name_hash nameval_hash]).
Proof.
  intros Hwf Hels Hn h'. split; [by apply hist_add_wf|].
  pose proof (hist_filled_range h els Hwf Hels) as Hf.
  destruct Hwf as (Hr & He & Hi & Hc). rewrite Hels in He.
  destruct (Z.eqb_spec (qpe_hist_nels h) 0) as [|_]; [done|].
  subst h'. unfold qenc_hist_add. destruct (Z.eqb_spec (qpe_hist_nels h) 0) as [|_]; [done|].
  unfold recorded, hist_filled in *. cbn [qpe_hist_els qpe_hist_idx qpe_hist_nels qpe_hist_wrapped].
  rewrite Hels. cbn [fmap option_fmap option_map default from_option id].
  rewrite u32_id by ulia.
  destruct (qpe_hist_wrapped h); cbn [orb].
  - rewrite take_insert_lt by lia. done.
  - assert (Htake : forall n, n = S (Z.to_nat (qpe_hist_idx h)) ->
      take n (<[Z.to_nat (qpe_hist_idx h):=HistEl name_hash nameval_hash]> els)
      = take (Z.to_nat (qpe_hist_idx h)) els ++ [HistEl name_hash nameval_hash]).
    { intros n ->. erewrite take_S_r by (apply list_lookup_insert_eq; lia).
      by rewrite take_insert_ge by lia. }
    destruct (Z.eqb_spec ((qpe_hist_idx h + 1) mod qpe_hist_nels h) 0) as [E|E].
    + apply Htake. destruct (Z.lt_ge_cases (qpe_hist_idx h + 1) (qpe_hist_nels h)).
      * rewrite Z.mod_small in E by lia. lia.
      * lia.
    + apply Htake. destruct (Z.lt_ge_cases (qpe_hist_idx h + 1) (qpe_hist_nels h)).
      * rewrite Z.mod_small by lia. lia.
      * exfalso. apply E. replace (qpe_hist_idx h + 1) with (qpe_hist_nels h) by lia.
        apply Z.mod_same. lia.
Qed.

(** ** Resizing *)

(** Position [k] of a copy. *)
Lemma hist_copy_lookup old nels first room : forall count i k,
  hist_copy old nels first i room count !! k
  = if decide (k < room `min` count)%nat
    then Some (el_at old (u32 (first + (i + Z.of_nat k)) mod nels)) else None.
Proof.
  induction room as [|room IH]; intros [|count] i k; cbn [hist_copy];
    try (destruct (decide _); [lia|done]).
  destruct k as [|k]; cbn [lookup list_lookup].
  - destruct (decide _); [|lia]. by rewrite Z.add_0_r.
  - rewrite IH. destruct (decide (k < _)%nat), (decide (S k < _)%nat); try lia; [|done].
    do 5 f_equal. lia.
Qed.

Lemma hist_copy_length old nels first i room count :
  length (hist_copy old nels first i room count) = (room `min` count)%nat.
Proof.
  revert i count. induction room as [|room IH]; intros i [|count]; cbn; try done.
  by rewrite IH.
Qed.

(** A list read from position [f] on, wrapping around. *)
Definition rotate_from (f : nat) (l : list hist_el) : list hist_el := drop f l ++ take f l.

Lemma rotate_from_lookup f l k :
  (f < length l)%nat -> (k < length l)%nat ->
  rotate_from f l !! k = l !! ((f + k) mod length l)%nat.
Proof.
  intros Hf Hk. unfold rotate_from.
  destruct (decide (f + k < length l)%nat).
  - rewrite Nat.mod_small by lia.
    by rewrite lookup_app_l, lookup_drop by (rewrite length_drop; lia).
  - rewrite lookup_app_r by (rewrite length_drop; lia).
    rewrite length_drop. replace (f + k)%nat with ((f + k - length l) + 1 * length l)%nat by lia.
    rewrite Nat.Div0.mod_add, Nat.mod_small by lia. rewrite lookup_take_lt by lia.
    f_equal. lia.
Qed.

(** Copying a whole ring, the ring being the first [n] elements of [els]. *)
Lemma hist_copy_rotate els n f m :
  0 < n < 2 ^ 31 -> 0 <= f < n -> n <= Z.of_nat (length els) ->
  hist_copy els n f 0 m (Z.to_nat n)
  = take m (rotate_from (Z.to_nat f) (take (Z.to_nat n) els)).
Proof.
  intros Hn Hf Hl. apply list_eq. intros k. rewrite hist_copy_lookup.
  assert (length (take (Z.to_nat n) els) = Z.to_nat n) as Hlen by (rewrite length_take; lia).
  destruct (decide _) as [Hk|Hk].
  - rewrite lookup_take_lt by lia. rewrite rotate_from_lookup by lia. rewrite Hlen.
    rewrite Z.add_0_l, u32_id by ulia.
    assert (Z.to_nat ((f + Z.of_nat k) mod n) = ((Z.to_nat f + k) mod Z.to_nat n)%nat) as E.
    { rewrite Z2Nat.inj_mod by lia. f_equal. lia. }
    assert (0 <= (f + Z.of_nat k) mod n < n) by (apply Z.mod_pos_bound; lia).
    rewrite <- E, lookup_take_lt by lia. unfold el_at.
    destruct (lookup_lt_is_Some_2 els (Z.to_nat ((f + Z.of_nat k) mod n))) as [x ->]; [lia|].
    done.
  - symmetry. apply lookup_ge_None_2. unfold rotate_from.
    rewrite length_take, length_app, length_drop, !length_take. lia.
Qed.

(** Copying the initialised prefix of a ring that has not wrapped. *)
Lemma hist_copy_prefix els n c m :
  0 <= c < n -> n < 2 ^ 31 -> n <= Z.of_nat (length els) ->
  hist_copy els n 0 0 m (Z.to_nat c) = take m (take (Z.to_nat c) els).
Proof.
  intros Hc Hn Hl. apply list_eq. intros k. rewrite hist_copy_lookup, take_take.
  destruct (decide _) as [Hk|Hk].
  - rewrite lookup_take_lt by lia. rewrite Z.add_0_l, Z.add_0_l, u32_id by ulia.
    rewrite Z.mod_small by lia. unfold el_at. rewrite Nat2Z.id.
    destruct (lookup_lt_is_Some_2 els k) as [x ->]; [lia|]. done.
  - symmetry. apply lookup_ge_None_2. rewrite length_take. lia.
Qed.

Lemma length_fresh_els mem n : length (fresh_els mem n) = Z.to_nat n.
Proof. unfold fresh_els. by rewrite length_fmap, length_seqZ. Qed.

(** What the copy leaves in the new array. *)
Lemma hist_resized_recorded copied mem new_size :
  0 < new_size -> (0 < length copied <= Z.to_nat new_size)%nat ->
  let idx := Z.of_nat (length copied) mod new_size in
  let h' := {| qpe_hist_els := Some (copied ++ drop (length copied) (fresh_els mem (new_size + 1)));
               qpe_hist_idx := idx; qpe_hist_nels := new_size;
               qpe_hist_wrapped := idx =? 0 |} in
  recorded h' = copied.
Proof.
  intros Hn Hc. unfold recorded, hist_filled. cbn -[Z.modulo].
  destruct (decide (length copied = Z.to_nat new_size)) as [E|E].
  - rewrite E, Z2Nat.id, Z.mod_same by lia. cbn. by rewrite <- E, take_app_length.
  - rewrite Z.mod_small by lia. destruct (Z.eqb_spec (Z.of_nat (length copied)) 0); [lia|].
    by rewrite Nat2Z.id, take_app_length.
Qed.

(** The history in the order [qenc_hist_update_size] copies it. *)
Definition copy_order (h : history) : list hist_el :=
  if qpe_hist_wrapped h
  then rotate_from (Z.to_nat ((qpe_hist_idx h + 1) mod qpe_hist_nels h)) (recorded h)
  else recorded h.

Lemma length_copy_order h : length (copy_order h) = length (recorded h).
Proof.
  unfold copy_order, rotate_from. destruct (qpe_hist_wrapped h); [|done].
  rewrite length_app, length_drop, length_take. lia.
Qed.

(** The copy loop as a whole. *)
Lemma hist_copied_spec h els m :
  hist_wf h -> qpe_hist_els h = Some els -> recorded h <> [] ->
  (let '(first, count) :=
     if qpe_hist_wrapped h
     then (u32 (qpe_hist_idx h + 1) mod qpe_hist_nels h, qpe_hist_nels h)
     else (0, qpe_hist_idx h) in
   hist_copy els (qpe_hist_nels h) first 0 m (Z.to_nat count))
  = take m (copy_order h).
Proof.
  intros Hwf Hels Hne. unfold copy_order, recorded, hist_filled in *.
  destruct Hwf as (Hn & He & Hi & Hc). rewrite Hels in *. cbn [from_option] in *.
  unfold id in *. destruct (Z.eqb_spec (qpe_hist_nels h) 0) as [E|E].
  { destruct Hc as [Hc1 Hc2]. rewrite Hc1, Hc2 in Hne. done. }
  destruct (qpe_hist_wrapped h).
  - rewrite u32_id by ulia. apply hist_copy_rotate; [lia| |lia].
    apply Z.mod_pos_bound; lia.
  - apply hist_copy_prefix; lia.
Qed.

(** Resizing a history that holds something keeps it well formed and keeps,
    in copying order, as many of its elements as the new size has room for: no
    element appears that was not there.  A failed allocation changes nothing,
    and a size of 0 empties the history. *)
Theorem hist_update_size_spec malloc h els new_size :
  hist_wf h -> qpe_hist_els h = Some els -> recorded h <> [] ->
  0 <= new_size < 2 ^ 31 -> new_size <> qpe_hist_nels h ->
  let h' := qenc_hist_update_size malloc h new_size in
  hist_wf h'
  /\ recorded h' = (if decide (new_size = 0) then []
                    else match malloc with
                         | Some _ => take (Z.to_nat new_size) (copy_order h)
                         | None => recorded h
                         end).
Proof.
  intros Hwf Hels Hne Hs Hneq h'. subst h'. unfold qenc_hist_update_size.
  destruct (Z.eqb_spec new_size (qpe_hist_nels h)); [done|].
  destruct (Z.eqb_spec new_size 0) as [E|E]; destruct (decide (new_size = 0)); try done.
  { destruct Hwf as (Hn & He & Hi & Hc). rewrite Hels in He.
    unfold hist_wf. cbn. rewrite Hels. split; [lia|done]. }
  destruct malloc as [mem|]; [|done].
  pose proof (hist_copied_spec h els (Z.to_nat new_size) Hwf Hels Hne) as Hcopy.
  rewrite Hels. cbn [from_option]. unfold id.
  destruct (if qpe_hist_wrapped h then _ else _) as [first count]. rewrite Hcopy.
  assert (0 < length (copy_order h))%nat as Hpos.
  { rewrite length_copy_order. destruct (recorded h); [done|cbn; lia]. }
  split.
  - unfold hist_wf. cbn -[Z.modulo fresh_els].
    rewrite length_app, length_drop, length_fresh_els, length_take.
    assert (0 <= Z.of_nat (Z.to_nat new_size `min` length (copy_order h)) mod new_size < new_size)
      by (apply Z.mod_pos_bound; lia).
    destruct (Z.eqb_spec new_size 0); [done|]. lia.
  - rewrite hist_resized_recorded; [done|lia|]. rewrite length_take. lia.
Qed.

(** Whatever it holds, a resized history is well formed. *)
Lemma hist_update_size_wf malloc h new_size :
  hist_wf h -> 0 <= new_size < 2 ^ 31 -> hist_wf (qenc_hist_update_size malloc h new_size).
Proof.
  intros Hwf Hs. pose proof Hwf as (Hn & He & Hi & Hc). unfold qenc_hist_update_size.
  destruct (Z.eqb_spec new_size (qpe_hist_nels h)); [done|].
  destruct (Z.eqb_spec new_size 0) as [E|E].
  { unfold hist_wf. cbn. destruct (qpe_hist_els h); lia. }
  destruct malloc as [mem|]; [|done]. destruct (if qpe_hist_wrapped h then _ else _) as [first count].
  set (copied := hist_copy _ _ _ _ _ _).
  assert (length copied <= Z.to_nat new_size)%nat by (unfold copied; rewrite hist_copy_length; lia).
  assert (0 <= Z.of_nat (length copied) mod new_size < new_size) by (apply Z.mod_pos_bound; lia).
  unfold hist_wf. cbn -[Z.modulo fresh_els].
  rewrite length_app, length_drop, length_fresh_els.
  destruct (Z.eqb_spec new_size 0); [done|]. lia.
Qed.

(** Resizing an empty history marks the ring as wrapped: every element of the
    new, uninitialised block counts as recorded. *)
Lemma hist_update_size_empty mem h new_size :
  qpe_hist_wrapped h = false -> qpe_hist_idx h = 0 ->
  0 < new_size -> new_size <> qpe_hist_nels h ->
  recorded (qenc_hist_update_size (Some mem) h new_size) = fresh_els mem new_size.
Proof.
  intros Hw Hi Hs Hneq. unfold qenc_hist_update_size.
  destruct (Z.eqb_spec new_size (qpe_hist_nels h)); [done|].
  destruct (Z.eqb_spec new_size 0); [lia|]. rewrite Hw, Hi.
  change (Z.to_nat 0) with 0%nat.
  assert (forall r, hist_copy (default [] (qpe_hist_els h)) (qpe_hist_nels h) 0 0 r 0 = []) as ->
    by (by intros []).
  unfold recorded, hist_filled. cbn -[fresh_els].
  rewrite Zmod_0_l. cbn -[fresh_els]. unfold fresh_els.
  rewrite drop_0, <- fmap_take. f_equal. unfold seqZ.
  rewrite Z2Nat.inj_add, <- fmap_take by lia. f_equal.
  rewrite seq_app, take_app_le by (rewrite length_seq; lia).
  by rewrite take_ge by (rewrite length_seq; lia).
Qed.

(** ** Examples *)

(** A ring of two elements that has wrapped around. *)
Definition small_history : history :=
  {| qpe_hist_els := Some [HistEl 1 11; HistEl 2 22; HistEl 0 0];
     qpe_hist_idx := 1; qpe_hist_nels := 2; qpe_hist_wrapped := true |}.

Lemma small_history_wf : hist_wf small_history.
Proof. unfold hist_wf. cbn. lia. Qed.

Lemma hist_update_size_spec_witness :
  recorded (qenc_hist_update_size (Some (fun _ => 0)) small_history 3)
  = [HistEl 1 11; HistEl 2 22].
Proof.
  destruct (hist_update_size_spec (Some (fun _ => 0)) small_history
              [HistEl 1 11; HistEl 2 22; HistEl 0 0] 3) as [_ ->];
    [apply small_history_wf|reflexivity|discriminate|lia|discriminate|reflexivity].
Defined.
