(* ===== verification/EncTable.v ===== *)
(** * The encoder's dynamic table

    The entries, the list of all entries, the hash table of double buckets and
    the operations [qenc_drop_oldest_entry], [qenc_grow_tables],
    [lsqpack_enc_push_entry] and the loop of [qenc_remove_overflow_entries] of
    src/lsqpack.c.

    An entry is on three lists: all entries, its bucket by name hash and its
    bucket by name-and-value hash.  Entries do not change after they are made
    ([ete_n_reffd] is counted and never read; it is left out), and their ids
    are distinct, so an entry is modelled by its value.

    A [None] result is a failed assertion.  [table_wf] is the invariant: each
    bucket is the sublist of all entries with its hash, ids are consecutive, the
    byte counters are exact.  Under it no assertion fails. *)

From stdpp Require Import sets.
From S2P Require Import Prelude.

Definition DYNAMIC_ENTRY_OVERHEAD : Z := 32.

Definition ENTRY_COST (name_len value_len : Z) : Z :=
  u32 (DYNAMIC_ENTRY_OVERHEAD + name_len + value_len).

(** [struct lsqpack_enc_table_entry]; [ete_buf] holds the name and the value. *)
Record enc_table_entry := Ete {
  ete_id : Z;
  ete_when_added_used : Z;
  ete_when_added_dropped : Z;
  ete_nameval_hash : Z;
  ete_name_hash : Z;
  ETE_NAME : bytes;
  ETE_VALUE : bytes;
}.

#[global] Instance enc_table_entry_eq_dec : EqDecision enc_table_entry.
Proof. solve_decision. Defined.

Definition ete_name_len (e : enc_table_entry) : Z := Z.of_nat (length (ETE_NAME e)).
Definition ete_val_len (e : enc_table_entry) : Z := Z.of_nat (length (ETE_VALUE e)).
Definition ETE_SIZE (e : enc_table_entry) : Z := ENTRY_COST (ete_name_len e) (ete_val_len e).

(** [struct lsqpack_double_enc_head] *)
Record double_enc_head := { by_name : list enc_table_entry; by_nameval : list enc_table_entry }.

Definition empty_head : double_enc_head := {| by_name := []; by_nameval := [] |}.

Definition N_BUCKETS (n_bits : Z) : Z := u32 (Z.shiftl 1 n_bits).
Definition BUCKNO (n_bits hash : Z) : Z := Z.land hash (u32 (N_BUCKETS n_bits - 1)).

(** The members of [struct lsqpack_enc] that make up the dynamic table; no
    buckets stand for the NULL pointer. *)
Record enc_table := {
  qpe_ins_count : Z;
  qpe_cur_bytes_used : Z;
  qpe_cur_max_capacity : Z;
  qpe_dropped : Z;
  qpe_nelem : Z;
  qpe_nbits : Z;
  qpe_all_entries : list enc_table_entry;
  qpe_buckets : list double_enc_head;
}.

(** [STAILQ_REMOVE_HEAD] on a bucket, after the assertion that [entry] is its
    head. *)
Definition pop_nameval (entry : enc_table_entry) (h : double_enc_head) : option double_enc_head :=
  match by_nameval h with
  | e :: rest =>
      if decide (e = entry) then Some {| by_name := by_name h; by_nameval := rest |} else None
  | [] => None
  end.

Definition pop_name (entry : enc_table_entry) (h : double_enc_head) : option double_enc_head :=
  match by_name h with
  | e :: rest =>
      if decide (e = entry) then Some {| by_name := rest; by_nameval := by_nameval h |} else None
  | [] => None
  end.

Definition update_bucket (f : double_enc_head -> option double_enc_head) (buckno : Z)
  (buckets : list double_enc_head) : option (list double_enc_head) :=
  h ← buckets !! Z.to_nat buckno;
  h' ← f h;
  Some (<[Z.to_nat buckno := h']> buckets).

Definition qenc_drop_oldest_entry (enc : enc_table) : option enc_table :=
  match qpe_all_entries enc with
  | [] => None
  | entry :: rest =>
      buckets ← update_bucket (pop_nameval entry)
                  (BUCKNO (qpe_nbits enc) (ete_nameval_hash entry)) (qpe_buckets enc);
      buckets ← update_bucket (pop_name entry)
                  (BUCKNO (qpe_nbits enc) (ete_name_hash entry)) buckets;
      Some {| qpe_ins_count := qpe_ins_count enc;
              qpe_cur_bytes_used := u32 (qpe_cur_bytes_used enc - ETE_SIZE entry);
              qpe_cur_max_capacity := qpe_cur_max_capacity enc;
              qpe_dropped := u32 (qpe_dropped enc + ETE_SIZE entry);
              qpe_nelem := u32 (qpe_nelem enc - 1);
              qpe_nbits := qpe_nbits enc;
              qpe_all_entries := rest;
              qpe_buckets := buckets |}
  end.

(** The loop of [qenc_remove_overflow_entries], with the count of dropped
    entries.  [fuel] is the number of entries: when it is used up the table is
    empty, and the assertion of [qenc_drop_oldest_entry] fails. *)
Fixpoint drop_while_over (fuel : nat) (enc : enc_table) (dropped : Z) : option (enc_table * Z) :=
  if qpe_cur_bytes_used enc >? qpe_cur_max_capacity enc then
    match fuel with
    | O => None
    | S fuel =>
        enc' ← qenc_drop_oldest_entry enc;
        drop_while_over fuel enc' (dropped + 1)
    end
  else Some (enc, dropped).

Definition drop_overflow_entries (enc : enc_table) : option (enc_table * Z) :=
  drop_while_over (length (qpe_all_entries enc)) enc 0.

(** The two [while] loops of [qenc_grow_tables]: entries leave the old list at
    the head and join one of two new lists at the tail. *)
Fixpoint distribute (idx : enc_table_entry -> Z) (old new0 new1 : list enc_table_entry)
  : list enc_table_entry * list enc_table_entry :=
  match old with
  | [] => (new0, new1)
  | entry :: old =>
      if idx entry =? 0 then distribute idx old (new0 ++ [entry]) new1
      else distribute idx old new0 (new1 ++ [entry])
  end.

(** [(BUCKNO(old_nbits + 1, hash) >> old_nbits) & 1] *)
Definition grow_idx (old_nbits hash : Z) : Z :=
  Z.land (Z.shiftr (BUCKNO (old_nbits + 1) hash) old_nbits) 1.

Definition split_bucket (old_nbits : Z) (h : double_enc_head) : double_enc_head * double_enc_head :=
  let '(n0, n1) := distribute (fun e => grow_idx old_nbits (ete_name_hash e)) (by_name h) [] [] in
  let '(v0, v1) := distribute (fun e => grow_idx old_nbits (ete_nameval_hash e))
                     (by_nameval h) [] [] in
  ({| by_name := n0; by_nameval := v0 |}, {| by_name := n1; by_nameval := v1 |}).

(** Bucket [n] is split into the new buckets [n] and [n + N_BUCKETS(old_nbits)]. *)
Definition qenc_grow_tables (ms : mallocs) (enc : enc_table) : bool * enc_table * mallocs :=
  let '(block, ms) := malloc ms in
  match block with
  | None => (false, enc, ms)
  | Some _ =>
      let old_nbits := qpe_nbits enc in
      let new_buckets := split_bucket old_nbits <$> qpe_buckets enc in
      (true,
       {| qpe_ins_count := qpe_ins_count enc;
          qpe_cur_bytes_used := qpe_cur_bytes_used enc;
          qpe_cur_max_capacity := qpe_cur_max_capacity enc;
          qpe_dropped := qpe_dropped enc;
          qpe_nelem := qpe_nelem enc;
          qpe_nbits := old_nbits + 1;
          qpe_all_entries := qpe_all_entries enc;
          qpe_buckets := new_buckets.*1 ++ new_buckets.*2 |}, ms)
  end.

Definition push_nameval (entry : enc_table_entry) (h : double_enc_head) : double_enc_head :=
  {| by_name := by_name h; by_nameval := by_nameval h ++ [entry] |}.

Definition push_name (entry : enc_table_entry) (h : double_enc_head) : double_enc_head :=
  {| by_name := by_name h ++ [entry]; by_nameval := by_nameval h |}.

(** The part of [lsqpack_enc_push_entry] after the table was grown. *)
Definition push_entry_grown (ms : mallocs) (enc : enc_table) (name_hash nameval_hash : Z)
  (name value : bytes) : option enc_table_entry * enc_table * mallocs :=
  let '(block, ms) := malloc ms in
  match block with
  | None => (None, enc, ms)
  | Some _ =>
      let entry := {| ete_name_hash := name_hash;
                      ete_nameval_hash := nameval_hash;
                      ete_when_added_used := qpe_cur_bytes_used enc;
                      ete_when_added_dropped := qpe_dropped enc;
                      ete_id := u32 (1 + qpe_ins_count enc);
                      ETE_NAME := name;
                      ETE_VALUE := value |} in
      (Some entry,
       {| qpe_ins_count := u32 (qpe_ins_count enc + 1);
          qpe_cur_bytes_used := u32 (qpe_cur_bytes_used enc + ETE_SIZE entry);
          qpe_cur_max_capacity := qpe_cur_max_capacity enc;
          qpe_dropped := qpe_dropped enc;
          qpe_nelem := u32 (qpe_nelem enc + 1);
          qpe_nbits := qpe_nbits enc;
          qpe_all_entries := qpe_all_entries enc ++ [entry];
          qpe_buckets :=
            alter (push_name entry) (Z.to_nat (BUCKNO (qpe_nbits enc) name_hash))
              (alter (push_nameval entry) (Z.to_nat (BUCKNO (qpe_nbits enc) nameval_hash))
                 (qpe_buckets enc)) |}, ms)
  end.

(** The new entry, [None] for NULL. *)
Definition lsqpack_enc_push_entry (ms : mallocs) (enc : enc_table) (name_hash nameval_hash : Z)
  (name value : bytes) : option enc_table_entry * enc_table * mallocs :=
  if qpe_nelem enc >=? N_BUCKETS (qpe_nbits enc) / 2 then
    let '(ok, enc, ms) := qenc_grow_tables ms enc in
    if ok then push_entry_grown ms enc name_hash nameval_hash name value
    else (None, enc, ms)
  else push_entry_grown ms enc name_hash nameval_hash name value.

(** ** Invariant *)

(** Sum of the sizes of the entries of a list. *)
Fixpoint sizes (l : list enc_table_entry) : Z :=
  match l with [] => 0 | e :: l => ETE_SIZE e + sizes l end.

(** Names and values have at most [LSXPACK_MAX_STRLEN] bytes, hashes are 32 bits wide. *)
Definition entry_wf (e : enc_table_entry) : Prop :=
  ete_name_len e < 2 ^ 16 /\ ete_val_len e < 2 ^ 16
  /\ is_u32 (ete_name_hash e) /\ is_u32 (ete_nameval_hash e)
  /\ is_bytes (ETE_NAME e) /\ is_bytes (ETE_VALUE e).

Definition in_bucket (hash : enc_table_entry -> Z) (nbits : Z) (i : nat) (e : enc_table_entry)
  : Prop := BUCKNO nbits (hash e) = Z.of_nat i.

#[global] Instance in_bucket_dec hash nbits i e : Decision (in_bucket hash nbits i e).
Proof. unfold in_bucket. apply _. Defined.

(** Bucket [i] lists, oldest first, the entries with its hash. *)
Definition bucket_ok (nbits : Z) (all : list enc_table_entry) (i : nat) (h : double_enc_head)
  : Prop :=
  by_name h = filter (in_bucket ete_name_hash nbits i) all
  /\ by_nameval h = filter (in_bucket ete_nameval_hash nbits i) all.

Definition buckets_ok (nbits : Z) (all : list enc_table_entry) (buckets : list double_enc_head)
  : Prop :=
  2 <= nbits <= 29
  /\ Z.of_nat (length buckets) = 2 ^ nbits
  /\ forall i h, buckets !! i = Some h -> bucket_ok nbits all i h.

(** The distance of an entry from the tail of the table, in bytes, as
    [qenc_duplicable_entry] and [qenc_entry_is_draining] compute it. *)
Definition entry_offset (enc : enc_table) (e : enc_table_entry) : Z :=
  u32 (ete_when_added_used e - u32 (qpe_dropped enc - ete_when_added_dropped e)).

Definition offsets_ok (enc : enc_table) : Prop :=
  forall pre e post, qpe_all_entries enc = pre ++ e :: post ->
  entry_offset enc e = sizes pre.

(** The invariant of a table; a table without buckets is empty. *)
Record table_wf (enc : enc_table) : Prop := {
  wf_nelem : qpe_nelem enc = Z.of_nat (length (qpe_all_entries enc));
  wf_used : qpe_cur_bytes_used enc = sizes (qpe_all_entries enc);
  wf_used_u32 : sizes (qpe_all_entries enc) < 2 ^ 32;
  wf_capacity : is_u32 (qpe_cur_max_capacity enc);
  wf_ins_count : is_u32 (qpe_ins_count enc);
  wf_ids : ete_id <$> qpe_all_entries enc
           = seqZ (qpe_ins_count enc - qpe_nelem enc + 1) (qpe_nelem enc);
  wf_nelem_ins : qpe_nelem enc <= qpe_ins_count enc;
  wf_entries : Forall entry_wf (qpe_all_entries enc);
  wf_buckets : (qpe_all_entries enc = [] /\ qpe_buckets enc = [])
               \/ buckets_ok (qpe_nbits enc) (qpe_all_entries enc) (qpe_buckets enc);
  wf_offsets : offsets_ok enc;
}.

(** *** Arithmetic of sizes and bucket numbers *)

Lemma entry_size_range e : entry_wf e -> 32 <= ETE_SIZE e < 2 ^ 18.
Proof.
  unfold entry_wf, ETE_SIZE, ENTRY_COST, DYNAMIC_ENTRY_OVERHEAD, ete_name_len, ete_val_len.
  intros (? & ? & _). rewrite u32_id; [|ulia]. change (2 ^ 18) with 262144. ulia.
Qed.

Lemma sizes_app l1 l2 : sizes (l1 ++ l2) = sizes l1 + sizes l2.
Proof. induction l1; cbn; lia. Qed.

Lemma sizes_lower l : Forall entry_wf l -> 32 * Z.of_nat (length l) <= sizes l.
Proof.
  induction 1 as [|e l He _ IH]; [done|]. pose proof (entry_size_range e He).
  cbn [sizes length]. lia.
Qed.

Lemma N_BUCKETS_pow n : 0 <= n <= 31 -> N_BUCKETS n = 2 ^ n.
Proof.
  intros Hn. unfold N_BUCKETS. rewrite Z.shiftl_1_l. apply u32_id. split; [lia|].
  apply Z.pow_lt_mono_r; lia.
Qed.

Lemma BUCKNO_mod n hash : 0 <= n <= 31 -> BUCKNO n hash = hash mod 2 ^ n.
Proof.
  intros Hn. unfold BUCKNO. rewrite N_BUCKETS_pow by lia.
  assert (0 < 2 ^ n < 2 ^ 32) by (split; [lia|apply Z.pow_lt_mono_r; lia]).
  rewrite u32_id by (unfold is_u32; lia). apply land_ones_mod; lia.
Qed.

Lemma BUCKNO_range n hash : 0 <= n <= 31 -> 0 <= BUCKNO n hash < 2 ^ n.
Proof. intros Hn. rewrite BUCKNO_mod by lia. apply Z.mod_pos_bound. lia. Qed.

Lemma land_1_mod z : Z.land z 1 = z mod 2.
Proof. apply (land_ones_mod z 1). lia. Qed.

Lemma grow_idx_range n hash : grow_idx n hash = 0 \/ grow_idx n hash = 1.
Proof.
  unfold grow_idx. rewrite land_1_mod. dlia.
Qed.

(** The new bucket number: the old one plus the selected half. *)
Lemma BUCKNO_succ n hash :
  0 <= n <= 30 -> BUCKNO (n + 1) hash = BUCKNO n hash + 2 ^ n * grow_idx n hash.
Proof.
  intros Hn. unfold grow_idx. rewrite !BUCKNO_mod by lia.
  rewrite Z.shiftr_div_pow2, land_1_mod by lia. rewrite Z.pow_add_r, Z.pow_1_r by lia.
  assert (0 < 2 ^ n) by lia.
  rewrite Z.rem_mul_r by lia.
  rewrite (Z.mul_comm (2 ^ n) (_ mod 2)), Z.div_add by lia.
  rewrite (Z.div_small (hash mod 2 ^ n)) by (apply Z.mod_pos_bound; lia).
  rewrite Z.add_0_l, Z.mod_mod by lia. lia.
Qed.

(** *** Buckets *)

Lemma buckets_lookup nbits all buckets hash :
  buckets_ok nbits all buckets ->
  exists h, buckets !! Z.to_nat (BUCKNO nbits hash) = Some h
         /\ bucket_ok nbits all (Z.to_nat (BUCKNO nbits hash)) h.
Proof.
  intros (Hn & Hl & Hb). pose proof (BUCKNO_range nbits hash ltac:(lia)).
  destruct (lookup_lt_is_Some_2 buckets (Z.to_nat (BUCKNO nbits hash))) as [h Hh]; [lia|].
  eauto.
Qed.

Lemma in_bucket_self hash nbits e :
  0 <= nbits <= 31 -> in_bucket hash nbits (Z.to_nat (BUCKNO nbits (hash e))) e.
Proof.
  intros Hn. unfold in_bucket. pose proof (BUCKNO_range nbits (hash e) Hn). lia.
Qed.

Lemma not_in_bucket hash nbits e i :
  i <> Z.to_nat (BUCKNO nbits (hash e)) -> ~ in_bucket hash nbits i e.
Proof. unfold in_bucket. lia. Qed.

(** Removing the oldest entry from its two buckets. *)
Lemma pop_buckets nbits e rest buckets :
  buckets_ok nbits (e :: rest) buckets ->
  exists b1 b2,
    update_bucket (pop_nameval e) (BUCKNO nbits (ete_nameval_hash e)) buckets = Some b1
    /\ update_bucket (pop_name e) (BUCKNO nbits (ete_name_hash e)) b1 = Some b2
    /\ buckets_ok nbits rest b2.
Proof.
  intros Hok. pose proof Hok as (Hn & Hl & Hb).
  set (iv := Z.to_nat (BUCKNO nbits (ete_nameval_hash e))).
  set (ina := Z.to_nat (BUCKNO nbits (ete_name_hash e))).
  destruct (buckets_lookup nbits _ _ (ete_nameval_hash e) Hok) as (hv & Hhv & Hhv1 & Hhv2).
  fold iv in Hhv, Hhv1, Hhv2.
  rewrite filter_cons_True in Hhv2 by (apply in_bucket_self; lia).
  set (hv' := {| by_name := by_name hv;
                 by_nameval := filter (in_bucket ete_nameval_hash nbits iv) rest |}).
  exists (<[iv := hv']> buckets).
  assert (exists h, <[iv := hv']> buckets !! ina = Some h
    /\ by_name h = e :: filter (in_bucket ete_name_hash nbits ina) rest
    /\ by_nameval h = filter (in_bucket ete_nameval_hash nbits ina) rest) as (hn & Hhn & Hn1 & Hn2).
  { destruct (decide (ina = iv)) as [E|E].
    - rewrite E, list_lookup_insert_eq by (eapply lookup_lt_Some; exact Hhv).
      eexists; split; [done|]. cbn. rewrite Hhv1, filter_cons_True; [done|].
      rewrite <- E. apply in_bucket_self; lia.
    - rewrite list_lookup_insert_ne by done.
      destruct (buckets_lookup nbits _ _ (ete_name_hash e) Hok) as (h & Hh & H1 & H2).
      fold ina in Hh, H1, H2. exists h. split; [done|]. split.
      + rewrite H1. apply filter_cons_True, in_bucket_self; lia.
      + rewrite H2. apply filter_cons_False, not_in_bucket. done. }
  exists (<[ina := {| by_name := filter (in_bucket ete_name_hash nbits ina) rest;
                      by_nameval := by_nameval hn |}]> (<[iv := hv']> buckets)).
  split_and!.
  - unfold update_bucket. fold iv. rewrite Hhv. cbn. unfold pop_nameval. rewrite Hhv2.
    by rewrite decide_True by done.
  - unfold update_bucket. fold ina. rewrite Hhn. cbn. unfold pop_name. rewrite Hn1.
    by rewrite decide_True by done.
  - split; [done|]. rewrite !length_insert. split; [done|]. intros i h.
    destruct (decide (i = ina)) as [->|Ei].
    { rewrite list_lookup_insert_eq by (eapply lookup_lt_Some; exact Hhn).
      intros [= <-]. split; [done|exact Hn2]. }
    rewrite list_lookup_insert_ne by done. destruct (decide (i = iv)) as [->|Ei'].
    { rewrite list_lookup_insert_eq by (eapply lookup_lt_Some; exact Hhv).
      intros [= <-]. split; [|done]. cbn. rewrite Hhv1.
      apply filter_cons_False, not_in_bucket. done. }
    rewrite list_lookup_insert_ne by done. intros Hi. destruct (Hb i h Hi) as [H1 H2].
    split; [rewrite H1|rewrite H2]; apply filter_cons_False, not_in_bucket; done.
Qed.

(** *** Dropping *)

Lemma offsets_drop enc e rest buckets :
  table_wf enc -> qpe_all_entries enc = e :: rest ->
  offsets_ok
    {| qpe_ins_count := qpe_ins_count enc;
       qpe_cur_bytes_used := u32 (qpe_cur_bytes_used enc - ETE_SIZE e);
       qpe_cur_max_capacity := qpe_cur_max_capacity enc;
       qpe_dropped := u32 (qpe_dropped enc + ETE_SIZE e);
       qpe_nelem := u32 (qpe_nelem enc - 1);
       qpe_nbits := qpe_nbits enc;
       qpe_all_entries := rest;
       qpe_buckets := buckets |}.
Proof.
  intros Hwf Hall pre x post Hrest. cbn [qpe_all_entries] in Hrest.
  pose proof (wf_offsets enc Hwf (e :: pre) x post) as Ho.
  rewrite Hall, Hrest in Ho. specialize (Ho eq_refl). cbn [sizes] in Ho.
  pose proof (wf_used_u32 enc Hwf) as Hu. rewrite Hall, Hrest in Hu.
  pose proof (wf_entries enc Hwf) as Hf. rewrite Hall, Hrest in Hf.
  apply Forall_cons_1 in Hf as [He Hf]. apply Forall_app in Hf as [Hpre Hx].
  pose proof (entry_size_range e He). pose proof (sizes_lower pre Hpre).
  pose proof (sizes_lower _ Hx). cbn [sizes] in Hu. rewrite sizes_app in Hu.
  unfold entry_offset in *. cbn [qpe_dropped]. ulia.
Qed.

(** Dropping the oldest entry of a well-formed, non-empty table never fails
    an assertion (the entry is at the head of both its buckets), removes exactly
    that entry and keeps the table well formed. *)
Lemma drop_oldest_entry_wf enc e rest :
  table_wf enc -> qpe_all_entries enc = e :: rest ->
  exists enc', qenc_drop_oldest_entry enc = Some enc'
    /\ table_wf enc'
    /\ qpe_all_entries enc' = rest
    /\ qpe_cur_bytes_used enc' = qpe_cur_bytes_used enc - ETE_SIZE e
    /\ qpe_cur_max_capacity enc' = qpe_cur_max_capacity enc
    /\ qpe_ins_count enc' = qpe_ins_count enc.
Proof.
  intros Hwf Hall. pose proof Hwf as [Hne Hu Hu32 Hcap Hic Hids Hni Hent Hbk Hoff].
  rewrite Hall in *. destruct Hbk as [[? _]|Hbk]; [done|].
  destruct (pop_buckets _ _ _ _ Hbk) as (b1 & b2 & Hb1 & Hb2 & Hbk2).
  unfold qenc_drop_oldest_entry. rewrite Hall, Hb1. cbn [mbind option_bind]. rewrite Hb2.
  eexists. split; [reflexivity|].
  apply Forall_cons_1 in Hent as [He Hrest].
  pose proof (entry_size_range e He). pose proof (sizes_lower rest Hrest).
  cbn [sizes length] in *.
  assert (u32 (qpe_cur_bytes_used enc - ETE_SIZE e) = sizes rest) as Eu
    by (rewrite u32_id; ulia).
  assert (u32 (qpe_nelem enc - 1) = Z.of_nat (length rest)) as En
    by (rewrite u32_id; ulia).
  split_and!; cbn; [|done|lia|done|done].
  constructor; cbn; try done; try lia.
  - rewrite En. assert (qpe_nelem enc = Z.succ (Z.of_nat (length rest))) as E by lia.
    rewrite E, seqZ_cons in Hids by lia. cbn in Hids.
    injection Hids as _ Hids. rewrite Hids. f_equal; lia.
  - by right.
  - by apply offsets_drop.
Qed.

(** *** Evicting *)

(** The oldest entries leave until the rest fits the capacity. *)
Fixpoint evict (capacity : Z) (l : list enc_table_entry) : list enc_table_entry :=
  match l with
  | [] => []
  | e :: rest => if sizes l >? capacity then evict capacity rest else l
  end.

Lemma evict_suffix cap l : exists pre, l = pre ++ evict cap l.
Proof.
  induction l as [|e l [pre IH]]; [by exists []|]. cbn [evict].
  destruct (_ >? _); [exists (e :: pre); by rewrite IH at 1|by exists []].
Qed.

Lemma evict_fits cap l : 0 <= cap -> sizes (evict cap l) <= cap.
Proof.
  intros Hc. induction l as [|e l IH]; [done|]. cbn [evict].
  rewrite Z.gtb_ltb. destruct (Z.ltb_spec cap (sizes (e :: l))); [done|lia].
Qed.

(** Nothing leaves that need not. *)
Lemma evict_maximal cap l pre post :
  l = pre ++ post -> Forall entry_wf l -> sizes post <= cap -> 0 <= cap ->
  exists mid, evict cap l = mid ++ post.
Proof.
  revert pre. induction l as [|e l IH]; intros pre Hl Hwf Hp Hc.
  - symmetry in Hl. apply app_eq_nil in Hl as [-> ->]. by exists [].
  - cbn [evict]. destruct pre as [|x pre].
    + cbn in Hl. subst post. rewrite Z.gtb_ltb. destruct (Z.ltb_spec cap (sizes (e :: l))); [lia|].
      by exists [].
    + injection Hl as -> Hl. apply Forall_cons_1 in Hwf as [_ Hwf].
      destruct (_ >? _); [by apply (IH pre)|]. exists (x :: pre). by rewrite Hl.
Qed.

Lemma drop_while_over_ok fuel : forall enc dropped,
  table_wf enc -> fuel = length (qpe_all_entries enc) ->
  exists enc', drop_while_over fuel enc dropped
      = Some (enc', dropped + Z.of_nat (length (qpe_all_entries enc))
                    - Z.of_nat (length (qpe_all_entries enc')))
    /\ table_wf enc'
    /\ qpe_all_entries enc' = evict (qpe_cur_max_capacity enc) (qpe_all_entries enc)
    /\ qpe_cur_max_capacity enc' = qpe_cur_max_capacity enc
    /\ qpe_ins_count enc' = qpe_ins_count enc.
Proof.
  induction fuel as [|fuel IH]; intros enc dropped Hwf Hf;
    destruct (qpe_all_entries enc) as [|e rest] eqn:Hall; try done.
  - exists enc. cbn [drop_while_over].
    rewrite (wf_used enc Hwf), Hall. pose proof (wf_capacity enc Hwf).
    cbn [sizes]. rewrite Z.gtb_ltb. destruct (Z.ltb_spec (qpe_cur_max_capacity enc) 0); [ulia|].
    split_and!; try done. do 2 f_equal. cbn. lia.
  - cbn [drop_while_over]. rewrite (wf_used enc Hwf), Hall. cbn [evict].
    destruct (sizes (e :: rest) >? qpe_cur_max_capacity enc).
    + destruct (drop_oldest_entry_wf enc e rest Hwf Hall) as (enc1 & -> & Hwf1 & H1 & _ & H2 & H3).
      cbn [mbind option_bind]. destruct (IH enc1 (dropped + 1) Hwf1) as (enc2 & -> & ? & ? & ? & ?).
      { rewrite H1. injection Hf as Hf. exact Hf. }
      exists enc2. rewrite H1, H2 in *. split_and!; try done; try congruence.
      do 2 f_equal. cbn [length]. lia.
    + exists enc. rewrite Hall. split_and!; try done. do 2 f_equal. lia.
Qed.

Lemma drop_overflow_wf enc :
  table_wf enc ->
  exists enc' n, drop_overflow_entries enc = Some (enc', n)
    /\ n = Z.of_nat (length (qpe_all_entries enc)) - Z.of_nat (length (qpe_all_entries enc'))
    /\ table_wf enc'
    /\ qpe_all_entries enc' = evict (qpe_cur_max_capacity enc) (qpe_all_entries enc)
    /\ qpe_cur_max_capacity enc' = qpe_cur_max_capacity enc
    /\ qpe_ins_count enc' = qpe_ins_count enc
    /\ qpe_cur_bytes_used enc' <= qpe_cur_max_capacity enc'.
Proof.
  intros Hwf. unfold drop_overflow_entries.
  destruct (drop_while_over_ok _ enc 0 Hwf eq_refl) as (enc' & -> & Hwf' & Hall & Hc & Hi).
  eexists _, _. split; [done|]. split_and!; try done.
  rewrite (wf_used _ Hwf'), Hall, Hc. apply evict_fits. pose proof (wf_capacity enc Hwf). ulia.
Qed.

(** *** Growing *)

Lemma distribute_spec idx old : forall new0 new1,
  distribute idx old new0 new1
  = (new0 ++ filter (fun e => idx e = 0) old, new1 ++ filter (fun e => idx e <> 0) old).
Proof.
  induction old as [|e old IH]; intros new0 new1; cbn [distribute].
  - by rewrite !app_nil_r.
  - destruct (Z.eqb_spec (idx e) 0) as [E|E]; rewrite IH.
    + rewrite filter_cons_True by done. rewrite filter_cons_False by lia.
      by rewrite <- app_assoc.
    + rewrite filter_cons_False by done. rewrite filter_cons_True by done.
      by rewrite <- app_assoc.
Qed.

(** Splitting the entries of bucket [i] by the next hash bit. *)
Lemma filter_grow_low hash nbits (all : list enc_table_entry) i :
  2 <= nbits <= 29 -> (i < Z.to_nat (2 ^ nbits))%nat ->
  filter (fun e => grow_idx nbits (hash e) = 0) (filter (in_bucket hash nbits i) all)
  = filter (in_bucket hash (nbits + 1) i) all.
Proof.
  intros. rewrite list_filter_filter. apply list_filter_iff. intros e.
  unfold in_bucket. rewrite BUCKNO_succ by lia.
  pose proof (BUCKNO_range nbits (hash e) ltac:(lia)).
  destruct (grow_idx_range nbits (hash e)) as [-> | ->]; lia.
Qed.

Lemma filter_grow_high hash nbits (all : list enc_table_entry) i :
  2 <= nbits <= 29 -> (i < Z.to_nat (2 ^ nbits))%nat ->
  filter (fun e => grow_idx nbits (hash e) <> 0) (filter (in_bucket hash nbits i) all)
  = filter (in_bucket hash (nbits + 1) (i + Z.to_nat (2 ^ nbits))) all.
Proof.
  intros. rewrite list_filter_filter. apply list_filter_iff. intros e.
  unfold in_bucket. rewrite BUCKNO_succ by lia.
  pose proof (BUCKNO_range nbits (hash e) ltac:(lia)).
  destruct (grow_idx_range nbits (hash e)) as [-> | ->]; lia.
Qed.

Lemma split_bucket_ok nbits all i h :
  2 <= nbits <= 29 -> (i < Z.to_nat (2 ^ nbits))%nat -> bucket_ok nbits all i h ->
  bucket_ok (nbits + 1) all i (split_bucket nbits h).1
  /\ bucket_ok (nbits + 1) all (i + Z.to_nat (2 ^ nbits)) (split_bucket nbits h).2.
Proof.
  intros Hn Hi [H1 H2]. unfold split_bucket. rewrite !distribute_spec, H1, H2. cbn.
  rewrite !filter_grow_low, !filter_grow_high by done. done.
Qed.

Lemma grow_buckets_ok nbits all buckets :
  2 <= nbits <= 28 -> buckets_ok nbits all buckets ->
  buckets_ok (nbits + 1) all
    ((split_bucket nbits <$> buckets).*1 ++ (split_bucket nbits <$> buckets).*2).
Proof.
  intros Hn (_ & Hl & Hb). split; [lia|]. split.
  - rewrite length_app, !length_fmap, Z.pow_add_r by lia. lia.
  - intros i h [Hi|[Hge Hi]]%lookup_app_Some; rewrite !list_lookup_fmap in Hi;
      apply fmap_Some in Hi as (? & (b & Hb' & ->)%fmap_Some & ->).
    + pose proof (lookup_lt_Some _ _ _ Hb').
      apply (split_bucket_ok nbits all i b); [lia|lia|auto].
    + rewrite !length_fmap in *. pose proof (lookup_lt_Some _ _ _ Hb').
      replace i with (i - length buckets + Z.to_nat (2 ^ nbits))%nat at 1 by lia.
      apply (split_bucket_ok nbits all (i - length buckets) b); [lia|lia|auto].
Qed.

Lemma nelem_bound enc : table_wf enc -> qpe_nelem enc <= 2 ^ 27.
Proof.
  intros [-> _ Hu _ _ _ _ Hent _ _]. pose proof (sizes_lower _ Hent).
  change (2 ^ 27) with 134217728. ulia.
Qed.

(** A table with buckets. *)
Definition has_buckets (enc : enc_table) : Prop := qpe_buckets enc <> [].

Lemma has_buckets_ok enc :
  table_wf enc -> has_buckets enc ->
  buckets_ok (qpe_nbits enc) (qpe_all_entries enc) (qpe_buckets enc).
Proof. intros Hwf Hb. by destruct (wf_buckets enc Hwf) as [[_ ?]|]. Qed.

(** The abstract contents do not change. *)
Definition same_table (enc enc' : enc_table) : Prop :=
  qpe_ins_count enc' = qpe_ins_count enc
  /\ qpe_cur_bytes_used enc' = qpe_cur_bytes_used enc
  /\ qpe_cur_max_capacity enc' = qpe_cur_max_capacity enc
  /\ qpe_dropped enc' = qpe_dropped enc
  /\ qpe_nelem enc' = qpe_nelem enc
  /\ qpe_all_entries enc' = qpe_all_entries enc.

#[global] Instance same_table_equiv : Equivalence same_table.
Proof.
  split; unfold same_table.
  - intros x. tauto.
  - intros x y H. intuition congruence.
  - intros x y z H1 H2. intuition congruence.
Qed.

Lemma same_table_wf enc enc' :
  same_table enc enc' -> table_wf enc ->
  buckets_ok (qpe_nbits enc') (qpe_all_entries enc') (qpe_buckets enc') ->
  table_wf enc'.
Proof.
  intros (H1 & H2 & H3 & H4 & H5 & H6) [] Hb.
  constructor; rewrite ?H1, ?H2, ?H3, ?H5, ?H6; try done.
  - right. by rewrite <- H6.
  - intros pre e post. unfold entry_offset. rewrite H4, H6. apply wf_offsets0.
Qed.

Lemma grow_tables_wf ms enc :
  table_wf enc -> has_buckets enc -> N_BUCKETS (qpe_nbits enc) / 2 <= qpe_nelem enc ->
  let '(ok, enc', _) := qenc_grow_tables ms enc in
  table_wf enc' /\ has_buckets enc' /\ same_table enc enc'.
Proof.
  intros Hwf Hb Hg. unfold qenc_grow_tables. destruct (malloc ms) as [[mem|] ms'];
    [|split_and!; [done|done|reflexivity]].
  pose proof (has_buckets_ok enc Hwf Hb) as Hok. pose proof Hok as (Hn & Hl & _).
  assert (qpe_nbits enc <= 28).
  { rewrite N_BUCKETS_pow in Hg by lia. pose proof (nelem_bound enc Hwf).
    destruct (Z.le_gt_cases (qpe_nbits enc) 28); [done|].
    replace (qpe_nbits enc) with 29 in Hg by lia.
    change (2 ^ 29 / 2) with 268435456 in Hg. change (2 ^ 27) with 134217728 in *. lia. }
  match goal with |- _ /\ _ /\ same_table _ ?e => assert (same_table enc e) as Hs by done end.
  pose proof (grow_buckets_ok _ _ _ (conj (proj1 Hn) H) Hok) as Hgrown.
  split_and!; [by apply (same_table_wf _ _ Hs)| |done].
  unfold has_buckets. cbn. intros [E _]%app_eq_nil.
  apply fmap_nil_inv, fmap_nil_inv in E. done.
Qed.

(** *** Pushing *)

Lemma push_buckets_ok nbits all buckets e :
  buckets_ok nbits all buckets ->
  buckets_ok nbits (all ++ [e])
    (alter (push_name e) (Z.to_nat (BUCKNO nbits (ete_name_hash e)))
       (alter (push_nameval e) (Z.to_nat (BUCKNO nbits (ete_nameval_hash e))) buckets)).
Proof.
  intros (Hn & Hl & Hb). split; [done|]. rewrite !length_alter. split; [done|].
  intros i h Hi.
  set (iv := Z.to_nat (BUCKNO nbits (ete_nameval_hash e))) in *.
  set (ina := Z.to_nat (BUCKNO nbits (ete_name_hash e))) in *.
  assert (forall hash, filter (in_bucket hash nbits i) (all ++ [e])
          = filter (in_bucket hash nbits i) all
            ++ (if decide (i = Z.to_nat (BUCKNO nbits (hash e))) then [e] else [])) as Hf.
  { intros hash. rewrite filter_app. f_equal. destruct (decide _) as [->|E].
    - rewrite filter_cons_True by (apply in_bucket_self; lia). done.
    - rewrite filter_cons_False by (by apply not_in_bucket). done. }
  unfold bucket_ok. rewrite !Hf. fold iv ina. rewrite !list_lookup_alter in Hi.
  assert (exists h0, buckets !! i = Some h0
    /\ h = (if decide (i = ina) then push_name e else id)
             ((if decide (i = iv) then push_nameval e else id) h0)) as (h0 & Hh0 & ->).
  { clear Hf. destruct (decide (ina = i)) as [Ea|Ea]; [rewrite Ea in Hi|];
      destruct (decide (iv = i)) as [Ev|Ev]; try rewrite Ev in Hi;
      repeat (apply fmap_Some in Hi as (? & Hi & ->));
      eexists; (split; [exact Hi|]);
      repeat (destruct (decide _); try congruence); done. }
  destruct (Hb i h0 Hh0) as [H1 H2].
  destruct (decide (i = ina)), (decide (i = iv)); cbn; rewrite ?app_nil_r, H1, H2; done.
Qed.

Definition new_entry (enc : enc_table) (name_hash nameval_hash : Z) (name value : bytes)
  : enc_table_entry :=
  {| ete_name_hash := name_hash; ete_nameval_hash := nameval_hash;
     ete_when_added_used := qpe_cur_bytes_used enc; ete_when_added_dropped := qpe_dropped enc;
     ete_id := qpe_ins_count enc + 1; ETE_NAME := name; ETE_VALUE := value |}.

(** The table after a push. *)
Definition pushed (enc enc' : enc_table) (e : enc_table_entry) : Prop :=
  qpe_all_entries enc' = qpe_all_entries enc ++ [e]
  /\ qpe_ins_count enc' = qpe_ins_count enc + 1
  /\ qpe_cur_bytes_used enc' = qpe_cur_bytes_used enc + ETE_SIZE e
  /\ qpe_cur_max_capacity enc' = qpe_cur_max_capacity enc.

Lemma offsets_push enc e enc' :
  table_wf enc -> qpe_all_entries enc' = qpe_all_entries enc ++ [e] ->
  qpe_dropped enc' = qpe_dropped enc ->
  ete_when_added_used e = qpe_cur_bytes_used enc ->
  ete_when_added_dropped e = qpe_dropped enc -> offsets_ok enc'.
Proof.
  intros Hwf Hall Hd Hu Hwd pre x post Hx. unfold entry_offset. rewrite Hd.
  rewrite Hall in Hx. destruct post as [|y post _] using rev_ind.
  - apply app_inj_tail in Hx as [<- <-]. rewrite Hu, Hwd, Z.sub_diag, (wf_used enc Hwf).
    pose proof (wf_used_u32 enc Hwf). pose proof (sizes_lower _ (wf_entries enc Hwf)). ulia.
  - rewrite app_comm_cons, app_assoc in Hx. apply app_inj_tail in Hx as [Hx _].
    by apply (wf_offsets enc Hwf pre x post).
Qed.

Lemma push_entry_grown_wf ms enc name_hash nameval_hash name value :
  let e := new_entry enc name_hash nameval_hash name value in
  table_wf enc -> has_buckets enc -> entry_wf e ->
  qpe_cur_bytes_used enc + ETE_SIZE e < 2 ^ 32 -> qpe_ins_count enc < 2 ^ 32 - 1 ->
  match push_entry_grown ms enc name_hash nameval_hash name value with
  | (Some e', enc', _) => e' = e /\ table_wf enc' /\ has_buckets enc' /\ pushed enc enc' e
  | (None, enc', _) => enc' = enc
  end.
Proof.
  intros e Hwf Hb He Hroom Hic. unfold push_entry_grown.
  destruct (malloc ms) as [[mem|] ms']; [|done].
  pose proof (has_buckets_ok enc Hwf Hb) as Hok.
  pose proof Hwf as [Hne Hu Hu32 Hcap Hic' Hids Hni Hent _ _].
  pose proof (entry_size_range e He). pose proof (nelem_bound enc Hwf).
  pose proof (sizes_lower _ Hent). change (2 ^ 27) with 134217728 in *.
  rewrite (Z.add_comm 1). 
  rewrite (u32_id (qpe_ins_count enc + 1)), (u32_id (qpe_nelem enc + 1)) by ulia.
  fold (new_entry enc name_hash nameval_hash name value). fold e.
  rewrite (u32_id (_ + ETE_SIZE e)) by ulia. split; [done|]. split_and!.
  - constructor; cbn [qpe_ins_count qpe_cur_bytes_used qpe_cur_max_capacity qpe_dropped qpe_nelem
                      qpe_nbits qpe_all_entries qpe_buckets]; try done.
    + rewrite length_app. cbn [length]. lia.
    + rewrite sizes_app. cbn [sizes]. lia.
    + rewrite sizes_app. cbn [sizes]. ulia.
    + ulia.
    + rewrite fmap_app, Hids. cbn [fmap list_fmap].
      rewrite (seqZ_app _ (qpe_nelem enc) 1) by lia.
      f_equal; [f_equal; lia|]. unfold seqZ. change (Z.to_nat 1) with 1%nat.
      cbn [seq fmap list_fmap]. f_equal. unfold e, new_entry. cbn [ete_id]. lia.
    + lia.
    + apply Forall_app. auto.
    + right. apply (push_buckets_ok _ _ _ e Hok).
    + by apply (offsets_push enc e).
  - unfold has_buckets. cbn. intros E%(f_equal length). rewrite !length_alter in E.
    apply Hb. by destruct (qpe_buckets enc).
  - split_and!; done.
Qed.

Lemma push_entry_wf ms enc name_hash nameval_hash name value :
  let e := new_entry enc name_hash nameval_hash name value in
  table_wf enc -> has_buckets enc -> entry_wf e ->
  qpe_cur_bytes_used enc + ETE_SIZE e < 2 ^ 32 -> qpe_ins_count enc < 2 ^ 32 - 1 ->
  match lsqpack_enc_push_entry ms enc name_hash nameval_hash name value with
  | (Some e', enc', _) => e' = e /\ table_wf enc' /\ has_buckets enc' /\ pushed enc enc' e
  | (None, enc', _) => table_wf enc' /\ has_buckets enc' /\ same_table enc enc'
  end.
Proof.
  intros e Hwf Hb He Hroom Hic. unfold lsqpack_enc_push_entry. rewrite Z.geb_leb.
  destruct (Z.leb_spec (N_BUCKETS (qpe_nbits enc) / 2) (qpe_nelem enc)) as [Hg|Hg].
  - pose proof (grow_tables_wf ms enc Hwf Hb Hg) as Hgrow.
    destruct (qenc_grow_tables ms enc) as [[ok enc1] ms1]. destruct Hgrow as (Hwf1 & Hb1 & Hs).
    destruct ok; [|done].
    pose proof Hs as (H1 & H2 & H3 & H4 & H5 & H6).
    assert (new_entry enc1 name_hash nameval_hash name value = e) as Ee
      by (unfold e, new_entry; by rewrite H1, H2, H4).
    pose proof (push_entry_grown_wf ms1 enc1 name_hash nameval_hash name value) as Hp.
    cbn zeta in Hp. rewrite Ee, H1, H2 in Hp.
    specialize (Hp Hwf1 Hb1 He Hroom Hic).
    destruct (push_entry_grown _ _ _ _ _ _) as [[[e'|] enc2] ms2].
    + destruct Hp as (-> & ? & ? & Hp). split_and!; try done.
      unfold pushed in *. rewrite H1, H2, H3, H6 in Hp. exact Hp.
    + subst enc2. done.
  - pose proof (push_entry_grown_wf ms enc name_hash nameval_hash name value) as Hp.
    cbn zeta in Hp. specialize (Hp Hwf Hb He Hroom Hic).
    destruct (push_entry_grown _ _ _ _ _ _) as [[[e'|] enc2] ms2]; [done|].
    subst enc2. split_and!; try done.
Qed.

(** *** Looking entries up *)

(** The entries of the bucket of [hash] that satisfy a test which implies the
    hash are those of the whole table. *)
Lemma bucket_filter_nameval enc hash (P : enc_table_entry -> Prop) `{forall e, Decision (P e)} :
  table_wf enc -> has_buckets enc -> (forall e, P e -> ete_nameval_hash e = hash) ->
  exists h, qpe_buckets enc !! Z.to_nat (BUCKNO (qpe_nbits enc) hash) = Some h
         /\ filter P (by_nameval h) = filter P (qpe_all_entries enc).
Proof.
  intros Hwf Hb HP. pose proof (has_buckets_ok enc Hwf Hb) as Hok.
  destruct (buckets_lookup _ _ _ hash Hok) as (h & Hh & _ & Hf). exists h. split; [done|].
  rewrite Hf, list_filter_filter. apply list_filter_iff. intros e. split; [tauto|].
  intros He. split; [done|]. unfold in_bucket. rewrite (HP e He).
  destruct Hok as (Hn & _). pose proof (BUCKNO_range (qpe_nbits enc) hash ltac:(lia)). lia.
Qed.

Lemma bucket_filter_name enc hash (P : enc_table_entry -> Prop) `{forall e, Decision (P e)} :
  table_wf enc -> has_buckets enc -> (forall e, P e -> ete_name_hash e = hash) ->
  exists h, qpe_buckets enc !! Z.to_nat (BUCKNO (qpe_nbits enc) hash) = Some h
         /\ filter P (by_name h) = filter P (qpe_all_entries enc).
Proof.
  intros Hwf Hb HP. pose proof (has_buckets_ok enc Hwf Hb) as Hok.
  destruct (buckets_lookup _ _ _ hash Hok) as (h & Hh & Hf & _). exists h. split; [done|].
  rewrite Hf, list_filter_filter. apply list_filter_iff. intros e. split; [tauto|].
  intros He. split; [done|]. unfold in_bucket. rewrite (HP e He).
  destruct Hok as (Hn & _). pose proof (BUCKNO_range (qpe_nbits enc) hash ltac:(lia)). lia.
Qed.

(** ** Properties *)

(** C32: [lsqpack_enc_push_entry] on a well-formed table with buckets either
    appends an entry with the next id at the new end of the table, growing the
    hash table when it is half full, or fails for lack of memory; in both cases
    every bucket still lists exactly the entries with its hash, oldest first,
    and a failure leaves the contents alone. *)
Theorem push_entry_correct ms enc name_hash nameval_hash name value :
  table_wf enc -> has_buckets enc ->
  entry_wf (new_entry enc name_hash nameval_hash name value) ->
  qpe_cur_bytes_used enc + ENTRY_COST (Z.of_nat (length name)) (Z.of_nat (length value)) < 2 ^ 32 ->
  qpe_ins_count enc < 2 ^ 32 - 1 ->
  let '(e, enc', _) := lsqpack_enc_push_entry ms enc name_hash nameval_hash name value in
  table_wf enc'
  /\ buckets_ok (qpe_nbits enc') (qpe_all_entries enc') (qpe_buckets enc')
  /\ match e with
     | Some e => e = new_entry enc name_hash nameval_hash name value /\ pushed enc enc' e
     | None => same_table enc enc' /\ None ∈ ms
     end.
Proof.
  intros Hwf Hb He Hroom Hic.
  pose proof (push_entry_wf ms enc name_hash nameval_hash name value Hwf Hb He Hroom Hic) as Hp.
  assert (forall ms' ms'', malloc ms' = (None, ms'') -> None ∈ ms') as Hnone.
  { intros [|m ms'] ms''; cbn; [done|]. intros [= -> ->]. set_solver. }
  assert (fst (fst (lsqpack_enc_push_entry ms enc name_hash nameval_hash name value)) = None ->
          None ∈ ms) as Hm.
  { unfold lsqpack_enc_push_entry, qenc_grow_tables, push_entry_grown.
    destruct (_ >=? _); destruct (malloc ms) as [[mem|] ms'] eqn:E1; cbn [fst]; eauto; try done.
    destruct (malloc ms') as [[mem'|] ms''] eqn:E2; cbn [fst]; intros Hd; [discriminate Hd|].
    destruct ms as [|m ms]; cbn in E1; simplify_eq/=.
    apply elem_of_cons. right. eauto. }
  destruct (lsqpack_enc_push_entry _ _ _ _ _ _) as [[[e|] enc'] ms'].
  - destruct Hp as (-> & Hwf' & Hb' & Hp). split_and!; try done. by apply has_buckets_ok.
  - destruct Hp as (Hwf' & Hb' & Hs). split_and!; try done; [by apply has_buckets_ok|].
    by apply Hm.
Qed.

(** C33: the eviction loop of [qenc_remove_overflow_entries] ends, fails no
    assertion and keeps the table well formed; afterwards the table fits its
    capacity, and what is left is the longest run of newest entries that does:
    every run of newest entries that fits is still there. *)
Theorem remove_overflow_correct enc :
  table_wf enc ->
  exists enc' n evicted, drop_overflow_entries enc = Some (enc', n)
    /\ table_wf enc'
    /\ qpe_all_entries enc = evicted ++ qpe_all_entries enc'
    /\ n = Z.of_nat (length evicted)
    /\ qpe_cur_bytes_used enc' <= qpe_cur_max_capacity enc'
    /\ (forall old new, qpe_all_entries enc = old ++ new -> sizes new <= qpe_cur_max_capacity enc ->
        exists mid, qpe_all_entries enc' = mid ++ new).
Proof.
  intros Hwf. destruct (drop_overflow_wf enc Hwf) as (enc' & n & -> & -> & Hwf' & Hall & Hc & _ & Hfit).
  destruct (evict_suffix (qpe_cur_max_capacity enc) (qpe_all_entries enc)) as [pre Hpre].
  rewrite <- Hall in Hpre. eexists enc', _, pre. split; [done|]. split_and!; try done.
  - rewrite Hpre at 1. rewrite length_app. lia.
  - intros old new Hold Hnew. rewrite Hall. apply (evict_maximal _ _ old new Hold); [|done|].
    + apply (wf_entries enc Hwf).
    + pose proof (wf_capacity enc Hwf). ulia.
Qed.

(** ** Examples *)

(** An empty table of the given capacity with four buckets. *)
Definition empty_table (capacity : Z) : enc_table :=
  {| qpe_ins_count := 0; qpe_cur_bytes_used := 0; qpe_cur_max_capacity := capacity;
     qpe_dropped := 0; qpe_nelem := 0; qpe_nbits := 2; qpe_all_entries := [];
     qpe_buckets := replicate 4 empty_head |}.

Lemma empty_table_wf capacity :
  is_u32 capacity -> table_wf (empty_table capacity) /\ has_buckets (empty_table capacity).
Proof.
  intros Hc. split; [|done]. constructor; cbn; try done; try ulia.
  - right. split; [lia|]. split; [done|].
    intros i h Hi. apply (lookup_replicate_1 4) in Hi as [-> _]. done.
  - intros [|] ? ? ?; done.
Qed.

Definition push_ab (t : enc_table) : enc_table :=
  snd (fst (lsqpack_enc_push_entry [] t 5 6 [97] [98])).

(** Two entries of 34 bytes in a table of capacity 40, before eviction. *)
Definition overfull_table : enc_table := push_ab (push_ab (empty_table 40)).

Lemma overfull_table_wf : table_wf overfull_table.
Proof.
  destruct (empty_table_wf 40) as [Hwf Hb]; [ulia|].
  assert (forall t, table_wf t -> has_buckets t -> qpe_cur_bytes_used t <= 34 ->
            qpe_ins_count t <= 1 -> table_wf (push_ab t) /\ has_buckets (push_ab t)) as Hpush.
  { intros t Ht Htb Hu Hi.
    pose proof (push_entry_wf [] t 5 6 [97] [98] Ht Htb) as H. unfold push_ab.
    destruct (lsqpack_enc_push_entry [] t 5 6 [97] [98]) as [[[e|] t'] ms].
    - destruct H as (_ & H1 & H2 & _); try done.
      + vm_compute. split_and!; try done; repeat constructor; done.
      + change (ETE_SIZE _) with 34. ulia.
      + ulia.
    - destruct H as (H1 & H2 & _); try done.
      + vm_compute. split_and!; try done; repeat constructor; done.
      + change (ETE_SIZE _) with 34. ulia.
      + ulia. }
  destruct (Hpush (empty_table 40) Hwf Hb) as [Hwf1 Hb1]; [done|done|].
  by apply Hpush.
Qed.

Lemma push_entry_correct_witness :
  qpe_all_entries (snd (fst (lsqpack_enc_push_entry [] (empty_table 100) 5 6 [97] [98])))
  = [Ete 1 0 0 6 5 [97] [98]].
Proof.
  destruct (empty_table_wf 100) as [Hwf Hb]; [ulia|].
  pose proof (push_entry_correct [] (empty_table 100) 5 6 [97] [98] Hwf Hb) as H.
  destruct (lsqpack_enc_push_entry [] (empty_table 100) 5 6 [97] [98]) as [[e t] ms] eqn:E.
  destruct H as (_ & _ & H).
  - vm_compute. split_and!; try done; repeat constructor; done.
  - vm_compute. done.
  - vm_compute. done.
  - injection E as <- <- <-. destruct H as (_ & H & _). exact H.
Defined.

Lemma remove_overflow_correct_witness :
  table_wf overfull_table
  /\ exists enc' n evicted, drop_overflow_entries overfull_table = Some (enc', n)
     /\ qpe_all_entries overfull_table = evicted ++ qpe_all_entries enc'
     /\ length (qpe_all_entries enc') = 1%nat.
Proof.
  split; [apply overfull_table_wf|].
  destruct (remove_overflow_correct overfull_table overfull_table_wf)
    as (t & n & ev & H1 & _ & H2 & _).
  exists t, n, ev. split_and!; [done|done|].
  vm_compute in H1. injection H1 as <- <-. reflexivity.
Defined.
