(* ===== verification/EncHinfo.v ===== *)
(** * Header information of outstanding header blocks

    The encoder keeps a [struct lsqpack_header_info] for every header block that
    refers to the dynamic table and was not acknowledged.  They live in arrays
    of 64 slots with a bitmap each; the list of all of them and the list of those
    at risk run through them, and those at risk on the same stream are linked
    in a ring by [qhi_same_stream_id].

    Models, from src/lsqpack.c: [find_free_slot], [enc_alloc_hinfo],
    [enc_free_hinfo], [qenc_add_to_risked_list], [qenc_remove_from_risked_list],
    [qenc_hinfo_at_risk], [qenc_update_risked_list] and
    [qenc_maybe_update_hinfo_min_max].

    A pointer to a header info is the number [64 * array + slot].  [None] as the
    result of an operation is undefined behaviour: a failed assertion, the
    removal of an element from a list it is not on, or a walk around a ring that
    never comes back. *)

From stdpp Require Import gmap sets.
From S2P Require Import Prelude Monad.

(** [struct lsqpack_header_info], less the list links. *)
Record header_info := {
  qhi_same_stream_id : Z;
  qhi_stream_id : Z;
  qhi_seqno : Z;
  qhi_bytes_inserted : Z;
  qhi_min_id : Z;
  qhi_max_id : Z;
}.

(** [memset(hinfo, 0, ..)] followed by [hinfo->qhi_same_stream_id = hinfo]. *)
Definition zero_hinfo (self : Z) : header_info :=
  {| qhi_same_stream_id := self; qhi_stream_id := 0; qhi_seqno := 0;
     qhi_bytes_inserted := 0; qhi_min_id := 0; qhi_max_id := 0 |}.

Definition HINFO_IDS_SET (h : header_info) : bool := negb (qhi_max_id h =? 0).

(** The members of [struct lsqpack_enc] about header infos.  An array is
    represented by its bitmap [hia_slots]; [hi_mem] holds the slots of all
    arrays. *)
Record hinfos := {
  qpe_hinfo_arrs : list Z;
  qpe_hinfo_arrs_count : Z;
  hi_mem : gmap Z header_info;
  qpe_all_hinfos : list Z;
  qpe_risked_hinfos : list Z;
  qpe_cur_streams_at_risk : Z;
}.

Definition no_hinfos : hinfos :=
  {| qpe_hinfo_arrs := []; qpe_hinfo_arrs_count := 0; hi_mem := ∅;
     qpe_all_hinfos := []; qpe_risked_hinfos := []; qpe_cur_streams_at_risk := 0 |}.

Definition hinfo_at (hs : hinfos) (p : Z) : header_info := default (zero_hinfo p) (hi_mem hs !! p).

Definition set_mem (hs : hinfos) (mem : gmap Z header_info) : hinfos :=
  {| qpe_hinfo_arrs := qpe_hinfo_arrs hs; qpe_hinfo_arrs_count := qpe_hinfo_arrs_count hs;
     hi_mem := mem; qpe_all_hinfos := qpe_all_hinfos hs;
     qpe_risked_hinfos := qpe_risked_hinfos hs;
     qpe_cur_streams_at_risk := qpe_cur_streams_at_risk hs |}.

Definition update_hinfo (f : header_info -> header_info) (p : Z) (hs : hinfos) : hinfos :=
  set_mem hs (<[p := f (hinfo_at hs p)]> (hi_mem hs)).

Definition set_same (q : Z) (h : header_info) : header_info :=
  {| qhi_same_stream_id := q; qhi_stream_id := qhi_stream_id h; qhi_seqno := qhi_seqno h;
     qhi_bytes_inserted := qhi_bytes_inserted h; qhi_min_id := qhi_min_id h;
     qhi_max_id := qhi_max_id h |}.

Definition set_stream (stream_id seqno : Z) (h : header_info) : header_info :=
  {| qhi_same_stream_id := qhi_same_stream_id h; qhi_stream_id := stream_id; qhi_seqno := seqno;
     qhi_bytes_inserted := qhi_bytes_inserted h; qhi_min_id := qhi_min_id h;
     qhi_max_id := qhi_max_id h |}.

Definition add_bytes_inserted (n : Z) (h : header_info) : header_info :=
  {| qhi_same_stream_id := qhi_same_stream_id h; qhi_stream_id := qhi_stream_id h;
     qhi_seqno := qhi_seqno h; qhi_bytes_inserted := u32 (qhi_bytes_inserted h + n);
     qhi_min_id := qhi_min_id h; qhi_max_id := qhi_max_id h |}.

Definition set_ids (min_id max_id : Z) (h : header_info) : header_info :=
  {| qhi_same_stream_id := qhi_same_stream_id h; qhi_stream_id := qhi_stream_id h;
     qhi_seqno := qhi_seqno h; qhi_bytes_inserted := qhi_bytes_inserted h;
     qhi_min_id := min_id; qhi_max_id := max_id |}.

Definition qenc_maybe_update_hinfo_min_max (dyn_id : Z) (hinfo : header_info) : header_info :=
  if HINFO_IDS_SET hinfo then
    if dyn_id >? qhi_max_id hinfo then set_ids (qhi_min_id hinfo) dyn_id hinfo
    else if dyn_id <? qhi_min_id hinfo then set_ids dyn_id (qhi_max_id hinfo) hinfo
    else hinfo
  else set_ids dyn_id dyn_id hinfo.

(** ** Slots *)

(** [__builtin_ffsll(~slots) - 1]: the lowest clear bit. *)
Fixpoint lowest_clear (fuel : nat) (slots i : Z) : Z :=
  match fuel with
  | O => i
  | S fuel => if Z.testbit slots i then lowest_clear fuel slots (i + 1) else i
  end.

Definition find_free_slot (slots : Z) : Z := lowest_clear 64 slots 0.

(** The version for compilers without [__builtin_ffsll]. *)
Definition ffs_step (w : Z) (ns : Z * Z) : Z * Z :=
  let '(n, slots) := ns in
  if Z.land slots (Z.shiftl 1 w - 1) =? 0 then (n + w, Z.shiftr slots w) else (n, slots).

Definition find_free_slot_portable (slots : Z) : Z :=
  fst (ffs_step 1 (ffs_step 2 (ffs_step 4 (ffs_step 8 (ffs_step 16 (ffs_step 32
    (0, u64 (Z.lnot slots)))))))).

Definition ALL_SLOTS : Z := 2 ^ 64 - 1.

(** [sizeof(struct lsqpack_header_info_arr)] with 64-bit pointers. *)
Definition sizeof_hiarr : Z := 8 + 8 + 64 * 64.

(** [STAILQ_FOREACH]: the first array with a free slot. *)
Fixpoint find_arr (arrs : list Z) (i : nat) : option (nat * Z) :=
  match arrs with
  | [] => None
  | slots :: arrs => if slots =? ALL_SLOTS then find_arr arrs (S i) else Some (i, slots)
  end.

Definition take_slot (i : nat) (slots : Z) (hs : hinfos) : Z * hinfos :=
  let slot := find_free_slot slots in
  let p := 64 * Z.of_nat i + slot in
  (p, {| qpe_hinfo_arrs := <[i := Z.lor slots (Z.shiftl 1 slot)]> (qpe_hinfo_arrs hs);
         qpe_hinfo_arrs_count := qpe_hinfo_arrs_count hs;
         hi_mem := <[p := zero_hinfo p]> (hi_mem hs);
         qpe_all_hinfos := qpe_all_hinfos hs ++ [p];
         qpe_risked_hinfos := qpe_risked_hinfos hs;
         qpe_cur_streams_at_risk := qpe_cur_streams_at_risk hs |}).

(** [no_guard] is the flag LSQPACK_ENC_NO_MEM_GUARD.  The pointer is [None] for
    NULL. *)
Definition enc_alloc_hinfo (ms : mallocs) (no_guard : bool) (cur_max_capacity : Z) (hs : hinfos)
  : option Z * hinfos * mallocs :=
  match find_arr (qpe_hinfo_arrs hs) 0 with
  | Some (i, slots) => let '(p, hs) := take_slot i slots hs in (Some p, hs, ms)
  | None =>
      if negb no_guard && (qpe_hinfo_arrs_count hs * sizeof_hiarr >=? cur_max_capacity)
      then (None, hs, ms)
      else
        let '(block, ms) := malloc ms in
        match block with
        | None => (None, hs, ms)
        | Some _ =>
            let i := length (qpe_hinfo_arrs hs) in
            let hs := {| qpe_hinfo_arrs := qpe_hinfo_arrs hs ++ [0];
                         qpe_hinfo_arrs_count := u32 (qpe_hinfo_arrs_count hs + 1);
                         hi_mem := hi_mem hs;
                         qpe_all_hinfos := qpe_all_hinfos hs;
                         qpe_risked_hinfos := qpe_risked_hinfos hs;
                         qpe_cur_streams_at_risk := qpe_cur_streams_at_risk hs |} in
            let '(p, hs) := take_slot i 0 hs in (Some p, hs, ms)
        end
  end.

Definition enc_free_hinfo (p : Z) (hs : hinfos) : option hinfos :=
  let i := Z.to_nat (p / 64) in
  slots ← qpe_hinfo_arrs hs !! i;
  all ← tailq_remove p (qpe_all_hinfos hs);
  Some {| qpe_hinfo_arrs := <[i := Z.land slots (u64 (Z.lnot (Z.shiftl 1 (p mod 64))))]>
                              (qpe_hinfo_arrs hs);
          qpe_hinfo_arrs_count := qpe_hinfo_arrs_count hs;
          hi_mem := hi_mem hs;
          qpe_all_hinfos := all;
          qpe_risked_hinfos := qpe_risked_hinfos hs;
          qpe_cur_streams_at_risk := qpe_cur_streams_at_risk hs |}.

(** ** The list of header blocks at risk *)

Definition set_risked (hs : hinfos) (risked : list Z) (cur : Z) : hinfos :=
  {| qpe_hinfo_arrs := qpe_hinfo_arrs hs; qpe_hinfo_arrs_count := qpe_hinfo_arrs_count hs;
     hi_mem := hi_mem hs; qpe_all_hinfos := qpe_all_hinfos hs;
     qpe_risked_hinfos := risked; qpe_cur_streams_at_risk := cur |}.

Definition qenc_add_to_risked_list (other_at_risk : option Z) (max_risked_streams p : Z)
  (hs : hinfos) : option hinfos :=
  let hs := set_risked hs (qpe_risked_hinfos hs ++ [p]) (qpe_cur_streams_at_risk hs) in
  match other_at_risk with
  | Some other =>
      let hs := update_hinfo (set_same (qhi_same_stream_id (hinfo_at hs other))) p hs in
      Some (update_hinfo (set_same p) other hs)
  | None =>
      let cur := u32 (qpe_cur_streams_at_risk hs + 1) in
      if cur <=? max_risked_streams then Some (set_risked hs (qpe_risked_hinfos hs) cur) else None
  end.

(** [for (prev = ..; prev->qhi_same_stream_id != hinfo; ..)] *)
Fixpoint ring_prev (fuel : nat) (hs : hinfos) (prev p : Z) : option Z :=
  if qhi_same_stream_id (hinfo_at hs prev) =? p then Some prev
  else match fuel with
       | O => None
       | S fuel => ring_prev fuel hs (qhi_same_stream_id (hinfo_at hs prev)) p
       end.

(** A ring has at most as many members as there are slots. *)
Definition qenc_remove_from_risked_list (p : Z) (hs : hinfos) : option hinfos :=
  match qpe_risked_hinfos hs with
  | [] => if qpe_cur_streams_at_risk hs =? 0 then Some hs else None
  | _ =>
      risked ← tailq_remove p (qpe_risked_hinfos hs);
      let next := qhi_same_stream_id (hinfo_at hs p) in
      if next =? p then
        if qpe_cur_streams_at_risk hs >? 0
        then Some (set_risked hs risked (u32 (qpe_cur_streams_at_risk hs - 1)))
        else None
      else
        prev ← ring_prev (64 * length (qpe_hinfo_arrs hs)) hs next p;
        Some (update_hinfo (set_same p) p
                (update_hinfo (set_same next) prev
                   (set_risked hs risked (qpe_cur_streams_at_risk hs))))
  end.

Definition qenc_hinfo_at_risk (max_acked_id : Z) (hinfo : header_info) : bool :=
  qhi_max_id hinfo >? max_acked_id.

(** The loop visits the elements the list had at the start: each is removed, if
    at all, only after its successor was read. *)
Fixpoint update_risked (max_acked_id : Z) (ps : list Z) (hs : hinfos) : option hinfos :=
  match ps with
  | [] => Some hs
  | p :: ps =>
      hs ← (if qenc_hinfo_at_risk max_acked_id (hinfo_at hs p) then Some hs
            else qenc_remove_from_risked_list p hs);
      update_risked max_acked_id ps hs
  end.

Definition qenc_update_risked_list (max_acked_id : Z) (hs : hinfos) : option hinfos :=
  update_risked max_acked_id (qpe_risked_hinfos hs) hs.

(** ** Free slots *)

Lemma lowest_clear_spec slots fuel : forall i,
  let r := lowest_clear fuel slots i in
  i <= r <= i + Z.of_nat fuel
  /\ (forall k, i <= k < r -> Z.testbit slots k = true)
  /\ (r < i + Z.of_nat fuel -> Z.testbit slots r = false).
Proof.
  induction fuel as [|fuel IH]; intros i; cbn zeta; cbn [lowest_clear].
  - split; [lia|]. split; intros; lia.
  - destruct (Z.testbit slots i) eqn:E.
    + destruct (IH (i + 1)) as (H1 & H2 & H3). split; [lia|]. split.
      * intros k Hk. destruct (decide (k = i)) as [->|]; [done|]. apply H2. lia.
      * intros Hr. apply H3. lia.
    + split; [lia|]. split; [intros; lia|done].
Qed.

Lemma find_free_slot_spec slots :
  is_u64 slots -> slots <> ALL_SLOTS ->
  0 <= find_free_slot slots < 64
  /\ Z.testbit slots (find_free_slot slots) = false
  /\ forall k, 0 <= k < find_free_slot slots -> Z.testbit slots k = true.
Proof.
  intros Hu Hne. unfold find_free_slot.
  destruct (lowest_clear_spec slots 64 0) as (H1 & H2 & H3). cbn zeta in *.
  set (r := lowest_clear 64 slots 0) in *.
  destruct (decide (r = 64)) as [E|E]; [|split_and!; [lia|lia|apply H3; lia|done]].
  exfalso. apply Hne. change ALL_SLOTS with (Z.ones 64). apply Z.bits_inj'. intros k Hk.
  rewrite Z.testbit_ones_nonneg by lia. destruct (Z.ltb_spec k 64).
  - apply H2. lia.
  - apply (testbit_high slots 64); [exact Hu|lia].
Qed.

(** [r] is the lowest set bit of [s]. *)
Definition lowest_set (s r : Z) : Prop :=
  0 <= r /\ Z.testbit s r = true /\ forall k, 0 <= k < r -> Z.testbit s k = false.

Lemma lowest_set_unique s r r' : lowest_set s r -> lowest_set s r' -> r = r'.
Proof.
  intros (H0 & H1 & H2) (H0' & H1' & H2'). destruct (Z.lt_trichotomy r r') as [H|[H|H]]; [|done|].
  - rewrite H2' in H1 by lia. done.
  - rewrite H2 in H1' by lia. done.
Qed.

(** One halving of the search. *)
Lemma ffs_step_spec w n s r :
  0 < w -> lowest_set s r -> r < 2 * w ->
  let '(n', s') := ffs_step w (n, s) in
  exists r', lowest_set s' r' /\ r' < w /\ n' + r' = n + r.
Proof.
  intros Hw (H0 & H1 & H2) Hr. unfold ffs_step.
  rewrite Z.shiftl_1_l, land_ones_mod by lia.
  assert (forall k, 0 <= k -> Z.testbit (s mod 2 ^ w) k = (k <? w) && Z.testbit s k) as Hb.
  { intros k Hk. destruct (Z.ltb_spec k w); cbn.
    - by rewrite Z.mod_pow2_bits_low by lia.
    - by rewrite Z.mod_pow2_bits_high by lia. }
  destruct (Z.eqb_spec (s mod 2 ^ w) 0) as [E|E].
  - exists (r - w). assert (w <= r).
    { destruct (Z.le_gt_cases w r); [done|]. exfalso.
      specialize (Hb r H0). rewrite E, Z.bits_0, H1, (proj2 (Z.ltb_lt r w)) in Hb by lia. done. }
    split; [|lia]. split_and!; [lia| |].
    + rewrite Z.shiftr_spec by lia. replace (r - w + w) with r by lia. done.
    + intros k Hk. rewrite Z.shiftr_spec by lia. apply H2. lia.
  - exists r. split; [done|]. split; [|lia].
    destruct (Z.lt_ge_cases r w); [done|]. exfalso. apply E.
    apply Z.bits_inj'. intros k Hk. rewrite Hb, Z.bits_0 by lia.
    destruct (Z.ltb_spec k w); cbn; [apply H2; lia|done].
Qed.

(** The portable binary search for a free slot finds the same slot as
    [__builtin_ffsll]: the lowest clear bit of the bitmap. *)
Theorem find_free_slot_portable_correct slots :
  is_u64 slots -> slots <> ALL_SLOTS ->
  find_free_slot_portable slots = find_free_slot slots.
Proof.
  intros Hu Hne. destruct (find_free_slot_spec slots Hu Hne) as (Hr & Hc & Hl).
  set (r := find_free_slot slots) in *.
  assert (forall k, 0 <= k < 64 -> Z.testbit (u64 (Z.lnot slots)) k = negb (Z.testbit slots k)) as Hn.
  { intros k Hk. unfold u64. rewrite Z.mod_pow2_bits_low, Z.lnot_spec by lia. done. }
  assert (lowest_set (u64 (Z.lnot slots)) r) as Hs.
  { split_and!; [lia|by rewrite Hn, Hc by lia|]. intros k Hk. by rewrite Hn, Hl by lia. }
  unfold find_free_slot_portable.
  pose proof (ffs_step_spec 32 0 _ r ltac:(lia) Hs ltac:(lia)) as H32.
  destruct (ffs_step 32 _) as [n32 s32]. destruct H32 as (r32 & Hs32 & Hr32 & E32).
  pose proof (ffs_step_spec 16 n32 _ r32 ltac:(lia) Hs32 ltac:(lia)) as H16.
  destruct (ffs_step 16 _) as [n16 s16]. destruct H16 as (r16 & Hs16 & Hr16 & E16).
  pose proof (ffs_step_spec 8 n16 _ r16 ltac:(lia) Hs16 ltac:(lia)) as H8.
  destruct (ffs_step 8 _) as [n8 s8]. destruct H8 as (r8 & Hs8 & Hr8 & E8).
  pose proof (ffs_step_spec 4 n8 _ r8 ltac:(lia) Hs8 ltac:(lia)) as H4.
  destruct (ffs_step 4 _) as [n4 s4]. destruct H4 as (r4 & Hs4 & Hr4 & E4).
  pose proof (ffs_step_spec 2 n4 _ r4 ltac:(lia) Hs4 ltac:(lia)) as H2.
  destruct (ffs_step 2 _) as [n2 s2]. destruct H2 as (r2 & Hs2 & Hr2 & E2).
  pose proof (ffs_step_spec 1 n2 _ r2 ltac:(lia) Hs2 ltac:(lia)) as H1.
  destruct (ffs_step 1 _) as [n1 s1]. destruct H1 as (r1 & (? & _) & Hr1 & E1).
  cbn [fst]. lia.
Qed.

Lemma find_free_slot_portable_correct_witness :
  is_u64 0xffff00ff /\ find_free_slot_portable 0xffff00ff = find_free_slot 0xffff00ff
  /\ find_free_slot 0xffff00ff = 8.
Proof.
  split; [ulia|]. split; [|reflexivity].
  apply (find_free_slot_portable_correct 0xffff00ff); [ulia|discriminate].
Defined.

(** ** Invariant *)

Definition allocated (arrs : list Z) (p : Z) : Prop :=
  0 <= p /\ exists slots, arrs !! Z.to_nat (p / 64) = Some slots /\ Z.testbit slots (p mod 64) = true.

(** Following the links from [a] visits [l] and arrives at [b]. *)
Fixpoint chain (hs : hinfos) (a : Z) (l : list Z) (b : Z) : Prop :=
  match l with
  | [] => qhi_same_stream_id (hinfo_at hs a) = b
  | x :: l => qhi_same_stream_id (hinfo_at hs a) = x /\ chain hs x l b
  end.

(** A ring of header infos of one stream, listed from one of its members. *)
Definition ring_ok (hs : hinfos) (r : Z * list Z) : Prop :=
  chain hs (fst r) (snd r) (fst r)
  /\ forall p, p ∈ snd r ->
       qhi_stream_id (hinfo_at hs p) = qhi_stream_id (hinfo_at hs (fst r)).

Definition members (r : Z * list Z) : list Z := fst r :: snd r.

(** [rings]: the header infos at risk, ring by ring. *)
Record risk_wf (hs : hinfos) (rings : list (Z * list Z)) : Prop := {
  rk_rings : Forall (ring_ok hs) rings;
  rk_members : rings ≫= members ≡ₚ qpe_risked_hinfos hs;
  rk_nodup : NoDup (qpe_risked_hinfos hs);
  rk_count : qpe_cur_streams_at_risk hs = Z.of_nat (length rings);
}.

Record slots_wf (hs : hinfos) : Prop := {
  sl_u64 : Forall is_u64 (qpe_hinfo_arrs hs);
  sl_count : qpe_hinfo_arrs_count hs = Z.of_nat (length (qpe_hinfo_arrs hs));
  sl_all : forall p, p ∈ qpe_all_hinfos hs <-> allocated (qpe_hinfo_arrs hs) p;
  sl_nodup : NoDup (qpe_all_hinfos hs);
}.

Record hinfos_wf (hs : hinfos) : Prop := {
  hw_slots : slots_wf hs;
  hw_rings : exists rings, risk_wf hs rings;
  hw_risked : forall p, p ∈ qpe_risked_hinfos hs -> p ∈ qpe_all_hinfos hs;
  hw_self : forall p, p ∈ qpe_all_hinfos hs -> p ∉ qpe_risked_hinfos hs ->
              qhi_same_stream_id (hinfo_at hs p) = p;
}.

(** *** Memory *)

Lemma hinfo_at_update f p hs q :
  hinfo_at (update_hinfo f p hs) q = if decide (q = p) then f (hinfo_at hs p) else hinfo_at hs q.
Proof.
  unfold update_hinfo, set_mem, hinfo_at at 1. cbn [hi_mem].
  destruct (decide (q = p)) as [->|E].
  - by rewrite lookup_insert_eq.
  - by rewrite lookup_insert_ne by done.
Qed.

(** *** Chains *)

Lemma chain_app hs l1 : forall a x l2 b,
  chain hs a (l1 ++ x :: l2) b <-> chain hs a l1 x /\ chain hs x l2 b.
Proof.
  induction l1 as [|y l1 IH]; intros a x l2 b; cbn [app chain]; [tauto|].
  rewrite IH. tauto.
Qed.

(** A chain depends on the links of its members only. *)
Lemma chain_ext hs hs' l : forall a b,
  (forall p, p ∈ a :: l -> qhi_same_stream_id (hinfo_at hs' p) = qhi_same_stream_id (hinfo_at hs p)) ->
  chain hs a l b -> chain hs' a l b.
Proof.
  induction l as [|x l IH]; intros a b Hext; cbn [chain].
  - by rewrite (Hext a) by (by left).
  - intros [H1 H2]. rewrite (Hext a) by (by left). split; [done|].
    apply IH; [|done]. intros p Hp. apply Hext. by right.
Qed.

Lemma ring_ext hs hs' r :
  (forall p, p ∈ members r -> qhi_same_stream_id (hinfo_at hs' p) = qhi_same_stream_id (hinfo_at hs p)
                           /\ qhi_stream_id (hinfo_at hs' p) = qhi_stream_id (hinfo_at hs p)) ->
  ring_ok hs r -> ring_ok hs' r.
Proof.
  destruct r as [a l]. unfold members, ring_ok. cbn [fst snd]. intros Hext [H1 H2]. split.
  - apply (chain_ext hs); [|done]. intros p Hp. by apply Hext.
  - intros p Hp. destruct (Hext a) as [_ ->]; [by left|].
    destruct (Hext p) as [_ ->]; [by right|]. by apply H2.
Qed.

(** Rings can be listed from any member. *)
Lemma ring_rotate hs r p :
  ring_ok hs r -> p ∈ members r ->
  exists l, ring_ok hs (p, l) /\ p :: l ≡ₚ members r.
Proof.
  destruct r as [a l]. unfold members, ring_ok. cbn [fst snd]. intros [H1 H2] Hp.
  apply elem_of_cons in Hp as [->|Hp]; [by exists l|].
  apply list_elem_of_split in Hp as (l1 & l2 & ->).
  exists (l2 ++ a :: l1). apply chain_app in H1 as [Ha Hpc]. split; [split|].
  - by apply chain_app.
  - assert (qhi_stream_id (hinfo_at hs p) = qhi_stream_id (hinfo_at hs a)) as Ep
      by (apply H2; set_solver).
    intros q Hq. rewrite Ep. apply elem_of_app in Hq as [Hq|Hq]; [apply H2; set_solver|].
    apply elem_of_cons in Hq as [->|Hq]; [done|apply H2; set_solver].
  - rewrite !app_comm_cons. rewrite (Permutation_app_comm (a :: l1)). done.
Qed.

(** The ring of a header info at risk can be put first and listed from it. *)
Lemma risk_wf_focus hs rings p :
  risk_wf hs rings -> p ∈ qpe_risked_hinfos hs ->
  exists l rings', risk_wf hs ((p, l) :: rings').
Proof.
  intros [Hr Hm Hn Hc] Hp. rewrite <- Hm in Hp.
  apply list_elem_of_bind in Hp as (r & Hpr & Hrin).
  apply list_elem_of_split in Hrin as (r1 & r2 & ->).
  apply Forall_app in Hr as [Hr1 [Hrr Hr2]%Forall_cons_1].
  destruct (ring_rotate hs r p Hrr Hpr) as (l & Hl & Hperm).
  exists l, (r1 ++ r2). constructor; [| |done|].
  - constructor; [done|]. by apply Forall_app.
  - rewrite <- Hm. rewrite bind_cons, !bind_app, bind_cons. unfold members at 1. cbn [fst snd].
    rewrite Hperm. apply Permutation_app_swap_app.
  - rewrite Hc, !length_app. cbn. rewrite length_app. lia.
Qed.

(** *** Removing from the list *)

Fixpoint last_of (a : Z) (l : list Z) : Z :=
  match l with [] => a | x :: l => last_of x l end.

Lemma last_of_elem l : forall a, last_of a l ∈ a :: l.
Proof.
  induction l as [|x l IH]; intros a; cbn [last_of]; [by left|].
  right. apply IH.
Qed.

Lemma ring_prev_last hs p l : forall a fuel,
  chain hs a l p -> p ∉ l -> (length l <= fuel)%nat ->
  ring_prev fuel hs a p = Some (last_of a l).
Proof.
  induction l as [|x l IH]; intros a fuel Hc Hp Hf; cbn [chain last_of] in *.
  - destruct fuel; cbn [ring_prev]; rewrite Hc, Z.eqb_refl; done.
  - destruct fuel as [|fuel]; [cbn in Hf; lia|]. destruct Hc as [Hx Hc].
    apply not_elem_of_cons in Hp as [Hpx Hp]. cbn [ring_prev]. rewrite Hx.
    destruct (Z.eqb_spec x p) as [E|_]; [by rewrite E in Hpx|].
    apply IH; [done|done|cbn in Hf; lia].
Qed.

(** Redirecting the last link of a chain. *)
Lemma chain_set_last hs c b l : forall a,
  chain hs a l b -> NoDup (a :: l) ->
  chain (update_hinfo (set_same c) (last_of a l) hs) a l c.
Proof.
  induction l as [|x l IH]; intros a Hc Hn; cbn [chain last_of] in *.
  - by rewrite hinfo_at_update, decide_True by done.
  - destruct Hc as [Hx Hc]. apply NoDup_cons in Hn as [Ha Hn]. split; [|by apply IH].
    rewrite hinfo_at_update, decide_False; [done|].
    intros ->. apply Ha, last_of_elem.
Qed.


Lemma filter_ne_id p (l : list Z) : p ∉ l -> filter (fun q => q <> p) l = l.
Proof.
  induction l as [|x l IH]; [done|]. intros [H1 H2]%not_elem_of_cons.
  rewrite filter_cons_True by done. by rewrite IH.
Qed.

Lemma filter_ne_perm p (l l' : list Z) :
  l ≡ₚ p :: l' -> NoDup l -> filter (fun q => q <> p) l ≡ₚ l'.
Proof.
  intros Hp Hn. rewrite Hp in *. apply NoDup_cons in Hn as [Hp' _].
  rewrite filter_cons_False by tauto. by rewrite filter_ne_id.
Qed.

(** Links may differ, everything else is the same. *)
Definition same_but_links (h h' : header_info) : Prop := set_same 0 h' = set_same 0 h.

Lemma same_but_links_fields h h' :
  same_but_links h h' ->
  qhi_stream_id h' = qhi_stream_id h /\ qhi_seqno h' = qhi_seqno h
  /\ qhi_bytes_inserted h' = qhi_bytes_inserted h
  /\ qhi_min_id h' = qhi_min_id h /\ qhi_max_id h' = qhi_max_id h.
Proof. unfold same_but_links, set_same. intros [=]. auto. Qed.

Lemma same_but_links_set q h : same_but_links h (set_same q h).
Proof. done. Qed.

(** A change of the lists and links of header infos at risk. *)
Record risk_change (hs hs' : hinfos) : Prop := {
  rc_arrs : qpe_hinfo_arrs hs' = qpe_hinfo_arrs hs;
  rc_count : qpe_hinfo_arrs_count hs' = qpe_hinfo_arrs_count hs;
  rc_all : qpe_all_hinfos hs' = qpe_all_hinfos hs;
  rc_fields : forall q, same_but_links (hinfo_at hs q) (hinfo_at hs' q);
}.

#[global] Instance risk_change_preorder : PreOrder risk_change.
Proof.
  split.
  - intros hs. constructor; done.
  - intros x y z [] []. constructor; unfold same_but_links in *; congruence.
Qed.

Lemma risk_change_slots hs hs' : risk_change hs hs' -> slots_wf hs -> slots_wf hs'.
Proof.
  intros [Ha Hc Hl _] []. constructor; by rewrite ?Ha, ?Hc, ?Hl.
Qed.

(** The links outside [l] are untouched. *)
Definition links_kept (hs hs' : hinfos) (l : list Z) : Prop :=
  forall q, q ∉ l -> hinfo_at hs' q = hinfo_at hs q.

Lemma rings_other hs hs' rings l :
  links_kept hs hs' l -> (forall q, q ∈ l -> q ∉ rings ≫= members) ->
  Forall (ring_ok hs) rings -> Forall (ring_ok hs') rings.
Proof.
  intros Hk Hn Hr. rewrite Forall_forall in *. intros r Hin. apply (ring_ext hs); [|by apply Hr].
  intros p Hp. rewrite Hk; [done|]. intros Hpl. apply (Hn p Hpl).
  apply list_elem_of_bind. eauto.
Qed.

Lemma remove_risked_eq p hs :
  p ∈ qpe_risked_hinfos hs ->
  qenc_remove_from_risked_list p hs =
  let risked := filter (fun q => q <> p) (qpe_risked_hinfos hs) in
  let next := qhi_same_stream_id (hinfo_at hs p) in
  if next =? p then
    if qpe_cur_streams_at_risk hs >? 0
    then Some (set_risked hs risked (u32 (qpe_cur_streams_at_risk hs - 1)))
    else None
  else
    prev ← ring_prev (64 * length (qpe_hinfo_arrs hs)) hs next p;
    Some (update_hinfo (set_same p) p
            (update_hinfo (set_same next) prev
               (set_risked hs risked (qpe_cur_streams_at_risk hs)))).
Proof.
  intros Hin. unfold qenc_remove_from_risked_list. rewrite tailq_remove_Some by done.
  destruct (qpe_risked_hinfos hs); [by apply elem_of_nil in Hin|done].
Qed.

(** Removing a header info that is at risk and linked to another. *)
Lemma unlink_ring hs p x l rings :
  risk_wf hs ((p, x :: l) :: rings) ->
  (length l <= 64 * length (qpe_hinfo_arrs hs))%nat ->
  exists hs', qenc_remove_from_risked_list p hs = Some hs'
    /\ qpe_risked_hinfos hs' = filter (fun q => q <> p) (qpe_risked_hinfos hs)
    /\ risk_wf hs' ((x, l) :: rings)
    /\ qhi_same_stream_id (hinfo_at hs' p) = p
    /\ links_kept hs hs' (p :: x :: l)
    /\ risk_change hs hs'.
Proof.
  intros [Hr Hm Hn Hc] Hlen. apply Forall_cons_1 in Hr as [[Hch Hst] Hr].
  cbn [fst snd chain] in Hch, Hst. destruct Hch as [Hx Hch].
  rewrite bind_cons in Hm. unfold members at 1 in Hm. cbn [fst snd] in Hm.
  assert (NoDup ((p :: x :: l) ++ (rings ≫= members))) as Hnd by (by rewrite Hm).
  pose proof Hnd as ([Hp Hnx]%NoDup_cons & _ & _)%NoDup_app.
  assert (p ∈ qpe_risked_hinfos hs) as Hin by (rewrite <- Hm; by left).
  set (hs1 := set_risked hs (filter (fun q => q <> p) (qpe_risked_hinfos hs))
                (qpe_cur_streams_at_risk hs)).
  set (hs2 := update_hinfo (set_same x) (last_of x l) hs1).
  exists (update_hinfo (set_same p) p hs2).
  assert (forall q, hinfo_at hs1 q = hinfo_at hs q) as E1 by done.
  assert (forall q, hinfo_at (update_hinfo (set_same p) p hs2) q
            = if decide (q = p) then set_same p (hinfo_at hs p)
              else if decide (q = last_of x l) then set_same x (hinfo_at hs (last_of x l))
              else hinfo_at hs q) as Hat.
  { intros q. unfold hs2. rewrite !hinfo_at_update, !E1.
    destruct (decide (q = p)) as [->|]; [|done].
    destruct (decide (p = last_of x l)) as [E|]; [|done].
    exfalso. apply Hp. rewrite E. apply last_of_elem. }
  split_and!.
  - rewrite remove_risked_eq by done. cbn zeta. rewrite Hx.
    destruct (Z.eqb_spec x p) as [->|_]; [exfalso; apply Hp; by left|].
    rewrite (ring_prev_last hs p l); [done|done| |done].
    intros H. apply Hp. by right.
  - done.
  - constructor.
    + constructor.
      * split; cbn [fst snd].
        -- apply (chain_ext hs2); [|apply (chain_set_last hs1 x p l x); [|done]].
           ++ intros q Hq. rewrite hinfo_at_update, decide_False; [done|].
              intros ->. by apply Hp.
           ++ by apply (chain_ext hs).
        -- intros q Hq. rewrite !Hat.
           assert (qhi_stream_id (hinfo_at hs q) = qhi_stream_id (hinfo_at hs x)) as Eq
             by (rewrite (Hst q) by (by right); by rewrite (Hst x) by (by left)).
           repeat case_decide; subst; cbn; try done; congruence.
      * apply (rings_other hs _ _ (p :: x :: l)); [|by apply NoDup_app in Hnd as (_ & Hd & _)|done].
        intros q Hq. rewrite Hat, !decide_False; [done| |].
        -- intros ->. apply Hq. right. apply last_of_elem.
        -- intros ->. apply Hq. by left.
    + rewrite bind_cons. unfold members at 1. cbn [fst snd].
      symmetry. apply filter_ne_perm; [|done]. by rewrite <- Hm.
    + by apply NoDup_filter.
    + done.
  - by rewrite Hat, decide_True by done.
  - intros q Hq. rewrite Hat, !decide_False; [done| |].
    + intros ->. apply Hq. right. apply last_of_elem.
    + intros ->. apply Hq. by left.
  - constructor; try done. intros q. rewrite Hat. repeat case_decide; subst; done.
Qed.

Lemma unlink_single hs p rings :
  risk_wf hs ((p, []) :: rings) -> Z.of_nat (length rings) < 2 ^ 32 ->
  exists hs', qenc_remove_from_risked_list p hs = Some hs'
    /\ qpe_risked_hinfos hs' = filter (fun q => q <> p) (qpe_risked_hinfos hs)
    /\ risk_wf hs' rings
    /\ (forall q, hinfo_at hs' q = hinfo_at hs q)
    /\ qhi_same_stream_id (hinfo_at hs p) = p
    /\ risk_change hs hs'.
Proof.
  intros [Hr Hm Hn Hc] Hlen. apply Forall_cons_1 in Hr as [[Hch _] Hr]. cbn [fst snd chain] in Hch.
  rewrite bind_cons in Hm. unfold members at 1 in Hm. cbn [fst snd app length] in Hm, Hc.
  assert (p ∈ qpe_risked_hinfos hs) as Hin by (rewrite <- Hm; by left).
  eexists. split.
  { rewrite remove_risked_eq by done. cbn zeta. rewrite Hch, Z.eqb_refl.
    destruct (Z.gtb_spec (qpe_cur_streams_at_risk hs) 0); [done|lia]. }
  split_and!; try done. constructor; cbn.
  - rewrite Forall_forall in *. intros r Hr'. by apply (ring_ext hs), Hr.
  - symmetry. by apply filter_ne_perm.
  - by apply NoDup_filter.
  - rewrite u32_id by ulia. lia.
Qed.

(** All header infos are in slots. *)
Lemma all_hinfos_bound hs : slots_wf hs ->
  (length (qpe_all_hinfos hs) <= 64 * length (qpe_hinfo_arrs hs))%nat.
Proof.
  intros [_ _ Hall Hn].
  assert (qpe_all_hinfos hs ⊆+ seqZ 0 (64 * Z.of_nat (length (qpe_hinfo_arrs hs)))) as Hs.
  { apply NoDup_submseteq; [done|]. intros p Hp. apply Hall in Hp as (Hp & slots & Hs & _).
    apply lookup_lt_Some in Hs. apply elem_of_seqZ. split; [lia|].
    assert (p / 64 < Z.of_nat (length (qpe_hinfo_arrs hs))) by lia. dlia. }
  apply submseteq_length in Hs. rewrite length_seqZ in Hs. lia.
Qed.

Lemma risked_bound hs rings :
  hinfos_wf hs -> risk_wf hs rings ->
  (length (rings ≫= members) <= 64 * length (qpe_hinfo_arrs hs))%nat.
Proof.
  intros [Hs _ Hsub _] [_ Hm Hn _]. rewrite Hm.
  etrans; [|by apply all_hinfos_bound]. apply submseteq_length, NoDup_submseteq; done.
Qed.

Lemma rings_le_members (rings : list (Z * list Z)) :
  (length rings <= length (rings ≫= members))%nat.
Proof.
  induction rings as [|r rings IH]; [done|]. rewrite bind_cons, length_app. cbn. lia.
Qed.

Definition arrs_bounded (hs : hinfos) : Prop := Z.of_nat (length (qpe_hinfo_arrs hs)) < 2 ^ 26.

Lemma elem_filter_ne (p q : Z) (l : list Z) : q ∈ filter (fun q => q <> p) l <-> q <> p /\ q ∈ l.
Proof. by rewrite list_elem_of_filter. Qed.

(** Taking a header info off the list of those at risk. *)
Lemma remove_risked_wf hs p :
  hinfos_wf hs -> arrs_bounded hs -> p ∈ qpe_risked_hinfos hs ->
  exists hs', qenc_remove_from_risked_list p hs = Some hs'
    /\ hinfos_wf hs'
    /\ qpe_risked_hinfos hs' = filter (fun q => q <> p) (qpe_risked_hinfos hs)
    /\ qpe_cur_streams_at_risk hs' <= qpe_cur_streams_at_risk hs
    /\ risk_change hs hs'.
Proof.
  intros Hwf Hb Hp. pose proof Hwf as [Hs [rings Hr] Hsub Hself].
  destruct (risk_wf_focus hs rings p Hr Hp) as (l & rings' & Hr').
  pose proof (risked_bound hs _ Hwf Hr') as Hlen. rewrite bind_cons, length_app in Hlen.
  pose proof (rings_le_members rings'). unfold arrs_bounded in Hb. change (2 ^ 26) with 67108864 in Hb.
  destruct l as [|x l].
  - destruct (unlink_single hs p rings' Hr') as (hs' & -> & Hrk & Hr2 & Hat & Hpp & Hch); [ulia|].
    exists hs'. split; [done|]. split_and!; try done.
    + constructor; [by apply (risk_change_slots hs)|eauto| |].
      * intros q. rewrite Hrk, elem_filter_ne, (rc_all _ _ Hch). intros [_ ?]. by apply Hsub.
      * intros q. rewrite Hrk, elem_filter_ne, (rc_all _ _ Hch), Hat. intros Hq Hq'.
        destruct (decide (q = p)) as [->|]; [done|]. apply Hself; [done|tauto].
    + rewrite (rk_count _ _ Hr2), (rk_count _ _ Hr'). cbn [length]. lia.
  - destruct (unlink_ring hs p x l rings' Hr') as (hs' & -> & Hrk & Hr2 & Hpp & Hk & Hch);
      [cbn in Hlen; lia|].
    exists hs'. split; [done|]. split_and!; try done.
    + constructor; [by apply (risk_change_slots hs)|eauto| |].
      * intros q. rewrite Hrk, elem_filter_ne, (rc_all _ _ Hch). intros [_ ?]. by apply Hsub.
      * intros q. rewrite Hrk, elem_filter_ne, (rc_all _ _ Hch). intros Hq Hq'.
        destruct (decide (q = p)) as [->|]; [done|].
        assert (q ∉ qpe_risked_hinfos hs) as Hnr by tauto.
        rewrite Hk; [by apply Hself|]. intros Hin. apply Hnr.
        rewrite <- (rk_members _ _ Hr'), bind_cons. apply elem_of_app. by left.
    + rewrite (rk_count _ _ Hr2), (rk_count _ _ Hr'). done.
Qed.

(** Dropping from the list those no longer at risk. *)
Lemma update_risked_wf max_acked ps : forall hs,
  hinfos_wf hs -> arrs_bounded hs -> NoDup ps ->
  (forall p, p ∈ ps -> p ∈ qpe_risked_hinfos hs) ->
  exists hs', update_risked max_acked ps hs = Some hs'
    /\ hinfos_wf hs'
    /\ (forall q, q ∈ qpe_risked_hinfos hs' <->
          q ∈ qpe_risked_hinfos hs
          /\ (q ∈ ps -> qenc_hinfo_at_risk max_acked (hinfo_at hs q) = true))
    /\ qpe_cur_streams_at_risk hs' <= qpe_cur_streams_at_risk hs
    /\ risk_change hs hs'.
Proof.
  induction ps as [|p ps IH]; intros hs Hwf Hb Hn Hin; cbn [update_risked].
  - exists hs. split; [done|]. split_and!; [done| |lia|reflexivity].
    intros q. split; [|tauto]. intros Hq. split; [done|]. intros []%elem_of_nil.
  - apply NoDup_cons in Hn as [Hp Hn].
    destruct (qenc_hinfo_at_risk max_acked (hinfo_at hs p)) eqn:Hrisk; cbn [mbind option_bind].
    + destruct (IH hs Hwf Hb Hn) as (hs' & -> & Hwf' & Hel & Hcur & Hch).
      { intros q Hq. apply Hin. by right. }
      exists hs'. split; [done|]. split_and!; try done. intros q. rewrite Hel, elem_of_cons.
      split; intros [H1 H2]; (split; [done|]).
      * intros [->|Hq]; auto.
      * auto.
    + destruct (remove_risked_wf hs p Hwf Hb) as (hs1 & -> & Hwf1 & Hrk1 & Hcur1 & Hch1).
      { apply Hin. by left. }
      cbn [mbind option_bind]. destruct (IH hs1) as (hs' & -> & Hwf' & Hel & Hcur & Hch).
      * done.
      * unfold arrs_bounded in *. by rewrite (rc_arrs _ _ Hch1).
      * done.
      * intros q Hq. rewrite Hrk1, elem_filter_ne. split; [by intros ->|].
        apply Hin. by right.
      * exists hs'. split; [done|]. split_and!; [done| |lia|by etrans].
        intros q. rewrite Hel, Hrk1, elem_filter_ne, elem_of_cons.
        pose proof (same_but_links_fields _ _ (rc_fields _ _ Hch1 q)) as (_ & _ & _ & _ & Emax).
        unfold qenc_hinfo_at_risk in *. rewrite Emax.
        split.
        -- intros [[Hqp Hq] H]. split; [done|]. intros [->|Hq']; [done|auto].
        -- intros [Hq H]. split; [split; [|done]|auto]. intros ->.
           rewrite H in Hrisk by (by left). done.
Qed.

Lemma update_risked_list_wf max_acked hs :
  hinfos_wf hs -> arrs_bounded hs ->
  exists hs', qenc_update_risked_list max_acked hs = Some hs'
    /\ hinfos_wf hs'
    /\ (forall q, q ∈ qpe_risked_hinfos hs' <->
          q ∈ qpe_risked_hinfos hs /\ qenc_hinfo_at_risk max_acked (hinfo_at hs q) = true)
    /\ qpe_cur_streams_at_risk hs' <= qpe_cur_streams_at_risk hs
    /\ risk_change hs hs'.
Proof.
  intros Hwf Hb. pose proof Hwf as [_ [rings Hr] _ _].
  destruct (update_risked_wf max_acked (qpe_risked_hinfos hs) hs Hwf Hb (rk_nodup _ _ Hr))
    as (hs' & Hs & Hwf' & Hel & Hcur & Hch); [done|].
  exists hs'. split; [done|]. split_and!; try done. intros q. rewrite Hel. tauto.
Qed.

(** *** Adding to the list *)

(** Linking [p], a ring of its own, behind [o]. *)
Lemma link_ring hs p o l rings :
  risk_wf hs ((o, l) :: rings) -> p ∉ qpe_risked_hinfos hs ->
  qhi_stream_id (hinfo_at hs p) = qhi_stream_id (hinfo_at hs o) ->
  exists hs', (forall max_risked, qenc_add_to_risked_list (Some o) max_risked p hs = Some hs')
    /\ qpe_risked_hinfos hs' = qpe_risked_hinfos hs ++ [p]
    /\ risk_wf hs' ((o, p :: l) :: rings)
    /\ links_kept hs hs' [o; p]
    /\ risk_change hs hs'.
Proof.
  intros [Hr Hm Hn Hc] Hp Hstream. apply Forall_cons_1 in Hr as [[Hch Hst] Hr].
  cbn [fst snd] in Hch, Hst. rewrite bind_cons in Hm. unfold members at 1 in Hm.
  cbn [fst snd] in Hm.
  assert (NoDup ((o :: l) ++ (rings ≫= members))) as Hnd by (by rewrite Hm).
  pose proof Hnd as ([Ho _]%NoDup_cons & _ & _)%NoDup_app.
  assert (forall q, q ∈ (o :: l) ++ (rings ≫= members) -> q <> p) as Hne.
  { intros q Hq ->. apply Hp. by rewrite <- Hm. }
  assert (o <> p) as Hop by (apply Hne; by left).
  eexists. split; [intros; reflexivity|].
  match goal with |- context [links_kept hs ?h _] => set (hs' := h) end.
  assert (forall q, hinfo_at hs' q
            = if decide (q = o) then set_same p (hinfo_at hs o)
              else if decide (q = p)
                   then set_same (qhi_same_stream_id (hinfo_at hs o)) (hinfo_at hs p)
                   else hinfo_at hs q) as Hat.
  { intros q. unfold hs'. rewrite !hinfo_at_update. rewrite (decide_False (P := o = p)) by done. done. }
  split_and!; [done| | |].
  - constructor.
    + constructor.
      * split; cbn [fst snd chain].
        -- rewrite Hat, decide_True by done. split; [done|].
           destruct l as [|x l]; cbn [chain] in *.
           ++ rewrite Hat, decide_False, decide_True by done. done.
           ++ destruct Hch as [Hx Hch]. rewrite Hat, decide_False, decide_True by done.
              split; [done|]. apply (chain_ext hs); [|done]. intros q Hq.
              rewrite Hat, !decide_False; [done| |].
              ** apply Hne, elem_of_app. left. by right.
              ** intros ->. by apply Ho.
        -- intros q Hq. rewrite !Hat, (decide_True (P := o = o)) by done. cbn [set_same qhi_stream_id].
           apply elem_of_cons in Hq as [->|Hq].
           ++ rewrite decide_False, decide_True by done. done.
           ++ rewrite !decide_False; [by apply Hst| |].
              ** apply Hne, elem_of_app. left. by right.
              ** intros ->. by apply Ho.
      * apply (rings_other hs _ _ [o; p]); [|intros q Hq Hq'|done].
        -- intros q Hq. rewrite Hat, !decide_False; [done| |]; intros ->; apply Hq; set_solver.
        -- apply elem_of_cons in Hq as [->|Hq].
           ++ apply NoDup_app in Hnd as (_ & Hd & _). apply (Hd o); [by left|done].
           ++ apply list_elem_of_singleton in Hq as ->. apply (Hne p); [|done].
              apply elem_of_app. by right.
    + change (qpe_risked_hinfos hs') with (qpe_risked_hinfos hs ++ [p]).
      rewrite bind_cons. unfold members at 1. cbn [fst snd]. rewrite <- Hm.
      rewrite (Permutation_app_comm _ [p]). cbn. by constructor.
    + apply NoDup_app. split_and!; [done| |apply NoDup_singleton].
      intros q Hq ->%list_elem_of_singleton. done.
    + done.
  - intros q Hq. rewrite Hat, !decide_False; [done| |]; intros ->; apply Hq; set_solver.
  - constructor; try done. intros q. rewrite Hat. repeat case_decide; subst; done.
Qed.

(** [p] is a header info not at risk yet; [other] is one at risk on the same
    stream, or there is room for one more stream. *)
Lemma add_risked_wf hs p other max_risked :
  hinfos_wf hs -> arrs_bounded hs -> p ∈ qpe_all_hinfos hs -> p ∉ qpe_risked_hinfos hs ->
  match other with
  | Some o => o ∈ qpe_risked_hinfos hs
              /\ qhi_stream_id (hinfo_at hs p) = qhi_stream_id (hinfo_at hs o)
  | None => qpe_cur_streams_at_risk hs < max_risked
  end ->
  exists hs', qenc_add_to_risked_list other max_risked p hs = Some hs'
    /\ hinfos_wf hs'
    /\ qpe_risked_hinfos hs' = qpe_risked_hinfos hs ++ [p]
    /\ qpe_cur_streams_at_risk hs'
       = qpe_cur_streams_at_risk hs + (match other with Some _ => 0 | None => 1 end)
    /\ risk_change hs hs'.
Proof.
  intros Hwf Hb Hall Hp Hother. pose proof Hwf as [Hs [rings Hr] Hsub Hself].
  destruct other as [o|].
  - destruct Hother as [Ho Hst]. destruct (risk_wf_focus hs rings o Hr Ho) as (l & rings' & Hr').
    destruct (link_ring hs p o l rings' Hr' Hp Hst) as (hs' & He & Hrk & Hr2 & Hk & Hch).
    exists hs'. split; [done|]. split_and!; try done.
    + constructor; [by apply (risk_change_slots hs)|eauto| |].
      * intros q. rewrite Hrk, (rc_all _ _ Hch). intros [Hq| ->%list_elem_of_singleton]%elem_of_app;
          [by apply Hsub|done].
      * intros q. rewrite Hrk, (rc_all _ _ Hch), not_elem_of_app. intros Hq [Hq1 Hq2].
        rewrite Hk; [by apply Hself|]. intros [->|H]%elem_of_cons; done.
    + rewrite (rk_count _ _ Hr2), (rk_count _ _ Hr'). cbn [length]. lia.
  - pose proof (risked_bound hs _ Hwf Hr). pose proof (rings_le_members rings).
    pose proof (rk_count _ _ Hr) as Hc. unfold arrs_bounded in Hb. change (2 ^ 26) with 67108864 in Hb.
    eexists. split.
    { unfold qenc_add_to_risked_list. cbn [set_risked qpe_cur_streams_at_risk].
      rewrite u32_id by ulia. destruct (Z.leb_spec (qpe_cur_streams_at_risk hs + 1) max_risked);
        [reflexivity|lia]. }
    split_and!; try done. constructor; cbn.
    + constructor; apply Hs.
    + exists ((p, []) :: rings). constructor; cbn [qpe_risked_hinfos qpe_cur_streams_at_risk set_risked].
      * constructor.
        -- split; [|by intros ? ?%elem_of_nil]. cbn. by apply Hself.
        -- eapply Forall_impl; [apply (rk_rings _ _ Hr)|]. intros r. by apply ring_ext.
      * rewrite bind_cons. unfold members at 1. cbn. rewrite (rk_members _ _ Hr).
        apply Permutation_cons_append.
      * apply NoDup_app. split_and!; [apply (rk_nodup _ _ Hr)| |apply NoDup_singleton].
        intros q Hq ->%list_elem_of_singleton. done.
      * cbn [length]. lia.
    + intros q [Hq| ->%list_elem_of_singleton]%elem_of_app; [by apply Hsub|done].
    + intros q Hq Hq'. rewrite not_elem_of_app in Hq'. apply Hself; tauto.
Qed.

(** *** Changing a header info's other members *)

Lemma update_fields_wf f p hs :
  hinfos_wf hs ->
  (forall h, qhi_same_stream_id (f h) = qhi_same_stream_id h) ->
  (p ∈ qpe_risked_hinfos hs -> forall h, qhi_stream_id (f h) = qhi_stream_id h) ->
  hinfos_wf (update_hinfo f p hs).
Proof.
  intros [Hs [rings Hr] Hsub Hself] Hsame Hstream. constructor.
  - constructor; apply Hs.
  - exists rings. constructor; try apply Hr. pose proof (rk_rings _ _ Hr) as HF.
    rewrite Forall_forall in *. intros r Hin. apply (ring_ext hs); [|by apply HF].
    intros q Hq. rewrite hinfo_at_update. case_decide; [subst q|done].
    split; [apply Hsame|]. apply Hstream. rewrite <- (rk_members _ _ Hr).
    apply list_elem_of_bind. eauto.
  - exact Hsub.
  - intros q Hq Hq'. rewrite hinfo_at_update. case_decide; [|by apply Hself].
    subst q. rewrite Hsame. by apply Hself.
Qed.

(** *** Allocating and freeing *)

Lemma take_slot_wf i slots hs :
  hinfos_wf hs -> qpe_hinfo_arrs hs !! i = Some slots -> slots <> ALL_SLOTS ->
  let '(p, hs') := take_slot i slots hs in
  hinfos_wf hs'
  /\ (p ∉ qpe_all_hinfos hs)
  /\ qpe_all_hinfos hs' = qpe_all_hinfos hs ++ [p]
  /\ qpe_risked_hinfos hs' = qpe_risked_hinfos hs
  /\ qpe_cur_streams_at_risk hs' = qpe_cur_streams_at_risk hs
  /\ hinfo_at hs' p = zero_hinfo p
  /\ (forall q, q <> p -> hinfo_at hs' q = hinfo_at hs q)
  /\ length (qpe_hinfo_arrs hs') = length (qpe_hinfo_arrs hs).
Proof.
  intros Hwf Hi Hfull. pose proof Hwf as [[Hu Hcnt Hall Hnd] [rings Hr] Hsub Hself].
  assert (is_u64 slots) as Hslots by (rewrite Forall_forall in Hu; apply Hu, list_elem_of_lookup; eauto).
  destruct (find_free_slot_spec slots Hslots Hfull) as (Hrange & Hclear & _).
  unfold take_slot. set (slot := find_free_slot slots) in *.
  clearbody slot. set (p := 64 * Z.of_nat i + slot).
  assert (p / 64 = Z.of_nat i /\ p mod 64 = slot) as [Hdiv Hmod] by (unfold p; dlia).
  assert (p ∉ qpe_all_hinfos hs) as Hfresh.
  { rewrite Hall. intros (_ & s & Hs & Ht). rewrite Hdiv, Nat2Z.id, Hi in Hs. simplify_eq.
    rewrite Hmod, Hclear in Ht. done. }
  match goal with |- hinfos_wf ?h /\ _ => set (hs' := h) end.
  assert (forall q, q <> p -> hinfo_at hs' q = hinfo_at hs q) as Hat.
  { intros q Hq. unfold hinfo_at, hs'. cbn. by rewrite lookup_insert_ne by done. }
  assert (hinfo_at hs' p = zero_hinfo p) as Hp.
  { unfold hinfo_at, hs'. cbn. by rewrite lookup_insert_eq. }
  assert (forall q, q ∈ qpe_risked_hinfos hs -> q <> p) as Hrne.
  { intros q Hq ->. by apply Hfresh, Hsub. }
  split_and!; try done; [|by cbn; rewrite length_insert].
  constructor.
  - constructor; cbn.
    + apply Forall_insert; [done|]. rewrite Z.shiftl_1_l.
      apply (lor_range _ _ 64); [exact Hslots|]. split; [lia|]. apply Z.pow_lt_mono_r; lia.
    + by rewrite length_insert.
    + intros q. rewrite elem_of_app, Hall, list_elem_of_singleton. unfold allocated.
      rewrite list_lookup_insert. split.
      * intros [(Hq & s & Hs & Ht)| ->].
        -- split; [done|]. case_decide as E; [|eauto].
           exists (Z.lor slots (Z.shiftl 1 slot)). split; [done|].
           destruct E as [E _]. rewrite <- E, Hi in Hs. injection Hs as <-. by rewrite Z.lor_spec, Ht.
        -- split; [lia|]. rewrite Hdiv, Nat2Z.id, Hmod. rewrite decide_True.
           ++ eexists. split; [done|]. rewrite Z.lor_spec, Z.shiftl_1_l, Z.pow2_bits_true by lia.
              apply orb_true_r.
           ++ split; [done|]. by apply lookup_lt_Some in Hi.
      * intros (Hq & s & Hs & Ht). case_decide as E; [|left; eauto].
        destruct E as [E _]. injection Hs as <-.
        rewrite Z.lor_spec, Z.shiftl_1_l, Z.pow2_bits_eqb in Ht by lia.
        destruct (Z.testbit slots (q mod 64)) eqn:Hb; [left; split; [done|]; exists slots|right].
        -- by rewrite <- E.
        -- cbn in Ht. apply Z.eqb_eq in Ht. unfold p. dlia.
    + apply NoDup_app. split_and!; [done| |apply NoDup_singleton].
      intros q Hq ->%list_elem_of_singleton. done.
  - exists rings. constructor; try apply Hr.
    apply (rings_other hs hs' rings [p]); [| |apply (rk_rings _ _ Hr)].
    + intros q Hq. apply Hat. intros ->. apply Hq. by left.
    + intros q ->%list_elem_of_singleton Hq. rewrite (rk_members _ _ Hr) in Hq. by apply (Hrne p).
  - intros q Hq. cbn. apply elem_of_app. left. by apply Hsub.
  - intros q Hq Hq'. cbn in Hq. apply elem_of_app in Hq as [Hq| ->%list_elem_of_singleton];
      [|by rewrite Hp].
    rewrite Hat; [by apply Hself|]. by intros ->.
Qed.

Lemma find_arr_spec arrs : forall k,
  match find_arr arrs k with
  | Some (i, slots) => (k <= i)%nat /\ arrs !! (i - k)%nat = Some slots /\ slots <> ALL_SLOTS
  | None => True
  end.
Proof.
  induction arrs as [|s arrs IH]; intros k; cbn [find_arr]; [done|].
  destruct (Z.eqb_spec s ALL_SLOTS) as [E|E].
  - specialize (IH (S k)). destruct (find_arr arrs (S k)) as [[i slots]|]; [|done].
    destruct IH as (H1 & H2 & H3). split_and!; [lia| |done].
    replace (i - k)%nat with (S (i - S k)) by lia. done.
  - split_and!; [lia| |done]. by rewrite Nat.sub_diag.
Qed.

Lemma risk_wf_mem hs hs' rings :
  hi_mem hs' = hi_mem hs -> qpe_risked_hinfos hs' = qpe_risked_hinfos hs ->
  qpe_cur_streams_at_risk hs' = qpe_cur_streams_at_risk hs ->
  risk_wf hs rings -> risk_wf hs' rings.
Proof.
  intros Hm Hr Hc [H1 H2 H3 H4]. constructor; rewrite ?Hr, ?Hc; try done.
  apply (rings_other hs hs' rings []); [|by intros ? ?%elem_of_nil|done].
  intros q _. unfold hinfo_at. by rewrite Hm.
Qed.

(** A new array with all its slots free. *)
Lemma add_arr_wf hs :
  hinfos_wf hs -> Z.of_nat (length (qpe_hinfo_arrs hs)) < 2 ^ 32 - 1 ->
  hinfos_wf {| qpe_hinfo_arrs := qpe_hinfo_arrs hs ++ [0];
               qpe_hinfo_arrs_count := u32 (qpe_hinfo_arrs_count hs + 1);
               hi_mem := hi_mem hs;
               qpe_all_hinfos := qpe_all_hinfos hs;
               qpe_risked_hinfos := qpe_risked_hinfos hs;
               qpe_cur_streams_at_risk := qpe_cur_streams_at_risk hs |}.
Proof.
  intros [[Hu Hcnt Hall Hnd] [rings Hr] Hsub Hself] Hlen. constructor; try done.
  - constructor; cbn; try done.
    + apply Forall_app. split; [done|]. constructor; [unfold is_u64; lia|done].
    + rewrite length_app, Hcnt, u32_id by ulia. cbn. lia.
    + intros p. rewrite Hall. unfold allocated. split; intros (Hp & s & Hs & Ht);
        (split; [done|]); exists s; (split; [|done]).
      * by apply lookup_app_l_Some.
      * apply lookup_app_Some in Hs as [Hs|[_ Hs]]; [done|].
        apply list_lookup_singleton_Some in Hs as [_ <-]. by rewrite Z.bits_0 in Ht.
  - exists rings. by apply (risk_wf_mem hs).
Qed.

(** The new header info and what stays the same. *)
Record alloc_ok (hs hs' : hinfos) (p : Z) : Prop := {
  al_wf : hinfos_wf hs';
  al_fresh : p ∉ qpe_all_hinfos hs;
  al_all : qpe_all_hinfos hs' = qpe_all_hinfos hs ++ [p];
  al_risked : qpe_risked_hinfos hs' = qpe_risked_hinfos hs;
  al_cur : qpe_cur_streams_at_risk hs' = qpe_cur_streams_at_risk hs;
  al_new : hinfo_at hs' p = zero_hinfo p;
  al_old : forall q, q <> p -> hinfo_at hs' q = hinfo_at hs q;
  al_arrs : (length (qpe_hinfo_arrs hs') <= S (length (qpe_hinfo_arrs hs)))%nat;
}.

Lemma alloc_hinfo_wf ms no_guard cap hs :
  hinfos_wf hs -> Z.of_nat (length (qpe_hinfo_arrs hs)) < 2 ^ 32 - 1 ->
  match enc_alloc_hinfo ms no_guard cap hs with
  | (Some p, hs', _) => alloc_ok hs hs' p
  | (None, hs', _) => hs' = hs
  end.
Proof.
  intros Hwf Hlen. unfold enc_alloc_hinfo. pose proof (find_arr_spec (qpe_hinfo_arrs hs) 0) as Hf.
  destruct (find_arr (qpe_hinfo_arrs hs) 0) as [[i slots]|].
  - destruct Hf as (_ & Hi & Hne). rewrite Nat.sub_0_r in Hi.
    pose proof (take_slot_wf i slots hs Hwf Hi Hne) as Ht.
    destruct (take_slot i slots hs) as [p hs'].
    destruct Ht as (H1 & H2 & H3 & H4 & H5 & H6 & H7 & H8). constructor; try done. lia.
  - destruct (negb no_guard && _); [done|]. destruct (malloc ms) as [[mem|] ms']; [|done].
    pose proof (add_arr_wf hs Hwf Hlen) as Hwf1.
    pose proof (take_slot_wf (length (qpe_hinfo_arrs hs)) 0 _ Hwf1) as Ht.
    cbn [qpe_hinfo_arrs] in Ht. specialize (Ht ltac:(by rewrite lookup_app_r, Nat.sub_diag) ltac:(done)).
    destruct (take_slot _ _ _) as [p hs'].
    destruct Ht as (H1 & H2 & H3 & H4 & H5 & H6 & H7 & H8). constructor; try done.
    rewrite H8, length_app. cbn. lia.
Qed.

(** Freeing a header info that is not at risk. *)
Lemma free_hinfo_wf hs p :
  hinfos_wf hs -> p ∈ qpe_all_hinfos hs -> p ∉ qpe_risked_hinfos hs ->
  exists hs', enc_free_hinfo p hs = Some hs'
    /\ hinfos_wf hs'
    /\ qpe_all_hinfos hs' = filter (fun q => q <> p) (qpe_all_hinfos hs)
    /\ qpe_risked_hinfos hs' = qpe_risked_hinfos hs
    /\ qpe_cur_streams_at_risk hs' = qpe_cur_streams_at_risk hs
    /\ (forall q, hinfo_at hs' q = hinfo_at hs q)
    /\ length (qpe_hinfo_arrs hs') = length (qpe_hinfo_arrs hs).
Proof.
  intros [[Hu Hcnt Hall Hnd] [rings Hr] Hsub Hself] Hp Hrisk.
  pose proof Hp as (Hp0 & slots & Hs & Ht)%Hall.
  unfold enc_free_hinfo. rewrite Hs. cbn [mbind option_bind]. rewrite tailq_remove_Some by done.
  cbn [mbind option_bind]. eexists. split; [reflexivity|].
  assert (is_u64 slots) as Hslots by (rewrite Forall_forall in Hu; apply Hu, list_elem_of_lookup; eauto).
  assert (0 <= p mod 64 < 64) as Hm by (apply Z.mod_pos_bound; lia).
  set (mask := u64 (Z.lnot (Z.shiftl 1 (p mod 64)))).
  assert (forall k, 0 <= k -> Z.testbit (Z.land slots mask) k
            = Z.testbit slots k && negb (k =? p mod 64)) as Hbits.
  { intros k Hk. rewrite Z.land_spec. unfold mask, u64.
    destruct (Z.lt_ge_cases k 64).
    - rewrite Z.mod_pow2_bits_low, Z.lnot_spec, Z.shiftl_1_l, Z.pow2_bits_eqb by lia.
      by rewrite (Z.eqb_sym k).
    - by rewrite (testbit_high slots 64 k) by (unfold is_u64 in *; lia). }
  split_and!; try done; [|cbn; by rewrite length_insert].
  constructor; cbn [qpe_hinfo_arrs qpe_all_hinfos qpe_risked_hinfos].
  - constructor; cbn [qpe_hinfo_arrs qpe_all_hinfos qpe_risked_hinfos qpe_hinfo_arrs_count].
    + apply Forall_insert; [done|]. apply (land_range _ _ 64); [lia|exact Hslots].
    + by rewrite length_insert.
    + intros q. rewrite elem_filter_ne, Hall. unfold allocated. rewrite list_lookup_insert.
      split.
      * intros (Hqp & Hq & s & Hs' & Ht'). split; [done|]. case_decide as E; [|eauto].
        destruct E as [E _]. rewrite <- E, Hs in Hs'. injection Hs' as <-. eexists. split; [done|].
        rewrite Hbits by (apply Z.mod_pos_bound; lia). rewrite Ht'. cbn.
        destruct (Z.eqb_spec (q mod 64) (p mod 64)); [|done]. exfalso. apply Hqp. dlia.
      * intros (Hq & s & Hs' & Ht'). case_decide as E.
        -- destruct E as [E _]. injection Hs' as <-.
           rewrite Hbits in Ht' by (apply Z.mod_pos_bound; lia).
           apply andb_true_iff in Ht' as [Ht1 Ht2%negb_true_iff%Z.eqb_neq].
           split; [by intros ->|]. split; [done|]. exists slots. by rewrite <- E.
        -- split; [|eauto]. intros ->. apply E. split; [done|]. by apply lookup_lt_Some in Hs.
    + by apply NoDup_filter.
  - exists rings. by apply (risk_wf_mem hs).
  - intros q Hq. apply elem_filter_ne. split; [|by apply Hsub]. by intros ->.
  - intros q [_ Hq]%elem_filter_ne Hq'. by apply Hself.
Qed.

Lemma no_hinfos_wf : hinfos_wf no_hinfos.
Proof.
  constructor; cbn.
  - constructor; cbn; try done.
    + intros p. split; [by intros ?%elem_of_nil|]. intros (_ & s & Hs & _).
      by rewrite lookup_nil in Hs.
    + constructor.
  - exists []. constructor; cbn; try done. constructor.
  - by intros p ?%elem_of_nil.
  - by intros p ?%elem_of_nil.
Qed.
