(* ===== verification/Float.v ===== *)
(** * Floating-point arithmetic of the encoder's heuristics

    The encoder keeps exponential moving averages and compares fill ratios in
    [float] and [double].  The arithmetic is IEEE 754 with rounding to nearest
    even, each operation rounded to its own type ([FLT_EVAL_METHOD] 0), on the
    Standard Library's executable specification of binary floating point.

    Models [update_ema] of src/lsqpack.c and the conversions the encoder uses. *)

From Stdlib Require Import SpecFloat.
From S2P Require Import Prelude.

Definition float := spec_float.

Definition f32_prec : Z := 24.
Definition f32_emax : Z := 128.
Definition f64_prec : Z := 53.
Definition f64_emax : Z := 1024.

(** Rounding a finite value to a format. *)
Definition to_format (prec emax : Z) (x : spec_float) : spec_float :=
  match x with
  | S754_finite s m e => binary_normalize prec emax (if s then Zneg m else Zpos m) e s
  | _ => x
  end.

Definition f32_of_f64 : float -> float := to_format f32_prec f32_emax.
Definition f64_of_f32 : float -> float := to_format f64_prec f64_emax.

(** Conversion of an [unsigned]. *)
Definition f32_of_Z (z : Z) : float := binary_normalize f32_prec f32_emax z 0 false.
Definition f64_of_Z (z : Z) : float := binary_normalize f64_prec f64_emax z 0 false.

Definition f32_zero : float := S754_zero false.

Definition f32_sub : float -> float -> float := SFsub f32_prec f32_emax.
Definition f32_mul : float -> float -> float := SFmul f32_prec f32_emax.
Definition f32_div : float -> float -> float := SFdiv f32_prec f32_emax.
Definition f64_add : float -> float -> float := SFadd f64_prec f64_emax.
Definition f64_mul : float -> float -> float := SFmul f64_prec f64_emax.
Definition f64_div : float -> float -> float := SFdiv f64_prec f64_emax.

(** The decimal constants: quotients of integers, correctly rounded. *)
Definition f64_lit (num den : Z) : float := f64_div (f64_of_Z num) (f64_of_Z den).
Definition f32_lit (num den : Z) : float := f32_div (f32_of_Z num) (f32_of_Z den).

(** Comparisons of values of one format; a NaN compares false. *)
Definition fltb (x y : float) : bool :=
  match SFcompare x y with Some Lt => true | _ => false end.
Definition fgeb (x y : float) : bool :=
  match SFcompare x y with Some (Gt | Eq) => true | _ => false end.
Definition fgtb (x y : float) : bool := fltb y x.

(** [if (x)] *)
Definition f_nonzero (x : float) : bool :=
  match x with S754_zero _ => false | _ => true end.

Definition fabsf (x : float) : float := SFabs x.

(** [(unsigned) round(x)] of a non-negative [x]: to the nearest integer, halves
    away from zero. *)
Definition unsigned_round (x : float) : Z :=
  match x with
  | S754_finite false m e =>
      if 0 <=? e then u32 (Z.shiftl (Zpos m) e)
      else u32 (Z.shiftr (Zpos m + Z.shiftl 1 (- e - 1)) (- e))
  | _ => 0
  end.

(** [(int) x] of a non-negative [x]. *)
Definition int_trunc (x : float) : Z :=
  match x with
  | S754_finite false m e => u32 (Z.shiftl (Zpos m) e)
  | _ => 0
  end.

(** [*val = (float)((new - *val) * 0.4 + *val)], or the first sample. *)
Definition update_ema (val : float) (new : Z) : float :=
  if f_nonzero val then
    let d := f64_of_f32 (f32_sub (f32_of_Z new) val) in
    f32_of_f64 (f64_add (f64_mul d (f64_lit 2 5)) (f64_of_f32 val))
  else f32_of_Z new.

Example update_ema_first : update_ema f32_zero 10 = f32_of_Z 10.
Proof. reflexivity. Qed.

Example update_ema_second : unsigned_round (update_ema (f32_of_Z 10) 20) = 14.
Proof. reflexivity. Qed.

Example round_half : unsigned_round (f32_lit 5 2) = 3.
Proof. reflexivity. Qed.

Example ratio_above : fgtb (f64_of_f32 (f32_div (f32_of_Z 96) (f32_of_Z 100))) (f64_lit 19 20) = true.
Proof. reflexivity. Qed.
