(* ===== verification/EncState.v ===== *)
(** * The encoder's state

    [struct lsqpack_enc] of src/lsqpack.h, put together from the dynamic table
    ([EncTable]), the history ([History]) and the header infos ([EncHinfo]), with
    [lsqpack_enc_preinit] and [lsqpack_enc_init]. *)

From S2P Require Import Prelude Monad IntCodec History EncTable EncHinfo Float.

(** The anonymous structure [qpe_cur_header]; a pointer is [None] for NULL. *)
Record cur_header := {
  ch_hinfo : option Z;
  ch_other_at_risk : option Z;
  ch_n_hdr_added_to_hist : Z;
  ch_min_reffed : Z;
  ch_flags : Z;
  ch_base_idx : Z;
}.

(** [enc->qpe_dec_stream_state.handler] *)
Inductive dec_handler := enc_proc_header_ack_h | enc_proc_ici_h | enc_proc_stream_cancel_h.

Record dec_stream_state := {
  dss_dec_int_state : dec_int_state;
  dss_handler : option dec_handler;
}.

(** [struct lsqpack_enc].  [qpe_mallocs] is not a member of it: it is the oracle
    of allocation outcomes. *)
Record lsqpack_enc := {
  qpe_table : enc_table;
  qpe_hist : history;
  qpe_hinfos : hinfos;
  qpe_max_acked_id : Z;
  qpe_last_ici : Z;
  qpe_flags : Z;
  qpe_real_max_capacity : Z;
  qpe_max_entries : Z;
  qpe_max_risked_streams : Z;
  qpe_cur_header : cur_header;
  qpe_dec_stream_state : dec_stream_state;
  qpe_bytes_in : Z;
  qpe_bytes_out : Z;
  qpe_table_nelem_ema : float;
  qpe_header_count_ema : float;
  qpe_mallocs : mallocs;
}.

(** [enum] values of src/lsqpack.h *)
Definition LSQPACK_ENC_HEADER : Z := 1.
Definition LSQPACK_ENC_USE_DUP : Z := 2.
Definition LSQPACK_ENC_NO_MEM_GUARD : Z := 4.
Definition LSQPACK_ENC_OPT_STAGE_2 : Z := 2.
Definition LSQPACK_ENC_OPT_NO_DUP : Z := 4.
Definition LSQPACK_ENC_OPT_IX_AGGR : Z := 8.
Definition LSQPACK_ENC_OPT_NO_MEM_GUARD : Z := 16.
Definition LSQECH_REF_AT_RISK : Z := 1.
Definition LSQECH_REF_NEW_ENTRIES : Z := 2.
Definition LSQECH_MINREF_CACHED : Z := 4.
Definition LSQPACK_MAX_ABS_ID : Z := 2 ^ 32 - 1.
Definition LSQPACK_DEF_DYN_TABLE_SIZE : Z := 0.
Definition MAX_QUIC_STREAM_ID : Z := 2 ^ 62 - 1.
Definition GUESS_N_HEADER_FIELDS : Z := 12.

(** ** Assignments to the members *)

Definition set_table (v : enc_table) (enc : lsqpack_enc) : lsqpack_enc :=
  {| qpe_table := v; qpe_hist := qpe_hist enc; qpe_hinfos := qpe_hinfos enc;
     qpe_max_acked_id := qpe_max_acked_id enc; qpe_last_ici := qpe_last_ici enc;
     qpe_flags := qpe_flags enc; qpe_real_max_capacity := qpe_real_max_capacity enc;
     qpe_max_entries := qpe_max_entries enc;
     qpe_max_risked_streams := qpe_max_risked_streams enc;
     qpe_cur_header := qpe_cur_header enc; qpe_dec_stream_state := qpe_dec_stream_state enc;
     qpe_bytes_in := qpe_bytes_in enc; qpe_bytes_out := qpe_bytes_out enc;
     qpe_table_nelem_ema := qpe_table_nelem_ema enc;
     qpe_header_count_ema := qpe_header_count_ema enc; qpe_mallocs := qpe_mallocs enc |}.

Definition set_hist (v : history) (enc : lsqpack_enc) : lsqpack_enc :=
  {| qpe_table := qpe_table enc; qpe_hist := v; qpe_hinfos := qpe_hinfos enc;
     qpe_max_acked_id := qpe_max_acked_id enc; qpe_last_ici := qpe_last_ici enc;
     qpe_flags := qpe_flags enc; qpe_real_max_capacity := qpe_real_max_capacity enc;
     qpe_max_entries := qpe_max_entries enc;
     qpe_max_risked_streams := qpe_max_risked_streams enc;
     qpe_cur_header := qpe_cur_header enc; qpe_dec_stream_state := qpe_dec_stream_state enc;
     qpe_bytes_in := qpe_bytes_in enc; qpe_bytes_out := qpe_bytes_out enc;
     qpe_table_nelem_ema := qpe_table_nelem_ema enc;
     qpe_header_count_ema := qpe_header_count_ema enc; qpe_mallocs := qpe_mallocs enc |}.

Definition set_hinfos (v : hinfos) (enc : lsqpack_enc) : lsqpack_enc :=
  {| qpe_table := qpe_table enc; qpe_hist := qpe_hist enc; qpe_hinfos := v;
     qpe_max_acked_id := qpe_max_acked_id enc; qpe_last_ici := qpe_last_ici enc;
     qpe_flags := qpe_flags enc; qpe_real_max_capacity := qpe_real_max_capacity enc;
     qpe_max_entries := qpe_max_entries enc;
     qpe_max_risked_streams := qpe_max_risked_streams enc;
     qpe_cur_header := qpe_cur_header enc; qpe_dec_stream_state := qpe_dec_stream_state enc;
     qpe_bytes_in := qpe_bytes_in enc; qpe_bytes_out := qpe_bytes_out enc;
     qpe_table_nelem_ema := qpe_table_nelem_ema enc;
     qpe_header_count_ema := qpe_header_count_ema enc; qpe_mallocs := qpe_mallocs enc |}.

Definition set_max_acked_id (v : Z) (enc : lsqpack_enc) : lsqpack_enc :=
  {| qpe_table := qpe_table enc; qpe_hist := qpe_hist enc; qpe_hinfos := qpe_hinfos enc;
     qpe_max_acked_id := v; qpe_last_ici := qpe_last_ici enc; qpe_flags := qpe_flags enc;
     qpe_real_max_capacity := qpe_real_max_capacity enc;
     qpe_max_entries := qpe_max_entries enc;
     qpe_max_risked_streams := qpe_max_risked_streams enc;
     qpe_cur_header := qpe_cur_header enc; qpe_dec_stream_state := qpe_dec_stream_state enc;
     qpe_bytes_in := qpe_bytes_in enc; qpe_bytes_out := qpe_bytes_out enc;
     qpe_table_nelem_ema := qpe_table_nelem_ema enc;
     qpe_header_count_ema := qpe_header_count_ema enc; qpe_mallocs := qpe_mallocs enc |}.

Definition set_last_ici (v : Z) (enc : lsqpack_enc) : lsqpack_enc :=
  {| qpe_table := qpe_table enc; qpe_hist := qpe_hist enc; qpe_hinfos := qpe_hinfos enc;
     qpe_max_acked_id := qpe_max_acked_id enc; qpe_last_ici := v;
     qpe_flags := qpe_flags enc; qpe_real_max_capacity := qpe_real_max_capacity enc;
     qpe_max_entries := qpe_max_entries enc;
     qpe_max_risked_streams := qpe_max_risked_streams enc;
     qpe_cur_header := qpe_cur_header enc; qpe_dec_stream_state := qpe_dec_stream_state enc;
     qpe_bytes_in := qpe_bytes_in enc; qpe_bytes_out := qpe_bytes_out enc;
     qpe_table_nelem_ema := qpe_table_nelem_ema enc;
     qpe_header_count_ema := qpe_header_count_ema enc; qpe_mallocs := qpe_mallocs enc |}.

Definition set_flags (v : Z) (enc : lsqpack_enc) : lsqpack_enc :=
  {| qpe_table := qpe_table enc; qpe_hist := qpe_hist enc; qpe_hinfos := qpe_hinfos enc;
     qpe_max_acked_id := qpe_max_acked_id enc; qpe_last_ici := qpe_last_ici enc;
     qpe_flags := v; qpe_real_max_capacity := qpe_real_max_capacity enc;
     qpe_max_entries := qpe_max_entries enc;
     qpe_max_risked_streams := qpe_max_risked_streams enc;
     qpe_cur_header := qpe_cur_header enc; qpe_dec_stream_state := qpe_dec_stream_state enc;
     qpe_bytes_in := qpe_bytes_in enc; qpe_bytes_out := qpe_bytes_out enc;
     qpe_table_nelem_ema := qpe_table_nelem_ema enc;
     qpe_header_count_ema := qpe_header_count_ema enc; qpe_mallocs := qpe_mallocs enc |}.

Definition set_real_max_capacity (v : Z) (enc : lsqpack_enc) : lsqpack_enc :=
  {| qpe_table := qpe_table enc; qpe_hist := qpe_hist enc; qpe_hinfos := qpe_hinfos enc;
     qpe_max_acked_id := qpe_max_acked_id enc; qpe_last_ici := qpe_last_ici enc;
     qpe_flags := qpe_flags enc; qpe_real_max_capacity := v;
     qpe_max_entries := qpe_max_entries enc;
     qpe_max_risked_streams := qpe_max_risked_streams enc;
     qpe_cur_header := qpe_cur_header enc; qpe_dec_stream_state := qpe_dec_stream_state enc;
     qpe_bytes_in := qpe_bytes_in enc; qpe_bytes_out := qpe_bytes_out enc;
     qpe_table_nelem_ema := qpe_table_nelem_ema enc;
     qpe_header_count_ema := qpe_header_count_ema enc; qpe_mallocs := qpe_mallocs enc |}.

Definition set_max_entries (v : Z) (enc : lsqpack_enc) : lsqpack_enc :=
  {| qpe_table := qpe_table enc; qpe_hist := qpe_hist enc; qpe_hinfos := qpe_hinfos enc;
     qpe_max_acked_id := qpe_max_acked_id enc; qpe_last_ici := qpe_last_ici enc;
     qpe_flags := qpe_flags enc; qpe_real_max_capacity := qpe_real_max_capacity enc;
     qpe_max_entries := v; qpe_max_risked_streams := qpe_max_risked_streams enc;
     qpe_cur_header := qpe_cur_header enc; qpe_dec_stream_state := qpe_dec_stream_state enc;
     qpe_bytes_in := qpe_bytes_in enc; qpe_bytes_out := qpe_bytes_out enc;
     qpe_table_nelem_ema := qpe_table_nelem_ema enc;
     qpe_header_count_ema := qpe_header_count_ema enc; qpe_mallocs := qpe_mallocs enc |}.

Definition set_max_risked_streams (v : Z) (enc : lsqpack_enc) : lsqpack_enc :=
  {| qpe_table := qpe_table enc; qpe_hist := qpe_hist enc; qpe_hinfos := qpe_hinfos enc;
     qpe_max_acked_id := qpe_max_acked_id enc; qpe_last_ici := qpe_last_ici enc;
     qpe_flags := qpe_flags enc; qpe_real_max_capacity := qpe_real_max_capacity enc;
     qpe_max_entries := qpe_max_entries enc; qpe_max_risked_streams := v;
     qpe_cur_header := qpe_cur_header enc; qpe_dec_stream_state := qpe_dec_stream_state enc;
     qpe_bytes_in := qpe_bytes_in enc; qpe_bytes_out := qpe_bytes_out enc;
     qpe_table_nelem_ema := qpe_table_nelem_ema enc;
     qpe_header_count_ema := qpe_header_count_ema enc; qpe_mallocs := qpe_mallocs enc |}.

Definition set_cur_header (v : cur_header) (enc : lsqpack_enc) : lsqpack_enc :=
  {| qpe_table := qpe_table enc; qpe_hist := qpe_hist enc; qpe_hinfos := qpe_hinfos enc;
     qpe_max_acked_id := qpe_max_acked_id enc; qpe_last_ici := qpe_last_ici enc;
     qpe_flags := qpe_flags enc; qpe_real_max_capacity := qpe_real_max_capacity enc;
     qpe_max_entries := qpe_max_entries enc;
     qpe_max_risked_streams := qpe_max_risked_streams enc; qpe_cur_header := v;
     qpe_dec_stream_state := qpe_dec_stream_state enc; qpe_bytes_in := qpe_bytes_in enc;
     qpe_bytes_out := qpe_bytes_out enc; qpe_table_nelem_ema := qpe_table_nelem_ema enc;
     qpe_header_count_ema := qpe_header_count_ema enc; qpe_mallocs := qpe_mallocs enc |}.

Definition set_dec_stream_state (v : dec_stream_state) (enc : lsqpack_enc) : lsqpack_enc :=
  {| qpe_table := qpe_table enc; qpe_hist := qpe_hist enc; qpe_hinfos := qpe_hinfos enc;
     qpe_max_acked_id := qpe_max_acked_id enc; qpe_last_ici := qpe_last_ici enc;
     qpe_flags := qpe_flags enc; qpe_real_max_capacity := qpe_real_max_capacity enc;
     qpe_max_entries := qpe_max_entries enc;
     qpe_max_risked_streams := qpe_max_risked_streams enc;
     qpe_cur_header := qpe_cur_header enc; qpe_dec_stream_state := v;
     qpe_bytes_in := qpe_bytes_in enc; qpe_bytes_out := qpe_bytes_out enc;
     qpe_table_nelem_ema := qpe_table_nelem_ema enc;
     qpe_header_count_ema := qpe_header_count_ema enc; qpe_mallocs := qpe_mallocs enc |}.

Definition set_bytes_in (v : Z) (enc : lsqpack_enc) : lsqpack_enc :=
  {| qpe_table := qpe_table enc; qpe_hist := qpe_hist enc; qpe_hinfos := qpe_hinfos enc;
     qpe_max_acked_id := qpe_max_acked_id enc; qpe_last_ici := qpe_last_ici enc;
     qpe_flags := qpe_flags enc; qpe_real_max_capacity := qpe_real_max_capacity enc;
     qpe_max_entries := qpe_max_entries enc;
     qpe_max_risked_streams := qpe_max_risked_streams enc;
     qpe_cur_header := qpe_cur_header enc; qpe_dec_stream_state := qpe_dec_stream_state enc;
     qpe_bytes_in := v; qpe_bytes_out := qpe_bytes_out enc;
     qpe_table_nelem_ema := qpe_table_nelem_ema enc;
     qpe_header_count_ema := qpe_header_count_ema enc; qpe_mallocs := qpe_mallocs enc |}.

Definition set_bytes_out (v : Z) (enc : lsqpack_enc) : lsqpack_enc :=
  {| qpe_table := qpe_table enc; qpe_hist := qpe_hist enc; qpe_hinfos := qpe_hinfos enc;
     qpe_max_acked_id := qpe_max_acked_id enc; qpe_last_ici := qpe_last_ici enc;
     qpe_flags := qpe_flags enc; qpe_real_max_capacity := qpe_real_max_capacity enc;
     qpe_max_entries := qpe_max_entries enc;
     qpe_max_risked_streams := qpe_max_risked_streams enc;
     qpe_cur_header := qpe_cur_header enc; qpe_dec_stream_state := qpe_dec_stream_state enc;
     qpe_bytes_in := qpe_bytes_in enc; qpe_bytes_out := v;
     qpe_table_nelem_ema := qpe_table_nelem_ema enc;
     qpe_header_count_ema := qpe_header_count_ema enc; qpe_mallocs := qpe_mallocs enc |}.

Definition set_table_nelem_ema (v : float) (enc : lsqpack_enc) : lsqpack_enc :=
  {| qpe_table := qpe_table enc; qpe_hist := qpe_hist enc; qpe_hinfos := qpe_hinfos enc;
     qpe_max_acked_id := qpe_max_acked_id enc; qpe_last_ici := qpe_last_ici enc;
     qpe_flags := qpe_flags enc; qpe_real_max_capacity := qpe_real_max_capacity enc;
     qpe_max_entries := qpe_max_entries enc;
     qpe_max_risked_streams := qpe_max_risked_streams enc;
     qpe_cur_header := qpe_cur_header enc; qpe_dec_stream_state := qpe_dec_stream_state enc;
     qpe_bytes_in := qpe_bytes_in enc; qpe_bytes_out := qpe_bytes_out enc;
     qpe_table_nelem_ema := v; qpe_header_count_ema := qpe_header_count_ema enc;
     qpe_mallocs := qpe_mallocs enc |}.

Definition set_header_count_ema (v : float) (enc : lsqpack_enc) : lsqpack_enc :=
  {| qpe_table := qpe_table enc; qpe_hist := qpe_hist enc; qpe_hinfos := qpe_hinfos enc;
     qpe_max_acked_id := qpe_max_acked_id enc; qpe_last_ici := qpe_last_ici enc;
     qpe_flags := qpe_flags enc; qpe_real_max_capacity := qpe_real_max_capacity enc;
     qpe_max_entries := qpe_max_entries enc;
     qpe_max_risked_streams := qpe_max_risked_streams enc;
     qpe_cur_header := qpe_cur_header enc; qpe_dec_stream_state := qpe_dec_stream_state enc;
     qpe_bytes_in := qpe_bytes_in enc; qpe_bytes_out := qpe_bytes_out enc;
     qpe_table_nelem_ema := qpe_table_nelem_ema enc; qpe_header_count_ema := v;
     qpe_mallocs := qpe_mallocs enc |}.

Definition set_mallocs (v : mallocs) (enc : lsqpack_enc) : lsqpack_enc :=
  {| qpe_table := qpe_table enc; qpe_hist := qpe_hist enc; qpe_hinfos := qpe_hinfos enc;
     qpe_max_acked_id := qpe_max_acked_id enc; qpe_last_ici := qpe_last_ici enc;
     qpe_flags := qpe_flags enc; qpe_real_max_capacity := qpe_real_max_capacity enc;
     qpe_max_entries := qpe_max_entries enc;
     qpe_max_risked_streams := qpe_max_risked_streams enc;
     qpe_cur_header := qpe_cur_header enc; qpe_dec_stream_state := qpe_dec_stream_state enc;
     qpe_bytes_in := qpe_bytes_in enc; qpe_bytes_out := qpe_bytes_out enc;
     qpe_table_nelem_ema := qpe_table_nelem_ema enc;
     qpe_header_count_ema := qpe_header_count_ema enc; qpe_mallocs := v |}.

Definition set_ch_hinfo (v : option Z) (enc : lsqpack_enc) : lsqpack_enc :=
  let h := qpe_cur_header enc in
  set_cur_header
    {| ch_hinfo := v; ch_other_at_risk := ch_other_at_risk h;
       ch_n_hdr_added_to_hist := ch_n_hdr_added_to_hist h; ch_min_reffed := ch_min_reffed h;
       ch_flags := ch_flags h; ch_base_idx := ch_base_idx h |} enc.

Definition set_ch_other_at_risk (v : option Z) (enc : lsqpack_enc) : lsqpack_enc :=
  let h := qpe_cur_header enc in
  set_cur_header
    {| ch_hinfo := ch_hinfo h; ch_other_at_risk := v;
       ch_n_hdr_added_to_hist := ch_n_hdr_added_to_hist h; ch_min_reffed := ch_min_reffed h;
       ch_flags := ch_flags h; ch_base_idx := ch_base_idx h |} enc.

Definition set_ch_n_hdr_added_to_hist (v : Z) (enc : lsqpack_enc) : lsqpack_enc :=
  let h := qpe_cur_header enc in
  set_cur_header
    {| ch_hinfo := ch_hinfo h; ch_other_at_risk := ch_other_at_risk h; ch_n_hdr_added_to_hist := v;
       ch_min_reffed := ch_min_reffed h; ch_flags := ch_flags h;
       ch_base_idx := ch_base_idx h |} enc.

Definition set_ch_min_reffed (v : Z) (enc : lsqpack_enc) : lsqpack_enc :=
  let h := qpe_cur_header enc in
  set_cur_header
    {| ch_hinfo := ch_hinfo h; ch_other_at_risk := ch_other_at_risk h;
       ch_n_hdr_added_to_hist := ch_n_hdr_added_to_hist h; ch_min_reffed := v;
       ch_flags := ch_flags h; ch_base_idx := ch_base_idx h |} enc.

Definition set_ch_flags (v : Z) (enc : lsqpack_enc) : lsqpack_enc :=
  let h := qpe_cur_header enc in
  set_cur_header
    {| ch_hinfo := ch_hinfo h; ch_other_at_risk := ch_other_at_risk h;
       ch_n_hdr_added_to_hist := ch_n_hdr_added_to_hist h; ch_min_reffed := ch_min_reffed h;
       ch_flags := v; ch_base_idx := ch_base_idx h |} enc.

Definition set_ch_base_idx (v : Z) (enc : lsqpack_enc) : lsqpack_enc :=
  let h := qpe_cur_header enc in
  set_cur_header
    {| ch_hinfo := ch_hinfo h; ch_other_at_risk := ch_other_at_risk h;
       ch_n_hdr_added_to_hist := ch_n_hdr_added_to_hist h; ch_min_reffed := ch_min_reffed h;
       ch_flags := ch_flags h; ch_base_idx := v |} enc.

(** The monad [Monad.v] over this state. *)
Abbreviation enc_m := (st_m lsqpack_enc).

(** ** Initialisation *)

Definition lsqpack_enc_preinit (ms : mallocs) : lsqpack_enc :=
  {| qpe_table := {| qpe_ins_count := 0; qpe_cur_bytes_used := 0; qpe_cur_max_capacity := 0;
                     qpe_dropped := 0; qpe_nelem := 0; qpe_nbits := 0;
                     qpe_all_entries := []; qpe_buckets := [] |};
     qpe_hist := {| qpe_hist_els := None; qpe_hist_idx := 0; qpe_hist_nels := 0;
                    qpe_hist_wrapped := false |};
     qpe_hinfos := no_hinfos;
     qpe_max_acked_id := 0; qpe_last_ici := 0; qpe_flags := 0; qpe_real_max_capacity := 0;
     qpe_max_entries := 0; qpe_max_risked_streams := 0;
     qpe_cur_header := {| ch_hinfo := None; ch_other_at_risk := None; ch_n_hdr_added_to_hist := 0;
                          ch_min_reffed := 0; ch_flags := 0; ch_base_idx := 0 |};
     qpe_dec_stream_state := {| dss_dec_int_state := dec_int_fresh; dss_handler := None |};
     qpe_bytes_in := 0; qpe_bytes_out := 0;
     qpe_table_nelem_ema := f32_zero; qpe_header_count_ema := f32_zero;
     qpe_mallocs := ms |}.

(** The return values of functions that set [errno]. *)
Inductive enc_ret := ENC_OK | ENC_EINVAL | ENC_ENOBUFS | ENC_ENOMEM.

(** Writing the instruction Set Dynamic Table Capacity at [tsu_buf]: its bytes,
    [None] when they do not fit. *)
Definition write_tsu (tsu_buf : bytes) (capacity : Z) : option bytes :=
  match tsu_buf with
  | [] => None
  | _ :: room =>
      let '(buf, n) := lsqpack_enc_int 0x20 room capacity 5 in
      if decide (n = 0)%nat then None else Some (take n buf)
  end.

(** A [malloc] of the encoder. *)
Definition enc_malloc (enc : lsqpack_enc) : option mem_words * lsqpack_enc :=
  let '(m, ms) := malloc (qpe_mallocs enc) in (m, set_mallocs ms enc).

(** The part of [lsqpack_enc_init] that sets up the history. *)
Definition init_history (dyn_table_size enc_opts : Z) (enc : lsqpack_enc) : bool * lsqpack_enc :=
  if negb (has_bits enc_opts LSQPACK_ENC_OPT_IX_AGGR) then
    let nels := Z.max (dyn_table_size / DYNAMIC_ENTRY_OVERHEAD / 3) GUESS_N_HEADER_FIELDS in
    let '(block, enc) := enc_malloc enc in
    let h := qpe_hist enc in
    (match block with Some _ => true | None => false end,
     set_hist {| qpe_hist_els := (fun mem => fresh_els mem (nels + 1)) <$> block;
                 qpe_hist_idx := qpe_hist_idx h; qpe_hist_nels := nels;
                 qpe_hist_wrapped := qpe_hist_wrapped h |} enc)
  else
    let h := qpe_hist enc in
    (true, set_hist {| qpe_hist_els := None; qpe_hist_idx := qpe_hist_idx h; qpe_hist_nels := 0;
                       qpe_hist_wrapped := qpe_hist_wrapped h |} enc).

(** The hash table: four buckets, none when no entry can fit. *)
Definition init_buckets (max_table_size : Z) (enc : lsqpack_enc)
  : option (Z * list double_enc_head) * lsqpack_enc :=
  if max_table_size / DYNAMIC_ENTRY_OVERHEAD =? 0 then (Some (0, []), enc)
  else
    let '(block, enc) := enc_malloc enc in
    match block with
    | Some _ => (Some (2, replicate 4 empty_head), enc)
    | None => (None, set_hist {| qpe_hist_els := None; qpe_hist_idx := qpe_hist_idx (qpe_hist enc);
                                 qpe_hist_nels := qpe_hist_nels (qpe_hist enc);
                                 qpe_hist_wrapped := qpe_hist_wrapped (qpe_hist enc) |} enc)
    end.

(** [tsu_buf] is [None] when [tsu_buf] or [tsu_buf_sz] is NULL, else the buffer.
    The result is the return value, the bytes written there and the state.
    When the buckets cannot be allocated the history is freed. *)
Definition lsqpack_enc_init (enc : lsqpack_enc) (max_table_size dyn_table_size max_risked_streams
  enc_opts : Z) (tsu_buf : option bytes) : enc_ret * bytes * lsqpack_enc :=
  if dyn_table_size >? max_table_size then (ENC_EINVAL, [], enc)
  else
    let enc := if negb (has_bits enc_opts LSQPACK_ENC_OPT_STAGE_2)
               then lsqpack_enc_preinit (qpe_mallocs enc) else enc in
    let tsu := if negb (dyn_table_size =? LSQPACK_DEF_DYN_TABLE_SIZE) then
                 match tsu_buf with
                 | None | Some [] => inr ENC_EINVAL
                 | Some buf => match write_tsu buf dyn_table_size with
                               | Some out => inl out
                               | None => inr ENC_ENOBUFS
                               end
                 end
               else inl [] in
    match tsu with
    | inr e => (e, [], enc)
    | inl out =>
        let '(ok, enc) := init_history dyn_table_size enc_opts enc in
        if negb ok then (ENC_ENOMEM, out, enc)
        else
          let '(b, enc) := init_buckets max_table_size enc in
          match b with
          | None => (ENC_ENOMEM, out, enc)
          | Some (nbits, buckets) =>
              let t := qpe_table enc in
              let enc := set_max_entries (max_table_size / DYNAMIC_ENTRY_OVERHEAD) enc in
              let enc := set_real_max_capacity max_table_size enc in
              let enc := set_max_risked_streams max_risked_streams enc in
              let enc := set_table
                {| qpe_ins_count := qpe_ins_count t; qpe_cur_bytes_used := qpe_cur_bytes_used t;
                   qpe_cur_max_capacity := dyn_table_size; qpe_dropped := qpe_dropped t;
                   qpe_nelem := qpe_nelem t; qpe_nbits := nbits;
                   qpe_all_entries := qpe_all_entries t; qpe_buckets := buckets |} enc in
              let enc := if negb (has_bits enc_opts LSQPACK_ENC_OPT_NO_DUP)
                         then set_flags (Z.lor (qpe_flags enc) LSQPACK_ENC_USE_DUP) enc else enc in
              let enc := if has_bits enc_opts LSQPACK_ENC_OPT_NO_MEM_GUARD
                         then set_flags (Z.lor (qpe_flags enc) LSQPACK_ENC_NO_MEM_GUARD) enc
                         else enc in
              (ENC_OK, out, enc)
          end
    end.
