(* ===== verification/EncPolicy.v ===== *)
(** * The encoder's policy: what may be evicted, duplicated or risked

    Models, from src/lsqpack.c: [qenc_sample_table_size],
    [qenc_sample_header_count], [qenc_remove_overflow_entries],
    [qenc_min_reffed_id], [qenc_safe_to_dup], [qenc_has_or_can_evict_at_least],
    [qenc_duplicable_entry], [qenc_entry_is_draining], [qenc_can_risk],
    [enc_use_dynamic_table], and the history operations on the whole encoder
    state. *)

From S2P Require Import Prelude Monad History EncTable EncHinfo Float EncState.

(** ** Access to the parts *)

Definition enc_hist_seen (e : he) (hash : Z) : enc_m bool := fun enc =>
  match qenc_hist_seen (qpe_hist enc) e hash with
  | (Some b, h) => Some (b, set_hist h enc)
  | (None, _) => None
  end.

(** The allocation is only made when the size changes to one that is not 0.  It
    is assumed to fail for a block of 16 gigabytes or more. *)
Definition enc_hist_update_size (new_size : Z) : enc_m unit := fun enc =>
  let h := qpe_hist enc in
  if (new_size =? qpe_hist_nels h) || (new_size =? 0)
  then Some (tt, set_hist (qenc_hist_update_size None h new_size) enc)
  else
    let '(block, enc) := enc_malloc enc in
    let block := if new_size <? 2 ^ 31 then block else None in
    Some (tt, set_hist (qenc_hist_update_size block h new_size) enc).

Definition enc_hist_add (name_hash nameval_hash : Z) : enc_m unit :=
  modify (fun enc => set_hist (qenc_hist_add (qpe_hist enc) name_hash nameval_hash) enc).

Definition enc_push_entry (name_hash nameval_hash : Z) (name value : bytes)
  : enc_m (option enc_table_entry) := fun enc =>
  let '(e, t, ms) := lsqpack_enc_push_entry (qpe_mallocs enc) (qpe_table enc)
                       name_hash nameval_hash name value in
  Some (e, set_mallocs ms (set_table t enc)).

(** The header info a pointer points to, [None] for NULL. *)
Definition cur_hinfo (enc : lsqpack_enc) : option header_info :=
  hinfo_at (qpe_hinfos enc) <$> ch_hinfo (qpe_cur_header enc).

(** An assignment through [enc->qpe_cur_header.hinfo]. *)
Definition update_cur_hinfo (f : header_info -> header_info) : enc_m unit := fun enc =>
  match ch_hinfo (qpe_cur_header enc) with
  | Some p => Some (tt, set_hinfos (update_hinfo f p (qpe_hinfos enc)) enc)
  | None => None
  end.

Definition hist_exists (enc : lsqpack_enc) : bool :=
  match qpe_hist_els (qpe_hist enc) with Some _ => true | None => false end.

(** ** Sampling and eviction *)

Definition qenc_sample_table_size : enc_m unit :=
  modify (fun enc => set_table_nelem_ema
    (update_ema (qpe_table_nelem_ema enc) (qpe_nelem (qpe_table enc))) enc).

Definition qenc_sample_header_count : enc_m unit :=
  modify (fun enc => set_header_count_ema
    (update_ema (qpe_header_count_ema enc) (ch_n_hdr_added_to_hist (qpe_cur_header enc))) enc).

Definition qenc_remove_overflow_entries : enc_m unit := fun enc =>
  match drop_overflow_entries (qpe_table enc) with
  | None => None
  | Some (t, dropped) =>
      let enc := set_table t enc in
      if negb (dropped =? 0) && hist_exists enc then qenc_sample_table_size enc
      else Some (tt, enc)
  end.

(** ** References *)

(** The loop over all header infos. *)
Fixpoint min_reffed (hs : hinfos) (ps : list Z) (min_id : Z) : Z :=
  match ps with
  | [] => min_id
  | p :: ps =>
      let m := qhi_min_id (hinfo_at hs p) in
      min_reffed hs ps
        (if (min_id =? 0) || (negb (m =? 0) && (m <? min_id)) then m else min_id)
  end.

Definition qenc_min_reffed_id : enc_m Z :=
  enc ← get;
  min_id ← (if has_bits (ch_flags (qpe_cur_header enc)) LSQECH_MINREF_CACHED
            then mret (ch_min_reffed (qpe_cur_header enc))
            else
              let min_id := min_reffed (qpe_hinfos enc) (qpe_all_hinfos (qpe_hinfos enc)) 0 in
              modify (set_ch_min_reffed min_id);;
              modify (fun enc => set_ch_flags
                (Z.lor (ch_flags (qpe_cur_header enc)) LSQECH_MINREF_CACHED) enc);;
              mret min_id);
  mret (match cur_hinfo enc with
        | Some h => if (min_id =? 0) || (negb (qhi_min_id h =? 0) && (qhi_min_id h <? min_id))
                    then qhi_min_id h else min_id
        | None => min_id
        end).

(** The loop of [qenc_safe_to_dup]; [None] when it runs off the list. *)
Fixpoint safe_to_dup_loop (pinned : enc_table_entry) (max_capacity bytes_used : Z)
  (entries : list enc_table_entry) : option bool :=
  match entries with
  | [] => None
  | entry :: entries =>
      if decide (entry = pinned) then Some false
      else
        let bytes_used := u32 (bytes_used - ETE_SIZE entry) in
        if bytes_used <=? max_capacity then Some true
        else safe_to_dup_loop pinned max_capacity bytes_used entries
  end.

Definition qenc_safe_to_dup (pinned : enc_table_entry) : enc_m bool := fun enc =>
  let t := qpe_table enc in
  let bytes_used := u32 (qpe_cur_bytes_used t + ETE_SIZE pinned) in
  if bytes_used <=? qpe_cur_max_capacity t then Some (true, enc)
  else
    match safe_to_dup_loop pinned (qpe_cur_max_capacity t) bytes_used (qpe_all_entries t) with
    | Some b => Some (b, enc)
    | None => None
    end.

(** The loop over the entries that may be evicted. *)
Fixpoint can_evict_loop (min_id max_acked_id new_entry_size avail : Z)
  (entries : list enc_table_entry) : bool :=
  match entries with
  | [] => avail >=? new_entry_size
  | entry :: entries =>
      if ((min_id =? 0) || (ete_id entry <? min_id)) && (ete_id entry <=? max_acked_id) then
        let avail := avail + ETE_SIZE entry in
        if avail >=? new_entry_size then true
        else can_evict_loop min_id max_acked_id new_entry_size avail entries
      else avail >=? new_entry_size
  end.

Definition qenc_has_or_can_evict_at_least (new_entry_size : Z) : enc_m bool :=
  enc ← get;
  let t := qpe_table enc in
  let avail := u32 (qpe_cur_max_capacity t - qpe_cur_bytes_used t) in
  if avail >=? new_entry_size then mret true
  else
    min_id ← qenc_min_reffed_id;
    mret (can_evict_loop min_id (qpe_max_acked_id enc) new_entry_size avail (qpe_all_entries t)).

Definition qenc_entry_is_draining (t : enc_table) (entry : enc_table_entry) : bool :=
  let dist := entry_offset t entry in
  let dist := u32 (dist + u32 (qpe_cur_max_capacity t - qpe_cur_bytes_used t)) in
  dist <? qpe_cur_max_capacity t / 4.

Definition qenc_duplicable_entry (entry : enc_table_entry) : enc_m bool :=
  enc ← get;
  let t := qpe_table enc in
  if negb (has_bits (qpe_flags enc) LSQPACK_ENC_USE_DUP) then mret false
  else
    let fill := f32_div (f32_of_Z (u32 (qpe_cur_bytes_used t + ETE_SIZE entry)))
                  (f32_of_Z (qpe_cur_max_capacity t)) in
    if fltb (f64_of_f32 fill) (f64_lit 4 5) then mret false
    else
      let fraction := f32_div (f32_of_Z (entry_offset t entry)) (f32_of_Z (qpe_cur_max_capacity t)) in
      if fltb fraction (f32_lit 1 5) then qenc_has_or_can_evict_at_least (ETE_SIZE entry)
      else mret false.

Definition qenc_can_risk (enc : lsqpack_enc) : bool :=
  match ch_other_at_risk (qpe_cur_header enc) with Some _ => true | None => false end
  || (qpe_cur_streams_at_risk (qpe_hinfos enc) <? qpe_max_risked_streams enc)
  || match cur_hinfo enc with
     | Some h => qenc_hinfo_at_risk (qpe_max_acked_id enc) h
     | None => false
     end.

Definition enc_use_dynamic_table (enc : lsqpack_enc) : bool :=
  (qpe_max_entries enc >? 0)
  && match cur_hinfo enc with
     | Some h => qhi_bytes_inserted h <? qpe_cur_max_capacity (qpe_table enc) / 2
     | None => false
     end.
