(* ===== verification/EncEncode.v ===== *)
(** * Encoding a header field

    [lsqpack_enc_encode] of src/lsqpack.c with [qenc_dup_draining]: choosing the
    representation ([choose_program] is the code from the label [restart] to
    [execute_program]), writing the instruction for the encoder stream
    ([write_enc_inst]) and the representation for the header block
    ([write_header_field]), and updating the dynamic table, the header info and
    the history ([execute_program] and [finish_encode]).

    The buffers are lists of bytes, from the current position to the end.  The
    accumulator that [qenc_huffman_enc] leaves uninitialised is the variable
    [bits0]; its value is proved not to matter in [Huffman]. *)

From stdpp Require Import sets.
From S2P Require Import Prelude Monad IntCodec HuffTables Huffman StrCodec Xxhash StaticTable History.
From S2P Require Import EncTable EncHinfo Float EncState EncPolicy.

(** [struct lsxpack_header], the members the encoder reads.  The name and the
    value are the bytes [lsxpack_header_get_name] and [_get_value] point to. *)
Record lsxpack_header := {
  xh_name : bytes;
  xh_value : bytes;
  xh_flags : Z;
  xh_name_hash : Z;
  xh_nameval_hash : Z;
  xh_qpack_index : Z;
}.

Definition LSXPACK_QPACK_IDX : Z := 2.
Definition LSXPACK_NAME_HASH : Z := 8.
Definition LSXPACK_NAMEVAL_HASH : Z := 16.
Definition LSXPACK_VAL_MATCHED : Z := 32.
Definition LSXPACK_NEVER_INDEX : Z := 64.

Definition LQEF_NO_INDEX : Z := 1.
Definition LQEF_NEVER_INDEX : Z := 2.
Definition LQEF_NO_HIST_UPD : Z := 4.
Definition LQEF_NO_DYN : Z := 8.

Inductive lsqpack_enc_status := LQES_OK | LQES_NOBUF_ENC | LQES_NOBUF_HEAD.

(** [struct encode_program] *)
Inductive enc_stream_action :=
  EEA_NONE | EEA_DUP | EEA_INS_NAMEREF_STATIC | EEA_INS_NAMEREF_DYNAMIC | EEA_INS_LIT
  | EEA_INS_LIT_NAME.
Inductive hea_block_action :=
  EHA_INDEXED_NEW | EHA_INDEXED_STAT | EHA_INDEXED_DYN | EHA_LIT_WITH_NAME_STAT
  | EHA_LIT_WITH_NAME_DYN | EHA_LIT_WITH_NAME_NEW | EHA_LIT.
Inductive dyn_table_action := ETA_NOOP | ETA_NEW | ETA_NEW_NAME.

(** [ep_flags] is the set of the two flags of [enum ref_flags]. *)
Record encode_program := Prog {
  ep_enc_action : enc_stream_action;
  ep_hea_action : hea_block_action;
  ep_tab_action : dyn_table_action;
  EPF_REF_FOUND : bool;
  EPF_REF_NEW : bool;
}.

(** ** Writing *)

(** What a writer makes of the buffer it is given: the bytes written in front of the
    rest, or, when there is no room, what it leaves in the buffer. *)
Inductive put := Wrote (b rest : bytes) | NoRoom (stored : bytes).

(** The bytes written. *)
Definition written (w : put) : option bytes := match w with Wrote b _ => Some b | NoRoom _ => None end.

(** A second writer on the rest of the buffer. *)
Definition then_put (w : put) (next : bytes -> put) : put :=
  match w with
  | NoRoom stored => NoRoom stored
  | Wrote b rest =>
      match next rest with
      | NoRoom stored => NoRoom (b ++ stored)
      | Wrote b' rest => Wrote (b ++ b') rest
      end
  end.

(** [*dst = first; dst = lsqpack_enc_int(dst, end, value, prefix)], failing when
    the result is not beyond [dst]. *)
Definition put_int (first : Z) (buf : bytes) (value prefix_bits : Z) : put :=
  match buf with
  | [] => NoRoom []
  | _ :: room =>
      let '(b, n) := lsqpack_enc_int first room value prefix_bits in
      if decide (n = 0)%nat then NoRoom b else Wrote (take n b) (drop n b)
  end.

(** [lsqpack_enc_enc_str(prefix, dst, end - dst, str)], failing when negative. *)
Definition put_str (bits0 prefix_bits : Z) (buf str : bytes) : put :=
  let '(b, r) := lsqpack_enc_enc_str bits0 prefix_bits buf str in
  if r <? 0 then NoRoom b else Wrote (take (Z.to_nat r) b) (drop (Z.to_nat r) b).

(** The same after [*dst = first]. *)
Definition put_str_first (bits0 first prefix_bits : Z) (buf str : bytes) : put :=
  match buf with
  | [] => NoRoom []
  | _ :: room => put_str bits0 prefix_bits (first :: room) str
  end.

(** The switch on [prog.ep_enc_action]; [NoRoom] for LQES_NOBUF_ENC. *)
Definition write_enc_inst (bits0 : Z) (action : enc_stream_action) (ins_count id : Z)
  (name value buf : bytes) : put :=
  match action with
  | EEA_DUP => put_int 0 buf (u32 (ins_count - id)) 5
  | EEA_INS_NAMEREF_STATIC =>
      then_put (put_int (Z.lor 0x80 0x40) buf id 6) (fun buf => put_str bits0 7 buf value)
  | EEA_INS_NAMEREF_DYNAMIC =>
      then_put (put_int 0x80 buf (u32 (ins_count - id)) 6) (fun buf => put_str bits0 7 buf value)
  | EEA_INS_LIT =>
      then_put (put_str_first bits0 0x40 5 buf name) (fun buf => put_str bits0 7 buf value)
  | EEA_INS_LIT_NAME =>
      then_put (put_str_first bits0 0x40 5 buf name) (fun buf => put_str bits0 7 buf [])
  | EEA_NONE => Wrote [] buf
  end.

(** An integer and the value, as in the literals with a name reference. *)
Definition put_nameref (bits0 first id prefix_bits : Z) (value buf : bytes) : put :=
  then_put (put_int first buf id prefix_bits) (fun buf => put_str bits0 7 buf value).

(** [((flags & LQEF_NEVER_INDEX) > 0) << n] *)
Definition never_bit (never : bool) (n : Z) : Z := Z.shiftl (Z.b2z never) n.

Definition post_base_idx (base_idx id : Z) (buf : bytes) : put :=
  put_int 0x10 buf (u32 (id - base_idx - 1)) 4.

Definition post_base_name_ref (bits0 : Z) (never : bool) (base_idx id : Z) (value buf : bytes)
  : put :=
  put_nameref bits0 (never_bit never 3) (u32 (id - base_idx - 1)) 3 value buf.

(** The switch on [prog.ep_hea_action].  [None] is a failed assertion, [NoRoom]
    LQES_NOBUF_HEAD. *)
Definition write_header_field (bits0 : Z) (action : hea_block_action) (never : bool)
  (ins_count base_idx id : Z) (name value buf : bytes) : option put :=
  match action with
  | EHA_INDEXED_STAT => Some (put_int (Z.lor 0x80 0x40) buf id 6)
  | EHA_INDEXED_NEW =>
      let id := u32 (ins_count + 1) in
      if id >? base_idx then Some (post_base_idx base_idx id buf) else None
  | EHA_INDEXED_DYN =>
      if id >? base_idx then Some (post_base_idx base_idx id buf)
      else Some (put_int 0x80 buf (u32 (base_idx - id)) 6)
  | EHA_LIT =>
      Some (then_put (put_str_first bits0 (Z.lor 0x20 (never_bit never 4)) 3 buf name)
              (fun buf => put_str bits0 7 buf value))
  | EHA_LIT_WITH_NAME_NEW =>
      let id := u32 (ins_count + 1) in
      if id >? base_idx then Some (post_base_name_ref bits0 never base_idx id value buf) else None
  | EHA_LIT_WITH_NAME_DYN =>
      if id >? base_idx then Some (post_base_name_ref bits0 never base_idx id value buf)
      else Some (put_nameref bits0 (Z.lor 0x40 (never_bit never 5)) (u32 (base_idx - id)) 4 value buf)
  | EHA_LIT_WITH_NAME_STAT =>
      Some (put_nameref bits0 (Z.lor (Z.lor 0x40 (never_bit never 5)) 0x10) id 4 value buf)
  end.

(** ** Choosing *)

(** What [execute_program] is entered with. *)
Record choice := {
  c_prog : encode_program;
  c_id : Z;
  c_entry : option enc_table_entry;
}.

(** The fixed arguments of a call: the field, its hashes, and [use_dyn_table],
    [risk] and [index]. *)
Record field := {
  f_xhdr : lsxpack_header;
  f_name_hash : Z;
  f_nameval_hash : Z;
  f_use_dyn_table : bool;
  f_risk : bool;
  f_index : bool;
}.

Definition f_name (f : field) : bytes := xh_name (f_xhdr f).
Definition f_value (f : field) : bytes := xh_value (f_xhdr f).
Definition f_cost (f : field) : Z :=
  ENTRY_COST (Z.of_nat (length (f_name f))) (Z.of_nat (length (f_value f))).

(** [entry]'s name and value are those of the field: lengths and [memcmp]. *)
Definition same_nameval (f : field) (e : enc_table_entry) : bool :=
  (f_nameval_hash f =? ete_nameval_hash e)
  && bool_decide (f_name f = ETE_NAME e) && bool_decide (f_value f = ETE_VALUE e).

Definition bucket_of (t : enc_table) (hash : Z) : double_enc_head :=
  default empty_head (qpe_buckets t !! Z.to_nat (BUCKNO (qpe_nbits t) hash)).

(** [candidates], at most two. *)
Definition candidates (t : enc_table) (f : field) : list enc_table_entry :=
  take 2 (filter (fun e => same_nameval f e = true) (by_nameval (bucket_of t (f_nameval_hash f)))).

Definition use_indexed_dyn (entry : enc_table_entry) : choice :=
  {| c_prog := Prog EEA_NONE EHA_INDEXED_DYN ETA_NOOP true false; c_id := ete_id entry;
     c_entry := Some entry |}.

(** [switch (n_cand)]: [None] for [break]. *)
Definition full_match (f : field) (cands : list enc_table_entry) : enc_m (option choice) :=
  enc ← get;
  let t := qpe_table enc in
  let usable entry := f_risk f || (ete_id entry <=? qpe_max_acked_id enc) in
  match cands with
  | [entry] =>
      dup ← (if usable entry && f_index f then qenc_duplicable_entry entry else mret false);
      if dup : bool then
        if f_risk f then
          mret (Some {| c_prog := Prog EEA_DUP EHA_INDEXED_NEW ETA_NEW true true;
                        c_id := ete_id entry; c_entry := Some entry |})
        else if negb (qenc_entry_is_draining t entry) then
          safe ← qenc_safe_to_dup entry;
          if safe : bool then
            mret (Some {| c_prog := Prog EEA_DUP EHA_INDEXED_DYN ETA_NEW true false;
                          c_id := ete_id entry; c_entry := Some entry |})
          else mret (Some (use_indexed_dyn entry))
        else mret None
      else if usable entry && negb (qenc_entry_is_draining t entry) then
        mret (Some (use_indexed_dyn entry))
      else mret None
  | [c0; c1] =>
      assert_that (ete_id c1 >? ete_id c0);;
      mret (if f_risk f then Some (use_indexed_dyn c1)
            else if ete_id c1 <=? qpe_max_acked_id enc then Some (use_indexed_dyn c1)
            else if (ete_id c0 <=? qpe_max_acked_id enc) && negb (qenc_entry_is_draining t c0)
                 then Some (use_indexed_dyn c0)
                 else None)
  | _ => mret None
  end.

(** [programs[2][2][2]] of the static name match. *)
Definition static_name_program (seen_nameval risk cand : bool) : encode_program :=
  match seen_nameval, risk, cand with
  | true, false, false => Prog EEA_INS_NAMEREF_STATIC EHA_LIT_WITH_NAME_STAT ETA_NEW false false
  | true, true, false => Prog EEA_INS_NAMEREF_STATIC EHA_INDEXED_NEW ETA_NEW false true
  | _, _, _ => Prog EEA_NONE EHA_LIT_WITH_NAME_STAT ETA_NOOP false false
  end.

(** [programs[2][2]] of a field without a match. *)
Definition literal_program (risk cand : bool) : encode_program :=
  match risk, cand with
  | false, false => Prog EEA_INS_LIT EHA_LIT ETA_NEW false false
  | true, false => Prog EEA_INS_LIT EHA_INDEXED_NEW ETA_NEW false true
  | _, true => Prog EEA_NONE EHA_LIT ETA_NOOP false false
  end.

Definition literal_name_program (risk : bool) : encode_program :=
  if risk then Prog EEA_INS_LIT_NAME EHA_LIT_WITH_NAME_NEW ETA_NEW_NAME false true
  else Prog EEA_INS_LIT_NAME EHA_LIT ETA_NEW_NAME false false.

(** [x < 0 ? (x = m) : x]: a test made at most once. *)
Definition once (memo : option bool) (m : enc_m bool) : enc_m bool :=
  match memo with
  | Some b => mret b
  | None => m
  end.

(** The name match in the static table. *)
Definition static_name_match (f : field) (seen_nameval : option bool) (has_cand : bool) (id : Z)
  : enc_m (choice * option bool) :=
  room ← (if f_index f then qenc_has_or_can_evict_at_least (f_cost f) else mret false);
  if room : bool then
    seen ← enc_hist_seen HE_NAMEVAL (f_nameval_hash f);
    mret ({| c_prog := static_name_program seen (f_risk f) has_cand; c_id := id; c_entry := None |},
          Some seen)
  else
    mret ({| c_prog := Prog EEA_NONE EHA_LIT_WITH_NAME_STAT ETA_NOOP false false; c_id := id;
             c_entry := None |}, seen_nameval).

(** The loop over the bucket by name.  The memo of [enough_room] comes along; an
    entry whose name matches ends it. *)
Fixpoint dyn_name_loop (f : field) (entries : list enc_table_entry) (enough_room : option bool)
  : enc_m (option enc_table_entry * option bool) :=
  match entries with
  | [] => mret (None, enough_room)
  | entry :: entries =>
      enc ← get;
      if (f_name_hash f =? ete_name_hash entry)
         && negb (qenc_entry_is_draining (qpe_table enc) entry)
         && (Z.of_nat (length (f_name f)) =? ete_name_len entry)
         && (f_risk f || (ete_id entry <=? qpe_max_acked_id enc)) then
        if negb (f_index f) then
          if bool_decide (f_name f = ETE_NAME entry) then mret (Some entry, enough_room)
          else dyn_name_loop f entries enough_room
        else
          room ← once enough_room (qenc_has_or_can_evict_at_least (f_cost f));
          if room && bool_decide (f_name f = ETE_NAME entry) then mret (Some entry, Some room)
          else dyn_name_loop f entries (Some room)
      else dyn_name_loop f entries enough_room
  end.

(** The name match in the dynamic table. *)
Definition dyn_name_match (f : field) (seen_nameval enough_room : option bool)
  (entry : enc_table_entry) : enc_m (choice * option bool) :=
  seen ← (if f_index f && default true enough_room && f_risk f
          then seen ← once seen_nameval (enc_hist_seen HE_NAMEVAL (f_nameval_hash f));
               mret (Some seen)
          else mret None);
  mret (match seen with
        | Some true =>
            ({| c_prog := Prog EEA_INS_NAMEREF_DYNAMIC EHA_INDEXED_NEW ETA_NEW true true;
                c_id := ete_id entry; c_entry := Some entry |}, Some true)
        | _ =>
            ({| c_prog := Prog EEA_NONE EHA_LIT_WITH_NAME_DYN ETA_NOOP true false;
                c_id := ete_id entry; c_entry := Some entry |},
             match seen with Some _ => seen | None => seen_nameval end)
        end).

(** No match at all; none of the programs here uses [id]. *)
Definition no_match (f : field) (seen_nameval enough_room : option bool) (has_cand : bool)
  : enc_m (choice * option bool) :=
  let choose p := {| c_prog := p; c_id := 0; c_entry := None |} in
  if negb (f_index f) then
    mret (choose (Prog EEA_NONE EHA_LIT ETA_NOOP false false), seen_nameval)
  else
    seen ← once seen_nameval (enc_hist_seen HE_NAMEVAL (f_nameval_hash f));
    room ← (if seen : bool
            then once enough_room (qenc_has_or_can_evict_at_least (f_cost f)) else mret false);
    if room : bool then mret (choose (literal_program (f_risk f) has_cand), Some seen)
    else
      seen_name ← enc_hist_seen HE_NAME (f_name_hash f);
      room ← (if seen_name : bool
              then qenc_has_or_can_evict_at_least
                     (ENTRY_COST (Z.of_nat (length (f_name f))) 0)
              else mret false);
      if room : bool then mret (choose (literal_name_program (f_risk f)), Some seen)
      else mret (choose (Prog EEA_NONE EHA_LIT ETA_NOOP false false), Some seen).

(** From [restart] to [execute_program].  [seen_nameval] is the memo of the
    variable of that name. *)
Definition choose_program (f : field) (seen_nameval : option bool)
  : enc_m (choice * option bool) :=
  enc ← get;
  let cands := if f_use_dyn_table f then candidates (qpe_table enc) f else [] in
  full ← full_match f cands;
  match full with
  | Some c => mret (c, seen_nameval)
  | None =>
      let has_cand := f_use_dyn_table f && negb (bool_decide (cands = [])) in
      let static_id := if has_bits (xh_flags (f_xhdr f)) LSXPACK_QPACK_IDX
                       then xh_qpack_index (f_xhdr f)
                       else lsqpack_find_in_static_headers (f_name_hash f) (f_name f)
                              (Z.of_nat (length (f_name f))) in
      if static_id >=? 0 then static_name_match f seen_nameval has_cand static_id
      else
        enc ← get;
        '(found, enough_room) ← (if f_use_dyn_table f
           then dyn_name_loop f (by_name (bucket_of (qpe_table enc) (f_name_hash f))) None
           else mret (None, None));
        match found with
        | Some entry => dyn_name_match f seen_nameval enough_room entry
        | None => no_match f seen_nameval enough_room has_cand
        end
  end.

(** ** Duplicating an entry that is about to drain away *)

(** The entries after [e] in a list: following the links from [e]. *)
Fixpoint after (e : enc_table_entry) (l : list enc_table_entry) : list enc_table_entry :=
  match l with
  | [] => []
  | x :: l => if decide (x = e) then l else after e l
  end.

(** Whether a later entry has the same name and value. *)
Definition has_later_dup (t : enc_table) (e : enc_table_entry) : bool :=
  existsb (fun next => (ete_nameval_hash next =? ete_nameval_hash e)
                       && bool_decide (ETE_NAME next = ETE_NAME e)
                       && bool_decide (ETE_VALUE next = ETE_VALUE e))
    (after e (by_nameval (bucket_of t (ete_nameval_hash e)))).

Fixpoint dup_candidate (entries : list enc_table_entry) (candidate : option enc_table_entry)
  : enc_m (option enc_table_entry) :=
  match entries with
  | [] => mret candidate
  | entry :: entries =>
      enc ← get;
      if negb (qenc_entry_is_draining (qpe_table enc) entry) then mret candidate
      else if match candidate with Some c => ETE_SIZE entry <? ETE_SIZE c | None => false end
      then dup_candidate entries candidate
      else
        ok ← (if negb (has_later_dup (qpe_table enc) entry) then
                seen ← enc_hist_seen HE_NAMEVAL (ete_nameval_hash entry);
                if seen : bool then qenc_has_or_can_evict_at_least (ETE_SIZE entry) else mret false
              else mret false);
        dup_candidate entries (if ok : bool then Some entry else candidate)
  end.

(** The instruction written; [NoRoom] with what is in the buffer for a return value
    of zero, when no entry was duplicated. *)
Definition qenc_dup_draining (enc_buf : bytes) : enc_m put :=
  enc ← get;
  if bool_decide (enc_buf = []) || negb (has_bits (qpe_flags enc) LSQPACK_ENC_USE_DUP)
     || (qpe_ins_count (qpe_table enc) =? LSQPACK_MAX_ABS_ID) then mret (NoRoom enc_buf)
  else if (f_nonzero (qpe_table_nelem_ema enc) || qenc_can_risk enc)
          && fltb (qpe_table_nelem_ema enc) (qpe_header_count_ema enc) then mret (NoRoom enc_buf)
  else
    candidate ← dup_candidate (qpe_all_entries (qpe_table enc)) None;
    match candidate with
    | None => mret (NoRoom enc_buf)
    | Some c =>
        match put_int 0 enc_buf (u32 (qpe_ins_count (qpe_table enc) - ete_id c)) 5 with
        | NoRoom stored => mret (NoRoom stored)
        | Wrote b rest =>
            entry ← enc_push_entry (ete_name_hash c) (ete_nameval_hash c) (ETE_NAME c) (ETE_VALUE c);
            mret (match entry with Some _ => Wrote b rest | None => NoRoom (b ++ rest) end)
        end
    end.

(** [while (sz = qenc_dup_draining(..), sz > 0)]: the bytes written and the rest of
    the buffer.  Each round writes at least a byte, so the room left is fuel
    enough: without any the loop ends. *)
Fixpoint dup_loop (fuel : nat) (room : bytes) : enc_m (bytes * bytes) :=
  match fuel with
  | O => mret ([], room)
  | S fuel =>
      w ← qenc_dup_draining room;
      match w with
      | NoRoom stored => mret ([], stored)
      | Wrote b rest =>
          qenc_remove_overflow_entries;;
          '(bs, rest) ← dup_loop fuel rest;
          mret (b ++ bs, rest)
      end
  end.

(** ** Executing *)

(** The test [((1 << action) & ..)] for an insertion with a literal beside it. *)
Definition double_literal (p : encode_program) : bool :=
  match ep_enc_action p with
  | EEA_INS_NAMEREF_STATIC | EEA_INS_NAMEREF_DYNAMIC | EEA_INS_LIT | EEA_INS_LIT_NAME => true
  | _ => false
  end
  && match ep_hea_action p with
     | EHA_LIT | EHA_LIT_WITH_NAME_STAT | EHA_LIT_WITH_NAME_DYN | EHA_LIT_WITH_NAME_NEW => true
     | _ => false
     end.

(** [(float) bytes_out / (float) bytes_in > 0.95] *)
Definition bad_ratio (enc : lsqpack_enc) (name value : bytes) : bool :=
  let bytes_out := u32 (qpe_bytes_out enc + qenc_enc_str_size name + qenc_enc_str_size value) in
  let bytes_in := u32 (qpe_bytes_in enc + Z.of_nat (length name) + Z.of_nat (length value)) in
  fgtb (f64_of_f32 (f32_div (f32_of_Z bytes_out) (f32_of_Z bytes_in))) (f64_lit 19 20).

(** The header info after an insertion: [qhi_bytes_inserted] and, with EPF_REF_NEW,
    the references. *)
Definition note_new_entry (p : encode_program) (e : enc_table_entry) : enc_m unit :=
  update_cur_hinfo (add_bytes_inserted (ETE_SIZE e));;
  if EPF_REF_NEW p then
    modify (fun enc => set_ch_flags
      (Z.lor (ch_flags (qpe_cur_header enc)) LSQECH_REF_NEW_ENTRIES) enc);;
    h ← gets cur_hinfo;
    assert_that (match h with
                 | Some h => if HINFO_IDS_SET h then ete_id e >? qhi_max_id h else true
                 | None => true
                 end);;
    update_cur_hinfo (qenc_maybe_update_hinfo_min_max (ete_id e))
  else mret tt.

(** The switch on [prog.ep_tab_action]: false when the entry could not be made
    and the code restarts. *)
Definition table_action (p : encode_program) (name_hash nameval_hash : Z) (name value : bytes)
  : enc_m bool :=
  match ep_tab_action p with
  | ETA_NOOP => mret true
  | ETA_NEW | ETA_NEW_NAME =>
      let value := match ep_tab_action p with ETA_NEW => value | _ => [] end in
      new_entry ← enc_push_entry name_hash nameval_hash name value;
      match new_entry with
      | None => mret false
      | Some e => note_new_entry p e;; mret true
      end
  end.

(** [if (prog.ep_flags & EPF_REF_FOUND)] *)
Definition ref_found (c : choice) : enc_m unit :=
  if EPF_REF_FOUND (c_prog c) then
    match c_entry c with
    | Some e => update_cur_hinfo (qenc_maybe_update_hinfo_min_max (ete_id e))
    | None => stuck
    end
  else mret tt.

(** [if (update_hist)] *)
Definition record_history (update_hist : bool) (name_hash nameval_hash : Z) : enc_m unit :=
  if update_hist then
    enc ← get;
    assert_that (hist_exists enc);;
    (if ch_n_hdr_added_to_hist (qpe_cur_header enc) >=? qpe_hist_nels (qpe_hist enc)
     then enc_hist_update_size (u32 (qpe_hist_nels (qpe_hist enc) + 4)) else mret tt);;
    enc_hist_add name_hash nameval_hash;;
    modify (fun enc => set_ch_n_hdr_added_to_hist
      (u32 (ch_n_hdr_added_to_hist (qpe_cur_header enc) + 1)) enc)
  else mret tt.

(** The byte counters behind the estimated compression ratio. *)
Definition count_bytes (nin nout : Z) (enc : lsqpack_enc) : lsqpack_enc :=
  let bytes_in := u32 (qpe_bytes_in enc + nin) in
  let bytes_out := u32 (qpe_bytes_out enc + nout) in
  if bytes_out >? 2 ^ 31 then
    set_bytes_out 1000
      (set_bytes_in (int_trunc (f32_mul (f32_div (f32_of_Z bytes_in) (f32_of_Z bytes_out))
                                  (f32_of_Z 1000))) enc)
  else set_bytes_out bytes_out (set_bytes_in bytes_in enc).

(** What a call of [lsqpack_enc_encode] returns, what it leaves in the two buffers,
    and what it stores in [*enc_sz_p] and [*hea_sz_p], if it does. *)
Record encode_out := {
  eo_status : lsqpack_enc_status;
  eo_enc_buf : bytes;
  eo_hea_buf : bytes;
  eo_sizes : option (nat * nat);
}.

(** The output: what is in the buffers up to the sizes reported. *)
Definition eo_enc (out : encode_out) : bytes :=
  match eo_sizes out with Some (n, _) => take n (eo_enc_buf out) | None => [] end.
Definition eo_hea (out : encode_out) : bytes :=
  match eo_sizes out with Some (_, n) => take n (eo_hea_buf out) | None => [] end.

(** [return LQES_NOBUF_*]: the sizes are not stored. *)
Definition no_room (s : lsqpack_enc_status) (enc_buf hea_buf : bytes) : encode_out :=
  {| eo_status := s; eo_enc_buf := enc_buf; eo_hea_buf := hea_buf; eo_sizes := None |}.

(** [*enc_sz_p = enc_sz; *hea_sz_p = hea_sz; return LQES_OK], the bytes written and
    what follows them in the buffers. *)
Definition encoded_out (enc_out enc_rest hea_out hea_rest : bytes) : encode_out :=
  {| eo_status := LQES_OK; eo_enc_buf := enc_out ++ enc_rest; eo_hea_buf := hea_out ++ hea_rest;
     eo_sizes := Some (length enc_out, length hea_out) |}.

Section encode.
(** What [qenc_huffman_enc] finds in its uninitialised accumulator. *)
Variable bits0 : Z.

(** The code after the table action. *)
Definition finish_encode (c : choice) (update_hist : bool) (name_hash nameval_hash : Z)
  (name value enc_out enc_rest hea_out hea_rest : bytes) : enc_m encode_out :=
  ref_found c;;
  qenc_remove_overflow_entries;;
  record_history update_hist name_hash nameval_hash;;
  '(dups, enc_rest) ← dup_loop (length enc_rest) enc_rest;
  let enc_out := enc_out ++ dups in
  modify (count_bytes (Z.of_nat (length name) + Z.of_nat (length value))
            (Z.of_nat (length enc_out) + Z.of_nat (length hea_out)));;
  mret (encoded_out enc_out enc_rest hea_out hea_rest).

(** From [execute_program] on; [inr] is [goto restart], with what is in the buffers
    by then. *)
Definition execute_program (enc_buf hea_buf : bytes) (c : choice) (index update_hist never : bool)
  (name_hash nameval_hash : Z) (name value : bytes) : enc_m (encode_out + bytes * bytes) :=
  enc ← get;
  let p := c_prog c in
  if double_literal p && bad_ratio enc name value then
    assert_that index;; mret (inr (enc_buf, hea_buf))
  else
    match write_enc_inst bits0 (ep_enc_action p) (qpe_ins_count (qpe_table enc)) (c_id c)
            name value enc_buf with
    | NoRoom stored => mret (inl (no_room LQES_NOBUF_ENC stored hea_buf))
    | Wrote enc_out enc_rest =>
        match write_header_field bits0 (ep_hea_action p) never (qpe_ins_count (qpe_table enc))
                (ch_base_idx (qpe_cur_header enc)) (c_id c) name value hea_buf with
        | None => stuck
        | Some (NoRoom stored) => mret (inl (no_room LQES_NOBUF_HEAD (enc_out ++ enc_rest) stored))
        | Some (Wrote hea_out hea_rest) =>
            ok ← table_action p name_hash nameval_hash name value;
            if ok : bool then
              r ← finish_encode c update_hist name_hash nameval_hash name value
                    enc_out enc_rest hea_out hea_rest;
              mret (inl r)
            else mret (inr (enc_out ++ enc_rest, hea_out ++ hea_rest))
        end
    end.

Definition no_index (f : field) : field :=
  {| f_xhdr := f_xhdr f; f_name_hash := f_name_hash f; f_nameval_hash := f_nameval_hash f;
     f_use_dyn_table := f_use_dyn_table f; f_risk := f_risk f; f_index := false |}.

(** From [restart]; each restart clears [index], and without it there is none:
    [fuel] rounds are left. *)
Fixpoint encode_from_restart (fuel : nat) (enc_buf hea_buf : bytes) (f : field)
  (seen_nameval : option bool) (update_hist never : bool) : enc_m encode_out :=
  '(c, seen_nameval) ← choose_program f seen_nameval;
  r ← execute_program enc_buf hea_buf c (f_index f) update_hist never
        (f_name_hash f) (f_nameval_hash f) (f_name f) (f_value f);
  match r with
  | inl out => mret out
  | inr (enc_buf, hea_buf) =>
      match fuel with
      | O => stuck
      | S fuel =>
          encode_from_restart fuel enc_buf hea_buf (no_index f) seen_nameval update_hist never
      end
  end.

(** The hashes of the field, computed or taken from the caller. *)
Definition field_name_hash (xhdr : lsxpack_header) : Z :=
  if has_bits (xh_flags xhdr) LSXPACK_NAME_HASH then xh_name_hash xhdr
  else if has_bits (xh_flags xhdr) LSXPACK_QPACK_IDX
  then nth (Z.to_nat (xh_qpack_index xhdr)) name_hashes 0
  else XXH32 (xh_name xhdr) LSQPACK_XXH_SEED.

Definition field_nameval_hash (xhdr : lsxpack_header) : Z :=
  if has_bits (xh_flags xhdr) LSXPACK_NAMEVAL_HASH then xh_nameval_hash xhdr
  else XXH32 (xh_value xhdr) (field_name_hash xhdr).

(** The id of a full match in the static table, [-1] for none. *)
Definition static_nameval_id (xhdr : lsxpack_header) : Z :=
  let both := Z.lor LSXPACK_QPACK_IDX LSXPACK_VAL_MATCHED in
  if Z.land (xh_flags xhdr) both =? both then xh_qpack_index xhdr
  else find_in_static_full (field_nameval_hash xhdr)
         (xh_name xhdr) (Z.of_nat (length (xh_name xhdr)))
         (xh_value xhdr) (Z.of_nat (length (xh_value xhdr))).

Definition lsqpack_enc_encode (enc_buf hea_buf : bytes) (xhdr : lsxpack_header) (flags : Z)
  : enc_m encode_out :=
  if bool_decide (hea_buf = []) then mret (no_room LQES_NOBUF_HEAD enc_buf hea_buf)
  else
    let flags := if has_bits (xh_flags xhdr) LSXPACK_NEVER_INDEX
                 then Z.lor flags LQEF_NEVER_INDEX else flags in
    let never := has_bits flags LQEF_NEVER_INDEX in
    let static_id := static_nameval_id xhdr in
    if static_id >=? 0 then
      r ← execute_program enc_buf hea_buf
            {| c_prog := Prog EEA_NONE EHA_INDEXED_STAT ETA_NOOP false false;
               c_id := static_id; c_entry := None |}
            false false never 0 0 (xh_name xhdr) (xh_value xhdr);
      match r with
      | inl out => mret out
      | inr _ => stuck
      end
    else
      enc ← get;
      let use_dyn_table := negb (has_bits flags LQEF_NO_DYN) && enc_use_dynamic_table enc in
      let index := negb (has_bits flags (Z.lor (Z.lor LQEF_NO_INDEX LQEF_NEVER_INDEX) LQEF_NO_DYN))
                   && use_dyn_table
                   && (qpe_ins_count (qpe_table enc) <? LSQPACK_MAX_ABS_ID) in
      let f := {| f_xhdr := xhdr; f_name_hash := field_name_hash xhdr;
                  f_nameval_hash := field_nameval_hash xhdr; f_use_dyn_table := use_dyn_table;
                  f_risk := qenc_can_risk enc; f_index := index |} in
      encode_from_restart 1 enc_buf hea_buf f None (hist_exists enc && negb (has_bits flags LQEF_NO_HIST_UPD)) never.
End encode.
