(* ===== verification/Encoder.v ===== *)
(** * The encoder's interface

    The rest of the encoder of src/lsqpack.c: starting, cancelling and ending a
    header block ([lsqpack_enc_start_header], [lsqpack_enc_cancel_header],
    [lsqpack_enc_end_header], [lsqpack_enc_header_block_prefix_size]), changing
    the capacity ([lsqpack_enc_set_max_capacity]) and the decoder stream
    ([enc_proc_header_ack], [enc_proc_ici], [enc_proc_stream_cancel],
    [lsqpack_enc_decoder_in]), with [lsqpack_enc_ratio]. *)

From stdpp Require Import sets.
From S2P Require Import Prelude Monad IntCodec History EncTable EncHinfo Float EncState EncPolicy.
From S2P Require Import EncEncode.

(** ** Header blocks *)

(** The search for another header block of the stream that is at risk. *)
Fixpoint find_risked (hs : hinfos) (stream_id : Z) (ps : list Z) : option Z :=
  match ps with
  | [] => None
  | p :: ps => if qhi_stream_id (hinfo_at hs p) =? stream_id then Some p
               else find_risked hs stream_id ps
  end.

Definition enc_alloc (enc : lsqpack_enc) : option Z * lsqpack_enc :=
  let '(p, hs, ms) := enc_alloc_hinfo (qpe_mallocs enc)
                        (has_bits (qpe_flags enc) LSQPACK_ENC_NO_MEM_GUARD)
                        (qpe_cur_max_capacity (qpe_table enc)) (qpe_hinfos enc) in
  (p, set_mallocs ms (set_hinfos hs enc)).

(** True for 0, false for -1. *)
Definition lsqpack_enc_start_header (stream_id seqno : Z) : enc_m bool := fun enc =>
  if has_bits (qpe_flags enc) LSQPACK_ENC_HEADER then Some (false, enc)
  else
    let '(p, enc) := enc_alloc enc in
    let enc := match p with
               | Some p => set_hinfos (update_hinfo (set_stream stream_id seqno) p (qpe_hinfos enc)) enc
               | None => enc
               end in
    let other := match p with
                 | Some _ => if negb (seqno =? 0)
                             then find_risked (qpe_hinfos enc) stream_id
                                    (qpe_risked_hinfos (qpe_hinfos enc))
                             else None
                 | None => None
                 end in
    let enc := set_cur_header
      {| ch_hinfo := p; ch_other_at_risk := other; ch_n_hdr_added_to_hist := 0;
         ch_min_reffed := ch_min_reffed (qpe_cur_header enc); ch_flags := 0;
         ch_base_idx := qpe_ins_count (qpe_table enc) |} enc in
    Some (true, set_flags (Z.lor (qpe_flags enc) LSQPACK_ENC_HEADER) enc).

Definition lsqpack_enc_header_block_prefix_size (enc : lsqpack_enc) : Z :=
  lsqpack_val2len (u32 (2 * qpe_max_entries enc)) 8
  + lsqpack_val2len (u32 (2 * qpe_max_entries enc)) 7.

(** [enc_free_hinfo(enc, enc->qpe_cur_header.hinfo); enc->qpe_cur_header.hinfo = NULL]
    when there is one. *)
Definition free_cur_hinfo : enc_m unit :=
  enc ← get;
  match ch_hinfo (qpe_cur_header enc) with
  | Some p => part qpe_hinfos set_hinfos (enc_free_hinfo p);; modify (set_ch_hinfo None)
  | None => mret tt
  end.

Definition clear_header_flag : enc_m unit :=
  modify (fun enc => set_flags (Z.land (qpe_flags enc) (Z.lnot LSQPACK_ENC_HEADER)) enc).

Definition lsqpack_enc_cancel_header : enc_m bool :=
  enc ← get;
  if negb (has_bits (qpe_flags enc) LSQPACK_ENC_HEADER) then mret false
  else if match cur_hinfo enc with Some h => HINFO_IDS_SET h | None => false end then mret false
  else free_cur_hinfo;; clear_header_flag;; mret true.

(** The adjustment of the history's size. *)
Definition adjust_history : enc_m unit :=
  enc ← get;
  if hist_exists enc then
    qenc_sample_header_count;;
    enc ← get;
    let ema := qpe_table_nelem_ema enc in
    if f_nonzero ema && fgtb ema (qpe_header_count_ema enc) then
      let count_diff := fabsf (f32_sub (f32_of_Z (qpe_hist_nels (qpe_hist enc))) ema) in
      if fgeb (f64_of_f32 count_diff) (f64_lit 3 2)
         || fgeb (f64_of_f32 (f32_div count_diff ema)) (f64_lit 1 10)
      then enc_hist_update_size (unsigned_round (f64_of_f32 ema))
      else mret tt
    else mret tt
  else mret tt.

(** The prefix of a header block with references: the Required Insert Count and
    the Base. *)
Definition write_prefix (max_entries base_idx max_id : Z) (buf : bytes) : put :=
  let encoded_largest_ref := u32 (max_id mod u32 (2 * max_entries) + 1) in
  let '(sign, diff) := if base_idx >=? max_id then (0, u32 (base_idx - max_id))
                       else (1, u32 (max_id - base_idx - 1)) in
  then_put (put_int 0 buf encoded_largest_ref 8)
    (fun buf => put_int (u8 (Z.shiftl sign 7)) buf diff 7).

(** The return value, the buffer afterwards and what is stored in [*header_flags].
    A positive return value is the number of bytes written. *)
Record end_result := { er_ret : Z; er_buf : bytes; er_flags : option Z }.

Definition er_out (r : end_result) : bytes := take (Z.to_nat (er_ret r)) (er_buf r).

Definition end_fail (r : Z) (buf : bytes) : end_result :=
  {| er_ret := r; er_buf := buf; er_flags := None |}.

(** [lsqpack_enc_end_header] after the history was adjusted. *)
Definition end_adjusted (buf : bytes) : enc_m end_result :=
  enc ← get;
  let h := qpe_cur_header enc in
  match ch_hinfo h, cur_hinfo enc with
  | Some p, Some hinfo =>
      if HINFO_IDS_SET hinfo then
        match write_prefix (qpe_max_entries enc) (ch_base_idx h) (qhi_max_id hinfo) buf with
        | NoRoom stored => mret (end_fail 0 stored)
        | Wrote out rest =>
            let at_risk := qenc_hinfo_at_risk (qpe_max_acked_id enc) hinfo in
            (if at_risk then
               part qpe_hinfos set_hinfos
                 (qenc_add_to_risked_list (ch_other_at_risk h) (qpe_max_risked_streams enc) p)
             else mret tt);;
            modify (set_ch_hinfo None);;
            clear_header_flag;;
            modify (fun enc =>
              set_bytes_out (u32 (qpe_bytes_out enc + Z.of_nat (length out))) enc);;
            mret {| er_ret := Z.of_nat (length out); er_buf := out ++ rest;
                    er_flags := Some (if at_risk then Z.lor (ch_flags h) LSQECH_REF_AT_RISK
                                      else ch_flags h) |}
        end
      else if (2 <=? Z.of_nat (length buf)) then
        free_cur_hinfo;;
        clear_header_flag;;
        modify (fun enc => set_bytes_out (u32 (qpe_bytes_out enc + 2)) enc);;
        mret {| er_ret := 2; er_buf := [0; 0] ++ drop 2 buf; er_flags := Some (ch_flags h) |}
      else mret (end_fail 0 buf)
  | _, _ =>
      if (2 <=? Z.of_nat (length buf)) then
        clear_header_flag;;
        modify (fun enc => set_bytes_out (u32 (qpe_bytes_out enc + 2)) enc);;
        mret {| er_ret := 2; er_buf := [0; 0] ++ drop 2 buf; er_flags := Some (ch_flags h) |}
      else mret (end_fail 0 buf)
  end.

Definition lsqpack_enc_end_header (buf : bytes) : enc_m end_result :=
  if bool_decide (buf = []) then mret (end_fail (-1) buf)
  else
    enc ← get;
    if negb (has_bits (qpe_flags enc) LSQPACK_ENC_HEADER) then mret (end_fail (-1) buf)
    else adjust_history;; end_adjusted buf.

(** ** Capacity *)

Definition set_max_capacity (capacity : Z) (t : enc_table) : enc_table :=
  {| qpe_ins_count := qpe_ins_count t; qpe_cur_bytes_used := qpe_cur_bytes_used t;
     qpe_cur_max_capacity := capacity; qpe_dropped := qpe_dropped t; qpe_nelem := qpe_nelem t;
     qpe_nbits := qpe_nbits t; qpe_all_entries := qpe_all_entries t;
     qpe_buckets := qpe_buckets t |}.

(** [tsu_buf] is [None] when one of the two pointers is NULL.  With a buffer of no
    bytes the assertion of [lsqpack_enc_int] fails. *)
Definition lsqpack_enc_set_max_capacity (capacity : Z) (tsu_buf : option bytes)
  : enc_m (enc_ret * bytes) :=
  enc ← get;
  if capacity >? qpe_real_max_capacity enc then mret (ENC_EINVAL, [])
  else if capacity =? qpe_cur_max_capacity (qpe_table enc) then mret (ENC_OK, [])
  else
    match tsu_buf with
    | None => mret (ENC_EINVAL, [])
    | Some [] => stuck
    | Some buf =>
        match write_tsu buf capacity with
        | None => mret (ENC_ENOBUFS, [])
        | Some out =>
            modify (fun enc => set_table (set_max_capacity capacity (qpe_table enc)) enc);;
            qenc_remove_overflow_entries;;
            mret (ENC_OK, out)
        end
    end.

(** ** The decoder stream *)

(** [TAILQ_FOREACH]: a header block of the stream, other than the current one. *)
Fixpoint find_acked (hs : hinfos) (cur : option Z) (stream_id : Z) (ps : list Z) : option Z :=
  match ps with
  | [] => None
  | p :: ps => if (qhi_stream_id (hinfo_at hs p) =? stream_id) && negb (bool_decide (cur = Some p))
               then Some p else find_acked hs cur stream_id ps
  end.

Definition enc_update_risked : enc_m unit := fun enc =>
  part qpe_hinfos set_hinfos (qenc_update_risked_list (qpe_max_acked_id enc)) enc.

(** True for 0, false for -1, here and in the next two. *)
Definition enc_proc_header_ack (stream_id : Z) : enc_m bool :=
  if stream_id >? MAX_QUIC_STREAM_ID then mret false
  else
    enc ← get;
    match find_acked (qpe_hinfos enc) (ch_hinfo (qpe_cur_header enc)) stream_id
            (qpe_all_hinfos (qpe_hinfos enc)) with
    | None => mret false
    | Some p =>
        let max_id := qhi_max_id (hinfo_at (qpe_hinfos enc) p) in
        (if max_id >? qpe_max_acked_id enc then
           part qpe_hinfos set_hinfos (qenc_remove_from_risked_list p);;
           modify (set_max_acked_id max_id);;
           enc_update_risked
         else mret tt);;
        part qpe_hinfos set_hinfos (enc_free_hinfo p);;
        mret true
    end.

Definition enc_proc_ici (ins_count : Z) : enc_m bool :=
  if ins_count =? 0 then mret false
  else if ins_count >? LSQPACK_MAX_ABS_ID then mret false
  else
    enc ← get;
    if ins_count >? u64 (qpe_ins_count (qpe_table enc) - qpe_last_ici enc) then mret false
    else
      let max_acked := u32 (ins_count + qpe_last_ici enc) in
      (if max_acked >? qpe_max_acked_id enc then
         modify (set_last_ici max_acked);;
         modify (set_max_acked_id max_acked);;
         enc_update_risked
       else mret tt);;
      mret true.

(** The loop of [enc_proc_stream_cancel] over the header infos there are. *)
Fixpoint cancel_loop (stream_id : Z) (ps : list Z) : enc_m unit :=
  match ps with
  | [] => mret tt
  | p :: ps =>
      enc ← get;
      let h := hinfo_at (qpe_hinfos enc) p in
      (if qhi_stream_id h =? stream_id then
         (if qenc_hinfo_at_risk (qpe_max_acked_id enc) h
          then part qpe_hinfos set_hinfos (qenc_remove_from_risked_list p) else mret tt);;
         part qpe_hinfos set_hinfos (enc_free_hinfo p)
       else mret tt);;
      cancel_loop stream_id ps
  end.

Definition enc_proc_stream_cancel (stream_id : Z) : enc_m bool :=
  if stream_id >? MAX_QUIC_STREAM_ID then mret false
  else
    ps ← gets (fun enc => qpe_all_hinfos (qpe_hinfos enc));
    cancel_loop stream_id ps;;
    mret true.

Definition run_handler (h : option dec_handler) (val : Z) : enc_m bool :=
  match h with
  | Some enc_proc_header_ack_h => enc_proc_header_ack val
  | Some enc_proc_ici_h => enc_proc_ici val
  | Some enc_proc_stream_cancel_h => enc_proc_stream_cancel val
  | None => stuck
  end.

(** The first byte of an instruction: prefix and handler. *)
Definition dec_stream_inst (b : Z) : Z * dec_handler :=
  if has_bits b 0x80 then (7, enc_proc_header_ack_h)
  else if Z.land b 0xC0 =? 0 then (6, enc_proc_ici_h)
  else (6, enc_proc_stream_cancel_h).

Definition set_dec_int_state (st : dec_int_state) (enc : lsqpack_enc) : lsqpack_enc :=
  set_dec_stream_state
    {| dss_dec_int_state := st; dss_handler := dss_handler (qpe_dec_stream_state enc) |} enc.

Definition set_handler (h : dec_handler) (enc : lsqpack_enc) : lsqpack_enc :=
  set_dec_stream_state
    {| dss_dec_int_state := dss_dec_int_state (qpe_dec_stream_state enc);
       dss_handler := Some h |} enc.

Definition with_resume (r : bool) (st : dec_int_state) : dec_int_state :=
  {| dis_resume := r; dis_M := dis_M st; dis_nread := dis_nread st; dis_val := dis_val st |}.

(** The loop of [lsqpack_enc_decoder_in]: whether it left through the end of the
    loop ([Some true]), through [return 0] ([Some false]) or through [return -1].
    Each round that continues consumed at least one byte. *)
Fixpoint decoder_in_loop (fuel : nat) (buf : bytes) : enc_m (option bool) :=
  match buf, fuel with
  | [], _ => mret (Some true)
  | _, O => stuck
  | b0 :: src, S fuel =>
      enc ← get;
      prefix_bits ← (if dis_resume (dss_dec_int_state (qpe_dec_stream_state enc)) then mret 0
                     else let '(prefix_bits, h) := dec_stream_inst b0 in
                          modify (set_handler h);; mret prefix_bits);
      enc ← get;
      let st := dss_dec_int_state (qpe_dec_stream_state enc) in
      match lsqpack_dec_int b0 src prefix_bits st with
      | DecIntOk val rest =>
          ok ← run_handler (dss_handler (qpe_dec_stream_state enc)) val;
          if ok : bool then
            modify (fun enc => set_dec_int_state
              (with_resume false (dss_dec_int_state (qpe_dec_stream_state enc))) enc);;
            decoder_in_loop fuel rest
          else mret None
      | DecIntMore st' => modify (set_dec_int_state (with_resume true st'));; mret (Some false)
      | DecIntOverflow => mret None
      end
  end.

(** True for 0, false for -1. *)
Definition lsqpack_enc_decoder_in (buf : bytes) : enc_m bool :=
  r ← decoder_in_loop (length buf) buf;
  match r with
  | Some true =>
      modify (fun enc => set_bytes_out (u32 (qpe_bytes_out enc + Z.of_nat (length buf))) enc);;
      mret true
  | Some false => mret true
  | None => mret false
  end.

Definition lsqpack_enc_ratio (enc : lsqpack_enc) : float :=
  if negb (qpe_bytes_in enc =? 0)
  then f32_div (f32_of_Z (qpe_bytes_out enc)) (f32_of_Z (qpe_bytes_in enc))
  else f32_zero.
