(* ===== verification/EncInv.v ===== *)
(** * The encoder's invariant

    [enc_wf] ties the parts of the encoder's state together: the dynamic table,
    the header infos of outstanding header blocks and their risk, the cached
    minimum reference and the acknowledgements.  The lemmas of this file say, for
    every operation of the policy, the choice of a representation and the
    execution, that it runs without undefined behaviour and what it preserves.

    [evictable enc i]: the entry with id [i] is acknowledged and no outstanding
    header block refers to it or to anything older.  Every eviction decided by
    [qenc_has_or_can_evict_at_least] is of evictable entries. *)

From stdpp Require Import sets.
From S2P Require Import Prelude Monad IntCodec HuffTables Huffman StrCodec Xxhash StaticTable History.
From S2P Require Import EncTable EncHinfo Float EncState EncPolicy EncEncode Encoder.

(** ** Evictability *)

Definition all_hinfos (enc : lsqpack_enc) : list Z := qpe_all_hinfos (qpe_hinfos enc).
Definition hinfo_of (enc : lsqpack_enc) (p : Z) : header_info := hinfo_at (qpe_hinfos enc) p.

Definition below_refs (enc : lsqpack_enc) (i : Z) : Prop :=
  forall p, p ∈ all_hinfos enc -> qhi_min_id (hinfo_of enc p) <> 0 ->
  i < qhi_min_id (hinfo_of enc p).

Definition evictable (enc : lsqpack_enc) (i : Z) : Prop :=
  i <= qpe_max_acked_id enc /\ below_refs enc i.

(** Room for [size] more bytes by evicting evictable entries only. *)
Definition room_for (enc : lsqpack_enc) (size : Z) : Prop :=
  exists pre post, qpe_all_entries (qpe_table enc) = pre ++ post
    /\ Forall (fun e => evictable enc (ete_id e)) pre
    /\ sizes post + size <= qpe_cur_max_capacity (qpe_table enc).

(** ** The invariant *)

(** The reference range of a header info: unset, or within what was inserted. *)
Definition ids_unset (h : header_info) : Prop := qhi_min_id h = 0 /\ qhi_max_id h = 0.
Definition ids_within (ins_count : Z) (h : header_info) : Prop :=
  1 <= qhi_min_id h <= qhi_max_id h /\ qhi_max_id h <= ins_count.

(** The header block being encoded. *)
Definition is_cur (enc : lsqpack_enc) (p : Z) : Prop := ch_hinfo (qpe_cur_header enc) = Some p.

Definition hinfo_ok (enc : lsqpack_enc) (p : Z) : Prop :=
  let h := hinfo_of enc p in
  (ids_within (qpe_ins_count (qpe_table enc)) h \/ (is_cur enc p /\ ids_unset h))
  /\ (is_cur enc p -> p ∉ qpe_risked_hinfos (qpe_hinfos enc))
  /\ (~ is_cur enc p ->
        (p ∈ qpe_risked_hinfos (qpe_hinfos enc) <-> qpe_max_acked_id enc < qhi_max_id h)).

(** While a header block is being encoded the cached minimum is a lower bound for
    the other header blocks. *)
Definition in_header (enc : lsqpack_enc) : Prop :=
  has_bits (qpe_flags enc) LSQPACK_ENC_HEADER = true.

Definition cache_ok (enc : lsqpack_enc) : Prop :=
  in_header enc -> has_bits (ch_flags (qpe_cur_header enc)) LSQECH_MINREF_CACHED = true ->
  0 <= ch_min_reffed (qpe_cur_header enc)
  /\ forall p, p ∈ all_hinfos enc -> ~ is_cur enc p -> qhi_min_id (hinfo_of enc p) <> 0 ->
     0 < ch_min_reffed (qpe_cur_header enc) <= qhi_min_id (hinfo_of enc p).

(** A header block at risk has been allowed for. *)
Definition risk_ok (enc : lsqpack_enc) : Prop :=
  qpe_cur_streams_at_risk (qpe_hinfos enc) <= qpe_max_risked_streams enc
  /\ forall p, is_cur enc p -> qpe_max_acked_id enc < qhi_max_id (hinfo_of enc p) ->
     ch_other_at_risk (qpe_cur_header enc) = None ->
     qpe_cur_streams_at_risk (qpe_hinfos enc) < qpe_max_risked_streams enc.

Record enc_core (enc : lsqpack_enc) : Prop := {
  ec_table : table_wf (qpe_table enc);
  ec_buckets : 0 < qpe_max_entries enc -> has_buckets (qpe_table enc);
  ec_capacity : qpe_cur_max_capacity (qpe_table enc) <= qpe_real_max_capacity enc < 2 ^ 31;
  ec_max_entries : qpe_max_entries enc = qpe_real_max_capacity enc / DYNAMIC_ENTRY_OVERHEAD
                   /\ (0 < qpe_ins_count (qpe_table enc) -> 0 < qpe_max_entries enc);
  ec_hist : hist_wf (qpe_hist enc);
  ec_hinfos : hinfos_wf (qpe_hinfos enc);
  ec_arrs : arrs_bounded (qpe_hinfos enc);
  ec_acked : 0 <= qpe_last_ici enc <= qpe_max_acked_id enc
             /\ qpe_max_acked_id enc <= qpe_ins_count (qpe_table enc);
  ec_cur : forall p, is_cur enc p -> p ∈ all_hinfos enc;
  ec_hinfo : forall p, p ∈ all_hinfos enc -> hinfo_ok enc p;
  ec_cache : cache_ok enc;
  ec_risk : risk_ok enc;
  ec_base : 0 <= ch_base_idx (qpe_cur_header enc) <= qpe_ins_count (qpe_table enc);
}.

(** Between the fields of a header block the table also fits its capacity. *)
Record enc_wf (enc : lsqpack_enc) : Prop := {
  ew_core : enc_core enc;
  ew_fits : qpe_cur_bytes_used (qpe_table enc) <= qpe_cur_max_capacity (qpe_table enc);
  ew_header : in_header enc;
}.

(** ** Changes that do not matter *)

(** Only the history, the cached minimum, the moving averages and the allocation
    oracle may differ. *)
Record soft (enc enc' : lsqpack_enc) : Prop := {
  so_table : qpe_table enc' = qpe_table enc;
  so_hinfos : qpe_hinfos enc' = qpe_hinfos enc;
  so_acked : qpe_max_acked_id enc' = qpe_max_acked_id enc;
  so_ici : qpe_last_ici enc' = qpe_last_ici enc;
  so_flags : qpe_flags enc' = qpe_flags enc;
  so_real : qpe_real_max_capacity enc' = qpe_real_max_capacity enc;
  so_entries : qpe_max_entries enc' = qpe_max_entries enc;
  so_risked : qpe_max_risked_streams enc' = qpe_max_risked_streams enc;
  so_hinfo : ch_hinfo (qpe_cur_header enc') = ch_hinfo (qpe_cur_header enc);
  so_other : ch_other_at_risk (qpe_cur_header enc') = ch_other_at_risk (qpe_cur_header enc);
  so_base : ch_base_idx (qpe_cur_header enc') = ch_base_idx (qpe_cur_header enc);
  so_stream : qpe_dec_stream_state enc' = qpe_dec_stream_state enc;
  so_hist : hist_exists enc' = hist_exists enc;
}.

#[global] Instance soft_preorder : PreOrder soft.
Proof.
  split.
  - intros enc. constructor; done.
  - intros x y z [] []. constructor; congruence.
Qed.

(** [softly enc enc']: a soft change that keeps the invariant. *)
Definition softly (enc enc' : lsqpack_enc) : Prop :=
  soft enc enc' /\ (enc_core enc -> enc_core enc').

#[global] Instance softly_preorder : PreOrder softly.
Proof.
  split.
  - intros enc. split; [reflexivity|done].
  - intros x y z [H1 H2] [H3 H4]. split; [by etrans|auto].
Qed.

Lemma softly_wf enc enc' : softly enc enc' -> enc_wf enc -> enc_wf enc'.
Proof.
  intros [Hs Hc] [H1 H2 H3]. constructor; [auto|by rewrite (so_table _ _ Hs)|].
  unfold in_header. by rewrite (so_flags _ _ Hs).
Qed.

(** A soft change with a sound history and cache. *)
Lemma soft_core enc enc' :
  soft enc enc' -> enc_core enc ->
  hist_wf (qpe_hist enc') -> cache_ok enc' -> enc_core enc'.
Proof.
  intros [Ht Hh Ha Hi Hf Hr He Hm Hp Ho Hb _ _] [] Hhist Hcache.
  constructor; rewrite ?Ht, ?Hh, ?Ha, ?Hi, ?Hr, ?He, ?Hb; try done.
  - unfold is_cur, all_hinfos. rewrite Hp, Hh. exact ec_cur0.
  - intros p. specialize (ec_hinfo0 p). unfold all_hinfos, hinfo_ok, is_cur, hinfo_of in *.
    by rewrite Hp, Hh, Ha, Ht.
  - unfold risk_ok, is_cur, hinfo_of in *. by rewrite Hp, Hh, Ha, Ho, Hm.
Qed.

Lemma soft_evictable enc enc' i : soft enc enc' -> evictable enc' i <-> evictable enc i.
Proof.
  intros []. unfold evictable, below_refs, all_hinfos, hinfo_of.
  by rewrite so_acked0, so_hinfos0.
Qed.

Lemma soft_room_for enc enc' size : soft enc enc' -> room_for enc' size <-> room_for enc size.
Proof.
  intros Hs. unfold room_for. rewrite (so_table _ _ Hs).
  split; intros (pre & post & H1 & H2 & H3); exists pre, post; split_and!; try done;
    (eapply Forall_impl; [exact H2|]); intros e; cbn;
    by rewrite (soft_evictable enc enc' _ Hs).
Qed.

Lemma soft_cur_hinfo enc enc' : soft enc enc' -> cur_hinfo enc' = cur_hinfo enc.
Proof. intros []. unfold cur_hinfo. by rewrite so_hinfo0, so_hinfos0. Qed.

Lemma soft_can_risk enc enc' : soft enc enc' -> qenc_can_risk enc' = qenc_can_risk enc.
Proof.
  intros Hs. unfold qenc_can_risk. rewrite (soft_cur_hinfo _ _ Hs). destruct Hs.
  by rewrite so_other0, so_hinfos0, so_risked0, so_acked0.
Qed.

(** ** The history *)

Lemma hist_softly h enc :
  hist_wf h -> (match qpe_hist_els h with Some _ => true | None => false end) = hist_exists enc ->
  softly enc (set_hist h enc).
Proof.
  intros Hh He. assert (soft enc (set_hist h enc)) as Hs by (constructor; done).
  split; [done|]. intros Hc. apply (soft_core _ _ Hs Hc Hh). apply (ec_cache _ Hc).
Qed.

Lemma mallocs_softly ms enc : softly enc (set_mallocs ms enc).
Proof.
  assert (soft enc (set_mallocs ms enc)) as Hs by (constructor; done).
  split; [done|]. intros Hc. apply (soft_core _ _ Hs Hc); apply Hc.
Qed.

Lemma wp_hist_seen e hash enc :
  enc_core enc -> wp (enc_hist_seen e hash) enc (fun _ enc' => softly enc enc').
Proof.
  intros Hc. unfold wp, enc_hist_seen.
  destruct (hist_seen_wf (qpe_hist enc) e hash (ec_hist _ Hc)) as (b & h & -> & Hh & He).
  by apply hist_softly.
Qed.

(** ** The minimum reference *)

Lemma min_reffed_spec hs ps : forall m0,
  0 <= m0 -> (forall p, p ∈ ps -> 0 <= qhi_min_id (hinfo_at hs p)) ->
  let r := min_reffed hs ps m0 in
  0 <= r /\ (0 < m0 -> 0 < r <= m0)
  /\ forall p, p ∈ ps -> qhi_min_id (hinfo_at hs p) <> 0 -> 0 < r <= qhi_min_id (hinfo_at hs p).
Proof.
  induction ps as [|p ps IH]; intros m0 Hm Hp; cbn zeta; cbn [min_reffed].
  - split_and!; [done|lia|]. by intros p ?%elem_of_nil.
  - set (m := qhi_min_id (hinfo_at hs p)). pose proof (Hp p ltac:(by left)) as Hpm. fold m in Hpm.
    match goal with |- context [min_reffed hs ps ?x] => set (m1 := x) end.
    assert (0 <= m1 /\ (0 < m0 -> 0 < m1 <= m0) /\ (m <> 0 -> 0 < m1 <= m)) as (H1 & H2 & H3).
    { unfold m1. destruct (Z.eqb_spec m0 0), (Z.eqb_spec m 0), (Z.ltb_spec m m0); cbn; lia. }
    destruct (IH m1 H1) as (G1 & G2 & G3); [intros q Hq; apply Hp; by right|].
    split_and!; [done|lia|]. intros q [->|Hq]%elem_of_cons; [fold m; lia|]. by apply G3.
Qed.

(** A lower bound of all references. *)
Definition bounds_refs (enc : lsqpack_enc) (m : Z) : Prop :=
  forall p, p ∈ all_hinfos enc -> qhi_min_id (hinfo_of enc p) <> 0 ->
  0 < m <= qhi_min_id (hinfo_of enc p).

Lemma hinfo_min_nonneg enc p : enc_core enc -> p ∈ all_hinfos enc -> 0 <= qhi_min_id (hinfo_of enc p).
Proof.
  intros Hc Hp. destruct (ec_hinfo _ Hc p Hp) as ([[H _]|[_ [H _]]] & _); lia.
Qed.

Lemma cur_or_not enc p : is_cur enc p \/ ~ is_cur enc p.
Proof. unfold is_cur. destruct (decide (ch_hinfo (qpe_cur_header enc) = Some p)); auto. Qed.

Lemma wp_min_reffed_id enc :
  enc_core enc -> in_header enc ->
  wp qenc_min_reffed_id enc (fun m enc' => softly enc enc' /\ bounds_refs enc m).
Proof.
  intros Hc Hin. unfold qenc_min_reffed_id. wpsteps.
  eapply (wp_mono _ _ (fun m enc' => softly enc enc' /\ 0 <= m /\ forall p, p ∈ all_hinfos enc ->
      ~ is_cur enc p -> qhi_min_id (hinfo_of enc p) <> 0 -> 0 < m <= qhi_min_id (hinfo_of enc p))).
  - destruct (has_bits (ch_flags (qpe_cur_header enc)) LSQECH_MINREF_CACHED) eqn:Hflag.
    + wpsteps. split; [reflexivity|]. by apply (ec_cache _ Hc Hin).
    + wpsteps. destruct (min_reffed_spec (qpe_hinfos enc) (all_hinfos enc) 0) as (Hge & _ & Hmin);
        [done|intros p Hp; by apply (hinfo_min_nonneg enc)|].
      split; [|split; [done|intros p Hp _; by apply Hmin]].
      match goal with |- softly _ ?e => assert (soft enc e) as Hs by (constructor; done) end.
      split; [done|]. intros _. apply (soft_core _ _ Hs Hc); [apply Hc|].
      intros _ _. split; [done|]. intros p Hp _. by apply Hmin.
  - intros m enc' (Hs & Hm0 & Hm). apply wp_ret. split; [done|]. intros p Hp Hne.
    unfold cur_hinfo. destruct (ch_hinfo (qpe_cur_header enc)) as [q|] eqn:Hq; cbn [fmap option_fmap option_map].
    + pose proof (ec_cur _ Hc q Hq) as Hqa. pose proof (hinfo_min_nonneg enc q Hc Hqa) as Hq0.
      unfold hinfo_of in *. set (mq := qhi_min_id (hinfo_at (qpe_hinfos enc) q)) in *.
      destruct (cur_or_not enc p) as [Hcur|Hcur].
      * unfold is_cur in Hcur. rewrite Hq in Hcur. injection Hcur as ->. fold mq in Hne |- *.
        destruct (Z.eqb_spec m 0), (Z.eqb_spec mq 0), (Z.ltb_spec mq m); cbn; lia.
      * specialize (Hm p Hp Hcur Hne).
        destruct (Z.eqb_spec m 0), (Z.eqb_spec mq 0), (Z.ltb_spec mq m); cbn; lia.
    + apply Hm; [done| |done]. unfold is_cur. by rewrite Hq.
Qed.

(** ** Room by eviction *)

Lemma can_evict_loop_spec min_id acked size entries : forall avail,
  can_evict_loop min_id acked size avail entries = true ->
  exists pre post, entries = pre ++ post
    /\ Forall (fun e => (min_id = 0 \/ ete_id e < min_id) /\ ete_id e <= acked) pre
    /\ size <= avail + sizes pre.
Proof.
  induction entries as [|e entries IH]; intros avail; cbn [can_evict_loop].
  - rewrite Z.geb_leb. intros H%Z.leb_le. exists [], []. split_and!; [done|done|cbn; lia].
  - destruct (_ && _) eqn:Hc.
    + apply andb_true_iff in Hc as [Hc1 Hc2%Z.leb_le].
      assert (min_id = 0 \/ ete_id e < min_id) as Hm.
      { apply orb_true_iff in Hc1 as [H%Z.eqb_eq|H%Z.ltb_lt]; auto. }
      rewrite Z.geb_leb. destruct (Z.leb_spec size (avail + ETE_SIZE e)).
      * intros _. exists [e], entries. split_and!; [done|by constructor|cbn; lia].
      * intros (pre & post & -> & Hf & Hs)%IH. exists (e :: pre), post.
        split_and!; [done|by constructor|cbn; lia].
    + rewrite Z.geb_leb. intros H%Z.leb_le. exists [], (e :: entries).
      split_and!; [done|done|cbn; lia].
Qed.

Lemma avail_eq enc :
  enc_wf enc ->
  u32 (qpe_cur_max_capacity (qpe_table enc) - qpe_cur_bytes_used (qpe_table enc))
  = qpe_cur_max_capacity (qpe_table enc) - sizes (qpe_all_entries (qpe_table enc)).
Proof.
  intros [Hc Hf _]. pose proof (ec_table _ Hc) as Ht. rewrite (wf_used _ Ht) in *.
  pose proof (wf_capacity _ Ht). pose proof (sizes_lower _ (wf_entries _ Ht)).
  apply u32_id. ulia.
Qed.

Lemma wp_can_evict size enc :
  enc_wf enc ->
  wp (qenc_has_or_can_evict_at_least size) enc
    (fun b enc' => softly enc enc' /\ (b = true -> room_for enc size)).
Proof.
  intros Hwf. unfold qenc_has_or_can_evict_at_least. wpsteps. rewrite avail_eq by done.
  set (t := qpe_table enc). rewrite Z.geb_leb.
  destruct (Z.leb_spec size (qpe_cur_max_capacity t - sizes (qpe_all_entries t))).
  - wpsteps. split; [reflexivity|]. intros _. exists [], (qpe_all_entries t).
    split_and!; [done|done|]. fold t. lia.
  - wpstep. eapply wp_mono; [apply wp_min_reffed_id; apply Hwf|].
    intros m enc' [Hs Hb]. wpsteps. split; [done|].
    intros (pre & post & Hall & Hf & Hsz)%can_evict_loop_spec. exists pre, post.
    split_and!; [done| |].
    + eapply Forall_impl; [exact Hf|]. cbn. intros e [Hm Ha]. split; [done|].
      intros p Hp Hne. specialize (Hb p Hp Hne). lia.
    + rewrite Hall, sizes_app in Hsz. fold t. lia.
Qed.

Lemma wp_duplicable entry enc :
  enc_wf enc ->
  wp (qenc_duplicable_entry entry) enc
    (fun b enc' => softly enc enc' /\ (b = true -> room_for enc (ETE_SIZE entry))).
Proof.
  intros Hwf. unfold qenc_duplicable_entry. wpsteps.
  destruct (negb _); [wpsteps; by split; [reflexivity|]|].
  destruct (fltb _ _); [wpsteps; by split; [reflexivity|]|].
  destruct (fltb _ _); [by apply wp_can_evict|wpsteps; by split; [reflexivity|]].
Qed.

(** ** Safe duplication *)

(** The entries up to the pinned one hold enough bytes without it. *)
Lemma safe_to_dup_loop_spec pinned cap entries : forall used pre post,
  entries = pre ++ pinned :: post -> pinned ∉ pre -> Forall entry_wf entries ->
  sizes pre + ETE_SIZE pinned + sizes post <= used < 2 ^ 32 ->
  exists b, safe_to_dup_loop pinned cap used entries = Some b
    /\ (b = true -> used - sizes pre <= cap).
Proof.
  induction entries as [|e entries IH]; intros used pre post Hl Hn Hwf Hu;
    [by destruct pre|]. cbn [safe_to_dup_loop].
  destruct pre as [|x pre]; injection Hl as -> ->.
  - rewrite decide_True by done. eexists; split; [done|done].
  - apply not_elem_of_cons in Hn as [Hx Hn]. apply Forall_cons_1 in Hwf as [He Hwf].
    pose proof (entry_size_range x He). cbn [sizes] in Hu.
    pose proof (Forall_app entry_wf pre (pinned :: post)) as Hfa. apply Hfa in Hwf as Hwf2.
    destruct Hwf2 as [Hpre [Hpin Hpost]%Forall_cons_1].
    pose proof (sizes_lower _ Hpre). pose proof (sizes_lower _ Hpost).
    pose proof (entry_size_range pinned Hpin). change (2 ^ 18) with 262144 in *.
    rewrite decide_False by done. rewrite u32_id by ulia.
    destruct (Z.leb_spec (used - ETE_SIZE x) cap).
    + eexists; split; [done|]. intros _. cbn [sizes]. lia.
    + destruct (IH (used - ETE_SIZE x) pre post) as (b & -> & Hb); [done|done|done|lia|].
      eexists; split; [done|]. intros Ht. specialize (Hb Ht). cbn [sizes]. lia.
Qed.

(** The pinned entry survives the eviction its duplicate causes. *)
Definition survives_dup (t : enc_table) (pinned : enc_table_entry) : Prop :=
  exists pre post, qpe_all_entries t = pre ++ pinned :: post
    /\ ETE_SIZE pinned + sizes post + ETE_SIZE pinned <= qpe_cur_max_capacity t.

Lemma ids_nodup t : table_wf t -> NoDup (ete_id <$> qpe_all_entries t).
Proof. intros Ht. rewrite (wf_ids _ Ht). apply NoDup_seqZ. Qed.

Lemma wp_safe_to_dup pinned enc :
  enc_wf enc -> pinned ∈ qpe_all_entries (qpe_table enc) ->
  wp (qenc_safe_to_dup pinned) enc
    (fun b enc' => enc' = enc /\ (b = true -> survives_dup (qpe_table enc) pinned)).
Proof.
  intros [Hc Hfit _] Hp. unfold wp, qenc_safe_to_dup. set (t := qpe_table enc) in *.
  pose proof (ec_table _ Hc) as Ht. fold t in Ht.
  apply list_elem_of_split in Hp as (pre & post & Hall).
  pose proof (ids_nodup _ Ht) as Hnd%NoDup_fmap_1. rewrite Hall in Hnd.
  apply NoDup_app in Hnd as (_ & Hd & _).
  pose proof (wf_entries _ Ht) as Hwf. pose proof Hwf as Hwf2. rewrite Hall in Hwf2.
  apply Forall_app in Hwf2 as [Hpre [Hpin Hpost]%Forall_cons_1].
  pose proof (sizes_lower _ Hpre). pose proof (sizes_lower _ Hpost).
  pose proof (entry_size_range pinned Hpin). pose proof (ec_capacity _ Hc) as Hcap. fold t in Hcap.
  pose proof (wf_used _ Ht) as Hu. rewrite Hall, sizes_app in Hu. cbn [sizes] in Hu.
  change (2 ^ 18) with 262144 in *. change (2 ^ 31) with 2147483648 in *.
  rewrite u32_id by ulia.
  destruct (Z.leb_spec (qpe_cur_bytes_used t + ETE_SIZE pinned) (qpe_cur_max_capacity t)).
  - split; [done|]. intros _. exists pre, post. split; [done|lia].
  - destruct (safe_to_dup_loop_spec pinned (qpe_cur_max_capacity t) (qpe_all_entries t)
                (qpe_cur_bytes_used t + ETE_SIZE pinned) pre post) as (b & -> & Hb).
    + done.
    + intros Hin. apply (Hd pinned Hin). by left.
    + done.
    + ulia.
    + split; [done|]. intros Hbt. specialize (Hb Hbt). exists pre, post. split; [done|lia].
Qed.
