(* ===== verification/EncChoice.v ===== *)
(** * The choice of a representation is sound

    [good_choice enc f c] lists what [choose_program] may decide: each program
    with the facts about the state and the field that make it safe to execute
    and correct.  The theorem is that [choose_program] only makes good choices
    and changes the state softly. *)

From stdpp Require Import sets sorting.
From S2P Require Import Prelude Monad IntCodec HuffTables Huffman StrCodec Xxhash StaticTable History.
From S2P Require Import EncTable EncHinfo Float EncState EncPolicy EncEncode Encoder EncInv.

(** ** Fields *)

(** What a caller must provide: strings within the limit, hashes of 32 bits, and
    a static index that belongs to the name. *)
Record xhdr_wf (x : lsxpack_header) : Prop := {
  xw_name : is_bytes (xh_name x);
  xw_value : is_bytes (xh_value x);
  xw_name_len : Z.of_nat (length (xh_name x)) <= LSXPACK_MAX_STRLEN;
  xw_value_len : Z.of_nat (length (xh_value x)) <= LSXPACK_MAX_STRLEN;
  xw_name_hash : is_u32 (xh_name_hash x);
  xw_nameval_hash : is_u32 (xh_nameval_hash x);
  xw_index : has_bits (xh_flags x) LSXPACK_QPACK_IDX = true ->
    0 <= xh_qpack_index x < 99 /\ ste_name (ste_at (xh_qpack_index x)) = xh_name x;
  xw_matched : has_bits (xh_flags x) LSXPACK_QPACK_IDX = true ->
    has_bits (xh_flags x) LSXPACK_VAL_MATCHED = true ->
    ste_val (ste_at (xh_qpack_index x)) = xh_value x;
}.

(** The arguments computed by [lsqpack_enc_encode] for a state. *)
Record field_wf (enc : lsqpack_enc) (f : field) : Prop := {
  fw_xhdr : xhdr_wf (f_xhdr f);
  fw_name_hash : is_u32 (f_name_hash f);
  fw_nameval_hash : is_u32 (f_nameval_hash f);
  fw_dyn : f_use_dyn_table f = true ->
    0 < qpe_max_entries enc /\ exists p, ch_hinfo (qpe_cur_header enc) = Some p;
  fw_index : f_index f = true ->
    f_use_dyn_table f = true /\ qpe_ins_count (qpe_table enc) < LSQPACK_MAX_ABS_ID;
  fw_risk : f_risk f = qenc_can_risk enc;
}.

Definition entries (enc : lsqpack_enc) : list enc_table_entry := qpe_all_entries (qpe_table enc).

(** An entry that a header block may refer to. *)
Definition usable (enc : lsqpack_enc) (f : field) (e : enc_table_entry) : Prop :=
  e ∈ entries enc /\ f_use_dyn_table f = true
  /\ (f_risk f = false -> ete_id e <= qpe_max_acked_id enc)
  /\ ETE_NAME e = f_name f.

Definition static_name_ok (f : field) (id : Z) : Prop :=
  0 <= id < 99 /\ ste_name (ste_at id) = f_name f.

Definition chosen (p : encode_program) (id : Z) (e : option enc_table_entry) : choice :=
  {| c_prog := p; c_id := id; c_entry := e |}.

Definition name_cost (f : field) : Z := ENTRY_COST (Z.of_nat (length (f_name f))) 0.

Inductive good_choice (enc : lsqpack_enc) (f : field) : choice -> Prop :=
  | gc_dup_risk e :
      usable enc f e -> ETE_VALUE e = f_value f -> f_index f = true -> f_risk f = true ->
      room_for enc (ETE_SIZE e) ->
      good_choice enc f (chosen (Prog EEA_DUP EHA_INDEXED_NEW ETA_NEW true true) (ete_id e) (Some e))
  | gc_dup_acked e :
      usable enc f e -> ETE_VALUE e = f_value f -> f_index f = true -> f_risk f = false ->
      room_for enc (ETE_SIZE e) -> survives_dup (qpe_table enc) e ->
      good_choice enc f (chosen (Prog EEA_DUP EHA_INDEXED_DYN ETA_NEW true false) (ete_id e) (Some e))
  | gc_indexed e :
      usable enc f e -> ETE_VALUE e = f_value f ->
      good_choice enc f (chosen (Prog EEA_NONE EHA_INDEXED_DYN ETA_NOOP true false) (ete_id e) (Some e))
  | gc_static_lit id :
      static_name_ok f id ->
      good_choice enc f (chosen (Prog EEA_NONE EHA_LIT_WITH_NAME_STAT ETA_NOOP false false) id None)
  | gc_static_ins_lit id :
      static_name_ok f id -> f_index f = true -> room_for enc (f_cost f) ->
      good_choice enc f
        (chosen (Prog EEA_INS_NAMEREF_STATIC EHA_LIT_WITH_NAME_STAT ETA_NEW false false) id None)
  | gc_static_ins id :
      static_name_ok f id -> f_index f = true -> f_risk f = true -> room_for enc (f_cost f) ->
      good_choice enc f
        (chosen (Prog EEA_INS_NAMEREF_STATIC EHA_INDEXED_NEW ETA_NEW false true) id None)
  | gc_dyn_ins e :
      usable enc f e -> f_index f = true -> f_risk f = true -> room_for enc (f_cost f) ->
      good_choice enc f
        (chosen (Prog EEA_INS_NAMEREF_DYNAMIC EHA_INDEXED_NEW ETA_NEW true true) (ete_id e) (Some e))
  | gc_dyn_lit e :
      usable enc f e ->
      good_choice enc f
        (chosen (Prog EEA_NONE EHA_LIT_WITH_NAME_DYN ETA_NOOP true false) (ete_id e) (Some e))
  | gc_ins_lit :
      f_index f = true -> room_for enc (f_cost f) ->
      good_choice enc f (chosen (Prog EEA_INS_LIT EHA_LIT ETA_NEW false false) 0 None)
  | gc_ins_indexed :
      f_index f = true -> f_risk f = true -> room_for enc (f_cost f) ->
      good_choice enc f (chosen (Prog EEA_INS_LIT EHA_INDEXED_NEW ETA_NEW false true) 0 None)
  | gc_ins_name_lit :
      f_index f = true -> room_for enc (name_cost f) ->
      good_choice enc f (chosen (Prog EEA_INS_LIT_NAME EHA_LIT ETA_NEW_NAME false false) 0 None)
  | gc_ins_name :
      f_index f = true -> f_risk f = true -> room_for enc (name_cost f) ->
      good_choice enc f
        (chosen (Prog EEA_INS_LIT_NAME EHA_LIT_WITH_NAME_NEW ETA_NEW_NAME false true) 0 None)
  | gc_lit :
      good_choice enc f (chosen (Prog EEA_NONE EHA_LIT ETA_NOOP false false) 0 None).

(** ** Candidates *)

Definition by_id (a b : enc_table_entry) : Prop := ete_id a < ete_id b.

Lemma seqZ_sorted n : forall m (l : list enc_table_entry),
  ete_id <$> l = seqZ m (Z.of_nat n) -> StronglySorted by_id l.
Proof.
  induction n as [|n IH]; intros m l Hl.
  - rewrite seqZ_nil in Hl by lia. apply fmap_nil_inv in Hl as ->. constructor.
  - rewrite seqZ_cons in Hl by lia. destruct l as [|e l]; [done|]. injection Hl as He Hl.
    replace (Z.pred (Z.of_nat (S n))) with (Z.of_nat n) in Hl by lia.
    constructor; [by apply (IH (Z.succ m))|].
    rewrite Forall_forall. intros e' He'. unfold by_id.
    assert (ete_id e' ∈ seqZ (Z.succ m) (Z.of_nat n)) as Hin
      by (rewrite <- Hl; by apply list_elem_of_fmap_2).
    apply elem_of_seqZ in Hin. lia.
Qed.

Lemma entries_sorted t : table_wf t -> StronglySorted by_id (qpe_all_entries t).
Proof.
  intros Ht. eapply (seqZ_sorted (length (qpe_all_entries t))).
  rewrite (wf_ids _ Ht), (wf_nelem _ Ht). done.
Qed.

Lemma sorted_filter (P : enc_table_entry -> Prop) `{forall e, Decision (P e)} l :
  StronglySorted by_id l -> StronglySorted by_id (filter P l).
Proof.
  induction 1 as [|e l Hl IH Hf]; [constructor|]. rewrite filter_cons.
  destruct (decide (P e)); [|done]. constructor; [done|].
  rewrite Forall_forall in *. intros x [_ Hx]%list_elem_of_filter. by apply Hf.
Qed.

Lemma bucket_of_ok t hash :
  table_wf t -> has_buckets t ->
  bucket_ok (qpe_nbits t) (qpe_all_entries t) (Z.to_nat (BUCKNO (qpe_nbits t) hash)) (bucket_of t hash).
Proof.
  intros Ht Hb. destruct (buckets_lookup _ _ _ hash (has_buckets_ok _ Ht Hb)) as (h & Hh & Hok).
  unfold bucket_of. by rewrite Hh.
Qed.

Lemma candidates_spec t f :
  table_wf t -> has_buckets t ->
  StronglySorted by_id (candidates t f)
  /\ Forall (fun e => e ∈ qpe_all_entries t /\ ETE_NAME e = f_name f /\ ETE_VALUE e = f_value f)
       (candidates t f)
  /\ (length (candidates t f) <= 2)%nat.
Proof.
  intros Ht Hb. destruct (bucket_of_ok t (f_nameval_hash f) Ht Hb) as [_ Hv].
  unfold candidates. rewrite Hv. set (l := filter _ (filter _ _)).
  assert (StronglySorted by_id l) as Hs by (by apply sorted_filter, sorted_filter, entries_sorted).
  split_and!; [|apply Forall_take|rewrite length_take; lia].
  - rewrite <- (take_drop 2 l) in Hs. by apply StronglySorted_app_1_l in Hs.
  - rewrite Forall_forall. unfold l. intros e [He [_ Hin]%list_elem_of_filter]%list_elem_of_filter.
    unfold same_nameval in He. apply andb_true_iff in He as [He H3%bool_decide_eq_true].
    apply andb_true_iff in He as [_ H2%bool_decide_eq_true]. done.
Qed.

(** ** The steps of the choice *)

(** What a step guarantees, relative to the state at [restart]. *)
Definition step_ok {A} (enc0 : lsqpack_enc) (Q : A -> Prop) (x : A) (enc' : lsqpack_enc) : Prop :=
  softly enc0 enc' /\ Q x.

Lemma softly_room enc0 enc size : softly enc0 enc -> room_for enc size -> room_for enc0 size.
Proof. intros [Hs _]. apply (soft_room_for enc0 enc size Hs). Qed.

(** Running a step in a state reached softly. *)
Lemma wp_step {A} (m : enc_m A) enc0 enc (Q : A -> Prop) :
  softly enc0 enc -> wp m enc (fun x enc' => softly enc enc' /\ Q x) ->
  wp m enc (step_ok enc0 Q).
Proof.
  intros Hs Hm. eapply wp_mono; [exact Hm|]. intros x enc' [Hs' HQ]. split; [|done].
  by transitivity enc.
Qed.

Lemma wp_room_step size enc0 enc :
  enc_wf enc0 -> softly enc0 enc ->
  wp (qenc_has_or_can_evict_at_least size) enc (step_ok enc0 (fun b => b = true -> room_for enc0 size)).
Proof.
  intros Hwf Hs. eapply wp_mono; [apply wp_can_evict; by apply (softly_wf _ _ Hs)|].
  intros b enc' [Hs' Hb]. split; [by transitivity enc|]. intros Ht.
  by apply (softly_room enc0 enc), Hb.
Qed.

Lemma wp_seen_step e hash enc0 enc :
  enc_wf enc0 -> softly enc0 enc ->
  wp (enc_hist_seen e hash) enc (step_ok enc0 (fun _ => True)).
Proof.
  intros Hwf Hs. eapply wp_mono; [apply wp_hist_seen, ew_core; by apply (softly_wf _ _ Hs)|].
  intros b enc' Hs'. split; [by transitivity enc|done].
Qed.

(** A test guarded by another: [if (b && m)]. *)
Lemma wp_guard (b : bool) (m : enc_m bool) enc0 enc (Q : bool -> Prop) :
  softly enc0 enc -> Q false -> (b = true -> wp m enc (step_ok enc0 Q)) ->
  wp (if b then m else mret false) enc (step_ok enc0 Q).
Proof. intros Hs Hf Ht. destruct b; [by apply Ht|]. apply wp_ret. by split. Qed.

Lemma wp_once memo (m : enc_m bool) enc0 enc (Q : bool -> Prop) :
  softly enc0 enc -> (forall b, memo = Some b -> Q b) -> wp m enc (step_ok enc0 Q) ->
  wp (once memo m) enc (step_ok enc0 Q).
Proof. intros Hs Hm Hw. destruct memo; [|done]. apply wp_ret. split; auto. Qed.

Lemma wp_full_match enc0 f cands :
  enc_wf enc0 -> field_wf enc0 f ->
  StronglySorted by_id cands -> (length cands <= 2)%nat ->
  Forall (fun e => f_use_dyn_table f = true /\ e ∈ entries enc0
                   /\ ETE_NAME e = f_name f /\ ETE_VALUE e = f_value f) cands ->
  wp (full_match f cands) enc0
    (step_ok enc0 (fun c => match c with Some c => good_choice enc0 f c | None => True end)).
Proof.
  intros Hwf Hf Hsort Hlen Hall. unfold full_match. wpsteps.
  destruct cands as [|c0 [|c1 [|]]]; [by wpsteps| | |cbn in Hlen; lia].
  - apply Forall_cons_1 in Hall as [(Hdyn & Hin & Hn & Hv) _].
    assert (f_risk f || (ete_id c0 <=? qpe_max_acked_id enc0) = true -> usable enc0 f c0) as Hus.
    { intros Hu. unfold usable. split_and!; try done. intros Hr. rewrite Hr in Hu. cbn in Hu. lia. }
    wpstep. eapply wp_mono.
    { apply (wp_guard _ _ enc0 enc0 (fun b => b = true ->
               (f_risk f || (ete_id c0 <=? qpe_max_acked_id enc0)) && f_index f = true
               /\ room_for enc0 (ETE_SIZE c0))); [reflexivity|done|].
      intros Hg. eapply wp_mono; [by apply wp_duplicable|]. intros b enc' [Hs Hb].
      split; [done|]. auto. }
    intros dup enc1 [Hs1 Hdup]. destruct dup.
    + destruct (Hdup eq_refl) as [[Hu Hi]%andb_true_iff Hroom]. specialize (Hus Hu).
      destruct (f_risk f) eqn:Hr; [wpsteps; split; [done|by apply gc_dup_risk]|].
      destruct (negb _); [|by wpsteps].
      wpstep. eapply wp_mono; [apply wp_safe_to_dup; [by apply (softly_wf enc0)|]|].
      { rewrite (so_table _ _ (proj1 Hs1)). exact Hin. }
      intros b enc2 [-> Hb]. rewrite (so_table _ _ (proj1 Hs1)) in Hb.
      destruct b; wpsteps; (split; [done|]); [by apply gc_dup_acked; auto|by apply gc_indexed].
    + destruct (f_risk f || _) eqn:Hu; cbn [andb]; [|by wpsteps].
      destruct (negb _); wpsteps; (split; [done|]); [|done]. apply gc_indexed; [by apply Hus|done].
  - apply Forall_cons_1 in Hall as [(Hdyn & Hin0 & Hn0 & Hv0) Hall].
    apply Forall_cons_1 in Hall as [(_ & Hin1 & Hn1 & Hv1) _].
    apply StronglySorted_inv in Hsort as [_ [Hlt _]%Forall_cons_1]. unfold by_id in Hlt.
    wpstep. apply wp_assert; [by apply Z.gtb_lt|]. wpsteps. split; [reflexivity|].
    destruct (f_risk f) eqn:Hr.
    { apply gc_indexed; [|done]. split_and!; try done. congruence. }
    destruct (Z.leb_spec (ete_id c1) (qpe_max_acked_id enc0)).
    { apply gc_indexed; [|done]. by split_and!. }
    destruct (Z.leb_spec (ete_id c0) (qpe_max_acked_id enc0)); cbn [andb]; [|done].
    destruct (negb _); [|done]. apply gc_indexed; [|done]. by split_and!.
Qed.

Lemma wp_static_name_match enc0 enc f seen has_cand id :
  enc_wf enc0 -> softly enc0 enc -> static_name_ok f id ->
  wp (static_name_match f seen has_cand id) enc
    (step_ok enc0 (fun r => good_choice enc0 f (fst r))).
Proof.
  intros Hwf Hs Hid. unfold static_name_match. wpstep. eapply wp_mono.
  { apply (wp_guard _ _ enc0 enc (fun b => b = true -> f_index f = true /\ room_for enc0 (f_cost f)));
      [done|done|]. intros Hi. eapply wp_mono; [by apply wp_room_step|].
    intros b enc' [? ?]. split; auto. }
  intros room enc1 [Hs1 Hroom]. destruct room.
  - destruct (Hroom eq_refl) as [Hi Hr]. wpstep. eapply wp_mono; [by apply wp_seen_step|].
    intros b enc2 [Hs2 _]. wpsteps. split; [done|]. cbn [fst].
    destruct b, (f_risk f) eqn:Hrisk, has_cand; cbn [static_name_program];
      first [by apply gc_static_ins|by apply gc_static_ins_lit|by apply gc_static_lit].
  - wpsteps. split; [done|]. by apply gc_static_lit.
Qed.

Lemma wp_dyn_name_loop enc0 f l : forall enc memo,
  enc_wf enc0 -> softly enc0 enc -> f_use_dyn_table f = true ->
  (forall e, e ∈ l -> e ∈ entries enc0) ->
  (memo = Some true -> room_for enc0 (f_cost f)) ->
  wp (dyn_name_loop f l memo) enc
    (step_ok enc0 (fun r => (snd r = Some true -> room_for enc0 (f_cost f))
       /\ match fst r with
          | Some e => usable enc0 f e /\ (f_index f = true -> snd r = Some true)
          | None => True
          end)).
Proof.
  induction l as [|e l IH]; intros enc memo Hwf Hs Hdyn Hin Hm; cbn [dyn_name_loop].
  - wpsteps. by split.
  - wpsteps. assert (forall e', e' ∈ l -> e' ∈ entries enc0) as Hin' by (intros; apply Hin; by right).
    destruct (_ && _) eqn:Hg; [|by apply IH].
    apply andb_true_iff in Hg as [_ Hg]. rewrite (so_acked _ _ (proj1 Hs)) in Hg.
    assert (f_name f = ETE_NAME e -> usable enc0 f e) as Hus.
    { intros Hn. split_and!; [apply Hin; by left|done| |done]. intros Hr. rewrite Hr in Hg.
      cbn in Hg. lia. }
    destruct (f_index f) eqn:Hi; cbn [negb].
    + wpstep. eapply wp_mono.
      { apply (wp_once memo _ enc0 enc (fun b => b = true -> room_for enc0 (f_cost f))); [done| |].
        - intros b -> ->. by apply Hm.
        - by apply wp_room_step. }
      intros room enc1 [Hs1 Hroom].
      destruct room; cbn [andb].
      * destruct (bool_decide _) eqn:Hn.
        -- apply bool_decide_eq_true in Hn. wpsteps. split; [done|]. cbn [fst snd]. auto.
        -- apply IH; try done. auto.
      * apply IH; done.
    + destruct (bool_decide _) eqn:Hn; [|by apply IH].
      apply bool_decide_eq_true in Hn. wpsteps. split; [done|]. cbn [fst snd]. split; [done|].
      split; [auto|done].
Qed.

Lemma wp_dyn_name_match enc0 enc f seen enough_room e :
  enc_wf enc0 -> softly enc0 enc -> usable enc0 f e ->
  (enough_room = Some true -> room_for enc0 (f_cost f)) ->
  (f_index f = true -> enough_room = Some true) ->
  wp (dyn_name_match f seen enough_room e) enc
    (step_ok enc0 (fun r => good_choice enc0 f (fst r))).
Proof.
  intros Hwf Hs Hu Hroom Hi. unfold dyn_name_match. wpstep.
  eapply (wp_mono _ _ (step_ok enc0 (fun s => s = Some true ->
            f_index f = true /\ f_risk f = true /\ room_for enc0 (f_cost f)))).
  - destruct (f_index f && _ && _) eqn:Hg; [|by wpsteps].
    apply andb_true_iff in Hg as [[Hg _]%andb_true_iff Hr].
    wpstep. eapply wp_mono; [apply (wp_once _ _ enc0 enc (fun _ => True)); [done|done|by apply wp_seen_step]|].
    intros b enc1 [Hs1 _]. wpsteps. split; [done|]. intros _. split_and!; auto.
  - intros s enc1 [Hs1 Hsn]. wpsteps. split; [done|]. destruct s as [[]|]; cbn [fst].
    + destruct (Hsn eq_refl) as (? & ? & ?). by apply gc_dyn_ins.
    + by apply gc_dyn_lit.
    + by apply gc_dyn_lit.
Qed.

Lemma wp_no_match enc0 enc f seen enough_room has_cand :
  enc_wf enc0 -> softly enc0 enc ->
  (enough_room = Some true -> room_for enc0 (f_cost f)) ->
  wp (no_match f seen enough_room has_cand) enc
    (step_ok enc0 (fun r => good_choice enc0 f (fst r))).
Proof.
  intros Hwf Hs Hroom. unfold no_match.
  destruct (f_index f) eqn:Hi; cbn [negb]; [|wpsteps; split; [done|apply gc_lit]].
  wpstep. eapply wp_mono.
  { apply (wp_once _ _ enc0 enc (fun _ => True)); [done|done|by apply wp_seen_step]. }
  intros b enc1 [Hs1 _]. wpstep. eapply wp_mono.
  { apply (wp_guard _ _ enc0 enc1 (fun b => b = true -> room_for enc0 (f_cost f))); [done|done|].
    intros _. apply (wp_once _ _ enc0 enc1 (fun b => b = true -> room_for enc0 (f_cost f))); [done| |].
    - intros b' -> ->. by apply Hroom.
    - by apply wp_room_step. }
  intros room enc2 [Hs2 Hr2]. destruct room.
  - wpsteps. split; [done|]. cbn [fst]. specialize (Hr2 eq_refl).
    destruct (f_risk f) eqn:Hrisk, has_cand; cbn [literal_program];
      first [by apply gc_ins_indexed|by apply gc_ins_lit|apply gc_lit].
  - wpstep. eapply wp_mono; [by apply wp_seen_step|]. intros b' enc3 [Hs3 _]. wpstep.
    eapply wp_mono.
    { apply (wp_guard _ _ enc0 enc3 (fun b => b = true -> room_for enc0 (name_cost f)));
        [done|done|]. intros _. by apply wp_room_step. }
    intros room enc4 [Hs4 Hr4]. destruct room; wpsteps; (split; [done|]); cbn [fst].
    + specialize (Hr4 eq_refl). unfold literal_name_program.
      destruct (f_risk f) eqn:Hrisk; [by apply gc_ins_name|by apply gc_ins_name_lit].
    + apply gc_lit.
Qed.

Lemma wp_choose_program enc f seen :
  enc_wf enc -> field_wf enc f ->
  wp (choose_program f seen) enc (step_ok enc (fun r => good_choice enc f (fst r))).
Proof.
  intros Hwf Hf. unfold choose_program. wpsteps.
  pose proof (ec_table _ (ew_core _ Hwf)) as Ht.
  cbn zeta. set (cands := if f_use_dyn_table f then _ else _).
  assert (f_use_dyn_table f = true -> has_buckets (qpe_table enc)) as Hbuckets.
  { intros Hd. apply (ec_buckets _ (ew_core _ Hwf)). by apply (fw_dyn _ _ Hf). }
  assert (StronglySorted by_id cands /\ (length cands <= 2)%nat
    /\ Forall (fun e => f_use_dyn_table f = true /\ e ∈ entries enc
                       /\ ETE_NAME e = f_name f /\ ETE_VALUE e = f_value f) cands)
    as (Hsort & Hlen & Hall).
  { unfold cands. destruct (f_use_dyn_table f) eqn:Hd; [|split_and!; [constructor|cbn; lia|constructor]].
    destruct (candidates_spec _ f Ht (Hbuckets eq_refl)) as (H1 & H2 & H3). split_and!; try done.
    eapply Forall_impl; [exact H2|]. cbn. tauto. }
  eapply wp_mono; [by apply (wp_full_match enc f cands)|].
  intros full enc1 [Hs1 Hfull]. destruct full as [c|].
  { wpsteps. by split. }
  destruct (Z.geb_spec (if has_bits (xh_flags (f_xhdr f)) LSXPACK_QPACK_IDX
              then xh_qpack_index (f_xhdr f)
              else lsqpack_find_in_static_headers (f_name_hash f) (f_name f)
                     (Z.of_nat (length (f_name f)))) 0) as [Hid|Hid].
  - apply wp_static_name_match; [done|done|]. destruct (has_bits _ _) eqn:Hq.
    + by apply (xw_index _ (fw_xhdr _ _ Hf)).
    + eapply find_in_static_headers_hit; [reflexivity|lia].
  - wpsteps. rewrite (so_table _ _ (proj1 Hs1)). eapply wp_mono.
    { instantiate (1 := step_ok enc (fun r => (snd r = Some true -> room_for enc (f_cost f))
         /\ match fst r with
            | Some e => usable enc f e /\ (f_index f = true -> snd r = Some true)
            | None => True
            end)).
      destruct (f_use_dyn_table f) eqn:Hd; [|by wpsteps].
      apply wp_dyn_name_loop; try done. intros e He.
      destruct (bucket_of_ok _ (f_name_hash f) Ht (Hbuckets eq_refl)) as [Hn _].
      rewrite Hn in He. by apply list_elem_of_filter in He as [_ ?]. }
    intros [found enough_room] enc2 (Hs2 & Hroom & Hfound). cbn [fst snd] in *.
    destruct found as [e|]; [|by apply wp_no_match].
    destruct Hfound as [Hu Hi]. by apply wp_dyn_name_match.
Qed.
