(* ===== verification/EncAbs.v ===== *)
(** * The encoder's table as an RFC 9204 dynamic table

    [abs_table] forgets the hash chains and the counters of [EncTable]; pushing an
    entry and dropping the overflow is [dt_insert], dropping alone is [dt_evict],
    and looking an entry up by its id is [dt_get]. *)

From S2P Require Import Prelude EncTable Rfc9204.

Definition nameval (e : enc_table_entry) : hfield := (ETE_NAME e, ETE_VALUE e).

Definition abs_table (t : enc_table) : dyn_table :=
  Dyn (qpe_ins_count t) (qpe_cur_max_capacity t) (nameval <$> qpe_all_entries t).

(** Eviction after a change: [t'] is [t] less its overflow. *)
Record overflow_dropped (t t' : enc_table) : Prop := {
  od_wf : table_wf t';
  od_entries : qpe_all_entries t' = evict (qpe_cur_max_capacity t) (qpe_all_entries t);
  od_capacity : qpe_cur_max_capacity t' = qpe_cur_max_capacity t;
  od_ins_count : qpe_ins_count t' = qpe_ins_count t;
  od_fits : qpe_cur_bytes_used t' <= qpe_cur_max_capacity t';
}.

Lemma field_size_nameval e : entry_wf e -> field_size (nameval e) = ETE_SIZE e.
Proof.
  intros (Hn & Hv & _). unfold field_size, nameval, ETE_SIZE, ENTRY_COST, DYNAMIC_ENTRY_OVERHEAD,
    ete_name_len, ete_val_len in *. cbn [fst snd]. ulia.
Qed.

Lemma fields_size_nameval l : Forall entry_wf l -> fields_size (nameval <$> l) = sizes l.
Proof.
  induction 1 as [|e l He Hl IH]; [done|]. cbn [fmap list_fmap fields_size sizes].
  fold (fmap (M := list) nameval l). by rewrite IH, field_size_nameval.
Qed.

Lemma evict_nameval cap l :
  Forall entry_wf l -> dt_evict cap (nameval <$> l) = nameval <$> evict cap l.
Proof.
  intros Hl. induction Hl as [|e l He Hl IH]; [done|]. 
  change (nameval <$> e :: l) with (nameval e :: (nameval <$> l)).
  cbn [dt_evict evict]. change (nameval e :: (nameval <$> l)) with (nameval <$> e :: l).
  rewrite fields_size_nameval by (by constructor). rewrite IH. by destruct (_ >? _).
Qed.

Lemma abs_oldest t : table_wf t -> dt_oldest (abs_table t) = qpe_ins_count t - qpe_nelem t + 1.
Proof.
  intros Ht. unfold dt_oldest, abs_table. cbn [dt_entries dt_inserted].
  rewrite length_fmap, (wf_nelem _ Ht). done.
Qed.

(** The position of an entry is given by its id. *)
Lemma entry_lookup t e :
  table_wf t -> e ∈ qpe_all_entries t ->
  qpe_ins_count t - qpe_nelem t + 1 <= ete_id e <= qpe_ins_count t
  /\ qpe_all_entries t !! Z.to_nat (ete_id e - (qpe_ins_count t - qpe_nelem t + 1)) = Some e.
Proof.
  intros Ht He. apply list_elem_of_lookup in He as [i Hi].
  pose proof (lookup_lt_Some _ _ _ Hi) as Hlt. pose proof (wf_nelem _ Ht) as Hn.
  assert ((ete_id <$> qpe_all_entries t) !! i = Some (ete_id e)) as Hid
    by (by rewrite list_lookup_fmap, Hi).
  rewrite (wf_ids _ Ht) in Hid. apply lookup_seqZ in Hid as [Hid _].
  split; [lia|]. by replace (Z.to_nat _) with i by lia.
Qed.

Lemma abs_get t e :
  table_wf t -> e ∈ qpe_all_entries t -> dt_get (abs_table t) (ete_id e) = Some (nameval e).
Proof.
  intros Ht He. destruct (entry_lookup t e Ht He) as [Hr Hl].
  unfold dt_get. rewrite abs_oldest by done. cbn [abs_table dt_inserted dt_entries].
  destruct (Z.leb_spec (qpe_ins_count t - qpe_nelem t + 1) (ete_id e)); [|lia].
  destruct (Z.leb_spec (ete_id e) (qpe_ins_count t)); [|lia]. cbn [andb].
  by rewrite list_lookup_fmap, Hl.
Qed.

Lemma abs_drop t t' :
  table_wf t -> overflow_dropped t t' ->
  abs_table t' = Dyn (qpe_ins_count t) (qpe_cur_max_capacity t)
                   (dt_evict (qpe_cur_max_capacity t) (nameval <$> qpe_all_entries t)).
Proof.
  intros Ht [_ He Hc Hi _]. unfold abs_table.
  by rewrite He, Hc, Hi, evict_nameval by apply Ht.
Qed.

(** Pushing and dropping the overflow is inserting. *)
Lemma abs_insert t t1 t2 e :
  table_wf t1 -> pushed t t1 e -> overflow_dropped t1 t2 ->
  ETE_SIZE e <= qpe_cur_max_capacity t ->
  dt_insert (nameval e) (abs_table t) = Some (abs_table t2).
Proof.
  intros Ht1 (Hall & Hi & _ & Hc) Hod Hsz. rewrite (abs_drop t1 t2 Ht1 Hod), Hi, Hc, Hall.
  pose proof (wf_entries _ Ht1) as Hwf. rewrite Hall in Hwf.
  apply Forall_app in Hwf as [_ [He _]%Forall_cons_1].
  unfold dt_insert. cbn [abs_table dt_capacity dt_entries dt_inserted].
  rewrite field_size_nameval, Z.gtb_ltb by done.
  destruct (Z.ltb_spec (qpe_cur_max_capacity t) (ETE_SIZE e)); [lia|].
  rewrite fmap_app. change (nameval <$> [e]) with [nameval e].
  rewrite dt_evict_insert, field_size_nameval; rewrite ?field_size_nameval; done.
Qed.

(** A table that fits loses nothing. *)
Lemma overflow_none t t' :
  table_wf t -> qpe_cur_bytes_used t <= qpe_cur_max_capacity t -> overflow_dropped t t' ->
  qpe_all_entries t' = qpe_all_entries t.
Proof.
  intros Ht Hf [_ He _ _ _]. rewrite He. rewrite (wf_used _ Ht) in Hf.
  destruct (qpe_all_entries t) as [|e l] eqn:E; [done|]. cbn [evict].
  rewrite Z.gtb_ltb. destruct (Z.ltb_spec (qpe_cur_max_capacity t) (sizes (e :: l))); [lia|done].
Qed.

Lemma same_table_abs t t' : same_table t t' -> abs_table t' = abs_table t.
Proof. intros (H1 & _ & H3 & _ & _ & H6). unfold abs_table. by rewrite H1, H3, H6. Qed.

(** The room for a new entry is made by dropping entries in front of it. *)
Lemma overflow_keeps t t1 t2 e pre post :
  table_wf t -> table_wf t1 -> pushed t t1 e -> overflow_dropped t1 t2 ->
  qpe_all_entries t = pre ++ post -> sizes post + ETE_SIZE e <= qpe_cur_max_capacity t ->
  exists gone kept, pre = gone ++ kept /\ qpe_all_entries t2 = kept ++ post ++ [e].
Proof.
  intros Ht Ht1 (Hall & _ & _ & Hc) [_ He _ _ _] Hsplit Hsz.
  pose proof (wf_capacity _ Ht) as Hcap.
  destruct (evict_maximal (qpe_cur_max_capacity t1) (qpe_all_entries t1) pre (post ++ [e]))
    as [mid Hmid].
  - rewrite Hall, Hsplit. by rewrite app_assoc.
  - apply Ht1.
  - rewrite sizes_app. cbn [sizes]. lia.
  - rewrite Hc. ulia.
  - destruct (evict_suffix (qpe_cur_max_capacity t1) (qpe_all_entries t1)) as [gone Hg].
    exists gone, mid. rewrite He, Hmid in *. split; [|done].
    rewrite Hall, Hsplit, <- app_assoc, (app_assoc gone) in Hg. by apply app_inv_tail in Hg.
Qed.

(** *** Dropping keeps the buckets *)

Lemma update_bucket_nonempty f i bs bs' : update_bucket f i bs = Some bs' -> bs' <> [].
Proof.
  unfold update_bucket. destruct (bs !! Z.to_nat i) as [h|] eqn:E; [|done].
  cbn [mbind option_bind]. destruct (f h) as [h'|]; [|done]. cbn [mbind option_bind].
  intros [= <-] Hn. apply (f_equal length) in Hn. rewrite length_insert in Hn.
  apply lookup_lt_Some in E. cbn in Hn. lia.
Qed.

Lemma drop_while_over_buckets fuel : forall t n t' n',
  has_buckets t -> drop_while_over fuel t n = Some (t', n') -> has_buckets t'.
Proof.
  induction fuel as [|fuel IH]; intros t n t' n' Hb; cbn [drop_while_over].
  - destruct (_ >? _); [done|]. by intros [= <- <-].
  - destruct (_ >? _); [|by intros [= <- <-]].
    destruct (qenc_drop_oldest_entry t) as [t1|] eqn:E; [|done]. cbn [mbind option_bind].
    intros H. eapply IH; [|exact H]. unfold qenc_drop_oldest_entry in E.
    destruct (qpe_all_entries t); [done|].
    destruct (update_bucket _ _ (qpe_buckets t)) as [b1|]; [|done]. cbn [mbind option_bind] in E.
    destruct (update_bucket _ _ b1) as [b2|] eqn:E2; [|done]. injection E as <-.
    unfold has_buckets. cbn. by apply update_bucket_nonempty in E2.
Qed.

(** Dropping the overflow of any sound table. *)
Lemma drop_overflow_ok t :
  table_wf t ->
  exists t' n, drop_overflow_entries t = Some (t', n) /\ overflow_dropped t t'
    /\ (has_buckets t -> has_buckets t').
Proof.
  intros Ht. destruct (drop_overflow_wf t Ht) as (t' & n & Hd & _ & H1 & H2 & H3 & H4 & H5).
  exists t', n. split; [done|]. split; [by constructor|]. intros Hb.
  by apply (drop_while_over_buckets _ _ _ _ _ Hb Hd).
Qed.
