(* ===== verification/EncWire.v ===== *)
(** * What the encoder writes, read back

    The instruction writers of [EncEncode] against the readers of [Rfc9204]: each
    output is exactly one instruction or representation, whatever follows it. *)

From S2P Require Import Prelude Monad IntCodec HuffTables Huffman StrCodec Xxhash StaticTable Rfc9204.
From S2P Require Import History EncTable EncHinfo Float EncState EncPolicy EncEncode.

(** ** Room *)

(** What is in the buffer afterwards. *)
Definition put_buf (w : put) : bytes := match w with Wrote b rest => b ++ rest | NoRoom stored => stored end.

(** A writer of [size] bytes: it stays within the buffer, fails exactly when the
    buffer is too small for them, and leaves what follows them alone. *)
Record put_room (size : Z) (buf : bytes) (w : put) : Prop := {
  pk_length : length (put_buf w) = length buf;
  pk_result : match w with
              | Wrote b rest => Z.of_nat (length b) = size /\ rest = drop (length b) buf
              | NoRoom _ => Z.of_nat (length buf) < size
              end;
}.

(** ... and leaves bytes in it. *)
Definition put_ok (size : Z) (buf : bytes) (w : put) : Prop := put_room size buf w /\ is_bytes (put_buf w).

Lemma then_put_room size1 size2 buf w next :
  0 <= size2 -> put_room size1 buf w ->
  (forall b rest, w = Wrote b rest -> put_room size2 rest (next rest)) ->
  put_room (size1 + size2) buf (then_put w next).
Proof.
  intros H0 [Hl Hr] Hn. destruct w as [b rest|stored]; cbn [then_put put_buf] in *.
  2: { constructor; [done|lia]. }
  destruct Hr as [Hs Er]. destruct (Hn b rest eq_refl) as [Hl2 Hr2]. rewrite length_app in Hl.
  destruct (next rest) as [b' rest'|stored']; cbn [put_buf] in *.
  - destruct Hr2 as [Hs2 Er2]. constructor; cbn [put_buf].
    + rewrite !length_app in *. lia.
    + rewrite length_app. split; [lia|]. by rewrite Er2, Er, drop_drop.
  - constructor; cbn [put_buf]; [rewrite length_app in *; lia|lia].
Qed.

Lemma then_put_ok size1 size2 buf w next :
  0 <= size2 -> put_ok size1 buf w ->
  (forall b rest, w = Wrote b rest -> is_bytes rest -> put_ok size2 rest (next rest)) ->
  put_ok (size1 + size2) buf (then_put w next).
Proof.
  intros H0 [Hr Hb] Hn.
  assert (forall b rest, w = Wrote b rest -> is_bytes b /\ is_bytes rest) as Hw
    by (intros b rest ->; by apply Forall_app in Hb).
  split; [apply then_put_room; [done|done|]; intros b rest E; by apply (Hn b), (Hw b)|].
  destruct w as [b rest|stored]; cbn [then_put]; [|done]. destruct (Hw b rest eq_refl) as [Hwb Hwr].
  destruct (Hn b rest eq_refl Hwr) as [_ Hb2]. destruct (next rest); cbn [put_buf] in *;
    [rewrite <- app_assoc|]; by apply Forall_app.
Qed.

Lemma enc_int_tail_bytes v room : is_bytes room ->
  is_bytes (fst (enc_int_tail v room)) /\ length (fst (enc_int_tail v room)) = length room.
Proof.
  intros Hb. revert v. induction Hb as [|x room Hx Hb IH]; intros v; cbn [enc_int_tail]; [split; [constructor|done]|].
  destruct (128 <=? v).
  - specialize (IH (Z.shiftr v 7)). destruct (enc_int_tail _ room) as [r n]. cbn [fst length] in *.
    destruct IH as [IH1 IH2]. split; [constructor; [|done]|lia].
    apply lor_range; [by vm_compute|apply u8_range].
  - cbn. split; [constructor; [apply u8_range|done]|done].
Qed.

Lemma put_int_room first buf v p :
  is_u64 v -> 1 <= p <= 8 -> put_room (lsqpack_val2len v p) buf (put_int first buf v p).
Proof.
  intros Hv Hp. pose proof (val2len_pos v p Hv Hp) as Hpos. unfold put_int.
  destruct buf as [|b0 room]; [constructor; [done|cbn; lia]|].
  pose proof (enc_int_spec first room v p Hv Hp) as He. cbn zeta in He.
  pose proof (length_nocheck first v p Hv Hp) as Hn.
  destruct (lsqpack_enc_int first room v p) as [bf n]. destruct He as [Hlen He].
  case_decide as Hroom.
  - destruct He as [-> E]. rewrite decide_False by lia. constructor; cbn [put_buf].
    + by rewrite take_drop.
    + rewrite length_take, Nat.min_l by (cbn in *; lia). split; [done|].
      rewrite E, drop_app_length. destruct (lsqpack_enc_int_nocheck first v p); [cbn in Hn; lia|done].
  - rewrite decide_True by done. constructor; [done|cbn [length]; lia].
Qed.

Lemma put_int_ok first buf v p :
  is_u64 v -> 1 <= p <= 8 -> is_bytes buf -> put_ok (lsqpack_val2len v p) buf (put_int first buf v p).
Proof.
  intros Hv Hp Hb. split; [by apply put_int_room|]. unfold put_int.
  destruct Hb as [|b0 room H0 Hb]; [constructor|].
  assert (is_bytes (fst (lsqpack_enc_int first room v p))) as Hbytes.
  { unfold lsqpack_enc_int. destruct (_ <? _).
    - constructor; [apply u8_range|done].
    - match goal with |- context [enc_int_tail ?x room] => destruct (enc_int_tail_bytes x room Hb) as [Ht _];
        destruct (enc_int_tail x room) as [r n] end. constructor; [apply u8_range|done]. }
  destruct (lsqpack_enc_int first room v p) as [bf n]. cbn [fst] in Hbytes.
  case_decide; cbn [put_buf]; [done|by rewrite take_drop].
Qed.

(** The size of a string literal: the shorter of the two representations. *)
Definition str_size (p : Z) (str : bytes) : Z :=
  let n := Z.min (qenc_enc_str_size str) (Z.of_nat (length str)) in lsqpack_val2len n p + n.

Definition short (s : bytes) : Prop := is_bytes s /\ Z.of_nat (length s) <= LSXPACK_MAX_STRLEN.

Lemma nocheck_bytes d v p : is_bytes (lsqpack_enc_int_nocheck d v p).
Proof.
  unfold lsqpack_enc_int_nocheck. destruct (_ <? _); [repeat constructor; apply u8_range|].
  constructor; [apply u8_range|]. generalize (u64 (v - (Z.shiftl 1 p - 1))). generalize 10%nat.
  intros fuel. induction fuel as [|fuel IH]; intros x; cbn [enc_int_nocheck_tail]; [constructor|].
  destruct (128 <=? x); (constructor; [|apply IH || constructor]);
    [apply lor_range; [by vm_compute|apply u8_range]|apply u8_range].
Qed.

Lemma put_bytes_bytes off src buf : is_bytes src -> is_bytes buf -> is_bytes (put_bytes off src buf).
Proof.
  intros Hs Hb. unfold put_bytes. apply Forall_app. split; [by apply is_bytes_take|].
  apply Forall_app. split; [done|by apply is_bytes_drop].
Qed.

(** [lsqpack_enc_enc_str] never leaves anything but bytes. *)
Lemma enc_str_bytes bits0 p dst str :
  is_bytes dst -> short str -> is_bytes (fst (lsqpack_enc_enc_str bits0 p dst str)).
Proof.
  intros Hd [Hs Hl]. unfold LSXPACK_MAX_STRLEN in Hl.
  destruct (huffman_enc_codes bits0 str Hs ltac:(change (2 ^ 26) with 67108864; lia)) as (Hh & _).
  unfold lsqpack_enc_enc_str. repeat (destruct (_ <? _) || destruct (_ <=? _)); cbn [fst]; try done;
    repeat apply put_bytes_bytes; done || apply nocheck_bytes.
Qed.

Lemma enc_str_ret bits0 p dst str : short str ->
  snd (lsqpack_enc_enc_str bits0 p dst str)
  = (if str_size p str <=? Z.of_nat (length dst) then str_size p str else -1)
  /\ (Z.of_nat (length dst) < str_size p str -> fst (lsqpack_enc_enc_str bits0 p dst str) = dst).
Proof.
  intros [Hs Hl]. unfold LSXPACK_MAX_STRLEN in Hl.
  destruct (huffman_enc_codes bits0 str Hs ltac:(change (2 ^ 26) with 67108864; lia)) as (_ & _ & Hh & _).
  unfold lsqpack_enc_enc_str, str_size. cbn zeta.
  destruct (Z.ltb_spec (qenc_enc_str_size str) (Z.of_nat (length str)));
    [rewrite Z.min_l by lia|rewrite Z.min_r by lia];
    (match goal with |- context [?a <=? Z.of_nat (length dst)] =>
       destruct (Z.leb_spec a (Z.of_nat (length dst))) end; cbn [fst snd];
     [split; [by rewrite ?Hh|lia]|done]).
Qed.

Lemma str_size_pos p str : 1 <= p <= 7 -> short str -> 1 <= str_size p str.
Proof.
  intros Hp [Hs Hl]. unfold LSXPACK_MAX_STRLEN in Hl. unfold str_size. cbn zeta.
  destruct (huffman_enc_codes 0 str Hs ltac:(change (2 ^ 26) with 67108864; lia)) as (_ & _ & Hh & _).
  set (n := Z.min _ _). assert (0 <= n <= 65535) as Hn by (unfold n; lia).
  pose proof (val2len_pos n p ltac:(ulia) ltac:(lia)). lia.
Qed.

Lemma put_str_ok bits0 p buf str :
  1 <= p <= 7 -> is_bytes buf -> short str -> put_ok (str_size p str) buf (put_str bits0 p buf str).
Proof.
  intros Hp Hb Hs. pose proof (enc_str_bytes bits0 p buf str Hb Hs) as Hbytes.
  destruct (enc_str_ret bits0 p buf str Hs) as [Hr Hf]. pose proof (str_size_pos p str Hp Hs) as Hpos.
  unfold put_str. destruct (lsqpack_enc_enc_str bits0 p buf str) as [bf r] eqn:E. cbn [fst snd] in *. subst r.
  destruct (Z.leb_spec (str_size p str) (Z.of_nat (length buf))) as [Hfit|Hno].
  - destruct (Z.ltb_spec (str_size p str) 0); [lia|].
    destruct (enc_str_literal bits0 p buf str bf _ Hp Hb (proj1 Hs) (proj2 Hs) E ltac:(lia)) as (_ & Hlen & Hdrop & _).
    split; [constructor; cbn [put_buf]; [by rewrite take_drop|]|cbn [put_buf]; by rewrite take_drop].
    rewrite length_take. split; [lia|]. rewrite Nat.min_l by lia. done.
  - cbn. rewrite (Hf Hno). split; [by constructor|done].
Qed.

Lemma put_str_first_ok bits0 first p buf str :
  1 <= p <= 7 -> is_u8 first -> is_bytes buf -> short str ->
  put_ok (str_size p str) buf (put_str_first bits0 first p buf str).
Proof.
  intros Hp Hf Hb Hs. pose proof (str_size_pos p str Hp Hs) as Hpos. unfold put_str_first.
  destruct Hb as [|b0 room H0 Hb]; [split; [constructor; [done|cbn; lia]|constructor]|].
  destruct (put_str_ok bits0 p (first :: room) str Hp ltac:(by constructor) Hs) as [[H1 H2] H3'].
  split; [|done]. constructor; [done|]. destruct (put_str bits0 p (first :: room) str) as [b rest|]; [|done].
  destruct H2 as [H2 ->]. split; [done|]. destruct b; [cbn in H2; lia|done].
Qed.

Lemma then_put_inv w next b rest :
  then_put w next = Wrote b rest ->
  exists b1 r1 b2, w = Wrote b1 r1 /\ next r1 = Wrote b2 rest /\ b = b1 ++ b2.
Proof.
  destruct w as [b1 r1|]; [|done]. cbn [then_put]. destruct (next r1) as [b2 r2|] eqn:E; [|done].
  intros [= <- <-]. by exists b1, r1, b2.
Qed.

(** Enough room for any integer and any string. *)
Lemma val2len_max v p : lsqpack_val2len v p <= 11.
Proof.
  unfold lsqpack_val2len. repeat match goal with |- context [Z.b2z ?b] =>
    assert (Z.b2z b <= 1) by (by destruct b); generalize dependent (Z.b2z b); intros end. lia.
Qed.

Lemma str_size_max p str : str_size p str <= 11 + Z.of_nat (length str).
Proof. unfold str_size. cbn zeta. pose proof (val2len_max (Z.min (qenc_enc_str_size str) (Z.of_nat (length str))) p). lia. Qed.

Definition puts_within (max : Z) (buf : bytes) (w : put) : Prop := exists size, size <= max /\ put_ok size buf w.

(** Any instruction and any representation of a field fit in this. *)
Definition field_room (name value : bytes) : Z := 22 + Z.of_nat (length name) + Z.of_nat (length value).

Lemma int_within first buf v p max :
  is_u64 v -> 1 <= p <= 8 -> is_bytes buf -> 11 <= max -> puts_within max buf (put_int first buf v p).
Proof.
  intros Hv Hp Hb Hm. exists (lsqpack_val2len v p). split; [|by apply put_int_ok].
  pose proof (val2len_max v p). lia.
Qed.

Lemma nameref_within bits0 first v p value buf max :
  is_u64 v -> 1 <= p <= 8 -> is_bytes buf -> short value -> 22 + Z.of_nat (length value) <= max ->
  puts_within max buf (put_nameref bits0 first v p value buf).
Proof.
  intros Hv Hp Hb Hs Hm. exists (lsqpack_val2len v p + str_size 7 value).
  pose proof (val2len_max v p). pose proof (str_size_max 7 value). split; [lia|].
  apply then_put_ok; [pose proof (str_size_pos 7 value ltac:(lia) Hs); lia|by apply put_int_ok|].
  intros b rest _ Hr. by apply put_str_ok; [lia|..].
Qed.

Lemma two_strs_within bits0 first p name value buf max :
  1 <= p <= 7 -> is_u8 first -> is_bytes buf -> short name -> short value ->
  22 + Z.of_nat (length name) + Z.of_nat (length value) <= max ->
  puts_within max buf
    (then_put (put_str_first bits0 first p buf name) (fun buf => put_str bits0 7 buf value)).
Proof.
  intros Hp Hf Hb Hn Hs Hm. exists (str_size p name + str_size 7 value).
  pose proof (str_size_max p name). pose proof (str_size_max 7 value). split; [lia|].
  apply then_put_ok; [pose proof (str_size_pos 7 value ltac:(lia) Hs); lia|by apply put_str_first_ok|].
  intros b rest _ Hr. by apply put_str_ok; [lia|..].
Qed.

Lemma u32_u64 v : is_u64 (u32 v).
Proof. pose proof (u32_range v). ulia. Qed.

Lemma short_nil : short [].
Proof. split; [constructor|done]. Qed.

Lemma write_enc_inst_within bits0 action ins_count id name value buf :
  is_u32 id -> is_bytes buf -> short name -> short value ->
  puts_within (field_room name value) buf (write_enc_inst bits0 action ins_count id name value buf).
Proof.
  intros Hid Hb Hn Hv. unfold field_room. assert (is_u64 id) by ulia. pose proof (u32_u64 (ins_count - id)).
  destruct action; cbn [write_enc_inst].
  - exists 0. split; [lia|]. split; [by constructor|done].
  - apply int_within; done || lia.
  - apply nameref_within; done || lia.
  - apply nameref_within; done || lia.
  - by apply two_strs_within; [lia|by vm_compute|..].
  - by apply two_strs_within; [lia|by vm_compute|done|done|apply short_nil|cbn [length]; lia].
Qed.

Lemma write_header_field_within bits0 action never ins_count base id name value buf w :
  is_u32 id -> is_bytes buf -> short name -> short value ->
  write_header_field bits0 action never ins_count base id name value buf = Some w ->
  puts_within (field_room name value) buf w.
Proof.
  intros Hid Hb Hn Hv. unfold field_room. assert (is_u64 id) by ulia.
  unfold write_header_field, post_base_idx, post_base_name_ref. pose proof u32_u64.
  destruct action; repeat (destruct (_ >? _)); intros [= <-];
    first [apply int_within|apply nameref_within|apply two_strs_within];
    first [done|apply u32_u64|by destruct never; vm_compute|lia].
Qed.

(** ** Integers and strings *)

Lemma has_div_bits b first x p k :
  0 <= p <= k -> 0 <= first -> first mod 2 ^ p = 0 -> 0 <= x < 2 ^ p -> b = first + x ->
  Z.testbit b k = Z.testbit first k.
Proof.
  intros Hpk Hf Hz Hx ->. rewrite <- (lor_disjoint first x p), Z.lor_spec by lia.
  rewrite (testbit_high x p k) by lia. apply orb_false_r.
Qed.

(** An integer in front of any bytes. *)
Record int_written (first p v : Z) (b : bytes) : Prop := {
  iw_read : forall tail, read_int p (b ++ tail) = Some (v, tail);
  iw_head : forall tail, exists c rest, b ++ tail = c :: rest
              /\ forall k, p <= k -> Z.testbit c k = Z.testbit first k;
  iw_nonempty : b <> [];
  iw_length : Z.of_nat (length b) = lsqpack_val2len v p;
}.

Lemma put_int_spec first buf v p b rest :
  1 <= p <= 8 -> is_u8 first -> first mod 2 ^ p = 0 -> is_u64 v ->
  put_int first buf v p = Wrote b rest ->
  int_written first p v b /\ rest = drop (length b) buf /\ (length b <= length buf)%nat.
Proof.
  intros Hp Hf Hz Hv. unfold put_int. destruct buf as [|b0 room]; [done|].
  pose proof (enc_int_spec first room v p Hv Hp) as He. cbn zeta in He.
  destruct (lsqpack_enc_int first room v p) as [bf n]. destruct He as [Hlen He].
  destruct (decide (n = 0%nat)); [done|]. case_decide; [|done].
  destruct He as [-> ->]. intros [= <- <-].
  set (bs := lsqpack_enc_int_nocheck first v p) in *.
  rewrite take_app_length, drop_app_length.
  assert (bs <> []) as Hne by (intros E; rewrite E in *; done).
  split; [|split; [|cbn [length]; lia]].
  - constructor; [| |done|by apply length_nocheck].
    + intros tail. unfold read_int. pose proof (dec_enc_nocheck first v p tail Hp Hf Hz Hv) as Hd.
      fold bs in Hd. destruct (bs ++ tail); [done|]. by rewrite Hd.
    + intros tail. destruct (nocheck_head first v p Hp Hf Hz Hv) as (x & t & Hb & Hx).
      fold bs in Hb. rewrite Hb. exists (first + x), (t ++ tail). split; [done|].
      intros k Hk. apply (has_div_bits _ first x p k); unfold is_u8 in *; lia || done.
  - destruct bs; [done|]. done.
Qed.

(** A string in front of any bytes, in a buffer that started with [first]. *)
Record str_written (first p : Z) (str b : bytes) : Prop := {
  sw_read : forall tail, read_str p (b ++ tail) = Some (str, tail);
  sw_head : forall tail, exists c rest, b ++ tail = c :: rest
              /\ forall k, p < k -> Z.testbit c k = Z.testbit first k;
  sw_nonempty : b <> [];
}.

Lemma put_str_spec bits0 p buf str b rest :
  1 <= p <= 7 -> is_bytes buf -> short str ->
  put_str bits0 p buf str = Wrote b rest ->
  str_written (nth 0 buf 0) p str b /\ rest = drop (length b) buf /\ (length b <= length buf)%nat.
Proof.
  intros Hp Hb [Hs Hl]. unfold put_str.
  destruct (lsqpack_enc_enc_str bits0 p buf str) as [bf r] eqn:E.
  destruct (Z.ltb_spec r 0); [done|]. intros [= <- <-].
  destruct (enc_str_literal bits0 p buf str bf r Hp Hb Hs Hl E ltac:(lia))
    as (Hr & Hlen & Hdrop & Hread & Hhead).
  assert (length (take (Z.to_nat r) bf) = Z.to_nat r) as Ht by (rewrite length_take; lia).
  rewrite Ht. split; [|split; [done|lia]].
  destruct bf as [|c bf]; [cbn in Hlen; destruct buf; cbn in *; lia|].
  assert (exists l, take (Z.to_nat r) (c :: bf) = c :: l) as [l El].
  { destruct (Z.to_nat r) eqn:Er; [lia|]. by eexists. }
  constructor; [done| |by rewrite El].
  intros tail. exists c, (l ++ tail). rewrite El. split; [done|].
  intros k Hk. cbn [nth] in Hhead.
  replace k with (k - (p + 1) + (p + 1)) by lia.
  rewrite <- !Z.div_pow2_bits by lia. by rewrite Hhead.
Qed.

Lemma put_str_first_spec bits0 first p buf str b rest :
  1 <= p <= 7 -> is_bytes buf -> is_u8 first -> short str ->
  put_str_first bits0 first p buf str = Wrote b rest ->
  str_written first p str b /\ rest = drop (length b) buf /\ (length b <= length buf)%nat.
Proof.
  intros Hp Hb Hf Hs. unfold put_str_first. destruct buf as [|b0 room]; [done|].
  intros H. apply Forall_cons_1 in Hb as [_ Hb].
  destruct (put_str_spec bits0 p (first :: room) str b rest Hp) as (H1 & H2 & H3);
    [by constructor|done|done|].
  split_and!; [done| |done]. rewrite H2. destruct b; [by destruct (sw_nonempty _ _ _ _ H1)|done].
Qed.

(** An integer followed by a string. *)
Lemma put_nameref_spec bits0 first v p value buf b rest :
  1 <= p <= 7 -> is_u8 first -> first mod 2 ^ p = 0 -> is_u64 v -> is_bytes buf -> short value ->
  put_nameref bits0 first v p value buf = Wrote b rest ->
  (forall tail, read_int_str p (b ++ tail) = Some (v, value, tail))
  /\ (forall tail, exists c rest, b ++ tail = c :: rest
        /\ forall k, p <= k -> Z.testbit c k = Z.testbit first k)
  /\ (length b <= length buf)%nat.
Proof.
  intros Hp Hf Hz Hv Hb Hs (b1 & r1 & b2 & E1 & E2 & ->)%then_put_inv.
  destruct (put_int_spec first buf v p b1 r1 ltac:(lia) Hf Hz Hv E1) as ([H1 H2 _] & -> & H3).
  destruct (put_str_spec bits0 7 _ value b2 rest ltac:(lia) (is_bytes_drop _ _ Hb) Hs E2)
    as ([H4 _ _] & -> & H5).
  rewrite length_drop in H5. split_and!.
  - intros tail. unfold read_int_str. rewrite <- app_assoc, H1. cbn [mbind option_bind].
    by rewrite H4.
  - intros tail. rewrite <- app_assoc. apply H2.
  - rewrite length_app. lia.
Qed.

(** A string followed by a string. *)
Lemma put_two_strs_spec bits0 first p name value buf b rest :
  1 <= p <= 7 -> is_u8 first -> is_bytes buf -> short name -> short value ->
  then_put (put_str_first bits0 first p buf name) (fun buf => put_str bits0 7 buf value)
    = Wrote b rest ->
  (forall tail, read_str_str p (b ++ tail) = Some (name, value, tail))
  /\ (forall tail, exists c rest, b ++ tail = c :: rest
        /\ forall k, p < k -> Z.testbit c k = Z.testbit first k)
  /\ (length b <= length buf)%nat.
Proof.
  intros Hp Hf Hb Hn Hv (b1 & r1 & b2 & E1 & E2 & ->)%then_put_inv.
  destruct (put_str_first_spec bits0 first p buf name b1 r1 Hp Hb Hf Hn E1) as ([H1 H2 _] & -> & H3).
  destruct (put_str_spec bits0 7 _ value b2 rest ltac:(lia) (is_bytes_drop _ _ Hb) Hv E2)
    as ([H4 _ _] & -> & H5).
  rewrite length_drop in H5. split_and!.
  - intros tail. unfold read_str_str. rewrite <- app_assoc, H1. cbn [mbind option_bind].
    by rewrite H4.
  - intros tail. rewrite <- app_assoc. apply H2.
  - rewrite length_app. lia.
Qed.

(** ** Encoder instructions *)

Definition enc_instruction (action : enc_stream_action) (ins_count id : Z) (name value : bytes)
  : option instruction :=
  match action with
  | EEA_NONE => None
  | EEA_DUP => Some (IDuplicate (ins_count - id))
  | EEA_INS_NAMEREF_STATIC => Some (IInsertStaticName id value)
  | EEA_INS_NAMEREF_DYNAMIC => Some (IInsertDynName (ins_count - id) value)
  | EEA_INS_LIT => Some (IInsertLiteral name value)
  | EEA_INS_LIT_NAME => Some (IInsertLiteral name [])
  end.

Lemma read_head (bs : bytes) c rest : bs = c :: rest -> forall (A : Type) (f : Z -> option A),
  match bs with [] => None | b :: _ => f b end = f c.
Proof. by intros ->. Qed.

(** A string pair of a literal insertion. *)
Lemma read_literal_instruction b name value :
  (forall tail, read_str_str 5 (b ++ tail) = Some (name, value, tail)) ->
  (forall tail, exists c rest, b ++ tail = c :: rest
     /\ forall k, 5 < k -> Z.testbit c k = Z.testbit 0x40 k) ->
  is_instruction b (IInsertLiteral name value).
Proof.
  intros Hr Hh tail. destruct (Hh tail) as (c & rest & E & Hk). unfold read_instruction.
  rewrite (read_head _ _ _ E). rewrite !Hk by lia. cbn -[read_str_str]. by rewrite Hr.
Qed.

Lemma write_enc_inst_spec bits0 action ins_count id name value buf b rest0 :
  is_u32 ins_count -> is_u32 id ->
  (action = EEA_DUP \/ action = EEA_INS_NAMEREF_DYNAMIC -> id <= ins_count) ->
  is_bytes buf -> short name -> short value ->
  write_enc_inst bits0 action ins_count id name value buf = Wrote b rest0 ->
  (length b <= length buf)%nat
  /\ match enc_instruction action ins_count id name value with
     | None => b = []
     | Some i => is_instruction b i
     end.
Proof.
  intros Hins Hid Hle Hb Hn Hv. unfold write_enc_inst. destruct action; cbn [enc_instruction].
  - intros [= <- <-]. cbn. split; [lia|done].
  - specialize (Hle ltac:(auto)). rewrite u32_id by ulia. intros E1.
    apply put_int_spec in E1 as ([Hr Hh _] & _ & Hlen); [|lia|ulia|done|ulia].
    split; [done|]. intros tail. destruct (Hh tail) as (c & rest & E & Hk). unfold read_instruction.
    rewrite (read_head _ _ _ E), !Hk by lia. cbn -[read_int]. by rewrite Hr.
  - intros H. change (put_nameref bits0 (Z.lor 0x80 0x40) id 6 value buf = Wrote b rest0) in H.
    apply put_nameref_spec in H as (Hr & Hh & Hlen); [|lia|by vm_compute|done|ulia|done|done].
    split; [done|]. intros tail. destruct (Hh tail) as (c & rest & E & Hk). unfold read_instruction.
    rewrite (read_head _ _ _ E), !Hk by lia. cbn -[read_int_str]. by rewrite Hr.
  - specialize (Hle ltac:(auto)). rewrite u32_id by ulia. intros H.
    change (put_nameref bits0 0x80 (ins_count - id) 6 value buf = Wrote b rest0) in H.
    apply put_nameref_spec in H as (Hr & Hh & Hlen); [|lia|ulia|done|ulia|done|done].
    split; [done|]. intros tail. destruct (Hh tail) as (c & rest & E & Hk). unfold read_instruction.
    rewrite (read_head _ _ _ E), !Hk by lia. cbn -[read_int_str]. by rewrite Hr.
  - intros (Hr & Hh & Hlen)%put_two_strs_spec; [|lia|ulia|done..].
    split; [done|]. by apply read_literal_instruction.
  - intros (Hr & Hh & Hlen)%put_two_strs_spec; [|lia|ulia|done|done|apply short_nil].
    split; [done|]. by apply read_literal_instruction.
Qed.

(** ** Representations *)

Definition written_representation (action : hea_block_action) (never : bool) (ins_count id : Z)
  (name value : bytes) : representation :=
  match action with
  | EHA_INDEXED_STAT => RIndexedStatic id
  | EHA_INDEXED_NEW => RIndexedDyn (ins_count + 1)
  | EHA_INDEXED_DYN => RIndexedDyn id
  | EHA_LIT => RLiteral never name value
  | EHA_LIT_WITH_NAME_NEW => RLiteralDyn never (ins_count + 1) value
  | EHA_LIT_WITH_NAME_DYN => RLiteralDyn never id value
  | EHA_LIT_WITH_NAME_STAT => RLiteralStatic never id value
  end.

Lemma never_bit_u8 never n : 0 <= n <= 5 -> is_u8 (never_bit never n).
Proof.
  intros Hn. unfold never_bit. destruct never; cbn [Z.b2z]; [|rewrite Z.shiftl_0_l; ulia].
  rewrite Z.shiftl_1_l. split; [lia|]. apply Z.pow_lt_mono_r; lia.
Qed.

Lemma post_base_idx_spec base id buf b rest0 :
  0 <= base < id -> id < 2 ^ 32 -> is_bytes buf ->
  post_base_idx base id buf = Wrote b rest0 ->
  (length b <= length buf)%nat /\ is_representation base b (RIndexedDyn id).
Proof.
  intros Hid Hu Hb. unfold post_base_idx. rewrite u32_id by ulia. intros E1.
  apply put_int_spec in E1 as ([Hr Hh _] & _ & Hlen); [|lia|ulia|done|ulia].
  split; [done|]. intros tail. destruct (Hh tail) as (c & rest & E & Hk).
  unfold read_representation. rewrite (read_head _ _ _ E), !Hk by lia. cbn -[read_int Z.add Z.sub].
  rewrite Hr. cbn -[Z.add Z.sub]. do 3 f_equal. lia.
Qed.

Lemma post_base_name_ref_spec bits0 never base id value buf b rest0 :
  0 <= base < id -> id < 2 ^ 32 -> is_bytes buf -> short value ->
  post_base_name_ref bits0 never base id value buf = Wrote b rest0 ->
  (length b <= length buf)%nat /\ is_representation base b (RLiteralDyn never id value).
Proof.
  intros Hid Hu Hb Hv. unfold post_base_name_ref. rewrite u32_id by ulia. intros H.
  apply put_nameref_spec in H as (Hr & Hh & Hlen);
    [|lia|by apply never_bit_u8|by destruct never|ulia|done|done].
  split; [done|]. intros tail. destruct (Hh tail) as (c & rest & E & Hk).
  unfold read_representation. rewrite (read_head _ _ _ E), !Hk by lia.
  assert (base + (id - base - 1) + 1 = id) as Eid by lia.
  destruct never; cbn -[read_int_str Z.add Z.sub]; rewrite Hr; cbn -[Z.add Z.sub]; by rewrite Eid.
Qed.

Lemma write_header_field_spec bits0 action never ins_count base id name value buf :
  0 <= base <= ins_count -> ins_count < 2 ^ 32 ->
  (action = EHA_INDEXED_NEW \/ action = EHA_LIT_WITH_NAME_NEW -> ins_count < 2 ^ 32 - 1) ->
  0 <= id < 2 ^ 32 ->
  is_bytes buf -> short name -> short value ->
  exists r, write_header_field bits0 action never ins_count base id name value buf = Some r
    /\ forall b rest, r = Wrote b rest ->
       (length b <= length buf)%nat
       /\ is_representation base b (written_representation action never ins_count id name value).
Proof.
  intros Hbase Hins Hnew Hid Hb Hn Hv.
  unfold write_header_field; destruct action; cbn [written_representation].
  - specialize (Hnew ltac:(auto)). rewrite u32_id by ulia.
    destruct (Z.gtb_spec (ins_count + 1) base); [|lia]. eexists; split; [done|].
    intros b rest. apply post_base_idx_spec; ulia || done.
  - eexists; split; [done|]. intros b rest0 E1.
    apply put_int_spec in E1 as ([Hr Hh _] & _ & Hlen); [|lia|by vm_compute|done|ulia].
    split; [done|]. intros tail. destruct (Hh tail) as (c & rest & E & Hk).
    unfold read_representation. rewrite (read_head _ _ _ E), !Hk by lia. cbn -[read_int].
    by rewrite Hr.
  - destruct (Z.gtb_spec id base).
    + eexists; split; [done|]. intros b rest. apply post_base_idx_spec; lia || done.
    + eexists; split; [done|]. intros b rest0. rewrite u32_id by ulia. intros E1.
      apply put_int_spec in E1 as ([Hr Hh _] & _ & Hlen); [|lia|ulia|done|ulia].
      split; [done|]. intros tail. destruct (Hh tail) as (c & rest & E & Hk).
      unfold read_representation. rewrite (read_head _ _ _ E), !Hk by lia. cbn -[read_int Z.sub].
      rewrite Hr. cbn -[Z.sub]. do 3 f_equal. lia.
  - eexists; split; [done|]. intros b rest0 Hw.
    apply put_nameref_spec in Hw as (Hr & Hh & Hlen);
      [|lia|by destruct never; vm_compute|by destruct never|ulia|done|done].
    split; [done|]. intros tail. destruct (Hh tail) as (c & rest & E & Hk).
    unfold read_representation. rewrite (read_head _ _ _ E), !Hk by lia.
    destruct never; cbn -[read_int_str]; by rewrite Hr.
  - destruct (Z.gtb_spec id base).
    + eexists; split; [done|]. intros b rest. apply post_base_name_ref_spec; lia || done.
    + eexists; split; [done|]. intros b rest0 Hw. rewrite u32_id in Hw by ulia.
      apply put_nameref_spec in Hw as (Hr & Hh & Hlen);
        [|lia|by destruct never; vm_compute|by destruct never|ulia|done|done].
      split; [done|]. intros tail. destruct (Hh tail) as (c & rest & E & Hk).
      unfold read_representation. rewrite (read_head _ _ _ E), !Hk by lia.
      assert (base - (base - id) = id) as Eid by lia.
      destruct never; cbn -[read_int_str Z.sub]; rewrite Hr; cbn -[Z.sub]; by rewrite Eid.
  - specialize (Hnew ltac:(auto)). rewrite u32_id by ulia.
    destruct (Z.gtb_spec (ins_count + 1) base); [|lia]. eexists; split; [done|].
    intros b rest. apply post_base_name_ref_spec; ulia || done.
  - eexists; split; [done|]. intros b rest0.
    intros (Hr & Hh & Hlen)%put_two_strs_spec; [|lia|by destruct never; vm_compute|done..].
    split; [done|]. intros tail. destruct (Hh tail) as (c & rest & E & Hk).
    unfold read_representation. rewrite (read_head _ _ _ E), !Hk by lia.
    destruct never; cbn -[read_str_str]; by rewrite Hr.
Qed.
