(* ===== verification/EncExec.v ===== *)
(** * Executing a choice preserves the invariant

    [steady enc enc'] is what every part of encoding a field guarantees about the
    state: the acknowledgements, the limits and the other header blocks stay, the
    references of the current block only grow, and every entry that left the
    table was evictable.  Each stage of [execute_program] is shown to run without
    undefined behaviour, to keep [enc_core] and to be [steady]. *)

From stdpp Require Import sets.
From S2P Require Import Prelude Monad IntCodec HuffTables Huffman StrCodec Xxhash StaticTable Rfc9204.
From S2P Require Import History EncTable EncHinfo Float EncState EncPolicy EncEncode Encoder.
From S2P Require Import EncInv EncChoice EncAbs EncWire.

(** ** Steady changes *)

(** How many entries were evicted: the id of the last one. *)
Definition gone (enc : lsqpack_enc) : Z :=
  qpe_ins_count (qpe_table enc) - Z.of_nat (length (entries enc)).

(** Nothing is lost that may not be, of the entries that were there or of those that
    came in between. *)
Definition only_evictable (enc enc' : lsqpack_enc) : Prop :=
  (forall e, e ∈ entries enc -> e ∉ entries enc' -> evictable enc (ete_id e))
  /\ gone enc' <= Z.max (gone enc) (qpe_max_acked_id enc).

(** The range of references grows. *)
Definition ids_grow (h h' : header_info) : Prop :=
  (qhi_min_id h <> 0 -> qhi_min_id h' <> 0 /\ qhi_min_id h' <= qhi_min_id h)
  /\ (0 < qhi_min_id h -> 0 < qhi_min_id h') /\ qhi_max_id h <= qhi_max_id h'.

Record kept (enc enc' : lsqpack_enc) : Prop := {
  st_acked : qpe_max_acked_id enc' = qpe_max_acked_id enc;
  st_ici : qpe_last_ici enc' = qpe_last_ici enc;
  st_flags : qpe_flags enc' = qpe_flags enc;
  st_real : qpe_real_max_capacity enc' = qpe_real_max_capacity enc;
  st_entries : qpe_max_entries enc' = qpe_max_entries enc;
  st_risked : qpe_max_risked_streams enc' = qpe_max_risked_streams enc;
  st_hinfo : ch_hinfo (qpe_cur_header enc') = ch_hinfo (qpe_cur_header enc);
  st_other : ch_other_at_risk (qpe_cur_header enc') = ch_other_at_risk (qpe_cur_header enc);
  st_base : ch_base_idx (qpe_cur_header enc') = ch_base_idx (qpe_cur_header enc);
  st_stream : qpe_dec_stream_state enc' = qpe_dec_stream_state enc;
  st_hist : hist_exists enc' = hist_exists enc;
  st_capacity : qpe_cur_max_capacity (qpe_table enc') = qpe_cur_max_capacity (qpe_table enc);
  st_ins_count : qpe_ins_count (qpe_table enc) <= qpe_ins_count (qpe_table enc');
  st_all : all_hinfos enc' = all_hinfos enc;
  st_others : forall p, ~ is_cur enc p -> hinfo_of enc' p = hinfo_of enc p;
  st_risk_list : qpe_risked_hinfos (qpe_hinfos enc') = qpe_risked_hinfos (qpe_hinfos enc);
  st_streams : qpe_cur_streams_at_risk (qpe_hinfos enc') = qpe_cur_streams_at_risk (qpe_hinfos enc);
  st_stream_ids : forall p, qhi_stream_id (hinfo_of enc' p) = qhi_stream_id (hinfo_of enc p);
  st_grow : forall p, is_cur enc p -> ids_grow (hinfo_of enc p) (hinfo_of enc' p);
}.

Definition steady (enc enc' : lsqpack_enc) : Prop := kept enc enc' /\ only_evictable enc enc'.

Lemma ids_grow_unset h h' : ids_unset h -> 0 <= qhi_max_id h' -> ids_grow h h'.
Proof. intros [H1 H2] H. unfold ids_grow. lia. Qed.

Lemma kept_below enc enc' i : kept enc enc' -> below_refs enc' i -> below_refs enc i.
Proof.
  intros Hs Hb p Hp Hne. specialize (Hb p). rewrite (st_all _ _ Hs) in Hb.
  destruct (cur_or_not enc p) as [Hc|Hc].
  - destruct (st_grow _ _ Hs p Hc) as [Hg _]. destruct (Hg Hne) as [Hg1 Hg2].
    specialize (Hb Hp Hg1). lia.
  - rewrite (st_others _ _ Hs p Hc) in Hb. auto.
Qed.

Lemma kept_evictable enc enc' i : kept enc enc' -> evictable enc' i -> evictable enc i.
Proof.
  intros Hs [H1 H2]. split; [by rewrite <- (st_acked _ _ Hs)|by apply (kept_below enc enc')].
Qed.

Lemma kept_cur enc enc' p : kept enc enc' -> is_cur enc' p <-> is_cur enc p.
Proof. intros Hs. unfold is_cur. by rewrite (st_hinfo _ _ Hs). Qed.

Lemma kept_can_risk enc enc' : kept enc enc' -> qenc_can_risk enc = true -> qenc_can_risk enc' = true.
Proof.
  intros Hs. unfold qenc_can_risk, cur_hinfo.
  rewrite (st_other _ _ Hs), (st_streams _ _ Hs), (st_risked _ _ Hs), (st_acked _ _ Hs), (st_hinfo _ _ Hs).
  rewrite !orb_true_iff. intros [H|H]; [by left|right]. revert H.
  destruct (ch_hinfo (qpe_cur_header enc)) as [p|] eqn:E; [|done]. cbn [fmap option_fmap option_map].
  destruct (st_grow _ _ Hs p E) as (_ & _ & Hg). unfold qenc_hinfo_at_risk, hinfo_of in *. lia.
Qed.

Lemma kept_header enc enc' : kept enc enc' -> in_header enc -> in_header enc'.
Proof. intros Hs. unfold in_header. by rewrite (st_flags _ _ Hs). Qed.

(** The current header block refers to [i]. *)
Definition referenced (enc : lsqpack_enc) (i : Z) : Prop :=
  exists p, is_cur enc p /\ p ∈ all_hinfos enc
    /\ 0 < qhi_min_id (hinfo_of enc p) <= i /\ i <= qhi_max_id (hinfo_of enc p).

Lemma kept_referenced enc enc' i : kept enc enc' -> referenced enc i -> referenced enc' i.
Proof.
  intros Hs (p & Hc & Hp & H1 & H2). exists p. rewrite (kept_cur _ _ _ Hs), (st_all _ _ Hs).
  destruct (st_grow _ _ Hs p Hc) as (Hg & Hg2 & Hg3). specialize (Hg ltac:(lia)).
  split_and!; try done; lia.
Qed.

(** The Required Insert Count of the current header block. *)
Definition required_count (enc : lsqpack_enc) : Z :=
  match cur_hinfo enc with Some h => qhi_max_id h | None => 0 end.

(** The count after a reference to [id], if there is one. *)
Definition noted (refers : bool) (id old : Z) : Z := if refers then Z.max old id else old.

Lemma required_cur enc p : is_cur enc p -> required_count enc = qhi_max_id (hinfo_of enc p).
Proof. intros Hp. unfold required_count, cur_hinfo. by rewrite Hp. Qed.

Lemma kept_required enc enc' : kept enc enc' ->
  (forall p, is_cur enc p -> qhi_max_id (hinfo_of enc' p) = qhi_max_id (hinfo_of enc p)) ->
  required_count enc' = required_count enc.
Proof.
  intros Hk H. unfold required_count, cur_hinfo. rewrite (st_hinfo _ _ Hk).
  destruct (ch_hinfo (qpe_cur_header enc)) as [p|] eqn:E; [|done]. by apply (H p).
Qed.

Lemma hinfos_required enc enc' : kept enc enc' -> qpe_hinfos enc' = qpe_hinfos enc ->
  required_count enc' = required_count enc.
Proof. intros Hk H. apply kept_required; [done|]. intros p _. unfold hinfo_of. by rewrite H. Qed.

#[global] Instance kept_preorder : PreOrder kept.
Proof.
  split.
  - intros enc. constructor; first [done|lia|intros p _; unfold ids_grow; lia].
  - intros x y z H1 H2. pose proof (kept_cur x y) as Hcur.
    pose proof H1 as []. pose proof H2 as []. constructor; try congruence; try lia; auto.
    + intros p Hp. rewrite st_others1; [by apply st_others0|]. by rewrite Hcur.
    + intros p Hp. specialize (st_grow0 p Hp). specialize (st_grow1 p (proj2 (Hcur p H1) Hp)).
      unfold ids_grow in *. lia.
Qed.

(** Entries the current block refers to are not evicted. *)
Lemma referenced_stays enc enc' e :
  steady enc enc' -> referenced enc (ete_id e) -> e ∈ entries enc -> e ∈ entries enc'.
Proof.
  intros [_ [He _]] (p & Hc & Hp & H1 & _) Hin.
  destruct (decide (e ∈ entries enc')) as [|Hn]; [done|]. exfalso.
  destruct (He e Hin Hn) as [_ Hb]. specialize (Hb p Hp ltac:(lia)). lia.
Qed.

#[global] Instance steady_preorder : PreOrder steady.
Proof.
  split.
  - intros enc. split; [reflexivity|]. split; [by intros e H1 []|lia].
  - intros x y z [H1 [G1 B1]] [H2 [G2 B2]]. split; [by etrans|]. rewrite (st_acked _ _ H1) in B2.
    split; [|lia]. intros e He Hz. destruct (decide (e ∈ entries y)) as [Hy|Hy]; [|by apply G1].
    apply (kept_evictable x y _ H1). by apply G2.
Qed.

(** Entries that stay are no evictions. *)
Lemma steady_of_kept enc enc' :
  kept enc enc' -> (forall e, e ∈ entries enc -> e ∈ entries enc') -> gone enc' = gone enc -> steady enc enc'.
Proof. intros Hk He Hg. split; [done|]. split; [|lia]. intros e H1 H2. by destruct (H2 (He e H1)). Qed.

Lemma softly_steady enc enc' : softly enc enc' -> steady enc enc'.
Proof.
  intros [Hs _]. pose proof (so_table _ _ Hs) as Et. pose proof (so_hinfos _ _ Hs) as Eh.
  apply steady_of_kept; [|unfold entries; by rewrite Et|unfold gone, entries; by rewrite Et].
  constructor; unfold below_refs, all_hinfos, hinfo_of;
    rewrite ?Et, ?Eh; first [done|lia|apply Hs|intros p _; unfold ids_grow; lia].
Qed.

(** ** The current header info *)

(** A change of the current header info that leaves the links and the stream. *)
Record info_change (f : header_info -> header_info) : Prop := {
  ic_same : forall h, qhi_same_stream_id (f h) = qhi_same_stream_id h;
  ic_stream : forall h, qhi_stream_id (f h) = qhi_stream_id h;
}.

Lemma add_bytes_change n : info_change (add_bytes_inserted n).
Proof. by split. Qed.

Lemma min_max_change id : info_change (qenc_maybe_update_hinfo_min_max id).
Proof.
  split; intros h; unfold qenc_maybe_update_hinfo_min_max;
    destruct (HINFO_IDS_SET h); [|done| |done];
    (destruct (_ >? _); [done|]); by destruct (_ <? _).
Qed.

Lemma hinfo_of_update enc f p q :
  hinfo_of (set_hinfos (update_hinfo f p (qpe_hinfos enc)) enc) q
  = if decide (q = p) then f (hinfo_of enc p) else hinfo_of enc q.
Proof. unfold hinfo_of. cbn [qpe_hinfos set_hinfos]. apply hinfo_at_update. Qed.

(** An update of the current header info keeps the invariant when its new range
    is sound and a new risk was allowed. *)
Lemma update_cur_core f p enc :
  enc_core enc -> is_cur enc p -> info_change f ->
  (let h := f (hinfo_of enc p) in ids_within (qpe_ins_count (qpe_table enc)) h \/ ids_unset h) ->
  (qpe_max_acked_id enc < qhi_max_id (f (hinfo_of enc p)) -> qenc_can_risk enc = true) ->
  enc_core (set_hinfos (update_hinfo f p (qpe_hinfos enc)) enc).
Proof.
  intros Hc Hp [Hsame Hstream] Hids Hrisk. set (enc' := set_hinfos _ enc).
  pose proof (hinfo_of_update enc f p) as Hof. fold enc' in Hof.
  pose proof Hc as []. constructor; try done.
  - by apply update_fields_wf.
  - intros q Hq. specialize (ec_hinfo q Hq) as (H1 & H2 & H3).
    unfold hinfo_ok. rewrite Hof. case_decide as E; [subst q|by split_and!].
    split_and!; [destruct Hids; auto|done|done].
  - intros Hin Hf. destruct (ec_cache Hin Hf) as [H1 H2]. split; [done|]. intros q Hq Hn.
    rewrite Hof. case_decide as E; [by subst q|by apply H2].
  - destruct ec_risk as [H1 H2]. split; [done|]. intros q Hq Hr Ho.
    assert (q = p) as -> by (unfold is_cur in *; cbn in Hq; congruence).
    rewrite Hof, decide_True in Hr by done. specialize (Hrisk Hr).
    unfold qenc_can_risk in Hrisk. cbn in Ho. rewrite Ho in Hrisk. cbn [orb] in Hrisk.
    apply orb_true_iff in Hrisk as [Hlt%Z.ltb_lt|Hr']; [done|].
    apply (H2 p Hp); [|done]. unfold cur_hinfo in Hr'. rewrite Hp in Hr'. cbn in Hr'.
    unfold qenc_hinfo_at_risk in Hr'. rewrite Z.gtb_ltb in Hr'. by apply Z.ltb_lt in Hr'.
Qed.

(** It is steady when the range grows. *)
Lemma update_cur_steady f p enc :
  is_cur enc p -> info_change f -> ids_grow (hinfo_of enc p) (f (hinfo_of enc p)) ->
  steady enc (set_hinfos (update_hinfo f p (qpe_hinfos enc)) enc).
Proof.
  intros Hp Hf Hg. set (enc' := set_hinfos _ enc).
  pose proof (hinfo_of_update enc f p) as Hof. fold enc' in Hof.
  apply steady_of_kept; [|done|done]. constructor; try done.
  - intros q Hq. rewrite Hof. case_decide; [by subst q|done].
  - intros q. rewrite Hof. case_decide; [subst q; apply Hf|done].
  - intros q Hq. assert (q = p) as -> by (unfold is_cur in *; congruence).
    by rewrite Hof, decide_True.
Qed.

(** The range after a reference to [id]. *)
Lemma min_max_range ins_count id h :
  1 <= id <= ins_count -> ids_within ins_count h \/ ids_unset h ->
  let h' := qenc_maybe_update_hinfo_min_max id h in
  ids_within ins_count h' /\ qhi_min_id h' <= id <= qhi_max_id h'
  /\ ids_grow h h' /\ qhi_max_id h' = Z.max (qhi_max_id h) id.
Proof.
  intros Hid Hh. cbn zeta. unfold qenc_maybe_update_hinfo_min_max, ids_grow, HINFO_IDS_SET.
  destruct Hh as [[[H1 H2] H3]|[H1 H2]].
  - destruct (Z.eqb_spec (qhi_max_id h) 0); [lia|]. cbn [negb]. rewrite Z.gtb_ltb.
    destruct (Z.ltb_spec (qhi_max_id h) id); [cbn; unfold ids_within; cbn; lia|].
    destruct (Z.ltb_spec id (qhi_min_id h)); cbn; unfold ids_within; cbn; lia.
  - rewrite H2. cbn [negb Z.eqb]. unfold ids_within. cbn. lia.
Qed.

(** ** Changes of the table *)

Lemma set_table_core t ms enc :
  enc_core enc -> table_wf t -> (0 < qpe_max_entries enc -> has_buckets t) ->
  (0 < qpe_ins_count t -> 0 < qpe_max_entries enc) ->
  qpe_cur_max_capacity t = qpe_cur_max_capacity (qpe_table enc) ->
  qpe_ins_count (qpe_table enc) <= qpe_ins_count t ->
  enc_core (set_mallocs ms (set_table t enc)).
Proof.
  intros Hc Ht Hb Hme Hcap Hins. pose proof Hc as [].
  constructor; unfold is_cur, all_hinfos, cache_ok, risk_ok in *;
    cbn [qpe_table set_table set_mallocs qpe_hinfos qpe_hist qpe_max_acked_id qpe_last_ici
         qpe_cur_header qpe_max_entries qpe_real_max_capacity qpe_max_risked_streams];
    rewrite ?Hcap; try done; try lia.
  intros p Hp. specialize (ec_hinfo p Hp) as (H1 & H2 & H3). split_and!; try done.
  destruct H1 as [[H1 H1']|H1]; [left|by right]. split; [done|].
  cbn [qpe_table set_table set_mallocs]. unfold hinfo_of in *. cbn. lia.
Qed.

Lemma set_table_kept t ms enc :
  qpe_cur_max_capacity t = qpe_cur_max_capacity (qpe_table enc) ->
  qpe_ins_count (qpe_table enc) <= qpe_ins_count t ->
  kept enc (set_mallocs ms (set_table t enc)).
Proof. intros Hcap Hins. constructor; done || (intros p _; unfold ids_grow; lia). Qed.

(** Nothing happened but a failed allocation: the hash table may have grown. *)
Record calm (enc enc' : lsqpack_enc) : Prop := {
  ca_wf : enc_wf enc';
  ca_steady : steady enc enc';
  ca_table : same_table (qpe_table enc) (qpe_table enc');
  ca_hinfos : qpe_hinfos enc' = qpe_hinfos enc;
}.

Lemma softly_calm enc enc' : enc_wf enc -> softly enc enc' -> calm enc enc'.
Proof.
  intros Hwf Hs. constructor; [by apply (softly_wf enc)|by apply softly_steady| |].
  - by rewrite (so_table _ _ (proj1 Hs)).
  - apply (so_hinfos _ _ (proj1 Hs)).
Qed.

Lemma calm_trans x y z : calm x y -> calm y z -> calm x z.
Proof.
  intros [H1 H2 H3 H4] [G1 G2 G3 G4]. constructor; [done|by etrans|by etrans|congruence].
Qed.

Definition made (enc : lsqpack_enc) (name_hash nameval_hash : Z) (name value : bytes)
  : enc_table_entry := new_entry (qpe_table enc) name_hash nameval_hash name value.

(** A push that succeeded. *)
Record push_done (enc enc' : lsqpack_enc) (e : enc_table_entry) : Prop := {
  pd_core : enc_core enc';
  pd_steady : steady enc enc';
  pd_pushed : pushed (qpe_table enc) (qpe_table enc') e;
  pd_hinfos : qpe_hinfos enc' = qpe_hinfos enc;
  pd_header : qpe_cur_header enc' = qpe_cur_header enc;
}.

Lemma wp_push_entry name_hash nameval_hash name value enc :
  let e := made enc name_hash nameval_hash name value in
  enc_wf enc -> 0 < qpe_max_entries enc -> entry_wf e ->
  qpe_ins_count (qpe_table enc) < LSQPACK_MAX_ABS_ID ->
  wp (enc_push_entry name_hash nameval_hash name value) enc (fun r enc' =>
    match r with
    | Some e' => e' = e /\ push_done enc enc' e
    | None => calm enc enc'
    end).
Proof.
  intros e [Hc Hfit Hhdr] Hm He Hins. pose proof (ec_buckets _ Hc Hm) as Hb. unfold wp, enc_push_entry. pose proof (ec_table _ Hc) as Ht.
  pose proof (ec_capacity _ Hc) as Hcap. pose proof (entry_size_range e He).
  pose proof (push_entry_wf (qpe_mallocs enc) (qpe_table enc) name_hash nameval_hash name value
                Ht Hb He) as Hp.
  unfold LSQPACK_MAX_ABS_ID in Hins. fold (made enc name_hash nameval_hash name value) in Hp.
  fold e in Hp. change (2 ^ 18) with 262144 in *. change (2 ^ 31) with 2147483648 in *.
  specialize (Hp ltac:(change (2 ^ 32) with 4294967296; lia) ltac:(lia)).
  destruct (lsqpack_enc_push_entry _ _ _ _ _ _) as [[[e'|] t] ms].
  - destruct Hp as (-> & Ht' & Hb' & Hp). pose proof Hp as (Hall & Hi & _ & Hcp).
    split; [done|]. constructor; [| |done..].
    + apply set_table_core; [done|done|done|done|done|lia].
    + apply steady_of_kept; [apply set_table_kept; [done|lia]|intros x Hx|]; unfold gone, entries; cbn; rewrite Hall.
      * apply elem_of_app. by left.
      * rewrite length_app. cbn. lia.
  - destruct Hp as (Ht' & Hb' & Hs). pose proof Hs as (H1 & H2 & H3 & H4 & H5 & H6).
    constructor; [|apply steady_of_kept; [apply set_table_kept; [done|lia]| |]|done|done].
    + constructor; [apply set_table_core; [done|done|done|done|done|lia]| |done]. cbn. by rewrite H2, H3.
    + intros x. unfold entries. cbn. by rewrite H6.
    + unfold gone, entries. cbn. by rewrite H1, H6.
Qed.

(** Dropping the overflow. *)
Lemma wp_remove_overflow enc :
  enc_core enc -> in_header enc ->
  wp qenc_remove_overflow_entries enc (fun _ enc' =>
    enc_wf enc' /\ overflow_dropped (qpe_table enc) (qpe_table enc')
    /\ qpe_hinfos enc' = qpe_hinfos enc /\ kept enc enc').
Proof.
  intros Hc Hhdr. pose proof (ec_table _ Hc) as Ht. unfold wp, qenc_remove_overflow_entries.
  destruct (drop_overflow_ok _ Ht) as (t' & n & -> & Hd & Hb).
  set (enc1 := set_mallocs (qpe_mallocs enc) (set_table t' enc)).
  assert (set_table t' enc = enc1) as -> by (by destruct enc).
  assert (enc_core enc1) as Hc1.
  { apply set_table_core; [done|apply Hd|intros Hm; apply Hb, (ec_buckets _ Hc Hm)| |apply Hd|];
      [rewrite (od_ins_count _ _ Hd); apply (ec_max_entries _ Hc)|].
    rewrite (od_ins_count _ _ Hd). lia. }
  assert (kept enc enc1) as Hk.
  { apply set_table_kept; [apply Hd|]. rewrite (od_ins_count _ _ Hd). lia. }
  destruct (_ && hist_exists _); cbn.
  - match goal with |- enc_wf ?e /\ _ => assert (soft enc1 e) as Hs by (by constructor);
      assert (softly enc1 e) as Hs' end.
    { split; [done|]. intros _. apply (soft_core _ _ Hs Hc1); apply Hc. }
    split_and!; [constructor; [by apply Hs'|apply Hd|done]|done|done|].
    etrans; [exact Hk|]. by apply softly_steady.
  - split_and!; [constructor; [done|apply Hd|done]|done|done|done].
Qed.

(** ** Inserting an entry *)

(** The effect of a push and the eviction after it on the table. *)
Record inserted (enc enc' : lsqpack_enc) (e : enc_table_entry) : Prop := {
  in_abs : dt_insert (nameval e) (abs_table (qpe_table enc)) = Some (abs_table (qpe_table enc'));
  in_last : e ∈ entries enc';
  in_survives : forall pre post, entries enc = pre ++ post ->
    sizes post + ETE_SIZE e <= qpe_cur_max_capacity (qpe_table enc) ->
    forall x, x ∈ post -> x ∈ entries enc';
}.

Lemma entry_id_at t i e : table_wf t -> qpe_all_entries t !! i = Some e ->
  ete_id e = qpe_ins_count t - Z.of_nat (length (qpe_all_entries t)) + 1 + Z.of_nat i.
Proof.
  intros Ht Hi. assert ((ete_id <$> qpe_all_entries t) !! i = Some (ete_id e)) as Hid
    by (by rewrite list_lookup_fmap, Hi).
  rewrite (wf_ids _ Ht) in Hid. apply lookup_seqZ in Hid as [Hid _]. rewrite (wf_nelem _ Ht) in Hid. lia.
Qed.

Lemma wp_insert enc enc1 e :
  enc_wf enc -> room_for enc (ETE_SIZE e) ->
  enc_core enc1 -> steady enc enc1 -> pushed (qpe_table enc) (qpe_table enc1) e ->
  wp qenc_remove_overflow_entries enc1 (fun _ enc2 =>
    enc_wf enc2 /\ steady enc enc2 /\ inserted enc enc2 e /\ qpe_hinfos enc2 = qpe_hinfos enc1
    /\ qpe_ins_count (qpe_table enc2) = qpe_ins_count (qpe_table enc1)).
Proof.
  intros Hwf Hroom Hc1 Hs Hp.
  eapply wp_mono; [apply wp_remove_overflow; [done|by apply (kept_header enc), Hwf; apply Hs]|].
  intros _ enc2 (Hwf2 & Hd & Hh & Hk). pose proof (ec_table _ (ew_core _ Hwf)) as Ht.
  pose proof (ec_table _ Hc1) as Ht1. pose proof (wf_entries _ Ht) as Hent.
  assert (forall pre post, entries enc = pre ++ post ->
    sizes post + ETE_SIZE e <= qpe_cur_max_capacity (qpe_table enc) ->
    exists gone keep, pre = gone ++ keep /\ entries enc2 = keep ++ post ++ [e]) as Hsplit
    by (intros pre post; by apply (overflow_keeps _ _ _ e pre post Ht Ht1)).
  destruct Hroom as (pre & post & Hall & Hev & Hsz).
  destruct (Hsplit pre post Hall Hsz) as (gone0 & keep & -> & Hall2).
  apply Forall_app in Hev as [Hev _]. rewrite Forall_forall in Hev.
  split_and!; [done| | |done|apply Hd].
  - split; [etrans; [apply Hs|done]|]. split.
    { intros x Hx Hn. unfold entries in Hx. rewrite Hall in Hx.
      rewrite Hall2, !elem_of_app in Hn. rewrite !elem_of_app in Hx. apply Hev. tauto. }
    destruct Hp as (_ & Hi & _). unfold gone, entries. rewrite (od_ins_count _ _ Hd), Hi. unfold entries in Hall2.
    rewrite Hall, Hall2, !length_app. destruct gone0 as [|x xs _] using rev_ind; [cbn; lia|].
    destruct (Hev x) as [Hx _]; [rewrite elem_of_app, list_elem_of_singleton; by right|].
    assert (qpe_all_entries (qpe_table enc) !! length xs = Some x) as Hk'.
    { rewrite Hall, <- !app_assoc, lookup_app_r, Nat.sub_diag by lia. done. }
    rewrite (entry_id_at _ _ _ Ht Hk') in Hx. rewrite Hall, !length_app in Hx. cbn in *. lia.
  - constructor.
    + apply (abs_insert _ (qpe_table enc1)); try done. rewrite Hall in Hent.
      apply Forall_app in Hent as [_ Hpost]. pose proof (sizes_lower _ Hpost). lia.
    + rewrite Hall2, !elem_of_app. right. right. by apply list_elem_of_singleton.
    + intros pre' post' Hall' Hsz' x Hx.
      destruct (Hsplit pre' post' Hall' Hsz') as (gone' & keep' & _ & ->).
      rewrite !elem_of_app. auto.
Qed.

(** ** Duplicating entries about to drain away *)

Definition dup_ok (enc : lsqpack_enc) (c : option enc_table_entry) : Prop :=
  match c with
  | Some c => c ∈ entries enc /\ room_for enc (ETE_SIZE c)
  | None => True
  end.

Lemma wp_dup_candidate enc0 l : forall cand enc,
  enc_wf enc0 -> softly enc0 enc -> (forall e, e ∈ l -> e ∈ entries enc0) -> dup_ok enc0 cand ->
  wp (dup_candidate l cand) enc (step_ok enc0 (dup_ok enc0)).
Proof.
  induction l as [|e l IH]; intros cand enc Hwf Hs Hl Hc; cbn [dup_candidate].
  - apply wp_ret. by split.
  - wpsteps. destruct (negb _); [apply wp_ret; by split|].
    assert (forall e, e ∈ l -> e ∈ entries enc0) as Hl' by (intros x Hx; apply Hl; by right).
    destruct (match cand with Some c => _ | None => _ end); [by apply IH|].
    wpstep. eapply wp_mono.
    { apply (wp_guard _ _ enc0 enc (fun b => b = true -> room_for enc0 (ETE_SIZE e)));
        [done|done|]. intros _. wpstep. eapply wp_mono; [by apply (wp_seen_step _ _ enc0)|].
      intros seen enc1 [Hs1 _]. apply (wp_guard seen _ enc0); [done|done|].
      intros _. by apply wp_room_step. }
    intros ok enc1 [Hs1 Hok]. apply IH; [done|done|done|]. destruct ok; [|done].
    split; [apply Hl; by left|by apply Hok].
Qed.

(** The duplicate of [c]. *)
Definition dup_entry (enc : lsqpack_enc) (c : enc_table_entry) : enc_table_entry :=
  made enc (ete_name_hash c) (ete_nameval_hash c) (ETE_NAME c) (ETE_VALUE c).

Lemma dup_entry_wf enc c : entry_wf c -> entry_wf (dup_entry enc c).
Proof. done. Qed.

(** One duplication, before the eviction. *)
Record dup_done (enc : lsqpack_enc) (buf b : bytes) (enc' : lsqpack_enc) : Prop := {
  dd_entry : exists e, room_for enc (ETE_SIZE e) /\ pushed (qpe_table enc) (qpe_table enc') e
    /\ (forall t, dt_insert (nameval e) (abs_table (qpe_table enc)) = Some t ->
        exists i, is_instruction b i /\ apply_instruction (abs_table (qpe_table enc)) i = Some t);
  dd_core : enc_core enc';
  dd_steady : steady enc enc';
  dd_hinfos : qpe_hinfos enc' = qpe_hinfos enc;
  dd_length : (length b <= length buf)%nat;
  dd_nonempty : b <> [];
}.

Lemma softly_dup_done enc enc1 buf b enc' :
  softly enc enc1 -> dup_done enc1 buf b enc' -> dup_done enc buf b enc'.
Proof.
  intros Hs [(e & H1 & H2 & H3) G1 G2 G3 G4 G5]. rewrite (so_table _ _ (proj1 Hs)) in *.
  constructor; [|done| | |done..].
  - exists e. split; [by apply (softly_room enc enc1)|done].
  - etrans; [by apply softly_steady|done].
  - rewrite G3. apply (so_hinfos _ _ (proj1 Hs)).
Qed.

Lemma entries_max_entries enc e :
  enc_core enc -> e ∈ entries enc -> 0 < qpe_max_entries enc.
Proof.
  intros Hc He. apply (ec_max_entries _ Hc). pose proof (ec_table _ Hc) as Ht.
  destruct (entry_lookup _ _ Ht He) as [Hid _]. pose proof (wf_nelem_ins _ Ht). lia.
Qed.

Lemma wp_dup_push enc c buf b rest :
  enc_wf enc -> c ∈ entries enc -> room_for enc (ETE_SIZE c) ->
  qpe_ins_count (qpe_table enc) < LSQPACK_MAX_ABS_ID ->
  put_int 0 buf (u32 (qpe_ins_count (qpe_table enc) - ete_id c)) 5 = Wrote b rest ->
  wp (enc_push_entry (ete_name_hash c) (ete_nameval_hash c) (ETE_NAME c) (ETE_VALUE c)) enc
    (fun entry enc' => match entry with
                       | Some _ => dup_done enc buf b enc'
                       | None => calm enc enc'
                       end).
Proof.
  intros Hwf Hc Hroom Hins Hput. pose proof (ec_table _ (ew_core _ Hwf)) as Ht.
  assert (entry_wf c) as Hcw by (pose proof (wf_entries _ Ht) as HF; rewrite Forall_forall in HF; by apply HF).
  destruct (entry_lookup _ _ Ht Hc) as [Hid _]. pose proof (wf_ins_count _ Ht) as Hi32.
  pose proof (wf_nelem_ins _ Ht).
  eapply wp_mono; [apply wp_push_entry; [done| |by apply (dup_entry_wf enc)|done]|].
  { by apply (entries_max_entries enc c), Hc; apply ew_core. }
  intros [e|] enc' Hr; [|done]. destruct Hr as [He Hd].
  rewrite u32_id in Hput by ulia.
  apply put_int_spec in Hput as ([Hread Hhead Hne] & _ & Hlen); [|lia|ulia|done|ulia].
  constructor; [|apply Hd|apply Hd|apply Hd|done|done].
  exists e. subst e. split; [done|]. split; [apply Hd|]. intros t Hins'.
  exists (IDuplicate (qpe_ins_count (qpe_table enc) - ete_id c)). split.
  - intros tail. destruct (Hhead tail) as (x & r & E & Hk). unfold read_instruction.
    rewrite (read_head _ _ _ E), !Hk by lia. cbn -[read_int]. by rewrite Hread.
  - cbn [apply_instruction]. cbn [abs_table dt_inserted].
    replace (_ - (_ - _)) with (ete_id c) by lia. fold (abs_table (qpe_table enc)).
    by rewrite (abs_get _ _ Ht Hc).
Qed.

(** A writer that stays within [buf] and leaves bytes in it. *)
Definition keeps_buf (buf after : bytes) : Prop := is_bytes after /\ length after = length buf.

Lemma wp_dup_draining buf enc :
  enc_wf enc -> is_bytes buf ->
  wp (qenc_dup_draining buf) enc (fun w enc' => keeps_buf buf (put_buf w)
    /\ match w with NoRoom _ => calm enc enc' | Wrote b _ => dup_done enc buf b enc' end).
Proof.
  intros Hwf Hb. assert (calm enc enc) as Hcalm by (apply softly_calm; [done|reflexivity]).
  assert (keeps_buf buf buf) as Hbuf by done.
  unfold qenc_dup_draining. wpsteps.
  destruct (_ || (_ =? LSQPACK_MAX_ABS_ID)) eqn:Hg; [by wpsteps|].
  apply orb_false_iff in Hg as [_ Hins%Z.eqb_neq].
  destruct (_ && _); [by wpsteps|].
  wpstep. eapply wp_mono; [by apply (wp_dup_candidate enc)|].
  intros cand enc1 [Hs1 Hc]. pose proof (softly_calm _ _ Hwf Hs1) as Hca.
  destruct cand as [c|]; [|by wpsteps].
  destruct (put_int_ok 0 buf (u32 (qpe_ins_count (qpe_table enc) - ete_id c)) 5 (u32_u64 _) ltac:(lia) Hb) as [[Hk1 _] Hk2].
  destruct (put_int _ _ _ _) as [b rest|stored] eqn:Hput; [|by wpsteps].
  destruct Hc as [Hin Hroom]. pose proof (so_table _ _ (proj1 Hs1)) as Et.
  pose proof (wf_ins_count _ (ec_table _ (ew_core _ Hwf))) as H32.
  unfold LSQPACK_MAX_ABS_ID in *.
  wpstep. eapply wp_mono.
  { eapply (wp_dup_push enc1 c buf b rest); [apply Hca| | | |by rewrite Et].
    - unfold entries. by rewrite Et.
    - by apply (soft_room_for _ _ _ (proj1 Hs1)).
    - unfold LSQPACK_MAX_ABS_ID. rewrite Et. ulia. }
  intros [e|] enc2 H2; wpsteps; (split; [done|]).
  - by apply (softly_dup_done enc enc1).
  - by apply (calm_trans _ enc1).
Qed.

(** The encoder stream of the whole loop: instructions that take the table along. *)
Definition stream_of (enc : lsqpack_enc) (b : bytes) (enc' : lsqpack_enc) : Prop :=
  exists l, instructions b l
    /\ apply_instructions (abs_table (qpe_table enc)) l = Some (abs_table (qpe_table enc'))
    /\ Forall (capacity_within (qpe_real_max_capacity enc)) l.

Lemma stream_nil enc enc' :
  abs_table (qpe_table enc') = abs_table (qpe_table enc) -> stream_of enc [] enc'.
Proof. intros E. exists []. split; [constructor|]. cbn. by rewrite E. Qed.

Lemma stream_cons enc enc1 enc2 b bs i :
  is_instruction b i ->
  apply_instruction (abs_table (qpe_table enc)) i = Some (abs_table (qpe_table enc1)) ->
  capacity_within (qpe_real_max_capacity enc) i ->
  qpe_real_max_capacity enc1 = qpe_real_max_capacity enc ->
  stream_of enc1 bs enc2 -> stream_of enc (b ++ bs) enc2.
Proof.
  intros Hi Ha Hw Hr (l & Hl & Hal & Hwl). exists (i :: l). split; [by constructor|].
  cbn [apply_instructions]. rewrite Ha. rewrite Hr in Hwl. split; [exact Hal|by constructor].
Qed.

Lemma wp_dup_loop fuel : forall room enc,
  enc_wf enc -> is_bytes room -> (length room <= fuel)%nat ->
  wp (dup_loop fuel room) enc (fun x enc' =>
    enc_wf enc' /\ steady enc enc' /\ stream_of enc (fst x) enc' /\ qpe_hinfos enc' = qpe_hinfos enc
    /\ keeps_buf room (fst x ++ snd x)).
Proof.
  induction fuel as [|fuel IH]; intros room enc Hwf Hb Hf; cbn [dup_loop].
  - apply wp_ret. split_and!; [done|reflexivity|by apply stream_nil|done|done].
  - wpstep. eapply wp_mono; [by apply wp_dup_draining|].
    intros [b rest|stored] enc1 [Hbuf Hd]; cbn [put_buf] in Hbuf.
    2: { apply wp_ret. cbn [fst snd app]. split_and!; [apply Hd|apply Hd| |apply Hd|done].
         apply stream_nil, same_table_abs, Hd. }
    pose proof Hd as [(e & Hroom & Hp & Hi) Hc1 Hs1 Hh1 Hlen Hne]. destruct Hbuf as [Hbb Hbl].
    apply Forall_app in Hbb as [Hbb Hbr]. rewrite length_app in Hbl. wpstep.
    eapply wp_mono; [by apply (wp_insert enc enc1 e)|].
    intros _ enc2 (Hwf2 & Hs2 & Hin & Hh2 & _). destruct (Hi _ (in_abs _ _ _ Hin)) as (i & Hi1 & Hi2).
    wpstep. eapply wp_mono; [apply IH; [done|done|]|].
    { destruct b; [done|]. cbn in *. lia. }
    intros [bs rest'] enc3 (Hwf3 & Hs3 & Hst & Hh3 & [Hb3 Hlen3]). cbn [fst snd] in *. apply wp_ret.
    split_and!; [done|by etrans| |congruence|].
    { apply (stream_cons enc enc2 enc3 _ _ i); [done|done| | |done].
      - by apply (insert_within _ _ _ _ i (in_abs _ _ _ Hin)).
      - apply (st_real _ _ (proj1 Hs2)). }
    cbn [fst snd]. rewrite <- app_assoc. split; [by apply Forall_app|].
    rewrite length_app. lia.
Qed.

(** ** References *)

Lemma hinfo_range enc p :
  enc_core enc -> p ∈ all_hinfos enc ->
  ids_within (qpe_ins_count (qpe_table enc)) (hinfo_of enc p) \/ ids_unset (hinfo_of enc p).
Proof. intros Hc Hp. destruct (ec_hinfo _ Hc p Hp) as ([H|[_ H]] & _); auto. Qed.

(** A change of the current header info that keeps everything in order. *)
Record info_updated (enc enc' : lsqpack_enc) : Prop := {
  iu_core : enc_core enc';
  iu_steady : steady enc enc';
  iu_table : qpe_table enc' = qpe_table enc;
}.

#[global] Instance info_updated_trans : Transitive info_updated.
Proof. intros x y z [] []. constructor; [done|by etrans|congruence]. Qed.

Lemma info_same enc : enc_core enc -> info_updated enc enc.
Proof. intros Hc. by constructor. Qed.

Lemma wp_reference id enc :
  enc_core enc -> (exists p, is_cur enc p) -> 1 <= id <= qpe_ins_count (qpe_table enc) ->
  (qpe_max_acked_id enc < id -> qenc_can_risk enc = true) ->
  wp (update_cur_hinfo (qenc_maybe_update_hinfo_min_max id)) enc (fun _ enc' =>
    info_updated enc enc' /\ referenced enc' id /\ required_count enc' = Z.max (required_count enc) id).
Proof.
  intros Hc [p Hp] Hid Hrisk. pose proof (ec_cur _ Hc p Hp) as Hin.
  pose proof (hinfo_range _ _ Hc Hin) as Hr.
  destruct (min_max_range _ id _ Hid Hr) as (Hw & Hm & Hg & Hmax).
  unfold wp, update_cur_hinfo. rewrite Hp.
  assert (enc_core (set_hinfos (update_hinfo (qenc_maybe_update_hinfo_min_max id) p (qpe_hinfos enc)) enc))
    as Hc'.
  { apply update_cur_core; [done|done|apply min_max_change|by left|].
    rewrite Hmax. intros Hlt. destruct (Z.lt_ge_cases (qpe_max_acked_id enc) id); [auto|].
    unfold qenc_can_risk, cur_hinfo. rewrite Hp. cbn [fmap option_fmap option_map].
    rewrite !orb_true_iff. right. unfold qenc_hinfo_at_risk, hinfo_of in *. lia. }
  split; [constructor; [done|apply update_cur_steady; [done|apply min_max_change|done]|done]|].
  split; [|rewrite !(required_cur _ p) by done; by rewrite hinfo_of_update, decide_True].
  exists p. rewrite hinfo_of_update, decide_True by done.
  destruct Hw as [Hw _]. split_and!; try done; lia.
Qed.

Lemma wp_bytes_inserted n enc :
  enc_core enc -> (exists p, is_cur enc p) ->
  wp (update_cur_hinfo (add_bytes_inserted n)) enc (fun _ enc' => info_updated enc enc'
    /\ forall q, qhi_max_id (hinfo_of enc' q) = qhi_max_id (hinfo_of enc q)).
Proof.
  intros Hc [p Hp]. pose proof (ec_cur _ Hc p Hp) as Hin. unfold wp, update_cur_hinfo. rewrite Hp.
  split; [|intros q; rewrite hinfo_of_update; by case_decide as E; [subst q|]].
  constructor; [| |done].
  - apply update_cur_core; [done|done|apply add_bytes_change|by apply hinfo_range|].
    cbn. intros Hlt. unfold qenc_can_risk, cur_hinfo. rewrite Hp. cbn [fmap option_fmap option_map].
    rewrite !orb_true_iff. right. unfold qenc_hinfo_at_risk, hinfo_of in *. lia.
  - apply update_cur_steady; [done|apply add_bytes_change|]. unfold ids_grow. cbn. lia.
Qed.

Lemma lor_new_cached x :
  has_bits (Z.lor x LSQECH_REF_NEW_ENTRIES) LSQECH_MINREF_CACHED = has_bits x LSQECH_MINREF_CACHED.
Proof.
  unfold has_bits. do 2 f_equal. apply Z.bits_inj'. intros k _.
  rewrite !Z.land_spec, Z.lor_spec. unfold LSQECH_REF_NEW_ENTRIES, LSQECH_MINREF_CACHED.
  destruct (decide (k = 2)) as [->|E]; [by rewrite orb_false_r|].
  assert (Z.testbit 4 k = false) as ->; [|by rewrite !andb_false_r].
  change 4 with (2 ^ 2). apply Z.pow2_bits_false. lia.
Qed.

Lemma set_ch_flags_softly enc :
  softly enc (set_ch_flags (Z.lor (ch_flags (qpe_cur_header enc)) LSQECH_REF_NEW_ENTRIES) enc).
Proof.
  match goal with |- softly _ ?e => assert (soft enc e) as Hs by (by constructor) end.
  split; [done|]. intros Hc. apply (soft_core _ _ Hs Hc); [apply Hc|].
  pose proof (ec_cache _ Hc) as Hca. unfold cache_ok in *. cbn. rewrite lor_new_cached. exact Hca.
Qed.

(** ** The table action *)

Definition pushed_value (p : encode_program) (value : bytes) : bytes :=
  match ep_tab_action p with ETA_NEW => value | _ => [] end.

Record action_done (p : encode_program) (enc enc' : lsqpack_enc) (e : enc_table_entry) : Prop := {
  ad_core : enc_core enc';
  ad_steady : steady enc enc';
  ad_pushed : pushed (qpe_table enc) (qpe_table enc') e;
  ad_referenced : EPF_REF_NEW p = true -> referenced enc' (ete_id e);
  ad_required : required_count enc' = noted (EPF_REF_NEW p) (ete_id e) (required_count enc);
}.

Lemma wp_note_new_entry p e enc enc1 :
  enc_wf enc -> (exists q, is_cur enc q) -> push_done enc enc1 e ->
  ete_id e = qpe_ins_count (qpe_table enc) + 1 ->
  (EPF_REF_NEW p = true -> qenc_can_risk enc = true) ->
  wp (note_new_entry p e) enc1 (fun _ enc' => action_done p enc enc' e).
Proof.
  intros Hwf [q Hq] [Hc1 Hs1 Hp1 Hh1 Hch1] Hid Hrisk. pose proof Hp1 as (_ & Hi1 & _ & _).
  pose proof (ec_acked _ (ew_core _ Hwf)) as Hack.
  assert (is_cur enc1 q) as Hq1 by (unfold is_cur; by rewrite Hch1).
  unfold note_new_entry. wpstep.
  eapply wp_mono; [by apply wp_bytes_inserted; [|exists q]|].
  intros _ enc2 [[Hc2 Hs2 Ht2] Hmax2].
  assert (required_count enc2 = required_count enc) as Hrc.
  { rewrite (kept_required enc1 enc2) by (apply Hs2 || intros; apply Hmax2).
    apply hinfos_required; [apply Hs1|done]. }
  destruct (EPF_REF_NEW p) eqn:Hnew.
  - wpsteps. pose proof (set_ch_flags_softly enc2) as Hs3. set (enc3 := set_ch_flags _ enc2) in *.
    assert (steady enc enc3) as Hst3 by (etrans; [exact Hs1|]; etrans; [exact Hs2|]; by apply softly_steady).
    assert (qpe_table enc3 = qpe_table enc1) as Ht3 by (by rewrite (so_table _ _ (proj1 Hs3))).
    assert (enc_core enc3) as Hc3 by (by apply Hs3).
    assert (is_cur enc3 q) as Hq3 by (by apply (kept_cur enc enc3 q (proj1 Hst3))).
    assert (ch_hinfo (qpe_cur_header enc3) = Some q) as Eq3 by exact Hq3.
    apply wp_assert.
    { unfold cur_hinfo. rewrite Eq3. cbn [fmap option_fmap option_map].
      destruct (HINFO_IDS_SET _); [|done].
      assert (hinfo_at (qpe_hinfos enc3) q = hinfo_of enc2 q) as -> by done.
      rewrite Hmax2. unfold hinfo_of. rewrite Hh1.
      destruct (hinfo_range enc q (ew_core _ Hwf) (ec_cur _ (ew_core _ Hwf) q Hq)) as [[_ H]|[_ H]];
        unfold hinfo_of in H; lia. }
    eapply wp_mono; [apply wp_reference; [done|by exists q|rewrite Ht3; lia|]|].
    + intros _. by apply (kept_can_risk enc enc3 (proj1 Hst3)), Hrisk.
    + intros _ enc4 ([Hc4 Hs4 Ht4] & Hr4 & Hm4). constructor; [done|by etrans| |done|].
      * by rewrite Ht4, Ht3.
      * rewrite Hm4, Hnew, <- Hrc. f_equal.
  - wpsteps. constructor; [done|by etrans|by rewrite Ht2|by rewrite Hnew|by rewrite Hnew].
Qed.

Lemma wp_table_action p name_hash nameval_hash name value enc :
  let e := made enc name_hash nameval_hash name (pushed_value p value) in
  enc_wf enc -> 0 < qpe_max_entries enc -> (exists q, is_cur enc q) -> entry_wf e ->
  qpe_ins_count (qpe_table enc) < LSQPACK_MAX_ABS_ID ->
  (EPF_REF_NEW p = true -> qenc_can_risk enc = true) -> ep_tab_action p <> ETA_NOOP ->
  wp (table_action p name_hash nameval_hash name value) enc (fun ok enc' =>
    if ok : bool then action_done p enc enc' e else calm enc enc').
Proof.
  intros e Hwf Hm Hcur He Hins Hrisk Hact.
  pose proof (wp_push_entry name_hash nameval_hash name (pushed_value p value) enc Hwf Hm He Hins) as Hpush.
  assert (forall r enc1,
    match r with
    | Some e' => e' = e /\ push_done enc enc1 e
    | None => calm enc enc1
    end -> wp (match r with None => mret false | Some e => note_new_entry p e;; mret true end) enc1
      (fun ok enc' => if ok : bool then action_done p enc enc' e else calm enc enc')) as Hrest.
  { intros [e'|] enc1 Hr; [|by apply wp_ret]. destruct Hr as [-> Hd]. wpstep.
    eapply wp_mono; [by apply (wp_note_new_entry p e enc enc1)|]. intros u enc2 Had. by wpsteps. }
  unfold table_action, pushed_value in *. destruct (ep_tab_action p); [done| |];
    wpstep; (eapply wp_mono; [exact Hpush|]); intros r enc1 Hr; apply Hrest; exact Hr.
Qed.

(** ** After the table action *)

Lemma wp_ref_found c enc0 f enc :
  enc_wf enc0 -> field_wf enc0 f -> enc_core enc -> kept enc0 enc ->
  (EPF_REF_FOUND (c_prog c) = true -> exists e, c_entry c = Some e /\ usable enc0 f e) ->
  wp (ref_found c) enc (fun _ enc' => info_updated enc enc'
    /\ (forall e, EPF_REF_FOUND (c_prog c) = true -> c_entry c = Some e -> referenced enc' (ete_id e))
    /\ (EPF_REF_FOUND (c_prog c) = false -> required_count enc' = required_count enc)
    /\ forall e, EPF_REF_FOUND (c_prog c) = true -> c_entry c = Some e ->
         required_count enc' = Z.max (required_count enc) (ete_id e)).
Proof.
  intros Hwf Hf Hc Hk Hc0. unfold ref_found. destruct (EPF_REF_FOUND (c_prog c)).
  - destruct (Hc0 eq_refl) as (e & -> & Hin & Hdyn & Hack & _).
    pose proof (ec_table _ (ew_core _ Hwf)) as Ht.
    destruct (entry_lookup _ _ Ht Hin) as [Hid _]. pose proof (wf_nelem_ins _ Ht).
    pose proof (st_ins_count _ _ Hk).
    eapply wp_mono; [apply wp_reference; [done| |lia|]|].
    + destruct (proj2 (fw_dyn _ _ Hf Hdyn)) as [p Hp]. exists p. by apply (kept_cur enc0 enc p Hk).
    + rewrite (st_acked _ _ Hk). intros Hlt. apply (kept_can_risk enc0 enc Hk).
      rewrite <- (fw_risk _ _ Hf). destruct (f_risk f); [done|]. specialize (Hack eq_refl). lia.
    + intros _ enc' (H1 & H2 & H3). split; [done|]. split; [|split]; [|done|]; by intros e' _ [= <-].
  - apply wp_ret. split; [by apply info_same|]. by split_and!.
Qed.

Lemma wp_hist_update_size new_size enc :
  enc_core enc -> hist_exists enc = true -> 0 <= new_size ->
  wp (enc_hist_update_size new_size) enc (fun _ enc' => softly enc enc').
Proof.
  intros Hc He Hn. unfold wp, enc_hist_update_size. unfold hist_exists in He.
  destruct (qpe_hist_els (qpe_hist enc)) as [els|] eqn:Hels; [|done].
  assert (forall m enc1, softly enc enc1 -> qpe_hist enc1 = qpe_hist enc ->
    (m = None \/ new_size < 2 ^ 31) ->
    softly enc (set_hist (qenc_hist_update_size m (qpe_hist enc) new_size) enc1)) as Hgo.
  { intros m enc1 Hs1 Eh Hm. etrans; [exact Hs1|]. apply hist_softly.
    - destruct Hm as [->|Hm]; [|by apply hist_update_size_wf; [apply Hc|]].
      pose proof (ec_hist _ Hc) as Hw. unfold qenc_hist_update_size.
      destruct (Z.eqb_spec new_size (qpe_hist_nels (qpe_hist enc))); [done|].
      destruct (Z.eqb_spec new_size 0) as [E|E]; [|done].
      pose proof (hist_update_size_wf None (qpe_hist enc) 0 Hw ltac:(lia)) as H0.
      unfold qenc_hist_update_size in H0. destruct (Z.eqb_spec 0 (qpe_hist_nels (qpe_hist enc))); [lia|exact H0].
    - unfold hist_exists. rewrite Eh, Hels. unfold qenc_hist_update_size. rewrite Hels.
      destruct (_ =? _); [by rewrite Hels|]. destruct (_ =? 0); [done|]. destruct m; [|by rewrite Hels].
      by destruct (if qpe_hist_wrapped _ then _ else _). }
  destruct (_ || _); [apply Hgo; [reflexivity|done|by left]|].
  unfold enc_malloc. destruct (malloc (qpe_mallocs enc)) as [block ms].
  apply Hgo; [apply mallocs_softly|done|]. destruct (Z.ltb_spec new_size (2 ^ 31)); auto.
Qed.

Lemma wp_record_history b name_hash nameval_hash enc :
  enc_core enc -> (b = true -> hist_exists enc = true) ->
  wp (record_history b name_hash nameval_hash) enc (fun _ enc' => softly enc enc').
Proof.
  intros Hc Hb. unfold record_history. destruct b; [|apply wp_ret; reflexivity].
  wpsteps. apply wp_assert; [by apply Hb|]. wpsteps.
  eapply (wp_mono _ _ (fun _ enc' => softly enc enc')).
  - destruct (_ >=? _); [|apply wp_ret; reflexivity].
    apply wp_hist_update_size; [done|by apply Hb|]. apply u32_range.
  - intros _ enc1 Hs1. wpsteps. unfold enc_hist_add. wpsteps.
    etrans; [exact Hs1|]. set (h := qenc_hist_add _ _ _).
    assert (softly enc1 (set_hist h enc1)) as Hs2.
    { apply hist_softly; [apply hist_add_wf, Hs1, Hc|]. unfold hist_exists, h, qenc_hist_add.
      destruct (_ =? 0); [done|]. cbn. by destruct (qpe_hist_els (qpe_hist enc1)). }
    etrans; [exact Hs2|]. match goal with |- softly ?x ?y => assert (soft x y) as Hs by (by constructor) end.
    split; [done|]. intros Hc2. apply (soft_core _ _ Hs Hc2); apply Hc2.
Qed.

Lemma count_bytes_softly nin nout enc : softly enc (count_bytes nin nout enc).
Proof.
  assert (soft enc (count_bytes nin nout enc)) as Hs
    by (unfold count_bytes; destruct (_ >? _); by constructor).
  split; [done|]. intros Hc. apply (soft_core _ _ Hs Hc);
    unfold count_bytes; destruct (_ >? _); apply Hc.
Qed.

(** What [finish_encode] guarantees about the states: [enc2] is the one after
    the eviction. *)
Record finished (enc enc2 enc' : lsqpack_enc) (dups : bytes) : Prop := {
  fi_wf : enc_wf enc';
  fi_before : steady enc enc2;
  fi_after : steady enc2 enc';
  fi_dups : stream_of enc2 dups enc';
  fi_required : required_count enc' = required_count enc2;
}.

Lemma wp_finish c b name_hash nameval_hash name value enc_out enc_rest hea_out hea_rest enc enc1
    (Q : lsqpack_enc -> Prop) :
  enc_wf enc -> (b = true -> hist_exists enc = true) -> steady enc enc1 ->
  wp (ref_found c) enc1 (fun _ enc2 =>
    wp qenc_remove_overflow_entries enc2 (fun _ enc3 => enc_wf enc3 /\ steady enc enc3 /\ Q enc3)) ->
  is_bytes enc_rest ->
  wp (finish_encode c b name_hash nameval_hash name value enc_out enc_rest hea_out hea_rest) enc1
    (fun out enc' => exists enc2 dups rest, finished enc enc2 enc' dups /\ Q enc2
      /\ out = encoded_out (enc_out ++ dups) rest hea_out hea_rest
      /\ keeps_buf enc_rest (dups ++ rest)).
Proof.
  intros Hwf Hb Hs1 Hw Hbytes. unfold finish_encode. wpstep. eapply wp_mono; [exact Hw|].
  cbn beta. intros _ enc2 Hw2. wpstep. eapply wp_mono; [exact Hw2|].
  intros _ enc3 (Hwf3 & Hs3 & HQ). wpstep.
  eapply wp_mono; [apply wp_record_history; [apply Hwf3|]|].
  { intros E. rewrite (st_hist _ _ (proj1 Hs3)). auto. }
  intros ? enc4 Hs4. cbn beta in Hs4. pose proof (softly_wf _ _ Hs4 Hwf3) as Hwf4. wpstep.
  eapply wp_mono; [by apply wp_dup_loop|].
  intros [dups rest] enc5 (Hwf5 & Hs5 & Hst & Hh5 & Hl5). wpsteps. exists enc3, dups, rest.
  cbn [fst snd] in *.
  pose proof (count_bytes_softly (Z.of_nat (length name) + Z.of_nat (length value))
    (Z.of_nat (length (enc_out ++ dups)) + Z.of_nat (length hea_out)) enc5) as Hs6.
  split_and!; [|done|done|done..].
  - constructor; [by apply (softly_wf enc5)|done| | |].
    + etrans; [by apply softly_steady|]. etrans; [exact Hs5|]. by apply softly_steady.
    + destruct Hst as (l & Hl & Hal & Hwl). exists l. split; [done|].
      rewrite (so_table _ _ (proj1 Hs6)), <- Hal, (so_table _ _ (proj1 Hs4)).
      by rewrite (so_real _ _ (proj1 Hs4)) in Hwl.
    + apply hinfos_required.
      * apply softly_steady in Hs4, Hs6. etrans; [apply Hs4|]. etrans; [apply Hs5|apply Hs6].
      * by rewrite (so_hinfos _ _ (proj1 Hs6)), Hh5, (so_hinfos _ _ (proj1 Hs4)).
Qed.
