(* ===== verification/EncField.v ===== *)
(** * Encoding a header field refines RFC 9204

    [field_encoded] is the contract of a successful [lsqpack_enc_encode]: what was
    written on the encoder stream is a sequence of instructions that takes the
    abstract table along with the encoder's, and what was written to the header
    block is one representation that resolves, in the table afterwards, to the
    name and value given.  It refers to the dynamic table only where the current
    header block accounts for it, and to entries the peer has not acknowledged
    only when a stream may be put at risk. *)

From stdpp Require Import sets.
From S2P Require Import Prelude Monad IntCodec HuffTables Huffman StrCodec Xxhash StaticTable Rfc9204.
From S2P Require Import History EncTable EncHinfo Float EncState EncPolicy EncEncode Encoder.
From S2P Require Import EncInv EncChoice EncAbs EncWire EncExec.

(** ** The contract *)

Definition marks_never (never : bool) (r : representation) : Prop :=
  match r with
  | RLiteralStatic n _ _ | RLiteralDyn n _ _ | RLiteral n _ _ => n = never
  | _ => True
  end.

(** The Required Insert Count after a representation. *)
Definition count_with (r : representation) (old : Z) : Z :=
  match reference r with Some id => Z.max old id | None => old end.

Definition represented (enc : lsqpack_enc) (f : hfield) (never : bool) (b : bytes)
  (enc' : lsqpack_enc) : Prop :=
  exists r, is_representation (ch_base_idx (qpe_cur_header enc)) b r
    /\ resolve (abs_table (qpe_table enc')) r = Some f
    /\ marks_never never r
    /\ (forall id, reference r = Some id ->
         referenced enc' id /\ (qenc_can_risk enc = false -> id <= qpe_max_acked_id enc))
    /\ required_count enc' = count_with r (required_count enc).

Record field_encoded (enc : lsqpack_enc) (f : hfield) (never : bool) (enc_buf hea_buf : bytes)
  (out : encode_out) (enc' : lsqpack_enc) : Prop := {
  fe_stream : stream_of enc (eo_enc out) enc';
  fe_represented : represented enc f never (eo_hea out) enc';
  fe_room : (length (eo_enc out) <= length enc_buf)%nat
            /\ (length (eo_hea out) <= length hea_buf)%nat;
}.

(** A refused call: it stores no size, and a buffer is too small for the field.  The
    encoder stream is written first. *)
Definition refused (f : hfield) (enc_buf hea_buf : bytes) (out : encode_out) : Prop :=
  eo_sizes out = None
  /\ match eo_status out with
     | LQES_OK => False
     | LQES_NOBUF_ENC =>
         Z.of_nat (length enc_buf) < field_room (fst f) (snd f) /\ eo_hea_buf out = hea_buf
     | LQES_NOBUF_HEAD => Z.of_nat (length hea_buf) < field_room (fst f) (snd f)
     end.

Record encoded (enc : lsqpack_enc) (f : hfield) (never : bool) (enc_buf hea_buf : bytes)
  (out : encode_out) (enc' : lsqpack_enc) : Prop := {
  en_wf : enc_wf enc';
  en_steady : steady enc enc';
  en_bufs : keeps_buf enc_buf (eo_enc_buf out) /\ keeps_buf hea_buf (eo_hea_buf out);
  en_result : match eo_status out with
              | LQES_OK => field_encoded enc f never enc_buf hea_buf out enc'
              | _ => refused f enc_buf hea_buf out /\ calm enc enc'
              end;
}.

Lemma eo_enc_encoded a b c d : eo_enc (encoded_out a b c d) = a.
Proof. unfold eo_enc. cbn. by rewrite take_app_length. Qed.

Lemma eo_hea_encoded a b c d : eo_hea (encoded_out a b c d) = c.
Proof. unfold eo_hea. cbn. by rewrite take_app_length. Qed.

Lemma refused_output f enc_buf hea_buf out : refused f enc_buf hea_buf out -> eo_enc out = [] /\ eo_hea out = [].
Proof. intros [E _]. unfold eo_enc, eo_hea. by rewrite E. Qed.

Lemma keeps_buf_trans x y z : keeps_buf x y -> keeps_buf y z -> keeps_buf x z.
Proof. intros [_ H1] [H2 H3]. split; [done|congruence]. Qed.

(** ** Plans *)

#[global] Instance dyn_table_action_eq_dec : EqDecision dyn_table_action.
Proof. solve_decision. Defined.

Definition pushes (p : encode_program) : Prop := ep_tab_action p <> ETA_NOOP.

Definition refers_new (p : encode_program) : Prop :=
  ep_hea_action p = EHA_INDEXED_NEW \/ ep_hea_action p = EHA_LIT_WITH_NAME_NEW.
Definition refers_old (p : encode_program) : Prop :=
  ep_hea_action p = EHA_INDEXED_DYN \/ ep_hea_action p = EHA_LIT_WITH_NAME_DYN.

Definition pushed_field (f : field) (p : encode_program) : hfield :=
  (f_name f, pushed_value p (f_value f)).

Definition new_of (enc : lsqpack_enc) (f : field) (p : encode_program) : enc_table_entry :=
  made enc (f_name_hash f) (f_nameval_hash f) (f_name f) (pushed_value p (f_value f)).

(** What execution needs to know about a choice. *)
Record plan (enc : lsqpack_enc) (f : field) (c : choice) : Prop := {
  pl_id : 0 <= c_id c < 2 ^ 32;
  pl_id_le : ep_enc_action (c_prog c) = EEA_DUP \/ ep_enc_action (c_prog c) = EEA_INS_NAMEREF_DYNAMIC ->
    c_id c <= qpe_ins_count (qpe_table enc);
  pl_found : EPF_REF_FOUND (c_prog c) = true -> exists e, c_entry c = Some e /\ usable enc f e;
  pl_new : EPF_REF_NEW (c_prog c) = true -> f_risk f = true;
  pl_hea_new : refers_new (c_prog c) -> EPF_REF_NEW (c_prog c) = true /\ pushes (c_prog c);
  pl_only_new : EPF_REF_NEW (c_prog c) = true -> refers_new (c_prog c);
  pl_only_found : EPF_REF_FOUND (c_prog c) = true -> refers_new (c_prog c) \/ refers_old (c_prog c);
  pl_hea_old : refers_old (c_prog c) ->
    exists e, c_entry c = Some e /\ c_id c = ete_id e /\ EPF_REF_FOUND (c_prog c) = true
      /\ (pushes (c_prog c) -> survives_dup (qpe_table enc) e
                               /\ ETE_SIZE (new_of enc f (c_prog c)) = ETE_SIZE e);
  pl_noop : ep_tab_action (c_prog c) = ETA_NOOP -> ep_enc_action (c_prog c) = EEA_NONE;
  pl_push : pushes (c_prog c) ->
    f_index f = true /\ room_for enc (ETE_SIZE (new_of enc f (c_prog c)))
    /\ exists i, enc_instruction (ep_enc_action (c_prog c)) (qpe_ins_count (qpe_table enc)) (c_id c)
                   (f_name f) (f_value f) = Some i
         /\ forall t, dt_insert (pushed_field f (c_prog c)) (abs_table (qpe_table enc)) = Some t ->
            apply_instruction (abs_table (qpe_table enc)) i = Some t;
  pl_resolves : forall never t,
    (refers_new (c_prog c) ->
       dt_get t (qpe_ins_count (qpe_table enc) + 1) = Some (pushed_field f (c_prog c))) ->
    (refers_old (c_prog c) -> forall e, c_entry c = Some e -> dt_get t (ete_id e) = Some (nameval e)) ->
    resolve t (written_representation (ep_hea_action (c_prog c)) never
                 (qpe_ins_count (qpe_table enc)) (c_id c) (f_name f) (f_value f))
    = Some (f_name f, f_value f);
}.

Lemma usable_id enc f e :
  enc_wf enc -> usable enc f e -> 1 <= ete_id e <= qpe_ins_count (qpe_table enc)
    /\ qpe_ins_count (qpe_table enc) < 2 ^ 32.
Proof.
  intros Hwf [Hin _]. pose proof (ec_table _ (ew_core _ Hwf)) as Ht.
  destruct (entry_lookup _ _ Ht Hin) as [Hid _]. pose proof (wf_nelem_ins _ Ht).
  pose proof (wf_ins_count _ Ht). ulia.
Qed.

Lemma usable_get enc f e :
  enc_wf enc -> usable enc f e -> dt_get (abs_table (qpe_table enc)) (ete_id e) = Some (nameval e).
Proof. intros Hwf [Hin _]. by apply abs_get; [apply (ec_table _ (ew_core _ Hwf))|]. Qed.

Lemma static_range f id : static_name_ok f id -> 0 <= id < 2 ^ 32 /\ (0 <=? id) && (id <? 99) = true.
Proof. intros [H _]. split; [lia|]. apply andb_true_iff. lia. Qed.

Lemma sub_sub_id a b : a - (a - b) = b.
Proof. lia. Qed.

(** The instructions for the three kinds of insertion. *)
Lemma dup_applies enc f e :
  enc_wf enc -> usable enc f e -> ETE_VALUE e = f_value f ->
  forall t, dt_insert (f_name f, f_value f) (abs_table (qpe_table enc)) = Some t ->
  apply_instruction (abs_table (qpe_table enc)) (IDuplicate (qpe_ins_count (qpe_table enc) - ete_id e))
  = Some t.
Proof.
  intros Hwf Hu Hv t Ht. cbn [apply_instruction]. 
  change (dt_inserted (abs_table (qpe_table enc))) with (qpe_ins_count (qpe_table enc)).
  rewrite sub_sub_id, (usable_get _ _ _ Hwf Hu).
  cbn [mbind option_bind]. unfold nameval. destruct Hu as (_ & _ & _ & ->). by rewrite Hv.
Qed.

Lemma dyn_name_applies enc f e v :
  enc_wf enc -> usable enc f e ->
  forall t, dt_insert (f_name f, v) (abs_table (qpe_table enc)) = Some t ->
  apply_instruction (abs_table (qpe_table enc))
    (IInsertDynName (qpe_ins_count (qpe_table enc) - ete_id e) v) = Some t.
Proof.
  intros Hwf Hu t Ht. cbn [apply_instruction]. 
  change (dt_inserted (abs_table (qpe_table enc))) with (qpe_ins_count (qpe_table enc)).
  rewrite sub_sub_id, (usable_get _ _ _ Hwf Hu).
  cbn [mbind option_bind nameval fst]. by destruct Hu as (_ & _ & _ & ->).
Qed.

Lemma static_name_applies enc f id v :
  static_name_ok f id ->
  forall t, dt_insert (f_name f, v) (abs_table (qpe_table enc)) = Some t ->
  apply_instruction (abs_table (qpe_table enc)) (IInsertStaticName id v) = Some t.
Proof.
  intros Hs t Ht. cbn [apply_instruction]. rewrite (proj2 (static_range _ _ Hs)).
  by destruct Hs as [_ ->].
Qed.

Lemma size_of_dup enc f e p :
  usable enc f e -> ETE_VALUE e = f_value f -> ep_tab_action p = ETA_NEW ->
  ETE_SIZE (new_of enc f p) = ETE_SIZE e.
Proof.
  intros (_ & _ & _ & Hn) Hv Hp. unfold ETE_SIZE, ete_name_len, ete_val_len, new_of, made, new_entry,
    pushed_value. cbn. by rewrite Hp, Hn, Hv.
Qed.

(** Closes the fields of [plan] that a program makes vacuous. *)
Ltac plan_trivial :=
  first [ done | lia | by intros _; left; left | by intros _; left; right | by intros _; right; left
    | by intros _; right; right | by intros _; left | by intros _; right | by intros [?|?] | by intros Hnoop; elim Hnoop | by intros [[=]|[=]] ].

Ltac start_plan := constructor; cbn -[Z.add Z.sub Z.pow]; try plan_trivial.

Section plans.
Context (enc : lsqpack_enc) (f : field) (Hwf : enc_wf enc).

Lemma resolve_indexed t e :
  dt_get t (ete_id e) = Some (nameval e) -> ETE_NAME e = f_name f -> ETE_VALUE e = f_value f ->
  resolve t (RIndexedDyn (ete_id e)) = Some (f_name f, f_value f).
Proof. intros Hg Hn Hv. cbn. rewrite Hg. unfold nameval. by rewrite Hn, Hv. Qed.

Lemma plan_dup_risk e :
  usable enc f e -> ETE_VALUE e = f_value f -> f_index f = true -> f_risk f = true ->
  room_for enc (ETE_SIZE e) ->
  plan enc f (chosen (Prog EEA_DUP EHA_INDEXED_NEW ETA_NEW true true) (ete_id e) (Some e)).
Proof.
  intros Hu Hv Hi Hr Hroom. pose proof (usable_id _ _ _ Hwf Hu).
  pose proof (size_of_dup enc f e (Prog EEA_DUP EHA_INDEXED_NEW ETA_NEW true true) Hu Hv eq_refl) as Hsz.
  start_plan.
  - intros _. by exists e.
  - intros _. split; [done|]. rewrite Hsz. split; [done|].
    eexists. split; [done|]. by apply dup_applies.
  - intros never t Hnew _. apply Hnew. by left.
Qed.

Lemma plan_dup_acked e :
  usable enc f e -> ETE_VALUE e = f_value f -> f_index f = true ->
  room_for enc (ETE_SIZE e) -> survives_dup (qpe_table enc) e ->
  plan enc f (chosen (Prog EEA_DUP EHA_INDEXED_DYN ETA_NEW true false) (ete_id e) (Some e)).
Proof.
  intros Hu Hv Hi Hroom Hs. pose proof (usable_id _ _ _ Hwf Hu).
  pose proof (size_of_dup enc f e (Prog EEA_DUP EHA_INDEXED_DYN ETA_NEW true false) Hu Hv eq_refl) as Hsz.
  start_plan.
  - intros _. by exists e.
  - intros _. exists e. split_and!; done.
  - intros _. split; [done|]. rewrite Hsz. split; [done|].
    eexists. split; [done|]. by apply dup_applies.
  - intros never t _ Hold. apply resolve_indexed; [apply Hold; [by left|done]|apply Hu|done].
Qed.

Lemma plan_indexed e :
  usable enc f e -> ETE_VALUE e = f_value f ->
  plan enc f (chosen (Prog EEA_NONE EHA_INDEXED_DYN ETA_NOOP true false) (ete_id e) (Some e)).
Proof.
  intros Hu Hv. pose proof (usable_id _ _ _ Hwf Hu). start_plan.
  - intros _. by exists e.
  - intros _. exists e. split_and!; done || by intros Hnoop; elim Hnoop.
  - intros never t _ Hold. apply resolve_indexed; [apply Hold; [by left|done]|apply Hu|done].
Qed.

Lemma plan_dyn_lit e :
  usable enc f e ->
  plan enc f (chosen (Prog EEA_NONE EHA_LIT_WITH_NAME_DYN ETA_NOOP true false) (ete_id e) (Some e)).
Proof.
  intros Hu. pose proof (usable_id _ _ _ Hwf Hu). start_plan.
  - intros _. by exists e.
  - intros _. exists e. split_and!; done || by intros Hnoop; elim Hnoop.
  - intros never t _ Hold. rewrite (Hold ltac:(by right) e eq_refl). cbn.
    by destruct Hu as (_ & _ & _ & ->).
Qed.

Lemma plan_dyn_ins e :
  usable enc f e -> f_index f = true -> f_risk f = true -> room_for enc (f_cost f) ->
  plan enc f (chosen (Prog EEA_INS_NAMEREF_DYNAMIC EHA_INDEXED_NEW ETA_NEW true true) (ete_id e) (Some e)).
Proof.
  intros Hu Hi Hr Hroom. pose proof (usable_id _ _ _ Hwf Hu). start_plan.
  - intros _. by exists e.
  - intros _. split; [done|]. split; [exact Hroom|]. eexists. split; [done|].
    by apply dyn_name_applies.
  - intros never t Hnew _. apply Hnew. by left.
Qed.

(** The programs without an entry: a static name or a literal, with or without
    an insertion. *)
Lemma resolve_static never t id :
  static_name_ok f id -> resolve t (RLiteralStatic never id (f_value f)) = Some (f_name f, f_value f).
Proof. intros Hs. cbn. rewrite (proj2 (static_range _ _ Hs)). by destruct Hs as [_ ->]. Qed.

Lemma plan_static id :
  static_name_ok f id ->
  plan enc f (chosen (Prog EEA_NONE EHA_LIT_WITH_NAME_STAT ETA_NOOP false false) id None).
Proof.
  intros Hs. pose proof (static_range _ _ Hs) as [Hr _]. start_plan.
  intros never t _ _. exact (resolve_static never t _ Hs).
Qed.

Lemma plan_static_ins_lit id :
  static_name_ok f id -> f_index f = true -> room_for enc (f_cost f) ->
  plan enc f (chosen (Prog EEA_INS_NAMEREF_STATIC EHA_LIT_WITH_NAME_STAT ETA_NEW false false) id None).
Proof.
  intros Hs Hi Hroom. pose proof (static_range _ _ Hs) as [Hr _]. start_plan.
  - intros _. split; [done|]. split; [exact Hroom|]. eexists. split; [done|].
    by apply static_name_applies.
  - intros never t _ _. exact (resolve_static never t _ Hs).
Qed.

Lemma plan_static_ins id :
  static_name_ok f id -> f_index f = true -> f_risk f = true -> room_for enc (f_cost f) ->
  plan enc f (chosen (Prog EEA_INS_NAMEREF_STATIC EHA_INDEXED_NEW ETA_NEW false true) id None).
Proof.
  intros Hs Hi Hk Hroom. pose proof (static_range _ _ Hs) as [Hr _]. start_plan.
  - intros _. split; [done|]. split; [exact Hroom|]. eexists. split; [done|].
    by apply static_name_applies.
  - intros never t Hnew _. apply Hnew. by left.
Qed.

(** Literals: [ETA_NEW_NAME] inserts the name with an empty value. *)
Lemma plan_literal enc_action hea_action tab_action (new : bool) :
  (enc_action = EEA_INS_LIT /\ tab_action = ETA_NEW /\ room_for enc (f_cost f)
     /\ (hea_action = EHA_LIT /\ new = false \/ hea_action = EHA_INDEXED_NEW /\ new = true))
  \/ (enc_action = EEA_INS_LIT_NAME /\ tab_action = ETA_NEW_NAME /\ room_for enc (name_cost f)
     /\ (hea_action = EHA_LIT /\ new = false \/ hea_action = EHA_LIT_WITH_NAME_NEW /\ new = true)) ->
  f_index f = true -> (new = true -> f_risk f = true) ->
  plan enc f (chosen (Prog enc_action hea_action tab_action false new) 0 None).
Proof.
  intros [(-> & -> & Hroom & H)|(-> & -> & Hroom & H)] Hi Hr;
    destruct H as [[-> ->]|[-> ->]]; start_plan; try by auto;
    try (intros _; split; [done|]; split; [exact Hroom|]; eexists; split; [done|];
         intros t Ht; exact Ht).
  - intros never t Hnew _. apply Hnew. by left.
  - intros never t Hnew _. rewrite (Hnew ltac:(by right)). done.
Qed.

Lemma plan_lit : plan enc f (chosen (Prog EEA_NONE EHA_LIT ETA_NOOP false false) 0 None).
Proof. start_plan. Qed.

Lemma good_plan c : good_choice enc f c -> plan enc f c.
Proof.
  intros []; eauto using plan_dup_risk, plan_dup_acked, plan_indexed, plan_dyn_lit, plan_dyn_ins,
    plan_static, plan_static_ins_lit, plan_static_ins, plan_lit; apply plan_literal; tauto || done.
Qed.

(** The full match in the static table. *)
Lemma plan_static_full id :
  0 <= id < 99 -> ste_name (ste_at id) = f_name f -> ste_val (ste_at id) = f_value f ->
  plan enc f (chosen (Prog EEA_NONE EHA_INDEXED_STAT ETA_NOOP false false) id None).
Proof.
  intros Hid Hn Hv. pose proof (static_range f id (conj Hid Hn)) as [Hr Hb]. start_plan.
  intros never t _ _. by rewrite Hb, Hn, Hv.
Qed.
End plans.

(** ** Executing a plan *)

(** The entries the representation refers to are in the table and accounted for. *)
Definition refs_held (enc : lsqpack_enc) (f : field) (c : choice) (enc' : lsqpack_enc) : Prop :=
  (refers_new (c_prog c) ->
     new_of enc f (c_prog c) ∈ entries enc'
     /\ referenced enc' (ete_id (new_of enc f (c_prog c))))
  /\ (refers_old (c_prog c) -> forall e, c_entry c = Some e ->
        e ∈ entries enc' /\ referenced enc' (ete_id e)).

Lemma refs_held_steady enc f c enc1 enc2 :
  steady enc1 enc2 -> refs_held enc f c enc1 -> refs_held enc f c enc2.
Proof.
  intros Hs [H1 H2]. pose proof (proj1 Hs) as Hk. split.
  - intros Hr. destruct (H1 Hr) as [H3 H4].
    split; [by apply (referenced_stays enc1)|by apply (kept_referenced enc1)].
  - intros Hr e He. destruct (H2 Hr e He) as [H3 H4].
    split; [by apply (referenced_stays enc1)|by apply (kept_referenced enc1)].
Qed.

(** The references of the program are those of the representation. *)
Definition count_noted (enc : lsqpack_enc) (f : field) (c : choice) (enc' : lsqpack_enc) : Prop :=
  forall never, required_count enc' = count_with (written_representation (ep_hea_action (c_prog c)) never
    (qpe_ins_count (qpe_table enc)) (c_id c) (f_name f) (f_value f)) (required_count enc).

(** After the table action and [ref_found]. *)
Lemma noted_count enc f c enc' r :
  enc_wf enc -> plan enc f c ->
  r = noted (EPF_REF_NEW (c_prog c)) (qpe_ins_count (qpe_table enc) + 1) (required_count enc) ->
  (EPF_REF_FOUND (c_prog c) = false -> required_count enc' = r) ->
  (forall e, EPF_REF_FOUND (c_prog c) = true -> c_entry c = Some e -> required_count enc' = Z.max r (ete_id e)) ->
  count_noted enc f c enc'.
Proof.
  intros Hwf Hp -> Hn Hf never. unfold count_with.
  destruct (EPF_REF_FOUND (c_prog c)) eqn:Ef.
  - destruct (pl_found _ _ _ Hp Ef) as (e & He & Hu). rewrite (Hf e eq_refl He).
    pose proof (usable_id _ _ _ Hwf Hu) as [Hid _]. destruct (pl_only_found _ _ _ Hp Ef) as [Hr|Hr].
    + destruct (pl_hea_new _ _ _ Hp Hr) as [-> _].
      destruct Hr as [-> | ->]; cbn [written_representation reference noted]; lia.
    + destruct (pl_hea_old _ _ _ Hp Hr) as (e' & He' & -> & _). rewrite He in He'. injection He' as <-.
      assert (EPF_REF_NEW (c_prog c) = false) as ->.
      { apply not_true_is_false. intros E. apply (pl_only_new _ _ _ Hp) in E.
        unfold refers_new, refers_old in *. intuition congruence. }
      by destruct Hr as [-> | ->].
  - rewrite (Hn eq_refl). destruct (EPF_REF_NEW (c_prog c)) eqn:En.
    + by destruct (pl_only_new _ _ _ Hp En) as [-> | ->].
    + assert (~ refers_new (c_prog c)) as H1 by (intros Hr; destruct (pl_hea_new _ _ _ Hp Hr); congruence).
      assert (~ refers_old (c_prog c)) as H2 by (intros Hr; destruct (pl_hea_old _ _ _ Hp Hr) as (? & _ & _ & ? & _); congruence).
      unfold refers_new, refers_old in *. by destruct (ep_hea_action (c_prog c)); try tauto.
Qed.

Lemma represented_plan enc f c never b enc' :
  enc_wf enc -> field_wf enc f -> plan enc f c -> enc_wf enc' -> refs_held enc f c enc' -> count_noted enc f c enc' ->
  is_representation (ch_base_idx (qpe_cur_header enc)) b
    (written_representation (ep_hea_action (c_prog c)) never (qpe_ins_count (qpe_table enc)) (c_id c)
       (f_name f) (f_value f)) ->
  represented enc (f_name f, f_value f) never b enc'.
Proof.
  intros Hwf Hf Hp Hwf' [Hnew Hold] Hcnt Hrep. eexists. split; [exact Hrep|].
  pose proof (ec_table _ (ew_core _ Hwf')) as Ht'. split_and!.
  - apply (pl_resolves _ _ _ Hp).
    + intros Hr. destruct (Hnew Hr) as [Hin _]. apply (abs_get _ _ Ht' Hin).
    + intros Hr e He. destruct (Hold Hr e He) as [Hin _]. apply (abs_get _ _ Ht' Hin).
  - by destruct (ep_hea_action (c_prog c)).
  - assert (refers_new (c_prog c) -> forall id, Some (qpe_ins_count (qpe_table enc) + 1) = Some id ->
      referenced enc' id /\ (qenc_can_risk enc = false -> id <= qpe_max_acked_id enc)) as HN.
    { intros Hr id [= <-]. split; [by apply Hnew|]. intros Hn. exfalso.
      destruct (pl_hea_new _ _ _ Hp Hr) as [Hx _]. apply (pl_new _ _ _ Hp) in Hx.
      rewrite (fw_risk _ _ Hf), Hn in Hx. done. }
    assert (refers_old (c_prog c) -> forall id, Some (c_id c) = Some id ->
      referenced enc' id /\ (qenc_can_risk enc = false -> id <= qpe_max_acked_id enc)) as HO.
    { intros Hr id [= <-]. destruct (pl_hea_old _ _ _ Hp Hr) as (e & He & -> & Hfound & _).
      split; [by apply (Hold Hr e He)|]. intros Hn.
      destruct (pl_found _ _ _ Hp Hfound) as (e' & He' & Hu). rewrite He in He'. injection He' as <-.
      apply Hu. by rewrite (fw_risk _ _ Hf). }
    unfold refers_new, refers_old in *.
    destruct (ep_hea_action (c_prog c)); cbn [written_representation reference]; try done; auto.
  - apply Hcnt.
Qed.

Section execute.
Context (bits0 : Z) (enc_buf hea_buf : bytes) (Henc : is_bytes enc_buf) (Hhea : is_bytes hea_buf).
Context (enc : lsqpack_enc) (f : field) (Hwf : enc_wf enc) (Hf : field_wf enc f).
Context (c : choice) (Hp : plan enc f c) (hist never : bool) (Hhist : hist = true -> hist_exists enc = true).

Definition written_ok (enc_out enc_rest hea_out hea_rest : bytes) : Prop :=
  keeps_buf enc_buf (enc_out ++ enc_rest) /\ keeps_buf hea_buf (hea_out ++ hea_rest)
  /\ match enc_instruction (ep_enc_action (c_prog c)) (qpe_ins_count (qpe_table enc)) (c_id c)
             (f_name f) (f_value f) with
     | None => enc_out = []
     | Some i => is_instruction enc_out i
     end
  /\ is_representation (ch_base_idx (qpe_cur_header enc)) hea_out
       (written_representation (ep_hea_action (c_prog c)) never (qpe_ins_count (qpe_table enc)) (c_id c)
          (f_name f) (f_value f)).

Definition result_ok (out : encode_out) (enc' : lsqpack_enc) : Prop :=
  encoded enc (f_name f, f_value f) never enc_buf hea_buf out enc'.

(** Putting the pieces together after the eviction. *)
Lemma finished_encoded enc_out enc_rest hea_out hea_rest dups rest enc2 enc' :
  written_ok enc_out enc_rest hea_out hea_rest -> finished enc enc2 enc' dups -> refs_held enc f c enc2 ->
  count_noted enc f c enc2 ->
  stream_of enc (enc_out ++ dups) enc' -> keeps_buf enc_rest (dups ++ rest) ->
  result_ok (encoded_out (enc_out ++ dups) rest hea_out hea_rest) enc'.
Proof.
  intros ([Hbe Hle] & Hkh & Hi & Hr) [Hwf' Hs1 Hs2 Hd Hrc] Hrefs Hcnt Hst [Hbd Hld].
  apply Forall_app in Hbe as [Hbe _]. rewrite length_app in Hle.
  assert (keeps_buf enc_buf ((enc_out ++ dups) ++ rest)) as Hke.
  { rewrite <- app_assoc. split; [by apply Forall_app|rewrite length_app; lia]. }
  constructor; [done|by etrans|done|]. cbn [encoded_out eo_status].
  constructor; rewrite ?eo_enc_encoded, ?eo_hea_encoded; [exact Hst| |].
  2: { destruct Hke as [_ Hke], Hkh as [_ Hkh]. rewrite !length_app in *. lia. }
  eapply represented_plan; [exact Hwf|exact Hf|exact Hp|exact Hwf'| | |exact Hr].
  - by apply (refs_held_steady enc f c enc2).
  - intros n. by rewrite Hrc.
Qed.

Definition finish_ok (out : encode_out) (enc' : lsqpack_enc) : Prop :=
  result_ok out enc' /\ eo_status out = LQES_OK.

Lemma wp_finish_noop enc_out enc_rest hea_out hea_rest :
  ep_tab_action (c_prog c) = ETA_NOOP -> written_ok enc_out enc_rest hea_out hea_rest ->
  wp (finish_encode c hist (f_name_hash f) (f_nameval_hash f) (f_name f) (f_value f)
        enc_out enc_rest hea_out hea_rest) enc finish_ok.
Proof.
  intros Hno Hw. pose proof (ew_core _ Hwf) as Hc.
  pose proof (proj2 (proj1 (Forall_app _ _ _) (proj1 (proj1 Hw)))) as Hrest.
  pose proof Hw as (_ & _ & Hi & _). rewrite (pl_noop _ _ _ Hp Hno) in Hi. cbn in Hi.
  assert (enc_out = []) as -> by done.
  eapply wp_mono; [eapply (wp_finish c hist _ _ _ _ [] enc_rest hea_out hea_rest enc enc (fun enc2 =>
      (refs_held enc f c enc2 /\ count_noted enc f c enc2) /\ abs_table (qpe_table enc2) = abs_table (qpe_table enc)));
    [done|done|reflexivity| |exact Hrest]|].
  - eapply wp_mono; [apply (wp_ref_found c enc f enc Hwf Hf Hc); [reflexivity|apply Hp]|].
    intros _ enc1 ([Hc1 Hs1 Ht1] & Hr1 & Hn1 & Hm1). eapply wp_mono; [apply wp_remove_overflow; [done|by apply (kept_header enc), Hwf; apply Hs1]|].
    intros _ enc2 (Hwf2 & Hd & Hh & Hk). rewrite Ht1 in Hd.
    pose proof (overflow_none _ _ (ec_table _ Hc) (ew_fits _ Hwf) Hd) as He.
    split; [done|]. split; [|split].
    + apply steady_of_kept; [etrans; [apply Hs1|done]| |]; unfold gone, entries; rewrite He; [done|].
      by rewrite (od_ins_count _ _ Hd).
    + split.
      { split; intros Hr.
      * by destruct (pl_hea_new _ _ _ Hp Hr) as [_ Hpush].
      * intros e Hce. destruct (pl_hea_old _ _ _ Hp Hr) as (e' & He' & _ & Hfound & _).
        split; [|by apply (kept_referenced enc1), Hr1].
        destruct (pl_found _ _ _ Hp Hfound) as (e'' & He'' & Hu). unfold entries. rewrite He.
        assert (e'' = e) as -> by congruence. apply Hu. }
      apply (noted_count enc f c enc2 (required_count enc)); [done|done| | |].
      * destruct (EPF_REF_NEW (c_prog c)) eqn:En; [|done]. apply (pl_only_new _ _ _ Hp) in En.
        by destruct (pl_hea_new _ _ _ Hp En) as [_ Hpush].
      * intros E. rewrite <- (Hn1 E). by apply hinfos_required.
      * intros e E He'. rewrite <- (Hm1 e E He'). by apply hinfos_required.
    + unfold abs_table. by rewrite He, (od_capacity _ _ Hd), (od_ins_count _ _ Hd).
  - intros out enc' (enc2 & dups & rest & Hfin & [[Hrefs Hcnt] Habs] & -> & Hlen).
    split; [|done]. apply (finished_encoded [] enc_rest hea_out hea_rest dups rest enc2); try done.
    destruct (fi_dups _ _ _ _ Hfin) as (l & Hl & Hal & Hwl). exists l. rewrite <- Habs.
    by rewrite <- (st_real _ _ (proj1 (fi_before _ _ _ _ Hfin))).
Qed.

Lemma wp_finish_push enc_out enc_rest hea_out hea_rest enc1 :
  pushes (c_prog c) -> written_ok enc_out enc_rest hea_out hea_rest ->
  action_done (c_prog c) enc enc1 (new_of enc f (c_prog c)) ->
  wp (finish_encode c hist (f_name_hash f) (f_nameval_hash f) (f_name f) (f_value f)
        enc_out enc_rest hea_out hea_rest) enc1 finish_ok.
Proof.
  intros Hpush Hw [Hc1 Hs1 Hpu Hrn Hrq]. pose proof (ew_core _ Hwf) as Hc.
  pose proof (proj2 (proj1 (Forall_app _ _ _) (proj1 (proj1 Hw)))) as Hrest.
  destruct (pl_push _ _ _ Hp Hpush) as (Hidx & Hroom & i & Hi & Happ).
  set (e := new_of enc f (c_prog c)) in *.
  eapply wp_mono; [eapply (wp_finish c hist _ _ _ _ enc_out enc_rest hea_out hea_rest enc enc1 (fun enc2 =>
      (refs_held enc f c enc2 /\ count_noted enc f c enc2) /\ inserted enc enc2 e)); [done|done|done| |exact Hrest]|].
  - eapply wp_mono; [apply (wp_ref_found c enc f enc1 Hwf Hf Hc1); [apply Hs1|apply Hp]|].
    intros _ enc2 ([Hc2 Hs2 Ht2] & Hr2 & Hn2 & Hm2). rewrite <- Ht2 in Hpu.
    eapply wp_mono; [apply (wp_insert enc enc2 e Hwf Hroom Hc2); [by etrans|done]|].
    intros _ enc3 (Hwf3 & Hs3 & Hin3 & Hh3 & _).
    assert (forall id, referenced enc2 id -> referenced enc3 id) as Hmono.
    { intros id (p & H1 & H2 & H3). exists p. unfold all_hinfos, hinfo_of in *. rewrite Hh3.
      split; [|done]. apply (kept_cur enc enc3 p (proj1 Hs3)).
      apply (kept_cur enc enc1 p (proj1 Hs1)). by apply (kept_cur enc1 enc2 p (proj1 Hs2)). }
    assert (required_count enc3 = required_count enc2) as Hrc3.
    { unfold required_count, cur_hinfo. rewrite (st_hinfo _ _ (proj1 Hs3)), Hh3, (st_hinfo _ _ (proj1 Hs2)).
      by rewrite (st_hinfo _ _ (proj1 Hs1)). }
    split; [done|]. split; [done|]. split; [|done]. split.
    2: { apply (noted_count enc f c enc3 (required_count enc1)); [done|done|exact Hrq|by rewrite Hrc3|by rewrite Hrc3]. }
    split; intros Hr.
    + split; [apply Hin3|]. apply Hmono, (kept_referenced enc1 enc2 _ (proj1 Hs2)), Hrn.
      by apply (pl_hea_new _ _ _ Hp Hr).
    + intros x Hx. destruct (pl_hea_old _ _ _ Hp Hr) as (x' & Hx' & _ & Hfound & Hsurv).
      assert (x' = x) as -> by congruence. destruct (Hsurv Hpush) as [(pre & post & Hall & Hsz) Hsize].
      split; [|by apply Hmono, Hr2].
      apply (in_survives _ _ _ Hin3 pre (x :: post) Hall); [|by left].
      cbn [sizes]. unfold e. rewrite Hsize. lia.
  - intros out enc' (enc2 & dups & rest & Hfin & [[Hrefs Hcnt] Hin] & -> & Hlen).
    split; [|done]. apply (finished_encoded enc_out enc_rest hea_out hea_rest dups rest enc2); try done.
    destruct Hw as (_ & _ & Hw & _). rewrite Hi in Hw.
    pose proof (Happ _ (in_abs _ _ _ Hin)) as Ha.
    apply (stream_cons enc enc2 enc' _ _ i Hw Ha); [by apply (insert_within _ _ _ _ i (in_abs _ _ _ Hin))| |apply Hfin].
    apply (st_real _ _ (proj1 (fi_before _ _ _ _ Hfin))).
Qed.

Definition strings_ok (f : field) : Prop := short (f_name f) /\ short (f_value f).

Lemma field_strings : strings_ok f.
Proof. pose proof (fw_xhdr _ _ Hf) as []. by split; split. Qed.

Lemma short_pushed p : short (pushed_value p (f_value f)).
Proof.
  unfold pushed_value. destruct (ep_tab_action p); try apply short_nil. apply field_strings.
Qed.

Lemma new_of_wf p : entry_wf (new_of enc f p).
Proof.
  pose proof field_strings as [[Hn1 Hn2] _]. destruct (short_pushed p) as [Hv1 Hv2].
  unfold entry_wf, ete_name_len, ete_val_len, new_of, made, new_entry, LSXPACK_MAX_STRLEN in *.
  cbn [ETE_NAME ETE_VALUE ete_name_hash ete_nameval_hash].
  change (2 ^ 16) with 65536. split_and!; [lia|lia|apply Hf|apply Hf|done|done].
Qed.

(** A restart is only asked for with [index] set. *)
Lemma wp_execute :
  wp (execute_program bits0 enc_buf hea_buf c (f_index f) hist never (f_name_hash f)
        (f_nameval_hash f) (f_name f) (f_value f)) enc
    (fun r enc' => match r with
                   | inl out => result_ok out enc' /\ (eo_status out = LQES_NOBUF_ENC -> f_index f = true)
                   | inr (enc_buf', hea_buf') => f_index f = true /\ calm enc enc'
                       /\ keeps_buf enc_buf enc_buf' /\ keeps_buf hea_buf hea_buf'
                   end).
Proof.
  pose proof field_strings as [Hsn Hsv]. pose proof (ew_core _ Hwf) as Hc.
  pose proof (wf_ins_count _ (ec_table _ Hc)) as Hi32. pose proof (ec_base _ Hc) as Hbase.
  assert (calm enc enc) as Hcalm by (apply softly_calm; [done|reflexivity]).
  assert (ep_enc_action (c_prog c) <> EEA_NONE -> pushes (c_prog c)) as Hpushes
    by (intros Hne Hno; by apply Hne, (pl_noop _ _ _ Hp)).
  unfold execute_program. wpsteps. destruct (double_literal (c_prog c) && bad_ratio _ _ _) eqn:Hbad.
  - apply andb_true_iff in Hbad as [Hd _].
    assert (f_index f = true) as Hidx.
    { apply (pl_push _ _ _ Hp), Hpushes. intros E. unfold double_literal in Hd. by rewrite E in Hd. }
    wpstep. apply wp_assert; [done|]. by wpsteps.
  - destruct (write_enc_inst_within bits0 (ep_enc_action (c_prog c)) (qpe_ins_count (qpe_table enc)) (c_id c)
      (f_name f) (f_value f) enc_buf (pl_id _ _ _ Hp) Henc Hsn Hsv) as (size1 & Hsize1 & [Hk1 Hres1] & Hk1').
    destruct (write_enc_inst _ _ _ _ _ _ _) as [enc_out enc_rest|stored] eqn:Hinst; cbn [put_buf] in *.
    2: { wpsteps. split.
         - constructor; [done|reflexivity|done|]. split; [|done]. split; [done|]. cbn. split; [lia|done].
         - intros _. apply (pl_push _ _ _ Hp), Hpushes. intros E. by rewrite E in Hinst. }
    destruct (write_enc_inst_spec bits0 _ _ (c_id c) (f_name f) (f_value f) enc_buf enc_out enc_rest Hi32
      (pl_id _ _ _ Hp) (pl_id_le _ _ _ Hp) Henc Hsn Hsv Hinst) as [Hl1 Hw1].
    destruct (write_header_field_spec bits0 (ep_hea_action (c_prog c)) never
      (qpe_ins_count (qpe_table enc)) (ch_base_idx (qpe_cur_header enc)) (c_id c) (f_name f) (f_value f)
      hea_buf Hbase) as (r & Hfield & Hr); [ulia| |apply Hp|done|done|done|].
    { intros Hnew. destruct (pl_hea_new _ _ _ Hp Hnew) as [_ Hpush].
      destruct (pl_push _ _ _ Hp Hpush) as [Hidx _].
      by destruct (fw_index _ _ Hf Hidx). }
    destruct (write_header_field_within bits0 _ never _ _ _ _ _ _ _ (pl_id _ _ _ Hp) Hhea Hsn Hsv Hfield)
      as (size2 & Hsize2 & [Hk2 Hres2] & Hk2'). rewrite Hfield.
    destruct r as [hea_out hea_rest|stored]; cbn [put_buf] in *.
    2: { wpsteps. split; [|done]. constructor; [done|reflexivity|done|]. split; [|done]. split; [done|]. cbn. lia. }
    destruct (Hr hea_out hea_rest eq_refl) as [Hl2 Hw2].
    assert (written_ok enc_out enc_rest hea_out hea_rest) as Hw by done.
    destruct (decide (ep_tab_action (c_prog c) = ETA_NOOP)) as [Hno|Hpush].
    + unfold table_action. rewrite Hno. wpsteps.
      eapply wp_mono; [by apply wp_finish_noop|]. intros out enc' [Ho E]. wpsteps. by rewrite E.
    + destruct (pl_push _ _ _ Hp Hpush) as [Hidx _].
      destruct (fw_index _ _ Hf Hidx) as [Hdyn Hmax]. destruct (fw_dyn _ _ Hf Hdyn) as [Hme Hcur].
      wpstep. eapply wp_mono; [apply wp_table_action; try done|].
      * apply new_of_wf.
      * intros Hn. rewrite <- (fw_risk _ _ Hf). by apply (pl_new _ _ _ Hp).
      * intros ok enc1 Hok. destruct ok; [|by wpsteps]. wpstep.
        eapply wp_mono; [by apply wp_finish_push|]. intros out enc' [Ho E]. wpsteps. by rewrite E.
Qed.
End execute.

(** ** Restarting *)

Lemma good_choice_softly enc enc1 f c :
  softly enc enc1 -> good_choice enc f c -> good_choice enc1 f c.
Proof.
  intros [Hs _] Hg. pose proof (so_table _ _ Hs) as Et.
  assert (forall e, usable enc f e -> usable enc1 f e) as Hu.
  { intros e (H1 & H2 & H3 & H4). unfold usable, entries. rewrite Et, (so_acked _ _ Hs). done. }
  assert (forall s, room_for enc s -> room_for enc1 s) as Hr
    by (intros s; by apply (soft_room_for enc enc1)).
  destruct Hg; constructor; auto; by rewrite Et.
Qed.

Lemma calm_can_risk enc enc' : calm enc enc' -> qenc_can_risk enc' = qenc_can_risk enc.
Proof.
  intros [_ [Hk _] _ Hh]. unfold qenc_can_risk, cur_hinfo.
  by rewrite (st_other _ _ Hk), (st_risked _ _ Hk), (st_hinfo _ _ Hk), (st_acked _ _ Hk), Hh.
Qed.

Lemma field_wf_calm enc enc' f : calm enc enc' -> field_wf enc f -> field_wf enc' f.
Proof.
  intros Hca [H1 H2 H3 H4 H5 H6]. pose proof Hca as [_ [Hk _] (Hi & _) _].
  constructor; try done.
  - rewrite (st_entries _ _ Hk), (st_hinfo _ _ Hk). done.
  - rewrite Hi. done.
  - by rewrite (calm_can_risk _ _ Hca).
Qed.

Lemma field_wf_no_index enc f : field_wf enc f -> field_wf enc (no_index f).
Proof. intros []. by constructor. Qed.

Lemma calm_encoded enc enc1 f never enc_buf hea_buf out enc' :
  calm enc enc1 -> encoded enc1 f never enc_buf hea_buf out enc' ->
  encoded enc f never enc_buf hea_buf out enc'.
Proof.
  intros Hca [Hwf Hs Hb Hr]. constructor; [done|etrans; [apply Hca|done]|done|].
  assert (abs_table (qpe_table enc1) = abs_table (qpe_table enc)) as Habs
    by (by apply same_table_abs, Hca).
  destruct (eo_status out).
  - destruct Hr as [(l & Hl & Hal) (r & H1 & H2 & H3 & H4 & H5) Hlen]. constructor; [| |done].
    + exists l. by rewrite <- Habs, <- (st_real _ _ (proj1 (ca_steady _ _ Hca))).
    + exists r. rewrite <- (calm_can_risk _ _ Hca).
      rewrite <- (st_base _ _ (proj1 (ca_steady _ _ Hca))), <- (st_acked _ _ (proj1 (ca_steady _ _ Hca))).
      rewrite <- (hinfos_required enc enc1) by apply Hca. done.
  - split; [apply Hr|apply (calm_trans _ enc1); [done|apply Hr]].
  - split; [apply Hr|apply (calm_trans _ enc1); [done|apply Hr]].
Qed.

(** The buffers a restart finds are as long as the caller's. *)
Lemma restarted_encoded enc f never enc_buf hea_buf enc_buf' hea_buf' out enc' :
  keeps_buf enc_buf enc_buf' -> keeps_buf hea_buf hea_buf' -> eo_status out <> LQES_NOBUF_ENC ->
  encoded enc f never enc_buf' hea_buf' out enc' -> encoded enc f never enc_buf hea_buf out enc'.
Proof.
  intros He Hh Hst [Hwf Hs [Hb1 Hb2] Hr]. constructor; [done|done| |].
  { split; by eapply keeps_buf_trans. }
  destruct He as [_ He], Hh as [_ Hh]. destruct (eo_status out) eqn:E; [|done|].
  - destruct Hr as [H1 H2 H3]. constructor; [done|done|by rewrite <- He, <- Hh].
  - destruct Hr as [[H1 H2] H3]. split; [|done]. split; [done|]. rewrite E in *. by rewrite <- Hh.
Qed.

Section restart.
Context (bits0 : Z) (hist never : bool).

Lemma wp_restart fuel : forall enc_buf hea_buf f seen enc, is_bytes enc_buf -> is_bytes hea_buf ->
  enc_wf enc -> field_wf enc f -> (f_index f = true -> fuel <> 0%nat) ->
  (hist = true -> hist_exists enc = true) ->
  wp (encode_from_restart bits0 fuel enc_buf hea_buf f seen hist never) enc (fun out enc' =>
    encoded enc (f_name f, f_value f) never enc_buf hea_buf out enc'
    /\ (eo_status out = LQES_NOBUF_ENC -> f_index f = true)).
Proof.
  induction fuel as [|fuel IH]; intros enc_buf hea_buf f seen enc Henc Hhea Hwf Hf Hfuel Hhist; cbn [encode_from_restart];
    wpstep; (eapply wp_mono; [by apply wp_choose_program|]); intros [c seen'] enc1 [Hs1 Hg];
    cbn [fst] in Hg; pose proof (softly_calm _ _ Hwf Hs1) as Hca1;
    pose proof (ca_wf _ _ Hca1) as Hwf1; pose proof (field_wf_calm _ _ f Hca1 Hf) as Hf1;
    (assert (hist = true -> hist_exists enc1 = true) as Hhist1
       by (intros Hh; rewrite (so_hist _ _ (proj1 Hs1)); auto));
    wpstep; (eapply wp_mono; [eapply (wp_execute bits0 enc_buf hea_buf Henc Hhea enc1 f Hwf1 Hf1 c);
      [by apply good_plan, (good_choice_softly enc)|done]|]);
    intros [out|[enc_buf' hea_buf']] enc2 Hr.
  - destruct Hr as [Hr Hn]. wpsteps. split; [by apply (calm_encoded enc enc1)|done].
  - destruct Hr as [Hi _]. by destruct (Hfuel Hi).
  - destruct Hr as [Hr Hn]. wpsteps. split; [by apply (calm_encoded enc enc1)|done].
  - destruct Hr as (Hidx & Hca2 & Hke & Hkh). pose proof (calm_trans _ _ _ Hca1 Hca2) as Hca.
    eapply wp_mono; [apply (IH enc_buf' hea_buf' (no_index f)); [apply Hke|apply Hkh|apply Hca2| |done|]|].
    + by apply field_wf_no_index, (field_wf_calm enc).
    + intros Hh. rewrite (st_hist _ _ (proj1 (ca_steady _ _ Hca))). auto.
    + intros out enc3 [Ho Hn]. split; [|done]. apply (calm_encoded enc enc2); [done|].
      apply (restarted_encoded _ _ _ _ _ enc_buf' hea_buf'); try done. by intros ?%Hn.
Qed.
End restart.

(** ** The whole call *)

(** The caller asks for a literal with the N bit. *)
Definition asks_never (xhdr : lsxpack_header) (flags : Z) : bool :=
  has_bits (xh_flags xhdr) LSXPACK_NEVER_INDEX || has_bits flags LQEF_NEVER_INDEX.

Lemma asks_never_eq xhdr flags :
  has_bits (if has_bits (xh_flags xhdr) LSXPACK_NEVER_INDEX then Z.lor flags LQEF_NEVER_INDEX
            else flags) LQEF_NEVER_INDEX = asks_never xhdr flags.
Proof.
  unfold asks_never. destruct (has_bits (xh_flags xhdr) LSXPACK_NEVER_INDEX); [|done].
  by apply has_bits_lor_self.
Qed.

Lemma name_hashes_u32 i : is_u32 (nth i name_hashes 0).
Proof.
  assert (Forall is_u32 name_hashes) as HF.
  { assert (forallb (fun h => (0 <=? h) && (h <? 2 ^ 32)) name_hashes = true) as H
      by (vm_compute; reflexivity).
    rewrite Forall_forall. intros x Hx. rewrite forallb_forall in H.
    apply list_elem_of_In in Hx. specialize (H x Hx). unfold is_u32. lia. }
  destruct (Nat.lt_ge_cases i (length name_hashes)) as [Hi|Hi].
  - rewrite Forall_forall in HF. apply HF. apply list_elem_of_In, nth_In, Hi.
  - rewrite nth_overflow by exact Hi. unfold is_u32. lia.
Qed.

Lemma field_name_hash_u32 xhdr : xhdr_wf xhdr -> is_u32 (field_name_hash xhdr).
Proof.
  intros Hx. unfold field_name_hash. destruct (has_bits _ LSXPACK_NAME_HASH); [apply Hx|].
  destruct (has_bits _ _); [apply name_hashes_u32|apply XXH32_range].
Qed.

Lemma field_nameval_hash_u32 xhdr : xhdr_wf xhdr -> is_u32 (field_nameval_hash xhdr).
Proof.
  intros Hx. unfold field_nameval_hash. destruct (has_bits _ _); [apply Hx|apply XXH32_range].
Qed.

Lemma static_nameval_id_ok xhdr :
  xhdr_wf xhdr -> 0 <= static_nameval_id xhdr ->
  0 <= static_nameval_id xhdr < 99
  /\ ste_name (ste_at (static_nameval_id xhdr)) = xh_name xhdr
  /\ ste_val (ste_at (static_nameval_id xhdr)) = xh_value xhdr.
Proof.
  intros Hx. unfold static_nameval_id. cbn zeta.
  destruct (Z.eqb_spec (Z.land (xh_flags xhdr) (Z.lor LSXPACK_QPACK_IDX LSXPACK_VAL_MATCHED))
    (Z.lor LSXPACK_QPACK_IDX LSXPACK_VAL_MATCHED)) as [E|E]; intros Hid.
  - assert (forall k, k = 1 \/ k = 5 -> Z.testbit (xh_flags xhdr) k = true) as Hb.
    { intros k Hk. apply (f_equal (fun z => Z.testbit z k)) in E.
      rewrite Z.land_spec in E. destruct Hk as [-> | ->]; cbn in E; by rewrite andb_true_r in E. }
    assert (forall k, 0 <= k -> Z.testbit (xh_flags xhdr) k = true -> has_bits (xh_flags xhdr) (2 ^ k) = true)
      as Hh.
    { intros k Hk Ht. unfold has_bits. apply negb_true_iff, Z.eqb_neq. intros E0.
      apply (f_equal (fun z => Z.testbit z k)) in E0.
      rewrite Z.land_spec, Ht, Z.pow2_bits_true, Z.bits_0 in E0 by done. done. }
    pose proof (Hh 1 ltac:(lia) (Hb 1 ltac:(auto))) as H1.
    pose proof (Hh 5 ltac:(lia) (Hb 5 ltac:(auto))) as H5.
    destruct (xw_index _ Hx H1) as [Hr Hn]. split_and!; [lia|lia|done|].
    by apply (xw_matched _ Hx H1).
  - eapply find_in_static_full_hit; [reflexivity|]. lia.
Qed.

(** The arguments of a call. *)
Section encode.
Context (bits0 : Z) (enc_buf hea_buf : bytes) (Henc : is_bytes enc_buf) (Hhea : is_bytes hea_buf).
Context (xhdr : lsxpack_header) (Hx : xhdr_wf xhdr) (flags : Z).

(** The field without any use of the dynamic table. *)
Definition plain_field (enc : lsqpack_enc) : field :=
  {| f_xhdr := xhdr; f_name_hash := 0; f_nameval_hash := 0; f_use_dyn_table := false;
     f_risk := qenc_can_risk enc; f_index := false |}.

Lemma plain_field_wf enc : field_wf enc (plain_field enc).
Proof. by constructor. Qed.

Lemma wp_encode_static enc never :
  enc_wf enc -> 0 <= static_nameval_id xhdr ->
  wp (execute_program bits0 enc_buf hea_buf
        {| c_prog := Prog EEA_NONE EHA_INDEXED_STAT ETA_NOOP false false;
           c_id := static_nameval_id xhdr; c_entry := None |}
        false false never 0 0 (xh_name xhdr) (xh_value xhdr)) enc
    (fun r enc' => match r with
                   | inl out => encoded enc (xh_name xhdr, xh_value xhdr) never enc_buf hea_buf out enc'
                   | inr _ => False
                   end).
Proof.
  intros Hwf Hid. destruct (static_nameval_id_ok xhdr Hx Hid) as (Hr & Hn & Hv).
  pose proof (plan_static_full enc (plain_field enc) (static_nameval_id xhdr) Hr Hn Hv) as Hp.
  eapply wp_mono; [eapply (wp_execute bits0 enc_buf hea_buf Henc Hhea enc (plain_field enc) Hwf
    (plain_field_wf enc) _ Hp false never ltac:(done))|].
  intros [out|[? ?]] enc' H; [apply H|]. by destruct H.
Qed.

Lemma wp_encode enc :
  enc_wf enc ->
  wp (lsqpack_enc_encode bits0 enc_buf hea_buf xhdr flags) enc
    (encoded enc (xh_name xhdr, xh_value xhdr) (asks_never xhdr flags) enc_buf hea_buf).
Proof.
  intros Hwf. unfold lsqpack_enc_encode. rewrite asks_never_eq.
  destruct (bool_decide_reflect (hea_buf = [])) as [Hempty|_].
  { apply wp_ret. constructor; [done|reflexivity|done|]. split; [|apply softly_calm; [done|reflexivity]].
    split; [done|]. cbn. rewrite Hempty. unfold field_room. cbn. lia. }
  cbv zeta. set (flags' := if has_bits _ LSXPACK_NEVER_INDEX then _ else _).
  destruct (Z.geb_spec (static_nameval_id xhdr) 0) as [Hid|_].
  - wpstep. eapply wp_mono; [by apply wp_encode_static|]. intros [out|?] enc' H; [|done]. by wpsteps.
  - wpsteps. set (f := {| f_xhdr := xhdr |}).
    eapply wp_mono; [apply (wp_restart bits0 _ _ 1 enc_buf hea_buf f None enc Henc Hhea Hwf); [|done|]|].
    + constructor; cbn [f f_xhdr f_name_hash f_nameval_hash f_use_dyn_table f_index f_risk].
      * exact Hx.
      * by apply field_name_hash_u32.
      * by apply field_nameval_hash_u32.
      * intros [_ H]%andb_true_iff. unfold enc_use_dynamic_table in H.
        apply andb_true_iff in H as [Hm H]. rewrite Z.gtb_ltb in Hm. apply Z.ltb_lt in Hm.
        split; [done|]. unfold cur_hinfo in H.
        destruct (ch_hinfo (qpe_cur_header enc)) as [p|]; [by exists p|done].
      * intros [[_ H]%andb_true_iff Hins]%andb_true_iff. split; [done|]. lia.
      * done.
    + by intros [? _]%andb_true_iff.
    + by intros out enc' [? _].
Qed.
End encode.

(** C14: encoding a field never runs into undefined behaviour and keeps the encoder's
    invariant, whatever the allocator answers.  The acknowledgements, limits and
    the other header blocks stay as they are, the references of the current block
    only grow, and an entry that leaves the table was acknowledged and older than
    anything a header block refers to. *)
Theorem encode_safe bits0 enc_buf hea_buf xhdr flags enc :
  enc_wf enc -> xhdr_wf xhdr -> is_bytes enc_buf -> is_bytes hea_buf ->
  exists out enc', lsqpack_enc_encode bits0 enc_buf hea_buf xhdr flags enc = Some (out, enc')
    /\ enc_wf enc' /\ kept enc enc'
    /\ (forall e, e ∈ entries enc -> e ∉ entries enc' -> evictable enc (ete_id e))
    /\ (length (eo_enc out) <= length enc_buf)%nat
    /\ (length (eo_hea out) <= length hea_buf)%nat.
Proof.
  intros Hwf Hx H1 H2.
  destruct (wp_run _ _ _ (wp_encode bits0 enc_buf hea_buf H1 H2 xhdr Hx flags enc Hwf))
    as (out & enc' & Hrun & [Hwf' [Hk [He _]] _ Hr]).
  exists out, enc'. split; [done|]. split; [done|]. split; [done|]. split; [done|].
  destruct (eo_status out); [apply Hr|..]; destruct Hr as [[-> ->]%refused_output _]; cbn; lia.
Qed.

(** C7: a successful call writes to the encoder stream instructions of RFC 9204 that
    turn the peer's table into the encoder's new one, and to the header block one
    representation that, in that table, stands for exactly the name and value
    passed; literals carry the N bit as asked.  Each of its references is within
    the range the current header block accounts for, and is acknowledged unless a
    stream may be put at risk; the Required Insert Count of the block becomes the larger
    of what it was and the reference. *)
Theorem encode_refines bits0 enc_buf hea_buf xhdr flags enc out enc' :
  enc_wf enc -> xhdr_wf xhdr -> is_bytes enc_buf -> is_bytes hea_buf ->
  lsqpack_enc_encode bits0 enc_buf hea_buf xhdr flags enc = Some (out, enc') ->
  eo_status out = LQES_OK ->
  (exists l, instructions (eo_enc out) l
     /\ apply_instructions (abs_table (qpe_table enc)) l = Some (abs_table (qpe_table enc')))
  /\ exists r, (forall tail, read_representation (ch_base_idx (qpe_cur_header enc)) (eo_hea out ++ tail)
                  = Some (r, tail))
     /\ resolve (abs_table (qpe_table enc')) r = Some (xh_name xhdr, xh_value xhdr)
     /\ marks_never (asks_never xhdr flags) r
     /\ (forall id, reference r = Some id ->
          referenced enc' id /\ (qenc_can_risk enc = false -> id <= qpe_max_acked_id enc))
     /\ required_count enc' = count_with r (required_count enc).
Proof.
  intros Hwf Hx H1 H2 Hrun Hok.
  pose proof (wp_encode bits0 enc_buf hea_buf H1 H2 xhdr Hx flags enc Hwf) as Hwp.
  unfold wp in Hwp. rewrite Hrun in Hwp. destruct Hwp as [_ _ _ Hr]. rewrite Hok in Hr.
  destruct Hr as [(l & Hl & Hal & _) Hrep _]. split; [by exists l|done].
Qed.

(** C31: the call is refused only for want of room in the buffer that the status
    names: [field_room] bytes, 22 more than the name and the value have, are always
    enough, so that with two such buffers the call succeeds.  A refused call stores
    no size; what it did store stays within the two buffers, and for want of room on
    the encoder stream it has not touched the header block's; the table, as the peer
    sees it, and the header infos are as before. *)
Theorem encode_no_room bits0 enc_buf hea_buf xhdr flags enc out enc' :
  enc_wf enc -> xhdr_wf xhdr -> is_bytes enc_buf -> is_bytes hea_buf ->
  lsqpack_enc_encode bits0 enc_buf hea_buf xhdr flags enc = Some (out, enc') ->
  eo_status out <> LQES_OK ->
  match eo_status out with
  | LQES_NOBUF_HEAD => Z.of_nat (length hea_buf) < field_room (xh_name xhdr) (xh_value xhdr)
  | _ => Z.of_nat (length enc_buf) < field_room (xh_name xhdr) (xh_value xhdr) /\ eo_hea_buf out = hea_buf
  end
  /\ eo_sizes out = None
  /\ length (eo_enc_buf out) = length enc_buf /\ length (eo_hea_buf out) = length hea_buf
  /\ abs_table (qpe_table enc') = abs_table (qpe_table enc)
  /\ qpe_hinfos enc' = qpe_hinfos enc.
Proof.
  intros Hwf Hx H1 H2 Hrun Hok.
  pose proof (wp_encode bits0 enc_buf hea_buf H1 H2 xhdr Hx flags enc Hwf) as Hwp.
  unfold wp in Hwp. rewrite Hrun in Hwp. destruct Hwp as [_ _ [[_ Hb1] [_ Hb2]] Hr].
  assert (refused (xh_name xhdr, xh_value xhdr) enc_buf hea_buf out /\ calm enc enc') as [[Hs Href] Hca]
    by (by destruct (eo_status out)).
  split; [by destruct (eo_status out)|]. split_and!; [done|done|done|by apply same_table_abs, Hca|apply Hca].
Qed.
