(* ===== verification/EncOps.v ===== *)
(** * The other operations of the encoder keep its invariant

    [enc_ok] is the invariant between calls, whether a header block is being
    encoded or not; [EncField] shows that encoding keeps it, this file that
    initialisation establishes it and that starting, cancelling and ending a
    header block, changing the capacity and the decoder stream keep it. *)

From stdpp Require Import sets.
From S2P Require Import Prelude Monad IntCodec HuffTables Huffman StrCodec Xxhash StaticTable Rfc9204.
From S2P Require Import History EncTable EncHinfo Float EncState EncPolicy EncEncode Encoder.
From S2P Require Import EncInv EncChoice EncAbs EncWire EncExec EncField.

(** ** The invariant between calls *)

(** The other header block of the stream that shares the risk. *)
Definition other_ok (enc : lsqpack_enc) : Prop :=
  forall p o, is_cur enc p -> ch_other_at_risk (qpe_cur_header enc) = Some o ->
  o ∈ qpe_risked_hinfos (qpe_hinfos enc) /\ qhi_stream_id (hinfo_of enc p) = qhi_stream_id (hinfo_of enc o).

Record enc_ok (enc : lsqpack_enc) : Prop := {
  ok_core : enc_core enc;
  ok_fits : qpe_cur_bytes_used (qpe_table enc) <= qpe_cur_max_capacity (qpe_table enc);
  ok_flag : ~ in_header enc -> ch_hinfo (qpe_cur_header enc) = None;
  ok_other : other_ok enc;
}.

Lemma enc_ok_wf enc : enc_ok enc -> in_header enc -> enc_wf enc.
Proof. by intros []. Qed.

Lemma kept_ok enc enc' : enc_ok enc -> kept enc enc' -> enc_wf enc' -> enc_ok enc'.
Proof.
  intros [_ _ Hf Ho] Hk [Hc Hfit Hh]. constructor; [done|done|done|].
  intros p o Hp Hoth. apply (kept_cur enc enc' p Hk) in Hp. rewrite (st_other _ _ Hk) in Hoth.
  rewrite (st_risk_list _ _ Hk), !(st_stream_ids _ _ Hk). by apply Ho.
Qed.

(** ** Changes of the header infos *)

(** The parts of the invariant that do not depend on the header infos stay. *)
Lemma core_hinfos enc hs acked ici :
  enc_core enc -> hinfos_wf hs -> arrs_bounded hs ->
  (forall q, q ∈ qpe_all_hinfos hs -> q ∈ all_hinfos enc) ->
  (forall p, is_cur enc p -> p ∈ qpe_all_hinfos hs /\ p ∉ qpe_risked_hinfos hs) ->
  (forall q, same_but_links (hinfo_of enc q) (hinfo_at hs q)) ->
  qpe_cur_streams_at_risk hs <= qpe_cur_streams_at_risk (qpe_hinfos enc) ->
  0 <= ici <= acked -> qpe_max_acked_id enc <= acked -> acked <= qpe_ins_count (qpe_table enc) ->
  (forall q, q ∈ qpe_all_hinfos hs -> ~ is_cur enc q ->
     (q ∈ qpe_risked_hinfos hs <-> acked < qhi_max_id (hinfo_at hs q))) ->
  enc_core (set_hinfos hs (set_max_acked_id acked (set_last_ici ici enc))).
Proof.
  intros Hc Hwf Hb Hall Hcur Hsame Hst Hici Hack Hins Hrisk.
  assert (forall q, qhi_min_id (hinfo_at hs q) = qhi_min_id (hinfo_of enc q)
                 /\ qhi_max_id (hinfo_at hs q) = qhi_max_id (hinfo_of enc q)) as Hids.
  { intros q. pose proof (same_but_links_fields _ _ (Hsame q)). tauto. }
  pose proof Hc as []. constructor; try done.
  - intros p Hp. by apply Hcur.
  - intros q Hq. specialize (ec_hinfo q (Hall q Hq)) as (H1 & H2 & H3). destruct (Hids q) as [E1 E2].
    unfold hinfo_ok, hinfo_of, ids_within, ids_unset in *. cbn. rewrite E1, E2.
    split_and!; [done|by intros Hq'; apply Hcur|].
    intros Hn. rewrite <- E2. by apply Hrisk.
  - intros Hin Hf. destruct (ec_cache Hin Hf) as [H1 H2]. split; [done|]. intros q Hq Hn.
    unfold hinfo_of. cbn. rewrite (proj1 (Hids q)). apply H2; [by apply Hall|done].
  - destruct ec_risk as [H1 H2]. split; cbn; [lia|]. intros p Hp. unfold hinfo_of. cbn.
    rewrite (proj2 (Hids p)). intros Hr Ho. specialize (H2 p Hp ltac:(lia) Ho). lia.
Qed.

(** The current header info leaves the list, or becomes one of the others. *)
Lemma core_end enc hs flags bytes_out :
  enc_core enc -> hinfos_wf hs -> arrs_bounded hs ->
  (forall q, q ∈ qpe_all_hinfos hs -> q ∈ all_hinfos enc) ->
  (forall q, same_but_links (hinfo_of enc q) (hinfo_at hs q)) ->
  qpe_cur_streams_at_risk hs <= qpe_max_risked_streams enc ->
  has_bits flags LSQPACK_ENC_HEADER = false ->
  (forall q, q ∈ qpe_all_hinfos hs -> ids_within (qpe_ins_count (qpe_table enc)) (hinfo_at hs q)
     /\ (q ∈ qpe_risked_hinfos hs <-> qpe_max_acked_id enc < qhi_max_id (hinfo_at hs q))) ->
  enc_core (set_bytes_out bytes_out (set_flags flags (set_ch_hinfo None (set_hinfos hs enc)))).
Proof.
  intros Hc Hwf Hb Hall Hsame Hst Hfl Hq. pose proof Hc as []. constructor; try done.
  - intros q Hin. destruct (Hq q Hin) as [H1 H2]. unfold hinfo_ok. split_and!; [by left|done|done].
  - intros Hin. unfold in_header in Hin. cbn in Hin. by rewrite Hfl in Hin.
Qed.

Lemma header_cleared flags : has_bits (Z.land flags (Z.lnot LSQPACK_ENC_HEADER)) LSQPACK_ENC_HEADER = false.
Proof.
  unfold has_bits. rewrite <- Z.land_assoc, (Z.land_comm (Z.lnot _)), Z.land_lnot_diag, Z.land_0_r. done.
Qed.

(** A non-current header info has a set range. *)
Lemma other_within enc q :
  enc_core enc -> q ∈ all_hinfos enc -> ~ is_cur enc q ->
  ids_within (qpe_ins_count (qpe_table enc)) (hinfo_of enc q)
  /\ (q ∈ qpe_risked_hinfos (qpe_hinfos enc) <-> qpe_max_acked_id enc < qhi_max_id (hinfo_of enc q)).
Proof.
  intros Hc Hq Hn. destruct (ec_hinfo _ Hc q Hq) as ([H|[H _]] & _ & H3); [|done]. split; [done|auto].
Qed.

(** ** Starting a header block *)

Lemma find_risked_spec hs sid ps o :
  find_risked hs sid ps = Some o -> o ∈ ps /\ qhi_stream_id (hinfo_at hs o) = sid.
Proof.
  induction ps as [|p ps IH]; [done|]. cbn [find_risked].
  destruct (Z.eqb_spec (qhi_stream_id (hinfo_at hs p)) sid) as [E|E].
  - intros [= <-]. split; [by left|done].
  - intros [H1 H2]%IH. split; [by right|done].
Qed.

(** The arrays of header infos stay few: by the memory guard, or else by
    assumption. *)
Definition arrs_guarded (enc : lsqpack_enc) : Prop :=
  has_bits (qpe_flags enc) LSQPACK_ENC_NO_MEM_GUARD = true ->
  Z.of_nat (length (qpe_hinfo_arrs (qpe_hinfos enc))) < 2 ^ 26 - 1.

Lemma alloc_arrs_bounded ms no_guard cap hs r hs' ms' :
  enc_alloc_hinfo ms no_guard cap hs = (r, hs', ms') ->
  hinfos_wf hs -> arrs_bounded hs -> cap < 2 ^ 31 ->
  (no_guard = true -> Z.of_nat (length (qpe_hinfo_arrs hs)) < 2 ^ 26 - 1) -> arrs_bounded hs'.
Proof.
  intros H Hwf Hb Hcap Hg. unfold arrs_bounded in *. unfold enc_alloc_hinfo in H.
  pose proof (sl_count _ (hw_slots _ Hwf)) as Hcnt.
  change (2 ^ 26) with 67108864 in *. change (2 ^ 31) with 2147483648 in *.
  destruct (find_arr _ _) as [[i slots]|].
  - unfold take_slot in H. injection H as _ <- _. cbn. by rewrite length_insert.
  - destruct (negb no_guard && _) eqn:Hguard; [by injection H as _ <- _|].
    assert (Z.of_nat (length (qpe_hinfo_arrs hs)) < 67108864 - 1).
    { destruct no_guard; [by apply Hg|]. cbn [negb andb] in Hguard.
      unfold sizeof_hiarr in Hguard. lia. }
    destruct (malloc ms) as [[mem|] ms1]; [|by injection H as _ <- _].
    unfold take_slot in H. injection H as _ <- _. cbn. rewrite length_insert, length_app. cbn. lia.
Qed.

(** The state after the allocation succeeded, with the new header current. *)
Definition started (stream_id seqno : Z) (enc : lsqpack_enc) (p : Z) (hs : hinfos) (other : option Z)
  (ms : mallocs) : lsqpack_enc :=
  set_flags (Z.lor (qpe_flags enc) LSQPACK_ENC_HEADER) (set_cur_header
    {| ch_hinfo := Some p; ch_other_at_risk := other; ch_n_hdr_added_to_hist := 0;
       ch_min_reffed := ch_min_reffed (qpe_cur_header enc); ch_flags := 0;
       ch_base_idx := qpe_ins_count (qpe_table enc) |}
    (set_hinfos (update_hinfo (set_stream stream_id seqno) p hs) (set_mallocs ms (set_hinfos hs enc)))).

Lemma started_ok stream_id seqno enc p hs other ms :
  enc_ok enc -> ~ in_header enc -> alloc_ok (qpe_hinfos enc) hs p -> arrs_bounded hs ->
  (forall o, other = Some o -> o ∈ qpe_risked_hinfos (qpe_hinfos enc)
                               /\ qhi_stream_id (hinfo_of enc o) = stream_id) ->
  enc_ok (started stream_id seqno enc p hs other ms).
Proof.
  intros Hok Hnh [Hawf Hfresh Haall Hrisked Hcur Hnew Hold _] Hb Ho. set (enc' := started _ _ _ _ _ _ _).
  pose proof (ok_flag _ Hok Hnh) as Hnone. pose proof (ok_core _ Hok) as Hc.
  assert (p ∉ qpe_risked_hinfos (qpe_hinfos enc)) as Hpr
    by (intros H; apply Hfresh, (hw_risked _ (ec_hinfos _ Hc)), H).
  assert (forall q, is_cur enc' q <-> q = p) as Hiscur.
  { intros q. unfold is_cur, enc', started. cbn. split; [by intros [= ->]|by intros ->]. }
  assert (forall q, ~ is_cur enc q) as Hnc by (intros q; unfold is_cur; by rewrite Hnone).
  assert (forall q, hinfo_of enc' q = if decide (q = p) then set_stream stream_id seqno (zero_hinfo p)
                                      else hinfo_of enc q) as Hof.
  { intros q. unfold hinfo_of, enc', started. cbn [qpe_hinfos set_flags set_cur_header set_hinfos].
    rewrite hinfo_at_update. case_decide; [by rewrite Hnew|by apply Hold]. }
  assert (all_hinfos enc' = all_hinfos enc ++ [p]) as Eall by exact Haall.
  assert (qpe_risked_hinfos (qpe_hinfos enc') = qpe_risked_hinfos (qpe_hinfos enc)) as Erisk
    by exact Hrisked.
  constructor; [|apply Hok| |].
  - pose proof Hc as []. constructor; try done.
    + apply update_fields_wf; [done|done|]. rewrite Hrisked. by intros Hn.
    + intros q ->%Hiscur. rewrite Eall. apply elem_of_app.
      right. by apply list_elem_of_singleton.
    + intros q. rewrite Eall. intros Hq. unfold hinfo_ok. rewrite Hof, Erisk. case_decide as E.
      * subst q. split_and!; [right|done|]. { split; [by apply Hiscur|done]. }
        intros Hn. destruct Hn. by apply Hiscur.
      * apply elem_of_app in Hq as [Hq|Hq%list_elem_of_singleton]; [|done].
        destruct (other_within _ _ Hc Hq (Hnc q)) as [H1 H2]. split_and!; [by left| |done].
        intros ->%Hiscur. done.
    + destruct ec_risk as [H1 _]. split; [cbn; by rewrite Hcur|].
      intros q ->%Hiscur. rewrite Hof, decide_True by done. cbn. lia.
    + cbn. pose proof (wf_ins_count _ ec_table). ulia.
  - intros Hn. destruct Hn. unfold in_header, enc', started. cbn. by apply has_bits_lor_self.
  - intros q o ->%Hiscur Hoth. cbn in Hoth. destruct (Ho o Hoth) as [H1 H2].
    split; [by rewrite Erisk|].
    rewrite !Hof, decide_True by done. rewrite decide_False; [by rewrite H2|].
    by intros ->.
Qed.

(** Without a header info: the dynamic table is not used for this header block. *)
Lemma started_without_ok enc ms :
  enc_ok enc -> ~ in_header enc ->
  enc_ok (set_flags (Z.lor (qpe_flags enc) LSQPACK_ENC_HEADER) (set_cur_header
    {| ch_hinfo := None; ch_other_at_risk := None; ch_n_hdr_added_to_hist := 0;
       ch_min_reffed := ch_min_reffed (qpe_cur_header enc); ch_flags := 0;
       ch_base_idx := qpe_ins_count (qpe_table enc) |} (set_mallocs ms enc))).
Proof.
  intros Hok Hnh. pose proof (ok_flag _ Hok Hnh) as Hnone. pose proof (ok_core _ Hok) as Hc.
  constructor; [|apply Hok|done|done].
  assert (forall q, ~ is_cur enc q) as Hnc by (intros q; unfold is_cur; by rewrite Hnone).
  pose proof Hc as []. constructor; try done.
  - intros q Hq. destruct (other_within _ _ Hc Hq (Hnc q)) as [H1 H2]. unfold hinfo_ok.
    split_and!; [by left|done|done].
  - by destruct ec_risk.
  - cbn. pose proof (wf_ins_count _ ec_table). ulia.
Qed.

(** What a call leaves alone: everything the peer sees. *)
Definition same_view (enc enc' : lsqpack_enc) : Prop :=
  qpe_table enc' = qpe_table enc /\ qpe_max_acked_id enc' = qpe_max_acked_id enc
  /\ qpe_last_ici enc' = qpe_last_ici enc /\ qpe_max_entries enc' = qpe_max_entries enc
  /\ qpe_dec_stream_state enc' = qpe_dec_stream_state enc
  /\ qpe_max_risked_streams enc' = qpe_max_risked_streams enc
  /\ qpe_real_max_capacity enc' = qpe_real_max_capacity enc.

Lemma wp_start_header stream_id seqno enc :
  enc_ok enc -> arrs_guarded enc ->
  wp (lsqpack_enc_start_header stream_id seqno) enc (fun b enc' =>
    enc_ok enc' /\ same_view enc enc'
    /\ if b then ~ in_header enc /\ in_header enc'
                 /\ ch_base_idx (qpe_cur_header enc') = qpe_ins_count (qpe_table enc)
                 /\ (forall p, is_cur enc' p -> qhi_stream_id (hinfo_of enc' p) = stream_id
                       /\ ids_unset (hinfo_of enc' p))
                 /\ (forall q, q ∈ all_hinfos enc' -> ~ is_cur enc' q ->
                       q ∈ all_hinfos enc /\ hinfo_of enc' q = hinfo_of enc q)
       else in_header enc /\ enc' = enc).
Proof.
  intros Hok Hg. unfold wp, lsqpack_enc_start_header.
  destruct (has_bits (qpe_flags enc) LSQPACK_ENC_HEADER) eqn:Hfl; [done|].
  assert (~ in_header enc) as Hnh by (unfold in_header; by rewrite Hfl).
  unfold enc_alloc. pose proof (ok_core _ Hok) as Hc.
  destruct (enc_alloc_hinfo _ _ _ _) as [[r hs] ms] eqn:Halloc.
  pose proof (alloc_arrs_bounded _ _ _ _ _ _ _ Halloc (ec_hinfos _ Hc) (ec_arrs _ Hc)
    ltac:(pose proof (ec_capacity _ Hc); lia) Hg) as Hb.
  pose proof (ec_arrs _ Hc) as Hb0. unfold arrs_bounded in Hb0. change (2 ^ 26) with 67108864 in Hb0.
  pose proof (alloc_hinfo_wf (qpe_mallocs enc) (has_bits (qpe_flags enc) LSQPACK_ENC_NO_MEM_GUARD)
    (qpe_cur_max_capacity (qpe_table enc)) (qpe_hinfos enc) (ec_hinfos _ Hc) ltac:(lia)) as Ha.
  rewrite Halloc in Ha. destruct r as [p|].
  - cbn zeta. cbn [set_hinfos set_mallocs qpe_hinfos].
    match goal with |- context [set_cur_header {| ch_hinfo := _; ch_other_at_risk := ?o |}] =>
      set (other := o) end.
    assert (forall o, other = Some o -> o ∈ qpe_risked_hinfos (qpe_hinfos enc)
              /\ qhi_stream_id (hinfo_of enc o) = stream_id) as Hother.
    { unfold other. intros o. destruct (negb (seqno =? 0)); [|done].
      intros [H1 H2]%find_risked_spec. cbn [qpe_risked_hinfos update_hinfo set_mem] in H1.
      rewrite (al_risked _ _ _ Ha) in H1. split; [done|].
      rewrite hinfo_at_update, decide_False, (al_old _ _ _ Ha) in H2; [done|..].
      all: intros ->; apply (al_fresh _ _ _ Ha), (hw_risked _ (ec_hinfos _ Hc)), H1. }
    pose proof (started_ok stream_id seqno enc p hs other ms Hok Hnh Ha Hb Hother) as Hst.
    split; [exact Hst|]. split; [done|]. split; [done|]. split; [by apply has_bits_lor_self|].
    split; [done|]. split.
    { intros q [= <-]. unfold hinfo_of. cbn.
      rewrite hinfo_at_update, decide_True by done. by rewrite (al_new _ _ _ Ha). }
    intros q Hq Hne. assert (q <> p) as Hqp by (intros ->; by apply Hne).
    change (q ∈ qpe_all_hinfos hs) in Hq. rewrite (al_all _ _ _ Ha) in Hq.
    apply elem_of_app in Hq as [Hq|Hq%list_elem_of_singleton]; [|done]. split; [done|].
    unfold hinfo_of. cbn. by rewrite hinfo_at_update, decide_False, (al_old _ _ _ Ha).
  - subst hs. cbn zeta. assert (set_hinfos (qpe_hinfos enc) enc = enc) as -> by (by destruct enc).
    split; [exact (started_without_ok enc ms Hok Hnh)|]. split; [done|]. split; [done|].
    split; [by apply has_bits_lor_self|]. split; [done|]. split; [by intros q|done].
Qed.

(** ** Cancelling and ending *)

(** A header info without references goes. *)
Lemma drop_cur_wf enc p :
  enc_ok enc -> is_cur enc p ->
  exists hs, enc_free_hinfo p (qpe_hinfos enc) = Some hs
    /\ hinfos_wf hs /\ arrs_bounded hs
    /\ (forall q, q ∈ qpe_all_hinfos hs <-> q <> p /\ q ∈ all_hinfos enc)
    /\ qpe_risked_hinfos hs = qpe_risked_hinfos (qpe_hinfos enc)
    /\ qpe_cur_streams_at_risk hs = qpe_cur_streams_at_risk (qpe_hinfos enc)
    /\ forall q, hinfo_at hs q = hinfo_of enc q.
Proof.
  intros Hok Hp. pose proof (ok_core _ Hok) as Hc. pose proof (ec_cur _ Hc p Hp) as Hin.
  destruct (ec_hinfo _ Hc p Hin) as (_ & Hnr & _).
  destruct (free_hinfo_wf _ p (ec_hinfos _ Hc) Hin (Hnr Hp)) as (hs & H1 & H2 & H3 & H4 & H5 & H6 & H7).
  exists hs. split_and!; try done.
  - unfold arrs_bounded. rewrite H7. apply (ec_arrs _ Hc).
  - intros q. rewrite H3. apply elem_filter_ne.
Qed.

Definition ended (bytes_out : Z) (hs : hinfos) (enc : lsqpack_enc) : lsqpack_enc :=
  set_bytes_out bytes_out (set_flags (Z.land (qpe_flags enc) (Z.lnot LSQPACK_ENC_HEADER))
    (set_ch_hinfo None (set_hinfos hs enc))).

Lemma ended_ok bytes_out hs enc :
  enc_ok enc -> hinfos_wf hs -> arrs_bounded hs ->
  (forall q, q ∈ qpe_all_hinfos hs -> q ∈ all_hinfos enc) ->
  (forall q, same_but_links (hinfo_of enc q) (hinfo_at hs q)) ->
  qpe_cur_streams_at_risk hs <= qpe_max_risked_streams enc ->
  (forall q, q ∈ qpe_all_hinfos hs -> ids_within (qpe_ins_count (qpe_table enc)) (hinfo_of enc q)
     /\ (q ∈ qpe_risked_hinfos hs <-> qpe_max_acked_id enc < qhi_max_id (hinfo_of enc q))) ->
  enc_ok (ended bytes_out hs enc) /\ ~ in_header (ended bytes_out hs enc).
Proof.
  intros Hok H1 H2 H3 H4 H5 H6. split; [constructor|].
  - apply core_end; try done; [apply Hok|apply header_cleared|].
    intros q Hq. pose proof (same_but_links_fields _ _ (H4 q)) as Hl.
    unfold ids_within. replace (qhi_min_id (hinfo_at hs q)) with (qhi_min_id (hinfo_of enc q)) by (symmetry; tauto).
    replace (qhi_max_id (hinfo_at hs q)) with (qhi_max_id (hinfo_of enc q)) by (symmetry; tauto).
    by apply H6.
  - apply Hok.
  - done.
  - done.
  - unfold in_header, ended. cbn -[has_bits Z.land]. by rewrite header_cleared.
Qed.

Lemma ended_without_refs bytes_out enc hs p :
  enc_ok enc -> is_cur enc p -> enc_free_hinfo p (qpe_hinfos enc) = Some hs ->
  enc_ok (ended bytes_out hs enc) /\ ~ in_header (ended bytes_out hs enc).
Proof.
  intros Hok Hp Hf. destruct (drop_cur_wf _ _ Hok Hp) as (hs' & Hf' & H1 & H2 & H3 & H4 & H5 & H6).
  assert (hs' = hs) as -> by congruence. pose proof (ok_core _ Hok) as Hc.
  apply ended_ok; try done.
  - intros q Hq. by apply H3.
  - intros q. by rewrite H6.
  - rewrite H5. apply (ec_risk _ Hc).
  - intros q [Hne Hq]%H3. rewrite H4. apply other_within; [done|done|].
    unfold is_cur in *. congruence.
Qed.

Lemma ended_null bytes_out enc :
  enc_ok enc -> ch_hinfo (qpe_cur_header enc) = None ->
  enc_ok (ended bytes_out (qpe_hinfos enc) enc) /\ ~ in_header (ended bytes_out (qpe_hinfos enc) enc).
Proof.
  intros Hok Hn. pose proof (ok_core _ Hok) as Hc. apply ended_ok; try done; try apply Hc.
  intros q Hq. apply other_within; [done|done|]. unfold is_cur. by rewrite Hn.
Qed.

Lemma softly_ok enc enc' : softly enc enc' -> enc_ok enc -> enc_ok enc'.
Proof.
  intros [Hs Hc] [H1 H2 H3 H4]. constructor; [by apply Hc|by rewrite (so_table _ _ Hs)| |].
  - unfold in_header. rewrite (so_flags _ _ Hs), (so_hinfo _ _ Hs). exact H3.
  - intros p o. unfold is_cur, hinfo_of. rewrite (so_hinfo _ _ Hs), (so_other _ _ Hs), (so_hinfos _ _ Hs).
    apply H4.
Qed.

Lemma unsigned_round_range f : 0 <= unsigned_round f.
Proof.
  destruct f as [| | |[] m e]; cbn [unsigned_round]; try lia.
  destruct (0 <=? e); apply u32_range.
Qed.

Lemma wp_adjust_history enc :
  enc_core enc -> wp adjust_history enc (fun _ enc' => softly enc enc').
Proof.
  intros Hc. unfold adjust_history. wpsteps. destruct (hist_exists enc) eqn:He; [|apply wp_ret; reflexivity].
  unfold qenc_sample_header_count. wpsteps. set (enc1 := set_header_count_ema _ enc).
  assert (softly enc enc1) as Hs1.
  { assert (soft enc enc1) as Hs by (by constructor). split; [done|].
    intros _. apply (soft_core _ _ Hs Hc); apply Hc. }
  destruct (_ && _); [|by apply wp_ret]. destruct (_ || _); [|by apply wp_ret].
  eapply wp_mono; [apply wp_hist_update_size; [by apply Hs1|done|apply unsigned_round_range]|].
  intros ? enc2 Hs2. by etrans.
Qed.

(** Freeing the header info of a block without references. *)
Lemma wp_free_cur enc p :
  enc_ok enc -> is_cur enc p ->
  wp free_cur_hinfo enc (fun _ enc' =>
    exists hs, enc_free_hinfo p (qpe_hinfos enc) = Some hs /\ enc' = set_ch_hinfo None (set_hinfos hs enc)).
Proof.
  intros Hok Hp. destruct (drop_cur_wf _ _ Hok Hp) as (hs & Hf & _).
  unfold free_cur_hinfo. wpsteps. unfold is_cur in Hp. rewrite Hp. wpstep.
  unfold part, wp. rewrite Hf. cbn. eauto.
Qed.

Lemma ended_eq bytes_out hs enc :
  ended bytes_out hs enc = set_bytes_out bytes_out
    (set_flags (Z.land (qpe_flags enc) (Z.lnot LSQPACK_ENC_HEADER)) (set_ch_hinfo None (set_hinfos hs enc))).
Proof. done. Qed.

Lemma wp_cancel_header enc :
  enc_ok enc ->
  wp lsqpack_enc_cancel_header enc (fun b enc' =>
    enc_ok enc' /\ same_view enc enc'
    /\ (if b then in_header enc /\ ~ in_header enc' /\ (forall p, is_cur enc p -> p ∉ all_hinfos enc')
        else enc' = enc)).
Proof.
  intros Hok. unfold lsqpack_enc_cancel_header. wpsteps.
  destruct (has_bits (qpe_flags enc) LSQPACK_ENC_HEADER) eqn:Hfl; cbn [negb]; [|by wpsteps].
  destruct (match cur_hinfo enc with Some h => HINFO_IDS_SET h | None => false end) eqn:Hset; [by wpsteps|].
  wpstep. destruct (ch_hinfo (qpe_cur_header enc)) as [p|] eqn:Hp.
  - eapply wp_mono; [by apply (wp_free_cur enc p)|]. intros _ enc1 (hs & Hf & ->).
    destruct (ended_without_refs (qpe_bytes_out enc) _ _ _ Hok Hp Hf) as [H1 H2].
    unfold clear_header_flag. wpsteps. split; [exact H1|]. split; [done|]. split; [done|].
    split; [exact H2|]. intros q Hq. assert (q = p) as -> by (unfold is_cur in Hq; congruence).
    destruct (drop_cur_wf _ _ Hok Hp) as (hs' & Hf' & _ & _ & H3 & _).
    assert (hs' = hs) as -> by congruence. intros [Hq' _]%H3. done.
  - unfold free_cur_hinfo, clear_header_flag. wpsteps. rewrite Hp. wpsteps.
    destruct (ended_null (qpe_bytes_out enc) _ Hok Hp) as [H1 H2].
    assert (ended (qpe_bytes_out enc) (qpe_hinfos enc) enc
      = set_flags (Z.land (qpe_flags enc) (Z.lnot LSQPACK_ENC_HEADER)) enc) as E.
    { unfold ended, set_ch_hinfo. destruct enc as [? ? ? ? ? ? ? ? ? []]. cbn in *. by rewrite Hp. }
    rewrite E in H1, H2. split; [exact H1|]. split; [done|]. split; [done|]. split; [exact H2|].
    intros q Hq. unfold is_cur in Hq. congruence.
Qed.

(** *** The prefix *)

(** The first integer takes no more bytes than it needs. *)
Definition count_minimal (out : bytes) : Prop :=
  forall tail v rest, read_int 8 (out ++ tail) = Some (v, rest) ->
  Z.of_nat (length (out ++ tail)) = Z.of_nat (length rest) + lsqpack_val2len v 8.

Lemma written_minimal first v b more : int_written first 8 v b -> count_minimal (b ++ more).
Proof.
  intros Hw tail v' rest. rewrite <- app_assoc, (iw_read _ _ _ _ Hw). intros [= <- <-].
  rewrite length_app, Nat2Z.inj_add, (iw_length _ _ _ _ Hw). lia.
Qed.

(** The decoder recovers the Required Insert Count and the Base, when it is not
    too far behind or ahead. *)
Lemma write_prefix_read max_entries base_idx max_id buf out rest0 :
  0 < max_entries < 2 ^ 27 -> 0 < max_id < 2 ^ 32 -> 0 <= base_idx < 2 ^ 32 -> 
  write_prefix max_entries base_idx max_id buf = Wrote out rest0 ->
  (length out <= length buf)%nat /\ count_minimal out
  /\ forall total tail, 0 <= total -> total - max_entries < max_id <= total + max_entries ->
       read_prefix max_entries total (out ++ tail) = Some (max_id, base_idx, tail).
Proof.
  intros Hm Hid Hb. unfold write_prefix. change (2 ^ 27) with 134217728 in *.
  rewrite (u32_id (2 * max_entries)) by ulia.
  assert (0 <= max_id mod (2 * max_entries) < 2 * max_entries) as Hmod by (apply Z.mod_pos_bound; lia).
  set (enc_ric := max_id mod (2 * max_entries) + 1).
  rewrite (u32_id enc_ric) by (unfold enc_ric, is_u32; change (2 ^ 32) with 4294967296; lia).
  assert (exists sign diff, (if base_idx >=? max_id then (0, u32 (base_idx - max_id))
      else (1, u32 (max_id - base_idx - 1))) = (sign, diff)
    /\ (sign = 0 /\ diff = base_idx - max_id \/ sign = 1 /\ diff = max_id - base_idx - 1) /\ 0 <= diff < 2 ^ 32)
    as (sign & diff & -> & Hsd & Hdiff).
  { destruct (Z.geb_spec base_idx max_id); do 2 eexists; (split; [done|]); rewrite u32_id by ulia; lia. }
  intros (b1 & r1 & b2 & E1 & E2 & ->)%then_put_inv.
  destruct (put_int_spec 0 buf enc_ric 8 b1 r1 ltac:(lia) ltac:(ulia) eq_refl
    ltac:(unfold enc_ric, is_u64; change (2 ^ 64) with 18446744073709551616; lia) E1)
    as (Hiw & -> & Hl1). pose proof (iw_read _ _ _ _ Hiw) as Hr1.
  destruct (put_int_spec (u8 (Z.shiftl sign 7)) (drop (length b1) buf) diff 7 b2 rest0) as ([Hr2 Hh2 Hn2] & _ & Hl2);
    [lia|by destruct Hsd as [[-> _]|[-> _]]|by destruct Hsd as [[-> _]|[-> _]]|ulia|done|].
  split; [rewrite length_app; rewrite length_drop in Hl2; lia|]. split; [by eapply written_minimal|].
  intros total tail Ht Hrange. unfold read_prefix. rewrite <- app_assoc, Hr1. cbn [mbind option_bind].
  unfold enc_ric. rewrite decode_insert_count_ok by lia. cbn [mbind option_bind].
  destruct (Hh2 tail) as (c & rest & Ec & Hk). rewrite (read_head _ _ _ Ec), Hr2, Hk by lia.
  cbn [mbind option_bind]. destruct Hsd as [[-> ->]|[-> ->]]; cbn -[Z.sub Z.add Z.ltb].
  - do 3 f_equal. lia.
  - replace (max_id - (max_id - base_idx - 1) - 1) with base_idx by lia.
    destruct (Z.ltb_spec base_idx 0); [lia|done].
Qed.

(** *** Ending *)

(** The length of the prefix a header block gets. *)
Definition prefix_size (max_entries base ric : Z) : Z :=
  lsqpack_val2len (ric mod (2 * max_entries) + 1) 8
  + lsqpack_val2len (if base >=? ric then base - ric else ric - base - 1) 7.

Definition prefix_length (enc : lsqpack_enc) : Z :=
  if required_count enc =? 0 then 2
  else prefix_size (qpe_max_entries enc) (ch_base_idx (qpe_cur_header enc)) (required_count enc).

Lemma write_prefix_room max_entries base_idx max_id buf :
  0 < max_entries < 2 ^ 27 -> 0 < max_id < 2 ^ 32 -> 0 <= base_idx < 2 ^ 32 ->
  put_room (prefix_size max_entries base_idx max_id) buf (write_prefix max_entries base_idx max_id buf).
Proof.
  intros Hm Hid Hb. unfold write_prefix, prefix_size. change (2 ^ 27) with 134217728 in *.
  rewrite (u32_id (2 * max_entries)) by ulia.
  assert (0 <= max_id mod (2 * max_entries) < 2 * max_entries) as Hmod by (apply Z.mod_pos_bound; lia).
  set (ric := max_id mod (2 * max_entries) + 1). assert (is_u32 ric) as Hric by (unfold ric; ulia).
  rewrite (u32_id ric Hric). assert (is_u64 ric) by ulia.
  destruct (Z.geb_spec base_idx max_id); rewrite u32_id by ulia;
    (match goal with |- put_room (_ + lsqpack_val2len ?d 7) _ _ =>
       pose proof (val2len_pos d 7 ltac:(ulia) ltac:(lia)) end);
    (apply then_put_room; [lia|apply put_int_room; [done|lia]|intros b rest _; apply put_int_room; [ulia|lia]]).
Qed.

Lemma prefix_size_pos max_entries base_idx max_id :
  0 < max_entries < 2 ^ 27 -> 0 < max_id < 2 ^ 32 -> 0 <= base_idx < 2 ^ 32 ->
  0 < prefix_size max_entries base_idx max_id.
Proof.
  intros Hm Hid Hb. unfold prefix_size. change (2 ^ 27) with 134217728 in *.
  assert (0 <= max_id mod (2 * max_entries) < 2 * max_entries) as Hmod by (apply Z.mod_pos_bound; lia).
  pose proof (val2len_pos (max_id mod (2 * max_entries) + 1) 8 ltac:(ulia) ltac:(lia)).
  pose proof (val2len_pos (if base_idx >=? max_id then base_idx - max_id else max_id - base_idx - 1) 7).
  destruct (base_idx >=? max_id) eqn:E; rewrite Z.geb_leb in E; ulia.
Qed.

(** Only the history and its statistics may differ. *)
Definition history_adjusted (enc enc' : lsqpack_enc) : Prop :=
  exists h ema ms, enc' = set_mallocs ms (set_hist h (set_header_count_ema ema enc)).

Lemma hist_size_adjusted n enc :
  wp (enc_hist_update_size n) enc (fun _ enc' => exists h ms, enc' = set_mallocs ms (set_hist h enc)).
Proof.
  unfold wp, enc_hist_update_size, enc_malloc. destruct (_ || _).
  - exists (qenc_hist_update_size None (qpe_hist enc) n), (qpe_mallocs enc). by destruct enc.
  - destruct (malloc (qpe_mallocs enc)) as [block ms]. by eexists _, ms.
Qed.

Lemma adjust_history_adjusted enc : wp adjust_history enc (fun _ enc' => history_adjusted enc enc').
Proof.
  assert (history_adjusted enc enc) as Hrefl
    by (exists (qpe_hist enc), (qpe_header_count_ema enc), (qpe_mallocs enc); by destruct enc).
  unfold adjust_history. wpsteps. destruct (hist_exists enc); [|by apply wp_ret].
  unfold qenc_sample_header_count. wpsteps.
  match goal with |- context [set_header_count_ema ?x enc] => set (ema := x); set (enc1 := set_header_count_ema ema enc) end.
  assert (history_adjusted enc enc1) as Hema
    by (exists (qpe_hist enc), ema, (qpe_mallocs enc); by destruct enc).
  destruct (_ && _); [|by apply wp_ret]. destruct (_ || _); [|by apply wp_ret].
  eapply wp_mono; [apply hist_size_adjusted|]. intros u enc2 (h & ms & ->). by exists h, ema, ms.
Qed.

(** [out] is the prefix of the block: what a peer that is within range reads. *)
Definition prefix_of (enc : lsqpack_enc) (out : bytes) : Prop :=
  let ric := required_count enc in
  count_minimal out /\ forall total tail, 0 <= total ->
  (0 < ric -> total - qpe_max_entries enc < ric <= total + qpe_max_entries enc) ->
  exists base, read_prefix (qpe_max_entries enc) total (out ++ tail) = Some (ric, base, tail)
    /\ (0 < ric -> base = ch_base_idx (qpe_cur_header enc)).

(** The return value: -1 for a call that is not allowed, the size of the prefix when
    there is room for it, 0 when there is not. *)
Definition end_value (enc : lsqpack_enc) (buf : bytes) : Z :=
  if bool_decide (buf = []) || negb (has_bits (qpe_flags enc) LSQPACK_ENC_HEADER) then -1
  else if prefix_length enc <=? Z.of_nat (length buf) then prefix_length enc else 0.

(** The flags of the block, which say if it waits for an acknowledgement. *)
Definition end_flags (enc : lsqpack_enc) : Z :=
  let flags := ch_flags (qpe_cur_header enc) in
  if qpe_max_acked_id enc <? required_count enc then Z.lor flags LSQECH_REF_AT_RISK else flags.

Record end_ok (enc : lsqpack_enc) (buf : bytes) (r : end_result) (enc' : lsqpack_enc) : Prop := {
  eh_ok : enc_ok enc';
  eh_view : same_view enc enc';
  eh_ret : er_ret r = end_value enc buf;
  eh_buf : length (er_buf r) = length buf;
  eh_flags : er_flags r = if 0 <? er_ret r then Some (end_flags enc) else None;
  eh_result : if 0 <? er_ret r
    then in_header enc /\ ~ in_header enc' /\ er_ret r = Z.of_nat (length (er_out r))
         /\ (length (er_out r) <= length buf)%nat /\ prefix_of enc (er_out r)
         /\ (forall p, is_cur enc p -> 0 < required_count enc ->
               p ∈ all_hinfos enc' /\ qhi_max_id (hinfo_of enc' p) = required_count enc)
         /\ (forall q, q ∈ all_hinfos enc' -> q ∈ all_hinfos enc /\ (is_cur enc q -> 0 < required_count enc)
               /\ qhi_stream_id (hinfo_of enc' q) = qhi_stream_id (hinfo_of enc q))
    else er_out r = [] /\ history_adjusted enc enc'
         /\ (er_ret r = -1 -> enc' = enc /\ er_buf r = buf);
}.

Lemma zero_prefix enc : required_count enc = 0 -> prefix_of enc [0; 0].
Proof.
  intros E. split.
  { intros tail v rest. change (read_int 8 ([0; 0] ++ tail)) with (Some (0, 0 :: tail)). intros [= <- <-].
    change (lsqpack_val2len 0 8) with 1. cbn [length app]. lia. }
  intros total tail Ht _. rewrite E. exists 0. split; [|lia].
  unfold read_prefix. cbn. reflexivity.
Qed.

Lemma end_refused_ok enc buf :
  enc_ok enc -> end_value enc buf = -1 -> end_ok enc buf (end_fail (-1) buf) enc.
Proof.
  intros Hok Hv. constructor; [done|done|done|done|done|]. cbn. split_and!; [done| |done].
  exists (qpe_hist enc), (qpe_header_count_ema enc), (qpe_mallocs enc). by destruct enc.
Qed.

Lemma end_no_room_ok enc buf stored enc' :
  enc_ok enc -> softly enc enc' -> history_adjusted enc enc' -> in_header enc -> buf <> [] ->
  Z.of_nat (length buf) < prefix_length enc -> length stored = length buf ->
  end_ok enc buf (end_fail 0 stored) enc'.
Proof.
  intros Hok Hs Ha Hin Hne Hlt Hl. constructor; [by apply (softly_ok enc)|split_and!; apply Hs| |done|done|].
  - unfold end_value. rewrite bool_decide_eq_false_2, Hin by done. cbn [orb negb end_fail er_ret].
    by rewrite (proj2 (Z.leb_gt _ _)).
  - cbn. done.
Qed.

Lemma softly_prefix_length enc enc1 : softly enc enc1 -> prefix_length enc1 = prefix_length enc.
Proof.
  intros [Hs _]. unfold prefix_length, required_count.
  by rewrite (soft_cur_hinfo _ _ Hs), (so_entries _ _ Hs), (so_base _ _ Hs).
Qed.

(** A block that was ended from the state after the history was adjusted. *)
Lemma end_ok_softly enc enc1 buf r enc' :
  softly enc enc1 -> history_adjusted enc enc1 -> 0 < er_ret r -> end_ok enc1 buf r enc' ->
  end_ok enc buf r enc'.
Proof.
  intros Hsoft Ha Hpos [H1 H2 H3 H4 H5 H6]. pose proof (softly_prefix_length _ _ Hsoft) as Epl.
  destruct Hsoft as [Hs _].
  assert (required_count enc1 = required_count enc) as Er
    by (unfold required_count; by rewrite (soft_cur_hinfo _ _ Hs)).
  constructor; [done| | |done| |].
  - destruct H2 as (G1 & G2 & G3 & G4 & G5 & G6 & G7). unfold same_view.
    rewrite G1, G2, G3, G4, G5, G6, G7. split_and!; apply Hs.
  - unfold end_value in *. by rewrite Epl, (so_flags _ _ Hs) in H3.
  - unfold end_flags in *. rewrite Er, (so_acked _ _ Hs) in H5.
    by destruct Ha as (h & ema & ms & ->).
  - rewrite (proj2 (Z.ltb_lt _ _) Hpos) in *. unfold prefix_of, in_header, is_cur, all_hinfos, hinfo_of in *.
    rewrite Er, (so_flags _ _ Hs), (so_entries _ _ Hs), (so_hinfo _ _ Hs), (so_base _ _ Hs),
      (so_hinfos _ _ Hs) in H6. exact H6.
Qed.

(** The header block has no references: the prefix is two zero bytes. *)
Lemma end_plain_ok enc buf hs :
  enc_ok enc -> in_header enc -> required_count enc = 0 -> (2 <= length buf)%nat ->
  (forall q, q ∈ qpe_all_hinfos hs -> q ∈ all_hinfos enc /\ ~ is_cur enc q /\ hinfo_at hs q = hinfo_of enc q) ->
  enc_ok (ended (u32 (qpe_bytes_out enc + 2)) hs enc) /\ ~ in_header (ended (u32 (qpe_bytes_out enc + 2)) hs enc) ->
  end_ok enc buf {| er_ret := 2; er_buf := [0; 0] ++ drop 2 buf;
                    er_flags := Some (ch_flags (qpe_cur_header enc)) |}
    (ended (u32 (qpe_bytes_out enc + 2)) hs enc).
Proof.
  intros Hok Hin Hr Hlen Hleft [H1 H2]. constructor; [done|done| | | |].
  { unfold end_value, prefix_length. rewrite Hr, Hin, bool_decide_eq_false_2 by (by intros ->; cbn in Hlen; lia).
    cbn [orb negb Z.eqb er_ret]. by rewrite (proj2 (Z.leb_le _ _)) by lia. }
  { cbn [er_buf]. rewrite length_app, length_drop. cbn [length]. lia. }
  { unfold end_flags. rewrite Hr. cbn [er_ret er_flags Z.ltb Z.compare].
    by rewrite (proj2 (Z.ltb_ge _ _)) by (pose proof (ec_acked _ (ok_core _ Hok)); lia). }
  unfold er_out. cbn -[in_header ended drop].
  split_and!; [done|done|done|done|by apply zero_prefix|intros p _; rewrite Hr; lia|].
  intros q (Hq & Hn & E)%Hleft. split; [done|]. split; [done|]. unfold hinfo_of at 1. cbn. by rewrite E.
Qed.

(** The header block has references: it joins those outstanding. *)
Lemma end_refs_hinfos enc p :
  enc_ok enc -> is_cur enc p -> qhi_max_id (hinfo_of enc p) <> 0 ->
  let at_risk := qenc_hinfo_at_risk (qpe_max_acked_id enc) (hinfo_of enc p) in
  exists hs, (if at_risk then qenc_add_to_risked_list (ch_other_at_risk (qpe_cur_header enc))
                                (qpe_max_risked_streams enc) p (qpe_hinfos enc)
              else Some (qpe_hinfos enc)) = Some hs
    /\ qpe_all_hinfos hs = all_hinfos enc
    /\ (forall q, qhi_max_id (hinfo_at hs q) = qhi_max_id (hinfo_of enc q)
         /\ qhi_stream_id (hinfo_at hs q) = qhi_stream_id (hinfo_of enc q))
    /\ forall b, enc_ok (ended b hs enc) /\ ~ in_header (ended b hs enc).
Proof.
  intros Hok Hp Hmax. cbn zeta. pose proof (ok_core _ Hok) as Hc. pose proof (ec_cur _ Hc p Hp) as Hin.
  destruct (ec_hinfo _ Hc p Hin) as (Hids & Hnr & _). specialize (Hnr Hp).
  assert (ids_within (qpe_ins_count (qpe_table enc)) (hinfo_of enc p)) as Hw
    by (destruct Hids as [?|[_ [_ ?]]]; done).
  assert (forall q, q ∈ all_hinfos enc -> q <> p ->
    ids_within (qpe_ins_count (qpe_table enc)) (hinfo_of enc q)
    /\ (q ∈ qpe_risked_hinfos (qpe_hinfos enc) <-> qpe_max_acked_id enc < qhi_max_id (hinfo_of enc q)))
    as Hothers.
  { intros q Hq Hne. apply other_within; [done|done|]. unfold is_cur in *. congruence. }
  unfold qenc_hinfo_at_risk. rewrite Z.gtb_ltb.
  destruct (Z.ltb_spec (qpe_max_acked_id enc) (qhi_max_id (hinfo_of enc p))) as [Hlt|Hge].
  - destruct (add_risked_wf (qpe_hinfos enc) p (ch_other_at_risk (qpe_cur_header enc))
      (qpe_max_risked_streams enc) (ec_hinfos _ Hc) (ec_arrs _ Hc) Hin Hnr) as (hs & E & H1 & H2 & H3 & H4).
    { destruct (ch_other_at_risk _) as [o|] eqn:Eo; [by apply (ok_other _ Hok)|].
      by apply (proj2 (ec_risk _ Hc) p). }
    exists hs. split; [done|]. split; [apply (rc_all _ _ H4)|]. split.
    { intros q. pose proof (same_but_links_fields _ _ (rc_fields _ _ H4 q)). tauto. }
    intros b. apply ended_ok; [done|done| | |apply H4| |].
    + unfold arrs_bounded. rewrite (rc_arrs _ _ H4). apply (ec_arrs _ Hc).
    + intros q. by rewrite (rc_all _ _ H4).
    + rewrite H3. destruct (ec_risk _ Hc) as [Hr1 Hr2].
      destruct (ch_other_at_risk _) as [o|] eqn:Eo; [lia|].
      specialize (Hr2 p Hp Hlt eq_refl). lia.
    + intros q. rewrite (rc_all _ _ H4), H2. intros Hq. rewrite elem_of_app, list_elem_of_singleton.
      destruct (decide (q = p)) as [->|Hne]; [split; [done|]; tauto|].
      destruct (Hothers q Hq Hne) as [G1 G2]. split; [done|]. tauto.
  - exists (qpe_hinfos enc). split; [done|]. split; [done|]. split; [done|].
    intros b. apply ended_ok; try done; try apply Hc.
    intros q Hq. destruct (decide (q = p)) as [->|Hne]; [|by apply Hothers].
    split; [done|]. split; [done|lia].
Qed.

Lemma max_entries_small enc : enc_core enc -> qpe_max_entries enc < 2 ^ 27.
Proof.
  intros Hc. rewrite (proj1 (ec_max_entries _ Hc)). pose proof (ec_capacity _ Hc).
  unfold DYNAMIC_ENTRY_OVERHEAD. change (2 ^ 27) with 134217728. change (2 ^ 31) with 2147483648 in *.
  apply Z.div_lt_upper_bound; lia.
Qed.

Lemma required_count_cur enc p : is_cur enc p -> required_count enc = qhi_max_id (hinfo_of enc p).
Proof. unfold required_count, cur_hinfo, is_cur. by intros ->. Qed.

(** The room the prefix of a block with references takes. *)
Lemma refs_prefix_room buf enc p :
  enc_ok enc -> is_cur enc p -> qhi_max_id (hinfo_of enc p) <> 0 ->
  let w := write_prefix (qpe_max_entries enc) (ch_base_idx (qpe_cur_header enc)) (qhi_max_id (hinfo_of enc p)) buf in
  put_room (prefix_length enc) buf w /\ 0 < prefix_length enc.
Proof.
  intros Hok Hp Hmax. cbn zeta. pose proof (ok_core _ Hok) as Hc.
  pose proof (hinfo_range _ _ Hc (ec_cur _ Hc p Hp)) as [[Hr1 Hr2]|[_ ?]]; [|done].
  pose proof (wf_ins_count _ (ec_table _ Hc)). pose proof (ec_base _ Hc).
  assert (0 < qpe_max_entries enc) as Hme by (apply (ec_max_entries _ Hc); lia).
  pose proof (max_entries_small _ Hc). unfold prefix_length.
  rewrite (required_count_cur _ _ Hp), (proj2 (Z.eqb_neq _ _) Hmax).
  split; [apply write_prefix_room|apply prefix_size_pos]; done || ulia.
Qed.

Lemma wp_end_refs buf enc p out rest :
  enc_ok enc -> in_header enc -> is_cur enc p -> qhi_max_id (hinfo_of enc p) <> 0 ->
  write_prefix (qpe_max_entries enc) (ch_base_idx (qpe_cur_header enc)) (qhi_max_id (hinfo_of enc p)) buf
    = Wrote out rest ->
  buf <> [] ->
  let at_risk := qenc_hinfo_at_risk (qpe_max_acked_id enc) (hinfo_of enc p) in
  wp ((if at_risk then part qpe_hinfos set_hinfos
         (qenc_add_to_risked_list (ch_other_at_risk (qpe_cur_header enc)) (qpe_max_risked_streams enc) p)
       else mret tt);;
      modify (set_ch_hinfo None);;
      clear_header_flag;;
      modify (fun enc => set_bytes_out (u32 (qpe_bytes_out enc + Z.of_nat (length out))) enc);;
      mret {| er_ret := Z.of_nat (length out); er_buf := out ++ rest;
              er_flags := Some (if at_risk then Z.lor (ch_flags (qpe_cur_header enc)) LSQECH_REF_AT_RISK
                                else ch_flags (qpe_cur_header enc)) |}) enc
    (end_ok enc buf).
Proof.
  intros Hok Hin Hp Hmax Hw Hne at_risk. pose proof (ok_core _ Hok) as Hc.
  destruct (refs_prefix_room buf enc p Hok Hp Hmax) as [[Hroom Hsize] Hpos]. rewrite Hw in Hroom, Hsize.
  destruct Hsize as [Hsize _]. cbn [put_buf] in Hroom.
  destruct (end_refs_hinfos enc p Hok Hp Hmax) as (hs & Hhs & Hall & Hids & Hend).
  fold at_risk in Hhs. pose proof (ec_cur _ Hc p Hp) as Hina.
  assert (ids_within (qpe_ins_count (qpe_table enc)) (hinfo_of enc p)) as [Hr1 Hr2]
    by (destruct (hinfo_range _ _ Hc Hina) as [?|[_ ?]]; done).
  pose proof (wf_ins_count _ (ec_table _ Hc)). pose proof (ec_base _ Hc).
  assert (0 < qpe_max_entries enc) as Hme by (apply (ec_max_entries _ Hc); lia).
  pose proof (max_entries_small _ Hc).
  apply write_prefix_read in Hw as (Hl & Hmin & Hread); [|done|ulia|ulia].
  pose proof (required_count_cur _ _ Hp) as Ereq.
  wpstep. eapply (wp_mono _ _ (fun _ enc1 => enc1 = set_hinfos hs enc)).
  { destruct at_risk; unfold part, wp; [by rewrite Hhs|]. injection Hhs as <-. by destruct enc. }
  intros _ enc1 ->. unfold clear_header_flag. wpsteps.
  destruct (Hend (u32 (qpe_bytes_out enc + Z.of_nat (length out)))) as [He1 He2].
  constructor; [exact He1|done| |exact Hroom| |].
  { unfold end_value. rewrite bool_decide_eq_false_2, Hin by done. cbn [orb negb er_ret].
    by rewrite (proj2 (Z.leb_le _ _)) by lia. }
  { cbn [er_ret er_flags]. rewrite (proj2 (Z.ltb_lt _ _)) by lia. unfold end_flags. rewrite Ereq, <- Z.gtb_ltb.
    unfold at_risk, qenc_hinfo_at_risk. by destruct (_ >? _). }
  unfold er_out. cbn -[in_header set_flags set_bytes_out].
  rewrite Nat2Z.id, take_app_length.
  destruct (Z.ltb_spec 0 (Z.of_nat (length out))); [|lia].
  split_and!; [done|exact He2|done|done| | |].
  - split; [done|]. intros total tail Ht Hrange. rewrite Ereq in *. exists (ch_base_idx (qpe_cur_header enc)).
    split; [|done]. apply Hread; [done|]. apply Hrange. lia.
  - intros q Hq _. assert (q = p) as -> by (unfold is_cur in *; congruence).
    unfold all_hinfos, hinfo_of. cbn. by rewrite Hall, (proj1 (Hids p)).
  - intros q Hq. change (q ∈ qpe_all_hinfos hs) in Hq. rewrite Hall in Hq. split; [done|]. split; [|apply Hids].
    intros Hcq. assert (q = p) as -> by (unfold is_cur in *; congruence). lia.
Qed.

(** The call once the history is adjusted. *)
Lemma wp_end_adjusted buf enc enc1 :
  enc_ok enc -> in_header enc -> buf <> [] -> softly enc enc1 -> history_adjusted enc enc1 ->
  wp (end_adjusted buf) enc1 (end_ok enc buf).
Proof.
  intros Hok0 Hin0 Hbuf Hs1 Ha1.
  pose proof (softly_ok _ _ Hs1 Hok0) as Hok. pose proof (softly_prefix_length _ _ Hs1) as Epl.
  assert (in_header enc1) as Hin by (unfold in_header; by rewrite (so_flags _ _ (proj1 Hs1))).
  assert (forall stored, length stored = length buf -> Z.of_nat (length buf) < prefix_length enc1 ->
    end_ok enc buf (end_fail 0 stored) enc1) as Hfail
    by (intros stored Hl Hlt; apply end_no_room_ok; try done; by rewrite <- Epl).
  assert (forall r enc', 0 < er_ret r -> end_ok enc1 buf r enc' -> end_ok enc buf r enc') as Hdone
    by (intros r enc'; by apply end_ok_softly).
  unfold end_adjusted. wpsteps. unfold cur_hinfo.
  destruct (ch_hinfo (qpe_cur_header enc1)) as [p|] eqn:Hp; cbn [fmap option_fmap option_map].
  - fold (hinfo_of enc1 p). unfold HINFO_IDS_SET. pose proof (required_count_cur _ _ Hp) as Ereq.
    destruct (Z.eqb_spec (qhi_max_id (hinfo_of enc1 p)) 0) as [Hz|Hz]; cbn [negb].
    + destruct (Z.leb_spec 2 (Z.of_nat (length buf))).
      2: { wpsteps. apply Hfail; [done|]. unfold prefix_length. rewrite Ereq, Hz. cbn. lia. }
      wpstep. eapply wp_mono; [by apply (wp_free_cur enc1 p)|]. intros u' enc2 (hs & Hf & ->).
      unfold clear_header_flag. wpsteps. apply Hdone; [cbn; lia|].
      apply (end_plain_ok enc1 buf hs); [done|done|by rewrite Ereq|lia| |by apply (ended_without_refs _ enc1 hs p)].
      destruct (drop_cur_wf _ _ Hok Hp) as (hs' & Hf' & _ & _ & H3 & _ & _ & H6).
      assert (hs' = hs) as -> by congruence. intros q [Hne Hq]%H3. split; [done|]. split; [|done].
      unfold is_cur. congruence.
    + destruct (refs_prefix_room buf enc1 p Hok Hp Hz) as [[Hroom Hsize] Hpos].
      destruct (write_prefix _ _ _ _) as [out rest|stored] eqn:Hw; [|wpsteps; by apply Hfail].
      eapply wp_mono; [apply (wp_end_refs buf enc1 p out rest Hok Hin Hp Hz Hw Hbuf)|].
      intros r enc' Hr. apply Hdone; [|done]. destruct Hsize as [Hsize _]. rewrite (eh_ret _ _ _ _ Hr).
      unfold end_value. rewrite bool_decide_eq_false_2, Hin by done. cbn [orb negb].
      rewrite (proj2 (Z.leb_le _ _)); [done|]. cbn [put_buf] in Hroom. rewrite length_app in Hroom. lia.
  - assert (required_count enc1 = 0) as Ereq by (unfold required_count, cur_hinfo; by rewrite Hp).
    destruct (Z.leb_spec 2 (Z.of_nat (length buf))).
    2: { wpsteps. apply Hfail; [done|]. unfold prefix_length. rewrite Ereq. cbn. lia. }
    unfold clear_header_flag. wpsteps. apply Hdone; [cbn; lia|].
    pose proof (ended_null (u32 (qpe_bytes_out enc1 + 2)) _ Hok Hp) as Hend.
    assert (ended (u32 (qpe_bytes_out enc1 + 2)) (qpe_hinfos enc1) enc1
      = set_bytes_out (u32 (qpe_bytes_out enc1 + 2))
          (set_flags (Z.land (qpe_flags enc1) (Z.lnot LSQPACK_ENC_HEADER)) enc1)) as E.
    { unfold ended, set_ch_hinfo. destruct enc1 as [? ? ? ? ? ? ? ? ? []]. cbn in *. by rewrite Hp. }
    pose proof (end_plain_ok enc1 buf (qpe_hinfos enc1) Hok Hin)
      as Hplain. rewrite E in Hplain, Hend. apply Hplain; [done|lia| |exact Hend].
    intros q Hq. split; [done|]. split; [|done]. unfold is_cur. by rewrite Hp.
Qed.

Lemma wp_end_header buf enc :
  enc_ok enc -> wp (lsqpack_enc_end_header buf) enc (end_ok enc buf).
Proof.
  intros Hok. unfold lsqpack_enc_end_header, end_value.
  destruct (bool_decide_reflect (buf = [])) as [Hbuf|Hbuf].
  { wpsteps. apply end_refused_ok; [done|]. unfold end_value. by rewrite bool_decide_eq_true_2. }
  wpsteps. destruct (has_bits (qpe_flags enc) LSQPACK_ENC_HEADER) eqn:Hfl; cbn [negb].
  2: { wpsteps. apply end_refused_ok; [done|]. unfold end_value. by rewrite Hfl, orb_true_r. }
  wpstep. eapply wp_mono; [apply wp_both; [apply wp_adjust_history, (ok_core _ Hok)|apply adjust_history_adjusted]|].
  cbn beta. intros u enc1 [Hs1 Ha1]. by apply wp_end_adjusted.
Qed.

(** C16: ending a header block.  The return value is -1, with nothing changed at all,
    when no block is being encoded or the buffer is empty; the exact length of the
    block's prefix when the buffer has room for it, and zero when it has not, with
    nothing changed but the history and its statistics, so that the call can be
    repeated.  On success a peer in range reads from the bytes, by the rules of RFC
    9204, the largest reference of the block and the block's base, the header info
    joins the outstanding ones, and the flags say if it refers to entries that have
    not been acknowledged.  No call writes beyond the buffer. *)
Theorem end_header_correct buf enc :
  enc_ok enc ->
  exists r enc', lsqpack_enc_end_header buf enc = Some (r, enc') /\ end_ok enc buf r enc'.
Proof. intros Hok. by apply wp_run, wp_end_header. Qed.
