(* ===== verification/EncPeer.v ===== *)
(** * Acknowledgements, cancellations and the capacity

    The operations on what the peer sends on the decoder stream, and the change of
    the table's capacity, keep the encoder's invariant.  What the peer sends is
    covered between header blocks ([idle]), a Section Acknowledgment at any time:
    [enc_proc_stream_cancel] does not spare the header block in progress, and
    [EncExamples] shows what happens. *)

From stdpp Require Import sets.
From S2P Require Import Prelude Monad IntCodec HuffTables Huffman StrCodec Xxhash StaticTable Rfc9204.
From S2P Require Import History EncTable EncHinfo Float EncState EncPolicy EncEncode Encoder.
From S2P Require Import EncInv EncChoice EncAbs EncWire EncExec EncField EncOps.

(** ** The capacity *)

Lemma write_tsu_spec buf capacity out :
  0 <= capacity < 2 ^ 32 -> write_tsu buf capacity = Some out ->
  (length out <= length buf)%nat /\ is_instruction out (ISetCapacity capacity).
Proof.
  intros Hc H. assert (exists rest, put_int 0x20 buf capacity 5 = Wrote out rest) as [rest Hp].
  { unfold write_tsu in H. unfold put_int. destruct buf as [|b room]; [done|].
    destruct (lsqpack_enc_int 0x20 room capacity 5) as [bf n]. destruct (decide (n = 0)%nat); [done|].
    injection H as <-. eauto. }
  apply put_int_spec in Hp as ([Hr Hh _] & _ & Hl); [|lia|ulia|done|ulia].
  split; [done|]. intros tail. destruct (Hh tail) as (c & t & E & Hk). unfold read_instruction.
  rewrite (read_head _ _ _ E), !Hk by lia. cbn -[read_int]. by rewrite Hr.
Qed.

Lemma capacity_table_wf t capacity :
  table_wf t -> is_u32 capacity -> table_wf (set_max_capacity capacity t).
Proof. intros [] Hc. by constructor. Qed.

Lemma capacity_core enc capacity :
  enc_core enc -> 0 <= capacity <= qpe_real_max_capacity enc ->
  enc_core (set_table (set_max_capacity capacity (qpe_table enc)) enc).
Proof.
  intros Hc Hcap. pose proof Hc as []. change (2 ^ 31) with 2147483648 in *.
  constructor; try done; [|cbn; lia].
  apply capacity_table_wf; [done|]. ulia.
Qed.

(** Dropping the overflow, in or out of a header block. *)
Lemma wp_remove_overflow_any enc :
  enc_core enc ->
  wp qenc_remove_overflow_entries enc (fun _ enc' =>
    enc_core enc' /\ overflow_dropped (qpe_table enc) (qpe_table enc')
    /\ soft (set_table (qpe_table enc') enc) enc').
Proof.
  intros Hc. pose proof (ec_table _ Hc) as Ht. unfold wp, qenc_remove_overflow_entries.
  destruct (drop_overflow_ok _ Ht) as (t' & n & -> & Hd & Hb).
  set (enc1 := set_mallocs (qpe_mallocs enc) (set_table t' enc)).
  assert (set_table t' enc = enc1) as -> by (by destruct enc).
  assert (enc_core enc1) as Hc1.
  { apply set_table_core; [done|apply Hd|intros Hm; apply Hb, (ec_buckets _ Hc Hm)| |apply Hd|];
      [rewrite (od_ins_count _ _ Hd); apply (ec_max_entries _ Hc)|].
    rewrite (od_ins_count _ _ Hd). lia. }
  destruct (_ && hist_exists _); cbn.
  - match goal with |- enc_core ?e /\ _ => assert (soft enc1 e) as Hs by (by constructor) end.
    split_and!; [|done|by constructor]. apply (soft_core _ _ Hs Hc1); apply Hc.
  - split_and!; [done|done|by constructor].
Qed.

Record capacity_ok (enc : lsqpack_enc) (capacity : Z) (r : enc_ret * bytes) (enc' : lsqpack_enc)
  : Prop := {
  cp_ok : enc_ok enc';
  cp_hinfos : qpe_hinfos enc' = qpe_hinfos enc;
  cp_peer : qpe_dec_stream_state enc' = qpe_dec_stream_state enc
            /\ qpe_max_acked_id enc' = qpe_max_acked_id enc
            /\ qpe_max_risked_streams enc' = qpe_max_risked_streams enc
            /\ qpe_real_max_capacity enc' = qpe_real_max_capacity enc;
  cp_stream : stream_of enc (snd r) enc';
  cp_result : fst r = ENC_OK -> qpe_cur_max_capacity (qpe_table enc') = capacity;
  cp_failed : fst r <> ENC_OK -> enc' = enc /\ snd r = [];
}.

Lemma wp_set_max_capacity capacity tsu_buf enc :
  enc_ok enc -> is_u32 capacity -> tsu_buf <> Some [] ->
  wp (lsqpack_enc_set_max_capacity capacity tsu_buf) enc (capacity_ok enc capacity).
Proof.
  intros Hok Hu Hb. unfold lsqpack_enc_set_max_capacity. wpsteps.
  assert (forall r, r <> ENC_OK -> capacity_ok enc capacity (r, []) enc) as Hfail
    by (intros r Hr; constructor; [done|done|done|by apply stream_nil|done|done]).
  destruct (Z.gtb_spec capacity (qpe_real_max_capacity enc)) as [|Hle]; [wpsteps; by apply Hfail|].
  destruct (Z.eqb_spec capacity (qpe_cur_max_capacity (qpe_table enc))) as [E|E].
  { wpsteps. constructor; [done|done|done|by apply stream_nil|done|done]. }
  destruct tsu_buf as [[|b0 room]|]; [done| |wpsteps; by apply Hfail].
  destruct (write_tsu _ _) as [out|] eqn:Hw; [|wpsteps; by apply Hfail].
  apply write_tsu_spec in Hw as [_ Hi]; [|ulia]. wpsteps.
  pose proof (ok_core _ Hok) as Hc. 
  eapply wp_mono; [apply wp_remove_overflow_any, capacity_core; [done|ulia]|].
  set (enc1 := set_table _ enc). intros _ enc2 (Hc2 & Hd & Hs). wpsteps.
  pose proof Hs as []. constructor; cbn [fst snd]; [|done|done| |intros _; apply Hd|done].
  - constructor; [done|apply Hd| |].
    + unfold in_header. rewrite so_flags, so_hinfo. apply Hok.
    + intros p o. unfold is_cur, hinfo_of. rewrite so_hinfo, so_other, so_hinfos. apply (ok_other _ Hok).
  - exists [ISetCapacity capacity]. split; [|].
    + rewrite <- (app_nil_r out). constructor; [done|constructor].
    + split; [|by repeat constructor]. cbn [apply_instructions apply_instruction mbind option_bind]. f_equal.
      rewrite (abs_drop _ _ (ec_table _ (capacity_core _ capacity Hc ltac:(ulia))) Hd). done.
Qed.

(** ** Acknowledgements *)

(** What the peer's messages leave alone. *)
Record peer_change (enc enc' : lsqpack_enc) : Prop := {
  ps_core : enc_core enc';
  ps_table : qpe_table enc' = qpe_table enc;
  ps_acked : qpe_max_acked_id enc <= qpe_max_acked_id enc';
  ps_header : qpe_cur_header enc' = qpe_cur_header enc;
  ps_flags : qpe_flags enc' = qpe_flags enc;
  ps_stream : qpe_dec_stream_state enc' = qpe_dec_stream_state enc;
  ps_risked : qpe_max_risked_streams enc' = qpe_max_risked_streams enc;
  ps_real : qpe_real_max_capacity enc' = qpe_real_max_capacity enc;
  ps_max_entries : qpe_max_entries enc' = qpe_max_entries enc;
  ps_streams : qpe_cur_streams_at_risk (qpe_hinfos enc') <= qpe_cur_streams_at_risk (qpe_hinfos enc);
  ps_all : forall q, q ∈ all_hinfos enc' -> q ∈ all_hinfos enc;
  ps_info : forall q, same_but_links (hinfo_of enc q) (hinfo_of enc' q);
}.

(** Between header blocks they keep all of the invariant. *)
Record peer_step (enc enc' : lsqpack_enc) : Prop := {
  ps_ok : enc_ok enc';
  ps_change :> peer_change enc enc';
}.

Lemma change_refl enc : enc_core enc -> peer_change enc enc.
Proof. intros Hc. constructor; done || lia. Qed.

Lemma peer_refl enc : enc_ok enc -> peer_step enc enc.
Proof. intros Hok. split; [done|apply change_refl, Hok]. Qed.

Lemma change_trans x y z : peer_change x y -> peer_change y z -> peer_change x z.
Proof.
  intros [] []. constructor; unfold same_but_links in *; first [done|congruence|lia|auto].
Qed.

Lemma peer_trans x y z : peer_step x y -> peer_step y z -> peer_step x z.
Proof. intros [] []. split; [done|by eapply change_trans]. Qed.

(** Between header blocks [other_ok] says nothing. *)
Definition idle (enc : lsqpack_enc) : Prop := ch_hinfo (qpe_cur_header enc) = None.

Lemma idle_not_cur enc p : idle enc -> ~ is_cur enc p.
Proof. unfold idle, is_cur. by intros ->. Qed.

Lemma change_step enc enc' : enc_ok enc -> idle enc -> peer_change enc enc' -> peer_step enc enc'.
Proof.
  intros Hok Hidle Hp. split; [|done]. assert (idle enc') as Hidle' by (unfold idle; by rewrite (ps_header _ _ Hp)).
  constructor; [apply Hp| |done|].
  - rewrite (ps_table _ _ Hp). apply Hok.
  - intros p o Hc. by apply idle_not_cur in Hc.
Qed.

(** The new header infos of a peer's message; the block being encoded stays as it is. *)
Lemma peer_change_hinfos enc hs acked ici :
  enc_core enc -> hinfos_wf hs -> arrs_bounded hs ->
  (forall q, q ∈ qpe_all_hinfos hs -> q ∈ all_hinfos enc) ->
  (forall p, is_cur enc p -> p ∈ qpe_all_hinfos hs /\ p ∉ qpe_risked_hinfos hs) ->
  (forall q, same_but_links (hinfo_of enc q) (hinfo_at hs q)) ->
  qpe_cur_streams_at_risk hs <= qpe_cur_streams_at_risk (qpe_hinfos enc) ->
  0 <= ici <= acked -> qpe_max_acked_id enc <= acked -> acked <= qpe_ins_count (qpe_table enc) ->
  (forall q, q ∈ qpe_all_hinfos hs -> ~ is_cur enc q ->
     (q ∈ qpe_risked_hinfos hs <-> acked < qhi_max_id (hinfo_at hs q))) ->
  peer_change enc (set_hinfos hs (set_max_acked_id acked (set_last_ici ici enc))).
Proof. intros Hc H1 H2 H3 Hcur H4 H5 H6 H7 H8 H9. constructor; try done. by apply core_hinfos. Qed.

Lemma peer_step_hinfos enc hs acked ici :
  enc_ok enc -> idle enc -> hinfos_wf hs -> arrs_bounded hs ->
  (forall q, q ∈ qpe_all_hinfos hs -> q ∈ all_hinfos enc) ->
  (forall q, same_but_links (hinfo_of enc q) (hinfo_at hs q)) ->
  qpe_cur_streams_at_risk hs <= qpe_cur_streams_at_risk (qpe_hinfos enc) ->
  0 <= ici <= acked -> qpe_max_acked_id enc <= acked -> acked <= qpe_ins_count (qpe_table enc) ->
  (forall q, q ∈ qpe_all_hinfos hs ->
     (q ∈ qpe_risked_hinfos hs <-> acked < qhi_max_id (hinfo_at hs q))) ->
  peer_step enc (set_hinfos hs (set_max_acked_id acked (set_last_ici ici enc))).
Proof.
  intros Hok Hidle H1 H2 H3 H4 H5 H6 H7 H8 H9. apply change_step; [done|done|].
  apply peer_change_hinfos; try done; [apply Hok| |auto].
  intros p Hp. by apply idle_not_cur in Hp.
Qed.

Lemma max_id_same enc hs q :
  same_but_links (hinfo_of enc q) (hinfo_at hs q) -> qhi_max_id (hinfo_at hs q) = qhi_max_id (hinfo_of enc q).
Proof. intros H. pose proof (same_but_links_fields _ _ H). tauto. Qed.

Lemma find_acked_spec hs cur sid ps p :
  find_acked hs cur sid ps = Some p ->
  exists pre post, ps = pre ++ p :: post /\ qhi_stream_id (hinfo_at hs p) = sid /\ cur <> Some p
    /\ forall q, q ∈ pre -> cur <> Some q -> qhi_stream_id (hinfo_at hs q) <> sid.
Proof.
  induction ps as [|x ps IH]; [done|]. cbn [find_acked].
  destruct (_ && _) eqn:E.
  - intros [= <-]. apply andb_true_iff in E as [E1%Z.eqb_eq E2%negb_true_iff%bool_decide_eq_false].
    exists [], ps. split_and!; try done. by intros q ?%elem_of_nil.
  - intros (pre & post & -> & H2 & H3 & H4)%IH. exists (x :: pre), post. split_and!; [done|done|done|].
    intros q [->|Hq]%elem_of_cons; [|by apply H4]. intros Hc Hs.
    by rewrite (proj2 (Z.eqb_eq _ _) Hs), bool_decide_eq_false_2 in E.
Qed.

Lemma find_acked_none hs cur sid ps p :
  find_acked hs cur sid ps = None -> p ∈ ps -> cur <> Some p -> qhi_stream_id (hinfo_at hs p) <> sid.
Proof.
  induction ps as [|x ps IH]; [by intros _ ?%elem_of_nil|]. cbn [find_acked]. destruct (_ && _) eqn:E; [done|].
  intros H [->|Hin]%elem_of_cons Hc; [|by apply IH]. intros Hs.
  by rewrite (proj2 (Z.eqb_eq _ _) Hs), bool_decide_eq_false_2 in E.
Qed.

(** The list at risk after [acked] was raised. *)
Lemma update_risked_ok hs acked :
  hinfos_wf hs -> arrs_bounded hs ->
  exists hs', qenc_update_risked_list acked hs = Some hs' /\ hinfos_wf hs' /\ arrs_bounded hs'
    /\ (forall q, q ∈ qpe_risked_hinfos hs' <->
          q ∈ qpe_risked_hinfos hs /\ acked < qhi_max_id (hinfo_at hs q))
    /\ qpe_cur_streams_at_risk hs' <= qpe_cur_streams_at_risk hs
    /\ risk_change hs hs'.
Proof.
  intros Hwf Hb. destruct (update_risked_list_wf acked hs Hwf Hb) as (hs' & H1 & H2 & H3 & H4 & H5).
  exists hs'. split_and!; try done.
  - unfold arrs_bounded. by rewrite (rc_arrs _ _ H5).
  - intros q. rewrite H3. unfold qenc_hinfo_at_risk. rewrite Z.gtb_ltb, Z.ltb_lt. done.
Qed.

(** Freeing, after the header info left the list at risk. *)
Lemma free_ok hs p :
  hinfos_wf hs -> arrs_bounded hs -> p ∈ qpe_all_hinfos hs -> p ∉ qpe_risked_hinfos hs ->
  exists hs', enc_free_hinfo p hs = Some hs' /\ hinfos_wf hs' /\ arrs_bounded hs'
    /\ (forall q, q ∈ qpe_all_hinfos hs' <-> q <> p /\ q ∈ qpe_all_hinfos hs)
    /\ qpe_risked_hinfos hs' = qpe_risked_hinfos hs
    /\ qpe_cur_streams_at_risk hs' = qpe_cur_streams_at_risk hs
    /\ (forall q, hinfo_at hs' q = hinfo_at hs q).
Proof.
  intros Hwf Hb Hin Hn. destruct (free_hinfo_wf hs p Hwf Hin Hn) as (hs' & H1 & H2 & H3 & H4 & H5 & H6 & H7).
  exists hs'. split_and!; try done.
  - unfold arrs_bounded. by rewrite H7.
  - intros q. rewrite H3. apply elem_filter_ne.
Qed.

(** Leaving the list at risk, for a header info that is on it. *)
Lemma unrisk_ok hs p :
  hinfos_wf hs -> arrs_bounded hs -> p ∈ qpe_risked_hinfos hs ->
  exists hs', qenc_remove_from_risked_list p hs = Some hs' /\ hinfos_wf hs' /\ arrs_bounded hs'
    /\ (forall q, q ∈ qpe_risked_hinfos hs' <-> q <> p /\ q ∈ qpe_risked_hinfos hs)
    /\ qpe_cur_streams_at_risk hs' <= qpe_cur_streams_at_risk hs
    /\ risk_change hs hs'.
Proof.
  intros Hwf Hb Hp. destruct (remove_risked_wf hs p Hwf Hb Hp) as (hs' & H1 & H2 & H3 & H4 & H5).
  exists hs'. split_and!; try done.
  - unfold arrs_bounded. by rewrite (rc_arrs _ _ H5).
  - intros q. rewrite H3. apply elem_filter_ne.
Qed.

Lemma risk_change_max hs hs' q : risk_change hs hs' -> qhi_max_id (hinfo_at hs' q) = qhi_max_id (hinfo_at hs q).
Proof. intros H. pose proof (same_but_links_fields _ _ (rc_fields _ _ H q)). tauto. Qed.

(** The three steps of an acknowledgement that moves [qpe_max_acked_id]. *)
Lemma ack_hinfos hs p acked :
  hinfos_wf hs -> arrs_bounded hs -> p ∈ qpe_all_hinfos hs ->
  p ∈ qpe_risked_hinfos hs -> acked < qhi_max_id (hinfo_at hs p) ->
  let acked' := qhi_max_id (hinfo_at hs p) in
  exists hs1 hs2 hs3, qenc_remove_from_risked_list p hs = Some hs1
    /\ qenc_update_risked_list acked' hs1 = Some hs2 /\ enc_free_hinfo p hs2 = Some hs3
    /\ hinfos_wf hs3 /\ arrs_bounded hs3
    /\ (forall q, q ∈ qpe_all_hinfos hs3 <-> q <> p /\ q ∈ qpe_all_hinfos hs)
    /\ (forall q, same_but_links (hinfo_at hs q) (hinfo_at hs3 q))
    /\ qpe_cur_streams_at_risk hs3 <= qpe_cur_streams_at_risk hs
    /\ (forall q, q ∈ qpe_risked_hinfos hs3 <-> q ∈ qpe_risked_hinfos hs /\ acked' < qhi_max_id (hinfo_at hs3 q)).
Proof.
  intros Hwf Hb Hin Hrisk Hlt acked'.
  destruct (unrisk_ok hs p Hwf Hb Hrisk) as (hs1 & E1 & Hwf1 & Hb1 & Hr1 & Hc1 & Hch1).
  destruct (update_risked_ok hs1 acked' Hwf1 Hb1) as (hs2 & E2 & Hwf2 & Hb2 & Hr2 & Hc2 & Hch2).
  destruct (free_ok hs2 p Hwf2 Hb2) as (hs3 & E3 & Hwf3 & Hb3 & Ha3 & Hr3 & Hc3 & Hat3).
  { by rewrite (rc_all _ _ Hch2), (rc_all _ _ Hch1). }
  { rewrite Hr2, Hr1. tauto. }
  exists hs1, hs2, hs3. split_and!; try done.
  - intros q. by rewrite Ha3, (rc_all _ _ Hch2), (rc_all _ _ Hch1).
  - intros q. rewrite Hat3. pose proof (rc_fields _ _ Hch1 q). pose proof (rc_fields _ _ Hch2 q).
    unfold same_but_links in *. congruence.
  - lia.
  - intros q. rewrite Hr3, Hr2, Hr1, Hat3, (risk_change_max _ _ q Hch2), (risk_change_max _ _ q Hch1).
    unfold acked' in *. split; [tauto|]. intros [H1 H2]. split_and!; [|done|done]. intros ->. lia.
Qed.

Lemma idle_risk enc q :
  enc_ok enc -> idle enc -> q ∈ all_hinfos enc ->
  (q ∈ qpe_risked_hinfos (qpe_hinfos enc) <-> qpe_max_acked_id enc < qhi_max_id (hinfo_at (qpe_hinfos enc) q)).
Proof.
  intros Hok Hi Hq. apply (other_within enc q (ok_core _ Hok) Hq). by apply idle_not_cur.
Qed.

(** A header block of the stream has not been acknowledged. *)
Definition outstanding (enc : lsqpack_enc) (stream_id : Z) : Prop :=
  exists q, q ∈ all_hinfos enc /\ qhi_stream_id (hinfo_of enc q) = stream_id.

(** ... other than the one being encoded. *)
Definition awaits_ack (enc : lsqpack_enc) (stream_id : Z) : Prop :=
  exists q, q ∈ all_hinfos enc /\ ~ is_cur enc q /\ qhi_stream_id (hinfo_of enc q) = stream_id.

(** [p] is the first such block in the order of the list, and the only one freed. *)
Record one_acked (enc : lsqpack_enc) (stream_id p : Z) (enc' : lsqpack_enc) : Prop := {
  oa_first : exists pre post, all_hinfos enc = pre ++ p :: post
    /\ forall q, q ∈ pre -> ~ is_cur enc q -> qhi_stream_id (hinfo_of enc q) <> stream_id;
  oa_stream : qhi_stream_id (hinfo_of enc p) = stream_id;
  oa_not_cur : ~ is_cur enc p;
  oa_left : forall q, q ∈ all_hinfos enc' <-> q <> p /\ q ∈ all_hinfos enc;
  oa_acked : qpe_max_acked_id enc' = Z.max (qpe_max_acked_id enc) (qhi_max_id (hinfo_of enc p));
}.

(** Freeing the block, which is not the one being encoded. *)
Lemma ack_block enc p :
  enc_core enc -> p ∈ all_hinfos enc -> ~ is_cur enc p ->
  let max_id := qhi_max_id (hinfo_of enc p) in
  wp ((if max_id >? qpe_max_acked_id enc then
         part qpe_hinfos set_hinfos (qenc_remove_from_risked_list p);;
         modify (set_max_acked_id max_id);;
         enc_update_risked
       else mret tt);;
      part qpe_hinfos set_hinfos (enc_free_hinfo p)) enc
    (fun _ enc' => peer_change enc enc' /\ (forall q, q ∈ all_hinfos enc' <-> q <> p /\ q ∈ all_hinfos enc)
       /\ qpe_max_acked_id enc' = Z.max (qpe_max_acked_id enc) (qhi_max_id (hinfo_of enc p))).
Proof.
  intros Hc Hin Hncur. cbn zeta. destruct (ec_acked _ Hc) as [Hici Hins].
  destruct (other_within _ _ Hc Hin Hncur) as [[Hw1 Hw2] Hrisk].
  assert (forall q, is_cur enc q -> q <> p /\ q ∈ all_hinfos enc /\ q ∉ qpe_risked_hinfos (qpe_hinfos enc)) as Hcur.
  { intros q Hq. pose proof (ec_cur _ Hc q Hq) as Hqin. split; [by intros ->|]. split; [done|].
    destruct (ec_hinfo _ Hc q Hqin) as (_ & Hn & _). by apply Hn. }
  rewrite Z.gtb_ltb. destruct (Z.ltb_spec (qpe_max_acked_id enc) (qhi_max_id (hinfo_of enc p))) as [Hlt|Hge].
  - destruct (ack_hinfos (qpe_hinfos enc) p (qpe_max_acked_id enc) (ec_hinfos _ Hc) (ec_arrs _ Hc) Hin
      ltac:(by apply Hrisk) Hlt)
      as (hs1 & hs2 & hs3 & E1 & E2 & E3 & Hwf & Hb & Ha & Hsame & Hcnt & Hr).
    wpstep. wpstep. eapply wp_part; [exact E1|]. wpsteps. unfold enc_update_risked. eapply wp_part; [exact E2|].
    eapply wp_part; [exact E3|]. split; [|split; [exact Ha|cbn; lia]].
    apply (peer_change_hinfos enc hs3 (qhi_max_id (hinfo_of enc p)) (qpe_last_ici enc)); try done; try lia.
    + intros q Hq. by apply Ha.
    + intros q Hq. destruct (Hcur q Hq) as (H1 & H2 & H3). rewrite Ha, Hr. tauto.
    + intros q [Hne Hq]%Ha Hn. rewrite Hr. destruct (other_within _ _ Hc Hq Hn) as [_ ->].
      pose proof (same_but_links_fields _ _ (Hsame q)) as Hf. unfold hinfo_of in *. lia.
  - assert (p ∉ qpe_risked_hinfos (qpe_hinfos enc)) as Hn by (rewrite Hrisk; lia).
    destruct (free_ok _ p (ec_hinfos _ Hc) (ec_arrs _ Hc) Hin Hn) as (hs & E & Hwf & Hb & Ha & Hr & Hcnt & Hat).
    wpsteps. eapply wp_part; [exact E|]. split; [|split; [exact Ha|cbn; lia]].
    apply (peer_change_hinfos enc hs (qpe_max_acked_id enc) (qpe_last_ici enc)); try done; try lia.
    + intros q Hq. by apply Ha.
    + intros q Hq. destruct (Hcur q Hq) as (H1 & H2 & H3). rewrite Ha, Hr. tauto.
    + intros q. by rewrite Hat.
    + intros q [_ Hq]%Ha Hnq. rewrite Hr, Hat. by apply (other_within _ _ Hc Hq Hnq).
Qed.

Lemma wp_header_ack_any stream_id enc :
  enc_core enc ->
  wp (enc_proc_header_ack stream_id) enc (fun b enc' => peer_change enc enc'
    /\ (b = false -> enc' = enc /\ ~ (stream_id <= MAX_QUIC_STREAM_ID /\ awaits_ack enc stream_id))
    /\ (b = true -> stream_id <= MAX_QUIC_STREAM_ID /\ exists p, one_acked enc stream_id p enc')).
Proof.
  intros Hc. pose proof (change_refl _ Hc) as Hrefl.
  unfold enc_proc_header_ack. rewrite Z.gtb_ltb. destruct (Z.ltb_spec MAX_QUIC_STREAM_ID stream_id) as [?|Hmax].
  { wpsteps. split; [done|]. split; [|done]. intros _. split; [done|]. intros [? _]. lia. }
  wpsteps. destruct (find_acked _ _ _ _) as [p|] eqn:Hfind.
  2: { wpsteps. split; [done|]. split; [|done]. intros _. split; [done|]. intros [_ (q & Hq & Hn & Hs)].
       by apply (find_acked_none _ _ _ _ q Hfind Hq). }
  apply find_acked_spec in Hfind as (pre & post & Eall & Hsid & Hncur & Hfirst).
  assert (p ∈ all_hinfos enc) as Hin
    by (unfold all_hinfos; rewrite Eall; apply elem_of_app; right; left).
  fold (hinfo_of enc p). cbn zeta. rewrite <- wp_bind_assoc.
  wpstep. eapply wp_mono; [by apply ack_block|]. intros u enc' (H1 & H2 & H3). wpsteps.
  split; [done|]. split; [done|]. intros _. split; [done|]. exists p. constructor; try done.
  by exists pre, post.
Qed.

Lemma wp_header_ack stream_id enc :
  enc_ok enc -> idle enc ->
  wp (enc_proc_header_ack stream_id) enc (fun b enc' => peer_step enc enc'
    /\ (b = false -> enc' = enc /\ ~ (stream_id <= MAX_QUIC_STREAM_ID /\ outstanding enc stream_id))
    /\ (b = true -> stream_id <= MAX_QUIC_STREAM_ID /\ exists p, p ∈ all_hinfos enc /\ qhi_stream_id (hinfo_of enc p) = stream_id
          /\ (p ∉ all_hinfos enc')
          /\ qpe_max_acked_id enc' = Z.max (qpe_max_acked_id enc) (qhi_max_id (hinfo_of enc p)))).
Proof.
  intros Hok Hidle. eapply wp_mono; [apply wp_header_ack_any, Hok|]. intros b enc' (H1 & H2 & H3).
  split; [by apply change_step|]. split.
  - intros Hb. destruct (H2 Hb) as [-> Hn]. split; [done|]. intros [Hs (q & Hq & Hst)]. apply Hn.
    split; [done|]. exists q. split_and!; [done|by apply idle_not_cur|done].
  - intros Hb. destruct (H3 Hb) as [Hs (p & [(pre & post & Eall & _) Hst _ Hl Ha])]. split; [done|].
    exists p. split_and!; [rewrite Eall; apply elem_of_app; right; left|done|by rewrite Hl; intros []|done].
Qed.

Lemma wp_ici ins_count enc :
  enc_ok enc -> idle enc -> 0 <= ins_count ->
  wp (enc_proc_ici ins_count) enc (fun b enc' => peer_step enc enc'
    /\ (b = false -> enc' = enc)
    /\ (b = true -> 0 < ins_count /\ qpe_last_ici enc + ins_count <= qpe_ins_count (qpe_table enc)
          /\ qpe_max_acked_id enc' = Z.max (qpe_max_acked_id enc) (qpe_last_ici enc + ins_count))).
Proof.
  intros Hok Hidle Hn. pose proof (peer_refl _ Hok) as Hrefl. pose proof (ok_core _ Hok) as Hc.
  destruct (ec_acked _ Hc) as [Hici Hins]. pose proof (wf_ins_count _ (ec_table _ Hc)) as H32.
  unfold enc_proc_ici. destruct (Z.eqb_spec ins_count 0); [by wpsteps|].
  destruct (ins_count >? LSQPACK_MAX_ABS_ID); [by wpsteps|]. wpsteps.
  rewrite Z.gtb_ltb. rewrite (u64_id (_ - _)) by ulia.
  destruct (Z.ltb_spec (qpe_ins_count (qpe_table enc) - qpe_last_ici enc) ins_count); [by wpsteps|].
  rewrite u32_id by ulia. wpstep. rewrite Z.gtb_ltb.
  destruct (Z.ltb_spec (qpe_max_acked_id enc) (ins_count + qpe_last_ici enc)) as [Hlt|Hge].
  - destruct (update_risked_ok (qpe_hinfos enc) (ins_count + qpe_last_ici enc) (ec_hinfos _ Hc) (ec_arrs _ Hc))
      as (hs & E & Hwf & Hb & Hr & Hcnt & Hch).
    wpsteps. unfold enc_update_risked, part, wp. cbn -[qenc_update_risked_list]. rewrite E. cbn.
    split; [|split; [done|]].
    + apply (peer_step_hinfos enc hs (ins_count + qpe_last_ici enc) (ins_count + qpe_last_ici enc));
        try done; try lia.
      * intros q. by rewrite (rc_all _ _ Hch).
      * apply Hch.
      * intros q. rewrite (rc_all _ _ Hch). intros Hq.
        rewrite Hr, (risk_change_max _ _ q Hch), (idle_risk _ _ Hok Hidle Hq). lia.
    + intros _. cbn. lia.
  - wpsteps. split; [done|]. split; [done|]. intros _. lia.
Qed.

(** *** Cancellation *)

(** One header block of the cancelled stream. *)
Lemma cancel_one enc p :
  enc_ok enc -> idle enc -> p ∈ all_hinfos enc ->
  wp ((if qenc_hinfo_at_risk (qpe_max_acked_id enc) (hinfo_of enc p)
       then part qpe_hinfos set_hinfos (qenc_remove_from_risked_list p) else mret tt);;
      part qpe_hinfos set_hinfos (enc_free_hinfo p)) enc
    (fun _ enc' => peer_step enc enc' /\ qpe_max_acked_id enc' = qpe_max_acked_id enc
       /\ (forall q, q ∈ all_hinfos enc' <-> q <> p /\ q ∈ all_hinfos enc)).
Proof.
  intros Hok Hidle Hin. pose proof (ok_core _ Hok) as Hc. destruct (ec_acked _ Hc) as [Hici Hins].
  pose proof (idle_risk _ _ Hok Hidle Hin) as Hrk. fold (hinfo_of enc p) in Hrk.
  assert (exists hs1, (if qenc_hinfo_at_risk (qpe_max_acked_id enc) (hinfo_of enc p)
      then qenc_remove_from_risked_list p (qpe_hinfos enc) else Some (qpe_hinfos enc)) = Some hs1
    /\ hinfos_wf hs1 /\ arrs_bounded hs1
    /\ (forall q, q ∈ qpe_risked_hinfos hs1 <-> q <> p /\ q ∈ qpe_risked_hinfos (qpe_hinfos enc))
    /\ qpe_cur_streams_at_risk hs1 <= qpe_cur_streams_at_risk (qpe_hinfos enc)
    /\ risk_change (qpe_hinfos enc) hs1) as (hs1 & E1 & Hwf1 & Hb1 & Hr1 & Hc1 & Hch1).
  { unfold qenc_hinfo_at_risk. rewrite Z.gtb_ltb.
    destruct (Z.ltb_spec (qpe_max_acked_id enc) (qhi_max_id (hinfo_of enc p))) as [Hlt|Hge].
    - apply unrisk_ok; [apply Hc|apply Hc|by apply Hrk].
    - exists (qpe_hinfos enc). split_and!; [done|apply Hc|apply Hc| |lia|reflexivity].
      intros q. split; [|tauto]. intros Hq. split; [|done]. intros ->. apply Hrk in Hq. lia. }
  destruct (free_ok hs1 p Hwf1 Hb1) as (hs & E & Hwf & Hb & Ha & Hr & Hcnt & Hat).
  { by rewrite (rc_all _ _ Hch1). }
  { rewrite Hr1. tauto. }
  wpstep. eapply (wp_mono _ _ (fun _ enc1 => enc1 = set_hinfos hs1 enc)).
  { destruct (qenc_hinfo_at_risk _ _); unfold part, wp; [by rewrite E1|].
    injection E1 as <-. by destruct enc. }
  intros _ enc1 ->. unfold part, wp. cbn -[enc_free_hinfo]. rewrite E.
  split; [|split; [done|intros q; unfold all_hinfos; cbn; by rewrite Ha, (rc_all _ _ Hch1)]].
  pose proof (peer_step_hinfos enc hs (qpe_max_acked_id enc) (qpe_last_ici enc) Hok Hidle Hwf Hb) as Hp.
  apply Hp; try done; try lia.
  - intros q. rewrite Ha, (rc_all _ _ Hch1). by intros [_ ?].
  - intros q. rewrite Hat. apply Hch1.
  - intros q [Hne Hq]%Ha. rewrite (rc_all _ _ Hch1) in Hq.
    rewrite Hr, Hr1, Hat, (risk_change_max _ _ q Hch1), (idle_risk _ _ Hok Hidle Hq). tauto.
Qed.

Lemma peer_idle enc enc' : peer_step enc enc' -> idle enc -> idle enc'.
Proof. intros Hp. unfold idle. by rewrite (ps_header _ _ Hp). Qed.

Lemma cancel_loop_ok stream_id ps : forall enc,
  enc_ok enc -> idle enc -> NoDup ps -> (forall p, p ∈ ps -> p ∈ all_hinfos enc) ->
  wp (cancel_loop stream_id ps) enc (fun _ enc' => peer_step enc enc'
    /\ qpe_max_acked_id enc' = qpe_max_acked_id enc
    /\ (forall q, q ∈ all_hinfos enc' <->
          q ∈ all_hinfos enc /\ (q ∈ ps -> qhi_stream_id (hinfo_of enc q) <> stream_id))).
Proof.
  induction ps as [|p ps IH]; intros enc Hok Hidle Hnd Hin; cbn [cancel_loop].
  - apply wp_ret. split_and!; [by apply peer_refl|done|]. intros q. split; [|tauto].
    intros Hq. split; [done|]. by intros ?%elem_of_nil.
  - apply NoDup_cons in Hnd as [Hp Hnd]. wpsteps. cbn zeta. fold (hinfo_of enc p).
    eapply (wp_mono _ _ (fun _ enc1 => peer_step enc enc1 /\ qpe_max_acked_id enc1 = qpe_max_acked_id enc
      /\ forall q, q ∈ all_hinfos enc1 <-> q ∈ all_hinfos enc
                    /\ (q = p -> qhi_stream_id (hinfo_of enc q) <> stream_id))).
    + destruct (Z.eqb_spec (qhi_stream_id (hinfo_of enc p)) stream_id) as [E|E].
      * eapply wp_mono; [apply cancel_one; [done|done|apply Hin; by left]|].
        intros _ enc1 (H1 & H2 & H3). split_and!; [done|done|]. intros q. rewrite H3.
        split; [intros [? ?]; split; [done|by intros ->]|].
        intros [Hq Hs]. split; [|done]. intros ->. by apply Hs.
      * apply wp_ret. split_and!; [by apply peer_refl|done|]. intros q. split; [|tauto].
        intros Hq. split; [done|]. by intros ->.
    + intros u enc1 (H1 & H2 & H3). pose proof (ps_ok _ _ H1) as Hok1.
      eapply wp_mono; [apply (IH enc1 Hok1 (peer_idle _ _ H1 Hidle) Hnd)|].
      * intros q Hq. apply H3. split; [apply Hin; by right|]. by intros ->.
      * intros u2 enc2 (G1 & G2 & G3). split_and!; [by apply (peer_trans _ enc1)|congruence|].
        intros q. rewrite G3, H3.
        assert (qhi_stream_id (hinfo_of enc1 q) = qhi_stream_id (hinfo_of enc q)) as ->
          by (pose proof (same_but_links_fields _ _ (ps_info _ _ H1 q)); tauto).
        rewrite elem_of_cons. destruct (decide (q = p)) as [->|]; tauto.
Qed.

Lemma wp_stream_cancel stream_id enc :
  enc_ok enc -> idle enc ->
  wp (enc_proc_stream_cancel stream_id) enc (fun b enc' => peer_step enc enc'
    /\ (b = false -> enc' = enc)
    /\ (b = true -> qpe_max_acked_id enc' = qpe_max_acked_id enc
          /\ forall q, q ∈ all_hinfos enc' <->
             q ∈ all_hinfos enc /\ qhi_stream_id (hinfo_of enc q) <> stream_id)).
Proof.
  intros Hok Hidle. pose proof (peer_refl _ Hok) as Hrefl.
  unfold enc_proc_stream_cancel. destruct (stream_id >? MAX_QUIC_STREAM_ID); [by wpsteps|]. wpsteps.
  eapply wp_mono; [apply cancel_loop_ok; [done|done| |done]|].
  { apply (sl_nodup _ (hw_slots _ (ec_hinfos _ (ok_core _ Hok)))). }
  intros u enc' (H1 & H2 & H3). wpsteps. split_and!; [done|done|]. intros _. split; [done|].
  intros q. rewrite H3. fold (all_hinfos enc). tauto.
Qed.

(** ** The decoder stream *)

(** The saved state is one that [lsqpack_dec_int] stored, and a handler waits for
    the value when it is to be resumed. *)
Definition stream_ok (enc : lsqpack_enc) : Prop :=
  dec_int_wf (dss_dec_int_state (qpe_dec_stream_state enc))
  /\ (dis_resume (dss_dec_int_state (qpe_dec_stream_state enc)) = true ->
      dss_handler (qpe_dec_stream_state enc) <> None).

(** A run over a part of the stream. *)
Definition peer_run (enc enc' : lsqpack_enc) : Prop :=
  exists s, peer_step (set_dec_stream_state s enc) enc'.

Lemma set_stream_ok s enc : enc_ok enc -> enc_ok (set_dec_stream_state s enc).
Proof.
  intros Hok. pose proof (ok_core _ Hok) as []. constructor; try apply Hok. by constructor.
Qed.

Lemma peer_step_stream s x y :
  peer_step x y -> peer_step (set_dec_stream_state s x) (set_dec_stream_state s y).
Proof.
  intros [Hok []]. pose proof (set_stream_ok s _ Hok) as Hs. split; [done|]. by constructor; try apply Hs.
Qed.

Lemma peer_run_refl enc s : enc_ok enc -> peer_run enc (set_dec_stream_state s enc).
Proof. intros Hok. exists s. by apply peer_refl, set_stream_ok. Qed.

Lemma peer_run_trans x y z : peer_run x y -> peer_run y z -> peer_run x z.
Proof.
  intros [s1 H1] [s2 H2]. exists s2. apply (peer_trans _ (set_dec_stream_state s2 y)); [|done].
  by apply (peer_step_stream s2) in H1.
Qed.

Lemma peer_step_run x y : peer_step x y -> peer_run x y.
Proof. intros H. exists (qpe_dec_stream_state x). by destruct x. Qed.

Lemma peer_run_ok x y : peer_run x y -> enc_ok y.
Proof. intros [s H]. apply H. Qed.

Lemma peer_run_idle x y : peer_run x y -> idle x -> idle y.
Proof. intros [s H] Hi. by apply (peer_idle _ _ H). Qed.

Lemma wp_run_handler h val enc :
  enc_ok enc -> idle enc -> 0 <= val ->
  wp (run_handler (Some h) val) enc (fun _ enc' => peer_step enc enc').
Proof.
  intros Hok Hi Hv. destruct h; cbn [run_handler].
  - eapply wp_mono; [by apply wp_header_ack|]. by intros b enc' [? _].
  - eapply wp_mono; [by apply wp_ici|]. by intros b enc' [? _].
  - eapply wp_mono; [by apply wp_stream_cancel|]. by intros b enc' [? _].
Qed.

Lemma dec_stream_inst_prefix b : 1 <= fst (dec_stream_inst b) <= 8.
Proof. unfold dec_stream_inst. destruct (has_bits b 0x80); [cbn; lia|]. destruct (_ =? 0); cbn; lia. Qed.

Lemma decoder_in_loop_ok fuel : forall buf enc,
  (length buf <= fuel)%nat -> is_bytes buf -> enc_ok enc -> idle enc -> stream_ok enc ->
  wp (decoder_in_loop fuel buf) enc (fun _ enc' => peer_run enc enc' /\ stream_ok enc').
Proof.
  induction fuel as [|fuel IH]; intros [|b0 src] enc Hf Hb Hok Hi Hst; cbn [decoder_in_loop];
    try (cbn in Hf; lia);
    try (apply wp_ret; split; [by apply peer_step_run, peer_refl|done]).
  wpsteps. destruct Hst as [Hwf Hh].
  (* the prefix and the handler *)
  eapply (wp_mono _ _ (fun p enc1 => peer_run enc enc1
    /\ dss_dec_int_state (qpe_dec_stream_state enc1) = dss_dec_int_state (qpe_dec_stream_state enc)
    /\ dss_handler (qpe_dec_stream_state enc1) <> None
    /\ (dis_resume (dss_dec_int_state (qpe_dec_stream_state enc)) = false -> 1 <= p <= 8))).
  { destruct (dis_resume _).
    - apply wp_ret. split_and!; [by apply peer_step_run, peer_refl|done|by apply Hh|done].
    - pose proof (dec_stream_inst_prefix b0) as Hp. destruct (dec_stream_inst b0) as [p h].
      unfold set_handler. wpsteps. split_and!; [by apply peer_run_refl|done|done|done]. }
  intros p enc1 (Hrun & Est & Hh1 & Hp). wpsteps. rewrite <- Est in Hwf, Hp.
  pose proof (peer_run_ok _ _ Hrun) as Hok1. pose proof (peer_run_idle _ _ Hrun Hi) as Hi1.
  assert (stream_ok enc1) as Hst1 by done.
  pose proof (dec_int_ok b0 src p (dss_dec_int_state (qpe_dec_stream_state enc1)) Hb Hwf Hp) as Hd.
  destruct (lsqpack_dec_int b0 src p _) as [val rest|st'|]; [| |wpsteps; by split].
  - destruct Hd as [Hv (used & ->)]. destruct (dss_handler (qpe_dec_stream_state enc1)) as [h|]; [|done].
    wpstep. eapply wp_mono; [apply wp_run_handler; [done|done|apply Hv]|].
    intros [] enc2 H2; wpsteps.
    2: { split; [by apply (peer_run_trans _ enc1), peer_step_run|].
         unfold stream_ok. by rewrite (ps_stream _ _ H2). }
    unfold set_dec_int_state. set (enc3 := set_dec_stream_state _ enc2).
    assert (peer_run enc enc3) as Hrun3.
    { apply (peer_run_trans _ enc1); [done|]. apply (peer_run_trans _ enc2); [by apply peer_step_run|].
      apply peer_run_refl, H2. }
    assert (stream_ok enc3) as Hst3 by (split; intros Hx; discriminate Hx).
    apply Forall_cons_1 in Hb as [_ Hb]. apply Forall_app in Hb as [_ Hb].
    eapply wp_mono; [apply IH; [|done|by apply (peer_run_ok enc)|by apply (peer_run_idle enc)|done]|].
    { cbn in Hf. rewrite length_app in Hf. lia. }
    intros r enc4 [H4 H5]. split; [by apply (peer_run_trans _ enc3)|done].
  - wpsteps. unfold set_dec_int_state. destruct Hd as [Hr Hd]. split.
    + apply (peer_run_trans _ enc1); [done|]. by apply peer_run_refl.
    + split; [intros _; apply (Hd Hr)|by intros _].
Qed.

Lemma peer_run_bytes x y n : peer_run x y -> peer_run x (set_bytes_out n y).
Proof.
  intros [s [Hok []]]. exists s. assert (enc_core (set_bytes_out n y)) as Hc by (destruct ps_core0; by constructor).
  split; [|by constructor]. constructor; [done|apply Hok|apply Hok|apply Hok].
Qed.

Lemma wp_decoder_in buf enc :
  is_bytes buf -> enc_ok enc -> idle enc -> stream_ok enc ->
  wp (lsqpack_enc_decoder_in buf) enc (fun _ enc' => peer_run enc enc' /\ stream_ok enc').
Proof.
  intros Hb Hok Hi Hst. unfold lsqpack_enc_decoder_in. wpstep.
  eapply wp_mono; [by apply decoder_in_loop_ok|]. intros [[]|] enc' [H1 H2]; wpsteps; split; try done.
  by apply peer_run_bytes.
Qed.

(** ** The properties *)

(** C29: changing the capacity.  On success the table has it, and the bytes written are
    the instruction that makes the peer's table the encoder's, evictions included;
    on failure the encoder is as it was and there is no instruction to send. *)
Theorem set_max_capacity_correct capacity tsu_buf enc :
  enc_ok enc -> is_u32 capacity -> tsu_buf <> Some [] ->
  exists r out enc', lsqpack_enc_set_max_capacity capacity tsu_buf enc = Some ((r, out), enc')
    /\ enc_ok enc'
    /\ (r = ENC_OK -> qpe_cur_max_capacity (qpe_table enc') = capacity
         /\ exists l, instructions out l
              /\ apply_instructions (abs_table (qpe_table enc)) l = Some (abs_table (qpe_table enc')))
    /\ (r <> ENC_OK -> enc' = enc /\ out = []).
Proof.
  intros Hok Hu Ht. destruct (wp_run _ _ _ (wp_set_max_capacity capacity tsu_buf enc Hok Hu Ht))
    as ([r out] & enc' & Hrun & [H1 _ _ H2 H3 H4]).
  exists r, out, enc'. split_and!; [done|done| |done]. intros Hr. split; [by apply H3|]. destruct H2 as (l & Hl & Hal & _). by exists l.
Qed.

(** C18: a Section Acknowledgment, at any time, frees exactly one header block: the
    first of the stream that is not the one being encoded; every other block stays.
    It moves the known received count up to the block's largest reference, never
    down, and takes every block that count covers off the list at risk.  For a
    stream without such a block, and for an id that is no stream's, it is an error
    that changes nothing.  The core of the invariant is kept whenever it arrives,
    all of it between header blocks. *)
Theorem header_ack_correct stream_id enc :
  enc_ok enc ->
  exists b enc', enc_proc_header_ack stream_id enc = Some (b, enc')
    /\ enc_core enc' /\ (idle enc -> enc_ok enc') /\ qpe_table enc' = qpe_table enc
    /\ (b = true <-> stream_id <= MAX_QUIC_STREAM_ID /\ awaits_ack enc stream_id)
    /\ (b = false -> enc' = enc)
    /\ (b = true -> exists p, one_acked enc stream_id p enc')
    /\ (forall q, q ∈ all_hinfos enc' -> ~ is_cur enc' q ->
          (q ∈ qpe_risked_hinfos (qpe_hinfos enc') <-> qpe_max_acked_id enc' < qhi_max_id (hinfo_of enc' q))).
Proof.
  intros Hok. destruct (wp_run _ _ _ (wp_header_ack_any stream_id enc (ok_core _ Hok))) as (b & enc' & Hrun & Hp & H1 & H2).
  exists b, enc'. split; [done|]. split; [apply Hp|]. split; [intros Hi; by apply (change_step enc enc')|]. split; [apply Hp|]. split.
  { split.
    - intros Hb. destruct (H2 Hb) as [? (p & [(pre & post & Eall & _) Hs Hn _ _])]. split; [done|]. exists p.
      split_and!; [rewrite Eall; apply elem_of_app; right; left|done|done].
    - intros Ho. destruct b; [done|]. by destruct (proj2 (H1 eq_refl)). }
  split; [by intros Hb; apply H1|]. split; [by intros Hb; apply H2|].
  intros q Hq Hn. by apply (other_within enc' q (ps_core _ _ Hp)).
Qed.

(** C19: between header blocks, a Stream Cancellation frees exactly the outstanding
    header blocks of the stream
    and leaves the acknowledged count alone. *)
Theorem stream_cancel_correct stream_id enc :
  enc_ok enc -> idle enc -> stream_id <= MAX_QUIC_STREAM_ID ->
  exists enc', enc_proc_stream_cancel stream_id enc = Some (true, enc')
    /\ enc_ok enc' /\ qpe_table enc' = qpe_table enc /\ qpe_max_acked_id enc' = qpe_max_acked_id enc
    /\ forall q, q ∈ all_hinfos enc' <->
         q ∈ all_hinfos enc /\ qhi_stream_id (hinfo_of enc q) <> stream_id.
Proof.
  intros Hok Hi Hs.
  destruct (wp_run _ _ _ (wp_stream_cancel stream_id enc Hok Hi)) as (b & enc' & Hrun & Hp & H1 & H2).
  assert (b = true) as ->.
  { revert Hrun. unfold enc_proc_stream_cancel. destruct (Z.gtb_spec stream_id MAX_QUIC_STREAM_ID); [lia|].
    unfold mbind, st_m_bind. destruct (gets _ enc) as [[ps e1]|]; [|done].
    destruct (cancel_loop stream_id ps e1) as [[u e2]|]; [|done]. by intros [= <- _]. }
  exists enc'. split_and!; [done|apply Hp|apply Hp|by apply H2|by apply H2].
Qed.

(** C17: when no header block is being encoded ([idle]), [lsqpack_enc_decoder_in] copes
    with whatever bytes arrive on the decoder stream, in whatever chunks: it returns
    without undefined behaviour; the table stays as it is, the acknowledged count
    only grows and never exceeds the insertions, and the saved state is fit for the
    next chunk.  The condition is needed: [EncExamples.cancel_current_stream] shows
    what a Stream Cancellation does between lsqpack_enc_start_header and
    lsqpack_enc_end_header. *)
Theorem decoder_in_safe buf enc :
  is_bytes buf -> enc_ok enc -> idle enc -> stream_ok enc ->
  exists b enc', lsqpack_enc_decoder_in buf enc = Some (b, enc')
    /\ enc_ok enc' /\ idle enc' /\ stream_ok enc'
    /\ qpe_table enc' = qpe_table enc
    /\ qpe_max_acked_id enc <= qpe_max_acked_id enc' <= qpe_ins_count (qpe_table enc).
Proof.
  intros Hb Hok Hi Hs. destruct (wp_run _ _ _ (wp_decoder_in buf enc Hb Hok Hi Hs))
    as (b & enc' & Hrun & Hp & Hs'). pose proof (peer_run_ok _ _ Hp) as Hok'.
  exists b, enc'. split; [done|]. split; [done|]. split; [by apply (peer_run_idle enc)|].
  split; [done|]. destruct Hp as [s Hp]. pose proof (ps_table _ _ Hp) as Et. split; [exact Et|].
  pose proof (ps_acked _ _ Hp) as Ha. pose proof (ec_acked _ (ok_core _ Hok')) as [_ Hle].
  rewrite Et in Hle. cbn in *. lia.
Qed.
