(* ===== verification/EncTrace.v ===== *)
(** * The encoder over any sequence of calls

    [run] is the encoder's interface as a transition system: any interleaving of
    header blocks, fields, capacity changes and messages of the peer that obeys
    the calling conventions [call_ok].  From [lsqpack_enc_init] on the invariant
    holds, no call runs into undefined behaviour, and the bytes written on the
    encoder stream rebuild the encoder's dynamic table on the other side. *)

From stdpp Require Import sets.
From S2P Require Import Prelude Monad IntCodec HuffTables Huffman StrCodec Xxhash StaticTable Rfc9204.
From S2P Require Import History EncTable EncHinfo Float EncState EncPolicy EncEncode Encoder.
From S2P Require Import EncInv EncChoice EncAbs EncWire EncExec EncField EncOps EncPeer.

(** ** Initialisation *)

Definition ready (enc : lsqpack_enc) : Prop := enc_ok enc /\ stream_ok enc.

Definition empty_dyn : dyn_table := Dyn 0 0 [].

Lemma fresh_hist_wf nels mem :
  0 < nels < 2 ^ 31 ->
  hist_wf {| qpe_hist_els := Some (fresh_els mem (nels + 1)); qpe_hist_idx := 0; qpe_hist_nels := nels;
             qpe_hist_wrapped := false |}.
Proof.
  intros Hn. unfold hist_wf. cbn [qpe_hist_nels qpe_hist_els qpe_hist_idx qpe_hist_wrapped].
  unfold fresh_els. rewrite length_fmap, length_seqZ.
  destruct (Z.eqb_spec nels 0); lia.
Qed.

(** The table a successful initialisation leaves. *)
Lemma initial_table_wf dyn_table_size nbits buckets :
  is_u32 dyn_table_size ->
  (buckets = [] \/ nbits = 2 /\ buckets = replicate 4 empty_head) ->
  table_wf {| qpe_ins_count := 0; qpe_cur_bytes_used := 0; qpe_cur_max_capacity := dyn_table_size;
              qpe_dropped := 0; qpe_nelem := 0; qpe_nbits := nbits; qpe_all_entries := [];
              qpe_buckets := buckets |}.
Proof.
  intros Hd Hb. constructor; cbn; try done.
  - destruct Hb as [->|[-> ->]]; [by left|right]. split; [lia|]. split; [done|].
    intros i h Hi. apply lookup_replicate in Hi as [-> _]. done.
  - intros pre e post Hl. by destruct pre.
Qed.

Record initial (enc : lsqpack_enc) (max_size dyn_size risked : Z) : Prop := {
  it_table : exists nbits buckets, qpe_table enc =
    {| qpe_ins_count := 0; qpe_cur_bytes_used := 0; qpe_cur_max_capacity := dyn_size;
       qpe_dropped := 0; qpe_nelem := 0; qpe_nbits := nbits; qpe_all_entries := [];
       qpe_buckets := buckets |}
    /\ (max_size / DYNAMIC_ENTRY_OVERHEAD = 0 /\ buckets = []
        \/ nbits = 2 /\ buckets = replicate 4 empty_head);
  it_hist : hist_wf (qpe_hist enc);
  it_hinfos : qpe_hinfos enc = no_hinfos;
  it_acked : qpe_max_acked_id enc = 0 /\ qpe_last_ici enc = 0;
  it_real : qpe_real_max_capacity enc = max_size;
  it_entries : qpe_max_entries enc = max_size / DYNAMIC_ENTRY_OVERHEAD;
  it_risked : qpe_max_risked_streams enc = risked;
  it_header : ch_hinfo (qpe_cur_header enc) = None /\ ch_base_idx (qpe_cur_header enc) = 0;
  it_flag : ~ in_header enc;
  it_stream : dss_dec_int_state (qpe_dec_stream_state enc) = dec_int_fresh;
}.

Lemma initial_ready enc max_size dyn_size risked :
  initial enc max_size dyn_size risked ->
  is_u32 dyn_size -> dyn_size <= max_size < 2 ^ 31 -> is_u32 risked ->
  ready enc /\ idle enc /\ abs_table (qpe_table enc) = Dyn 0 dyn_size [].
Proof.
  intros [(nbits & buckets & Et & Hb) Hh Ehi [Ea El] Er Em Ek [Eh Ebi] Hf Es] Hd Hmax Hk.
  assert (table_wf (qpe_table enc)) as Ht.
  { rewrite Et. apply initial_table_wf; [done|]. destruct Hb as [[_ ?]|?]; auto. }
  split; [|split; [done|by rewrite Et]]. split; [|split; rewrite Es; [done|by intros ?]].
  constructor; [|rewrite Et; cbn; ulia|done|intros p o Hp; unfold is_cur in Hp; congruence].
  constructor; rewrite ?Ehi, ?Er, ?Em, ?Ea, ?El; try done.
  - rewrite Et. unfold has_buckets. cbn. intros Hm.
    destruct Hb as [[E _]|[_ ->]]; [lia|done].
  - rewrite Et. cbn. lia.
  - split; [done|]. rewrite Et. cbn. lia.
  - apply no_hinfos_wf.
  - rewrite Et. cbn. lia.
  - intros p Hp. unfold is_cur in Hp. congruence.
  - intros p. unfold all_hinfos. rewrite Ehi. by intros ?%elem_of_nil.
  - split; rewrite ?Ehi, ?Ek; [cbn; ulia|]. intros p Hp. unfold is_cur in Hp. congruence.
  - rewrite Ebi, Et. cbn. lia.
Qed.

Lemma init_history_spec ms dyn_size opts :
  let enc := lsqpack_enc_preinit ms in
  is_u32 dyn_size ->
  let '(ok, enc') := init_history dyn_size opts enc in
  exists h ms', enc' = set_mallocs ms' (set_hist h enc) /\ (ok = true -> hist_wf h).
Proof.
  intros enc Hd. unfold init_history. destruct (negb _).
  - unfold enc_malloc. destruct (malloc (qpe_mallocs enc)) as [[mem|] ms'];
      eexists _, _; (split; [reflexivity|]); [|done]. intros _. apply fresh_hist_wf.
    unfold DYNAMIC_ENTRY_OVERHEAD, GUESS_N_HEADER_FIELDS. change (2 ^ 31) with 2147483648. split; [lia|].
    unfold_words. change (2 ^ 32) with 4294967296 in *. dlia.
  - eexists _, _. split; [reflexivity|]. intros _. unfold hist_wf. cbn. lia.
Qed.

Lemma init_spec ms max_size dyn_size risked opts tsu out enc :
  is_u32 dyn_size ->
  lsqpack_enc_init (lsqpack_enc_preinit ms) max_size dyn_size risked opts tsu = (ENC_OK, out, enc) ->
  initial enc max_size dyn_size risked /\ dyn_size <= max_size
  /\ (dyn_size = 0 /\ out = [] \/ exists buf, tsu = Some buf /\ write_tsu buf dyn_size = Some out).
Proof.
  intros Hd. unfold lsqpack_enc_init. destruct (Z.gtb_spec dyn_size max_size); [done|].
  assert ((if negb (has_bits opts LSQPACK_ENC_OPT_STAGE_2) then lsqpack_enc_preinit
    (qpe_mallocs (lsqpack_enc_preinit ms)) else lsqpack_enc_preinit ms) = lsqpack_enc_preinit ms) as ->
    by (by destruct (negb _)).
  destruct (if negb (dyn_size =? LSQPACK_DEF_DYN_TABLE_SIZE) then _ else _) as [out'|e] eqn:Htsu.
  2: { intros [= -> _ _]. destruct (negb _); [|done]. destruct tsu as [[|b buf]|]; [done| |done].
       by destruct (write_tsu _ _). }
  assert (dyn_size = 0 /\ out' = [] \/ exists buf, tsu = Some buf /\ write_tsu buf dyn_size = Some out') as Hout.
  { unfold LSQPACK_DEF_DYN_TABLE_SIZE in Htsu. destruct (Z.eqb_spec dyn_size 0); [injection Htsu as <-; by left|].
    right. cbn [negb] in Htsu. destruct tsu as [[|b buf]|]; [done| |done].
    exists (b :: buf). split; [done|]. destruct (write_tsu _ _); [|done]. by injection Htsu as <-. }
  pose proof (init_history_spec ms dyn_size opts Hd) as Hh.
  destruct (init_history _ _ _) as [[] enc1]; cbn [negb]; [|done].
  destruct Hh as (h & ms' & -> & Hh). specialize (Hh eq_refl).
  unfold init_buckets. destruct (Z.eqb_spec (max_size / DYNAMIC_ENTRY_OVERHEAD) 0) as [E|E].
  - intros [= <- <-]. split; [|done].
    destruct (negb (has_bits opts LSQPACK_ENC_OPT_NO_DUP)), (has_bits opts LSQPACK_ENC_OPT_NO_MEM_GUARD);
      (constructor; try done; [eexists _, _; split; [reflexivity|by left]]).
  - unfold enc_malloc. destruct (malloc _) as [[mem|] ms'']; [|done].
    intros [= <- <-]. split; [|done].
    destruct (negb (has_bits opts LSQPACK_ENC_OPT_NO_DUP)), (has_bits opts LSQPACK_ENC_OPT_NO_MEM_GUARD);
      (constructor; try done; [eexists _, _; split; [reflexivity|by right]]).
Qed.

(** ** Calls *)

Inductive call :=
  | CStart (stream_id seqno : Z)
  | CEncode (bits0 : Z) (enc_buf hea_buf : bytes) (xhdr : lsxpack_header) (flags : Z)
  | CEnd (buf : bytes)
  | CCancel
  | CCapacity (capacity : Z) (tsu_buf : option bytes)
  | CDecoderIn (buf : bytes).

(** The calling conventions.  What the peer sent is processed between header
    blocks. *)
Definition call_ok (enc : lsqpack_enc) (c : call) : Prop :=
  match c with
  | CStart _ _ => arrs_guarded enc
  | CEncode _ enc_buf hea_buf xhdr _ =>
      in_header enc /\ xhdr_wf xhdr /\ is_bytes enc_buf /\ is_bytes hea_buf
  | CEnd _ | CCancel => True
  | CCapacity capacity tsu_buf => is_u32 capacity /\ tsu_buf <> Some []
  | CDecoderIn buf => idle enc /\ is_bytes buf
  end.

(** The bytes a call puts on the encoder stream. *)
Definition run_call (c : call) : enc_m bytes :=
  match c with
  | CStart stream_id seqno => lsqpack_enc_start_header stream_id seqno;; mret []
  | CEncode bits0 enc_buf hea_buf xhdr flags =>
      out ← lsqpack_enc_encode bits0 enc_buf hea_buf xhdr flags; mret (eo_enc out)
  | CEnd buf => lsqpack_enc_end_header buf;; mret []
  | CCancel => lsqpack_enc_cancel_header;; mret []
  | CCapacity capacity tsu_buf => r ← lsqpack_enc_set_max_capacity capacity tsu_buf; mret (snd r)
  | CDecoderIn buf => lsqpack_enc_decoder_in buf;; mret []
  end.

Inductive run : lsqpack_enc -> bytes -> lsqpack_enc -> Prop :=
  | run_nil enc : run enc [] enc
  | run_cons enc c b enc1 bs enc2 :
      call_ok enc c -> run_call c enc = Some (b, enc1) -> run enc1 bs enc2 -> run enc (b ++ bs) enc2.


Lemma ready_ok enc enc' :
  ready enc -> enc_ok enc' -> qpe_dec_stream_state enc' = qpe_dec_stream_state enc -> ready enc'.
Proof. intros [_ Hs] Hok E. split; [done|]. unfold stream_ok. by rewrite E. Qed.

(** A call runs, keeps the invariant, and its output takes the table along. *)
Lemma wp_call c enc :
  ready enc -> call_ok enc c ->
  wp (run_call c) enc (fun b enc' => ready enc' /\ stream_of enc b enc'
    /\ qpe_max_risked_streams enc' = qpe_max_risked_streams enc
    /\ qpe_real_max_capacity enc' = qpe_real_max_capacity enc).
Proof.
  intros Hrd Hc. pose proof Hrd as [Hok Hst]. destruct c; cbn [run_call call_ok] in *.
  - wpstep. eapply wp_mono; [by apply wp_start_header|]. intros r enc' (H1 & (H2 & _ & _ & _ & H3 & H4 & H5) & _).
    wpsteps. split; [by apply (ready_ok enc)|]. split; [|done]. apply stream_nil. by rewrite H2.
  - destruct Hc as (Hh & Hx & Hb1 & Hb2). wpstep.
    eapply wp_mono; [apply (wp_encode bits0 enc_buf hea_buf Hb1 Hb2 xhdr Hx flags enc), enc_ok_wf; done|].
    intros out enc' [H1 [H2 H3] _ H4]. wpsteps. split; [|split; [|split; apply H2]].
    + apply (ready_ok enc); [done|by apply (kept_ok enc)|apply H2].
    + destruct (eo_status out); [apply H4|..]; destruct H4 as [[-> _]%refused_output Hca];
        apply stream_nil, same_table_abs, Hca.
  - wpstep. eapply wp_mono; [by apply wp_end_header|]. intros r enc' [H1 (H2 & _ & _ & _ & H3 & H4 & H5) _].
    wpsteps. split; [by apply (ready_ok enc)|]. split; [|done]. apply stream_nil. by rewrite H2.
  - wpstep. eapply wp_mono; [by apply wp_cancel_header|]. intros r enc' (H1 & (H2 & _ & _ & _ & H3 & H4 & H5) & _).
    wpsteps. split; [by apply (ready_ok enc)|]. split; [|done]. apply stream_nil. by rewrite H2.
  - destruct Hc as [Hu Hn]. wpstep. eapply wp_mono; [by apply wp_set_max_capacity|].
    intros r enc' [H1 _ (H2 & _ & H4 & H5) H3 _ _]. wpsteps. split; [by apply (ready_ok enc)|done].
  - destruct Hc as [Hi Hb]. wpstep. eapply wp_mono; [by apply wp_decoder_in|].
    intros r enc' [H1 H2]. wpsteps. split; [split; [by apply (peer_run_ok enc)|done]|].
    destruct H1 as [s H1]. split; [apply stream_nil; by rewrite (ps_table _ _ H1)|].
    split; [apply (ps_risked _ _ H1)|apply (ps_real _ _ H1)].
Qed.

Lemma stream_app enc b enc1 bs enc2 :
  qpe_real_max_capacity enc1 = qpe_real_max_capacity enc ->
  stream_of enc b enc1 -> stream_of enc1 bs enc2 -> stream_of enc (b ++ bs) enc2.
Proof.
  intros Hr (l1 & H1 & H2 & H3) (l2 & H4 & H5 & H6). exists (l1 ++ l2). split; [by apply instructions_app|].
  rewrite Hr in H6. split; [by rewrite (apply_instructions_app _ _ _ _ H2)|by apply Forall_app].
Qed.

Lemma run_ok enc bs enc' : run enc bs enc' -> ready enc -> ready enc' /\ stream_of enc bs enc'
    /\ qpe_max_risked_streams enc' = qpe_max_risked_streams enc
    /\ qpe_real_max_capacity enc' = qpe_real_max_capacity enc.
Proof.
  induction 1 as [enc|enc c b enc1 bs enc2 Hc Hr _ IH]; intros Hrd.
  - split; [done|]. split; [|done]. by apply stream_nil.
  - pose proof (wp_call c enc Hrd Hc) as Hwp. unfold wp in Hwp. rewrite Hr in Hwp.
    destruct Hwp as (H1 & H2 & H2' & H2''). destruct (IH H1) as (H3 & H4 & H4' & H4'').
    split; [done|]. split; [by apply (stream_app _ _ enc1)|]. split; congruence.
Qed.

Lemma init_ok ms max_size dyn_size risked opts tsu out enc :
  is_u32 dyn_size -> max_size < 2 ^ 31 -> is_u32 risked ->
  lsqpack_enc_init (lsqpack_enc_preinit ms) max_size dyn_size risked opts tsu = (ENC_OK, out, enc) ->
  ready enc /\ idle enc /\ qpe_max_risked_streams enc = risked /\ qpe_real_max_capacity enc = max_size
  /\ exists l, instructions out l /\ apply_instructions empty_dyn l = Some (abs_table (qpe_table enc))
       /\ Forall (capacity_within max_size) l.
Proof.
  intros Hd Hm Hk H. destruct (init_spec _ _ _ _ _ _ _ _ Hd H) as (Hi & Hle & Hout).
  destruct (initial_ready _ _ _ _ Hi Hd (conj Hle Hm) Hk) as (H1 & H2 & ->).
  split_and!; [done|done|apply Hi|apply Hi|]. destruct Hout as [[-> ->]|(buf & _ & Hw)].
  - exists []. split; [constructor|done].
  - apply write_tsu_spec in Hw as [_ Hw]; [|exact Hd]. exists [ISetCapacity dyn_size].
    split; [|split; [done|by repeat constructor]]. rewrite <- (app_nil_r out). constructor; [done|constructor].
Qed.

(** Everything written so far. *)
Lemma stream_instructions ms max_size dyn_size risked opts tsu out enc0 bs enc :
  is_u32 dyn_size -> max_size < 2 ^ 31 -> is_u32 risked ->
  lsqpack_enc_init (lsqpack_enc_preinit ms) max_size dyn_size risked opts tsu = (ENC_OK, out, enc0) ->
  run enc0 bs enc ->
  exists l, instructions (out ++ bs) l
    /\ apply_instructions empty_dyn l = Some (abs_table (qpe_table enc))
    /\ Forall (capacity_within max_size) l.
Proof.
  intros Hd Hm Hk Hi Hr. destruct (init_ok _ _ _ _ _ _ _ _ Hd Hm Hk Hi) as (H0 & _ & _ & Hmax & l0 & H1 & H2 & H2').
  destruct (run_ok _ _ _ Hr H0) as (_ & (l & H3 & H4 & H4') & _). rewrite Hmax in H4'. exists (l0 ++ l).
  split; [by apply instructions_app|]. split; [by rewrite (apply_instructions_app _ _ _ _ H2)|by apply Forall_app].
Qed.

(** C9: no call of the interface that obeys the calling conventions runs into undefined
    behaviour.  From an encoder set up by [lsqpack_enc_init], after any run of such
    calls, every further one returns and leaves the encoder ready for the next.
    The conventions are those of [call_ok]; the one that matters is that what the
    peer sent is only processed while no header block is being encoded: without it
    [EncExamples.cancel_current_stream] is a run into undefined behaviour. *)
Theorem calls_never_stuck ms max_size dyn_size risked opts tsu out enc0 bs enc c :
  is_u32 dyn_size -> max_size < 2 ^ 31 -> is_u32 risked ->
  lsqpack_enc_init (lsqpack_enc_preinit ms) max_size dyn_size risked opts tsu = (ENC_OK, out, enc0) ->
  run enc0 bs enc -> call_ok enc c ->
  exists b enc', run_call c enc = Some (b, enc') /\ ready enc'.
Proof.
  intros Hd Hm Hk Hi Hr Hc. destruct (init_ok _ _ _ _ _ _ _ _ Hd Hm Hk Hi) as (H0 & _).
  destruct (run_ok _ _ _ Hr H0) as (Hrd & _).
  destruct (wp_run _ _ _ (wp_call c enc Hrd Hc)) as (b & enc' & H1 & H2 & _). eauto.
Qed.

(** C3: the tables of the two sides never diverge.  Whatever calls were made since
    [lsqpack_enc_init], the bytes written on the encoder stream, from the first
    on, are instructions of RFC 9204 all of which apply, and they turn the empty
    table into exactly the encoder's dynamic table. *)
Theorem stream_in_sync ms max_size dyn_size risked opts tsu out enc0 bs enc :
  is_u32 dyn_size -> max_size < 2 ^ 31 -> is_u32 risked ->
  lsqpack_enc_init (lsqpack_enc_preinit ms) max_size dyn_size risked opts tsu = (ENC_OK, out, enc0) ->
  run enc0 bs enc ->
  exists l, instructions (out ++ bs) l
    /\ read_instructions (length (out ++ bs)) (out ++ bs) = Some l
    /\ apply_instructions empty_dyn l = Some (abs_table (qpe_table enc)).
Proof.
  intros Hd Hm Hk Hi Hr.
  destruct (stream_instructions _ _ _ _ _ _ _ _ _ _ Hd Hm Hk Hi Hr) as (l & H1 & H2 & _).
  exists l. split; [done|]. split; [by apply read_instructions_complete|done].
Qed.

(** ** Streams at risk *)

Definition at_risk (enc : lsqpack_enc) (stream_id : Z) : Prop :=
  exists p, p ∈ all_hinfos enc /\ ~ is_cur enc p /\ qhi_stream_id (hinfo_of enc p) = stream_id
    /\ qpe_max_acked_id enc < qhi_max_id (hinfo_of enc p).

Lemma streams_at_risk_count enc sids :
  enc_ok enc -> NoDup sids -> (forall s, s ∈ sids -> at_risk enc s) ->
  Z.of_nat (length sids) <= qpe_max_risked_streams enc.
Proof.
  intros Hok Hnd Hs. pose proof (ok_core _ Hok) as Hc.
  destruct (hw_rings _ (ec_hinfos _ Hc)) as [rings Hr]. pose proof (proj1 (ec_risk _ Hc)) as Hle.
  rewrite (rk_count _ _ Hr) in Hle.
  assert (length sids <= length ((fun r => qhi_stream_id (hinfo_of enc (fst r))) <$> rings))%nat as Hl;
    [|rewrite length_fmap in Hl; lia].
  apply submseteq_length, NoDup_submseteq; [done|]. intros s Hin.
  destruct (Hs s Hin) as (p & Hp & Hn & <- & Hlt).
  destruct (other_within _ _ Hc Hp Hn) as [_ Hrk]. apply Hrk in Hlt.
  rewrite <- (rk_members _ _ Hr) in Hlt. apply list_elem_of_bind in Hlt as (r & Hpr & Hrr).
  apply list_elem_of_fmap. exists r. split; [|done].
  pose proof (rk_rings _ _ Hr) as HF. rewrite Forall_forall in HF. destruct (HF r Hrr) as [_ Hst].
  apply elem_of_cons in Hpr as [->|Hpr]; [done|]. by apply Hst.
Qed.

(** C13: the limit on blocked streams (RFC 9204, section 2.1.2) is respected: after any
    run of calls that obey the conventions, at most as many streams as [max_risked_streams] have a finished
    header block that refers to an entry not yet acknowledged. *)
Theorem blocked_streams_bounded ms max_size dyn_size risked opts tsu out enc0 bs enc sids :
  is_u32 dyn_size -> max_size < 2 ^ 31 -> is_u32 risked ->
  lsqpack_enc_init (lsqpack_enc_preinit ms) max_size dyn_size risked opts tsu = (ENC_OK, out, enc0) ->
  run enc0 bs enc -> NoDup sids -> (forall s, s ∈ sids -> at_risk enc s) ->
  Z.of_nat (length sids) <= risked.
Proof.
  intros Hd Hm Hk Hi Hr Hnd Hs. destruct (init_ok _ _ _ _ _ _ _ _ Hd Hm Hk Hi) as (H0 & _ & H1 & _).
  destruct (run_ok _ _ _ Hr H0) as ([Hok _] & _ & H2 & _). rewrite <- H1, <- H2.
  by apply (streams_at_risk_count enc).
Qed.
