(* ===== verification/EncBlock.v ===== *)
(** * A whole header block on the encoder's side

    A client starts a header block, encodes its fields one after the other and ends the
    block ([encode_block]).  What it gets is a header block of RFC 9204 for the fields it
    asked for ([wp_encode_block]): every representation still means its field when the
    block is complete, since no entry that the block refers to is evicted, and the
    Required Insert Count is the largest reference. *)

From stdpp Require Import sets.
From S2P Require Import Prelude Monad IntCodec HuffTables Huffman StrCodec Xxhash StaticTable Rfc9204.
From S2P Require Import History EncTable EncHinfo Float EncState EncPolicy EncEncode Encoder.
From S2P Require Import EncInv EncChoice EncAbs EncWire EncExec EncField EncOps EncPeer EncTrace.

(** ** The client *)

(** The arguments of a call of [lsqpack_enc_encode]. *)
Record field_call := {
  fc_bits0 : Z;
  fc_enc_buf : bytes;
  fc_hea_buf : bytes;
  fc_xhdr : lsxpack_header;
  fc_flags : Z;
}.

Definition field_call_ok (c : field_call) : Prop :=
  xhdr_wf (fc_xhdr c) /\ is_bytes (fc_enc_buf c) /\ is_bytes (fc_hea_buf c).

Definition asked_field (c : field_call) : hfield := (xh_name (fc_xhdr c), xh_value (fc_xhdr c)).

(** The bytes for the encoder stream, and the field lines if every call succeeded. *)
Fixpoint encode_fields (l : list field_call) : enc_m (bytes * option bytes) :=
  match l with
  | [] => mret ([], Some [])
  | c :: l =>
      out ← lsqpack_enc_encode (fc_bits0 c) (fc_enc_buf c) (fc_hea_buf c) (fc_xhdr c) (fc_flags c);
      match eo_status out with
      | LQES_OK =>
          '(stream, lines) ← encode_fields l;
          mret (eo_enc out ++ stream, (fun b => eo_hea out ++ b) <$> lines)
      | _ => mret (eo_enc out, None)
      end
  end.

(** The bytes for the encoder stream, and the header block. *)
Definition encode_block (stream_id seqno : Z) (l : list field_call) (buf : bytes) : enc_m (bytes * option bytes) :=
  ok ← lsqpack_enc_start_header stream_id seqno;
  if ok : bool then
    '(stream, lines) ← encode_fields l;
    match lines with
    | Some lines =>
        r ← lsqpack_enc_end_header buf;
        mret (stream, if 0 <? er_ret r then Some (er_out r ++ lines) else None)
    | None => mret (stream, None)
    end
  else mret ([], None).

(** ** What was written stays true *)

Lemma dt_get_entry t id f : table_wf t -> dt_get (abs_table t) id = Some f ->
  exists e, e ∈ qpe_all_entries t /\ ete_id e = id /\ nameval e = f.
Proof.
  intros Ht H. pose proof (dt_get_range _ _ _ H) as Hr. revert H. unfold dt_get. destruct (_ && _); [|done].
  cbn [abs_table dt_entries]. rewrite list_lookup_fmap.
  destruct (qpe_all_entries t !! _) as [e|] eqn:E; [|done]. cbn. intros [= <-]. exists e.
  split; [by eapply list_elem_of_lookup_2|]. split; [|done]. rewrite (entry_id_at _ _ _ Ht E).
  rewrite abs_oldest in * by done. cbn [abs_table dt_inserted] in Hr. rewrite (wf_nelem _ Ht) in *. lia.
Qed.

(** An entry the block refers to keeps its meaning. *)
Lemma get_stays enc enc' id f : enc_wf enc -> enc_wf enc' -> steady enc enc' -> referenced enc id ->
  dt_get (abs_table (qpe_table enc)) id = Some f -> dt_get (abs_table (qpe_table enc')) id = Some f.
Proof.
  intros Hwf Hwf' Hs Hr H. apply dt_get_entry in H as (e & He & <- & <-); [|apply Hwf].
  apply abs_get; [apply Hwf'|]. by apply (referenced_stays enc enc').
Qed.

Lemma resolve_stays enc enc' r f : enc_wf enc -> enc_wf enc' -> steady enc enc' ->
  (forall id, reference r = Some id -> referenced enc id) ->
  resolve (abs_table (qpe_table enc)) r = Some f -> resolve (abs_table (qpe_table enc')) r = Some f.
Proof.
  intros Hwf Hwf' Hs Hr. destruct r as [|id| |never id v|]; cbn [resolve reference] in *; try done.
  - apply get_stays; auto.
  - destruct (dt_get (abs_table (qpe_table enc)) id) as [g|] eqn:E; [|done].
    by rewrite (get_stays enc enc' id g Hwf Hwf' Hs (Hr id eq_refl) E).
Qed.

(** ** Counting *)

Definition count_all (l : list (representation * hfield)) (m : Z) : Z :=
  fold_left (fun m x => count_with (fst x) m) l m.

Lemma count_all_spec l : forall m, m <= count_all l m
  /\ (forall r f id, (r, f) ∈ l -> reference r = Some id -> id <= count_all l m)
  /\ (count_all l m = m \/ exists r f, (r, f) ∈ l /\ reference r = Some (count_all l m)).
Proof.
  induction l as [|[r f] l IH]; intros m; cbn [count_all fold_left fst].
  - split; [lia|]. split; [by intros r f id H%elem_of_nil|by left].
  - destruct (IH (count_with r m)) as (H1 & H2 & H3). fold (count_all l (count_with r m)).
    assert (m <= count_with r m /\ forall id, reference r = Some id -> id <= count_with r m) as [Hm Hid].
    { unfold count_with. destruct (reference r); [|done]. split; [lia|]. intros id [= ->]. lia. }
    split; [lia|]. split.
    + intros r' f' id [[= -> ->]|Hin]%elem_of_cons Hr; [specialize (Hid id Hr); lia|by eapply H2].
    + destruct H3 as [->|(r' & f' & Hin & Hr)]; [|right; exists r', f'; split; [by right|done]].
      unfold count_with. destruct (reference r) as [id|] eqn:E; [|by left].
      destruct (Z.max_spec m id) as [[_ ->]|[_ ->]]; [right|by left]. exists r, f. split; [by left|done].
Qed.

Lemma count_all_required l : required_by (count_all l 0) l.
Proof.
  destruct (count_all_spec l 0) as (_ & H1 & H2). split; [done|]. intros Hpos. destruct H2 as [E|H2]; [lia|done].
Qed.

(** ** The fields *)

Record fields_written (enc : lsqpack_enc) (l : list field_call) (stream lines : bytes)
  (reps : list (representation * hfield)) (enc' : lsqpack_enc) : Prop := {
  fw_section : field_section (abs_table (qpe_table enc')) (ch_base_idx (qpe_cur_header enc)) lines reps;
  fw_fields : snd <$> reps = asked_field <$> l;
  fw_never : Forall2 (fun c x => marks_never (asks_never (fc_xhdr c) (fc_flags c)) (fst x)) l reps;
  fw_refs : forall r f id, (r, f) ∈ reps -> reference r = Some id -> referenced enc' id;
  fw_count : required_count enc' = count_all reps (required_count enc);
}.

Lemma fields_cons enc c out enc1 l stream lines reps enc' :
  enc_wf enc -> enc_wf enc1 -> enc_wf enc' -> steady enc enc1 -> steady enc1 enc' ->
  represented enc (asked_field c) (asks_never (fc_xhdr c) (fc_flags c)) (eo_hea out) enc1 ->
  fields_written enc1 l stream lines reps enc' ->
  exists r, fields_written enc (c :: l) (eo_enc out ++ stream) (eo_hea out ++ lines) ((r, asked_field c) :: reps) enc'.
Proof.
  intros Hwf Hwf1 Hwf' Hs1 Hs2 (r & H1 & H2 & H3 & H4 & H5) [G1 G2 G3 G4 G5]. exists r.
  constructor.
  - rewrite (st_base _ _ (proj1 Hs1)) in G1. constructor; [done| |done].
    apply (resolve_stays enc1); try done. intros id Hid. by apply H4.
  - rewrite !fmap_cons. by f_equal.
  - by constructor.
  - intros r' f id [[= -> ->]|Hin]%elem_of_cons Hid; [|by eapply G4].
    apply (kept_referenced enc1 enc'); [apply Hs2|by apply H4].
  - cbn [count_all fold_left fst]. by rewrite G5, H5.
Qed.

Lemma wp_encode_fields l : Forall field_call_ok l -> forall enc, enc_wf enc ->
  wp (encode_fields l) enc (fun x enc' => enc_wf enc' /\ steady enc enc' /\ stream_of enc (fst x) enc'
    /\ forall lines, snd x = Some lines -> exists reps, fields_written enc l (fst x) lines reps enc').
Proof.
  induction 1 as [|c l [Hx [Hb1 Hb2]] _ IH]; intros enc Hwf; cbn [encode_fields].
  - wpsteps. split; [done|]. split; [reflexivity|]. split; [by apply stream_nil|]. intros lines [= <-]. exists [].
    constructor; [constructor|done|constructor|by intros r f id H%elem_of_nil|done].
  - wpstep. eapply wp_mono; [by apply (wp_encode (fc_bits0 c) _ _ Hb1 Hb2 _ Hx (fc_flags c) enc)|].
    intros out enc1 [Hwf1 Hs1 _ Hr].
    assert (eo_status out <> LQES_OK -> stream_of enc (eo_enc out) enc1) as Hfail.
    { intros Hn. assert (eo_enc out = [] /\ calm enc enc1) as [-> Hca]
        by (destruct (eo_status out); [done|..]; destruct Hr as [[? _]%refused_output ?]; done).
      apply stream_nil, same_table_abs, Hca. }
    destruct (eo_status out).
    + wpstep. eapply wp_mono; [by apply IH|]. intros [stream lines] enc' (Hwf' & Hs' & Hst & Hl). cbn [fst snd] in *.
      wpsteps. cbn [fst snd]. split; [done|]. split; [by etrans|]. split.
      { apply (stream_app enc _ enc1); [apply (st_real _ _ (proj1 Hs1))|apply Hr|done]. }
      intros all. destruct lines as [lines|]; [|done]. intros [= <-]. destruct (Hl lines eq_refl) as [reps Hw].
      destruct (fields_cons enc c out enc1 l stream lines reps enc' Hwf Hwf1 Hwf' Hs1 Hs') as [r Hfw];
        [apply Hr|done|by exists ((r, asked_field c) :: reps)].
    + wpsteps. split; [done|]. split; [done|]. split; [by apply Hfail|done].
    + wpsteps. split; [done|]. split; [done|]. split; [by apply Hfail|done].
Qed.

(** ** The Base *)

(** Without references the Base does not matter. *)
Lemma representation_base base base' b r rest :
  reference r = None -> read_representation base b = Some (r, rest) -> read_representation base' b = Some (r, rest).
Proof.
  intros Hr. destruct b as [|b0 src]; [done|]. cbn [read_representation].
  destruct (Z.testbit b0 7); [|destruct (Z.testbit b0 6); [|destruct (Z.testbit b0 5); [|destruct (Z.testbit b0 4)]]].
  - destruct (read_int 6 _) as [[n buf]|]; [|done]. cbn [mbind option_bind]. by destruct (Z.testbit b0 6); intros [= <- <-].
  - destruct (read_int_str 4 _) as [[[n v] buf]|]; [|done]. cbn [mbind option_bind]. by destruct (Z.testbit b0 4); intros [= <- <-].
  - done.
  - destruct (read_int 4 _) as [[n buf]|]; [|done]. cbn [mbind option_bind]. intros [= <- <-]. done.
  - destruct (read_int_str 3 _) as [[[n v] buf]|]; [|done]. cbn [mbind option_bind]. intros [= <- <-]. done.
Qed.

Lemma section_base t base base' buf l : field_section t base buf l ->
  (forall r f, (r, f) ∈ l -> reference r = None) -> field_section t base' buf l.
Proof.
  induction 1 as [|b r f bs l Hr Hf _ IH]; intros Hl; [constructor|].
  assert (reference r = None) as Hn by (apply (Hl r f); by left).
  constructor; [|done|apply IH; intros r' f' Hin; apply (Hl r' f'); by right].
  intros tail. by apply (representation_base base), Hr.
Qed.

(** ** The block *)

(** [block] is a header block for the fields of [l] with the references [reps]. *)
Record block_for (M : Z) (t : dyn_table) (l : list field_call) (block : bytes) (ric : Z)
  (reps : list (representation * hfield)) : Prop := {
  bk_fields : snd <$> reps = asked_field <$> l;
  bk_never : Forall2 (fun c x => marks_never (asks_never (fc_xhdr c) (fc_flags c)) (fst x)) l reps;
  bk_range : 0 <= ric <= dt_inserted t /\ (0 < ric -> 0 < M /\ dt_inserted t - M < ric);
  bk_minimal : count_minimal block;
  bk_valid : forall total, 0 <= total -> (0 < ric -> total - M < ric <= total + M) ->
    exists base, header_block M total t block ric base reps
      /\ (0 < ric -> ric - 2 * M <= base <= dt_inserted t);
}.

Lemma entries_fit enc : enc_ok enc -> Z.of_nat (length (entries enc)) <= qpe_max_entries enc.
Proof.
  intros Hok. pose proof (ok_core _ Hok) as Hc. pose proof (ec_table _ Hc) as Ht.
  pose proof (sizes_lower _ (wf_entries _ Ht)). pose proof (wf_used _ Ht). pose proof (ok_fits _ Hok).
  pose proof (ec_capacity _ Hc). rewrite (proj1 (ec_max_entries _ Hc)). unfold DYNAMIC_ENTRY_OVERHEAD.
  apply Z.div_le_lower_bound; [lia|]. unfold entries. lia.
Qed.

Lemma start_count enc : (forall p, is_cur enc p -> ids_unset (hinfo_of enc p)) -> required_count enc = 0.
Proof.
  intros H. unfold required_count, cur_hinfo. destruct (ch_hinfo (qpe_cur_header enc)) as [p|] eqn:E; [|done].
  apply (H p E).
Qed.

Lemma count_minimal_app out lines : count_minimal out -> count_minimal (out ++ lines).
Proof. intros H tail v rest. rewrite <- app_assoc. apply H. Qed.

(** The fields of a block just started, and its prefix. *)
Lemma block_complete enc enc1 enc2 l stream lines reps out :
  enc_ok enc -> enc_wf enc1 -> qpe_table enc1 = qpe_table enc -> qpe_max_acked_id enc1 = qpe_max_acked_id enc ->
  ch_base_idx (qpe_cur_header enc1) = qpe_ins_count (qpe_table enc) -> required_count enc1 = 0 ->
  enc_ok enc2 -> steady enc1 enc2 -> fields_written enc1 l stream lines reps enc2 -> prefix_of enc2 out ->
  block_for (qpe_max_entries enc2) (abs_table (qpe_table enc2)) l (out ++ lines) (required_count enc2) reps.
Proof.
  intros Hok Hwf1 Et Ea Eb Er Hok2 Hs [G1 G2 G3 G4 G5] [Hmin Hpre]. pose proof (ok_core _ Hok2) as Hc2.
  rewrite Er in G5. pose proof (count_all_required reps) as Hreq. rewrite <- G5 in Hreq.
  pose proof (entries_fit enc2 Hok2) as Hfit. pose proof (ec_table _ Hc2) as Ht2.
  assert (0 <= required_count enc2) as Hpos by (rewrite G5; apply (count_all_spec reps 0)).
  assert (gone enc2 <= qpe_ins_count (qpe_table enc)) as Hgone.
  { destruct Hs as [_ [_ Hg]]. rewrite Ea in Hg. unfold gone in Hg at 2. rewrite Et in Hg.
    pose proof (proj2 (ec_acked _ (ok_core _ Hok))). lia. }
  assert (0 < required_count enc2 -> dt_oldest (abs_table (qpe_table enc2)) <= required_count enc2 <= qpe_ins_count (qpe_table enc2)) as Hric.
  { intros H0. destruct (proj2 Hreq H0) as (r & f & Hin & Href). clear - G1 Hin Href.
    induction G1 as [|b r' f' bs l' _ Hres _ IH]; [by apply elem_of_nil in Hin|].
    apply elem_of_cons in Hin as [[= <- <-]|Hin]; [by apply (resolve_reference _ _ _ _ Hres)|auto]. }
  rewrite abs_oldest, (wf_nelem _ Ht2) in Hric by done. unfold entries in Hfit.
  assert (qpe_ins_count (qpe_table enc) <= qpe_ins_count (qpe_table enc2)) as Hins
    by (rewrite <- Et; apply (st_ins_count _ _ (proj1 Hs))).
  constructor; [done|done| |by apply count_minimal_app|].
  - cbn [abs_table dt_inserted]. split; [|intros H0; specialize (Hric H0); lia].
    destruct (wf_ins_count _ Ht2) as [? _]. destruct (Z.lt_ge_cases 0 (required_count enc2)) as [H0|?]; [specialize (Hric H0)|]; lia.
  - intros total Ht Hr. destruct (Hpre total lines Ht Hr) as (base & Hread & Hbase). exists base. split.
    + exists lines. split; [done|]. split; [|done]. destruct (Z.lt_ge_cases 0 (required_count enc2)) as [H0|H0].
      { rewrite (Hbase H0), (st_base _ _ (proj1 Hs)). done. }
      eapply section_base; [exact G1|]. intros r f Hin. destruct (reference r) as [id|] eqn:E; [|done].
      exfalso. pose proof (proj1 Hreq r f id Hin E). destruct (G4 r f id Hin E) as (p & _ & _ & H1 & _). lia.
    + intros H0. rewrite (Hbase H0), (st_base _ _ (proj1 Hs)), Eb. specialize (Hric H0). unfold gone, entries in Hgone.
      cbn [abs_table dt_inserted]. lia.
Qed.

(** What waits for an acknowledgement after a block on [stream_id] with the Required
    Insert Count [ric]: what did before, and the block if it refers to the table. *)
Record left_open (enc : lsqpack_enc) (stream_id ric : Z) (enc' : lsqpack_enc) : Prop := {
  lo_idle : idle enc';
  lo_acked : qpe_max_acked_id enc' = qpe_max_acked_id enc;
  lo_all : exists p, forall q, q ∈ all_hinfos enc' ->
    (q ∈ all_hinfos enc /\ qhi_stream_id (hinfo_of enc' q) = qhi_stream_id (hinfo_of enc q))
    \/ (q = p /\ 0 < ric /\ qhi_max_id (hinfo_of enc' q) = ric);
  lo_joins : 0 < ric -> outstanding enc' stream_id;
}.

Lemma block_left_open enc enc1 enc2 enc3 stream_id buf r :
  (forall q, is_cur enc1 q -> qhi_stream_id (hinfo_of enc1 q) = stream_id) ->
  (forall q, q ∈ all_hinfos enc1 -> ~ is_cur enc1 q -> q ∈ all_hinfos enc /\ hinfo_of enc1 q = hinfo_of enc q) ->
  qpe_max_acked_id enc1 = qpe_max_acked_id enc -> kept enc1 enc2 -> end_ok enc2 buf r enc3 -> 0 < er_ret r ->
  left_open enc stream_id (required_count enc2) enc3.
Proof.
  intros Hcur Hold Ea Hk [Hok Hv _ _ _ Hr] Hpos. rewrite (proj2 (Z.ltb_lt _ _) Hpos) in Hr.
  destruct Hr as (_ & Hnin & _ & _ & _ & Hjoin & Hleft).
  assert (forall q, is_cur enc2 q -> qhi_stream_id (hinfo_of enc2 q) = stream_id) as Hcur2.
  { intros q Hq. rewrite (st_stream_ids _ _ Hk). apply Hcur. by apply (kept_cur enc1 enc2 q Hk). }
  constructor.
  - by apply ok_flag.
  - destruct Hv as (_ & -> & _). by rewrite (st_acked _ _ Hk).
  - exists (default 0 (ch_hinfo (qpe_cur_header enc2))).
    intros q Hq. destruct (Hleft q Hq) as (Hq2 & Hpos2 & Es). rewrite Es. destruct (cur_or_not enc2 q) as [Hc|Hn].
    + right. split; [unfold is_cur in Hc; by rewrite Hc|]. split; [by apply Hpos2|]. by apply Hjoin; [|apply Hpos2].
    + left. rewrite (st_all _ _ Hk) in Hq2. rewrite (kept_cur enc1 enc2 q Hk) in Hn.
      destruct (Hold q Hq2 Hn) as [? E]. split; [done|]. by rewrite (st_stream_ids _ _ Hk), E.
  - intros H0. unfold required_count, cur_hinfo in H0. destruct (ch_hinfo (qpe_cur_header enc2)) as [q|] eqn:E; [|done].
    exists q. destruct (Hjoin q E) as [Hq _]; [unfold required_count, cur_hinfo; by rewrite E|]. split; [done|].
    destruct (Hleft q Hq) as (_ & _ & ->). by apply Hcur2.
Qed.

(** A block is a valid header block for the fields, the encoder stream takes the table
    along; the block waits for its acknowledgement. *)
Lemma wp_encode_block stream_id seqno l buf enc :
  ready enc -> arrs_guarded enc -> Forall field_call_ok l ->
  wp (encode_block stream_id seqno l buf) enc (fun x enc' =>
    ready enc' /\ stream_of enc (fst x) enc' /\ qpe_max_entries enc' = qpe_max_entries enc
    /\ forall block, snd x = Some block ->
       exists ric reps, block_for (qpe_max_entries enc) (abs_table (qpe_table enc')) l block ric reps
         /\ left_open enc stream_id ric enc').
Proof.
  intros Hrd Hg Hl. pose proof (proj1 Hrd) as Hok. unfold encode_block. wpstep.
  eapply wp_mono; [by apply wp_start_header|]. intros ok enc1 (Hok1 & (E1 & E2 & E3 & E4 & E5 & E6 & E7) & Hst).
  destruct ok.
  2: { wpsteps. split; [by apply (ready_ok enc)|]. split; [by apply stream_nil; rewrite E1|]. by split. }
  destruct Hst as (_ & Hin & Hb & Hu & Hold). pose proof (enc_ok_wf _ Hok1 Hin) as Hwf1.
  wpstep. eapply wp_mono; [by apply wp_encode_fields|]. intros [stream lines] enc2 (Hwf2 & Hs2 & Hst2 & Hw).
  cbn [fst snd] in *. pose proof (kept_ok _ _ Hok1 (proj1 Hs2) Hwf2) as Hok2.
  assert (stream_of enc stream enc2) as Hst.
  { destruct Hst2 as (il & H1 & H2 & H3). exists il. rewrite <- E1, <- E7. done. }
  assert (ready enc2) as Hrd2 by (apply (ready_ok enc); [done|done|by rewrite (st_stream _ _ (proj1 Hs2))]).
  assert (qpe_max_entries enc2 = qpe_max_entries enc) as Em by (by rewrite (st_entries _ _ (proj1 Hs2))).
  destruct lines as [lines|]; [|wpsteps; by split_and!].
  wpstep. eapply wp_mono; [by apply wp_end_header|]. intros r enc3 Hend.
  pose proof Hend as [Hok3 (F1 & F2 & F3 & F4 & F5 & _ & F7) _ _ _ Hr].
  wpsteps. cbn [fst snd]. split; [by apply (ready_ok enc2)|]. split.
  { destruct Hst as (il & H1 & H2 & H3). exists il. by rewrite F1. }
  split; [by rewrite F4|]. intros block. destruct (Z.ltb_spec 0 (er_ret r)) as [Hret|]; [|done]. intros [= <-].
  destruct Hr as (_ & _ & _ & _ & Hpre & _). destruct (Hw lines eq_refl) as [reps Hfw].
  exists (required_count enc2), reps. split.
  2: { apply (block_left_open enc enc1 enc2 enc3 stream_id buf r); try done; [intros p Hp; by apply Hu|apply Hs2]. }
  rewrite F1, <- Em. apply (block_complete enc enc1 enc2 l stream lines reps (er_out r)); try done.
  apply start_count. intros p Hp. by apply Hu.
Qed.
