(* ===== verification/EncExamples.v ===== *)
(** * The encoder at work

    Concrete encoders reached by the interface, on which the theorems about the
    encoder are applied. *)

From Stdlib Require Import String.
From stdpp Require Import sets.
From S2P Require Import Prelude Monad IntCodec HuffTables Huffman StrCodec Xxhash StaticTable Rfc9204.
From S2P Require Import History EncTable EncHinfo Float EncState EncPolicy EncEncode Encoder.
From S2P Require Import EncInv EncChoice EncAbs EncWire EncExec EncField EncOps EncPeer.
From S2P Require Import EncTrace.

(** All allocations succeed. *)
Definition ex_mallocs : mallocs := replicate 64 (Some (fun _ => 0)).

Definition ex_init : enc_ret * bytes * lsqpack_enc :=
  lsqpack_enc_init (lsqpack_enc_preinit ex_mallocs) 4096 4096 10 LSQPACK_ENC_OPT_IX_AGGR
    (Some (replicate 6 0)).
Definition ex_enc0 : lsqpack_enc := snd ex_init.

(** The state after some calls. *)
Fixpoint after_calls (cs : list call) (enc : lsqpack_enc) : bytes * lsqpack_enc :=
  match cs with
  | [] => ([], enc)
  | c :: cs => match run_call c enc with
               | Some (b, enc) => let '(bs, enc) := after_calls cs enc in (b ++ bs, enc)
               | None => ([], enc)
               end
  end.

Definition ex_field (name value : string) : lsxpack_header :=
  {| xh_name := str_bytes name; xh_value := str_bytes value; xh_flags := 0; xh_name_hash := 0;
     xh_nameval_hash := 0; xh_qpack_index := 0 |}.

Definition room (n : nat) : bytes := replicate n 0.

Definition ex_encode (name value : string) : call := CEncode 0 (room 64) (room 64) (ex_field name value) 0.

Lemma ex_init_eq : ex_init = (ENC_OK, snd (fst ex_init), ex_enc0).
Proof. vm_compute. reflexivity. Qed.

Lemma ex_ready : ready ex_enc0.
Proof.
  refine (proj1 (init_ok ex_mallocs 4096 4096 10 LSQPACK_ENC_OPT_IX_AGGR (Some (replicate 6 0))
    (snd (fst ex_init)) ex_enc0 _ _ _ ex_init_eq)); unfold is_u32; lia.
Qed.

(** A header block just started on stream 0. *)
Definition ex_enc1 : lsqpack_enc := snd (after_calls [CStart 0 0] ex_enc0).

Lemma ex_start_run : run_call (CStart 0 0) ex_enc0 = Some ([], ex_enc1).
Proof. vm_compute. reflexivity. Qed.

Lemma ex_ready1 : ready ex_enc1.
Proof.
  pose proof (wp_call (CStart 0 0) ex_enc0 ex_ready) as H. unfold wp in H.
  rewrite ex_start_run in H. apply H. intros Hg. vm_compute in Hg. discriminate.
Qed.

Lemma ex_wf1 : enc_wf ex_enc1.
Proof. apply enc_ok_wf; [apply ex_ready1|]. vm_compute. reflexivity. Qed.

Definition ex_xhdr : lsxpack_header := ex_field "x-a"%string "b"%string.

Lemma ex_xhdr_wf : xhdr_wf ex_xhdr.
Proof.
  constructor; try (vm_compute; split; done); try done;
    try (by repeat constructor; unfold is_u8; lia); intros H; vm_compute in H; discriminate.
Qed.

Lemma room_bytes n : is_bytes (room n).
Proof. apply Forall_replicate. unfold is_u8. lia. Qed.

(** The first field is encoded with an insertion. *)
Definition ex_out : encode_out * lsqpack_enc :=
  match lsqpack_enc_encode 0 (room 64) (room 64) ex_xhdr 0 ex_enc1 with
  | Some r => r
  | None => (no_room LQES_NOBUF_HEAD (room 64) (room 64), ex_enc1)
  end.

Lemma ex_encode_eq :
  lsqpack_enc_encode 0 (room 64) (room 64) ex_xhdr 0 ex_enc1 = Some (fst ex_out, snd ex_out).
Proof. vm_compute. reflexivity. Qed.

Lemma encode_safe_witness :
  exists out enc', lsqpack_enc_encode 0 (room 64) (room 64) ex_xhdr 0 ex_enc1 = Some (out, enc')
    /\ enc_wf enc' /\ kept ex_enc1 enc'
    /\ (forall e, e ∈ entries ex_enc1 -> e ∉ entries enc' -> evictable ex_enc1 (ete_id e))
    /\ (length (eo_enc out) <= 64)%nat /\ (length (eo_hea out) <= 64)%nat.
Proof.
  exact (encode_safe 0 (room 64) (room 64) ex_xhdr 0 ex_enc1 ex_wf1 ex_xhdr_wf (room_bytes 64)
    (room_bytes 64)).
Defined.

Lemma encode_refines_witness :
  exists r, (forall tail, read_representation 0 (eo_hea (fst ex_out) ++ tail) = Some (r, tail))
    /\ resolve (abs_table (qpe_table (snd ex_out))) r = Some (str_bytes "x-a"%string, str_bytes "b"%string).
Proof.
  destruct (encode_refines 0 (room 64) (room 64) ex_xhdr 0 ex_enc1 (fst ex_out) (snd ex_out) ex_wf1
    ex_xhdr_wf (room_bytes 64) (room_bytes 64) ex_encode_eq ltac:(vm_compute; reflexivity))
    as (_ & r & H1 & H2 & _).
  exists r. split; [exact H1|exact H2].
Defined.

(** Without room in the header buffer. *)
Definition ex_fail : encode_out * lsqpack_enc :=
  match lsqpack_enc_encode 0 (room 64) (room 1) ex_xhdr LQEF_NO_DYN ex_enc1 with
  | Some r => r
  | None => (no_room LQES_OK (room 64) (room 1), ex_enc1)
  end.

Lemma ex_fail_eq :
  lsqpack_enc_encode 0 (room 64) (room 1) ex_xhdr LQEF_NO_DYN ex_enc1 = Some (fst ex_fail, snd ex_fail).
Proof. vm_compute. reflexivity. Qed.

Lemma encode_no_room_witness :
  eo_status (fst ex_fail) = LQES_NOBUF_HEAD /\ eo_sizes (fst ex_fail) = None.
Proof.
  split; [vm_compute; reflexivity|].
  pose proof (encode_no_room 0 (room 64) (room 1) ex_xhdr LQEF_NO_DYN ex_enc1 (fst ex_fail) (snd ex_fail)
    ex_wf1 ex_xhdr_wf (room_bytes 64) (room_bytes 1) ex_fail_eq ltac:(vm_compute; discriminate)) as [_ [H _]].
  exact H.
Defined.

(** A whole header block with two fields, and its run. *)
Definition result_of (c : call) (enc : lsqpack_enc) : bytes * lsqpack_enc :=
  match run_call c enc with Some r => r | None => ([], enc) end.

Definition ex_call : call := ex_encode "x-a"%string "b"%string.
Definition ex_enc2 : lsqpack_enc := snd (result_of ex_call ex_enc1).
Definition ex_enc3 : lsqpack_enc := snd (result_of ex_call ex_enc2).
Definition ex_enc4 : lsqpack_enc := snd (result_of (CEnd (room 8)) ex_enc3).
Definition ex_bytes : bytes := [] ++ fst (result_of ex_call ex_enc1) ++ fst (result_of ex_call ex_enc2)
  ++ fst (result_of (CEnd (room 8)) ex_enc3) ++ [].

Lemma ex_call_ok enc : in_header enc -> call_ok enc ex_call.
Proof. intros H. split_and!; [done|apply ex_xhdr_wf|apply room_bytes|apply room_bytes]. Qed.

Lemma no_guard_ok enc :
  has_bits (qpe_flags enc) LSQPACK_ENC_NO_MEM_GUARD = false -> arrs_guarded enc.
Proof. intros E H. by rewrite E in H. Qed.

Lemma ex_run : run ex_enc0 ex_bytes ex_enc4.
Proof.
  unfold ex_bytes.
  apply (run_cons _ (CStart 0 0) _ ex_enc1); [apply no_guard_ok; vm_compute; reflexivity|exact ex_start_run|].
  apply (run_cons _ ex_call _ ex_enc2); [apply ex_call_ok; vm_compute; reflexivity|vm_compute; reflexivity|].
  apply (run_cons _ ex_call _ ex_enc3); [apply ex_call_ok; vm_compute; reflexivity|vm_compute; reflexivity|].
  apply (run_cons _ (CEnd (room 8)) _ ex_enc4); [exact I|vm_compute; reflexivity|]. constructor.
Qed.

Lemma ex_ready3 : ready ex_enc3.
Proof.
  refine (proj1 (run_ok ex_enc1 (fst (result_of ex_call ex_enc1) ++ fst (result_of ex_call ex_enc2) ++ [])
    ex_enc3 _ ex_ready1)).
  apply (run_cons _ ex_call _ ex_enc2); [apply ex_call_ok; vm_compute; reflexivity|vm_compute; reflexivity|].
  apply (run_cons _ ex_call _ ex_enc3); [apply ex_call_ok; vm_compute; reflexivity|vm_compute; reflexivity|].
  constructor.
Qed.

Lemma ex_ready4 : ready ex_enc4.
Proof. exact (proj1 (run_ok _ _ _ ex_run ex_ready)). Qed.

Lemma ex_idle4 : idle ex_enc4.
Proof. vm_compute. reflexivity. Qed.

Lemma u32_4096 : is_u32 4096.
Proof. unfold is_u32. lia. Qed.

Lemma u32_10 : is_u32 10.
Proof. unfold is_u32. lia. Qed.

Lemma calls_never_stuck_witness :
  exists b enc', run_call (CDecoderIn [0x80]) ex_enc4 = Some (b, enc') /\ ready enc'.
Proof.
  apply (calls_never_stuck ex_mallocs 4096 4096 10 LSQPACK_ENC_OPT_IX_AGGR (Some (replicate 6 0))
    (snd (fst ex_init)) ex_enc0 ex_bytes ex_enc4 (CDecoderIn [0x80]) u32_4096 ltac:(lia) u32_10
    ex_init_eq ex_run).
  split; [exact ex_idle4|]. repeat constructor; unfold is_u8; lia.
Defined.

Lemma stream_in_sync_witness :
  exists l, instructions (snd (fst ex_init) ++ ex_bytes) l
    /\ read_instructions (length (snd (fst ex_init) ++ ex_bytes)) (snd (fst ex_init) ++ ex_bytes) = Some l
    /\ apply_instructions empty_dyn l = Some (abs_table (qpe_table ex_enc4)).
Proof.
  exact (stream_in_sync ex_mallocs 4096 4096 10 LSQPACK_ENC_OPT_IX_AGGR (Some (replicate 6 0))
    (snd (fst ex_init)) ex_enc0 ex_bytes ex_enc4 u32_4096 ltac:(lia) u32_10 ex_init_eq ex_run).
Defined.

Lemma ex_at_risk : at_risk ex_enc4 0.
Proof.
  exists 0. split; [vm_compute; left|]. split; [vm_compute; discriminate|].
  split; vm_compute; reflexivity.
Qed.

Lemma blocked_streams_bounded_witness : Z.of_nat (length [0]) <= 10.
Proof.
  apply (blocked_streams_bounded ex_mallocs 4096 4096 10 LSQPACK_ENC_OPT_IX_AGGR (Some (replicate 6 0))
    (snd (fst ex_init)) ex_enc0 ex_bytes ex_enc4 [0] u32_4096 ltac:(lia) u32_10 ex_init_eq ex_run).
  - apply NoDup_singleton.
  - intros s Hs. apply list_elem_of_singleton in Hs as ->. exact ex_at_risk.
Defined.

Lemma end_header_correct_witness :
  exists r enc', lsqpack_enc_end_header (room 8) ex_enc3 = Some (r, enc') /\ end_ok ex_enc3 (room 8) r enc'.
Proof. exact (end_header_correct (room 8) ex_enc3 (proj1 ex_ready3)). Defined.

(** The capacity goes from 4096 to 40. *)
Lemma set_max_capacity_correct_witness :
  exists r out enc', lsqpack_enc_set_max_capacity 40 (Some (room 4)) ex_enc4 = Some ((r, out), enc')
    /\ enc_ok enc'.
Proof.
  destruct (set_max_capacity_correct 40 (Some (room 4)) ex_enc4 (proj1 ex_ready4)
    ltac:(unfold is_u32; lia) ltac:(discriminate)) as (r & out & enc' & H1 & H2 & _).
  exists r, out, enc'. split; [exact H1|exact H2].
Defined.

Lemma header_ack_correct_witness :
  exists b enc', enc_proc_header_ack 0 ex_enc4 = Some (b, enc') /\ enc_ok enc'.
Proof.
  destruct (header_ack_correct 0 ex_enc4 (proj1 ex_ready4)) as (b & enc' & H1 & _ & H2 & _).
  exists b, enc'. split; [exact H1|exact (H2 ex_idle4)].
Defined.

Lemma stream_cancel_correct_witness :
  exists enc', enc_proc_stream_cancel 0 ex_enc4 = Some (true, enc') /\ enc_ok enc'.
Proof.
  destruct (stream_cancel_correct 0 ex_enc4 (proj1 ex_ready4) ex_idle4 ltac:(vm_compute; discriminate))
    as (enc' & H1 & H2 & _).
  exists enc'. split; [exact H1|exact H2].
Defined.

Lemma decoder_in_safe_witness :
  exists b enc', lsqpack_enc_decoder_in [0x80; 0x41] ex_enc4 = Some (b, enc') /\ enc_ok enc'.
Proof.
  destruct (decoder_in_safe [0x80; 0x41] ex_enc4 ltac:(repeat constructor; unfold is_u8; lia)
    (proj1 ex_ready4) ex_idle4 (proj2 ex_ready4)) as (b & enc' & H1 & H2 & _).
  exists b, enc'. split; [exact H1|exact H2].
Defined.

(** ** Behaviours worth knowing *)

(** A Stream Cancellation for the stream whose header block is being encoded: the
    block, which refers to an unacknowledged entry but is not on the list at risk
    yet, is removed from that empty list and freed, and [hinfo] of the current
    header dangles. *)
Example cancel_current_stream :
  match enc_proc_stream_cancel 0 ex_enc3 with
  | Some (b, enc) => b = true /\ ch_hinfo (qpe_cur_header enc) = Some 0 /\ all_hinfos enc = []
  | None => False
  end.
Proof. vm_compute. auto. Qed.

(** A Section Acknowledgment between lsqpack_enc_start_header and
    lsqpack_enc_end_header, with at most one blocked stream allowed: it frees the
    earlier block of the stream, which [ch_other_at_risk] still names, and counts the
    stream out; lsqpack_enc_end_header joins the new block to the freed one and does
    not count the stream in again.  A second stream then passes for the first: two
    streams may block. *)
Definition ex_one : enc_ret * bytes * lsqpack_enc :=
  lsqpack_enc_init (lsqpack_enc_preinit ex_mallocs) 4096 4096 1 LSQPACK_ENC_OPT_IX_AGGR
    (Some (replicate 6 0)).

(** A block on [stream_id] that inserts a field of that name and refers to it; [during]
    is called before it ends. *)
Definition ex_block (stream_id seqno : Z) (name : string) (during : list call) : list call :=
  [CStart stream_id seqno; ex_encode name "b"%string; ex_encode name "b"%string] ++ during ++ [CEnd (room 8)].

Definition ex_acked_during : lsqpack_enc :=
  snd (after_calls (ex_block 0 0 "x-a"%string [] ++ ex_block 0 1 "x-b"%string [CDecoderIn [0x80]]
           ++ ex_block 4 0 "x-c"%string [])
         (snd ex_one)).

Example ack_uncounts_stream :
  qpe_max_risked_streams ex_acked_during = 1 /\ qpe_max_acked_id ex_acked_during = 1
  /\ (fun p => let h := hinfo_of ex_acked_during p in (qhi_stream_id h, qhi_max_id h)) <$> all_hinfos ex_acked_during
     = [(0, 2); (4, 3)]
  /\ qpe_cur_streams_at_risk (qpe_hinfos ex_acked_during) = 1.
Proof. vm_compute. auto. Qed.

(** An Insert Count Increment after a Section Acknowledgment: the acknowledgement
    moved [qpe_max_acked_id] to 1 and left [qpe_last_ici] at 0, so that the
    increment by 1 the peer sends for a second insertion counts from 0. *)
Definition ex_second : bytes * lsqpack_enc :=
  after_calls [CDecoderIn [0x80]; CStart 4 0; ex_encode "x-b"%string "c"%string; CEnd (room 8);
               CDecoderIn [0x01]] ex_enc4.

Example ici_after_ack :
  qpe_ins_count (qpe_table (snd ex_second)) = 2 /\ qpe_max_acked_id (snd ex_second) = 1.
Proof. vm_compute. auto. Qed.

(** Lowering the capacity evicts an entry that an outstanding header block refers
    to. *)
Example capacity_evicts_referenced :
  match lsqpack_enc_set_max_capacity 0 (Some (room 4)) ex_enc4 with
  | Some (_, enc) => entries enc = [] /\ qhi_min_id (hinfo_of enc 0) = 1
                     /\ qpe_max_acked_id enc = 0 /\ all_hinfos enc = [0]
  | None => False
  end.
Proof. vm_compute. auto. Qed.
