(* ===== verification/HuffStream.v ===== *)
(** * Huffman decoding in chunks

    What one call of [lsqpack_huff_decode_full] does to a string that arrives in
    pieces and is written to blocks of any size, in terms of the walk through the
    code tree of [Huffman]: a decoder state stands for a node of the tree and for
    the bits of the input that it has not used. *)

From S2P Require Import Prelude IntCodec HuffTables Huffman StrCodec.

(** The node a state stands for; a state with [resume] zero is reset by the call. *)
Definition huff_node (st : huff_decode_state) : Z :=
  if hds_resume st =? 0 then 1 else node_of (hds_status st).

(** The bits of [src] still to be used: resuming at 3 skips a nibble. *)
Definition huff_rest (resume : Z) (src : bytes) : list bool :=
  if resume =? 3
  then match src with [] => [] | b :: src => z_bits 4 (Z.land b 0xf) ++ bytes_bits src end
  else bytes_bits src.

(** The string that ends with [bs], read from node [p]. *)
Definition huff_finish (p : Z) (bs : list bool) : option bytes :=
  '(o, q) ← walk p bs;
  if node_accepts q then Some o else None.

Record huff_state_ok (st : huff_decode_state) : Prop := {
  hs_resume : 0 <= hds_resume st <= 3;
  hs_status : hds_resume st <> 0 -> status_ok (hds_status st);
}.

Lemma huff_fresh_ok : huff_state_ok huff_fresh.
Proof. by constructor. Qed.

Lemma huff_rest_app r src src' :
  (r = 3 -> src <> []) -> huff_rest r (src ++ src') = huff_rest r src ++ bytes_bits src'.
Proof.
  intros H. unfold huff_rest. destruct (Z.eqb_spec r 3); [|apply bytes_bits_app].
  destruct src as [|b src]; [by destruct H|]. cbn [app]. by rewrite bytes_bits_app, app_assoc.
Qed.

Lemma huff_rest_other r src : r <> 3 -> huff_rest r src = bytes_bits src.
Proof. intros H. unfold huff_rest. by destruct (Z.eqb_spec r 3). Qed.

(** ** A full destination *)

(** A run that stops because the destination is full has used the bits [bs]. *)
Definition full_spec (p : Z) (bits : list bool) (src : bytes) (room : nat) (r : huff_run) : Prop :=
  forall m, hr_exit r = HuffDstFull m ->
  (m = 2 \/ m = 3) /\ status_ok (hr_status r) /\ length (hr_out r) = room
  /\ (hr_nsrc r < length src)%nat
  /\ exists bs, bits = bs ++ huff_rest m (drop (hr_nsrc r) src)
       /\ walk p bs = Some (hr_out r, node_of (hr_status r)).

Lemma full_spec_lo b src room st :
  (forall room' st', status_ok st' ->
     full_spec (node_of st') (bytes_bits src) src room' (huff_loop src room' st')) ->
  is_u8 b -> status_ok st -> (0 < room)%nat ->
  full_spec (node_of st) (z_bits 4 (Z.land b 0xf) ++ bytes_bits src) (b :: src) room
    (huff_lo huff_loop b src room st).
Proof.
  intros IH Hb [Hwf _] Hroom m. destruct (byte_nibbles b Hb) as (_ & Hn & _).
  pose proof (dec4bits_walk _ st Hn Hwf) as Hw. unfold huff_lo.
  destruct (qdec_huff_dec4bits _ st) as [[o st']|] eqn:E; [|done].
  destruct Hw as (Hwf' & Heos' & Hw). apply dec4bits_len in E.
  cbn [run_add hr_exit hr_out hr_nsrc hr_status]. intros He.
  destruct (IH (room - length o)%nat st' ltac:(done) m He) as (Hm & Hst & Hlen & Hsrc & bs & Hbs & Hwk).
  split; [done|]. split; [done|]. rewrite length_app. split; [lia|]. cbn [length]. split; [lia|].
  exists (z_bits 4 (Z.land b 0xf) ++ bs). cbn [plus drop]. rewrite Hbs. split; [by rewrite app_assoc|].
  rewrite walk_app. unfold node_of at 1. rewrite Hw. unfold node_of in Hwk. cbn [mbind option_bind]. by rewrite Hwk.
Qed.

Lemma full_spec_hi b src room st :
  (forall room' st', status_ok st' ->
     full_spec (node_of st') (bytes_bits src) src room' (huff_loop src room' st')) ->
  is_u8 b -> status_ok st -> (0 < room)%nat ->
  full_spec (node_of st) (bytes_bits (b :: src)) (b :: src) room (huff_hi huff_loop b src room st).
Proof.
  intros IH Hb [Hwf _] Hroom m. destruct (byte_nibbles b Hb) as (Hn & _ & Hbits).
  rewrite bytes_bits_cons, Hbits, <- app_assoc.
  pose proof (dec4bits_walk _ st Hn Hwf) as Hw. unfold huff_hi.
  destruct (qdec_huff_dec4bits _ st) as [[o st']|] eqn:E; [|done].
  destruct Hw as (Hwf' & Heos' & Hw). apply dec4bits_len in E. case_decide as Hd.
  - cbn [hr_exit hr_out hr_nsrc hr_status]. intros [= <-]. split; [by right|]. split; [done|].
    split; [lia|]. cbn [length]. split; [lia|]. exists (z_bits 4 (Z.shiftr b 4)). done.
  - cbn [run_add hr_exit hr_out hr_nsrc hr_status]. intros He.
    destruct (full_spec_lo b src (room - length o) st' IH Hb ltac:(done) ltac:(lia) m He)
      as (Hm & Hst & Hlen & Hsrc & bs & Hbs & Hwk).
    split; [done|]. split; [done|]. rewrite length_app. split; [lia|]. split; [lia|].
    exists (z_bits 4 (Z.shiftr b 4) ++ bs). cbn [plus]. rewrite Hbs. split; [by rewrite app_assoc|].
    rewrite walk_app. unfold node_of at 1. rewrite Hw. unfold node_of in Hwk. cbn [mbind option_bind]. by rewrite Hwk.
Qed.

Lemma full_spec_loop src room st :
  is_bytes src -> status_ok st ->
  full_spec (node_of st) (bytes_bits src) src room (huff_loop src room st).
Proof.
  intros Hs. revert room st. induction src as [|b src IH]; intros room st Hst; [by intros m|].
  apply Forall_cons_1 in Hs as [Hb Hs]. cbn [huff_loop]. destruct (decide (room = 0)%nat) as [->|Hd].
  - intros m. cbn. intros [= <-]. split; [by left|]. split; [done|]. split; [done|]. split; [lia|].
    by exists [].
  - apply full_spec_hi; [|done|done|lia]. intros. by apply IH.
Qed.

(** The walk of a run started anywhere. *)
Lemma huff_switch_spec r src room st :
  is_bytes src -> status_ok st -> (r = 2 \/ r = 3 -> src <> []) -> (0 < room)%nat ->
  run_spec (node_of st) (huff_rest r src) (length src) room (huff_switch r src room st)
  /\ full_spec (node_of st) (huff_rest r src) src room (huff_switch r src room st).
Proof.
  intros Hs Hst Hr Hroom. destruct (Z.eq_dec r 2) as [->|H2]; [|destruct (Z.eq_dec r 3) as [->|H3]].
  - destruct src as [|b src]; [destruct Hr; auto|]. apply Forall_cons_1 in Hs as [Hb Hs].
    rewrite huff_rest_other by done. cbn [huff_switch]. split.
    + apply huff_hi_spec; [done..|]. intros. by apply huff_loop_spec.
    + apply full_spec_hi; [|done..]. intros. by apply full_spec_loop.
  - destruct src as [|b src]; [destruct Hr; auto|]. apply Forall_cons_1 in Hs as [Hb Hs].
    unfold huff_rest. cbn [huff_switch Z.eqb Pos.eqb]. split.
    + apply huff_lo_spec; [done..|]. intros. by apply huff_loop_spec.
    + apply full_spec_lo; [|done..]. intros. by apply full_spec_loop.
  - rewrite huff_rest_other, huff_switch_other by done. split; [by apply huff_loop_spec|by apply full_spec_loop].
Qed.

(** A run that fills the destination without finishing a byte ends between the
    nibbles of the first one. *)
Lemma huff_lo_src k b src room st :
  match hr_exit (huff_lo k b src room st) with
  | HuffDstFull _ => (0 < hr_nsrc (huff_lo k b src room st))%nat
  | _ => True
  end.
Proof. unfold huff_lo. destruct (qdec_huff_dec4bits _ st) as [[o st']|]; [|done]. cbn. case_match; [done|lia|done]. Qed.

Lemma huff_switch_progress r src room st m :
  (0 < room)%nat -> hr_exit (huff_switch r src room st) = HuffDstFull m ->
  (0 < hr_nsrc (huff_switch r src room st))%nat \/ r <> 3 /\ m = 3 /\ (room <= 1)%nat.
Proof.
  intros Hroom He.
  assert (forall b src, hr_exit (huff_hi huff_loop b src room st) = HuffDstFull m ->
    (0 < hr_nsrc (huff_hi huff_loop b src room st))%nat \/ m = 3 /\ (room <= 1)%nat) as Hhi.
  { intros b s. unfold huff_hi. destruct (qdec_huff_dec4bits _ st) as [[o st']|] eqn:E; [|done]. apply dec4bits_len in E.
    case_decide; [intros [= <-]; right; split; [done|lia]|]. cbn [run_add hr_exit hr_nsrc]. intros Hx.
    left. pose proof (huff_lo_src huff_loop b s (room - length o) st') as Hl. rewrite Hx in Hl. lia. }
  destruct (Z.eq_dec r 3) as [->|H3].
  - destruct src as [|b src]; [done|]. cbn [huff_switch] in *. left.
    pose proof (huff_lo_src huff_loop b src room st) as H. by rewrite He in H.
  - destruct (Z.eq_dec r 2) as [->|H2].
    + destruct src as [|b src]; [done|]. cbn [huff_switch] in *. destruct (Hhi _ _ He); auto.
    + rewrite huff_switch_other in * by done. destruct src as [|b src]; [done|]. cbn [huff_loop] in *.
      destruct (decide (room = 0)%nat); [lia|]. destruct (Hhi _ _ He); auto.
Qed.

(** ** One call *)

(** The status a call works with. *)
Definition huff_start (st : huff_decode_state) : decode_status :=
  if hds_resume st =? 0 then {| ds_state := 0; ds_eos := true |} else hds_status st.

Lemma huff_start_ok st : huff_state_ok st -> status_ok (huff_start st).
Proof.
  intros [_ H]. unfold huff_start. destruct (Z.eqb_spec (hds_resume st) 0); [apply huff_initial_ok|auto].
Qed.

Lemma huff_start_node st : node_of (huff_start st) = huff_node st.
Proof. unfold huff_start, huff_node. destruct (_ =? _); [apply node_initial|done]. Qed.

(** How a call that stops at a full destination brings the reader on: not at all, or by
    bytes, or by half a byte. *)
Definition huff_progress (room : nat) (st : huff_decode_state) (hdr : huff_decode_retval)
  (st' : huff_decode_state) : Prop :=
  (hdr_n_src hdr = 0%nat /\ hdr_out hdr = [] /\ st' = st)
  \/ (0 < hdr_n_src hdr)%nat
  \/ (hds_resume st <> 3 /\ hds_resume st' = 3 /\ length (hdr_out hdr) = room /\ (room <= 1)%nat).

(** Either the destination is filled, or the end is at hand and there are more symbols
    than there is room for. *)
Definition huff_full (src : bytes) (room : nat) (st : huff_decode_state) (final : bool) (hdr : huff_decode_retval)
  : Prop :=
  length (hdr_out hdr) = room
  \/ (final = true /\ hds_resume st = 0 /\ (5 * room <= 8 * length src)%nat
      /\ forall o, huff_finish (huff_node st) (huff_rest (hds_resume st) src) = Some o -> (room < length o)%nat).

Definition huff_call_spec (src : bytes) (room : nat) (st : huff_decode_state) (final : bool)
  (hdr : huff_decode_retval) (st' : huff_decode_state) : Prop :=
  let bits := huff_rest (hds_resume st) src in
  match hdr_status hdr with
  | HUFF_DEC_OK =>
      final = true /\ huff_finish (huff_node st) bits = Some (hdr_out hdr)
      /\ hdr_n_src hdr = length src /\ (length (hdr_out hdr) <= room)%nat
  | HUFF_DEC_END_SRC =>
      final = false /\ walk (huff_node st) bits = Some (hdr_out hdr, huff_node st')
      /\ hdr_n_src hdr = length src /\ (length (hdr_out hdr) <= room)%nat
      /\ hds_resume st' = 1 /\ huff_state_ok st'
  | HUFF_DEC_END_DST =>
      huff_state_ok st' /\ (length (hdr_out hdr) <= room)%nat /\ (hdr_n_src hdr < length src)%nat
      /\ (exists bs, bits = bs ++ huff_rest (hds_resume st') (drop (hdr_n_src hdr) src)
           /\ walk (huff_node st) bs = Some (hdr_out hdr, huff_node st'))
      /\ huff_progress room st hdr st' /\ huff_full src room st final hdr
  | HUFF_DEC_ERROR => forall bs, (final = true -> bs = []) -> huff_finish (huff_node st) (bits ++ bs) = None
  end.

Lemma huff_call src room st final hdr st' :
  is_bytes src -> (src = [] -> hds_resume st = 0 /\ (0 < room)%nat) -> huff_state_ok st ->
  lsqpack_huff_decode_full src room st final = (hdr, st') ->
  huff_call_spec src room st final hdr st'.
Proof.
  intros Hs Hne Hst. unfold lsqpack_huff_decode_full. fold (huff_start st). case_decide as Hd.
  { intros [= <- <-]. unfold huff_call_spec, huff_full. cbn. split; [done|]. split; [lia|].
    split; [destruct src; [destruct (Hne eq_refl); lia|cbn; lia]|]. split; [by exists []|]. split; [by left|by left]. }
  pose proof (huff_start_ok _ Hst) as Hok.
  destruct (huff_switch_spec (hds_resume st) src room (huff_start st)) as [[Hst' Hrun] Hfull]; [done|done| |lia|].
  { intros Hr E. destruct (Hne E). lia. }
  pose proof (huff_switch_progress (hds_resume st) src room (huff_start st)) as Hprog.
  rewrite huff_start_node in Hrun, Hfull. unfold huff_call_spec, huff_finish.
  destruct (hr_exit (huff_switch _ _ _ _)) as [|m|] eqn:He.
  - destruct Hrun as (Hw & Hn & Hl). destruct Hst' as [Hwf Heos]. destruct final.
    + intros [= <- <-]. cbn. destruct (ds_eos _) eqn:E; cbn.
      * rewrite Hw. cbn. unfold node_of. by rewrite <- Heos.
      * intros bs Hbs. rewrite Hbs, app_nil_r, Hw by done. cbn. unfold node_of. by rewrite <- Heos.
    + intros [= <- <-]. cbn. by rewrite Hw.
  - destruct (Hfull m He) as (Hm & _ & Hl & Hn & bs & Hbs & Hw). intros [= <- <-]. cbn.
    assert ((m =? 0) = false) as E0 by (destruct Hm as [-> | ->]; done).
    assert (huff_node {| hds_resume := m; hds_status := hr_status (huff_switch (hds_resume st) src room (huff_start st)) |}
      = node_of (hr_status (huff_switch (hds_resume st) src room (huff_start st)))) as Hnode
      by (unfold huff_node; cbn [hds_resume hds_status]; by rewrite E0).
    rewrite Hnode. split; [constructor; cbn; [destruct Hm; lia|done]|]. split; [lia|]. split; [done|].
    split; [by exists bs|]. split; [|by left]. right. cbn. destruct (Hprog m ltac:(lia) eq_refl) as [?|(? & ? & ?)]; auto.
  - intros [= <- <-]. cbn. intros bs _. by rewrite walk_app, Hrun.
Qed.

(** What a call writes: no more than there is room for, and bytes. *)
Lemma huff_call_room src room st final hdr st' :
  is_bytes src -> (src = [] -> hds_resume st = 0) -> huff_state_ok st ->
  lsqpack_huff_decode_full src room st final = (hdr, st') -> (length (hdr_out hdr) <= room)%nat.
Proof.
  intros Hs Hne Hst. unfold lsqpack_huff_decode_full. fold (huff_start st). case_decide as Hd.
  { intros [= <- <-]. cbn. lia. }
  pose proof (huff_start_ok _ Hst) as Hok.
  destruct (huff_switch_spec (hds_resume st) src room (huff_start st)) as [[_ Hrun] _]; [done|done| |lia|].
  { intros Hr E. rewrite (Hne E) in Hr. lia. }
  destruct (hr_exit (huff_switch _ _ _ _)) as [|m|].
  - destruct Hrun as (_ & _ & Hl). by destruct final; intros [= <- <-].
  - destruct Hrun as (Hl & _). intros [= <- <-]. cbn. lia.
  - intros [= <- <-]. cbn. lia.
Qed.

Lemma dec4bits_bytes n st o st' : qdec_huff_dec4bits n st = Some (o, st') -> is_bytes o.
Proof.
  unfold qdec_huff_dec4bits. destruct (has_bits _ _); [done|]. intros [= <- <-].
  destruct (has_bits _ _); [|constructor]. constructor; [apply u8_range|constructor].
Qed.

Lemma huff_lo_bytes b src room st :
  (forall room' st', is_bytes (hr_out (huff_loop src room' st'))) ->
  is_bytes (hr_out (huff_lo huff_loop b src room st)).
Proof.
  intros IH. unfold huff_lo. destruct (qdec_huff_dec4bits _ st) as [[o st']|] eqn:E; [|constructor].
  apply Forall_app. split; [by apply dec4bits_bytes in E|apply IH].
Qed.

Lemma huff_hi_bytes b src room st :
  (forall room' st', is_bytes (hr_out (huff_loop src room' st'))) ->
  is_bytes (hr_out (huff_hi huff_loop b src room st)).
Proof.
  intros IH. unfold huff_hi. destruct (qdec_huff_dec4bits _ st) as [[o st']|] eqn:E; [|constructor].
  apply dec4bits_bytes in E. case_decide; [done|]. apply Forall_app. split; [done|by apply huff_lo_bytes].
Qed.

Lemma huff_loop_bytes src room st : is_bytes (hr_out (huff_loop src room st)).
Proof.
  revert room st. induction src as [|b src IH]; intros room st; [constructor|]. cbn [huff_loop].
  case_decide; [constructor|by apply huff_hi_bytes].
Qed.

Lemma huff_call_bytes src room st final :
  is_bytes (hdr_out (fst (lsqpack_huff_decode_full src room st final))).
Proof.
  unfold lsqpack_huff_decode_full. case_decide; [constructor|]. fold (huff_start st).
  assert (is_bytes (hr_out (huff_switch (hds_resume st) src room (huff_start st)))) as Hb.
  { pose proof (huff_loop_bytes src) as Hloop. destruct (Z.eq_dec (hds_resume st) 2) as [->|H2];
      [|destruct (Z.eq_dec (hds_resume st) 3) as [->|H3]]; [| |by rewrite huff_switch_other].
    - destruct src; [apply huff_loop_bytes|]. apply huff_hi_bytes, huff_loop_bytes.
    - destruct src; [apply huff_loop_bytes|]. apply huff_lo_bytes, huff_loop_bytes. }
  destruct (hr_exit _); [destruct final|..]; done || constructor.
Qed.

(** ** Reading a string in one piece *)

(** What [read_str] does with a Huffman-coded string. *)
Lemma huff_one_shot raw n :
  is_bytes raw -> length raw = n ->
  let r := fst (lsqpack_huff_decode_full raw (S (2 * n)) huff_fresh true) in
  match hdr_status r with HUFF_DEC_OK => Some (hdr_out r) | _ => None end
  = huff_finish 1 (bytes_bits raw).
Proof.
  intros Hs <-. cbn zeta. rewrite huff_full_fresh by lia. cbn zeta.
  pose proof (huff_loop_spec raw (S (2 * length raw)) _ Hs huff_initial_ok) as [[_ Heos] H].
  rewrite node_initial in H. unfold huff_finish. destruct (hr_exit _) eqn:E.
  - destruct H as (-> & Hn & Hl). cbn [hdr_status hdr_out mbind option_bind]. unfold node_of.
    rewrite <- Heos. by destruct (ds_eos _).
  - destruct H as (_ & _ & H). cbn [hdr_status]. destruct (walk 1 (bytes_bits raw)) as [[o q]|] eqn:W; [|done].
    specialize (H _ _ eq_refl). apply walk_length in W. rewrite length_bytes_bits in W. lia.
  - by rewrite H.
Qed.

Lemma huff_finish_length bs o : huff_finish 1 bs = Some o -> (5 * length o <= length bs)%nat.
Proof.
  unfold huff_finish. destruct (walk 1 bs) as [[o' q]|] eqn:W; [|done]. cbn.
  destruct (node_accepts q); [|done]. intros [= <-]. by apply walk_length in W.
Qed.

(** Finishing after some bits have been used. *)
Lemma huff_finish_app p bs bs' o q :
  walk p bs = Some (o, q) -> huff_finish p (bs ++ bs') = (o ++.) <$> huff_finish q bs'.
Proof.
  intros W. unfold huff_finish. rewrite walk_app, W. cbn.
  destruct (walk q bs') as [[o' r]|]; [|done]. cbn. by destruct (node_accepts r).
Qed.
