(* ===== verification/HdecTable.v ===== *)
(** * The table [hdecs]

    [hdecs_<k>] has the elements [256 * k] to [256 * k + 255] of src/huff-tables.h:
    [D2 11 x y] is {(11<<2)|2,{x,y,0}}, and [X] is {0,{0,0,0}}.  They are the symbols
    that the code tree gives for the sixteen bits ([hdecs_rows]). *)

From S2P Require Import Prelude HuffTables Huffman HuffPairs.

#[local] Abbreviation D1 n x := (Hdec (Z.lor (Z.shiftl n 2) 1) [x; 0; 0]) (only parsing).
#[local] Abbreviation D2 n x y := (Hdec (Z.lor (Z.shiftl n 2) 2) [x; y; 0]) (only parsing).
#[local] Abbreviation D3 n x y z := (Hdec (Z.lor (Z.shiftl n 2) 3) [x; y; z]) (only parsing).
#[local] Abbreviation X := (Hdec 0 [0; 0; 0]) (only parsing).

Definition hdecs_0 : list hdec := [
  D3 15 48 48 48; D3 15 48 48 48; D3 15 48 48 49; D3 15 48 48 49; D3 15 48 48 50; D3 15 48 48 50; D3 15 48 48 97;
  D3 15 48 48 97; D3 15 48 48 99; D3 15 48 48 99; D3 15 48 48 101; D3 15 48 48 101; D3 15 48 48 105; D3 15 48 48 105;
  D3 15 48 48 111; D3 15 48 48 111; D3 15 48 48 115; D3 15 48 48 115; D3 15 48 48 116; D3 15 48 48 116;
  D3 16 48 48 32; D3 16 48 48 37; D3 16 48 48 45; D3 16 48 48 46; D3 16 48 48 47; D3 16 48 48 51; D3 16 48 48 52;
  D3 16 48 48 53; D3 16 48 48 54; D3 16 48 48 55; D3 16 48 48 56; D3 16 48 48 57; D3 16 48 48 61; D3 16 48 48 65;
  D3 16 48 48 95; D3 16 48 48 98; D3 16 48 48 100; D3 16 48 48 102; D3 16 48 48 103; D3 16 48 48 104; D3 16 48 48 108;
  D3 16 48 48 109; D3 16 48 48 110; D3 16 48 48 112; D3 16 48 48 114; D3 16 48 48 117; D2 10 48 48; D2 10 48 48;
  D2 10 48 48; D2 10 48 48; D2 10 48 48; D2 10 48 48; D2 10 48 48; D2 10 48 48; D2 10 48 48; D2 10 48 48; D2 10 48 48;
  D2 10 48 48; D2 10 48 48; D2 10 48 48; D2 10 48 48; D2 10 48 48; D2 10 48 48; D2 10 48 48; D3 15 48 49 48;
  D3 15 48 49 48; D3 15 48 49 49; D3 15 48 49 49; D3 15 48 49 50; D3 15 48 49 50; D3 15 48 49 97; D3 15 48 49 97;
  D3 15 48 49 99; D3 15 48 49 99; D3 15 48 49 101; D3 15 48 49 101; D3 15 48 49 105; D3 15 48 49 105; D3 15 48 49 111;
  D3 15 48 49 111; D3 15 48 49 115; D3 15 48 49 115; D3 15 48 49 116; D3 15 48 49 116; D3 16 48 49 32; D3 16 48 49 37;
  D3 16 48 49 45; D3 16 48 49 46; D3 16 48 49 47; D3 16 48 49 51; D3 16 48 49 52; D3 16 48 49 53; D3 16 48 49 54;
  D3 16 48 49 55; D3 16 48 49 56; D3 16 48 49 57; D3 16 48 49 61; D3 16 48 49 65; D3 16 48 49 95; D3 16 48 49 98;
  D3 16 48 49 100; D3 16 48 49 102; D3 16 48 49 103; D3 16 48 49 104; D3 16 48 49 108; D3 16 48 49 109;
  D3 16 48 49 110; D3 16 48 49 112; D3 16 48 49 114; D3 16 48 49 117; D2 10 48 49; D2 10 48 49; D2 10 48 49;
  D2 10 48 49; D2 10 48 49; D2 10 48 49; D2 10 48 49; D2 10 48 49; D2 10 48 49; D2 10 48 49; D2 10 48 49; D2 10 48 49;
  D2 10 48 49; D2 10 48 49; D2 10 48 49; D2 10 48 49; D2 10 48 49; D2 10 48 49; D3 15 48 50 48; D3 15 48 50 48;
  D3 15 48 50 49; D3 15 48 50 49; D3 15 48 50 50; D3 15 48 50 50; D3 15 48 50 97; D3 15 48 50 97; D3 15 48 50 99;
  D3 15 48 50 99; D3 15 48 50 101; D3 15 48 50 101; D3 15 48 50 105; D3 15 48 50 105; D3 15 48 50 111;
  D3 15 48 50 111; D3 15 48 50 115; D3 15 48 50 115; D3 15 48 50 116; D3 15 48 50 116; D3 16 48 50 32; D3 16 48 50 37;
  D3 16 48 50 45; D3 16 48 50 46; D3 16 48 50 47; D3 16 48 50 51; D3 16 48 50 52; D3 16 48 50 53; D3 16 48 50 54;
  D3 16 48 50 55; D3 16 48 50 56; D3 16 48 50 57; D3 16 48 50 61; D3 16 48 50 65; D3 16 48 50 95; D3 16 48 50 98;
  D3 16 48 50 100; D3 16 48 50 102; D3 16 48 50 103; D3 16 48 50 104; D3 16 48 50 108; D3 16 48 50 109;
  D3 16 48 50 110; D3 16 48 50 112; D3 16 48 50 114; D3 16 48 50 117; D2 10 48 50; D2 10 48 50; D2 10 48 50;
  D2 10 48 50; D2 10 48 50; D2 10 48 50; D2 10 48 50; D2 10 48 50; D2 10 48 50; D2 10 48 50; D2 10 48 50; D2 10 48 50;
  D2 10 48 50; D2 10 48 50; D2 10 48 50; D2 10 48 50; D2 10 48 50; D2 10 48 50; D3 15 48 97 48; D3 15 48 97 48;
  D3 15 48 97 49; D3 15 48 97 49; D3 15 48 97 50; D3 15 48 97 50; D3 15 48 97 97; D3 15 48 97 97; D3 15 48 97 99;
  D3 15 48 97 99; D3 15 48 97 101; D3 15 48 97 101; D3 15 48 97 105; D3 15 48 97 105; D3 15 48 97 111;
  D3 15 48 97 111; D3 15 48 97 115; D3 15 48 97 115; D3 15 48 97 116; D3 15 48 97 116; D3 16 48 97 32; D3 16 48 97 37;
  D3 16 48 97 45; D3 16 48 97 46; D3 16 48 97 47; D3 16 48 97 51; D3 16 48 97 52; D3 16 48 97 53; D3 16 48 97 54;
  D3 16 48 97 55; D3 16 48 97 56; D3 16 48 97 57; D3 16 48 97 61; D3 16 48 97 65; D3 16 48 97 95; D3 16 48 97 98;
  D3 16 48 97 100; D3 16 48 97 102; D3 16 48 97 103; D3 16 48 97 104; D3 16 48 97 108; D3 16 48 97 109;
  D3 16 48 97 110; D3 16 48 97 112; D3 16 48 97 114; D3 16 48 97 117; D2 10 48 97; D2 10 48 97; D2 10 48 97;
  D2 10 48 97; D2 10 48 97; D2 10 48 97; D2 10 48 97; D2 10 48 97; D2 10 48 97; D2 10 48 97; D2 10 48 97; D2 10 48 97;
  D2 10 48 97; D2 10 48 97; D2 10 48 97; D2 10 48 97; D2 10 48 97; D2 10 48 97].
Definition hdecs_1 : list hdec := [
  D3 15 48 99 48; D3 15 48 99 48; D3 15 48 99 49; D3 15 48 99 49; D3 15 48 99 50; D3 15 48 99 50; D3 15 48 99 97;
  D3 15 48 99 97; D3 15 48 99 99; D3 15 48 99 99; D3 15 48 99 101; D3 15 48 99 101; D3 15 48 99 105; D3 15 48 99 105;
  D3 15 48 99 111; D3 15 48 99 111; D3 15 48 99 115; D3 15 48 99 115; D3 15 48 99 116; D3 15 48 99 116;
  D3 16 48 99 32; D3 16 48 99 37; D3 16 48 99 45; D3 16 48 99 46; D3 16 48 99 47; D3 16 48 99 51; D3 16 48 99 52;
  D3 16 48 99 53; D3 16 48 99 54; D3 16 48 99 55; D3 16 48 99 56; D3 16 48 99 57; D3 16 48 99 61; D3 16 48 99 65;
  D3 16 48 99 95; D3 16 48 99 98; D3 16 48 99 100; D3 16 48 99 102; D3 16 48 99 103; D3 16 48 99 104; D3 16 48 99 108;
  D3 16 48 99 109; D3 16 48 99 110; D3 16 48 99 112; D3 16 48 99 114; D3 16 48 99 117; D2 10 48 99; D2 10 48 99;
  D2 10 48 99; D2 10 48 99; D2 10 48 99; D2 10 48 99; D2 10 48 99; D2 10 48 99; D2 10 48 99; D2 10 48 99; D2 10 48 99;
  D2 10 48 99; D2 10 48 99; D2 10 48 99; D2 10 48 99; D2 10 48 99; D2 10 48 99; D2 10 48 99; D3 15 48 101 48;
  D3 15 48 101 48; D3 15 48 101 49; D3 15 48 101 49; D3 15 48 101 50; D3 15 48 101 50; D3 15 48 101 97;
  D3 15 48 101 97; D3 15 48 101 99; D3 15 48 101 99; D3 15 48 101 101; D3 15 48 101 101; D3 15 48 101 105;
  D3 15 48 101 105; D3 15 48 101 111; D3 15 48 101 111; D3 15 48 101 115; D3 15 48 101 115; D3 15 48 101 116;
  D3 15 48 101 116; D3 16 48 101 32; D3 16 48 101 37; D3 16 48 101 45; D3 16 48 101 46; D3 16 48 101 47;
  D3 16 48 101 51; D3 16 48 101 52; D3 16 48 101 53; D3 16 48 101 54; D3 16 48 101 55; D3 16 48 101 56;
  D3 16 48 101 57; D3 16 48 101 61; D3 16 48 101 65; D3 16 48 101 95; D3 16 48 101 98; D3 16 48 101 100;
  D3 16 48 101 102; D3 16 48 101 103; D3 16 48 101 104; D3 16 48 101 108; D3 16 48 101 109; D3 16 48 101 110;
  D3 16 48 101 112; D3 16 48 101 114; D3 16 48 101 117; D2 10 48 101; D2 10 48 101; D2 10 48 101; D2 10 48 101;
  D2 10 48 101; D2 10 48 101; D2 10 48 101; D2 10 48 101; D2 10 48 101; D2 10 48 101; D2 10 48 101; D2 10 48 101;
  D2 10 48 101; D2 10 48 101; D2 10 48 101; D2 10 48 101; D2 10 48 101; D2 10 48 101; D3 15 48 105 48;
  D3 15 48 105 48; D3 15 48 105 49; D3 15 48 105 49; D3 15 48 105 50; D3 15 48 105 50; D3 15 48 105 97;
  D3 15 48 105 97; D3 15 48 105 99; D3 15 48 105 99; D3 15 48 105 101; D3 15 48 105 101; D3 15 48 105 105;
  D3 15 48 105 105; D3 15 48 105 111; D3 15 48 105 111; D3 15 48 105 115; D3 15 48 105 115; D3 15 48 105 116;
  D3 15 48 105 116; D3 16 48 105 32; D3 16 48 105 37; D3 16 48 105 45; D3 16 48 105 46; D3 16 48 105 47;
  D3 16 48 105 51; D3 16 48 105 52; D3 16 48 105 53; D3 16 48 105 54; D3 16 48 105 55; D3 16 48 105 56;
  D3 16 48 105 57; D3 16 48 105 61; D3 16 48 105 65; D3 16 48 105 95; D3 16 48 105 98; D3 16 48 105 100;
  D3 16 48 105 102; D3 16 48 105 103; D3 16 48 105 104; D3 16 48 105 108; D3 16 48 105 109; D3 16 48 105 110;
  D3 16 48 105 112; D3 16 48 105 114; D3 16 48 105 117; D2 10 48 105; D2 10 48 105; D2 10 48 105; D2 10 48 105;
  D2 10 48 105; D2 10 48 105; D2 10 48 105; D2 10 48 105; D2 10 48 105; D2 10 48 105; D2 10 48 105; D2 10 48 105;
  D2 10 48 105; D2 10 48 105; D2 10 48 105; D2 10 48 105; D2 10 48 105; D2 10 48 105; D3 15 48 111 48;
  D3 15 48 111 48; D3 15 48 111 49; D3 15 48 111 49; D3 15 48 111 50; D3 15 48 111 50; D3 15 48 111 97;
  D3 15 48 111 97; D3 15 48 111 99; D3 15 48 111 99; D3 15 48 111 101; D3 15 48 111 101; D3 15 48 111 105;
  D3 15 48 111 105; D3 15 48 111 111; D3 15 48 111 111; D3 15 48 111 115; D3 15 48 111 115; D3 15 48 111 116;
  D3 15 48 111 116; D3 16 48 111 32; D3 16 48 111 37; D3 16 48 111 45; D3 16 48 111 46; D3 16 48 111 47;
  D3 16 48 111 51; D3 16 48 111 52; D3 16 48 111 53; D3 16 48 111 54; D3 16 48 111 55; D3 16 48 111 56;
  D3 16 48 111 57; D3 16 48 111 61; D3 16 48 111 65; D3 16 48 111 95; D3 16 48 111 98; D3 16 48 111 100;
  D3 16 48 111 102; D3 16 48 111 103; D3 16 48 111 104; D3 16 48 111 108; D3 16 48 111 109; D3 16 48 111 110;
  D3 16 48 111 112; D3 16 48 111 114; D3 16 48 111 117; D2 10 48 111; D2 10 48 111; D2 10 48 111; D2 10 48 111;
  D2 10 48 111; D2 10 48 111; D2 10 48 111; D2 10 48 111; D2 10 48 111; D2 10 48 111; D2 10 48 111; D2 10 48 111;
  D2 10 48 111; D2 10 48 111; D2 10 48 111; D2 10 48 111; D2 10 48 111; D2 10 48 111].
Definition hdecs_2 : list hdec := [
  D3 15 48 115 48; D3 15 48 115 48; D3 15 48 115 49; D3 15 48 115 49; D3 15 48 115 50; D3 15 48 115 50;
  D3 15 48 115 97; D3 15 48 115 97; D3 15 48 115 99; D3 15 48 115 99; D3 15 48 115 101; D3 15 48 115 101;
  D3 15 48 115 105; D3 15 48 115 105; D3 15 48 115 111; D3 15 48 115 111; D3 15 48 115 115; D3 15 48 115 115;
  D3 15 48 115 116; D3 15 48 115 116; D3 16 48 115 32; D3 16 48 115 37; D3 16 48 115 45; D3 16 48 115 46;
  D3 16 48 115 47; D3 16 48 115 51; D3 16 48 115 52; D3 16 48 115 53; D3 16 48 115 54; D3 16 48 115 55;
  D3 16 48 115 56; D3 16 48 115 57; D3 16 48 115 61; D3 16 48 115 65; D3 16 48 115 95; D3 16 48 115 98;
  D3 16 48 115 100; D3 16 48 115 102; D3 16 48 115 103; D3 16 48 115 104; D3 16 48 115 108; D3 16 48 115 109;
  D3 16 48 115 110; D3 16 48 115 112; D3 16 48 115 114; D3 16 48 115 117; D2 10 48 115; D2 10 48 115; D2 10 48 115;
  D2 10 48 115; D2 10 48 115; D2 10 48 115; D2 10 48 115; D2 10 48 115; D2 10 48 115; D2 10 48 115; D2 10 48 115;
  D2 10 48 115; D2 10 48 115; D2 10 48 115; D2 10 48 115; D2 10 48 115; D2 10 48 115; D2 10 48 115; D3 15 48 116 48;
  D3 15 48 116 48; D3 15 48 116 49; D3 15 48 116 49; D3 15 48 116 50; D3 15 48 116 50; D3 15 48 116 97;
  D3 15 48 116 97; D3 15 48 116 99; D3 15 48 116 99; D3 15 48 116 101; D3 15 48 116 101; D3 15 48 116 105;
  D3 15 48 116 105; D3 15 48 116 111; D3 15 48 116 111; D3 15 48 116 115; D3 15 48 116 115; D3 15 48 116 116;
  D3 15 48 116 116; D3 16 48 116 32; D3 16 48 116 37; D3 16 48 116 45; D3 16 48 116 46; D3 16 48 116 47;
  D3 16 48 116 51; D3 16 48 116 52; D3 16 48 116 53; D3 16 48 116 54; D3 16 48 116 55; D3 16 48 116 56;
  D3 16 48 116 57; D3 16 48 116 61; D3 16 48 116 65; D3 16 48 116 95; D3 16 48 116 98; D3 16 48 116 100;
  D3 16 48 116 102; D3 16 48 116 103; D3 16 48 116 104; D3 16 48 116 108; D3 16 48 116 109; D3 16 48 116 110;
  D3 16 48 116 112; D3 16 48 116 114; D3 16 48 116 117; D2 10 48 116; D2 10 48 116; D2 10 48 116; D2 10 48 116;
  D2 10 48 116; D2 10 48 116; D2 10 48 116; D2 10 48 116; D2 10 48 116; D2 10 48 116; D2 10 48 116; D2 10 48 116;
  D2 10 48 116; D2 10 48 116; D2 10 48 116; D2 10 48 116; D2 10 48 116; D2 10 48 116; D3 16 48 32 48; D3 16 48 32 49;
  D3 16 48 32 50; D3 16 48 32 97; D3 16 48 32 99; D3 16 48 32 101; D3 16 48 32 105; D3 16 48 32 111; D3 16 48 32 115;
  D3 16 48 32 116; D2 11 48 32; D2 11 48 32; D2 11 48 32; D2 11 48 32; D2 11 48 32; D2 11 48 32; D2 11 48 32;
  D2 11 48 32; D2 11 48 32; D2 11 48 32; D2 11 48 32; D2 11 48 32; D2 11 48 32; D2 11 48 32; D2 11 48 32; D2 11 48 32;
  D2 11 48 32; D2 11 48 32; D2 11 48 32; D2 11 48 32; D2 11 48 32; D2 11 48 32; D3 16 48 37 48; D3 16 48 37 49;
  D3 16 48 37 50; D3 16 48 37 97; D3 16 48 37 99; D3 16 48 37 101; D3 16 48 37 105; D3 16 48 37 111; D3 16 48 37 115;
  D3 16 48 37 116; D2 11 48 37; D2 11 48 37; D2 11 48 37; D2 11 48 37; D2 11 48 37; D2 11 48 37; D2 11 48 37;
  D2 11 48 37; D2 11 48 37; D2 11 48 37; D2 11 48 37; D2 11 48 37; D2 11 48 37; D2 11 48 37; D2 11 48 37; D2 11 48 37;
  D2 11 48 37; D2 11 48 37; D2 11 48 37; D2 11 48 37; D2 11 48 37; D2 11 48 37; D3 16 48 45 48; D3 16 48 45 49;
  D3 16 48 45 50; D3 16 48 45 97; D3 16 48 45 99; D3 16 48 45 101; D3 16 48 45 105; D3 16 48 45 111; D3 16 48 45 115;
  D3 16 48 45 116; D2 11 48 45; D2 11 48 45; D2 11 48 45; D2 11 48 45; D2 11 48 45; D2 11 48 45; D2 11 48 45;
  D2 11 48 45; D2 11 48 45; D2 11 48 45; D2 11 48 45; D2 11 48 45; D2 11 48 45; D2 11 48 45; D2 11 48 45; D2 11 48 45;
  D2 11 48 45; D2 11 48 45; D2 11 48 45; D2 11 48 45; D2 11 48 45; D2 11 48 45; D3 16 48 46 48; D3 16 48 46 49;
  D3 16 48 46 50; D3 16 48 46 97; D3 16 48 46 99; D3 16 48 46 101; D3 16 48 46 105; D3 16 48 46 111; D3 16 48 46 115;
  D3 16 48 46 116; D2 11 48 46; D2 11 48 46; D2 11 48 46; D2 11 48 46; D2 11 48 46; D2 11 48 46; D2 11 48 46;
  D2 11 48 46; D2 11 48 46; D2 11 48 46; D2 11 48 46; D2 11 48 46; D2 11 48 46; D2 11 48 46; D2 11 48 46; D2 11 48 46;
  D2 11 48 46; D2 11 48 46; D2 11 48 46; D2 11 48 46; D2 11 48 46; D2 11 48 46].
Definition hdecs_3 : list hdec := [
  D3 16 48 47 48; D3 16 48 47 49; D3 16 48 47 50; D3 16 48 47 97; D3 16 48 47 99; D3 16 48 47 101; D3 16 48 47 105;
  D3 16 48 47 111; D3 16 48 47 115; D3 16 48 47 116; D2 11 48 47; D2 11 48 47; D2 11 48 47; D2 11 48 47; D2 11 48 47;
  D2 11 48 47; D2 11 48 47; D2 11 48 47; D2 11 48 47; D2 11 48 47; D2 11 48 47; D2 11 48 47; D2 11 48 47; D2 11 48 47;
  D2 11 48 47; D2 11 48 47; D2 11 48 47; D2 11 48 47; D2 11 48 47; D2 11 48 47; D2 11 48 47; D2 11 48 47;
  D3 16 48 51 48; D3 16 48 51 49; D3 16 48 51 50; D3 16 48 51 97; D3 16 48 51 99; D3 16 48 51 101; D3 16 48 51 105;
  D3 16 48 51 111; D3 16 48 51 115; D3 16 48 51 116; D2 11 48 51; D2 11 48 51; D2 11 48 51; D2 11 48 51; D2 11 48 51;
  D2 11 48 51; D2 11 48 51; D2 11 48 51; D2 11 48 51; D2 11 48 51; D2 11 48 51; D2 11 48 51; D2 11 48 51; D2 11 48 51;
  D2 11 48 51; D2 11 48 51; D2 11 48 51; D2 11 48 51; D2 11 48 51; D2 11 48 51; D2 11 48 51; D2 11 48 51;
  D3 16 48 52 48; D3 16 48 52 49; D3 16 48 52 50; D3 16 48 52 97; D3 16 48 52 99; D3 16 48 52 101; D3 16 48 52 105;
  D3 16 48 52 111; D3 16 48 52 115; D3 16 48 52 116; D2 11 48 52; D2 11 48 52; D2 11 48 52; D2 11 48 52; D2 11 48 52;
  D2 11 48 52; D2 11 48 52; D2 11 48 52; D2 11 48 52; D2 11 48 52; D2 11 48 52; D2 11 48 52; D2 11 48 52; D2 11 48 52;
  D2 11 48 52; D2 11 48 52; D2 11 48 52; D2 11 48 52; D2 11 48 52; D2 11 48 52; D2 11 48 52; D2 11 48 52;
  D3 16 48 53 48; D3 16 48 53 49; D3 16 48 53 50; D3 16 48 53 97; D3 16 48 53 99; D3 16 48 53 101; D3 16 48 53 105;
  D3 16 48 53 111; D3 16 48 53 115; D3 16 48 53 116; D2 11 48 53; D2 11 48 53; D2 11 48 53; D2 11 48 53; D2 11 48 53;
  D2 11 48 53; D2 11 48 53; D2 11 48 53; D2 11 48 53; D2 11 48 53; D2 11 48 53; D2 11 48 53; D2 11 48 53; D2 11 48 53;
  D2 11 48 53; D2 11 48 53; D2 11 48 53; D2 11 48 53; D2 11 48 53; D2 11 48 53; D2 11 48 53; D2 11 48 53;
  D3 16 48 54 48; D3 16 48 54 49; D3 16 48 54 50; D3 16 48 54 97; D3 16 48 54 99; D3 16 48 54 101; D3 16 48 54 105;
  D3 16 48 54 111; D3 16 48 54 115; D3 16 48 54 116; D2 11 48 54; D2 11 48 54; D2 11 48 54; D2 11 48 54; D2 11 48 54;
  D2 11 48 54; D2 11 48 54; D2 11 48 54; D2 11 48 54; D2 11 48 54; D2 11 48 54; D2 11 48 54; D2 11 48 54; D2 11 48 54;
  D2 11 48 54; D2 11 48 54; D2 11 48 54; D2 11 48 54; D2 11 48 54; D2 11 48 54; D2 11 48 54; D2 11 48 54;
  D3 16 48 55 48; D3 16 48 55 49; D3 16 48 55 50; D3 16 48 55 97; D3 16 48 55 99; D3 16 48 55 101; D3 16 48 55 105;
  D3 16 48 55 111; D3 16 48 55 115; D3 16 48 55 116; D2 11 48 55; D2 11 48 55; D2 11 48 55; D2 11 48 55; D2 11 48 55;
  D2 11 48 55; D2 11 48 55; D2 11 48 55; D2 11 48 55; D2 11 48 55; D2 11 48 55; D2 11 48 55; D2 11 48 55; D2 11 48 55;
  D2 11 48 55; D2 11 48 55; D2 11 48 55; D2 11 48 55; D2 11 48 55; D2 11 48 55; D2 11 48 55; D2 11 48 55;
  D3 16 48 56 48; D3 16 48 56 49; D3 16 48 56 50; D3 16 48 56 97; D3 16 48 56 99; D3 16 48 56 101; D3 16 48 56 105;
  D3 16 48 56 111; D3 16 48 56 115; D3 16 48 56 116; D2 11 48 56; D2 11 48 56; D2 11 48 56; D2 11 48 56; D2 11 48 56;
  D2 11 48 56; D2 11 48 56; D2 11 48 56; D2 11 48 56; D2 11 48 56; D2 11 48 56; D2 11 48 56; D2 11 48 56; D2 11 48 56;
  D2 11 48 56; D2 11 48 56; D2 11 48 56; D2 11 48 56; D2 11 48 56; D2 11 48 56; D2 11 48 56; D2 11 48 56;
  D3 16 48 57 48; D3 16 48 57 49; D3 16 48 57 50; D3 16 48 57 97; D3 16 48 57 99; D3 16 48 57 101; D3 16 48 57 105;
  D3 16 48 57 111; D3 16 48 57 115; D3 16 48 57 116; D2 11 48 57; D2 11 48 57; D2 11 48 57; D2 11 48 57; D2 11 48 57;
  D2 11 48 57; D2 11 48 57; D2 11 48 57; D2 11 48 57; D2 11 48 57; D2 11 48 57; D2 11 48 57; D2 11 48 57; D2 11 48 57;
  D2 11 48 57; D2 11 48 57; D2 11 48 57; D2 11 48 57; D2 11 48 57; D2 11 48 57; D2 11 48 57; D2 11 48 57].
Definition hdecs_4 : list hdec := [
  D3 16 48 61 48; D3 16 48 61 49; D3 16 48 61 50; D3 16 48 61 97; D3 16 48 61 99; D3 16 48 61 101; D3 16 48 61 105;
  D3 16 48 61 111; D3 16 48 61 115; D3 16 48 61 116; D2 11 48 61; D2 11 48 61; D2 11 48 61; D2 11 48 61; D2 11 48 61;
  D2 11 48 61; D2 11 48 61; D2 11 48 61; D2 11 48 61; D2 11 48 61; D2 11 48 61; D2 11 48 61; D2 11 48 61; D2 11 48 61;
  D2 11 48 61; D2 11 48 61; D2 11 48 61; D2 11 48 61; D2 11 48 61; D2 11 48 61; D2 11 48 61; D2 11 48 61;
  D3 16 48 65 48; D3 16 48 65 49; D3 16 48 65 50; D3 16 48 65 97; D3 16 48 65 99; D3 16 48 65 101; D3 16 48 65 105;
  D3 16 48 65 111; D3 16 48 65 115; D3 16 48 65 116; D2 11 48 65; D2 11 48 65; D2 11 48 65; D2 11 48 65; D2 11 48 65;
  D2 11 48 65; D2 11 48 65; D2 11 48 65; D2 11 48 65; D2 11 48 65; D2 11 48 65; D2 11 48 65; D2 11 48 65; D2 11 48 65;
  D2 11 48 65; D2 11 48 65; D2 11 48 65; D2 11 48 65; D2 11 48 65; D2 11 48 65; D2 11 48 65; D2 11 48 65;
  D3 16 48 95 48; D3 16 48 95 49; D3 16 48 95 50; D3 16 48 95 97; D3 16 48 95 99; D3 16 48 95 101; D3 16 48 95 105;
  D3 16 48 95 111; D3 16 48 95 115; D3 16 48 95 116; D2 11 48 95; D2 11 48 95; D2 11 48 95; D2 11 48 95; D2 11 48 95;
  D2 11 48 95; D2 11 48 95; D2 11 48 95; D2 11 48 95; D2 11 48 95; D2 11 48 95; D2 11 48 95; D2 11 48 95; D2 11 48 95;
  D2 11 48 95; D2 11 48 95; D2 11 48 95; D2 11 48 95; D2 11 48 95; D2 11 48 95; D2 11 48 95; D2 11 48 95;
  D3 16 48 98 48; D3 16 48 98 49; D3 16 48 98 50; D3 16 48 98 97; D3 16 48 98 99; D3 16 48 98 101; D3 16 48 98 105;
  D3 16 48 98 111; D3 16 48 98 115; D3 16 48 98 116; D2 11 48 98; D2 11 48 98; D2 11 48 98; D2 11 48 98; D2 11 48 98;
  D2 11 48 98; D2 11 48 98; D2 11 48 98; D2 11 48 98; D2 11 48 98; D2 11 48 98; D2 11 48 98; D2 11 48 98; D2 11 48 98;
  D2 11 48 98; D2 11 48 98; D2 11 48 98; D2 11 48 98; D2 11 48 98; D2 11 48 98; D2 11 48 98; D2 11 48 98;
  D3 16 48 100 48; D3 16 48 100 49; D3 16 48 100 50; D3 16 48 100 97; D3 16 48 100 99; D3 16 48 100 101;
  D3 16 48 100 105; D3 16 48 100 111; D3 16 48 100 115; D3 16 48 100 116; D2 11 48 100; D2 11 48 100; D2 11 48 100;
  D2 11 48 100; D2 11 48 100; D2 11 48 100; D2 11 48 100; D2 11 48 100; D2 11 48 100; D2 11 48 100; D2 11 48 100;
  D2 11 48 100; D2 11 48 100; D2 11 48 100; D2 11 48 100; D2 11 48 100; D2 11 48 100; D2 11 48 100; D2 11 48 100;
  D2 11 48 100; D2 11 48 100; D2 11 48 100; D3 16 48 102 48; D3 16 48 102 49; D3 16 48 102 50; D3 16 48 102 97;
  D3 16 48 102 99; D3 16 48 102 101; D3 16 48 102 105; D3 16 48 102 111; D3 16 48 102 115; D3 16 48 102 116;
  D2 11 48 102; D2 11 48 102; D2 11 48 102; D2 11 48 102; D2 11 48 102; D2 11 48 102; D2 11 48 102; D2 11 48 102;
  D2 11 48 102; D2 11 48 102; D2 11 48 102; D2 11 48 102; D2 11 48 102; D2 11 48 102; D2 11 48 102; D2 11 48 102;
  D2 11 48 102; D2 11 48 102; D2 11 48 102; D2 11 48 102; D2 11 48 102; D2 11 48 102; D3 16 48 103 48;
  D3 16 48 103 49; D3 16 48 103 50; D3 16 48 103 97; D3 16 48 103 99; D3 16 48 103 101; D3 16 48 103 105;
  D3 16 48 103 111; D3 16 48 103 115; D3 16 48 103 116; D2 11 48 103; D2 11 48 103; D2 11 48 103; D2 11 48 103;
  D2 11 48 103; D2 11 48 103; D2 11 48 103; D2 11 48 103; D2 11 48 103; D2 11 48 103; D2 11 48 103; D2 11 48 103;
  D2 11 48 103; D2 11 48 103; D2 11 48 103; D2 11 48 103; D2 11 48 103; D2 11 48 103; D2 11 48 103; D2 11 48 103;
  D2 11 48 103; D2 11 48 103; D3 16 48 104 48; D3 16 48 104 49; D3 16 48 104 50; D3 16 48 104 97; D3 16 48 104 99;
  D3 16 48 104 101; D3 16 48 104 105; D3 16 48 104 111; D3 16 48 104 115; D3 16 48 104 116; D2 11 48 104;
  D2 11 48 104; D2 11 48 104; D2 11 48 104; D2 11 48 104; D2 11 48 104; D2 11 48 104; D2 11 48 104; D2 11 48 104;
  D2 11 48 104; D2 11 48 104; D2 11 48 104; D2 11 48 104; D2 11 48 104; D2 11 48 104; D2 11 48 104; D2 11 48 104;
  D2 11 48 104; D2 11 48 104; D2 11 48 104; D2 11 48 104; D2 11 48 104].
Definition hdecs_5 : list hdec := [
  D3 16 48 108 48; D3 16 48 108 49; D3 16 48 108 50; D3 16 48 108 97; D3 16 48 108 99; D3 16 48 108 101;
  D3 16 48 108 105; D3 16 48 108 111; D3 16 48 108 115; D3 16 48 108 116; D2 11 48 108; D2 11 48 108; D2 11 48 108;
  D2 11 48 108; D2 11 48 108; D2 11 48 108; D2 11 48 108; D2 11 48 108; D2 11 48 108; D2 11 48 108; D2 11 48 108;
  D2 11 48 108; D2 11 48 108; D2 11 48 108; D2 11 48 108; D2 11 48 108; D2 11 48 108; D2 11 48 108; D2 11 48 108;
  D2 11 48 108; D2 11 48 108; D2 11 48 108; D3 16 48 109 48; D3 16 48 109 49; D3 16 48 109 50; D3 16 48 109 97;
  D3 16 48 109 99; D3 16 48 109 101; D3 16 48 109 105; D3 16 48 109 111; D3 16 48 109 115; D3 16 48 109 116;
  D2 11 48 109; D2 11 48 109; D2 11 48 109; D2 11 48 109; D2 11 48 109; D2 11 48 109; D2 11 48 109; D2 11 48 109;
  D2 11 48 109; D2 11 48 109; D2 11 48 109; D2 11 48 109; D2 11 48 109; D2 11 48 109; D2 11 48 109; D2 11 48 109;
  D2 11 48 109; D2 11 48 109; D2 11 48 109; D2 11 48 109; D2 11 48 109; D2 11 48 109; D3 16 48 110 48;
  D3 16 48 110 49; D3 16 48 110 50; D3 16 48 110 97; D3 16 48 110 99; D3 16 48 110 101; D3 16 48 110 105;
  D3 16 48 110 111; D3 16 48 110 115; D3 16 48 110 116; D2 11 48 110; D2 11 48 110; D2 11 48 110; D2 11 48 110;
  D2 11 48 110; D2 11 48 110; D2 11 48 110; D2 11 48 110; D2 11 48 110; D2 11 48 110; D2 11 48 110; D2 11 48 110;
  D2 11 48 110; D2 11 48 110; D2 11 48 110; D2 11 48 110; D2 11 48 110; D2 11 48 110; D2 11 48 110; D2 11 48 110;
  D2 11 48 110; D2 11 48 110; D3 16 48 112 48; D3 16 48 112 49; D3 16 48 112 50; D3 16 48 112 97; D3 16 48 112 99;
  D3 16 48 112 101; D3 16 48 112 105; D3 16 48 112 111; D3 16 48 112 115; D3 16 48 112 116; D2 11 48 112;
  D2 11 48 112; D2 11 48 112; D2 11 48 112; D2 11 48 112; D2 11 48 112; D2 11 48 112; D2 11 48 112; D2 11 48 112;
  D2 11 48 112; D2 11 48 112; D2 11 48 112; D2 11 48 112; D2 11 48 112; D2 11 48 112; D2 11 48 112; D2 11 48 112;
  D2 11 48 112; D2 11 48 112; D2 11 48 112; D2 11 48 112; D2 11 48 112; D3 16 48 114 48; D3 16 48 114 49;
  D3 16 48 114 50; D3 16 48 114 97; D3 16 48 114 99; D3 16 48 114 101; D3 16 48 114 105; D3 16 48 114 111;
  D3 16 48 114 115; D3 16 48 114 116; D2 11 48 114; D2 11 48 114; D2 11 48 114; D2 11 48 114; D2 11 48 114;
  D2 11 48 114; D2 11 48 114; D2 11 48 114; D2 11 48 114; D2 11 48 114; D2 11 48 114; D2 11 48 114; D2 11 48 114;
  D2 11 48 114; D2 11 48 114; D2 11 48 114; D2 11 48 114; D2 11 48 114; D2 11 48 114; D2 11 48 114; D2 11 48 114;
  D2 11 48 114; D3 16 48 117 48; D3 16 48 117 49; D3 16 48 117 50; D3 16 48 117 97; D3 16 48 117 99; D3 16 48 117 101;
  D3 16 48 117 105; D3 16 48 117 111; D3 16 48 117 115; D3 16 48 117 116; D2 11 48 117; D2 11 48 117; D2 11 48 117;
  D2 11 48 117; D2 11 48 117; D2 11 48 117; D2 11 48 117; D2 11 48 117; D2 11 48 117; D2 11 48 117; D2 11 48 117;
  D2 11 48 117; D2 11 48 117; D2 11 48 117; D2 11 48 117; D2 11 48 117; D2 11 48 117; D2 11 48 117; D2 11 48 117;
  D2 11 48 117; D2 11 48 117; D2 11 48 117; D2 12 48 58; D2 12 48 58; D2 12 48 58; D2 12 48 58; D2 12 48 58;
  D2 12 48 58; D2 12 48 58; D2 12 48 58; D2 12 48 58; D2 12 48 58; D2 12 48 58; D2 12 48 58; D2 12 48 58; D2 12 48 58;
  D2 12 48 58; D2 12 48 58; D2 12 48 66; D2 12 48 66; D2 12 48 66; D2 12 48 66; D2 12 48 66; D2 12 48 66; D2 12 48 66;
  D2 12 48 66; D2 12 48 66; D2 12 48 66; D2 12 48 66; D2 12 48 66; D2 12 48 66; D2 12 48 66; D2 12 48 66; D2 12 48 66;
  D2 12 48 67; D2 12 48 67; D2 12 48 67; D2 12 48 67; D2 12 48 67; D2 12 48 67; D2 12 48 67; D2 12 48 67; D2 12 48 67;
  D2 12 48 67; D2 12 48 67; D2 12 48 67; D2 12 48 67; D2 12 48 67; D2 12 48 67; D2 12 48 67; D2 12 48 68; D2 12 48 68;
  D2 12 48 68; D2 12 48 68; D2 12 48 68; D2 12 48 68; D2 12 48 68; D2 12 48 68; D2 12 48 68; D2 12 48 68; D2 12 48 68;
  D2 12 48 68; D2 12 48 68; D2 12 48 68; D2 12 48 68; D2 12 48 68].
Definition hdecs_6 : list hdec := [
  D2 12 48 69; D2 12 48 69; D2 12 48 69; D2 12 48 69; D2 12 48 69; D2 12 48 69; D2 12 48 69; D2 12 48 69; D2 12 48 69;
  D2 12 48 69; D2 12 48 69; D2 12 48 69; D2 12 48 69; D2 12 48 69; D2 12 48 69; D2 12 48 69; D2 12 48 70; D2 12 48 70;
  D2 12 48 70; D2 12 48 70; D2 12 48 70; D2 12 48 70; D2 12 48 70; D2 12 48 70; D2 12 48 70; D2 12 48 70; D2 12 48 70;
  D2 12 48 70; D2 12 48 70; D2 12 48 70; D2 12 48 70; D2 12 48 70; D2 12 48 71; D2 12 48 71; D2 12 48 71; D2 12 48 71;
  D2 12 48 71; D2 12 48 71; D2 12 48 71; D2 12 48 71; D2 12 48 71; D2 12 48 71; D2 12 48 71; D2 12 48 71; D2 12 48 71;
  D2 12 48 71; D2 12 48 71; D2 12 48 71; D2 12 48 72; D2 12 48 72; D2 12 48 72; D2 12 48 72; D2 12 48 72; D2 12 48 72;
  D2 12 48 72; D2 12 48 72; D2 12 48 72; D2 12 48 72; D2 12 48 72; D2 12 48 72; D2 12 48 72; D2 12 48 72; D2 12 48 72;
  D2 12 48 72; D2 12 48 73; D2 12 48 73; D2 12 48 73; D2 12 48 73; D2 12 48 73; D2 12 48 73; D2 12 48 73; D2 12 48 73;
  D2 12 48 73; D2 12 48 73; D2 12 48 73; D2 12 48 73; D2 12 48 73; D2 12 48 73; D2 12 48 73; D2 12 48 73; D2 12 48 74;
  D2 12 48 74; D2 12 48 74; D2 12 48 74; D2 12 48 74; D2 12 48 74; D2 12 48 74; D2 12 48 74; D2 12 48 74; D2 12 48 74;
  D2 12 48 74; D2 12 48 74; D2 12 48 74; D2 12 48 74; D2 12 48 74; D2 12 48 74; D2 12 48 75; D2 12 48 75; D2 12 48 75;
  D2 12 48 75; D2 12 48 75; D2 12 48 75; D2 12 48 75; D2 12 48 75; D2 12 48 75; D2 12 48 75; D2 12 48 75; D2 12 48 75;
  D2 12 48 75; D2 12 48 75; D2 12 48 75; D2 12 48 75; D2 12 48 76; D2 12 48 76; D2 12 48 76; D2 12 48 76; D2 12 48 76;
  D2 12 48 76; D2 12 48 76; D2 12 48 76; D2 12 48 76; D2 12 48 76; D2 12 48 76; D2 12 48 76; D2 12 48 76; D2 12 48 76;
  D2 12 48 76; D2 12 48 76; D2 12 48 77; D2 12 48 77; D2 12 48 77; D2 12 48 77; D2 12 48 77; D2 12 48 77; D2 12 48 77;
  D2 12 48 77; D2 12 48 77; D2 12 48 77; D2 12 48 77; D2 12 48 77; D2 12 48 77; D2 12 48 77; D2 12 48 77; D2 12 48 77;
  D2 12 48 78; D2 12 48 78; D2 12 48 78; D2 12 48 78; D2 12 48 78; D2 12 48 78; D2 12 48 78; D2 12 48 78; D2 12 48 78;
  D2 12 48 78; D2 12 48 78; D2 12 48 78; D2 12 48 78; D2 12 48 78; D2 12 48 78; D2 12 48 78; D2 12 48 79; D2 12 48 79;
  D2 12 48 79; D2 12 48 79; D2 12 48 79; D2 12 48 79; D2 12 48 79; D2 12 48 79; D2 12 48 79; D2 12 48 79; D2 12 48 79;
  D2 12 48 79; D2 12 48 79; D2 12 48 79; D2 12 48 79; D2 12 48 79; D2 12 48 80; D2 12 48 80; D2 12 48 80; D2 12 48 80;
  D2 12 48 80; D2 12 48 80; D2 12 48 80; D2 12 48 80; D2 12 48 80; D2 12 48 80; D2 12 48 80; D2 12 48 80; D2 12 48 80;
  D2 12 48 80; D2 12 48 80; D2 12 48 80; D2 12 48 81; D2 12 48 81; D2 12 48 81; D2 12 48 81; D2 12 48 81; D2 12 48 81;
  D2 12 48 81; D2 12 48 81; D2 12 48 81; D2 12 48 81; D2 12 48 81; D2 12 48 81; D2 12 48 81; D2 12 48 81; D2 12 48 81;
  D2 12 48 81; D2 12 48 82; D2 12 48 82; D2 12 48 82; D2 12 48 82; D2 12 48 82; D2 12 48 82; D2 12 48 82; D2 12 48 82;
  D2 12 48 82; D2 12 48 82; D2 12 48 82; D2 12 48 82; D2 12 48 82; D2 12 48 82; D2 12 48 82; D2 12 48 82; D2 12 48 83;
  D2 12 48 83; D2 12 48 83; D2 12 48 83; D2 12 48 83; D2 12 48 83; D2 12 48 83; D2 12 48 83; D2 12 48 83; D2 12 48 83;
  D2 12 48 83; D2 12 48 83; D2 12 48 83; D2 12 48 83; D2 12 48 83; D2 12 48 83; D2 12 48 84; D2 12 48 84; D2 12 48 84;
  D2 12 48 84; D2 12 48 84; D2 12 48 84; D2 12 48 84; D2 12 48 84; D2 12 48 84; D2 12 48 84; D2 12 48 84; D2 12 48 84;
  D2 12 48 84; D2 12 48 84; D2 12 48 84; D2 12 48 84].
Definition hdecs_7 : list hdec := [
  D2 12 48 85; D2 12 48 85; D2 12 48 85; D2 12 48 85; D2 12 48 85; D2 12 48 85; D2 12 48 85; D2 12 48 85; D2 12 48 85;
  D2 12 48 85; D2 12 48 85; D2 12 48 85; D2 12 48 85; D2 12 48 85; D2 12 48 85; D2 12 48 85; D2 12 48 86; D2 12 48 86;
  D2 12 48 86; D2 12 48 86; D2 12 48 86; D2 12 48 86; D2 12 48 86; D2 12 48 86; D2 12 48 86; D2 12 48 86; D2 12 48 86;
  D2 12 48 86; D2 12 48 86; D2 12 48 86; D2 12 48 86; D2 12 48 86; D2 12 48 87; D2 12 48 87; D2 12 48 87; D2 12 48 87;
  D2 12 48 87; D2 12 48 87; D2 12 48 87; D2 12 48 87; D2 12 48 87; D2 12 48 87; D2 12 48 87; D2 12 48 87; D2 12 48 87;
  D2 12 48 87; D2 12 48 87; D2 12 48 87; D2 12 48 89; D2 12 48 89; D2 12 48 89; D2 12 48 89; D2 12 48 89; D2 12 48 89;
  D2 12 48 89; D2 12 48 89; D2 12 48 89; D2 12 48 89; D2 12 48 89; D2 12 48 89; D2 12 48 89; D2 12 48 89; D2 12 48 89;
  D2 12 48 89; D2 12 48 106; D2 12 48 106; D2 12 48 106; D2 12 48 106; D2 12 48 106; D2 12 48 106; D2 12 48 106;
  D2 12 48 106; D2 12 48 106; D2 12 48 106; D2 12 48 106; D2 12 48 106; D2 12 48 106; D2 12 48 106; D2 12 48 106;
  D2 12 48 106; D2 12 48 107; D2 12 48 107; D2 12 48 107; D2 12 48 107; D2 12 48 107; D2 12 48 107; D2 12 48 107;
  D2 12 48 107; D2 12 48 107; D2 12 48 107; D2 12 48 107; D2 12 48 107; D2 12 48 107; D2 12 48 107; D2 12 48 107;
  D2 12 48 107; D2 12 48 113; D2 12 48 113; D2 12 48 113; D2 12 48 113; D2 12 48 113; D2 12 48 113; D2 12 48 113;
  D2 12 48 113; D2 12 48 113; D2 12 48 113; D2 12 48 113; D2 12 48 113; D2 12 48 113; D2 12 48 113; D2 12 48 113;
  D2 12 48 113; D2 12 48 118; D2 12 48 118; D2 12 48 118; D2 12 48 118; D2 12 48 118; D2 12 48 118; D2 12 48 118;
  D2 12 48 118; D2 12 48 118; D2 12 48 118; D2 12 48 118; D2 12 48 118; D2 12 48 118; D2 12 48 118; D2 12 48 118;
  D2 12 48 118; D2 12 48 119; D2 12 48 119; D2 12 48 119; D2 12 48 119; D2 12 48 119; D2 12 48 119; D2 12 48 119;
  D2 12 48 119; D2 12 48 119; D2 12 48 119; D2 12 48 119; D2 12 48 119; D2 12 48 119; D2 12 48 119; D2 12 48 119;
  D2 12 48 119; D2 12 48 120; D2 12 48 120; D2 12 48 120; D2 12 48 120; D2 12 48 120; D2 12 48 120; D2 12 48 120;
  D2 12 48 120; D2 12 48 120; D2 12 48 120; D2 12 48 120; D2 12 48 120; D2 12 48 120; D2 12 48 120; D2 12 48 120;
  D2 12 48 120; D2 12 48 121; D2 12 48 121; D2 12 48 121; D2 12 48 121; D2 12 48 121; D2 12 48 121; D2 12 48 121;
  D2 12 48 121; D2 12 48 121; D2 12 48 121; D2 12 48 121; D2 12 48 121; D2 12 48 121; D2 12 48 121; D2 12 48 121;
  D2 12 48 121; D2 12 48 122; D2 12 48 122; D2 12 48 122; D2 12 48 122; D2 12 48 122; D2 12 48 122; D2 12 48 122;
  D2 12 48 122; D2 12 48 122; D2 12 48 122; D2 12 48 122; D2 12 48 122; D2 12 48 122; D2 12 48 122; D2 12 48 122;
  D2 12 48 122; D2 13 48 38; D2 13 48 38; D2 13 48 38; D2 13 48 38; D2 13 48 38; D2 13 48 38; D2 13 48 38;
  D2 13 48 38; D2 13 48 42; D2 13 48 42; D2 13 48 42; D2 13 48 42; D2 13 48 42; D2 13 48 42; D2 13 48 42; D2 13 48 42;
  D2 13 48 44; D2 13 48 44; D2 13 48 44; D2 13 48 44; D2 13 48 44; D2 13 48 44; D2 13 48 44; D2 13 48 44; D2 13 48 59;
  D2 13 48 59; D2 13 48 59; D2 13 48 59; D2 13 48 59; D2 13 48 59; D2 13 48 59; D2 13 48 59; D2 13 48 88; D2 13 48 88;
  D2 13 48 88; D2 13 48 88; D2 13 48 88; D2 13 48 88; D2 13 48 88; D2 13 48 88; D2 13 48 90; D2 13 48 90; D2 13 48 90;
  D2 13 48 90; D2 13 48 90; D2 13 48 90; D2 13 48 90; D2 13 48 90; D2 15 48 33; D2 15 48 33; D2 15 48 34; D2 15 48 34;
  D2 15 48 40; D2 15 48 40; D2 15 48 41; D2 15 48 41; D2 15 48 63; D2 15 48 63; D2 16 48 39; D2 16 48 43;
  D2 16 48 124; D1 5 48; D1 5 48; D1 5 48].
Definition hdecs_8 : list hdec := [
  D3 15 49 48 48; D3 15 49 48 48; D3 15 49 48 49; D3 15 49 48 49; D3 15 49 48 50; D3 15 49 48 50; D3 15 49 48 97;
  D3 15 49 48 97; D3 15 49 48 99; D3 15 49 48 99; D3 15 49 48 101; D3 15 49 48 101; D3 15 49 48 105; D3 15 49 48 105;
  D3 15 49 48 111; D3 15 49 48 111; D3 15 49 48 115; D3 15 49 48 115; D3 15 49 48 116; D3 15 49 48 116;
  D3 16 49 48 32; D3 16 49 48 37; D3 16 49 48 45; D3 16 49 48 46; D3 16 49 48 47; D3 16 49 48 51; D3 16 49 48 52;
  D3 16 49 48 53; D3 16 49 48 54; D3 16 49 48 55; D3 16 49 48 56; D3 16 49 48 57; D3 16 49 48 61; D3 16 49 48 65;
  D3 16 49 48 95; D3 16 49 48 98; D3 16 49 48 100; D3 16 49 48 102; D3 16 49 48 103; D3 16 49 48 104; D3 16 49 48 108;
  D3 16 49 48 109; D3 16 49 48 110; D3 16 49 48 112; D3 16 49 48 114; D3 16 49 48 117; D2 10 49 48; D2 10 49 48;
  D2 10 49 48; D2 10 49 48; D2 10 49 48; D2 10 49 48; D2 10 49 48; D2 10 49 48; D2 10 49 48; D2 10 49 48; D2 10 49 48;
  D2 10 49 48; D2 10 49 48; D2 10 49 48; D2 10 49 48; D2 10 49 48; D2 10 49 48; D2 10 49 48; D3 15 49 49 48;
  D3 15 49 49 48; D3 15 49 49 49; D3 15 49 49 49; D3 15 49 49 50; D3 15 49 49 50; D3 15 49 49 97; D3 15 49 49 97;
  D3 15 49 49 99; D3 15 49 49 99; D3 15 49 49 101; D3 15 49 49 101; D3 15 49 49 105; D3 15 49 49 105; D3 15 49 49 111;
  D3 15 49 49 111; D3 15 49 49 115; D3 15 49 49 115; D3 15 49 49 116; D3 15 49 49 116; D3 16 49 49 32; D3 16 49 49 37;
  D3 16 49 49 45; D3 16 49 49 46; D3 16 49 49 47; D3 16 49 49 51; D3 16 49 49 52; D3 16 49 49 53; D3 16 49 49 54;
  D3 16 49 49 55; D3 16 49 49 56; D3 16 49 49 57; D3 16 49 49 61; D3 16 49 49 65; D3 16 49 49 95; D3 16 49 49 98;
  D3 16 49 49 100; D3 16 49 49 102; D3 16 49 49 103; D3 16 49 49 104; D3 16 49 49 108; D3 16 49 49 109;
  D3 16 49 49 110; D3 16 49 49 112; D3 16 49 49 114; D3 16 49 49 117; D2 10 49 49; D2 10 49 49; D2 10 49 49;
  D2 10 49 49; D2 10 49 49; D2 10 49 49; D2 10 49 49; D2 10 49 49; D2 10 49 49; D2 10 49 49; D2 10 49 49; D2 10 49 49;
  D2 10 49 49; D2 10 49 49; D2 10 49 49; D2 10 49 49; D2 10 49 49; D2 10 49 49; D3 15 49 50 48; D3 15 49 50 48;
  D3 15 49 50 49; D3 15 49 50 49; D3 15 49 50 50; D3 15 49 50 50; D3 15 49 50 97; D3 15 49 50 97; D3 15 49 50 99;
  D3 15 49 50 99; D3 15 49 50 101; D3 15 49 50 101; D3 15 49 50 105; D3 15 49 50 105; D3 15 49 50 111;
  D3 15 49 50 111; D3 15 49 50 115; D3 15 49 50 115; D3 15 49 50 116; D3 15 49 50 116; D3 16 49 50 32; D3 16 49 50 37;
  D3 16 49 50 45; D3 16 49 50 46; D3 16 49 50 47; D3 16 49 50 51; D3 16 49 50 52; D3 16 49 50 53; D3 16 49 50 54;
  D3 16 49 50 55; D3 16 49 50 56; D3 16 49 50 57; D3 16 49 50 61; D3 16 49 50 65; D3 16 49 50 95; D3 16 49 50 98;
  D3 16 49 50 100; D3 16 49 50 102; D3 16 49 50 103; D3 16 49 50 104; D3 16 49 50 108; D3 16 49 50 109;
  D3 16 49 50 110; D3 16 49 50 112; D3 16 49 50 114; D3 16 49 50 117; D2 10 49 50; D2 10 49 50; D2 10 49 50;
  D2 10 49 50; D2 10 49 50; D2 10 49 50; D2 10 49 50; D2 10 49 50; D2 10 49 50; D2 10 49 50; D2 10 49 50; D2 10 49 50;
  D2 10 49 50; D2 10 49 50; D2 10 49 50; D2 10 49 50; D2 10 49 50; D2 10 49 50; D3 15 49 97 48; D3 15 49 97 48;
  D3 15 49 97 49; D3 15 49 97 49; D3 15 49 97 50; D3 15 49 97 50; D3 15 49 97 97; D3 15 49 97 97; D3 15 49 97 99;
  D3 15 49 97 99; D3 15 49 97 101; D3 15 49 97 101; D3 15 49 97 105; D3 15 49 97 105; D3 15 49 97 111;
  D3 15 49 97 111; D3 15 49 97 115; D3 15 49 97 115; D3 15 49 97 116; D3 15 49 97 116; D3 16 49 97 32; D3 16 49 97 37;
  D3 16 49 97 45; D3 16 49 97 46; D3 16 49 97 47; D3 16 49 97 51; D3 16 49 97 52; D3 16 49 97 53; D3 16 49 97 54;
  D3 16 49 97 55; D3 16 49 97 56; D3 16 49 97 57; D3 16 49 97 61; D3 16 49 97 65; D3 16 49 97 95; D3 16 49 97 98;
  D3 16 49 97 100; D3 16 49 97 102; D3 16 49 97 103; D3 16 49 97 104; D3 16 49 97 108; D3 16 49 97 109;
  D3 16 49 97 110; D3 16 49 97 112; D3 16 49 97 114; D3 16 49 97 117; D2 10 49 97; D2 10 49 97; D2 10 49 97;
  D2 10 49 97; D2 10 49 97; D2 10 49 97; D2 10 49 97; D2 10 49 97; D2 10 49 97; D2 10 49 97; D2 10 49 97; D2 10 49 97;
  D2 10 49 97; D2 10 49 97; D2 10 49 97; D2 10 49 97; D2 10 49 97; D2 10 49 97].
Definition hdecs_9 : list hdec := [
  D3 15 49 99 48; D3 15 49 99 48; D3 15 49 99 49; D3 15 49 99 49; D3 15 49 99 50; D3 15 49 99 50; D3 15 49 99 97;
  D3 15 49 99 97; D3 15 49 99 99; D3 15 49 99 99; D3 15 49 99 101; D3 15 49 99 101; D3 15 49 99 105; D3 15 49 99 105;
  D3 15 49 99 111; D3 15 49 99 111; D3 15 49 99 115; D3 15 49 99 115; D3 15 49 99 116; D3 15 49 99 116;
  D3 16 49 99 32; D3 16 49 99 37; D3 16 49 99 45; D3 16 49 99 46; D3 16 49 99 47; D3 16 49 99 51; D3 16 49 99 52;
  D3 16 49 99 53; D3 16 49 99 54; D3 16 49 99 55; D3 16 49 99 56; D3 16 49 99 57; D3 16 49 99 61; D3 16 49 99 65;
  D3 16 49 99 95; D3 16 49 99 98; D3 16 49 99 100; D3 16 49 99 102; D3 16 49 99 103; D3 16 49 99 104; D3 16 49 99 108;
  D3 16 49 99 109; D3 16 49 99 110; D3 16 49 99 112; D3 16 49 99 114; D3 16 49 99 117; D2 10 49 99; D2 10 49 99;
  D2 10 49 99; D2 10 49 99; D2 10 49 99; D2 10 49 99; D2 10 49 99; D2 10 49 99; D2 10 49 99; D2 10 49 99; D2 10 49 99;
  D2 10 49 99; D2 10 49 99; D2 10 49 99; D2 10 49 99; D2 10 49 99; D2 10 49 99; D2 10 49 99; D3 15 49 101 48;
  D3 15 49 101 48; D3 15 49 101 49; D3 15 49 101 49; D3 15 49 101 50; D3 15 49 101 50; D3 15 49 101 97;
  D3 15 49 101 97; D3 15 49 101 99; D3 15 49 101 99; D3 15 49 101 101; D3 15 49 101 101; D3 15 49 101 105;
  D3 15 49 101 105; D3 15 49 101 111; D3 15 49 101 111; D3 15 49 101 115; D3 15 49 101 115; D3 15 49 101 116;
  D3 15 49 101 116; D3 16 49 101 32; D3 16 49 101 37; D3 16 49 101 45; D3 16 49 101 46; D3 16 49 101 47;
  D3 16 49 101 51; D3 16 49 101 52; D3 16 49 101 53; D3 16 49 101 54; D3 16 49 101 55; D3 16 49 101 56;
  D3 16 49 101 57; D3 16 49 101 61; D3 16 49 101 65; D3 16 49 101 95; D3 16 49 101 98; D3 16 49 101 100;
  D3 16 49 101 102; D3 16 49 101 103; D3 16 49 101 104; D3 16 49 101 108; D3 16 49 101 109; D3 16 49 101 110;
  D3 16 49 101 112; D3 16 49 101 114; D3 16 49 101 117; D2 10 49 101; D2 10 49 101; D2 10 49 101; D2 10 49 101;
  D2 10 49 101; D2 10 49 101; D2 10 49 101; D2 10 49 101; D2 10 49 101; D2 10 49 101; D2 10 49 101; D2 10 49 101;
  D2 10 49 101; D2 10 49 101; D2 10 49 101; D2 10 49 101; D2 10 49 101; D2 10 49 101; D3 15 49 105 48;
  D3 15 49 105 48; D3 15 49 105 49; D3 15 49 105 49; D3 15 49 105 50; D3 15 49 105 50; D3 15 49 105 97;
  D3 15 49 105 97; D3 15 49 105 99; D3 15 49 105 99; D3 15 49 105 101; D3 15 49 105 101; D3 15 49 105 105;
  D3 15 49 105 105; D3 15 49 105 111; D3 15 49 105 111; D3 15 49 105 115; D3 15 49 105 115; D3 15 49 105 116;
  D3 15 49 105 116; D3 16 49 105 32; D3 16 49 105 37; D3 16 49 105 45; D3 16 49 105 46; D3 16 49 105 47;
  D3 16 49 105 51; D3 16 49 105 52; D3 16 49 105 53; D3 16 49 105 54; D3 16 49 105 55; D3 16 49 105 56;
  D3 16 49 105 57; D3 16 49 105 61; D3 16 49 105 65; D3 16 49 105 95; D3 16 49 105 98; D3 16 49 105 100;
  D3 16 49 105 102; D3 16 49 105 103; D3 16 49 105 104; D3 16 49 105 108; D3 16 49 105 109; D3 16 49 105 110;
  D3 16 49 105 112; D3 16 49 105 114; D3 16 49 105 117; D2 10 49 105; D2 10 49 105; D2 10 49 105; D2 10 49 105;
  D2 10 49 105; D2 10 49 105; D2 10 49 105; D2 10 49 105; D2 10 49 105; D2 10 49 105; D2 10 49 105; D2 10 49 105;
  D2 10 49 105; D2 10 49 105; D2 10 49 105; D2 10 49 105; D2 10 49 105; D2 10 49 105; D3 15 49 111 48;
  D3 15 49 111 48; D3 15 49 111 49; D3 15 49 111 49; D3 15 49 111 50; D3 15 49 111 50; D3 15 49 111 97;
  D3 15 49 111 97; D3 15 49 111 99; D3 15 49 111 99; D3 15 49 111 101; D3 15 49 111 101; D3 15 49 111 105;
  D3 15 49 111 105; D3 15 49 111 111; D3 15 49 111 111; D3 15 49 111 115; D3 15 49 111 115; D3 15 49 111 116;
  D3 15 49 111 116; D3 16 49 111 32; D3 16 49 111 37; D3 16 49 111 45; D3 16 49 111 46; D3 16 49 111 47;
  D3 16 49 111 51; D3 16 49 111 52; D3 16 49 111 53; D3 16 49 111 54; D3 16 49 111 55; D3 16 49 111 56;
  D3 16 49 111 57; D3 16 49 111 61; D3 16 49 111 65; D3 16 49 111 95; D3 16 49 111 98; D3 16 49 111 100;
  D3 16 49 111 102; D3 16 49 111 103; D3 16 49 111 104; D3 16 49 111 108; D3 16 49 111 109; D3 16 49 111 110;
  D3 16 49 111 112; D3 16 49 111 114; D3 16 49 111 117; D2 10 49 111; D2 10 49 111; D2 10 49 111; D2 10 49 111;
  D2 10 49 111; D2 10 49 111; D2 10 49 111; D2 10 49 111; D2 10 49 111; D2 10 49 111; D2 10 49 111; D2 10 49 111;
  D2 10 49 111; D2 10 49 111; D2 10 49 111; D2 10 49 111; D2 10 49 111; D2 10 49 111].
Definition hdecs_10 : list hdec := [
  D3 15 49 115 48; D3 15 49 115 48; D3 15 49 115 49; D3 15 49 115 49; D3 15 49 115 50; D3 15 49 115 50;
  D3 15 49 115 97; D3 15 49 115 97; D3 15 49 115 99; D3 15 49 115 99; D3 15 49 115 101; D3 15 49 115 101;
  D3 15 49 115 105; D3 15 49 115 105; D3 15 49 115 111; D3 15 49 115 111; D3 15 49 115 115; D3 15 49 115 115;
  D3 15 49 115 116; D3 15 49 115 116; D3 16 49 115 32; D3 16 49 115 37; D3 16 49 115 45; D3 16 49 115 46;
  D3 16 49 115 47; D3 16 49 115 51; D3 16 49 115 52; D3 16 49 115 53; D3 16 49 115 54; D3 16 49 115 55;
  D3 16 49 115 56; D3 16 49 115 57; D3 16 49 115 61; D3 16 49 115 65; D3 16 49 115 95; D3 16 49 115 98;
  D3 16 49 115 100; D3 16 49 115 102; D3 16 49 115 103; D3 16 49 115 104; D3 16 49 115 108; D3 16 49 115 109;
  D3 16 49 115 110; D3 16 49 115 112; D3 16 49 115 114; D3 16 49 115 117; D2 10 49 115; D2 10 49 115; D2 10 49 115;
  D2 10 49 115; D2 10 49 115; D2 10 49 115; D2 10 49 115; D2 10 49 115; D2 10 49 115; D2 10 49 115; D2 10 49 115;
  D2 10 49 115; D2 10 49 115; D2 10 49 115; D2 10 49 115; D2 10 49 115; D2 10 49 115; D2 10 49 115; D3 15 49 116 48;
  D3 15 49 116 48; D3 15 49 116 49; D3 15 49 116 49; D3 15 49 116 50; D3 15 49 116 50; D3 15 49 116 97;
  D3 15 49 116 97; D3 15 49 116 99; D3 15 49 116 99; D3 15 49 116 101; D3 15 49 116 101; D3 15 49 116 105;
  D3 15 49 116 105; D3 15 49 116 111; D3 15 49 116 111; D3 15 49 116 115; D3 15 49 116 115; D3 15 49 116 116;
  D3 15 49 116 116; D3 16 49 116 32; D3 16 49 116 37; D3 16 49 116 45; D3 16 49 116 46; D3 16 49 116 47;
  D3 16 49 116 51; D3 16 49 116 52; D3 16 49 116 53; D3 16 49 116 54; D3 16 49 116 55; D3 16 49 116 56;
  D3 16 49 116 57; D3 16 49 116 61; D3 16 49 116 65; D3 16 49 116 95; D3 16 49 116 98; D3 16 49 116 100;
  D3 16 49 116 102; D3 16 49 116 103; D3 16 49 116 104; D3 16 49 116 108; D3 16 49 116 109; D3 16 49 116 110;
  D3 16 49 116 112; D3 16 49 116 114; D3 16 49 116 117; D2 10 49 116; D2 10 49 116; D2 10 49 116; D2 10 49 116;
  D2 10 49 116; D2 10 49 116; D2 10 49 116; D2 10 49 116; D2 10 49 116; D2 10 49 116; D2 10 49 116; D2 10 49 116;
  D2 10 49 116; D2 10 49 116; D2 10 49 116; D2 10 49 116; D2 10 49 116; D2 10 49 116; D3 16 49 32 48; D3 16 49 32 49;
  D3 16 49 32 50; D3 16 49 32 97; D3 16 49 32 99; D3 16 49 32 101; D3 16 49 32 105; D3 16 49 32 111; D3 16 49 32 115;
  D3 16 49 32 116; D2 11 49 32; D2 11 49 32; D2 11 49 32; D2 11 49 32; D2 11 49 32; D2 11 49 32; D2 11 49 32;
  D2 11 49 32; D2 11 49 32; D2 11 49 32; D2 11 49 32; D2 11 49 32; D2 11 49 32; D2 11 49 32; D2 11 49 32; D2 11 49 32;
  D2 11 49 32; D2 11 49 32; D2 11 49 32; D2 11 49 32; D2 11 49 32; D2 11 49 32; D3 16 49 37 48; D3 16 49 37 49;
  D3 16 49 37 50; D3 16 49 37 97; D3 16 49 37 99; D3 16 49 37 101; D3 16 49 37 105; D3 16 49 37 111; D3 16 49 37 115;
  D3 16 49 37 116; D2 11 49 37; D2 11 49 37; D2 11 49 37; D2 11 49 37; D2 11 49 37; D2 11 49 37; D2 11 49 37;
  D2 11 49 37; D2 11 49 37; D2 11 49 37; D2 11 49 37; D2 11 49 37; D2 11 49 37; D2 11 49 37; D2 11 49 37; D2 11 49 37;
  D2 11 49 37; D2 11 49 37; D2 11 49 37; D2 11 49 37; D2 11 49 37; D2 11 49 37; D3 16 49 45 48; D3 16 49 45 49;
  D3 16 49 45 50; D3 16 49 45 97; D3 16 49 45 99; D3 16 49 45 101; D3 16 49 45 105; D3 16 49 45 111; D3 16 49 45 115;
  D3 16 49 45 116; D2 11 49 45; D2 11 49 45; D2 11 49 45; D2 11 49 45; D2 11 49 45; D2 11 49 45; D2 11 49 45;
  D2 11 49 45; D2 11 49 45; D2 11 49 45; D2 11 49 45; D2 11 49 45; D2 11 49 45; D2 11 49 45; D2 11 49 45; D2 11 49 45;
  D2 11 49 45; D2 11 49 45; D2 11 49 45; D2 11 49 45; D2 11 49 45; D2 11 49 45; D3 16 49 46 48; D3 16 49 46 49;
  D3 16 49 46 50; D3 16 49 46 97; D3 16 49 46 99; D3 16 49 46 101; D3 16 49 46 105; D3 16 49 46 111; D3 16 49 46 115;
  D3 16 49 46 116; D2 11 49 46; D2 11 49 46; D2 11 49 46; D2 11 49 46; D2 11 49 46; D2 11 49 46; D2 11 49 46;
  D2 11 49 46; D2 11 49 46; D2 11 49 46; D2 11 49 46; D2 11 49 46; D2 11 49 46; D2 11 49 46; D2 11 49 46; D2 11 49 46;
  D2 11 49 46; D2 11 49 46; D2 11 49 46; D2 11 49 46; D2 11 49 46; D2 11 49 46].
Definition hdecs_11 : list hdec := [
  D3 16 49 47 48; D3 16 49 47 49; D3 16 49 47 50; D3 16 49 47 97; D3 16 49 47 99; D3 16 49 47 101; D3 16 49 47 105;
  D3 16 49 47 111; D3 16 49 47 115; D3 16 49 47 116; D2 11 49 47; D2 11 49 47; D2 11 49 47; D2 11 49 47; D2 11 49 47;
  D2 11 49 47; D2 11 49 47; D2 11 49 47; D2 11 49 47; D2 11 49 47; D2 11 49 47; D2 11 49 47; D2 11 49 47; D2 11 49 47;
  D2 11 49 47; D2 11 49 47; D2 11 49 47; D2 11 49 47; D2 11 49 47; D2 11 49 47; D2 11 49 47; D2 11 49 47;
  D3 16 49 51 48; D3 16 49 51 49; D3 16 49 51 50; D3 16 49 51 97; D3 16 49 51 99; D3 16 49 51 101; D3 16 49 51 105;
  D3 16 49 51 111; D3 16 49 51 115; D3 16 49 51 116; D2 11 49 51; D2 11 49 51; D2 11 49 51; D2 11 49 51; D2 11 49 51;
  D2 11 49 51; D2 11 49 51; D2 11 49 51; D2 11 49 51; D2 11 49 51; D2 11 49 51; D2 11 49 51; D2 11 49 51; D2 11 49 51;
  D2 11 49 51; D2 11 49 51; D2 11 49 51; D2 11 49 51; D2 11 49 51; D2 11 49 51; D2 11 49 51; D2 11 49 51;
  D3 16 49 52 48; D3 16 49 52 49; D3 16 49 52 50; D3 16 49 52 97; D3 16 49 52 99; D3 16 49 52 101; D3 16 49 52 105;
  D3 16 49 52 111; D3 16 49 52 115; D3 16 49 52 116; D2 11 49 52; D2 11 49 52; D2 11 49 52; D2 11 49 52; D2 11 49 52;
  D2 11 49 52; D2 11 49 52; D2 11 49 52; D2 11 49 52; D2 11 49 52; D2 11 49 52; D2 11 49 52; D2 11 49 52; D2 11 49 52;
  D2 11 49 52; D2 11 49 52; D2 11 49 52; D2 11 49 52; D2 11 49 52; D2 11 49 52; D2 11 49 52; D2 11 49 52;
  D3 16 49 53 48; D3 16 49 53 49; D3 16 49 53 50; D3 16 49 53 97; D3 16 49 53 99; D3 16 49 53 101; D3 16 49 53 105;
  D3 16 49 53 111; D3 16 49 53 115; D3 16 49 53 116; D2 11 49 53; D2 11 49 53; D2 11 49 53; D2 11 49 53; D2 11 49 53;
  D2 11 49 53; D2 11 49 53; D2 11 49 53; D2 11 49 53; D2 11 49 53; D2 11 49 53; D2 11 49 53; D2 11 49 53; D2 11 49 53;
  D2 11 49 53; D2 11 49 53; D2 11 49 53; D2 11 49 53; D2 11 49 53; D2 11 49 53; D2 11 49 53; D2 11 49 53;
  D3 16 49 54 48; D3 16 49 54 49; D3 16 49 54 50; D3 16 49 54 97; D3 16 49 54 99; D3 16 49 54 101; D3 16 49 54 105;
  D3 16 49 54 111; D3 16 49 54 115; D3 16 49 54 116; D2 11 49 54; D2 11 49 54; D2 11 49 54; D2 11 49 54; D2 11 49 54;
  D2 11 49 54; D2 11 49 54; D2 11 49 54; D2 11 49 54; D2 11 49 54; D2 11 49 54; D2 11 49 54; D2 11 49 54; D2 11 49 54;
  D2 11 49 54; D2 11 49 54; D2 11 49 54; D2 11 49 54; D2 11 49 54; D2 11 49 54; D2 11 49 54; D2 11 49 54;
  D3 16 49 55 48; D3 16 49 55 49; D3 16 49 55 50; D3 16 49 55 97; D3 16 49 55 99; D3 16 49 55 101; D3 16 49 55 105;
  D3 16 49 55 111; D3 16 49 55 115; D3 16 49 55 116; D2 11 49 55; D2 11 49 55; D2 11 49 55; D2 11 49 55; D2 11 49 55;
  D2 11 49 55; D2 11 49 55; D2 11 49 55; D2 11 49 55; D2 11 49 55; D2 11 49 55; D2 11 49 55; D2 11 49 55; D2 11 49 55;
  D2 11 49 55; D2 11 49 55; D2 11 49 55; D2 11 49 55; D2 11 49 55; D2 11 49 55; D2 11 49 55; D2 11 49 55;
  D3 16 49 56 48; D3 16 49 56 49; D3 16 49 56 50; D3 16 49 56 97; D3 16 49 56 99; D3 16 49 56 101; D3 16 49 56 105;
  D3 16 49 56 111; D3 16 49 56 115; D3 16 49 56 116; D2 11 49 56; D2 11 49 56; D2 11 49 56; D2 11 49 56; D2 11 49 56;
  D2 11 49 56; D2 11 49 56; D2 11 49 56; D2 11 49 56; D2 11 49 56; D2 11 49 56; D2 11 49 56; D2 11 49 56; D2 11 49 56;
  D2 11 49 56; D2 11 49 56; D2 11 49 56; D2 11 49 56; D2 11 49 56; D2 11 49 56; D2 11 49 56; D2 11 49 56;
  D3 16 49 57 48; D3 16 49 57 49; D3 16 49 57 50; D3 16 49 57 97; D3 16 49 57 99; D3 16 49 57 101; D3 16 49 57 105;
  D3 16 49 57 111; D3 16 49 57 115; D3 16 49 57 116; D2 11 49 57; D2 11 49 57; D2 11 49 57; D2 11 49 57; D2 11 49 57;
  D2 11 49 57; D2 11 49 57; D2 11 49 57; D2 11 49 57; D2 11 49 57; D2 11 49 57; D2 11 49 57; D2 11 49 57; D2 11 49 57;
  D2 11 49 57; D2 11 49 57; D2 11 49 57; D2 11 49 57; D2 11 49 57; D2 11 49 57; D2 11 49 57; D2 11 49 57].
Definition hdecs_12 : list hdec := [
  D3 16 49 61 48; D3 16 49 61 49; D3 16 49 61 50; D3 16 49 61 97; D3 16 49 61 99; D3 16 49 61 101; D3 16 49 61 105;
  D3 16 49 61 111; D3 16 49 61 115; D3 16 49 61 116; D2 11 49 61; D2 11 49 61; D2 11 49 61; D2 11 49 61; D2 11 49 61;
  D2 11 49 61; D2 11 49 61; D2 11 49 61; D2 11 49 61; D2 11 49 61; D2 11 49 61; D2 11 49 61; D2 11 49 61; D2 11 49 61;
  D2 11 49 61; D2 11 49 61; D2 11 49 61; D2 11 49 61; D2 11 49 61; D2 11 49 61; D2 11 49 61; D2 11 49 61;
  D3 16 49 65 48; D3 16 49 65 49; D3 16 49 65 50; D3 16 49 65 97; D3 16 49 65 99; D3 16 49 65 101; D3 16 49 65 105;
  D3 16 49 65 111; D3 16 49 65 115; D3 16 49 65 116; D2 11 49 65; D2 11 49 65; D2 11 49 65; D2 11 49 65; D2 11 49 65;
  D2 11 49 65; D2 11 49 65; D2 11 49 65; D2 11 49 65; D2 11 49 65; D2 11 49 65; D2 11 49 65; D2 11 49 65; D2 11 49 65;
  D2 11 49 65; D2 11 49 65; D2 11 49 65; D2 11 49 65; D2 11 49 65; D2 11 49 65; D2 11 49 65; D2 11 49 65;
  D3 16 49 95 48; D3 16 49 95 49; D3 16 49 95 50; D3 16 49 95 97; D3 16 49 95 99; D3 16 49 95 101; D3 16 49 95 105;
  D3 16 49 95 111; D3 16 49 95 115; D3 16 49 95 116; D2 11 49 95; D2 11 49 95; D2 11 49 95; D2 11 49 95; D2 11 49 95;
  D2 11 49 95; D2 11 49 95; D2 11 49 95; D2 11 49 95; D2 11 49 95; D2 11 49 95; D2 11 49 95; D2 11 49 95; D2 11 49 95;
  D2 11 49 95; D2 11 49 95; D2 11 49 95; D2 11 49 95; D2 11 49 95; D2 11 49 95; D2 11 49 95; D2 11 49 95;
  D3 16 49 98 48; D3 16 49 98 49; D3 16 49 98 50; D3 16 49 98 97; D3 16 49 98 99; D3 16 49 98 101; D3 16 49 98 105;
  D3 16 49 98 111; D3 16 49 98 115; D3 16 49 98 116; D2 11 49 98; D2 11 49 98; D2 11 49 98; D2 11 49 98; D2 11 49 98;
  D2 11 49 98; D2 11 49 98; D2 11 49 98; D2 11 49 98; D2 11 49 98; D2 11 49 98; D2 11 49 98; D2 11 49 98; D2 11 49 98;
  D2 11 49 98; D2 11 49 98; D2 11 49 98; D2 11 49 98; D2 11 49 98; D2 11 49 98; D2 11 49 98; D2 11 49 98;
  D3 16 49 100 48; D3 16 49 100 49; D3 16 49 100 50; D3 16 49 100 97; D3 16 49 100 99; D3 16 49 100 101;
  D3 16 49 100 105; D3 16 49 100 111; D3 16 49 100 115; D3 16 49 100 116; D2 11 49 100; D2 11 49 100; D2 11 49 100;
  D2 11 49 100; D2 11 49 100; D2 11 49 100; D2 11 49 100; D2 11 49 100; D2 11 49 100; D2 11 49 100; D2 11 49 100;
  D2 11 49 100; D2 11 49 100; D2 11 49 100; D2 11 49 100; D2 11 49 100; D2 11 49 100; D2 11 49 100; D2 11 49 100;
  D2 11 49 100; D2 11 49 100; D2 11 49 100; D3 16 49 102 48; D3 16 49 102 49; D3 16 49 102 50; D3 16 49 102 97;
  D3 16 49 102 99; D3 16 49 102 101; D3 16 49 102 105; D3 16 49 102 111; D3 16 49 102 115; D3 16 49 102 116;
  D2 11 49 102; D2 11 49 102; D2 11 49 102; D2 11 49 102; D2 11 49 102; D2 11 49 102; D2 11 49 102; D2 11 49 102;
  D2 11 49 102; D2 11 49 102; D2 11 49 102; D2 11 49 102; D2 11 49 102; D2 11 49 102; D2 11 49 102; D2 11 49 102;
  D2 11 49 102; D2 11 49 102; D2 11 49 102; D2 11 49 102; D2 11 49 102; D2 11 49 102; D3 16 49 103 48;
  D3 16 49 103 49; D3 16 49 103 50; D3 16 49 103 97; D3 16 49 103 99; D3 16 49 103 101; D3 16 49 103 105;
  D3 16 49 103 111; D3 16 49 103 115; D3 16 49 103 116; D2 11 49 103; D2 11 49 103; D2 11 49 103; D2 11 49 103;
  D2 11 49 103; D2 11 49 103; D2 11 49 103; D2 11 49 103; D2 11 49 103; D2 11 49 103; D2 11 49 103; D2 11 49 103;
  D2 11 49 103; D2 11 49 103; D2 11 49 103; D2 11 49 103; D2 11 49 103; D2 11 49 103; D2 11 49 103; D2 11 49 103;
  D2 11 49 103; D2 11 49 103; D3 16 49 104 48; D3 16 49 104 49; D3 16 49 104 50; D3 16 49 104 97; D3 16 49 104 99;
  D3 16 49 104 101; D3 16 49 104 105; D3 16 49 104 111; D3 16 49 104 115; D3 16 49 104 116; D2 11 49 104;
  D2 11 49 104; D2 11 49 104; D2 11 49 104; D2 11 49 104; D2 11 49 104; D2 11 49 104; D2 11 49 104; D2 11 49 104;
  D2 11 49 104; D2 11 49 104; D2 11 49 104; D2 11 49 104; D2 11 49 104; D2 11 49 104; D2 11 49 104; D2 11 49 104;
  D2 11 49 104; D2 11 49 104; D2 11 49 104; D2 11 49 104; D2 11 49 104].
Definition hdecs_13 : list hdec := [
  D3 16 49 108 48; D3 16 49 108 49; D3 16 49 108 50; D3 16 49 108 97; D3 16 49 108 99; D3 16 49 108 101;
  D3 16 49 108 105; D3 16 49 108 111; D3 16 49 108 115; D3 16 49 108 116; D2 11 49 108; D2 11 49 108; D2 11 49 108;
  D2 11 49 108; D2 11 49 108; D2 11 49 108; D2 11 49 108; D2 11 49 108; D2 11 49 108; D2 11 49 108; D2 11 49 108;
  D2 11 49 108; D2 11 49 108; D2 11 49 108; D2 11 49 108; D2 11 49 108; D2 11 49 108; D2 11 49 108; D2 11 49 108;
  D2 11 49 108; D2 11 49 108; D2 11 49 108; D3 16 49 109 48; D3 16 49 109 49; D3 16 49 109 50; D3 16 49 109 97;
  D3 16 49 109 99; D3 16 49 109 101; D3 16 49 109 105; D3 16 49 109 111; D3 16 49 109 115; D3 16 49 109 116;
  D2 11 49 109; D2 11 49 109; D2 11 49 109; D2 11 49 109; D2 11 49 109; D2 11 49 109; D2 11 49 109; D2 11 49 109;
  D2 11 49 109; D2 11 49 109; D2 11 49 109; D2 11 49 109; D2 11 49 109; D2 11 49 109; D2 11 49 109; D2 11 49 109;
  D2 11 49 109; D2 11 49 109; D2 11 49 109; D2 11 49 109; D2 11 49 109; D2 11 49 109; D3 16 49 110 48;
  D3 16 49 110 49; D3 16 49 110 50; D3 16 49 110 97; D3 16 49 110 99; D3 16 49 110 101; D3 16 49 110 105;
  D3 16 49 110 111; D3 16 49 110 115; D3 16 49 110 116; D2 11 49 110; D2 11 49 110; D2 11 49 110; D2 11 49 110;
  D2 11 49 110; D2 11 49 110; D2 11 49 110; D2 11 49 110; D2 11 49 110; D2 11 49 110; D2 11 49 110; D2 11 49 110;
  D2 11 49 110; D2 11 49 110; D2 11 49 110; D2 11 49 110; D2 11 49 110; D2 11 49 110; D2 11 49 110; D2 11 49 110;
  D2 11 49 110; D2 11 49 110; D3 16 49 112 48; D3 16 49 112 49; D3 16 49 112 50; D3 16 49 112 97; D3 16 49 112 99;
  D3 16 49 112 101; D3 16 49 112 105; D3 16 49 112 111; D3 16 49 112 115; D3 16 49 112 116; D2 11 49 112;
  D2 11 49 112; D2 11 49 112; D2 11 49 112; D2 11 49 112; D2 11 49 112; D2 11 49 112; D2 11 49 112; D2 11 49 112;
  D2 11 49 112; D2 11 49 112; D2 11 49 112; D2 11 49 112; D2 11 49 112; D2 11 49 112; D2 11 49 112; D2 11 49 112;
  D2 11 49 112; D2 11 49 112; D2 11 49 112; D2 11 49 112; D2 11 49 112; D3 16 49 114 48; D3 16 49 114 49;
  D3 16 49 114 50; D3 16 49 114 97; D3 16 49 114 99; D3 16 49 114 101; D3 16 49 114 105; D3 16 49 114 111;
  D3 16 49 114 115; D3 16 49 114 116; D2 11 49 114; D2 11 49 114; D2 11 49 114; D2 11 49 114; D2 11 49 114;
  D2 11 49 114; D2 11 49 114; D2 11 49 114; D2 11 49 114; D2 11 49 114; D2 11 49 114; D2 11 49 114; D2 11 49 114;
  D2 11 49 114; D2 11 49 114; D2 11 49 114; D2 11 49 114; D2 11 49 114; D2 11 49 114; D2 11 49 114; D2 11 49 114;
  D2 11 49 114; D3 16 49 117 48; D3 16 49 117 49; D3 16 49 117 50; D3 16 49 117 97; D3 16 49 117 99; D3 16 49 117 101;
  D3 16 49 117 105; D3 16 49 117 111; D3 16 49 117 115; D3 16 49 117 116; D2 11 49 117; D2 11 49 117; D2 11 49 117;
  D2 11 49 117; D2 11 49 117; D2 11 49 117; D2 11 49 117; D2 11 49 117; D2 11 49 117; D2 11 49 117; D2 11 49 117;
  D2 11 49 117; D2 11 49 117; D2 11 49 117; D2 11 49 117; D2 11 49 117; D2 11 49 117; D2 11 49 117; D2 11 49 117;
  D2 11 49 117; D2 11 49 117; D2 11 49 117; D2 12 49 58; D2 12 49 58; D2 12 49 58; D2 12 49 58; D2 12 49 58;
  D2 12 49 58; D2 12 49 58; D2 12 49 58; D2 12 49 58; D2 12 49 58; D2 12 49 58; D2 12 49 58; D2 12 49 58; D2 12 49 58;
  D2 12 49 58; D2 12 49 58; D2 12 49 66; D2 12 49 66; D2 12 49 66; D2 12 49 66; D2 12 49 66; D2 12 49 66; D2 12 49 66;
  D2 12 49 66; D2 12 49 66; D2 12 49 66; D2 12 49 66; D2 12 49 66; D2 12 49 66; D2 12 49 66; D2 12 49 66; D2 12 49 66;
  D2 12 49 67; D2 12 49 67; D2 12 49 67; D2 12 49 67; D2 12 49 67; D2 12 49 67; D2 12 49 67; D2 12 49 67; D2 12 49 67;
  D2 12 49 67; D2 12 49 67; D2 12 49 67; D2 12 49 67; D2 12 49 67; D2 12 49 67; D2 12 49 67; D2 12 49 68; D2 12 49 68;
  D2 12 49 68; D2 12 49 68; D2 12 49 68; D2 12 49 68; D2 12 49 68; D2 12 49 68; D2 12 49 68; D2 12 49 68; D2 12 49 68;
  D2 12 49 68; D2 12 49 68; D2 12 49 68; D2 12 49 68; D2 12 49 68].
Definition hdecs_14 : list hdec := [
  D2 12 49 69; D2 12 49 69; D2 12 49 69; D2 12 49 69; D2 12 49 69; D2 12 49 69; D2 12 49 69; D2 12 49 69; D2 12 49 69;
  D2 12 49 69; D2 12 49 69; D2 12 49 69; D2 12 49 69; D2 12 49 69; D2 12 49 69; D2 12 49 69; D2 12 49 70; D2 12 49 70;
  D2 12 49 70; D2 12 49 70; D2 12 49 70; D2 12 49 70; D2 12 49 70; D2 12 49 70; D2 12 49 70; D2 12 49 70; D2 12 49 70;
  D2 12 49 70; D2 12 49 70; D2 12 49 70; D2 12 49 70; D2 12 49 70; D2 12 49 71; D2 12 49 71; D2 12 49 71; D2 12 49 71;
  D2 12 49 71; D2 12 49 71; D2 12 49 71; D2 12 49 71; D2 12 49 71; D2 12 49 71; D2 12 49 71; D2 12 49 71; D2 12 49 71;
  D2 12 49 71; D2 12 49 71; D2 12 49 71; D2 12 49 72; D2 12 49 72; D2 12 49 72; D2 12 49 72; D2 12 49 72; D2 12 49 72;
  D2 12 49 72; D2 12 49 72; D2 12 49 72; D2 12 49 72; D2 12 49 72; D2 12 49 72; D2 12 49 72; D2 12 49 72; D2 12 49 72;
  D2 12 49 72; D2 12 49 73; D2 12 49 73; D2 12 49 73; D2 12 49 73; D2 12 49 73; D2 12 49 73; D2 12 49 73; D2 12 49 73;
  D2 12 49 73; D2 12 49 73; D2 12 49 73; D2 12 49 73; D2 12 49 73; D2 12 49 73; D2 12 49 73; D2 12 49 73; D2 12 49 74;
  D2 12 49 74; D2 12 49 74; D2 12 49 74; D2 12 49 74; D2 12 49 74; D2 12 49 74; D2 12 49 74; D2 12 49 74; D2 12 49 74;
  D2 12 49 74; D2 12 49 74; D2 12 49 74; D2 12 49 74; D2 12 49 74; D2 12 49 74; D2 12 49 75; D2 12 49 75; D2 12 49 75;
  D2 12 49 75; D2 12 49 75; D2 12 49 75; D2 12 49 75; D2 12 49 75; D2 12 49 75; D2 12 49 75; D2 12 49 75; D2 12 49 75;
  D2 12 49 75; D2 12 49 75; D2 12 49 75; D2 12 49 75; D2 12 49 76; D2 12 49 76; D2 12 49 76; D2 12 49 76; D2 12 49 76;
  D2 12 49 76; D2 12 49 76; D2 12 49 76; D2 12 49 76; D2 12 49 76; D2 12 49 76; D2 12 49 76; D2 12 49 76; D2 12 49 76;
  D2 12 49 76; D2 12 49 76; D2 12 49 77; D2 12 49 77; D2 12 49 77; D2 12 49 77; D2 12 49 77; D2 12 49 77; D2 12 49 77;
  D2 12 49 77; D2 12 49 77; D2 12 49 77; D2 12 49 77; D2 12 49 77; D2 12 49 77; D2 12 49 77; D2 12 49 77; D2 12 49 77;
  D2 12 49 78; D2 12 49 78; D2 12 49 78; D2 12 49 78; D2 12 49 78; D2 12 49 78; D2 12 49 78; D2 12 49 78; D2 12 49 78;
  D2 12 49 78; D2 12 49 78; D2 12 49 78; D2 12 49 78; D2 12 49 78; D2 12 49 78; D2 12 49 78; D2 12 49 79; D2 12 49 79;
  D2 12 49 79; D2 12 49 79; D2 12 49 79; D2 12 49 79; D2 12 49 79; D2 12 49 79; D2 12 49 79; D2 12 49 79; D2 12 49 79;
  D2 12 49 79; D2 12 49 79; D2 12 49 79; D2 12 49 79; D2 12 49 79; D2 12 49 80; D2 12 49 80; D2 12 49 80; D2 12 49 80;
  D2 12 49 80; D2 12 49 80; D2 12 49 80; D2 12 49 80; D2 12 49 80; D2 12 49 80; D2 12 49 80; D2 12 49 80; D2 12 49 80;
  D2 12 49 80; D2 12 49 80; D2 12 49 80; D2 12 49 81; D2 12 49 81; D2 12 49 81; D2 12 49 81; D2 12 49 81; D2 12 49 81;
  D2 12 49 81; D2 12 49 81; D2 12 49 81; D2 12 49 81; D2 12 49 81; D2 12 49 81; D2 12 49 81; D2 12 49 81; D2 12 49 81;
  D2 12 49 81; D2 12 49 82; D2 12 49 82; D2 12 49 82; D2 12 49 82; D2 12 49 82; D2 12 49 82; D2 12 49 82; D2 12 49 82;
  D2 12 49 82; D2 12 49 82; D2 12 49 82; D2 12 49 82; D2 12 49 82; D2 12 49 82; D2 12 49 82; D2 12 49 82; D2 12 49 83;
  D2 12 49 83; D2 12 49 83; D2 12 49 83; D2 12 49 83; D2 12 49 83; D2 12 49 83; D2 12 49 83; D2 12 49 83; D2 12 49 83;
  D2 12 49 83; D2 12 49 83; D2 12 49 83; D2 12 49 83; D2 12 49 83; D2 12 49 83; D2 12 49 84; D2 12 49 84; D2 12 49 84;
  D2 12 49 84; D2 12 49 84; D2 12 49 84; D2 12 49 84; D2 12 49 84; D2 12 49 84; D2 12 49 84; D2 12 49 84; D2 12 49 84;
  D2 12 49 84; D2 12 49 84; D2 12 49 84; D2 12 49 84].
Definition hdecs_15 : list hdec := [
  D2 12 49 85; D2 12 49 85; D2 12 49 85; D2 12 49 85; D2 12 49 85; D2 12 49 85; D2 12 49 85; D2 12 49 85; D2 12 49 85;
  D2 12 49 85; D2 12 49 85; D2 12 49 85; D2 12 49 85; D2 12 49 85; D2 12 49 85; D2 12 49 85; D2 12 49 86; D2 12 49 86;
  D2 12 49 86; D2 12 49 86; D2 12 49 86; D2 12 49 86; D2 12 49 86; D2 12 49 86; D2 12 49 86; D2 12 49 86; D2 12 49 86;
  D2 12 49 86; D2 12 49 86; D2 12 49 86; D2 12 49 86; D2 12 49 86; D2 12 49 87; D2 12 49 87; D2 12 49 87; D2 12 49 87;
  D2 12 49 87; D2 12 49 87; D2 12 49 87; D2 12 49 87; D2 12 49 87; D2 12 49 87; D2 12 49 87; D2 12 49 87; D2 12 49 87;
  D2 12 49 87; D2 12 49 87; D2 12 49 87; D2 12 49 89; D2 12 49 89; D2 12 49 89; D2 12 49 89; D2 12 49 89; D2 12 49 89;
  D2 12 49 89; D2 12 49 89; D2 12 49 89; D2 12 49 89; D2 12 49 89; D2 12 49 89; D2 12 49 89; D2 12 49 89; D2 12 49 89;
  D2 12 49 89; D2 12 49 106; D2 12 49 106; D2 12 49 106; D2 12 49 106; D2 12 49 106; D2 12 49 106; D2 12 49 106;
  D2 12 49 106; D2 12 49 106; D2 12 49 106; D2 12 49 106; D2 12 49 106; D2 12 49 106; D2 12 49 106; D2 12 49 106;
  D2 12 49 106; D2 12 49 107; D2 12 49 107; D2 12 49 107; D2 12 49 107; D2 12 49 107; D2 12 49 107; D2 12 49 107;
  D2 12 49 107; D2 12 49 107; D2 12 49 107; D2 12 49 107; D2 12 49 107; D2 12 49 107; D2 12 49 107; D2 12 49 107;
  D2 12 49 107; D2 12 49 113; D2 12 49 113; D2 12 49 113; D2 12 49 113; D2 12 49 113; D2 12 49 113; D2 12 49 113;
  D2 12 49 113; D2 12 49 113; D2 12 49 113; D2 12 49 113; D2 12 49 113; D2 12 49 113; D2 12 49 113; D2 12 49 113;
  D2 12 49 113; D2 12 49 118; D2 12 49 118; D2 12 49 118; D2 12 49 118; D2 12 49 118; D2 12 49 118; D2 12 49 118;
  D2 12 49 118; D2 12 49 118; D2 12 49 118; D2 12 49 118; D2 12 49 118; D2 12 49 118; D2 12 49 118; D2 12 49 118;
  D2 12 49 118; D2 12 49 119; D2 12 49 119; D2 12 49 119; D2 12 49 119; D2 12 49 119; D2 12 49 119; D2 12 49 119;
  D2 12 49 119; D2 12 49 119; D2 12 49 119; D2 12 49 119; D2 12 49 119; D2 12 49 119; D2 12 49 119; D2 12 49 119;
  D2 12 49 119; D2 12 49 120; D2 12 49 120; D2 12 49 120; D2 12 49 120; D2 12 49 120; D2 12 49 120; D2 12 49 120;
  D2 12 49 120; D2 12 49 120; D2 12 49 120; D2 12 49 120; D2 12 49 120; D2 12 49 120; D2 12 49 120; D2 12 49 120;
  D2 12 49 120; D2 12 49 121; D2 12 49 121; D2 12 49 121; D2 12 49 121; D2 12 49 121; D2 12 49 121; D2 12 49 121;
  D2 12 49 121; D2 12 49 121; D2 12 49 121; D2 12 49 121; D2 12 49 121; D2 12 49 121; D2 12 49 121; D2 12 49 121;
  D2 12 49 121; D2 12 49 122; D2 12 49 122; D2 12 49 122; D2 12 49 122; D2 12 49 122; D2 12 49 122; D2 12 49 122;
  D2 12 49 122; D2 12 49 122; D2 12 49 122; D2 12 49 122; D2 12 49 122; D2 12 49 122; D2 12 49 122; D2 12 49 122;
  D2 12 49 122; D2 13 49 38; D2 13 49 38; D2 13 49 38; D2 13 49 38; D2 13 49 38; D2 13 49 38; D2 13 49 38;
  D2 13 49 38; D2 13 49 42; D2 13 49 42; D2 13 49 42; D2 13 49 42; D2 13 49 42; D2 13 49 42; D2 13 49 42; D2 13 49 42;
  D2 13 49 44; D2 13 49 44; D2 13 49 44; D2 13 49 44; D2 13 49 44; D2 13 49 44; D2 13 49 44; D2 13 49 44; D2 13 49 59;
  D2 13 49 59; D2 13 49 59; D2 13 49 59; D2 13 49 59; D2 13 49 59; D2 13 49 59; D2 13 49 59; D2 13 49 88; D2 13 49 88;
  D2 13 49 88; D2 13 49 88; D2 13 49 88; D2 13 49 88; D2 13 49 88; D2 13 49 88; D2 13 49 90; D2 13 49 90; D2 13 49 90;
  D2 13 49 90; D2 13 49 90; D2 13 49 90; D2 13 49 90; D2 13 49 90; D2 15 49 33; D2 15 49 33; D2 15 49 34; D2 15 49 34;
  D2 15 49 40; D2 15 49 40; D2 15 49 41; D2 15 49 41; D2 15 49 63; D2 15 49 63; D2 16 49 39; D2 16 49 43;
  D2 16 49 124; D1 5 49; D1 5 49; D1 5 49].
Definition hdecs_16 : list hdec := [
  D3 15 50 48 48; D3 15 50 48 48; D3 15 50 48 49; D3 15 50 48 49; D3 15 50 48 50; D3 15 50 48 50; D3 15 50 48 97;
  D3 15 50 48 97; D3 15 50 48 99; D3 15 50 48 99; D3 15 50 48 101; D3 15 50 48 101; D3 15 50 48 105; D3 15 50 48 105;
  D3 15 50 48 111; D3 15 50 48 111; D3 15 50 48 115; D3 15 50 48 115; D3 15 50 48 116; D3 15 50 48 116;
  D3 16 50 48 32; D3 16 50 48 37; D3 16 50 48 45; D3 16 50 48 46; D3 16 50 48 47; D3 16 50 48 51; D3 16 50 48 52;
  D3 16 50 48 53; D3 16 50 48 54; D3 16 50 48 55; D3 16 50 48 56; D3 16 50 48 57; D3 16 50 48 61; D3 16 50 48 65;
  D3 16 50 48 95; D3 16 50 48 98; D3 16 50 48 100; D3 16 50 48 102; D3 16 50 48 103; D3 16 50 48 104; D3 16 50 48 108;
  D3 16 50 48 109; D3 16 50 48 110; D3 16 50 48 112; D3 16 50 48 114; D3 16 50 48 117; D2 10 50 48; D2 10 50 48;
  D2 10 50 48; D2 10 50 48; D2 10 50 48; D2 10 50 48; D2 10 50 48; D2 10 50 48; D2 10 50 48; D2 10 50 48; D2 10 50 48;
  D2 10 50 48; D2 10 50 48; D2 10 50 48; D2 10 50 48; D2 10 50 48; D2 10 50 48; D2 10 50 48; D3 15 50 49 48;
  D3 15 50 49 48; D3 15 50 49 49; D3 15 50 49 49; D3 15 50 49 50; D3 15 50 49 50; D3 15 50 49 97; D3 15 50 49 97;
  D3 15 50 49 99; D3 15 50 49 99; D3 15 50 49 101; D3 15 50 49 101; D3 15 50 49 105; D3 15 50 49 105; D3 15 50 49 111;
  D3 15 50 49 111; D3 15 50 49 115; D3 15 50 49 115; D3 15 50 49 116; D3 15 50 49 116; D3 16 50 49 32; D3 16 50 49 37;
  D3 16 50 49 45; D3 16 50 49 46; D3 16 50 49 47; D3 16 50 49 51; D3 16 50 49 52; D3 16 50 49 53; D3 16 50 49 54;
  D3 16 50 49 55; D3 16 50 49 56; D3 16 50 49 57; D3 16 50 49 61; D3 16 50 49 65; D3 16 50 49 95; D3 16 50 49 98;
  D3 16 50 49 100; D3 16 50 49 102; D3 16 50 49 103; D3 16 50 49 104; D3 16 50 49 108; D3 16 50 49 109;
  D3 16 50 49 110; D3 16 50 49 112; D3 16 50 49 114; D3 16 50 49 117; D2 10 50 49; D2 10 50 49; D2 10 50 49;
  D2 10 50 49; D2 10 50 49; D2 10 50 49; D2 10 50 49; D2 10 50 49; D2 10 50 49; D2 10 50 49; D2 10 50 49; D2 10 50 49;
  D2 10 50 49; D2 10 50 49; D2 10 50 49; D2 10 50 49; D2 10 50 49; D2 10 50 49; D3 15 50 50 48; D3 15 50 50 48;
  D3 15 50 50 49; D3 15 50 50 49; D3 15 50 50 50; D3 15 50 50 50; D3 15 50 50 97; D3 15 50 50 97; D3 15 50 50 99;
  D3 15 50 50 99; D3 15 50 50 101; D3 15 50 50 101; D3 15 50 50 105; D3 15 50 50 105; D3 15 50 50 111;
  D3 15 50 50 111; D3 15 50 50 115; D3 15 50 50 115; D3 15 50 50 116; D3 15 50 50 116; D3 16 50 50 32; D3 16 50 50 37;
  D3 16 50 50 45; D3 16 50 50 46; D3 16 50 50 47; D3 16 50 50 51; D3 16 50 50 52; D3 16 50 50 53; D3 16 50 50 54;
  D3 16 50 50 55; D3 16 50 50 56; D3 16 50 50 57; D3 16 50 50 61; D3 16 50 50 65; D3 16 50 50 95; D3 16 50 50 98;
  D3 16 50 50 100; D3 16 50 50 102; D3 16 50 50 103; D3 16 50 50 104; D3 16 50 50 108; D3 16 50 50 109;
  D3 16 50 50 110; D3 16 50 50 112; D3 16 50 50 114; D3 16 50 50 117; D2 10 50 50; D2 10 50 50; D2 10 50 50;
  D2 10 50 50; D2 10 50 50; D2 10 50 50; D2 10 50 50; D2 10 50 50; D2 10 50 50; D2 10 50 50; D2 10 50 50; D2 10 50 50;
  D2 10 50 50; D2 10 50 50; D2 10 50 50; D2 10 50 50; D2 10 50 50; D2 10 50 50; D3 15 50 97 48; D3 15 50 97 48;
  D3 15 50 97 49; D3 15 50 97 49; D3 15 50 97 50; D3 15 50 97 50; D3 15 50 97 97; D3 15 50 97 97; D3 15 50 97 99;
  D3 15 50 97 99; D3 15 50 97 101; D3 15 50 97 101; D3 15 50 97 105; D3 15 50 97 105; D3 15 50 97 111;
  D3 15 50 97 111; D3 15 50 97 115; D3 15 50 97 115; D3 15 50 97 116; D3 15 50 97 116; D3 16 50 97 32; D3 16 50 97 37;
  D3 16 50 97 45; D3 16 50 97 46; D3 16 50 97 47; D3 16 50 97 51; D3 16 50 97 52; D3 16 50 97 53; D3 16 50 97 54;
  D3 16 50 97 55; D3 16 50 97 56; D3 16 50 97 57; D3 16 50 97 61; D3 16 50 97 65; D3 16 50 97 95; D3 16 50 97 98;
  D3 16 50 97 100; D3 16 50 97 102; D3 16 50 97 103; D3 16 50 97 104; D3 16 50 97 108; D3 16 50 97 109;
  D3 16 50 97 110; D3 16 50 97 112; D3 16 50 97 114; D3 16 50 97 117; D2 10 50 97; D2 10 50 97; D2 10 50 97;
  D2 10 50 97; D2 10 50 97; D2 10 50 97; D2 10 50 97; D2 10 50 97; D2 10 50 97; D2 10 50 97; D2 10 50 97; D2 10 50 97;
  D2 10 50 97; D2 10 50 97; D2 10 50 97; D2 10 50 97; D2 10 50 97; D2 10 50 97].
Definition hdecs_17 : list hdec := [
  D3 15 50 99 48; D3 15 50 99 48; D3 15 50 99 49; D3 15 50 99 49; D3 15 50 99 50; D3 15 50 99 50; D3 15 50 99 97;
  D3 15 50 99 97; D3 15 50 99 99; D3 15 50 99 99; D3 15 50 99 101; D3 15 50 99 101; D3 15 50 99 105; D3 15 50 99 105;
  D3 15 50 99 111; D3 15 50 99 111; D3 15 50 99 115; D3 15 50 99 115; D3 15 50 99 116; D3 15 50 99 116;
  D3 16 50 99 32; D3 16 50 99 37; D3 16 50 99 45; D3 16 50 99 46; D3 16 50 99 47; D3 16 50 99 51; D3 16 50 99 52;
  D3 16 50 99 53; D3 16 50 99 54; D3 16 50 99 55; D3 16 50 99 56; D3 16 50 99 57; D3 16 50 99 61; D3 16 50 99 65;
  D3 16 50 99 95; D3 16 50 99 98; D3 16 50 99 100; D3 16 50 99 102; D3 16 50 99 103; D3 16 50 99 104; D3 16 50 99 108;
  D3 16 50 99 109; D3 16 50 99 110; D3 16 50 99 112; D3 16 50 99 114; D3 16 50 99 117; D2 10 50 99; D2 10 50 99;
  D2 10 50 99; D2 10 50 99; D2 10 50 99; D2 10 50 99; D2 10 50 99; D2 10 50 99; D2 10 50 99; D2 10 50 99; D2 10 50 99;
  D2 10 50 99; D2 10 50 99; D2 10 50 99; D2 10 50 99; D2 10 50 99; D2 10 50 99; D2 10 50 99; D3 15 50 101 48;
  D3 15 50 101 48; D3 15 50 101 49; D3 15 50 101 49; D3 15 50 101 50; D3 15 50 101 50; D3 15 50 101 97;
  D3 15 50 101 97; D3 15 50 101 99; D3 15 50 101 99; D3 15 50 101 101; D3 15 50 101 101; D3 15 50 101 105;
  D3 15 50 101 105; D3 15 50 101 111; D3 15 50 101 111; D3 15 50 101 115; D3 15 50 101 115; D3 15 50 101 116;
  D3 15 50 101 116; D3 16 50 101 32; D3 16 50 101 37; D3 16 50 101 45; D3 16 50 101 46; D3 16 50 101 47;
  D3 16 50 101 51; D3 16 50 101 52; D3 16 50 101 53; D3 16 50 101 54; D3 16 50 101 55; D3 16 50 101 56;
  D3 16 50 101 57; D3 16 50 101 61; D3 16 50 101 65; D3 16 50 101 95; D3 16 50 101 98; D3 16 50 101 100;
  D3 16 50 101 102; D3 16 50 101 103; D3 16 50 101 104; D3 16 50 101 108; D3 16 50 101 109; D3 16 50 101 110;
  D3 16 50 101 112; D3 16 50 101 114; D3 16 50 101 117; D2 10 50 101; D2 10 50 101; D2 10 50 101; D2 10 50 101;
  D2 10 50 101; D2 10 50 101; D2 10 50 101; D2 10 50 101; D2 10 50 101; D2 10 50 101; D2 10 50 101; D2 10 50 101;
  D2 10 50 101; D2 10 50 101; D2 10 50 101; D2 10 50 101; D2 10 50 101; D2 10 50 101; D3 15 50 105 48;
  D3 15 50 105 48; D3 15 50 105 49; D3 15 50 105 49; D3 15 50 105 50; D3 15 50 105 50; D3 15 50 105 97;
  D3 15 50 105 97; D3 15 50 105 99; D3 15 50 105 99; D3 15 50 105 101; D3 15 50 105 101; D3 15 50 105 105;
  D3 15 50 105 105; D3 15 50 105 111; D3 15 50 105 111; D3 15 50 105 115; D3 15 50 105 115; D3 15 50 105 116;
  D3 15 50 105 116; D3 16 50 105 32; D3 16 50 105 37; D3 16 50 105 45; D3 16 50 105 46; D3 16 50 105 47;
  D3 16 50 105 51; D3 16 50 105 52; D3 16 50 105 53; D3 16 50 105 54; D3 16 50 105 55; D3 16 50 105 56;
  D3 16 50 105 57; D3 16 50 105 61; D3 16 50 105 65; D3 16 50 105 95; D3 16 50 105 98; D3 16 50 105 100;
  D3 16 50 105 102; D3 16 50 105 103; D3 16 50 105 104; D3 16 50 105 108; D3 16 50 105 109; D3 16 50 105 110;
  D3 16 50 105 112; D3 16 50 105 114; D3 16 50 105 117; D2 10 50 105; D2 10 50 105; D2 10 50 105; D2 10 50 105;
  D2 10 50 105; D2 10 50 105; D2 10 50 105; D2 10 50 105; D2 10 50 105; D2 10 50 105; D2 10 50 105; D2 10 50 105;
  D2 10 50 105; D2 10 50 105; D2 10 50 105; D2 10 50 105; D2 10 50 105; D2 10 50 105; D3 15 50 111 48;
  D3 15 50 111 48; D3 15 50 111 49; D3 15 50 111 49; D3 15 50 111 50; D3 15 50 111 50; D3 15 50 111 97;
  D3 15 50 111 97; D3 15 50 111 99; D3 15 50 111 99; D3 15 50 111 101; D3 15 50 111 101; D3 15 50 111 105;
  D3 15 50 111 105; D3 15 50 111 111; D3 15 50 111 111; D3 15 50 111 115; D3 15 50 111 115; D3 15 50 111 116;
  D3 15 50 111 116; D3 16 50 111 32; D3 16 50 111 37; D3 16 50 111 45; D3 16 50 111 46; D3 16 50 111 47;
  D3 16 50 111 51; D3 16 50 111 52; D3 16 50 111 53; D3 16 50 111 54; D3 16 50 111 55; D3 16 50 111 56;
  D3 16 50 111 57; D3 16 50 111 61; D3 16 50 111 65; D3 16 50 111 95; D3 16 50 111 98; D3 16 50 111 100;
  D3 16 50 111 102; D3 16 50 111 103; D3 16 50 111 104; D3 16 50 111 108; D3 16 50 111 109; D3 16 50 111 110;
  D3 16 50 111 112; D3 16 50 111 114; D3 16 50 111 117; D2 10 50 111; D2 10 50 111; D2 10 50 111; D2 10 50 111;
  D2 10 50 111; D2 10 50 111; D2 10 50 111; D2 10 50 111; D2 10 50 111; D2 10 50 111; D2 10 50 111; D2 10 50 111;
  D2 10 50 111; D2 10 50 111; D2 10 50 111; D2 10 50 111; D2 10 50 111; D2 10 50 111].
Definition hdecs_18 : list hdec := [
  D3 15 50 115 48; D3 15 50 115 48; D3 15 50 115 49; D3 15 50 115 49; D3 15 50 115 50; D3 15 50 115 50;
  D3 15 50 115 97; D3 15 50 115 97; D3 15 50 115 99; D3 15 50 115 99; D3 15 50 115 101; D3 15 50 115 101;
  D3 15 50 115 105; D3 15 50 115 105; D3 15 50 115 111; D3 15 50 115 111; D3 15 50 115 115; D3 15 50 115 115;
  D3 15 50 115 116; D3 15 50 115 116; D3 16 50 115 32; D3 16 50 115 37; D3 16 50 115 45; D3 16 50 115 46;
  D3 16 50 115 47; D3 16 50 115 51; D3 16 50 115 52; D3 16 50 115 53; D3 16 50 115 54; D3 16 50 115 55;
  D3 16 50 115 56; D3 16 50 115 57; D3 16 50 115 61; D3 16 50 115 65; D3 16 50 115 95; D3 16 50 115 98;
  D3 16 50 115 100; D3 16 50 115 102; D3 16 50 115 103; D3 16 50 115 104; D3 16 50 115 108; D3 16 50 115 109;
  D3 16 50 115 110; D3 16 50 115 112; D3 16 50 115 114; D3 16 50 115 117; D2 10 50 115; D2 10 50 115; D2 10 50 115;
  D2 10 50 115; D2 10 50 115; D2 10 50 115; D2 10 50 115; D2 10 50 115; D2 10 50 115; D2 10 50 115; D2 10 50 115;
  D2 10 50 115; D2 10 50 115; D2 10 50 115; D2 10 50 115; D2 10 50 115; D2 10 50 115; D2 10 50 115; D3 15 50 116 48;
  D3 15 50 116 48; D3 15 50 116 49; D3 15 50 116 49; D3 15 50 116 50; D3 15 50 116 50; D3 15 50 116 97;
  D3 15 50 116 97; D3 15 50 116 99; D3 15 50 116 99; D3 15 50 116 101; D3 15 50 116 101; D3 15 50 116 105;
  D3 15 50 116 105; D3 15 50 116 111; D3 15 50 116 111; D3 15 50 116 115; D3 15 50 116 115; D3 15 50 116 116;
  D3 15 50 116 116; D3 16 50 116 32; D3 16 50 116 37; D3 16 50 116 45; D3 16 50 116 46; D3 16 50 116 47;
  D3 16 50 116 51; D3 16 50 116 52; D3 16 50 116 53; D3 16 50 116 54; D3 16 50 116 55; D3 16 50 116 56;
  D3 16 50 116 57; D3 16 50 116 61; D3 16 50 116 65; D3 16 50 116 95; D3 16 50 116 98; D3 16 50 116 100;
  D3 16 50 116 102; D3 16 50 116 103; D3 16 50 116 104; D3 16 50 116 108; D3 16 50 116 109; D3 16 50 116 110;
  D3 16 50 116 112; D3 16 50 116 114; D3 16 50 116 117; D2 10 50 116; D2 10 50 116; D2 10 50 116; D2 10 50 116;
  D2 10 50 116; D2 10 50 116; D2 10 50 116; D2 10 50 116; D2 10 50 116; D2 10 50 116; D2 10 50 116; D2 10 50 116;
  D2 10 50 116; D2 10 50 116; D2 10 50 116; D2 10 50 116; D2 10 50 116; D2 10 50 116; D3 16 50 32 48; D3 16 50 32 49;
  D3 16 50 32 50; D3 16 50 32 97; D3 16 50 32 99; D3 16 50 32 101; D3 16 50 32 105; D3 16 50 32 111; D3 16 50 32 115;
  D3 16 50 32 116; D2 11 50 32; D2 11 50 32; D2 11 50 32; D2 11 50 32; D2 11 50 32; D2 11 50 32; D2 11 50 32;
  D2 11 50 32; D2 11 50 32; D2 11 50 32; D2 11 50 32; D2 11 50 32; D2 11 50 32; D2 11 50 32; D2 11 50 32; D2 11 50 32;
  D2 11 50 32; D2 11 50 32; D2 11 50 32; D2 11 50 32; D2 11 50 32; D2 11 50 32; D3 16 50 37 48; D3 16 50 37 49;
  D3 16 50 37 50; D3 16 50 37 97; D3 16 50 37 99; D3 16 50 37 101; D3 16 50 37 105; D3 16 50 37 111; D3 16 50 37 115;
  D3 16 50 37 116; D2 11 50 37; D2 11 50 37; D2 11 50 37; D2 11 50 37; D2 11 50 37; D2 11 50 37; D2 11 50 37;
  D2 11 50 37; D2 11 50 37; D2 11 50 37; D2 11 50 37; D2 11 50 37; D2 11 50 37; D2 11 50 37; D2 11 50 37; D2 11 50 37;
  D2 11 50 37; D2 11 50 37; D2 11 50 37; D2 11 50 37; D2 11 50 37; D2 11 50 37; D3 16 50 45 48; D3 16 50 45 49;
  D3 16 50 45 50; D3 16 50 45 97; D3 16 50 45 99; D3 16 50 45 101; D3 16 50 45 105; D3 16 50 45 111; D3 16 50 45 115;
  D3 16 50 45 116; D2 11 50 45; D2 11 50 45; D2 11 50 45; D2 11 50 45; D2 11 50 45; D2 11 50 45; D2 11 50 45;
  D2 11 50 45; D2 11 50 45; D2 11 50 45; D2 11 50 45; D2 11 50 45; D2 11 50 45; D2 11 50 45; D2 11 50 45; D2 11 50 45;
  D2 11 50 45; D2 11 50 45; D2 11 50 45; D2 11 50 45; D2 11 50 45; D2 11 50 45; D3 16 50 46 48; D3 16 50 46 49;
  D3 16 50 46 50; D3 16 50 46 97; D3 16 50 46 99; D3 16 50 46 101; D3 16 50 46 105; D3 16 50 46 111; D3 16 50 46 115;
  D3 16 50 46 116; D2 11 50 46; D2 11 50 46; D2 11 50 46; D2 11 50 46; D2 11 50 46; D2 11 50 46; D2 11 50 46;
  D2 11 50 46; D2 11 50 46; D2 11 50 46; D2 11 50 46; D2 11 50 46; D2 11 50 46; D2 11 50 46; D2 11 50 46; D2 11 50 46;
  D2 11 50 46; D2 11 50 46; D2 11 50 46; D2 11 50 46; D2 11 50 46; D2 11 50 46].
Definition hdecs_19 : list hdec := [
  D3 16 50 47 48; D3 16 50 47 49; D3 16 50 47 50; D3 16 50 47 97; D3 16 50 47 99; D3 16 50 47 101; D3 16 50 47 105;
  D3 16 50 47 111; D3 16 50 47 115; D3 16 50 47 116; D2 11 50 47; D2 11 50 47; D2 11 50 47; D2 11 50 47; D2 11 50 47;
  D2 11 50 47; D2 11 50 47; D2 11 50 47; D2 11 50 47; D2 11 50 47; D2 11 50 47; D2 11 50 47; D2 11 50 47; D2 11 50 47;
  D2 11 50 47; D2 11 50 47; D2 11 50 47; D2 11 50 47; D2 11 50 47; D2 11 50 47; D2 11 50 47; D2 11 50 47;
  D3 16 50 51 48; D3 16 50 51 49; D3 16 50 51 50; D3 16 50 51 97; D3 16 50 51 99; D3 16 50 51 101; D3 16 50 51 105;
  D3 16 50 51 111; D3 16 50 51 115; D3 16 50 51 116; D2 11 50 51; D2 11 50 51; D2 11 50 51; D2 11 50 51; D2 11 50 51;
  D2 11 50 51; D2 11 50 51; D2 11 50 51; D2 11 50 51; D2 11 50 51; D2 11 50 51; D2 11 50 51; D2 11 50 51; D2 11 50 51;
  D2 11 50 51; D2 11 50 51; D2 11 50 51; D2 11 50 51; D2 11 50 51; D2 11 50 51; D2 11 50 51; D2 11 50 51;
  D3 16 50 52 48; D3 16 50 52 49; D3 16 50 52 50; D3 16 50 52 97; D3 16 50 52 99; D3 16 50 52 101; D3 16 50 52 105;
  D3 16 50 52 111; D3 16 50 52 115; D3 16 50 52 116; D2 11 50 52; D2 11 50 52; D2 11 50 52; D2 11 50 52; D2 11 50 52;
  D2 11 50 52; D2 11 50 52; D2 11 50 52; D2 11 50 52; D2 11 50 52; D2 11 50 52; D2 11 50 52; D2 11 50 52; D2 11 50 52;
  D2 11 50 52; D2 11 50 52; D2 11 50 52; D2 11 50 52; D2 11 50 52; D2 11 50 52; D2 11 50 52; D2 11 50 52;
  D3 16 50 53 48; D3 16 50 53 49; D3 16 50 53 50; D3 16 50 53 97; D3 16 50 53 99; D3 16 50 53 101; D3 16 50 53 105;
  D3 16 50 53 111; D3 16 50 53 115; D3 16 50 53 116; D2 11 50 53; D2 11 50 53; D2 11 50 53; D2 11 50 53; D2 11 50 53;
  D2 11 50 53; D2 11 50 53; D2 11 50 53; D2 11 50 53; D2 11 50 53; D2 11 50 53; D2 11 50 53; D2 11 50 53; D2 11 50 53;
  D2 11 50 53; D2 11 50 53; D2 11 50 53; D2 11 50 53; D2 11 50 53; D2 11 50 53; D2 11 50 53; D2 11 50 53;
  D3 16 50 54 48; D3 16 50 54 49; D3 16 50 54 50; D3 16 50 54 97; D3 16 50 54 99; D3 16 50 54 101; D3 16 50 54 105;
  D3 16 50 54 111; D3 16 50 54 115; D3 16 50 54 116; D2 11 50 54; D2 11 50 54; D2 11 50 54; D2 11 50 54; D2 11 50 54;
  D2 11 50 54; D2 11 50 54; D2 11 50 54; D2 11 50 54; D2 11 50 54; D2 11 50 54; D2 11 50 54; D2 11 50 54; D2 11 50 54;
  D2 11 50 54; D2 11 50 54; D2 11 50 54; D2 11 50 54; D2 11 50 54; D2 11 50 54; D2 11 50 54; D2 11 50 54;
  D3 16 50 55 48; D3 16 50 55 49; D3 16 50 55 50; D3 16 50 55 97; D3 16 50 55 99; D3 16 50 55 101; D3 16 50 55 105;
  D3 16 50 55 111; D3 16 50 55 115; D3 16 50 55 116; D2 11 50 55; D2 11 50 55; D2 11 50 55; D2 11 50 55; D2 11 50 55;
  D2 11 50 55; D2 11 50 55; D2 11 50 55; D2 11 50 55; D2 11 50 55; D2 11 50 55; D2 11 50 55; D2 11 50 55; D2 11 50 55;
  D2 11 50 55; D2 11 50 55; D2 11 50 55; D2 11 50 55; D2 11 50 55; D2 11 50 55; D2 11 50 55; D2 11 50 55;
  D3 16 50 56 48; D3 16 50 56 49; D3 16 50 56 50; D3 16 50 56 97; D3 16 50 56 99; D3 16 50 56 101; D3 16 50 56 105;
  D3 16 50 56 111; D3 16 50 56 115; D3 16 50 56 116; D2 11 50 56; D2 11 50 56; D2 11 50 56; D2 11 50 56; D2 11 50 56;
  D2 11 50 56; D2 11 50 56; D2 11 50 56; D2 11 50 56; D2 11 50 56; D2 11 50 56; D2 11 50 56; D2 11 50 56; D2 11 50 56;
  D2 11 50 56; D2 11 50 56; D2 11 50 56; D2 11 50 56; D2 11 50 56; D2 11 50 56; D2 11 50 56; D2 11 50 56;
  D3 16 50 57 48; D3 16 50 57 49; D3 16 50 57 50; D3 16 50 57 97; D3 16 50 57 99; D3 16 50 57 101; D3 16 50 57 105;
  D3 16 50 57 111; D3 16 50 57 115; D3 16 50 57 116; D2 11 50 57; D2 11 50 57; D2 11 50 57; D2 11 50 57; D2 11 50 57;
  D2 11 50 57; D2 11 50 57; D2 11 50 57; D2 11 50 57; D2 11 50 57; D2 11 50 57; D2 11 50 57; D2 11 50 57; D2 11 50 57;
  D2 11 50 57; D2 11 50 57; D2 11 50 57; D2 11 50 57; D2 11 50 57; D2 11 50 57; D2 11 50 57; D2 11 50 57].
Definition hdecs_20 : list hdec := [
  D3 16 50 61 48; D3 16 50 61 49; D3 16 50 61 50; D3 16 50 61 97; D3 16 50 61 99; D3 16 50 61 101; D3 16 50 61 105;
  D3 16 50 61 111; D3 16 50 61 115; D3 16 50 61 116; D2 11 50 61; D2 11 50 61; D2 11 50 61; D2 11 50 61; D2 11 50 61;
  D2 11 50 61; D2 11 50 61; D2 11 50 61; D2 11 50 61; D2 11 50 61; D2 11 50 61; D2 11 50 61; D2 11 50 61; D2 11 50 61;
  D2 11 50 61; D2 11 50 61; D2 11 50 61; D2 11 50 61; D2 11 50 61; D2 11 50 61; D2 11 50 61; D2 11 50 61;
  D3 16 50 65 48; D3 16 50 65 49; D3 16 50 65 50; D3 16 50 65 97; D3 16 50 65 99; D3 16 50 65 101; D3 16 50 65 105;
  D3 16 50 65 111; D3 16 50 65 115; D3 16 50 65 116; D2 11 50 65; D2 11 50 65; D2 11 50 65; D2 11 50 65; D2 11 50 65;
  D2 11 50 65; D2 11 50 65; D2 11 50 65; D2 11 50 65; D2 11 50 65; D2 11 50 65; D2 11 50 65; D2 11 50 65; D2 11 50 65;
  D2 11 50 65; D2 11 50 65; D2 11 50 65; D2 11 50 65; D2 11 50 65; D2 11 50 65; D2 11 50 65; D2 11 50 65;
  D3 16 50 95 48; D3 16 50 95 49; D3 16 50 95 50; D3 16 50 95 97; D3 16 50 95 99; D3 16 50 95 101; D3 16 50 95 105;
  D3 16 50 95 111; D3 16 50 95 115; D3 16 50 95 116; D2 11 50 95; D2 11 50 95; D2 11 50 95; D2 11 50 95; D2 11 50 95;
  D2 11 50 95; D2 11 50 95; D2 11 50 95; D2 11 50 95; D2 11 50 95; D2 11 50 95; D2 11 50 95; D2 11 50 95; D2 11 50 95;
  D2 11 50 95; D2 11 50 95; D2 11 50 95; D2 11 50 95; D2 11 50 95; D2 11 50 95; D2 11 50 95; D2 11 50 95;
  D3 16 50 98 48; D3 16 50 98 49; D3 16 50 98 50; D3 16 50 98 97; D3 16 50 98 99; D3 16 50 98 101; D3 16 50 98 105;
  D3 16 50 98 111; D3 16 50 98 115; D3 16 50 98 116; D2 11 50 98; D2 11 50 98; D2 11 50 98; D2 11 50 98; D2 11 50 98;
  D2 11 50 98; D2 11 50 98; D2 11 50 98; D2 11 50 98; D2 11 50 98; D2 11 50 98; D2 11 50 98; D2 11 50 98; D2 11 50 98;
  D2 11 50 98; D2 11 50 98; D2 11 50 98; D2 11 50 98; D2 11 50 98; D2 11 50 98; D2 11 50 98; D2 11 50 98;
  D3 16 50 100 48; D3 16 50 100 49; D3 16 50 100 50; D3 16 50 100 97; D3 16 50 100 99; D3 16 50 100 101;
  D3 16 50 100 105; D3 16 50 100 111; D3 16 50 100 115; D3 16 50 100 116; D2 11 50 100; D2 11 50 100; D2 11 50 100;
  D2 11 50 100; D2 11 50 100; D2 11 50 100; D2 11 50 100; D2 11 50 100; D2 11 50 100; D2 11 50 100; D2 11 50 100;
  D2 11 50 100; D2 11 50 100; D2 11 50 100; D2 11 50 100; D2 11 50 100; D2 11 50 100; D2 11 50 100; D2 11 50 100;
  D2 11 50 100; D2 11 50 100; D2 11 50 100; D3 16 50 102 48; D3 16 50 102 49; D3 16 50 102 50; D3 16 50 102 97;
  D3 16 50 102 99; D3 16 50 102 101; D3 16 50 102 105; D3 16 50 102 111; D3 16 50 102 115; D3 16 50 102 116;
  D2 11 50 102; D2 11 50 102; D2 11 50 102; D2 11 50 102; D2 11 50 102; D2 11 50 102; D2 11 50 102; D2 11 50 102;
  D2 11 50 102; D2 11 50 102; D2 11 50 102; D2 11 50 102; D2 11 50 102; D2 11 50 102; D2 11 50 102; D2 11 50 102;
  D2 11 50 102; D2 11 50 102; D2 11 50 102; D2 11 50 102; D2 11 50 102; D2 11 50 102; D3 16 50 103 48;
  D3 16 50 103 49; D3 16 50 103 50; D3 16 50 103 97; D3 16 50 103 99; D3 16 50 103 101; D3 16 50 103 105;
  D3 16 50 103 111; D3 16 50 103 115; D3 16 50 103 116; D2 11 50 103; D2 11 50 103; D2 11 50 103; D2 11 50 103;
  D2 11 50 103; D2 11 50 103; D2 11 50 103; D2 11 50 103; D2 11 50 103; D2 11 50 103; D2 11 50 103; D2 11 50 103;
  D2 11 50 103; D2 11 50 103; D2 11 50 103; D2 11 50 103; D2 11 50 103; D2 11 50 103; D2 11 50 103; D2 11 50 103;
  D2 11 50 103; D2 11 50 103; D3 16 50 104 48; D3 16 50 104 49; D3 16 50 104 50; D3 16 50 104 97; D3 16 50 104 99;
  D3 16 50 104 101; D3 16 50 104 105; D3 16 50 104 111; D3 16 50 104 115; D3 16 50 104 116; D2 11 50 104;
  D2 11 50 104; D2 11 50 104; D2 11 50 104; D2 11 50 104; D2 11 50 104; D2 11 50 104; D2 11 50 104; D2 11 50 104;
  D2 11 50 104; D2 11 50 104; D2 11 50 104; D2 11 50 104; D2 11 50 104; D2 11 50 104; D2 11 50 104; D2 11 50 104;
  D2 11 50 104; D2 11 50 104; D2 11 50 104; D2 11 50 104; D2 11 50 104].
Definition hdecs_21 : list hdec := [
  D3 16 50 108 48; D3 16 50 108 49; D3 16 50 108 50; D3 16 50 108 97; D3 16 50 108 99; D3 16 50 108 101;
  D3 16 50 108 105; D3 16 50 108 111; D3 16 50 108 115; D3 16 50 108 116; D2 11 50 108; D2 11 50 108; D2 11 50 108;
  D2 11 50 108; D2 11 50 108; D2 11 50 108; D2 11 50 108; D2 11 50 108; D2 11 50 108; D2 11 50 108; D2 11 50 108;
  D2 11 50 108; D2 11 50 108; D2 11 50 108; D2 11 50 108; D2 11 50 108; D2 11 50 108; D2 11 50 108; D2 11 50 108;
  D2 11 50 108; D2 11 50 108; D2 11 50 108; D3 16 50 109 48; D3 16 50 109 49; D3 16 50 109 50; D3 16 50 109 97;
  D3 16 50 109 99; D3 16 50 109 101; D3 16 50 109 105; D3 16 50 109 111; D3 16 50 109 115; D3 16 50 109 116;
  D2 11 50 109; D2 11 50 109; D2 11 50 109; D2 11 50 109; D2 11 50 109; D2 11 50 109; D2 11 50 109; D2 11 50 109;
  D2 11 50 109; D2 11 50 109; D2 11 50 109; D2 11 50 109; D2 11 50 109; D2 11 50 109; D2 11 50 109; D2 11 50 109;
  D2 11 50 109; D2 11 50 109; D2 11 50 109; D2 11 50 109; D2 11 50 109; D2 11 50 109; D3 16 50 110 48;
  D3 16 50 110 49; D3 16 50 110 50; D3 16 50 110 97; D3 16 50 110 99; D3 16 50 110 101; D3 16 50 110 105;
  D3 16 50 110 111; D3 16 50 110 115; D3 16 50 110 116; D2 11 50 110; D2 11 50 110; D2 11 50 110; D2 11 50 110;
  D2 11 50 110; D2 11 50 110; D2 11 50 110; D2 11 50 110; D2 11 50 110; D2 11 50 110; D2 11 50 110; D2 11 50 110;
  D2 11 50 110; D2 11 50 110; D2 11 50 110; D2 11 50 110; D2 11 50 110; D2 11 50 110; D2 11 50 110; D2 11 50 110;
  D2 11 50 110; D2 11 50 110; D3 16 50 112 48; D3 16 50 112 49; D3 16 50 112 50; D3 16 50 112 97; D3 16 50 112 99;
  D3 16 50 112 101; D3 16 50 112 105; D3 16 50 112 111; D3 16 50 112 115; D3 16 50 112 116; D2 11 50 112;
  D2 11 50 112; D2 11 50 112; D2 11 50 112; D2 11 50 112; D2 11 50 112; D2 11 50 112; D2 11 50 112; D2 11 50 112;
  D2 11 50 112; D2 11 50 112; D2 11 50 112; D2 11 50 112; D2 11 50 112; D2 11 50 112; D2 11 50 112; D2 11 50 112;
  D2 11 50 112; D2 11 50 112; D2 11 50 112; D2 11 50 112; D2 11 50 112; D3 16 50 114 48; D3 16 50 114 49;
  D3 16 50 114 50; D3 16 50 114 97; D3 16 50 114 99; D3 16 50 114 101; D3 16 50 114 105; D3 16 50 114 111;
  D3 16 50 114 115; D3 16 50 114 116; D2 11 50 114; D2 11 50 114; D2 11 50 114; D2 11 50 114; D2 11 50 114;
  D2 11 50 114; D2 11 50 114; D2 11 50 114; D2 11 50 114; D2 11 50 114; D2 11 50 114; D2 11 50 114; D2 11 50 114;
  D2 11 50 114; D2 11 50 114; D2 11 50 114; D2 11 50 114; D2 11 50 114; D2 11 50 114; D2 11 50 114; D2 11 50 114;
  D2 11 50 114; D3 16 50 117 48; D3 16 50 117 49; D3 16 50 117 50; D3 16 50 117 97; D3 16 50 117 99; D3 16 50 117 101;
  D3 16 50 117 105; D3 16 50 117 111; D3 16 50 117 115; D3 16 50 117 116; D2 11 50 117; D2 11 50 117; D2 11 50 117;
  D2 11 50 117; D2 11 50 117; D2 11 50 117; D2 11 50 117; D2 11 50 117; D2 11 50 117; D2 11 50 117; D2 11 50 117;
  D2 11 50 117; D2 11 50 117; D2 11 50 117; D2 11 50 117; D2 11 50 117; D2 11 50 117; D2 11 50 117; D2 11 50 117;
  D2 11 50 117; D2 11 50 117; D2 11 50 117; D2 12 50 58; D2 12 50 58; D2 12 50 58; D2 12 50 58; D2 12 50 58;
  D2 12 50 58; D2 12 50 58; D2 12 50 58; D2 12 50 58; D2 12 50 58; D2 12 50 58; D2 12 50 58; D2 12 50 58; D2 12 50 58;
  D2 12 50 58; D2 12 50 58; D2 12 50 66; D2 12 50 66; D2 12 50 66; D2 12 50 66; D2 12 50 66; D2 12 50 66; D2 12 50 66;
  D2 12 50 66; D2 12 50 66; D2 12 50 66; D2 12 50 66; D2 12 50 66; D2 12 50 66; D2 12 50 66; D2 12 50 66; D2 12 50 66;
  D2 12 50 67; D2 12 50 67; D2 12 50 67; D2 12 50 67; D2 12 50 67; D2 12 50 67; D2 12 50 67; D2 12 50 67; D2 12 50 67;
  D2 12 50 67; D2 12 50 67; D2 12 50 67; D2 12 50 67; D2 12 50 67; D2 12 50 67; D2 12 50 67; D2 12 50 68; D2 12 50 68;
  D2 12 50 68; D2 12 50 68; D2 12 50 68; D2 12 50 68; D2 12 50 68; D2 12 50 68; D2 12 50 68; D2 12 50 68; D2 12 50 68;
  D2 12 50 68; D2 12 50 68; D2 12 50 68; D2 12 50 68; D2 12 50 68].
Definition hdecs_22 : list hdec := [
  D2 12 50 69; D2 12 50 69; D2 12 50 69; D2 12 50 69; D2 12 50 69; D2 12 50 69; D2 12 50 69; D2 12 50 69; D2 12 50 69;
  D2 12 50 69; D2 12 50 69; D2 12 50 69; D2 12 50 69; D2 12 50 69; D2 12 50 69; D2 12 50 69; D2 12 50 70; D2 12 50 70;
  D2 12 50 70; D2 12 50 70; D2 12 50 70; D2 12 50 70; D2 12 50 70; D2 12 50 70; D2 12 50 70; D2 12 50 70; D2 12 50 70;
  D2 12 50 70; D2 12 50 70; D2 12 50 70; D2 12 50 70; D2 12 50 70; D2 12 50 71; D2 12 50 71; D2 12 50 71; D2 12 50 71;
  D2 12 50 71; D2 12 50 71; D2 12 50 71; D2 12 50 71; D2 12 50 71; D2 12 50 71; D2 12 50 71; D2 12 50 71; D2 12 50 71;
  D2 12 50 71; D2 12 50 71; D2 12 50 71; D2 12 50 72; D2 12 50 72; D2 12 50 72; D2 12 50 72; D2 12 50 72; D2 12 50 72;
  D2 12 50 72; D2 12 50 72; D2 12 50 72; D2 12 50 72; D2 12 50 72; D2 12 50 72; D2 12 50 72; D2 12 50 72; D2 12 50 72;
  D2 12 50 72; D2 12 50 73; D2 12 50 73; D2 12 50 73; D2 12 50 73; D2 12 50 73; D2 12 50 73; D2 12 50 73; D2 12 50 73;
  D2 12 50 73; D2 12 50 73; D2 12 50 73; D2 12 50 73; D2 12 50 73; D2 12 50 73; D2 12 50 73; D2 12 50 73; D2 12 50 74;
  D2 12 50 74; D2 12 50 74; D2 12 50 74; D2 12 50 74; D2 12 50 74; D2 12 50 74; D2 12 50 74; D2 12 50 74; D2 12 50 74;
  D2 12 50 74; D2 12 50 74; D2 12 50 74; D2 12 50 74; D2 12 50 74; D2 12 50 74; D2 12 50 75; D2 12 50 75; D2 12 50 75;
  D2 12 50 75; D2 12 50 75; D2 12 50 75; D2 12 50 75; D2 12 50 75; D2 12 50 75; D2 12 50 75; D2 12 50 75; D2 12 50 75;
  D2 12 50 75; D2 12 50 75; D2 12 50 75; D2 12 50 75; D2 12 50 76; D2 12 50 76; D2 12 50 76; D2 12 50 76; D2 12 50 76;
  D2 12 50 76; D2 12 50 76; D2 12 50 76; D2 12 50 76; D2 12 50 76; D2 12 50 76; D2 12 50 76; D2 12 50 76; D2 12 50 76;
  D2 12 50 76; D2 12 50 76; D2 12 50 77; D2 12 50 77; D2 12 50 77; D2 12 50 77; D2 12 50 77; D2 12 50 77; D2 12 50 77;
  D2 12 50 77; D2 12 50 77; D2 12 50 77; D2 12 50 77; D2 12 50 77; D2 12 50 77; D2 12 50 77; D2 12 50 77; D2 12 50 77;
  D2 12 50 78; D2 12 50 78; D2 12 50 78; D2 12 50 78; D2 12 50 78; D2 12 50 78; D2 12 50 78; D2 12 50 78; D2 12 50 78;
  D2 12 50 78; D2 12 50 78; D2 12 50 78; D2 12 50 78; D2 12 50 78; D2 12 50 78; D2 12 50 78; D2 12 50 79; D2 12 50 79;
  D2 12 50 79; D2 12 50 79; D2 12 50 79; D2 12 50 79; D2 12 50 79; D2 12 50 79; D2 12 50 79; D2 12 50 79; D2 12 50 79;
  D2 12 50 79; D2 12 50 79; D2 12 50 79; D2 12 50 79; D2 12 50 79; D2 12 50 80; D2 12 50 80; D2 12 50 80; D2 12 50 80;
  D2 12 50 80; D2 12 50 80; D2 12 50 80; D2 12 50 80; D2 12 50 80; D2 12 50 80; D2 12 50 80; D2 12 50 80; D2 12 50 80;
  D2 12 50 80; D2 12 50 80; D2 12 50 80; D2 12 50 81; D2 12 50 81; D2 12 50 81; D2 12 50 81; D2 12 50 81; D2 12 50 81;
  D2 12 50 81; D2 12 50 81; D2 12 50 81; D2 12 50 81; D2 12 50 81; D2 12 50 81; D2 12 50 81; D2 12 50 81; D2 12 50 81;
  D2 12 50 81; D2 12 50 82; D2 12 50 82; D2 12 50 82; D2 12 50 82; D2 12 50 82; D2 12 50 82; D2 12 50 82; D2 12 50 82;
  D2 12 50 82; D2 12 50 82; D2 12 50 82; D2 12 50 82; D2 12 50 82; D2 12 50 82; D2 12 50 82; D2 12 50 82; D2 12 50 83;
  D2 12 50 83; D2 12 50 83; D2 12 50 83; D2 12 50 83; D2 12 50 83; D2 12 50 83; D2 12 50 83; D2 12 50 83; D2 12 50 83;
  D2 12 50 83; D2 12 50 83; D2 12 50 83; D2 12 50 83; D2 12 50 83; D2 12 50 83; D2 12 50 84; D2 12 50 84; D2 12 50 84;
  D2 12 50 84; D2 12 50 84; D2 12 50 84; D2 12 50 84; D2 12 50 84; D2 12 50 84; D2 12 50 84; D2 12 50 84; D2 12 50 84;
  D2 12 50 84; D2 12 50 84; D2 12 50 84; D2 12 50 84].
Definition hdecs_23 : list hdec := [
  D2 12 50 85; D2 12 50 85; D2 12 50 85; D2 12 50 85; D2 12 50 85; D2 12 50 85; D2 12 50 85; D2 12 50 85; D2 12 50 85;
  D2 12 50 85; D2 12 50 85; D2 12 50 85; D2 12 50 85; D2 12 50 85; D2 12 50 85; D2 12 50 85; D2 12 50 86; D2 12 50 86;
  D2 12 50 86; D2 12 50 86; D2 12 50 86; D2 12 50 86; D2 12 50 86; D2 12 50 86; D2 12 50 86; D2 12 50 86; D2 12 50 86;
  D2 12 50 86; D2 12 50 86; D2 12 50 86; D2 12 50 86; D2 12 50 86; D2 12 50 87; D2 12 50 87; D2 12 50 87; D2 12 50 87;
  D2 12 50 87; D2 12 50 87; D2 12 50 87; D2 12 50 87; D2 12 50 87; D2 12 50 87; D2 12 50 87; D2 12 50 87; D2 12 50 87;
  D2 12 50 87; D2 12 50 87; D2 12 50 87; D2 12 50 89; D2 12 50 89; D2 12 50 89; D2 12 50 89; D2 12 50 89; D2 12 50 89;
  D2 12 50 89; D2 12 50 89; D2 12 50 89; D2 12 50 89; D2 12 50 89; D2 12 50 89; D2 12 50 89; D2 12 50 89; D2 12 50 89;
  D2 12 50 89; D2 12 50 106; D2 12 50 106; D2 12 50 106; D2 12 50 106; D2 12 50 106; D2 12 50 106; D2 12 50 106;
  D2 12 50 106; D2 12 50 106; D2 12 50 106; D2 12 50 106; D2 12 50 106; D2 12 50 106; D2 12 50 106; D2 12 50 106;
  D2 12 50 106; D2 12 50 107; D2 12 50 107; D2 12 50 107; D2 12 50 107; D2 12 50 107; D2 12 50 107; D2 12 50 107;
  D2 12 50 107; D2 12 50 107; D2 12 50 107; D2 12 50 107; D2 12 50 107; D2 12 50 107; D2 12 50 107; D2 12 50 107;
  D2 12 50 107; D2 12 50 113; D2 12 50 113; D2 12 50 113; D2 12 50 113; D2 12 50 113; D2 12 50 113; D2 12 50 113;
  D2 12 50 113; D2 12 50 113; D2 12 50 113; D2 12 50 113; D2 12 50 113; D2 12 50 113; D2 12 50 113; D2 12 50 113;
  D2 12 50 113; D2 12 50 118; D2 12 50 118; D2 12 50 118; D2 12 50 118; D2 12 50 118; D2 12 50 118; D2 12 50 118;
  D2 12 50 118; D2 12 50 118; D2 12 50 118; D2 12 50 118; D2 12 50 118; D2 12 50 118; D2 12 50 118; D2 12 50 118;
  D2 12 50 118; D2 12 50 119; D2 12 50 119; D2 12 50 119; D2 12 50 119; D2 12 50 119; D2 12 50 119; D2 12 50 119;
  D2 12 50 119; D2 12 50 119; D2 12 50 119; D2 12 50 119; D2 12 50 119; D2 12 50 119; D2 12 50 119; D2 12 50 119;
  D2 12 50 119; D2 12 50 120; D2 12 50 120; D2 12 50 120; D2 12 50 120; D2 12 50 120; D2 12 50 120; D2 12 50 120;
  D2 12 50 120; D2 12 50 120; D2 12 50 120; D2 12 50 120; D2 12 50 120; D2 12 50 120; D2 12 50 120; D2 12 50 120;
  D2 12 50 120; D2 12 50 121; D2 12 50 121; D2 12 50 121; D2 12 50 121; D2 12 50 121; D2 12 50 121; D2 12 50 121;
  D2 12 50 121; D2 12 50 121; D2 12 50 121; D2 12 50 121; D2 12 50 121; D2 12 50 121; D2 12 50 121; D2 12 50 121;
  D2 12 50 121; D2 12 50 122; D2 12 50 122; D2 12 50 122; D2 12 50 122; D2 12 50 122; D2 12 50 122; D2 12 50 122;
  D2 12 50 122; D2 12 50 122; D2 12 50 122; D2 12 50 122; D2 12 50 122; D2 12 50 122; D2 12 50 122; D2 12 50 122;
  D2 12 50 122; D2 13 50 38; D2 13 50 38; D2 13 50 38; D2 13 50 38; D2 13 50 38; D2 13 50 38; D2 13 50 38;
  D2 13 50 38; D2 13 50 42; D2 13 50 42; D2 13 50 42; D2 13 50 42; D2 13 50 42; D2 13 50 42; D2 13 50 42; D2 13 50 42;
  D2 13 50 44; D2 13 50 44; D2 13 50 44; D2 13 50 44; D2 13 50 44; D2 13 50 44; D2 13 50 44; D2 13 50 44; D2 13 50 59;
  D2 13 50 59; D2 13 50 59; D2 13 50 59; D2 13 50 59; D2 13 50 59; D2 13 50 59; D2 13 50 59; D2 13 50 88; D2 13 50 88;
  D2 13 50 88; D2 13 50 88; D2 13 50 88; D2 13 50 88; D2 13 50 88; D2 13 50 88; D2 13 50 90; D2 13 50 90; D2 13 50 90;
  D2 13 50 90; D2 13 50 90; D2 13 50 90; D2 13 50 90; D2 13 50 90; D2 15 50 33; D2 15 50 33; D2 15 50 34; D2 15 50 34;
  D2 15 50 40; D2 15 50 40; D2 15 50 41; D2 15 50 41; D2 15 50 63; D2 15 50 63; D2 16 50 39; D2 16 50 43;
  D2 16 50 124; D1 5 50; D1 5 50; D1 5 50].
Definition hdecs_24 : list hdec := [
  D3 15 97 48 48; D3 15 97 48 48; D3 15 97 48 49; D3 15 97 48 49; D3 15 97 48 50; D3 15 97 48 50; D3 15 97 48 97;
  D3 15 97 48 97; D3 15 97 48 99; D3 15 97 48 99; D3 15 97 48 101; D3 15 97 48 101; D3 15 97 48 105; D3 15 97 48 105;
  D3 15 97 48 111; D3 15 97 48 111; D3 15 97 48 115; D3 15 97 48 115; D3 15 97 48 116; D3 15 97 48 116;
  D3 16 97 48 32; D3 16 97 48 37; D3 16 97 48 45; D3 16 97 48 46; D3 16 97 48 47; D3 16 97 48 51; D3 16 97 48 52;
  D3 16 97 48 53; D3 16 97 48 54; D3 16 97 48 55; D3 16 97 48 56; D3 16 97 48 57; D3 16 97 48 61; D3 16 97 48 65;
  D3 16 97 48 95; D3 16 97 48 98; D3 16 97 48 100; D3 16 97 48 102; D3 16 97 48 103; D3 16 97 48 104; D3 16 97 48 108;
  D3 16 97 48 109; D3 16 97 48 110; D3 16 97 48 112; D3 16 97 48 114; D3 16 97 48 117; D2 10 97 48; D2 10 97 48;
  D2 10 97 48; D2 10 97 48; D2 10 97 48; D2 10 97 48; D2 10 97 48; D2 10 97 48; D2 10 97 48; D2 10 97 48; D2 10 97 48;
  D2 10 97 48; D2 10 97 48; D2 10 97 48; D2 10 97 48; D2 10 97 48; D2 10 97 48; D2 10 97 48; D3 15 97 49 48;
  D3 15 97 49 48; D3 15 97 49 49; D3 15 97 49 49; D3 15 97 49 50; D3 15 97 49 50; D3 15 97 49 97; D3 15 97 49 97;
  D3 15 97 49 99; D3 15 97 49 99; D3 15 97 49 101; D3 15 97 49 101; D3 15 97 49 105; D3 15 97 49 105; D3 15 97 49 111;
  D3 15 97 49 111; D3 15 97 49 115; D3 15 97 49 115; D3 15 97 49 116; D3 15 97 49 116; D3 16 97 49 32; D3 16 97 49 37;
  D3 16 97 49 45; D3 16 97 49 46; D3 16 97 49 47; D3 16 97 49 51; D3 16 97 49 52; D3 16 97 49 53; D3 16 97 49 54;
  D3 16 97 49 55; D3 16 97 49 56; D3 16 97 49 57; D3 16 97 49 61; D3 16 97 49 65; D3 16 97 49 95; D3 16 97 49 98;
  D3 16 97 49 100; D3 16 97 49 102; D3 16 97 49 103; D3 16 97 49 104; D3 16 97 49 108; D3 16 97 49 109;
  D3 16 97 49 110; D3 16 97 49 112; D3 16 97 49 114; D3 16 97 49 117; D2 10 97 49; D2 10 97 49; D2 10 97 49;
  D2 10 97 49; D2 10 97 49; D2 10 97 49; D2 10 97 49; D2 10 97 49; D2 10 97 49; D2 10 97 49; D2 10 97 49; D2 10 97 49;
  D2 10 97 49; D2 10 97 49; D2 10 97 49; D2 10 97 49; D2 10 97 49; D2 10 97 49; D3 15 97 50 48; D3 15 97 50 48;
  D3 15 97 50 49; D3 15 97 50 49; D3 15 97 50 50; D3 15 97 50 50; D3 15 97 50 97; D3 15 97 50 97; D3 15 97 50 99;
  D3 15 97 50 99; D3 15 97 50 101; D3 15 97 50 101; D3 15 97 50 105; D3 15 97 50 105; D3 15 97 50 111;
  D3 15 97 50 111; D3 15 97 50 115; D3 15 97 50 115; D3 15 97 50 116; D3 15 97 50 116; D3 16 97 50 32; D3 16 97 50 37;
  D3 16 97 50 45; D3 16 97 50 46; D3 16 97 50 47; D3 16 97 50 51; D3 16 97 50 52; D3 16 97 50 53; D3 16 97 50 54;
  D3 16 97 50 55; D3 16 97 50 56; D3 16 97 50 57; D3 16 97 50 61; D3 16 97 50 65; D3 16 97 50 95; D3 16 97 50 98;
  D3 16 97 50 100; D3 16 97 50 102; D3 16 97 50 103; D3 16 97 50 104; D3 16 97 50 108; D3 16 97 50 109;
  D3 16 97 50 110; D3 16 97 50 112; D3 16 97 50 114; D3 16 97 50 117; D2 10 97 50; D2 10 97 50; D2 10 97 50;
  D2 10 97 50; D2 10 97 50; D2 10 97 50; D2 10 97 50; D2 10 97 50; D2 10 97 50; D2 10 97 50; D2 10 97 50; D2 10 97 50;
  D2 10 97 50; D2 10 97 50; D2 10 97 50; D2 10 97 50; D2 10 97 50; D2 10 97 50; D3 15 97 97 48; D3 15 97 97 48;
  D3 15 97 97 49; D3 15 97 97 49; D3 15 97 97 50; D3 15 97 97 50; D3 15 97 97 97; D3 15 97 97 97; D3 15 97 97 99;
  D3 15 97 97 99; D3 15 97 97 101; D3 15 97 97 101; D3 15 97 97 105; D3 15 97 97 105; D3 15 97 97 111;
  D3 15 97 97 111; D3 15 97 97 115; D3 15 97 97 115; D3 15 97 97 116; D3 15 97 97 116; D3 16 97 97 32; D3 16 97 97 37;
  D3 16 97 97 45; D3 16 97 97 46; D3 16 97 97 47; D3 16 97 97 51; D3 16 97 97 52; D3 16 97 97 53; D3 16 97 97 54;
  D3 16 97 97 55; D3 16 97 97 56; D3 16 97 97 57; D3 16 97 97 61; D3 16 97 97 65; D3 16 97 97 95; D3 16 97 97 98;
  D3 16 97 97 100; D3 16 97 97 102; D3 16 97 97 103; D3 16 97 97 104; D3 16 97 97 108; D3 16 97 97 109;
  D3 16 97 97 110; D3 16 97 97 112; D3 16 97 97 114; D3 16 97 97 117; D2 10 97 97; D2 10 97 97; D2 10 97 97;
  D2 10 97 97; D2 10 97 97; D2 10 97 97; D2 10 97 97; D2 10 97 97; D2 10 97 97; D2 10 97 97; D2 10 97 97; D2 10 97 97;
  D2 10 97 97; D2 10 97 97; D2 10 97 97; D2 10 97 97; D2 10 97 97; D2 10 97 97].
Definition hdecs_25 : list hdec := [
  D3 15 97 99 48; D3 15 97 99 48; D3 15 97 99 49; D3 15 97 99 49; D3 15 97 99 50; D3 15 97 99 50; D3 15 97 99 97;
  D3 15 97 99 97; D3 15 97 99 99; D3 15 97 99 99; D3 15 97 99 101; D3 15 97 99 101; D3 15 97 99 105; D3 15 97 99 105;
  D3 15 97 99 111; D3 15 97 99 111; D3 15 97 99 115; D3 15 97 99 115; D3 15 97 99 116; D3 15 97 99 116;
  D3 16 97 99 32; D3 16 97 99 37; D3 16 97 99 45; D3 16 97 99 46; D3 16 97 99 47; D3 16 97 99 51; D3 16 97 99 52;
  D3 16 97 99 53; D3 16 97 99 54; D3 16 97 99 55; D3 16 97 99 56; D3 16 97 99 57; D3 16 97 99 61; D3 16 97 99 65;
  D3 16 97 99 95; D3 16 97 99 98; D3 16 97 99 100; D3 16 97 99 102; D3 16 97 99 103; D3 16 97 99 104; D3 16 97 99 108;
  D3 16 97 99 109; D3 16 97 99 110; D3 16 97 99 112; D3 16 97 99 114; D3 16 97 99 117; D2 10 97 99; D2 10 97 99;
  D2 10 97 99; D2 10 97 99; D2 10 97 99; D2 10 97 99; D2 10 97 99; D2 10 97 99; D2 10 97 99; D2 10 97 99; D2 10 97 99;
  D2 10 97 99; D2 10 97 99; D2 10 97 99; D2 10 97 99; D2 10 97 99; D2 10 97 99; D2 10 97 99; D3 15 97 101 48;
  D3 15 97 101 48; D3 15 97 101 49; D3 15 97 101 49; D3 15 97 101 50; D3 15 97 101 50; D3 15 97 101 97;
  D3 15 97 101 97; D3 15 97 101 99; D3 15 97 101 99; D3 15 97 101 101; D3 15 97 101 101; D3 15 97 101 105;
  D3 15 97 101 105; D3 15 97 101 111; D3 15 97 101 111; D3 15 97 101 115; D3 15 97 101 115; D3 15 97 101 116;
  D3 15 97 101 116; D3 16 97 101 32; D3 16 97 101 37; D3 16 97 101 45; D3 16 97 101 46; D3 16 97 101 47;
  D3 16 97 101 51; D3 16 97 101 52; D3 16 97 101 53; D3 16 97 101 54; D3 16 97 101 55; D3 16 97 101 56;
  D3 16 97 101 57; D3 16 97 101 61; D3 16 97 101 65; D3 16 97 101 95; D3 16 97 101 98; D3 16 97 101 100;
  D3 16 97 101 102; D3 16 97 101 103; D3 16 97 101 104; D3 16 97 101 108; D3 16 97 101 109; D3 16 97 101 110;
  D3 16 97 101 112; D3 16 97 101 114; D3 16 97 101 117; D2 10 97 101; D2 10 97 101; D2 10 97 101; D2 10 97 101;
  D2 10 97 101; D2 10 97 101; D2 10 97 101; D2 10 97 101; D2 10 97 101; D2 10 97 101; D2 10 97 101; D2 10 97 101;
  D2 10 97 101; D2 10 97 101; D2 10 97 101; D2 10 97 101; D2 10 97 101; D2 10 97 101; D3 15 97 105 48;
  D3 15 97 105 48; D3 15 97 105 49; D3 15 97 105 49; D3 15 97 105 50; D3 15 97 105 50; D3 15 97 105 97;
  D3 15 97 105 97; D3 15 97 105 99; D3 15 97 105 99; D3 15 97 105 101; D3 15 97 105 101; D3 15 97 105 105;
  D3 15 97 105 105; D3 15 97 105 111; D3 15 97 105 111; D3 15 97 105 115; D3 15 97 105 115; D3 15 97 105 116;
  D3 15 97 105 116; D3 16 97 105 32; D3 16 97 105 37; D3 16 97 105 45; D3 16 97 105 46; D3 16 97 105 47;
  D3 16 97 105 51; D3 16 97 105 52; D3 16 97 105 53; D3 16 97 105 54; D3 16 97 105 55; D3 16 97 105 56;
  D3 16 97 105 57; D3 16 97 105 61; D3 16 97 105 65; D3 16 97 105 95; D3 16 97 105 98; D3 16 97 105 100;
  D3 16 97 105 102; D3 16 97 105 103; D3 16 97 105 104; D3 16 97 105 108; D3 16 97 105 109; D3 16 97 105 110;
  D3 16 97 105 112; D3 16 97 105 114; D3 16 97 105 117; D2 10 97 105; D2 10 97 105; D2 10 97 105; D2 10 97 105;
  D2 10 97 105; D2 10 97 105; D2 10 97 105; D2 10 97 105; D2 10 97 105; D2 10 97 105; D2 10 97 105; D2 10 97 105;
  D2 10 97 105; D2 10 97 105; D2 10 97 105; D2 10 97 105; D2 10 97 105; D2 10 97 105; D3 15 97 111 48;
  D3 15 97 111 48; D3 15 97 111 49; D3 15 97 111 49; D3 15 97 111 50; D3 15 97 111 50; D3 15 97 111 97;
  D3 15 97 111 97; D3 15 97 111 99; D3 15 97 111 99; D3 15 97 111 101; D3 15 97 111 101; D3 15 97 111 105;
  D3 15 97 111 105; D3 15 97 111 111; D3 15 97 111 111; D3 15 97 111 115; D3 15 97 111 115; D3 15 97 111 116;
  D3 15 97 111 116; D3 16 97 111 32; D3 16 97 111 37; D3 16 97 111 45; D3 16 97 111 46; D3 16 97 111 47;
  D3 16 97 111 51; D3 16 97 111 52; D3 16 97 111 53; D3 16 97 111 54; D3 16 97 111 55; D3 16 97 111 56;
  D3 16 97 111 57; D3 16 97 111 61; D3 16 97 111 65; D3 16 97 111 95; D3 16 97 111 98; D3 16 97 111 100;
  D3 16 97 111 102; D3 16 97 111 103; D3 16 97 111 104; D3 16 97 111 108; D3 16 97 111 109; D3 16 97 111 110;
  D3 16 97 111 112; D3 16 97 111 114; D3 16 97 111 117; D2 10 97 111; D2 10 97 111; D2 10 97 111; D2 10 97 111;
  D2 10 97 111; D2 10 97 111; D2 10 97 111; D2 10 97 111; D2 10 97 111; D2 10 97 111; D2 10 97 111; D2 10 97 111;
  D2 10 97 111; D2 10 97 111; D2 10 97 111; D2 10 97 111; D2 10 97 111; D2 10 97 111].
Definition hdecs_26 : list hdec := [
  D3 15 97 115 48; D3 15 97 115 48; D3 15 97 115 49; D3 15 97 115 49; D3 15 97 115 50; D3 15 97 115 50;
  D3 15 97 115 97; D3 15 97 115 97; D3 15 97 115 99; D3 15 97 115 99; D3 15 97 115 101; D3 15 97 115 101;
  D3 15 97 115 105; D3 15 97 115 105; D3 15 97 115 111; D3 15 97 115 111; D3 15 97 115 115; D3 15 97 115 115;
  D3 15 97 115 116; D3 15 97 115 116; D3 16 97 115 32; D3 16 97 115 37; D3 16 97 115 45; D3 16 97 115 46;
  D3 16 97 115 47; D3 16 97 115 51; D3 16 97 115 52; D3 16 97 115 53; D3 16 97 115 54; D3 16 97 115 55;
  D3 16 97 115 56; D3 16 97 115 57; D3 16 97 115 61; D3 16 97 115 65; D3 16 97 115 95; D3 16 97 115 98;
  D3 16 97 115 100; D3 16 97 115 102; D3 16 97 115 103; D3 16 97 115 104; D3 16 97 115 108; D3 16 97 115 109;
  D3 16 97 115 110; D3 16 97 115 112; D3 16 97 115 114; D3 16 97 115 117; D2 10 97 115; D2 10 97 115; D2 10 97 115;
  D2 10 97 115; D2 10 97 115; D2 10 97 115; D2 10 97 115; D2 10 97 115; D2 10 97 115; D2 10 97 115; D2 10 97 115;
  D2 10 97 115; D2 10 97 115; D2 10 97 115; D2 10 97 115; D2 10 97 115; D2 10 97 115; D2 10 97 115; D3 15 97 116 48;
  D3 15 97 116 48; D3 15 97 116 49; D3 15 97 116 49; D3 15 97 116 50; D3 15 97 116 50; D3 15 97 116 97;
  D3 15 97 116 97; D3 15 97 116 99; D3 15 97 116 99; D3 15 97 116 101; D3 15 97 116 101; D3 15 97 116 105;
  D3 15 97 116 105; D3 15 97 116 111; D3 15 97 116 111; D3 15 97 116 115; D3 15 97 116 115; D3 15 97 116 116;
  D3 15 97 116 116; D3 16 97 116 32; D3 16 97 116 37; D3 16 97 116 45; D3 16 97 116 46; D3 16 97 116 47;
  D3 16 97 116 51; D3 16 97 116 52; D3 16 97 116 53; D3 16 97 116 54; D3 16 97 116 55; D3 16 97 116 56;
  D3 16 97 116 57; D3 16 97 116 61; D3 16 97 116 65; D3 16 97 116 95; D3 16 97 116 98; D3 16 97 116 100;
  D3 16 97 116 102; D3 16 97 116 103; D3 16 97 116 104; D3 16 97 116 108; D3 16 97 116 109; D3 16 97 116 110;
  D3 16 97 116 112; D3 16 97 116 114; D3 16 97 116 117; D2 10 97 116; D2 10 97 116; D2 10 97 116; D2 10 97 116;
  D2 10 97 116; D2 10 97 116; D2 10 97 116; D2 10 97 116; D2 10 97 116; D2 10 97 116; D2 10 97 116; D2 10 97 116;
  D2 10 97 116; D2 10 97 116; D2 10 97 116; D2 10 97 116; D2 10 97 116; D2 10 97 116; D3 16 97 32 48; D3 16 97 32 49;
  D3 16 97 32 50; D3 16 97 32 97; D3 16 97 32 99; D3 16 97 32 101; D3 16 97 32 105; D3 16 97 32 111; D3 16 97 32 115;
  D3 16 97 32 116; D2 11 97 32; D2 11 97 32; D2 11 97 32; D2 11 97 32; D2 11 97 32; D2 11 97 32; D2 11 97 32;
  D2 11 97 32; D2 11 97 32; D2 11 97 32; D2 11 97 32; D2 11 97 32; D2 11 97 32; D2 11 97 32; D2 11 97 32; D2 11 97 32;
  D2 11 97 32; D2 11 97 32; D2 11 97 32; D2 11 97 32; D2 11 97 32; D2 11 97 32; D3 16 97 37 48; D3 16 97 37 49;
  D3 16 97 37 50; D3 16 97 37 97; D3 16 97 37 99; D3 16 97 37 101; D3 16 97 37 105; D3 16 97 37 111; D3 16 97 37 115;
  D3 16 97 37 116; D2 11 97 37; D2 11 97 37; D2 11 97 37; D2 11 97 37; D2 11 97 37; D2 11 97 37; D2 11 97 37;
  D2 11 97 37; D2 11 97 37; D2 11 97 37; D2 11 97 37; D2 11 97 37; D2 11 97 37; D2 11 97 37; D2 11 97 37; D2 11 97 37;
  D2 11 97 37; D2 11 97 37; D2 11 97 37; D2 11 97 37; D2 11 97 37; D2 11 97 37; D3 16 97 45 48; D3 16 97 45 49;
  D3 16 97 45 50; D3 16 97 45 97; D3 16 97 45 99; D3 16 97 45 101; D3 16 97 45 105; D3 16 97 45 111; D3 16 97 45 115;
  D3 16 97 45 116; D2 11 97 45; D2 11 97 45; D2 11 97 45; D2 11 97 45; D2 11 97 45; D2 11 97 45; D2 11 97 45;
  D2 11 97 45; D2 11 97 45; D2 11 97 45; D2 11 97 45; D2 11 97 45; D2 11 97 45; D2 11 97 45; D2 11 97 45; D2 11 97 45;
  D2 11 97 45; D2 11 97 45; D2 11 97 45; D2 11 97 45; D2 11 97 45; D2 11 97 45; D3 16 97 46 48; D3 16 97 46 49;
  D3 16 97 46 50; D3 16 97 46 97; D3 16 97 46 99; D3 16 97 46 101; D3 16 97 46 105; D3 16 97 46 111; D3 16 97 46 115;
  D3 16 97 46 116; D2 11 97 46; D2 11 97 46; D2 11 97 46; D2 11 97 46; D2 11 97 46; D2 11 97 46; D2 11 97 46;
  D2 11 97 46; D2 11 97 46; D2 11 97 46; D2 11 97 46; D2 11 97 46; D2 11 97 46; D2 11 97 46; D2 11 97 46; D2 11 97 46;
  D2 11 97 46; D2 11 97 46; D2 11 97 46; D2 11 97 46; D2 11 97 46; D2 11 97 46].
Definition hdecs_27 : list hdec := [
  D3 16 97 47 48; D3 16 97 47 49; D3 16 97 47 50; D3 16 97 47 97; D3 16 97 47 99; D3 16 97 47 101; D3 16 97 47 105;
  D3 16 97 47 111; D3 16 97 47 115; D3 16 97 47 116; D2 11 97 47; D2 11 97 47; D2 11 97 47; D2 11 97 47; D2 11 97 47;
  D2 11 97 47; D2 11 97 47; D2 11 97 47; D2 11 97 47; D2 11 97 47; D2 11 97 47; D2 11 97 47; D2 11 97 47; D2 11 97 47;
  D2 11 97 47; D2 11 97 47; D2 11 97 47; D2 11 97 47; D2 11 97 47; D2 11 97 47; D2 11 97 47; D2 11 97 47;
  D3 16 97 51 48; D3 16 97 51 49; D3 16 97 51 50; D3 16 97 51 97; D3 16 97 51 99; D3 16 97 51 101; D3 16 97 51 105;
  D3 16 97 51 111; D3 16 97 51 115; D3 16 97 51 116; D2 11 97 51; D2 11 97 51; D2 11 97 51; D2 11 97 51; D2 11 97 51;
  D2 11 97 51; D2 11 97 51; D2 11 97 51; D2 11 97 51; D2 11 97 51; D2 11 97 51; D2 11 97 51; D2 11 97 51; D2 11 97 51;
  D2 11 97 51; D2 11 97 51; D2 11 97 51; D2 11 97 51; D2 11 97 51; D2 11 97 51; D2 11 97 51; D2 11 97 51;
  D3 16 97 52 48; D3 16 97 52 49; D3 16 97 52 50; D3 16 97 52 97; D3 16 97 52 99; D3 16 97 52 101; D3 16 97 52 105;
  D3 16 97 52 111; D3 16 97 52 115; D3 16 97 52 116; D2 11 97 52; D2 11 97 52; D2 11 97 52; D2 11 97 52; D2 11 97 52;
  D2 11 97 52; D2 11 97 52; D2 11 97 52; D2 11 97 52; D2 11 97 52; D2 11 97 52; D2 11 97 52; D2 11 97 52; D2 11 97 52;
  D2 11 97 52; D2 11 97 52; D2 11 97 52; D2 11 97 52; D2 11 97 52; D2 11 97 52; D2 11 97 52; D2 11 97 52;
  D3 16 97 53 48; D3 16 97 53 49; D3 16 97 53 50; D3 16 97 53 97; D3 16 97 53 99; D3 16 97 53 101; D3 16 97 53 105;
  D3 16 97 53 111; D3 16 97 53 115; D3 16 97 53 116; D2 11 97 53; D2 11 97 53; D2 11 97 53; D2 11 97 53; D2 11 97 53;
  D2 11 97 53; D2 11 97 53; D2 11 97 53; D2 11 97 53; D2 11 97 53; D2 11 97 53; D2 11 97 53; D2 11 97 53; D2 11 97 53;
  D2 11 97 53; D2 11 97 53; D2 11 97 53; D2 11 97 53; D2 11 97 53; D2 11 97 53; D2 11 97 53; D2 11 97 53;
  D3 16 97 54 48; D3 16 97 54 49; D3 16 97 54 50; D3 16 97 54 97; D3 16 97 54 99; D3 16 97 54 101; D3 16 97 54 105;
  D3 16 97 54 111; D3 16 97 54 115; D3 16 97 54 116; D2 11 97 54; D2 11 97 54; D2 11 97 54; D2 11 97 54; D2 11 97 54;
  D2 11 97 54; D2 11 97 54; D2 11 97 54; D2 11 97 54; D2 11 97 54; D2 11 97 54; D2 11 97 54; D2 11 97 54; D2 11 97 54;
  D2 11 97 54; D2 11 97 54; D2 11 97 54; D2 11 97 54; D2 11 97 54; D2 11 97 54; D2 11 97 54; D2 11 97 54;
  D3 16 97 55 48; D3 16 97 55 49; D3 16 97 55 50; D3 16 97 55 97; D3 16 97 55 99; D3 16 97 55 101; D3 16 97 55 105;
  D3 16 97 55 111; D3 16 97 55 115; D3 16 97 55 116; D2 11 97 55; D2 11 97 55; D2 11 97 55; D2 11 97 55; D2 11 97 55;
  D2 11 97 55; D2 11 97 55; D2 11 97 55; D2 11 97 55; D2 11 97 55; D2 11 97 55; D2 11 97 55; D2 11 97 55; D2 11 97 55;
  D2 11 97 55; D2 11 97 55; D2 11 97 55; D2 11 97 55; D2 11 97 55; D2 11 97 55; D2 11 97 55; D2 11 97 55;
  D3 16 97 56 48; D3 16 97 56 49; D3 16 97 56 50; D3 16 97 56 97; D3 16 97 56 99; D3 16 97 56 101; D3 16 97 56 105;
  D3 16 97 56 111; D3 16 97 56 115; D3 16 97 56 116; D2 11 97 56; D2 11 97 56; D2 11 97 56; D2 11 97 56; D2 11 97 56;
  D2 11 97 56; D2 11 97 56; D2 11 97 56; D2 11 97 56; D2 11 97 56; D2 11 97 56; D2 11 97 56; D2 11 97 56; D2 11 97 56;
  D2 11 97 56; D2 11 97 56; D2 11 97 56; D2 11 97 56; D2 11 97 56; D2 11 97 56; D2 11 97 56; D2 11 97 56;
  D3 16 97 57 48; D3 16 97 57 49; D3 16 97 57 50; D3 16 97 57 97; D3 16 97 57 99; D3 16 97 57 101; D3 16 97 57 105;
  D3 16 97 57 111; D3 16 97 57 115; D3 16 97 57 116; D2 11 97 57; D2 11 97 57; D2 11 97 57; D2 11 97 57; D2 11 97 57;
  D2 11 97 57; D2 11 97 57; D2 11 97 57; D2 11 97 57; D2 11 97 57; D2 11 97 57; D2 11 97 57; D2 11 97 57; D2 11 97 57;
  D2 11 97 57; D2 11 97 57; D2 11 97 57; D2 11 97 57; D2 11 97 57; D2 11 97 57; D2 11 97 57; D2 11 97 57].
Definition hdecs_28 : list hdec := [
  D3 16 97 61 48; D3 16 97 61 49; D3 16 97 61 50; D3 16 97 61 97; D3 16 97 61 99; D3 16 97 61 101; D3 16 97 61 105;
  D3 16 97 61 111; D3 16 97 61 115; D3 16 97 61 116; D2 11 97 61; D2 11 97 61; D2 11 97 61; D2 11 97 61; D2 11 97 61;
  D2 11 97 61; D2 11 97 61; D2 11 97 61; D2 11 97 61; D2 11 97 61; D2 11 97 61; D2 11 97 61; D2 11 97 61; D2 11 97 61;
  D2 11 97 61; D2 11 97 61; D2 11 97 61; D2 11 97 61; D2 11 97 61; D2 11 97 61; D2 11 97 61; D2 11 97 61;
  D3 16 97 65 48; D3 16 97 65 49; D3 16 97 65 50; D3 16 97 65 97; D3 16 97 65 99; D3 16 97 65 101; D3 16 97 65 105;
  D3 16 97 65 111; D3 16 97 65 115; D3 16 97 65 116; D2 11 97 65; D2 11 97 65; D2 11 97 65; D2 11 97 65; D2 11 97 65;
  D2 11 97 65; D2 11 97 65; D2 11 97 65; D2 11 97 65; D2 11 97 65; D2 11 97 65; D2 11 97 65; D2 11 97 65; D2 11 97 65;
  D2 11 97 65; D2 11 97 65; D2 11 97 65; D2 11 97 65; D2 11 97 65; D2 11 97 65; D2 11 97 65; D2 11 97 65;
  D3 16 97 95 48; D3 16 97 95 49; D3 16 97 95 50; D3 16 97 95 97; D3 16 97 95 99; D3 16 97 95 101; D3 16 97 95 105;
  D3 16 97 95 111; D3 16 97 95 115; D3 16 97 95 116; D2 11 97 95; D2 11 97 95; D2 11 97 95; D2 11 97 95; D2 11 97 95;
  D2 11 97 95; D2 11 97 95; D2 11 97 95; D2 11 97 95; D2 11 97 95; D2 11 97 95; D2 11 97 95; D2 11 97 95; D2 11 97 95;
  D2 11 97 95; D2 11 97 95; D2 11 97 95; D2 11 97 95; D2 11 97 95; D2 11 97 95; D2 11 97 95; D2 11 97 95;
  D3 16 97 98 48; D3 16 97 98 49; D3 16 97 98 50; D3 16 97 98 97; D3 16 97 98 99; D3 16 97 98 101; D3 16 97 98 105;
  D3 16 97 98 111; D3 16 97 98 115; D3 16 97 98 116; D2 11 97 98; D2 11 97 98; D2 11 97 98; D2 11 97 98; D2 11 97 98;
  D2 11 97 98; D2 11 97 98; D2 11 97 98; D2 11 97 98; D2 11 97 98; D2 11 97 98; D2 11 97 98; D2 11 97 98; D2 11 97 98;
  D2 11 97 98; D2 11 97 98; D2 11 97 98; D2 11 97 98; D2 11 97 98; D2 11 97 98; D2 11 97 98; D2 11 97 98;
  D3 16 97 100 48; D3 16 97 100 49; D3 16 97 100 50; D3 16 97 100 97; D3 16 97 100 99; D3 16 97 100 101;
  D3 16 97 100 105; D3 16 97 100 111; D3 16 97 100 115; D3 16 97 100 116; D2 11 97 100; D2 11 97 100; D2 11 97 100;
  D2 11 97 100; D2 11 97 100; D2 11 97 100; D2 11 97 100; D2 11 97 100; D2 11 97 100; D2 11 97 100; D2 11 97 100;
  D2 11 97 100; D2 11 97 100; D2 11 97 100; D2 11 97 100; D2 11 97 100; D2 11 97 100; D2 11 97 100; D2 11 97 100;
  D2 11 97 100; D2 11 97 100; D2 11 97 100; D3 16 97 102 48; D3 16 97 102 49; D3 16 97 102 50; D3 16 97 102 97;
  D3 16 97 102 99; D3 16 97 102 101; D3 16 97 102 105; D3 16 97 102 111; D3 16 97 102 115; D3 16 97 102 116;
  D2 11 97 102; D2 11 97 102; D2 11 97 102; D2 11 97 102; D2 11 97 102; D2 11 97 102; D2 11 97 102; D2 11 97 102;
  D2 11 97 102; D2 11 97 102; D2 11 97 102; D2 11 97 102; D2 11 97 102; D2 11 97 102; D2 11 97 102; D2 11 97 102;
  D2 11 97 102; D2 11 97 102; D2 11 97 102; D2 11 97 102; D2 11 97 102; D2 11 97 102; D3 16 97 103 48;
  D3 16 97 103 49; D3 16 97 103 50; D3 16 97 103 97; D3 16 97 103 99; D3 16 97 103 101; D3 16 97 103 105;
  D3 16 97 103 111; D3 16 97 103 115; D3 16 97 103 116; D2 11 97 103; D2 11 97 103; D2 11 97 103; D2 11 97 103;
  D2 11 97 103; D2 11 97 103; D2 11 97 103; D2 11 97 103; D2 11 97 103; D2 11 97 103; D2 11 97 103; D2 11 97 103;
  D2 11 97 103; D2 11 97 103; D2 11 97 103; D2 11 97 103; D2 11 97 103; D2 11 97 103; D2 11 97 103; D2 11 97 103;
  D2 11 97 103; D2 11 97 103; D3 16 97 104 48; D3 16 97 104 49; D3 16 97 104 50; D3 16 97 104 97; D3 16 97 104 99;
  D3 16 97 104 101; D3 16 97 104 105; D3 16 97 104 111; D3 16 97 104 115; D3 16 97 104 116; D2 11 97 104;
  D2 11 97 104; D2 11 97 104; D2 11 97 104; D2 11 97 104; D2 11 97 104; D2 11 97 104; D2 11 97 104; D2 11 97 104;
  D2 11 97 104; D2 11 97 104; D2 11 97 104; D2 11 97 104; D2 11 97 104; D2 11 97 104; D2 11 97 104; D2 11 97 104;
  D2 11 97 104; D2 11 97 104; D2 11 97 104; D2 11 97 104; D2 11 97 104].
Definition hdecs_29 : list hdec := [
  D3 16 97 108 48; D3 16 97 108 49; D3 16 97 108 50; D3 16 97 108 97; D3 16 97 108 99; D3 16 97 108 101;
  D3 16 97 108 105; D3 16 97 108 111; D3 16 97 108 115; D3 16 97 108 116; D2 11 97 108; D2 11 97 108; D2 11 97 108;
  D2 11 97 108; D2 11 97 108; D2 11 97 108; D2 11 97 108; D2 11 97 108; D2 11 97 108; D2 11 97 108; D2 11 97 108;
  D2 11 97 108; D2 11 97 108; D2 11 97 108; D2 11 97 108; D2 11 97 108; D2 11 97 108; D2 11 97 108; D2 11 97 108;
  D2 11 97 108; D2 11 97 108; D2 11 97 108; D3 16 97 109 48; D3 16 97 109 49; D3 16 97 109 50; D3 16 97 109 97;
  D3 16 97 109 99; D3 16 97 109 101; D3 16 97 109 105; D3 16 97 109 111; D3 16 97 109 115; D3 16 97 109 116;
  D2 11 97 109; D2 11 97 109; D2 11 97 109; D2 11 97 109; D2 11 97 109; D2 11 97 109; D2 11 97 109; D2 11 97 109;
  D2 11 97 109; D2 11 97 109; D2 11 97 109; D2 11 97 109; D2 11 97 109; D2 11 97 109; D2 11 97 109; D2 11 97 109;
  D2 11 97 109; D2 11 97 109; D2 11 97 109; D2 11 97 109; D2 11 97 109; D2 11 97 109; D3 16 97 110 48;
  D3 16 97 110 49; D3 16 97 110 50; D3 16 97 110 97; D3 16 97 110 99; D3 16 97 110 101; D3 16 97 110 105;
  D3 16 97 110 111; D3 16 97 110 115; D3 16 97 110 116; D2 11 97 110; D2 11 97 110; D2 11 97 110; D2 11 97 110;
  D2 11 97 110; D2 11 97 110; D2 11 97 110; D2 11 97 110; D2 11 97 110; D2 11 97 110; D2 11 97 110; D2 11 97 110;
  D2 11 97 110; D2 11 97 110; D2 11 97 110; D2 11 97 110; D2 11 97 110; D2 11 97 110; D2 11 97 110; D2 11 97 110;
  D2 11 97 110; D2 11 97 110; D3 16 97 112 48; D3 16 97 112 49; D3 16 97 112 50; D3 16 97 112 97; D3 16 97 112 99;
  D3 16 97 112 101; D3 16 97 112 105; D3 16 97 112 111; D3 16 97 112 115; D3 16 97 112 116; D2 11 97 112;
  D2 11 97 112; D2 11 97 112; D2 11 97 112; D2 11 97 112; D2 11 97 112; D2 11 97 112; D2 11 97 112; D2 11 97 112;
  D2 11 97 112; D2 11 97 112; D2 11 97 112; D2 11 97 112; D2 11 97 112; D2 11 97 112; D2 11 97 112; D2 11 97 112;
  D2 11 97 112; D2 11 97 112; D2 11 97 112; D2 11 97 112; D2 11 97 112; D3 16 97 114 48; D3 16 97 114 49;
  D3 16 97 114 50; D3 16 97 114 97; D3 16 97 114 99; D3 16 97 114 101; D3 16 97 114 105; D3 16 97 114 111;
  D3 16 97 114 115; D3 16 97 114 116; D2 11 97 114; D2 11 97 114; D2 11 97 114; D2 11 97 114; D2 11 97 114;
  D2 11 97 114; D2 11 97 114; D2 11 97 114; D2 11 97 114; D2 11 97 114; D2 11 97 114; D2 11 97 114; D2 11 97 114;
  D2 11 97 114; D2 11 97 114; D2 11 97 114; D2 11 97 114; D2 11 97 114; D2 11 97 114; D2 11 97 114; D2 11 97 114;
  D2 11 97 114; D3 16 97 117 48; D3 16 97 117 49; D3 16 97 117 50; D3 16 97 117 97; D3 16 97 117 99; D3 16 97 117 101;
  D3 16 97 117 105; D3 16 97 117 111; D3 16 97 117 115; D3 16 97 117 116; D2 11 97 117; D2 11 97 117; D2 11 97 117;
  D2 11 97 117; D2 11 97 117; D2 11 97 117; D2 11 97 117; D2 11 97 117; D2 11 97 117; D2 11 97 117; D2 11 97 117;
  D2 11 97 117; D2 11 97 117; D2 11 97 117; D2 11 97 117; D2 11 97 117; D2 11 97 117; D2 11 97 117; D2 11 97 117;
  D2 11 97 117; D2 11 97 117; D2 11 97 117; D2 12 97 58; D2 12 97 58; D2 12 97 58; D2 12 97 58; D2 12 97 58;
  D2 12 97 58; D2 12 97 58; D2 12 97 58; D2 12 97 58; D2 12 97 58; D2 12 97 58; D2 12 97 58; D2 12 97 58; D2 12 97 58;
  D2 12 97 58; D2 12 97 58; D2 12 97 66; D2 12 97 66; D2 12 97 66; D2 12 97 66; D2 12 97 66; D2 12 97 66; D2 12 97 66;
  D2 12 97 66; D2 12 97 66; D2 12 97 66; D2 12 97 66; D2 12 97 66; D2 12 97 66; D2 12 97 66; D2 12 97 66; D2 12 97 66;
  D2 12 97 67; D2 12 97 67; D2 12 97 67; D2 12 97 67; D2 12 97 67; D2 12 97 67; D2 12 97 67; D2 12 97 67; D2 12 97 67;
  D2 12 97 67; D2 12 97 67; D2 12 97 67; D2 12 97 67; D2 12 97 67; D2 12 97 67; D2 12 97 67; D2 12 97 68; D2 12 97 68;
  D2 12 97 68; D2 12 97 68; D2 12 97 68; D2 12 97 68; D2 12 97 68; D2 12 97 68; D2 12 97 68; D2 12 97 68; D2 12 97 68;
  D2 12 97 68; D2 12 97 68; D2 12 97 68; D2 12 97 68; D2 12 97 68].
Definition hdecs_30 : list hdec := [
  D2 12 97 69; D2 12 97 69; D2 12 97 69; D2 12 97 69; D2 12 97 69; D2 12 97 69; D2 12 97 69; D2 12 97 69; D2 12 97 69;
  D2 12 97 69; D2 12 97 69; D2 12 97 69; D2 12 97 69; D2 12 97 69; D2 12 97 69; D2 12 97 69; D2 12 97 70; D2 12 97 70;
  D2 12 97 70; D2 12 97 70; D2 12 97 70; D2 12 97 70; D2 12 97 70; D2 12 97 70; D2 12 97 70; D2 12 97 70; D2 12 97 70;
  D2 12 97 70; D2 12 97 70; D2 12 97 70; D2 12 97 70; D2 12 97 70; D2 12 97 71; D2 12 97 71; D2 12 97 71; D2 12 97 71;
  D2 12 97 71; D2 12 97 71; D2 12 97 71; D2 12 97 71; D2 12 97 71; D2 12 97 71; D2 12 97 71; D2 12 97 71; D2 12 97 71;
  D2 12 97 71; D2 12 97 71; D2 12 97 71; D2 12 97 72; D2 12 97 72; D2 12 97 72; D2 12 97 72; D2 12 97 72; D2 12 97 72;
  D2 12 97 72; D2 12 97 72; D2 12 97 72; D2 12 97 72; D2 12 97 72; D2 12 97 72; D2 12 97 72; D2 12 97 72; D2 12 97 72;
  D2 12 97 72; D2 12 97 73; D2 12 97 73; D2 12 97 73; D2 12 97 73; D2 12 97 73; D2 12 97 73; D2 12 97 73; D2 12 97 73;
  D2 12 97 73; D2 12 97 73; D2 12 97 73; D2 12 97 73; D2 12 97 73; D2 12 97 73; D2 12 97 73; D2 12 97 73; D2 12 97 74;
  D2 12 97 74; D2 12 97 74; D2 12 97 74; D2 12 97 74; D2 12 97 74; D2 12 97 74; D2 12 97 74; D2 12 97 74; D2 12 97 74;
  D2 12 97 74; D2 12 97 74; D2 12 97 74; D2 12 97 74; D2 12 97 74; D2 12 97 74; D2 12 97 75; D2 12 97 75; D2 12 97 75;
  D2 12 97 75; D2 12 97 75; D2 12 97 75; D2 12 97 75; D2 12 97 75; D2 12 97 75; D2 12 97 75; D2 12 97 75; D2 12 97 75;
  D2 12 97 75; D2 12 97 75; D2 12 97 75; D2 12 97 75; D2 12 97 76; D2 12 97 76; D2 12 97 76; D2 12 97 76; D2 12 97 76;
  D2 12 97 76; D2 12 97 76; D2 12 97 76; D2 12 97 76; D2 12 97 76; D2 12 97 76; D2 12 97 76; D2 12 97 76; D2 12 97 76;
  D2 12 97 76; D2 12 97 76; D2 12 97 77; D2 12 97 77; D2 12 97 77; D2 12 97 77; D2 12 97 77; D2 12 97 77; D2 12 97 77;
  D2 12 97 77; D2 12 97 77; D2 12 97 77; D2 12 97 77; D2 12 97 77; D2 12 97 77; D2 12 97 77; D2 12 97 77; D2 12 97 77;
  D2 12 97 78; D2 12 97 78; D2 12 97 78; D2 12 97 78; D2 12 97 78; D2 12 97 78; D2 12 97 78; D2 12 97 78; D2 12 97 78;
  D2 12 97 78; D2 12 97 78; D2 12 97 78; D2 12 97 78; D2 12 97 78; D2 12 97 78; D2 12 97 78; D2 12 97 79; D2 12 97 79;
  D2 12 97 79; D2 12 97 79; D2 12 97 79; D2 12 97 79; D2 12 97 79; D2 12 97 79; D2 12 97 79; D2 12 97 79; D2 12 97 79;
  D2 12 97 79; D2 12 97 79; D2 12 97 79; D2 12 97 79; D2 12 97 79; D2 12 97 80; D2 12 97 80; D2 12 97 80; D2 12 97 80;
  D2 12 97 80; D2 12 97 80; D2 12 97 80; D2 12 97 80; D2 12 97 80; D2 12 97 80; D2 12 97 80; D2 12 97 80; D2 12 97 80;
  D2 12 97 80; D2 12 97 80; D2 12 97 80; D2 12 97 81; D2 12 97 81; D2 12 97 81; D2 12 97 81; D2 12 97 81; D2 12 97 81;
  D2 12 97 81; D2 12 97 81; D2 12 97 81; D2 12 97 81; D2 12 97 81; D2 12 97 81; D2 12 97 81; D2 12 97 81; D2 12 97 81;
  D2 12 97 81; D2 12 97 82; D2 12 97 82; D2 12 97 82; D2 12 97 82; D2 12 97 82; D2 12 97 82; D2 12 97 82; D2 12 97 82;
  D2 12 97 82; D2 12 97 82; D2 12 97 82; D2 12 97 82; D2 12 97 82; D2 12 97 82; D2 12 97 82; D2 12 97 82; D2 12 97 83;
  D2 12 97 83; D2 12 97 83; D2 12 97 83; D2 12 97 83; D2 12 97 83; D2 12 97 83; D2 12 97 83; D2 12 97 83; D2 12 97 83;
  D2 12 97 83; D2 12 97 83; D2 12 97 83; D2 12 97 83; D2 12 97 83; D2 12 97 83; D2 12 97 84; D2 12 97 84; D2 12 97 84;
  D2 12 97 84; D2 12 97 84; D2 12 97 84; D2 12 97 84; D2 12 97 84; D2 12 97 84; D2 12 97 84; D2 12 97 84; D2 12 97 84;
  D2 12 97 84; D2 12 97 84; D2 12 97 84; D2 12 97 84].
Definition hdecs_31 : list hdec := [
  D2 12 97 85; D2 12 97 85; D2 12 97 85; D2 12 97 85; D2 12 97 85; D2 12 97 85; D2 12 97 85; D2 12 97 85; D2 12 97 85;
  D2 12 97 85; D2 12 97 85; D2 12 97 85; D2 12 97 85; D2 12 97 85; D2 12 97 85; D2 12 97 85; D2 12 97 86; D2 12 97 86;
  D2 12 97 86; D2 12 97 86; D2 12 97 86; D2 12 97 86; D2 12 97 86; D2 12 97 86; D2 12 97 86; D2 12 97 86; D2 12 97 86;
  D2 12 97 86; D2 12 97 86; D2 12 97 86; D2 12 97 86; D2 12 97 86; D2 12 97 87; D2 12 97 87; D2 12 97 87; D2 12 97 87;
  D2 12 97 87; D2 12 97 87; D2 12 97 87; D2 12 97 87; D2 12 97 87; D2 12 97 87; D2 12 97 87; D2 12 97 87; D2 12 97 87;
  D2 12 97 87; D2 12 97 87; D2 12 97 87; D2 12 97 89; D2 12 97 89; D2 12 97 89; D2 12 97 89; D2 12 97 89; D2 12 97 89;
  D2 12 97 89; D2 12 97 89; D2 12 97 89; D2 12 97 89; D2 12 97 89; D2 12 97 89; D2 12 97 89; D2 12 97 89; D2 12 97 89;
  D2 12 97 89; D2 12 97 106; D2 12 97 106; D2 12 97 106; D2 12 97 106; D2 12 97 106; D2 12 97 106; D2 12 97 106;
  D2 12 97 106; D2 12 97 106; D2 12 97 106; D2 12 97 106; D2 12 97 106; D2 12 97 106; D2 12 97 106; D2 12 97 106;
  D2 12 97 106; D2 12 97 107; D2 12 97 107; D2 12 97 107; D2 12 97 107; D2 12 97 107; D2 12 97 107; D2 12 97 107;
  D2 12 97 107; D2 12 97 107; D2 12 97 107; D2 12 97 107; D2 12 97 107; D2 12 97 107; D2 12 97 107; D2 12 97 107;
  D2 12 97 107; D2 12 97 113; D2 12 97 113; D2 12 97 113; D2 12 97 113; D2 12 97 113; D2 12 97 113; D2 12 97 113;
  D2 12 97 113; D2 12 97 113; D2 12 97 113; D2 12 97 113; D2 12 97 113; D2 12 97 113; D2 12 97 113; D2 12 97 113;
  D2 12 97 113; D2 12 97 118; D2 12 97 118; D2 12 97 118; D2 12 97 118; D2 12 97 118; D2 12 97 118; D2 12 97 118;
  D2 12 97 118; D2 12 97 118; D2 12 97 118; D2 12 97 118; D2 12 97 118; D2 12 97 118; D2 12 97 118; D2 12 97 118;
  D2 12 97 118; D2 12 97 119; D2 12 97 119; D2 12 97 119; D2 12 97 119; D2 12 97 119; D2 12 97 119; D2 12 97 119;
  D2 12 97 119; D2 12 97 119; D2 12 97 119; D2 12 97 119; D2 12 97 119; D2 12 97 119; D2 12 97 119; D2 12 97 119;
  D2 12 97 119; D2 12 97 120; D2 12 97 120; D2 12 97 120; D2 12 97 120; D2 12 97 120; D2 12 97 120; D2 12 97 120;
  D2 12 97 120; D2 12 97 120; D2 12 97 120; D2 12 97 120; D2 12 97 120; D2 12 97 120; D2 12 97 120; D2 12 97 120;
  D2 12 97 120; D2 12 97 121; D2 12 97 121; D2 12 97 121; D2 12 97 121; D2 12 97 121; D2 12 97 121; D2 12 97 121;
  D2 12 97 121; D2 12 97 121; D2 12 97 121; D2 12 97 121; D2 12 97 121; D2 12 97 121; D2 12 97 121; D2 12 97 121;
  D2 12 97 121; D2 12 97 122; D2 12 97 122; D2 12 97 122; D2 12 97 122; D2 12 97 122; D2 12 97 122; D2 12 97 122;
  D2 12 97 122; D2 12 97 122; D2 12 97 122; D2 12 97 122; D2 12 97 122; D2 12 97 122; D2 12 97 122; D2 12 97 122;
  D2 12 97 122; D2 13 97 38; D2 13 97 38; D2 13 97 38; D2 13 97 38; D2 13 97 38; D2 13 97 38; D2 13 97 38;
  D2 13 97 38; D2 13 97 42; D2 13 97 42; D2 13 97 42; D2 13 97 42; D2 13 97 42; D2 13 97 42; D2 13 97 42; D2 13 97 42;
  D2 13 97 44; D2 13 97 44; D2 13 97 44; D2 13 97 44; D2 13 97 44; D2 13 97 44; D2 13 97 44; D2 13 97 44; D2 13 97 59;
  D2 13 97 59; D2 13 97 59; D2 13 97 59; D2 13 97 59; D2 13 97 59; D2 13 97 59; D2 13 97 59; D2 13 97 88; D2 13 97 88;
  D2 13 97 88; D2 13 97 88; D2 13 97 88; D2 13 97 88; D2 13 97 88; D2 13 97 88; D2 13 97 90; D2 13 97 90; D2 13 97 90;
  D2 13 97 90; D2 13 97 90; D2 13 97 90; D2 13 97 90; D2 13 97 90; D2 15 97 33; D2 15 97 33; D2 15 97 34; D2 15 97 34;
  D2 15 97 40; D2 15 97 40; D2 15 97 41; D2 15 97 41; D2 15 97 63; D2 15 97 63; D2 16 97 39; D2 16 97 43;
  D2 16 97 124; D1 5 97; D1 5 97; D1 5 97].
Definition hdecs_32 : list hdec := [
  D3 15 99 48 48; D3 15 99 48 48; D3 15 99 48 49; D3 15 99 48 49; D3 15 99 48 50; D3 15 99 48 50; D3 15 99 48 97;
  D3 15 99 48 97; D3 15 99 48 99; D3 15 99 48 99; D3 15 99 48 101; D3 15 99 48 101; D3 15 99 48 105; D3 15 99 48 105;
  D3 15 99 48 111; D3 15 99 48 111; D3 15 99 48 115; D3 15 99 48 115; D3 15 99 48 116; D3 15 99 48 116;
  D3 16 99 48 32; D3 16 99 48 37; D3 16 99 48 45; D3 16 99 48 46; D3 16 99 48 47; D3 16 99 48 51; D3 16 99 48 52;
  D3 16 99 48 53; D3 16 99 48 54; D3 16 99 48 55; D3 16 99 48 56; D3 16 99 48 57; D3 16 99 48 61; D3 16 99 48 65;
  D3 16 99 48 95; D3 16 99 48 98; D3 16 99 48 100; D3 16 99 48 102; D3 16 99 48 103; D3 16 99 48 104; D3 16 99 48 108;
  D3 16 99 48 109; D3 16 99 48 110; D3 16 99 48 112; D3 16 99 48 114; D3 16 99 48 117; D2 10 99 48; D2 10 99 48;
  D2 10 99 48; D2 10 99 48; D2 10 99 48; D2 10 99 48; D2 10 99 48; D2 10 99 48; D2 10 99 48; D2 10 99 48; D2 10 99 48;
  D2 10 99 48; D2 10 99 48; D2 10 99 48; D2 10 99 48; D2 10 99 48; D2 10 99 48; D2 10 99 48; D3 15 99 49 48;
  D3 15 99 49 48; D3 15 99 49 49; D3 15 99 49 49; D3 15 99 49 50; D3 15 99 49 50; D3 15 99 49 97; D3 15 99 49 97;
  D3 15 99 49 99; D3 15 99 49 99; D3 15 99 49 101; D3 15 99 49 101; D3 15 99 49 105; D3 15 99 49 105; D3 15 99 49 111;
  D3 15 99 49 111; D3 15 99 49 115; D3 15 99 49 115; D3 15 99 49 116; D3 15 99 49 116; D3 16 99 49 32; D3 16 99 49 37;
  D3 16 99 49 45; D3 16 99 49 46; D3 16 99 49 47; D3 16 99 49 51; D3 16 99 49 52; D3 16 99 49 53; D3 16 99 49 54;
  D3 16 99 49 55; D3 16 99 49 56; D3 16 99 49 57; D3 16 99 49 61; D3 16 99 49 65; D3 16 99 49 95; D3 16 99 49 98;
  D3 16 99 49 100; D3 16 99 49 102; D3 16 99 49 103; D3 16 99 49 104; D3 16 99 49 108; D3 16 99 49 109;
  D3 16 99 49 110; D3 16 99 49 112; D3 16 99 49 114; D3 16 99 49 117; D2 10 99 49; D2 10 99 49; D2 10 99 49;
  D2 10 99 49; D2 10 99 49; D2 10 99 49; D2 10 99 49; D2 10 99 49; D2 10 99 49; D2 10 99 49; D2 10 99 49; D2 10 99 49;
  D2 10 99 49; D2 10 99 49; D2 10 99 49; D2 10 99 49; D2 10 99 49; D2 10 99 49; D3 15 99 50 48; D3 15 99 50 48;
  D3 15 99 50 49; D3 15 99 50 49; D3 15 99 50 50; D3 15 99 50 50; D3 15 99 50 97; D3 15 99 50 97; D3 15 99 50 99;
  D3 15 99 50 99; D3 15 99 50 101; D3 15 99 50 101; D3 15 99 50 105; D3 15 99 50 105; D3 15 99 50 111;
  D3 15 99 50 111; D3 15 99 50 115; D3 15 99 50 115; D3 15 99 50 116; D3 15 99 50 116; D3 16 99 50 32; D3 16 99 50 37;
  D3 16 99 50 45; D3 16 99 50 46; D3 16 99 50 47; D3 16 99 50 51; D3 16 99 50 52; D3 16 99 50 53; D3 16 99 50 54;
  D3 16 99 50 55; D3 16 99 50 56; D3 16 99 50 57; D3 16 99 50 61; D3 16 99 50 65; D3 16 99 50 95; D3 16 99 50 98;
  D3 16 99 50 100; D3 16 99 50 102; D3 16 99 50 103; D3 16 99 50 104; D3 16 99 50 108; D3 16 99 50 109;
  D3 16 99 50 110; D3 16 99 50 112; D3 16 99 50 114; D3 16 99 50 117; D2 10 99 50; D2 10 99 50; D2 10 99 50;
  D2 10 99 50; D2 10 99 50; D2 10 99 50; D2 10 99 50; D2 10 99 50; D2 10 99 50; D2 10 99 50; D2 10 99 50; D2 10 99 50;
  D2 10 99 50; D2 10 99 50; D2 10 99 50; D2 10 99 50; D2 10 99 50; D2 10 99 50; D3 15 99 97 48; D3 15 99 97 48;
  D3 15 99 97 49; D3 15 99 97 49; D3 15 99 97 50; D3 15 99 97 50; D3 15 99 97 97; D3 15 99 97 97; D3 15 99 97 99;
  D3 15 99 97 99; D3 15 99 97 101; D3 15 99 97 101; D3 15 99 97 105; D3 15 99 97 105; D3 15 99 97 111;
  D3 15 99 97 111; D3 15 99 97 115; D3 15 99 97 115; D3 15 99 97 116; D3 15 99 97 116; D3 16 99 97 32; D3 16 99 97 37;
  D3 16 99 97 45; D3 16 99 97 46; D3 16 99 97 47; D3 16 99 97 51; D3 16 99 97 52; D3 16 99 97 53; D3 16 99 97 54;
  D3 16 99 97 55; D3 16 99 97 56; D3 16 99 97 57; D3 16 99 97 61; D3 16 99 97 65; D3 16 99 97 95; D3 16 99 97 98;
  D3 16 99 97 100; D3 16 99 97 102; D3 16 99 97 103; D3 16 99 97 104; D3 16 99 97 108; D3 16 99 97 109;
  D3 16 99 97 110; D3 16 99 97 112; D3 16 99 97 114; D3 16 99 97 117; D2 10 99 97; D2 10 99 97; D2 10 99 97;
  D2 10 99 97; D2 10 99 97; D2 10 99 97; D2 10 99 97; D2 10 99 97; D2 10 99 97; D2 10 99 97; D2 10 99 97; D2 10 99 97;
  D2 10 99 97; D2 10 99 97; D2 10 99 97; D2 10 99 97; D2 10 99 97; D2 10 99 97].
Definition hdecs_33 : list hdec := [
  D3 15 99 99 48; D3 15 99 99 48; D3 15 99 99 49; D3 15 99 99 49; D3 15 99 99 50; D3 15 99 99 50; D3 15 99 99 97;
  D3 15 99 99 97; D3 15 99 99 99; D3 15 99 99 99; D3 15 99 99 101; D3 15 99 99 101; D3 15 99 99 105; D3 15 99 99 105;
  D3 15 99 99 111; D3 15 99 99 111; D3 15 99 99 115; D3 15 99 99 115; D3 15 99 99 116; D3 15 99 99 116;
  D3 16 99 99 32; D3 16 99 99 37; D3 16 99 99 45; D3 16 99 99 46; D3 16 99 99 47; D3 16 99 99 51; D3 16 99 99 52;
  D3 16 99 99 53; D3 16 99 99 54; D3 16 99 99 55; D3 16 99 99 56; D3 16 99 99 57; D3 16 99 99 61; D3 16 99 99 65;
  D3 16 99 99 95; D3 16 99 99 98; D3 16 99 99 100; D3 16 99 99 102; D3 16 99 99 103; D3 16 99 99 104; D3 16 99 99 108;
  D3 16 99 99 109; D3 16 99 99 110; D3 16 99 99 112; D3 16 99 99 114; D3 16 99 99 117; D2 10 99 99; D2 10 99 99;
  D2 10 99 99; D2 10 99 99; D2 10 99 99; D2 10 99 99; D2 10 99 99; D2 10 99 99; D2 10 99 99; D2 10 99 99; D2 10 99 99;
  D2 10 99 99; D2 10 99 99; D2 10 99 99; D2 10 99 99; D2 10 99 99; D2 10 99 99; D2 10 99 99; D3 15 99 101 48;
  D3 15 99 101 48; D3 15 99 101 49; D3 15 99 101 49; D3 15 99 101 50; D3 15 99 101 50; D3 15 99 101 97;
  D3 15 99 101 97; D3 15 99 101 99; D3 15 99 101 99; D3 15 99 101 101; D3 15 99 101 101; D3 15 99 101 105;
  D3 15 99 101 105; D3 15 99 101 111; D3 15 99 101 111; D3 15 99 101 115; D3 15 99 101 115; D3 15 99 101 116;
  D3 15 99 101 116; D3 16 99 101 32; D3 16 99 101 37; D3 16 99 101 45; D3 16 99 101 46; D3 16 99 101 47;
  D3 16 99 101 51; D3 16 99 101 52; D3 16 99 101 53; D3 16 99 101 54; D3 16 99 101 55; D3 16 99 101 56;
  D3 16 99 101 57; D3 16 99 101 61; D3 16 99 101 65; D3 16 99 101 95; D3 16 99 101 98; D3 16 99 101 100;
  D3 16 99 101 102; D3 16 99 101 103; D3 16 99 101 104; D3 16 99 101 108; D3 16 99 101 109; D3 16 99 101 110;
  D3 16 99 101 112; D3 16 99 101 114; D3 16 99 101 117; D2 10 99 101; D2 10 99 101; D2 10 99 101; D2 10 99 101;
  D2 10 99 101; D2 10 99 101; D2 10 99 101; D2 10 99 101; D2 10 99 101; D2 10 99 101; D2 10 99 101; D2 10 99 101;
  D2 10 99 101; D2 10 99 101; D2 10 99 101; D2 10 99 101; D2 10 99 101; D2 10 99 101; D3 15 99 105 48;
  D3 15 99 105 48; D3 15 99 105 49; D3 15 99 105 49; D3 15 99 105 50; D3 15 99 105 50; D3 15 99 105 97;
  D3 15 99 105 97; D3 15 99 105 99; D3 15 99 105 99; D3 15 99 105 101; D3 15 99 105 101; D3 15 99 105 105;
  D3 15 99 105 105; D3 15 99 105 111; D3 15 99 105 111; D3 15 99 105 115; D3 15 99 105 115; D3 15 99 105 116;
  D3 15 99 105 116; D3 16 99 105 32; D3 16 99 105 37; D3 16 99 105 45; D3 16 99 105 46; D3 16 99 105 47;
  D3 16 99 105 51; D3 16 99 105 52; D3 16 99 105 53; D3 16 99 105 54; D3 16 99 105 55; D3 16 99 105 56;
  D3 16 99 105 57; D3 16 99 105 61; D3 16 99 105 65; D3 16 99 105 95; D3 16 99 105 98; D3 16 99 105 100;
  D3 16 99 105 102; D3 16 99 105 103; D3 16 99 105 104; D3 16 99 105 108; D3 16 99 105 109; D3 16 99 105 110;
  D3 16 99 105 112; D3 16 99 105 114; D3 16 99 105 117; D2 10 99 105; D2 10 99 105; D2 10 99 105; D2 10 99 105;
  D2 10 99 105; D2 10 99 105; D2 10 99 105; D2 10 99 105; D2 10 99 105; D2 10 99 105; D2 10 99 105; D2 10 99 105;
  D2 10 99 105; D2 10 99 105; D2 10 99 105; D2 10 99 105; D2 10 99 105; D2 10 99 105; D3 15 99 111 48;
  D3 15 99 111 48; D3 15 99 111 49; D3 15 99 111 49; D3 15 99 111 50; D3 15 99 111 50; D3 15 99 111 97;
  D3 15 99 111 97; D3 15 99 111 99; D3 15 99 111 99; D3 15 99 111 101; D3 15 99 111 101; D3 15 99 111 105;
  D3 15 99 111 105; D3 15 99 111 111; D3 15 99 111 111; D3 15 99 111 115; D3 15 99 111 115; D3 15 99 111 116;
  D3 15 99 111 116; D3 16 99 111 32; D3 16 99 111 37; D3 16 99 111 45; D3 16 99 111 46; D3 16 99 111 47;
  D3 16 99 111 51; D3 16 99 111 52; D3 16 99 111 53; D3 16 99 111 54; D3 16 99 111 55; D3 16 99 111 56;
  D3 16 99 111 57; D3 16 99 111 61; D3 16 99 111 65; D3 16 99 111 95; D3 16 99 111 98; D3 16 99 111 100;
  D3 16 99 111 102; D3 16 99 111 103; D3 16 99 111 104; D3 16 99 111 108; D3 16 99 111 109; D3 16 99 111 110;
  D3 16 99 111 112; D3 16 99 111 114; D3 16 99 111 117; D2 10 99 111; D2 10 99 111; D2 10 99 111; D2 10 99 111;
  D2 10 99 111; D2 10 99 111; D2 10 99 111; D2 10 99 111; D2 10 99 111; D2 10 99 111; D2 10 99 111; D2 10 99 111;
  D2 10 99 111; D2 10 99 111; D2 10 99 111; D2 10 99 111; D2 10 99 111; D2 10 99 111].
Definition hdecs_34 : list hdec := [
  D3 15 99 115 48; D3 15 99 115 48; D3 15 99 115 49; D3 15 99 115 49; D3 15 99 115 50; D3 15 99 115 50;
  D3 15 99 115 97; D3 15 99 115 97; D3 15 99 115 99; D3 15 99 115 99; D3 15 99 115 101; D3 15 99 115 101;
  D3 15 99 115 105; D3 15 99 115 105; D3 15 99 115 111; D3 15 99 115 111; D3 15 99 115 115; D3 15 99 115 115;
  D3 15 99 115 116; D3 15 99 115 116; D3 16 99 115 32; D3 16 99 115 37; D3 16 99 115 45; D3 16 99 115 46;
  D3 16 99 115 47; D3 16 99 115 51; D3 16 99 115 52; D3 16 99 115 53; D3 16 99 115 54; D3 16 99 115 55;
  D3 16 99 115 56; D3 16 99 115 57; D3 16 99 115 61; D3 16 99 115 65; D3 16 99 115 95; D3 16 99 115 98;
  D3 16 99 115 100; D3 16 99 115 102; D3 16 99 115 103; D3 16 99 115 104; D3 16 99 115 108; D3 16 99 115 109;
  D3 16 99 115 110; D3 16 99 115 112; D3 16 99 115 114; D3 16 99 115 117; D2 10 99 115; D2 10 99 115; D2 10 99 115;
  D2 10 99 115; D2 10 99 115; D2 10 99 115; D2 10 99 115; D2 10 99 115; D2 10 99 115; D2 10 99 115; D2 10 99 115;
  D2 10 99 115; D2 10 99 115; D2 10 99 115; D2 10 99 115; D2 10 99 115; D2 10 99 115; D2 10 99 115; D3 15 99 116 48;
  D3 15 99 116 48; D3 15 99 116 49; D3 15 99 116 49; D3 15 99 116 50; D3 15 99 116 50; D3 15 99 116 97;
  D3 15 99 116 97; D3 15 99 116 99; D3 15 99 116 99; D3 15 99 116 101; D3 15 99 116 101; D3 15 99 116 105;
  D3 15 99 116 105; D3 15 99 116 111; D3 15 99 116 111; D3 15 99 116 115; D3 15 99 116 115; D3 15 99 116 116;
  D3 15 99 116 116; D3 16 99 116 32; D3 16 99 116 37; D3 16 99 116 45; D3 16 99 116 46; D3 16 99 116 47;
  D3 16 99 116 51; D3 16 99 116 52; D3 16 99 116 53; D3 16 99 116 54; D3 16 99 116 55; D3 16 99 116 56;
  D3 16 99 116 57; D3 16 99 116 61; D3 16 99 116 65; D3 16 99 116 95; D3 16 99 116 98; D3 16 99 116 100;
  D3 16 99 116 102; D3 16 99 116 103; D3 16 99 116 104; D3 16 99 116 108; D3 16 99 116 109; D3 16 99 116 110;
  D3 16 99 116 112; D3 16 99 116 114; D3 16 99 116 117; D2 10 99 116; D2 10 99 116; D2 10 99 116; D2 10 99 116;
  D2 10 99 116; D2 10 99 116; D2 10 99 116; D2 10 99 116; D2 10 99 116; D2 10 99 116; D2 10 99 116; D2 10 99 116;
  D2 10 99 116; D2 10 99 116; D2 10 99 116; D2 10 99 116; D2 10 99 116; D2 10 99 116; D3 16 99 32 48; D3 16 99 32 49;
  D3 16 99 32 50; D3 16 99 32 97; D3 16 99 32 99; D3 16 99 32 101; D3 16 99 32 105; D3 16 99 32 111; D3 16 99 32 115;
  D3 16 99 32 116; D2 11 99 32; D2 11 99 32; D2 11 99 32; D2 11 99 32; D2 11 99 32; D2 11 99 32; D2 11 99 32;
  D2 11 99 32; D2 11 99 32; D2 11 99 32; D2 11 99 32; D2 11 99 32; D2 11 99 32; D2 11 99 32; D2 11 99 32; D2 11 99 32;
  D2 11 99 32; D2 11 99 32; D2 11 99 32; D2 11 99 32; D2 11 99 32; D2 11 99 32; D3 16 99 37 48; D3 16 99 37 49;
  D3 16 99 37 50; D3 16 99 37 97; D3 16 99 37 99; D3 16 99 37 101; D3 16 99 37 105; D3 16 99 37 111; D3 16 99 37 115;
  D3 16 99 37 116; D2 11 99 37; D2 11 99 37; D2 11 99 37; D2 11 99 37; D2 11 99 37; D2 11 99 37; D2 11 99 37;
  D2 11 99 37; D2 11 99 37; D2 11 99 37; D2 11 99 37; D2 11 99 37; D2 11 99 37; D2 11 99 37; D2 11 99 37; D2 11 99 37;
  D2 11 99 37; D2 11 99 37; D2 11 99 37; D2 11 99 37; D2 11 99 37; D2 11 99 37; D3 16 99 45 48; D3 16 99 45 49;
  D3 16 99 45 50; D3 16 99 45 97; D3 16 99 45 99; D3 16 99 45 101; D3 16 99 45 105; D3 16 99 45 111; D3 16 99 45 115;
  D3 16 99 45 116; D2 11 99 45; D2 11 99 45; D2 11 99 45; D2 11 99 45; D2 11 99 45; D2 11 99 45; D2 11 99 45;
  D2 11 99 45; D2 11 99 45; D2 11 99 45; D2 11 99 45; D2 11 99 45; D2 11 99 45; D2 11 99 45; D2 11 99 45; D2 11 99 45;
  D2 11 99 45; D2 11 99 45; D2 11 99 45; D2 11 99 45; D2 11 99 45; D2 11 99 45; D3 16 99 46 48; D3 16 99 46 49;
  D3 16 99 46 50; D3 16 99 46 97; D3 16 99 46 99; D3 16 99 46 101; D3 16 99 46 105; D3 16 99 46 111; D3 16 99 46 115;
  D3 16 99 46 116; D2 11 99 46; D2 11 99 46; D2 11 99 46; D2 11 99 46; D2 11 99 46; D2 11 99 46; D2 11 99 46;
  D2 11 99 46; D2 11 99 46; D2 11 99 46; D2 11 99 46; D2 11 99 46; D2 11 99 46; D2 11 99 46; D2 11 99 46; D2 11 99 46;
  D2 11 99 46; D2 11 99 46; D2 11 99 46; D2 11 99 46; D2 11 99 46; D2 11 99 46].
Definition hdecs_35 : list hdec := [
  D3 16 99 47 48; D3 16 99 47 49; D3 16 99 47 50; D3 16 99 47 97; D3 16 99 47 99; D3 16 99 47 101; D3 16 99 47 105;
  D3 16 99 47 111; D3 16 99 47 115; D3 16 99 47 116; D2 11 99 47; D2 11 99 47; D2 11 99 47; D2 11 99 47; D2 11 99 47;
  D2 11 99 47; D2 11 99 47; D2 11 99 47; D2 11 99 47; D2 11 99 47; D2 11 99 47; D2 11 99 47; D2 11 99 47; D2 11 99 47;
  D2 11 99 47; D2 11 99 47; D2 11 99 47; D2 11 99 47; D2 11 99 47; D2 11 99 47; D2 11 99 47; D2 11 99 47;
  D3 16 99 51 48; D3 16 99 51 49; D3 16 99 51 50; D3 16 99 51 97; D3 16 99 51 99; D3 16 99 51 101; D3 16 99 51 105;
  D3 16 99 51 111; D3 16 99 51 115; D3 16 99 51 116; D2 11 99 51; D2 11 99 51; D2 11 99 51; D2 11 99 51; D2 11 99 51;
  D2 11 99 51; D2 11 99 51; D2 11 99 51; D2 11 99 51; D2 11 99 51; D2 11 99 51; D2 11 99 51; D2 11 99 51; D2 11 99 51;
  D2 11 99 51; D2 11 99 51; D2 11 99 51; D2 11 99 51; D2 11 99 51; D2 11 99 51; D2 11 99 51; D2 11 99 51;
  D3 16 99 52 48; D3 16 99 52 49; D3 16 99 52 50; D3 16 99 52 97; D3 16 99 52 99; D3 16 99 52 101; D3 16 99 52 105;
  D3 16 99 52 111; D3 16 99 52 115; D3 16 99 52 116; D2 11 99 52; D2 11 99 52; D2 11 99 52; D2 11 99 52; D2 11 99 52;
  D2 11 99 52; D2 11 99 52; D2 11 99 52; D2 11 99 52; D2 11 99 52; D2 11 99 52; D2 11 99 52; D2 11 99 52; D2 11 99 52;
  D2 11 99 52; D2 11 99 52; D2 11 99 52; D2 11 99 52; D2 11 99 52; D2 11 99 52; D2 11 99 52; D2 11 99 52;
  D3 16 99 53 48; D3 16 99 53 49; D3 16 99 53 50; D3 16 99 53 97; D3 16 99 53 99; D3 16 99 53 101; D3 16 99 53 105;
  D3 16 99 53 111; D3 16 99 53 115; D3 16 99 53 116; D2 11 99 53; D2 11 99 53; D2 11 99 53; D2 11 99 53; D2 11 99 53;
  D2 11 99 53; D2 11 99 53; D2 11 99 53; D2 11 99 53; D2 11 99 53; D2 11 99 53; D2 11 99 53; D2 11 99 53; D2 11 99 53;
  D2 11 99 53; D2 11 99 53; D2 11 99 53; D2 11 99 53; D2 11 99 53; D2 11 99 53; D2 11 99 53; D2 11 99 53;
  D3 16 99 54 48; D3 16 99 54 49; D3 16 99 54 50; D3 16 99 54 97; D3 16 99 54 99; D3 16 99 54 101; D3 16 99 54 105;
  D3 16 99 54 111; D3 16 99 54 115; D3 16 99 54 116; D2 11 99 54; D2 11 99 54; D2 11 99 54; D2 11 99 54; D2 11 99 54;
  D2 11 99 54; D2 11 99 54; D2 11 99 54; D2 11 99 54; D2 11 99 54; D2 11 99 54; D2 11 99 54; D2 11 99 54; D2 11 99 54;
  D2 11 99 54; D2 11 99 54; D2 11 99 54; D2 11 99 54; D2 11 99 54; D2 11 99 54; D2 11 99 54; D2 11 99 54;
  D3 16 99 55 48; D3 16 99 55 49; D3 16 99 55 50; D3 16 99 55 97; D3 16 99 55 99; D3 16 99 55 101; D3 16 99 55 105;
  D3 16 99 55 111; D3 16 99 55 115; D3 16 99 55 116; D2 11 99 55; D2 11 99 55; D2 11 99 55; D2 11 99 55; D2 11 99 55;
  D2 11 99 55; D2 11 99 55; D2 11 99 55; D2 11 99 55; D2 11 99 55; D2 11 99 55; D2 11 99 55; D2 11 99 55; D2 11 99 55;
  D2 11 99 55; D2 11 99 55; D2 11 99 55; D2 11 99 55; D2 11 99 55; D2 11 99 55; D2 11 99 55; D2 11 99 55;
  D3 16 99 56 48; D3 16 99 56 49; D3 16 99 56 50; D3 16 99 56 97; D3 16 99 56 99; D3 16 99 56 101; D3 16 99 56 105;
  D3 16 99 56 111; D3 16 99 56 115; D3 16 99 56 116; D2 11 99 56; D2 11 99 56; D2 11 99 56; D2 11 99 56; D2 11 99 56;
  D2 11 99 56; D2 11 99 56; D2 11 99 56; D2 11 99 56; D2 11 99 56; D2 11 99 56; D2 11 99 56; D2 11 99 56; D2 11 99 56;
  D2 11 99 56; D2 11 99 56; D2 11 99 56; D2 11 99 56; D2 11 99 56; D2 11 99 56; D2 11 99 56; D2 11 99 56;
  D3 16 99 57 48; D3 16 99 57 49; D3 16 99 57 50; D3 16 99 57 97; D3 16 99 57 99; D3 16 99 57 101; D3 16 99 57 105;
  D3 16 99 57 111; D3 16 99 57 115; D3 16 99 57 116; D2 11 99 57; D2 11 99 57; D2 11 99 57; D2 11 99 57; D2 11 99 57;
  D2 11 99 57; D2 11 99 57; D2 11 99 57; D2 11 99 57; D2 11 99 57; D2 11 99 57; D2 11 99 57; D2 11 99 57; D2 11 99 57;
  D2 11 99 57; D2 11 99 57; D2 11 99 57; D2 11 99 57; D2 11 99 57; D2 11 99 57; D2 11 99 57; D2 11 99 57].
Definition hdecs_36 : list hdec := [
  D3 16 99 61 48; D3 16 99 61 49; D3 16 99 61 50; D3 16 99 61 97; D3 16 99 61 99; D3 16 99 61 101; D3 16 99 61 105;
  D3 16 99 61 111; D3 16 99 61 115; D3 16 99 61 116; D2 11 99 61; D2 11 99 61; D2 11 99 61; D2 11 99 61; D2 11 99 61;
  D2 11 99 61; D2 11 99 61; D2 11 99 61; D2 11 99 61; D2 11 99 61; D2 11 99 61; D2 11 99 61; D2 11 99 61; D2 11 99 61;
  D2 11 99 61; D2 11 99 61; D2 11 99 61; D2 11 99 61; D2 11 99 61; D2 11 99 61; D2 11 99 61; D2 11 99 61;
  D3 16 99 65 48; D3 16 99 65 49; D3 16 99 65 50; D3 16 99 65 97; D3 16 99 65 99; D3 16 99 65 101; D3 16 99 65 105;
  D3 16 99 65 111; D3 16 99 65 115; D3 16 99 65 116; D2 11 99 65; D2 11 99 65; D2 11 99 65; D2 11 99 65; D2 11 99 65;
  D2 11 99 65; D2 11 99 65; D2 11 99 65; D2 11 99 65; D2 11 99 65; D2 11 99 65; D2 11 99 65; D2 11 99 65; D2 11 99 65;
  D2 11 99 65; D2 11 99 65; D2 11 99 65; D2 11 99 65; D2 11 99 65; D2 11 99 65; D2 11 99 65; D2 11 99 65;
  D3 16 99 95 48; D3 16 99 95 49; D3 16 99 95 50; D3 16 99 95 97; D3 16 99 95 99; D3 16 99 95 101; D3 16 99 95 105;
  D3 16 99 95 111; D3 16 99 95 115; D3 16 99 95 116; D2 11 99 95; D2 11 99 95; D2 11 99 95; D2 11 99 95; D2 11 99 95;
  D2 11 99 95; D2 11 99 95; D2 11 99 95; D2 11 99 95; D2 11 99 95; D2 11 99 95; D2 11 99 95; D2 11 99 95; D2 11 99 95;
  D2 11 99 95; D2 11 99 95; D2 11 99 95; D2 11 99 95; D2 11 99 95; D2 11 99 95; D2 11 99 95; D2 11 99 95;
  D3 16 99 98 48; D3 16 99 98 49; D3 16 99 98 50; D3 16 99 98 97; D3 16 99 98 99; D3 16 99 98 101; D3 16 99 98 105;
  D3 16 99 98 111; D3 16 99 98 115; D3 16 99 98 116; D2 11 99 98; D2 11 99 98; D2 11 99 98; D2 11 99 98; D2 11 99 98;
  D2 11 99 98; D2 11 99 98; D2 11 99 98; D2 11 99 98; D2 11 99 98; D2 11 99 98; D2 11 99 98; D2 11 99 98; D2 11 99 98;
  D2 11 99 98; D2 11 99 98; D2 11 99 98; D2 11 99 98; D2 11 99 98; D2 11 99 98; D2 11 99 98; D2 11 99 98;
  D3 16 99 100 48; D3 16 99 100 49; D3 16 99 100 50; D3 16 99 100 97; D3 16 99 100 99; D3 16 99 100 101;
  D3 16 99 100 105; D3 16 99 100 111; D3 16 99 100 115; D3 16 99 100 116; D2 11 99 100; D2 11 99 100; D2 11 99 100;
  D2 11 99 100; D2 11 99 100; D2 11 99 100; D2 11 99 100; D2 11 99 100; D2 11 99 100; D2 11 99 100; D2 11 99 100;
  D2 11 99 100; D2 11 99 100; D2 11 99 100; D2 11 99 100; D2 11 99 100; D2 11 99 100; D2 11 99 100; D2 11 99 100;
  D2 11 99 100; D2 11 99 100; D2 11 99 100; D3 16 99 102 48; D3 16 99 102 49; D3 16 99 102 50; D3 16 99 102 97;
  D3 16 99 102 99; D3 16 99 102 101; D3 16 99 102 105; D3 16 99 102 111; D3 16 99 102 115; D3 16 99 102 116;
  D2 11 99 102; D2 11 99 102; D2 11 99 102; D2 11 99 102; D2 11 99 102; D2 11 99 102; D2 11 99 102; D2 11 99 102;
  D2 11 99 102; D2 11 99 102; D2 11 99 102; D2 11 99 102; D2 11 99 102; D2 11 99 102; D2 11 99 102; D2 11 99 102;
  D2 11 99 102; D2 11 99 102; D2 11 99 102; D2 11 99 102; D2 11 99 102; D2 11 99 102; D3 16 99 103 48;
  D3 16 99 103 49; D3 16 99 103 50; D3 16 99 103 97; D3 16 99 103 99; D3 16 99 103 101; D3 16 99 103 105;
  D3 16 99 103 111; D3 16 99 103 115; D3 16 99 103 116; D2 11 99 103; D2 11 99 103; D2 11 99 103; D2 11 99 103;
  D2 11 99 103; D2 11 99 103; D2 11 99 103; D2 11 99 103; D2 11 99 103; D2 11 99 103; D2 11 99 103; D2 11 99 103;
  D2 11 99 103; D2 11 99 103; D2 11 99 103; D2 11 99 103; D2 11 99 103; D2 11 99 103; D2 11 99 103; D2 11 99 103;
  D2 11 99 103; D2 11 99 103; D3 16 99 104 48; D3 16 99 104 49; D3 16 99 104 50; D3 16 99 104 97; D3 16 99 104 99;
  D3 16 99 104 101; D3 16 99 104 105; D3 16 99 104 111; D3 16 99 104 115; D3 16 99 104 116; D2 11 99 104;
  D2 11 99 104; D2 11 99 104; D2 11 99 104; D2 11 99 104; D2 11 99 104; D2 11 99 104; D2 11 99 104; D2 11 99 104;
  D2 11 99 104; D2 11 99 104; D2 11 99 104; D2 11 99 104; D2 11 99 104; D2 11 99 104; D2 11 99 104; D2 11 99 104;
  D2 11 99 104; D2 11 99 104; D2 11 99 104; D2 11 99 104; D2 11 99 104].
Definition hdecs_37 : list hdec := [
  D3 16 99 108 48; D3 16 99 108 49; D3 16 99 108 50; D3 16 99 108 97; D3 16 99 108 99; D3 16 99 108 101;
  D3 16 99 108 105; D3 16 99 108 111; D3 16 99 108 115; D3 16 99 108 116; D2 11 99 108; D2 11 99 108; D2 11 99 108;
  D2 11 99 108; D2 11 99 108; D2 11 99 108; D2 11 99 108; D2 11 99 108; D2 11 99 108; D2 11 99 108; D2 11 99 108;
  D2 11 99 108; D2 11 99 108; D2 11 99 108; D2 11 99 108; D2 11 99 108; D2 11 99 108; D2 11 99 108; D2 11 99 108;
  D2 11 99 108; D2 11 99 108; D2 11 99 108; D3 16 99 109 48; D3 16 99 109 49; D3 16 99 109 50; D3 16 99 109 97;
  D3 16 99 109 99; D3 16 99 109 101; D3 16 99 109 105; D3 16 99 109 111; D3 16 99 109 115; D3 16 99 109 116;
  D2 11 99 109; D2 11 99 109; D2 11 99 109; D2 11 99 109; D2 11 99 109; D2 11 99 109; D2 11 99 109; D2 11 99 109;
  D2 11 99 109; D2 11 99 109; D2 11 99 109; D2 11 99 109; D2 11 99 109; D2 11 99 109; D2 11 99 109; D2 11 99 109;
  D2 11 99 109; D2 11 99 109; D2 11 99 109; D2 11 99 109; D2 11 99 109; D2 11 99 109; D3 16 99 110 48;
  D3 16 99 110 49; D3 16 99 110 50; D3 16 99 110 97; D3 16 99 110 99; D3 16 99 110 101; D3 16 99 110 105;
  D3 16 99 110 111; D3 16 99 110 115; D3 16 99 110 116; D2 11 99 110; D2 11 99 110; D2 11 99 110; D2 11 99 110;
  D2 11 99 110; D2 11 99 110; D2 11 99 110; D2 11 99 110; D2 11 99 110; D2 11 99 110; D2 11 99 110; D2 11 99 110;
  D2 11 99 110; D2 11 99 110; D2 11 99 110; D2 11 99 110; D2 11 99 110; D2 11 99 110; D2 11 99 110; D2 11 99 110;
  D2 11 99 110; D2 11 99 110; D3 16 99 112 48; D3 16 99 112 49; D3 16 99 112 50; D3 16 99 112 97; D3 16 99 112 99;
  D3 16 99 112 101; D3 16 99 112 105; D3 16 99 112 111; D3 16 99 112 115; D3 16 99 112 116; D2 11 99 112;
  D2 11 99 112; D2 11 99 112; D2 11 99 112; D2 11 99 112; D2 11 99 112; D2 11 99 112; D2 11 99 112; D2 11 99 112;
  D2 11 99 112; D2 11 99 112; D2 11 99 112; D2 11 99 112; D2 11 99 112; D2 11 99 112; D2 11 99 112; D2 11 99 112;
  D2 11 99 112; D2 11 99 112; D2 11 99 112; D2 11 99 112; D2 11 99 112; D3 16 99 114 48; D3 16 99 114 49;
  D3 16 99 114 50; D3 16 99 114 97; D3 16 99 114 99; D3 16 99 114 101; D3 16 99 114 105; D3 16 99 114 111;
  D3 16 99 114 115; D3 16 99 114 116; D2 11 99 114; D2 11 99 114; D2 11 99 114; D2 11 99 114; D2 11 99 114;
  D2 11 99 114; D2 11 99 114; D2 11 99 114; D2 11 99 114; D2 11 99 114; D2 11 99 114; D2 11 99 114; D2 11 99 114;
  D2 11 99 114; D2 11 99 114; D2 11 99 114; D2 11 99 114; D2 11 99 114; D2 11 99 114; D2 11 99 114; D2 11 99 114;
  D2 11 99 114; D3 16 99 117 48; D3 16 99 117 49; D3 16 99 117 50; D3 16 99 117 97; D3 16 99 117 99; D3 16 99 117 101;
  D3 16 99 117 105; D3 16 99 117 111; D3 16 99 117 115; D3 16 99 117 116; D2 11 99 117; D2 11 99 117; D2 11 99 117;
  D2 11 99 117; D2 11 99 117; D2 11 99 117; D2 11 99 117; D2 11 99 117; D2 11 99 117; D2 11 99 117; D2 11 99 117;
  D2 11 99 117; D2 11 99 117; D2 11 99 117; D2 11 99 117; D2 11 99 117; D2 11 99 117; D2 11 99 117; D2 11 99 117;
  D2 11 99 117; D2 11 99 117; D2 11 99 117; D2 12 99 58; D2 12 99 58; D2 12 99 58; D2 12 99 58; D2 12 99 58;
  D2 12 99 58; D2 12 99 58; D2 12 99 58; D2 12 99 58; D2 12 99 58; D2 12 99 58; D2 12 99 58; D2 12 99 58; D2 12 99 58;
  D2 12 99 58; D2 12 99 58; D2 12 99 66; D2 12 99 66; D2 12 99 66; D2 12 99 66; D2 12 99 66; D2 12 99 66; D2 12 99 66;
  D2 12 99 66; D2 12 99 66; D2 12 99 66; D2 12 99 66; D2 12 99 66; D2 12 99 66; D2 12 99 66; D2 12 99 66; D2 12 99 66;
  D2 12 99 67; D2 12 99 67; D2 12 99 67; D2 12 99 67; D2 12 99 67; D2 12 99 67; D2 12 99 67; D2 12 99 67; D2 12 99 67;
  D2 12 99 67; D2 12 99 67; D2 12 99 67; D2 12 99 67; D2 12 99 67; D2 12 99 67; D2 12 99 67; D2 12 99 68; D2 12 99 68;
  D2 12 99 68; D2 12 99 68; D2 12 99 68; D2 12 99 68; D2 12 99 68; D2 12 99 68; D2 12 99 68; D2 12 99 68; D2 12 99 68;
  D2 12 99 68; D2 12 99 68; D2 12 99 68; D2 12 99 68; D2 12 99 68].
Definition hdecs_38 : list hdec := [
  D2 12 99 69; D2 12 99 69; D2 12 99 69; D2 12 99 69; D2 12 99 69; D2 12 99 69; D2 12 99 69; D2 12 99 69; D2 12 99 69;
  D2 12 99 69; D2 12 99 69; D2 12 99 69; D2 12 99 69; D2 12 99 69; D2 12 99 69; D2 12 99 69; D2 12 99 70; D2 12 99 70;
  D2 12 99 70; D2 12 99 70; D2 12 99 70; D2 12 99 70; D2 12 99 70; D2 12 99 70; D2 12 99 70; D2 12 99 70; D2 12 99 70;
  D2 12 99 70; D2 12 99 70; D2 12 99 70; D2 12 99 70; D2 12 99 70; D2 12 99 71; D2 12 99 71; D2 12 99 71; D2 12 99 71;
  D2 12 99 71; D2 12 99 71; D2 12 99 71; D2 12 99 71; D2 12 99 71; D2 12 99 71; D2 12 99 71; D2 12 99 71; D2 12 99 71;
  D2 12 99 71; D2 12 99 71; D2 12 99 71; D2 12 99 72; D2 12 99 72; D2 12 99 72; D2 12 99 72; D2 12 99 72; D2 12 99 72;
  D2 12 99 72; D2 12 99 72; D2 12 99 72; D2 12 99 72; D2 12 99 72; D2 12 99 72; D2 12 99 72; D2 12 99 72; D2 12 99 72;
  D2 12 99 72; D2 12 99 73; D2 12 99 73; D2 12 99 73; D2 12 99 73; D2 12 99 73; D2 12 99 73; D2 12 99 73; D2 12 99 73;
  D2 12 99 73; D2 12 99 73; D2 12 99 73; D2 12 99 73; D2 12 99 73; D2 12 99 73; D2 12 99 73; D2 12 99 73; D2 12 99 74;
  D2 12 99 74; D2 12 99 74; D2 12 99 74; D2 12 99 74; D2 12 99 74; D2 12 99 74; D2 12 99 74; D2 12 99 74; D2 12 99 74;
  D2 12 99 74; D2 12 99 74; D2 12 99 74; D2 12 99 74; D2 12 99 74; D2 12 99 74; D2 12 99 75; D2 12 99 75; D2 12 99 75;
  D2 12 99 75; D2 12 99 75; D2 12 99 75; D2 12 99 75; D2 12 99 75; D2 12 99 75; D2 12 99 75; D2 12 99 75; D2 12 99 75;
  D2 12 99 75; D2 12 99 75; D2 12 99 75; D2 12 99 75; D2 12 99 76; D2 12 99 76; D2 12 99 76; D2 12 99 76; D2 12 99 76;
  D2 12 99 76; D2 12 99 76; D2 12 99 76; D2 12 99 76; D2 12 99 76; D2 12 99 76; D2 12 99 76; D2 12 99 76; D2 12 99 76;
  D2 12 99 76; D2 12 99 76; D2 12 99 77; D2 12 99 77; D2 12 99 77; D2 12 99 77; D2 12 99 77; D2 12 99 77; D2 12 99 77;
  D2 12 99 77; D2 12 99 77; D2 12 99 77; D2 12 99 77; D2 12 99 77; D2 12 99 77; D2 12 99 77; D2 12 99 77; D2 12 99 77;
  D2 12 99 78; D2 12 99 78; D2 12 99 78; D2 12 99 78; D2 12 99 78; D2 12 99 78; D2 12 99 78; D2 12 99 78; D2 12 99 78;
  D2 12 99 78; D2 12 99 78; D2 12 99 78; D2 12 99 78; D2 12 99 78; D2 12 99 78; D2 12 99 78; D2 12 99 79; D2 12 99 79;
  D2 12 99 79; D2 12 99 79; D2 12 99 79; D2 12 99 79; D2 12 99 79; D2 12 99 79; D2 12 99 79; D2 12 99 79; D2 12 99 79;
  D2 12 99 79; D2 12 99 79; D2 12 99 79; D2 12 99 79; D2 12 99 79; D2 12 99 80; D2 12 99 80; D2 12 99 80; D2 12 99 80;
  D2 12 99 80; D2 12 99 80; D2 12 99 80; D2 12 99 80; D2 12 99 80; D2 12 99 80; D2 12 99 80; D2 12 99 80; D2 12 99 80;
  D2 12 99 80; D2 12 99 80; D2 12 99 80; D2 12 99 81; D2 12 99 81; D2 12 99 81; D2 12 99 81; D2 12 99 81; D2 12 99 81;
  D2 12 99 81; D2 12 99 81; D2 12 99 81; D2 12 99 81; D2 12 99 81; D2 12 99 81; D2 12 99 81; D2 12 99 81; D2 12 99 81;
  D2 12 99 81; D2 12 99 82; D2 12 99 82; D2 12 99 82; D2 12 99 82; D2 12 99 82; D2 12 99 82; D2 12 99 82; D2 12 99 82;
  D2 12 99 82; D2 12 99 82; D2 12 99 82; D2 12 99 82; D2 12 99 82; D2 12 99 82; D2 12 99 82; D2 12 99 82; D2 12 99 83;
  D2 12 99 83; D2 12 99 83; D2 12 99 83; D2 12 99 83; D2 12 99 83; D2 12 99 83; D2 12 99 83; D2 12 99 83; D2 12 99 83;
  D2 12 99 83; D2 12 99 83; D2 12 99 83; D2 12 99 83; D2 12 99 83; D2 12 99 83; D2 12 99 84; D2 12 99 84; D2 12 99 84;
  D2 12 99 84; D2 12 99 84; D2 12 99 84; D2 12 99 84; D2 12 99 84; D2 12 99 84; D2 12 99 84; D2 12 99 84; D2 12 99 84;
  D2 12 99 84; D2 12 99 84; D2 12 99 84; D2 12 99 84].
Definition hdecs_39 : list hdec := [
  D2 12 99 85; D2 12 99 85; D2 12 99 85; D2 12 99 85; D2 12 99 85; D2 12 99 85; D2 12 99 85; D2 12 99 85; D2 12 99 85;
  D2 12 99 85; D2 12 99 85; D2 12 99 85; D2 12 99 85; D2 12 99 85; D2 12 99 85; D2 12 99 85; D2 12 99 86; D2 12 99 86;
  D2 12 99 86; D2 12 99 86; D2 12 99 86; D2 12 99 86; D2 12 99 86; D2 12 99 86; D2 12 99 86; D2 12 99 86; D2 12 99 86;
  D2 12 99 86; D2 12 99 86; D2 12 99 86; D2 12 99 86; D2 12 99 86; D2 12 99 87; D2 12 99 87; D2 12 99 87; D2 12 99 87;
  D2 12 99 87; D2 12 99 87; D2 12 99 87; D2 12 99 87; D2 12 99 87; D2 12 99 87; D2 12 99 87; D2 12 99 87; D2 12 99 87;
  D2 12 99 87; D2 12 99 87; D2 12 99 87; D2 12 99 89; D2 12 99 89; D2 12 99 89; D2 12 99 89; D2 12 99 89; D2 12 99 89;
  D2 12 99 89; D2 12 99 89; D2 12 99 89; D2 12 99 89; D2 12 99 89; D2 12 99 89; D2 12 99 89; D2 12 99 89; D2 12 99 89;
  D2 12 99 89; D2 12 99 106; D2 12 99 106; D2 12 99 106; D2 12 99 106; D2 12 99 106; D2 12 99 106; D2 12 99 106;
  D2 12 99 106; D2 12 99 106; D2 12 99 106; D2 12 99 106; D2 12 99 106; D2 12 99 106; D2 12 99 106; D2 12 99 106;
  D2 12 99 106; D2 12 99 107; D2 12 99 107; D2 12 99 107; D2 12 99 107; D2 12 99 107; D2 12 99 107; D2 12 99 107;
  D2 12 99 107; D2 12 99 107; D2 12 99 107; D2 12 99 107; D2 12 99 107; D2 12 99 107; D2 12 99 107; D2 12 99 107;
  D2 12 99 107; D2 12 99 113; D2 12 99 113; D2 12 99 113; D2 12 99 113; D2 12 99 113; D2 12 99 113; D2 12 99 113;
  D2 12 99 113; D2 12 99 113; D2 12 99 113; D2 12 99 113; D2 12 99 113; D2 12 99 113; D2 12 99 113; D2 12 99 113;
  D2 12 99 113; D2 12 99 118; D2 12 99 118; D2 12 99 118; D2 12 99 118; D2 12 99 118; D2 12 99 118; D2 12 99 118;
  D2 12 99 118; D2 12 99 118; D2 12 99 118; D2 12 99 118; D2 12 99 118; D2 12 99 118; D2 12 99 118; D2 12 99 118;
  D2 12 99 118; D2 12 99 119; D2 12 99 119; D2 12 99 119; D2 12 99 119; D2 12 99 119; D2 12 99 119; D2 12 99 119;
  D2 12 99 119; D2 12 99 119; D2 12 99 119; D2 12 99 119; D2 12 99 119; D2 12 99 119; D2 12 99 119; D2 12 99 119;
  D2 12 99 119; D2 12 99 120; D2 12 99 120; D2 12 99 120; D2 12 99 120; D2 12 99 120; D2 12 99 120; D2 12 99 120;
  D2 12 99 120; D2 12 99 120; D2 12 99 120; D2 12 99 120; D2 12 99 120; D2 12 99 120; D2 12 99 120; D2 12 99 120;
  D2 12 99 120; D2 12 99 121; D2 12 99 121; D2 12 99 121; D2 12 99 121; D2 12 99 121; D2 12 99 121; D2 12 99 121;
  D2 12 99 121; D2 12 99 121; D2 12 99 121; D2 12 99 121; D2 12 99 121; D2 12 99 121; D2 12 99 121; D2 12 99 121;
  D2 12 99 121; D2 12 99 122; D2 12 99 122; D2 12 99 122; D2 12 99 122; D2 12 99 122; D2 12 99 122; D2 12 99 122;
  D2 12 99 122; D2 12 99 122; D2 12 99 122; D2 12 99 122; D2 12 99 122; D2 12 99 122; D2 12 99 122; D2 12 99 122;
  D2 12 99 122; D2 13 99 38; D2 13 99 38; D2 13 99 38; D2 13 99 38; D2 13 99 38; D2 13 99 38; D2 13 99 38;
  D2 13 99 38; D2 13 99 42; D2 13 99 42; D2 13 99 42; D2 13 99 42; D2 13 99 42; D2 13 99 42; D2 13 99 42; D2 13 99 42;
  D2 13 99 44; D2 13 99 44; D2 13 99 44; D2 13 99 44; D2 13 99 44; D2 13 99 44; D2 13 99 44; D2 13 99 44; D2 13 99 59;
  D2 13 99 59; D2 13 99 59; D2 13 99 59; D2 13 99 59; D2 13 99 59; D2 13 99 59; D2 13 99 59; D2 13 99 88; D2 13 99 88;
  D2 13 99 88; D2 13 99 88; D2 13 99 88; D2 13 99 88; D2 13 99 88; D2 13 99 88; D2 13 99 90; D2 13 99 90; D2 13 99 90;
  D2 13 99 90; D2 13 99 90; D2 13 99 90; D2 13 99 90; D2 13 99 90; D2 15 99 33; D2 15 99 33; D2 15 99 34; D2 15 99 34;
  D2 15 99 40; D2 15 99 40; D2 15 99 41; D2 15 99 41; D2 15 99 63; D2 15 99 63; D2 16 99 39; D2 16 99 43;
  D2 16 99 124; D1 5 99; D1 5 99; D1 5 99].
Definition hdecs_40 : list hdec := [
  D3 15 101 48 48; D3 15 101 48 48; D3 15 101 48 49; D3 15 101 48 49; D3 15 101 48 50; D3 15 101 48 50;
  D3 15 101 48 97; D3 15 101 48 97; D3 15 101 48 99; D3 15 101 48 99; D3 15 101 48 101; D3 15 101 48 101;
  D3 15 101 48 105; D3 15 101 48 105; D3 15 101 48 111; D3 15 101 48 111; D3 15 101 48 115; D3 15 101 48 115;
  D3 15 101 48 116; D3 15 101 48 116; D3 16 101 48 32; D3 16 101 48 37; D3 16 101 48 45; D3 16 101 48 46;
  D3 16 101 48 47; D3 16 101 48 51; D3 16 101 48 52; D3 16 101 48 53; D3 16 101 48 54; D3 16 101 48 55;
  D3 16 101 48 56; D3 16 101 48 57; D3 16 101 48 61; D3 16 101 48 65; D3 16 101 48 95; D3 16 101 48 98;
  D3 16 101 48 100; D3 16 101 48 102; D3 16 101 48 103; D3 16 101 48 104; D3 16 101 48 108; D3 16 101 48 109;
  D3 16 101 48 110; D3 16 101 48 112; D3 16 101 48 114; D3 16 101 48 117; D2 10 101 48; D2 10 101 48; D2 10 101 48;
  D2 10 101 48; D2 10 101 48; D2 10 101 48; D2 10 101 48; D2 10 101 48; D2 10 101 48; D2 10 101 48; D2 10 101 48;
  D2 10 101 48; D2 10 101 48; D2 10 101 48; D2 10 101 48; D2 10 101 48; D2 10 101 48; D2 10 101 48; D3 15 101 49 48;
  D3 15 101 49 48; D3 15 101 49 49; D3 15 101 49 49; D3 15 101 49 50; D3 15 101 49 50; D3 15 101 49 97;
  D3 15 101 49 97; D3 15 101 49 99; D3 15 101 49 99; D3 15 101 49 101; D3 15 101 49 101; D3 15 101 49 105;
  D3 15 101 49 105; D3 15 101 49 111; D3 15 101 49 111; D3 15 101 49 115; D3 15 101 49 115; D3 15 101 49 116;
  D3 15 101 49 116; D3 16 101 49 32; D3 16 101 49 37; D3 16 101 49 45; D3 16 101 49 46; D3 16 101 49 47;
  D3 16 101 49 51; D3 16 101 49 52; D3 16 101 49 53; D3 16 101 49 54; D3 16 101 49 55; D3 16 101 49 56;
  D3 16 101 49 57; D3 16 101 49 61; D3 16 101 49 65; D3 16 101 49 95; D3 16 101 49 98; D3 16 101 49 100;
  D3 16 101 49 102; D3 16 101 49 103; D3 16 101 49 104; D3 16 101 49 108; D3 16 101 49 109; D3 16 101 49 110;
  D3 16 101 49 112; D3 16 101 49 114; D3 16 101 49 117; D2 10 101 49; D2 10 101 49; D2 10 101 49; D2 10 101 49;
  D2 10 101 49; D2 10 101 49; D2 10 101 49; D2 10 101 49; D2 10 101 49; D2 10 101 49; D2 10 101 49; D2 10 101 49;
  D2 10 101 49; D2 10 101 49; D2 10 101 49; D2 10 101 49; D2 10 101 49; D2 10 101 49; D3 15 101 50 48;
  D3 15 101 50 48; D3 15 101 50 49; D3 15 101 50 49; D3 15 101 50 50; D3 15 101 50 50; D3 15 101 50 97;
  D3 15 101 50 97; D3 15 101 50 99; D3 15 101 50 99; D3 15 101 50 101; D3 15 101 50 101; D3 15 101 50 105;
  D3 15 101 50 105; D3 15 101 50 111; D3 15 101 50 111; D3 15 101 50 115; D3 15 101 50 115; D3 15 101 50 116;
  D3 15 101 50 116; D3 16 101 50 32; D3 16 101 50 37; D3 16 101 50 45; D3 16 101 50 46; D3 16 101 50 47;
  D3 16 101 50 51; D3 16 101 50 52; D3 16 101 50 53; D3 16 101 50 54; D3 16 101 50 55; D3 16 101 50 56;
  D3 16 101 50 57; D3 16 101 50 61; D3 16 101 50 65; D3 16 101 50 95; D3 16 101 50 98; D3 16 101 50 100;
  D3 16 101 50 102; D3 16 101 50 103; D3 16 101 50 104; D3 16 101 50 108; D3 16 101 50 109; D3 16 101 50 110;
  D3 16 101 50 112; D3 16 101 50 114; D3 16 101 50 117; D2 10 101 50; D2 10 101 50; D2 10 101 50; D2 10 101 50;
  D2 10 101 50; D2 10 101 50; D2 10 101 50; D2 10 101 50; D2 10 101 50; D2 10 101 50; D2 10 101 50; D2 10 101 50;
  D2 10 101 50; D2 10 101 50; D2 10 101 50; D2 10 101 50; D2 10 101 50; D2 10 101 50; D3 15 101 97 48;
  D3 15 101 97 48; D3 15 101 97 49; D3 15 101 97 49; D3 15 101 97 50; D3 15 101 97 50; D3 15 101 97 97;
  D3 15 101 97 97; D3 15 101 97 99; D3 15 101 97 99; D3 15 101 97 101; D3 15 101 97 101; D3 15 101 97 105;
  D3 15 101 97 105; D3 15 101 97 111; D3 15 101 97 111; D3 15 101 97 115; D3 15 101 97 115; D3 15 101 97 116;
  D3 15 101 97 116; D3 16 101 97 32; D3 16 101 97 37; D3 16 101 97 45; D3 16 101 97 46; D3 16 101 97 47;
  D3 16 101 97 51; D3 16 101 97 52; D3 16 101 97 53; D3 16 101 97 54; D3 16 101 97 55; D3 16 101 97 56;
  D3 16 101 97 57; D3 16 101 97 61; D3 16 101 97 65; D3 16 101 97 95; D3 16 101 97 98; D3 16 101 97 100;
  D3 16 101 97 102; D3 16 101 97 103; D3 16 101 97 104; D3 16 101 97 108; D3 16 101 97 109; D3 16 101 97 110;
  D3 16 101 97 112; D3 16 101 97 114; D3 16 101 97 117; D2 10 101 97; D2 10 101 97; D2 10 101 97; D2 10 101 97;
  D2 10 101 97; D2 10 101 97; D2 10 101 97; D2 10 101 97; D2 10 101 97; D2 10 101 97; D2 10 101 97; D2 10 101 97;
  D2 10 101 97; D2 10 101 97; D2 10 101 97; D2 10 101 97; D2 10 101 97; D2 10 101 97].
Definition hdecs_41 : list hdec := [
  D3 15 101 99 48; D3 15 101 99 48; D3 15 101 99 49; D3 15 101 99 49; D3 15 101 99 50; D3 15 101 99 50;
  D3 15 101 99 97; D3 15 101 99 97; D3 15 101 99 99; D3 15 101 99 99; D3 15 101 99 101; D3 15 101 99 101;
  D3 15 101 99 105; D3 15 101 99 105; D3 15 101 99 111; D3 15 101 99 111; D3 15 101 99 115; D3 15 101 99 115;
  D3 15 101 99 116; D3 15 101 99 116; D3 16 101 99 32; D3 16 101 99 37; D3 16 101 99 45; D3 16 101 99 46;
  D3 16 101 99 47; D3 16 101 99 51; D3 16 101 99 52; D3 16 101 99 53; D3 16 101 99 54; D3 16 101 99 55;
  D3 16 101 99 56; D3 16 101 99 57; D3 16 101 99 61; D3 16 101 99 65; D3 16 101 99 95; D3 16 101 99 98;
  D3 16 101 99 100; D3 16 101 99 102; D3 16 101 99 103; D3 16 101 99 104; D3 16 101 99 108; D3 16 101 99 109;
  D3 16 101 99 110; D3 16 101 99 112; D3 16 101 99 114; D3 16 101 99 117; D2 10 101 99; D2 10 101 99; D2 10 101 99;
  D2 10 101 99; D2 10 101 99; D2 10 101 99; D2 10 101 99; D2 10 101 99; D2 10 101 99; D2 10 101 99; D2 10 101 99;
  D2 10 101 99; D2 10 101 99; D2 10 101 99; D2 10 101 99; D2 10 101 99; D2 10 101 99; D2 10 101 99; D3 15 101 101 48;
  D3 15 101 101 48; D3 15 101 101 49; D3 15 101 101 49; D3 15 101 101 50; D3 15 101 101 50; D3 15 101 101 97;
  D3 15 101 101 97; D3 15 101 101 99; D3 15 101 101 99; D3 15 101 101 101; D3 15 101 101 101; D3 15 101 101 105;
  D3 15 101 101 105; D3 15 101 101 111; D3 15 101 101 111; D3 15 101 101 115; D3 15 101 101 115; D3 15 101 101 116;
  D3 15 101 101 116; D3 16 101 101 32; D3 16 101 101 37; D3 16 101 101 45; D3 16 101 101 46; D3 16 101 101 47;
  D3 16 101 101 51; D3 16 101 101 52; D3 16 101 101 53; D3 16 101 101 54; D3 16 101 101 55; D3 16 101 101 56;
  D3 16 101 101 57; D3 16 101 101 61; D3 16 101 101 65; D3 16 101 101 95; D3 16 101 101 98; D3 16 101 101 100;
  D3 16 101 101 102; D3 16 101 101 103; D3 16 101 101 104; D3 16 101 101 108; D3 16 101 101 109; D3 16 101 101 110;
  D3 16 101 101 112; D3 16 101 101 114; D3 16 101 101 117; D2 10 101 101; D2 10 101 101; D2 10 101 101; D2 10 101 101;
  D2 10 101 101; D2 10 101 101; D2 10 101 101; D2 10 101 101; D2 10 101 101; D2 10 101 101; D2 10 101 101;
  D2 10 101 101; D2 10 101 101; D2 10 101 101; D2 10 101 101; D2 10 101 101; D2 10 101 101; D2 10 101 101;
  D3 15 101 105 48; D3 15 101 105 48; D3 15 101 105 49; D3 15 101 105 49; D3 15 101 105 50; D3 15 101 105 50;
  D3 15 101 105 97; D3 15 101 105 97; D3 15 101 105 99; D3 15 101 105 99; D3 15 101 105 101; D3 15 101 105 101;
  D3 15 101 105 105; D3 15 101 105 105; D3 15 101 105 111; D3 15 101 105 111; D3 15 101 105 115; D3 15 101 105 115;
  D3 15 101 105 116; D3 15 101 105 116; D3 16 101 105 32; D3 16 101 105 37; D3 16 101 105 45; D3 16 101 105 46;
  D3 16 101 105 47; D3 16 101 105 51; D3 16 101 105 52; D3 16 101 105 53; D3 16 101 105 54; D3 16 101 105 55;
  D3 16 101 105 56; D3 16 101 105 57; D3 16 101 105 61; D3 16 101 105 65; D3 16 101 105 95; D3 16 101 105 98;
  D3 16 101 105 100; D3 16 101 105 102; D3 16 101 105 103; D3 16 101 105 104; D3 16 101 105 108; D3 16 101 105 109;
  D3 16 101 105 110; D3 16 101 105 112; D3 16 101 105 114; D3 16 101 105 117; D2 10 101 105; D2 10 101 105;
  D2 10 101 105; D2 10 101 105; D2 10 101 105; D2 10 101 105; D2 10 101 105; D2 10 101 105; D2 10 101 105;
  D2 10 101 105; D2 10 101 105; D2 10 101 105; D2 10 101 105; D2 10 101 105; D2 10 101 105; D2 10 101 105;
  D2 10 101 105; D2 10 101 105; D3 15 101 111 48; D3 15 101 111 48; D3 15 101 111 49; D3 15 101 111 49;
  D3 15 101 111 50; D3 15 101 111 50; D3 15 101 111 97; D3 15 101 111 97; D3 15 101 111 99; D3 15 101 111 99;
  D3 15 101 111 101; D3 15 101 111 101; D3 15 101 111 105; D3 15 101 111 105; D3 15 101 111 111; D3 15 101 111 111;
  D3 15 101 111 115; D3 15 101 111 115; D3 15 101 111 116; D3 15 101 111 116; D3 16 101 111 32; D3 16 101 111 37;
  D3 16 101 111 45; D3 16 101 111 46; D3 16 101 111 47; D3 16 101 111 51; D3 16 101 111 52; D3 16 101 111 53;
  D3 16 101 111 54; D3 16 101 111 55; D3 16 101 111 56; D3 16 101 111 57; D3 16 101 111 61; D3 16 101 111 65;
  D3 16 101 111 95; D3 16 101 111 98; D3 16 101 111 100; D3 16 101 111 102; D3 16 101 111 103; D3 16 101 111 104;
  D3 16 101 111 108; D3 16 101 111 109; D3 16 101 111 110; D3 16 101 111 112; D3 16 101 111 114; D3 16 101 111 117;
  D2 10 101 111; D2 10 101 111; D2 10 101 111; D2 10 101 111; D2 10 101 111; D2 10 101 111; D2 10 101 111;
  D2 10 101 111; D2 10 101 111; D2 10 101 111; D2 10 101 111; D2 10 101 111; D2 10 101 111; D2 10 101 111;
  D2 10 101 111; D2 10 101 111; D2 10 101 111; D2 10 101 111].
Definition hdecs_42 : list hdec := [
  D3 15 101 115 48; D3 15 101 115 48; D3 15 101 115 49; D3 15 101 115 49; D3 15 101 115 50; D3 15 101 115 50;
  D3 15 101 115 97; D3 15 101 115 97; D3 15 101 115 99; D3 15 101 115 99; D3 15 101 115 101; D3 15 101 115 101;
  D3 15 101 115 105; D3 15 101 115 105; D3 15 101 115 111; D3 15 101 115 111; D3 15 101 115 115; D3 15 101 115 115;
  D3 15 101 115 116; D3 15 101 115 116; D3 16 101 115 32; D3 16 101 115 37; D3 16 101 115 45; D3 16 101 115 46;
  D3 16 101 115 47; D3 16 101 115 51; D3 16 101 115 52; D3 16 101 115 53; D3 16 101 115 54; D3 16 101 115 55;
  D3 16 101 115 56; D3 16 101 115 57; D3 16 101 115 61; D3 16 101 115 65; D3 16 101 115 95; D3 16 101 115 98;
  D3 16 101 115 100; D3 16 101 115 102; D3 16 101 115 103; D3 16 101 115 104; D3 16 101 115 108; D3 16 101 115 109;
  D3 16 101 115 110; D3 16 101 115 112; D3 16 101 115 114; D3 16 101 115 117; D2 10 101 115; D2 10 101 115;
  D2 10 101 115; D2 10 101 115; D2 10 101 115; D2 10 101 115; D2 10 101 115; D2 10 101 115; D2 10 101 115;
  D2 10 101 115; D2 10 101 115; D2 10 101 115; D2 10 101 115; D2 10 101 115; D2 10 101 115; D2 10 101 115;
  D2 10 101 115; D2 10 101 115; D3 15 101 116 48; D3 15 101 116 48; D3 15 101 116 49; D3 15 101 116 49;
  D3 15 101 116 50; D3 15 101 116 50; D3 15 101 116 97; D3 15 101 116 97; D3 15 101 116 99; D3 15 101 116 99;
  D3 15 101 116 101; D3 15 101 116 101; D3 15 101 116 105; D3 15 101 116 105; D3 15 101 116 111; D3 15 101 116 111;
  D3 15 101 116 115; D3 15 101 116 115; D3 15 101 116 116; D3 15 101 116 116; D3 16 101 116 32; D3 16 101 116 37;
  D3 16 101 116 45; D3 16 101 116 46; D3 16 101 116 47; D3 16 101 116 51; D3 16 101 116 52; D3 16 101 116 53;
  D3 16 101 116 54; D3 16 101 116 55; D3 16 101 116 56; D3 16 101 116 57; D3 16 101 116 61; D3 16 101 116 65;
  D3 16 101 116 95; D3 16 101 116 98; D3 16 101 116 100; D3 16 101 116 102; D3 16 101 116 103; D3 16 101 116 104;
  D3 16 101 116 108; D3 16 101 116 109; D3 16 101 116 110; D3 16 101 116 112; D3 16 101 116 114; D3 16 101 116 117;
  D2 10 101 116; D2 10 101 116; D2 10 101 116; D2 10 101 116; D2 10 101 116; D2 10 101 116; D2 10 101 116;
  D2 10 101 116; D2 10 101 116; D2 10 101 116; D2 10 101 116; D2 10 101 116; D2 10 101 116; D2 10 101 116;
  D2 10 101 116; D2 10 101 116; D2 10 101 116; D2 10 101 116; D3 16 101 32 48; D3 16 101 32 49; D3 16 101 32 50;
  D3 16 101 32 97; D3 16 101 32 99; D3 16 101 32 101; D3 16 101 32 105; D3 16 101 32 111; D3 16 101 32 115;
  D3 16 101 32 116; D2 11 101 32; D2 11 101 32; D2 11 101 32; D2 11 101 32; D2 11 101 32; D2 11 101 32; D2 11 101 32;
  D2 11 101 32; D2 11 101 32; D2 11 101 32; D2 11 101 32; D2 11 101 32; D2 11 101 32; D2 11 101 32; D2 11 101 32;
  D2 11 101 32; D2 11 101 32; D2 11 101 32; D2 11 101 32; D2 11 101 32; D2 11 101 32; D2 11 101 32; D3 16 101 37 48;
  D3 16 101 37 49; D3 16 101 37 50; D3 16 101 37 97; D3 16 101 37 99; D3 16 101 37 101; D3 16 101 37 105;
  D3 16 101 37 111; D3 16 101 37 115; D3 16 101 37 116; D2 11 101 37; D2 11 101 37; D2 11 101 37; D2 11 101 37;
  D2 11 101 37; D2 11 101 37; D2 11 101 37; D2 11 101 37; D2 11 101 37; D2 11 101 37; D2 11 101 37; D2 11 101 37;
  D2 11 101 37; D2 11 101 37; D2 11 101 37; D2 11 101 37; D2 11 101 37; D2 11 101 37; D2 11 101 37; D2 11 101 37;
  D2 11 101 37; D2 11 101 37; D3 16 101 45 48; D3 16 101 45 49; D3 16 101 45 50; D3 16 101 45 97; D3 16 101 45 99;
  D3 16 101 45 101; D3 16 101 45 105; D3 16 101 45 111; D3 16 101 45 115; D3 16 101 45 116; D2 11 101 45;
  D2 11 101 45; D2 11 101 45; D2 11 101 45; D2 11 101 45; D2 11 101 45; D2 11 101 45; D2 11 101 45; D2 11 101 45;
  D2 11 101 45; D2 11 101 45; D2 11 101 45; D2 11 101 45; D2 11 101 45; D2 11 101 45; D2 11 101 45; D2 11 101 45;
  D2 11 101 45; D2 11 101 45; D2 11 101 45; D2 11 101 45; D2 11 101 45; D3 16 101 46 48; D3 16 101 46 49;
  D3 16 101 46 50; D3 16 101 46 97; D3 16 101 46 99; D3 16 101 46 101; D3 16 101 46 105; D3 16 101 46 111;
  D3 16 101 46 115; D3 16 101 46 116; D2 11 101 46; D2 11 101 46; D2 11 101 46; D2 11 101 46; D2 11 101 46;
  D2 11 101 46; D2 11 101 46; D2 11 101 46; D2 11 101 46; D2 11 101 46; D2 11 101 46; D2 11 101 46; D2 11 101 46;
  D2 11 101 46; D2 11 101 46; D2 11 101 46; D2 11 101 46; D2 11 101 46; D2 11 101 46; D2 11 101 46; D2 11 101 46;
  D2 11 101 46].
Definition hdecs_43 : list hdec := [
  D3 16 101 47 48; D3 16 101 47 49; D3 16 101 47 50; D3 16 101 47 97; D3 16 101 47 99; D3 16 101 47 101;
  D3 16 101 47 105; D3 16 101 47 111; D3 16 101 47 115; D3 16 101 47 116; D2 11 101 47; D2 11 101 47; D2 11 101 47;
  D2 11 101 47; D2 11 101 47; D2 11 101 47; D2 11 101 47; D2 11 101 47; D2 11 101 47; D2 11 101 47; D2 11 101 47;
  D2 11 101 47; D2 11 101 47; D2 11 101 47; D2 11 101 47; D2 11 101 47; D2 11 101 47; D2 11 101 47; D2 11 101 47;
  D2 11 101 47; D2 11 101 47; D2 11 101 47; D3 16 101 51 48; D3 16 101 51 49; D3 16 101 51 50; D3 16 101 51 97;
  D3 16 101 51 99; D3 16 101 51 101; D3 16 101 51 105; D3 16 101 51 111; D3 16 101 51 115; D3 16 101 51 116;
  D2 11 101 51; D2 11 101 51; D2 11 101 51; D2 11 101 51; D2 11 101 51; D2 11 101 51; D2 11 101 51; D2 11 101 51;
  D2 11 101 51; D2 11 101 51; D2 11 101 51; D2 11 101 51; D2 11 101 51; D2 11 101 51; D2 11 101 51; D2 11 101 51;
  D2 11 101 51; D2 11 101 51; D2 11 101 51; D2 11 101 51; D2 11 101 51; D2 11 101 51; D3 16 101 52 48;
  D3 16 101 52 49; D3 16 101 52 50; D3 16 101 52 97; D3 16 101 52 99; D3 16 101 52 101; D3 16 101 52 105;
  D3 16 101 52 111; D3 16 101 52 115; D3 16 101 52 116; D2 11 101 52; D2 11 101 52; D2 11 101 52; D2 11 101 52;
  D2 11 101 52; D2 11 101 52; D2 11 101 52; D2 11 101 52; D2 11 101 52; D2 11 101 52; D2 11 101 52; D2 11 101 52;
  D2 11 101 52; D2 11 101 52; D2 11 101 52; D2 11 101 52; D2 11 101 52; D2 11 101 52; D2 11 101 52; D2 11 101 52;
  D2 11 101 52; D2 11 101 52; D3 16 101 53 48; D3 16 101 53 49; D3 16 101 53 50; D3 16 101 53 97; D3 16 101 53 99;
  D3 16 101 53 101; D3 16 101 53 105; D3 16 101 53 111; D3 16 101 53 115; D3 16 101 53 116; D2 11 101 53;
  D2 11 101 53; D2 11 101 53; D2 11 101 53; D2 11 101 53; D2 11 101 53; D2 11 101 53; D2 11 101 53; D2 11 101 53;
  D2 11 101 53; D2 11 101 53; D2 11 101 53; D2 11 101 53; D2 11 101 53; D2 11 101 53; D2 11 101 53; D2 11 101 53;
  D2 11 101 53; D2 11 101 53; D2 11 101 53; D2 11 101 53; D2 11 101 53; D3 16 101 54 48; D3 16 101 54 49;
  D3 16 101 54 50; D3 16 101 54 97; D3 16 101 54 99; D3 16 101 54 101; D3 16 101 54 105; D3 16 101 54 111;
  D3 16 101 54 115; D3 16 101 54 116; D2 11 101 54; D2 11 101 54; D2 11 101 54; D2 11 101 54; D2 11 101 54;
  D2 11 101 54; D2 11 101 54; D2 11 101 54; D2 11 101 54; D2 11 101 54; D2 11 101 54; D2 11 101 54; D2 11 101 54;
  D2 11 101 54; D2 11 101 54; D2 11 101 54; D2 11 101 54; D2 11 101 54; D2 11 101 54; D2 11 101 54; D2 11 101 54;
  D2 11 101 54; D3 16 101 55 48; D3 16 101 55 49; D3 16 101 55 50; D3 16 101 55 97; D3 16 101 55 99; D3 16 101 55 101;
  D3 16 101 55 105; D3 16 101 55 111; D3 16 101 55 115; D3 16 101 55 116; D2 11 101 55; D2 11 101 55; D2 11 101 55;
  D2 11 101 55; D2 11 101 55; D2 11 101 55; D2 11 101 55; D2 11 101 55; D2 11 101 55; D2 11 101 55; D2 11 101 55;
  D2 11 101 55; D2 11 101 55; D2 11 101 55; D2 11 101 55; D2 11 101 55; D2 11 101 55; D2 11 101 55; D2 11 101 55;
  D2 11 101 55; D2 11 101 55; D2 11 101 55; D3 16 101 56 48; D3 16 101 56 49; D3 16 101 56 50; D3 16 101 56 97;
  D3 16 101 56 99; D3 16 101 56 101; D3 16 101 56 105; D3 16 101 56 111; D3 16 101 56 115; D3 16 101 56 116;
  D2 11 101 56; D2 11 101 56; D2 11 101 56; D2 11 101 56; D2 11 101 56; D2 11 101 56; D2 11 101 56; D2 11 101 56;
  D2 11 101 56; D2 11 101 56; D2 11 101 56; D2 11 101 56; D2 11 101 56; D2 11 101 56; D2 11 101 56; D2 11 101 56;
  D2 11 101 56; D2 11 101 56; D2 11 101 56; D2 11 101 56; D2 11 101 56; D2 11 101 56; D3 16 101 57 48;
  D3 16 101 57 49; D3 16 101 57 50; D3 16 101 57 97; D3 16 101 57 99; D3 16 101 57 101; D3 16 101 57 105;
  D3 16 101 57 111; D3 16 101 57 115; D3 16 101 57 116; D2 11 101 57; D2 11 101 57; D2 11 101 57; D2 11 101 57;
  D2 11 101 57; D2 11 101 57; D2 11 101 57; D2 11 101 57; D2 11 101 57; D2 11 101 57; D2 11 101 57; D2 11 101 57;
  D2 11 101 57; D2 11 101 57; D2 11 101 57; D2 11 101 57; D2 11 101 57; D2 11 101 57; D2 11 101 57; D2 11 101 57;
  D2 11 101 57; D2 11 101 57].
Definition hdecs_44 : list hdec := [
  D3 16 101 61 48; D3 16 101 61 49; D3 16 101 61 50; D3 16 101 61 97; D3 16 101 61 99; D3 16 101 61 101;
  D3 16 101 61 105; D3 16 101 61 111; D3 16 101 61 115; D3 16 101 61 116; D2 11 101 61; D2 11 101 61; D2 11 101 61;
  D2 11 101 61; D2 11 101 61; D2 11 101 61; D2 11 101 61; D2 11 101 61; D2 11 101 61; D2 11 101 61; D2 11 101 61;
  D2 11 101 61; D2 11 101 61; D2 11 101 61; D2 11 101 61; D2 11 101 61; D2 11 101 61; D2 11 101 61; D2 11 101 61;
  D2 11 101 61; D2 11 101 61; D2 11 101 61; D3 16 101 65 48; D3 16 101 65 49; D3 16 101 65 50; D3 16 101 65 97;
  D3 16 101 65 99; D3 16 101 65 101; D3 16 101 65 105; D3 16 101 65 111; D3 16 101 65 115; D3 16 101 65 116;
  D2 11 101 65; D2 11 101 65; D2 11 101 65; D2 11 101 65; D2 11 101 65; D2 11 101 65; D2 11 101 65; D2 11 101 65;
  D2 11 101 65; D2 11 101 65; D2 11 101 65; D2 11 101 65; D2 11 101 65; D2 11 101 65; D2 11 101 65; D2 11 101 65;
  D2 11 101 65; D2 11 101 65; D2 11 101 65; D2 11 101 65; D2 11 101 65; D2 11 101 65; D3 16 101 95 48;
  D3 16 101 95 49; D3 16 101 95 50; D3 16 101 95 97; D3 16 101 95 99; D3 16 101 95 101; D3 16 101 95 105;
  D3 16 101 95 111; D3 16 101 95 115; D3 16 101 95 116; D2 11 101 95; D2 11 101 95; D2 11 101 95; D2 11 101 95;
  D2 11 101 95; D2 11 101 95; D2 11 101 95; D2 11 101 95; D2 11 101 95; D2 11 101 95; D2 11 101 95; D2 11 101 95;
  D2 11 101 95; D2 11 101 95; D2 11 101 95; D2 11 101 95; D2 11 101 95; D2 11 101 95; D2 11 101 95; D2 11 101 95;
  D2 11 101 95; D2 11 101 95; D3 16 101 98 48; D3 16 101 98 49; D3 16 101 98 50; D3 16 101 98 97; D3 16 101 98 99;
  D3 16 101 98 101; D3 16 101 98 105; D3 16 101 98 111; D3 16 101 98 115; D3 16 101 98 116; D2 11 101 98;
  D2 11 101 98; D2 11 101 98; D2 11 101 98; D2 11 101 98; D2 11 101 98; D2 11 101 98; D2 11 101 98; D2 11 101 98;
  D2 11 101 98; D2 11 101 98; D2 11 101 98; D2 11 101 98; D2 11 101 98; D2 11 101 98; D2 11 101 98; D2 11 101 98;
  D2 11 101 98; D2 11 101 98; D2 11 101 98; D2 11 101 98; D2 11 101 98; D3 16 101 100 48; D3 16 101 100 49;
  D3 16 101 100 50; D3 16 101 100 97; D3 16 101 100 99; D3 16 101 100 101; D3 16 101 100 105; D3 16 101 100 111;
  D3 16 101 100 115; D3 16 101 100 116; D2 11 101 100; D2 11 101 100; D2 11 101 100; D2 11 101 100; D2 11 101 100;
  D2 11 101 100; D2 11 101 100; D2 11 101 100; D2 11 101 100; D2 11 101 100; D2 11 101 100; D2 11 101 100;
  D2 11 101 100; D2 11 101 100; D2 11 101 100; D2 11 101 100; D2 11 101 100; D2 11 101 100; D2 11 101 100;
  D2 11 101 100; D2 11 101 100; D2 11 101 100; D3 16 101 102 48; D3 16 101 102 49; D3 16 101 102 50; D3 16 101 102 97;
  D3 16 101 102 99; D3 16 101 102 101; D3 16 101 102 105; D3 16 101 102 111; D3 16 101 102 115; D3 16 101 102 116;
  D2 11 101 102; D2 11 101 102; D2 11 101 102; D2 11 101 102; D2 11 101 102; D2 11 101 102; D2 11 101 102;
  D2 11 101 102; D2 11 101 102; D2 11 101 102; D2 11 101 102; D2 11 101 102; D2 11 101 102; D2 11 101 102;
  D2 11 101 102; D2 11 101 102; D2 11 101 102; D2 11 101 102; D2 11 101 102; D2 11 101 102; D2 11 101 102;
  D2 11 101 102; D3 16 101 103 48; D3 16 101 103 49; D3 16 101 103 50; D3 16 101 103 97; D3 16 101 103 99;
  D3 16 101 103 101; D3 16 101 103 105; D3 16 101 103 111; D3 16 101 103 115; D3 16 101 103 116; D2 11 101 103;
  D2 11 101 103; D2 11 101 103; D2 11 101 103; D2 11 101 103; D2 11 101 103; D2 11 101 103; D2 11 101 103;
  D2 11 101 103; D2 11 101 103; D2 11 101 103; D2 11 101 103; D2 11 101 103; D2 11 101 103; D2 11 101 103;
  D2 11 101 103; D2 11 101 103; D2 11 101 103; D2 11 101 103; D2 11 101 103; D2 11 101 103; D2 11 101 103;
  D3 16 101 104 48; D3 16 101 104 49; D3 16 101 104 50; D3 16 101 104 97; D3 16 101 104 99; D3 16 101 104 101;
  D3 16 101 104 105; D3 16 101 104 111; D3 16 101 104 115; D3 16 101 104 116; D2 11 101 104; D2 11 101 104;
  D2 11 101 104; D2 11 101 104; D2 11 101 104; D2 11 101 104; D2 11 101 104; D2 11 101 104; D2 11 101 104;
  D2 11 101 104; D2 11 101 104; D2 11 101 104; D2 11 101 104; D2 11 101 104; D2 11 101 104; D2 11 101 104;
  D2 11 101 104; D2 11 101 104; D2 11 101 104; D2 11 101 104; D2 11 101 104; D2 11 101 104].
Definition hdecs_45 : list hdec := [
  D3 16 101 108 48; D3 16 101 108 49; D3 16 101 108 50; D3 16 101 108 97; D3 16 101 108 99; D3 16 101 108 101;
  D3 16 101 108 105; D3 16 101 108 111; D3 16 101 108 115; D3 16 101 108 116; D2 11 101 108; D2 11 101 108;
  D2 11 101 108; D2 11 101 108; D2 11 101 108; D2 11 101 108; D2 11 101 108; D2 11 101 108; D2 11 101 108;
  D2 11 101 108; D2 11 101 108; D2 11 101 108; D2 11 101 108; D2 11 101 108; D2 11 101 108; D2 11 101 108;
  D2 11 101 108; D2 11 101 108; D2 11 101 108; D2 11 101 108; D2 11 101 108; D2 11 101 108; D3 16 101 109 48;
  D3 16 101 109 49; D3 16 101 109 50; D3 16 101 109 97; D3 16 101 109 99; D3 16 101 109 101; D3 16 101 109 105;
  D3 16 101 109 111; D3 16 101 109 115; D3 16 101 109 116; D2 11 101 109; D2 11 101 109; D2 11 101 109; D2 11 101 109;
  D2 11 101 109; D2 11 101 109; D2 11 101 109; D2 11 101 109; D2 11 101 109; D2 11 101 109; D2 11 101 109;
  D2 11 101 109; D2 11 101 109; D2 11 101 109; D2 11 101 109; D2 11 101 109; D2 11 101 109; D2 11 101 109;
  D2 11 101 109; D2 11 101 109; D2 11 101 109; D2 11 101 109; D3 16 101 110 48; D3 16 101 110 49; D3 16 101 110 50;
  D3 16 101 110 97; D3 16 101 110 99; D3 16 101 110 101; D3 16 101 110 105; D3 16 101 110 111; D3 16 101 110 115;
  D3 16 101 110 116; D2 11 101 110; D2 11 101 110; D2 11 101 110; D2 11 101 110; D2 11 101 110; D2 11 101 110;
  D2 11 101 110; D2 11 101 110; D2 11 101 110; D2 11 101 110; D2 11 101 110; D2 11 101 110; D2 11 101 110;
  D2 11 101 110; D2 11 101 110; D2 11 101 110; D2 11 101 110; D2 11 101 110; D2 11 101 110; D2 11 101 110;
  D2 11 101 110; D2 11 101 110; D3 16 101 112 48; D3 16 101 112 49; D3 16 101 112 50; D3 16 101 112 97;
  D3 16 101 112 99; D3 16 101 112 101; D3 16 101 112 105; D3 16 101 112 111; D3 16 101 112 115; D3 16 101 112 116;
  D2 11 101 112; D2 11 101 112; D2 11 101 112; D2 11 101 112; D2 11 101 112; D2 11 101 112; D2 11 101 112;
  D2 11 101 112; D2 11 101 112; D2 11 101 112; D2 11 101 112; D2 11 101 112; D2 11 101 112; D2 11 101 112;
  D2 11 101 112; D2 11 101 112; D2 11 101 112; D2 11 101 112; D2 11 101 112; D2 11 101 112; D2 11 101 112;
  D2 11 101 112; D3 16 101 114 48; D3 16 101 114 49; D3 16 101 114 50; D3 16 101 114 97; D3 16 101 114 99;
  D3 16 101 114 101; D3 16 101 114 105; D3 16 101 114 111; D3 16 101 114 115; D3 16 101 114 116; D2 11 101 114;
  D2 11 101 114; D2 11 101 114; D2 11 101 114; D2 11 101 114; D2 11 101 114; D2 11 101 114; D2 11 101 114;
  D2 11 101 114; D2 11 101 114; D2 11 101 114; D2 11 101 114; D2 11 101 114; D2 11 101 114; D2 11 101 114;
  D2 11 101 114; D2 11 101 114; D2 11 101 114; D2 11 101 114; D2 11 101 114; D2 11 101 114; D2 11 101 114;
  D3 16 101 117 48; D3 16 101 117 49; D3 16 101 117 50; D3 16 101 117 97; D3 16 101 117 99; D3 16 101 117 101;
  D3 16 101 117 105; D3 16 101 117 111; D3 16 101 117 115; D3 16 101 117 116; D2 11 101 117; D2 11 101 117;
  D2 11 101 117; D2 11 101 117; D2 11 101 117; D2 11 101 117; D2 11 101 117; D2 11 101 117; D2 11 101 117;
  D2 11 101 117; D2 11 101 117; D2 11 101 117; D2 11 101 117; D2 11 101 117; D2 11 101 117; D2 11 101 117;
  D2 11 101 117; D2 11 101 117; D2 11 101 117; D2 11 101 117; D2 11 101 117; D2 11 101 117; D2 12 101 58;
  D2 12 101 58; D2 12 101 58; D2 12 101 58; D2 12 101 58; D2 12 101 58; D2 12 101 58; D2 12 101 58; D2 12 101 58;
  D2 12 101 58; D2 12 101 58; D2 12 101 58; D2 12 101 58; D2 12 101 58; D2 12 101 58; D2 12 101 58; D2 12 101 66;
  D2 12 101 66; D2 12 101 66; D2 12 101 66; D2 12 101 66; D2 12 101 66; D2 12 101 66; D2 12 101 66; D2 12 101 66;
  D2 12 101 66; D2 12 101 66; D2 12 101 66; D2 12 101 66; D2 12 101 66; D2 12 101 66; D2 12 101 66; D2 12 101 67;
  D2 12 101 67; D2 12 101 67; D2 12 101 67; D2 12 101 67; D2 12 101 67; D2 12 101 67; D2 12 101 67; D2 12 101 67;
  D2 12 101 67; D2 12 101 67; D2 12 101 67; D2 12 101 67; D2 12 101 67; D2 12 101 67; D2 12 101 67; D2 12 101 68;
  D2 12 101 68; D2 12 101 68; D2 12 101 68; D2 12 101 68; D2 12 101 68; D2 12 101 68; D2 12 101 68; D2 12 101 68;
  D2 12 101 68; D2 12 101 68; D2 12 101 68; D2 12 101 68; D2 12 101 68; D2 12 101 68; D2 12 101 68].
Definition hdecs_46 : list hdec := [
  D2 12 101 69; D2 12 101 69; D2 12 101 69; D2 12 101 69; D2 12 101 69; D2 12 101 69; D2 12 101 69; D2 12 101 69;
  D2 12 101 69; D2 12 101 69; D2 12 101 69; D2 12 101 69; D2 12 101 69; D2 12 101 69; D2 12 101 69; D2 12 101 69;
  D2 12 101 70; D2 12 101 70; D2 12 101 70; D2 12 101 70; D2 12 101 70; D2 12 101 70; D2 12 101 70; D2 12 101 70;
  D2 12 101 70; D2 12 101 70; D2 12 101 70; D2 12 101 70; D2 12 101 70; D2 12 101 70; D2 12 101 70; D2 12 101 70;
  D2 12 101 71; D2 12 101 71; D2 12 101 71; D2 12 101 71; D2 12 101 71; D2 12 101 71; D2 12 101 71; D2 12 101 71;
  D2 12 101 71; D2 12 101 71; D2 12 101 71; D2 12 101 71; D2 12 101 71; D2 12 101 71; D2 12 101 71; D2 12 101 71;
  D2 12 101 72; D2 12 101 72; D2 12 101 72; D2 12 101 72; D2 12 101 72; D2 12 101 72; D2 12 101 72; D2 12 101 72;
  D2 12 101 72; D2 12 101 72; D2 12 101 72; D2 12 101 72; D2 12 101 72; D2 12 101 72; D2 12 101 72; D2 12 101 72;
  D2 12 101 73; D2 12 101 73; D2 12 101 73; D2 12 101 73; D2 12 101 73; D2 12 101 73; D2 12 101 73; D2 12 101 73;
  D2 12 101 73; D2 12 101 73; D2 12 101 73; D2 12 101 73; D2 12 101 73; D2 12 101 73; D2 12 101 73; D2 12 101 73;
  D2 12 101 74; D2 12 101 74; D2 12 101 74; D2 12 101 74; D2 12 101 74; D2 12 101 74; D2 12 101 74; D2 12 101 74;
  D2 12 101 74; D2 12 101 74; D2 12 101 74; D2 12 101 74; D2 12 101 74; D2 12 101 74; D2 12 101 74; D2 12 101 74;
  D2 12 101 75; D2 12 101 75; D2 12 101 75; D2 12 101 75; D2 12 101 75; D2 12 101 75; D2 12 101 75; D2 12 101 75;
  D2 12 101 75; D2 12 101 75; D2 12 101 75; D2 12 101 75; D2 12 101 75; D2 12 101 75; D2 12 101 75; D2 12 101 75;
  D2 12 101 76; D2 12 101 76; D2 12 101 76; D2 12 101 76; D2 12 101 76; D2 12 101 76; D2 12 101 76; D2 12 101 76;
  D2 12 101 76; D2 12 101 76; D2 12 101 76; D2 12 101 76; D2 12 101 76; D2 12 101 76; D2 12 101 76; D2 12 101 76;
  D2 12 101 77; D2 12 101 77; D2 12 101 77; D2 12 101 77; D2 12 101 77; D2 12 101 77; D2 12 101 77; D2 12 101 77;
  D2 12 101 77; D2 12 101 77; D2 12 101 77; D2 12 101 77; D2 12 101 77; D2 12 101 77; D2 12 101 77; D2 12 101 77;
  D2 12 101 78; D2 12 101 78; D2 12 101 78; D2 12 101 78; D2 12 101 78; D2 12 101 78; D2 12 101 78; D2 12 101 78;
  D2 12 101 78; D2 12 101 78; D2 12 101 78; D2 12 101 78; D2 12 101 78; D2 12 101 78; D2 12 101 78; D2 12 101 78;
  D2 12 101 79; D2 12 101 79; D2 12 101 79; D2 12 101 79; D2 12 101 79; D2 12 101 79; D2 12 101 79; D2 12 101 79;
  D2 12 101 79; D2 12 101 79; D2 12 101 79; D2 12 101 79; D2 12 101 79; D2 12 101 79; D2 12 101 79; D2 12 101 79;
  D2 12 101 80; D2 12 101 80; D2 12 101 80; D2 12 101 80; D2 12 101 80; D2 12 101 80; D2 12 101 80; D2 12 101 80;
  D2 12 101 80; D2 12 101 80; D2 12 101 80; D2 12 101 80; D2 12 101 80; D2 12 101 80; D2 12 101 80; D2 12 101 80;
  D2 12 101 81; D2 12 101 81; D2 12 101 81; D2 12 101 81; D2 12 101 81; D2 12 101 81; D2 12 101 81; D2 12 101 81;
  D2 12 101 81; D2 12 101 81; D2 12 101 81; D2 12 101 81; D2 12 101 81; D2 12 101 81; D2 12 101 81; D2 12 101 81;
  D2 12 101 82; D2 12 101 82; D2 12 101 82; D2 12 101 82; D2 12 101 82; D2 12 101 82; D2 12 101 82; D2 12 101 82;
  D2 12 101 82; D2 12 101 82; D2 12 101 82; D2 12 101 82; D2 12 101 82; D2 12 101 82; D2 12 101 82; D2 12 101 82;
  D2 12 101 83; D2 12 101 83; D2 12 101 83; D2 12 101 83; D2 12 101 83; D2 12 101 83; D2 12 101 83; D2 12 101 83;
  D2 12 101 83; D2 12 101 83; D2 12 101 83; D2 12 101 83; D2 12 101 83; D2 12 101 83; D2 12 101 83; D2 12 101 83;
  D2 12 101 84; D2 12 101 84; D2 12 101 84; D2 12 101 84; D2 12 101 84; D2 12 101 84; D2 12 101 84; D2 12 101 84;
  D2 12 101 84; D2 12 101 84; D2 12 101 84; D2 12 101 84; D2 12 101 84; D2 12 101 84; D2 12 101 84; D2 12 101 84].
Definition hdecs_47 : list hdec := [
  D2 12 101 85; D2 12 101 85; D2 12 101 85; D2 12 101 85; D2 12 101 85; D2 12 101 85; D2 12 101 85; D2 12 101 85;
  D2 12 101 85; D2 12 101 85; D2 12 101 85; D2 12 101 85; D2 12 101 85; D2 12 101 85; D2 12 101 85; D2 12 101 85;
  D2 12 101 86; D2 12 101 86; D2 12 101 86; D2 12 101 86; D2 12 101 86; D2 12 101 86; D2 12 101 86; D2 12 101 86;
  D2 12 101 86; D2 12 101 86; D2 12 101 86; D2 12 101 86; D2 12 101 86; D2 12 101 86; D2 12 101 86; D2 12 101 86;
  D2 12 101 87; D2 12 101 87; D2 12 101 87; D2 12 101 87; D2 12 101 87; D2 12 101 87; D2 12 101 87; D2 12 101 87;
  D2 12 101 87; D2 12 101 87; D2 12 101 87; D2 12 101 87; D2 12 101 87; D2 12 101 87; D2 12 101 87; D2 12 101 87;
  D2 12 101 89; D2 12 101 89; D2 12 101 89; D2 12 101 89; D2 12 101 89; D2 12 101 89; D2 12 101 89; D2 12 101 89;
  D2 12 101 89; D2 12 101 89; D2 12 101 89; D2 12 101 89; D2 12 101 89; D2 12 101 89; D2 12 101 89; D2 12 101 89;
  D2 12 101 106; D2 12 101 106; D2 12 101 106; D2 12 101 106; D2 12 101 106; D2 12 101 106; D2 12 101 106;
  D2 12 101 106; D2 12 101 106; D2 12 101 106; D2 12 101 106; D2 12 101 106; D2 12 101 106; D2 12 101 106;
  D2 12 101 106; D2 12 101 106; D2 12 101 107; D2 12 101 107; D2 12 101 107; D2 12 101 107; D2 12 101 107;
  D2 12 101 107; D2 12 101 107; D2 12 101 107; D2 12 101 107; D2 12 101 107; D2 12 101 107; D2 12 101 107;
  D2 12 101 107; D2 12 101 107; D2 12 101 107; D2 12 101 107; D2 12 101 113; D2 12 101 113; D2 12 101 113;
  D2 12 101 113; D2 12 101 113; D2 12 101 113; D2 12 101 113; D2 12 101 113; D2 12 101 113; D2 12 101 113;
  D2 12 101 113; D2 12 101 113; D2 12 101 113; D2 12 101 113; D2 12 101 113; D2 12 101 113; D2 12 101 118;
  D2 12 101 118; D2 12 101 118; D2 12 101 118; D2 12 101 118; D2 12 101 118; D2 12 101 118; D2 12 101 118;
  D2 12 101 118; D2 12 101 118; D2 12 101 118; D2 12 101 118; D2 12 101 118; D2 12 101 118; D2 12 101 118;
  D2 12 101 118; D2 12 101 119; D2 12 101 119; D2 12 101 119; D2 12 101 119; D2 12 101 119; D2 12 101 119;
  D2 12 101 119; D2 12 101 119; D2 12 101 119; D2 12 101 119; D2 12 101 119; D2 12 101 119; D2 12 101 119;
  D2 12 101 119; D2 12 101 119; D2 12 101 119; D2 12 101 120; D2 12 101 120; D2 12 101 120; D2 12 101 120;
  D2 12 101 120; D2 12 101 120; D2 12 101 120; D2 12 101 120; D2 12 101 120; D2 12 101 120; D2 12 101 120;
  D2 12 101 120; D2 12 101 120; D2 12 101 120; D2 12 101 120; D2 12 101 120; D2 12 101 121; D2 12 101 121;
  D2 12 101 121; D2 12 101 121; D2 12 101 121; D2 12 101 121; D2 12 101 121; D2 12 101 121; D2 12 101 121;
  D2 12 101 121; D2 12 101 121; D2 12 101 121; D2 12 101 121; D2 12 101 121; D2 12 101 121; D2 12 101 121;
  D2 12 101 122; D2 12 101 122; D2 12 101 122; D2 12 101 122; D2 12 101 122; D2 12 101 122; D2 12 101 122;
  D2 12 101 122; D2 12 101 122; D2 12 101 122; D2 12 101 122; D2 12 101 122; D2 12 101 122; D2 12 101 122;
  D2 12 101 122; D2 12 101 122; D2 13 101 38; D2 13 101 38; D2 13 101 38; D2 13 101 38; D2 13 101 38; D2 13 101 38;
  D2 13 101 38; D2 13 101 38; D2 13 101 42; D2 13 101 42; D2 13 101 42; D2 13 101 42; D2 13 101 42; D2 13 101 42;
  D2 13 101 42; D2 13 101 42; D2 13 101 44; D2 13 101 44; D2 13 101 44; D2 13 101 44; D2 13 101 44; D2 13 101 44;
  D2 13 101 44; D2 13 101 44; D2 13 101 59; D2 13 101 59; D2 13 101 59; D2 13 101 59; D2 13 101 59; D2 13 101 59;
  D2 13 101 59; D2 13 101 59; D2 13 101 88; D2 13 101 88; D2 13 101 88; D2 13 101 88; D2 13 101 88; D2 13 101 88;
  D2 13 101 88; D2 13 101 88; D2 13 101 90; D2 13 101 90; D2 13 101 90; D2 13 101 90; D2 13 101 90; D2 13 101 90;
  D2 13 101 90; D2 13 101 90; D2 15 101 33; D2 15 101 33; D2 15 101 34; D2 15 101 34; D2 15 101 40; D2 15 101 40;
  D2 15 101 41; D2 15 101 41; D2 15 101 63; D2 15 101 63; D2 16 101 39; D2 16 101 43; D2 16 101 124; D1 5 101;
  D1 5 101; D1 5 101].
Definition hdecs_48 : list hdec := [
  D3 15 105 48 48; D3 15 105 48 48; D3 15 105 48 49; D3 15 105 48 49; D3 15 105 48 50; D3 15 105 48 50;
  D3 15 105 48 97; D3 15 105 48 97; D3 15 105 48 99; D3 15 105 48 99; D3 15 105 48 101; D3 15 105 48 101;
  D3 15 105 48 105; D3 15 105 48 105; D3 15 105 48 111; D3 15 105 48 111; D3 15 105 48 115; D3 15 105 48 115;
  D3 15 105 48 116; D3 15 105 48 116; D3 16 105 48 32; D3 16 105 48 37; D3 16 105 48 45; D3 16 105 48 46;
  D3 16 105 48 47; D3 16 105 48 51; D3 16 105 48 52; D3 16 105 48 53; D3 16 105 48 54; D3 16 105 48 55;
  D3 16 105 48 56; D3 16 105 48 57; D3 16 105 48 61; D3 16 105 48 65; D3 16 105 48 95; D3 16 105 48 98;
  D3 16 105 48 100; D3 16 105 48 102; D3 16 105 48 103; D3 16 105 48 104; D3 16 105 48 108; D3 16 105 48 109;
  D3 16 105 48 110; D3 16 105 48 112; D3 16 105 48 114; D3 16 105 48 117; D2 10 105 48; D2 10 105 48; D2 10 105 48;
  D2 10 105 48; D2 10 105 48; D2 10 105 48; D2 10 105 48; D2 10 105 48; D2 10 105 48; D2 10 105 48; D2 10 105 48;
  D2 10 105 48; D2 10 105 48; D2 10 105 48; D2 10 105 48; D2 10 105 48; D2 10 105 48; D2 10 105 48; D3 15 105 49 48;
  D3 15 105 49 48; D3 15 105 49 49; D3 15 105 49 49; D3 15 105 49 50; D3 15 105 49 50; D3 15 105 49 97;
  D3 15 105 49 97; D3 15 105 49 99; D3 15 105 49 99; D3 15 105 49 101; D3 15 105 49 101; D3 15 105 49 105;
  D3 15 105 49 105; D3 15 105 49 111; D3 15 105 49 111; D3 15 105 49 115; D3 15 105 49 115; D3 15 105 49 116;
  D3 15 105 49 116; D3 16 105 49 32; D3 16 105 49 37; D3 16 105 49 45; D3 16 105 49 46; D3 16 105 49 47;
  D3 16 105 49 51; D3 16 105 49 52; D3 16 105 49 53; D3 16 105 49 54; D3 16 105 49 55; D3 16 105 49 56;
  D3 16 105 49 57; D3 16 105 49 61; D3 16 105 49 65; D3 16 105 49 95; D3 16 105 49 98; D3 16 105 49 100;
  D3 16 105 49 102; D3 16 105 49 103; D3 16 105 49 104; D3 16 105 49 108; D3 16 105 49 109; D3 16 105 49 110;
  D3 16 105 49 112; D3 16 105 49 114; D3 16 105 49 117; D2 10 105 49; D2 10 105 49; D2 10 105 49; D2 10 105 49;
  D2 10 105 49; D2 10 105 49; D2 10 105 49; D2 10 105 49; D2 10 105 49; D2 10 105 49; D2 10 105 49; D2 10 105 49;
  D2 10 105 49; D2 10 105 49; D2 10 105 49; D2 10 105 49; D2 10 105 49; D2 10 105 49; D3 15 105 50 48;
  D3 15 105 50 48; D3 15 105 50 49; D3 15 105 50 49; D3 15 105 50 50; D3 15 105 50 50; D3 15 105 50 97;
  D3 15 105 50 97; D3 15 105 50 99; D3 15 105 50 99; D3 15 105 50 101; D3 15 105 50 101; D3 15 105 50 105;
  D3 15 105 50 105; D3 15 105 50 111; D3 15 105 50 111; D3 15 105 50 115; D3 15 105 50 115; D3 15 105 50 116;
  D3 15 105 50 116; D3 16 105 50 32; D3 16 105 50 37; D3 16 105 50 45; D3 16 105 50 46; D3 16 105 50 47;
  D3 16 105 50 51; D3 16 105 50 52; D3 16 105 50 53; D3 16 105 50 54; D3 16 105 50 55; D3 16 105 50 56;
  D3 16 105 50 57; D3 16 105 50 61; D3 16 105 50 65; D3 16 105 50 95; D3 16 105 50 98; D3 16 105 50 100;
  D3 16 105 50 102; D3 16 105 50 103; D3 16 105 50 104; D3 16 105 50 108; D3 16 105 50 109; D3 16 105 50 110;
  D3 16 105 50 112; D3 16 105 50 114; D3 16 105 50 117; D2 10 105 50; D2 10 105 50; D2 10 105 50; D2 10 105 50;
  D2 10 105 50; D2 10 105 50; D2 10 105 50; D2 10 105 50; D2 10 105 50; D2 10 105 50; D2 10 105 50; D2 10 105 50;
  D2 10 105 50; D2 10 105 50; D2 10 105 50; D2 10 105 50; D2 10 105 50; D2 10 105 50; D3 15 105 97 48;
  D3 15 105 97 48; D3 15 105 97 49; D3 15 105 97 49; D3 15 105 97 50; D3 15 105 97 50; D3 15 105 97 97;
  D3 15 105 97 97; D3 15 105 97 99; D3 15 105 97 99; D3 15 105 97 101; D3 15 105 97 101; D3 15 105 97 105;
  D3 15 105 97 105; D3 15 105 97 111; D3 15 105 97 111; D3 15 105 97 115; D3 15 105 97 115; D3 15 105 97 116;
  D3 15 105 97 116; D3 16 105 97 32; D3 16 105 97 37; D3 16 105 97 45; D3 16 105 97 46; D3 16 105 97 47;
  D3 16 105 97 51; D3 16 105 97 52; D3 16 105 97 53; D3 16 105 97 54; D3 16 105 97 55; D3 16 105 97 56;
  D3 16 105 97 57; D3 16 105 97 61; D3 16 105 97 65; D3 16 105 97 95; D3 16 105 97 98; D3 16 105 97 100;
  D3 16 105 97 102; D3 16 105 97 103; D3 16 105 97 104; D3 16 105 97 108; D3 16 105 97 109; D3 16 105 97 110;
  D3 16 105 97 112; D3 16 105 97 114; D3 16 105 97 117; D2 10 105 97; D2 10 105 97; D2 10 105 97; D2 10 105 97;
  D2 10 105 97; D2 10 105 97; D2 10 105 97; D2 10 105 97; D2 10 105 97; D2 10 105 97; D2 10 105 97; D2 10 105 97;
  D2 10 105 97; D2 10 105 97; D2 10 105 97; D2 10 105 97; D2 10 105 97; D2 10 105 97].
Definition hdecs_49 : list hdec := [
  D3 15 105 99 48; D3 15 105 99 48; D3 15 105 99 49; D3 15 105 99 49; D3 15 105 99 50; D3 15 105 99 50;
  D3 15 105 99 97; D3 15 105 99 97; D3 15 105 99 99; D3 15 105 99 99; D3 15 105 99 101; D3 15 105 99 101;
  D3 15 105 99 105; D3 15 105 99 105; D3 15 105 99 111; D3 15 105 99 111; D3 15 105 99 115; D3 15 105 99 115;
  D3 15 105 99 116; D3 15 105 99 116; D3 16 105 99 32; D3 16 105 99 37; D3 16 105 99 45; D3 16 105 99 46;
  D3 16 105 99 47; D3 16 105 99 51; D3 16 105 99 52; D3 16 105 99 53; D3 16 105 99 54; D3 16 105 99 55;
  D3 16 105 99 56; D3 16 105 99 57; D3 16 105 99 61; D3 16 105 99 65; D3 16 105 99 95; D3 16 105 99 98;
  D3 16 105 99 100; D3 16 105 99 102; D3 16 105 99 103; D3 16 105 99 104; D3 16 105 99 108; D3 16 105 99 109;
  D3 16 105 99 110; D3 16 105 99 112; D3 16 105 99 114; D3 16 105 99 117; D2 10 105 99; D2 10 105 99; D2 10 105 99;
  D2 10 105 99; D2 10 105 99; D2 10 105 99; D2 10 105 99; D2 10 105 99; D2 10 105 99; D2 10 105 99; D2 10 105 99;
  D2 10 105 99; D2 10 105 99; D2 10 105 99; D2 10 105 99; D2 10 105 99; D2 10 105 99; D2 10 105 99; D3 15 105 101 48;
  D3 15 105 101 48; D3 15 105 101 49; D3 15 105 101 49; D3 15 105 101 50; D3 15 105 101 50; D3 15 105 101 97;
  D3 15 105 101 97; D3 15 105 101 99; D3 15 105 101 99; D3 15 105 101 101; D3 15 105 101 101; D3 15 105 101 105;
  D3 15 105 101 105; D3 15 105 101 111; D3 15 105 101 111; D3 15 105 101 115; D3 15 105 101 115; D3 15 105 101 116;
  D3 15 105 101 116; D3 16 105 101 32; D3 16 105 101 37; D3 16 105 101 45; D3 16 105 101 46; D3 16 105 101 47;
  D3 16 105 101 51; D3 16 105 101 52; D3 16 105 101 53; D3 16 105 101 54; D3 16 105 101 55; D3 16 105 101 56;
  D3 16 105 101 57; D3 16 105 101 61; D3 16 105 101 65; D3 16 105 101 95; D3 16 105 101 98; D3 16 105 101 100;
  D3 16 105 101 102; D3 16 105 101 103; D3 16 105 101 104; D3 16 105 101 108; D3 16 105 101 109; D3 16 105 101 110;
  D3 16 105 101 112; D3 16 105 101 114; D3 16 105 101 117; D2 10 105 101; D2 10 105 101; D2 10 105 101; D2 10 105 101;
  D2 10 105 101; D2 10 105 101; D2 10 105 101; D2 10 105 101; D2 10 105 101; D2 10 105 101; D2 10 105 101;
  D2 10 105 101; D2 10 105 101; D2 10 105 101; D2 10 105 101; D2 10 105 101; D2 10 105 101; D2 10 105 101;
  D3 15 105 105 48; D3 15 105 105 48; D3 15 105 105 49; D3 15 105 105 49; D3 15 105 105 50; D3 15 105 105 50;
  D3 15 105 105 97; D3 15 105 105 97; D3 15 105 105 99; D3 15 105 105 99; D3 15 105 105 101; D3 15 105 105 101;
  D3 15 105 105 105; D3 15 105 105 105; D3 15 105 105 111; D3 15 105 105 111; D3 15 105 105 115; D3 15 105 105 115;
  D3 15 105 105 116; D3 15 105 105 116; D3 16 105 105 32; D3 16 105 105 37; D3 16 105 105 45; D3 16 105 105 46;
  D3 16 105 105 47; D3 16 105 105 51; D3 16 105 105 52; D3 16 105 105 53; D3 16 105 105 54; D3 16 105 105 55;
  D3 16 105 105 56; D3 16 105 105 57; D3 16 105 105 61; D3 16 105 105 65; D3 16 105 105 95; D3 16 105 105 98;
  D3 16 105 105 100; D3 16 105 105 102; D3 16 105 105 103; D3 16 105 105 104; D3 16 105 105 108; D3 16 105 105 109;
  D3 16 105 105 110; D3 16 105 105 112; D3 16 105 105 114; D3 16 105 105 117; D2 10 105 105; D2 10 105 105;
  D2 10 105 105; D2 10 105 105; D2 10 105 105; D2 10 105 105; D2 10 105 105; D2 10 105 105; D2 10 105 105;
  D2 10 105 105; D2 10 105 105; D2 10 105 105; D2 10 105 105; D2 10 105 105; D2 10 105 105; D2 10 105 105;
  D2 10 105 105; D2 10 105 105; D3 15 105 111 48; D3 15 105 111 48; D3 15 105 111 49; D3 15 105 111 49;
  D3 15 105 111 50; D3 15 105 111 50; D3 15 105 111 97; D3 15 105 111 97; D3 15 105 111 99; D3 15 105 111 99;
  D3 15 105 111 101; D3 15 105 111 101; D3 15 105 111 105; D3 15 105 111 105; D3 15 105 111 111; D3 15 105 111 111;
  D3 15 105 111 115; D3 15 105 111 115; D3 15 105 111 116; D3 15 105 111 116; D3 16 105 111 32; D3 16 105 111 37;
  D3 16 105 111 45; D3 16 105 111 46; D3 16 105 111 47; D3 16 105 111 51; D3 16 105 111 52; D3 16 105 111 53;
  D3 16 105 111 54; D3 16 105 111 55; D3 16 105 111 56; D3 16 105 111 57; D3 16 105 111 61; D3 16 105 111 65;
  D3 16 105 111 95; D3 16 105 111 98; D3 16 105 111 100; D3 16 105 111 102; D3 16 105 111 103; D3 16 105 111 104;
  D3 16 105 111 108; D3 16 105 111 109; D3 16 105 111 110; D3 16 105 111 112; D3 16 105 111 114; D3 16 105 111 117;
  D2 10 105 111; D2 10 105 111; D2 10 105 111; D2 10 105 111; D2 10 105 111; D2 10 105 111; D2 10 105 111;
  D2 10 105 111; D2 10 105 111; D2 10 105 111; D2 10 105 111; D2 10 105 111; D2 10 105 111; D2 10 105 111;
  D2 10 105 111; D2 10 105 111; D2 10 105 111; D2 10 105 111].
Definition hdecs_50 : list hdec := [
  D3 15 105 115 48; D3 15 105 115 48; D3 15 105 115 49; D3 15 105 115 49; D3 15 105 115 50; D3 15 105 115 50;
  D3 15 105 115 97; D3 15 105 115 97; D3 15 105 115 99; D3 15 105 115 99; D3 15 105 115 101; D3 15 105 115 101;
  D3 15 105 115 105; D3 15 105 115 105; D3 15 105 115 111; D3 15 105 115 111; D3 15 105 115 115; D3 15 105 115 115;
  D3 15 105 115 116; D3 15 105 115 116; D3 16 105 115 32; D3 16 105 115 37; D3 16 105 115 45; D3 16 105 115 46;
  D3 16 105 115 47; D3 16 105 115 51; D3 16 105 115 52; D3 16 105 115 53; D3 16 105 115 54; D3 16 105 115 55;
  D3 16 105 115 56; D3 16 105 115 57; D3 16 105 115 61; D3 16 105 115 65; D3 16 105 115 95; D3 16 105 115 98;
  D3 16 105 115 100; D3 16 105 115 102; D3 16 105 115 103; D3 16 105 115 104; D3 16 105 115 108; D3 16 105 115 109;
  D3 16 105 115 110; D3 16 105 115 112; D3 16 105 115 114; D3 16 105 115 117; D2 10 105 115; D2 10 105 115;
  D2 10 105 115; D2 10 105 115; D2 10 105 115; D2 10 105 115; D2 10 105 115; D2 10 105 115; D2 10 105 115;
  D2 10 105 115; D2 10 105 115; D2 10 105 115; D2 10 105 115; D2 10 105 115; D2 10 105 115; D2 10 105 115;
  D2 10 105 115; D2 10 105 115; D3 15 105 116 48; D3 15 105 116 48; D3 15 105 116 49; D3 15 105 116 49;
  D3 15 105 116 50; D3 15 105 116 50; D3 15 105 116 97; D3 15 105 116 97; D3 15 105 116 99; D3 15 105 116 99;
  D3 15 105 116 101; D3 15 105 116 101; D3 15 105 116 105; D3 15 105 116 105; D3 15 105 116 111; D3 15 105 116 111;
  D3 15 105 116 115; D3 15 105 116 115; D3 15 105 116 116; D3 15 105 116 116; D3 16 105 116 32; D3 16 105 116 37;
  D3 16 105 116 45; D3 16 105 116 46; D3 16 105 116 47; D3 16 105 116 51; D3 16 105 116 52; D3 16 105 116 53;
  D3 16 105 116 54; D3 16 105 116 55; D3 16 105 116 56; D3 16 105 116 57; D3 16 105 116 61; D3 16 105 116 65;
  D3 16 105 116 95; D3 16 105 116 98; D3 16 105 116 100; D3 16 105 116 102; D3 16 105 116 103; D3 16 105 116 104;
  D3 16 105 116 108; D3 16 105 116 109; D3 16 105 116 110; D3 16 105 116 112; D3 16 105 116 114; D3 16 105 116 117;
  D2 10 105 116; D2 10 105 116; D2 10 105 116; D2 10 105 116; D2 10 105 116; D2 10 105 116; D2 10 105 116;
  D2 10 105 116; D2 10 105 116; D2 10 105 116; D2 10 105 116; D2 10 105 116; D2 10 105 116; D2 10 105 116;
  D2 10 105 116; D2 10 105 116; D2 10 105 116; D2 10 105 116; D3 16 105 32 48; D3 16 105 32 49; D3 16 105 32 50;
  D3 16 105 32 97; D3 16 105 32 99; D3 16 105 32 101; D3 16 105 32 105; D3 16 105 32 111; D3 16 105 32 115;
  D3 16 105 32 116; D2 11 105 32; D2 11 105 32; D2 11 105 32; D2 11 105 32; D2 11 105 32; D2 11 105 32; D2 11 105 32;
  D2 11 105 32; D2 11 105 32; D2 11 105 32; D2 11 105 32; D2 11 105 32; D2 11 105 32; D2 11 105 32; D2 11 105 32;
  D2 11 105 32; D2 11 105 32; D2 11 105 32; D2 11 105 32; D2 11 105 32; D2 11 105 32; D2 11 105 32; D3 16 105 37 48;
  D3 16 105 37 49; D3 16 105 37 50; D3 16 105 37 97; D3 16 105 37 99; D3 16 105 37 101; D3 16 105 37 105;
  D3 16 105 37 111; D3 16 105 37 115; D3 16 105 37 116; D2 11 105 37; D2 11 105 37; D2 11 105 37; D2 11 105 37;
  D2 11 105 37; D2 11 105 37; D2 11 105 37; D2 11 105 37; D2 11 105 37; D2 11 105 37; D2 11 105 37; D2 11 105 37;
  D2 11 105 37; D2 11 105 37; D2 11 105 37; D2 11 105 37; D2 11 105 37; D2 11 105 37; D2 11 105 37; D2 11 105 37;
  D2 11 105 37; D2 11 105 37; D3 16 105 45 48; D3 16 105 45 49; D3 16 105 45 50; D3 16 105 45 97; D3 16 105 45 99;
  D3 16 105 45 101; D3 16 105 45 105; D3 16 105 45 111; D3 16 105 45 115; D3 16 105 45 116; D2 11 105 45;
  D2 11 105 45; D2 11 105 45; D2 11 105 45; D2 11 105 45; D2 11 105 45; D2 11 105 45; D2 11 105 45; D2 11 105 45;
  D2 11 105 45; D2 11 105 45; D2 11 105 45; D2 11 105 45; D2 11 105 45; D2 11 105 45; D2 11 105 45; D2 11 105 45;
  D2 11 105 45; D2 11 105 45; D2 11 105 45; D2 11 105 45; D2 11 105 45; D3 16 105 46 48; D3 16 105 46 49;
  D3 16 105 46 50; D3 16 105 46 97; D3 16 105 46 99; D3 16 105 46 101; D3 16 105 46 105; D3 16 105 46 111;
  D3 16 105 46 115; D3 16 105 46 116; D2 11 105 46; D2 11 105 46; D2 11 105 46; D2 11 105 46; D2 11 105 46;
  D2 11 105 46; D2 11 105 46; D2 11 105 46; D2 11 105 46; D2 11 105 46; D2 11 105 46; D2 11 105 46; D2 11 105 46;
  D2 11 105 46; D2 11 105 46; D2 11 105 46; D2 11 105 46; D2 11 105 46; D2 11 105 46; D2 11 105 46; D2 11 105 46;
  D2 11 105 46].
Definition hdecs_51 : list hdec := [
  D3 16 105 47 48; D3 16 105 47 49; D3 16 105 47 50; D3 16 105 47 97; D3 16 105 47 99; D3 16 105 47 101;
  D3 16 105 47 105; D3 16 105 47 111; D3 16 105 47 115; D3 16 105 47 116; D2 11 105 47; D2 11 105 47; D2 11 105 47;
  D2 11 105 47; D2 11 105 47; D2 11 105 47; D2 11 105 47; D2 11 105 47; D2 11 105 47; D2 11 105 47; D2 11 105 47;
  D2 11 105 47; D2 11 105 47; D2 11 105 47; D2 11 105 47; D2 11 105 47; D2 11 105 47; D2 11 105 47; D2 11 105 47;
  D2 11 105 47; D2 11 105 47; D2 11 105 47; D3 16 105 51 48; D3 16 105 51 49; D3 16 105 51 50; D3 16 105 51 97;
  D3 16 105 51 99; D3 16 105 51 101; D3 16 105 51 105; D3 16 105 51 111; D3 16 105 51 115; D3 16 105 51 116;
  D2 11 105 51; D2 11 105 51; D2 11 105 51; D2 11 105 51; D2 11 105 51; D2 11 105 51; D2 11 105 51; D2 11 105 51;
  D2 11 105 51; D2 11 105 51; D2 11 105 51; D2 11 105 51; D2 11 105 51; D2 11 105 51; D2 11 105 51; D2 11 105 51;
  D2 11 105 51; D2 11 105 51; D2 11 105 51; D2 11 105 51; D2 11 105 51; D2 11 105 51; D3 16 105 52 48;
  D3 16 105 52 49; D3 16 105 52 50; D3 16 105 52 97; D3 16 105 52 99; D3 16 105 52 101; D3 16 105 52 105;
  D3 16 105 52 111; D3 16 105 52 115; D3 16 105 52 116; D2 11 105 52; D2 11 105 52; D2 11 105 52; D2 11 105 52;
  D2 11 105 52; D2 11 105 52; D2 11 105 52; D2 11 105 52; D2 11 105 52; D2 11 105 52; D2 11 105 52; D2 11 105 52;
  D2 11 105 52; D2 11 105 52; D2 11 105 52; D2 11 105 52; D2 11 105 52; D2 11 105 52; D2 11 105 52; D2 11 105 52;
  D2 11 105 52; D2 11 105 52; D3 16 105 53 48; D3 16 105 53 49; D3 16 105 53 50; D3 16 105 53 97; D3 16 105 53 99;
  D3 16 105 53 101; D3 16 105 53 105; D3 16 105 53 111; D3 16 105 53 115; D3 16 105 53 116; D2 11 105 53;
  D2 11 105 53; D2 11 105 53; D2 11 105 53; D2 11 105 53; D2 11 105 53; D2 11 105 53; D2 11 105 53; D2 11 105 53;
  D2 11 105 53; D2 11 105 53; D2 11 105 53; D2 11 105 53; D2 11 105 53; D2 11 105 53; D2 11 105 53; D2 11 105 53;
  D2 11 105 53; D2 11 105 53; D2 11 105 53; D2 11 105 53; D2 11 105 53; D3 16 105 54 48; D3 16 105 54 49;
  D3 16 105 54 50; D3 16 105 54 97; D3 16 105 54 99; D3 16 105 54 101; D3 16 105 54 105; D3 16 105 54 111;
  D3 16 105 54 115; D3 16 105 54 116; D2 11 105 54; D2 11 105 54; D2 11 105 54; D2 11 105 54; D2 11 105 54;
  D2 11 105 54; D2 11 105 54; D2 11 105 54; D2 11 105 54; D2 11 105 54; D2 11 105 54; D2 11 105 54; D2 11 105 54;
  D2 11 105 54; D2 11 105 54; D2 11 105 54; D2 11 105 54; D2 11 105 54; D2 11 105 54; D2 11 105 54; D2 11 105 54;
  D2 11 105 54; D3 16 105 55 48; D3 16 105 55 49; D3 16 105 55 50; D3 16 105 55 97; D3 16 105 55 99; D3 16 105 55 101;
  D3 16 105 55 105; D3 16 105 55 111; D3 16 105 55 115; D3 16 105 55 116; D2 11 105 55; D2 11 105 55; D2 11 105 55;
  D2 11 105 55; D2 11 105 55; D2 11 105 55; D2 11 105 55; D2 11 105 55; D2 11 105 55; D2 11 105 55; D2 11 105 55;
  D2 11 105 55; D2 11 105 55; D2 11 105 55; D2 11 105 55; D2 11 105 55; D2 11 105 55; D2 11 105 55; D2 11 105 55;
  D2 11 105 55; D2 11 105 55; D2 11 105 55; D3 16 105 56 48; D3 16 105 56 49; D3 16 105 56 50; D3 16 105 56 97;
  D3 16 105 56 99; D3 16 105 56 101; D3 16 105 56 105; D3 16 105 56 111; D3 16 105 56 115; D3 16 105 56 116;
  D2 11 105 56; D2 11 105 56; D2 11 105 56; D2 11 105 56; D2 11 105 56; D2 11 105 56; D2 11 105 56; D2 11 105 56;
  D2 11 105 56; D2 11 105 56; D2 11 105 56; D2 11 105 56; D2 11 105 56; D2 11 105 56; D2 11 105 56; D2 11 105 56;
  D2 11 105 56; D2 11 105 56; D2 11 105 56; D2 11 105 56; D2 11 105 56; D2 11 105 56; D3 16 105 57 48;
  D3 16 105 57 49; D3 16 105 57 50; D3 16 105 57 97; D3 16 105 57 99; D3 16 105 57 101; D3 16 105 57 105;
  D3 16 105 57 111; D3 16 105 57 115; D3 16 105 57 116; D2 11 105 57; D2 11 105 57; D2 11 105 57; D2 11 105 57;
  D2 11 105 57; D2 11 105 57; D2 11 105 57; D2 11 105 57; D2 11 105 57; D2 11 105 57; D2 11 105 57; D2 11 105 57;
  D2 11 105 57; D2 11 105 57; D2 11 105 57; D2 11 105 57; D2 11 105 57; D2 11 105 57; D2 11 105 57; D2 11 105 57;
  D2 11 105 57; D2 11 105 57].
Definition hdecs_52 : list hdec := [
  D3 16 105 61 48; D3 16 105 61 49; D3 16 105 61 50; D3 16 105 61 97; D3 16 105 61 99; D3 16 105 61 101;
  D3 16 105 61 105; D3 16 105 61 111; D3 16 105 61 115; D3 16 105 61 116; D2 11 105 61; D2 11 105 61; D2 11 105 61;
  D2 11 105 61; D2 11 105 61; D2 11 105 61; D2 11 105 61; D2 11 105 61; D2 11 105 61; D2 11 105 61; D2 11 105 61;
  D2 11 105 61; D2 11 105 61; D2 11 105 61; D2 11 105 61; D2 11 105 61; D2 11 105 61; D2 11 105 61; D2 11 105 61;
  D2 11 105 61; D2 11 105 61; D2 11 105 61; D3 16 105 65 48; D3 16 105 65 49; D3 16 105 65 50; D3 16 105 65 97;
  D3 16 105 65 99; D3 16 105 65 101; D3 16 105 65 105; D3 16 105 65 111; D3 16 105 65 115; D3 16 105 65 116;
  D2 11 105 65; D2 11 105 65; D2 11 105 65; D2 11 105 65; D2 11 105 65; D2 11 105 65; D2 11 105 65; D2 11 105 65;
  D2 11 105 65; D2 11 105 65; D2 11 105 65; D2 11 105 65; D2 11 105 65; D2 11 105 65; D2 11 105 65; D2 11 105 65;
  D2 11 105 65; D2 11 105 65; D2 11 105 65; D2 11 105 65; D2 11 105 65; D2 11 105 65; D3 16 105 95 48;
  D3 16 105 95 49; D3 16 105 95 50; D3 16 105 95 97; D3 16 105 95 99; D3 16 105 95 101; D3 16 105 95 105;
  D3 16 105 95 111; D3 16 105 95 115; D3 16 105 95 116; D2 11 105 95; D2 11 105 95; D2 11 105 95; D2 11 105 95;
  D2 11 105 95; D2 11 105 95; D2 11 105 95; D2 11 105 95; D2 11 105 95; D2 11 105 95; D2 11 105 95; D2 11 105 95;
  D2 11 105 95; D2 11 105 95; D2 11 105 95; D2 11 105 95; D2 11 105 95; D2 11 105 95; D2 11 105 95; D2 11 105 95;
  D2 11 105 95; D2 11 105 95; D3 16 105 98 48; D3 16 105 98 49; D3 16 105 98 50; D3 16 105 98 97; D3 16 105 98 99;
  D3 16 105 98 101; D3 16 105 98 105; D3 16 105 98 111; D3 16 105 98 115; D3 16 105 98 116; D2 11 105 98;
  D2 11 105 98; D2 11 105 98; D2 11 105 98; D2 11 105 98; D2 11 105 98; D2 11 105 98; D2 11 105 98; D2 11 105 98;
  D2 11 105 98; D2 11 105 98; D2 11 105 98; D2 11 105 98; D2 11 105 98; D2 11 105 98; D2 11 105 98; D2 11 105 98;
  D2 11 105 98; D2 11 105 98; D2 11 105 98; D2 11 105 98; D2 11 105 98; D3 16 105 100 48; D3 16 105 100 49;
  D3 16 105 100 50; D3 16 105 100 97; D3 16 105 100 99; D3 16 105 100 101; D3 16 105 100 105; D3 16 105 100 111;
  D3 16 105 100 115; D3 16 105 100 116; D2 11 105 100; D2 11 105 100; D2 11 105 100; D2 11 105 100; D2 11 105 100;
  D2 11 105 100; D2 11 105 100; D2 11 105 100; D2 11 105 100; D2 11 105 100; D2 11 105 100; D2 11 105 100;
  D2 11 105 100; D2 11 105 100; D2 11 105 100; D2 11 105 100; D2 11 105 100; D2 11 105 100; D2 11 105 100;
  D2 11 105 100; D2 11 105 100; D2 11 105 100; D3 16 105 102 48; D3 16 105 102 49; D3 16 105 102 50; D3 16 105 102 97;
  D3 16 105 102 99; D3 16 105 102 101; D3 16 105 102 105; D3 16 105 102 111; D3 16 105 102 115; D3 16 105 102 116;
  D2 11 105 102; D2 11 105 102; D2 11 105 102; D2 11 105 102; D2 11 105 102; D2 11 105 102; D2 11 105 102;
  D2 11 105 102; D2 11 105 102; D2 11 105 102; D2 11 105 102; D2 11 105 102; D2 11 105 102; D2 11 105 102;
  D2 11 105 102; D2 11 105 102; D2 11 105 102; D2 11 105 102; D2 11 105 102; D2 11 105 102; D2 11 105 102;
  D2 11 105 102; D3 16 105 103 48; D3 16 105 103 49; D3 16 105 103 50; D3 16 105 103 97; D3 16 105 103 99;
  D3 16 105 103 101; D3 16 105 103 105; D3 16 105 103 111; D3 16 105 103 115; D3 16 105 103 116; D2 11 105 103;
  D2 11 105 103; D2 11 105 103; D2 11 105 103; D2 11 105 103; D2 11 105 103; D2 11 105 103; D2 11 105 103;
  D2 11 105 103; D2 11 105 103; D2 11 105 103; D2 11 105 103; D2 11 105 103; D2 11 105 103; D2 11 105 103;
  D2 11 105 103; D2 11 105 103; D2 11 105 103; D2 11 105 103; D2 11 105 103; D2 11 105 103; D2 11 105 103;
  D3 16 105 104 48; D3 16 105 104 49; D3 16 105 104 50; D3 16 105 104 97; D3 16 105 104 99; D3 16 105 104 101;
  D3 16 105 104 105; D3 16 105 104 111; D3 16 105 104 115; D3 16 105 104 116; D2 11 105 104; D2 11 105 104;
  D2 11 105 104; D2 11 105 104; D2 11 105 104; D2 11 105 104; D2 11 105 104; D2 11 105 104; D2 11 105 104;
  D2 11 105 104; D2 11 105 104; D2 11 105 104; D2 11 105 104; D2 11 105 104; D2 11 105 104; D2 11 105 104;
  D2 11 105 104; D2 11 105 104; D2 11 105 104; D2 11 105 104; D2 11 105 104; D2 11 105 104].
Definition hdecs_53 : list hdec := [
  D3 16 105 108 48; D3 16 105 108 49; D3 16 105 108 50; D3 16 105 108 97; D3 16 105 108 99; D3 16 105 108 101;
  D3 16 105 108 105; D3 16 105 108 111; D3 16 105 108 115; D3 16 105 108 116; D2 11 105 108; D2 11 105 108;
  D2 11 105 108; D2 11 105 108; D2 11 105 108; D2 11 105 108; D2 11 105 108; D2 11 105 108; D2 11 105 108;
  D2 11 105 108; D2 11 105 108; D2 11 105 108; D2 11 105 108; D2 11 105 108; D2 11 105 108; D2 11 105 108;
  D2 11 105 108; D2 11 105 108; D2 11 105 108; D2 11 105 108; D2 11 105 108; D2 11 105 108; D3 16 105 109 48;
  D3 16 105 109 49; D3 16 105 109 50; D3 16 105 109 97; D3 16 105 109 99; D3 16 105 109 101; D3 16 105 109 105;
  D3 16 105 109 111; D3 16 105 109 115; D3 16 105 109 116; D2 11 105 109; D2 11 105 109; D2 11 105 109; D2 11 105 109;
  D2 11 105 109; D2 11 105 109; D2 11 105 109; D2 11 105 109; D2 11 105 109; D2 11 105 109; D2 11 105 109;
  D2 11 105 109; D2 11 105 109; D2 11 105 109; D2 11 105 109; D2 11 105 109; D2 11 105 109; D2 11 105 109;
  D2 11 105 109; D2 11 105 109; D2 11 105 109; D2 11 105 109; D3 16 105 110 48; D3 16 105 110 49; D3 16 105 110 50;
  D3 16 105 110 97; D3 16 105 110 99; D3 16 105 110 101; D3 16 105 110 105; D3 16 105 110 111; D3 16 105 110 115;
  D3 16 105 110 116; D2 11 105 110; D2 11 105 110; D2 11 105 110; D2 11 105 110; D2 11 105 110; D2 11 105 110;
  D2 11 105 110; D2 11 105 110; D2 11 105 110; D2 11 105 110; D2 11 105 110; D2 11 105 110; D2 11 105 110;
  D2 11 105 110; D2 11 105 110; D2 11 105 110; D2 11 105 110; D2 11 105 110; D2 11 105 110; D2 11 105 110;
  D2 11 105 110; D2 11 105 110; D3 16 105 112 48; D3 16 105 112 49; D3 16 105 112 50; D3 16 105 112 97;
  D3 16 105 112 99; D3 16 105 112 101; D3 16 105 112 105; D3 16 105 112 111; D3 16 105 112 115; D3 16 105 112 116;
  D2 11 105 112; D2 11 105 112; D2 11 105 112; D2 11 105 112; D2 11 105 112; D2 11 105 112; D2 11 105 112;
  D2 11 105 112; D2 11 105 112; D2 11 105 112; D2 11 105 112; D2 11 105 112; D2 11 105 112; D2 11 105 112;
  D2 11 105 112; D2 11 105 112; D2 11 105 112; D2 11 105 112; D2 11 105 112; D2 11 105 112; D2 11 105 112;
  D2 11 105 112; D3 16 105 114 48; D3 16 105 114 49; D3 16 105 114 50; D3 16 105 114 97; D3 16 105 114 99;
  D3 16 105 114 101; D3 16 105 114 105; D3 16 105 114 111; D3 16 105 114 115; D3 16 105 114 116; D2 11 105 114;
  D2 11 105 114; D2 11 105 114; D2 11 105 114; D2 11 105 114; D2 11 105 114; D2 11 105 114; D2 11 105 114;
  D2 11 105 114; D2 11 105 114; D2 11 105 114; D2 11 105 114; D2 11 105 114; D2 11 105 114; D2 11 105 114;
  D2 11 105 114; D2 11 105 114; D2 11 105 114; D2 11 105 114; D2 11 105 114; D2 11 105 114; D2 11 105 114;
  D3 16 105 117 48; D3 16 105 117 49; D3 16 105 117 50; D3 16 105 117 97; D3 16 105 117 99; D3 16 105 117 101;
  D3 16 105 117 105; D3 16 105 117 111; D3 16 105 117 115; D3 16 105 117 116; D2 11 105 117; D2 11 105 117;
  D2 11 105 117; D2 11 105 117; D2 11 105 117; D2 11 105 117; D2 11 105 117; D2 11 105 117; D2 11 105 117;
  D2 11 105 117; D2 11 105 117; D2 11 105 117; D2 11 105 117; D2 11 105 117; D2 11 105 117; D2 11 105 117;
  D2 11 105 117; D2 11 105 117; D2 11 105 117; D2 11 105 117; D2 11 105 117; D2 11 105 117; D2 12 105 58;
  D2 12 105 58; D2 12 105 58; D2 12 105 58; D2 12 105 58; D2 12 105 58; D2 12 105 58; D2 12 105 58; D2 12 105 58;
  D2 12 105 58; D2 12 105 58; D2 12 105 58; D2 12 105 58; D2 12 105 58; D2 12 105 58; D2 12 105 58; D2 12 105 66;
  D2 12 105 66; D2 12 105 66; D2 12 105 66; D2 12 105 66; D2 12 105 66; D2 12 105 66; D2 12 105 66; D2 12 105 66;
  D2 12 105 66; D2 12 105 66; D2 12 105 66; D2 12 105 66; D2 12 105 66; D2 12 105 66; D2 12 105 66; D2 12 105 67;
  D2 12 105 67; D2 12 105 67; D2 12 105 67; D2 12 105 67; D2 12 105 67; D2 12 105 67; D2 12 105 67; D2 12 105 67;
  D2 12 105 67; D2 12 105 67; D2 12 105 67; D2 12 105 67; D2 12 105 67; D2 12 105 67; D2 12 105 67; D2 12 105 68;
  D2 12 105 68; D2 12 105 68; D2 12 105 68; D2 12 105 68; D2 12 105 68; D2 12 105 68; D2 12 105 68; D2 12 105 68;
  D2 12 105 68; D2 12 105 68; D2 12 105 68; D2 12 105 68; D2 12 105 68; D2 12 105 68; D2 12 105 68].
Definition hdecs_54 : list hdec := [
  D2 12 105 69; D2 12 105 69; D2 12 105 69; D2 12 105 69; D2 12 105 69; D2 12 105 69; D2 12 105 69; D2 12 105 69;
  D2 12 105 69; D2 12 105 69; D2 12 105 69; D2 12 105 69; D2 12 105 69; D2 12 105 69; D2 12 105 69; D2 12 105 69;
  D2 12 105 70; D2 12 105 70; D2 12 105 70; D2 12 105 70; D2 12 105 70; D2 12 105 70; D2 12 105 70; D2 12 105 70;
  D2 12 105 70; D2 12 105 70; D2 12 105 70; D2 12 105 70; D2 12 105 70; D2 12 105 70; D2 12 105 70; D2 12 105 70;
  D2 12 105 71; D2 12 105 71; D2 12 105 71; D2 12 105 71; D2 12 105 71; D2 12 105 71; D2 12 105 71; D2 12 105 71;
  D2 12 105 71; D2 12 105 71; D2 12 105 71; D2 12 105 71; D2 12 105 71; D2 12 105 71; D2 12 105 71; D2 12 105 71;
  D2 12 105 72; D2 12 105 72; D2 12 105 72; D2 12 105 72; D2 12 105 72; D2 12 105 72; D2 12 105 72; D2 12 105 72;
  D2 12 105 72; D2 12 105 72; D2 12 105 72; D2 12 105 72; D2 12 105 72; D2 12 105 72; D2 12 105 72; D2 12 105 72;
  D2 12 105 73; D2 12 105 73; D2 12 105 73; D2 12 105 73; D2 12 105 73; D2 12 105 73; D2 12 105 73; D2 12 105 73;
  D2 12 105 73; D2 12 105 73; D2 12 105 73; D2 12 105 73; D2 12 105 73; D2 12 105 73; D2 12 105 73; D2 12 105 73;
  D2 12 105 74; D2 12 105 74; D2 12 105 74; D2 12 105 74; D2 12 105 74; D2 12 105 74; D2 12 105 74; D2 12 105 74;
  D2 12 105 74; D2 12 105 74; D2 12 105 74; D2 12 105 74; D2 12 105 74; D2 12 105 74; D2 12 105 74; D2 12 105 74;
  D2 12 105 75; D2 12 105 75; D2 12 105 75; D2 12 105 75; D2 12 105 75; D2 12 105 75; D2 12 105 75; D2 12 105 75;
  D2 12 105 75; D2 12 105 75; D2 12 105 75; D2 12 105 75; D2 12 105 75; D2 12 105 75; D2 12 105 75; D2 12 105 75;
  D2 12 105 76; D2 12 105 76; D2 12 105 76; D2 12 105 76; D2 12 105 76; D2 12 105 76; D2 12 105 76; D2 12 105 76;
  D2 12 105 76; D2 12 105 76; D2 12 105 76; D2 12 105 76; D2 12 105 76; D2 12 105 76; D2 12 105 76; D2 12 105 76;
  D2 12 105 77; D2 12 105 77; D2 12 105 77; D2 12 105 77; D2 12 105 77; D2 12 105 77; D2 12 105 77; D2 12 105 77;
  D2 12 105 77; D2 12 105 77; D2 12 105 77; D2 12 105 77; D2 12 105 77; D2 12 105 77; D2 12 105 77; D2 12 105 77;
  D2 12 105 78; D2 12 105 78; D2 12 105 78; D2 12 105 78; D2 12 105 78; D2 12 105 78; D2 12 105 78; D2 12 105 78;
  D2 12 105 78; D2 12 105 78; D2 12 105 78; D2 12 105 78; D2 12 105 78; D2 12 105 78; D2 12 105 78; D2 12 105 78;
  D2 12 105 79; D2 12 105 79; D2 12 105 79; D2 12 105 79; D2 12 105 79; D2 12 105 79; D2 12 105 79; D2 12 105 79;
  D2 12 105 79; D2 12 105 79; D2 12 105 79; D2 12 105 79; D2 12 105 79; D2 12 105 79; D2 12 105 79; D2 12 105 79;
  D2 12 105 80; D2 12 105 80; D2 12 105 80; D2 12 105 80; D2 12 105 80; D2 12 105 80; D2 12 105 80; D2 12 105 80;
  D2 12 105 80; D2 12 105 80; D2 12 105 80; D2 12 105 80; D2 12 105 80; D2 12 105 80; D2 12 105 80; D2 12 105 80;
  D2 12 105 81; D2 12 105 81; D2 12 105 81; D2 12 105 81; D2 12 105 81; D2 12 105 81; D2 12 105 81; D2 12 105 81;
  D2 12 105 81; D2 12 105 81; D2 12 105 81; D2 12 105 81; D2 12 105 81; D2 12 105 81; D2 12 105 81; D2 12 105 81;
  D2 12 105 82; D2 12 105 82; D2 12 105 82; D2 12 105 82; D2 12 105 82; D2 12 105 82; D2 12 105 82; D2 12 105 82;
  D2 12 105 82; D2 12 105 82; D2 12 105 82; D2 12 105 82; D2 12 105 82; D2 12 105 82; D2 12 105 82; D2 12 105 82;
  D2 12 105 83; D2 12 105 83; D2 12 105 83; D2 12 105 83; D2 12 105 83; D2 12 105 83; D2 12 105 83; D2 12 105 83;
  D2 12 105 83; D2 12 105 83; D2 12 105 83; D2 12 105 83; D2 12 105 83; D2 12 105 83; D2 12 105 83; D2 12 105 83;
  D2 12 105 84; D2 12 105 84; D2 12 105 84; D2 12 105 84; D2 12 105 84; D2 12 105 84; D2 12 105 84; D2 12 105 84;
  D2 12 105 84; D2 12 105 84; D2 12 105 84; D2 12 105 84; D2 12 105 84; D2 12 105 84; D2 12 105 84; D2 12 105 84].
Definition hdecs_55 : list hdec := [
  D2 12 105 85; D2 12 105 85; D2 12 105 85; D2 12 105 85; D2 12 105 85; D2 12 105 85; D2 12 105 85; D2 12 105 85;
  D2 12 105 85; D2 12 105 85; D2 12 105 85; D2 12 105 85; D2 12 105 85; D2 12 105 85; D2 12 105 85; D2 12 105 85;
  D2 12 105 86; D2 12 105 86; D2 12 105 86; D2 12 105 86; D2 12 105 86; D2 12 105 86; D2 12 105 86; D2 12 105 86;
  D2 12 105 86; D2 12 105 86; D2 12 105 86; D2 12 105 86; D2 12 105 86; D2 12 105 86; D2 12 105 86; D2 12 105 86;
  D2 12 105 87; D2 12 105 87; D2 12 105 87; D2 12 105 87; D2 12 105 87; D2 12 105 87; D2 12 105 87; D2 12 105 87;
  D2 12 105 87; D2 12 105 87; D2 12 105 87; D2 12 105 87; D2 12 105 87; D2 12 105 87; D2 12 105 87; D2 12 105 87;
  D2 12 105 89; D2 12 105 89; D2 12 105 89; D2 12 105 89; D2 12 105 89; D2 12 105 89; D2 12 105 89; D2 12 105 89;
  D2 12 105 89; D2 12 105 89; D2 12 105 89; D2 12 105 89; D2 12 105 89; D2 12 105 89; D2 12 105 89; D2 12 105 89;
  D2 12 105 106; D2 12 105 106; D2 12 105 106; D2 12 105 106; D2 12 105 106; D2 12 105 106; D2 12 105 106;
  D2 12 105 106; D2 12 105 106; D2 12 105 106; D2 12 105 106; D2 12 105 106; D2 12 105 106; D2 12 105 106;
  D2 12 105 106; D2 12 105 106; D2 12 105 107; D2 12 105 107; D2 12 105 107; D2 12 105 107; D2 12 105 107;
  D2 12 105 107; D2 12 105 107; D2 12 105 107; D2 12 105 107; D2 12 105 107; D2 12 105 107; D2 12 105 107;
  D2 12 105 107; D2 12 105 107; D2 12 105 107; D2 12 105 107; D2 12 105 113; D2 12 105 113; D2 12 105 113;
  D2 12 105 113; D2 12 105 113; D2 12 105 113; D2 12 105 113; D2 12 105 113; D2 12 105 113; D2 12 105 113;
  D2 12 105 113; D2 12 105 113; D2 12 105 113; D2 12 105 113; D2 12 105 113; D2 12 105 113; D2 12 105 118;
  D2 12 105 118; D2 12 105 118; D2 12 105 118; D2 12 105 118; D2 12 105 118; D2 12 105 118; D2 12 105 118;
  D2 12 105 118; D2 12 105 118; D2 12 105 118; D2 12 105 118; D2 12 105 118; D2 12 105 118; D2 12 105 118;
  D2 12 105 118; D2 12 105 119; D2 12 105 119; D2 12 105 119; D2 12 105 119; D2 12 105 119; D2 12 105 119;
  D2 12 105 119; D2 12 105 119; D2 12 105 119; D2 12 105 119; D2 12 105 119; D2 12 105 119; D2 12 105 119;
  D2 12 105 119; D2 12 105 119; D2 12 105 119; D2 12 105 120; D2 12 105 120; D2 12 105 120; D2 12 105 120;
  D2 12 105 120; D2 12 105 120; D2 12 105 120; D2 12 105 120; D2 12 105 120; D2 12 105 120; D2 12 105 120;
  D2 12 105 120; D2 12 105 120; D2 12 105 120; D2 12 105 120; D2 12 105 120; D2 12 105 121; D2 12 105 121;
  D2 12 105 121; D2 12 105 121; D2 12 105 121; D2 12 105 121; D2 12 105 121; D2 12 105 121; D2 12 105 121;
  D2 12 105 121; D2 12 105 121; D2 12 105 121; D2 12 105 121; D2 12 105 121; D2 12 105 121; D2 12 105 121;
  D2 12 105 122; D2 12 105 122; D2 12 105 122; D2 12 105 122; D2 12 105 122; D2 12 105 122; D2 12 105 122;
  D2 12 105 122; D2 12 105 122; D2 12 105 122; D2 12 105 122; D2 12 105 122; D2 12 105 122; D2 12 105 122;
  D2 12 105 122; D2 12 105 122; D2 13 105 38; D2 13 105 38; D2 13 105 38; D2 13 105 38; D2 13 105 38; D2 13 105 38;
  D2 13 105 38; D2 13 105 38; D2 13 105 42; D2 13 105 42; D2 13 105 42; D2 13 105 42; D2 13 105 42; D2 13 105 42;
  D2 13 105 42; D2 13 105 42; D2 13 105 44; D2 13 105 44; D2 13 105 44; D2 13 105 44; D2 13 105 44; D2 13 105 44;
  D2 13 105 44; D2 13 105 44; D2 13 105 59; D2 13 105 59; D2 13 105 59; D2 13 105 59; D2 13 105 59; D2 13 105 59;
  D2 13 105 59; D2 13 105 59; D2 13 105 88; D2 13 105 88; D2 13 105 88; D2 13 105 88; D2 13 105 88; D2 13 105 88;
  D2 13 105 88; D2 13 105 88; D2 13 105 90; D2 13 105 90; D2 13 105 90; D2 13 105 90; D2 13 105 90; D2 13 105 90;
  D2 13 105 90; D2 13 105 90; D2 15 105 33; D2 15 105 33; D2 15 105 34; D2 15 105 34; D2 15 105 40; D2 15 105 40;
  D2 15 105 41; D2 15 105 41; D2 15 105 63; D2 15 105 63; D2 16 105 39; D2 16 105 43; D2 16 105 124; D1 5 105;
  D1 5 105; D1 5 105].
Definition hdecs_56 : list hdec := [
  D3 15 111 48 48; D3 15 111 48 48; D3 15 111 48 49; D3 15 111 48 49; D3 15 111 48 50; D3 15 111 48 50;
  D3 15 111 48 97; D3 15 111 48 97; D3 15 111 48 99; D3 15 111 48 99; D3 15 111 48 101; D3 15 111 48 101;
  D3 15 111 48 105; D3 15 111 48 105; D3 15 111 48 111; D3 15 111 48 111; D3 15 111 48 115; D3 15 111 48 115;
  D3 15 111 48 116; D3 15 111 48 116; D3 16 111 48 32; D3 16 111 48 37; D3 16 111 48 45; D3 16 111 48 46;
  D3 16 111 48 47; D3 16 111 48 51; D3 16 111 48 52; D3 16 111 48 53; D3 16 111 48 54; D3 16 111 48 55;
  D3 16 111 48 56; D3 16 111 48 57; D3 16 111 48 61; D3 16 111 48 65; D3 16 111 48 95; D3 16 111 48 98;
  D3 16 111 48 100; D3 16 111 48 102; D3 16 111 48 103; D3 16 111 48 104; D3 16 111 48 108; D3 16 111 48 109;
  D3 16 111 48 110; D3 16 111 48 112; D3 16 111 48 114; D3 16 111 48 117; D2 10 111 48; D2 10 111 48; D2 10 111 48;
  D2 10 111 48; D2 10 111 48; D2 10 111 48; D2 10 111 48; D2 10 111 48; D2 10 111 48; D2 10 111 48; D2 10 111 48;
  D2 10 111 48; D2 10 111 48; D2 10 111 48; D2 10 111 48; D2 10 111 48; D2 10 111 48; D2 10 111 48; D3 15 111 49 48;
  D3 15 111 49 48; D3 15 111 49 49; D3 15 111 49 49; D3 15 111 49 50; D3 15 111 49 50; D3 15 111 49 97;
  D3 15 111 49 97; D3 15 111 49 99; D3 15 111 49 99; D3 15 111 49 101; D3 15 111 49 101; D3 15 111 49 105;
  D3 15 111 49 105; D3 15 111 49 111; D3 15 111 49 111; D3 15 111 49 115; D3 15 111 49 115; D3 15 111 49 116;
  D3 15 111 49 116; D3 16 111 49 32; D3 16 111 49 37; D3 16 111 49 45; D3 16 111 49 46; D3 16 111 49 47;
  D3 16 111 49 51; D3 16 111 49 52; D3 16 111 49 53; D3 16 111 49 54; D3 16 111 49 55; D3 16 111 49 56;
  D3 16 111 49 57; D3 16 111 49 61; D3 16 111 49 65; D3 16 111 49 95; D3 16 111 49 98; D3 16 111 49 100;
  D3 16 111 49 102; D3 16 111 49 103; D3 16 111 49 104; D3 16 111 49 108; D3 16 111 49 109; D3 16 111 49 110;
  D3 16 111 49 112; D3 16 111 49 114; D3 16 111 49 117; D2 10 111 49; D2 10 111 49; D2 10 111 49; D2 10 111 49;
  D2 10 111 49; D2 10 111 49; D2 10 111 49; D2 10 111 49; D2 10 111 49; D2 10 111 49; D2 10 111 49; D2 10 111 49;
  D2 10 111 49; D2 10 111 49; D2 10 111 49; D2 10 111 49; D2 10 111 49; D2 10 111 49; D3 15 111 50 48;
  D3 15 111 50 48; D3 15 111 50 49; D3 15 111 50 49; D3 15 111 50 50; D3 15 111 50 50; D3 15 111 50 97;
  D3 15 111 50 97; D3 15 111 50 99; D3 15 111 50 99; D3 15 111 50 101; D3 15 111 50 101; D3 15 111 50 105;
  D3 15 111 50 105; D3 15 111 50 111; D3 15 111 50 111; D3 15 111 50 115; D3 15 111 50 115; D3 15 111 50 116;
  D3 15 111 50 116; D3 16 111 50 32; D3 16 111 50 37; D3 16 111 50 45; D3 16 111 50 46; D3 16 111 50 47;
  D3 16 111 50 51; D3 16 111 50 52; D3 16 111 50 53; D3 16 111 50 54; D3 16 111 50 55; D3 16 111 50 56;
  D3 16 111 50 57; D3 16 111 50 61; D3 16 111 50 65; D3 16 111 50 95; D3 16 111 50 98; D3 16 111 50 100;
  D3 16 111 50 102; D3 16 111 50 103; D3 16 111 50 104; D3 16 111 50 108; D3 16 111 50 109; D3 16 111 50 110;
  D3 16 111 50 112; D3 16 111 50 114; D3 16 111 50 117; D2 10 111 50; D2 10 111 50; D2 10 111 50; D2 10 111 50;
  D2 10 111 50; D2 10 111 50; D2 10 111 50; D2 10 111 50; D2 10 111 50; D2 10 111 50; D2 10 111 50; D2 10 111 50;
  D2 10 111 50; D2 10 111 50; D2 10 111 50; D2 10 111 50; D2 10 111 50; D2 10 111 50; D3 15 111 97 48;
  D3 15 111 97 48; D3 15 111 97 49; D3 15 111 97 49; D3 15 111 97 50; D3 15 111 97 50; D3 15 111 97 97;
  D3 15 111 97 97; D3 15 111 97 99; D3 15 111 97 99; D3 15 111 97 101; D3 15 111 97 101; D3 15 111 97 105;
  D3 15 111 97 105; D3 15 111 97 111; D3 15 111 97 111; D3 15 111 97 115; D3 15 111 97 115; D3 15 111 97 116;
  D3 15 111 97 116; D3 16 111 97 32; D3 16 111 97 37; D3 16 111 97 45; D3 16 111 97 46; D3 16 111 97 47;
  D3 16 111 97 51; D3 16 111 97 52; D3 16 111 97 53; D3 16 111 97 54; D3 16 111 97 55; D3 16 111 97 56;
  D3 16 111 97 57; D3 16 111 97 61; D3 16 111 97 65; D3 16 111 97 95; D3 16 111 97 98; D3 16 111 97 100;
  D3 16 111 97 102; D3 16 111 97 103; D3 16 111 97 104; D3 16 111 97 108; D3 16 111 97 109; D3 16 111 97 110;
  D3 16 111 97 112; D3 16 111 97 114; D3 16 111 97 117; D2 10 111 97; D2 10 111 97; D2 10 111 97; D2 10 111 97;
  D2 10 111 97; D2 10 111 97; D2 10 111 97; D2 10 111 97; D2 10 111 97; D2 10 111 97; D2 10 111 97; D2 10 111 97;
  D2 10 111 97; D2 10 111 97; D2 10 111 97; D2 10 111 97; D2 10 111 97; D2 10 111 97].
Definition hdecs_57 : list hdec := [
  D3 15 111 99 48; D3 15 111 99 48; D3 15 111 99 49; D3 15 111 99 49; D3 15 111 99 50; D3 15 111 99 50;
  D3 15 111 99 97; D3 15 111 99 97; D3 15 111 99 99; D3 15 111 99 99; D3 15 111 99 101; D3 15 111 99 101;
  D3 15 111 99 105; D3 15 111 99 105; D3 15 111 99 111; D3 15 111 99 111; D3 15 111 99 115; D3 15 111 99 115;
  D3 15 111 99 116; D3 15 111 99 116; D3 16 111 99 32; D3 16 111 99 37; D3 16 111 99 45; D3 16 111 99 46;
  D3 16 111 99 47; D3 16 111 99 51; D3 16 111 99 52; D3 16 111 99 53; D3 16 111 99 54; D3 16 111 99 55;
  D3 16 111 99 56; D3 16 111 99 57; D3 16 111 99 61; D3 16 111 99 65; D3 16 111 99 95; D3 16 111 99 98;
  D3 16 111 99 100; D3 16 111 99 102; D3 16 111 99 103; D3 16 111 99 104; D3 16 111 99 108; D3 16 111 99 109;
  D3 16 111 99 110; D3 16 111 99 112; D3 16 111 99 114; D3 16 111 99 117; D2 10 111 99; D2 10 111 99; D2 10 111 99;
  D2 10 111 99; D2 10 111 99; D2 10 111 99; D2 10 111 99; D2 10 111 99; D2 10 111 99; D2 10 111 99; D2 10 111 99;
  D2 10 111 99; D2 10 111 99; D2 10 111 99; D2 10 111 99; D2 10 111 99; D2 10 111 99; D2 10 111 99; D3 15 111 101 48;
  D3 15 111 101 48; D3 15 111 101 49; D3 15 111 101 49; D3 15 111 101 50; D3 15 111 101 50; D3 15 111 101 97;
  D3 15 111 101 97; D3 15 111 101 99; D3 15 111 101 99; D3 15 111 101 101; D3 15 111 101 101; D3 15 111 101 105;
  D3 15 111 101 105; D3 15 111 101 111; D3 15 111 101 111; D3 15 111 101 115; D3 15 111 101 115; D3 15 111 101 116;
  D3 15 111 101 116; D3 16 111 101 32; D3 16 111 101 37; D3 16 111 101 45; D3 16 111 101 46; D3 16 111 101 47;
  D3 16 111 101 51; D3 16 111 101 52; D3 16 111 101 53; D3 16 111 101 54; D3 16 111 101 55; D3 16 111 101 56;
  D3 16 111 101 57; D3 16 111 101 61; D3 16 111 101 65; D3 16 111 101 95; D3 16 111 101 98; D3 16 111 101 100;
  D3 16 111 101 102; D3 16 111 101 103; D3 16 111 101 104; D3 16 111 101 108; D3 16 111 101 109; D3 16 111 101 110;
  D3 16 111 101 112; D3 16 111 101 114; D3 16 111 101 117; D2 10 111 101; D2 10 111 101; D2 10 111 101; D2 10 111 101;
  D2 10 111 101; D2 10 111 101; D2 10 111 101; D2 10 111 101; D2 10 111 101; D2 10 111 101; D2 10 111 101;
  D2 10 111 101; D2 10 111 101; D2 10 111 101; D2 10 111 101; D2 10 111 101; D2 10 111 101; D2 10 111 101;
  D3 15 111 105 48; D3 15 111 105 48; D3 15 111 105 49; D3 15 111 105 49; D3 15 111 105 50; D3 15 111 105 50;
  D3 15 111 105 97; D3 15 111 105 97; D3 15 111 105 99; D3 15 111 105 99; D3 15 111 105 101; D3 15 111 105 101;
  D3 15 111 105 105; D3 15 111 105 105; D3 15 111 105 111; D3 15 111 105 111; D3 15 111 105 115; D3 15 111 105 115;
  D3 15 111 105 116; D3 15 111 105 116; D3 16 111 105 32; D3 16 111 105 37; D3 16 111 105 45; D3 16 111 105 46;
  D3 16 111 105 47; D3 16 111 105 51; D3 16 111 105 52; D3 16 111 105 53; D3 16 111 105 54; D3 16 111 105 55;
  D3 16 111 105 56; D3 16 111 105 57; D3 16 111 105 61; D3 16 111 105 65; D3 16 111 105 95; D3 16 111 105 98;
  D3 16 111 105 100; D3 16 111 105 102; D3 16 111 105 103; D3 16 111 105 104; D3 16 111 105 108; D3 16 111 105 109;
  D3 16 111 105 110; D3 16 111 105 112; D3 16 111 105 114; D3 16 111 105 117; D2 10 111 105; D2 10 111 105;
  D2 10 111 105; D2 10 111 105; D2 10 111 105; D2 10 111 105; D2 10 111 105; D2 10 111 105; D2 10 111 105;
  D2 10 111 105; D2 10 111 105; D2 10 111 105; D2 10 111 105; D2 10 111 105; D2 10 111 105; D2 10 111 105;
  D2 10 111 105; D2 10 111 105; D3 15 111 111 48; D3 15 111 111 48; D3 15 111 111 49; D3 15 111 111 49;
  D3 15 111 111 50; D3 15 111 111 50; D3 15 111 111 97; D3 15 111 111 97; D3 15 111 111 99; D3 15 111 111 99;
  D3 15 111 111 101; D3 15 111 111 101; D3 15 111 111 105; D3 15 111 111 105; D3 15 111 111 111; D3 15 111 111 111;
  D3 15 111 111 115; D3 15 111 111 115; D3 15 111 111 116; D3 15 111 111 116; D3 16 111 111 32; D3 16 111 111 37;
  D3 16 111 111 45; D3 16 111 111 46; D3 16 111 111 47; D3 16 111 111 51; D3 16 111 111 52; D3 16 111 111 53;
  D3 16 111 111 54; D3 16 111 111 55; D3 16 111 111 56; D3 16 111 111 57; D3 16 111 111 61; D3 16 111 111 65;
  D3 16 111 111 95; D3 16 111 111 98; D3 16 111 111 100; D3 16 111 111 102; D3 16 111 111 103; D3 16 111 111 104;
  D3 16 111 111 108; D3 16 111 111 109; D3 16 111 111 110; D3 16 111 111 112; D3 16 111 111 114; D3 16 111 111 117;
  D2 10 111 111; D2 10 111 111; D2 10 111 111; D2 10 111 111; D2 10 111 111; D2 10 111 111; D2 10 111 111;
  D2 10 111 111; D2 10 111 111; D2 10 111 111; D2 10 111 111; D2 10 111 111; D2 10 111 111; D2 10 111 111;
  D2 10 111 111; D2 10 111 111; D2 10 111 111; D2 10 111 111].
Definition hdecs_58 : list hdec := [
  D3 15 111 115 48; D3 15 111 115 48; D3 15 111 115 49; D3 15 111 115 49; D3 15 111 115 50; D3 15 111 115 50;
  D3 15 111 115 97; D3 15 111 115 97; D3 15 111 115 99; D3 15 111 115 99; D3 15 111 115 101; D3 15 111 115 101;
  D3 15 111 115 105; D3 15 111 115 105; D3 15 111 115 111; D3 15 111 115 111; D3 15 111 115 115; D3 15 111 115 115;
  D3 15 111 115 116; D3 15 111 115 116; D3 16 111 115 32; D3 16 111 115 37; D3 16 111 115 45; D3 16 111 115 46;
  D3 16 111 115 47; D3 16 111 115 51; D3 16 111 115 52; D3 16 111 115 53; D3 16 111 115 54; D3 16 111 115 55;
  D3 16 111 115 56; D3 16 111 115 57; D3 16 111 115 61; D3 16 111 115 65; D3 16 111 115 95; D3 16 111 115 98;
  D3 16 111 115 100; D3 16 111 115 102; D3 16 111 115 103; D3 16 111 115 104; D3 16 111 115 108; D3 16 111 115 109;
  D3 16 111 115 110; D3 16 111 115 112; D3 16 111 115 114; D3 16 111 115 117; D2 10 111 115; D2 10 111 115;
  D2 10 111 115; D2 10 111 115; D2 10 111 115; D2 10 111 115; D2 10 111 115; D2 10 111 115; D2 10 111 115;
  D2 10 111 115; D2 10 111 115; D2 10 111 115; D2 10 111 115; D2 10 111 115; D2 10 111 115; D2 10 111 115;
  D2 10 111 115; D2 10 111 115; D3 15 111 116 48; D3 15 111 116 48; D3 15 111 116 49; D3 15 111 116 49;
  D3 15 111 116 50; D3 15 111 116 50; D3 15 111 116 97; D3 15 111 116 97; D3 15 111 116 99; D3 15 111 116 99;
  D3 15 111 116 101; D3 15 111 116 101; D3 15 111 116 105; D3 15 111 116 105; D3 15 111 116 111; D3 15 111 116 111;
  D3 15 111 116 115; D3 15 111 116 115; D3 15 111 116 116; D3 15 111 116 116; D3 16 111 116 32; D3 16 111 116 37;
  D3 16 111 116 45; D3 16 111 116 46; D3 16 111 116 47; D3 16 111 116 51; D3 16 111 116 52; D3 16 111 116 53;
  D3 16 111 116 54; D3 16 111 116 55; D3 16 111 116 56; D3 16 111 116 57; D3 16 111 116 61; D3 16 111 116 65;
  D3 16 111 116 95; D3 16 111 116 98; D3 16 111 116 100; D3 16 111 116 102; D3 16 111 116 103; D3 16 111 116 104;
  D3 16 111 116 108; D3 16 111 116 109; D3 16 111 116 110; D3 16 111 116 112; D3 16 111 116 114; D3 16 111 116 117;
  D2 10 111 116; D2 10 111 116; D2 10 111 116; D2 10 111 116; D2 10 111 116; D2 10 111 116; D2 10 111 116;
  D2 10 111 116; D2 10 111 116; D2 10 111 116; D2 10 111 116; D2 10 111 116; D2 10 111 116; D2 10 111 116;
  D2 10 111 116; D2 10 111 116; D2 10 111 116; D2 10 111 116; D3 16 111 32 48; D3 16 111 32 49; D3 16 111 32 50;
  D3 16 111 32 97; D3 16 111 32 99; D3 16 111 32 101; D3 16 111 32 105; D3 16 111 32 111; D3 16 111 32 115;
  D3 16 111 32 116; D2 11 111 32; D2 11 111 32; D2 11 111 32; D2 11 111 32; D2 11 111 32; D2 11 111 32; D2 11 111 32;
  D2 11 111 32; D2 11 111 32; D2 11 111 32; D2 11 111 32; D2 11 111 32; D2 11 111 32; D2 11 111 32; D2 11 111 32;
  D2 11 111 32; D2 11 111 32; D2 11 111 32; D2 11 111 32; D2 11 111 32; D2 11 111 32; D2 11 111 32; D3 16 111 37 48;
  D3 16 111 37 49; D3 16 111 37 50; D3 16 111 37 97; D3 16 111 37 99; D3 16 111 37 101; D3 16 111 37 105;
  D3 16 111 37 111; D3 16 111 37 115; D3 16 111 37 116; D2 11 111 37; D2 11 111 37; D2 11 111 37; D2 11 111 37;
  D2 11 111 37; D2 11 111 37; D2 11 111 37; D2 11 111 37; D2 11 111 37; D2 11 111 37; D2 11 111 37; D2 11 111 37;
  D2 11 111 37; D2 11 111 37; D2 11 111 37; D2 11 111 37; D2 11 111 37; D2 11 111 37; D2 11 111 37; D2 11 111 37;
  D2 11 111 37; D2 11 111 37; D3 16 111 45 48; D3 16 111 45 49; D3 16 111 45 50; D3 16 111 45 97; D3 16 111 45 99;
  D3 16 111 45 101; D3 16 111 45 105; D3 16 111 45 111; D3 16 111 45 115; D3 16 111 45 116; D2 11 111 45;
  D2 11 111 45; D2 11 111 45; D2 11 111 45; D2 11 111 45; D2 11 111 45; D2 11 111 45; D2 11 111 45; D2 11 111 45;
  D2 11 111 45; D2 11 111 45; D2 11 111 45; D2 11 111 45; D2 11 111 45; D2 11 111 45; D2 11 111 45; D2 11 111 45;
  D2 11 111 45; D2 11 111 45; D2 11 111 45; D2 11 111 45; D2 11 111 45; D3 16 111 46 48; D3 16 111 46 49;
  D3 16 111 46 50; D3 16 111 46 97; D3 16 111 46 99; D3 16 111 46 101; D3 16 111 46 105; D3 16 111 46 111;
  D3 16 111 46 115; D3 16 111 46 116; D2 11 111 46; D2 11 111 46; D2 11 111 46; D2 11 111 46; D2 11 111 46;
  D2 11 111 46; D2 11 111 46; D2 11 111 46; D2 11 111 46; D2 11 111 46; D2 11 111 46; D2 11 111 46; D2 11 111 46;
  D2 11 111 46; D2 11 111 46; D2 11 111 46; D2 11 111 46; D2 11 111 46; D2 11 111 46; D2 11 111 46; D2 11 111 46;
  D2 11 111 46].
Definition hdecs_59 : list hdec := [
  D3 16 111 47 48; D3 16 111 47 49; D3 16 111 47 50; D3 16 111 47 97; D3 16 111 47 99; D3 16 111 47 101;
  D3 16 111 47 105; D3 16 111 47 111; D3 16 111 47 115; D3 16 111 47 116; D2 11 111 47; D2 11 111 47; D2 11 111 47;
  D2 11 111 47; D2 11 111 47; D2 11 111 47; D2 11 111 47; D2 11 111 47; D2 11 111 47; D2 11 111 47; D2 11 111 47;
  D2 11 111 47; D2 11 111 47; D2 11 111 47; D2 11 111 47; D2 11 111 47; D2 11 111 47; D2 11 111 47; D2 11 111 47;
  D2 11 111 47; D2 11 111 47; D2 11 111 47; D3 16 111 51 48; D3 16 111 51 49; D3 16 111 51 50; D3 16 111 51 97;
  D3 16 111 51 99; D3 16 111 51 101; D3 16 111 51 105; D3 16 111 51 111; D3 16 111 51 115; D3 16 111 51 116;
  D2 11 111 51; D2 11 111 51; D2 11 111 51; D2 11 111 51; D2 11 111 51; D2 11 111 51; D2 11 111 51; D2 11 111 51;
  D2 11 111 51; D2 11 111 51; D2 11 111 51; D2 11 111 51; D2 11 111 51; D2 11 111 51; D2 11 111 51; D2 11 111 51;
  D2 11 111 51; D2 11 111 51; D2 11 111 51; D2 11 111 51; D2 11 111 51; D2 11 111 51; D3 16 111 52 48;
  D3 16 111 52 49; D3 16 111 52 50; D3 16 111 52 97; D3 16 111 52 99; D3 16 111 52 101; D3 16 111 52 105;
  D3 16 111 52 111; D3 16 111 52 115; D3 16 111 52 116; D2 11 111 52; D2 11 111 52; D2 11 111 52; D2 11 111 52;
  D2 11 111 52; D2 11 111 52; D2 11 111 52; D2 11 111 52; D2 11 111 52; D2 11 111 52; D2 11 111 52; D2 11 111 52;
  D2 11 111 52; D2 11 111 52; D2 11 111 52; D2 11 111 52; D2 11 111 52; D2 11 111 52; D2 11 111 52; D2 11 111 52;
  D2 11 111 52; D2 11 111 52; D3 16 111 53 48; D3 16 111 53 49; D3 16 111 53 50; D3 16 111 53 97; D3 16 111 53 99;
  D3 16 111 53 101; D3 16 111 53 105; D3 16 111 53 111; D3 16 111 53 115; D3 16 111 53 116; D2 11 111 53;
  D2 11 111 53; D2 11 111 53; D2 11 111 53; D2 11 111 53; D2 11 111 53; D2 11 111 53; D2 11 111 53; D2 11 111 53;
  D2 11 111 53; D2 11 111 53; D2 11 111 53; D2 11 111 53; D2 11 111 53; D2 11 111 53; D2 11 111 53; D2 11 111 53;
  D2 11 111 53; D2 11 111 53; D2 11 111 53; D2 11 111 53; D2 11 111 53; D3 16 111 54 48; D3 16 111 54 49;
  D3 16 111 54 50; D3 16 111 54 97; D3 16 111 54 99; D3 16 111 54 101; D3 16 111 54 105; D3 16 111 54 111;
  D3 16 111 54 115; D3 16 111 54 116; D2 11 111 54; D2 11 111 54; D2 11 111 54; D2 11 111 54; D2 11 111 54;
  D2 11 111 54; D2 11 111 54; D2 11 111 54; D2 11 111 54; D2 11 111 54; D2 11 111 54; D2 11 111 54; D2 11 111 54;
  D2 11 111 54; D2 11 111 54; D2 11 111 54; D2 11 111 54; D2 11 111 54; D2 11 111 54; D2 11 111 54; D2 11 111 54;
  D2 11 111 54; D3 16 111 55 48; D3 16 111 55 49; D3 16 111 55 50; D3 16 111 55 97; D3 16 111 55 99; D3 16 111 55 101;
  D3 16 111 55 105; D3 16 111 55 111; D3 16 111 55 115; D3 16 111 55 116; D2 11 111 55; D2 11 111 55; D2 11 111 55;
  D2 11 111 55; D2 11 111 55; D2 11 111 55; D2 11 111 55; D2 11 111 55; D2 11 111 55; D2 11 111 55; D2 11 111 55;
  D2 11 111 55; D2 11 111 55; D2 11 111 55; D2 11 111 55; D2 11 111 55; D2 11 111 55; D2 11 111 55; D2 11 111 55;
  D2 11 111 55; D2 11 111 55; D2 11 111 55; D3 16 111 56 48; D3 16 111 56 49; D3 16 111 56 50; D3 16 111 56 97;
  D3 16 111 56 99; D3 16 111 56 101; D3 16 111 56 105; D3 16 111 56 111; D3 16 111 56 115; D3 16 111 56 116;
  D2 11 111 56; D2 11 111 56; D2 11 111 56; D2 11 111 56; D2 11 111 56; D2 11 111 56; D2 11 111 56; D2 11 111 56;
  D2 11 111 56; D2 11 111 56; D2 11 111 56; D2 11 111 56; D2 11 111 56; D2 11 111 56; D2 11 111 56; D2 11 111 56;
  D2 11 111 56; D2 11 111 56; D2 11 111 56; D2 11 111 56; D2 11 111 56; D2 11 111 56; D3 16 111 57 48;
  D3 16 111 57 49; D3 16 111 57 50; D3 16 111 57 97; D3 16 111 57 99; D3 16 111 57 101; D3 16 111 57 105;
  D3 16 111 57 111; D3 16 111 57 115; D3 16 111 57 116; D2 11 111 57; D2 11 111 57; D2 11 111 57; D2 11 111 57;
  D2 11 111 57; D2 11 111 57; D2 11 111 57; D2 11 111 57; D2 11 111 57; D2 11 111 57; D2 11 111 57; D2 11 111 57;
  D2 11 111 57; D2 11 111 57; D2 11 111 57; D2 11 111 57; D2 11 111 57; D2 11 111 57; D2 11 111 57; D2 11 111 57;
  D2 11 111 57; D2 11 111 57].
Definition hdecs_60 : list hdec := [
  D3 16 111 61 48; D3 16 111 61 49; D3 16 111 61 50; D3 16 111 61 97; D3 16 111 61 99; D3 16 111 61 101;
  D3 16 111 61 105; D3 16 111 61 111; D3 16 111 61 115; D3 16 111 61 116; D2 11 111 61; D2 11 111 61; D2 11 111 61;
  D2 11 111 61; D2 11 111 61; D2 11 111 61; D2 11 111 61; D2 11 111 61; D2 11 111 61; D2 11 111 61; D2 11 111 61;
  D2 11 111 61; D2 11 111 61; D2 11 111 61; D2 11 111 61; D2 11 111 61; D2 11 111 61; D2 11 111 61; D2 11 111 61;
  D2 11 111 61; D2 11 111 61; D2 11 111 61; D3 16 111 65 48; D3 16 111 65 49; D3 16 111 65 50; D3 16 111 65 97;
  D3 16 111 65 99; D3 16 111 65 101; D3 16 111 65 105; D3 16 111 65 111; D3 16 111 65 115; D3 16 111 65 116;
  D2 11 111 65; D2 11 111 65; D2 11 111 65; D2 11 111 65; D2 11 111 65; D2 11 111 65; D2 11 111 65; D2 11 111 65;
  D2 11 111 65; D2 11 111 65; D2 11 111 65; D2 11 111 65; D2 11 111 65; D2 11 111 65; D2 11 111 65; D2 11 111 65;
  D2 11 111 65; D2 11 111 65; D2 11 111 65; D2 11 111 65; D2 11 111 65; D2 11 111 65; D3 16 111 95 48;
  D3 16 111 95 49; D3 16 111 95 50; D3 16 111 95 97; D3 16 111 95 99; D3 16 111 95 101; D3 16 111 95 105;
  D3 16 111 95 111; D3 16 111 95 115; D3 16 111 95 116; D2 11 111 95; D2 11 111 95; D2 11 111 95; D2 11 111 95;
  D2 11 111 95; D2 11 111 95; D2 11 111 95; D2 11 111 95; D2 11 111 95; D2 11 111 95; D2 11 111 95; D2 11 111 95;
  D2 11 111 95; D2 11 111 95; D2 11 111 95; D2 11 111 95; D2 11 111 95; D2 11 111 95; D2 11 111 95; D2 11 111 95;
  D2 11 111 95; D2 11 111 95; D3 16 111 98 48; D3 16 111 98 49; D3 16 111 98 50; D3 16 111 98 97; D3 16 111 98 99;
  D3 16 111 98 101; D3 16 111 98 105; D3 16 111 98 111; D3 16 111 98 115; D3 16 111 98 116; D2 11 111 98;
  D2 11 111 98; D2 11 111 98; D2 11 111 98; D2 11 111 98; D2 11 111 98; D2 11 111 98; D2 11 111 98; D2 11 111 98;
  D2 11 111 98; D2 11 111 98; D2 11 111 98; D2 11 111 98; D2 11 111 98; D2 11 111 98; D2 11 111 98; D2 11 111 98;
  D2 11 111 98; D2 11 111 98; D2 11 111 98; D2 11 111 98; D2 11 111 98; D3 16 111 100 48; D3 16 111 100 49;
  D3 16 111 100 50; D3 16 111 100 97; D3 16 111 100 99; D3 16 111 100 101; D3 16 111 100 105; D3 16 111 100 111;
  D3 16 111 100 115; D3 16 111 100 116; D2 11 111 100; D2 11 111 100; D2 11 111 100; D2 11 111 100; D2 11 111 100;
  D2 11 111 100; D2 11 111 100; D2 11 111 100; D2 11 111 100; D2 11 111 100; D2 11 111 100; D2 11 111 100;
  D2 11 111 100; D2 11 111 100; D2 11 111 100; D2 11 111 100; D2 11 111 100; D2 11 111 100; D2 11 111 100;
  D2 11 111 100; D2 11 111 100; D2 11 111 100; D3 16 111 102 48; D3 16 111 102 49; D3 16 111 102 50; D3 16 111 102 97;
  D3 16 111 102 99; D3 16 111 102 101; D3 16 111 102 105; D3 16 111 102 111; D3 16 111 102 115; D3 16 111 102 116;
  D2 11 111 102; D2 11 111 102; D2 11 111 102; D2 11 111 102; D2 11 111 102; D2 11 111 102; D2 11 111 102;
  D2 11 111 102; D2 11 111 102; D2 11 111 102; D2 11 111 102; D2 11 111 102; D2 11 111 102; D2 11 111 102;
  D2 11 111 102; D2 11 111 102; D2 11 111 102; D2 11 111 102; D2 11 111 102; D2 11 111 102; D2 11 111 102;
  D2 11 111 102; D3 16 111 103 48; D3 16 111 103 49; D3 16 111 103 50; D3 16 111 103 97; D3 16 111 103 99;
  D3 16 111 103 101; D3 16 111 103 105; D3 16 111 103 111; D3 16 111 103 115; D3 16 111 103 116; D2 11 111 103;
  D2 11 111 103; D2 11 111 103; D2 11 111 103; D2 11 111 103; D2 11 111 103; D2 11 111 103; D2 11 111 103;
  D2 11 111 103; D2 11 111 103; D2 11 111 103; D2 11 111 103; D2 11 111 103; D2 11 111 103; D2 11 111 103;
  D2 11 111 103; D2 11 111 103; D2 11 111 103; D2 11 111 103; D2 11 111 103; D2 11 111 103; D2 11 111 103;
  D3 16 111 104 48; D3 16 111 104 49; D3 16 111 104 50; D3 16 111 104 97; D3 16 111 104 99; D3 16 111 104 101;
  D3 16 111 104 105; D3 16 111 104 111; D3 16 111 104 115; D3 16 111 104 116; D2 11 111 104; D2 11 111 104;
  D2 11 111 104; D2 11 111 104; D2 11 111 104; D2 11 111 104; D2 11 111 104; D2 11 111 104; D2 11 111 104;
  D2 11 111 104; D2 11 111 104; D2 11 111 104; D2 11 111 104; D2 11 111 104; D2 11 111 104; D2 11 111 104;
  D2 11 111 104; D2 11 111 104; D2 11 111 104; D2 11 111 104; D2 11 111 104; D2 11 111 104].
Definition hdecs_61 : list hdec := [
  D3 16 111 108 48; D3 16 111 108 49; D3 16 111 108 50; D3 16 111 108 97; D3 16 111 108 99; D3 16 111 108 101;
  D3 16 111 108 105; D3 16 111 108 111; D3 16 111 108 115; D3 16 111 108 116; D2 11 111 108; D2 11 111 108;
  D2 11 111 108; D2 11 111 108; D2 11 111 108; D2 11 111 108; D2 11 111 108; D2 11 111 108; D2 11 111 108;
  D2 11 111 108; D2 11 111 108; D2 11 111 108; D2 11 111 108; D2 11 111 108; D2 11 111 108; D2 11 111 108;
  D2 11 111 108; D2 11 111 108; D2 11 111 108; D2 11 111 108; D2 11 111 108; D2 11 111 108; D3 16 111 109 48;
  D3 16 111 109 49; D3 16 111 109 50; D3 16 111 109 97; D3 16 111 109 99; D3 16 111 109 101; D3 16 111 109 105;
  D3 16 111 109 111; D3 16 111 109 115; D3 16 111 109 116; D2 11 111 109; D2 11 111 109; D2 11 111 109; D2 11 111 109;
  D2 11 111 109; D2 11 111 109; D2 11 111 109; D2 11 111 109; D2 11 111 109; D2 11 111 109; D2 11 111 109;
  D2 11 111 109; D2 11 111 109; D2 11 111 109; D2 11 111 109; D2 11 111 109; D2 11 111 109; D2 11 111 109;
  D2 11 111 109; D2 11 111 109; D2 11 111 109; D2 11 111 109; D3 16 111 110 48; D3 16 111 110 49; D3 16 111 110 50;
  D3 16 111 110 97; D3 16 111 110 99; D3 16 111 110 101; D3 16 111 110 105; D3 16 111 110 111; D3 16 111 110 115;
  D3 16 111 110 116; D2 11 111 110; D2 11 111 110; D2 11 111 110; D2 11 111 110; D2 11 111 110; D2 11 111 110;
  D2 11 111 110; D2 11 111 110; D2 11 111 110; D2 11 111 110; D2 11 111 110; D2 11 111 110; D2 11 111 110;
  D2 11 111 110; D2 11 111 110; D2 11 111 110; D2 11 111 110; D2 11 111 110; D2 11 111 110; D2 11 111 110;
  D2 11 111 110; D2 11 111 110; D3 16 111 112 48; D3 16 111 112 49; D3 16 111 112 50; D3 16 111 112 97;
  D3 16 111 112 99; D3 16 111 112 101; D3 16 111 112 105; D3 16 111 112 111; D3 16 111 112 115; D3 16 111 112 116;
  D2 11 111 112; D2 11 111 112; D2 11 111 112; D2 11 111 112; D2 11 111 112; D2 11 111 112; D2 11 111 112;
  D2 11 111 112; D2 11 111 112; D2 11 111 112; D2 11 111 112; D2 11 111 112; D2 11 111 112; D2 11 111 112;
  D2 11 111 112; D2 11 111 112; D2 11 111 112; D2 11 111 112; D2 11 111 112; D2 11 111 112; D2 11 111 112;
  D2 11 111 112; D3 16 111 114 48; D3 16 111 114 49; D3 16 111 114 50; D3 16 111 114 97; D3 16 111 114 99;
  D3 16 111 114 101; D3 16 111 114 105; D3 16 111 114 111; D3 16 111 114 115; D3 16 111 114 116; D2 11 111 114;
  D2 11 111 114; D2 11 111 114; D2 11 111 114; D2 11 111 114; D2 11 111 114; D2 11 111 114; D2 11 111 114;
  D2 11 111 114; D2 11 111 114; D2 11 111 114; D2 11 111 114; D2 11 111 114; D2 11 111 114; D2 11 111 114;
  D2 11 111 114; D2 11 111 114; D2 11 111 114; D2 11 111 114; D2 11 111 114; D2 11 111 114; D2 11 111 114;
  D3 16 111 117 48; D3 16 111 117 49; D3 16 111 117 50; D3 16 111 117 97; D3 16 111 117 99; D3 16 111 117 101;
  D3 16 111 117 105; D3 16 111 117 111; D3 16 111 117 115; D3 16 111 117 116; D2 11 111 117; D2 11 111 117;
  D2 11 111 117; D2 11 111 117; D2 11 111 117; D2 11 111 117; D2 11 111 117; D2 11 111 117; D2 11 111 117;
  D2 11 111 117; D2 11 111 117; D2 11 111 117; D2 11 111 117; D2 11 111 117; D2 11 111 117; D2 11 111 117;
  D2 11 111 117; D2 11 111 117; D2 11 111 117; D2 11 111 117; D2 11 111 117; D2 11 111 117; D2 12 111 58;
  D2 12 111 58; D2 12 111 58; D2 12 111 58; D2 12 111 58; D2 12 111 58; D2 12 111 58; D2 12 111 58; D2 12 111 58;
  D2 12 111 58; D2 12 111 58; D2 12 111 58; D2 12 111 58; D2 12 111 58; D2 12 111 58; D2 12 111 58; D2 12 111 66;
  D2 12 111 66; D2 12 111 66; D2 12 111 66; D2 12 111 66; D2 12 111 66; D2 12 111 66; D2 12 111 66; D2 12 111 66;
  D2 12 111 66; D2 12 111 66; D2 12 111 66; D2 12 111 66; D2 12 111 66; D2 12 111 66; D2 12 111 66; D2 12 111 67;
  D2 12 111 67; D2 12 111 67; D2 12 111 67; D2 12 111 67; D2 12 111 67; D2 12 111 67; D2 12 111 67; D2 12 111 67;
  D2 12 111 67; D2 12 111 67; D2 12 111 67; D2 12 111 67; D2 12 111 67; D2 12 111 67; D2 12 111 67; D2 12 111 68;
  D2 12 111 68; D2 12 111 68; D2 12 111 68; D2 12 111 68; D2 12 111 68; D2 12 111 68; D2 12 111 68; D2 12 111 68;
  D2 12 111 68; D2 12 111 68; D2 12 111 68; D2 12 111 68; D2 12 111 68; D2 12 111 68; D2 12 111 68].
Definition hdecs_62 : list hdec := [
  D2 12 111 69; D2 12 111 69; D2 12 111 69; D2 12 111 69; D2 12 111 69; D2 12 111 69; D2 12 111 69; D2 12 111 69;
  D2 12 111 69; D2 12 111 69; D2 12 111 69; D2 12 111 69; D2 12 111 69; D2 12 111 69; D2 12 111 69; D2 12 111 69;
  D2 12 111 70; D2 12 111 70; D2 12 111 70; D2 12 111 70; D2 12 111 70; D2 12 111 70; D2 12 111 70; D2 12 111 70;
  D2 12 111 70; D2 12 111 70; D2 12 111 70; D2 12 111 70; D2 12 111 70; D2 12 111 70; D2 12 111 70; D2 12 111 70;
  D2 12 111 71; D2 12 111 71; D2 12 111 71; D2 12 111 71; D2 12 111 71; D2 12 111 71; D2 12 111 71; D2 12 111 71;
  D2 12 111 71; D2 12 111 71; D2 12 111 71; D2 12 111 71; D2 12 111 71; D2 12 111 71; D2 12 111 71; D2 12 111 71;
  D2 12 111 72; D2 12 111 72; D2 12 111 72; D2 12 111 72; D2 12 111 72; D2 12 111 72; D2 12 111 72; D2 12 111 72;
  D2 12 111 72; D2 12 111 72; D2 12 111 72; D2 12 111 72; D2 12 111 72; D2 12 111 72; D2 12 111 72; D2 12 111 72;
  D2 12 111 73; D2 12 111 73; D2 12 111 73; D2 12 111 73; D2 12 111 73; D2 12 111 73; D2 12 111 73; D2 12 111 73;
  D2 12 111 73; D2 12 111 73; D2 12 111 73; D2 12 111 73; D2 12 111 73; D2 12 111 73; D2 12 111 73; D2 12 111 73;
  D2 12 111 74; D2 12 111 74; D2 12 111 74; D2 12 111 74; D2 12 111 74; D2 12 111 74; D2 12 111 74; D2 12 111 74;
  D2 12 111 74; D2 12 111 74; D2 12 111 74; D2 12 111 74; D2 12 111 74; D2 12 111 74; D2 12 111 74; D2 12 111 74;
  D2 12 111 75; D2 12 111 75; D2 12 111 75; D2 12 111 75; D2 12 111 75; D2 12 111 75; D2 12 111 75; D2 12 111 75;
  D2 12 111 75; D2 12 111 75; D2 12 111 75; D2 12 111 75; D2 12 111 75; D2 12 111 75; D2 12 111 75; D2 12 111 75;
  D2 12 111 76; D2 12 111 76; D2 12 111 76; D2 12 111 76; D2 12 111 76; D2 12 111 76; D2 12 111 76; D2 12 111 76;
  D2 12 111 76; D2 12 111 76; D2 12 111 76; D2 12 111 76; D2 12 111 76; D2 12 111 76; D2 12 111 76; D2 12 111 76;
  D2 12 111 77; D2 12 111 77; D2 12 111 77; D2 12 111 77; D2 12 111 77; D2 12 111 77; D2 12 111 77; D2 12 111 77;
  D2 12 111 77; D2 12 111 77; D2 12 111 77; D2 12 111 77; D2 12 111 77; D2 12 111 77; D2 12 111 77; D2 12 111 77;
  D2 12 111 78; D2 12 111 78; D2 12 111 78; D2 12 111 78; D2 12 111 78; D2 12 111 78; D2 12 111 78; D2 12 111 78;
  D2 12 111 78; D2 12 111 78; D2 12 111 78; D2 12 111 78; D2 12 111 78; D2 12 111 78; D2 12 111 78; D2 12 111 78;
  D2 12 111 79; D2 12 111 79; D2 12 111 79; D2 12 111 79; D2 12 111 79; D2 12 111 79; D2 12 111 79; D2 12 111 79;
  D2 12 111 79; D2 12 111 79; D2 12 111 79; D2 12 111 79; D2 12 111 79; D2 12 111 79; D2 12 111 79; D2 12 111 79;
  D2 12 111 80; D2 12 111 80; D2 12 111 80; D2 12 111 80; D2 12 111 80; D2 12 111 80; D2 12 111 80; D2 12 111 80;
  D2 12 111 80; D2 12 111 80; D2 12 111 80; D2 12 111 80; D2 12 111 80; D2 12 111 80; D2 12 111 80; D2 12 111 80;
  D2 12 111 81; D2 12 111 81; D2 12 111 81; D2 12 111 81; D2 12 111 81; D2 12 111 81; D2 12 111 81; D2 12 111 81;
  D2 12 111 81; D2 12 111 81; D2 12 111 81; D2 12 111 81; D2 12 111 81; D2 12 111 81; D2 12 111 81; D2 12 111 81;
  D2 12 111 82; D2 12 111 82; D2 12 111 82; D2 12 111 82; D2 12 111 82; D2 12 111 82; D2 12 111 82; D2 12 111 82;
  D2 12 111 82; D2 12 111 82; D2 12 111 82; D2 12 111 82; D2 12 111 82; D2 12 111 82; D2 12 111 82; D2 12 111 82;
  D2 12 111 83; D2 12 111 83; D2 12 111 83; D2 12 111 83; D2 12 111 83; D2 12 111 83; D2 12 111 83; D2 12 111 83;
  D2 12 111 83; D2 12 111 83; D2 12 111 83; D2 12 111 83; D2 12 111 83; D2 12 111 83; D2 12 111 83; D2 12 111 83;
  D2 12 111 84; D2 12 111 84; D2 12 111 84; D2 12 111 84; D2 12 111 84; D2 12 111 84; D2 12 111 84; D2 12 111 84;
  D2 12 111 84; D2 12 111 84; D2 12 111 84; D2 12 111 84; D2 12 111 84; D2 12 111 84; D2 12 111 84; D2 12 111 84].
Definition hdecs_63 : list hdec := [
  D2 12 111 85; D2 12 111 85; D2 12 111 85; D2 12 111 85; D2 12 111 85; D2 12 111 85; D2 12 111 85; D2 12 111 85;
  D2 12 111 85; D2 12 111 85; D2 12 111 85; D2 12 111 85; D2 12 111 85; D2 12 111 85; D2 12 111 85; D2 12 111 85;
  D2 12 111 86; D2 12 111 86; D2 12 111 86; D2 12 111 86; D2 12 111 86; D2 12 111 86; D2 12 111 86; D2 12 111 86;
  D2 12 111 86; D2 12 111 86; D2 12 111 86; D2 12 111 86; D2 12 111 86; D2 12 111 86; D2 12 111 86; D2 12 111 86;
  D2 12 111 87; D2 12 111 87; D2 12 111 87; D2 12 111 87; D2 12 111 87; D2 12 111 87; D2 12 111 87; D2 12 111 87;
  D2 12 111 87; D2 12 111 87; D2 12 111 87; D2 12 111 87; D2 12 111 87; D2 12 111 87; D2 12 111 87; D2 12 111 87;
  D2 12 111 89; D2 12 111 89; D2 12 111 89; D2 12 111 89; D2 12 111 89; D2 12 111 89; D2 12 111 89; D2 12 111 89;
  D2 12 111 89; D2 12 111 89; D2 12 111 89; D2 12 111 89; D2 12 111 89; D2 12 111 89; D2 12 111 89; D2 12 111 89;
  D2 12 111 106; D2 12 111 106; D2 12 111 106; D2 12 111 106; D2 12 111 106; D2 12 111 106; D2 12 111 106;
  D2 12 111 106; D2 12 111 106; D2 12 111 106; D2 12 111 106; D2 12 111 106; D2 12 111 106; D2 12 111 106;
  D2 12 111 106; D2 12 111 106; D2 12 111 107; D2 12 111 107; D2 12 111 107; D2 12 111 107; D2 12 111 107;
  D2 12 111 107; D2 12 111 107; D2 12 111 107; D2 12 111 107; D2 12 111 107; D2 12 111 107; D2 12 111 107;
  D2 12 111 107; D2 12 111 107; D2 12 111 107; D2 12 111 107; D2 12 111 113; D2 12 111 113; D2 12 111 113;
  D2 12 111 113; D2 12 111 113; D2 12 111 113; D2 12 111 113; D2 12 111 113; D2 12 111 113; D2 12 111 113;
  D2 12 111 113; D2 12 111 113; D2 12 111 113; D2 12 111 113; D2 12 111 113; D2 12 111 113; D2 12 111 118;
  D2 12 111 118; D2 12 111 118; D2 12 111 118; D2 12 111 118; D2 12 111 118; D2 12 111 118; D2 12 111 118;
  D2 12 111 118; D2 12 111 118; D2 12 111 118; D2 12 111 118; D2 12 111 118; D2 12 111 118; D2 12 111 118;
  D2 12 111 118; D2 12 111 119; D2 12 111 119; D2 12 111 119; D2 12 111 119; D2 12 111 119; D2 12 111 119;
  D2 12 111 119; D2 12 111 119; D2 12 111 119; D2 12 111 119; D2 12 111 119; D2 12 111 119; D2 12 111 119;
  D2 12 111 119; D2 12 111 119; D2 12 111 119; D2 12 111 120; D2 12 111 120; D2 12 111 120; D2 12 111 120;
  D2 12 111 120; D2 12 111 120; D2 12 111 120; D2 12 111 120; D2 12 111 120; D2 12 111 120; D2 12 111 120;
  D2 12 111 120; D2 12 111 120; D2 12 111 120; D2 12 111 120; D2 12 111 120; D2 12 111 121; D2 12 111 121;
  D2 12 111 121; D2 12 111 121; D2 12 111 121; D2 12 111 121; D2 12 111 121; D2 12 111 121; D2 12 111 121;
  D2 12 111 121; D2 12 111 121; D2 12 111 121; D2 12 111 121; D2 12 111 121; D2 12 111 121; D2 12 111 121;
  D2 12 111 122; D2 12 111 122; D2 12 111 122; D2 12 111 122; D2 12 111 122; D2 12 111 122; D2 12 111 122;
  D2 12 111 122; D2 12 111 122; D2 12 111 122; D2 12 111 122; D2 12 111 122; D2 12 111 122; D2 12 111 122;
  D2 12 111 122; D2 12 111 122; D2 13 111 38; D2 13 111 38; D2 13 111 38; D2 13 111 38; D2 13 111 38; D2 13 111 38;
  D2 13 111 38; D2 13 111 38; D2 13 111 42; D2 13 111 42; D2 13 111 42; D2 13 111 42; D2 13 111 42; D2 13 111 42;
  D2 13 111 42; D2 13 111 42; D2 13 111 44; D2 13 111 44; D2 13 111 44; D2 13 111 44; D2 13 111 44; D2 13 111 44;
  D2 13 111 44; D2 13 111 44; D2 13 111 59; D2 13 111 59; D2 13 111 59; D2 13 111 59; D2 13 111 59; D2 13 111 59;
  D2 13 111 59; D2 13 111 59; D2 13 111 88; D2 13 111 88; D2 13 111 88; D2 13 111 88; D2 13 111 88; D2 13 111 88;
  D2 13 111 88; D2 13 111 88; D2 13 111 90; D2 13 111 90; D2 13 111 90; D2 13 111 90; D2 13 111 90; D2 13 111 90;
  D2 13 111 90; D2 13 111 90; D2 15 111 33; D2 15 111 33; D2 15 111 34; D2 15 111 34; D2 15 111 40; D2 15 111 40;
  D2 15 111 41; D2 15 111 41; D2 15 111 63; D2 15 111 63; D2 16 111 39; D2 16 111 43; D2 16 111 124; D1 5 111;
  D1 5 111; D1 5 111].
Definition hdecs_64 : list hdec := [
  D3 15 115 48 48; D3 15 115 48 48; D3 15 115 48 49; D3 15 115 48 49; D3 15 115 48 50; D3 15 115 48 50;
  D3 15 115 48 97; D3 15 115 48 97; D3 15 115 48 99; D3 15 115 48 99; D3 15 115 48 101; D3 15 115 48 101;
  D3 15 115 48 105; D3 15 115 48 105; D3 15 115 48 111; D3 15 115 48 111; D3 15 115 48 115; D3 15 115 48 115;
  D3 15 115 48 116; D3 15 115 48 116; D3 16 115 48 32; D3 16 115 48 37; D3 16 115 48 45; D3 16 115 48 46;
  D3 16 115 48 47; D3 16 115 48 51; D3 16 115 48 52; D3 16 115 48 53; D3 16 115 48 54; D3 16 115 48 55;
  D3 16 115 48 56; D3 16 115 48 57; D3 16 115 48 61; D3 16 115 48 65; D3 16 115 48 95; D3 16 115 48 98;
  D3 16 115 48 100; D3 16 115 48 102; D3 16 115 48 103; D3 16 115 48 104; D3 16 115 48 108; D3 16 115 48 109;
  D3 16 115 48 110; D3 16 115 48 112; D3 16 115 48 114; D3 16 115 48 117; D2 10 115 48; D2 10 115 48; D2 10 115 48;
  D2 10 115 48; D2 10 115 48; D2 10 115 48; D2 10 115 48; D2 10 115 48; D2 10 115 48; D2 10 115 48; D2 10 115 48;
  D2 10 115 48; D2 10 115 48; D2 10 115 48; D2 10 115 48; D2 10 115 48; D2 10 115 48; D2 10 115 48; D3 15 115 49 48;
  D3 15 115 49 48; D3 15 115 49 49; D3 15 115 49 49; D3 15 115 49 50; D3 15 115 49 50; D3 15 115 49 97;
  D3 15 115 49 97; D3 15 115 49 99; D3 15 115 49 99; D3 15 115 49 101; D3 15 115 49 101; D3 15 115 49 105;
  D3 15 115 49 105; D3 15 115 49 111; D3 15 115 49 111; D3 15 115 49 115; D3 15 115 49 115; D3 15 115 49 116;
  D3 15 115 49 116; D3 16 115 49 32; D3 16 115 49 37; D3 16 115 49 45; D3 16 115 49 46; D3 16 115 49 47;
  D3 16 115 49 51; D3 16 115 49 52; D3 16 115 49 53; D3 16 115 49 54; D3 16 115 49 55; D3 16 115 49 56;
  D3 16 115 49 57; D3 16 115 49 61; D3 16 115 49 65; D3 16 115 49 95; D3 16 115 49 98; D3 16 115 49 100;
  D3 16 115 49 102; D3 16 115 49 103; D3 16 115 49 104; D3 16 115 49 108; D3 16 115 49 109; D3 16 115 49 110;
  D3 16 115 49 112; D3 16 115 49 114; D3 16 115 49 117; D2 10 115 49; D2 10 115 49; D2 10 115 49; D2 10 115 49;
  D2 10 115 49; D2 10 115 49; D2 10 115 49; D2 10 115 49; D2 10 115 49; D2 10 115 49; D2 10 115 49; D2 10 115 49;
  D2 10 115 49; D2 10 115 49; D2 10 115 49; D2 10 115 49; D2 10 115 49; D2 10 115 49; D3 15 115 50 48;
  D3 15 115 50 48; D3 15 115 50 49; D3 15 115 50 49; D3 15 115 50 50; D3 15 115 50 50; D3 15 115 50 97;
  D3 15 115 50 97; D3 15 115 50 99; D3 15 115 50 99; D3 15 115 50 101; D3 15 115 50 101; D3 15 115 50 105;
  D3 15 115 50 105; D3 15 115 50 111; D3 15 115 50 111; D3 15 115 50 115; D3 15 115 50 115; D3 15 115 50 116;
  D3 15 115 50 116; D3 16 115 50 32; D3 16 115 50 37; D3 16 115 50 45; D3 16 115 50 46; D3 16 115 50 47;
  D3 16 115 50 51; D3 16 115 50 52; D3 16 115 50 53; D3 16 115 50 54; D3 16 115 50 55; D3 16 115 50 56;
  D3 16 115 50 57; D3 16 115 50 61; D3 16 115 50 65; D3 16 115 50 95; D3 16 115 50 98; D3 16 115 50 100;
  D3 16 115 50 102; D3 16 115 50 103; D3 16 115 50 104; D3 16 115 50 108; D3 16 115 50 109; D3 16 115 50 110;
  D3 16 115 50 112; D3 16 115 50 114; D3 16 115 50 117; D2 10 115 50; D2 10 115 50; D2 10 115 50; D2 10 115 50;
  D2 10 115 50; D2 10 115 50; D2 10 115 50; D2 10 115 50; D2 10 115 50; D2 10 115 50; D2 10 115 50; D2 10 115 50;
  D2 10 115 50; D2 10 115 50; D2 10 115 50; D2 10 115 50; D2 10 115 50; D2 10 115 50; D3 15 115 97 48;
  D3 15 115 97 48; D3 15 115 97 49; D3 15 115 97 49; D3 15 115 97 50; D3 15 115 97 50; D3 15 115 97 97;
  D3 15 115 97 97; D3 15 115 97 99; D3 15 115 97 99; D3 15 115 97 101; D3 15 115 97 101; D3 15 115 97 105;
  D3 15 115 97 105; D3 15 115 97 111; D3 15 115 97 111; D3 15 115 97 115; D3 15 115 97 115; D3 15 115 97 116;
  D3 15 115 97 116; D3 16 115 97 32; D3 16 115 97 37; D3 16 115 97 45; D3 16 115 97 46; D3 16 115 97 47;
  D3 16 115 97 51; D3 16 115 97 52; D3 16 115 97 53; D3 16 115 97 54; D3 16 115 97 55; D3 16 115 97 56;
  D3 16 115 97 57; D3 16 115 97 61; D3 16 115 97 65; D3 16 115 97 95; D3 16 115 97 98; D3 16 115 97 100;
  D3 16 115 97 102; D3 16 115 97 103; D3 16 115 97 104; D3 16 115 97 108; D3 16 115 97 109; D3 16 115 97 110;
  D3 16 115 97 112; D3 16 115 97 114; D3 16 115 97 117; D2 10 115 97; D2 10 115 97; D2 10 115 97; D2 10 115 97;
  D2 10 115 97; D2 10 115 97; D2 10 115 97; D2 10 115 97; D2 10 115 97; D2 10 115 97; D2 10 115 97; D2 10 115 97;
  D2 10 115 97; D2 10 115 97; D2 10 115 97; D2 10 115 97; D2 10 115 97; D2 10 115 97].
Definition hdecs_65 : list hdec := [
  D3 15 115 99 48; D3 15 115 99 48; D3 15 115 99 49; D3 15 115 99 49; D3 15 115 99 50; D3 15 115 99 50;
  D3 15 115 99 97; D3 15 115 99 97; D3 15 115 99 99; D3 15 115 99 99; D3 15 115 99 101; D3 15 115 99 101;
  D3 15 115 99 105; D3 15 115 99 105; D3 15 115 99 111; D3 15 115 99 111; D3 15 115 99 115; D3 15 115 99 115;
  D3 15 115 99 116; D3 15 115 99 116; D3 16 115 99 32; D3 16 115 99 37; D3 16 115 99 45; D3 16 115 99 46;
  D3 16 115 99 47; D3 16 115 99 51; D3 16 115 99 52; D3 16 115 99 53; D3 16 115 99 54; D3 16 115 99 55;
  D3 16 115 99 56; D3 16 115 99 57; D3 16 115 99 61; D3 16 115 99 65; D3 16 115 99 95; D3 16 115 99 98;
  D3 16 115 99 100; D3 16 115 99 102; D3 16 115 99 103; D3 16 115 99 104; D3 16 115 99 108; D3 16 115 99 109;
  D3 16 115 99 110; D3 16 115 99 112; D3 16 115 99 114; D3 16 115 99 117; D2 10 115 99; D2 10 115 99; D2 10 115 99;
  D2 10 115 99; D2 10 115 99; D2 10 115 99; D2 10 115 99; D2 10 115 99; D2 10 115 99; D2 10 115 99; D2 10 115 99;
  D2 10 115 99; D2 10 115 99; D2 10 115 99; D2 10 115 99; D2 10 115 99; D2 10 115 99; D2 10 115 99; D3 15 115 101 48;
  D3 15 115 101 48; D3 15 115 101 49; D3 15 115 101 49; D3 15 115 101 50; D3 15 115 101 50; D3 15 115 101 97;
  D3 15 115 101 97; D3 15 115 101 99; D3 15 115 101 99; D3 15 115 101 101; D3 15 115 101 101; D3 15 115 101 105;
  D3 15 115 101 105; D3 15 115 101 111; D3 15 115 101 111; D3 15 115 101 115; D3 15 115 101 115; D3 15 115 101 116;
  D3 15 115 101 116; D3 16 115 101 32; D3 16 115 101 37; D3 16 115 101 45; D3 16 115 101 46; D3 16 115 101 47;
  D3 16 115 101 51; D3 16 115 101 52; D3 16 115 101 53; D3 16 115 101 54; D3 16 115 101 55; D3 16 115 101 56;
  D3 16 115 101 57; D3 16 115 101 61; D3 16 115 101 65; D3 16 115 101 95; D3 16 115 101 98; D3 16 115 101 100;
  D3 16 115 101 102; D3 16 115 101 103; D3 16 115 101 104; D3 16 115 101 108; D3 16 115 101 109; D3 16 115 101 110;
  D3 16 115 101 112; D3 16 115 101 114; D3 16 115 101 117; D2 10 115 101; D2 10 115 101; D2 10 115 101; D2 10 115 101;
  D2 10 115 101; D2 10 115 101; D2 10 115 101; D2 10 115 101; D2 10 115 101; D2 10 115 101; D2 10 115 101;
  D2 10 115 101; D2 10 115 101; D2 10 115 101; D2 10 115 101; D2 10 115 101; D2 10 115 101; D2 10 115 101;
  D3 15 115 105 48; D3 15 115 105 48; D3 15 115 105 49; D3 15 115 105 49; D3 15 115 105 50; D3 15 115 105 50;
  D3 15 115 105 97; D3 15 115 105 97; D3 15 115 105 99; D3 15 115 105 99; D3 15 115 105 101; D3 15 115 105 101;
  D3 15 115 105 105; D3 15 115 105 105; D3 15 115 105 111; D3 15 115 105 111; D3 15 115 105 115; D3 15 115 105 115;
  D3 15 115 105 116; D3 15 115 105 116; D3 16 115 105 32; D3 16 115 105 37; D3 16 115 105 45; D3 16 115 105 46;
  D3 16 115 105 47; D3 16 115 105 51; D3 16 115 105 52; D3 16 115 105 53; D3 16 115 105 54; D3 16 115 105 55;
  D3 16 115 105 56; D3 16 115 105 57; D3 16 115 105 61; D3 16 115 105 65; D3 16 115 105 95; D3 16 115 105 98;
  D3 16 115 105 100; D3 16 115 105 102; D3 16 115 105 103; D3 16 115 105 104; D3 16 115 105 108; D3 16 115 105 109;
  D3 16 115 105 110; D3 16 115 105 112; D3 16 115 105 114; D3 16 115 105 117; D2 10 115 105; D2 10 115 105;
  D2 10 115 105; D2 10 115 105; D2 10 115 105; D2 10 115 105; D2 10 115 105; D2 10 115 105; D2 10 115 105;
  D2 10 115 105; D2 10 115 105; D2 10 115 105; D2 10 115 105; D2 10 115 105; D2 10 115 105; D2 10 115 105;
  D2 10 115 105; D2 10 115 105; D3 15 115 111 48; D3 15 115 111 48; D3 15 115 111 49; D3 15 115 111 49;
  D3 15 115 111 50; D3 15 115 111 50; D3 15 115 111 97; D3 15 115 111 97; D3 15 115 111 99; D3 15 115 111 99;
  D3 15 115 111 101; D3 15 115 111 101; D3 15 115 111 105; D3 15 115 111 105; D3 15 115 111 111; D3 15 115 111 111;
  D3 15 115 111 115; D3 15 115 111 115; D3 15 115 111 116; D3 15 115 111 116; D3 16 115 111 32; D3 16 115 111 37;
  D3 16 115 111 45; D3 16 115 111 46; D3 16 115 111 47; D3 16 115 111 51; D3 16 115 111 52; D3 16 115 111 53;
  D3 16 115 111 54; D3 16 115 111 55; D3 16 115 111 56; D3 16 115 111 57; D3 16 115 111 61; D3 16 115 111 65;
  D3 16 115 111 95; D3 16 115 111 98; D3 16 115 111 100; D3 16 115 111 102; D3 16 115 111 103; D3 16 115 111 104;
  D3 16 115 111 108; D3 16 115 111 109; D3 16 115 111 110; D3 16 115 111 112; D3 16 115 111 114; D3 16 115 111 117;
  D2 10 115 111; D2 10 115 111; D2 10 115 111; D2 10 115 111; D2 10 115 111; D2 10 115 111; D2 10 115 111;
  D2 10 115 111; D2 10 115 111; D2 10 115 111; D2 10 115 111; D2 10 115 111; D2 10 115 111; D2 10 115 111;
  D2 10 115 111; D2 10 115 111; D2 10 115 111; D2 10 115 111].
Definition hdecs_66 : list hdec := [
  D3 15 115 115 48; D3 15 115 115 48; D3 15 115 115 49; D3 15 115 115 49; D3 15 115 115 50; D3 15 115 115 50;
  D3 15 115 115 97; D3 15 115 115 97; D3 15 115 115 99; D3 15 115 115 99; D3 15 115 115 101; D3 15 115 115 101;
  D3 15 115 115 105; D3 15 115 115 105; D3 15 115 115 111; D3 15 115 115 111; D3 15 115 115 115; D3 15 115 115 115;
  D3 15 115 115 116; D3 15 115 115 116; D3 16 115 115 32; D3 16 115 115 37; D3 16 115 115 45; D3 16 115 115 46;
  D3 16 115 115 47; D3 16 115 115 51; D3 16 115 115 52; D3 16 115 115 53; D3 16 115 115 54; D3 16 115 115 55;
  D3 16 115 115 56; D3 16 115 115 57; D3 16 115 115 61; D3 16 115 115 65; D3 16 115 115 95; D3 16 115 115 98;
  D3 16 115 115 100; D3 16 115 115 102; D3 16 115 115 103; D3 16 115 115 104; D3 16 115 115 108; D3 16 115 115 109;
  D3 16 115 115 110; D3 16 115 115 112; D3 16 115 115 114; D3 16 115 115 117; D2 10 115 115; D2 10 115 115;
  D2 10 115 115; D2 10 115 115; D2 10 115 115; D2 10 115 115; D2 10 115 115; D2 10 115 115; D2 10 115 115;
  D2 10 115 115; D2 10 115 115; D2 10 115 115; D2 10 115 115; D2 10 115 115; D2 10 115 115; D2 10 115 115;
  D2 10 115 115; D2 10 115 115; D3 15 115 116 48; D3 15 115 116 48; D3 15 115 116 49; D3 15 115 116 49;
  D3 15 115 116 50; D3 15 115 116 50; D3 15 115 116 97; D3 15 115 116 97; D3 15 115 116 99; D3 15 115 116 99;
  D3 15 115 116 101; D3 15 115 116 101; D3 15 115 116 105; D3 15 115 116 105; D3 15 115 116 111; D3 15 115 116 111;
  D3 15 115 116 115; D3 15 115 116 115; D3 15 115 116 116; D3 15 115 116 116; D3 16 115 116 32; D3 16 115 116 37;
  D3 16 115 116 45; D3 16 115 116 46; D3 16 115 116 47; D3 16 115 116 51; D3 16 115 116 52; D3 16 115 116 53;
  D3 16 115 116 54; D3 16 115 116 55; D3 16 115 116 56; D3 16 115 116 57; D3 16 115 116 61; D3 16 115 116 65;
  D3 16 115 116 95; D3 16 115 116 98; D3 16 115 116 100; D3 16 115 116 102; D3 16 115 116 103; D3 16 115 116 104;
  D3 16 115 116 108; D3 16 115 116 109; D3 16 115 116 110; D3 16 115 116 112; D3 16 115 116 114; D3 16 115 116 117;
  D2 10 115 116; D2 10 115 116; D2 10 115 116; D2 10 115 116; D2 10 115 116; D2 10 115 116; D2 10 115 116;
  D2 10 115 116; D2 10 115 116; D2 10 115 116; D2 10 115 116; D2 10 115 116; D2 10 115 116; D2 10 115 116;
  D2 10 115 116; D2 10 115 116; D2 10 115 116; D2 10 115 116; D3 16 115 32 48; D3 16 115 32 49; D3 16 115 32 50;
  D3 16 115 32 97; D3 16 115 32 99; D3 16 115 32 101; D3 16 115 32 105; D3 16 115 32 111; D3 16 115 32 115;
  D3 16 115 32 116; D2 11 115 32; D2 11 115 32; D2 11 115 32; D2 11 115 32; D2 11 115 32; D2 11 115 32; D2 11 115 32;
  D2 11 115 32; D2 11 115 32; D2 11 115 32; D2 11 115 32; D2 11 115 32; D2 11 115 32; D2 11 115 32; D2 11 115 32;
  D2 11 115 32; D2 11 115 32; D2 11 115 32; D2 11 115 32; D2 11 115 32; D2 11 115 32; D2 11 115 32; D3 16 115 37 48;
  D3 16 115 37 49; D3 16 115 37 50; D3 16 115 37 97; D3 16 115 37 99; D3 16 115 37 101; D3 16 115 37 105;
  D3 16 115 37 111; D3 16 115 37 115; D3 16 115 37 116; D2 11 115 37; D2 11 115 37; D2 11 115 37; D2 11 115 37;
  D2 11 115 37; D2 11 115 37; D2 11 115 37; D2 11 115 37; D2 11 115 37; D2 11 115 37; D2 11 115 37; D2 11 115 37;
  D2 11 115 37; D2 11 115 37; D2 11 115 37; D2 11 115 37; D2 11 115 37; D2 11 115 37; D2 11 115 37; D2 11 115 37;
  D2 11 115 37; D2 11 115 37; D3 16 115 45 48; D3 16 115 45 49; D3 16 115 45 50; D3 16 115 45 97; D3 16 115 45 99;
  D3 16 115 45 101; D3 16 115 45 105; D3 16 115 45 111; D3 16 115 45 115; D3 16 115 45 116; D2 11 115 45;
  D2 11 115 45; D2 11 115 45; D2 11 115 45; D2 11 115 45; D2 11 115 45; D2 11 115 45; D2 11 115 45; D2 11 115 45;
  D2 11 115 45; D2 11 115 45; D2 11 115 45; D2 11 115 45; D2 11 115 45; D2 11 115 45; D2 11 115 45; D2 11 115 45;
  D2 11 115 45; D2 11 115 45; D2 11 115 45; D2 11 115 45; D2 11 115 45; D3 16 115 46 48; D3 16 115 46 49;
  D3 16 115 46 50; D3 16 115 46 97; D3 16 115 46 99; D3 16 115 46 101; D3 16 115 46 105; D3 16 115 46 111;
  D3 16 115 46 115; D3 16 115 46 116; D2 11 115 46; D2 11 115 46; D2 11 115 46; D2 11 115 46; D2 11 115 46;
  D2 11 115 46; D2 11 115 46; D2 11 115 46; D2 11 115 46; D2 11 115 46; D2 11 115 46; D2 11 115 46; D2 11 115 46;
  D2 11 115 46; D2 11 115 46; D2 11 115 46; D2 11 115 46; D2 11 115 46; D2 11 115 46; D2 11 115 46; D2 11 115 46;
  D2 11 115 46].
Definition hdecs_67 : list hdec := [
  D3 16 115 47 48; D3 16 115 47 49; D3 16 115 47 50; D3 16 115 47 97; D3 16 115 47 99; D3 16 115 47 101;
  D3 16 115 47 105; D3 16 115 47 111; D3 16 115 47 115; D3 16 115 47 116; D2 11 115 47; D2 11 115 47; D2 11 115 47;
  D2 11 115 47; D2 11 115 47; D2 11 115 47; D2 11 115 47; D2 11 115 47; D2 11 115 47; D2 11 115 47; D2 11 115 47;
  D2 11 115 47; D2 11 115 47; D2 11 115 47; D2 11 115 47; D2 11 115 47; D2 11 115 47; D2 11 115 47; D2 11 115 47;
  D2 11 115 47; D2 11 115 47; D2 11 115 47; D3 16 115 51 48; D3 16 115 51 49; D3 16 115 51 50; D3 16 115 51 97;
  D3 16 115 51 99; D3 16 115 51 101; D3 16 115 51 105; D3 16 115 51 111; D3 16 115 51 115; D3 16 115 51 116;
  D2 11 115 51; D2 11 115 51; D2 11 115 51; D2 11 115 51; D2 11 115 51; D2 11 115 51; D2 11 115 51; D2 11 115 51;
  D2 11 115 51; D2 11 115 51; D2 11 115 51; D2 11 115 51; D2 11 115 51; D2 11 115 51; D2 11 115 51; D2 11 115 51;
  D2 11 115 51; D2 11 115 51; D2 11 115 51; D2 11 115 51; D2 11 115 51; D2 11 115 51; D3 16 115 52 48;
  D3 16 115 52 49; D3 16 115 52 50; D3 16 115 52 97; D3 16 115 52 99; D3 16 115 52 101; D3 16 115 52 105;
  D3 16 115 52 111; D3 16 115 52 115; D3 16 115 52 116; D2 11 115 52; D2 11 115 52; D2 11 115 52; D2 11 115 52;
  D2 11 115 52; D2 11 115 52; D2 11 115 52; D2 11 115 52; D2 11 115 52; D2 11 115 52; D2 11 115 52; D2 11 115 52;
  D2 11 115 52; D2 11 115 52; D2 11 115 52; D2 11 115 52; D2 11 115 52; D2 11 115 52; D2 11 115 52; D2 11 115 52;
  D2 11 115 52; D2 11 115 52; D3 16 115 53 48; D3 16 115 53 49; D3 16 115 53 50; D3 16 115 53 97; D3 16 115 53 99;
  D3 16 115 53 101; D3 16 115 53 105; D3 16 115 53 111; D3 16 115 53 115; D3 16 115 53 116; D2 11 115 53;
  D2 11 115 53; D2 11 115 53; D2 11 115 53; D2 11 115 53; D2 11 115 53; D2 11 115 53; D2 11 115 53; D2 11 115 53;
  D2 11 115 53; D2 11 115 53; D2 11 115 53; D2 11 115 53; D2 11 115 53; D2 11 115 53; D2 11 115 53; D2 11 115 53;
  D2 11 115 53; D2 11 115 53; D2 11 115 53; D2 11 115 53; D2 11 115 53; D3 16 115 54 48; D3 16 115 54 49;
  D3 16 115 54 50; D3 16 115 54 97; D3 16 115 54 99; D3 16 115 54 101; D3 16 115 54 105; D3 16 115 54 111;
  D3 16 115 54 115; D3 16 115 54 116; D2 11 115 54; D2 11 115 54; D2 11 115 54; D2 11 115 54; D2 11 115 54;
  D2 11 115 54; D2 11 115 54; D2 11 115 54; D2 11 115 54; D2 11 115 54; D2 11 115 54; D2 11 115 54; D2 11 115 54;
  D2 11 115 54; D2 11 115 54; D2 11 115 54; D2 11 115 54; D2 11 115 54; D2 11 115 54; D2 11 115 54; D2 11 115 54;
  D2 11 115 54; D3 16 115 55 48; D3 16 115 55 49; D3 16 115 55 50; D3 16 115 55 97; D3 16 115 55 99; D3 16 115 55 101;
  D3 16 115 55 105; D3 16 115 55 111; D3 16 115 55 115; D3 16 115 55 116; D2 11 115 55; D2 11 115 55; D2 11 115 55;
  D2 11 115 55; D2 11 115 55; D2 11 115 55; D2 11 115 55; D2 11 115 55; D2 11 115 55; D2 11 115 55; D2 11 115 55;
  D2 11 115 55; D2 11 115 55; D2 11 115 55; D2 11 115 55; D2 11 115 55; D2 11 115 55; D2 11 115 55; D2 11 115 55;
  D2 11 115 55; D2 11 115 55; D2 11 115 55; D3 16 115 56 48; D3 16 115 56 49; D3 16 115 56 50; D3 16 115 56 97;
  D3 16 115 56 99; D3 16 115 56 101; D3 16 115 56 105; D3 16 115 56 111; D3 16 115 56 115; D3 16 115 56 116;
  D2 11 115 56; D2 11 115 56; D2 11 115 56; D2 11 115 56; D2 11 115 56; D2 11 115 56; D2 11 115 56; D2 11 115 56;
  D2 11 115 56; D2 11 115 56; D2 11 115 56; D2 11 115 56; D2 11 115 56; D2 11 115 56; D2 11 115 56; D2 11 115 56;
  D2 11 115 56; D2 11 115 56; D2 11 115 56; D2 11 115 56; D2 11 115 56; D2 11 115 56; D3 16 115 57 48;
  D3 16 115 57 49; D3 16 115 57 50; D3 16 115 57 97; D3 16 115 57 99; D3 16 115 57 101; D3 16 115 57 105;
  D3 16 115 57 111; D3 16 115 57 115; D3 16 115 57 116; D2 11 115 57; D2 11 115 57; D2 11 115 57; D2 11 115 57;
  D2 11 115 57; D2 11 115 57; D2 11 115 57; D2 11 115 57; D2 11 115 57; D2 11 115 57; D2 11 115 57; D2 11 115 57;
  D2 11 115 57; D2 11 115 57; D2 11 115 57; D2 11 115 57; D2 11 115 57; D2 11 115 57; D2 11 115 57; D2 11 115 57;
  D2 11 115 57; D2 11 115 57].
Definition hdecs_68 : list hdec := [
  D3 16 115 61 48; D3 16 115 61 49; D3 16 115 61 50; D3 16 115 61 97; D3 16 115 61 99; D3 16 115 61 101;
  D3 16 115 61 105; D3 16 115 61 111; D3 16 115 61 115; D3 16 115 61 116; D2 11 115 61; D2 11 115 61; D2 11 115 61;
  D2 11 115 61; D2 11 115 61; D2 11 115 61; D2 11 115 61; D2 11 115 61; D2 11 115 61; D2 11 115 61; D2 11 115 61;
  D2 11 115 61; D2 11 115 61; D2 11 115 61; D2 11 115 61; D2 11 115 61; D2 11 115 61; D2 11 115 61; D2 11 115 61;
  D2 11 115 61; D2 11 115 61; D2 11 115 61; D3 16 115 65 48; D3 16 115 65 49; D3 16 115 65 50; D3 16 115 65 97;
  D3 16 115 65 99; D3 16 115 65 101; D3 16 115 65 105; D3 16 115 65 111; D3 16 115 65 115; D3 16 115 65 116;
  D2 11 115 65; D2 11 115 65; D2 11 115 65; D2 11 115 65; D2 11 115 65; D2 11 115 65; D2 11 115 65; D2 11 115 65;
  D2 11 115 65; D2 11 115 65; D2 11 115 65; D2 11 115 65; D2 11 115 65; D2 11 115 65; D2 11 115 65; D2 11 115 65;
  D2 11 115 65; D2 11 115 65; D2 11 115 65; D2 11 115 65; D2 11 115 65; D2 11 115 65; D3 16 115 95 48;
  D3 16 115 95 49; D3 16 115 95 50; D3 16 115 95 97; D3 16 115 95 99; D3 16 115 95 101; D3 16 115 95 105;
  D3 16 115 95 111; D3 16 115 95 115; D3 16 115 95 116; D2 11 115 95; D2 11 115 95; D2 11 115 95; D2 11 115 95;
  D2 11 115 95; D2 11 115 95; D2 11 115 95; D2 11 115 95; D2 11 115 95; D2 11 115 95; D2 11 115 95; D2 11 115 95;
  D2 11 115 95; D2 11 115 95; D2 11 115 95; D2 11 115 95; D2 11 115 95; D2 11 115 95; D2 11 115 95; D2 11 115 95;
  D2 11 115 95; D2 11 115 95; D3 16 115 98 48; D3 16 115 98 49; D3 16 115 98 50; D3 16 115 98 97; D3 16 115 98 99;
  D3 16 115 98 101; D3 16 115 98 105; D3 16 115 98 111; D3 16 115 98 115; D3 16 115 98 116; D2 11 115 98;
  D2 11 115 98; D2 11 115 98; D2 11 115 98; D2 11 115 98; D2 11 115 98; D2 11 115 98; D2 11 115 98; D2 11 115 98;
  D2 11 115 98; D2 11 115 98; D2 11 115 98; D2 11 115 98; D2 11 115 98; D2 11 115 98; D2 11 115 98; D2 11 115 98;
  D2 11 115 98; D2 11 115 98; D2 11 115 98; D2 11 115 98; D2 11 115 98; D3 16 115 100 48; D3 16 115 100 49;
  D3 16 115 100 50; D3 16 115 100 97; D3 16 115 100 99; D3 16 115 100 101; D3 16 115 100 105; D3 16 115 100 111;
  D3 16 115 100 115; D3 16 115 100 116; D2 11 115 100; D2 11 115 100; D2 11 115 100; D2 11 115 100; D2 11 115 100;
  D2 11 115 100; D2 11 115 100; D2 11 115 100; D2 11 115 100; D2 11 115 100; D2 11 115 100; D2 11 115 100;
  D2 11 115 100; D2 11 115 100; D2 11 115 100; D2 11 115 100; D2 11 115 100; D2 11 115 100; D2 11 115 100;
  D2 11 115 100; D2 11 115 100; D2 11 115 100; D3 16 115 102 48; D3 16 115 102 49; D3 16 115 102 50; D3 16 115 102 97;
  D3 16 115 102 99; D3 16 115 102 101; D3 16 115 102 105; D3 16 115 102 111; D3 16 115 102 115; D3 16 115 102 116;
  D2 11 115 102; D2 11 115 102; D2 11 115 102; D2 11 115 102; D2 11 115 102; D2 11 115 102; D2 11 115 102;
  D2 11 115 102; D2 11 115 102; D2 11 115 102; D2 11 115 102; D2 11 115 102; D2 11 115 102; D2 11 115 102;
  D2 11 115 102; D2 11 115 102; D2 11 115 102; D2 11 115 102; D2 11 115 102; D2 11 115 102; D2 11 115 102;
  D2 11 115 102; D3 16 115 103 48; D3 16 115 103 49; D3 16 115 103 50; D3 16 115 103 97; D3 16 115 103 99;
  D3 16 115 103 101; D3 16 115 103 105; D3 16 115 103 111; D3 16 115 103 115; D3 16 115 103 116; D2 11 115 103;
  D2 11 115 103; D2 11 115 103; D2 11 115 103; D2 11 115 103; D2 11 115 103; D2 11 115 103; D2 11 115 103;
  D2 11 115 103; D2 11 115 103; D2 11 115 103; D2 11 115 103; D2 11 115 103; D2 11 115 103; D2 11 115 103;
  D2 11 115 103; D2 11 115 103; D2 11 115 103; D2 11 115 103; D2 11 115 103; D2 11 115 103; D2 11 115 103;
  D3 16 115 104 48; D3 16 115 104 49; D3 16 115 104 50; D3 16 115 104 97; D3 16 115 104 99; D3 16 115 104 101;
  D3 16 115 104 105; D3 16 115 104 111; D3 16 115 104 115; D3 16 115 104 116; D2 11 115 104; D2 11 115 104;
  D2 11 115 104; D2 11 115 104; D2 11 115 104; D2 11 115 104; D2 11 115 104; D2 11 115 104; D2 11 115 104;
  D2 11 115 104; D2 11 115 104; D2 11 115 104; D2 11 115 104; D2 11 115 104; D2 11 115 104; D2 11 115 104;
  D2 11 115 104; D2 11 115 104; D2 11 115 104; D2 11 115 104; D2 11 115 104; D2 11 115 104].
Definition hdecs_69 : list hdec := [
  D3 16 115 108 48; D3 16 115 108 49; D3 16 115 108 50; D3 16 115 108 97; D3 16 115 108 99; D3 16 115 108 101;
  D3 16 115 108 105; D3 16 115 108 111; D3 16 115 108 115; D3 16 115 108 116; D2 11 115 108; D2 11 115 108;
  D2 11 115 108; D2 11 115 108; D2 11 115 108; D2 11 115 108; D2 11 115 108; D2 11 115 108; D2 11 115 108;
  D2 11 115 108; D2 11 115 108; D2 11 115 108; D2 11 115 108; D2 11 115 108; D2 11 115 108; D2 11 115 108;
  D2 11 115 108; D2 11 115 108; D2 11 115 108; D2 11 115 108; D2 11 115 108; D2 11 115 108; D3 16 115 109 48;
  D3 16 115 109 49; D3 16 115 109 50; D3 16 115 109 97; D3 16 115 109 99; D3 16 115 109 101; D3 16 115 109 105;
  D3 16 115 109 111; D3 16 115 109 115; D3 16 115 109 116; D2 11 115 109; D2 11 115 109; D2 11 115 109; D2 11 115 109;
  D2 11 115 109; D2 11 115 109; D2 11 115 109; D2 11 115 109; D2 11 115 109; D2 11 115 109; D2 11 115 109;
  D2 11 115 109; D2 11 115 109; D2 11 115 109; D2 11 115 109; D2 11 115 109; D2 11 115 109; D2 11 115 109;
  D2 11 115 109; D2 11 115 109; D2 11 115 109; D2 11 115 109; D3 16 115 110 48; D3 16 115 110 49; D3 16 115 110 50;
  D3 16 115 110 97; D3 16 115 110 99; D3 16 115 110 101; D3 16 115 110 105; D3 16 115 110 111; D3 16 115 110 115;
  D3 16 115 110 116; D2 11 115 110; D2 11 115 110; D2 11 115 110; D2 11 115 110; D2 11 115 110; D2 11 115 110;
  D2 11 115 110; D2 11 115 110; D2 11 115 110; D2 11 115 110; D2 11 115 110; D2 11 115 110; D2 11 115 110;
  D2 11 115 110; D2 11 115 110; D2 11 115 110; D2 11 115 110; D2 11 115 110; D2 11 115 110; D2 11 115 110;
  D2 11 115 110; D2 11 115 110; D3 16 115 112 48; D3 16 115 112 49; D3 16 115 112 50; D3 16 115 112 97;
  D3 16 115 112 99; D3 16 115 112 101; D3 16 115 112 105; D3 16 115 112 111; D3 16 115 112 115; D3 16 115 112 116;
  D2 11 115 112; D2 11 115 112; D2 11 115 112; D2 11 115 112; D2 11 115 112; D2 11 115 112; D2 11 115 112;
  D2 11 115 112; D2 11 115 112; D2 11 115 112; D2 11 115 112; D2 11 115 112; D2 11 115 112; D2 11 115 112;
  D2 11 115 112; D2 11 115 112; D2 11 115 112; D2 11 115 112; D2 11 115 112; D2 11 115 112; D2 11 115 112;
  D2 11 115 112; D3 16 115 114 48; D3 16 115 114 49; D3 16 115 114 50; D3 16 115 114 97; D3 16 115 114 99;
  D3 16 115 114 101; D3 16 115 114 105; D3 16 115 114 111; D3 16 115 114 115; D3 16 115 114 116; D2 11 115 114;
  D2 11 115 114; D2 11 115 114; D2 11 115 114; D2 11 115 114; D2 11 115 114; D2 11 115 114; D2 11 115 114;
  D2 11 115 114; D2 11 115 114; D2 11 115 114; D2 11 115 114; D2 11 115 114; D2 11 115 114; D2 11 115 114;
  D2 11 115 114; D2 11 115 114; D2 11 115 114; D2 11 115 114; D2 11 115 114; D2 11 115 114; D2 11 115 114;
  D3 16 115 117 48; D3 16 115 117 49; D3 16 115 117 50; D3 16 115 117 97; D3 16 115 117 99; D3 16 115 117 101;
  D3 16 115 117 105; D3 16 115 117 111; D3 16 115 117 115; D3 16 115 117 116; D2 11 115 117; D2 11 115 117;
  D2 11 115 117; D2 11 115 117; D2 11 115 117; D2 11 115 117; D2 11 115 117; D2 11 115 117; D2 11 115 117;
  D2 11 115 117; D2 11 115 117; D2 11 115 117; D2 11 115 117; D2 11 115 117; D2 11 115 117; D2 11 115 117;
  D2 11 115 117; D2 11 115 117; D2 11 115 117; D2 11 115 117; D2 11 115 117; D2 11 115 117; D2 12 115 58;
  D2 12 115 58; D2 12 115 58; D2 12 115 58; D2 12 115 58; D2 12 115 58; D2 12 115 58; D2 12 115 58; D2 12 115 58;
  D2 12 115 58; D2 12 115 58; D2 12 115 58; D2 12 115 58; D2 12 115 58; D2 12 115 58; D2 12 115 58; D2 12 115 66;
  D2 12 115 66; D2 12 115 66; D2 12 115 66; D2 12 115 66; D2 12 115 66; D2 12 115 66; D2 12 115 66; D2 12 115 66;
  D2 12 115 66; D2 12 115 66; D2 12 115 66; D2 12 115 66; D2 12 115 66; D2 12 115 66; D2 12 115 66; D2 12 115 67;
  D2 12 115 67; D2 12 115 67; D2 12 115 67; D2 12 115 67; D2 12 115 67; D2 12 115 67; D2 12 115 67; D2 12 115 67;
  D2 12 115 67; D2 12 115 67; D2 12 115 67; D2 12 115 67; D2 12 115 67; D2 12 115 67; D2 12 115 67; D2 12 115 68;
  D2 12 115 68; D2 12 115 68; D2 12 115 68; D2 12 115 68; D2 12 115 68; D2 12 115 68; D2 12 115 68; D2 12 115 68;
  D2 12 115 68; D2 12 115 68; D2 12 115 68; D2 12 115 68; D2 12 115 68; D2 12 115 68; D2 12 115 68].
Definition hdecs_70 : list hdec := [
  D2 12 115 69; D2 12 115 69; D2 12 115 69; D2 12 115 69; D2 12 115 69; D2 12 115 69; D2 12 115 69; D2 12 115 69;
  D2 12 115 69; D2 12 115 69; D2 12 115 69; D2 12 115 69; D2 12 115 69; D2 12 115 69; D2 12 115 69; D2 12 115 69;
  D2 12 115 70; D2 12 115 70; D2 12 115 70; D2 12 115 70; D2 12 115 70; D2 12 115 70; D2 12 115 70; D2 12 115 70;
  D2 12 115 70; D2 12 115 70; D2 12 115 70; D2 12 115 70; D2 12 115 70; D2 12 115 70; D2 12 115 70; D2 12 115 70;
  D2 12 115 71; D2 12 115 71; D2 12 115 71; D2 12 115 71; D2 12 115 71; D2 12 115 71; D2 12 115 71; D2 12 115 71;
  D2 12 115 71; D2 12 115 71; D2 12 115 71; D2 12 115 71; D2 12 115 71; D2 12 115 71; D2 12 115 71; D2 12 115 71;
  D2 12 115 72; D2 12 115 72; D2 12 115 72; D2 12 115 72; D2 12 115 72; D2 12 115 72; D2 12 115 72; D2 12 115 72;
  D2 12 115 72; D2 12 115 72; D2 12 115 72; D2 12 115 72; D2 12 115 72; D2 12 115 72; D2 12 115 72; D2 12 115 72;
  D2 12 115 73; D2 12 115 73; D2 12 115 73; D2 12 115 73; D2 12 115 73; D2 12 115 73; D2 12 115 73; D2 12 115 73;
  D2 12 115 73; D2 12 115 73; D2 12 115 73; D2 12 115 73; D2 12 115 73; D2 12 115 73; D2 12 115 73; D2 12 115 73;
  D2 12 115 74; D2 12 115 74; D2 12 115 74; D2 12 115 74; D2 12 115 74; D2 12 115 74; D2 12 115 74; D2 12 115 74;
  D2 12 115 74; D2 12 115 74; D2 12 115 74; D2 12 115 74; D2 12 115 74; D2 12 115 74; D2 12 115 74; D2 12 115 74;
  D2 12 115 75; D2 12 115 75; D2 12 115 75; D2 12 115 75; D2 12 115 75; D2 12 115 75; D2 12 115 75; D2 12 115 75;
  D2 12 115 75; D2 12 115 75; D2 12 115 75; D2 12 115 75; D2 12 115 75; D2 12 115 75; D2 12 115 75; D2 12 115 75;
  D2 12 115 76; D2 12 115 76; D2 12 115 76; D2 12 115 76; D2 12 115 76; D2 12 115 76; D2 12 115 76; D2 12 115 76;
  D2 12 115 76; D2 12 115 76; D2 12 115 76; D2 12 115 76; D2 12 115 76; D2 12 115 76; D2 12 115 76; D2 12 115 76;
  D2 12 115 77; D2 12 115 77; D2 12 115 77; D2 12 115 77; D2 12 115 77; D2 12 115 77; D2 12 115 77; D2 12 115 77;
  D2 12 115 77; D2 12 115 77; D2 12 115 77; D2 12 115 77; D2 12 115 77; D2 12 115 77; D2 12 115 77; D2 12 115 77;
  D2 12 115 78; D2 12 115 78; D2 12 115 78; D2 12 115 78; D2 12 115 78; D2 12 115 78; D2 12 115 78; D2 12 115 78;
  D2 12 115 78; D2 12 115 78; D2 12 115 78; D2 12 115 78; D2 12 115 78; D2 12 115 78; D2 12 115 78; D2 12 115 78;
  D2 12 115 79; D2 12 115 79; D2 12 115 79; D2 12 115 79; D2 12 115 79; D2 12 115 79; D2 12 115 79; D2 12 115 79;
  D2 12 115 79; D2 12 115 79; D2 12 115 79; D2 12 115 79; D2 12 115 79; D2 12 115 79; D2 12 115 79; D2 12 115 79;
  D2 12 115 80; D2 12 115 80; D2 12 115 80; D2 12 115 80; D2 12 115 80; D2 12 115 80; D2 12 115 80; D2 12 115 80;
  D2 12 115 80; D2 12 115 80; D2 12 115 80; D2 12 115 80; D2 12 115 80; D2 12 115 80; D2 12 115 80; D2 12 115 80;
  D2 12 115 81; D2 12 115 81; D2 12 115 81; D2 12 115 81; D2 12 115 81; D2 12 115 81; D2 12 115 81; D2 12 115 81;
  D2 12 115 81; D2 12 115 81; D2 12 115 81; D2 12 115 81; D2 12 115 81; D2 12 115 81; D2 12 115 81; D2 12 115 81;
  D2 12 115 82; D2 12 115 82; D2 12 115 82; D2 12 115 82; D2 12 115 82; D2 12 115 82; D2 12 115 82; D2 12 115 82;
  D2 12 115 82; D2 12 115 82; D2 12 115 82; D2 12 115 82; D2 12 115 82; D2 12 115 82; D2 12 115 82; D2 12 115 82;
  D2 12 115 83; D2 12 115 83; D2 12 115 83; D2 12 115 83; D2 12 115 83; D2 12 115 83; D2 12 115 83; D2 12 115 83;
  D2 12 115 83; D2 12 115 83; D2 12 115 83; D2 12 115 83; D2 12 115 83; D2 12 115 83; D2 12 115 83; D2 12 115 83;
  D2 12 115 84; D2 12 115 84; D2 12 115 84; D2 12 115 84; D2 12 115 84; D2 12 115 84; D2 12 115 84; D2 12 115 84;
  D2 12 115 84; D2 12 115 84; D2 12 115 84; D2 12 115 84; D2 12 115 84; D2 12 115 84; D2 12 115 84; D2 12 115 84].
Definition hdecs_71 : list hdec := [
  D2 12 115 85; D2 12 115 85; D2 12 115 85; D2 12 115 85; D2 12 115 85; D2 12 115 85; D2 12 115 85; D2 12 115 85;
  D2 12 115 85; D2 12 115 85; D2 12 115 85; D2 12 115 85; D2 12 115 85; D2 12 115 85; D2 12 115 85; D2 12 115 85;
  D2 12 115 86; D2 12 115 86; D2 12 115 86; D2 12 115 86; D2 12 115 86; D2 12 115 86; D2 12 115 86; D2 12 115 86;
  D2 12 115 86; D2 12 115 86; D2 12 115 86; D2 12 115 86; D2 12 115 86; D2 12 115 86; D2 12 115 86; D2 12 115 86;
  D2 12 115 87; D2 12 115 87; D2 12 115 87; D2 12 115 87; D2 12 115 87; D2 12 115 87; D2 12 115 87; D2 12 115 87;
  D2 12 115 87; D2 12 115 87; D2 12 115 87; D2 12 115 87; D2 12 115 87; D2 12 115 87; D2 12 115 87; D2 12 115 87;
  D2 12 115 89; D2 12 115 89; D2 12 115 89; D2 12 115 89; D2 12 115 89; D2 12 115 89; D2 12 115 89; D2 12 115 89;
  D2 12 115 89; D2 12 115 89; D2 12 115 89; D2 12 115 89; D2 12 115 89; D2 12 115 89; D2 12 115 89; D2 12 115 89;
  D2 12 115 106; D2 12 115 106; D2 12 115 106; D2 12 115 106; D2 12 115 106; D2 12 115 106; D2 12 115 106;
  D2 12 115 106; D2 12 115 106; D2 12 115 106; D2 12 115 106; D2 12 115 106; D2 12 115 106; D2 12 115 106;
  D2 12 115 106; D2 12 115 106; D2 12 115 107; D2 12 115 107; D2 12 115 107; D2 12 115 107; D2 12 115 107;
  D2 12 115 107; D2 12 115 107; D2 12 115 107; D2 12 115 107; D2 12 115 107; D2 12 115 107; D2 12 115 107;
  D2 12 115 107; D2 12 115 107; D2 12 115 107; D2 12 115 107; D2 12 115 113; D2 12 115 113; D2 12 115 113;
  D2 12 115 113; D2 12 115 113; D2 12 115 113; D2 12 115 113; D2 12 115 113; D2 12 115 113; D2 12 115 113;
  D2 12 115 113; D2 12 115 113; D2 12 115 113; D2 12 115 113; D2 12 115 113; D2 12 115 113; D2 12 115 118;
  D2 12 115 118; D2 12 115 118; D2 12 115 118; D2 12 115 118; D2 12 115 118; D2 12 115 118; D2 12 115 118;
  D2 12 115 118; D2 12 115 118; D2 12 115 118; D2 12 115 118; D2 12 115 118; D2 12 115 118; D2 12 115 118;
  D2 12 115 118; D2 12 115 119; D2 12 115 119; D2 12 115 119; D2 12 115 119; D2 12 115 119; D2 12 115 119;
  D2 12 115 119; D2 12 115 119; D2 12 115 119; D2 12 115 119; D2 12 115 119; D2 12 115 119; D2 12 115 119;
  D2 12 115 119; D2 12 115 119; D2 12 115 119; D2 12 115 120; D2 12 115 120; D2 12 115 120; D2 12 115 120;
  D2 12 115 120; D2 12 115 120; D2 12 115 120; D2 12 115 120; D2 12 115 120; D2 12 115 120; D2 12 115 120;
  D2 12 115 120; D2 12 115 120; D2 12 115 120; D2 12 115 120; D2 12 115 120; D2 12 115 121; D2 12 115 121;
  D2 12 115 121; D2 12 115 121; D2 12 115 121; D2 12 115 121; D2 12 115 121; D2 12 115 121; D2 12 115 121;
  D2 12 115 121; D2 12 115 121; D2 12 115 121; D2 12 115 121; D2 12 115 121; D2 12 115 121; D2 12 115 121;
  D2 12 115 122; D2 12 115 122; D2 12 115 122; D2 12 115 122; D2 12 115 122; D2 12 115 122; D2 12 115 122;
  D2 12 115 122; D2 12 115 122; D2 12 115 122; D2 12 115 122; D2 12 115 122; D2 12 115 122; D2 12 115 122;
  D2 12 115 122; D2 12 115 122; D2 13 115 38; D2 13 115 38; D2 13 115 38; D2 13 115 38; D2 13 115 38; D2 13 115 38;
  D2 13 115 38; D2 13 115 38; D2 13 115 42; D2 13 115 42; D2 13 115 42; D2 13 115 42; D2 13 115 42; D2 13 115 42;
  D2 13 115 42; D2 13 115 42; D2 13 115 44; D2 13 115 44; D2 13 115 44; D2 13 115 44; D2 13 115 44; D2 13 115 44;
  D2 13 115 44; D2 13 115 44; D2 13 115 59; D2 13 115 59; D2 13 115 59; D2 13 115 59; D2 13 115 59; D2 13 115 59;
  D2 13 115 59; D2 13 115 59; D2 13 115 88; D2 13 115 88; D2 13 115 88; D2 13 115 88; D2 13 115 88; D2 13 115 88;
  D2 13 115 88; D2 13 115 88; D2 13 115 90; D2 13 115 90; D2 13 115 90; D2 13 115 90; D2 13 115 90; D2 13 115 90;
  D2 13 115 90; D2 13 115 90; D2 15 115 33; D2 15 115 33; D2 15 115 34; D2 15 115 34; D2 15 115 40; D2 15 115 40;
  D2 15 115 41; D2 15 115 41; D2 15 115 63; D2 15 115 63; D2 16 115 39; D2 16 115 43; D2 16 115 124; D1 5 115;
  D1 5 115; D1 5 115].
Definition hdecs_72 : list hdec := [
  D3 15 116 48 48; D3 15 116 48 48; D3 15 116 48 49; D3 15 116 48 49; D3 15 116 48 50; D3 15 116 48 50;
  D3 15 116 48 97; D3 15 116 48 97; D3 15 116 48 99; D3 15 116 48 99; D3 15 116 48 101; D3 15 116 48 101;
  D3 15 116 48 105; D3 15 116 48 105; D3 15 116 48 111; D3 15 116 48 111; D3 15 116 48 115; D3 15 116 48 115;
  D3 15 116 48 116; D3 15 116 48 116; D3 16 116 48 32; D3 16 116 48 37; D3 16 116 48 45; D3 16 116 48 46;
  D3 16 116 48 47; D3 16 116 48 51; D3 16 116 48 52; D3 16 116 48 53; D3 16 116 48 54; D3 16 116 48 55;
  D3 16 116 48 56; D3 16 116 48 57; D3 16 116 48 61; D3 16 116 48 65; D3 16 116 48 95; D3 16 116 48 98;
  D3 16 116 48 100; D3 16 116 48 102; D3 16 116 48 103; D3 16 116 48 104; D3 16 116 48 108; D3 16 116 48 109;
  D3 16 116 48 110; D3 16 116 48 112; D3 16 116 48 114; D3 16 116 48 117; D2 10 116 48; D2 10 116 48; D2 10 116 48;
  D2 10 116 48; D2 10 116 48; D2 10 116 48; D2 10 116 48; D2 10 116 48; D2 10 116 48; D2 10 116 48; D2 10 116 48;
  D2 10 116 48; D2 10 116 48; D2 10 116 48; D2 10 116 48; D2 10 116 48; D2 10 116 48; D2 10 116 48; D3 15 116 49 48;
  D3 15 116 49 48; D3 15 116 49 49; D3 15 116 49 49; D3 15 116 49 50; D3 15 116 49 50; D3 15 116 49 97;
  D3 15 116 49 97; D3 15 116 49 99; D3 15 116 49 99; D3 15 116 49 101; D3 15 116 49 101; D3 15 116 49 105;
  D3 15 116 49 105; D3 15 116 49 111; D3 15 116 49 111; D3 15 116 49 115; D3 15 116 49 115; D3 15 116 49 116;
  D3 15 116 49 116; D3 16 116 49 32; D3 16 116 49 37; D3 16 116 49 45; D3 16 116 49 46; D3 16 116 49 47;
  D3 16 116 49 51; D3 16 116 49 52; D3 16 116 49 53; D3 16 116 49 54; D3 16 116 49 55; D3 16 116 49 56;
  D3 16 116 49 57; D3 16 116 49 61; D3 16 116 49 65; D3 16 116 49 95; D3 16 116 49 98; D3 16 116 49 100;
  D3 16 116 49 102; D3 16 116 49 103; D3 16 116 49 104; D3 16 116 49 108; D3 16 116 49 109; D3 16 116 49 110;
  D3 16 116 49 112; D3 16 116 49 114; D3 16 116 49 117; D2 10 116 49; D2 10 116 49; D2 10 116 49; D2 10 116 49;
  D2 10 116 49; D2 10 116 49; D2 10 116 49; D2 10 116 49; D2 10 116 49; D2 10 116 49; D2 10 116 49; D2 10 116 49;
  D2 10 116 49; D2 10 116 49; D2 10 116 49; D2 10 116 49; D2 10 116 49; D2 10 116 49; D3 15 116 50 48;
  D3 15 116 50 48; D3 15 116 50 49; D3 15 116 50 49; D3 15 116 50 50; D3 15 116 50 50; D3 15 116 50 97;
  D3 15 116 50 97; D3 15 116 50 99; D3 15 116 50 99; D3 15 116 50 101; D3 15 116 50 101; D3 15 116 50 105;
  D3 15 116 50 105; D3 15 116 50 111; D3 15 116 50 111; D3 15 116 50 115; D3 15 116 50 115; D3 15 116 50 116;
  D3 15 116 50 116; D3 16 116 50 32; D3 16 116 50 37; D3 16 116 50 45; D3 16 116 50 46; D3 16 116 50 47;
  D3 16 116 50 51; D3 16 116 50 52; D3 16 116 50 53; D3 16 116 50 54; D3 16 116 50 55; D3 16 116 50 56;
  D3 16 116 50 57; D3 16 116 50 61; D3 16 116 50 65; D3 16 116 50 95; D3 16 116 50 98; D3 16 116 50 100;
  D3 16 116 50 102; D3 16 116 50 103; D3 16 116 50 104; D3 16 116 50 108; D3 16 116 50 109; D3 16 116 50 110;
  D3 16 116 50 112; D3 16 116 50 114; D3 16 116 50 117; D2 10 116 50; D2 10 116 50; D2 10 116 50; D2 10 116 50;
  D2 10 116 50; D2 10 116 50; D2 10 116 50; D2 10 116 50; D2 10 116 50; D2 10 116 50; D2 10 116 50; D2 10 116 50;
  D2 10 116 50; D2 10 116 50; D2 10 116 50; D2 10 116 50; D2 10 116 50; D2 10 116 50; D3 15 116 97 48;
  D3 15 116 97 48; D3 15 116 97 49; D3 15 116 97 49; D3 15 116 97 50; D3 15 116 97 50; D3 15 116 97 97;
  D3 15 116 97 97; D3 15 116 97 99; D3 15 116 97 99; D3 15 116 97 101; D3 15 116 97 101; D3 15 116 97 105;
  D3 15 116 97 105; D3 15 116 97 111; D3 15 116 97 111; D3 15 116 97 115; D3 15 116 97 115; D3 15 116 97 116;
  D3 15 116 97 116; D3 16 116 97 32; D3 16 116 97 37; D3 16 116 97 45; D3 16 116 97 46; D3 16 116 97 47;
  D3 16 116 97 51; D3 16 116 97 52; D3 16 116 97 53; D3 16 116 97 54; D3 16 116 97 55; D3 16 116 97 56;
  D3 16 116 97 57; D3 16 116 97 61; D3 16 116 97 65; D3 16 116 97 95; D3 16 116 97 98; D3 16 116 97 100;
  D3 16 116 97 102; D3 16 116 97 103; D3 16 116 97 104; D3 16 116 97 108; D3 16 116 97 109; D3 16 116 97 110;
  D3 16 116 97 112; D3 16 116 97 114; D3 16 116 97 117; D2 10 116 97; D2 10 116 97; D2 10 116 97; D2 10 116 97;
  D2 10 116 97; D2 10 116 97; D2 10 116 97; D2 10 116 97; D2 10 116 97; D2 10 116 97; D2 10 116 97; D2 10 116 97;
  D2 10 116 97; D2 10 116 97; D2 10 116 97; D2 10 116 97; D2 10 116 97; D2 10 116 97].
Definition hdecs_73 : list hdec := [
  D3 15 116 99 48; D3 15 116 99 48; D3 15 116 99 49; D3 15 116 99 49; D3 15 116 99 50; D3 15 116 99 50;
  D3 15 116 99 97; D3 15 116 99 97; D3 15 116 99 99; D3 15 116 99 99; D3 15 116 99 101; D3 15 116 99 101;
  D3 15 116 99 105; D3 15 116 99 105; D3 15 116 99 111; D3 15 116 99 111; D3 15 116 99 115; D3 15 116 99 115;
  D3 15 116 99 116; D3 15 116 99 116; D3 16 116 99 32; D3 16 116 99 37; D3 16 116 99 45; D3 16 116 99 46;
  D3 16 116 99 47; D3 16 116 99 51; D3 16 116 99 52; D3 16 116 99 53; D3 16 116 99 54; D3 16 116 99 55;
  D3 16 116 99 56; D3 16 116 99 57; D3 16 116 99 61; D3 16 116 99 65; D3 16 116 99 95; D3 16 116 99 98;
  D3 16 116 99 100; D3 16 116 99 102; D3 16 116 99 103; D3 16 116 99 104; D3 16 116 99 108; D3 16 116 99 109;
  D3 16 116 99 110; D3 16 116 99 112; D3 16 116 99 114; D3 16 116 99 117; D2 10 116 99; D2 10 116 99; D2 10 116 99;
  D2 10 116 99; D2 10 116 99; D2 10 116 99; D2 10 116 99; D2 10 116 99; D2 10 116 99; D2 10 116 99; D2 10 116 99;
  D2 10 116 99; D2 10 116 99; D2 10 116 99; D2 10 116 99; D2 10 116 99; D2 10 116 99; D2 10 116 99; D3 15 116 101 48;
  D3 15 116 101 48; D3 15 116 101 49; D3 15 116 101 49; D3 15 116 101 50; D3 15 116 101 50; D3 15 116 101 97;
  D3 15 116 101 97; D3 15 116 101 99; D3 15 116 101 99; D3 15 116 101 101; D3 15 116 101 101; D3 15 116 101 105;
  D3 15 116 101 105; D3 15 116 101 111; D3 15 116 101 111; D3 15 116 101 115; D3 15 116 101 115; D3 15 116 101 116;
  D3 15 116 101 116; D3 16 116 101 32; D3 16 116 101 37; D3 16 116 101 45; D3 16 116 101 46; D3 16 116 101 47;
  D3 16 116 101 51; D3 16 116 101 52; D3 16 116 101 53; D3 16 116 101 54; D3 16 116 101 55; D3 16 116 101 56;
  D3 16 116 101 57; D3 16 116 101 61; D3 16 116 101 65; D3 16 116 101 95; D3 16 116 101 98; D3 16 116 101 100;
  D3 16 116 101 102; D3 16 116 101 103; D3 16 116 101 104; D3 16 116 101 108; D3 16 116 101 109; D3 16 116 101 110;
  D3 16 116 101 112; D3 16 116 101 114; D3 16 116 101 117; D2 10 116 101; D2 10 116 101; D2 10 116 101; D2 10 116 101;
  D2 10 116 101; D2 10 116 101; D2 10 116 101; D2 10 116 101; D2 10 116 101; D2 10 116 101; D2 10 116 101;
  D2 10 116 101; D2 10 116 101; D2 10 116 101; D2 10 116 101; D2 10 116 101; D2 10 116 101; D2 10 116 101;
  D3 15 116 105 48; D3 15 116 105 48; D3 15 116 105 49; D3 15 116 105 49; D3 15 116 105 50; D3 15 116 105 50;
  D3 15 116 105 97; D3 15 116 105 97; D3 15 116 105 99; D3 15 116 105 99; D3 15 116 105 101; D3 15 116 105 101;
  D3 15 116 105 105; D3 15 116 105 105; D3 15 116 105 111; D3 15 116 105 111; D3 15 116 105 115; D3 15 116 105 115;
  D3 15 116 105 116; D3 15 116 105 116; D3 16 116 105 32; D3 16 116 105 37; D3 16 116 105 45; D3 16 116 105 46;
  D3 16 116 105 47; D3 16 116 105 51; D3 16 116 105 52; D3 16 116 105 53; D3 16 116 105 54; D3 16 116 105 55;
  D3 16 116 105 56; D3 16 116 105 57; D3 16 116 105 61; D3 16 116 105 65; D3 16 116 105 95; D3 16 116 105 98;
  D3 16 116 105 100; D3 16 116 105 102; D3 16 116 105 103; D3 16 116 105 104; D3 16 116 105 108; D3 16 116 105 109;
  D3 16 116 105 110; D3 16 116 105 112; D3 16 116 105 114; D3 16 116 105 117; D2 10 116 105; D2 10 116 105;
  D2 10 116 105; D2 10 116 105; D2 10 116 105; D2 10 116 105; D2 10 116 105; D2 10 116 105; D2 10 116 105;
  D2 10 116 105; D2 10 116 105; D2 10 116 105; D2 10 116 105; D2 10 116 105; D2 10 116 105; D2 10 116 105;
  D2 10 116 105; D2 10 116 105; D3 15 116 111 48; D3 15 116 111 48; D3 15 116 111 49; D3 15 116 111 49;
  D3 15 116 111 50; D3 15 116 111 50; D3 15 116 111 97; D3 15 116 111 97; D3 15 116 111 99; D3 15 116 111 99;
  D3 15 116 111 101; D3 15 116 111 101; D3 15 116 111 105; D3 15 116 111 105; D3 15 116 111 111; D3 15 116 111 111;
  D3 15 116 111 115; D3 15 116 111 115; D3 15 116 111 116; D3 15 116 111 116; D3 16 116 111 32; D3 16 116 111 37;
  D3 16 116 111 45; D3 16 116 111 46; D3 16 116 111 47; D3 16 116 111 51; D3 16 116 111 52; D3 16 116 111 53;
  D3 16 116 111 54; D3 16 116 111 55; D3 16 116 111 56; D3 16 116 111 57; D3 16 116 111 61; D3 16 116 111 65;
  D3 16 116 111 95; D3 16 116 111 98; D3 16 116 111 100; D3 16 116 111 102; D3 16 116 111 103; D3 16 116 111 104;
  D3 16 116 111 108; D3 16 116 111 109; D3 16 116 111 110; D3 16 116 111 112; D3 16 116 111 114; D3 16 116 111 117;
  D2 10 116 111; D2 10 116 111; D2 10 116 111; D2 10 116 111; D2 10 116 111; D2 10 116 111; D2 10 116 111;
  D2 10 116 111; D2 10 116 111; D2 10 116 111; D2 10 116 111; D2 10 116 111; D2 10 116 111; D2 10 116 111;
  D2 10 116 111; D2 10 116 111; D2 10 116 111; D2 10 116 111].
Definition hdecs_74 : list hdec := [
  D3 15 116 115 48; D3 15 116 115 48; D3 15 116 115 49; D3 15 116 115 49; D3 15 116 115 50; D3 15 116 115 50;
  D3 15 116 115 97; D3 15 116 115 97; D3 15 116 115 99; D3 15 116 115 99; D3 15 116 115 101; D3 15 116 115 101;
  D3 15 116 115 105; D3 15 116 115 105; D3 15 116 115 111; D3 15 116 115 111; D3 15 116 115 115; D3 15 116 115 115;
  D3 15 116 115 116; D3 15 116 115 116; D3 16 116 115 32; D3 16 116 115 37; D3 16 116 115 45; D3 16 116 115 46;
  D3 16 116 115 47; D3 16 116 115 51; D3 16 116 115 52; D3 16 116 115 53; D3 16 116 115 54; D3 16 116 115 55;
  D3 16 116 115 56; D3 16 116 115 57; D3 16 116 115 61; D3 16 116 115 65; D3 16 116 115 95; D3 16 116 115 98;
  D3 16 116 115 100; D3 16 116 115 102; D3 16 116 115 103; D3 16 116 115 104; D3 16 116 115 108; D3 16 116 115 109;
  D3 16 116 115 110; D3 16 116 115 112; D3 16 116 115 114; D3 16 116 115 117; D2 10 116 115; D2 10 116 115;
  D2 10 116 115; D2 10 116 115; D2 10 116 115; D2 10 116 115; D2 10 116 115; D2 10 116 115; D2 10 116 115;
  D2 10 116 115; D2 10 116 115; D2 10 116 115; D2 10 116 115; D2 10 116 115; D2 10 116 115; D2 10 116 115;
  D2 10 116 115; D2 10 116 115; D3 15 116 116 48; D3 15 116 116 48; D3 15 116 116 49; D3 15 116 116 49;
  D3 15 116 116 50; D3 15 116 116 50; D3 15 116 116 97; D3 15 116 116 97; D3 15 116 116 99; D3 15 116 116 99;
  D3 15 116 116 101; D3 15 116 116 101; D3 15 116 116 105; D3 15 116 116 105; D3 15 116 116 111; D3 15 116 116 111;
  D3 15 116 116 115; D3 15 116 116 115; D3 15 116 116 116; D3 15 116 116 116; D3 16 116 116 32; D3 16 116 116 37;
  D3 16 116 116 45; D3 16 116 116 46; D3 16 116 116 47; D3 16 116 116 51; D3 16 116 116 52; D3 16 116 116 53;
  D3 16 116 116 54; D3 16 116 116 55; D3 16 116 116 56; D3 16 116 116 57; D3 16 116 116 61; D3 16 116 116 65;
  D3 16 116 116 95; D3 16 116 116 98; D3 16 116 116 100; D3 16 116 116 102; D3 16 116 116 103; D3 16 116 116 104;
  D3 16 116 116 108; D3 16 116 116 109; D3 16 116 116 110; D3 16 116 116 112; D3 16 116 116 114; D3 16 116 116 117;
  D2 10 116 116; D2 10 116 116; D2 10 116 116; D2 10 116 116; D2 10 116 116; D2 10 116 116; D2 10 116 116;
  D2 10 116 116; D2 10 116 116; D2 10 116 116; D2 10 116 116; D2 10 116 116; D2 10 116 116; D2 10 116 116;
  D2 10 116 116; D2 10 116 116; D2 10 116 116; D2 10 116 116; D3 16 116 32 48; D3 16 116 32 49; D3 16 116 32 50;
  D3 16 116 32 97; D3 16 116 32 99; D3 16 116 32 101; D3 16 116 32 105; D3 16 116 32 111; D3 16 116 32 115;
  D3 16 116 32 116; D2 11 116 32; D2 11 116 32; D2 11 116 32; D2 11 116 32; D2 11 116 32; D2 11 116 32; D2 11 116 32;
  D2 11 116 32; D2 11 116 32; D2 11 116 32; D2 11 116 32; D2 11 116 32; D2 11 116 32; D2 11 116 32; D2 11 116 32;
  D2 11 116 32; D2 11 116 32; D2 11 116 32; D2 11 116 32; D2 11 116 32; D2 11 116 32; D2 11 116 32; D3 16 116 37 48;
  D3 16 116 37 49; D3 16 116 37 50; D3 16 116 37 97; D3 16 116 37 99; D3 16 116 37 101; D3 16 116 37 105;
  D3 16 116 37 111; D3 16 116 37 115; D3 16 116 37 116; D2 11 116 37; D2 11 116 37; D2 11 116 37; D2 11 116 37;
  D2 11 116 37; D2 11 116 37; D2 11 116 37; D2 11 116 37; D2 11 116 37; D2 11 116 37; D2 11 116 37; D2 11 116 37;
  D2 11 116 37; D2 11 116 37; D2 11 116 37; D2 11 116 37; D2 11 116 37; D2 11 116 37; D2 11 116 37; D2 11 116 37;
  D2 11 116 37; D2 11 116 37; D3 16 116 45 48; D3 16 116 45 49; D3 16 116 45 50; D3 16 116 45 97; D3 16 116 45 99;
  D3 16 116 45 101; D3 16 116 45 105; D3 16 116 45 111; D3 16 116 45 115; D3 16 116 45 116; D2 11 116 45;
  D2 11 116 45; D2 11 116 45; D2 11 116 45; D2 11 116 45; D2 11 116 45; D2 11 116 45; D2 11 116 45; D2 11 116 45;
  D2 11 116 45; D2 11 116 45; D2 11 116 45; D2 11 116 45; D2 11 116 45; D2 11 116 45; D2 11 116 45; D2 11 116 45;
  D2 11 116 45; D2 11 116 45; D2 11 116 45; D2 11 116 45; D2 11 116 45; D3 16 116 46 48; D3 16 116 46 49;
  D3 16 116 46 50; D3 16 116 46 97; D3 16 116 46 99; D3 16 116 46 101; D3 16 116 46 105; D3 16 116 46 111;
  D3 16 116 46 115; D3 16 116 46 116; D2 11 116 46; D2 11 116 46; D2 11 116 46; D2 11 116 46; D2 11 116 46;
  D2 11 116 46; D2 11 116 46; D2 11 116 46; D2 11 116 46; D2 11 116 46; D2 11 116 46; D2 11 116 46; D2 11 116 46;
  D2 11 116 46; D2 11 116 46; D2 11 116 46; D2 11 116 46; D2 11 116 46; D2 11 116 46; D2 11 116 46; D2 11 116 46;
  D2 11 116 46].
Definition hdecs_75 : list hdec := [
  D3 16 116 47 48; D3 16 116 47 49; D3 16 116 47 50; D3 16 116 47 97; D3 16 116 47 99; D3 16 116 47 101;
  D3 16 116 47 105; D3 16 116 47 111; D3 16 116 47 115; D3 16 116 47 116; D2 11 116 47; D2 11 116 47; D2 11 116 47;
  D2 11 116 47; D2 11 116 47; D2 11 116 47; D2 11 116 47; D2 11 116 47; D2 11 116 47; D2 11 116 47; D2 11 116 47;
  D2 11 116 47; D2 11 116 47; D2 11 116 47; D2 11 116 47; D2 11 116 47; D2 11 116 47; D2 11 116 47; D2 11 116 47;
  D2 11 116 47; D2 11 116 47; D2 11 116 47; D3 16 116 51 48; D3 16 116 51 49; D3 16 116 51 50; D3 16 116 51 97;
  D3 16 116 51 99; D3 16 116 51 101; D3 16 116 51 105; D3 16 116 51 111; D3 16 116 51 115; D3 16 116 51 116;
  D2 11 116 51; D2 11 116 51; D2 11 116 51; D2 11 116 51; D2 11 116 51; D2 11 116 51; D2 11 116 51; D2 11 116 51;
  D2 11 116 51; D2 11 116 51; D2 11 116 51; D2 11 116 51; D2 11 116 51; D2 11 116 51; D2 11 116 51; D2 11 116 51;
  D2 11 116 51; D2 11 116 51; D2 11 116 51; D2 11 116 51; D2 11 116 51; D2 11 116 51; D3 16 116 52 48;
  D3 16 116 52 49; D3 16 116 52 50; D3 16 116 52 97; D3 16 116 52 99; D3 16 116 52 101; D3 16 116 52 105;
  D3 16 116 52 111; D3 16 116 52 115; D3 16 116 52 116; D2 11 116 52; D2 11 116 52; D2 11 116 52; D2 11 116 52;
  D2 11 116 52; D2 11 116 52; D2 11 116 52; D2 11 116 52; D2 11 116 52; D2 11 116 52; D2 11 116 52; D2 11 116 52;
  D2 11 116 52; D2 11 116 52; D2 11 116 52; D2 11 116 52; D2 11 116 52; D2 11 116 52; D2 11 116 52; D2 11 116 52;
  D2 11 116 52; D2 11 116 52; D3 16 116 53 48; D3 16 116 53 49; D3 16 116 53 50; D3 16 116 53 97; D3 16 116 53 99;
  D3 16 116 53 101; D3 16 116 53 105; D3 16 116 53 111; D3 16 116 53 115; D3 16 116 53 116; D2 11 116 53;
  D2 11 116 53; D2 11 116 53; D2 11 116 53; D2 11 116 53; D2 11 116 53; D2 11 116 53; D2 11 116 53; D2 11 116 53;
  D2 11 116 53; D2 11 116 53; D2 11 116 53; D2 11 116 53; D2 11 116 53; D2 11 116 53; D2 11 116 53; D2 11 116 53;
  D2 11 116 53; D2 11 116 53; D2 11 116 53; D2 11 116 53; D2 11 116 53; D3 16 116 54 48; D3 16 116 54 49;
  D3 16 116 54 50; D3 16 116 54 97; D3 16 116 54 99; D3 16 116 54 101; D3 16 116 54 105; D3 16 116 54 111;
  D3 16 116 54 115; D3 16 116 54 116; D2 11 116 54; D2 11 116 54; D2 11 116 54; D2 11 116 54; D2 11 116 54;
  D2 11 116 54; D2 11 116 54; D2 11 116 54; D2 11 116 54; D2 11 116 54; D2 11 116 54; D2 11 116 54; D2 11 116 54;
  D2 11 116 54; D2 11 116 54; D2 11 116 54; D2 11 116 54; D2 11 116 54; D2 11 116 54; D2 11 116 54; D2 11 116 54;
  D2 11 116 54; D3 16 116 55 48; D3 16 116 55 49; D3 16 116 55 50; D3 16 116 55 97; D3 16 116 55 99; D3 16 116 55 101;
  D3 16 116 55 105; D3 16 116 55 111; D3 16 116 55 115; D3 16 116 55 116; D2 11 116 55; D2 11 116 55; D2 11 116 55;
  D2 11 116 55; D2 11 116 55; D2 11 116 55; D2 11 116 55; D2 11 116 55; D2 11 116 55; D2 11 116 55; D2 11 116 55;
  D2 11 116 55; D2 11 116 55; D2 11 116 55; D2 11 116 55; D2 11 116 55; D2 11 116 55; D2 11 116 55; D2 11 116 55;
  D2 11 116 55; D2 11 116 55; D2 11 116 55; D3 16 116 56 48; D3 16 116 56 49; D3 16 116 56 50; D3 16 116 56 97;
  D3 16 116 56 99; D3 16 116 56 101; D3 16 116 56 105; D3 16 116 56 111; D3 16 116 56 115; D3 16 116 56 116;
  D2 11 116 56; D2 11 116 56; D2 11 116 56; D2 11 116 56; D2 11 116 56; D2 11 116 56; D2 11 116 56; D2 11 116 56;
  D2 11 116 56; D2 11 116 56; D2 11 116 56; D2 11 116 56; D2 11 116 56; D2 11 116 56; D2 11 116 56; D2 11 116 56;
  D2 11 116 56; D2 11 116 56; D2 11 116 56; D2 11 116 56; D2 11 116 56; D2 11 116 56; D3 16 116 57 48;
  D3 16 116 57 49; D3 16 116 57 50; D3 16 116 57 97; D3 16 116 57 99; D3 16 116 57 101; D3 16 116 57 105;
  D3 16 116 57 111; D3 16 116 57 115; D3 16 116 57 116; D2 11 116 57; D2 11 116 57; D2 11 116 57; D2 11 116 57;
  D2 11 116 57; D2 11 116 57; D2 11 116 57; D2 11 116 57; D2 11 116 57; D2 11 116 57; D2 11 116 57; D2 11 116 57;
  D2 11 116 57; D2 11 116 57; D2 11 116 57; D2 11 116 57; D2 11 116 57; D2 11 116 57; D2 11 116 57; D2 11 116 57;
  D2 11 116 57; D2 11 116 57].
Definition hdecs_76 : list hdec := [
  D3 16 116 61 48; D3 16 116 61 49; D3 16 116 61 50; D3 16 116 61 97; D3 16 116 61 99; D3 16 116 61 101;
  D3 16 116 61 105; D3 16 116 61 111; D3 16 116 61 115; D3 16 116 61 116; D2 11 116 61; D2 11 116 61; D2 11 116 61;
  D2 11 116 61; D2 11 116 61; D2 11 116 61; D2 11 116 61; D2 11 116 61; D2 11 116 61; D2 11 116 61; D2 11 116 61;
  D2 11 116 61; D2 11 116 61; D2 11 116 61; D2 11 116 61; D2 11 116 61; D2 11 116 61; D2 11 116 61; D2 11 116 61;
  D2 11 116 61; D2 11 116 61; D2 11 116 61; D3 16 116 65 48; D3 16 116 65 49; D3 16 116 65 50; D3 16 116 65 97;
  D3 16 116 65 99; D3 16 116 65 101; D3 16 116 65 105; D3 16 116 65 111; D3 16 116 65 115; D3 16 116 65 116;
  D2 11 116 65; D2 11 116 65; D2 11 116 65; D2 11 116 65; D2 11 116 65; D2 11 116 65; D2 11 116 65; D2 11 116 65;
  D2 11 116 65; D2 11 116 65; D2 11 116 65; D2 11 116 65; D2 11 116 65; D2 11 116 65; D2 11 116 65; D2 11 116 65;
  D2 11 116 65; D2 11 116 65; D2 11 116 65; D2 11 116 65; D2 11 116 65; D2 11 116 65; D3 16 116 95 48;
  D3 16 116 95 49; D3 16 116 95 50; D3 16 116 95 97; D3 16 116 95 99; D3 16 116 95 101; D3 16 116 95 105;
  D3 16 116 95 111; D3 16 116 95 115; D3 16 116 95 116; D2 11 116 95; D2 11 116 95; D2 11 116 95; D2 11 116 95;
  D2 11 116 95; D2 11 116 95; D2 11 116 95; D2 11 116 95; D2 11 116 95; D2 11 116 95; D2 11 116 95; D2 11 116 95;
  D2 11 116 95; D2 11 116 95; D2 11 116 95; D2 11 116 95; D2 11 116 95; D2 11 116 95; D2 11 116 95; D2 11 116 95;
  D2 11 116 95; D2 11 116 95; D3 16 116 98 48; D3 16 116 98 49; D3 16 116 98 50; D3 16 116 98 97; D3 16 116 98 99;
  D3 16 116 98 101; D3 16 116 98 105; D3 16 116 98 111; D3 16 116 98 115; D3 16 116 98 116; D2 11 116 98;
  D2 11 116 98; D2 11 116 98; D2 11 116 98; D2 11 116 98; D2 11 116 98; D2 11 116 98; D2 11 116 98; D2 11 116 98;
  D2 11 116 98; D2 11 116 98; D2 11 116 98; D2 11 116 98; D2 11 116 98; D2 11 116 98; D2 11 116 98; D2 11 116 98;
  D2 11 116 98; D2 11 116 98; D2 11 116 98; D2 11 116 98; D2 11 116 98; D3 16 116 100 48; D3 16 116 100 49;
  D3 16 116 100 50; D3 16 116 100 97; D3 16 116 100 99; D3 16 116 100 101; D3 16 116 100 105; D3 16 116 100 111;
  D3 16 116 100 115; D3 16 116 100 116; D2 11 116 100; D2 11 116 100; D2 11 116 100; D2 11 116 100; D2 11 116 100;
  D2 11 116 100; D2 11 116 100; D2 11 116 100; D2 11 116 100; D2 11 116 100; D2 11 116 100; D2 11 116 100;
  D2 11 116 100; D2 11 116 100; D2 11 116 100; D2 11 116 100; D2 11 116 100; D2 11 116 100; D2 11 116 100;
  D2 11 116 100; D2 11 116 100; D2 11 116 100; D3 16 116 102 48; D3 16 116 102 49; D3 16 116 102 50; D3 16 116 102 97;
  D3 16 116 102 99; D3 16 116 102 101; D3 16 116 102 105; D3 16 116 102 111; D3 16 116 102 115; D3 16 116 102 116;
  D2 11 116 102; D2 11 116 102; D2 11 116 102; D2 11 116 102; D2 11 116 102; D2 11 116 102; D2 11 116 102;
  D2 11 116 102; D2 11 116 102; D2 11 116 102; D2 11 116 102; D2 11 116 102; D2 11 116 102; D2 11 116 102;
  D2 11 116 102; D2 11 116 102; D2 11 116 102; D2 11 116 102; D2 11 116 102; D2 11 116 102; D2 11 116 102;
  D2 11 116 102; D3 16 116 103 48; D3 16 116 103 49; D3 16 116 103 50; D3 16 116 103 97; D3 16 116 103 99;
  D3 16 116 103 101; D3 16 116 103 105; D3 16 116 103 111; D3 16 116 103 115; D3 16 116 103 116; D2 11 116 103;
  D2 11 116 103; D2 11 116 103; D2 11 116 103; D2 11 116 103; D2 11 116 103; D2 11 116 103; D2 11 116 103;
  D2 11 116 103; D2 11 116 103; D2 11 116 103; D2 11 116 103; D2 11 116 103; D2 11 116 103; D2 11 116 103;
  D2 11 116 103; D2 11 116 103; D2 11 116 103; D2 11 116 103; D2 11 116 103; D2 11 116 103; D2 11 116 103;
  D3 16 116 104 48; D3 16 116 104 49; D3 16 116 104 50; D3 16 116 104 97; D3 16 116 104 99; D3 16 116 104 101;
  D3 16 116 104 105; D3 16 116 104 111; D3 16 116 104 115; D3 16 116 104 116; D2 11 116 104; D2 11 116 104;
  D2 11 116 104; D2 11 116 104; D2 11 116 104; D2 11 116 104; D2 11 116 104; D2 11 116 104; D2 11 116 104;
  D2 11 116 104; D2 11 116 104; D2 11 116 104; D2 11 116 104; D2 11 116 104; D2 11 116 104; D2 11 116 104;
  D2 11 116 104; D2 11 116 104; D2 11 116 104; D2 11 116 104; D2 11 116 104; D2 11 116 104].
Definition hdecs_77 : list hdec := [
  D3 16 116 108 48; D3 16 116 108 49; D3 16 116 108 50; D3 16 116 108 97; D3 16 116 108 99; D3 16 116 108 101;
  D3 16 116 108 105; D3 16 116 108 111; D3 16 116 108 115; D3 16 116 108 116; D2 11 116 108; D2 11 116 108;
  D2 11 116 108; D2 11 116 108; D2 11 116 108; D2 11 116 108; D2 11 116 108; D2 11 116 108; D2 11 116 108;
  D2 11 116 108; D2 11 116 108; D2 11 116 108; D2 11 116 108; D2 11 116 108; D2 11 116 108; D2 11 116 108;
  D2 11 116 108; D2 11 116 108; D2 11 116 108; D2 11 116 108; D2 11 116 108; D2 11 116 108; D3 16 116 109 48;
  D3 16 116 109 49; D3 16 116 109 50; D3 16 116 109 97; D3 16 116 109 99; D3 16 116 109 101; D3 16 116 109 105;
  D3 16 116 109 111; D3 16 116 109 115; D3 16 116 109 116; D2 11 116 109; D2 11 116 109; D2 11 116 109; D2 11 116 109;
  D2 11 116 109; D2 11 116 109; D2 11 116 109; D2 11 116 109; D2 11 116 109; D2 11 116 109; D2 11 116 109;
  D2 11 116 109; D2 11 116 109; D2 11 116 109; D2 11 116 109; D2 11 116 109; D2 11 116 109; D2 11 116 109;
  D2 11 116 109; D2 11 116 109; D2 11 116 109; D2 11 116 109; D3 16 116 110 48; D3 16 116 110 49; D3 16 116 110 50;
  D3 16 116 110 97; D3 16 116 110 99; D3 16 116 110 101; D3 16 116 110 105; D3 16 116 110 111; D3 16 116 110 115;
  D3 16 116 110 116; D2 11 116 110; D2 11 116 110; D2 11 116 110; D2 11 116 110; D2 11 116 110; D2 11 116 110;
  D2 11 116 110; D2 11 116 110; D2 11 116 110; D2 11 116 110; D2 11 116 110; D2 11 116 110; D2 11 116 110;
  D2 11 116 110; D2 11 116 110; D2 11 116 110; D2 11 116 110; D2 11 116 110; D2 11 116 110; D2 11 116 110;
  D2 11 116 110; D2 11 116 110; D3 16 116 112 48; D3 16 116 112 49; D3 16 116 112 50; D3 16 116 112 97;
  D3 16 116 112 99; D3 16 116 112 101; D3 16 116 112 105; D3 16 116 112 111; D3 16 116 112 115; D3 16 116 112 116;
  D2 11 116 112; D2 11 116 112; D2 11 116 112; D2 11 116 112; D2 11 116 112; D2 11 116 112; D2 11 116 112;
  D2 11 116 112; D2 11 116 112; D2 11 116 112; D2 11 116 112; D2 11 116 112; D2 11 116 112; D2 11 116 112;
  D2 11 116 112; D2 11 116 112; D2 11 116 112; D2 11 116 112; D2 11 116 112; D2 11 116 112; D2 11 116 112;
  D2 11 116 112; D3 16 116 114 48; D3 16 116 114 49; D3 16 116 114 50; D3 16 116 114 97; D3 16 116 114 99;
  D3 16 116 114 101; D3 16 116 114 105; D3 16 116 114 111; D3 16 116 114 115; D3 16 116 114 116; D2 11 116 114;
  D2 11 116 114; D2 11 116 114; D2 11 116 114; D2 11 116 114; D2 11 116 114; D2 11 116 114; D2 11 116 114;
  D2 11 116 114; D2 11 116 114; D2 11 116 114; D2 11 116 114; D2 11 116 114; D2 11 116 114; D2 11 116 114;
  D2 11 116 114; D2 11 116 114; D2 11 116 114; D2 11 116 114; D2 11 116 114; D2 11 116 114; D2 11 116 114;
  D3 16 116 117 48; D3 16 116 117 49; D3 16 116 117 50; D3 16 116 117 97; D3 16 116 117 99; D3 16 116 117 101;
  D3 16 116 117 105; D3 16 116 117 111; D3 16 116 117 115; D3 16 116 117 116; D2 11 116 117; D2 11 116 117;
  D2 11 116 117; D2 11 116 117; D2 11 116 117; D2 11 116 117; D2 11 116 117; D2 11 116 117; D2 11 116 117;
  D2 11 116 117; D2 11 116 117; D2 11 116 117; D2 11 116 117; D2 11 116 117; D2 11 116 117; D2 11 116 117;
  D2 11 116 117; D2 11 116 117; D2 11 116 117; D2 11 116 117; D2 11 116 117; D2 11 116 117; D2 12 116 58;
  D2 12 116 58; D2 12 116 58; D2 12 116 58; D2 12 116 58; D2 12 116 58; D2 12 116 58; D2 12 116 58; D2 12 116 58;
  D2 12 116 58; D2 12 116 58; D2 12 116 58; D2 12 116 58; D2 12 116 58; D2 12 116 58; D2 12 116 58; D2 12 116 66;
  D2 12 116 66; D2 12 116 66; D2 12 116 66; D2 12 116 66; D2 12 116 66; D2 12 116 66; D2 12 116 66; D2 12 116 66;
  D2 12 116 66; D2 12 116 66; D2 12 116 66; D2 12 116 66; D2 12 116 66; D2 12 116 66; D2 12 116 66; D2 12 116 67;
  D2 12 116 67; D2 12 116 67; D2 12 116 67; D2 12 116 67; D2 12 116 67; D2 12 116 67; D2 12 116 67; D2 12 116 67;
  D2 12 116 67; D2 12 116 67; D2 12 116 67; D2 12 116 67; D2 12 116 67; D2 12 116 67; D2 12 116 67; D2 12 116 68;
  D2 12 116 68; D2 12 116 68; D2 12 116 68; D2 12 116 68; D2 12 116 68; D2 12 116 68; D2 12 116 68; D2 12 116 68;
  D2 12 116 68; D2 12 116 68; D2 12 116 68; D2 12 116 68; D2 12 116 68; D2 12 116 68; D2 12 116 68].
Definition hdecs_78 : list hdec := [
  D2 12 116 69; D2 12 116 69; D2 12 116 69; D2 12 116 69; D2 12 116 69; D2 12 116 69; D2 12 116 69; D2 12 116 69;
  D2 12 116 69; D2 12 116 69; D2 12 116 69; D2 12 116 69; D2 12 116 69; D2 12 116 69; D2 12 116 69; D2 12 116 69;
  D2 12 116 70; D2 12 116 70; D2 12 116 70; D2 12 116 70; D2 12 116 70; D2 12 116 70; D2 12 116 70; D2 12 116 70;
  D2 12 116 70; D2 12 116 70; D2 12 116 70; D2 12 116 70; D2 12 116 70; D2 12 116 70; D2 12 116 70; D2 12 116 70;
  D2 12 116 71; D2 12 116 71; D2 12 116 71; D2 12 116 71; D2 12 116 71; D2 12 116 71; D2 12 116 71; D2 12 116 71;
  D2 12 116 71; D2 12 116 71; D2 12 116 71; D2 12 116 71; D2 12 116 71; D2 12 116 71; D2 12 116 71; D2 12 116 71;
  D2 12 116 72; D2 12 116 72; D2 12 116 72; D2 12 116 72; D2 12 116 72; D2 12 116 72; D2 12 116 72; D2 12 116 72;
  D2 12 116 72; D2 12 116 72; D2 12 116 72; D2 12 116 72; D2 12 116 72; D2 12 116 72; D2 12 116 72; D2 12 116 72;
  D2 12 116 73; D2 12 116 73; D2 12 116 73; D2 12 116 73; D2 12 116 73; D2 12 116 73; D2 12 116 73; D2 12 116 73;
  D2 12 116 73; D2 12 116 73; D2 12 116 73; D2 12 116 73; D2 12 116 73; D2 12 116 73; D2 12 116 73; D2 12 116 73;
  D2 12 116 74; D2 12 116 74; D2 12 116 74; D2 12 116 74; D2 12 116 74; D2 12 116 74; D2 12 116 74; D2 12 116 74;
  D2 12 116 74; D2 12 116 74; D2 12 116 74; D2 12 116 74; D2 12 116 74; D2 12 116 74; D2 12 116 74; D2 12 116 74;
  D2 12 116 75; D2 12 116 75; D2 12 116 75; D2 12 116 75; D2 12 116 75; D2 12 116 75; D2 12 116 75; D2 12 116 75;
  D2 12 116 75; D2 12 116 75; D2 12 116 75; D2 12 116 75; D2 12 116 75; D2 12 116 75; D2 12 116 75; D2 12 116 75;
  D2 12 116 76; D2 12 116 76; D2 12 116 76; D2 12 116 76; D2 12 116 76; D2 12 116 76; D2 12 116 76; D2 12 116 76;
  D2 12 116 76; D2 12 116 76; D2 12 116 76; D2 12 116 76; D2 12 116 76; D2 12 116 76; D2 12 116 76; D2 12 116 76;
  D2 12 116 77; D2 12 116 77; D2 12 116 77; D2 12 116 77; D2 12 116 77; D2 12 116 77; D2 12 116 77; D2 12 116 77;
  D2 12 116 77; D2 12 116 77; D2 12 116 77; D2 12 116 77; D2 12 116 77; D2 12 116 77; D2 12 116 77; D2 12 116 77;
  D2 12 116 78; D2 12 116 78; D2 12 116 78; D2 12 116 78; D2 12 116 78; D2 12 116 78; D2 12 116 78; D2 12 116 78;
  D2 12 116 78; D2 12 116 78; D2 12 116 78; D2 12 116 78; D2 12 116 78; D2 12 116 78; D2 12 116 78; D2 12 116 78;
  D2 12 116 79; D2 12 116 79; D2 12 116 79; D2 12 116 79; D2 12 116 79; D2 12 116 79; D2 12 116 79; D2 12 116 79;
  D2 12 116 79; D2 12 116 79; D2 12 116 79; D2 12 116 79; D2 12 116 79; D2 12 116 79; D2 12 116 79; D2 12 116 79;
  D2 12 116 80; D2 12 116 80; D2 12 116 80; D2 12 116 80; D2 12 116 80; D2 12 116 80; D2 12 116 80; D2 12 116 80;
  D2 12 116 80; D2 12 116 80; D2 12 116 80; D2 12 116 80; D2 12 116 80; D2 12 116 80; D2 12 116 80; D2 12 116 80;
  D2 12 116 81; D2 12 116 81; D2 12 116 81; D2 12 116 81; D2 12 116 81; D2 12 116 81; D2 12 116 81; D2 12 116 81;
  D2 12 116 81; D2 12 116 81; D2 12 116 81; D2 12 116 81; D2 12 116 81; D2 12 116 81; D2 12 116 81; D2 12 116 81;
  D2 12 116 82; D2 12 116 82; D2 12 116 82; D2 12 116 82; D2 12 116 82; D2 12 116 82; D2 12 116 82; D2 12 116 82;
  D2 12 116 82; D2 12 116 82; D2 12 116 82; D2 12 116 82; D2 12 116 82; D2 12 116 82; D2 12 116 82; D2 12 116 82;
  D2 12 116 83; D2 12 116 83; D2 12 116 83; D2 12 116 83; D2 12 116 83; D2 12 116 83; D2 12 116 83; D2 12 116 83;
  D2 12 116 83; D2 12 116 83; D2 12 116 83; D2 12 116 83; D2 12 116 83; D2 12 116 83; D2 12 116 83; D2 12 116 83;
  D2 12 116 84; D2 12 116 84; D2 12 116 84; D2 12 116 84; D2 12 116 84; D2 12 116 84; D2 12 116 84; D2 12 116 84;
  D2 12 116 84; D2 12 116 84; D2 12 116 84; D2 12 116 84; D2 12 116 84; D2 12 116 84; D2 12 116 84; D2 12 116 84].
Definition hdecs_79 : list hdec := [
  D2 12 116 85; D2 12 116 85; D2 12 116 85; D2 12 116 85; D2 12 116 85; D2 12 116 85; D2 12 116 85; D2 12 116 85;
  D2 12 116 85; D2 12 116 85; D2 12 116 85; D2 12 116 85; D2 12 116 85; D2 12 116 85; D2 12 116 85; D2 12 116 85;
  D2 12 116 86; D2 12 116 86; D2 12 116 86; D2 12 116 86; D2 12 116 86; D2 12 116 86; D2 12 116 86; D2 12 116 86;
  D2 12 116 86; D2 12 116 86; D2 12 116 86; D2 12 116 86; D2 12 116 86; D2 12 116 86; D2 12 116 86; D2 12 116 86;
  D2 12 116 87; D2 12 116 87; D2 12 116 87; D2 12 116 87; D2 12 116 87; D2 12 116 87; D2 12 116 87; D2 12 116 87;
  D2 12 116 87; D2 12 116 87; D2 12 116 87; D2 12 116 87; D2 12 116 87; D2 12 116 87; D2 12 116 87; D2 12 116 87;
  D2 12 116 89; D2 12 116 89; D2 12 116 89; D2 12 116 89; D2 12 116 89; D2 12 116 89; D2 12 116 89; D2 12 116 89;
  D2 12 116 89; D2 12 116 89; D2 12 116 89; D2 12 116 89; D2 12 116 89; D2 12 116 89; D2 12 116 89; D2 12 116 89;
  D2 12 116 106; D2 12 116 106; D2 12 116 106; D2 12 116 106; D2 12 116 106; D2 12 116 106; D2 12 116 106;
  D2 12 116 106; D2 12 116 106; D2 12 116 106; D2 12 116 106; D2 12 116 106; D2 12 116 106; D2 12 116 106;
  D2 12 116 106; D2 12 116 106; D2 12 116 107; D2 12 116 107; D2 12 116 107; D2 12 116 107; D2 12 116 107;
  D2 12 116 107; D2 12 116 107; D2 12 116 107; D2 12 116 107; D2 12 116 107; D2 12 116 107; D2 12 116 107;
  D2 12 116 107; D2 12 116 107; D2 12 116 107; D2 12 116 107; D2 12 116 113; D2 12 116 113; D2 12 116 113;
  D2 12 116 113; D2 12 116 113; D2 12 116 113; D2 12 116 113; D2 12 116 113; D2 12 116 113; D2 12 116 113;
  D2 12 116 113; D2 12 116 113; D2 12 116 113; D2 12 116 113; D2 12 116 113; D2 12 116 113; D2 12 116 118;
  D2 12 116 118; D2 12 116 118; D2 12 116 118; D2 12 116 118; D2 12 116 118; D2 12 116 118; D2 12 116 118;
  D2 12 116 118; D2 12 116 118; D2 12 116 118; D2 12 116 118; D2 12 116 118; D2 12 116 118; D2 12 116 118;
  D2 12 116 118; D2 12 116 119; D2 12 116 119; D2 12 116 119; D2 12 116 119; D2 12 116 119; D2 12 116 119;
  D2 12 116 119; D2 12 116 119; D2 12 116 119; D2 12 116 119; D2 12 116 119; D2 12 116 119; D2 12 116 119;
  D2 12 116 119; D2 12 116 119; D2 12 116 119; D2 12 116 120; D2 12 116 120; D2 12 116 120; D2 12 116 120;
  D2 12 116 120; D2 12 116 120; D2 12 116 120; D2 12 116 120; D2 12 116 120; D2 12 116 120; D2 12 116 120;
  D2 12 116 120; D2 12 116 120; D2 12 116 120; D2 12 116 120; D2 12 116 120; D2 12 116 121; D2 12 116 121;
  D2 12 116 121; D2 12 116 121; D2 12 116 121; D2 12 116 121; D2 12 116 121; D2 12 116 121; D2 12 116 121;
  D2 12 116 121; D2 12 116 121; D2 12 116 121; D2 12 116 121; D2 12 116 121; D2 12 116 121; D2 12 116 121;
  D2 12 116 122; D2 12 116 122; D2 12 116 122; D2 12 116 122; D2 12 116 122; D2 12 116 122; D2 12 116 122;
  D2 12 116 122; D2 12 116 122; D2 12 116 122; D2 12 116 122; D2 12 116 122; D2 12 116 122; D2 12 116 122;
  D2 12 116 122; D2 12 116 122; D2 13 116 38; D2 13 116 38; D2 13 116 38; D2 13 116 38; D2 13 116 38; D2 13 116 38;
  D2 13 116 38; D2 13 116 38; D2 13 116 42; D2 13 116 42; D2 13 116 42; D2 13 116 42; D2 13 116 42; D2 13 116 42;
  D2 13 116 42; D2 13 116 42; D2 13 116 44; D2 13 116 44; D2 13 116 44; D2 13 116 44; D2 13 116 44; D2 13 116 44;
  D2 13 116 44; D2 13 116 44; D2 13 116 59; D2 13 116 59; D2 13 116 59; D2 13 116 59; D2 13 116 59; D2 13 116 59;
  D2 13 116 59; D2 13 116 59; D2 13 116 88; D2 13 116 88; D2 13 116 88; D2 13 116 88; D2 13 116 88; D2 13 116 88;
  D2 13 116 88; D2 13 116 88; D2 13 116 90; D2 13 116 90; D2 13 116 90; D2 13 116 90; D2 13 116 90; D2 13 116 90;
  D2 13 116 90; D2 13 116 90; D2 15 116 33; D2 15 116 33; D2 15 116 34; D2 15 116 34; D2 15 116 40; D2 15 116 40;
  D2 15 116 41; D2 15 116 41; D2 15 116 63; D2 15 116 63; D2 16 116 39; D2 16 116 43; D2 16 116 124; D1 5 116;
  D1 5 116; D1 5 116].
Definition hdecs_80 : list hdec := [
  D3 16 32 48 48; D3 16 32 48 49; D3 16 32 48 50; D3 16 32 48 97; D3 16 32 48 99; D3 16 32 48 101; D3 16 32 48 105;
  D3 16 32 48 111; D3 16 32 48 115; D3 16 32 48 116; D2 11 32 48; D2 11 32 48; D2 11 32 48; D2 11 32 48; D2 11 32 48;
  D2 11 32 48; D2 11 32 48; D2 11 32 48; D2 11 32 48; D2 11 32 48; D2 11 32 48; D2 11 32 48; D2 11 32 48; D2 11 32 48;
  D2 11 32 48; D2 11 32 48; D2 11 32 48; D2 11 32 48; D2 11 32 48; D2 11 32 48; D2 11 32 48; D2 11 32 48;
  D3 16 32 49 48; D3 16 32 49 49; D3 16 32 49 50; D3 16 32 49 97; D3 16 32 49 99; D3 16 32 49 101; D3 16 32 49 105;
  D3 16 32 49 111; D3 16 32 49 115; D3 16 32 49 116; D2 11 32 49; D2 11 32 49; D2 11 32 49; D2 11 32 49; D2 11 32 49;
  D2 11 32 49; D2 11 32 49; D2 11 32 49; D2 11 32 49; D2 11 32 49; D2 11 32 49; D2 11 32 49; D2 11 32 49; D2 11 32 49;
  D2 11 32 49; D2 11 32 49; D2 11 32 49; D2 11 32 49; D2 11 32 49; D2 11 32 49; D2 11 32 49; D2 11 32 49;
  D3 16 32 50 48; D3 16 32 50 49; D3 16 32 50 50; D3 16 32 50 97; D3 16 32 50 99; D3 16 32 50 101; D3 16 32 50 105;
  D3 16 32 50 111; D3 16 32 50 115; D3 16 32 50 116; D2 11 32 50; D2 11 32 50; D2 11 32 50; D2 11 32 50; D2 11 32 50;
  D2 11 32 50; D2 11 32 50; D2 11 32 50; D2 11 32 50; D2 11 32 50; D2 11 32 50; D2 11 32 50; D2 11 32 50; D2 11 32 50;
  D2 11 32 50; D2 11 32 50; D2 11 32 50; D2 11 32 50; D2 11 32 50; D2 11 32 50; D2 11 32 50; D2 11 32 50;
  D3 16 32 97 48; D3 16 32 97 49; D3 16 32 97 50; D3 16 32 97 97; D3 16 32 97 99; D3 16 32 97 101; D3 16 32 97 105;
  D3 16 32 97 111; D3 16 32 97 115; D3 16 32 97 116; D2 11 32 97; D2 11 32 97; D2 11 32 97; D2 11 32 97; D2 11 32 97;
  D2 11 32 97; D2 11 32 97; D2 11 32 97; D2 11 32 97; D2 11 32 97; D2 11 32 97; D2 11 32 97; D2 11 32 97; D2 11 32 97;
  D2 11 32 97; D2 11 32 97; D2 11 32 97; D2 11 32 97; D2 11 32 97; D2 11 32 97; D2 11 32 97; D2 11 32 97;
  D3 16 32 99 48; D3 16 32 99 49; D3 16 32 99 50; D3 16 32 99 97; D3 16 32 99 99; D3 16 32 99 101; D3 16 32 99 105;
  D3 16 32 99 111; D3 16 32 99 115; D3 16 32 99 116; D2 11 32 99; D2 11 32 99; D2 11 32 99; D2 11 32 99; D2 11 32 99;
  D2 11 32 99; D2 11 32 99; D2 11 32 99; D2 11 32 99; D2 11 32 99; D2 11 32 99; D2 11 32 99; D2 11 32 99; D2 11 32 99;
  D2 11 32 99; D2 11 32 99; D2 11 32 99; D2 11 32 99; D2 11 32 99; D2 11 32 99; D2 11 32 99; D2 11 32 99;
  D3 16 32 101 48; D3 16 32 101 49; D3 16 32 101 50; D3 16 32 101 97; D3 16 32 101 99; D3 16 32 101 101;
  D3 16 32 101 105; D3 16 32 101 111; D3 16 32 101 115; D3 16 32 101 116; D2 11 32 101; D2 11 32 101; D2 11 32 101;
  D2 11 32 101; D2 11 32 101; D2 11 32 101; D2 11 32 101; D2 11 32 101; D2 11 32 101; D2 11 32 101; D2 11 32 101;
  D2 11 32 101; D2 11 32 101; D2 11 32 101; D2 11 32 101; D2 11 32 101; D2 11 32 101; D2 11 32 101; D2 11 32 101;
  D2 11 32 101; D2 11 32 101; D2 11 32 101; D3 16 32 105 48; D3 16 32 105 49; D3 16 32 105 50; D3 16 32 105 97;
  D3 16 32 105 99; D3 16 32 105 101; D3 16 32 105 105; D3 16 32 105 111; D3 16 32 105 115; D3 16 32 105 116;
  D2 11 32 105; D2 11 32 105; D2 11 32 105; D2 11 32 105; D2 11 32 105; D2 11 32 105; D2 11 32 105; D2 11 32 105;
  D2 11 32 105; D2 11 32 105; D2 11 32 105; D2 11 32 105; D2 11 32 105; D2 11 32 105; D2 11 32 105; D2 11 32 105;
  D2 11 32 105; D2 11 32 105; D2 11 32 105; D2 11 32 105; D2 11 32 105; D2 11 32 105; D3 16 32 111 48;
  D3 16 32 111 49; D3 16 32 111 50; D3 16 32 111 97; D3 16 32 111 99; D3 16 32 111 101; D3 16 32 111 105;
  D3 16 32 111 111; D3 16 32 111 115; D3 16 32 111 116; D2 11 32 111; D2 11 32 111; D2 11 32 111; D2 11 32 111;
  D2 11 32 111; D2 11 32 111; D2 11 32 111; D2 11 32 111; D2 11 32 111; D2 11 32 111; D2 11 32 111; D2 11 32 111;
  D2 11 32 111; D2 11 32 111; D2 11 32 111; D2 11 32 111; D2 11 32 111; D2 11 32 111; D2 11 32 111; D2 11 32 111;
  D2 11 32 111; D2 11 32 111].
Definition hdecs_81 : list hdec := [
  D3 16 32 115 48; D3 16 32 115 49; D3 16 32 115 50; D3 16 32 115 97; D3 16 32 115 99; D3 16 32 115 101;
  D3 16 32 115 105; D3 16 32 115 111; D3 16 32 115 115; D3 16 32 115 116; D2 11 32 115; D2 11 32 115; D2 11 32 115;
  D2 11 32 115; D2 11 32 115; D2 11 32 115; D2 11 32 115; D2 11 32 115; D2 11 32 115; D2 11 32 115; D2 11 32 115;
  D2 11 32 115; D2 11 32 115; D2 11 32 115; D2 11 32 115; D2 11 32 115; D2 11 32 115; D2 11 32 115; D2 11 32 115;
  D2 11 32 115; D2 11 32 115; D2 11 32 115; D3 16 32 116 48; D3 16 32 116 49; D3 16 32 116 50; D3 16 32 116 97;
  D3 16 32 116 99; D3 16 32 116 101; D3 16 32 116 105; D3 16 32 116 111; D3 16 32 116 115; D3 16 32 116 116;
  D2 11 32 116; D2 11 32 116; D2 11 32 116; D2 11 32 116; D2 11 32 116; D2 11 32 116; D2 11 32 116; D2 11 32 116;
  D2 11 32 116; D2 11 32 116; D2 11 32 116; D2 11 32 116; D2 11 32 116; D2 11 32 116; D2 11 32 116; D2 11 32 116;
  D2 11 32 116; D2 11 32 116; D2 11 32 116; D2 11 32 116; D2 11 32 116; D2 11 32 116; D2 12 32 32; D2 12 32 32;
  D2 12 32 32; D2 12 32 32; D2 12 32 32; D2 12 32 32; D2 12 32 32; D2 12 32 32; D2 12 32 32; D2 12 32 32; D2 12 32 32;
  D2 12 32 32; D2 12 32 32; D2 12 32 32; D2 12 32 32; D2 12 32 32; D2 12 32 37; D2 12 32 37; D2 12 32 37; D2 12 32 37;
  D2 12 32 37; D2 12 32 37; D2 12 32 37; D2 12 32 37; D2 12 32 37; D2 12 32 37; D2 12 32 37; D2 12 32 37; D2 12 32 37;
  D2 12 32 37; D2 12 32 37; D2 12 32 37; D2 12 32 45; D2 12 32 45; D2 12 32 45; D2 12 32 45; D2 12 32 45; D2 12 32 45;
  D2 12 32 45; D2 12 32 45; D2 12 32 45; D2 12 32 45; D2 12 32 45; D2 12 32 45; D2 12 32 45; D2 12 32 45; D2 12 32 45;
  D2 12 32 45; D2 12 32 46; D2 12 32 46; D2 12 32 46; D2 12 32 46; D2 12 32 46; D2 12 32 46; D2 12 32 46; D2 12 32 46;
  D2 12 32 46; D2 12 32 46; D2 12 32 46; D2 12 32 46; D2 12 32 46; D2 12 32 46; D2 12 32 46; D2 12 32 46; D2 12 32 47;
  D2 12 32 47; D2 12 32 47; D2 12 32 47; D2 12 32 47; D2 12 32 47; D2 12 32 47; D2 12 32 47; D2 12 32 47; D2 12 32 47;
  D2 12 32 47; D2 12 32 47; D2 12 32 47; D2 12 32 47; D2 12 32 47; D2 12 32 47; D2 12 32 51; D2 12 32 51; D2 12 32 51;
  D2 12 32 51; D2 12 32 51; D2 12 32 51; D2 12 32 51; D2 12 32 51; D2 12 32 51; D2 12 32 51; D2 12 32 51; D2 12 32 51;
  D2 12 32 51; D2 12 32 51; D2 12 32 51; D2 12 32 51; D2 12 32 52; D2 12 32 52; D2 12 32 52; D2 12 32 52; D2 12 32 52;
  D2 12 32 52; D2 12 32 52; D2 12 32 52; D2 12 32 52; D2 12 32 52; D2 12 32 52; D2 12 32 52; D2 12 32 52; D2 12 32 52;
  D2 12 32 52; D2 12 32 52; D2 12 32 53; D2 12 32 53; D2 12 32 53; D2 12 32 53; D2 12 32 53; D2 12 32 53; D2 12 32 53;
  D2 12 32 53; D2 12 32 53; D2 12 32 53; D2 12 32 53; D2 12 32 53; D2 12 32 53; D2 12 32 53; D2 12 32 53; D2 12 32 53;
  D2 12 32 54; D2 12 32 54; D2 12 32 54; D2 12 32 54; D2 12 32 54; D2 12 32 54; D2 12 32 54; D2 12 32 54; D2 12 32 54;
  D2 12 32 54; D2 12 32 54; D2 12 32 54; D2 12 32 54; D2 12 32 54; D2 12 32 54; D2 12 32 54; D2 12 32 55; D2 12 32 55;
  D2 12 32 55; D2 12 32 55; D2 12 32 55; D2 12 32 55; D2 12 32 55; D2 12 32 55; D2 12 32 55; D2 12 32 55; D2 12 32 55;
  D2 12 32 55; D2 12 32 55; D2 12 32 55; D2 12 32 55; D2 12 32 55; D2 12 32 56; D2 12 32 56; D2 12 32 56; D2 12 32 56;
  D2 12 32 56; D2 12 32 56; D2 12 32 56; D2 12 32 56; D2 12 32 56; D2 12 32 56; D2 12 32 56; D2 12 32 56; D2 12 32 56;
  D2 12 32 56; D2 12 32 56; D2 12 32 56; D2 12 32 57; D2 12 32 57; D2 12 32 57; D2 12 32 57; D2 12 32 57; D2 12 32 57;
  D2 12 32 57; D2 12 32 57; D2 12 32 57; D2 12 32 57; D2 12 32 57; D2 12 32 57; D2 12 32 57; D2 12 32 57; D2 12 32 57;
  D2 12 32 57].
Definition hdecs_82 : list hdec := [
  D2 12 32 61; D2 12 32 61; D2 12 32 61; D2 12 32 61; D2 12 32 61; D2 12 32 61; D2 12 32 61; D2 12 32 61; D2 12 32 61;
  D2 12 32 61; D2 12 32 61; D2 12 32 61; D2 12 32 61; D2 12 32 61; D2 12 32 61; D2 12 32 61; D2 12 32 65; D2 12 32 65;
  D2 12 32 65; D2 12 32 65; D2 12 32 65; D2 12 32 65; D2 12 32 65; D2 12 32 65; D2 12 32 65; D2 12 32 65; D2 12 32 65;
  D2 12 32 65; D2 12 32 65; D2 12 32 65; D2 12 32 65; D2 12 32 65; D2 12 32 95; D2 12 32 95; D2 12 32 95; D2 12 32 95;
  D2 12 32 95; D2 12 32 95; D2 12 32 95; D2 12 32 95; D2 12 32 95; D2 12 32 95; D2 12 32 95; D2 12 32 95; D2 12 32 95;
  D2 12 32 95; D2 12 32 95; D2 12 32 95; D2 12 32 98; D2 12 32 98; D2 12 32 98; D2 12 32 98; D2 12 32 98; D2 12 32 98;
  D2 12 32 98; D2 12 32 98; D2 12 32 98; D2 12 32 98; D2 12 32 98; D2 12 32 98; D2 12 32 98; D2 12 32 98; D2 12 32 98;
  D2 12 32 98; D2 12 32 100; D2 12 32 100; D2 12 32 100; D2 12 32 100; D2 12 32 100; D2 12 32 100; D2 12 32 100;
  D2 12 32 100; D2 12 32 100; D2 12 32 100; D2 12 32 100; D2 12 32 100; D2 12 32 100; D2 12 32 100; D2 12 32 100;
  D2 12 32 100; D2 12 32 102; D2 12 32 102; D2 12 32 102; D2 12 32 102; D2 12 32 102; D2 12 32 102; D2 12 32 102;
  D2 12 32 102; D2 12 32 102; D2 12 32 102; D2 12 32 102; D2 12 32 102; D2 12 32 102; D2 12 32 102; D2 12 32 102;
  D2 12 32 102; D2 12 32 103; D2 12 32 103; D2 12 32 103; D2 12 32 103; D2 12 32 103; D2 12 32 103; D2 12 32 103;
  D2 12 32 103; D2 12 32 103; D2 12 32 103; D2 12 32 103; D2 12 32 103; D2 12 32 103; D2 12 32 103; D2 12 32 103;
  D2 12 32 103; D2 12 32 104; D2 12 32 104; D2 12 32 104; D2 12 32 104; D2 12 32 104; D2 12 32 104; D2 12 32 104;
  D2 12 32 104; D2 12 32 104; D2 12 32 104; D2 12 32 104; D2 12 32 104; D2 12 32 104; D2 12 32 104; D2 12 32 104;
  D2 12 32 104; D2 12 32 108; D2 12 32 108; D2 12 32 108; D2 12 32 108; D2 12 32 108; D2 12 32 108; D2 12 32 108;
  D2 12 32 108; D2 12 32 108; D2 12 32 108; D2 12 32 108; D2 12 32 108; D2 12 32 108; D2 12 32 108; D2 12 32 108;
  D2 12 32 108; D2 12 32 109; D2 12 32 109; D2 12 32 109; D2 12 32 109; D2 12 32 109; D2 12 32 109; D2 12 32 109;
  D2 12 32 109; D2 12 32 109; D2 12 32 109; D2 12 32 109; D2 12 32 109; D2 12 32 109; D2 12 32 109; D2 12 32 109;
  D2 12 32 109; D2 12 32 110; D2 12 32 110; D2 12 32 110; D2 12 32 110; D2 12 32 110; D2 12 32 110; D2 12 32 110;
  D2 12 32 110; D2 12 32 110; D2 12 32 110; D2 12 32 110; D2 12 32 110; D2 12 32 110; D2 12 32 110; D2 12 32 110;
  D2 12 32 110; D2 12 32 112; D2 12 32 112; D2 12 32 112; D2 12 32 112; D2 12 32 112; D2 12 32 112; D2 12 32 112;
  D2 12 32 112; D2 12 32 112; D2 12 32 112; D2 12 32 112; D2 12 32 112; D2 12 32 112; D2 12 32 112; D2 12 32 112;
  D2 12 32 112; D2 12 32 114; D2 12 32 114; D2 12 32 114; D2 12 32 114; D2 12 32 114; D2 12 32 114; D2 12 32 114;
  D2 12 32 114; D2 12 32 114; D2 12 32 114; D2 12 32 114; D2 12 32 114; D2 12 32 114; D2 12 32 114; D2 12 32 114;
  D2 12 32 114; D2 12 32 117; D2 12 32 117; D2 12 32 117; D2 12 32 117; D2 12 32 117; D2 12 32 117; D2 12 32 117;
  D2 12 32 117; D2 12 32 117; D2 12 32 117; D2 12 32 117; D2 12 32 117; D2 12 32 117; D2 12 32 117; D2 12 32 117;
  D2 12 32 117; D2 13 32 58; D2 13 32 58; D2 13 32 58; D2 13 32 58; D2 13 32 58; D2 13 32 58; D2 13 32 58;
  D2 13 32 58; D2 13 32 66; D2 13 32 66; D2 13 32 66; D2 13 32 66; D2 13 32 66; D2 13 32 66; D2 13 32 66; D2 13 32 66;
  D2 13 32 67; D2 13 32 67; D2 13 32 67; D2 13 32 67; D2 13 32 67; D2 13 32 67; D2 13 32 67; D2 13 32 67; D2 13 32 68;
  D2 13 32 68; D2 13 32 68; D2 13 32 68; D2 13 32 68; D2 13 32 68; D2 13 32 68; D2 13 32 68].
Definition hdecs_83 : list hdec := [
  D2 13 32 69; D2 13 32 69; D2 13 32 69; D2 13 32 69; D2 13 32 69; D2 13 32 69; D2 13 32 69; D2 13 32 69; D2 13 32 70;
  D2 13 32 70; D2 13 32 70; D2 13 32 70; D2 13 32 70; D2 13 32 70; D2 13 32 70; D2 13 32 70; D2 13 32 71; D2 13 32 71;
  D2 13 32 71; D2 13 32 71; D2 13 32 71; D2 13 32 71; D2 13 32 71; D2 13 32 71; D2 13 32 72; D2 13 32 72; D2 13 32 72;
  D2 13 32 72; D2 13 32 72; D2 13 32 72; D2 13 32 72; D2 13 32 72; D2 13 32 73; D2 13 32 73; D2 13 32 73; D2 13 32 73;
  D2 13 32 73; D2 13 32 73; D2 13 32 73; D2 13 32 73; D2 13 32 74; D2 13 32 74; D2 13 32 74; D2 13 32 74; D2 13 32 74;
  D2 13 32 74; D2 13 32 74; D2 13 32 74; D2 13 32 75; D2 13 32 75; D2 13 32 75; D2 13 32 75; D2 13 32 75; D2 13 32 75;
  D2 13 32 75; D2 13 32 75; D2 13 32 76; D2 13 32 76; D2 13 32 76; D2 13 32 76; D2 13 32 76; D2 13 32 76; D2 13 32 76;
  D2 13 32 76; D2 13 32 77; D2 13 32 77; D2 13 32 77; D2 13 32 77; D2 13 32 77; D2 13 32 77; D2 13 32 77; D2 13 32 77;
  D2 13 32 78; D2 13 32 78; D2 13 32 78; D2 13 32 78; D2 13 32 78; D2 13 32 78; D2 13 32 78; D2 13 32 78; D2 13 32 79;
  D2 13 32 79; D2 13 32 79; D2 13 32 79; D2 13 32 79; D2 13 32 79; D2 13 32 79; D2 13 32 79; D2 13 32 80; D2 13 32 80;
  D2 13 32 80; D2 13 32 80; D2 13 32 80; D2 13 32 80; D2 13 32 80; D2 13 32 80; D2 13 32 81; D2 13 32 81; D2 13 32 81;
  D2 13 32 81; D2 13 32 81; D2 13 32 81; D2 13 32 81; D2 13 32 81; D2 13 32 82; D2 13 32 82; D2 13 32 82; D2 13 32 82;
  D2 13 32 82; D2 13 32 82; D2 13 32 82; D2 13 32 82; D2 13 32 83; D2 13 32 83; D2 13 32 83; D2 13 32 83; D2 13 32 83;
  D2 13 32 83; D2 13 32 83; D2 13 32 83; D2 13 32 84; D2 13 32 84; D2 13 32 84; D2 13 32 84; D2 13 32 84; D2 13 32 84;
  D2 13 32 84; D2 13 32 84; D2 13 32 85; D2 13 32 85; D2 13 32 85; D2 13 32 85; D2 13 32 85; D2 13 32 85; D2 13 32 85;
  D2 13 32 85; D2 13 32 86; D2 13 32 86; D2 13 32 86; D2 13 32 86; D2 13 32 86; D2 13 32 86; D2 13 32 86; D2 13 32 86;
  D2 13 32 87; D2 13 32 87; D2 13 32 87; D2 13 32 87; D2 13 32 87; D2 13 32 87; D2 13 32 87; D2 13 32 87; D2 13 32 89;
  D2 13 32 89; D2 13 32 89; D2 13 32 89; D2 13 32 89; D2 13 32 89; D2 13 32 89; D2 13 32 89; D2 13 32 106;
  D2 13 32 106; D2 13 32 106; D2 13 32 106; D2 13 32 106; D2 13 32 106; D2 13 32 106; D2 13 32 106; D2 13 32 107;
  D2 13 32 107; D2 13 32 107; D2 13 32 107; D2 13 32 107; D2 13 32 107; D2 13 32 107; D2 13 32 107; D2 13 32 113;
  D2 13 32 113; D2 13 32 113; D2 13 32 113; D2 13 32 113; D2 13 32 113; D2 13 32 113; D2 13 32 113; D2 13 32 118;
  D2 13 32 118; D2 13 32 118; D2 13 32 118; D2 13 32 118; D2 13 32 118; D2 13 32 118; D2 13 32 118; D2 13 32 119;
  D2 13 32 119; D2 13 32 119; D2 13 32 119; D2 13 32 119; D2 13 32 119; D2 13 32 119; D2 13 32 119; D2 13 32 120;
  D2 13 32 120; D2 13 32 120; D2 13 32 120; D2 13 32 120; D2 13 32 120; D2 13 32 120; D2 13 32 120; D2 13 32 121;
  D2 13 32 121; D2 13 32 121; D2 13 32 121; D2 13 32 121; D2 13 32 121; D2 13 32 121; D2 13 32 121; D2 13 32 122;
  D2 13 32 122; D2 13 32 122; D2 13 32 122; D2 13 32 122; D2 13 32 122; D2 13 32 122; D2 13 32 122; D2 14 32 38;
  D2 14 32 38; D2 14 32 38; D2 14 32 38; D2 14 32 42; D2 14 32 42; D2 14 32 42; D2 14 32 42; D2 14 32 44; D2 14 32 44;
  D2 14 32 44; D2 14 32 44; D2 14 32 59; D2 14 32 59; D2 14 32 59; D2 14 32 59; D2 14 32 88; D2 14 32 88; D2 14 32 88;
  D2 14 32 88; D2 14 32 90; D2 14 32 90; D2 14 32 90; D2 14 32 90; D2 16 32 33; D2 16 32 34; D2 16 32 40; D2 16 32 41;
  D2 16 32 63; D1 6 32; D1 6 32; D1 6 32].
Definition hdecs_84 : list hdec := [
  D3 16 37 48 48; D3 16 37 48 49; D3 16 37 48 50; D3 16 37 48 97; D3 16 37 48 99; D3 16 37 48 101; D3 16 37 48 105;
  D3 16 37 48 111; D3 16 37 48 115; D3 16 37 48 116; D2 11 37 48; D2 11 37 48; D2 11 37 48; D2 11 37 48; D2 11 37 48;
  D2 11 37 48; D2 11 37 48; D2 11 37 48; D2 11 37 48; D2 11 37 48; D2 11 37 48; D2 11 37 48; D2 11 37 48; D2 11 37 48;
  D2 11 37 48; D2 11 37 48; D2 11 37 48; D2 11 37 48; D2 11 37 48; D2 11 37 48; D2 11 37 48; D2 11 37 48;
  D3 16 37 49 48; D3 16 37 49 49; D3 16 37 49 50; D3 16 37 49 97; D3 16 37 49 99; D3 16 37 49 101; D3 16 37 49 105;
  D3 16 37 49 111; D3 16 37 49 115; D3 16 37 49 116; D2 11 37 49; D2 11 37 49; D2 11 37 49; D2 11 37 49; D2 11 37 49;
  D2 11 37 49; D2 11 37 49; D2 11 37 49; D2 11 37 49; D2 11 37 49; D2 11 37 49; D2 11 37 49; D2 11 37 49; D2 11 37 49;
  D2 11 37 49; D2 11 37 49; D2 11 37 49; D2 11 37 49; D2 11 37 49; D2 11 37 49; D2 11 37 49; D2 11 37 49;
  D3 16 37 50 48; D3 16 37 50 49; D3 16 37 50 50; D3 16 37 50 97; D3 16 37 50 99; D3 16 37 50 101; D3 16 37 50 105;
  D3 16 37 50 111; D3 16 37 50 115; D3 16 37 50 116; D2 11 37 50; D2 11 37 50; D2 11 37 50; D2 11 37 50; D2 11 37 50;
  D2 11 37 50; D2 11 37 50; D2 11 37 50; D2 11 37 50; D2 11 37 50; D2 11 37 50; D2 11 37 50; D2 11 37 50; D2 11 37 50;
  D2 11 37 50; D2 11 37 50; D2 11 37 50; D2 11 37 50; D2 11 37 50; D2 11 37 50; D2 11 37 50; D2 11 37 50;
  D3 16 37 97 48; D3 16 37 97 49; D3 16 37 97 50; D3 16 37 97 97; D3 16 37 97 99; D3 16 37 97 101; D3 16 37 97 105;
  D3 16 37 97 111; D3 16 37 97 115; D3 16 37 97 116; D2 11 37 97; D2 11 37 97; D2 11 37 97; D2 11 37 97; D2 11 37 97;
  D2 11 37 97; D2 11 37 97; D2 11 37 97; D2 11 37 97; D2 11 37 97; D2 11 37 97; D2 11 37 97; D2 11 37 97; D2 11 37 97;
  D2 11 37 97; D2 11 37 97; D2 11 37 97; D2 11 37 97; D2 11 37 97; D2 11 37 97; D2 11 37 97; D2 11 37 97;
  D3 16 37 99 48; D3 16 37 99 49; D3 16 37 99 50; D3 16 37 99 97; D3 16 37 99 99; D3 16 37 99 101; D3 16 37 99 105;
  D3 16 37 99 111; D3 16 37 99 115; D3 16 37 99 116; D2 11 37 99; D2 11 37 99; D2 11 37 99; D2 11 37 99; D2 11 37 99;
  D2 11 37 99; D2 11 37 99; D2 11 37 99; D2 11 37 99; D2 11 37 99; D2 11 37 99; D2 11 37 99; D2 11 37 99; D2 11 37 99;
  D2 11 37 99; D2 11 37 99; D2 11 37 99; D2 11 37 99; D2 11 37 99; D2 11 37 99; D2 11 37 99; D2 11 37 99;
  D3 16 37 101 48; D3 16 37 101 49; D3 16 37 101 50; D3 16 37 101 97; D3 16 37 101 99; D3 16 37 101 101;
  D3 16 37 101 105; D3 16 37 101 111; D3 16 37 101 115; D3 16 37 101 116; D2 11 37 101; D2 11 37 101; D2 11 37 101;
  D2 11 37 101; D2 11 37 101; D2 11 37 101; D2 11 37 101; D2 11 37 101; D2 11 37 101; D2 11 37 101; D2 11 37 101;
  D2 11 37 101; D2 11 37 101; D2 11 37 101; D2 11 37 101; D2 11 37 101; D2 11 37 101; D2 11 37 101; D2 11 37 101;
  D2 11 37 101; D2 11 37 101; D2 11 37 101; D3 16 37 105 48; D3 16 37 105 49; D3 16 37 105 50; D3 16 37 105 97;
  D3 16 37 105 99; D3 16 37 105 101; D3 16 37 105 105; D3 16 37 105 111; D3 16 37 105 115; D3 16 37 105 116;
  D2 11 37 105; D2 11 37 105; D2 11 37 105; D2 11 37 105; D2 11 37 105; D2 11 37 105; D2 11 37 105; D2 11 37 105;
  D2 11 37 105; D2 11 37 105; D2 11 37 105; D2 11 37 105; D2 11 37 105; D2 11 37 105; D2 11 37 105; D2 11 37 105;
  D2 11 37 105; D2 11 37 105; D2 11 37 105; D2 11 37 105; D2 11 37 105; D2 11 37 105; D3 16 37 111 48;
  D3 16 37 111 49; D3 16 37 111 50; D3 16 37 111 97; D3 16 37 111 99; D3 16 37 111 101; D3 16 37 111 105;
  D3 16 37 111 111; D3 16 37 111 115; D3 16 37 111 116; D2 11 37 111; D2 11 37 111; D2 11 37 111; D2 11 37 111;
  D2 11 37 111; D2 11 37 111; D2 11 37 111; D2 11 37 111; D2 11 37 111; D2 11 37 111; D2 11 37 111; D2 11 37 111;
  D2 11 37 111; D2 11 37 111; D2 11 37 111; D2 11 37 111; D2 11 37 111; D2 11 37 111; D2 11 37 111; D2 11 37 111;
  D2 11 37 111; D2 11 37 111].
Definition hdecs_85 : list hdec := [
  D3 16 37 115 48; D3 16 37 115 49; D3 16 37 115 50; D3 16 37 115 97; D3 16 37 115 99; D3 16 37 115 101;
  D3 16 37 115 105; D3 16 37 115 111; D3 16 37 115 115; D3 16 37 115 116; D2 11 37 115; D2 11 37 115; D2 11 37 115;
  D2 11 37 115; D2 11 37 115; D2 11 37 115; D2 11 37 115; D2 11 37 115; D2 11 37 115; D2 11 37 115; D2 11 37 115;
  D2 11 37 115; D2 11 37 115; D2 11 37 115; D2 11 37 115; D2 11 37 115; D2 11 37 115; D2 11 37 115; D2 11 37 115;
  D2 11 37 115; D2 11 37 115; D2 11 37 115; D3 16 37 116 48; D3 16 37 116 49; D3 16 37 116 50; D3 16 37 116 97;
  D3 16 37 116 99; D3 16 37 116 101; D3 16 37 116 105; D3 16 37 116 111; D3 16 37 116 115; D3 16 37 116 116;
  D2 11 37 116; D2 11 37 116; D2 11 37 116; D2 11 37 116; D2 11 37 116; D2 11 37 116; D2 11 37 116; D2 11 37 116;
  D2 11 37 116; D2 11 37 116; D2 11 37 116; D2 11 37 116; D2 11 37 116; D2 11 37 116; D2 11 37 116; D2 11 37 116;
  D2 11 37 116; D2 11 37 116; D2 11 37 116; D2 11 37 116; D2 11 37 116; D2 11 37 116; D2 12 37 32; D2 12 37 32;
  D2 12 37 32; D2 12 37 32; D2 12 37 32; D2 12 37 32; D2 12 37 32; D2 12 37 32; D2 12 37 32; D2 12 37 32; D2 12 37 32;
  D2 12 37 32; D2 12 37 32; D2 12 37 32; D2 12 37 32; D2 12 37 32; D2 12 37 37; D2 12 37 37; D2 12 37 37; D2 12 37 37;
  D2 12 37 37; D2 12 37 37; D2 12 37 37; D2 12 37 37; D2 12 37 37; D2 12 37 37; D2 12 37 37; D2 12 37 37; D2 12 37 37;
  D2 12 37 37; D2 12 37 37; D2 12 37 37; D2 12 37 45; D2 12 37 45; D2 12 37 45; D2 12 37 45; D2 12 37 45; D2 12 37 45;
  D2 12 37 45; D2 12 37 45; D2 12 37 45; D2 12 37 45; D2 12 37 45; D2 12 37 45; D2 12 37 45; D2 12 37 45; D2 12 37 45;
  D2 12 37 45; D2 12 37 46; D2 12 37 46; D2 12 37 46; D2 12 37 46; D2 12 37 46; D2 12 37 46; D2 12 37 46; D2 12 37 46;
  D2 12 37 46; D2 12 37 46; D2 12 37 46; D2 12 37 46; D2 12 37 46; D2 12 37 46; D2 12 37 46; D2 12 37 46; D2 12 37 47;
  D2 12 37 47; D2 12 37 47; D2 12 37 47; D2 12 37 47; D2 12 37 47; D2 12 37 47; D2 12 37 47; D2 12 37 47; D2 12 37 47;
  D2 12 37 47; D2 12 37 47; D2 12 37 47; D2 12 37 47; D2 12 37 47; D2 12 37 47; D2 12 37 51; D2 12 37 51; D2 12 37 51;
  D2 12 37 51; D2 12 37 51; D2 12 37 51; D2 12 37 51; D2 12 37 51; D2 12 37 51; D2 12 37 51; D2 12 37 51; D2 12 37 51;
  D2 12 37 51; D2 12 37 51; D2 12 37 51; D2 12 37 51; D2 12 37 52; D2 12 37 52; D2 12 37 52; D2 12 37 52; D2 12 37 52;
  D2 12 37 52; D2 12 37 52; D2 12 37 52; D2 12 37 52; D2 12 37 52; D2 12 37 52; D2 12 37 52; D2 12 37 52; D2 12 37 52;
  D2 12 37 52; D2 12 37 52; D2 12 37 53; D2 12 37 53; D2 12 37 53; D2 12 37 53; D2 12 37 53; D2 12 37 53; D2 12 37 53;
  D2 12 37 53; D2 12 37 53; D2 12 37 53; D2 12 37 53; D2 12 37 53; D2 12 37 53; D2 12 37 53; D2 12 37 53; D2 12 37 53;
  D2 12 37 54; D2 12 37 54; D2 12 37 54; D2 12 37 54; D2 12 37 54; D2 12 37 54; D2 12 37 54; D2 12 37 54; D2 12 37 54;
  D2 12 37 54; D2 12 37 54; D2 12 37 54; D2 12 37 54; D2 12 37 54; D2 12 37 54; D2 12 37 54; D2 12 37 55; D2 12 37 55;
  D2 12 37 55; D2 12 37 55; D2 12 37 55; D2 12 37 55; D2 12 37 55; D2 12 37 55; D2 12 37 55; D2 12 37 55; D2 12 37 55;
  D2 12 37 55; D2 12 37 55; D2 12 37 55; D2 12 37 55; D2 12 37 55; D2 12 37 56; D2 12 37 56; D2 12 37 56; D2 12 37 56;
  D2 12 37 56; D2 12 37 56; D2 12 37 56; D2 12 37 56; D2 12 37 56; D2 12 37 56; D2 12 37 56; D2 12 37 56; D2 12 37 56;
  D2 12 37 56; D2 12 37 56; D2 12 37 56; D2 12 37 57; D2 12 37 57; D2 12 37 57; D2 12 37 57; D2 12 37 57; D2 12 37 57;
  D2 12 37 57; D2 12 37 57; D2 12 37 57; D2 12 37 57; D2 12 37 57; D2 12 37 57; D2 12 37 57; D2 12 37 57; D2 12 37 57;
  D2 12 37 57].
Definition hdecs_86 : list hdec := [
  D2 12 37 61; D2 12 37 61; D2 12 37 61; D2 12 37 61; D2 12 37 61; D2 12 37 61; D2 12 37 61; D2 12 37 61; D2 12 37 61;
  D2 12 37 61; D2 12 37 61; D2 12 37 61; D2 12 37 61; D2 12 37 61; D2 12 37 61; D2 12 37 61; D2 12 37 65; D2 12 37 65;
  D2 12 37 65; D2 12 37 65; D2 12 37 65; D2 12 37 65; D2 12 37 65; D2 12 37 65; D2 12 37 65; D2 12 37 65; D2 12 37 65;
  D2 12 37 65; D2 12 37 65; D2 12 37 65; D2 12 37 65; D2 12 37 65; D2 12 37 95; D2 12 37 95; D2 12 37 95; D2 12 37 95;
  D2 12 37 95; D2 12 37 95; D2 12 37 95; D2 12 37 95; D2 12 37 95; D2 12 37 95; D2 12 37 95; D2 12 37 95; D2 12 37 95;
  D2 12 37 95; D2 12 37 95; D2 12 37 95; D2 12 37 98; D2 12 37 98; D2 12 37 98; D2 12 37 98; D2 12 37 98; D2 12 37 98;
  D2 12 37 98; D2 12 37 98; D2 12 37 98; D2 12 37 98; D2 12 37 98; D2 12 37 98; D2 12 37 98; D2 12 37 98; D2 12 37 98;
  D2 12 37 98; D2 12 37 100; D2 12 37 100; D2 12 37 100; D2 12 37 100; D2 12 37 100; D2 12 37 100; D2 12 37 100;
  D2 12 37 100; D2 12 37 100; D2 12 37 100; D2 12 37 100; D2 12 37 100; D2 12 37 100; D2 12 37 100; D2 12 37 100;
  D2 12 37 100; D2 12 37 102; D2 12 37 102; D2 12 37 102; D2 12 37 102; D2 12 37 102; D2 12 37 102; D2 12 37 102;
  D2 12 37 102; D2 12 37 102; D2 12 37 102; D2 12 37 102; D2 12 37 102; D2 12 37 102; D2 12 37 102; D2 12 37 102;
  D2 12 37 102; D2 12 37 103; D2 12 37 103; D2 12 37 103; D2 12 37 103; D2 12 37 103; D2 12 37 103; D2 12 37 103;
  D2 12 37 103; D2 12 37 103; D2 12 37 103; D2 12 37 103; D2 12 37 103; D2 12 37 103; D2 12 37 103; D2 12 37 103;
  D2 12 37 103; D2 12 37 104; D2 12 37 104; D2 12 37 104; D2 12 37 104; D2 12 37 104; D2 12 37 104; D2 12 37 104;
  D2 12 37 104; D2 12 37 104; D2 12 37 104; D2 12 37 104; D2 12 37 104; D2 12 37 104; D2 12 37 104; D2 12 37 104;
  D2 12 37 104; D2 12 37 108; D2 12 37 108; D2 12 37 108; D2 12 37 108; D2 12 37 108; D2 12 37 108; D2 12 37 108;
  D2 12 37 108; D2 12 37 108; D2 12 37 108; D2 12 37 108; D2 12 37 108; D2 12 37 108; D2 12 37 108; D2 12 37 108;
  D2 12 37 108; D2 12 37 109; D2 12 37 109; D2 12 37 109; D2 12 37 109; D2 12 37 109; D2 12 37 109; D2 12 37 109;
  D2 12 37 109; D2 12 37 109; D2 12 37 109; D2 12 37 109; D2 12 37 109; D2 12 37 109; D2 12 37 109; D2 12 37 109;
  D2 12 37 109; D2 12 37 110; D2 12 37 110; D2 12 37 110; D2 12 37 110; D2 12 37 110; D2 12 37 110; D2 12 37 110;
  D2 12 37 110; D2 12 37 110; D2 12 37 110; D2 12 37 110; D2 12 37 110; D2 12 37 110; D2 12 37 110; D2 12 37 110;
  D2 12 37 110; D2 12 37 112; D2 12 37 112; D2 12 37 112; D2 12 37 112; D2 12 37 112; D2 12 37 112; D2 12 37 112;
  D2 12 37 112; D2 12 37 112; D2 12 37 112; D2 12 37 112; D2 12 37 112; D2 12 37 112; D2 12 37 112; D2 12 37 112;
  D2 12 37 112; D2 12 37 114; D2 12 37 114; D2 12 37 114; D2 12 37 114; D2 12 37 114; D2 12 37 114; D2 12 37 114;
  D2 12 37 114; D2 12 37 114; D2 12 37 114; D2 12 37 114; D2 12 37 114; D2 12 37 114; D2 12 37 114; D2 12 37 114;
  D2 12 37 114; D2 12 37 117; D2 12 37 117; D2 12 37 117; D2 12 37 117; D2 12 37 117; D2 12 37 117; D2 12 37 117;
  D2 12 37 117; D2 12 37 117; D2 12 37 117; D2 12 37 117; D2 12 37 117; D2 12 37 117; D2 12 37 117; D2 12 37 117;
  D2 12 37 117; D2 13 37 58; D2 13 37 58; D2 13 37 58; D2 13 37 58; D2 13 37 58; D2 13 37 58; D2 13 37 58;
  D2 13 37 58; D2 13 37 66; D2 13 37 66; D2 13 37 66; D2 13 37 66; D2 13 37 66; D2 13 37 66; D2 13 37 66; D2 13 37 66;
  D2 13 37 67; D2 13 37 67; D2 13 37 67; D2 13 37 67; D2 13 37 67; D2 13 37 67; D2 13 37 67; D2 13 37 67; D2 13 37 68;
  D2 13 37 68; D2 13 37 68; D2 13 37 68; D2 13 37 68; D2 13 37 68; D2 13 37 68; D2 13 37 68].
Definition hdecs_87 : list hdec := [
  D2 13 37 69; D2 13 37 69; D2 13 37 69; D2 13 37 69; D2 13 37 69; D2 13 37 69; D2 13 37 69; D2 13 37 69; D2 13 37 70;
  D2 13 37 70; D2 13 37 70; D2 13 37 70; D2 13 37 70; D2 13 37 70; D2 13 37 70; D2 13 37 70; D2 13 37 71; D2 13 37 71;
  D2 13 37 71; D2 13 37 71; D2 13 37 71; D2 13 37 71; D2 13 37 71; D2 13 37 71; D2 13 37 72; D2 13 37 72; D2 13 37 72;
  D2 13 37 72; D2 13 37 72; D2 13 37 72; D2 13 37 72; D2 13 37 72; D2 13 37 73; D2 13 37 73; D2 13 37 73; D2 13 37 73;
  D2 13 37 73; D2 13 37 73; D2 13 37 73; D2 13 37 73; D2 13 37 74; D2 13 37 74; D2 13 37 74; D2 13 37 74; D2 13 37 74;
  D2 13 37 74; D2 13 37 74; D2 13 37 74; D2 13 37 75; D2 13 37 75; D2 13 37 75; D2 13 37 75; D2 13 37 75; D2 13 37 75;
  D2 13 37 75; D2 13 37 75; D2 13 37 76; D2 13 37 76; D2 13 37 76; D2 13 37 76; D2 13 37 76; D2 13 37 76; D2 13 37 76;
  D2 13 37 76; D2 13 37 77; D2 13 37 77; D2 13 37 77; D2 13 37 77; D2 13 37 77; D2 13 37 77; D2 13 37 77; D2 13 37 77;
  D2 13 37 78; D2 13 37 78; D2 13 37 78; D2 13 37 78; D2 13 37 78; D2 13 37 78; D2 13 37 78; D2 13 37 78; D2 13 37 79;
  D2 13 37 79; D2 13 37 79; D2 13 37 79; D2 13 37 79; D2 13 37 79; D2 13 37 79; D2 13 37 79; D2 13 37 80; D2 13 37 80;
  D2 13 37 80; D2 13 37 80; D2 13 37 80; D2 13 37 80; D2 13 37 80; D2 13 37 80; D2 13 37 81; D2 13 37 81; D2 13 37 81;
  D2 13 37 81; D2 13 37 81; D2 13 37 81; D2 13 37 81; D2 13 37 81; D2 13 37 82; D2 13 37 82; D2 13 37 82; D2 13 37 82;
  D2 13 37 82; D2 13 37 82; D2 13 37 82; D2 13 37 82; D2 13 37 83; D2 13 37 83; D2 13 37 83; D2 13 37 83; D2 13 37 83;
  D2 13 37 83; D2 13 37 83; D2 13 37 83; D2 13 37 84; D2 13 37 84; D2 13 37 84; D2 13 37 84; D2 13 37 84; D2 13 37 84;
  D2 13 37 84; D2 13 37 84; D2 13 37 85; D2 13 37 85; D2 13 37 85; D2 13 37 85; D2 13 37 85; D2 13 37 85; D2 13 37 85;
  D2 13 37 85; D2 13 37 86; D2 13 37 86; D2 13 37 86; D2 13 37 86; D2 13 37 86; D2 13 37 86; D2 13 37 86; D2 13 37 86;
  D2 13 37 87; D2 13 37 87; D2 13 37 87; D2 13 37 87; D2 13 37 87; D2 13 37 87; D2 13 37 87; D2 13 37 87; D2 13 37 89;
  D2 13 37 89; D2 13 37 89; D2 13 37 89; D2 13 37 89; D2 13 37 89; D2 13 37 89; D2 13 37 89; D2 13 37 106;
  D2 13 37 106; D2 13 37 106; D2 13 37 106; D2 13 37 106; D2 13 37 106; D2 13 37 106; D2 13 37 106; D2 13 37 107;
  D2 13 37 107; D2 13 37 107; D2 13 37 107; D2 13 37 107; D2 13 37 107; D2 13 37 107; D2 13 37 107; D2 13 37 113;
  D2 13 37 113; D2 13 37 113; D2 13 37 113; D2 13 37 113; D2 13 37 113; D2 13 37 113; D2 13 37 113; D2 13 37 118;
  D2 13 37 118; D2 13 37 118; D2 13 37 118; D2 13 37 118; D2 13 37 118; D2 13 37 118; D2 13 37 118; D2 13 37 119;
  D2 13 37 119; D2 13 37 119; D2 13 37 119; D2 13 37 119; D2 13 37 119; D2 13 37 119; D2 13 37 119; D2 13 37 120;
  D2 13 37 120; D2 13 37 120; D2 13 37 120; D2 13 37 120; D2 13 37 120; D2 13 37 120; D2 13 37 120; D2 13 37 121;
  D2 13 37 121; D2 13 37 121; D2 13 37 121; D2 13 37 121; D2 13 37 121; D2 13 37 121; D2 13 37 121; D2 13 37 122;
  D2 13 37 122; D2 13 37 122; D2 13 37 122; D2 13 37 122; D2 13 37 122; D2 13 37 122; D2 13 37 122; D2 14 37 38;
  D2 14 37 38; D2 14 37 38; D2 14 37 38; D2 14 37 42; D2 14 37 42; D2 14 37 42; D2 14 37 42; D2 14 37 44; D2 14 37 44;
  D2 14 37 44; D2 14 37 44; D2 14 37 59; D2 14 37 59; D2 14 37 59; D2 14 37 59; D2 14 37 88; D2 14 37 88; D2 14 37 88;
  D2 14 37 88; D2 14 37 90; D2 14 37 90; D2 14 37 90; D2 14 37 90; D2 16 37 33; D2 16 37 34; D2 16 37 40; D2 16 37 41;
  D2 16 37 63; D1 6 37; D1 6 37; D1 6 37].
Definition hdecs_88 : list hdec := [
  D3 16 45 48 48; D3 16 45 48 49; D3 16 45 48 50; D3 16 45 48 97; D3 16 45 48 99; D3 16 45 48 101; D3 16 45 48 105;
  D3 16 45 48 111; D3 16 45 48 115; D3 16 45 48 116; D2 11 45 48; D2 11 45 48; D2 11 45 48; D2 11 45 48; D2 11 45 48;
  D2 11 45 48; D2 11 45 48; D2 11 45 48; D2 11 45 48; D2 11 45 48; D2 11 45 48; D2 11 45 48; D2 11 45 48; D2 11 45 48;
  D2 11 45 48; D2 11 45 48; D2 11 45 48; D2 11 45 48; D2 11 45 48; D2 11 45 48; D2 11 45 48; D2 11 45 48;
  D3 16 45 49 48; D3 16 45 49 49; D3 16 45 49 50; D3 16 45 49 97; D3 16 45 49 99; D3 16 45 49 101; D3 16 45 49 105;
  D3 16 45 49 111; D3 16 45 49 115; D3 16 45 49 116; D2 11 45 49; D2 11 45 49; D2 11 45 49; D2 11 45 49; D2 11 45 49;
  D2 11 45 49; D2 11 45 49; D2 11 45 49; D2 11 45 49; D2 11 45 49; D2 11 45 49; D2 11 45 49; D2 11 45 49; D2 11 45 49;
  D2 11 45 49; D2 11 45 49; D2 11 45 49; D2 11 45 49; D2 11 45 49; D2 11 45 49; D2 11 45 49; D2 11 45 49;
  D3 16 45 50 48; D3 16 45 50 49; D3 16 45 50 50; D3 16 45 50 97; D3 16 45 50 99; D3 16 45 50 101; D3 16 45 50 105;
  D3 16 45 50 111; D3 16 45 50 115; D3 16 45 50 116; D2 11 45 50; D2 11 45 50; D2 11 45 50; D2 11 45 50; D2 11 45 50;
  D2 11 45 50; D2 11 45 50; D2 11 45 50; D2 11 45 50; D2 11 45 50; D2 11 45 50; D2 11 45 50; D2 11 45 50; D2 11 45 50;
  D2 11 45 50; D2 11 45 50; D2 11 45 50; D2 11 45 50; D2 11 45 50; D2 11 45 50; D2 11 45 50; D2 11 45 50;
  D3 16 45 97 48; D3 16 45 97 49; D3 16 45 97 50; D3 16 45 97 97; D3 16 45 97 99; D3 16 45 97 101; D3 16 45 97 105;
  D3 16 45 97 111; D3 16 45 97 115; D3 16 45 97 116; D2 11 45 97; D2 11 45 97; D2 11 45 97; D2 11 45 97; D2 11 45 97;
  D2 11 45 97; D2 11 45 97; D2 11 45 97; D2 11 45 97; D2 11 45 97; D2 11 45 97; D2 11 45 97; D2 11 45 97; D2 11 45 97;
  D2 11 45 97; D2 11 45 97; D2 11 45 97; D2 11 45 97; D2 11 45 97; D2 11 45 97; D2 11 45 97; D2 11 45 97;
  D3 16 45 99 48; D3 16 45 99 49; D3 16 45 99 50; D3 16 45 99 97; D3 16 45 99 99; D3 16 45 99 101; D3 16 45 99 105;
  D3 16 45 99 111; D3 16 45 99 115; D3 16 45 99 116; D2 11 45 99; D2 11 45 99; D2 11 45 99; D2 11 45 99; D2 11 45 99;
  D2 11 45 99; D2 11 45 99; D2 11 45 99; D2 11 45 99; D2 11 45 99; D2 11 45 99; D2 11 45 99; D2 11 45 99; D2 11 45 99;
  D2 11 45 99; D2 11 45 99; D2 11 45 99; D2 11 45 99; D2 11 45 99; D2 11 45 99; D2 11 45 99; D2 11 45 99;
  D3 16 45 101 48; D3 16 45 101 49; D3 16 45 101 50; D3 16 45 101 97; D3 16 45 101 99; D3 16 45 101 101;
  D3 16 45 101 105; D3 16 45 101 111; D3 16 45 101 115; D3 16 45 101 116; D2 11 45 101; D2 11 45 101; D2 11 45 101;
  D2 11 45 101; D2 11 45 101; D2 11 45 101; D2 11 45 101; D2 11 45 101; D2 11 45 101; D2 11 45 101; D2 11 45 101;
  D2 11 45 101; D2 11 45 101; D2 11 45 101; D2 11 45 101; D2 11 45 101; D2 11 45 101; D2 11 45 101; D2 11 45 101;
  D2 11 45 101; D2 11 45 101; D2 11 45 101; D3 16 45 105 48; D3 16 45 105 49; D3 16 45 105 50; D3 16 45 105 97;
  D3 16 45 105 99; D3 16 45 105 101; D3 16 45 105 105; D3 16 45 105 111; D3 16 45 105 115; D3 16 45 105 116;
  D2 11 45 105; D2 11 45 105; D2 11 45 105; D2 11 45 105; D2 11 45 105; D2 11 45 105; D2 11 45 105; D2 11 45 105;
  D2 11 45 105; D2 11 45 105; D2 11 45 105; D2 11 45 105; D2 11 45 105; D2 11 45 105; D2 11 45 105; D2 11 45 105;
  D2 11 45 105; D2 11 45 105; D2 11 45 105; D2 11 45 105; D2 11 45 105; D2 11 45 105; D3 16 45 111 48;
  D3 16 45 111 49; D3 16 45 111 50; D3 16 45 111 97; D3 16 45 111 99; D3 16 45 111 101; D3 16 45 111 105;
  D3 16 45 111 111; D3 16 45 111 115; D3 16 45 111 116; D2 11 45 111; D2 11 45 111; D2 11 45 111; D2 11 45 111;
  D2 11 45 111; D2 11 45 111; D2 11 45 111; D2 11 45 111; D2 11 45 111; D2 11 45 111; D2 11 45 111; D2 11 45 111;
  D2 11 45 111; D2 11 45 111; D2 11 45 111; D2 11 45 111; D2 11 45 111; D2 11 45 111; D2 11 45 111; D2 11 45 111;
  D2 11 45 111; D2 11 45 111].
Definition hdecs_89 : list hdec := [
  D3 16 45 115 48; D3 16 45 115 49; D3 16 45 115 50; D3 16 45 115 97; D3 16 45 115 99; D3 16 45 115 101;
  D3 16 45 115 105; D3 16 45 115 111; D3 16 45 115 115; D3 16 45 115 116; D2 11 45 115; D2 11 45 115; D2 11 45 115;
  D2 11 45 115; D2 11 45 115; D2 11 45 115; D2 11 45 115; D2 11 45 115; D2 11 45 115; D2 11 45 115; D2 11 45 115;
  D2 11 45 115; D2 11 45 115; D2 11 45 115; D2 11 45 115; D2 11 45 115; D2 11 45 115; D2 11 45 115; D2 11 45 115;
  D2 11 45 115; D2 11 45 115; D2 11 45 115; D3 16 45 116 48; D3 16 45 116 49; D3 16 45 116 50; D3 16 45 116 97;
  D3 16 45 116 99; D3 16 45 116 101; D3 16 45 116 105; D3 16 45 116 111; D3 16 45 116 115; D3 16 45 116 116;
  D2 11 45 116; D2 11 45 116; D2 11 45 116; D2 11 45 116; D2 11 45 116; D2 11 45 116; D2 11 45 116; D2 11 45 116;
  D2 11 45 116; D2 11 45 116; D2 11 45 116; D2 11 45 116; D2 11 45 116; D2 11 45 116; D2 11 45 116; D2 11 45 116;
  D2 11 45 116; D2 11 45 116; D2 11 45 116; D2 11 45 116; D2 11 45 116; D2 11 45 116; D2 12 45 32; D2 12 45 32;
  D2 12 45 32; D2 12 45 32; D2 12 45 32; D2 12 45 32; D2 12 45 32; D2 12 45 32; D2 12 45 32; D2 12 45 32; D2 12 45 32;
  D2 12 45 32; D2 12 45 32; D2 12 45 32; D2 12 45 32; D2 12 45 32; D2 12 45 37; D2 12 45 37; D2 12 45 37; D2 12 45 37;
  D2 12 45 37; D2 12 45 37; D2 12 45 37; D2 12 45 37; D2 12 45 37; D2 12 45 37; D2 12 45 37; D2 12 45 37; D2 12 45 37;
  D2 12 45 37; D2 12 45 37; D2 12 45 37; D2 12 45 45; D2 12 45 45; D2 12 45 45; D2 12 45 45; D2 12 45 45; D2 12 45 45;
  D2 12 45 45; D2 12 45 45; D2 12 45 45; D2 12 45 45; D2 12 45 45; D2 12 45 45; D2 12 45 45; D2 12 45 45; D2 12 45 45;
  D2 12 45 45; D2 12 45 46; D2 12 45 46; D2 12 45 46; D2 12 45 46; D2 12 45 46; D2 12 45 46; D2 12 45 46; D2 12 45 46;
  D2 12 45 46; D2 12 45 46; D2 12 45 46; D2 12 45 46; D2 12 45 46; D2 12 45 46; D2 12 45 46; D2 12 45 46; D2 12 45 47;
  D2 12 45 47; D2 12 45 47; D2 12 45 47; D2 12 45 47; D2 12 45 47; D2 12 45 47; D2 12 45 47; D2 12 45 47; D2 12 45 47;
  D2 12 45 47; D2 12 45 47; D2 12 45 47; D2 12 45 47; D2 12 45 47; D2 12 45 47; D2 12 45 51; D2 12 45 51; D2 12 45 51;
  D2 12 45 51; D2 12 45 51; D2 12 45 51; D2 12 45 51; D2 12 45 51; D2 12 45 51; D2 12 45 51; D2 12 45 51; D2 12 45 51;
  D2 12 45 51; D2 12 45 51; D2 12 45 51; D2 12 45 51; D2 12 45 52; D2 12 45 52; D2 12 45 52; D2 12 45 52; D2 12 45 52;
  D2 12 45 52; D2 12 45 52; D2 12 45 52; D2 12 45 52; D2 12 45 52; D2 12 45 52; D2 12 45 52; D2 12 45 52; D2 12 45 52;
  D2 12 45 52; D2 12 45 52; D2 12 45 53; D2 12 45 53; D2 12 45 53; D2 12 45 53; D2 12 45 53; D2 12 45 53; D2 12 45 53;
  D2 12 45 53; D2 12 45 53; D2 12 45 53; D2 12 45 53; D2 12 45 53; D2 12 45 53; D2 12 45 53; D2 12 45 53; D2 12 45 53;
  D2 12 45 54; D2 12 45 54; D2 12 45 54; D2 12 45 54; D2 12 45 54; D2 12 45 54; D2 12 45 54; D2 12 45 54; D2 12 45 54;
  D2 12 45 54; D2 12 45 54; D2 12 45 54; D2 12 45 54; D2 12 45 54; D2 12 45 54; D2 12 45 54; D2 12 45 55; D2 12 45 55;
  D2 12 45 55; D2 12 45 55; D2 12 45 55; D2 12 45 55; D2 12 45 55; D2 12 45 55; D2 12 45 55; D2 12 45 55; D2 12 45 55;
  D2 12 45 55; D2 12 45 55; D2 12 45 55; D2 12 45 55; D2 12 45 55; D2 12 45 56; D2 12 45 56; D2 12 45 56; D2 12 45 56;
  D2 12 45 56; D2 12 45 56; D2 12 45 56; D2 12 45 56; D2 12 45 56; D2 12 45 56; D2 12 45 56; D2 12 45 56; D2 12 45 56;
  D2 12 45 56; D2 12 45 56; D2 12 45 56; D2 12 45 57; D2 12 45 57; D2 12 45 57; D2 12 45 57; D2 12 45 57; D2 12 45 57;
  D2 12 45 57; D2 12 45 57; D2 12 45 57; D2 12 45 57; D2 12 45 57; D2 12 45 57; D2 12 45 57; D2 12 45 57; D2 12 45 57;
  D2 12 45 57].
Definition hdecs_90 : list hdec := [
  D2 12 45 61; D2 12 45 61; D2 12 45 61; D2 12 45 61; D2 12 45 61; D2 12 45 61; D2 12 45 61; D2 12 45 61; D2 12 45 61;
  D2 12 45 61; D2 12 45 61; D2 12 45 61; D2 12 45 61; D2 12 45 61; D2 12 45 61; D2 12 45 61; D2 12 45 65; D2 12 45 65;
  D2 12 45 65; D2 12 45 65; D2 12 45 65; D2 12 45 65; D2 12 45 65; D2 12 45 65; D2 12 45 65; D2 12 45 65; D2 12 45 65;
  D2 12 45 65; D2 12 45 65; D2 12 45 65; D2 12 45 65; D2 12 45 65; D2 12 45 95; D2 12 45 95; D2 12 45 95; D2 12 45 95;
  D2 12 45 95; D2 12 45 95; D2 12 45 95; D2 12 45 95; D2 12 45 95; D2 12 45 95; D2 12 45 95; D2 12 45 95; D2 12 45 95;
  D2 12 45 95; D2 12 45 95; D2 12 45 95; D2 12 45 98; D2 12 45 98; D2 12 45 98; D2 12 45 98; D2 12 45 98; D2 12 45 98;
  D2 12 45 98; D2 12 45 98; D2 12 45 98; D2 12 45 98; D2 12 45 98; D2 12 45 98; D2 12 45 98; D2 12 45 98; D2 12 45 98;
  D2 12 45 98; D2 12 45 100; D2 12 45 100; D2 12 45 100; D2 12 45 100; D2 12 45 100; D2 12 45 100; D2 12 45 100;
  D2 12 45 100; D2 12 45 100; D2 12 45 100; D2 12 45 100; D2 12 45 100; D2 12 45 100; D2 12 45 100; D2 12 45 100;
  D2 12 45 100; D2 12 45 102; D2 12 45 102; D2 12 45 102; D2 12 45 102; D2 12 45 102; D2 12 45 102; D2 12 45 102;
  D2 12 45 102; D2 12 45 102; D2 12 45 102; D2 12 45 102; D2 12 45 102; D2 12 45 102; D2 12 45 102; D2 12 45 102;
  D2 12 45 102; D2 12 45 103; D2 12 45 103; D2 12 45 103; D2 12 45 103; D2 12 45 103; D2 12 45 103; D2 12 45 103;
  D2 12 45 103; D2 12 45 103; D2 12 45 103; D2 12 45 103; D2 12 45 103; D2 12 45 103; D2 12 45 103; D2 12 45 103;
  D2 12 45 103; D2 12 45 104; D2 12 45 104; D2 12 45 104; D2 12 45 104; D2 12 45 104; D2 12 45 104; D2 12 45 104;
  D2 12 45 104; D2 12 45 104; D2 12 45 104; D2 12 45 104; D2 12 45 104; D2 12 45 104; D2 12 45 104; D2 12 45 104;
  D2 12 45 104; D2 12 45 108; D2 12 45 108; D2 12 45 108; D2 12 45 108; D2 12 45 108; D2 12 45 108; D2 12 45 108;
  D2 12 45 108; D2 12 45 108; D2 12 45 108; D2 12 45 108; D2 12 45 108; D2 12 45 108; D2 12 45 108; D2 12 45 108;
  D2 12 45 108; D2 12 45 109; D2 12 45 109; D2 12 45 109; D2 12 45 109; D2 12 45 109; D2 12 45 109; D2 12 45 109;
  D2 12 45 109; D2 12 45 109; D2 12 45 109; D2 12 45 109; D2 12 45 109; D2 12 45 109; D2 12 45 109; D2 12 45 109;
  D2 12 45 109; D2 12 45 110; D2 12 45 110; D2 12 45 110; D2 12 45 110; D2 12 45 110; D2 12 45 110; D2 12 45 110;
  D2 12 45 110; D2 12 45 110; D2 12 45 110; D2 12 45 110; D2 12 45 110; D2 12 45 110; D2 12 45 110; D2 12 45 110;
  D2 12 45 110; D2 12 45 112; D2 12 45 112; D2 12 45 112; D2 12 45 112; D2 12 45 112; D2 12 45 112; D2 12 45 112;
  D2 12 45 112; D2 12 45 112; D2 12 45 112; D2 12 45 112; D2 12 45 112; D2 12 45 112; D2 12 45 112; D2 12 45 112;
  D2 12 45 112; D2 12 45 114; D2 12 45 114; D2 12 45 114; D2 12 45 114; D2 12 45 114; D2 12 45 114; D2 12 45 114;
  D2 12 45 114; D2 12 45 114; D2 12 45 114; D2 12 45 114; D2 12 45 114; D2 12 45 114; D2 12 45 114; D2 12 45 114;
  D2 12 45 114; D2 12 45 117; D2 12 45 117; D2 12 45 117; D2 12 45 117; D2 12 45 117; D2 12 45 117; D2 12 45 117;
  D2 12 45 117; D2 12 45 117; D2 12 45 117; D2 12 45 117; D2 12 45 117; D2 12 45 117; D2 12 45 117; D2 12 45 117;
  D2 12 45 117; D2 13 45 58; D2 13 45 58; D2 13 45 58; D2 13 45 58; D2 13 45 58; D2 13 45 58; D2 13 45 58;
  D2 13 45 58; D2 13 45 66; D2 13 45 66; D2 13 45 66; D2 13 45 66; D2 13 45 66; D2 13 45 66; D2 13 45 66; D2 13 45 66;
  D2 13 45 67; D2 13 45 67; D2 13 45 67; D2 13 45 67; D2 13 45 67; D2 13 45 67; D2 13 45 67; D2 13 45 67; D2 13 45 68;
  D2 13 45 68; D2 13 45 68; D2 13 45 68; D2 13 45 68; D2 13 45 68; D2 13 45 68; D2 13 45 68].
Definition hdecs_91 : list hdec := [
  D2 13 45 69; D2 13 45 69; D2 13 45 69; D2 13 45 69; D2 13 45 69; D2 13 45 69; D2 13 45 69; D2 13 45 69; D2 13 45 70;
  D2 13 45 70; D2 13 45 70; D2 13 45 70; D2 13 45 70; D2 13 45 70; D2 13 45 70; D2 13 45 70; D2 13 45 71; D2 13 45 71;
  D2 13 45 71; D2 13 45 71; D2 13 45 71; D2 13 45 71; D2 13 45 71; D2 13 45 71; D2 13 45 72; D2 13 45 72; D2 13 45 72;
  D2 13 45 72; D2 13 45 72; D2 13 45 72; D2 13 45 72; D2 13 45 72; D2 13 45 73; D2 13 45 73; D2 13 45 73; D2 13 45 73;
  D2 13 45 73; D2 13 45 73; D2 13 45 73; D2 13 45 73; D2 13 45 74; D2 13 45 74; D2 13 45 74; D2 13 45 74; D2 13 45 74;
  D2 13 45 74; D2 13 45 74; D2 13 45 74; D2 13 45 75; D2 13 45 75; D2 13 45 75; D2 13 45 75; D2 13 45 75; D2 13 45 75;
  D2 13 45 75; D2 13 45 75; D2 13 45 76; D2 13 45 76; D2 13 45 76; D2 13 45 76; D2 13 45 76; D2 13 45 76; D2 13 45 76;
  D2 13 45 76; D2 13 45 77; D2 13 45 77; D2 13 45 77; D2 13 45 77; D2 13 45 77; D2 13 45 77; D2 13 45 77; D2 13 45 77;
  D2 13 45 78; D2 13 45 78; D2 13 45 78; D2 13 45 78; D2 13 45 78; D2 13 45 78; D2 13 45 78; D2 13 45 78; D2 13 45 79;
  D2 13 45 79; D2 13 45 79; D2 13 45 79; D2 13 45 79; D2 13 45 79; D2 13 45 79; D2 13 45 79; D2 13 45 80; D2 13 45 80;
  D2 13 45 80; D2 13 45 80; D2 13 45 80; D2 13 45 80; D2 13 45 80; D2 13 45 80; D2 13 45 81; D2 13 45 81; D2 13 45 81;
  D2 13 45 81; D2 13 45 81; D2 13 45 81; D2 13 45 81; D2 13 45 81; D2 13 45 82; D2 13 45 82; D2 13 45 82; D2 13 45 82;
  D2 13 45 82; D2 13 45 82; D2 13 45 82; D2 13 45 82; D2 13 45 83; D2 13 45 83; D2 13 45 83; D2 13 45 83; D2 13 45 83;
  D2 13 45 83; D2 13 45 83; D2 13 45 83; D2 13 45 84; D2 13 45 84; D2 13 45 84; D2 13 45 84; D2 13 45 84; D2 13 45 84;
  D2 13 45 84; D2 13 45 84; D2 13 45 85; D2 13 45 85; D2 13 45 85; D2 13 45 85; D2 13 45 85; D2 13 45 85; D2 13 45 85;
  D2 13 45 85; D2 13 45 86; D2 13 45 86; D2 13 45 86; D2 13 45 86; D2 13 45 86; D2 13 45 86; D2 13 45 86; D2 13 45 86;
  D2 13 45 87; D2 13 45 87; D2 13 45 87; D2 13 45 87; D2 13 45 87; D2 13 45 87; D2 13 45 87; D2 13 45 87; D2 13 45 89;
  D2 13 45 89; D2 13 45 89; D2 13 45 89; D2 13 45 89; D2 13 45 89; D2 13 45 89; D2 13 45 89; D2 13 45 106;
  D2 13 45 106; D2 13 45 106; D2 13 45 106; D2 13 45 106; D2 13 45 106; D2 13 45 106; D2 13 45 106; D2 13 45 107;
  D2 13 45 107; D2 13 45 107; D2 13 45 107; D2 13 45 107; D2 13 45 107; D2 13 45 107; D2 13 45 107; D2 13 45 113;
  D2 13 45 113; D2 13 45 113; D2 13 45 113; D2 13 45 113; D2 13 45 113; D2 13 45 113; D2 13 45 113; D2 13 45 118;
  D2 13 45 118; D2 13 45 118; D2 13 45 118; D2 13 45 118; D2 13 45 118; D2 13 45 118; D2 13 45 118; D2 13 45 119;
  D2 13 45 119; D2 13 45 119; D2 13 45 119; D2 13 45 119; D2 13 45 119; D2 13 45 119; D2 13 45 119; D2 13 45 120;
  D2 13 45 120; D2 13 45 120; D2 13 45 120; D2 13 45 120; D2 13 45 120; D2 13 45 120; D2 13 45 120; D2 13 45 121;
  D2 13 45 121; D2 13 45 121; D2 13 45 121; D2 13 45 121; D2 13 45 121; D2 13 45 121; D2 13 45 121; D2 13 45 122;
  D2 13 45 122; D2 13 45 122; D2 13 45 122; D2 13 45 122; D2 13 45 122; D2 13 45 122; D2 13 45 122; D2 14 45 38;
  D2 14 45 38; D2 14 45 38; D2 14 45 38; D2 14 45 42; D2 14 45 42; D2 14 45 42; D2 14 45 42; D2 14 45 44; D2 14 45 44;
  D2 14 45 44; D2 14 45 44; D2 14 45 59; D2 14 45 59; D2 14 45 59; D2 14 45 59; D2 14 45 88; D2 14 45 88; D2 14 45 88;
  D2 14 45 88; D2 14 45 90; D2 14 45 90; D2 14 45 90; D2 14 45 90; D2 16 45 33; D2 16 45 34; D2 16 45 40; D2 16 45 41;
  D2 16 45 63; D1 6 45; D1 6 45; D1 6 45].
Definition hdecs_92 : list hdec := [
  D3 16 46 48 48; D3 16 46 48 49; D3 16 46 48 50; D3 16 46 48 97; D3 16 46 48 99; D3 16 46 48 101; D3 16 46 48 105;
  D3 16 46 48 111; D3 16 46 48 115; D3 16 46 48 116; D2 11 46 48; D2 11 46 48; D2 11 46 48; D2 11 46 48; D2 11 46 48;
  D2 11 46 48; D2 11 46 48; D2 11 46 48; D2 11 46 48; D2 11 46 48; D2 11 46 48; D2 11 46 48; D2 11 46 48; D2 11 46 48;
  D2 11 46 48; D2 11 46 48; D2 11 46 48; D2 11 46 48; D2 11 46 48; D2 11 46 48; D2 11 46 48; D2 11 46 48;
  D3 16 46 49 48; D3 16 46 49 49; D3 16 46 49 50; D3 16 46 49 97; D3 16 46 49 99; D3 16 46 49 101; D3 16 46 49 105;
  D3 16 46 49 111; D3 16 46 49 115; D3 16 46 49 116; D2 11 46 49; D2 11 46 49; D2 11 46 49; D2 11 46 49; D2 11 46 49;
  D2 11 46 49; D2 11 46 49; D2 11 46 49; D2 11 46 49; D2 11 46 49; D2 11 46 49; D2 11 46 49; D2 11 46 49; D2 11 46 49;
  D2 11 46 49; D2 11 46 49; D2 11 46 49; D2 11 46 49; D2 11 46 49; D2 11 46 49; D2 11 46 49; D2 11 46 49;
  D3 16 46 50 48; D3 16 46 50 49; D3 16 46 50 50; D3 16 46 50 97; D3 16 46 50 99; D3 16 46 50 101; D3 16 46 50 105;
  D3 16 46 50 111; D3 16 46 50 115; D3 16 46 50 116; D2 11 46 50; D2 11 46 50; D2 11 46 50; D2 11 46 50; D2 11 46 50;
  D2 11 46 50; D2 11 46 50; D2 11 46 50; D2 11 46 50; D2 11 46 50; D2 11 46 50; D2 11 46 50; D2 11 46 50; D2 11 46 50;
  D2 11 46 50; D2 11 46 50; D2 11 46 50; D2 11 46 50; D2 11 46 50; D2 11 46 50; D2 11 46 50; D2 11 46 50;
  D3 16 46 97 48; D3 16 46 97 49; D3 16 46 97 50; D3 16 46 97 97; D3 16 46 97 99; D3 16 46 97 101; D3 16 46 97 105;
  D3 16 46 97 111; D3 16 46 97 115; D3 16 46 97 116; D2 11 46 97; D2 11 46 97; D2 11 46 97; D2 11 46 97; D2 11 46 97;
  D2 11 46 97; D2 11 46 97; D2 11 46 97; D2 11 46 97; D2 11 46 97; D2 11 46 97; D2 11 46 97; D2 11 46 97; D2 11 46 97;
  D2 11 46 97; D2 11 46 97; D2 11 46 97; D2 11 46 97; D2 11 46 97; D2 11 46 97; D2 11 46 97; D2 11 46 97;
  D3 16 46 99 48; D3 16 46 99 49; D3 16 46 99 50; D3 16 46 99 97; D3 16 46 99 99; D3 16 46 99 101; D3 16 46 99 105;
  D3 16 46 99 111; D3 16 46 99 115; D3 16 46 99 116; D2 11 46 99; D2 11 46 99; D2 11 46 99; D2 11 46 99; D2 11 46 99;
  D2 11 46 99; D2 11 46 99; D2 11 46 99; D2 11 46 99; D2 11 46 99; D2 11 46 99; D2 11 46 99; D2 11 46 99; D2 11 46 99;
  D2 11 46 99; D2 11 46 99; D2 11 46 99; D2 11 46 99; D2 11 46 99; D2 11 46 99; D2 11 46 99; D2 11 46 99;
  D3 16 46 101 48; D3 16 46 101 49; D3 16 46 101 50; D3 16 46 101 97; D3 16 46 101 99; D3 16 46 101 101;
  D3 16 46 101 105; D3 16 46 101 111; D3 16 46 101 115; D3 16 46 101 116; D2 11 46 101; D2 11 46 101; D2 11 46 101;
  D2 11 46 101; D2 11 46 101; D2 11 46 101; D2 11 46 101; D2 11 46 101; D2 11 46 101; D2 11 46 101; D2 11 46 101;
  D2 11 46 101; D2 11 46 101; D2 11 46 101; D2 11 46 101; D2 11 46 101; D2 11 46 101; D2 11 46 101; D2 11 46 101;
  D2 11 46 101; D2 11 46 101; D2 11 46 101; D3 16 46 105 48; D3 16 46 105 49; D3 16 46 105 50; D3 16 46 105 97;
  D3 16 46 105 99; D3 16 46 105 101; D3 16 46 105 105; D3 16 46 105 111; D3 16 46 105 115; D3 16 46 105 116;
  D2 11 46 105; D2 11 46 105; D2 11 46 105; D2 11 46 105; D2 11 46 105; D2 11 46 105; D2 11 46 105; D2 11 46 105;
  D2 11 46 105; D2 11 46 105; D2 11 46 105; D2 11 46 105; D2 11 46 105; D2 11 46 105; D2 11 46 105; D2 11 46 105;
  D2 11 46 105; D2 11 46 105; D2 11 46 105; D2 11 46 105; D2 11 46 105; D2 11 46 105; D3 16 46 111 48;
  D3 16 46 111 49; D3 16 46 111 50; D3 16 46 111 97; D3 16 46 111 99; D3 16 46 111 101; D3 16 46 111 105;
  D3 16 46 111 111; D3 16 46 111 115; D3 16 46 111 116; D2 11 46 111; D2 11 46 111; D2 11 46 111; D2 11 46 111;
  D2 11 46 111; D2 11 46 111; D2 11 46 111; D2 11 46 111; D2 11 46 111; D2 11 46 111; D2 11 46 111; D2 11 46 111;
  D2 11 46 111; D2 11 46 111; D2 11 46 111; D2 11 46 111; D2 11 46 111; D2 11 46 111; D2 11 46 111; D2 11 46 111;
  D2 11 46 111; D2 11 46 111].
Definition hdecs_93 : list hdec := [
  D3 16 46 115 48; D3 16 46 115 49; D3 16 46 115 50; D3 16 46 115 97; D3 16 46 115 99; D3 16 46 115 101;
  D3 16 46 115 105; D3 16 46 115 111; D3 16 46 115 115; D3 16 46 115 116; D2 11 46 115; D2 11 46 115; D2 11 46 115;
  D2 11 46 115; D2 11 46 115; D2 11 46 115; D2 11 46 115; D2 11 46 115; D2 11 46 115; D2 11 46 115; D2 11 46 115;
  D2 11 46 115; D2 11 46 115; D2 11 46 115; D2 11 46 115; D2 11 46 115; D2 11 46 115; D2 11 46 115; D2 11 46 115;
  D2 11 46 115; D2 11 46 115; D2 11 46 115; D3 16 46 116 48; D3 16 46 116 49; D3 16 46 116 50; D3 16 46 116 97;
  D3 16 46 116 99; D3 16 46 116 101; D3 16 46 116 105; D3 16 46 116 111; D3 16 46 116 115; D3 16 46 116 116;
  D2 11 46 116; D2 11 46 116; D2 11 46 116; D2 11 46 116; D2 11 46 116; D2 11 46 116; D2 11 46 116; D2 11 46 116;
  D2 11 46 116; D2 11 46 116; D2 11 46 116; D2 11 46 116; D2 11 46 116; D2 11 46 116; D2 11 46 116; D2 11 46 116;
  D2 11 46 116; D2 11 46 116; D2 11 46 116; D2 11 46 116; D2 11 46 116; D2 11 46 116; D2 12 46 32; D2 12 46 32;
  D2 12 46 32; D2 12 46 32; D2 12 46 32; D2 12 46 32; D2 12 46 32; D2 12 46 32; D2 12 46 32; D2 12 46 32; D2 12 46 32;
  D2 12 46 32; D2 12 46 32; D2 12 46 32; D2 12 46 32; D2 12 46 32; D2 12 46 37; D2 12 46 37; D2 12 46 37; D2 12 46 37;
  D2 12 46 37; D2 12 46 37; D2 12 46 37; D2 12 46 37; D2 12 46 37; D2 12 46 37; D2 12 46 37; D2 12 46 37; D2 12 46 37;
  D2 12 46 37; D2 12 46 37; D2 12 46 37; D2 12 46 45; D2 12 46 45; D2 12 46 45; D2 12 46 45; D2 12 46 45; D2 12 46 45;
  D2 12 46 45; D2 12 46 45; D2 12 46 45; D2 12 46 45; D2 12 46 45; D2 12 46 45; D2 12 46 45; D2 12 46 45; D2 12 46 45;
  D2 12 46 45; D2 12 46 46; D2 12 46 46; D2 12 46 46; D2 12 46 46; D2 12 46 46; D2 12 46 46; D2 12 46 46; D2 12 46 46;
  D2 12 46 46; D2 12 46 46; D2 12 46 46; D2 12 46 46; D2 12 46 46; D2 12 46 46; D2 12 46 46; D2 12 46 46; D2 12 46 47;
  D2 12 46 47; D2 12 46 47; D2 12 46 47; D2 12 46 47; D2 12 46 47; D2 12 46 47; D2 12 46 47; D2 12 46 47; D2 12 46 47;
  D2 12 46 47; D2 12 46 47; D2 12 46 47; D2 12 46 47; D2 12 46 47; D2 12 46 47; D2 12 46 51; D2 12 46 51; D2 12 46 51;
  D2 12 46 51; D2 12 46 51; D2 12 46 51; D2 12 46 51; D2 12 46 51; D2 12 46 51; D2 12 46 51; D2 12 46 51; D2 12 46 51;
  D2 12 46 51; D2 12 46 51; D2 12 46 51; D2 12 46 51; D2 12 46 52; D2 12 46 52; D2 12 46 52; D2 12 46 52; D2 12 46 52;
  D2 12 46 52; D2 12 46 52; D2 12 46 52; D2 12 46 52; D2 12 46 52; D2 12 46 52; D2 12 46 52; D2 12 46 52; D2 12 46 52;
  D2 12 46 52; D2 12 46 52; D2 12 46 53; D2 12 46 53; D2 12 46 53; D2 12 46 53; D2 12 46 53; D2 12 46 53; D2 12 46 53;
  D2 12 46 53; D2 12 46 53; D2 12 46 53; D2 12 46 53; D2 12 46 53; D2 12 46 53; D2 12 46 53; D2 12 46 53; D2 12 46 53;
  D2 12 46 54; D2 12 46 54; D2 12 46 54; D2 12 46 54; D2 12 46 54; D2 12 46 54; D2 12 46 54; D2 12 46 54; D2 12 46 54;
  D2 12 46 54; D2 12 46 54; D2 12 46 54; D2 12 46 54; D2 12 46 54; D2 12 46 54; D2 12 46 54; D2 12 46 55; D2 12 46 55;
  D2 12 46 55; D2 12 46 55; D2 12 46 55; D2 12 46 55; D2 12 46 55; D2 12 46 55; D2 12 46 55; D2 12 46 55; D2 12 46 55;
  D2 12 46 55; D2 12 46 55; D2 12 46 55; D2 12 46 55; D2 12 46 55; D2 12 46 56; D2 12 46 56; D2 12 46 56; D2 12 46 56;
  D2 12 46 56; D2 12 46 56; D2 12 46 56; D2 12 46 56; D2 12 46 56; D2 12 46 56; D2 12 46 56; D2 12 46 56; D2 12 46 56;
  D2 12 46 56; D2 12 46 56; D2 12 46 56; D2 12 46 57; D2 12 46 57; D2 12 46 57; D2 12 46 57; D2 12 46 57; D2 12 46 57;
  D2 12 46 57; D2 12 46 57; D2 12 46 57; D2 12 46 57; D2 12 46 57; D2 12 46 57; D2 12 46 57; D2 12 46 57; D2 12 46 57;
  D2 12 46 57].
Definition hdecs_94 : list hdec := [
  D2 12 46 61; D2 12 46 61; D2 12 46 61; D2 12 46 61; D2 12 46 61; D2 12 46 61; D2 12 46 61; D2 12 46 61; D2 12 46 61;
  D2 12 46 61; D2 12 46 61; D2 12 46 61; D2 12 46 61; D2 12 46 61; D2 12 46 61; D2 12 46 61; D2 12 46 65; D2 12 46 65;
  D2 12 46 65; D2 12 46 65; D2 12 46 65; D2 12 46 65; D2 12 46 65; D2 12 46 65; D2 12 46 65; D2 12 46 65; D2 12 46 65;
  D2 12 46 65; D2 12 46 65; D2 12 46 65; D2 12 46 65; D2 12 46 65; D2 12 46 95; D2 12 46 95; D2 12 46 95; D2 12 46 95;
  D2 12 46 95; D2 12 46 95; D2 12 46 95; D2 12 46 95; D2 12 46 95; D2 12 46 95; D2 12 46 95; D2 12 46 95; D2 12 46 95;
  D2 12 46 95; D2 12 46 95; D2 12 46 95; D2 12 46 98; D2 12 46 98; D2 12 46 98; D2 12 46 98; D2 12 46 98; D2 12 46 98;
  D2 12 46 98; D2 12 46 98; D2 12 46 98; D2 12 46 98; D2 12 46 98; D2 12 46 98; D2 12 46 98; D2 12 46 98; D2 12 46 98;
  D2 12 46 98; D2 12 46 100; D2 12 46 100; D2 12 46 100; D2 12 46 100; D2 12 46 100; D2 12 46 100; D2 12 46 100;
  D2 12 46 100; D2 12 46 100; D2 12 46 100; D2 12 46 100; D2 12 46 100; D2 12 46 100; D2 12 46 100; D2 12 46 100;
  D2 12 46 100; D2 12 46 102; D2 12 46 102; D2 12 46 102; D2 12 46 102; D2 12 46 102; D2 12 46 102; D2 12 46 102;
  D2 12 46 102; D2 12 46 102; D2 12 46 102; D2 12 46 102; D2 12 46 102; D2 12 46 102; D2 12 46 102; D2 12 46 102;
  D2 12 46 102; D2 12 46 103; D2 12 46 103; D2 12 46 103; D2 12 46 103; D2 12 46 103; D2 12 46 103; D2 12 46 103;
  D2 12 46 103; D2 12 46 103; D2 12 46 103; D2 12 46 103; D2 12 46 103; D2 12 46 103; D2 12 46 103; D2 12 46 103;
  D2 12 46 103; D2 12 46 104; D2 12 46 104; D2 12 46 104; D2 12 46 104; D2 12 46 104; D2 12 46 104; D2 12 46 104;
  D2 12 46 104; D2 12 46 104; D2 12 46 104; D2 12 46 104; D2 12 46 104; D2 12 46 104; D2 12 46 104; D2 12 46 104;
  D2 12 46 104; D2 12 46 108; D2 12 46 108; D2 12 46 108; D2 12 46 108; D2 12 46 108; D2 12 46 108; D2 12 46 108;
  D2 12 46 108; D2 12 46 108; D2 12 46 108; D2 12 46 108; D2 12 46 108; D2 12 46 108; D2 12 46 108; D2 12 46 108;
  D2 12 46 108; D2 12 46 109; D2 12 46 109; D2 12 46 109; D2 12 46 109; D2 12 46 109; D2 12 46 109; D2 12 46 109;
  D2 12 46 109; D2 12 46 109; D2 12 46 109; D2 12 46 109; D2 12 46 109; D2 12 46 109; D2 12 46 109; D2 12 46 109;
  D2 12 46 109; D2 12 46 110; D2 12 46 110; D2 12 46 110; D2 12 46 110; D2 12 46 110; D2 12 46 110; D2 12 46 110;
  D2 12 46 110; D2 12 46 110; D2 12 46 110; D2 12 46 110; D2 12 46 110; D2 12 46 110; D2 12 46 110; D2 12 46 110;
  D2 12 46 110; D2 12 46 112; D2 12 46 112; D2 12 46 112; D2 12 46 112; D2 12 46 112; D2 12 46 112; D2 12 46 112;
  D2 12 46 112; D2 12 46 112; D2 12 46 112; D2 12 46 112; D2 12 46 112; D2 12 46 112; D2 12 46 112; D2 12 46 112;
  D2 12 46 112; D2 12 46 114; D2 12 46 114; D2 12 46 114; D2 12 46 114; D2 12 46 114; D2 12 46 114; D2 12 46 114;
  D2 12 46 114; D2 12 46 114; D2 12 46 114; D2 12 46 114; D2 12 46 114; D2 12 46 114; D2 12 46 114; D2 12 46 114;
  D2 12 46 114; D2 12 46 117; D2 12 46 117; D2 12 46 117; D2 12 46 117; D2 12 46 117; D2 12 46 117; D2 12 46 117;
  D2 12 46 117; D2 12 46 117; D2 12 46 117; D2 12 46 117; D2 12 46 117; D2 12 46 117; D2 12 46 117; D2 12 46 117;
  D2 12 46 117; D2 13 46 58; D2 13 46 58; D2 13 46 58; D2 13 46 58; D2 13 46 58; D2 13 46 58; D2 13 46 58;
  D2 13 46 58; D2 13 46 66; D2 13 46 66; D2 13 46 66; D2 13 46 66; D2 13 46 66; D2 13 46 66; D2 13 46 66; D2 13 46 66;
  D2 13 46 67; D2 13 46 67; D2 13 46 67; D2 13 46 67; D2 13 46 67; D2 13 46 67; D2 13 46 67; D2 13 46 67; D2 13 46 68;
  D2 13 46 68; D2 13 46 68; D2 13 46 68; D2 13 46 68; D2 13 46 68; D2 13 46 68; D2 13 46 68].
Definition hdecs_95 : list hdec := [
  D2 13 46 69; D2 13 46 69; D2 13 46 69; D2 13 46 69; D2 13 46 69; D2 13 46 69; D2 13 46 69; D2 13 46 69; D2 13 46 70;
  D2 13 46 70; D2 13 46 70; D2 13 46 70; D2 13 46 70; D2 13 46 70; D2 13 46 70; D2 13 46 70; D2 13 46 71; D2 13 46 71;
  D2 13 46 71; D2 13 46 71; D2 13 46 71; D2 13 46 71; D2 13 46 71; D2 13 46 71; D2 13 46 72; D2 13 46 72; D2 13 46 72;
  D2 13 46 72; D2 13 46 72; D2 13 46 72; D2 13 46 72; D2 13 46 72; D2 13 46 73; D2 13 46 73; D2 13 46 73; D2 13 46 73;
  D2 13 46 73; D2 13 46 73; D2 13 46 73; D2 13 46 73; D2 13 46 74; D2 13 46 74; D2 13 46 74; D2 13 46 74; D2 13 46 74;
  D2 13 46 74; D2 13 46 74; D2 13 46 74; D2 13 46 75; D2 13 46 75; D2 13 46 75; D2 13 46 75; D2 13 46 75; D2 13 46 75;
  D2 13 46 75; D2 13 46 75; D2 13 46 76; D2 13 46 76; D2 13 46 76; D2 13 46 76; D2 13 46 76; D2 13 46 76; D2 13 46 76;
  D2 13 46 76; D2 13 46 77; D2 13 46 77; D2 13 46 77; D2 13 46 77; D2 13 46 77; D2 13 46 77; D2 13 46 77; D2 13 46 77;
  D2 13 46 78; D2 13 46 78; D2 13 46 78; D2 13 46 78; D2 13 46 78; D2 13 46 78; D2 13 46 78; D2 13 46 78; D2 13 46 79;
  D2 13 46 79; D2 13 46 79; D2 13 46 79; D2 13 46 79; D2 13 46 79; D2 13 46 79; D2 13 46 79; D2 13 46 80; D2 13 46 80;
  D2 13 46 80; D2 13 46 80; D2 13 46 80; D2 13 46 80; D2 13 46 80; D2 13 46 80; D2 13 46 81; D2 13 46 81; D2 13 46 81;
  D2 13 46 81; D2 13 46 81; D2 13 46 81; D2 13 46 81; D2 13 46 81; D2 13 46 82; D2 13 46 82; D2 13 46 82; D2 13 46 82;
  D2 13 46 82; D2 13 46 82; D2 13 46 82; D2 13 46 82; D2 13 46 83; D2 13 46 83; D2 13 46 83; D2 13 46 83; D2 13 46 83;
  D2 13 46 83; D2 13 46 83; D2 13 46 83; D2 13 46 84; D2 13 46 84; D2 13 46 84; D2 13 46 84; D2 13 46 84; D2 13 46 84;
  D2 13 46 84; D2 13 46 84; D2 13 46 85; D2 13 46 85; D2 13 46 85; D2 13 46 85; D2 13 46 85; D2 13 46 85; D2 13 46 85;
  D2 13 46 85; D2 13 46 86; D2 13 46 86; D2 13 46 86; D2 13 46 86; D2 13 46 86; D2 13 46 86; D2 13 46 86; D2 13 46 86;
  D2 13 46 87; D2 13 46 87; D2 13 46 87; D2 13 46 87; D2 13 46 87; D2 13 46 87; D2 13 46 87; D2 13 46 87; D2 13 46 89;
  D2 13 46 89; D2 13 46 89; D2 13 46 89; D2 13 46 89; D2 13 46 89; D2 13 46 89; D2 13 46 89; D2 13 46 106;
  D2 13 46 106; D2 13 46 106; D2 13 46 106; D2 13 46 106; D2 13 46 106; D2 13 46 106; D2 13 46 106; D2 13 46 107;
  D2 13 46 107; D2 13 46 107; D2 13 46 107; D2 13 46 107; D2 13 46 107; D2 13 46 107; D2 13 46 107; D2 13 46 113;
  D2 13 46 113; D2 13 46 113; D2 13 46 113; D2 13 46 113; D2 13 46 113; D2 13 46 113; D2 13 46 113; D2 13 46 118;
  D2 13 46 118; D2 13 46 118; D2 13 46 118; D2 13 46 118; D2 13 46 118; D2 13 46 118; D2 13 46 118; D2 13 46 119;
  D2 13 46 119; D2 13 46 119; D2 13 46 119; D2 13 46 119; D2 13 46 119; D2 13 46 119; D2 13 46 119; D2 13 46 120;
  D2 13 46 120; D2 13 46 120; D2 13 46 120; D2 13 46 120; D2 13 46 120; D2 13 46 120; D2 13 46 120; D2 13 46 121;
  D2 13 46 121; D2 13 46 121; D2 13 46 121; D2 13 46 121; D2 13 46 121; D2 13 46 121; D2 13 46 121; D2 13 46 122;
  D2 13 46 122; D2 13 46 122; D2 13 46 122; D2 13 46 122; D2 13 46 122; D2 13 46 122; D2 13 46 122; D2 14 46 38;
  D2 14 46 38; D2 14 46 38; D2 14 46 38; D2 14 46 42; D2 14 46 42; D2 14 46 42; D2 14 46 42; D2 14 46 44; D2 14 46 44;
  D2 14 46 44; D2 14 46 44; D2 14 46 59; D2 14 46 59; D2 14 46 59; D2 14 46 59; D2 14 46 88; D2 14 46 88; D2 14 46 88;
  D2 14 46 88; D2 14 46 90; D2 14 46 90; D2 14 46 90; D2 14 46 90; D2 16 46 33; D2 16 46 34; D2 16 46 40; D2 16 46 41;
  D2 16 46 63; D1 6 46; D1 6 46; D1 6 46].
Definition hdecs_96 : list hdec := [
  D3 16 47 48 48; D3 16 47 48 49; D3 16 47 48 50; D3 16 47 48 97; D3 16 47 48 99; D3 16 47 48 101; D3 16 47 48 105;
  D3 16 47 48 111; D3 16 47 48 115; D3 16 47 48 116; D2 11 47 48; D2 11 47 48; D2 11 47 48; D2 11 47 48; D2 11 47 48;
  D2 11 47 48; D2 11 47 48; D2 11 47 48; D2 11 47 48; D2 11 47 48; D2 11 47 48; D2 11 47 48; D2 11 47 48; D2 11 47 48;
  D2 11 47 48; D2 11 47 48; D2 11 47 48; D2 11 47 48; D2 11 47 48; D2 11 47 48; D2 11 47 48; D2 11 47 48;
  D3 16 47 49 48; D3 16 47 49 49; D3 16 47 49 50; D3 16 47 49 97; D3 16 47 49 99; D3 16 47 49 101; D3 16 47 49 105;
  D3 16 47 49 111; D3 16 47 49 115; D3 16 47 49 116; D2 11 47 49; D2 11 47 49; D2 11 47 49; D2 11 47 49; D2 11 47 49;
  D2 11 47 49; D2 11 47 49; D2 11 47 49; D2 11 47 49; D2 11 47 49; D2 11 47 49; D2 11 47 49; D2 11 47 49; D2 11 47 49;
  D2 11 47 49; D2 11 47 49; D2 11 47 49; D2 11 47 49; D2 11 47 49; D2 11 47 49; D2 11 47 49; D2 11 47 49;
  D3 16 47 50 48; D3 16 47 50 49; D3 16 47 50 50; D3 16 47 50 97; D3 16 47 50 99; D3 16 47 50 101; D3 16 47 50 105;
  D3 16 47 50 111; D3 16 47 50 115; D3 16 47 50 116; D2 11 47 50; D2 11 47 50; D2 11 47 50; D2 11 47 50; D2 11 47 50;
  D2 11 47 50; D2 11 47 50; D2 11 47 50; D2 11 47 50; D2 11 47 50; D2 11 47 50; D2 11 47 50; D2 11 47 50; D2 11 47 50;
  D2 11 47 50; D2 11 47 50; D2 11 47 50; D2 11 47 50; D2 11 47 50; D2 11 47 50; D2 11 47 50; D2 11 47 50;
  D3 16 47 97 48; D3 16 47 97 49; D3 16 47 97 50; D3 16 47 97 97; D3 16 47 97 99; D3 16 47 97 101; D3 16 47 97 105;
  D3 16 47 97 111; D3 16 47 97 115; D3 16 47 97 116; D2 11 47 97; D2 11 47 97; D2 11 47 97; D2 11 47 97; D2 11 47 97;
  D2 11 47 97; D2 11 47 97; D2 11 47 97; D2 11 47 97; D2 11 47 97; D2 11 47 97; D2 11 47 97; D2 11 47 97; D2 11 47 97;
  D2 11 47 97; D2 11 47 97; D2 11 47 97; D2 11 47 97; D2 11 47 97; D2 11 47 97; D2 11 47 97; D2 11 47 97;
  D3 16 47 99 48; D3 16 47 99 49; D3 16 47 99 50; D3 16 47 99 97; D3 16 47 99 99; D3 16 47 99 101; D3 16 47 99 105;
  D3 16 47 99 111; D3 16 47 99 115; D3 16 47 99 116; D2 11 47 99; D2 11 47 99; D2 11 47 99; D2 11 47 99; D2 11 47 99;
  D2 11 47 99; D2 11 47 99; D2 11 47 99; D2 11 47 99; D2 11 47 99; D2 11 47 99; D2 11 47 99; D2 11 47 99; D2 11 47 99;
  D2 11 47 99; D2 11 47 99; D2 11 47 99; D2 11 47 99; D2 11 47 99; D2 11 47 99; D2 11 47 99; D2 11 47 99;
  D3 16 47 101 48; D3 16 47 101 49; D3 16 47 101 50; D3 16 47 101 97; D3 16 47 101 99; D3 16 47 101 101;
  D3 16 47 101 105; D3 16 47 101 111; D3 16 47 101 115; D3 16 47 101 116; D2 11 47 101; D2 11 47 101; D2 11 47 101;
  D2 11 47 101; D2 11 47 101; D2 11 47 101; D2 11 47 101; D2 11 47 101; D2 11 47 101; D2 11 47 101; D2 11 47 101;
  D2 11 47 101; D2 11 47 101; D2 11 47 101; D2 11 47 101; D2 11 47 101; D2 11 47 101; D2 11 47 101; D2 11 47 101;
  D2 11 47 101; D2 11 47 101; D2 11 47 101; D3 16 47 105 48; D3 16 47 105 49; D3 16 47 105 50; D3 16 47 105 97;
  D3 16 47 105 99; D3 16 47 105 101; D3 16 47 105 105; D3 16 47 105 111; D3 16 47 105 115; D3 16 47 105 116;
  D2 11 47 105; D2 11 47 105; D2 11 47 105; D2 11 47 105; D2 11 47 105; D2 11 47 105; D2 11 47 105; D2 11 47 105;
  D2 11 47 105; D2 11 47 105; D2 11 47 105; D2 11 47 105; D2 11 47 105; D2 11 47 105; D2 11 47 105; D2 11 47 105;
  D2 11 47 105; D2 11 47 105; D2 11 47 105; D2 11 47 105; D2 11 47 105; D2 11 47 105; D3 16 47 111 48;
  D3 16 47 111 49; D3 16 47 111 50; D3 16 47 111 97; D3 16 47 111 99; D3 16 47 111 101; D3 16 47 111 105;
  D3 16 47 111 111; D3 16 47 111 115; D3 16 47 111 116; D2 11 47 111; D2 11 47 111; D2 11 47 111; D2 11 47 111;
  D2 11 47 111; D2 11 47 111; D2 11 47 111; D2 11 47 111; D2 11 47 111; D2 11 47 111; D2 11 47 111; D2 11 47 111;
  D2 11 47 111; D2 11 47 111; D2 11 47 111; D2 11 47 111; D2 11 47 111; D2 11 47 111; D2 11 47 111; D2 11 47 111;
  D2 11 47 111; D2 11 47 111].
Definition hdecs_97 : list hdec := [
  D3 16 47 115 48; D3 16 47 115 49; D3 16 47 115 50; D3 16 47 115 97; D3 16 47 115 99; D3 16 47 115 101;
  D3 16 47 115 105; D3 16 47 115 111; D3 16 47 115 115; D3 16 47 115 116; D2 11 47 115; D2 11 47 115; D2 11 47 115;
  D2 11 47 115; D2 11 47 115; D2 11 47 115; D2 11 47 115; D2 11 47 115; D2 11 47 115; D2 11 47 115; D2 11 47 115;
  D2 11 47 115; D2 11 47 115; D2 11 47 115; D2 11 47 115; D2 11 47 115; D2 11 47 115; D2 11 47 115; D2 11 47 115;
  D2 11 47 115; D2 11 47 115; D2 11 47 115; D3 16 47 116 48; D3 16 47 116 49; D3 16 47 116 50; D3 16 47 116 97;
  D3 16 47 116 99; D3 16 47 116 101; D3 16 47 116 105; D3 16 47 116 111; D3 16 47 116 115; D3 16 47 116 116;
  D2 11 47 116; D2 11 47 116; D2 11 47 116; D2 11 47 116; D2 11 47 116; D2 11 47 116; D2 11 47 116; D2 11 47 116;
  D2 11 47 116; D2 11 47 116; D2 11 47 116; D2 11 47 116; D2 11 47 116; D2 11 47 116; D2 11 47 116; D2 11 47 116;
  D2 11 47 116; D2 11 47 116; D2 11 47 116; D2 11 47 116; D2 11 47 116; D2 11 47 116; D2 12 47 32; D2 12 47 32;
  D2 12 47 32; D2 12 47 32; D2 12 47 32; D2 12 47 32; D2 12 47 32; D2 12 47 32; D2 12 47 32; D2 12 47 32; D2 12 47 32;
  D2 12 47 32; D2 12 47 32; D2 12 47 32; D2 12 47 32; D2 12 47 32; D2 12 47 37; D2 12 47 37; D2 12 47 37; D2 12 47 37;
  D2 12 47 37; D2 12 47 37; D2 12 47 37; D2 12 47 37; D2 12 47 37; D2 12 47 37; D2 12 47 37; D2 12 47 37; D2 12 47 37;
  D2 12 47 37; D2 12 47 37; D2 12 47 37; D2 12 47 45; D2 12 47 45; D2 12 47 45; D2 12 47 45; D2 12 47 45; D2 12 47 45;
  D2 12 47 45; D2 12 47 45; D2 12 47 45; D2 12 47 45; D2 12 47 45; D2 12 47 45; D2 12 47 45; D2 12 47 45; D2 12 47 45;
  D2 12 47 45; D2 12 47 46; D2 12 47 46; D2 12 47 46; D2 12 47 46; D2 12 47 46; D2 12 47 46; D2 12 47 46; D2 12 47 46;
  D2 12 47 46; D2 12 47 46; D2 12 47 46; D2 12 47 46; D2 12 47 46; D2 12 47 46; D2 12 47 46; D2 12 47 46; D2 12 47 47;
  D2 12 47 47; D2 12 47 47; D2 12 47 47; D2 12 47 47; D2 12 47 47; D2 12 47 47; D2 12 47 47; D2 12 47 47; D2 12 47 47;
  D2 12 47 47; D2 12 47 47; D2 12 47 47; D2 12 47 47; D2 12 47 47; D2 12 47 47; D2 12 47 51; D2 12 47 51; D2 12 47 51;
  D2 12 47 51; D2 12 47 51; D2 12 47 51; D2 12 47 51; D2 12 47 51; D2 12 47 51; D2 12 47 51; D2 12 47 51; D2 12 47 51;
  D2 12 47 51; D2 12 47 51; D2 12 47 51; D2 12 47 51; D2 12 47 52; D2 12 47 52; D2 12 47 52; D2 12 47 52; D2 12 47 52;
  D2 12 47 52; D2 12 47 52; D2 12 47 52; D2 12 47 52; D2 12 47 52; D2 12 47 52; D2 12 47 52; D2 12 47 52; D2 12 47 52;
  D2 12 47 52; D2 12 47 52; D2 12 47 53; D2 12 47 53; D2 12 47 53; D2 12 47 53; D2 12 47 53; D2 12 47 53; D2 12 47 53;
  D2 12 47 53; D2 12 47 53; D2 12 47 53; D2 12 47 53; D2 12 47 53; D2 12 47 53; D2 12 47 53; D2 12 47 53; D2 12 47 53;
  D2 12 47 54; D2 12 47 54; D2 12 47 54; D2 12 47 54; D2 12 47 54; D2 12 47 54; D2 12 47 54; D2 12 47 54; D2 12 47 54;
  D2 12 47 54; D2 12 47 54; D2 12 47 54; D2 12 47 54; D2 12 47 54; D2 12 47 54; D2 12 47 54; D2 12 47 55; D2 12 47 55;
  D2 12 47 55; D2 12 47 55; D2 12 47 55; D2 12 47 55; D2 12 47 55; D2 12 47 55; D2 12 47 55; D2 12 47 55; D2 12 47 55;
  D2 12 47 55; D2 12 47 55; D2 12 47 55; D2 12 47 55; D2 12 47 55; D2 12 47 56; D2 12 47 56; D2 12 47 56; D2 12 47 56;
  D2 12 47 56; D2 12 47 56; D2 12 47 56; D2 12 47 56; D2 12 47 56; D2 12 47 56; D2 12 47 56; D2 12 47 56; D2 12 47 56;
  D2 12 47 56; D2 12 47 56; D2 12 47 56; D2 12 47 57; D2 12 47 57; D2 12 47 57; D2 12 47 57; D2 12 47 57; D2 12 47 57;
  D2 12 47 57; D2 12 47 57; D2 12 47 57; D2 12 47 57; D2 12 47 57; D2 12 47 57; D2 12 47 57; D2 12 47 57; D2 12 47 57;
  D2 12 47 57].
Definition hdecs_98 : list hdec := [
  D2 12 47 61; D2 12 47 61; D2 12 47 61; D2 12 47 61; D2 12 47 61; D2 12 47 61; D2 12 47 61; D2 12 47 61; D2 12 47 61;
  D2 12 47 61; D2 12 47 61; D2 12 47 61; D2 12 47 61; D2 12 47 61; D2 12 47 61; D2 12 47 61; D2 12 47 65; D2 12 47 65;
  D2 12 47 65; D2 12 47 65; D2 12 47 65; D2 12 47 65; D2 12 47 65; D2 12 47 65; D2 12 47 65; D2 12 47 65; D2 12 47 65;
  D2 12 47 65; D2 12 47 65; D2 12 47 65; D2 12 47 65; D2 12 47 65; D2 12 47 95; D2 12 47 95; D2 12 47 95; D2 12 47 95;
  D2 12 47 95; D2 12 47 95; D2 12 47 95; D2 12 47 95; D2 12 47 95; D2 12 47 95; D2 12 47 95; D2 12 47 95; D2 12 47 95;
  D2 12 47 95; D2 12 47 95; D2 12 47 95; D2 12 47 98; D2 12 47 98; D2 12 47 98; D2 12 47 98; D2 12 47 98; D2 12 47 98;
  D2 12 47 98; D2 12 47 98; D2 12 47 98; D2 12 47 98; D2 12 47 98; D2 12 47 98; D2 12 47 98; D2 12 47 98; D2 12 47 98;
  D2 12 47 98; D2 12 47 100; D2 12 47 100; D2 12 47 100; D2 12 47 100; D2 12 47 100; D2 12 47 100; D2 12 47 100;
  D2 12 47 100; D2 12 47 100; D2 12 47 100; D2 12 47 100; D2 12 47 100; D2 12 47 100; D2 12 47 100; D2 12 47 100;
  D2 12 47 100; D2 12 47 102; D2 12 47 102; D2 12 47 102; D2 12 47 102; D2 12 47 102; D2 12 47 102; D2 12 47 102;
  D2 12 47 102; D2 12 47 102; D2 12 47 102; D2 12 47 102; D2 12 47 102; D2 12 47 102; D2 12 47 102; D2 12 47 102;
  D2 12 47 102; D2 12 47 103; D2 12 47 103; D2 12 47 103; D2 12 47 103; D2 12 47 103; D2 12 47 103; D2 12 47 103;
  D2 12 47 103; D2 12 47 103; D2 12 47 103; D2 12 47 103; D2 12 47 103; D2 12 47 103; D2 12 47 103; D2 12 47 103;
  D2 12 47 103; D2 12 47 104; D2 12 47 104; D2 12 47 104; D2 12 47 104; D2 12 47 104; D2 12 47 104; D2 12 47 104;
  D2 12 47 104; D2 12 47 104; D2 12 47 104; D2 12 47 104; D2 12 47 104; D2 12 47 104; D2 12 47 104; D2 12 47 104;
  D2 12 47 104; D2 12 47 108; D2 12 47 108; D2 12 47 108; D2 12 47 108; D2 12 47 108; D2 12 47 108; D2 12 47 108;
  D2 12 47 108; D2 12 47 108; D2 12 47 108; D2 12 47 108; D2 12 47 108; D2 12 47 108; D2 12 47 108; D2 12 47 108;
  D2 12 47 108; D2 12 47 109; D2 12 47 109; D2 12 47 109; D2 12 47 109; D2 12 47 109; D2 12 47 109; D2 12 47 109;
  D2 12 47 109; D2 12 47 109; D2 12 47 109; D2 12 47 109; D2 12 47 109; D2 12 47 109; D2 12 47 109; D2 12 47 109;
  D2 12 47 109; D2 12 47 110; D2 12 47 110; D2 12 47 110; D2 12 47 110; D2 12 47 110; D2 12 47 110; D2 12 47 110;
  D2 12 47 110; D2 12 47 110; D2 12 47 110; D2 12 47 110; D2 12 47 110; D2 12 47 110; D2 12 47 110; D2 12 47 110;
  D2 12 47 110; D2 12 47 112; D2 12 47 112; D2 12 47 112; D2 12 47 112; D2 12 47 112; D2 12 47 112; D2 12 47 112;
  D2 12 47 112; D2 12 47 112; D2 12 47 112; D2 12 47 112; D2 12 47 112; D2 12 47 112; D2 12 47 112; D2 12 47 112;
  D2 12 47 112; D2 12 47 114; D2 12 47 114; D2 12 47 114; D2 12 47 114; D2 12 47 114; D2 12 47 114; D2 12 47 114;
  D2 12 47 114; D2 12 47 114; D2 12 47 114; D2 12 47 114; D2 12 47 114; D2 12 47 114; D2 12 47 114; D2 12 47 114;
  D2 12 47 114; D2 12 47 117; D2 12 47 117; D2 12 47 117; D2 12 47 117; D2 12 47 117; D2 12 47 117; D2 12 47 117;
  D2 12 47 117; D2 12 47 117; D2 12 47 117; D2 12 47 117; D2 12 47 117; D2 12 47 117; D2 12 47 117; D2 12 47 117;
  D2 12 47 117; D2 13 47 58; D2 13 47 58; D2 13 47 58; D2 13 47 58; D2 13 47 58; D2 13 47 58; D2 13 47 58;
  D2 13 47 58; D2 13 47 66; D2 13 47 66; D2 13 47 66; D2 13 47 66; D2 13 47 66; D2 13 47 66; D2 13 47 66; D2 13 47 66;
  D2 13 47 67; D2 13 47 67; D2 13 47 67; D2 13 47 67; D2 13 47 67; D2 13 47 67; D2 13 47 67; D2 13 47 67; D2 13 47 68;
  D2 13 47 68; D2 13 47 68; D2 13 47 68; D2 13 47 68; D2 13 47 68; D2 13 47 68; D2 13 47 68].
Definition hdecs_99 : list hdec := [
  D2 13 47 69; D2 13 47 69; D2 13 47 69; D2 13 47 69; D2 13 47 69; D2 13 47 69; D2 13 47 69; D2 13 47 69; D2 13 47 70;
  D2 13 47 70; D2 13 47 70; D2 13 47 70; D2 13 47 70; D2 13 47 70; D2 13 47 70; D2 13 47 70; D2 13 47 71; D2 13 47 71;
  D2 13 47 71; D2 13 47 71; D2 13 47 71; D2 13 47 71; D2 13 47 71; D2 13 47 71; D2 13 47 72; D2 13 47 72; D2 13 47 72;
  D2 13 47 72; D2 13 47 72; D2 13 47 72; D2 13 47 72; D2 13 47 72; D2 13 47 73; D2 13 47 73; D2 13 47 73; D2 13 47 73;
  D2 13 47 73; D2 13 47 73; D2 13 47 73; D2 13 47 73; D2 13 47 74; D2 13 47 74; D2 13 47 74; D2 13 47 74; D2 13 47 74;
  D2 13 47 74; D2 13 47 74; D2 13 47 74; D2 13 47 75; D2 13 47 75; D2 13 47 75; D2 13 47 75; D2 13 47 75; D2 13 47 75;
  D2 13 47 75; D2 13 47 75; D2 13 47 76; D2 13 47 76; D2 13 47 76; D2 13 47 76; D2 13 47 76; D2 13 47 76; D2 13 47 76;
  D2 13 47 76; D2 13 47 77; D2 13 47 77; D2 13 47 77; D2 13 47 77; D2 13 47 77; D2 13 47 77; D2 13 47 77; D2 13 47 77;
  D2 13 47 78; D2 13 47 78; D2 13 47 78; D2 13 47 78; D2 13 47 78; D2 13 47 78; D2 13 47 78; D2 13 47 78; D2 13 47 79;
  D2 13 47 79; D2 13 47 79; D2 13 47 79; D2 13 47 79; D2 13 47 79; D2 13 47 79; D2 13 47 79; D2 13 47 80; D2 13 47 80;
  D2 13 47 80; D2 13 47 80; D2 13 47 80; D2 13 47 80; D2 13 47 80; D2 13 47 80; D2 13 47 81; D2 13 47 81; D2 13 47 81;
  D2 13 47 81; D2 13 47 81; D2 13 47 81; D2 13 47 81; D2 13 47 81; D2 13 47 82; D2 13 47 82; D2 13 47 82; D2 13 47 82;
  D2 13 47 82; D2 13 47 82; D2 13 47 82; D2 13 47 82; D2 13 47 83; D2 13 47 83; D2 13 47 83; D2 13 47 83; D2 13 47 83;
  D2 13 47 83; D2 13 47 83; D2 13 47 83; D2 13 47 84; D2 13 47 84; D2 13 47 84; D2 13 47 84; D2 13 47 84; D2 13 47 84;
  D2 13 47 84; D2 13 47 84; D2 13 47 85; D2 13 47 85; D2 13 47 85; D2 13 47 85; D2 13 47 85; D2 13 47 85; D2 13 47 85;
  D2 13 47 85; D2 13 47 86; D2 13 47 86; D2 13 47 86; D2 13 47 86; D2 13 47 86; D2 13 47 86; D2 13 47 86; D2 13 47 86;
  D2 13 47 87; D2 13 47 87; D2 13 47 87; D2 13 47 87; D2 13 47 87; D2 13 47 87; D2 13 47 87; D2 13 47 87; D2 13 47 89;
  D2 13 47 89; D2 13 47 89; D2 13 47 89; D2 13 47 89; D2 13 47 89; D2 13 47 89; D2 13 47 89; D2 13 47 106;
  D2 13 47 106; D2 13 47 106; D2 13 47 106; D2 13 47 106; D2 13 47 106; D2 13 47 106; D2 13 47 106; D2 13 47 107;
  D2 13 47 107; D2 13 47 107; D2 13 47 107; D2 13 47 107; D2 13 47 107; D2 13 47 107; D2 13 47 107; D2 13 47 113;
  D2 13 47 113; D2 13 47 113; D2 13 47 113; D2 13 47 113; D2 13 47 113; D2 13 47 113; D2 13 47 113; D2 13 47 118;
  D2 13 47 118; D2 13 47 118; D2 13 47 118; D2 13 47 118; D2 13 47 118; D2 13 47 118; D2 13 47 118; D2 13 47 119;
  D2 13 47 119; D2 13 47 119; D2 13 47 119; D2 13 47 119; D2 13 47 119; D2 13 47 119; D2 13 47 119; D2 13 47 120;
  D2 13 47 120; D2 13 47 120; D2 13 47 120; D2 13 47 120; D2 13 47 120; D2 13 47 120; D2 13 47 120; D2 13 47 121;
  D2 13 47 121; D2 13 47 121; D2 13 47 121; D2 13 47 121; D2 13 47 121; D2 13 47 121; D2 13 47 121; D2 13 47 122;
  D2 13 47 122; D2 13 47 122; D2 13 47 122; D2 13 47 122; D2 13 47 122; D2 13 47 122; D2 13 47 122; D2 14 47 38;
  D2 14 47 38; D2 14 47 38; D2 14 47 38; D2 14 47 42; D2 14 47 42; D2 14 47 42; D2 14 47 42; D2 14 47 44; D2 14 47 44;
  D2 14 47 44; D2 14 47 44; D2 14 47 59; D2 14 47 59; D2 14 47 59; D2 14 47 59; D2 14 47 88; D2 14 47 88; D2 14 47 88;
  D2 14 47 88; D2 14 47 90; D2 14 47 90; D2 14 47 90; D2 14 47 90; D2 16 47 33; D2 16 47 34; D2 16 47 40; D2 16 47 41;
  D2 16 47 63; D1 6 47; D1 6 47; D1 6 47].
Definition hdecs_100 : list hdec := [
  D3 16 51 48 48; D3 16 51 48 49; D3 16 51 48 50; D3 16 51 48 97; D3 16 51 48 99; D3 16 51 48 101; D3 16 51 48 105;
  D3 16 51 48 111; D3 16 51 48 115; D3 16 51 48 116; D2 11 51 48; D2 11 51 48; D2 11 51 48; D2 11 51 48; D2 11 51 48;
  D2 11 51 48; D2 11 51 48; D2 11 51 48; D2 11 51 48; D2 11 51 48; D2 11 51 48; D2 11 51 48; D2 11 51 48; D2 11 51 48;
  D2 11 51 48; D2 11 51 48; D2 11 51 48; D2 11 51 48; D2 11 51 48; D2 11 51 48; D2 11 51 48; D2 11 51 48;
  D3 16 51 49 48; D3 16 51 49 49; D3 16 51 49 50; D3 16 51 49 97; D3 16 51 49 99; D3 16 51 49 101; D3 16 51 49 105;
  D3 16 51 49 111; D3 16 51 49 115; D3 16 51 49 116; D2 11 51 49; D2 11 51 49; D2 11 51 49; D2 11 51 49; D2 11 51 49;
  D2 11 51 49; D2 11 51 49; D2 11 51 49; D2 11 51 49; D2 11 51 49; D2 11 51 49; D2 11 51 49; D2 11 51 49; D2 11 51 49;
  D2 11 51 49; D2 11 51 49; D2 11 51 49; D2 11 51 49; D2 11 51 49; D2 11 51 49; D2 11 51 49; D2 11 51 49;
  D3 16 51 50 48; D3 16 51 50 49; D3 16 51 50 50; D3 16 51 50 97; D3 16 51 50 99; D3 16 51 50 101; D3 16 51 50 105;
  D3 16 51 50 111; D3 16 51 50 115; D3 16 51 50 116; D2 11 51 50; D2 11 51 50; D2 11 51 50; D2 11 51 50; D2 11 51 50;
  D2 11 51 50; D2 11 51 50; D2 11 51 50; D2 11 51 50; D2 11 51 50; D2 11 51 50; D2 11 51 50; D2 11 51 50; D2 11 51 50;
  D2 11 51 50; D2 11 51 50; D2 11 51 50; D2 11 51 50; D2 11 51 50; D2 11 51 50; D2 11 51 50; D2 11 51 50;
  D3 16 51 97 48; D3 16 51 97 49; D3 16 51 97 50; D3 16 51 97 97; D3 16 51 97 99; D3 16 51 97 101; D3 16 51 97 105;
  D3 16 51 97 111; D3 16 51 97 115; D3 16 51 97 116; D2 11 51 97; D2 11 51 97; D2 11 51 97; D2 11 51 97; D2 11 51 97;
  D2 11 51 97; D2 11 51 97; D2 11 51 97; D2 11 51 97; D2 11 51 97; D2 11 51 97; D2 11 51 97; D2 11 51 97; D2 11 51 97;
  D2 11 51 97; D2 11 51 97; D2 11 51 97; D2 11 51 97; D2 11 51 97; D2 11 51 97; D2 11 51 97; D2 11 51 97;
  D3 16 51 99 48; D3 16 51 99 49; D3 16 51 99 50; D3 16 51 99 97; D3 16 51 99 99; D3 16 51 99 101; D3 16 51 99 105;
  D3 16 51 99 111; D3 16 51 99 115; D3 16 51 99 116; D2 11 51 99; D2 11 51 99; D2 11 51 99; D2 11 51 99; D2 11 51 99;
  D2 11 51 99; D2 11 51 99; D2 11 51 99; D2 11 51 99; D2 11 51 99; D2 11 51 99; D2 11 51 99; D2 11 51 99; D2 11 51 99;
  D2 11 51 99; D2 11 51 99; D2 11 51 99; D2 11 51 99; D2 11 51 99; D2 11 51 99; D2 11 51 99; D2 11 51 99;
  D3 16 51 101 48; D3 16 51 101 49; D3 16 51 101 50; D3 16 51 101 97; D3 16 51 101 99; D3 16 51 101 101;
  D3 16 51 101 105; D3 16 51 101 111; D3 16 51 101 115; D3 16 51 101 116; D2 11 51 101; D2 11 51 101; D2 11 51 101;
  D2 11 51 101; D2 11 51 101; D2 11 51 101; D2 11 51 101; D2 11 51 101; D2 11 51 101; D2 11 51 101; D2 11 51 101;
  D2 11 51 101; D2 11 51 101; D2 11 51 101; D2 11 51 101; D2 11 51 101; D2 11 51 101; D2 11 51 101; D2 11 51 101;
  D2 11 51 101; D2 11 51 101; D2 11 51 101; D3 16 51 105 48; D3 16 51 105 49; D3 16 51 105 50; D3 16 51 105 97;
  D3 16 51 105 99; D3 16 51 105 101; D3 16 51 105 105; D3 16 51 105 111; D3 16 51 105 115; D3 16 51 105 116;
  D2 11 51 105; D2 11 51 105; D2 11 51 105; D2 11 51 105; D2 11 51 105; D2 11 51 105; D2 11 51 105; D2 11 51 105;
  D2 11 51 105; D2 11 51 105; D2 11 51 105; D2 11 51 105; D2 11 51 105; D2 11 51 105; D2 11 51 105; D2 11 51 105;
  D2 11 51 105; D2 11 51 105; D2 11 51 105; D2 11 51 105; D2 11 51 105; D2 11 51 105; D3 16 51 111 48;
  D3 16 51 111 49; D3 16 51 111 50; D3 16 51 111 97; D3 16 51 111 99; D3 16 51 111 101; D3 16 51 111 105;
  D3 16 51 111 111; D3 16 51 111 115; D3 16 51 111 116; D2 11 51 111; D2 11 51 111; D2 11 51 111; D2 11 51 111;
  D2 11 51 111; D2 11 51 111; D2 11 51 111; D2 11 51 111; D2 11 51 111; D2 11 51 111; D2 11 51 111; D2 11 51 111;
  D2 11 51 111; D2 11 51 111; D2 11 51 111; D2 11 51 111; D2 11 51 111; D2 11 51 111; D2 11 51 111; D2 11 51 111;
  D2 11 51 111; D2 11 51 111].
Definition hdecs_101 : list hdec := [
  D3 16 51 115 48; D3 16 51 115 49; D3 16 51 115 50; D3 16 51 115 97; D3 16 51 115 99; D3 16 51 115 101;
  D3 16 51 115 105; D3 16 51 115 111; D3 16 51 115 115; D3 16 51 115 116; D2 11 51 115; D2 11 51 115; D2 11 51 115;
  D2 11 51 115; D2 11 51 115; D2 11 51 115; D2 11 51 115; D2 11 51 115; D2 11 51 115; D2 11 51 115; D2 11 51 115;
  D2 11 51 115; D2 11 51 115; D2 11 51 115; D2 11 51 115; D2 11 51 115; D2 11 51 115; D2 11 51 115; D2 11 51 115;
  D2 11 51 115; D2 11 51 115; D2 11 51 115; D3 16 51 116 48; D3 16 51 116 49; D3 16 51 116 50; D3 16 51 116 97;
  D3 16 51 116 99; D3 16 51 116 101; D3 16 51 116 105; D3 16 51 116 111; D3 16 51 116 115; D3 16 51 116 116;
  D2 11 51 116; D2 11 51 116; D2 11 51 116; D2 11 51 116; D2 11 51 116; D2 11 51 116; D2 11 51 116; D2 11 51 116;
  D2 11 51 116; D2 11 51 116; D2 11 51 116; D2 11 51 116; D2 11 51 116; D2 11 51 116; D2 11 51 116; D2 11 51 116;
  D2 11 51 116; D2 11 51 116; D2 11 51 116; D2 11 51 116; D2 11 51 116; D2 11 51 116; D2 12 51 32; D2 12 51 32;
  D2 12 51 32; D2 12 51 32; D2 12 51 32; D2 12 51 32; D2 12 51 32; D2 12 51 32; D2 12 51 32; D2 12 51 32; D2 12 51 32;
  D2 12 51 32; D2 12 51 32; D2 12 51 32; D2 12 51 32; D2 12 51 32; D2 12 51 37; D2 12 51 37; D2 12 51 37; D2 12 51 37;
  D2 12 51 37; D2 12 51 37; D2 12 51 37; D2 12 51 37; D2 12 51 37; D2 12 51 37; D2 12 51 37; D2 12 51 37; D2 12 51 37;
  D2 12 51 37; D2 12 51 37; D2 12 51 37; D2 12 51 45; D2 12 51 45; D2 12 51 45; D2 12 51 45; D2 12 51 45; D2 12 51 45;
  D2 12 51 45; D2 12 51 45; D2 12 51 45; D2 12 51 45; D2 12 51 45; D2 12 51 45; D2 12 51 45; D2 12 51 45; D2 12 51 45;
  D2 12 51 45; D2 12 51 46; D2 12 51 46; D2 12 51 46; D2 12 51 46; D2 12 51 46; D2 12 51 46; D2 12 51 46; D2 12 51 46;
  D2 12 51 46; D2 12 51 46; D2 12 51 46; D2 12 51 46; D2 12 51 46; D2 12 51 46; D2 12 51 46; D2 12 51 46; D2 12 51 47;
  D2 12 51 47; D2 12 51 47; D2 12 51 47; D2 12 51 47; D2 12 51 47; D2 12 51 47; D2 12 51 47; D2 12 51 47; D2 12 51 47;
  D2 12 51 47; D2 12 51 47; D2 12 51 47; D2 12 51 47; D2 12 51 47; D2 12 51 47; D2 12 51 51; D2 12 51 51; D2 12 51 51;
  D2 12 51 51; D2 12 51 51; D2 12 51 51; D2 12 51 51; D2 12 51 51; D2 12 51 51; D2 12 51 51; D2 12 51 51; D2 12 51 51;
  D2 12 51 51; D2 12 51 51; D2 12 51 51; D2 12 51 51; D2 12 51 52; D2 12 51 52; D2 12 51 52; D2 12 51 52; D2 12 51 52;
  D2 12 51 52; D2 12 51 52; D2 12 51 52; D2 12 51 52; D2 12 51 52; D2 12 51 52; D2 12 51 52; D2 12 51 52; D2 12 51 52;
  D2 12 51 52; D2 12 51 52; D2 12 51 53; D2 12 51 53; D2 12 51 53; D2 12 51 53; D2 12 51 53; D2 12 51 53; D2 12 51 53;
  D2 12 51 53; D2 12 51 53; D2 12 51 53; D2 12 51 53; D2 12 51 53; D2 12 51 53; D2 12 51 53; D2 12 51 53; D2 12 51 53;
  D2 12 51 54; D2 12 51 54; D2 12 51 54; D2 12 51 54; D2 12 51 54; D2 12 51 54; D2 12 51 54; D2 12 51 54; D2 12 51 54;
  D2 12 51 54; D2 12 51 54; D2 12 51 54; D2 12 51 54; D2 12 51 54; D2 12 51 54; D2 12 51 54; D2 12 51 55; D2 12 51 55;
  D2 12 51 55; D2 12 51 55; D2 12 51 55; D2 12 51 55; D2 12 51 55; D2 12 51 55; D2 12 51 55; D2 12 51 55; D2 12 51 55;
  D2 12 51 55; D2 12 51 55; D2 12 51 55; D2 12 51 55; D2 12 51 55; D2 12 51 56; D2 12 51 56; D2 12 51 56; D2 12 51 56;
  D2 12 51 56; D2 12 51 56; D2 12 51 56; D2 12 51 56; D2 12 51 56; D2 12 51 56; D2 12 51 56; D2 12 51 56; D2 12 51 56;
  D2 12 51 56; D2 12 51 56; D2 12 51 56; D2 12 51 57; D2 12 51 57; D2 12 51 57; D2 12 51 57; D2 12 51 57; D2 12 51 57;
  D2 12 51 57; D2 12 51 57; D2 12 51 57; D2 12 51 57; D2 12 51 57; D2 12 51 57; D2 12 51 57; D2 12 51 57; D2 12 51 57;
  D2 12 51 57].
Definition hdecs_102 : list hdec := [
  D2 12 51 61; D2 12 51 61; D2 12 51 61; D2 12 51 61; D2 12 51 61; D2 12 51 61; D2 12 51 61; D2 12 51 61; D2 12 51 61;
  D2 12 51 61; D2 12 51 61; D2 12 51 61; D2 12 51 61; D2 12 51 61; D2 12 51 61; D2 12 51 61; D2 12 51 65; D2 12 51 65;
  D2 12 51 65; D2 12 51 65; D2 12 51 65; D2 12 51 65; D2 12 51 65; D2 12 51 65; D2 12 51 65; D2 12 51 65; D2 12 51 65;
  D2 12 51 65; D2 12 51 65; D2 12 51 65; D2 12 51 65; D2 12 51 65; D2 12 51 95; D2 12 51 95; D2 12 51 95; D2 12 51 95;
  D2 12 51 95; D2 12 51 95; D2 12 51 95; D2 12 51 95; D2 12 51 95; D2 12 51 95; D2 12 51 95; D2 12 51 95; D2 12 51 95;
  D2 12 51 95; D2 12 51 95; D2 12 51 95; D2 12 51 98; D2 12 51 98; D2 12 51 98; D2 12 51 98; D2 12 51 98; D2 12 51 98;
  D2 12 51 98; D2 12 51 98; D2 12 51 98; D2 12 51 98; D2 12 51 98; D2 12 51 98; D2 12 51 98; D2 12 51 98; D2 12 51 98;
  D2 12 51 98; D2 12 51 100; D2 12 51 100; D2 12 51 100; D2 12 51 100; D2 12 51 100; D2 12 51 100; D2 12 51 100;
  D2 12 51 100; D2 12 51 100; D2 12 51 100; D2 12 51 100; D2 12 51 100; D2 12 51 100; D2 12 51 100; D2 12 51 100;
  D2 12 51 100; D2 12 51 102; D2 12 51 102; D2 12 51 102; D2 12 51 102; D2 12 51 102; D2 12 51 102; D2 12 51 102;
  D2 12 51 102; D2 12 51 102; D2 12 51 102; D2 12 51 102; D2 12 51 102; D2 12 51 102; D2 12 51 102; D2 12 51 102;
  D2 12 51 102; D2 12 51 103; D2 12 51 103; D2 12 51 103; D2 12 51 103; D2 12 51 103; D2 12 51 103; D2 12 51 103;
  D2 12 51 103; D2 12 51 103; D2 12 51 103; D2 12 51 103; D2 12 51 103; D2 12 51 103; D2 12 51 103; D2 12 51 103;
  D2 12 51 103; D2 12 51 104; D2 12 51 104; D2 12 51 104; D2 12 51 104; D2 12 51 104; D2 12 51 104; D2 12 51 104;
  D2 12 51 104; D2 12 51 104; D2 12 51 104; D2 12 51 104; D2 12 51 104; D2 12 51 104; D2 12 51 104; D2 12 51 104;
  D2 12 51 104; D2 12 51 108; D2 12 51 108; D2 12 51 108; D2 12 51 108; D2 12 51 108; D2 12 51 108; D2 12 51 108;
  D2 12 51 108; D2 12 51 108; D2 12 51 108; D2 12 51 108; D2 12 51 108; D2 12 51 108; D2 12 51 108; D2 12 51 108;
  D2 12 51 108; D2 12 51 109; D2 12 51 109; D2 12 51 109; D2 12 51 109; D2 12 51 109; D2 12 51 109; D2 12 51 109;
  D2 12 51 109; D2 12 51 109; D2 12 51 109; D2 12 51 109; D2 12 51 109; D2 12 51 109; D2 12 51 109; D2 12 51 109;
  D2 12 51 109; D2 12 51 110; D2 12 51 110; D2 12 51 110; D2 12 51 110; D2 12 51 110; D2 12 51 110; D2 12 51 110;
  D2 12 51 110; D2 12 51 110; D2 12 51 110; D2 12 51 110; D2 12 51 110; D2 12 51 110; D2 12 51 110; D2 12 51 110;
  D2 12 51 110; D2 12 51 112; D2 12 51 112; D2 12 51 112; D2 12 51 112; D2 12 51 112; D2 12 51 112; D2 12 51 112;
  D2 12 51 112; D2 12 51 112; D2 12 51 112; D2 12 51 112; D2 12 51 112; D2 12 51 112; D2 12 51 112; D2 12 51 112;
  D2 12 51 112; D2 12 51 114; D2 12 51 114; D2 12 51 114; D2 12 51 114; D2 12 51 114; D2 12 51 114; D2 12 51 114;
  D2 12 51 114; D2 12 51 114; D2 12 51 114; D2 12 51 114; D2 12 51 114; D2 12 51 114; D2 12 51 114; D2 12 51 114;
  D2 12 51 114; D2 12 51 117; D2 12 51 117; D2 12 51 117; D2 12 51 117; D2 12 51 117; D2 12 51 117; D2 12 51 117;
  D2 12 51 117; D2 12 51 117; D2 12 51 117; D2 12 51 117; D2 12 51 117; D2 12 51 117; D2 12 51 117; D2 12 51 117;
  D2 12 51 117; D2 13 51 58; D2 13 51 58; D2 13 51 58; D2 13 51 58; D2 13 51 58; D2 13 51 58; D2 13 51 58;
  D2 13 51 58; D2 13 51 66; D2 13 51 66; D2 13 51 66; D2 13 51 66; D2 13 51 66; D2 13 51 66; D2 13 51 66; D2 13 51 66;
  D2 13 51 67; D2 13 51 67; D2 13 51 67; D2 13 51 67; D2 13 51 67; D2 13 51 67; D2 13 51 67; D2 13 51 67; D2 13 51 68;
  D2 13 51 68; D2 13 51 68; D2 13 51 68; D2 13 51 68; D2 13 51 68; D2 13 51 68; D2 13 51 68].
Definition hdecs_103 : list hdec := [
  D2 13 51 69; D2 13 51 69; D2 13 51 69; D2 13 51 69; D2 13 51 69; D2 13 51 69; D2 13 51 69; D2 13 51 69; D2 13 51 70;
  D2 13 51 70; D2 13 51 70; D2 13 51 70; D2 13 51 70; D2 13 51 70; D2 13 51 70; D2 13 51 70; D2 13 51 71; D2 13 51 71;
  D2 13 51 71; D2 13 51 71; D2 13 51 71; D2 13 51 71; D2 13 51 71; D2 13 51 71; D2 13 51 72; D2 13 51 72; D2 13 51 72;
  D2 13 51 72; D2 13 51 72; D2 13 51 72; D2 13 51 72; D2 13 51 72; D2 13 51 73; D2 13 51 73; D2 13 51 73; D2 13 51 73;
  D2 13 51 73; D2 13 51 73; D2 13 51 73; D2 13 51 73; D2 13 51 74; D2 13 51 74; D2 13 51 74; D2 13 51 74; D2 13 51 74;
  D2 13 51 74; D2 13 51 74; D2 13 51 74; D2 13 51 75; D2 13 51 75; D2 13 51 75; D2 13 51 75; D2 13 51 75; D2 13 51 75;
  D2 13 51 75; D2 13 51 75; D2 13 51 76; D2 13 51 76; D2 13 51 76; D2 13 51 76; D2 13 51 76; D2 13 51 76; D2 13 51 76;
  D2 13 51 76; D2 13 51 77; D2 13 51 77; D2 13 51 77; D2 13 51 77; D2 13 51 77; D2 13 51 77; D2 13 51 77; D2 13 51 77;
  D2 13 51 78; D2 13 51 78; D2 13 51 78; D2 13 51 78; D2 13 51 78; D2 13 51 78; D2 13 51 78; D2 13 51 78; D2 13 51 79;
  D2 13 51 79; D2 13 51 79; D2 13 51 79; D2 13 51 79; D2 13 51 79; D2 13 51 79; D2 13 51 79; D2 13 51 80; D2 13 51 80;
  D2 13 51 80; D2 13 51 80; D2 13 51 80; D2 13 51 80; D2 13 51 80; D2 13 51 80; D2 13 51 81; D2 13 51 81; D2 13 51 81;
  D2 13 51 81; D2 13 51 81; D2 13 51 81; D2 13 51 81; D2 13 51 81; D2 13 51 82; D2 13 51 82; D2 13 51 82; D2 13 51 82;
  D2 13 51 82; D2 13 51 82; D2 13 51 82; D2 13 51 82; D2 13 51 83; D2 13 51 83; D2 13 51 83; D2 13 51 83; D2 13 51 83;
  D2 13 51 83; D2 13 51 83; D2 13 51 83; D2 13 51 84; D2 13 51 84; D2 13 51 84; D2 13 51 84; D2 13 51 84; D2 13 51 84;
  D2 13 51 84; D2 13 51 84; D2 13 51 85; D2 13 51 85; D2 13 51 85; D2 13 51 85; D2 13 51 85; D2 13 51 85; D2 13 51 85;
  D2 13 51 85; D2 13 51 86; D2 13 51 86; D2 13 51 86; D2 13 51 86; D2 13 51 86; D2 13 51 86; D2 13 51 86; D2 13 51 86;
  D2 13 51 87; D2 13 51 87; D2 13 51 87; D2 13 51 87; D2 13 51 87; D2 13 51 87; D2 13 51 87; D2 13 51 87; D2 13 51 89;
  D2 13 51 89; D2 13 51 89; D2 13 51 89; D2 13 51 89; D2 13 51 89; D2 13 51 89; D2 13 51 89; D2 13 51 106;
  D2 13 51 106; D2 13 51 106; D2 13 51 106; D2 13 51 106; D2 13 51 106; D2 13 51 106; D2 13 51 106; D2 13 51 107;
  D2 13 51 107; D2 13 51 107; D2 13 51 107; D2 13 51 107; D2 13 51 107; D2 13 51 107; D2 13 51 107; D2 13 51 113;
  D2 13 51 113; D2 13 51 113; D2 13 51 113; D2 13 51 113; D2 13 51 113; D2 13 51 113; D2 13 51 113; D2 13 51 118;
  D2 13 51 118; D2 13 51 118; D2 13 51 118; D2 13 51 118; D2 13 51 118; D2 13 51 118; D2 13 51 118; D2 13 51 119;
  D2 13 51 119; D2 13 51 119; D2 13 51 119; D2 13 51 119; D2 13 51 119; D2 13 51 119; D2 13 51 119; D2 13 51 120;
  D2 13 51 120; D2 13 51 120; D2 13 51 120; D2 13 51 120; D2 13 51 120; D2 13 51 120; D2 13 51 120; D2 13 51 121;
  D2 13 51 121; D2 13 51 121; D2 13 51 121; D2 13 51 121; D2 13 51 121; D2 13 51 121; D2 13 51 121; D2 13 51 122;
  D2 13 51 122; D2 13 51 122; D2 13 51 122; D2 13 51 122; D2 13 51 122; D2 13 51 122; D2 13 51 122; D2 14 51 38;
  D2 14 51 38; D2 14 51 38; D2 14 51 38; D2 14 51 42; D2 14 51 42; D2 14 51 42; D2 14 51 42; D2 14 51 44; D2 14 51 44;
  D2 14 51 44; D2 14 51 44; D2 14 51 59; D2 14 51 59; D2 14 51 59; D2 14 51 59; D2 14 51 88; D2 14 51 88; D2 14 51 88;
  D2 14 51 88; D2 14 51 90; D2 14 51 90; D2 14 51 90; D2 14 51 90; D2 16 51 33; D2 16 51 34; D2 16 51 40; D2 16 51 41;
  D2 16 51 63; D1 6 51; D1 6 51; D1 6 51].
Definition hdecs_104 : list hdec := [
  D3 16 52 48 48; D3 16 52 48 49; D3 16 52 48 50; D3 16 52 48 97; D3 16 52 48 99; D3 16 52 48 101; D3 16 52 48 105;
  D3 16 52 48 111; D3 16 52 48 115; D3 16 52 48 116; D2 11 52 48; D2 11 52 48; D2 11 52 48; D2 11 52 48; D2 11 52 48;
  D2 11 52 48; D2 11 52 48; D2 11 52 48; D2 11 52 48; D2 11 52 48; D2 11 52 48; D2 11 52 48; D2 11 52 48; D2 11 52 48;
  D2 11 52 48; D2 11 52 48; D2 11 52 48; D2 11 52 48; D2 11 52 48; D2 11 52 48; D2 11 52 48; D2 11 52 48;
  D3 16 52 49 48; D3 16 52 49 49; D3 16 52 49 50; D3 16 52 49 97; D3 16 52 49 99; D3 16 52 49 101; D3 16 52 49 105;
  D3 16 52 49 111; D3 16 52 49 115; D3 16 52 49 116; D2 11 52 49; D2 11 52 49; D2 11 52 49; D2 11 52 49; D2 11 52 49;
  D2 11 52 49; D2 11 52 49; D2 11 52 49; D2 11 52 49; D2 11 52 49; D2 11 52 49; D2 11 52 49; D2 11 52 49; D2 11 52 49;
  D2 11 52 49; D2 11 52 49; D2 11 52 49; D2 11 52 49; D2 11 52 49; D2 11 52 49; D2 11 52 49; D2 11 52 49;
  D3 16 52 50 48; D3 16 52 50 49; D3 16 52 50 50; D3 16 52 50 97; D3 16 52 50 99; D3 16 52 50 101; D3 16 52 50 105;
  D3 16 52 50 111; D3 16 52 50 115; D3 16 52 50 116; D2 11 52 50; D2 11 52 50; D2 11 52 50; D2 11 52 50; D2 11 52 50;
  D2 11 52 50; D2 11 52 50; D2 11 52 50; D2 11 52 50; D2 11 52 50; D2 11 52 50; D2 11 52 50; D2 11 52 50; D2 11 52 50;
  D2 11 52 50; D2 11 52 50; D2 11 52 50; D2 11 52 50; D2 11 52 50; D2 11 52 50; D2 11 52 50; D2 11 52 50;
  D3 16 52 97 48; D3 16 52 97 49; D3 16 52 97 50; D3 16 52 97 97; D3 16 52 97 99; D3 16 52 97 101; D3 16 52 97 105;
  D3 16 52 97 111; D3 16 52 97 115; D3 16 52 97 116; D2 11 52 97; D2 11 52 97; D2 11 52 97; D2 11 52 97; D2 11 52 97;
  D2 11 52 97; D2 11 52 97; D2 11 52 97; D2 11 52 97; D2 11 52 97; D2 11 52 97; D2 11 52 97; D2 11 52 97; D2 11 52 97;
  D2 11 52 97; D2 11 52 97; D2 11 52 97; D2 11 52 97; D2 11 52 97; D2 11 52 97; D2 11 52 97; D2 11 52 97;
  D3 16 52 99 48; D3 16 52 99 49; D3 16 52 99 50; D3 16 52 99 97; D3 16 52 99 99; D3 16 52 99 101; D3 16 52 99 105;
  D3 16 52 99 111; D3 16 52 99 115; D3 16 52 99 116; D2 11 52 99; D2 11 52 99; D2 11 52 99; D2 11 52 99; D2 11 52 99;
  D2 11 52 99; D2 11 52 99; D2 11 52 99; D2 11 52 99; D2 11 52 99; D2 11 52 99; D2 11 52 99; D2 11 52 99; D2 11 52 99;
  D2 11 52 99; D2 11 52 99; D2 11 52 99; D2 11 52 99; D2 11 52 99; D2 11 52 99; D2 11 52 99; D2 11 52 99;
  D3 16 52 101 48; D3 16 52 101 49; D3 16 52 101 50; D3 16 52 101 97; D3 16 52 101 99; D3 16 52 101 101;
  D3 16 52 101 105; D3 16 52 101 111; D3 16 52 101 115; D3 16 52 101 116; D2 11 52 101; D2 11 52 101; D2 11 52 101;
  D2 11 52 101; D2 11 52 101; D2 11 52 101; D2 11 52 101; D2 11 52 101; D2 11 52 101; D2 11 52 101; D2 11 52 101;
  D2 11 52 101; D2 11 52 101; D2 11 52 101; D2 11 52 101; D2 11 52 101; D2 11 52 101; D2 11 52 101; D2 11 52 101;
  D2 11 52 101; D2 11 52 101; D2 11 52 101; D3 16 52 105 48; D3 16 52 105 49; D3 16 52 105 50; D3 16 52 105 97;
  D3 16 52 105 99; D3 16 52 105 101; D3 16 52 105 105; D3 16 52 105 111; D3 16 52 105 115; D3 16 52 105 116;
  D2 11 52 105; D2 11 52 105; D2 11 52 105; D2 11 52 105; D2 11 52 105; D2 11 52 105; D2 11 52 105; D2 11 52 105;
  D2 11 52 105; D2 11 52 105; D2 11 52 105; D2 11 52 105; D2 11 52 105; D2 11 52 105; D2 11 52 105; D2 11 52 105;
  D2 11 52 105; D2 11 52 105; D2 11 52 105; D2 11 52 105; D2 11 52 105; D2 11 52 105; D3 16 52 111 48;
  D3 16 52 111 49; D3 16 52 111 50; D3 16 52 111 97; D3 16 52 111 99; D3 16 52 111 101; D3 16 52 111 105;
  D3 16 52 111 111; D3 16 52 111 115; D3 16 52 111 116; D2 11 52 111; D2 11 52 111; D2 11 52 111; D2 11 52 111;
  D2 11 52 111; D2 11 52 111; D2 11 52 111; D2 11 52 111; D2 11 52 111; D2 11 52 111; D2 11 52 111; D2 11 52 111;
  D2 11 52 111; D2 11 52 111; D2 11 52 111; D2 11 52 111; D2 11 52 111; D2 11 52 111; D2 11 52 111; D2 11 52 111;
  D2 11 52 111; D2 11 52 111].
Definition hdecs_105 : list hdec := [
  D3 16 52 115 48; D3 16 52 115 49; D3 16 52 115 50; D3 16 52 115 97; D3 16 52 115 99; D3 16 52 115 101;
  D3 16 52 115 105; D3 16 52 115 111; D3 16 52 115 115; D3 16 52 115 116; D2 11 52 115; D2 11 52 115; D2 11 52 115;
  D2 11 52 115; D2 11 52 115; D2 11 52 115; D2 11 52 115; D2 11 52 115; D2 11 52 115; D2 11 52 115; D2 11 52 115;
  D2 11 52 115; D2 11 52 115; D2 11 52 115; D2 11 52 115; D2 11 52 115; D2 11 52 115; D2 11 52 115; D2 11 52 115;
  D2 11 52 115; D2 11 52 115; D2 11 52 115; D3 16 52 116 48; D3 16 52 116 49; D3 16 52 116 50; D3 16 52 116 97;
  D3 16 52 116 99; D3 16 52 116 101; D3 16 52 116 105; D3 16 52 116 111; D3 16 52 116 115; D3 16 52 116 116;
  D2 11 52 116; D2 11 52 116; D2 11 52 116; D2 11 52 116; D2 11 52 116; D2 11 52 116; D2 11 52 116; D2 11 52 116;
  D2 11 52 116; D2 11 52 116; D2 11 52 116; D2 11 52 116; D2 11 52 116; D2 11 52 116; D2 11 52 116; D2 11 52 116;
  D2 11 52 116; D2 11 52 116; D2 11 52 116; D2 11 52 116; D2 11 52 116; D2 11 52 116; D2 12 52 32; D2 12 52 32;
  D2 12 52 32; D2 12 52 32; D2 12 52 32; D2 12 52 32; D2 12 52 32; D2 12 52 32; D2 12 52 32; D2 12 52 32; D2 12 52 32;
  D2 12 52 32; D2 12 52 32; D2 12 52 32; D2 12 52 32; D2 12 52 32; D2 12 52 37; D2 12 52 37; D2 12 52 37; D2 12 52 37;
  D2 12 52 37; D2 12 52 37; D2 12 52 37; D2 12 52 37; D2 12 52 37; D2 12 52 37; D2 12 52 37; D2 12 52 37; D2 12 52 37;
  D2 12 52 37; D2 12 52 37; D2 12 52 37; D2 12 52 45; D2 12 52 45; D2 12 52 45; D2 12 52 45; D2 12 52 45; D2 12 52 45;
  D2 12 52 45; D2 12 52 45; D2 12 52 45; D2 12 52 45; D2 12 52 45; D2 12 52 45; D2 12 52 45; D2 12 52 45; D2 12 52 45;
  D2 12 52 45; D2 12 52 46; D2 12 52 46; D2 12 52 46; D2 12 52 46; D2 12 52 46; D2 12 52 46; D2 12 52 46; D2 12 52 46;
  D2 12 52 46; D2 12 52 46; D2 12 52 46; D2 12 52 46; D2 12 52 46; D2 12 52 46; D2 12 52 46; D2 12 52 46; D2 12 52 47;
  D2 12 52 47; D2 12 52 47; D2 12 52 47; D2 12 52 47; D2 12 52 47; D2 12 52 47; D2 12 52 47; D2 12 52 47; D2 12 52 47;
  D2 12 52 47; D2 12 52 47; D2 12 52 47; D2 12 52 47; D2 12 52 47; D2 12 52 47; D2 12 52 51; D2 12 52 51; D2 12 52 51;
  D2 12 52 51; D2 12 52 51; D2 12 52 51; D2 12 52 51; D2 12 52 51; D2 12 52 51; D2 12 52 51; D2 12 52 51; D2 12 52 51;
  D2 12 52 51; D2 12 52 51; D2 12 52 51; D2 12 52 51; D2 12 52 52; D2 12 52 52; D2 12 52 52; D2 12 52 52; D2 12 52 52;
  D2 12 52 52; D2 12 52 52; D2 12 52 52; D2 12 52 52; D2 12 52 52; D2 12 52 52; D2 12 52 52; D2 12 52 52; D2 12 52 52;
  D2 12 52 52; D2 12 52 52; D2 12 52 53; D2 12 52 53; D2 12 52 53; D2 12 52 53; D2 12 52 53; D2 12 52 53; D2 12 52 53;
  D2 12 52 53; D2 12 52 53; D2 12 52 53; D2 12 52 53; D2 12 52 53; D2 12 52 53; D2 12 52 53; D2 12 52 53; D2 12 52 53;
  D2 12 52 54; D2 12 52 54; D2 12 52 54; D2 12 52 54; D2 12 52 54; D2 12 52 54; D2 12 52 54; D2 12 52 54; D2 12 52 54;
  D2 12 52 54; D2 12 52 54; D2 12 52 54; D2 12 52 54; D2 12 52 54; D2 12 52 54; D2 12 52 54; D2 12 52 55; D2 12 52 55;
  D2 12 52 55; D2 12 52 55; D2 12 52 55; D2 12 52 55; D2 12 52 55; D2 12 52 55; D2 12 52 55; D2 12 52 55; D2 12 52 55;
  D2 12 52 55; D2 12 52 55; D2 12 52 55; D2 12 52 55; D2 12 52 55; D2 12 52 56; D2 12 52 56; D2 12 52 56; D2 12 52 56;
  D2 12 52 56; D2 12 52 56; D2 12 52 56; D2 12 52 56; D2 12 52 56; D2 12 52 56; D2 12 52 56; D2 12 52 56; D2 12 52 56;
  D2 12 52 56; D2 12 52 56; D2 12 52 56; D2 12 52 57; D2 12 52 57; D2 12 52 57; D2 12 52 57; D2 12 52 57; D2 12 52 57;
  D2 12 52 57; D2 12 52 57; D2 12 52 57; D2 12 52 57; D2 12 52 57; D2 12 52 57; D2 12 52 57; D2 12 52 57; D2 12 52 57;
  D2 12 52 57].
Definition hdecs_106 : list hdec := [
  D2 12 52 61; D2 12 52 61; D2 12 52 61; D2 12 52 61; D2 12 52 61; D2 12 52 61; D2 12 52 61; D2 12 52 61; D2 12 52 61;
  D2 12 52 61; D2 12 52 61; D2 12 52 61; D2 12 52 61; D2 12 52 61; D2 12 52 61; D2 12 52 61; D2 12 52 65; D2 12 52 65;
  D2 12 52 65; D2 12 52 65; D2 12 52 65; D2 12 52 65; D2 12 52 65; D2 12 52 65; D2 12 52 65; D2 12 52 65; D2 12 52 65;
  D2 12 52 65; D2 12 52 65; D2 12 52 65; D2 12 52 65; D2 12 52 65; D2 12 52 95; D2 12 52 95; D2 12 52 95; D2 12 52 95;
  D2 12 52 95; D2 12 52 95; D2 12 52 95; D2 12 52 95; D2 12 52 95; D2 12 52 95; D2 12 52 95; D2 12 52 95; D2 12 52 95;
  D2 12 52 95; D2 12 52 95; D2 12 52 95; D2 12 52 98; D2 12 52 98; D2 12 52 98; D2 12 52 98; D2 12 52 98; D2 12 52 98;
  D2 12 52 98; D2 12 52 98; D2 12 52 98; D2 12 52 98; D2 12 52 98; D2 12 52 98; D2 12 52 98; D2 12 52 98; D2 12 52 98;
  D2 12 52 98; D2 12 52 100; D2 12 52 100; D2 12 52 100; D2 12 52 100; D2 12 52 100; D2 12 52 100; D2 12 52 100;
  D2 12 52 100; D2 12 52 100; D2 12 52 100; D2 12 52 100; D2 12 52 100; D2 12 52 100; D2 12 52 100; D2 12 52 100;
  D2 12 52 100; D2 12 52 102; D2 12 52 102; D2 12 52 102; D2 12 52 102; D2 12 52 102; D2 12 52 102; D2 12 52 102;
  D2 12 52 102; D2 12 52 102; D2 12 52 102; D2 12 52 102; D2 12 52 102; D2 12 52 102; D2 12 52 102; D2 12 52 102;
  D2 12 52 102; D2 12 52 103; D2 12 52 103; D2 12 52 103; D2 12 52 103; D2 12 52 103; D2 12 52 103; D2 12 52 103;
  D2 12 52 103; D2 12 52 103; D2 12 52 103; D2 12 52 103; D2 12 52 103; D2 12 52 103; D2 12 52 103; D2 12 52 103;
  D2 12 52 103; D2 12 52 104; D2 12 52 104; D2 12 52 104; D2 12 52 104; D2 12 52 104; D2 12 52 104; D2 12 52 104;
  D2 12 52 104; D2 12 52 104; D2 12 52 104; D2 12 52 104; D2 12 52 104; D2 12 52 104; D2 12 52 104; D2 12 52 104;
  D2 12 52 104; D2 12 52 108; D2 12 52 108; D2 12 52 108; D2 12 52 108; D2 12 52 108; D2 12 52 108; D2 12 52 108;
  D2 12 52 108; D2 12 52 108; D2 12 52 108; D2 12 52 108; D2 12 52 108; D2 12 52 108; D2 12 52 108; D2 12 52 108;
  D2 12 52 108; D2 12 52 109; D2 12 52 109; D2 12 52 109; D2 12 52 109; D2 12 52 109; D2 12 52 109; D2 12 52 109;
  D2 12 52 109; D2 12 52 109; D2 12 52 109; D2 12 52 109; D2 12 52 109; D2 12 52 109; D2 12 52 109; D2 12 52 109;
  D2 12 52 109; D2 12 52 110; D2 12 52 110; D2 12 52 110; D2 12 52 110; D2 12 52 110; D2 12 52 110; D2 12 52 110;
  D2 12 52 110; D2 12 52 110; D2 12 52 110; D2 12 52 110; D2 12 52 110; D2 12 52 110; D2 12 52 110; D2 12 52 110;
  D2 12 52 110; D2 12 52 112; D2 12 52 112; D2 12 52 112; D2 12 52 112; D2 12 52 112; D2 12 52 112; D2 12 52 112;
  D2 12 52 112; D2 12 52 112; D2 12 52 112; D2 12 52 112; D2 12 52 112; D2 12 52 112; D2 12 52 112; D2 12 52 112;
  D2 12 52 112; D2 12 52 114; D2 12 52 114; D2 12 52 114; D2 12 52 114; D2 12 52 114; D2 12 52 114; D2 12 52 114;
  D2 12 52 114; D2 12 52 114; D2 12 52 114; D2 12 52 114; D2 12 52 114; D2 12 52 114; D2 12 52 114; D2 12 52 114;
  D2 12 52 114; D2 12 52 117; D2 12 52 117; D2 12 52 117; D2 12 52 117; D2 12 52 117; D2 12 52 117; D2 12 52 117;
  D2 12 52 117; D2 12 52 117; D2 12 52 117; D2 12 52 117; D2 12 52 117; D2 12 52 117; D2 12 52 117; D2 12 52 117;
  D2 12 52 117; D2 13 52 58; D2 13 52 58; D2 13 52 58; D2 13 52 58; D2 13 52 58; D2 13 52 58; D2 13 52 58;
  D2 13 52 58; D2 13 52 66; D2 13 52 66; D2 13 52 66; D2 13 52 66; D2 13 52 66; D2 13 52 66; D2 13 52 66; D2 13 52 66;
  D2 13 52 67; D2 13 52 67; D2 13 52 67; D2 13 52 67; D2 13 52 67; D2 13 52 67; D2 13 52 67; D2 13 52 67; D2 13 52 68;
  D2 13 52 68; D2 13 52 68; D2 13 52 68; D2 13 52 68; D2 13 52 68; D2 13 52 68; D2 13 52 68].
Definition hdecs_107 : list hdec := [
  D2 13 52 69; D2 13 52 69; D2 13 52 69; D2 13 52 69; D2 13 52 69; D2 13 52 69; D2 13 52 69; D2 13 52 69; D2 13 52 70;
  D2 13 52 70; D2 13 52 70; D2 13 52 70; D2 13 52 70; D2 13 52 70; D2 13 52 70; D2 13 52 70; D2 13 52 71; D2 13 52 71;
  D2 13 52 71; D2 13 52 71; D2 13 52 71; D2 13 52 71; D2 13 52 71; D2 13 52 71; D2 13 52 72; D2 13 52 72; D2 13 52 72;
  D2 13 52 72; D2 13 52 72; D2 13 52 72; D2 13 52 72; D2 13 52 72; D2 13 52 73; D2 13 52 73; D2 13 52 73; D2 13 52 73;
  D2 13 52 73; D2 13 52 73; D2 13 52 73; D2 13 52 73; D2 13 52 74; D2 13 52 74; D2 13 52 74; D2 13 52 74; D2 13 52 74;
  D2 13 52 74; D2 13 52 74; D2 13 52 74; D2 13 52 75; D2 13 52 75; D2 13 52 75; D2 13 52 75; D2 13 52 75; D2 13 52 75;
  D2 13 52 75; D2 13 52 75; D2 13 52 76; D2 13 52 76; D2 13 52 76; D2 13 52 76; D2 13 52 76; D2 13 52 76; D2 13 52 76;
  D2 13 52 76; D2 13 52 77; D2 13 52 77; D2 13 52 77; D2 13 52 77; D2 13 52 77; D2 13 52 77; D2 13 52 77; D2 13 52 77;
  D2 13 52 78; D2 13 52 78; D2 13 52 78; D2 13 52 78; D2 13 52 78; D2 13 52 78; D2 13 52 78; D2 13 52 78; D2 13 52 79;
  D2 13 52 79; D2 13 52 79; D2 13 52 79; D2 13 52 79; D2 13 52 79; D2 13 52 79; D2 13 52 79; D2 13 52 80; D2 13 52 80;
  D2 13 52 80; D2 13 52 80; D2 13 52 80; D2 13 52 80; D2 13 52 80; D2 13 52 80; D2 13 52 81; D2 13 52 81; D2 13 52 81;
  D2 13 52 81; D2 13 52 81; D2 13 52 81; D2 13 52 81; D2 13 52 81; D2 13 52 82; D2 13 52 82; D2 13 52 82; D2 13 52 82;
  D2 13 52 82; D2 13 52 82; D2 13 52 82; D2 13 52 82; D2 13 52 83; D2 13 52 83; D2 13 52 83; D2 13 52 83; D2 13 52 83;
  D2 13 52 83; D2 13 52 83; D2 13 52 83; D2 13 52 84; D2 13 52 84; D2 13 52 84; D2 13 52 84; D2 13 52 84; D2 13 52 84;
  D2 13 52 84; D2 13 52 84; D2 13 52 85; D2 13 52 85; D2 13 52 85; D2 13 52 85; D2 13 52 85; D2 13 52 85; D2 13 52 85;
  D2 13 52 85; D2 13 52 86; D2 13 52 86; D2 13 52 86; D2 13 52 86; D2 13 52 86; D2 13 52 86; D2 13 52 86; D2 13 52 86;
  D2 13 52 87; D2 13 52 87; D2 13 52 87; D2 13 52 87; D2 13 52 87; D2 13 52 87; D2 13 52 87; D2 13 52 87; D2 13 52 89;
  D2 13 52 89; D2 13 52 89; D2 13 52 89; D2 13 52 89; D2 13 52 89; D2 13 52 89; D2 13 52 89; D2 13 52 106;
  D2 13 52 106; D2 13 52 106; D2 13 52 106; D2 13 52 106; D2 13 52 106; D2 13 52 106; D2 13 52 106; D2 13 52 107;
  D2 13 52 107; D2 13 52 107; D2 13 52 107; D2 13 52 107; D2 13 52 107; D2 13 52 107; D2 13 52 107; D2 13 52 113;
  D2 13 52 113; D2 13 52 113; D2 13 52 113; D2 13 52 113; D2 13 52 113; D2 13 52 113; D2 13 52 113; D2 13 52 118;
  D2 13 52 118; D2 13 52 118; D2 13 52 118; D2 13 52 118; D2 13 52 118; D2 13 52 118; D2 13 52 118; D2 13 52 119;
  D2 13 52 119; D2 13 52 119; D2 13 52 119; D2 13 52 119; D2 13 52 119; D2 13 52 119; D2 13 52 119; D2 13 52 120;
  D2 13 52 120; D2 13 52 120; D2 13 52 120; D2 13 52 120; D2 13 52 120; D2 13 52 120; D2 13 52 120; D2 13 52 121;
  D2 13 52 121; D2 13 52 121; D2 13 52 121; D2 13 52 121; D2 13 52 121; D2 13 52 121; D2 13 52 121; D2 13 52 122;
  D2 13 52 122; D2 13 52 122; D2 13 52 122; D2 13 52 122; D2 13 52 122; D2 13 52 122; D2 13 52 122; D2 14 52 38;
  D2 14 52 38; D2 14 52 38; D2 14 52 38; D2 14 52 42; D2 14 52 42; D2 14 52 42; D2 14 52 42; D2 14 52 44; D2 14 52 44;
  D2 14 52 44; D2 14 52 44; D2 14 52 59; D2 14 52 59; D2 14 52 59; D2 14 52 59; D2 14 52 88; D2 14 52 88; D2 14 52 88;
  D2 14 52 88; D2 14 52 90; D2 14 52 90; D2 14 52 90; D2 14 52 90; D2 16 52 33; D2 16 52 34; D2 16 52 40; D2 16 52 41;
  D2 16 52 63; D1 6 52; D1 6 52; D1 6 52].
Definition hdecs_108 : list hdec := [
  D3 16 53 48 48; D3 16 53 48 49; D3 16 53 48 50; D3 16 53 48 97; D3 16 53 48 99; D3 16 53 48 101; D3 16 53 48 105;
  D3 16 53 48 111; D3 16 53 48 115; D3 16 53 48 116; D2 11 53 48; D2 11 53 48; D2 11 53 48; D2 11 53 48; D2 11 53 48;
  D2 11 53 48; D2 11 53 48; D2 11 53 48; D2 11 53 48; D2 11 53 48; D2 11 53 48; D2 11 53 48; D2 11 53 48; D2 11 53 48;
  D2 11 53 48; D2 11 53 48; D2 11 53 48; D2 11 53 48; D2 11 53 48; D2 11 53 48; D2 11 53 48; D2 11 53 48;
  D3 16 53 49 48; D3 16 53 49 49; D3 16 53 49 50; D3 16 53 49 97; D3 16 53 49 99; D3 16 53 49 101; D3 16 53 49 105;
  D3 16 53 49 111; D3 16 53 49 115; D3 16 53 49 116; D2 11 53 49; D2 11 53 49; D2 11 53 49; D2 11 53 49; D2 11 53 49;
  D2 11 53 49; D2 11 53 49; D2 11 53 49; D2 11 53 49; D2 11 53 49; D2 11 53 49; D2 11 53 49; D2 11 53 49; D2 11 53 49;
  D2 11 53 49; D2 11 53 49; D2 11 53 49; D2 11 53 49; D2 11 53 49; D2 11 53 49; D2 11 53 49; D2 11 53 49;
  D3 16 53 50 48; D3 16 53 50 49; D3 16 53 50 50; D3 16 53 50 97; D3 16 53 50 99; D3 16 53 50 101; D3 16 53 50 105;
  D3 16 53 50 111; D3 16 53 50 115; D3 16 53 50 116; D2 11 53 50; D2 11 53 50; D2 11 53 50; D2 11 53 50; D2 11 53 50;
  D2 11 53 50; D2 11 53 50; D2 11 53 50; D2 11 53 50; D2 11 53 50; D2 11 53 50; D2 11 53 50; D2 11 53 50; D2 11 53 50;
  D2 11 53 50; D2 11 53 50; D2 11 53 50; D2 11 53 50; D2 11 53 50; D2 11 53 50; D2 11 53 50; D2 11 53 50;
  D3 16 53 97 48; D3 16 53 97 49; D3 16 53 97 50; D3 16 53 97 97; D3 16 53 97 99; D3 16 53 97 101; D3 16 53 97 105;
  D3 16 53 97 111; D3 16 53 97 115; D3 16 53 97 116; D2 11 53 97; D2 11 53 97; D2 11 53 97; D2 11 53 97; D2 11 53 97;
  D2 11 53 97; D2 11 53 97; D2 11 53 97; D2 11 53 97; D2 11 53 97; D2 11 53 97; D2 11 53 97; D2 11 53 97; D2 11 53 97;
  D2 11 53 97; D2 11 53 97; D2 11 53 97; D2 11 53 97; D2 11 53 97; D2 11 53 97; D2 11 53 97; D2 11 53 97;
  D3 16 53 99 48; D3 16 53 99 49; D3 16 53 99 50; D3 16 53 99 97; D3 16 53 99 99; D3 16 53 99 101; D3 16 53 99 105;
  D3 16 53 99 111; D3 16 53 99 115; D3 16 53 99 116; D2 11 53 99; D2 11 53 99; D2 11 53 99; D2 11 53 99; D2 11 53 99;
  D2 11 53 99; D2 11 53 99; D2 11 53 99; D2 11 53 99; D2 11 53 99; D2 11 53 99; D2 11 53 99; D2 11 53 99; D2 11 53 99;
  D2 11 53 99; D2 11 53 99; D2 11 53 99; D2 11 53 99; D2 11 53 99; D2 11 53 99; D2 11 53 99; D2 11 53 99;
  D3 16 53 101 48; D3 16 53 101 49; D3 16 53 101 50; D3 16 53 101 97; D3 16 53 101 99; D3 16 53 101 101;
  D3 16 53 101 105; D3 16 53 101 111; D3 16 53 101 115; D3 16 53 101 116; D2 11 53 101; D2 11 53 101; D2 11 53 101;
  D2 11 53 101; D2 11 53 101; D2 11 53 101; D2 11 53 101; D2 11 53 101; D2 11 53 101; D2 11 53 101; D2 11 53 101;
  D2 11 53 101; D2 11 53 101; D2 11 53 101; D2 11 53 101; D2 11 53 101; D2 11 53 101; D2 11 53 101; D2 11 53 101;
  D2 11 53 101; D2 11 53 101; D2 11 53 101; D3 16 53 105 48; D3 16 53 105 49; D3 16 53 105 50; D3 16 53 105 97;
  D3 16 53 105 99; D3 16 53 105 101; D3 16 53 105 105; D3 16 53 105 111; D3 16 53 105 115; D3 16 53 105 116;
  D2 11 53 105; D2 11 53 105; D2 11 53 105; D2 11 53 105; D2 11 53 105; D2 11 53 105; D2 11 53 105; D2 11 53 105;
  D2 11 53 105; D2 11 53 105; D2 11 53 105; D2 11 53 105; D2 11 53 105; D2 11 53 105; D2 11 53 105; D2 11 53 105;
  D2 11 53 105; D2 11 53 105; D2 11 53 105; D2 11 53 105; D2 11 53 105; D2 11 53 105; D3 16 53 111 48;
  D3 16 53 111 49; D3 16 53 111 50; D3 16 53 111 97; D3 16 53 111 99; D3 16 53 111 101; D3 16 53 111 105;
  D3 16 53 111 111; D3 16 53 111 115; D3 16 53 111 116; D2 11 53 111; D2 11 53 111; D2 11 53 111; D2 11 53 111;
  D2 11 53 111; D2 11 53 111; D2 11 53 111; D2 11 53 111; D2 11 53 111; D2 11 53 111; D2 11 53 111; D2 11 53 111;
  D2 11 53 111; D2 11 53 111; D2 11 53 111; D2 11 53 111; D2 11 53 111; D2 11 53 111; D2 11 53 111; D2 11 53 111;
  D2 11 53 111; D2 11 53 111].
Definition hdecs_109 : list hdec := [
  D3 16 53 115 48; D3 16 53 115 49; D3 16 53 115 50; D3 16 53 115 97; D3 16 53 115 99; D3 16 53 115 101;
  D3 16 53 115 105; D3 16 53 115 111; D3 16 53 115 115; D3 16 53 115 116; D2 11 53 115; D2 11 53 115; D2 11 53 115;
  D2 11 53 115; D2 11 53 115; D2 11 53 115; D2 11 53 115; D2 11 53 115; D2 11 53 115; D2 11 53 115; D2 11 53 115;
  D2 11 53 115; D2 11 53 115; D2 11 53 115; D2 11 53 115; D2 11 53 115; D2 11 53 115; D2 11 53 115; D2 11 53 115;
  D2 11 53 115; D2 11 53 115; D2 11 53 115; D3 16 53 116 48; D3 16 53 116 49; D3 16 53 116 50; D3 16 53 116 97;
  D3 16 53 116 99; D3 16 53 116 101; D3 16 53 116 105; D3 16 53 116 111; D3 16 53 116 115; D3 16 53 116 116;
  D2 11 53 116; D2 11 53 116; D2 11 53 116; D2 11 53 116; D2 11 53 116; D2 11 53 116; D2 11 53 116; D2 11 53 116;
  D2 11 53 116; D2 11 53 116; D2 11 53 116; D2 11 53 116; D2 11 53 116; D2 11 53 116; D2 11 53 116; D2 11 53 116;
  D2 11 53 116; D2 11 53 116; D2 11 53 116; D2 11 53 116; D2 11 53 116; D2 11 53 116; D2 12 53 32; D2 12 53 32;
  D2 12 53 32; D2 12 53 32; D2 12 53 32; D2 12 53 32; D2 12 53 32; D2 12 53 32; D2 12 53 32; D2 12 53 32; D2 12 53 32;
  D2 12 53 32; D2 12 53 32; D2 12 53 32; D2 12 53 32; D2 12 53 32; D2 12 53 37; D2 12 53 37; D2 12 53 37; D2 12 53 37;
  D2 12 53 37; D2 12 53 37; D2 12 53 37; D2 12 53 37; D2 12 53 37; D2 12 53 37; D2 12 53 37; D2 12 53 37; D2 12 53 37;
  D2 12 53 37; D2 12 53 37; D2 12 53 37; D2 12 53 45; D2 12 53 45; D2 12 53 45; D2 12 53 45; D2 12 53 45; D2 12 53 45;
  D2 12 53 45; D2 12 53 45; D2 12 53 45; D2 12 53 45; D2 12 53 45; D2 12 53 45; D2 12 53 45; D2 12 53 45; D2 12 53 45;
  D2 12 53 45; D2 12 53 46; D2 12 53 46; D2 12 53 46; D2 12 53 46; D2 12 53 46; D2 12 53 46; D2 12 53 46; D2 12 53 46;
  D2 12 53 46; D2 12 53 46; D2 12 53 46; D2 12 53 46; D2 12 53 46; D2 12 53 46; D2 12 53 46; D2 12 53 46; D2 12 53 47;
  D2 12 53 47; D2 12 53 47; D2 12 53 47; D2 12 53 47; D2 12 53 47; D2 12 53 47; D2 12 53 47; D2 12 53 47; D2 12 53 47;
  D2 12 53 47; D2 12 53 47; D2 12 53 47; D2 12 53 47; D2 12 53 47; D2 12 53 47; D2 12 53 51; D2 12 53 51; D2 12 53 51;
  D2 12 53 51; D2 12 53 51; D2 12 53 51; D2 12 53 51; D2 12 53 51; D2 12 53 51; D2 12 53 51; D2 12 53 51; D2 12 53 51;
  D2 12 53 51; D2 12 53 51; D2 12 53 51; D2 12 53 51; D2 12 53 52; D2 12 53 52; D2 12 53 52; D2 12 53 52; D2 12 53 52;
  D2 12 53 52; D2 12 53 52; D2 12 53 52; D2 12 53 52; D2 12 53 52; D2 12 53 52; D2 12 53 52; D2 12 53 52; D2 12 53 52;
  D2 12 53 52; D2 12 53 52; D2 12 53 53; D2 12 53 53; D2 12 53 53; D2 12 53 53; D2 12 53 53; D2 12 53 53; D2 12 53 53;
  D2 12 53 53; D2 12 53 53; D2 12 53 53; D2 12 53 53; D2 12 53 53; D2 12 53 53; D2 12 53 53; D2 12 53 53; D2 12 53 53;
  D2 12 53 54; D2 12 53 54; D2 12 53 54; D2 12 53 54; D2 12 53 54; D2 12 53 54; D2 12 53 54; D2 12 53 54; D2 12 53 54;
  D2 12 53 54; D2 12 53 54; D2 12 53 54; D2 12 53 54; D2 12 53 54; D2 12 53 54; D2 12 53 54; D2 12 53 55; D2 12 53 55;
  D2 12 53 55; D2 12 53 55; D2 12 53 55; D2 12 53 55; D2 12 53 55; D2 12 53 55; D2 12 53 55; D2 12 53 55; D2 12 53 55;
  D2 12 53 55; D2 12 53 55; D2 12 53 55; D2 12 53 55; D2 12 53 55; D2 12 53 56; D2 12 53 56; D2 12 53 56; D2 12 53 56;
  D2 12 53 56; D2 12 53 56; D2 12 53 56; D2 12 53 56; D2 12 53 56; D2 12 53 56; D2 12 53 56; D2 12 53 56; D2 12 53 56;
  D2 12 53 56; D2 12 53 56; D2 12 53 56; D2 12 53 57; D2 12 53 57; D2 12 53 57; D2 12 53 57; D2 12 53 57; D2 12 53 57;
  D2 12 53 57; D2 12 53 57; D2 12 53 57; D2 12 53 57; D2 12 53 57; D2 12 53 57; D2 12 53 57; D2 12 53 57; D2 12 53 57;
  D2 12 53 57].
Definition hdecs_110 : list hdec := [
  D2 12 53 61; D2 12 53 61; D2 12 53 61; D2 12 53 61; D2 12 53 61; D2 12 53 61; D2 12 53 61; D2 12 53 61; D2 12 53 61;
  D2 12 53 61; D2 12 53 61; D2 12 53 61; D2 12 53 61; D2 12 53 61; D2 12 53 61; D2 12 53 61; D2 12 53 65; D2 12 53 65;
  D2 12 53 65; D2 12 53 65; D2 12 53 65; D2 12 53 65; D2 12 53 65; D2 12 53 65; D2 12 53 65; D2 12 53 65; D2 12 53 65;
  D2 12 53 65; D2 12 53 65; D2 12 53 65; D2 12 53 65; D2 12 53 65; D2 12 53 95; D2 12 53 95; D2 12 53 95; D2 12 53 95;
  D2 12 53 95; D2 12 53 95; D2 12 53 95; D2 12 53 95; D2 12 53 95; D2 12 53 95; D2 12 53 95; D2 12 53 95; D2 12 53 95;
  D2 12 53 95; D2 12 53 95; D2 12 53 95; D2 12 53 98; D2 12 53 98; D2 12 53 98; D2 12 53 98; D2 12 53 98; D2 12 53 98;
  D2 12 53 98; D2 12 53 98; D2 12 53 98; D2 12 53 98; D2 12 53 98; D2 12 53 98; D2 12 53 98; D2 12 53 98; D2 12 53 98;
  D2 12 53 98; D2 12 53 100; D2 12 53 100; D2 12 53 100; D2 12 53 100; D2 12 53 100; D2 12 53 100; D2 12 53 100;
  D2 12 53 100; D2 12 53 100; D2 12 53 100; D2 12 53 100; D2 12 53 100; D2 12 53 100; D2 12 53 100; D2 12 53 100;
  D2 12 53 100; D2 12 53 102; D2 12 53 102; D2 12 53 102; D2 12 53 102; D2 12 53 102; D2 12 53 102; D2 12 53 102;
  D2 12 53 102; D2 12 53 102; D2 12 53 102; D2 12 53 102; D2 12 53 102; D2 12 53 102; D2 12 53 102; D2 12 53 102;
  D2 12 53 102; D2 12 53 103; D2 12 53 103; D2 12 53 103; D2 12 53 103; D2 12 53 103; D2 12 53 103; D2 12 53 103;
  D2 12 53 103; D2 12 53 103; D2 12 53 103; D2 12 53 103; D2 12 53 103; D2 12 53 103; D2 12 53 103; D2 12 53 103;
  D2 12 53 103; D2 12 53 104; D2 12 53 104; D2 12 53 104; D2 12 53 104; D2 12 53 104; D2 12 53 104; D2 12 53 104;
  D2 12 53 104; D2 12 53 104; D2 12 53 104; D2 12 53 104; D2 12 53 104; D2 12 53 104; D2 12 53 104; D2 12 53 104;
  D2 12 53 104; D2 12 53 108; D2 12 53 108; D2 12 53 108; D2 12 53 108; D2 12 53 108; D2 12 53 108; D2 12 53 108;
  D2 12 53 108; D2 12 53 108; D2 12 53 108; D2 12 53 108; D2 12 53 108; D2 12 53 108; D2 12 53 108; D2 12 53 108;
  D2 12 53 108; D2 12 53 109; D2 12 53 109; D2 12 53 109; D2 12 53 109; D2 12 53 109; D2 12 53 109; D2 12 53 109;
  D2 12 53 109; D2 12 53 109; D2 12 53 109; D2 12 53 109; D2 12 53 109; D2 12 53 109; D2 12 53 109; D2 12 53 109;
  D2 12 53 109; D2 12 53 110; D2 12 53 110; D2 12 53 110; D2 12 53 110; D2 12 53 110; D2 12 53 110; D2 12 53 110;
  D2 12 53 110; D2 12 53 110; D2 12 53 110; D2 12 53 110; D2 12 53 110; D2 12 53 110; D2 12 53 110; D2 12 53 110;
  D2 12 53 110; D2 12 53 112; D2 12 53 112; D2 12 53 112; D2 12 53 112; D2 12 53 112; D2 12 53 112; D2 12 53 112;
  D2 12 53 112; D2 12 53 112; D2 12 53 112; D2 12 53 112; D2 12 53 112; D2 12 53 112; D2 12 53 112; D2 12 53 112;
  D2 12 53 112; D2 12 53 114; D2 12 53 114; D2 12 53 114; D2 12 53 114; D2 12 53 114; D2 12 53 114; D2 12 53 114;
  D2 12 53 114; D2 12 53 114; D2 12 53 114; D2 12 53 114; D2 12 53 114; D2 12 53 114; D2 12 53 114; D2 12 53 114;
  D2 12 53 114; D2 12 53 117; D2 12 53 117; D2 12 53 117; D2 12 53 117; D2 12 53 117; D2 12 53 117; D2 12 53 117;
  D2 12 53 117; D2 12 53 117; D2 12 53 117; D2 12 53 117; D2 12 53 117; D2 12 53 117; D2 12 53 117; D2 12 53 117;
  D2 12 53 117; D2 13 53 58; D2 13 53 58; D2 13 53 58; D2 13 53 58; D2 13 53 58; D2 13 53 58; D2 13 53 58;
  D2 13 53 58; D2 13 53 66; D2 13 53 66; D2 13 53 66; D2 13 53 66; D2 13 53 66; D2 13 53 66; D2 13 53 66; D2 13 53 66;
  D2 13 53 67; D2 13 53 67; D2 13 53 67; D2 13 53 67; D2 13 53 67; D2 13 53 67; D2 13 53 67; D2 13 53 67; D2 13 53 68;
  D2 13 53 68; D2 13 53 68; D2 13 53 68; D2 13 53 68; D2 13 53 68; D2 13 53 68; D2 13 53 68].
Definition hdecs_111 : list hdec := [
  D2 13 53 69; D2 13 53 69; D2 13 53 69; D2 13 53 69; D2 13 53 69; D2 13 53 69; D2 13 53 69; D2 13 53 69; D2 13 53 70;
  D2 13 53 70; D2 13 53 70; D2 13 53 70; D2 13 53 70; D2 13 53 70; D2 13 53 70; D2 13 53 70; D2 13 53 71; D2 13 53 71;
  D2 13 53 71; D2 13 53 71; D2 13 53 71; D2 13 53 71; D2 13 53 71; D2 13 53 71; D2 13 53 72; D2 13 53 72; D2 13 53 72;
  D2 13 53 72; D2 13 53 72; D2 13 53 72; D2 13 53 72; D2 13 53 72; D2 13 53 73; D2 13 53 73; D2 13 53 73; D2 13 53 73;
  D2 13 53 73; D2 13 53 73; D2 13 53 73; D2 13 53 73; D2 13 53 74; D2 13 53 74; D2 13 53 74; D2 13 53 74; D2 13 53 74;
  D2 13 53 74; D2 13 53 74; D2 13 53 74; D2 13 53 75; D2 13 53 75; D2 13 53 75; D2 13 53 75; D2 13 53 75; D2 13 53 75;
  D2 13 53 75; D2 13 53 75; D2 13 53 76; D2 13 53 76; D2 13 53 76; D2 13 53 76; D2 13 53 76; D2 13 53 76; D2 13 53 76;
  D2 13 53 76; D2 13 53 77; D2 13 53 77; D2 13 53 77; D2 13 53 77; D2 13 53 77; D2 13 53 77; D2 13 53 77; D2 13 53 77;
  D2 13 53 78; D2 13 53 78; D2 13 53 78; D2 13 53 78; D2 13 53 78; D2 13 53 78; D2 13 53 78; D2 13 53 78; D2 13 53 79;
  D2 13 53 79; D2 13 53 79; D2 13 53 79; D2 13 53 79; D2 13 53 79; D2 13 53 79; D2 13 53 79; D2 13 53 80; D2 13 53 80;
  D2 13 53 80; D2 13 53 80; D2 13 53 80; D2 13 53 80; D2 13 53 80; D2 13 53 80; D2 13 53 81; D2 13 53 81; D2 13 53 81;
  D2 13 53 81; D2 13 53 81; D2 13 53 81; D2 13 53 81; D2 13 53 81; D2 13 53 82; D2 13 53 82; D2 13 53 82; D2 13 53 82;
  D2 13 53 82; D2 13 53 82; D2 13 53 82; D2 13 53 82; D2 13 53 83; D2 13 53 83; D2 13 53 83; D2 13 53 83; D2 13 53 83;
  D2 13 53 83; D2 13 53 83; D2 13 53 83; D2 13 53 84; D2 13 53 84; D2 13 53 84; D2 13 53 84; D2 13 53 84; D2 13 53 84;
  D2 13 53 84; D2 13 53 84; D2 13 53 85; D2 13 53 85; D2 13 53 85; D2 13 53 85; D2 13 53 85; D2 13 53 85; D2 13 53 85;
  D2 13 53 85; D2 13 53 86; D2 13 53 86; D2 13 53 86; D2 13 53 86; D2 13 53 86; D2 13 53 86; D2 13 53 86; D2 13 53 86;
  D2 13 53 87; D2 13 53 87; D2 13 53 87; D2 13 53 87; D2 13 53 87; D2 13 53 87; D2 13 53 87; D2 13 53 87; D2 13 53 89;
  D2 13 53 89; D2 13 53 89; D2 13 53 89; D2 13 53 89; D2 13 53 89; D2 13 53 89; D2 13 53 89; D2 13 53 106;
  D2 13 53 106; D2 13 53 106; D2 13 53 106; D2 13 53 106; D2 13 53 106; D2 13 53 106; D2 13 53 106; D2 13 53 107;
  D2 13 53 107; D2 13 53 107; D2 13 53 107; D2 13 53 107; D2 13 53 107; D2 13 53 107; D2 13 53 107; D2 13 53 113;
  D2 13 53 113; D2 13 53 113; D2 13 53 113; D2 13 53 113; D2 13 53 113; D2 13 53 113; D2 13 53 113; D2 13 53 118;
  D2 13 53 118; D2 13 53 118; D2 13 53 118; D2 13 53 118; D2 13 53 118; D2 13 53 118; D2 13 53 118; D2 13 53 119;
  D2 13 53 119; D2 13 53 119; D2 13 53 119; D2 13 53 119; D2 13 53 119; D2 13 53 119; D2 13 53 119; D2 13 53 120;
  D2 13 53 120; D2 13 53 120; D2 13 53 120; D2 13 53 120; D2 13 53 120; D2 13 53 120; D2 13 53 120; D2 13 53 121;
  D2 13 53 121; D2 13 53 121; D2 13 53 121; D2 13 53 121; D2 13 53 121; D2 13 53 121; D2 13 53 121; D2 13 53 122;
  D2 13 53 122; D2 13 53 122; D2 13 53 122; D2 13 53 122; D2 13 53 122; D2 13 53 122; D2 13 53 122; D2 14 53 38;
  D2 14 53 38; D2 14 53 38; D2 14 53 38; D2 14 53 42; D2 14 53 42; D2 14 53 42; D2 14 53 42; D2 14 53 44; D2 14 53 44;
  D2 14 53 44; D2 14 53 44; D2 14 53 59; D2 14 53 59; D2 14 53 59; D2 14 53 59; D2 14 53 88; D2 14 53 88; D2 14 53 88;
  D2 14 53 88; D2 14 53 90; D2 14 53 90; D2 14 53 90; D2 14 53 90; D2 16 53 33; D2 16 53 34; D2 16 53 40; D2 16 53 41;
  D2 16 53 63; D1 6 53; D1 6 53; D1 6 53].
Definition hdecs_112 : list hdec := [
  D3 16 54 48 48; D3 16 54 48 49; D3 16 54 48 50; D3 16 54 48 97; D3 16 54 48 99; D3 16 54 48 101; D3 16 54 48 105;
  D3 16 54 48 111; D3 16 54 48 115; D3 16 54 48 116; D2 11 54 48; D2 11 54 48; D2 11 54 48; D2 11 54 48; D2 11 54 48;
  D2 11 54 48; D2 11 54 48; D2 11 54 48; D2 11 54 48; D2 11 54 48; D2 11 54 48; D2 11 54 48; D2 11 54 48; D2 11 54 48;
  D2 11 54 48; D2 11 54 48; D2 11 54 48; D2 11 54 48; D2 11 54 48; D2 11 54 48; D2 11 54 48; D2 11 54 48;
  D3 16 54 49 48; D3 16 54 49 49; D3 16 54 49 50; D3 16 54 49 97; D3 16 54 49 99; D3 16 54 49 101; D3 16 54 49 105;
  D3 16 54 49 111; D3 16 54 49 115; D3 16 54 49 116; D2 11 54 49; D2 11 54 49; D2 11 54 49; D2 11 54 49; D2 11 54 49;
  D2 11 54 49; D2 11 54 49; D2 11 54 49; D2 11 54 49; D2 11 54 49; D2 11 54 49; D2 11 54 49; D2 11 54 49; D2 11 54 49;
  D2 11 54 49; D2 11 54 49; D2 11 54 49; D2 11 54 49; D2 11 54 49; D2 11 54 49; D2 11 54 49; D2 11 54 49;
  D3 16 54 50 48; D3 16 54 50 49; D3 16 54 50 50; D3 16 54 50 97; D3 16 54 50 99; D3 16 54 50 101; D3 16 54 50 105;
  D3 16 54 50 111; D3 16 54 50 115; D3 16 54 50 116; D2 11 54 50; D2 11 54 50; D2 11 54 50; D2 11 54 50; D2 11 54 50;
  D2 11 54 50; D2 11 54 50; D2 11 54 50; D2 11 54 50; D2 11 54 50; D2 11 54 50; D2 11 54 50; D2 11 54 50; D2 11 54 50;
  D2 11 54 50; D2 11 54 50; D2 11 54 50; D2 11 54 50; D2 11 54 50; D2 11 54 50; D2 11 54 50; D2 11 54 50;
  D3 16 54 97 48; D3 16 54 97 49; D3 16 54 97 50; D3 16 54 97 97; D3 16 54 97 99; D3 16 54 97 101; D3 16 54 97 105;
  D3 16 54 97 111; D3 16 54 97 115; D3 16 54 97 116; D2 11 54 97; D2 11 54 97; D2 11 54 97; D2 11 54 97; D2 11 54 97;
  D2 11 54 97; D2 11 54 97; D2 11 54 97; D2 11 54 97; D2 11 54 97; D2 11 54 97; D2 11 54 97; D2 11 54 97; D2 11 54 97;
  D2 11 54 97; D2 11 54 97; D2 11 54 97; D2 11 54 97; D2 11 54 97; D2 11 54 97; D2 11 54 97; D2 11 54 97;
  D3 16 54 99 48; D3 16 54 99 49; D3 16 54 99 50; D3 16 54 99 97; D3 16 54 99 99; D3 16 54 99 101; D3 16 54 99 105;
  D3 16 54 99 111; D3 16 54 99 115; D3 16 54 99 116; D2 11 54 99; D2 11 54 99; D2 11 54 99; D2 11 54 99; D2 11 54 99;
  D2 11 54 99; D2 11 54 99; D2 11 54 99; D2 11 54 99; D2 11 54 99; D2 11 54 99; D2 11 54 99; D2 11 54 99; D2 11 54 99;
  D2 11 54 99; D2 11 54 99; D2 11 54 99; D2 11 54 99; D2 11 54 99; D2 11 54 99; D2 11 54 99; D2 11 54 99;
  D3 16 54 101 48; D3 16 54 101 49; D3 16 54 101 50; D3 16 54 101 97; D3 16 54 101 99; D3 16 54 101 101;
  D3 16 54 101 105; D3 16 54 101 111; D3 16 54 101 115; D3 16 54 101 116; D2 11 54 101; D2 11 54 101; D2 11 54 101;
  D2 11 54 101; D2 11 54 101; D2 11 54 101; D2 11 54 101; D2 11 54 101; D2 11 54 101; D2 11 54 101; D2 11 54 101;
  D2 11 54 101; D2 11 54 101; D2 11 54 101; D2 11 54 101; D2 11 54 101; D2 11 54 101; D2 11 54 101; D2 11 54 101;
  D2 11 54 101; D2 11 54 101; D2 11 54 101; D3 16 54 105 48; D3 16 54 105 49; D3 16 54 105 50; D3 16 54 105 97;
  D3 16 54 105 99; D3 16 54 105 101; D3 16 54 105 105; D3 16 54 105 111; D3 16 54 105 115; D3 16 54 105 116;
  D2 11 54 105; D2 11 54 105; D2 11 54 105; D2 11 54 105; D2 11 54 105; D2 11 54 105; D2 11 54 105; D2 11 54 105;
  D2 11 54 105; D2 11 54 105; D2 11 54 105; D2 11 54 105; D2 11 54 105; D2 11 54 105; D2 11 54 105; D2 11 54 105;
  D2 11 54 105; D2 11 54 105; D2 11 54 105; D2 11 54 105; D2 11 54 105; D2 11 54 105; D3 16 54 111 48;
  D3 16 54 111 49; D3 16 54 111 50; D3 16 54 111 97; D3 16 54 111 99; D3 16 54 111 101; D3 16 54 111 105;
  D3 16 54 111 111; D3 16 54 111 115; D3 16 54 111 116; D2 11 54 111; D2 11 54 111; D2 11 54 111; D2 11 54 111;
  D2 11 54 111; D2 11 54 111; D2 11 54 111; D2 11 54 111; D2 11 54 111; D2 11 54 111; D2 11 54 111; D2 11 54 111;
  D2 11 54 111; D2 11 54 111; D2 11 54 111; D2 11 54 111; D2 11 54 111; D2 11 54 111; D2 11 54 111; D2 11 54 111;
  D2 11 54 111; D2 11 54 111].
Definition hdecs_113 : list hdec := [
  D3 16 54 115 48; D3 16 54 115 49; D3 16 54 115 50; D3 16 54 115 97; D3 16 54 115 99; D3 16 54 115 101;
  D3 16 54 115 105; D3 16 54 115 111; D3 16 54 115 115; D3 16 54 115 116; D2 11 54 115; D2 11 54 115; D2 11 54 115;
  D2 11 54 115; D2 11 54 115; D2 11 54 115; D2 11 54 115; D2 11 54 115; D2 11 54 115; D2 11 54 115; D2 11 54 115;
  D2 11 54 115; D2 11 54 115; D2 11 54 115; D2 11 54 115; D2 11 54 115; D2 11 54 115; D2 11 54 115; D2 11 54 115;
  D2 11 54 115; D2 11 54 115; D2 11 54 115; D3 16 54 116 48; D3 16 54 116 49; D3 16 54 116 50; D3 16 54 116 97;
  D3 16 54 116 99; D3 16 54 116 101; D3 16 54 116 105; D3 16 54 116 111; D3 16 54 116 115; D3 16 54 116 116;
  D2 11 54 116; D2 11 54 116; D2 11 54 116; D2 11 54 116; D2 11 54 116; D2 11 54 116; D2 11 54 116; D2 11 54 116;
  D2 11 54 116; D2 11 54 116; D2 11 54 116; D2 11 54 116; D2 11 54 116; D2 11 54 116; D2 11 54 116; D2 11 54 116;
  D2 11 54 116; D2 11 54 116; D2 11 54 116; D2 11 54 116; D2 11 54 116; D2 11 54 116; D2 12 54 32; D2 12 54 32;
  D2 12 54 32; D2 12 54 32; D2 12 54 32; D2 12 54 32; D2 12 54 32; D2 12 54 32; D2 12 54 32; D2 12 54 32; D2 12 54 32;
  D2 12 54 32; D2 12 54 32; D2 12 54 32; D2 12 54 32; D2 12 54 32; D2 12 54 37; D2 12 54 37; D2 12 54 37; D2 12 54 37;
  D2 12 54 37; D2 12 54 37; D2 12 54 37; D2 12 54 37; D2 12 54 37; D2 12 54 37; D2 12 54 37; D2 12 54 37; D2 12 54 37;
  D2 12 54 37; D2 12 54 37; D2 12 54 37; D2 12 54 45; D2 12 54 45; D2 12 54 45; D2 12 54 45; D2 12 54 45; D2 12 54 45;
  D2 12 54 45; D2 12 54 45; D2 12 54 45; D2 12 54 45; D2 12 54 45; D2 12 54 45; D2 12 54 45; D2 12 54 45; D2 12 54 45;
  D2 12 54 45; D2 12 54 46; D2 12 54 46; D2 12 54 46; D2 12 54 46; D2 12 54 46; D2 12 54 46; D2 12 54 46; D2 12 54 46;
  D2 12 54 46; D2 12 54 46; D2 12 54 46; D2 12 54 46; D2 12 54 46; D2 12 54 46; D2 12 54 46; D2 12 54 46; D2 12 54 47;
  D2 12 54 47; D2 12 54 47; D2 12 54 47; D2 12 54 47; D2 12 54 47; D2 12 54 47; D2 12 54 47; D2 12 54 47; D2 12 54 47;
  D2 12 54 47; D2 12 54 47; D2 12 54 47; D2 12 54 47; D2 12 54 47; D2 12 54 47; D2 12 54 51; D2 12 54 51; D2 12 54 51;
  D2 12 54 51; D2 12 54 51; D2 12 54 51; D2 12 54 51; D2 12 54 51; D2 12 54 51; D2 12 54 51; D2 12 54 51; D2 12 54 51;
  D2 12 54 51; D2 12 54 51; D2 12 54 51; D2 12 54 51; D2 12 54 52; D2 12 54 52; D2 12 54 52; D2 12 54 52; D2 12 54 52;
  D2 12 54 52; D2 12 54 52; D2 12 54 52; D2 12 54 52; D2 12 54 52; D2 12 54 52; D2 12 54 52; D2 12 54 52; D2 12 54 52;
  D2 12 54 52; D2 12 54 52; D2 12 54 53; D2 12 54 53; D2 12 54 53; D2 12 54 53; D2 12 54 53; D2 12 54 53; D2 12 54 53;
  D2 12 54 53; D2 12 54 53; D2 12 54 53; D2 12 54 53; D2 12 54 53; D2 12 54 53; D2 12 54 53; D2 12 54 53; D2 12 54 53;
  D2 12 54 54; D2 12 54 54; D2 12 54 54; D2 12 54 54; D2 12 54 54; D2 12 54 54; D2 12 54 54; D2 12 54 54; D2 12 54 54;
  D2 12 54 54; D2 12 54 54; D2 12 54 54; D2 12 54 54; D2 12 54 54; D2 12 54 54; D2 12 54 54; D2 12 54 55; D2 12 54 55;
  D2 12 54 55; D2 12 54 55; D2 12 54 55; D2 12 54 55; D2 12 54 55; D2 12 54 55; D2 12 54 55; D2 12 54 55; D2 12 54 55;
  D2 12 54 55; D2 12 54 55; D2 12 54 55; D2 12 54 55; D2 12 54 55; D2 12 54 56; D2 12 54 56; D2 12 54 56; D2 12 54 56;
  D2 12 54 56; D2 12 54 56; D2 12 54 56; D2 12 54 56; D2 12 54 56; D2 12 54 56; D2 12 54 56; D2 12 54 56; D2 12 54 56;
  D2 12 54 56; D2 12 54 56; D2 12 54 56; D2 12 54 57; D2 12 54 57; D2 12 54 57; D2 12 54 57; D2 12 54 57; D2 12 54 57;
  D2 12 54 57; D2 12 54 57; D2 12 54 57; D2 12 54 57; D2 12 54 57; D2 12 54 57; D2 12 54 57; D2 12 54 57; D2 12 54 57;
  D2 12 54 57].
Definition hdecs_114 : list hdec := [
  D2 12 54 61; D2 12 54 61; D2 12 54 61; D2 12 54 61; D2 12 54 61; D2 12 54 61; D2 12 54 61; D2 12 54 61; D2 12 54 61;
  D2 12 54 61; D2 12 54 61; D2 12 54 61; D2 12 54 61; D2 12 54 61; D2 12 54 61; D2 12 54 61; D2 12 54 65; D2 12 54 65;
  D2 12 54 65; D2 12 54 65; D2 12 54 65; D2 12 54 65; D2 12 54 65; D2 12 54 65; D2 12 54 65; D2 12 54 65; D2 12 54 65;
  D2 12 54 65; D2 12 54 65; D2 12 54 65; D2 12 54 65; D2 12 54 65; D2 12 54 95; D2 12 54 95; D2 12 54 95; D2 12 54 95;
  D2 12 54 95; D2 12 54 95; D2 12 54 95; D2 12 54 95; D2 12 54 95; D2 12 54 95; D2 12 54 95; D2 12 54 95; D2 12 54 95;
  D2 12 54 95; D2 12 54 95; D2 12 54 95; D2 12 54 98; D2 12 54 98; D2 12 54 98; D2 12 54 98; D2 12 54 98; D2 12 54 98;
  D2 12 54 98; D2 12 54 98; D2 12 54 98; D2 12 54 98; D2 12 54 98; D2 12 54 98; D2 12 54 98; D2 12 54 98; D2 12 54 98;
  D2 12 54 98; D2 12 54 100; D2 12 54 100; D2 12 54 100; D2 12 54 100; D2 12 54 100; D2 12 54 100; D2 12 54 100;
  D2 12 54 100; D2 12 54 100; D2 12 54 100; D2 12 54 100; D2 12 54 100; D2 12 54 100; D2 12 54 100; D2 12 54 100;
  D2 12 54 100; D2 12 54 102; D2 12 54 102; D2 12 54 102; D2 12 54 102; D2 12 54 102; D2 12 54 102; D2 12 54 102;
  D2 12 54 102; D2 12 54 102; D2 12 54 102; D2 12 54 102; D2 12 54 102; D2 12 54 102; D2 12 54 102; D2 12 54 102;
  D2 12 54 102; D2 12 54 103; D2 12 54 103; D2 12 54 103; D2 12 54 103; D2 12 54 103; D2 12 54 103; D2 12 54 103;
  D2 12 54 103; D2 12 54 103; D2 12 54 103; D2 12 54 103; D2 12 54 103; D2 12 54 103; D2 12 54 103; D2 12 54 103;
  D2 12 54 103; D2 12 54 104; D2 12 54 104; D2 12 54 104; D2 12 54 104; D2 12 54 104; D2 12 54 104; D2 12 54 104;
  D2 12 54 104; D2 12 54 104; D2 12 54 104; D2 12 54 104; D2 12 54 104; D2 12 54 104; D2 12 54 104; D2 12 54 104;
  D2 12 54 104; D2 12 54 108; D2 12 54 108; D2 12 54 108; D2 12 54 108; D2 12 54 108; D2 12 54 108; D2 12 54 108;
  D2 12 54 108; D2 12 54 108; D2 12 54 108; D2 12 54 108; D2 12 54 108; D2 12 54 108; D2 12 54 108; D2 12 54 108;
  D2 12 54 108; D2 12 54 109; D2 12 54 109; D2 12 54 109; D2 12 54 109; D2 12 54 109; D2 12 54 109; D2 12 54 109;
  D2 12 54 109; D2 12 54 109; D2 12 54 109; D2 12 54 109; D2 12 54 109; D2 12 54 109; D2 12 54 109; D2 12 54 109;
  D2 12 54 109; D2 12 54 110; D2 12 54 110; D2 12 54 110; D2 12 54 110; D2 12 54 110; D2 12 54 110; D2 12 54 110;
  D2 12 54 110; D2 12 54 110; D2 12 54 110; D2 12 54 110; D2 12 54 110; D2 12 54 110; D2 12 54 110; D2 12 54 110;
  D2 12 54 110; D2 12 54 112; D2 12 54 112; D2 12 54 112; D2 12 54 112; D2 12 54 112; D2 12 54 112; D2 12 54 112;
  D2 12 54 112; D2 12 54 112; D2 12 54 112; D2 12 54 112; D2 12 54 112; D2 12 54 112; D2 12 54 112; D2 12 54 112;
  D2 12 54 112; D2 12 54 114; D2 12 54 114; D2 12 54 114; D2 12 54 114; D2 12 54 114; D2 12 54 114; D2 12 54 114;
  D2 12 54 114; D2 12 54 114; D2 12 54 114; D2 12 54 114; D2 12 54 114; D2 12 54 114; D2 12 54 114; D2 12 54 114;
  D2 12 54 114; D2 12 54 117; D2 12 54 117; D2 12 54 117; D2 12 54 117; D2 12 54 117; D2 12 54 117; D2 12 54 117;
  D2 12 54 117; D2 12 54 117; D2 12 54 117; D2 12 54 117; D2 12 54 117; D2 12 54 117; D2 12 54 117; D2 12 54 117;
  D2 12 54 117; D2 13 54 58; D2 13 54 58; D2 13 54 58; D2 13 54 58; D2 13 54 58; D2 13 54 58; D2 13 54 58;
  D2 13 54 58; D2 13 54 66; D2 13 54 66; D2 13 54 66; D2 13 54 66; D2 13 54 66; D2 13 54 66; D2 13 54 66; D2 13 54 66;
  D2 13 54 67; D2 13 54 67; D2 13 54 67; D2 13 54 67; D2 13 54 67; D2 13 54 67; D2 13 54 67; D2 13 54 67; D2 13 54 68;
  D2 13 54 68; D2 13 54 68; D2 13 54 68; D2 13 54 68; D2 13 54 68; D2 13 54 68; D2 13 54 68].
Definition hdecs_115 : list hdec := [
  D2 13 54 69; D2 13 54 69; D2 13 54 69; D2 13 54 69; D2 13 54 69; D2 13 54 69; D2 13 54 69; D2 13 54 69; D2 13 54 70;
  D2 13 54 70; D2 13 54 70; D2 13 54 70; D2 13 54 70; D2 13 54 70; D2 13 54 70; D2 13 54 70; D2 13 54 71; D2 13 54 71;
  D2 13 54 71; D2 13 54 71; D2 13 54 71; D2 13 54 71; D2 13 54 71; D2 13 54 71; D2 13 54 72; D2 13 54 72; D2 13 54 72;
  D2 13 54 72; D2 13 54 72; D2 13 54 72; D2 13 54 72; D2 13 54 72; D2 13 54 73; D2 13 54 73; D2 13 54 73; D2 13 54 73;
  D2 13 54 73; D2 13 54 73; D2 13 54 73; D2 13 54 73; D2 13 54 74; D2 13 54 74; D2 13 54 74; D2 13 54 74; D2 13 54 74;
  D2 13 54 74; D2 13 54 74; D2 13 54 74; D2 13 54 75; D2 13 54 75; D2 13 54 75; D2 13 54 75; D2 13 54 75; D2 13 54 75;
  D2 13 54 75; D2 13 54 75; D2 13 54 76; D2 13 54 76; D2 13 54 76; D2 13 54 76; D2 13 54 76; D2 13 54 76; D2 13 54 76;
  D2 13 54 76; D2 13 54 77; D2 13 54 77; D2 13 54 77; D2 13 54 77; D2 13 54 77; D2 13 54 77; D2 13 54 77; D2 13 54 77;
  D2 13 54 78; D2 13 54 78; D2 13 54 78; D2 13 54 78; D2 13 54 78; D2 13 54 78; D2 13 54 78; D2 13 54 78; D2 13 54 79;
  D2 13 54 79; D2 13 54 79; D2 13 54 79; D2 13 54 79; D2 13 54 79; D2 13 54 79; D2 13 54 79; D2 13 54 80; D2 13 54 80;
  D2 13 54 80; D2 13 54 80; D2 13 54 80; D2 13 54 80; D2 13 54 80; D2 13 54 80; D2 13 54 81; D2 13 54 81; D2 13 54 81;
  D2 13 54 81; D2 13 54 81; D2 13 54 81; D2 13 54 81; D2 13 54 81; D2 13 54 82; D2 13 54 82; D2 13 54 82; D2 13 54 82;
  D2 13 54 82; D2 13 54 82; D2 13 54 82; D2 13 54 82; D2 13 54 83; D2 13 54 83; D2 13 54 83; D2 13 54 83; D2 13 54 83;
  D2 13 54 83; D2 13 54 83; D2 13 54 83; D2 13 54 84; D2 13 54 84; D2 13 54 84; D2 13 54 84; D2 13 54 84; D2 13 54 84;
  D2 13 54 84; D2 13 54 84; D2 13 54 85; D2 13 54 85; D2 13 54 85; D2 13 54 85; D2 13 54 85; D2 13 54 85; D2 13 54 85;
  D2 13 54 85; D2 13 54 86; D2 13 54 86; D2 13 54 86; D2 13 54 86; D2 13 54 86; D2 13 54 86; D2 13 54 86; D2 13 54 86;
  D2 13 54 87; D2 13 54 87; D2 13 54 87; D2 13 54 87; D2 13 54 87; D2 13 54 87; D2 13 54 87; D2 13 54 87; D2 13 54 89;
  D2 13 54 89; D2 13 54 89; D2 13 54 89; D2 13 54 89; D2 13 54 89; D2 13 54 89; D2 13 54 89; D2 13 54 106;
  D2 13 54 106; D2 13 54 106; D2 13 54 106; D2 13 54 106; D2 13 54 106; D2 13 54 106; D2 13 54 106; D2 13 54 107;
  D2 13 54 107; D2 13 54 107; D2 13 54 107; D2 13 54 107; D2 13 54 107; D2 13 54 107; D2 13 54 107; D2 13 54 113;
  D2 13 54 113; D2 13 54 113; D2 13 54 113; D2 13 54 113; D2 13 54 113; D2 13 54 113; D2 13 54 113; D2 13 54 118;
  D2 13 54 118; D2 13 54 118; D2 13 54 118; D2 13 54 118; D2 13 54 118; D2 13 54 118; D2 13 54 118; D2 13 54 119;
  D2 13 54 119; D2 13 54 119; D2 13 54 119; D2 13 54 119; D2 13 54 119; D2 13 54 119; D2 13 54 119; D2 13 54 120;
  D2 13 54 120; D2 13 54 120; D2 13 54 120; D2 13 54 120; D2 13 54 120; D2 13 54 120; D2 13 54 120; D2 13 54 121;
  D2 13 54 121; D2 13 54 121; D2 13 54 121; D2 13 54 121; D2 13 54 121; D2 13 54 121; D2 13 54 121; D2 13 54 122;
  D2 13 54 122; D2 13 54 122; D2 13 54 122; D2 13 54 122; D2 13 54 122; D2 13 54 122; D2 13 54 122; D2 14 54 38;
  D2 14 54 38; D2 14 54 38; D2 14 54 38; D2 14 54 42; D2 14 54 42; D2 14 54 42; D2 14 54 42; D2 14 54 44; D2 14 54 44;
  D2 14 54 44; D2 14 54 44; D2 14 54 59; D2 14 54 59; D2 14 54 59; D2 14 54 59; D2 14 54 88; D2 14 54 88; D2 14 54 88;
  D2 14 54 88; D2 14 54 90; D2 14 54 90; D2 14 54 90; D2 14 54 90; D2 16 54 33; D2 16 54 34; D2 16 54 40; D2 16 54 41;
  D2 16 54 63; D1 6 54; D1 6 54; D1 6 54].
Definition hdecs_116 : list hdec := [
  D3 16 55 48 48; D3 16 55 48 49; D3 16 55 48 50; D3 16 55 48 97; D3 16 55 48 99; D3 16 55 48 101; D3 16 55 48 105;
  D3 16 55 48 111; D3 16 55 48 115; D3 16 55 48 116; D2 11 55 48; D2 11 55 48; D2 11 55 48; D2 11 55 48; D2 11 55 48;
  D2 11 55 48; D2 11 55 48; D2 11 55 48; D2 11 55 48; D2 11 55 48; D2 11 55 48; D2 11 55 48; D2 11 55 48; D2 11 55 48;
  D2 11 55 48; D2 11 55 48; D2 11 55 48; D2 11 55 48; D2 11 55 48; D2 11 55 48; D2 11 55 48; D2 11 55 48;
  D3 16 55 49 48; D3 16 55 49 49; D3 16 55 49 50; D3 16 55 49 97; D3 16 55 49 99; D3 16 55 49 101; D3 16 55 49 105;
  D3 16 55 49 111; D3 16 55 49 115; D3 16 55 49 116; D2 11 55 49; D2 11 55 49; D2 11 55 49; D2 11 55 49; D2 11 55 49;
  D2 11 55 49; D2 11 55 49; D2 11 55 49; D2 11 55 49; D2 11 55 49; D2 11 55 49; D2 11 55 49; D2 11 55 49; D2 11 55 49;
  D2 11 55 49; D2 11 55 49; D2 11 55 49; D2 11 55 49; D2 11 55 49; D2 11 55 49; D2 11 55 49; D2 11 55 49;
  D3 16 55 50 48; D3 16 55 50 49; D3 16 55 50 50; D3 16 55 50 97; D3 16 55 50 99; D3 16 55 50 101; D3 16 55 50 105;
  D3 16 55 50 111; D3 16 55 50 115; D3 16 55 50 116; D2 11 55 50; D2 11 55 50; D2 11 55 50; D2 11 55 50; D2 11 55 50;
  D2 11 55 50; D2 11 55 50; D2 11 55 50; D2 11 55 50; D2 11 55 50; D2 11 55 50; D2 11 55 50; D2 11 55 50; D2 11 55 50;
  D2 11 55 50; D2 11 55 50; D2 11 55 50; D2 11 55 50; D2 11 55 50; D2 11 55 50; D2 11 55 50; D2 11 55 50;
  D3 16 55 97 48; D3 16 55 97 49; D3 16 55 97 50; D3 16 55 97 97; D3 16 55 97 99; D3 16 55 97 101; D3 16 55 97 105;
  D3 16 55 97 111; D3 16 55 97 115; D3 16 55 97 116; D2 11 55 97; D2 11 55 97; D2 11 55 97; D2 11 55 97; D2 11 55 97;
  D2 11 55 97; D2 11 55 97; D2 11 55 97; D2 11 55 97; D2 11 55 97; D2 11 55 97; D2 11 55 97; D2 11 55 97; D2 11 55 97;
  D2 11 55 97; D2 11 55 97; D2 11 55 97; D2 11 55 97; D2 11 55 97; D2 11 55 97; D2 11 55 97; D2 11 55 97;
  D3 16 55 99 48; D3 16 55 99 49; D3 16 55 99 50; D3 16 55 99 97; D3 16 55 99 99; D3 16 55 99 101; D3 16 55 99 105;
  D3 16 55 99 111; D3 16 55 99 115; D3 16 55 99 116; D2 11 55 99; D2 11 55 99; D2 11 55 99; D2 11 55 99; D2 11 55 99;
  D2 11 55 99; D2 11 55 99; D2 11 55 99; D2 11 55 99; D2 11 55 99; D2 11 55 99; D2 11 55 99; D2 11 55 99; D2 11 55 99;
  D2 11 55 99; D2 11 55 99; D2 11 55 99; D2 11 55 99; D2 11 55 99; D2 11 55 99; D2 11 55 99; D2 11 55 99;
  D3 16 55 101 48; D3 16 55 101 49; D3 16 55 101 50; D3 16 55 101 97; D3 16 55 101 99; D3 16 55 101 101;
  D3 16 55 101 105; D3 16 55 101 111; D3 16 55 101 115; D3 16 55 101 116; D2 11 55 101; D2 11 55 101; D2 11 55 101;
  D2 11 55 101; D2 11 55 101; D2 11 55 101; D2 11 55 101; D2 11 55 101; D2 11 55 101; D2 11 55 101; D2 11 55 101;
  D2 11 55 101; D2 11 55 101; D2 11 55 101; D2 11 55 101; D2 11 55 101; D2 11 55 101; D2 11 55 101; D2 11 55 101;
  D2 11 55 101; D2 11 55 101; D2 11 55 101; D3 16 55 105 48; D3 16 55 105 49; D3 16 55 105 50; D3 16 55 105 97;
  D3 16 55 105 99; D3 16 55 105 101; D3 16 55 105 105; D3 16 55 105 111; D3 16 55 105 115; D3 16 55 105 116;
  D2 11 55 105; D2 11 55 105; D2 11 55 105; D2 11 55 105; D2 11 55 105; D2 11 55 105; D2 11 55 105; D2 11 55 105;
  D2 11 55 105; D2 11 55 105; D2 11 55 105; D2 11 55 105; D2 11 55 105; D2 11 55 105; D2 11 55 105; D2 11 55 105;
  D2 11 55 105; D2 11 55 105; D2 11 55 105; D2 11 55 105; D2 11 55 105; D2 11 55 105; D3 16 55 111 48;
  D3 16 55 111 49; D3 16 55 111 50; D3 16 55 111 97; D3 16 55 111 99; D3 16 55 111 101; D3 16 55 111 105;
  D3 16 55 111 111; D3 16 55 111 115; D3 16 55 111 116; D2 11 55 111; D2 11 55 111; D2 11 55 111; D2 11 55 111;
  D2 11 55 111; D2 11 55 111; D2 11 55 111; D2 11 55 111; D2 11 55 111; D2 11 55 111; D2 11 55 111; D2 11 55 111;
  D2 11 55 111; D2 11 55 111; D2 11 55 111; D2 11 55 111; D2 11 55 111; D2 11 55 111; D2 11 55 111; D2 11 55 111;
  D2 11 55 111; D2 11 55 111].
Definition hdecs_117 : list hdec := [
  D3 16 55 115 48; D3 16 55 115 49; D3 16 55 115 50; D3 16 55 115 97; D3 16 55 115 99; D3 16 55 115 101;
  D3 16 55 115 105; D3 16 55 115 111; D3 16 55 115 115; D3 16 55 115 116; D2 11 55 115; D2 11 55 115; D2 11 55 115;
  D2 11 55 115; D2 11 55 115; D2 11 55 115; D2 11 55 115; D2 11 55 115; D2 11 55 115; D2 11 55 115; D2 11 55 115;
  D2 11 55 115; D2 11 55 115; D2 11 55 115; D2 11 55 115; D2 11 55 115; D2 11 55 115; D2 11 55 115; D2 11 55 115;
  D2 11 55 115; D2 11 55 115; D2 11 55 115; D3 16 55 116 48; D3 16 55 116 49; D3 16 55 116 50; D3 16 55 116 97;
  D3 16 55 116 99; D3 16 55 116 101; D3 16 55 116 105; D3 16 55 116 111; D3 16 55 116 115; D3 16 55 116 116;
  D2 11 55 116; D2 11 55 116; D2 11 55 116; D2 11 55 116; D2 11 55 116; D2 11 55 116; D2 11 55 116; D2 11 55 116;
  D2 11 55 116; D2 11 55 116; D2 11 55 116; D2 11 55 116; D2 11 55 116; D2 11 55 116; D2 11 55 116; D2 11 55 116;
  D2 11 55 116; D2 11 55 116; D2 11 55 116; D2 11 55 116; D2 11 55 116; D2 11 55 116; D2 12 55 32; D2 12 55 32;
  D2 12 55 32; D2 12 55 32; D2 12 55 32; D2 12 55 32; D2 12 55 32; D2 12 55 32; D2 12 55 32; D2 12 55 32; D2 12 55 32;
  D2 12 55 32; D2 12 55 32; D2 12 55 32; D2 12 55 32; D2 12 55 32; D2 12 55 37; D2 12 55 37; D2 12 55 37; D2 12 55 37;
  D2 12 55 37; D2 12 55 37; D2 12 55 37; D2 12 55 37; D2 12 55 37; D2 12 55 37; D2 12 55 37; D2 12 55 37; D2 12 55 37;
  D2 12 55 37; D2 12 55 37; D2 12 55 37; D2 12 55 45; D2 12 55 45; D2 12 55 45; D2 12 55 45; D2 12 55 45; D2 12 55 45;
  D2 12 55 45; D2 12 55 45; D2 12 55 45; D2 12 55 45; D2 12 55 45; D2 12 55 45; D2 12 55 45; D2 12 55 45; D2 12 55 45;
  D2 12 55 45; D2 12 55 46; D2 12 55 46; D2 12 55 46; D2 12 55 46; D2 12 55 46; D2 12 55 46; D2 12 55 46; D2 12 55 46;
  D2 12 55 46; D2 12 55 46; D2 12 55 46; D2 12 55 46; D2 12 55 46; D2 12 55 46; D2 12 55 46; D2 12 55 46; D2 12 55 47;
  D2 12 55 47; D2 12 55 47; D2 12 55 47; D2 12 55 47; D2 12 55 47; D2 12 55 47; D2 12 55 47; D2 12 55 47; D2 12 55 47;
  D2 12 55 47; D2 12 55 47; D2 12 55 47; D2 12 55 47; D2 12 55 47; D2 12 55 47; D2 12 55 51; D2 12 55 51; D2 12 55 51;
  D2 12 55 51; D2 12 55 51; D2 12 55 51; D2 12 55 51; D2 12 55 51; D2 12 55 51; D2 12 55 51; D2 12 55 51; D2 12 55 51;
  D2 12 55 51; D2 12 55 51; D2 12 55 51; D2 12 55 51; D2 12 55 52; D2 12 55 52; D2 12 55 52; D2 12 55 52; D2 12 55 52;
  D2 12 55 52; D2 12 55 52; D2 12 55 52; D2 12 55 52; D2 12 55 52; D2 12 55 52; D2 12 55 52; D2 12 55 52; D2 12 55 52;
  D2 12 55 52; D2 12 55 52; D2 12 55 53; D2 12 55 53; D2 12 55 53; D2 12 55 53; D2 12 55 53; D2 12 55 53; D2 12 55 53;
  D2 12 55 53; D2 12 55 53; D2 12 55 53; D2 12 55 53; D2 12 55 53; D2 12 55 53; D2 12 55 53; D2 12 55 53; D2 12 55 53;
  D2 12 55 54; D2 12 55 54; D2 12 55 54; D2 12 55 54; D2 12 55 54; D2 12 55 54; D2 12 55 54; D2 12 55 54; D2 12 55 54;
  D2 12 55 54; D2 12 55 54; D2 12 55 54; D2 12 55 54; D2 12 55 54; D2 12 55 54; D2 12 55 54; D2 12 55 55; D2 12 55 55;
  D2 12 55 55; D2 12 55 55; D2 12 55 55; D2 12 55 55; D2 12 55 55; D2 12 55 55; D2 12 55 55; D2 12 55 55; D2 12 55 55;
  D2 12 55 55; D2 12 55 55; D2 12 55 55; D2 12 55 55; D2 12 55 55; D2 12 55 56; D2 12 55 56; D2 12 55 56; D2 12 55 56;
  D2 12 55 56; D2 12 55 56; D2 12 55 56; D2 12 55 56; D2 12 55 56; D2 12 55 56; D2 12 55 56; D2 12 55 56; D2 12 55 56;
  D2 12 55 56; D2 12 55 56; D2 12 55 56; D2 12 55 57; D2 12 55 57; D2 12 55 57; D2 12 55 57; D2 12 55 57; D2 12 55 57;
  D2 12 55 57; D2 12 55 57; D2 12 55 57; D2 12 55 57; D2 12 55 57; D2 12 55 57; D2 12 55 57; D2 12 55 57; D2 12 55 57;
  D2 12 55 57].
Definition hdecs_118 : list hdec := [
  D2 12 55 61; D2 12 55 61; D2 12 55 61; D2 12 55 61; D2 12 55 61; D2 12 55 61; D2 12 55 61; D2 12 55 61; D2 12 55 61;
  D2 12 55 61; D2 12 55 61; D2 12 55 61; D2 12 55 61; D2 12 55 61; D2 12 55 61; D2 12 55 61; D2 12 55 65; D2 12 55 65;
  D2 12 55 65; D2 12 55 65; D2 12 55 65; D2 12 55 65; D2 12 55 65; D2 12 55 65; D2 12 55 65; D2 12 55 65; D2 12 55 65;
  D2 12 55 65; D2 12 55 65; D2 12 55 65; D2 12 55 65; D2 12 55 65; D2 12 55 95; D2 12 55 95; D2 12 55 95; D2 12 55 95;
  D2 12 55 95; D2 12 55 95; D2 12 55 95; D2 12 55 95; D2 12 55 95; D2 12 55 95; D2 12 55 95; D2 12 55 95; D2 12 55 95;
  D2 12 55 95; D2 12 55 95; D2 12 55 95; D2 12 55 98; D2 12 55 98; D2 12 55 98; D2 12 55 98; D2 12 55 98; D2 12 55 98;
  D2 12 55 98; D2 12 55 98; D2 12 55 98; D2 12 55 98; D2 12 55 98; D2 12 55 98; D2 12 55 98; D2 12 55 98; D2 12 55 98;
  D2 12 55 98; D2 12 55 100; D2 12 55 100; D2 12 55 100; D2 12 55 100; D2 12 55 100; D2 12 55 100; D2 12 55 100;
  D2 12 55 100; D2 12 55 100; D2 12 55 100; D2 12 55 100; D2 12 55 100; D2 12 55 100; D2 12 55 100; D2 12 55 100;
  D2 12 55 100; D2 12 55 102; D2 12 55 102; D2 12 55 102; D2 12 55 102; D2 12 55 102; D2 12 55 102; D2 12 55 102;
  D2 12 55 102; D2 12 55 102; D2 12 55 102; D2 12 55 102; D2 12 55 102; D2 12 55 102; D2 12 55 102; D2 12 55 102;
  D2 12 55 102; D2 12 55 103; D2 12 55 103; D2 12 55 103; D2 12 55 103; D2 12 55 103; D2 12 55 103; D2 12 55 103;
  D2 12 55 103; D2 12 55 103; D2 12 55 103; D2 12 55 103; D2 12 55 103; D2 12 55 103; D2 12 55 103; D2 12 55 103;
  D2 12 55 103; D2 12 55 104; D2 12 55 104; D2 12 55 104; D2 12 55 104; D2 12 55 104; D2 12 55 104; D2 12 55 104;
  D2 12 55 104; D2 12 55 104; D2 12 55 104; D2 12 55 104; D2 12 55 104; D2 12 55 104; D2 12 55 104; D2 12 55 104;
  D2 12 55 104; D2 12 55 108; D2 12 55 108; D2 12 55 108; D2 12 55 108; D2 12 55 108; D2 12 55 108; D2 12 55 108;
  D2 12 55 108; D2 12 55 108; D2 12 55 108; D2 12 55 108; D2 12 55 108; D2 12 55 108; D2 12 55 108; D2 12 55 108;
  D2 12 55 108; D2 12 55 109; D2 12 55 109; D2 12 55 109; D2 12 55 109; D2 12 55 109; D2 12 55 109; D2 12 55 109;
  D2 12 55 109; D2 12 55 109; D2 12 55 109; D2 12 55 109; D2 12 55 109; D2 12 55 109; D2 12 55 109; D2 12 55 109;
  D2 12 55 109; D2 12 55 110; D2 12 55 110; D2 12 55 110; D2 12 55 110; D2 12 55 110; D2 12 55 110; D2 12 55 110;
  D2 12 55 110; D2 12 55 110; D2 12 55 110; D2 12 55 110; D2 12 55 110; D2 12 55 110; D2 12 55 110; D2 12 55 110;
  D2 12 55 110; D2 12 55 112; D2 12 55 112; D2 12 55 112; D2 12 55 112; D2 12 55 112; D2 12 55 112; D2 12 55 112;
  D2 12 55 112; D2 12 55 112; D2 12 55 112; D2 12 55 112; D2 12 55 112; D2 12 55 112; D2 12 55 112; D2 12 55 112;
  D2 12 55 112; D2 12 55 114; D2 12 55 114; D2 12 55 114; D2 12 55 114; D2 12 55 114; D2 12 55 114; D2 12 55 114;
  D2 12 55 114; D2 12 55 114; D2 12 55 114; D2 12 55 114; D2 12 55 114; D2 12 55 114; D2 12 55 114; D2 12 55 114;
  D2 12 55 114; D2 12 55 117; D2 12 55 117; D2 12 55 117; D2 12 55 117; D2 12 55 117; D2 12 55 117; D2 12 55 117;
  D2 12 55 117; D2 12 55 117; D2 12 55 117; D2 12 55 117; D2 12 55 117; D2 12 55 117; D2 12 55 117; D2 12 55 117;
  D2 12 55 117; D2 13 55 58; D2 13 55 58; D2 13 55 58; D2 13 55 58; D2 13 55 58; D2 13 55 58; D2 13 55 58;
  D2 13 55 58; D2 13 55 66; D2 13 55 66; D2 13 55 66; D2 13 55 66; D2 13 55 66; D2 13 55 66; D2 13 55 66; D2 13 55 66;
  D2 13 55 67; D2 13 55 67; D2 13 55 67; D2 13 55 67; D2 13 55 67; D2 13 55 67; D2 13 55 67; D2 13 55 67; D2 13 55 68;
  D2 13 55 68; D2 13 55 68; D2 13 55 68; D2 13 55 68; D2 13 55 68; D2 13 55 68; D2 13 55 68].
Definition hdecs_119 : list hdec := [
  D2 13 55 69; D2 13 55 69; D2 13 55 69; D2 13 55 69; D2 13 55 69; D2 13 55 69; D2 13 55 69; D2 13 55 69; D2 13 55 70;
  D2 13 55 70; D2 13 55 70; D2 13 55 70; D2 13 55 70; D2 13 55 70; D2 13 55 70; D2 13 55 70; D2 13 55 71; D2 13 55 71;
  D2 13 55 71; D2 13 55 71; D2 13 55 71; D2 13 55 71; D2 13 55 71; D2 13 55 71; D2 13 55 72; D2 13 55 72; D2 13 55 72;
  D2 13 55 72; D2 13 55 72; D2 13 55 72; D2 13 55 72; D2 13 55 72; D2 13 55 73; D2 13 55 73; D2 13 55 73; D2 13 55 73;
  D2 13 55 73; D2 13 55 73; D2 13 55 73; D2 13 55 73; D2 13 55 74; D2 13 55 74; D2 13 55 74; D2 13 55 74; D2 13 55 74;
  D2 13 55 74; D2 13 55 74; D2 13 55 74; D2 13 55 75; D2 13 55 75; D2 13 55 75; D2 13 55 75; D2 13 55 75; D2 13 55 75;
  D2 13 55 75; D2 13 55 75; D2 13 55 76; D2 13 55 76; D2 13 55 76; D2 13 55 76; D2 13 55 76; D2 13 55 76; D2 13 55 76;
  D2 13 55 76; D2 13 55 77; D2 13 55 77; D2 13 55 77; D2 13 55 77; D2 13 55 77; D2 13 55 77; D2 13 55 77; D2 13 55 77;
  D2 13 55 78; D2 13 55 78; D2 13 55 78; D2 13 55 78; D2 13 55 78; D2 13 55 78; D2 13 55 78; D2 13 55 78; D2 13 55 79;
  D2 13 55 79; D2 13 55 79; D2 13 55 79; D2 13 55 79; D2 13 55 79; D2 13 55 79; D2 13 55 79; D2 13 55 80; D2 13 55 80;
  D2 13 55 80; D2 13 55 80; D2 13 55 80; D2 13 55 80; D2 13 55 80; D2 13 55 80; D2 13 55 81; D2 13 55 81; D2 13 55 81;
  D2 13 55 81; D2 13 55 81; D2 13 55 81; D2 13 55 81; D2 13 55 81; D2 13 55 82; D2 13 55 82; D2 13 55 82; D2 13 55 82;
  D2 13 55 82; D2 13 55 82; D2 13 55 82; D2 13 55 82; D2 13 55 83; D2 13 55 83; D2 13 55 83; D2 13 55 83; D2 13 55 83;
  D2 13 55 83; D2 13 55 83; D2 13 55 83; D2 13 55 84; D2 13 55 84; D2 13 55 84; D2 13 55 84; D2 13 55 84; D2 13 55 84;
  D2 13 55 84; D2 13 55 84; D2 13 55 85; D2 13 55 85; D2 13 55 85; D2 13 55 85; D2 13 55 85; D2 13 55 85; D2 13 55 85;
  D2 13 55 85; D2 13 55 86; D2 13 55 86; D2 13 55 86; D2 13 55 86; D2 13 55 86; D2 13 55 86; D2 13 55 86; D2 13 55 86;
  D2 13 55 87; D2 13 55 87; D2 13 55 87; D2 13 55 87; D2 13 55 87; D2 13 55 87; D2 13 55 87; D2 13 55 87; D2 13 55 89;
  D2 13 55 89; D2 13 55 89; D2 13 55 89; D2 13 55 89; D2 13 55 89; D2 13 55 89; D2 13 55 89; D2 13 55 106;
  D2 13 55 106; D2 13 55 106; D2 13 55 106; D2 13 55 106; D2 13 55 106; D2 13 55 106; D2 13 55 106; D2 13 55 107;
  D2 13 55 107; D2 13 55 107; D2 13 55 107; D2 13 55 107; D2 13 55 107; D2 13 55 107; D2 13 55 107; D2 13 55 113;
  D2 13 55 113; D2 13 55 113; D2 13 55 113; D2 13 55 113; D2 13 55 113; D2 13 55 113; D2 13 55 113; D2 13 55 118;
  D2 13 55 118; D2 13 55 118; D2 13 55 118; D2 13 55 118; D2 13 55 118; D2 13 55 118; D2 13 55 118; D2 13 55 119;
  D2 13 55 119; D2 13 55 119; D2 13 55 119; D2 13 55 119; D2 13 55 119; D2 13 55 119; D2 13 55 119; D2 13 55 120;
  D2 13 55 120; D2 13 55 120; D2 13 55 120; D2 13 55 120; D2 13 55 120; D2 13 55 120; D2 13 55 120; D2 13 55 121;
  D2 13 55 121; D2 13 55 121; D2 13 55 121; D2 13 55 121; D2 13 55 121; D2 13 55 121; D2 13 55 121; D2 13 55 122;
  D2 13 55 122; D2 13 55 122; D2 13 55 122; D2 13 55 122; D2 13 55 122; D2 13 55 122; D2 13 55 122; D2 14 55 38;
  D2 14 55 38; D2 14 55 38; D2 14 55 38; D2 14 55 42; D2 14 55 42; D2 14 55 42; D2 14 55 42; D2 14 55 44; D2 14 55 44;
  D2 14 55 44; D2 14 55 44; D2 14 55 59; D2 14 55 59; D2 14 55 59; D2 14 55 59; D2 14 55 88; D2 14 55 88; D2 14 55 88;
  D2 14 55 88; D2 14 55 90; D2 14 55 90; D2 14 55 90; D2 14 55 90; D2 16 55 33; D2 16 55 34; D2 16 55 40; D2 16 55 41;
  D2 16 55 63; D1 6 55; D1 6 55; D1 6 55].
Definition hdecs_120 : list hdec := [
  D3 16 56 48 48; D3 16 56 48 49; D3 16 56 48 50; D3 16 56 48 97; D3 16 56 48 99; D3 16 56 48 101; D3 16 56 48 105;
  D3 16 56 48 111; D3 16 56 48 115; D3 16 56 48 116; D2 11 56 48; D2 11 56 48; D2 11 56 48; D2 11 56 48; D2 11 56 48;
  D2 11 56 48; D2 11 56 48; D2 11 56 48; D2 11 56 48; D2 11 56 48; D2 11 56 48; D2 11 56 48; D2 11 56 48; D2 11 56 48;
  D2 11 56 48; D2 11 56 48; D2 11 56 48; D2 11 56 48; D2 11 56 48; D2 11 56 48; D2 11 56 48; D2 11 56 48;
  D3 16 56 49 48; D3 16 56 49 49; D3 16 56 49 50; D3 16 56 49 97; D3 16 56 49 99; D3 16 56 49 101; D3 16 56 49 105;
  D3 16 56 49 111; D3 16 56 49 115; D3 16 56 49 116; D2 11 56 49; D2 11 56 49; D2 11 56 49; D2 11 56 49; D2 11 56 49;
  D2 11 56 49; D2 11 56 49; D2 11 56 49; D2 11 56 49; D2 11 56 49; D2 11 56 49; D2 11 56 49; D2 11 56 49; D2 11 56 49;
  D2 11 56 49; D2 11 56 49; D2 11 56 49; D2 11 56 49; D2 11 56 49; D2 11 56 49; D2 11 56 49; D2 11 56 49;
  D3 16 56 50 48; D3 16 56 50 49; D3 16 56 50 50; D3 16 56 50 97; D3 16 56 50 99; D3 16 56 50 101; D3 16 56 50 105;
  D3 16 56 50 111; D3 16 56 50 115; D3 16 56 50 116; D2 11 56 50; D2 11 56 50; D2 11 56 50; D2 11 56 50; D2 11 56 50;
  D2 11 56 50; D2 11 56 50; D2 11 56 50; D2 11 56 50; D2 11 56 50; D2 11 56 50; D2 11 56 50; D2 11 56 50; D2 11 56 50;
  D2 11 56 50; D2 11 56 50; D2 11 56 50; D2 11 56 50; D2 11 56 50; D2 11 56 50; D2 11 56 50; D2 11 56 50;
  D3 16 56 97 48; D3 16 56 97 49; D3 16 56 97 50; D3 16 56 97 97; D3 16 56 97 99; D3 16 56 97 101; D3 16 56 97 105;
  D3 16 56 97 111; D3 16 56 97 115; D3 16 56 97 116; D2 11 56 97; D2 11 56 97; D2 11 56 97; D2 11 56 97; D2 11 56 97;
  D2 11 56 97; D2 11 56 97; D2 11 56 97; D2 11 56 97; D2 11 56 97; D2 11 56 97; D2 11 56 97; D2 11 56 97; D2 11 56 97;
  D2 11 56 97; D2 11 56 97; D2 11 56 97; D2 11 56 97; D2 11 56 97; D2 11 56 97; D2 11 56 97; D2 11 56 97;
  D3 16 56 99 48; D3 16 56 99 49; D3 16 56 99 50; D3 16 56 99 97; D3 16 56 99 99; D3 16 56 99 101; D3 16 56 99 105;
  D3 16 56 99 111; D3 16 56 99 115; D3 16 56 99 116; D2 11 56 99; D2 11 56 99; D2 11 56 99; D2 11 56 99; D2 11 56 99;
  D2 11 56 99; D2 11 56 99; D2 11 56 99; D2 11 56 99; D2 11 56 99; D2 11 56 99; D2 11 56 99; D2 11 56 99; D2 11 56 99;
  D2 11 56 99; D2 11 56 99; D2 11 56 99; D2 11 56 99; D2 11 56 99; D2 11 56 99; D2 11 56 99; D2 11 56 99;
  D3 16 56 101 48; D3 16 56 101 49; D3 16 56 101 50; D3 16 56 101 97; D3 16 56 101 99; D3 16 56 101 101;
  D3 16 56 101 105; D3 16 56 101 111; D3 16 56 101 115; D3 16 56 101 116; D2 11 56 101; D2 11 56 101; D2 11 56 101;
  D2 11 56 101; D2 11 56 101; D2 11 56 101; D2 11 56 101; D2 11 56 101; D2 11 56 101; D2 11 56 101; D2 11 56 101;
  D2 11 56 101; D2 11 56 101; D2 11 56 101; D2 11 56 101; D2 11 56 101; D2 11 56 101; D2 11 56 101; D2 11 56 101;
  D2 11 56 101; D2 11 56 101; D2 11 56 101; D3 16 56 105 48; D3 16 56 105 49; D3 16 56 105 50; D3 16 56 105 97;
  D3 16 56 105 99; D3 16 56 105 101; D3 16 56 105 105; D3 16 56 105 111; D3 16 56 105 115; D3 16 56 105 116;
  D2 11 56 105; D2 11 56 105; D2 11 56 105; D2 11 56 105; D2 11 56 105; D2 11 56 105; D2 11 56 105; D2 11 56 105;
  D2 11 56 105; D2 11 56 105; D2 11 56 105; D2 11 56 105; D2 11 56 105; D2 11 56 105; D2 11 56 105; D2 11 56 105;
  D2 11 56 105; D2 11 56 105; D2 11 56 105; D2 11 56 105; D2 11 56 105; D2 11 56 105; D3 16 56 111 48;
  D3 16 56 111 49; D3 16 56 111 50; D3 16 56 111 97; D3 16 56 111 99; D3 16 56 111 101; D3 16 56 111 105;
  D3 16 56 111 111; D3 16 56 111 115; D3 16 56 111 116; D2 11 56 111; D2 11 56 111; D2 11 56 111; D2 11 56 111;
  D2 11 56 111; D2 11 56 111; D2 11 56 111; D2 11 56 111; D2 11 56 111; D2 11 56 111; D2 11 56 111; D2 11 56 111;
  D2 11 56 111; D2 11 56 111; D2 11 56 111; D2 11 56 111; D2 11 56 111; D2 11 56 111; D2 11 56 111; D2 11 56 111;
  D2 11 56 111; D2 11 56 111].
Definition hdecs_121 : list hdec := [
  D3 16 56 115 48; D3 16 56 115 49; D3 16 56 115 50; D3 16 56 115 97; D3 16 56 115 99; D3 16 56 115 101;
  D3 16 56 115 105; D3 16 56 115 111; D3 16 56 115 115; D3 16 56 115 116; D2 11 56 115; D2 11 56 115; D2 11 56 115;
  D2 11 56 115; D2 11 56 115; D2 11 56 115; D2 11 56 115; D2 11 56 115; D2 11 56 115; D2 11 56 115; D2 11 56 115;
  D2 11 56 115; D2 11 56 115; D2 11 56 115; D2 11 56 115; D2 11 56 115; D2 11 56 115; D2 11 56 115; D2 11 56 115;
  D2 11 56 115; D2 11 56 115; D2 11 56 115; D3 16 56 116 48; D3 16 56 116 49; D3 16 56 116 50; D3 16 56 116 97;
  D3 16 56 116 99; D3 16 56 116 101; D3 16 56 116 105; D3 16 56 116 111; D3 16 56 116 115; D3 16 56 116 116;
  D2 11 56 116; D2 11 56 116; D2 11 56 116; D2 11 56 116; D2 11 56 116; D2 11 56 116; D2 11 56 116; D2 11 56 116;
  D2 11 56 116; D2 11 56 116; D2 11 56 116; D2 11 56 116; D2 11 56 116; D2 11 56 116; D2 11 56 116; D2 11 56 116;
  D2 11 56 116; D2 11 56 116; D2 11 56 116; D2 11 56 116; D2 11 56 116; D2 11 56 116; D2 12 56 32; D2 12 56 32;
  D2 12 56 32; D2 12 56 32; D2 12 56 32; D2 12 56 32; D2 12 56 32; D2 12 56 32; D2 12 56 32; D2 12 56 32; D2 12 56 32;
  D2 12 56 32; D2 12 56 32; D2 12 56 32; D2 12 56 32; D2 12 56 32; D2 12 56 37; D2 12 56 37; D2 12 56 37; D2 12 56 37;
  D2 12 56 37; D2 12 56 37; D2 12 56 37; D2 12 56 37; D2 12 56 37; D2 12 56 37; D2 12 56 37; D2 12 56 37; D2 12 56 37;
  D2 12 56 37; D2 12 56 37; D2 12 56 37; D2 12 56 45; D2 12 56 45; D2 12 56 45; D2 12 56 45; D2 12 56 45; D2 12 56 45;
  D2 12 56 45; D2 12 56 45; D2 12 56 45; D2 12 56 45; D2 12 56 45; D2 12 56 45; D2 12 56 45; D2 12 56 45; D2 12 56 45;
  D2 12 56 45; D2 12 56 46; D2 12 56 46; D2 12 56 46; D2 12 56 46; D2 12 56 46; D2 12 56 46; D2 12 56 46; D2 12 56 46;
  D2 12 56 46; D2 12 56 46; D2 12 56 46; D2 12 56 46; D2 12 56 46; D2 12 56 46; D2 12 56 46; D2 12 56 46; D2 12 56 47;
  D2 12 56 47; D2 12 56 47; D2 12 56 47; D2 12 56 47; D2 12 56 47; D2 12 56 47; D2 12 56 47; D2 12 56 47; D2 12 56 47;
  D2 12 56 47; D2 12 56 47; D2 12 56 47; D2 12 56 47; D2 12 56 47; D2 12 56 47; D2 12 56 51; D2 12 56 51; D2 12 56 51;
  D2 12 56 51; D2 12 56 51; D2 12 56 51; D2 12 56 51; D2 12 56 51; D2 12 56 51; D2 12 56 51; D2 12 56 51; D2 12 56 51;
  D2 12 56 51; D2 12 56 51; D2 12 56 51; D2 12 56 51; D2 12 56 52; D2 12 56 52; D2 12 56 52; D2 12 56 52; D2 12 56 52;
  D2 12 56 52; D2 12 56 52; D2 12 56 52; D2 12 56 52; D2 12 56 52; D2 12 56 52; D2 12 56 52; D2 12 56 52; D2 12 56 52;
  D2 12 56 52; D2 12 56 52; D2 12 56 53; D2 12 56 53; D2 12 56 53; D2 12 56 53; D2 12 56 53; D2 12 56 53; D2 12 56 53;
  D2 12 56 53; D2 12 56 53; D2 12 56 53; D2 12 56 53; D2 12 56 53; D2 12 56 53; D2 12 56 53; D2 12 56 53; D2 12 56 53;
  D2 12 56 54; D2 12 56 54; D2 12 56 54; D2 12 56 54; D2 12 56 54; D2 12 56 54; D2 12 56 54; D2 12 56 54; D2 12 56 54;
  D2 12 56 54; D2 12 56 54; D2 12 56 54; D2 12 56 54; D2 12 56 54; D2 12 56 54; D2 12 56 54; D2 12 56 55; D2 12 56 55;
  D2 12 56 55; D2 12 56 55; D2 12 56 55; D2 12 56 55; D2 12 56 55; D2 12 56 55; D2 12 56 55; D2 12 56 55; D2 12 56 55;
  D2 12 56 55; D2 12 56 55; D2 12 56 55; D2 12 56 55; D2 12 56 55; D2 12 56 56; D2 12 56 56; D2 12 56 56; D2 12 56 56;
  D2 12 56 56; D2 12 56 56; D2 12 56 56; D2 12 56 56; D2 12 56 56; D2 12 56 56; D2 12 56 56; D2 12 56 56; D2 12 56 56;
  D2 12 56 56; D2 12 56 56; D2 12 56 56; D2 12 56 57; D2 12 56 57; D2 12 56 57; D2 12 56 57; D2 12 56 57; D2 12 56 57;
  D2 12 56 57; D2 12 56 57; D2 12 56 57; D2 12 56 57; D2 12 56 57; D2 12 56 57; D2 12 56 57; D2 12 56 57; D2 12 56 57;
  D2 12 56 57].
Definition hdecs_122 : list hdec := [
  D2 12 56 61; D2 12 56 61; D2 12 56 61; D2 12 56 61; D2 12 56 61; D2 12 56 61; D2 12 56 61; D2 12 56 61; D2 12 56 61;
  D2 12 56 61; D2 12 56 61; D2 12 56 61; D2 12 56 61; D2 12 56 61; D2 12 56 61; D2 12 56 61; D2 12 56 65; D2 12 56 65;
  D2 12 56 65; D2 12 56 65; D2 12 56 65; D2 12 56 65; D2 12 56 65; D2 12 56 65; D2 12 56 65; D2 12 56 65; D2 12 56 65;
  D2 12 56 65; D2 12 56 65; D2 12 56 65; D2 12 56 65; D2 12 56 65; D2 12 56 95; D2 12 56 95; D2 12 56 95; D2 12 56 95;
  D2 12 56 95; D2 12 56 95; D2 12 56 95; D2 12 56 95; D2 12 56 95; D2 12 56 95; D2 12 56 95; D2 12 56 95; D2 12 56 95;
  D2 12 56 95; D2 12 56 95; D2 12 56 95; D2 12 56 98; D2 12 56 98; D2 12 56 98; D2 12 56 98; D2 12 56 98; D2 12 56 98;
  D2 12 56 98; D2 12 56 98; D2 12 56 98; D2 12 56 98; D2 12 56 98; D2 12 56 98; D2 12 56 98; D2 12 56 98; D2 12 56 98;
  D2 12 56 98; D2 12 56 100; D2 12 56 100; D2 12 56 100; D2 12 56 100; D2 12 56 100; D2 12 56 100; D2 12 56 100;
  D2 12 56 100; D2 12 56 100; D2 12 56 100; D2 12 56 100; D2 12 56 100; D2 12 56 100; D2 12 56 100; D2 12 56 100;
  D2 12 56 100; D2 12 56 102; D2 12 56 102; D2 12 56 102; D2 12 56 102; D2 12 56 102; D2 12 56 102; D2 12 56 102;
  D2 12 56 102; D2 12 56 102; D2 12 56 102; D2 12 56 102; D2 12 56 102; D2 12 56 102; D2 12 56 102; D2 12 56 102;
  D2 12 56 102; D2 12 56 103; D2 12 56 103; D2 12 56 103; D2 12 56 103; D2 12 56 103; D2 12 56 103; D2 12 56 103;
  D2 12 56 103; D2 12 56 103; D2 12 56 103; D2 12 56 103; D2 12 56 103; D2 12 56 103; D2 12 56 103; D2 12 56 103;
  D2 12 56 103; D2 12 56 104; D2 12 56 104; D2 12 56 104; D2 12 56 104; D2 12 56 104; D2 12 56 104; D2 12 56 104;
  D2 12 56 104; D2 12 56 104; D2 12 56 104; D2 12 56 104; D2 12 56 104; D2 12 56 104; D2 12 56 104; D2 12 56 104;
  D2 12 56 104; D2 12 56 108; D2 12 56 108; D2 12 56 108; D2 12 56 108; D2 12 56 108; D2 12 56 108; D2 12 56 108;
  D2 12 56 108; D2 12 56 108; D2 12 56 108; D2 12 56 108; D2 12 56 108; D2 12 56 108; D2 12 56 108; D2 12 56 108;
  D2 12 56 108; D2 12 56 109; D2 12 56 109; D2 12 56 109; D2 12 56 109; D2 12 56 109; D2 12 56 109; D2 12 56 109;
  D2 12 56 109; D2 12 56 109; D2 12 56 109; D2 12 56 109; D2 12 56 109; D2 12 56 109; D2 12 56 109; D2 12 56 109;
  D2 12 56 109; D2 12 56 110; D2 12 56 110; D2 12 56 110; D2 12 56 110; D2 12 56 110; D2 12 56 110; D2 12 56 110;
  D2 12 56 110; D2 12 56 110; D2 12 56 110; D2 12 56 110; D2 12 56 110; D2 12 56 110; D2 12 56 110; D2 12 56 110;
  D2 12 56 110; D2 12 56 112; D2 12 56 112; D2 12 56 112; D2 12 56 112; D2 12 56 112; D2 12 56 112; D2 12 56 112;
  D2 12 56 112; D2 12 56 112; D2 12 56 112; D2 12 56 112; D2 12 56 112; D2 12 56 112; D2 12 56 112; D2 12 56 112;
  D2 12 56 112; D2 12 56 114; D2 12 56 114; D2 12 56 114; D2 12 56 114; D2 12 56 114; D2 12 56 114; D2 12 56 114;
  D2 12 56 114; D2 12 56 114; D2 12 56 114; D2 12 56 114; D2 12 56 114; D2 12 56 114; D2 12 56 114; D2 12 56 114;
  D2 12 56 114; D2 12 56 117; D2 12 56 117; D2 12 56 117; D2 12 56 117; D2 12 56 117; D2 12 56 117; D2 12 56 117;
  D2 12 56 117; D2 12 56 117; D2 12 56 117; D2 12 56 117; D2 12 56 117; D2 12 56 117; D2 12 56 117; D2 12 56 117;
  D2 12 56 117; D2 13 56 58; D2 13 56 58; D2 13 56 58; D2 13 56 58; D2 13 56 58; D2 13 56 58; D2 13 56 58;
  D2 13 56 58; D2 13 56 66; D2 13 56 66; D2 13 56 66; D2 13 56 66; D2 13 56 66; D2 13 56 66; D2 13 56 66; D2 13 56 66;
  D2 13 56 67; D2 13 56 67; D2 13 56 67; D2 13 56 67; D2 13 56 67; D2 13 56 67; D2 13 56 67; D2 13 56 67; D2 13 56 68;
  D2 13 56 68; D2 13 56 68; D2 13 56 68; D2 13 56 68; D2 13 56 68; D2 13 56 68; D2 13 56 68].
Definition hdecs_123 : list hdec := [
  D2 13 56 69; D2 13 56 69; D2 13 56 69; D2 13 56 69; D2 13 56 69; D2 13 56 69; D2 13 56 69; D2 13 56 69; D2 13 56 70;
  D2 13 56 70; D2 13 56 70; D2 13 56 70; D2 13 56 70; D2 13 56 70; D2 13 56 70; D2 13 56 70; D2 13 56 71; D2 13 56 71;
  D2 13 56 71; D2 13 56 71; D2 13 56 71; D2 13 56 71; D2 13 56 71; D2 13 56 71; D2 13 56 72; D2 13 56 72; D2 13 56 72;
  D2 13 56 72; D2 13 56 72; D2 13 56 72; D2 13 56 72; D2 13 56 72; D2 13 56 73; D2 13 56 73; D2 13 56 73; D2 13 56 73;
  D2 13 56 73; D2 13 56 73; D2 13 56 73; D2 13 56 73; D2 13 56 74; D2 13 56 74; D2 13 56 74; D2 13 56 74; D2 13 56 74;
  D2 13 56 74; D2 13 56 74; D2 13 56 74; D2 13 56 75; D2 13 56 75; D2 13 56 75; D2 13 56 75; D2 13 56 75; D2 13 56 75;
  D2 13 56 75; D2 13 56 75; D2 13 56 76; D2 13 56 76; D2 13 56 76; D2 13 56 76; D2 13 56 76; D2 13 56 76; D2 13 56 76;
  D2 13 56 76; D2 13 56 77; D2 13 56 77; D2 13 56 77; D2 13 56 77; D2 13 56 77; D2 13 56 77; D2 13 56 77; D2 13 56 77;
  D2 13 56 78; D2 13 56 78; D2 13 56 78; D2 13 56 78; D2 13 56 78; D2 13 56 78; D2 13 56 78; D2 13 56 78; D2 13 56 79;
  D2 13 56 79; D2 13 56 79; D2 13 56 79; D2 13 56 79; D2 13 56 79; D2 13 56 79; D2 13 56 79; D2 13 56 80; D2 13 56 80;
  D2 13 56 80; D2 13 56 80; D2 13 56 80; D2 13 56 80; D2 13 56 80; D2 13 56 80; D2 13 56 81; D2 13 56 81; D2 13 56 81;
  D2 13 56 81; D2 13 56 81; D2 13 56 81; D2 13 56 81; D2 13 56 81; D2 13 56 82; D2 13 56 82; D2 13 56 82; D2 13 56 82;
  D2 13 56 82; D2 13 56 82; D2 13 56 82; D2 13 56 82; D2 13 56 83; D2 13 56 83; D2 13 56 83; D2 13 56 83; D2 13 56 83;
  D2 13 56 83; D2 13 56 83; D2 13 56 83; D2 13 56 84; D2 13 56 84; D2 13 56 84; D2 13 56 84; D2 13 56 84; D2 13 56 84;
  D2 13 56 84; D2 13 56 84; D2 13 56 85; D2 13 56 85; D2 13 56 85; D2 13 56 85; D2 13 56 85; D2 13 56 85; D2 13 56 85;
  D2 13 56 85; D2 13 56 86; D2 13 56 86; D2 13 56 86; D2 13 56 86; D2 13 56 86; D2 13 56 86; D2 13 56 86; D2 13 56 86;
  D2 13 56 87; D2 13 56 87; D2 13 56 87; D2 13 56 87; D2 13 56 87; D2 13 56 87; D2 13 56 87; D2 13 56 87; D2 13 56 89;
  D2 13 56 89; D2 13 56 89; D2 13 56 89; D2 13 56 89; D2 13 56 89; D2 13 56 89; D2 13 56 89; D2 13 56 106;
  D2 13 56 106; D2 13 56 106; D2 13 56 106; D2 13 56 106; D2 13 56 106; D2 13 56 106; D2 13 56 106; D2 13 56 107;
  D2 13 56 107; D2 13 56 107; D2 13 56 107; D2 13 56 107; D2 13 56 107; D2 13 56 107; D2 13 56 107; D2 13 56 113;
  D2 13 56 113; D2 13 56 113; D2 13 56 113; D2 13 56 113; D2 13 56 113; D2 13 56 113; D2 13 56 113; D2 13 56 118;
  D2 13 56 118; D2 13 56 118; D2 13 56 118; D2 13 56 118; D2 13 56 118; D2 13 56 118; D2 13 56 118; D2 13 56 119;
  D2 13 56 119; D2 13 56 119; D2 13 56 119; D2 13 56 119; D2 13 56 119; D2 13 56 119; D2 13 56 119; D2 13 56 120;
  D2 13 56 120; D2 13 56 120; D2 13 56 120; D2 13 56 120; D2 13 56 120; D2 13 56 120; D2 13 56 120; D2 13 56 121;
  D2 13 56 121; D2 13 56 121; D2 13 56 121; D2 13 56 121; D2 13 56 121; D2 13 56 121; D2 13 56 121; D2 13 56 122;
  D2 13 56 122; D2 13 56 122; D2 13 56 122; D2 13 56 122; D2 13 56 122; D2 13 56 122; D2 13 56 122; D2 14 56 38;
  D2 14 56 38; D2 14 56 38; D2 14 56 38; D2 14 56 42; D2 14 56 42; D2 14 56 42; D2 14 56 42; D2 14 56 44; D2 14 56 44;
  D2 14 56 44; D2 14 56 44; D2 14 56 59; D2 14 56 59; D2 14 56 59; D2 14 56 59; D2 14 56 88; D2 14 56 88; D2 14 56 88;
  D2 14 56 88; D2 14 56 90; D2 14 56 90; D2 14 56 90; D2 14 56 90; D2 16 56 33; D2 16 56 34; D2 16 56 40; D2 16 56 41;
  D2 16 56 63; D1 6 56; D1 6 56; D1 6 56].
Definition hdecs_124 : list hdec := [
  D3 16 57 48 48; D3 16 57 48 49; D3 16 57 48 50; D3 16 57 48 97; D3 16 57 48 99; D3 16 57 48 101; D3 16 57 48 105;
  D3 16 57 48 111; D3 16 57 48 115; D3 16 57 48 116; D2 11 57 48; D2 11 57 48; D2 11 57 48; D2 11 57 48; D2 11 57 48;
  D2 11 57 48; D2 11 57 48; D2 11 57 48; D2 11 57 48; D2 11 57 48; D2 11 57 48; D2 11 57 48; D2 11 57 48; D2 11 57 48;
  D2 11 57 48; D2 11 57 48; D2 11 57 48; D2 11 57 48; D2 11 57 48; D2 11 57 48; D2 11 57 48; D2 11 57 48;
  D3 16 57 49 48; D3 16 57 49 49; D3 16 57 49 50; D3 16 57 49 97; D3 16 57 49 99; D3 16 57 49 101; D3 16 57 49 105;
  D3 16 57 49 111; D3 16 57 49 115; D3 16 57 49 116; D2 11 57 49; D2 11 57 49; D2 11 57 49; D2 11 57 49; D2 11 57 49;
  D2 11 57 49; D2 11 57 49; D2 11 57 49; D2 11 57 49; D2 11 57 49; D2 11 57 49; D2 11 57 49; D2 11 57 49; D2 11 57 49;
  D2 11 57 49; D2 11 57 49; D2 11 57 49; D2 11 57 49; D2 11 57 49; D2 11 57 49; D2 11 57 49; D2 11 57 49;
  D3 16 57 50 48; D3 16 57 50 49; D3 16 57 50 50; D3 16 57 50 97; D3 16 57 50 99; D3 16 57 50 101; D3 16 57 50 105;
  D3 16 57 50 111; D3 16 57 50 115; D3 16 57 50 116; D2 11 57 50; D2 11 57 50; D2 11 57 50; D2 11 57 50; D2 11 57 50;
  D2 11 57 50; D2 11 57 50; D2 11 57 50; D2 11 57 50; D2 11 57 50; D2 11 57 50; D2 11 57 50; D2 11 57 50; D2 11 57 50;
  D2 11 57 50; D2 11 57 50; D2 11 57 50; D2 11 57 50; D2 11 57 50; D2 11 57 50; D2 11 57 50; D2 11 57 50;
  D3 16 57 97 48; D3 16 57 97 49; D3 16 57 97 50; D3 16 57 97 97; D3 16 57 97 99; D3 16 57 97 101; D3 16 57 97 105;
  D3 16 57 97 111; D3 16 57 97 115; D3 16 57 97 116; D2 11 57 97; D2 11 57 97; D2 11 57 97; D2 11 57 97; D2 11 57 97;
  D2 11 57 97; D2 11 57 97; D2 11 57 97; D2 11 57 97; D2 11 57 97; D2 11 57 97; D2 11 57 97; D2 11 57 97; D2 11 57 97;
  D2 11 57 97; D2 11 57 97; D2 11 57 97; D2 11 57 97; D2 11 57 97; D2 11 57 97; D2 11 57 97; D2 11 57 97;
  D3 16 57 99 48; D3 16 57 99 49; D3 16 57 99 50; D3 16 57 99 97; D3 16 57 99 99; D3 16 57 99 101; D3 16 57 99 105;
  D3 16 57 99 111; D3 16 57 99 115; D3 16 57 99 116; D2 11 57 99; D2 11 57 99; D2 11 57 99; D2 11 57 99; D2 11 57 99;
  D2 11 57 99; D2 11 57 99; D2 11 57 99; D2 11 57 99; D2 11 57 99; D2 11 57 99; D2 11 57 99; D2 11 57 99; D2 11 57 99;
  D2 11 57 99; D2 11 57 99; D2 11 57 99; D2 11 57 99; D2 11 57 99; D2 11 57 99; D2 11 57 99; D2 11 57 99;
  D3 16 57 101 48; D3 16 57 101 49; D3 16 57 101 50; D3 16 57 101 97; D3 16 57 101 99; D3 16 57 101 101;
  D3 16 57 101 105; D3 16 57 101 111; D3 16 57 101 115; D3 16 57 101 116; D2 11 57 101; D2 11 57 101; D2 11 57 101;
  D2 11 57 101; D2 11 57 101; D2 11 57 101; D2 11 57 101; D2 11 57 101; D2 11 57 101; D2 11 57 101; D2 11 57 101;
  D2 11 57 101; D2 11 57 101; D2 11 57 101; D2 11 57 101; D2 11 57 101; D2 11 57 101; D2 11 57 101; D2 11 57 101;
  D2 11 57 101; D2 11 57 101; D2 11 57 101; D3 16 57 105 48; D3 16 57 105 49; D3 16 57 105 50; D3 16 57 105 97;
  D3 16 57 105 99; D3 16 57 105 101; D3 16 57 105 105; D3 16 57 105 111; D3 16 57 105 115; D3 16 57 105 116;
  D2 11 57 105; D2 11 57 105; D2 11 57 105; D2 11 57 105; D2 11 57 105; D2 11 57 105; D2 11 57 105; D2 11 57 105;
  D2 11 57 105; D2 11 57 105; D2 11 57 105; D2 11 57 105; D2 11 57 105; D2 11 57 105; D2 11 57 105; D2 11 57 105;
  D2 11 57 105; D2 11 57 105; D2 11 57 105; D2 11 57 105; D2 11 57 105; D2 11 57 105; D3 16 57 111 48;
  D3 16 57 111 49; D3 16 57 111 50; D3 16 57 111 97; D3 16 57 111 99; D3 16 57 111 101; D3 16 57 111 105;
  D3 16 57 111 111; D3 16 57 111 115; D3 16 57 111 116; D2 11 57 111; D2 11 57 111; D2 11 57 111; D2 11 57 111;
  D2 11 57 111; D2 11 57 111; D2 11 57 111; D2 11 57 111; D2 11 57 111; D2 11 57 111; D2 11 57 111; D2 11 57 111;
  D2 11 57 111; D2 11 57 111; D2 11 57 111; D2 11 57 111; D2 11 57 111; D2 11 57 111; D2 11 57 111; D2 11 57 111;
  D2 11 57 111; D2 11 57 111].
Definition hdecs_125 : list hdec := [
  D3 16 57 115 48; D3 16 57 115 49; D3 16 57 115 50; D3 16 57 115 97; D3 16 57 115 99; D3 16 57 115 101;
  D3 16 57 115 105; D3 16 57 115 111; D3 16 57 115 115; D3 16 57 115 116; D2 11 57 115; D2 11 57 115; D2 11 57 115;
  D2 11 57 115; D2 11 57 115; D2 11 57 115; D2 11 57 115; D2 11 57 115; D2 11 57 115; D2 11 57 115; D2 11 57 115;
  D2 11 57 115; D2 11 57 115; D2 11 57 115; D2 11 57 115; D2 11 57 115; D2 11 57 115; D2 11 57 115; D2 11 57 115;
  D2 11 57 115; D2 11 57 115; D2 11 57 115; D3 16 57 116 48; D3 16 57 116 49; D3 16 57 116 50; D3 16 57 116 97;
  D3 16 57 116 99; D3 16 57 116 101; D3 16 57 116 105; D3 16 57 116 111; D3 16 57 116 115; D3 16 57 116 116;
  D2 11 57 116; D2 11 57 116; D2 11 57 116; D2 11 57 116; D2 11 57 116; D2 11 57 116; D2 11 57 116; D2 11 57 116;
  D2 11 57 116; D2 11 57 116; D2 11 57 116; D2 11 57 116; D2 11 57 116; D2 11 57 116; D2 11 57 116; D2 11 57 116;
  D2 11 57 116; D2 11 57 116; D2 11 57 116; D2 11 57 116; D2 11 57 116; D2 11 57 116; D2 12 57 32; D2 12 57 32;
  D2 12 57 32; D2 12 57 32; D2 12 57 32; D2 12 57 32; D2 12 57 32; D2 12 57 32; D2 12 57 32; D2 12 57 32; D2 12 57 32;
  D2 12 57 32; D2 12 57 32; D2 12 57 32; D2 12 57 32; D2 12 57 32; D2 12 57 37; D2 12 57 37; D2 12 57 37; D2 12 57 37;
  D2 12 57 37; D2 12 57 37; D2 12 57 37; D2 12 57 37; D2 12 57 37; D2 12 57 37; D2 12 57 37; D2 12 57 37; D2 12 57 37;
  D2 12 57 37; D2 12 57 37; D2 12 57 37; D2 12 57 45; D2 12 57 45; D2 12 57 45; D2 12 57 45; D2 12 57 45; D2 12 57 45;
  D2 12 57 45; D2 12 57 45; D2 12 57 45; D2 12 57 45; D2 12 57 45; D2 12 57 45; D2 12 57 45; D2 12 57 45; D2 12 57 45;
  D2 12 57 45; D2 12 57 46; D2 12 57 46; D2 12 57 46; D2 12 57 46; D2 12 57 46; D2 12 57 46; D2 12 57 46; D2 12 57 46;
  D2 12 57 46; D2 12 57 46; D2 12 57 46; D2 12 57 46; D2 12 57 46; D2 12 57 46; D2 12 57 46; D2 12 57 46; D2 12 57 47;
  D2 12 57 47; D2 12 57 47; D2 12 57 47; D2 12 57 47; D2 12 57 47; D2 12 57 47; D2 12 57 47; D2 12 57 47; D2 12 57 47;
  D2 12 57 47; D2 12 57 47; D2 12 57 47; D2 12 57 47; D2 12 57 47; D2 12 57 47; D2 12 57 51; D2 12 57 51; D2 12 57 51;
  D2 12 57 51; D2 12 57 51; D2 12 57 51; D2 12 57 51; D2 12 57 51; D2 12 57 51; D2 12 57 51; D2 12 57 51; D2 12 57 51;
  D2 12 57 51; D2 12 57 51; D2 12 57 51; D2 12 57 51; D2 12 57 52; D2 12 57 52; D2 12 57 52; D2 12 57 52; D2 12 57 52;
  D2 12 57 52; D2 12 57 52; D2 12 57 52; D2 12 57 52; D2 12 57 52; D2 12 57 52; D2 12 57 52; D2 12 57 52; D2 12 57 52;
  D2 12 57 52; D2 12 57 52; D2 12 57 53; D2 12 57 53; D2 12 57 53; D2 12 57 53; D2 12 57 53; D2 12 57 53; D2 12 57 53;
  D2 12 57 53; D2 12 57 53; D2 12 57 53; D2 12 57 53; D2 12 57 53; D2 12 57 53; D2 12 57 53; D2 12 57 53; D2 12 57 53;
  D2 12 57 54; D2 12 57 54; D2 12 57 54; D2 12 57 54; D2 12 57 54; D2 12 57 54; D2 12 57 54; D2 12 57 54; D2 12 57 54;
  D2 12 57 54; D2 12 57 54; D2 12 57 54; D2 12 57 54; D2 12 57 54; D2 12 57 54; D2 12 57 54; D2 12 57 55; D2 12 57 55;
  D2 12 57 55; D2 12 57 55; D2 12 57 55; D2 12 57 55; D2 12 57 55; D2 12 57 55; D2 12 57 55; D2 12 57 55; D2 12 57 55;
  D2 12 57 55; D2 12 57 55; D2 12 57 55; D2 12 57 55; D2 12 57 55; D2 12 57 56; D2 12 57 56; D2 12 57 56; D2 12 57 56;
  D2 12 57 56; D2 12 57 56; D2 12 57 56; D2 12 57 56; D2 12 57 56; D2 12 57 56; D2 12 57 56; D2 12 57 56; D2 12 57 56;
  D2 12 57 56; D2 12 57 56; D2 12 57 56; D2 12 57 57; D2 12 57 57; D2 12 57 57; D2 12 57 57; D2 12 57 57; D2 12 57 57;
  D2 12 57 57; D2 12 57 57; D2 12 57 57; D2 12 57 57; D2 12 57 57; D2 12 57 57; D2 12 57 57; D2 12 57 57; D2 12 57 57;
  D2 12 57 57].
Definition hdecs_126 : list hdec := [
  D2 12 57 61; D2 12 57 61; D2 12 57 61; D2 12 57 61; D2 12 57 61; D2 12 57 61; D2 12 57 61; D2 12 57 61; D2 12 57 61;
  D2 12 57 61; D2 12 57 61; D2 12 57 61; D2 12 57 61; D2 12 57 61; D2 12 57 61; D2 12 57 61; D2 12 57 65; D2 12 57 65;
  D2 12 57 65; D2 12 57 65; D2 12 57 65; D2 12 57 65; D2 12 57 65; D2 12 57 65; D2 12 57 65; D2 12 57 65; D2 12 57 65;
  D2 12 57 65; D2 12 57 65; D2 12 57 65; D2 12 57 65; D2 12 57 65; D2 12 57 95; D2 12 57 95; D2 12 57 95; D2 12 57 95;
  D2 12 57 95; D2 12 57 95; D2 12 57 95; D2 12 57 95; D2 12 57 95; D2 12 57 95; D2 12 57 95; D2 12 57 95; D2 12 57 95;
  D2 12 57 95; D2 12 57 95; D2 12 57 95; D2 12 57 98; D2 12 57 98; D2 12 57 98; D2 12 57 98; D2 12 57 98; D2 12 57 98;
  D2 12 57 98; D2 12 57 98; D2 12 57 98; D2 12 57 98; D2 12 57 98; D2 12 57 98; D2 12 57 98; D2 12 57 98; D2 12 57 98;
  D2 12 57 98; D2 12 57 100; D2 12 57 100; D2 12 57 100; D2 12 57 100; D2 12 57 100; D2 12 57 100; D2 12 57 100;
  D2 12 57 100; D2 12 57 100; D2 12 57 100; D2 12 57 100; D2 12 57 100; D2 12 57 100; D2 12 57 100; D2 12 57 100;
  D2 12 57 100; D2 12 57 102; D2 12 57 102; D2 12 57 102; D2 12 57 102; D2 12 57 102; D2 12 57 102; D2 12 57 102;
  D2 12 57 102; D2 12 57 102; D2 12 57 102; D2 12 57 102; D2 12 57 102; D2 12 57 102; D2 12 57 102; D2 12 57 102;
  D2 12 57 102; D2 12 57 103; D2 12 57 103; D2 12 57 103; D2 12 57 103; D2 12 57 103; D2 12 57 103; D2 12 57 103;
  D2 12 57 103; D2 12 57 103; D2 12 57 103; D2 12 57 103; D2 12 57 103; D2 12 57 103; D2 12 57 103; D2 12 57 103;
  D2 12 57 103; D2 12 57 104; D2 12 57 104; D2 12 57 104; D2 12 57 104; D2 12 57 104; D2 12 57 104; D2 12 57 104;
  D2 12 57 104; D2 12 57 104; D2 12 57 104; D2 12 57 104; D2 12 57 104; D2 12 57 104; D2 12 57 104; D2 12 57 104;
  D2 12 57 104; D2 12 57 108; D2 12 57 108; D2 12 57 108; D2 12 57 108; D2 12 57 108; D2 12 57 108; D2 12 57 108;
  D2 12 57 108; D2 12 57 108; D2 12 57 108; D2 12 57 108; D2 12 57 108; D2 12 57 108; D2 12 57 108; D2 12 57 108;
  D2 12 57 108; D2 12 57 109; D2 12 57 109; D2 12 57 109; D2 12 57 109; D2 12 57 109; D2 12 57 109; D2 12 57 109;
  D2 12 57 109; D2 12 57 109; D2 12 57 109; D2 12 57 109; D2 12 57 109; D2 12 57 109; D2 12 57 109; D2 12 57 109;
  D2 12 57 109; D2 12 57 110; D2 12 57 110; D2 12 57 110; D2 12 57 110; D2 12 57 110; D2 12 57 110; D2 12 57 110;
  D2 12 57 110; D2 12 57 110; D2 12 57 110; D2 12 57 110; D2 12 57 110; D2 12 57 110; D2 12 57 110; D2 12 57 110;
  D2 12 57 110; D2 12 57 112; D2 12 57 112; D2 12 57 112; D2 12 57 112; D2 12 57 112; D2 12 57 112; D2 12 57 112;
  D2 12 57 112; D2 12 57 112; D2 12 57 112; D2 12 57 112; D2 12 57 112; D2 12 57 112; D2 12 57 112; D2 12 57 112;
  D2 12 57 112; D2 12 57 114; D2 12 57 114; D2 12 57 114; D2 12 57 114; D2 12 57 114; D2 12 57 114; D2 12 57 114;
  D2 12 57 114; D2 12 57 114; D2 12 57 114; D2 12 57 114; D2 12 57 114; D2 12 57 114; D2 12 57 114; D2 12 57 114;
  D2 12 57 114; D2 12 57 117; D2 12 57 117; D2 12 57 117; D2 12 57 117; D2 12 57 117; D2 12 57 117; D2 12 57 117;
  D2 12 57 117; D2 12 57 117; D2 12 57 117; D2 12 57 117; D2 12 57 117; D2 12 57 117; D2 12 57 117; D2 12 57 117;
  D2 12 57 117; D2 13 57 58; D2 13 57 58; D2 13 57 58; D2 13 57 58; D2 13 57 58; D2 13 57 58; D2 13 57 58;
  D2 13 57 58; D2 13 57 66; D2 13 57 66; D2 13 57 66; D2 13 57 66; D2 13 57 66; D2 13 57 66; D2 13 57 66; D2 13 57 66;
  D2 13 57 67; D2 13 57 67; D2 13 57 67; D2 13 57 67; D2 13 57 67; D2 13 57 67; D2 13 57 67; D2 13 57 67; D2 13 57 68;
  D2 13 57 68; D2 13 57 68; D2 13 57 68; D2 13 57 68; D2 13 57 68; D2 13 57 68; D2 13 57 68].
Definition hdecs_127 : list hdec := [
  D2 13 57 69; D2 13 57 69; D2 13 57 69; D2 13 57 69; D2 13 57 69; D2 13 57 69; D2 13 57 69; D2 13 57 69; D2 13 57 70;
  D2 13 57 70; D2 13 57 70; D2 13 57 70; D2 13 57 70; D2 13 57 70; D2 13 57 70; D2 13 57 70; D2 13 57 71; D2 13 57 71;
  D2 13 57 71; D2 13 57 71; D2 13 57 71; D2 13 57 71; D2 13 57 71; D2 13 57 71; D2 13 57 72; D2 13 57 72; D2 13 57 72;
  D2 13 57 72; D2 13 57 72; D2 13 57 72; D2 13 57 72; D2 13 57 72; D2 13 57 73; D2 13 57 73; D2 13 57 73; D2 13 57 73;
  D2 13 57 73; D2 13 57 73; D2 13 57 73; D2 13 57 73; D2 13 57 74; D2 13 57 74; D2 13 57 74; D2 13 57 74; D2 13 57 74;
  D2 13 57 74; D2 13 57 74; D2 13 57 74; D2 13 57 75; D2 13 57 75; D2 13 57 75; D2 13 57 75; D2 13 57 75; D2 13 57 75;
  D2 13 57 75; D2 13 57 75; D2 13 57 76; D2 13 57 76; D2 13 57 76; D2 13 57 76; D2 13 57 76; D2 13 57 76; D2 13 57 76;
  D2 13 57 76; D2 13 57 77; D2 13 57 77; D2 13 57 77; D2 13 57 77; D2 13 57 77; D2 13 57 77; D2 13 57 77; D2 13 57 77;
  D2 13 57 78; D2 13 57 78; D2 13 57 78; D2 13 57 78; D2 13 57 78; D2 13 57 78; D2 13 57 78; D2 13 57 78; D2 13 57 79;
  D2 13 57 79; D2 13 57 79; D2 13 57 79; D2 13 57 79; D2 13 57 79; D2 13 57 79; D2 13 57 79; D2 13 57 80; D2 13 57 80;
  D2 13 57 80; D2 13 57 80; D2 13 57 80; D2 13 57 80; D2 13 57 80; D2 13 57 80; D2 13 57 81; D2 13 57 81; D2 13 57 81;
  D2 13 57 81; D2 13 57 81; D2 13 57 81; D2 13 57 81; D2 13 57 81; D2 13 57 82; D2 13 57 82; D2 13 57 82; D2 13 57 82;
  D2 13 57 82; D2 13 57 82; D2 13 57 82; D2 13 57 82; D2 13 57 83; D2 13 57 83; D2 13 57 83; D2 13 57 83; D2 13 57 83;
  D2 13 57 83; D2 13 57 83; D2 13 57 83; D2 13 57 84; D2 13 57 84; D2 13 57 84; D2 13 57 84; D2 13 57 84; D2 13 57 84;
  D2 13 57 84; D2 13 57 84; D2 13 57 85; D2 13 57 85; D2 13 57 85; D2 13 57 85; D2 13 57 85; D2 13 57 85; D2 13 57 85;
  D2 13 57 85; D2 13 57 86; D2 13 57 86; D2 13 57 86; D2 13 57 86; D2 13 57 86; D2 13 57 86; D2 13 57 86; D2 13 57 86;
  D2 13 57 87; D2 13 57 87; D2 13 57 87; D2 13 57 87; D2 13 57 87; D2 13 57 87; D2 13 57 87; D2 13 57 87; D2 13 57 89;
  D2 13 57 89; D2 13 57 89; D2 13 57 89; D2 13 57 89; D2 13 57 89; D2 13 57 89; D2 13 57 89; D2 13 57 106;
  D2 13 57 106; D2 13 57 106; D2 13 57 106; D2 13 57 106; D2 13 57 106; D2 13 57 106; D2 13 57 106; D2 13 57 107;
  D2 13 57 107; D2 13 57 107; D2 13 57 107; D2 13 57 107; D2 13 57 107; D2 13 57 107; D2 13 57 107; D2 13 57 113;
  D2 13 57 113; D2 13 57 113; D2 13 57 113; D2 13 57 113; D2 13 57 113; D2 13 57 113; D2 13 57 113; D2 13 57 118;
  D2 13 57 118; D2 13 57 118; D2 13 57 118; D2 13 57 118; D2 13 57 118; D2 13 57 118; D2 13 57 118; D2 13 57 119;
  D2 13 57 119; D2 13 57 119; D2 13 57 119; D2 13 57 119; D2 13 57 119; D2 13 57 119; D2 13 57 119; D2 13 57 120;
  D2 13 57 120; D2 13 57 120; D2 13 57 120; D2 13 57 120; D2 13 57 120; D2 13 57 120; D2 13 57 120; D2 13 57 121;
  D2 13 57 121; D2 13 57 121; D2 13 57 121; D2 13 57 121; D2 13 57 121; D2 13 57 121; D2 13 57 121; D2 13 57 122;
  D2 13 57 122; D2 13 57 122; D2 13 57 122; D2 13 57 122; D2 13 57 122; D2 13 57 122; D2 13 57 122; D2 14 57 38;
  D2 14 57 38; D2 14 57 38; D2 14 57 38; D2 14 57 42; D2 14 57 42; D2 14 57 42; D2 14 57 42; D2 14 57 44; D2 14 57 44;
  D2 14 57 44; D2 14 57 44; D2 14 57 59; D2 14 57 59; D2 14 57 59; D2 14 57 59; D2 14 57 88; D2 14 57 88; D2 14 57 88;
  D2 14 57 88; D2 14 57 90; D2 14 57 90; D2 14 57 90; D2 14 57 90; D2 16 57 33; D2 16 57 34; D2 16 57 40; D2 16 57 41;
  D2 16 57 63; D1 6 57; D1 6 57; D1 6 57].
Definition hdecs_128 : list hdec := [
  D3 16 61 48 48; D3 16 61 48 49; D3 16 61 48 50; D3 16 61 48 97; D3 16 61 48 99; D3 16 61 48 101; D3 16 61 48 105;
  D3 16 61 48 111; D3 16 61 48 115; D3 16 61 48 116; D2 11 61 48; D2 11 61 48; D2 11 61 48; D2 11 61 48; D2 11 61 48;
  D2 11 61 48; D2 11 61 48; D2 11 61 48; D2 11 61 48; D2 11 61 48; D2 11 61 48; D2 11 61 48; D2 11 61 48; D2 11 61 48;
  D2 11 61 48; D2 11 61 48; D2 11 61 48; D2 11 61 48; D2 11 61 48; D2 11 61 48; D2 11 61 48; D2 11 61 48;
  D3 16 61 49 48; D3 16 61 49 49; D3 16 61 49 50; D3 16 61 49 97; D3 16 61 49 99; D3 16 61 49 101; D3 16 61 49 105;
  D3 16 61 49 111; D3 16 61 49 115; D3 16 61 49 116; D2 11 61 49; D2 11 61 49; D2 11 61 49; D2 11 61 49; D2 11 61 49;
  D2 11 61 49; D2 11 61 49; D2 11 61 49; D2 11 61 49; D2 11 61 49; D2 11 61 49; D2 11 61 49; D2 11 61 49; D2 11 61 49;
  D2 11 61 49; D2 11 61 49; D2 11 61 49; D2 11 61 49; D2 11 61 49; D2 11 61 49; D2 11 61 49; D2 11 61 49;
  D3 16 61 50 48; D3 16 61 50 49; D3 16 61 50 50; D3 16 61 50 97; D3 16 61 50 99; D3 16 61 50 101; D3 16 61 50 105;
  D3 16 61 50 111; D3 16 61 50 115; D3 16 61 50 116; D2 11 61 50; D2 11 61 50; D2 11 61 50; D2 11 61 50; D2 11 61 50;
  D2 11 61 50; D2 11 61 50; D2 11 61 50; D2 11 61 50; D2 11 61 50; D2 11 61 50; D2 11 61 50; D2 11 61 50; D2 11 61 50;
  D2 11 61 50; D2 11 61 50; D2 11 61 50; D2 11 61 50; D2 11 61 50; D2 11 61 50; D2 11 61 50; D2 11 61 50;
  D3 16 61 97 48; D3 16 61 97 49; D3 16 61 97 50; D3 16 61 97 97; D3 16 61 97 99; D3 16 61 97 101; D3 16 61 97 105;
  D3 16 61 97 111; D3 16 61 97 115; D3 16 61 97 116; D2 11 61 97; D2 11 61 97; D2 11 61 97; D2 11 61 97; D2 11 61 97;
  D2 11 61 97; D2 11 61 97; D2 11 61 97; D2 11 61 97; D2 11 61 97; D2 11 61 97; D2 11 61 97; D2 11 61 97; D2 11 61 97;
  D2 11 61 97; D2 11 61 97; D2 11 61 97; D2 11 61 97; D2 11 61 97; D2 11 61 97; D2 11 61 97; D2 11 61 97;
  D3 16 61 99 48; D3 16 61 99 49; D3 16 61 99 50; D3 16 61 99 97; D3 16 61 99 99; D3 16 61 99 101; D3 16 61 99 105;
  D3 16 61 99 111; D3 16 61 99 115; D3 16 61 99 116; D2 11 61 99; D2 11 61 99; D2 11 61 99; D2 11 61 99; D2 11 61 99;
  D2 11 61 99; D2 11 61 99; D2 11 61 99; D2 11 61 99; D2 11 61 99; D2 11 61 99; D2 11 61 99; D2 11 61 99; D2 11 61 99;
  D2 11 61 99; D2 11 61 99; D2 11 61 99; D2 11 61 99; D2 11 61 99; D2 11 61 99; D2 11 61 99; D2 11 61 99;
  D3 16 61 101 48; D3 16 61 101 49; D3 16 61 101 50; D3 16 61 101 97; D3 16 61 101 99; D3 16 61 101 101;
  D3 16 61 101 105; D3 16 61 101 111; D3 16 61 101 115; D3 16 61 101 116; D2 11 61 101; D2 11 61 101; D2 11 61 101;
  D2 11 61 101; D2 11 61 101; D2 11 61 101; D2 11 61 101; D2 11 61 101; D2 11 61 101; D2 11 61 101; D2 11 61 101;
  D2 11 61 101; D2 11 61 101; D2 11 61 101; D2 11 61 101; D2 11 61 101; D2 11 61 101; D2 11 61 101; D2 11 61 101;
  D2 11 61 101; D2 11 61 101; D2 11 61 101; D3 16 61 105 48; D3 16 61 105 49; D3 16 61 105 50; D3 16 61 105 97;
  D3 16 61 105 99; D3 16 61 105 101; D3 16 61 105 105; D3 16 61 105 111; D3 16 61 105 115; D3 16 61 105 116;
  D2 11 61 105; D2 11 61 105; D2 11 61 105; D2 11 61 105; D2 11 61 105; D2 11 61 105; D2 11 61 105; D2 11 61 105;
  D2 11 61 105; D2 11 61 105; D2 11 61 105; D2 11 61 105; D2 11 61 105; D2 11 61 105; D2 11 61 105; D2 11 61 105;
  D2 11 61 105; D2 11 61 105; D2 11 61 105; D2 11 61 105; D2 11 61 105; D2 11 61 105; D3 16 61 111 48;
  D3 16 61 111 49; D3 16 61 111 50; D3 16 61 111 97; D3 16 61 111 99; D3 16 61 111 101; D3 16 61 111 105;
  D3 16 61 111 111; D3 16 61 111 115; D3 16 61 111 116; D2 11 61 111; D2 11 61 111; D2 11 61 111; D2 11 61 111;
  D2 11 61 111; D2 11 61 111; D2 11 61 111; D2 11 61 111; D2 11 61 111; D2 11 61 111; D2 11 61 111; D2 11 61 111;
  D2 11 61 111; D2 11 61 111; D2 11 61 111; D2 11 61 111; D2 11 61 111; D2 11 61 111; D2 11 61 111; D2 11 61 111;
  D2 11 61 111; D2 11 61 111].
Definition hdecs_129 : list hdec := [
  D3 16 61 115 48; D3 16 61 115 49; D3 16 61 115 50; D3 16 61 115 97; D3 16 61 115 99; D3 16 61 115 101;
  D3 16 61 115 105; D3 16 61 115 111; D3 16 61 115 115; D3 16 61 115 116; D2 11 61 115; D2 11 61 115; D2 11 61 115;
  D2 11 61 115; D2 11 61 115; D2 11 61 115; D2 11 61 115; D2 11 61 115; D2 11 61 115; D2 11 61 115; D2 11 61 115;
  D2 11 61 115; D2 11 61 115; D2 11 61 115; D2 11 61 115; D2 11 61 115; D2 11 61 115; D2 11 61 115; D2 11 61 115;
  D2 11 61 115; D2 11 61 115; D2 11 61 115; D3 16 61 116 48; D3 16 61 116 49; D3 16 61 116 50; D3 16 61 116 97;
  D3 16 61 116 99; D3 16 61 116 101; D3 16 61 116 105; D3 16 61 116 111; D3 16 61 116 115; D3 16 61 116 116;
  D2 11 61 116; D2 11 61 116; D2 11 61 116; D2 11 61 116; D2 11 61 116; D2 11 61 116; D2 11 61 116; D2 11 61 116;
  D2 11 61 116; D2 11 61 116; D2 11 61 116; D2 11 61 116; D2 11 61 116; D2 11 61 116; D2 11 61 116; D2 11 61 116;
  D2 11 61 116; D2 11 61 116; D2 11 61 116; D2 11 61 116; D2 11 61 116; D2 11 61 116; D2 12 61 32; D2 12 61 32;
  D2 12 61 32; D2 12 61 32; D2 12 61 32; D2 12 61 32; D2 12 61 32; D2 12 61 32; D2 12 61 32; D2 12 61 32; D2 12 61 32;
  D2 12 61 32; D2 12 61 32; D2 12 61 32; D2 12 61 32; D2 12 61 32; D2 12 61 37; D2 12 61 37; D2 12 61 37; D2 12 61 37;
  D2 12 61 37; D2 12 61 37; D2 12 61 37; D2 12 61 37; D2 12 61 37; D2 12 61 37; D2 12 61 37; D2 12 61 37; D2 12 61 37;
  D2 12 61 37; D2 12 61 37; D2 12 61 37; D2 12 61 45; D2 12 61 45; D2 12 61 45; D2 12 61 45; D2 12 61 45; D2 12 61 45;
  D2 12 61 45; D2 12 61 45; D2 12 61 45; D2 12 61 45; D2 12 61 45; D2 12 61 45; D2 12 61 45; D2 12 61 45; D2 12 61 45;
  D2 12 61 45; D2 12 61 46; D2 12 61 46; D2 12 61 46; D2 12 61 46; D2 12 61 46; D2 12 61 46; D2 12 61 46; D2 12 61 46;
  D2 12 61 46; D2 12 61 46; D2 12 61 46; D2 12 61 46; D2 12 61 46; D2 12 61 46; D2 12 61 46; D2 12 61 46; D2 12 61 47;
  D2 12 61 47; D2 12 61 47; D2 12 61 47; D2 12 61 47; D2 12 61 47; D2 12 61 47; D2 12 61 47; D2 12 61 47; D2 12 61 47;
  D2 12 61 47; D2 12 61 47; D2 12 61 47; D2 12 61 47; D2 12 61 47; D2 12 61 47; D2 12 61 51; D2 12 61 51; D2 12 61 51;
  D2 12 61 51; D2 12 61 51; D2 12 61 51; D2 12 61 51; D2 12 61 51; D2 12 61 51; D2 12 61 51; D2 12 61 51; D2 12 61 51;
  D2 12 61 51; D2 12 61 51; D2 12 61 51; D2 12 61 51; D2 12 61 52; D2 12 61 52; D2 12 61 52; D2 12 61 52; D2 12 61 52;
  D2 12 61 52; D2 12 61 52; D2 12 61 52; D2 12 61 52; D2 12 61 52; D2 12 61 52; D2 12 61 52; D2 12 61 52; D2 12 61 52;
  D2 12 61 52; D2 12 61 52; D2 12 61 53; D2 12 61 53; D2 12 61 53; D2 12 61 53; D2 12 61 53; D2 12 61 53; D2 12 61 53;
  D2 12 61 53; D2 12 61 53; D2 12 61 53; D2 12 61 53; D2 12 61 53; D2 12 61 53; D2 12 61 53; D2 12 61 53; D2 12 61 53;
  D2 12 61 54; D2 12 61 54; D2 12 61 54; D2 12 61 54; D2 12 61 54; D2 12 61 54; D2 12 61 54; D2 12 61 54; D2 12 61 54;
  D2 12 61 54; D2 12 61 54; D2 12 61 54; D2 12 61 54; D2 12 61 54; D2 12 61 54; D2 12 61 54; D2 12 61 55; D2 12 61 55;
  D2 12 61 55; D2 12 61 55; D2 12 61 55; D2 12 61 55; D2 12 61 55; D2 12 61 55; D2 12 61 55; D2 12 61 55; D2 12 61 55;
  D2 12 61 55; D2 12 61 55; D2 12 61 55; D2 12 61 55; D2 12 61 55; D2 12 61 56; D2 12 61 56; D2 12 61 56; D2 12 61 56;
  D2 12 61 56; D2 12 61 56; D2 12 61 56; D2 12 61 56; D2 12 61 56; D2 12 61 56; D2 12 61 56; D2 12 61 56; D2 12 61 56;
  D2 12 61 56; D2 12 61 56; D2 12 61 56; D2 12 61 57; D2 12 61 57; D2 12 61 57; D2 12 61 57; D2 12 61 57; D2 12 61 57;
  D2 12 61 57; D2 12 61 57; D2 12 61 57; D2 12 61 57; D2 12 61 57; D2 12 61 57; D2 12 61 57; D2 12 61 57; D2 12 61 57;
  D2 12 61 57].
Definition hdecs_130 : list hdec := [
  D2 12 61 61; D2 12 61 61; D2 12 61 61; D2 12 61 61; D2 12 61 61; D2 12 61 61; D2 12 61 61; D2 12 61 61; D2 12 61 61;
  D2 12 61 61; D2 12 61 61; D2 12 61 61; D2 12 61 61; D2 12 61 61; D2 12 61 61; D2 12 61 61; D2 12 61 65; D2 12 61 65;
  D2 12 61 65; D2 12 61 65; D2 12 61 65; D2 12 61 65; D2 12 61 65; D2 12 61 65; D2 12 61 65; D2 12 61 65; D2 12 61 65;
  D2 12 61 65; D2 12 61 65; D2 12 61 65; D2 12 61 65; D2 12 61 65; D2 12 61 95; D2 12 61 95; D2 12 61 95; D2 12 61 95;
  D2 12 61 95; D2 12 61 95; D2 12 61 95; D2 12 61 95; D2 12 61 95; D2 12 61 95; D2 12 61 95; D2 12 61 95; D2 12 61 95;
  D2 12 61 95; D2 12 61 95; D2 12 61 95; D2 12 61 98; D2 12 61 98; D2 12 61 98; D2 12 61 98; D2 12 61 98; D2 12 61 98;
  D2 12 61 98; D2 12 61 98; D2 12 61 98; D2 12 61 98; D2 12 61 98; D2 12 61 98; D2 12 61 98; D2 12 61 98; D2 12 61 98;
  D2 12 61 98; D2 12 61 100; D2 12 61 100; D2 12 61 100; D2 12 61 100; D2 12 61 100; D2 12 61 100; D2 12 61 100;
  D2 12 61 100; D2 12 61 100; D2 12 61 100; D2 12 61 100; D2 12 61 100; D2 12 61 100; D2 12 61 100; D2 12 61 100;
  D2 12 61 100; D2 12 61 102; D2 12 61 102; D2 12 61 102; D2 12 61 102; D2 12 61 102; D2 12 61 102; D2 12 61 102;
  D2 12 61 102; D2 12 61 102; D2 12 61 102; D2 12 61 102; D2 12 61 102; D2 12 61 102; D2 12 61 102; D2 12 61 102;
  D2 12 61 102; D2 12 61 103; D2 12 61 103; D2 12 61 103; D2 12 61 103; D2 12 61 103; D2 12 61 103; D2 12 61 103;
  D2 12 61 103; D2 12 61 103; D2 12 61 103; D2 12 61 103; D2 12 61 103; D2 12 61 103; D2 12 61 103; D2 12 61 103;
  D2 12 61 103; D2 12 61 104; D2 12 61 104; D2 12 61 104; D2 12 61 104; D2 12 61 104; D2 12 61 104; D2 12 61 104;
  D2 12 61 104; D2 12 61 104; D2 12 61 104; D2 12 61 104; D2 12 61 104; D2 12 61 104; D2 12 61 104; D2 12 61 104;
  D2 12 61 104; D2 12 61 108; D2 12 61 108; D2 12 61 108; D2 12 61 108; D2 12 61 108; D2 12 61 108; D2 12 61 108;
  D2 12 61 108; D2 12 61 108; D2 12 61 108; D2 12 61 108; D2 12 61 108; D2 12 61 108; D2 12 61 108; D2 12 61 108;
  D2 12 61 108; D2 12 61 109; D2 12 61 109; D2 12 61 109; D2 12 61 109; D2 12 61 109; D2 12 61 109; D2 12 61 109;
  D2 12 61 109; D2 12 61 109; D2 12 61 109; D2 12 61 109; D2 12 61 109; D2 12 61 109; D2 12 61 109; D2 12 61 109;
  D2 12 61 109; D2 12 61 110; D2 12 61 110; D2 12 61 110; D2 12 61 110; D2 12 61 110; D2 12 61 110; D2 12 61 110;
  D2 12 61 110; D2 12 61 110; D2 12 61 110; D2 12 61 110; D2 12 61 110; D2 12 61 110; D2 12 61 110; D2 12 61 110;
  D2 12 61 110; D2 12 61 112; D2 12 61 112; D2 12 61 112; D2 12 61 112; D2 12 61 112; D2 12 61 112; D2 12 61 112;
  D2 12 61 112; D2 12 61 112; D2 12 61 112; D2 12 61 112; D2 12 61 112; D2 12 61 112; D2 12 61 112; D2 12 61 112;
  D2 12 61 112; D2 12 61 114; D2 12 61 114; D2 12 61 114; D2 12 61 114; D2 12 61 114; D2 12 61 114; D2 12 61 114;
  D2 12 61 114; D2 12 61 114; D2 12 61 114; D2 12 61 114; D2 12 61 114; D2 12 61 114; D2 12 61 114; D2 12 61 114;
  D2 12 61 114; D2 12 61 117; D2 12 61 117; D2 12 61 117; D2 12 61 117; D2 12 61 117; D2 12 61 117; D2 12 61 117;
  D2 12 61 117; D2 12 61 117; D2 12 61 117; D2 12 61 117; D2 12 61 117; D2 12 61 117; D2 12 61 117; D2 12 61 117;
  D2 12 61 117; D2 13 61 58; D2 13 61 58; D2 13 61 58; D2 13 61 58; D2 13 61 58; D2 13 61 58; D2 13 61 58;
  D2 13 61 58; D2 13 61 66; D2 13 61 66; D2 13 61 66; D2 13 61 66; D2 13 61 66; D2 13 61 66; D2 13 61 66; D2 13 61 66;
  D2 13 61 67; D2 13 61 67; D2 13 61 67; D2 13 61 67; D2 13 61 67; D2 13 61 67; D2 13 61 67; D2 13 61 67; D2 13 61 68;
  D2 13 61 68; D2 13 61 68; D2 13 61 68; D2 13 61 68; D2 13 61 68; D2 13 61 68; D2 13 61 68].
Definition hdecs_131 : list hdec := [
  D2 13 61 69; D2 13 61 69; D2 13 61 69; D2 13 61 69; D2 13 61 69; D2 13 61 69; D2 13 61 69; D2 13 61 69; D2 13 61 70;
  D2 13 61 70; D2 13 61 70; D2 13 61 70; D2 13 61 70; D2 13 61 70; D2 13 61 70; D2 13 61 70; D2 13 61 71; D2 13 61 71;
  D2 13 61 71; D2 13 61 71; D2 13 61 71; D2 13 61 71; D2 13 61 71; D2 13 61 71; D2 13 61 72; D2 13 61 72; D2 13 61 72;
  D2 13 61 72; D2 13 61 72; D2 13 61 72; D2 13 61 72; D2 13 61 72; D2 13 61 73; D2 13 61 73; D2 13 61 73; D2 13 61 73;
  D2 13 61 73; D2 13 61 73; D2 13 61 73; D2 13 61 73; D2 13 61 74; D2 13 61 74; D2 13 61 74; D2 13 61 74; D2 13 61 74;
  D2 13 61 74; D2 13 61 74; D2 13 61 74; D2 13 61 75; D2 13 61 75; D2 13 61 75; D2 13 61 75; D2 13 61 75; D2 13 61 75;
  D2 13 61 75; D2 13 61 75; D2 13 61 76; D2 13 61 76; D2 13 61 76; D2 13 61 76; D2 13 61 76; D2 13 61 76; D2 13 61 76;
  D2 13 61 76; D2 13 61 77; D2 13 61 77; D2 13 61 77; D2 13 61 77; D2 13 61 77; D2 13 61 77; D2 13 61 77; D2 13 61 77;
  D2 13 61 78; D2 13 61 78; D2 13 61 78; D2 13 61 78; D2 13 61 78; D2 13 61 78; D2 13 61 78; D2 13 61 78; D2 13 61 79;
  D2 13 61 79; D2 13 61 79; D2 13 61 79; D2 13 61 79; D2 13 61 79; D2 13 61 79; D2 13 61 79; D2 13 61 80; D2 13 61 80;
  D2 13 61 80; D2 13 61 80; D2 13 61 80; D2 13 61 80; D2 13 61 80; D2 13 61 80; D2 13 61 81; D2 13 61 81; D2 13 61 81;
  D2 13 61 81; D2 13 61 81; D2 13 61 81; D2 13 61 81; D2 13 61 81; D2 13 61 82; D2 13 61 82; D2 13 61 82; D2 13 61 82;
  D2 13 61 82; D2 13 61 82; D2 13 61 82; D2 13 61 82; D2 13 61 83; D2 13 61 83; D2 13 61 83; D2 13 61 83; D2 13 61 83;
  D2 13 61 83; D2 13 61 83; D2 13 61 83; D2 13 61 84; D2 13 61 84; D2 13 61 84; D2 13 61 84; D2 13 61 84; D2 13 61 84;
  D2 13 61 84; D2 13 61 84; D2 13 61 85; D2 13 61 85; D2 13 61 85; D2 13 61 85; D2 13 61 85; D2 13 61 85; D2 13 61 85;
  D2 13 61 85; D2 13 61 86; D2 13 61 86; D2 13 61 86; D2 13 61 86; D2 13 61 86; D2 13 61 86; D2 13 61 86; D2 13 61 86;
  D2 13 61 87; D2 13 61 87; D2 13 61 87; D2 13 61 87; D2 13 61 87; D2 13 61 87; D2 13 61 87; D2 13 61 87; D2 13 61 89;
  D2 13 61 89; D2 13 61 89; D2 13 61 89; D2 13 61 89; D2 13 61 89; D2 13 61 89; D2 13 61 89; D2 13 61 106;
  D2 13 61 106; D2 13 61 106; D2 13 61 106; D2 13 61 106; D2 13 61 106; D2 13 61 106; D2 13 61 106; D2 13 61 107;
  D2 13 61 107; D2 13 61 107; D2 13 61 107; D2 13 61 107; D2 13 61 107; D2 13 61 107; D2 13 61 107; D2 13 61 113;
  D2 13 61 113; D2 13 61 113; D2 13 61 113; D2 13 61 113; D2 13 61 113; D2 13 61 113; D2 13 61 113; D2 13 61 118;
  D2 13 61 118; D2 13 61 118; D2 13 61 118; D2 13 61 118; D2 13 61 118; D2 13 61 118; D2 13 61 118; D2 13 61 119;
  D2 13 61 119; D2 13 61 119; D2 13 61 119; D2 13 61 119; D2 13 61 119; D2 13 61 119; D2 13 61 119; D2 13 61 120;
  D2 13 61 120; D2 13 61 120; D2 13 61 120; D2 13 61 120; D2 13 61 120; D2 13 61 120; D2 13 61 120; D2 13 61 121;
  D2 13 61 121; D2 13 61 121; D2 13 61 121; D2 13 61 121; D2 13 61 121; D2 13 61 121; D2 13 61 121; D2 13 61 122;
  D2 13 61 122; D2 13 61 122; D2 13 61 122; D2 13 61 122; D2 13 61 122; D2 13 61 122; D2 13 61 122; D2 14 61 38;
  D2 14 61 38; D2 14 61 38; D2 14 61 38; D2 14 61 42; D2 14 61 42; D2 14 61 42; D2 14 61 42; D2 14 61 44; D2 14 61 44;
  D2 14 61 44; D2 14 61 44; D2 14 61 59; D2 14 61 59; D2 14 61 59; D2 14 61 59; D2 14 61 88; D2 14 61 88; D2 14 61 88;
  D2 14 61 88; D2 14 61 90; D2 14 61 90; D2 14 61 90; D2 14 61 90; D2 16 61 33; D2 16 61 34; D2 16 61 40; D2 16 61 41;
  D2 16 61 63; D1 6 61; D1 6 61; D1 6 61].
Definition hdecs_132 : list hdec := [
  D3 16 65 48 48; D3 16 65 48 49; D3 16 65 48 50; D3 16 65 48 97; D3 16 65 48 99; D3 16 65 48 101; D3 16 65 48 105;
  D3 16 65 48 111; D3 16 65 48 115; D3 16 65 48 116; D2 11 65 48; D2 11 65 48; D2 11 65 48; D2 11 65 48; D2 11 65 48;
  D2 11 65 48; D2 11 65 48; D2 11 65 48; D2 11 65 48; D2 11 65 48; D2 11 65 48; D2 11 65 48; D2 11 65 48; D2 11 65 48;
  D2 11 65 48; D2 11 65 48; D2 11 65 48; D2 11 65 48; D2 11 65 48; D2 11 65 48; D2 11 65 48; D2 11 65 48;
  D3 16 65 49 48; D3 16 65 49 49; D3 16 65 49 50; D3 16 65 49 97; D3 16 65 49 99; D3 16 65 49 101; D3 16 65 49 105;
  D3 16 65 49 111; D3 16 65 49 115; D3 16 65 49 116; D2 11 65 49; D2 11 65 49; D2 11 65 49; D2 11 65 49; D2 11 65 49;
  D2 11 65 49; D2 11 65 49; D2 11 65 49; D2 11 65 49; D2 11 65 49; D2 11 65 49; D2 11 65 49; D2 11 65 49; D2 11 65 49;
  D2 11 65 49; D2 11 65 49; D2 11 65 49; D2 11 65 49; D2 11 65 49; D2 11 65 49; D2 11 65 49; D2 11 65 49;
  D3 16 65 50 48; D3 16 65 50 49; D3 16 65 50 50; D3 16 65 50 97; D3 16 65 50 99; D3 16 65 50 101; D3 16 65 50 105;
  D3 16 65 50 111; D3 16 65 50 115; D3 16 65 50 116; D2 11 65 50; D2 11 65 50; D2 11 65 50; D2 11 65 50; D2 11 65 50;
  D2 11 65 50; D2 11 65 50; D2 11 65 50; D2 11 65 50; D2 11 65 50; D2 11 65 50; D2 11 65 50; D2 11 65 50; D2 11 65 50;
  D2 11 65 50; D2 11 65 50; D2 11 65 50; D2 11 65 50; D2 11 65 50; D2 11 65 50; D2 11 65 50; D2 11 65 50;
  D3 16 65 97 48; D3 16 65 97 49; D3 16 65 97 50; D3 16 65 97 97; D3 16 65 97 99; D3 16 65 97 101; D3 16 65 97 105;
  D3 16 65 97 111; D3 16 65 97 115; D3 16 65 97 116; D2 11 65 97; D2 11 65 97; D2 11 65 97; D2 11 65 97; D2 11 65 97;
  D2 11 65 97; D2 11 65 97; D2 11 65 97; D2 11 65 97; D2 11 65 97; D2 11 65 97; D2 11 65 97; D2 11 65 97; D2 11 65 97;
  D2 11 65 97; D2 11 65 97; D2 11 65 97; D2 11 65 97; D2 11 65 97; D2 11 65 97; D2 11 65 97; D2 11 65 97;
  D3 16 65 99 48; D3 16 65 99 49; D3 16 65 99 50; D3 16 65 99 97; D3 16 65 99 99; D3 16 65 99 101; D3 16 65 99 105;
  D3 16 65 99 111; D3 16 65 99 115; D3 16 65 99 116; D2 11 65 99; D2 11 65 99; D2 11 65 99; D2 11 65 99; D2 11 65 99;
  D2 11 65 99; D2 11 65 99; D2 11 65 99; D2 11 65 99; D2 11 65 99; D2 11 65 99; D2 11 65 99; D2 11 65 99; D2 11 65 99;
  D2 11 65 99; D2 11 65 99; D2 11 65 99; D2 11 65 99; D2 11 65 99; D2 11 65 99; D2 11 65 99; D2 11 65 99;
  D3 16 65 101 48; D3 16 65 101 49; D3 16 65 101 50; D3 16 65 101 97; D3 16 65 101 99; D3 16 65 101 101;
  D3 16 65 101 105; D3 16 65 101 111; D3 16 65 101 115; D3 16 65 101 116; D2 11 65 101; D2 11 65 101; D2 11 65 101;
  D2 11 65 101; D2 11 65 101; D2 11 65 101; D2 11 65 101; D2 11 65 101; D2 11 65 101; D2 11 65 101; D2 11 65 101;
  D2 11 65 101; D2 11 65 101; D2 11 65 101; D2 11 65 101; D2 11 65 101; D2 11 65 101; D2 11 65 101; D2 11 65 101;
  D2 11 65 101; D2 11 65 101; D2 11 65 101; D3 16 65 105 48; D3 16 65 105 49; D3 16 65 105 50; D3 16 65 105 97;
  D3 16 65 105 99; D3 16 65 105 101; D3 16 65 105 105; D3 16 65 105 111; D3 16 65 105 115; D3 16 65 105 116;
  D2 11 65 105; D2 11 65 105; D2 11 65 105; D2 11 65 105; D2 11 65 105; D2 11 65 105; D2 11 65 105; D2 11 65 105;
  D2 11 65 105; D2 11 65 105; D2 11 65 105; D2 11 65 105; D2 11 65 105; D2 11 65 105; D2 11 65 105; D2 11 65 105;
  D2 11 65 105; D2 11 65 105; D2 11 65 105; D2 11 65 105; D2 11 65 105; D2 11 65 105; D3 16 65 111 48;
  D3 16 65 111 49; D3 16 65 111 50; D3 16 65 111 97; D3 16 65 111 99; D3 16 65 111 101; D3 16 65 111 105;
  D3 16 65 111 111; D3 16 65 111 115; D3 16 65 111 116; D2 11 65 111; D2 11 65 111; D2 11 65 111; D2 11 65 111;
  D2 11 65 111; D2 11 65 111; D2 11 65 111; D2 11 65 111; D2 11 65 111; D2 11 65 111; D2 11 65 111; D2 11 65 111;
  D2 11 65 111; D2 11 65 111; D2 11 65 111; D2 11 65 111; D2 11 65 111; D2 11 65 111; D2 11 65 111; D2 11 65 111;
  D2 11 65 111; D2 11 65 111].
Definition hdecs_133 : list hdec := [
  D3 16 65 115 48; D3 16 65 115 49; D3 16 65 115 50; D3 16 65 115 97; D3 16 65 115 99; D3 16 65 115 101;
  D3 16 65 115 105; D3 16 65 115 111; D3 16 65 115 115; D3 16 65 115 116; D2 11 65 115; D2 11 65 115; D2 11 65 115;
  D2 11 65 115; D2 11 65 115; D2 11 65 115; D2 11 65 115; D2 11 65 115; D2 11 65 115; D2 11 65 115; D2 11 65 115;
  D2 11 65 115; D2 11 65 115; D2 11 65 115; D2 11 65 115; D2 11 65 115; D2 11 65 115; D2 11 65 115; D2 11 65 115;
  D2 11 65 115; D2 11 65 115; D2 11 65 115; D3 16 65 116 48; D3 16 65 116 49; D3 16 65 116 50; D3 16 65 116 97;
  D3 16 65 116 99; D3 16 65 116 101; D3 16 65 116 105; D3 16 65 116 111; D3 16 65 116 115; D3 16 65 116 116;
  D2 11 65 116; D2 11 65 116; D2 11 65 116; D2 11 65 116; D2 11 65 116; D2 11 65 116; D2 11 65 116; D2 11 65 116;
  D2 11 65 116; D2 11 65 116; D2 11 65 116; D2 11 65 116; D2 11 65 116; D2 11 65 116; D2 11 65 116; D2 11 65 116;
  D2 11 65 116; D2 11 65 116; D2 11 65 116; D2 11 65 116; D2 11 65 116; D2 11 65 116; D2 12 65 32; D2 12 65 32;
  D2 12 65 32; D2 12 65 32; D2 12 65 32; D2 12 65 32; D2 12 65 32; D2 12 65 32; D2 12 65 32; D2 12 65 32; D2 12 65 32;
  D2 12 65 32; D2 12 65 32; D2 12 65 32; D2 12 65 32; D2 12 65 32; D2 12 65 37; D2 12 65 37; D2 12 65 37; D2 12 65 37;
  D2 12 65 37; D2 12 65 37; D2 12 65 37; D2 12 65 37; D2 12 65 37; D2 12 65 37; D2 12 65 37; D2 12 65 37; D2 12 65 37;
  D2 12 65 37; D2 12 65 37; D2 12 65 37; D2 12 65 45; D2 12 65 45; D2 12 65 45; D2 12 65 45; D2 12 65 45; D2 12 65 45;
  D2 12 65 45; D2 12 65 45; D2 12 65 45; D2 12 65 45; D2 12 65 45; D2 12 65 45; D2 12 65 45; D2 12 65 45; D2 12 65 45;
  D2 12 65 45; D2 12 65 46; D2 12 65 46; D2 12 65 46; D2 12 65 46; D2 12 65 46; D2 12 65 46; D2 12 65 46; D2 12 65 46;
  D2 12 65 46; D2 12 65 46; D2 12 65 46; D2 12 65 46; D2 12 65 46; D2 12 65 46; D2 12 65 46; D2 12 65 46; D2 12 65 47;
  D2 12 65 47; D2 12 65 47; D2 12 65 47; D2 12 65 47; D2 12 65 47; D2 12 65 47; D2 12 65 47; D2 12 65 47; D2 12 65 47;
  D2 12 65 47; D2 12 65 47; D2 12 65 47; D2 12 65 47; D2 12 65 47; D2 12 65 47; D2 12 65 51; D2 12 65 51; D2 12 65 51;
  D2 12 65 51; D2 12 65 51; D2 12 65 51; D2 12 65 51; D2 12 65 51; D2 12 65 51; D2 12 65 51; D2 12 65 51; D2 12 65 51;
  D2 12 65 51; D2 12 65 51; D2 12 65 51; D2 12 65 51; D2 12 65 52; D2 12 65 52; D2 12 65 52; D2 12 65 52; D2 12 65 52;
  D2 12 65 52; D2 12 65 52; D2 12 65 52; D2 12 65 52; D2 12 65 52; D2 12 65 52; D2 12 65 52; D2 12 65 52; D2 12 65 52;
  D2 12 65 52; D2 12 65 52; D2 12 65 53; D2 12 65 53; D2 12 65 53; D2 12 65 53; D2 12 65 53; D2 12 65 53; D2 12 65 53;
  D2 12 65 53; D2 12 65 53; D2 12 65 53; D2 12 65 53; D2 12 65 53; D2 12 65 53; D2 12 65 53; D2 12 65 53; D2 12 65 53;
  D2 12 65 54; D2 12 65 54; D2 12 65 54; D2 12 65 54; D2 12 65 54; D2 12 65 54; D2 12 65 54; D2 12 65 54; D2 12 65 54;
  D2 12 65 54; D2 12 65 54; D2 12 65 54; D2 12 65 54; D2 12 65 54; D2 12 65 54; D2 12 65 54; D2 12 65 55; D2 12 65 55;
  D2 12 65 55; D2 12 65 55; D2 12 65 55; D2 12 65 55; D2 12 65 55; D2 12 65 55; D2 12 65 55; D2 12 65 55; D2 12 65 55;
  D2 12 65 55; D2 12 65 55; D2 12 65 55; D2 12 65 55; D2 12 65 55; D2 12 65 56; D2 12 65 56; D2 12 65 56; D2 12 65 56;
  D2 12 65 56; D2 12 65 56; D2 12 65 56; D2 12 65 56; D2 12 65 56; D2 12 65 56; D2 12 65 56; D2 12 65 56; D2 12 65 56;
  D2 12 65 56; D2 12 65 56; D2 12 65 56; D2 12 65 57; D2 12 65 57; D2 12 65 57; D2 12 65 57; D2 12 65 57; D2 12 65 57;
  D2 12 65 57; D2 12 65 57; D2 12 65 57; D2 12 65 57; D2 12 65 57; D2 12 65 57; D2 12 65 57; D2 12 65 57; D2 12 65 57;
  D2 12 65 57].
Definition hdecs_134 : list hdec := [
  D2 12 65 61; D2 12 65 61; D2 12 65 61; D2 12 65 61; D2 12 65 61; D2 12 65 61; D2 12 65 61; D2 12 65 61; D2 12 65 61;
  D2 12 65 61; D2 12 65 61; D2 12 65 61; D2 12 65 61; D2 12 65 61; D2 12 65 61; D2 12 65 61; D2 12 65 65; D2 12 65 65;
  D2 12 65 65; D2 12 65 65; D2 12 65 65; D2 12 65 65; D2 12 65 65; D2 12 65 65; D2 12 65 65; D2 12 65 65; D2 12 65 65;
  D2 12 65 65; D2 12 65 65; D2 12 65 65; D2 12 65 65; D2 12 65 65; D2 12 65 95; D2 12 65 95; D2 12 65 95; D2 12 65 95;
  D2 12 65 95; D2 12 65 95; D2 12 65 95; D2 12 65 95; D2 12 65 95; D2 12 65 95; D2 12 65 95; D2 12 65 95; D2 12 65 95;
  D2 12 65 95; D2 12 65 95; D2 12 65 95; D2 12 65 98; D2 12 65 98; D2 12 65 98; D2 12 65 98; D2 12 65 98; D2 12 65 98;
  D2 12 65 98; D2 12 65 98; D2 12 65 98; D2 12 65 98; D2 12 65 98; D2 12 65 98; D2 12 65 98; D2 12 65 98; D2 12 65 98;
  D2 12 65 98; D2 12 65 100; D2 12 65 100; D2 12 65 100; D2 12 65 100; D2 12 65 100; D2 12 65 100; D2 12 65 100;
  D2 12 65 100; D2 12 65 100; D2 12 65 100; D2 12 65 100; D2 12 65 100; D2 12 65 100; D2 12 65 100; D2 12 65 100;
  D2 12 65 100; D2 12 65 102; D2 12 65 102; D2 12 65 102; D2 12 65 102; D2 12 65 102; D2 12 65 102; D2 12 65 102;
  D2 12 65 102; D2 12 65 102; D2 12 65 102; D2 12 65 102; D2 12 65 102; D2 12 65 102; D2 12 65 102; D2 12 65 102;
  D2 12 65 102; D2 12 65 103; D2 12 65 103; D2 12 65 103; D2 12 65 103; D2 12 65 103; D2 12 65 103; D2 12 65 103;
  D2 12 65 103; D2 12 65 103; D2 12 65 103; D2 12 65 103; D2 12 65 103; D2 12 65 103; D2 12 65 103; D2 12 65 103;
  D2 12 65 103; D2 12 65 104; D2 12 65 104; D2 12 65 104; D2 12 65 104; D2 12 65 104; D2 12 65 104; D2 12 65 104;
  D2 12 65 104; D2 12 65 104; D2 12 65 104; D2 12 65 104; D2 12 65 104; D2 12 65 104; D2 12 65 104; D2 12 65 104;
  D2 12 65 104; D2 12 65 108; D2 12 65 108; D2 12 65 108; D2 12 65 108; D2 12 65 108; D2 12 65 108; D2 12 65 108;
  D2 12 65 108; D2 12 65 108; D2 12 65 108; D2 12 65 108; D2 12 65 108; D2 12 65 108; D2 12 65 108; D2 12 65 108;
  D2 12 65 108; D2 12 65 109; D2 12 65 109; D2 12 65 109; D2 12 65 109; D2 12 65 109; D2 12 65 109; D2 12 65 109;
  D2 12 65 109; D2 12 65 109; D2 12 65 109; D2 12 65 109; D2 12 65 109; D2 12 65 109; D2 12 65 109; D2 12 65 109;
  D2 12 65 109; D2 12 65 110; D2 12 65 110; D2 12 65 110; D2 12 65 110; D2 12 65 110; D2 12 65 110; D2 12 65 110;
  D2 12 65 110; D2 12 65 110; D2 12 65 110; D2 12 65 110; D2 12 65 110; D2 12 65 110; D2 12 65 110; D2 12 65 110;
  D2 12 65 110; D2 12 65 112; D2 12 65 112; D2 12 65 112; D2 12 65 112; D2 12 65 112; D2 12 65 112; D2 12 65 112;
  D2 12 65 112; D2 12 65 112; D2 12 65 112; D2 12 65 112; D2 12 65 112; D2 12 65 112; D2 12 65 112; D2 12 65 112;
  D2 12 65 112; D2 12 65 114; D2 12 65 114; D2 12 65 114; D2 12 65 114; D2 12 65 114; D2 12 65 114; D2 12 65 114;
  D2 12 65 114; D2 12 65 114; D2 12 65 114; D2 12 65 114; D2 12 65 114; D2 12 65 114; D2 12 65 114; D2 12 65 114;
  D2 12 65 114; D2 12 65 117; D2 12 65 117; D2 12 65 117; D2 12 65 117; D2 12 65 117; D2 12 65 117; D2 12 65 117;
  D2 12 65 117; D2 12 65 117; D2 12 65 117; D2 12 65 117; D2 12 65 117; D2 12 65 117; D2 12 65 117; D2 12 65 117;
  D2 12 65 117; D2 13 65 58; D2 13 65 58; D2 13 65 58; D2 13 65 58; D2 13 65 58; D2 13 65 58; D2 13 65 58;
  D2 13 65 58; D2 13 65 66; D2 13 65 66; D2 13 65 66; D2 13 65 66; D2 13 65 66; D2 13 65 66; D2 13 65 66; D2 13 65 66;
  D2 13 65 67; D2 13 65 67; D2 13 65 67; D2 13 65 67; D2 13 65 67; D2 13 65 67; D2 13 65 67; D2 13 65 67; D2 13 65 68;
  D2 13 65 68; D2 13 65 68; D2 13 65 68; D2 13 65 68; D2 13 65 68; D2 13 65 68; D2 13 65 68].
Definition hdecs_135 : list hdec := [
  D2 13 65 69; D2 13 65 69; D2 13 65 69; D2 13 65 69; D2 13 65 69; D2 13 65 69; D2 13 65 69; D2 13 65 69; D2 13 65 70;
  D2 13 65 70; D2 13 65 70; D2 13 65 70; D2 13 65 70; D2 13 65 70; D2 13 65 70; D2 13 65 70; D2 13 65 71; D2 13 65 71;
  D2 13 65 71; D2 13 65 71; D2 13 65 71; D2 13 65 71; D2 13 65 71; D2 13 65 71; D2 13 65 72; D2 13 65 72; D2 13 65 72;
  D2 13 65 72; D2 13 65 72; D2 13 65 72; D2 13 65 72; D2 13 65 72; D2 13 65 73; D2 13 65 73; D2 13 65 73; D2 13 65 73;
  D2 13 65 73; D2 13 65 73; D2 13 65 73; D2 13 65 73; D2 13 65 74; D2 13 65 74; D2 13 65 74; D2 13 65 74; D2 13 65 74;
  D2 13 65 74; D2 13 65 74; D2 13 65 74; D2 13 65 75; D2 13 65 75; D2 13 65 75; D2 13 65 75; D2 13 65 75; D2 13 65 75;
  D2 13 65 75; D2 13 65 75; D2 13 65 76; D2 13 65 76; D2 13 65 76; D2 13 65 76; D2 13 65 76; D2 13 65 76; D2 13 65 76;
  D2 13 65 76; D2 13 65 77; D2 13 65 77; D2 13 65 77; D2 13 65 77; D2 13 65 77; D2 13 65 77; D2 13 65 77; D2 13 65 77;
  D2 13 65 78; D2 13 65 78; D2 13 65 78; D2 13 65 78; D2 13 65 78; D2 13 65 78; D2 13 65 78; D2 13 65 78; D2 13 65 79;
  D2 13 65 79; D2 13 65 79; D2 13 65 79; D2 13 65 79; D2 13 65 79; D2 13 65 79; D2 13 65 79; D2 13 65 80; D2 13 65 80;
  D2 13 65 80; D2 13 65 80; D2 13 65 80; D2 13 65 80; D2 13 65 80; D2 13 65 80; D2 13 65 81; D2 13 65 81; D2 13 65 81;
  D2 13 65 81; D2 13 65 81; D2 13 65 81; D2 13 65 81; D2 13 65 81; D2 13 65 82; D2 13 65 82; D2 13 65 82; D2 13 65 82;
  D2 13 65 82; D2 13 65 82; D2 13 65 82; D2 13 65 82; D2 13 65 83; D2 13 65 83; D2 13 65 83; D2 13 65 83; D2 13 65 83;
  D2 13 65 83; D2 13 65 83; D2 13 65 83; D2 13 65 84; D2 13 65 84; D2 13 65 84; D2 13 65 84; D2 13 65 84; D2 13 65 84;
  D2 13 65 84; D2 13 65 84; D2 13 65 85; D2 13 65 85; D2 13 65 85; D2 13 65 85; D2 13 65 85; D2 13 65 85; D2 13 65 85;
  D2 13 65 85; D2 13 65 86; D2 13 65 86; D2 13 65 86; D2 13 65 86; D2 13 65 86; D2 13 65 86; D2 13 65 86; D2 13 65 86;
  D2 13 65 87; D2 13 65 87; D2 13 65 87; D2 13 65 87; D2 13 65 87; D2 13 65 87; D2 13 65 87; D2 13 65 87; D2 13 65 89;
  D2 13 65 89; D2 13 65 89; D2 13 65 89; D2 13 65 89; D2 13 65 89; D2 13 65 89; D2 13 65 89; D2 13 65 106;
  D2 13 65 106; D2 13 65 106; D2 13 65 106; D2 13 65 106; D2 13 65 106; D2 13 65 106; D2 13 65 106; D2 13 65 107;
  D2 13 65 107; D2 13 65 107; D2 13 65 107; D2 13 65 107; D2 13 65 107; D2 13 65 107; D2 13 65 107; D2 13 65 113;
  D2 13 65 113; D2 13 65 113; D2 13 65 113; D2 13 65 113; D2 13 65 113; D2 13 65 113; D2 13 65 113; D2 13 65 118;
  D2 13 65 118; D2 13 65 118; D2 13 65 118; D2 13 65 118; D2 13 65 118; D2 13 65 118; D2 13 65 118; D2 13 65 119;
  D2 13 65 119; D2 13 65 119; D2 13 65 119; D2 13 65 119; D2 13 65 119; D2 13 65 119; D2 13 65 119; D2 13 65 120;
  D2 13 65 120; D2 13 65 120; D2 13 65 120; D2 13 65 120; D2 13 65 120; D2 13 65 120; D2 13 65 120; D2 13 65 121;
  D2 13 65 121; D2 13 65 121; D2 13 65 121; D2 13 65 121; D2 13 65 121; D2 13 65 121; D2 13 65 121; D2 13 65 122;
  D2 13 65 122; D2 13 65 122; D2 13 65 122; D2 13 65 122; D2 13 65 122; D2 13 65 122; D2 13 65 122; D2 14 65 38;
  D2 14 65 38; D2 14 65 38; D2 14 65 38; D2 14 65 42; D2 14 65 42; D2 14 65 42; D2 14 65 42; D2 14 65 44; D2 14 65 44;
  D2 14 65 44; D2 14 65 44; D2 14 65 59; D2 14 65 59; D2 14 65 59; D2 14 65 59; D2 14 65 88; D2 14 65 88; D2 14 65 88;
  D2 14 65 88; D2 14 65 90; D2 14 65 90; D2 14 65 90; D2 14 65 90; D2 16 65 33; D2 16 65 34; D2 16 65 40; D2 16 65 41;
  D2 16 65 63; D1 6 65; D1 6 65; D1 6 65].
Definition hdecs_136 : list hdec := [
  D3 16 95 48 48; D3 16 95 48 49; D3 16 95 48 50; D3 16 95 48 97; D3 16 95 48 99; D3 16 95 48 101; D3 16 95 48 105;
  D3 16 95 48 111; D3 16 95 48 115; D3 16 95 48 116; D2 11 95 48; D2 11 95 48; D2 11 95 48; D2 11 95 48; D2 11 95 48;
  D2 11 95 48; D2 11 95 48; D2 11 95 48; D2 11 95 48; D2 11 95 48; D2 11 95 48; D2 11 95 48; D2 11 95 48; D2 11 95 48;
  D2 11 95 48; D2 11 95 48; D2 11 95 48; D2 11 95 48; D2 11 95 48; D2 11 95 48; D2 11 95 48; D2 11 95 48;
  D3 16 95 49 48; D3 16 95 49 49; D3 16 95 49 50; D3 16 95 49 97; D3 16 95 49 99; D3 16 95 49 101; D3 16 95 49 105;
  D3 16 95 49 111; D3 16 95 49 115; D3 16 95 49 116; D2 11 95 49; D2 11 95 49; D2 11 95 49; D2 11 95 49; D2 11 95 49;
  D2 11 95 49; D2 11 95 49; D2 11 95 49; D2 11 95 49; D2 11 95 49; D2 11 95 49; D2 11 95 49; D2 11 95 49; D2 11 95 49;
  D2 11 95 49; D2 11 95 49; D2 11 95 49; D2 11 95 49; D2 11 95 49; D2 11 95 49; D2 11 95 49; D2 11 95 49;
  D3 16 95 50 48; D3 16 95 50 49; D3 16 95 50 50; D3 16 95 50 97; D3 16 95 50 99; D3 16 95 50 101; D3 16 95 50 105;
  D3 16 95 50 111; D3 16 95 50 115; D3 16 95 50 116; D2 11 95 50; D2 11 95 50; D2 11 95 50; D2 11 95 50; D2 11 95 50;
  D2 11 95 50; D2 11 95 50; D2 11 95 50; D2 11 95 50; D2 11 95 50; D2 11 95 50; D2 11 95 50; D2 11 95 50; D2 11 95 50;
  D2 11 95 50; D2 11 95 50; D2 11 95 50; D2 11 95 50; D2 11 95 50; D2 11 95 50; D2 11 95 50; D2 11 95 50;
  D3 16 95 97 48; D3 16 95 97 49; D3 16 95 97 50; D3 16 95 97 97; D3 16 95 97 99; D3 16 95 97 101; D3 16 95 97 105;
  D3 16 95 97 111; D3 16 95 97 115; D3 16 95 97 116; D2 11 95 97; D2 11 95 97; D2 11 95 97; D2 11 95 97; D2 11 95 97;
  D2 11 95 97; D2 11 95 97; D2 11 95 97; D2 11 95 97; D2 11 95 97; D2 11 95 97; D2 11 95 97; D2 11 95 97; D2 11 95 97;
  D2 11 95 97; D2 11 95 97; D2 11 95 97; D2 11 95 97; D2 11 95 97; D2 11 95 97; D2 11 95 97; D2 11 95 97;
  D3 16 95 99 48; D3 16 95 99 49; D3 16 95 99 50; D3 16 95 99 97; D3 16 95 99 99; D3 16 95 99 101; D3 16 95 99 105;
  D3 16 95 99 111; D3 16 95 99 115; D3 16 95 99 116; D2 11 95 99; D2 11 95 99; D2 11 95 99; D2 11 95 99; D2 11 95 99;
  D2 11 95 99; D2 11 95 99; D2 11 95 99; D2 11 95 99; D2 11 95 99; D2 11 95 99; D2 11 95 99; D2 11 95 99; D2 11 95 99;
  D2 11 95 99; D2 11 95 99; D2 11 95 99; D2 11 95 99; D2 11 95 99; D2 11 95 99; D2 11 95 99; D2 11 95 99;
  D3 16 95 101 48; D3 16 95 101 49; D3 16 95 101 50; D3 16 95 101 97; D3 16 95 101 99; D3 16 95 101 101;
  D3 16 95 101 105; D3 16 95 101 111; D3 16 95 101 115; D3 16 95 101 116; D2 11 95 101; D2 11 95 101; D2 11 95 101;
  D2 11 95 101; D2 11 95 101; D2 11 95 101; D2 11 95 101; D2 11 95 101; D2 11 95 101; D2 11 95 101; D2 11 95 101;
  D2 11 95 101; D2 11 95 101; D2 11 95 101; D2 11 95 101; D2 11 95 101; D2 11 95 101; D2 11 95 101; D2 11 95 101;
  D2 11 95 101; D2 11 95 101; D2 11 95 101; D3 16 95 105 48; D3 16 95 105 49; D3 16 95 105 50; D3 16 95 105 97;
  D3 16 95 105 99; D3 16 95 105 101; D3 16 95 105 105; D3 16 95 105 111; D3 16 95 105 115; D3 16 95 105 116;
  D2 11 95 105; D2 11 95 105; D2 11 95 105; D2 11 95 105; D2 11 95 105; D2 11 95 105; D2 11 95 105; D2 11 95 105;
  D2 11 95 105; D2 11 95 105; D2 11 95 105; D2 11 95 105; D2 11 95 105; D2 11 95 105; D2 11 95 105; D2 11 95 105;
  D2 11 95 105; D2 11 95 105; D2 11 95 105; D2 11 95 105; D2 11 95 105; D2 11 95 105; D3 16 95 111 48;
  D3 16 95 111 49; D3 16 95 111 50; D3 16 95 111 97; D3 16 95 111 99; D3 16 95 111 101; D3 16 95 111 105;
  D3 16 95 111 111; D3 16 95 111 115; D3 16 95 111 116; D2 11 95 111; D2 11 95 111; D2 11 95 111; D2 11 95 111;
  D2 11 95 111; D2 11 95 111; D2 11 95 111; D2 11 95 111; D2 11 95 111; D2 11 95 111; D2 11 95 111; D2 11 95 111;
  D2 11 95 111; D2 11 95 111; D2 11 95 111; D2 11 95 111; D2 11 95 111; D2 11 95 111; D2 11 95 111; D2 11 95 111;
  D2 11 95 111; D2 11 95 111].
Definition hdecs_137 : list hdec := [
  D3 16 95 115 48; D3 16 95 115 49; D3 16 95 115 50; D3 16 95 115 97; D3 16 95 115 99; D3 16 95 115 101;
  D3 16 95 115 105; D3 16 95 115 111; D3 16 95 115 115; D3 16 95 115 116; D2 11 95 115; D2 11 95 115; D2 11 95 115;
  D2 11 95 115; D2 11 95 115; D2 11 95 115; D2 11 95 115; D2 11 95 115; D2 11 95 115; D2 11 95 115; D2 11 95 115;
  D2 11 95 115; D2 11 95 115; D2 11 95 115; D2 11 95 115; D2 11 95 115; D2 11 95 115; D2 11 95 115; D2 11 95 115;
  D2 11 95 115; D2 11 95 115; D2 11 95 115; D3 16 95 116 48; D3 16 95 116 49; D3 16 95 116 50; D3 16 95 116 97;
  D3 16 95 116 99; D3 16 95 116 101; D3 16 95 116 105; D3 16 95 116 111; D3 16 95 116 115; D3 16 95 116 116;
  D2 11 95 116; D2 11 95 116; D2 11 95 116; D2 11 95 116; D2 11 95 116; D2 11 95 116; D2 11 95 116; D2 11 95 116;
  D2 11 95 116; D2 11 95 116; D2 11 95 116; D2 11 95 116; D2 11 95 116; D2 11 95 116; D2 11 95 116; D2 11 95 116;
  D2 11 95 116; D2 11 95 116; D2 11 95 116; D2 11 95 116; D2 11 95 116; D2 11 95 116; D2 12 95 32; D2 12 95 32;
  D2 12 95 32; D2 12 95 32; D2 12 95 32; D2 12 95 32; D2 12 95 32; D2 12 95 32; D2 12 95 32; D2 12 95 32; D2 12 95 32;
  D2 12 95 32; D2 12 95 32; D2 12 95 32; D2 12 95 32; D2 12 95 32; D2 12 95 37; D2 12 95 37; D2 12 95 37; D2 12 95 37;
  D2 12 95 37; D2 12 95 37; D2 12 95 37; D2 12 95 37; D2 12 95 37; D2 12 95 37; D2 12 95 37; D2 12 95 37; D2 12 95 37;
  D2 12 95 37; D2 12 95 37; D2 12 95 37; D2 12 95 45; D2 12 95 45; D2 12 95 45; D2 12 95 45; D2 12 95 45; D2 12 95 45;
  D2 12 95 45; D2 12 95 45; D2 12 95 45; D2 12 95 45; D2 12 95 45; D2 12 95 45; D2 12 95 45; D2 12 95 45; D2 12 95 45;
  D2 12 95 45; D2 12 95 46; D2 12 95 46; D2 12 95 46; D2 12 95 46; D2 12 95 46; D2 12 95 46; D2 12 95 46; D2 12 95 46;
  D2 12 95 46; D2 12 95 46; D2 12 95 46; D2 12 95 46; D2 12 95 46; D2 12 95 46; D2 12 95 46; D2 12 95 46; D2 12 95 47;
  D2 12 95 47; D2 12 95 47; D2 12 95 47; D2 12 95 47; D2 12 95 47; D2 12 95 47; D2 12 95 47; D2 12 95 47; D2 12 95 47;
  D2 12 95 47; D2 12 95 47; D2 12 95 47; D2 12 95 47; D2 12 95 47; D2 12 95 47; D2 12 95 51; D2 12 95 51; D2 12 95 51;
  D2 12 95 51; D2 12 95 51; D2 12 95 51; D2 12 95 51; D2 12 95 51; D2 12 95 51; D2 12 95 51; D2 12 95 51; D2 12 95 51;
  D2 12 95 51; D2 12 95 51; D2 12 95 51; D2 12 95 51; D2 12 95 52; D2 12 95 52; D2 12 95 52; D2 12 95 52; D2 12 95 52;
  D2 12 95 52; D2 12 95 52; D2 12 95 52; D2 12 95 52; D2 12 95 52; D2 12 95 52; D2 12 95 52; D2 12 95 52; D2 12 95 52;
  D2 12 95 52; D2 12 95 52; D2 12 95 53; D2 12 95 53; D2 12 95 53; D2 12 95 53; D2 12 95 53; D2 12 95 53; D2 12 95 53;
  D2 12 95 53; D2 12 95 53; D2 12 95 53; D2 12 95 53; D2 12 95 53; D2 12 95 53; D2 12 95 53; D2 12 95 53; D2 12 95 53;
  D2 12 95 54; D2 12 95 54; D2 12 95 54; D2 12 95 54; D2 12 95 54; D2 12 95 54; D2 12 95 54; D2 12 95 54; D2 12 95 54;
  D2 12 95 54; D2 12 95 54; D2 12 95 54; D2 12 95 54; D2 12 95 54; D2 12 95 54; D2 12 95 54; D2 12 95 55; D2 12 95 55;
  D2 12 95 55; D2 12 95 55; D2 12 95 55; D2 12 95 55; D2 12 95 55; D2 12 95 55; D2 12 95 55; D2 12 95 55; D2 12 95 55;
  D2 12 95 55; D2 12 95 55; D2 12 95 55; D2 12 95 55; D2 12 95 55; D2 12 95 56; D2 12 95 56; D2 12 95 56; D2 12 95 56;
  D2 12 95 56; D2 12 95 56; D2 12 95 56; D2 12 95 56; D2 12 95 56; D2 12 95 56; D2 12 95 56; D2 12 95 56; D2 12 95 56;
  D2 12 95 56; D2 12 95 56; D2 12 95 56; D2 12 95 57; D2 12 95 57; D2 12 95 57; D2 12 95 57; D2 12 95 57; D2 12 95 57;
  D2 12 95 57; D2 12 95 57; D2 12 95 57; D2 12 95 57; D2 12 95 57; D2 12 95 57; D2 12 95 57; D2 12 95 57; D2 12 95 57;
  D2 12 95 57].
Definition hdecs_138 : list hdec := [
  D2 12 95 61; D2 12 95 61; D2 12 95 61; D2 12 95 61; D2 12 95 61; D2 12 95 61; D2 12 95 61; D2 12 95 61; D2 12 95 61;
  D2 12 95 61; D2 12 95 61; D2 12 95 61; D2 12 95 61; D2 12 95 61; D2 12 95 61; D2 12 95 61; D2 12 95 65; D2 12 95 65;
  D2 12 95 65; D2 12 95 65; D2 12 95 65; D2 12 95 65; D2 12 95 65; D2 12 95 65; D2 12 95 65; D2 12 95 65; D2 12 95 65;
  D2 12 95 65; D2 12 95 65; D2 12 95 65; D2 12 95 65; D2 12 95 65; D2 12 95 95; D2 12 95 95; D2 12 95 95; D2 12 95 95;
  D2 12 95 95; D2 12 95 95; D2 12 95 95; D2 12 95 95; D2 12 95 95; D2 12 95 95; D2 12 95 95; D2 12 95 95; D2 12 95 95;
  D2 12 95 95; D2 12 95 95; D2 12 95 95; D2 12 95 98; D2 12 95 98; D2 12 95 98; D2 12 95 98; D2 12 95 98; D2 12 95 98;
  D2 12 95 98; D2 12 95 98; D2 12 95 98; D2 12 95 98; D2 12 95 98; D2 12 95 98; D2 12 95 98; D2 12 95 98; D2 12 95 98;
  D2 12 95 98; D2 12 95 100; D2 12 95 100; D2 12 95 100; D2 12 95 100; D2 12 95 100; D2 12 95 100; D2 12 95 100;
  D2 12 95 100; D2 12 95 100; D2 12 95 100; D2 12 95 100; D2 12 95 100; D2 12 95 100; D2 12 95 100; D2 12 95 100;
  D2 12 95 100; D2 12 95 102; D2 12 95 102; D2 12 95 102; D2 12 95 102; D2 12 95 102; D2 12 95 102; D2 12 95 102;
  D2 12 95 102; D2 12 95 102; D2 12 95 102; D2 12 95 102; D2 12 95 102; D2 12 95 102; D2 12 95 102; D2 12 95 102;
  D2 12 95 102; D2 12 95 103; D2 12 95 103; D2 12 95 103; D2 12 95 103; D2 12 95 103; D2 12 95 103; D2 12 95 103;
  D2 12 95 103; D2 12 95 103; D2 12 95 103; D2 12 95 103; D2 12 95 103; D2 12 95 103; D2 12 95 103; D2 12 95 103;
  D2 12 95 103; D2 12 95 104; D2 12 95 104; D2 12 95 104; D2 12 95 104; D2 12 95 104; D2 12 95 104; D2 12 95 104;
  D2 12 95 104; D2 12 95 104; D2 12 95 104; D2 12 95 104; D2 12 95 104; D2 12 95 104; D2 12 95 104; D2 12 95 104;
  D2 12 95 104; D2 12 95 108; D2 12 95 108; D2 12 95 108; D2 12 95 108; D2 12 95 108; D2 12 95 108; D2 12 95 108;
  D2 12 95 108; D2 12 95 108; D2 12 95 108; D2 12 95 108; D2 12 95 108; D2 12 95 108; D2 12 95 108; D2 12 95 108;
  D2 12 95 108; D2 12 95 109; D2 12 95 109; D2 12 95 109; D2 12 95 109; D2 12 95 109; D2 12 95 109; D2 12 95 109;
  D2 12 95 109; D2 12 95 109; D2 12 95 109; D2 12 95 109; D2 12 95 109; D2 12 95 109; D2 12 95 109; D2 12 95 109;
  D2 12 95 109; D2 12 95 110; D2 12 95 110; D2 12 95 110; D2 12 95 110; D2 12 95 110; D2 12 95 110; D2 12 95 110;
  D2 12 95 110; D2 12 95 110; D2 12 95 110; D2 12 95 110; D2 12 95 110; D2 12 95 110; D2 12 95 110; D2 12 95 110;
  D2 12 95 110; D2 12 95 112; D2 12 95 112; D2 12 95 112; D2 12 95 112; D2 12 95 112; D2 12 95 112; D2 12 95 112;
  D2 12 95 112; D2 12 95 112; D2 12 95 112; D2 12 95 112; D2 12 95 112; D2 12 95 112; D2 12 95 112; D2 12 95 112;
  D2 12 95 112; D2 12 95 114; D2 12 95 114; D2 12 95 114; D2 12 95 114; D2 12 95 114; D2 12 95 114; D2 12 95 114;
  D2 12 95 114; D2 12 95 114; D2 12 95 114; D2 12 95 114; D2 12 95 114; D2 12 95 114; D2 12 95 114; D2 12 95 114;
  D2 12 95 114; D2 12 95 117; D2 12 95 117; D2 12 95 117; D2 12 95 117; D2 12 95 117; D2 12 95 117; D2 12 95 117;
  D2 12 95 117; D2 12 95 117; D2 12 95 117; D2 12 95 117; D2 12 95 117; D2 12 95 117; D2 12 95 117; D2 12 95 117;
  D2 12 95 117; D2 13 95 58; D2 13 95 58; D2 13 95 58; D2 13 95 58; D2 13 95 58; D2 13 95 58; D2 13 95 58;
  D2 13 95 58; D2 13 95 66; D2 13 95 66; D2 13 95 66; D2 13 95 66; D2 13 95 66; D2 13 95 66; D2 13 95 66; D2 13 95 66;
  D2 13 95 67; D2 13 95 67; D2 13 95 67; D2 13 95 67; D2 13 95 67; D2 13 95 67; D2 13 95 67; D2 13 95 67; D2 13 95 68;
  D2 13 95 68; D2 13 95 68; D2 13 95 68; D2 13 95 68; D2 13 95 68; D2 13 95 68; D2 13 95 68].
Definition hdecs_139 : list hdec := [
  D2 13 95 69; D2 13 95 69; D2 13 95 69; D2 13 95 69; D2 13 95 69; D2 13 95 69; D2 13 95 69; D2 13 95 69; D2 13 95 70;
  D2 13 95 70; D2 13 95 70; D2 13 95 70; D2 13 95 70; D2 13 95 70; D2 13 95 70; D2 13 95 70; D2 13 95 71; D2 13 95 71;
  D2 13 95 71; D2 13 95 71; D2 13 95 71; D2 13 95 71; D2 13 95 71; D2 13 95 71; D2 13 95 72; D2 13 95 72; D2 13 95 72;
  D2 13 95 72; D2 13 95 72; D2 13 95 72; D2 13 95 72; D2 13 95 72; D2 13 95 73; D2 13 95 73; D2 13 95 73; D2 13 95 73;
  D2 13 95 73; D2 13 95 73; D2 13 95 73; D2 13 95 73; D2 13 95 74; D2 13 95 74; D2 13 95 74; D2 13 95 74; D2 13 95 74;
  D2 13 95 74; D2 13 95 74; D2 13 95 74; D2 13 95 75; D2 13 95 75; D2 13 95 75; D2 13 95 75; D2 13 95 75; D2 13 95 75;
  D2 13 95 75; D2 13 95 75; D2 13 95 76; D2 13 95 76; D2 13 95 76; D2 13 95 76; D2 13 95 76; D2 13 95 76; D2 13 95 76;
  D2 13 95 76; D2 13 95 77; D2 13 95 77; D2 13 95 77; D2 13 95 77; D2 13 95 77; D2 13 95 77; D2 13 95 77; D2 13 95 77;
  D2 13 95 78; D2 13 95 78; D2 13 95 78; D2 13 95 78; D2 13 95 78; D2 13 95 78; D2 13 95 78; D2 13 95 78; D2 13 95 79;
  D2 13 95 79; D2 13 95 79; D2 13 95 79; D2 13 95 79; D2 13 95 79; D2 13 95 79; D2 13 95 79; D2 13 95 80; D2 13 95 80;
  D2 13 95 80; D2 13 95 80; D2 13 95 80; D2 13 95 80; D2 13 95 80; D2 13 95 80; D2 13 95 81; D2 13 95 81; D2 13 95 81;
  D2 13 95 81; D2 13 95 81; D2 13 95 81; D2 13 95 81; D2 13 95 81; D2 13 95 82; D2 13 95 82; D2 13 95 82; D2 13 95 82;
  D2 13 95 82; D2 13 95 82; D2 13 95 82; D2 13 95 82; D2 13 95 83; D2 13 95 83; D2 13 95 83; D2 13 95 83; D2 13 95 83;
  D2 13 95 83; D2 13 95 83; D2 13 95 83; D2 13 95 84; D2 13 95 84; D2 13 95 84; D2 13 95 84; D2 13 95 84; D2 13 95 84;
  D2 13 95 84; D2 13 95 84; D2 13 95 85; D2 13 95 85; D2 13 95 85; D2 13 95 85; D2 13 95 85; D2 13 95 85; D2 13 95 85;
  D2 13 95 85; D2 13 95 86; D2 13 95 86; D2 13 95 86; D2 13 95 86; D2 13 95 86; D2 13 95 86; D2 13 95 86; D2 13 95 86;
  D2 13 95 87; D2 13 95 87; D2 13 95 87; D2 13 95 87; D2 13 95 87; D2 13 95 87; D2 13 95 87; D2 13 95 87; D2 13 95 89;
  D2 13 95 89; D2 13 95 89; D2 13 95 89; D2 13 95 89; D2 13 95 89; D2 13 95 89; D2 13 95 89; D2 13 95 106;
  D2 13 95 106; D2 13 95 106; D2 13 95 106; D2 13 95 106; D2 13 95 106; D2 13 95 106; D2 13 95 106; D2 13 95 107;
  D2 13 95 107; D2 13 95 107; D2 13 95 107; D2 13 95 107; D2 13 95 107; D2 13 95 107; D2 13 95 107; D2 13 95 113;
  D2 13 95 113; D2 13 95 113; D2 13 95 113; D2 13 95 113; D2 13 95 113; D2 13 95 113; D2 13 95 113; D2 13 95 118;
  D2 13 95 118; D2 13 95 118; D2 13 95 118; D2 13 95 118; D2 13 95 118; D2 13 95 118; D2 13 95 118; D2 13 95 119;
  D2 13 95 119; D2 13 95 119; D2 13 95 119; D2 13 95 119; D2 13 95 119; D2 13 95 119; D2 13 95 119; D2 13 95 120;
  D2 13 95 120; D2 13 95 120; D2 13 95 120; D2 13 95 120; D2 13 95 120; D2 13 95 120; D2 13 95 120; D2 13 95 121;
  D2 13 95 121; D2 13 95 121; D2 13 95 121; D2 13 95 121; D2 13 95 121; D2 13 95 121; D2 13 95 121; D2 13 95 122;
  D2 13 95 122; D2 13 95 122; D2 13 95 122; D2 13 95 122; D2 13 95 122; D2 13 95 122; D2 13 95 122; D2 14 95 38;
  D2 14 95 38; D2 14 95 38; D2 14 95 38; D2 14 95 42; D2 14 95 42; D2 14 95 42; D2 14 95 42; D2 14 95 44; D2 14 95 44;
  D2 14 95 44; D2 14 95 44; D2 14 95 59; D2 14 95 59; D2 14 95 59; D2 14 95 59; D2 14 95 88; D2 14 95 88; D2 14 95 88;
  D2 14 95 88; D2 14 95 90; D2 14 95 90; D2 14 95 90; D2 14 95 90; D2 16 95 33; D2 16 95 34; D2 16 95 40; D2 16 95 41;
  D2 16 95 63; D1 6 95; D1 6 95; D1 6 95].
Definition hdecs_140 : list hdec := [
  D3 16 98 48 48; D3 16 98 48 49; D3 16 98 48 50; D3 16 98 48 97; D3 16 98 48 99; D3 16 98 48 101; D3 16 98 48 105;
  D3 16 98 48 111; D3 16 98 48 115; D3 16 98 48 116; D2 11 98 48; D2 11 98 48; D2 11 98 48; D2 11 98 48; D2 11 98 48;
  D2 11 98 48; D2 11 98 48; D2 11 98 48; D2 11 98 48; D2 11 98 48; D2 11 98 48; D2 11 98 48; D2 11 98 48; D2 11 98 48;
  D2 11 98 48; D2 11 98 48; D2 11 98 48; D2 11 98 48; D2 11 98 48; D2 11 98 48; D2 11 98 48; D2 11 98 48;
  D3 16 98 49 48; D3 16 98 49 49; D3 16 98 49 50; D3 16 98 49 97; D3 16 98 49 99; D3 16 98 49 101; D3 16 98 49 105;
  D3 16 98 49 111; D3 16 98 49 115; D3 16 98 49 116; D2 11 98 49; D2 11 98 49; D2 11 98 49; D2 11 98 49; D2 11 98 49;
  D2 11 98 49; D2 11 98 49; D2 11 98 49; D2 11 98 49; D2 11 98 49; D2 11 98 49; D2 11 98 49; D2 11 98 49; D2 11 98 49;
  D2 11 98 49; D2 11 98 49; D2 11 98 49; D2 11 98 49; D2 11 98 49; D2 11 98 49; D2 11 98 49; D2 11 98 49;
  D3 16 98 50 48; D3 16 98 50 49; D3 16 98 50 50; D3 16 98 50 97; D3 16 98 50 99; D3 16 98 50 101; D3 16 98 50 105;
  D3 16 98 50 111; D3 16 98 50 115; D3 16 98 50 116; D2 11 98 50; D2 11 98 50; D2 11 98 50; D2 11 98 50; D2 11 98 50;
  D2 11 98 50; D2 11 98 50; D2 11 98 50; D2 11 98 50; D2 11 98 50; D2 11 98 50; D2 11 98 50; D2 11 98 50; D2 11 98 50;
  D2 11 98 50; D2 11 98 50; D2 11 98 50; D2 11 98 50; D2 11 98 50; D2 11 98 50; D2 11 98 50; D2 11 98 50;
  D3 16 98 97 48; D3 16 98 97 49; D3 16 98 97 50; D3 16 98 97 97; D3 16 98 97 99; D3 16 98 97 101; D3 16 98 97 105;
  D3 16 98 97 111; D3 16 98 97 115; D3 16 98 97 116; D2 11 98 97; D2 11 98 97; D2 11 98 97; D2 11 98 97; D2 11 98 97;
  D2 11 98 97; D2 11 98 97; D2 11 98 97; D2 11 98 97; D2 11 98 97; D2 11 98 97; D2 11 98 97; D2 11 98 97; D2 11 98 97;
  D2 11 98 97; D2 11 98 97; D2 11 98 97; D2 11 98 97; D2 11 98 97; D2 11 98 97; D2 11 98 97; D2 11 98 97;
  D3 16 98 99 48; D3 16 98 99 49; D3 16 98 99 50; D3 16 98 99 97; D3 16 98 99 99; D3 16 98 99 101; D3 16 98 99 105;
  D3 16 98 99 111; D3 16 98 99 115; D3 16 98 99 116; D2 11 98 99; D2 11 98 99; D2 11 98 99; D2 11 98 99; D2 11 98 99;
  D2 11 98 99; D2 11 98 99; D2 11 98 99; D2 11 98 99; D2 11 98 99; D2 11 98 99; D2 11 98 99; D2 11 98 99; D2 11 98 99;
  D2 11 98 99; D2 11 98 99; D2 11 98 99; D2 11 98 99; D2 11 98 99; D2 11 98 99; D2 11 98 99; D2 11 98 99;
  D3 16 98 101 48; D3 16 98 101 49; D3 16 98 101 50; D3 16 98 101 97; D3 16 98 101 99; D3 16 98 101 101;
  D3 16 98 101 105; D3 16 98 101 111; D3 16 98 101 115; D3 16 98 101 116; D2 11 98 101; D2 11 98 101; D2 11 98 101;
  D2 11 98 101; D2 11 98 101; D2 11 98 101; D2 11 98 101; D2 11 98 101; D2 11 98 101; D2 11 98 101; D2 11 98 101;
  D2 11 98 101; D2 11 98 101; D2 11 98 101; D2 11 98 101; D2 11 98 101; D2 11 98 101; D2 11 98 101; D2 11 98 101;
  D2 11 98 101; D2 11 98 101; D2 11 98 101; D3 16 98 105 48; D3 16 98 105 49; D3 16 98 105 50; D3 16 98 105 97;
  D3 16 98 105 99; D3 16 98 105 101; D3 16 98 105 105; D3 16 98 105 111; D3 16 98 105 115; D3 16 98 105 116;
  D2 11 98 105; D2 11 98 105; D2 11 98 105; D2 11 98 105; D2 11 98 105; D2 11 98 105; D2 11 98 105; D2 11 98 105;
  D2 11 98 105; D2 11 98 105; D2 11 98 105; D2 11 98 105; D2 11 98 105; D2 11 98 105; D2 11 98 105; D2 11 98 105;
  D2 11 98 105; D2 11 98 105; D2 11 98 105; D2 11 98 105; D2 11 98 105; D2 11 98 105; D3 16 98 111 48;
  D3 16 98 111 49; D3 16 98 111 50; D3 16 98 111 97; D3 16 98 111 99; D3 16 98 111 101; D3 16 98 111 105;
  D3 16 98 111 111; D3 16 98 111 115; D3 16 98 111 116; D2 11 98 111; D2 11 98 111; D2 11 98 111; D2 11 98 111;
  D2 11 98 111; D2 11 98 111; D2 11 98 111; D2 11 98 111; D2 11 98 111; D2 11 98 111; D2 11 98 111; D2 11 98 111;
  D2 11 98 111; D2 11 98 111; D2 11 98 111; D2 11 98 111; D2 11 98 111; D2 11 98 111; D2 11 98 111; D2 11 98 111;
  D2 11 98 111; D2 11 98 111].
Definition hdecs_141 : list hdec := [
  D3 16 98 115 48; D3 16 98 115 49; D3 16 98 115 50; D3 16 98 115 97; D3 16 98 115 99; D3 16 98 115 101;
  D3 16 98 115 105; D3 16 98 115 111; D3 16 98 115 115; D3 16 98 115 116; D2 11 98 115; D2 11 98 115; D2 11 98 115;
  D2 11 98 115; D2 11 98 115; D2 11 98 115; D2 11 98 115; D2 11 98 115; D2 11 98 115; D2 11 98 115; D2 11 98 115;
  D2 11 98 115; D2 11 98 115; D2 11 98 115; D2 11 98 115; D2 11 98 115; D2 11 98 115; D2 11 98 115; D2 11 98 115;
  D2 11 98 115; D2 11 98 115; D2 11 98 115; D3 16 98 116 48; D3 16 98 116 49; D3 16 98 116 50; D3 16 98 116 97;
  D3 16 98 116 99; D3 16 98 116 101; D3 16 98 116 105; D3 16 98 116 111; D3 16 98 116 115; D3 16 98 116 116;
  D2 11 98 116; D2 11 98 116; D2 11 98 116; D2 11 98 116; D2 11 98 116; D2 11 98 116; D2 11 98 116; D2 11 98 116;
  D2 11 98 116; D2 11 98 116; D2 11 98 116; D2 11 98 116; D2 11 98 116; D2 11 98 116; D2 11 98 116; D2 11 98 116;
  D2 11 98 116; D2 11 98 116; D2 11 98 116; D2 11 98 116; D2 11 98 116; D2 11 98 116; D2 12 98 32; D2 12 98 32;
  D2 12 98 32; D2 12 98 32; D2 12 98 32; D2 12 98 32; D2 12 98 32; D2 12 98 32; D2 12 98 32; D2 12 98 32; D2 12 98 32;
  D2 12 98 32; D2 12 98 32; D2 12 98 32; D2 12 98 32; D2 12 98 32; D2 12 98 37; D2 12 98 37; D2 12 98 37; D2 12 98 37;
  D2 12 98 37; D2 12 98 37; D2 12 98 37; D2 12 98 37; D2 12 98 37; D2 12 98 37; D2 12 98 37; D2 12 98 37; D2 12 98 37;
  D2 12 98 37; D2 12 98 37; D2 12 98 37; D2 12 98 45; D2 12 98 45; D2 12 98 45; D2 12 98 45; D2 12 98 45; D2 12 98 45;
  D2 12 98 45; D2 12 98 45; D2 12 98 45; D2 12 98 45; D2 12 98 45; D2 12 98 45; D2 12 98 45; D2 12 98 45; D2 12 98 45;
  D2 12 98 45; D2 12 98 46; D2 12 98 46; D2 12 98 46; D2 12 98 46; D2 12 98 46; D2 12 98 46; D2 12 98 46; D2 12 98 46;
  D2 12 98 46; D2 12 98 46; D2 12 98 46; D2 12 98 46; D2 12 98 46; D2 12 98 46; D2 12 98 46; D2 12 98 46; D2 12 98 47;
  D2 12 98 47; D2 12 98 47; D2 12 98 47; D2 12 98 47; D2 12 98 47; D2 12 98 47; D2 12 98 47; D2 12 98 47; D2 12 98 47;
  D2 12 98 47; D2 12 98 47; D2 12 98 47; D2 12 98 47; D2 12 98 47; D2 12 98 47; D2 12 98 51; D2 12 98 51; D2 12 98 51;
  D2 12 98 51; D2 12 98 51; D2 12 98 51; D2 12 98 51; D2 12 98 51; D2 12 98 51; D2 12 98 51; D2 12 98 51; D2 12 98 51;
  D2 12 98 51; D2 12 98 51; D2 12 98 51; D2 12 98 51; D2 12 98 52; D2 12 98 52; D2 12 98 52; D2 12 98 52; D2 12 98 52;
  D2 12 98 52; D2 12 98 52; D2 12 98 52; D2 12 98 52; D2 12 98 52; D2 12 98 52; D2 12 98 52; D2 12 98 52; D2 12 98 52;
  D2 12 98 52; D2 12 98 52; D2 12 98 53; D2 12 98 53; D2 12 98 53; D2 12 98 53; D2 12 98 53; D2 12 98 53; D2 12 98 53;
  D2 12 98 53; D2 12 98 53; D2 12 98 53; D2 12 98 53; D2 12 98 53; D2 12 98 53; D2 12 98 53; D2 12 98 53; D2 12 98 53;
  D2 12 98 54; D2 12 98 54; D2 12 98 54; D2 12 98 54; D2 12 98 54; D2 12 98 54; D2 12 98 54; D2 12 98 54; D2 12 98 54;
  D2 12 98 54; D2 12 98 54; D2 12 98 54; D2 12 98 54; D2 12 98 54; D2 12 98 54; D2 12 98 54; D2 12 98 55; D2 12 98 55;
  D2 12 98 55; D2 12 98 55; D2 12 98 55; D2 12 98 55; D2 12 98 55; D2 12 98 55; D2 12 98 55; D2 12 98 55; D2 12 98 55;
  D2 12 98 55; D2 12 98 55; D2 12 98 55; D2 12 98 55; D2 12 98 55; D2 12 98 56; D2 12 98 56; D2 12 98 56; D2 12 98 56;
  D2 12 98 56; D2 12 98 56; D2 12 98 56; D2 12 98 56; D2 12 98 56; D2 12 98 56; D2 12 98 56; D2 12 98 56; D2 12 98 56;
  D2 12 98 56; D2 12 98 56; D2 12 98 56; D2 12 98 57; D2 12 98 57; D2 12 98 57; D2 12 98 57; D2 12 98 57; D2 12 98 57;
  D2 12 98 57; D2 12 98 57; D2 12 98 57; D2 12 98 57; D2 12 98 57; D2 12 98 57; D2 12 98 57; D2 12 98 57; D2 12 98 57;
  D2 12 98 57].
Definition hdecs_142 : list hdec := [
  D2 12 98 61; D2 12 98 61; D2 12 98 61; D2 12 98 61; D2 12 98 61; D2 12 98 61; D2 12 98 61; D2 12 98 61; D2 12 98 61;
  D2 12 98 61; D2 12 98 61; D2 12 98 61; D2 12 98 61; D2 12 98 61; D2 12 98 61; D2 12 98 61; D2 12 98 65; D2 12 98 65;
  D2 12 98 65; D2 12 98 65; D2 12 98 65; D2 12 98 65; D2 12 98 65; D2 12 98 65; D2 12 98 65; D2 12 98 65; D2 12 98 65;
  D2 12 98 65; D2 12 98 65; D2 12 98 65; D2 12 98 65; D2 12 98 65; D2 12 98 95; D2 12 98 95; D2 12 98 95; D2 12 98 95;
  D2 12 98 95; D2 12 98 95; D2 12 98 95; D2 12 98 95; D2 12 98 95; D2 12 98 95; D2 12 98 95; D2 12 98 95; D2 12 98 95;
  D2 12 98 95; D2 12 98 95; D2 12 98 95; D2 12 98 98; D2 12 98 98; D2 12 98 98; D2 12 98 98; D2 12 98 98; D2 12 98 98;
  D2 12 98 98; D2 12 98 98; D2 12 98 98; D2 12 98 98; D2 12 98 98; D2 12 98 98; D2 12 98 98; D2 12 98 98; D2 12 98 98;
  D2 12 98 98; D2 12 98 100; D2 12 98 100; D2 12 98 100; D2 12 98 100; D2 12 98 100; D2 12 98 100; D2 12 98 100;
  D2 12 98 100; D2 12 98 100; D2 12 98 100; D2 12 98 100; D2 12 98 100; D2 12 98 100; D2 12 98 100; D2 12 98 100;
  D2 12 98 100; D2 12 98 102; D2 12 98 102; D2 12 98 102; D2 12 98 102; D2 12 98 102; D2 12 98 102; D2 12 98 102;
  D2 12 98 102; D2 12 98 102; D2 12 98 102; D2 12 98 102; D2 12 98 102; D2 12 98 102; D2 12 98 102; D2 12 98 102;
  D2 12 98 102; D2 12 98 103; D2 12 98 103; D2 12 98 103; D2 12 98 103; D2 12 98 103; D2 12 98 103; D2 12 98 103;
  D2 12 98 103; D2 12 98 103; D2 12 98 103; D2 12 98 103; D2 12 98 103; D2 12 98 103; D2 12 98 103; D2 12 98 103;
  D2 12 98 103; D2 12 98 104; D2 12 98 104; D2 12 98 104; D2 12 98 104; D2 12 98 104; D2 12 98 104; D2 12 98 104;
  D2 12 98 104; D2 12 98 104; D2 12 98 104; D2 12 98 104; D2 12 98 104; D2 12 98 104; D2 12 98 104; D2 12 98 104;
  D2 12 98 104; D2 12 98 108; D2 12 98 108; D2 12 98 108; D2 12 98 108; D2 12 98 108; D2 12 98 108; D2 12 98 108;
  D2 12 98 108; D2 12 98 108; D2 12 98 108; D2 12 98 108; D2 12 98 108; D2 12 98 108; D2 12 98 108; D2 12 98 108;
  D2 12 98 108; D2 12 98 109; D2 12 98 109; D2 12 98 109; D2 12 98 109; D2 12 98 109; D2 12 98 109; D2 12 98 109;
  D2 12 98 109; D2 12 98 109; D2 12 98 109; D2 12 98 109; D2 12 98 109; D2 12 98 109; D2 12 98 109; D2 12 98 109;
  D2 12 98 109; D2 12 98 110; D2 12 98 110; D2 12 98 110; D2 12 98 110; D2 12 98 110; D2 12 98 110; D2 12 98 110;
  D2 12 98 110; D2 12 98 110; D2 12 98 110; D2 12 98 110; D2 12 98 110; D2 12 98 110; D2 12 98 110; D2 12 98 110;
  D2 12 98 110; D2 12 98 112; D2 12 98 112; D2 12 98 112; D2 12 98 112; D2 12 98 112; D2 12 98 112; D2 12 98 112;
  D2 12 98 112; D2 12 98 112; D2 12 98 112; D2 12 98 112; D2 12 98 112; D2 12 98 112; D2 12 98 112; D2 12 98 112;
  D2 12 98 112; D2 12 98 114; D2 12 98 114; D2 12 98 114; D2 12 98 114; D2 12 98 114; D2 12 98 114; D2 12 98 114;
  D2 12 98 114; D2 12 98 114; D2 12 98 114; D2 12 98 114; D2 12 98 114; D2 12 98 114; D2 12 98 114; D2 12 98 114;
  D2 12 98 114; D2 12 98 117; D2 12 98 117; D2 12 98 117; D2 12 98 117; D2 12 98 117; D2 12 98 117; D2 12 98 117;
  D2 12 98 117; D2 12 98 117; D2 12 98 117; D2 12 98 117; D2 12 98 117; D2 12 98 117; D2 12 98 117; D2 12 98 117;
  D2 12 98 117; D2 13 98 58; D2 13 98 58; D2 13 98 58; D2 13 98 58; D2 13 98 58; D2 13 98 58; D2 13 98 58;
  D2 13 98 58; D2 13 98 66; D2 13 98 66; D2 13 98 66; D2 13 98 66; D2 13 98 66; D2 13 98 66; D2 13 98 66; D2 13 98 66;
  D2 13 98 67; D2 13 98 67; D2 13 98 67; D2 13 98 67; D2 13 98 67; D2 13 98 67; D2 13 98 67; D2 13 98 67; D2 13 98 68;
  D2 13 98 68; D2 13 98 68; D2 13 98 68; D2 13 98 68; D2 13 98 68; D2 13 98 68; D2 13 98 68].
Definition hdecs_143 : list hdec := [
  D2 13 98 69; D2 13 98 69; D2 13 98 69; D2 13 98 69; D2 13 98 69; D2 13 98 69; D2 13 98 69; D2 13 98 69; D2 13 98 70;
  D2 13 98 70; D2 13 98 70; D2 13 98 70; D2 13 98 70; D2 13 98 70; D2 13 98 70; D2 13 98 70; D2 13 98 71; D2 13 98 71;
  D2 13 98 71; D2 13 98 71; D2 13 98 71; D2 13 98 71; D2 13 98 71; D2 13 98 71; D2 13 98 72; D2 13 98 72; D2 13 98 72;
  D2 13 98 72; D2 13 98 72; D2 13 98 72; D2 13 98 72; D2 13 98 72; D2 13 98 73; D2 13 98 73; D2 13 98 73; D2 13 98 73;
  D2 13 98 73; D2 13 98 73; D2 13 98 73; D2 13 98 73; D2 13 98 74; D2 13 98 74; D2 13 98 74; D2 13 98 74; D2 13 98 74;
  D2 13 98 74; D2 13 98 74; D2 13 98 74; D2 13 98 75; D2 13 98 75; D2 13 98 75; D2 13 98 75; D2 13 98 75; D2 13 98 75;
  D2 13 98 75; D2 13 98 75; D2 13 98 76; D2 13 98 76; D2 13 98 76; D2 13 98 76; D2 13 98 76; D2 13 98 76; D2 13 98 76;
  D2 13 98 76; D2 13 98 77; D2 13 98 77; D2 13 98 77; D2 13 98 77; D2 13 98 77; D2 13 98 77; D2 13 98 77; D2 13 98 77;
  D2 13 98 78; D2 13 98 78; D2 13 98 78; D2 13 98 78; D2 13 98 78; D2 13 98 78; D2 13 98 78; D2 13 98 78; D2 13 98 79;
  D2 13 98 79; D2 13 98 79; D2 13 98 79; D2 13 98 79; D2 13 98 79; D2 13 98 79; D2 13 98 79; D2 13 98 80; D2 13 98 80;
  D2 13 98 80; D2 13 98 80; D2 13 98 80; D2 13 98 80; D2 13 98 80; D2 13 98 80; D2 13 98 81; D2 13 98 81; D2 13 98 81;
  D2 13 98 81; D2 13 98 81; D2 13 98 81; D2 13 98 81; D2 13 98 81; D2 13 98 82; D2 13 98 82; D2 13 98 82; D2 13 98 82;
  D2 13 98 82; D2 13 98 82; D2 13 98 82; D2 13 98 82; D2 13 98 83; D2 13 98 83; D2 13 98 83; D2 13 98 83; D2 13 98 83;
  D2 13 98 83; D2 13 98 83; D2 13 98 83; D2 13 98 84; D2 13 98 84; D2 13 98 84; D2 13 98 84; D2 13 98 84; D2 13 98 84;
  D2 13 98 84; D2 13 98 84; D2 13 98 85; D2 13 98 85; D2 13 98 85; D2 13 98 85; D2 13 98 85; D2 13 98 85; D2 13 98 85;
  D2 13 98 85; D2 13 98 86; D2 13 98 86; D2 13 98 86; D2 13 98 86; D2 13 98 86; D2 13 98 86; D2 13 98 86; D2 13 98 86;
  D2 13 98 87; D2 13 98 87; D2 13 98 87; D2 13 98 87; D2 13 98 87; D2 13 98 87; D2 13 98 87; D2 13 98 87; D2 13 98 89;
  D2 13 98 89; D2 13 98 89; D2 13 98 89; D2 13 98 89; D2 13 98 89; D2 13 98 89; D2 13 98 89; D2 13 98 106;
  D2 13 98 106; D2 13 98 106; D2 13 98 106; D2 13 98 106; D2 13 98 106; D2 13 98 106; D2 13 98 106; D2 13 98 107;
  D2 13 98 107; D2 13 98 107; D2 13 98 107; D2 13 98 107; D2 13 98 107; D2 13 98 107; D2 13 98 107; D2 13 98 113;
  D2 13 98 113; D2 13 98 113; D2 13 98 113; D2 13 98 113; D2 13 98 113; D2 13 98 113; D2 13 98 113; D2 13 98 118;
  D2 13 98 118; D2 13 98 118; D2 13 98 118; D2 13 98 118; D2 13 98 118; D2 13 98 118; D2 13 98 118; D2 13 98 119;
  D2 13 98 119; D2 13 98 119; D2 13 98 119; D2 13 98 119; D2 13 98 119; D2 13 98 119; D2 13 98 119; D2 13 98 120;
  D2 13 98 120; D2 13 98 120; D2 13 98 120; D2 13 98 120; D2 13 98 120; D2 13 98 120; D2 13 98 120; D2 13 98 121;
  D2 13 98 121; D2 13 98 121; D2 13 98 121; D2 13 98 121; D2 13 98 121; D2 13 98 121; D2 13 98 121; D2 13 98 122;
  D2 13 98 122; D2 13 98 122; D2 13 98 122; D2 13 98 122; D2 13 98 122; D2 13 98 122; D2 13 98 122; D2 14 98 38;
  D2 14 98 38; D2 14 98 38; D2 14 98 38; D2 14 98 42; D2 14 98 42; D2 14 98 42; D2 14 98 42; D2 14 98 44; D2 14 98 44;
  D2 14 98 44; D2 14 98 44; D2 14 98 59; D2 14 98 59; D2 14 98 59; D2 14 98 59; D2 14 98 88; D2 14 98 88; D2 14 98 88;
  D2 14 98 88; D2 14 98 90; D2 14 98 90; D2 14 98 90; D2 14 98 90; D2 16 98 33; D2 16 98 34; D2 16 98 40; D2 16 98 41;
  D2 16 98 63; D1 6 98; D1 6 98; D1 6 98].
Definition hdecs_144 : list hdec := [
  D3 16 100 48 48; D3 16 100 48 49; D3 16 100 48 50; D3 16 100 48 97; D3 16 100 48 99; D3 16 100 48 101;
  D3 16 100 48 105; D3 16 100 48 111; D3 16 100 48 115; D3 16 100 48 116; D2 11 100 48; D2 11 100 48; D2 11 100 48;
  D2 11 100 48; D2 11 100 48; D2 11 100 48; D2 11 100 48; D2 11 100 48; D2 11 100 48; D2 11 100 48; D2 11 100 48;
  D2 11 100 48; D2 11 100 48; D2 11 100 48; D2 11 100 48; D2 11 100 48; D2 11 100 48; D2 11 100 48; D2 11 100 48;
  D2 11 100 48; D2 11 100 48; D2 11 100 48; D3 16 100 49 48; D3 16 100 49 49; D3 16 100 49 50; D3 16 100 49 97;
  D3 16 100 49 99; D3 16 100 49 101; D3 16 100 49 105; D3 16 100 49 111; D3 16 100 49 115; D3 16 100 49 116;
  D2 11 100 49; D2 11 100 49; D2 11 100 49; D2 11 100 49; D2 11 100 49; D2 11 100 49; D2 11 100 49; D2 11 100 49;
  D2 11 100 49; D2 11 100 49; D2 11 100 49; D2 11 100 49; D2 11 100 49; D2 11 100 49; D2 11 100 49; D2 11 100 49;
  D2 11 100 49; D2 11 100 49; D2 11 100 49; D2 11 100 49; D2 11 100 49; D2 11 100 49; D3 16 100 50 48;
  D3 16 100 50 49; D3 16 100 50 50; D3 16 100 50 97; D3 16 100 50 99; D3 16 100 50 101; D3 16 100 50 105;
  D3 16 100 50 111; D3 16 100 50 115; D3 16 100 50 116; D2 11 100 50; D2 11 100 50; D2 11 100 50; D2 11 100 50;
  D2 11 100 50; D2 11 100 50; D2 11 100 50; D2 11 100 50; D2 11 100 50; D2 11 100 50; D2 11 100 50; D2 11 100 50;
  D2 11 100 50; D2 11 100 50; D2 11 100 50; D2 11 100 50; D2 11 100 50; D2 11 100 50; D2 11 100 50; D2 11 100 50;
  D2 11 100 50; D2 11 100 50; D3 16 100 97 48; D3 16 100 97 49; D3 16 100 97 50; D3 16 100 97 97; D3 16 100 97 99;
  D3 16 100 97 101; D3 16 100 97 105; D3 16 100 97 111; D3 16 100 97 115; D3 16 100 97 116; D2 11 100 97;
  D2 11 100 97; D2 11 100 97; D2 11 100 97; D2 11 100 97; D2 11 100 97; D2 11 100 97; D2 11 100 97; D2 11 100 97;
  D2 11 100 97; D2 11 100 97; D2 11 100 97; D2 11 100 97; D2 11 100 97; D2 11 100 97; D2 11 100 97; D2 11 100 97;
  D2 11 100 97; D2 11 100 97; D2 11 100 97; D2 11 100 97; D2 11 100 97; D3 16 100 99 48; D3 16 100 99 49;
  D3 16 100 99 50; D3 16 100 99 97; D3 16 100 99 99; D3 16 100 99 101; D3 16 100 99 105; D3 16 100 99 111;
  D3 16 100 99 115; D3 16 100 99 116; D2 11 100 99; D2 11 100 99; D2 11 100 99; D2 11 100 99; D2 11 100 99;
  D2 11 100 99; D2 11 100 99; D2 11 100 99; D2 11 100 99; D2 11 100 99; D2 11 100 99; D2 11 100 99; D2 11 100 99;
  D2 11 100 99; D2 11 100 99; D2 11 100 99; D2 11 100 99; D2 11 100 99; D2 11 100 99; D2 11 100 99; D2 11 100 99;
  D2 11 100 99; D3 16 100 101 48; D3 16 100 101 49; D3 16 100 101 50; D3 16 100 101 97; D3 16 100 101 99;
  D3 16 100 101 101; D3 16 100 101 105; D3 16 100 101 111; D3 16 100 101 115; D3 16 100 101 116; D2 11 100 101;
  D2 11 100 101; D2 11 100 101; D2 11 100 101; D2 11 100 101; D2 11 100 101; D2 11 100 101; D2 11 100 101;
  D2 11 100 101; D2 11 100 101; D2 11 100 101; D2 11 100 101; D2 11 100 101; D2 11 100 101; D2 11 100 101;
  D2 11 100 101; D2 11 100 101; D2 11 100 101; D2 11 100 101; D2 11 100 101; D2 11 100 101; D2 11 100 101;
  D3 16 100 105 48; D3 16 100 105 49; D3 16 100 105 50; D3 16 100 105 97; D3 16 100 105 99; D3 16 100 105 101;
  D3 16 100 105 105; D3 16 100 105 111; D3 16 100 105 115; D3 16 100 105 116; D2 11 100 105; D2 11 100 105;
  D2 11 100 105; D2 11 100 105; D2 11 100 105; D2 11 100 105; D2 11 100 105; D2 11 100 105; D2 11 100 105;
  D2 11 100 105; D2 11 100 105; D2 11 100 105; D2 11 100 105; D2 11 100 105; D2 11 100 105; D2 11 100 105;
  D2 11 100 105; D2 11 100 105; D2 11 100 105; D2 11 100 105; D2 11 100 105; D2 11 100 105; D3 16 100 111 48;
  D3 16 100 111 49; D3 16 100 111 50; D3 16 100 111 97; D3 16 100 111 99; D3 16 100 111 101; D3 16 100 111 105;
  D3 16 100 111 111; D3 16 100 111 115; D3 16 100 111 116; D2 11 100 111; D2 11 100 111; D2 11 100 111; D2 11 100 111;
  D2 11 100 111; D2 11 100 111; D2 11 100 111; D2 11 100 111; D2 11 100 111; D2 11 100 111; D2 11 100 111;
  D2 11 100 111; D2 11 100 111; D2 11 100 111; D2 11 100 111; D2 11 100 111; D2 11 100 111; D2 11 100 111;
  D2 11 100 111; D2 11 100 111; D2 11 100 111; D2 11 100 111].
Definition hdecs_145 : list hdec := [
  D3 16 100 115 48; D3 16 100 115 49; D3 16 100 115 50; D3 16 100 115 97; D3 16 100 115 99; D3 16 100 115 101;
  D3 16 100 115 105; D3 16 100 115 111; D3 16 100 115 115; D3 16 100 115 116; D2 11 100 115; D2 11 100 115;
  D2 11 100 115; D2 11 100 115; D2 11 100 115; D2 11 100 115; D2 11 100 115; D2 11 100 115; D2 11 100 115;
  D2 11 100 115; D2 11 100 115; D2 11 100 115; D2 11 100 115; D2 11 100 115; D2 11 100 115; D2 11 100 115;
  D2 11 100 115; D2 11 100 115; D2 11 100 115; D2 11 100 115; D2 11 100 115; D2 11 100 115; D3 16 100 116 48;
  D3 16 100 116 49; D3 16 100 116 50; D3 16 100 116 97; D3 16 100 116 99; D3 16 100 116 101; D3 16 100 116 105;
  D3 16 100 116 111; D3 16 100 116 115; D3 16 100 116 116; D2 11 100 116; D2 11 100 116; D2 11 100 116; D2 11 100 116;
  D2 11 100 116; D2 11 100 116; D2 11 100 116; D2 11 100 116; D2 11 100 116; D2 11 100 116; D2 11 100 116;
  D2 11 100 116; D2 11 100 116; D2 11 100 116; D2 11 100 116; D2 11 100 116; D2 11 100 116; D2 11 100 116;
  D2 11 100 116; D2 11 100 116; D2 11 100 116; D2 11 100 116; D2 12 100 32; D2 12 100 32; D2 12 100 32; D2 12 100 32;
  D2 12 100 32; D2 12 100 32; D2 12 100 32; D2 12 100 32; D2 12 100 32; D2 12 100 32; D2 12 100 32; D2 12 100 32;
  D2 12 100 32; D2 12 100 32; D2 12 100 32; D2 12 100 32; D2 12 100 37; D2 12 100 37; D2 12 100 37; D2 12 100 37;
  D2 12 100 37; D2 12 100 37; D2 12 100 37; D2 12 100 37; D2 12 100 37; D2 12 100 37; D2 12 100 37; D2 12 100 37;
  D2 12 100 37; D2 12 100 37; D2 12 100 37; D2 12 100 37; D2 12 100 45; D2 12 100 45; D2 12 100 45; D2 12 100 45;
  D2 12 100 45; D2 12 100 45; D2 12 100 45; D2 12 100 45; D2 12 100 45; D2 12 100 45; D2 12 100 45; D2 12 100 45;
  D2 12 100 45; D2 12 100 45; D2 12 100 45; D2 12 100 45; D2 12 100 46; D2 12 100 46; D2 12 100 46; D2 12 100 46;
  D2 12 100 46; D2 12 100 46; D2 12 100 46; D2 12 100 46; D2 12 100 46; D2 12 100 46; D2 12 100 46; D2 12 100 46;
  D2 12 100 46; D2 12 100 46; D2 12 100 46; D2 12 100 46; D2 12 100 47; D2 12 100 47; D2 12 100 47; D2 12 100 47;
  D2 12 100 47; D2 12 100 47; D2 12 100 47; D2 12 100 47; D2 12 100 47; D2 12 100 47; D2 12 100 47; D2 12 100 47;
  D2 12 100 47; D2 12 100 47; D2 12 100 47; D2 12 100 47; D2 12 100 51; D2 12 100 51; D2 12 100 51; D2 12 100 51;
  D2 12 100 51; D2 12 100 51; D2 12 100 51; D2 12 100 51; D2 12 100 51; D2 12 100 51; D2 12 100 51; D2 12 100 51;
  D2 12 100 51; D2 12 100 51; D2 12 100 51; D2 12 100 51; D2 12 100 52; D2 12 100 52; D2 12 100 52; D2 12 100 52;
  D2 12 100 52; D2 12 100 52; D2 12 100 52; D2 12 100 52; D2 12 100 52; D2 12 100 52; D2 12 100 52; D2 12 100 52;
  D2 12 100 52; D2 12 100 52; D2 12 100 52; D2 12 100 52; D2 12 100 53; D2 12 100 53; D2 12 100 53; D2 12 100 53;
  D2 12 100 53; D2 12 100 53; D2 12 100 53; D2 12 100 53; D2 12 100 53; D2 12 100 53; D2 12 100 53; D2 12 100 53;
  D2 12 100 53; D2 12 100 53; D2 12 100 53; D2 12 100 53; D2 12 100 54; D2 12 100 54; D2 12 100 54; D2 12 100 54;
  D2 12 100 54; D2 12 100 54; D2 12 100 54; D2 12 100 54; D2 12 100 54; D2 12 100 54; D2 12 100 54; D2 12 100 54;
  D2 12 100 54; D2 12 100 54; D2 12 100 54; D2 12 100 54; D2 12 100 55; D2 12 100 55; D2 12 100 55; D2 12 100 55;
  D2 12 100 55; D2 12 100 55; D2 12 100 55; D2 12 100 55; D2 12 100 55; D2 12 100 55; D2 12 100 55; D2 12 100 55;
  D2 12 100 55; D2 12 100 55; D2 12 100 55; D2 12 100 55; D2 12 100 56; D2 12 100 56; D2 12 100 56; D2 12 100 56;
  D2 12 100 56; D2 12 100 56; D2 12 100 56; D2 12 100 56; D2 12 100 56; D2 12 100 56; D2 12 100 56; D2 12 100 56;
  D2 12 100 56; D2 12 100 56; D2 12 100 56; D2 12 100 56; D2 12 100 57; D2 12 100 57; D2 12 100 57; D2 12 100 57;
  D2 12 100 57; D2 12 100 57; D2 12 100 57; D2 12 100 57; D2 12 100 57; D2 12 100 57; D2 12 100 57; D2 12 100 57;
  D2 12 100 57; D2 12 100 57; D2 12 100 57; D2 12 100 57].
Definition hdecs_146 : list hdec := [
  D2 12 100 61; D2 12 100 61; D2 12 100 61; D2 12 100 61; D2 12 100 61; D2 12 100 61; D2 12 100 61; D2 12 100 61;
  D2 12 100 61; D2 12 100 61; D2 12 100 61; D2 12 100 61; D2 12 100 61; D2 12 100 61; D2 12 100 61; D2 12 100 61;
  D2 12 100 65; D2 12 100 65; D2 12 100 65; D2 12 100 65; D2 12 100 65; D2 12 100 65; D2 12 100 65; D2 12 100 65;
  D2 12 100 65; D2 12 100 65; D2 12 100 65; D2 12 100 65; D2 12 100 65; D2 12 100 65; D2 12 100 65; D2 12 100 65;
  D2 12 100 95; D2 12 100 95; D2 12 100 95; D2 12 100 95; D2 12 100 95; D2 12 100 95; D2 12 100 95; D2 12 100 95;
  D2 12 100 95; D2 12 100 95; D2 12 100 95; D2 12 100 95; D2 12 100 95; D2 12 100 95; D2 12 100 95; D2 12 100 95;
  D2 12 100 98; D2 12 100 98; D2 12 100 98; D2 12 100 98; D2 12 100 98; D2 12 100 98; D2 12 100 98; D2 12 100 98;
  D2 12 100 98; D2 12 100 98; D2 12 100 98; D2 12 100 98; D2 12 100 98; D2 12 100 98; D2 12 100 98; D2 12 100 98;
  D2 12 100 100; D2 12 100 100; D2 12 100 100; D2 12 100 100; D2 12 100 100; D2 12 100 100; D2 12 100 100;
  D2 12 100 100; D2 12 100 100; D2 12 100 100; D2 12 100 100; D2 12 100 100; D2 12 100 100; D2 12 100 100;
  D2 12 100 100; D2 12 100 100; D2 12 100 102; D2 12 100 102; D2 12 100 102; D2 12 100 102; D2 12 100 102;
  D2 12 100 102; D2 12 100 102; D2 12 100 102; D2 12 100 102; D2 12 100 102; D2 12 100 102; D2 12 100 102;
  D2 12 100 102; D2 12 100 102; D2 12 100 102; D2 12 100 102; D2 12 100 103; D2 12 100 103; D2 12 100 103;
  D2 12 100 103; D2 12 100 103; D2 12 100 103; D2 12 100 103; D2 12 100 103; D2 12 100 103; D2 12 100 103;
  D2 12 100 103; D2 12 100 103; D2 12 100 103; D2 12 100 103; D2 12 100 103; D2 12 100 103; D2 12 100 104;
  D2 12 100 104; D2 12 100 104; D2 12 100 104; D2 12 100 104; D2 12 100 104; D2 12 100 104; D2 12 100 104;
  D2 12 100 104; D2 12 100 104; D2 12 100 104; D2 12 100 104; D2 12 100 104; D2 12 100 104; D2 12 100 104;
  D2 12 100 104; D2 12 100 108; D2 12 100 108; D2 12 100 108; D2 12 100 108; D2 12 100 108; D2 12 100 108;
  D2 12 100 108; D2 12 100 108; D2 12 100 108; D2 12 100 108; D2 12 100 108; D2 12 100 108; D2 12 100 108;
  D2 12 100 108; D2 12 100 108; D2 12 100 108; D2 12 100 109; D2 12 100 109; D2 12 100 109; D2 12 100 109;
  D2 12 100 109; D2 12 100 109; D2 12 100 109; D2 12 100 109; D2 12 100 109; D2 12 100 109; D2 12 100 109;
  D2 12 100 109; D2 12 100 109; D2 12 100 109; D2 12 100 109; D2 12 100 109; D2 12 100 110; D2 12 100 110;
  D2 12 100 110; D2 12 100 110; D2 12 100 110; D2 12 100 110; D2 12 100 110; D2 12 100 110; D2 12 100 110;
  D2 12 100 110; D2 12 100 110; D2 12 100 110; D2 12 100 110; D2 12 100 110; D2 12 100 110; D2 12 100 110;
  D2 12 100 112; D2 12 100 112; D2 12 100 112; D2 12 100 112; D2 12 100 112; D2 12 100 112; D2 12 100 112;
  D2 12 100 112; D2 12 100 112; D2 12 100 112; D2 12 100 112; D2 12 100 112; D2 12 100 112; D2 12 100 112;
  D2 12 100 112; D2 12 100 112; D2 12 100 114; D2 12 100 114; D2 12 100 114; D2 12 100 114; D2 12 100 114;
  D2 12 100 114; D2 12 100 114; D2 12 100 114; D2 12 100 114; D2 12 100 114; D2 12 100 114; D2 12 100 114;
  D2 12 100 114; D2 12 100 114; D2 12 100 114; D2 12 100 114; D2 12 100 117; D2 12 100 117; D2 12 100 117;
  D2 12 100 117; D2 12 100 117; D2 12 100 117; D2 12 100 117; D2 12 100 117; D2 12 100 117; D2 12 100 117;
  D2 12 100 117; D2 12 100 117; D2 12 100 117; D2 12 100 117; D2 12 100 117; D2 12 100 117; D2 13 100 58;
  D2 13 100 58; D2 13 100 58; D2 13 100 58; D2 13 100 58; D2 13 100 58; D2 13 100 58; D2 13 100 58; D2 13 100 66;
  D2 13 100 66; D2 13 100 66; D2 13 100 66; D2 13 100 66; D2 13 100 66; D2 13 100 66; D2 13 100 66; D2 13 100 67;
  D2 13 100 67; D2 13 100 67; D2 13 100 67; D2 13 100 67; D2 13 100 67; D2 13 100 67; D2 13 100 67; D2 13 100 68;
  D2 13 100 68; D2 13 100 68; D2 13 100 68; D2 13 100 68; D2 13 100 68; D2 13 100 68; D2 13 100 68].
Definition hdecs_147 : list hdec := [
  D2 13 100 69; D2 13 100 69; D2 13 100 69; D2 13 100 69; D2 13 100 69; D2 13 100 69; D2 13 100 69; D2 13 100 69;
  D2 13 100 70; D2 13 100 70; D2 13 100 70; D2 13 100 70; D2 13 100 70; D2 13 100 70; D2 13 100 70; D2 13 100 70;
  D2 13 100 71; D2 13 100 71; D2 13 100 71; D2 13 100 71; D2 13 100 71; D2 13 100 71; D2 13 100 71; D2 13 100 71;
  D2 13 100 72; D2 13 100 72; D2 13 100 72; D2 13 100 72; D2 13 100 72; D2 13 100 72; D2 13 100 72; D2 13 100 72;
  D2 13 100 73; D2 13 100 73; D2 13 100 73; D2 13 100 73; D2 13 100 73; D2 13 100 73; D2 13 100 73; D2 13 100 73;
  D2 13 100 74; D2 13 100 74; D2 13 100 74; D2 13 100 74; D2 13 100 74; D2 13 100 74; D2 13 100 74; D2 13 100 74;
  D2 13 100 75; D2 13 100 75; D2 13 100 75; D2 13 100 75; D2 13 100 75; D2 13 100 75; D2 13 100 75; D2 13 100 75;
  D2 13 100 76; D2 13 100 76; D2 13 100 76; D2 13 100 76; D2 13 100 76; D2 13 100 76; D2 13 100 76; D2 13 100 76;
  D2 13 100 77; D2 13 100 77; D2 13 100 77; D2 13 100 77; D2 13 100 77; D2 13 100 77; D2 13 100 77; D2 13 100 77;
  D2 13 100 78; D2 13 100 78; D2 13 100 78; D2 13 100 78; D2 13 100 78; D2 13 100 78; D2 13 100 78; D2 13 100 78;
  D2 13 100 79; D2 13 100 79; D2 13 100 79; D2 13 100 79; D2 13 100 79; D2 13 100 79; D2 13 100 79; D2 13 100 79;
  D2 13 100 80; D2 13 100 80; D2 13 100 80; D2 13 100 80; D2 13 100 80; D2 13 100 80; D2 13 100 80; D2 13 100 80;
  D2 13 100 81; D2 13 100 81; D2 13 100 81; D2 13 100 81; D2 13 100 81; D2 13 100 81; D2 13 100 81; D2 13 100 81;
  D2 13 100 82; D2 13 100 82; D2 13 100 82; D2 13 100 82; D2 13 100 82; D2 13 100 82; D2 13 100 82; D2 13 100 82;
  D2 13 100 83; D2 13 100 83; D2 13 100 83; D2 13 100 83; D2 13 100 83; D2 13 100 83; D2 13 100 83; D2 13 100 83;
  D2 13 100 84; D2 13 100 84; D2 13 100 84; D2 13 100 84; D2 13 100 84; D2 13 100 84; D2 13 100 84; D2 13 100 84;
  D2 13 100 85; D2 13 100 85; D2 13 100 85; D2 13 100 85; D2 13 100 85; D2 13 100 85; D2 13 100 85; D2 13 100 85;
  D2 13 100 86; D2 13 100 86; D2 13 100 86; D2 13 100 86; D2 13 100 86; D2 13 100 86; D2 13 100 86; D2 13 100 86;
  D2 13 100 87; D2 13 100 87; D2 13 100 87; D2 13 100 87; D2 13 100 87; D2 13 100 87; D2 13 100 87; D2 13 100 87;
  D2 13 100 89; D2 13 100 89; D2 13 100 89; D2 13 100 89; D2 13 100 89; D2 13 100 89; D2 13 100 89; D2 13 100 89;
  D2 13 100 106; D2 13 100 106; D2 13 100 106; D2 13 100 106; D2 13 100 106; D2 13 100 106; D2 13 100 106;
  D2 13 100 106; D2 13 100 107; D2 13 100 107; D2 13 100 107; D2 13 100 107; D2 13 100 107; D2 13 100 107;
  D2 13 100 107; D2 13 100 107; D2 13 100 113; D2 13 100 113; D2 13 100 113; D2 13 100 113; D2 13 100 113;
  D2 13 100 113; D2 13 100 113; D2 13 100 113; D2 13 100 118; D2 13 100 118; D2 13 100 118; D2 13 100 118;
  D2 13 100 118; D2 13 100 118; D2 13 100 118; D2 13 100 118; D2 13 100 119; D2 13 100 119; D2 13 100 119;
  D2 13 100 119; D2 13 100 119; D2 13 100 119; D2 13 100 119; D2 13 100 119; D2 13 100 120; D2 13 100 120;
  D2 13 100 120; D2 13 100 120; D2 13 100 120; D2 13 100 120; D2 13 100 120; D2 13 100 120; D2 13 100 121;
  D2 13 100 121; D2 13 100 121; D2 13 100 121; D2 13 100 121; D2 13 100 121; D2 13 100 121; D2 13 100 121;
  D2 13 100 122; D2 13 100 122; D2 13 100 122; D2 13 100 122; D2 13 100 122; D2 13 100 122; D2 13 100 122;
  D2 13 100 122; D2 14 100 38; D2 14 100 38; D2 14 100 38; D2 14 100 38; D2 14 100 42; D2 14 100 42; D2 14 100 42;
  D2 14 100 42; D2 14 100 44; D2 14 100 44; D2 14 100 44; D2 14 100 44; D2 14 100 59; D2 14 100 59; D2 14 100 59;
  D2 14 100 59; D2 14 100 88; D2 14 100 88; D2 14 100 88; D2 14 100 88; D2 14 100 90; D2 14 100 90; D2 14 100 90;
  D2 14 100 90; D2 16 100 33; D2 16 100 34; D2 16 100 40; D2 16 100 41; D2 16 100 63; D1 6 100; D1 6 100; D1 6 100].
Definition hdecs_148 : list hdec := [
  D3 16 102 48 48; D3 16 102 48 49; D3 16 102 48 50; D3 16 102 48 97; D3 16 102 48 99; D3 16 102 48 101;
  D3 16 102 48 105; D3 16 102 48 111; D3 16 102 48 115; D3 16 102 48 116; D2 11 102 48; D2 11 102 48; D2 11 102 48;
  D2 11 102 48; D2 11 102 48; D2 11 102 48; D2 11 102 48; D2 11 102 48; D2 11 102 48; D2 11 102 48; D2 11 102 48;
  D2 11 102 48; D2 11 102 48; D2 11 102 48; D2 11 102 48; D2 11 102 48; D2 11 102 48; D2 11 102 48; D2 11 102 48;
  D2 11 102 48; D2 11 102 48; D2 11 102 48; D3 16 102 49 48; D3 16 102 49 49; D3 16 102 49 50; D3 16 102 49 97;
  D3 16 102 49 99; D3 16 102 49 101; D3 16 102 49 105; D3 16 102 49 111; D3 16 102 49 115; D3 16 102 49 116;
  D2 11 102 49; D2 11 102 49; D2 11 102 49; D2 11 102 49; D2 11 102 49; D2 11 102 49; D2 11 102 49; D2 11 102 49;
  D2 11 102 49; D2 11 102 49; D2 11 102 49; D2 11 102 49; D2 11 102 49; D2 11 102 49; D2 11 102 49; D2 11 102 49;
  D2 11 102 49; D2 11 102 49; D2 11 102 49; D2 11 102 49; D2 11 102 49; D2 11 102 49; D3 16 102 50 48;
  D3 16 102 50 49; D3 16 102 50 50; D3 16 102 50 97; D3 16 102 50 99; D3 16 102 50 101; D3 16 102 50 105;
  D3 16 102 50 111; D3 16 102 50 115; D3 16 102 50 116; D2 11 102 50; D2 11 102 50; D2 11 102 50; D2 11 102 50;
  D2 11 102 50; D2 11 102 50; D2 11 102 50; D2 11 102 50; D2 11 102 50; D2 11 102 50; D2 11 102 50; D2 11 102 50;
  D2 11 102 50; D2 11 102 50; D2 11 102 50; D2 11 102 50; D2 11 102 50; D2 11 102 50; D2 11 102 50; D2 11 102 50;
  D2 11 102 50; D2 11 102 50; D3 16 102 97 48; D3 16 102 97 49; D3 16 102 97 50; D3 16 102 97 97; D3 16 102 97 99;
  D3 16 102 97 101; D3 16 102 97 105; D3 16 102 97 111; D3 16 102 97 115; D3 16 102 97 116; D2 11 102 97;
  D2 11 102 97; D2 11 102 97; D2 11 102 97; D2 11 102 97; D2 11 102 97; D2 11 102 97; D2 11 102 97; D2 11 102 97;
  D2 11 102 97; D2 11 102 97; D2 11 102 97; D2 11 102 97; D2 11 102 97; D2 11 102 97; D2 11 102 97; D2 11 102 97;
  D2 11 102 97; D2 11 102 97; D2 11 102 97; D2 11 102 97; D2 11 102 97; D3 16 102 99 48; D3 16 102 99 49;
  D3 16 102 99 50; D3 16 102 99 97; D3 16 102 99 99; D3 16 102 99 101; D3 16 102 99 105; D3 16 102 99 111;
  D3 16 102 99 115; D3 16 102 99 116; D2 11 102 99; D2 11 102 99; D2 11 102 99; D2 11 102 99; D2 11 102 99;
  D2 11 102 99; D2 11 102 99; D2 11 102 99; D2 11 102 99; D2 11 102 99; D2 11 102 99; D2 11 102 99; D2 11 102 99;
  D2 11 102 99; D2 11 102 99; D2 11 102 99; D2 11 102 99; D2 11 102 99; D2 11 102 99; D2 11 102 99; D2 11 102 99;
  D2 11 102 99; D3 16 102 101 48; D3 16 102 101 49; D3 16 102 101 50; D3 16 102 101 97; D3 16 102 101 99;
  D3 16 102 101 101; D3 16 102 101 105; D3 16 102 101 111; D3 16 102 101 115; D3 16 102 101 116; D2 11 102 101;
  D2 11 102 101; D2 11 102 101; D2 11 102 101; D2 11 102 101; D2 11 102 101; D2 11 102 101; D2 11 102 101;
  D2 11 102 101; D2 11 102 101; D2 11 102 101; D2 11 102 101; D2 11 102 101; D2 11 102 101; D2 11 102 101;
  D2 11 102 101; D2 11 102 101; D2 11 102 101; D2 11 102 101; D2 11 102 101; D2 11 102 101; D2 11 102 101;
  D3 16 102 105 48; D3 16 102 105 49; D3 16 102 105 50; D3 16 102 105 97; D3 16 102 105 99; D3 16 102 105 101;
  D3 16 102 105 105; D3 16 102 105 111; D3 16 102 105 115; D3 16 102 105 116; D2 11 102 105; D2 11 102 105;
  D2 11 102 105; D2 11 102 105; D2 11 102 105; D2 11 102 105; D2 11 102 105; D2 11 102 105; D2 11 102 105;
  D2 11 102 105; D2 11 102 105; D2 11 102 105; D2 11 102 105; D2 11 102 105; D2 11 102 105; D2 11 102 105;
  D2 11 102 105; D2 11 102 105; D2 11 102 105; D2 11 102 105; D2 11 102 105; D2 11 102 105; D3 16 102 111 48;
  D3 16 102 111 49; D3 16 102 111 50; D3 16 102 111 97; D3 16 102 111 99; D3 16 102 111 101; D3 16 102 111 105;
  D3 16 102 111 111; D3 16 102 111 115; D3 16 102 111 116; D2 11 102 111; D2 11 102 111; D2 11 102 111; D2 11 102 111;
  D2 11 102 111; D2 11 102 111; D2 11 102 111; D2 11 102 111; D2 11 102 111; D2 11 102 111; D2 11 102 111;
  D2 11 102 111; D2 11 102 111; D2 11 102 111; D2 11 102 111; D2 11 102 111; D2 11 102 111; D2 11 102 111;
  D2 11 102 111; D2 11 102 111; D2 11 102 111; D2 11 102 111].
Definition hdecs_149 : list hdec := [
  D3 16 102 115 48; D3 16 102 115 49; D3 16 102 115 50; D3 16 102 115 97; D3 16 102 115 99; D3 16 102 115 101;
  D3 16 102 115 105; D3 16 102 115 111; D3 16 102 115 115; D3 16 102 115 116; D2 11 102 115; D2 11 102 115;
  D2 11 102 115; D2 11 102 115; D2 11 102 115; D2 11 102 115; D2 11 102 115; D2 11 102 115; D2 11 102 115;
  D2 11 102 115; D2 11 102 115; D2 11 102 115; D2 11 102 115; D2 11 102 115; D2 11 102 115; D2 11 102 115;
  D2 11 102 115; D2 11 102 115; D2 11 102 115; D2 11 102 115; D2 11 102 115; D2 11 102 115; D3 16 102 116 48;
  D3 16 102 116 49; D3 16 102 116 50; D3 16 102 116 97; D3 16 102 116 99; D3 16 102 116 101; D3 16 102 116 105;
  D3 16 102 116 111; D3 16 102 116 115; D3 16 102 116 116; D2 11 102 116; D2 11 102 116; D2 11 102 116; D2 11 102 116;
  D2 11 102 116; D2 11 102 116; D2 11 102 116; D2 11 102 116; D2 11 102 116; D2 11 102 116; D2 11 102 116;
  D2 11 102 116; D2 11 102 116; D2 11 102 116; D2 11 102 116; D2 11 102 116; D2 11 102 116; D2 11 102 116;
  D2 11 102 116; D2 11 102 116; D2 11 102 116; D2 11 102 116; D2 12 102 32; D2 12 102 32; D2 12 102 32; D2 12 102 32;
  D2 12 102 32; D2 12 102 32; D2 12 102 32; D2 12 102 32; D2 12 102 32; D2 12 102 32; D2 12 102 32; D2 12 102 32;
  D2 12 102 32; D2 12 102 32; D2 12 102 32; D2 12 102 32; D2 12 102 37; D2 12 102 37; D2 12 102 37; D2 12 102 37;
  D2 12 102 37; D2 12 102 37; D2 12 102 37; D2 12 102 37; D2 12 102 37; D2 12 102 37; D2 12 102 37; D2 12 102 37;
  D2 12 102 37; D2 12 102 37; D2 12 102 37; D2 12 102 37; D2 12 102 45; D2 12 102 45; D2 12 102 45; D2 12 102 45;
  D2 12 102 45; D2 12 102 45; D2 12 102 45; D2 12 102 45; D2 12 102 45; D2 12 102 45; D2 12 102 45; D2 12 102 45;
  D2 12 102 45; D2 12 102 45; D2 12 102 45; D2 12 102 45; D2 12 102 46; D2 12 102 46; D2 12 102 46; D2 12 102 46;
  D2 12 102 46; D2 12 102 46; D2 12 102 46; D2 12 102 46; D2 12 102 46; D2 12 102 46; D2 12 102 46; D2 12 102 46;
  D2 12 102 46; D2 12 102 46; D2 12 102 46; D2 12 102 46; D2 12 102 47; D2 12 102 47; D2 12 102 47; D2 12 102 47;
  D2 12 102 47; D2 12 102 47; D2 12 102 47; D2 12 102 47; D2 12 102 47; D2 12 102 47; D2 12 102 47; D2 12 102 47;
  D2 12 102 47; D2 12 102 47; D2 12 102 47; D2 12 102 47; D2 12 102 51; D2 12 102 51; D2 12 102 51; D2 12 102 51;
  D2 12 102 51; D2 12 102 51; D2 12 102 51; D2 12 102 51; D2 12 102 51; D2 12 102 51; D2 12 102 51; D2 12 102 51;
  D2 12 102 51; D2 12 102 51; D2 12 102 51; D2 12 102 51; D2 12 102 52; D2 12 102 52; D2 12 102 52; D2 12 102 52;
  D2 12 102 52; D2 12 102 52; D2 12 102 52; D2 12 102 52; D2 12 102 52; D2 12 102 52; D2 12 102 52; D2 12 102 52;
  D2 12 102 52; D2 12 102 52; D2 12 102 52; D2 12 102 52; D2 12 102 53; D2 12 102 53; D2 12 102 53; D2 12 102 53;
  D2 12 102 53; D2 12 102 53; D2 12 102 53; D2 12 102 53; D2 12 102 53; D2 12 102 53; D2 12 102 53; D2 12 102 53;
  D2 12 102 53; D2 12 102 53; D2 12 102 53; D2 12 102 53; D2 12 102 54; D2 12 102 54; D2 12 102 54; D2 12 102 54;
  D2 12 102 54; D2 12 102 54; D2 12 102 54; D2 12 102 54; D2 12 102 54; D2 12 102 54; D2 12 102 54; D2 12 102 54;
  D2 12 102 54; D2 12 102 54; D2 12 102 54; D2 12 102 54; D2 12 102 55; D2 12 102 55; D2 12 102 55; D2 12 102 55;
  D2 12 102 55; D2 12 102 55; D2 12 102 55; D2 12 102 55; D2 12 102 55; D2 12 102 55; D2 12 102 55; D2 12 102 55;
  D2 12 102 55; D2 12 102 55; D2 12 102 55; D2 12 102 55; D2 12 102 56; D2 12 102 56; D2 12 102 56; D2 12 102 56;
  D2 12 102 56; D2 12 102 56; D2 12 102 56; D2 12 102 56; D2 12 102 56; D2 12 102 56; D2 12 102 56; D2 12 102 56;
  D2 12 102 56; D2 12 102 56; D2 12 102 56; D2 12 102 56; D2 12 102 57; D2 12 102 57; D2 12 102 57; D2 12 102 57;
  D2 12 102 57; D2 12 102 57; D2 12 102 57; D2 12 102 57; D2 12 102 57; D2 12 102 57; D2 12 102 57; D2 12 102 57;
  D2 12 102 57; D2 12 102 57; D2 12 102 57; D2 12 102 57].
Definition hdecs_150 : list hdec := [
  D2 12 102 61; D2 12 102 61; D2 12 102 61; D2 12 102 61; D2 12 102 61; D2 12 102 61; D2 12 102 61; D2 12 102 61;
  D2 12 102 61; D2 12 102 61; D2 12 102 61; D2 12 102 61; D2 12 102 61; D2 12 102 61; D2 12 102 61; D2 12 102 61;
  D2 12 102 65; D2 12 102 65; D2 12 102 65; D2 12 102 65; D2 12 102 65; D2 12 102 65; D2 12 102 65; D2 12 102 65;
  D2 12 102 65; D2 12 102 65; D2 12 102 65; D2 12 102 65; D2 12 102 65; D2 12 102 65; D2 12 102 65; D2 12 102 65;
  D2 12 102 95; D2 12 102 95; D2 12 102 95; D2 12 102 95; D2 12 102 95; D2 12 102 95; D2 12 102 95; D2 12 102 95;
  D2 12 102 95; D2 12 102 95; D2 12 102 95; D2 12 102 95; D2 12 102 95; D2 12 102 95; D2 12 102 95; D2 12 102 95;
  D2 12 102 98; D2 12 102 98; D2 12 102 98; D2 12 102 98; D2 12 102 98; D2 12 102 98; D2 12 102 98; D2 12 102 98;
  D2 12 102 98; D2 12 102 98; D2 12 102 98; D2 12 102 98; D2 12 102 98; D2 12 102 98; D2 12 102 98; D2 12 102 98;
  D2 12 102 100; D2 12 102 100; D2 12 102 100; D2 12 102 100; D2 12 102 100; D2 12 102 100; D2 12 102 100;
  D2 12 102 100; D2 12 102 100; D2 12 102 100; D2 12 102 100; D2 12 102 100; D2 12 102 100; D2 12 102 100;
  D2 12 102 100; D2 12 102 100; D2 12 102 102; D2 12 102 102; D2 12 102 102; D2 12 102 102; D2 12 102 102;
  D2 12 102 102; D2 12 102 102; D2 12 102 102; D2 12 102 102; D2 12 102 102; D2 12 102 102; D2 12 102 102;
  D2 12 102 102; D2 12 102 102; D2 12 102 102; D2 12 102 102; D2 12 102 103; D2 12 102 103; D2 12 102 103;
  D2 12 102 103; D2 12 102 103; D2 12 102 103; D2 12 102 103; D2 12 102 103; D2 12 102 103; D2 12 102 103;
  D2 12 102 103; D2 12 102 103; D2 12 102 103; D2 12 102 103; D2 12 102 103; D2 12 102 103; D2 12 102 104;
  D2 12 102 104; D2 12 102 104; D2 12 102 104; D2 12 102 104; D2 12 102 104; D2 12 102 104; D2 12 102 104;
  D2 12 102 104; D2 12 102 104; D2 12 102 104; D2 12 102 104; D2 12 102 104; D2 12 102 104; D2 12 102 104;
  D2 12 102 104; D2 12 102 108; D2 12 102 108; D2 12 102 108; D2 12 102 108; D2 12 102 108; D2 12 102 108;
  D2 12 102 108; D2 12 102 108; D2 12 102 108; D2 12 102 108; D2 12 102 108; D2 12 102 108; D2 12 102 108;
  D2 12 102 108; D2 12 102 108; D2 12 102 108; D2 12 102 109; D2 12 102 109; D2 12 102 109; D2 12 102 109;
  D2 12 102 109; D2 12 102 109; D2 12 102 109; D2 12 102 109; D2 12 102 109; D2 12 102 109; D2 12 102 109;
  D2 12 102 109; D2 12 102 109; D2 12 102 109; D2 12 102 109; D2 12 102 109; D2 12 102 110; D2 12 102 110;
  D2 12 102 110; D2 12 102 110; D2 12 102 110; D2 12 102 110; D2 12 102 110; D2 12 102 110; D2 12 102 110;
  D2 12 102 110; D2 12 102 110; D2 12 102 110; D2 12 102 110; D2 12 102 110; D2 12 102 110; D2 12 102 110;
  D2 12 102 112; D2 12 102 112; D2 12 102 112; D2 12 102 112; D2 12 102 112; D2 12 102 112; D2 12 102 112;
  D2 12 102 112; D2 12 102 112; D2 12 102 112; D2 12 102 112; D2 12 102 112; D2 12 102 112; D2 12 102 112;
  D2 12 102 112; D2 12 102 112; D2 12 102 114; D2 12 102 114; D2 12 102 114; D2 12 102 114; D2 12 102 114;
  D2 12 102 114; D2 12 102 114; D2 12 102 114; D2 12 102 114; D2 12 102 114; D2 12 102 114; D2 12 102 114;
  D2 12 102 114; D2 12 102 114; D2 12 102 114; D2 12 102 114; D2 12 102 117; D2 12 102 117; D2 12 102 117;
  D2 12 102 117; D2 12 102 117; D2 12 102 117; D2 12 102 117; D2 12 102 117; D2 12 102 117; D2 12 102 117;
  D2 12 102 117; D2 12 102 117; D2 12 102 117; D2 12 102 117; D2 12 102 117; D2 12 102 117; D2 13 102 58;
  D2 13 102 58; D2 13 102 58; D2 13 102 58; D2 13 102 58; D2 13 102 58; D2 13 102 58; D2 13 102 58; D2 13 102 66;
  D2 13 102 66; D2 13 102 66; D2 13 102 66; D2 13 102 66; D2 13 102 66; D2 13 102 66; D2 13 102 66; D2 13 102 67;
  D2 13 102 67; D2 13 102 67; D2 13 102 67; D2 13 102 67; D2 13 102 67; D2 13 102 67; D2 13 102 67; D2 13 102 68;
  D2 13 102 68; D2 13 102 68; D2 13 102 68; D2 13 102 68; D2 13 102 68; D2 13 102 68; D2 13 102 68].
Definition hdecs_151 : list hdec := [
  D2 13 102 69; D2 13 102 69; D2 13 102 69; D2 13 102 69; D2 13 102 69; D2 13 102 69; D2 13 102 69; D2 13 102 69;
  D2 13 102 70; D2 13 102 70; D2 13 102 70; D2 13 102 70; D2 13 102 70; D2 13 102 70; D2 13 102 70; D2 13 102 70;
  D2 13 102 71; D2 13 102 71; D2 13 102 71; D2 13 102 71; D2 13 102 71; D2 13 102 71; D2 13 102 71; D2 13 102 71;
  D2 13 102 72; D2 13 102 72; D2 13 102 72; D2 13 102 72; D2 13 102 72; D2 13 102 72; D2 13 102 72; D2 13 102 72;
  D2 13 102 73; D2 13 102 73; D2 13 102 73; D2 13 102 73; D2 13 102 73; D2 13 102 73; D2 13 102 73; D2 13 102 73;
  D2 13 102 74; D2 13 102 74; D2 13 102 74; D2 13 102 74; D2 13 102 74; D2 13 102 74; D2 13 102 74; D2 13 102 74;
  D2 13 102 75; D2 13 102 75; D2 13 102 75; D2 13 102 75; D2 13 102 75; D2 13 102 75; D2 13 102 75; D2 13 102 75;
  D2 13 102 76; D2 13 102 76; D2 13 102 76; D2 13 102 76; D2 13 102 76; D2 13 102 76; D2 13 102 76; D2 13 102 76;
  D2 13 102 77; D2 13 102 77; D2 13 102 77; D2 13 102 77; D2 13 102 77; D2 13 102 77; D2 13 102 77; D2 13 102 77;
  D2 13 102 78; D2 13 102 78; D2 13 102 78; D2 13 102 78; D2 13 102 78; D2 13 102 78; D2 13 102 78; D2 13 102 78;
  D2 13 102 79; D2 13 102 79; D2 13 102 79; D2 13 102 79; D2 13 102 79; D2 13 102 79; D2 13 102 79; D2 13 102 79;
  D2 13 102 80; D2 13 102 80; D2 13 102 80; D2 13 102 80; D2 13 102 80; D2 13 102 80; D2 13 102 80; D2 13 102 80;
  D2 13 102 81; D2 13 102 81; D2 13 102 81; D2 13 102 81; D2 13 102 81; D2 13 102 81; D2 13 102 81; D2 13 102 81;
  D2 13 102 82; D2 13 102 82; D2 13 102 82; D2 13 102 82; D2 13 102 82; D2 13 102 82; D2 13 102 82; D2 13 102 82;
  D2 13 102 83; D2 13 102 83; D2 13 102 83; D2 13 102 83; D2 13 102 83; D2 13 102 83; D2 13 102 83; D2 13 102 83;
  D2 13 102 84; D2 13 102 84; D2 13 102 84; D2 13 102 84; D2 13 102 84; D2 13 102 84; D2 13 102 84; D2 13 102 84;
  D2 13 102 85; D2 13 102 85; D2 13 102 85; D2 13 102 85; D2 13 102 85; D2 13 102 85; D2 13 102 85; D2 13 102 85;
  D2 13 102 86; D2 13 102 86; D2 13 102 86; D2 13 102 86; D2 13 102 86; D2 13 102 86; D2 13 102 86; D2 13 102 86;
  D2 13 102 87; D2 13 102 87; D2 13 102 87; D2 13 102 87; D2 13 102 87; D2 13 102 87; D2 13 102 87; D2 13 102 87;
  D2 13 102 89; D2 13 102 89; D2 13 102 89; D2 13 102 89; D2 13 102 89; D2 13 102 89; D2 13 102 89; D2 13 102 89;
  D2 13 102 106; D2 13 102 106; D2 13 102 106; D2 13 102 106; D2 13 102 106; D2 13 102 106; D2 13 102 106;
  D2 13 102 106; D2 13 102 107; D2 13 102 107; D2 13 102 107; D2 13 102 107; D2 13 102 107; D2 13 102 107;
  D2 13 102 107; D2 13 102 107; D2 13 102 113; D2 13 102 113; D2 13 102 113; D2 13 102 113; D2 13 102 113;
  D2 13 102 113; D2 13 102 113; D2 13 102 113; D2 13 102 118; D2 13 102 118; D2 13 102 118; D2 13 102 118;
  D2 13 102 118; D2 13 102 118; D2 13 102 118; D2 13 102 118; D2 13 102 119; D2 13 102 119; D2 13 102 119;
  D2 13 102 119; D2 13 102 119; D2 13 102 119; D2 13 102 119; D2 13 102 119; D2 13 102 120; D2 13 102 120;
  D2 13 102 120; D2 13 102 120; D2 13 102 120; D2 13 102 120; D2 13 102 120; D2 13 102 120; D2 13 102 121;
  D2 13 102 121; D2 13 102 121; D2 13 102 121; D2 13 102 121; D2 13 102 121; D2 13 102 121; D2 13 102 121;
  D2 13 102 122; D2 13 102 122; D2 13 102 122; D2 13 102 122; D2 13 102 122; D2 13 102 122; D2 13 102 122;
  D2 13 102 122; D2 14 102 38; D2 14 102 38; D2 14 102 38; D2 14 102 38; D2 14 102 42; D2 14 102 42; D2 14 102 42;
  D2 14 102 42; D2 14 102 44; D2 14 102 44; D2 14 102 44; D2 14 102 44; D2 14 102 59; D2 14 102 59; D2 14 102 59;
  D2 14 102 59; D2 14 102 88; D2 14 102 88; D2 14 102 88; D2 14 102 88; D2 14 102 90; D2 14 102 90; D2 14 102 90;
  D2 14 102 90; D2 16 102 33; D2 16 102 34; D2 16 102 40; D2 16 102 41; D2 16 102 63; D1 6 102; D1 6 102; D1 6 102].
Definition hdecs_152 : list hdec := [
  D3 16 103 48 48; D3 16 103 48 49; D3 16 103 48 50; D3 16 103 48 97; D3 16 103 48 99; D3 16 103 48 101;
  D3 16 103 48 105; D3 16 103 48 111; D3 16 103 48 115; D3 16 103 48 116; D2 11 103 48; D2 11 103 48; D2 11 103 48;
  D2 11 103 48; D2 11 103 48; D2 11 103 48; D2 11 103 48; D2 11 103 48; D2 11 103 48; D2 11 103 48; D2 11 103 48;
  D2 11 103 48; D2 11 103 48; D2 11 103 48; D2 11 103 48; D2 11 103 48; D2 11 103 48; D2 11 103 48; D2 11 103 48;
  D2 11 103 48; D2 11 103 48; D2 11 103 48; D3 16 103 49 48; D3 16 103 49 49; D3 16 103 49 50; D3 16 103 49 97;
  D3 16 103 49 99; D3 16 103 49 101; D3 16 103 49 105; D3 16 103 49 111; D3 16 103 49 115; D3 16 103 49 116;
  D2 11 103 49; D2 11 103 49; D2 11 103 49; D2 11 103 49; D2 11 103 49; D2 11 103 49; D2 11 103 49; D2 11 103 49;
  D2 11 103 49; D2 11 103 49; D2 11 103 49; D2 11 103 49; D2 11 103 49; D2 11 103 49; D2 11 103 49; D2 11 103 49;
  D2 11 103 49; D2 11 103 49; D2 11 103 49; D2 11 103 49; D2 11 103 49; D2 11 103 49; D3 16 103 50 48;
  D3 16 103 50 49; D3 16 103 50 50; D3 16 103 50 97; D3 16 103 50 99; D3 16 103 50 101; D3 16 103 50 105;
  D3 16 103 50 111; D3 16 103 50 115; D3 16 103 50 116; D2 11 103 50; D2 11 103 50; D2 11 103 50; D2 11 103 50;
  D2 11 103 50; D2 11 103 50; D2 11 103 50; D2 11 103 50; D2 11 103 50; D2 11 103 50; D2 11 103 50; D2 11 103 50;
  D2 11 103 50; D2 11 103 50; D2 11 103 50; D2 11 103 50; D2 11 103 50; D2 11 103 50; D2 11 103 50; D2 11 103 50;
  D2 11 103 50; D2 11 103 50; D3 16 103 97 48; D3 16 103 97 49; D3 16 103 97 50; D3 16 103 97 97; D3 16 103 97 99;
  D3 16 103 97 101; D3 16 103 97 105; D3 16 103 97 111; D3 16 103 97 115; D3 16 103 97 116; D2 11 103 97;
  D2 11 103 97; D2 11 103 97; D2 11 103 97; D2 11 103 97; D2 11 103 97; D2 11 103 97; D2 11 103 97; D2 11 103 97;
  D2 11 103 97; D2 11 103 97; D2 11 103 97; D2 11 103 97; D2 11 103 97; D2 11 103 97; D2 11 103 97; D2 11 103 97;
  D2 11 103 97; D2 11 103 97; D2 11 103 97; D2 11 103 97; D2 11 103 97; D3 16 103 99 48; D3 16 103 99 49;
  D3 16 103 99 50; D3 16 103 99 97; D3 16 103 99 99; D3 16 103 99 101; D3 16 103 99 105; D3 16 103 99 111;
  D3 16 103 99 115; D3 16 103 99 116; D2 11 103 99; D2 11 103 99; D2 11 103 99; D2 11 103 99; D2 11 103 99;
  D2 11 103 99; D2 11 103 99; D2 11 103 99; D2 11 103 99; D2 11 103 99; D2 11 103 99; D2 11 103 99; D2 11 103 99;
  D2 11 103 99; D2 11 103 99; D2 11 103 99; D2 11 103 99; D2 11 103 99; D2 11 103 99; D2 11 103 99; D2 11 103 99;
  D2 11 103 99; D3 16 103 101 48; D3 16 103 101 49; D3 16 103 101 50; D3 16 103 101 97; D3 16 103 101 99;
  D3 16 103 101 101; D3 16 103 101 105; D3 16 103 101 111; D3 16 103 101 115; D3 16 103 101 116; D2 11 103 101;
  D2 11 103 101; D2 11 103 101; D2 11 103 101; D2 11 103 101; D2 11 103 101; D2 11 103 101; D2 11 103 101;
  D2 11 103 101; D2 11 103 101; D2 11 103 101; D2 11 103 101; D2 11 103 101; D2 11 103 101; D2 11 103 101;
  D2 11 103 101; D2 11 103 101; D2 11 103 101; D2 11 103 101; D2 11 103 101; D2 11 103 101; D2 11 103 101;
  D3 16 103 105 48; D3 16 103 105 49; D3 16 103 105 50; D3 16 103 105 97; D3 16 103 105 99; D3 16 103 105 101;
  D3 16 103 105 105; D3 16 103 105 111; D3 16 103 105 115; D3 16 103 105 116; D2 11 103 105; D2 11 103 105;
  D2 11 103 105; D2 11 103 105; D2 11 103 105; D2 11 103 105; D2 11 103 105; D2 11 103 105; D2 11 103 105;
  D2 11 103 105; D2 11 103 105; D2 11 103 105; D2 11 103 105; D2 11 103 105; D2 11 103 105; D2 11 103 105;
  D2 11 103 105; D2 11 103 105; D2 11 103 105; D2 11 103 105; D2 11 103 105; D2 11 103 105; D3 16 103 111 48;
  D3 16 103 111 49; D3 16 103 111 50; D3 16 103 111 97; D3 16 103 111 99; D3 16 103 111 101; D3 16 103 111 105;
  D3 16 103 111 111; D3 16 103 111 115; D3 16 103 111 116; D2 11 103 111; D2 11 103 111; D2 11 103 111; D2 11 103 111;
  D2 11 103 111; D2 11 103 111; D2 11 103 111; D2 11 103 111; D2 11 103 111; D2 11 103 111; D2 11 103 111;
  D2 11 103 111; D2 11 103 111; D2 11 103 111; D2 11 103 111; D2 11 103 111; D2 11 103 111; D2 11 103 111;
  D2 11 103 111; D2 11 103 111; D2 11 103 111; D2 11 103 111].
Definition hdecs_153 : list hdec := [
  D3 16 103 115 48; D3 16 103 115 49; D3 16 103 115 50; D3 16 103 115 97; D3 16 103 115 99; D3 16 103 115 101;
  D3 16 103 115 105; D3 16 103 115 111; D3 16 103 115 115; D3 16 103 115 116; D2 11 103 115; D2 11 103 115;
  D2 11 103 115; D2 11 103 115; D2 11 103 115; D2 11 103 115; D2 11 103 115; D2 11 103 115; D2 11 103 115;
  D2 11 103 115; D2 11 103 115; D2 11 103 115; D2 11 103 115; D2 11 103 115; D2 11 103 115; D2 11 103 115;
  D2 11 103 115; D2 11 103 115; D2 11 103 115; D2 11 103 115; D2 11 103 115; D2 11 103 115; D3 16 103 116 48;
  D3 16 103 116 49; D3 16 103 116 50; D3 16 103 116 97; D3 16 103 116 99; D3 16 103 116 101; D3 16 103 116 105;
  D3 16 103 116 111; D3 16 103 116 115; D3 16 103 116 116; D2 11 103 116; D2 11 103 116; D2 11 103 116; D2 11 103 116;
  D2 11 103 116; D2 11 103 116; D2 11 103 116; D2 11 103 116; D2 11 103 116; D2 11 103 116; D2 11 103 116;
  D2 11 103 116; D2 11 103 116; D2 11 103 116; D2 11 103 116; D2 11 103 116; D2 11 103 116; D2 11 103 116;
  D2 11 103 116; D2 11 103 116; D2 11 103 116; D2 11 103 116; D2 12 103 32; D2 12 103 32; D2 12 103 32; D2 12 103 32;
  D2 12 103 32; D2 12 103 32; D2 12 103 32; D2 12 103 32; D2 12 103 32; D2 12 103 32; D2 12 103 32; D2 12 103 32;
  D2 12 103 32; D2 12 103 32; D2 12 103 32; D2 12 103 32; D2 12 103 37; D2 12 103 37; D2 12 103 37; D2 12 103 37;
  D2 12 103 37; D2 12 103 37; D2 12 103 37; D2 12 103 37; D2 12 103 37; D2 12 103 37; D2 12 103 37; D2 12 103 37;
  D2 12 103 37; D2 12 103 37; D2 12 103 37; D2 12 103 37; D2 12 103 45; D2 12 103 45; D2 12 103 45; D2 12 103 45;
  D2 12 103 45; D2 12 103 45; D2 12 103 45; D2 12 103 45; D2 12 103 45; D2 12 103 45; D2 12 103 45; D2 12 103 45;
  D2 12 103 45; D2 12 103 45; D2 12 103 45; D2 12 103 45; D2 12 103 46; D2 12 103 46; D2 12 103 46; D2 12 103 46;
  D2 12 103 46; D2 12 103 46; D2 12 103 46; D2 12 103 46; D2 12 103 46; D2 12 103 46; D2 12 103 46; D2 12 103 46;
  D2 12 103 46; D2 12 103 46; D2 12 103 46; D2 12 103 46; D2 12 103 47; D2 12 103 47; D2 12 103 47; D2 12 103 47;
  D2 12 103 47; D2 12 103 47; D2 12 103 47; D2 12 103 47; D2 12 103 47; D2 12 103 47; D2 12 103 47; D2 12 103 47;
  D2 12 103 47; D2 12 103 47; D2 12 103 47; D2 12 103 47; D2 12 103 51; D2 12 103 51; D2 12 103 51; D2 12 103 51;
  D2 12 103 51; D2 12 103 51; D2 12 103 51; D2 12 103 51; D2 12 103 51; D2 12 103 51; D2 12 103 51; D2 12 103 51;
  D2 12 103 51; D2 12 103 51; D2 12 103 51; D2 12 103 51; D2 12 103 52; D2 12 103 52; D2 12 103 52; D2 12 103 52;
  D2 12 103 52; D2 12 103 52; D2 12 103 52; D2 12 103 52; D2 12 103 52; D2 12 103 52; D2 12 103 52; D2 12 103 52;
  D2 12 103 52; D2 12 103 52; D2 12 103 52; D2 12 103 52; D2 12 103 53; D2 12 103 53; D2 12 103 53; D2 12 103 53;
  D2 12 103 53; D2 12 103 53; D2 12 103 53; D2 12 103 53; D2 12 103 53; D2 12 103 53; D2 12 103 53; D2 12 103 53;
  D2 12 103 53; D2 12 103 53; D2 12 103 53; D2 12 103 53; D2 12 103 54; D2 12 103 54; D2 12 103 54; D2 12 103 54;
  D2 12 103 54; D2 12 103 54; D2 12 103 54; D2 12 103 54; D2 12 103 54; D2 12 103 54; D2 12 103 54; D2 12 103 54;
  D2 12 103 54; D2 12 103 54; D2 12 103 54; D2 12 103 54; D2 12 103 55; D2 12 103 55; D2 12 103 55; D2 12 103 55;
  D2 12 103 55; D2 12 103 55; D2 12 103 55; D2 12 103 55; D2 12 103 55; D2 12 103 55; D2 12 103 55; D2 12 103 55;
  D2 12 103 55; D2 12 103 55; D2 12 103 55; D2 12 103 55; D2 12 103 56; D2 12 103 56; D2 12 103 56; D2 12 103 56;
  D2 12 103 56; D2 12 103 56; D2 12 103 56; D2 12 103 56; D2 12 103 56; D2 12 103 56; D2 12 103 56; D2 12 103 56;
  D2 12 103 56; D2 12 103 56; D2 12 103 56; D2 12 103 56; D2 12 103 57; D2 12 103 57; D2 12 103 57; D2 12 103 57;
  D2 12 103 57; D2 12 103 57; D2 12 103 57; D2 12 103 57; D2 12 103 57; D2 12 103 57; D2 12 103 57; D2 12 103 57;
  D2 12 103 57; D2 12 103 57; D2 12 103 57; D2 12 103 57].
Definition hdecs_154 : list hdec := [
  D2 12 103 61; D2 12 103 61; D2 12 103 61; D2 12 103 61; D2 12 103 61; D2 12 103 61; D2 12 103 61; D2 12 103 61;
  D2 12 103 61; D2 12 103 61; D2 12 103 61; D2 12 103 61; D2 12 103 61; D2 12 103 61; D2 12 103 61; D2 12 103 61;
  D2 12 103 65; D2 12 103 65; D2 12 103 65; D2 12 103 65; D2 12 103 65; D2 12 103 65; D2 12 103 65; D2 12 103 65;
  D2 12 103 65; D2 12 103 65; D2 12 103 65; D2 12 103 65; D2 12 103 65; D2 12 103 65; D2 12 103 65; D2 12 103 65;
  D2 12 103 95; D2 12 103 95; D2 12 103 95; D2 12 103 95; D2 12 103 95; D2 12 103 95; D2 12 103 95; D2 12 103 95;
  D2 12 103 95; D2 12 103 95; D2 12 103 95; D2 12 103 95; D2 12 103 95; D2 12 103 95; D2 12 103 95; D2 12 103 95;
  D2 12 103 98; D2 12 103 98; D2 12 103 98; D2 12 103 98; D2 12 103 98; D2 12 103 98; D2 12 103 98; D2 12 103 98;
  D2 12 103 98; D2 12 103 98; D2 12 103 98; D2 12 103 98; D2 12 103 98; D2 12 103 98; D2 12 103 98; D2 12 103 98;
  D2 12 103 100; D2 12 103 100; D2 12 103 100; D2 12 103 100; D2 12 103 100; D2 12 103 100; D2 12 103 100;
  D2 12 103 100; D2 12 103 100; D2 12 103 100; D2 12 103 100; D2 12 103 100; D2 12 103 100; D2 12 103 100;
  D2 12 103 100; D2 12 103 100; D2 12 103 102; D2 12 103 102; D2 12 103 102; D2 12 103 102; D2 12 103 102;
  D2 12 103 102; D2 12 103 102; D2 12 103 102; D2 12 103 102; D2 12 103 102; D2 12 103 102; D2 12 103 102;
  D2 12 103 102; D2 12 103 102; D2 12 103 102; D2 12 103 102; D2 12 103 103; D2 12 103 103; D2 12 103 103;
  D2 12 103 103; D2 12 103 103; D2 12 103 103; D2 12 103 103; D2 12 103 103; D2 12 103 103; D2 12 103 103;
  D2 12 103 103; D2 12 103 103; D2 12 103 103; D2 12 103 103; D2 12 103 103; D2 12 103 103; D2 12 103 104;
  D2 12 103 104; D2 12 103 104; D2 12 103 104; D2 12 103 104; D2 12 103 104; D2 12 103 104; D2 12 103 104;
  D2 12 103 104; D2 12 103 104; D2 12 103 104; D2 12 103 104; D2 12 103 104; D2 12 103 104; D2 12 103 104;
  D2 12 103 104; D2 12 103 108; D2 12 103 108; D2 12 103 108; D2 12 103 108; D2 12 103 108; D2 12 103 108;
  D2 12 103 108; D2 12 103 108; D2 12 103 108; D2 12 103 108; D2 12 103 108; D2 12 103 108; D2 12 103 108;
  D2 12 103 108; D2 12 103 108; D2 12 103 108; D2 12 103 109; D2 12 103 109; D2 12 103 109; D2 12 103 109;
  D2 12 103 109; D2 12 103 109; D2 12 103 109; D2 12 103 109; D2 12 103 109; D2 12 103 109; D2 12 103 109;
  D2 12 103 109; D2 12 103 109; D2 12 103 109; D2 12 103 109; D2 12 103 109; D2 12 103 110; D2 12 103 110;
  D2 12 103 110; D2 12 103 110; D2 12 103 110; D2 12 103 110; D2 12 103 110; D2 12 103 110; D2 12 103 110;
  D2 12 103 110; D2 12 103 110; D2 12 103 110; D2 12 103 110; D2 12 103 110; D2 12 103 110; D2 12 103 110;
  D2 12 103 112; D2 12 103 112; D2 12 103 112; D2 12 103 112; D2 12 103 112; D2 12 103 112; D2 12 103 112;
  D2 12 103 112; D2 12 103 112; D2 12 103 112; D2 12 103 112; D2 12 103 112; D2 12 103 112; D2 12 103 112;
  D2 12 103 112; D2 12 103 112; D2 12 103 114; D2 12 103 114; D2 12 103 114; D2 12 103 114; D2 12 103 114;
  D2 12 103 114; D2 12 103 114; D2 12 103 114; D2 12 103 114; D2 12 103 114; D2 12 103 114; D2 12 103 114;
  D2 12 103 114; D2 12 103 114; D2 12 103 114; D2 12 103 114; D2 12 103 117; D2 12 103 117; D2 12 103 117;
  D2 12 103 117; D2 12 103 117; D2 12 103 117; D2 12 103 117; D2 12 103 117; D2 12 103 117; D2 12 103 117;
  D2 12 103 117; D2 12 103 117; D2 12 103 117; D2 12 103 117; D2 12 103 117; D2 12 103 117; D2 13 103 58;
  D2 13 103 58; D2 13 103 58; D2 13 103 58; D2 13 103 58; D2 13 103 58; D2 13 103 58; D2 13 103 58; D2 13 103 66;
  D2 13 103 66; D2 13 103 66; D2 13 103 66; D2 13 103 66; D2 13 103 66; D2 13 103 66; D2 13 103 66; D2 13 103 67;
  D2 13 103 67; D2 13 103 67; D2 13 103 67; D2 13 103 67; D2 13 103 67; D2 13 103 67; D2 13 103 67; D2 13 103 68;
  D2 13 103 68; D2 13 103 68; D2 13 103 68; D2 13 103 68; D2 13 103 68; D2 13 103 68; D2 13 103 68].
Definition hdecs_155 : list hdec := [
  D2 13 103 69; D2 13 103 69; D2 13 103 69; D2 13 103 69; D2 13 103 69; D2 13 103 69; D2 13 103 69; D2 13 103 69;
  D2 13 103 70; D2 13 103 70; D2 13 103 70; D2 13 103 70; D2 13 103 70; D2 13 103 70; D2 13 103 70; D2 13 103 70;
  D2 13 103 71; D2 13 103 71; D2 13 103 71; D2 13 103 71; D2 13 103 71; D2 13 103 71; D2 13 103 71; D2 13 103 71;
  D2 13 103 72; D2 13 103 72; D2 13 103 72; D2 13 103 72; D2 13 103 72; D2 13 103 72; D2 13 103 72; D2 13 103 72;
  D2 13 103 73; D2 13 103 73; D2 13 103 73; D2 13 103 73; D2 13 103 73; D2 13 103 73; D2 13 103 73; D2 13 103 73;
  D2 13 103 74; D2 13 103 74; D2 13 103 74; D2 13 103 74; D2 13 103 74; D2 13 103 74; D2 13 103 74; D2 13 103 74;
  D2 13 103 75; D2 13 103 75; D2 13 103 75; D2 13 103 75; D2 13 103 75; D2 13 103 75; D2 13 103 75; D2 13 103 75;
  D2 13 103 76; D2 13 103 76; D2 13 103 76; D2 13 103 76; D2 13 103 76; D2 13 103 76; D2 13 103 76; D2 13 103 76;
  D2 13 103 77; D2 13 103 77; D2 13 103 77; D2 13 103 77; D2 13 103 77; D2 13 103 77; D2 13 103 77; D2 13 103 77;
  D2 13 103 78; D2 13 103 78; D2 13 103 78; D2 13 103 78; D2 13 103 78; D2 13 103 78; D2 13 103 78; D2 13 103 78;
  D2 13 103 79; D2 13 103 79; D2 13 103 79; D2 13 103 79; D2 13 103 79; D2 13 103 79; D2 13 103 79; D2 13 103 79;
  D2 13 103 80; D2 13 103 80; D2 13 103 80; D2 13 103 80; D2 13 103 80; D2 13 103 80; D2 13 103 80; D2 13 103 80;
  D2 13 103 81; D2 13 103 81; D2 13 103 81; D2 13 103 81; D2 13 103 81; D2 13 103 81; D2 13 103 81; D2 13 103 81;
  D2 13 103 82; D2 13 103 82; D2 13 103 82; D2 13 103 82; D2 13 103 82; D2 13 103 82; D2 13 103 82; D2 13 103 82;
  D2 13 103 83; D2 13 103 83; D2 13 103 83; D2 13 103 83; D2 13 103 83; D2 13 103 83; D2 13 103 83; D2 13 103 83;
  D2 13 103 84; D2 13 103 84; D2 13 103 84; D2 13 103 84; D2 13 103 84; D2 13 103 84; D2 13 103 84; D2 13 103 84;
  D2 13 103 85; D2 13 103 85; D2 13 103 85; D2 13 103 85; D2 13 103 85; D2 13 103 85; D2 13 103 85; D2 13 103 85;
  D2 13 103 86; D2 13 103 86; D2 13 103 86; D2 13 103 86; D2 13 103 86; D2 13 103 86; D2 13 103 86; D2 13 103 86;
  D2 13 103 87; D2 13 103 87; D2 13 103 87; D2 13 103 87; D2 13 103 87; D2 13 103 87; D2 13 103 87; D2 13 103 87;
  D2 13 103 89; D2 13 103 89; D2 13 103 89; D2 13 103 89; D2 13 103 89; D2 13 103 89; D2 13 103 89; D2 13 103 89;
  D2 13 103 106; D2 13 103 106; D2 13 103 106; D2 13 103 106; D2 13 103 106; D2 13 103 106; D2 13 103 106;
  D2 13 103 106; D2 13 103 107; D2 13 103 107; D2 13 103 107; D2 13 103 107; D2 13 103 107; D2 13 103 107;
  D2 13 103 107; D2 13 103 107; D2 13 103 113; D2 13 103 113; D2 13 103 113; D2 13 103 113; D2 13 103 113;
  D2 13 103 113; D2 13 103 113; D2 13 103 113; D2 13 103 118; D2 13 103 118; D2 13 103 118; D2 13 103 118;
  D2 13 103 118; D2 13 103 118; D2 13 103 118; D2 13 103 118; D2 13 103 119; D2 13 103 119; D2 13 103 119;
  D2 13 103 119; D2 13 103 119; D2 13 103 119; D2 13 103 119; D2 13 103 119; D2 13 103 120; D2 13 103 120;
  D2 13 103 120; D2 13 103 120; D2 13 103 120; D2 13 103 120; D2 13 103 120; D2 13 103 120; D2 13 103 121;
  D2 13 103 121; D2 13 103 121; D2 13 103 121; D2 13 103 121; D2 13 103 121; D2 13 103 121; D2 13 103 121;
  D2 13 103 122; D2 13 103 122; D2 13 103 122; D2 13 103 122; D2 13 103 122; D2 13 103 122; D2 13 103 122;
  D2 13 103 122; D2 14 103 38; D2 14 103 38; D2 14 103 38; D2 14 103 38; D2 14 103 42; D2 14 103 42; D2 14 103 42;
  D2 14 103 42; D2 14 103 44; D2 14 103 44; D2 14 103 44; D2 14 103 44; D2 14 103 59; D2 14 103 59; D2 14 103 59;
  D2 14 103 59; D2 14 103 88; D2 14 103 88; D2 14 103 88; D2 14 103 88; D2 14 103 90; D2 14 103 90; D2 14 103 90;
  D2 14 103 90; D2 16 103 33; D2 16 103 34; D2 16 103 40; D2 16 103 41; D2 16 103 63; D1 6 103; D1 6 103; D1 6 103].
Definition hdecs_156 : list hdec := [
  D3 16 104 48 48; D3 16 104 48 49; D3 16 104 48 50; D3 16 104 48 97; D3 16 104 48 99; D3 16 104 48 101;
  D3 16 104 48 105; D3 16 104 48 111; D3 16 104 48 115; D3 16 104 48 116; D2 11 104 48; D2 11 104 48; D2 11 104 48;
  D2 11 104 48; D2 11 104 48; D2 11 104 48; D2 11 104 48; D2 11 104 48; D2 11 104 48; D2 11 104 48; D2 11 104 48;
  D2 11 104 48; D2 11 104 48; D2 11 104 48; D2 11 104 48; D2 11 104 48; D2 11 104 48; D2 11 104 48; D2 11 104 48;
  D2 11 104 48; D2 11 104 48; D2 11 104 48; D3 16 104 49 48; D3 16 104 49 49; D3 16 104 49 50; D3 16 104 49 97;
  D3 16 104 49 99; D3 16 104 49 101; D3 16 104 49 105; D3 16 104 49 111; D3 16 104 49 115; D3 16 104 49 116;
  D2 11 104 49; D2 11 104 49; D2 11 104 49; D2 11 104 49; D2 11 104 49; D2 11 104 49; D2 11 104 49; D2 11 104 49;
  D2 11 104 49; D2 11 104 49; D2 11 104 49; D2 11 104 49; D2 11 104 49; D2 11 104 49; D2 11 104 49; D2 11 104 49;
  D2 11 104 49; D2 11 104 49; D2 11 104 49; D2 11 104 49; D2 11 104 49; D2 11 104 49; D3 16 104 50 48;
  D3 16 104 50 49; D3 16 104 50 50; D3 16 104 50 97; D3 16 104 50 99; D3 16 104 50 101; D3 16 104 50 105;
  D3 16 104 50 111; D3 16 104 50 115; D3 16 104 50 116; D2 11 104 50; D2 11 104 50; D2 11 104 50; D2 11 104 50;
  D2 11 104 50; D2 11 104 50; D2 11 104 50; D2 11 104 50; D2 11 104 50; D2 11 104 50; D2 11 104 50; D2 11 104 50;
  D2 11 104 50; D2 11 104 50; D2 11 104 50; D2 11 104 50; D2 11 104 50; D2 11 104 50; D2 11 104 50; D2 11 104 50;
  D2 11 104 50; D2 11 104 50; D3 16 104 97 48; D3 16 104 97 49; D3 16 104 97 50; D3 16 104 97 97; D3 16 104 97 99;
  D3 16 104 97 101; D3 16 104 97 105; D3 16 104 97 111; D3 16 104 97 115; D3 16 104 97 116; D2 11 104 97;
  D2 11 104 97; D2 11 104 97; D2 11 104 97; D2 11 104 97; D2 11 104 97; D2 11 104 97; D2 11 104 97; D2 11 104 97;
  D2 11 104 97; D2 11 104 97; D2 11 104 97; D2 11 104 97; D2 11 104 97; D2 11 104 97; D2 11 104 97; D2 11 104 97;
  D2 11 104 97; D2 11 104 97; D2 11 104 97; D2 11 104 97; D2 11 104 97; D3 16 104 99 48; D3 16 104 99 49;
  D3 16 104 99 50; D3 16 104 99 97; D3 16 104 99 99; D3 16 104 99 101; D3 16 104 99 105; D3 16 104 99 111;
  D3 16 104 99 115; D3 16 104 99 116; D2 11 104 99; D2 11 104 99; D2 11 104 99; D2 11 104 99; D2 11 104 99;
  D2 11 104 99; D2 11 104 99; D2 11 104 99; D2 11 104 99; D2 11 104 99; D2 11 104 99; D2 11 104 99; D2 11 104 99;
  D2 11 104 99; D2 11 104 99; D2 11 104 99; D2 11 104 99; D2 11 104 99; D2 11 104 99; D2 11 104 99; D2 11 104 99;
  D2 11 104 99; D3 16 104 101 48; D3 16 104 101 49; D3 16 104 101 50; D3 16 104 101 97; D3 16 104 101 99;
  D3 16 104 101 101; D3 16 104 101 105; D3 16 104 101 111; D3 16 104 101 115; D3 16 104 101 116; D2 11 104 101;
  D2 11 104 101; D2 11 104 101; D2 11 104 101; D2 11 104 101; D2 11 104 101; D2 11 104 101; D2 11 104 101;
  D2 11 104 101; D2 11 104 101; D2 11 104 101; D2 11 104 101; D2 11 104 101; D2 11 104 101; D2 11 104 101;
  D2 11 104 101; D2 11 104 101; D2 11 104 101; D2 11 104 101; D2 11 104 101; D2 11 104 101; D2 11 104 101;
  D3 16 104 105 48; D3 16 104 105 49; D3 16 104 105 50; D3 16 104 105 97; D3 16 104 105 99; D3 16 104 105 101;
  D3 16 104 105 105; D3 16 104 105 111; D3 16 104 105 115; D3 16 104 105 116; D2 11 104 105; D2 11 104 105;
  D2 11 104 105; D2 11 104 105; D2 11 104 105; D2 11 104 105; D2 11 104 105; D2 11 104 105; D2 11 104 105;
  D2 11 104 105; D2 11 104 105; D2 11 104 105; D2 11 104 105; D2 11 104 105; D2 11 104 105; D2 11 104 105;
  D2 11 104 105; D2 11 104 105; D2 11 104 105; D2 11 104 105; D2 11 104 105; D2 11 104 105; D3 16 104 111 48;
  D3 16 104 111 49; D3 16 104 111 50; D3 16 104 111 97; D3 16 104 111 99; D3 16 104 111 101; D3 16 104 111 105;
  D3 16 104 111 111; D3 16 104 111 115; D3 16 104 111 116; D2 11 104 111; D2 11 104 111; D2 11 104 111; D2 11 104 111;
  D2 11 104 111; D2 11 104 111; D2 11 104 111; D2 11 104 111; D2 11 104 111; D2 11 104 111; D2 11 104 111;
  D2 11 104 111; D2 11 104 111; D2 11 104 111; D2 11 104 111; D2 11 104 111; D2 11 104 111; D2 11 104 111;
  D2 11 104 111; D2 11 104 111; D2 11 104 111; D2 11 104 111].
Definition hdecs_157 : list hdec := [
  D3 16 104 115 48; D3 16 104 115 49; D3 16 104 115 50; D3 16 104 115 97; D3 16 104 115 99; D3 16 104 115 101;
  D3 16 104 115 105; D3 16 104 115 111; D3 16 104 115 115; D3 16 104 115 116; D2 11 104 115; D2 11 104 115;
  D2 11 104 115; D2 11 104 115; D2 11 104 115; D2 11 104 115; D2 11 104 115; D2 11 104 115; D2 11 104 115;
  D2 11 104 115; D2 11 104 115; D2 11 104 115; D2 11 104 115; D2 11 104 115; D2 11 104 115; D2 11 104 115;
  D2 11 104 115; D2 11 104 115; D2 11 104 115; D2 11 104 115; D2 11 104 115; D2 11 104 115; D3 16 104 116 48;
  D3 16 104 116 49; D3 16 104 116 50; D3 16 104 116 97; D3 16 104 116 99; D3 16 104 116 101; D3 16 104 116 105;
  D3 16 104 116 111; D3 16 104 116 115; D3 16 104 116 116; D2 11 104 116; D2 11 104 116; D2 11 104 116; D2 11 104 116;
  D2 11 104 116; D2 11 104 116; D2 11 104 116; D2 11 104 116; D2 11 104 116; D2 11 104 116; D2 11 104 116;
  D2 11 104 116; D2 11 104 116; D2 11 104 116; D2 11 104 116; D2 11 104 116; D2 11 104 116; D2 11 104 116;
  D2 11 104 116; D2 11 104 116; D2 11 104 116; D2 11 104 116; D2 12 104 32; D2 12 104 32; D2 12 104 32; D2 12 104 32;
  D2 12 104 32; D2 12 104 32; D2 12 104 32; D2 12 104 32; D2 12 104 32; D2 12 104 32; D2 12 104 32; D2 12 104 32;
  D2 12 104 32; D2 12 104 32; D2 12 104 32; D2 12 104 32; D2 12 104 37; D2 12 104 37; D2 12 104 37; D2 12 104 37;
  D2 12 104 37; D2 12 104 37; D2 12 104 37; D2 12 104 37; D2 12 104 37; D2 12 104 37; D2 12 104 37; D2 12 104 37;
  D2 12 104 37; D2 12 104 37; D2 12 104 37; D2 12 104 37; D2 12 104 45; D2 12 104 45; D2 12 104 45; D2 12 104 45;
  D2 12 104 45; D2 12 104 45; D2 12 104 45; D2 12 104 45; D2 12 104 45; D2 12 104 45; D2 12 104 45; D2 12 104 45;
  D2 12 104 45; D2 12 104 45; D2 12 104 45; D2 12 104 45; D2 12 104 46; D2 12 104 46; D2 12 104 46; D2 12 104 46;
  D2 12 104 46; D2 12 104 46; D2 12 104 46; D2 12 104 46; D2 12 104 46; D2 12 104 46; D2 12 104 46; D2 12 104 46;
  D2 12 104 46; D2 12 104 46; D2 12 104 46; D2 12 104 46; D2 12 104 47; D2 12 104 47; D2 12 104 47; D2 12 104 47;
  D2 12 104 47; D2 12 104 47; D2 12 104 47; D2 12 104 47; D2 12 104 47; D2 12 104 47; D2 12 104 47; D2 12 104 47;
  D2 12 104 47; D2 12 104 47; D2 12 104 47; D2 12 104 47; D2 12 104 51; D2 12 104 51; D2 12 104 51; D2 12 104 51;
  D2 12 104 51; D2 12 104 51; D2 12 104 51; D2 12 104 51; D2 12 104 51; D2 12 104 51; D2 12 104 51; D2 12 104 51;
  D2 12 104 51; D2 12 104 51; D2 12 104 51; D2 12 104 51; D2 12 104 52; D2 12 104 52; D2 12 104 52; D2 12 104 52;
  D2 12 104 52; D2 12 104 52; D2 12 104 52; D2 12 104 52; D2 12 104 52; D2 12 104 52; D2 12 104 52; D2 12 104 52;
  D2 12 104 52; D2 12 104 52; D2 12 104 52; D2 12 104 52; D2 12 104 53; D2 12 104 53; D2 12 104 53; D2 12 104 53;
  D2 12 104 53; D2 12 104 53; D2 12 104 53; D2 12 104 53; D2 12 104 53; D2 12 104 53; D2 12 104 53; D2 12 104 53;
  D2 12 104 53; D2 12 104 53; D2 12 104 53; D2 12 104 53; D2 12 104 54; D2 12 104 54; D2 12 104 54; D2 12 104 54;
  D2 12 104 54; D2 12 104 54; D2 12 104 54; D2 12 104 54; D2 12 104 54; D2 12 104 54; D2 12 104 54; D2 12 104 54;
  D2 12 104 54; D2 12 104 54; D2 12 104 54; D2 12 104 54; D2 12 104 55; D2 12 104 55; D2 12 104 55; D2 12 104 55;
  D2 12 104 55; D2 12 104 55; D2 12 104 55; D2 12 104 55; D2 12 104 55; D2 12 104 55; D2 12 104 55; D2 12 104 55;
  D2 12 104 55; D2 12 104 55; D2 12 104 55; D2 12 104 55; D2 12 104 56; D2 12 104 56; D2 12 104 56; D2 12 104 56;
  D2 12 104 56; D2 12 104 56; D2 12 104 56; D2 12 104 56; D2 12 104 56; D2 12 104 56; D2 12 104 56; D2 12 104 56;
  D2 12 104 56; D2 12 104 56; D2 12 104 56; D2 12 104 56; D2 12 104 57; D2 12 104 57; D2 12 104 57; D2 12 104 57;
  D2 12 104 57; D2 12 104 57; D2 12 104 57; D2 12 104 57; D2 12 104 57; D2 12 104 57; D2 12 104 57; D2 12 104 57;
  D2 12 104 57; D2 12 104 57; D2 12 104 57; D2 12 104 57].
Definition hdecs_158 : list hdec := [
  D2 12 104 61; D2 12 104 61; D2 12 104 61; D2 12 104 61; D2 12 104 61; D2 12 104 61; D2 12 104 61; D2 12 104 61;
  D2 12 104 61; D2 12 104 61; D2 12 104 61; D2 12 104 61; D2 12 104 61; D2 12 104 61; D2 12 104 61; D2 12 104 61;
  D2 12 104 65; D2 12 104 65; D2 12 104 65; D2 12 104 65; D2 12 104 65; D2 12 104 65; D2 12 104 65; D2 12 104 65;
  D2 12 104 65; D2 12 104 65; D2 12 104 65; D2 12 104 65; D2 12 104 65; D2 12 104 65; D2 12 104 65; D2 12 104 65;
  D2 12 104 95; D2 12 104 95; D2 12 104 95; D2 12 104 95; D2 12 104 95; D2 12 104 95; D2 12 104 95; D2 12 104 95;
  D2 12 104 95; D2 12 104 95; D2 12 104 95; D2 12 104 95; D2 12 104 95; D2 12 104 95; D2 12 104 95; D2 12 104 95;
  D2 12 104 98; D2 12 104 98; D2 12 104 98; D2 12 104 98; D2 12 104 98; D2 12 104 98; D2 12 104 98; D2 12 104 98;
  D2 12 104 98; D2 12 104 98; D2 12 104 98; D2 12 104 98; D2 12 104 98; D2 12 104 98; D2 12 104 98; D2 12 104 98;
  D2 12 104 100; D2 12 104 100; D2 12 104 100; D2 12 104 100; D2 12 104 100; D2 12 104 100; D2 12 104 100;
  D2 12 104 100; D2 12 104 100; D2 12 104 100; D2 12 104 100; D2 12 104 100; D2 12 104 100; D2 12 104 100;
  D2 12 104 100; D2 12 104 100; D2 12 104 102; D2 12 104 102; D2 12 104 102; D2 12 104 102; D2 12 104 102;
  D2 12 104 102; D2 12 104 102; D2 12 104 102; D2 12 104 102; D2 12 104 102; D2 12 104 102; D2 12 104 102;
  D2 12 104 102; D2 12 104 102; D2 12 104 102; D2 12 104 102; D2 12 104 103; D2 12 104 103; D2 12 104 103;
  D2 12 104 103; D2 12 104 103; D2 12 104 103; D2 12 104 103; D2 12 104 103; D2 12 104 103; D2 12 104 103;
  D2 12 104 103; D2 12 104 103; D2 12 104 103; D2 12 104 103; D2 12 104 103; D2 12 104 103; D2 12 104 104;
  D2 12 104 104; D2 12 104 104; D2 12 104 104; D2 12 104 104; D2 12 104 104; D2 12 104 104; D2 12 104 104;
  D2 12 104 104; D2 12 104 104; D2 12 104 104; D2 12 104 104; D2 12 104 104; D2 12 104 104; D2 12 104 104;
  D2 12 104 104; D2 12 104 108; D2 12 104 108; D2 12 104 108; D2 12 104 108; D2 12 104 108; D2 12 104 108;
  D2 12 104 108; D2 12 104 108; D2 12 104 108; D2 12 104 108; D2 12 104 108; D2 12 104 108; D2 12 104 108;
  D2 12 104 108; D2 12 104 108; D2 12 104 108; D2 12 104 109; D2 12 104 109; D2 12 104 109; D2 12 104 109;
  D2 12 104 109; D2 12 104 109; D2 12 104 109; D2 12 104 109; D2 12 104 109; D2 12 104 109; D2 12 104 109;
  D2 12 104 109; D2 12 104 109; D2 12 104 109; D2 12 104 109; D2 12 104 109; D2 12 104 110; D2 12 104 110;
  D2 12 104 110; D2 12 104 110; D2 12 104 110; D2 12 104 110; D2 12 104 110; D2 12 104 110; D2 12 104 110;
  D2 12 104 110; D2 12 104 110; D2 12 104 110; D2 12 104 110; D2 12 104 110; D2 12 104 110; D2 12 104 110;
  D2 12 104 112; D2 12 104 112; D2 12 104 112; D2 12 104 112; D2 12 104 112; D2 12 104 112; D2 12 104 112;
  D2 12 104 112; D2 12 104 112; D2 12 104 112; D2 12 104 112; D2 12 104 112; D2 12 104 112; D2 12 104 112;
  D2 12 104 112; D2 12 104 112; D2 12 104 114; D2 12 104 114; D2 12 104 114; D2 12 104 114; D2 12 104 114;
  D2 12 104 114; D2 12 104 114; D2 12 104 114; D2 12 104 114; D2 12 104 114; D2 12 104 114; D2 12 104 114;
  D2 12 104 114; D2 12 104 114; D2 12 104 114; D2 12 104 114; D2 12 104 117; D2 12 104 117; D2 12 104 117;
  D2 12 104 117; D2 12 104 117; D2 12 104 117; D2 12 104 117; D2 12 104 117; D2 12 104 117; D2 12 104 117;
  D2 12 104 117; D2 12 104 117; D2 12 104 117; D2 12 104 117; D2 12 104 117; D2 12 104 117; D2 13 104 58;
  D2 13 104 58; D2 13 104 58; D2 13 104 58; D2 13 104 58; D2 13 104 58; D2 13 104 58; D2 13 104 58; D2 13 104 66;
  D2 13 104 66; D2 13 104 66; D2 13 104 66; D2 13 104 66; D2 13 104 66; D2 13 104 66; D2 13 104 66; D2 13 104 67;
  D2 13 104 67; D2 13 104 67; D2 13 104 67; D2 13 104 67; D2 13 104 67; D2 13 104 67; D2 13 104 67; D2 13 104 68;
  D2 13 104 68; D2 13 104 68; D2 13 104 68; D2 13 104 68; D2 13 104 68; D2 13 104 68; D2 13 104 68].
Definition hdecs_159 : list hdec := [
  D2 13 104 69; D2 13 104 69; D2 13 104 69; D2 13 104 69; D2 13 104 69; D2 13 104 69; D2 13 104 69; D2 13 104 69;
  D2 13 104 70; D2 13 104 70; D2 13 104 70; D2 13 104 70; D2 13 104 70; D2 13 104 70; D2 13 104 70; D2 13 104 70;
  D2 13 104 71; D2 13 104 71; D2 13 104 71; D2 13 104 71; D2 13 104 71; D2 13 104 71; D2 13 104 71; D2 13 104 71;
  D2 13 104 72; D2 13 104 72; D2 13 104 72; D2 13 104 72; D2 13 104 72; D2 13 104 72; D2 13 104 72; D2 13 104 72;
  D2 13 104 73; D2 13 104 73; D2 13 104 73; D2 13 104 73; D2 13 104 73; D2 13 104 73; D2 13 104 73; D2 13 104 73;
  D2 13 104 74; D2 13 104 74; D2 13 104 74; D2 13 104 74; D2 13 104 74; D2 13 104 74; D2 13 104 74; D2 13 104 74;
  D2 13 104 75; D2 13 104 75; D2 13 104 75; D2 13 104 75; D2 13 104 75; D2 13 104 75; D2 13 104 75; D2 13 104 75;
  D2 13 104 76; D2 13 104 76; D2 13 104 76; D2 13 104 76; D2 13 104 76; D2 13 104 76; D2 13 104 76; D2 13 104 76;
  D2 13 104 77; D2 13 104 77; D2 13 104 77; D2 13 104 77; D2 13 104 77; D2 13 104 77; D2 13 104 77; D2 13 104 77;
  D2 13 104 78; D2 13 104 78; D2 13 104 78; D2 13 104 78; D2 13 104 78; D2 13 104 78; D2 13 104 78; D2 13 104 78;
  D2 13 104 79; D2 13 104 79; D2 13 104 79; D2 13 104 79; D2 13 104 79; D2 13 104 79; D2 13 104 79; D2 13 104 79;
  D2 13 104 80; D2 13 104 80; D2 13 104 80; D2 13 104 80; D2 13 104 80; D2 13 104 80; D2 13 104 80; D2 13 104 80;
  D2 13 104 81; D2 13 104 81; D2 13 104 81; D2 13 104 81; D2 13 104 81; D2 13 104 81; D2 13 104 81; D2 13 104 81;
  D2 13 104 82; D2 13 104 82; D2 13 104 82; D2 13 104 82; D2 13 104 82; D2 13 104 82; D2 13 104 82; D2 13 104 82;
  D2 13 104 83; D2 13 104 83; D2 13 104 83; D2 13 104 83; D2 13 104 83; D2 13 104 83; D2 13 104 83; D2 13 104 83;
  D2 13 104 84; D2 13 104 84; D2 13 104 84; D2 13 104 84; D2 13 104 84; D2 13 104 84; D2 13 104 84; D2 13 104 84;
  D2 13 104 85; D2 13 104 85; D2 13 104 85; D2 13 104 85; D2 13 104 85; D2 13 104 85; D2 13 104 85; D2 13 104 85;
  D2 13 104 86; D2 13 104 86; D2 13 104 86; D2 13 104 86; D2 13 104 86; D2 13 104 86; D2 13 104 86; D2 13 104 86;
  D2 13 104 87; D2 13 104 87; D2 13 104 87; D2 13 104 87; D2 13 104 87; D2 13 104 87; D2 13 104 87; D2 13 104 87;
  D2 13 104 89; D2 13 104 89; D2 13 104 89; D2 13 104 89; D2 13 104 89; D2 13 104 89; D2 13 104 89; D2 13 104 89;
  D2 13 104 106; D2 13 104 106; D2 13 104 106; D2 13 104 106; D2 13 104 106; D2 13 104 106; D2 13 104 106;
  D2 13 104 106; D2 13 104 107; D2 13 104 107; D2 13 104 107; D2 13 104 107; D2 13 104 107; D2 13 104 107;
  D2 13 104 107; D2 13 104 107; D2 13 104 113; D2 13 104 113; D2 13 104 113; D2 13 104 113; D2 13 104 113;
  D2 13 104 113; D2 13 104 113; D2 13 104 113; D2 13 104 118; D2 13 104 118; D2 13 104 118; D2 13 104 118;
  D2 13 104 118; D2 13 104 118; D2 13 104 118; D2 13 104 118; D2 13 104 119; D2 13 104 119; D2 13 104 119;
  D2 13 104 119; D2 13 104 119; D2 13 104 119; D2 13 104 119; D2 13 104 119; D2 13 104 120; D2 13 104 120;
  D2 13 104 120; D2 13 104 120; D2 13 104 120; D2 13 104 120; D2 13 104 120; D2 13 104 120; D2 13 104 121;
  D2 13 104 121; D2 13 104 121; D2 13 104 121; D2 13 104 121; D2 13 104 121; D2 13 104 121; D2 13 104 121;
  D2 13 104 122; D2 13 104 122; D2 13 104 122; D2 13 104 122; D2 13 104 122; D2 13 104 122; D2 13 104 122;
  D2 13 104 122; D2 14 104 38; D2 14 104 38; D2 14 104 38; D2 14 104 38; D2 14 104 42; D2 14 104 42; D2 14 104 42;
  D2 14 104 42; D2 14 104 44; D2 14 104 44; D2 14 104 44; D2 14 104 44; D2 14 104 59; D2 14 104 59; D2 14 104 59;
  D2 14 104 59; D2 14 104 88; D2 14 104 88; D2 14 104 88; D2 14 104 88; D2 14 104 90; D2 14 104 90; D2 14 104 90;
  D2 14 104 90; D2 16 104 33; D2 16 104 34; D2 16 104 40; D2 16 104 41; D2 16 104 63; D1 6 104; D1 6 104; D1 6 104].
Definition hdecs_160 : list hdec := [
  D3 16 108 48 48; D3 16 108 48 49; D3 16 108 48 50; D3 16 108 48 97; D3 16 108 48 99; D3 16 108 48 101;
  D3 16 108 48 105; D3 16 108 48 111; D3 16 108 48 115; D3 16 108 48 116; D2 11 108 48; D2 11 108 48; D2 11 108 48;
  D2 11 108 48; D2 11 108 48; D2 11 108 48; D2 11 108 48; D2 11 108 48; D2 11 108 48; D2 11 108 48; D2 11 108 48;
  D2 11 108 48; D2 11 108 48; D2 11 108 48; D2 11 108 48; D2 11 108 48; D2 11 108 48; D2 11 108 48; D2 11 108 48;
  D2 11 108 48; D2 11 108 48; D2 11 108 48; D3 16 108 49 48; D3 16 108 49 49; D3 16 108 49 50; D3 16 108 49 97;
  D3 16 108 49 99; D3 16 108 49 101; D3 16 108 49 105; D3 16 108 49 111; D3 16 108 49 115; D3 16 108 49 116;
  D2 11 108 49; D2 11 108 49; D2 11 108 49; D2 11 108 49; D2 11 108 49; D2 11 108 49; D2 11 108 49; D2 11 108 49;
  D2 11 108 49; D2 11 108 49; D2 11 108 49; D2 11 108 49; D2 11 108 49; D2 11 108 49; D2 11 108 49; D2 11 108 49;
  D2 11 108 49; D2 11 108 49; D2 11 108 49; D2 11 108 49; D2 11 108 49; D2 11 108 49; D3 16 108 50 48;
  D3 16 108 50 49; D3 16 108 50 50; D3 16 108 50 97; D3 16 108 50 99; D3 16 108 50 101; D3 16 108 50 105;
  D3 16 108 50 111; D3 16 108 50 115; D3 16 108 50 116; D2 11 108 50; D2 11 108 50; D2 11 108 50; D2 11 108 50;
  D2 11 108 50; D2 11 108 50; D2 11 108 50; D2 11 108 50; D2 11 108 50; D2 11 108 50; D2 11 108 50; D2 11 108 50;
  D2 11 108 50; D2 11 108 50; D2 11 108 50; D2 11 108 50; D2 11 108 50; D2 11 108 50; D2 11 108 50; D2 11 108 50;
  D2 11 108 50; D2 11 108 50; D3 16 108 97 48; D3 16 108 97 49; D3 16 108 97 50; D3 16 108 97 97; D3 16 108 97 99;
  D3 16 108 97 101; D3 16 108 97 105; D3 16 108 97 111; D3 16 108 97 115; D3 16 108 97 116; D2 11 108 97;
  D2 11 108 97; D2 11 108 97; D2 11 108 97; D2 11 108 97; D2 11 108 97; D2 11 108 97; D2 11 108 97; D2 11 108 97;
  D2 11 108 97; D2 11 108 97; D2 11 108 97; D2 11 108 97; D2 11 108 97; D2 11 108 97; D2 11 108 97; D2 11 108 97;
  D2 11 108 97; D2 11 108 97; D2 11 108 97; D2 11 108 97; D2 11 108 97; D3 16 108 99 48; D3 16 108 99 49;
  D3 16 108 99 50; D3 16 108 99 97; D3 16 108 99 99; D3 16 108 99 101; D3 16 108 99 105; D3 16 108 99 111;
  D3 16 108 99 115; D3 16 108 99 116; D2 11 108 99; D2 11 108 99; D2 11 108 99; D2 11 108 99; D2 11 108 99;
  D2 11 108 99; D2 11 108 99; D2 11 108 99; D2 11 108 99; D2 11 108 99; D2 11 108 99; D2 11 108 99; D2 11 108 99;
  D2 11 108 99; D2 11 108 99; D2 11 108 99; D2 11 108 99; D2 11 108 99; D2 11 108 99; D2 11 108 99; D2 11 108 99;
  D2 11 108 99; D3 16 108 101 48; D3 16 108 101 49; D3 16 108 101 50; D3 16 108 101 97; D3 16 108 101 99;
  D3 16 108 101 101; D3 16 108 101 105; D3 16 108 101 111; D3 16 108 101 115; D3 16 108 101 116; D2 11 108 101;
  D2 11 108 101; D2 11 108 101; D2 11 108 101; D2 11 108 101; D2 11 108 101; D2 11 108 101; D2 11 108 101;
  D2 11 108 101; D2 11 108 101; D2 11 108 101; D2 11 108 101; D2 11 108 101; D2 11 108 101; D2 11 108 101;
  D2 11 108 101; D2 11 108 101; D2 11 108 101; D2 11 108 101; D2 11 108 101; D2 11 108 101; D2 11 108 101;
  D3 16 108 105 48; D3 16 108 105 49; D3 16 108 105 50; D3 16 108 105 97; D3 16 108 105 99; D3 16 108 105 101;
  D3 16 108 105 105; D3 16 108 105 111; D3 16 108 105 115; D3 16 108 105 116; D2 11 108 105; D2 11 108 105;
  D2 11 108 105; D2 11 108 105; D2 11 108 105; D2 11 108 105; D2 11 108 105; D2 11 108 105; D2 11 108 105;
  D2 11 108 105; D2 11 108 105; D2 11 108 105; D2 11 108 105; D2 11 108 105; D2 11 108 105; D2 11 108 105;
  D2 11 108 105; D2 11 108 105; D2 11 108 105; D2 11 108 105; D2 11 108 105; D2 11 108 105; D3 16 108 111 48;
  D3 16 108 111 49; D3 16 108 111 50; D3 16 108 111 97; D3 16 108 111 99; D3 16 108 111 101; D3 16 108 111 105;
  D3 16 108 111 111; D3 16 108 111 115; D3 16 108 111 116; D2 11 108 111; D2 11 108 111; D2 11 108 111; D2 11 108 111;
  D2 11 108 111; D2 11 108 111; D2 11 108 111; D2 11 108 111; D2 11 108 111; D2 11 108 111; D2 11 108 111;
  D2 11 108 111; D2 11 108 111; D2 11 108 111; D2 11 108 111; D2 11 108 111; D2 11 108 111; D2 11 108 111;
  D2 11 108 111; D2 11 108 111; D2 11 108 111; D2 11 108 111].
Definition hdecs_161 : list hdec := [
  D3 16 108 115 48; D3 16 108 115 49; D3 16 108 115 50; D3 16 108 115 97; D3 16 108 115 99; D3 16 108 115 101;
  D3 16 108 115 105; D3 16 108 115 111; D3 16 108 115 115; D3 16 108 115 116; D2 11 108 115; D2 11 108 115;
  D2 11 108 115; D2 11 108 115; D2 11 108 115; D2 11 108 115; D2 11 108 115; D2 11 108 115; D2 11 108 115;
  D2 11 108 115; D2 11 108 115; D2 11 108 115; D2 11 108 115; D2 11 108 115; D2 11 108 115; D2 11 108 115;
  D2 11 108 115; D2 11 108 115; D2 11 108 115; D2 11 108 115; D2 11 108 115; D2 11 108 115; D3 16 108 116 48;
  D3 16 108 116 49; D3 16 108 116 50; D3 16 108 116 97; D3 16 108 116 99; D3 16 108 116 101; D3 16 108 116 105;
  D3 16 108 116 111; D3 16 108 116 115; D3 16 108 116 116; D2 11 108 116; D2 11 108 116; D2 11 108 116; D2 11 108 116;
  D2 11 108 116; D2 11 108 116; D2 11 108 116; D2 11 108 116; D2 11 108 116; D2 11 108 116; D2 11 108 116;
  D2 11 108 116; D2 11 108 116; D2 11 108 116; D2 11 108 116; D2 11 108 116; D2 11 108 116; D2 11 108 116;
  D2 11 108 116; D2 11 108 116; D2 11 108 116; D2 11 108 116; D2 12 108 32; D2 12 108 32; D2 12 108 32; D2 12 108 32;
  D2 12 108 32; D2 12 108 32; D2 12 108 32; D2 12 108 32; D2 12 108 32; D2 12 108 32; D2 12 108 32; D2 12 108 32;
  D2 12 108 32; D2 12 108 32; D2 12 108 32; D2 12 108 32; D2 12 108 37; D2 12 108 37; D2 12 108 37; D2 12 108 37;
  D2 12 108 37; D2 12 108 37; D2 12 108 37; D2 12 108 37; D2 12 108 37; D2 12 108 37; D2 12 108 37; D2 12 108 37;
  D2 12 108 37; D2 12 108 37; D2 12 108 37; D2 12 108 37; D2 12 108 45; D2 12 108 45; D2 12 108 45; D2 12 108 45;
  D2 12 108 45; D2 12 108 45; D2 12 108 45; D2 12 108 45; D2 12 108 45; D2 12 108 45; D2 12 108 45; D2 12 108 45;
  D2 12 108 45; D2 12 108 45; D2 12 108 45; D2 12 108 45; D2 12 108 46; D2 12 108 46; D2 12 108 46; D2 12 108 46;
  D2 12 108 46; D2 12 108 46; D2 12 108 46; D2 12 108 46; D2 12 108 46; D2 12 108 46; D2 12 108 46; D2 12 108 46;
  D2 12 108 46; D2 12 108 46; D2 12 108 46; D2 12 108 46; D2 12 108 47; D2 12 108 47; D2 12 108 47; D2 12 108 47;
  D2 12 108 47; D2 12 108 47; D2 12 108 47; D2 12 108 47; D2 12 108 47; D2 12 108 47; D2 12 108 47; D2 12 108 47;
  D2 12 108 47; D2 12 108 47; D2 12 108 47; D2 12 108 47; D2 12 108 51; D2 12 108 51; D2 12 108 51; D2 12 108 51;
  D2 12 108 51; D2 12 108 51; D2 12 108 51; D2 12 108 51; D2 12 108 51; D2 12 108 51; D2 12 108 51; D2 12 108 51;
  D2 12 108 51; D2 12 108 51; D2 12 108 51; D2 12 108 51; D2 12 108 52; D2 12 108 52; D2 12 108 52; D2 12 108 52;
  D2 12 108 52; D2 12 108 52; D2 12 108 52; D2 12 108 52; D2 12 108 52; D2 12 108 52; D2 12 108 52; D2 12 108 52;
  D2 12 108 52; D2 12 108 52; D2 12 108 52; D2 12 108 52; D2 12 108 53; D2 12 108 53; D2 12 108 53; D2 12 108 53;
  D2 12 108 53; D2 12 108 53; D2 12 108 53; D2 12 108 53; D2 12 108 53; D2 12 108 53; D2 12 108 53; D2 12 108 53;
  D2 12 108 53; D2 12 108 53; D2 12 108 53; D2 12 108 53; D2 12 108 54; D2 12 108 54; D2 12 108 54; D2 12 108 54;
  D2 12 108 54; D2 12 108 54; D2 12 108 54; D2 12 108 54; D2 12 108 54; D2 12 108 54; D2 12 108 54; D2 12 108 54;
  D2 12 108 54; D2 12 108 54; D2 12 108 54; D2 12 108 54; D2 12 108 55; D2 12 108 55; D2 12 108 55; D2 12 108 55;
  D2 12 108 55; D2 12 108 55; D2 12 108 55; D2 12 108 55; D2 12 108 55; D2 12 108 55; D2 12 108 55; D2 12 108 55;
  D2 12 108 55; D2 12 108 55; D2 12 108 55; D2 12 108 55; D2 12 108 56; D2 12 108 56; D2 12 108 56; D2 12 108 56;
  D2 12 108 56; D2 12 108 56; D2 12 108 56; D2 12 108 56; D2 12 108 56; D2 12 108 56; D2 12 108 56; D2 12 108 56;
  D2 12 108 56; D2 12 108 56; D2 12 108 56; D2 12 108 56; D2 12 108 57; D2 12 108 57; D2 12 108 57; D2 12 108 57;
  D2 12 108 57; D2 12 108 57; D2 12 108 57; D2 12 108 57; D2 12 108 57; D2 12 108 57; D2 12 108 57; D2 12 108 57;
  D2 12 108 57; D2 12 108 57; D2 12 108 57; D2 12 108 57].
Definition hdecs_162 : list hdec := [
  D2 12 108 61; D2 12 108 61; D2 12 108 61; D2 12 108 61; D2 12 108 61; D2 12 108 61; D2 12 108 61; D2 12 108 61;
  D2 12 108 61; D2 12 108 61; D2 12 108 61; D2 12 108 61; D2 12 108 61; D2 12 108 61; D2 12 108 61; D2 12 108 61;
  D2 12 108 65; D2 12 108 65; D2 12 108 65; D2 12 108 65; D2 12 108 65; D2 12 108 65; D2 12 108 65; D2 12 108 65;
  D2 12 108 65; D2 12 108 65; D2 12 108 65; D2 12 108 65; D2 12 108 65; D2 12 108 65; D2 12 108 65; D2 12 108 65;
  D2 12 108 95; D2 12 108 95; D2 12 108 95; D2 12 108 95; D2 12 108 95; D2 12 108 95; D2 12 108 95; D2 12 108 95;
  D2 12 108 95; D2 12 108 95; D2 12 108 95; D2 12 108 95; D2 12 108 95; D2 12 108 95; D2 12 108 95; D2 12 108 95;
  D2 12 108 98; D2 12 108 98; D2 12 108 98; D2 12 108 98; D2 12 108 98; D2 12 108 98; D2 12 108 98; D2 12 108 98;
  D2 12 108 98; D2 12 108 98; D2 12 108 98; D2 12 108 98; D2 12 108 98; D2 12 108 98; D2 12 108 98; D2 12 108 98;
  D2 12 108 100; D2 12 108 100; D2 12 108 100; D2 12 108 100; D2 12 108 100; D2 12 108 100; D2 12 108 100;
  D2 12 108 100; D2 12 108 100; D2 12 108 100; D2 12 108 100; D2 12 108 100; D2 12 108 100; D2 12 108 100;
  D2 12 108 100; D2 12 108 100; D2 12 108 102; D2 12 108 102; D2 12 108 102; D2 12 108 102; D2 12 108 102;
  D2 12 108 102; D2 12 108 102; D2 12 108 102; D2 12 108 102; D2 12 108 102; D2 12 108 102; D2 12 108 102;
  D2 12 108 102; D2 12 108 102; D2 12 108 102; D2 12 108 102; D2 12 108 103; D2 12 108 103; D2 12 108 103;
  D2 12 108 103; D2 12 108 103; D2 12 108 103; D2 12 108 103; D2 12 108 103; D2 12 108 103; D2 12 108 103;
  D2 12 108 103; D2 12 108 103; D2 12 108 103; D2 12 108 103; D2 12 108 103; D2 12 108 103; D2 12 108 104;
  D2 12 108 104; D2 12 108 104; D2 12 108 104; D2 12 108 104; D2 12 108 104; D2 12 108 104; D2 12 108 104;
  D2 12 108 104; D2 12 108 104; D2 12 108 104; D2 12 108 104; D2 12 108 104; D2 12 108 104; D2 12 108 104;
  D2 12 108 104; D2 12 108 108; D2 12 108 108; D2 12 108 108; D2 12 108 108; D2 12 108 108; D2 12 108 108;
  D2 12 108 108; D2 12 108 108; D2 12 108 108; D2 12 108 108; D2 12 108 108; D2 12 108 108; D2 12 108 108;
  D2 12 108 108; D2 12 108 108; D2 12 108 108; D2 12 108 109; D2 12 108 109; D2 12 108 109; D2 12 108 109;
  D2 12 108 109; D2 12 108 109; D2 12 108 109; D2 12 108 109; D2 12 108 109; D2 12 108 109; D2 12 108 109;
  D2 12 108 109; D2 12 108 109; D2 12 108 109; D2 12 108 109; D2 12 108 109; D2 12 108 110; D2 12 108 110;
  D2 12 108 110; D2 12 108 110; D2 12 108 110; D2 12 108 110; D2 12 108 110; D2 12 108 110; D2 12 108 110;
  D2 12 108 110; D2 12 108 110; D2 12 108 110; D2 12 108 110; D2 12 108 110; D2 12 108 110; D2 12 108 110;
  D2 12 108 112; D2 12 108 112; D2 12 108 112; D2 12 108 112; D2 12 108 112; D2 12 108 112; D2 12 108 112;
  D2 12 108 112; D2 12 108 112; D2 12 108 112; D2 12 108 112; D2 12 108 112; D2 12 108 112; D2 12 108 112;
  D2 12 108 112; D2 12 108 112; D2 12 108 114; D2 12 108 114; D2 12 108 114; D2 12 108 114; D2 12 108 114;
  D2 12 108 114; D2 12 108 114; D2 12 108 114; D2 12 108 114; D2 12 108 114; D2 12 108 114; D2 12 108 114;
  D2 12 108 114; D2 12 108 114; D2 12 108 114; D2 12 108 114; D2 12 108 117; D2 12 108 117; D2 12 108 117;
  D2 12 108 117; D2 12 108 117; D2 12 108 117; D2 12 108 117; D2 12 108 117; D2 12 108 117; D2 12 108 117;
  D2 12 108 117; D2 12 108 117; D2 12 108 117; D2 12 108 117; D2 12 108 117; D2 12 108 117; D2 13 108 58;
  D2 13 108 58; D2 13 108 58; D2 13 108 58; D2 13 108 58; D2 13 108 58; D2 13 108 58; D2 13 108 58; D2 13 108 66;
  D2 13 108 66; D2 13 108 66; D2 13 108 66; D2 13 108 66; D2 13 108 66; D2 13 108 66; D2 13 108 66; D2 13 108 67;
  D2 13 108 67; D2 13 108 67; D2 13 108 67; D2 13 108 67; D2 13 108 67; D2 13 108 67; D2 13 108 67; D2 13 108 68;
  D2 13 108 68; D2 13 108 68; D2 13 108 68; D2 13 108 68; D2 13 108 68; D2 13 108 68; D2 13 108 68].
Definition hdecs_163 : list hdec := [
  D2 13 108 69; D2 13 108 69; D2 13 108 69; D2 13 108 69; D2 13 108 69; D2 13 108 69; D2 13 108 69; D2 13 108 69;
  D2 13 108 70; D2 13 108 70; D2 13 108 70; D2 13 108 70; D2 13 108 70; D2 13 108 70; D2 13 108 70; D2 13 108 70;
  D2 13 108 71; D2 13 108 71; D2 13 108 71; D2 13 108 71; D2 13 108 71; D2 13 108 71; D2 13 108 71; D2 13 108 71;
  D2 13 108 72; D2 13 108 72; D2 13 108 72; D2 13 108 72; D2 13 108 72; D2 13 108 72; D2 13 108 72; D2 13 108 72;
  D2 13 108 73; D2 13 108 73; D2 13 108 73; D2 13 108 73; D2 13 108 73; D2 13 108 73; D2 13 108 73; D2 13 108 73;
  D2 13 108 74; D2 13 108 74; D2 13 108 74; D2 13 108 74; D2 13 108 74; D2 13 108 74; D2 13 108 74; D2 13 108 74;
  D2 13 108 75; D2 13 108 75; D2 13 108 75; D2 13 108 75; D2 13 108 75; D2 13 108 75; D2 13 108 75; D2 13 108 75;
  D2 13 108 76; D2 13 108 76; D2 13 108 76; D2 13 108 76; D2 13 108 76; D2 13 108 76; D2 13 108 76; D2 13 108 76;
  D2 13 108 77; D2 13 108 77; D2 13 108 77; D2 13 108 77; D2 13 108 77; D2 13 108 77; D2 13 108 77; D2 13 108 77;
  D2 13 108 78; D2 13 108 78; D2 13 108 78; D2 13 108 78; D2 13 108 78; D2 13 108 78; D2 13 108 78; D2 13 108 78;
  D2 13 108 79; D2 13 108 79; D2 13 108 79; D2 13 108 79; D2 13 108 79; D2 13 108 79; D2 13 108 79; D2 13 108 79;
  D2 13 108 80; D2 13 108 80; D2 13 108 80; D2 13 108 80; D2 13 108 80; D2 13 108 80; D2 13 108 80; D2 13 108 80;
  D2 13 108 81; D2 13 108 81; D2 13 108 81; D2 13 108 81; D2 13 108 81; D2 13 108 81; D2 13 108 81; D2 13 108 81;
  D2 13 108 82; D2 13 108 82; D2 13 108 82; D2 13 108 82; D2 13 108 82; D2 13 108 82; D2 13 108 82; D2 13 108 82;
  D2 13 108 83; D2 13 108 83; D2 13 108 83; D2 13 108 83; D2 13 108 83; D2 13 108 83; D2 13 108 83; D2 13 108 83;
  D2 13 108 84; D2 13 108 84; D2 13 108 84; D2 13 108 84; D2 13 108 84; D2 13 108 84; D2 13 108 84; D2 13 108 84;
  D2 13 108 85; D2 13 108 85; D2 13 108 85; D2 13 108 85; D2 13 108 85; D2 13 108 85; D2 13 108 85; D2 13 108 85;
  D2 13 108 86; D2 13 108 86; D2 13 108 86; D2 13 108 86; D2 13 108 86; D2 13 108 86; D2 13 108 86; D2 13 108 86;
  D2 13 108 87; D2 13 108 87; D2 13 108 87; D2 13 108 87; D2 13 108 87; D2 13 108 87; D2 13 108 87; D2 13 108 87;
  D2 13 108 89; D2 13 108 89; D2 13 108 89; D2 13 108 89; D2 13 108 89; D2 13 108 89; D2 13 108 89; D2 13 108 89;
  D2 13 108 106; D2 13 108 106; D2 13 108 106; D2 13 108 106; D2 13 108 106; D2 13 108 106; D2 13 108 106;
  D2 13 108 106; D2 13 108 107; D2 13 108 107; D2 13 108 107; D2 13 108 107; D2 13 108 107; D2 13 108 107;
  D2 13 108 107; D2 13 108 107; D2 13 108 113; D2 13 108 113; D2 13 108 113; D2 13 108 113; D2 13 108 113;
  D2 13 108 113; D2 13 108 113; D2 13 108 113; D2 13 108 118; D2 13 108 118; D2 13 108 118; D2 13 108 118;
  D2 13 108 118; D2 13 108 118; D2 13 108 118; D2 13 108 118; D2 13 108 119; D2 13 108 119; D2 13 108 119;
  D2 13 108 119; D2 13 108 119; D2 13 108 119; D2 13 108 119; D2 13 108 119; D2 13 108 120; D2 13 108 120;
  D2 13 108 120; D2 13 108 120; D2 13 108 120; D2 13 108 120; D2 13 108 120; D2 13 108 120; D2 13 108 121;
  D2 13 108 121; D2 13 108 121; D2 13 108 121; D2 13 108 121; D2 13 108 121; D2 13 108 121; D2 13 108 121;
  D2 13 108 122; D2 13 108 122; D2 13 108 122; D2 13 108 122; D2 13 108 122; D2 13 108 122; D2 13 108 122;
  D2 13 108 122; D2 14 108 38; D2 14 108 38; D2 14 108 38; D2 14 108 38; D2 14 108 42; D2 14 108 42; D2 14 108 42;
  D2 14 108 42; D2 14 108 44; D2 14 108 44; D2 14 108 44; D2 14 108 44; D2 14 108 59; D2 14 108 59; D2 14 108 59;
  D2 14 108 59; D2 14 108 88; D2 14 108 88; D2 14 108 88; D2 14 108 88; D2 14 108 90; D2 14 108 90; D2 14 108 90;
  D2 14 108 90; D2 16 108 33; D2 16 108 34; D2 16 108 40; D2 16 108 41; D2 16 108 63; D1 6 108; D1 6 108; D1 6 108].
Definition hdecs_164 : list hdec := [
  D3 16 109 48 48; D3 16 109 48 49; D3 16 109 48 50; D3 16 109 48 97; D3 16 109 48 99; D3 16 109 48 101;
  D3 16 109 48 105; D3 16 109 48 111; D3 16 109 48 115; D3 16 109 48 116; D2 11 109 48; D2 11 109 48; D2 11 109 48;
  D2 11 109 48; D2 11 109 48; D2 11 109 48; D2 11 109 48; D2 11 109 48; D2 11 109 48; D2 11 109 48; D2 11 109 48;
  D2 11 109 48; D2 11 109 48; D2 11 109 48; D2 11 109 48; D2 11 109 48; D2 11 109 48; D2 11 109 48; D2 11 109 48;
  D2 11 109 48; D2 11 109 48; D2 11 109 48; D3 16 109 49 48; D3 16 109 49 49; D3 16 109 49 50; D3 16 109 49 97;
  D3 16 109 49 99; D3 16 109 49 101; D3 16 109 49 105; D3 16 109 49 111; D3 16 109 49 115; D3 16 109 49 116;
  D2 11 109 49; D2 11 109 49; D2 11 109 49; D2 11 109 49; D2 11 109 49; D2 11 109 49; D2 11 109 49; D2 11 109 49;
  D2 11 109 49; D2 11 109 49; D2 11 109 49; D2 11 109 49; D2 11 109 49; D2 11 109 49; D2 11 109 49; D2 11 109 49;
  D2 11 109 49; D2 11 109 49; D2 11 109 49; D2 11 109 49; D2 11 109 49; D2 11 109 49; D3 16 109 50 48;
  D3 16 109 50 49; D3 16 109 50 50; D3 16 109 50 97; D3 16 109 50 99; D3 16 109 50 101; D3 16 109 50 105;
  D3 16 109 50 111; D3 16 109 50 115; D3 16 109 50 116; D2 11 109 50; D2 11 109 50; D2 11 109 50; D2 11 109 50;
  D2 11 109 50; D2 11 109 50; D2 11 109 50; D2 11 109 50; D2 11 109 50; D2 11 109 50; D2 11 109 50; D2 11 109 50;
  D2 11 109 50; D2 11 109 50; D2 11 109 50; D2 11 109 50; D2 11 109 50; D2 11 109 50; D2 11 109 50; D2 11 109 50;
  D2 11 109 50; D2 11 109 50; D3 16 109 97 48; D3 16 109 97 49; D3 16 109 97 50; D3 16 109 97 97; D3 16 109 97 99;
  D3 16 109 97 101; D3 16 109 97 105; D3 16 109 97 111; D3 16 109 97 115; D3 16 109 97 116; D2 11 109 97;
  D2 11 109 97; D2 11 109 97; D2 11 109 97; D2 11 109 97; D2 11 109 97; D2 11 109 97; D2 11 109 97; D2 11 109 97;
  D2 11 109 97; D2 11 109 97; D2 11 109 97; D2 11 109 97; D2 11 109 97; D2 11 109 97; D2 11 109 97; D2 11 109 97;
  D2 11 109 97; D2 11 109 97; D2 11 109 97; D2 11 109 97; D2 11 109 97; D3 16 109 99 48; D3 16 109 99 49;
  D3 16 109 99 50; D3 16 109 99 97; D3 16 109 99 99; D3 16 109 99 101; D3 16 109 99 105; D3 16 109 99 111;
  D3 16 109 99 115; D3 16 109 99 116; D2 11 109 99; D2 11 109 99; D2 11 109 99; D2 11 109 99; D2 11 109 99;
  D2 11 109 99; D2 11 109 99; D2 11 109 99; D2 11 109 99; D2 11 109 99; D2 11 109 99; D2 11 109 99; D2 11 109 99;
  D2 11 109 99; D2 11 109 99; D2 11 109 99; D2 11 109 99; D2 11 109 99; D2 11 109 99; D2 11 109 99; D2 11 109 99;
  D2 11 109 99; D3 16 109 101 48; D3 16 109 101 49; D3 16 109 101 50; D3 16 109 101 97; D3 16 109 101 99;
  D3 16 109 101 101; D3 16 109 101 105; D3 16 109 101 111; D3 16 109 101 115; D3 16 109 101 116; D2 11 109 101;
  D2 11 109 101; D2 11 109 101; D2 11 109 101; D2 11 109 101; D2 11 109 101; D2 11 109 101; D2 11 109 101;
  D2 11 109 101; D2 11 109 101; D2 11 109 101; D2 11 109 101; D2 11 109 101; D2 11 109 101; D2 11 109 101;
  D2 11 109 101; D2 11 109 101; D2 11 109 101; D2 11 109 101; D2 11 109 101; D2 11 109 101; D2 11 109 101;
  D3 16 109 105 48; D3 16 109 105 49; D3 16 109 105 50; D3 16 109 105 97; D3 16 109 105 99; D3 16 109 105 101;
  D3 16 109 105 105; D3 16 109 105 111; D3 16 109 105 115; D3 16 109 105 116; D2 11 109 105; D2 11 109 105;
  D2 11 109 105; D2 11 109 105; D2 11 109 105; D2 11 109 105; D2 11 109 105; D2 11 109 105; D2 11 109 105;
  D2 11 109 105; D2 11 109 105; D2 11 109 105; D2 11 109 105; D2 11 109 105; D2 11 109 105; D2 11 109 105;
  D2 11 109 105; D2 11 109 105; D2 11 109 105; D2 11 109 105; D2 11 109 105; D2 11 109 105; D3 16 109 111 48;
  D3 16 109 111 49; D3 16 109 111 50; D3 16 109 111 97; D3 16 109 111 99; D3 16 109 111 101; D3 16 109 111 105;
  D3 16 109 111 111; D3 16 109 111 115; D3 16 109 111 116; D2 11 109 111; D2 11 109 111; D2 11 109 111; D2 11 109 111;
  D2 11 109 111; D2 11 109 111; D2 11 109 111; D2 11 109 111; D2 11 109 111; D2 11 109 111; D2 11 109 111;
  D2 11 109 111; D2 11 109 111; D2 11 109 111; D2 11 109 111; D2 11 109 111; D2 11 109 111; D2 11 109 111;
  D2 11 109 111; D2 11 109 111; D2 11 109 111; D2 11 109 111].
Definition hdecs_165 : list hdec := [
  D3 16 109 115 48; D3 16 109 115 49; D3 16 109 115 50; D3 16 109 115 97; D3 16 109 115 99; D3 16 109 115 101;
  D3 16 109 115 105; D3 16 109 115 111; D3 16 109 115 115; D3 16 109 115 116; D2 11 109 115; D2 11 109 115;
  D2 11 109 115; D2 11 109 115; D2 11 109 115; D2 11 109 115; D2 11 109 115; D2 11 109 115; D2 11 109 115;
  D2 11 109 115; D2 11 109 115; D2 11 109 115; D2 11 109 115; D2 11 109 115; D2 11 109 115; D2 11 109 115;
  D2 11 109 115; D2 11 109 115; D2 11 109 115; D2 11 109 115; D2 11 109 115; D2 11 109 115; D3 16 109 116 48;
  D3 16 109 116 49; D3 16 109 116 50; D3 16 109 116 97; D3 16 109 116 99; D3 16 109 116 101; D3 16 109 116 105;
  D3 16 109 116 111; D3 16 109 116 115; D3 16 109 116 116; D2 11 109 116; D2 11 109 116; D2 11 109 116; D2 11 109 116;
  D2 11 109 116; D2 11 109 116; D2 11 109 116; D2 11 109 116; D2 11 109 116; D2 11 109 116; D2 11 109 116;
  D2 11 109 116; D2 11 109 116; D2 11 109 116; D2 11 109 116; D2 11 109 116; D2 11 109 116; D2 11 109 116;
  D2 11 109 116; D2 11 109 116; D2 11 109 116; D2 11 109 116; D2 12 109 32; D2 12 109 32; D2 12 109 32; D2 12 109 32;
  D2 12 109 32; D2 12 109 32; D2 12 109 32; D2 12 109 32; D2 12 109 32; D2 12 109 32; D2 12 109 32; D2 12 109 32;
  D2 12 109 32; D2 12 109 32; D2 12 109 32; D2 12 109 32; D2 12 109 37; D2 12 109 37; D2 12 109 37; D2 12 109 37;
  D2 12 109 37; D2 12 109 37; D2 12 109 37; D2 12 109 37; D2 12 109 37; D2 12 109 37; D2 12 109 37; D2 12 109 37;
  D2 12 109 37; D2 12 109 37; D2 12 109 37; D2 12 109 37; D2 12 109 45; D2 12 109 45; D2 12 109 45; D2 12 109 45;
  D2 12 109 45; D2 12 109 45; D2 12 109 45; D2 12 109 45; D2 12 109 45; D2 12 109 45; D2 12 109 45; D2 12 109 45;
  D2 12 109 45; D2 12 109 45; D2 12 109 45; D2 12 109 45; D2 12 109 46; D2 12 109 46; D2 12 109 46; D2 12 109 46;
  D2 12 109 46; D2 12 109 46; D2 12 109 46; D2 12 109 46; D2 12 109 46; D2 12 109 46; D2 12 109 46; D2 12 109 46;
  D2 12 109 46; D2 12 109 46; D2 12 109 46; D2 12 109 46; D2 12 109 47; D2 12 109 47; D2 12 109 47; D2 12 109 47;
  D2 12 109 47; D2 12 109 47; D2 12 109 47; D2 12 109 47; D2 12 109 47; D2 12 109 47; D2 12 109 47; D2 12 109 47;
  D2 12 109 47; D2 12 109 47; D2 12 109 47; D2 12 109 47; D2 12 109 51; D2 12 109 51; D2 12 109 51; D2 12 109 51;
  D2 12 109 51; D2 12 109 51; D2 12 109 51; D2 12 109 51; D2 12 109 51; D2 12 109 51; D2 12 109 51; D2 12 109 51;
  D2 12 109 51; D2 12 109 51; D2 12 109 51; D2 12 109 51; D2 12 109 52; D2 12 109 52; D2 12 109 52; D2 12 109 52;
  D2 12 109 52; D2 12 109 52; D2 12 109 52; D2 12 109 52; D2 12 109 52; D2 12 109 52; D2 12 109 52; D2 12 109 52;
  D2 12 109 52; D2 12 109 52; D2 12 109 52; D2 12 109 52; D2 12 109 53; D2 12 109 53; D2 12 109 53; D2 12 109 53;
  D2 12 109 53; D2 12 109 53; D2 12 109 53; D2 12 109 53; D2 12 109 53; D2 12 109 53; D2 12 109 53; D2 12 109 53;
  D2 12 109 53; D2 12 109 53; D2 12 109 53; D2 12 109 53; D2 12 109 54; D2 12 109 54; D2 12 109 54; D2 12 109 54;
  D2 12 109 54; D2 12 109 54; D2 12 109 54; D2 12 109 54; D2 12 109 54; D2 12 109 54; D2 12 109 54; D2 12 109 54;
  D2 12 109 54; D2 12 109 54; D2 12 109 54; D2 12 109 54; D2 12 109 55; D2 12 109 55; D2 12 109 55; D2 12 109 55;
  D2 12 109 55; D2 12 109 55; D2 12 109 55; D2 12 109 55; D2 12 109 55; D2 12 109 55; D2 12 109 55; D2 12 109 55;
  D2 12 109 55; D2 12 109 55; D2 12 109 55; D2 12 109 55; D2 12 109 56; D2 12 109 56; D2 12 109 56; D2 12 109 56;
  D2 12 109 56; D2 12 109 56; D2 12 109 56; D2 12 109 56; D2 12 109 56; D2 12 109 56; D2 12 109 56; D2 12 109 56;
  D2 12 109 56; D2 12 109 56; D2 12 109 56; D2 12 109 56; D2 12 109 57; D2 12 109 57; D2 12 109 57; D2 12 109 57;
  D2 12 109 57; D2 12 109 57; D2 12 109 57; D2 12 109 57; D2 12 109 57; D2 12 109 57; D2 12 109 57; D2 12 109 57;
  D2 12 109 57; D2 12 109 57; D2 12 109 57; D2 12 109 57].
Definition hdecs_166 : list hdec := [
  D2 12 109 61; D2 12 109 61; D2 12 109 61; D2 12 109 61; D2 12 109 61; D2 12 109 61; D2 12 109 61; D2 12 109 61;
  D2 12 109 61; D2 12 109 61; D2 12 109 61; D2 12 109 61; D2 12 109 61; D2 12 109 61; D2 12 109 61; D2 12 109 61;
  D2 12 109 65; D2 12 109 65; D2 12 109 65; D2 12 109 65; D2 12 109 65; D2 12 109 65; D2 12 109 65; D2 12 109 65;
  D2 12 109 65; D2 12 109 65; D2 12 109 65; D2 12 109 65; D2 12 109 65; D2 12 109 65; D2 12 109 65; D2 12 109 65;
  D2 12 109 95; D2 12 109 95; D2 12 109 95; D2 12 109 95; D2 12 109 95; D2 12 109 95; D2 12 109 95; D2 12 109 95;
  D2 12 109 95; D2 12 109 95; D2 12 109 95; D2 12 109 95; D2 12 109 95; D2 12 109 95; D2 12 109 95; D2 12 109 95;
  D2 12 109 98; D2 12 109 98; D2 12 109 98; D2 12 109 98; D2 12 109 98; D2 12 109 98; D2 12 109 98; D2 12 109 98;
  D2 12 109 98; D2 12 109 98; D2 12 109 98; D2 12 109 98; D2 12 109 98; D2 12 109 98; D2 12 109 98; D2 12 109 98;
  D2 12 109 100; D2 12 109 100; D2 12 109 100; D2 12 109 100; D2 12 109 100; D2 12 109 100; D2 12 109 100;
  D2 12 109 100; D2 12 109 100; D2 12 109 100; D2 12 109 100; D2 12 109 100; D2 12 109 100; D2 12 109 100;
  D2 12 109 100; D2 12 109 100; D2 12 109 102; D2 12 109 102; D2 12 109 102; D2 12 109 102; D2 12 109 102;
  D2 12 109 102; D2 12 109 102; D2 12 109 102; D2 12 109 102; D2 12 109 102; D2 12 109 102; D2 12 109 102;
  D2 12 109 102; D2 12 109 102; D2 12 109 102; D2 12 109 102; D2 12 109 103; D2 12 109 103; D2 12 109 103;
  D2 12 109 103; D2 12 109 103; D2 12 109 103; D2 12 109 103; D2 12 109 103; D2 12 109 103; D2 12 109 103;
  D2 12 109 103; D2 12 109 103; D2 12 109 103; D2 12 109 103; D2 12 109 103; D2 12 109 103; D2 12 109 104;
  D2 12 109 104; D2 12 109 104; D2 12 109 104; D2 12 109 104; D2 12 109 104; D2 12 109 104; D2 12 109 104;
  D2 12 109 104; D2 12 109 104; D2 12 109 104; D2 12 109 104; D2 12 109 104; D2 12 109 104; D2 12 109 104;
  D2 12 109 104; D2 12 109 108; D2 12 109 108; D2 12 109 108; D2 12 109 108; D2 12 109 108; D2 12 109 108;
  D2 12 109 108; D2 12 109 108; D2 12 109 108; D2 12 109 108; D2 12 109 108; D2 12 109 108; D2 12 109 108;
  D2 12 109 108; D2 12 109 108; D2 12 109 108; D2 12 109 109; D2 12 109 109; D2 12 109 109; D2 12 109 109;
  D2 12 109 109; D2 12 109 109; D2 12 109 109; D2 12 109 109; D2 12 109 109; D2 12 109 109; D2 12 109 109;
  D2 12 109 109; D2 12 109 109; D2 12 109 109; D2 12 109 109; D2 12 109 109; D2 12 109 110; D2 12 109 110;
  D2 12 109 110; D2 12 109 110; D2 12 109 110; D2 12 109 110; D2 12 109 110; D2 12 109 110; D2 12 109 110;
  D2 12 109 110; D2 12 109 110; D2 12 109 110; D2 12 109 110; D2 12 109 110; D2 12 109 110; D2 12 109 110;
  D2 12 109 112; D2 12 109 112; D2 12 109 112; D2 12 109 112; D2 12 109 112; D2 12 109 112; D2 12 109 112;
  D2 12 109 112; D2 12 109 112; D2 12 109 112; D2 12 109 112; D2 12 109 112; D2 12 109 112; D2 12 109 112;
  D2 12 109 112; D2 12 109 112; D2 12 109 114; D2 12 109 114; D2 12 109 114; D2 12 109 114; D2 12 109 114;
  D2 12 109 114; D2 12 109 114; D2 12 109 114; D2 12 109 114; D2 12 109 114; D2 12 109 114; D2 12 109 114;
  D2 12 109 114; D2 12 109 114; D2 12 109 114; D2 12 109 114; D2 12 109 117; D2 12 109 117; D2 12 109 117;
  D2 12 109 117; D2 12 109 117; D2 12 109 117; D2 12 109 117; D2 12 109 117; D2 12 109 117; D2 12 109 117;
  D2 12 109 117; D2 12 109 117; D2 12 109 117; D2 12 109 117; D2 12 109 117; D2 12 109 117; D2 13 109 58;
  D2 13 109 58; D2 13 109 58; D2 13 109 58; D2 13 109 58; D2 13 109 58; D2 13 109 58; D2 13 109 58; D2 13 109 66;
  D2 13 109 66; D2 13 109 66; D2 13 109 66; D2 13 109 66; D2 13 109 66; D2 13 109 66; D2 13 109 66; D2 13 109 67;
  D2 13 109 67; D2 13 109 67; D2 13 109 67; D2 13 109 67; D2 13 109 67; D2 13 109 67; D2 13 109 67; D2 13 109 68;
  D2 13 109 68; D2 13 109 68; D2 13 109 68; D2 13 109 68; D2 13 109 68; D2 13 109 68; D2 13 109 68].
Definition hdecs_167 : list hdec := [
  D2 13 109 69; D2 13 109 69; D2 13 109 69; D2 13 109 69; D2 13 109 69; D2 13 109 69; D2 13 109 69; D2 13 109 69;
  D2 13 109 70; D2 13 109 70; D2 13 109 70; D2 13 109 70; D2 13 109 70; D2 13 109 70; D2 13 109 70; D2 13 109 70;
  D2 13 109 71; D2 13 109 71; D2 13 109 71; D2 13 109 71; D2 13 109 71; D2 13 109 71; D2 13 109 71; D2 13 109 71;
  D2 13 109 72; D2 13 109 72; D2 13 109 72; D2 13 109 72; D2 13 109 72; D2 13 109 72; D2 13 109 72; D2 13 109 72;
  D2 13 109 73; D2 13 109 73; D2 13 109 73; D2 13 109 73; D2 13 109 73; D2 13 109 73; D2 13 109 73; D2 13 109 73;
  D2 13 109 74; D2 13 109 74; D2 13 109 74; D2 13 109 74; D2 13 109 74; D2 13 109 74; D2 13 109 74; D2 13 109 74;
  D2 13 109 75; D2 13 109 75; D2 13 109 75; D2 13 109 75; D2 13 109 75; D2 13 109 75; D2 13 109 75; D2 13 109 75;
  D2 13 109 76; D2 13 109 76; D2 13 109 76; D2 13 109 76; D2 13 109 76; D2 13 109 76; D2 13 109 76; D2 13 109 76;
  D2 13 109 77; D2 13 109 77; D2 13 109 77; D2 13 109 77; D2 13 109 77; D2 13 109 77; D2 13 109 77; D2 13 109 77;
  D2 13 109 78; D2 13 109 78; D2 13 109 78; D2 13 109 78; D2 13 109 78; D2 13 109 78; D2 13 109 78; D2 13 109 78;
  D2 13 109 79; D2 13 109 79; D2 13 109 79; D2 13 109 79; D2 13 109 79; D2 13 109 79; D2 13 109 79; D2 13 109 79;
  D2 13 109 80; D2 13 109 80; D2 13 109 80; D2 13 109 80; D2 13 109 80; D2 13 109 80; D2 13 109 80; D2 13 109 80;
  D2 13 109 81; D2 13 109 81; D2 13 109 81; D2 13 109 81; D2 13 109 81; D2 13 109 81; D2 13 109 81; D2 13 109 81;
  D2 13 109 82; D2 13 109 82; D2 13 109 82; D2 13 109 82; D2 13 109 82; D2 13 109 82; D2 13 109 82; D2 13 109 82;
  D2 13 109 83; D2 13 109 83; D2 13 109 83; D2 13 109 83; D2 13 109 83; D2 13 109 83; D2 13 109 83; D2 13 109 83;
  D2 13 109 84; D2 13 109 84; D2 13 109 84; D2 13 109 84; D2 13 109 84; D2 13 109 84; D2 13 109 84; D2 13 109 84;
  D2 13 109 85; D2 13 109 85; D2 13 109 85; D2 13 109 85; D2 13 109 85; D2 13 109 85; D2 13 109 85; D2 13 109 85;
  D2 13 109 86; D2 13 109 86; D2 13 109 86; D2 13 109 86; D2 13 109 86; D2 13 109 86; D2 13 109 86; D2 13 109 86;
  D2 13 109 87; D2 13 109 87; D2 13 109 87; D2 13 109 87; D2 13 109 87; D2 13 109 87; D2 13 109 87; D2 13 109 87;
  D2 13 109 89; D2 13 109 89; D2 13 109 89; D2 13 109 89; D2 13 109 89; D2 13 109 89; D2 13 109 89; D2 13 109 89;
  D2 13 109 106; D2 13 109 106; D2 13 109 106; D2 13 109 106; D2 13 109 106; D2 13 109 106; D2 13 109 106;
  D2 13 109 106; D2 13 109 107; D2 13 109 107; D2 13 109 107; D2 13 109 107; D2 13 109 107; D2 13 109 107;
  D2 13 109 107; D2 13 109 107; D2 13 109 113; D2 13 109 113; D2 13 109 113; D2 13 109 113; D2 13 109 113;
  D2 13 109 113; D2 13 109 113; D2 13 109 113; D2 13 109 118; D2 13 109 118; D2 13 109 118; D2 13 109 118;
  D2 13 109 118; D2 13 109 118; D2 13 109 118; D2 13 109 118; D2 13 109 119; D2 13 109 119; D2 13 109 119;
  D2 13 109 119; D2 13 109 119; D2 13 109 119; D2 13 109 119; D2 13 109 119; D2 13 109 120; D2 13 109 120;
  D2 13 109 120; D2 13 109 120; D2 13 109 120; D2 13 109 120; D2 13 109 120; D2 13 109 120; D2 13 109 121;
  D2 13 109 121; D2 13 109 121; D2 13 109 121; D2 13 109 121; D2 13 109 121; D2 13 109 121; D2 13 109 121;
  D2 13 109 122; D2 13 109 122; D2 13 109 122; D2 13 109 122; D2 13 109 122; D2 13 109 122; D2 13 109 122;
  D2 13 109 122; D2 14 109 38; D2 14 109 38; D2 14 109 38; D2 14 109 38; D2 14 109 42; D2 14 109 42; D2 14 109 42;
  D2 14 109 42; D2 14 109 44; D2 14 109 44; D2 14 109 44; D2 14 109 44; D2 14 109 59; D2 14 109 59; D2 14 109 59;
  D2 14 109 59; D2 14 109 88; D2 14 109 88; D2 14 109 88; D2 14 109 88; D2 14 109 90; D2 14 109 90; D2 14 109 90;
  D2 14 109 90; D2 16 109 33; D2 16 109 34; D2 16 109 40; D2 16 109 41; D2 16 109 63; D1 6 109; D1 6 109; D1 6 109].
Definition hdecs_168 : list hdec := [
  D3 16 110 48 48; D3 16 110 48 49; D3 16 110 48 50; D3 16 110 48 97; D3 16 110 48 99; D3 16 110 48 101;
  D3 16 110 48 105; D3 16 110 48 111; D3 16 110 48 115; D3 16 110 48 116; D2 11 110 48; D2 11 110 48; D2 11 110 48;
  D2 11 110 48; D2 11 110 48; D2 11 110 48; D2 11 110 48; D2 11 110 48; D2 11 110 48; D2 11 110 48; D2 11 110 48;
  D2 11 110 48; D2 11 110 48; D2 11 110 48; D2 11 110 48; D2 11 110 48; D2 11 110 48; D2 11 110 48; D2 11 110 48;
  D2 11 110 48; D2 11 110 48; D2 11 110 48; D3 16 110 49 48; D3 16 110 49 49; D3 16 110 49 50; D3 16 110 49 97;
  D3 16 110 49 99; D3 16 110 49 101; D3 16 110 49 105; D3 16 110 49 111; D3 16 110 49 115; D3 16 110 49 116;
  D2 11 110 49; D2 11 110 49; D2 11 110 49; D2 11 110 49; D2 11 110 49; D2 11 110 49; D2 11 110 49; D2 11 110 49;
  D2 11 110 49; D2 11 110 49; D2 11 110 49; D2 11 110 49; D2 11 110 49; D2 11 110 49; D2 11 110 49; D2 11 110 49;
  D2 11 110 49; D2 11 110 49; D2 11 110 49; D2 11 110 49; D2 11 110 49; D2 11 110 49; D3 16 110 50 48;
  D3 16 110 50 49; D3 16 110 50 50; D3 16 110 50 97; D3 16 110 50 99; D3 16 110 50 101; D3 16 110 50 105;
  D3 16 110 50 111; D3 16 110 50 115; D3 16 110 50 116; D2 11 110 50; D2 11 110 50; D2 11 110 50; D2 11 110 50;
  D2 11 110 50; D2 11 110 50; D2 11 110 50; D2 11 110 50; D2 11 110 50; D2 11 110 50; D2 11 110 50; D2 11 110 50;
  D2 11 110 50; D2 11 110 50; D2 11 110 50; D2 11 110 50; D2 11 110 50; D2 11 110 50; D2 11 110 50; D2 11 110 50;
  D2 11 110 50; D2 11 110 50; D3 16 110 97 48; D3 16 110 97 49; D3 16 110 97 50; D3 16 110 97 97; D3 16 110 97 99;
  D3 16 110 97 101; D3 16 110 97 105; D3 16 110 97 111; D3 16 110 97 115; D3 16 110 97 116; D2 11 110 97;
  D2 11 110 97; D2 11 110 97; D2 11 110 97; D2 11 110 97; D2 11 110 97; D2 11 110 97; D2 11 110 97; D2 11 110 97;
  D2 11 110 97; D2 11 110 97; D2 11 110 97; D2 11 110 97; D2 11 110 97; D2 11 110 97; D2 11 110 97; D2 11 110 97;
  D2 11 110 97; D2 11 110 97; D2 11 110 97; D2 11 110 97; D2 11 110 97; D3 16 110 99 48; D3 16 110 99 49;
  D3 16 110 99 50; D3 16 110 99 97; D3 16 110 99 99; D3 16 110 99 101; D3 16 110 99 105; D3 16 110 99 111;
  D3 16 110 99 115; D3 16 110 99 116; D2 11 110 99; D2 11 110 99; D2 11 110 99; D2 11 110 99; D2 11 110 99;
  D2 11 110 99; D2 11 110 99; D2 11 110 99; D2 11 110 99; D2 11 110 99; D2 11 110 99; D2 11 110 99; D2 11 110 99;
  D2 11 110 99; D2 11 110 99; D2 11 110 99; D2 11 110 99; D2 11 110 99; D2 11 110 99; D2 11 110 99; D2 11 110 99;
  D2 11 110 99; D3 16 110 101 48; D3 16 110 101 49; D3 16 110 101 50; D3 16 110 101 97; D3 16 110 101 99;
  D3 16 110 101 101; D3 16 110 101 105; D3 16 110 101 111; D3 16 110 101 115; D3 16 110 101 116; D2 11 110 101;
  D2 11 110 101; D2 11 110 101; D2 11 110 101; D2 11 110 101; D2 11 110 101; D2 11 110 101; D2 11 110 101;
  D2 11 110 101; D2 11 110 101; D2 11 110 101; D2 11 110 101; D2 11 110 101; D2 11 110 101; D2 11 110 101;
  D2 11 110 101; D2 11 110 101; D2 11 110 101; D2 11 110 101; D2 11 110 101; D2 11 110 101; D2 11 110 101;
  D3 16 110 105 48; D3 16 110 105 49; D3 16 110 105 50; D3 16 110 105 97; D3 16 110 105 99; D3 16 110 105 101;
  D3 16 110 105 105; D3 16 110 105 111; D3 16 110 105 115; D3 16 110 105 116; D2 11 110 105; D2 11 110 105;
  D2 11 110 105; D2 11 110 105; D2 11 110 105; D2 11 110 105; D2 11 110 105; D2 11 110 105; D2 11 110 105;
  D2 11 110 105; D2 11 110 105; D2 11 110 105; D2 11 110 105; D2 11 110 105; D2 11 110 105; D2 11 110 105;
  D2 11 110 105; D2 11 110 105; D2 11 110 105; D2 11 110 105; D2 11 110 105; D2 11 110 105; D3 16 110 111 48;
  D3 16 110 111 49; D3 16 110 111 50; D3 16 110 111 97; D3 16 110 111 99; D3 16 110 111 101; D3 16 110 111 105;
  D3 16 110 111 111; D3 16 110 111 115; D3 16 110 111 116; D2 11 110 111; D2 11 110 111; D2 11 110 111; D2 11 110 111;
  D2 11 110 111; D2 11 110 111; D2 11 110 111; D2 11 110 111; D2 11 110 111; D2 11 110 111; D2 11 110 111;
  D2 11 110 111; D2 11 110 111; D2 11 110 111; D2 11 110 111; D2 11 110 111; D2 11 110 111; D2 11 110 111;
  D2 11 110 111; D2 11 110 111; D2 11 110 111; D2 11 110 111].
Definition hdecs_169 : list hdec := [
  D3 16 110 115 48; D3 16 110 115 49; D3 16 110 115 50; D3 16 110 115 97; D3 16 110 115 99; D3 16 110 115 101;
  D3 16 110 115 105; D3 16 110 115 111; D3 16 110 115 115; D3 16 110 115 116; D2 11 110 115; D2 11 110 115;
  D2 11 110 115; D2 11 110 115; D2 11 110 115; D2 11 110 115; D2 11 110 115; D2 11 110 115; D2 11 110 115;
  D2 11 110 115; D2 11 110 115; D2 11 110 115; D2 11 110 115; D2 11 110 115; D2 11 110 115; D2 11 110 115;
  D2 11 110 115; D2 11 110 115; D2 11 110 115; D2 11 110 115; D2 11 110 115; D2 11 110 115; D3 16 110 116 48;
  D3 16 110 116 49; D3 16 110 116 50; D3 16 110 116 97; D3 16 110 116 99; D3 16 110 116 101; D3 16 110 116 105;
  D3 16 110 116 111; D3 16 110 116 115; D3 16 110 116 116; D2 11 110 116; D2 11 110 116; D2 11 110 116; D2 11 110 116;
  D2 11 110 116; D2 11 110 116; D2 11 110 116; D2 11 110 116; D2 11 110 116; D2 11 110 116; D2 11 110 116;
  D2 11 110 116; D2 11 110 116; D2 11 110 116; D2 11 110 116; D2 11 110 116; D2 11 110 116; D2 11 110 116;
  D2 11 110 116; D2 11 110 116; D2 11 110 116; D2 11 110 116; D2 12 110 32; D2 12 110 32; D2 12 110 32; D2 12 110 32;
  D2 12 110 32; D2 12 110 32; D2 12 110 32; D2 12 110 32; D2 12 110 32; D2 12 110 32; D2 12 110 32; D2 12 110 32;
  D2 12 110 32; D2 12 110 32; D2 12 110 32; D2 12 110 32; D2 12 110 37; D2 12 110 37; D2 12 110 37; D2 12 110 37;
  D2 12 110 37; D2 12 110 37; D2 12 110 37; D2 12 110 37; D2 12 110 37; D2 12 110 37; D2 12 110 37; D2 12 110 37;
  D2 12 110 37; D2 12 110 37; D2 12 110 37; D2 12 110 37; D2 12 110 45; D2 12 110 45; D2 12 110 45; D2 12 110 45;
  D2 12 110 45; D2 12 110 45; D2 12 110 45; D2 12 110 45; D2 12 110 45; D2 12 110 45; D2 12 110 45; D2 12 110 45;
  D2 12 110 45; D2 12 110 45; D2 12 110 45; D2 12 110 45; D2 12 110 46; D2 12 110 46; D2 12 110 46; D2 12 110 46;
  D2 12 110 46; D2 12 110 46; D2 12 110 46; D2 12 110 46; D2 12 110 46; D2 12 110 46; D2 12 110 46; D2 12 110 46;
  D2 12 110 46; D2 12 110 46; D2 12 110 46; D2 12 110 46; D2 12 110 47; D2 12 110 47; D2 12 110 47; D2 12 110 47;
  D2 12 110 47; D2 12 110 47; D2 12 110 47; D2 12 110 47; D2 12 110 47; D2 12 110 47; D2 12 110 47; D2 12 110 47;
  D2 12 110 47; D2 12 110 47; D2 12 110 47; D2 12 110 47; D2 12 110 51; D2 12 110 51; D2 12 110 51; D2 12 110 51;
  D2 12 110 51; D2 12 110 51; D2 12 110 51; D2 12 110 51; D2 12 110 51; D2 12 110 51; D2 12 110 51; D2 12 110 51;
  D2 12 110 51; D2 12 110 51; D2 12 110 51; D2 12 110 51; D2 12 110 52; D2 12 110 52; D2 12 110 52; D2 12 110 52;
  D2 12 110 52; D2 12 110 52; D2 12 110 52; D2 12 110 52; D2 12 110 52; D2 12 110 52; D2 12 110 52; D2 12 110 52;
  D2 12 110 52; D2 12 110 52; D2 12 110 52; D2 12 110 52; D2 12 110 53; D2 12 110 53; D2 12 110 53; D2 12 110 53;
  D2 12 110 53; D2 12 110 53; D2 12 110 53; D2 12 110 53; D2 12 110 53; D2 12 110 53; D2 12 110 53; D2 12 110 53;
  D2 12 110 53; D2 12 110 53; D2 12 110 53; D2 12 110 53; D2 12 110 54; D2 12 110 54; D2 12 110 54; D2 12 110 54;
  D2 12 110 54; D2 12 110 54; D2 12 110 54; D2 12 110 54; D2 12 110 54; D2 12 110 54; D2 12 110 54; D2 12 110 54;
  D2 12 110 54; D2 12 110 54; D2 12 110 54; D2 12 110 54; D2 12 110 55; D2 12 110 55; D2 12 110 55; D2 12 110 55;
  D2 12 110 55; D2 12 110 55; D2 12 110 55; D2 12 110 55; D2 12 110 55; D2 12 110 55; D2 12 110 55; D2 12 110 55;
  D2 12 110 55; D2 12 110 55; D2 12 110 55; D2 12 110 55; D2 12 110 56; D2 12 110 56; D2 12 110 56; D2 12 110 56;
  D2 12 110 56; D2 12 110 56; D2 12 110 56; D2 12 110 56; D2 12 110 56; D2 12 110 56; D2 12 110 56; D2 12 110 56;
  D2 12 110 56; D2 12 110 56; D2 12 110 56; D2 12 110 56; D2 12 110 57; D2 12 110 57; D2 12 110 57; D2 12 110 57;
  D2 12 110 57; D2 12 110 57; D2 12 110 57; D2 12 110 57; D2 12 110 57; D2 12 110 57; D2 12 110 57; D2 12 110 57;
  D2 12 110 57; D2 12 110 57; D2 12 110 57; D2 12 110 57].
Definition hdecs_170 : list hdec := [
  D2 12 110 61; D2 12 110 61; D2 12 110 61; D2 12 110 61; D2 12 110 61; D2 12 110 61; D2 12 110 61; D2 12 110 61;
  D2 12 110 61; D2 12 110 61; D2 12 110 61; D2 12 110 61; D2 12 110 61; D2 12 110 61; D2 12 110 61; D2 12 110 61;
  D2 12 110 65; D2 12 110 65; D2 12 110 65; D2 12 110 65; D2 12 110 65; D2 12 110 65; D2 12 110 65; D2 12 110 65;
  D2 12 110 65; D2 12 110 65; D2 12 110 65; D2 12 110 65; D2 12 110 65; D2 12 110 65; D2 12 110 65; D2 12 110 65;
  D2 12 110 95; D2 12 110 95; D2 12 110 95; D2 12 110 95; D2 12 110 95; D2 12 110 95; D2 12 110 95; D2 12 110 95;
  D2 12 110 95; D2 12 110 95; D2 12 110 95; D2 12 110 95; D2 12 110 95; D2 12 110 95; D2 12 110 95; D2 12 110 95;
  D2 12 110 98; D2 12 110 98; D2 12 110 98; D2 12 110 98; D2 12 110 98; D2 12 110 98; D2 12 110 98; D2 12 110 98;
  D2 12 110 98; D2 12 110 98; D2 12 110 98; D2 12 110 98; D2 12 110 98; D2 12 110 98; D2 12 110 98; D2 12 110 98;
  D2 12 110 100; D2 12 110 100; D2 12 110 100; D2 12 110 100; D2 12 110 100; D2 12 110 100; D2 12 110 100;
  D2 12 110 100; D2 12 110 100; D2 12 110 100; D2 12 110 100; D2 12 110 100; D2 12 110 100; D2 12 110 100;
  D2 12 110 100; D2 12 110 100; D2 12 110 102; D2 12 110 102; D2 12 110 102; D2 12 110 102; D2 12 110 102;
  D2 12 110 102; D2 12 110 102; D2 12 110 102; D2 12 110 102; D2 12 110 102; D2 12 110 102; D2 12 110 102;
  D2 12 110 102; D2 12 110 102; D2 12 110 102; D2 12 110 102; D2 12 110 103; D2 12 110 103; D2 12 110 103;
  D2 12 110 103; D2 12 110 103; D2 12 110 103; D2 12 110 103; D2 12 110 103; D2 12 110 103; D2 12 110 103;
  D2 12 110 103; D2 12 110 103; D2 12 110 103; D2 12 110 103; D2 12 110 103; D2 12 110 103; D2 12 110 104;
  D2 12 110 104; D2 12 110 104; D2 12 110 104; D2 12 110 104; D2 12 110 104; D2 12 110 104; D2 12 110 104;
  D2 12 110 104; D2 12 110 104; D2 12 110 104; D2 12 110 104; D2 12 110 104; D2 12 110 104; D2 12 110 104;
  D2 12 110 104; D2 12 110 108; D2 12 110 108; D2 12 110 108; D2 12 110 108; D2 12 110 108; D2 12 110 108;
  D2 12 110 108; D2 12 110 108; D2 12 110 108; D2 12 110 108; D2 12 110 108; D2 12 110 108; D2 12 110 108;
  D2 12 110 108; D2 12 110 108; D2 12 110 108; D2 12 110 109; D2 12 110 109; D2 12 110 109; D2 12 110 109;
  D2 12 110 109; D2 12 110 109; D2 12 110 109; D2 12 110 109; D2 12 110 109; D2 12 110 109; D2 12 110 109;
  D2 12 110 109; D2 12 110 109; D2 12 110 109; D2 12 110 109; D2 12 110 109; D2 12 110 110; D2 12 110 110;
  D2 12 110 110; D2 12 110 110; D2 12 110 110; D2 12 110 110; D2 12 110 110; D2 12 110 110; D2 12 110 110;
  D2 12 110 110; D2 12 110 110; D2 12 110 110; D2 12 110 110; D2 12 110 110; D2 12 110 110; D2 12 110 110;
  D2 12 110 112; D2 12 110 112; D2 12 110 112; D2 12 110 112; D2 12 110 112; D2 12 110 112; D2 12 110 112;
  D2 12 110 112; D2 12 110 112; D2 12 110 112; D2 12 110 112; D2 12 110 112; D2 12 110 112; D2 12 110 112;
  D2 12 110 112; D2 12 110 112; D2 12 110 114; D2 12 110 114; D2 12 110 114; D2 12 110 114; D2 12 110 114;
  D2 12 110 114; D2 12 110 114; D2 12 110 114; D2 12 110 114; D2 12 110 114; D2 12 110 114; D2 12 110 114;
  D2 12 110 114; D2 12 110 114; D2 12 110 114; D2 12 110 114; D2 12 110 117; D2 12 110 117; D2 12 110 117;
  D2 12 110 117; D2 12 110 117; D2 12 110 117; D2 12 110 117; D2 12 110 117; D2 12 110 117; D2 12 110 117;
  D2 12 110 117; D2 12 110 117; D2 12 110 117; D2 12 110 117; D2 12 110 117; D2 12 110 117; D2 13 110 58;
  D2 13 110 58; D2 13 110 58; D2 13 110 58; D2 13 110 58; D2 13 110 58; D2 13 110 58; D2 13 110 58; D2 13 110 66;
  D2 13 110 66; D2 13 110 66; D2 13 110 66; D2 13 110 66; D2 13 110 66; D2 13 110 66; D2 13 110 66; D2 13 110 67;
  D2 13 110 67; D2 13 110 67; D2 13 110 67; D2 13 110 67; D2 13 110 67; D2 13 110 67; D2 13 110 67; D2 13 110 68;
  D2 13 110 68; D2 13 110 68; D2 13 110 68; D2 13 110 68; D2 13 110 68; D2 13 110 68; D2 13 110 68].
Definition hdecs_171 : list hdec := [
  D2 13 110 69; D2 13 110 69; D2 13 110 69; D2 13 110 69; D2 13 110 69; D2 13 110 69; D2 13 110 69; D2 13 110 69;
  D2 13 110 70; D2 13 110 70; D2 13 110 70; D2 13 110 70; D2 13 110 70; D2 13 110 70; D2 13 110 70; D2 13 110 70;
  D2 13 110 71; D2 13 110 71; D2 13 110 71; D2 13 110 71; D2 13 110 71; D2 13 110 71; D2 13 110 71; D2 13 110 71;
  D2 13 110 72; D2 13 110 72; D2 13 110 72; D2 13 110 72; D2 13 110 72; D2 13 110 72; D2 13 110 72; D2 13 110 72;
  D2 13 110 73; D2 13 110 73; D2 13 110 73; D2 13 110 73; D2 13 110 73; D2 13 110 73; D2 13 110 73; D2 13 110 73;
  D2 13 110 74; D2 13 110 74; D2 13 110 74; D2 13 110 74; D2 13 110 74; D2 13 110 74; D2 13 110 74; D2 13 110 74;
  D2 13 110 75; D2 13 110 75; D2 13 110 75; D2 13 110 75; D2 13 110 75; D2 13 110 75; D2 13 110 75; D2 13 110 75;
  D2 13 110 76; D2 13 110 76; D2 13 110 76; D2 13 110 76; D2 13 110 76; D2 13 110 76; D2 13 110 76; D2 13 110 76;
  D2 13 110 77; D2 13 110 77; D2 13 110 77; D2 13 110 77; D2 13 110 77; D2 13 110 77; D2 13 110 77; D2 13 110 77;
  D2 13 110 78; D2 13 110 78; D2 13 110 78; D2 13 110 78; D2 13 110 78; D2 13 110 78; D2 13 110 78; D2 13 110 78;
  D2 13 110 79; D2 13 110 79; D2 13 110 79; D2 13 110 79; D2 13 110 79; D2 13 110 79; D2 13 110 79; D2 13 110 79;
  D2 13 110 80; D2 13 110 80; D2 13 110 80; D2 13 110 80; D2 13 110 80; D2 13 110 80; D2 13 110 80; D2 13 110 80;
  D2 13 110 81; D2 13 110 81; D2 13 110 81; D2 13 110 81; D2 13 110 81; D2 13 110 81; D2 13 110 81; D2 13 110 81;
  D2 13 110 82; D2 13 110 82; D2 13 110 82; D2 13 110 82; D2 13 110 82; D2 13 110 82; D2 13 110 82; D2 13 110 82;
  D2 13 110 83; D2 13 110 83; D2 13 110 83; D2 13 110 83; D2 13 110 83; D2 13 110 83; D2 13 110 83; D2 13 110 83;
  D2 13 110 84; D2 13 110 84; D2 13 110 84; D2 13 110 84; D2 13 110 84; D2 13 110 84; D2 13 110 84; D2 13 110 84;
  D2 13 110 85; D2 13 110 85; D2 13 110 85; D2 13 110 85; D2 13 110 85; D2 13 110 85; D2 13 110 85; D2 13 110 85;
  D2 13 110 86; D2 13 110 86; D2 13 110 86; D2 13 110 86; D2 13 110 86; D2 13 110 86; D2 13 110 86; D2 13 110 86;
  D2 13 110 87; D2 13 110 87; D2 13 110 87; D2 13 110 87; D2 13 110 87; D2 13 110 87; D2 13 110 87; D2 13 110 87;
  D2 13 110 89; D2 13 110 89; D2 13 110 89; D2 13 110 89; D2 13 110 89; D2 13 110 89; D2 13 110 89; D2 13 110 89;
  D2 13 110 106; D2 13 110 106; D2 13 110 106; D2 13 110 106; D2 13 110 106; D2 13 110 106; D2 13 110 106;
  D2 13 110 106; D2 13 110 107; D2 13 110 107; D2 13 110 107; D2 13 110 107; D2 13 110 107; D2 13 110 107;
  D2 13 110 107; D2 13 110 107; D2 13 110 113; D2 13 110 113; D2 13 110 113; D2 13 110 113; D2 13 110 113;
  D2 13 110 113; D2 13 110 113; D2 13 110 113; D2 13 110 118; D2 13 110 118; D2 13 110 118; D2 13 110 118;
  D2 13 110 118; D2 13 110 118; D2 13 110 118; D2 13 110 118; D2 13 110 119; D2 13 110 119; D2 13 110 119;
  D2 13 110 119; D2 13 110 119; D2 13 110 119; D2 13 110 119; D2 13 110 119; D2 13 110 120; D2 13 110 120;
  D2 13 110 120; D2 13 110 120; D2 13 110 120; D2 13 110 120; D2 13 110 120; D2 13 110 120; D2 13 110 121;
  D2 13 110 121; D2 13 110 121; D2 13 110 121; D2 13 110 121; D2 13 110 121; D2 13 110 121; D2 13 110 121;
  D2 13 110 122; D2 13 110 122; D2 13 110 122; D2 13 110 122; D2 13 110 122; D2 13 110 122; D2 13 110 122;
  D2 13 110 122; D2 14 110 38; D2 14 110 38; D2 14 110 38; D2 14 110 38; D2 14 110 42; D2 14 110 42; D2 14 110 42;
  D2 14 110 42; D2 14 110 44; D2 14 110 44; D2 14 110 44; D2 14 110 44; D2 14 110 59; D2 14 110 59; D2 14 110 59;
  D2 14 110 59; D2 14 110 88; D2 14 110 88; D2 14 110 88; D2 14 110 88; D2 14 110 90; D2 14 110 90; D2 14 110 90;
  D2 14 110 90; D2 16 110 33; D2 16 110 34; D2 16 110 40; D2 16 110 41; D2 16 110 63; D1 6 110; D1 6 110; D1 6 110].
Definition hdecs_172 : list hdec := [
  D3 16 112 48 48; D3 16 112 48 49; D3 16 112 48 50; D3 16 112 48 97; D3 16 112 48 99; D3 16 112 48 101;
  D3 16 112 48 105; D3 16 112 48 111; D3 16 112 48 115; D3 16 112 48 116; D2 11 112 48; D2 11 112 48; D2 11 112 48;
  D2 11 112 48; D2 11 112 48; D2 11 112 48; D2 11 112 48; D2 11 112 48; D2 11 112 48; D2 11 112 48; D2 11 112 48;
  D2 11 112 48; D2 11 112 48; D2 11 112 48; D2 11 112 48; D2 11 112 48; D2 11 112 48; D2 11 112 48; D2 11 112 48;
  D2 11 112 48; D2 11 112 48; D2 11 112 48; D3 16 112 49 48; D3 16 112 49 49; D3 16 112 49 50; D3 16 112 49 97;
  D3 16 112 49 99; D3 16 112 49 101; D3 16 112 49 105; D3 16 112 49 111; D3 16 112 49 115; D3 16 112 49 116;
  D2 11 112 49; D2 11 112 49; D2 11 112 49; D2 11 112 49; D2 11 112 49; D2 11 112 49; D2 11 112 49; D2 11 112 49;
  D2 11 112 49; D2 11 112 49; D2 11 112 49; D2 11 112 49; D2 11 112 49; D2 11 112 49; D2 11 112 49; D2 11 112 49;
  D2 11 112 49; D2 11 112 49; D2 11 112 49; D2 11 112 49; D2 11 112 49; D2 11 112 49; D3 16 112 50 48;
  D3 16 112 50 49; D3 16 112 50 50; D3 16 112 50 97; D3 16 112 50 99; D3 16 112 50 101; D3 16 112 50 105;
  D3 16 112 50 111; D3 16 112 50 115; D3 16 112 50 116; D2 11 112 50; D2 11 112 50; D2 11 112 50; D2 11 112 50;
  D2 11 112 50; D2 11 112 50; D2 11 112 50; D2 11 112 50; D2 11 112 50; D2 11 112 50; D2 11 112 50; D2 11 112 50;
  D2 11 112 50; D2 11 112 50; D2 11 112 50; D2 11 112 50; D2 11 112 50; D2 11 112 50; D2 11 112 50; D2 11 112 50;
  D2 11 112 50; D2 11 112 50; D3 16 112 97 48; D3 16 112 97 49; D3 16 112 97 50; D3 16 112 97 97; D3 16 112 97 99;
  D3 16 112 97 101; D3 16 112 97 105; D3 16 112 97 111; D3 16 112 97 115; D3 16 112 97 116; D2 11 112 97;
  D2 11 112 97; D2 11 112 97; D2 11 112 97; D2 11 112 97; D2 11 112 97; D2 11 112 97; D2 11 112 97; D2 11 112 97;
  D2 11 112 97; D2 11 112 97; D2 11 112 97; D2 11 112 97; D2 11 112 97; D2 11 112 97; D2 11 112 97; D2 11 112 97;
  D2 11 112 97; D2 11 112 97; D2 11 112 97; D2 11 112 97; D2 11 112 97; D3 16 112 99 48; D3 16 112 99 49;
  D3 16 112 99 50; D3 16 112 99 97; D3 16 112 99 99; D3 16 112 99 101; D3 16 112 99 105; D3 16 112 99 111;
  D3 16 112 99 115; D3 16 112 99 116; D2 11 112 99; D2 11 112 99; D2 11 112 99; D2 11 112 99; D2 11 112 99;
  D2 11 112 99; D2 11 112 99; D2 11 112 99; D2 11 112 99; D2 11 112 99; D2 11 112 99; D2 11 112 99; D2 11 112 99;
  D2 11 112 99; D2 11 112 99; D2 11 112 99; D2 11 112 99; D2 11 112 99; D2 11 112 99; D2 11 112 99; D2 11 112 99;
  D2 11 112 99; D3 16 112 101 48; D3 16 112 101 49; D3 16 112 101 50; D3 16 112 101 97; D3 16 112 101 99;
  D3 16 112 101 101; D3 16 112 101 105; D3 16 112 101 111; D3 16 112 101 115; D3 16 112 101 116; D2 11 112 101;
  D2 11 112 101; D2 11 112 101; D2 11 112 101; D2 11 112 101; D2 11 112 101; D2 11 112 101; D2 11 112 101;
  D2 11 112 101; D2 11 112 101; D2 11 112 101; D2 11 112 101; D2 11 112 101; D2 11 112 101; D2 11 112 101;
  D2 11 112 101; D2 11 112 101; D2 11 112 101; D2 11 112 101; D2 11 112 101; D2 11 112 101; D2 11 112 101;
  D3 16 112 105 48; D3 16 112 105 49; D3 16 112 105 50; D3 16 112 105 97; D3 16 112 105 99; D3 16 112 105 101;
  D3 16 112 105 105; D3 16 112 105 111; D3 16 112 105 115; D3 16 112 105 116; D2 11 112 105; D2 11 112 105;
  D2 11 112 105; D2 11 112 105; D2 11 112 105; D2 11 112 105; D2 11 112 105; D2 11 112 105; D2 11 112 105;
  D2 11 112 105; D2 11 112 105; D2 11 112 105; D2 11 112 105; D2 11 112 105; D2 11 112 105; D2 11 112 105;
  D2 11 112 105; D2 11 112 105; D2 11 112 105; D2 11 112 105; D2 11 112 105; D2 11 112 105; D3 16 112 111 48;
  D3 16 112 111 49; D3 16 112 111 50; D3 16 112 111 97; D3 16 112 111 99; D3 16 112 111 101; D3 16 112 111 105;
  D3 16 112 111 111; D3 16 112 111 115; D3 16 112 111 116; D2 11 112 111; D2 11 112 111; D2 11 112 111; D2 11 112 111;
  D2 11 112 111; D2 11 112 111; D2 11 112 111; D2 11 112 111; D2 11 112 111; D2 11 112 111; D2 11 112 111;
  D2 11 112 111; D2 11 112 111; D2 11 112 111; D2 11 112 111; D2 11 112 111; D2 11 112 111; D2 11 112 111;
  D2 11 112 111; D2 11 112 111; D2 11 112 111; D2 11 112 111].
Definition hdecs_173 : list hdec := [
  D3 16 112 115 48; D3 16 112 115 49; D3 16 112 115 50; D3 16 112 115 97; D3 16 112 115 99; D3 16 112 115 101;
  D3 16 112 115 105; D3 16 112 115 111; D3 16 112 115 115; D3 16 112 115 116; D2 11 112 115; D2 11 112 115;
  D2 11 112 115; D2 11 112 115; D2 11 112 115; D2 11 112 115; D2 11 112 115; D2 11 112 115; D2 11 112 115;
  D2 11 112 115; D2 11 112 115; D2 11 112 115; D2 11 112 115; D2 11 112 115; D2 11 112 115; D2 11 112 115;
  D2 11 112 115; D2 11 112 115; D2 11 112 115; D2 11 112 115; D2 11 112 115; D2 11 112 115; D3 16 112 116 48;
  D3 16 112 116 49; D3 16 112 116 50; D3 16 112 116 97; D3 16 112 116 99; D3 16 112 116 101; D3 16 112 116 105;
  D3 16 112 116 111; D3 16 112 116 115; D3 16 112 116 116; D2 11 112 116; D2 11 112 116; D2 11 112 116; D2 11 112 116;
  D2 11 112 116; D2 11 112 116; D2 11 112 116; D2 11 112 116; D2 11 112 116; D2 11 112 116; D2 11 112 116;
  D2 11 112 116; D2 11 112 116; D2 11 112 116; D2 11 112 116; D2 11 112 116; D2 11 112 116; D2 11 112 116;
  D2 11 112 116; D2 11 112 116; D2 11 112 116; D2 11 112 116; D2 12 112 32; D2 12 112 32; D2 12 112 32; D2 12 112 32;
  D2 12 112 32; D2 12 112 32; D2 12 112 32; D2 12 112 32; D2 12 112 32; D2 12 112 32; D2 12 112 32; D2 12 112 32;
  D2 12 112 32; D2 12 112 32; D2 12 112 32; D2 12 112 32; D2 12 112 37; D2 12 112 37; D2 12 112 37; D2 12 112 37;
  D2 12 112 37; D2 12 112 37; D2 12 112 37; D2 12 112 37; D2 12 112 37; D2 12 112 37; D2 12 112 37; D2 12 112 37;
  D2 12 112 37; D2 12 112 37; D2 12 112 37; D2 12 112 37; D2 12 112 45; D2 12 112 45; D2 12 112 45; D2 12 112 45;
  D2 12 112 45; D2 12 112 45; D2 12 112 45; D2 12 112 45; D2 12 112 45; D2 12 112 45; D2 12 112 45; D2 12 112 45;
  D2 12 112 45; D2 12 112 45; D2 12 112 45; D2 12 112 45; D2 12 112 46; D2 12 112 46; D2 12 112 46; D2 12 112 46;
  D2 12 112 46; D2 12 112 46; D2 12 112 46; D2 12 112 46; D2 12 112 46; D2 12 112 46; D2 12 112 46; D2 12 112 46;
  D2 12 112 46; D2 12 112 46; D2 12 112 46; D2 12 112 46; D2 12 112 47; D2 12 112 47; D2 12 112 47; D2 12 112 47;
  D2 12 112 47; D2 12 112 47; D2 12 112 47; D2 12 112 47; D2 12 112 47; D2 12 112 47; D2 12 112 47; D2 12 112 47;
  D2 12 112 47; D2 12 112 47; D2 12 112 47; D2 12 112 47; D2 12 112 51; D2 12 112 51; D2 12 112 51; D2 12 112 51;
  D2 12 112 51; D2 12 112 51; D2 12 112 51; D2 12 112 51; D2 12 112 51; D2 12 112 51; D2 12 112 51; D2 12 112 51;
  D2 12 112 51; D2 12 112 51; D2 12 112 51; D2 12 112 51; D2 12 112 52; D2 12 112 52; D2 12 112 52; D2 12 112 52;
  D2 12 112 52; D2 12 112 52; D2 12 112 52; D2 12 112 52; D2 12 112 52; D2 12 112 52; D2 12 112 52; D2 12 112 52;
  D2 12 112 52; D2 12 112 52; D2 12 112 52; D2 12 112 52; D2 12 112 53; D2 12 112 53; D2 12 112 53; D2 12 112 53;
  D2 12 112 53; D2 12 112 53; D2 12 112 53; D2 12 112 53; D2 12 112 53; D2 12 112 53; D2 12 112 53; D2 12 112 53;
  D2 12 112 53; D2 12 112 53; D2 12 112 53; D2 12 112 53; D2 12 112 54; D2 12 112 54; D2 12 112 54; D2 12 112 54;
  D2 12 112 54; D2 12 112 54; D2 12 112 54; D2 12 112 54; D2 12 112 54; D2 12 112 54; D2 12 112 54; D2 12 112 54;
  D2 12 112 54; D2 12 112 54; D2 12 112 54; D2 12 112 54; D2 12 112 55; D2 12 112 55; D2 12 112 55; D2 12 112 55;
  D2 12 112 55; D2 12 112 55; D2 12 112 55; D2 12 112 55; D2 12 112 55; D2 12 112 55; D2 12 112 55; D2 12 112 55;
  D2 12 112 55; D2 12 112 55; D2 12 112 55; D2 12 112 55; D2 12 112 56; D2 12 112 56; D2 12 112 56; D2 12 112 56;
  D2 12 112 56; D2 12 112 56; D2 12 112 56; D2 12 112 56; D2 12 112 56; D2 12 112 56; D2 12 112 56; D2 12 112 56;
  D2 12 112 56; D2 12 112 56; D2 12 112 56; D2 12 112 56; D2 12 112 57; D2 12 112 57; D2 12 112 57; D2 12 112 57;
  D2 12 112 57; D2 12 112 57; D2 12 112 57; D2 12 112 57; D2 12 112 57; D2 12 112 57; D2 12 112 57; D2 12 112 57;
  D2 12 112 57; D2 12 112 57; D2 12 112 57; D2 12 112 57].
Definition hdecs_174 : list hdec := [
  D2 12 112 61; D2 12 112 61; D2 12 112 61; D2 12 112 61; D2 12 112 61; D2 12 112 61; D2 12 112 61; D2 12 112 61;
  D2 12 112 61; D2 12 112 61; D2 12 112 61; D2 12 112 61; D2 12 112 61; D2 12 112 61; D2 12 112 61; D2 12 112 61;
  D2 12 112 65; D2 12 112 65; D2 12 112 65; D2 12 112 65; D2 12 112 65; D2 12 112 65; D2 12 112 65; D2 12 112 65;
  D2 12 112 65; D2 12 112 65; D2 12 112 65; D2 12 112 65; D2 12 112 65; D2 12 112 65; D2 12 112 65; D2 12 112 65;
  D2 12 112 95; D2 12 112 95; D2 12 112 95; D2 12 112 95; D2 12 112 95; D2 12 112 95; D2 12 112 95; D2 12 112 95;
  D2 12 112 95; D2 12 112 95; D2 12 112 95; D2 12 112 95; D2 12 112 95; D2 12 112 95; D2 12 112 95; D2 12 112 95;
  D2 12 112 98; D2 12 112 98; D2 12 112 98; D2 12 112 98; D2 12 112 98; D2 12 112 98; D2 12 112 98; D2 12 112 98;
  D2 12 112 98; D2 12 112 98; D2 12 112 98; D2 12 112 98; D2 12 112 98; D2 12 112 98; D2 12 112 98; D2 12 112 98;
  D2 12 112 100; D2 12 112 100; D2 12 112 100; D2 12 112 100; D2 12 112 100; D2 12 112 100; D2 12 112 100;
  D2 12 112 100; D2 12 112 100; D2 12 112 100; D2 12 112 100; D2 12 112 100; D2 12 112 100; D2 12 112 100;
  D2 12 112 100; D2 12 112 100; D2 12 112 102; D2 12 112 102; D2 12 112 102; D2 12 112 102; D2 12 112 102;
  D2 12 112 102; D2 12 112 102; D2 12 112 102; D2 12 112 102; D2 12 112 102; D2 12 112 102; D2 12 112 102;
  D2 12 112 102; D2 12 112 102; D2 12 112 102; D2 12 112 102; D2 12 112 103; D2 12 112 103; D2 12 112 103;
  D2 12 112 103; D2 12 112 103; D2 12 112 103; D2 12 112 103; D2 12 112 103; D2 12 112 103; D2 12 112 103;
  D2 12 112 103; D2 12 112 103; D2 12 112 103; D2 12 112 103; D2 12 112 103; D2 12 112 103; D2 12 112 104;
  D2 12 112 104; D2 12 112 104; D2 12 112 104; D2 12 112 104; D2 12 112 104; D2 12 112 104; D2 12 112 104;
  D2 12 112 104; D2 12 112 104; D2 12 112 104; D2 12 112 104; D2 12 112 104; D2 12 112 104; D2 12 112 104;
  D2 12 112 104; D2 12 112 108; D2 12 112 108; D2 12 112 108; D2 12 112 108; D2 12 112 108; D2 12 112 108;
  D2 12 112 108; D2 12 112 108; D2 12 112 108; D2 12 112 108; D2 12 112 108; D2 12 112 108; D2 12 112 108;
  D2 12 112 108; D2 12 112 108; D2 12 112 108; D2 12 112 109; D2 12 112 109; D2 12 112 109; D2 12 112 109;
  D2 12 112 109; D2 12 112 109; D2 12 112 109; D2 12 112 109; D2 12 112 109; D2 12 112 109; D2 12 112 109;
  D2 12 112 109; D2 12 112 109; D2 12 112 109; D2 12 112 109; D2 12 112 109; D2 12 112 110; D2 12 112 110;
  D2 12 112 110; D2 12 112 110; D2 12 112 110; D2 12 112 110; D2 12 112 110; D2 12 112 110; D2 12 112 110;
  D2 12 112 110; D2 12 112 110; D2 12 112 110; D2 12 112 110; D2 12 112 110; D2 12 112 110; D2 12 112 110;
  D2 12 112 112; D2 12 112 112; D2 12 112 112; D2 12 112 112; D2 12 112 112; D2 12 112 112; D2 12 112 112;
  D2 12 112 112; D2 12 112 112; D2 12 112 112; D2 12 112 112; D2 12 112 112; D2 12 112 112; D2 12 112 112;
  D2 12 112 112; D2 12 112 112; D2 12 112 114; D2 12 112 114; D2 12 112 114; D2 12 112 114; D2 12 112 114;
  D2 12 112 114; D2 12 112 114; D2 12 112 114; D2 12 112 114; D2 12 112 114; D2 12 112 114; D2 12 112 114;
  D2 12 112 114; D2 12 112 114; D2 12 112 114; D2 12 112 114; D2 12 112 117; D2 12 112 117; D2 12 112 117;
  D2 12 112 117; D2 12 112 117; D2 12 112 117; D2 12 112 117; D2 12 112 117; D2 12 112 117; D2 12 112 117;
  D2 12 112 117; D2 12 112 117; D2 12 112 117; D2 12 112 117; D2 12 112 117; D2 12 112 117; D2 13 112 58;
  D2 13 112 58; D2 13 112 58; D2 13 112 58; D2 13 112 58; D2 13 112 58; D2 13 112 58; D2 13 112 58; D2 13 112 66;
  D2 13 112 66; D2 13 112 66; D2 13 112 66; D2 13 112 66; D2 13 112 66; D2 13 112 66; D2 13 112 66; D2 13 112 67;
  D2 13 112 67; D2 13 112 67; D2 13 112 67; D2 13 112 67; D2 13 112 67; D2 13 112 67; D2 13 112 67; D2 13 112 68;
  D2 13 112 68; D2 13 112 68; D2 13 112 68; D2 13 112 68; D2 13 112 68; D2 13 112 68; D2 13 112 68].
Definition hdecs_175 : list hdec := [
  D2 13 112 69; D2 13 112 69; D2 13 112 69; D2 13 112 69; D2 13 112 69; D2 13 112 69; D2 13 112 69; D2 13 112 69;
  D2 13 112 70; D2 13 112 70; D2 13 112 70; D2 13 112 70; D2 13 112 70; D2 13 112 70; D2 13 112 70; D2 13 112 70;
  D2 13 112 71; D2 13 112 71; D2 13 112 71; D2 13 112 71; D2 13 112 71; D2 13 112 71; D2 13 112 71; D2 13 112 71;
  D2 13 112 72; D2 13 112 72; D2 13 112 72; D2 13 112 72; D2 13 112 72; D2 13 112 72; D2 13 112 72; D2 13 112 72;
  D2 13 112 73; D2 13 112 73; D2 13 112 73; D2 13 112 73; D2 13 112 73; D2 13 112 73; D2 13 112 73; D2 13 112 73;
  D2 13 112 74; D2 13 112 74; D2 13 112 74; D2 13 112 74; D2 13 112 74; D2 13 112 74; D2 13 112 74; D2 13 112 74;
  D2 13 112 75; D2 13 112 75; D2 13 112 75; D2 13 112 75; D2 13 112 75; D2 13 112 75; D2 13 112 75; D2 13 112 75;
  D2 13 112 76; D2 13 112 76; D2 13 112 76; D2 13 112 76; D2 13 112 76; D2 13 112 76; D2 13 112 76; D2 13 112 76;
  D2 13 112 77; D2 13 112 77; D2 13 112 77; D2 13 112 77; D2 13 112 77; D2 13 112 77; D2 13 112 77; D2 13 112 77;
  D2 13 112 78; D2 13 112 78; D2 13 112 78; D2 13 112 78; D2 13 112 78; D2 13 112 78; D2 13 112 78; D2 13 112 78;
  D2 13 112 79; D2 13 112 79; D2 13 112 79; D2 13 112 79; D2 13 112 79; D2 13 112 79; D2 13 112 79; D2 13 112 79;
  D2 13 112 80; D2 13 112 80; D2 13 112 80; D2 13 112 80; D2 13 112 80; D2 13 112 80; D2 13 112 80; D2 13 112 80;
  D2 13 112 81; D2 13 112 81; D2 13 112 81; D2 13 112 81; D2 13 112 81; D2 13 112 81; D2 13 112 81; D2 13 112 81;
  D2 13 112 82; D2 13 112 82; D2 13 112 82; D2 13 112 82; D2 13 112 82; D2 13 112 82; D2 13 112 82; D2 13 112 82;
  D2 13 112 83; D2 13 112 83; D2 13 112 83; D2 13 112 83; D2 13 112 83; D2 13 112 83; D2 13 112 83; D2 13 112 83;
  D2 13 112 84; D2 13 112 84; D2 13 112 84; D2 13 112 84; D2 13 112 84; D2 13 112 84; D2 13 112 84; D2 13 112 84;
  D2 13 112 85; D2 13 112 85; D2 13 112 85; D2 13 112 85; D2 13 112 85; D2 13 112 85; D2 13 112 85; D2 13 112 85;
  D2 13 112 86; D2 13 112 86; D2 13 112 86; D2 13 112 86; D2 13 112 86; D2 13 112 86; D2 13 112 86; D2 13 112 86;
  D2 13 112 87; D2 13 112 87; D2 13 112 87; D2 13 112 87; D2 13 112 87; D2 13 112 87; D2 13 112 87; D2 13 112 87;
  D2 13 112 89; D2 13 112 89; D2 13 112 89; D2 13 112 89; D2 13 112 89; D2 13 112 89; D2 13 112 89; D2 13 112 89;
  D2 13 112 106; D2 13 112 106; D2 13 112 106; D2 13 112 106; D2 13 112 106; D2 13 112 106; D2 13 112 106;
  D2 13 112 106; D2 13 112 107; D2 13 112 107; D2 13 112 107; D2 13 112 107; D2 13 112 107; D2 13 112 107;
  D2 13 112 107; D2 13 112 107; D2 13 112 113; D2 13 112 113; D2 13 112 113; D2 13 112 113; D2 13 112 113;
  D2 13 112 113; D2 13 112 113; D2 13 112 113; D2 13 112 118; D2 13 112 118; D2 13 112 118; D2 13 112 118;
  D2 13 112 118; D2 13 112 118; D2 13 112 118; D2 13 112 118; D2 13 112 119; D2 13 112 119; D2 13 112 119;
  D2 13 112 119; D2 13 112 119; D2 13 112 119; D2 13 112 119; D2 13 112 119; D2 13 112 120; D2 13 112 120;
  D2 13 112 120; D2 13 112 120; D2 13 112 120; D2 13 112 120; D2 13 112 120; D2 13 112 120; D2 13 112 121;
  D2 13 112 121; D2 13 112 121; D2 13 112 121; D2 13 112 121; D2 13 112 121; D2 13 112 121; D2 13 112 121;
  D2 13 112 122; D2 13 112 122; D2 13 112 122; D2 13 112 122; D2 13 112 122; D2 13 112 122; D2 13 112 122;
  D2 13 112 122; D2 14 112 38; D2 14 112 38; D2 14 112 38; D2 14 112 38; D2 14 112 42; D2 14 112 42; D2 14 112 42;
  D2 14 112 42; D2 14 112 44; D2 14 112 44; D2 14 112 44; D2 14 112 44; D2 14 112 59; D2 14 112 59; D2 14 112 59;
  D2 14 112 59; D2 14 112 88; D2 14 112 88; D2 14 112 88; D2 14 112 88; D2 14 112 90; D2 14 112 90; D2 14 112 90;
  D2 14 112 90; D2 16 112 33; D2 16 112 34; D2 16 112 40; D2 16 112 41; D2 16 112 63; D1 6 112; D1 6 112; D1 6 112].
Definition hdecs_176 : list hdec := [
  D3 16 114 48 48; D3 16 114 48 49; D3 16 114 48 50; D3 16 114 48 97; D3 16 114 48 99; D3 16 114 48 101;
  D3 16 114 48 105; D3 16 114 48 111; D3 16 114 48 115; D3 16 114 48 116; D2 11 114 48; D2 11 114 48; D2 11 114 48;
  D2 11 114 48; D2 11 114 48; D2 11 114 48; D2 11 114 48; D2 11 114 48; D2 11 114 48; D2 11 114 48; D2 11 114 48;
  D2 11 114 48; D2 11 114 48; D2 11 114 48; D2 11 114 48; D2 11 114 48; D2 11 114 48; D2 11 114 48; D2 11 114 48;
  D2 11 114 48; D2 11 114 48; D2 11 114 48; D3 16 114 49 48; D3 16 114 49 49; D3 16 114 49 50; D3 16 114 49 97;
  D3 16 114 49 99; D3 16 114 49 101; D3 16 114 49 105; D3 16 114 49 111; D3 16 114 49 115; D3 16 114 49 116;
  D2 11 114 49; D2 11 114 49; D2 11 114 49; D2 11 114 49; D2 11 114 49; D2 11 114 49; D2 11 114 49; D2 11 114 49;
  D2 11 114 49; D2 11 114 49; D2 11 114 49; D2 11 114 49; D2 11 114 49; D2 11 114 49; D2 11 114 49; D2 11 114 49;
  D2 11 114 49; D2 11 114 49; D2 11 114 49; D2 11 114 49; D2 11 114 49; D2 11 114 49; D3 16 114 50 48;
  D3 16 114 50 49; D3 16 114 50 50; D3 16 114 50 97; D3 16 114 50 99; D3 16 114 50 101; D3 16 114 50 105;
  D3 16 114 50 111; D3 16 114 50 115; D3 16 114 50 116; D2 11 114 50; D2 11 114 50; D2 11 114 50; D2 11 114 50;
  D2 11 114 50; D2 11 114 50; D2 11 114 50; D2 11 114 50; D2 11 114 50; D2 11 114 50; D2 11 114 50; D2 11 114 50;
  D2 11 114 50; D2 11 114 50; D2 11 114 50; D2 11 114 50; D2 11 114 50; D2 11 114 50; D2 11 114 50; D2 11 114 50;
  D2 11 114 50; D2 11 114 50; D3 16 114 97 48; D3 16 114 97 49; D3 16 114 97 50; D3 16 114 97 97; D3 16 114 97 99;
  D3 16 114 97 101; D3 16 114 97 105; D3 16 114 97 111; D3 16 114 97 115; D3 16 114 97 116; D2 11 114 97;
  D2 11 114 97; D2 11 114 97; D2 11 114 97; D2 11 114 97; D2 11 114 97; D2 11 114 97; D2 11 114 97; D2 11 114 97;
  D2 11 114 97; D2 11 114 97; D2 11 114 97; D2 11 114 97; D2 11 114 97; D2 11 114 97; D2 11 114 97; D2 11 114 97;
  D2 11 114 97; D2 11 114 97; D2 11 114 97; D2 11 114 97; D2 11 114 97; D3 16 114 99 48; D3 16 114 99 49;
  D3 16 114 99 50; D3 16 114 99 97; D3 16 114 99 99; D3 16 114 99 101; D3 16 114 99 105; D3 16 114 99 111;
  D3 16 114 99 115; D3 16 114 99 116; D2 11 114 99; D2 11 114 99; D2 11 114 99; D2 11 114 99; D2 11 114 99;
  D2 11 114 99; D2 11 114 99; D2 11 114 99; D2 11 114 99; D2 11 114 99; D2 11 114 99; D2 11 114 99; D2 11 114 99;
  D2 11 114 99; D2 11 114 99; D2 11 114 99; D2 11 114 99; D2 11 114 99; D2 11 114 99; D2 11 114 99; D2 11 114 99;
  D2 11 114 99; D3 16 114 101 48; D3 16 114 101 49; D3 16 114 101 50; D3 16 114 101 97; D3 16 114 101 99;
  D3 16 114 101 101; D3 16 114 101 105; D3 16 114 101 111; D3 16 114 101 115; D3 16 114 101 116; D2 11 114 101;
  D2 11 114 101; D2 11 114 101; D2 11 114 101; D2 11 114 101; D2 11 114 101; D2 11 114 101; D2 11 114 101;
  D2 11 114 101; D2 11 114 101; D2 11 114 101; D2 11 114 101; D2 11 114 101; D2 11 114 101; D2 11 114 101;
  D2 11 114 101; D2 11 114 101; D2 11 114 101; D2 11 114 101; D2 11 114 101; D2 11 114 101; D2 11 114 101;
  D3 16 114 105 48; D3 16 114 105 49; D3 16 114 105 50; D3 16 114 105 97; D3 16 114 105 99; D3 16 114 105 101;
  D3 16 114 105 105; D3 16 114 105 111; D3 16 114 105 115; D3 16 114 105 116; D2 11 114 105; D2 11 114 105;
  D2 11 114 105; D2 11 114 105; D2 11 114 105; D2 11 114 105; D2 11 114 105; D2 11 114 105; D2 11 114 105;
  D2 11 114 105; D2 11 114 105; D2 11 114 105; D2 11 114 105; D2 11 114 105; D2 11 114 105; D2 11 114 105;
  D2 11 114 105; D2 11 114 105; D2 11 114 105; D2 11 114 105; D2 11 114 105; D2 11 114 105; D3 16 114 111 48;
  D3 16 114 111 49; D3 16 114 111 50; D3 16 114 111 97; D3 16 114 111 99; D3 16 114 111 101; D3 16 114 111 105;
  D3 16 114 111 111; D3 16 114 111 115; D3 16 114 111 116; D2 11 114 111; D2 11 114 111; D2 11 114 111; D2 11 114 111;
  D2 11 114 111; D2 11 114 111; D2 11 114 111; D2 11 114 111; D2 11 114 111; D2 11 114 111; D2 11 114 111;
  D2 11 114 111; D2 11 114 111; D2 11 114 111; D2 11 114 111; D2 11 114 111; D2 11 114 111; D2 11 114 111;
  D2 11 114 111; D2 11 114 111; D2 11 114 111; D2 11 114 111].
Definition hdecs_177 : list hdec := [
  D3 16 114 115 48; D3 16 114 115 49; D3 16 114 115 50; D3 16 114 115 97; D3 16 114 115 99; D3 16 114 115 101;
  D3 16 114 115 105; D3 16 114 115 111; D3 16 114 115 115; D3 16 114 115 116; D2 11 114 115; D2 11 114 115;
  D2 11 114 115; D2 11 114 115; D2 11 114 115; D2 11 114 115; D2 11 114 115; D2 11 114 115; D2 11 114 115;
  D2 11 114 115; D2 11 114 115; D2 11 114 115; D2 11 114 115; D2 11 114 115; D2 11 114 115; D2 11 114 115;
  D2 11 114 115; D2 11 114 115; D2 11 114 115; D2 11 114 115; D2 11 114 115; D2 11 114 115; D3 16 114 116 48;
  D3 16 114 116 49; D3 16 114 116 50; D3 16 114 116 97; D3 16 114 116 99; D3 16 114 116 101; D3 16 114 116 105;
  D3 16 114 116 111; D3 16 114 116 115; D3 16 114 116 116; D2 11 114 116; D2 11 114 116; D2 11 114 116; D2 11 114 116;
  D2 11 114 116; D2 11 114 116; D2 11 114 116; D2 11 114 116; D2 11 114 116; D2 11 114 116; D2 11 114 116;
  D2 11 114 116; D2 11 114 116; D2 11 114 116; D2 11 114 116; D2 11 114 116; D2 11 114 116; D2 11 114 116;
  D2 11 114 116; D2 11 114 116; D2 11 114 116; D2 11 114 116; D2 12 114 32; D2 12 114 32; D2 12 114 32; D2 12 114 32;
  D2 12 114 32; D2 12 114 32; D2 12 114 32; D2 12 114 32; D2 12 114 32; D2 12 114 32; D2 12 114 32; D2 12 114 32;
  D2 12 114 32; D2 12 114 32; D2 12 114 32; D2 12 114 32; D2 12 114 37; D2 12 114 37; D2 12 114 37; D2 12 114 37;
  D2 12 114 37; D2 12 114 37; D2 12 114 37; D2 12 114 37; D2 12 114 37; D2 12 114 37; D2 12 114 37; D2 12 114 37;
  D2 12 114 37; D2 12 114 37; D2 12 114 37; D2 12 114 37; D2 12 114 45; D2 12 114 45; D2 12 114 45; D2 12 114 45;
  D2 12 114 45; D2 12 114 45; D2 12 114 45; D2 12 114 45; D2 12 114 45; D2 12 114 45; D2 12 114 45; D2 12 114 45;
  D2 12 114 45; D2 12 114 45; D2 12 114 45; D2 12 114 45; D2 12 114 46; D2 12 114 46; D2 12 114 46; D2 12 114 46;
  D2 12 114 46; D2 12 114 46; D2 12 114 46; D2 12 114 46; D2 12 114 46; D2 12 114 46; D2 12 114 46; D2 12 114 46;
  D2 12 114 46; D2 12 114 46; D2 12 114 46; D2 12 114 46; D2 12 114 47; D2 12 114 47; D2 12 114 47; D2 12 114 47;
  D2 12 114 47; D2 12 114 47; D2 12 114 47; D2 12 114 47; D2 12 114 47; D2 12 114 47; D2 12 114 47; D2 12 114 47;
  D2 12 114 47; D2 12 114 47; D2 12 114 47; D2 12 114 47; D2 12 114 51; D2 12 114 51; D2 12 114 51; D2 12 114 51;
  D2 12 114 51; D2 12 114 51; D2 12 114 51; D2 12 114 51; D2 12 114 51; D2 12 114 51; D2 12 114 51; D2 12 114 51;
  D2 12 114 51; D2 12 114 51; D2 12 114 51; D2 12 114 51; D2 12 114 52; D2 12 114 52; D2 12 114 52; D2 12 114 52;
  D2 12 114 52; D2 12 114 52; D2 12 114 52; D2 12 114 52; D2 12 114 52; D2 12 114 52; D2 12 114 52; D2 12 114 52;
  D2 12 114 52; D2 12 114 52; D2 12 114 52; D2 12 114 52; D2 12 114 53; D2 12 114 53; D2 12 114 53; D2 12 114 53;
  D2 12 114 53; D2 12 114 53; D2 12 114 53; D2 12 114 53; D2 12 114 53; D2 12 114 53; D2 12 114 53; D2 12 114 53;
  D2 12 114 53; D2 12 114 53; D2 12 114 53; D2 12 114 53; D2 12 114 54; D2 12 114 54; D2 12 114 54; D2 12 114 54;
  D2 12 114 54; D2 12 114 54; D2 12 114 54; D2 12 114 54; D2 12 114 54; D2 12 114 54; D2 12 114 54; D2 12 114 54;
  D2 12 114 54; D2 12 114 54; D2 12 114 54; D2 12 114 54; D2 12 114 55; D2 12 114 55; D2 12 114 55; D2 12 114 55;
  D2 12 114 55; D2 12 114 55; D2 12 114 55; D2 12 114 55; D2 12 114 55; D2 12 114 55; D2 12 114 55; D2 12 114 55;
  D2 12 114 55; D2 12 114 55; D2 12 114 55; D2 12 114 55; D2 12 114 56; D2 12 114 56; D2 12 114 56; D2 12 114 56;
  D2 12 114 56; D2 12 114 56; D2 12 114 56; D2 12 114 56; D2 12 114 56; D2 12 114 56; D2 12 114 56; D2 12 114 56;
  D2 12 114 56; D2 12 114 56; D2 12 114 56; D2 12 114 56; D2 12 114 57; D2 12 114 57; D2 12 114 57; D2 12 114 57;
  D2 12 114 57; D2 12 114 57; D2 12 114 57; D2 12 114 57; D2 12 114 57; D2 12 114 57; D2 12 114 57; D2 12 114 57;
  D2 12 114 57; D2 12 114 57; D2 12 114 57; D2 12 114 57].
Definition hdecs_178 : list hdec := [
  D2 12 114 61; D2 12 114 61; D2 12 114 61; D2 12 114 61; D2 12 114 61; D2 12 114 61; D2 12 114 61; D2 12 114 61;
  D2 12 114 61; D2 12 114 61; D2 12 114 61; D2 12 114 61; D2 12 114 61; D2 12 114 61; D2 12 114 61; D2 12 114 61;
  D2 12 114 65; D2 12 114 65; D2 12 114 65; D2 12 114 65; D2 12 114 65; D2 12 114 65; D2 12 114 65; D2 12 114 65;
  D2 12 114 65; D2 12 114 65; D2 12 114 65; D2 12 114 65; D2 12 114 65; D2 12 114 65; D2 12 114 65; D2 12 114 65;
  D2 12 114 95; D2 12 114 95; D2 12 114 95; D2 12 114 95; D2 12 114 95; D2 12 114 95; D2 12 114 95; D2 12 114 95;
  D2 12 114 95; D2 12 114 95; D2 12 114 95; D2 12 114 95; D2 12 114 95; D2 12 114 95; D2 12 114 95; D2 12 114 95;
  D2 12 114 98; D2 12 114 98; D2 12 114 98; D2 12 114 98; D2 12 114 98; D2 12 114 98; D2 12 114 98; D2 12 114 98;
  D2 12 114 98; D2 12 114 98; D2 12 114 98; D2 12 114 98; D2 12 114 98; D2 12 114 98; D2 12 114 98; D2 12 114 98;
  D2 12 114 100; D2 12 114 100; D2 12 114 100; D2 12 114 100; D2 12 114 100; D2 12 114 100; D2 12 114 100;
  D2 12 114 100; D2 12 114 100; D2 12 114 100; D2 12 114 100; D2 12 114 100; D2 12 114 100; D2 12 114 100;
  D2 12 114 100; D2 12 114 100; D2 12 114 102; D2 12 114 102; D2 12 114 102; D2 12 114 102; D2 12 114 102;
  D2 12 114 102; D2 12 114 102; D2 12 114 102; D2 12 114 102; D2 12 114 102; D2 12 114 102; D2 12 114 102;
  D2 12 114 102; D2 12 114 102; D2 12 114 102; D2 12 114 102; D2 12 114 103; D2 12 114 103; D2 12 114 103;
  D2 12 114 103; D2 12 114 103; D2 12 114 103; D2 12 114 103; D2 12 114 103; D2 12 114 103; D2 12 114 103;
  D2 12 114 103; D2 12 114 103; D2 12 114 103; D2 12 114 103; D2 12 114 103; D2 12 114 103; D2 12 114 104;
  D2 12 114 104; D2 12 114 104; D2 12 114 104; D2 12 114 104; D2 12 114 104; D2 12 114 104; D2 12 114 104;
  D2 12 114 104; D2 12 114 104; D2 12 114 104; D2 12 114 104; D2 12 114 104; D2 12 114 104; D2 12 114 104;
  D2 12 114 104; D2 12 114 108; D2 12 114 108; D2 12 114 108; D2 12 114 108; D2 12 114 108; D2 12 114 108;
  D2 12 114 108; D2 12 114 108; D2 12 114 108; D2 12 114 108; D2 12 114 108; D2 12 114 108; D2 12 114 108;
  D2 12 114 108; D2 12 114 108; D2 12 114 108; D2 12 114 109; D2 12 114 109; D2 12 114 109; D2 12 114 109;
  D2 12 114 109; D2 12 114 109; D2 12 114 109; D2 12 114 109; D2 12 114 109; D2 12 114 109; D2 12 114 109;
  D2 12 114 109; D2 12 114 109; D2 12 114 109; D2 12 114 109; D2 12 114 109; D2 12 114 110; D2 12 114 110;
  D2 12 114 110; D2 12 114 110; D2 12 114 110; D2 12 114 110; D2 12 114 110; D2 12 114 110; D2 12 114 110;
  D2 12 114 110; D2 12 114 110; D2 12 114 110; D2 12 114 110; D2 12 114 110; D2 12 114 110; D2 12 114 110;
  D2 12 114 112; D2 12 114 112; D2 12 114 112; D2 12 114 112; D2 12 114 112; D2 12 114 112; D2 12 114 112;
  D2 12 114 112; D2 12 114 112; D2 12 114 112; D2 12 114 112; D2 12 114 112; D2 12 114 112; D2 12 114 112;
  D2 12 114 112; D2 12 114 112; D2 12 114 114; D2 12 114 114; D2 12 114 114; D2 12 114 114; D2 12 114 114;
  D2 12 114 114; D2 12 114 114; D2 12 114 114; D2 12 114 114; D2 12 114 114; D2 12 114 114; D2 12 114 114;
  D2 12 114 114; D2 12 114 114; D2 12 114 114; D2 12 114 114; D2 12 114 117; D2 12 114 117; D2 12 114 117;
  D2 12 114 117; D2 12 114 117; D2 12 114 117; D2 12 114 117; D2 12 114 117; D2 12 114 117; D2 12 114 117;
  D2 12 114 117; D2 12 114 117; D2 12 114 117; D2 12 114 117; D2 12 114 117; D2 12 114 117; D2 13 114 58;
  D2 13 114 58; D2 13 114 58; D2 13 114 58; D2 13 114 58; D2 13 114 58; D2 13 114 58; D2 13 114 58; D2 13 114 66;
  D2 13 114 66; D2 13 114 66; D2 13 114 66; D2 13 114 66; D2 13 114 66; D2 13 114 66; D2 13 114 66; D2 13 114 67;
  D2 13 114 67; D2 13 114 67; D2 13 114 67; D2 13 114 67; D2 13 114 67; D2 13 114 67; D2 13 114 67; D2 13 114 68;
  D2 13 114 68; D2 13 114 68; D2 13 114 68; D2 13 114 68; D2 13 114 68; D2 13 114 68; D2 13 114 68].
Definition hdecs_179 : list hdec := [
  D2 13 114 69; D2 13 114 69; D2 13 114 69; D2 13 114 69; D2 13 114 69; D2 13 114 69; D2 13 114 69; D2 13 114 69;
  D2 13 114 70; D2 13 114 70; D2 13 114 70; D2 13 114 70; D2 13 114 70; D2 13 114 70; D2 13 114 70; D2 13 114 70;
  D2 13 114 71; D2 13 114 71; D2 13 114 71; D2 13 114 71; D2 13 114 71; D2 13 114 71; D2 13 114 71; D2 13 114 71;
  D2 13 114 72; D2 13 114 72; D2 13 114 72; D2 13 114 72; D2 13 114 72; D2 13 114 72; D2 13 114 72; D2 13 114 72;
  D2 13 114 73; D2 13 114 73; D2 13 114 73; D2 13 114 73; D2 13 114 73; D2 13 114 73; D2 13 114 73; D2 13 114 73;
  D2 13 114 74; D2 13 114 74; D2 13 114 74; D2 13 114 74; D2 13 114 74; D2 13 114 74; D2 13 114 74; D2 13 114 74;
  D2 13 114 75; D2 13 114 75; D2 13 114 75; D2 13 114 75; D2 13 114 75; D2 13 114 75; D2 13 114 75; D2 13 114 75;
  D2 13 114 76; D2 13 114 76; D2 13 114 76; D2 13 114 76; D2 13 114 76; D2 13 114 76; D2 13 114 76; D2 13 114 76;
  D2 13 114 77; D2 13 114 77; D2 13 114 77; D2 13 114 77; D2 13 114 77; D2 13 114 77; D2 13 114 77; D2 13 114 77;
  D2 13 114 78; D2 13 114 78; D2 13 114 78; D2 13 114 78; D2 13 114 78; D2 13 114 78; D2 13 114 78; D2 13 114 78;
  D2 13 114 79; D2 13 114 79; D2 13 114 79; D2 13 114 79; D2 13 114 79; D2 13 114 79; D2 13 114 79; D2 13 114 79;
  D2 13 114 80; D2 13 114 80; D2 13 114 80; D2 13 114 80; D2 13 114 80; D2 13 114 80; D2 13 114 80; D2 13 114 80;
  D2 13 114 81; D2 13 114 81; D2 13 114 81; D2 13 114 81; D2 13 114 81; D2 13 114 81; D2 13 114 81; D2 13 114 81;
  D2 13 114 82; D2 13 114 82; D2 13 114 82; D2 13 114 82; D2 13 114 82; D2 13 114 82; D2 13 114 82; D2 13 114 82;
  D2 13 114 83; D2 13 114 83; D2 13 114 83; D2 13 114 83; D2 13 114 83; D2 13 114 83; D2 13 114 83; D2 13 114 83;
  D2 13 114 84; D2 13 114 84; D2 13 114 84; D2 13 114 84; D2 13 114 84; D2 13 114 84; D2 13 114 84; D2 13 114 84;
  D2 13 114 85; D2 13 114 85; D2 13 114 85; D2 13 114 85; D2 13 114 85; D2 13 114 85; D2 13 114 85; D2 13 114 85;
  D2 13 114 86; D2 13 114 86; D2 13 114 86; D2 13 114 86; D2 13 114 86; D2 13 114 86; D2 13 114 86; D2 13 114 86;
  D2 13 114 87; D2 13 114 87; D2 13 114 87; D2 13 114 87; D2 13 114 87; D2 13 114 87; D2 13 114 87; D2 13 114 87;
  D2 13 114 89; D2 13 114 89; D2 13 114 89; D2 13 114 89; D2 13 114 89; D2 13 114 89; D2 13 114 89; D2 13 114 89;
  D2 13 114 106; D2 13 114 106; D2 13 114 106; D2 13 114 106; D2 13 114 106; D2 13 114 106; D2 13 114 106;
  D2 13 114 106; D2 13 114 107; D2 13 114 107; D2 13 114 107; D2 13 114 107; D2 13 114 107; D2 13 114 107;
  D2 13 114 107; D2 13 114 107; D2 13 114 113; D2 13 114 113; D2 13 114 113; D2 13 114 113; D2 13 114 113;
  D2 13 114 113; D2 13 114 113; D2 13 114 113; D2 13 114 118; D2 13 114 118; D2 13 114 118; D2 13 114 118;
  D2 13 114 118; D2 13 114 118; D2 13 114 118; D2 13 114 118; D2 13 114 119; D2 13 114 119; D2 13 114 119;
  D2 13 114 119; D2 13 114 119; D2 13 114 119; D2 13 114 119; D2 13 114 119; D2 13 114 120; D2 13 114 120;
  D2 13 114 120; D2 13 114 120; D2 13 114 120; D2 13 114 120; D2 13 114 120; D2 13 114 120; D2 13 114 121;
  D2 13 114 121; D2 13 114 121; D2 13 114 121; D2 13 114 121; D2 13 114 121; D2 13 114 121; D2 13 114 121;
  D2 13 114 122; D2 13 114 122; D2 13 114 122; D2 13 114 122; D2 13 114 122; D2 13 114 122; D2 13 114 122;
  D2 13 114 122; D2 14 114 38; D2 14 114 38; D2 14 114 38; D2 14 114 38; D2 14 114 42; D2 14 114 42; D2 14 114 42;
  D2 14 114 42; D2 14 114 44; D2 14 114 44; D2 14 114 44; D2 14 114 44; D2 14 114 59; D2 14 114 59; D2 14 114 59;
  D2 14 114 59; D2 14 114 88; D2 14 114 88; D2 14 114 88; D2 14 114 88; D2 14 114 90; D2 14 114 90; D2 14 114 90;
  D2 14 114 90; D2 16 114 33; D2 16 114 34; D2 16 114 40; D2 16 114 41; D2 16 114 63; D1 6 114; D1 6 114; D1 6 114].
Definition hdecs_180 : list hdec := [
  D3 16 117 48 48; D3 16 117 48 49; D3 16 117 48 50; D3 16 117 48 97; D3 16 117 48 99; D3 16 117 48 101;
  D3 16 117 48 105; D3 16 117 48 111; D3 16 117 48 115; D3 16 117 48 116; D2 11 117 48; D2 11 117 48; D2 11 117 48;
  D2 11 117 48; D2 11 117 48; D2 11 117 48; D2 11 117 48; D2 11 117 48; D2 11 117 48; D2 11 117 48; D2 11 117 48;
  D2 11 117 48; D2 11 117 48; D2 11 117 48; D2 11 117 48; D2 11 117 48; D2 11 117 48; D2 11 117 48; D2 11 117 48;
  D2 11 117 48; D2 11 117 48; D2 11 117 48; D3 16 117 49 48; D3 16 117 49 49; D3 16 117 49 50; D3 16 117 49 97;
  D3 16 117 49 99; D3 16 117 49 101; D3 16 117 49 105; D3 16 117 49 111; D3 16 117 49 115; D3 16 117 49 116;
  D2 11 117 49; D2 11 117 49; D2 11 117 49; D2 11 117 49; D2 11 117 49; D2 11 117 49; D2 11 117 49; D2 11 117 49;
  D2 11 117 49; D2 11 117 49; D2 11 117 49; D2 11 117 49; D2 11 117 49; D2 11 117 49; D2 11 117 49; D2 11 117 49;
  D2 11 117 49; D2 11 117 49; D2 11 117 49; D2 11 117 49; D2 11 117 49; D2 11 117 49; D3 16 117 50 48;
  D3 16 117 50 49; D3 16 117 50 50; D3 16 117 50 97; D3 16 117 50 99; D3 16 117 50 101; D3 16 117 50 105;
  D3 16 117 50 111; D3 16 117 50 115; D3 16 117 50 116; D2 11 117 50; D2 11 117 50; D2 11 117 50; D2 11 117 50;
  D2 11 117 50; D2 11 117 50; D2 11 117 50; D2 11 117 50; D2 11 117 50; D2 11 117 50; D2 11 117 50; D2 11 117 50;
  D2 11 117 50; D2 11 117 50; D2 11 117 50; D2 11 117 50; D2 11 117 50; D2 11 117 50; D2 11 117 50; D2 11 117 50;
  D2 11 117 50; D2 11 117 50; D3 16 117 97 48; D3 16 117 97 49; D3 16 117 97 50; D3 16 117 97 97; D3 16 117 97 99;
  D3 16 117 97 101; D3 16 117 97 105; D3 16 117 97 111; D3 16 117 97 115; D3 16 117 97 116; D2 11 117 97;
  D2 11 117 97; D2 11 117 97; D2 11 117 97; D2 11 117 97; D2 11 117 97; D2 11 117 97; D2 11 117 97; D2 11 117 97;
  D2 11 117 97; D2 11 117 97; D2 11 117 97; D2 11 117 97; D2 11 117 97; D2 11 117 97; D2 11 117 97; D2 11 117 97;
  D2 11 117 97; D2 11 117 97; D2 11 117 97; D2 11 117 97; D2 11 117 97; D3 16 117 99 48; D3 16 117 99 49;
  D3 16 117 99 50; D3 16 117 99 97; D3 16 117 99 99; D3 16 117 99 101; D3 16 117 99 105; D3 16 117 99 111;
  D3 16 117 99 115; D3 16 117 99 116; D2 11 117 99; D2 11 117 99; D2 11 117 99; D2 11 117 99; D2 11 117 99;
  D2 11 117 99; D2 11 117 99; D2 11 117 99; D2 11 117 99; D2 11 117 99; D2 11 117 99; D2 11 117 99; D2 11 117 99;
  D2 11 117 99; D2 11 117 99; D2 11 117 99; D2 11 117 99; D2 11 117 99; D2 11 117 99; D2 11 117 99; D2 11 117 99;
  D2 11 117 99; D3 16 117 101 48; D3 16 117 101 49; D3 16 117 101 50; D3 16 117 101 97; D3 16 117 101 99;
  D3 16 117 101 101; D3 16 117 101 105; D3 16 117 101 111; D3 16 117 101 115; D3 16 117 101 116; D2 11 117 101;
  D2 11 117 101; D2 11 117 101; D2 11 117 101; D2 11 117 101; D2 11 117 101; D2 11 117 101; D2 11 117 101;
  D2 11 117 101; D2 11 117 101; D2 11 117 101; D2 11 117 101; D2 11 117 101; D2 11 117 101; D2 11 117 101;
  D2 11 117 101; D2 11 117 101; D2 11 117 101; D2 11 117 101; D2 11 117 101; D2 11 117 101; D2 11 117 101;
  D3 16 117 105 48; D3 16 117 105 49; D3 16 117 105 50; D3 16 117 105 97; D3 16 117 105 99; D3 16 117 105 101;
  D3 16 117 105 105; D3 16 117 105 111; D3 16 117 105 115; D3 16 117 105 116; D2 11 117 105; D2 11 117 105;
  D2 11 117 105; D2 11 117 105; D2 11 117 105; D2 11 117 105; D2 11 117 105; D2 11 117 105; D2 11 117 105;
  D2 11 117 105; D2 11 117 105; D2 11 117 105; D2 11 117 105; D2 11 117 105; D2 11 117 105; D2 11 117 105;
  D2 11 117 105; D2 11 117 105; D2 11 117 105; D2 11 117 105; D2 11 117 105; D2 11 117 105; D3 16 117 111 48;
  D3 16 117 111 49; D3 16 117 111 50; D3 16 117 111 97; D3 16 117 111 99; D3 16 117 111 101; D3 16 117 111 105;
  D3 16 117 111 111; D3 16 117 111 115; D3 16 117 111 116; D2 11 117 111; D2 11 117 111; D2 11 117 111; D2 11 117 111;
  D2 11 117 111; D2 11 117 111; D2 11 117 111; D2 11 117 111; D2 11 117 111; D2 11 117 111; D2 11 117 111;
  D2 11 117 111; D2 11 117 111; D2 11 117 111; D2 11 117 111; D2 11 117 111; D2 11 117 111; D2 11 117 111;
  D2 11 117 111; D2 11 117 111; D2 11 117 111; D2 11 117 111].
Definition hdecs_181 : list hdec := [
  D3 16 117 115 48; D3 16 117 115 49; D3 16 117 115 50; D3 16 117 115 97; D3 16 117 115 99; D3 16 117 115 101;
  D3 16 117 115 105; D3 16 117 115 111; D3 16 117 115 115; D3 16 117 115 116; D2 11 117 115; D2 11 117 115;
  D2 11 117 115; D2 11 117 115; D2 11 117 115; D2 11 117 115; D2 11 117 115; D2 11 117 115; D2 11 117 115;
  D2 11 117 115; D2 11 117 115; D2 11 117 115; D2 11 117 115; D2 11 117 115; D2 11 117 115; D2 11 117 115;
  D2 11 117 115; D2 11 117 115; D2 11 117 115; D2 11 117 115; D2 11 117 115; D2 11 117 115; D3 16 117 116 48;
  D3 16 117 116 49; D3 16 117 116 50; D3 16 117 116 97; D3 16 117 116 99; D3 16 117 116 101; D3 16 117 116 105;
  D3 16 117 116 111; D3 16 117 116 115; D3 16 117 116 116; D2 11 117 116; D2 11 117 116; D2 11 117 116; D2 11 117 116;
  D2 11 117 116; D2 11 117 116; D2 11 117 116; D2 11 117 116; D2 11 117 116; D2 11 117 116; D2 11 117 116;
  D2 11 117 116; D2 11 117 116; D2 11 117 116; D2 11 117 116; D2 11 117 116; D2 11 117 116; D2 11 117 116;
  D2 11 117 116; D2 11 117 116; D2 11 117 116; D2 11 117 116; D2 12 117 32; D2 12 117 32; D2 12 117 32; D2 12 117 32;
  D2 12 117 32; D2 12 117 32; D2 12 117 32; D2 12 117 32; D2 12 117 32; D2 12 117 32; D2 12 117 32; D2 12 117 32;
  D2 12 117 32; D2 12 117 32; D2 12 117 32; D2 12 117 32; D2 12 117 37; D2 12 117 37; D2 12 117 37; D2 12 117 37;
  D2 12 117 37; D2 12 117 37; D2 12 117 37; D2 12 117 37; D2 12 117 37; D2 12 117 37; D2 12 117 37; D2 12 117 37;
  D2 12 117 37; D2 12 117 37; D2 12 117 37; D2 12 117 37; D2 12 117 45; D2 12 117 45; D2 12 117 45; D2 12 117 45;
  D2 12 117 45; D2 12 117 45; D2 12 117 45; D2 12 117 45; D2 12 117 45; D2 12 117 45; D2 12 117 45; D2 12 117 45;
  D2 12 117 45; D2 12 117 45; D2 12 117 45; D2 12 117 45; D2 12 117 46; D2 12 117 46; D2 12 117 46; D2 12 117 46;
  D2 12 117 46; D2 12 117 46; D2 12 117 46; D2 12 117 46; D2 12 117 46; D2 12 117 46; D2 12 117 46; D2 12 117 46;
  D2 12 117 46; D2 12 117 46; D2 12 117 46; D2 12 117 46; D2 12 117 47; D2 12 117 47; D2 12 117 47; D2 12 117 47;
  D2 12 117 47; D2 12 117 47; D2 12 117 47; D2 12 117 47; D2 12 117 47; D2 12 117 47; D2 12 117 47; D2 12 117 47;
  D2 12 117 47; D2 12 117 47; D2 12 117 47; D2 12 117 47; D2 12 117 51; D2 12 117 51; D2 12 117 51; D2 12 117 51;
  D2 12 117 51; D2 12 117 51; D2 12 117 51; D2 12 117 51; D2 12 117 51; D2 12 117 51; D2 12 117 51; D2 12 117 51;
  D2 12 117 51; D2 12 117 51; D2 12 117 51; D2 12 117 51; D2 12 117 52; D2 12 117 52; D2 12 117 52; D2 12 117 52;
  D2 12 117 52; D2 12 117 52; D2 12 117 52; D2 12 117 52; D2 12 117 52; D2 12 117 52; D2 12 117 52; D2 12 117 52;
  D2 12 117 52; D2 12 117 52; D2 12 117 52; D2 12 117 52; D2 12 117 53; D2 12 117 53; D2 12 117 53; D2 12 117 53;
  D2 12 117 53; D2 12 117 53; D2 12 117 53; D2 12 117 53; D2 12 117 53; D2 12 117 53; D2 12 117 53; D2 12 117 53;
  D2 12 117 53; D2 12 117 53; D2 12 117 53; D2 12 117 53; D2 12 117 54; D2 12 117 54; D2 12 117 54; D2 12 117 54;
  D2 12 117 54; D2 12 117 54; D2 12 117 54; D2 12 117 54; D2 12 117 54; D2 12 117 54; D2 12 117 54; D2 12 117 54;
  D2 12 117 54; D2 12 117 54; D2 12 117 54; D2 12 117 54; D2 12 117 55; D2 12 117 55; D2 12 117 55; D2 12 117 55;
  D2 12 117 55; D2 12 117 55; D2 12 117 55; D2 12 117 55; D2 12 117 55; D2 12 117 55; D2 12 117 55; D2 12 117 55;
  D2 12 117 55; D2 12 117 55; D2 12 117 55; D2 12 117 55; D2 12 117 56; D2 12 117 56; D2 12 117 56; D2 12 117 56;
  D2 12 117 56; D2 12 117 56; D2 12 117 56; D2 12 117 56; D2 12 117 56; D2 12 117 56; D2 12 117 56; D2 12 117 56;
  D2 12 117 56; D2 12 117 56; D2 12 117 56; D2 12 117 56; D2 12 117 57; D2 12 117 57; D2 12 117 57; D2 12 117 57;
  D2 12 117 57; D2 12 117 57; D2 12 117 57; D2 12 117 57; D2 12 117 57; D2 12 117 57; D2 12 117 57; D2 12 117 57;
  D2 12 117 57; D2 12 117 57; D2 12 117 57; D2 12 117 57].
Definition hdecs_182 : list hdec := [
  D2 12 117 61; D2 12 117 61; D2 12 117 61; D2 12 117 61; D2 12 117 61; D2 12 117 61; D2 12 117 61; D2 12 117 61;
  D2 12 117 61; D2 12 117 61; D2 12 117 61; D2 12 117 61; D2 12 117 61; D2 12 117 61; D2 12 117 61; D2 12 117 61;
  D2 12 117 65; D2 12 117 65; D2 12 117 65; D2 12 117 65; D2 12 117 65; D2 12 117 65; D2 12 117 65; D2 12 117 65;
  D2 12 117 65; D2 12 117 65; D2 12 117 65; D2 12 117 65; D2 12 117 65; D2 12 117 65; D2 12 117 65; D2 12 117 65;
  D2 12 117 95; D2 12 117 95; D2 12 117 95; D2 12 117 95; D2 12 117 95; D2 12 117 95; D2 12 117 95; D2 12 117 95;
  D2 12 117 95; D2 12 117 95; D2 12 117 95; D2 12 117 95; D2 12 117 95; D2 12 117 95; D2 12 117 95; D2 12 117 95;
  D2 12 117 98; D2 12 117 98; D2 12 117 98; D2 12 117 98; D2 12 117 98; D2 12 117 98; D2 12 117 98; D2 12 117 98;
  D2 12 117 98; D2 12 117 98; D2 12 117 98; D2 12 117 98; D2 12 117 98; D2 12 117 98; D2 12 117 98; D2 12 117 98;
  D2 12 117 100; D2 12 117 100; D2 12 117 100; D2 12 117 100; D2 12 117 100; D2 12 117 100; D2 12 117 100;
  D2 12 117 100; D2 12 117 100; D2 12 117 100; D2 12 117 100; D2 12 117 100; D2 12 117 100; D2 12 117 100;
  D2 12 117 100; D2 12 117 100; D2 12 117 102; D2 12 117 102; D2 12 117 102; D2 12 117 102; D2 12 117 102;
  D2 12 117 102; D2 12 117 102; D2 12 117 102; D2 12 117 102; D2 12 117 102; D2 12 117 102; D2 12 117 102;
  D2 12 117 102; D2 12 117 102; D2 12 117 102; D2 12 117 102; D2 12 117 103; D2 12 117 103; D2 12 117 103;
  D2 12 117 103; D2 12 117 103; D2 12 117 103; D2 12 117 103; D2 12 117 103; D2 12 117 103; D2 12 117 103;
  D2 12 117 103; D2 12 117 103; D2 12 117 103; D2 12 117 103; D2 12 117 103; D2 12 117 103; D2 12 117 104;
  D2 12 117 104; D2 12 117 104; D2 12 117 104; D2 12 117 104; D2 12 117 104; D2 12 117 104; D2 12 117 104;
  D2 12 117 104; D2 12 117 104; D2 12 117 104; D2 12 117 104; D2 12 117 104; D2 12 117 104; D2 12 117 104;
  D2 12 117 104; D2 12 117 108; D2 12 117 108; D2 12 117 108; D2 12 117 108; D2 12 117 108; D2 12 117 108;
  D2 12 117 108; D2 12 117 108; D2 12 117 108; D2 12 117 108; D2 12 117 108; D2 12 117 108; D2 12 117 108;
  D2 12 117 108; D2 12 117 108; D2 12 117 108; D2 12 117 109; D2 12 117 109; D2 12 117 109; D2 12 117 109;
  D2 12 117 109; D2 12 117 109; D2 12 117 109; D2 12 117 109; D2 12 117 109; D2 12 117 109; D2 12 117 109;
  D2 12 117 109; D2 12 117 109; D2 12 117 109; D2 12 117 109; D2 12 117 109; D2 12 117 110; D2 12 117 110;
  D2 12 117 110; D2 12 117 110; D2 12 117 110; D2 12 117 110; D2 12 117 110; D2 12 117 110; D2 12 117 110;
  D2 12 117 110; D2 12 117 110; D2 12 117 110; D2 12 117 110; D2 12 117 110; D2 12 117 110; D2 12 117 110;
  D2 12 117 112; D2 12 117 112; D2 12 117 112; D2 12 117 112; D2 12 117 112; D2 12 117 112; D2 12 117 112;
  D2 12 117 112; D2 12 117 112; D2 12 117 112; D2 12 117 112; D2 12 117 112; D2 12 117 112; D2 12 117 112;
  D2 12 117 112; D2 12 117 112; D2 12 117 114; D2 12 117 114; D2 12 117 114; D2 12 117 114; D2 12 117 114;
  D2 12 117 114; D2 12 117 114; D2 12 117 114; D2 12 117 114; D2 12 117 114; D2 12 117 114; D2 12 117 114;
  D2 12 117 114; D2 12 117 114; D2 12 117 114; D2 12 117 114; D2 12 117 117; D2 12 117 117; D2 12 117 117;
  D2 12 117 117; D2 12 117 117; D2 12 117 117; D2 12 117 117; D2 12 117 117; D2 12 117 117; D2 12 117 117;
  D2 12 117 117; D2 12 117 117; D2 12 117 117; D2 12 117 117; D2 12 117 117; D2 12 117 117; D2 13 117 58;
  D2 13 117 58; D2 13 117 58; D2 13 117 58; D2 13 117 58; D2 13 117 58; D2 13 117 58; D2 13 117 58; D2 13 117 66;
  D2 13 117 66; D2 13 117 66; D2 13 117 66; D2 13 117 66; D2 13 117 66; D2 13 117 66; D2 13 117 66; D2 13 117 67;
  D2 13 117 67; D2 13 117 67; D2 13 117 67; D2 13 117 67; D2 13 117 67; D2 13 117 67; D2 13 117 67; D2 13 117 68;
  D2 13 117 68; D2 13 117 68; D2 13 117 68; D2 13 117 68; D2 13 117 68; D2 13 117 68; D2 13 117 68].
Definition hdecs_183 : list hdec := [
  D2 13 117 69; D2 13 117 69; D2 13 117 69; D2 13 117 69; D2 13 117 69; D2 13 117 69; D2 13 117 69; D2 13 117 69;
  D2 13 117 70; D2 13 117 70; D2 13 117 70; D2 13 117 70; D2 13 117 70; D2 13 117 70; D2 13 117 70; D2 13 117 70;
  D2 13 117 71; D2 13 117 71; D2 13 117 71; D2 13 117 71; D2 13 117 71; D2 13 117 71; D2 13 117 71; D2 13 117 71;
  D2 13 117 72; D2 13 117 72; D2 13 117 72; D2 13 117 72; D2 13 117 72; D2 13 117 72; D2 13 117 72; D2 13 117 72;
  D2 13 117 73; D2 13 117 73; D2 13 117 73; D2 13 117 73; D2 13 117 73; D2 13 117 73; D2 13 117 73; D2 13 117 73;
  D2 13 117 74; D2 13 117 74; D2 13 117 74; D2 13 117 74; D2 13 117 74; D2 13 117 74; D2 13 117 74; D2 13 117 74;
  D2 13 117 75; D2 13 117 75; D2 13 117 75; D2 13 117 75; D2 13 117 75; D2 13 117 75; D2 13 117 75; D2 13 117 75;
  D2 13 117 76; D2 13 117 76; D2 13 117 76; D2 13 117 76; D2 13 117 76; D2 13 117 76; D2 13 117 76; D2 13 117 76;
  D2 13 117 77; D2 13 117 77; D2 13 117 77; D2 13 117 77; D2 13 117 77; D2 13 117 77; D2 13 117 77; D2 13 117 77;
  D2 13 117 78; D2 13 117 78; D2 13 117 78; D2 13 117 78; D2 13 117 78; D2 13 117 78; D2 13 117 78; D2 13 117 78;
  D2 13 117 79; D2 13 117 79; D2 13 117 79; D2 13 117 79; D2 13 117 79; D2 13 117 79; D2 13 117 79; D2 13 117 79;
  D2 13 117 80; D2 13 117 80; D2 13 117 80; D2 13 117 80; D2 13 117 80; D2 13 117 80; D2 13 117 80; D2 13 117 80;
  D2 13 117 81; D2 13 117 81; D2 13 117 81; D2 13 117 81; D2 13 117 81; D2 13 117 81; D2 13 117 81; D2 13 117 81;
  D2 13 117 82; D2 13 117 82; D2 13 117 82; D2 13 117 82; D2 13 117 82; D2 13 117 82; D2 13 117 82; D2 13 117 82;
  D2 13 117 83; D2 13 117 83; D2 13 117 83; D2 13 117 83; D2 13 117 83; D2 13 117 83; D2 13 117 83; D2 13 117 83;
  D2 13 117 84; D2 13 117 84; D2 13 117 84; D2 13 117 84; D2 13 117 84; D2 13 117 84; D2 13 117 84; D2 13 117 84;
  D2 13 117 85; D2 13 117 85; D2 13 117 85; D2 13 117 85; D2 13 117 85; D2 13 117 85; D2 13 117 85; D2 13 117 85;
  D2 13 117 86; D2 13 117 86; D2 13 117 86; D2 13 117 86; D2 13 117 86; D2 13 117 86; D2 13 117 86; D2 13 117 86;
  D2 13 117 87; D2 13 117 87; D2 13 117 87; D2 13 117 87; D2 13 117 87; D2 13 117 87; D2 13 117 87; D2 13 117 87;
  D2 13 117 89; D2 13 117 89; D2 13 117 89; D2 13 117 89; D2 13 117 89; D2 13 117 89; D2 13 117 89; D2 13 117 89;
  D2 13 117 106; D2 13 117 106; D2 13 117 106; D2 13 117 106; D2 13 117 106; D2 13 117 106; D2 13 117 106;
  D2 13 117 106; D2 13 117 107; D2 13 117 107; D2 13 117 107; D2 13 117 107; D2 13 117 107; D2 13 117 107;
  D2 13 117 107; D2 13 117 107; D2 13 117 113; D2 13 117 113; D2 13 117 113; D2 13 117 113; D2 13 117 113;
  D2 13 117 113; D2 13 117 113; D2 13 117 113; D2 13 117 118; D2 13 117 118; D2 13 117 118; D2 13 117 118;
  D2 13 117 118; D2 13 117 118; D2 13 117 118; D2 13 117 118; D2 13 117 119; D2 13 117 119; D2 13 117 119;
  D2 13 117 119; D2 13 117 119; D2 13 117 119; D2 13 117 119; D2 13 117 119; D2 13 117 120; D2 13 117 120;
  D2 13 117 120; D2 13 117 120; D2 13 117 120; D2 13 117 120; D2 13 117 120; D2 13 117 120; D2 13 117 121;
  D2 13 117 121; D2 13 117 121; D2 13 117 121; D2 13 117 121; D2 13 117 121; D2 13 117 121; D2 13 117 121;
  D2 13 117 122; D2 13 117 122; D2 13 117 122; D2 13 117 122; D2 13 117 122; D2 13 117 122; D2 13 117 122;
  D2 13 117 122; D2 14 117 38; D2 14 117 38; D2 14 117 38; D2 14 117 38; D2 14 117 42; D2 14 117 42; D2 14 117 42;
  D2 14 117 42; D2 14 117 44; D2 14 117 44; D2 14 117 44; D2 14 117 44; D2 14 117 59; D2 14 117 59; D2 14 117 59;
  D2 14 117 59; D2 14 117 88; D2 14 117 88; D2 14 117 88; D2 14 117 88; D2 14 117 90; D2 14 117 90; D2 14 117 90;
  D2 14 117 90; D2 16 117 33; D2 16 117 34; D2 16 117 40; D2 16 117 41; D2 16 117 63; D1 6 117; D1 6 117; D1 6 117].
Definition hdecs_184 : list hdec := [
  D2 12 58 48; D2 12 58 48; D2 12 58 48; D2 12 58 48; D2 12 58 48; D2 12 58 48; D2 12 58 48; D2 12 58 48; D2 12 58 48;
  D2 12 58 48; D2 12 58 48; D2 12 58 48; D2 12 58 48; D2 12 58 48; D2 12 58 48; D2 12 58 48; D2 12 58 49; D2 12 58 49;
  D2 12 58 49; D2 12 58 49; D2 12 58 49; D2 12 58 49; D2 12 58 49; D2 12 58 49; D2 12 58 49; D2 12 58 49; D2 12 58 49;
  D2 12 58 49; D2 12 58 49; D2 12 58 49; D2 12 58 49; D2 12 58 49; D2 12 58 50; D2 12 58 50; D2 12 58 50; D2 12 58 50;
  D2 12 58 50; D2 12 58 50; D2 12 58 50; D2 12 58 50; D2 12 58 50; D2 12 58 50; D2 12 58 50; D2 12 58 50; D2 12 58 50;
  D2 12 58 50; D2 12 58 50; D2 12 58 50; D2 12 58 97; D2 12 58 97; D2 12 58 97; D2 12 58 97; D2 12 58 97; D2 12 58 97;
  D2 12 58 97; D2 12 58 97; D2 12 58 97; D2 12 58 97; D2 12 58 97; D2 12 58 97; D2 12 58 97; D2 12 58 97; D2 12 58 97;
  D2 12 58 97; D2 12 58 99; D2 12 58 99; D2 12 58 99; D2 12 58 99; D2 12 58 99; D2 12 58 99; D2 12 58 99; D2 12 58 99;
  D2 12 58 99; D2 12 58 99; D2 12 58 99; D2 12 58 99; D2 12 58 99; D2 12 58 99; D2 12 58 99; D2 12 58 99;
  D2 12 58 101; D2 12 58 101; D2 12 58 101; D2 12 58 101; D2 12 58 101; D2 12 58 101; D2 12 58 101; D2 12 58 101;
  D2 12 58 101; D2 12 58 101; D2 12 58 101; D2 12 58 101; D2 12 58 101; D2 12 58 101; D2 12 58 101; D2 12 58 101;
  D2 12 58 105; D2 12 58 105; D2 12 58 105; D2 12 58 105; D2 12 58 105; D2 12 58 105; D2 12 58 105; D2 12 58 105;
  D2 12 58 105; D2 12 58 105; D2 12 58 105; D2 12 58 105; D2 12 58 105; D2 12 58 105; D2 12 58 105; D2 12 58 105;
  D2 12 58 111; D2 12 58 111; D2 12 58 111; D2 12 58 111; D2 12 58 111; D2 12 58 111; D2 12 58 111; D2 12 58 111;
  D2 12 58 111; D2 12 58 111; D2 12 58 111; D2 12 58 111; D2 12 58 111; D2 12 58 111; D2 12 58 111; D2 12 58 111;
  D2 12 58 115; D2 12 58 115; D2 12 58 115; D2 12 58 115; D2 12 58 115; D2 12 58 115; D2 12 58 115; D2 12 58 115;
  D2 12 58 115; D2 12 58 115; D2 12 58 115; D2 12 58 115; D2 12 58 115; D2 12 58 115; D2 12 58 115; D2 12 58 115;
  D2 12 58 116; D2 12 58 116; D2 12 58 116; D2 12 58 116; D2 12 58 116; D2 12 58 116; D2 12 58 116; D2 12 58 116;
  D2 12 58 116; D2 12 58 116; D2 12 58 116; D2 12 58 116; D2 12 58 116; D2 12 58 116; D2 12 58 116; D2 12 58 116;
  D2 13 58 32; D2 13 58 32; D2 13 58 32; D2 13 58 32; D2 13 58 32; D2 13 58 32; D2 13 58 32; D2 13 58 32; D2 13 58 37;
  D2 13 58 37; D2 13 58 37; D2 13 58 37; D2 13 58 37; D2 13 58 37; D2 13 58 37; D2 13 58 37; D2 13 58 45; D2 13 58 45;
  D2 13 58 45; D2 13 58 45; D2 13 58 45; D2 13 58 45; D2 13 58 45; D2 13 58 45; D2 13 58 46; D2 13 58 46; D2 13 58 46;
  D2 13 58 46; D2 13 58 46; D2 13 58 46; D2 13 58 46; D2 13 58 46; D2 13 58 47; D2 13 58 47; D2 13 58 47; D2 13 58 47;
  D2 13 58 47; D2 13 58 47; D2 13 58 47; D2 13 58 47; D2 13 58 51; D2 13 58 51; D2 13 58 51; D2 13 58 51; D2 13 58 51;
  D2 13 58 51; D2 13 58 51; D2 13 58 51; D2 13 58 52; D2 13 58 52; D2 13 58 52; D2 13 58 52; D2 13 58 52; D2 13 58 52;
  D2 13 58 52; D2 13 58 52; D2 13 58 53; D2 13 58 53; D2 13 58 53; D2 13 58 53; D2 13 58 53; D2 13 58 53; D2 13 58 53;
  D2 13 58 53; D2 13 58 54; D2 13 58 54; D2 13 58 54; D2 13 58 54; D2 13 58 54; D2 13 58 54; D2 13 58 54; D2 13 58 54;
  D2 13 58 55; D2 13 58 55; D2 13 58 55; D2 13 58 55; D2 13 58 55; D2 13 58 55; D2 13 58 55; D2 13 58 55; D2 13 58 56;
  D2 13 58 56; D2 13 58 56; D2 13 58 56; D2 13 58 56; D2 13 58 56; D2 13 58 56; D2 13 58 56; D2 13 58 57; D2 13 58 57;
  D2 13 58 57; D2 13 58 57; D2 13 58 57; D2 13 58 57; D2 13 58 57; D2 13 58 57].
Definition hdecs_185 : list hdec := [
  D2 13 58 61; D2 13 58 61; D2 13 58 61; D2 13 58 61; D2 13 58 61; D2 13 58 61; D2 13 58 61; D2 13 58 61; D2 13 58 65;
  D2 13 58 65; D2 13 58 65; D2 13 58 65; D2 13 58 65; D2 13 58 65; D2 13 58 65; D2 13 58 65; D2 13 58 95; D2 13 58 95;
  D2 13 58 95; D2 13 58 95; D2 13 58 95; D2 13 58 95; D2 13 58 95; D2 13 58 95; D2 13 58 98; D2 13 58 98; D2 13 58 98;
  D2 13 58 98; D2 13 58 98; D2 13 58 98; D2 13 58 98; D2 13 58 98; D2 13 58 100; D2 13 58 100; D2 13 58 100;
  D2 13 58 100; D2 13 58 100; D2 13 58 100; D2 13 58 100; D2 13 58 100; D2 13 58 102; D2 13 58 102; D2 13 58 102;
  D2 13 58 102; D2 13 58 102; D2 13 58 102; D2 13 58 102; D2 13 58 102; D2 13 58 103; D2 13 58 103; D2 13 58 103;
  D2 13 58 103; D2 13 58 103; D2 13 58 103; D2 13 58 103; D2 13 58 103; D2 13 58 104; D2 13 58 104; D2 13 58 104;
  D2 13 58 104; D2 13 58 104; D2 13 58 104; D2 13 58 104; D2 13 58 104; D2 13 58 108; D2 13 58 108; D2 13 58 108;
  D2 13 58 108; D2 13 58 108; D2 13 58 108; D2 13 58 108; D2 13 58 108; D2 13 58 109; D2 13 58 109; D2 13 58 109;
  D2 13 58 109; D2 13 58 109; D2 13 58 109; D2 13 58 109; D2 13 58 109; D2 13 58 110; D2 13 58 110; D2 13 58 110;
  D2 13 58 110; D2 13 58 110; D2 13 58 110; D2 13 58 110; D2 13 58 110; D2 13 58 112; D2 13 58 112; D2 13 58 112;
  D2 13 58 112; D2 13 58 112; D2 13 58 112; D2 13 58 112; D2 13 58 112; D2 13 58 114; D2 13 58 114; D2 13 58 114;
  D2 13 58 114; D2 13 58 114; D2 13 58 114; D2 13 58 114; D2 13 58 114; D2 13 58 117; D2 13 58 117; D2 13 58 117;
  D2 13 58 117; D2 13 58 117; D2 13 58 117; D2 13 58 117; D2 13 58 117; D2 14 58 58; D2 14 58 58; D2 14 58 58;
  D2 14 58 58; D2 14 58 66; D2 14 58 66; D2 14 58 66; D2 14 58 66; D2 14 58 67; D2 14 58 67; D2 14 58 67; D2 14 58 67;
  D2 14 58 68; D2 14 58 68; D2 14 58 68; D2 14 58 68; D2 14 58 69; D2 14 58 69; D2 14 58 69; D2 14 58 69; D2 14 58 70;
  D2 14 58 70; D2 14 58 70; D2 14 58 70; D2 14 58 71; D2 14 58 71; D2 14 58 71; D2 14 58 71; D2 14 58 72; D2 14 58 72;
  D2 14 58 72; D2 14 58 72; D2 14 58 73; D2 14 58 73; D2 14 58 73; D2 14 58 73; D2 14 58 74; D2 14 58 74; D2 14 58 74;
  D2 14 58 74; D2 14 58 75; D2 14 58 75; D2 14 58 75; D2 14 58 75; D2 14 58 76; D2 14 58 76; D2 14 58 76; D2 14 58 76;
  D2 14 58 77; D2 14 58 77; D2 14 58 77; D2 14 58 77; D2 14 58 78; D2 14 58 78; D2 14 58 78; D2 14 58 78; D2 14 58 79;
  D2 14 58 79; D2 14 58 79; D2 14 58 79; D2 14 58 80; D2 14 58 80; D2 14 58 80; D2 14 58 80; D2 14 58 81; D2 14 58 81;
  D2 14 58 81; D2 14 58 81; D2 14 58 82; D2 14 58 82; D2 14 58 82; D2 14 58 82; D2 14 58 83; D2 14 58 83; D2 14 58 83;
  D2 14 58 83; D2 14 58 84; D2 14 58 84; D2 14 58 84; D2 14 58 84; D2 14 58 85; D2 14 58 85; D2 14 58 85; D2 14 58 85;
  D2 14 58 86; D2 14 58 86; D2 14 58 86; D2 14 58 86; D2 14 58 87; D2 14 58 87; D2 14 58 87; D2 14 58 87; D2 14 58 89;
  D2 14 58 89; D2 14 58 89; D2 14 58 89; D2 14 58 106; D2 14 58 106; D2 14 58 106; D2 14 58 106; D2 14 58 107;
  D2 14 58 107; D2 14 58 107; D2 14 58 107; D2 14 58 113; D2 14 58 113; D2 14 58 113; D2 14 58 113; D2 14 58 118;
  D2 14 58 118; D2 14 58 118; D2 14 58 118; D2 14 58 119; D2 14 58 119; D2 14 58 119; D2 14 58 119; D2 14 58 120;
  D2 14 58 120; D2 14 58 120; D2 14 58 120; D2 14 58 121; D2 14 58 121; D2 14 58 121; D2 14 58 121; D2 14 58 122;
  D2 14 58 122; D2 14 58 122; D2 14 58 122; D2 15 58 38; D2 15 58 38; D2 15 58 42; D2 15 58 42; D2 15 58 44;
  D2 15 58 44; D2 15 58 59; D2 15 58 59; D2 15 58 88; D2 15 58 88; D2 15 58 90; D2 15 58 90; D1 7 58; D1 7 58;
  D1 7 58; D1 7 58].
Definition hdecs_186 : list hdec := [
  D2 12 66 48; D2 12 66 48; D2 12 66 48; D2 12 66 48; D2 12 66 48; D2 12 66 48; D2 12 66 48; D2 12 66 48; D2 12 66 48;
  D2 12 66 48; D2 12 66 48; D2 12 66 48; D2 12 66 48; D2 12 66 48; D2 12 66 48; D2 12 66 48; D2 12 66 49; D2 12 66 49;
  D2 12 66 49; D2 12 66 49; D2 12 66 49; D2 12 66 49; D2 12 66 49; D2 12 66 49; D2 12 66 49; D2 12 66 49; D2 12 66 49;
  D2 12 66 49; D2 12 66 49; D2 12 66 49; D2 12 66 49; D2 12 66 49; D2 12 66 50; D2 12 66 50; D2 12 66 50; D2 12 66 50;
  D2 12 66 50; D2 12 66 50; D2 12 66 50; D2 12 66 50; D2 12 66 50; D2 12 66 50; D2 12 66 50; D2 12 66 50; D2 12 66 50;
  D2 12 66 50; D2 12 66 50; D2 12 66 50; D2 12 66 97; D2 12 66 97; D2 12 66 97; D2 12 66 97; D2 12 66 97; D2 12 66 97;
  D2 12 66 97; D2 12 66 97; D2 12 66 97; D2 12 66 97; D2 12 66 97; D2 12 66 97; D2 12 66 97; D2 12 66 97; D2 12 66 97;
  D2 12 66 97; D2 12 66 99; D2 12 66 99; D2 12 66 99; D2 12 66 99; D2 12 66 99; D2 12 66 99; D2 12 66 99; D2 12 66 99;
  D2 12 66 99; D2 12 66 99; D2 12 66 99; D2 12 66 99; D2 12 66 99; D2 12 66 99; D2 12 66 99; D2 12 66 99;
  D2 12 66 101; D2 12 66 101; D2 12 66 101; D2 12 66 101; D2 12 66 101; D2 12 66 101; D2 12 66 101; D2 12 66 101;
  D2 12 66 101; D2 12 66 101; D2 12 66 101; D2 12 66 101; D2 12 66 101; D2 12 66 101; D2 12 66 101; D2 12 66 101;
  D2 12 66 105; D2 12 66 105; D2 12 66 105; D2 12 66 105; D2 12 66 105; D2 12 66 105; D2 12 66 105; D2 12 66 105;
  D2 12 66 105; D2 12 66 105; D2 12 66 105; D2 12 66 105; D2 12 66 105; D2 12 66 105; D2 12 66 105; D2 12 66 105;
  D2 12 66 111; D2 12 66 111; D2 12 66 111; D2 12 66 111; D2 12 66 111; D2 12 66 111; D2 12 66 111; D2 12 66 111;
  D2 12 66 111; D2 12 66 111; D2 12 66 111; D2 12 66 111; D2 12 66 111; D2 12 66 111; D2 12 66 111; D2 12 66 111;
  D2 12 66 115; D2 12 66 115; D2 12 66 115; D2 12 66 115; D2 12 66 115; D2 12 66 115; D2 12 66 115; D2 12 66 115;
  D2 12 66 115; D2 12 66 115; D2 12 66 115; D2 12 66 115; D2 12 66 115; D2 12 66 115; D2 12 66 115; D2 12 66 115;
  D2 12 66 116; D2 12 66 116; D2 12 66 116; D2 12 66 116; D2 12 66 116; D2 12 66 116; D2 12 66 116; D2 12 66 116;
  D2 12 66 116; D2 12 66 116; D2 12 66 116; D2 12 66 116; D2 12 66 116; D2 12 66 116; D2 12 66 116; D2 12 66 116;
  D2 13 66 32; D2 13 66 32; D2 13 66 32; D2 13 66 32; D2 13 66 32; D2 13 66 32; D2 13 66 32; D2 13 66 32; D2 13 66 37;
  D2 13 66 37; D2 13 66 37; D2 13 66 37; D2 13 66 37; D2 13 66 37; D2 13 66 37; D2 13 66 37; D2 13 66 45; D2 13 66 45;
  D2 13 66 45; D2 13 66 45; D2 13 66 45; D2 13 66 45; D2 13 66 45; D2 13 66 45; D2 13 66 46; D2 13 66 46; D2 13 66 46;
  D2 13 66 46; D2 13 66 46; D2 13 66 46; D2 13 66 46; D2 13 66 46; D2 13 66 47; D2 13 66 47; D2 13 66 47; D2 13 66 47;
  D2 13 66 47; D2 13 66 47; D2 13 66 47; D2 13 66 47; D2 13 66 51; D2 13 66 51; D2 13 66 51; D2 13 66 51; D2 13 66 51;
  D2 13 66 51; D2 13 66 51; D2 13 66 51; D2 13 66 52; D2 13 66 52; D2 13 66 52; D2 13 66 52; D2 13 66 52; D2 13 66 52;
  D2 13 66 52; D2 13 66 52; D2 13 66 53; D2 13 66 53; D2 13 66 53; D2 13 66 53; D2 13 66 53; D2 13 66 53; D2 13 66 53;
  D2 13 66 53; D2 13 66 54; D2 13 66 54; D2 13 66 54; D2 13 66 54; D2 13 66 54; D2 13 66 54; D2 13 66 54; D2 13 66 54;
  D2 13 66 55; D2 13 66 55; D2 13 66 55; D2 13 66 55; D2 13 66 55; D2 13 66 55; D2 13 66 55; D2 13 66 55; D2 13 66 56;
  D2 13 66 56; D2 13 66 56; D2 13 66 56; D2 13 66 56; D2 13 66 56; D2 13 66 56; D2 13 66 56; D2 13 66 57; D2 13 66 57;
  D2 13 66 57; D2 13 66 57; D2 13 66 57; D2 13 66 57; D2 13 66 57; D2 13 66 57].
Definition hdecs_187 : list hdec := [
  D2 13 66 61; D2 13 66 61; D2 13 66 61; D2 13 66 61; D2 13 66 61; D2 13 66 61; D2 13 66 61; D2 13 66 61; D2 13 66 65;
  D2 13 66 65; D2 13 66 65; D2 13 66 65; D2 13 66 65; D2 13 66 65; D2 13 66 65; D2 13 66 65; D2 13 66 95; D2 13 66 95;
  D2 13 66 95; D2 13 66 95; D2 13 66 95; D2 13 66 95; D2 13 66 95; D2 13 66 95; D2 13 66 98; D2 13 66 98; D2 13 66 98;
  D2 13 66 98; D2 13 66 98; D2 13 66 98; D2 13 66 98; D2 13 66 98; D2 13 66 100; D2 13 66 100; D2 13 66 100;
  D2 13 66 100; D2 13 66 100; D2 13 66 100; D2 13 66 100; D2 13 66 100; D2 13 66 102; D2 13 66 102; D2 13 66 102;
  D2 13 66 102; D2 13 66 102; D2 13 66 102; D2 13 66 102; D2 13 66 102; D2 13 66 103; D2 13 66 103; D2 13 66 103;
  D2 13 66 103; D2 13 66 103; D2 13 66 103; D2 13 66 103; D2 13 66 103; D2 13 66 104; D2 13 66 104; D2 13 66 104;
  D2 13 66 104; D2 13 66 104; D2 13 66 104; D2 13 66 104; D2 13 66 104; D2 13 66 108; D2 13 66 108; D2 13 66 108;
  D2 13 66 108; D2 13 66 108; D2 13 66 108; D2 13 66 108; D2 13 66 108; D2 13 66 109; D2 13 66 109; D2 13 66 109;
  D2 13 66 109; D2 13 66 109; D2 13 66 109; D2 13 66 109; D2 13 66 109; D2 13 66 110; D2 13 66 110; D2 13 66 110;
  D2 13 66 110; D2 13 66 110; D2 13 66 110; D2 13 66 110; D2 13 66 110; D2 13 66 112; D2 13 66 112; D2 13 66 112;
  D2 13 66 112; D2 13 66 112; D2 13 66 112; D2 13 66 112; D2 13 66 112; D2 13 66 114; D2 13 66 114; D2 13 66 114;
  D2 13 66 114; D2 13 66 114; D2 13 66 114; D2 13 66 114; D2 13 66 114; D2 13 66 117; D2 13 66 117; D2 13 66 117;
  D2 13 66 117; D2 13 66 117; D2 13 66 117; D2 13 66 117; D2 13 66 117; D2 14 66 58; D2 14 66 58; D2 14 66 58;
  D2 14 66 58; D2 14 66 66; D2 14 66 66; D2 14 66 66; D2 14 66 66; D2 14 66 67; D2 14 66 67; D2 14 66 67; D2 14 66 67;
  D2 14 66 68; D2 14 66 68; D2 14 66 68; D2 14 66 68; D2 14 66 69; D2 14 66 69; D2 14 66 69; D2 14 66 69; D2 14 66 70;
  D2 14 66 70; D2 14 66 70; D2 14 66 70; D2 14 66 71; D2 14 66 71; D2 14 66 71; D2 14 66 71; D2 14 66 72; D2 14 66 72;
  D2 14 66 72; D2 14 66 72; D2 14 66 73; D2 14 66 73; D2 14 66 73; D2 14 66 73; D2 14 66 74; D2 14 66 74; D2 14 66 74;
  D2 14 66 74; D2 14 66 75; D2 14 66 75; D2 14 66 75; D2 14 66 75; D2 14 66 76; D2 14 66 76; D2 14 66 76; D2 14 66 76;
  D2 14 66 77; D2 14 66 77; D2 14 66 77; D2 14 66 77; D2 14 66 78; D2 14 66 78; D2 14 66 78; D2 14 66 78; D2 14 66 79;
  D2 14 66 79; D2 14 66 79; D2 14 66 79; D2 14 66 80; D2 14 66 80; D2 14 66 80; D2 14 66 80; D2 14 66 81; D2 14 66 81;
  D2 14 66 81; D2 14 66 81; D2 14 66 82; D2 14 66 82; D2 14 66 82; D2 14 66 82; D2 14 66 83; D2 14 66 83; D2 14 66 83;
  D2 14 66 83; D2 14 66 84; D2 14 66 84; D2 14 66 84; D2 14 66 84; D2 14 66 85; D2 14 66 85; D2 14 66 85; D2 14 66 85;
  D2 14 66 86; D2 14 66 86; D2 14 66 86; D2 14 66 86; D2 14 66 87; D2 14 66 87; D2 14 66 87; D2 14 66 87; D2 14 66 89;
  D2 14 66 89; D2 14 66 89; D2 14 66 89; D2 14 66 106; D2 14 66 106; D2 14 66 106; D2 14 66 106; D2 14 66 107;
  D2 14 66 107; D2 14 66 107; D2 14 66 107; D2 14 66 113; D2 14 66 113; D2 14 66 113; D2 14 66 113; D2 14 66 118;
  D2 14 66 118; D2 14 66 118; D2 14 66 118; D2 14 66 119; D2 14 66 119; D2 14 66 119; D2 14 66 119; D2 14 66 120;
  D2 14 66 120; D2 14 66 120; D2 14 66 120; D2 14 66 121; D2 14 66 121; D2 14 66 121; D2 14 66 121; D2 14 66 122;
  D2 14 66 122; D2 14 66 122; D2 14 66 122; D2 15 66 38; D2 15 66 38; D2 15 66 42; D2 15 66 42; D2 15 66 44;
  D2 15 66 44; D2 15 66 59; D2 15 66 59; D2 15 66 88; D2 15 66 88; D2 15 66 90; D2 15 66 90; D1 7 66; D1 7 66;
  D1 7 66; D1 7 66].
Definition hdecs_188 : list hdec := [
  D2 12 67 48; D2 12 67 48; D2 12 67 48; D2 12 67 48; D2 12 67 48; D2 12 67 48; D2 12 67 48; D2 12 67 48; D2 12 67 48;
  D2 12 67 48; D2 12 67 48; D2 12 67 48; D2 12 67 48; D2 12 67 48; D2 12 67 48; D2 12 67 48; D2 12 67 49; D2 12 67 49;
  D2 12 67 49; D2 12 67 49; D2 12 67 49; D2 12 67 49; D2 12 67 49; D2 12 67 49; D2 12 67 49; D2 12 67 49; D2 12 67 49;
  D2 12 67 49; D2 12 67 49; D2 12 67 49; D2 12 67 49; D2 12 67 49; D2 12 67 50; D2 12 67 50; D2 12 67 50; D2 12 67 50;
  D2 12 67 50; D2 12 67 50; D2 12 67 50; D2 12 67 50; D2 12 67 50; D2 12 67 50; D2 12 67 50; D2 12 67 50; D2 12 67 50;
  D2 12 67 50; D2 12 67 50; D2 12 67 50; D2 12 67 97; D2 12 67 97; D2 12 67 97; D2 12 67 97; D2 12 67 97; D2 12 67 97;
  D2 12 67 97; D2 12 67 97; D2 12 67 97; D2 12 67 97; D2 12 67 97; D2 12 67 97; D2 12 67 97; D2 12 67 97; D2 12 67 97;
  D2 12 67 97; D2 12 67 99; D2 12 67 99; D2 12 67 99; D2 12 67 99; D2 12 67 99; D2 12 67 99; D2 12 67 99; D2 12 67 99;
  D2 12 67 99; D2 12 67 99; D2 12 67 99; D2 12 67 99; D2 12 67 99; D2 12 67 99; D2 12 67 99; D2 12 67 99;
  D2 12 67 101; D2 12 67 101; D2 12 67 101; D2 12 67 101; D2 12 67 101; D2 12 67 101; D2 12 67 101; D2 12 67 101;
  D2 12 67 101; D2 12 67 101; D2 12 67 101; D2 12 67 101; D2 12 67 101; D2 12 67 101; D2 12 67 101; D2 12 67 101;
  D2 12 67 105; D2 12 67 105; D2 12 67 105; D2 12 67 105; D2 12 67 105; D2 12 67 105; D2 12 67 105; D2 12 67 105;
  D2 12 67 105; D2 12 67 105; D2 12 67 105; D2 12 67 105; D2 12 67 105; D2 12 67 105; D2 12 67 105; D2 12 67 105;
  D2 12 67 111; D2 12 67 111; D2 12 67 111; D2 12 67 111; D2 12 67 111; D2 12 67 111; D2 12 67 111; D2 12 67 111;
  D2 12 67 111; D2 12 67 111; D2 12 67 111; D2 12 67 111; D2 12 67 111; D2 12 67 111; D2 12 67 111; D2 12 67 111;
  D2 12 67 115; D2 12 67 115; D2 12 67 115; D2 12 67 115; D2 12 67 115; D2 12 67 115; D2 12 67 115; D2 12 67 115;
  D2 12 67 115; D2 12 67 115; D2 12 67 115; D2 12 67 115; D2 12 67 115; D2 12 67 115; D2 12 67 115; D2 12 67 115;
  D2 12 67 116; D2 12 67 116; D2 12 67 116; D2 12 67 116; D2 12 67 116; D2 12 67 116; D2 12 67 116; D2 12 67 116;
  D2 12 67 116; D2 12 67 116; D2 12 67 116; D2 12 67 116; D2 12 67 116; D2 12 67 116; D2 12 67 116; D2 12 67 116;
  D2 13 67 32; D2 13 67 32; D2 13 67 32; D2 13 67 32; D2 13 67 32; D2 13 67 32; D2 13 67 32; D2 13 67 32; D2 13 67 37;
  D2 13 67 37; D2 13 67 37; D2 13 67 37; D2 13 67 37; D2 13 67 37; D2 13 67 37; D2 13 67 37; D2 13 67 45; D2 13 67 45;
  D2 13 67 45; D2 13 67 45; D2 13 67 45; D2 13 67 45; D2 13 67 45; D2 13 67 45; D2 13 67 46; D2 13 67 46; D2 13 67 46;
  D2 13 67 46; D2 13 67 46; D2 13 67 46; D2 13 67 46; D2 13 67 46; D2 13 67 47; D2 13 67 47; D2 13 67 47; D2 13 67 47;
  D2 13 67 47; D2 13 67 47; D2 13 67 47; D2 13 67 47; D2 13 67 51; D2 13 67 51; D2 13 67 51; D2 13 67 51; D2 13 67 51;
  D2 13 67 51; D2 13 67 51; D2 13 67 51; D2 13 67 52; D2 13 67 52; D2 13 67 52; D2 13 67 52; D2 13 67 52; D2 13 67 52;
  D2 13 67 52; D2 13 67 52; D2 13 67 53; D2 13 67 53; D2 13 67 53; D2 13 67 53; D2 13 67 53; D2 13 67 53; D2 13 67 53;
  D2 13 67 53; D2 13 67 54; D2 13 67 54; D2 13 67 54; D2 13 67 54; D2 13 67 54; D2 13 67 54; D2 13 67 54; D2 13 67 54;
  D2 13 67 55; D2 13 67 55; D2 13 67 55; D2 13 67 55; D2 13 67 55; D2 13 67 55; D2 13 67 55; D2 13 67 55; D2 13 67 56;
  D2 13 67 56; D2 13 67 56; D2 13 67 56; D2 13 67 56; D2 13 67 56; D2 13 67 56; D2 13 67 56; D2 13 67 57; D2 13 67 57;
  D2 13 67 57; D2 13 67 57; D2 13 67 57; D2 13 67 57; D2 13 67 57; D2 13 67 57].
Definition hdecs_189 : list hdec := [
  D2 13 67 61; D2 13 67 61; D2 13 67 61; D2 13 67 61; D2 13 67 61; D2 13 67 61; D2 13 67 61; D2 13 67 61; D2 13 67 65;
  D2 13 67 65; D2 13 67 65; D2 13 67 65; D2 13 67 65; D2 13 67 65; D2 13 67 65; D2 13 67 65; D2 13 67 95; D2 13 67 95;
  D2 13 67 95; D2 13 67 95; D2 13 67 95; D2 13 67 95; D2 13 67 95; D2 13 67 95; D2 13 67 98; D2 13 67 98; D2 13 67 98;
  D2 13 67 98; D2 13 67 98; D2 13 67 98; D2 13 67 98; D2 13 67 98; D2 13 67 100; D2 13 67 100; D2 13 67 100;
  D2 13 67 100; D2 13 67 100; D2 13 67 100; D2 13 67 100; D2 13 67 100; D2 13 67 102; D2 13 67 102; D2 13 67 102;
  D2 13 67 102; D2 13 67 102; D2 13 67 102; D2 13 67 102; D2 13 67 102; D2 13 67 103; D2 13 67 103; D2 13 67 103;
  D2 13 67 103; D2 13 67 103; D2 13 67 103; D2 13 67 103; D2 13 67 103; D2 13 67 104; D2 13 67 104; D2 13 67 104;
  D2 13 67 104; D2 13 67 104; D2 13 67 104; D2 13 67 104; D2 13 67 104; D2 13 67 108; D2 13 67 108; D2 13 67 108;
  D2 13 67 108; D2 13 67 108; D2 13 67 108; D2 13 67 108; D2 13 67 108; D2 13 67 109; D2 13 67 109; D2 13 67 109;
  D2 13 67 109; D2 13 67 109; D2 13 67 109; D2 13 67 109; D2 13 67 109; D2 13 67 110; D2 13 67 110; D2 13 67 110;
  D2 13 67 110; D2 13 67 110; D2 13 67 110; D2 13 67 110; D2 13 67 110; D2 13 67 112; D2 13 67 112; D2 13 67 112;
  D2 13 67 112; D2 13 67 112; D2 13 67 112; D2 13 67 112; D2 13 67 112; D2 13 67 114; D2 13 67 114; D2 13 67 114;
  D2 13 67 114; D2 13 67 114; D2 13 67 114; D2 13 67 114; D2 13 67 114; D2 13 67 117; D2 13 67 117; D2 13 67 117;
  D2 13 67 117; D2 13 67 117; D2 13 67 117; D2 13 67 117; D2 13 67 117; D2 14 67 58; D2 14 67 58; D2 14 67 58;
  D2 14 67 58; D2 14 67 66; D2 14 67 66; D2 14 67 66; D2 14 67 66; D2 14 67 67; D2 14 67 67; D2 14 67 67; D2 14 67 67;
  D2 14 67 68; D2 14 67 68; D2 14 67 68; D2 14 67 68; D2 14 67 69; D2 14 67 69; D2 14 67 69; D2 14 67 69; D2 14 67 70;
  D2 14 67 70; D2 14 67 70; D2 14 67 70; D2 14 67 71; D2 14 67 71; D2 14 67 71; D2 14 67 71; D2 14 67 72; D2 14 67 72;
  D2 14 67 72; D2 14 67 72; D2 14 67 73; D2 14 67 73; D2 14 67 73; D2 14 67 73; D2 14 67 74; D2 14 67 74; D2 14 67 74;
  D2 14 67 74; D2 14 67 75; D2 14 67 75; D2 14 67 75; D2 14 67 75; D2 14 67 76; D2 14 67 76; D2 14 67 76; D2 14 67 76;
  D2 14 67 77; D2 14 67 77; D2 14 67 77; D2 14 67 77; D2 14 67 78; D2 14 67 78; D2 14 67 78; D2 14 67 78; D2 14 67 79;
  D2 14 67 79; D2 14 67 79; D2 14 67 79; D2 14 67 80; D2 14 67 80; D2 14 67 80; D2 14 67 80; D2 14 67 81; D2 14 67 81;
  D2 14 67 81; D2 14 67 81; D2 14 67 82; D2 14 67 82; D2 14 67 82; D2 14 67 82; D2 14 67 83; D2 14 67 83; D2 14 67 83;
  D2 14 67 83; D2 14 67 84; D2 14 67 84; D2 14 67 84; D2 14 67 84; D2 14 67 85; D2 14 67 85; D2 14 67 85; D2 14 67 85;
  D2 14 67 86; D2 14 67 86; D2 14 67 86; D2 14 67 86; D2 14 67 87; D2 14 67 87; D2 14 67 87; D2 14 67 87; D2 14 67 89;
  D2 14 67 89; D2 14 67 89; D2 14 67 89; D2 14 67 106; D2 14 67 106; D2 14 67 106; D2 14 67 106; D2 14 67 107;
  D2 14 67 107; D2 14 67 107; D2 14 67 107; D2 14 67 113; D2 14 67 113; D2 14 67 113; D2 14 67 113; D2 14 67 118;
  D2 14 67 118; D2 14 67 118; D2 14 67 118; D2 14 67 119; D2 14 67 119; D2 14 67 119; D2 14 67 119; D2 14 67 120;
  D2 14 67 120; D2 14 67 120; D2 14 67 120; D2 14 67 121; D2 14 67 121; D2 14 67 121; D2 14 67 121; D2 14 67 122;
  D2 14 67 122; D2 14 67 122; D2 14 67 122; D2 15 67 38; D2 15 67 38; D2 15 67 42; D2 15 67 42; D2 15 67 44;
  D2 15 67 44; D2 15 67 59; D2 15 67 59; D2 15 67 88; D2 15 67 88; D2 15 67 90; D2 15 67 90; D1 7 67; D1 7 67;
  D1 7 67; D1 7 67].
Definition hdecs_190 : list hdec := [
  D2 12 68 48; D2 12 68 48; D2 12 68 48; D2 12 68 48; D2 12 68 48; D2 12 68 48; D2 12 68 48; D2 12 68 48; D2 12 68 48;
  D2 12 68 48; D2 12 68 48; D2 12 68 48; D2 12 68 48; D2 12 68 48; D2 12 68 48; D2 12 68 48; D2 12 68 49; D2 12 68 49;
  D2 12 68 49; D2 12 68 49; D2 12 68 49; D2 12 68 49; D2 12 68 49; D2 12 68 49; D2 12 68 49; D2 12 68 49; D2 12 68 49;
  D2 12 68 49; D2 12 68 49; D2 12 68 49; D2 12 68 49; D2 12 68 49; D2 12 68 50; D2 12 68 50; D2 12 68 50; D2 12 68 50;
  D2 12 68 50; D2 12 68 50; D2 12 68 50; D2 12 68 50; D2 12 68 50; D2 12 68 50; D2 12 68 50; D2 12 68 50; D2 12 68 50;
  D2 12 68 50; D2 12 68 50; D2 12 68 50; D2 12 68 97; D2 12 68 97; D2 12 68 97; D2 12 68 97; D2 12 68 97; D2 12 68 97;
  D2 12 68 97; D2 12 68 97; D2 12 68 97; D2 12 68 97; D2 12 68 97; D2 12 68 97; D2 12 68 97; D2 12 68 97; D2 12 68 97;
  D2 12 68 97; D2 12 68 99; D2 12 68 99; D2 12 68 99; D2 12 68 99; D2 12 68 99; D2 12 68 99; D2 12 68 99; D2 12 68 99;
  D2 12 68 99; D2 12 68 99; D2 12 68 99; D2 12 68 99; D2 12 68 99; D2 12 68 99; D2 12 68 99; D2 12 68 99;
  D2 12 68 101; D2 12 68 101; D2 12 68 101; D2 12 68 101; D2 12 68 101; D2 12 68 101; D2 12 68 101; D2 12 68 101;
  D2 12 68 101; D2 12 68 101; D2 12 68 101; D2 12 68 101; D2 12 68 101; D2 12 68 101; D2 12 68 101; D2 12 68 101;
  D2 12 68 105; D2 12 68 105; D2 12 68 105; D2 12 68 105; D2 12 68 105; D2 12 68 105; D2 12 68 105; D2 12 68 105;
  D2 12 68 105; D2 12 68 105; D2 12 68 105; D2 12 68 105; D2 12 68 105; D2 12 68 105; D2 12 68 105; D2 12 68 105;
  D2 12 68 111; D2 12 68 111; D2 12 68 111; D2 12 68 111; D2 12 68 111; D2 12 68 111; D2 12 68 111; D2 12 68 111;
  D2 12 68 111; D2 12 68 111; D2 12 68 111; D2 12 68 111; D2 12 68 111; D2 12 68 111; D2 12 68 111; D2 12 68 111;
  D2 12 68 115; D2 12 68 115; D2 12 68 115; D2 12 68 115; D2 12 68 115; D2 12 68 115; D2 12 68 115; D2 12 68 115;
  D2 12 68 115; D2 12 68 115; D2 12 68 115; D2 12 68 115; D2 12 68 115; D2 12 68 115; D2 12 68 115; D2 12 68 115;
  D2 12 68 116; D2 12 68 116; D2 12 68 116; D2 12 68 116; D2 12 68 116; D2 12 68 116; D2 12 68 116; D2 12 68 116;
  D2 12 68 116; D2 12 68 116; D2 12 68 116; D2 12 68 116; D2 12 68 116; D2 12 68 116; D2 12 68 116; D2 12 68 116;
  D2 13 68 32; D2 13 68 32; D2 13 68 32; D2 13 68 32; D2 13 68 32; D2 13 68 32; D2 13 68 32; D2 13 68 32; D2 13 68 37;
  D2 13 68 37; D2 13 68 37; D2 13 68 37; D2 13 68 37; D2 13 68 37; D2 13 68 37; D2 13 68 37; D2 13 68 45; D2 13 68 45;
  D2 13 68 45; D2 13 68 45; D2 13 68 45; D2 13 68 45; D2 13 68 45; D2 13 68 45; D2 13 68 46; D2 13 68 46; D2 13 68 46;
  D2 13 68 46; D2 13 68 46; D2 13 68 46; D2 13 68 46; D2 13 68 46; D2 13 68 47; D2 13 68 47; D2 13 68 47; D2 13 68 47;
  D2 13 68 47; D2 13 68 47; D2 13 68 47; D2 13 68 47; D2 13 68 51; D2 13 68 51; D2 13 68 51; D2 13 68 51; D2 13 68 51;
  D2 13 68 51; D2 13 68 51; D2 13 68 51; D2 13 68 52; D2 13 68 52; D2 13 68 52; D2 13 68 52; D2 13 68 52; D2 13 68 52;
  D2 13 68 52; D2 13 68 52; D2 13 68 53; D2 13 68 53; D2 13 68 53; D2 13 68 53; D2 13 68 53; D2 13 68 53; D2 13 68 53;
  D2 13 68 53; D2 13 68 54; D2 13 68 54; D2 13 68 54; D2 13 68 54; D2 13 68 54; D2 13 68 54; D2 13 68 54; D2 13 68 54;
  D2 13 68 55; D2 13 68 55; D2 13 68 55; D2 13 68 55; D2 13 68 55; D2 13 68 55; D2 13 68 55; D2 13 68 55; D2 13 68 56;
  D2 13 68 56; D2 13 68 56; D2 13 68 56; D2 13 68 56; D2 13 68 56; D2 13 68 56; D2 13 68 56; D2 13 68 57; D2 13 68 57;
  D2 13 68 57; D2 13 68 57; D2 13 68 57; D2 13 68 57; D2 13 68 57; D2 13 68 57].
Definition hdecs_191 : list hdec := [
  D2 13 68 61; D2 13 68 61; D2 13 68 61; D2 13 68 61; D2 13 68 61; D2 13 68 61; D2 13 68 61; D2 13 68 61; D2 13 68 65;
  D2 13 68 65; D2 13 68 65; D2 13 68 65; D2 13 68 65; D2 13 68 65; D2 13 68 65; D2 13 68 65; D2 13 68 95; D2 13 68 95;
  D2 13 68 95; D2 13 68 95; D2 13 68 95; D2 13 68 95; D2 13 68 95; D2 13 68 95; D2 13 68 98; D2 13 68 98; D2 13 68 98;
  D2 13 68 98; D2 13 68 98; D2 13 68 98; D2 13 68 98; D2 13 68 98; D2 13 68 100; D2 13 68 100; D2 13 68 100;
  D2 13 68 100; D2 13 68 100; D2 13 68 100; D2 13 68 100; D2 13 68 100; D2 13 68 102; D2 13 68 102; D2 13 68 102;
  D2 13 68 102; D2 13 68 102; D2 13 68 102; D2 13 68 102; D2 13 68 102; D2 13 68 103; D2 13 68 103; D2 13 68 103;
  D2 13 68 103; D2 13 68 103; D2 13 68 103; D2 13 68 103; D2 13 68 103; D2 13 68 104; D2 13 68 104; D2 13 68 104;
  D2 13 68 104; D2 13 68 104; D2 13 68 104; D2 13 68 104; D2 13 68 104; D2 13 68 108; D2 13 68 108; D2 13 68 108;
  D2 13 68 108; D2 13 68 108; D2 13 68 108; D2 13 68 108; D2 13 68 108; D2 13 68 109; D2 13 68 109; D2 13 68 109;
  D2 13 68 109; D2 13 68 109; D2 13 68 109; D2 13 68 109; D2 13 68 109; D2 13 68 110; D2 13 68 110; D2 13 68 110;
  D2 13 68 110; D2 13 68 110; D2 13 68 110; D2 13 68 110; D2 13 68 110; D2 13 68 112; D2 13 68 112; D2 13 68 112;
  D2 13 68 112; D2 13 68 112; D2 13 68 112; D2 13 68 112; D2 13 68 112; D2 13 68 114; D2 13 68 114; D2 13 68 114;
  D2 13 68 114; D2 13 68 114; D2 13 68 114; D2 13 68 114; D2 13 68 114; D2 13 68 117; D2 13 68 117; D2 13 68 117;
  D2 13 68 117; D2 13 68 117; D2 13 68 117; D2 13 68 117; D2 13 68 117; D2 14 68 58; D2 14 68 58; D2 14 68 58;
  D2 14 68 58; D2 14 68 66; D2 14 68 66; D2 14 68 66; D2 14 68 66; D2 14 68 67; D2 14 68 67; D2 14 68 67; D2 14 68 67;
  D2 14 68 68; D2 14 68 68; D2 14 68 68; D2 14 68 68; D2 14 68 69; D2 14 68 69; D2 14 68 69; D2 14 68 69; D2 14 68 70;
  D2 14 68 70; D2 14 68 70; D2 14 68 70; D2 14 68 71; D2 14 68 71; D2 14 68 71; D2 14 68 71; D2 14 68 72; D2 14 68 72;
  D2 14 68 72; D2 14 68 72; D2 14 68 73; D2 14 68 73; D2 14 68 73; D2 14 68 73; D2 14 68 74; D2 14 68 74; D2 14 68 74;
  D2 14 68 74; D2 14 68 75; D2 14 68 75; D2 14 68 75; D2 14 68 75; D2 14 68 76; D2 14 68 76; D2 14 68 76; D2 14 68 76;
  D2 14 68 77; D2 14 68 77; D2 14 68 77; D2 14 68 77; D2 14 68 78; D2 14 68 78; D2 14 68 78; D2 14 68 78; D2 14 68 79;
  D2 14 68 79; D2 14 68 79; D2 14 68 79; D2 14 68 80; D2 14 68 80; D2 14 68 80; D2 14 68 80; D2 14 68 81; D2 14 68 81;
  D2 14 68 81; D2 14 68 81; D2 14 68 82; D2 14 68 82; D2 14 68 82; D2 14 68 82; D2 14 68 83; D2 14 68 83; D2 14 68 83;
  D2 14 68 83; D2 14 68 84; D2 14 68 84; D2 14 68 84; D2 14 68 84; D2 14 68 85; D2 14 68 85; D2 14 68 85; D2 14 68 85;
  D2 14 68 86; D2 14 68 86; D2 14 68 86; D2 14 68 86; D2 14 68 87; D2 14 68 87; D2 14 68 87; D2 14 68 87; D2 14 68 89;
  D2 14 68 89; D2 14 68 89; D2 14 68 89; D2 14 68 106; D2 14 68 106; D2 14 68 106; D2 14 68 106; D2 14 68 107;
  D2 14 68 107; D2 14 68 107; D2 14 68 107; D2 14 68 113; D2 14 68 113; D2 14 68 113; D2 14 68 113; D2 14 68 118;
  D2 14 68 118; D2 14 68 118; D2 14 68 118; D2 14 68 119; D2 14 68 119; D2 14 68 119; D2 14 68 119; D2 14 68 120;
  D2 14 68 120; D2 14 68 120; D2 14 68 120; D2 14 68 121; D2 14 68 121; D2 14 68 121; D2 14 68 121; D2 14 68 122;
  D2 14 68 122; D2 14 68 122; D2 14 68 122; D2 15 68 38; D2 15 68 38; D2 15 68 42; D2 15 68 42; D2 15 68 44;
  D2 15 68 44; D2 15 68 59; D2 15 68 59; D2 15 68 88; D2 15 68 88; D2 15 68 90; D2 15 68 90; D1 7 68; D1 7 68;
  D1 7 68; D1 7 68].
Definition hdecs_192 : list hdec := [
  D2 12 69 48; D2 12 69 48; D2 12 69 48; D2 12 69 48; D2 12 69 48; D2 12 69 48; D2 12 69 48; D2 12 69 48; D2 12 69 48;
  D2 12 69 48; D2 12 69 48; D2 12 69 48; D2 12 69 48; D2 12 69 48; D2 12 69 48; D2 12 69 48; D2 12 69 49; D2 12 69 49;
  D2 12 69 49; D2 12 69 49; D2 12 69 49; D2 12 69 49; D2 12 69 49; D2 12 69 49; D2 12 69 49; D2 12 69 49; D2 12 69 49;
  D2 12 69 49; D2 12 69 49; D2 12 69 49; D2 12 69 49; D2 12 69 49; D2 12 69 50; D2 12 69 50; D2 12 69 50; D2 12 69 50;
  D2 12 69 50; D2 12 69 50; D2 12 69 50; D2 12 69 50; D2 12 69 50; D2 12 69 50; D2 12 69 50; D2 12 69 50; D2 12 69 50;
  D2 12 69 50; D2 12 69 50; D2 12 69 50; D2 12 69 97; D2 12 69 97; D2 12 69 97; D2 12 69 97; D2 12 69 97; D2 12 69 97;
  D2 12 69 97; D2 12 69 97; D2 12 69 97; D2 12 69 97; D2 12 69 97; D2 12 69 97; D2 12 69 97; D2 12 69 97; D2 12 69 97;
  D2 12 69 97; D2 12 69 99; D2 12 69 99; D2 12 69 99; D2 12 69 99; D2 12 69 99; D2 12 69 99; D2 12 69 99; D2 12 69 99;
  D2 12 69 99; D2 12 69 99; D2 12 69 99; D2 12 69 99; D2 12 69 99; D2 12 69 99; D2 12 69 99; D2 12 69 99;
  D2 12 69 101; D2 12 69 101; D2 12 69 101; D2 12 69 101; D2 12 69 101; D2 12 69 101; D2 12 69 101; D2 12 69 101;
  D2 12 69 101; D2 12 69 101; D2 12 69 101; D2 12 69 101; D2 12 69 101; D2 12 69 101; D2 12 69 101; D2 12 69 101;
  D2 12 69 105; D2 12 69 105; D2 12 69 105; D2 12 69 105; D2 12 69 105; D2 12 69 105; D2 12 69 105; D2 12 69 105;
  D2 12 69 105; D2 12 69 105; D2 12 69 105; D2 12 69 105; D2 12 69 105; D2 12 69 105; D2 12 69 105; D2 12 69 105;
  D2 12 69 111; D2 12 69 111; D2 12 69 111; D2 12 69 111; D2 12 69 111; D2 12 69 111; D2 12 69 111; D2 12 69 111;
  D2 12 69 111; D2 12 69 111; D2 12 69 111; D2 12 69 111; D2 12 69 111; D2 12 69 111; D2 12 69 111; D2 12 69 111;
  D2 12 69 115; D2 12 69 115; D2 12 69 115; D2 12 69 115; D2 12 69 115; D2 12 69 115; D2 12 69 115; D2 12 69 115;
  D2 12 69 115; D2 12 69 115; D2 12 69 115; D2 12 69 115; D2 12 69 115; D2 12 69 115; D2 12 69 115; D2 12 69 115;
  D2 12 69 116; D2 12 69 116; D2 12 69 116; D2 12 69 116; D2 12 69 116; D2 12 69 116; D2 12 69 116; D2 12 69 116;
  D2 12 69 116; D2 12 69 116; D2 12 69 116; D2 12 69 116; D2 12 69 116; D2 12 69 116; D2 12 69 116; D2 12 69 116;
  D2 13 69 32; D2 13 69 32; D2 13 69 32; D2 13 69 32; D2 13 69 32; D2 13 69 32; D2 13 69 32; D2 13 69 32; D2 13 69 37;
  D2 13 69 37; D2 13 69 37; D2 13 69 37; D2 13 69 37; D2 13 69 37; D2 13 69 37; D2 13 69 37; D2 13 69 45; D2 13 69 45;
  D2 13 69 45; D2 13 69 45; D2 13 69 45; D2 13 69 45; D2 13 69 45; D2 13 69 45; D2 13 69 46; D2 13 69 46; D2 13 69 46;
  D2 13 69 46; D2 13 69 46; D2 13 69 46; D2 13 69 46; D2 13 69 46; D2 13 69 47; D2 13 69 47; D2 13 69 47; D2 13 69 47;
  D2 13 69 47; D2 13 69 47; D2 13 69 47; D2 13 69 47; D2 13 69 51; D2 13 69 51; D2 13 69 51; D2 13 69 51; D2 13 69 51;
  D2 13 69 51; D2 13 69 51; D2 13 69 51; D2 13 69 52; D2 13 69 52; D2 13 69 52; D2 13 69 52; D2 13 69 52; D2 13 69 52;
  D2 13 69 52; D2 13 69 52; D2 13 69 53; D2 13 69 53; D2 13 69 53; D2 13 69 53; D2 13 69 53; D2 13 69 53; D2 13 69 53;
  D2 13 69 53; D2 13 69 54; D2 13 69 54; D2 13 69 54; D2 13 69 54; D2 13 69 54; D2 13 69 54; D2 13 69 54; D2 13 69 54;
  D2 13 69 55; D2 13 69 55; D2 13 69 55; D2 13 69 55; D2 13 69 55; D2 13 69 55; D2 13 69 55; D2 13 69 55; D2 13 69 56;
  D2 13 69 56; D2 13 69 56; D2 13 69 56; D2 13 69 56; D2 13 69 56; D2 13 69 56; D2 13 69 56; D2 13 69 57; D2 13 69 57;
  D2 13 69 57; D2 13 69 57; D2 13 69 57; D2 13 69 57; D2 13 69 57; D2 13 69 57].
Definition hdecs_193 : list hdec := [
  D2 13 69 61; D2 13 69 61; D2 13 69 61; D2 13 69 61; D2 13 69 61; D2 13 69 61; D2 13 69 61; D2 13 69 61; D2 13 69 65;
  D2 13 69 65; D2 13 69 65; D2 13 69 65; D2 13 69 65; D2 13 69 65; D2 13 69 65; D2 13 69 65; D2 13 69 95; D2 13 69 95;
  D2 13 69 95; D2 13 69 95; D2 13 69 95; D2 13 69 95; D2 13 69 95; D2 13 69 95; D2 13 69 98; D2 13 69 98; D2 13 69 98;
  D2 13 69 98; D2 13 69 98; D2 13 69 98; D2 13 69 98; D2 13 69 98; D2 13 69 100; D2 13 69 100; D2 13 69 100;
  D2 13 69 100; D2 13 69 100; D2 13 69 100; D2 13 69 100; D2 13 69 100; D2 13 69 102; D2 13 69 102; D2 13 69 102;
  D2 13 69 102; D2 13 69 102; D2 13 69 102; D2 13 69 102; D2 13 69 102; D2 13 69 103; D2 13 69 103; D2 13 69 103;
  D2 13 69 103; D2 13 69 103; D2 13 69 103; D2 13 69 103; D2 13 69 103; D2 13 69 104; D2 13 69 104; D2 13 69 104;
  D2 13 69 104; D2 13 69 104; D2 13 69 104; D2 13 69 104; D2 13 69 104; D2 13 69 108; D2 13 69 108; D2 13 69 108;
  D2 13 69 108; D2 13 69 108; D2 13 69 108; D2 13 69 108; D2 13 69 108; D2 13 69 109; D2 13 69 109; D2 13 69 109;
  D2 13 69 109; D2 13 69 109; D2 13 69 109; D2 13 69 109; D2 13 69 109; D2 13 69 110; D2 13 69 110; D2 13 69 110;
  D2 13 69 110; D2 13 69 110; D2 13 69 110; D2 13 69 110; D2 13 69 110; D2 13 69 112; D2 13 69 112; D2 13 69 112;
  D2 13 69 112; D2 13 69 112; D2 13 69 112; D2 13 69 112; D2 13 69 112; D2 13 69 114; D2 13 69 114; D2 13 69 114;
  D2 13 69 114; D2 13 69 114; D2 13 69 114; D2 13 69 114; D2 13 69 114; D2 13 69 117; D2 13 69 117; D2 13 69 117;
  D2 13 69 117; D2 13 69 117; D2 13 69 117; D2 13 69 117; D2 13 69 117; D2 14 69 58; D2 14 69 58; D2 14 69 58;
  D2 14 69 58; D2 14 69 66; D2 14 69 66; D2 14 69 66; D2 14 69 66; D2 14 69 67; D2 14 69 67; D2 14 69 67; D2 14 69 67;
  D2 14 69 68; D2 14 69 68; D2 14 69 68; D2 14 69 68; D2 14 69 69; D2 14 69 69; D2 14 69 69; D2 14 69 69; D2 14 69 70;
  D2 14 69 70; D2 14 69 70; D2 14 69 70; D2 14 69 71; D2 14 69 71; D2 14 69 71; D2 14 69 71; D2 14 69 72; D2 14 69 72;
  D2 14 69 72; D2 14 69 72; D2 14 69 73; D2 14 69 73; D2 14 69 73; D2 14 69 73; D2 14 69 74; D2 14 69 74; D2 14 69 74;
  D2 14 69 74; D2 14 69 75; D2 14 69 75; D2 14 69 75; D2 14 69 75; D2 14 69 76; D2 14 69 76; D2 14 69 76; D2 14 69 76;
  D2 14 69 77; D2 14 69 77; D2 14 69 77; D2 14 69 77; D2 14 69 78; D2 14 69 78; D2 14 69 78; D2 14 69 78; D2 14 69 79;
  D2 14 69 79; D2 14 69 79; D2 14 69 79; D2 14 69 80; D2 14 69 80; D2 14 69 80; D2 14 69 80; D2 14 69 81; D2 14 69 81;
  D2 14 69 81; D2 14 69 81; D2 14 69 82; D2 14 69 82; D2 14 69 82; D2 14 69 82; D2 14 69 83; D2 14 69 83; D2 14 69 83;
  D2 14 69 83; D2 14 69 84; D2 14 69 84; D2 14 69 84; D2 14 69 84; D2 14 69 85; D2 14 69 85; D2 14 69 85; D2 14 69 85;
  D2 14 69 86; D2 14 69 86; D2 14 69 86; D2 14 69 86; D2 14 69 87; D2 14 69 87; D2 14 69 87; D2 14 69 87; D2 14 69 89;
  D2 14 69 89; D2 14 69 89; D2 14 69 89; D2 14 69 106; D2 14 69 106; D2 14 69 106; D2 14 69 106; D2 14 69 107;
  D2 14 69 107; D2 14 69 107; D2 14 69 107; D2 14 69 113; D2 14 69 113; D2 14 69 113; D2 14 69 113; D2 14 69 118;
  D2 14 69 118; D2 14 69 118; D2 14 69 118; D2 14 69 119; D2 14 69 119; D2 14 69 119; D2 14 69 119; D2 14 69 120;
  D2 14 69 120; D2 14 69 120; D2 14 69 120; D2 14 69 121; D2 14 69 121; D2 14 69 121; D2 14 69 121; D2 14 69 122;
  D2 14 69 122; D2 14 69 122; D2 14 69 122; D2 15 69 38; D2 15 69 38; D2 15 69 42; D2 15 69 42; D2 15 69 44;
  D2 15 69 44; D2 15 69 59; D2 15 69 59; D2 15 69 88; D2 15 69 88; D2 15 69 90; D2 15 69 90; D1 7 69; D1 7 69;
  D1 7 69; D1 7 69].
Definition hdecs_194 : list hdec := [
  D2 12 70 48; D2 12 70 48; D2 12 70 48; D2 12 70 48; D2 12 70 48; D2 12 70 48; D2 12 70 48; D2 12 70 48; D2 12 70 48;
  D2 12 70 48; D2 12 70 48; D2 12 70 48; D2 12 70 48; D2 12 70 48; D2 12 70 48; D2 12 70 48; D2 12 70 49; D2 12 70 49;
  D2 12 70 49; D2 12 70 49; D2 12 70 49; D2 12 70 49; D2 12 70 49; D2 12 70 49; D2 12 70 49; D2 12 70 49; D2 12 70 49;
  D2 12 70 49; D2 12 70 49; D2 12 70 49; D2 12 70 49; D2 12 70 49; D2 12 70 50; D2 12 70 50; D2 12 70 50; D2 12 70 50;
  D2 12 70 50; D2 12 70 50; D2 12 70 50; D2 12 70 50; D2 12 70 50; D2 12 70 50; D2 12 70 50; D2 12 70 50; D2 12 70 50;
  D2 12 70 50; D2 12 70 50; D2 12 70 50; D2 12 70 97; D2 12 70 97; D2 12 70 97; D2 12 70 97; D2 12 70 97; D2 12 70 97;
  D2 12 70 97; D2 12 70 97; D2 12 70 97; D2 12 70 97; D2 12 70 97; D2 12 70 97; D2 12 70 97; D2 12 70 97; D2 12 70 97;
  D2 12 70 97; D2 12 70 99; D2 12 70 99; D2 12 70 99; D2 12 70 99; D2 12 70 99; D2 12 70 99; D2 12 70 99; D2 12 70 99;
  D2 12 70 99; D2 12 70 99; D2 12 70 99; D2 12 70 99; D2 12 70 99; D2 12 70 99; D2 12 70 99; D2 12 70 99;
  D2 12 70 101; D2 12 70 101; D2 12 70 101; D2 12 70 101; D2 12 70 101; D2 12 70 101; D2 12 70 101; D2 12 70 101;
  D2 12 70 101; D2 12 70 101; D2 12 70 101; D2 12 70 101; D2 12 70 101; D2 12 70 101; D2 12 70 101; D2 12 70 101;
  D2 12 70 105; D2 12 70 105; D2 12 70 105; D2 12 70 105; D2 12 70 105; D2 12 70 105; D2 12 70 105; D2 12 70 105;
  D2 12 70 105; D2 12 70 105; D2 12 70 105; D2 12 70 105; D2 12 70 105; D2 12 70 105; D2 12 70 105; D2 12 70 105;
  D2 12 70 111; D2 12 70 111; D2 12 70 111; D2 12 70 111; D2 12 70 111; D2 12 70 111; D2 12 70 111; D2 12 70 111;
  D2 12 70 111; D2 12 70 111; D2 12 70 111; D2 12 70 111; D2 12 70 111; D2 12 70 111; D2 12 70 111; D2 12 70 111;
  D2 12 70 115; D2 12 70 115; D2 12 70 115; D2 12 70 115; D2 12 70 115; D2 12 70 115; D2 12 70 115; D2 12 70 115;
  D2 12 70 115; D2 12 70 115; D2 12 70 115; D2 12 70 115; D2 12 70 115; D2 12 70 115; D2 12 70 115; D2 12 70 115;
  D2 12 70 116; D2 12 70 116; D2 12 70 116; D2 12 70 116; D2 12 70 116; D2 12 70 116; D2 12 70 116; D2 12 70 116;
  D2 12 70 116; D2 12 70 116; D2 12 70 116; D2 12 70 116; D2 12 70 116; D2 12 70 116; D2 12 70 116; D2 12 70 116;
  D2 13 70 32; D2 13 70 32; D2 13 70 32; D2 13 70 32; D2 13 70 32; D2 13 70 32; D2 13 70 32; D2 13 70 32; D2 13 70 37;
  D2 13 70 37; D2 13 70 37; D2 13 70 37; D2 13 70 37; D2 13 70 37; D2 13 70 37; D2 13 70 37; D2 13 70 45; D2 13 70 45;
  D2 13 70 45; D2 13 70 45; D2 13 70 45; D2 13 70 45; D2 13 70 45; D2 13 70 45; D2 13 70 46; D2 13 70 46; D2 13 70 46;
  D2 13 70 46; D2 13 70 46; D2 13 70 46; D2 13 70 46; D2 13 70 46; D2 13 70 47; D2 13 70 47; D2 13 70 47; D2 13 70 47;
  D2 13 70 47; D2 13 70 47; D2 13 70 47; D2 13 70 47; D2 13 70 51; D2 13 70 51; D2 13 70 51; D2 13 70 51; D2 13 70 51;
  D2 13 70 51; D2 13 70 51; D2 13 70 51; D2 13 70 52; D2 13 70 52; D2 13 70 52; D2 13 70 52; D2 13 70 52; D2 13 70 52;
  D2 13 70 52; D2 13 70 52; D2 13 70 53; D2 13 70 53; D2 13 70 53; D2 13 70 53; D2 13 70 53; D2 13 70 53; D2 13 70 53;
  D2 13 70 53; D2 13 70 54; D2 13 70 54; D2 13 70 54; D2 13 70 54; D2 13 70 54; D2 13 70 54; D2 13 70 54; D2 13 70 54;
  D2 13 70 55; D2 13 70 55; D2 13 70 55; D2 13 70 55; D2 13 70 55; D2 13 70 55; D2 13 70 55; D2 13 70 55; D2 13 70 56;
  D2 13 70 56; D2 13 70 56; D2 13 70 56; D2 13 70 56; D2 13 70 56; D2 13 70 56; D2 13 70 56; D2 13 70 57; D2 13 70 57;
  D2 13 70 57; D2 13 70 57; D2 13 70 57; D2 13 70 57; D2 13 70 57; D2 13 70 57].
Definition hdecs_195 : list hdec := [
  D2 13 70 61; D2 13 70 61; D2 13 70 61; D2 13 70 61; D2 13 70 61; D2 13 70 61; D2 13 70 61; D2 13 70 61; D2 13 70 65;
  D2 13 70 65; D2 13 70 65; D2 13 70 65; D2 13 70 65; D2 13 70 65; D2 13 70 65; D2 13 70 65; D2 13 70 95; D2 13 70 95;
  D2 13 70 95; D2 13 70 95; D2 13 70 95; D2 13 70 95; D2 13 70 95; D2 13 70 95; D2 13 70 98; D2 13 70 98; D2 13 70 98;
  D2 13 70 98; D2 13 70 98; D2 13 70 98; D2 13 70 98; D2 13 70 98; D2 13 70 100; D2 13 70 100; D2 13 70 100;
  D2 13 70 100; D2 13 70 100; D2 13 70 100; D2 13 70 100; D2 13 70 100; D2 13 70 102; D2 13 70 102; D2 13 70 102;
  D2 13 70 102; D2 13 70 102; D2 13 70 102; D2 13 70 102; D2 13 70 102; D2 13 70 103; D2 13 70 103; D2 13 70 103;
  D2 13 70 103; D2 13 70 103; D2 13 70 103; D2 13 70 103; D2 13 70 103; D2 13 70 104; D2 13 70 104; D2 13 70 104;
  D2 13 70 104; D2 13 70 104; D2 13 70 104; D2 13 70 104; D2 13 70 104; D2 13 70 108; D2 13 70 108; D2 13 70 108;
  D2 13 70 108; D2 13 70 108; D2 13 70 108; D2 13 70 108; D2 13 70 108; D2 13 70 109; D2 13 70 109; D2 13 70 109;
  D2 13 70 109; D2 13 70 109; D2 13 70 109; D2 13 70 109; D2 13 70 109; D2 13 70 110; D2 13 70 110; D2 13 70 110;
  D2 13 70 110; D2 13 70 110; D2 13 70 110; D2 13 70 110; D2 13 70 110; D2 13 70 112; D2 13 70 112; D2 13 70 112;
  D2 13 70 112; D2 13 70 112; D2 13 70 112; D2 13 70 112; D2 13 70 112; D2 13 70 114; D2 13 70 114; D2 13 70 114;
  D2 13 70 114; D2 13 70 114; D2 13 70 114; D2 13 70 114; D2 13 70 114; D2 13 70 117; D2 13 70 117; D2 13 70 117;
  D2 13 70 117; D2 13 70 117; D2 13 70 117; D2 13 70 117; D2 13 70 117; D2 14 70 58; D2 14 70 58; D2 14 70 58;
  D2 14 70 58; D2 14 70 66; D2 14 70 66; D2 14 70 66; D2 14 70 66; D2 14 70 67; D2 14 70 67; D2 14 70 67; D2 14 70 67;
  D2 14 70 68; D2 14 70 68; D2 14 70 68; D2 14 70 68; D2 14 70 69; D2 14 70 69; D2 14 70 69; D2 14 70 69; D2 14 70 70;
  D2 14 70 70; D2 14 70 70; D2 14 70 70; D2 14 70 71; D2 14 70 71; D2 14 70 71; D2 14 70 71; D2 14 70 72; D2 14 70 72;
  D2 14 70 72; D2 14 70 72; D2 14 70 73; D2 14 70 73; D2 14 70 73; D2 14 70 73; D2 14 70 74; D2 14 70 74; D2 14 70 74;
  D2 14 70 74; D2 14 70 75; D2 14 70 75; D2 14 70 75; D2 14 70 75; D2 14 70 76; D2 14 70 76; D2 14 70 76; D2 14 70 76;
  D2 14 70 77; D2 14 70 77; D2 14 70 77; D2 14 70 77; D2 14 70 78; D2 14 70 78; D2 14 70 78; D2 14 70 78; D2 14 70 79;
  D2 14 70 79; D2 14 70 79; D2 14 70 79; D2 14 70 80; D2 14 70 80; D2 14 70 80; D2 14 70 80; D2 14 70 81; D2 14 70 81;
  D2 14 70 81; D2 14 70 81; D2 14 70 82; D2 14 70 82; D2 14 70 82; D2 14 70 82; D2 14 70 83; D2 14 70 83; D2 14 70 83;
  D2 14 70 83; D2 14 70 84; D2 14 70 84; D2 14 70 84; D2 14 70 84; D2 14 70 85; D2 14 70 85; D2 14 70 85; D2 14 70 85;
  D2 14 70 86; D2 14 70 86; D2 14 70 86; D2 14 70 86; D2 14 70 87; D2 14 70 87; D2 14 70 87; D2 14 70 87; D2 14 70 89;
  D2 14 70 89; D2 14 70 89; D2 14 70 89; D2 14 70 106; D2 14 70 106; D2 14 70 106; D2 14 70 106; D2 14 70 107;
  D2 14 70 107; D2 14 70 107; D2 14 70 107; D2 14 70 113; D2 14 70 113; D2 14 70 113; D2 14 70 113; D2 14 70 118;
  D2 14 70 118; D2 14 70 118; D2 14 70 118; D2 14 70 119; D2 14 70 119; D2 14 70 119; D2 14 70 119; D2 14 70 120;
  D2 14 70 120; D2 14 70 120; D2 14 70 120; D2 14 70 121; D2 14 70 121; D2 14 70 121; D2 14 70 121; D2 14 70 122;
  D2 14 70 122; D2 14 70 122; D2 14 70 122; D2 15 70 38; D2 15 70 38; D2 15 70 42; D2 15 70 42; D2 15 70 44;
  D2 15 70 44; D2 15 70 59; D2 15 70 59; D2 15 70 88; D2 15 70 88; D2 15 70 90; D2 15 70 90; D1 7 70; D1 7 70;
  D1 7 70; D1 7 70].
Definition hdecs_196 : list hdec := [
  D2 12 71 48; D2 12 71 48; D2 12 71 48; D2 12 71 48; D2 12 71 48; D2 12 71 48; D2 12 71 48; D2 12 71 48; D2 12 71 48;
  D2 12 71 48; D2 12 71 48; D2 12 71 48; D2 12 71 48; D2 12 71 48; D2 12 71 48; D2 12 71 48; D2 12 71 49; D2 12 71 49;
  D2 12 71 49; D2 12 71 49; D2 12 71 49; D2 12 71 49; D2 12 71 49; D2 12 71 49; D2 12 71 49; D2 12 71 49; D2 12 71 49;
  D2 12 71 49; D2 12 71 49; D2 12 71 49; D2 12 71 49; D2 12 71 49; D2 12 71 50; D2 12 71 50; D2 12 71 50; D2 12 71 50;
  D2 12 71 50; D2 12 71 50; D2 12 71 50; D2 12 71 50; D2 12 71 50; D2 12 71 50; D2 12 71 50; D2 12 71 50; D2 12 71 50;
  D2 12 71 50; D2 12 71 50; D2 12 71 50; D2 12 71 97; D2 12 71 97; D2 12 71 97; D2 12 71 97; D2 12 71 97; D2 12 71 97;
  D2 12 71 97; D2 12 71 97; D2 12 71 97; D2 12 71 97; D2 12 71 97; D2 12 71 97; D2 12 71 97; D2 12 71 97; D2 12 71 97;
  D2 12 71 97; D2 12 71 99; D2 12 71 99; D2 12 71 99; D2 12 71 99; D2 12 71 99; D2 12 71 99; D2 12 71 99; D2 12 71 99;
  D2 12 71 99; D2 12 71 99; D2 12 71 99; D2 12 71 99; D2 12 71 99; D2 12 71 99; D2 12 71 99; D2 12 71 99;
  D2 12 71 101; D2 12 71 101; D2 12 71 101; D2 12 71 101; D2 12 71 101; D2 12 71 101; D2 12 71 101; D2 12 71 101;
  D2 12 71 101; D2 12 71 101; D2 12 71 101; D2 12 71 101; D2 12 71 101; D2 12 71 101; D2 12 71 101; D2 12 71 101;
  D2 12 71 105; D2 12 71 105; D2 12 71 105; D2 12 71 105; D2 12 71 105; D2 12 71 105; D2 12 71 105; D2 12 71 105;
  D2 12 71 105; D2 12 71 105; D2 12 71 105; D2 12 71 105; D2 12 71 105; D2 12 71 105; D2 12 71 105; D2 12 71 105;
  D2 12 71 111; D2 12 71 111; D2 12 71 111; D2 12 71 111; D2 12 71 111; D2 12 71 111; D2 12 71 111; D2 12 71 111;
  D2 12 71 111; D2 12 71 111; D2 12 71 111; D2 12 71 111; D2 12 71 111; D2 12 71 111; D2 12 71 111; D2 12 71 111;
  D2 12 71 115; D2 12 71 115; D2 12 71 115; D2 12 71 115; D2 12 71 115; D2 12 71 115; D2 12 71 115; D2 12 71 115;
  D2 12 71 115; D2 12 71 115; D2 12 71 115; D2 12 71 115; D2 12 71 115; D2 12 71 115; D2 12 71 115; D2 12 71 115;
  D2 12 71 116; D2 12 71 116; D2 12 71 116; D2 12 71 116; D2 12 71 116; D2 12 71 116; D2 12 71 116; D2 12 71 116;
  D2 12 71 116; D2 12 71 116; D2 12 71 116; D2 12 71 116; D2 12 71 116; D2 12 71 116; D2 12 71 116; D2 12 71 116;
  D2 13 71 32; D2 13 71 32; D2 13 71 32; D2 13 71 32; D2 13 71 32; D2 13 71 32; D2 13 71 32; D2 13 71 32; D2 13 71 37;
  D2 13 71 37; D2 13 71 37; D2 13 71 37; D2 13 71 37; D2 13 71 37; D2 13 71 37; D2 13 71 37; D2 13 71 45; D2 13 71 45;
  D2 13 71 45; D2 13 71 45; D2 13 71 45; D2 13 71 45; D2 13 71 45; D2 13 71 45; D2 13 71 46; D2 13 71 46; D2 13 71 46;
  D2 13 71 46; D2 13 71 46; D2 13 71 46; D2 13 71 46; D2 13 71 46; D2 13 71 47; D2 13 71 47; D2 13 71 47; D2 13 71 47;
  D2 13 71 47; D2 13 71 47; D2 13 71 47; D2 13 71 47; D2 13 71 51; D2 13 71 51; D2 13 71 51; D2 13 71 51; D2 13 71 51;
  D2 13 71 51; D2 13 71 51; D2 13 71 51; D2 13 71 52; D2 13 71 52; D2 13 71 52; D2 13 71 52; D2 13 71 52; D2 13 71 52;
  D2 13 71 52; D2 13 71 52; D2 13 71 53; D2 13 71 53; D2 13 71 53; D2 13 71 53; D2 13 71 53; D2 13 71 53; D2 13 71 53;
  D2 13 71 53; D2 13 71 54; D2 13 71 54; D2 13 71 54; D2 13 71 54; D2 13 71 54; D2 13 71 54; D2 13 71 54; D2 13 71 54;
  D2 13 71 55; D2 13 71 55; D2 13 71 55; D2 13 71 55; D2 13 71 55; D2 13 71 55; D2 13 71 55; D2 13 71 55; D2 13 71 56;
  D2 13 71 56; D2 13 71 56; D2 13 71 56; D2 13 71 56; D2 13 71 56; D2 13 71 56; D2 13 71 56; D2 13 71 57; D2 13 71 57;
  D2 13 71 57; D2 13 71 57; D2 13 71 57; D2 13 71 57; D2 13 71 57; D2 13 71 57].
Definition hdecs_197 : list hdec := [
  D2 13 71 61; D2 13 71 61; D2 13 71 61; D2 13 71 61; D2 13 71 61; D2 13 71 61; D2 13 71 61; D2 13 71 61; D2 13 71 65;
  D2 13 71 65; D2 13 71 65; D2 13 71 65; D2 13 71 65; D2 13 71 65; D2 13 71 65; D2 13 71 65; D2 13 71 95; D2 13 71 95;
  D2 13 71 95; D2 13 71 95; D2 13 71 95; D2 13 71 95; D2 13 71 95; D2 13 71 95; D2 13 71 98; D2 13 71 98; D2 13 71 98;
  D2 13 71 98; D2 13 71 98; D2 13 71 98; D2 13 71 98; D2 13 71 98; D2 13 71 100; D2 13 71 100; D2 13 71 100;
  D2 13 71 100; D2 13 71 100; D2 13 71 100; D2 13 71 100; D2 13 71 100; D2 13 71 102; D2 13 71 102; D2 13 71 102;
  D2 13 71 102; D2 13 71 102; D2 13 71 102; D2 13 71 102; D2 13 71 102; D2 13 71 103; D2 13 71 103; D2 13 71 103;
  D2 13 71 103; D2 13 71 103; D2 13 71 103; D2 13 71 103; D2 13 71 103; D2 13 71 104; D2 13 71 104; D2 13 71 104;
  D2 13 71 104; D2 13 71 104; D2 13 71 104; D2 13 71 104; D2 13 71 104; D2 13 71 108; D2 13 71 108; D2 13 71 108;
  D2 13 71 108; D2 13 71 108; D2 13 71 108; D2 13 71 108; D2 13 71 108; D2 13 71 109; D2 13 71 109; D2 13 71 109;
  D2 13 71 109; D2 13 71 109; D2 13 71 109; D2 13 71 109; D2 13 71 109; D2 13 71 110; D2 13 71 110; D2 13 71 110;
  D2 13 71 110; D2 13 71 110; D2 13 71 110; D2 13 71 110; D2 13 71 110; D2 13 71 112; D2 13 71 112; D2 13 71 112;
  D2 13 71 112; D2 13 71 112; D2 13 71 112; D2 13 71 112; D2 13 71 112; D2 13 71 114; D2 13 71 114; D2 13 71 114;
  D2 13 71 114; D2 13 71 114; D2 13 71 114; D2 13 71 114; D2 13 71 114; D2 13 71 117; D2 13 71 117; D2 13 71 117;
  D2 13 71 117; D2 13 71 117; D2 13 71 117; D2 13 71 117; D2 13 71 117; D2 14 71 58; D2 14 71 58; D2 14 71 58;
  D2 14 71 58; D2 14 71 66; D2 14 71 66; D2 14 71 66; D2 14 71 66; D2 14 71 67; D2 14 71 67; D2 14 71 67; D2 14 71 67;
  D2 14 71 68; D2 14 71 68; D2 14 71 68; D2 14 71 68; D2 14 71 69; D2 14 71 69; D2 14 71 69; D2 14 71 69; D2 14 71 70;
  D2 14 71 70; D2 14 71 70; D2 14 71 70; D2 14 71 71; D2 14 71 71; D2 14 71 71; D2 14 71 71; D2 14 71 72; D2 14 71 72;
  D2 14 71 72; D2 14 71 72; D2 14 71 73; D2 14 71 73; D2 14 71 73; D2 14 71 73; D2 14 71 74; D2 14 71 74; D2 14 71 74;
  D2 14 71 74; D2 14 71 75; D2 14 71 75; D2 14 71 75; D2 14 71 75; D2 14 71 76; D2 14 71 76; D2 14 71 76; D2 14 71 76;
  D2 14 71 77; D2 14 71 77; D2 14 71 77; D2 14 71 77; D2 14 71 78; D2 14 71 78; D2 14 71 78; D2 14 71 78; D2 14 71 79;
  D2 14 71 79; D2 14 71 79; D2 14 71 79; D2 14 71 80; D2 14 71 80; D2 14 71 80; D2 14 71 80; D2 14 71 81; D2 14 71 81;
  D2 14 71 81; D2 14 71 81; D2 14 71 82; D2 14 71 82; D2 14 71 82; D2 14 71 82; D2 14 71 83; D2 14 71 83; D2 14 71 83;
  D2 14 71 83; D2 14 71 84; D2 14 71 84; D2 14 71 84; D2 14 71 84; D2 14 71 85; D2 14 71 85; D2 14 71 85; D2 14 71 85;
  D2 14 71 86; D2 14 71 86; D2 14 71 86; D2 14 71 86; D2 14 71 87; D2 14 71 87; D2 14 71 87; D2 14 71 87; D2 14 71 89;
  D2 14 71 89; D2 14 71 89; D2 14 71 89; D2 14 71 106; D2 14 71 106; D2 14 71 106; D2 14 71 106; D2 14 71 107;
  D2 14 71 107; D2 14 71 107; D2 14 71 107; D2 14 71 113; D2 14 71 113; D2 14 71 113; D2 14 71 113; D2 14 71 118;
  D2 14 71 118; D2 14 71 118; D2 14 71 118; D2 14 71 119; D2 14 71 119; D2 14 71 119; D2 14 71 119; D2 14 71 120;
  D2 14 71 120; D2 14 71 120; D2 14 71 120; D2 14 71 121; D2 14 71 121; D2 14 71 121; D2 14 71 121; D2 14 71 122;
  D2 14 71 122; D2 14 71 122; D2 14 71 122; D2 15 71 38; D2 15 71 38; D2 15 71 42; D2 15 71 42; D2 15 71 44;
  D2 15 71 44; D2 15 71 59; D2 15 71 59; D2 15 71 88; D2 15 71 88; D2 15 71 90; D2 15 71 90; D1 7 71; D1 7 71;
  D1 7 71; D1 7 71].
Definition hdecs_198 : list hdec := [
  D2 12 72 48; D2 12 72 48; D2 12 72 48; D2 12 72 48; D2 12 72 48; D2 12 72 48; D2 12 72 48; D2 12 72 48; D2 12 72 48;
  D2 12 72 48; D2 12 72 48; D2 12 72 48; D2 12 72 48; D2 12 72 48; D2 12 72 48; D2 12 72 48; D2 12 72 49; D2 12 72 49;
  D2 12 72 49; D2 12 72 49; D2 12 72 49; D2 12 72 49; D2 12 72 49; D2 12 72 49; D2 12 72 49; D2 12 72 49; D2 12 72 49;
  D2 12 72 49; D2 12 72 49; D2 12 72 49; D2 12 72 49; D2 12 72 49; D2 12 72 50; D2 12 72 50; D2 12 72 50; D2 12 72 50;
  D2 12 72 50; D2 12 72 50; D2 12 72 50; D2 12 72 50; D2 12 72 50; D2 12 72 50; D2 12 72 50; D2 12 72 50; D2 12 72 50;
  D2 12 72 50; D2 12 72 50; D2 12 72 50; D2 12 72 97; D2 12 72 97; D2 12 72 97; D2 12 72 97; D2 12 72 97; D2 12 72 97;
  D2 12 72 97; D2 12 72 97; D2 12 72 97; D2 12 72 97; D2 12 72 97; D2 12 72 97; D2 12 72 97; D2 12 72 97; D2 12 72 97;
  D2 12 72 97; D2 12 72 99; D2 12 72 99; D2 12 72 99; D2 12 72 99; D2 12 72 99; D2 12 72 99; D2 12 72 99; D2 12 72 99;
  D2 12 72 99; D2 12 72 99; D2 12 72 99; D2 12 72 99; D2 12 72 99; D2 12 72 99; D2 12 72 99; D2 12 72 99;
  D2 12 72 101; D2 12 72 101; D2 12 72 101; D2 12 72 101; D2 12 72 101; D2 12 72 101; D2 12 72 101; D2 12 72 101;
  D2 12 72 101; D2 12 72 101; D2 12 72 101; D2 12 72 101; D2 12 72 101; D2 12 72 101; D2 12 72 101; D2 12 72 101;
  D2 12 72 105; D2 12 72 105; D2 12 72 105; D2 12 72 105; D2 12 72 105; D2 12 72 105; D2 12 72 105; D2 12 72 105;
  D2 12 72 105; D2 12 72 105; D2 12 72 105; D2 12 72 105; D2 12 72 105; D2 12 72 105; D2 12 72 105; D2 12 72 105;
  D2 12 72 111; D2 12 72 111; D2 12 72 111; D2 12 72 111; D2 12 72 111; D2 12 72 111; D2 12 72 111; D2 12 72 111;
  D2 12 72 111; D2 12 72 111; D2 12 72 111; D2 12 72 111; D2 12 72 111; D2 12 72 111; D2 12 72 111; D2 12 72 111;
  D2 12 72 115; D2 12 72 115; D2 12 72 115; D2 12 72 115; D2 12 72 115; D2 12 72 115; D2 12 72 115; D2 12 72 115;
  D2 12 72 115; D2 12 72 115; D2 12 72 115; D2 12 72 115; D2 12 72 115; D2 12 72 115; D2 12 72 115; D2 12 72 115;
  D2 12 72 116; D2 12 72 116; D2 12 72 116; D2 12 72 116; D2 12 72 116; D2 12 72 116; D2 12 72 116; D2 12 72 116;
  D2 12 72 116; D2 12 72 116; D2 12 72 116; D2 12 72 116; D2 12 72 116; D2 12 72 116; D2 12 72 116; D2 12 72 116;
  D2 13 72 32; D2 13 72 32; D2 13 72 32; D2 13 72 32; D2 13 72 32; D2 13 72 32; D2 13 72 32; D2 13 72 32; D2 13 72 37;
  D2 13 72 37; D2 13 72 37; D2 13 72 37; D2 13 72 37; D2 13 72 37; D2 13 72 37; D2 13 72 37; D2 13 72 45; D2 13 72 45;
  D2 13 72 45; D2 13 72 45; D2 13 72 45; D2 13 72 45; D2 13 72 45; D2 13 72 45; D2 13 72 46; D2 13 72 46; D2 13 72 46;
  D2 13 72 46; D2 13 72 46; D2 13 72 46; D2 13 72 46; D2 13 72 46; D2 13 72 47; D2 13 72 47; D2 13 72 47; D2 13 72 47;
  D2 13 72 47; D2 13 72 47; D2 13 72 47; D2 13 72 47; D2 13 72 51; D2 13 72 51; D2 13 72 51; D2 13 72 51; D2 13 72 51;
  D2 13 72 51; D2 13 72 51; D2 13 72 51; D2 13 72 52; D2 13 72 52; D2 13 72 52; D2 13 72 52; D2 13 72 52; D2 13 72 52;
  D2 13 72 52; D2 13 72 52; D2 13 72 53; D2 13 72 53; D2 13 72 53; D2 13 72 53; D2 13 72 53; D2 13 72 53; D2 13 72 53;
  D2 13 72 53; D2 13 72 54; D2 13 72 54; D2 13 72 54; D2 13 72 54; D2 13 72 54; D2 13 72 54; D2 13 72 54; D2 13 72 54;
  D2 13 72 55; D2 13 72 55; D2 13 72 55; D2 13 72 55; D2 13 72 55; D2 13 72 55; D2 13 72 55; D2 13 72 55; D2 13 72 56;
  D2 13 72 56; D2 13 72 56; D2 13 72 56; D2 13 72 56; D2 13 72 56; D2 13 72 56; D2 13 72 56; D2 13 72 57; D2 13 72 57;
  D2 13 72 57; D2 13 72 57; D2 13 72 57; D2 13 72 57; D2 13 72 57; D2 13 72 57].
Definition hdecs_199 : list hdec := [
  D2 13 72 61; D2 13 72 61; D2 13 72 61; D2 13 72 61; D2 13 72 61; D2 13 72 61; D2 13 72 61; D2 13 72 61; D2 13 72 65;
  D2 13 72 65; D2 13 72 65; D2 13 72 65; D2 13 72 65; D2 13 72 65; D2 13 72 65; D2 13 72 65; D2 13 72 95; D2 13 72 95;
  D2 13 72 95; D2 13 72 95; D2 13 72 95; D2 13 72 95; D2 13 72 95; D2 13 72 95; D2 13 72 98; D2 13 72 98; D2 13 72 98;
  D2 13 72 98; D2 13 72 98; D2 13 72 98; D2 13 72 98; D2 13 72 98; D2 13 72 100; D2 13 72 100; D2 13 72 100;
  D2 13 72 100; D2 13 72 100; D2 13 72 100; D2 13 72 100; D2 13 72 100; D2 13 72 102; D2 13 72 102; D2 13 72 102;
  D2 13 72 102; D2 13 72 102; D2 13 72 102; D2 13 72 102; D2 13 72 102; D2 13 72 103; D2 13 72 103; D2 13 72 103;
  D2 13 72 103; D2 13 72 103; D2 13 72 103; D2 13 72 103; D2 13 72 103; D2 13 72 104; D2 13 72 104; D2 13 72 104;
  D2 13 72 104; D2 13 72 104; D2 13 72 104; D2 13 72 104; D2 13 72 104; D2 13 72 108; D2 13 72 108; D2 13 72 108;
  D2 13 72 108; D2 13 72 108; D2 13 72 108; D2 13 72 108; D2 13 72 108; D2 13 72 109; D2 13 72 109; D2 13 72 109;
  D2 13 72 109; D2 13 72 109; D2 13 72 109; D2 13 72 109; D2 13 72 109; D2 13 72 110; D2 13 72 110; D2 13 72 110;
  D2 13 72 110; D2 13 72 110; D2 13 72 110; D2 13 72 110; D2 13 72 110; D2 13 72 112; D2 13 72 112; D2 13 72 112;
  D2 13 72 112; D2 13 72 112; D2 13 72 112; D2 13 72 112; D2 13 72 112; D2 13 72 114; D2 13 72 114; D2 13 72 114;
  D2 13 72 114; D2 13 72 114; D2 13 72 114; D2 13 72 114; D2 13 72 114; D2 13 72 117; D2 13 72 117; D2 13 72 117;
  D2 13 72 117; D2 13 72 117; D2 13 72 117; D2 13 72 117; D2 13 72 117; D2 14 72 58; D2 14 72 58; D2 14 72 58;
  D2 14 72 58; D2 14 72 66; D2 14 72 66; D2 14 72 66; D2 14 72 66; D2 14 72 67; D2 14 72 67; D2 14 72 67; D2 14 72 67;
  D2 14 72 68; D2 14 72 68; D2 14 72 68; D2 14 72 68; D2 14 72 69; D2 14 72 69; D2 14 72 69; D2 14 72 69; D2 14 72 70;
  D2 14 72 70; D2 14 72 70; D2 14 72 70; D2 14 72 71; D2 14 72 71; D2 14 72 71; D2 14 72 71; D2 14 72 72; D2 14 72 72;
  D2 14 72 72; D2 14 72 72; D2 14 72 73; D2 14 72 73; D2 14 72 73; D2 14 72 73; D2 14 72 74; D2 14 72 74; D2 14 72 74;
  D2 14 72 74; D2 14 72 75; D2 14 72 75; D2 14 72 75; D2 14 72 75; D2 14 72 76; D2 14 72 76; D2 14 72 76; D2 14 72 76;
  D2 14 72 77; D2 14 72 77; D2 14 72 77; D2 14 72 77; D2 14 72 78; D2 14 72 78; D2 14 72 78; D2 14 72 78; D2 14 72 79;
  D2 14 72 79; D2 14 72 79; D2 14 72 79; D2 14 72 80; D2 14 72 80; D2 14 72 80; D2 14 72 80; D2 14 72 81; D2 14 72 81;
  D2 14 72 81; D2 14 72 81; D2 14 72 82; D2 14 72 82; D2 14 72 82; D2 14 72 82; D2 14 72 83; D2 14 72 83; D2 14 72 83;
  D2 14 72 83; D2 14 72 84; D2 14 72 84; D2 14 72 84; D2 14 72 84; D2 14 72 85; D2 14 72 85; D2 14 72 85; D2 14 72 85;
  D2 14 72 86; D2 14 72 86; D2 14 72 86; D2 14 72 86; D2 14 72 87; D2 14 72 87; D2 14 72 87; D2 14 72 87; D2 14 72 89;
  D2 14 72 89; D2 14 72 89; D2 14 72 89; D2 14 72 106; D2 14 72 106; D2 14 72 106; D2 14 72 106; D2 14 72 107;
  D2 14 72 107; D2 14 72 107; D2 14 72 107; D2 14 72 113; D2 14 72 113; D2 14 72 113; D2 14 72 113; D2 14 72 118;
  D2 14 72 118; D2 14 72 118; D2 14 72 118; D2 14 72 119; D2 14 72 119; D2 14 72 119; D2 14 72 119; D2 14 72 120;
  D2 14 72 120; D2 14 72 120; D2 14 72 120; D2 14 72 121; D2 14 72 121; D2 14 72 121; D2 14 72 121; D2 14 72 122;
  D2 14 72 122; D2 14 72 122; D2 14 72 122; D2 15 72 38; D2 15 72 38; D2 15 72 42; D2 15 72 42; D2 15 72 44;
  D2 15 72 44; D2 15 72 59; D2 15 72 59; D2 15 72 88; D2 15 72 88; D2 15 72 90; D2 15 72 90; D1 7 72; D1 7 72;
  D1 7 72; D1 7 72].
Definition hdecs_200 : list hdec := [
  D2 12 73 48; D2 12 73 48; D2 12 73 48; D2 12 73 48; D2 12 73 48; D2 12 73 48; D2 12 73 48; D2 12 73 48; D2 12 73 48;
  D2 12 73 48; D2 12 73 48; D2 12 73 48; D2 12 73 48; D2 12 73 48; D2 12 73 48; D2 12 73 48; D2 12 73 49; D2 12 73 49;
  D2 12 73 49; D2 12 73 49; D2 12 73 49; D2 12 73 49; D2 12 73 49; D2 12 73 49; D2 12 73 49; D2 12 73 49; D2 12 73 49;
  D2 12 73 49; D2 12 73 49; D2 12 73 49; D2 12 73 49; D2 12 73 49; D2 12 73 50; D2 12 73 50; D2 12 73 50; D2 12 73 50;
  D2 12 73 50; D2 12 73 50; D2 12 73 50; D2 12 73 50; D2 12 73 50; D2 12 73 50; D2 12 73 50; D2 12 73 50; D2 12 73 50;
  D2 12 73 50; D2 12 73 50; D2 12 73 50; D2 12 73 97; D2 12 73 97; D2 12 73 97; D2 12 73 97; D2 12 73 97; D2 12 73 97;
  D2 12 73 97; D2 12 73 97; D2 12 73 97; D2 12 73 97; D2 12 73 97; D2 12 73 97; D2 12 73 97; D2 12 73 97; D2 12 73 97;
  D2 12 73 97; D2 12 73 99; D2 12 73 99; D2 12 73 99; D2 12 73 99; D2 12 73 99; D2 12 73 99; D2 12 73 99; D2 12 73 99;
  D2 12 73 99; D2 12 73 99; D2 12 73 99; D2 12 73 99; D2 12 73 99; D2 12 73 99; D2 12 73 99; D2 12 73 99;
  D2 12 73 101; D2 12 73 101; D2 12 73 101; D2 12 73 101; D2 12 73 101; D2 12 73 101; D2 12 73 101; D2 12 73 101;
  D2 12 73 101; D2 12 73 101; D2 12 73 101; D2 12 73 101; D2 12 73 101; D2 12 73 101; D2 12 73 101; D2 12 73 101;
  D2 12 73 105; D2 12 73 105; D2 12 73 105; D2 12 73 105; D2 12 73 105; D2 12 73 105; D2 12 73 105; D2 12 73 105;
  D2 12 73 105; D2 12 73 105; D2 12 73 105; D2 12 73 105; D2 12 73 105; D2 12 73 105; D2 12 73 105; D2 12 73 105;
  D2 12 73 111; D2 12 73 111; D2 12 73 111; D2 12 73 111; D2 12 73 111; D2 12 73 111; D2 12 73 111; D2 12 73 111;
  D2 12 73 111; D2 12 73 111; D2 12 73 111; D2 12 73 111; D2 12 73 111; D2 12 73 111; D2 12 73 111; D2 12 73 111;
  D2 12 73 115; D2 12 73 115; D2 12 73 115; D2 12 73 115; D2 12 73 115; D2 12 73 115; D2 12 73 115; D2 12 73 115;
  D2 12 73 115; D2 12 73 115; D2 12 73 115; D2 12 73 115; D2 12 73 115; D2 12 73 115; D2 12 73 115; D2 12 73 115;
  D2 12 73 116; D2 12 73 116; D2 12 73 116; D2 12 73 116; D2 12 73 116; D2 12 73 116; D2 12 73 116; D2 12 73 116;
  D2 12 73 116; D2 12 73 116; D2 12 73 116; D2 12 73 116; D2 12 73 116; D2 12 73 116; D2 12 73 116; D2 12 73 116;
  D2 13 73 32; D2 13 73 32; D2 13 73 32; D2 13 73 32; D2 13 73 32; D2 13 73 32; D2 13 73 32; D2 13 73 32; D2 13 73 37;
  D2 13 73 37; D2 13 73 37; D2 13 73 37; D2 13 73 37; D2 13 73 37; D2 13 73 37; D2 13 73 37; D2 13 73 45; D2 13 73 45;
  D2 13 73 45; D2 13 73 45; D2 13 73 45; D2 13 73 45; D2 13 73 45; D2 13 73 45; D2 13 73 46; D2 13 73 46; D2 13 73 46;
  D2 13 73 46; D2 13 73 46; D2 13 73 46; D2 13 73 46; D2 13 73 46; D2 13 73 47; D2 13 73 47; D2 13 73 47; D2 13 73 47;
  D2 13 73 47; D2 13 73 47; D2 13 73 47; D2 13 73 47; D2 13 73 51; D2 13 73 51; D2 13 73 51; D2 13 73 51; D2 13 73 51;
  D2 13 73 51; D2 13 73 51; D2 13 73 51; D2 13 73 52; D2 13 73 52; D2 13 73 52; D2 13 73 52; D2 13 73 52; D2 13 73 52;
  D2 13 73 52; D2 13 73 52; D2 13 73 53; D2 13 73 53; D2 13 73 53; D2 13 73 53; D2 13 73 53; D2 13 73 53; D2 13 73 53;
  D2 13 73 53; D2 13 73 54; D2 13 73 54; D2 13 73 54; D2 13 73 54; D2 13 73 54; D2 13 73 54; D2 13 73 54; D2 13 73 54;
  D2 13 73 55; D2 13 73 55; D2 13 73 55; D2 13 73 55; D2 13 73 55; D2 13 73 55; D2 13 73 55; D2 13 73 55; D2 13 73 56;
  D2 13 73 56; D2 13 73 56; D2 13 73 56; D2 13 73 56; D2 13 73 56; D2 13 73 56; D2 13 73 56; D2 13 73 57; D2 13 73 57;
  D2 13 73 57; D2 13 73 57; D2 13 73 57; D2 13 73 57; D2 13 73 57; D2 13 73 57].
Definition hdecs_201 : list hdec := [
  D2 13 73 61; D2 13 73 61; D2 13 73 61; D2 13 73 61; D2 13 73 61; D2 13 73 61; D2 13 73 61; D2 13 73 61; D2 13 73 65;
  D2 13 73 65; D2 13 73 65; D2 13 73 65; D2 13 73 65; D2 13 73 65; D2 13 73 65; D2 13 73 65; D2 13 73 95; D2 13 73 95;
  D2 13 73 95; D2 13 73 95; D2 13 73 95; D2 13 73 95; D2 13 73 95; D2 13 73 95; D2 13 73 98; D2 13 73 98; D2 13 73 98;
  D2 13 73 98; D2 13 73 98; D2 13 73 98; D2 13 73 98; D2 13 73 98; D2 13 73 100; D2 13 73 100; D2 13 73 100;
  D2 13 73 100; D2 13 73 100; D2 13 73 100; D2 13 73 100; D2 13 73 100; D2 13 73 102; D2 13 73 102; D2 13 73 102;
  D2 13 73 102; D2 13 73 102; D2 13 73 102; D2 13 73 102; D2 13 73 102; D2 13 73 103; D2 13 73 103; D2 13 73 103;
  D2 13 73 103; D2 13 73 103; D2 13 73 103; D2 13 73 103; D2 13 73 103; D2 13 73 104; D2 13 73 104; D2 13 73 104;
  D2 13 73 104; D2 13 73 104; D2 13 73 104; D2 13 73 104; D2 13 73 104; D2 13 73 108; D2 13 73 108; D2 13 73 108;
  D2 13 73 108; D2 13 73 108; D2 13 73 108; D2 13 73 108; D2 13 73 108; D2 13 73 109; D2 13 73 109; D2 13 73 109;
  D2 13 73 109; D2 13 73 109; D2 13 73 109; D2 13 73 109; D2 13 73 109; D2 13 73 110; D2 13 73 110; D2 13 73 110;
  D2 13 73 110; D2 13 73 110; D2 13 73 110; D2 13 73 110; D2 13 73 110; D2 13 73 112; D2 13 73 112; D2 13 73 112;
  D2 13 73 112; D2 13 73 112; D2 13 73 112; D2 13 73 112; D2 13 73 112; D2 13 73 114; D2 13 73 114; D2 13 73 114;
  D2 13 73 114; D2 13 73 114; D2 13 73 114; D2 13 73 114; D2 13 73 114; D2 13 73 117; D2 13 73 117; D2 13 73 117;
  D2 13 73 117; D2 13 73 117; D2 13 73 117; D2 13 73 117; D2 13 73 117; D2 14 73 58; D2 14 73 58; D2 14 73 58;
  D2 14 73 58; D2 14 73 66; D2 14 73 66; D2 14 73 66; D2 14 73 66; D2 14 73 67; D2 14 73 67; D2 14 73 67; D2 14 73 67;
  D2 14 73 68; D2 14 73 68; D2 14 73 68; D2 14 73 68; D2 14 73 69; D2 14 73 69; D2 14 73 69; D2 14 73 69; D2 14 73 70;
  D2 14 73 70; D2 14 73 70; D2 14 73 70; D2 14 73 71; D2 14 73 71; D2 14 73 71; D2 14 73 71; D2 14 73 72; D2 14 73 72;
  D2 14 73 72; D2 14 73 72; D2 14 73 73; D2 14 73 73; D2 14 73 73; D2 14 73 73; D2 14 73 74; D2 14 73 74; D2 14 73 74;
  D2 14 73 74; D2 14 73 75; D2 14 73 75; D2 14 73 75; D2 14 73 75; D2 14 73 76; D2 14 73 76; D2 14 73 76; D2 14 73 76;
  D2 14 73 77; D2 14 73 77; D2 14 73 77; D2 14 73 77; D2 14 73 78; D2 14 73 78; D2 14 73 78; D2 14 73 78; D2 14 73 79;
  D2 14 73 79; D2 14 73 79; D2 14 73 79; D2 14 73 80; D2 14 73 80; D2 14 73 80; D2 14 73 80; D2 14 73 81; D2 14 73 81;
  D2 14 73 81; D2 14 73 81; D2 14 73 82; D2 14 73 82; D2 14 73 82; D2 14 73 82; D2 14 73 83; D2 14 73 83; D2 14 73 83;
  D2 14 73 83; D2 14 73 84; D2 14 73 84; D2 14 73 84; D2 14 73 84; D2 14 73 85; D2 14 73 85; D2 14 73 85; D2 14 73 85;
  D2 14 73 86; D2 14 73 86; D2 14 73 86; D2 14 73 86; D2 14 73 87; D2 14 73 87; D2 14 73 87; D2 14 73 87; D2 14 73 89;
  D2 14 73 89; D2 14 73 89; D2 14 73 89; D2 14 73 106; D2 14 73 106; D2 14 73 106; D2 14 73 106; D2 14 73 107;
  D2 14 73 107; D2 14 73 107; D2 14 73 107; D2 14 73 113; D2 14 73 113; D2 14 73 113; D2 14 73 113; D2 14 73 118;
  D2 14 73 118; D2 14 73 118; D2 14 73 118; D2 14 73 119; D2 14 73 119; D2 14 73 119; D2 14 73 119; D2 14 73 120;
  D2 14 73 120; D2 14 73 120; D2 14 73 120; D2 14 73 121; D2 14 73 121; D2 14 73 121; D2 14 73 121; D2 14 73 122;
  D2 14 73 122; D2 14 73 122; D2 14 73 122; D2 15 73 38; D2 15 73 38; D2 15 73 42; D2 15 73 42; D2 15 73 44;
  D2 15 73 44; D2 15 73 59; D2 15 73 59; D2 15 73 88; D2 15 73 88; D2 15 73 90; D2 15 73 90; D1 7 73; D1 7 73;
  D1 7 73; D1 7 73].
Definition hdecs_202 : list hdec := [
  D2 12 74 48; D2 12 74 48; D2 12 74 48; D2 12 74 48; D2 12 74 48; D2 12 74 48; D2 12 74 48; D2 12 74 48; D2 12 74 48;
  D2 12 74 48; D2 12 74 48; D2 12 74 48; D2 12 74 48; D2 12 74 48; D2 12 74 48; D2 12 74 48; D2 12 74 49; D2 12 74 49;
  D2 12 74 49; D2 12 74 49; D2 12 74 49; D2 12 74 49; D2 12 74 49; D2 12 74 49; D2 12 74 49; D2 12 74 49; D2 12 74 49;
  D2 12 74 49; D2 12 74 49; D2 12 74 49; D2 12 74 49; D2 12 74 49; D2 12 74 50; D2 12 74 50; D2 12 74 50; D2 12 74 50;
  D2 12 74 50; D2 12 74 50; D2 12 74 50; D2 12 74 50; D2 12 74 50; D2 12 74 50; D2 12 74 50; D2 12 74 50; D2 12 74 50;
  D2 12 74 50; D2 12 74 50; D2 12 74 50; D2 12 74 97; D2 12 74 97; D2 12 74 97; D2 12 74 97; D2 12 74 97; D2 12 74 97;
  D2 12 74 97; D2 12 74 97; D2 12 74 97; D2 12 74 97; D2 12 74 97; D2 12 74 97; D2 12 74 97; D2 12 74 97; D2 12 74 97;
  D2 12 74 97; D2 12 74 99; D2 12 74 99; D2 12 74 99; D2 12 74 99; D2 12 74 99; D2 12 74 99; D2 12 74 99; D2 12 74 99;
  D2 12 74 99; D2 12 74 99; D2 12 74 99; D2 12 74 99; D2 12 74 99; D2 12 74 99; D2 12 74 99; D2 12 74 99;
  D2 12 74 101; D2 12 74 101; D2 12 74 101; D2 12 74 101; D2 12 74 101; D2 12 74 101; D2 12 74 101; D2 12 74 101;
  D2 12 74 101; D2 12 74 101; D2 12 74 101; D2 12 74 101; D2 12 74 101; D2 12 74 101; D2 12 74 101; D2 12 74 101;
  D2 12 74 105; D2 12 74 105; D2 12 74 105; D2 12 74 105; D2 12 74 105; D2 12 74 105; D2 12 74 105; D2 12 74 105;
  D2 12 74 105; D2 12 74 105; D2 12 74 105; D2 12 74 105; D2 12 74 105; D2 12 74 105; D2 12 74 105; D2 12 74 105;
  D2 12 74 111; D2 12 74 111; D2 12 74 111; D2 12 74 111; D2 12 74 111; D2 12 74 111; D2 12 74 111; D2 12 74 111;
  D2 12 74 111; D2 12 74 111; D2 12 74 111; D2 12 74 111; D2 12 74 111; D2 12 74 111; D2 12 74 111; D2 12 74 111;
  D2 12 74 115; D2 12 74 115; D2 12 74 115; D2 12 74 115; D2 12 74 115; D2 12 74 115; D2 12 74 115; D2 12 74 115;
  D2 12 74 115; D2 12 74 115; D2 12 74 115; D2 12 74 115; D2 12 74 115; D2 12 74 115; D2 12 74 115; D2 12 74 115;
  D2 12 74 116; D2 12 74 116; D2 12 74 116; D2 12 74 116; D2 12 74 116; D2 12 74 116; D2 12 74 116; D2 12 74 116;
  D2 12 74 116; D2 12 74 116; D2 12 74 116; D2 12 74 116; D2 12 74 116; D2 12 74 116; D2 12 74 116; D2 12 74 116;
  D2 13 74 32; D2 13 74 32; D2 13 74 32; D2 13 74 32; D2 13 74 32; D2 13 74 32; D2 13 74 32; D2 13 74 32; D2 13 74 37;
  D2 13 74 37; D2 13 74 37; D2 13 74 37; D2 13 74 37; D2 13 74 37; D2 13 74 37; D2 13 74 37; D2 13 74 45; D2 13 74 45;
  D2 13 74 45; D2 13 74 45; D2 13 74 45; D2 13 74 45; D2 13 74 45; D2 13 74 45; D2 13 74 46; D2 13 74 46; D2 13 74 46;
  D2 13 74 46; D2 13 74 46; D2 13 74 46; D2 13 74 46; D2 13 74 46; D2 13 74 47; D2 13 74 47; D2 13 74 47; D2 13 74 47;
  D2 13 74 47; D2 13 74 47; D2 13 74 47; D2 13 74 47; D2 13 74 51; D2 13 74 51; D2 13 74 51; D2 13 74 51; D2 13 74 51;
  D2 13 74 51; D2 13 74 51; D2 13 74 51; D2 13 74 52; D2 13 74 52; D2 13 74 52; D2 13 74 52; D2 13 74 52; D2 13 74 52;
  D2 13 74 52; D2 13 74 52; D2 13 74 53; D2 13 74 53; D2 13 74 53; D2 13 74 53; D2 13 74 53; D2 13 74 53; D2 13 74 53;
  D2 13 74 53; D2 13 74 54; D2 13 74 54; D2 13 74 54; D2 13 74 54; D2 13 74 54; D2 13 74 54; D2 13 74 54; D2 13 74 54;
  D2 13 74 55; D2 13 74 55; D2 13 74 55; D2 13 74 55; D2 13 74 55; D2 13 74 55; D2 13 74 55; D2 13 74 55; D2 13 74 56;
  D2 13 74 56; D2 13 74 56; D2 13 74 56; D2 13 74 56; D2 13 74 56; D2 13 74 56; D2 13 74 56; D2 13 74 57; D2 13 74 57;
  D2 13 74 57; D2 13 74 57; D2 13 74 57; D2 13 74 57; D2 13 74 57; D2 13 74 57].
Definition hdecs_203 : list hdec := [
  D2 13 74 61; D2 13 74 61; D2 13 74 61; D2 13 74 61; D2 13 74 61; D2 13 74 61; D2 13 74 61; D2 13 74 61; D2 13 74 65;
  D2 13 74 65; D2 13 74 65; D2 13 74 65; D2 13 74 65; D2 13 74 65; D2 13 74 65; D2 13 74 65; D2 13 74 95; D2 13 74 95;
  D2 13 74 95; D2 13 74 95; D2 13 74 95; D2 13 74 95; D2 13 74 95; D2 13 74 95; D2 13 74 98; D2 13 74 98; D2 13 74 98;
  D2 13 74 98; D2 13 74 98; D2 13 74 98; D2 13 74 98; D2 13 74 98; D2 13 74 100; D2 13 74 100; D2 13 74 100;
  D2 13 74 100; D2 13 74 100; D2 13 74 100; D2 13 74 100; D2 13 74 100; D2 13 74 102; D2 13 74 102; D2 13 74 102;
  D2 13 74 102; D2 13 74 102; D2 13 74 102; D2 13 74 102; D2 13 74 102; D2 13 74 103; D2 13 74 103; D2 13 74 103;
  D2 13 74 103; D2 13 74 103; D2 13 74 103; D2 13 74 103; D2 13 74 103; D2 13 74 104; D2 13 74 104; D2 13 74 104;
  D2 13 74 104; D2 13 74 104; D2 13 74 104; D2 13 74 104; D2 13 74 104; D2 13 74 108; D2 13 74 108; D2 13 74 108;
  D2 13 74 108; D2 13 74 108; D2 13 74 108; D2 13 74 108; D2 13 74 108; D2 13 74 109; D2 13 74 109; D2 13 74 109;
  D2 13 74 109; D2 13 74 109; D2 13 74 109; D2 13 74 109; D2 13 74 109; D2 13 74 110; D2 13 74 110; D2 13 74 110;
  D2 13 74 110; D2 13 74 110; D2 13 74 110; D2 13 74 110; D2 13 74 110; D2 13 74 112; D2 13 74 112; D2 13 74 112;
  D2 13 74 112; D2 13 74 112; D2 13 74 112; D2 13 74 112; D2 13 74 112; D2 13 74 114; D2 13 74 114; D2 13 74 114;
  D2 13 74 114; D2 13 74 114; D2 13 74 114; D2 13 74 114; D2 13 74 114; D2 13 74 117; D2 13 74 117; D2 13 74 117;
  D2 13 74 117; D2 13 74 117; D2 13 74 117; D2 13 74 117; D2 13 74 117; D2 14 74 58; D2 14 74 58; D2 14 74 58;
  D2 14 74 58; D2 14 74 66; D2 14 74 66; D2 14 74 66; D2 14 74 66; D2 14 74 67; D2 14 74 67; D2 14 74 67; D2 14 74 67;
  D2 14 74 68; D2 14 74 68; D2 14 74 68; D2 14 74 68; D2 14 74 69; D2 14 74 69; D2 14 74 69; D2 14 74 69; D2 14 74 70;
  D2 14 74 70; D2 14 74 70; D2 14 74 70; D2 14 74 71; D2 14 74 71; D2 14 74 71; D2 14 74 71; D2 14 74 72; D2 14 74 72;
  D2 14 74 72; D2 14 74 72; D2 14 74 73; D2 14 74 73; D2 14 74 73; D2 14 74 73; D2 14 74 74; D2 14 74 74; D2 14 74 74;
  D2 14 74 74; D2 14 74 75; D2 14 74 75; D2 14 74 75; D2 14 74 75; D2 14 74 76; D2 14 74 76; D2 14 74 76; D2 14 74 76;
  D2 14 74 77; D2 14 74 77; D2 14 74 77; D2 14 74 77; D2 14 74 78; D2 14 74 78; D2 14 74 78; D2 14 74 78; D2 14 74 79;
  D2 14 74 79; D2 14 74 79; D2 14 74 79; D2 14 74 80; D2 14 74 80; D2 14 74 80; D2 14 74 80; D2 14 74 81; D2 14 74 81;
  D2 14 74 81; D2 14 74 81; D2 14 74 82; D2 14 74 82; D2 14 74 82; D2 14 74 82; D2 14 74 83; D2 14 74 83; D2 14 74 83;
  D2 14 74 83; D2 14 74 84; D2 14 74 84; D2 14 74 84; D2 14 74 84; D2 14 74 85; D2 14 74 85; D2 14 74 85; D2 14 74 85;
  D2 14 74 86; D2 14 74 86; D2 14 74 86; D2 14 74 86; D2 14 74 87; D2 14 74 87; D2 14 74 87; D2 14 74 87; D2 14 74 89;
  D2 14 74 89; D2 14 74 89; D2 14 74 89; D2 14 74 106; D2 14 74 106; D2 14 74 106; D2 14 74 106; D2 14 74 107;
  D2 14 74 107; D2 14 74 107; D2 14 74 107; D2 14 74 113; D2 14 74 113; D2 14 74 113; D2 14 74 113; D2 14 74 118;
  D2 14 74 118; D2 14 74 118; D2 14 74 118; D2 14 74 119; D2 14 74 119; D2 14 74 119; D2 14 74 119; D2 14 74 120;
  D2 14 74 120; D2 14 74 120; D2 14 74 120; D2 14 74 121; D2 14 74 121; D2 14 74 121; D2 14 74 121; D2 14 74 122;
  D2 14 74 122; D2 14 74 122; D2 14 74 122; D2 15 74 38; D2 15 74 38; D2 15 74 42; D2 15 74 42; D2 15 74 44;
  D2 15 74 44; D2 15 74 59; D2 15 74 59; D2 15 74 88; D2 15 74 88; D2 15 74 90; D2 15 74 90; D1 7 74; D1 7 74;
  D1 7 74; D1 7 74].
Definition hdecs_204 : list hdec := [
  D2 12 75 48; D2 12 75 48; D2 12 75 48; D2 12 75 48; D2 12 75 48; D2 12 75 48; D2 12 75 48; D2 12 75 48; D2 12 75 48;
  D2 12 75 48; D2 12 75 48; D2 12 75 48; D2 12 75 48; D2 12 75 48; D2 12 75 48; D2 12 75 48; D2 12 75 49; D2 12 75 49;
  D2 12 75 49; D2 12 75 49; D2 12 75 49; D2 12 75 49; D2 12 75 49; D2 12 75 49; D2 12 75 49; D2 12 75 49; D2 12 75 49;
  D2 12 75 49; D2 12 75 49; D2 12 75 49; D2 12 75 49; D2 12 75 49; D2 12 75 50; D2 12 75 50; D2 12 75 50; D2 12 75 50;
  D2 12 75 50; D2 12 75 50; D2 12 75 50; D2 12 75 50; D2 12 75 50; D2 12 75 50; D2 12 75 50; D2 12 75 50; D2 12 75 50;
  D2 12 75 50; D2 12 75 50; D2 12 75 50; D2 12 75 97; D2 12 75 97; D2 12 75 97; D2 12 75 97; D2 12 75 97; D2 12 75 97;
  D2 12 75 97; D2 12 75 97; D2 12 75 97; D2 12 75 97; D2 12 75 97; D2 12 75 97; D2 12 75 97; D2 12 75 97; D2 12 75 97;
  D2 12 75 97; D2 12 75 99; D2 12 75 99; D2 12 75 99; D2 12 75 99; D2 12 75 99; D2 12 75 99; D2 12 75 99; D2 12 75 99;
  D2 12 75 99; D2 12 75 99; D2 12 75 99; D2 12 75 99; D2 12 75 99; D2 12 75 99; D2 12 75 99; D2 12 75 99;
  D2 12 75 101; D2 12 75 101; D2 12 75 101; D2 12 75 101; D2 12 75 101; D2 12 75 101; D2 12 75 101; D2 12 75 101;
  D2 12 75 101; D2 12 75 101; D2 12 75 101; D2 12 75 101; D2 12 75 101; D2 12 75 101; D2 12 75 101; D2 12 75 101;
  D2 12 75 105; D2 12 75 105; D2 12 75 105; D2 12 75 105; D2 12 75 105; D2 12 75 105; D2 12 75 105; D2 12 75 105;
  D2 12 75 105; D2 12 75 105; D2 12 75 105; D2 12 75 105; D2 12 75 105; D2 12 75 105; D2 12 75 105; D2 12 75 105;
  D2 12 75 111; D2 12 75 111; D2 12 75 111; D2 12 75 111; D2 12 75 111; D2 12 75 111; D2 12 75 111; D2 12 75 111;
  D2 12 75 111; D2 12 75 111; D2 12 75 111; D2 12 75 111; D2 12 75 111; D2 12 75 111; D2 12 75 111; D2 12 75 111;
  D2 12 75 115; D2 12 75 115; D2 12 75 115; D2 12 75 115; D2 12 75 115; D2 12 75 115; D2 12 75 115; D2 12 75 115;
  D2 12 75 115; D2 12 75 115; D2 12 75 115; D2 12 75 115; D2 12 75 115; D2 12 75 115; D2 12 75 115; D2 12 75 115;
  D2 12 75 116; D2 12 75 116; D2 12 75 116; D2 12 75 116; D2 12 75 116; D2 12 75 116; D2 12 75 116; D2 12 75 116;
  D2 12 75 116; D2 12 75 116; D2 12 75 116; D2 12 75 116; D2 12 75 116; D2 12 75 116; D2 12 75 116; D2 12 75 116;
  D2 13 75 32; D2 13 75 32; D2 13 75 32; D2 13 75 32; D2 13 75 32; D2 13 75 32; D2 13 75 32; D2 13 75 32; D2 13 75 37;
  D2 13 75 37; D2 13 75 37; D2 13 75 37; D2 13 75 37; D2 13 75 37; D2 13 75 37; D2 13 75 37; D2 13 75 45; D2 13 75 45;
  D2 13 75 45; D2 13 75 45; D2 13 75 45; D2 13 75 45; D2 13 75 45; D2 13 75 45; D2 13 75 46; D2 13 75 46; D2 13 75 46;
  D2 13 75 46; D2 13 75 46; D2 13 75 46; D2 13 75 46; D2 13 75 46; D2 13 75 47; D2 13 75 47; D2 13 75 47; D2 13 75 47;
  D2 13 75 47; D2 13 75 47; D2 13 75 47; D2 13 75 47; D2 13 75 51; D2 13 75 51; D2 13 75 51; D2 13 75 51; D2 13 75 51;
  D2 13 75 51; D2 13 75 51; D2 13 75 51; D2 13 75 52; D2 13 75 52; D2 13 75 52; D2 13 75 52; D2 13 75 52; D2 13 75 52;
  D2 13 75 52; D2 13 75 52; D2 13 75 53; D2 13 75 53; D2 13 75 53; D2 13 75 53; D2 13 75 53; D2 13 75 53; D2 13 75 53;
  D2 13 75 53; D2 13 75 54; D2 13 75 54; D2 13 75 54; D2 13 75 54; D2 13 75 54; D2 13 75 54; D2 13 75 54; D2 13 75 54;
  D2 13 75 55; D2 13 75 55; D2 13 75 55; D2 13 75 55; D2 13 75 55; D2 13 75 55; D2 13 75 55; D2 13 75 55; D2 13 75 56;
  D2 13 75 56; D2 13 75 56; D2 13 75 56; D2 13 75 56; D2 13 75 56; D2 13 75 56; D2 13 75 56; D2 13 75 57; D2 13 75 57;
  D2 13 75 57; D2 13 75 57; D2 13 75 57; D2 13 75 57; D2 13 75 57; D2 13 75 57].
Definition hdecs_205 : list hdec := [
  D2 13 75 61; D2 13 75 61; D2 13 75 61; D2 13 75 61; D2 13 75 61; D2 13 75 61; D2 13 75 61; D2 13 75 61; D2 13 75 65;
  D2 13 75 65; D2 13 75 65; D2 13 75 65; D2 13 75 65; D2 13 75 65; D2 13 75 65; D2 13 75 65; D2 13 75 95; D2 13 75 95;
  D2 13 75 95; D2 13 75 95; D2 13 75 95; D2 13 75 95; D2 13 75 95; D2 13 75 95; D2 13 75 98; D2 13 75 98; D2 13 75 98;
  D2 13 75 98; D2 13 75 98; D2 13 75 98; D2 13 75 98; D2 13 75 98; D2 13 75 100; D2 13 75 100; D2 13 75 100;
  D2 13 75 100; D2 13 75 100; D2 13 75 100; D2 13 75 100; D2 13 75 100; D2 13 75 102; D2 13 75 102; D2 13 75 102;
  D2 13 75 102; D2 13 75 102; D2 13 75 102; D2 13 75 102; D2 13 75 102; D2 13 75 103; D2 13 75 103; D2 13 75 103;
  D2 13 75 103; D2 13 75 103; D2 13 75 103; D2 13 75 103; D2 13 75 103; D2 13 75 104; D2 13 75 104; D2 13 75 104;
  D2 13 75 104; D2 13 75 104; D2 13 75 104; D2 13 75 104; D2 13 75 104; D2 13 75 108; D2 13 75 108; D2 13 75 108;
  D2 13 75 108; D2 13 75 108; D2 13 75 108; D2 13 75 108; D2 13 75 108; D2 13 75 109; D2 13 75 109; D2 13 75 109;
  D2 13 75 109; D2 13 75 109; D2 13 75 109; D2 13 75 109; D2 13 75 109; D2 13 75 110; D2 13 75 110; D2 13 75 110;
  D2 13 75 110; D2 13 75 110; D2 13 75 110; D2 13 75 110; D2 13 75 110; D2 13 75 112; D2 13 75 112; D2 13 75 112;
  D2 13 75 112; D2 13 75 112; D2 13 75 112; D2 13 75 112; D2 13 75 112; D2 13 75 114; D2 13 75 114; D2 13 75 114;
  D2 13 75 114; D2 13 75 114; D2 13 75 114; D2 13 75 114; D2 13 75 114; D2 13 75 117; D2 13 75 117; D2 13 75 117;
  D2 13 75 117; D2 13 75 117; D2 13 75 117; D2 13 75 117; D2 13 75 117; D2 14 75 58; D2 14 75 58; D2 14 75 58;
  D2 14 75 58; D2 14 75 66; D2 14 75 66; D2 14 75 66; D2 14 75 66; D2 14 75 67; D2 14 75 67; D2 14 75 67; D2 14 75 67;
  D2 14 75 68; D2 14 75 68; D2 14 75 68; D2 14 75 68; D2 14 75 69; D2 14 75 69; D2 14 75 69; D2 14 75 69; D2 14 75 70;
  D2 14 75 70; D2 14 75 70; D2 14 75 70; D2 14 75 71; D2 14 75 71; D2 14 75 71; D2 14 75 71; D2 14 75 72; D2 14 75 72;
  D2 14 75 72; D2 14 75 72; D2 14 75 73; D2 14 75 73; D2 14 75 73; D2 14 75 73; D2 14 75 74; D2 14 75 74; D2 14 75 74;
  D2 14 75 74; D2 14 75 75; D2 14 75 75; D2 14 75 75; D2 14 75 75; D2 14 75 76; D2 14 75 76; D2 14 75 76; D2 14 75 76;
  D2 14 75 77; D2 14 75 77; D2 14 75 77; D2 14 75 77; D2 14 75 78; D2 14 75 78; D2 14 75 78; D2 14 75 78; D2 14 75 79;
  D2 14 75 79; D2 14 75 79; D2 14 75 79; D2 14 75 80; D2 14 75 80; D2 14 75 80; D2 14 75 80; D2 14 75 81; D2 14 75 81;
  D2 14 75 81; D2 14 75 81; D2 14 75 82; D2 14 75 82; D2 14 75 82; D2 14 75 82; D2 14 75 83; D2 14 75 83; D2 14 75 83;
  D2 14 75 83; D2 14 75 84; D2 14 75 84; D2 14 75 84; D2 14 75 84; D2 14 75 85; D2 14 75 85; D2 14 75 85; D2 14 75 85;
  D2 14 75 86; D2 14 75 86; D2 14 75 86; D2 14 75 86; D2 14 75 87; D2 14 75 87; D2 14 75 87; D2 14 75 87; D2 14 75 89;
  D2 14 75 89; D2 14 75 89; D2 14 75 89; D2 14 75 106; D2 14 75 106; D2 14 75 106; D2 14 75 106; D2 14 75 107;
  D2 14 75 107; D2 14 75 107; D2 14 75 107; D2 14 75 113; D2 14 75 113; D2 14 75 113; D2 14 75 113; D2 14 75 118;
  D2 14 75 118; D2 14 75 118; D2 14 75 118; D2 14 75 119; D2 14 75 119; D2 14 75 119; D2 14 75 119; D2 14 75 120;
  D2 14 75 120; D2 14 75 120; D2 14 75 120; D2 14 75 121; D2 14 75 121; D2 14 75 121; D2 14 75 121; D2 14 75 122;
  D2 14 75 122; D2 14 75 122; D2 14 75 122; D2 15 75 38; D2 15 75 38; D2 15 75 42; D2 15 75 42; D2 15 75 44;
  D2 15 75 44; D2 15 75 59; D2 15 75 59; D2 15 75 88; D2 15 75 88; D2 15 75 90; D2 15 75 90; D1 7 75; D1 7 75;
  D1 7 75; D1 7 75].
Definition hdecs_206 : list hdec := [
  D2 12 76 48; D2 12 76 48; D2 12 76 48; D2 12 76 48; D2 12 76 48; D2 12 76 48; D2 12 76 48; D2 12 76 48; D2 12 76 48;
  D2 12 76 48; D2 12 76 48; D2 12 76 48; D2 12 76 48; D2 12 76 48; D2 12 76 48; D2 12 76 48; D2 12 76 49; D2 12 76 49;
  D2 12 76 49; D2 12 76 49; D2 12 76 49; D2 12 76 49; D2 12 76 49; D2 12 76 49; D2 12 76 49; D2 12 76 49; D2 12 76 49;
  D2 12 76 49; D2 12 76 49; D2 12 76 49; D2 12 76 49; D2 12 76 49; D2 12 76 50; D2 12 76 50; D2 12 76 50; D2 12 76 50;
  D2 12 76 50; D2 12 76 50; D2 12 76 50; D2 12 76 50; D2 12 76 50; D2 12 76 50; D2 12 76 50; D2 12 76 50; D2 12 76 50;
  D2 12 76 50; D2 12 76 50; D2 12 76 50; D2 12 76 97; D2 12 76 97; D2 12 76 97; D2 12 76 97; D2 12 76 97; D2 12 76 97;
  D2 12 76 97; D2 12 76 97; D2 12 76 97; D2 12 76 97; D2 12 76 97; D2 12 76 97; D2 12 76 97; D2 12 76 97; D2 12 76 97;
  D2 12 76 97; D2 12 76 99; D2 12 76 99; D2 12 76 99; D2 12 76 99; D2 12 76 99; D2 12 76 99; D2 12 76 99; D2 12 76 99;
  D2 12 76 99; D2 12 76 99; D2 12 76 99; D2 12 76 99; D2 12 76 99; D2 12 76 99; D2 12 76 99; D2 12 76 99;
  D2 12 76 101; D2 12 76 101; D2 12 76 101; D2 12 76 101; D2 12 76 101; D2 12 76 101; D2 12 76 101; D2 12 76 101;
  D2 12 76 101; D2 12 76 101; D2 12 76 101; D2 12 76 101; D2 12 76 101; D2 12 76 101; D2 12 76 101; D2 12 76 101;
  D2 12 76 105; D2 12 76 105; D2 12 76 105; D2 12 76 105; D2 12 76 105; D2 12 76 105; D2 12 76 105; D2 12 76 105;
  D2 12 76 105; D2 12 76 105; D2 12 76 105; D2 12 76 105; D2 12 76 105; D2 12 76 105; D2 12 76 105; D2 12 76 105;
  D2 12 76 111; D2 12 76 111; D2 12 76 111; D2 12 76 111; D2 12 76 111; D2 12 76 111; D2 12 76 111; D2 12 76 111;
  D2 12 76 111; D2 12 76 111; D2 12 76 111; D2 12 76 111; D2 12 76 111; D2 12 76 111; D2 12 76 111; D2 12 76 111;
  D2 12 76 115; D2 12 76 115; D2 12 76 115; D2 12 76 115; D2 12 76 115; D2 12 76 115; D2 12 76 115; D2 12 76 115;
  D2 12 76 115; D2 12 76 115; D2 12 76 115; D2 12 76 115; D2 12 76 115; D2 12 76 115; D2 12 76 115; D2 12 76 115;
  D2 12 76 116; D2 12 76 116; D2 12 76 116; D2 12 76 116; D2 12 76 116; D2 12 76 116; D2 12 76 116; D2 12 76 116;
  D2 12 76 116; D2 12 76 116; D2 12 76 116; D2 12 76 116; D2 12 76 116; D2 12 76 116; D2 12 76 116; D2 12 76 116;
  D2 13 76 32; D2 13 76 32; D2 13 76 32; D2 13 76 32; D2 13 76 32; D2 13 76 32; D2 13 76 32; D2 13 76 32; D2 13 76 37;
  D2 13 76 37; D2 13 76 37; D2 13 76 37; D2 13 76 37; D2 13 76 37; D2 13 76 37; D2 13 76 37; D2 13 76 45; D2 13 76 45;
  D2 13 76 45; D2 13 76 45; D2 13 76 45; D2 13 76 45; D2 13 76 45; D2 13 76 45; D2 13 76 46; D2 13 76 46; D2 13 76 46;
  D2 13 76 46; D2 13 76 46; D2 13 76 46; D2 13 76 46; D2 13 76 46; D2 13 76 47; D2 13 76 47; D2 13 76 47; D2 13 76 47;
  D2 13 76 47; D2 13 76 47; D2 13 76 47; D2 13 76 47; D2 13 76 51; D2 13 76 51; D2 13 76 51; D2 13 76 51; D2 13 76 51;
  D2 13 76 51; D2 13 76 51; D2 13 76 51; D2 13 76 52; D2 13 76 52; D2 13 76 52; D2 13 76 52; D2 13 76 52; D2 13 76 52;
  D2 13 76 52; D2 13 76 52; D2 13 76 53; D2 13 76 53; D2 13 76 53; D2 13 76 53; D2 13 76 53; D2 13 76 53; D2 13 76 53;
  D2 13 76 53; D2 13 76 54; D2 13 76 54; D2 13 76 54; D2 13 76 54; D2 13 76 54; D2 13 76 54; D2 13 76 54; D2 13 76 54;
  D2 13 76 55; D2 13 76 55; D2 13 76 55; D2 13 76 55; D2 13 76 55; D2 13 76 55; D2 13 76 55; D2 13 76 55; D2 13 76 56;
  D2 13 76 56; D2 13 76 56; D2 13 76 56; D2 13 76 56; D2 13 76 56; D2 13 76 56; D2 13 76 56; D2 13 76 57; D2 13 76 57;
  D2 13 76 57; D2 13 76 57; D2 13 76 57; D2 13 76 57; D2 13 76 57; D2 13 76 57].
Definition hdecs_207 : list hdec := [
  D2 13 76 61; D2 13 76 61; D2 13 76 61; D2 13 76 61; D2 13 76 61; D2 13 76 61; D2 13 76 61; D2 13 76 61; D2 13 76 65;
  D2 13 76 65; D2 13 76 65; D2 13 76 65; D2 13 76 65; D2 13 76 65; D2 13 76 65; D2 13 76 65; D2 13 76 95; D2 13 76 95;
  D2 13 76 95; D2 13 76 95; D2 13 76 95; D2 13 76 95; D2 13 76 95; D2 13 76 95; D2 13 76 98; D2 13 76 98; D2 13 76 98;
  D2 13 76 98; D2 13 76 98; D2 13 76 98; D2 13 76 98; D2 13 76 98; D2 13 76 100; D2 13 76 100; D2 13 76 100;
  D2 13 76 100; D2 13 76 100; D2 13 76 100; D2 13 76 100; D2 13 76 100; D2 13 76 102; D2 13 76 102; D2 13 76 102;
  D2 13 76 102; D2 13 76 102; D2 13 76 102; D2 13 76 102; D2 13 76 102; D2 13 76 103; D2 13 76 103; D2 13 76 103;
  D2 13 76 103; D2 13 76 103; D2 13 76 103; D2 13 76 103; D2 13 76 103; D2 13 76 104; D2 13 76 104; D2 13 76 104;
  D2 13 76 104; D2 13 76 104; D2 13 76 104; D2 13 76 104; D2 13 76 104; D2 13 76 108; D2 13 76 108; D2 13 76 108;
  D2 13 76 108; D2 13 76 108; D2 13 76 108; D2 13 76 108; D2 13 76 108; D2 13 76 109; D2 13 76 109; D2 13 76 109;
  D2 13 76 109; D2 13 76 109; D2 13 76 109; D2 13 76 109; D2 13 76 109; D2 13 76 110; D2 13 76 110; D2 13 76 110;
  D2 13 76 110; D2 13 76 110; D2 13 76 110; D2 13 76 110; D2 13 76 110; D2 13 76 112; D2 13 76 112; D2 13 76 112;
  D2 13 76 112; D2 13 76 112; D2 13 76 112; D2 13 76 112; D2 13 76 112; D2 13 76 114; D2 13 76 114; D2 13 76 114;
  D2 13 76 114; D2 13 76 114; D2 13 76 114; D2 13 76 114; D2 13 76 114; D2 13 76 117; D2 13 76 117; D2 13 76 117;
  D2 13 76 117; D2 13 76 117; D2 13 76 117; D2 13 76 117; D2 13 76 117; D2 14 76 58; D2 14 76 58; D2 14 76 58;
  D2 14 76 58; D2 14 76 66; D2 14 76 66; D2 14 76 66; D2 14 76 66; D2 14 76 67; D2 14 76 67; D2 14 76 67; D2 14 76 67;
  D2 14 76 68; D2 14 76 68; D2 14 76 68; D2 14 76 68; D2 14 76 69; D2 14 76 69; D2 14 76 69; D2 14 76 69; D2 14 76 70;
  D2 14 76 70; D2 14 76 70; D2 14 76 70; D2 14 76 71; D2 14 76 71; D2 14 76 71; D2 14 76 71; D2 14 76 72; D2 14 76 72;
  D2 14 76 72; D2 14 76 72; D2 14 76 73; D2 14 76 73; D2 14 76 73; D2 14 76 73; D2 14 76 74; D2 14 76 74; D2 14 76 74;
  D2 14 76 74; D2 14 76 75; D2 14 76 75; D2 14 76 75; D2 14 76 75; D2 14 76 76; D2 14 76 76; D2 14 76 76; D2 14 76 76;
  D2 14 76 77; D2 14 76 77; D2 14 76 77; D2 14 76 77; D2 14 76 78; D2 14 76 78; D2 14 76 78; D2 14 76 78; D2 14 76 79;
  D2 14 76 79; D2 14 76 79; D2 14 76 79; D2 14 76 80; D2 14 76 80; D2 14 76 80; D2 14 76 80; D2 14 76 81; D2 14 76 81;
  D2 14 76 81; D2 14 76 81; D2 14 76 82; D2 14 76 82; D2 14 76 82; D2 14 76 82; D2 14 76 83; D2 14 76 83; D2 14 76 83;
  D2 14 76 83; D2 14 76 84; D2 14 76 84; D2 14 76 84; D2 14 76 84; D2 14 76 85; D2 14 76 85; D2 14 76 85; D2 14 76 85;
  D2 14 76 86; D2 14 76 86; D2 14 76 86; D2 14 76 86; D2 14 76 87; D2 14 76 87; D2 14 76 87; D2 14 76 87; D2 14 76 89;
  D2 14 76 89; D2 14 76 89; D2 14 76 89; D2 14 76 106; D2 14 76 106; D2 14 76 106; D2 14 76 106; D2 14 76 107;
  D2 14 76 107; D2 14 76 107; D2 14 76 107; D2 14 76 113; D2 14 76 113; D2 14 76 113; D2 14 76 113; D2 14 76 118;
  D2 14 76 118; D2 14 76 118; D2 14 76 118; D2 14 76 119; D2 14 76 119; D2 14 76 119; D2 14 76 119; D2 14 76 120;
  D2 14 76 120; D2 14 76 120; D2 14 76 120; D2 14 76 121; D2 14 76 121; D2 14 76 121; D2 14 76 121; D2 14 76 122;
  D2 14 76 122; D2 14 76 122; D2 14 76 122; D2 15 76 38; D2 15 76 38; D2 15 76 42; D2 15 76 42; D2 15 76 44;
  D2 15 76 44; D2 15 76 59; D2 15 76 59; D2 15 76 88; D2 15 76 88; D2 15 76 90; D2 15 76 90; D1 7 76; D1 7 76;
  D1 7 76; D1 7 76].
Definition hdecs_208 : list hdec := [
  D2 12 77 48; D2 12 77 48; D2 12 77 48; D2 12 77 48; D2 12 77 48; D2 12 77 48; D2 12 77 48; D2 12 77 48; D2 12 77 48;
  D2 12 77 48; D2 12 77 48; D2 12 77 48; D2 12 77 48; D2 12 77 48; D2 12 77 48; D2 12 77 48; D2 12 77 49; D2 12 77 49;
  D2 12 77 49; D2 12 77 49; D2 12 77 49; D2 12 77 49; D2 12 77 49; D2 12 77 49; D2 12 77 49; D2 12 77 49; D2 12 77 49;
  D2 12 77 49; D2 12 77 49; D2 12 77 49; D2 12 77 49; D2 12 77 49; D2 12 77 50; D2 12 77 50; D2 12 77 50; D2 12 77 50;
  D2 12 77 50; D2 12 77 50; D2 12 77 50; D2 12 77 50; D2 12 77 50; D2 12 77 50; D2 12 77 50; D2 12 77 50; D2 12 77 50;
  D2 12 77 50; D2 12 77 50; D2 12 77 50; D2 12 77 97; D2 12 77 97; D2 12 77 97; D2 12 77 97; D2 12 77 97; D2 12 77 97;
  D2 12 77 97; D2 12 77 97; D2 12 77 97; D2 12 77 97; D2 12 77 97; D2 12 77 97; D2 12 77 97; D2 12 77 97; D2 12 77 97;
  D2 12 77 97; D2 12 77 99; D2 12 77 99; D2 12 77 99; D2 12 77 99; D2 12 77 99; D2 12 77 99; D2 12 77 99; D2 12 77 99;
  D2 12 77 99; D2 12 77 99; D2 12 77 99; D2 12 77 99; D2 12 77 99; D2 12 77 99; D2 12 77 99; D2 12 77 99;
  D2 12 77 101; D2 12 77 101; D2 12 77 101; D2 12 77 101; D2 12 77 101; D2 12 77 101; D2 12 77 101; D2 12 77 101;
  D2 12 77 101; D2 12 77 101; D2 12 77 101; D2 12 77 101; D2 12 77 101; D2 12 77 101; D2 12 77 101; D2 12 77 101;
  D2 12 77 105; D2 12 77 105; D2 12 77 105; D2 12 77 105; D2 12 77 105; D2 12 77 105; D2 12 77 105; D2 12 77 105;
  D2 12 77 105; D2 12 77 105; D2 12 77 105; D2 12 77 105; D2 12 77 105; D2 12 77 105; D2 12 77 105; D2 12 77 105;
  D2 12 77 111; D2 12 77 111; D2 12 77 111; D2 12 77 111; D2 12 77 111; D2 12 77 111; D2 12 77 111; D2 12 77 111;
  D2 12 77 111; D2 12 77 111; D2 12 77 111; D2 12 77 111; D2 12 77 111; D2 12 77 111; D2 12 77 111; D2 12 77 111;
  D2 12 77 115; D2 12 77 115; D2 12 77 115; D2 12 77 115; D2 12 77 115; D2 12 77 115; D2 12 77 115; D2 12 77 115;
  D2 12 77 115; D2 12 77 115; D2 12 77 115; D2 12 77 115; D2 12 77 115; D2 12 77 115; D2 12 77 115; D2 12 77 115;
  D2 12 77 116; D2 12 77 116; D2 12 77 116; D2 12 77 116; D2 12 77 116; D2 12 77 116; D2 12 77 116; D2 12 77 116;
  D2 12 77 116; D2 12 77 116; D2 12 77 116; D2 12 77 116; D2 12 77 116; D2 12 77 116; D2 12 77 116; D2 12 77 116;
  D2 13 77 32; D2 13 77 32; D2 13 77 32; D2 13 77 32; D2 13 77 32; D2 13 77 32; D2 13 77 32; D2 13 77 32; D2 13 77 37;
  D2 13 77 37; D2 13 77 37; D2 13 77 37; D2 13 77 37; D2 13 77 37; D2 13 77 37; D2 13 77 37; D2 13 77 45; D2 13 77 45;
  D2 13 77 45; D2 13 77 45; D2 13 77 45; D2 13 77 45; D2 13 77 45; D2 13 77 45; D2 13 77 46; D2 13 77 46; D2 13 77 46;
  D2 13 77 46; D2 13 77 46; D2 13 77 46; D2 13 77 46; D2 13 77 46; D2 13 77 47; D2 13 77 47; D2 13 77 47; D2 13 77 47;
  D2 13 77 47; D2 13 77 47; D2 13 77 47; D2 13 77 47; D2 13 77 51; D2 13 77 51; D2 13 77 51; D2 13 77 51; D2 13 77 51;
  D2 13 77 51; D2 13 77 51; D2 13 77 51; D2 13 77 52; D2 13 77 52; D2 13 77 52; D2 13 77 52; D2 13 77 52; D2 13 77 52;
  D2 13 77 52; D2 13 77 52; D2 13 77 53; D2 13 77 53; D2 13 77 53; D2 13 77 53; D2 13 77 53; D2 13 77 53; D2 13 77 53;
  D2 13 77 53; D2 13 77 54; D2 13 77 54; D2 13 77 54; D2 13 77 54; D2 13 77 54; D2 13 77 54; D2 13 77 54; D2 13 77 54;
  D2 13 77 55; D2 13 77 55; D2 13 77 55; D2 13 77 55; D2 13 77 55; D2 13 77 55; D2 13 77 55; D2 13 77 55; D2 13 77 56;
  D2 13 77 56; D2 13 77 56; D2 13 77 56; D2 13 77 56; D2 13 77 56; D2 13 77 56; D2 13 77 56; D2 13 77 57; D2 13 77 57;
  D2 13 77 57; D2 13 77 57; D2 13 77 57; D2 13 77 57; D2 13 77 57; D2 13 77 57].
Definition hdecs_209 : list hdec := [
  D2 13 77 61; D2 13 77 61; D2 13 77 61; D2 13 77 61; D2 13 77 61; D2 13 77 61; D2 13 77 61; D2 13 77 61; D2 13 77 65;
  D2 13 77 65; D2 13 77 65; D2 13 77 65; D2 13 77 65; D2 13 77 65; D2 13 77 65; D2 13 77 65; D2 13 77 95; D2 13 77 95;
  D2 13 77 95; D2 13 77 95; D2 13 77 95; D2 13 77 95; D2 13 77 95; D2 13 77 95; D2 13 77 98; D2 13 77 98; D2 13 77 98;
  D2 13 77 98; D2 13 77 98; D2 13 77 98; D2 13 77 98; D2 13 77 98; D2 13 77 100; D2 13 77 100; D2 13 77 100;
  D2 13 77 100; D2 13 77 100; D2 13 77 100; D2 13 77 100; D2 13 77 100; D2 13 77 102; D2 13 77 102; D2 13 77 102;
  D2 13 77 102; D2 13 77 102; D2 13 77 102; D2 13 77 102; D2 13 77 102; D2 13 77 103; D2 13 77 103; D2 13 77 103;
  D2 13 77 103; D2 13 77 103; D2 13 77 103; D2 13 77 103; D2 13 77 103; D2 13 77 104; D2 13 77 104; D2 13 77 104;
  D2 13 77 104; D2 13 77 104; D2 13 77 104; D2 13 77 104; D2 13 77 104; D2 13 77 108; D2 13 77 108; D2 13 77 108;
  D2 13 77 108; D2 13 77 108; D2 13 77 108; D2 13 77 108; D2 13 77 108; D2 13 77 109; D2 13 77 109; D2 13 77 109;
  D2 13 77 109; D2 13 77 109; D2 13 77 109; D2 13 77 109; D2 13 77 109; D2 13 77 110; D2 13 77 110; D2 13 77 110;
  D2 13 77 110; D2 13 77 110; D2 13 77 110; D2 13 77 110; D2 13 77 110; D2 13 77 112; D2 13 77 112; D2 13 77 112;
  D2 13 77 112; D2 13 77 112; D2 13 77 112; D2 13 77 112; D2 13 77 112; D2 13 77 114; D2 13 77 114; D2 13 77 114;
  D2 13 77 114; D2 13 77 114; D2 13 77 114; D2 13 77 114; D2 13 77 114; D2 13 77 117; D2 13 77 117; D2 13 77 117;
  D2 13 77 117; D2 13 77 117; D2 13 77 117; D2 13 77 117; D2 13 77 117; D2 14 77 58; D2 14 77 58; D2 14 77 58;
  D2 14 77 58; D2 14 77 66; D2 14 77 66; D2 14 77 66; D2 14 77 66; D2 14 77 67; D2 14 77 67; D2 14 77 67; D2 14 77 67;
  D2 14 77 68; D2 14 77 68; D2 14 77 68; D2 14 77 68; D2 14 77 69; D2 14 77 69; D2 14 77 69; D2 14 77 69; D2 14 77 70;
  D2 14 77 70; D2 14 77 70; D2 14 77 70; D2 14 77 71; D2 14 77 71; D2 14 77 71; D2 14 77 71; D2 14 77 72; D2 14 77 72;
  D2 14 77 72; D2 14 77 72; D2 14 77 73; D2 14 77 73; D2 14 77 73; D2 14 77 73; D2 14 77 74; D2 14 77 74; D2 14 77 74;
  D2 14 77 74; D2 14 77 75; D2 14 77 75; D2 14 77 75; D2 14 77 75; D2 14 77 76; D2 14 77 76; D2 14 77 76; D2 14 77 76;
  D2 14 77 77; D2 14 77 77; D2 14 77 77; D2 14 77 77; D2 14 77 78; D2 14 77 78; D2 14 77 78; D2 14 77 78; D2 14 77 79;
  D2 14 77 79; D2 14 77 79; D2 14 77 79; D2 14 77 80; D2 14 77 80; D2 14 77 80; D2 14 77 80; D2 14 77 81; D2 14 77 81;
  D2 14 77 81; D2 14 77 81; D2 14 77 82; D2 14 77 82; D2 14 77 82; D2 14 77 82; D2 14 77 83; D2 14 77 83; D2 14 77 83;
  D2 14 77 83; D2 14 77 84; D2 14 77 84; D2 14 77 84; D2 14 77 84; D2 14 77 85; D2 14 77 85; D2 14 77 85; D2 14 77 85;
  D2 14 77 86; D2 14 77 86; D2 14 77 86; D2 14 77 86; D2 14 77 87; D2 14 77 87; D2 14 77 87; D2 14 77 87; D2 14 77 89;
  D2 14 77 89; D2 14 77 89; D2 14 77 89; D2 14 77 106; D2 14 77 106; D2 14 77 106; D2 14 77 106; D2 14 77 107;
  D2 14 77 107; D2 14 77 107; D2 14 77 107; D2 14 77 113; D2 14 77 113; D2 14 77 113; D2 14 77 113; D2 14 77 118;
  D2 14 77 118; D2 14 77 118; D2 14 77 118; D2 14 77 119; D2 14 77 119; D2 14 77 119; D2 14 77 119; D2 14 77 120;
  D2 14 77 120; D2 14 77 120; D2 14 77 120; D2 14 77 121; D2 14 77 121; D2 14 77 121; D2 14 77 121; D2 14 77 122;
  D2 14 77 122; D2 14 77 122; D2 14 77 122; D2 15 77 38; D2 15 77 38; D2 15 77 42; D2 15 77 42; D2 15 77 44;
  D2 15 77 44; D2 15 77 59; D2 15 77 59; D2 15 77 88; D2 15 77 88; D2 15 77 90; D2 15 77 90; D1 7 77; D1 7 77;
  D1 7 77; D1 7 77].
Definition hdecs_210 : list hdec := [
  D2 12 78 48; D2 12 78 48; D2 12 78 48; D2 12 78 48; D2 12 78 48; D2 12 78 48; D2 12 78 48; D2 12 78 48; D2 12 78 48;
  D2 12 78 48; D2 12 78 48; D2 12 78 48; D2 12 78 48; D2 12 78 48; D2 12 78 48; D2 12 78 48; D2 12 78 49; D2 12 78 49;
  D2 12 78 49; D2 12 78 49; D2 12 78 49; D2 12 78 49; D2 12 78 49; D2 12 78 49; D2 12 78 49; D2 12 78 49; D2 12 78 49;
  D2 12 78 49; D2 12 78 49; D2 12 78 49; D2 12 78 49; D2 12 78 49; D2 12 78 50; D2 12 78 50; D2 12 78 50; D2 12 78 50;
  D2 12 78 50; D2 12 78 50; D2 12 78 50; D2 12 78 50; D2 12 78 50; D2 12 78 50; D2 12 78 50; D2 12 78 50; D2 12 78 50;
  D2 12 78 50; D2 12 78 50; D2 12 78 50; D2 12 78 97; D2 12 78 97; D2 12 78 97; D2 12 78 97; D2 12 78 97; D2 12 78 97;
  D2 12 78 97; D2 12 78 97; D2 12 78 97; D2 12 78 97; D2 12 78 97; D2 12 78 97; D2 12 78 97; D2 12 78 97; D2 12 78 97;
  D2 12 78 97; D2 12 78 99; D2 12 78 99; D2 12 78 99; D2 12 78 99; D2 12 78 99; D2 12 78 99; D2 12 78 99; D2 12 78 99;
  D2 12 78 99; D2 12 78 99; D2 12 78 99; D2 12 78 99; D2 12 78 99; D2 12 78 99; D2 12 78 99; D2 12 78 99;
  D2 12 78 101; D2 12 78 101; D2 12 78 101; D2 12 78 101; D2 12 78 101; D2 12 78 101; D2 12 78 101; D2 12 78 101;
  D2 12 78 101; D2 12 78 101; D2 12 78 101; D2 12 78 101; D2 12 78 101; D2 12 78 101; D2 12 78 101; D2 12 78 101;
  D2 12 78 105; D2 12 78 105; D2 12 78 105; D2 12 78 105; D2 12 78 105; D2 12 78 105; D2 12 78 105; D2 12 78 105;
  D2 12 78 105; D2 12 78 105; D2 12 78 105; D2 12 78 105; D2 12 78 105; D2 12 78 105; D2 12 78 105; D2 12 78 105;
  D2 12 78 111; D2 12 78 111; D2 12 78 111; D2 12 78 111; D2 12 78 111; D2 12 78 111; D2 12 78 111; D2 12 78 111;
  D2 12 78 111; D2 12 78 111; D2 12 78 111; D2 12 78 111; D2 12 78 111; D2 12 78 111; D2 12 78 111; D2 12 78 111;
  D2 12 78 115; D2 12 78 115; D2 12 78 115; D2 12 78 115; D2 12 78 115; D2 12 78 115; D2 12 78 115; D2 12 78 115;
  D2 12 78 115; D2 12 78 115; D2 12 78 115; D2 12 78 115; D2 12 78 115; D2 12 78 115; D2 12 78 115; D2 12 78 115;
  D2 12 78 116; D2 12 78 116; D2 12 78 116; D2 12 78 116; D2 12 78 116; D2 12 78 116; D2 12 78 116; D2 12 78 116;
  D2 12 78 116; D2 12 78 116; D2 12 78 116; D2 12 78 116; D2 12 78 116; D2 12 78 116; D2 12 78 116; D2 12 78 116;
  D2 13 78 32; D2 13 78 32; D2 13 78 32; D2 13 78 32; D2 13 78 32; D2 13 78 32; D2 13 78 32; D2 13 78 32; D2 13 78 37;
  D2 13 78 37; D2 13 78 37; D2 13 78 37; D2 13 78 37; D2 13 78 37; D2 13 78 37; D2 13 78 37; D2 13 78 45; D2 13 78 45;
  D2 13 78 45; D2 13 78 45; D2 13 78 45; D2 13 78 45; D2 13 78 45; D2 13 78 45; D2 13 78 46; D2 13 78 46; D2 13 78 46;
  D2 13 78 46; D2 13 78 46; D2 13 78 46; D2 13 78 46; D2 13 78 46; D2 13 78 47; D2 13 78 47; D2 13 78 47; D2 13 78 47;
  D2 13 78 47; D2 13 78 47; D2 13 78 47; D2 13 78 47; D2 13 78 51; D2 13 78 51; D2 13 78 51; D2 13 78 51; D2 13 78 51;
  D2 13 78 51; D2 13 78 51; D2 13 78 51; D2 13 78 52; D2 13 78 52; D2 13 78 52; D2 13 78 52; D2 13 78 52; D2 13 78 52;
  D2 13 78 52; D2 13 78 52; D2 13 78 53; D2 13 78 53; D2 13 78 53; D2 13 78 53; D2 13 78 53; D2 13 78 53; D2 13 78 53;
  D2 13 78 53; D2 13 78 54; D2 13 78 54; D2 13 78 54; D2 13 78 54; D2 13 78 54; D2 13 78 54; D2 13 78 54; D2 13 78 54;
  D2 13 78 55; D2 13 78 55; D2 13 78 55; D2 13 78 55; D2 13 78 55; D2 13 78 55; D2 13 78 55; D2 13 78 55; D2 13 78 56;
  D2 13 78 56; D2 13 78 56; D2 13 78 56; D2 13 78 56; D2 13 78 56; D2 13 78 56; D2 13 78 56; D2 13 78 57; D2 13 78 57;
  D2 13 78 57; D2 13 78 57; D2 13 78 57; D2 13 78 57; D2 13 78 57; D2 13 78 57].
Definition hdecs_211 : list hdec := [
  D2 13 78 61; D2 13 78 61; D2 13 78 61; D2 13 78 61; D2 13 78 61; D2 13 78 61; D2 13 78 61; D2 13 78 61; D2 13 78 65;
  D2 13 78 65; D2 13 78 65; D2 13 78 65; D2 13 78 65; D2 13 78 65; D2 13 78 65; D2 13 78 65; D2 13 78 95; D2 13 78 95;
  D2 13 78 95; D2 13 78 95; D2 13 78 95; D2 13 78 95; D2 13 78 95; D2 13 78 95; D2 13 78 98; D2 13 78 98; D2 13 78 98;
  D2 13 78 98; D2 13 78 98; D2 13 78 98; D2 13 78 98; D2 13 78 98; D2 13 78 100; D2 13 78 100; D2 13 78 100;
  D2 13 78 100; D2 13 78 100; D2 13 78 100; D2 13 78 100; D2 13 78 100; D2 13 78 102; D2 13 78 102; D2 13 78 102;
  D2 13 78 102; D2 13 78 102; D2 13 78 102; D2 13 78 102; D2 13 78 102; D2 13 78 103; D2 13 78 103; D2 13 78 103;
  D2 13 78 103; D2 13 78 103; D2 13 78 103; D2 13 78 103; D2 13 78 103; D2 13 78 104; D2 13 78 104; D2 13 78 104;
  D2 13 78 104; D2 13 78 104; D2 13 78 104; D2 13 78 104; D2 13 78 104; D2 13 78 108; D2 13 78 108; D2 13 78 108;
  D2 13 78 108; D2 13 78 108; D2 13 78 108; D2 13 78 108; D2 13 78 108; D2 13 78 109; D2 13 78 109; D2 13 78 109;
  D2 13 78 109; D2 13 78 109; D2 13 78 109; D2 13 78 109; D2 13 78 109; D2 13 78 110; D2 13 78 110; D2 13 78 110;
  D2 13 78 110; D2 13 78 110; D2 13 78 110; D2 13 78 110; D2 13 78 110; D2 13 78 112; D2 13 78 112; D2 13 78 112;
  D2 13 78 112; D2 13 78 112; D2 13 78 112; D2 13 78 112; D2 13 78 112; D2 13 78 114; D2 13 78 114; D2 13 78 114;
  D2 13 78 114; D2 13 78 114; D2 13 78 114; D2 13 78 114; D2 13 78 114; D2 13 78 117; D2 13 78 117; D2 13 78 117;
  D2 13 78 117; D2 13 78 117; D2 13 78 117; D2 13 78 117; D2 13 78 117; D2 14 78 58; D2 14 78 58; D2 14 78 58;
  D2 14 78 58; D2 14 78 66; D2 14 78 66; D2 14 78 66; D2 14 78 66; D2 14 78 67; D2 14 78 67; D2 14 78 67; D2 14 78 67;
  D2 14 78 68; D2 14 78 68; D2 14 78 68; D2 14 78 68; D2 14 78 69; D2 14 78 69; D2 14 78 69; D2 14 78 69; D2 14 78 70;
  D2 14 78 70; D2 14 78 70; D2 14 78 70; D2 14 78 71; D2 14 78 71; D2 14 78 71; D2 14 78 71; D2 14 78 72; D2 14 78 72;
  D2 14 78 72; D2 14 78 72; D2 14 78 73; D2 14 78 73; D2 14 78 73; D2 14 78 73; D2 14 78 74; D2 14 78 74; D2 14 78 74;
  D2 14 78 74; D2 14 78 75; D2 14 78 75; D2 14 78 75; D2 14 78 75; D2 14 78 76; D2 14 78 76; D2 14 78 76; D2 14 78 76;
  D2 14 78 77; D2 14 78 77; D2 14 78 77; D2 14 78 77; D2 14 78 78; D2 14 78 78; D2 14 78 78; D2 14 78 78; D2 14 78 79;
  D2 14 78 79; D2 14 78 79; D2 14 78 79; D2 14 78 80; D2 14 78 80; D2 14 78 80; D2 14 78 80; D2 14 78 81; D2 14 78 81;
  D2 14 78 81; D2 14 78 81; D2 14 78 82; D2 14 78 82; D2 14 78 82; D2 14 78 82; D2 14 78 83; D2 14 78 83; D2 14 78 83;
  D2 14 78 83; D2 14 78 84; D2 14 78 84; D2 14 78 84; D2 14 78 84; D2 14 78 85; D2 14 78 85; D2 14 78 85; D2 14 78 85;
  D2 14 78 86; D2 14 78 86; D2 14 78 86; D2 14 78 86; D2 14 78 87; D2 14 78 87; D2 14 78 87; D2 14 78 87; D2 14 78 89;
  D2 14 78 89; D2 14 78 89; D2 14 78 89; D2 14 78 106; D2 14 78 106; D2 14 78 106; D2 14 78 106; D2 14 78 107;
  D2 14 78 107; D2 14 78 107; D2 14 78 107; D2 14 78 113; D2 14 78 113; D2 14 78 113; D2 14 78 113; D2 14 78 118;
  D2 14 78 118; D2 14 78 118; D2 14 78 118; D2 14 78 119; D2 14 78 119; D2 14 78 119; D2 14 78 119; D2 14 78 120;
  D2 14 78 120; D2 14 78 120; D2 14 78 120; D2 14 78 121; D2 14 78 121; D2 14 78 121; D2 14 78 121; D2 14 78 122;
  D2 14 78 122; D2 14 78 122; D2 14 78 122; D2 15 78 38; D2 15 78 38; D2 15 78 42; D2 15 78 42; D2 15 78 44;
  D2 15 78 44; D2 15 78 59; D2 15 78 59; D2 15 78 88; D2 15 78 88; D2 15 78 90; D2 15 78 90; D1 7 78; D1 7 78;
  D1 7 78; D1 7 78].
Definition hdecs_212 : list hdec := [
  D2 12 79 48; D2 12 79 48; D2 12 79 48; D2 12 79 48; D2 12 79 48; D2 12 79 48; D2 12 79 48; D2 12 79 48; D2 12 79 48;
  D2 12 79 48; D2 12 79 48; D2 12 79 48; D2 12 79 48; D2 12 79 48; D2 12 79 48; D2 12 79 48; D2 12 79 49; D2 12 79 49;
  D2 12 79 49; D2 12 79 49; D2 12 79 49; D2 12 79 49; D2 12 79 49; D2 12 79 49; D2 12 79 49; D2 12 79 49; D2 12 79 49;
  D2 12 79 49; D2 12 79 49; D2 12 79 49; D2 12 79 49; D2 12 79 49; D2 12 79 50; D2 12 79 50; D2 12 79 50; D2 12 79 50;
  D2 12 79 50; D2 12 79 50; D2 12 79 50; D2 12 79 50; D2 12 79 50; D2 12 79 50; D2 12 79 50; D2 12 79 50; D2 12 79 50;
  D2 12 79 50; D2 12 79 50; D2 12 79 50; D2 12 79 97; D2 12 79 97; D2 12 79 97; D2 12 79 97; D2 12 79 97; D2 12 79 97;
  D2 12 79 97; D2 12 79 97; D2 12 79 97; D2 12 79 97; D2 12 79 97; D2 12 79 97; D2 12 79 97; D2 12 79 97; D2 12 79 97;
  D2 12 79 97; D2 12 79 99; D2 12 79 99; D2 12 79 99; D2 12 79 99; D2 12 79 99; D2 12 79 99; D2 12 79 99; D2 12 79 99;
  D2 12 79 99; D2 12 79 99; D2 12 79 99; D2 12 79 99; D2 12 79 99; D2 12 79 99; D2 12 79 99; D2 12 79 99;
  D2 12 79 101; D2 12 79 101; D2 12 79 101; D2 12 79 101; D2 12 79 101; D2 12 79 101; D2 12 79 101; D2 12 79 101;
  D2 12 79 101; D2 12 79 101; D2 12 79 101; D2 12 79 101; D2 12 79 101; D2 12 79 101; D2 12 79 101; D2 12 79 101;
  D2 12 79 105; D2 12 79 105; D2 12 79 105; D2 12 79 105; D2 12 79 105; D2 12 79 105; D2 12 79 105; D2 12 79 105;
  D2 12 79 105; D2 12 79 105; D2 12 79 105; D2 12 79 105; D2 12 79 105; D2 12 79 105; D2 12 79 105; D2 12 79 105;
  D2 12 79 111; D2 12 79 111; D2 12 79 111; D2 12 79 111; D2 12 79 111; D2 12 79 111; D2 12 79 111; D2 12 79 111;
  D2 12 79 111; D2 12 79 111; D2 12 79 111; D2 12 79 111; D2 12 79 111; D2 12 79 111; D2 12 79 111; D2 12 79 111;
  D2 12 79 115; D2 12 79 115; D2 12 79 115; D2 12 79 115; D2 12 79 115; D2 12 79 115; D2 12 79 115; D2 12 79 115;
  D2 12 79 115; D2 12 79 115; D2 12 79 115; D2 12 79 115; D2 12 79 115; D2 12 79 115; D2 12 79 115; D2 12 79 115;
  D2 12 79 116; D2 12 79 116; D2 12 79 116; D2 12 79 116; D2 12 79 116; D2 12 79 116; D2 12 79 116; D2 12 79 116;
  D2 12 79 116; D2 12 79 116; D2 12 79 116; D2 12 79 116; D2 12 79 116; D2 12 79 116; D2 12 79 116; D2 12 79 116;
  D2 13 79 32; D2 13 79 32; D2 13 79 32; D2 13 79 32; D2 13 79 32; D2 13 79 32; D2 13 79 32; D2 13 79 32; D2 13 79 37;
  D2 13 79 37; D2 13 79 37; D2 13 79 37; D2 13 79 37; D2 13 79 37; D2 13 79 37; D2 13 79 37; D2 13 79 45; D2 13 79 45;
  D2 13 79 45; D2 13 79 45; D2 13 79 45; D2 13 79 45; D2 13 79 45; D2 13 79 45; D2 13 79 46; D2 13 79 46; D2 13 79 46;
  D2 13 79 46; D2 13 79 46; D2 13 79 46; D2 13 79 46; D2 13 79 46; D2 13 79 47; D2 13 79 47; D2 13 79 47; D2 13 79 47;
  D2 13 79 47; D2 13 79 47; D2 13 79 47; D2 13 79 47; D2 13 79 51; D2 13 79 51; D2 13 79 51; D2 13 79 51; D2 13 79 51;
  D2 13 79 51; D2 13 79 51; D2 13 79 51; D2 13 79 52; D2 13 79 52; D2 13 79 52; D2 13 79 52; D2 13 79 52; D2 13 79 52;
  D2 13 79 52; D2 13 79 52; D2 13 79 53; D2 13 79 53; D2 13 79 53; D2 13 79 53; D2 13 79 53; D2 13 79 53; D2 13 79 53;
  D2 13 79 53; D2 13 79 54; D2 13 79 54; D2 13 79 54; D2 13 79 54; D2 13 79 54; D2 13 79 54; D2 13 79 54; D2 13 79 54;
  D2 13 79 55; D2 13 79 55; D2 13 79 55; D2 13 79 55; D2 13 79 55; D2 13 79 55; D2 13 79 55; D2 13 79 55; D2 13 79 56;
  D2 13 79 56; D2 13 79 56; D2 13 79 56; D2 13 79 56; D2 13 79 56; D2 13 79 56; D2 13 79 56; D2 13 79 57; D2 13 79 57;
  D2 13 79 57; D2 13 79 57; D2 13 79 57; D2 13 79 57; D2 13 79 57; D2 13 79 57].
Definition hdecs_213 : list hdec := [
  D2 13 79 61; D2 13 79 61; D2 13 79 61; D2 13 79 61; D2 13 79 61; D2 13 79 61; D2 13 79 61; D2 13 79 61; D2 13 79 65;
  D2 13 79 65; D2 13 79 65; D2 13 79 65; D2 13 79 65; D2 13 79 65; D2 13 79 65; D2 13 79 65; D2 13 79 95; D2 13 79 95;
  D2 13 79 95; D2 13 79 95; D2 13 79 95; D2 13 79 95; D2 13 79 95; D2 13 79 95; D2 13 79 98; D2 13 79 98; D2 13 79 98;
  D2 13 79 98; D2 13 79 98; D2 13 79 98; D2 13 79 98; D2 13 79 98; D2 13 79 100; D2 13 79 100; D2 13 79 100;
  D2 13 79 100; D2 13 79 100; D2 13 79 100; D2 13 79 100; D2 13 79 100; D2 13 79 102; D2 13 79 102; D2 13 79 102;
  D2 13 79 102; D2 13 79 102; D2 13 79 102; D2 13 79 102; D2 13 79 102; D2 13 79 103; D2 13 79 103; D2 13 79 103;
  D2 13 79 103; D2 13 79 103; D2 13 79 103; D2 13 79 103; D2 13 79 103; D2 13 79 104; D2 13 79 104; D2 13 79 104;
  D2 13 79 104; D2 13 79 104; D2 13 79 104; D2 13 79 104; D2 13 79 104; D2 13 79 108; D2 13 79 108; D2 13 79 108;
  D2 13 79 108; D2 13 79 108; D2 13 79 108; D2 13 79 108; D2 13 79 108; D2 13 79 109; D2 13 79 109; D2 13 79 109;
  D2 13 79 109; D2 13 79 109; D2 13 79 109; D2 13 79 109; D2 13 79 109; D2 13 79 110; D2 13 79 110; D2 13 79 110;
  D2 13 79 110; D2 13 79 110; D2 13 79 110; D2 13 79 110; D2 13 79 110; D2 13 79 112; D2 13 79 112; D2 13 79 112;
  D2 13 79 112; D2 13 79 112; D2 13 79 112; D2 13 79 112; D2 13 79 112; D2 13 79 114; D2 13 79 114; D2 13 79 114;
  D2 13 79 114; D2 13 79 114; D2 13 79 114; D2 13 79 114; D2 13 79 114; D2 13 79 117; D2 13 79 117; D2 13 79 117;
  D2 13 79 117; D2 13 79 117; D2 13 79 117; D2 13 79 117; D2 13 79 117; D2 14 79 58; D2 14 79 58; D2 14 79 58;
  D2 14 79 58; D2 14 79 66; D2 14 79 66; D2 14 79 66; D2 14 79 66; D2 14 79 67; D2 14 79 67; D2 14 79 67; D2 14 79 67;
  D2 14 79 68; D2 14 79 68; D2 14 79 68; D2 14 79 68; D2 14 79 69; D2 14 79 69; D2 14 79 69; D2 14 79 69; D2 14 79 70;
  D2 14 79 70; D2 14 79 70; D2 14 79 70; D2 14 79 71; D2 14 79 71; D2 14 79 71; D2 14 79 71; D2 14 79 72; D2 14 79 72;
  D2 14 79 72; D2 14 79 72; D2 14 79 73; D2 14 79 73; D2 14 79 73; D2 14 79 73; D2 14 79 74; D2 14 79 74; D2 14 79 74;
  D2 14 79 74; D2 14 79 75; D2 14 79 75; D2 14 79 75; D2 14 79 75; D2 14 79 76; D2 14 79 76; D2 14 79 76; D2 14 79 76;
  D2 14 79 77; D2 14 79 77; D2 14 79 77; D2 14 79 77; D2 14 79 78; D2 14 79 78; D2 14 79 78; D2 14 79 78; D2 14 79 79;
  D2 14 79 79; D2 14 79 79; D2 14 79 79; D2 14 79 80; D2 14 79 80; D2 14 79 80; D2 14 79 80; D2 14 79 81; D2 14 79 81;
  D2 14 79 81; D2 14 79 81; D2 14 79 82; D2 14 79 82; D2 14 79 82; D2 14 79 82; D2 14 79 83; D2 14 79 83; D2 14 79 83;
  D2 14 79 83; D2 14 79 84; D2 14 79 84; D2 14 79 84; D2 14 79 84; D2 14 79 85; D2 14 79 85; D2 14 79 85; D2 14 79 85;
  D2 14 79 86; D2 14 79 86; D2 14 79 86; D2 14 79 86; D2 14 79 87; D2 14 79 87; D2 14 79 87; D2 14 79 87; D2 14 79 89;
  D2 14 79 89; D2 14 79 89; D2 14 79 89; D2 14 79 106; D2 14 79 106; D2 14 79 106; D2 14 79 106; D2 14 79 107;
  D2 14 79 107; D2 14 79 107; D2 14 79 107; D2 14 79 113; D2 14 79 113; D2 14 79 113; D2 14 79 113; D2 14 79 118;
  D2 14 79 118; D2 14 79 118; D2 14 79 118; D2 14 79 119; D2 14 79 119; D2 14 79 119; D2 14 79 119; D2 14 79 120;
  D2 14 79 120; D2 14 79 120; D2 14 79 120; D2 14 79 121; D2 14 79 121; D2 14 79 121; D2 14 79 121; D2 14 79 122;
  D2 14 79 122; D2 14 79 122; D2 14 79 122; D2 15 79 38; D2 15 79 38; D2 15 79 42; D2 15 79 42; D2 15 79 44;
  D2 15 79 44; D2 15 79 59; D2 15 79 59; D2 15 79 88; D2 15 79 88; D2 15 79 90; D2 15 79 90; D1 7 79; D1 7 79;
  D1 7 79; D1 7 79].
Definition hdecs_214 : list hdec := [
  D2 12 80 48; D2 12 80 48; D2 12 80 48; D2 12 80 48; D2 12 80 48; D2 12 80 48; D2 12 80 48; D2 12 80 48; D2 12 80 48;
  D2 12 80 48; D2 12 80 48; D2 12 80 48; D2 12 80 48; D2 12 80 48; D2 12 80 48; D2 12 80 48; D2 12 80 49; D2 12 80 49;
  D2 12 80 49; D2 12 80 49; D2 12 80 49; D2 12 80 49; D2 12 80 49; D2 12 80 49; D2 12 80 49; D2 12 80 49; D2 12 80 49;
  D2 12 80 49; D2 12 80 49; D2 12 80 49; D2 12 80 49; D2 12 80 49; D2 12 80 50; D2 12 80 50; D2 12 80 50; D2 12 80 50;
  D2 12 80 50; D2 12 80 50; D2 12 80 50; D2 12 80 50; D2 12 80 50; D2 12 80 50; D2 12 80 50; D2 12 80 50; D2 12 80 50;
  D2 12 80 50; D2 12 80 50; D2 12 80 50; D2 12 80 97; D2 12 80 97; D2 12 80 97; D2 12 80 97; D2 12 80 97; D2 12 80 97;
  D2 12 80 97; D2 12 80 97; D2 12 80 97; D2 12 80 97; D2 12 80 97; D2 12 80 97; D2 12 80 97; D2 12 80 97; D2 12 80 97;
  D2 12 80 97; D2 12 80 99; D2 12 80 99; D2 12 80 99; D2 12 80 99; D2 12 80 99; D2 12 80 99; D2 12 80 99; D2 12 80 99;
  D2 12 80 99; D2 12 80 99; D2 12 80 99; D2 12 80 99; D2 12 80 99; D2 12 80 99; D2 12 80 99; D2 12 80 99;
  D2 12 80 101; D2 12 80 101; D2 12 80 101; D2 12 80 101; D2 12 80 101; D2 12 80 101; D2 12 80 101; D2 12 80 101;
  D2 12 80 101; D2 12 80 101; D2 12 80 101; D2 12 80 101; D2 12 80 101; D2 12 80 101; D2 12 80 101; D2 12 80 101;
  D2 12 80 105; D2 12 80 105; D2 12 80 105; D2 12 80 105; D2 12 80 105; D2 12 80 105; D2 12 80 105; D2 12 80 105;
  D2 12 80 105; D2 12 80 105; D2 12 80 105; D2 12 80 105; D2 12 80 105; D2 12 80 105; D2 12 80 105; D2 12 80 105;
  D2 12 80 111; D2 12 80 111; D2 12 80 111; D2 12 80 111; D2 12 80 111; D2 12 80 111; D2 12 80 111; D2 12 80 111;
  D2 12 80 111; D2 12 80 111; D2 12 80 111; D2 12 80 111; D2 12 80 111; D2 12 80 111; D2 12 80 111; D2 12 80 111;
  D2 12 80 115; D2 12 80 115; D2 12 80 115; D2 12 80 115; D2 12 80 115; D2 12 80 115; D2 12 80 115; D2 12 80 115;
  D2 12 80 115; D2 12 80 115; D2 12 80 115; D2 12 80 115; D2 12 80 115; D2 12 80 115; D2 12 80 115; D2 12 80 115;
  D2 12 80 116; D2 12 80 116; D2 12 80 116; D2 12 80 116; D2 12 80 116; D2 12 80 116; D2 12 80 116; D2 12 80 116;
  D2 12 80 116; D2 12 80 116; D2 12 80 116; D2 12 80 116; D2 12 80 116; D2 12 80 116; D2 12 80 116; D2 12 80 116;
  D2 13 80 32; D2 13 80 32; D2 13 80 32; D2 13 80 32; D2 13 80 32; D2 13 80 32; D2 13 80 32; D2 13 80 32; D2 13 80 37;
  D2 13 80 37; D2 13 80 37; D2 13 80 37; D2 13 80 37; D2 13 80 37; D2 13 80 37; D2 13 80 37; D2 13 80 45; D2 13 80 45;
  D2 13 80 45; D2 13 80 45; D2 13 80 45; D2 13 80 45; D2 13 80 45; D2 13 80 45; D2 13 80 46; D2 13 80 46; D2 13 80 46;
  D2 13 80 46; D2 13 80 46; D2 13 80 46; D2 13 80 46; D2 13 80 46; D2 13 80 47; D2 13 80 47; D2 13 80 47; D2 13 80 47;
  D2 13 80 47; D2 13 80 47; D2 13 80 47; D2 13 80 47; D2 13 80 51; D2 13 80 51; D2 13 80 51; D2 13 80 51; D2 13 80 51;
  D2 13 80 51; D2 13 80 51; D2 13 80 51; D2 13 80 52; D2 13 80 52; D2 13 80 52; D2 13 80 52; D2 13 80 52; D2 13 80 52;
  D2 13 80 52; D2 13 80 52; D2 13 80 53; D2 13 80 53; D2 13 80 53; D2 13 80 53; D2 13 80 53; D2 13 80 53; D2 13 80 53;
  D2 13 80 53; D2 13 80 54; D2 13 80 54; D2 13 80 54; D2 13 80 54; D2 13 80 54; D2 13 80 54; D2 13 80 54; D2 13 80 54;
  D2 13 80 55; D2 13 80 55; D2 13 80 55; D2 13 80 55; D2 13 80 55; D2 13 80 55; D2 13 80 55; D2 13 80 55; D2 13 80 56;
  D2 13 80 56; D2 13 80 56; D2 13 80 56; D2 13 80 56; D2 13 80 56; D2 13 80 56; D2 13 80 56; D2 13 80 57; D2 13 80 57;
  D2 13 80 57; D2 13 80 57; D2 13 80 57; D2 13 80 57; D2 13 80 57; D2 13 80 57].
Definition hdecs_215 : list hdec := [
  D2 13 80 61; D2 13 80 61; D2 13 80 61; D2 13 80 61; D2 13 80 61; D2 13 80 61; D2 13 80 61; D2 13 80 61; D2 13 80 65;
  D2 13 80 65; D2 13 80 65; D2 13 80 65; D2 13 80 65; D2 13 80 65; D2 13 80 65; D2 13 80 65; D2 13 80 95; D2 13 80 95;
  D2 13 80 95; D2 13 80 95; D2 13 80 95; D2 13 80 95; D2 13 80 95; D2 13 80 95; D2 13 80 98; D2 13 80 98; D2 13 80 98;
  D2 13 80 98; D2 13 80 98; D2 13 80 98; D2 13 80 98; D2 13 80 98; D2 13 80 100; D2 13 80 100; D2 13 80 100;
  D2 13 80 100; D2 13 80 100; D2 13 80 100; D2 13 80 100; D2 13 80 100; D2 13 80 102; D2 13 80 102; D2 13 80 102;
  D2 13 80 102; D2 13 80 102; D2 13 80 102; D2 13 80 102; D2 13 80 102; D2 13 80 103; D2 13 80 103; D2 13 80 103;
  D2 13 80 103; D2 13 80 103; D2 13 80 103; D2 13 80 103; D2 13 80 103; D2 13 80 104; D2 13 80 104; D2 13 80 104;
  D2 13 80 104; D2 13 80 104; D2 13 80 104; D2 13 80 104; D2 13 80 104; D2 13 80 108; D2 13 80 108; D2 13 80 108;
  D2 13 80 108; D2 13 80 108; D2 13 80 108; D2 13 80 108; D2 13 80 108; D2 13 80 109; D2 13 80 109; D2 13 80 109;
  D2 13 80 109; D2 13 80 109; D2 13 80 109; D2 13 80 109; D2 13 80 109; D2 13 80 110; D2 13 80 110; D2 13 80 110;
  D2 13 80 110; D2 13 80 110; D2 13 80 110; D2 13 80 110; D2 13 80 110; D2 13 80 112; D2 13 80 112; D2 13 80 112;
  D2 13 80 112; D2 13 80 112; D2 13 80 112; D2 13 80 112; D2 13 80 112; D2 13 80 114; D2 13 80 114; D2 13 80 114;
  D2 13 80 114; D2 13 80 114; D2 13 80 114; D2 13 80 114; D2 13 80 114; D2 13 80 117; D2 13 80 117; D2 13 80 117;
  D2 13 80 117; D2 13 80 117; D2 13 80 117; D2 13 80 117; D2 13 80 117; D2 14 80 58; D2 14 80 58; D2 14 80 58;
  D2 14 80 58; D2 14 80 66; D2 14 80 66; D2 14 80 66; D2 14 80 66; D2 14 80 67; D2 14 80 67; D2 14 80 67; D2 14 80 67;
  D2 14 80 68; D2 14 80 68; D2 14 80 68; D2 14 80 68; D2 14 80 69; D2 14 80 69; D2 14 80 69; D2 14 80 69; D2 14 80 70;
  D2 14 80 70; D2 14 80 70; D2 14 80 70; D2 14 80 71; D2 14 80 71; D2 14 80 71; D2 14 80 71; D2 14 80 72; D2 14 80 72;
  D2 14 80 72; D2 14 80 72; D2 14 80 73; D2 14 80 73; D2 14 80 73; D2 14 80 73; D2 14 80 74; D2 14 80 74; D2 14 80 74;
  D2 14 80 74; D2 14 80 75; D2 14 80 75; D2 14 80 75; D2 14 80 75; D2 14 80 76; D2 14 80 76; D2 14 80 76; D2 14 80 76;
  D2 14 80 77; D2 14 80 77; D2 14 80 77; D2 14 80 77; D2 14 80 78; D2 14 80 78; D2 14 80 78; D2 14 80 78; D2 14 80 79;
  D2 14 80 79; D2 14 80 79; D2 14 80 79; D2 14 80 80; D2 14 80 80; D2 14 80 80; D2 14 80 80; D2 14 80 81; D2 14 80 81;
  D2 14 80 81; D2 14 80 81; D2 14 80 82; D2 14 80 82; D2 14 80 82; D2 14 80 82; D2 14 80 83; D2 14 80 83; D2 14 80 83;
  D2 14 80 83; D2 14 80 84; D2 14 80 84; D2 14 80 84; D2 14 80 84; D2 14 80 85; D2 14 80 85; D2 14 80 85; D2 14 80 85;
  D2 14 80 86; D2 14 80 86; D2 14 80 86; D2 14 80 86; D2 14 80 87; D2 14 80 87; D2 14 80 87; D2 14 80 87; D2 14 80 89;
  D2 14 80 89; D2 14 80 89; D2 14 80 89; D2 14 80 106; D2 14 80 106; D2 14 80 106; D2 14 80 106; D2 14 80 107;
  D2 14 80 107; D2 14 80 107; D2 14 80 107; D2 14 80 113; D2 14 80 113; D2 14 80 113; D2 14 80 113; D2 14 80 118;
  D2 14 80 118; D2 14 80 118; D2 14 80 118; D2 14 80 119; D2 14 80 119; D2 14 80 119; D2 14 80 119; D2 14 80 120;
  D2 14 80 120; D2 14 80 120; D2 14 80 120; D2 14 80 121; D2 14 80 121; D2 14 80 121; D2 14 80 121; D2 14 80 122;
  D2 14 80 122; D2 14 80 122; D2 14 80 122; D2 15 80 38; D2 15 80 38; D2 15 80 42; D2 15 80 42; D2 15 80 44;
  D2 15 80 44; D2 15 80 59; D2 15 80 59; D2 15 80 88; D2 15 80 88; D2 15 80 90; D2 15 80 90; D1 7 80; D1 7 80;
  D1 7 80; D1 7 80].
Definition hdecs_216 : list hdec := [
  D2 12 81 48; D2 12 81 48; D2 12 81 48; D2 12 81 48; D2 12 81 48; D2 12 81 48; D2 12 81 48; D2 12 81 48; D2 12 81 48;
  D2 12 81 48; D2 12 81 48; D2 12 81 48; D2 12 81 48; D2 12 81 48; D2 12 81 48; D2 12 81 48; D2 12 81 49; D2 12 81 49;
  D2 12 81 49; D2 12 81 49; D2 12 81 49; D2 12 81 49; D2 12 81 49; D2 12 81 49; D2 12 81 49; D2 12 81 49; D2 12 81 49;
  D2 12 81 49; D2 12 81 49; D2 12 81 49; D2 12 81 49; D2 12 81 49; D2 12 81 50; D2 12 81 50; D2 12 81 50; D2 12 81 50;
  D2 12 81 50; D2 12 81 50; D2 12 81 50; D2 12 81 50; D2 12 81 50; D2 12 81 50; D2 12 81 50; D2 12 81 50; D2 12 81 50;
  D2 12 81 50; D2 12 81 50; D2 12 81 50; D2 12 81 97; D2 12 81 97; D2 12 81 97; D2 12 81 97; D2 12 81 97; D2 12 81 97;
  D2 12 81 97; D2 12 81 97; D2 12 81 97; D2 12 81 97; D2 12 81 97; D2 12 81 97; D2 12 81 97; D2 12 81 97; D2 12 81 97;
  D2 12 81 97; D2 12 81 99; D2 12 81 99; D2 12 81 99; D2 12 81 99; D2 12 81 99; D2 12 81 99; D2 12 81 99; D2 12 81 99;
  D2 12 81 99; D2 12 81 99; D2 12 81 99; D2 12 81 99; D2 12 81 99; D2 12 81 99; D2 12 81 99; D2 12 81 99;
  D2 12 81 101; D2 12 81 101; D2 12 81 101; D2 12 81 101; D2 12 81 101; D2 12 81 101; D2 12 81 101; D2 12 81 101;
  D2 12 81 101; D2 12 81 101; D2 12 81 101; D2 12 81 101; D2 12 81 101; D2 12 81 101; D2 12 81 101; D2 12 81 101;
  D2 12 81 105; D2 12 81 105; D2 12 81 105; D2 12 81 105; D2 12 81 105; D2 12 81 105; D2 12 81 105; D2 12 81 105;
  D2 12 81 105; D2 12 81 105; D2 12 81 105; D2 12 81 105; D2 12 81 105; D2 12 81 105; D2 12 81 105; D2 12 81 105;
  D2 12 81 111; D2 12 81 111; D2 12 81 111; D2 12 81 111; D2 12 81 111; D2 12 81 111; D2 12 81 111; D2 12 81 111;
  D2 12 81 111; D2 12 81 111; D2 12 81 111; D2 12 81 111; D2 12 81 111; D2 12 81 111; D2 12 81 111; D2 12 81 111;
  D2 12 81 115; D2 12 81 115; D2 12 81 115; D2 12 81 115; D2 12 81 115; D2 12 81 115; D2 12 81 115; D2 12 81 115;
  D2 12 81 115; D2 12 81 115; D2 12 81 115; D2 12 81 115; D2 12 81 115; D2 12 81 115; D2 12 81 115; D2 12 81 115;
  D2 12 81 116; D2 12 81 116; D2 12 81 116; D2 12 81 116; D2 12 81 116; D2 12 81 116; D2 12 81 116; D2 12 81 116;
  D2 12 81 116; D2 12 81 116; D2 12 81 116; D2 12 81 116; D2 12 81 116; D2 12 81 116; D2 12 81 116; D2 12 81 116;
  D2 13 81 32; D2 13 81 32; D2 13 81 32; D2 13 81 32; D2 13 81 32; D2 13 81 32; D2 13 81 32; D2 13 81 32; D2 13 81 37;
  D2 13 81 37; D2 13 81 37; D2 13 81 37; D2 13 81 37; D2 13 81 37; D2 13 81 37; D2 13 81 37; D2 13 81 45; D2 13 81 45;
  D2 13 81 45; D2 13 81 45; D2 13 81 45; D2 13 81 45; D2 13 81 45; D2 13 81 45; D2 13 81 46; D2 13 81 46; D2 13 81 46;
  D2 13 81 46; D2 13 81 46; D2 13 81 46; D2 13 81 46; D2 13 81 46; D2 13 81 47; D2 13 81 47; D2 13 81 47; D2 13 81 47;
  D2 13 81 47; D2 13 81 47; D2 13 81 47; D2 13 81 47; D2 13 81 51; D2 13 81 51; D2 13 81 51; D2 13 81 51; D2 13 81 51;
  D2 13 81 51; D2 13 81 51; D2 13 81 51; D2 13 81 52; D2 13 81 52; D2 13 81 52; D2 13 81 52; D2 13 81 52; D2 13 81 52;
  D2 13 81 52; D2 13 81 52; D2 13 81 53; D2 13 81 53; D2 13 81 53; D2 13 81 53; D2 13 81 53; D2 13 81 53; D2 13 81 53;
  D2 13 81 53; D2 13 81 54; D2 13 81 54; D2 13 81 54; D2 13 81 54; D2 13 81 54; D2 13 81 54; D2 13 81 54; D2 13 81 54;
  D2 13 81 55; D2 13 81 55; D2 13 81 55; D2 13 81 55; D2 13 81 55; D2 13 81 55; D2 13 81 55; D2 13 81 55; D2 13 81 56;
  D2 13 81 56; D2 13 81 56; D2 13 81 56; D2 13 81 56; D2 13 81 56; D2 13 81 56; D2 13 81 56; D2 13 81 57; D2 13 81 57;
  D2 13 81 57; D2 13 81 57; D2 13 81 57; D2 13 81 57; D2 13 81 57; D2 13 81 57].
Definition hdecs_217 : list hdec := [
  D2 13 81 61; D2 13 81 61; D2 13 81 61; D2 13 81 61; D2 13 81 61; D2 13 81 61; D2 13 81 61; D2 13 81 61; D2 13 81 65;
  D2 13 81 65; D2 13 81 65; D2 13 81 65; D2 13 81 65; D2 13 81 65; D2 13 81 65; D2 13 81 65; D2 13 81 95; D2 13 81 95;
  D2 13 81 95; D2 13 81 95; D2 13 81 95; D2 13 81 95; D2 13 81 95; D2 13 81 95; D2 13 81 98; D2 13 81 98; D2 13 81 98;
  D2 13 81 98; D2 13 81 98; D2 13 81 98; D2 13 81 98; D2 13 81 98; D2 13 81 100; D2 13 81 100; D2 13 81 100;
  D2 13 81 100; D2 13 81 100; D2 13 81 100; D2 13 81 100; D2 13 81 100; D2 13 81 102; D2 13 81 102; D2 13 81 102;
  D2 13 81 102; D2 13 81 102; D2 13 81 102; D2 13 81 102; D2 13 81 102; D2 13 81 103; D2 13 81 103; D2 13 81 103;
  D2 13 81 103; D2 13 81 103; D2 13 81 103; D2 13 81 103; D2 13 81 103; D2 13 81 104; D2 13 81 104; D2 13 81 104;
  D2 13 81 104; D2 13 81 104; D2 13 81 104; D2 13 81 104; D2 13 81 104; D2 13 81 108; D2 13 81 108; D2 13 81 108;
  D2 13 81 108; D2 13 81 108; D2 13 81 108; D2 13 81 108; D2 13 81 108; D2 13 81 109; D2 13 81 109; D2 13 81 109;
  D2 13 81 109; D2 13 81 109; D2 13 81 109; D2 13 81 109; D2 13 81 109; D2 13 81 110; D2 13 81 110; D2 13 81 110;
  D2 13 81 110; D2 13 81 110; D2 13 81 110; D2 13 81 110; D2 13 81 110; D2 13 81 112; D2 13 81 112; D2 13 81 112;
  D2 13 81 112; D2 13 81 112; D2 13 81 112; D2 13 81 112; D2 13 81 112; D2 13 81 114; D2 13 81 114; D2 13 81 114;
  D2 13 81 114; D2 13 81 114; D2 13 81 114; D2 13 81 114; D2 13 81 114; D2 13 81 117; D2 13 81 117; D2 13 81 117;
  D2 13 81 117; D2 13 81 117; D2 13 81 117; D2 13 81 117; D2 13 81 117; D2 14 81 58; D2 14 81 58; D2 14 81 58;
  D2 14 81 58; D2 14 81 66; D2 14 81 66; D2 14 81 66; D2 14 81 66; D2 14 81 67; D2 14 81 67; D2 14 81 67; D2 14 81 67;
  D2 14 81 68; D2 14 81 68; D2 14 81 68; D2 14 81 68; D2 14 81 69; D2 14 81 69; D2 14 81 69; D2 14 81 69; D2 14 81 70;
  D2 14 81 70; D2 14 81 70; D2 14 81 70; D2 14 81 71; D2 14 81 71; D2 14 81 71; D2 14 81 71; D2 14 81 72; D2 14 81 72;
  D2 14 81 72; D2 14 81 72; D2 14 81 73; D2 14 81 73; D2 14 81 73; D2 14 81 73; D2 14 81 74; D2 14 81 74; D2 14 81 74;
  D2 14 81 74; D2 14 81 75; D2 14 81 75; D2 14 81 75; D2 14 81 75; D2 14 81 76; D2 14 81 76; D2 14 81 76; D2 14 81 76;
  D2 14 81 77; D2 14 81 77; D2 14 81 77; D2 14 81 77; D2 14 81 78; D2 14 81 78; D2 14 81 78; D2 14 81 78; D2 14 81 79;
  D2 14 81 79; D2 14 81 79; D2 14 81 79; D2 14 81 80; D2 14 81 80; D2 14 81 80; D2 14 81 80; D2 14 81 81; D2 14 81 81;
  D2 14 81 81; D2 14 81 81; D2 14 81 82; D2 14 81 82; D2 14 81 82; D2 14 81 82; D2 14 81 83; D2 14 81 83; D2 14 81 83;
  D2 14 81 83; D2 14 81 84; D2 14 81 84; D2 14 81 84; D2 14 81 84; D2 14 81 85; D2 14 81 85; D2 14 81 85; D2 14 81 85;
  D2 14 81 86; D2 14 81 86; D2 14 81 86; D2 14 81 86; D2 14 81 87; D2 14 81 87; D2 14 81 87; D2 14 81 87; D2 14 81 89;
  D2 14 81 89; D2 14 81 89; D2 14 81 89; D2 14 81 106; D2 14 81 106; D2 14 81 106; D2 14 81 106; D2 14 81 107;
  D2 14 81 107; D2 14 81 107; D2 14 81 107; D2 14 81 113; D2 14 81 113; D2 14 81 113; D2 14 81 113; D2 14 81 118;
  D2 14 81 118; D2 14 81 118; D2 14 81 118; D2 14 81 119; D2 14 81 119; D2 14 81 119; D2 14 81 119; D2 14 81 120;
  D2 14 81 120; D2 14 81 120; D2 14 81 120; D2 14 81 121; D2 14 81 121; D2 14 81 121; D2 14 81 121; D2 14 81 122;
  D2 14 81 122; D2 14 81 122; D2 14 81 122; D2 15 81 38; D2 15 81 38; D2 15 81 42; D2 15 81 42; D2 15 81 44;
  D2 15 81 44; D2 15 81 59; D2 15 81 59; D2 15 81 88; D2 15 81 88; D2 15 81 90; D2 15 81 90; D1 7 81; D1 7 81;
  D1 7 81; D1 7 81].
Definition hdecs_218 : list hdec := [
  D2 12 82 48; D2 12 82 48; D2 12 82 48; D2 12 82 48; D2 12 82 48; D2 12 82 48; D2 12 82 48; D2 12 82 48; D2 12 82 48;
  D2 12 82 48; D2 12 82 48; D2 12 82 48; D2 12 82 48; D2 12 82 48; D2 12 82 48; D2 12 82 48; D2 12 82 49; D2 12 82 49;
  D2 12 82 49; D2 12 82 49; D2 12 82 49; D2 12 82 49; D2 12 82 49; D2 12 82 49; D2 12 82 49; D2 12 82 49; D2 12 82 49;
  D2 12 82 49; D2 12 82 49; D2 12 82 49; D2 12 82 49; D2 12 82 49; D2 12 82 50; D2 12 82 50; D2 12 82 50; D2 12 82 50;
  D2 12 82 50; D2 12 82 50; D2 12 82 50; D2 12 82 50; D2 12 82 50; D2 12 82 50; D2 12 82 50; D2 12 82 50; D2 12 82 50;
  D2 12 82 50; D2 12 82 50; D2 12 82 50; D2 12 82 97; D2 12 82 97; D2 12 82 97; D2 12 82 97; D2 12 82 97; D2 12 82 97;
  D2 12 82 97; D2 12 82 97; D2 12 82 97; D2 12 82 97; D2 12 82 97; D2 12 82 97; D2 12 82 97; D2 12 82 97; D2 12 82 97;
  D2 12 82 97; D2 12 82 99; D2 12 82 99; D2 12 82 99; D2 12 82 99; D2 12 82 99; D2 12 82 99; D2 12 82 99; D2 12 82 99;
  D2 12 82 99; D2 12 82 99; D2 12 82 99; D2 12 82 99; D2 12 82 99; D2 12 82 99; D2 12 82 99; D2 12 82 99;
  D2 12 82 101; D2 12 82 101; D2 12 82 101; D2 12 82 101; D2 12 82 101; D2 12 82 101; D2 12 82 101; D2 12 82 101;
  D2 12 82 101; D2 12 82 101; D2 12 82 101; D2 12 82 101; D2 12 82 101; D2 12 82 101; D2 12 82 101; D2 12 82 101;
  D2 12 82 105; D2 12 82 105; D2 12 82 105; D2 12 82 105; D2 12 82 105; D2 12 82 105; D2 12 82 105; D2 12 82 105;
  D2 12 82 105; D2 12 82 105; D2 12 82 105; D2 12 82 105; D2 12 82 105; D2 12 82 105; D2 12 82 105; D2 12 82 105;
  D2 12 82 111; D2 12 82 111; D2 12 82 111; D2 12 82 111; D2 12 82 111; D2 12 82 111; D2 12 82 111; D2 12 82 111;
  D2 12 82 111; D2 12 82 111; D2 12 82 111; D2 12 82 111; D2 12 82 111; D2 12 82 111; D2 12 82 111; D2 12 82 111;
  D2 12 82 115; D2 12 82 115; D2 12 82 115; D2 12 82 115; D2 12 82 115; D2 12 82 115; D2 12 82 115; D2 12 82 115;
  D2 12 82 115; D2 12 82 115; D2 12 82 115; D2 12 82 115; D2 12 82 115; D2 12 82 115; D2 12 82 115; D2 12 82 115;
  D2 12 82 116; D2 12 82 116; D2 12 82 116; D2 12 82 116; D2 12 82 116; D2 12 82 116; D2 12 82 116; D2 12 82 116;
  D2 12 82 116; D2 12 82 116; D2 12 82 116; D2 12 82 116; D2 12 82 116; D2 12 82 116; D2 12 82 116; D2 12 82 116;
  D2 13 82 32; D2 13 82 32; D2 13 82 32; D2 13 82 32; D2 13 82 32; D2 13 82 32; D2 13 82 32; D2 13 82 32; D2 13 82 37;
  D2 13 82 37; D2 13 82 37; D2 13 82 37; D2 13 82 37; D2 13 82 37; D2 13 82 37; D2 13 82 37; D2 13 82 45; D2 13 82 45;
  D2 13 82 45; D2 13 82 45; D2 13 82 45; D2 13 82 45; D2 13 82 45; D2 13 82 45; D2 13 82 46; D2 13 82 46; D2 13 82 46;
  D2 13 82 46; D2 13 82 46; D2 13 82 46; D2 13 82 46; D2 13 82 46; D2 13 82 47; D2 13 82 47; D2 13 82 47; D2 13 82 47;
  D2 13 82 47; D2 13 82 47; D2 13 82 47; D2 13 82 47; D2 13 82 51; D2 13 82 51; D2 13 82 51; D2 13 82 51; D2 13 82 51;
  D2 13 82 51; D2 13 82 51; D2 13 82 51; D2 13 82 52; D2 13 82 52; D2 13 82 52; D2 13 82 52; D2 13 82 52; D2 13 82 52;
  D2 13 82 52; D2 13 82 52; D2 13 82 53; D2 13 82 53; D2 13 82 53; D2 13 82 53; D2 13 82 53; D2 13 82 53; D2 13 82 53;
  D2 13 82 53; D2 13 82 54; D2 13 82 54; D2 13 82 54; D2 13 82 54; D2 13 82 54; D2 13 82 54; D2 13 82 54; D2 13 82 54;
  D2 13 82 55; D2 13 82 55; D2 13 82 55; D2 13 82 55; D2 13 82 55; D2 13 82 55; D2 13 82 55; D2 13 82 55; D2 13 82 56;
  D2 13 82 56; D2 13 82 56; D2 13 82 56; D2 13 82 56; D2 13 82 56; D2 13 82 56; D2 13 82 56; D2 13 82 57; D2 13 82 57;
  D2 13 82 57; D2 13 82 57; D2 13 82 57; D2 13 82 57; D2 13 82 57; D2 13 82 57].
Definition hdecs_219 : list hdec := [
  D2 13 82 61; D2 13 82 61; D2 13 82 61; D2 13 82 61; D2 13 82 61; D2 13 82 61; D2 13 82 61; D2 13 82 61; D2 13 82 65;
  D2 13 82 65; D2 13 82 65; D2 13 82 65; D2 13 82 65; D2 13 82 65; D2 13 82 65; D2 13 82 65; D2 13 82 95; D2 13 82 95;
  D2 13 82 95; D2 13 82 95; D2 13 82 95; D2 13 82 95; D2 13 82 95; D2 13 82 95; D2 13 82 98; D2 13 82 98; D2 13 82 98;
  D2 13 82 98; D2 13 82 98; D2 13 82 98; D2 13 82 98; D2 13 82 98; D2 13 82 100; D2 13 82 100; D2 13 82 100;
  D2 13 82 100; D2 13 82 100; D2 13 82 100; D2 13 82 100; D2 13 82 100; D2 13 82 102; D2 13 82 102; D2 13 82 102;
  D2 13 82 102; D2 13 82 102; D2 13 82 102; D2 13 82 102; D2 13 82 102; D2 13 82 103; D2 13 82 103; D2 13 82 103;
  D2 13 82 103; D2 13 82 103; D2 13 82 103; D2 13 82 103; D2 13 82 103; D2 13 82 104; D2 13 82 104; D2 13 82 104;
  D2 13 82 104; D2 13 82 104; D2 13 82 104; D2 13 82 104; D2 13 82 104; D2 13 82 108; D2 13 82 108; D2 13 82 108;
  D2 13 82 108; D2 13 82 108; D2 13 82 108; D2 13 82 108; D2 13 82 108; D2 13 82 109; D2 13 82 109; D2 13 82 109;
  D2 13 82 109; D2 13 82 109; D2 13 82 109; D2 13 82 109; D2 13 82 109; D2 13 82 110; D2 13 82 110; D2 13 82 110;
  D2 13 82 110; D2 13 82 110; D2 13 82 110; D2 13 82 110; D2 13 82 110; D2 13 82 112; D2 13 82 112; D2 13 82 112;
  D2 13 82 112; D2 13 82 112; D2 13 82 112; D2 13 82 112; D2 13 82 112; D2 13 82 114; D2 13 82 114; D2 13 82 114;
  D2 13 82 114; D2 13 82 114; D2 13 82 114; D2 13 82 114; D2 13 82 114; D2 13 82 117; D2 13 82 117; D2 13 82 117;
  D2 13 82 117; D2 13 82 117; D2 13 82 117; D2 13 82 117; D2 13 82 117; D2 14 82 58; D2 14 82 58; D2 14 82 58;
  D2 14 82 58; D2 14 82 66; D2 14 82 66; D2 14 82 66; D2 14 82 66; D2 14 82 67; D2 14 82 67; D2 14 82 67; D2 14 82 67;
  D2 14 82 68; D2 14 82 68; D2 14 82 68; D2 14 82 68; D2 14 82 69; D2 14 82 69; D2 14 82 69; D2 14 82 69; D2 14 82 70;
  D2 14 82 70; D2 14 82 70; D2 14 82 70; D2 14 82 71; D2 14 82 71; D2 14 82 71; D2 14 82 71; D2 14 82 72; D2 14 82 72;
  D2 14 82 72; D2 14 82 72; D2 14 82 73; D2 14 82 73; D2 14 82 73; D2 14 82 73; D2 14 82 74; D2 14 82 74; D2 14 82 74;
  D2 14 82 74; D2 14 82 75; D2 14 82 75; D2 14 82 75; D2 14 82 75; D2 14 82 76; D2 14 82 76; D2 14 82 76; D2 14 82 76;
  D2 14 82 77; D2 14 82 77; D2 14 82 77; D2 14 82 77; D2 14 82 78; D2 14 82 78; D2 14 82 78; D2 14 82 78; D2 14 82 79;
  D2 14 82 79; D2 14 82 79; D2 14 82 79; D2 14 82 80; D2 14 82 80; D2 14 82 80; D2 14 82 80; D2 14 82 81; D2 14 82 81;
  D2 14 82 81; D2 14 82 81; D2 14 82 82; D2 14 82 82; D2 14 82 82; D2 14 82 82; D2 14 82 83; D2 14 82 83; D2 14 82 83;
  D2 14 82 83; D2 14 82 84; D2 14 82 84; D2 14 82 84; D2 14 82 84; D2 14 82 85; D2 14 82 85; D2 14 82 85; D2 14 82 85;
  D2 14 82 86; D2 14 82 86; D2 14 82 86; D2 14 82 86; D2 14 82 87; D2 14 82 87; D2 14 82 87; D2 14 82 87; D2 14 82 89;
  D2 14 82 89; D2 14 82 89; D2 14 82 89; D2 14 82 106; D2 14 82 106; D2 14 82 106; D2 14 82 106; D2 14 82 107;
  D2 14 82 107; D2 14 82 107; D2 14 82 107; D2 14 82 113; D2 14 82 113; D2 14 82 113; D2 14 82 113; D2 14 82 118;
  D2 14 82 118; D2 14 82 118; D2 14 82 118; D2 14 82 119; D2 14 82 119; D2 14 82 119; D2 14 82 119; D2 14 82 120;
  D2 14 82 120; D2 14 82 120; D2 14 82 120; D2 14 82 121; D2 14 82 121; D2 14 82 121; D2 14 82 121; D2 14 82 122;
  D2 14 82 122; D2 14 82 122; D2 14 82 122; D2 15 82 38; D2 15 82 38; D2 15 82 42; D2 15 82 42; D2 15 82 44;
  D2 15 82 44; D2 15 82 59; D2 15 82 59; D2 15 82 88; D2 15 82 88; D2 15 82 90; D2 15 82 90; D1 7 82; D1 7 82;
  D1 7 82; D1 7 82].
Definition hdecs_220 : list hdec := [
  D2 12 83 48; D2 12 83 48; D2 12 83 48; D2 12 83 48; D2 12 83 48; D2 12 83 48; D2 12 83 48; D2 12 83 48; D2 12 83 48;
  D2 12 83 48; D2 12 83 48; D2 12 83 48; D2 12 83 48; D2 12 83 48; D2 12 83 48; D2 12 83 48; D2 12 83 49; D2 12 83 49;
  D2 12 83 49; D2 12 83 49; D2 12 83 49; D2 12 83 49; D2 12 83 49; D2 12 83 49; D2 12 83 49; D2 12 83 49; D2 12 83 49;
  D2 12 83 49; D2 12 83 49; D2 12 83 49; D2 12 83 49; D2 12 83 49; D2 12 83 50; D2 12 83 50; D2 12 83 50; D2 12 83 50;
  D2 12 83 50; D2 12 83 50; D2 12 83 50; D2 12 83 50; D2 12 83 50; D2 12 83 50; D2 12 83 50; D2 12 83 50; D2 12 83 50;
  D2 12 83 50; D2 12 83 50; D2 12 83 50; D2 12 83 97; D2 12 83 97; D2 12 83 97; D2 12 83 97; D2 12 83 97; D2 12 83 97;
  D2 12 83 97; D2 12 83 97; D2 12 83 97; D2 12 83 97; D2 12 83 97; D2 12 83 97; D2 12 83 97; D2 12 83 97; D2 12 83 97;
  D2 12 83 97; D2 12 83 99; D2 12 83 99; D2 12 83 99; D2 12 83 99; D2 12 83 99; D2 12 83 99; D2 12 83 99; D2 12 83 99;
  D2 12 83 99; D2 12 83 99; D2 12 83 99; D2 12 83 99; D2 12 83 99; D2 12 83 99; D2 12 83 99; D2 12 83 99;
  D2 12 83 101; D2 12 83 101; D2 12 83 101; D2 12 83 101; D2 12 83 101; D2 12 83 101; D2 12 83 101; D2 12 83 101;
  D2 12 83 101; D2 12 83 101; D2 12 83 101; D2 12 83 101; D2 12 83 101; D2 12 83 101; D2 12 83 101; D2 12 83 101;
  D2 12 83 105; D2 12 83 105; D2 12 83 105; D2 12 83 105; D2 12 83 105; D2 12 83 105; D2 12 83 105; D2 12 83 105;
  D2 12 83 105; D2 12 83 105; D2 12 83 105; D2 12 83 105; D2 12 83 105; D2 12 83 105; D2 12 83 105; D2 12 83 105;
  D2 12 83 111; D2 12 83 111; D2 12 83 111; D2 12 83 111; D2 12 83 111; D2 12 83 111; D2 12 83 111; D2 12 83 111;
  D2 12 83 111; D2 12 83 111; D2 12 83 111; D2 12 83 111; D2 12 83 111; D2 12 83 111; D2 12 83 111; D2 12 83 111;
  D2 12 83 115; D2 12 83 115; D2 12 83 115; D2 12 83 115; D2 12 83 115; D2 12 83 115; D2 12 83 115; D2 12 83 115;
  D2 12 83 115; D2 12 83 115; D2 12 83 115; D2 12 83 115; D2 12 83 115; D2 12 83 115; D2 12 83 115; D2 12 83 115;
  D2 12 83 116; D2 12 83 116; D2 12 83 116; D2 12 83 116; D2 12 83 116; D2 12 83 116; D2 12 83 116; D2 12 83 116;
  D2 12 83 116; D2 12 83 116; D2 12 83 116; D2 12 83 116; D2 12 83 116; D2 12 83 116; D2 12 83 116; D2 12 83 116;
  D2 13 83 32; D2 13 83 32; D2 13 83 32; D2 13 83 32; D2 13 83 32; D2 13 83 32; D2 13 83 32; D2 13 83 32; D2 13 83 37;
  D2 13 83 37; D2 13 83 37; D2 13 83 37; D2 13 83 37; D2 13 83 37; D2 13 83 37; D2 13 83 37; D2 13 83 45; D2 13 83 45;
  D2 13 83 45; D2 13 83 45; D2 13 83 45; D2 13 83 45; D2 13 83 45; D2 13 83 45; D2 13 83 46; D2 13 83 46; D2 13 83 46;
  D2 13 83 46; D2 13 83 46; D2 13 83 46; D2 13 83 46; D2 13 83 46; D2 13 83 47; D2 13 83 47; D2 13 83 47; D2 13 83 47;
  D2 13 83 47; D2 13 83 47; D2 13 83 47; D2 13 83 47; D2 13 83 51; D2 13 83 51; D2 13 83 51; D2 13 83 51; D2 13 83 51;
  D2 13 83 51; D2 13 83 51; D2 13 83 51; D2 13 83 52; D2 13 83 52; D2 13 83 52; D2 13 83 52; D2 13 83 52; D2 13 83 52;
  D2 13 83 52; D2 13 83 52; D2 13 83 53; D2 13 83 53; D2 13 83 53; D2 13 83 53; D2 13 83 53; D2 13 83 53; D2 13 83 53;
  D2 13 83 53; D2 13 83 54; D2 13 83 54; D2 13 83 54; D2 13 83 54; D2 13 83 54; D2 13 83 54; D2 13 83 54; D2 13 83 54;
  D2 13 83 55; D2 13 83 55; D2 13 83 55; D2 13 83 55; D2 13 83 55; D2 13 83 55; D2 13 83 55; D2 13 83 55; D2 13 83 56;
  D2 13 83 56; D2 13 83 56; D2 13 83 56; D2 13 83 56; D2 13 83 56; D2 13 83 56; D2 13 83 56; D2 13 83 57; D2 13 83 57;
  D2 13 83 57; D2 13 83 57; D2 13 83 57; D2 13 83 57; D2 13 83 57; D2 13 83 57].
Definition hdecs_221 : list hdec := [
  D2 13 83 61; D2 13 83 61; D2 13 83 61; D2 13 83 61; D2 13 83 61; D2 13 83 61; D2 13 83 61; D2 13 83 61; D2 13 83 65;
  D2 13 83 65; D2 13 83 65; D2 13 83 65; D2 13 83 65; D2 13 83 65; D2 13 83 65; D2 13 83 65; D2 13 83 95; D2 13 83 95;
  D2 13 83 95; D2 13 83 95; D2 13 83 95; D2 13 83 95; D2 13 83 95; D2 13 83 95; D2 13 83 98; D2 13 83 98; D2 13 83 98;
  D2 13 83 98; D2 13 83 98; D2 13 83 98; D2 13 83 98; D2 13 83 98; D2 13 83 100; D2 13 83 100; D2 13 83 100;
  D2 13 83 100; D2 13 83 100; D2 13 83 100; D2 13 83 100; D2 13 83 100; D2 13 83 102; D2 13 83 102; D2 13 83 102;
  D2 13 83 102; D2 13 83 102; D2 13 83 102; D2 13 83 102; D2 13 83 102; D2 13 83 103; D2 13 83 103; D2 13 83 103;
  D2 13 83 103; D2 13 83 103; D2 13 83 103; D2 13 83 103; D2 13 83 103; D2 13 83 104; D2 13 83 104; D2 13 83 104;
  D2 13 83 104; D2 13 83 104; D2 13 83 104; D2 13 83 104; D2 13 83 104; D2 13 83 108; D2 13 83 108; D2 13 83 108;
  D2 13 83 108; D2 13 83 108; D2 13 83 108; D2 13 83 108; D2 13 83 108; D2 13 83 109; D2 13 83 109; D2 13 83 109;
  D2 13 83 109; D2 13 83 109; D2 13 83 109; D2 13 83 109; D2 13 83 109; D2 13 83 110; D2 13 83 110; D2 13 83 110;
  D2 13 83 110; D2 13 83 110; D2 13 83 110; D2 13 83 110; D2 13 83 110; D2 13 83 112; D2 13 83 112; D2 13 83 112;
  D2 13 83 112; D2 13 83 112; D2 13 83 112; D2 13 83 112; D2 13 83 112; D2 13 83 114; D2 13 83 114; D2 13 83 114;
  D2 13 83 114; D2 13 83 114; D2 13 83 114; D2 13 83 114; D2 13 83 114; D2 13 83 117; D2 13 83 117; D2 13 83 117;
  D2 13 83 117; D2 13 83 117; D2 13 83 117; D2 13 83 117; D2 13 83 117; D2 14 83 58; D2 14 83 58; D2 14 83 58;
  D2 14 83 58; D2 14 83 66; D2 14 83 66; D2 14 83 66; D2 14 83 66; D2 14 83 67; D2 14 83 67; D2 14 83 67; D2 14 83 67;
  D2 14 83 68; D2 14 83 68; D2 14 83 68; D2 14 83 68; D2 14 83 69; D2 14 83 69; D2 14 83 69; D2 14 83 69; D2 14 83 70;
  D2 14 83 70; D2 14 83 70; D2 14 83 70; D2 14 83 71; D2 14 83 71; D2 14 83 71; D2 14 83 71; D2 14 83 72; D2 14 83 72;
  D2 14 83 72; D2 14 83 72; D2 14 83 73; D2 14 83 73; D2 14 83 73; D2 14 83 73; D2 14 83 74; D2 14 83 74; D2 14 83 74;
  D2 14 83 74; D2 14 83 75; D2 14 83 75; D2 14 83 75; D2 14 83 75; D2 14 83 76; D2 14 83 76; D2 14 83 76; D2 14 83 76;
  D2 14 83 77; D2 14 83 77; D2 14 83 77; D2 14 83 77; D2 14 83 78; D2 14 83 78; D2 14 83 78; D2 14 83 78; D2 14 83 79;
  D2 14 83 79; D2 14 83 79; D2 14 83 79; D2 14 83 80; D2 14 83 80; D2 14 83 80; D2 14 83 80; D2 14 83 81; D2 14 83 81;
  D2 14 83 81; D2 14 83 81; D2 14 83 82; D2 14 83 82; D2 14 83 82; D2 14 83 82; D2 14 83 83; D2 14 83 83; D2 14 83 83;
  D2 14 83 83; D2 14 83 84; D2 14 83 84; D2 14 83 84; D2 14 83 84; D2 14 83 85; D2 14 83 85; D2 14 83 85; D2 14 83 85;
  D2 14 83 86; D2 14 83 86; D2 14 83 86; D2 14 83 86; D2 14 83 87; D2 14 83 87; D2 14 83 87; D2 14 83 87; D2 14 83 89;
  D2 14 83 89; D2 14 83 89; D2 14 83 89; D2 14 83 106; D2 14 83 106; D2 14 83 106; D2 14 83 106; D2 14 83 107;
  D2 14 83 107; D2 14 83 107; D2 14 83 107; D2 14 83 113; D2 14 83 113; D2 14 83 113; D2 14 83 113; D2 14 83 118;
  D2 14 83 118; D2 14 83 118; D2 14 83 118; D2 14 83 119; D2 14 83 119; D2 14 83 119; D2 14 83 119; D2 14 83 120;
  D2 14 83 120; D2 14 83 120; D2 14 83 120; D2 14 83 121; D2 14 83 121; D2 14 83 121; D2 14 83 121; D2 14 83 122;
  D2 14 83 122; D2 14 83 122; D2 14 83 122; D2 15 83 38; D2 15 83 38; D2 15 83 42; D2 15 83 42; D2 15 83 44;
  D2 15 83 44; D2 15 83 59; D2 15 83 59; D2 15 83 88; D2 15 83 88; D2 15 83 90; D2 15 83 90; D1 7 83; D1 7 83;
  D1 7 83; D1 7 83].
Definition hdecs_222 : list hdec := [
  D2 12 84 48; D2 12 84 48; D2 12 84 48; D2 12 84 48; D2 12 84 48; D2 12 84 48; D2 12 84 48; D2 12 84 48; D2 12 84 48;
  D2 12 84 48; D2 12 84 48; D2 12 84 48; D2 12 84 48; D2 12 84 48; D2 12 84 48; D2 12 84 48; D2 12 84 49; D2 12 84 49;
  D2 12 84 49; D2 12 84 49; D2 12 84 49; D2 12 84 49; D2 12 84 49; D2 12 84 49; D2 12 84 49; D2 12 84 49; D2 12 84 49;
  D2 12 84 49; D2 12 84 49; D2 12 84 49; D2 12 84 49; D2 12 84 49; D2 12 84 50; D2 12 84 50; D2 12 84 50; D2 12 84 50;
  D2 12 84 50; D2 12 84 50; D2 12 84 50; D2 12 84 50; D2 12 84 50; D2 12 84 50; D2 12 84 50; D2 12 84 50; D2 12 84 50;
  D2 12 84 50; D2 12 84 50; D2 12 84 50; D2 12 84 97; D2 12 84 97; D2 12 84 97; D2 12 84 97; D2 12 84 97; D2 12 84 97;
  D2 12 84 97; D2 12 84 97; D2 12 84 97; D2 12 84 97; D2 12 84 97; D2 12 84 97; D2 12 84 97; D2 12 84 97; D2 12 84 97;
  D2 12 84 97; D2 12 84 99; D2 12 84 99; D2 12 84 99; D2 12 84 99; D2 12 84 99; D2 12 84 99; D2 12 84 99; D2 12 84 99;
  D2 12 84 99; D2 12 84 99; D2 12 84 99; D2 12 84 99; D2 12 84 99; D2 12 84 99; D2 12 84 99; D2 12 84 99;
  D2 12 84 101; D2 12 84 101; D2 12 84 101; D2 12 84 101; D2 12 84 101; D2 12 84 101; D2 12 84 101; D2 12 84 101;
  D2 12 84 101; D2 12 84 101; D2 12 84 101; D2 12 84 101; D2 12 84 101; D2 12 84 101; D2 12 84 101; D2 12 84 101;
  D2 12 84 105; D2 12 84 105; D2 12 84 105; D2 12 84 105; D2 12 84 105; D2 12 84 105; D2 12 84 105; D2 12 84 105;
  D2 12 84 105; D2 12 84 105; D2 12 84 105; D2 12 84 105; D2 12 84 105; D2 12 84 105; D2 12 84 105; D2 12 84 105;
  D2 12 84 111; D2 12 84 111; D2 12 84 111; D2 12 84 111; D2 12 84 111; D2 12 84 111; D2 12 84 111; D2 12 84 111;
  D2 12 84 111; D2 12 84 111; D2 12 84 111; D2 12 84 111; D2 12 84 111; D2 12 84 111; D2 12 84 111; D2 12 84 111;
  D2 12 84 115; D2 12 84 115; D2 12 84 115; D2 12 84 115; D2 12 84 115; D2 12 84 115; D2 12 84 115; D2 12 84 115;
  D2 12 84 115; D2 12 84 115; D2 12 84 115; D2 12 84 115; D2 12 84 115; D2 12 84 115; D2 12 84 115; D2 12 84 115;
  D2 12 84 116; D2 12 84 116; D2 12 84 116; D2 12 84 116; D2 12 84 116; D2 12 84 116; D2 12 84 116; D2 12 84 116;
  D2 12 84 116; D2 12 84 116; D2 12 84 116; D2 12 84 116; D2 12 84 116; D2 12 84 116; D2 12 84 116; D2 12 84 116;
  D2 13 84 32; D2 13 84 32; D2 13 84 32; D2 13 84 32; D2 13 84 32; D2 13 84 32; D2 13 84 32; D2 13 84 32; D2 13 84 37;
  D2 13 84 37; D2 13 84 37; D2 13 84 37; D2 13 84 37; D2 13 84 37; D2 13 84 37; D2 13 84 37; D2 13 84 45; D2 13 84 45;
  D2 13 84 45; D2 13 84 45; D2 13 84 45; D2 13 84 45; D2 13 84 45; D2 13 84 45; D2 13 84 46; D2 13 84 46; D2 13 84 46;
  D2 13 84 46; D2 13 84 46; D2 13 84 46; D2 13 84 46; D2 13 84 46; D2 13 84 47; D2 13 84 47; D2 13 84 47; D2 13 84 47;
  D2 13 84 47; D2 13 84 47; D2 13 84 47; D2 13 84 47; D2 13 84 51; D2 13 84 51; D2 13 84 51; D2 13 84 51; D2 13 84 51;
  D2 13 84 51; D2 13 84 51; D2 13 84 51; D2 13 84 52; D2 13 84 52; D2 13 84 52; D2 13 84 52; D2 13 84 52; D2 13 84 52;
  D2 13 84 52; D2 13 84 52; D2 13 84 53; D2 13 84 53; D2 13 84 53; D2 13 84 53; D2 13 84 53; D2 13 84 53; D2 13 84 53;
  D2 13 84 53; D2 13 84 54; D2 13 84 54; D2 13 84 54; D2 13 84 54; D2 13 84 54; D2 13 84 54; D2 13 84 54; D2 13 84 54;
  D2 13 84 55; D2 13 84 55; D2 13 84 55; D2 13 84 55; D2 13 84 55; D2 13 84 55; D2 13 84 55; D2 13 84 55; D2 13 84 56;
  D2 13 84 56; D2 13 84 56; D2 13 84 56; D2 13 84 56; D2 13 84 56; D2 13 84 56; D2 13 84 56; D2 13 84 57; D2 13 84 57;
  D2 13 84 57; D2 13 84 57; D2 13 84 57; D2 13 84 57; D2 13 84 57; D2 13 84 57].
Definition hdecs_223 : list hdec := [
  D2 13 84 61; D2 13 84 61; D2 13 84 61; D2 13 84 61; D2 13 84 61; D2 13 84 61; D2 13 84 61; D2 13 84 61; D2 13 84 65;
  D2 13 84 65; D2 13 84 65; D2 13 84 65; D2 13 84 65; D2 13 84 65; D2 13 84 65; D2 13 84 65; D2 13 84 95; D2 13 84 95;
  D2 13 84 95; D2 13 84 95; D2 13 84 95; D2 13 84 95; D2 13 84 95; D2 13 84 95; D2 13 84 98; D2 13 84 98; D2 13 84 98;
  D2 13 84 98; D2 13 84 98; D2 13 84 98; D2 13 84 98; D2 13 84 98; D2 13 84 100; D2 13 84 100; D2 13 84 100;
  D2 13 84 100; D2 13 84 100; D2 13 84 100; D2 13 84 100; D2 13 84 100; D2 13 84 102; D2 13 84 102; D2 13 84 102;
  D2 13 84 102; D2 13 84 102; D2 13 84 102; D2 13 84 102; D2 13 84 102; D2 13 84 103; D2 13 84 103; D2 13 84 103;
  D2 13 84 103; D2 13 84 103; D2 13 84 103; D2 13 84 103; D2 13 84 103; D2 13 84 104; D2 13 84 104; D2 13 84 104;
  D2 13 84 104; D2 13 84 104; D2 13 84 104; D2 13 84 104; D2 13 84 104; D2 13 84 108; D2 13 84 108; D2 13 84 108;
  D2 13 84 108; D2 13 84 108; D2 13 84 108; D2 13 84 108; D2 13 84 108; D2 13 84 109; D2 13 84 109; D2 13 84 109;
  D2 13 84 109; D2 13 84 109; D2 13 84 109; D2 13 84 109; D2 13 84 109; D2 13 84 110; D2 13 84 110; D2 13 84 110;
  D2 13 84 110; D2 13 84 110; D2 13 84 110; D2 13 84 110; D2 13 84 110; D2 13 84 112; D2 13 84 112; D2 13 84 112;
  D2 13 84 112; D2 13 84 112; D2 13 84 112; D2 13 84 112; D2 13 84 112; D2 13 84 114; D2 13 84 114; D2 13 84 114;
  D2 13 84 114; D2 13 84 114; D2 13 84 114; D2 13 84 114; D2 13 84 114; D2 13 84 117; D2 13 84 117; D2 13 84 117;
  D2 13 84 117; D2 13 84 117; D2 13 84 117; D2 13 84 117; D2 13 84 117; D2 14 84 58; D2 14 84 58; D2 14 84 58;
  D2 14 84 58; D2 14 84 66; D2 14 84 66; D2 14 84 66; D2 14 84 66; D2 14 84 67; D2 14 84 67; D2 14 84 67; D2 14 84 67;
  D2 14 84 68; D2 14 84 68; D2 14 84 68; D2 14 84 68; D2 14 84 69; D2 14 84 69; D2 14 84 69; D2 14 84 69; D2 14 84 70;
  D2 14 84 70; D2 14 84 70; D2 14 84 70; D2 14 84 71; D2 14 84 71; D2 14 84 71; D2 14 84 71; D2 14 84 72; D2 14 84 72;
  D2 14 84 72; D2 14 84 72; D2 14 84 73; D2 14 84 73; D2 14 84 73; D2 14 84 73; D2 14 84 74; D2 14 84 74; D2 14 84 74;
  D2 14 84 74; D2 14 84 75; D2 14 84 75; D2 14 84 75; D2 14 84 75; D2 14 84 76; D2 14 84 76; D2 14 84 76; D2 14 84 76;
  D2 14 84 77; D2 14 84 77; D2 14 84 77; D2 14 84 77; D2 14 84 78; D2 14 84 78; D2 14 84 78; D2 14 84 78; D2 14 84 79;
  D2 14 84 79; D2 14 84 79; D2 14 84 79; D2 14 84 80; D2 14 84 80; D2 14 84 80; D2 14 84 80; D2 14 84 81; D2 14 84 81;
  D2 14 84 81; D2 14 84 81; D2 14 84 82; D2 14 84 82; D2 14 84 82; D2 14 84 82; D2 14 84 83; D2 14 84 83; D2 14 84 83;
  D2 14 84 83; D2 14 84 84; D2 14 84 84; D2 14 84 84; D2 14 84 84; D2 14 84 85; D2 14 84 85; D2 14 84 85; D2 14 84 85;
  D2 14 84 86; D2 14 84 86; D2 14 84 86; D2 14 84 86; D2 14 84 87; D2 14 84 87; D2 14 84 87; D2 14 84 87; D2 14 84 89;
  D2 14 84 89; D2 14 84 89; D2 14 84 89; D2 14 84 106; D2 14 84 106; D2 14 84 106; D2 14 84 106; D2 14 84 107;
  D2 14 84 107; D2 14 84 107; D2 14 84 107; D2 14 84 113; D2 14 84 113; D2 14 84 113; D2 14 84 113; D2 14 84 118;
  D2 14 84 118; D2 14 84 118; D2 14 84 118; D2 14 84 119; D2 14 84 119; D2 14 84 119; D2 14 84 119; D2 14 84 120;
  D2 14 84 120; D2 14 84 120; D2 14 84 120; D2 14 84 121; D2 14 84 121; D2 14 84 121; D2 14 84 121; D2 14 84 122;
  D2 14 84 122; D2 14 84 122; D2 14 84 122; D2 15 84 38; D2 15 84 38; D2 15 84 42; D2 15 84 42; D2 15 84 44;
  D2 15 84 44; D2 15 84 59; D2 15 84 59; D2 15 84 88; D2 15 84 88; D2 15 84 90; D2 15 84 90; D1 7 84; D1 7 84;
  D1 7 84; D1 7 84].
Definition hdecs_224 : list hdec := [
  D2 12 85 48; D2 12 85 48; D2 12 85 48; D2 12 85 48; D2 12 85 48; D2 12 85 48; D2 12 85 48; D2 12 85 48; D2 12 85 48;
  D2 12 85 48; D2 12 85 48; D2 12 85 48; D2 12 85 48; D2 12 85 48; D2 12 85 48; D2 12 85 48; D2 12 85 49; D2 12 85 49;
  D2 12 85 49; D2 12 85 49; D2 12 85 49; D2 12 85 49; D2 12 85 49; D2 12 85 49; D2 12 85 49; D2 12 85 49; D2 12 85 49;
  D2 12 85 49; D2 12 85 49; D2 12 85 49; D2 12 85 49; D2 12 85 49; D2 12 85 50; D2 12 85 50; D2 12 85 50; D2 12 85 50;
  D2 12 85 50; D2 12 85 50; D2 12 85 50; D2 12 85 50; D2 12 85 50; D2 12 85 50; D2 12 85 50; D2 12 85 50; D2 12 85 50;
  D2 12 85 50; D2 12 85 50; D2 12 85 50; D2 12 85 97; D2 12 85 97; D2 12 85 97; D2 12 85 97; D2 12 85 97; D2 12 85 97;
  D2 12 85 97; D2 12 85 97; D2 12 85 97; D2 12 85 97; D2 12 85 97; D2 12 85 97; D2 12 85 97; D2 12 85 97; D2 12 85 97;
  D2 12 85 97; D2 12 85 99; D2 12 85 99; D2 12 85 99; D2 12 85 99; D2 12 85 99; D2 12 85 99; D2 12 85 99; D2 12 85 99;
  D2 12 85 99; D2 12 85 99; D2 12 85 99; D2 12 85 99; D2 12 85 99; D2 12 85 99; D2 12 85 99; D2 12 85 99;
  D2 12 85 101; D2 12 85 101; D2 12 85 101; D2 12 85 101; D2 12 85 101; D2 12 85 101; D2 12 85 101; D2 12 85 101;
  D2 12 85 101; D2 12 85 101; D2 12 85 101; D2 12 85 101; D2 12 85 101; D2 12 85 101; D2 12 85 101; D2 12 85 101;
  D2 12 85 105; D2 12 85 105; D2 12 85 105; D2 12 85 105; D2 12 85 105; D2 12 85 105; D2 12 85 105; D2 12 85 105;
  D2 12 85 105; D2 12 85 105; D2 12 85 105; D2 12 85 105; D2 12 85 105; D2 12 85 105; D2 12 85 105; D2 12 85 105;
  D2 12 85 111; D2 12 85 111; D2 12 85 111; D2 12 85 111; D2 12 85 111; D2 12 85 111; D2 12 85 111; D2 12 85 111;
  D2 12 85 111; D2 12 85 111; D2 12 85 111; D2 12 85 111; D2 12 85 111; D2 12 85 111; D2 12 85 111; D2 12 85 111;
  D2 12 85 115; D2 12 85 115; D2 12 85 115; D2 12 85 115; D2 12 85 115; D2 12 85 115; D2 12 85 115; D2 12 85 115;
  D2 12 85 115; D2 12 85 115; D2 12 85 115; D2 12 85 115; D2 12 85 115; D2 12 85 115; D2 12 85 115; D2 12 85 115;
  D2 12 85 116; D2 12 85 116; D2 12 85 116; D2 12 85 116; D2 12 85 116; D2 12 85 116; D2 12 85 116; D2 12 85 116;
  D2 12 85 116; D2 12 85 116; D2 12 85 116; D2 12 85 116; D2 12 85 116; D2 12 85 116; D2 12 85 116; D2 12 85 116;
  D2 13 85 32; D2 13 85 32; D2 13 85 32; D2 13 85 32; D2 13 85 32; D2 13 85 32; D2 13 85 32; D2 13 85 32; D2 13 85 37;
  D2 13 85 37; D2 13 85 37; D2 13 85 37; D2 13 85 37; D2 13 85 37; D2 13 85 37; D2 13 85 37; D2 13 85 45; D2 13 85 45;
  D2 13 85 45; D2 13 85 45; D2 13 85 45; D2 13 85 45; D2 13 85 45; D2 13 85 45; D2 13 85 46; D2 13 85 46; D2 13 85 46;
  D2 13 85 46; D2 13 85 46; D2 13 85 46; D2 13 85 46; D2 13 85 46; D2 13 85 47; D2 13 85 47; D2 13 85 47; D2 13 85 47;
  D2 13 85 47; D2 13 85 47; D2 13 85 47; D2 13 85 47; D2 13 85 51; D2 13 85 51; D2 13 85 51; D2 13 85 51; D2 13 85 51;
  D2 13 85 51; D2 13 85 51; D2 13 85 51; D2 13 85 52; D2 13 85 52; D2 13 85 52; D2 13 85 52; D2 13 85 52; D2 13 85 52;
  D2 13 85 52; D2 13 85 52; D2 13 85 53; D2 13 85 53; D2 13 85 53; D2 13 85 53; D2 13 85 53; D2 13 85 53; D2 13 85 53;
  D2 13 85 53; D2 13 85 54; D2 13 85 54; D2 13 85 54; D2 13 85 54; D2 13 85 54; D2 13 85 54; D2 13 85 54; D2 13 85 54;
  D2 13 85 55; D2 13 85 55; D2 13 85 55; D2 13 85 55; D2 13 85 55; D2 13 85 55; D2 13 85 55; D2 13 85 55; D2 13 85 56;
  D2 13 85 56; D2 13 85 56; D2 13 85 56; D2 13 85 56; D2 13 85 56; D2 13 85 56; D2 13 85 56; D2 13 85 57; D2 13 85 57;
  D2 13 85 57; D2 13 85 57; D2 13 85 57; D2 13 85 57; D2 13 85 57; D2 13 85 57].
Definition hdecs_225 : list hdec := [
  D2 13 85 61; D2 13 85 61; D2 13 85 61; D2 13 85 61; D2 13 85 61; D2 13 85 61; D2 13 85 61; D2 13 85 61; D2 13 85 65;
  D2 13 85 65; D2 13 85 65; D2 13 85 65; D2 13 85 65; D2 13 85 65; D2 13 85 65; D2 13 85 65; D2 13 85 95; D2 13 85 95;
  D2 13 85 95; D2 13 85 95; D2 13 85 95; D2 13 85 95; D2 13 85 95; D2 13 85 95; D2 13 85 98; D2 13 85 98; D2 13 85 98;
  D2 13 85 98; D2 13 85 98; D2 13 85 98; D2 13 85 98; D2 13 85 98; D2 13 85 100; D2 13 85 100; D2 13 85 100;
  D2 13 85 100; D2 13 85 100; D2 13 85 100; D2 13 85 100; D2 13 85 100; D2 13 85 102; D2 13 85 102; D2 13 85 102;
  D2 13 85 102; D2 13 85 102; D2 13 85 102; D2 13 85 102; D2 13 85 102; D2 13 85 103; D2 13 85 103; D2 13 85 103;
  D2 13 85 103; D2 13 85 103; D2 13 85 103; D2 13 85 103; D2 13 85 103; D2 13 85 104; D2 13 85 104; D2 13 85 104;
  D2 13 85 104; D2 13 85 104; D2 13 85 104; D2 13 85 104; D2 13 85 104; D2 13 85 108; D2 13 85 108; D2 13 85 108;
  D2 13 85 108; D2 13 85 108; D2 13 85 108; D2 13 85 108; D2 13 85 108; D2 13 85 109; D2 13 85 109; D2 13 85 109;
  D2 13 85 109; D2 13 85 109; D2 13 85 109; D2 13 85 109; D2 13 85 109; D2 13 85 110; D2 13 85 110; D2 13 85 110;
  D2 13 85 110; D2 13 85 110; D2 13 85 110; D2 13 85 110; D2 13 85 110; D2 13 85 112; D2 13 85 112; D2 13 85 112;
  D2 13 85 112; D2 13 85 112; D2 13 85 112; D2 13 85 112; D2 13 85 112; D2 13 85 114; D2 13 85 114; D2 13 85 114;
  D2 13 85 114; D2 13 85 114; D2 13 85 114; D2 13 85 114; D2 13 85 114; D2 13 85 117; D2 13 85 117; D2 13 85 117;
  D2 13 85 117; D2 13 85 117; D2 13 85 117; D2 13 85 117; D2 13 85 117; D2 14 85 58; D2 14 85 58; D2 14 85 58;
  D2 14 85 58; D2 14 85 66; D2 14 85 66; D2 14 85 66; D2 14 85 66; D2 14 85 67; D2 14 85 67; D2 14 85 67; D2 14 85 67;
  D2 14 85 68; D2 14 85 68; D2 14 85 68; D2 14 85 68; D2 14 85 69; D2 14 85 69; D2 14 85 69; D2 14 85 69; D2 14 85 70;
  D2 14 85 70; D2 14 85 70; D2 14 85 70; D2 14 85 71; D2 14 85 71; D2 14 85 71; D2 14 85 71; D2 14 85 72; D2 14 85 72;
  D2 14 85 72; D2 14 85 72; D2 14 85 73; D2 14 85 73; D2 14 85 73; D2 14 85 73; D2 14 85 74; D2 14 85 74; D2 14 85 74;
  D2 14 85 74; D2 14 85 75; D2 14 85 75; D2 14 85 75; D2 14 85 75; D2 14 85 76; D2 14 85 76; D2 14 85 76; D2 14 85 76;
  D2 14 85 77; D2 14 85 77; D2 14 85 77; D2 14 85 77; D2 14 85 78; D2 14 85 78; D2 14 85 78; D2 14 85 78; D2 14 85 79;
  D2 14 85 79; D2 14 85 79; D2 14 85 79; D2 14 85 80; D2 14 85 80; D2 14 85 80; D2 14 85 80; D2 14 85 81; D2 14 85 81;
  D2 14 85 81; D2 14 85 81; D2 14 85 82; D2 14 85 82; D2 14 85 82; D2 14 85 82; D2 14 85 83; D2 14 85 83; D2 14 85 83;
  D2 14 85 83; D2 14 85 84; D2 14 85 84; D2 14 85 84; D2 14 85 84; D2 14 85 85; D2 14 85 85; D2 14 85 85; D2 14 85 85;
  D2 14 85 86; D2 14 85 86; D2 14 85 86; D2 14 85 86; D2 14 85 87; D2 14 85 87; D2 14 85 87; D2 14 85 87; D2 14 85 89;
  D2 14 85 89; D2 14 85 89; D2 14 85 89; D2 14 85 106; D2 14 85 106; D2 14 85 106; D2 14 85 106; D2 14 85 107;
  D2 14 85 107; D2 14 85 107; D2 14 85 107; D2 14 85 113; D2 14 85 113; D2 14 85 113; D2 14 85 113; D2 14 85 118;
  D2 14 85 118; D2 14 85 118; D2 14 85 118; D2 14 85 119; D2 14 85 119; D2 14 85 119; D2 14 85 119; D2 14 85 120;
  D2 14 85 120; D2 14 85 120; D2 14 85 120; D2 14 85 121; D2 14 85 121; D2 14 85 121; D2 14 85 121; D2 14 85 122;
  D2 14 85 122; D2 14 85 122; D2 14 85 122; D2 15 85 38; D2 15 85 38; D2 15 85 42; D2 15 85 42; D2 15 85 44;
  D2 15 85 44; D2 15 85 59; D2 15 85 59; D2 15 85 88; D2 15 85 88; D2 15 85 90; D2 15 85 90; D1 7 85; D1 7 85;
  D1 7 85; D1 7 85].
Definition hdecs_226 : list hdec := [
  D2 12 86 48; D2 12 86 48; D2 12 86 48; D2 12 86 48; D2 12 86 48; D2 12 86 48; D2 12 86 48; D2 12 86 48; D2 12 86 48;
  D2 12 86 48; D2 12 86 48; D2 12 86 48; D2 12 86 48; D2 12 86 48; D2 12 86 48; D2 12 86 48; D2 12 86 49; D2 12 86 49;
  D2 12 86 49; D2 12 86 49; D2 12 86 49; D2 12 86 49; D2 12 86 49; D2 12 86 49; D2 12 86 49; D2 12 86 49; D2 12 86 49;
  D2 12 86 49; D2 12 86 49; D2 12 86 49; D2 12 86 49; D2 12 86 49; D2 12 86 50; D2 12 86 50; D2 12 86 50; D2 12 86 50;
  D2 12 86 50; D2 12 86 50; D2 12 86 50; D2 12 86 50; D2 12 86 50; D2 12 86 50; D2 12 86 50; D2 12 86 50; D2 12 86 50;
  D2 12 86 50; D2 12 86 50; D2 12 86 50; D2 12 86 97; D2 12 86 97; D2 12 86 97; D2 12 86 97; D2 12 86 97; D2 12 86 97;
  D2 12 86 97; D2 12 86 97; D2 12 86 97; D2 12 86 97; D2 12 86 97; D2 12 86 97; D2 12 86 97; D2 12 86 97; D2 12 86 97;
  D2 12 86 97; D2 12 86 99; D2 12 86 99; D2 12 86 99; D2 12 86 99; D2 12 86 99; D2 12 86 99; D2 12 86 99; D2 12 86 99;
  D2 12 86 99; D2 12 86 99; D2 12 86 99; D2 12 86 99; D2 12 86 99; D2 12 86 99; D2 12 86 99; D2 12 86 99;
  D2 12 86 101; D2 12 86 101; D2 12 86 101; D2 12 86 101; D2 12 86 101; D2 12 86 101; D2 12 86 101; D2 12 86 101;
  D2 12 86 101; D2 12 86 101; D2 12 86 101; D2 12 86 101; D2 12 86 101; D2 12 86 101; D2 12 86 101; D2 12 86 101;
  D2 12 86 105; D2 12 86 105; D2 12 86 105; D2 12 86 105; D2 12 86 105; D2 12 86 105; D2 12 86 105; D2 12 86 105;
  D2 12 86 105; D2 12 86 105; D2 12 86 105; D2 12 86 105; D2 12 86 105; D2 12 86 105; D2 12 86 105; D2 12 86 105;
  D2 12 86 111; D2 12 86 111; D2 12 86 111; D2 12 86 111; D2 12 86 111; D2 12 86 111; D2 12 86 111; D2 12 86 111;
  D2 12 86 111; D2 12 86 111; D2 12 86 111; D2 12 86 111; D2 12 86 111; D2 12 86 111; D2 12 86 111; D2 12 86 111;
  D2 12 86 115; D2 12 86 115; D2 12 86 115; D2 12 86 115; D2 12 86 115; D2 12 86 115; D2 12 86 115; D2 12 86 115;
  D2 12 86 115; D2 12 86 115; D2 12 86 115; D2 12 86 115; D2 12 86 115; D2 12 86 115; D2 12 86 115; D2 12 86 115;
  D2 12 86 116; D2 12 86 116; D2 12 86 116; D2 12 86 116; D2 12 86 116; D2 12 86 116; D2 12 86 116; D2 12 86 116;
  D2 12 86 116; D2 12 86 116; D2 12 86 116; D2 12 86 116; D2 12 86 116; D2 12 86 116; D2 12 86 116; D2 12 86 116;
  D2 13 86 32; D2 13 86 32; D2 13 86 32; D2 13 86 32; D2 13 86 32; D2 13 86 32; D2 13 86 32; D2 13 86 32; D2 13 86 37;
  D2 13 86 37; D2 13 86 37; D2 13 86 37; D2 13 86 37; D2 13 86 37; D2 13 86 37; D2 13 86 37; D2 13 86 45; D2 13 86 45;
  D2 13 86 45; D2 13 86 45; D2 13 86 45; D2 13 86 45; D2 13 86 45; D2 13 86 45; D2 13 86 46; D2 13 86 46; D2 13 86 46;
  D2 13 86 46; D2 13 86 46; D2 13 86 46; D2 13 86 46; D2 13 86 46; D2 13 86 47; D2 13 86 47; D2 13 86 47; D2 13 86 47;
  D2 13 86 47; D2 13 86 47; D2 13 86 47; D2 13 86 47; D2 13 86 51; D2 13 86 51; D2 13 86 51; D2 13 86 51; D2 13 86 51;
  D2 13 86 51; D2 13 86 51; D2 13 86 51; D2 13 86 52; D2 13 86 52; D2 13 86 52; D2 13 86 52; D2 13 86 52; D2 13 86 52;
  D2 13 86 52; D2 13 86 52; D2 13 86 53; D2 13 86 53; D2 13 86 53; D2 13 86 53; D2 13 86 53; D2 13 86 53; D2 13 86 53;
  D2 13 86 53; D2 13 86 54; D2 13 86 54; D2 13 86 54; D2 13 86 54; D2 13 86 54; D2 13 86 54; D2 13 86 54; D2 13 86 54;
  D2 13 86 55; D2 13 86 55; D2 13 86 55; D2 13 86 55; D2 13 86 55; D2 13 86 55; D2 13 86 55; D2 13 86 55; D2 13 86 56;
  D2 13 86 56; D2 13 86 56; D2 13 86 56; D2 13 86 56; D2 13 86 56; D2 13 86 56; D2 13 86 56; D2 13 86 57; D2 13 86 57;
  D2 13 86 57; D2 13 86 57; D2 13 86 57; D2 13 86 57; D2 13 86 57; D2 13 86 57].
Definition hdecs_227 : list hdec := [
  D2 13 86 61; D2 13 86 61; D2 13 86 61; D2 13 86 61; D2 13 86 61; D2 13 86 61; D2 13 86 61; D2 13 86 61; D2 13 86 65;
  D2 13 86 65; D2 13 86 65; D2 13 86 65; D2 13 86 65; D2 13 86 65; D2 13 86 65; D2 13 86 65; D2 13 86 95; D2 13 86 95;
  D2 13 86 95; D2 13 86 95; D2 13 86 95; D2 13 86 95; D2 13 86 95; D2 13 86 95; D2 13 86 98; D2 13 86 98; D2 13 86 98;
  D2 13 86 98; D2 13 86 98; D2 13 86 98; D2 13 86 98; D2 13 86 98; D2 13 86 100; D2 13 86 100; D2 13 86 100;
  D2 13 86 100; D2 13 86 100; D2 13 86 100; D2 13 86 100; D2 13 86 100; D2 13 86 102; D2 13 86 102; D2 13 86 102;
  D2 13 86 102; D2 13 86 102; D2 13 86 102; D2 13 86 102; D2 13 86 102; D2 13 86 103; D2 13 86 103; D2 13 86 103;
  D2 13 86 103; D2 13 86 103; D2 13 86 103; D2 13 86 103; D2 13 86 103; D2 13 86 104; D2 13 86 104; D2 13 86 104;
  D2 13 86 104; D2 13 86 104; D2 13 86 104; D2 13 86 104; D2 13 86 104; D2 13 86 108; D2 13 86 108; D2 13 86 108;
  D2 13 86 108; D2 13 86 108; D2 13 86 108; D2 13 86 108; D2 13 86 108; D2 13 86 109; D2 13 86 109; D2 13 86 109;
  D2 13 86 109; D2 13 86 109; D2 13 86 109; D2 13 86 109; D2 13 86 109; D2 13 86 110; D2 13 86 110; D2 13 86 110;
  D2 13 86 110; D2 13 86 110; D2 13 86 110; D2 13 86 110; D2 13 86 110; D2 13 86 112; D2 13 86 112; D2 13 86 112;
  D2 13 86 112; D2 13 86 112; D2 13 86 112; D2 13 86 112; D2 13 86 112; D2 13 86 114; D2 13 86 114; D2 13 86 114;
  D2 13 86 114; D2 13 86 114; D2 13 86 114; D2 13 86 114; D2 13 86 114; D2 13 86 117; D2 13 86 117; D2 13 86 117;
  D2 13 86 117; D2 13 86 117; D2 13 86 117; D2 13 86 117; D2 13 86 117; D2 14 86 58; D2 14 86 58; D2 14 86 58;
  D2 14 86 58; D2 14 86 66; D2 14 86 66; D2 14 86 66; D2 14 86 66; D2 14 86 67; D2 14 86 67; D2 14 86 67; D2 14 86 67;
  D2 14 86 68; D2 14 86 68; D2 14 86 68; D2 14 86 68; D2 14 86 69; D2 14 86 69; D2 14 86 69; D2 14 86 69; D2 14 86 70;
  D2 14 86 70; D2 14 86 70; D2 14 86 70; D2 14 86 71; D2 14 86 71; D2 14 86 71; D2 14 86 71; D2 14 86 72; D2 14 86 72;
  D2 14 86 72; D2 14 86 72; D2 14 86 73; D2 14 86 73; D2 14 86 73; D2 14 86 73; D2 14 86 74; D2 14 86 74; D2 14 86 74;
  D2 14 86 74; D2 14 86 75; D2 14 86 75; D2 14 86 75; D2 14 86 75; D2 14 86 76; D2 14 86 76; D2 14 86 76; D2 14 86 76;
  D2 14 86 77; D2 14 86 77; D2 14 86 77; D2 14 86 77; D2 14 86 78; D2 14 86 78; D2 14 86 78; D2 14 86 78; D2 14 86 79;
  D2 14 86 79; D2 14 86 79; D2 14 86 79; D2 14 86 80; D2 14 86 80; D2 14 86 80; D2 14 86 80; D2 14 86 81; D2 14 86 81;
  D2 14 86 81; D2 14 86 81; D2 14 86 82; D2 14 86 82; D2 14 86 82; D2 14 86 82; D2 14 86 83; D2 14 86 83; D2 14 86 83;
  D2 14 86 83; D2 14 86 84; D2 14 86 84; D2 14 86 84; D2 14 86 84; D2 14 86 85; D2 14 86 85; D2 14 86 85; D2 14 86 85;
  D2 14 86 86; D2 14 86 86; D2 14 86 86; D2 14 86 86; D2 14 86 87; D2 14 86 87; D2 14 86 87; D2 14 86 87; D2 14 86 89;
  D2 14 86 89; D2 14 86 89; D2 14 86 89; D2 14 86 106; D2 14 86 106; D2 14 86 106; D2 14 86 106; D2 14 86 107;
  D2 14 86 107; D2 14 86 107; D2 14 86 107; D2 14 86 113; D2 14 86 113; D2 14 86 113; D2 14 86 113; D2 14 86 118;
  D2 14 86 118; D2 14 86 118; D2 14 86 118; D2 14 86 119; D2 14 86 119; D2 14 86 119; D2 14 86 119; D2 14 86 120;
  D2 14 86 120; D2 14 86 120; D2 14 86 120; D2 14 86 121; D2 14 86 121; D2 14 86 121; D2 14 86 121; D2 14 86 122;
  D2 14 86 122; D2 14 86 122; D2 14 86 122; D2 15 86 38; D2 15 86 38; D2 15 86 42; D2 15 86 42; D2 15 86 44;
  D2 15 86 44; D2 15 86 59; D2 15 86 59; D2 15 86 88; D2 15 86 88; D2 15 86 90; D2 15 86 90; D1 7 86; D1 7 86;
  D1 7 86; D1 7 86].
Definition hdecs_228 : list hdec := [
  D2 12 87 48; D2 12 87 48; D2 12 87 48; D2 12 87 48; D2 12 87 48; D2 12 87 48; D2 12 87 48; D2 12 87 48; D2 12 87 48;
  D2 12 87 48; D2 12 87 48; D2 12 87 48; D2 12 87 48; D2 12 87 48; D2 12 87 48; D2 12 87 48; D2 12 87 49; D2 12 87 49;
  D2 12 87 49; D2 12 87 49; D2 12 87 49; D2 12 87 49; D2 12 87 49; D2 12 87 49; D2 12 87 49; D2 12 87 49; D2 12 87 49;
  D2 12 87 49; D2 12 87 49; D2 12 87 49; D2 12 87 49; D2 12 87 49; D2 12 87 50; D2 12 87 50; D2 12 87 50; D2 12 87 50;
  D2 12 87 50; D2 12 87 50; D2 12 87 50; D2 12 87 50; D2 12 87 50; D2 12 87 50; D2 12 87 50; D2 12 87 50; D2 12 87 50;
  D2 12 87 50; D2 12 87 50; D2 12 87 50; D2 12 87 97; D2 12 87 97; D2 12 87 97; D2 12 87 97; D2 12 87 97; D2 12 87 97;
  D2 12 87 97; D2 12 87 97; D2 12 87 97; D2 12 87 97; D2 12 87 97; D2 12 87 97; D2 12 87 97; D2 12 87 97; D2 12 87 97;
  D2 12 87 97; D2 12 87 99; D2 12 87 99; D2 12 87 99; D2 12 87 99; D2 12 87 99; D2 12 87 99; D2 12 87 99; D2 12 87 99;
  D2 12 87 99; D2 12 87 99; D2 12 87 99; D2 12 87 99; D2 12 87 99; D2 12 87 99; D2 12 87 99; D2 12 87 99;
  D2 12 87 101; D2 12 87 101; D2 12 87 101; D2 12 87 101; D2 12 87 101; D2 12 87 101; D2 12 87 101; D2 12 87 101;
  D2 12 87 101; D2 12 87 101; D2 12 87 101; D2 12 87 101; D2 12 87 101; D2 12 87 101; D2 12 87 101; D2 12 87 101;
  D2 12 87 105; D2 12 87 105; D2 12 87 105; D2 12 87 105; D2 12 87 105; D2 12 87 105; D2 12 87 105; D2 12 87 105;
  D2 12 87 105; D2 12 87 105; D2 12 87 105; D2 12 87 105; D2 12 87 105; D2 12 87 105; D2 12 87 105; D2 12 87 105;
  D2 12 87 111; D2 12 87 111; D2 12 87 111; D2 12 87 111; D2 12 87 111; D2 12 87 111; D2 12 87 111; D2 12 87 111;
  D2 12 87 111; D2 12 87 111; D2 12 87 111; D2 12 87 111; D2 12 87 111; D2 12 87 111; D2 12 87 111; D2 12 87 111;
  D2 12 87 115; D2 12 87 115; D2 12 87 115; D2 12 87 115; D2 12 87 115; D2 12 87 115; D2 12 87 115; D2 12 87 115;
  D2 12 87 115; D2 12 87 115; D2 12 87 115; D2 12 87 115; D2 12 87 115; D2 12 87 115; D2 12 87 115; D2 12 87 115;
  D2 12 87 116; D2 12 87 116; D2 12 87 116; D2 12 87 116; D2 12 87 116; D2 12 87 116; D2 12 87 116; D2 12 87 116;
  D2 12 87 116; D2 12 87 116; D2 12 87 116; D2 12 87 116; D2 12 87 116; D2 12 87 116; D2 12 87 116; D2 12 87 116;
  D2 13 87 32; D2 13 87 32; D2 13 87 32; D2 13 87 32; D2 13 87 32; D2 13 87 32; D2 13 87 32; D2 13 87 32; D2 13 87 37;
  D2 13 87 37; D2 13 87 37; D2 13 87 37; D2 13 87 37; D2 13 87 37; D2 13 87 37; D2 13 87 37; D2 13 87 45; D2 13 87 45;
  D2 13 87 45; D2 13 87 45; D2 13 87 45; D2 13 87 45; D2 13 87 45; D2 13 87 45; D2 13 87 46; D2 13 87 46; D2 13 87 46;
  D2 13 87 46; D2 13 87 46; D2 13 87 46; D2 13 87 46; D2 13 87 46; D2 13 87 47; D2 13 87 47; D2 13 87 47; D2 13 87 47;
  D2 13 87 47; D2 13 87 47; D2 13 87 47; D2 13 87 47; D2 13 87 51; D2 13 87 51; D2 13 87 51; D2 13 87 51; D2 13 87 51;
  D2 13 87 51; D2 13 87 51; D2 13 87 51; D2 13 87 52; D2 13 87 52; D2 13 87 52; D2 13 87 52; D2 13 87 52; D2 13 87 52;
  D2 13 87 52; D2 13 87 52; D2 13 87 53; D2 13 87 53; D2 13 87 53; D2 13 87 53; D2 13 87 53; D2 13 87 53; D2 13 87 53;
  D2 13 87 53; D2 13 87 54; D2 13 87 54; D2 13 87 54; D2 13 87 54; D2 13 87 54; D2 13 87 54; D2 13 87 54; D2 13 87 54;
  D2 13 87 55; D2 13 87 55; D2 13 87 55; D2 13 87 55; D2 13 87 55; D2 13 87 55; D2 13 87 55; D2 13 87 55; D2 13 87 56;
  D2 13 87 56; D2 13 87 56; D2 13 87 56; D2 13 87 56; D2 13 87 56; D2 13 87 56; D2 13 87 56; D2 13 87 57; D2 13 87 57;
  D2 13 87 57; D2 13 87 57; D2 13 87 57; D2 13 87 57; D2 13 87 57; D2 13 87 57].
Definition hdecs_229 : list hdec := [
  D2 13 87 61; D2 13 87 61; D2 13 87 61; D2 13 87 61; D2 13 87 61; D2 13 87 61; D2 13 87 61; D2 13 87 61; D2 13 87 65;
  D2 13 87 65; D2 13 87 65; D2 13 87 65; D2 13 87 65; D2 13 87 65; D2 13 87 65; D2 13 87 65; D2 13 87 95; D2 13 87 95;
  D2 13 87 95; D2 13 87 95; D2 13 87 95; D2 13 87 95; D2 13 87 95; D2 13 87 95; D2 13 87 98; D2 13 87 98; D2 13 87 98;
  D2 13 87 98; D2 13 87 98; D2 13 87 98; D2 13 87 98; D2 13 87 98; D2 13 87 100; D2 13 87 100; D2 13 87 100;
  D2 13 87 100; D2 13 87 100; D2 13 87 100; D2 13 87 100; D2 13 87 100; D2 13 87 102; D2 13 87 102; D2 13 87 102;
  D2 13 87 102; D2 13 87 102; D2 13 87 102; D2 13 87 102; D2 13 87 102; D2 13 87 103; D2 13 87 103; D2 13 87 103;
  D2 13 87 103; D2 13 87 103; D2 13 87 103; D2 13 87 103; D2 13 87 103; D2 13 87 104; D2 13 87 104; D2 13 87 104;
  D2 13 87 104; D2 13 87 104; D2 13 87 104; D2 13 87 104; D2 13 87 104; D2 13 87 108; D2 13 87 108; D2 13 87 108;
  D2 13 87 108; D2 13 87 108; D2 13 87 108; D2 13 87 108; D2 13 87 108; D2 13 87 109; D2 13 87 109; D2 13 87 109;
  D2 13 87 109; D2 13 87 109; D2 13 87 109; D2 13 87 109; D2 13 87 109; D2 13 87 110; D2 13 87 110; D2 13 87 110;
  D2 13 87 110; D2 13 87 110; D2 13 87 110; D2 13 87 110; D2 13 87 110; D2 13 87 112; D2 13 87 112; D2 13 87 112;
  D2 13 87 112; D2 13 87 112; D2 13 87 112; D2 13 87 112; D2 13 87 112; D2 13 87 114; D2 13 87 114; D2 13 87 114;
  D2 13 87 114; D2 13 87 114; D2 13 87 114; D2 13 87 114; D2 13 87 114; D2 13 87 117; D2 13 87 117; D2 13 87 117;
  D2 13 87 117; D2 13 87 117; D2 13 87 117; D2 13 87 117; D2 13 87 117; D2 14 87 58; D2 14 87 58; D2 14 87 58;
  D2 14 87 58; D2 14 87 66; D2 14 87 66; D2 14 87 66; D2 14 87 66; D2 14 87 67; D2 14 87 67; D2 14 87 67; D2 14 87 67;
  D2 14 87 68; D2 14 87 68; D2 14 87 68; D2 14 87 68; D2 14 87 69; D2 14 87 69; D2 14 87 69; D2 14 87 69; D2 14 87 70;
  D2 14 87 70; D2 14 87 70; D2 14 87 70; D2 14 87 71; D2 14 87 71; D2 14 87 71; D2 14 87 71; D2 14 87 72; D2 14 87 72;
  D2 14 87 72; D2 14 87 72; D2 14 87 73; D2 14 87 73; D2 14 87 73; D2 14 87 73; D2 14 87 74; D2 14 87 74; D2 14 87 74;
  D2 14 87 74; D2 14 87 75; D2 14 87 75; D2 14 87 75; D2 14 87 75; D2 14 87 76; D2 14 87 76; D2 14 87 76; D2 14 87 76;
  D2 14 87 77; D2 14 87 77; D2 14 87 77; D2 14 87 77; D2 14 87 78; D2 14 87 78; D2 14 87 78; D2 14 87 78; D2 14 87 79;
  D2 14 87 79; D2 14 87 79; D2 14 87 79; D2 14 87 80; D2 14 87 80; D2 14 87 80; D2 14 87 80; D2 14 87 81; D2 14 87 81;
  D2 14 87 81; D2 14 87 81; D2 14 87 82; D2 14 87 82; D2 14 87 82; D2 14 87 82; D2 14 87 83; D2 14 87 83; D2 14 87 83;
  D2 14 87 83; D2 14 87 84; D2 14 87 84; D2 14 87 84; D2 14 87 84; D2 14 87 85; D2 14 87 85; D2 14 87 85; D2 14 87 85;
  D2 14 87 86; D2 14 87 86; D2 14 87 86; D2 14 87 86; D2 14 87 87; D2 14 87 87; D2 14 87 87; D2 14 87 87; D2 14 87 89;
  D2 14 87 89; D2 14 87 89; D2 14 87 89; D2 14 87 106; D2 14 87 106; D2 14 87 106; D2 14 87 106; D2 14 87 107;
  D2 14 87 107; D2 14 87 107; D2 14 87 107; D2 14 87 113; D2 14 87 113; D2 14 87 113; D2 14 87 113; D2 14 87 118;
  D2 14 87 118; D2 14 87 118; D2 14 87 118; D2 14 87 119; D2 14 87 119; D2 14 87 119; D2 14 87 119; D2 14 87 120;
  D2 14 87 120; D2 14 87 120; D2 14 87 120; D2 14 87 121; D2 14 87 121; D2 14 87 121; D2 14 87 121; D2 14 87 122;
  D2 14 87 122; D2 14 87 122; D2 14 87 122; D2 15 87 38; D2 15 87 38; D2 15 87 42; D2 15 87 42; D2 15 87 44;
  D2 15 87 44; D2 15 87 59; D2 15 87 59; D2 15 87 88; D2 15 87 88; D2 15 87 90; D2 15 87 90; D1 7 87; D1 7 87;
  D1 7 87; D1 7 87].
Definition hdecs_230 : list hdec := [
  D2 12 89 48; D2 12 89 48; D2 12 89 48; D2 12 89 48; D2 12 89 48; D2 12 89 48; D2 12 89 48; D2 12 89 48; D2 12 89 48;
  D2 12 89 48; D2 12 89 48; D2 12 89 48; D2 12 89 48; D2 12 89 48; D2 12 89 48; D2 12 89 48; D2 12 89 49; D2 12 89 49;
  D2 12 89 49; D2 12 89 49; D2 12 89 49; D2 12 89 49; D2 12 89 49; D2 12 89 49; D2 12 89 49; D2 12 89 49; D2 12 89 49;
  D2 12 89 49; D2 12 89 49; D2 12 89 49; D2 12 89 49; D2 12 89 49; D2 12 89 50; D2 12 89 50; D2 12 89 50; D2 12 89 50;
  D2 12 89 50; D2 12 89 50; D2 12 89 50; D2 12 89 50; D2 12 89 50; D2 12 89 50; D2 12 89 50; D2 12 89 50; D2 12 89 50;
  D2 12 89 50; D2 12 89 50; D2 12 89 50; D2 12 89 97; D2 12 89 97; D2 12 89 97; D2 12 89 97; D2 12 89 97; D2 12 89 97;
  D2 12 89 97; D2 12 89 97; D2 12 89 97; D2 12 89 97; D2 12 89 97; D2 12 89 97; D2 12 89 97; D2 12 89 97; D2 12 89 97;
  D2 12 89 97; D2 12 89 99; D2 12 89 99; D2 12 89 99; D2 12 89 99; D2 12 89 99; D2 12 89 99; D2 12 89 99; D2 12 89 99;
  D2 12 89 99; D2 12 89 99; D2 12 89 99; D2 12 89 99; D2 12 89 99; D2 12 89 99; D2 12 89 99; D2 12 89 99;
  D2 12 89 101; D2 12 89 101; D2 12 89 101; D2 12 89 101; D2 12 89 101; D2 12 89 101; D2 12 89 101; D2 12 89 101;
  D2 12 89 101; D2 12 89 101; D2 12 89 101; D2 12 89 101; D2 12 89 101; D2 12 89 101; D2 12 89 101; D2 12 89 101;
  D2 12 89 105; D2 12 89 105; D2 12 89 105; D2 12 89 105; D2 12 89 105; D2 12 89 105; D2 12 89 105; D2 12 89 105;
  D2 12 89 105; D2 12 89 105; D2 12 89 105; D2 12 89 105; D2 12 89 105; D2 12 89 105; D2 12 89 105; D2 12 89 105;
  D2 12 89 111; D2 12 89 111; D2 12 89 111; D2 12 89 111; D2 12 89 111; D2 12 89 111; D2 12 89 111; D2 12 89 111;
  D2 12 89 111; D2 12 89 111; D2 12 89 111; D2 12 89 111; D2 12 89 111; D2 12 89 111; D2 12 89 111; D2 12 89 111;
  D2 12 89 115; D2 12 89 115; D2 12 89 115; D2 12 89 115; D2 12 89 115; D2 12 89 115; D2 12 89 115; D2 12 89 115;
  D2 12 89 115; D2 12 89 115; D2 12 89 115; D2 12 89 115; D2 12 89 115; D2 12 89 115; D2 12 89 115; D2 12 89 115;
  D2 12 89 116; D2 12 89 116; D2 12 89 116; D2 12 89 116; D2 12 89 116; D2 12 89 116; D2 12 89 116; D2 12 89 116;
  D2 12 89 116; D2 12 89 116; D2 12 89 116; D2 12 89 116; D2 12 89 116; D2 12 89 116; D2 12 89 116; D2 12 89 116;
  D2 13 89 32; D2 13 89 32; D2 13 89 32; D2 13 89 32; D2 13 89 32; D2 13 89 32; D2 13 89 32; D2 13 89 32; D2 13 89 37;
  D2 13 89 37; D2 13 89 37; D2 13 89 37; D2 13 89 37; D2 13 89 37; D2 13 89 37; D2 13 89 37; D2 13 89 45; D2 13 89 45;
  D2 13 89 45; D2 13 89 45; D2 13 89 45; D2 13 89 45; D2 13 89 45; D2 13 89 45; D2 13 89 46; D2 13 89 46; D2 13 89 46;
  D2 13 89 46; D2 13 89 46; D2 13 89 46; D2 13 89 46; D2 13 89 46; D2 13 89 47; D2 13 89 47; D2 13 89 47; D2 13 89 47;
  D2 13 89 47; D2 13 89 47; D2 13 89 47; D2 13 89 47; D2 13 89 51; D2 13 89 51; D2 13 89 51; D2 13 89 51; D2 13 89 51;
  D2 13 89 51; D2 13 89 51; D2 13 89 51; D2 13 89 52; D2 13 89 52; D2 13 89 52; D2 13 89 52; D2 13 89 52; D2 13 89 52;
  D2 13 89 52; D2 13 89 52; D2 13 89 53; D2 13 89 53; D2 13 89 53; D2 13 89 53; D2 13 89 53; D2 13 89 53; D2 13 89 53;
  D2 13 89 53; D2 13 89 54; D2 13 89 54; D2 13 89 54; D2 13 89 54; D2 13 89 54; D2 13 89 54; D2 13 89 54; D2 13 89 54;
  D2 13 89 55; D2 13 89 55; D2 13 89 55; D2 13 89 55; D2 13 89 55; D2 13 89 55; D2 13 89 55; D2 13 89 55; D2 13 89 56;
  D2 13 89 56; D2 13 89 56; D2 13 89 56; D2 13 89 56; D2 13 89 56; D2 13 89 56; D2 13 89 56; D2 13 89 57; D2 13 89 57;
  D2 13 89 57; D2 13 89 57; D2 13 89 57; D2 13 89 57; D2 13 89 57; D2 13 89 57].
Definition hdecs_231 : list hdec := [
  D2 13 89 61; D2 13 89 61; D2 13 89 61; D2 13 89 61; D2 13 89 61; D2 13 89 61; D2 13 89 61; D2 13 89 61; D2 13 89 65;
  D2 13 89 65; D2 13 89 65; D2 13 89 65; D2 13 89 65; D2 13 89 65; D2 13 89 65; D2 13 89 65; D2 13 89 95; D2 13 89 95;
  D2 13 89 95; D2 13 89 95; D2 13 89 95; D2 13 89 95; D2 13 89 95; D2 13 89 95; D2 13 89 98; D2 13 89 98; D2 13 89 98;
  D2 13 89 98; D2 13 89 98; D2 13 89 98; D2 13 89 98; D2 13 89 98; D2 13 89 100; D2 13 89 100; D2 13 89 100;
  D2 13 89 100; D2 13 89 100; D2 13 89 100; D2 13 89 100; D2 13 89 100; D2 13 89 102; D2 13 89 102; D2 13 89 102;
  D2 13 89 102; D2 13 89 102; D2 13 89 102; D2 13 89 102; D2 13 89 102; D2 13 89 103; D2 13 89 103; D2 13 89 103;
  D2 13 89 103; D2 13 89 103; D2 13 89 103; D2 13 89 103; D2 13 89 103; D2 13 89 104; D2 13 89 104; D2 13 89 104;
  D2 13 89 104; D2 13 89 104; D2 13 89 104; D2 13 89 104; D2 13 89 104; D2 13 89 108; D2 13 89 108; D2 13 89 108;
  D2 13 89 108; D2 13 89 108; D2 13 89 108; D2 13 89 108; D2 13 89 108; D2 13 89 109; D2 13 89 109; D2 13 89 109;
  D2 13 89 109; D2 13 89 109; D2 13 89 109; D2 13 89 109; D2 13 89 109; D2 13 89 110; D2 13 89 110; D2 13 89 110;
  D2 13 89 110; D2 13 89 110; D2 13 89 110; D2 13 89 110; D2 13 89 110; D2 13 89 112; D2 13 89 112; D2 13 89 112;
  D2 13 89 112; D2 13 89 112; D2 13 89 112; D2 13 89 112; D2 13 89 112; D2 13 89 114; D2 13 89 114; D2 13 89 114;
  D2 13 89 114; D2 13 89 114; D2 13 89 114; D2 13 89 114; D2 13 89 114; D2 13 89 117; D2 13 89 117; D2 13 89 117;
  D2 13 89 117; D2 13 89 117; D2 13 89 117; D2 13 89 117; D2 13 89 117; D2 14 89 58; D2 14 89 58; D2 14 89 58;
  D2 14 89 58; D2 14 89 66; D2 14 89 66; D2 14 89 66; D2 14 89 66; D2 14 89 67; D2 14 89 67; D2 14 89 67; D2 14 89 67;
  D2 14 89 68; D2 14 89 68; D2 14 89 68; D2 14 89 68; D2 14 89 69; D2 14 89 69; D2 14 89 69; D2 14 89 69; D2 14 89 70;
  D2 14 89 70; D2 14 89 70; D2 14 89 70; D2 14 89 71; D2 14 89 71; D2 14 89 71; D2 14 89 71; D2 14 89 72; D2 14 89 72;
  D2 14 89 72; D2 14 89 72; D2 14 89 73; D2 14 89 73; D2 14 89 73; D2 14 89 73; D2 14 89 74; D2 14 89 74; D2 14 89 74;
  D2 14 89 74; D2 14 89 75; D2 14 89 75; D2 14 89 75; D2 14 89 75; D2 14 89 76; D2 14 89 76; D2 14 89 76; D2 14 89 76;
  D2 14 89 77; D2 14 89 77; D2 14 89 77; D2 14 89 77; D2 14 89 78; D2 14 89 78; D2 14 89 78; D2 14 89 78; D2 14 89 79;
  D2 14 89 79; D2 14 89 79; D2 14 89 79; D2 14 89 80; D2 14 89 80; D2 14 89 80; D2 14 89 80; D2 14 89 81; D2 14 89 81;
  D2 14 89 81; D2 14 89 81; D2 14 89 82; D2 14 89 82; D2 14 89 82; D2 14 89 82; D2 14 89 83; D2 14 89 83; D2 14 89 83;
  D2 14 89 83; D2 14 89 84; D2 14 89 84; D2 14 89 84; D2 14 89 84; D2 14 89 85; D2 14 89 85; D2 14 89 85; D2 14 89 85;
  D2 14 89 86; D2 14 89 86; D2 14 89 86; D2 14 89 86; D2 14 89 87; D2 14 89 87; D2 14 89 87; D2 14 89 87; D2 14 89 89;
  D2 14 89 89; D2 14 89 89; D2 14 89 89; D2 14 89 106; D2 14 89 106; D2 14 89 106; D2 14 89 106; D2 14 89 107;
  D2 14 89 107; D2 14 89 107; D2 14 89 107; D2 14 89 113; D2 14 89 113; D2 14 89 113; D2 14 89 113; D2 14 89 118;
  D2 14 89 118; D2 14 89 118; D2 14 89 118; D2 14 89 119; D2 14 89 119; D2 14 89 119; D2 14 89 119; D2 14 89 120;
  D2 14 89 120; D2 14 89 120; D2 14 89 120; D2 14 89 121; D2 14 89 121; D2 14 89 121; D2 14 89 121; D2 14 89 122;
  D2 14 89 122; D2 14 89 122; D2 14 89 122; D2 15 89 38; D2 15 89 38; D2 15 89 42; D2 15 89 42; D2 15 89 44;
  D2 15 89 44; D2 15 89 59; D2 15 89 59; D2 15 89 88; D2 15 89 88; D2 15 89 90; D2 15 89 90; D1 7 89; D1 7 89;
  D1 7 89; D1 7 89].
Definition hdecs_232 : list hdec := [
  D2 12 106 48; D2 12 106 48; D2 12 106 48; D2 12 106 48; D2 12 106 48; D2 12 106 48; D2 12 106 48; D2 12 106 48;
  D2 12 106 48; D2 12 106 48; D2 12 106 48; D2 12 106 48; D2 12 106 48; D2 12 106 48; D2 12 106 48; D2 12 106 48;
  D2 12 106 49; D2 12 106 49; D2 12 106 49; D2 12 106 49; D2 12 106 49; D2 12 106 49; D2 12 106 49; D2 12 106 49;
  D2 12 106 49; D2 12 106 49; D2 12 106 49; D2 12 106 49; D2 12 106 49; D2 12 106 49; D2 12 106 49; D2 12 106 49;
  D2 12 106 50; D2 12 106 50; D2 12 106 50; D2 12 106 50; D2 12 106 50; D2 12 106 50; D2 12 106 50; D2 12 106 50;
  D2 12 106 50; D2 12 106 50; D2 12 106 50; D2 12 106 50; D2 12 106 50; D2 12 106 50; D2 12 106 50; D2 12 106 50;
  D2 12 106 97; D2 12 106 97; D2 12 106 97; D2 12 106 97; D2 12 106 97; D2 12 106 97; D2 12 106 97; D2 12 106 97;
  D2 12 106 97; D2 12 106 97; D2 12 106 97; D2 12 106 97; D2 12 106 97; D2 12 106 97; D2 12 106 97; D2 12 106 97;
  D2 12 106 99; D2 12 106 99; D2 12 106 99; D2 12 106 99; D2 12 106 99; D2 12 106 99; D2 12 106 99; D2 12 106 99;
  D2 12 106 99; D2 12 106 99; D2 12 106 99; D2 12 106 99; D2 12 106 99; D2 12 106 99; D2 12 106 99; D2 12 106 99;
  D2 12 106 101; D2 12 106 101; D2 12 106 101; D2 12 106 101; D2 12 106 101; D2 12 106 101; D2 12 106 101;
  D2 12 106 101; D2 12 106 101; D2 12 106 101; D2 12 106 101; D2 12 106 101; D2 12 106 101; D2 12 106 101;
  D2 12 106 101; D2 12 106 101; D2 12 106 105; D2 12 106 105; D2 12 106 105; D2 12 106 105; D2 12 106 105;
  D2 12 106 105; D2 12 106 105; D2 12 106 105; D2 12 106 105; D2 12 106 105; D2 12 106 105; D2 12 106 105;
  D2 12 106 105; D2 12 106 105; D2 12 106 105; D2 12 106 105; D2 12 106 111; D2 12 106 111; D2 12 106 111;
  D2 12 106 111; D2 12 106 111; D2 12 106 111; D2 12 106 111; D2 12 106 111; D2 12 106 111; D2 12 106 111;
  D2 12 106 111; D2 12 106 111; D2 12 106 111; D2 12 106 111; D2 12 106 111; D2 12 106 111; D2 12 106 115;
  D2 12 106 115; D2 12 106 115; D2 12 106 115; D2 12 106 115; D2 12 106 115; D2 12 106 115; D2 12 106 115;
  D2 12 106 115; D2 12 106 115; D2 12 106 115; D2 12 106 115; D2 12 106 115; D2 12 106 115; D2 12 106 115;
  D2 12 106 115; D2 12 106 116; D2 12 106 116; D2 12 106 116; D2 12 106 116; D2 12 106 116; D2 12 106 116;
  D2 12 106 116; D2 12 106 116; D2 12 106 116; D2 12 106 116; D2 12 106 116; D2 12 106 116; D2 12 106 116;
  D2 12 106 116; D2 12 106 116; D2 12 106 116; D2 13 106 32; D2 13 106 32; D2 13 106 32; D2 13 106 32; D2 13 106 32;
  D2 13 106 32; D2 13 106 32; D2 13 106 32; D2 13 106 37; D2 13 106 37; D2 13 106 37; D2 13 106 37; D2 13 106 37;
  D2 13 106 37; D2 13 106 37; D2 13 106 37; D2 13 106 45; D2 13 106 45; D2 13 106 45; D2 13 106 45; D2 13 106 45;
  D2 13 106 45; D2 13 106 45; D2 13 106 45; D2 13 106 46; D2 13 106 46; D2 13 106 46; D2 13 106 46; D2 13 106 46;
  D2 13 106 46; D2 13 106 46; D2 13 106 46; D2 13 106 47; D2 13 106 47; D2 13 106 47; D2 13 106 47; D2 13 106 47;
  D2 13 106 47; D2 13 106 47; D2 13 106 47; D2 13 106 51; D2 13 106 51; D2 13 106 51; D2 13 106 51; D2 13 106 51;
  D2 13 106 51; D2 13 106 51; D2 13 106 51; D2 13 106 52; D2 13 106 52; D2 13 106 52; D2 13 106 52; D2 13 106 52;
  D2 13 106 52; D2 13 106 52; D2 13 106 52; D2 13 106 53; D2 13 106 53; D2 13 106 53; D2 13 106 53; D2 13 106 53;
  D2 13 106 53; D2 13 106 53; D2 13 106 53; D2 13 106 54; D2 13 106 54; D2 13 106 54; D2 13 106 54; D2 13 106 54;
  D2 13 106 54; D2 13 106 54; D2 13 106 54; D2 13 106 55; D2 13 106 55; D2 13 106 55; D2 13 106 55; D2 13 106 55;
  D2 13 106 55; D2 13 106 55; D2 13 106 55; D2 13 106 56; D2 13 106 56; D2 13 106 56; D2 13 106 56; D2 13 106 56;
  D2 13 106 56; D2 13 106 56; D2 13 106 56; D2 13 106 57; D2 13 106 57; D2 13 106 57; D2 13 106 57; D2 13 106 57;
  D2 13 106 57; D2 13 106 57; D2 13 106 57].
Definition hdecs_233 : list hdec := [
  D2 13 106 61; D2 13 106 61; D2 13 106 61; D2 13 106 61; D2 13 106 61; D2 13 106 61; D2 13 106 61; D2 13 106 61;
  D2 13 106 65; D2 13 106 65; D2 13 106 65; D2 13 106 65; D2 13 106 65; D2 13 106 65; D2 13 106 65; D2 13 106 65;
  D2 13 106 95; D2 13 106 95; D2 13 106 95; D2 13 106 95; D2 13 106 95; D2 13 106 95; D2 13 106 95; D2 13 106 95;
  D2 13 106 98; D2 13 106 98; D2 13 106 98; D2 13 106 98; D2 13 106 98; D2 13 106 98; D2 13 106 98; D2 13 106 98;
  D2 13 106 100; D2 13 106 100; D2 13 106 100; D2 13 106 100; D2 13 106 100; D2 13 106 100; D2 13 106 100;
  D2 13 106 100; D2 13 106 102; D2 13 106 102; D2 13 106 102; D2 13 106 102; D2 13 106 102; D2 13 106 102;
  D2 13 106 102; D2 13 106 102; D2 13 106 103; D2 13 106 103; D2 13 106 103; D2 13 106 103; D2 13 106 103;
  D2 13 106 103; D2 13 106 103; D2 13 106 103; D2 13 106 104; D2 13 106 104; D2 13 106 104; D2 13 106 104;
  D2 13 106 104; D2 13 106 104; D2 13 106 104; D2 13 106 104; D2 13 106 108; D2 13 106 108; D2 13 106 108;
  D2 13 106 108; D2 13 106 108; D2 13 106 108; D2 13 106 108; D2 13 106 108; D2 13 106 109; D2 13 106 109;
  D2 13 106 109; D2 13 106 109; D2 13 106 109; D2 13 106 109; D2 13 106 109; D2 13 106 109; D2 13 106 110;
  D2 13 106 110; D2 13 106 110; D2 13 106 110; D2 13 106 110; D2 13 106 110; D2 13 106 110; D2 13 106 110;
  D2 13 106 112; D2 13 106 112; D2 13 106 112; D2 13 106 112; D2 13 106 112; D2 13 106 112; D2 13 106 112;
  D2 13 106 112; D2 13 106 114; D2 13 106 114; D2 13 106 114; D2 13 106 114; D2 13 106 114; D2 13 106 114;
  D2 13 106 114; D2 13 106 114; D2 13 106 117; D2 13 106 117; D2 13 106 117; D2 13 106 117; D2 13 106 117;
  D2 13 106 117; D2 13 106 117; D2 13 106 117; D2 14 106 58; D2 14 106 58; D2 14 106 58; D2 14 106 58; D2 14 106 66;
  D2 14 106 66; D2 14 106 66; D2 14 106 66; D2 14 106 67; D2 14 106 67; D2 14 106 67; D2 14 106 67; D2 14 106 68;
  D2 14 106 68; D2 14 106 68; D2 14 106 68; D2 14 106 69; D2 14 106 69; D2 14 106 69; D2 14 106 69; D2 14 106 70;
  D2 14 106 70; D2 14 106 70; D2 14 106 70; D2 14 106 71; D2 14 106 71; D2 14 106 71; D2 14 106 71; D2 14 106 72;
  D2 14 106 72; D2 14 106 72; D2 14 106 72; D2 14 106 73; D2 14 106 73; D2 14 106 73; D2 14 106 73; D2 14 106 74;
  D2 14 106 74; D2 14 106 74; D2 14 106 74; D2 14 106 75; D2 14 106 75; D2 14 106 75; D2 14 106 75; D2 14 106 76;
  D2 14 106 76; D2 14 106 76; D2 14 106 76; D2 14 106 77; D2 14 106 77; D2 14 106 77; D2 14 106 77; D2 14 106 78;
  D2 14 106 78; D2 14 106 78; D2 14 106 78; D2 14 106 79; D2 14 106 79; D2 14 106 79; D2 14 106 79; D2 14 106 80;
  D2 14 106 80; D2 14 106 80; D2 14 106 80; D2 14 106 81; D2 14 106 81; D2 14 106 81; D2 14 106 81; D2 14 106 82;
  D2 14 106 82; D2 14 106 82; D2 14 106 82; D2 14 106 83; D2 14 106 83; D2 14 106 83; D2 14 106 83; D2 14 106 84;
  D2 14 106 84; D2 14 106 84; D2 14 106 84; D2 14 106 85; D2 14 106 85; D2 14 106 85; D2 14 106 85; D2 14 106 86;
  D2 14 106 86; D2 14 106 86; D2 14 106 86; D2 14 106 87; D2 14 106 87; D2 14 106 87; D2 14 106 87; D2 14 106 89;
  D2 14 106 89; D2 14 106 89; D2 14 106 89; D2 14 106 106; D2 14 106 106; D2 14 106 106; D2 14 106 106; D2 14 106 107;
  D2 14 106 107; D2 14 106 107; D2 14 106 107; D2 14 106 113; D2 14 106 113; D2 14 106 113; D2 14 106 113;
  D2 14 106 118; D2 14 106 118; D2 14 106 118; D2 14 106 118; D2 14 106 119; D2 14 106 119; D2 14 106 119;
  D2 14 106 119; D2 14 106 120; D2 14 106 120; D2 14 106 120; D2 14 106 120; D2 14 106 121; D2 14 106 121;
  D2 14 106 121; D2 14 106 121; D2 14 106 122; D2 14 106 122; D2 14 106 122; D2 14 106 122; D2 15 106 38;
  D2 15 106 38; D2 15 106 42; D2 15 106 42; D2 15 106 44; D2 15 106 44; D2 15 106 59; D2 15 106 59; D2 15 106 88;
  D2 15 106 88; D2 15 106 90; D2 15 106 90; D1 7 106; D1 7 106; D1 7 106; D1 7 106].
Definition hdecs_234 : list hdec := [
  D2 12 107 48; D2 12 107 48; D2 12 107 48; D2 12 107 48; D2 12 107 48; D2 12 107 48; D2 12 107 48; D2 12 107 48;
  D2 12 107 48; D2 12 107 48; D2 12 107 48; D2 12 107 48; D2 12 107 48; D2 12 107 48; D2 12 107 48; D2 12 107 48;
  D2 12 107 49; D2 12 107 49; D2 12 107 49; D2 12 107 49; D2 12 107 49; D2 12 107 49; D2 12 107 49; D2 12 107 49;
  D2 12 107 49; D2 12 107 49; D2 12 107 49; D2 12 107 49; D2 12 107 49; D2 12 107 49; D2 12 107 49; D2 12 107 49;
  D2 12 107 50; D2 12 107 50; D2 12 107 50; D2 12 107 50; D2 12 107 50; D2 12 107 50; D2 12 107 50; D2 12 107 50;
  D2 12 107 50; D2 12 107 50; D2 12 107 50; D2 12 107 50; D2 12 107 50; D2 12 107 50; D2 12 107 50; D2 12 107 50;
  D2 12 107 97; D2 12 107 97; D2 12 107 97; D2 12 107 97; D2 12 107 97; D2 12 107 97; D2 12 107 97; D2 12 107 97;
  D2 12 107 97; D2 12 107 97; D2 12 107 97; D2 12 107 97; D2 12 107 97; D2 12 107 97; D2 12 107 97; D2 12 107 97;
  D2 12 107 99; D2 12 107 99; D2 12 107 99; D2 12 107 99; D2 12 107 99; D2 12 107 99; D2 12 107 99; D2 12 107 99;
  D2 12 107 99; D2 12 107 99; D2 12 107 99; D2 12 107 99; D2 12 107 99; D2 12 107 99; D2 12 107 99; D2 12 107 99;
  D2 12 107 101; D2 12 107 101; D2 12 107 101; D2 12 107 101; D2 12 107 101; D2 12 107 101; D2 12 107 101;
  D2 12 107 101; D2 12 107 101; D2 12 107 101; D2 12 107 101; D2 12 107 101; D2 12 107 101; D2 12 107 101;
  D2 12 107 101; D2 12 107 101; D2 12 107 105; D2 12 107 105; D2 12 107 105; D2 12 107 105; D2 12 107 105;
  D2 12 107 105; D2 12 107 105; D2 12 107 105; D2 12 107 105; D2 12 107 105; D2 12 107 105; D2 12 107 105;
  D2 12 107 105; D2 12 107 105; D2 12 107 105; D2 12 107 105; D2 12 107 111; D2 12 107 111; D2 12 107 111;
  D2 12 107 111; D2 12 107 111; D2 12 107 111; D2 12 107 111; D2 12 107 111; D2 12 107 111; D2 12 107 111;
  D2 12 107 111; D2 12 107 111; D2 12 107 111; D2 12 107 111; D2 12 107 111; D2 12 107 111; D2 12 107 115;
  D2 12 107 115; D2 12 107 115; D2 12 107 115; D2 12 107 115; D2 12 107 115; D2 12 107 115; D2 12 107 115;
  D2 12 107 115; D2 12 107 115; D2 12 107 115; D2 12 107 115; D2 12 107 115; D2 12 107 115; D2 12 107 115;
  D2 12 107 115; D2 12 107 116; D2 12 107 116; D2 12 107 116; D2 12 107 116; D2 12 107 116; D2 12 107 116;
  D2 12 107 116; D2 12 107 116; D2 12 107 116; D2 12 107 116; D2 12 107 116; D2 12 107 116; D2 12 107 116;
  D2 12 107 116; D2 12 107 116; D2 12 107 116; D2 13 107 32; D2 13 107 32; D2 13 107 32; D2 13 107 32; D2 13 107 32;
  D2 13 107 32; D2 13 107 32; D2 13 107 32; D2 13 107 37; D2 13 107 37; D2 13 107 37; D2 13 107 37; D2 13 107 37;
  D2 13 107 37; D2 13 107 37; D2 13 107 37; D2 13 107 45; D2 13 107 45; D2 13 107 45; D2 13 107 45; D2 13 107 45;
  D2 13 107 45; D2 13 107 45; D2 13 107 45; D2 13 107 46; D2 13 107 46; D2 13 107 46; D2 13 107 46; D2 13 107 46;
  D2 13 107 46; D2 13 107 46; D2 13 107 46; D2 13 107 47; D2 13 107 47; D2 13 107 47; D2 13 107 47; D2 13 107 47;
  D2 13 107 47; D2 13 107 47; D2 13 107 47; D2 13 107 51; D2 13 107 51; D2 13 107 51; D2 13 107 51; D2 13 107 51;
  D2 13 107 51; D2 13 107 51; D2 13 107 51; D2 13 107 52; D2 13 107 52; D2 13 107 52; D2 13 107 52; D2 13 107 52;
  D2 13 107 52; D2 13 107 52; D2 13 107 52; D2 13 107 53; D2 13 107 53; D2 13 107 53; D2 13 107 53; D2 13 107 53;
  D2 13 107 53; D2 13 107 53; D2 13 107 53; D2 13 107 54; D2 13 107 54; D2 13 107 54; D2 13 107 54; D2 13 107 54;
  D2 13 107 54; D2 13 107 54; D2 13 107 54; D2 13 107 55; D2 13 107 55; D2 13 107 55; D2 13 107 55; D2 13 107 55;
  D2 13 107 55; D2 13 107 55; D2 13 107 55; D2 13 107 56; D2 13 107 56; D2 13 107 56; D2 13 107 56; D2 13 107 56;
  D2 13 107 56; D2 13 107 56; D2 13 107 56; D2 13 107 57; D2 13 107 57; D2 13 107 57; D2 13 107 57; D2 13 107 57;
  D2 13 107 57; D2 13 107 57; D2 13 107 57].
Definition hdecs_235 : list hdec := [
  D2 13 107 61; D2 13 107 61; D2 13 107 61; D2 13 107 61; D2 13 107 61; D2 13 107 61; D2 13 107 61; D2 13 107 61;
  D2 13 107 65; D2 13 107 65; D2 13 107 65; D2 13 107 65; D2 13 107 65; D2 13 107 65; D2 13 107 65; D2 13 107 65;
  D2 13 107 95; D2 13 107 95; D2 13 107 95; D2 13 107 95; D2 13 107 95; D2 13 107 95; D2 13 107 95; D2 13 107 95;
  D2 13 107 98; D2 13 107 98; D2 13 107 98; D2 13 107 98; D2 13 107 98; D2 13 107 98; D2 13 107 98; D2 13 107 98;
  D2 13 107 100; D2 13 107 100; D2 13 107 100; D2 13 107 100; D2 13 107 100; D2 13 107 100; D2 13 107 100;
  D2 13 107 100; D2 13 107 102; D2 13 107 102; D2 13 107 102; D2 13 107 102; D2 13 107 102; D2 13 107 102;
  D2 13 107 102; D2 13 107 102; D2 13 107 103; D2 13 107 103; D2 13 107 103; D2 13 107 103; D2 13 107 103;
  D2 13 107 103; D2 13 107 103; D2 13 107 103; D2 13 107 104; D2 13 107 104; D2 13 107 104; D2 13 107 104;
  D2 13 107 104; D2 13 107 104; D2 13 107 104; D2 13 107 104; D2 13 107 108; D2 13 107 108; D2 13 107 108;
  D2 13 107 108; D2 13 107 108; D2 13 107 108; D2 13 107 108; D2 13 107 108; D2 13 107 109; D2 13 107 109;
  D2 13 107 109; D2 13 107 109; D2 13 107 109; D2 13 107 109; D2 13 107 109; D2 13 107 109; D2 13 107 110;
  D2 13 107 110; D2 13 107 110; D2 13 107 110; D2 13 107 110; D2 13 107 110; D2 13 107 110; D2 13 107 110;
  D2 13 107 112; D2 13 107 112; D2 13 107 112; D2 13 107 112; D2 13 107 112; D2 13 107 112; D2 13 107 112;
  D2 13 107 112; D2 13 107 114; D2 13 107 114; D2 13 107 114; D2 13 107 114; D2 13 107 114; D2 13 107 114;
  D2 13 107 114; D2 13 107 114; D2 13 107 117; D2 13 107 117; D2 13 107 117; D2 13 107 117; D2 13 107 117;
  D2 13 107 117; D2 13 107 117; D2 13 107 117; D2 14 107 58; D2 14 107 58; D2 14 107 58; D2 14 107 58; D2 14 107 66;
  D2 14 107 66; D2 14 107 66; D2 14 107 66; D2 14 107 67; D2 14 107 67; D2 14 107 67; D2 14 107 67; D2 14 107 68;
  D2 14 107 68; D2 14 107 68; D2 14 107 68; D2 14 107 69; D2 14 107 69; D2 14 107 69; D2 14 107 69; D2 14 107 70;
  D2 14 107 70; D2 14 107 70; D2 14 107 70; D2 14 107 71; D2 14 107 71; D2 14 107 71; D2 14 107 71; D2 14 107 72;
  D2 14 107 72; D2 14 107 72; D2 14 107 72; D2 14 107 73; D2 14 107 73; D2 14 107 73; D2 14 107 73; D2 14 107 74;
  D2 14 107 74; D2 14 107 74; D2 14 107 74; D2 14 107 75; D2 14 107 75; D2 14 107 75; D2 14 107 75; D2 14 107 76;
  D2 14 107 76; D2 14 107 76; D2 14 107 76; D2 14 107 77; D2 14 107 77; D2 14 107 77; D2 14 107 77; D2 14 107 78;
  D2 14 107 78; D2 14 107 78; D2 14 107 78; D2 14 107 79; D2 14 107 79; D2 14 107 79; D2 14 107 79; D2 14 107 80;
  D2 14 107 80; D2 14 107 80; D2 14 107 80; D2 14 107 81; D2 14 107 81; D2 14 107 81; D2 14 107 81; D2 14 107 82;
  D2 14 107 82; D2 14 107 82; D2 14 107 82; D2 14 107 83; D2 14 107 83; D2 14 107 83; D2 14 107 83; D2 14 107 84;
  D2 14 107 84; D2 14 107 84; D2 14 107 84; D2 14 107 85; D2 14 107 85; D2 14 107 85; D2 14 107 85; D2 14 107 86;
  D2 14 107 86; D2 14 107 86; D2 14 107 86; D2 14 107 87; D2 14 107 87; D2 14 107 87; D2 14 107 87; D2 14 107 89;
  D2 14 107 89; D2 14 107 89; D2 14 107 89; D2 14 107 106; D2 14 107 106; D2 14 107 106; D2 14 107 106; D2 14 107 107;
  D2 14 107 107; D2 14 107 107; D2 14 107 107; D2 14 107 113; D2 14 107 113; D2 14 107 113; D2 14 107 113;
  D2 14 107 118; D2 14 107 118; D2 14 107 118; D2 14 107 118; D2 14 107 119; D2 14 107 119; D2 14 107 119;
  D2 14 107 119; D2 14 107 120; D2 14 107 120; D2 14 107 120; D2 14 107 120; D2 14 107 121; D2 14 107 121;
  D2 14 107 121; D2 14 107 121; D2 14 107 122; D2 14 107 122; D2 14 107 122; D2 14 107 122; D2 15 107 38;
  D2 15 107 38; D2 15 107 42; D2 15 107 42; D2 15 107 44; D2 15 107 44; D2 15 107 59; D2 15 107 59; D2 15 107 88;
  D2 15 107 88; D2 15 107 90; D2 15 107 90; D1 7 107; D1 7 107; D1 7 107; D1 7 107].
Definition hdecs_236 : list hdec := [
  D2 12 113 48; D2 12 113 48; D2 12 113 48; D2 12 113 48; D2 12 113 48; D2 12 113 48; D2 12 113 48; D2 12 113 48;
  D2 12 113 48; D2 12 113 48; D2 12 113 48; D2 12 113 48; D2 12 113 48; D2 12 113 48; D2 12 113 48; D2 12 113 48;
  D2 12 113 49; D2 12 113 49; D2 12 113 49; D2 12 113 49; D2 12 113 49; D2 12 113 49; D2 12 113 49; D2 12 113 49;
  D2 12 113 49; D2 12 113 49; D2 12 113 49; D2 12 113 49; D2 12 113 49; D2 12 113 49; D2 12 113 49; D2 12 113 49;
  D2 12 113 50; D2 12 113 50; D2 12 113 50; D2 12 113 50; D2 12 113 50; D2 12 113 50; D2 12 113 50; D2 12 113 50;
  D2 12 113 50; D2 12 113 50; D2 12 113 50; D2 12 113 50; D2 12 113 50; D2 12 113 50; D2 12 113 50; D2 12 113 50;
  D2 12 113 97; D2 12 113 97; D2 12 113 97; D2 12 113 97; D2 12 113 97; D2 12 113 97; D2 12 113 97; D2 12 113 97;
  D2 12 113 97; D2 12 113 97; D2 12 113 97; D2 12 113 97; D2 12 113 97; D2 12 113 97; D2 12 113 97; D2 12 113 97;
  D2 12 113 99; D2 12 113 99; D2 12 113 99; D2 12 113 99; D2 12 113 99; D2 12 113 99; D2 12 113 99; D2 12 113 99;
  D2 12 113 99; D2 12 113 99; D2 12 113 99; D2 12 113 99; D2 12 113 99; D2 12 113 99; D2 12 113 99; D2 12 113 99;
  D2 12 113 101; D2 12 113 101; D2 12 113 101; D2 12 113 101; D2 12 113 101; D2 12 113 101; D2 12 113 101;
  D2 12 113 101; D2 12 113 101; D2 12 113 101; D2 12 113 101; D2 12 113 101; D2 12 113 101; D2 12 113 101;
  D2 12 113 101; D2 12 113 101; D2 12 113 105; D2 12 113 105; D2 12 113 105; D2 12 113 105; D2 12 113 105;
  D2 12 113 105; D2 12 113 105; D2 12 113 105; D2 12 113 105; D2 12 113 105; D2 12 113 105; D2 12 113 105;
  D2 12 113 105; D2 12 113 105; D2 12 113 105; D2 12 113 105; D2 12 113 111; D2 12 113 111; D2 12 113 111;
  D2 12 113 111; D2 12 113 111; D2 12 113 111; D2 12 113 111; D2 12 113 111; D2 12 113 111; D2 12 113 111;
  D2 12 113 111; D2 12 113 111; D2 12 113 111; D2 12 113 111; D2 12 113 111; D2 12 113 111; D2 12 113 115;
  D2 12 113 115; D2 12 113 115; D2 12 113 115; D2 12 113 115; D2 12 113 115; D2 12 113 115; D2 12 113 115;
  D2 12 113 115; D2 12 113 115; D2 12 113 115; D2 12 113 115; D2 12 113 115; D2 12 113 115; D2 12 113 115;
  D2 12 113 115; D2 12 113 116; D2 12 113 116; D2 12 113 116; D2 12 113 116; D2 12 113 116; D2 12 113 116;
  D2 12 113 116; D2 12 113 116; D2 12 113 116; D2 12 113 116; D2 12 113 116; D2 12 113 116; D2 12 113 116;
  D2 12 113 116; D2 12 113 116; D2 12 113 116; D2 13 113 32; D2 13 113 32; D2 13 113 32; D2 13 113 32; D2 13 113 32;
  D2 13 113 32; D2 13 113 32; D2 13 113 32; D2 13 113 37; D2 13 113 37; D2 13 113 37; D2 13 113 37; D2 13 113 37;
  D2 13 113 37; D2 13 113 37; D2 13 113 37; D2 13 113 45; D2 13 113 45; D2 13 113 45; D2 13 113 45; D2 13 113 45;
  D2 13 113 45; D2 13 113 45; D2 13 113 45; D2 13 113 46; D2 13 113 46; D2 13 113 46; D2 13 113 46; D2 13 113 46;
  D2 13 113 46; D2 13 113 46; D2 13 113 46; D2 13 113 47; D2 13 113 47; D2 13 113 47; D2 13 113 47; D2 13 113 47;
  D2 13 113 47; D2 13 113 47; D2 13 113 47; D2 13 113 51; D2 13 113 51; D2 13 113 51; D2 13 113 51; D2 13 113 51;
  D2 13 113 51; D2 13 113 51; D2 13 113 51; D2 13 113 52; D2 13 113 52; D2 13 113 52; D2 13 113 52; D2 13 113 52;
  D2 13 113 52; D2 13 113 52; D2 13 113 52; D2 13 113 53; D2 13 113 53; D2 13 113 53; D2 13 113 53; D2 13 113 53;
  D2 13 113 53; D2 13 113 53; D2 13 113 53; D2 13 113 54; D2 13 113 54; D2 13 113 54; D2 13 113 54; D2 13 113 54;
  D2 13 113 54; D2 13 113 54; D2 13 113 54; D2 13 113 55; D2 13 113 55; D2 13 113 55; D2 13 113 55; D2 13 113 55;
  D2 13 113 55; D2 13 113 55; D2 13 113 55; D2 13 113 56; D2 13 113 56; D2 13 113 56; D2 13 113 56; D2 13 113 56;
  D2 13 113 56; D2 13 113 56; D2 13 113 56; D2 13 113 57; D2 13 113 57; D2 13 113 57; D2 13 113 57; D2 13 113 57;
  D2 13 113 57; D2 13 113 57; D2 13 113 57].
Definition hdecs_237 : list hdec := [
  D2 13 113 61; D2 13 113 61; D2 13 113 61; D2 13 113 61; D2 13 113 61; D2 13 113 61; D2 13 113 61; D2 13 113 61;
  D2 13 113 65; D2 13 113 65; D2 13 113 65; D2 13 113 65; D2 13 113 65; D2 13 113 65; D2 13 113 65; D2 13 113 65;
  D2 13 113 95; D2 13 113 95; D2 13 113 95; D2 13 113 95; D2 13 113 95; D2 13 113 95; D2 13 113 95; D2 13 113 95;
  D2 13 113 98; D2 13 113 98; D2 13 113 98; D2 13 113 98; D2 13 113 98; D2 13 113 98; D2 13 113 98; D2 13 113 98;
  D2 13 113 100; D2 13 113 100; D2 13 113 100; D2 13 113 100; D2 13 113 100; D2 13 113 100; D2 13 113 100;
  D2 13 113 100; D2 13 113 102; D2 13 113 102; D2 13 113 102; D2 13 113 102; D2 13 113 102; D2 13 113 102;
  D2 13 113 102; D2 13 113 102; D2 13 113 103; D2 13 113 103; D2 13 113 103; D2 13 113 103; D2 13 113 103;
  D2 13 113 103; D2 13 113 103; D2 13 113 103; D2 13 113 104; D2 13 113 104; D2 13 113 104; D2 13 113 104;
  D2 13 113 104; D2 13 113 104; D2 13 113 104; D2 13 113 104; D2 13 113 108; D2 13 113 108; D2 13 113 108;
  D2 13 113 108; D2 13 113 108; D2 13 113 108; D2 13 113 108; D2 13 113 108; D2 13 113 109; D2 13 113 109;
  D2 13 113 109; D2 13 113 109; D2 13 113 109; D2 13 113 109; D2 13 113 109; D2 13 113 109; D2 13 113 110;
  D2 13 113 110; D2 13 113 110; D2 13 113 110; D2 13 113 110; D2 13 113 110; D2 13 113 110; D2 13 113 110;
  D2 13 113 112; D2 13 113 112; D2 13 113 112; D2 13 113 112; D2 13 113 112; D2 13 113 112; D2 13 113 112;
  D2 13 113 112; D2 13 113 114; D2 13 113 114; D2 13 113 114; D2 13 113 114; D2 13 113 114; D2 13 113 114;
  D2 13 113 114; D2 13 113 114; D2 13 113 117; D2 13 113 117; D2 13 113 117; D2 13 113 117; D2 13 113 117;
  D2 13 113 117; D2 13 113 117; D2 13 113 117; D2 14 113 58; D2 14 113 58; D2 14 113 58; D2 14 113 58; D2 14 113 66;
  D2 14 113 66; D2 14 113 66; D2 14 113 66; D2 14 113 67; D2 14 113 67; D2 14 113 67; D2 14 113 67; D2 14 113 68;
  D2 14 113 68; D2 14 113 68; D2 14 113 68; D2 14 113 69; D2 14 113 69; D2 14 113 69; D2 14 113 69; D2 14 113 70;
  D2 14 113 70; D2 14 113 70; D2 14 113 70; D2 14 113 71; D2 14 113 71; D2 14 113 71; D2 14 113 71; D2 14 113 72;
  D2 14 113 72; D2 14 113 72; D2 14 113 72; D2 14 113 73; D2 14 113 73; D2 14 113 73; D2 14 113 73; D2 14 113 74;
  D2 14 113 74; D2 14 113 74; D2 14 113 74; D2 14 113 75; D2 14 113 75; D2 14 113 75; D2 14 113 75; D2 14 113 76;
  D2 14 113 76; D2 14 113 76; D2 14 113 76; D2 14 113 77; D2 14 113 77; D2 14 113 77; D2 14 113 77; D2 14 113 78;
  D2 14 113 78; D2 14 113 78; D2 14 113 78; D2 14 113 79; D2 14 113 79; D2 14 113 79; D2 14 113 79; D2 14 113 80;
  D2 14 113 80; D2 14 113 80; D2 14 113 80; D2 14 113 81; D2 14 113 81; D2 14 113 81; D2 14 113 81; D2 14 113 82;
  D2 14 113 82; D2 14 113 82; D2 14 113 82; D2 14 113 83; D2 14 113 83; D2 14 113 83; D2 14 113 83; D2 14 113 84;
  D2 14 113 84; D2 14 113 84; D2 14 113 84; D2 14 113 85; D2 14 113 85; D2 14 113 85; D2 14 113 85; D2 14 113 86;
  D2 14 113 86; D2 14 113 86; D2 14 113 86; D2 14 113 87; D2 14 113 87; D2 14 113 87; D2 14 113 87; D2 14 113 89;
  D2 14 113 89; D2 14 113 89; D2 14 113 89; D2 14 113 106; D2 14 113 106; D2 14 113 106; D2 14 113 106; D2 14 113 107;
  D2 14 113 107; D2 14 113 107; D2 14 113 107; D2 14 113 113; D2 14 113 113; D2 14 113 113; D2 14 113 113;
  D2 14 113 118; D2 14 113 118; D2 14 113 118; D2 14 113 118; D2 14 113 119; D2 14 113 119; D2 14 113 119;
  D2 14 113 119; D2 14 113 120; D2 14 113 120; D2 14 113 120; D2 14 113 120; D2 14 113 121; D2 14 113 121;
  D2 14 113 121; D2 14 113 121; D2 14 113 122; D2 14 113 122; D2 14 113 122; D2 14 113 122; D2 15 113 38;
  D2 15 113 38; D2 15 113 42; D2 15 113 42; D2 15 113 44; D2 15 113 44; D2 15 113 59; D2 15 113 59; D2 15 113 88;
  D2 15 113 88; D2 15 113 90; D2 15 113 90; D1 7 113; D1 7 113; D1 7 113; D1 7 113].
Definition hdecs_238 : list hdec := [
  D2 12 118 48; D2 12 118 48; D2 12 118 48; D2 12 118 48; D2 12 118 48; D2 12 118 48; D2 12 118 48; D2 12 118 48;
  D2 12 118 48; D2 12 118 48; D2 12 118 48; D2 12 118 48; D2 12 118 48; D2 12 118 48; D2 12 118 48; D2 12 118 48;
  D2 12 118 49; D2 12 118 49; D2 12 118 49; D2 12 118 49; D2 12 118 49; D2 12 118 49; D2 12 118 49; D2 12 118 49;
  D2 12 118 49; D2 12 118 49; D2 12 118 49; D2 12 118 49; D2 12 118 49; D2 12 118 49; D2 12 118 49; D2 12 118 49;
  D2 12 118 50; D2 12 118 50; D2 12 118 50; D2 12 118 50; D2 12 118 50; D2 12 118 50; D2 12 118 50; D2 12 118 50;
  D2 12 118 50; D2 12 118 50; D2 12 118 50; D2 12 118 50; D2 12 118 50; D2 12 118 50; D2 12 118 50; D2 12 118 50;
  D2 12 118 97; D2 12 118 97; D2 12 118 97; D2 12 118 97; D2 12 118 97; D2 12 118 97; D2 12 118 97; D2 12 118 97;
  D2 12 118 97; D2 12 118 97; D2 12 118 97; D2 12 118 97; D2 12 118 97; D2 12 118 97; D2 12 118 97; D2 12 118 97;
  D2 12 118 99; D2 12 118 99; D2 12 118 99; D2 12 118 99; D2 12 118 99; D2 12 118 99; D2 12 118 99; D2 12 118 99;
  D2 12 118 99; D2 12 118 99; D2 12 118 99; D2 12 118 99; D2 12 118 99; D2 12 118 99; D2 12 118 99; D2 12 118 99;
  D2 12 118 101; D2 12 118 101; D2 12 118 101; D2 12 118 101; D2 12 118 101; D2 12 118 101; D2 12 118 101;
  D2 12 118 101; D2 12 118 101; D2 12 118 101; D2 12 118 101; D2 12 118 101; D2 12 118 101; D2 12 118 101;
  D2 12 118 101; D2 12 118 101; D2 12 118 105; D2 12 118 105; D2 12 118 105; D2 12 118 105; D2 12 118 105;
  D2 12 118 105; D2 12 118 105; D2 12 118 105; D2 12 118 105; D2 12 118 105; D2 12 118 105; D2 12 118 105;
  D2 12 118 105; D2 12 118 105; D2 12 118 105; D2 12 118 105; D2 12 118 111; D2 12 118 111; D2 12 118 111;
  D2 12 118 111; D2 12 118 111; D2 12 118 111; D2 12 118 111; D2 12 118 111; D2 12 118 111; D2 12 118 111;
  D2 12 118 111; D2 12 118 111; D2 12 118 111; D2 12 118 111; D2 12 118 111; D2 12 118 111; D2 12 118 115;
  D2 12 118 115; D2 12 118 115; D2 12 118 115; D2 12 118 115; D2 12 118 115; D2 12 118 115; D2 12 118 115;
  D2 12 118 115; D2 12 118 115; D2 12 118 115; D2 12 118 115; D2 12 118 115; D2 12 118 115; D2 12 118 115;
  D2 12 118 115; D2 12 118 116; D2 12 118 116; D2 12 118 116; D2 12 118 116; D2 12 118 116; D2 12 118 116;
  D2 12 118 116; D2 12 118 116; D2 12 118 116; D2 12 118 116; D2 12 118 116; D2 12 118 116; D2 12 118 116;
  D2 12 118 116; D2 12 118 116; D2 12 118 116; D2 13 118 32; D2 13 118 32; D2 13 118 32; D2 13 118 32; D2 13 118 32;
  D2 13 118 32; D2 13 118 32; D2 13 118 32; D2 13 118 37; D2 13 118 37; D2 13 118 37; D2 13 118 37; D2 13 118 37;
  D2 13 118 37; D2 13 118 37; D2 13 118 37; D2 13 118 45; D2 13 118 45; D2 13 118 45; D2 13 118 45; D2 13 118 45;
  D2 13 118 45; D2 13 118 45; D2 13 118 45; D2 13 118 46; D2 13 118 46; D2 13 118 46; D2 13 118 46; D2 13 118 46;
  D2 13 118 46; D2 13 118 46; D2 13 118 46; D2 13 118 47; D2 13 118 47; D2 13 118 47; D2 13 118 47; D2 13 118 47;
  D2 13 118 47; D2 13 118 47; D2 13 118 47; D2 13 118 51; D2 13 118 51; D2 13 118 51; D2 13 118 51; D2 13 118 51;
  D2 13 118 51; D2 13 118 51; D2 13 118 51; D2 13 118 52; D2 13 118 52; D2 13 118 52; D2 13 118 52; D2 13 118 52;
  D2 13 118 52; D2 13 118 52; D2 13 118 52; D2 13 118 53; D2 13 118 53; D2 13 118 53; D2 13 118 53; D2 13 118 53;
  D2 13 118 53; D2 13 118 53; D2 13 118 53; D2 13 118 54; D2 13 118 54; D2 13 118 54; D2 13 118 54; D2 13 118 54;
  D2 13 118 54; D2 13 118 54; D2 13 118 54; D2 13 118 55; D2 13 118 55; D2 13 118 55; D2 13 118 55; D2 13 118 55;
  D2 13 118 55; D2 13 118 55; D2 13 118 55; D2 13 118 56; D2 13 118 56; D2 13 118 56; D2 13 118 56; D2 13 118 56;
  D2 13 118 56; D2 13 118 56; D2 13 118 56; D2 13 118 57; D2 13 118 57; D2 13 118 57; D2 13 118 57; D2 13 118 57;
  D2 13 118 57; D2 13 118 57; D2 13 118 57].
Definition hdecs_239 : list hdec := [
  D2 13 118 61; D2 13 118 61; D2 13 118 61; D2 13 118 61; D2 13 118 61; D2 13 118 61; D2 13 118 61; D2 13 118 61;
  D2 13 118 65; D2 13 118 65; D2 13 118 65; D2 13 118 65; D2 13 118 65; D2 13 118 65; D2 13 118 65; D2 13 118 65;
  D2 13 118 95; D2 13 118 95; D2 13 118 95; D2 13 118 95; D2 13 118 95; D2 13 118 95; D2 13 118 95; D2 13 118 95;
  D2 13 118 98; D2 13 118 98; D2 13 118 98; D2 13 118 98; D2 13 118 98; D2 13 118 98; D2 13 118 98; D2 13 118 98;
  D2 13 118 100; D2 13 118 100; D2 13 118 100; D2 13 118 100; D2 13 118 100; D2 13 118 100; D2 13 118 100;
  D2 13 118 100; D2 13 118 102; D2 13 118 102; D2 13 118 102; D2 13 118 102; D2 13 118 102; D2 13 118 102;
  D2 13 118 102; D2 13 118 102; D2 13 118 103; D2 13 118 103; D2 13 118 103; D2 13 118 103; D2 13 118 103;
  D2 13 118 103; D2 13 118 103; D2 13 118 103; D2 13 118 104; D2 13 118 104; D2 13 118 104; D2 13 118 104;
  D2 13 118 104; D2 13 118 104; D2 13 118 104; D2 13 118 104; D2 13 118 108; D2 13 118 108; D2 13 118 108;
  D2 13 118 108; D2 13 118 108; D2 13 118 108; D2 13 118 108; D2 13 118 108; D2 13 118 109; D2 13 118 109;
  D2 13 118 109; D2 13 118 109; D2 13 118 109; D2 13 118 109; D2 13 118 109; D2 13 118 109; D2 13 118 110;
  D2 13 118 110; D2 13 118 110; D2 13 118 110; D2 13 118 110; D2 13 118 110; D2 13 118 110; D2 13 118 110;
  D2 13 118 112; D2 13 118 112; D2 13 118 112; D2 13 118 112; D2 13 118 112; D2 13 118 112; D2 13 118 112;
  D2 13 118 112; D2 13 118 114; D2 13 118 114; D2 13 118 114; D2 13 118 114; D2 13 118 114; D2 13 118 114;
  D2 13 118 114; D2 13 118 114; D2 13 118 117; D2 13 118 117; D2 13 118 117; D2 13 118 117; D2 13 118 117;
  D2 13 118 117; D2 13 118 117; D2 13 118 117; D2 14 118 58; D2 14 118 58; D2 14 118 58; D2 14 118 58; D2 14 118 66;
  D2 14 118 66; D2 14 118 66; D2 14 118 66; D2 14 118 67; D2 14 118 67; D2 14 118 67; D2 14 118 67; D2 14 118 68;
  D2 14 118 68; D2 14 118 68; D2 14 118 68; D2 14 118 69; D2 14 118 69; D2 14 118 69; D2 14 118 69; D2 14 118 70;
  D2 14 118 70; D2 14 118 70; D2 14 118 70; D2 14 118 71; D2 14 118 71; D2 14 118 71; D2 14 118 71; D2 14 118 72;
  D2 14 118 72; D2 14 118 72; D2 14 118 72; D2 14 118 73; D2 14 118 73; D2 14 118 73; D2 14 118 73; D2 14 118 74;
  D2 14 118 74; D2 14 118 74; D2 14 118 74; D2 14 118 75; D2 14 118 75; D2 14 118 75; D2 14 118 75; D2 14 118 76;
  D2 14 118 76; D2 14 118 76; D2 14 118 76; D2 14 118 77; D2 14 118 77; D2 14 118 77; D2 14 118 77; D2 14 118 78;
  D2 14 118 78; D2 14 118 78; D2 14 118 78; D2 14 118 79; D2 14 118 79; D2 14 118 79; D2 14 118 79; D2 14 118 80;
  D2 14 118 80; D2 14 118 80; D2 14 118 80; D2 14 118 81; D2 14 118 81; D2 14 118 81; D2 14 118 81; D2 14 118 82;
  D2 14 118 82; D2 14 118 82; D2 14 118 82; D2 14 118 83; D2 14 118 83; D2 14 118 83; D2 14 118 83; D2 14 118 84;
  D2 14 118 84; D2 14 118 84; D2 14 118 84; D2 14 118 85; D2 14 118 85; D2 14 118 85; D2 14 118 85; D2 14 118 86;
  D2 14 118 86; D2 14 118 86; D2 14 118 86; D2 14 118 87; D2 14 118 87; D2 14 118 87; D2 14 118 87; D2 14 118 89;
  D2 14 118 89; D2 14 118 89; D2 14 118 89; D2 14 118 106; D2 14 118 106; D2 14 118 106; D2 14 118 106; D2 14 118 107;
  D2 14 118 107; D2 14 118 107; D2 14 118 107; D2 14 118 113; D2 14 118 113; D2 14 118 113; D2 14 118 113;
  D2 14 118 118; D2 14 118 118; D2 14 118 118; D2 14 118 118; D2 14 118 119; D2 14 118 119; D2 14 118 119;
  D2 14 118 119; D2 14 118 120; D2 14 118 120; D2 14 118 120; D2 14 118 120; D2 14 118 121; D2 14 118 121;
  D2 14 118 121; D2 14 118 121; D2 14 118 122; D2 14 118 122; D2 14 118 122; D2 14 118 122; D2 15 118 38;
  D2 15 118 38; D2 15 118 42; D2 15 118 42; D2 15 118 44; D2 15 118 44; D2 15 118 59; D2 15 118 59; D2 15 118 88;
  D2 15 118 88; D2 15 118 90; D2 15 118 90; D1 7 118; D1 7 118; D1 7 118; D1 7 118].
Definition hdecs_240 : list hdec := [
  D2 12 119 48; D2 12 119 48; D2 12 119 48; D2 12 119 48; D2 12 119 48; D2 12 119 48; D2 12 119 48; D2 12 119 48;
  D2 12 119 48; D2 12 119 48; D2 12 119 48; D2 12 119 48; D2 12 119 48; D2 12 119 48; D2 12 119 48; D2 12 119 48;
  D2 12 119 49; D2 12 119 49; D2 12 119 49; D2 12 119 49; D2 12 119 49; D2 12 119 49; D2 12 119 49; D2 12 119 49;
  D2 12 119 49; D2 12 119 49; D2 12 119 49; D2 12 119 49; D2 12 119 49; D2 12 119 49; D2 12 119 49; D2 12 119 49;
  D2 12 119 50; D2 12 119 50; D2 12 119 50; D2 12 119 50; D2 12 119 50; D2 12 119 50; D2 12 119 50; D2 12 119 50;
  D2 12 119 50; D2 12 119 50; D2 12 119 50; D2 12 119 50; D2 12 119 50; D2 12 119 50; D2 12 119 50; D2 12 119 50;
  D2 12 119 97; D2 12 119 97; D2 12 119 97; D2 12 119 97; D2 12 119 97; D2 12 119 97; D2 12 119 97; D2 12 119 97;
  D2 12 119 97; D2 12 119 97; D2 12 119 97; D2 12 119 97; D2 12 119 97; D2 12 119 97; D2 12 119 97; D2 12 119 97;
  D2 12 119 99; D2 12 119 99; D2 12 119 99; D2 12 119 99; D2 12 119 99; D2 12 119 99; D2 12 119 99; D2 12 119 99;
  D2 12 119 99; D2 12 119 99; D2 12 119 99; D2 12 119 99; D2 12 119 99; D2 12 119 99; D2 12 119 99; D2 12 119 99;
  D2 12 119 101; D2 12 119 101; D2 12 119 101; D2 12 119 101; D2 12 119 101; D2 12 119 101; D2 12 119 101;
  D2 12 119 101; D2 12 119 101; D2 12 119 101; D2 12 119 101; D2 12 119 101; D2 12 119 101; D2 12 119 101;
  D2 12 119 101; D2 12 119 101; D2 12 119 105; D2 12 119 105; D2 12 119 105; D2 12 119 105; D2 12 119 105;
  D2 12 119 105; D2 12 119 105; D2 12 119 105; D2 12 119 105; D2 12 119 105; D2 12 119 105; D2 12 119 105;
  D2 12 119 105; D2 12 119 105; D2 12 119 105; D2 12 119 105; D2 12 119 111; D2 12 119 111; D2 12 119 111;
  D2 12 119 111; D2 12 119 111; D2 12 119 111; D2 12 119 111; D2 12 119 111; D2 12 119 111; D2 12 119 111;
  D2 12 119 111; D2 12 119 111; D2 12 119 111; D2 12 119 111; D2 12 119 111; D2 12 119 111; D2 12 119 115;
  D2 12 119 115; D2 12 119 115; D2 12 119 115; D2 12 119 115; D2 12 119 115; D2 12 119 115; D2 12 119 115;
  D2 12 119 115; D2 12 119 115; D2 12 119 115; D2 12 119 115; D2 12 119 115; D2 12 119 115; D2 12 119 115;
  D2 12 119 115; D2 12 119 116; D2 12 119 116; D2 12 119 116; D2 12 119 116; D2 12 119 116; D2 12 119 116;
  D2 12 119 116; D2 12 119 116; D2 12 119 116; D2 12 119 116; D2 12 119 116; D2 12 119 116; D2 12 119 116;
  D2 12 119 116; D2 12 119 116; D2 12 119 116; D2 13 119 32; D2 13 119 32; D2 13 119 32; D2 13 119 32; D2 13 119 32;
  D2 13 119 32; D2 13 119 32; D2 13 119 32; D2 13 119 37; D2 13 119 37; D2 13 119 37; D2 13 119 37; D2 13 119 37;
  D2 13 119 37; D2 13 119 37; D2 13 119 37; D2 13 119 45; D2 13 119 45; D2 13 119 45; D2 13 119 45; D2 13 119 45;
  D2 13 119 45; D2 13 119 45; D2 13 119 45; D2 13 119 46; D2 13 119 46; D2 13 119 46; D2 13 119 46; D2 13 119 46;
  D2 13 119 46; D2 13 119 46; D2 13 119 46; D2 13 119 47; D2 13 119 47; D2 13 119 47; D2 13 119 47; D2 13 119 47;
  D2 13 119 47; D2 13 119 47; D2 13 119 47; D2 13 119 51; D2 13 119 51; D2 13 119 51; D2 13 119 51; D2 13 119 51;
  D2 13 119 51; D2 13 119 51; D2 13 119 51; D2 13 119 52; D2 13 119 52; D2 13 119 52; D2 13 119 52; D2 13 119 52;
  D2 13 119 52; D2 13 119 52; D2 13 119 52; D2 13 119 53; D2 13 119 53; D2 13 119 53; D2 13 119 53; D2 13 119 53;
  D2 13 119 53; D2 13 119 53; D2 13 119 53; D2 13 119 54; D2 13 119 54; D2 13 119 54; D2 13 119 54; D2 13 119 54;
  D2 13 119 54; D2 13 119 54; D2 13 119 54; D2 13 119 55; D2 13 119 55; D2 13 119 55; D2 13 119 55; D2 13 119 55;
  D2 13 119 55; D2 13 119 55; D2 13 119 55; D2 13 119 56; D2 13 119 56; D2 13 119 56; D2 13 119 56; D2 13 119 56;
  D2 13 119 56; D2 13 119 56; D2 13 119 56; D2 13 119 57; D2 13 119 57; D2 13 119 57; D2 13 119 57; D2 13 119 57;
  D2 13 119 57; D2 13 119 57; D2 13 119 57].
Definition hdecs_241 : list hdec := [
  D2 13 119 61; D2 13 119 61; D2 13 119 61; D2 13 119 61; D2 13 119 61; D2 13 119 61; D2 13 119 61; D2 13 119 61;
  D2 13 119 65; D2 13 119 65; D2 13 119 65; D2 13 119 65; D2 13 119 65; D2 13 119 65; D2 13 119 65; D2 13 119 65;
  D2 13 119 95; D2 13 119 95; D2 13 119 95; D2 13 119 95; D2 13 119 95; D2 13 119 95; D2 13 119 95; D2 13 119 95;
  D2 13 119 98; D2 13 119 98; D2 13 119 98; D2 13 119 98; D2 13 119 98; D2 13 119 98; D2 13 119 98; D2 13 119 98;
  D2 13 119 100; D2 13 119 100; D2 13 119 100; D2 13 119 100; D2 13 119 100; D2 13 119 100; D2 13 119 100;
  D2 13 119 100; D2 13 119 102; D2 13 119 102; D2 13 119 102; D2 13 119 102; D2 13 119 102; D2 13 119 102;
  D2 13 119 102; D2 13 119 102; D2 13 119 103; D2 13 119 103; D2 13 119 103; D2 13 119 103; D2 13 119 103;
  D2 13 119 103; D2 13 119 103; D2 13 119 103; D2 13 119 104; D2 13 119 104; D2 13 119 104; D2 13 119 104;
  D2 13 119 104; D2 13 119 104; D2 13 119 104; D2 13 119 104; D2 13 119 108; D2 13 119 108; D2 13 119 108;
  D2 13 119 108; D2 13 119 108; D2 13 119 108; D2 13 119 108; D2 13 119 108; D2 13 119 109; D2 13 119 109;
  D2 13 119 109; D2 13 119 109; D2 13 119 109; D2 13 119 109; D2 13 119 109; D2 13 119 109; D2 13 119 110;
  D2 13 119 110; D2 13 119 110; D2 13 119 110; D2 13 119 110; D2 13 119 110; D2 13 119 110; D2 13 119 110;
  D2 13 119 112; D2 13 119 112; D2 13 119 112; D2 13 119 112; D2 13 119 112; D2 13 119 112; D2 13 119 112;
  D2 13 119 112; D2 13 119 114; D2 13 119 114; D2 13 119 114; D2 13 119 114; D2 13 119 114; D2 13 119 114;
  D2 13 119 114; D2 13 119 114; D2 13 119 117; D2 13 119 117; D2 13 119 117; D2 13 119 117; D2 13 119 117;
  D2 13 119 117; D2 13 119 117; D2 13 119 117; D2 14 119 58; D2 14 119 58; D2 14 119 58; D2 14 119 58; D2 14 119 66;
  D2 14 119 66; D2 14 119 66; D2 14 119 66; D2 14 119 67; D2 14 119 67; D2 14 119 67; D2 14 119 67; D2 14 119 68;
  D2 14 119 68; D2 14 119 68; D2 14 119 68; D2 14 119 69; D2 14 119 69; D2 14 119 69; D2 14 119 69; D2 14 119 70;
  D2 14 119 70; D2 14 119 70; D2 14 119 70; D2 14 119 71; D2 14 119 71; D2 14 119 71; D2 14 119 71; D2 14 119 72;
  D2 14 119 72; D2 14 119 72; D2 14 119 72; D2 14 119 73; D2 14 119 73; D2 14 119 73; D2 14 119 73; D2 14 119 74;
  D2 14 119 74; D2 14 119 74; D2 14 119 74; D2 14 119 75; D2 14 119 75; D2 14 119 75; D2 14 119 75; D2 14 119 76;
  D2 14 119 76; D2 14 119 76; D2 14 119 76; D2 14 119 77; D2 14 119 77; D2 14 119 77; D2 14 119 77; D2 14 119 78;
  D2 14 119 78; D2 14 119 78; D2 14 119 78; D2 14 119 79; D2 14 119 79; D2 14 119 79; D2 14 119 79; D2 14 119 80;
  D2 14 119 80; D2 14 119 80; D2 14 119 80; D2 14 119 81; D2 14 119 81; D2 14 119 81; D2 14 119 81; D2 14 119 82;
  D2 14 119 82; D2 14 119 82; D2 14 119 82; D2 14 119 83; D2 14 119 83; D2 14 119 83; D2 14 119 83; D2 14 119 84;
  D2 14 119 84; D2 14 119 84; D2 14 119 84; D2 14 119 85; D2 14 119 85; D2 14 119 85; D2 14 119 85; D2 14 119 86;
  D2 14 119 86; D2 14 119 86; D2 14 119 86; D2 14 119 87; D2 14 119 87; D2 14 119 87; D2 14 119 87; D2 14 119 89;
  D2 14 119 89; D2 14 119 89; D2 14 119 89; D2 14 119 106; D2 14 119 106; D2 14 119 106; D2 14 119 106; D2 14 119 107;
  D2 14 119 107; D2 14 119 107; D2 14 119 107; D2 14 119 113; D2 14 119 113; D2 14 119 113; D2 14 119 113;
  D2 14 119 118; D2 14 119 118; D2 14 119 118; D2 14 119 118; D2 14 119 119; D2 14 119 119; D2 14 119 119;
  D2 14 119 119; D2 14 119 120; D2 14 119 120; D2 14 119 120; D2 14 119 120; D2 14 119 121; D2 14 119 121;
  D2 14 119 121; D2 14 119 121; D2 14 119 122; D2 14 119 122; D2 14 119 122; D2 14 119 122; D2 15 119 38;
  D2 15 119 38; D2 15 119 42; D2 15 119 42; D2 15 119 44; D2 15 119 44; D2 15 119 59; D2 15 119 59; D2 15 119 88;
  D2 15 119 88; D2 15 119 90; D2 15 119 90; D1 7 119; D1 7 119; D1 7 119; D1 7 119].
Definition hdecs_242 : list hdec := [
  D2 12 120 48; D2 12 120 48; D2 12 120 48; D2 12 120 48; D2 12 120 48; D2 12 120 48; D2 12 120 48; D2 12 120 48;
  D2 12 120 48; D2 12 120 48; D2 12 120 48; D2 12 120 48; D2 12 120 48; D2 12 120 48; D2 12 120 48; D2 12 120 48;
  D2 12 120 49; D2 12 120 49; D2 12 120 49; D2 12 120 49; D2 12 120 49; D2 12 120 49; D2 12 120 49; D2 12 120 49;
  D2 12 120 49; D2 12 120 49; D2 12 120 49; D2 12 120 49; D2 12 120 49; D2 12 120 49; D2 12 120 49; D2 12 120 49;
  D2 12 120 50; D2 12 120 50; D2 12 120 50; D2 12 120 50; D2 12 120 50; D2 12 120 50; D2 12 120 50; D2 12 120 50;
  D2 12 120 50; D2 12 120 50; D2 12 120 50; D2 12 120 50; D2 12 120 50; D2 12 120 50; D2 12 120 50; D2 12 120 50;
  D2 12 120 97; D2 12 120 97; D2 12 120 97; D2 12 120 97; D2 12 120 97; D2 12 120 97; D2 12 120 97; D2 12 120 97;
  D2 12 120 97; D2 12 120 97; D2 12 120 97; D2 12 120 97; D2 12 120 97; D2 12 120 97; D2 12 120 97; D2 12 120 97;
  D2 12 120 99; D2 12 120 99; D2 12 120 99; D2 12 120 99; D2 12 120 99; D2 12 120 99; D2 12 120 99; D2 12 120 99;
  D2 12 120 99; D2 12 120 99; D2 12 120 99; D2 12 120 99; D2 12 120 99; D2 12 120 99; D2 12 120 99; D2 12 120 99;
  D2 12 120 101; D2 12 120 101; D2 12 120 101; D2 12 120 101; D2 12 120 101; D2 12 120 101; D2 12 120 101;
  D2 12 120 101; D2 12 120 101; D2 12 120 101; D2 12 120 101; D2 12 120 101; D2 12 120 101; D2 12 120 101;
  D2 12 120 101; D2 12 120 101; D2 12 120 105; D2 12 120 105; D2 12 120 105; D2 12 120 105; D2 12 120 105;
  D2 12 120 105; D2 12 120 105; D2 12 120 105; D2 12 120 105; D2 12 120 105; D2 12 120 105; D2 12 120 105;
  D2 12 120 105; D2 12 120 105; D2 12 120 105; D2 12 120 105; D2 12 120 111; D2 12 120 111; D2 12 120 111;
  D2 12 120 111; D2 12 120 111; D2 12 120 111; D2 12 120 111; D2 12 120 111; D2 12 120 111; D2 12 120 111;
  D2 12 120 111; D2 12 120 111; D2 12 120 111; D2 12 120 111; D2 12 120 111; D2 12 120 111; D2 12 120 115;
  D2 12 120 115; D2 12 120 115; D2 12 120 115; D2 12 120 115; D2 12 120 115; D2 12 120 115; D2 12 120 115;
  D2 12 120 115; D2 12 120 115; D2 12 120 115; D2 12 120 115; D2 12 120 115; D2 12 120 115; D2 12 120 115;
  D2 12 120 115; D2 12 120 116; D2 12 120 116; D2 12 120 116; D2 12 120 116; D2 12 120 116; D2 12 120 116;
  D2 12 120 116; D2 12 120 116; D2 12 120 116; D2 12 120 116; D2 12 120 116; D2 12 120 116; D2 12 120 116;
  D2 12 120 116; D2 12 120 116; D2 12 120 116; D2 13 120 32; D2 13 120 32; D2 13 120 32; D2 13 120 32; D2 13 120 32;
  D2 13 120 32; D2 13 120 32; D2 13 120 32; D2 13 120 37; D2 13 120 37; D2 13 120 37; D2 13 120 37; D2 13 120 37;
  D2 13 120 37; D2 13 120 37; D2 13 120 37; D2 13 120 45; D2 13 120 45; D2 13 120 45; D2 13 120 45; D2 13 120 45;
  D2 13 120 45; D2 13 120 45; D2 13 120 45; D2 13 120 46; D2 13 120 46; D2 13 120 46; D2 13 120 46; D2 13 120 46;
  D2 13 120 46; D2 13 120 46; D2 13 120 46; D2 13 120 47; D2 13 120 47; D2 13 120 47; D2 13 120 47; D2 13 120 47;
  D2 13 120 47; D2 13 120 47; D2 13 120 47; D2 13 120 51; D2 13 120 51; D2 13 120 51; D2 13 120 51; D2 13 120 51;
  D2 13 120 51; D2 13 120 51; D2 13 120 51; D2 13 120 52; D2 13 120 52; D2 13 120 52; D2 13 120 52; D2 13 120 52;
  D2 13 120 52; D2 13 120 52; D2 13 120 52; D2 13 120 53; D2 13 120 53; D2 13 120 53; D2 13 120 53; D2 13 120 53;
  D2 13 120 53; D2 13 120 53; D2 13 120 53; D2 13 120 54; D2 13 120 54; D2 13 120 54; D2 13 120 54; D2 13 120 54;
  D2 13 120 54; D2 13 120 54; D2 13 120 54; D2 13 120 55; D2 13 120 55; D2 13 120 55; D2 13 120 55; D2 13 120 55;
  D2 13 120 55; D2 13 120 55; D2 13 120 55; D2 13 120 56; D2 13 120 56; D2 13 120 56; D2 13 120 56; D2 13 120 56;
  D2 13 120 56; D2 13 120 56; D2 13 120 56; D2 13 120 57; D2 13 120 57; D2 13 120 57; D2 13 120 57; D2 13 120 57;
  D2 13 120 57; D2 13 120 57; D2 13 120 57].
Definition hdecs_243 : list hdec := [
  D2 13 120 61; D2 13 120 61; D2 13 120 61; D2 13 120 61; D2 13 120 61; D2 13 120 61; D2 13 120 61; D2 13 120 61;
  D2 13 120 65; D2 13 120 65; D2 13 120 65; D2 13 120 65; D2 13 120 65; D2 13 120 65; D2 13 120 65; D2 13 120 65;
  D2 13 120 95; D2 13 120 95; D2 13 120 95; D2 13 120 95; D2 13 120 95; D2 13 120 95; D2 13 120 95; D2 13 120 95;
  D2 13 120 98; D2 13 120 98; D2 13 120 98; D2 13 120 98; D2 13 120 98; D2 13 120 98; D2 13 120 98; D2 13 120 98;
  D2 13 120 100; D2 13 120 100; D2 13 120 100; D2 13 120 100; D2 13 120 100; D2 13 120 100; D2 13 120 100;
  D2 13 120 100; D2 13 120 102; D2 13 120 102; D2 13 120 102; D2 13 120 102; D2 13 120 102; D2 13 120 102;
  D2 13 120 102; D2 13 120 102; D2 13 120 103; D2 13 120 103; D2 13 120 103; D2 13 120 103; D2 13 120 103;
  D2 13 120 103; D2 13 120 103; D2 13 120 103; D2 13 120 104; D2 13 120 104; D2 13 120 104; D2 13 120 104;
  D2 13 120 104; D2 13 120 104; D2 13 120 104; D2 13 120 104; D2 13 120 108; D2 13 120 108; D2 13 120 108;
  D2 13 120 108; D2 13 120 108; D2 13 120 108; D2 13 120 108; D2 13 120 108; D2 13 120 109; D2 13 120 109;
  D2 13 120 109; D2 13 120 109; D2 13 120 109; D2 13 120 109; D2 13 120 109; D2 13 120 109; D2 13 120 110;
  D2 13 120 110; D2 13 120 110; D2 13 120 110; D2 13 120 110; D2 13 120 110; D2 13 120 110; D2 13 120 110;
  D2 13 120 112; D2 13 120 112; D2 13 120 112; D2 13 120 112; D2 13 120 112; D2 13 120 112; D2 13 120 112;
  D2 13 120 112; D2 13 120 114; D2 13 120 114; D2 13 120 114; D2 13 120 114; D2 13 120 114; D2 13 120 114;
  D2 13 120 114; D2 13 120 114; D2 13 120 117; D2 13 120 117; D2 13 120 117; D2 13 120 117; D2 13 120 117;
  D2 13 120 117; D2 13 120 117; D2 13 120 117; D2 14 120 58; D2 14 120 58; D2 14 120 58; D2 14 120 58; D2 14 120 66;
  D2 14 120 66; D2 14 120 66; D2 14 120 66; D2 14 120 67; D2 14 120 67; D2 14 120 67; D2 14 120 67; D2 14 120 68;
  D2 14 120 68; D2 14 120 68; D2 14 120 68; D2 14 120 69; D2 14 120 69; D2 14 120 69; D2 14 120 69; D2 14 120 70;
  D2 14 120 70; D2 14 120 70; D2 14 120 70; D2 14 120 71; D2 14 120 71; D2 14 120 71; D2 14 120 71; D2 14 120 72;
  D2 14 120 72; D2 14 120 72; D2 14 120 72; D2 14 120 73; D2 14 120 73; D2 14 120 73; D2 14 120 73; D2 14 120 74;
  D2 14 120 74; D2 14 120 74; D2 14 120 74; D2 14 120 75; D2 14 120 75; D2 14 120 75; D2 14 120 75; D2 14 120 76;
  D2 14 120 76; D2 14 120 76; D2 14 120 76; D2 14 120 77; D2 14 120 77; D2 14 120 77; D2 14 120 77; D2 14 120 78;
  D2 14 120 78; D2 14 120 78; D2 14 120 78; D2 14 120 79; D2 14 120 79; D2 14 120 79; D2 14 120 79; D2 14 120 80;
  D2 14 120 80; D2 14 120 80; D2 14 120 80; D2 14 120 81; D2 14 120 81; D2 14 120 81; D2 14 120 81; D2 14 120 82;
  D2 14 120 82; D2 14 120 82; D2 14 120 82; D2 14 120 83; D2 14 120 83; D2 14 120 83; D2 14 120 83; D2 14 120 84;
  D2 14 120 84; D2 14 120 84; D2 14 120 84; D2 14 120 85; D2 14 120 85; D2 14 120 85; D2 14 120 85; D2 14 120 86;
  D2 14 120 86; D2 14 120 86; D2 14 120 86; D2 14 120 87; D2 14 120 87; D2 14 120 87; D2 14 120 87; D2 14 120 89;
  D2 14 120 89; D2 14 120 89; D2 14 120 89; D2 14 120 106; D2 14 120 106; D2 14 120 106; D2 14 120 106; D2 14 120 107;
  D2 14 120 107; D2 14 120 107; D2 14 120 107; D2 14 120 113; D2 14 120 113; D2 14 120 113; D2 14 120 113;
  D2 14 120 118; D2 14 120 118; D2 14 120 118; D2 14 120 118; D2 14 120 119; D2 14 120 119; D2 14 120 119;
  D2 14 120 119; D2 14 120 120; D2 14 120 120; D2 14 120 120; D2 14 120 120; D2 14 120 121; D2 14 120 121;
  D2 14 120 121; D2 14 120 121; D2 14 120 122; D2 14 120 122; D2 14 120 122; D2 14 120 122; D2 15 120 38;
  D2 15 120 38; D2 15 120 42; D2 15 120 42; D2 15 120 44; D2 15 120 44; D2 15 120 59; D2 15 120 59; D2 15 120 88;
  D2 15 120 88; D2 15 120 90; D2 15 120 90; D1 7 120; D1 7 120; D1 7 120; D1 7 120].
Definition hdecs_244 : list hdec := [
  D2 12 121 48; D2 12 121 48; D2 12 121 48; D2 12 121 48; D2 12 121 48; D2 12 121 48; D2 12 121 48; D2 12 121 48;
  D2 12 121 48; D2 12 121 48; D2 12 121 48; D2 12 121 48; D2 12 121 48; D2 12 121 48; D2 12 121 48; D2 12 121 48;
  D2 12 121 49; D2 12 121 49; D2 12 121 49; D2 12 121 49; D2 12 121 49; D2 12 121 49; D2 12 121 49; D2 12 121 49;
  D2 12 121 49; D2 12 121 49; D2 12 121 49; D2 12 121 49; D2 12 121 49; D2 12 121 49; D2 12 121 49; D2 12 121 49;
  D2 12 121 50; D2 12 121 50; D2 12 121 50; D2 12 121 50; D2 12 121 50; D2 12 121 50; D2 12 121 50; D2 12 121 50;
  D2 12 121 50; D2 12 121 50; D2 12 121 50; D2 12 121 50; D2 12 121 50; D2 12 121 50; D2 12 121 50; D2 12 121 50;
  D2 12 121 97; D2 12 121 97; D2 12 121 97; D2 12 121 97; D2 12 121 97; D2 12 121 97; D2 12 121 97; D2 12 121 97;
  D2 12 121 97; D2 12 121 97; D2 12 121 97; D2 12 121 97; D2 12 121 97; D2 12 121 97; D2 12 121 97; D2 12 121 97;
  D2 12 121 99; D2 12 121 99; D2 12 121 99; D2 12 121 99; D2 12 121 99; D2 12 121 99; D2 12 121 99; D2 12 121 99;
  D2 12 121 99; D2 12 121 99; D2 12 121 99; D2 12 121 99; D2 12 121 99; D2 12 121 99; D2 12 121 99; D2 12 121 99;
  D2 12 121 101; D2 12 121 101; D2 12 121 101; D2 12 121 101; D2 12 121 101; D2 12 121 101; D2 12 121 101;
  D2 12 121 101; D2 12 121 101; D2 12 121 101; D2 12 121 101; D2 12 121 101; D2 12 121 101; D2 12 121 101;
  D2 12 121 101; D2 12 121 101; D2 12 121 105; D2 12 121 105; D2 12 121 105; D2 12 121 105; D2 12 121 105;
  D2 12 121 105; D2 12 121 105; D2 12 121 105; D2 12 121 105; D2 12 121 105; D2 12 121 105; D2 12 121 105;
  D2 12 121 105; D2 12 121 105; D2 12 121 105; D2 12 121 105; D2 12 121 111; D2 12 121 111; D2 12 121 111;
  D2 12 121 111; D2 12 121 111; D2 12 121 111; D2 12 121 111; D2 12 121 111; D2 12 121 111; D2 12 121 111;
  D2 12 121 111; D2 12 121 111; D2 12 121 111; D2 12 121 111; D2 12 121 111; D2 12 121 111; D2 12 121 115;
  D2 12 121 115; D2 12 121 115; D2 12 121 115; D2 12 121 115; D2 12 121 115; D2 12 121 115; D2 12 121 115;
  D2 12 121 115; D2 12 121 115; D2 12 121 115; D2 12 121 115; D2 12 121 115; D2 12 121 115; D2 12 121 115;
  D2 12 121 115; D2 12 121 116; D2 12 121 116; D2 12 121 116; D2 12 121 116; D2 12 121 116; D2 12 121 116;
  D2 12 121 116; D2 12 121 116; D2 12 121 116; D2 12 121 116; D2 12 121 116; D2 12 121 116; D2 12 121 116;
  D2 12 121 116; D2 12 121 116; D2 12 121 116; D2 13 121 32; D2 13 121 32; D2 13 121 32; D2 13 121 32; D2 13 121 32;
  D2 13 121 32; D2 13 121 32; D2 13 121 32; D2 13 121 37; D2 13 121 37; D2 13 121 37; D2 13 121 37; D2 13 121 37;
  D2 13 121 37; D2 13 121 37; D2 13 121 37; D2 13 121 45; D2 13 121 45; D2 13 121 45; D2 13 121 45; D2 13 121 45;
  D2 13 121 45; D2 13 121 45; D2 13 121 45; D2 13 121 46; D2 13 121 46; D2 13 121 46; D2 13 121 46; D2 13 121 46;
  D2 13 121 46; D2 13 121 46; D2 13 121 46; D2 13 121 47; D2 13 121 47; D2 13 121 47; D2 13 121 47; D2 13 121 47;
  D2 13 121 47; D2 13 121 47; D2 13 121 47; D2 13 121 51; D2 13 121 51; D2 13 121 51; D2 13 121 51; D2 13 121 51;
  D2 13 121 51; D2 13 121 51; D2 13 121 51; D2 13 121 52; D2 13 121 52; D2 13 121 52; D2 13 121 52; D2 13 121 52;
  D2 13 121 52; D2 13 121 52; D2 13 121 52; D2 13 121 53; D2 13 121 53; D2 13 121 53; D2 13 121 53; D2 13 121 53;
  D2 13 121 53; D2 13 121 53; D2 13 121 53; D2 13 121 54; D2 13 121 54; D2 13 121 54; D2 13 121 54; D2 13 121 54;
  D2 13 121 54; D2 13 121 54; D2 13 121 54; D2 13 121 55; D2 13 121 55; D2 13 121 55; D2 13 121 55; D2 13 121 55;
  D2 13 121 55; D2 13 121 55; D2 13 121 55; D2 13 121 56; D2 13 121 56; D2 13 121 56; D2 13 121 56; D2 13 121 56;
  D2 13 121 56; D2 13 121 56; D2 13 121 56; D2 13 121 57; D2 13 121 57; D2 13 121 57; D2 13 121 57; D2 13 121 57;
  D2 13 121 57; D2 13 121 57; D2 13 121 57].
Definition hdecs_245 : list hdec := [
  D2 13 121 61; D2 13 121 61; D2 13 121 61; D2 13 121 61; D2 13 121 61; D2 13 121 61; D2 13 121 61; D2 13 121 61;
  D2 13 121 65; D2 13 121 65; D2 13 121 65; D2 13 121 65; D2 13 121 65; D2 13 121 65; D2 13 121 65; D2 13 121 65;
  D2 13 121 95; D2 13 121 95; D2 13 121 95; D2 13 121 95; D2 13 121 95; D2 13 121 95; D2 13 121 95; D2 13 121 95;
  D2 13 121 98; D2 13 121 98; D2 13 121 98; D2 13 121 98; D2 13 121 98; D2 13 121 98; D2 13 121 98; D2 13 121 98;
  D2 13 121 100; D2 13 121 100; D2 13 121 100; D2 13 121 100; D2 13 121 100; D2 13 121 100; D2 13 121 100;
  D2 13 121 100; D2 13 121 102; D2 13 121 102; D2 13 121 102; D2 13 121 102; D2 13 121 102; D2 13 121 102;
  D2 13 121 102; D2 13 121 102; D2 13 121 103; D2 13 121 103; D2 13 121 103; D2 13 121 103; D2 13 121 103;
  D2 13 121 103; D2 13 121 103; D2 13 121 103; D2 13 121 104; D2 13 121 104; D2 13 121 104; D2 13 121 104;
  D2 13 121 104; D2 13 121 104; D2 13 121 104; D2 13 121 104; D2 13 121 108; D2 13 121 108; D2 13 121 108;
  D2 13 121 108; D2 13 121 108; D2 13 121 108; D2 13 121 108; D2 13 121 108; D2 13 121 109; D2 13 121 109;
  D2 13 121 109; D2 13 121 109; D2 13 121 109; D2 13 121 109; D2 13 121 109; D2 13 121 109; D2 13 121 110;
  D2 13 121 110; D2 13 121 110; D2 13 121 110; D2 13 121 110; D2 13 121 110; D2 13 121 110; D2 13 121 110;
  D2 13 121 112; D2 13 121 112; D2 13 121 112; D2 13 121 112; D2 13 121 112; D2 13 121 112; D2 13 121 112;
  D2 13 121 112; D2 13 121 114; D2 13 121 114; D2 13 121 114; D2 13 121 114; D2 13 121 114; D2 13 121 114;
  D2 13 121 114; D2 13 121 114; D2 13 121 117; D2 13 121 117; D2 13 121 117; D2 13 121 117; D2 13 121 117;
  D2 13 121 117; D2 13 121 117; D2 13 121 117; D2 14 121 58; D2 14 121 58; D2 14 121 58; D2 14 121 58; D2 14 121 66;
  D2 14 121 66; D2 14 121 66; D2 14 121 66; D2 14 121 67; D2 14 121 67; D2 14 121 67; D2 14 121 67; D2 14 121 68;
  D2 14 121 68; D2 14 121 68; D2 14 121 68; D2 14 121 69; D2 14 121 69; D2 14 121 69; D2 14 121 69; D2 14 121 70;
  D2 14 121 70; D2 14 121 70; D2 14 121 70; D2 14 121 71; D2 14 121 71; D2 14 121 71; D2 14 121 71; D2 14 121 72;
  D2 14 121 72; D2 14 121 72; D2 14 121 72; D2 14 121 73; D2 14 121 73; D2 14 121 73; D2 14 121 73; D2 14 121 74;
  D2 14 121 74; D2 14 121 74; D2 14 121 74; D2 14 121 75; D2 14 121 75; D2 14 121 75; D2 14 121 75; D2 14 121 76;
  D2 14 121 76; D2 14 121 76; D2 14 121 76; D2 14 121 77; D2 14 121 77; D2 14 121 77; D2 14 121 77; D2 14 121 78;
  D2 14 121 78; D2 14 121 78; D2 14 121 78; D2 14 121 79; D2 14 121 79; D2 14 121 79; D2 14 121 79; D2 14 121 80;
  D2 14 121 80; D2 14 121 80; D2 14 121 80; D2 14 121 81; D2 14 121 81; D2 14 121 81; D2 14 121 81; D2 14 121 82;
  D2 14 121 82; D2 14 121 82; D2 14 121 82; D2 14 121 83; D2 14 121 83; D2 14 121 83; D2 14 121 83; D2 14 121 84;
  D2 14 121 84; D2 14 121 84; D2 14 121 84; D2 14 121 85; D2 14 121 85; D2 14 121 85; D2 14 121 85; D2 14 121 86;
  D2 14 121 86; D2 14 121 86; D2 14 121 86; D2 14 121 87; D2 14 121 87; D2 14 121 87; D2 14 121 87; D2 14 121 89;
  D2 14 121 89; D2 14 121 89; D2 14 121 89; D2 14 121 106; D2 14 121 106; D2 14 121 106; D2 14 121 106; D2 14 121 107;
  D2 14 121 107; D2 14 121 107; D2 14 121 107; D2 14 121 113; D2 14 121 113; D2 14 121 113; D2 14 121 113;
  D2 14 121 118; D2 14 121 118; D2 14 121 118; D2 14 121 118; D2 14 121 119; D2 14 121 119; D2 14 121 119;
  D2 14 121 119; D2 14 121 120; D2 14 121 120; D2 14 121 120; D2 14 121 120; D2 14 121 121; D2 14 121 121;
  D2 14 121 121; D2 14 121 121; D2 14 121 122; D2 14 121 122; D2 14 121 122; D2 14 121 122; D2 15 121 38;
  D2 15 121 38; D2 15 121 42; D2 15 121 42; D2 15 121 44; D2 15 121 44; D2 15 121 59; D2 15 121 59; D2 15 121 88;
  D2 15 121 88; D2 15 121 90; D2 15 121 90; D1 7 121; D1 7 121; D1 7 121; D1 7 121].
Definition hdecs_246 : list hdec := [
  D2 12 122 48; D2 12 122 48; D2 12 122 48; D2 12 122 48; D2 12 122 48; D2 12 122 48; D2 12 122 48; D2 12 122 48;
  D2 12 122 48; D2 12 122 48; D2 12 122 48; D2 12 122 48; D2 12 122 48; D2 12 122 48; D2 12 122 48; D2 12 122 48;
  D2 12 122 49; D2 12 122 49; D2 12 122 49; D2 12 122 49; D2 12 122 49; D2 12 122 49; D2 12 122 49; D2 12 122 49;
  D2 12 122 49; D2 12 122 49; D2 12 122 49; D2 12 122 49; D2 12 122 49; D2 12 122 49; D2 12 122 49; D2 12 122 49;
  D2 12 122 50; D2 12 122 50; D2 12 122 50; D2 12 122 50; D2 12 122 50; D2 12 122 50; D2 12 122 50; D2 12 122 50;
  D2 12 122 50; D2 12 122 50; D2 12 122 50; D2 12 122 50; D2 12 122 50; D2 12 122 50; D2 12 122 50; D2 12 122 50;
  D2 12 122 97; D2 12 122 97; D2 12 122 97; D2 12 122 97; D2 12 122 97; D2 12 122 97; D2 12 122 97; D2 12 122 97;
  D2 12 122 97; D2 12 122 97; D2 12 122 97; D2 12 122 97; D2 12 122 97; D2 12 122 97; D2 12 122 97; D2 12 122 97;
  D2 12 122 99; D2 12 122 99; D2 12 122 99; D2 12 122 99; D2 12 122 99; D2 12 122 99; D2 12 122 99; D2 12 122 99;
  D2 12 122 99; D2 12 122 99; D2 12 122 99; D2 12 122 99; D2 12 122 99; D2 12 122 99; D2 12 122 99; D2 12 122 99;
  D2 12 122 101; D2 12 122 101; D2 12 122 101; D2 12 122 101; D2 12 122 101; D2 12 122 101; D2 12 122 101;
  D2 12 122 101; D2 12 122 101; D2 12 122 101; D2 12 122 101; D2 12 122 101; D2 12 122 101; D2 12 122 101;
  D2 12 122 101; D2 12 122 101; D2 12 122 105; D2 12 122 105; D2 12 122 105; D2 12 122 105; D2 12 122 105;
  D2 12 122 105; D2 12 122 105; D2 12 122 105; D2 12 122 105; D2 12 122 105; D2 12 122 105; D2 12 122 105;
  D2 12 122 105; D2 12 122 105; D2 12 122 105; D2 12 122 105; D2 12 122 111; D2 12 122 111; D2 12 122 111;
  D2 12 122 111; D2 12 122 111; D2 12 122 111; D2 12 122 111; D2 12 122 111; D2 12 122 111; D2 12 122 111;
  D2 12 122 111; D2 12 122 111; D2 12 122 111; D2 12 122 111; D2 12 122 111; D2 12 122 111; D2 12 122 115;
  D2 12 122 115; D2 12 122 115; D2 12 122 115; D2 12 122 115; D2 12 122 115; D2 12 122 115; D2 12 122 115;
  D2 12 122 115; D2 12 122 115; D2 12 122 115; D2 12 122 115; D2 12 122 115; D2 12 122 115; D2 12 122 115;
  D2 12 122 115; D2 12 122 116; D2 12 122 116; D2 12 122 116; D2 12 122 116; D2 12 122 116; D2 12 122 116;
  D2 12 122 116; D2 12 122 116; D2 12 122 116; D2 12 122 116; D2 12 122 116; D2 12 122 116; D2 12 122 116;
  D2 12 122 116; D2 12 122 116; D2 12 122 116; D2 13 122 32; D2 13 122 32; D2 13 122 32; D2 13 122 32; D2 13 122 32;
  D2 13 122 32; D2 13 122 32; D2 13 122 32; D2 13 122 37; D2 13 122 37; D2 13 122 37; D2 13 122 37; D2 13 122 37;
  D2 13 122 37; D2 13 122 37; D2 13 122 37; D2 13 122 45; D2 13 122 45; D2 13 122 45; D2 13 122 45; D2 13 122 45;
  D2 13 122 45; D2 13 122 45; D2 13 122 45; D2 13 122 46; D2 13 122 46; D2 13 122 46; D2 13 122 46; D2 13 122 46;
  D2 13 122 46; D2 13 122 46; D2 13 122 46; D2 13 122 47; D2 13 122 47; D2 13 122 47; D2 13 122 47; D2 13 122 47;
  D2 13 122 47; D2 13 122 47; D2 13 122 47; D2 13 122 51; D2 13 122 51; D2 13 122 51; D2 13 122 51; D2 13 122 51;
  D2 13 122 51; D2 13 122 51; D2 13 122 51; D2 13 122 52; D2 13 122 52; D2 13 122 52; D2 13 122 52; D2 13 122 52;
  D2 13 122 52; D2 13 122 52; D2 13 122 52; D2 13 122 53; D2 13 122 53; D2 13 122 53; D2 13 122 53; D2 13 122 53;
  D2 13 122 53; D2 13 122 53; D2 13 122 53; D2 13 122 54; D2 13 122 54; D2 13 122 54; D2 13 122 54; D2 13 122 54;
  D2 13 122 54; D2 13 122 54; D2 13 122 54; D2 13 122 55; D2 13 122 55; D2 13 122 55; D2 13 122 55; D2 13 122 55;
  D2 13 122 55; D2 13 122 55; D2 13 122 55; D2 13 122 56; D2 13 122 56; D2 13 122 56; D2 13 122 56; D2 13 122 56;
  D2 13 122 56; D2 13 122 56; D2 13 122 56; D2 13 122 57; D2 13 122 57; D2 13 122 57; D2 13 122 57; D2 13 122 57;
  D2 13 122 57; D2 13 122 57; D2 13 122 57].
Definition hdecs_247 : list hdec := [
  D2 13 122 61; D2 13 122 61; D2 13 122 61; D2 13 122 61; D2 13 122 61; D2 13 122 61; D2 13 122 61; D2 13 122 61;
  D2 13 122 65; D2 13 122 65; D2 13 122 65; D2 13 122 65; D2 13 122 65; D2 13 122 65; D2 13 122 65; D2 13 122 65;
  D2 13 122 95; D2 13 122 95; D2 13 122 95; D2 13 122 95; D2 13 122 95; D2 13 122 95; D2 13 122 95; D2 13 122 95;
  D2 13 122 98; D2 13 122 98; D2 13 122 98; D2 13 122 98; D2 13 122 98; D2 13 122 98; D2 13 122 98; D2 13 122 98;
  D2 13 122 100; D2 13 122 100; D2 13 122 100; D2 13 122 100; D2 13 122 100; D2 13 122 100; D2 13 122 100;
  D2 13 122 100; D2 13 122 102; D2 13 122 102; D2 13 122 102; D2 13 122 102; D2 13 122 102; D2 13 122 102;
  D2 13 122 102; D2 13 122 102; D2 13 122 103; D2 13 122 103; D2 13 122 103; D2 13 122 103; D2 13 122 103;
  D2 13 122 103; D2 13 122 103; D2 13 122 103; D2 13 122 104; D2 13 122 104; D2 13 122 104; D2 13 122 104;
  D2 13 122 104; D2 13 122 104; D2 13 122 104; D2 13 122 104; D2 13 122 108; D2 13 122 108; D2 13 122 108;
  D2 13 122 108; D2 13 122 108; D2 13 122 108; D2 13 122 108; D2 13 122 108; D2 13 122 109; D2 13 122 109;
  D2 13 122 109; D2 13 122 109; D2 13 122 109; D2 13 122 109; D2 13 122 109; D2 13 122 109; D2 13 122 110;
  D2 13 122 110; D2 13 122 110; D2 13 122 110; D2 13 122 110; D2 13 122 110; D2 13 122 110; D2 13 122 110;
  D2 13 122 112; D2 13 122 112; D2 13 122 112; D2 13 122 112; D2 13 122 112; D2 13 122 112; D2 13 122 112;
  D2 13 122 112; D2 13 122 114; D2 13 122 114; D2 13 122 114; D2 13 122 114; D2 13 122 114; D2 13 122 114;
  D2 13 122 114; D2 13 122 114; D2 13 122 117; D2 13 122 117; D2 13 122 117; D2 13 122 117; D2 13 122 117;
  D2 13 122 117; D2 13 122 117; D2 13 122 117; D2 14 122 58; D2 14 122 58; D2 14 122 58; D2 14 122 58; D2 14 122 66;
  D2 14 122 66; D2 14 122 66; D2 14 122 66; D2 14 122 67; D2 14 122 67; D2 14 122 67; D2 14 122 67; D2 14 122 68;
  D2 14 122 68; D2 14 122 68; D2 14 122 68; D2 14 122 69; D2 14 122 69; D2 14 122 69; D2 14 122 69; D2 14 122 70;
  D2 14 122 70; D2 14 122 70; D2 14 122 70; D2 14 122 71; D2 14 122 71; D2 14 122 71; D2 14 122 71; D2 14 122 72;
  D2 14 122 72; D2 14 122 72; D2 14 122 72; D2 14 122 73; D2 14 122 73; D2 14 122 73; D2 14 122 73; D2 14 122 74;
  D2 14 122 74; D2 14 122 74; D2 14 122 74; D2 14 122 75; D2 14 122 75; D2 14 122 75; D2 14 122 75; D2 14 122 76;
  D2 14 122 76; D2 14 122 76; D2 14 122 76; D2 14 122 77; D2 14 122 77; D2 14 122 77; D2 14 122 77; D2 14 122 78;
  D2 14 122 78; D2 14 122 78; D2 14 122 78; D2 14 122 79; D2 14 122 79; D2 14 122 79; D2 14 122 79; D2 14 122 80;
  D2 14 122 80; D2 14 122 80; D2 14 122 80; D2 14 122 81; D2 14 122 81; D2 14 122 81; D2 14 122 81; D2 14 122 82;
  D2 14 122 82; D2 14 122 82; D2 14 122 82; D2 14 122 83; D2 14 122 83; D2 14 122 83; D2 14 122 83; D2 14 122 84;
  D2 14 122 84; D2 14 122 84; D2 14 122 84; D2 14 122 85; D2 14 122 85; D2 14 122 85; D2 14 122 85; D2 14 122 86;
  D2 14 122 86; D2 14 122 86; D2 14 122 86; D2 14 122 87; D2 14 122 87; D2 14 122 87; D2 14 122 87; D2 14 122 89;
  D2 14 122 89; D2 14 122 89; D2 14 122 89; D2 14 122 106; D2 14 122 106; D2 14 122 106; D2 14 122 106; D2 14 122 107;
  D2 14 122 107; D2 14 122 107; D2 14 122 107; D2 14 122 113; D2 14 122 113; D2 14 122 113; D2 14 122 113;
  D2 14 122 118; D2 14 122 118; D2 14 122 118; D2 14 122 118; D2 14 122 119; D2 14 122 119; D2 14 122 119;
  D2 14 122 119; D2 14 122 120; D2 14 122 120; D2 14 122 120; D2 14 122 120; D2 14 122 121; D2 14 122 121;
  D2 14 122 121; D2 14 122 121; D2 14 122 122; D2 14 122 122; D2 14 122 122; D2 14 122 122; D2 15 122 38;
  D2 15 122 38; D2 15 122 42; D2 15 122 42; D2 15 122 44; D2 15 122 44; D2 15 122 59; D2 15 122 59; D2 15 122 88;
  D2 15 122 88; D2 15 122 90; D2 15 122 90; D1 7 122; D1 7 122; D1 7 122; D1 7 122].
Definition hdecs_248 : list hdec := [
  D2 13 38 48; D2 13 38 48; D2 13 38 48; D2 13 38 48; D2 13 38 48; D2 13 38 48; D2 13 38 48; D2 13 38 48; D2 13 38 49;
  D2 13 38 49; D2 13 38 49; D2 13 38 49; D2 13 38 49; D2 13 38 49; D2 13 38 49; D2 13 38 49; D2 13 38 50; D2 13 38 50;
  D2 13 38 50; D2 13 38 50; D2 13 38 50; D2 13 38 50; D2 13 38 50; D2 13 38 50; D2 13 38 97; D2 13 38 97; D2 13 38 97;
  D2 13 38 97; D2 13 38 97; D2 13 38 97; D2 13 38 97; D2 13 38 97; D2 13 38 99; D2 13 38 99; D2 13 38 99; D2 13 38 99;
  D2 13 38 99; D2 13 38 99; D2 13 38 99; D2 13 38 99; D2 13 38 101; D2 13 38 101; D2 13 38 101; D2 13 38 101;
  D2 13 38 101; D2 13 38 101; D2 13 38 101; D2 13 38 101; D2 13 38 105; D2 13 38 105; D2 13 38 105; D2 13 38 105;
  D2 13 38 105; D2 13 38 105; D2 13 38 105; D2 13 38 105; D2 13 38 111; D2 13 38 111; D2 13 38 111; D2 13 38 111;
  D2 13 38 111; D2 13 38 111; D2 13 38 111; D2 13 38 111; D2 13 38 115; D2 13 38 115; D2 13 38 115; D2 13 38 115;
  D2 13 38 115; D2 13 38 115; D2 13 38 115; D2 13 38 115; D2 13 38 116; D2 13 38 116; D2 13 38 116; D2 13 38 116;
  D2 13 38 116; D2 13 38 116; D2 13 38 116; D2 13 38 116; D2 14 38 32; D2 14 38 32; D2 14 38 32; D2 14 38 32;
  D2 14 38 37; D2 14 38 37; D2 14 38 37; D2 14 38 37; D2 14 38 45; D2 14 38 45; D2 14 38 45; D2 14 38 45; D2 14 38 46;
  D2 14 38 46; D2 14 38 46; D2 14 38 46; D2 14 38 47; D2 14 38 47; D2 14 38 47; D2 14 38 47; D2 14 38 51; D2 14 38 51;
  D2 14 38 51; D2 14 38 51; D2 14 38 52; D2 14 38 52; D2 14 38 52; D2 14 38 52; D2 14 38 53; D2 14 38 53; D2 14 38 53;
  D2 14 38 53; D2 14 38 54; D2 14 38 54; D2 14 38 54; D2 14 38 54; D2 14 38 55; D2 14 38 55; D2 14 38 55; D2 14 38 55;
  D2 14 38 56; D2 14 38 56; D2 14 38 56; D2 14 38 56; D2 14 38 57; D2 14 38 57; D2 14 38 57; D2 14 38 57; D2 14 38 61;
  D2 14 38 61; D2 14 38 61; D2 14 38 61; D2 14 38 65; D2 14 38 65; D2 14 38 65; D2 14 38 65; D2 14 38 95; D2 14 38 95;
  D2 14 38 95; D2 14 38 95; D2 14 38 98; D2 14 38 98; D2 14 38 98; D2 14 38 98; D2 14 38 100; D2 14 38 100;
  D2 14 38 100; D2 14 38 100; D2 14 38 102; D2 14 38 102; D2 14 38 102; D2 14 38 102; D2 14 38 103; D2 14 38 103;
  D2 14 38 103; D2 14 38 103; D2 14 38 104; D2 14 38 104; D2 14 38 104; D2 14 38 104; D2 14 38 108; D2 14 38 108;
  D2 14 38 108; D2 14 38 108; D2 14 38 109; D2 14 38 109; D2 14 38 109; D2 14 38 109; D2 14 38 110; D2 14 38 110;
  D2 14 38 110; D2 14 38 110; D2 14 38 112; D2 14 38 112; D2 14 38 112; D2 14 38 112; D2 14 38 114; D2 14 38 114;
  D2 14 38 114; D2 14 38 114; D2 14 38 117; D2 14 38 117; D2 14 38 117; D2 14 38 117; D2 15 38 58; D2 15 38 58;
  D2 15 38 66; D2 15 38 66; D2 15 38 67; D2 15 38 67; D2 15 38 68; D2 15 38 68; D2 15 38 69; D2 15 38 69; D2 15 38 70;
  D2 15 38 70; D2 15 38 71; D2 15 38 71; D2 15 38 72; D2 15 38 72; D2 15 38 73; D2 15 38 73; D2 15 38 74; D2 15 38 74;
  D2 15 38 75; D2 15 38 75; D2 15 38 76; D2 15 38 76; D2 15 38 77; D2 15 38 77; D2 15 38 78; D2 15 38 78; D2 15 38 79;
  D2 15 38 79; D2 15 38 80; D2 15 38 80; D2 15 38 81; D2 15 38 81; D2 15 38 82; D2 15 38 82; D2 15 38 83; D2 15 38 83;
  D2 15 38 84; D2 15 38 84; D2 15 38 85; D2 15 38 85; D2 15 38 86; D2 15 38 86; D2 15 38 87; D2 15 38 87; D2 15 38 89;
  D2 15 38 89; D2 15 38 106; D2 15 38 106; D2 15 38 107; D2 15 38 107; D2 15 38 113; D2 15 38 113; D2 15 38 118;
  D2 15 38 118; D2 15 38 119; D2 15 38 119; D2 15 38 120; D2 15 38 120; D2 15 38 121; D2 15 38 121; D2 15 38 122;
  D2 15 38 122; D2 16 38 38; D2 16 38 42; D2 16 38 44; D2 16 38 59; D2 16 38 88; D2 16 38 90; D1 8 38; D1 8 38].
Definition hdecs_249 : list hdec := [
  D2 13 42 48; D2 13 42 48; D2 13 42 48; D2 13 42 48; D2 13 42 48; D2 13 42 48; D2 13 42 48; D2 13 42 48; D2 13 42 49;
  D2 13 42 49; D2 13 42 49; D2 13 42 49; D2 13 42 49; D2 13 42 49; D2 13 42 49; D2 13 42 49; D2 13 42 50; D2 13 42 50;
  D2 13 42 50; D2 13 42 50; D2 13 42 50; D2 13 42 50; D2 13 42 50; D2 13 42 50; D2 13 42 97; D2 13 42 97; D2 13 42 97;
  D2 13 42 97; D2 13 42 97; D2 13 42 97; D2 13 42 97; D2 13 42 97; D2 13 42 99; D2 13 42 99; D2 13 42 99; D2 13 42 99;
  D2 13 42 99; D2 13 42 99; D2 13 42 99; D2 13 42 99; D2 13 42 101; D2 13 42 101; D2 13 42 101; D2 13 42 101;
  D2 13 42 101; D2 13 42 101; D2 13 42 101; D2 13 42 101; D2 13 42 105; D2 13 42 105; D2 13 42 105; D2 13 42 105;
  D2 13 42 105; D2 13 42 105; D2 13 42 105; D2 13 42 105; D2 13 42 111; D2 13 42 111; D2 13 42 111; D2 13 42 111;
  D2 13 42 111; D2 13 42 111; D2 13 42 111; D2 13 42 111; D2 13 42 115; D2 13 42 115; D2 13 42 115; D2 13 42 115;
  D2 13 42 115; D2 13 42 115; D2 13 42 115; D2 13 42 115; D2 13 42 116; D2 13 42 116; D2 13 42 116; D2 13 42 116;
  D2 13 42 116; D2 13 42 116; D2 13 42 116; D2 13 42 116; D2 14 42 32; D2 14 42 32; D2 14 42 32; D2 14 42 32;
  D2 14 42 37; D2 14 42 37; D2 14 42 37; D2 14 42 37; D2 14 42 45; D2 14 42 45; D2 14 42 45; D2 14 42 45; D2 14 42 46;
  D2 14 42 46; D2 14 42 46; D2 14 42 46; D2 14 42 47; D2 14 42 47; D2 14 42 47; D2 14 42 47; D2 14 42 51; D2 14 42 51;
  D2 14 42 51; D2 14 42 51; D2 14 42 52; D2 14 42 52; D2 14 42 52; D2 14 42 52; D2 14 42 53; D2 14 42 53; D2 14 42 53;
  D2 14 42 53; D2 14 42 54; D2 14 42 54; D2 14 42 54; D2 14 42 54; D2 14 42 55; D2 14 42 55; D2 14 42 55; D2 14 42 55;
  D2 14 42 56; D2 14 42 56; D2 14 42 56; D2 14 42 56; D2 14 42 57; D2 14 42 57; D2 14 42 57; D2 14 42 57; D2 14 42 61;
  D2 14 42 61; D2 14 42 61; D2 14 42 61; D2 14 42 65; D2 14 42 65; D2 14 42 65; D2 14 42 65; D2 14 42 95; D2 14 42 95;
  D2 14 42 95; D2 14 42 95; D2 14 42 98; D2 14 42 98; D2 14 42 98; D2 14 42 98; D2 14 42 100; D2 14 42 100;
  D2 14 42 100; D2 14 42 100; D2 14 42 102; D2 14 42 102; D2 14 42 102; D2 14 42 102; D2 14 42 103; D2 14 42 103;
  D2 14 42 103; D2 14 42 103; D2 14 42 104; D2 14 42 104; D2 14 42 104; D2 14 42 104; D2 14 42 108; D2 14 42 108;
  D2 14 42 108; D2 14 42 108; D2 14 42 109; D2 14 42 109; D2 14 42 109; D2 14 42 109; D2 14 42 110; D2 14 42 110;
  D2 14 42 110; D2 14 42 110; D2 14 42 112; D2 14 42 112; D2 14 42 112; D2 14 42 112; D2 14 42 114; D2 14 42 114;
  D2 14 42 114; D2 14 42 114; D2 14 42 117; D2 14 42 117; D2 14 42 117; D2 14 42 117; D2 15 42 58; D2 15 42 58;
  D2 15 42 66; D2 15 42 66; D2 15 42 67; D2 15 42 67; D2 15 42 68; D2 15 42 68; D2 15 42 69; D2 15 42 69; D2 15 42 70;
  D2 15 42 70; D2 15 42 71; D2 15 42 71; D2 15 42 72; D2 15 42 72; D2 15 42 73; D2 15 42 73; D2 15 42 74; D2 15 42 74;
  D2 15 42 75; D2 15 42 75; D2 15 42 76; D2 15 42 76; D2 15 42 77; D2 15 42 77; D2 15 42 78; D2 15 42 78; D2 15 42 79;
  D2 15 42 79; D2 15 42 80; D2 15 42 80; D2 15 42 81; D2 15 42 81; D2 15 42 82; D2 15 42 82; D2 15 42 83; D2 15 42 83;
  D2 15 42 84; D2 15 42 84; D2 15 42 85; D2 15 42 85; D2 15 42 86; D2 15 42 86; D2 15 42 87; D2 15 42 87; D2 15 42 89;
  D2 15 42 89; D2 15 42 106; D2 15 42 106; D2 15 42 107; D2 15 42 107; D2 15 42 113; D2 15 42 113; D2 15 42 118;
  D2 15 42 118; D2 15 42 119; D2 15 42 119; D2 15 42 120; D2 15 42 120; D2 15 42 121; D2 15 42 121; D2 15 42 122;
  D2 15 42 122; D2 16 42 38; D2 16 42 42; D2 16 42 44; D2 16 42 59; D2 16 42 88; D2 16 42 90; D1 8 42; D1 8 42].
Definition hdecs_250 : list hdec := [
  D2 13 44 48; D2 13 44 48; D2 13 44 48; D2 13 44 48; D2 13 44 48; D2 13 44 48; D2 13 44 48; D2 13 44 48; D2 13 44 49;
  D2 13 44 49; D2 13 44 49; D2 13 44 49; D2 13 44 49; D2 13 44 49; D2 13 44 49; D2 13 44 49; D2 13 44 50; D2 13 44 50;
  D2 13 44 50; D2 13 44 50; D2 13 44 50; D2 13 44 50; D2 13 44 50; D2 13 44 50; D2 13 44 97; D2 13 44 97; D2 13 44 97;
  D2 13 44 97; D2 13 44 97; D2 13 44 97; D2 13 44 97; D2 13 44 97; D2 13 44 99; D2 13 44 99; D2 13 44 99; D2 13 44 99;
  D2 13 44 99; D2 13 44 99; D2 13 44 99; D2 13 44 99; D2 13 44 101; D2 13 44 101; D2 13 44 101; D2 13 44 101;
  D2 13 44 101; D2 13 44 101; D2 13 44 101; D2 13 44 101; D2 13 44 105; D2 13 44 105; D2 13 44 105; D2 13 44 105;
  D2 13 44 105; D2 13 44 105; D2 13 44 105; D2 13 44 105; D2 13 44 111; D2 13 44 111; D2 13 44 111; D2 13 44 111;
  D2 13 44 111; D2 13 44 111; D2 13 44 111; D2 13 44 111; D2 13 44 115; D2 13 44 115; D2 13 44 115; D2 13 44 115;
  D2 13 44 115; D2 13 44 115; D2 13 44 115; D2 13 44 115; D2 13 44 116; D2 13 44 116; D2 13 44 116; D2 13 44 116;
  D2 13 44 116; D2 13 44 116; D2 13 44 116; D2 13 44 116; D2 14 44 32; D2 14 44 32; D2 14 44 32; D2 14 44 32;
  D2 14 44 37; D2 14 44 37; D2 14 44 37; D2 14 44 37; D2 14 44 45; D2 14 44 45; D2 14 44 45; D2 14 44 45; D2 14 44 46;
  D2 14 44 46; D2 14 44 46; D2 14 44 46; D2 14 44 47; D2 14 44 47; D2 14 44 47; D2 14 44 47; D2 14 44 51; D2 14 44 51;
  D2 14 44 51; D2 14 44 51; D2 14 44 52; D2 14 44 52; D2 14 44 52; D2 14 44 52; D2 14 44 53; D2 14 44 53; D2 14 44 53;
  D2 14 44 53; D2 14 44 54; D2 14 44 54; D2 14 44 54; D2 14 44 54; D2 14 44 55; D2 14 44 55; D2 14 44 55; D2 14 44 55;
  D2 14 44 56; D2 14 44 56; D2 14 44 56; D2 14 44 56; D2 14 44 57; D2 14 44 57; D2 14 44 57; D2 14 44 57; D2 14 44 61;
  D2 14 44 61; D2 14 44 61; D2 14 44 61; D2 14 44 65; D2 14 44 65; D2 14 44 65; D2 14 44 65; D2 14 44 95; D2 14 44 95;
  D2 14 44 95; D2 14 44 95; D2 14 44 98; D2 14 44 98; D2 14 44 98; D2 14 44 98; D2 14 44 100; D2 14 44 100;
  D2 14 44 100; D2 14 44 100; D2 14 44 102; D2 14 44 102; D2 14 44 102; D2 14 44 102; D2 14 44 103; D2 14 44 103;
  D2 14 44 103; D2 14 44 103; D2 14 44 104; D2 14 44 104; D2 14 44 104; D2 14 44 104; D2 14 44 108; D2 14 44 108;
  D2 14 44 108; D2 14 44 108; D2 14 44 109; D2 14 44 109; D2 14 44 109; D2 14 44 109; D2 14 44 110; D2 14 44 110;
  D2 14 44 110; D2 14 44 110; D2 14 44 112; D2 14 44 112; D2 14 44 112; D2 14 44 112; D2 14 44 114; D2 14 44 114;
  D2 14 44 114; D2 14 44 114; D2 14 44 117; D2 14 44 117; D2 14 44 117; D2 14 44 117; D2 15 44 58; D2 15 44 58;
  D2 15 44 66; D2 15 44 66; D2 15 44 67; D2 15 44 67; D2 15 44 68; D2 15 44 68; D2 15 44 69; D2 15 44 69; D2 15 44 70;
  D2 15 44 70; D2 15 44 71; D2 15 44 71; D2 15 44 72; D2 15 44 72; D2 15 44 73; D2 15 44 73; D2 15 44 74; D2 15 44 74;
  D2 15 44 75; D2 15 44 75; D2 15 44 76; D2 15 44 76; D2 15 44 77; D2 15 44 77; D2 15 44 78; D2 15 44 78; D2 15 44 79;
  D2 15 44 79; D2 15 44 80; D2 15 44 80; D2 15 44 81; D2 15 44 81; D2 15 44 82; D2 15 44 82; D2 15 44 83; D2 15 44 83;
  D2 15 44 84; D2 15 44 84; D2 15 44 85; D2 15 44 85; D2 15 44 86; D2 15 44 86; D2 15 44 87; D2 15 44 87; D2 15 44 89;
  D2 15 44 89; D2 15 44 106; D2 15 44 106; D2 15 44 107; D2 15 44 107; D2 15 44 113; D2 15 44 113; D2 15 44 118;
  D2 15 44 118; D2 15 44 119; D2 15 44 119; D2 15 44 120; D2 15 44 120; D2 15 44 121; D2 15 44 121; D2 15 44 122;
  D2 15 44 122; D2 16 44 38; D2 16 44 42; D2 16 44 44; D2 16 44 59; D2 16 44 88; D2 16 44 90; D1 8 44; D1 8 44].
Definition hdecs_251 : list hdec := [
  D2 13 59 48; D2 13 59 48; D2 13 59 48; D2 13 59 48; D2 13 59 48; D2 13 59 48; D2 13 59 48; D2 13 59 48; D2 13 59 49;
  D2 13 59 49; D2 13 59 49; D2 13 59 49; D2 13 59 49; D2 13 59 49; D2 13 59 49; D2 13 59 49; D2 13 59 50; D2 13 59 50;
  D2 13 59 50; D2 13 59 50; D2 13 59 50; D2 13 59 50; D2 13 59 50; D2 13 59 50; D2 13 59 97; D2 13 59 97; D2 13 59 97;
  D2 13 59 97; D2 13 59 97; D2 13 59 97; D2 13 59 97; D2 13 59 97; D2 13 59 99; D2 13 59 99; D2 13 59 99; D2 13 59 99;
  D2 13 59 99; D2 13 59 99; D2 13 59 99; D2 13 59 99; D2 13 59 101; D2 13 59 101; D2 13 59 101; D2 13 59 101;
  D2 13 59 101; D2 13 59 101; D2 13 59 101; D2 13 59 101; D2 13 59 105; D2 13 59 105; D2 13 59 105; D2 13 59 105;
  D2 13 59 105; D2 13 59 105; D2 13 59 105; D2 13 59 105; D2 13 59 111; D2 13 59 111; D2 13 59 111; D2 13 59 111;
  D2 13 59 111; D2 13 59 111; D2 13 59 111; D2 13 59 111; D2 13 59 115; D2 13 59 115; D2 13 59 115; D2 13 59 115;
  D2 13 59 115; D2 13 59 115; D2 13 59 115; D2 13 59 115; D2 13 59 116; D2 13 59 116; D2 13 59 116; D2 13 59 116;
  D2 13 59 116; D2 13 59 116; D2 13 59 116; D2 13 59 116; D2 14 59 32; D2 14 59 32; D2 14 59 32; D2 14 59 32;
  D2 14 59 37; D2 14 59 37; D2 14 59 37; D2 14 59 37; D2 14 59 45; D2 14 59 45; D2 14 59 45; D2 14 59 45; D2 14 59 46;
  D2 14 59 46; D2 14 59 46; D2 14 59 46; D2 14 59 47; D2 14 59 47; D2 14 59 47; D2 14 59 47; D2 14 59 51; D2 14 59 51;
  D2 14 59 51; D2 14 59 51; D2 14 59 52; D2 14 59 52; D2 14 59 52; D2 14 59 52; D2 14 59 53; D2 14 59 53; D2 14 59 53;
  D2 14 59 53; D2 14 59 54; D2 14 59 54; D2 14 59 54; D2 14 59 54; D2 14 59 55; D2 14 59 55; D2 14 59 55; D2 14 59 55;
  D2 14 59 56; D2 14 59 56; D2 14 59 56; D2 14 59 56; D2 14 59 57; D2 14 59 57; D2 14 59 57; D2 14 59 57; D2 14 59 61;
  D2 14 59 61; D2 14 59 61; D2 14 59 61; D2 14 59 65; D2 14 59 65; D2 14 59 65; D2 14 59 65; D2 14 59 95; D2 14 59 95;
  D2 14 59 95; D2 14 59 95; D2 14 59 98; D2 14 59 98; D2 14 59 98; D2 14 59 98; D2 14 59 100; D2 14 59 100;
  D2 14 59 100; D2 14 59 100; D2 14 59 102; D2 14 59 102; D2 14 59 102; D2 14 59 102; D2 14 59 103; D2 14 59 103;
  D2 14 59 103; D2 14 59 103; D2 14 59 104; D2 14 59 104; D2 14 59 104; D2 14 59 104; D2 14 59 108; D2 14 59 108;
  D2 14 59 108; D2 14 59 108; D2 14 59 109; D2 14 59 109; D2 14 59 109; D2 14 59 109; D2 14 59 110; D2 14 59 110;
  D2 14 59 110; D2 14 59 110; D2 14 59 112; D2 14 59 112; D2 14 59 112; D2 14 59 112; D2 14 59 114; D2 14 59 114;
  D2 14 59 114; D2 14 59 114; D2 14 59 117; D2 14 59 117; D2 14 59 117; D2 14 59 117; D2 15 59 58; D2 15 59 58;
  D2 15 59 66; D2 15 59 66; D2 15 59 67; D2 15 59 67; D2 15 59 68; D2 15 59 68; D2 15 59 69; D2 15 59 69; D2 15 59 70;
  D2 15 59 70; D2 15 59 71; D2 15 59 71; D2 15 59 72; D2 15 59 72; D2 15 59 73; D2 15 59 73; D2 15 59 74; D2 15 59 74;
  D2 15 59 75; D2 15 59 75; D2 15 59 76; D2 15 59 76; D2 15 59 77; D2 15 59 77; D2 15 59 78; D2 15 59 78; D2 15 59 79;
  D2 15 59 79; D2 15 59 80; D2 15 59 80; D2 15 59 81; D2 15 59 81; D2 15 59 82; D2 15 59 82; D2 15 59 83; D2 15 59 83;
  D2 15 59 84; D2 15 59 84; D2 15 59 85; D2 15 59 85; D2 15 59 86; D2 15 59 86; D2 15 59 87; D2 15 59 87; D2 15 59 89;
  D2 15 59 89; D2 15 59 106; D2 15 59 106; D2 15 59 107; D2 15 59 107; D2 15 59 113; D2 15 59 113; D2 15 59 118;
  D2 15 59 118; D2 15 59 119; D2 15 59 119; D2 15 59 120; D2 15 59 120; D2 15 59 121; D2 15 59 121; D2 15 59 122;
  D2 15 59 122; D2 16 59 38; D2 16 59 42; D2 16 59 44; D2 16 59 59; D2 16 59 88; D2 16 59 90; D1 8 59; D1 8 59].
Definition hdecs_252 : list hdec := [
  D2 13 88 48; D2 13 88 48; D2 13 88 48; D2 13 88 48; D2 13 88 48; D2 13 88 48; D2 13 88 48; D2 13 88 48; D2 13 88 49;
  D2 13 88 49; D2 13 88 49; D2 13 88 49; D2 13 88 49; D2 13 88 49; D2 13 88 49; D2 13 88 49; D2 13 88 50; D2 13 88 50;
  D2 13 88 50; D2 13 88 50; D2 13 88 50; D2 13 88 50; D2 13 88 50; D2 13 88 50; D2 13 88 97; D2 13 88 97; D2 13 88 97;
  D2 13 88 97; D2 13 88 97; D2 13 88 97; D2 13 88 97; D2 13 88 97; D2 13 88 99; D2 13 88 99; D2 13 88 99; D2 13 88 99;
  D2 13 88 99; D2 13 88 99; D2 13 88 99; D2 13 88 99; D2 13 88 101; D2 13 88 101; D2 13 88 101; D2 13 88 101;
  D2 13 88 101; D2 13 88 101; D2 13 88 101; D2 13 88 101; D2 13 88 105; D2 13 88 105; D2 13 88 105; D2 13 88 105;
  D2 13 88 105; D2 13 88 105; D2 13 88 105; D2 13 88 105; D2 13 88 111; D2 13 88 111; D2 13 88 111; D2 13 88 111;
  D2 13 88 111; D2 13 88 111; D2 13 88 111; D2 13 88 111; D2 13 88 115; D2 13 88 115; D2 13 88 115; D2 13 88 115;
  D2 13 88 115; D2 13 88 115; D2 13 88 115; D2 13 88 115; D2 13 88 116; D2 13 88 116; D2 13 88 116; D2 13 88 116;
  D2 13 88 116; D2 13 88 116; D2 13 88 116; D2 13 88 116; D2 14 88 32; D2 14 88 32; D2 14 88 32; D2 14 88 32;
  D2 14 88 37; D2 14 88 37; D2 14 88 37; D2 14 88 37; D2 14 88 45; D2 14 88 45; D2 14 88 45; D2 14 88 45; D2 14 88 46;
  D2 14 88 46; D2 14 88 46; D2 14 88 46; D2 14 88 47; D2 14 88 47; D2 14 88 47; D2 14 88 47; D2 14 88 51; D2 14 88 51;
  D2 14 88 51; D2 14 88 51; D2 14 88 52; D2 14 88 52; D2 14 88 52; D2 14 88 52; D2 14 88 53; D2 14 88 53; D2 14 88 53;
  D2 14 88 53; D2 14 88 54; D2 14 88 54; D2 14 88 54; D2 14 88 54; D2 14 88 55; D2 14 88 55; D2 14 88 55; D2 14 88 55;
  D2 14 88 56; D2 14 88 56; D2 14 88 56; D2 14 88 56; D2 14 88 57; D2 14 88 57; D2 14 88 57; D2 14 88 57; D2 14 88 61;
  D2 14 88 61; D2 14 88 61; D2 14 88 61; D2 14 88 65; D2 14 88 65; D2 14 88 65; D2 14 88 65; D2 14 88 95; D2 14 88 95;
  D2 14 88 95; D2 14 88 95; D2 14 88 98; D2 14 88 98; D2 14 88 98; D2 14 88 98; D2 14 88 100; D2 14 88 100;
  D2 14 88 100; D2 14 88 100; D2 14 88 102; D2 14 88 102; D2 14 88 102; D2 14 88 102; D2 14 88 103; D2 14 88 103;
  D2 14 88 103; D2 14 88 103; D2 14 88 104; D2 14 88 104; D2 14 88 104; D2 14 88 104; D2 14 88 108; D2 14 88 108;
  D2 14 88 108; D2 14 88 108; D2 14 88 109; D2 14 88 109; D2 14 88 109; D2 14 88 109; D2 14 88 110; D2 14 88 110;
  D2 14 88 110; D2 14 88 110; D2 14 88 112; D2 14 88 112; D2 14 88 112; D2 14 88 112; D2 14 88 114; D2 14 88 114;
  D2 14 88 114; D2 14 88 114; D2 14 88 117; D2 14 88 117; D2 14 88 117; D2 14 88 117; D2 15 88 58; D2 15 88 58;
  D2 15 88 66; D2 15 88 66; D2 15 88 67; D2 15 88 67; D2 15 88 68; D2 15 88 68; D2 15 88 69; D2 15 88 69; D2 15 88 70;
  D2 15 88 70; D2 15 88 71; D2 15 88 71; D2 15 88 72; D2 15 88 72; D2 15 88 73; D2 15 88 73; D2 15 88 74; D2 15 88 74;
  D2 15 88 75; D2 15 88 75; D2 15 88 76; D2 15 88 76; D2 15 88 77; D2 15 88 77; D2 15 88 78; D2 15 88 78; D2 15 88 79;
  D2 15 88 79; D2 15 88 80; D2 15 88 80; D2 15 88 81; D2 15 88 81; D2 15 88 82; D2 15 88 82; D2 15 88 83; D2 15 88 83;
  D2 15 88 84; D2 15 88 84; D2 15 88 85; D2 15 88 85; D2 15 88 86; D2 15 88 86; D2 15 88 87; D2 15 88 87; D2 15 88 89;
  D2 15 88 89; D2 15 88 106; D2 15 88 106; D2 15 88 107; D2 15 88 107; D2 15 88 113; D2 15 88 113; D2 15 88 118;
  D2 15 88 118; D2 15 88 119; D2 15 88 119; D2 15 88 120; D2 15 88 120; D2 15 88 121; D2 15 88 121; D2 15 88 122;
  D2 15 88 122; D2 16 88 38; D2 16 88 42; D2 16 88 44; D2 16 88 59; D2 16 88 88; D2 16 88 90; D1 8 88; D1 8 88].
Definition hdecs_253 : list hdec := [
  D2 13 90 48; D2 13 90 48; D2 13 90 48; D2 13 90 48; D2 13 90 48; D2 13 90 48; D2 13 90 48; D2 13 90 48; D2 13 90 49;
  D2 13 90 49; D2 13 90 49; D2 13 90 49; D2 13 90 49; D2 13 90 49; D2 13 90 49; D2 13 90 49; D2 13 90 50; D2 13 90 50;
  D2 13 90 50; D2 13 90 50; D2 13 90 50; D2 13 90 50; D2 13 90 50; D2 13 90 50; D2 13 90 97; D2 13 90 97; D2 13 90 97;
  D2 13 90 97; D2 13 90 97; D2 13 90 97; D2 13 90 97; D2 13 90 97; D2 13 90 99; D2 13 90 99; D2 13 90 99; D2 13 90 99;
  D2 13 90 99; D2 13 90 99; D2 13 90 99; D2 13 90 99; D2 13 90 101; D2 13 90 101; D2 13 90 101; D2 13 90 101;
  D2 13 90 101; D2 13 90 101; D2 13 90 101; D2 13 90 101; D2 13 90 105; D2 13 90 105; D2 13 90 105; D2 13 90 105;
  D2 13 90 105; D2 13 90 105; D2 13 90 105; D2 13 90 105; D2 13 90 111; D2 13 90 111; D2 13 90 111; D2 13 90 111;
  D2 13 90 111; D2 13 90 111; D2 13 90 111; D2 13 90 111; D2 13 90 115; D2 13 90 115; D2 13 90 115; D2 13 90 115;
  D2 13 90 115; D2 13 90 115; D2 13 90 115; D2 13 90 115; D2 13 90 116; D2 13 90 116; D2 13 90 116; D2 13 90 116;
  D2 13 90 116; D2 13 90 116; D2 13 90 116; D2 13 90 116; D2 14 90 32; D2 14 90 32; D2 14 90 32; D2 14 90 32;
  D2 14 90 37; D2 14 90 37; D2 14 90 37; D2 14 90 37; D2 14 90 45; D2 14 90 45; D2 14 90 45; D2 14 90 45; D2 14 90 46;
  D2 14 90 46; D2 14 90 46; D2 14 90 46; D2 14 90 47; D2 14 90 47; D2 14 90 47; D2 14 90 47; D2 14 90 51; D2 14 90 51;
  D2 14 90 51; D2 14 90 51; D2 14 90 52; D2 14 90 52; D2 14 90 52; D2 14 90 52; D2 14 90 53; D2 14 90 53; D2 14 90 53;
  D2 14 90 53; D2 14 90 54; D2 14 90 54; D2 14 90 54; D2 14 90 54; D2 14 90 55; D2 14 90 55; D2 14 90 55; D2 14 90 55;
  D2 14 90 56; D2 14 90 56; D2 14 90 56; D2 14 90 56; D2 14 90 57; D2 14 90 57; D2 14 90 57; D2 14 90 57; D2 14 90 61;
  D2 14 90 61; D2 14 90 61; D2 14 90 61; D2 14 90 65; D2 14 90 65; D2 14 90 65; D2 14 90 65; D2 14 90 95; D2 14 90 95;
  D2 14 90 95; D2 14 90 95; D2 14 90 98; D2 14 90 98; D2 14 90 98; D2 14 90 98; D2 14 90 100; D2 14 90 100;
  D2 14 90 100; D2 14 90 100; D2 14 90 102; D2 14 90 102; D2 14 90 102; D2 14 90 102; D2 14 90 103; D2 14 90 103;
  D2 14 90 103; D2 14 90 103; D2 14 90 104; D2 14 90 104; D2 14 90 104; D2 14 90 104; D2 14 90 108; D2 14 90 108;
  D2 14 90 108; D2 14 90 108; D2 14 90 109; D2 14 90 109; D2 14 90 109; D2 14 90 109; D2 14 90 110; D2 14 90 110;
  D2 14 90 110; D2 14 90 110; D2 14 90 112; D2 14 90 112; D2 14 90 112; D2 14 90 112; D2 14 90 114; D2 14 90 114;
  D2 14 90 114; D2 14 90 114; D2 14 90 117; D2 14 90 117; D2 14 90 117; D2 14 90 117; D2 15 90 58; D2 15 90 58;
  D2 15 90 66; D2 15 90 66; D2 15 90 67; D2 15 90 67; D2 15 90 68; D2 15 90 68; D2 15 90 69; D2 15 90 69; D2 15 90 70;
  D2 15 90 70; D2 15 90 71; D2 15 90 71; D2 15 90 72; D2 15 90 72; D2 15 90 73; D2 15 90 73; D2 15 90 74; D2 15 90 74;
  D2 15 90 75; D2 15 90 75; D2 15 90 76; D2 15 90 76; D2 15 90 77; D2 15 90 77; D2 15 90 78; D2 15 90 78; D2 15 90 79;
  D2 15 90 79; D2 15 90 80; D2 15 90 80; D2 15 90 81; D2 15 90 81; D2 15 90 82; D2 15 90 82; D2 15 90 83; D2 15 90 83;
  D2 15 90 84; D2 15 90 84; D2 15 90 85; D2 15 90 85; D2 15 90 86; D2 15 90 86; D2 15 90 87; D2 15 90 87; D2 15 90 89;
  D2 15 90 89; D2 15 90 106; D2 15 90 106; D2 15 90 107; D2 15 90 107; D2 15 90 113; D2 15 90 113; D2 15 90 118;
  D2 15 90 118; D2 15 90 119; D2 15 90 119; D2 15 90 120; D2 15 90 120; D2 15 90 121; D2 15 90 121; D2 15 90 122;
  D2 15 90 122; D2 16 90 38; D2 16 90 42; D2 16 90 44; D2 16 90 59; D2 16 90 88; D2 16 90 90; D1 8 90; D1 8 90].
Definition hdecs_254 : list hdec := [
  D2 15 33 48; D2 15 33 48; D2 15 33 49; D2 15 33 49; D2 15 33 50; D2 15 33 50; D2 15 33 97; D2 15 33 97; D2 15 33 99;
  D2 15 33 99; D2 15 33 101; D2 15 33 101; D2 15 33 105; D2 15 33 105; D2 15 33 111; D2 15 33 111; D2 15 33 115;
  D2 15 33 115; D2 15 33 116; D2 15 33 116; D2 16 33 32; D2 16 33 37; D2 16 33 45; D2 16 33 46; D2 16 33 47;
  D2 16 33 51; D2 16 33 52; D2 16 33 53; D2 16 33 54; D2 16 33 55; D2 16 33 56; D2 16 33 57; D2 16 33 61; D2 16 33 65;
  D2 16 33 95; D2 16 33 98; D2 16 33 100; D2 16 33 102; D2 16 33 103; D2 16 33 104; D2 16 33 108; D2 16 33 109;
  D2 16 33 110; D2 16 33 112; D2 16 33 114; D2 16 33 117; D1 10 33; D1 10 33; D1 10 33; D1 10 33; D1 10 33; D1 10 33;
  D1 10 33; D1 10 33; D1 10 33; D1 10 33; D1 10 33; D1 10 33; D1 10 33; D1 10 33; D1 10 33; D1 10 33; D1 10 33;
  D1 10 33; D2 15 34 48; D2 15 34 48; D2 15 34 49; D2 15 34 49; D2 15 34 50; D2 15 34 50; D2 15 34 97; D2 15 34 97;
  D2 15 34 99; D2 15 34 99; D2 15 34 101; D2 15 34 101; D2 15 34 105; D2 15 34 105; D2 15 34 111; D2 15 34 111;
  D2 15 34 115; D2 15 34 115; D2 15 34 116; D2 15 34 116; D2 16 34 32; D2 16 34 37; D2 16 34 45; D2 16 34 46;
  D2 16 34 47; D2 16 34 51; D2 16 34 52; D2 16 34 53; D2 16 34 54; D2 16 34 55; D2 16 34 56; D2 16 34 57; D2 16 34 61;
  D2 16 34 65; D2 16 34 95; D2 16 34 98; D2 16 34 100; D2 16 34 102; D2 16 34 103; D2 16 34 104; D2 16 34 108;
  D2 16 34 109; D2 16 34 110; D2 16 34 112; D2 16 34 114; D2 16 34 117; D1 10 34; D1 10 34; D1 10 34; D1 10 34;
  D1 10 34; D1 10 34; D1 10 34; D1 10 34; D1 10 34; D1 10 34; D1 10 34; D1 10 34; D1 10 34; D1 10 34; D1 10 34;
  D1 10 34; D1 10 34; D1 10 34; D2 15 40 48; D2 15 40 48; D2 15 40 49; D2 15 40 49; D2 15 40 50; D2 15 40 50;
  D2 15 40 97; D2 15 40 97; D2 15 40 99; D2 15 40 99; D2 15 40 101; D2 15 40 101; D2 15 40 105; D2 15 40 105;
  D2 15 40 111; D2 15 40 111; D2 15 40 115; D2 15 40 115; D2 15 40 116; D2 15 40 116; D2 16 40 32; D2 16 40 37;
  D2 16 40 45; D2 16 40 46; D2 16 40 47; D2 16 40 51; D2 16 40 52; D2 16 40 53; D2 16 40 54; D2 16 40 55; D2 16 40 56;
  D2 16 40 57; D2 16 40 61; D2 16 40 65; D2 16 40 95; D2 16 40 98; D2 16 40 100; D2 16 40 102; D2 16 40 103;
  D2 16 40 104; D2 16 40 108; D2 16 40 109; D2 16 40 110; D2 16 40 112; D2 16 40 114; D2 16 40 117; D1 10 40;
  D1 10 40; D1 10 40; D1 10 40; D1 10 40; D1 10 40; D1 10 40; D1 10 40; D1 10 40; D1 10 40; D1 10 40; D1 10 40;
  D1 10 40; D1 10 40; D1 10 40; D1 10 40; D1 10 40; D1 10 40; D2 15 41 48; D2 15 41 48; D2 15 41 49; D2 15 41 49;
  D2 15 41 50; D2 15 41 50; D2 15 41 97; D2 15 41 97; D2 15 41 99; D2 15 41 99; D2 15 41 101; D2 15 41 101;
  D2 15 41 105; D2 15 41 105; D2 15 41 111; D2 15 41 111; D2 15 41 115; D2 15 41 115; D2 15 41 116; D2 15 41 116;
  D2 16 41 32; D2 16 41 37; D2 16 41 45; D2 16 41 46; D2 16 41 47; D2 16 41 51; D2 16 41 52; D2 16 41 53; D2 16 41 54;
  D2 16 41 55; D2 16 41 56; D2 16 41 57; D2 16 41 61; D2 16 41 65; D2 16 41 95; D2 16 41 98; D2 16 41 100;
  D2 16 41 102; D2 16 41 103; D2 16 41 104; D2 16 41 108; D2 16 41 109; D2 16 41 110; D2 16 41 112; D2 16 41 114;
  D2 16 41 117; D1 10 41; D1 10 41; D1 10 41; D1 10 41; D1 10 41; D1 10 41; D1 10 41; D1 10 41; D1 10 41; D1 10 41;
  D1 10 41; D1 10 41; D1 10 41; D1 10 41; D1 10 41; D1 10 41; D1 10 41; D1 10 41].
Definition hdecs_255 : list hdec := [
  D2 15 63 48; D2 15 63 48; D2 15 63 49; D2 15 63 49; D2 15 63 50; D2 15 63 50; D2 15 63 97; D2 15 63 97; D2 15 63 99;
  D2 15 63 99; D2 15 63 101; D2 15 63 101; D2 15 63 105; D2 15 63 105; D2 15 63 111; D2 15 63 111; D2 15 63 115;
  D2 15 63 115; D2 15 63 116; D2 15 63 116; D2 16 63 32; D2 16 63 37; D2 16 63 45; D2 16 63 46; D2 16 63 47;
  D2 16 63 51; D2 16 63 52; D2 16 63 53; D2 16 63 54; D2 16 63 55; D2 16 63 56; D2 16 63 57; D2 16 63 61; D2 16 63 65;
  D2 16 63 95; D2 16 63 98; D2 16 63 100; D2 16 63 102; D2 16 63 103; D2 16 63 104; D2 16 63 108; D2 16 63 109;
  D2 16 63 110; D2 16 63 112; D2 16 63 114; D2 16 63 117; D1 10 63; D1 10 63; D1 10 63; D1 10 63; D1 10 63; D1 10 63;
  D1 10 63; D1 10 63; D1 10 63; D1 10 63; D1 10 63; D1 10 63; D1 10 63; D1 10 63; D1 10 63; D1 10 63; D1 10 63;
  D1 10 63; D2 16 39 48; D2 16 39 49; D2 16 39 50; D2 16 39 97; D2 16 39 99; D2 16 39 101; D2 16 39 105; D2 16 39 111;
  D2 16 39 115; D2 16 39 116; D1 11 39; D1 11 39; D1 11 39; D1 11 39; D1 11 39; D1 11 39; D1 11 39; D1 11 39;
  D1 11 39; D1 11 39; D1 11 39; D1 11 39; D1 11 39; D1 11 39; D1 11 39; D1 11 39; D1 11 39; D1 11 39; D1 11 39;
  D1 11 39; D1 11 39; D1 11 39; D2 16 43 48; D2 16 43 49; D2 16 43 50; D2 16 43 97; D2 16 43 99; D2 16 43 101;
  D2 16 43 105; D2 16 43 111; D2 16 43 115; D2 16 43 116; D1 11 43; D1 11 43; D1 11 43; D1 11 43; D1 11 43; D1 11 43;
  D1 11 43; D1 11 43; D1 11 43; D1 11 43; D1 11 43; D1 11 43; D1 11 43; D1 11 43; D1 11 43; D1 11 43; D1 11 43;
  D1 11 43; D1 11 43; D1 11 43; D1 11 43; D1 11 43; D2 16 124 48; D2 16 124 49; D2 16 124 50; D2 16 124 97;
  D2 16 124 99; D2 16 124 101; D2 16 124 105; D2 16 124 111; D2 16 124 115; D2 16 124 116; D1 11 124; D1 11 124;
  D1 11 124; D1 11 124; D1 11 124; D1 11 124; D1 11 124; D1 11 124; D1 11 124; D1 11 124; D1 11 124; D1 11 124;
  D1 11 124; D1 11 124; D1 11 124; D1 11 124; D1 11 124; D1 11 124; D1 11 124; D1 11 124; D1 11 124; D1 11 124;
  D1 12 35; D1 12 35; D1 12 35; D1 12 35; D1 12 35; D1 12 35; D1 12 35; D1 12 35; D1 12 35; D1 12 35; D1 12 35;
  D1 12 35; D1 12 35; D1 12 35; D1 12 35; D1 12 35; D1 12 62; D1 12 62; D1 12 62; D1 12 62; D1 12 62; D1 12 62;
  D1 12 62; D1 12 62; D1 12 62; D1 12 62; D1 12 62; D1 12 62; D1 12 62; D1 12 62; D1 12 62; D1 12 62; D1 13 0;
  D1 13 0; D1 13 0; D1 13 0; D1 13 0; D1 13 0; D1 13 0; D1 13 0; D1 13 36; D1 13 36; D1 13 36; D1 13 36; D1 13 36;
  D1 13 36; D1 13 36; D1 13 36; D1 13 64; D1 13 64; D1 13 64; D1 13 64; D1 13 64; D1 13 64; D1 13 64; D1 13 64;
  D1 13 91; D1 13 91; D1 13 91; D1 13 91; D1 13 91; D1 13 91; D1 13 91; D1 13 91; D1 13 93; D1 13 93; D1 13 93;
  D1 13 93; D1 13 93; D1 13 93; D1 13 93; D1 13 93; D1 13 126; D1 13 126; D1 13 126; D1 13 126; D1 13 126; D1 13 126;
  D1 13 126; D1 13 126; D1 14 94; D1 14 94; D1 14 94; D1 14 94; D1 14 125; D1 14 125; D1 14 125; D1 14 125; D1 15 60;
  D1 15 60; D1 15 96; D1 15 96; D1 15 123; D1 15 123; X; X].

Definition hdecs : list (list hdec) := [
  hdecs_0; hdecs_1; hdecs_2; hdecs_3; hdecs_4; hdecs_5; hdecs_6; hdecs_7; hdecs_8; hdecs_9; hdecs_10; hdecs_11;
  hdecs_12; hdecs_13; hdecs_14; hdecs_15; hdecs_16; hdecs_17; hdecs_18; hdecs_19; hdecs_20; hdecs_21; hdecs_22;
  hdecs_23; hdecs_24; hdecs_25; hdecs_26; hdecs_27; hdecs_28; hdecs_29; hdecs_30; hdecs_31; hdecs_32; hdecs_33;
  hdecs_34; hdecs_35; hdecs_36; hdecs_37; hdecs_38; hdecs_39; hdecs_40; hdecs_41; hdecs_42; hdecs_43; hdecs_44;
  hdecs_45; hdecs_46; hdecs_47; hdecs_48; hdecs_49; hdecs_50; hdecs_51; hdecs_52; hdecs_53; hdecs_54; hdecs_55;
  hdecs_56; hdecs_57; hdecs_58; hdecs_59; hdecs_60; hdecs_61; hdecs_62; hdecs_63; hdecs_64; hdecs_65; hdecs_66;
  hdecs_67; hdecs_68; hdecs_69; hdecs_70; hdecs_71; hdecs_72; hdecs_73; hdecs_74; hdecs_75; hdecs_76; hdecs_77;
  hdecs_78; hdecs_79; hdecs_80; hdecs_81; hdecs_82; hdecs_83; hdecs_84; hdecs_85; hdecs_86; hdecs_87; hdecs_88;
  hdecs_89; hdecs_90; hdecs_91; hdecs_92; hdecs_93; hdecs_94; hdecs_95; hdecs_96; hdecs_97; hdecs_98; hdecs_99;
  hdecs_100; hdecs_101; hdecs_102; hdecs_103; hdecs_104; hdecs_105; hdecs_106; hdecs_107; hdecs_108; hdecs_109;
  hdecs_110; hdecs_111; hdecs_112; hdecs_113; hdecs_114; hdecs_115; hdecs_116; hdecs_117; hdecs_118; hdecs_119;
  hdecs_120; hdecs_121; hdecs_122; hdecs_123; hdecs_124; hdecs_125; hdecs_126; hdecs_127; hdecs_128; hdecs_129;
  hdecs_130; hdecs_131; hdecs_132; hdecs_133; hdecs_134; hdecs_135; hdecs_136; hdecs_137; hdecs_138; hdecs_139;
  hdecs_140; hdecs_141; hdecs_142; hdecs_143; hdecs_144; hdecs_145; hdecs_146; hdecs_147; hdecs_148; hdecs_149;
  hdecs_150; hdecs_151; hdecs_152; hdecs_153; hdecs_154; hdecs_155; hdecs_156; hdecs_157; hdecs_158; hdecs_159;
  hdecs_160; hdecs_161; hdecs_162; hdecs_163; hdecs_164; hdecs_165; hdecs_166; hdecs_167; hdecs_168; hdecs_169;
  hdecs_170; hdecs_171; hdecs_172; hdecs_173; hdecs_174; hdecs_175; hdecs_176; hdecs_177; hdecs_178; hdecs_179;
  hdecs_180; hdecs_181; hdecs_182; hdecs_183; hdecs_184; hdecs_185; hdecs_186; hdecs_187; hdecs_188; hdecs_189;
  hdecs_190; hdecs_191; hdecs_192; hdecs_193; hdecs_194; hdecs_195; hdecs_196; hdecs_197; hdecs_198; hdecs_199;
  hdecs_200; hdecs_201; hdecs_202; hdecs_203; hdecs_204; hdecs_205; hdecs_206; hdecs_207; hdecs_208; hdecs_209;
  hdecs_210; hdecs_211; hdecs_212; hdecs_213; hdecs_214; hdecs_215; hdecs_216; hdecs_217; hdecs_218; hdecs_219;
  hdecs_220; hdecs_221; hdecs_222; hdecs_223; hdecs_224; hdecs_225; hdecs_226; hdecs_227; hdecs_228; hdecs_229;
  hdecs_230; hdecs_231; hdecs_232; hdecs_233; hdecs_234; hdecs_235; hdecs_236; hdecs_237; hdecs_238; hdecs_239;
  hdecs_240; hdecs_241; hdecs_242; hdecs_243; hdecs_244; hdecs_245; hdecs_246; hdecs_247; hdecs_248; hdecs_249;
  hdecs_250; hdecs_251; hdecs_252; hdecs_253; hdecs_254; hdecs_255].

(** The table is right. *)
Lemma hdecs_rows : hdecs = (fun s => scan_entry <$> spread 8 s) <$> scans8.
Proof. vm_compute. reflexivity. Qed.
