(* ===== verification/HuffDec.v ===== *)
(** * The Huffman decoder with the large table

    lsqpack_huff_decode as built by default, with LS_QPACK_USE_LARGE_TABLES: a string
    that is there as a whole goes to huff_decode_fast, which decodes up to three
    symbols per look-up of sixteen bits and leaves long codes to
    lsqpack_huff_decode_full.  A call does what [HuffStream] says of that function
    ([decode_call]), with one difference: at a full destination it goes back to a byte
    boundary. *)

From S2P Require Import Prelude HuffTables Huffman HuffStream HuffPairs HdecTable.

(** [hdecs[idx]]; the row is the high byte. *)
Definition hdec_at (idx : Z) : hdec :=
  nth (Z.to_nat (idx mod 256)) (nth (Z.to_nat (idx / 256)) hdecs []) (Hdec 0 []).

(** ** Filling the buffer *)

(** [buf <<= 8; buf |= *src++] *)
Definition shift_in (x : Z * bytes) : Z * bytes :=
  match x with
  | (buf, b :: rest) => (Z.lor (u64 (Z.shiftl buf 8)) b, rest)
  | _ => x
  end.

(** The [default:] branch: six bytes. *)
Definition shift_in_six (x : Z * bytes) : Z * bytes :=
  match x with
  | (buf, b0 :: b1 :: b2 :: b3 :: b4 :: b5 :: rest) =>
      let buf := u64 (Z.shiftl buf 48) in
      let buf := Z.lor buf (Z.shiftl b0 40) in
      let buf := Z.lor buf (Z.shiftl b1 32) in
      let buf := Z.lor buf (Z.shiftl b2 24) in
      let buf := Z.lor buf (Z.shiftl b3 16) in
      let buf := Z.lor buf (Z.shiftl b4 8) in
      (Z.lor buf b5, rest)
  | _ => x
  end.

(** With eight bytes or more to go. *)
Definition refill_word (rest : bytes) (buf avail_bits : Z) : bytes * Z * Z :=
  let len := Z.shiftr (64 - avail_bits) 3 in
  let x := (buf, rest) in
  let x := if len =? 8 then shift_in x else x in
  let x := if (len =? 8) || (len =? 7) then shift_in x else x in
  let '(buf, rest) := shift_in_six x in
  (rest, buf, u32 (avail_bits + Z.shiftl len 3)).

(** The [do]-[while] loop for the last bytes. *)
Fixpoint refill_bytes (rest : bytes) (buf avail_bits : Z) : bytes * Z * Z :=
  match rest with
  | [] => (rest, buf, avail_bits)
  | b :: rest =>
      let buf := Z.lor (u64 (Z.shiftl buf 8)) b in
      let avail_bits := u32 (avail_bits + 8) in
      match rest with
      | [] => (rest, buf, avail_bits)
      | _ => if avail_bits <=? 56 then refill_bytes rest buf avail_bits else (rest, buf, avail_bits)
      end
  end.

(** ** Looking symbols up *)

(** Where the inner loops go on. *)
Inductive fast_exit := FastRefill | FastDstEnded | FastSlowPath.

(** The element for the next sixteen bits: the number of symbols and their bits. *)
Definition next_hdec (buf avail_bits : Z) : hdec := hdec_at (u16 (Z.shiftr buf (avail_bits - 16))).
Definition hdec_count (h : hdec) : Z := Z.land (hdec_lens h) 3.
Definition hdec_bits (h : hdec) : Z := Z.shiftr (hdec_lens h) 2.

(** [dst += hdec.lens & 3] *)
Definition put_out (h : hdec) (out : bytes) : bytes := out ++ take (Z.to_nat (hdec_count h)) (hdec_out h).

(** The loop that does not look at the room: [None] if it writes beyond it.  It
    writes three bytes whatever the number of symbols; bytes beyond [out] are
    overwritten later, or never read. *)
Fixpoint unchecked_loop (fuel : nat) (dst_len : nat) (buf avail_bits : Z) (out : bytes)
  : option (fast_exit * Z * bytes) :=
  match fuel with
  | O => None
  | S fuel =>
      let h := next_hdec buf avail_bits in
      if decide (length out + 3 <= dst_len)%nat then
        let out := put_out h out in
        let avail_bits := u32 (avail_bits - hdec_bits h) in
        if (16 <=? avail_bits) && negb (hdec_lens h =? 0) then unchecked_loop fuel dst_len buf avail_bits out
        else Some (if avail_bits <? 16 then FastRefill else FastSlowPath, avail_bits, out)
      else None
  end.

(** The loop that does. *)
Fixpoint checked_loop (fuel : nat) (dst_len : nat) (buf avail_bits : Z) (out : bytes)
  : option (fast_exit * Z * bytes) :=
  if 16 <=? avail_bits then
    match fuel with
    | O => None
    | S fuel =>
        let h := next_hdec buf avail_bits in
        let len := hdec_count h in
        let fits := Z.of_nat (length out) + len <=? Z.of_nat dst_len in
        if negb (len =? 0) && fits
        then checked_loop fuel dst_len buf (u32 (avail_bits - hdec_bits h)) (put_out h out)
        else Some (if negb fits then FastDstEnded else FastSlowPath, avail_bits, out)
    end
  else Some (FastRefill, avail_bits, out).

(** A look-up takes five bits or more. *)
Definition lookups_fuel : nat := 13.

(** The outer loop; it goes on to [FastRefill] at the end of the source. *)
Fixpoint fast_loop (fuel : nat) (dst_len : nat) (rest : bytes) (buf avail_bits : Z) (out : bytes)
  : option (fast_exit * bytes * Z * Z * bytes) :=
  match rest, fuel with
  | [], _ => Some (FastRefill, rest, buf, avail_bits, out)
  | _, O => None
  | _, S fuel =>
      let '(rest, buf, avail_bits) :=
        if 8 <=? Z.of_nat (length rest) then refill_word rest buf avail_bits
        else refill_bytes rest buf avail_bits in
      '(exit, avail_bits, out) ←
        (if (12 <=? Z.of_nat dst_len - Z.of_nat (length out)) && (16 <=? avail_bits)
         then unchecked_loop lookups_fuel dst_len buf avail_bits out
         else checked_loop lookups_fuel dst_len buf avail_bits out);
      match exit with
      | FastRefill => fast_loop fuel dst_len rest buf avail_bits out
      | _ => Some (exit, rest, buf, avail_bits, out)
      end
  end.

(** ** The end of the source *)

Inductive fast_tail :=
  | TailOk (out : bytes)
  | TailError
  | TailDstEnded.

(** What is left after the last look-up must be padding. *)
Definition tail_padding (buf avail_bits : Z) (out : bytes) : fast_tail :=
  if 8 <=? avail_bits then TailError
  else if (0 <? avail_bits)
          && negb (Z.shiftl 1 avail_bits - 1 =? Z.land buf (Z.shiftl 1 avail_bits - 1)) then TailError
  else TailOk out.

(** From [if (avail_bits >= SHORTEST_CODE)]. *)
Definition tail_end (dst_len : nat) (buf avail_bits : Z) (out : bytes) : fast_tail :=
  if 5 <=? avail_bits then
    let idx := u16 (u64 (Z.shiftl buf (16 - avail_bits))) in
    let idx := Z.lor idx (Z.shiftl 1 (16 - avail_bits) - 1) in
    if (idx =? 0xFFFF) && (avail_bits <? 8) then TailOk out
    else
      let h := hdec_at idx in
      let len := hdec_count h in
      let fits := Z.of_nat (length out) + len <=? Z.of_nat dst_len in
      if avail_bits <? hdec_bits h then TailError
      else if negb (len =? 0) && fits then tail_padding buf (u32 (avail_bits - hdec_bits h)) (put_out h out)
      else if negb fits then TailDstEnded
      else TailError
  else tail_padding buf avail_bits out.

(** ** Going back to a byte boundary *)

(** [while ((avail_bits & 7) && dst > orig_dst) avail_bits += encode_table[ *--dst ].bits],
    on the output from its end. *)
Fixpoint roll_back (rev_out : bytes) (avail_bits : Z) : bytes * Z :=
  if Z.land avail_bits 7 =? 0 then (rev rev_out, avail_bits)
  else
    match rev_out with
    | [] => ([], avail_bits)
    | c :: rev_out => roll_back rev_out (u32 (avail_bits + ee_bits (enc_el c)))
    end.

(** The output that remains and the bytes of the source it stands for: the
    assertion, and that [src] does not leave the string. *)
Definition back_to_byte (n_read : nat) (avail_bits : Z) (out : bytes) : option (bytes * nat) :=
  let '(out, avail_bits) := roll_back (rev out) avail_bits in
  let back := Z.to_nat (Z.shiftr avail_bits 3) in
  if decide (Z.land avail_bits 7 = 0 /\ (back <= n_read)%nat) then Some (out, (n_read - back)%nat) else None.

(** ** The calls *)

Definition huff_error : huff_decode_retval :=
  {| hdr_status := HUFF_DEC_ERROR; hdr_out := []; hdr_n_src := 0 |}.

(** [slow_path]: the rest is left to [lsqpack_huff_decode_full]. *)
Definition slow_path (src : bytes) (dst_len : nat) (out : bytes) (n : nat) (state : huff_decode_state) (final : bool)
  : huff_decode_retval * huff_decode_state :=
  let '(rv, state) := lsqpack_huff_decode_full (drop n src) (dst_len - length out) state final in
  match hdr_status rv with
  | HUFF_DEC_OK | HUFF_DEC_END_DST =>
      ({| hdr_status := hdr_status rv; hdr_out := out ++ hdr_out rv; hdr_n_src := n + hdr_n_src rv |}, state)
  | _ => (rv, state)
  end.

(** [None] for a failed assertion, an access out of bounds or a loop that does not
    end. *)
Definition huff_decode_fast (src : bytes) (dst_len : nat) (state : huff_decode_state) (final : bool)
  : option (huff_decode_retval * huff_decode_state) :=
  let dst_ended rest avail_bits out :=
    '(out, n) ← back_to_byte (length src - length rest) avail_bits out;
    Some ({| hdr_status := HUFF_DEC_END_DST; hdr_out := out; hdr_n_src := n |}, state) in
  '(exit, rest, buf, avail_bits, out) ← fast_loop (length src) dst_len src 0 0 [];
  match exit with
  | FastDstEnded => dst_ended rest avail_bits out
  | FastSlowPath =>
      '(out, n) ← back_to_byte (length src - length rest) avail_bits out;
      Some (slow_path src dst_len out n state final)
  | FastRefill =>
      match tail_end dst_len buf avail_bits out with
      | TailOk out => Some ({| hdr_status := HUFF_DEC_OK; hdr_out := out; hdr_n_src := length src |}, state)
      | TailError => Some (huff_error, state)
      | TailDstEnded => dst_ended rest avail_bits out
      end
  end.

(** Cases 2 and 3 of [lsqpack_huff_decode_full] read [*p_src] before any test. *)
Definition full_reads_past (src : bytes) (dst_len : nat) (state : huff_decode_state) : bool :=
  bool_decide (src = []) && ((hds_resume state =? 2) || (hds_resume state =? 3))
  && negb (dst_len =? 0)%nat.

Definition lsqpack_huff_decode (src : bytes) (dst_len : nat) (state : huff_decode_state) (final : bool)
  : option (huff_decode_retval * huff_decode_state) :=
  if (hds_resume state =? 0) && final then huff_decode_fast src dst_len state final
  else if full_reads_past src dst_len state then None
  else Some (lsqpack_huff_decode_full src dst_len state final).

(** ** The table *)

Lemma hdec_at_for idx : 0 <= idx < 2 ^ 16 -> hdec_for (z_bits 16 idx) (hdec_at idx).
Proof.
  change (2 ^ 16) with 65536. intros Hi. assert (0 <= idx / 256 < 2 ^ Z.of_nat 8) as Hd.
  { change (2 ^ Z.of_nat 8) with 256. split; [apply Z.div_pos; lia|apply Z.div_lt_upper_bound; lia]. }
  assert (0 <= idx mod 256 < 2 ^ Z.of_nat 8) as Hm by (by apply Z.mod_pos_bound).
  unfold hdec_at. rewrite hdecs_rows.
  assert (((fun s => scan_entry <$> spread 8 s) <$> scans8) !! Z.to_nat (idx / 256)
    = Some (scan_entry <$> spread 8 (fold_left scan_bit (z_bits 8 (idx / 256)) scan_start))) as E
    by (unfold scans8; by rewrite list_lookup_fmap, spread_lookup).
  rewrite (nth_lookup_Some _ _ _ _ E).
  assert ((scan_entry <$> spread 8 (fold_left scan_bit (z_bits 8 (idx / 256)) scan_start)) !! Z.to_nat (idx mod 256)
    = Some (scan_entry (fold_left scan_bit (z_bits 16 idx) scan_start))) as E2.
  { rewrite list_lookup_fmap, spread_lookup by done. cbn [fmap option_fmap option_map]. rewrite <- fold_left_app.
    do 3 f_equal. change 16%nat with (8 + 8)%nat. rewrite (z_bits_app 8 8). f_equal.
    - by rewrite Z.shiftr_div_pow2.
    - apply (z_bits_mod 8). }
  rewrite (nth_lookup_Some _ _ _ _ E2). apply scan_entry_for, length_z_bits.
Qed.

(** What a look-up gives: some symbols, and what the walk makes of the sixteen bits. *)
Record looked_up (bs : list bool) (h : hdec) (syms : bytes) : Prop := {
  lu_walk : exists q, walk 1 bs = Some (syms, q) /\ bs = code_bits syms ++ path_bits q;
  lu_bytes : is_bytes syms;
  lu_count : hdec_count h = Z.of_nat (length syms);
  lu_bits : hdec_bits h = Z.of_nat (length (code_bits syms));
  lu_out : forall out, put_out h out = out ++ syms;
  lu_five : (5 * length syms <= length (code_bits syms) <= length bs)%nat;
}.

Lemma hdec_at_ok idx : 0 <= idx < 2 ^ 16 -> exists syms, looked_up (z_bits 16 idx) (hdec_at idx) syms.
Proof.
  intros Hi. destruct (hdec_at_for idx Hi) as [(syms & q & Hw & Hc & Hb & Ho) _]. exists syms.
  apply walk_sound in Hw as Hs; [|lia]. destruct Hs as (Hsb & _ & Hs). change (path_bits 1) with (@nil bool) in Hs.
  cbn [app] in Hs. constructor; try done; [by exists q| |].
  - intros out. unfold put_out, hdec_count. by rewrite Hc, Nat2Z.id, Ho.
  - split; [by apply code_bits_min|]. rewrite Hs, length_app. lia.
Qed.

Lemma hdec_lens_zero h : hdec_count h = 0 -> hdec_bits h = 0 -> hdec_lens h = 0.
Proof.
  unfold hdec_count, hdec_bits. intros H1 H2. change 3 with (Z.ones 2) in H1. rewrite Z.land_ones in H1 by lia.
  rewrite Z.shiftr_div_pow2 in H2 by lia. pose proof (Z.div_mod (hdec_lens h) (2 ^ 2)). lia.
Qed.

(** ** What the decoder has read *)

(** The source before [rest] has been read: its codes are in [out], but for the last
    [avail] bits, which are those of [buf]. *)
Record fast_ok (src rest : bytes) (buf avail : Z) (out : bytes) : Prop := {
  fo_split : exists used, src = used ++ rest
    /\ bytes_bits used = code_bits out ++ z_bits (Z.to_nat avail) buf;
  fo_out : is_bytes out;
  fo_avail : 0 <= avail <= 64;
}.

(** There are more symbols than [room]. *)
Definition too_many (src : bytes) (room : nat) : Prop :=
  exists syms bs, is_bytes syms /\ bytes_bits src = code_bits syms ++ bs /\ (room < length syms)%nat.

Lemma too_many_long src room : too_many src room -> (5 * (room + 1) <= 8 * length src)%nat.
Proof.
  intros (syms & bs & Hs & E & Hl). pose proof (code_bits_min syms Hs).
  apply (f_equal length) in E. rewrite length_app, length_bytes_bits in E. lia.
Qed.

Lemma fast_too_many src rest buf avail out room : fast_ok src rest buf avail out -> (room < length out)%nat -> too_many src room.
Proof.
  intros [(used & -> & E) Ho _] Hl. exists out, (z_bits (Z.to_nat avail) buf ++ bytes_bits rest).
  split; [done|]. split; [by rewrite bytes_bits_app, E, <- app_assoc|done].
Qed.

Lemma next_hdec_ok buf avail : 16 <= avail -> exists syms q,
  looked_up (z_bits 16 (u16 (Z.shiftr buf (avail - 16)))) (next_hdec buf avail) syms
  /\ z_bits (Z.to_nat avail) buf = code_bits syms ++ path_bits q ++ z_bits (Z.to_nat (avail - 16)) buf
  /\ z_bits (Z.to_nat avail) buf
     = code_bits syms ++ z_bits (Z.to_nat (avail - hdec_bits (next_hdec buf avail))) buf.
Proof.
  intros Ha. set (idx := u16 (Z.shiftr buf (avail - 16))).
  destruct (hdec_at_ok idx) as [syms Hl]; [unfold idx, u16; apply Z.mod_pos_bound; lia|].
  destruct (lu_walk _ _ _ Hl) as (q & Hw & Hb). exists syms, q. split; [exact Hl|].
  assert (z_bits (Z.to_nat avail) buf = code_bits syms ++ path_bits q ++ z_bits (Z.to_nat (avail - 16)) buf) as E.
  { replace (Z.to_nat avail) with (16 + Z.to_nat (avail - 16))%nat by lia. rewrite z_bits_app, Z2Nat.id by lia.
    rewrite app_assoc, <- Hb. f_equal. unfold idx, u16. symmetry. apply (z_bits_mod 16). }
  split; [done|]. pose proof (lu_bits _ _ _ Hl) as Hbits. pose proof (lu_five _ _ _ Hl) as [_ H16].
  rewrite length_z_bits in H16. unfold next_hdec. fold idx.
  set (n := hdec_bits (hdec_at idx)) in *.
  assert (z_bits (Z.to_nat avail) buf = z_bits (Z.to_nat n) (Z.shiftr buf (avail - n)) ++ z_bits (Z.to_nat (avail - n)) buf) as E2.
  { replace (Z.to_nat avail) with (Z.to_nat n + Z.to_nat (avail - n))%nat by lia. rewrite z_bits_app, Z2Nat.id by lia. done. }
  rewrite E2. f_equal. rewrite E2 in E. apply app_inj_1 in E; [by destruct E|]. rewrite length_z_bits. lia.
Qed.

(** Symbols move from the buffer to the output. *)
Lemma fast_put src rest buf avail out : fast_ok src rest buf avail out -> 16 <= avail ->
  exists syms, fast_ok src rest buf (avail - hdec_bits (next_hdec buf avail)) (out ++ syms)
    /\ put_out (next_hdec buf avail) out = out ++ syms
    /\ hdec_count (next_hdec buf avail) = Z.of_nat (length syms)
    /\ 5 * Z.of_nat (length syms) <= hdec_bits (next_hdec buf avail) <= 16
    /\ (syms = [] -> hdec_bits (next_hdec buf avail) = 0 /\ hdec_lens (next_hdec buf avail) = 0).
Proof.
  intros [(used & Es & Eb) Ho Ha] H16. destruct (next_hdec_ok buf avail H16) as (syms & q & Hl & _ & E).
  set (h := next_hdec buf avail) in *. pose proof Hl as [_ Hsb Hc Hb Hp Hf]. rewrite length_z_bits in Hf.
  exists syms. split; [constructor|]; [|by apply Forall_app|lia|].
  - exists used. split; [done|]. rewrite Eb, E, code_bits_app, <- app_assoc. done.
  - split; [apply Hp|]. split; [done|]. split; [lia|]. intros ->. cbn in Hc, Hb. split; [done|by apply hdec_lens_zero].
Qed.

(** ** Filling the buffer *)

Lemma shift_in_ok src b rest buf avail out : is_u8 b -> fast_ok src (b :: rest) buf avail out -> avail <= 56 ->
  fast_ok src rest (Z.lor (u64 (Z.shiftl buf 8)) b) (avail + 8) out.
Proof.
  intros Hb [(used & -> & E) Ho Ha] H. constructor; [|done|lia]. exists (used ++ [b]).
  split; [by rewrite <- app_assoc|]. rewrite bytes_bits_app, E, accumulate_bits, <- app_assoc by (unfold is_u8 in Hb; lia).
  cbn [bytes_bits mbind list_bind]. by rewrite app_nil_r.
Qed.

(** Six bytes put together. *)
Lemma six_bits b0 b1 b2 b3 b4 b5 : is_bytes [b0; b1; b2; b3; b4; b5] ->
  let c := Z.lor (b0 ≪ 40) (Z.lor (b1 ≪ 32) (Z.lor (b2 ≪ 24) (Z.lor (b3 ≪ 16) (Z.lor (b4 ≪ 8) b5)))) in
  0 <= c < 2 ^ 48 /\ z_bits 48 c = bytes_bits [b0; b1; b2; b3; b4; b5].
Proof.
  intros H. assert (forall b k x (n : nat), is_u8 b -> k = Z.of_nat n -> 0 <= x < 2 ^ k ->
    0 <= Z.lor (b ≪ k) x < 2 ^ (k + 8) /\ z_bits (8 + n) (Z.lor (b ≪ k) x) = z_bits 8 b ++ z_bits n x) as Hstep.
  { intros b k x n Hb -> Hx. split; [|by apply (z_bits_lor_shiftl 8)]. rewrite Z.pow_add_r by lia.
    rewrite (lor_disjoint _ _ (Z.of_nat n)); [|lia| |done].
    - rewrite Z.shiftl_mul_pow2 by lia. unfold is_u8 in Hb. nia.
    - rewrite Z.shiftl_mul_pow2 by lia. apply Z_mod_mult. }
  do 6 apply Forall_cons in H as [? H]. cbn zeta.
  destruct (Hstep b4 8 b5 8%nat) as [R4 E4]; [done|done|done|].
  destruct (Hstep b3 16 (Z.lor (b4 ≪ 8) b5) 16%nat) as [R3 E3]; [done|done|done|].
  destruct (Hstep b2 24 (Z.lor (b3 ≪ 16) (Z.lor (b4 ≪ 8) b5)) 24%nat) as [R2 E2]; [done|done|done|].
  destruct (Hstep b1 32 (Z.lor (b2 ≪ 24) (Z.lor (b3 ≪ 16) (Z.lor (b4 ≪ 8) b5))) 32%nat) as [R1 E1]; [done|done|done|].
  destruct (Hstep b0 40 (Z.lor (b1 ≪ 32) (Z.lor (b2 ≪ 24) (Z.lor (b3 ≪ 16) (Z.lor (b4 ≪ 8) b5)))) 40%nat) as [R0 E0]; [done|done|done|].
  split; [exact R0|]. change 48%nat with (8 + 40)%nat. rewrite E0. change 40%nat with (8 + 32)%nat. rewrite E1.
  change 32%nat with (8 + 24)%nat. rewrite E2. change 24%nat with (8 + 16)%nat. rewrite E3. change 16%nat with (8 + 8)%nat.
  by rewrite E4.
Qed.

Lemma shift_in_six_ok src rest buf avail out : is_bytes rest -> fast_ok src rest buf avail out ->
  (6 <= length rest)%nat -> avail <= 16 ->
  let x := shift_in_six (buf, rest) in
  fast_ok src (snd x) (fst x) (avail + 48) out /\ length rest = (6 + length (snd x))%nat.
Proof.
  intros Hb [(used & Es & E) Ho Ha] H6 H16. do 6 (destruct rest as [|? rest]; [cbn in H6; lia|]).
  rename z into b0, z0 into b1, z1 into b2, z2 into b3, z3 into b4, z4 into b5. cbn [shift_in_six fst snd]. split; [|done].
  change (b0 :: b1 :: b2 :: b3 :: b4 :: b5 :: rest) with ([b0; b1; b2; b3; b4; b5] ++ rest) in *.
  apply Forall_app in Hb as [Hb _]. destruct (six_bits b0 b1 b2 b3 b4 b5 Hb) as [Hr Hc].
  constructor; [|done|lia]. exists (used ++ [b0; b1; b2; b3; b4; b5]). split; [by rewrite Es, app_assoc|].
  rewrite bytes_bits_app, E, <- Hc, <- app_assoc. f_equal. rewrite <- !Z.lor_assoc.
  rewrite accumulate_bits by lia. done.
Qed.

Lemma refill_word_ok src rest buf avail out : is_bytes rest -> fast_ok src rest buf avail out ->
  (8 <= length rest)%nat -> avail < 16 ->
  let '(rest', buf', avail') := refill_word rest buf avail in
  fast_ok src rest' buf' avail' out /\ (length rest' < length rest)%nat /\ is_bytes rest'.
Proof.
  intros Hb Hf H8 H16. pose proof (fo_avail _ _ _ _ _ Hf) as Ha. unfold refill_word.
  assert (forall x : Z * bytes, x = (fst x, snd x)) as Hpair by (by intros []).
  assert (forall rest' buf' avail', is_bytes rest' -> fast_ok src rest' buf' avail' out -> (6 <= length rest' <= length rest)%nat ->
    avail' <= 16 -> avail' + 48 = avail + Z.shiftl (Z.shiftr (64 - avail) 3) 3 ->
    let '(r, b) := (snd (shift_in_six (buf', rest')), fst (shift_in_six (buf', rest'))) in
    fast_ok src r b (u32 (avail + Z.shiftl (Z.shiftr (64 - avail) 3) 3)) out /\ (length r < length rest)%nat /\ is_bytes r) as Hsix.
  { intros rest' buf' avail' Hb' Hf' Hl' H16' <-. destruct (shift_in_six_ok src rest' buf' avail' out Hb' Hf' ltac:(lia) H16') as [H1 H2].
    pose proof (fo_avail _ _ _ _ _ Hf'). rewrite u32_id by ulia. split; [done|]. split; [lia|].
    do 6 (destruct rest' as [|? rest']; [cbn in Hl'; lia|]). cbn [shift_in_six snd]. by do 6 apply Forall_cons in Hb' as [_ Hb']. }
  rewrite (Hpair (shift_in_six _)).
  destruct rest as [|b0 [|b1 rest]]; [cbn in H8; lia..|]. apply Forall_cons in Hb as [Hb0 Hb1].
  pose proof Hb1 as [Hb1' Hb2]%Forall_cons. cbn [length] in *.
  pose proof (shift_in_ok src b0 (b1 :: rest) buf avail out Hb0 Hf ltac:(lia)) as Hf1.
  destruct (Z.eqb_spec (Z.shiftr (64 - avail) 3) 8) as [E8|N8]; [|destruct (Z.eqb_spec (Z.shiftr (64 - avail) 3) 7) as [E7|N7]];
    cbn [orb shift_in].
  - assert (avail = 0) as -> by (rewrite Z.shiftr_div_pow2 in E8 by lia; change (2 ^ 3) with 8 in E8; dlia).
    pose proof (shift_in_ok src b1 rest _ _ out Hb1' Hf1 ltac:(lia)) as Hf2.
    apply (Hsix rest _ 16); [done|done|lia|lia|reflexivity].
  - apply (Hsix (b1 :: rest) _ (avail + 8)); [done|done|cbn; lia| |].
    + rewrite Z.shiftr_div_pow2 in E7 by lia. change (2 ^ 3) with 8 in E7. dlia.
    + rewrite E7. change (7 ≪ 3) with 56. lia.
  - apply (Hsix (b0 :: b1 :: rest) _ avail); [by constructor|done|cbn; lia|lia|].
    assert (Z.shiftr (64 - avail) 3 = 6) as ->; [|change (6 ≪ 3) with 48; lia].
    rewrite Z.shiftr_div_pow2 in * by lia. change (2 ^ 3) with 8 in *. dlia.
Qed.

Lemma refill_bytes_ok src out rest : forall buf avail, is_bytes rest -> fast_ok src rest buf avail out ->
  rest <> [] -> avail <= 56 ->
  let '(rest', buf', avail') := refill_bytes rest buf avail in
  fast_ok src rest' buf' avail' out /\ (length rest' < length rest)%nat /\ is_bytes rest'.
Proof.
  induction rest as [|b rest IH]; intros buf avail Hb Hf Hne Ha; [done|]. apply Forall_cons in Hb as [Hb0 Hb].
  pose proof (shift_in_ok _ _ _ _ _ _ Hb0 Hf Ha) as Hf'. pose proof (fo_avail _ _ _ _ _ Hf). cbn [refill_bytes].
  rewrite u32_id by ulia. set (buf' := Z.lor _ _) in *.
  destruct rest as [|b1 rest]; [split; [done|]; split; [cbn; lia|done]|].
  destruct (Z.leb_spec (avail + 8) 56); [|split; [done|]; split; [cbn; lia|done]].
  specialize (IH buf' (avail + 8) Hb Hf' ltac:(done) ltac:(lia)).
  destruct (refill_bytes (b1 :: rest) buf' (avail + 8)) as [[r b'] a]. destruct IH as (H1 & H2 & H3). split_and!; try done. cbn in *. lia.
Qed.

(** ** The loops *)

Definition exit_ok (src : bytes) (dst_len : nat) (avail : Z) (exit : fast_exit) : Prop :=
  match exit with
  | FastRefill => avail < 16
  | FastSlowPath => 16 <= avail
  | FastDstEnded => 16 <= avail /\ too_many src dst_len
  end.

Lemma unchecked_ok src rest buf dst_len fuel : forall avail out,
  fast_ok src rest buf avail out -> 16 <= avail -> avail < 16 + 5 * Z.of_nat fuel ->
  5 * Z.of_nat (length out) + avail <= 5 * Z.of_nat dst_len + 4 ->
  exists exit avail' out', unchecked_loop fuel dst_len buf avail out = Some (exit, avail', out')
    /\ fast_ok src rest buf avail' out' /\ (length out' <= dst_len)%nat /\ exit_ok src dst_len avail' exit.
Proof.
  induction fuel as [|fuel IH]; intros avail out Hf H16 Hfuel Hroom; cbn [unchecked_loop]; [lia|].
  rewrite decide_True by lia. destruct (fast_put _ _ _ _ _ Hf H16) as (syms & Hf' & -> & Hc & Hbits & Hz).
  set (h := next_hdec buf avail) in *. pose proof (fo_avail _ _ _ _ _ Hf) as Ha. rewrite u32_id by ulia.
  assert (5 * Z.of_nat (length (out ++ syms)) + (avail - hdec_bits h) <= 5 * Z.of_nat dst_len + 4) as Hroom'
    by (rewrite length_app; lia).
  destruct (Z.leb_spec 16 (avail - hdec_bits h)) as [Hmore|Hless]; cbn [andb].
  - destruct (Z.eqb_spec (hdec_lens h) 0) as [Hlz|Hlz]; cbn [negb].
    + destruct (Z.ltb_spec (avail - hdec_bits h) 16); [lia|]. do 3 eexists. split; [done|]. split; [done|]. split; [lia|done].
    + apply IH; [done|done| |done]. destruct syms as [|c syms]; [by destruct (Hz eq_refl)|]. cbn [length] in *. lia.
  - destruct (Z.ltb_spec (avail - hdec_bits h) 16); [|lia]. do 3 eexists. split; [done|]. split; [done|].
    split; [|done]. pose proof (fo_avail _ _ _ _ _ Hf'). lia.
Qed.

Lemma checked_ok src rest buf dst_len fuel : forall avail out,
  fast_ok src rest buf avail out -> (length out <= dst_len)%nat -> avail < 16 + 5 * Z.of_nat fuel ->
  exists exit avail' out', checked_loop fuel dst_len buf avail out = Some (exit, avail', out')
    /\ fast_ok src rest buf avail' out' /\ (length out' <= dst_len)%nat /\ exit_ok src dst_len avail' exit.
Proof.
  induction fuel as [|fuel IH]; intros avail out Hf Hroom Hfuel; cbn [checked_loop];
    (destruct (Z.leb_spec 16 avail) as [H16|]; [|by do 3 eexists]); [lia|].
  destruct (fast_put _ _ _ _ _ Hf H16) as (syms & Hf' & -> & Hc & Hbits & Hz).
  set (h := next_hdec buf avail) in *. pose proof (fo_avail _ _ _ _ _ Hf) as Ha. rewrite Hc.
  destruct (Z.leb_spec (Z.of_nat (length out) + Z.of_nat (length syms)) (Z.of_nat dst_len)) as [Hfit|Hnofit]; cbn [negb];
    [destruct (Z.eqb_spec (Z.of_nat (length syms)) 0) as [Hs0|Hs0]; cbn [negb andb]|rewrite andb_false_r].
  - do 3 eexists. split; [done|]. split; [done|]. done.
  - rewrite u32_id by ulia. apply IH; [done|rewrite length_app; lia|lia].
  - do 3 eexists. split; [done|]. split; [done|]. split; [done|]. split; [done|].
    apply (fast_too_many _ _ _ _ _ _ Hf'). rewrite length_app. lia.
Qed.

Lemma fast_loop_ok src dst_len fuel : forall rest buf avail out,
  (length rest <= fuel)%nat -> is_bytes rest -> fast_ok src rest buf avail out -> avail < 16 -> (length out <= dst_len)%nat ->
  exists exit rest' buf' avail' out', fast_loop fuel dst_len rest buf avail out = Some (exit, rest', buf', avail', out')
    /\ fast_ok src rest' buf' avail' out' /\ (length out' <= dst_len)%nat /\ exit_ok src dst_len avail' exit
    /\ (exit = FastRefill -> rest' = []).
Proof.
  induction fuel as [|fuel IH]; intros [|b rest] buf avail out Hl Hb Hf H16 Hroom; cbn [fast_loop]; try (cbn in Hl; lia);
    try (do 5 eexists; split; [done|]; done).
  assert (exists rest1 buf1 avail1, (if 8 <=? Z.of_nat (length (b :: rest)) then refill_word (b :: rest) buf avail
      else refill_bytes (b :: rest) buf avail) = (rest1, buf1, avail1)
    /\ fast_ok src rest1 buf1 avail1 out /\ (length rest1 < length (b :: rest))%nat /\ is_bytes rest1)
    as (rest1 & buf1 & avail1 & -> & Hf1 & Hl1 & Hb1).
  { destruct (Z.leb_spec 8 (Z.of_nat (length (b :: rest)))).
    - pose proof (refill_word_ok src (b :: rest) buf avail out Hb Hf ltac:(lia) H16) as H1.
      destruct (refill_word _ _ _) as [[r1 b1] a1]. by exists r1, b1, a1.
    - pose proof (refill_bytes_ok src out (b :: rest) buf avail Hb Hf ltac:(done) ltac:(lia)) as H1.
      destruct (refill_bytes _ _ _) as [[r1 b1] a1]. by exists r1, b1, a1. }
  pose proof (fo_avail _ _ _ _ _ Hf1) as Ha1.
  assert (exists exit avail2 out2,
    (if (12 <=? Z.of_nat dst_len - Z.of_nat (length out)) && (16 <=? avail1)
     then unchecked_loop lookups_fuel dst_len buf1 avail1 out else checked_loop lookups_fuel dst_len buf1 avail1 out)
      = Some (exit, avail2, out2)
    /\ fast_ok src rest1 buf1 avail2 out2 /\ (length out2 <= dst_len)%nat /\ exit_ok src dst_len avail2 exit)
    as (exit & avail2 & out2 & -> & Hf2 & Hr2 & He2).
  { destruct (_ && _) eqn:E; [apply andb_prop in E as [?%Z.leb_le ?%Z.leb_le]; apply unchecked_ok|apply checked_ok];
      unfold lookups_fuel; (done || lia). }
  cbn [mbind option_bind]. destruct exit.
  - apply IH; [cbn in Hl, Hl1; lia|done..].
  - do 5 eexists. split; [done|]. done.
  - do 5 eexists. split; [done|]. done.
Qed.

(** ** Padding *)

Lemma finish_codes o bs : is_bytes o -> huff_finish 1 (code_bits o ++ bs) = (o ++.) <$> huff_finish 1 bs.
Proof.
  intros Ho. apply huff_finish_app. pose proof (walk_codes o [] Ho) as H. rewrite app_nil_r in H. rewrite H. cbn. by rewrite app_nil_r.
Qed.

Lemma walk_ones k : (k < 30)%nat -> exists q, walk 1 (replicate k true) = Some ([], q).
Proof. intros Hk. do 30 (destruct k as [|k]; [eexists; vm_compute; reflexivity|]). lia. Qed.

(** A walk over sixteen bits or less does not meet EOS. *)
Lemma walk_short bs : (length bs <= 16)%nat -> exists o p, walk 1 bs = Some (o, p).
Proof. intros H. destruct (scanned_all bs H) as [(p & Hw & _) _]. by exists (sc_syms (fold_left scan_bit bs scan_start)), p. Qed.

(** A string that is complete ends with padding. *)
Lemma finish_padded bs o : huff_finish 1 bs = Some o ->
  exists k, (k < 8)%nat /\ is_bytes o /\ bs = code_bits o ++ replicate k true.
Proof.
  unfold huff_finish. destruct (walk 1 bs) as [[o' q]|] eqn:E; [|done]. cbn [mbind option_bind].
  destruct (node_accepts q) eqn:Eq; [|done]. intros [= ->]. apply walk_sound in E as (Ho & Hq & Hb); [|lia].
  change (path_bits 1) with (@nil bool) in Hb. destruct (node_accepts_bits q Hq Eq) as (k & Hk & Ek).
  exists k. split; [done|]. split; [done|]. by rewrite <- Ek.
Qed.

Lemma finish_ones k : (k < 8)%nat -> huff_finish 1 (replicate k true) = Some [].
Proof. intros Hk. destruct (walk_pad k Hk) as (q & Hw & Ha). unfold huff_finish. rewrite Hw. cbn. by rewrite Ha. Qed.

(** Bits without a symbol are complete when they are padding. *)
Lemma finish_no_symbol bs q : walk 1 bs = Some ([], q) ->
  huff_finish 1 bs = if bool_decide (length bs < 8)%nat && bool_decide (bs = replicate (length bs) true) then Some [] else None.
Proof.
  intros Hw. destruct (huff_finish 1 bs) as [o|] eqn:E.
  - apply finish_padded in E as (k & Hk & Ho & Eb). assert (o = []) as ->.
    { rewrite Eb, walk_codes in Hw by done. destruct (walk 1 (replicate k true)) as [[o' q']|]; [|done]. cbn in Hw.
      injection Hw as Hw _. by destruct o. }
    cbn in Eb. rewrite Eb, length_replicate, !bool_decide_true by done. done.
  - destruct (bool_decide_reflect (length bs < 8)%nat) as [Hlt|]; [|done].
    destruct (bool_decide_reflect (bs = replicate (length bs) true)) as [Eb|]; [|done].
    rewrite Eb, finish_ones in E by done. done.
Qed.

(** The comparison with the mask. *)
Lemma mask_ones n buf : 0 <= n ->
  (Z.shiftl 1 n - 1 =? Z.land buf (Z.shiftl 1 n - 1)) = bool_decide (z_bits (Z.to_nat n) buf = replicate (Z.to_nat n) true).
Proof.
  intros Hn. rewrite Z.shiftl_mul_pow2, Z.mul_1_l by lia. pose proof (Z.pow_pos_nonneg 2 n).
  replace (2 ^ n - 1) with (Z.ones n) by (rewrite Z.ones_equiv; lia). rewrite Z.land_ones, Z.ones_equiv by lia.
  replace n with (Z.of_nat (Z.to_nat n)) at 1 2 by lia. rewrite <- (z_bits_ones (Z.to_nat n)), <- (z_bits_mod (Z.to_nat n) buf).
  pose proof (Z.mod_pos_bound buf (2 ^ Z.of_nat (Z.to_nat n))) as Hm. rewrite Z2Nat.id in * by lia.
  apply eq_true_iff_eq. rewrite Z.eqb_eq, bool_decide_eq_true. unfold Z.pred. split.
  - intros <-. done.
  - intros E. apply z_bits_inj in E; rewrite ?Z2Nat.id by lia; lia.
Qed.

Lemma tail_padding_ok buf avail out q : 0 <= avail -> walk 1 (z_bits (Z.to_nat avail) buf) = Some ([], q) ->
  match tail_padding buf avail out with
  | TailOk out' => out' = out /\ huff_finish 1 (z_bits (Z.to_nat avail) buf) = Some []
  | TailError => huff_finish 1 (z_bits (Z.to_nat avail) buf) = None
  | TailDstEnded => False
  end.
Proof.
  intros Ha Hw. rewrite (finish_no_symbol _ _ Hw), length_z_bits. unfold tail_padding.
  destruct (Z.leb_spec 8 avail); [by rewrite bool_decide_false by lia|]. rewrite (bool_decide_true (Z.to_nat avail < 8)%nat) by lia.
  rewrite mask_ones by done. destruct (Z.ltb_spec 0 avail) as [Hpos|Hz]; cbn [andb].
  - by destruct (bool_decide (z_bits _ _ = _)).
  - by replace avail with 0 by lia.
Qed.

(** ** The end of the source *)

(** The last look-up is padded with ones. *)
Lemma tail_index buf avail : 0 <= avail <= 16 ->
  let idx := Z.lor (u16 (u64 (Z.shiftl buf (16 - avail)))) (Z.shiftl 1 (16 - avail) - 1) in
  0 <= idx < 2 ^ 16
  /\ z_bits 16 idx = z_bits (Z.to_nat avail) buf ++ replicate (Z.to_nat (16 - avail)) true.
Proof.
  intros Ha. rewrite (Z.shiftl_mul_pow2 1), Z.mul_1_l by lia. pose proof (Z.pow_pos_nonneg 2 (16 - avail)) as Hp.
  assert (2 ^ (16 - avail) <= 2 ^ 16) by (apply Z.pow_le_mono_r; lia). split.
  - apply lor_range; [apply Z.mod_pos_bound|]; lia.
  - rewrite <- (z_bits_ones (Z.to_nat (16 - avail))). rewrite Z2Nat.id by lia.
    rewrite <- (z_bits_lor_shiftl (Z.to_nat avail) (Z.to_nat (16 - avail))) by (rewrite Z2Nat.id by lia; lia).
    rewrite Z2Nat.id by lia. replace (Z.to_nat avail + Z.to_nat (16 - avail))%nat with 16%nat by lia.
    apply z_bits_ext. intros i Hi. rewrite !Z.lor_spec. f_equal. unfold u16, u64. rewrite !Z.mod_pow2_bits_low by lia. done.
Qed.

(** What the padded look-up says of the bits that are there. *)
Lemma tail_symbols bs m syms q o : (length bs + m = 16)%nat -> walk 1 (bs ++ replicate m true) = Some (syms, q) ->
  huff_finish 1 bs = Some o -> syms = o /\ (length (code_bits syms) <= length bs)%nat.
Proof.
  intros Hl Hw Hf. apply finish_padded in Hf as (k & Hk & Ho & ->). rewrite length_app, length_replicate in Hl.
  rewrite <- app_assoc, <- replicate_add, walk_codes in Hw by done. destruct (walk_ones (k + m)) as [q' E]; [lia|].
  rewrite E in Hw. cbn in Hw. injection Hw as <- _. rewrite app_nil_r, length_app. split; [done|lia].
Qed.

(** The bits after the symbols have none. *)
Lemma tail_left bs m syms q bs' : (length bs + m = 16)%nat -> walk 1 (bs ++ replicate m true) = Some (syms, q) ->
  is_bytes syms -> bs = code_bits syms ++ bs' -> exists p, walk 1 bs' = Some ([], p).
Proof.
  intros Hl Hw Hb ->. rewrite length_app in Hl. destruct (walk_short bs') as (o & p & E); [lia|]. exists p.
  rewrite <- app_assoc, walk_codes, walk_app, E in Hw by done. cbn [mbind option_bind] in Hw.
  destruct (walk p (replicate m true)) as [[o2 r]|]; [|done]. cbn in Hw. injection Hw as Hw _.
  rewrite <- (app_nil_r syms) in Hw at 2. apply app_inv_head in Hw. rewrite E. by destruct o.
Qed.

Lemma tail_end_ok src buf avail out dst_len : fast_ok src [] buf avail out -> avail < 16 -> (length out <= dst_len)%nat ->
  match tail_end dst_len buf avail out with
  | TailOk out' => huff_finish 1 (bytes_bits src) = Some out' /\ (length out' <= dst_len)%nat
  | TailError => huff_finish 1 (bytes_bits src) = None
  | TailDstEnded => 5 <= avail /\ too_many src dst_len
  end.
Proof.
  intros [(used & Es & Eb) Ho [Ha _]] H16 Hroom. rewrite app_nil_r in Es. subst used. rewrite Eb, finish_codes by done.
  set (bs := z_bits (Z.to_nat avail) buf) in *. assert (length bs = Z.to_nat avail) as Hl by apply length_z_bits.
  unfold tail_end. destruct (Z.leb_spec 5 avail) as [H5|H5].
  2: { destruct (walk_short bs) as (o & p & E); [lia|]. pose proof (walk_length _ _ _ E).
       assert (o = []) as -> by (destruct o; [done|cbn in *; lia]).
       pose proof (tail_padding_ok buf avail out p Ha E) as Hpad. fold bs in Hpad.
       destruct (tail_padding buf avail out); [|by rewrite Hpad|done]. destruct Hpad as [-> ->]. cbn. by rewrite app_nil_r. }
  destruct (tail_index buf avail) as [Hi Hbits]; [lia|]. set (idx := Z.lor _ _) in *. fold bs in Hbits.
  set (m := Z.to_nat (16 - avail)) in *. assert (length bs + m = 16)%nat as Hm by lia.
  destruct (hdec_at_ok idx Hi) as (syms & [(q & Hw & Hc) Hsb Hcount Hn Hp Hf]). rewrite Hbits in Hw, Hc, Hf.
  destruct ((idx =? 0xFFFF) && (avail <? 8)) eqn:Eones.
  { apply andb_prop in Eones as [->%Z.eqb_eq H8%Z.ltb_lt]. change (z_bits 16 0xFFFF) with (replicate 16 true) in Hbits.
    rewrite <- Hm, replicate_add in Hbits. apply app_inj_1 in Hbits as [<- _]; [|by rewrite length_replicate].
    rewrite finish_ones by lia. cbn. rewrite app_nil_r. split; [done|lia]. }
  rewrite Hcount, Hn. destruct (Z.ltb_spec avail (Z.of_nat (length (code_bits syms)))) as [Hlong|Hshort].
  { destruct (huff_finish 1 bs) as [o|] eqn:E; [|done]. destruct (tail_symbols bs m syms q o Hm Hw E). lia. }
  assert (bs = code_bits syms ++ z_bits (Z.to_nat (avail - Z.of_nat (length (code_bits syms)))) buf) as Esplit.
  { set (n := length (code_bits syms)) in *. assert (bs = take n bs ++ drop n bs) as E by (by rewrite take_drop).
    assert (take n bs = code_bits syms) as E1.
    { apply (f_equal (take n)) in Hc. rewrite take_app_le, take_app_length' in Hc by (unfold n; lia || done). exact Hc. }
    rewrite E, E1 at 1. f_equal. unfold bs. replace (Z.to_nat avail) with (n + Z.to_nat (avail - Z.of_nat n))%nat by lia.
    rewrite z_bits_app, drop_app_length'; [done|]. by rewrite length_z_bits. }
  destruct (tail_left bs m syms q _ Hm Hw Hsb Esplit) as [p Hp'].
  destruct (Z.leb_spec (Z.of_nat (length out) + Z.of_nat (length syms)) (Z.of_nat dst_len)) as [Hfit|Hnofit]; cbn [negb].
  - rewrite andb_true_r. destruct (Z.eqb_spec (Z.of_nat (length syms)) 0) as [Hz|Hz]; cbn [negb].
    + destruct (huff_finish 1 bs) as [o|] eqn:E; [|done]. destruct (tail_symbols bs m syms q o Hm Hw E) as [<- _]. exfalso.
      assert (syms = []) as -> by (destruct syms; [done|cbn in Hz; lia]). apply finish_padded in E as (k & Hk & _ & E). cbn in E.
      assert (idx = 0xFFFF) as Ei.
      { apply (z_bits_inj 16); [done|by cbn|]. rewrite Hbits, E, <- replicate_add.
        rewrite E, length_replicate in Hm. by rewrite Hm. }
      rewrite E, length_replicate in Hl. rewrite Ei, Z.eqb_refl in Eones. cbn [andb] in Eones. apply Z.ltb_ge in Eones. lia.
    + rewrite u32_id by ulia. rewrite Hp, Esplit, finish_codes by done.
      pose proof (tail_padding_ok buf (avail - Z.of_nat (length (code_bits syms))) (out ++ syms) p ltac:(lia) Hp') as Hpad.
      destruct (tail_padding _ _ _); [|by rewrite Hpad|done]. destruct Hpad as [-> ->]. cbn. rewrite app_nil_r, length_app. split; [done|lia].
  - rewrite andb_false_r. split; [done|]. eexists (out ++ syms), _. split; [by apply Forall_app|].
    rewrite code_bits_app, <- app_assoc, <- Esplit, length_app. split; [exact Eb|lia].
Qed.

(** ** Going back *)

Lemma land7 z : Z.land z 7 = z mod 8.
Proof. change 7 with (Z.ones 3). by rewrite Z.land_ones. Qed.

Lemma sym_length c : is_u8 c -> Z.of_nat (length (sym_bits c)) = ee_bits (enc_el c).
Proof. intros Hc. destruct (enc_el_ok c Hc) as [H _]. unfold sym_bits. rewrite length_z_bits. lia. Qed.

Lemma roll_back_ok n rev_out : forall avail, is_bytes rev_out ->
  Z.of_nat (length (code_bits (rev rev_out))) + avail = 8 * n -> 0 <= avail -> n < 2 ^ 29 ->
  exists out' o2, roll_back rev_out avail = (out', 8 * n - Z.of_nat (length (code_bits out')))
    /\ rev rev_out = out' ++ o2 /\ (8 * n - Z.of_nat (length (code_bits out'))) mod 8 = 0.
Proof.
  change (2 ^ 29) with 536870912.
  induction rev_out as [|c rev_out IH]; intros avail Hb Hn Ha Hlt; cbn [roll_back]; rewrite land7.
  - cbn in Hn. exists [], []. cbn. destruct (Z.eqb_spec (avail mod 8) 0); split_and!; try done; try (by f_equal; lia); dlia.
  - destruct (Z.eqb_spec (avail mod 8) 0) as [Hz|Hz].
    + exists (rev (c :: rev_out)), []. rewrite app_nil_r. split; [f_equal; lia|]. split; [done|].
      by replace (8 * n - Z.of_nat (length (code_bits (rev (c :: rev_out))))) with avail by lia.
    + apply Forall_cons in Hb as [Hc Hb]. cbn [rev] in *. rewrite code_bits_app, length_app in Hn.
      assert (Z.of_nat (length (code_bits [c])) = ee_bits (enc_el c)) as Ec by (cbn; rewrite app_nil_r; by apply sym_length).
      destruct (enc_el_ok c Hc) as [Hbits _]. rewrite u32_id by ulia.
      destruct (IH (avail + ee_bits (enc_el c)) Hb ltac:(lia) ltac:(lia) ltac:(lia)) as (out' & o2 & E1 & E2 & E3).
      exists out', (o2 ++ [c]). split; [done|]. split; [|done]. by rewrite E2, app_assoc.
Qed.

Lemma back_to_byte_ok src rest buf avail out : fast_ok src rest buf avail out -> is_bytes src ->
  Z.of_nat (length src) < 2 ^ 29 -> 0 < avail ->
  exists out' n, back_to_byte (length src - length rest) avail out = Some (out', n)
    /\ is_bytes out' /\ (length out' <= length out)%nat /\ (n < length src)%nat
    /\ bytes_bits (take n src) = code_bits out'.
Proof.
  intros [(used & -> & E) Ho Ha] Hs Hl Hpos. rewrite length_app in *. replace (length used + length rest - length rest)%nat with (length used) by lia.
  assert (length (code_bits out) + Z.to_nat avail = 8 * length used)%nat as Hlen
    by (apply (f_equal length) in E; rewrite length_app, length_z_bits, length_bytes_bits in E; lia).
  destruct (roll_back_ok (Z.of_nat (length used)) (rev out) avail) as (out' & o2 & E1 & E2 & E3);
    [by apply Forall_rev|rewrite rev_involutive; lia|lia|lia|]. rewrite rev_involutive in E2.
  assert (length (code_bits out) = length (code_bits out') + length (code_bits o2))%nat as Hout
    by (by rewrite E2, code_bits_app, length_app).
  unfold back_to_byte. rewrite E1. set (k := length (code_bits out')) in *. rewrite land7, Z.shiftr_div_pow2 by lia.
  change (2 ^ 3) with 8. set (back := Z.to_nat ((8 * Z.of_nat (length used) - Z.of_nat k) / 8)).
  assert (k + 8 * back = 8 * length used)%nat as Hback by (unfold back; dlia).
  rewrite decide_True by (split; [done|lia]). exists out', (length used - back)%nat. split; [done|].
  rewrite E2 in Ho. apply Forall_app in Ho as [Ho' _]. split; [done|]. split; [rewrite E2, length_app; lia|]. split; [lia|].
  rewrite take_app_le by lia. assert (used = take (length used - back) used ++ drop (length used - back) used) as Eu by (by rewrite take_drop).
  rewrite E2, code_bits_app, <- app_assoc in E. rewrite Eu, bytes_bits_app in E at 1. apply app_inj_1 in E; [apply E|].
  rewrite length_bytes_bits, length_take. fold k. lia.
Qed.

(** ** The calls *)

(** Where a call goes on after [n] bytes that are the codes of [out]. *)
Lemma bits_after src out n : (n <= length src)%nat -> bytes_bits (take n src) = code_bits out ->
  bytes_bits src = code_bits out ++ bytes_bits (drop n src).
Proof. intros Hn E. rewrite <- E, <- bytes_bits_app. by rewrite take_drop. Qed.

Lemma walk_out out : is_bytes out -> walk 1 (code_bits out) = Some (out, 1).
Proof. intros Ho. rewrite <- (app_nil_r (code_bits out)), walk_codes by done. cbn. by rewrite app_nil_r. Qed.

Record call_ok (src : bytes) (room : nat) (st : huff_decode_state) (final : bool) (hdr : huff_decode_retval)
  (st' : huff_decode_state) : Prop := {
  cl_spec : huff_call_spec src room st final hdr st';
  cl_room : (length (hdr_out hdr) <= room)%nat;
  cl_bytes : is_bytes (hdr_out hdr);
}.

Lemma dst_ended_ok src room st out n : hds_resume st = 0 -> huff_state_ok st -> is_bytes out -> (length out <= room)%nat ->
  (n < length src)%nat -> bytes_bits (take n src) = code_bits out -> too_many src room ->
  call_ok src room st true {| hdr_status := HUFF_DEC_END_DST; hdr_out := out; hdr_n_src := n |} st.
Proof.
  intros Hr Hst Ho Hl Hn E Hm. constructor; [|done|done]. unfold huff_call_spec, huff_node. cbn [hdr_status hdr_out hdr_n_src].
  rewrite Hr. cbn [Z.eqb]. rewrite !huff_rest_other by done. split; [done|]. split; [done|]. split; [done|].
  split; [exists (code_bits out); split; [apply bits_after; [lia|done]|by apply walk_out]|]. split.
  - unfold huff_progress. cbn. destruct n; [left|right; left; lia]. split; [done|]. split; [|done].
    rewrite take_0 in E. cbn in E. pose proof (code_bits_min out Ho) as H5. rewrite <- E in H5. by destruct out; [|cbn in H5; lia].
  - right. cbn [hdr_out]. split; [done|]. split; [done|]. pose proof (too_many_long _ _ Hm). split; [lia|].
    destruct Hm as (syms & bs & Hsb & Es & Hlong). unfold huff_node. rewrite Hr, huff_rest_other, Es by done. cbn [Z.eqb].
    intros o. rewrite finish_codes by done. destruct (huff_finish 1 bs); [|done]. intros [= <-]. rewrite length_app. lia.
Qed.

Lemma slow_path_ok src room st out n : hds_resume st = 0 -> huff_state_ok st -> is_bytes src -> is_bytes out ->
  (length out <= room)%nat -> (n < length src)%nat -> bytes_bits (take n src) = code_bits out ->
  call_ok src room st true (fst (slow_path src room out n st true)) (snd (slow_path src room out n st true)).
Proof.
  intros Hr Hst Hs Ho Hl Hn E. unfold slow_path.
  assert (is_bytes (drop n src)) as Hd by (by apply is_bytes_drop).
  destruct (lsqpack_huff_decode_full (drop n src) (room - length out) st true) as [rv st'] eqn:Ef.
  assert (drop n src = [] -> hds_resume st = 0) as Hne by done.
  assert (drop n src <> []) as Hne2 by (intros E2; apply (f_equal length) in E2; rewrite length_drop in E2; cbn in E2; lia).
  pose proof (huff_call _ _ _ _ _ _ Hd ltac:(done) Hst Ef) as Hc.
  pose proof (huff_call_room _ _ _ _ _ _ Hd Hne Hst Ef) as Hrm.
  pose proof (huff_call_bytes (drop n src) (room - length out) st true) as Hby. rewrite Ef in Hby. cbn [fst] in Hby.
  pose proof (bits_after src out n ltac:(lia) E) as Eb. unfold huff_call_spec in Hc.
  rewrite Hr in Hc. rewrite huff_rest_other in Hc by done. assert (huff_node st = 1) as Hnode by (unfold huff_node; by rewrite Hr).
  rewrite Hnode in Hc. destruct (hdr_status rv) eqn:Es.
  - destruct Hc as (_ & Hf & Hns & Hlen). constructor; cbn [fst hdr_out]; [|rewrite length_app; lia|by apply Forall_app].
    unfold huff_call_spec. cbn [fst snd hdr_status hdr_out hdr_n_src]. rewrite Hnode, Hr, huff_rest_other by done. split; [done|].
    split; [rewrite Eb, finish_codes, Hf by done; done|]. rewrite length_app, Hns, length_drop. lia.
  - by destruct Hc.
  - destruct Hc as (Hst' & Hlen & Hlt & (bs & Hbs & Hw) & Hp & Hfull). rewrite length_drop in Hlt.
    constructor; cbn [fst hdr_out]; [|rewrite length_app; lia|by apply Forall_app].
    unfold huff_call_spec. cbn [fst snd hdr_status hdr_out hdr_n_src]. rewrite Hnode, Hr, huff_rest_other by done. split; [done|].
    split; [rewrite length_app; lia|]. split; [lia|]. split.
    { exists (code_bits out ++ bs). split; [by rewrite Eb, Hbs, drop_drop, <- app_assoc|].
      rewrite walk_codes, Hw by done. done. }
    split.
    + unfold huff_progress in *. cbn [hdr_n_src hdr_out]. destruct n; [|right; left; lia]. cbn [plus].
      rewrite take_0 in E. cbn in E. pose proof (code_bits_min out Ho) as H5. rewrite <- E in H5.
      assert (out = []) as -> by (destruct out; [done|cbn in H5; lia]). cbn in *. rewrite Nat.sub_0_r in Hp. exact Hp.
    + unfold huff_full in *. cbn [hdr_out]. rewrite length_app. rewrite length_drop in Hfull.
      destruct Hfull as [?|(_ & _ & H5 & Hlong)]; [left; lia|right]. split; [done|]. split; [done|].
      pose proof (code_bits_min out Ho) as Hc5. rewrite <- E, length_bytes_bits, length_take in Hc5. split; [lia|].
      intros o. rewrite Hnode, Hr, huff_rest_other, Eb, finish_codes by done. rewrite Hnode, Hr, huff_rest_other in Hlong by done.
      destruct (huff_finish 1 _) as [o'|]; [|done]. specialize (Hlong o' eq_refl). intros [= <-]. rewrite length_app. lia.
  - constructor; cbn [fst]; [|lia|done]. unfold huff_call_spec. cbn [fst snd]. rewrite Es. intros bs Hbs.
    rewrite Hnode, Hr, huff_rest_other, Eb, <- app_assoc, finish_codes by done. by rewrite Hc.
Qed.

Lemma decode_fast_ok src room st : hds_resume st = 0 -> huff_state_ok st -> is_bytes src -> Z.of_nat (length src) < 2 ^ 29 ->
  exists hdr st', huff_decode_fast src room st true = Some (hdr, st') /\ call_ok src room st true hdr st'.
Proof.
  intros Hr Hst Hs Hl. assert (fast_ok src src 0 0 []) as Hf0.
  { constructor; [|constructor|lia]. exists []. split; [done|]. done. }
  destruct (fast_loop_ok src room (length src) src 0 0 []) as (exit & rest & buf & avail & out & E & Hf & Hroom & Hex & Hend);
    [done|done|done|lia|cbn; lia|].
  unfold huff_decode_fast. rewrite E. cbn [mbind option_bind].
  assert (0 < avail -> too_many src room -> exists hdr st',
    ('(out, n) ← back_to_byte (length src - length rest) avail out;
     Some ({| hdr_status := HUFF_DEC_END_DST; hdr_out := out; hdr_n_src := n |}, st)) = Some (hdr, st')
    /\ call_ok src room st true hdr st') as Hended.
  { intros Hpos Hm. destruct (back_to_byte_ok _ _ _ _ _ Hf Hs Hl Hpos) as (out' & n & -> & Ho & Hlo & Hn & Eb).
    cbn [mbind option_bind]. do 2 eexists. split; [done|]. apply dst_ended_ok; try done. lia. }
  destruct exit.
  - rewrite (Hend eq_refl) in *. pose proof (tail_end_ok src buf avail out room Hf Hex Hroom) as Ht.
    destruct (tail_end room buf avail out) as [out'| |].
    + destruct Ht as [Ht Hlo]. do 2 eexists. split; [done|]. constructor; [|done|].
      * unfold huff_call_spec, huff_node. cbn [hdr_status hdr_out hdr_n_src]. rewrite Hr, huff_rest_other by done. done.
      * by apply finish_padded in Ht as (k & _ & Ho & _).
    + do 2 eexists. split; [done|]. constructor; [|cbn; lia|constructor]. unfold huff_call_spec. cbn [huff_error hdr_status].
      intros bs ->; [|done]. unfold huff_node. rewrite Hr, huff_rest_other, app_nil_r by done. done.
    + apply Hended; [lia|by destruct Ht].
  - destruct Hex as [? ?]. apply Hended; [lia|done].
  - cbn [exit_ok] in Hex. destruct (back_to_byte_ok _ _ _ _ _ Hf Hs Hl ltac:(lia)) as (out' & n & -> & Ho & Hlo & Hn & Eb). cbn [mbind option_bind].
    eexists _, _. split; [apply f_equal, surjective_pairing|]. apply slow_path_ok; try done. lia.
Qed.

(** What any call of the decoder does. *)
Lemma full_reads_inside src room st :
  (src = [] -> hds_resume st = 0) -> full_reads_past src room st = false.
Proof.
  intros H. unfold full_reads_past. destruct (bool_decide_reflect (src = [])) as [Hs|]; [|done].
  by rewrite (H Hs).
Qed.

Lemma decode_call src room st final :
  is_bytes src -> Z.of_nat (length src) < 2 ^ 29 -> (src = [] -> hds_resume st = 0 /\ (0 < room)%nat) -> huff_state_ok st ->
  exists hdr st', lsqpack_huff_decode src room st final = Some (hdr, st') /\ call_ok src room st final hdr st'.
Proof.
  intros Hs Hl Hne Hst. unfold lsqpack_huff_decode. destruct (Z.eqb_spec (hds_resume st) 0) as [Hr|Hr]; cbn [andb];
    [destruct final; [by apply decode_fast_ok|]|];
    (rewrite full_reads_inside by (intros [? _]%Hne; done));
    destruct (lsqpack_huff_decode_full src room st _) as [hdr st'] eqn:E; exists hdr, st'; (split; [done|]);
    (constructor; [by eapply huff_call|eapply huff_call_room; [done|by intros [? _]%Hne|done|done]|]);
    pose proof (huff_call_bytes src room st) as Hb; [specialize (Hb false)|specialize (Hb final)]; by rewrite E in Hb.
Qed.

(** ** Whole strings *)

Lemma finish_encoded bits0 s : is_bytes s -> huff_finish 1 (bytes_bits (qenc_huffman_enc bits0 s)) = Some s.
Proof.
  intros Hs. destruct (qenc_huffman_enc_bits bits0 s Hs) as (k & Hk & ->). rewrite finish_codes, finish_ones by done. cbn. by rewrite app_nil_r.
Qed.

Lemma encoded_finish bits0 src s : is_bytes src -> huff_finish 1 (bytes_bits src) = Some s -> src = qenc_huffman_enc bits0 s.
Proof.
  intros Hsrc H. apply finish_padded in H as (k & Hk & Hs & E). destruct (qenc_huffman_enc_bits bits0 s Hs) as (k' & Hk' & E').
  apply (pad_unique _ _ _ k k' Hk Hk' E E' Hsrc). apply huffman_loop_bytes.
Qed.

(** C30: the decoder that is built by default, on a string that has arrived as a whole:
    it ends, within its buffers and with its assertions true; what it accepts is the
    encoding of its result; it refuses only what is the encoding of no string; and it
    stops for lack of room only when the result would fill the room, with a beginning
    of the result that is decoded correctly. *)
Theorem fast_decode_correct bits0 src room :
  is_bytes src -> Z.of_nat (length src) < 2 ^ 29 ->
  exists hdr st', lsqpack_huff_decode src room huff_fresh true = Some (hdr, st')
    /\ match hdr_status hdr with
       | HUFF_DEC_OK => is_bytes (hdr_out hdr) /\ (length (hdr_out hdr) <= room)%nat
           /\ hdr_n_src hdr = length src /\ src = qenc_huffman_enc bits0 (hdr_out hdr)
       | HUFF_DEC_END_DST => (5 * room <= 8 * length src)%nat /\ (length (hdr_out hdr) <= room)%nat
           /\ (hdr_n_src hdr < length src)%nat
           /\ forall s, is_bytes s -> src = qenc_huffman_enc bits0 s ->
                (room <= length s)%nat /\ exists s', s = hdr_out hdr ++ s'
       | HUFF_DEC_ERROR => forall s, is_bytes s -> src <> qenc_huffman_enc bits0 s
       | HUFF_DEC_END_SRC => False
       end.
Proof.
  intros Hs Hl. destruct (decode_fast_ok src room huff_fresh eq_refl huff_fresh_ok Hs Hl) as (hdr & st' & E & [Hc Hr Hb]).
  exists hdr, st'. split; [done|]. unfold huff_call_spec in Hc. change (hds_resume huff_fresh) with 0 in Hc.
  rewrite huff_rest_other in Hc by done. change (huff_node huff_fresh) with 1 in Hc. destruct (hdr_status hdr).
  - destruct Hc as (_ & Hf & Hn & _). split_and!; try done. by apply encoded_finish.
  - by destruct Hc.
  - destruct Hc as (_ & _ & Hn & (bs & Ebs & Hw) & _ & Hfull). split_and!; try done.
    + pose proof (walk_length _ _ _ Hw) as H5. apply (f_equal length) in Ebs. rewrite length_app, length_bytes_bits in Ebs.
      destruct Hfull as [<-|(_ & _ & ? & _)]; lia.
    + intros s Hsb ->. pose proof (finish_encoded bits0 s Hsb) as Hf.
      assert (exists s', s = hdr_out hdr ++ s') as [s' Es].
      { rewrite Ebs, (huff_finish_app _ _ _ _ _ Hw) in Hf. destruct (huff_finish _ _) as [o|]; [|done]. injection Hf as <-. by exists o. }
      split; [|by exists s']. destruct Hfull as [<-|(_ & _ & _ & Hlong)]; [rewrite Es, length_app; lia|].
      enough (room < length s)%nat by lia. apply Hlong. by rewrite huff_rest_other.
  - intros s Hsb ->. pose proof (finish_encoded bits0 s Hsb) as Hf. specialize (Hc [] ltac:(done)).
    rewrite app_nil_r in Hc. congruence.
Qed.

Lemma fast_decode_correct_witness :
  exists hdr st', lsqpack_huff_decode [0xf1; 0xe3; 0xc2; 0xe3] 8 huff_fresh true = Some (hdr, st')
    /\ hdr_status hdr = HUFF_DEC_OK /\ [0xf1; 0xe3; 0xc2; 0xe3] = qenc_huffman_enc 0 (hdr_out hdr).
Proof.
  destruct (fast_decode_correct 0 [0xf1; 0xe3; 0xc2; 0xe3] 8) as (hdr & st' & E & H);
    [repeat constructor; unfold is_u8; lia|cbn; lia|].
  exists hdr, st'. split; [exact E|]. assert (hdr_status hdr = HUFF_DEC_OK) as Es.
  { assert (Some (hdr, st') = Some ({| hdr_status := HUFF_DEC_OK; hdr_out := [119; 119; 119; 46; 97]; hdr_n_src := 4 |}, huff_fresh)) as E2
      by (rewrite <- E; vm_compute; reflexivity). by injection E2 as -> _. }
  rewrite Es in H. split; [exact Es|]. exact (proj2 (proj2 (proj2 H))).
Defined.
