(* ===== verification/DecTable.v ===== *)
(** * The decoder's dynamic table

    The part of [struct lsqpack_dec] of src/lsqpack.c that holds the dynamic
    table, with [qdec_get_table_entry_rel], [qdec_get_table_entry_abs],
    [qdec_decref_entry], [qdec_drop_oldest_entry], [qdec_remove_overflow_entries],
    [qdec_update_max_capacity], the table's part of [lsqpack_dec_push_entry] and
    [qdec_maybe_update_entry_hashes].

    Entries are counted references: an entry that leaves the table stays alive
    while an instruction still reads its name.  So the model has the heap: a map
    from addresses to entries, from which [qdec_decref_entry] removes an entry when
    its count comes to zero.  Reading through an address that is not there is
    undefined ([None]).

    The second half relates the table to the list of names and values of
    [Rfc9204]: [tab_rep n t l held] says that [t] holds the entries at the
    addresses [l], oldest first, after [n] insertions, that [held] are the
    references from elsewhere, and that the counts are right. *)

From stdpp Require Import gmap.
From S2P Require Import Prelude IntCodec HuffTables Huffman StrCodec Xxhash StaticTable Ringbuf.
From S2P Require Import Rfc9204 EncTable.

(** ** Ids modulo twice the number of entries *)

(** [ID_MINUS(a, b)] on 32-bit operands, and when the first or the second has 64
    bits. *)
Definition ID_MINUS (max_entries a b : Z) : Z :=
  if max_entries =? 0 then 0 else u32 (a + 2 * max_entries - b) mod u32 (2 * max_entries).
Definition ID_MINUS64 (max_entries a b : Z) : Z :=
  if max_entries =? 0 then 0 else u64 (a + 2 * max_entries - b) mod u32 (2 * max_entries).

(** [ID_PLUS(a, b)], the same. *)
Definition ID_PLUS (max_entries a b : Z) : Z :=
  if max_entries =? 0 then 0 else u32 (a + b) mod u32 (2 * max_entries).
Definition ID_PLUS64 (max_entries a b : Z) : Z :=
  if max_entries =? 0 then 0 else u64 (a + b) mod u32 (2 * max_entries).

(** ** Entries *)

(** [struct lsqpack_dec_table_entry]; [dte_buf] is the rest of the block. *)
Record dec_table_entry := {
  dte_name_len : Z;
  dte_val_len : Z;
  dte_refcnt : Z;
  dte_name_hash : Z;
  dte_nameval_hash : Z;
  dte_name_idx : Z;
  dte_flags : Z;
  dte_buf : bytes;
}.

Definition DTEF_NAME_HASH : Z := 1.
Definition DTEF_NAMEVAL_HASH : Z := 2.
Definition DTEF_NAME_IDX : Z := 4.

Definition DTE_NAME (e : dec_table_entry) : bytes := take (Z.to_nat (dte_name_len e)) (dte_buf e).
Definition DTE_VALUE (e : dec_table_entry) : bytes :=
  take (Z.to_nat (dte_val_len e)) (drop (Z.to_nat (dte_name_len e)) (dte_buf e)).
Definition DTE_SIZE (e : dec_table_entry) : Z :=
  ENTRY_COST (dte_name_len e) (dte_val_len e).

(** A block of [sizeof(entry) + n] bytes as [malloc] returns it. *)
Definition fresh_bytes (mem : mem_words) (n : Z) : bytes := (fun i => u8 (mem i)) <$> seqZ 0 n.

Definition fresh_entry (mem : mem_words) (n : Z) : dec_table_entry :=
  {| dte_name_len := u32 (mem (-1)); dte_val_len := u32 (mem (-2)); dte_refcnt := u32 (mem (-3));
     dte_name_hash := u32 (mem (-4)); dte_nameval_hash := u32 (mem (-5));
     dte_name_idx := u32 (mem (-6)); dte_flags := u32 (mem (-7)); dte_buf := fresh_bytes mem n |}.

Definition set_refcnt (n : Z) (e : dec_table_entry) : dec_table_entry :=
  {| dte_name_len := dte_name_len e; dte_val_len := dte_val_len e; dte_refcnt := n;
     dte_name_hash := dte_name_hash e; dte_nameval_hash := dte_nameval_hash e;
     dte_name_idx := dte_name_idx e; dte_flags := dte_flags e; dte_buf := dte_buf e |}.

Definition set_lens (name_len val_len : Z) (e : dec_table_entry) : dec_table_entry :=
  {| dte_name_len := name_len; dte_val_len := val_len; dte_refcnt := dte_refcnt e;
     dte_name_hash := dte_name_hash e; dte_nameval_hash := dte_nameval_hash e;
     dte_name_idx := dte_name_idx e; dte_flags := dte_flags e; dte_buf := dte_buf e |}.

Definition set_hashes (flags name_hash nameval_hash name_idx : Z) (e : dec_table_entry)
  : dec_table_entry :=
  {| dte_name_len := dte_name_len e; dte_val_len := dte_val_len e; dte_refcnt := dte_refcnt e;
     dte_name_hash := name_hash; dte_nameval_hash := nameval_hash;
     dte_name_idx := name_idx; dte_flags := flags; dte_buf := dte_buf e |}.

Definition set_buf (buf : bytes) (e : dec_table_entry) : dec_table_entry :=
  {| dte_name_len := dte_name_len e; dte_val_len := dte_val_len e; dte_refcnt := dte_refcnt e;
     dte_name_hash := dte_name_hash e; dte_nameval_hash := dte_nameval_hash e;
     dte_name_idx := dte_name_idx e; dte_flags := dte_flags e; dte_buf := buf |}.

(** [memcpy(buf + off, src, n)], undefined outside the block. *)
Definition write_at (off : Z) (src buf : bytes) : option bytes :=
  if (0 <=? off) && (off + Z.of_nat (length src) <=? Z.of_nat (length buf))
  then Some (put_bytes (Z.to_nat off) src buf) else None.

(** ** The table *)

(** The members of [struct lsqpack_dec] the table consists of, and the heap its
    entries live in; [dt_next] is an address never used before. *)
Record dec_table := {
  dt_heap : gmap Z dec_table_entry;
  dt_next : Z;
  qpd_dyn_table : ringbuf Z;
  qpd_max_capacity : Z;
  qpd_cur_max_capacity : Z;
  qpd_cur_capacity : Z;
  qpd_max_entries : Z;
  qpd_last_id : Z;
}.

Definition with_heap (h : gmap Z dec_table_entry) (t : dec_table) : dec_table :=
  {| dt_heap := h; dt_next := dt_next t; qpd_dyn_table := qpd_dyn_table t;
     qpd_max_capacity := qpd_max_capacity t; qpd_cur_max_capacity := qpd_cur_max_capacity t;
     qpd_cur_capacity := qpd_cur_capacity t; qpd_max_entries := qpd_max_entries t;
     qpd_last_id := qpd_last_id t |}.

Definition with_ring (r : ringbuf Z) (capacity last_id : Z) (t : dec_table) : dec_table :=
  {| dt_heap := dt_heap t; dt_next := dt_next t; qpd_dyn_table := r;
     qpd_max_capacity := qpd_max_capacity t; qpd_cur_max_capacity := qpd_cur_max_capacity t;
     qpd_cur_capacity := capacity; qpd_max_entries := qpd_max_entries t;
     qpd_last_id := last_id |}.

Definition with_max_capacity (capacity : Z) (t : dec_table) : dec_table :=
  {| dt_heap := dt_heap t; dt_next := dt_next t; qpd_dyn_table := qpd_dyn_table t;
     qpd_max_capacity := qpd_max_capacity t; qpd_cur_max_capacity := capacity;
     qpd_cur_capacity := qpd_cur_capacity t; qpd_max_entries := qpd_max_entries t;
     qpd_last_id := qpd_last_id t |}.

(** A new block in the heap. *)
Definition alloc_entry (e : dec_table_entry) (t : dec_table) : Z * dec_table :=
  (dt_next t,
   {| dt_heap := <[dt_next t := e]> (dt_heap t); dt_next := dt_next t + 1;
      qpd_dyn_table := qpd_dyn_table t; qpd_max_capacity := qpd_max_capacity t;
      qpd_cur_max_capacity := qpd_cur_max_capacity t; qpd_cur_capacity := qpd_cur_capacity t;
      qpd_max_entries := qpd_max_entries t; qpd_last_id := qpd_last_id t |}).

Definition free_entry (p : Z) (t : dec_table) : option dec_table :=
  match dt_heap t !! p with
  | Some _ => Some (with_heap (delete p (dt_heap t)) t)
  | None => None
  end.

Definition update_entry (p : Z) (f : dec_table_entry -> dec_table_entry) (t : dec_table)
  : option dec_table :=
  match dt_heap t !! p with
  | Some e => Some (with_heap (<[p := f e]> (dt_heap t)) t)
  | None => None
  end.

(** The address, [None] for NULL. *)
Definition qdec_get_table_entry_rel (t : dec_table) (relative_idx : Z) : option Z :=
  let relative_idx := u32 (relative_idx + 1) in
  if ringbuf_count (qpd_dyn_table t) >=? relative_idx
  then ringbuf_get_head (qpd_dyn_table t) relative_idx
  else None.

Definition qdec_get_table_entry_abs (t : dec_table) (abs_idx : Z) : option Z :=
  qdec_get_table_entry_rel t (ID_MINUS (qpd_max_entries t) (qpd_last_id t) abs_idx).

Definition qdec_decref_entry (p : Z) (t : dec_table) : option dec_table :=
  e ← dt_heap t !! p;
  let n := u32 (dte_refcnt e - 1) in
  if n =? 0 then free_entry p t else update_entry p (set_refcnt n) t.

Definition incref_entry (p : Z) : dec_table -> option dec_table :=
  update_entry p (fun e => set_refcnt (u32 (dte_refcnt e + 1)) e).

Definition qdec_drop_oldest_entry (t : dec_table) : option dec_table :=
  let '(entry, ring) := ringbuf_advance_tail (qpd_dyn_table t) in
  p ← entry;
  e ← dt_heap t !! p;
  qdec_decref_entry p (with_ring ring (u32 (qpd_cur_capacity t - DTE_SIZE e)) (qpd_last_id t) t).

(** The loop ends after as many rounds as there are entries: [fuel] is their
    number. *)
Fixpoint remove_overflow (fuel : nat) (t : dec_table) : option dec_table :=
  if qpd_cur_capacity t >? qpd_cur_max_capacity t then
    match fuel with
    | O => None
    | S fuel => t ← qdec_drop_oldest_entry t; remove_overflow fuel t
    end
  else Some t.

Definition qdec_remove_overflow_entries (t : dec_table) : option dec_table :=
  remove_overflow (Z.to_nat (ringbuf_count (qpd_dyn_table t))) t.

Definition qdec_update_max_capacity (new_capacity : Z) (t : dec_table) : option dec_table :=
  qdec_remove_overflow_entries (with_max_capacity new_capacity t).

(** [lsqpack_dec_push_entry] up to [qdec_process_blocked_headers]: false when
    [ringbuf_add] fails. *)
Definition push_entry (malloc_ok : bool) (p : Z) (t : dec_table) : option (bool * dec_table) :=
  let '(ok, ring) := ringbuf_add malloc_ok (qpd_dyn_table t) p in
  if ok : bool then
    e ← dt_heap t !! p;
    t ← qdec_remove_overflow_entries
          (with_ring ring (u32 (qpd_cur_capacity t + DTE_SIZE e))
             (ID_PLUS (qpd_max_entries t) (qpd_last_id t) 1) t);
    Some (true, t)
  else Some (false, with_ring ring (qpd_cur_capacity t) (qpd_last_id t) t).

Definition LSQPACK_DEC_OPT_HTTP1X : Z := 1.
Definition LSQPACK_DEC_OPT_HASH_NAME : Z := 2.
Definition LSQPACK_DEC_OPT_HASH_NAMEVAL : Z := 4.

Definition hash_name_of (opts : Z) (e : dec_table_entry) : dec_table_entry :=
  if has_bits opts (Z.lor LSQPACK_DEC_OPT_HASH_NAME LSQPACK_DEC_OPT_HASH_NAMEVAL)
     && negb (has_bits (dte_flags e) DTEF_NAME_HASH)
  then set_hashes (Z.lor (dte_flags e) DTEF_NAME_HASH) (XXH32 (DTE_NAME e) LSQPACK_XXH_SEED)
         (dte_nameval_hash e) (dte_name_idx e) e
  else e.

(** [None] for the failed assertion. *)
Definition hash_nameval_of (opts : Z) (e : dec_table_entry) : option dec_table_entry :=
  if has_bits opts LSQPACK_DEC_OPT_HASH_NAMEVAL && negb (has_bits (dte_flags e) DTEF_NAMEVAL_HASH)
  then
    if has_bits (dte_flags e) DTEF_NAME_HASH
    then Some (set_hashes (Z.lor (dte_flags e) DTEF_NAMEVAL_HASH) (dte_name_hash e)
                 (XXH32 (DTE_VALUE e) (dte_name_hash e)) (dte_name_idx e) e)
    else None
  else Some e.

Definition qdec_maybe_update_entry_hashes (opts p : Z) (t : dec_table) : option dec_table :=
  e ← dt_heap t !! p;
  e' ← hash_nameval_of opts (hash_name_of opts e);
  Some (with_heap (<[p := e']> (dt_heap t)) t).

(** ** The invariant *)

(** The caches of an entry agree with its strings. *)
Definition hashes_ok (e : dec_table_entry) : Prop :=
  (has_bits (dte_flags e) DTEF_NAME_HASH = true ->
     dte_name_hash e = XXH32 (DTE_NAME e) LSQPACK_XXH_SEED)
  /\ (has_bits (dte_flags e) DTEF_NAMEVAL_HASH = true ->
        has_bits (dte_flags e) DTEF_NAME_HASH = true
        /\ dte_nameval_hash e = XXH32 (DTE_VALUE e) (dte_name_hash e))
  /\ (has_bits (dte_flags e) DTEF_NAME_IDX = true ->
        0 <= dte_name_idx e < 99 /\ ste_name (ste_at (dte_name_idx e)) = DTE_NAME e).

(** An entry that is complete: both strings are inside its block. *)
Record entry_good (e : dec_table_entry) : Prop := {
  eg_name : 0 <= dte_name_len e < 2 ^ 25;
  eg_val : 0 <= dte_val_len e < 2 ^ 25;
  eg_buf : dte_name_len e + dte_val_len e <= Z.of_nat (length (dte_buf e));
  eg_bytes : is_bytes (dte_buf e);
  eg_hashes : hashes_ok e;
}.

Definition dte_nameval (e : dec_table_entry) : hfield := (DTE_NAME e, DTE_VALUE e).

(** The entry at an address. *)
Definition dummy_entry : dec_table_entry := fresh_entry (fun _ => 0) 0.
Definition entry_at (h : gmap Z dec_table_entry) (p : Z) : dec_table_entry :=
  default dummy_entry (h !! p).

Definition fields (h : gmap Z dec_table_entry) (l : list Z) : list hfield :=
  (fun p => dte_nameval (entry_at h p)) <$> l.

(** How many references there are to [p]: from the table and from the instruction
    being read. *)
Definition refs (l : list Z) (held : option Z) (p : Z) : Z :=
  Z.b2z (bool_decide (p ∈ l)) + Z.b2z (bool_decide (held = Some p)).

(** The heap holds what is referenced, with the right counts, and the block [own]
    that only the instruction being read knows of: nothing dangles or leaks. *)
Record heap_ok (h : gmap Z dec_table_entry) (next : Z) (r : Z -> Z) (own : option Z) : Prop := {
  ho_refs : forall p, 0 < r p ->
    exists e, h !! p = Some e /\ entry_good e /\ dte_refcnt e = r p;
  ho_own : forall p, own = Some p -> r p = 0 /\ is_Some (h !! p);
  ho_dom : forall p, is_Some (h !! p) -> 0 < r p \/ own = Some p;
  ho_fresh : forall p, is_Some (h !! p) -> p < next;
}.

Record tab_core (n : Z) (t : dec_table) (l : list Z) (held own : option Z) : Prop := {
  tc_ring : rb_rep (qpd_dyn_table t) l;
  tc_nalloc : rb_nalloc (qpd_dyn_table t) <= 2 ^ 28;
  tc_nodup : NoDup l;
  tc_heap : heap_ok (dt_heap t) (dt_next t) (refs l held) own;
  tc_size : qpd_cur_capacity t = fields_size (fields (dt_heap t) l);
  tc_small : qpd_cur_capacity t < 2 ^ 32;
  tc_cap : 0 <= qpd_cur_max_capacity t <= qpd_max_capacity t;
  tc_max : qpd_max_capacity t < 2 ^ 31;
  tc_entries : qpd_max_entries t = qpd_max_capacity t / 32;
  tc_inserted : Z.of_nat (length l) <= n;
  tc_last : 0 < qpd_max_entries t -> qpd_last_id t = (n - 1) mod (2 * qpd_max_entries t);
}.

Record tab_rep (n : Z) (t : dec_table) (l : list Z) (held own : option Z) : Prop := {
  tr_core : tab_core n t l held own;
  tr_fits : qpd_cur_capacity t <= qpd_cur_max_capacity t;
}.

(** The table of the specification. *)
Definition dyn_of (n : Z) (t : dec_table) (l : list Z) : dyn_table :=
  Dyn n (qpd_cur_max_capacity t) (fields (dt_heap t) l).

(** What the decoder does for an insertion: unlike [dt_insert] it has no error for
    an entry that does not fit; such an entry empties the table. *)
Definition dec_insert (f : hfield) (t : dyn_table) : dyn_table :=
  Dyn (dt_inserted t + 1) (dt_capacity t) (dt_evict (dt_capacity t) (dt_entries t ++ [f])).

Lemma dec_insert_fits f t t' : dt_insert f t = Some t' -> dec_insert f t = t'.
Proof.
  unfold dt_insert, dec_insert. rewrite Z.gtb_ltb. destruct (Z.ltb_spec (dt_capacity t) (field_size f)); [done|].
  intros [= <-]. by rewrite dt_evict_insert by lia.
Qed.

(** ** Reference counts *)

Lemma refs_range l held p : 0 <= refs l held p <= 2.
Proof. unfold refs. destruct (bool_decide _), (bool_decide _); cbn; lia. Qed.

Lemma refs_table l held p : p ∈ l -> 0 < refs l held p.
Proof. intros H. unfold refs. rewrite bool_decide_true by done. destruct (bool_decide _); cbn; lia. Qed.

Lemma refs_held l p : 0 < refs l (Some p) p.
Proof. unfold refs. rewrite (bool_decide_true (Some p = Some p)) by done. destruct (bool_decide _); cbn; lia. Qed.

Lemma refs_zero l held p : refs l held p = 0 <-> (p ∉ l) /\ held <> Some p.
Proof.
  unfold refs. destruct (bool_decide_reflect (p ∈ l)), (bool_decide_reflect (held = Some p)); cbn;
    (split; [intros ?; try lia; done|intros [? ?]; try done; lia]).
Qed.

Lemma entry_at_lookup h p e : h !! p = Some e -> entry_at h p = e.
Proof. unfold entry_at. by intros ->. Qed.

Lemma dte_size_nameval e : entry_good e -> DTE_SIZE e = field_size (dte_nameval e).
Proof.
  intros [Hn Hv Hb _ _]. unfold DTE_SIZE, ENTRY_COST, DYNAMIC_ENTRY_OVERHEAD, field_size, dte_nameval, DTE_NAME, DTE_VALUE.
  cbn [fst snd]. rewrite !length_take, length_drop. change (2 ^ 25) with 33554432 in *. rewrite u32_id by ulia. lia.
Qed.

Lemma fields_ext h h' l :
  (forall p, p ∈ l -> dte_nameval (entry_at h' p) = dte_nameval (entry_at h p)) ->
  fields h' l = fields h l.
Proof.
  intros H. unfold fields. apply list_fmap_ext. intros i p Hi. apply H. by apply list_elem_of_lookup_2 in Hi.
Qed.

Lemma heap_entry h next r own p : heap_ok h next r own -> 0 < r p ->
  exists e, h !! p = Some e /\ entry_at h p = e /\ entry_good e /\ dte_refcnt e = r p.
Proof.
  intros Hh Hp. destruct (ho_refs _ _ _ _ Hh p Hp) as (e & He & Hg & Hr).
  exists e. split; [done|]. split; [by apply entry_at_lookup|done].
Qed.

Lemma heap_ok_ext h next r r' own : (forall p, r' p = r p) -> heap_ok h next r own -> heap_ok h next r' own.
Proof. intros E [H1 H2 H3 H4]. constructor; try done; intros p; rewrite E; auto. Qed.

(** Replacing an entry by one with the strings of the old one. *)
Lemma heap_update h next r r' own p e e' :
  heap_ok h next r own -> h !! p = Some e -> 0 < r p -> 0 < r' p -> entry_good e' ->
  dte_refcnt e' = r' p -> dte_nameval e' = dte_nameval e -> (forall q, q <> p -> r' q = r q) ->
  heap_ok (<[p := e']> h) next r' own
  /\ forall q, dte_nameval (entry_at (<[p := e']> h) q) = dte_nameval (entry_at h q).
Proof.
  intros [H1 H2 H3 H4] He Hp Hp' Hg Hr Hnv Hq. split.
  - constructor; intros q.
    + destruct (decide (q = p)) as [->|Hne]; [rewrite lookup_insert_eq; eauto|].
      rewrite Hq, lookup_insert_ne by done. apply H1.
    + intros Ho. destruct (H2 q Ho) as [Hr0 Hs]. destruct (decide (q = p)) as [->|Hne]; [lia|].
      by rewrite Hq, lookup_insert_ne by done.
    + destruct (decide (q = p)) as [->|Hne]; [by left|].
      rewrite Hq, lookup_insert_ne by done. apply H3.
    + destruct (decide (q = p)) as [->|Hne]; [intros _; by apply H4; rewrite He|].
      rewrite lookup_insert_ne by done. apply H4.
  - intros q. unfold entry_at. destruct (decide (q = p)) as [->|Hne].
    + by rewrite lookup_insert_eq, He.
    + by rewrite lookup_insert_ne.
Qed.

Lemma good_refcnt n e : entry_good e -> entry_good (set_refcnt n e).
Proof. by intros []. Qed.

(** One reference less. *)
Lemma decref_heap t p r r' own :
  heap_ok (dt_heap t) (dt_next t) r own -> 0 < r p <= 2 ->
  (forall q, r' q = r q - Z.b2z (bool_decide (q = p))) ->
  exists h', qdec_decref_entry p t = Some (with_heap h' t) /\ heap_ok h' (dt_next t) r' own
    /\ forall q, 0 < r' q -> dte_nameval (entry_at h' q) = dte_nameval (entry_at (dt_heap t) q).
Proof.
  intros Hh Hp Hr'. destruct (ho_refs _ _ _ _ Hh p ltac:(lia)) as (e & He & Hg & Hr).
  pose proof (Hr' p) as Hpp. rewrite bool_decide_true in Hpp by done. cbn in Hpp.
  assert (forall q, q <> p -> r' q = r q) as Hq.
  { intros q Hne. rewrite Hr', bool_decide_false by done. cbn. lia. }
  unfold qdec_decref_entry, update_entry, free_entry. rewrite He. cbn [mbind option_bind].
  rewrite Hr, u32_id by ulia. destruct (Z.eqb_spec (r p - 1) 0) as [E|E].
  - exists (delete p (dt_heap t)). split; [done|]. split.
    + destruct Hh as [H1 H2 H3 H4]. constructor; intros q.
      * destruct (decide (q = p)) as [->|Hne]; [lia|]. rewrite Hq, lookup_delete_ne by done. apply H1.
      * intros Ho. destruct (H2 q Ho). destruct (decide (q = p)) as [->|Hne]; [lia|].
        by rewrite Hq, lookup_delete_ne by done.
      * destruct (decide (q = p)) as [->|Hne]; [rewrite lookup_delete_eq; by intros [? ?]|].
        rewrite Hq, lookup_delete_ne by done. apply H3.
      * intros Hs. apply H4. by apply lookup_delete_is_Some in Hs as [_ ?].
    + intros q Hq0. destruct (decide (q = p)) as [->|Hne]; [lia|]. unfold entry_at. by rewrite lookup_delete_ne.
  - destruct (heap_update (dt_heap t) (dt_next t) r r' own p e (set_refcnt (r p - 1) e)) as [H1 H2];
      [done|done|lia|lia|by apply good_refcnt|cbn; lia|done|done|].
    eexists. split; [reflexivity|]. split; [done|]. intros q _. apply H2.
Qed.

(** ** The table's operations *)

Lemma core_entry n t l held own p : tab_core n t l held own -> p ∈ l ->
  exists e, dt_heap t !! p = Some e /\ entry_at (dt_heap t) p = e /\ entry_good e
    /\ dte_refcnt e = refs l held p.
Proof.
  intros Hc Hp. exact (heap_entry _ _ _ _ p (tc_heap _ _ _ _ _ Hc) (refs_table _ _ _ Hp)).
Qed.

Lemma fields_size_count h l : 32 * Z.of_nat (length l) <= fields_size (fields h l).
Proof.
  induction l as [|p r IH]; [done|]. unfold fields in *. cbn [fmap list_fmap length fields_size].
  pose proof (field_size_pos (dte_nameval (entry_at h p))). unfold fmap in *. lia.
Qed.

Lemma core_length n t l held own : tab_core n t l held own -> 32 * Z.of_nat (length l) <= qpd_cur_capacity t.
Proof. intros Hc. rewrite (tc_size _ _ _ _ _ Hc). apply fields_size_count. Qed.

(** What evicting does not touch. *)
Definition settings (t : dec_table) : Z * Z * Z * Z * Z :=
  (qpd_max_capacity t, qpd_cur_max_capacity t, qpd_max_entries t, qpd_last_id t, dt_next t).

(** Dropping the oldest entry. *)
Lemma drop_oldest_core n t p l held own :
  tab_core n t (p :: l) held own ->
  exists t', qdec_drop_oldest_entry t = Some t' /\ tab_core n t' l held own
    /\ settings t' = settings t /\ fields (dt_heap t) (p :: l) = dte_nameval (entry_at (dt_heap t) p) :: fields (dt_heap t') l.
Proof.
  intros Hc. destruct (core_entry _ _ _ _ _ p Hc ltac:(left)) as (e & He & Hat & Hg & _).
  pose proof (tc_nodup _ _ _ _ _ Hc) as [Hpl Hnd]%NoDup_cons.
  pose proof (ringbuf_advance_tail_rep _ _ _ (tc_ring _ _ _ _ _ Hc)) as [Hp Hrep].
  unfold qdec_drop_oldest_entry. rewrite (surjective_pairing (ringbuf_advance_tail _)), Hp.
  cbn [mbind option_bind]. rewrite He. cbn [mbind option_bind].
  set (t1 := with_ring _ _ _ t).
  destruct (decref_heap t1 p (refs (p :: l) held) (refs l held) own) as (h' & -> & Hh & Hnv).
  - apply (tc_heap _ _ _ _ _ Hc).
  - pose proof (refs_table (p :: l) held p ltac:(left)) as Hpos.
    pose proof (refs_range (p :: l) held p). lia.
  - intros q. unfold refs. destruct (decide (q = p)) as [->|Hne].
    + rewrite !(bool_decide_true (p = p)), (bool_decide_true (p ∈ p :: l)) by (try left; done).
      rewrite (bool_decide_false (p ∈ l)) by done. cbn. lia.
    + rewrite (bool_decide_false (q = p)) by done.
      rewrite (bool_decide_ext (q ∈ p :: l) (q ∈ l)) by (rewrite elem_of_cons; tauto).
      cbn. lia.
  - assert (fields h' l = fields (dt_heap t) l) as Hf
      by (apply fields_ext; intros q Hq; by apply Hnv, refs_table).
    pose proof (field_size_pos (dte_nameval e)). pose proof (fields_size_nonneg (fields h' l)).
    destruct Hc as [_ Hn _ _ Hs Hsm Hcap Hmax Hent Hins Hlast]. cbn [length] in Hins.
    unfold fields in Hs at 1. cbn [fmap list_fmap fields_size] in Hs. fold (fields (dt_heap t) l) in Hs.
    rewrite Hat, <- Hf in Hs.
    eexists. split; [reflexivity|]. split; [|split; [done|cbn [with_heap dt_heap]; by rewrite Hf]].
    constructor; cbn [with_heap with_ring t1 dt_heap dt_next qpd_dyn_table qpd_cur_capacity
      qpd_cur_max_capacity qpd_max_capacity qpd_max_entries qpd_last_id]; try done; try lia;
      rewrite (dte_size_nameval e Hg), u32_id by ulia; lia.
Qed.

Lemma remove_overflow_core fuel n t l held own :
  tab_core n t l held own -> (length l <= fuel)%nat ->
  exists t' l', remove_overflow fuel t = Some t' /\ tab_rep n t' l' held own
    /\ settings t' = settings t
    /\ fields (dt_heap t') l' = dt_evict (qpd_cur_max_capacity t) (fields (dt_heap t) l)
    /\ exists dropped, l = dropped ++ l'.
Proof.
  revert t l. induction fuel as [|fuel IH]; intros t l Hc Hf; cbn [remove_overflow]; rewrite Z.gtb_ltb;
    (destruct (Z.ltb_spec (qpd_cur_max_capacity t) (qpd_cur_capacity t)) as [Ho|Ho];
     [|exists t, l; split_and!; [done|by constructor|done| |by exists []];
       rewrite dt_evict_all; [done|]; rewrite <- (tc_size _ _ _ _ _ Hc); lia]).
  - destruct l; [|cbn in Hf; lia]. pose proof (tc_size _ _ _ _ _ Hc) as Hs. pose proof (tc_cap _ _ _ _ _ Hc).
    cbn in Hs. lia.
  - pose proof (tc_size _ _ _ _ _ Hc) as Hs. pose proof (tc_cap _ _ _ _ _ Hc).
    destruct l as [|p l]; [cbn in Hs; lia|].
    destruct (drop_oldest_core n t p l held own Hc) as (t1 & -> & Hc1 & Hset & Hfl).
    cbn [mbind option_bind]. destruct (IH t1 l Hc1 ltac:(cbn in Hf; lia)) as (t' & l' & -> & Hr & Hset' & Hf' & d & ->).
    exists t', l'. split; [done|]. split; [done|]. split; [congruence|]. split.
    + rewrite Hfl. cbn [dt_evict]. rewrite Z.gtb_ltb, <- Hfl, <- Hs.
      destruct (Z.ltb_spec (qpd_cur_max_capacity t) (qpd_cur_capacity t)); [|lia].
      rewrite Hf'. f_equal. by injection Hset as _ -> _.
    + by exists (p :: d).
Qed.

Lemma remove_overflow_entries_core n t l held own :
  tab_core n t l held own ->
  exists t' l', qdec_remove_overflow_entries t = Some t' /\ tab_rep n t' l' held own
    /\ settings t' = settings t
    /\ fields (dt_heap t') l' = dt_evict (qpd_cur_max_capacity t) (fields (dt_heap t) l)
    /\ exists dropped, l = dropped ++ l'.
Proof.
  intros Hc. apply remove_overflow_core; [done|].
  rewrite (ringbuf_count_rep _ _ (tc_ring _ _ _ _ _ Hc)). lia.
Qed.

(** Set Dynamic Table Capacity. *)
Lemma update_max_capacity_rep n t l held own c :
  tab_rep n t l held own -> 0 <= c <= qpd_max_capacity t ->
  exists t' l', qdec_update_max_capacity c t = Some t' /\ tab_rep n t' l' held own
    /\ settings t' = settings (with_max_capacity c t)
    /\ dyn_of n t' l' = dt_set_capacity c (dyn_of n t l)
    /\ exists dropped, l = dropped ++ l'.
Proof.
  intros [Hc Hf] Hcap. unfold qdec_update_max_capacity.
  assert (tab_core n (with_max_capacity c t) l held own) as Hc' by (destruct Hc; by constructor).
  destruct (remove_overflow_entries_core _ _ _ _ _ Hc') as (t' & l' & -> & Hr & Hset & Hfl & Hd).
  exists t', l'. split; [done|]. split; [done|]. split; [done|]. split; [|done].
  unfold dyn_of, dt_set_capacity. cbn [dt_inserted dt_entries]. rewrite Hfl. f_equal. by injection Hset.
Qed.

Lemma rep_length n t l held own : tab_rep n t l held own -> Z.of_nat (length l) < 2 ^ 26.
Proof.
  intros [Hc Hf]. pose proof (core_length _ _ _ _ _ Hc). pose proof (tc_cap _ _ _ _ _ Hc).
  pose proof (tc_max _ _ _ _ _ Hc). change (2 ^ 31) with 2147483648 in *. lia.
Qed.

Lemma id_plus_1 M n : 0 < M < 2 ^ 27 -> 0 <= n -> ID_PLUS M ((n - 1) mod (2 * M)) 1 = (n + 1 - 1) mod (2 * M).
Proof.
  intros HM Hn. unfold ID_PLUS. destruct (Z.eqb_spec M 0); [lia|].
  change (2 ^ 27) with 134217728 in *. pose proof (Z.mod_pos_bound (n - 1) (2 * M)).
  rewrite (u32_id (2 * M)), u32_id by ulia. rewrite Zplus_mod_idemp_l. f_equal. lia.
Qed.

Lemma settings_next t t' : settings t' = settings t -> dt_next t' = dt_next t.
Proof. by intros [=]. Qed.

(** The table with the new entry, before anything is evicted. *)
Lemma pushed_core n t l held p e ring :
  tab_rep n t l held (Some p) -> dt_heap t !! p = Some e -> entry_good e -> dte_refcnt e = 1 ->
  rb_rep ring (l ++ [p]) -> rb_nalloc ring <= 2 ^ 28 ->
  tab_core (n + 1) (with_ring ring (u32 (qpd_cur_capacity t + DTE_SIZE e))
                      (ID_PLUS (qpd_max_entries t) (qpd_last_id t) 1) t) (l ++ [p]) held None.
Proof.
  intros [Hc Hf] He Hg Hr Hrep Hnal. destruct Hc as [_ _ Hnd Hh Hs Hsm Hcap Hmax Hent Hins Hlast].
  destruct (ho_own _ _ _ _ Hh p eq_refl) as [Hp0 _]. pose proof (proj1 (refs_zero l held p) Hp0) as [Hpl Hph].
  assert (forall q, refs (l ++ [p]) held q = refs l held q + Z.b2z (bool_decide (q = p))) as Hrefs.
  { intros q. unfold refs. destruct (decide (q = p)) as [->|Hne].
    - rewrite (bool_decide_true (p ∈ l ++ [p])) by (apply elem_of_app; right; left).
      rewrite (bool_decide_false (p ∈ l)), (bool_decide_true (p = p)) by done. cbn. lia.
    - rewrite (bool_decide_ext (q ∈ l ++ [p]) (q ∈ l)) by (rewrite elem_of_app, list_elem_of_singleton; tauto).
      rewrite (bool_decide_false (q = p)) by done. cbn. lia. }
  pose proof (dte_size_nameval e Hg) as Hsz.
  assert (32 <= DTE_SIZE e < 2 ^ 27).
  { destruct Hg as [? ? _ _ _]. unfold DTE_SIZE, ENTRY_COST, DYNAMIC_ENTRY_OVERHEAD.
    change (2 ^ 25) with 33554432 in *. change (2 ^ 27) with 134217728. rewrite u32_id by ulia. lia. }
  pose proof (fields_size_nonneg (fields (dt_heap t) l)).
  change (2 ^ 27) with 134217728 in *. change (2 ^ 31) with 2147483648 in *.
  constructor; cbn [with_ring dt_heap dt_next qpd_dyn_table qpd_cur_capacity qpd_cur_max_capacity
    qpd_max_capacity qpd_max_entries qpd_last_id]; try done.
  - apply NoDup_app. split; [done|]. split; [|apply NoDup_singleton].
    intros q Hq. rewrite list_elem_of_singleton. by intros ->.
  - destruct Hh as [H1 H2 H3 H4]. constructor; try done; intros q.
    + rewrite Hrefs. destruct (decide (q = p)) as [->|Hne].
      * intros _. exists e. rewrite bool_decide_true by done. cbn. split; [done|]. split; [done|lia].
      * rewrite bool_decide_false by done. cbn. rewrite Z.add_0_r. apply H1.
    + rewrite Hrefs. intros Hq. left. pose proof (refs_range l held q).
      destruct (H3 q Hq) as [?|[= ->]]; [destruct (bool_decide _); cbn; lia|].
      rewrite bool_decide_true by done. cbn. lia.
  - unfold fields. rewrite fmap_app, fields_size_app. cbn [fmap list_fmap fields_size].
    fold (fields (dt_heap t) l). rewrite (entry_at_lookup _ _ _ He), <- Hsz, <- Hs, u32_id by ulia. lia.
  - rewrite u32_id by ulia. lia.
  - rewrite length_app. cbn [length]. lia.
  - intros HM. rewrite Hlast by done. apply id_plus_1; [|lia]. rewrite Hent. change (2 ^ 27) with 134217728. dlia.
Qed.

(** [lsqpack_dec_push_entry], the table's part. *)
Lemma push_entry_rep ok n t l held p e :
  tab_rep n t l held (Some p) -> dt_heap t !! p = Some e -> entry_good e -> dte_refcnt e = 1 ->
  match push_entry ok p t with
  | Some (true, t') => exists l', tab_rep (n + 1) t' l' held None
      /\ dyn_of (n + 1) t' l' = dec_insert (dte_nameval e) (dyn_of n t l)
      /\ qpd_max_capacity t' = qpd_max_capacity t
  | Some (false, t') => ok = false /\ t' = t
  | None => False
  end.
Proof.
  intros Hrep He Hg Hr1. destruct Hrep as [Hc Hf]. unfold push_entry.
  pose proof (rep_length _ _ _ _ _ {| tr_core := Hc; tr_fits := Hf |}) as Hlen.
  pose proof (ringbuf_add_rep ok _ _ p (tc_ring _ _ _ _ _ Hc)) as Hadd.
  pose proof (ringbuf_add_nalloc ok _ _ p (2 ^ 28) (tc_ring _ _ _ _ _ Hc)) as Hnal.
  pose proof (tc_nalloc _ _ _ _ _ Hc). change (2 ^ 26) with 67108864 in *. change (2 ^ 28) with 268435456 in *.
  change (2 ^ 30) with 1073741824 in *.
  specialize (Hadd ltac:(lia)). specialize (Hnal ltac:(lia) ltac:(lia) ltac:(lia)).
  destruct (ringbuf_add ok (qpd_dyn_table t) p) as [[] ring]; cbn [snd] in Hnal.
  - rewrite He. cbn [mbind option_bind].
    destruct (remove_overflow_entries_core _ _ _ _ _ (pushed_core n t l held p e ring {| tr_core := Hc; tr_fits := Hf |} He Hg Hr1 Hadd Hnal))
      as (t' & l' & -> & Hrep' & Hset & Hfl & _). cbn [mbind option_bind].
    exists l'. split; [done|]. split; [|by injection Hset].
    unfold dyn_of, dec_insert. cbn [dt_inserted dt_capacity dt_entries].
    rewrite Hfl. cbn [with_ring qpd_cur_max_capacity dt_heap]. f_equal; [by injection Hset|].
    f_equal. unfold fields. rewrite fmap_app. cbn [fmap list_fmap]. by rewrite (entry_at_lookup _ _ _ He).
  - destruct Hadd as (-> & _ & ->). split; [done|]. by destruct t.
Qed.

(** ** Looking up *)

Lemma fields_lookup h l i p : l !! i = Some p -> fields h l !! i = Some (dte_nameval (entry_at h p)).
Proof. intros H. unfold fields. by rewrite list_lookup_fmap, H. Qed.

Lemma get_entry_rel n t l held own r :
  tab_rep n t l held own -> 0 <= r < 2 ^ 32 - 1 ->
  match qdec_get_table_entry_rel t r with
  | Some p => p ∈ l /\ dt_get (dyn_of n t l) (n - r) = Some (dte_nameval (entry_at (dt_heap t) p))
  | None => dt_get (dyn_of n t l) (n - r) = None
  end.
Proof.
  intros [Hc Hf] Hr. pose proof (tc_ring _ _ _ _ _ Hc) as Hring. change (2 ^ 32) with 4294967296 in *.
  unfold qdec_get_table_entry_rel. rewrite (ringbuf_count_rep _ _ Hring), u32_id by ulia. rewrite Z.geb_leb.
  unfold dt_get, dt_oldest. cbn [dyn_of dt_inserted dt_entries].
  assert (length (fields (dt_heap t) l) = length l) as Hlen by (unfold fields; by rewrite length_fmap).
  destruct (Z.leb_spec (r + 1) (Z.of_nat (length l))).
  - rewrite (ringbuf_get_head_rep _ l) by (done || lia). rewrite Hlen.
    destruct (lookup_lt_is_Some_2 l (length l - Z.to_nat (r + 1))) as [p Hp]; [lia|]. rewrite Hp.
    split; [by apply list_elem_of_lookup_2 in Hp|].
    destruct (Z.leb_spec (n - Z.of_nat (length l) + 1) (n - r)), (Z.leb_spec (n - r) n); try lia. cbn [andb].
    replace (Z.to_nat _) with (length l - Z.to_nat (r + 1))%nat by lia. by apply fields_lookup.
  - rewrite Hlen. destruct (Z.leb_spec (n - Z.of_nat (length l) + 1) (n - r)); [lia|done].
Qed.

Lemma id_minus_mod M a b :
  0 < M < 2 ^ 27 -> - (2 * M) <= a - b < 2 ^ 31 ->
  ID_MINUS M a b = (a - b) mod (2 * M).
Proof.
  intros HM Hab. unfold ID_MINUS. destruct (Z.eqb_spec M 0); [lia|].
  change (2 ^ 27) with 134217728 in *. change (2 ^ 31) with 2147483648 in *.
  rewrite (u32_id (2 * M)), u32_id by ulia.
  replace (a + 2 * M - b) with (a - b + 1 * (2 * M)) by lia. by rewrite Z_mod_plus_full.
Qed.

(** An id is looked up modulo twice the number of entries. *)
Lemma get_entry_abs n t l held own id :
  tab_rep n t l held own -> 0 < qpd_max_entries t -> n - 2 * qpd_max_entries t < id <= n ->
  match qdec_get_table_entry_abs t ((id - 1) mod (2 * qpd_max_entries t)) with
  | Some p => p ∈ l /\ dt_get (dyn_of n t l) id = Some (dte_nameval (entry_at (dt_heap t) p))
  | None => dt_get (dyn_of n t l) id = None
  end.
Proof.
  intros Hrep HM Hid. unfold qdec_get_table_entry_abs. pose proof Hrep as [Hc _].
  rewrite (tc_last _ _ _ _ _ Hc HM). set (M := qpd_max_entries t) in *.
  assert (M < 2 ^ 27) as HM27.
  { unfold M. rewrite (tc_entries _ _ _ _ _ Hc). pose proof (tc_max _ _ _ _ _ Hc).
    change (2 ^ 31) with 2147483648 in *. change (2 ^ 27) with 134217728. dlia. }
  pose proof (Z.mod_pos_bound (n - 1) (2 * M) ltac:(lia)). pose proof (Z.mod_pos_bound (id - 1) (2 * M) ltac:(lia)).
  rewrite id_minus_mod by (change (2 ^ 27) with 134217728 in *; change (2 ^ 31) with 2147483648; lia).
  rewrite <- Zminus_mod. replace (n - 1 - (id - 1)) with (n - id) by lia. rewrite Z.mod_small by lia.
  pose proof (get_entry_rel n t l held own (n - id) Hrep) as H1.
  replace (n - (n - id)) with id in H1 by lia. apply H1. change (2 ^ 27) with 134217728 in *.
  change (2 ^ 32) with 4294967296. lia.
Qed.

(** ** References from outside the table *)

(** Two tables that look the same from the table and through references. *)
Definition same_view (t t' : dec_table) (l : list Z) (held : option Z) : Prop :=
  (forall q, 0 < refs l held q ->
     dte_nameval (entry_at (dt_heap t') q) = dte_nameval (entry_at (dt_heap t) q))
  /\ qpd_max_capacity t' = qpd_max_capacity t /\ qpd_cur_max_capacity t' = qpd_cur_max_capacity t
  /\ qpd_last_id t' = qpd_last_id t /\ qpd_max_entries t' = qpd_max_entries t.

Lemma same_view_fields t t' l held : same_view t t' l held -> fields (dt_heap t') l = fields (dt_heap t) l.
Proof. intros [H _]. apply fields_ext. intros q Hq. by apply H, refs_table. Qed.

Lemma same_view_dyn n t t' l held : same_view t t' l held -> dyn_of n t' l = dyn_of n t l.
Proof. intros H. unfold dyn_of. rewrite (same_view_fields _ _ _ _ H). by destruct H as (_ & _ & -> & _). Qed.

(** A change of the heap and of the references from outside. *)
Lemma heap_change n t l held own h next held' own' :
  tab_rep n t l held own -> heap_ok h next (refs l held') own' ->
  (forall q, q ∈ l -> dte_nameval (entry_at h q) = dte_nameval (entry_at (dt_heap t) q)) ->
  tab_rep n {| dt_heap := h; dt_next := next; qpd_dyn_table := qpd_dyn_table t;
     qpd_max_capacity := qpd_max_capacity t; qpd_cur_max_capacity := qpd_cur_max_capacity t;
     qpd_cur_capacity := qpd_cur_capacity t; qpd_max_entries := qpd_max_entries t;
     qpd_last_id := qpd_last_id t |} l held' own'.
Proof.
  intros [Hc Hf] Hh Hnv. pose proof (fields_ext _ _ _ Hnv) as Hfl.
  destruct Hc. constructor; [|done]. constructor; cbn; try done. by rewrite Hfl.
Qed.

Lemma incref_rep n t l own p :
  tab_rep n t l None own -> p ∈ l ->
  exists t', incref_entry p t = Some t' /\ tab_rep n t' l (Some p) own /\ same_view t t' l (Some p).
Proof.
  intros Hrep Hp. pose proof (tc_heap _ _ _ _ _ (tr_core _ _ _ _ _ Hrep)) as Hh.
  destruct (heap_entry _ _ _ _ p Hh (refs_table _ _ _ Hp)) as (e & He & _ & Hg & Hr).
  pose proof (refs_range l None p).
  assert (forall q, refs l (Some p) q = refs l None q + Z.b2z (bool_decide (q = p))) as Hrefs.
  { intros q. unfold refs. rewrite (bool_decide_false (None = Some q)) by done.
    rewrite (bool_decide_ext (Some p = Some q) (q = p)) by (split; congruence). cbn. lia. }
  unfold incref_entry, update_entry. rewrite He.
  destruct (heap_update _ _ _ (refs l (Some p)) own p e (set_refcnt (u32 (dte_refcnt e + 1)) e) Hh He)
    as [Hh' Hnv]; [by apply refs_table|by apply refs_table|by apply good_refcnt| |done| |].
  - cbn. rewrite Hrefs, Hr, bool_decide_true, u32_id by (done || ulia). cbn. lia.
  - intros q Hne. rewrite Hrefs, bool_decide_false by done. cbn. lia.
  - eexists. split; [reflexivity|]. split; [|by split].
    apply (heap_change n t l None own _ (dt_next t)); [done..|]. intros q _. apply Hnv.
Qed.

Lemma decref_held_rep n t l own p :
  tab_rep n t l (Some p) own ->
  exists t', qdec_decref_entry p t = Some t' /\ tab_rep n t' l None own /\ same_view t t' l None
    /\ forall q, own = Some q -> dt_heap t' !! q = dt_heap t !! q.
Proof.
  intros Hrep. pose proof (tc_heap _ _ _ _ _ (tr_core _ _ _ _ _ Hrep)) as Hh.
  destruct (decref_heap t p (refs l (Some p)) (refs l None) own) as (h' & E & Hh' & Hnv); [done| | |].
  - pose proof (refs_range l (Some p) p). pose proof (refs_held l p). lia.
  - intros q. unfold refs. rewrite (bool_decide_false (None = Some q)) by done.
    rewrite (bool_decide_ext (Some p = Some q) (q = p)) by (split; congruence). cbn. lia.
  - exists (with_heap h' t). split; [done|]. split; [|split; [by split|]].
    + apply (heap_change n t l (Some p) own _ (dt_next t)); [done..|]. intros q Hq. by apply Hnv, refs_table.
    + intros q ->. destruct (ho_own _ _ _ _ Hh q eq_refl) as [H0 _].
      assert (q <> p) by (intros ->; pose proof (refs_held l p); lia).
      revert E. unfold qdec_decref_entry, free_entry, update_entry. destruct (dt_heap t !! p) as [e|]; [|done].
      cbn [mbind option_bind]. destruct (_ =? 0); intros [= <-]; cbn [with_heap dt_heap];
        [by rewrite lookup_delete_ne|by rewrite lookup_insert_ne].
Qed.

(** ** The block under construction *)

Lemma alloc_rep n t l held e :
  tab_rep n t l held None ->
  tab_rep n (snd (alloc_entry e t)) l held (Some (dt_next t))
  /\ same_view t (snd (alloc_entry e t)) l held
  /\ dt_heap (snd (alloc_entry e t)) !! dt_next t = Some e.
Proof.
  intros Hrep. pose proof (tc_heap _ _ _ _ _ (tr_core _ _ _ _ _ Hrep)) as Hh. pose proof Hh as [H1 H2 H3 H4].
  assert (dt_heap t !! dt_next t = None) as Hnew.
  { destruct (dt_heap t !! dt_next t) eqn:E; [|done]. pose proof (H4 _ (mk_is_Some _ _ E)). lia. }
  assert (refs l held (dt_next t) = 0) as H0.
  { pose proof (refs_range l held (dt_next t)). destruct (Z.eq_dec (refs l held (dt_next t)) 0); [done|].
    destruct (H1 (dt_next t) ltac:(lia)) as (x & Hx & _). congruence. }
  assert (forall q, 0 < refs l held q -> dte_nameval (entry_at (<[dt_next t := e]> (dt_heap t)) q)
            = dte_nameval (entry_at (dt_heap t) q)) as Hnv.
  { intros q Hq. unfold entry_at. destruct (decide (q = dt_next t)) as [->|]; [lia|]. by rewrite lookup_insert_ne. }
  split; [|split; [by split|by apply lookup_insert_eq]].
  apply (heap_change n t l held None _ (dt_next t + 1)); [done| |].
  - constructor; intros q.
    + destruct (decide (q = dt_next t)) as [->|]; [lia|]. rewrite lookup_insert_ne by done. apply H1.
    + intros [= <-]. split; [done|]. by rewrite lookup_insert_eq.
    + destruct (decide (q = dt_next t)) as [->|Hq]; [by right|]. rewrite lookup_insert_ne by done.
      intros Hs. destruct (H3 q Hs); [by left|done].
    + destruct (decide (q = dt_next t)) as [->|Hq]; [lia|]. rewrite lookup_insert_ne by done.
      intros Hs. specialize (H4 q Hs). lia.
  - intros q Hq. by apply Hnv, refs_table.
Qed.

Lemma own_update_rep n t l held p e f :
  tab_rep n t l held (Some p) -> dt_heap t !! p = Some e ->
  exists t', update_entry p f t = Some t' /\ tab_rep n t' l held (Some p) /\ same_view t t' l held
    /\ dt_heap t' !! p = Some (f e).
Proof.
  intros Hrep He. pose proof (tc_heap _ _ _ _ _ (tr_core _ _ _ _ _ Hrep)) as Hh. pose proof Hh as [H1 H2 H3 H4].
  destruct (H2 p eq_refl) as [H0 _].
  assert (forall q, 0 < refs l held q -> entry_at (<[p := f e]> (dt_heap t)) q = entry_at (dt_heap t) q) as Hat.
  { intros q Hq. unfold entry_at. destruct (decide (q = p)) as [->|]; [lia|]. by rewrite lookup_insert_ne. }
  unfold update_entry. rewrite He. eexists. split; [reflexivity|].
  split; [|split; [split; [|done]; cbn; intros q Hq; by rewrite Hat|by apply lookup_insert_eq]].
  apply (heap_change n t l held (Some p) _ (dt_next t)); [done| |].
  - constructor; intros q.
    + intros Hq. destruct (decide (q = p)) as [->|]; [lia|]. rewrite lookup_insert_ne by done. by apply H1.
    + intros [= <-]. split; [done|]. by rewrite lookup_insert_eq.
    + destruct (decide (q = p)) as [->|Hq]; [by right|]. rewrite lookup_insert_ne by done. apply H3.
    + destruct (decide (q = p)) as [->|Hq]; [intros _; by apply H4|]. rewrite lookup_insert_ne by done. apply H4.
  - intros q Hq. by rewrite Hat by (by apply refs_table).
Qed.

Lemma own_free_rep n t l held p e :
  tab_rep n t l held (Some p) -> dt_heap t !! p = Some e -> dte_refcnt e = 1 ->
  exists t', qdec_decref_entry p t = Some t' /\ tab_rep n t' l held None /\ same_view t t' l held.
Proof.
  intros Hrep He Hr1. pose proof (tc_heap _ _ _ _ _ (tr_core _ _ _ _ _ Hrep)) as Hh. pose proof Hh as [H1 H2 H3 H4].
  destruct (H2 p eq_refl) as [H0 _].
  assert (forall q, 0 < refs l held q -> entry_at (delete p (dt_heap t)) q = entry_at (dt_heap t) q) as Hat.
  { intros q Hq. unfold entry_at. destruct (decide (q = p)) as [->|]; [lia|]. by rewrite lookup_delete_ne. }
  unfold qdec_decref_entry, free_entry. rewrite He. cbn [mbind option_bind]. rewrite Hr1. cbn.
  eexists. split; [reflexivity|]. split; [|split; [|done]; cbn; intros q Hq; by rewrite Hat].
  apply (heap_change n t l held (Some p) _ (dt_next t)); [done| |].
  - constructor; intros q; [|done| |].
    + intros Hq. destruct (decide (q = p)) as [->|]; [lia|]. rewrite lookup_delete_ne by done. by apply H1.
    + intros Hs. apply lookup_delete_is_Some in Hs as [Hne Hs]. destruct (H3 q Hs) as [?|[= ->]]; [by left|done].
    + intros Hs. apply lookup_delete_is_Some in Hs as [Hne Hs]. by apply H4.
  - intros q Hq. by rewrite Hat by (by apply refs_table).
Qed.

(** ** The hash caches *)

Lemma hash_name_good opts e : entry_good e ->
  entry_good (hash_name_of opts e) /\ dte_nameval (hash_name_of opts e) = dte_nameval e
  /\ dte_refcnt (hash_name_of opts e) = dte_refcnt e
  /\ (has_bits opts (Z.lor LSQPACK_DEC_OPT_HASH_NAME LSQPACK_DEC_OPT_HASH_NAMEVAL) = true ->
      has_bits (dte_flags (hash_name_of opts e)) DTEF_NAME_HASH = true).
Proof.
  intros Hg. unfold hash_name_of. destruct (has_bits opts _) eqn:Ho; [|done]. cbn [andb].
  destruct (has_bits (dte_flags e) DTEF_NAME_HASH) eqn:Hf; cbn [negb]; [done|].
  split_and!; [|done..|intros _; by apply has_bits_lor_self].
  destruct Hg as [? ? ? ? (Hn & Hv & Hi)]. constructor; try done. unfold hashes_ok. cbn [set_hashes dte_flags dte_name_hash dte_nameval_hash dte_name_idx].
  split; [done|]. rewrite (has_bits_set _ _ DTEF_NAMEVAL_HASH), (has_bits_set _ _ DTEF_NAME_IDX) by done. split; [|exact Hi].
  intros Hx. destruct (Hv Hx). congruence.
Qed.

Lemma hash_nameval_good opts e : entry_good e ->
  (has_bits opts LSQPACK_DEC_OPT_HASH_NAMEVAL = true -> has_bits (dte_flags e) DTEF_NAME_HASH = true) ->
  exists e', hash_nameval_of opts e = Some e' /\ entry_good e' /\ dte_nameval e' = dte_nameval e
    /\ dte_refcnt e' = dte_refcnt e.
Proof.
  intros Hg Hn. unfold hash_nameval_of. destruct (has_bits opts _) eqn:Ho; [|by exists e]. cbn [andb].
  destruct (has_bits (dte_flags e) DTEF_NAMEVAL_HASH) eqn:Hf; cbn [negb]; [by exists e|].
  rewrite (Hn eq_refl). eexists. split_and!; [reflexivity| |done..].
  destruct Hg as [? ? ? ? (Hh & Hv & Hi)]. constructor; try done. unfold hashes_ok. cbn [set_hashes dte_flags dte_name_hash dte_nameval_hash dte_name_idx].
  rewrite (has_bits_set _ _ DTEF_NAME_HASH), (has_bits_set _ _ DTEF_NAME_IDX) by done. split; [exact Hh|]. split; [|exact Hi].
  intros _. split; [by apply Hn|done].
Qed.

Lemma update_hashes_rep opts n t l held own p :
  tab_rep n t l held own -> 0 < refs l held p ->
  exists t', qdec_maybe_update_entry_hashes opts p t = Some t' /\ tab_rep n t' l held own
    /\ same_view t t' l held /\ forall q, own = Some q -> dt_heap t' !! q = dt_heap t !! q.
Proof.
  intros Hrep Hp. pose proof (tc_heap _ _ _ _ _ (tr_core _ _ _ _ _ Hrep)) as Hh.
  destruct (heap_entry _ _ _ _ p Hh Hp) as (e & He & _ & Hg & Hr).
  unfold qdec_maybe_update_entry_hashes. rewrite He. cbn [mbind option_bind].
  destruct (hash_name_good opts e Hg) as (Hg1 & Hnv1 & Hr1 & Hf).
  destruct (hash_nameval_good opts _ Hg1) as (e' & -> & Hg2 & Hnv2 & Hr2).
  { intros Ho. apply Hf. by rewrite has_bits_lor, Ho, orb_true_r. }
  cbn [mbind option_bind]. eexists. split; [reflexivity|].
  destruct (heap_update _ _ _ (refs l held) own p e e' Hh He) as [Hh' Hnv]; [done|done|done|congruence|congruence|done|].
  split; [|split; [by split|]].
  - apply (heap_change n t l held own _ (dt_next t)); [done..|]. intros q _. apply Hnv.
  - intros q Hq. destruct (ho_own _ _ _ _ Hh q Hq) as [H0 _]. cbn. rewrite lookup_insert_ne; [done|]. intros ->. lia.
Qed.
