(* ===== verification/DecState.v ===== *)
(** * The decoder's state

    [struct lsqpack_dec] of src/lsqpack.h and [struct header_block_read_ctx] of
    src/lsqpack.c, with [lsqpack_dec_init], the lists of header blocks being read
    ([qdec_insert_header_block], [stash_blocked_header],
    [destroy_header_block_read_ctx], [find_header_block_read_ctx],
    [qdec_process_blocked_headers]) and the interface [struct lsqpack_dec_hset_if]
    through which the decoder gives the application what it decoded.

    Where the code keeps a state number beside a union, the model has an inductive
    type whose constructors are named after the state numbers and carry the members
    that are in use then. *)

From stdpp Require Import gmap.
From S2P Require Import Prelude Monad IntCodec HuffTables Huffman StrCodec Xxhash StaticTable.
From S2P Require Import Ringbuf Rfc9204 EncTable Float DecTable.

(** ** The application *)

(** [struct lsxpack_header] as the decoder sees it: a buffer and offsets. *)
Record dec_header := {
  dh_buf : bytes;
  dh_name_hash : Z;
  dh_nameval_hash : Z;
  dh_name_offset : Z;
  dh_val_offset : Z;
  dh_name_len : Z;
  dh_val_len : Z;
  dh_qpack_index : Z;
  dh_flags : Z;
  dh_dec_overhead : Z;
}.

(** [struct lsqpack_dec_hset_if].  [hset] is the application's state; a header
    block context is a number.  A header is passed by value: between
    [dhi_prepare_decode] and [dhi_process_header] only the decoder changes it. *)
Class HsetIf (hset : Type) := {
  dhi_unblocked : Z -> hset -> hset;
  dhi_prepare_decode : Z -> option dec_header -> Z -> hset -> option dec_header * hset;
  dhi_process_header : Z -> dec_header -> hset -> Z * hset;
}.

(** ** Reading the encoder stream *)

(** [WINR.name]: where the name is. *)
Inductive name_ptr := NameStatic (idx : Z) | NameEntry (p : Z).

(** [ctx_u.with_namref] once the index is read. *)
Record winr := {
  wr_is_static : bool;
  wr_name_idx : Z;
  wr_reffed_entry : option Z;
}.

(** The same while the value is read. *)
Record winr_val := {
  wv_is_static : bool;
  wv_name_idx : Z;
  wv_reffed_entry : option Z;
  wv_entry : option Z;
  wv_name : name_ptr;
  wv_name_len : Z;
  wv_val_len : Z;
  wv_alloced_val_len : Z;
  wv_val_off : Z;
  wv_nread : Z;
}.

(** [ctx_u.wo_namref] while a string is read. *)
Record wonr := {
  wo_entry : option Z;
  wo_alloced_len : Z;
  wo_str_len : Z;
  wo_str_off : Z;
  wo_nread : Z;
}.

(** [qpd_enc_state]: the state numbers DEI_* with the union [ctx_u]. *)
Inductive dei_state :=
  | DEI_NEXT_INST
  | DEI_WINR_READ_NAME_IDX (is_static : bool) (st : dec_int_state)
  | DEI_WINR_BEGIN_READ_VAL_LEN (w : winr)
  | DEI_WINR_READ_VAL_LEN (w : winr) (is_huffman : bool) (st : dec_int_state)
  | DEI_WINR_READ_VALUE_PLAIN (w : winr_val)
  | DEI_WINR_READ_VALUE_HUFFMAN (w : winr_val) (st : huff_decode_state)
  | DEI_DUP_READ_IDX (st : dec_int_state)
  | DEI_SIZE_UPD_READ_IDX (st : dec_int_state)
  | DEI_WONR_READ_NAME_LEN (is_huffman : bool) (st : dec_int_state)
  | DEI_WONR_READ_NAME_HUFFMAN (w : wonr) (st : huff_decode_state)
  | DEI_WONR_READ_NAME_PLAIN (w : wonr)
  | DEI_WONR_BEGIN_READ_VAL_LEN (entry : option Z) (alloced_len : Z)
  | DEI_WONR_READ_VAL_LEN (entry : option Z) (alloced_len : Z) (is_huffman : bool)
      (st : dec_int_state)
  | DEI_WONR_READ_VALUE_HUFFMAN (w : wonr) (st : huff_decode_state)
  | DEI_WONR_READ_VALUE_PLAIN (w : wonr).

(** ** Reading header blocks *)

Inductive xout_state := XOUT_NAME | XOUT_VALUE.

(** [hbrc_out] *)
Record hbrc_out_t := {
  out_xhdr : option dec_header;
  out_state : xout_state;
  out_off : Z;
}.

(** [hbrc_parse_ctx_u.prefix] *)
Inductive prefix_state :=
  | PREFIX_STATE_BEGIN_READING_LARGEST_REF
  | PREFIX_STATE_READ_LARGEST_REF (st : dec_int_state)
  | PREFIX_STATE_BEGIN_READING_BASE_IDX
  | PREFIX_STATE_READ_DELTA_BASE_IDX (sign : bool) (st : dec_int_state).

(** [hbrc_parse_ctx_u.data].  [left] is what is left of a string. *)
Inductive data_state :=
  | DATA_STATE_NEXT_INSTRUCTION
  | DATA_STATE_READ_IHF_IDX (is_static : bool) (st : dec_int_state)
  | DATA_STATE_READ_IPBI_IDX (st : dec_int_state)
  | DATA_STATE_READ_LFINR_IDX (is_static is_never : bool) (st : dec_int_state)
  | DATA_STATE_BEGIN_READ_VAL_LEN
  | DATA_STATE_READ_VAL_LEN (is_huffman : bool) (st : dec_int_state)
  | DATA_STATE_READ_VAL_HUFFMAN (left : Z) (st : huff_decode_state)
  | DATA_STATE_READ_VAL_PLAIN (left : Z)
  | DATA_STATE_READ_LFONR_NAME_LEN (is_never is_huffman : bool) (st : dec_int_state)
  | DATA_STATE_READ_NAME_HUFFMAN (left : Z) (st : huff_decode_state)
  | DATA_STATE_READ_NAME_PLAIN (left : Z)
  | DATA_STATE_READ_LFPBNR_IDX (is_never : bool) (st : dec_int_state).

(** [hbrc_parse] with [hbrc_parse_ctx_u]: which of the two parsers is next, and
    its state. *)
Inductive parse_state := PARSE_PREFIX (st : prefix_state) | PARSE_DATA (st : data_state).

(** [struct header_block_read_ctx], less [hbrc_buf]: that is only used during one
    call and is an argument of the functions here. *)
Record header_block_read_ctx := {
  hbrc_hblock : Z;
  hbrc_stream_id : Z;
  hbrc_orig_size : Z;
  hbrc_size : Z;
  hbrc_largest_ref : Z;
  hbrc_base_index : Z;
  hbrc_header_count : Z;
  hbrc_out : hbrc_out_t;
  hbrc_parse : parse_state;
  hbrc_flags : Z;
}.

Definition HBRC_LARGEST_REF_READ : Z := 1.
Definition HBRC_LARGEST_REF_SET : Z := 2.
Definition HBRC_BLOCKED : Z := 4.
Definition HBRC_DINST : Z := 8.
Definition HBRC_ON_LIST : Z := 16.
Definition LARGEST_USED_SHIFT : Z := 5.
Definition HBRC_LARGEST_REF_USED : Z := 32.
Definition HBRC_DYN_USED_IN_ERR : Z := 64.

Definition set_hbrc_flags (flags : Z) (c : header_block_read_ctx) : header_block_read_ctx :=
  {| hbrc_hblock := hbrc_hblock c; hbrc_stream_id := hbrc_stream_id c;
     hbrc_orig_size := hbrc_orig_size c; hbrc_size := hbrc_size c;
     hbrc_largest_ref := hbrc_largest_ref c; hbrc_base_index := hbrc_base_index c;
     hbrc_header_count := hbrc_header_count c; hbrc_out := hbrc_out c;
     hbrc_parse := hbrc_parse c; hbrc_flags := flags |}.

Definition set_hbrc_parse (st : parse_state) (c : header_block_read_ctx) : header_block_read_ctx :=
  {| hbrc_hblock := hbrc_hblock c; hbrc_stream_id := hbrc_stream_id c;
     hbrc_orig_size := hbrc_orig_size c; hbrc_size := hbrc_size c;
     hbrc_largest_ref := hbrc_largest_ref c; hbrc_base_index := hbrc_base_index c;
     hbrc_header_count := hbrc_header_count c; hbrc_out := hbrc_out c;
     hbrc_parse := st; hbrc_flags := hbrc_flags c |}.

Definition set_hbrc_out (out : hbrc_out_t) (count : Z) (c : header_block_read_ctx)
  : header_block_read_ctx :=
  {| hbrc_hblock := hbrc_hblock c; hbrc_stream_id := hbrc_stream_id c;
     hbrc_orig_size := hbrc_orig_size c; hbrc_size := hbrc_size c;
     hbrc_largest_ref := hbrc_largest_ref c; hbrc_base_index := hbrc_base_index c;
     hbrc_header_count := count; hbrc_out := out;
     hbrc_parse := hbrc_parse c; hbrc_flags := hbrc_flags c |}.

Definition set_hbrc_size (size : Z) (c : header_block_read_ctx) : header_block_read_ctx :=
  {| hbrc_hblock := hbrc_hblock c; hbrc_stream_id := hbrc_stream_id c;
     hbrc_orig_size := hbrc_orig_size c; hbrc_size := size;
     hbrc_largest_ref := hbrc_largest_ref c; hbrc_base_index := hbrc_base_index c;
     hbrc_header_count := hbrc_header_count c; hbrc_out := hbrc_out c;
     hbrc_parse := hbrc_parse c; hbrc_flags := hbrc_flags c |}.

Definition set_hbrc_refs (largest_ref base_index : Z) (c : header_block_read_ctx)
  : header_block_read_ctx :=
  {| hbrc_hblock := hbrc_hblock c; hbrc_stream_id := hbrc_stream_id c;
     hbrc_orig_size := hbrc_orig_size c; hbrc_size := hbrc_size c;
     hbrc_largest_ref := largest_ref; hbrc_base_index := base_index;
     hbrc_header_count := hbrc_header_count c; hbrc_out := hbrc_out c;
     hbrc_parse := hbrc_parse c; hbrc_flags := hbrc_flags c |}.

(** [hbrc_out] with every byte zero. *)
Definition no_out : hbrc_out_t := {| out_xhdr := None; out_state := XOUT_NAME; out_off := 0 |}.

(** The contexts that outlive a call: a store from addresses to contexts, an address
    never used before, the list [qpd_hbrcs], the small hash [qpd_blocked_headers] and
    the number of blocks in it. *)
Record read_ctxs := {
  cx_mem : gmap Z header_block_read_ctx;
  cx_next : Z;
  qpd_hbrcs : list Z;
  qpd_blocked_headers : list (list Z);
  qpd_n_blocked : Z;
}.

Definition LSQPACK_DEC_BLOCKED_BITS : Z := 3.

Definition no_ctxs : read_ctxs :=
  {| cx_mem := ∅; cx_next := 1; qpd_hbrcs := [];
     qpd_blocked_headers := replicate (Z.to_nat (Z.shiftl 1 LSQPACK_DEC_BLOCKED_BITS)) [];
     qpd_n_blocked := 0 |}.

(** The bucket of an id. *)
Definition blocked_bucket (id : Z) : nat :=
  Z.to_nat (Z.land id (Z.shiftl 1 LSQPACK_DEC_BLOCKED_BITS - 1)).

(** [struct lsqpack_dec_err], less [type]: only header blocks report errors. *)
Record dec_err := { de_line : Z; de_off : Z; de_stream_id : Z }.

(** ** The decoder *)

Section dec_state.
Context {hset : Type}.

(** [struct lsqpack_dec], with the application's state and the oracle of allocation
    outcomes. *)
Record lsqpack_dec := {
  qpd_opts : Z;
  qpd_tab : dec_table;
  qpd_max_risked_streams : Z;
  qpd_bytes_in : Z;
  qpd_bytes_out : Z;
  qpd_largest_known_id : Z;
  qpd_ctxs : read_ctxs;
  qpd_hlist_size_ema : float;
  qpd_enc_state : dei_state;
  qpd_err : option dec_err;
  qpd_app : hset;
  qpd_mallocs : mallocs;
}.

Definition set_tab (v : dec_table) (dec : lsqpack_dec) : lsqpack_dec :=
  {| qpd_opts := qpd_opts dec; qpd_tab := v;
     qpd_max_risked_streams := qpd_max_risked_streams dec; qpd_bytes_in := qpd_bytes_in dec;
     qpd_bytes_out := qpd_bytes_out dec; qpd_largest_known_id := qpd_largest_known_id dec;
     qpd_ctxs := qpd_ctxs dec; qpd_hlist_size_ema := qpd_hlist_size_ema dec;
     qpd_enc_state := qpd_enc_state dec; qpd_err := qpd_err dec; qpd_app := qpd_app dec;
     qpd_mallocs := qpd_mallocs dec |}.

Definition set_bytes_in (v : Z) (dec : lsqpack_dec) : lsqpack_dec :=
  {| qpd_opts := qpd_opts dec; qpd_tab := qpd_tab dec;
     qpd_max_risked_streams := qpd_max_risked_streams dec; qpd_bytes_in := v;
     qpd_bytes_out := qpd_bytes_out dec; qpd_largest_known_id := qpd_largest_known_id dec;
     qpd_ctxs := qpd_ctxs dec; qpd_hlist_size_ema := qpd_hlist_size_ema dec;
     qpd_enc_state := qpd_enc_state dec; qpd_err := qpd_err dec; qpd_app := qpd_app dec;
     qpd_mallocs := qpd_mallocs dec |}.

Definition set_bytes_out (v : Z) (dec : lsqpack_dec) : lsqpack_dec :=
  {| qpd_opts := qpd_opts dec; qpd_tab := qpd_tab dec;
     qpd_max_risked_streams := qpd_max_risked_streams dec; qpd_bytes_in := qpd_bytes_in dec;
     qpd_bytes_out := v; qpd_largest_known_id := qpd_largest_known_id dec;
     qpd_ctxs := qpd_ctxs dec; qpd_hlist_size_ema := qpd_hlist_size_ema dec;
     qpd_enc_state := qpd_enc_state dec; qpd_err := qpd_err dec; qpd_app := qpd_app dec;
     qpd_mallocs := qpd_mallocs dec |}.

Definition set_largest_known_id (v : Z) (dec : lsqpack_dec) : lsqpack_dec :=
  {| qpd_opts := qpd_opts dec; qpd_tab := qpd_tab dec;
     qpd_max_risked_streams := qpd_max_risked_streams dec; qpd_bytes_in := qpd_bytes_in dec;
     qpd_bytes_out := qpd_bytes_out dec; qpd_largest_known_id := v;
     qpd_ctxs := qpd_ctxs dec; qpd_hlist_size_ema := qpd_hlist_size_ema dec;
     qpd_enc_state := qpd_enc_state dec; qpd_err := qpd_err dec; qpd_app := qpd_app dec;
     qpd_mallocs := qpd_mallocs dec |}.

Definition set_ctxs (v : read_ctxs) (dec : lsqpack_dec) : lsqpack_dec :=
  {| qpd_opts := qpd_opts dec; qpd_tab := qpd_tab dec;
     qpd_max_risked_streams := qpd_max_risked_streams dec; qpd_bytes_in := qpd_bytes_in dec;
     qpd_bytes_out := qpd_bytes_out dec; qpd_largest_known_id := qpd_largest_known_id dec;
     qpd_ctxs := v; qpd_hlist_size_ema := qpd_hlist_size_ema dec;
     qpd_enc_state := qpd_enc_state dec; qpd_err := qpd_err dec; qpd_app := qpd_app dec;
     qpd_mallocs := qpd_mallocs dec |}.

Definition set_hlist_size_ema (v : float) (dec : lsqpack_dec) : lsqpack_dec :=
  {| qpd_opts := qpd_opts dec; qpd_tab := qpd_tab dec;
     qpd_max_risked_streams := qpd_max_risked_streams dec; qpd_bytes_in := qpd_bytes_in dec;
     qpd_bytes_out := qpd_bytes_out dec; qpd_largest_known_id := qpd_largest_known_id dec;
     qpd_ctxs := qpd_ctxs dec; qpd_hlist_size_ema := v; qpd_enc_state := qpd_enc_state dec;
     qpd_err := qpd_err dec; qpd_app := qpd_app dec; qpd_mallocs := qpd_mallocs dec |}.

Definition set_enc_state (v : dei_state) (dec : lsqpack_dec) : lsqpack_dec :=
  {| qpd_opts := qpd_opts dec; qpd_tab := qpd_tab dec;
     qpd_max_risked_streams := qpd_max_risked_streams dec; qpd_bytes_in := qpd_bytes_in dec;
     qpd_bytes_out := qpd_bytes_out dec; qpd_largest_known_id := qpd_largest_known_id dec;
     qpd_ctxs := qpd_ctxs dec; qpd_hlist_size_ema := qpd_hlist_size_ema dec;
     qpd_enc_state := v; qpd_err := qpd_err dec; qpd_app := qpd_app dec;
     qpd_mallocs := qpd_mallocs dec |}.

Definition set_err (v : option dec_err) (dec : lsqpack_dec) : lsqpack_dec :=
  {| qpd_opts := qpd_opts dec; qpd_tab := qpd_tab dec;
     qpd_max_risked_streams := qpd_max_risked_streams dec; qpd_bytes_in := qpd_bytes_in dec;
     qpd_bytes_out := qpd_bytes_out dec; qpd_largest_known_id := qpd_largest_known_id dec;
     qpd_ctxs := qpd_ctxs dec; qpd_hlist_size_ema := qpd_hlist_size_ema dec;
     qpd_enc_state := qpd_enc_state dec; qpd_err := v; qpd_app := qpd_app dec;
     qpd_mallocs := qpd_mallocs dec |}.

Definition set_app (v : hset) (dec : lsqpack_dec) : lsqpack_dec :=
  {| qpd_opts := qpd_opts dec; qpd_tab := qpd_tab dec;
     qpd_max_risked_streams := qpd_max_risked_streams dec; qpd_bytes_in := qpd_bytes_in dec;
     qpd_bytes_out := qpd_bytes_out dec; qpd_largest_known_id := qpd_largest_known_id dec;
     qpd_ctxs := qpd_ctxs dec; qpd_hlist_size_ema := qpd_hlist_size_ema dec;
     qpd_enc_state := qpd_enc_state dec; qpd_err := qpd_err dec; qpd_app := v;
     qpd_mallocs := qpd_mallocs dec |}.

Definition set_mallocs (v : mallocs) (dec : lsqpack_dec) : lsqpack_dec :=
  {| qpd_opts := qpd_opts dec; qpd_tab := qpd_tab dec;
     qpd_max_risked_streams := qpd_max_risked_streams dec; qpd_bytes_in := qpd_bytes_in dec;
     qpd_bytes_out := qpd_bytes_out dec; qpd_largest_known_id := qpd_largest_known_id dec;
     qpd_ctxs := qpd_ctxs dec; qpd_hlist_size_ema := qpd_hlist_size_ema dec;
     qpd_enc_state := qpd_enc_state dec; qpd_err := qpd_err dec; qpd_app := qpd_app dec;
     qpd_mallocs := v |}.

Definition lsqpack_dec_init (dyn_table_size max_risked_streams opts : Z) (app : hset) (ms : mallocs)
  : lsqpack_dec :=
  let max_entries := dyn_table_size / DYNAMIC_ENTRY_OVERHEAD in
  {| qpd_opts := opts;
     qpd_tab :=
       {| dt_heap := ∅; dt_next := 1; qpd_dyn_table := ringbuf_empty_buf;
          qpd_max_capacity := dyn_table_size; qpd_cur_max_capacity := dyn_table_size;
          qpd_cur_capacity := 0; qpd_max_entries := max_entries;
          qpd_last_id := u32 (max_entries * 2 - 1) |};
     qpd_max_risked_streams := max_risked_streams; qpd_bytes_in := 0; qpd_bytes_out := 0;
     qpd_largest_known_id := u32 (max_entries * 2 - 1); qpd_ctxs := no_ctxs;
     qpd_hlist_size_ema := f32_zero; qpd_enc_state := DEI_NEXT_INST; qpd_err := None;
     qpd_app := app; qpd_mallocs := ms |}.
End dec_state.

Arguments lsqpack_dec : clear implicits.

(** The monad [Monad.v] over this state. *)
Abbreviation dec_m hset := (st_m (lsqpack_dec hset)).

Section operations.
Context {hset : Type} `{!HsetIf hset}.

Definition dec_malloc : dec_m hset (option mem_words) := fun dec =>
  let '(m, ms) := malloc (qpd_mallocs dec) in Some (m, set_mallocs ms dec).

Definition on_table (f : dec_table -> option dec_table) : dec_m hset unit := part qpd_tab set_tab f.

(** A new block for an entry, [None] when [malloc] fails. *)
Definition malloc_entry (n : Z) : dec_m hset (option Z) :=
  m ← dec_malloc;
  match m with
  | None => mret None
  | Some mem =>
      dec ← get;
      let '(p, t) := alloc_entry (fresh_entry mem n) (qpd_tab dec) in
      modify (set_tab t);; mret (Some p)
  end.

(** [realloc] of an entry's block to [n] bytes of strings: true on success. *)
Definition realloc_entry (p n : Z) : dec_m hset bool :=
  m ← dec_malloc;
  match m with
  | None => mret false
  | Some mem =>
      on_table (update_entry p (fun e =>
        set_buf (take (Z.to_nat n) (dte_buf e)
                 ++ fresh_bytes mem (n - Z.of_nat (length (dte_buf e)))) e));;
      mret true
  end.

Definition the_entry (p : Z) : dec_m hset dec_table_entry := fun dec =>
  match dt_heap (qpd_tab dec) !! p with Some e => Some (e, dec) | None => None end.

(** ** Blocked header blocks *)

Definition set_ctx (p : Z) (c : header_block_read_ctx) (cs : read_ctxs) : read_ctxs :=
  {| cx_mem := <[p := c]> (cx_mem cs); cx_next := cx_next cs; qpd_hbrcs := qpd_hbrcs cs;
     qpd_blocked_headers := qpd_blocked_headers cs; qpd_n_blocked := qpd_n_blocked cs |}.

(** [TAILQ_REMOVE] from a bucket of [qpd_blocked_headers], and the count; undefined
    when the context is not in that bucket. *)
Definition unblock (p id : Z) (cs : read_ctxs) : option read_ctxs :=
  bucket ← qpd_blocked_headers cs !! blocked_bucket id;
  bucket ← tailq_remove p bucket;
  Some {| cx_mem := cx_mem cs; cx_next := cx_next cs; qpd_hbrcs := qpd_hbrcs cs;
          qpd_blocked_headers := <[blocked_bucket id := bucket]> (qpd_blocked_headers cs);
          qpd_n_blocked := u32 (qpd_n_blocked cs - 1) |}.

(** The loop of [qdec_process_blocked_headers] over one bucket. *)
Fixpoint process_blocked (last_id : Z) (ps : list Z) : dec_m hset unit :=
  match ps with
  | [] => mret tt
  | p :: ps =>
      dec ← get;
      read_ctx ← demand (cx_mem (qpd_ctxs dec) !! p);
      (if hbrc_largest_ref read_ctx =? last_id then
         let read_ctx := set_hbrc_flags (Z.land (hbrc_flags read_ctx) (Z.lnot HBRC_BLOCKED)) read_ctx in
         modify (set_ctxs (set_ctx p read_ctx (qpd_ctxs dec)));;
         part qpd_ctxs set_ctxs (unblock p last_id);;
         modify (fun dec => set_app (dhi_unblocked (hbrc_hblock read_ctx) (qpd_app dec)) dec)
       else mret tt);;
      process_blocked last_id ps
  end.

Definition qdec_process_blocked_headers : dec_m hset unit :=
  dec ← get;
  let last_id := qpd_last_id (qpd_tab dec) in
  ps ← demand (qpd_blocked_headers (qpd_ctxs dec) !! blocked_bucket last_id);
  process_blocked last_id ps.

(** [TAILQ_INSERT_TAIL] into a bucket. *)
Definition block (p : Z) (c : header_block_read_ctx) (cs : read_ctxs) : read_ctxs :=
  let cs := set_ctx p (set_hbrc_flags (Z.lor (hbrc_flags c) HBRC_BLOCKED) c) cs in
  {| cx_mem := cx_mem cs; cx_next := cx_next cs; qpd_hbrcs := qpd_hbrcs cs;
     qpd_blocked_headers := alter (fun l => l ++ [p]) (blocked_bucket (hbrc_largest_ref c))
                              (qpd_blocked_headers cs);
     qpd_n_blocked := u32 (qpd_n_blocked cs + 1) |}.

(** True for 0, false for -1. *)
Definition stash_blocked_header (p : Z) : dec_m hset bool :=
  dec ← get;
  if qpd_n_blocked (qpd_ctxs dec) <? qpd_max_risked_streams dec then
    read_ctx ← demand (cx_mem (qpd_ctxs dec) !! p);
    modify (set_ctxs (block p read_ctx (qpd_ctxs dec)));;
    mret true
  else mret false.

Definition insert_ctx (c : header_block_read_ctx) (cs : read_ctxs) : read_ctxs :=
  {| cx_mem := <[cx_next cs := set_hbrc_flags (Z.lor (hbrc_flags c) HBRC_ON_LIST) c]> (cx_mem cs);
     cx_next := cx_next cs + 1; qpd_hbrcs := qpd_hbrcs cs ++ [cx_next cs];
     qpd_blocked_headers := qpd_blocked_headers cs; qpd_n_blocked := qpd_n_blocked cs |}.

(** [malloc] and [memcpy] of the context, then [qdec_insert_header_block]; the
    address. *)
Definition qdec_insert_header_block (read_ctx : header_block_read_ctx) : dec_m hset Z :=
  dec ← get;
  modify (set_ctxs (insert_ctx read_ctx (qpd_ctxs dec)));;
  mret (cx_next (qpd_ctxs dec)).

(** [TAILQ_REMOVE] from [qpd_hbrcs], undefined when the context is not on it. *)
Definition remove_ctx (p : Z) (cs : read_ctxs) : option read_ctxs :=
  hbrcs ← tailq_remove p (qpd_hbrcs cs);
  Some {| cx_mem := cx_mem cs; cx_next := cx_next cs; qpd_hbrcs := hbrcs;
          qpd_blocked_headers := qpd_blocked_headers cs; qpd_n_blocked := qpd_n_blocked cs |}.

(** [free] of a context: undefined when it is not there. *)
Definition free_context (p : Z) (cs : read_ctxs) : option read_ctxs :=
  match cx_mem cs !! p with
  | Some _ =>
      Some {| cx_mem := delete p (cx_mem cs); cx_next := cx_next cs; qpd_hbrcs := qpd_hbrcs cs;
              qpd_blocked_headers := qpd_blocked_headers cs; qpd_n_blocked := qpd_n_blocked cs |}
  | None => None
  end.

Definition destroy_header_block_read_ctx (p : Z) : dec_m hset unit :=
  dec ← get;
  read_ctx ← demand (cx_mem (qpd_ctxs dec) !! p);
  part qpd_ctxs set_ctxs (remove_ctx p);;
  (if has_bits (hbrc_flags read_ctx) HBRC_BLOCKED
   then part qpd_ctxs set_ctxs (unblock p (hbrc_largest_ref read_ctx)) else mret tt);;
  part qpd_ctxs set_ctxs (free_context p).

Definition find_header_block_read_ctx (hblock : Z) (cs : read_ctxs) : option Z :=
  snd <$> list_find (fun p => hbrc_hblock <$> (cx_mem cs !! p) = Some hblock) (qpd_hbrcs cs).

(** [lsqpack_dec_push_entry]: true for 0. *)
Definition lsqpack_dec_push_entry (p : Z) : dec_m hset bool :=
  dec ← get;
  m ← (if ringbuf_full (qpd_dyn_table (qpd_tab dec)) then dec_malloc else mret (Some (fun _ => 0)));
  dec ← get;
  '(ok, t) ← demand (push_entry (bool_decide (is_Some m)) p (qpd_tab dec));
  modify (set_tab t);;
  if ok : bool then
    qdec_process_blocked_headers;;
    dec ← get;
    mret (qpd_cur_capacity (qpd_tab dec) <=? qpd_cur_max_capacity (qpd_tab dec))
  else mret false.
End operations.
