(* ===== verification/DecStream.v ===== *)
(** * The decoder: reading the encoder stream

    [lsqpack_dec_enc_in] of src/lsqpack.c: the state machine that reads the encoder
    instructions from chunks of any size, one step per round of its loop.  A step
    leads to another round with the rest of the chunk or to a [return]. *)

From stdpp Require Import gmap.
From S2P Require Import Prelude Monad IntCodec HuffTables Huffman HuffStream HuffDec StrCodec Xxhash StaticTable.
From S2P Require Import Ringbuf Rfc9204 EncTable Float DecTable DecState.

Inductive enc_in_step := Continue (rest : bytes) | Return (r : Z).

Section enc_in.
Context {hset : Type} `{!HsetIf hset}.

Definition set_resume (st : dei_state) : dec_m hset unit := modify (set_enc_state st).

(** What the code does with the result of an integer decoder: go on with the value,
    wait for more ([return 0]), fail ([return -1]). *)
Definition with_int (r : dec_int_result) (again : dec_int_state -> dei_state)
  (k : Z -> bytes -> dec_m hset enc_in_step) : dec_m hset enc_in_step :=
  match r with
  | DecIntOk value rest => k value rest
  | DecIntMore st => set_resume (again st);; mret (Return 0)
  | DecIntOverflow => mret (Return (-1))
  end.

(** ** Insertion with a name reference *)

Definition dei_winr_read_name_idx (is_static : bool) (r : dec_int_result) : dec_m hset enc_in_step :=
  with_int r (DEI_WINR_READ_NAME_IDX is_static) (fun name_idx rest =>
    if is_static then
      if name_idx <? 99 then
        set_resume (DEI_WINR_BEGIN_READ_VAL_LEN
          {| wr_is_static := true; wr_name_idx := name_idx; wr_reffed_entry := None |});;
        mret (Continue rest)
      else mret (Return (-1))
    else
      dec ← get;
      match qdec_get_table_entry_rel (qpd_tab dec) name_idx with
      | None => mret (Return (-1))
      | Some p =>
          on_table (incref_entry p);;
          set_resume (DEI_WINR_BEGIN_READ_VAL_LEN
            {| wr_is_static := false; wr_name_idx := name_idx; wr_reffed_entry := Some p |});;
          mret (Continue rest)
      end).

(** The bytes of the name. *)
Definition read_name (name : name_ptr) : dec_m hset bytes :=
  match name with
  | NameStatic idx => mret (ste_name (ste_at idx))
  | NameEntry p => e ← the_entry p; mret (DTE_NAME e)
  end.

(** [memcpy(DTE_NAME(WINR.entry), WINR.name, WINR.name_len)] and the members of the
    finished entry. *)
Definition finish_entry (p name_len val_len : Z) (name : bytes) : dec_m hset unit :=
  on_table (fun t =>
    e ← dt_heap t !! p;
    buf ← write_at 0 name (dte_buf e);
    update_entry p (fun e => set_refcnt 1 (set_lens name_len val_len (set_buf buf e))) t).

(** [lsqpack_dec_push_entry] on the finished entry: the next instruction, or the
    entry is freed and the call fails in the state [failed]. *)
Definition insert_entry (p : Z) (failed : dei_state) (rest : bytes) : dec_m hset enc_in_step :=
  ok ← lsqpack_dec_push_entry p;
  if ok : bool then set_resume DEI_NEXT_INST;; mret (Continue rest)
  else on_table (qdec_decref_entry p);; set_resume failed;; mret (Return (-1)).

(** The members of [w] after [reffed_entry] and [entry] were set to NULL. *)
Definition winr_done (w : winr_val) : winr_val :=
  {| wv_is_static := wv_is_static w; wv_name_idx := wv_name_idx w; wv_reffed_entry := None;
     wv_entry := None;
     wv_name := wv_name w; wv_name_len := wv_name_len w; wv_val_len := wv_val_len w;
     wv_alloced_val_len := wv_alloced_val_len w; wv_val_off := wv_val_off w;
     wv_nread := wv_nread w |}.

(** From [winr_insert_entry], and the same code in the Huffman state. *)
Definition winr_insert_entry (w : winr_val) (val_len : Z) (failed : winr_val -> dei_state)
  (rest : bytes) : dec_m hset enc_in_step :=
  p ← demand (wv_entry w);
  name ← read_name (wv_name w);
  finish_entry p (wv_name_len w) val_len (take (Z.to_nat (wv_name_len w)) name);;
  (match wv_reffed_entry w with
   | Some q => on_table (qdec_decref_entry q)
   | None => mret tt
   end);;
  insert_entry p (failed (winr_done w)) rest.

(** The cached hashes and index of the new entry. *)
Definition init_winr_entry (w : winr) (reffed : option dec_table_entry) (name_len : Z)
  (e : dec_table_entry) : dec_table_entry :=
  set_lens name_len (dte_val_len e)
    match reffed with
    | None => set_hashes (Z.lor DTEF_NAME_HASH DTEF_NAME_IDX)
                (nth (Z.to_nat (wr_name_idx w)) name_hashes 0) (dte_nameval_hash e) (wr_name_idx w) e
    | Some r => set_hashes (Z.land (dte_flags r) (Z.lor DTEF_NAME_HASH DTEF_NAME_IDX))
                  (dte_name_hash r) (dte_nameval_hash e) (dte_name_idx r) e
    end.

(** The name a value is read for: the entry referred to, the length, the place. *)
Definition winr_name (w : winr) : dec_m hset (option dec_table_entry * Z * name_ptr) :=
  if wr_is_static w then
    mret (None, ste_name_len (ste_at (wr_name_idx w)), NameStatic (wr_name_idx w))
  else
    q ← demand (wr_reffed_entry w);
    e ← the_entry q;
    mret (Some e, dte_name_len e, NameEntry q).

(** [x << (is_huffman << 1)], a 32-bit shift. *)
Definition huffman_room (x : Z) (is_huffman : bool) : Z :=
  u32 (Z.shiftl x (if is_huffman then 2 else 0)).

(** [st] is the state of the integer decoder before this call. *)
Definition dei_winr_read_val_len (w : winr) (is_huffman : bool) (st : dec_int_state)
  (r : dec_int_result) : dec_m hset enc_in_step :=
  with_int r (DEI_WINR_READ_VAL_LEN w is_huffman) (fun val_len rest =>
    '(reffed, name_len, name) ← winr_name w;
    dec ← get;
    let cap := qpd_cur_max_capacity (qpd_tab dec) in
    if name_len >? cap then mret (Return (-1))
    else if val_len >? huffman_room (cap - name_len) is_huffman then mret (Return (-1))
    else
      let alloced := if is_huffman then u32 (val_len + val_len / 2) else val_len in
      entry ← malloc_entry (name_len + alloced);
      match entry with
      | None => mret (Return (-1))
      | Some p =>
          on_table (update_entry p (init_winr_entry w reffed name_len));;
          let v := {| wv_is_static := wr_is_static w; wv_name_idx := wr_name_idx w;
                      wv_reffed_entry := wr_reffed_entry w;
                      wv_entry := Some p; wv_name := name; wv_name_len := name_len;
                      wv_val_len := val_len; wv_alloced_val_len := alloced; wv_val_off := 0;
                      wv_nread := 0 |} in
          if negb (val_len =? 0) then
            set_resume (if is_huffman then DEI_WINR_READ_VALUE_HUFFMAN v huff_fresh
                        else DEI_WINR_READ_VALUE_PLAIN v);;
            mret (Continue rest)
          else
            winr_insert_entry v 0
              (fun _ => DEI_WINR_READ_VAL_LEN
                 {| wr_is_static := wr_is_static w; wr_name_idx := wr_name_idx w;
                    wr_reffed_entry := None |} is_huffman st) rest
      end).

(** [memcpy] or the output of the Huffman decoder, into the strings of an entry. *)
Definition store (p off : Z) (src : bytes) : dec_m hset unit :=
  on_table (fun t =>
    e ← dt_heap t !! p;
    buf ← write_at off src (dte_buf e);
    update_entry p (set_buf buf) t).

(** [lsqpack_huff_decode] into the [room] bytes from [off] of an entry's strings,
    undefined when they are not all in its block. *)
Definition huff_into (p off room : Z) (src : bytes) (st : huff_decode_state) (final : bool)
  : dec_m hset (huff_decode_retval * huff_decode_state) :=
  e ← the_entry p;
  assert_that ((0 <=? room) && (off + room <=? Z.of_nat (length (dte_buf e))));;
  '(hdr, st) ← demand (lsqpack_huff_decode src (Z.to_nat room) st final);
  store p off (hdr_out hdr);;
  mret (hdr, st).

Definition winr_progress (w : winr_val) (alloced nsrc ndst : Z) : winr_val :=
  {| wv_is_static := wv_is_static w; wv_name_idx := wv_name_idx w;
     wv_reffed_entry := wv_reffed_entry w; wv_entry := wv_entry w;
     wv_name := wv_name w; wv_name_len := wv_name_len w; wv_val_len := wv_val_len w;
     wv_alloced_val_len := alloced; wv_val_off := u32 (wv_val_off w + ndst);
     wv_nread := u32 (wv_nread w + nsrc) |}.

Definition dei_winr_read_value_huffman (w : winr_val) (st : huff_decode_state) (buf : bytes)
  : dec_m hset enc_in_step :=
  p ← demand (wv_entry w);
  let size := Z.min (u32 (Z.of_nat (length buf))) (u32 (wv_val_len w - wv_nread w)) in
  '(hdr, st) ← huff_into p (wv_name_len w + wv_val_off w) (wv_alloced_val_len w - wv_val_off w)
                 (take (Z.to_nat size) buf) st (u32 (wv_nread w + size) =? wv_val_len w);
  let nsrc := Z.of_nat (hdr_n_src hdr) in
  let ndst := Z.of_nat (length (hdr_out hdr)) in
  let rest := drop (hdr_n_src hdr) buf in
  match hdr_status hdr with
  | HUFF_DEC_OK =>
      winr_insert_entry w (u32 (wv_val_off w + ndst))
        (fun w => DEI_WINR_READ_VALUE_HUFFMAN w st) rest
  | HUFF_DEC_END_SRC =>
      set_resume (DEI_WINR_READ_VALUE_HUFFMAN
        (winr_progress w (wv_alloced_val_len w) nsrc ndst) st);;
      mret (Continue rest)
  | HUFF_DEC_END_DST =>
      let alloced := u32 (wv_alloced_val_len w * 2) in
      ok ← realloc_entry p (wv_name_len w + alloced);
      if ok : bool then
        set_resume (DEI_WINR_READ_VALUE_HUFFMAN (winr_progress w alloced nsrc ndst) st);;
        mret (Continue rest)
      else
        (* [alloced_val_len] was doubled before the failure *)
        set_resume (DEI_WINR_READ_VALUE_HUFFMAN (winr_progress w alloced 0 0) st);;
        mret (Return (-1))
  | HUFF_DEC_ERROR => set_resume (DEI_WINR_READ_VALUE_HUFFMAN w st);; mret (Return (-1))
  end.

Definition dei_winr_read_value_plain (w : winr_val) (buf : bytes) : dec_m hset enc_in_step :=
  assert_that (wv_alloced_val_len w >=? wv_val_len w);;
  p ← demand (wv_entry w);
  let size := Z.min (u32 (Z.of_nat (length buf))) (u32 (wv_val_len w - wv_val_off w)) in
  store p (wv_name_len w + wv_val_off w) (take (Z.to_nat size) buf);;
  let w := winr_progress w (wv_alloced_val_len w) 0 size in
  let rest := drop (Z.to_nat size) buf in
  if wv_val_off w =? wv_val_len w
  then winr_insert_entry w (wv_val_off w) DEI_WINR_READ_VALUE_PLAIN rest
  else set_resume (DEI_WINR_READ_VALUE_PLAIN w);; mret (Continue rest).

(** ** Insertion without a name reference *)

Definition dei_wonr_read_name_len (is_huffman : bool) (r : dec_int_result) : dec_m hset enc_in_step :=
  with_int r (DEI_WONR_READ_NAME_LEN is_huffman) (fun str_len rest =>
    dec ← get;
    if str_len >? huffman_room (qpd_cur_max_capacity (qpd_tab dec)) is_huffman
    then mret (Return (-1))
    else
      let alloced := if negb (str_len =? 0) then u32 (str_len + str_len / 2) else 16 in
      entry ← malloc_entry alloced;
      match entry with
      | None => mret (Return (-1))
      | Some p =>
          on_table (update_entry p (fun e =>
            set_hashes 0 (dte_name_hash e) (dte_nameval_hash e) (dte_name_idx e) e));;
          let w := {| wo_entry := Some p; wo_alloced_len := alloced; wo_str_len := str_len;
                      wo_str_off := 0; wo_nread := 0 |} in
          set_resume (if is_huffman then DEI_WONR_READ_NAME_HUFFMAN w huff_fresh
                      else DEI_WONR_READ_NAME_PLAIN w);;
          mret (Continue rest)
      end).

Definition wonr_progress (w : wonr) (alloced nsrc ndst : Z) : wonr :=
  {| wo_entry := wo_entry w; wo_alloced_len := alloced; wo_str_len := wo_str_len w;
     wo_str_off := u32 (wo_str_off w + ndst); wo_nread := u32 (wo_nread w + nsrc) |}.

(** The name is complete: [dte_name_len]. *)
Definition wonr_name_done (w : wonr) (p name_len : Z) (rest : bytes) : dec_m hset enc_in_step :=
  on_table (update_entry p (fun e => set_lens name_len (dte_val_len e) e));;
  set_resume (DEI_WONR_BEGIN_READ_VAL_LEN (wo_entry w) (wo_alloced_len w));;
  mret (Continue rest).

Definition dei_wonr_read_name_huffman (w : wonr) (st : huff_decode_state) (buf : bytes)
  : dec_m hset enc_in_step :=
  p ← demand (wo_entry w);
  let size := Z.min (u32 (Z.of_nat (length buf))) (u32 (wo_str_len w - wo_nread w)) in
  '(hdr, st) ← huff_into p (wo_str_off w) (wo_alloced_len w - wo_str_off w)
                 (take (Z.to_nat size) buf) st (u32 (wo_nread w + size) =? wo_str_len w);
  let nsrc := Z.of_nat (hdr_n_src hdr) in
  let ndst := Z.of_nat (length (hdr_out hdr)) in
  let rest := drop (hdr_n_src hdr) buf in
  match hdr_status hdr with
  | HUFF_DEC_OK => wonr_name_done w p (u32 (wo_str_off w + ndst)) rest
  | HUFF_DEC_END_SRC =>
      set_resume (DEI_WONR_READ_NAME_HUFFMAN (wonr_progress w (wo_alloced_len w) nsrc ndst) st);;
      mret (Continue rest)
  | HUFF_DEC_END_DST =>
      let alloced := u32 (wo_alloced_len w * 2) in
      ok ← realloc_entry p alloced;
      if ok : bool then
        set_resume (DEI_WONR_READ_NAME_HUFFMAN (wonr_progress w alloced nsrc ndst) st);;
        mret (Continue rest)
      else
        set_resume (DEI_WONR_READ_NAME_HUFFMAN (wonr_progress w alloced 0 0) st);;
        mret (Return (-1))
  | HUFF_DEC_ERROR => set_resume (DEI_WONR_READ_NAME_HUFFMAN w st);; mret (Return (-1))
  end.

Definition dei_wonr_read_name_plain (w : wonr) (buf : bytes) : dec_m hset enc_in_step :=
  assert_that (wo_alloced_len w >=? wo_str_len w);;
  p ← demand (wo_entry w);
  let size := Z.min (u32 (Z.of_nat (length buf))) (u32 (wo_str_len w - wo_str_off w)) in
  store p (wo_str_off w) (take (Z.to_nat size) buf);;
  let w := wonr_progress w (wo_alloced_len w) 0 size in
  let rest := drop (Z.to_nat size) buf in
  if wo_str_off w =? wo_str_len w then wonr_name_done w p (wo_str_off w) rest
  else set_resume (DEI_WONR_READ_NAME_PLAIN w);; mret (Continue rest).

Definition wonr_done (w : wonr) : wonr :=
  {| wo_entry := None; wo_alloced_len := wo_alloced_len w; wo_str_len := wo_str_len w;
     wo_str_off := wo_str_off w; wo_nread := wo_nread w |}.

(** From [wonr_insert_entry], and the same code in the Huffman state. *)
Definition wonr_insert_entry (w : wonr) (val_len : Z) (failed : wonr -> dei_state) (rest : bytes)
  : dec_m hset enc_in_step :=
  p ← demand (wo_entry w);
  on_table (update_entry p (fun e => set_refcnt 1 (set_lens (dte_name_len e) val_len e)));;
  insert_entry p (failed (wonr_done w)) rest.

Definition dei_wonr_read_val_len (entry : option Z) (alloced : Z) (is_huffman : bool)
  (st : dec_int_state) (r : dec_int_result) : dec_m hset enc_in_step :=
  with_int r (DEI_WONR_READ_VAL_LEN entry alloced is_huffman) (fun str_len rest =>
    p ← demand entry;
    e ← the_entry p;
    dec ← get;
    let cap := qpd_cur_max_capacity (qpd_tab dec) in
    if dte_name_len e >? cap then mret (Return (-1))
    else if str_len >? huffman_room (cap - dte_name_len e) is_huffman then mret (Return (-1))
    else
      let w := {| wo_entry := entry; wo_alloced_len := alloced; wo_str_len := str_len;
                  wo_str_off := 0; wo_nread := 0 |} in
      if negb (str_len =? 0) then
        set_resume (if is_huffman then DEI_WONR_READ_VALUE_HUFFMAN w huff_fresh
                    else DEI_WONR_READ_VALUE_PLAIN w);;
        mret (Continue rest)
      else
        wonr_insert_entry w 0 (fun _ => DEI_WONR_READ_VAL_LEN None alloced is_huffman st) rest).

Definition dei_wonr_read_value_huffman (w : wonr) (st : huff_decode_state) (buf : bytes)
  : dec_m hset enc_in_step :=
  p ← demand (wo_entry w);
  e ← the_entry p;
  let size := Z.min (u32 (Z.of_nat (length buf))) (u32 (wo_str_len w - wo_nread w)) in
  '(hdr, st) ← huff_into p (dte_name_len e + wo_str_off w)
                 (wo_alloced_len w - dte_name_len e - wo_str_off w)
                 (take (Z.to_nat size) buf) st (u32 (wo_nread w + size) =? wo_str_len w);
  let nsrc := Z.of_nat (hdr_n_src hdr) in
  let ndst := Z.of_nat (length (hdr_out hdr)) in
  let rest := drop (hdr_n_src hdr) buf in
  match hdr_status hdr with
  | HUFF_DEC_OK =>
      wonr_insert_entry w (u32 (wo_str_off w + ndst)) (fun w => DEI_WONR_READ_VALUE_HUFFMAN w st) rest
  | HUFF_DEC_END_SRC =>
      set_resume (DEI_WONR_READ_VALUE_HUFFMAN (wonr_progress w (wo_alloced_len w) nsrc ndst) st);;
      mret (Continue rest)
  | HUFF_DEC_END_DST =>
      assert_that (negb (wo_alloced_len w =? 0));;
      let alloced := u32 (wo_alloced_len w * 2) in
      ok ← realloc_entry p alloced;
      if ok : bool then
        set_resume (DEI_WONR_READ_VALUE_HUFFMAN (wonr_progress w alloced nsrc ndst) st);;
        mret (Continue rest)
      else
        set_resume (DEI_WONR_READ_VALUE_HUFFMAN (wonr_progress w alloced 0 0) st);;
        mret (Return (-1))
  | HUFF_DEC_ERROR => set_resume (DEI_WONR_READ_VALUE_HUFFMAN w st);; mret (Return (-1))
  end.

(** The block of the entry grows to hold both strings; [None] when it cannot. *)
Definition wonr_fit (w : wonr) (p name_len : Z) : dec_m hset (option wonr) :=
  let need := u32 (name_len + wo_str_len w) in
  if wo_alloced_len w <? need then
    ok ← realloc_entry p need;
    let w := {| wo_entry := wo_entry w; wo_alloced_len := need; wo_str_len := wo_str_len w;
                wo_str_off := wo_str_off w; wo_nread := wo_nread w |} in
    if ok : bool then mret (Some w)
    else set_resume (DEI_WONR_READ_VALUE_PLAIN w);; mret None
  else mret (Some w).

Definition dei_wonr_read_value_plain (w : wonr) (buf : bytes) : dec_m hset enc_in_step :=
  p ← demand (wo_entry w);
  e ← the_entry p;
  fit ← wonr_fit w p (dte_name_len e);
  match fit with
  | None => mret (Return (-1))
  | Some w =>
      let size := Z.min (u32 (Z.of_nat (length buf))) (u32 (wo_str_len w - wo_str_off w)) in
      store p (dte_name_len e + wo_str_off w) (take (Z.to_nat size) buf);;
      let w := wonr_progress w (wo_alloced_len w) 0 size in
      let rest := drop (Z.to_nat size) buf in
      if wo_str_off w =? wo_str_len w
      then wonr_insert_entry w (wo_str_off w) DEI_WONR_READ_VALUE_PLAIN rest
      else set_resume (DEI_WONR_READ_VALUE_PLAIN w);; mret (Continue rest)
  end.

(** ** Duplicate and Set Dynamic Table Capacity *)

Definition dei_dup_read_idx (r : dec_int_result) : dec_m hset enc_in_step :=
  with_int r DEI_DUP_READ_IDX (fun index rest =>
    dec ← get;
    match qdec_get_table_entry_rel (qpd_tab dec) index with
    | None => mret (Return (-1))
    | Some q =>
        e ← the_entry q;
        let n := dte_name_len e + dte_val_len e in
        new_entry ← malloc_entry n;
        match new_entry with
        | None => mret (Return (-1))
        | Some p =>
            on_table (update_entry p (fun _ => set_refcnt 1 (set_buf (take (Z.to_nat n) (dte_buf e)) e)));;
            (* on failure the state stays DEI_DUP_READ_IDX *)
            dec ← get;
            insert_entry p (qpd_enc_state dec) rest
        end
    end).

Definition dei_size_upd_read_idx (r : dec_int_result) : dec_m hset enc_in_step :=
  with_int r DEI_SIZE_UPD_READ_IDX (fun new_size rest =>
    dec ← get;
    if new_size <=? qpd_max_capacity (qpd_tab dec) then
      set_resume DEI_NEXT_INST;;
      on_table (qdec_update_max_capacity (u32 new_size));;
      mret (Continue rest)
    else mret (Return (-1))).

(** ** The loop *)

(** One round.  [b0] is the next byte and [src] what follows it in the chunk. *)
Definition enc_in_round (b0 : Z) (src : bytes) : dec_m hset enc_in_step :=
  dec ← get;
  match qpd_enc_state dec with
  | DEI_NEXT_INST =>
      if has_bits b0 0x80 then
        let is_static := has_bits b0 0x40 in
        set_resume (DEI_WINR_READ_NAME_IDX is_static dec_int_fresh);;
        dei_winr_read_name_idx is_static (lsqpack_dec_int24 b0 src 6 dec_int_fresh)
      else if has_bits b0 0x40 then
        let is_huffman := has_bits b0 0x20 in
        set_resume (DEI_WONR_READ_NAME_LEN is_huffman dec_int_fresh);;
        dei_wonr_read_name_len is_huffman (lsqpack_dec_int24 b0 src 5 dec_int_fresh)
      else if has_bits b0 0x20 then
        set_resume (DEI_SIZE_UPD_READ_IDX dec_int_fresh);;
        dei_size_upd_read_idx (lsqpack_dec_int b0 src 5 dec_int_fresh)
      else
        set_resume (DEI_DUP_READ_IDX dec_int_fresh);;
        dei_dup_read_idx (lsqpack_dec_int24 b0 src 5 dec_int_fresh)
  | DEI_WINR_READ_NAME_IDX is_static st =>
      dei_winr_read_name_idx is_static (lsqpack_dec_int24 b0 src 0 st)
  | DEI_WINR_BEGIN_READ_VAL_LEN w =>
      let is_huffman := has_bits b0 0x80 in
      set_resume (DEI_WINR_READ_VAL_LEN w is_huffman dec_int_fresh);;
      dei_winr_read_val_len w is_huffman dec_int_fresh (lsqpack_dec_int24 b0 src 7 dec_int_fresh)
  | DEI_WINR_READ_VAL_LEN w is_huffman st =>
      dei_winr_read_val_len w is_huffman st (lsqpack_dec_int24 b0 src 0 st)
  | DEI_WINR_READ_VALUE_HUFFMAN w st => dei_winr_read_value_huffman w st (b0 :: src)
  | DEI_WINR_READ_VALUE_PLAIN w => dei_winr_read_value_plain w (b0 :: src)
  | DEI_WONR_READ_NAME_LEN is_huffman st =>
      dei_wonr_read_name_len is_huffman (lsqpack_dec_int24 b0 src 0 st)
  | DEI_WONR_READ_NAME_HUFFMAN w st => dei_wonr_read_name_huffman w st (b0 :: src)
  | DEI_WONR_READ_NAME_PLAIN w => dei_wonr_read_name_plain w (b0 :: src)
  | DEI_WONR_BEGIN_READ_VAL_LEN entry alloced =>
      let is_huffman := has_bits b0 0x80 in
      set_resume (DEI_WONR_READ_VAL_LEN entry alloced is_huffman dec_int_fresh);;
      dei_wonr_read_val_len entry alloced is_huffman dec_int_fresh
        (lsqpack_dec_int24 b0 src 7 dec_int_fresh)
  | DEI_WONR_READ_VAL_LEN entry alloced is_huffman st =>
      dei_wonr_read_val_len entry alloced is_huffman st (lsqpack_dec_int24 b0 src 0 st)
  | DEI_WONR_READ_VALUE_HUFFMAN w st => dei_wonr_read_value_huffman w st (b0 :: src)
  | DEI_WONR_READ_VALUE_PLAIN w => dei_wonr_read_value_plain w (b0 :: src)
  | DEI_DUP_READ_IDX st => dei_dup_read_idx (lsqpack_dec_int24 b0 src 0 st)
  | DEI_SIZE_UPD_READ_IDX st => dei_size_upd_read_idx (lsqpack_dec_int b0 src 0 st)
  end.

(** [while (buf < end)]: the return value. *)
Fixpoint enc_in_loop (fuel : nat) (buf : bytes) : dec_m hset Z :=
  match buf, fuel with
  | [], _ => mret 0
  | _, O => stuck
  | b0 :: src, S fuel =>
      s ← enc_in_round b0 src;
      match s with
      | Continue rest => enc_in_loop fuel rest
      | Return r => mret r
      end
  end.

(** A byte takes at most 64 rounds, as a rule one: while a block is too small for a
    Huffman-coded string, a round may do no more than let it grow, and that happens no
    more than 53 times. *)
Definition enc_in_fuel (buf : bytes) : nat := 64 * length buf + 64.

Definition lsqpack_dec_enc_in (buf : bytes) : dec_m hset Z :=
  modify (fun dec => set_bytes_in (u32 (qpd_bytes_in dec + Z.of_nat (length buf))) dec);;
  enc_in_loop (enc_in_fuel buf) buf.
End enc_in.
