(* ===== verification/DecSpec.v ===== *)
(** * What the decoder should do with the encoder stream

    The readers the decoder's states stand for, over [Rfc9204]: an integer or a
    string of which a part has been read, and the insertion the decoder makes for
    an instruction ([dec_apply]).  An instruction is read the same way whatever
    follows it, so a stream falls into instructions in one way only. *)

From S2P Require Import Prelude IntCodec HuffTables Huffman HuffStream StrCodec StaticTable.
From S2P Require Import Rfc9204 DecTable.

(** ** Acting on an instruction *)

(** With the RFC's errors; [max] is the limit set by the decoder's settings. *)
Definition spec_apply (max : Z) (t : dyn_table) (i : instruction) : option dyn_table :=
  match i with
  | ISetCapacity c => if c <=? max then apply_instruction t i else None
  | _ => apply_instruction t i
  end.

(** As the decoder does it. *)
Definition dec_apply (max : Z) (t : dyn_table) (i : instruction) : option dyn_table :=
  match i with
  | ISetCapacity c => if c <=? max then Some (dt_set_capacity c t) else None
  | IInsertStaticName k v =>
      if (0 <=? k) && (k <? 99) then Some (dec_insert (ste_name (ste_at k), v) t) else None
  | IInsertDynName r v => f ← dt_get t (dt_inserted t - r); Some (dec_insert (fst f, v) t)
  | IInsertLiteral n v => Some (dec_insert (n, v) t)
  | IDuplicate r => f ← dt_get t (dt_inserted t - r); Some (dec_insert f t)
  end.

(** Where the RFC has a result the decoder has the same. *)
Lemma spec_dec_apply max t i t' : spec_apply max t i = Some t' -> dec_apply max t i = Some t'.
Proof.
  destruct i; cbn [spec_apply dec_apply apply_instruction].
  - by destruct (_ <=? _).
  - destruct (_ && _); [|done]. intros H. f_equal. by apply dec_insert_fits.
  - destruct (dt_get _ _); [|done]. cbn. intros H. f_equal. by apply dec_insert_fits.
  - intros H. f_equal. by apply dec_insert_fits.
  - destruct (dt_get _ _); [|done]. cbn. intros H. f_equal. by apply dec_insert_fits.
Qed.

Fixpoint dec_applys (max : Z) (t : dyn_table) (l : list instruction) : option dyn_table :=
  match l with
  | [] => Some t
  | i :: l => t ← dec_apply max t i; dec_applys max t l
  end.

Fixpoint spec_applys (max : Z) (t : dyn_table) (l : list instruction) : option dyn_table :=
  match l with
  | [] => Some t
  | i :: l => t ← spec_apply max t i; spec_applys max t l
  end.

Lemma dec_applys_app max l1 l2 t t1 :
  dec_applys max t l1 = Some t1 -> dec_applys max t (l1 ++ l2) = dec_applys max t1 l2.
Proof.
  revert t. induction l1 as [|i l1 IH]; intros t; cbn [app dec_applys]; [by intros [= ->]|].
  destruct (dec_apply max t i); [apply IH|done].
Qed.

Lemma spec_applys_app max l1 l2 t :
  spec_applys max t (l1 ++ l2) = t1 ← spec_applys max t l1; spec_applys max t1 l2.
Proof.
  revert t. induction l1 as [|i l1 IH]; intros t; cbn [app spec_applys]; [done|].
  destruct (spec_apply max t i); [apply IH|done].
Qed.

Lemma spec_dec_applys max l t t' : spec_applys max t l = Some t' -> dec_applys max t l = Some t'.
Proof.
  revert t. induction l as [|i l IH]; intros t; cbn [spec_applys dec_applys]; [done|].
  destruct (spec_apply max t i) as [t1|] eqn:E; [|done]. rewrite (spec_dec_apply _ _ _ _ E). apply IH.
Qed.

(** ** Integers *)

(** The rest of an integer, [st] being what was read of it. *)
Definition read_int_at (p : Z) (st : dec_int_state) (buf : bytes) : option (Z * bytes) :=
  match buf with
  | [] => None
  | b0 :: src => match lsqpack_dec_int b0 src p st with
                 | DecIntOk v rest => Some (v, rest)
                 | _ => None
                 end
  end.

Lemma read_int_fresh p buf : read_int p buf = read_int_at p dec_int_fresh buf.
Proof. done. Qed.

(** A call may start with the state [st]: fresh with a prefix of [p] bits, or left
    by an earlier call. *)
Definition int_start (p : Z) (st : dec_int_state) : Prop :=
  dec_int_wf st /\ (dis_resume st = true \/ 1 <= p <= 8).

(** The states an earlier call leaves. *)
Definition int_pending (st : dec_int_state) : Prop := dec_int_wf st /\ dis_resume st = true.

Lemma int_pending_start st p : int_pending st -> int_start p st.
Proof. intros [H1 H2]. split; [done|by left]. Qed.

Lemma int_fresh_start p : 1 <= p <= 8 -> int_start p dec_int_fresh.
Proof. intros H. split; [by intros ?|by right]. Qed.

(** One call on a chunk, and the chunks after it. *)
Lemma dec_int_call b0 src p st :
  is_bytes (b0 :: src) -> int_start p st ->
  match lsqpack_dec_int b0 src p st with
  | DecIntOk v rest => is_u64 v /\ (exists used, b0 :: src = used ++ rest /\ used <> [])
      /\ forall r, read_int_at p st ((b0 :: src) ++ r) = Some (v, rest ++ r)
  | DecIntMore st' => int_pending st'
      /\ forall r, read_int_at p st ((b0 :: src) ++ r) = read_int_at 0 st' r
  | DecIntOverflow => forall r, read_int_at p st ((b0 :: src) ++ r) = None
  end.
Proof.
  intros Hb [Hwf Hp].
  assert (exists q, 1 <= q <= 8 /\ forall b s, lsqpack_dec_int b s p st = lsqpack_dec_int b s q st)
    as (q & Hq & E).
  { destruct Hp as [Hr|Hp]; [|by exists p]. exists 8. split; [lia|]. intros. by apply dec_int_resumed. }
  pose proof (dec_int_ok b0 src q st Hb Hwf ltac:(done)) as Hok. rewrite E.
  assert (forall r, read_int_at p st ((b0 :: src) ++ r) =
    match lsqpack_dec_int b0 (src ++ r) q st with DecIntOk v rest => Some (v, rest) | _ => None end) as Hread
    by (intros r; cbn [read_int_at app]; by rewrite E).
  assert (forall r, lsqpack_dec_int b0 (src ++ r) q st = match lsqpack_dec_int b0 src q st with
    | DecIntOk v rest => DecIntOk v (rest ++ r)
    | DecIntMore st' => match r with [] => DecIntMore st' | b1 :: r => lsqpack_dec_int b1 r 0 st' end
    | DecIntOverflow => DecIntOverflow end) as Happ.
  { intros [|b1 r]; [|by apply dec_int_app]. rewrite app_nil_r.
    destruct (lsqpack_dec_int b0 src q st); [by rewrite app_nil_r|done..]. }
  destruct (lsqpack_dec_int b0 src q st) as [v rest|st'|].
  - destruct Hok as (Hv & used & ->). split; [done|]. split; [by exists (b0 :: used)|].
    intros r. by rewrite Hread, Happ.
  - destruct Hok as (Hr & Hwf'). split; [done|]. intros r. rewrite Hread, Happ. by destruct r.
  - intros r. by rewrite Hread, Happ.
Qed.

Lemma dec_int24_call b0 src p st :
  is_bytes (b0 :: src) -> int_start p st ->
  match lsqpack_dec_int24 b0 src p st with
  | DecIntOk v rest => 0 <= v < 2 ^ 24 /\ (exists used, b0 :: src = used ++ rest /\ used <> [])
      /\ forall r, read_int_at p st ((b0 :: src) ++ r) = Some (v, rest ++ r)
  | DecIntMore st' => int_pending st'
      /\ forall r, read_int_at p st ((b0 :: src) ++ r) = read_int_at 0 st' r
  | DecIntOverflow => forall r v rest, read_int_at p st ((b0 :: src) ++ r) = Some (v, rest) -> 2 ^ 24 <= v
  end.
Proof.
  intros Hb Hst. pose proof (dec_int_call b0 src p st Hb Hst) as H. unfold lsqpack_dec_int24.
  destruct (lsqpack_dec_int b0 src p st) as [v rest|st'|].
  - destruct H as (Hv & Hu & Hr). change (Z.shiftl 1 24) with (2 ^ 24).
    destruct (Z.ltb_spec v (2 ^ 24)); [split; [ulia|done]|]. intros r v' rest'. rewrite Hr. by intros [= <- <-].
  - done.
  - intros r v rest. by rewrite H.
Qed.

(** ** Strings *)

(** The rest of a plain string of [left] bytes after [stored]. *)
Definition rest_plain (left : Z) (stored buf : bytes) : option (bytes * bytes) :=
  if Z.of_nat (length buf) <? left then None
  else Some (stored ++ take (Z.to_nat left) buf, drop (Z.to_nat left) buf).

(** The rest of a Huffman-coded string: [left] bytes of code, decoded from the
    state [st] and appended to [stored]. *)
Definition rest_huff (left : Z) (st : huff_decode_state) (stored buf : bytes) : option (bytes * bytes) :=
  if Z.of_nat (length buf) <? left then None
  else
    o ← huff_finish (huff_node st) (huff_rest (hds_resume st) (take (Z.to_nat left) buf));
    Some (stored ++ o, drop (Z.to_nat left) buf).

Definition rest_str (huffman : bool) (left : Z) (buf : bytes) : option (bytes * bytes) :=
  if huffman then rest_huff left huff_fresh [] buf else rest_plain left [] buf.

(** A string literal is an integer and the bytes. *)
Lemma read_str_split p b0 src :
  is_bytes (b0 :: src) -> 1 <= p <= 7 ->
  read_str p (b0 :: src) =
  '(n, rest) ← read_int_at p dec_int_fresh (b0 :: src); rest_str (Z.testbit b0 p) n rest.
Proof.
  intros Hb Hp. cbn [read_str read_int_at].
  pose proof (dec_int_call b0 src p dec_int_fresh Hb (int_fresh_start p ltac:(lia))) as H.
  destruct (lsqpack_dec_int b0 src p dec_int_fresh) as [n rest|?|]; [|done..].
  destruct H as (Hn & (used & Hu & _) & _). cbn [mbind option_bind]. rewrite has_bits_H by lia.
  assert (is_bytes rest) as Hrest by (rewrite Hu in Hb; by apply Forall_app in Hb as [_ ?]).
  unfold rest_str, rest_huff, rest_plain.
  destruct (Z.ltb_spec (Z.of_nat (length rest)) n); [by destruct (Z.testbit b0 p)|].
  destruct (Z.testbit b0 p); [|done]. cbn zeta.
  pose proof (huff_one_shot (take (Z.to_nat n) rest) (Z.to_nat n)) as Hone. cbn zeta in Hone.
  specialize (Hone (is_bytes_take _ _ Hrest)). rewrite length_take in Hone. specialize (Hone ltac:(ulia)).
  change (huff_node huff_fresh) with 1. change (huff_rest (hds_resume huff_fresh) ?x) with (bytes_bits x).
  rewrite <- Hone. by destruct (hdr_status _).
Qed.

(** ** Locality *)

(** What a reader reads is a prefix, whatever follows it. *)
Definition local {A} (rd : bytes -> option (A * bytes)) : Prop :=
  forall buf x rest, is_bytes buf -> rd buf = Some (x, rest) ->
    exists used, buf = used ++ rest /\ forall tail, rd (used ++ tail) = Some (x, tail).

Lemma dec_int_prefix p b0 used rest v :
  is_bytes (b0 :: used ++ rest) -> 1 <= p <= 8 ->
  lsqpack_dec_int b0 (used ++ rest) p dec_int_fresh = DecIntOk v rest ->
  lsqpack_dec_int b0 used p dec_int_fresh = DecIntOk v [].
Proof.
  intros Hb Hp H. rewrite app_comm_cons in Hb. apply Forall_app in Hb as [Hb Hr].
  destruct rest as [|b1 rest]; [by rewrite app_nil_r in H|].
  rewrite (dec_int_app _ _ _ _ p 8 _ Hb) in H by (done || by intros ?).
  destruct (lsqpack_dec_int b0 used p dec_int_fresh) as [v' r|st'|] eqn:E.
  - injection H as -> Hl. apply (f_equal length) in Hl. rewrite length_app in Hl. cbn [length] in Hl.
    by destruct r; [|cbn [length] in Hl; lia].
  - pose proof (dec_int_ok b0 used p dec_int_fresh Hb ltac:(by intros ?) ltac:(done)) as Hok. rewrite E in Hok.
    destruct Hok as [Hres Hwf]. pose proof (dec_int_ok b1 rest 8 st' Hr Hwf ltac:(lia)) as Hok2. rewrite H in Hok2.
    destruct Hok2 as (_ & u & Hu). apply (f_equal length) in Hu. rewrite length_app in Hu. cbn [length] in Hu. lia.
  - done.
Qed.

Lemma read_int_local p : 1 <= p <= 8 -> local (read_int p).
Proof.
  intros Hp [|b0 src] x rest Hb; [done|]. cbn [read_int].
  destruct (lsqpack_dec_int b0 src p dec_int_fresh) as [v r|?|] eqn:E; [|done..]. intros [= -> ->].
  pose proof (dec_int_ok b0 src p dec_int_fresh Hb ltac:(by intros ?) ltac:(done)) as Hok. rewrite E in Hok.
  destruct Hok as (Hv & used & ->). apply dec_int_prefix in E; [|done|done]. exists (b0 :: used). split; [done|].
  intros tail. pose proof (dec_int_call b0 used p dec_int_fresh) as Hc. rewrite E in Hc.
  rewrite app_comm_cons in Hb. destruct Hc as (_ & _ & Hc); [by apply Forall_app in Hb as [? _]|by apply int_fresh_start|].
  apply (Hc tail).
Qed.

Lemma read_str_local p : 1 <= p <= 7 -> local (read_str p).
Proof.
  intros Hp [|b0 src] x rest Hb; [done|]. intros Hx.
  assert (exists n r, read_int p (b0 :: src) = Some (n, r) /\ 0 <= n) as (n & r & E & Hn).
  { cbn [read_str read_int] in *. pose proof (dec_int_ok b0 src p dec_int_fresh Hb ltac:(by intros ?) ltac:(lia)) as Hok.
    destruct (lsqpack_dec_int b0 src p dec_int_fresh) as [n r|?|]; [|done..]. exists n, r. split; [done|].
    destruct Hok as [[? ?] _]. done. }
  destruct (read_int_local p ltac:(lia) _ _ _ Hb E) as (used & Hu & Ht).
  destruct used as [|b used]; [specialize (Ht []); done|]. injection Hu as <- ->.
  assert (forall tail, read_str p (b0 :: used ++ tail) =
    if Z.of_nat (length tail) <? n then None
    else let raw := take (Z.to_nat n) tail in
         if has_bits b0 (Z.shiftl 1 p) then
           let r := fst (lsqpack_huff_decode_full raw (S (2 * Z.to_nat n)) huff_fresh true) in
           match hdr_status r with HUFF_DEC_OK => Some (hdr_out r, drop (Z.to_nat n) tail) | _ => None end
         else Some (raw, drop (Z.to_nat n) tail)) as Hread.
  { intros tail. specialize (Ht tail). cbn [read_int read_str app] in *.
    destruct (lsqpack_dec_int b0 (used ++ tail) p dec_int_fresh) as [n' r'|?|]; [|done..]. by injection Ht as -> ->. }
  rewrite Hread in Hx. destruct (Z.ltb_spec (Z.of_nat (length r)) n); [done|]. cbn zeta in Hx.
  assert (rest = drop (Z.to_nat n) r) as -> by (destruct (has_bits _ _); [destruct (hdr_status _)|]; try done; by injection Hx).
  exists (b0 :: used ++ take (Z.to_nat n) r). split; [by rewrite <- app_comm_cons, <- app_assoc, take_drop|]. intros tail.
  assert (length (take (Z.to_nat n) r) = Z.to_nat n) as Hl by (rewrite length_take; lia).
  rewrite <- app_comm_cons, <- app_assoc, Hread, length_app, Hl.
  destruct (Z.ltb_spec (Z.of_nat (Z.to_nat n + length tail)) n); [lia|]. cbn zeta.
  rewrite take_app_length', drop_app_length' by done.
  destruct (has_bits _ _); [destruct (hdr_status _)|]; try done; by injection Hx as <-.
Qed.

Lemma local_bind {A B} (rd : bytes -> option (A * bytes)) (k : A -> bytes -> option (B * bytes)) :
  local rd -> (forall x, local (k x)) -> local (fun buf => '(x, buf) ← rd buf; k x buf).
Proof.
  intros H1 H2 buf x rest Hb. destruct (rd buf) as [[y r]|] eqn:E; [|done]. cbn [mbind option_bind].
  destruct (H1 buf y r Hb E) as (used & -> & Ht). apply Forall_app in Hb as [_ Hb]. intros Hk.
  destruct (H2 y r x rest Hb Hk) as (used' & -> & Ht'). exists (used ++ used').
  split; [by rewrite app_assoc|]. intros tail. rewrite <- app_assoc, Ht. cbn [mbind option_bind]. apply Ht'.
Qed.

Lemma local_ret {A} (x : A) : local (fun buf => Some (x, buf)).
Proof. intros buf y rest _ [= -> ->]. by exists []. Qed.

Lemma read_int_str_local p : 1 <= p <= 8 -> local (read_int_str p).
Proof.
  intros Hp. apply local_bind; [by apply read_int_local|]. intros n.
  apply local_bind; [by apply read_str_local|]. intros v. apply local_ret.
Qed.

Lemma read_str_str_local p : 1 <= p <= 7 -> local (read_str_str p).
Proof.
  intros Hp. apply local_bind; [by apply read_str_local|]. intros n.
  apply local_bind; [by apply read_str_local|]. intros v. apply local_ret.
Qed.

(** A reader that looks at the first byte and goes on with [rd]. *)
Lemma local_head {A B} (rd : bytes -> option (A * bytes)) (k : A -> B) (R : bytes -> option (B * bytes)) b src x rest :
  local rd -> rd [] = None -> is_bytes (b :: src) ->
  (forall s, R (b :: s) = '(a, r) ← rd (b :: s); Some (k a, r)) ->
  R (b :: src) = Some (x, rest) -> exists used, b :: src = used ++ rest /\ forall tail, R (used ++ tail) = Some (x, tail).
Proof.
  intros Hl Hn Hb HR. rewrite HR. destruct (rd (b :: src)) as [[a r]|] eqn:E; [|done]. cbn. intros [= <- <-].
  destruct (Hl _ _ _ Hb E) as ([|b' used] & Hu & Ht).
  - specialize (Ht []). cbn in Ht. by rewrite Hn in Ht.
  - injection Hu as <- ->. exists (b :: used). split; [done|]. intros tail. specialize (Ht tail). cbn [app] in *.
    by rewrite HR, Ht.
Qed.

Ltac local_head Hl k :=
  let s := fresh in eapply (local_head _ k); [exact Hl|reflexivity|eassumption| |eassumption];
  intros s; cbn [read_instruction read_representation];
  repeat match goal with E : Z.testbit _ _ = _ |- _ => rewrite !E; clear E end;
  match goal with |- mbind _ ?m = _ => destruct m as [[a r']|]; [try destruct a; reflexivity|reflexivity] end.

Lemma read_instruction_local : local read_instruction.
Proof.
  intros [|b src] i rest Hb H; [done|].
  destruct (Z.testbit b 7) eqn:E7; [|destruct (Z.testbit b 6) eqn:E6; [|destruct (Z.testbit b 5) eqn:E5]].
  - local_head (read_int_str_local 6 ltac:(lia))
      (fun '(n, v) => if Z.testbit b 6 then IInsertStaticName n v else IInsertDynName n v).
  - local_head (read_str_str_local 5 ltac:(lia)) (fun '(n, v) => IInsertLiteral n v).
  - local_head (read_int_local 5 ltac:(lia)) ISetCapacity.
  - local_head (read_int_local 5 ltac:(lia)) IDuplicate.
Qed.

Lemma read_representation_local base : local (read_representation base).
Proof.
  intros [|b src] r rest Hb H; [done|].
  destruct (Z.testbit b 7) eqn:E7; [|destruct (Z.testbit b 6) eqn:E6; [|destruct (Z.testbit b 5) eqn:E5; [|destruct (Z.testbit b 4) eqn:E4]]].
  - local_head (read_int_local 6 ltac:(lia)) (fun n => if Z.testbit b 6 then RIndexedStatic n else RIndexedDyn (base - n)).
  - local_head (read_int_str_local 4 ltac:(lia)) (fun '(n, v) =>
      if Z.testbit b 4 then RLiteralStatic (Z.testbit b 5) n v else RLiteralDyn (Z.testbit b 5) (base - n) v).
  - local_head (read_str_str_local 3 ltac:(lia)) (fun '(n, v) => RLiteral (Z.testbit b 4) n v).
  - local_head (read_int_local 4 ltac:(lia)) (fun n => RIndexedDyn (base + n + 1)).
  - local_head (read_int_str_local 3 ltac:(lia)) (fun '(n, v) => RLiteralDyn (Z.testbit b 3) (base + n + 1) v).
Qed.

(** ** A stream falls into instructions in one way *)

Lemma is_instruction_intro b i rest :
  is_bytes (b ++ rest) -> read_instruction (b ++ rest) = Some (i, rest) -> is_instruction b i.
Proof.
  intros Hb H. destruct (read_instruction_local _ i rest Hb H) as (used & Hu & Ht).
  by apply app_inv_tail in Hu as ->.
Qed.

Lemma is_instruction_nonempty b i : is_instruction b i -> b <> [].
Proof. intros H ->. by specialize (H []). Qed.

Lemma instructions_head s l b i rest :
  instructions s l -> is_instruction b i -> s = b ++ rest ->
  exists l', l = i :: l' /\ instructions rest l'.
Proof.
  intros Hs Hi E. destruct Hs as [|c j cs l Hj Hcs].
  - by destruct (is_instruction_nonempty _ _ Hi), b.
  - specialize (Hj cs). rewrite E, (Hi rest) in Hj. injection Hj as -> ->. by exists l.
Qed.

Lemma instructions_split s l b1 l1 b2 :
  instructions s l -> instructions b1 l1 -> s = b1 ++ b2 ->
  exists l2, l = l1 ++ l2 /\ instructions b2 l2.
Proof.
  intros Hs H1. revert s l Hs. induction H1 as [|b i bs l1 Hi _ IH]; intros s l Hs E; [by exists l; subst s|].
  rewrite <- app_assoc in E. destruct (instructions_head _ _ _ _ _ Hs Hi E) as (l' & -> & Hl').
  destruct (IH _ _ Hl' eq_refl) as (l2 & -> & H2). by exists l2.
Qed.

Lemma instructions_snoc b l c i : instructions b l -> is_instruction c i -> instructions (b ++ c) (l ++ [i]).
Proof.
  intros H Hi. apply instructions_app; [done|]. rewrite <- (app_nil_r c). constructor; [done|constructor].
Qed.
