(* ===== verification/DecBlocked.v ===== *)
(** * Blocked header blocks

    The lists of [read_ctxs]: their invariant, and what [stash_blocked_header],
    [qdec_insert_header_block], [destroy_header_block_read_ctx] and
    [qdec_process_blocked_headers] of src/lsqpack.c do to them.

    A blocked header block waits for one insertion: [waiting n M c] says that after
    [n] insertions the entry [c] waits for is one of the next [M].  When it is
    inserted, [qdec_process_blocked_headers] finds the block by the id of that entry
    modulo twice the number of entries; it takes out exactly the blocks that wait
    for it, and tells the application. *)

From stdpp Require Import gmap.
From S2P Require Import Prelude Monad Ringbuf Rfc9204 DecTable DecState.

(** ** The invariant *)

Definition is_blocked (c : header_block_read_ctx) : bool := has_bits (hbrc_flags c) HBRC_BLOCKED.

(** The insertion [c] waits for is [ric]. *)
Definition waits_for (M ric : Z) (c : header_block_read_ctx) : Prop :=
  0 < M /\ hbrc_largest_ref c = (ric - 1) mod (2 * M).

Definition waiting (n M : Z) (c : header_block_read_ctx) : Prop :=
  exists ric, n < ric <= n + M /\ waits_for M ric c.

(** The contexts in bucket [i]. *)
Definition in_bucket (cs : read_ctxs) (i : nat) (p : Z) : Prop :=
  exists c, cx_mem cs !! p = Some c /\ is_blocked c = true /\ blocked_bucket (hbrc_largest_ref c) = i.

Record ctxs_ok (n M : Z) (cs : read_ctxs) : Prop := {
  co_len : length (qpd_blocked_headers cs) = 8%nat;
  co_list : NoDup (qpd_hbrcs cs);
  co_mem : forall p, p ∈ qpd_hbrcs cs <-> is_Some (cx_mem cs !! p);
  co_fresh : forall p, is_Some (cx_mem cs !! p) -> p < cx_next cs;
  co_bucket : forall i b, qpd_blocked_headers cs !! i = Some b ->
    NoDup b /\ forall p, p ∈ b <-> in_bucket cs i p;
  co_count : qpd_n_blocked cs = Z.of_nat (length (concat (qpd_blocked_headers cs)));
  co_small : qpd_n_blocked cs < 2 ^ 32;
  co_waiting : forall p c, cx_mem cs !! p = Some c -> is_blocked c = true -> waiting n M c;
}.

Lemma no_ctxs_ok n M : ctxs_ok n M no_ctxs.
Proof.
  constructor; cbn.
  - done.
  - constructor.
  - intros p. rewrite lookup_empty. split; [by intros ?%elem_of_nil|by intros []].
  - intros p. rewrite lookup_empty. by intros [].
  - intros i b Hb. assert (b = []) as ->.
    { do 8 (destruct i as [|i]; [by injection Hb|]). done. }
    split; [constructor|]. intros p. split; [by intros ?%elem_of_nil|].
    intros (c & Hc & _). cbn in Hc. by rewrite lookup_empty in Hc.
  - done.
  - done.
  - intros p c Hc. by rewrite lookup_empty in Hc.
Qed.

Lemma blocked_bucket_range id : (blocked_bucket id < 8)%nat.
Proof.
  unfold blocked_bucket. change (Z.shiftl 1 LSQPACK_DEC_BLOCKED_BITS - 1) with (2 ^ 3 - 1).
  rewrite land_ones_mod by lia. change (2 ^ 3) with 8. dlia.
Qed.

Lemma bucket_exists n M cs id : ctxs_ok n M cs ->
  exists b, qpd_blocked_headers cs !! blocked_bucket id = Some b.
Proof.
  intros H. apply lookup_lt_is_Some_2. rewrite (co_len _ _ _ H). apply blocked_bucket_range.
Qed.

(** ** Counting *)

Lemma concat_alter_length {A} (f : list A -> list A) (l : list (list A)) i b :
  l !! i = Some b ->
  (length (concat (alter f i l)) + length b = length (concat l) + length (f b))%nat.
Proof.
  revert i. induction l as [|a l IH]; intros [|i]; [done..| |]; intros H.
  - injection H as ->. change (alter f 0%nat (b :: l)) with (f b :: l). cbn [concat].
    rewrite !length_app. lia.
  - change (alter f (S i) (a :: l)) with (a :: alter f i l). cbn [concat]. rewrite !length_app.
    specialize (IH i H). lia.
Qed.

Lemma filter_ne_length (l : list Z) p :
  NoDup l -> p ∈ l -> (length (filter (fun q => q <> p) l) + 1 = length l)%nat.
Proof.
  induction l as [|x l IH]; intros Hnd Hp; [by apply elem_of_nil in Hp|].
  apply NoDup_cons in Hnd as [Hx Hnd]. rewrite filter_cons. case_decide as Hd.
  - apply elem_of_cons in Hp as [->|Hp]; [done|]. cbn [length]. specialize (IH Hnd Hp). lia.
  - assert (x = p) as -> by (destruct (Z.eq_dec x p); [done|by destruct Hd]). cbn [length].
    assert (filter (fun q => q <> p) l = l) as ->; [|lia].
    clear - Hx. induction l as [|y l IH]; [done|]. apply not_elem_of_cons in Hx as [Hy Hx].
    rewrite filter_cons, decide_True by done. by rewrite IH.
Qed.

(** ** Taking a block out of its bucket *)

Lemma is_blocked_cleared c : is_blocked (set_hbrc_flags (Z.land (hbrc_flags c) (Z.lnot HBRC_BLOCKED)) c) = false.
Proof.
  unfold is_blocked, has_bits. cbn [set_hbrc_flags hbrc_flags]. rewrite <- Z.ldiff_land.
  replace (Z.land (Z.ldiff (hbrc_flags c) HBRC_BLOCKED) HBRC_BLOCKED) with 0; [done|].
  apply Z.bits_inj'. intros k Hk. rewrite Z.land_spec, Z.ldiff_spec, Z.bits_0.
  destruct (Z.testbit (hbrc_flags c) k), (Z.testbit HBRC_BLOCKED k); done.
Qed.

Lemma mem_dom cs p q c c' : cx_mem cs !! p = Some c ->
  is_Some (<[p := c']> (cx_mem cs) !! q) <-> is_Some (cx_mem cs !! q).
Proof.
  intros Hp. destruct (decide (q = p)) as [->|Hne]; [|by rewrite lookup_insert_ne].
  by rewrite lookup_insert_eq, Hp.
Qed.

(** The contexts after [TAILQ_REMOVE] from a bucket. *)
Definition taken_out (p id : Z) (cs : read_ctxs) : read_ctxs :=
  {| cx_mem := cx_mem cs; cx_next := cx_next cs; qpd_hbrcs := qpd_hbrcs cs;
     qpd_blocked_headers :=
       alter (filter (fun q => q <> p)) (blocked_bucket id) (qpd_blocked_headers cs);
     qpd_n_blocked := u32 (qpd_n_blocked cs - 1) |}.

Lemma alter_insert {A} (f : A -> A) (l : list A) i x :
  l !! i = Some x -> alter f i l = <[i := f x]> l.
Proof.
  intros Hi. apply list_eq. intros j. destruct (decide (j = i)) as [->|Hne].
  - rewrite list_lookup_alter_eq, Hi, list_lookup_insert_eq; [done|by eapply lookup_lt_Some].
  - by rewrite list_lookup_alter_ne, list_lookup_insert_ne.
Qed.

Lemma unblock_taken_out n M cs cs' p c :
  ctxs_ok n M cs -> cx_mem cs !! p = Some c -> is_blocked c = true ->
  qpd_blocked_headers cs' = qpd_blocked_headers cs ->
  unblock p (hbrc_largest_ref c) cs' = Some (taken_out p (hbrc_largest_ref c) cs').
Proof.
  intros H Hp Hc E. destruct (bucket_exists _ _ _ (hbrc_largest_ref c) H) as [b Hb].
  assert (p ∈ b) as Hin by (apply (co_bucket _ _ _ H _ _ Hb); by exists c).
  unfold unblock, taken_out. rewrite E, Hb. cbn [mbind option_bind].
  rewrite (tailq_remove_Some _ _ Hin), (alter_insert _ _ _ _ Hb). done.
Qed.

Lemma unblock_kept p id cs cs' :
  unblock p id cs = Some cs' -> cx_mem cs' = cx_mem cs /\ qpd_hbrcs cs' = qpd_hbrcs cs.
Proof.
  unfold unblock. destruct (_ !! _) as [b|]; [|done]. cbn [mbind option_bind].
  by destruct (tailq_remove p b); [|done]; intros [= <-].
Qed.

(** The bucket list after [TAILQ_REMOVE]. *)
Lemma unblock_buckets n M cs p c c' :
  ctxs_ok n M cs -> cx_mem cs !! p = Some c -> is_blocked c = true -> is_blocked c' = false ->
  ctxs_ok n M (taken_out p (hbrc_largest_ref c) (set_ctx p c' cs)).
Proof.
  intros H Hp Hc Hc'. destruct (bucket_exists _ _ _ (hbrc_largest_ref c) H) as [b Hb].
  destruct (co_bucket _ _ _ H _ _ Hb) as [Hnd Hin].
  assert (p ∈ b) as Hpb by (apply Hin; by exists c).
  pose proof (concat_alter_length (filter (fun q => q <> p)) _ _ _ Hb) as Hlen.
  pose proof (filter_ne_length b p Hnd Hpb) as Hf.
  pose proof (co_count _ _ _ H) as Hn. pose proof (co_small _ _ _ H) as Hs.
  assert (u32 (qpd_n_blocked cs - 1) = qpd_n_blocked cs - 1) as E
    by (apply u32_id; change (2 ^ 32) with 4294967296 in *; ulia).
  destruct H. constructor; cbn [taken_out set_ctx qpd_blocked_headers qpd_hbrcs cx_mem cx_next qpd_n_blocked].
  - by rewrite length_alter.
  - done.
  - intros q. rewrite (mem_dom _ _ _ _ _ Hp). apply co_mem0.
  - intros q. rewrite (mem_dom _ _ _ _ _ Hp). apply co_fresh0.
  - intros i b' Hb'.
    assert (forall q, in_bucket (taken_out p (hbrc_largest_ref c) (set_ctx p c' cs)) i q
              <-> q <> p /\ in_bucket cs i q) as Hib.
    { intros q. unfold in_bucket. cbn [taken_out set_ctx cx_mem]. destruct (decide (q = p)) as [->|Hne].
      - rewrite lookup_insert_eq. split; [|by intros []]. intros (x & [= <-] & ? & _). congruence.
      - rewrite lookup_insert_ne by done. tauto. }
    destruct (decide (i = blocked_bucket (hbrc_largest_ref c))) as [->|Hi].
    + rewrite list_lookup_alter_eq, Hb in Hb'. injection Hb' as <-. split; [by apply NoDup_filter|].
      intros q. by rewrite list_elem_of_filter, Hib, Hin.
    + rewrite list_lookup_alter_ne in Hb' by done. destruct (co_bucket0 _ _ Hb') as [Hnd' Hin'].
      split; [done|]. intros q. rewrite Hib, Hin'. split; [|by intros []]. intros Hq. split; [|done].
      intros ->. destruct Hq as (x & Hx & _ & Hi'). congruence.
  - rewrite E. lia.
  - rewrite E. lia.
  - intros q x. destruct (decide (q = p)) as [->|Hne].
    + rewrite lookup_insert_eq. intros [= <-]. by rewrite Hc'.
    + rewrite lookup_insert_ne by done. apply co_waiting0.
Qed.

(** ** One insertion *)

(** A context after the entry with the id [last_id] was inserted. *)
Definition unblocked (last_id : Z) (c : header_block_read_ctx) : header_block_read_ctx :=
  if is_blocked c && (hbrc_largest_ref c =? last_id)
  then set_hbrc_flags (Z.land (hbrc_flags c) (Z.lnot HBRC_BLOCKED)) c else c.

Section process.
Context {hset : Type} `{!HsetIf hset}.

(** The calls of [dhi_unblocked] for the contexts [ps]. *)
Definition told (last_id : Z) (cs : read_ctxs) (ps : list Z) (app : hset) : hset :=
  fold_left (fun a p =>
    match cx_mem cs !! p with
    | Some c => if hbrc_largest_ref c =? last_id then dhi_unblocked (hbrc_hblock c) a else a
    | None => a
    end) ps app.

Lemma told_ext last_id cs cs' ps app :
  (forall p, hbrc_hblock <$> cx_mem cs' !! p = hbrc_hblock <$> cx_mem cs !! p) ->
  (forall p, hbrc_largest_ref <$> cx_mem cs' !! p = hbrc_largest_ref <$> cx_mem cs !! p) ->
  told last_id cs' ps app = told last_id cs ps app.
Proof.
  intros H1 H2. unfold told. revert app. induction ps as [|p ps IH]; intros app; [done|].
  cbn [fold_left]. specialize (H1 p). specialize (H2 p).
  destruct (cx_mem cs' !! p) as [c'|], (cx_mem cs !! p) as [c|]; try done. cbn in H1, H2.
  injection H1 as ->. injection H2 as ->. apply IH.
Qed.

(** The contexts still to be looked at include every one that is ready. *)
Lemma process_blocked_spec n M last_id ps (dec : lsqpack_dec hset) :
  ctxs_ok n M (qpd_ctxs dec) -> NoDup ps ->
  (forall p, p ∈ ps -> exists c, cx_mem (qpd_ctxs dec) !! p = Some c /\ is_blocked c = true) ->
  (forall p c, cx_mem (qpd_ctxs dec) !! p = Some c -> is_blocked c = true ->
     hbrc_largest_ref c = last_id -> p ∈ ps) ->
  wp (process_blocked last_id ps) dec (fun _ dec' =>
    exists cs', dec' = set_app (told last_id (qpd_ctxs dec) ps (qpd_app dec)) (set_ctxs cs' dec)
      /\ ctxs_ok n M cs' /\ qpd_hbrcs cs' = qpd_hbrcs (qpd_ctxs dec)
      /\ forall q, cx_mem cs' !! q = unblocked last_id <$> cx_mem (qpd_ctxs dec) !! q).
Proof.
  revert dec. induction ps as [|p ps IH]; intros dec Hok Hnd Hps Hready; cbn [process_blocked].
  { wpsteps. exists (qpd_ctxs dec). split; [by destruct dec|]. split; [done|]. split; [done|].
    intros q. destruct (cx_mem (qpd_ctxs dec) !! q) as [c|] eqn:E; [|done]. cbn. unfold unblocked.
    destruct (is_blocked c) eqn:Hb; [|done]. destruct (Z.eqb_spec (hbrc_largest_ref c) last_id); [|done].
    by apply (Hready q c E Hb), elem_of_nil in e. }
  destruct (Hps p ltac:(left)) as (c & Hc & Hbc). apply NoDup_cons in Hnd as [Hp Hnd].
  wpsteps. eapply wp_demand; [exact Hc|]. wpsteps.
  assert (forall a, told last_id (qpd_ctxs dec) (p :: ps) a = told last_id (qpd_ctxs dec) ps
    (if hbrc_largest_ref c =? last_id then dhi_unblocked (hbrc_hblock c) a else a)) as Ht
    by (intros a; unfold told; cbn [fold_left]; by rewrite Hc).
  rewrite Ht.
  destruct (Z.eqb_spec (hbrc_largest_ref c) last_id) as [Hl|Hl].
  - wpsteps. set (c1 := set_hbrc_flags _ c). eapply wp_part.
    { rewrite <- Hl. by apply (unblock_taken_out n M (qpd_ctxs dec)). }
    rewrite Hl. wpsteps. set (cs1 := taken_out p last_id (set_ctx p c1 (qpd_ctxs dec))).
    assert (ctxs_ok n M cs1) as Hok1.
    { unfold cs1. rewrite <- Hl. apply unblock_buckets; [done..|]. apply is_blocked_cleared. }
    assert (forall q, q <> p -> cx_mem cs1 !! q = cx_mem (qpd_ctxs dec) !! q) as Hother.
    { intros q Hq. cbn. by rewrite lookup_insert_ne. }
    eapply wp_mono; [apply IH|]; cbn [set_app set_ctxs qpd_ctxs qpd_app]; [done..| | |].
    + intros q Hq. assert (q <> p) by (intros ->; done). rewrite Hother by done. apply Hps. by right.
    + intros q x. destruct (decide (q = p)) as [->|Hne].
      * cbn. rewrite lookup_insert_eq. intros [= <-]. unfold c1. by rewrite is_blocked_cleared.
      * rewrite Hother by done. intros Hx Hb1 Hl1. pose proof (Hready q x Hx Hb1 Hl1) as Hin.
        by apply elem_of_cons in Hin as [->|Hin].
    + intros u dec' (cs' & -> & Hok' & Hh & Hm). exists cs'. split; [|split; [done|split; [done|]]].
      * rewrite (told_ext last_id (qpd_ctxs dec) cs1 ps); [by destruct dec| |].
        -- intros q. destruct (decide (q = p)) as [->|Hne]; [|by rewrite Hother]. cbn. by rewrite lookup_insert_eq, Hc.
        -- intros q. destruct (decide (q = p)) as [->|Hne]; [|by rewrite Hother]. cbn. by rewrite lookup_insert_eq, Hc.
      * intros q. rewrite Hm. destruct (decide (q = p)) as [->|Hne]; [|by rewrite Hother].
        cbn [cs1 taken_out set_ctx cx_mem]. rewrite lookup_insert_eq, Hc. cbn. unfold unblocked at 2.
        rewrite Hbc, Hl, Z.eqb_refl. unfold unblocked, c1. by rewrite is_blocked_cleared.
  - wpsteps. apply IH; [done|done| |].
    + intros q Hq. apply Hps. by right.
    + intros q x Hx Hb1 Hl1. pose proof (Hready q x Hx Hb1 Hl1) as Hin.
      apply elem_of_cons in Hin as [->|Hin]; [congruence|done].
Qed.

Lemma unblocked_waits n M c :
  waiting n M c -> hbrc_largest_ref c <> (n + 1 - 1) mod (2 * M) -> waiting (n + 1) M c.
Proof.
  intros (ric & Hr & HM & Hl) Hne. exists ric. split; [|done].
  assert (ric <> n + 1) by (intros ->; done). lia.
Qed.

(** After an insertion, the [n + 1]-st. *)
Lemma process_blocked_headers_spec n M (dec : lsqpack_dec hset) :
  ctxs_ok n M (qpd_ctxs dec) ->
  (0 < M -> qpd_last_id (qpd_tab dec) = (n + 1 - 1) mod (2 * M)) ->
  wp qdec_process_blocked_headers dec (fun _ dec' =>
    exists cs' app', dec' = set_app app' (set_ctxs cs' dec)
      /\ ctxs_ok (n + 1) M cs' /\ qpd_hbrcs cs' = qpd_hbrcs (qpd_ctxs dec)
      /\ (forall q, cx_mem cs' !! q = unblocked (qpd_last_id (qpd_tab dec)) <$> cx_mem (qpd_ctxs dec) !! q)
      /\ exists b, qpd_blocked_headers (qpd_ctxs dec) !! blocked_bucket (qpd_last_id (qpd_tab dec)) = Some b
           /\ app' = told (qpd_last_id (qpd_tab dec)) (qpd_ctxs dec) b (qpd_app dec)).
Proof.
  intros Hok Hlast. unfold qdec_process_blocked_headers. wpsteps.
  destruct (bucket_exists _ _ _ (qpd_last_id (qpd_tab dec)) Hok) as [b Hb].
  destruct (co_bucket _ _ _ Hok _ _ Hb) as [Hnd Hin].
  eapply wp_demand; [exact Hb|]. eapply wp_mono; [apply (process_blocked_spec n M)|]; [done|done| | |].
  - intros p Hp. apply Hin in Hp as (c & ? & ? & _). by exists c.
  - intros p c Hc Hbc Hl. apply Hin. exists c. by rewrite Hl.
  - intros u dec' (cs' & -> & Hok' & Hh & Hm). eexists cs', _. split; [done|]. split; [|split; [done|split; [done|by exists b]]].
    destruct Hok'. constructor; try done. intros p c Hc Hbc.
    destruct (co_waiting0 p c Hc Hbc) as (ric & Hr & HM & Hl).
    apply unblocked_waits; [by exists ric|]. rewrite <- Hlast by done. intros Heq.
    rewrite Hm in Hc. destruct (cx_mem (qpd_ctxs dec) !! p) as [c0|]; [|done]. injection Hc as Hc.
    unfold unblocked in Hc. destruct (is_blocked c0) eqn:E0; [|cbn in Hc; congruence].
    destruct (Z.eqb_spec (hbrc_largest_ref c0) (qpd_last_id (qpd_tab dec))); cbn [andb] in Hc; [|congruence].
    rewrite <- Hc in Hbc. by rewrite is_blocked_cleared in Hbc.
Qed.
End process.

(** ** Flags *)

Lemma is_blocked_or c f : Z.testbit f 2 = false ->
  is_blocked (set_hbrc_flags (Z.lor (hbrc_flags c) f) c) = is_blocked c.
Proof.
  intros Hf. unfold is_blocked. change HBRC_BLOCKED with (2 ^ 2). cbn [set_hbrc_flags hbrc_flags].
  rewrite !has_bits_pow2 by lia. by rewrite Z.lor_spec, Hf, orb_false_r.
Qed.

Lemma is_blocked_set c : is_blocked (set_hbrc_flags (Z.lor (hbrc_flags c) HBRC_BLOCKED) c) = true.
Proof.
  unfold is_blocked. change HBRC_BLOCKED with (2 ^ 2). cbn [set_hbrc_flags hbrc_flags].
  rewrite has_bits_pow2 by lia. rewrite Z.lor_spec. change (Z.testbit (2 ^ 2) 2) with true. by rewrite orb_true_r.
Qed.

(** ** A new context *)

Lemma ctxs_new n M cs : ctxs_ok n M cs -> cx_mem cs !! cx_next cs = None.
Proof.
  intros H. destruct (cx_mem cs !! cx_next cs) eqn:E; [|done].
  pose proof (co_fresh _ _ _ H _ (mk_is_Some _ _ E)). lia.
Qed.

Lemma insert_ctx_ok n M c cs :
  ctxs_ok n M cs -> is_blocked c = false -> ctxs_ok n M (insert_ctx c cs).
Proof.
  intros H Hb. pose proof (ctxs_new _ _ _ H) as Hnew. destruct H.
  assert (forall i q, in_bucket (insert_ctx c cs) i q <-> in_bucket cs i q) as Hib.
  { intros i q. unfold in_bucket. cbn [insert_ctx cx_mem]. destruct (decide (q = cx_next cs)) as [->|Hne].
    - rewrite lookup_insert_eq, Hnew. split; [|by intros (? & ? & _)].
      intros (x & [= <-] & Hx & _). by rewrite is_blocked_or, Hb in Hx.
    - by rewrite lookup_insert_ne. }
  constructor; cbn [insert_ctx cx_mem cx_next qpd_hbrcs qpd_blocked_headers qpd_n_blocked]; try done.
  - apply NoDup_app. split; [done|]. split; [|apply NoDup_singleton].
    intros q Hq ->%list_elem_of_singleton. apply co_mem0 in Hq. rewrite Hnew in Hq. by destruct Hq.
  - intros q. rewrite elem_of_app, list_elem_of_singleton, co_mem0.
    destruct (decide (q = cx_next cs)) as [->|Hne].
    + rewrite lookup_insert_eq. split; [done|by right].
    + rewrite lookup_insert_ne by done. split; [by intros [?|?]|by left].
  - intros q. destruct (decide (q = cx_next cs)) as [->|Hne]; [lia|].
    rewrite lookup_insert_ne by done. intros Hq. specialize (co_fresh0 _ Hq). lia.
  - intros i b Hi. destruct (co_bucket0 i b Hi) as [Hnd Hin]. split; [done|]. intros q. by rewrite Hin, Hib.
  - intros q x. destruct (decide (q = cx_next cs)) as [->|Hne].
    + rewrite lookup_insert_eq. intros [= <-]. by rewrite is_blocked_or, Hb.
    + rewrite lookup_insert_ne by done. apply co_waiting0.
Qed.

(** ** A context that changes *)

Lemma set_ctx_ok n M p c c' cs :
  ctxs_ok n M cs -> cx_mem cs !! p = Some c -> is_blocked c' = is_blocked c ->
  (is_blocked c = true -> hbrc_largest_ref c' = hbrc_largest_ref c) ->
  ctxs_ok n M (set_ctx p c' cs).
Proof.
  intros H Hp Hb Hl. destruct H.
  assert (forall i q, in_bucket (set_ctx p c' cs) i q <-> in_bucket cs i q) as Hib.
  { intros i q. unfold in_bucket. cbn [set_ctx cx_mem]. destruct (decide (q = p)) as [->|Hne].
    - rewrite lookup_insert_eq, Hp. split; intros (x & [= <-] & Hx & Hi);
        [exists c; rewrite <- Hl by congruence|exists c'; rewrite Hl by congruence]; split_and!; congruence.
    - by rewrite lookup_insert_ne. }
  constructor; cbn [set_ctx cx_mem cx_next qpd_hbrcs qpd_blocked_headers qpd_n_blocked]; try done.
  - intros q. rewrite (mem_dom _ _ _ _ _ Hp). apply co_mem0.
  - intros q. rewrite (mem_dom _ _ _ _ _ Hp). apply co_fresh0.
  - intros i b Hi. destruct (co_bucket0 i b Hi) as [Hnd Hin]. split; [done|]. intros q. by rewrite Hin, Hib.
  - intros q x. destruct (decide (q = p)) as [->|Hne].
    + rewrite lookup_insert_eq. intros [= <-] Hx. rewrite Hb in Hx.
      destruct (co_waiting0 p c Hp Hx) as (ric & Hr & HM & Hw). exists ric. split; [done|]. split; [done|]. by rewrite Hl.
    + rewrite lookup_insert_ne by done. apply co_waiting0.
Qed.

(** ** Blocking *)

Lemma block_ctx_ok n M p c cs :
  ctxs_ok n M cs -> cx_mem cs !! p = Some c -> is_blocked c = false -> waiting n M c ->
  qpd_n_blocked cs + 1 < 2 ^ 32 ->
  ctxs_ok n M (block p c cs).
Proof.
  intros H Hp Hb Hw Hs. destruct (bucket_exists _ _ _ (hbrc_largest_ref c) H) as [b Hbk].
  pose proof (concat_alter_length (fun l => l ++ [p]) _ _ _ Hbk) as Hlen. cbn beta in Hlen. rewrite length_app in Hlen. cbn [length] in Hlen.
  pose proof (co_count _ _ _ H) as Hn.
  assert (u32 (qpd_n_blocked cs + 1) = qpd_n_blocked cs + 1) as E
    by (apply u32_id; change (2 ^ 32) with 4294967296 in *; ulia).
  destruct H. set (c' := set_hbrc_flags (Z.lor (hbrc_flags c) HBRC_BLOCKED) c).
  assert (is_blocked c' = true) as Hc' by apply is_blocked_set.
  assert (forall i q, in_bucket (block p c cs) i q
    <-> in_bucket cs i q \/ q = p /\ i = blocked_bucket (hbrc_largest_ref c)) as Hib.
  { intros i q. unfold in_bucket. cbn [block set_ctx cx_mem]. destruct (decide (q = p)) as [->|Hne].
    - rewrite lookup_insert_eq, Hp. split.
      + intros (x & [= <-] & _ & Hi). by right.
      + intros [(x & [= <-] & ? & _)|[_ ->]]; [congruence|]. by exists c'.
    - rewrite lookup_insert_ne by done. split; [by left|by intros [?|[? _]]]. }
  constructor; cbn [block set_ctx cx_mem cx_next qpd_hbrcs qpd_blocked_headers qpd_n_blocked]; try done.
  - by rewrite length_alter.
  - intros q. rewrite (mem_dom _ _ _ _ _ Hp). apply co_mem0.
  - intros q. rewrite (mem_dom _ _ _ _ _ Hp). apply co_fresh0.
  - intros i b' Hi. destruct (decide (i = blocked_bucket (hbrc_largest_ref c))) as [->|Hne].
    + rewrite list_lookup_alter_eq, Hbk in Hi. injection Hi as <-. destruct (co_bucket0 _ _ Hbk) as [Hnd Hin]. split.
      * apply NoDup_app. split; [done|]. split; [|apply NoDup_singleton].
        intros q Hq ->%list_elem_of_singleton. apply Hin in Hq as (x & Hx & ? & _). congruence.
      * intros q. rewrite elem_of_app, list_elem_of_singleton, Hin, Hib. split; (intros [?|?]; [by left|right; tauto]).
    + rewrite list_lookup_alter_ne in Hi by done. destruct (co_bucket0 _ _ Hi) as [Hnd Hin]. split; [done|].
      intros q. rewrite Hin, Hib. split; [by left|by intros [?|[_ ?]]].
  - rewrite E. lia.
  - by rewrite E.
  - intros q x. destruct (decide (q = p)) as [->|Hne].
    + rewrite lookup_insert_eq. by intros [= <-] _.
    + rewrite lookup_insert_ne by done. apply co_waiting0.
Qed.

(** ** Removing *)

(** The contexts without one of them. *)
Definition removed (p : Z) (cs : read_ctxs) : read_ctxs :=
  {| cx_mem := delete p (cx_mem cs); cx_next := cx_next cs;
     qpd_hbrcs := filter (fun q => q <> p) (qpd_hbrcs cs);
     qpd_blocked_headers := qpd_blocked_headers cs; qpd_n_blocked := qpd_n_blocked cs |}.

Lemma removed_ok n M p c cs :
  ctxs_ok n M cs -> cx_mem cs !! p = Some c -> is_blocked c = false -> ctxs_ok n M (removed p cs).
Proof.
  intros H Hp Hb. destruct H.
  assert (forall i q, in_bucket (removed p cs) i q <-> in_bucket cs i q) as Hib.
  { intros i q. unfold in_bucket. cbn [removed cx_mem]. destruct (decide (q = p)) as [->|Hne].
    - rewrite lookup_delete_eq, Hp. split; [by intros (? & ? & _)|]. intros (x & [= <-] & ? & _). congruence.
    - by rewrite lookup_delete_ne. }
  constructor; cbn [removed cx_mem cx_next qpd_hbrcs qpd_blocked_headers qpd_n_blocked]; try done.
  - by apply NoDup_filter.
  - intros q. rewrite list_elem_of_filter, lookup_delete_is_Some, co_mem0. split; intros [? ?]; by split; [congruence|].
  - intros q Hq. apply co_fresh0. by apply lookup_delete_is_Some in Hq as [_ ?].
  - intros i b Hi. destruct (co_bucket0 i b Hi) as [Hnd Hin]. split; [done|]. intros q. by rewrite Hin, Hib.
  - intros q x Hx. apply lookup_delete_Some in Hx as [_ Hx]. by apply co_waiting0 with q.
Qed.
