(* ===== verification/DecStrings.v ===== *)
(** * Strings read in chunks

    A string of the encoder stream is written into the block of an entry as it
    arrives.  [plain_step] and [huff_step] say what one round does with the bytes at
    hand, for the string that [rest_plain] and [rest_huff] of [DecSpec] read. *)

From S2P Require Import Prelude IntCodec HuffTables Huffman HuffStream HuffDec StrCodec DecTable DecSpec.

(** ** The block *)

(** The [n] bytes from [base]. *)
Definition stored (base n : Z) (buf : bytes) : bytes :=
  take (Z.to_nat n) (drop (Z.to_nat base) buf).

Lemma stored_0 base buf : stored base 0 buf = [].
Proof. done. Qed.

Lemma stored_length base n buf :
  0 <= base -> 0 <= n -> base + n <= Z.of_nat (length buf) -> Z.of_nat (length (stored base n buf)) = n.
Proof. intros. unfold stored. rewrite length_take, length_drop. lia. Qed.

Lemma stored_bytes base n buf : is_bytes buf -> is_bytes (stored base n buf).
Proof. intros. by apply is_bytes_take, is_bytes_drop. Qed.

(** Appending to what is there. *)
Lemma write_stored base off src buf :
  0 <= base -> 0 <= off -> base + off + Z.of_nat (length src) <= Z.of_nat (length buf) ->
  is_bytes src -> is_bytes buf ->
  exists buf', write_at (base + off) src buf = Some buf'
    /\ length buf' = length buf /\ is_bytes buf'
    /\ stored base (off + Z.of_nat (length src)) buf' = stored base off buf ++ src
    /\ take (Z.to_nat base) buf' = take (Z.to_nat base) buf.
Proof.
  intros Hb Ho Hl Hs Hbuf. unfold write_at.
  destruct (Z.leb_spec 0 (base + off)); [|lia].
  destruct (Z.leb_spec (base + off + Z.of_nat (length src)) (Z.of_nat (length buf))); [|lia]. cbn [andb].
  eexists. split; [done|]. rewrite put_bytes_length by lia. split; [done|].
  unfold put_bytes. rewrite Z2Nat.inj_add by lia. split; [|split].
  - apply is_bytes_app; [by apply is_bytes_take|]. apply is_bytes_app; [done|by apply is_bytes_drop].
  - unfold stored. rewrite <- take_take_drop, <- app_assoc, (Z2Nat.inj_add off), Nat2Z.id by lia.
    rewrite drop_app_length' by (rewrite length_take; lia). rewrite app_assoc.
    rewrite take_app_length' by (rewrite length_app, length_take, length_drop; lia). done.
  - rewrite <- take_take_drop, <- !app_assoc. rewrite take_app_length' by (rewrite length_take; lia). done.
Qed.

(** [realloc] keeps what is stored. *)
Lemma stored_app base n buf ext :
  0 <= base -> 0 <= n -> base + n <= Z.of_nat (length buf) -> stored base n (buf ++ ext) = stored base n buf.
Proof. intros. unfold stored. rewrite drop_app_le, take_app_le by (rewrite ?length_drop; lia). done. Qed.

(** ** Plain strings *)

(** [n] bytes of the chunk are taken. *)
Lemma plain_step (left n : Z) (st buf r : bytes) :
  0 <= n <= left -> n <= Z.of_nat (length buf) ->
  rest_plain left st (buf ++ r)
  = rest_plain (left - n) (st ++ take (Z.to_nat n) buf) (drop (Z.to_nat n) buf ++ r).
Proof.
  intros Hn Hl. unfold rest_plain. rewrite !length_app, length_drop.
  destruct (Z.ltb_spec (Z.of_nat (length buf + length r)) left),
    (Z.ltb_spec (Z.of_nat (length buf - Z.to_nat n + length r)) (left - n)); try lia; [done|].
  rewrite <- (take_drop (Z.to_nat n) buf) at 1 2. rewrite <- !app_assoc.
  replace (Z.to_nat left) with (length (take (Z.to_nat n) buf) + Z.to_nat (left - n))%nat
    by (rewrite length_take; lia).
  by rewrite take_app_add, drop_app_add, app_assoc.
Qed.

Lemma plain_done st buf : rest_plain 0 st buf = Some (st, buf).
Proof. unfold rest_plain. destruct (Z.ltb_spec (Z.of_nat (length buf)) 0); [lia|]. cbn. by rewrite app_nil_r. Qed.

(** ** Huffman-coded strings *)

(** [nread] of [len] bytes have been used up, and half of the next one when the
    decoder resumes at its low nibble; [out] is what they say. *)
Record huff_reading (len nread : Z) (st : huff_decode_state) (out : bytes) : Prop := {
  hr_len : 0 <= nread <= len;
  hr_st : huff_state_ok st;
  hr_end : nread < len \/ (len = 0 /\ st = huff_fresh);
  hr_walk : exists bs, walk 1 bs = Some (out, huff_node st)
    /\ Z.of_nat (length bs) = 8 * nread + (if hds_resume st =? 3 then 4 else 0);
}.

Lemma huff_reading_fresh len : 0 <= len -> huff_reading len 0 huff_fresh [].
Proof.
  intros H. constructor; [lia|apply huff_fresh_ok| |by exists []].
  destruct (Z.eq_dec len 0); [by right|left; lia].
Qed.

Lemma huff_reading_bound len nread st out :
  huff_reading len nread st out -> 5 * Z.of_nat (length out) <= 8 * nread + 4 /\ 5 * Z.of_nat (length out) <= 8 * len.
Proof.
  intros [Hl _ He (bs & Hw & Hb)]. apply walk_length in Hw.
  destruct He as [He|[-> ->]]; [destruct (_ =? 3); lia|]. cbn in Hb. lia.
Qed.

Lemma length_bits_rest r src :
  (r = 3 -> src <> []) ->
  Z.of_nat (length (huff_rest r src)) + (if r =? 3 then 4 else 0) = 8 * Z.of_nat (length src).
Proof.
  intros H. unfold huff_rest. destruct (Z.eqb_spec r 3) as [->|].
  - destruct src as [|b src]; [by destruct H|]. rewrite length_app, length_z_bits, length_bytes_bits. cbn [length]. lia.
  - rewrite length_bytes_bits. lia.
Qed.

(** What the rounds of the loop see of one call. *)
Definition huff_step_spec (len nread : Z) (st : huff_decode_state) (out buf : bytes) (room : nat)
  (hdr : huff_decode_retval) (st' : huff_decode_state) : Prop :=
  let n := Z.of_nat (hdr_n_src hdr) in
  let out' := out ++ hdr_out hdr in
  let buf' := drop (hdr_n_src hdr) buf in
  match hdr_status hdr with
  | HUFF_DEC_OK =>
      (forall r, rest_huff (len - nread) st out (buf ++ r) = Some (out', buf' ++ r))
      /\ n = len - nread /\ (hdr_n_src hdr <= length buf)%nat /\ (length (hdr_out hdr) <= room)%nat
      /\ 5 * Z.of_nat (length out') <= 8 * len
  | HUFF_DEC_ERROR => forall r, rest_huff (len - nread) st out (buf ++ r) = None
  | _ =>
      (forall r, rest_huff (len - nread) st out (buf ++ r) = rest_huff (len - (nread + n)) st' out' (buf' ++ r))
      /\ huff_reading len (nread + n) st' out' /\ (hdr_n_src hdr <= length buf)%nat
      /\ match hdr_status hdr with
         | HUFF_DEC_END_DST => (length (hdr_out hdr) <= room)%nat /\ huff_progress room st hdr st'
             /\ 5 * Z.of_nat (length out + room) <= 8 * len
             /\ forall r v b, rest_huff (len - nread) st out (buf ++ r) = Some (v, b) -> (length out + room <= length v)%nat
         | _ => (length (hdr_out hdr) <= room)%nat /\ hdr_n_src hdr = length buf
         end
  end.

(** Nothing can be decoded to less than what is already there. *)
Lemma rest_huff_prefix n st out b v rest : rest_huff n st out b = Some (v, rest) -> exists o, v = out ++ o.
Proof.
  unfold rest_huff. destruct (_ <? _); [done|]. destruct (huff_finish _ _) as [o|]; [|done].
  intros [= <- _]. by exists o.
Qed.

Section huff_step.
Variables (len nread : Z) (st : huff_decode_state) (out buf : bytes) (room : nat).
Hypothesis Hr : huff_reading len nread st out.
Hypothesis Hroom : len = 0 -> (0 < room)%nat.
Hypothesis Hbuf : is_bytes buf.
Hypothesis Hne : buf <> [].

Local Abbreviation left := (len - nread).
Local Abbreviation size := (Z.min (Z.of_nat (length buf)) left).
Local Abbreviation chunk := (take (Z.to_nat size) buf).

Lemma chunk_split r : exists x, take (Z.to_nat left) (buf ++ r) = chunk ++ x
  /\ (Z.of_nat (length buf) >= left -> x = []) /\ chunk = take (Z.to_nat left) buf.
Proof.
  exists (take (Z.to_nat left - length buf) r). pose proof (hr_len _ _ _ _ Hr).
  assert (chunk = take (Z.to_nat left) buf) as E.
  { destruct (Z.le_gt_cases left (Z.of_nat (length buf))); [by rewrite Z.min_r|].
    rewrite Z.min_l, Nat2Z.id by lia. by rewrite !take_ge by lia. }
  split; [|split; [|done]].
  - rewrite E. apply take_app.
  - intros. replace (Z.to_nat left - length buf)%nat with 0%nat by lia. done.
Qed.

Lemma chunk_length : Z.of_nat (length chunk) = size.
Proof. pose proof (hr_len _ _ _ _ Hr). rewrite length_take. lia. Qed.

Lemma chunk_ne : hds_resume st = 3 -> chunk <> [].
Proof.
  intros H3 E. pose proof chunk_length as Hc. rewrite E in Hc. cbn in Hc.
  destruct (hr_end _ _ _ _ Hr) as [Hlt|[_ Hx]]; [|by rewrite Hx in H3]. destruct buf; [done|]. cbn [length] in Hc. lia.
Qed.

Lemma chunk_rest r x : take (Z.to_nat left) (buf ++ r) = chunk ++ x ->
  huff_rest (hds_resume st) (take (Z.to_nat left) (buf ++ r)) = huff_rest (hds_resume st) chunk ++ bytes_bits x.
Proof.
  intros ->. apply huff_rest_app. intros H3. pose proof chunk_length as Hc.
  destruct (hr_end _ _ _ _ Hr) as [Hlt|[_ ->]]; [|done]. intros E. rewrite E in Hc. cbn in Hc.
  destruct buf; [done|]. cbn [length] in Hc. lia.
Qed.

(** The bits a call has used, and the reader after it. *)
Lemma huff_used nsrc o st' bs :
  (nsrc < length chunk)%nat \/ (nsrc = length chunk /\ hds_resume st' <> 3 /\ size < left) ->
  huff_rest (hds_resume st) chunk = bs ++ huff_rest (hds_resume st') (drop nsrc chunk) ->
  walk (huff_node st) bs = Some (o, huff_node st') -> huff_state_ok st' ->
  (forall r, rest_huff left st out (buf ++ r)
     = rest_huff (len - (nread + Z.of_nat nsrc)) st' (out ++ o) (drop nsrc buf ++ r))
  /\ huff_reading len (nread + Z.of_nat nsrc) st' (out ++ o) /\ (nsrc <= length buf)%nat.
Proof.
  intros Hn Hbs Hw Hst'. pose proof chunk_length as Hc. pose proof (hr_len _ _ _ _ Hr) as Hlen.
  assert (nsrc <= length chunk)%nat as Hn' by lia.
  assert (Hnb : (nsrc <= length buf)%nat) by lia.
  assert (hds_resume st' = 3 -> drop nsrc chunk <> []) as Hd.
  { intros H3 E. apply (f_equal length) in E. rewrite length_drop in E. cbn in E. lia. }
  split; [|split; [|done]].
  - intros r. unfold rest_huff. rewrite !length_app, length_drop.
    destruct (Z.ltb_spec (Z.of_nat (length buf + length r)) left),
      (Z.ltb_spec (Z.of_nat (length buf - nsrc + length r)) (len - (nread + Z.of_nat nsrc))); try lia; [done|].
    destruct (chunk_split r) as (x & Hx & _ & _). rewrite (chunk_rest r x Hx), Hbs, <- app_assoc.
    rewrite (huff_finish_app _ _ _ _ _ Hw), <- huff_rest_app by done.
    assert (take (Z.to_nat (len - (nread + Z.of_nat nsrc))) (drop nsrc buf ++ r) = drop nsrc chunk ++ x) as ->.
    { rewrite <- (drop_app_le chunk x nsrc), <- Hx, <- (drop_app_le buf r nsrc) by lia.
      rewrite take_drop_commute. do 2 f_equal. lia. }
    destruct (huff_finish _ _) as [o'|]; [|done]. cbn. rewrite app_assoc. do 2 f_equal.
    rewrite <- (drop_app_le buf r nsrc), drop_drop by lia. f_equal. lia.
  - destruct (hr_walk _ _ _ _ Hr) as (bs0 & Hw0 & Hb0).
    pose proof (length_bits_rest (hds_resume st') (drop nsrc chunk) Hd) as Hl2.
    pose proof (length_bits_rest (hds_resume st) chunk chunk_ne) as Hl1.
    apply (f_equal length) in Hbs. rewrite length_app in Hbs. rewrite length_drop in Hl2.
    constructor; [lia|done|lia|]. exists (bs0 ++ bs). split.
    + rewrite walk_app, Hw0, Hw. done.
    + rewrite length_app. destruct (hds_resume st =? 3), (hds_resume st' =? 3); lia.
Qed.

(** What fills the room, or does not fit it, is within what the string can hold ... *)
Lemma huff_room_bound hdr : huff_full chunk room st (nread + size =? len) hdr ->
  5 * Z.of_nat (length out + length (hdr_out hdr)) <= 8 * len -> 5 * Z.of_nat (length out + room) <= 8 * len.
Proof.
  intros [<-|(_ & H0 & Hc5 & _)] Ho; [done|]. destruct (hr_walk _ _ _ _ Hr) as (bs0 & Hw0 & Hb0).
  apply walk_length in Hw0. pose proof chunk_length as Hc. pose proof (hr_len _ _ _ _ Hr).
  destruct (Z.eqb_spec (hds_resume st) 3); lia.
Qed.

(** ... and is no more than the string does hold. *)
Lemma huff_room_filled hdr n' st' b' r v b : huff_full chunk room st (nread + size =? len) hdr ->
  rest_huff left st out (buf ++ r) = rest_huff n' st' (out ++ hdr_out hdr) b' ->
  rest_huff left st out (buf ++ r) = Some (v, b) -> (length out + room <= length v)%nat.
Proof.
  intros [<-|(Hfin%Z.eqb_eq & _ & _ & Hlong)] E Hv.
  - rewrite E in Hv. apply rest_huff_prefix in Hv as [o ->]. rewrite !length_app. lia.
  - unfold rest_huff in Hv. rewrite length_app in Hv. pose proof (hr_len _ _ _ _ Hr).
    destruct (Z.ltb_spec (Z.of_nat (length buf + length r)) left); [done|].
    destruct (chunk_split r) as (x & Hx & Hnil & _). rewrite (chunk_rest r x Hx), Hnil, app_nil_r in Hv by lia.
    destruct (huff_finish _ _) as [o|] eqn:Ef; [|done]. injection Hv as <- _. specialize (Hlong _ eq_refl). rewrite length_app. lia.
Qed.

(** One call of [lsqpack_huff_decode]. *)
Lemma huff_step : len < 2 ^ 24 -> exists hdr st',
  lsqpack_huff_decode chunk room st (nread + size =? len) = Some (hdr, st')
  /\ call_ok chunk room st (nread + size =? len) hdr st' /\ huff_step_spec len nread st out buf room hdr st'.
Proof.
  change (2 ^ 24) with 16777216. intros Hl24. pose proof chunk_length as Hc. pose proof (hr_len _ _ _ _ Hr) as Hlen.
  destruct (decode_call chunk room st (nread + size =? len)) as (hdr & st' & E & Hok).
  { by apply is_bytes_take. }
  { change (2 ^ 29) with 536870912. lia. }
  { intros E0. rewrite E0 in Hc. cbn in Hc. destruct (hr_end _ _ _ _ Hr) as [Hlt|[Hl0 ->]]; [|by auto].
    assert (0 < length buf)%nat by (destruct buf; [done|cbn; lia]). lia. }
  { apply (hr_st _ _ _ _ Hr). }
  exists hdr, st'. split; [exact E|]. split; [exact Hok|]. pose proof (cl_spec _ _ _ _ _ _ Hok) as Hcall.
  unfold huff_call_spec in Hcall. unfold huff_step_spec.
  destruct (hdr_status hdr).
  - destruct Hcall as (Hfin & Hf & Hn & Ho). apply Z.eqb_eq in Hfin.
    destruct (hr_walk _ _ _ _ Hr) as (bs0 & Hw0 & Hb0).
    assert (huff_finish 1 (bs0 ++ huff_rest (hds_resume st) chunk) = Some (out ++ hdr_out hdr)) as Hfin1
      by (rewrite (huff_finish_app _ _ _ _ _ Hw0), Hf; done).
    apply huff_finish_length in Hfin1. rewrite (length_app bs0) in Hfin1.
    pose proof (length_bits_rest _ _ chunk_ne) as Hl. rewrite length_app in *.
    split; [|split; [lia|split; [lia|split; [done|destruct (hds_resume st =? 3); lia]]]].
    intros r. unfold rest_huff. rewrite length_app.
    destruct (Z.ltb_spec (Z.of_nat (length buf + length r)) left); [lia|].
    destruct (chunk_split r) as (x & Hx & Hnil & _). rewrite (chunk_rest r x Hx), Hnil by lia.
    rewrite app_nil_r, Hf. cbn. do 2 f_equal. rewrite drop_app_le by lia. do 2 f_equal. lia.
  - destruct Hcall as (Hfin & Hw & Hn & Ho & Hres & Hst'). apply Z.eqb_neq in Hfin.
    destruct (huff_used (hdr_n_src hdr) (hdr_out hdr) st' (huff_rest (hds_resume st) chunk)) as (H1 & H2 & H3).
    + right. split; [done|]. split; [rewrite Hres; done|lia].
    + by rewrite Hn, drop_all, Hres, app_nil_r.
    + done.
    + done.
    + split; [done|]. split; [done|]. split; [done|]. split; [done|lia].
  - destruct Hcall as (Hst' & Ho & Hn & (bs & Hbs & Hw) & Hp & Hfull).
    destruct (huff_used (hdr_n_src hdr) (hdr_out hdr) st' bs) as (H1 & H2 & H3); [by left|done..|].
    split; [done|]. split; [done|]. split; [done|]. split; [done|]. split; [done|].
    split; [apply (huff_room_bound hdr Hfull); apply huff_reading_bound in H2 as [_ H2]; by rewrite length_app in H2|].
    intros r v b. by eapply huff_room_filled.
  - intros r. unfold rest_huff. rewrite length_app.
    destruct (Z.ltb_spec (Z.of_nat (length buf + length r)) left); [done|].
    destruct (chunk_split r) as (x & Hx & Hnil & _). rewrite (chunk_rest r x Hx), Hcall; [done|].
    intros Hfin%Z.eqb_eq. rewrite Hnil by lia. done.
Qed.
End huff_step.
