(* ===== verification/DecReading.v ===== *)
(** * The states of [lsqpack_dec_enc_in]

    What the decoder's state means between two rounds of the loop: the references
    it holds ([dec_core]), what is known of the instruction that is being read
    ([state_ok]) and the reader of the rest of that instruction ([remaining]).
    [step_post] is the specification of one round. *)

From stdpp Require Import gmap.
From S2P Require Import Prelude Monad IntCodec HuffTables Huffman HuffStream StrCodec Xxhash.
From S2P Require Import StaticTable Ringbuf Rfc9204 EncTable DecTable DecState DecStream.
From S2P Require Import DecSpec DecBlocked DecStrings.

(** ** References *)

(** The entry whose name an instruction refers to. *)
Definition held_of (st : dei_state) : option Z :=
  match st with
  | DEI_WINR_BEGIN_READ_VAL_LEN w | DEI_WINR_READ_VAL_LEN w _ _ => wr_reffed_entry w
  | DEI_WINR_READ_VALUE_PLAIN w | DEI_WINR_READ_VALUE_HUFFMAN w _ => wv_reffed_entry w
  | _ => None
  end.

(** The block the entry is being built in. *)
Definition own_of (st : dei_state) : option Z :=
  match st with
  | DEI_WINR_READ_VALUE_PLAIN w | DEI_WINR_READ_VALUE_HUFFMAN w _ => wv_entry w
  | DEI_WONR_READ_NAME_HUFFMAN w _ | DEI_WONR_READ_NAME_PLAIN w
  | DEI_WONR_READ_VALUE_HUFFMAN w _ | DEI_WONR_READ_VALUE_PLAIN w => wo_entry w
  | DEI_WONR_BEGIN_READ_VAL_LEN p _ | DEI_WONR_READ_VAL_LEN p _ _ _ => p
  | _ => None
  end.

(** ** The rest of an instruction *)

Definition winr_inst (is_static : bool) (idx : Z) (v : bytes) : instruction :=
  if is_static then IInsertStaticName idx v else IInsertDynName idx v.

Definition then_inst (f : bytes -> instruction) (r : option (bytes * bytes)) : option (instruction * bytes) :=
  '(v, buf) ← r; Some (f v, buf).

(** The value of a literal. *)
Definition literal_value (n buf : bytes) : option (instruction * bytes) :=
  then_inst (IInsertLiteral n) (read_str 7 buf).

Definition literal_name (r : option (bytes * bytes)) : option (instruction * bytes) :=
  '(n, buf) ← r; literal_value n buf.

(** A length and a string. *)
Definition rest_len_str (huffman : bool) (p : Z) (st : dec_int_state) (buf : bytes)
  : option (bytes * bytes) :=
  '(n, buf) ← read_int_at p st buf; rest_str huffman n buf.

(** [e] is the entry being built. *)
Definition remaining (e : dec_table_entry) (st : dei_state) (buf : bytes) : option (instruction * bytes) :=
  match st with
  | DEI_NEXT_INST => read_instruction buf
  | DEI_WINR_READ_NAME_IDX s st =>
      '(n, buf) ← read_int_at 0 st buf; then_inst (winr_inst s n) (read_str 7 buf)
  | DEI_WINR_BEGIN_READ_VAL_LEN w =>
      then_inst (winr_inst (wr_is_static w) (wr_name_idx w)) (read_str 7 buf)
  | DEI_WINR_READ_VAL_LEN w h st =>
      then_inst (winr_inst (wr_is_static w) (wr_name_idx w)) (rest_len_str h 0 st buf)
  | DEI_WINR_READ_VALUE_PLAIN w =>
      then_inst (winr_inst (wv_is_static w) (wv_name_idx w))
        (rest_plain (wv_val_len w - wv_val_off w) (stored (wv_name_len w) (wv_val_off w) (dte_buf e)) buf)
  | DEI_WINR_READ_VALUE_HUFFMAN w st =>
      then_inst (winr_inst (wv_is_static w) (wv_name_idx w))
        (rest_huff (wv_val_len w - wv_nread w) st (stored (wv_name_len w) (wv_val_off w) (dte_buf e)) buf)
  | DEI_DUP_READ_IDX st => '(n, buf) ← read_int_at 0 st buf; Some (IDuplicate n, buf)
  | DEI_SIZE_UPD_READ_IDX st => '(n, buf) ← read_int_at 0 st buf; Some (ISetCapacity n, buf)
  | DEI_WONR_READ_NAME_LEN h st => literal_name (rest_len_str h 0 st buf)
  | DEI_WONR_READ_NAME_HUFFMAN w st =>
      literal_name (rest_huff (wo_str_len w - wo_nread w) st (stored 0 (wo_str_off w) (dte_buf e)) buf)
  | DEI_WONR_READ_NAME_PLAIN w =>
      literal_name (rest_plain (wo_str_len w - wo_str_off w) (stored 0 (wo_str_off w) (dte_buf e)) buf)
  | DEI_WONR_BEGIN_READ_VAL_LEN _ _ => literal_value (DTE_NAME e) buf
  | DEI_WONR_READ_VAL_LEN _ _ h st => then_inst (IInsertLiteral (DTE_NAME e)) (rest_len_str h 0 st buf)
  | DEI_WONR_READ_VALUE_HUFFMAN w st =>
      then_inst (IInsertLiteral (DTE_NAME e))
        (rest_huff (wo_str_len w - wo_nread w) st (stored (dte_name_len e) (wo_str_off w) (dte_buf e)) buf)
  | DEI_WONR_READ_VALUE_PLAIN w =>
      then_inst (IInsertLiteral (DTE_NAME e))
        (rest_plain (wo_str_len w - wo_str_off w) (stored (dte_name_len e) (wo_str_off w) (dte_buf e)) buf)
  end.

(** ** What is known while an instruction is read *)

(** The name an insertion refers to; [held] is the reference to its entry. *)
Record name_ref (t : dyn_table) (name : bytes) (is_static : bool) (idx : Z) (held : option Z) : Prop := {
  nr_static : is_static = true -> 0 <= idx < 99 /\ name = ste_name (ste_at idx) /\ held = None;
  nr_dyn : is_static = false -> fst <$> dt_get t (dt_inserted t - idx) = Some name /\ is_Some held;
}.

Definition winr_ok (t : dyn_table) (name : bytes) (w : winr) : Prop :=
  name_ref t name (wr_is_static w) (wr_name_idx w) (wr_reffed_entry w).

(** The caches of the entry being built are those of its name. *)
Definition own_hashes (name : bytes) (e : dec_table_entry) : Prop :=
  (has_bits (dte_flags e) DTEF_NAME_HASH = true -> dte_name_hash e = XXH32 name LSQPACK_XXH_SEED)
  /\ has_bits (dte_flags e) DTEF_NAMEVAL_HASH = false
  /\ (has_bits (dte_flags e) DTEF_NAME_IDX = true ->
        0 <= dte_name_idx e < 99 /\ ste_name (ste_at (dte_name_idx e)) = name).

(** The block holds [base + alloced] bytes, [off] of the value. *)
Record block_ok (base alloced off : Z) (e : dec_table_entry) : Prop := {
  bo_bytes : is_bytes (dte_buf e);
  bo_len : Z.of_nat (length (dte_buf e)) = base + alloced;
  bo_base : 0 <= base < 2 ^ 25;
  bo_off : 0 <= off <= alloced;
  bo_alloced : alloced <= 2 ^ 28;
}.

Record winr_val_ok (t : dyn_table) (name : bytes) (e : dec_table_entry) (w : winr_val) : Prop := {
  wv_ref : name_ref t name (wv_is_static w) (wv_name_idx w) (wv_reffed_entry w);
  wv_own : is_Some (wv_entry w);
  wv_ptr : wv_name w = (match wv_reffed_entry w with Some q => NameEntry q | None => NameStatic (wv_name_idx w) end);
  wv_nlen : wv_name_len w = Z.of_nat (length name);
  wv_bytes : is_bytes name;
  wv_block : block_ok (wv_name_len w) (wv_alloced_val_len w) (wv_val_off w) e;
  wv_elen : dte_name_len e = wv_name_len w;
  wv_hashes : own_hashes name e;
  wv_vlen : 0 <= wv_val_len w < 2 ^ 24;
}.

Definition wonr_own (entry : option Z) (e : dec_table_entry) : Prop := is_Some entry /\ dte_flags e = 0.

(** While the name is read. *)
Record wonr_name_ok (e : dec_table_entry) (w : wonr) : Prop := {
  wn_own : wonr_own (wo_entry w) e;
  wn_block : block_ok 0 (wo_alloced_len w) (wo_str_off w) e;
  wn_alloced : 0 < wo_alloced_len w;
  wn_slen : 0 <= wo_str_len w < 2 ^ 24;
}.

(** Once it is there. *)
Record wonr_named (entry : option Z) (alloced : Z) (e : dec_table_entry) : Prop := {
  wd_own : wonr_own entry e;
  wd_block : block_ok 0 alloced (dte_name_len e) e;
  wd_alloced : 0 < alloced;
  wd_name : 0 <= dte_name_len e < 2 ^ 25;
}.

Record wonr_val_ok (e : dec_table_entry) (w : wonr) : Prop := {
  wl_named : wonr_named (wo_entry w) (wo_alloced_len w) e;
  wl_off : 0 <= wo_str_off w /\ dte_name_len e + wo_str_off w <= wo_alloced_len w;
  wl_slen : 0 < wo_str_len w < 2 ^ 24;
}.

Definition state_ok (t : dyn_table) (name : bytes) (e : dec_table_entry) (st : dei_state) : Prop :=
  match st with
  | DEI_NEXT_INST => True
  | DEI_WINR_READ_NAME_IDX _ st => int_pending st
  | DEI_WINR_BEGIN_READ_VAL_LEN w => winr_ok t name w
  | DEI_WINR_READ_VAL_LEN w _ st => winr_ok t name w /\ int_pending st
  | DEI_WINR_READ_VALUE_PLAIN w =>
      winr_val_ok t name e w /\ wv_alloced_val_len w = wv_val_len w /\ wv_val_off w < wv_val_len w
  | DEI_WINR_READ_VALUE_HUFFMAN w st =>
      winr_val_ok t name e w /\ 0 < wv_alloced_val_len w /\ 0 < wv_val_len w
      /\ huff_reading (wv_val_len w) (wv_nread w) st (stored (wv_name_len w) (wv_val_off w) (dte_buf e))
  | DEI_DUP_READ_IDX st | DEI_SIZE_UPD_READ_IDX st | DEI_WONR_READ_NAME_LEN _ st => int_pending st
  | DEI_WONR_READ_NAME_HUFFMAN w st =>
      wonr_name_ok e w
      /\ huff_reading (wo_str_len w) (wo_nread w) st (stored 0 (wo_str_off w) (dte_buf e))
      /\ (wo_str_len w = 0 -> wo_str_off w = 0)
  | DEI_WONR_READ_NAME_PLAIN w =>
      wonr_name_ok e w /\ wo_str_len w <= wo_alloced_len w
      /\ (wo_str_off w < wo_str_len w \/ wo_str_off w = 0 /\ wo_str_len w = 0)
  | DEI_WONR_BEGIN_READ_VAL_LEN p a => wonr_named p a e
  | DEI_WONR_READ_VAL_LEN p a _ st => wonr_named p a e /\ int_pending st
  | DEI_WONR_READ_VALUE_HUFFMAN w st =>
      wonr_val_ok e w
      /\ huff_reading (wo_str_len w) (wo_nread w) st (stored (dte_name_len e) (wo_str_off w) (dte_buf e))
  | DEI_WONR_READ_VALUE_PLAIN w => wonr_val_ok e w /\ wo_str_off w < wo_str_len w
  end.

(** How often a destination with [room] bytes can grow by half before it has room for any
    string below 2^24 bytes. *)
Definition grow_rounds (room : Z) : nat :=
  Z.to_nat (if room <=? 0 then 52 else 51 - Z.log2 (room * room)).

Lemma grow_rounds_le room room' : room <= room' -> (grow_rounds room' <= grow_rounds room)%nat.
Proof.
  intros H. unfold grow_rounds. pose proof (Z.log2_nonneg (room' * room')).
  destruct (Z.leb_spec room 0), (Z.leb_spec room' 0); try lia.
  assert (Z.log2 (room * room) <= Z.log2 (room' * room')); [apply Z.log2_le_mono; nia|lia].
Qed.

Lemma grow_rounds_max room : (grow_rounds room <= 52)%nat.
Proof. unfold grow_rounds. pose proof (Z.log2_nonneg (room * room)). case_match; lia. Qed.

Lemma grow_rounds_lt room room' :
  0 <= room < 2 ^ 25 -> room + Z.max room 2 / 2 <= room' -> (grow_rounds room' < grow_rounds room)%nat.
Proof.
  change (2 ^ 25) with 33554432. intros H Hg. unfold grow_rounds.
  assert (1 <= Z.max room 2 / 2) by (apply Z.div_le_lower_bound; lia).
  rewrite (proj2 (Z.leb_gt room' 0)) by lia. pose proof (Z.log2_nonneg (room' * room')).
  destruct (Z.leb_spec room 0); [lia|].
  assert (Z.log2 (room * room) < 50) by (apply Z.log2_lt_pow2; [lia|change (2 ^ 50) with (33554432 * 33554432); nia]).
  enough (Z.log2 (room * room) + 1 <= Z.log2 (room' * room')) by lia.
  destruct (Z.lt_ge_cases room 7) as [Hs|Hs].
  - assert (room = 1 \/ room = 2 \/ room = 3 \/ room = 4 \/ room = 5 \/ room = 6) as Hc by lia.
    transitivity (Z.log2 ((room + Z.max room 2 / 2) * (room + Z.max room 2 / 2))).
    + destruct Hc as [->|[->|[->|[->|[->| ->]]]]]; by vm_compute.
    + apply Z.log2_le_mono. nia.
  - rewrite Z.max_l in Hg by lia. pose proof (Z.div_mod room 2). pose proof (Z.mod_pos_bound room 2).
    rewrite Z.add_1_r, <- Z.log2_double by lia. apply Z.log2_le_mono. nia.
Qed.

(** The rounds that may follow without reading a byte. *)
Definition huff_cost (room : Z) (st : huff_decode_state) : nat :=
  (grow_rounds room + (if (hds_resume st =? 3)%Z then 0 else 1))%nat.

Lemma huff_cost_max room st : (huff_cost room st <= 53)%nat.
Proof. unfold huff_cost. pose proof (grow_rounds_max room). case_match; lia. Qed.

(** A stop at a full destination brings the reader on, or makes it grow. *)
Lemma huff_cost_grow room room' st hdr st' :
  huff_progress (Z.to_nat room) st hdr st' -> 0 <= room < 2 ^ 25 ->
  (hdr_out hdr = [] -> room + Z.max room 2 / 2 <= room') ->
  (room <= 1 -> room <= room') ->
  (huff_cost room' st' < 64 * hdr_n_src hdr + huff_cost room st)%nat.
Proof.
  intros Hp Hr Hg Hg1. unfold huff_cost. pose proof (grow_rounds_max room').
  destruct Hp as [(Hn & Ho & ->)|[Hn|(H1 & H2 & Ho & Hr1)]].
  - pose proof (grow_rounds_lt room room' Hr (Hg Ho)). lia.
  - case_match; lia.
  - pose proof (grow_rounds_le room room' ltac:(lia)). rewrite H2, (proj2 (Z.eqb_neq _ _) H1). cbn. lia.
Qed.

Definition state_cost (e : dec_table_entry) (st : dei_state) : nat :=
  match st with
  | DEI_WINR_READ_VALUE_HUFFMAN w st => huff_cost (wv_alloced_val_len w - wv_val_off w)%Z st
  | DEI_WONR_READ_NAME_HUFFMAN w st => 1 + huff_cost (wo_alloced_len w - wo_str_off w)%Z st
  | DEI_WONR_READ_NAME_PLAIN _ => 1
  | DEI_WONR_READ_VALUE_HUFFMAN w st => huff_cost (wo_alloced_len w - dte_name_len e - wo_str_off w)%Z st
  | _ => 0
  end%nat.

(** ** The decoder between two rounds *)

Section reading.
Context {hset : Type} `{!HsetIf hset}.

(** [max] is the limit of the capacity, [rel] is true when no allocation fails. *)
Variables (max : Z) (rel : bool).

(** The table is [t]; its entries are at [l]; [held], with the name [name], and
    [own] are referenced by the instruction being read. *)
Record dec_core (t : dyn_table) (l : list Z) (held own : option Z) (name : bytes)
  (dec : lsqpack_dec hset) : Prop := {
  dc_tab : tab_rep (dt_inserted t) (qpd_tab dec) l held own;
  dc_dyn : dyn_of (dt_inserted t) (qpd_tab dec) l = t;
  dc_held : forall q, held = Some q -> DTE_NAME (entry_at (dt_heap (qpd_tab dec)) q) = name;
  dc_max : qpd_max_capacity (qpd_tab dec) = max;
  dc_ctxs : ctxs_ok (dt_inserted t) (qpd_max_entries (qpd_tab dec)) (qpd_ctxs dec);
  dc_mallocs : rel = true -> Forall is_Some (qpd_mallocs dec);
}.

(** The entry at an address of the heap that may be NULL. *)
Definition own_entry (own : option Z) (dec : lsqpack_dec hset) : dec_table_entry :=
  match own with Some p => entry_at (dt_heap (qpd_tab dec)) p | None => dummy_entry end.

Definition reading (dec : lsqpack_dec hset) (t : dyn_table) : Prop :=
  let st := qpd_enc_state dec in
  exists l name, dec_core t l (held_of st) (own_of st) name dec
    /\ state_ok t name (own_entry (own_of st) dec) st.

(** What holds after a failure: enough to clean up. *)
Definition stopped (dec : lsqpack_dec hset) : Prop :=
  exists t l name, dec_core t l (held_of (qpd_enc_state dec)) (own_of (qpd_enc_state dec)) name dec.

(** The reader of the rest of the stream. *)
Definition reader (dec : lsqpack_dec hset) : bytes -> option (instruction * bytes) :=
  remaining (own_entry (own_of (qpd_enc_state dec)) dec) (qpd_enc_state dec).

Definition cost (dec : lsqpack_dec hset) : nat :=
  state_cost (own_entry (own_of (qpd_enc_state dec)) dec) (qpd_enc_state dec).

(** The instruction on the wire is an error, as the RFC has it. *)
Definition refused (t : dyn_table) (rd : bytes -> option (instruction * bytes)) (buf : bytes) : Prop :=
  rel = true -> max <= 2 ^ 22 ->
  forall r i rest, is_bytes r -> rd (buf ++ r) = Some (i, rest) -> spec_apply max t i = None.

(** One round, from the table [t], the reader [rd] and the bytes [buf]. *)
Definition step_post (t : dyn_table) (rd : bytes -> option (instruction * bytes)) (c : nat)
  (buf : bytes) (s : enc_in_step) (dec : lsqpack_dec hset) : Prop :=
  match s with
  | Continue rest => exists used, buf = used ++ rest /\
      ( (* in the instruction *)
       (forall r, is_bytes r -> rd (buf ++ r) = reader dec (rest ++ r))
         /\ reading dec t /\ (64 * length rest + cost dec < 64 * length buf + c)%nat
       \/ (* at its end *)
       exists i t', (forall r, is_bytes r -> rd (buf ++ r) = Some (i, rest ++ r))
         /\ (64 * length rest < 64 * length buf + c)%nat /\ dec_apply max t i = Some t'
         /\ reading dec t' /\ qpd_enc_state dec = DEI_NEXT_INST)
  | Return z =>
      (z = 0 /\ reading dec t /\ forall r, is_bytes r -> rd (buf ++ r) = reader dec r)
      \/ (z = -1 /\ stopped dec /\ refused t rd buf)
  end.
End reading.
