(* ===== verification/DecCore.v ===== *)
(** * The operations on the decoder's references

    Weakest preconditions, over [dec_core] of [DecReading], of the operations the
    handlers of [lsqpack_dec_enc_in] are made of: allocating, filling and inserting
    the entry being built, and taking and giving back the reference to the entry
    whose name it takes. *)

From stdpp Require Import gmap.
From S2P Require Import Prelude Monad StrCodec Ringbuf Rfc9204 EncTable DecTable DecState DecStream.
From S2P Require Import DecSpec DecBlocked DecStrings DecReading.

Section core.
Context {hset : Type} `{!HsetIf hset}.
Variables (max : Z) (rel : bool).

Local Abbreviation core := (dec_core max rel).

Lemma core_own t l held p name (dec : lsqpack_dec hset) :
  core t l held (Some p) name dec ->
  dt_heap (qpd_tab dec) !! p = Some (entry_at (dt_heap (qpd_tab dec)) p).
Proof.
  intros [Ht _ _ _ _ _]. destruct (ho_own _ _ _ _ (tc_heap _ _ _ _ _ (tr_core _ _ _ _ _ Ht)) p eq_refl) as [_ [e He]].
  by rewrite (entry_at_lookup _ _ _ He).
Qed.

Lemma core_state t l held own name st (dec : lsqpack_dec hset) :
  core t l held own name dec -> core t l held own name (set_enc_state st dec).
Proof. by intros []. Qed.

Lemma core_bytes_in t l held own name n (dec : lsqpack_dec hset) :
  core t l held own name dec -> core t l held own name (set_bytes_in n dec).
Proof. by intros []. Qed.

Lemma core_mallocs t l held own name ms (dec : lsqpack_dec hset) :
  core t l held own name dec -> (rel = true -> Forall is_Some ms) ->
  core t l held own name (set_mallocs ms dec).
Proof. intros [] H. by constructor. Qed.

(** Without a reference the name does not matter. *)
Lemma core_name t l own name name' (dec : lsqpack_dec hset) :
  core t l None own name dec -> core t l None own name' dec.
Proof. intros []. by constructor. Qed.

Lemma wp_set_resume st (dec : lsqpack_dec hset) (Q : unit -> lsqpack_dec hset -> Prop) :
  Q tt (set_enc_state st dec) -> wp (set_resume st) dec Q.
Proof. done. Qed.

Lemma wp_on_table f tab (dec : lsqpack_dec hset) (Q : unit -> lsqpack_dec hset -> Prop) :
  f (qpd_tab dec) = Some tab -> Q tt (set_tab tab dec) -> wp (on_table f) dec Q.
Proof. unfold wp, on_table, part. by intros ->. Qed.

Lemma wp_the_entry p e (dec : lsqpack_dec hset) (Q : dec_table_entry -> lsqpack_dec hset -> Prop) :
  dt_heap (qpd_tab dec) !! p = Some e -> Q e dec -> wp (the_entry p) dec Q.
Proof. unfold wp, the_entry. by intros ->. Qed.

(** A new table with the same contents. *)
Lemma core_view t l held own held' own' name tab (dec : lsqpack_dec hset) :
  core t l held own name dec ->
  tab_rep (dt_inserted t) tab l held' own' -> same_view (qpd_tab dec) tab l held' ->
  (forall q, held' = Some q -> held = Some q) ->
  core t l held' own' name (set_tab tab dec).
Proof.
  intros [Ht Hd Hh Hm Hc Hms] Hrep Hv Hheld. constructor; cbn [set_tab qpd_tab qpd_ctxs qpd_mallocs]; try done.
  - by rewrite (same_view_dyn _ _ _ _ _ Hv).
  - intros q ->. rewrite <- (Hh q) by auto. destruct Hv as [Hv _].
    specialize (Hv q (refs_held l q)). by injection Hv.
  - destruct Hv as (_ & -> & _). done.
  - destruct Hv as (_ & _ & _ & _ & ->). done.
Qed.

(** ** The entry being built *)

Lemma wp_update_own t l held p name f (dec : lsqpack_dec hset) :
  core t l held (Some p) name dec ->
  wp (on_table (update_entry p f)) dec (fun _ dec' =>
    core t l held (Some p) name dec' /\ qpd_enc_state dec' = qpd_enc_state dec
    /\ own_entry (Some p) dec' = f (own_entry (Some p) dec)).
Proof.
  intros Hc. pose proof (core_own _ _ _ _ _ _ Hc) as He.
  destruct (own_update_rep _ _ _ _ p _ f (dc_tab _ _ _ _ _ _ _ _ Hc) He) as (tab & Hf & Hrep & Hv & He').
  eapply wp_on_table; [exact Hf|]. split; [|split; [done|cbn; by rewrite (entry_at_lookup _ _ _ He')]].
  by apply (core_view t l held (Some p)).
Qed.

(** [memcpy] into its block. *)
Lemma wp_write_own t l held p name off src f (dec : lsqpack_dec hset) buf :
  core t l held (Some p) name dec ->
  write_at off src (dte_buf (own_entry (Some p) dec)) = Some buf ->
  wp (on_table (fun tab =>
        e ← dt_heap tab !! p; buf ← write_at off src (dte_buf e);
        update_entry p (f buf) tab)) dec (fun _ dec' =>
    core t l held (Some p) name dec' /\ qpd_enc_state dec' = qpd_enc_state dec
    /\ own_entry (Some p) dec' = f buf (own_entry (Some p) dec)).
Proof.
  intros Hc Hw. pose proof (core_own _ _ _ _ _ _ Hc) as He.
  destruct (own_update_rep _ _ _ _ p _ (f buf) (dc_tab _ _ _ _ _ _ _ _ Hc) He) as (tab & Hf & Hrep & Hv & He').
  eapply wp_on_table; [rewrite He; cbn [mbind option_bind]; cbn [own_entry] in Hw; rewrite Hw; exact Hf|].
  split; [|split; [done|cbn; by rewrite (entry_at_lookup _ _ _ He')]].
  by apply (core_view t l held (Some p)).
Qed.

Lemma wp_malloc t l held own name (dec : lsqpack_dec hset) :
  core t l held own name dec ->
  wp dec_malloc dec (fun m dec' =>
    core t l held own name dec' /\ qpd_enc_state dec' = qpd_enc_state dec
    /\ qpd_tab dec' = qpd_tab dec /\ (m = None -> rel = false)).
Proof.
  intros Hc. unfold wp, dec_malloc, malloc. pose proof (dc_mallocs _ _ _ _ _ _ _ _ Hc) as Hm.
  destruct (qpd_mallocs dec) as [|m ms]; (split; [|split; [done|split; [done|]]]).
  - by apply core_mallocs.
  - done.
  - apply core_mallocs; [done|]. intros Hr. by apply Forall_cons_1 in Hm as [_ ?].
  - intros ->. destruct rel; [|done]. by apply Forall_cons_1 in Hm as [[? ?] _].
Qed.

Lemma wp_malloc_entry t l held name n (dec : lsqpack_dec hset) :
  core t l held None name dec ->
  wp (malloc_entry n) dec (fun o dec' =>
    qpd_enc_state dec' = qpd_enc_state dec /\
    match o with
    | Some p => core t l held (Some p) name dec' /\ exists mem, own_entry (Some p) dec' = fresh_entry mem n
    | None => core t l held None name dec' /\ rel = false
    end).
Proof.
  intros Hc. unfold malloc_entry. wpstep. eapply wp_mono; [by apply (wp_malloc t l held None name)|].
  intros m dec1 (Hc1 & Hst & Htab & Hm). destruct m as [mem|]; [|wpsteps; auto].
  wpsteps. destruct (alloc_entry _ _) as [p tab] eqn:E. wpsteps. split; [done|].
  destruct (alloc_rep _ _ _ _ (fresh_entry mem n) (dc_tab _ _ _ _ _ _ _ _ Hc1)) as (Hrep & Hv & He).
  rewrite E in Hrep, Hv, He. injection E as <- _. cbn [snd] in *. split.
  - by apply (core_view t l held None).
  - exists mem. cbn. by rewrite (entry_at_lookup _ _ _ He).
Qed.

Lemma wp_realloc_entry t l held p name n (dec : lsqpack_dec hset) :
  core t l held (Some p) name dec ->
  wp (realloc_entry p n) dec (fun ok dec' =>
    qpd_enc_state dec' = qpd_enc_state dec /\ core t l held (Some p) name dec' /\
    if ok : bool
    then exists mem, let e := own_entry (Some p) dec in
      own_entry (Some p) dec' = set_buf (take (Z.to_nat n) (dte_buf e)
        ++ fresh_bytes mem (n - Z.of_nat (length (dte_buf e)))) e
    else rel = false).
Proof.
  intros Hc. unfold realloc_entry. wpstep. eapply wp_mono; [by apply (wp_malloc t l held (Some p) name)|].
  intros m dec1 (Hc1 & Hst & Htab & Hm). destruct m as [mem|]; [|wpsteps; auto].
  wpsteps. eapply wp_mono; [by apply (wp_update_own t l held p name)|].
  intros u dec2 (Hc2 & Hst2 & He). wpsteps. split; [congruence|]. split; [done|].
  exists mem. cbn [own_entry] in *. by rewrite He, Htab.
Qed.

(** The entry is freed when it cannot be inserted. *)
Lemma wp_free_own t l held p name (dec : lsqpack_dec hset) :
  core t l held (Some p) name dec -> dte_refcnt (own_entry (Some p) dec) = 1 ->
  wp (on_table (qdec_decref_entry p)) dec (fun _ dec' =>
    core t l held None name dec' /\ qpd_enc_state dec' = qpd_enc_state dec).
Proof.
  intros Hc Hr. pose proof (core_own _ _ _ _ _ _ Hc) as He.
  destruct (own_free_rep _ _ _ _ p _ (dc_tab _ _ _ _ _ _ _ _ Hc) He Hr) as (tab & Hf & Hrep & Hv).
  eapply wp_on_table; [exact Hf|]. split; [|done]. by apply (core_view t l held (Some p)).
Qed.

(** ** The entry referred to *)

Lemma wp_incref t l own p name name' (dec : lsqpack_dec hset) :
  core t l None own name' dec -> p ∈ l -> DTE_NAME (entry_at (dt_heap (qpd_tab dec)) p) = name ->
  wp (on_table (incref_entry p)) dec (fun _ dec' =>
    core t l (Some p) own name dec' /\ qpd_enc_state dec' = qpd_enc_state dec).
Proof.
  intros Hc Hp Hn. destruct (incref_rep _ _ _ _ p (dc_tab _ _ _ _ _ _ _ _ Hc) Hp) as (tab & Hf & Hrep & Hv).
  eapply wp_on_table; [exact Hf|]. split; [|done]. destruct Hc as [Ht Hd Hh Hm Hcx Hms].
  constructor; cbn [set_tab qpd_tab qpd_ctxs qpd_mallocs]; try done.
  - by rewrite (same_view_dyn _ _ _ _ _ Hv).
  - intros q [= <-]. rewrite <- Hn. destruct Hv as [Hv _]. specialize (Hv p (refs_held l p)). by injection Hv.
  - destruct Hv as (_ & -> & _). done.
  - destruct Hv as (_ & _ & _ & _ & ->). done.
Qed.

Lemma wp_decref_held t l own p name (dec : lsqpack_dec hset) :
  core t l (Some p) own name dec ->
  wp (on_table (qdec_decref_entry p)) dec (fun _ dec' =>
    core t l None own name dec' /\ qpd_enc_state dec' = qpd_enc_state dec
    /\ own_entry own dec' = own_entry own dec).
Proof.
  intros Hc. destruct (decref_held_rep _ _ _ _ p (dc_tab _ _ _ _ _ _ _ _ Hc)) as (tab & Hf & Hrep & Hv & Ho).
  eapply wp_on_table; [exact Hf|]. split; [by apply (core_view t l (Some p) own)|]. split; [done|].
  destruct own as [q|]; [|done]. cbn. unfold entry_at. by rewrite (Ho q).
Qed.

(** ** Insertion *)

Lemma wp_push t l p name e (dec : lsqpack_dec hset) :
  core t l None (Some p) name dec -> own_entry (Some p) dec = e -> entry_good e -> dte_refcnt e = 1 ->
  wp (lsqpack_dec_push_entry p) dec (fun ok dec' =>
    qpd_enc_state dec' = qpd_enc_state dec /\
    if ok : bool then exists l', core (dec_insert (dte_nameval e) t) l' None None name dec'
    else core t l None (Some p) name dec' /\ rel = false /\ own_entry (Some p) dec' = e).
Proof.
  intros Hc He Hg Hr. unfold lsqpack_dec_push_entry. wpsteps.
  set (Q := fun (m : option mem_words) (dec1 : lsqpack_dec hset) =>
    core t l None (Some p) name dec1 /\ qpd_enc_state dec1 = qpd_enc_state dec
    /\ qpd_tab dec1 = qpd_tab dec /\ (m = None -> rel = false)).
  apply (wp_mono _ _ Q).
  { destruct (ringbuf_full _); [by apply wp_malloc|]. by wpsteps. }
  clear Hc. intros m dec1 (Hc & Hst & Htab & Hm). wpsteps.
  pose proof (core_own _ _ _ _ _ _ Hc) as Hlook.
  assert (entry_at (dt_heap (qpd_tab dec1)) p = e) as E by (by rewrite Htab). rewrite E in Hlook.
  pose proof (push_entry_rep (bool_decide (is_Some m)) _ _ _ _ _ _ (dc_tab _ _ _ _ _ _ _ _ Hc) Hlook Hg Hr) as Hpush.
  destruct (push_entry _ p (qpd_tab dec1)) as [[[] tab]|]; [| |done].
  - eapply wp_demand; [done|]. wpsteps. cbv beta iota. wpsteps.
    destruct Hpush as (l' & Hrep & Hdyn & Hmax). rewrite (dc_dyn _ _ _ _ _ _ _ _ Hc) in Hdyn.
    assert (qpd_max_entries tab = qpd_max_entries (qpd_tab dec1)) as Hent.
    { rewrite (tc_entries _ _ _ _ _ (tr_core _ _ _ _ _ Hrep)), Hmax.
      by rewrite (tc_entries _ _ _ _ _ (tr_core _ _ _ _ _ (dc_tab _ _ _ _ _ _ _ _ Hc))). }
    eapply wp_mono.
    { apply (process_blocked_headers_spec (dt_inserted t) (qpd_max_entries (qpd_tab dec1))).
      - apply (dc_ctxs _ _ _ _ _ _ _ _ Hc).
      - cbn. rewrite <- Hent. apply (tc_last _ _ _ _ _ (tr_core _ _ _ _ _ Hrep)). }
    intros u dec2 (cs' & app' & -> & Hcx & _). wpsteps.
    cbn [set_app set_ctxs set_tab qpd_tab qpd_enc_state]. split; [done|]. rewrite (proj2 (Z.leb_le _ _) (tr_fits _ _ _ _ _ Hrep)). exists l'.
    destruct Hc as [_ _ _ Hmx _ Hms]. constructor; cbn; try done; [by rewrite Hmx in Hmax|by rewrite Hent].
  - eapply wp_demand; [done|]. wpsteps. destruct Hpush as [Hok ->]. split; [done|]. split; [|split; [|done]].
    + by destruct dec1, Hc.
    + apply Hm. apply bool_decide_eq_false in Hok. destruct m; [by destruct Hok|done].
Qed.
End core.
