(* ===== verification/DecRounds.v ===== *)
(** * The rounds of [lsqpack_dec_enc_in]

    What the handlers have in common: reading an integer, reading a piece of a
    string into the entry being built, and inserting the entry; and the handlers of the
    two instructions without strings, Duplicate and Set Dynamic Table Capacity. *)

From stdpp Require Import gmap.
From S2P Require Import Prelude Monad IntCodec HuffTables Huffman HuffStream StrCodec Xxhash.
From S2P Require Import StaticTable Ringbuf Rfc9204 EncTable DecTable DecState DecStream.
From S2P Require Import DecSpec DecBlocked DecStrings DecReading DecCore.

Section rounds.
Context {hset : Type} `{!HsetIf hset}.
Variables (max : Z) (rel : bool).

Local Abbreviation core := (dec_core max rel).
Local Abbreviation post := (step_post max rel).

(** ** Ways a round ends *)

Lemma post_continue t l name rd c buf rest used st (dec : lsqpack_dec hset) :
  qpd_enc_state dec = st -> core t l (held_of st) (own_of st) name dec ->
  state_ok t name (own_entry (own_of st) dec) st -> buf = used ++ rest ->
  (forall r, is_bytes r -> rd (buf ++ r) = remaining (own_entry (own_of st) dec) st (rest ++ r)) ->
  (64 * length rest + state_cost (own_entry (own_of st) dec) st < 64 * length buf + c)%nat ->
  post t rd c buf (Continue rest) dec.
Proof.
  intros Hst Hc Hok -> Hrd Hm. exists used. split; [done|]. left. unfold reader, reading, cost. rewrite Hst.
  split; [done|]. split; [|done]. by exists l, name.
Qed.

Lemma post_wait t l name rd c buf st (dec : lsqpack_dec hset) :
  qpd_enc_state dec = st -> core t l (held_of st) (own_of st) name dec ->
  state_ok t name (own_entry (own_of st) dec) st ->
  (forall r, is_bytes r -> rd (buf ++ r) = remaining (own_entry (own_of st) dec) st r) ->
  post t rd c buf (Return 0) dec.
Proof.
  intros Hst Hc Hok Hrd. left. unfold reader, reading. rewrite Hst. split; [done|]. split; [|done].
  by exists l, name.
Qed.

Lemma post_fail t t' l name rd c buf st (dec : lsqpack_dec hset) :
  qpd_enc_state dec = st -> core t' l (held_of st) (own_of st) name dec ->
  refused max rel t rd buf -> post t rd c buf (Return (-1)) dec.
Proof.
  intros Hst Hc Hr. right. split; [done|]. split; [|done]. exists t', l, name. by rewrite Hst.
Qed.

(** A failed allocation refuses nothing. *)
Lemma refused_malloc t rd buf : rel = false -> refused max rel t rd buf.
Proof. intros -> ?. done. Qed.

(** The first bytes of the round are read. *)
Lemma post_prefix t rd rd' c buf used rest s (dec : lsqpack_dec hset) :
  buf = used ++ rest -> used <> [] ->
  (forall r, is_bytes r -> rd (buf ++ r) = rd' (rest ++ r)) ->
  post t rd' 64 rest s dec -> post t rd c buf s dec.
Proof.
  intros -> Hne Hrd. assert (0 < length used)%nat as Hu by (destruct used; [done|cbn; lia]).
  destruct s as [rest'|z]; cbn [step_post].
  - intros (used' & -> & H). exists (used ++ used'). split; [by rewrite app_assoc|].
    rewrite !length_app in *. destruct H as [(H1 & H2 & H3)|(i & t' & H1 & H2 & H3 & H4)].
    + left. split; [intros r Hr; by rewrite Hrd, H1|]. split; [done|lia].
    + right. exists i, t'. split; [intros r Hr; by rewrite Hrd, H1|]. split; [lia|done].
  - intros [(-> & H1 & H2)|(-> & H1 & H2)].
    + left. split; [done|]. split; [done|]. intros r Hr. by rewrite Hrd, H2.
    + right. split; [done|]. split; [done|]. intros Hrel Hmax r i rest' Hr. rewrite Hrd by done. by apply H2.
Qed.

Lemma post_ext t rd rd' c buf s (dec : lsqpack_dec hset) :
  (forall r, is_bytes r -> rd (buf ++ r) = rd' (buf ++ r)) -> post t rd' c buf s dec -> post t rd c buf s dec.
Proof.
  intros Hrd. destruct s as [rest'|z]; cbn [step_post].
  - intros (used & E & H). exists used. split; [done|].
    destruct H as [(H1 & H2 & H3)|(i & t' & H1 & H2 & H3 & H4)].
    + left. split; [intros r Hr; by rewrite Hrd, H1|done].
    + right. exists i, t'. split; [intros r Hr; by rewrite Hrd, H1|done].
  - intros [(-> & H1 & H2)|(-> & H1 & H2)].
    + left. split; [done|]. split; [done|]. intros r Hr. by rewrite Hrd, H2.
    + right. split; [done|]. split; [done|]. intros Hrel Hmax r i rest' Hr. rewrite Hrd by done. by apply H2.
Qed.

(** ** Integers *)

(** The result [res] of an integer decoder on [buf], for values below [lim]. *)
Definition int_result (lim p : Z) (st : dec_int_state) (buf : bytes) (res : dec_int_result) : Prop :=
  match res with
  | DecIntOk v rest => 0 <= v < lim /\ (exists used, buf = used ++ rest /\ used <> [])
      /\ forall r, read_int_at p st (buf ++ r) = Some (v, rest ++ r)
  | DecIntMore st' => int_pending st' /\ forall r, read_int_at p st (buf ++ r) = read_int_at 0 st' r
  | DecIntOverflow => forall r v rest, read_int_at p st (buf ++ r) = Some (v, rest) -> lim <= v
  end.

Lemma int24_result b0 src p st :
  is_bytes (b0 :: src) -> int_start p st ->
  int_result (2 ^ 24) p st (b0 :: src) (lsqpack_dec_int24 b0 src p st).
Proof. apply dec_int24_call. Qed.

Lemma int64_result b0 src p st :
  is_bytes (b0 :: src) -> int_start p st ->
  int_result (2 ^ 64) p st (b0 :: src) (lsqpack_dec_int b0 src p st).
Proof.
  intros Hb Hs. pose proof (dec_int_call b0 src p st Hb Hs) as H. unfold int_result.
  destruct (lsqpack_dec_int b0 src p st); [by destruct H as ([? ?] & ?)|done|].
  intros r v rest. by rewrite H.
Qed.

Lemma wp_with_int lim p st0 t l name rd (K : Z -> bytes -> option (instruction * bytes)) c buf res
    (again : dec_int_state -> dei_state) k (dec : lsqpack_dec hset) :
  int_result lim p st0 buf res ->
  core t l (held_of (qpd_enc_state dec)) (own_of (qpd_enc_state dec)) name dec ->
  (forall b, rd b = '(n, b) ← read_int_at p st0 b; K n b) ->
  (forall st', int_pending st' ->
     held_of (again st') = held_of (qpd_enc_state dec) /\ own_of (again st') = own_of (qpd_enc_state dec)
     /\ state_ok t name (own_entry (own_of (again st')) dec) (again st')
     /\ forall b, remaining (own_entry (own_of (again st')) dec) (again st') b = '(n, b) ← read_int_at 0 st' b; K n b) ->
  (forall n b i rest, lim <= n -> max <= 2 ^ 22 -> K n b = Some (i, rest) -> spec_apply max t i = None) ->
  (forall v rest, 0 <= v < lim -> (exists used, buf = used ++ rest) ->
     wp (k v rest) dec (post t (K v) 64 rest)) ->
  wp (with_int res again k) dec (post t rd c buf).
Proof.
  intros Hres Hc Hrd Hag Hbig Hk. destruct res as [v rest|st'|]; cbn [with_int int_result] in *.
  - destruct Hres as (Hv & (used & -> & Hne) & Hr). eapply wp_mono; [apply Hk; [done|by exists used]|].
    intros s dec'. apply (post_prefix _ _ _ _ _ used); [done|done|].
    intros r _. by rewrite Hrd, Hr.
  - destruct Hres as [Hp Hr]. destruct (Hag st' Hp) as (Hh & Ho & Hok & Hrem). wpstep.
    apply wp_set_resume. wpstep. eapply (post_wait t l name _ _ _ (again st')); [done| |exact Hok|].
    + rewrite Hh, Ho. by apply core_state.
    + intros r _. rewrite Hrd, Hr. symmetry. apply Hrem.
  - wpstep. eapply (post_fail t t l name); [done|done|]. intros _ Hmax r i rest _. rewrite Hrd.
    destruct (read_int_at p st0 (buf ++ r)) as [[n b]|] eqn:E; [|done]. cbn. eauto.
Qed.

(** ** Inserting the entry *)

(** What [insert_entry] leads to. *)
Definition inserted (t' : dyn_table) (rest : bytes) (s : enc_in_step) (dec : lsqpack_dec hset) : Prop :=
  (s = Continue rest /\ reading max rel dec t' /\ qpd_enc_state dec = DEI_NEXT_INST)
  \/ (s = Return (-1) /\ stopped max rel dec /\ rel = false).

Lemma wp_insert_entry t l p name e failed rest (dec : lsqpack_dec hset) :
  core t l None (Some p) name dec -> own_entry (Some p) dec = e -> entry_good e -> dte_refcnt e = 1 ->
  held_of failed = None -> own_of failed = None ->
  wp (insert_entry p failed rest) dec (inserted (dec_insert (dte_nameval e) t) rest).
Proof.
  intros Hc He Hg Hr Hh Ho. unfold insert_entry. wpstep.
  eapply wp_mono; [by eapply wp_push|]. intros ok dec1 (Hst & H). destruct ok.
  - destruct H as [l' Hc1]. wpstep. apply wp_set_resume. wpstep. left. split; [done|]. split; [|done].
    exists l', name. split; [by apply core_state|done].
  - destruct H as (Hc1 & Hrel & He1). wpstep. eapply wp_mono; [eapply wp_free_own; [done|congruence]|].
    intros u dec2 (Hc2 & _). wpstep. apply wp_set_resume. wpstep. right. split; [done|]. split; [|done].
    exists t, l, name. cbn [set_enc_state qpd_enc_state]. rewrite Hh, Ho. by apply core_state.
Qed.

Lemma post_inserted t t' rd c buf used rest i s (dec : lsqpack_dec hset) :
  buf = used ++ rest -> (forall r, is_bytes r -> rd (buf ++ r) = Some (i, rest ++ r)) ->
  (64 * length rest < 64 * length buf + c)%nat -> dec_apply max t i = Some t' ->
  inserted t' rest s dec -> post t rd c buf s dec.
Proof.
  intros E Hrd Hm Ha [(-> & Hr & Hst)|(-> & Hs & Hrel)].
  - exists used. split; [done|]. right. exists i, t'. done.
  - right. split; [done|]. split; [done|]. by apply refused_malloc.
Qed.

(** ** A piece of a string *)

(** [src] was written after the [off] bytes stored from [base]. *)
Record appended (base off : Z) (src buf buf' : bytes) : Prop := {
  ap_length : length buf' = length buf;
  ap_bytes : is_bytes buf';
  ap_stored : stored base (off + Z.of_nat (length src)) buf' = stored base off buf ++ src;
  ap_base : take (Z.to_nat base) buf' = take (Z.to_nat base) buf;
}.

(** The block may grow. *)
Lemma appended_grown base off src buf buf' ext : appended base off src buf buf' -> is_bytes ext ->
  0 <= base -> 0 <= off -> base + off + Z.of_nat (length src) <= Z.of_nat (length buf) ->
  appended base off src (buf ++ ext) (buf' ++ ext).
Proof.
  intros [Hl Hb Hs Ht] He H1 H2 H3. constructor.
  - by rewrite !length_app, Hl.
  - by apply is_bytes_app.
  - by rewrite !stored_app by lia.
  - by rewrite !take_app_le by lia.
Qed.

Lemma wp_store t l held p name base off src (dec : lsqpack_dec hset) :
  let e := own_entry (Some p) dec in
  core t l held (Some p) name dec -> 0 <= base -> 0 <= off ->
  base + off + Z.of_nat (length src) <= Z.of_nat (length (dte_buf e)) ->
  is_bytes src -> is_bytes (dte_buf e) ->
  wp (store p (base + off) src) dec (fun _ dec' =>
    core t l held (Some p) name dec' /\ qpd_enc_state dec' = qpd_enc_state dec
    /\ exists buf', own_entry (Some p) dec' = set_buf buf' e /\ appended base off src (dte_buf e) buf').
Proof.
  intros e Hc Hb Ho Hl Hs Hbuf.
  destruct (write_stored base off src (dte_buf e)) as (buf' & Hw & Hlen & Hby & Hst & Hba); [done..|].
  unfold store. eapply wp_mono; [by eapply (wp_write_own max rel t l held p name)|].
  intros u dec' (Hc' & Hs' & He'). split; [done|]. split; [done|]. by exists buf'.
Qed.

Lemma wp_huff_into t l held p name base off room len nread st buf (dec : lsqpack_dec hset) :
  let e := own_entry (Some p) dec in
  let size := Z.min (u32 (Z.of_nat (length buf))) (u32 (len - nread)) in
  core t l held (Some p) name dec -> 0 <= base -> 0 <= off -> 0 <= room ->
  base + off + room <= Z.of_nat (length (dte_buf e)) -> is_bytes (dte_buf e) ->
  huff_reading len nread st (stored base off (dte_buf e)) -> len < 2 ^ 24 -> (len = 0 -> 0 < room) ->
  is_bytes buf -> buf <> [] -> Z.of_nat (length buf) < 2 ^ 32 ->
  wp (huff_into p (base + off) room (take (Z.to_nat size) buf) st (u32 (nread + size) =? len)) dec
    (fun r dec' => core t l held (Some p) name dec' /\ qpd_enc_state dec' = qpd_enc_state dec
      /\ exists buf', own_entry (Some p) dec' = set_buf buf' e
        /\ appended base off (hdr_out (fst r)) (dte_buf e) buf'
        /\ huff_step_spec len nread st (stored base off (dte_buf e)) buf (Z.to_nat room) (fst r) (snd r)).
Proof.
  intros e size Hc Hb Ho Hrm Hl Hby Hr Hlen H0 Hbuf Hne Hbl. pose proof (hr_len _ _ _ _ Hr).
  change (2 ^ 24) with 16777216 in *. change (2 ^ 32) with 4294967296 in *.
  assert (size = Z.min (Z.of_nat (length buf)) (len - nread)) as Hsz.
  { unfold size. rewrite !u32_id by ulia. done. }
  assert (u32 (nread + size) = nread + size) as -> by (apply u32_id; ulia). rewrite Hsz.
  unfold huff_into. wpstep. eapply wp_the_entry; [by eapply core_own|]. wpstep.
  change (entry_at (dt_heap (qpd_tab dec)) p) with e.
  apply wp_assert.
  { apply andb_true_intro. split; apply Z.leb_le; lia. }
  destruct (huff_step len nread st (stored base off (dte_buf e)) buf (Z.to_nat room))
    as (hdr & st' & E & [_ Hout Hob] & Hstep); [done|lia|done|done|done|].
  wpstep. eapply wp_demand; [exact E|]. cbn beta iota. wpstep. eapply wp_mono; [eapply (wp_store t l held p name base off); done || (fold e; lia)|].
  intros u dec' (Hc' & Hs' & buf' & He' & Hap). wpstep. split; [done|]. split; [done|].
  exists buf'. split; [done|]. done.
Qed.

(** [realloc] to a block of [n] bytes, not less than before. *)
Lemma wp_grow t l held p name n (dec : lsqpack_dec hset) :
  let e := own_entry (Some p) dec in
  core t l held (Some p) name dec -> Z.of_nat (length (dte_buf e)) <= n -> is_bytes (dte_buf e) ->
  wp (realloc_entry p n) dec (fun ok dec' =>
    qpd_enc_state dec' = qpd_enc_state dec /\ core t l held (Some p) name dec' /\
    if ok : bool
    then exists ext, own_entry (Some p) dec' = set_buf (dte_buf e ++ ext) e
      /\ is_bytes ext /\ Z.of_nat (length (dte_buf e ++ ext)) = n
    else rel = false).
Proof.
  intros e Hc Hn Hb. eapply wp_mono; [by apply (wp_realloc_entry max rel t l held p name)|].
  intros ok dec' (Hs & Hc' & H). split; [done|]. split; [done|]. destruct ok; [|done].
  destruct H as [mem H]. fold e in H. cbn zeta in H. rewrite take_ge in H by lia.
  eexists. split; [exact H|]. split.
  - unfold fresh_bytes. apply Forall_fmap, Forall_true. intros i. apply u8_range.
  - rewrite length_app. unfold fresh_bytes. rewrite length_fmap, length_seqZ. lia.
Qed.
End rounds.

(** ** Instructions without strings *)

Section rounds.
Context {hset : Type} `{!HsetIf hset}.
Variables (max : Z) (rel : bool).

Local Abbreviation core := (dec_core max rel).
Local Abbreviation post := (step_post max rel).

(** ** Looking up a relative index *)

Lemma core_get t l held own name (dec : lsqpack_dec hset) r :
  core t l held own name dec -> 0 <= r < 2 ^ 32 - 1 ->
  match qdec_get_table_entry_rel (qpd_tab dec) r with
  | Some q => q ∈ l /\ exists e, dt_heap (qpd_tab dec) !! q = Some e /\ entry_good e
      /\ dt_get t (dt_inserted t - r) = Some (dte_nameval e)
  | None => dt_get t (dt_inserted t - r) = None
  end.
Proof.
  intros Hc Hr. pose proof (get_entry_rel _ _ _ _ _ r (dc_tab _ _ _ _ _ _ _ _ Hc) Hr) as H.
  rewrite (dc_dyn _ _ _ _ _ _ _ _ Hc) in H. destruct (qdec_get_table_entry_rel _ r) as [q|]; [|done].
  destruct H as [Hq Hg]. split; [done|].
  destruct (core_entry _ _ _ _ _ q (tr_core _ _ _ _ _ (dc_tab _ _ _ _ _ _ _ _ Hc)) Hq) as (e & He & Hat & Hgood & _).
  exists e. by rewrite Hat in Hg.
Qed.

(** A table of at most 4 MiB has no entry with an index of more than 24 bits. *)
Lemma core_far t l held own name (dec : lsqpack_dec hset) r :
  core t l held own name dec -> max <= 2 ^ 22 -> 2 ^ 24 <= r -> dt_get t (dt_inserted t - r) = None.
Proof.
  intros Hc Hm Hr. unfold dt_get, dt_oldest.
  destruct (Z.leb_spec (dt_inserted t - Z.of_nat (length (dt_entries t)) + 1) (dt_inserted t - r)) as [H|]; [|done].
  rewrite <- (dc_dyn _ _ _ _ _ _ _ _ Hc) in H at 2. cbn [dyn_of dt_entries] in H. unfold fields in H.
  rewrite length_fmap in H. pose proof (dc_tab _ _ _ _ _ _ _ _ Hc) as [Hcore Hfit].
  pose proof (core_length _ _ _ _ _ Hcore). pose proof (tc_cap _ _ _ _ _ Hcore).
  rewrite (dc_max _ _ _ _ _ _ _ _ Hc) in *. change (2 ^ 22) with 4194304 in *. change (2 ^ 24) with 16777216 in *. lia.
Qed.

(** ** Duplicate *)

Lemma good_copy e : entry_good e ->
  let e' := set_refcnt 1 (set_buf (take (Z.to_nat (dte_name_len e + dte_val_len e)) (dte_buf e)) e) in
  entry_good e' /\ dte_nameval e' = dte_nameval e.
Proof.
  intros [Hn Hv Hb Hby Hh] e'.
  assert (DTE_NAME e' = DTE_NAME e) as E1.
  { unfold DTE_NAME, e'. cbn [set_refcnt set_buf dte_name_len dte_buf]. by rewrite take_take, Nat.min_l by lia. }
  assert (DTE_VALUE e' = DTE_VALUE e) as E2.
  { unfold DTE_VALUE, e'. cbn [set_refcnt set_buf dte_name_len dte_val_len dte_buf].
    rewrite !take_drop_commute, take_take. do 2 f_equal. lia. }
  split; [|unfold dte_nameval; by rewrite E1, E2].
  constructor; unfold e'; cbn [set_refcnt set_buf dte_name_len dte_val_len dte_buf]; [done|done| |by apply is_bytes_take|].
  - rewrite length_take. lia.
  - unfold hashes_ok in *. fold e'. rewrite E1, E2. exact Hh.
Qed.

Lemma wp_dup p st0 t l name c buf res (dec : lsqpack_dec hset) :
  int_result (2 ^ 24) p st0 buf res ->
  core t l None None name dec ->
  held_of (qpd_enc_state dec) = None -> own_of (qpd_enc_state dec) = None ->
  wp (dei_dup_read_idx res) dec
    (post t (fun b => '(n, b) ← read_int_at p st0 b; Some (IDuplicate n, b)) c buf).
Proof.
  intros Hres Hc Hh Ho. unfold dei_dup_read_idx.
  eapply (wp_with_int max rel _ p st0 t l name _ (fun n b => Some (IDuplicate n, b))); [exact Hres| |done| | |].
  - by rewrite Hh, Ho.
  - intros st' Hp. split_and!; [done..|exact Hp|done].
  - intros n b i rest Hn Hm [= <- <-]. cbn. by rewrite (core_far _ _ _ _ _ _ _ Hc Hm Hn).
  - intros v rest Hv _. wpsteps. pose proof (core_get _ _ _ _ _ _ v Hc) as Hget.
    change (2 ^ 32 - 1) with 4294967295 in Hget. change (2 ^ 24) with 16777216 in Hv. specialize (Hget ltac:(lia)).
    destruct (qdec_get_table_entry_rel _ v) as [q|].
    + destruct Hget as (Hq & e & He & Hg & Hdt). wpstep. eapply wp_the_entry; [exact He|]. wpstep.
      eapply wp_mono; [by apply (wp_malloc_entry max rel t l None name)|]. intros o dec1 (Hst1 & H1).
      destruct o as [p1|].
      * destruct H1 as [Hc1 _]. wpstep. eapply wp_mono; [by apply (wp_update_own max rel t l None p1 name)|].
        intros u dec2 (Hc2 & Hst2 & He2). wpsteps. destruct (good_copy e Hg) as [Hg' Hnv].
        eapply wp_mono.
        -- eapply wp_insert_entry; [exact Hc2|exact He2|exact Hg'|done|congruence|congruence].
        -- intros s dec3. apply (post_inserted max rel t _ _ 64 rest [] rest (IDuplicate v)); [done|done|lia|].
           cbn. rewrite Hdt. cbn. by rewrite Hnv.
      * destruct H1 as [Hc1 Hrel]. wpstep. eapply (post_fail max rel t t l name); [reflexivity|congruence|].
        by apply refused_malloc.
    + wpstep. eapply (post_fail max rel t t l name); [done|by rewrite Hh, Ho|].
      intros _ _ r i rest' _ [= <- <-]. cbn. by rewrite Hget.
Qed.

(** ** Set Dynamic Table Capacity *)

Lemma wp_size p st0 t l name c buf res (dec : lsqpack_dec hset) :
  int_result (2 ^ 64) p st0 buf res ->
  core t l None None name dec ->
  held_of (qpd_enc_state dec) = None -> own_of (qpd_enc_state dec) = None ->
  wp (dei_size_upd_read_idx res) dec
    (post t (fun b => '(n, b) ← read_int_at p st0 b; Some (ISetCapacity n, b)) c buf).
Proof.
  intros Hres Hc Hh Ho. unfold dei_size_upd_read_idx.
  eapply (wp_with_int max rel _ p st0 t l name _ (fun n b => Some (ISetCapacity n, b))); [exact Hres| |done| | |].
  - by rewrite Hh, Ho.
  - intros st' Hp. split_and!; [done..|exact Hp|done].
  - intros n b i rest Hn Hm [= <- <-]. cbn [spec_apply]. change (2 ^ 22) with 4194304 in Hm.
    change (2 ^ 64) with 18446744073709551616 in Hn. destruct (Z.leb_spec n max); [lia|done].
  - intros v rest Hv _. wpsteps. rewrite (dc_max _ _ _ _ _ _ _ _ Hc).
    pose proof (tc_max _ _ _ _ _ (tr_core _ _ _ _ _ (dc_tab _ _ _ _ _ _ _ _ Hc))) as Hmx.
    rewrite (dc_max _ _ _ _ _ _ _ _ Hc) in Hmx. change (2 ^ 31) with 2147483648 in Hmx.
    destruct (Z.leb_spec v max) as [Hle|Hgt].
    + wpstep. apply wp_set_resume. wpstep. rewrite (u32_id v) by ulia.
      destruct (update_max_capacity_rep _ _ _ _ _ v (dc_tab _ _ _ _ _ _ _ _ Hc)) as (tab & l' & Hf & Hrep & Hset & Hdyn & _).
      { rewrite (dc_max _ _ _ _ _ _ _ _ Hc). lia. }
      eapply wp_on_table; [exact Hf|]. wpstep. exists []. split; [done|]. right. exists (ISetCapacity v), (dt_set_capacity v t).
      split; [done|]. split; [lia|]. split; [cbn; by rewrite (proj2 (Z.leb_le v max))|]. split; [|done].
      exists l', name. split; [|done]. rewrite (dc_dyn _ _ _ _ _ _ _ _ Hc) in Hdyn.
      injection Hset as Hs1 Hs2 Hs3 Hs4 Hs5. destruct Hc as [_ _ _ Hmax' Hcx Hms].
      constructor; cbn; try done; [by rewrite Hs1|by rewrite Hs3].
    + wpstep. eapply (post_fail max rel t t l name); [done|by rewrite Hh, Ho|].
      intros _ _ r i rest' _ [= <- <-]. cbn [spec_apply]. by destruct (Z.leb_spec v max); [lia|].
Qed.
End rounds.
