(* ===== verification/DecWinr.v ===== *)
(** * Insertion with a name reference

    The rounds of [lsqpack_dec_enc_in] for that instruction. *)

From stdpp Require Import gmap.
From S2P Require Import Prelude Monad IntCodec HuffTables Huffman HuffStream StrCodec Xxhash.
From S2P Require Import StaticTable Ringbuf Rfc9204 EncTable DecTable DecState DecStream.
From S2P Require Import DecSpec DecBlocked DecStrings DecReading DecCore DecRounds.

(** ** Strings that do not fit *)

(** The code of a string is not much longer than the string. *)
Lemma rest_str_code h n b v rest :
  0 <= n -> rest_str h n b = Some (v, rest) -> 8 * n <= 30 * Z.of_nat (length v) + 7.
Proof.
  intros Hn. unfold rest_str, rest_huff, rest_plain. destruct h.
  - destruct (Z.ltb_spec (Z.of_nat (length b)) n); [done|].
    change (huff_node huff_fresh) with 1. change (huff_rest (hds_resume huff_fresh) ?x) with (bytes_bits x).
    destruct (huff_finish 1 _) as [o|] eqn:E; [|done]. cbn. intros [= <- _]. unfold huff_finish in E.
    destruct (walk 1 _) as [[o' q]|] eqn:W; [|done]. cbn in E. destruct (node_accepts q) eqn:Ha; [|done].
    injection E as ->. apply walk_sound in W as (Ho & Hq & Hb); [|lia].
    destruct (node_accepts_bits _ Hq Ha) as (k & Hk & Hp). rewrite Hp in Hb.
    change (path_bits 1) with (@nil bool) in Hb. cbn [app] in Hb. apply (f_equal length) in Hb.
    rewrite length_app, length_replicate, length_bytes_bits, length_take in Hb.
    pose proof (code_len_bound o Ho). pose proof (code_len_length o Ho). lia.
  - destruct (Z.ltb_spec (Z.of_nat (length b)) n); [done|]. intros [= <- _]. cbn [app]. rewrite length_take. lia.
Qed.

Lemma rest_str_0 h b : rest_str h 0 b = Some ([], b).
Proof.
  unfold rest_str, rest_huff, rest_plain. destruct (Z.ltb_spec (Z.of_nat (length b)) 0); [lia|].
  by destruct h.
Qed.

Lemma insert_too_large name v t :
  dt_capacity t < 32 + Z.of_nat (length name) + Z.of_nat (length v) -> dt_insert (name, v) t = None.
Proof.
  intros H. unfold dt_insert, field_size. cbn [fst snd]. rewrite Z.gtb_ltb. by rewrite (proj2 (Z.ltb_lt _ _)) by lia.
Qed.

(** The room the code checks for is enough for every string that fits. *)
Lemma huffman_room_large h n b v rest room :
  0 <= room <= 2 ^ 22 -> 0 <= n -> huffman_room room h < n -> rest_str h n b = Some (v, rest) ->
  room < Z.of_nat (length v).
Proof.
  intros Hc Hn Hroom Hs. pose proof (rest_str_code _ _ _ _ _ Hn Hs) as Hcode.
  change (2 ^ 22) with 4194304 in *. unfold huffman_room in Hroom. destruct h.
  - rewrite Z.shiftl_mul_pow2 in Hroom by lia. change (2 ^ 2) with 4 in Hroom. rewrite u32_id in Hroom by ulia. lia.
  - rewrite Z.shiftl_0_r, u32_id in Hroom by ulia. unfold rest_str, rest_plain in Hs.
    destruct (Z.ltb_spec (Z.of_nat (length b)) n); [done|]. injection Hs as <- _. cbn [app]. rewrite length_take. lia.
Qed.

Section winr.
Context {hset : Type} `{!HsetIf hset}.
Variables (max : Z) (rel : bool).

Local Abbreviation core := (dec_core max rel).
Local Abbreviation post := (step_post max rel).

Lemma core_cap t l held own name (dec : lsqpack_dec hset) :
  core t l held own name dec ->
  dt_capacity t = qpd_cur_max_capacity (qpd_tab dec) /\ 0 <= dt_capacity t <= max /\ max < 2 ^ 31.
Proof.
  intros Hc. pose proof (tr_core _ _ _ _ _ (dc_tab _ _ _ _ _ _ _ _ Hc)) as Ht.
  pose proof (tc_cap _ _ _ _ _ Ht). pose proof (tc_max _ _ _ _ _ Ht).
  assert (dt_capacity t = qpd_cur_max_capacity (qpd_tab dec)) as E
    by (rewrite <- (dc_dyn _ _ _ _ _ _ _ _ Hc); done).
  rewrite (dc_max _ _ _ _ _ _ _ _ Hc) in *. rewrite E. lia.
Qed.

Lemma core_held t l q own name (dec : lsqpack_dec hset) :
  core t l (Some q) own name dec ->
  exists e, dt_heap (qpd_tab dec) !! q = Some e /\ entry_good e /\ DTE_NAME e = name.
Proof.
  intros Hc. pose proof (tc_heap _ _ _ _ _ (tr_core _ _ _ _ _ (dc_tab _ _ _ _ _ _ _ _ Hc))) as Hh.
  destruct (heap_entry _ _ _ _ q Hh (refs_held l q)) as (e & He & Hat & Hg & _). exists e.
  split; [done|]. split; [done|]. rewrite <- Hat. by apply (dc_held _ _ _ _ _ _ _ _ Hc).
Qed.

Lemma name_length e : entry_good e -> Z.of_nat (length (DTE_NAME e)) = dte_name_len e.
Proof. intros [Hn Hv Hb _ _]. unfold DTE_NAME. rewrite length_take. lia. Qed.

(** The instruction inserts the name referred to with the value. *)
Lemma winr_spec t name s idx held v :
  name_ref t name s idx held -> spec_apply max t (winr_inst s idx v) = dt_insert (name, v) t.
Proof.
  intros [Hs Hd]. destruct s; cbn.
  - destruct (Hs eq_refl) as (Hi & -> & _).
    by rewrite (proj2 (Z.leb_le 0 idx)), (proj2 (Z.ltb_lt idx 99)) by lia.
  - destruct (Hd eq_refl) as [Hg _]. destruct (dt_get t _) as [f|]; [|done]. cbn in *. by injection Hg as <-.
Qed.

Lemma winr_dec t name s idx held v :
  name_ref t name s idx held -> dec_apply max t (winr_inst s idx v) = Some (dec_insert (name, v) t).
Proof.
  intros [Hs Hd]. destruct s; cbn.
  - destruct (Hs eq_refl) as (Hi & -> & _).
    by rewrite (proj2 (Z.leb_le 0 idx)), (proj2 (Z.ltb_lt idx 99)) by lia.
  - destruct (Hd eq_refl) as [Hg _]. destruct (dt_get t _) as [f|]; [|done]. cbn in *. by injection Hg as <-.
Qed.

(** ** The name *)

Lemma wp_winr_idx s p st0 t l name c buf res (dec : lsqpack_dec hset) :
  int_result (2 ^ 24) p st0 buf res -> core t l None None name dec ->
  held_of (qpd_enc_state dec) = None -> own_of (qpd_enc_state dec) = None ->
  wp (dei_winr_read_name_idx s res) dec
    (post t (fun b => '(n, b) ← read_int_at p st0 b; then_inst (winr_inst s n) (read_str 7 b)) c buf).
Proof.
  intros Hres Hc Hh Ho. unfold dei_winr_read_name_idx.
  eapply (wp_with_int max rel _ p st0 t l name _ (fun n b => then_inst (winr_inst s n) (read_str 7 b)));
    [exact Hres| |done| | |].
  - by rewrite Hh, Ho.
  - intros st' Hp. split_and!; [done..|exact Hp|done].
  - intros n b i rest Hn Hm. destruct (read_str 7 b) as [[v b']|]; [|done]. intros [= <- <-].
    change (2 ^ 24) with 16777216 in Hn. destruct s; cbn.
    + rewrite (proj2 (Z.ltb_ge n 99)) by lia. by rewrite andb_false_r.
    + by rewrite (core_far max rel _ _ _ _ _ _ _ Hc Hm Hn).
  - intros v rest Hv _. change (2 ^ 24) with 16777216 in Hv. destruct s.
    + destruct (Z.ltb_spec v 99) as [Hlt|Hge].
      * wpstep. apply wp_set_resume. wpstep.
        eapply (post_continue max rel t l (ste_name (ste_at v)) _ _ rest rest []); [reflexivity|..].
        -- apply core_state. by apply (core_name max rel t l None name).
        -- constructor; [|done]. intros _. cbn. split; [lia|done].
        -- done.
        -- done.
        -- cbn. lia.
      * wpstep. eapply (post_fail max rel t t l name); [reflexivity|congruence|].
        intros _ _ r i rest' _. destruct (read_str 7 (rest ++ r)) as [[x b']|]; [|done]. intros [= <- <-]. cbn.
        rewrite (proj2 (Z.ltb_ge v 99)) by lia. by rewrite andb_false_r.
    + wpsteps. pose proof (core_get max rel _ _ _ _ _ _ v Hc) as Hget.
      change (2 ^ 32 - 1) with 4294967295 in Hget. specialize (Hget ltac:(lia)).
      destruct (qdec_get_table_entry_rel _ v) as [q|].
      * destruct Hget as (Hq & e & He & Hg & Hdt). wpstep.
        eapply wp_mono; [eapply (wp_incref max rel t l None q (DTE_NAME e)); [exact Hc|done|]|].
        { by rewrite (entry_at_lookup _ _ _ He). }
        intros u dec1 (Hc1 & Hst1). wpstep. apply wp_set_resume. wpstep.
        eapply (post_continue max rel t l (DTE_NAME e) _ _ rest rest []); [reflexivity|..].
        -- by apply core_state.
        -- constructor; [done|]. intros _. cbn. by rewrite Hdt.
        -- done.
        -- done.
        -- cbn. lia.
      * wpstep. eapply (post_fail max rel t t l name); [reflexivity|congruence|].
        intros _ _ r i rest' _. destruct (read_str 7 (rest ++ r)) as [[x b']|]; [|done]. intros [= <- <-]. cbn.
        by rewrite Hget.
Qed.

Lemma wp_winr_name t l own name w (dec : lsqpack_dec hset) :
  core t l (wr_reffed_entry w) own name dec -> winr_ok t name w ->
  wp (winr_name w) dec (fun r dec' => dec' = dec
    /\ snd (fst r) = Z.of_nat (length name) /\ is_bytes name /\ Z.of_nat (length name) < 2 ^ 25
    /\ snd r = (match wr_reffed_entry w with Some q => NameEntry q | None => NameStatic (wr_name_idx w) end)
    /\ forall mem n, let e := init_winr_entry w (fst (fst r)) (Z.of_nat (length name)) (fresh_entry mem n) in
         own_hashes name e /\ dte_name_len e = Z.of_nat (length name) /\ dte_buf e = fresh_bytes mem n).
Proof.
  intros Hc [Hs Hd]. unfold winr_name. destruct (wr_is_static w).
  - destruct (Hs eq_refl) as (Hi & -> & Hr). wpstep.
    destruct (ste_facts _ Hi) as (Hl & _ & Hh & _ & Hl100 & _ & Hb & _).
    split; [done|]. cbn [fst snd]. split; [done|]. split; [done|]. split; [change (2 ^ 25) with 33554432; lia|].
    rewrite Hr. split; [done|]. intros mem n. split; [|done].
    unfold own_hashes, init_winr_entry. cbn [set_lens set_hashes dte_flags dte_name_hash dte_name_idx].
    rewrite Hh. split; [done|]. split; [done|]. done.
  - destruct (Hd eq_refl) as [_ [q Hq]]. rewrite Hq in *. wpstep. eapply wp_demand; [done|]. wpstep.
    destruct (core_held _ _ _ _ _ _ Hc) as (e & He & Hg & Hn). eapply wp_the_entry; [exact He|]. wpstep.
    pose proof (name_length e Hg) as Hl. rewrite Hn in Hl. cbn [fst snd].
    assert (is_bytes name) as Hb by (rewrite <- Hn; apply is_bytes_take, (eg_bytes _ Hg)).
    split; [done|]. split; [done|]. split; [done|]. split; [rewrite Hl; apply (eg_name _ Hg)|]. split; [done|].
    intros mem n. split; [|done].
    destruct (eg_hashes _ Hg) as (H1 & _ & H3). rewrite Hn in H1, H3.
    unfold own_hashes, init_winr_entry. cbn [set_lens set_hashes dte_flags dte_name_hash dte_name_idx].
    unfold has_bits in *. rewrite <- !Z.land_assoc. split; [exact H1|]. split; [|exact H3].
    change (Z.land (Z.lor DTEF_NAME_HASH DTEF_NAME_IDX) DTEF_NAMEVAL_HASH) with 0. by rewrite Z.land_0_r.
Qed.

(** ** Insertion *)

(** An entry whose strings are the name and what is stored after it. *)
Lemma finished_good name val_len buf e :
  own_hashes name e -> is_bytes name -> Z.of_nat (length name) < 2 ^ 25 -> 0 <= val_len < 2 ^ 25 ->
  is_bytes buf -> Z.of_nat (length name) + val_len <= Z.of_nat (length buf) ->
  take (length name) buf = name ->
  let e' := set_refcnt 1 (set_lens (Z.of_nat (length name)) val_len (set_buf buf e)) in
  entry_good e' /\ dte_nameval e' = (name, stored (Z.of_nat (length name)) val_len buf).
Proof.
  intros Hh Hb Hl Hv Hbuf Hlen Htake e'.
  assert (DTE_NAME e' = name) as Hn.
  { unfold DTE_NAME, e'. cbn [set_refcnt set_lens set_buf dte_name_len dte_buf]. by rewrite Nat2Z.id. }
  split.
  - constructor; cbn [e' set_refcnt set_lens set_buf dte_name_len dte_val_len dte_buf]; [lia|lia|lia|done|].
    destruct Hh as (H1 & H2 & H3). unfold hashes_ok. rewrite Hn.
    cbn [e' set_refcnt set_lens set_buf dte_flags dte_name_hash dte_name_idx]. split; [done|]. split; [by rewrite H2|].
    intros Hi. destruct (H3 Hi). by split.
  - unfold dte_nameval. rewrite Hn. done.
Qed.

(** [memcpy] of the name to the start of the block. *)
Lemma write_name (name buf : bytes) :
  (length name <= length buf)%nat -> is_bytes name -> is_bytes buf ->
  exists buf', write_at 0 name buf = Some buf' /\ length buf' = length buf /\ is_bytes buf'
    /\ take (length name) buf' = name /\ drop (length name) buf' = drop (length name) buf.
Proof.
  intros Hl Hn Hb. unfold write_at. destruct (Z.leb_spec (0 + Z.of_nat (length name)) (Z.of_nat (length buf))); [|lia].
  cbn [andb Z.leb Z.compare]. eexists. split; [done|]. rewrite put_bytes_length by lia. split; [done|].
  unfold put_bytes. change (Z.to_nat 0) with 0%nat. rewrite take_0, Nat.add_0_l, app_nil_l. split; [|split].
  - apply is_bytes_app; [done|by apply is_bytes_drop].
  - by rewrite take_app_length.
  - by rewrite drop_app_length.
Qed.

Lemma wp_winr_insert w p t l name val_len failed rest (dec : lsqpack_dec hset) :
  let e := own_entry (Some p) dec in
  core t l (wv_reffed_entry w) (Some p) name dec -> wv_entry w = Some p ->
  name_ref t name (wv_is_static w) (wv_name_idx w) (wv_reffed_entry w) ->
  wv_name w = (match wv_reffed_entry w with Some q => NameEntry q | None => NameStatic (wv_name_idx w) end) ->
  wv_name_len w = Z.of_nat (length name) -> is_bytes name -> Z.of_nat (length name) < 2 ^ 25 ->
  own_hashes name e -> is_bytes (dte_buf e) -> 0 <= val_len < 2 ^ 25 ->
  Z.of_nat (length name) + val_len <= Z.of_nat (length (dte_buf e)) ->
  held_of (failed (winr_done w)) = None -> own_of (failed (winr_done w)) = None ->
  wp (winr_insert_entry w val_len failed rest) dec
    (inserted max rel (dec_insert (name, stored (Z.of_nat (length name)) val_len (dte_buf e)) t) rest).
Proof.
  intros e Hc Hp Href Hptr Hnl Hnb Hn25 Hh Hb Hv Hl Hf1 Hf2. unfold winr_insert_entry.
  wpstep. eapply wp_demand; [exact Hp|]. wpstep.
  assert (wp (read_name (wv_name w)) dec (fun n dec' => dec' = dec /\ n = name)) as Hread.
  { rewrite Hptr. destruct (wv_reffed_entry w) as [q|] eqn:Hq; cbn [read_name].
    - destruct (core_held _ _ _ _ _ _ Hc) as (eq & He & Hg & Hnq). wpstep. eapply wp_the_entry; [exact He|]. by wpstep.
    - wpstep. split; [done|]. destruct Href as [Hs Hd]. destruct (wv_is_static w); [by destruct (Hs eq_refl) as (_ & -> & _)|].
      by destruct (Hd eq_refl) as [_ [? ?]]. }
  eapply wp_mono; [exact Hread|]. intros n dec0 [-> ->]. wpstep. rewrite Hnl, Nat2Z.id, take_ge by lia.
  destruct (write_name name (dte_buf e)) as (buf' & Hw & Hlen' & Hb' & Htake & Hdrop); [lia|done|done|].
  unfold finish_entry. eapply wp_mono.
  { eapply (wp_write_own max rel t l _ p name 0 name
      (fun buf e => set_refcnt 1 (set_lens (Z.of_nat (length name)) val_len (set_buf buf e)))); [exact Hc|exact Hw]. }
  intros u dec1 (Hc1 & Hst1 & He1). fold e in He1.
  destruct (finished_good name val_len buf' e Hh Hnb Hn25 Hv Hb' ltac:(lia) Htake) as [Hg Hnv].
  wpstep.
  assert (stored (Z.of_nat (length name)) val_len buf' = stored (Z.of_nat (length name)) val_len (dte_buf e)) as Hsame
    by (unfold stored; by rewrite Nat2Z.id, Hdrop).
  rewrite Hsame in Hnv.
  assert (forall dec2 : lsqpack_dec hset, core t l None (Some p) name dec2 -> own_entry (Some p) dec2 = own_entry (Some p) dec1 ->
    wp (insert_entry p (failed (winr_done w)) rest) dec2
      (inserted max rel (dec_insert (name, stored (Z.of_nat (length name)) val_len (dte_buf e)) t) rest)) as Hins.
  { intros dec2 Hc2 He2. rewrite <- Hnv. eapply wp_insert_entry; [exact Hc2|by rewrite He2|done|done|done|done]. }
  destruct (wv_reffed_entry w) as [q|].
  - eapply wp_mono; [by eapply (wp_decref_held max rel t l (Some p) q)|]. intros u2 dec2 (Hc2 & _ & He2). by apply Hins.
  - wpstep. by apply Hins.
Qed.

(** ** The length of the value *)

Lemma post_winr_inserted t name st idx held v rd c buf used rest s (dec : lsqpack_dec hset) :
  name_ref t name st idx held ->
  buf = used ++ rest ->
  (forall r, is_bytes r -> rd (buf ++ r) = Some (winr_inst st idx v, rest ++ r)) ->
  (64 * length rest < 64 * length buf + c)%nat ->
  inserted max rel (dec_insert (name, v) t) rest s dec -> post t rd c buf s dec.
Proof.
  intros Href E Hrd Hm. eapply post_inserted; [exact E|exact Hrd|exact Hm|]. by eapply winr_dec.
Qed.

Lemma bytes_fresh mem n : is_bytes (fresh_bytes mem n).
Proof. unfold fresh_bytes. apply Forall_fmap, Forall_true. intros i. apply u8_range. Qed.

Lemma length_fresh mem n : 0 <= n -> Z.of_nat (length (fresh_bytes mem n)) = n.
Proof. intros. unfold fresh_bytes. rewrite length_fmap, length_seqZ. lia. Qed.

(** The length is known and small enough. *)
Lemma wp_winr_value_state w (h : bool) st t l name val_len rest (dec : lsqpack_dec hset) ent nl ptr :
  core t l (wr_reffed_entry w) None name dec -> winr_ok t name w ->
  qpd_enc_state dec = DEI_WINR_READ_VAL_LEN w h st ->
  0 <= val_len < 2 ^ 24 -> nl = Z.of_nat (length name) -> is_bytes name -> nl < 2 ^ 25 ->
  ptr = (match wr_reffed_entry w with Some q => NameEntry q | None => NameStatic (wr_name_idx w) end) ->
  (forall mem n, let e := init_winr_entry w ent nl (fresh_entry mem n) in
     own_hashes name e /\ dte_name_len e = nl /\ dte_buf e = fresh_bytes mem n) ->
  let alloced := if h then u32 (val_len + val_len / 2) else val_len in
  wp (entry ← malloc_entry (nl + alloced);
      match entry with
      | None => mret (Return (-1))
      | Some p =>
          on_table (update_entry p (init_winr_entry w ent nl));;
          let v := {| wv_is_static := wr_is_static w; wv_name_idx := wr_name_idx w;
                      wv_reffed_entry := wr_reffed_entry w; wv_entry := Some p; wv_name := ptr;
                      wv_name_len := nl; wv_val_len := val_len; wv_alloced_val_len := alloced;
                      wv_val_off := 0; wv_nread := 0 |} in
          if negb (val_len =? 0) then
            set_resume (if h then DEI_WINR_READ_VALUE_HUFFMAN v huff_fresh
                        else DEI_WINR_READ_VALUE_PLAIN v);;
            mret (Continue rest)
          else
            winr_insert_entry v 0
              (fun _ => DEI_WINR_READ_VAL_LEN
                 {| wr_is_static := wr_is_static w; wr_name_idx := wr_name_idx w;
                    wr_reffed_entry := None |} h st) rest
      end) dec
    (post t (fun b => then_inst (winr_inst (wr_is_static w) (wr_name_idx w)) (rest_str h val_len b)) 64 rest).
Proof.
  intros Hc Hw Hst Hv Hnl Hnb Hn25 Hptr Hinit alloced. pose proof Hw as Href.
  change (2 ^ 24) with 16777216 in *. change (2 ^ 25) with 33554432 in *.
  assert (val_len <= alloced /\ alloced <= 2 * val_len /\ (0 < val_len -> 0 < alloced)) as Ha.
  { unfold alloced. destruct h; [|lia]. rewrite u32_id by ulia. dlia. }
  wpstep. eapply wp_mono; [by apply (wp_malloc_entry max rel t l (wr_reffed_entry w) name)|].
  intros o dec1 (Hst1 & H1). destruct o as [p|].
  2: { destruct H1 as [Hc1 Hrel]. wpstep. eapply (post_fail max rel t t l name); [reflexivity| |by apply refused_malloc].
       rewrite Hst1, Hst. exact Hc1. }
  destruct H1 as [Hc1 [mem He1]]. wpstep.
  eapply wp_mono; [by apply (wp_update_own max rel t l (wr_reffed_entry w) p name)|].
  intros u dec2 (Hc2 & Hst2 & He2). rewrite He1 in He2.
  destruct (Hinit mem (nl + alloced)) as (Hh & Hel & Hbuf). rewrite <- He2 in Hh, Hel, Hbuf. cbn zeta.
  pose proof (bytes_fresh mem (nl + alloced)) as Hfb. pose proof (length_fresh mem (nl + alloced) ltac:(lia)) as Hfl.
  rewrite <- Hbuf in Hfb, Hfl. destruct (Z.eqb_spec val_len 0) as [->|Hne]; cbn [negb].
  - eapply wp_mono.
    { eapply (wp_winr_insert _ p t l name 0); cbn [wv_reffed_entry wv_entry wv_is_static wv_name_idx wv_name wv_name_len];
        [exact Hc2|done|exact Href|exact Hptr|exact Hnl|done|lia|exact Hh|exact Hfb|lia|lia|done|done]. }
    intros s dec3. eapply (post_winr_inserted t name _ _ _ [] _ _ rest [] rest); [exact Href|done| |lia].
    intros r _. by rewrite rest_str_0.
  - wpstep. apply wp_set_resume. wpstep.
    set (v := {| wv_is_static := _ |}).
    assert (winr_val_ok t name (own_entry (Some p) dec2) v) as Hok.
    { constructor; cbn [v wv_reffed_entry wv_entry wv_is_static wv_name_idx wv_name wv_name_len wv_val_len wv_alloced_val_len wv_val_off];
        try done. constructor; [exact Hfb|lia|change (2 ^ 25) with 33554432; lia|lia|change (2 ^ 28) with 268435456; lia]. }
    destruct h.
    + eapply (post_continue max rel t l name _ _ rest rest [] (DEI_WINR_READ_VALUE_HUFFMAN v huff_fresh)); [done| | |done| |].
      * by apply core_state.
      * split; [exact Hok|]. cbn. split; [lia|]. split; [lia|]. apply huff_reading_fresh. lia.
      * intros r _. cbn. by rewrite Z.sub_0_r.
      * cbn [own_of v wv_entry state_cost]. pose proof (huff_cost_max (wv_alloced_val_len v - wv_val_off v) huff_fresh). lia.
    + eapply (post_continue max rel t l name _ _ rest rest [] (DEI_WINR_READ_VALUE_PLAIN v)); [done| | |done| |].
      * by apply core_state.
      * split; [exact Hok|]. cbn. split; [done|lia].
      * intros r _. cbn. by rewrite Z.sub_0_r.
      * cbn. lia.
Qed.

Lemma wp_winr_len w h st1 p st0 t l name c buf res (dec : lsqpack_dec hset) :
  int_result (2 ^ 24) p st0 buf res ->
  core t l (wr_reffed_entry w) None name dec -> winr_ok t name w ->
  qpd_enc_state dec = DEI_WINR_READ_VAL_LEN w h st1 ->
  wp (dei_winr_read_val_len w h st1 res) dec
    (post t (fun b => then_inst (winr_inst (wr_is_static w) (wr_name_idx w)) (rest_len_str h p st0 b)) c buf).
Proof.
  intros Hres Hc Hw Hst. unfold dei_winr_read_val_len.
  destruct (core_cap _ _ _ _ _ _ Hc) as (Hcap & Hcapr & Hmx). change (2 ^ 31) with 2147483648 in Hmx.
  eapply (wp_with_int max rel _ p st0 t l name _
    (fun n b => then_inst (winr_inst (wr_is_static w) (wr_name_idx w)) (rest_str h n b))); [exact Hres| | | | |].
  - by rewrite Hst.
  - intros b. unfold rest_len_str, then_inst. by destruct (read_int_at p st0 b) as [[n b']|].
  - intros st' Hp. rewrite Hst. split_and!; [done|done|by split|].
    intros b. cbn [remaining]. unfold rest_len_str, then_inst. by destruct (read_int_at 0 st' b) as [[n b']|].
  - intros n b i rest Hn Hm. destruct (rest_str h n b) as [[v b']|] eqn:E; [|done]. intros [= <- <-].
    rewrite (winr_spec t name _ _ _ _ Hw). apply rest_str_code in E; [|lia].
    change (2 ^ 24) with 16777216 in Hn. change (2 ^ 22) with 4194304 in Hm. apply insert_too_large. lia.
  - intros val_len rest Hv _. wpstep. eapply wp_mono; [by apply (wp_winr_name t l None name)|].
    intros [[ent nl] ptr] dec1 (-> & Hnl & Hnb & Hn25 & Hptr & Hinit). cbn [fst snd] in *. subst nl. wpsteps.
    assert (forall i, refused max rel t (fun b => then_inst (winr_inst (wr_is_static w) (wr_name_idx w)) (rest_str h val_len b)) rest ->
      i = Return (-1) -> post t (fun b => then_inst (winr_inst (wr_is_static w) (wr_name_idx w)) (rest_str h val_len b)) 64 rest i dec) as Hfail.
    { intros i Hr ->. eapply (post_fail max rel t t l name); [reflexivity|by rewrite Hst|exact Hr]. }
    destruct (Z.of_nat (length name) >? qpd_cur_max_capacity (qpd_tab dec)) eqn:E1.
    + wpstep. apply Hfail; [|done]. rewrite Z.gtb_ltb in E1. apply Z.ltb_lt in E1.
      intros _ _ r i rest' _. destruct (rest_str h val_len (rest ++ r)) as [[v b']|]; [|done]. intros [= <- <-].
      rewrite (winr_spec t name _ _ _ _ Hw). apply insert_too_large. lia.
    + rewrite Z.gtb_ltb in E1. apply Z.ltb_ge in E1.
      destruct (val_len >? huffman_room (qpd_cur_max_capacity (qpd_tab dec) - Z.of_nat (length name)) h) eqn:E2.
      * wpstep. apply Hfail; [|done]. rewrite Z.gtb_ltb in E2. apply Z.ltb_lt in E2.
        intros _ Hm r i rest' _. destruct (rest_str h val_len (rest ++ r)) as [[v b']|] eqn:E; [|done]. intros [= <- <-].
        rewrite (winr_spec t name _ _ _ _ Hw).
        apply insert_too_large. change (2 ^ 22) with 4194304 in Hm.
        pose proof (huffman_room_large h val_len _ v b' (qpd_cur_max_capacity (qpd_tab dec) - Z.of_nat (length name))
          ltac:(change (2 ^ 22) with 4194304; lia) ltac:(lia) E2 E). lia.
      * apply (wp_winr_value_state w h st1 t l name val_len rest dec ent _ ptr); try done; lia.
Qed.

(** ** The value *)

Lemma own_hashes_buf name buf e : own_hashes name e -> own_hashes name (set_buf buf e).
Proof. done. Qed.

(** The block after a piece was written. *)
Lemma winr_val_appended t name e w alloced nsrc src buf' blk :
  winr_val_ok t name e w -> 0 <= wv_val_off w + Z.of_nat (length src) <= alloced ->
  appended (wv_name_len w) (wv_val_off w) src blk buf' -> Z.of_nat (length blk) = wv_name_len w + alloced ->
  alloced <= 2 ^ 28 ->
  winr_val_ok t name (set_buf buf' e) (winr_progress w alloced nsrc (Z.of_nat (length src)))
  /\ wv_val_off (winr_progress w alloced nsrc (Z.of_nat (length src))) = wv_val_off w + Z.of_nat (length src).
Proof.
  intros [Href Hown Hptr Hnl Hnb Hblk Hel Hh Hvl] Hoff Hap Hlen Ha.
  destruct Hblk as [Hb Hl Hbase Ho _]. change (2 ^ 28) with 268435456 in *.
  assert (u32 (wv_val_off w + Z.of_nat (length src)) = wv_val_off w + Z.of_nat (length src)) as E by (apply u32_id; ulia).
  split; [|exact E]. constructor; try done. cbn [winr_progress wv_name_len wv_alloced_val_len wv_val_off]. rewrite E.
  constructor; [apply (ap_bytes _ _ _ _ _ Hap)| |done|lia|done].
  cbn [set_buf dte_buf]. rewrite (ap_length _ _ _ _ _ Hap). exact Hlen.
Qed.

Lemma wp_winr_plain w t l name c buf (dec : lsqpack_dec hset) :
  let e := own_entry (wv_entry w) dec in
  qpd_enc_state dec = DEI_WINR_READ_VALUE_PLAIN w ->
  core t l (wv_reffed_entry w) (wv_entry w) name dec ->
  state_ok t name e (DEI_WINR_READ_VALUE_PLAIN w) ->
  is_bytes buf -> buf <> [] -> Z.of_nat (length buf) < 2 ^ 32 ->
  wp (dei_winr_read_value_plain w buf) dec (post t (remaining e (DEI_WINR_READ_VALUE_PLAIN w)) c buf).
Proof.
  intros e Hst Hc (Hok & Hal & Hlt) Hb Hne Hbl. pose proof Hok as [Href [p Hp] Hptr Hnl Hnb Hblk Hel Hh Hvl].
  unfold e in *. rewrite Hp in *. set (e0 := own_entry (Some p) dec) in *. clear e.
  destruct Hblk as [Hbb Hbl2 Hbase Ho Ha]. change (2 ^ 24) with 16777216 in *. change (2 ^ 25) with 33554432 in *.
  change (2 ^ 28) with 268435456 in *. change (2 ^ 32) with 4294967296 in *.
  assert (0 < length buf)%nat as Hpos by (destruct buf; [done|cbn; lia]).
  unfold dei_winr_read_value_plain. wpstep. apply wp_assert; [rewrite Z.geb_leb; apply Z.leb_le; lia|]. wpstep.
  eapply wp_demand; [exact Hp|]. rewrite !u32_id by ulia.
  set (size := Z.min (Z.of_nat (length buf)) (wv_val_len w - wv_val_off w)).
  set (src := take (Z.to_nat size) buf).
  assert (Z.of_nat (length src) = size) as Hsl by (unfold src; rewrite length_take; lia). wpstep.
  eapply wp_mono.
  { eapply (wp_store max rel t l _ p name (wv_name_len w) (wv_val_off w) src); [exact Hc|lia|lia|fold e0; lia|by apply is_bytes_take|done]. }
  intros u dec1 (Hc1 & Hst1 & buf' & He1 & Hap). fold e0 in He1, Hap.
  destruct (winr_val_appended t name e0 w (wv_alloced_val_len w) 0 src buf' (dte_buf e0) Hok) as [Hok1 Hoff1];
    [lia|done|done|lia|]. rewrite Hsl in Hok1, Hoff1. cbn zeta.
  set (w1 := winr_progress w _ 0 size) in *. rewrite Hoff1. change (wv_val_len w1) with (wv_val_len w).
  pose proof (ap_stored _ _ _ _ _ Hap) as Hstored. rewrite Hsl in Hstored.
  assert (forall r, remaining e0 (DEI_WINR_READ_VALUE_PLAIN w) (buf ++ r) =
    then_inst (winr_inst (wv_is_static w) (wv_name_idx w))
      (rest_plain (wv_val_len w - wv_val_off w - size) (stored (wv_name_len w) (wv_val_off w + size) buf') (drop (Z.to_nat size) buf ++ r))) as Hrem.
  { intros r. cbn [remaining]. by rewrite (plain_step _ size), Hstored by lia. }
  destruct (Z.eqb_spec (wv_val_off w + size) (wv_val_len w)) as [Hend|Hmore].
  - eapply wp_mono.
    { eapply (wp_winr_insert w1 p t l name (wv_val_off w + size)); rewrite ?He1; cbn [set_buf dte_buf];
        [exact Hc1|exact Hp|exact Href|exact Hptr|exact Hnl|done|lia|exact Hh|apply (ap_bytes _ _ _ _ _ Hap)|lia| |done|done].
      rewrite (ap_length _ _ _ _ _ Hap). lia. }
    intros s dec3. eapply (post_winr_inserted t name _ _ _ _ _ _ buf src); [exact Href|by unfold src; rewrite take_drop| |rewrite length_drop; lia].
    intros r _. rewrite Hrem. replace (wv_val_len w - wv_val_off w - size) with 0 by lia. rewrite plain_done. cbn.
    cbn [own_entry] in He1. by rewrite He1, <- Hnl.
  - wpstep. apply wp_set_resume. wpstep.
    eapply (post_continue max rel t l name _ _ buf (drop (Z.to_nat size) buf) src (DEI_WINR_READ_VALUE_PLAIN w1)); [done| | | | |].
    + apply core_state. cbn [held_of own_of w1 winr_progress wv_reffed_entry wv_entry]. by rewrite Hp.
    + cbn [own_of w1 winr_progress wv_entry]. rewrite Hp. cbn [state_ok].
      change (own_entry (Some p) (set_enc_state (DEI_WINR_READ_VALUE_PLAIN w1) dec1)) with (own_entry (Some p) dec1).
      rewrite He1. split; [done|]. rewrite Hoff1. cbn [w1 winr_progress wv_alloced_val_len wv_val_len]. lia.
    + unfold src. by rewrite take_drop.
    + intros r _. rewrite Hrem. cbn [own_of w1 winr_progress wv_entry]. rewrite Hp.
      change (own_entry (Some p) (set_enc_state (DEI_WINR_READ_VALUE_PLAIN w1) dec1)) with (own_entry (Some p) dec1).
      rewrite He1. cbn [remaining]. rewrite Hoff1. cbn [w1 winr_progress wv_val_len wv_is_static wv_name_idx wv_name_len set_buf dte_buf].
      by rewrite Z.sub_add_distr.
    + rewrite length_drop. cbn [state_cost]. lia.
Qed.

(** More of a Huffman-coded value was decoded into a block for [alloced] bytes. *)
Lemma post_winr_huff t l name e w p st st' alloced hdr c buf buf' blk (dec : lsqpack_dec hset) :
  winr_val_ok t name e w -> wv_entry w = Some p ->
  let n := Z.of_nat (hdr_n_src hdr) in
  let w1 := winr_progress w alloced n (Z.of_nat (length (hdr_out hdr))) in
  let out := stored (wv_name_len w) (wv_val_off w) (dte_buf e) in
  core t l (wv_reffed_entry w) (Some p) name dec ->
  qpd_enc_state dec = DEI_WINR_READ_VALUE_HUFFMAN w1 st' -> own_entry (Some p) dec = set_buf buf' e ->
  winr_val_ok t name (set_buf buf' e) w1 ->
  wv_val_off w1 = wv_val_off w + Z.of_nat (length (hdr_out hdr)) ->
  appended (wv_name_len w) (wv_val_off w) (hdr_out hdr) (dte_buf e) blk ->
  stored (wv_name_len w) (wv_val_off w1) buf' = stored (wv_name_len w) (wv_val_off w1) blk ->
  0 < alloced -> 0 < wv_val_len w -> 0 <= wv_nread w ->
  (forall r, rest_huff (wv_val_len w - wv_nread w) st out (buf ++ r)
     = rest_huff (wv_val_len w - (wv_nread w + n)) st' (out ++ hdr_out hdr) (drop (hdr_n_src hdr) buf ++ r)) ->
  huff_reading (wv_val_len w) (wv_nread w + n) st' (out ++ hdr_out hdr) -> (hdr_n_src hdr <= length buf)%nat ->
  (64 * length (drop (hdr_n_src hdr) buf) + huff_cost (alloced - wv_val_off w1) st' < 64 * length buf + c)%nat ->
  post t (remaining e (DEI_WINR_READ_VALUE_HUFFMAN w st)) c buf (Continue (drop (hdr_n_src hdr) buf)) dec.
Proof.
  intros Hok Hp n w1 out Hc Hst He Hok1 Hoff Hap Hsame Ha Hvl Hnr Hrest Hread Hn Hm.
  assert (wv_nread w1 = wv_nread w + n) as Hnread.
  { cbn. pose proof (hr_len _ _ _ _ Hread). pose proof (wv_vlen _ _ _ _ Hok). change (2 ^ 24) with 16777216 in *.
    apply u32_id. ulia. }
  assert (stored (wv_name_len w) (wv_val_off w1) buf' = out ++ hdr_out hdr) as Hout
    by (rewrite Hsame, Hoff; apply (ap_stored _ _ _ _ _ Hap)).
  eapply (post_continue max rel t l name _ _ buf _ (take (hdr_n_src hdr) buf) (DEI_WINR_READ_VALUE_HUFFMAN w1 st')); [done| | | | |];
    cbn [held_of own_of w1 winr_progress wv_reffed_entry wv_entry]; rewrite ?Hp, ?He.
  - done.
  - cbn [state_ok]. split; [done|]. split; [exact Ha|]. split; [exact Hvl|]. cbn [set_buf dte_buf].
    rewrite Hnread. change (wv_name_len w1) with (wv_name_len w). rewrite Hout. exact Hread.
  - by rewrite take_drop.
  - intros r _. cbn [remaining set_buf dte_buf]. rewrite Hnread. change (wv_name_len w1) with (wv_name_len w).
    rewrite Hout. fold out. by rewrite Hrest.
  - cbn [state_cost]. exact Hm.
Qed.

(** The block was too small. *)
Lemma wp_winr_grow t l name e w p st hdr st' buf buf' (dec1 : lsqpack_dec hset) :
  let state := DEI_WINR_READ_VALUE_HUFFMAN w st in
  let alloced := u32 (wv_alloced_val_len w * 2) in
  let rest := drop (hdr_n_src hdr) buf in
  state_ok t name e state -> wv_entry w = Some p ->
  core t l (wv_reffed_entry w) (Some p) name dec1 -> own_entry (Some p) dec1 = set_buf buf' e ->
  appended (wv_name_len w) (wv_val_off w) (hdr_out hdr) (dte_buf e) buf' -> hdr_status hdr = HUFF_DEC_END_DST ->
  huff_step_spec (wv_val_len w) (wv_nread w) st (stored (wv_name_len w) (wv_val_off w) (dte_buf e)) buf
    (Z.to_nat (wv_alloced_val_len w - wv_val_off w)) hdr st' ->
  wp (ok ← realloc_entry p (wv_name_len w + alloced);
      if ok : bool then
        set_resume (DEI_WINR_READ_VALUE_HUFFMAN
          (winr_progress w alloced (Z.of_nat (hdr_n_src hdr)) (Z.of_nat (length (hdr_out hdr)))) st');;
        mret (Continue rest)
      else set_resume (DEI_WINR_READ_VALUE_HUFFMAN (winr_progress w alloced 0 0) st');; mret (Return (-1))) dec1
    (post t (remaining e state) (state_cost e state) buf).
Proof.
  intros state alloced rest (Hok & Hapos & Hvpos & Hread) Hp Hc1 He1 Hap Hst Hstep. unfold state, alloced, rest. clear state alloced rest.
  pose proof Hok as [Href _ Hptr Hnl Hnb Hblk Hel Hh Hvl]. destruct Hblk as [Hbb Hbl2 Hbase Ho Ha].
  pose proof (hr_len _ _ _ _ Hread) as Hnr. unfold huff_step_spec in Hstep. rewrite Hst in Hstep. cbn zeta in Hstep.
  change (2 ^ 24) with 16777216 in *. change (2 ^ 25) with 33554432 in *. change (2 ^ 28) with 268435456 in *.
  destruct Hstep as (Hr & Hrd & Hn & Ho' & Hprog & Hroom & _).
  pose proof (huff_reading_bound _ _ _ _ Hrd) as [_ Hbound2]. rewrite length_app in Hbound2.
  pose proof (stored_length (wv_name_len w) (wv_val_off w) (dte_buf e)) as Hsl.
  assert (u32 (wv_alloced_val_len w * 2) = wv_alloced_val_len w * 2) as Hdbl by (apply u32_id; ulia).
  rewrite Hdbl. wpstep.
  assert (Z.of_nat (length buf') = wv_name_len w + wv_alloced_val_len w) as Hlb by (rewrite (ap_length _ _ _ _ _ Hap); lia).
  eapply wp_mono.
  { eapply (wp_grow max rel t l _ p name); [exact Hc1| |]; rewrite He1; cbn [set_buf dte_buf]; [lia|apply (ap_bytes _ _ _ _ _ Hap)]. }
  intros ok dec2 (Hst2 & Hc2 & Hgrow). destruct ok.
  - destruct Hgrow as (ext & He2 & Hext & Hlext). rewrite He1 in He2, Hlext. cbn [set_buf dte_buf] in He2, Hlext.
    wpstep. apply wp_set_resume. wpstep.
    assert (appended (wv_name_len w) (wv_val_off w) (hdr_out hdr) (dte_buf e ++ ext) (buf' ++ ext)) as Hap2
      by (apply appended_grown; done || lia).
    destruct (winr_val_appended t name e w (wv_alloced_val_len w * 2) (Z.of_nat (hdr_n_src hdr)) (hdr_out hdr)
      (buf' ++ ext) (dte_buf e ++ ext) Hok) as [Hok1 Hoff1]; [lia|done| |change (2 ^ 28) with 268435456; lia|].
    { rewrite length_app in *. rewrite <- (ap_length _ _ _ _ _ Hap). lia. }
    eapply (post_winr_huff t l name e w p st st' (wv_alloced_val_len w * 2) hdr _ buf (buf' ++ ext) buf'); try done; try lia.
    + by apply core_state.
    + rewrite Hoff1. rewrite stored_app by lia. done.
    + rewrite Hoff1, length_drop. cbn [state_cost].
      pose proof (huff_cost_grow _ (wv_alloced_val_len w * 2 - (wv_val_off w + Z.of_nat (length (hdr_out hdr)))) _ _ _
        Hprog ltac:(lia) ltac:(intros ->; cbn [length]; dlia) ltac:(lia)). lia.
  - wpstep. apply wp_set_resume. wpstep.
    eapply (post_fail max rel t t l name); [reflexivity| |by apply refused_malloc].
    cbn [set_enc_state qpd_enc_state held_of own_of winr_progress wv_reffed_entry wv_entry]. rewrite Hp. by apply core_state.
Qed.

Lemma wp_winr_huff w st t l name buf (dec : lsqpack_dec hset) :
  let e := own_entry (wv_entry w) dec in
  let state := DEI_WINR_READ_VALUE_HUFFMAN w st in
  qpd_enc_state dec = state ->
  core t l (wv_reffed_entry w) (wv_entry w) name dec -> state_ok t name e state ->
  is_bytes buf -> buf <> [] -> Z.of_nat (length buf) < 2 ^ 32 ->
  wp (dei_winr_read_value_huffman w st buf) dec (post t (remaining e state) (state_cost e state) buf).
Proof.
  intros e state Hst Hc (Hok & Hapos & Hvpos & Hread) Hb Hne Hbl. unfold state, e in *. clear state e.
  pose proof Hok as [Href [p Hp] Hptr Hnl Hnb Hblk Hel Hh Hvl].
  rewrite Hp in *. set (e0 := own_entry (Some p) dec) in *.
  destruct Hblk as [Hbb Hbl2 Hbase Ho Ha]. pose proof (hr_len _ _ _ _ Hread) as Hnr.
  pose proof (huff_reading_bound _ _ _ _ Hread) as [_ Hbound]. rewrite stored_length in Hbound by lia.
  unfold dei_winr_read_value_huffman. wpstep. eapply wp_demand; [exact Hp|]. wpstep.
  eapply wp_mono.
  { eapply (wp_huff_into max rel t l _ p name (wv_name_len w) (wv_val_off w) (wv_alloced_val_len w - wv_val_off w)
      (wv_val_len w) (wv_nread w) st buf); try done; try lia; fold e0; try done; lia. }
  intros [hdr st'] dec1 (Hc1 & Hst1 & buf' & He1 & Hap & Hstep). fold e0 in He1, Hap, Hstep. cbn [fst snd] in *.
  unfold huff_step_spec in Hstep. change (2 ^ 24) with 16777216 in *. change (2 ^ 25) with 33554432 in *.
  change (2 ^ 28) with 268435456 in *. cbn zeta.
  assert (forall off', 0 <= off' <= wv_alloced_val_len w -> u32 off' = off') as Hid by (intros; apply u32_id; ulia).
  destruct (hdr_status hdr) eqn:Es.
  - destruct Hstep as (Hr & Hn & Hnb' & Ho' & Hlen). rewrite length_app in Hlen.
    pose proof (stored_length (wv_name_len w) (wv_val_off w) (dte_buf e0)) as Hsl.
    rewrite Hid by lia.
    eapply wp_mono.
    { eapply (wp_winr_insert w p t l name (wv_val_off w + Z.of_nat (length (hdr_out hdr)))); rewrite ?He1; cbn [set_buf dte_buf];
        [exact Hc1|exact Hp|exact Href|exact Hptr|exact Hnl|done|lia|exact Hh|apply (ap_bytes _ _ _ _ _ Hap)|lia| |done|done].
      rewrite (ap_length _ _ _ _ _ Hap). lia. }
    intros s dec3. eapply (post_winr_inserted t name _ _ _ _ _ _ buf (take (hdr_n_src hdr) buf)); [exact Href|by rewrite take_drop| |].
    + intros r _. cbn [remaining]. rewrite Hr. cbn. cbn [own_entry] in He1. rewrite He1, <- Hnl. cbn [set_buf dte_buf].
      by rewrite (ap_stored _ _ _ _ _ Hap).
    + rewrite length_drop. pose proof (hr_end _ _ _ _ Hread). lia.
  - destruct Hstep as (Hr & Hrd & Hn & Ho' & Hall). wpstep. apply wp_set_resume. wpstep.
    destruct (winr_val_appended t name e0 w (wv_alloced_val_len w) (Z.of_nat (hdr_n_src hdr)) (hdr_out hdr) buf' (dte_buf e0) Hok)
      as [Hok1 Hoff1]; [lia|done|done|done|].
    eapply (post_winr_huff t l name e0 w p st st' (wv_alloced_val_len w) hdr _ buf buf' buf'); try done; try lia.
    + by apply core_state.
    + rewrite length_drop. assert (0 < length buf)%nat by (destruct buf; [done|cbn; lia]).
      match goal with |- (_ + huff_cost ?r ?s < _)%nat => pose proof (huff_cost_max r s) end. lia.
  - apply (wp_winr_grow t l name e0 w p st hdr st' buf buf'); try done. unfold huff_step_spec. by rewrite Es.
  - wpstep. apply wp_set_resume. wpstep. eapply (post_fail max rel t t l name); [reflexivity| |].
    + cbn [set_enc_state qpd_enc_state held_of own_of]. rewrite Hp. by apply core_state.
    + intros _ _ r i rest _. cbn [remaining]. by rewrite Hstep.
Qed.
End winr.
