(* ===== verification/DecWonr.v ===== *)
(** * Insertion with a literal name

    The rounds of [lsqpack_dec_enc_in] for that instruction. *)

From stdpp Require Import gmap.
From S2P Require Import Prelude Monad IntCodec HuffTables Huffman HuffStream StrCodec Xxhash.
From S2P Require Import StaticTable Ringbuf Rfc9204 EncTable DecTable DecState DecStream.
From S2P Require Import DecSpec DecBlocked DecStrings DecReading DecCore DecRounds DecWinr.

Section wonr.
Context {hset : Type} `{!HsetIf hset}.
Variables (max : Z) (rel : bool).

Local Abbreviation core := (dec_core max rel).
Local Abbreviation post := (step_post max rel).

Lemma literal_refused t n i rest b :
  dt_capacity t < 32 + Z.of_nat (length n) -> literal_value n b = Some (i, rest) -> spec_apply max t i = None.
Proof.
  intros H. unfold literal_value, then_inst. destruct (read_str 7 b) as [[v' b']|]; [|done]. intros [= <- <-].
  cbn. apply insert_too_large. lia.
Qed.

(** ** The length of the name *)

Lemma wp_wonr_name_len h p st0 t l name c buf res (dec : lsqpack_dec hset) :
  int_result (2 ^ 24) p st0 buf res -> core t l None None name dec ->
  held_of (qpd_enc_state dec) = None -> own_of (qpd_enc_state dec) = None ->
  wp (dei_wonr_read_name_len h res) dec (post t (fun b => literal_name (rest_len_str h p st0 b)) c buf).
Proof.
  intros Hres Hc Hh Ho. unfold dei_wonr_read_name_len.
  destruct (core_cap max rel _ _ _ _ _ _ Hc) as (Hcap & Hcapr & Hmx). change (2 ^ 31) with 2147483648 in Hmx.
  eapply (wp_with_int max rel _ p st0 t l name _ (fun n b => literal_name (rest_str h n b))); [exact Hres| | | | |].
  - by rewrite Hh, Ho.
  - intros b. unfold rest_len_str, literal_name. by destruct (read_int_at p st0 b) as [[n b']|].
  - intros st' Hp. split_and!; [done|done|exact Hp|].
    intros b. cbn [remaining]. unfold rest_len_str, literal_name. by destruct (read_int_at 0 st' b) as [[n b']|].
  - intros n b i rest Hn Hm. unfold literal_name. destruct (rest_str h n b) as [[nm b']|] eqn:E; [|done]. cbn.
    apply rest_str_code in E; [|lia]. eapply literal_refused.
    change (2 ^ 24) with 16777216 in Hn. change (2 ^ 22) with 4194304 in Hm. lia.
  - intros str_len rest Hv _. wpsteps. change (2 ^ 24) with 16777216 in Hv.
    destruct (str_len >? huffman_room (qpd_cur_max_capacity (qpd_tab dec)) h) eqn:E1.
    + wpstep. rewrite Z.gtb_ltb in E1. apply Z.ltb_lt in E1.
      eapply (post_fail max rel t t l name); [reflexivity|by rewrite Hh, Ho|].
      intros _ Hm r i rest' _. unfold literal_name. destruct (rest_str h str_len (rest ++ r)) as [[nm b']|] eqn:E; [|done]. cbn.
      eapply literal_refused. change (2 ^ 22) with 4194304 in Hm.
      pose proof (huffman_room_large h str_len _ nm b' (qpd_cur_max_capacity (qpd_tab dec))
        ltac:(change (2 ^ 22) with 4194304; lia) ltac:(lia) E1 E). lia.
    + set (alloced := if negb (str_len =? 0) then u32 (str_len + str_len / 2) else 16).
      assert (str_len <= alloced /\ 0 < alloced /\ alloced <= 2 ^ 28) as (Ha1 & Ha2 & Ha3).
      { unfold alloced. change (2 ^ 28) with 268435456. destruct (Z.eqb_spec str_len 0); cbn [negb]; [lia|].
        rewrite u32_id by ulia. dlia. }
      wpstep. eapply wp_mono; [by apply (wp_malloc_entry max rel t l None name)|].
      intros o dec1 (Hst1 & H1). destruct o as [q|].
      2: { destruct H1 as [Hc1 Hrel]. wpstep. eapply (post_fail max rel t t l name); [reflexivity|congruence|].
           by apply refused_malloc. }
      destruct H1 as [Hc1 [mem He1]]. wpstep.
      eapply wp_mono; [by apply (wp_update_own max rel t l None q name)|].
      intros u dec2 (Hc2 & Hst2 & He2). rewrite He1 in He2. wpstep. apply wp_set_resume. wpstep.
      set (w := {| wo_entry := _ |}).
      assert (wonr_name_ok (own_entry (Some q) dec2) w) as Hok.
      { rewrite He2. constructor; cbn [w wo_entry wo_alloced_len wo_str_off wo_str_len]; [done| |lia|change (2 ^ 24) with 16777216; lia].
        constructor; cbn [set_hashes dte_buf fresh_entry]; [apply bytes_fresh|apply length_fresh; lia|change (2 ^ 25) with 33554432; lia|lia|done]. }
      destruct h.
      * eapply (post_continue max rel t l name _ _ rest rest [] (DEI_WONR_READ_NAME_HUFFMAN w huff_fresh)); [done| | |done| |].
        -- by apply core_state.
        -- split; [exact Hok|]. cbn. split; [|done]. apply huff_reading_fresh. lia.
        -- intros r _. cbn. by rewrite Z.sub_0_r.
        -- cbn [own_of w wo_entry state_cost]. pose proof (huff_cost_max (wo_alloced_len w - wo_str_off w) huff_fresh). lia.
      * eapply (post_continue max rel t l name _ _ rest rest [] (DEI_WONR_READ_NAME_PLAIN w)); [done| | |done| |].
        -- by apply core_state.
        -- split; [exact Hok|]. cbn. split; [lia|]. lia.
        -- intros r _. cbn. by rewrite Z.sub_0_r.
        -- cbn. lia.
Qed.

(** ** The name *)

Lemma wonr_name_appended e w alloced nsrc src buf' blk :
  wonr_name_ok e w -> wo_str_off w + Z.of_nat (length src) <= alloced ->
  appended 0 (wo_str_off w) src blk buf' -> Z.of_nat (length blk) = alloced ->
  0 < alloced <= 2 ^ 28 ->
  wonr_name_ok (set_buf buf' e) (wonr_progress w alloced nsrc (Z.of_nat (length src)))
  /\ wo_str_off (wonr_progress w alloced nsrc (Z.of_nat (length src))) = wo_str_off w + Z.of_nat (length src).
Proof.
  intros [Hown Hblk Hal Hsl] Hoff Hap Hlen Ha. destruct Hblk as [Hb Hl Hbase Ho _]. change (2 ^ 28) with 268435456 in *.
  assert (u32 (wo_str_off w + Z.of_nat (length src)) = wo_str_off w + Z.of_nat (length src)) as E by (apply u32_id; ulia).
  split; [|exact E]. constructor; cbn [wonr_progress wo_entry wo_alloced_len wo_str_off wo_str_len]; [done| |lia|done].
  rewrite E. constructor; cbn [set_buf dte_buf]; [apply (ap_bytes _ _ _ _ _ Hap)| |done|lia|change (2 ^ 28) with 268435456; lia].
  by rewrite (ap_length _ _ _ _ _ Hap).
Qed.

(** [dte_name_len] is set. *)
Lemma wp_wonr_name_done w p t l name n used rest rd c buf (dec : lsqpack_dec hset) :
  let e := own_entry (Some p) dec in
  core t l None (Some p) name dec -> wo_entry w = Some p -> dte_flags e = 0 ->
  is_bytes (dte_buf e) -> Z.of_nat (length (dte_buf e)) = wo_alloced_len w -> 0 < wo_alloced_len w <= 2 ^ 28 ->
  0 <= n < 2 ^ 25 -> n <= wo_alloced_len w ->
  buf = used ++ rest -> (64 * length rest < 64 * length buf + c)%nat ->
  (forall r, rd (buf ++ r) = literal_value (stored 0 n (dte_buf e)) (rest ++ r)) ->
  wp (wonr_name_done w p n rest) dec (post t rd c buf).
Proof.
  intros e Hc Hp Hf Hb Hl Ha Hn Hna -> Hm Hrd. unfold wonr_name_done. wpstep.
  eapply wp_mono; [by apply (wp_update_own max rel t l None p name)|].
  intros u dec1 (Hc1 & Hst1 & He1). fold e in He1. wpstep. apply wp_set_resume. wpstep. rewrite Hp.
  eapply (post_continue max rel t l name _ _ _ rest used (DEI_WONR_BEGIN_READ_VAL_LEN (Some p) (wo_alloced_len w))); [done| | |done| |].
  - by apply core_state.
  - cbn [state_ok own_of].
    change (own_entry (Some p) (set_enc_state (DEI_WONR_BEGIN_READ_VAL_LEN (Some p) (wo_alloced_len w)) dec1)) with (own_entry (Some p) dec1).
    rewrite He1. constructor; cbn [set_lens dte_name_len]; [done| |lia|done].
    constructor; cbn [set_lens dte_buf]; [done|lia|change (2 ^ 25) with 33554432; lia|lia|lia].
  - intros r _. rewrite Hrd. cbn [remaining own_of].
    change (own_entry (Some p) (set_enc_state (DEI_WONR_BEGIN_READ_VAL_LEN (Some p) (wo_alloced_len w)) dec1)) with (own_entry (Some p) dec1).
    by rewrite He1.
  - cbn [state_cost]. lia.
Qed.

Lemma wp_wonr_name_plain w t l name buf (dec : lsqpack_dec hset) :
  let e := own_entry (wo_entry w) dec in
  let state := DEI_WONR_READ_NAME_PLAIN w in
  qpd_enc_state dec = state -> core t l None (wo_entry w) name dec -> state_ok t name e state ->
  is_bytes buf -> buf <> [] -> Z.of_nat (length buf) < 2 ^ 32 ->
  wp (dei_wonr_read_name_plain w buf) dec (post t (remaining e state) (state_cost e state) buf).
Proof.
  intros e state Hst Hc (Hok & Hal & Hlt) Hb Hne Hbl. unfold state, e in *. clear e state.
  pose proof Hok as [[[p Hp] Hf] Hblk Hapos Hsl]. rewrite Hp in *. set (e0 := own_entry (Some p) dec) in *.
  destruct Hblk as [Hbb Hbl2 _ Ho Ha]. change (2 ^ 24) with 16777216 in *.
  change (2 ^ 28) with 268435456 in *. change (2 ^ 32) with 4294967296 in *.
  assert (0 < length buf)%nat as Hpos by (destruct buf; [done|cbn; lia]).
  unfold dei_wonr_read_name_plain. wpstep. apply wp_assert; [rewrite Z.geb_leb; apply Z.leb_le; lia|]. wpstep.
  eapply wp_demand; [exact Hp|]. rewrite !u32_id by ulia.
  set (size := Z.min (Z.of_nat (length buf)) (wo_str_len w - wo_str_off w)).
  set (src := take (Z.to_nat size) buf).
  assert (Z.of_nat (length src) = size) as Hsl2 by (unfold src; rewrite length_take; lia). wpstep.
  eapply wp_mono.
  { change (wo_str_off w) with (0 + wo_str_off w) at 1.
    eapply (wp_store max rel t l _ p name 0 (wo_str_off w) src); [exact Hc|lia|lia|fold e0; lia|by apply is_bytes_take|done]. }
  intros u dec1 (Hc1 & Hst1 & buf' & He1 & Hap). fold e0 in He1, Hap.
  destruct (wonr_name_appended e0 w (wo_alloced_len w) 0 src buf' (dte_buf e0) Hok) as [Hok1 Hoff1];
    [lia|done|lia|change (2 ^ 28) with 268435456; lia|]. rewrite Hsl2 in Hok1, Hoff1. cbn zeta.
  set (w1 := wonr_progress w _ 0 size) in *. rewrite Hoff1. change (wo_str_len w1) with (wo_str_len w).
  pose proof (ap_stored _ _ _ _ _ Hap) as Hstored. rewrite Hsl2 in Hstored.
  assert (forall r, remaining e0 (DEI_WONR_READ_NAME_PLAIN w) (buf ++ r) =
    literal_name (rest_plain (wo_str_len w - wo_str_off w - size) (stored 0 (wo_str_off w + size) buf') (drop (Z.to_nat size) buf ++ r))) as Hrem.
  { intros r. cbn [remaining]. by rewrite (plain_step _ size), Hstored by lia. }
  destruct (Z.eqb_spec (wo_str_off w + size) (wo_str_len w)) as [Hend|Hmore].
  - eapply (wp_wonr_name_done w1 p t l name _ src); rewrite ?He1; cbn [set_buf dte_buf dte_flags w1 wonr_progress wo_entry wo_alloced_len];
      [done|done|done|apply (ap_bytes _ _ _ _ _ Hap)|by rewrite (ap_length _ _ _ _ _ Hap); lia|change (2 ^ 28) with 268435456; lia
      |change (2 ^ 25) with 33554432; lia|lia|by unfold src; rewrite take_drop| |].
    + rewrite length_drop. cbn [state_cost]. lia.
    + intros r. rewrite Hrem. replace (wo_str_len w - wo_str_off w - size) with 0 by lia. by rewrite plain_done.
  - wpstep. apply wp_set_resume. wpstep.
    eapply (post_continue max rel t l name _ _ buf (drop (Z.to_nat size) buf) src (DEI_WONR_READ_NAME_PLAIN w1)); [done| | | | |];
      cbn [own_of held_of w1 wonr_progress wo_entry]; rewrite ?Hp;
      change (own_entry (Some p) (set_enc_state (DEI_WONR_READ_NAME_PLAIN w1) dec1)) with (own_entry (Some p) dec1); rewrite ?He1.
    + by apply core_state.
    + split; [done|]. rewrite Hoff1. cbn [w1 wonr_progress wo_alloced_len wo_str_len]. lia.
    + unfold src. by rewrite take_drop.
    + intros r _. rewrite Hrem. cbn [remaining]. rewrite Hoff1. cbn [w1 wonr_progress wo_str_len set_buf dte_buf].
      by rewrite Z.sub_add_distr.
    + rewrite length_drop. cbn [state_cost]. lia.
Qed.

(** More of a Huffman-coded name. *)
Lemma post_wonr_name_huff t l name e w p st st' alloced hdr c buf buf' blk (dec : lsqpack_dec hset) :
  wo_entry w = Some p ->
  let n := Z.of_nat (hdr_n_src hdr) in
  let w1 := wonr_progress w alloced n (Z.of_nat (length (hdr_out hdr))) in
  let out := stored 0 (wo_str_off w) (dte_buf e) in
  core t l None (Some p) name dec ->
  qpd_enc_state dec = DEI_WONR_READ_NAME_HUFFMAN w1 st' -> own_entry (Some p) dec = set_buf buf' e ->
  wonr_name_ok (set_buf buf' e) w1 ->
  wo_str_off w1 = wo_str_off w + Z.of_nat (length (hdr_out hdr)) ->
  appended 0 (wo_str_off w) (hdr_out hdr) (dte_buf e) blk ->
  stored 0 (wo_str_off w1) buf' = stored 0 (wo_str_off w1) blk ->
  0 < wo_str_len w < 2 ^ 24 ->
  (forall r, rest_huff (wo_str_len w - wo_nread w) st out (buf ++ r)
     = rest_huff (wo_str_len w - (wo_nread w + n)) st' (out ++ hdr_out hdr) (drop (hdr_n_src hdr) buf ++ r)) ->
  huff_reading (wo_str_len w) (wo_nread w + n) st' (out ++ hdr_out hdr) -> (hdr_n_src hdr <= length buf)%nat ->
  (64 * length (drop (hdr_n_src hdr) buf) + S (huff_cost (alloced - wo_str_off w1) st') < 64 * length buf + c)%nat ->
  post t (remaining e (DEI_WONR_READ_NAME_HUFFMAN w st)) c buf (Continue (drop (hdr_n_src hdr) buf)) dec.
Proof.
  intros Hp n w1 out Hc Hst He Hok1 Hoff Hap Hsame Hsl Hrest Hread Hn Hm.
  assert (wo_nread w1 = wo_nread w + n) as Hnread.
  { cbn. pose proof (hr_len _ _ _ _ Hread). change (2 ^ 24) with 16777216 in *. apply u32_id. ulia. }
  assert (stored 0 (wo_str_off w1) buf' = out ++ hdr_out hdr) as Hout
    by (rewrite Hsame, Hoff; apply (ap_stored _ _ _ _ _ Hap)).
  eapply (post_continue max rel t l name _ _ buf _ (take (hdr_n_src hdr) buf) (DEI_WONR_READ_NAME_HUFFMAN w1 st')); [done| | | | |];
    cbn [held_of own_of w1 wonr_progress wo_entry]; rewrite ?Hp, ?He.
  - done.
  - cbn [state_ok]. split; [done|]. cbn [set_buf dte_buf]. rewrite Hnread, Hout. split; [exact Hread|].
    change (wo_str_len w1) with (wo_str_len w). lia.
  - by rewrite take_drop.
  - intros r _. cbn [remaining set_buf dte_buf]. rewrite Hnread, Hout. fold out. by rewrite Hrest.
  - cbn [state_cost]. exact Hm.
Qed.

(** A call that ends at the end of the source or of the block means a name of one
    byte or more. *)
Lemma huff_reading_more len n st out st' out' nread :
  huff_reading len nread st out -> huff_reading len (nread + n) st' out' -> 0 < n \/ nread < len -> 0 < len.
Proof. intros [H1 _ _ _] [H2 _ _ _] H. lia. Qed.

(** The block was too small. *)
Lemma wp_wonr_name_grow t l name e w p st hdr st' buf buf' (dec1 : lsqpack_dec hset) :
  let state := DEI_WONR_READ_NAME_HUFFMAN w st in
  let alloced := u32 (wo_alloced_len w * 2) in
  let rest := drop (hdr_n_src hdr) buf in
  state_ok t name e state -> wo_entry w = Some p ->
  core t l None (Some p) name dec1 -> own_entry (Some p) dec1 = set_buf buf' e ->
  appended 0 (wo_str_off w) (hdr_out hdr) (dte_buf e) buf' -> hdr_status hdr = HUFF_DEC_END_DST ->
  huff_step_spec (wo_str_len w) (wo_nread w) st (stored 0 (wo_str_off w) (dte_buf e)) buf
    (Z.to_nat (wo_alloced_len w - wo_str_off w)) hdr st' ->
  wp (ok ← realloc_entry p alloced;
      if ok : bool then
        set_resume (DEI_WONR_READ_NAME_HUFFMAN
          (wonr_progress w alloced (Z.of_nat (hdr_n_src hdr)) (Z.of_nat (length (hdr_out hdr)))) st');;
        mret (Continue rest)
      else set_resume (DEI_WONR_READ_NAME_HUFFMAN (wonr_progress w alloced 0 0) st');; mret (Return (-1))) dec1
    (post t (remaining e state) (state_cost e state) buf).
Proof.
  intros state alloced rest (Hok & Hread & Hzero) Hp Hc1 He1 Hap Hst Hstep. unfold state, alloced, rest. clear state alloced rest.
  pose proof Hok as [[_ Hf] Hblk Hapos Hsl]. destruct Hblk as [Hbb Hbl2 _ Ho Ha].
  pose proof (hr_len _ _ _ _ Hread) as Hnr. unfold huff_step_spec in Hstep. rewrite Hst in Hstep. cbn zeta in Hstep.
  change (2 ^ 24) with 16777216 in *. change (2 ^ 28) with 268435456 in *.
  pose proof (stored_length 0 (wo_str_off w) (dte_buf e)) as Hsl2.
  destruct Hstep as (Hr & Hrd & Hn & Ho' & Hprog & Hroom & _).
  pose proof (huff_reading_bound _ _ _ _ Hrd) as [_ Hbound2]. rewrite length_app in Hbound2.
  assert (u32 (wo_alloced_len w * 2) = wo_alloced_len w * 2) as Hdbl by (apply u32_id; ulia).
  rewrite Hdbl. wpstep.
  assert (0 < wo_str_len w) as Hslpos.
  { destruct (hr_end _ _ _ _ Hread) as [Hlt|[Hl0 ->]]; [lia|]. rewrite Hzero in * by done. lia. }
  assert (Z.of_nat (length buf') = wo_alloced_len w) as Hlb by (rewrite (ap_length _ _ _ _ _ Hap); lia).
  eapply wp_mono.
  { eapply (wp_grow max rel t l _ p name); [exact Hc1| |]; rewrite He1; cbn [set_buf dte_buf]; [lia|apply (ap_bytes _ _ _ _ _ Hap)]. }
  intros ok dec2 (Hst2 & Hc2 & Hgrow). destruct ok.
  - destruct Hgrow as (ext & He2 & Hext & Hlext). rewrite He1 in He2, Hlext. cbn [set_buf dte_buf] in He2, Hlext.
    wpstep. apply wp_set_resume. wpstep.
    assert (appended 0 (wo_str_off w) (hdr_out hdr) (dte_buf e ++ ext) (buf' ++ ext)) as Hap2
      by (apply appended_grown; done || lia).
    destruct (wonr_name_appended e w (wo_alloced_len w * 2) (Z.of_nat (hdr_n_src hdr)) (hdr_out hdr)
      (buf' ++ ext) (dte_buf e ++ ext) Hok) as [Hok1 Hoff1]; [lia|done| |change (2 ^ 28) with 268435456; lia|].
    { rewrite length_app in *. rewrite <- (ap_length _ _ _ _ _ Hap). lia. }
    eapply (post_wonr_name_huff t l name e w p st st' (wo_alloced_len w * 2) hdr _ buf (buf' ++ ext) buf'); try done; try lia.
    + by apply core_state.
    + rewrite Hoff1. rewrite stored_app by lia. done.
    + rewrite Hoff1, length_drop. cbn [state_cost].
      pose proof (huff_cost_grow _ (wo_alloced_len w * 2 - (wo_str_off w + Z.of_nat (length (hdr_out hdr)))) _ _ _
        Hprog ltac:(lia) ltac:(intros ->; cbn [length]; dlia) ltac:(lia)). lia.
  - wpstep. apply wp_set_resume. wpstep.
    eapply (post_fail max rel t t l name); [reflexivity| |by apply refused_malloc].
    cbn [set_enc_state qpd_enc_state held_of own_of wonr_progress wo_entry]. rewrite Hp. by apply core_state.
Qed.

Lemma wp_wonr_name_huff w st t l name buf (dec : lsqpack_dec hset) :
  let e := own_entry (wo_entry w) dec in
  let state := DEI_WONR_READ_NAME_HUFFMAN w st in
  qpd_enc_state dec = state -> core t l None (wo_entry w) name dec -> state_ok t name e state ->
  is_bytes buf -> buf <> [] -> Z.of_nat (length buf) < 2 ^ 32 ->
  wp (dei_wonr_read_name_huffman w st buf) dec (post t (remaining e state) (state_cost e state) buf).
Proof.
  intros e state Hst Hc (Hok & Hread & Hzero) Hb Hne Hbl. unfold state, e in *. clear e state.
  pose proof Hok as [[[p Hp] Hf] Hblk Hapos Hsl]. rewrite Hp in *. set (e0 := own_entry (Some p) dec) in *.
  destruct Hblk as [Hbb Hbl2 _ Ho Ha]. pose proof (hr_len _ _ _ _ Hread) as Hnr.
  pose proof (huff_reading_bound _ _ _ _ Hread) as [_ Hbound]. rewrite stored_length in Hbound by lia.
  assert (0 < length buf)%nat as Hpos by (destruct buf; [done|cbn; lia]).
  unfold dei_wonr_read_name_huffman. wpstep. eapply wp_demand; [exact Hp|]. wpstep.
  eapply wp_mono.
  { change (wo_str_off w) with (0 + wo_str_off w) at 1.
    eapply (wp_huff_into max rel t l _ p name 0 (wo_str_off w) (wo_alloced_len w - wo_str_off w)
      (wo_str_len w) (wo_nread w) st buf); try done; try lia; fold e0; try done; lia. }
  intros [hdr st'] dec1 (Hc1 & Hst1 & buf' & He1 & Hap & Hstep). fold e0 in He1, Hap, Hstep. cbn [fst snd] in *.
  unfold huff_step_spec in Hstep. change (2 ^ 24) with 16777216 in *. change (2 ^ 28) with 268435456 in *. cbn zeta.
  pose proof (stored_length 0 (wo_str_off w) (dte_buf e0)) as Hsl2.
  destruct (hdr_status hdr) eqn:Es.
  - destruct Hstep as (Hr & Hn & Hnb' & Ho' & Hlen). rewrite length_app in Hlen. rewrite u32_id by ulia.
    eapply (wp_wonr_name_done w p t l name _ (take (hdr_n_src hdr) buf)); rewrite ?He1; cbn [set_buf dte_buf dte_flags];
      [done|done|done|apply (ap_bytes _ _ _ _ _ Hap)|by rewrite (ap_length _ _ _ _ _ Hap); lia|change (2 ^ 28) with 268435456; lia
      |change (2 ^ 25) with 33554432; lia|lia|by rewrite take_drop| |].
    + rewrite length_drop. cbn [state_cost]. lia.
    + intros r. cbn [remaining]. rewrite Hr, (ap_stored _ _ _ _ _ Hap). done.
  - destruct Hstep as (Hr & Hrd & Hn & Ho' & Hall). wpstep. apply wp_set_resume. wpstep.
    destruct (wonr_name_appended e0 w (wo_alloced_len w) (Z.of_nat (hdr_n_src hdr)) (hdr_out hdr) buf' (dte_buf e0) Hok)
      as [Hok1 Hoff1]; [lia|done|lia|change (2 ^ 28) with 268435456; lia|].
    assert (0 < wo_str_len w) by (eapply huff_reading_more; [exact Hread|exact Hrd|lia]).
    eapply (post_wonr_name_huff t l name e0 w p st st' (wo_alloced_len w) hdr _ buf buf' buf'); try done; try lia.
    + by apply core_state.
    + rewrite length_drop. cbn [state_cost].
      match goal with |- context [huff_cost ?r st'] => pose proof (huff_cost_max r st') end. lia.
  - apply (wp_wonr_name_grow t l name e0 w p st hdr st' buf buf'); try done. unfold huff_step_spec. by rewrite Es.
  - wpstep. apply wp_set_resume. wpstep. eapply (post_fail max rel t t l name); [reflexivity| |].
    + cbn [set_enc_state qpd_enc_state held_of own_of]. rewrite Hp. by apply core_state.
    + intros _ _ r i rest _. cbn [remaining]. by rewrite Hstep.
Qed.
End wonr.
