(* ===== verification/DecWonrValue.v ===== *)
(** * The value of an insertion with a literal name

    The rounds of [lsqpack_dec_enc_in] that read the value into the block that holds
    the name. *)

From stdpp Require Import gmap.
From S2P Require Import Prelude Monad IntCodec HuffTables Huffman HuffStream StrCodec Xxhash.
From S2P Require Import StaticTable Ringbuf Rfc9204 EncTable DecTable DecState DecStream DecSpec.
From S2P Require Import DecBlocked DecStrings DecReading DecCore DecRounds DecWinr DecWonr.

Section wonr.
Context {hset : Type} `{!HsetIf hset}.
Variables (max : Z) (rel : bool).

Local Abbreviation core := (dec_core max rel).
Local Abbreviation post := (step_post max rel).

(** ** Insertion *)

Lemma wp_wonr_insert w p t l name val_len failed used rest rd c buf (dec : lsqpack_dec hset) :
  let e := own_entry (Some p) dec in
  core t l None (Some p) name dec -> wo_entry w = Some p -> dte_flags e = 0 ->
  is_bytes (dte_buf e) -> 0 <= dte_name_len e < 2 ^ 25 -> 0 <= val_len < 2 ^ 25 ->
  dte_name_len e + val_len <= Z.of_nat (length (dte_buf e)) ->
  held_of (failed (wonr_done w)) = None -> own_of (failed (wonr_done w)) = None ->
  buf = used ++ rest -> (64 * length rest < 64 * length buf + c)%nat ->
  (forall r, rd (buf ++ r) =
     Some (IInsertLiteral (DTE_NAME e) (stored (dte_name_len e) val_len (dte_buf e)), rest ++ r)) ->
  wp (wonr_insert_entry w val_len failed rest) dec (post t rd c buf).
Proof.
  intros e Hc Hp Hf Hb Hn Hv Hl Hf1 Hf2 E Hm Hrd. unfold wonr_insert_entry.
  wpstep. eapply wp_demand; [exact Hp|]. wpstep.
  eapply wp_mono; [by apply (wp_update_own max rel t l None p name)|].
  intros u dec1 (Hc1 & Hst1 & He1). fold e in He1.
  set (e1 := set_refcnt 1 _) in He1.
  assert (entry_good e1) as Hg.
  { constructor; cbn [e1 set_refcnt set_lens dte_name_len dte_val_len dte_buf]; [done|done|done|done|].
    unfold hashes_ok. cbn [e1 set_refcnt set_lens dte_flags]. rewrite Hf. split; [done|]. split; done. }
  eapply wp_mono; [eapply wp_insert_entry; [exact Hc1|exact He1|exact Hg|done|done|done]|].
  intros s dec2. eapply post_inserted; [exact E|intros r _; apply Hrd|exact Hm|done].
Qed.

(** ** The length *)

Lemma wp_wonr_val_len p a h st1 pb st0 t l name c buf res (dec : lsqpack_dec hset) :
  let e := own_entry p dec in
  int_result (2 ^ 24) pb st0 buf res ->
  core t l None p name dec -> wonr_named p a e -> qpd_enc_state dec = DEI_WONR_READ_VAL_LEN p a h st1 ->
  wp (dei_wonr_read_val_len p a h st1 res) dec
    (post t (fun b => then_inst (IInsertLiteral (DTE_NAME e)) (rest_len_str h pb st0 b)) c buf).
Proof.
  intros e Hres Hc Hnm Hst. unfold dei_wonr_read_val_len. unfold e in *. clear e.
  pose proof Hnm as [[[q Hq] Hf] Hblk Hapos Hname]. subst p. set (e := own_entry (Some q) dec) in *.
  destruct Hblk as [Hbb Hbl _ Ho Ha].
  destruct (core_cap max rel _ _ _ _ _ _ Hc) as (Hcap & Hcapr & Hmx). change (2 ^ 31) with 2147483648 in Hmx.
  assert (Z.of_nat (length (DTE_NAME e)) = dte_name_len e) as Hnl by (unfold DTE_NAME; rewrite length_take; lia).
  eapply (wp_with_int max rel _ pb st0 t l name _ (fun n b => then_inst (IInsertLiteral (DTE_NAME e)) (rest_str h n b)));
    [exact Hres| | | | |].
  - by rewrite Hst.
  - intros b. unfold rest_len_str, then_inst. by destruct (read_int_at pb st0 b) as [[n b']|].
  - intros st' Hp. rewrite Hst. split_and!; [done|done|by split|].
    intros b. cbn [remaining own_of]. unfold rest_len_str, then_inst. by destruct (read_int_at 0 st' b) as [[n b']|].
  - intros n b i rest Hn Hm. destruct (rest_str h n b) as [[v b']|] eqn:E; [|done]. intros [= <- <-]. cbn [spec_apply apply_instruction].
    apply rest_str_code in E; [|lia]. change (2 ^ 24) with 16777216 in Hn. change (2 ^ 22) with 4194304 in Hm.
    apply insert_too_large. lia.
  - intros str_len rest Hv _. wpstep. eapply wp_demand; [done|]. wpstep. eapply wp_the_entry; [by eapply core_own|].
    change (entry_at (dt_heap (qpd_tab dec)) q) with e. wpsteps. change (2 ^ 24) with 16777216 in Hv.
    assert (forall rd, (rel = true -> max <= 2 ^ 22 -> forall r i rest', is_bytes r -> rd (rest ++ r) = Some (i, rest') -> spec_apply max t i = None) ->
      post t rd 64 rest (Return (-1)) dec) as Hfail.
    { intros rd Hr. eapply (post_fail max rel t t l name); [reflexivity|by rewrite Hst|exact Hr]. }
    destruct (dte_name_len e >? qpd_cur_max_capacity (qpd_tab dec)) eqn:E1.
    + wpstep. rewrite Z.gtb_ltb in E1. apply Z.ltb_lt in E1. apply Hfail. intros _ _ r i rest' _.
      destruct (rest_str h str_len (rest ++ r)) as [[v b']|]; [|done]. intros [= <- <-]. cbn [spec_apply apply_instruction]. apply insert_too_large. lia.
    + rewrite Z.gtb_ltb in E1. apply Z.ltb_ge in E1.
      destruct (str_len >? huffman_room (qpd_cur_max_capacity (qpd_tab dec) - dte_name_len e) h) eqn:E2.
      * wpstep. rewrite Z.gtb_ltb in E2. apply Z.ltb_lt in E2. apply Hfail. intros _ Hm r i rest' _.
        destruct (rest_str h str_len (rest ++ r)) as [[v b']|] eqn:E; [|done]. intros [= <- <-]. cbn [spec_apply apply_instruction].
        apply insert_too_large. change (2 ^ 22) with 4194304 in Hm.
        pose proof (huffman_room_large h str_len _ v b' (qpd_cur_max_capacity (qpd_tab dec) - dte_name_len e)
          ltac:(change (2 ^ 22) with 4194304; lia) ltac:(lia) E2 E). lia.
      * cbn zeta. destruct (Z.eqb_spec str_len 0) as [->|Hne]; cbn [negb].
        -- eapply (wp_wonr_insert _ q t l name 0 _ []); [exact Hc|done|done|done|done|change (2 ^ 25) with 33554432; lia|fold e; lia|done|done|done|lia|].
           intros r. rewrite rest_str_0. done.
        -- wpstep. apply wp_set_resume. wpstep. set (w := {| wo_entry := _ |}).
           assert (wonr_val_ok e w) as Hok.
           { constructor; cbn [w wo_entry wo_alloced_len wo_str_off wo_str_len]; [exact Hnm|lia|change (2 ^ 24) with 16777216; lia]. }
           destruct h.
           ++ eapply (post_continue max rel t l name _ _ rest rest [] (DEI_WONR_READ_VALUE_HUFFMAN w huff_fresh)); [done| | |done| |].
              ** by apply core_state.
              ** split; [exact Hok|]. cbn. apply huff_reading_fresh. lia.
              ** intros r _. cbn. by rewrite Z.sub_0_r.
              ** cbn [state_cost]. match goal with |- (_ + huff_cost ?r ?s < _)%nat => pose proof (huff_cost_max r s) end. lia.
           ++ eapply (post_continue max rel t l name _ _ rest rest [] (DEI_WONR_READ_VALUE_PLAIN w)); [done| | |done| |].
              ** by apply core_state.
              ** split; [exact Hok|]. cbn. lia.
              ** intros r _. cbn. by rewrite Z.sub_0_r.
              ** cbn. lia.
Qed.

(** ** The value *)

(** The block after a piece was written: the name is still there. *)
Lemma wonr_val_appended e w alloced nsrc src buf' blk :
  wonr_val_ok e w -> dte_name_len e + wo_str_off w + Z.of_nat (length src) <= alloced ->
  appended (dte_name_len e) (wo_str_off w) src blk buf' -> Z.of_nat (length blk) = alloced ->
  take (Z.to_nat (dte_name_len e)) blk = DTE_NAME e -> 0 < alloced <= 2 ^ 28 ->
  let w1 := wonr_progress w alloced nsrc (Z.of_nat (length src)) in
  wonr_val_ok (set_buf buf' e) w1 /\ wo_str_off w1 = wo_str_off w + Z.of_nat (length src)
  /\ DTE_NAME (set_buf buf' e) = DTE_NAME e.
Proof.
  intros [[Hown Hblk Hapos Hname] Hoff0 Hsl] Hoff Hap Hlen Htake Ha w1. change (2 ^ 28) with 268435456 in *.
  assert (u32 (wo_str_off w + Z.of_nat (length src)) = wo_str_off w + Z.of_nat (length src)) as E by (apply u32_id; ulia).
  split; [|split; [exact E|]].
  - constructor; cbn [w1 wonr_progress wo_entry wo_alloced_len wo_str_off wo_str_len]; [|rewrite E; cbn; lia|done].
    constructor; [done| |lia|done]. constructor; cbn [set_buf dte_buf dte_name_len];
      [apply (ap_bytes _ _ _ _ _ Hap)|by rewrite (ap_length _ _ _ _ _ Hap)|change (2 ^ 25) with 33554432; lia|lia|change (2 ^ 28) with 268435456; lia].
  - rewrite <- Htake. unfold DTE_NAME. cbn [set_buf dte_name_len dte_buf]. apply (ap_base _ _ _ _ _ Hap).
Qed.

(** The block is large enough for both strings. *)
Lemma wp_wonr_fit w p t l name (dec : lsqpack_dec hset) :
  let e := own_entry (Some p) dec in
  core t l None (Some p) name dec -> wo_entry w = Some p -> wonr_val_ok e w ->
  qpd_enc_state dec = DEI_WONR_READ_VALUE_PLAIN w ->
  wp (wonr_fit w p (dte_name_len e)) dec (fun o dec' =>
    match o with
    | None => rel = false /\ exists w', qpd_enc_state dec' = DEI_WONR_READ_VALUE_PLAIN w' /\ wo_entry w' = Some p
        /\ core t l None (Some p) name dec'
    | Some w' => core t l None (Some p) name dec'
        /\ wo_str_len w' = wo_str_len w /\ wo_str_off w' = wo_str_off w /\ wo_entry w' = Some p
        /\ let e' := own_entry (Some p) dec' in
           wonr_val_ok e' w' /\ dte_name_len e + wo_str_len w <= wo_alloced_len w'
           /\ dte_name_len e' = dte_name_len e /\ DTE_NAME e' = DTE_NAME e
           /\ stored (dte_name_len e) (wo_str_off w) (dte_buf e') = stored (dte_name_len e) (wo_str_off w) (dte_buf e)
    end).
Proof.
  intros e Hc Hp Hok Hst. pose proof Hok as [[Hown Hblk Hapos Hname] Hoff Hsl]. destruct Hblk as [Hbb Hbl _ Ho Ha].
  change (2 ^ 24) with 16777216 in *. change (2 ^ 25) with 33554432 in *. change (2 ^ 28) with 268435456 in *.
  unfold wonr_fit. rewrite u32_id by ulia. destruct (Z.ltb_spec (wo_alloced_len w) (dte_name_len e + wo_str_len w)) as [Hlt|Hge].
  - wpstep. eapply wp_mono; [eapply (wp_grow max rel t l _ p name); [exact Hc| |exact Hbb]; fold e; lia|].
    intros ok dec1 (Hst1 & Hc1 & Hgrow). fold e in Hgrow. cbn zeta. destruct ok.
    + destruct Hgrow as (ext & He1 & Hext & Hlext). wpstep. rewrite He1.
      split; [done|]. split; [done|]. split; [done|]. split; [done|]. cbn zeta.
      assert (DTE_NAME (set_buf (dte_buf e ++ ext) e) = DTE_NAME e) as Hn.
      { unfold DTE_NAME. cbn [set_buf dte_name_len dte_buf]. rewrite take_app_le by lia. done. }
      split; [|split; [cbn; lia|split; [done|split; [done|cbn [set_buf dte_buf]; apply stored_app; lia]]]].
      constructor; cbn [wo_entry wo_alloced_len wo_str_off wo_str_len set_buf dte_name_len]; [|lia|change (2 ^ 24) with 16777216; lia].
      constructor; [exact Hown| |lia|done]. constructor; cbn [set_buf dte_buf dte_name_len]; [by apply is_bytes_app|lia|change (2 ^ 25) with 33554432; lia|lia|change (2 ^ 28) with 268435456; lia].
    + wpstep. apply wp_set_resume. wpstep. split; [done|]. eexists. split; [done|]. split; [done|]. by apply core_state.
  - wpstep. fold e. split_and!; done.
Qed.

Lemma wp_wonr_val_plain w t l name c buf (dec : lsqpack_dec hset) :
  let e := own_entry (wo_entry w) dec in
  let state := DEI_WONR_READ_VALUE_PLAIN w in
  qpd_enc_state dec = state -> core t l None (wo_entry w) name dec -> state_ok t name e state ->
  is_bytes buf -> buf <> [] -> Z.of_nat (length buf) < 2 ^ 32 ->
  wp (dei_wonr_read_value_plain w buf) dec (post t (remaining e state) c buf).
Proof.
  intros e state Hst Hc (Hok & Hlt) Hb Hne Hbl. unfold state, e in *. clear e state.
  pose proof Hok as [[[[p Hp] Hf] _ _ _] _ _]. rewrite Hp in *. set (e0 := own_entry (Some p) dec) in *.
  assert (0 < length buf)%nat as Hpos by (destruct buf; [done|cbn; lia]).
  unfold dei_wonr_read_value_plain. wpstep. eapply wp_demand; [exact Hp|]. wpstep.
  eapply wp_the_entry; [by eapply core_own|]. change (entry_at (dt_heap (qpd_tab dec)) p) with e0. wpstep.
  eapply wp_mono; [by apply (wp_wonr_fit w p t l name)|]. intros [w0|] dec0 H.
  2: { destruct H as (Hrel & w' & Hst' & Hp' & Hc'). wpstep. eapply (post_fail max rel t t l name); [reflexivity| |by apply refused_malloc].
       rewrite Hst'. cbn [held_of own_of]. by rewrite Hp'. }
  destruct H as (Hc0 & Hlen0 & Hoff0 & Hp0 & Hok0 & Hfit & Hnl0 & Hn0 & Hs0). fold e0 in Hfit, Hnl0, Hn0, Hs0.
  rewrite <- Hnl0 in Hfit, Hs0. rewrite <- Hnl0.
  assert (forall b, remaining e0 (DEI_WONR_READ_VALUE_PLAIN w) b = remaining (own_entry (Some p) dec0) (DEI_WONR_READ_VALUE_PLAIN w0) b) as Hrem0.
  { intros b. cbn [remaining]. by rewrite Hlen0, Hoff0, Hn0, Hs0, <- Hnl0. }
  rewrite <- Hlen0, <- Hoff0 in Hlt. rewrite <- Hlen0 in Hfit.
  clear Hlen0 Hoff0 Hs0 Hn0 Hnl0 Hok Hp Hst. pose proof Hok0 as [[_ Hblk Hapos Hname] Hoff Hsl].
  set (e1 := own_entry (Some p) dec0) in *. destruct Hblk as [Hbb Hbl2 _ Ho Ha].
  change (2 ^ 24) with 16777216 in *. change (2 ^ 25) with 33554432 in *.
  change (2 ^ 28) with 268435456 in *. change (2 ^ 32) with 4294967296 in *. rewrite !u32_id by ulia.
  set (size := Z.min (Z.of_nat (length buf)) (wo_str_len w0 - wo_str_off w0)).
  set (src := take (Z.to_nat size) buf).
  assert (Z.of_nat (length src) = size) as Hsl2 by (unfold src; rewrite length_take; lia). wpstep.
  eapply wp_mono.
  { eapply (wp_store max rel t l _ p name (dte_name_len e1) (wo_str_off w0) src); [exact Hc0|lia|lia|fold e1; lia|by apply is_bytes_take|done]. }
  intros u dec1 (Hc1 & Hst1 & buf' & He1 & Hap). fold e1 in He1, Hap.
  destruct (wonr_val_appended e1 w0 (wo_alloced_len w0) 0 src buf' (dte_buf e1) Hok0) as (Hok1 & Hoff1 & Hn1);
    [lia|done|lia|done|change (2 ^ 28) with 268435456; lia|]. rewrite Hsl2 in Hok1, Hoff1. cbn zeta.
  set (w1 := wonr_progress w0 _ 0 size) in *. rewrite Hoff1. change (wo_str_len w1) with (wo_str_len w0).
  pose proof (ap_stored _ _ _ _ _ Hap) as Hstored. rewrite Hsl2 in Hstored.
  assert (forall r, remaining e0 (DEI_WONR_READ_VALUE_PLAIN w) (buf ++ r) =
    then_inst (IInsertLiteral (DTE_NAME e1)) (rest_plain (wo_str_len w0 - wo_str_off w0 - size)
      (stored (dte_name_len e1) (wo_str_off w0 + size) buf') (drop (Z.to_nat size) buf ++ r))) as Hrem.
  { intros r. rewrite Hrem0. cbn [remaining]. by rewrite (plain_step _ size), Hstored by lia. }
  destruct (Z.eqb_spec (wo_str_off w0 + size) (wo_str_len w0)) as [Hend|Hmore].
  - eapply (wp_wonr_insert w1 p t l name _ _ src); rewrite ?He1, ?Hn1; cbn [set_buf dte_buf dte_flags dte_name_len w1 wonr_progress wo_entry wo_alloced_len];
      [done|done|apply Hok0|apply (ap_bytes _ _ _ _ _ Hap)|change (2 ^ 25) with 33554432; lia|change (2 ^ 25) with 33554432; lia
      |rewrite (ap_length _ _ _ _ _ Hap); lia|done|done|by unfold src; rewrite take_drop| |].
    + rewrite length_drop. lia.
    + intros r. rewrite Hrem. replace (wo_str_len w0 - wo_str_off w0 - size) with 0 by lia. by rewrite plain_done.
  - wpstep. apply wp_set_resume. wpstep.
    eapply (post_continue max rel t l name _ _ buf (drop (Z.to_nat size) buf) src (DEI_WONR_READ_VALUE_PLAIN w1)); [done| | | | |];
      cbn [own_of held_of w1 wonr_progress wo_entry]; rewrite ?Hp0;
      change (own_entry (Some p) (set_enc_state (DEI_WONR_READ_VALUE_PLAIN w1) dec1)) with (own_entry (Some p) dec1); rewrite ?He1.
    + by apply core_state.
    + split; [done|]. rewrite Hoff1. cbn [w1 wonr_progress wo_str_len]. lia.
    + unfold src. by rewrite take_drop.
    + intros r _. rewrite Hrem. cbn [remaining]. rewrite Hn1, Hoff1. cbn [w1 wonr_progress wo_str_len set_buf dte_buf dte_name_len].
      by rewrite Z.sub_add_distr.
    + rewrite length_drop. cbn [state_cost]. lia.
Qed.

(** More of a Huffman-coded value. *)
Lemma post_wonr_val_huff t l name e w p st st' alloced hdr c buf buf' blk (dec : lsqpack_dec hset) :
  wo_entry w = Some p ->
  let n := Z.of_nat (hdr_n_src hdr) in
  let w1 := wonr_progress w alloced n (Z.of_nat (length (hdr_out hdr))) in
  let base := dte_name_len e in
  let out := stored base (wo_str_off w) (dte_buf e) in
  core t l None (Some p) name dec ->
  qpd_enc_state dec = DEI_WONR_READ_VALUE_HUFFMAN w1 st' -> own_entry (Some p) dec = set_buf buf' e ->
  wonr_val_ok (set_buf buf' e) w1 -> DTE_NAME (set_buf buf' e) = DTE_NAME e ->
  wo_str_off w1 = wo_str_off w + Z.of_nat (length (hdr_out hdr)) ->
  appended base (wo_str_off w) (hdr_out hdr) (dte_buf e) blk ->
  stored base (wo_str_off w1) buf' = stored base (wo_str_off w1) blk ->
  0 < wo_str_len w < 2 ^ 24 ->
  (forall r, rest_huff (wo_str_len w - wo_nread w) st out (buf ++ r)
     = rest_huff (wo_str_len w - (wo_nread w + n)) st' (out ++ hdr_out hdr) (drop (hdr_n_src hdr) buf ++ r)) ->
  huff_reading (wo_str_len w) (wo_nread w + n) st' (out ++ hdr_out hdr) -> (hdr_n_src hdr <= length buf)%nat ->
  (64 * length (drop (hdr_n_src hdr) buf) + huff_cost (alloced - base - wo_str_off w1) st' < 64 * length buf + c)%nat ->
  post t (remaining e (DEI_WONR_READ_VALUE_HUFFMAN w st)) c buf (Continue (drop (hdr_n_src hdr) buf)) dec.
Proof.
  intros Hp n w1 base out Hc Hst He Hok1 Hname Hoff Hap Hsame Hsl Hrest Hread Hn Hm.
  assert (wo_nread w1 = wo_nread w + n) as Hnread.
  { cbn. pose proof (hr_len _ _ _ _ Hread). change (2 ^ 24) with 16777216 in *. apply u32_id. ulia. }
  assert (stored base (wo_str_off w1) buf' = out ++ hdr_out hdr) as Hout
    by (rewrite Hsame, Hoff; apply (ap_stored _ _ _ _ _ Hap)).
  eapply (post_continue max rel t l name _ _ buf _ (take (hdr_n_src hdr) buf) (DEI_WONR_READ_VALUE_HUFFMAN w1 st')); [done| | | | |];
    cbn [held_of own_of w1 wonr_progress wo_entry]; rewrite ?Hp, ?He.
  - done.
  - cbn [state_ok]. split; [done|]. cbn [set_buf dte_buf dte_name_len]. fold base. rewrite Hnread, Hout. exact Hread.
  - by rewrite take_drop.
  - intros r _. cbn [remaining]. rewrite Hname, Hnread. cbn [set_buf dte_buf dte_name_len]. fold base.
    rewrite Hout. fold out. by rewrite Hrest.
  - cbn [state_cost]. exact Hm.
Qed.

(** The block was too small. *)
Lemma wp_wonr_val_grow t l name e w p st hdr st' buf buf' (dec1 : lsqpack_dec hset) :
  let state := DEI_WONR_READ_VALUE_HUFFMAN w st in
  let alloced := u32 (wo_alloced_len w * 2) in
  let rest := drop (hdr_n_src hdr) buf in
  state_ok t name e state -> wo_entry w = Some p ->
  core t l None (Some p) name dec1 -> own_entry (Some p) dec1 = set_buf buf' e ->
  appended (dte_name_len e) (wo_str_off w) (hdr_out hdr) (dte_buf e) buf' -> hdr_status hdr = HUFF_DEC_END_DST ->
  huff_step_spec (wo_str_len w) (wo_nread w) st (stored (dte_name_len e) (wo_str_off w) (dte_buf e)) buf
    (Z.to_nat (wo_alloced_len w - dte_name_len e - wo_str_off w)) hdr st' ->
  wp (assert_that (negb (wo_alloced_len w =? 0));;
      ok ← realloc_entry p alloced;
      if ok : bool then
        set_resume (DEI_WONR_READ_VALUE_HUFFMAN
          (wonr_progress w alloced (Z.of_nat (hdr_n_src hdr)) (Z.of_nat (length (hdr_out hdr)))) st');;
        mret (Continue rest)
      else set_resume (DEI_WONR_READ_VALUE_HUFFMAN (wonr_progress w alloced 0 0) st');; mret (Return (-1))) dec1
    (post t (remaining e state) (state_cost e state) buf).
Proof.
  intros state alloced rest (Hok & Hread) Hp Hc1 He1 Hap Hst Hstep. unfold state, alloced, rest. clear state alloced rest.
  pose proof Hok as [[[_ Hf] Hblk Hapos Hname] Hoff Hsl]. destruct Hblk as [Hbb Hbl2 _ Ho Ha].
  pose proof (hr_len _ _ _ _ Hread) as Hnr. unfold huff_step_spec in Hstep. rewrite Hst in Hstep. cbn zeta in Hstep.
  change (2 ^ 24) with 16777216 in *. change (2 ^ 25) with 33554432 in *. change (2 ^ 28) with 268435456 in *.
  pose proof (stored_length (dte_name_len e) (wo_str_off w) (dte_buf e)) as Hsl2.
  destruct Hstep as (Hr & Hrd & Hn & Ho' & Hprog & Hroom & _).
  pose proof (huff_reading_bound _ _ _ _ Hrd) as [_ Hbound2]. rewrite length_app in Hbound2.
  assert (u32 (wo_alloced_len w * 2) = wo_alloced_len w * 2) as Hdbl by (apply u32_id; ulia).
  wpstep. apply wp_assert; [destruct (Z.eqb_spec (wo_alloced_len w) 0); [lia|done]|]. rewrite Hdbl. wpstep.
  assert (Z.of_nat (length buf') = wo_alloced_len w) as Hlb by (rewrite (ap_length _ _ _ _ _ Hap); lia).
  eapply wp_mono.
  { eapply (wp_grow max rel t l _ p name); [exact Hc1| |]; rewrite He1; cbn [set_buf dte_buf]; [lia|apply (ap_bytes _ _ _ _ _ Hap)]. }
  intros ok dec2 (Hst2 & Hc2 & Hgrow). destruct ok.
  - destruct Hgrow as (ext & He2 & Hext & Hlext). rewrite He1 in He2, Hlext. cbn [set_buf dte_buf] in He2, Hlext.
    wpstep. apply wp_set_resume. wpstep.
    assert (appended (dte_name_len e) (wo_str_off w) (hdr_out hdr) (dte_buf e ++ ext) (buf' ++ ext)) as Hap2
      by (apply appended_grown; done || lia).
    destruct (wonr_val_appended e w (wo_alloced_len w * 2) (Z.of_nat (hdr_n_src hdr)) (hdr_out hdr)
      (buf' ++ ext) (dte_buf e ++ ext) Hok) as (Hok1 & Hoff1 & Hn1); [lia|done| | |change (2 ^ 28) with 268435456; lia|].
    { rewrite length_app in *. rewrite <- (ap_length _ _ _ _ _ Hap). lia. }
    { rewrite take_app_le by lia. done. }
    eapply (post_wonr_val_huff t l name e w p st st' (wo_alloced_len w * 2) hdr _ buf (buf' ++ ext) buf'); try done; try lia.
    + by apply core_state.
    + rewrite Hoff1. rewrite stored_app by lia. done.
    + rewrite Hoff1, length_drop. cbn [state_cost].
      pose proof (huff_cost_grow _ (wo_alloced_len w * 2 - dte_name_len e - (wo_str_off w + Z.of_nat (length (hdr_out hdr)))) _ _ _
        Hprog ltac:(lia) ltac:(intros ->; cbn [length]; dlia) ltac:(lia)). lia.
  - wpstep. apply wp_set_resume. wpstep.
    eapply (post_fail max rel t t l name); [reflexivity| |by apply refused_malloc].
    cbn [set_enc_state qpd_enc_state held_of own_of wonr_progress wo_entry]. rewrite Hp. by apply core_state.
Qed.

Lemma wp_wonr_val_huff w st t l name buf (dec : lsqpack_dec hset) :
  let e := own_entry (wo_entry w) dec in
  let state := DEI_WONR_READ_VALUE_HUFFMAN w st in
  qpd_enc_state dec = state -> core t l None (wo_entry w) name dec -> state_ok t name e state ->
  is_bytes buf -> buf <> [] -> Z.of_nat (length buf) < 2 ^ 32 ->
  wp (dei_wonr_read_value_huffman w st buf) dec (post t (remaining e state) (state_cost e state) buf).
Proof.
  intros e state Hst Hc (Hok & Hread) Hb Hne Hbl. unfold state, e in *. clear e state.
  pose proof Hok as [[[[p Hp] Hf] Hblk Hapos Hname] Hoff Hsl]. rewrite Hp in *. set (e0 := own_entry (Some p) dec) in *.
  destruct Hblk as [Hbb Hbl2 _ Ho Ha]. pose proof (hr_len _ _ _ _ Hread) as Hnr.
  pose proof (huff_reading_bound _ _ _ _ Hread) as [_ Hbound]. rewrite stored_length in Hbound by lia.
  assert (0 < length buf)%nat as Hpos by (destruct buf; [done|cbn; lia]).
  unfold dei_wonr_read_value_huffman. wpstep. eapply wp_demand; [exact Hp|]. wpstep.
  eapply wp_the_entry; [by eapply core_own|]. change (entry_at (dt_heap (qpd_tab dec)) p) with e0. wpstep.
  eapply wp_mono.
  { eapply (wp_huff_into max rel t l _ p name (dte_name_len e0) (wo_str_off w) (wo_alloced_len w - dte_name_len e0 - wo_str_off w)
      (wo_str_len w) (wo_nread w) st buf); try done; try lia; fold e0; try done; lia. }
  intros [hdr st'] dec1 (Hc1 & Hst1 & buf' & He1 & Hap & Hstep). fold e0 in He1, Hap, Hstep. cbn [fst snd] in *.
  unfold huff_step_spec in Hstep. change (2 ^ 24) with 16777216 in *. change (2 ^ 25) with 33554432 in *.
  change (2 ^ 28) with 268435456 in *. cbn zeta.
  pose proof (stored_length (dte_name_len e0) (wo_str_off w) (dte_buf e0)) as Hsl2.
  destruct (hdr_status hdr) eqn:Es.
  - destruct Hstep as (Hr & Hn & Hnb' & Ho' & Hlen). rewrite length_app in Hlen. rewrite u32_id by ulia.
    destruct (wonr_val_appended e0 w (wo_alloced_len w) 0 (hdr_out hdr) buf' (dte_buf e0) Hok)
      as (_ & _ & Hn1); [lia|done|lia|done|change (2 ^ 28) with 268435456; lia|].
    eapply (wp_wonr_insert w p t l name _ _ (take (hdr_n_src hdr) buf)); rewrite ?He1, ?Hn1; cbn [set_buf dte_buf dte_flags dte_name_len];
      [done|done|done|apply (ap_bytes _ _ _ _ _ Hap)|change (2 ^ 25) with 33554432; lia|change (2 ^ 25) with 33554432; lia
      |rewrite (ap_length _ _ _ _ _ Hap); lia|done|done|by rewrite take_drop| |].
    + rewrite length_drop. pose proof (hr_end _ _ _ _ Hread). lia.
    + intros r. cbn [remaining]. rewrite Hr, (ap_stored _ _ _ _ _ Hap). done.
  - destruct Hstep as (Hr & Hrd & Hn & Ho' & Hall). wpstep. apply wp_set_resume. wpstep.
    destruct (wonr_val_appended e0 w (wo_alloced_len w) (Z.of_nat (hdr_n_src hdr)) (hdr_out hdr) buf' (dte_buf e0) Hok)
      as (Hok1 & Hoff1 & Hn1); [lia|done|lia|done|change (2 ^ 28) with 268435456; lia|].
    eapply (post_wonr_val_huff t l name e0 w p st st' (wo_alloced_len w) hdr _ buf buf' buf'); try done; try lia.
    + by apply core_state.
    + rewrite length_drop. cbn [state_cost].
      match goal with |- context [huff_cost ?r st'] => pose proof (huff_cost_max r st') end. lia.
  - apply (wp_wonr_val_grow t l name e0 w p st hdr st' buf buf'); try done. unfold huff_step_spec. by rewrite Es.
  - wpstep. apply wp_set_resume. wpstep. eapply (post_fail max rel t t l name); [reflexivity| |].
    + cbn [set_enc_state qpd_enc_state held_of own_of]. rewrite Hp. by apply core_state.
    + intros _ _ r i rest _. cbn [remaining]. by rewrite Hstep.
Qed.
End wonr.
