(* ===== verification/DecEncIn.v ===== *)
(** * [lsqpack_dec_enc_in]

    Every round of the loop keeps to [step_post] of [DecReading], so a call reads the
    instructions of the encoder stream as [Rfc9204] does, acts on each once it is
    complete, and keeps what it has of the one that is not. *)

From stdpp Require Import gmap.
From S2P Require Import Prelude Monad IntCodec HuffTables Huffman HuffStream StrCodec Xxhash.
From S2P Require Import StaticTable Ringbuf Rfc9204 EncTable DecTable DecState DecStream DecSpec.
From S2P Require Import DecBlocked DecStrings DecReading DecCore DecRounds DecWinr DecWonr.
From S2P Require Import DecWonrValue.

(** ** How an instruction starts *)

Lemma has_bits_test b k : 0 <= k -> has_bits b (2 ^ k) = Z.testbit b k.
Proof. apply has_bits_pow2. Qed.

Lemma instruction_winr b0 src : Z.testbit b0 7 = true ->
  read_instruction (b0 :: src) =
  '(n, b) ← read_int_at 6 dec_int_fresh (b0 :: src); then_inst (winr_inst (Z.testbit b0 6) n) (read_str 7 b).
Proof.
  intros H. cbn [read_instruction]. rewrite H. unfold read_int_str. rewrite read_int_fresh.
  destruct (read_int_at 6 dec_int_fresh (b0 :: src)) as [[n b]|]; [|done]. cbn.
  destruct (read_str 7 b) as [[v b']|]; [|done]. cbn. unfold winr_inst. by destruct (Z.testbit b0 6).
Qed.

Lemma instruction_wonr b0 src : is_bytes (b0 :: src) -> Z.testbit b0 7 = false -> Z.testbit b0 6 = true ->
  read_instruction (b0 :: src) = literal_name (rest_len_str (Z.testbit b0 5) 5 dec_int_fresh (b0 :: src)).
Proof.
  intros Hb H7 H6. cbn [read_instruction]. rewrite H7, H6. unfold read_str_str. rewrite (read_str_split 5) by (done || lia).
  unfold rest_len_str, literal_name, literal_value, then_inst.
  destruct (read_int_at 5 dec_int_fresh (b0 :: src)) as [[n b]|]; [|done]. cbn.
  destruct (rest_str _ n b) as [[nm b']|]; [|done]. cbn. by destruct (read_str 7 b') as [[v b'']|].
Qed.

Lemma instruction_size b0 src : Z.testbit b0 7 = false -> Z.testbit b0 6 = false -> Z.testbit b0 5 = true ->
  read_instruction (b0 :: src) = '(n, b) ← read_int_at 5 dec_int_fresh (b0 :: src); Some (ISetCapacity n, b).
Proof. intros H7 H6 H5. cbn [read_instruction]. by rewrite H7, H6, H5. Qed.

Lemma instruction_dup b0 src : Z.testbit b0 7 = false -> Z.testbit b0 6 = false -> Z.testbit b0 5 = false ->
  read_instruction (b0 :: src) = '(n, b) ← read_int_at 5 dec_int_fresh (b0 :: src); Some (IDuplicate n, b).
Proof. intros H7 H6 H5. cbn [read_instruction]. by rewrite H7, H6, H5. Qed.

Lemma read_value b0 src : is_bytes (b0 :: src) ->
  read_str 7 (b0 :: src) = rest_len_str (Z.testbit b0 7) 7 dec_int_fresh (b0 :: src).
Proof. intros Hb. by rewrite (read_str_split 7) by (done || lia). Qed.

Section enc_in.
Context {hset : Type} `{!HsetIf hset}.
Variables (max : Z) (rel : bool).

Local Abbreviation core := (dec_core max rel).
Local Abbreviation post := (step_post max rel).

Lemma int_pending_any st : int_pending st -> forall p, int_start p st.
Proof. intros H p. by apply int_pending_start. Qed.

(** ** One round *)

Lemma wp_next_inst b0 src t l name (dec : lsqpack_dec hset) :
  is_bytes (b0 :: src) -> qpd_enc_state dec = DEI_NEXT_INST -> core t l None None name dec ->
  wp (enc_in_round b0 src) dec (post t read_instruction 0 (b0 :: src)).
Proof.
  intros Hb Hst Hc. unfold enc_in_round. wpsteps. rewrite Hst.
  change 0x80 with (2 ^ 7). change 0x40 with (2 ^ 6). change 0x20 with (2 ^ 5).
  rewrite !has_bits_test by lia.
  assert (forall r, is_bytes r -> is_bytes (b0 :: src ++ r)) as Hbr
    by (intros r Hr; rewrite app_comm_cons; by apply is_bytes_app).
  destruct (Z.testbit b0 7) eqn:E7; [|destruct (Z.testbit b0 6) eqn:E6; [|destruct (Z.testbit b0 5) eqn:E5]].
  - wpstep. apply wp_set_resume. eapply wp_mono.
    { eapply (wp_winr_idx max rel _ 6 dec_int_fresh t l name 0 (b0 :: src));
        [by apply int24_result, int_fresh_start|by apply core_state|done|done]. }
    intros s dec'. apply post_ext. intros r Hr. cbn [app]. by rewrite (instruction_winr b0 (src ++ r) E7).
  - wpstep. apply wp_set_resume. eapply wp_mono.
    { eapply (wp_wonr_name_len max rel _ 5 dec_int_fresh t l name 0 (b0 :: src));
        [by apply int24_result, int_fresh_start|by apply core_state|done|done]. }
    intros s dec'. apply post_ext. intros r Hr. cbn [app]. by rewrite (instruction_wonr b0 (src ++ r)) by auto.
  - wpstep. apply wp_set_resume. eapply wp_mono.
    { eapply (wp_size max rel 5 dec_int_fresh t l name 0 (b0 :: src));
        [by apply int64_result, int_fresh_start|by apply core_state|done|done]. }
    intros s dec'. apply post_ext. intros r Hr. cbn [app]. by rewrite (instruction_size b0 (src ++ r)).
  - wpstep. apply wp_set_resume. eapply wp_mono.
    { eapply (wp_dup max rel 5 dec_int_fresh t l name 0 (b0 :: src));
        [by apply int24_result, int_fresh_start|by apply core_state|done|done]. }
    intros s dec'. apply post_ext. intros r Hr. cbn [app]. by rewrite (instruction_dup b0 (src ++ r)).
Qed.

Lemma wp_round b0 src t (dec : lsqpack_dec hset) :
  is_bytes (b0 :: src) -> Z.of_nat (length (b0 :: src)) < 2 ^ 32 -> reading max rel dec t ->
  wp (enc_in_round b0 src) dec (post t (reader dec) (cost dec) (b0 :: src)).
Proof.
  intros Hb Hlen (l & name & Hc & Hok). unfold reader, cost.
  assert (forall r, is_bytes r -> is_bytes (b0 :: src ++ r)) as Hbr
    by (intros r Hr; rewrite app_comm_cons; by apply is_bytes_app).
  destruct (qpd_enc_state dec) as [|s st|w|w h st|w|w st|st|st|h st|w st|w|p a|p a h st|w st|w] eqn:Hst;
    [by eapply wp_next_inst|unfold enc_in_round; wpsteps; rewrite Hst; cbn [held_of own_of state_ok] in *..].
  - eapply (wp_winr_idx max rel s 0 st t l name); [by apply int24_result, int_pending_any|done|by rewrite Hst|by rewrite Hst].
  - wpstep. apply wp_set_resume. change 0x80 with (2 ^ 7). rewrite has_bits_test by lia. eapply wp_mono.
    { eapply (wp_winr_len max rel w _ dec_int_fresh 7 dec_int_fresh t l name 0 (b0 :: src));
        [by apply int24_result, int_fresh_start|by apply core_state|exact Hok|done]. }
    intros s dec'. apply post_ext. intros r Hr. cbn [remaining app]. by rewrite (read_value b0 (src ++ r)) by auto.
  - destruct Hok as [Hok Hp].
    eapply (wp_winr_len max rel w h st 0 st t l name); [by apply int24_result, int_pending_any|done|done|done].
  - by apply (wp_winr_plain max rel w t l name).
  - by apply (wp_winr_huff max rel w st t l name).
  - eapply (wp_dup max rel 0 st t l name); [by apply int24_result, int_pending_any|done|by rewrite Hst|by rewrite Hst].
  - eapply (wp_size max rel 0 st t l name); [by apply int64_result, int_pending_any|done|by rewrite Hst|by rewrite Hst].
  - eapply (wp_wonr_name_len max rel h 0 st t l name); [by apply int24_result, int_pending_any|done|by rewrite Hst|by rewrite Hst].
  - by apply (wp_wonr_name_huff max rel w st t l name).
  - by apply (wp_wonr_name_plain max rel w t l name).
  - wpstep. apply wp_set_resume. change 0x80 with (2 ^ 7). rewrite has_bits_test by lia. eapply wp_mono.
    { eapply (wp_wonr_val_len max rel p a _ dec_int_fresh 7 dec_int_fresh t l name 0 (b0 :: src));
        [by apply int24_result, int_fresh_start|by apply core_state|exact Hok|done]. }
    intros s dec'. apply post_ext. intros r Hr. cbn [remaining app]. unfold literal_value. by rewrite (read_value b0 (src ++ r)) by auto.
  - destruct Hok as [Hok Hp].
    eapply (wp_wonr_val_len max rel p a h st 0 st t l name); [by apply int24_result, int_pending_any|done|done|done].
  - by apply (wp_wonr_val_huff max rel w st t l name).
  - by apply (wp_wonr_val_plain max rel w t l name).
Qed.

(** ** The loop *)

(** The decoder has read the instructions that lead to [t] and [pend] of the next
    one. *)
Definition decoding (dec : lsqpack_dec hset) (t : dyn_table) (pend : bytes) : Prop :=
  reading max rel dec t /\ is_bytes pend
  /\ forall r, is_bytes r -> reader dec r = read_instruction (pend ++ r).

(** What the bytes [stream] did to a decoder with the table [t]. *)
Definition accepted (t : dyn_table) (stream : bytes) (dec : lsqpack_dec hset) : Prop :=
  exists b l pend t', stream = b ++ pend /\ instructions b l /\ dec_applys max t l = Some t'
    /\ decoding dec t' pend.

(** ... and when one of the instructions was refused. *)
Definition rejected (t : dyn_table) (stream : bytes) (dec : lsqpack_dec hset) : Prop :=
  stopped max rel dec
  /\ exists b l bad t', stream = b ++ bad /\ bad <> [] /\ instructions b l
    /\ dec_applys max t l = Some t' /\ refused max rel t' read_instruction bad.

Definition enc_in_post (t : dyn_table) (stream : bytes) (z : Z) (dec : lsqpack_dec hset) : Prop :=
  (z = 0 /\ accepted t stream dec) \/ (z = -1 /\ rejected t stream dec).

(** The instruction [i] first. *)
Lemma post_more t t' b i rest z (dec : lsqpack_dec hset) :
  is_instruction b i -> dec_apply max t i = Some t' ->
  enc_in_post t' rest z dec -> enc_in_post t (b ++ rest) z dec.
Proof.
  intros Hi Ha [(-> & bs & l & pend & t2 & -> & Hl & Ht & H)|(-> & Hs & bs & l & bad & t2 & -> & Hne & Hl & Ht & H)].
  - left. split; [done|]. exists (b ++ bs), (i :: l), pend, t2. rewrite app_assoc.
    split; [done|]. split; [by constructor|]. split; [by cbn; rewrite Ha|done].
  - right. split; [done|]. split; [done|]. exists (b ++ bs), (i :: l), bad, t2. rewrite app_assoc.
    split; [done|]. split; [done|]. split; [by constructor|]. split; [by cbn; rewrite Ha|done].
Qed.

Lemma wp_loop fuel t pend buf (dec : lsqpack_dec hset) :
  reading max rel dec t -> is_bytes pend -> is_bytes buf ->
  (forall r, is_bytes r -> reader dec (buf ++ r) = read_instruction (pend ++ buf ++ r)) ->
  (64 * length buf + cost dec <= fuel)%nat -> Z.of_nat (length buf) < 2 ^ 32 ->
  wp (enc_in_loop fuel buf) dec (enc_in_post t (pend ++ buf)).
Proof.
  revert t pend buf dec. induction fuel as [|fuel IH]; intros t pend buf dec Hread Hp Hb Hrd Hf Hlen.
  { destruct buf; [|cbn in Hf; lia]. cbn [enc_in_loop]. wpstep. left. split; [done|].
    exists [], [], pend, t. rewrite app_nil_r. split; [done|]. split; [constructor|]. done. }
  destruct buf as [|b0 src].
  { cbn [enc_in_loop]. wpstep. left. split; [done|].
    exists [], [], pend, t. rewrite app_nil_r. split; [done|]. split; [constructor|]. done. }
  cbn [enc_in_loop]. wpstep. eapply wp_mono; [by apply wp_round|]. intros s dec1 Hpost.
  destruct s as [rest|z]; cbn [step_post] in Hpost.
  - destruct Hpost as (used & E & H). rewrite E in Hb, Hlen, Hrd, Hf, H |- *. apply Forall_app in Hb as [Hbu Hbr].
    rewrite length_app in *. destruct H as [(Hrd1 & Hread1 & Hm)|(i & t1 & Hrd1 & Hm & Ha & Hread1 & Hst)].
    + rewrite app_assoc. apply IH; [done|by apply is_bytes_app|done| |lia|lia].
      intros r Hr. rewrite <- Hrd1, Hrd, <- !app_assoc by done. done.
    + assert (is_instruction (pend ++ used) i) as Hi.
      { apply (is_instruction_intro _ _ rest); rewrite <- app_assoc; [by repeat apply is_bytes_app|].
        specialize (Hrd1 [] (Forall_nil_2 _)). specialize (Hrd [] (Forall_nil_2 _)). rewrite !app_nil_r in *. congruence. }
      rewrite app_assoc. eapply wp_mono; [apply (IH t1 [] rest); [exact Hread1|by apply Forall_nil|exact Hbr| | |lia]|].
      * intros r Hr. unfold reader. by rewrite Hst.
      * unfold cost. rewrite Hst. cbn [state_cost]. lia.
      * intros z dec2 Hz. eapply post_more; [exact Hi|exact Ha|exact Hz].
  - wpstep. destruct Hpost as [(-> & Hread1 & Hrd1)|(-> & Hs & Hr)].
    + left. split; [done|]. exists [], [], (pend ++ b0 :: src), t. split; [done|]. split; [constructor|]. split; [done|].
      split; [done|]. split; [by apply is_bytes_app|]. intros r Hr. by rewrite <- Hrd1, Hrd, <- app_assoc.
    + right. split; [done|]. split; [done|]. exists [], [], (pend ++ b0 :: src), t. split; [done|].
      split; [by destruct pend|]. split; [constructor|]. split; [done|]. intros Hrel Hmax r i rest Hbr. rewrite <- app_assoc, <- Hrd by done. by apply Hr.
Qed.

Lemma state_cost_bound e st : (state_cost e st <= 54)%nat.
Proof.
  destruct st; cbn [state_cost]; try match goal with |- context [huff_cost ?r ?s] => pose proof (huff_cost_max r s) end; lia.
Qed.

(** One call. *)
Lemma wp_enc_in t pend buf (dec : lsqpack_dec hset) :
  decoding dec t pend -> is_bytes buf -> Z.of_nat (length buf) < 2 ^ 32 ->
  wp (lsqpack_dec_enc_in buf) dec (enc_in_post t (pend ++ buf)).
Proof.
  intros (Hread & Hp & Hrd) Hb Hlen. unfold lsqpack_dec_enc_in. wpsteps.
  apply wp_loop; [|done|done| | |done].
  - destruct Hread as (l & name & Hc & Hok). exists l, name. split; [by apply core_bytes_in|exact Hok].
  - intros r Hr. rewrite <- Hrd by by apply is_bytes_app. done.
  - unfold enc_in_fuel. assert (cost (set_bytes_in (u32 (qpd_bytes_in dec + Z.of_nat (length buf))) dec) <= 54)%nat
      by apply state_cost_bound. lia.
Qed.

(** ** Many calls *)

(** The chunks of a stream one after the other, up to the first failure. *)
Fixpoint feed (chunks : list bytes) : dec_m hset Z :=
  match chunks with
  | [] => mret 0
  | buf :: chunks =>
      r ← lsqpack_dec_enc_in buf;
      if r =? 0 then feed chunks else mret r
  end.

Definition chunk_ok (buf : bytes) : Prop := is_bytes buf /\ Z.of_nat (length buf) < 2 ^ 32.

Lemma refused_app t rd bad more :
  is_bytes more -> refused max rel t rd bad -> refused max rel t rd (bad ++ more).
Proof.
  intros Hb H Hrel Hmax r i rest Hr. rewrite <- app_assoc. apply H; [done|done|by apply is_bytes_app].
Qed.

Lemma rejected_app t stream more (dec : lsqpack_dec hset) :
  is_bytes more -> rejected t stream dec -> rejected t (stream ++ more) dec.
Proof.
  intros Hb (Hs & b & l & bad & t' & -> & Hne & Hl & Ht & H). split; [done|].
  exists b, l, (bad ++ more), t'. rewrite <- app_assoc. split; [done|]. split; [by destruct bad|].
  split; [done|]. split; [done|]. by apply refused_app.
Qed.

Lemma is_bytes_concat chunks : Forall chunk_ok chunks -> is_bytes (concat chunks).
Proof. induction 1 as [|buf chunks [Hb _] _ IH]; [by apply Forall_nil|]. cbn. by apply is_bytes_app. Qed.

Lemma accepted_app t b pend t1 l stream z (dec : lsqpack_dec hset) :
  instructions b l -> dec_applys max t l = Some t1 ->
  enc_in_post t1 (pend ++ stream) z dec -> enc_in_post t ((b ++ pend) ++ stream) z dec.
Proof.
  intros Hl Ht H. rewrite <- app_assoc. revert t Ht.
  induction Hl as [|c i bs l Hi _ IH]; intros t Ht; cbn [dec_applys] in Ht; [by injection Ht as ->|].
  destruct (dec_apply max t i) as [t2|] eqn:E; [|done]. rewrite <- app_assoc.
  eapply post_more; [exact Hi|exact E|]. by apply IH.
Qed.

Lemma wp_feed chunks t pend (dec : lsqpack_dec hset) :
  decoding dec t pend -> Forall chunk_ok chunks ->
  wp (feed chunks) dec (enc_in_post t (pend ++ concat chunks)).
Proof.
  intros Hd Hc. revert t pend dec Hd. induction Hc as [|buf chunks [Hb Hl] Hc IH]; intros t pend dec Hd; cbn [feed concat].
  - wpstep. left. split; [done|]. exists [], [], pend, t. rewrite app_nil_r.
    split; [done|]. split; [constructor|]. done.
  - wpstep. eapply wp_mono; [by apply wp_enc_in|]. intros r dec1 [(-> & H)|(-> & H)]; cbn [Z.eqb].
    + destruct H as (b & l & pend1 & t1 & E & Hins & Ht & Hd1). rewrite app_assoc, E.
      eapply wp_mono; [by apply (IH t1 pend1)|]. intros z dec2 Hz. by eapply accepted_app.
    + wpstep. right. split; [done|]. rewrite app_assoc. apply rejected_app; [by apply is_bytes_concat|done].
Qed.

(** A stream the RFC accepts is not refused. *)
Lemma valid_not_rejected t stream more l t' (dec : lsqpack_dec hset) :
  rel = true -> max <= 2 ^ 22 -> is_bytes more ->
  instructions (stream ++ more) l -> spec_applys max t l = Some t' -> ~ rejected t stream dec.
Proof.
  intros Hrel Hmax Hb Hl Hs (_ & b & l1 & bad & t1 & -> & Hne & Hl1 & Ht1 & Href).
  rewrite <- app_assoc in Hl. destruct (instructions_split _ _ _ _ _ Hl Hl1 eq_refl) as (l2 & -> & Hl2).
  rewrite spec_applys_app in Hs. destruct (spec_applys max t l1) as [t2|] eqn:E; [|done].
  apply spec_dec_applys in E. assert (t2 = t1) as -> by congruence. cbn in Hs.
  inversion Hl2 as [E0 E1|c i cs l3 Hi Hcs E0 E1].
  - by destruct bad.
  - subst l2. specialize (Hi cs). rewrite E0 in Hi. cbn [spec_applys] in Hs.
    by rewrite (Href Hrel Hmax more i cs Hb Hi) in Hs.
Qed.

(** ** The beginning *)

Lemma init_decoding risked opts app ms :
  0 <= max < 2 ^ 31 -> (rel = true -> Forall is_Some ms) ->
  decoding (lsqpack_dec_init max risked opts app ms) (Dyn 0 max []) [].
Proof.
  intros Hm Hms. change (2 ^ 31) with 2147483648 in Hm. split; [|split; [by apply Forall_nil|done]].
  exists [], []. split; [|done]. constructor; cbn; try done; [|apply no_ctxs_ok].
  constructor; [|cbn; lia]. constructor; cbn; try done; try lia.
  - by left.
  - constructor.
  - constructor; cbn; intros p; rewrite ?lookup_empty; try done; try (by intros []).
  - unfold DYNAMIC_ENTRY_OVERHEAD. intros H. rewrite u32_id by (unfold_words; dlia).
    rewrite <- (Z_mod_plus_full (-1) 1), Z.mod_small; dlia.
Qed.
End enc_in.
