(* ===== verification/DecCleanup.v ===== *)
(** * [lsqpack_dec_cleanup]

    Whatever the decoder has read of the encoder stream, even when it has failed in
    the middle of an instruction, [lsqpack_dec_cleanup] of src/lsqpack.c frees every
    block once and only blocks that are there, and leaves nothing behind: the
    references the counts of [DecTable] stand for are all the references there
    are. *)

From stdpp Require Import gmap.
From S2P Require Import Prelude Monad IntCodec HuffTables Huffman HuffStream StrCodec Xxhash.
From S2P Require Import StaticTable Ringbuf Rfc9204 EncTable DecTable DecState DecStream DecSpec.
From S2P Require Import DecBlocked DecStrings DecReading DecCore.

Section cleanup.
Context {hset : Type} `{!HsetIf hset}.

Fixpoint free_contexts (ps : list Z) : dec_m hset unit :=
  match ps with
  | [] => mret tt
  | p :: ps => part qpd_ctxs set_ctxs (free_context p);; free_contexts ps
  end.

Definition free_opt (p : option Z) : dec_m hset unit :=
  match p with Some p => on_table (free_entry p) | None => mret tt end.

Definition decref_opt (p : option Z) : dec_m hset unit :=
  match p with Some p => on_table (qdec_decref_entry p) | None => mret tt end.

(** What the instruction being read holds; nothing in the first state of an
    insertion, whose [entry] and [reffed_entry] are NULL. *)
Definition cleanup_inst : dec_m hset unit :=
  dec ← get;
  match qpd_enc_state dec with
  | DEI_WINR_READ_NAME_IDX _ _ => mret tt
  | DEI_WINR_BEGIN_READ_VAL_LEN w | DEI_WINR_READ_VAL_LEN w _ _ => decref_opt (wr_reffed_entry w)
  | DEI_WINR_READ_VALUE_PLAIN w | DEI_WINR_READ_VALUE_HUFFMAN w _ =>
      free_opt (wv_entry w);; decref_opt (wv_reffed_entry w)
  | DEI_WONR_READ_NAME_LEN _ _ => mret tt
  | DEI_WONR_READ_NAME_HUFFMAN w _ | DEI_WONR_READ_NAME_PLAIN w
  | DEI_WONR_READ_VALUE_HUFFMAN w _ | DEI_WONR_READ_VALUE_PLAIN w => free_opt (wo_entry w)
  | DEI_WONR_BEGIN_READ_VAL_LEN p _ | DEI_WONR_READ_VAL_LEN p _ _ _ => free_opt p
  | DEI_NEXT_INST | DEI_DUP_READ_IDX _ | DEI_SIZE_UPD_READ_IDX _ => mret tt
  end.

(** The loop over the table; [fuel] is the number of its entries. *)
Fixpoint cleanup_entries (fuel : nat) (t : dec_table) : option dec_table :=
  if ringbuf_empty (qpd_dyn_table t) then Some t
  else match fuel with
       | O => None
       | S fuel =>
           let '(entry, ring) := ringbuf_advance_tail (qpd_dyn_table t) in
           p ← entry;
           t ← qdec_decref_entry p (with_ring ring (qpd_cur_capacity t) (qpd_last_id t) t);
           cleanup_entries fuel t
       end.

Definition cleanup_table (t : dec_table) : option dec_table :=
  t ← cleanup_entries (Z.to_nat (ringbuf_count (qpd_dyn_table t))) t;
  Some (with_ring (ringbuf_cleanup (qpd_dyn_table t)) (qpd_cur_capacity t) (qpd_last_id t) t).

Definition lsqpack_dec_cleanup : dec_m hset unit :=
  dec ← get;
  free_contexts (qpd_hbrcs (qpd_ctxs dec));;
  cleanup_inst;;
  on_table cleanup_table.

(** ** Nothing is left *)

Lemma refs_cons p l held q : (p ∉ l) ->
  refs l held q = refs (p :: l) held q - Z.b2z (bool_decide (q = p)).
Proof.
  intros Hpl. unfold refs. destruct (decide (q = p)) as [->|Hne].
  - rewrite !(bool_decide_true (p = p)), (bool_decide_true (p ∈ p :: l)) by (try left; done).
    rewrite (bool_decide_false (p ∈ l)) by done. cbn. lia.
  - rewrite (bool_decide_false (q = p)) by done.
    rewrite (bool_decide_ext (q ∈ p :: l) (q ∈ l)) by (rewrite elem_of_cons; tauto).
    cbn. lia.
Qed.

Lemma cleanup_entries_empty l t :
  rb_rep (qpd_dyn_table t) l -> NoDup l -> heap_ok (dt_heap t) (dt_next t) (refs l None) None ->
  exists t', cleanup_entries (length l) t = Some t' /\ dt_heap t' = ∅.
Proof.
  revert t. induction l as [|p l IH]; intros t Hring Hnd Hh; cbn [length cleanup_entries].
  - rewrite (proj2 (ringbuf_empty_rep _ _ Hring) eq_refl). exists t. split; [done|].
    apply map_empty. intros q. destruct (dt_heap t !! q) as [e|] eqn:E; [|done].
    destruct (ho_dom _ _ _ _ Hh q (mk_is_Some _ _ E)) as [Hr|Hr]; [|done].
    pose proof (proj2 (refs_zero [] None q)) as H0. rewrite H0 in Hr; [lia|]. split; [by intros ?%elem_of_nil|done].
  - apply NoDup_cons in Hnd as [Hpl Hnd].
    destruct (ringbuf_empty (qpd_dyn_table t)) eqn:Ee; [by apply (ringbuf_empty_rep _ _ Hring) in Ee|].
    destruct (ringbuf_advance_tail_rep _ _ _ Hring) as [Hp Hring'].
    rewrite (surjective_pairing (ringbuf_advance_tail _)), Hp. cbn [mbind option_bind].
    set (t1 := with_ring _ _ _ t).
    destruct (decref_heap t1 p (refs (p :: l) None) (refs l None) None) as (h & -> & Hh' & _).
    + exact Hh.
    + pose proof (refs_table (p :: l) None p ltac:(left)). pose proof (refs_range (p :: l) None p). lia.
    + intros q. by apply refs_cons.
    + cbn [mbind option_bind]. by apply IH.
Qed.

(** The table's invariant once nothing else refers to the entries. *)
Definition table_alone (t : dec_table) : Prop := exists l,
  rb_rep (qpd_dyn_table t) l /\ NoDup l /\ heap_ok (dt_heap t) (dt_next t) (refs l None) None.

Lemma cleanup_table_empty t : table_alone t ->
  exists t', cleanup_table t = Some t' /\ dt_heap t' = ∅ /\ qpd_dyn_table t' = ringbuf_empty_buf.
Proof.
  intros (l & Hring & Hnd & Hh). unfold cleanup_table. rewrite (ringbuf_count_rep _ _ Hring), Nat2Z.id.
  destruct (cleanup_entries_empty l t Hring Hnd Hh) as (t' & -> & Ht'). cbn [mbind option_bind]. eauto.
Qed.

(** ** The contexts *)

Lemma wp_free_contexts ps (dec : lsqpack_dec hset) (Q : unit -> lsqpack_dec hset -> Prop) :
  NoDup ps -> (forall p, p ∈ ps <-> is_Some (cx_mem (qpd_ctxs dec) !! p)) ->
  (forall cs, cx_mem cs = ∅ -> Q tt (set_ctxs cs dec)) ->
  wp (free_contexts ps) dec Q.
Proof.
  revert dec. induction ps as [|p ps IH]; intros dec Hnd Hmem HQ; cbn [free_contexts].
  - wpstep. replace dec with (set_ctxs (qpd_ctxs dec) dec) by by destruct dec. apply HQ.
    apply map_empty. intros q. destruct (cx_mem (qpd_ctxs dec) !! q) eqn:E; [|done].
    apply mk_is_Some, Hmem in E. by apply elem_of_nil in E.
  - apply NoDup_cons in Hnd as [Hp Hnd]. wpstep.
    destruct (proj1 (Hmem p) ltac:(left)) as [c Hc]. unfold wp at 1, part, free_context. rewrite Hc.
    apply IH; [done| |].
    + intros q. cbn [set_ctxs qpd_ctxs cx_mem]. destruct (decide (q = p)) as [->|Hne].
      * rewrite lookup_delete_eq. split; [done|by intros []].
      * rewrite lookup_delete_ne, <- Hmem, elem_of_cons by done. tauto.
    + intros cs Hcs. apply (HQ cs Hcs).
Qed.

(** ** The instruction being read *)

Variables (max : Z) (rel : bool).
Local Abbreviation core := (dec_core max rel).

Lemma heap_own_freed h next r p : heap_ok h next r (Some p) -> heap_ok (delete p h) next r None.
Proof.
  intros [H1 H2 H3 H4]. destruct (H2 p eq_refl) as [H0 _]. constructor; intros q.
  - intros Hq. rewrite lookup_delete_ne by (intros ->; lia). by apply H1.
  - done.
  - intros Hq. apply lookup_delete_is_Some in Hq as [Hne Hq]. left. by destruct (H3 q Hq) as [?|[= <-]].
  - intros Hq. apply H4. by apply lookup_delete_is_Some in Hq as [_ ?].
Qed.

(** The references left, whatever the context. *)
Definition held_heap (l : list Z) (held own : option Z) (dec : lsqpack_dec hset) : Prop :=
  rb_rep (qpd_dyn_table (qpd_tab dec)) l /\ NoDup l
  /\ heap_ok (dt_heap (qpd_tab dec)) (dt_next (qpd_tab dec)) (refs l held) own.

Lemma wp_free_opt l held own (dec : lsqpack_dec hset) :
  held_heap l held own dec ->
  wp (free_opt own) dec (fun _ dec' => held_heap l held None dec' /\ qpd_ctxs dec' = qpd_ctxs dec).
Proof.
  intros (Hring & Hnd & Hh). destruct own as [p|]; cbn [free_opt]; [|by wpstep].
  destruct (ho_own _ _ _ _ Hh p eq_refl) as [_ [e He]].
  eapply wp_on_table; [by unfold free_entry; rewrite He|]. split; [|done]. split; [done|]. split; [done|].
  by apply heap_own_freed.
Qed.

Lemma wp_decref_opt l held (dec : lsqpack_dec hset) :
  held_heap l held None dec ->
  wp (decref_opt held) dec (fun _ dec' => held_heap l None None dec' /\ qpd_ctxs dec' = qpd_ctxs dec).
Proof.
  intros (Hring & Hnd & Hh). destruct held as [p|]; cbn [decref_opt]; [|by wpstep].
  destruct (decref_heap (qpd_tab dec) p (refs l (Some p)) (refs l None) None Hh) as (h & E & Hh' & _).
  - pose proof (refs_range l (Some p) p). pose proof (refs_held l p). lia.
  - intros q. unfold refs. rewrite (bool_decide_false (None = Some q)) by done.
    rewrite (bool_decide_ext (Some p = Some q) (q = p)) by (split; congruence). cbn. lia.
  - eapply wp_on_table; [exact E|]. split; [by split; [|split]|done].
Qed.

Lemma wp_cleanup_inst l (dec : lsqpack_dec hset) :
  held_heap l (held_of (qpd_enc_state dec)) (own_of (qpd_enc_state dec)) dec ->
  wp cleanup_inst dec (fun _ dec' => held_heap l None None dec' /\ qpd_ctxs dec' = qpd_ctxs dec).
Proof.
  intros H. unfold cleanup_inst. wpsteps.
  destruct (qpd_enc_state dec); cbn [held_of own_of] in H; try (by wpstep);
    try (by apply wp_free_opt); try (by apply wp_decref_opt).
  all: wpstep; eapply wp_mono; [by apply wp_free_opt|]; intros u dec1 [H1 E1];
    eapply wp_mono; [by apply wp_decref_opt|]; intros u' dec2 [H2 E2]; split; [done|congruence].
Qed.

(** ** The whole *)

Definition nothing_left (dec : lsqpack_dec hset) : Prop :=
  dt_heap (qpd_tab dec) = ∅ /\ cx_mem (qpd_ctxs dec) = ∅
  /\ qpd_dyn_table (qpd_tab dec) = ringbuf_empty_buf.

Lemma wp_cleanup (dec : lsqpack_dec hset) :
  stopped max rel dec -> wp lsqpack_dec_cleanup dec (fun _ dec' => nothing_left dec').
Proof.
  intros (t & l & name & Hc). unfold lsqpack_dec_cleanup. wpsteps.
  pose proof (dc_ctxs _ _ _ _ _ _ _ _ Hc) as Hcx. pose proof (tr_core _ _ _ _ _ (dc_tab _ _ _ _ _ _ _ _ Hc)) as Ht.
  apply wp_free_contexts; [apply (co_list _ _ _ Hcx)|apply (co_mem _ _ _ Hcx)|]. intros cs Hcs. wpsteps.
  eapply wp_mono.
  { apply (wp_cleanup_inst l). split; [|split]; [apply (tc_ring _ _ _ _ _ Ht)|apply (tc_nodup _ _ _ _ _ Ht)|].
    apply (tc_heap _ _ _ _ _ Ht). }
  intros u dec1 [Hh Hcs1]. destruct (cleanup_table_empty (qpd_tab dec1)) as (tab & Htab & He & Hr); [by exists l|].
  eapply wp_on_table; [exact Htab|]. split; [done|]. split; [|done]. cbn [set_tab qpd_ctxs]. by rewrite Hcs1.
Qed.

Lemma reading_stopped (dec : lsqpack_dec hset) t : reading max rel dec t -> stopped max rel dec.
Proof. intros (l & name & Hc & _). by exists t, l, name. Qed.
End cleanup.
