(* ===== verification/DecTrace.v ===== *)
(** * The decoder on the encoder stream

    From [lsqpack_dec_init] on, over any number of calls of [lsqpack_dec_enc_in]:
    what the decoder's table is after the bytes received so far, however they were
    cut into chunks, which streams are refused, and that the encoder's stream never
    is. *)

From stdpp Require Import gmap.
From S2P Require Import Prelude Monad IntCodec HuffTables Huffman HuffStream StrCodec Xxhash.
From S2P Require Import StaticTable Ringbuf Rfc9204 EncTable EncState EncAbs EncTrace.
From S2P Require Import DecTable DecState DecStream DecSpec DecBlocked DecStrings DecReading.
From S2P Require Import DecCore DecRounds DecEncIn DecCleanup.

(** ** The state between calls *)

Section trace.
Context {hset : Type} `{!HsetIf hset}.

(** The decoder's table holds the entries of [t], and nothing it keeps dangles. *)
Definition holds (dec : lsqpack_dec hset) (t : dyn_table) : Prop :=
  exists l held own, tab_rep (dt_inserted t) (qpd_tab dec) l held own
    /\ dyn_of (dt_inserted t) (qpd_tab dec) l = t.

Variables (max : Z) (rel : bool).

Lemma reading_holds (dec : lsqpack_dec hset) t : reading max rel dec t -> holds dec t.
Proof. intros (l & name & Hc & _). eexists l, _, _. split; [apply (dc_tab _ _ _ _ _ _ _ _ Hc)|apply (dc_dyn _ _ _ _ _ _ _ _ Hc)]. Qed.

(** No bytes are needed to end an instruction: one whose last byte has arrived has
    been acted on. *)
Lemma reader_nil (dec : lsqpack_dec hset) t : reading max rel dec t -> reader dec [] = None.
Proof.
  intros (l & name & _ & Hok). unfold reader.
  destruct (qpd_enc_state dec); cbn [remaining state_ok own_of] in *; try done.
  - destruct Hok as (_ & Ha & Hlt). unfold rest_plain. cbn [length].
    destruct (Z.ltb_spec (Z.of_nat 0) (wv_val_len w - wv_val_off w)); [done|lia].
  - destruct Hok as (_ & _ & Hpos & [_ _ Hend _]). unfold rest_huff. cbn [length].
    destruct (Z.ltb_spec (Z.of_nat 0) (wv_val_len w - wv_nread w)); [done|]. destruct Hend as [?|[? _]]; lia.
  - unfold rest_huff. destruct (_ <? _); [done|]. cbn [mbind option_bind].
    destruct (huff_finish _ _); [|done]. cbn. by rewrite drop_nil.
  - unfold rest_plain. destruct (_ <? _); [done|]. cbn. by rewrite drop_nil.
  - destruct Hok as ([Hn _ Hs] & [_ _ Hend _]). unfold rest_huff. cbn [length].
    destruct (Z.ltb_spec (Z.of_nat 0) (wo_str_len w - wo_nread w)); [done|]. destruct Hend as [?|[? _]]; lia.
  - destruct Hok as ([Hn _ Hs] & Hlt). unfold rest_plain. cbn [length].
    destruct (Z.ltb_spec (Z.of_nat 0) (wo_str_len w - wo_str_off w)); [done|lia].
Qed.

Lemma decoding_incomplete (dec : lsqpack_dec hset) t pend :
  decoding max rel dec t pend -> read_instruction pend = None.
Proof.
  intros (Hr & _ & Hrd). specialize (Hrd [] (Forall_nil_2 _)). rewrite app_nil_r in Hrd.
  rewrite <- Hrd. by eapply reader_nil.
Qed.

(** ** Valid streams *)

(** What is left of a valid stream once the instructions that are complete have
    been read is nothing. *)
Lemma accepted_whole t stream l t' (dec : lsqpack_dec hset) :
  is_bytes stream -> instructions stream l -> spec_applys max t l = Some t' ->
  accepted max rel t stream dec -> holds dec t'.
Proof.
  intros Hb Hl Hs (b & l1 & pend & t1 & -> & Hl1 & Ht1 & Hd).
  destruct (instructions_split _ _ _ _ _ Hl Hl1 eq_refl) as (l2 & -> & Hl2).
  pose proof (decoding_incomplete _ _ _ Hd) as Hnone. destruct Hl2 as [|c i cs l2 Hi _].
  - apply spec_dec_applys in Hs. rewrite app_nil_r in Hs. rewrite Ht1 in Hs. injection Hs as <-.
    destruct Hd as [Hr _]. by eapply reading_holds.
  - by rewrite (Hi cs) in Hnone.
Qed.

Lemma feed_valid chunks l t t' (dec : lsqpack_dec hset) :
  rel = true -> max <= 2 ^ 22 -> decoding max rel dec t [] -> Forall chunk_ok chunks ->
  instructions (concat chunks) l -> spec_applys max t l = Some t' ->
  exists dec', feed chunks dec = Some (0, dec') /\ holds dec' t'.
Proof.
  intros Hrel Hmax Hd Hc Hl Hs.
  destruct (wp_run _ _ _ (wp_feed max rel chunks t [] dec Hd Hc)) as (r & dec' & E & H). cbn [app] in H.
  destruct H as [(-> & H)|(-> & H)].
  - exists dec'. split; [done|]. eapply accepted_whole; [|exact Hl|exact Hs|exact H]. by apply is_bytes_concat.
  - exfalso. eapply (valid_not_rejected max rel t (concat chunks) [] l t' dec'); [done|done|by apply Forall_nil| |exact Hs|exact H].
    by rewrite app_nil_r.
Qed.

(** The encoder starts with the capacity 0, the decoder with the largest allowed;
    nothing fits the former, so the first instruction sets the capacity of both. *)
Lemma apply_from_zero i t' :
  apply_instruction empty_dyn i = Some t' -> exists c, i = ISetCapacity c /\ t' = Dyn 0 c [].
Proof.
  destruct i; cbn [apply_instruction]; [intros [= <-]; by eexists| | | |].
  - destruct (_ && _); [|done]. unfold dt_insert. cbn [empty_dyn dt_capacity].
    pose proof (field_size_pos (ste_name (ste_at index), value)). rewrite Z.gtb_ltb. by destruct (Z.ltb_spec 0 (field_size (ste_name (ste_at index), value))); [|lia].
  - unfold dt_get. cbn [empty_dyn dt_entries dt_inserted]. rewrite lookup_nil. by destruct (_ && _).
  - unfold dt_insert. cbn [empty_dyn dt_capacity].
    pose proof (field_size_pos (name, value)). rewrite Z.gtb_ltb. by destruct (Z.ltb_spec 0 (field_size (name, value))); [|lia].
  - unfold dt_get. cbn [empty_dyn dt_entries dt_inserted]. rewrite lookup_nil. by destruct (_ && _).
Qed.

Lemma apply_within t i : capacity_within max i -> spec_apply max t i = apply_instruction t i.
Proof. destruct i; [|done..]. cbn. intros H. by destruct (Z.leb_spec capacity max); [|lia]. Qed.

Lemma applys_within l t : Forall (capacity_within max) l -> spec_applys max t l = apply_instructions t l.
Proof.
  intros H. revert t. induction H as [|i l Hi Hl IH]; intros t; [done|]. cbn [spec_applys apply_instructions].
  rewrite apply_within by done. destruct (apply_instruction t i); [apply IH|done].
Qed.


Definition same_entries (t t' : dyn_table) : Prop :=
  dt_inserted t' = dt_inserted t /\ dt_entries t' = dt_entries t.

Lemma applys_from_init l t' :
  Forall (capacity_within max) l -> apply_instructions empty_dyn l = Some t' ->
  exists t, spec_applys max (Dyn 0 max []) l = Some t /\ same_entries t' t /\ (l <> [] -> t = t').
Proof.
  intros Hw. destruct Hw as [|i l Hi Hl]; cbn [apply_instructions spec_applys].
  - intros [= <-]. by exists (Dyn 0 max []).
  - destruct (apply_instruction empty_dyn i) as [t1|] eqn:E; [|done]. cbn [mbind option_bind].
    intros H. destruct (apply_from_zero _ _ E) as (c & -> & ->). rewrite apply_within by done.
    cbn [apply_instruction mbind option_bind]. exists t'. rewrite applys_within by done. done.
Qed.
End trace.

(** ** What a run of calls does *)

Section theorems.
Context {hset : Type} `{!HsetIf hset}.
Implicit Types (app : hset) (ms : mallocs) (chunks : list bytes).

(** No allocation fails. *)
Definition mallocs_succeed ms : bool := bool_decide (Forall is_Some ms).

(** C8: the decoder reads the encoder stream as RFC 9204 does, in whatever pieces it
    comes.  The calls return (no assertion fails, no access is undefined, every loop
    ends).  A result of 0 means that the instructions that are complete have been
    applied, what is left is the beginning of the next one, and the table is theirs;
    a result of -1 that the bytes after those instructions cannot start an instruction
    which the RFC allows on that table, or that an allocation failed or the limit of
    2^24 on a string's length was met, which the maximum of 2^22 rules out. *)
Theorem enc_in_reads_stream max risked opts app ms chunks :
  0 <= max < 2 ^ 31 -> Forall chunk_ok chunks ->
  exists r dec, feed chunks (lsqpack_dec_init max risked opts app ms) = Some (r, dec)
    /\ exists b rest l t, concat chunks = b ++ rest /\ instructions b l
    /\ dec_applys max (Dyn 0 max []) l = Some t
    /\ ((r = 0 /\ read_instruction rest = None /\ holds dec t)
        \/ (r = -1 /\ rest <> []
            /\ (mallocs_succeed ms = true -> max <= 2 ^ 22 -> forall more i tail, is_bytes more ->
                  read_instruction (rest ++ more) = Some (i, tail) -> spec_apply max t i = None))).
Proof.
  intros Hm Hc. set (rel := mallocs_succeed ms).
  assert (rel = true -> Forall is_Some ms) as Hms by apply bool_decide_eq_true_1.
  pose proof (init_decoding max rel risked opts app ms Hm Hms) as Hd.
  destruct (wp_run _ _ _ (wp_feed max rel chunks _ [] _ Hd Hc)) as (r & dec & E & H). cbn [List.app] in H.
  exists r, dec. split; [done|]. destruct H as [(-> & H)|(-> & H)].
  - destruct H as (b & l & pend & t & Hb & Hl & Ht & Hd'). exists b, pend, l, t. split_and!; [done..|].
    left. split; [done|]. split; [by eapply decoding_incomplete|]. destruct Hd' as [Hd' _]. by eapply reading_holds.
  - destruct H as (_ & b & l & bad & t & Hb & Hne & Hl & Ht & Href). exists b, bad, l, t. split_and!; [done..|].
    right. split; [done|]. split; [done|]. intros Hrel Hmax more i tail Hmore Hi. by eapply Href.
Qed.

(** C11: a stream of instructions the RFC allows is accepted whole and leaves the
    decoder with the RFC's table, as long as memory suffices and the maximum
    capacity is at most 2^22. *)
Theorem valid_stream_accepted max risked opts app ms chunks l t :
  0 <= max <= 2 ^ 22 -> Forall is_Some ms -> Forall chunk_ok chunks ->
  instructions (concat chunks) l -> spec_applys max (Dyn 0 max []) l = Some t ->
  exists dec, feed chunks (lsqpack_dec_init max risked opts app ms) = Some (0, dec) /\ holds dec t.
Proof.
  intros Hm Hms Hc Hl Ht. apply (feed_valid max true chunks l (Dyn 0 max [])); [done|apply Hm| |done..].
  apply init_decoding; [|done]. change (2 ^ 22) with 4194304 in Hm. change (2 ^ 31) with 2147483648. lia.
Qed.

(** C4: the two sides of a connection stay in step.  Whatever calls an encoder has
    served since [lsqpack_enc_init], a decoder set up with the same maximum capacity
    that has received the bytes of its encoder stream, in any pieces, has accepted
    them all, and its table has the encoder's entries with the encoder's ids. *)
Theorem encoder_decoder_in_sync max dyn_size risked eopts tsu ems out enc0 bs enc
  drisked dopts app ms chunks :
  0 <= max <= 2 ^ 22 -> is_u32 dyn_size -> is_u32 risked ->
  lsqpack_enc_init (lsqpack_enc_preinit ems) max dyn_size risked eopts tsu = (ENC_OK, out, enc0) ->
  run enc0 bs enc ->
  Forall is_Some ms -> Forall chunk_ok chunks -> concat chunks = out ++ bs ->
  exists dec t, feed chunks (lsqpack_dec_init max drisked dopts app ms) = Some (0, dec)
    /\ holds dec t /\ same_entries (abs_table (qpe_table enc)) t.
Proof.
  intros Hm Hd Hk Hi Hr Hms Hc Hcat.
  assert (max < 2 ^ 31) as Hm' by (change (2 ^ 22) with 4194304 in Hm; change (2 ^ 31) with 2147483648; lia).
  destruct (stream_instructions _ _ _ _ _ _ _ _ _ _ Hd Hm' Hk Hi Hr) as (l & Hl & Ha & Hw).
  destruct (applys_from_init max l _ Hw Ha) as (t & Ht & Hsame & _). rewrite <- Hcat in Hl.
  destruct (feed_valid max true chunks l (Dyn 0 max []) t (lsqpack_dec_init max drisked dopts app ms))
    as (dec & E & H); [done|apply Hm| |done..|].
  { apply init_decoding; [lia|done]. }
  by exists dec, t.
Qed.

(** ** Looking up entries *)

(** The strings of the entry a lookup returns. *)
Definition entry_fields (tab : dec_table) (p : option Z) : option hfield :=
  p ← p; dte_nameval <$> dt_heap tab !! p.

(** C27: the two lookups of the dynamic table agree with the RFC's table: relative
    indices count back from the newest entry, and an entry is found by its id modulo
    twice the maximum number of entries; an entry that is not in the table is not
    found. *)
Theorem get_table_entry_correct (dec : lsqpack_dec hset) t :
  holds dec t ->
  (forall r, 0 <= r < 2 ^ 32 - 1 ->
     entry_fields (qpd_tab dec) (qdec_get_table_entry_rel (qpd_tab dec) r) = dt_get t (dt_inserted t - r))
  /\ (forall id, 0 < qpd_max_entries (qpd_tab dec) ->
        dt_inserted t - 2 * qpd_max_entries (qpd_tab dec) < id <= dt_inserted t ->
        entry_fields (qpd_tab dec)
          (qdec_get_table_entry_abs (qpd_tab dec) ((id - 1) mod (2 * qpd_max_entries (qpd_tab dec))))
        = dt_get t id).
Proof.
  intros (l & held & own & Hrep & Hdyn).
  assert (forall p, p ∈ l -> entry_fields (qpd_tab dec) (Some p)
            = Some (dte_nameval (entry_at (dt_heap (qpd_tab dec)) p))) as Hent.
  { intros p Hp. destruct (core_entry _ _ _ _ _ p (tr_core _ _ _ _ _ Hrep) Hp) as (e & He & Hat & _).
    cbn. by rewrite He, Hat. }
  split.
  - intros r Hr. pose proof (get_entry_rel _ _ _ _ _ r Hrep Hr) as H. rewrite Hdyn in H.
    destruct (qdec_get_table_entry_rel _ r); [|done]. destruct H as [Hp ->]. by apply Hent.
  - intros id HM Hid. pose proof (get_entry_abs _ _ _ _ _ id Hrep HM Hid) as H. rewrite Hdyn in H.
    destruct (qdec_get_table_entry_abs _ _); [|done]. destruct H as [Hp ->]. by apply Hent.
Qed.

(** ** Blocked header blocks *)

(** C15: after the insertion number [n + 1], [qdec_process_blocked_headers] takes out of
    the blocked header blocks exactly those that wait for it, leaves every other
    context as it was, and tells the application about them in the order they were
    blocked. *)
Theorem process_blocked_exact n M (dec : lsqpack_dec hset) :
  ctxs_ok n M (qpd_ctxs dec) -> 0 < M -> qpd_last_id (qpd_tab dec) = n mod (2 * M) ->
  exists dec', qdec_process_blocked_headers dec = Some (tt, dec')
    /\ ctxs_ok (n + 1) M (qpd_ctxs dec') /\ qpd_tab dec' = qpd_tab dec
    /\ (forall p c ric, cx_mem (qpd_ctxs dec) !! p = Some c -> is_blocked c = true ->
          n < ric <= n + M -> waits_for M ric c ->
          exists c', cx_mem (qpd_ctxs dec') !! p = Some c' /\ is_blocked c' = negb (ric =? n + 1)
            /\ (ric <> n + 1 -> c' = c))
    /\ (forall p c, cx_mem (qpd_ctxs dec) !! p = Some c -> is_blocked c = false ->
          cx_mem (qpd_ctxs dec') !! p = Some c)
    /\ exists ps, qpd_blocked_headers (qpd_ctxs dec) !! blocked_bucket (n mod (2 * M)) = Some ps
         /\ qpd_app dec' = told (n mod (2 * M)) (qpd_ctxs dec) ps (qpd_app dec).
Proof.
  intros Hok HM Hlast.
  destruct (wp_run _ _ _ (process_blocked_headers_spec n M dec Hok ltac:(intros _; rewrite Hlast; f_equal; lia)))
    as ([] & dec' & E & cs' & app' & -> & Hok' & _ & Hmem & ps & Hps & ->).
  rewrite Hlast in Hmem, Hps. eexists. split; [exact E|]. cbn [set_app set_ctxs qpd_ctxs qpd_tab qpd_app].
  split; [done|]. split; [done|]. split; [|split; [|exists ps; by rewrite Hlast]].
  - intros p c ric Hc Hb Hric [_ Hw]. rewrite Hmem, Hc. cbn [fmap option_fmap option_map]. eexists. split; [done|].
    assert (hbrc_largest_ref c = n mod (2 * M) <-> ric = n + 1) as Hiff.
    { rewrite Hw. split; [|intros ->; f_equal; lia]. intros Hmod.
      assert ((ric - 1 - n) mod (2 * M) = 0) as Hz by (rewrite Zminus_mod, Hmod, Z.sub_diag; apply Zmod_0_l).
      rewrite Z.mod_small in Hz by lia. lia. }
    unfold unblocked. rewrite Hb. cbn [andb].
    destruct (Z.eqb_spec (hbrc_largest_ref c) (n mod (2 * M))), (Z.eqb_spec ric (n + 1)); try tauto.
    by rewrite is_blocked_cleared.
  - intros p c Hc Hb. rewrite Hmem, Hc. cbn. unfold unblocked. by rewrite Hb.
Qed.
End theorems.
