(* ===== verification/DecHeader.v ===== *)
(** * Writing decoded headers

    The functions of src/lsqpack.c that hand decoded headers to the application:
    [header_out_static_entry], [header_out_dynamic_entry], [header_out_begin_*],
    [header_out_write_name], [header_out_write_value], [header_out_grow_buf],
    [guarantee_out_bytes] and [get_dst].

    They work on the decoder and on the context of the header block being read,
    which nothing else uses meanwhile: the state is the pair of the two, and the
    context is put back into the decoder's store after the call. *)

From stdpp Require Import gmap.
From S2P Require Import Prelude Monad IntCodec HuffTables Huffman StrCodec Xxhash StaticTable.
From S2P Require Import Ringbuf Rfc9204 EncTable Float EncEncode DecTable DecState DecStream.

#[global] Instance xout_state_eq_dec : EqDecision xout_state.
Proof. solve_decision. Defined.

#[global] Instance dec_header_eq_dec : EqDecision dec_header.
Proof. solve_decision. Defined.

(** ** [struct lsxpack_header] *)

(** The members that are assigned together. *)
Definition dh_set_buf (buf : bytes) (h : dec_header) : dec_header :=
  {| dh_buf := buf; dh_name_hash := dh_name_hash h; dh_nameval_hash := dh_nameval_hash h;
     dh_name_offset := dh_name_offset h; dh_val_offset := dh_val_offset h;
     dh_name_len := dh_name_len h; dh_val_len := dh_val_len h;
     dh_qpack_index := dh_qpack_index h; dh_flags := dh_flags h;
     dh_dec_overhead := dh_dec_overhead h |}.

Definition dh_set_lens (name_len val_len : Z) (h : dec_header) : dec_header :=
  {| dh_buf := dh_buf h; dh_name_hash := dh_name_hash h; dh_nameval_hash := dh_nameval_hash h;
     dh_name_offset := dh_name_offset h; dh_val_offset := dh_val_offset h;
     dh_name_len := u16 name_len; dh_val_len := u16 val_len;
     dh_qpack_index := dh_qpack_index h; dh_flags := dh_flags h;
     dh_dec_overhead := dh_dec_overhead h |}.

(** [lsxpack_offset_t] is [int32_t]. *)
Definition dh_set_val_offset (off : Z) (h : dec_header) : dec_header :=
  {| dh_buf := dh_buf h; dh_name_hash := dh_name_hash h; dh_nameval_hash := dh_nameval_hash h;
     dh_name_offset := dh_name_offset h; dh_val_offset := i32 off;
     dh_name_len := dh_name_len h; dh_val_len := dh_val_len h;
     dh_qpack_index := dh_qpack_index h; dh_flags := dh_flags h;
     dh_dec_overhead := dh_dec_overhead h |}.

Definition dh_set_overhead (n : Z) (h : dec_header) : dec_header :=
  {| dh_buf := dh_buf h; dh_name_hash := dh_name_hash h; dh_nameval_hash := dh_nameval_hash h;
     dh_name_offset := dh_name_offset h; dh_val_offset := dh_val_offset h;
     dh_name_len := dh_name_len h; dh_val_len := dh_val_len h;
     dh_qpack_index := dh_qpack_index h; dh_flags := dh_flags h;
     dh_dec_overhead := u8 n |}.

(** [xhdr->flags |= f], with the member the flag announces. *)
Definition dh_name_hashed (hash : Z) (h : dec_header) : dec_header :=
  {| dh_buf := dh_buf h; dh_name_hash := hash; dh_nameval_hash := dh_nameval_hash h;
     dh_name_offset := dh_name_offset h; dh_val_offset := dh_val_offset h;
     dh_name_len := dh_name_len h; dh_val_len := dh_val_len h;
     dh_qpack_index := dh_qpack_index h; dh_flags := Z.lor (dh_flags h) LSXPACK_NAME_HASH;
     dh_dec_overhead := dh_dec_overhead h |}.

Definition dh_nameval_hashed (hash : Z) (h : dec_header) : dec_header :=
  {| dh_buf := dh_buf h; dh_name_hash := dh_name_hash h; dh_nameval_hash := hash;
     dh_name_offset := dh_name_offset h; dh_val_offset := dh_val_offset h;
     dh_name_len := dh_name_len h; dh_val_len := dh_val_len h;
     dh_qpack_index := dh_qpack_index h; dh_flags := Z.lor (dh_flags h) LSXPACK_NAMEVAL_HASH;
     dh_dec_overhead := dh_dec_overhead h |}.

Definition dh_indexed (idx : Z) (h : dec_header) : dec_header :=
  {| dh_buf := dh_buf h; dh_name_hash := dh_name_hash h; dh_nameval_hash := dh_nameval_hash h;
     dh_name_offset := dh_name_offset h; dh_val_offset := dh_val_offset h;
     dh_name_len := dh_name_len h; dh_val_len := dh_val_len h;
     dh_qpack_index := u8 idx; dh_flags := Z.lor (dh_flags h) LSXPACK_QPACK_IDX;
     dh_dec_overhead := dh_dec_overhead h |}.

Definition dh_flag (f : Z) (h : dec_header) : dec_header :=
  {| dh_buf := dh_buf h; dh_name_hash := dh_name_hash h; dh_nameval_hash := dh_nameval_hash h;
     dh_name_offset := dh_name_offset h; dh_val_offset := dh_val_offset h;
     dh_name_len := dh_name_len h; dh_val_len := dh_val_len h;
     dh_qpack_index := dh_qpack_index h; dh_flags := Z.lor (dh_flags h) f;
     dh_dec_overhead := dh_dec_overhead h |}.

(** [memcpy] to and reading from [xhdr->buf + off]. *)
Definition dh_write (off : Z) (src : bytes) (h : dec_header) : option dec_header :=
  buf ← write_at off src (dh_buf h);
  Some (dh_set_buf buf h).

Definition dh_read (off len : Z) (h : dec_header) : option bytes :=
  if (0 <=? off) && (off + len <=? Z.of_nat (length (dh_buf h)))
  then Some (take (Z.to_nat len) (drop (Z.to_nat off) (dh_buf h))) else None.

(** ": " and "\r\n" *)
Definition colon_space : bytes := [0x3a; 0x20].
Definition cr_lf : bytes := [0x0d; 0x0a].

(** The name and, in HTTP/1.x mode, what follows it; then the value starts. *)
Definition put_name (http1x : bool) (name : bytes) (h : dec_header) : option dec_header :=
  h ← dh_write (dh_name_offset h) name h;
  let dst := dh_name_offset h + Z.of_nat (length name) in
  if http1x then
    h ← dh_write dst colon_space h;
    Some (dh_set_val_offset (dst + 2) h)
  else Some (dh_set_val_offset dst h).

(** The value at [dst], and the end of the line. *)
Definition put_value (http1x : bool) (dst : Z) (value : bytes) (h : dec_header) : option dec_header :=
  h ← dh_write dst value h;
  if http1x then dh_write (dst + Z.of_nat (length value)) cr_lf h else Some h.

(** The flags, hashes and index an entry of the dynamic table brings; the second
    also when the value is the entry's. *)
Definition entry_name_info (e : dec_table_entry) (h : dec_header) : dec_header :=
  let h := if has_bits (dte_flags e) DTEF_NAME_HASH then dh_name_hashed (dte_name_hash e) h else h in
  if has_bits (dte_flags e) DTEF_NAME_IDX then dh_indexed (dte_name_idx e) h else h.

Definition entry_value_info (e : dec_table_entry) (h : dec_header) : dec_header :=
  if has_bits (dte_flags e) DTEF_NAMEVAL_HASH then dh_nameval_hashed (dte_nameval_hash e) h else h.

Section header_out.
Context {hset : Type} `{!HsetIf hset}.

(** ** The decoder and a context *)

Abbreviation hdr_m := (st_m (lsqpack_dec hset * header_block_read_ctx)).

Definition lift {A} (m : dec_m hset A) : hdr_m A := fun s =>
  '(x, dec) ← m (fst s); Some (x, (dec, snd s)).

Definition get_dec : hdr_m (lsqpack_dec hset) := gets fst.
Definition get_ctx : hdr_m header_block_read_ctx := gets snd.
Definition modify_dec (f : lsqpack_dec hset -> lsqpack_dec hset) : hdr_m unit :=
  modify (fun s => (f (fst s), snd s)).
Definition modify_ctx (f : header_block_read_ctx -> header_block_read_ctx) : hdr_m unit :=
  modify (fun s => (fst s, f (snd s))).

Definition prepare_decode (xhdr : option dec_header) (space : Z) : hdr_m (option dec_header) :=
  dec ← get_dec;
  c ← get_ctx;
  let '(x, app) := dhi_prepare_decode (hbrc_hblock c) xhdr space (qpd_app dec) in
  modify_dec (set_app app);; mret x.

Definition process_header (xhdr : dec_header) : hdr_m Z :=
  dec ← get_dec;
  c ← get_ctx;
  let '(r, app) := dhi_process_header (hbrc_hblock c) xhdr (qpd_app dec) in
  modify_dec (set_app app);; mret r.

Definition http1x_opt (dec : lsqpack_dec hset) : bool := has_bits (qpd_opts dec) LSQPACK_DEC_OPT_HTTP1X.

(** [!!(opts & HTTP1X) << 2] *)
Definition overhead (http1x : bool) : Z := if http1x then 4 else 0.

Definition add_bytes_out (n : Z) : hdr_m unit :=
  modify_dec (fun dec => set_bytes_out (u32 (qpd_bytes_out dec + n)) dec).

(** [hbrc_out] *)
Definition set_out (xhdr : option dec_header) (st : xout_state) (off : Z) : hdr_m unit :=
  modify_ctx (fun c =>
    set_hbrc_out {| out_xhdr := xhdr; out_state := st; out_off := off |} (hbrc_header_count c) c).

Definition set_out_xhdr (xhdr : option dec_header) : hdr_m unit :=
  c ← get_ctx; set_out xhdr (out_state (hbrc_out c)) (out_off (hbrc_out c)).

(** ** Whole headers: the result is that of the C functions *)

Definition header_out_static_entry (idx : Z) : hdr_m Z :=
  if idx >=? 99 then mret (-1)
  else
    dec ← get_dec;
    let e := ste_at idx in
    let http1x := http1x_opt dec in
    xhdr ← prepare_decode None (ste_name_len e + ste_val_len e + overhead http1x);
    match xhdr with
    | None => mret (-1)
    | Some h =>
        let h := dh_set_overhead (overhead http1x) h in
        let h := dh_flag LSXPACK_VAL_MATCHED (dh_indexed idx h) in
        let h := dh_set_lens (ste_name_len e) (ste_val_len e) h in
        let h := dh_name_hashed (nth (Z.to_nat idx) name_hashes 0) h in
        let h := dh_nameval_hashed (nth (Z.to_nat idx) nameval_hashes 0) h in
        h ← demand (put_name http1x (ste_name e) h);
        h ← demand (put_value http1x (dh_val_offset h) (ste_val e) h);
        r ← process_header h;
        (if r =? 0 then add_bytes_out (ste_name_len e + ste_val_len e) else mret tt);;
        mret r
    end.

Definition header_out_dynamic_entry (idx : Z) : hdr_m Z :=
  dec ← get_dec;
  match qdec_get_table_entry_abs (qpd_tab dec) idx with
  | None => mret (-1)
  | Some p =>
      let http1x := http1x_opt dec in
      e ← lift (the_entry p);
      xhdr ← prepare_decode None (u32 (dte_name_len e + dte_val_len e) + overhead http1x);
      match xhdr with
      | None => mret (-1)
      | Some h =>
          lift (on_table (qdec_maybe_update_entry_hashes (qpd_opts dec) p));;
          e ← lift (the_entry p);
          let h := dh_set_overhead (overhead http1x) (entry_value_info e (entry_name_info e h)) in
          let h := dh_set_lens (dte_name_len e) (dte_val_len e) h in
          h ← demand (put_name http1x (DTE_NAME e) h);
          h ← demand (put_value http1x (dh_val_offset h) (DTE_VALUE e) h);
          r ← process_header h;
          (if r =? 0 then add_bytes_out (dte_name_len e + dte_val_len e) else mret tt);;
          mret r
      end
  end.

(** ** Headers whose value is a literal: true for 0, false for -1 *)

(** [assert(!read_ctx->hbrc_out.xhdr)] and the header; [None] after NULL. *)
Definition begin_header (need : Z) : hdr_m (option dec_header) :=
  c ← get_ctx;
  assert_that (bool_decide (out_xhdr (hbrc_out c) = None));;
  xhdr ← prepare_decode None need;
  set_out_xhdr xhdr;;
  mret xhdr.

Definition header_out_begin_static_nameref (idx : Z) (is_never : bool) : hdr_m bool :=
  c ← get_ctx;
  assert_that (bool_decide (out_xhdr (hbrc_out c) = None));;
  if idx >=? 99 then mret false
  else
    dec ← get_dec;
    let e := ste_at idx in
    let http1x := http1x_opt dec in
    xhdr ← begin_header (ste_name_len e + overhead http1x);
    match xhdr with
    | None => mret false
    | Some h =>
        let h := dh_indexed idx (dh_set_overhead (overhead http1x) h) in
        let h := dh_name_hashed (nth (Z.to_nat idx) name_hashes 0) h in
        let h := if is_never then dh_flag LSXPACK_NEVER_INDEX h else h in
        let h := dh_set_lens (ste_name_len e) (dh_val_len h) h in
        h ← demand (put_name http1x (ste_name e) h);
        set_out (Some h) XOUT_VALUE 0;;
        mret true
    end.

Definition header_out_begin_dynamic_nameref (p : Z) (is_never : bool) : hdr_m bool :=
  dec ← get_dec;
  let http1x := http1x_opt dec in
  e ← lift (the_entry p);
  xhdr ← begin_header (dte_name_len e + overhead http1x);
  match xhdr with
  | None => mret false
  | Some h =>
      lift (on_table (qdec_maybe_update_entry_hashes (qpd_opts dec) p));;
      e ← lift (the_entry p);
      let h := dh_set_overhead (overhead http1x) h in
      let h := if is_never then dh_flag LSXPACK_NEVER_INDEX h else h in
      let h := entry_name_info e h in
      let h := dh_set_lens (dte_name_len e) (dh_val_len h) h in
      h ← demand (put_name http1x (DTE_NAME e) h);
      set_out (Some h) XOUT_VALUE 0;;
      mret true
  end.

Definition header_out_begin_literal (need : Z) (is_never : bool) : hdr_m bool :=
  dec ← get_dec;
  let http1x := http1x_opt dec in
  xhdr ← begin_header (need + overhead http1x);
  match xhdr with
  | None => mret false
  | Some h =>
      let h := dh_set_overhead (overhead http1x) h in
      let h := if is_never then dh_flag LSXPACK_NEVER_INDEX h else h in
      set_out (Some h) XOUT_NAME 0;;
      mret true
  end.

(** ** The value and the name as they are decoded *)

(** Where in the header's space the next byte goes. *)
Definition out_offset (c : header_block_read_ctx) (h : dec_header) : Z :=
  match out_state (hbrc_out c) with
  | XOUT_NAME => out_off (hbrc_out c)
  | XOUT_VALUE => u32 (dh_val_offset h - dh_name_offset h + out_off (hbrc_out c))
  end.

(** [assert(read_ctx->hbrc_out.xhdr)] *)
Definition cur_xhdr : hdr_m dec_header := c ← get_ctx; demand (out_xhdr (hbrc_out c)).

(** The application makes room for [space] bytes if there is not enough. *)
Definition more_space (enough : bool) (h : dec_header) (space : Z) : hdr_m (option dec_header) :=
  if enough then mret (Some h)
  else
    xhdr ← prepare_decode (Some h) space;
    set_out_xhdr xhdr;;
    mret xhdr.

(** The end of [header_out_write_name]. *)
Definition name_done (h : dec_header) : hdr_m bool :=
  dec ← get_dec;
  c ← get_ctx;
  let off := out_off (hbrc_out c) in
  let http1x := http1x_opt dec in
  xhdr ← more_space (negb http1x || negb (u32 (off + 2) >? dh_val_len h)) h (u32 (off + 2));
  match xhdr with
  | None => mret false
  | Some h =>
      let dst := dh_name_offset h + off in
      h ← demand (if http1x
                  then h ← dh_write dst colon_space h; Some (dh_set_val_offset (u32 (dst + 2)) h)
                  else Some (dh_set_val_offset (u32 dst) h));
      let h := dh_set_lens off (dh_val_len h) h in
      h ← demand (if has_bits (qpd_opts dec) (Z.lor LSQPACK_DEC_OPT_HASH_NAME LSQPACK_DEC_OPT_HASH_NAMEVAL)
                  then name ← dh_read (dh_name_offset h) (dh_name_len h) h;
                       Some (dh_name_hashed (XXH32 name LSQPACK_XXH_SEED) h)
                  else Some h);
      set_out (Some h) XOUT_VALUE 0;;
      mret true
  end.

Definition wrote (nwritten : Z) : hdr_m unit :=
  modify_ctx (fun c =>
    set_hbrc_out {| out_xhdr := out_xhdr (hbrc_out c); out_state := out_state (hbrc_out c);
                    out_off := u32 (out_off (hbrc_out c) + nwritten) |} (hbrc_header_count c) c).

Definition header_out_write_name (nwritten : Z) (done : bool) : hdr_m bool :=
  wrote nwritten;;
  if done then h ← cur_xhdr; name_done h else mret true.

(** The end of [header_out_write_value]. *)
Definition value_done (h : dec_header) : hdr_m bool :=
  dec ← get_dec;
  c ← get_ctx;
  let off := out_off (hbrc_out c) in
  let http1x := http1x_opt dec in
  xhdr ← more_space (negb http1x || negb (u32 (dh_val_offset h + off + 2) >? dh_val_len h)) h
           (u32 (dh_val_offset h + off + 2));
  match xhdr with
  | None => mret false
  | Some h =>
      h ← demand (if http1x then dh_write (dh_val_offset h + off) cr_lf h else Some h);
      let h := dh_set_lens (dh_name_len h) off h in
      (if has_bits (qpd_opts dec) LSQPACK_DEC_OPT_HASH_NAME
       then assert_that (has_bits (dh_flags h) LSXPACK_NAME_HASH) else mret tt);;
      h ← demand (if has_bits (qpd_opts dec) LSQPACK_DEC_OPT_HASH_NAME
                  then value ← dh_read (dh_val_offset h) (dh_val_len h) h;
                       Some (dh_nameval_hashed (XXH32 value (dh_name_hash h)) h)
                  else Some h);
      r ← process_header h;
      (if r =? 0 then add_bytes_out (dh_name_len h + dh_val_len h) else mret tt);;
      modify_ctx (fun c => set_hbrc_out no_out (u32 (hbrc_header_count c + 1)) c);;
      mret (r =? 0)
  end.

Definition header_out_write_value (nwritten : Z) (done : bool) : hdr_m bool :=
  wrote nwritten;;
  if done then h ← cur_xhdr; value_done h else mret true.

(** ** Space *)

Definition header_out_grow_buf : hdr_m bool :=
  h ← cur_xhdr;
  c ← get_ctx;
  let off := out_offset c h in
  assert_that (dh_val_len h >=? off);;
  let size := Z.max 2 (dh_val_len h - off) in
  let need := dh_val_len h + size / 2 in
  if need >? LSXPACK_MAX_STRLEN then mret false
  else
    xhdr ← prepare_decode (Some h) need;
    set_out_xhdr xhdr;;
    match xhdr with
    | None => mret false
    | Some h =>
        if dh_val_len h <? need then
          modify_ctx (fun c => set_hbrc_out no_out (hbrc_header_count c) c);;
          mret false
        else mret true
    end.

Definition guarantee_out_bytes (extra : Z) : hdr_m bool :=
  h ← cur_xhdr;
  c ← get_ctx;
  assert_that (bool_decide (out_state (hbrc_out c) = XOUT_VALUE));;
  assert_that (dh_val_offset h >=? dh_name_offset h);;
  let off := out_offset c h in
  assert_that (dh_val_len h >=? off);;
  let avail := dh_val_len h - off in
  if avail <? extra then
    xhdr ← prepare_decode (Some h) (dh_val_len h + extra - avail);
    set_out_xhdr xhdr;;
    mret (bool_decide (is_Some xhdr))
  else mret true.

(** The offset in [xhdr->buf] of the next byte, and the room there. *)
Definition get_dst : hdr_m (Z * Z) :=
  h ← cur_xhdr;
  c ← get_ctx;
  let off := out_offset c h in
  assert_that (dh_val_len h >=? off);;
  mret (dh_name_offset h + off, dh_val_len h - off).
End header_out.
