(* ===== verification/DecParse.v ===== *)
(** * Reading header blocks

    [parse_header_data], [parse_header_prefix] and [qdec_read_header] of
    src/lsqpack.c: the two state machines that read a header block from chunks of any
    size, one definition per state.  As in [DecStream] a round leads to another round
    with the rest of the chunk or to a [return]. *)

From stdpp Require Import gmap.
From S2P Require Import Prelude Monad IntCodec HuffTables Huffman HuffDec StrCodec Xxhash StaticTable.
From S2P Require Import Ringbuf Rfc9204 EncTable Float DecTable DecState DecStream DecHeader.

(** [enum lsqpack_read_header_status] *)
Inductive lsqpack_read_header_status := LQRHS_DONE | LQRHS_BLOCKED | LQRHS_NEED | LQRHS_ERROR.

Inductive parse_step := More (rest : bytes) | Stop (st : lsqpack_read_header_status).

Section parse.
Context {hset : Type} `{!HsetIf hset}.

Abbreviation hdr_m := (st_m (lsqpack_dec hset * header_block_read_ctx)).

Definition set_data (st : data_state) : hdr_m unit := modify_ctx (set_hbrc_parse (PARSE_DATA st)).
Definition set_prefix (st : prefix_state) : hdr_m unit := modify_ctx (set_hbrc_parse (PARSE_PREFIX st)).
Definition or_flags (f : Z) : hdr_m unit :=
  modify_ctx (fun c => set_hbrc_flags (Z.lor (hbrc_flags c) f) c).

(** The position of [buf] when a decoder of 24-bit integers has failed: behind a value
    that is too large, else where it was. *)
Definition int24_stop (p : Z) (st : dec_int_state) (buf : bytes) : bytes :=
  match buf with
  | [] => []
  | b0 :: src => match lsqpack_dec_int b0 src p st with DecIntOk _ rest => rest | _ => buf end
  end.

Section data.
(** The size of the chunk [parse_header_data] was called with. *)
Variable bufsz : Z.

(** [RETURN_ERROR] in the source line [line], [rest] being what is left of the
    chunk. *)
Definition return_error (line : Z) (rest : bytes) : hdr_m parse_step :=
  c ← get_ctx;
  let off := u64 (hbrc_orig_size c - hbrc_size c + (bufsz - Z.of_nat (length rest))) in
  modify_dec (set_err (Some {| de_line := line; de_off := off; de_stream_id := hbrc_stream_id c |}));;
  mret (Stop LQRHS_ERROR).

(** The value of an integer, more bytes needed, or an error in line [line]. *)
Definition on_int24 (p : Z) (st : dec_int_state) (buf : bytes) (again : dec_int_state -> data_state)
  (line : Z) (k : Z -> bytes -> hdr_m parse_step) : hdr_m parse_step :=
  match buf with
  | [] => stuck
  | b0 :: src =>
      match lsqpack_dec_int24 b0 src p st with
      | DecIntOk value rest => k value rest
      | DecIntMore st => set_data (again st);; mret (Stop LQRHS_NEED)
      | DecIntOverflow => return_error line (int24_stop p st buf)
      end
  end.

Definition go (st : data_state) (rest : bytes) : hdr_m parse_step := set_data st;; mret (More rest).

(** [ok] is the result of a call, [line] where the code handles its failure. *)
Definition check (ok : bool) (line : Z) (rest : bytes) (k : hdr_m parse_step) : hdr_m parse_step :=
  if ok then k else return_error line rest.

Definition check_dyn_table_errors (id : Z) : hdr_m unit :=
  c ← get_ctx;
  if has_bits (hbrc_flags c) HBRC_LARGEST_REF_SET
  then or_flags (Z.shiftl (Z.b2z (id =? hbrc_largest_ref c)) LARGEST_USED_SHIFT)
  else or_flags HBRC_DYN_USED_IN_ERR.

Definition max_entries_of (dec : lsqpack_dec hset) : Z := qpd_max_entries (qpd_tab dec).

(** An index relative to the base, and a post-base one. *)
Definition from_base (value : Z) : hdr_m Z :=
  dec ← get_dec; c ← get_ctx; mret (ID_MINUS (max_entries_of dec) (hbrc_base_index c) value).
Definition past_base (value : Z) : hdr_m Z :=
  dec ← get_dec; c ← get_ctx; mret (ID_PLUS (max_entries_of dec) (hbrc_base_index c) (u32 (value + 1))).

(** ** Indexed fields *)

Definition data_state_read_ihf_idx (p : Z) (is_static : bool) (st : dec_int_state) (buf : bytes)
  : hdr_m parse_step :=
  on_int24 p st buf (DATA_STATE_READ_IHF_IDX is_static) 3639 (fun value rest =>
    r ← (if is_static then header_out_static_entry value
         else
           id ← from_base value;
           r ← header_out_dynamic_entry id;
           check_dyn_table_errors id;;
           mret r);
    check (r =? 0) 3634 rest (go DATA_STATE_NEXT_INSTRUCTION rest)).

Definition data_state_read_ipbi_idx (p : Z) (st : dec_int_state) (buf : bytes) : hdr_m parse_step :=
  on_int24 p st buf DATA_STATE_READ_IPBI_IDX 3878 (fun value rest =>
    id ← past_base value;
    r ← header_out_dynamic_entry id;
    check_dyn_table_errors id;;
    check (r =? 0) 3873 rest (go DATA_STATE_NEXT_INSTRUCTION rest)).

(** ** Names *)

Definition dynamic_nameref (id : Z) (is_never : bool) (line1 line2 : Z) (rest : bytes) : hdr_m parse_step :=
  dec ← get_dec;
  match qdec_get_table_entry_abs (qpd_tab dec) id with
  | None => return_error line1 rest
  | Some entry =>
      check_dyn_table_errors id;;
      ok ← header_out_begin_dynamic_nameref entry is_never;
      check ok line2 rest (go DATA_STATE_BEGIN_READ_VAL_LEN rest)
  end.

Definition data_state_read_lfinr_idx (p : Z) (is_static is_never : bool) (st : dec_int_state)
  (buf : bytes) : hdr_m parse_step :=
  on_int24 p st buf (DATA_STATE_READ_LFINR_IDX is_static is_never) 3670 (fun value rest =>
    if is_static then
      ok ← header_out_begin_static_nameref value is_never;
      check ok 3651 rest (go DATA_STATE_BEGIN_READ_VAL_LEN rest)
    else
      id ← from_base value;
      dynamic_nameref id is_never 3658 3662 rest).

Definition data_state_read_lfpbnr_idx (p : Z) (is_never : bool) (st : dec_int_state) (buf : bytes)
  : hdr_m parse_step :=
  on_int24 p st buf (DATA_STATE_READ_LFPBNR_IDX is_never) 3859 (fun value rest =>
    id ← past_base value;
    dynamic_nameref id is_never 3849 3853 rest).

Definition data_state_read_lfonr_name_len (p : Z) (is_never is_huffman : bool) (st : dec_int_state)
  (buf : bytes) : hdr_m parse_step :=
  on_int24 p st buf (DATA_STATE_READ_LFONR_NAME_LEN is_never is_huffman) 3788 (fun left rest =>
    if left >? LSXPACK_MAX_STRLEN then return_error 3771 rest
    else
      let size := if is_huffman then u32 (left + left / 2) else left in
      ok ← header_out_begin_literal size is_never;
      check ok 3776 rest
        (go (if is_huffman then DATA_STATE_READ_NAME_HUFFMAN left huff_fresh
             else DATA_STATE_READ_NAME_PLAIN left) rest)).

(** ** Strings *)

(** [lsqpack_huff_decode] into the header's space. *)
Definition huff_out (size : Z) (buf : bytes) (st : huff_decode_state) (final : bool)
  : hdr_m (huff_decode_retval * huff_decode_state) :=
  '(off, room) ← get_dst;
  '(hdr, st) ← demand (lsqpack_huff_decode (take (Z.to_nat size) buf) (Z.to_nat room) st final);
  h ← cur_xhdr;
  assert_that ((0 <=? off) && (off + room <=? Z.of_nat (length (dh_buf h))));;
  h ← demand (dh_write off (hdr_out hdr) h);
  set_out_xhdr (Some h);;
  mret (hdr, st).

(** A round over a Huffman-coded string of which [left] bytes have not been read;
    [write] takes the number of bytes decoded. *)
Definition huff_round (left : Z) (st : huff_decode_state) (buf : bytes)
  (write : Z -> bool -> hdr_m bool) (again : Z -> huff_decode_state -> data_state) (next : data_state)
  (l_empty l_ok l_src l_dst l_grow l_err : Z) : hdr_m parse_step :=
  let size := Z.min (u32 (Z.of_nat (length buf))) left in
  if size =? 0 then return_error l_empty buf
  else
    '(hdr, st) ← huff_out size buf st (left =? size);
    let ndst := Z.of_nat (length (hdr_out hdr)) in
    let rest := drop (hdr_n_src hdr) buf in
    let left := u32 (left - Z.of_nat (hdr_n_src hdr)) in
    match hdr_status hdr with
    | HUFF_DEC_OK =>
        ok ← write ndst (left =? 0);
        check ok l_ok rest (go (if left =? 0 then next else again left st) rest)
    | HUFF_DEC_END_SRC =>
        ok ← (if negb (ndst =? 0) then write ndst false else mret true);
        check ok l_src rest (go (again left st) rest)
    | HUFF_DEC_END_DST =>
        ok ← (if negb (ndst =? 0) then write ndst false else mret true);
        check ok l_dst rest
          (ok ← header_out_grow_buf; check ok l_grow rest (go (again left st) rest))
    | HUFF_DEC_ERROR => return_error l_err rest
    end.

(** ... and over a plain one. *)
Definition plain_round (left : Z) (buf : bytes) (write : Z -> bool -> hdr_m bool)
  (again : Z -> data_state) (next : data_state) (l_empty l_room l_write : Z) : hdr_m parse_step :=
  let size := Z.min (u32 (Z.of_nat (length buf))) left in
  if size =? 0 then return_error l_empty buf
  else
    '(off, room) ← get_dst;
    if size >? room then return_error l_room buf
    else
      h ← cur_xhdr;
      h ← demand (dh_write off (take (Z.to_nat size) buf) h);
      set_out_xhdr (Some h);;
      ok ← write size (left =? size);
      check ok l_write buf
        (let left := u32 (left - size) in
         go (if left =? 0 then next else again left) (drop (Z.to_nat size) buf)).

Definition data_state_read_val_len (p : Z) (is_huffman : bool) (st : dec_int_state) (buf : bytes)
  : hdr_m parse_step :=
  on_int24 p st buf (DATA_STATE_READ_VAL_LEN is_huffman) 3711 (fun left rest =>
    if left >? LSXPACK_MAX_STRLEN then return_error 3684 rest
    else if negb (left =? 0) then
      if is_huffman then
        ok ← guarantee_out_bytes (u32 (left + left / 2));
        check ok 3692 rest (go (DATA_STATE_READ_VAL_HUFFMAN left huff_fresh) rest)
      else
        ok ← guarantee_out_bytes left;
        check ok 3699 rest (go (DATA_STATE_READ_VAL_PLAIN left) rest)
    else
      ok ← header_out_write_value 0 true;
      check ok 3706 rest (go DATA_STATE_NEXT_INSTRUCTION rest)).

Definition data_state_read_val_huffman (left : Z) (st : huff_decode_state) (buf : bytes)
  : hdr_m parse_step :=
  huff_round left st buf header_out_write_value DATA_STATE_READ_VAL_HUFFMAN DATA_STATE_NEXT_INSTRUCTION
    3716 3727 3734 3739 3741 3744.

Definition data_state_read_val_plain (left : Z) (buf : bytes) : hdr_m parse_step :=
  plain_round left buf header_out_write_value DATA_STATE_READ_VAL_PLAIN DATA_STATE_NEXT_INSTRUCTION
    3750 3753 3757.

Definition data_state_read_name_huffman (left : Z) (st : huff_decode_state) (buf : bytes)
  : hdr_m parse_step :=
  huff_round left st buf header_out_write_name DATA_STATE_READ_NAME_HUFFMAN DATA_STATE_BEGIN_READ_VAL_LEN
    3793 3804 3811 3816 3818 3821.

Definition data_state_read_name_plain (left : Z) (buf : bytes) : hdr_m parse_step :=
  plain_round left buf header_out_write_name DATA_STATE_READ_NAME_PLAIN DATA_STATE_BEGIN_READ_VAL_LEN
    3827 3830 3834.

(** ** The loop *)

Definition data_round (st : data_state) (b0 : Z) (src : bytes) : hdr_m parse_step :=
  let buf := b0 :: src in
  match st with
  | DATA_STATE_NEXT_INSTRUCTION =>
      if has_bits b0 0x80 then data_state_read_ihf_idx 6 (has_bits b0 0x40) dec_int_fresh buf
      else if has_bits b0 0x40 then
        data_state_read_lfinr_idx 4 (has_bits b0 0x10) (has_bits b0 0x20) dec_int_fresh buf
      else if has_bits b0 0x20 then
        data_state_read_lfonr_name_len 3 (has_bits b0 0x10) (has_bits b0 0x08) dec_int_fresh buf
      else if has_bits b0 0x10 then data_state_read_ipbi_idx 4 dec_int_fresh buf
      else data_state_read_lfpbnr_idx 3 (has_bits b0 0x08) dec_int_fresh buf
  | DATA_STATE_READ_IHF_IDX is_static st => data_state_read_ihf_idx 0 is_static st buf
  | DATA_STATE_READ_IPBI_IDX st => data_state_read_ipbi_idx 0 st buf
  | DATA_STATE_READ_LFINR_IDX is_static is_never st => data_state_read_lfinr_idx 0 is_static is_never st buf
  | DATA_STATE_BEGIN_READ_VAL_LEN => data_state_read_val_len 7 (has_bits b0 0x80) dec_int_fresh buf
  | DATA_STATE_READ_VAL_LEN is_huffman st => data_state_read_val_len 0 is_huffman st buf
  | DATA_STATE_READ_VAL_HUFFMAN n st => data_state_read_val_huffman n st buf
  | DATA_STATE_READ_VAL_PLAIN n => data_state_read_val_plain n buf
  | DATA_STATE_READ_LFONR_NAME_LEN is_never is_huffman st =>
      data_state_read_lfonr_name_len 0 is_never is_huffman st buf
  | DATA_STATE_READ_NAME_HUFFMAN n st => data_state_read_name_huffman n st buf
  | DATA_STATE_READ_NAME_PLAIN n => data_state_read_name_plain n buf
  | DATA_STATE_READ_LFPBNR_IDX is_never st => data_state_read_lfpbnr_idx 0 is_never st buf
  end.

Definition stop_status (m : hdr_m parse_step) : hdr_m lsqpack_read_header_status :=
  s ← m; match s with Stop st => mret st | More _ => stuck end.

(** After the loop. *)
Definition end_of_chunk (st : data_state) : hdr_m lsqpack_read_header_status :=
  c ← get_ctx;
  if hbrc_size c >? 0 then mret LQRHS_NEED
  else
    match st with
    | DATA_STATE_NEXT_INSTRUCTION =>
        if Z.land (hbrc_flags c) (Z.lor HBRC_LARGEST_REF_SET HBRC_LARGEST_REF_USED) =? HBRC_LARGEST_REF_SET
        then stop_status (return_error 3894 [])
        else if has_bits (hbrc_flags c) HBRC_DYN_USED_IN_ERR then stop_status (return_error 3896 [])
        else mret LQRHS_DONE
    | _ => stop_status (return_error 3900 [])
    end.

Definition cur_data : hdr_m data_state :=
  c ← get_ctx;
  match hbrc_parse c with PARSE_DATA st => mret st | PARSE_PREFIX _ => stuck end.

Fixpoint data_loop (fuel : nat) (buf : bytes) : hdr_m lsqpack_read_header_status :=
  st ← cur_data;
  match buf, fuel with
  | [], _ => end_of_chunk st
  | _, O => stuck
  | b0 :: src, S fuel =>
      s ← data_round st b0 src;
      match s with
      | More rest => data_loop fuel rest
      | Stop r => mret r
      end
  end.
End data.

(** A byte takes at most 64 rounds, as in [enc_in_fuel]. *)
Definition parse_header_data (buf : bytes) : hdr_m lsqpack_read_header_status :=
  data_loop (Z.of_nat (length buf)) (64 * length buf + 64) buf.
End parse.
