(* ===== verification/DecHblock.v ===== *)
(** * The decoder's header block interface

    [parse_header_prefix] and [qdec_read_header] of src/lsqpack.c, which read a whole
    header block with [parse_header_data] of [DecParse]; [qdec_header_process],
    [lsqpack_dec_header_in] and [lsqpack_dec_header_read], which keep the context of a
    block that is not complete or blocked; and the instructions the decoder writes:
    section acknowledgements, Insert Count Increments and stream cancellations. *)

From stdpp Require Import gmap.
From S2P Require Import Prelude Monad IntCodec HuffTables Huffman StrCodec Xxhash StaticTable.
From S2P Require Import Ringbuf Rfc9204 EncTable Float EncEncode DecTable DecState DecStream.
From S2P Require Import DecHeader DecParse.

Definition qdec_in_future (max_entries last_id id : Z) : bool :=
  if last_id <? max_entries
  then (last_id <? id) && (id <=? u32 (last_id + max_entries))
  else negb ((id <=? last_id) && (u32 (last_id - max_entries + 1) <=? id)).

Definition dec_max_encoded_RIC (max_entries : Z) : Z := u32 (max_entries * 2).

Section hblock.
Context {hset : Type} `{!HsetIf hset}.

Abbreviation hdr_m := (st_m (lsqpack_dec hset * header_block_read_ctx)).

(** ** The prefix *)

Definition read_largest_ref (p : Z) (st : dec_int_state) (b0 : Z) (src : bytes) : hdr_m parse_step :=
  dec ← get_dec;
  c ← get_ctx;
  let M := max_entries_of dec in
  match lsqpack_dec_int b0 src p st with
  | DecIntOk value rest =>
      if negb (value =? 0) then
        if value >? dec_max_encoded_RIC M then mret (Stop LQRHS_ERROR)
        else
          let largest_ref := ID_MINUS64 M value 2 in
          modify_ctx (fun c => set_hbrc_refs largest_ref (hbrc_base_index c) c);;
          or_flags (Z.lor HBRC_LARGEST_REF_READ HBRC_LARGEST_REF_SET);;
          set_prefix PREFIX_STATE_BEGIN_READING_BASE_IDX;;
          if qdec_in_future M (qpd_last_id (qpd_tab dec)) largest_ref
          then mret (Stop LQRHS_BLOCKED) else mret (More rest)
      else
        or_flags HBRC_LARGEST_REF_READ;;
        set_prefix PREFIX_STATE_BEGIN_READING_BASE_IDX;;
        mret (More rest)
  | DecIntMore st =>
      set_prefix (PREFIX_STATE_READ_LARGEST_REF st);;
      if u64 (hbrc_orig_size c - hbrc_size c) <=? lsqpack_val2len (dec_max_encoded_RIC M) 8
      then mret (Stop LQRHS_NEED) else mret (Stop LQRHS_ERROR)
  | DecIntOverflow => mret (Stop LQRHS_ERROR)
  end.

Definition read_delta_base_idx (p : Z) (sign : bool) (st : dec_int_state) (b0 : Z) (src : bytes)
  : hdr_m parse_step :=
  dec ← get_dec;
  c ← get_ctx;
  let M := max_entries_of dec in
  match lsqpack_dec_int b0 src p st with
  | DecIntOk value rest =>
      let base := if has_bits (hbrc_flags c) HBRC_LARGEST_REF_SET
                  then if sign then ID_MINUS64 M (hbrc_largest_ref c) (u64 (value + 1))
                       else ID_PLUS64 M (hbrc_largest_ref c) value
                  else 0 in
      modify_ctx (fun c => set_hbrc_refs (hbrc_largest_ref c) base c);;
      set_data DATA_STATE_NEXT_INSTRUCTION;;
      match rest with
      | [] => mret (Stop LQRHS_NEED)
      | _ => r ← parse_header_data rest; mret (Stop r)
      end
  | DecIntMore st => set_prefix (PREFIX_STATE_READ_DELTA_BASE_IDX sign st);; mret (Stop LQRHS_NEED)
  | DecIntOverflow => mret (Stop LQRHS_ERROR)
  end.

Definition prefix_round (st : prefix_state) (b0 : Z) (src : bytes) : hdr_m parse_step :=
  match st with
  | PREFIX_STATE_BEGIN_READING_LARGEST_REF => read_largest_ref 8 dec_int_fresh b0 src
  | PREFIX_STATE_READ_LARGEST_REF st => read_largest_ref 0 st b0 src
  | PREFIX_STATE_BEGIN_READING_BASE_IDX => read_delta_base_idx 7 (has_bits b0 0x80) dec_int_fresh b0 src
  | PREFIX_STATE_READ_DELTA_BASE_IDX sign st => read_delta_base_idx 0 sign st b0 src
  end.

(** A round that goes on has read a byte. *)
Fixpoint prefix_loop (fuel : nat) (buf : bytes) : hdr_m lsqpack_read_header_status :=
  c ← get_ctx;
  match buf, fuel with
  | [], _ => if hbrc_size c >? 0 then mret LQRHS_NEED else mret LQRHS_ERROR
  | _, O => stuck
  | b0 :: src, S fuel =>
      match hbrc_parse c with
      | PARSE_DATA _ => stuck
      | PARSE_PREFIX st =>
          s ← prefix_round st b0 src;
          match s with
          | More rest => prefix_loop fuel rest
          | Stop r => mret r
          end
      end
  end.

Definition parse_header_prefix (buf : bytes) : hdr_m lsqpack_read_header_status :=
  prefix_loop (length buf) buf.

(** ** The block *)

Definition max_to_read (c : header_block_read_ctx) : Z :=
  if has_bits (hbrc_flags c) HBRC_LARGEST_REF_READ then hbrc_size c else 1.

(** [read_ctx->hbrc_parse] *)
Definition hbrc_parse_call (buf : bytes) : hdr_m lsqpack_read_header_status :=
  c ← get_ctx;
  match hbrc_parse c with
  | PARSE_PREFIX _ => parse_header_prefix buf
  | PARSE_DATA _ => parse_header_data buf
  end.

(** [buf] is what [hbrc_buf] has not yet given to the parser; the result has what is
    left of it ([qdec_read_header_block]). *)
Fixpoint read_header_loop (fuel : nat) (buf : bytes)
  : hdr_m (lsqpack_read_header_status * bytes) :=
  c ← get_ctx;
  if hbrc_size c >? 0 then
    let n := Z.to_nat (Z.min (max_to_read c) (Z.of_nat (length buf))) in
    let rest := drop n buf in
    match n, fuel with
    | O, _ => mret (LQRHS_NEED, rest)
    | _, O => stuck
    | _, S fuel =>
        modify_ctx (fun c => set_hbrc_size (u64 (hbrc_size c - Z.of_nat n)) c);;
        st ← hbrc_parse_call (take n buf);
        match st with
        | LQRHS_NEED =>
            c ← get_ctx;
            if hbrc_size c =? 0 then mret (LQRHS_ERROR, rest) else read_header_loop fuel rest
        | _ => mret (st, rest)
        end
    end
  else mret (LQRHS_DONE, buf).

Definition qdec_read_header (buf : bytes) : hdr_m (lsqpack_read_header_status * bytes) :=
  read_header_loop (length buf) buf.

(** ** Acknowledgements *)

(** The instruction, [None] when there is not enough room for it. *)
Definition qdec_try_writing_header_ack (stream_id : Z) (dec_buf : bytes) : dec_m hset (option bytes) :=
  match put_int 0x80 dec_buf stream_id 7 with
  | Wrote b _ =>
      modify (fun dec => set_bytes_in (u32 (qpd_bytes_in dec + Z.of_nat (length b))) dec);;
      mret (Some b)
  | NoRoom _ => mret None
  end.

Definition qdec_maybe_update_largest_known (id : Z) : dec_m hset unit :=
  dec ← get;
  let M := qpd_max_entries (qpd_tab dec) in
  let diff := ID_MINUS M id (qpd_largest_known_id dec) in
  if (diff >? 0) && (diff <=? M) then modify (set_largest_known_id id) else mret tt.

(** The counters are reset when [bytes_out] is above 2^31. *)
Definition reset_counters (dec : lsqpack_dec hset) : lsqpack_dec hset :=
  if qpd_bytes_out dec >? 2 ^ 31 then
    let ratio := f32_div (f32_of_Z (qpd_bytes_in dec)) (f32_of_Z (qpd_bytes_out dec)) in
    set_bytes_out 1000 (set_bytes_in (int_trunc (f32_mul ratio (f32_of_Z 1000))) dec)
  else dec.

Definition lsqpack_dec_ratio (dec : lsqpack_dec hset) : float :=
  if negb (qpd_bytes_out dec =? 0)
  then f32_div (f32_of_Z (qpd_bytes_in dec)) (f32_of_Z (qpd_bytes_out dec))
  else f32_zero.

(** ** One call *)

(** The status, what is left of the caller's buffer ([*buf] moves when the call does
    not fail) and the first [*dec_buf_sz] bytes of [dec_buf]: the acknowledgement. *)
Record header_result := { hr_status : lsqpack_read_header_status; hr_rest : bytes; hr_ack : bytes }.

(** The case [LQRHS_DONE]; [dec_buf] is [None] for NULL. *)
Definition header_block_done (c : header_block_read_ctx) (buf rest : bytes) (dec_buf : option bytes)
  : dec_m hset header_result :=
  modify (fun dec => set_hlist_size_ema (update_ema (qpd_hlist_size_ema dec) (hbrc_header_count c)) dec);;
  ack ← match dec_buf with
        | Some room =>
            if has_bits (hbrc_flags c) HBRC_LARGEST_REF_SET then
              ack ← qdec_try_writing_header_ack (hbrc_stream_id c) room;
              match ack with
              | Some b => qdec_maybe_update_largest_known (hbrc_largest_ref c);; mret (Some b)
              | None => mret None
              end
            else mret (Some [])
        | None => mret (Some [])
        end;
  match ack with
  | None => mret {| hr_status := LQRHS_ERROR; hr_rest := buf; hr_ack := [] |}
  | Some b =>
      modify (fun dec => set_bytes_in (u32 (qpd_bytes_in dec + hbrc_orig_size c)) dec);;
      modify reset_counters;;
      mret {| hr_status := LQRHS_DONE; hr_rest := rest; hr_ack := b |}
  end.

(** The context is put on the list when it is not; its address, or NULL. *)
Definition keep_ctx (p : option Z) (c : header_block_read_ctx) : dec_m hset (option Z) :=
  match p with
  | Some p => modify (fun dec => set_ctxs (set_ctx p c (qpd_ctxs dec)) dec);; mret (Some p)
  | None =>
      m ← dec_malloc;
      match m with
      | None => mret None
      | Some _ => p ← qdec_insert_header_block c; mret (Some p)
      end
  end.

(** [p] is where the context is when it is on the list, [c] what it holds. *)
Definition destroy_if_kept (p : option Z) (c : header_block_read_ctx) : dec_m hset unit :=
  match p with
  | Some p =>
      modify (fun dec => set_ctxs (set_ctx p c (qpd_ctxs dec)) dec);;
      destroy_header_block_read_ctx p
  | None => mret tt
  end.

Definition qdec_header_process (p : option Z) (c : header_block_read_ctx) (buf : bytes)
  (dec_buf : option bytes) : dec_m hset header_result :=
  dec ← get;
  '(st, rest, dec, c) ← demand (match qdec_read_header buf (dec, c) with
                                | Some (st, rest, (dec, c)) => Some (st, rest, dec, c)
                                | None => None
                                end);
  modify (fun _ => dec);;
  let failed := {| hr_status := LQRHS_ERROR; hr_rest := buf; hr_ack := [] |} in
  match st with
  | LQRHS_DONE =>
      r ← header_block_done c buf rest dec_buf;
      destroy_if_kept p c;;
      mret r
  | LQRHS_NEED | LQRHS_BLOCKED =>
      kept ← keep_ctx p c;
      match kept with
      | None => mret failed
      | Some q =>
          ok ← (match st with LQRHS_BLOCKED => stash_blocked_header q | _ => mret true end);
          if ok : bool then mret {| hr_status := st; hr_rest := rest; hr_ack := [] |}
          else destroy_header_block_read_ctx q;; mret failed
      end
  | LQRHS_ERROR => destroy_if_kept p c;; mret failed
  end.

Definition lsqpack_dec_header_read (hblock : Z) (buf : bytes) (dec_buf : option bytes)
  : dec_m hset header_result :=
  dec ← get;
  match find_header_block_read_ctx hblock (qpd_ctxs dec) with
  | Some p =>
      c ← demand (cx_mem (qpd_ctxs dec) !! p);
      qdec_header_process (Some p) c buf dec_buf
  | None => mret {| hr_status := LQRHS_ERROR; hr_rest := buf; hr_ack := [] |}
  end.

Definition new_ctx (hblock stream_id header_size : Z) : header_block_read_ctx :=
  {| hbrc_hblock := hblock; hbrc_stream_id := stream_id; hbrc_orig_size := header_size;
     hbrc_size := header_size; hbrc_largest_ref := 0; hbrc_base_index := 0; hbrc_header_count := 0;
     hbrc_out := no_out; hbrc_parse := PARSE_PREFIX PREFIX_STATE_BEGIN_READING_LARGEST_REF;
     hbrc_flags := 0 |}.

Definition lsqpack_dec_header_in (hblock stream_id header_size : Z) (buf : bytes)
  (dec_buf : option bytes) : dec_m hset header_result :=
  if header_size <? 2 then
    modify (set_err (Some {| de_line := 4328; de_off := 0; de_stream_id := stream_id |}));;
    mret {| hr_status := LQRHS_ERROR; hr_rest := buf; hr_ack := [] |}
  else qdec_header_process None (new_ctx hblock stream_id header_size) buf dec_buf.

(** ** The decoder stream: the return value and as many bytes of the buffer *)

Definition lsqpack_dec_ici_pending (dec : lsqpack_dec hset) : bool :=
  negb (qpd_last_id (qpd_tab dec) =? qpd_largest_known_id dec).

(** An instruction [first | value] with a prefix of 6 bits, and the counter. *)
Definition write_dec_inst (first value : Z) (buf : bytes) : dec_m hset (Z * bytes) :=
  match put_int first buf value 6 with
  | Wrote b _ =>
      modify (fun dec => set_bytes_in (u32 (qpd_bytes_in dec + Z.of_nat (length b))) dec);;
      mret (Z.of_nat (length b), b)
  | NoRoom _ => mret (-1, [])
  end.

Definition lsqpack_dec_write_ici (buf : bytes) : dec_m hset (Z * bytes) :=
  dec ← get;
  let last_id := qpd_last_id (qpd_tab dec) in
  if negb (last_id =? qpd_largest_known_id dec) then
    let count := ID_MINUS (qpd_max_entries (qpd_tab dec)) last_id (qpd_largest_known_id dec) in
    r ← write_dec_inst 0 count buf;
    (if fst r >? 0 then modify (set_largest_known_id last_id) else mret tt);;
    mret r
  else mret (0, []).

Definition lsqpack_dec_unref_stream (hblock : Z) : dec_m hset Z :=
  dec ← get;
  match find_header_block_read_ctx hblock (qpd_ctxs dec) with
  | Some p => destroy_header_block_read_ctx p;; mret 0
  | None => mret (-1)
  end.

Definition lsqpack_dec_cancel_stream (hblock : Z) (buf : bytes) : dec_m hset (Z * bytes) :=
  dec ← get;
  match find_header_block_read_ctx hblock (qpd_ctxs dec) with
  | None => mret (0, [])
  | Some p =>
      c ← demand (cx_mem (qpd_ctxs dec) !! p);
      r ← write_dec_inst 0x40 (hbrc_stream_id c) buf;
      (if fst r >? 0 then destroy_header_block_read_ctx p else mret tt);;
      mret r
  end.

Definition lsqpack_dec_cancel_stream_id (stream_id : Z) (buf : bytes) : dec_m hset (Z * bytes) :=
  dec ← get;
  if qpd_max_capacity (qpd_tab dec) =? 0 then mret (0, [])
  else write_dec_inst 0x40 stream_id buf.
End hblock.
