(* ===== verification/DecHset.v ===== *)
(** * The application the decoder hands headers to

    [struct lsqpack_dec_hset_if] of src/lsqpack.h is a set of callbacks.  [HsetOk] is
    what the decoder relies on: what the memory given by dhi_prepare_decode is like,
    and that the application remembers the headers it accepted.  The documentation is
    the program src/bin/interop-decode.c and lsxpack_header_prepare_decode of
    src/lsxpack_header.h.

    [shows line h] is what the decoder promises in turn: that the header [h] it hands
    over is the field line [line], formatted as the options say, with valid hashes. *)

From stdpp Require Import gmap.
From S2P Require Import Prelude Monad IntCodec HuffTables Huffman HuffStream StrCodec Xxhash.
From S2P Require Import StaticTable Ringbuf Rfc9204 EncTable EncEncode DecTable DecState DecStream.
From S2P Require Import DecSpec DecStrings DecHeader.

(** ** The contract *)

(** [val_len] bytes from [name_offset] are inside the buffer, which offsets of type
    [int32_t] can address. *)
Record space_ok (h : dec_header) : Prop := {
  sp_offset : 0 <= dh_name_offset h;
  sp_len : 0 <= dh_val_len h <= LSXPACK_MAX_STRLEN;
  sp_buf : dh_name_offset h + dh_val_len h <= Z.of_nat (length (dh_buf h));
  sp_small : Z.of_nat (length (dh_buf h)) < 2 ^ 31;
  sp_bytes : is_bytes (dh_buf h);
}.

(** A header as [lsxpack_header_prepare_decode] makes it. *)
Record fresh_header (space : Z) (h : dec_header) : Prop := {
  fh_space : space_ok h;
  fh_enough : space <= dh_val_len h;
  fh_flags : dh_flags h = 0;
}.

(** Its buffer reallocated: what was written is still there. *)
Record grown_header (space : Z) (h h' : dec_header) : Prop := {
  gh_space : space_ok h';
  gh_enough : space <= dh_val_len h';
  gh_kept : stored (dh_name_offset h') (dh_val_len h) (dh_buf h')
            = stored (dh_name_offset h) (dh_val_len h) (dh_buf h);
  gh_more : dh_val_len h <= dh_val_len h';
  gh_rest : exists buf val_len, h' =
    {| dh_buf := buf; dh_name_hash := dh_name_hash h; dh_nameval_hash := dh_nameval_hash h;
       dh_name_offset := dh_name_offset h; dh_val_offset := dh_val_offset h;
       dh_name_len := dh_name_len h; dh_val_len := val_len; dh_qpack_index := dh_qpack_index h;
       dh_flags := dh_flags h; dh_dec_overhead := dh_dec_overhead h |};
}.

Class HsetOk (hset : Type) `{!HsetIf hset} := {
  (** The headers accepted so far, with the header block each belongs to. *)
  app_headers : hset -> list (Z * dec_header);
  app_fresh hb space app h app' :
    dhi_prepare_decode hb None space app = (Some h, app') -> fresh_header space h;
  app_grown hb space app h h' app' : space_ok h -> dh_val_len h < space ->
    dhi_prepare_decode hb (Some h) space app = (Some h', app') -> grown_header space h h';
  app_prepare hb xhdr space app : app_headers (snd (dhi_prepare_decode hb xhdr space app)) = app_headers app;
  app_process hb h app :
    app_headers (snd (dhi_process_header hb h app)) =
    if fst (dhi_process_header hb h app) =? 0 then app_headers app ++ [(hb, h)] else app_headers app;
  app_unblocked hb app : app_headers (dhi_unblocked hb app) = app_headers app;
  (** The application accepts every header that is not too long. *)
  app_willing : Prop;
  app_willing_fresh : app_willing -> forall hb space app, space <= LSXPACK_MAX_STRLEN ->
    is_Some (fst (dhi_prepare_decode hb None space app));
  app_willing_grown : app_willing -> forall hb h space app, space <= LSXPACK_MAX_STRLEN ->
    dh_name_offset h <= 32767 -> space_ok h -> dh_val_len h < space -> is_Some (fst (dhi_prepare_decode hb (Some h) space app));
  app_willing_offset : app_willing -> forall hb space app h app',
    dhi_prepare_decode hb None space app = (Some h, app') -> dh_name_offset h <= 32767;
  app_willing_process : app_willing -> forall hb h app, fst (dhi_process_header hb h app) = 0;
}.

(** ** Header lines *)

(** A field line as the decoder delivers it: the N bit and the field. *)
Record hline := { hl_never : bool; hl_field : hfield }.

Definition separator (http1x : bool) : bytes := if http1x then colon_space else [].
Definition line_end (http1x : bool) : bytes := if http1x then cr_lf else [].

(** What the members besides the strings say. *)
Record line_info (http1x : bool) (line : hline) (h : dec_header) : Prop := {
  li_never : has_bits (dh_flags h) LSXPACK_NEVER_INDEX = hl_never line;
  li_overhead : dh_dec_overhead h = overhead http1x;
  li_name_hash : has_bits (dh_flags h) LSXPACK_NAME_HASH = true ->
    dh_name_hash h = XXH32 (fst (hl_field line)) LSQPACK_XXH_SEED;
  li_nameval_hash : has_bits (dh_flags h) LSXPACK_NAMEVAL_HASH = true ->
    dh_nameval_hash h = XXH32 (snd (hl_field line)) (XXH32 (fst (hl_field line)) LSQPACK_XXH_SEED);
  li_index : has_bits (dh_flags h) LSXPACK_QPACK_IDX = true ->
    0 <= dh_qpack_index h < 99 /\ ste_name (ste_at (dh_qpack_index h)) = fst (hl_field line);
  li_matched : has_bits (dh_flags h) LSXPACK_VAL_MATCHED = true ->
    has_bits (dh_flags h) LSXPACK_QPACK_IDX = true
    /\ ste_val (ste_at (dh_qpack_index h)) = snd (hl_field line);
}.

Definition line_text (http1x : bool) (f : hfield) : bytes :=
  fst f ++ separator http1x ++ snd f ++ line_end http1x.

Record shows (http1x : bool) (line : hline) (h : dec_header) : Prop := {
  sh_name : dh_read (dh_name_offset h) (dh_name_len h) h = Some (fst (hl_field line));
  sh_value : dh_read (dh_val_offset h) (dh_val_len h) h = Some (snd (hl_field line));
  sh_text : let text := line_text http1x (hl_field line) in
    dh_read (dh_name_offset h) (Z.of_nat (length text)) h = Some text;
  sh_info : line_info http1x line h;
}.

(** ** Writing into a header's buffer *)

(** [n] bytes at [off], counted from [name_offset], have been written and are [s]. *)
Definition holds_text (h : dec_header) (s : bytes) : Prop :=
  stored (dh_name_offset h) (Z.of_nat (length s)) (dh_buf h) = s.

Lemma stored_prefix base n m buf :
  0 <= n <= m -> stored base n buf = take (Z.to_nat n) (stored base m buf).
Proof. intros H. unfold stored. rewrite take_take. f_equal. lia. Qed.

Lemma stored_app_at base n m buf : 0 <= base -> 0 <= n -> 0 <= m ->
  stored base (n + m) buf = stored base n buf ++ stored (base + n) m buf.
Proof.
  intros Hb Hn Hm. unfold stored. rewrite !Z2Nat.inj_add by lia.
  rewrite <- take_take_drop, drop_drop. done.
Qed.

Lemma dh_read_stored off len h :
  0 <= off -> off + len <= Z.of_nat (length (dh_buf h)) -> dh_read off len h = Some (stored off len (dh_buf h)).
Proof.
  intros H1 H2. unfold dh_read, stored. by rewrite (proj2 (Z.leb_le _ _) H1), (proj2 (Z.leb_le _ _) H2).
Qed.

(** Appending [src] to the text [s]. *)
Lemma dh_append h s src :
  space_ok h -> is_bytes src -> holds_text h s ->
  Z.of_nat (length s) + Z.of_nat (length src) <= Z.of_nat (length (dh_buf h)) - dh_name_offset h ->
  exists buf, dh_write (dh_name_offset h + Z.of_nat (length s)) src h = Some (dh_set_buf buf h)
    /\ length buf = length (dh_buf h) /\ is_bytes buf
    /\ holds_text (dh_set_buf buf h) (s ++ src).
Proof.
  intros [Ho Hl Hb Hsm Hby] Hsrc Hs Hlen.
  destruct (write_stored (dh_name_offset h) (Z.of_nat (length s)) src (dh_buf h)) as (buf & Hw & Hlb & Hbb & Hst & _);
    [lia|lia|lia|done|done|].
  exists buf. unfold dh_write. rewrite Hw. split; [done|]. split; [done|]. split; [done|].
  unfold holds_text in *. cbn [dh_set_buf dh_name_offset dh_buf]. rewrite length_app, Nat2Z.inj_add, Hst. by rewrite Hs.
Qed.

(** A piece of the text. *)
Lemma holds_mid h a b c : 0 <= dh_name_offset h -> holds_text h (a ++ b ++ c) ->
  stored (dh_name_offset h + Z.of_nat (length a)) (Z.of_nat (length b)) (dh_buf h) = b.
Proof.
  intros Ho H. unfold holds_text, stored in *. rewrite !length_app in H. apply (f_equal (drop (length a))) in H.
  rewrite drop_app_length in H. apply (f_equal (take (length b))) in H. rewrite take_app_length in H.
  rewrite <- H at 2. rewrite Z2Nat.inj_add, !Nat2Z.id by lia. rewrite skipn_firstn_comm, drop_drop, take_take.
  f_equal. lia.
Qed.

Lemma holds_prefix h a b : 0 <= dh_name_offset h -> holds_text h (a ++ b) -> holds_text h a.
Proof. intros Ho H. pose proof (holds_mid h [] a b Ho H) as E. cbn [length] in E. by rewrite Z.add_0_r in E. Qed.

Lemma i32_id z : - 2 ^ 31 <= z < 2 ^ 31 -> i32 z = z.
Proof.
  intros H. unfold i32. change (2 ^ 31) with 2147483648 in *. change (2 ^ 32) with 4294967296.
  rewrite Z.mod_small; lia.
Qed.

(** The name and what follows it. *)
Lemma put_name_spec http1x name h :
  space_ok h -> is_bytes name ->
  let text := name ++ separator http1x in
  dh_name_offset h + Z.of_nat (length text) <= Z.of_nat (length (dh_buf h)) ->
  exists buf, put_name http1x name h
      = Some (dh_set_val_offset (dh_name_offset h + Z.of_nat (length text)) (dh_set_buf buf h))
    /\ length buf = length (dh_buf h) /\ is_bytes buf /\ holds_text (dh_set_buf buf h) text.
Proof.
  intros Hsp Hn. cbn zeta. rewrite length_app. intros Hlen. unfold put_name.
  destruct (dh_append h [] name Hsp Hn) as (buf & Hw & Hlb & Hbb & Ht); [done|cbn [length]; lia|].
  cbn [length] in Hw. rewrite Z.add_0_r in Hw. rewrite Hw. cbn [mbind option_bind app] in *.
  destruct http1x; cbn [separator] in *.
  - assert (space_ok (dh_set_buf buf h)) as Hsp'.
    { destruct Hsp. constructor; cbn [dh_set_buf dh_name_offset dh_val_len dh_buf]; try done; by rewrite Hlb. }
    destruct (dh_append (dh_set_buf buf h) name colon_space Hsp') as (buf2 & Hw2 & Hlb2 & Hbb2 & Ht2); [|done| |].
    { unfold colon_space. repeat constructor; unfold is_u8; lia. }
    { cbn [dh_set_buf dh_buf dh_name_offset]. cbn [colon_space length] in *. lia. }
    cbv zeta. rewrite Hw2. cbn [mbind option_bind]. exists buf2.
    split; [|split; [by rewrite Hlb2|done]]. f_equal. unfold dh_set_buf, dh_set_val_offset. cbn.
    f_equal. f_equal. lia.
  - exists buf. rewrite app_nil_r in *. split; [|done]. by rewrite Nat.add_0_r.
Qed.

Lemma put_value_spec http1x text value h :
  space_ok h -> is_bytes value -> holds_text h text ->
  dh_name_offset h + Z.of_nat (length (text ++ value ++ line_end http1x)) <= Z.of_nat (length (dh_buf h)) ->
  exists buf, put_value http1x (dh_name_offset h + Z.of_nat (length text)) value h = Some (dh_set_buf buf h)
    /\ length buf = length (dh_buf h) /\ is_bytes buf
    /\ holds_text (dh_set_buf buf h) (text ++ value ++ line_end http1x).
Proof.
  intros Hsp Hv Ht. rewrite !length_app. intros Hlen. unfold put_value.
  destruct (dh_append h text value Hsp Hv Ht) as (buf & Hw & Hlb & Hbb & Ht1); [lia|].
  rewrite Hw. cbn [mbind option_bind]. destruct http1x; cbn [line_end] in *.
  - assert (space_ok (dh_set_buf buf h)) as Hsp'.
    { destruct Hsp. constructor; cbn [dh_set_buf dh_name_offset dh_val_len dh_buf]; try done; by rewrite Hlb. }
    destruct (dh_append (dh_set_buf buf h) (text ++ value) cr_lf Hsp') as (buf2 & Hw2 & Hlb2 & Hbb2 & Ht2); [|done| |].
    { unfold cr_lf. repeat constructor; unfold is_u8; lia. }
    { cbn [dh_set_buf dh_buf dh_name_offset]. rewrite length_app. cbn [cr_lf length] in *. lia. }
    cbn [dh_set_buf dh_name_offset] in Hw2 |- *. rewrite length_app, Nat2Z.inj_add in Hw2.
    rewrite Z.add_assoc in Hw2. rewrite Hw2. exists buf2. rewrite <- app_assoc in Ht2.
    split; [done|]. split; [by rewrite Hlb2|done].
  - exists buf. by rewrite app_nil_r.
Qed.

(** ** A header that is complete *)

(** The text is there, and the members point to its parts. *)
Lemma shows_intro http1x line h :
  0 <= dh_name_offset h -> holds_text h (line_text http1x (hl_field line)) ->
  dh_name_offset h + Z.of_nat (length (line_text http1x (hl_field line))) <= Z.of_nat (length (dh_buf h)) ->
  dh_name_len h = Z.of_nat (length (fst (hl_field line))) ->
  dh_val_len h = Z.of_nat (length (snd (hl_field line))) ->
  dh_val_offset h = dh_name_offset h + Z.of_nat (length (fst (hl_field line) ++ separator http1x)) ->
  line_info http1x line h -> shows http1x line h.
Proof.
  intros Ho Ht Hl Hn Hv Hoff Hi. unfold line_text in *. destruct (hl_field line) as [n v] eqn:E. cbn [fst snd] in *.
  rewrite !length_app in Hl. rewrite length_app in Hoff. constructor; rewrite ?E; cbn [fst snd]; [| | |done].
  - rewrite dh_read_stored by lia. rewrite Hn. f_equal. by eapply holds_prefix.
  - rewrite dh_read_stored by lia. rewrite Hv, Hoff, <- length_app. f_equal.
    apply (holds_mid h _ _ (line_end http1x)); [done|]. by rewrite <- app_assoc.
  - cbn zeta. unfold line_text. cbn [fst snd]. rewrite !length_app, dh_read_stored by lia. f_equal.
    unfold holds_text in Ht. by rewrite !length_app in Ht.
Qed.

Lemma line_info_buf http1x line h buf off :
  line_info http1x line h -> line_info http1x line (dh_set_val_offset off (dh_set_buf buf h)).
Proof. by intros []. Qed.

Lemma space_ok_buf h buf off :
  space_ok h -> length buf = length (dh_buf h) -> is_bytes buf -> space_ok (dh_set_val_offset off (dh_set_buf buf h)).
Proof. intros [] E Hb. constructor; cbn; try done; by rewrite E. Qed.

(** Both strings at once. *)
Lemma put_line_spec http1x line h :
  space_ok h -> is_bytes (fst (hl_field line)) -> is_bytes (snd (hl_field line)) ->
  dh_name_len h = Z.of_nat (length (fst (hl_field line))) ->
  dh_val_len h = Z.of_nat (length (snd (hl_field line))) ->
  dh_name_offset h + Z.of_nat (length (line_text http1x (hl_field line))) <= Z.of_nat (length (dh_buf h)) ->
  line_info http1x line h ->
  exists h1 h2, put_name http1x (fst (hl_field line)) h = Some h1
    /\ put_value http1x (dh_val_offset h1) (snd (hl_field line)) h1 = Some h2 /\ shows http1x line h2.
Proof.
  intros Hsp Hn Hv Hnl Hvl Hlen Hi. pose proof Hsp as [Ho _ _ Hsm _]. unfold line_text in Hlen.
  destruct (hl_field line) as [n v] eqn:E. cbn [fst snd] in *. rewrite !length_app in Hlen.
  destruct (put_name_spec http1x n h Hsp Hn) as (buf & Hw & Hlb & Hbb & Ht); [rewrite length_app; lia|].
  rewrite Hw. set (h1 := dh_set_val_offset _ _) in *.
  assert (dh_val_offset h1 = dh_name_offset h1 + Z.of_nat (length (n ++ separator http1x))) as Hoff.
  { cbn. apply i32_id. rewrite length_app in *. lia. }
  assert (space_ok h1) as Hsp1 by by apply space_ok_buf.
  destruct (put_value_spec http1x (n ++ separator http1x) v h1 Hsp1 Hv Ht) as (buf2 & Hw2 & Hlb2 & Hbb2 & Ht2).
  { rewrite !length_app. cbn. rewrite Hlb. lia. }
  exists h1, (dh_set_buf buf2 h1). split; [done|]. rewrite Hoff, Hw2. split; [done|]. rewrite <- app_assoc in Ht2. apply shows_intro; rewrite ?E; cbn [fst snd]; try done.
  - unfold line_text. cbn [fst snd]. rewrite !length_app. cbn in *. rewrite Hlb2. cbn. rewrite Hlb. lia.
  - destruct Hi. by constructor.
Qed.
