(* ===== verification/DecOut.v ===== *)
(** * Whole headers

    [header_out_static_entry] and [header_out_dynamic_entry]: the application gets
    the field of the entry.  Nothing else of the decoder changes but its counters and
    the hashes cached in an entry ([quiet]). *)

From stdpp Require Import gmap.
From S2P Require Import Prelude Monad IntCodec HuffTables Huffman HuffStream StrCodec Xxhash.
From S2P Require Import StaticTable Ringbuf Rfc9204 EncTable EncEncode DecTable DecState DecStream.
From S2P Require Import DecSpec DecBlocked DecStrings DecReading DecCore DecWinr DecHeader DecHset.

(** [hstep]: [wpstep] for the pair of the decoder and a context. *)
Ltac hstep :=
  lazymatch goal with
  | |- wp get_dec _ _ => refine (wp_gets _ _ _ _)
  | |- wp get_ctx _ _ => refine (wp_gets _ _ _ _)
  | |- wp (modify_dec _) _ _ => refine (wp_modify _ _ _ _)
  | |- wp (modify_ctx _) _ _ => refine (wp_modify _ _ _ _)
  | |- wp (set_out _ _ _) _ _ => refine (wp_modify _ _ _ _)
  | |- wp (add_bytes_out _) _ _ => refine (wp_modify _ _ _ _)
  | |- wp (wrote _) _ _ => refine (wp_modify _ _ _ _)
  | _ => wpstep
  end.

Ltac hdemand E := hstep; eapply wp_demand; [exact E|]; cbn beta.

Ltac hsteps := repeat (hstep; cbn beta; cbn [fst snd]).

Section out.
Context {hset : Type} `{!HsetIf hset} `{!HsetOk hset}.
Variables (max : Z) (rel : bool) (t : dyn_table).

Implicit Types (dec : lsqpack_dec hset) (c : header_block_read_ctx).

(** What a header block being read leaves as it was. *)
Record quiet dec dec' : Prop := {
  qu_opts : qpd_opts dec' = qpd_opts dec;
  qu_ctxs : qpd_ctxs dec' = qpd_ctxs dec;
  qu_known : qpd_largest_known_id dec' = qpd_largest_known_id dec;
  qu_risked : qpd_max_risked_streams dec' = qpd_max_risked_streams dec;
  qu_last : qpd_last_id (qpd_tab dec') = qpd_last_id (qpd_tab dec);
  qu_entries : qpd_max_entries (qpd_tab dec') = qpd_max_entries (qpd_tab dec);
  qu_reading : reading max rel dec t -> reading max rel dec' t;
  qu_state : qpd_enc_state dec' = qpd_enc_state dec;
  qu_reader : reader dec' = reader dec;
}.

Lemma quiet_refl dec : quiet dec dec.
Proof. by constructor. Qed.

Lemma quiet_trans dec dec1 dec2 : quiet dec dec1 -> quiet dec1 dec2 -> quiet dec dec2.
Proof. intros [] []. constructor; try congruence. auto. Qed.

Lemma quiet_app app dec : quiet dec (set_app app dec).
Proof. constructor; try done. intros (l & name & [] & Hok). by exists l, name. Qed.

Lemma quiet_bytes_out n dec : quiet dec (set_bytes_out n dec).
Proof. constructor; try done. intros (l & name & [] & Hok). by exists l, name. Qed.

Lemma quiet_err e dec : quiet dec (set_err e dec).
Proof. constructor; try done. intros (l & name & [] & Hok). by exists l, name. Qed.

Definition log (s : lsqpack_dec hset * header_block_read_ctx) : list (Z * dec_header) := app_headers (qpd_app (fst s)).

(** ** The callbacks *)

Lemma wp_lift {A} (m : dec_m hset A) dec c (Q : A -> lsqpack_dec hset * header_block_read_ctx -> Prop) :
  wp m dec (fun x dec' => Q x (dec', c)) -> wp (lift m) (dec, c) Q.
Proof. unfold wp, lift. cbn [fst snd]. by destruct (m dec) as [[x dec']|]. Qed.

(** Only the application has changed, and its headers have not. *)
Definition asked (s s' : lsqpack_dec hset * header_block_read_ctx) : Prop :=
  snd s' = snd s /\ quiet (fst s) (fst s') /\ log s' = log s /\ qpd_tab (fst s') = qpd_tab (fst s).

Lemma wp_prepare xhdr space s :
  wp (prepare_decode xhdr space) s (fun x s' => asked s s'
    /\ x = fst (dhi_prepare_decode (hbrc_hblock (snd s)) xhdr space (qpd_app (fst s)))).
Proof.
  destruct s as [dec c]. unfold prepare_decode. hsteps.
  destruct (dhi_prepare_decode _ xhdr space _) as [x app] eqn:E. hsteps. split; [|done].
  split; [done|]. split; [apply quiet_app|]. split; [|done]. unfold log. cbn.
  pose proof (app_prepare (hbrc_hblock c) xhdr space (qpd_app dec)) as H. by rewrite E in H.
Qed.

Lemma wp_prepare_fresh space s :
  wp (prepare_decode None space) s (fun x s' => asked s s' /\
    match x with
    | Some h => fresh_header space h /\ (app_willing -> dh_name_offset h <= 32767)
    | None => app_willing -> LSXPACK_MAX_STRLEN < space
    end).
Proof.
  eapply wp_mono; [apply wp_prepare|]. intros x s' [Ha ->]. split; [done|].
  destruct (dhi_prepare_decode _ None space _) as [[h|] app] eqn:E; cbn [fst].
  - split; [by eapply app_fresh|]. intros Hw. by eapply app_willing_offset.
  - intros Hw. destruct (Z.lt_ge_cases LSXPACK_MAX_STRLEN space) as [|Hle]; [done|].
    destruct (app_willing_fresh Hw (hbrc_hblock (snd s)) space (qpd_app (fst s)) Hle) as [h Hh]. by rewrite E in Hh.
Qed.

Lemma wp_prepare_grown h space s : (app_willing -> dh_name_offset h <= 32767) -> space_ok h -> dh_val_len h < space ->
  wp (prepare_decode (Some h) space) s (fun x s' => asked s s' /\
    match x with
    | Some h' => grown_header space h h'
    | None => app_willing -> LSXPACK_MAX_STRLEN < space
    end).
Proof.
  intros Hoff Hsp Hlt. eapply wp_mono; [apply wp_prepare|]. intros x s' [Ha ->]. split; [done|].
  destruct (dhi_prepare_decode _ (Some h) space _) as [[h'|] app] eqn:E; cbn [fst].
  - by eapply app_grown.
  - intros Hw. destruct (Z.lt_ge_cases LSXPACK_MAX_STRLEN space) as [|Hle]; [done|].
    destruct (app_willing_grown Hw (hbrc_hblock (snd s)) h space (qpd_app (fst s)) Hle (Hoff Hw) Hsp Hlt) as [h' Hh].
    by rewrite E in Hh.
Qed.

(** The header is handed over. *)
Lemma wp_process h s :
  wp (process_header h) s (fun r s' => snd s' = snd s /\ quiet (fst s) (fst s')
    /\ qpd_tab (fst s') = qpd_tab (fst s) /\ (app_willing -> r = 0)
    /\ log s' = if r =? 0 then log s ++ [(hbrc_hblock (snd s), h)] else log s).
Proof.
  destruct s as [dec c]. unfold process_header. hsteps.
  destruct (dhi_process_header _ h _) as [r app] eqn:E. hsteps.
  split; [done|]. split; [apply quiet_app|]. split; [done|]. split.
  - intros Hw. pose proof (app_willing_process Hw (hbrc_hblock c) h (qpd_app dec)) as H. by rewrite E in H.
  - pose proof (app_process (hbrc_hblock c) h (qpd_app dec)) as H. by rewrite E in H.
Qed.

(** ** The result of handing over a header *)

(** Lines that are never refused by an application that takes all it can. *)
Definition line_ok (line : hline) : Prop :=
  fst (hl_field line) <> []
  /\ Z.of_nat (length (fst (hl_field line))) + Z.of_nat (length (snd (hl_field line))) <= 10000.

Definition declined (line : hline) : Prop := app_willing -> line_ok line -> False.

(** [line] was delivered: the result 0; or the application did not want it. *)
Definition delivered (http1x : bool) (line : hline) (r : Z)
  (s s' : lsqpack_dec hset * header_block_read_ctx) : Prop :=
  snd s' = snd s /\ quiet (fst s) (fst s')
  /\ if r =? 0 then exists h, log s' = log s ++ [(hbrc_hblock (snd s), h)] /\ shows http1x line h
     else log s' = log s /\ declined line.

(** The end of both functions. *)
Lemma wp_hand_over http1x line h n s :
  shows http1x line h ->
  wp (r ← process_header h; (if r =? 0 then add_bytes_out n else mret tt);; mret r) s
    (fun r s' => delivered http1x line r s s').
Proof.
  intros Hs. wpstep. eapply wp_mono; [apply wp_process|]. intros r s1 (Hc & Hq & _ & Hw & Hl). cbn beta.
  unfold delivered. destruct s as [dec c], s1 as [dec1 c1]. cbn [fst snd] in *.
  destruct (Z.eqb_spec r 0) as [->|Hr].
  - hsteps. split; [done|]. split; [by eapply quiet_trans; [exact Hq|apply quiet_bytes_out]|]. by exists h.
  - hsteps. destruct (Z.eqb_spec r 0); [done|]. split; [done|]. split; [done|]. split; [done|].
    intros Hw' _. by apply Hr, Hw.
Qed.

(** ** Entries of the static table *)

(** An indexed line that refers to row [idx]. *)
Definition static_line (idx : Z) : hline :=
  {| hl_never := false; hl_field := (ste_name (ste_at idx), ste_val (ste_at idx)) |}.

Lemma overhead_length http1x : overhead http1x = Z.of_nat (length (separator http1x) + length (line_end http1x)).
Proof. by destruct http1x. Qed.

Lemma wp_static_entry idx dec c :
  0 <= idx ->
  wp (header_out_static_entry idx) (dec, c) (fun r s' =>
    idx < 99 /\ delivered (http1x_opt dec) (static_line idx) r (dec, c) s'
    \/ 99 <= idx /\ r = -1 /\ s' = (dec, c)).
Proof.
  intros Hidx. unfold header_out_static_entry. rewrite Z.geb_leb. destruct (Z.leb_spec 99 idx).
  { wpstep. by right. }
  destruct (ste_facts idx ltac:(lia)) as (Hnl & Hvl & Hnh & Hnvh & Hn & Hv & Hbn & Hbv).
  hsteps. eapply wp_mono; [apply wp_prepare_fresh|]. intros x [dec1 c1] [(Hc1 & Hq1 & Hl1 & _) Hx].
  cbn [fst snd] in *. subst c1. destruct x as [h|].
  - destruct Hx as [[Hsp He Hf] _]. set (http1x := http1x_opt dec) in *. rewrite overhead_length in He.
    match goal with |- wp (demand (put_name _ _ ?h1) ≫= _) _ _ =>
      destruct (put_line_spec http1x (static_line idx) h1) as (h2 & h3 & E1 & E2 & Hsh) end.
    + destruct Hsp as [? [? ?] ? ? ?]. constructor; cbn; try done; unfold LSXPACK_MAX_STRLEN; rewrite u16_id by ulia; lia.
    + done.
    + done.
    + cbn. rewrite u16_id by ulia. done.
    + cbn. rewrite u16_id by ulia. done.
    + unfold line_text. cbn. rewrite !length_app. destruct Hsp. lia.
    + constructor; cbn; rewrite ?Hf; try done.
      * by destruct http1x.
      * intros _. rewrite u8_id by ulia. done.
      * intros _. split; [done|]. rewrite u8_id by ulia. done.
    + hdemand E1. hdemand E2.
      eapply wp_mono; [by apply (wp_hand_over http1x (static_line idx))|]. intros r s' (Hc & Hq & Hr). left.
      split; [lia|]. split; [done|]. split; [by eapply quiet_trans|]. cbn [fst snd] in *. rewrite <- Hl1. done.
  - hstep. left. split; [lia|]. split; [done|]. split; [done|]. cbn. split; [done|].
    intros Hw _. specialize (Hx Hw). unfold LSXPACK_MAX_STRLEN, overhead in Hx. destruct (http1x_opt dec); lia.
Qed.

(** ** Entries of the dynamic table *)

(** The field an id, modulo twice the number of entries, stands for. *)
Definition dyn_look (M id : Z) : option hfield :=
  dt_get t (dt_inserted t - ID_MINUS M ((dt_inserted t - 1) mod (2 * M)) id).

Lemma reading_core dec : reading max rel dec t ->
  exists l held own, tab_rep (dt_inserted t) (qpd_tab dec) l held own /\ dyn_of (dt_inserted t) (qpd_tab dec) l = t
    /\ held = held_of (qpd_enc_state dec) /\ own = own_of (qpd_enc_state dec).
Proof. intros (l & name & Hc & _). eexists l, _, _. by destruct Hc. Qed.

Lemma id_minus_range M a b : 0 <= M < 2 ^ 27 -> 0 <= ID_MINUS M a b < 2 ^ 32 - 1.
Proof.
  intros HM. unfold ID_MINUS. change (2 ^ 27) with 134217728 in *. change (2 ^ 32) with 4294967296.
  destruct (Z.eqb_spec M 0); [lia|]. rewrite (u32_id (2 * M)) by ulia.
  pose proof (Z.mod_pos_bound (u32 (a + 2 * M - b)) (2 * M)). lia.
Qed.

Lemma core_entries n tab l held own : tab_core n tab l held own -> 0 <= qpd_max_entries tab < 2 ^ 27.
Proof.
  intros Hc. rewrite (tc_entries _ _ _ _ _ Hc). pose proof (tc_max _ _ _ _ _ Hc). pose proof (tc_cap _ _ _ _ _ Hc).
  change (2 ^ 31) with 2147483648 in *. change (2 ^ 27) with 134217728. dlia.
Qed.

Lemma look_entry dec id l held own :
  tab_rep (dt_inserted t) (qpd_tab dec) l held own -> dyn_of (dt_inserted t) (qpd_tab dec) l = t ->
  match qdec_get_table_entry_abs (qpd_tab dec) id with
  | Some p => p ∈ l /\ exists e, dt_heap (qpd_tab dec) !! p = Some e /\ entry_good e
      /\ dyn_look (qpd_max_entries (qpd_tab dec)) id = Some (dte_nameval e)
  | None => dyn_look (qpd_max_entries (qpd_tab dec)) id = None
  end.
Proof.
  intros Hrep Hd. pose proof (tr_core _ _ _ _ _ Hrep) as Hc. pose proof (core_entries _ _ _ _ _ Hc) as HM.
  unfold qdec_get_table_entry_abs, dyn_look.
  assert (ID_MINUS (qpd_max_entries (qpd_tab dec)) (qpd_last_id (qpd_tab dec)) id
    = ID_MINUS (qpd_max_entries (qpd_tab dec))
        ((dt_inserted t - 1) mod (2 * qpd_max_entries (qpd_tab dec))) id) as ->.
  { destruct (Z.eq_dec (qpd_max_entries (qpd_tab dec)) 0) as [E|E]; [unfold ID_MINUS; by rewrite E|].
    by rewrite (tc_last _ _ _ _ _ Hc) by lia. }
  set (r := ID_MINUS _ _ id).
  pose proof (get_entry_rel _ _ _ _ _ r Hrep (id_minus_range _ _ _ HM)) as H. rewrite Hd in H.
  destruct (qdec_get_table_entry_rel _ r) as [p|]; [|done]. destruct H as [Hp Hg]. split; [done|].
  destruct (core_entry _ _ _ _ _ p Hc Hp) as (e & He & Hat & Hgood & _). exists e. rewrite Hg. by subst e.
Qed.

Lemma reading_look dec id : reading max rel dec t ->
  match qdec_get_table_entry_abs (qpd_tab dec) id with
  | Some p => exists e, dt_heap (qpd_tab dec) !! p = Some e /\ entry_good e
      /\ dyn_look (qpd_max_entries (qpd_tab dec)) id = Some (dte_nameval e)
  | None => dyn_look (qpd_max_entries (qpd_tab dec)) id = None
  end.
Proof.
  intros (l & held & own & Hrep & Hd & _)%reading_core. pose proof (look_entry dec id _ _ _ Hrep Hd) as H.
  by destruct (qdec_get_table_entry_abs _ _); [destruct H|].
Qed.

(** Caching the hashes of an entry of the table. *)
Lemma wp_update_hashes id p dec c e :
  reading max rel dec t -> qdec_get_table_entry_abs (qpd_tab dec) id = Some p ->
  dt_heap (qpd_tab dec) !! p = Some e ->
  wp (lift (on_table (qdec_maybe_update_entry_hashes (qpd_opts dec) p))) (dec, c) (fun _ s' =>
    exists tab e', s' = (set_tab tab dec, c) /\ quiet dec (set_tab tab dec)
    /\ dt_heap tab !! p = Some e' /\ entry_good e' /\ dte_nameval e' = dte_nameval e
    /\ (has_bits (qpd_opts dec) (Z.lor LSQPACK_DEC_OPT_HASH_NAME LSQPACK_DEC_OPT_HASH_NAMEVAL) = true ->
        has_bits (dte_flags e') DTEF_NAME_HASH = true)).
Proof.
  intros Hr Hid He. pose proof Hr as (l & name & Hcore & Hok).
  pose proof (look_entry dec id _ _ _ (dc_tab _ _ _ _ _ _ _ _ Hcore) (dc_dyn _ _ _ _ _ _ _ _ Hcore)) as Hl.
  rewrite Hid in Hl. destruct Hl as (Hp & _).
  destruct (update_hashes_rep (qpd_opts dec) _ _ _ _ _ p (dc_tab _ _ _ _ _ _ _ _ Hcore) (refs_table _ _ _ Hp))
    as (tab & Htab & Hrep & Hv & Hown).
  unfold wp, lift, on_table, part. cbn [fst snd]. rewrite Htab. cbn [mbind option_bind].
  assert (own_entry (own_of (qpd_enc_state dec)) (set_tab tab dec) = own_entry (own_of (qpd_enc_state dec)) dec) as Hoe.
  { destruct (own_of _) as [q|] eqn:E; [|done]. cbn. unfold entry_at. by rewrite (Hown q). }
  unfold qdec_maybe_update_entry_hashes in Htab. rewrite He in Htab. cbn [mbind option_bind] in Htab.
  destruct (core_entry _ _ _ _ _ p (tr_core _ _ _ _ _ (dc_tab _ _ _ _ _ _ _ _ Hcore)) Hp) as (e0 & He0 & _ & Hg & _).
  rewrite He in He0. injection He0 as <-.
  destruct (hash_name_good (qpd_opts dec) e Hg) as (Hg1 & Hnv1 & _ & Hf).
  destruct (hash_nameval_good (qpd_opts dec) _ Hg1) as (e' & Ee' & Hg2 & Hnv2 & _).
  { intros Ho. apply Hf. by rewrite has_bits_lor, Ho, orb_true_r. }
  rewrite Ee' in Htab. cbn [mbind option_bind] in Htab. injection Htab as <-.
  eexists _, e'. split; [reflexivity|]. split; [|split; [cbn; by rewrite lookup_insert_eq|]].
  - constructor; try done; cbn [set_tab qpd_tab qpd_enc_state].
    + intros _. exists l, name. split.
      * by apply (core_view max rel t l (held_of (qpd_enc_state dec)) (own_of (qpd_enc_state dec))).
      * cbn [set_tab qpd_enc_state]. by rewrite Hoe.
    + unfold reader. cbn [set_tab qpd_enc_state]. by rewrite Hoe.
  - split; [done|]. split; [congruence|]. intros Ho. specialize (Hf Ho). revert Ee' Hf. unfold hash_nameval_of.
    destruct (_ && _); [|by intros [= <-]]. destruct (has_bits (dte_flags _) _) eqn:E; [|done].
    intros [= <-] _. cbn. by rewrite has_bits_set.
Qed.

Definition dyn_line (f : hfield) : hline := {| hl_never := false; hl_field := f |}.

Lemma entry_info http1x e h :
  entry_good e -> dh_flags h = 0 ->
  line_info http1x (dyn_line (dte_nameval e))
    (dh_set_overhead (overhead http1x) (entry_value_info e (entry_name_info e h))).
Proof.
  intros [_ _ _ _ (Hn & Hv & Hi)] Hf. unfold entry_value_info, entry_name_info.
  destruct (has_bits (dte_flags e) DTEF_NAME_HASH), (has_bits (dte_flags e) DTEF_NAMEVAL_HASH),
    (has_bits (dte_flags e) DTEF_NAME_IDX); (constructor; cbn; rewrite ?Hf; try done; try (by destruct http1x);
      intros _; try destruct (Hi eq_refl) as [Hi1 Hi2]; rewrite ?u8_id by ulia; try destruct (Hv eq_refl) as [H1 H2];
      rewrite ?H2, ?Hn by done; done).
Qed.

Lemma value_length e : entry_good e -> Z.of_nat (length (DTE_VALUE e)) = dte_val_len e.
Proof. intros [Hn Hv Hb _ _]. unfold DTE_VALUE. rewrite length_take, length_drop. lia. Qed.

Lemma entry_bytes e : entry_good e -> is_bytes (DTE_NAME e) /\ is_bytes (DTE_VALUE e).
Proof. intros []. split; [by apply is_bytes_take|by apply is_bytes_take, is_bytes_drop]. Qed.

(** The field of an entry is written to a header. *)
Lemma entry_text http1x e h :
  entry_good e -> space_ok h -> dh_flags h = 0 ->
  dte_name_len e + dte_val_len e + overhead http1x <= dh_val_len h ->
  let h1 := dh_set_lens (dte_name_len e) (dte_val_len e)
              (dh_set_overhead (overhead http1x) (entry_value_info e (entry_name_info e h))) in
  exists h2 h3, put_name http1x (DTE_NAME e) h1 = Some h2
    /\ put_value http1x (dh_val_offset h2) (DTE_VALUE e) h2 = Some h3
    /\ shows http1x (dyn_line (dte_nameval e)) h3.
Proof.
  intros Hg Hsp Hf Hspace h1. pose proof (name_length e Hg) as Hnl. pose proof (value_length e Hg) as Hvl.
  rewrite overhead_length in Hspace. pose proof Hsp as [_ Hlen Hb _ _]. unfold LSXPACK_MAX_STRLEN in Hlen.
  assert (dh_buf h1 = dh_buf h /\ dh_name_offset h1 = dh_name_offset h) as [Eb Eo].
  { unfold h1, entry_value_info, entry_name_info.
    by destruct (has_bits _ DTEF_NAME_HASH), (has_bits _ DTEF_NAMEVAL_HASH), (has_bits _ DTEF_NAME_IDX). }
  apply (put_line_spec http1x (dyn_line (dte_nameval e)) h1).
  - destruct Hsp. constructor; rewrite ?Eb, ?Eo; cbn; unfold LSXPACK_MAX_STRLEN; rewrite ?u16_id by ulia; (done || lia).
  - apply (entry_bytes e Hg).
  - apply (entry_bytes e Hg).
  - cbn. rewrite u16_id by ulia. lia.
  - cbn. rewrite u16_id by ulia. lia.
  - rewrite Eb, Eo. unfold line_text. cbn. rewrite !length_app. lia.
  - destruct (entry_info http1x e h Hg Hf). by constructor.
Qed.

Lemma wp_the_entry_lift p e dec c (Q : dec_table_entry -> lsqpack_dec hset * header_block_read_ctx -> Prop) :
  dt_heap (qpd_tab dec) !! p = Some e -> Q e (dec, c) -> wp (lift (the_entry p)) (dec, c) Q.
Proof. unfold wp, lift, the_entry. cbn. by intros ->. Qed.

Lemma wp_dynamic_entry id dec c :
  reading max rel dec t ->
  wp (header_out_dynamic_entry id) (dec, c) (fun r s' =>
    match dyn_look (qpd_max_entries (qpd_tab dec)) id with
    | Some f => delivered (http1x_opt dec) (dyn_line f) r (dec, c) s'
    | None => r = -1 /\ s' = (dec, c)
    end).
Proof.
  intros Hr. unfold header_out_dynamic_entry. hsteps. pose proof (reading_look dec id Hr) as Hl.
  destruct (qdec_get_table_entry_abs _ id) as [p|] eqn:Hid; [|rewrite Hl; by hsteps].
  destruct Hl as (e & He & Hg & ->). hstep. eapply wp_the_entry_lift; [exact He|]. hsteps.
  eapply wp_mono; [apply wp_prepare_fresh|]. intros x [dec1 c1] [(Hc1 & Hq1 & Hl1 & Ht1) Hx].
  cbn [fst snd] in *. subst c1. pose proof (name_length e Hg) as Hnl. pose proof (value_length e Hg) as Hvl.
  set (http1x := http1x_opt dec) in *. destruct x as [h|].
  - destruct Hx as [[Hsp Hspace Hf] _]. hstep. rewrite <- (qu_opts _ _ Hq1).
    eapply wp_mono; [apply (wp_update_hashes id p dec1 c e); [by apply (qu_reading _ _ Hq1)|by rewrite Ht1|by rewrite Ht1]|].
    intros [] s2 (tab & e' & -> & Hq2 & He' & Hg' & Hnv & _).
    hstep. eapply wp_the_entry_lift; [exact He'|]. cbn beta zeta.
    pose proof (name_length e' Hg') as Hnl'. pose proof (value_length e' Hg') as Hvl'.
    injection Hnv as Hn Hv. rewrite Hn in Hnl'. rewrite Hv in Hvl'.
    pose proof (eg_name _ Hg). pose proof (eg_val _ Hg). change (2 ^ 25) with 33554432 in *. rewrite u32_id in Hspace by ulia.
    destruct (entry_text http1x e' h Hg' Hsp Hf) as (h2 & h3 & E1 & E2 & Hsh); [lia|].
  + hdemand E1. hdemand E2. unfold dyn_line, dte_nameval in Hsh. rewrite Hn, Hv in Hsh.
    eapply wp_mono; [by apply (wp_hand_over http1x (dyn_line (dte_nameval e)))|]. intros r s' (Hc & Hq & Hres).
    split; [done|]. split; [eapply quiet_trans; [exact Hq1|]; by eapply quiet_trans|]. cbn [fst snd] in *.
    rewrite <- Hl1. done.
  - hstep. split; [done|]. split; [done|]. split; [done|]. intros Hw [_ Hle]. specialize (Hx Hw). cbn [dyn_line hl_field dte_nameval fst snd] in Hle.
    unfold LSXPACK_MAX_STRLEN, overhead in Hx. rewrite u32_id in Hx by ulia. destruct http1x; lia.
Qed.
End out.
