(* ===== verification/DecCompose.v ===== *)
(** * Headers in progress

    A header whose value is a literal is written into the application's memory while
    its strings are decoded.  [composing] says what is there: the name, or the name
    and a part of the value, and the members that are already known.  The functions
    [header_out_write_name], [header_out_write_value], [header_out_grow_buf],
    [guarantee_out_bytes] and [get_dst] keep it; the last byte of the value delivers
    the header. *)

From stdpp Require Import gmap.
From S2P Require Import Prelude Monad IntCodec HuffTables Huffman HuffStream StrCodec Xxhash.
From S2P Require Import StaticTable Ringbuf Rfc9204 EncTable EncEncode DecTable DecState DecStream.
From S2P Require Import DecSpec DecBlocked DecStrings DecReading DecCore DecHeader DecHset DecOut.

(** ** What is known of a header *)

(** [name] is there once the name is complete. *)
Record head_info (opts : Z) (http1x never : bool) (name : option bytes) (h : dec_header) : Prop := {
  hi_never : has_bits (dh_flags h) LSXPACK_NEVER_INDEX = never;
  hi_overhead : dh_dec_overhead h = overhead http1x;
  hi_nameval : has_bits (dh_flags h) LSXPACK_NAMEVAL_HASH = false;
  hi_matched : has_bits (dh_flags h) LSXPACK_VAL_MATCHED = false;
  hi_name_hash : has_bits (dh_flags h) LSXPACK_NAME_HASH = true ->
    exists n, name = Some n /\ dh_name_hash h = XXH32 n LSQPACK_XXH_SEED;
  hi_index : has_bits (dh_flags h) LSXPACK_QPACK_IDX = true ->
    exists n, name = Some n /\ 0 <= dh_qpack_index h < 99 /\ ste_name (ste_at (dh_qpack_index h)) = n;
  hi_opts : forall n, name = Some n -> has_bits opts LSQPACK_DEC_OPT_HASH_NAME = true ->
    has_bits (dh_flags h) LSXPACK_NAME_HASH = true;
}.

(** The text of the header up to now, [part] being what there is of the string that
    is decoded. *)
Definition composed (http1x : bool) (name : option bytes) (part : bytes) : bytes :=
  match name with Some n => (n ++ separator http1x) ++ part | None => part end.

Section compose.
Context {hset : Type} `{!HsetIf hset} `{!HsetOk hset}.
Variables (max : Z) (rel : bool) (t : dyn_table).

Implicit Types (dec : lsqpack_dec hset) (c : header_block_read_ctx) (h : dec_header).

Local Abbreviation quiet := (quiet max rel t).

Record composing (opts : Z) (never : bool) (name : option bytes) (part : bytes) c h : Prop := {
  cp_hdr : out_xhdr (hbrc_out c) = Some h;
  cp_state : out_state (hbrc_out c) = match name with Some _ => XOUT_VALUE | None => XOUT_NAME end;
  cp_space : space_ok h;
  cp_text : holds_text h (composed (has_bits opts LSQPACK_DEC_OPT_HTTP1X) name part);
  cp_fits : Z.of_nat (length (composed (has_bits opts LSQPACK_DEC_OPT_HTTP1X) name part)) <= dh_val_len h;
  cp_name : forall n, name = Some n -> dh_name_len h = Z.of_nat (length n)
    /\ dh_val_offset h
       = dh_name_offset h + Z.of_nat (length (n ++ separator (has_bits opts LSQPACK_DEC_OPT_HTTP1X)));
  cp_info : head_info opts (has_bits opts LSQPACK_DEC_OPT_HTTP1X) never name h;
  cp_offset : app_willing -> dh_name_offset h <= 32767;
}.

(** The next byte goes behind [part]. *)
Definition at_end (part : bytes) c : Prop := out_off (hbrc_out c) = Z.of_nat (length part).

(** Only the application, counters and the header have changed. *)
Definition only_out (s s' : lsqpack_dec hset * header_block_read_ctx) : Prop :=
  quiet (fst s) (fst s') /\ exists o n, snd s' = set_hbrc_out o n (snd s).

Lemma set_out_self c : set_hbrc_out (hbrc_out c) (hbrc_header_count c) c = c.
Proof. by destruct c. Qed.

Lemma only_out_refl s : only_out s s.
Proof. split; [apply quiet_refl|]. eexists _, _. symmetry. apply set_out_self. Qed.

Lemma only_out_trans s1 s2 s3 : only_out s1 s2 -> only_out s2 s3 -> only_out s1 s3.
Proof.
  intros [Hq1 (o1 & n1 & E1)] [Hq2 (o2 & n2 & E2)]. split; [by eapply quiet_trans|].
  exists o2, n2. by rewrite E2, E1.
Qed.

Lemma asked_only_out s s' : asked max rel t s s' -> only_out s s'.
Proof.
  intros (Hc & Hq & _). split; [done|]. rewrite Hc. eexists _, _. symmetry. apply set_out_self.
Qed.

Lemma only_out_log o n dec c : log (dec, set_hbrc_out o n c) = log (dec, c).
Proof. done. Qed.

(** ** Changing the header *)

(** The same header, at another place in the context. *)
Lemma composing_out opts never name part c h o n :
  composing opts never name part c h -> out_xhdr o = Some h -> out_state o = out_state (hbrc_out c) ->
  composing opts never name part (set_hbrc_out o n c) h.
Proof. intros [] Ho Hs. constructor; try done. cbn. by rewrite Hs. Qed.

(** The buffer reallocated. *)
Lemma composing_grown opts never name part c h h' space o n :
  composing opts never name part c h -> grown_header space h h' ->
  out_xhdr o = Some h' -> out_state o = out_state (hbrc_out c) ->
  composing opts never name part (set_hbrc_out o n c) h'.
Proof.
  intros [Hh Hs Hsp Ht Hf Hn Hi Ho] [Hsp' _ Hkept Hmore (buf & vl & E)] Hx Hst.
  constructor; try done.
  - cbn. by rewrite Hst.
  - unfold holds_text in *. rewrite (stored_prefix _ _ (dh_val_len h)), Hkept by lia.
    by rewrite <- (stored_prefix _ _ (dh_val_len h)) by lia; subst h'.
  - lia.
  - by subst h'.
  - subst h'. destruct Hi. by constructor.
  - by subst h'.
Qed.

(** More of the string in the buffer. *)
Lemma composing_appended opts never name part src buf c h o n :
  composing opts never name part c h ->
  let text := composed (has_bits opts LSQPACK_DEC_OPT_HTTP1X) name part in
  Z.of_nat (length text) + Z.of_nat (length src) <= dh_val_len h ->
  length buf = length (dh_buf h) -> is_bytes buf -> holds_text (dh_set_buf buf h) (text ++ src) ->
  out_xhdr o = Some (dh_set_buf buf h) -> out_state o = out_state (hbrc_out c) ->
  composing opts never name (part ++ src) (set_hbrc_out o n c) (dh_set_buf buf h).
Proof.
  intros [Hh Hs Hsp Ht Hf Hn Hi Ho] text Hl Hlb Hbb Hbt Hx Hst.
  assert (composed (has_bits opts LSQPACK_DEC_OPT_HTTP1X) name (part ++ src) = text ++ src) as E.
  { unfold text, composed. destruct name; [by rewrite app_assoc|done]. }
  constructor; rewrite ?E; try done.
  - cbn. by rewrite Hst.
  - destruct Hsp. constructor; cbn; try done; by rewrite Hlb.
  - rewrite length_app. cbn. lia.
  - destruct Hi. by constructor.
Qed.

(** ** The place for the next byte *)

Lemma out_offset_end opts never name part c h :
  composing opts never name part c h -> at_end part c ->
  out_offset c h = Z.of_nat (length (composed (has_bits opts LSQPACK_DEC_OPT_HTTP1X) name part)).
Proof.
  intros [Hh Hs Hsp Ht Hf Hn Hi Ho] He. unfold out_offset. rewrite Hs, He. destruct name as [n|]; [|done].
  destruct (Hn n eq_refl) as [_ ->]. pose proof (sp_len _ Hsp) as Hl. unfold LSXPACK_MAX_STRLEN in Hl.
  cbn [composed] in *. rewrite !length_app, He in *. rewrite u32_id by ulia. lia.
Qed.

Lemma wp_cur_xhdr opts never name part c h dec (Q : dec_header -> _ -> Prop) :
  composing opts never name part c h -> Q h (dec, c) -> wp cur_xhdr (dec, c) Q.
Proof. intros Hc HQ. unfold cur_xhdr. hsteps. eapply wp_demand; [apply (cp_hdr _ _ _ _ _ _ Hc)|done]. Qed.

Lemma wp_get_dst opts never name part c h dec (Q : Z * Z -> _ -> Prop) :
  composing opts never name part c h -> at_end part c ->
  (let n := Z.of_nat (length (composed (has_bits opts LSQPACK_DEC_OPT_HTTP1X) name part)) in
   Q (dh_name_offset h + n, dh_val_len h - n) (dec, c)) ->
  wp get_dst (dec, c) Q.
Proof.
  intros Hc He HQ. unfold get_dst. hstep. eapply wp_cur_xhdr; [exact Hc|]. hsteps.
  rewrite (out_offset_end _ _ _ _ _ _ Hc He). apply wp_assert.
  { rewrite Z.geb_leb. apply Z.leb_le, (cp_fits _ _ _ _ _ _ Hc). }
  by hsteps.
Qed.

(** Bytes are put there. *)
Lemma wp_put_part {A} opts never name part src c h dec (k : _ A) (Q : A -> _ -> Prop) :
  composing opts never name part c h ->
  let n := Z.of_nat (length (composed (has_bits opts LSQPACK_DEC_OPT_HTTP1X) name part)) in
  n + Z.of_nat (length src) <= dh_val_len h -> is_bytes src ->
  (forall c' h', (exists o m, c' = set_hbrc_out o m c) -> composing opts never name (part ++ src) c' h' ->
     out_off (hbrc_out c') = out_off (hbrc_out c) -> dh_val_len h' = dh_val_len h -> wp k (dec, c') Q) ->
  wp (h ← demand (dh_write (dh_name_offset h + n) src h); set_out_xhdr (Some h);; k) (dec, c) Q.
Proof.
  intros Hc n Hl Hs HQ. destruct (cp_space _ _ _ _ _ _ Hc) as [Ho Hvl Hb Hsm Hby] eqn:E.
  destruct (dh_append h _ src (cp_space _ _ _ _ _ _ Hc) Hs (cp_text _ _ _ _ _ _ Hc)) as (buf & Hw & Hlb & Hbb & Ht); [lia|].
  hdemand Hw. unfold set_out_xhdr. hsteps. eapply HQ; [by eexists _, _| |done|].
  - by eapply composing_appended.
  - done.
Qed.

Lemma wp_wrote n part opts never name c h dec (Q : unit -> _ -> Prop) :
  composing opts never name part c h -> out_off (hbrc_out c) + n = Z.of_nat (length part) -> 0 <= n ->
  (forall c', (exists o m, c' = set_hbrc_out o m c) -> composing opts never name part c' h -> at_end part c' ->
     Q tt (dec, c')) ->
  wp (wrote n) (dec, c) Q.
Proof.
  intros Hc Hoff Hn HQ. pose proof (cp_fits _ _ _ _ _ _ Hc) as Hf. pose proof (sp_len _ (cp_space _ _ _ _ _ _ Hc)) as Hl.
  unfold LSXPACK_MAX_STRLEN in Hl. assert (Z.of_nat (length part) <= 65535).
  { unfold composed in Hf. destruct name; rewrite ?length_app in Hf; lia. }
  hsteps. apply HQ; [by eexists _, _| |].
  - apply composing_out; try done. cbn. apply (cp_hdr _ _ _ _ _ _ Hc).
  - unfold at_end. cbn. rewrite Hoff. apply u32_id. ulia.
Qed.

(** ** Room *)

(** The header after a request for [space] bytes, or a refusal. *)
Definition roomier (opts : Z) (never : bool) (name : option bytes) (part : bytes) (space : Z) (h : dec_header)
  (s : lsqpack_dec hset * header_block_read_ctx) (x : option dec_header)
  (s' : lsqpack_dec hset * header_block_read_ctx) : Prop :=
  only_out s s' /\ log s' = log s /\
  match x with
  | Some h' => composing opts never name part (snd s') h' /\ dh_val_len h <= dh_val_len h'
      /\ out_off (hbrc_out (snd s')) = out_off (hbrc_out (snd s)) /\ space <= dh_val_len h'
      /\ dh_name_offset h' = dh_name_offset h
  | None => app_willing -> LSXPACK_MAX_STRLEN < space
  end.

Lemma wp_request {A} opts never name part c h dec space (k : option dec_header -> _ A) (Q : A -> _ -> Prop) :
  composing opts never name part c h -> dh_val_len h < space ->
  (forall x s', roomier opts never name part space h (dec, c) x s' -> wp (k x) s' Q) ->
  wp (xhdr ← prepare_decode (Some h) space; set_out_xhdr xhdr;; k xhdr) (dec, c) Q.
Proof.
  intros Hc Hlt HQ. hstep.
  eapply wp_mono; [apply (wp_prepare_grown max rel t h space); [apply (cp_offset _ _ _ _ _ _ Hc)|apply (cp_space _ _ _ _ _ _ Hc)|done]|].
  intros x [dec1 c1] (Ha & Hx). pose proof (asked_only_out _ _ Ha) as Ho. destruct Ha as (Hc1 & Hq & Hl & _).
  cbn [fst snd] in *. subst c1. unfold set_out_xhdr. hsteps. apply HQ. unfold roomier. cbn [fst snd].
  split; [destruct Ho as [? _]; split; [done|]; by eexists _, _|]. split; [done|].
  destruct x as [h'|]; [|done]. split; [by eapply composing_grown|]. destruct Hx as [_ ? _ ? (? & ? & ->)]. by split.
Qed.

Lemma wp_more_space enough opts never name part c h dec space :
  composing opts never name part c h -> (enough = false -> dh_val_len h < space) ->
  wp (more_space enough h space) (dec, c)
    (fun x s' => if enough then x = Some h /\ s' = (dec, c)
                 else roomier opts never name part space h (dec, c) x s').
Proof.
  intros Hc Hlt. unfold more_space. destruct enough; [by hsteps|].
  apply (wp_request opts never name part); [done|auto|]. intros x s' H. by hsteps.
Qed.

(** [header_out_grow_buf]. *)
Lemma wp_grow_buf opts never name part c h dec :
  composing opts never name part c h -> at_end part c ->
  let used := Z.of_nat (length (composed (has_bits opts LSQPACK_DEC_OPT_HTTP1X) name part)) in
  let need := dh_val_len h + Z.max (dh_val_len h - used) 2 / 2 in
  wp header_out_grow_buf (dec, c) (fun ok s' => only_out (dec, c) s' /\ log s' = log (dec, c) /\
    if ok : bool then exists h', composing opts never name part (snd s') h' /\ at_end part (snd s')
      /\ need <= dh_val_len h'
    else app_willing -> LSXPACK_MAX_STRLEN < need).
Proof.
  intros Hc He used need. unfold header_out_grow_buf. hstep. eapply wp_cur_xhdr; [exact Hc|]. hsteps.
  pose proof (cp_fits _ _ _ _ _ _ Hc) as Hfit. fold used in Hfit.
  rewrite (out_offset_end _ _ _ _ _ _ Hc He). fold used. apply wp_assert; [rewrite Z.geb_leb; apply Z.leb_le; lia|]. cbn beta zeta.
  rewrite (Z.max_comm 2). fold need. rewrite Z.gtb_ltb.
  assert (dh_val_len h < need) as Hmore.
  { unfold need. assert (1 <= Z.max (dh_val_len h - used) 2 / 2) by (apply Z.div_le_lower_bound; lia). lia. }
  destruct (Z.ltb_spec LSXPACK_MAX_STRLEN need).
  { hstep. split; [apply only_out_refl|]. split; [done|]. by intros _. }
  apply (wp_request opts never name part); [done|done|]. intros x s' (Ho & Hl & Hx). destruct x as [h'|].
  - destruct Hx as (Hc' & Hm & Hoff & Hsp & _). destruct (Z.ltb_spec (dh_val_len h') need); [lia|].
    hstep. split; [done|]. split; [done|]. exists h'. split; [done|]. split; [|lia]. unfold at_end in *. cbn in Hoff. by rewrite Hoff.
  - hstep. split; [done|]. split; [done|]. intros Hw. by specialize (Hx Hw).
Qed.

(** [guarantee_out_bytes]. *)
Lemma wp_guarantee extra opts never n part c h dec :
  composing opts never (Some n) part c h -> at_end part c ->
  let used := Z.of_nat (length (composed (has_bits opts LSQPACK_DEC_OPT_HTTP1X) (Some n) part)) in
  wp (guarantee_out_bytes extra) (dec, c) (fun ok s' => only_out (dec, c) s' /\ log s' = log (dec, c) /\
    if ok : bool then exists h', composing opts never (Some n) part (snd s') h' /\ at_end part (snd s')
      /\ used + extra <= dh_val_len h'
    else app_willing -> LSXPACK_MAX_STRLEN < used + extra).
Proof.
  intros Hc He used. unfold guarantee_out_bytes. hstep. eapply wp_cur_xhdr; [exact Hc|]. hsteps.
  apply wp_assert; [apply bool_decide_eq_true, (cp_state _ _ _ _ _ _ Hc)|]. hstep.
  apply wp_assert.
  { destruct (cp_name _ _ _ _ _ _ Hc n eq_refl) as [_ ->]. rewrite Z.geb_leb. apply Z.leb_le. lia. }
  rewrite (out_offset_end _ _ _ _ _ _ Hc He). fold used. hstep. apply wp_assert.
  { rewrite Z.geb_leb. apply Z.leb_le. apply (cp_fits _ _ _ _ _ _ Hc). }
  cbn beta zeta. destruct (Z.ltb_spec (dh_val_len h - used) extra).
  - apply (wp_request opts never (Some n) part); [done|lia|]. intros x s' (Ho & Hl & Hx). hstep.
    split; [done|]. split; [done|]. destruct x as [h'|]; cbn.
    + destruct Hx as (Hc' & Hm & Hoff & Hsp & _). exists h'. split; [done|]. split; [|lia]. unfold at_end in *. cbn in Hoff. by rewrite Hoff.
    + intros Hw. specialize (Hx Hw). lia.
  - hstep. split; [apply only_out_refl|]. split; [done|]. exists h. split; [done|]. split; [done|]. lia.
Qed.
End compose.
