(* ===== verification/DecWrite.v ===== *)
(** * The ends of the strings

    [header_out_write_name] and [header_out_write_value] when the string is complete:
    the name is followed by the value, and the value by the hand-over of the header. *)

From stdpp Require Import gmap.
From S2P Require Import Prelude Monad IntCodec HuffTables Huffman HuffStream StrCodec Xxhash.
From S2P Require Import StaticTable Ringbuf Rfc9204 EncTable EncEncode DecTable DecState DecStream.
From S2P Require Import DecSpec DecBlocked DecStrings DecReading DecCore DecHeader DecHset DecOut.
From S2P Require Import DecCompose.

Section write.
Context {hset : Type} `{!HsetIf hset} `{!HsetOk hset}.
Variables (max : Z) (rel : bool) (t : dyn_table).

Implicit Types (dec : lsqpack_dec hset) (c : header_block_read_ctx) (h : dec_header).

Local Abbreviation quiet := (quiet max rel t).
Local Abbreviation only_out := (only_out max rel t).

(** ** The name *)

(** ": " and where the value starts. *)
Definition after_name (http1x : bool) (dst : Z) (h : dec_header) : option dec_header :=
  if http1x then h ← dh_write dst colon_space h; Some (dh_set_val_offset (u32 (dst + 2)) h)
  else Some (dh_set_val_offset (u32 dst) h).

Lemma after_name_spec http1x part h :
  space_ok h -> holds_text h part -> Z.of_nat (length (part ++ separator http1x)) <= dh_val_len h ->
  exists buf, after_name http1x (dh_name_offset h + Z.of_nat (length part)) h
      = Some (dh_set_val_offset (dh_name_offset h + Z.of_nat (length (part ++ separator http1x))) (dh_set_buf buf h))
    /\ length buf = length (dh_buf h) /\ is_bytes buf /\ holds_text (dh_set_buf buf h) (part ++ separator http1x).
Proof.
  intros Hsp Ht. pose proof Hsp as [Ho Hl Hb Hsm Hby]. rewrite length_app. intros Hlen. unfold LSXPACK_MAX_STRLEN in Hl.
  change (2 ^ 31) with 2147483648 in *. unfold after_name. destruct http1x; cbn [separator] in *.
  - destruct (dh_append h part colon_space Hsp) as (buf & Hw & Hlb & Hbb & Ht2); [|done|lia|].
    { unfold colon_space. repeat constructor; unfold is_u8; lia. }
    rewrite Hw. cbn [mbind option_bind]. exists buf. split; [|done]. cbn [colon_space length] in *.
    rewrite u32_id by ulia. do 2 f_equal. lia.
  - exists (dh_buf h). rewrite app_nil_r in *. cbn [length] in *. rewrite Nat.add_0_r. split; [|done].
    rewrite u32_id by ulia. by destruct h.
Qed.

Definition hash_name (opts : Z) (h : dec_header) : option dec_header :=
  if has_bits opts (Z.lor LSQPACK_DEC_OPT_HASH_NAME LSQPACK_DEC_OPT_HASH_NAMEVAL)
  then name ← dh_read (dh_name_offset h) (dh_name_len h) h;
       Some (dh_name_hashed (XXH32 name LSQPACK_XXH_SEED) h)
  else Some h.

Lemma flags_fresh opts http1x never h : head_info opts http1x never None h ->
  has_bits (dh_flags h) LSXPACK_NAME_HASH = false /\ has_bits (dh_flags h) LSXPACK_QPACK_IDX = false.
Proof.
  intros [_ _ _ _ Hn Hi _]. split.
  - destruct (has_bits (dh_flags h) LSXPACK_NAME_HASH); [|done]. by destruct (Hn eq_refl) as (? & ? & _).
  - destruct (has_bits (dh_flags h) LSXPACK_QPACK_IDX); [|done]. by destruct (Hi eq_refl) as (? & ? & _).
Qed.

Lemma name_complete opts never part c h :
  composing opts never None part c h ->
  let http1x := has_bits opts LSQPACK_DEC_OPT_HTTP1X in
  Z.of_nat (length (part ++ separator http1x)) <= dh_val_len h ->
  exists h1 h2, after_name http1x (dh_name_offset h + Z.of_nat (length part)) h = Some h1
    /\ hash_name opts (dh_set_lens (Z.of_nat (length part)) (dh_val_len h1) h1) = Some h2
    /\ forall o n, out_xhdr o = Some h2 -> out_state o = XOUT_VALUE ->
       composing opts never (Some part) [] (set_hbrc_out o n c) h2.
Proof.
  intros [Hh Hs Hsp Ht Hf Hn Hi Ho] http1x Hlen. cbn [composed] in *.
  destruct (after_name_spec http1x part h Hsp Ht Hlen) as (buf & -> & Hlb & Hbb & Ht2).
  pose proof Hsp as [Hno Hl Hb Hsm Hby]. unfold LSXPACK_MAX_STRLEN in Hl. change (2 ^ 31) with 2147483648 in *.
  set (h1 := dh_set_val_offset _ _). exists h1. set (h2 := dh_set_lens (Z.of_nat (length part)) (dh_val_len h1) h1).
  rewrite length_app in Hlen.
  assert (space_ok h2) as Hsp2.
  { constructor; cbn; unfold LSXPACK_MAX_STRLEN; rewrite ?Hlb, ?u16_id by ulia; (done || lia). }
  assert (dh_name_len h2 = Z.of_nat (length part)) as Hnl by (cbn; apply u16_id; ulia).
  assert (dh_val_len h2 = dh_val_len h) as Hvl by (cbn; apply u16_id; ulia).
  assert (dh_read (dh_name_offset h2) (dh_name_len h2) h2 = Some part) as Hrd.
  { rewrite Hnl. apply (holds_prefix h2) in Ht2; [|done]. rewrite dh_read_stored; [by f_equal|done|].
    pose proof (sp_buf _ Hsp2). lia. }
  destruct (flags_fresh _ _ _ _ Hi) as [Hf1 Hf2]. destruct Hi as [Hi1 Hi2 Hi3 Hi4 _ _ _].
  assert (forall h3, hash_name opts h2 = Some h3 -> head_info opts http1x never (Some part) h3
    /\ space_ok h3 /\ dh_buf h3 = buf /\ dh_name_offset h3 = dh_name_offset h2 /\ dh_val_len h3 = dh_val_len h2
    /\ dh_name_len h3 = dh_name_len h2 /\ dh_val_offset h3 = dh_val_offset h2) as Hall.
  { intros h3. unfold hash_name. rewrite Hrd. cbn [mbind option_bind]. destruct (has_bits opts (Z.lor _ _)) eqn:Eo; intros [= <-].
    - split; [|split; [by destruct Hsp2|done]]. constructor; cbn; rewrite ?has_bits_set by done; try done.
      + intros _. by exists part.
      + by rewrite Hf2.
      + intros n _ _. by apply has_bits_lor_self.
    - split; [|done]. constructor; cbn; try done; rewrite ?Hf1, ?Hf2; try done.
      intros n _ Hx. rewrite has_bits_lor, Hx in Eo. done. }
  destruct (hash_name opts h2) as [h3|] eqn:E3; [|unfold hash_name in E3; rewrite Hrd in E3; by destruct (has_bits opts (Z.lor _ _))].
  exists h3. split; [done|]. split; [done|]. destruct (Hall h3 eq_refl) as (Hi' & Hsp3 & Eb & Eoff & Evl & Enl & Evo).
  intros o n Hx Hst. constructor; try done.
  - unfold holds_text in *. cbn [composed]. rewrite app_nil_r. fold http1x. rewrite Eb, Eoff. exact Ht2.
  - cbn [composed]. fold http1x. rewrite app_nil_r, Evl, Hvl, length_app. lia.
  - intros ? [= <-]. rewrite Enl, Evo, Eoff. split; [done|]. cbn. fold http1x. rewrite length_app. apply i32_id. ulia.
  - by rewrite Eoff.
Qed.

Lemma only_out_set o n dec c s : only_out s (dec, c) -> only_out s (dec, set_hbrc_out o n c).
Proof. intros [Hq (o1 & n1 & E)]. split; [done|]. cbn in *. exists o, n. by rewrite E. Qed.

(** In HTTP/1.x mode there is room for [space] bytes afterwards. *)
Lemma wp_room (http1x : bool) opts never name part c h dec space :
  composing opts never name part c h ->
  wp (more_space (negb http1x || negb (space >? dh_val_len h)) h space) (dec, c) (fun x s' =>
    only_out (dec, c) s' /\ log s' = log (dec, c) /\
    match x with
    | Some h' => composing opts never name part (snd s') h' /\ out_off (hbrc_out (snd s')) = out_off (hbrc_out c)
        /\ dh_val_len h <= dh_val_len h' /\ dh_name_offset h' = dh_name_offset h
        /\ (http1x = true -> space <= dh_val_len h')
    | None => app_willing -> LSXPACK_MAX_STRLEN < space
    end).
Proof.
  intros Hc. set (enough := negb http1x || _).
  assert (if enough then http1x = true -> space <= dh_val_len h else dh_val_len h < space) as Hen.
  { unfold enough. rewrite Z.gtb_ltb. destruct http1x, (Z.ltb_spec (dh_val_len h) space); try done; cbn; lia. }
  eapply wp_mono; [eapply wp_more_space; [exact Hc|intros E; by rewrite E in Hen]|]. intros x s' Hx. cbn beta.
  destruct enough.
  - destruct Hx as [-> ->]. split; [apply only_out_refl|]. split; [done|]. split; [done|]. split; [done|]. by split.
  - destruct Hx as (H1 & H2 & H3). split; [done|]. split; [done|]. destruct x; [|done].
    destruct H3 as (H3 & H4 & H5 & H6 & H7). split; [done|]. split; [done|]. split; [done|]. by split.
Qed.

Lemma length_separator http1x : Z.of_nat (length (separator http1x)) = if http1x then 2 else 0.
Proof. by destruct http1x. Qed.

Lemma wp_name_done never part c h dec :
  composing (qpd_opts dec) never None part c h -> at_end part c ->
  wp (name_done h) (dec, c) (fun ok s' => only_out (dec, c) s' /\ log s' = log (dec, c) /\
    if ok : bool then exists h', composing (qpd_opts dec) never (Some part) [] (snd s') h' /\ at_end [] (snd s')
    else app_willing -> LSXPACK_MAX_STRLEN < Z.of_nat (length part) + 2).
Proof.
  intros Hc He. unfold name_done. hsteps. unfold at_end in He. rewrite He.
  pose proof (cp_fits _ _ _ _ _ _ Hc) as Hf. cbn [composed] in Hf.
  pose proof (sp_len _ (cp_space _ _ _ _ _ _ Hc)) as Hl. unfold LSXPACK_MAX_STRLEN in Hl.
  rewrite (u32_id (Z.of_nat (length part) + 2)) by ulia.
  eapply wp_mono; [eapply wp_room; exact Hc|]. intros x [dec1 c1] (Hoo & Hlog & Hm). cbn beta.
  destruct x as [h'|]; [|by hsteps]. destruct Hm as (Hc1 & _ & Hle & _ & Hsp). cbn [fst snd] in *.
  destruct (name_complete _ _ _ _ _ Hc1) as (h1 & h2 & E1 & E2 & Hfin).
  { rewrite length_app, Nat2Z.inj_add, length_separator. fold (http1x_opt dec). destruct (http1x_opt dec); lia. }
  hdemand E1. hdemand E2. hsteps. split; [by apply only_out_set|]. split; [done|]. exists h2. split; [by apply Hfin|done].
Qed.

(** ** The value *)

Definition hash_nameval (opts : Z) (h : dec_header) : option dec_header :=
  if has_bits opts LSQPACK_DEC_OPT_HASH_NAME
  then value ← dh_read (dh_val_offset h) (dh_val_len h) h;
       Some (dh_nameval_hashed (XXH32 value (dh_name_hash h)) h)
  else Some h.

Lemma end_line_spec http1x name part h :
  space_ok h -> holds_text h ((name ++ separator http1x) ++ part) ->
  Z.of_nat (length ((name ++ separator http1x) ++ part)) <= dh_val_len h ->
  dh_val_offset h = dh_name_offset h + Z.of_nat (length (name ++ separator http1x)) ->
  (http1x = true -> dh_val_offset h + Z.of_nat (length part) + 2 <= dh_val_len h) ->
  exists buf, (if http1x then dh_write (dh_val_offset h + Z.of_nat (length part)) cr_lf h else Some h)
      = Some (dh_set_buf buf h)
    /\ length buf = length (dh_buf h) /\ is_bytes buf
    /\ holds_text (dh_set_buf buf h) (line_text http1x (name, part)).
Proof.
  intros Hsp Ht Hf Hvo Hlen. pose proof Hsp as [Hno Hl Hb Hsm Hby].
  unfold line_text. cbn [fst snd]. rewrite Hvo in *. rewrite !app_assoc. destruct http1x; cbn [line_end].
  - destruct (dh_append h ((name ++ separator true) ++ part) cr_lf Hsp) as (buf & Hw & H1 & H2 & H3); [|exact Ht| |].
    + unfold cr_lf. repeat constructor; unfold is_u8; lia.
    + specialize (Hlen eq_refl). rewrite !length_app in *. cbn [cr_lf length] in *. lia.
    + exists buf. rewrite (length_app (name ++ _)), Nat2Z.inj_add, Z.add_assoc in Hw. done.
  - exists (dh_buf h). rewrite app_nil_r. split; [by destruct h|]. done.
Qed.

Lemma value_complete opts never name part c h :
  composing opts never (Some name) part c h ->
  let http1x := has_bits opts LSQPACK_DEC_OPT_HTTP1X in
  (http1x = true -> dh_val_offset h + Z.of_nat (length part) + 2 <= dh_val_len h) ->
  exists h1 h2, (if http1x then dh_write (dh_val_offset h + Z.of_nat (length part)) cr_lf h else Some h) = Some h1
    /\ (let h3 := dh_set_lens (dh_name_len h1) (Z.of_nat (length part)) h1 in
        has_bits opts LSQPACK_DEC_OPT_HASH_NAME = true -> has_bits (dh_flags h3) LSXPACK_NAME_HASH = true)
    /\ hash_nameval opts (dh_set_lens (dh_name_len h1) (Z.of_nat (length part)) h1) = Some h2
    /\ shows http1x {| hl_never := never; hl_field := (name, part) |} h2.
Proof.
  intros [Hh Hs Hsp Ht Hf Hn Hi Ho] http1x Hlen. cbn [composed] in *. fold http1x in Ht, Hf, Hn, Hi.
  destruct (Hn name eq_refl) as [Hnl Hvo]. pose proof Hsp as [Hno Hl Hb Hsm Hby]. unfold LSXPACK_MAX_STRLEN in Hl.
  change (2 ^ 31) with 2147483648 in *.
  destruct (end_line_spec http1x name part h Hsp Ht Hf Hvo Hlen) as (buf & -> & Hlb & Hbb & Ht2).
  exists (dh_set_buf buf h). set (h3 := dh_set_lens _ _ (dh_set_buf buf h)).
  rewrite !length_app in *.
  assert (dh_name_len h3 = Z.of_nat (length name)) as Hnl3 by (cbn; rewrite Hnl; apply u16_id; ulia).
  assert (dh_val_len h3 = Z.of_nat (length part)) as Hvl3 by (cbn; apply u16_id; ulia).
  assert (dh_read (dh_val_offset h3) (dh_val_len h3) h3 = Some part) as Hrd.
  { rewrite Hvl3. rewrite dh_read_stored; cbn [h3 dh_set_lens dh_val_offset dh_set_buf dh_buf]; rewrite ?Hlb; [|lia|lia].
    f_equal. rewrite Hvo, <- length_app. change (dh_name_offset h) with (dh_name_offset (dh_set_buf buf h)).
    apply (holds_mid (dh_set_buf buf h) _ _ (line_end http1x)); [done|]. by rewrite <- app_assoc. }
  destruct Hi as [Hi1 Hi2 Hi3 Hi4 Hi5 Hi6 Hi7].
  assert (exists h4, hash_nameval opts h3 = Some h4 /\ line_info http1x {| hl_never := never; hl_field := (name, part) |} h4
    /\ dh_buf h4 = buf /\ dh_name_offset h4 = dh_name_offset h /\ dh_val_len h4 = dh_val_len h3
    /\ dh_name_len h4 = dh_name_len h3 /\ dh_val_offset h4 = dh_val_offset h) as (h4 & E4 & Hli & Eb & Eo & Ev & En & Evo).
  { unfold hash_nameval. rewrite Hrd. cbn [mbind option_bind].
    assert (has_bits (dh_flags h3) LSXPACK_NAME_HASH = true -> dh_name_hash h3 = XXH32 name LSQPACK_XXH_SEED) as H5.
    { intros (n & [= <-] & E)%Hi5. exact E. }
    assert (has_bits (dh_flags h3) LSXPACK_QPACK_IDX = true ->
      0 <= dh_qpack_index h3 < 99 /\ ste_name (ste_at (dh_qpack_index h3)) = name) as H6.
    { intros (n & [= <-] & E)%Hi6. exact E. }
    destruct (has_bits opts LSQPACK_DEC_OPT_HASH_NAME) eqn:Eopt.
    - eexists. split; [reflexivity|]. split; [|done].
      constructor; cbn [dh_nameval_hashed dh_flags dh_dec_overhead dh_name_hash dh_nameval_hash dh_qpack_index hl_never hl_field fst snd];
        rewrite ?has_bits_set by done; try done.
      + intros _. rewrite H5; [done|]. by apply (Hi7 name).
      + intros Hx. change (dh_flags h3) with (dh_flags h) in Hx. congruence.
    - eexists. split; [reflexivity|]. split; [|done]. constructor; cbn [hl_never hl_field fst snd]; try done.
      + intros Hx. change (dh_flags h3) with (dh_flags h) in Hx. congruence.
      + intros Hx. change (dh_flags h3) with (dh_flags h) in Hx. congruence. }
  exists h4. split; [done|]. split; [intros Hx; by apply (Hi7 name)|]. split; [done|].
  apply shows_intro; cbn [hl_field fst snd]; rewrite ?Eo, ?Eb; try done; [| |congruence..|].
  - unfold holds_text in *. by rewrite Eo, Eb.
  - unfold line_text. cbn [fst snd]. rewrite !length_app, Hlb.
    destruct http1x; cbn [separator line_end colon_space cr_lf length] in *; [specialize (Hlen eq_refl)|]; lia.
  - by rewrite Evo, Hvo, length_app.
Qed.

Lemma wp_value_done never name part c h dec :
  composing (qpd_opts dec) never (Some name) part c h -> at_end part c ->
  let line := {| hl_never := never; hl_field := (name, part) |} in
  wp (value_done h) (dec, c) (fun ok s' => only_out (dec, c) s' /\
    if ok : bool
    then hbrc_out (snd s') = no_out
      /\ exists h', log s' = log (dec, c) ++ [(hbrc_hblock c, h')] /\ shows (http1x_opt dec) line h'
    else log s' = log (dec, c) /\ declined line).
Proof.
  intros Hc He line. unfold value_done. hsteps. unfold at_end in He. rewrite He.
  pose proof (cp_fits _ _ _ _ _ _ Hc) as Hf. cbn [composed] in Hf. destruct (cp_space _ _ _ _ _ _ Hc) as [Hno Hl Hb Hsm _].
  destruct (cp_name _ _ _ _ _ _ Hc name eq_refl) as [_ Hvo]. fold (http1x_opt dec) in *.
  unfold LSXPACK_MAX_STRLEN in Hl. change (2 ^ 31) with 2147483648 in *. rewrite !length_app, !Nat2Z.inj_add, length_separator in *.
  rewrite (u32_id (dh_val_offset h + Z.of_nat (length part) + 2)) by (destruct (http1x_opt dec); ulia).
  eapply wp_mono; [eapply wp_room; exact Hc|]. intros x [dec1 c1] (Hoo & Hlog & Hm). cbn beta.
  destruct x as [h'|].
  2: { hstep. split; [done|]. split; [done|]. intros Hw [_ Hle]. specialize (Hm Hw). unfold LSXPACK_MAX_STRLEN in Hm.
       pose proof (cp_offset _ _ _ _ _ _ Hc Hw). cbn [line hl_field fst snd] in Hle. destruct (http1x_opt dec); lia. }
  destruct Hm as (Hc1 & _ & Hle & Hno1 & Hsp). cbn [fst snd] in *.
  destruct (cp_name _ _ _ _ _ _ Hc1 name eq_refl) as [_ Hvo1]. rewrite Hno1, length_app, Nat2Z.inj_add, length_separator in Hvo1. fold (http1x_opt dec) in Hvo1. rewrite <- Hvo in Hvo1.
  destruct (value_complete _ _ _ _ _ _ Hc1) as (h1 & h2 & E1 & Ha & E2 & Hsh); cbn [fst snd] in *.
  { fold (http1x_opt dec). intros Hx. specialize (Hsp Hx). lia. }
  hdemand E1. hstep. cbn beta zeta.
  apply (wp_mono _ _ (fun _ s' => s' = (dec1, c1))).
  { destruct (has_bits (qpd_opts dec) LSQPACK_DEC_OPT_HASH_NAME) eqn:Eo; [apply wp_assert; [by apply Ha|done]|by hsteps]. }
  intros [] s' ->. hdemand E2. hstep. eapply wp_mono; [apply (wp_process max rel t)|].
  intros r [dec2 c2] (E & Hq & _ & Hw & Hl2). cbn [fst snd] in *. subst c2.
  assert (hbrc_hblock c1 = hbrc_hblock c) as Hhb by (destruct Hoo as [_ (o & m & Eo)]; cbn in Eo; by rewrite Eo).
  hstep. apply (wp_mono _ _ (fun _ s' => only_out (dec, c) s' /\ log s' = if r =? 0 then log (dec, c) ++ [(hbrc_hblock c, h2)] else log (dec, c))).
  { assert (only_out (dec, c) (dec2, c1)) as Ho2.
    { eapply only_out_trans; [exact Hoo|]. split; [done|]. eexists _, _. symmetry. apply set_out_self. }
    rewrite Hlog, Hhb in Hl2.
    destruct (Z.eqb_spec r 0); hsteps; (split; [|done]); [|done].
    destruct Ho2 as [Hq2 H2]. split; [|done]. eapply quiet_trans; [exact Hq2|apply quiet_bytes_out]. }
  intros [] [dec3 c3] [Ho3 Hl3]. hsteps. cbn beta. split; [by apply only_out_set|].
  destruct (Z.eqb_spec r 0) as [->|Hr]; [|split; [done|]; intros Hw' _; by apply Hr, Hw].
  split; [done|]. exists h2. by split.
Qed.
End write.
