(* ===== verification/DecLine.v ===== *)
(** * The field line that is being read

    The reader of the rest of a field line for each state of [parse_header_data]
    ([line_rest]), what is known between two rounds ([line_state_ok]), and what one
    round does ([line_post]), in the manner of [DecReading].

    The reader is the decoder's: it looks an id up modulo twice the number of entries
    ([dyn_look]).  [DecRfc] relates it to the representations of [Rfc9204]. *)

From stdpp Require Import gmap.
From S2P Require Import Prelude Monad IntCodec HuffTables Huffman HuffStream StrCodec Xxhash.
From S2P Require Import StaticTable Ringbuf Rfc9204 EncTable EncEncode DecTable DecState DecStream.
From S2P Require Import DecSpec DecBlocked DecStrings DecReading DecCore DecHeader DecParse DecHset DecOut.
From S2P Require Import DecCompose DecWrite.

(** ** Readers *)

(** What the indices of a header block refer to. *)
Record line_env := {
  le_look : Z -> option hfield;
  le_rel : Z -> Z;
  le_post : Z -> Z;
  le_largest : Z;
}.

Inductive ref_kind := RefStatic | RefRel | RefPost.

(** [check_dyn_table_errors] *)
Definition ref_flags (largest flags id : Z) : Z :=
  Z.lor flags (if has_bits flags HBRC_LARGEST_REF_SET
               then Z.shiftl (Z.b2z (id =? largest)) LARGEST_USED_SHIFT else HBRC_DYN_USED_IN_ERR).

Definition static_field (n : Z) : option hfield :=
  if n <? 99 then Some (ste_name (ste_at n), ste_val (ste_at n)) else None.

(** The field an index stands for, and the flags of the block after that. *)
Definition ref_field (E : line_env) (flags : Z) (k : ref_kind) (n : Z) : option (hfield * Z) :=
  match k with
  | RefStatic => f ← static_field n; Some (f, flags)
  | RefRel => f ← le_look E (le_rel E n); Some (f, ref_flags (le_largest E) flags (le_rel E n))
  | RefPost => f ← le_look E (le_post E n); Some (f, ref_flags (le_largest E) flags (le_post E n))
  end.

(** A line, the flags after it and the bytes after it. *)
Definition line_result : Type := option (hline * Z * bytes).

(** The decoder takes indices below 2^24. *)
Definition read_index (p : Z) (st : dec_int_state) (buf : bytes) : option (Z * bytes) :=
  '(n, buf) ← read_int_at p st buf; if n <? 2 ^ 24 then Some (n, buf) else None.

Definition indexed (E : line_env) (flags : Z) (k : ref_kind) (r : option (Z * bytes)) : line_result :=
  '(n, buf) ← r;
  '(f, flags) ← ref_field E flags k n;
  Some ({| hl_never := false; hl_field := f |}, flags, buf).

Definition with_value (never : bool) (name : bytes) (flags : Z) (r : option (bytes * bytes)) : line_result :=
  '(v, buf) ← r; Some ({| hl_never := never; hl_field := (name, v) |}, flags, buf).

Definition nameref (E : line_env) (flags : Z) (k : ref_kind) (never : bool) (r : option (Z * bytes)) : line_result :=
  '(n, buf) ← r;
  '(f, flags) ← ref_field E flags k n;
  with_value never (fst f) flags (read_str 7 buf).

Definition literal (never : bool) (flags : Z) (r : option (bytes * bytes)) : line_result :=
  '(name, buf) ← r; with_value never name flags (read_str 7 buf).

Definition rel_kind (is_static : bool) : ref_kind := if is_static then RefStatic else RefRel.

Definition read_line (E : line_env) (flags : Z) (buf : bytes) : line_result :=
  match buf with
  | [] => None
  | b :: _ =>
      if has_bits b 0x80 then indexed E flags (rel_kind (has_bits b 0x40)) (read_index 6 dec_int_fresh buf)
      else if has_bits b 0x40 then
        nameref E flags (rel_kind (has_bits b 0x10)) (has_bits b 0x20) (read_index 4 dec_int_fresh buf)
      else if has_bits b 0x20 then
        literal (has_bits b 0x10) flags (rest_len_str (has_bits b 0x08) 3 dec_int_fresh buf)
      else if has_bits b 0x10 then indexed E flags RefPost (read_index 4 dec_int_fresh buf)
      else nameref E flags RefPost (has_bits b 0x08) (read_index 3 dec_int_fresh buf)
  end.

(** What has been read of the line: the N bit, the name if it is complete, and a part
    of the string being decoded. *)
Record line_part := { lp_never : bool; lp_name : bytes; lp_part : bytes }.

Definition line_rest (E : line_env) (flags : Z) (g : line_part) (st : data_state) (buf : bytes) : line_result :=
  let value := with_value (lp_never g) (lp_name g) flags in
  match st with
  | DATA_STATE_NEXT_INSTRUCTION => read_line E flags buf
  | DATA_STATE_READ_IHF_IDX is_static st => indexed E flags (rel_kind is_static) (read_index 0 st buf)
  | DATA_STATE_READ_IPBI_IDX st => indexed E flags RefPost (read_index 0 st buf)
  | DATA_STATE_READ_LFINR_IDX is_static never st => nameref E flags (rel_kind is_static) never (read_index 0 st buf)
  | DATA_STATE_READ_LFPBNR_IDX never st => nameref E flags RefPost never (read_index 0 st buf)
  | DATA_STATE_BEGIN_READ_VAL_LEN => value (read_str 7 buf)
  | DATA_STATE_READ_VAL_LEN h st => value (rest_len_str h 0 st buf)
  | DATA_STATE_READ_VAL_HUFFMAN todo st => value (rest_huff todo st (lp_part g) buf)
  | DATA_STATE_READ_VAL_PLAIN todo => value (rest_plain todo (lp_part g) buf)
  | DATA_STATE_READ_LFONR_NAME_LEN never h st => literal never flags (rest_len_str h 0 st buf)
  | DATA_STATE_READ_NAME_HUFFMAN todo st => literal (lp_never g) flags (rest_huff todo st (lp_part g) buf)
  | DATA_STATE_READ_NAME_PLAIN todo => literal (lp_never g) flags (rest_plain todo (lp_part g) buf)
  end.

(** ** Between two rounds *)

Section line.
Context {hset : Type} `{!HsetIf hset} `{!HsetOk hset}.
Variables (max : Z) (rel : bool) (t : dyn_table).

Implicit Types (dec : lsqpack_dec hset) (c : header_block_read_ctx) (h : dec_header).
Implicit Types (s : lsqpack_dec hset * header_block_read_ctx).

Local Abbreviation quiet := (quiet max rel t).

Definition value_of (opts : Z) (g : line_part) c h : Prop :=
  composing opts (lp_never g) (Some (lp_name g)) (lp_part g) c h /\ at_end (lp_part g) c.
Definition name_of (opts : Z) (g : line_part) c h : Prop :=
  composing opts (lp_never g) None (lp_part g) c h /\ at_end (lp_part g) c.

(** [todo] bytes of code are left of a string. *)
Definition huff_left (todo : Z) (st : huff_decode_state) (out : bytes) : Prop :=
  exists len nread, todo = len - nread /\ len < 2 ^ 24 /\ huff_reading len nread st out.

Definition no_header c : Prop := out_xhdr (hbrc_out c) = None.

Definition line_state_ok (opts : Z) (g : line_part) c (st : data_state) : Prop :=
  match st with
  | DATA_STATE_NEXT_INSTRUCTION => no_header c
  | DATA_STATE_READ_IHF_IDX _ st | DATA_STATE_READ_IPBI_IDX st | DATA_STATE_READ_LFINR_IDX _ _ st
  | DATA_STATE_READ_LFPBNR_IDX _ st | DATA_STATE_READ_LFONR_NAME_LEN _ _ st => no_header c /\ int_pending st
  | DATA_STATE_BEGIN_READ_VAL_LEN => exists h, value_of opts g c h /\ lp_part g = []
  | DATA_STATE_READ_VAL_LEN _ st => (exists h, value_of opts g c h /\ lp_part g = []) /\ int_pending st
  | DATA_STATE_READ_VAL_HUFFMAN todo st =>
      exists h, value_of opts g c h /\ huff_left todo st (lp_part g) /\ 0 < todo
  | DATA_STATE_READ_VAL_PLAIN todo =>
      exists h, value_of opts g c h /\ 0 < todo
        /\ Z.of_nat (length (composed (has_bits opts LSQPACK_DEC_OPT_HTTP1X) (Some (lp_name g)) (lp_part g)))
           + todo <= dh_val_len h
  | DATA_STATE_READ_NAME_HUFFMAN todo st => exists h, name_of opts g c h /\ huff_left todo st (lp_part g)
      /\ (todo = 0 -> lp_part g = [])
  | DATA_STATE_READ_NAME_PLAIN todo =>
      exists h, name_of opts g c h /\ 0 <= todo /\ Z.of_nat (length (lp_part g)) + todo <= dh_val_len h
        /\ (todo = 0 -> lp_part g = [])
  end.

(** All of this is about [hbrc_out]. *)
Lemma line_state_ok_ext opts g c c' st :
  hbrc_out c' = hbrc_out c -> line_state_ok opts g c st -> line_state_ok opts g c' st.
Proof.
  intros E. assert (forall h, value_of opts g c h -> value_of opts g c' h) as Hv.
  { intros h [[] He]. unfold at_end in He. split; [by constructor; rewrite ?E|by unfold at_end; rewrite E]. }
  assert (forall h, name_of opts g c h -> name_of opts g c' h) as Hn.
  { intros h [[] He]. unfold at_end in He. split; [by constructor; rewrite ?E|by unfold at_end; rewrite E]. }
  unfold line_state_ok, no_header. rewrite E. destruct st; try done.
  - intros (h & Ho & Hr). exists h. auto.
  - intros [(h & Ho & Hr) Hp]. eauto.
  - intros (h & Ho & Hr). exists h. auto.
  - intros (h & Ho & Hr). exists h. auto.
  - intros (h & Ho & Hr). exists h. auto.
  - intros (h & Ho & Hr). exists h. auto.
Qed.

(** The rounds that may follow without reading a byte. *)
Definition room c : Z :=
  match out_xhdr (hbrc_out c) with Some h => dh_val_len h - out_offset c h | None => 0 end.

Definition line_cost c (st : data_state) : nat :=
  match st with
  | DATA_STATE_READ_VAL_HUFFMAN _ st | DATA_STATE_READ_NAME_HUFFMAN _ st => huff_cost (room c) st
  | _ => 0%nat
  end.

(** What the references of the block mean. *)
Definition env_of (M : Z) c : line_env :=
  {| le_look := dyn_look t M;
     le_rel n := ID_MINUS M (hbrc_base_index c) n;
     le_post n := ID_PLUS M (hbrc_base_index c) (u32 (n + 1));
     le_largest := hbrc_largest_ref c |}.

Definition rest_of (g : line_part) (st : data_state) s : bytes -> line_result :=
  line_rest (env_of (qpd_max_entries (qpd_tab (fst s))) (snd s)) (hbrc_flags (snd s)) g st.

Record line_ready (g : line_part) (st : data_state) s : Prop := {
  lr_reading : reading max rel (fst s) t;
  lr_state : hbrc_parse (snd s) = PARSE_DATA st;
  lr_ok : line_state_ok (qpd_opts (fst s)) g (snd s) st;
}.

(** What a round over field lines leaves as it was. *)
Record same_block c c' : Prop := {
  sb_hblock : hbrc_hblock c' = hbrc_hblock c;
  sb_stream : hbrc_stream_id c' = hbrc_stream_id c;
  sb_orig : hbrc_orig_size c' = hbrc_orig_size c;
  sb_size : hbrc_size c' = hbrc_size c;
  sb_largest : hbrc_largest_ref c' = hbrc_largest_ref c;
  sb_base : hbrc_base_index c' = hbrc_base_index c;
  sb_flags : forall f, Z.land (Z.lor HBRC_LARGEST_REF_USED HBRC_DYN_USED_IN_ERR) f = 0 ->
    has_bits (hbrc_flags c') f = has_bits (hbrc_flags c) f;
}.

Definition advanced s s' : Prop := quiet (fst s) (fst s') /\ same_block (snd s) (snd s').

(** One round, from the reader [rd] and the bytes [buf]. *)
Definition line_post (rd : bytes -> line_result) (cost : nat) (buf : bytes) s (r : parse_step) s' : Prop :=
  advanced s s' /\
  match r with
  | More rest => exists used, buf = used ++ rest /\
      ( (* in the line *)
       (exists g st, line_ready g st s' /\ st <> DATA_STATE_NEXT_INSTRUCTION /\ log s' = log s
         /\ (forall r, is_bytes r -> rd (buf ++ r) = rest_of g st s' (rest ++ r))
         /\ (64 * length rest + line_cost (snd s') st < 64 * length buf + cost)%nat)
       \/ (* at its end *)
       exists line h, line_ready {| lp_never := false; lp_name := []; lp_part := [] |} DATA_STATE_NEXT_INSTRUCTION s'
         /\ log s' = log s ++ [(hbrc_hblock (snd s), h)] /\ shows (http1x_opt (fst s)) line h
         /\ (forall r, is_bytes r -> rd (buf ++ r) = Some (line, hbrc_flags (snd s'), rest ++ r))
         /\ (64 * length rest < 64 * length buf + cost)%nat)
  | Stop LQRHS_NEED => exists g st, line_ready g st s' /\ log s' = log s
      /\ st <> DATA_STATE_NEXT_INSTRUCTION
      /\ forall r, is_bytes r -> rd (buf ++ r) = rest_of g st s' r
  | Stop LQRHS_ERROR => log s' = log s /\
      forall r line flags rest, is_bytes r -> rd (buf ++ r) = Some (line, flags, rest) -> declined line
  | Stop _ => False
  end.
End line.
