(* ===== verification/DecBegin.v ===== *)
(** * The start of a header with a literal value

    [header_out_begin_static_nameref], [header_out_begin_dynamic_nameref] and
    [header_out_begin_literal]: afterwards the header is being composed. *)

From stdpp Require Import gmap.
From S2P Require Import Prelude Monad IntCodec HuffTables Huffman HuffStream StrCodec Xxhash.
From S2P Require Import StaticTable Ringbuf Rfc9204 EncTable EncEncode DecTable DecState DecStream.
From S2P Require Import DecSpec DecBlocked DecStrings DecReading DecCore DecWinr DecHeader DecParse DecHset DecOut.
From S2P Require Import DecCompose DecWrite DecLine.

Section start.
Context {hset : Type} `{!HsetIf hset} `{!HsetOk hset}.
Variables (max : Z) (rel : bool) (t : dyn_table).

Implicit Types (dec : lsqpack_dec hset) (c : header_block_read_ctx) (h : dec_header).
Implicit Types (s : lsqpack_dec hset * header_block_read_ctx).

Local Abbreviation only_out := (only_out max rel t).

(** The name is put into the header. *)
Lemma put_name_composing opts never name h :
  let http1x := has_bits opts LSQPACK_DEC_OPT_HTTP1X in
  space_ok h -> head_info opts http1x never (Some name) h -> is_bytes name ->
  dh_name_len h = Z.of_nat (length name) -> Z.of_nat (length (name ++ separator http1x)) <= dh_val_len h ->
  (app_willing -> dh_name_offset h <= 32767) ->
  exists h', put_name http1x name h = Some h' /\
    forall o n c, out_xhdr o = Some h' -> out_state o = XOUT_VALUE ->
      composing opts never (Some name) [] (set_hbrc_out o n c) h'.
Proof.
  intros http1x Hsp Hi Hb Hnl Hlen Ho. pose proof Hsp as [Hno Hl Hbuf Hsm Hby].
  destruct (put_name_spec http1x name h Hsp Hb) as (buf & -> & Hlb & Hbb & Ht); [lia|].
  eexists. split; [reflexivity|]. intros o n c Hx Hst. constructor; try done.
  - by apply space_ok_buf.
  - cbn [composed]. by rewrite app_nil_r.
  - cbn [composed]. by rewrite app_nil_r.
  - intros ? [= <-]. cbn. split; [done|]. apply i32_id. fold http1x. change (2 ^ 31) with 2147483648 in *. lia.
  - destruct Hi. by constructor.
Qed.

Lemma wp_begin_header need c dec :
  no_header c ->
  wp (begin_header need) (dec, c) (fun x s' => only_out (dec, c) s' /\ log s' = log (dec, c)
    /\ qpd_tab (fst s') = qpd_tab dec /\ out_xhdr (hbrc_out (snd s')) = x /\
    match x with
    | Some h => fresh_header need h /\ (app_willing -> dh_name_offset h <= 32767)
    | None => app_willing -> LSXPACK_MAX_STRLEN < need
    end).
Proof.
  intros Hn. unfold begin_header. hsteps. apply wp_assert; [by apply bool_decide_eq_true|]. hstep.
  eapply wp_mono; [apply (wp_prepare_fresh max rel t need)|]. intros x [dec1 c1] (Ha & Hx).
  pose proof (asked_only_out max rel t _ _ Ha) as Ho. destruct Ha as (Hc1 & Hq & Hl & Ht). cbn [fst snd] in *. subst c1.
  unfold set_out_xhdr. hsteps. split; [by apply only_out_set|]. done.
Qed.

(** ** Names of the static table *)

Lemma wp_begin_static idx never c dec :
  no_header c -> 0 <= idx ->
  wp (header_out_begin_static_nameref idx never) (dec, c) (fun ok s' =>
    only_out (dec, c) s' /\ log s' = log (dec, c) /\
    if ok : bool
    then idx < 99 /\ exists h,
      value_of (qpd_opts dec) {| lp_never := never; lp_name := ste_name (ste_at idx); lp_part := [] |} (snd s') h
    else 99 <= idx \/ ~ app_willing).
Proof.
  intros Hn Hidx. unfold header_out_begin_static_nameref. hsteps.
  apply wp_assert; [by apply bool_decide_eq_true|]. rewrite Z.geb_leb. destruct (Z.leb_spec 99 idx) as [Hge|Hlt].
  { hstep. split; [apply only_out_refl|]. split; [done|]. by left. }
  destruct (ste_facts idx ltac:(lia)) as (Hnl & _ & Hnh & _ & Hn100 & _ & Hbn & _).
  hsteps. eapply wp_mono; [by apply wp_begin_header|]. intros x [dec1 c1] (Ho & Hl & _ & Hx & Hm). cbn [fst snd] in *.
  destruct x as [h|].
  2: { hstep. split; [done|]. split; [done|]. right. intros Hw. specialize (Hm Hw). unfold LSXPACK_MAX_STRLEN, overhead in Hm.
       destruct (http1x_opt dec); lia. }
  destruct Hm as [[Hsp Hneed Hf] Hoff]. pose proof Hsp as [_ Hvl _ _ _]. unfold LSXPACK_MAX_STRLEN in Hvl.
  match goal with |- wp (demand (put_name _ _ ?h1) ≫= _) _ _ =>
    destruct (put_name_composing (qpd_opts dec) never (ste_name (ste_at idx)) h1) as (h' & E & Hfin) end.
  - destruct Hsp. destruct never; constructor; cbn; unfold LSXPACK_MAX_STRLEN; rewrite ?u16_id by ulia; (done || lia).
  - destruct never; constructor; cbn; rewrite ?Hf, ?Hnh; try done; try (unfold http1x_opt; by destruct (has_bits (qpd_opts dec) LSQPACK_DEC_OPT_HTTP1X));
      intros _; eexists; (split; [done|]); rewrite ?u8_id by ulia; done.
  - done.
  - destruct never; cbn; rewrite u16_id by ulia; lia.
  - fold (http1x_opt dec). rewrite length_app, Nat2Z.inj_add, length_separator. unfold overhead in Hneed.
    destruct never; cbn; rewrite u16_id by ulia; destruct (http1x_opt dec); lia.
  - by destruct never.
  - hdemand E. hsteps. split; [by apply only_out_set|]. split; [done|]. split; [done|]. exists h'. split; [by apply Hfin|done].
Qed.

(** ** Names of the dynamic table *)

(** The header of an entry's name. *)
Definition named_header (http1x never : bool) (e : dec_table_entry) (h : dec_header) : dec_header :=
  let h := dh_set_overhead (overhead http1x) h in
  let h := if never then dh_flag LSXPACK_NEVER_INDEX h else h in
  let h := entry_name_info e h in
  dh_set_lens (dte_name_len e) (dh_val_len h) h.

Lemma named_header_info opts http1x never e h :
  entry_good e -> dh_flags h = 0 ->
  (has_bits opts (Z.lor LSQPACK_DEC_OPT_HASH_NAME LSQPACK_DEC_OPT_HASH_NAMEVAL) = true ->
   has_bits (dte_flags e) DTEF_NAME_HASH = true) ->
  head_info opts http1x never (Some (DTE_NAME e)) (named_header http1x never e h).
Proof.
  intros [_ _ _ _ (Hn & _ & Hi)] Hf Ho. unfold named_header, entry_name_info.
  assert (forall n, Some (DTE_NAME e) = Some n -> has_bits opts LSQPACK_DEC_OPT_HASH_NAME = true ->
    has_bits (dte_flags e) DTEF_NAME_HASH = true) as Ho'.
  { intros n _ Hx. apply Ho. by rewrite has_bits_lor, Hx. }
  destruct (has_bits (dte_flags e) DTEF_NAME_HASH), (has_bits (dte_flags e) DTEF_NAME_IDX);
    (destruct never; constructor; cbn; rewrite ?Hf; try done; try (by destruct http1x);
      try (intros n ? Hx; by specialize (Ho' n ltac:(done) Hx));
      intros _; exists (DTE_NAME e); (split; [done|]); try destruct (Hi eq_refl) as [Hi1 Hi2];
      rewrite ?u8_id by ulia; auto).
Qed.

Lemma named_header_same http1x never e h :
  dh_buf (named_header http1x never e h) = dh_buf h
  /\ dh_name_offset (named_header http1x never e h) = dh_name_offset h
  /\ dh_val_len (named_header http1x never e h) = u16 (dh_val_len h)
  /\ dh_name_len (named_header http1x never e h) = u16 (dte_name_len e).
Proof.
  unfold named_header, entry_name_info.
  by destruct never, (has_bits (dte_flags e) DTEF_NAME_HASH), (has_bits (dte_flags e) DTEF_NAME_IDX).
Qed.

Lemma wp_begin_dynamic id p f never c dec :
  no_header c -> reading max rel dec t -> qdec_get_table_entry_abs (qpd_tab dec) id = Some p ->
  dyn_look t (qpd_max_entries (qpd_tab dec)) id = Some f ->
  wp (header_out_begin_dynamic_nameref p never) (dec, c) (fun ok s' =>
    only_out (dec, c) s' /\ log s' = log (dec, c) /\
    if ok : bool
    then exists h, value_of (qpd_opts dec) {| lp_never := never; lp_name := fst f; lp_part := [] |} (snd s') h
    else app_willing -> LSXPACK_MAX_STRLEN < Z.of_nat (length (fst f)) + 4).
Proof.
  intros Hn Hr Hid Hlk. unfold header_out_begin_dynamic_nameref. hsteps.
  pose proof (reading_look max rel t dec id Hr) as Hl. rewrite Hid in Hl. destruct Hl as (e & He & Hg & Hlk').
  rewrite Hlk in Hlk'. injection Hlk' as ->. cbn [dte_nameval fst].
  eapply wp_the_entry_lift; [exact He|]. hsteps.
  eapply wp_mono; [by apply wp_begin_header|]. intros x [dec1 c1] (Ho & Hl & Ht & Hx & Hm). cbn [fst snd] in *.
  pose proof (name_length e Hg) as Hnl. destruct x as [h|].
  2: { hstep. split; [done|]. split; [done|]. intros Hw. specialize (Hm Hw). rewrite Hnl.
       unfold overhead in Hm. destruct (http1x_opt dec); lia. }
  destruct Hm as [[Hsp Hneed Hf] Hoff]. pose proof Hsp as [_ Hvl _ _ _]. unfold LSXPACK_MAX_STRLEN in Hvl.
  assert (qpd_opts dec1 = qpd_opts dec) as Eopts by apply (qu_opts _ _ _ _ _ (proj1 Ho)).
  hstep. rewrite <- Eopts.
  eapply wp_mono; [apply (wp_update_hashes max rel t id p dec1 c1 e); [by apply (qu_reading _ _ _ _ _ (proj1 Ho))|by rewrite Ht|by rewrite Ht]|].
  intros [] s2 (tab & e' & -> & Hq2 & He' & Hg' & Hnv & Hop).
  hstep. eapply wp_the_entry_lift; [exact He'|]. cbn beta.
  pose proof (name_length e' Hg') as Hnl'. injection Hnv as Hnm _. rewrite Hnm in Hnl'.
  rewrite Eopts in *.
  fold (named_header (http1x_opt dec) never e' h).
  destruct (named_header_same (http1x_opt dec) never e' h) as (Eb & Eo & Ev & En).
  rewrite overhead_length in Hneed. rewrite u16_id in Ev, En by ulia.
  destruct (put_name_composing (qpd_opts dec) never (DTE_NAME e') (named_header (http1x_opt dec) never e' h)) as (h' & E & Hfin).
  - destruct Hsp. constructor; rewrite ?Eb, ?Eo, ?Ev; done.
  - by apply named_header_info.
  - apply (entry_bytes e' Hg').
  - rewrite En, Hnm. lia.
  - rewrite Ev, length_app, Hnm. fold (http1x_opt dec). lia.
  - by rewrite Eo.
  - hdemand E. hsteps. split; [apply only_out_set; eapply only_out_trans; [exact Ho|]|].
    + split; [exact Hq2|]. eexists _, _. symmetry. apply set_out_self.
    + split; [done|]. exists h'. rewrite Hnm in Hfin. split; [by apply Hfin|done].
Qed.

(** ** Literal names *)

Lemma wp_begin_literal need never c dec :
  no_header c ->
  wp (header_out_begin_literal need never) (dec, c) (fun ok s' =>
    only_out (dec, c) s' /\ log s' = log (dec, c) /\
    if ok : bool
    then exists h, name_of (qpd_opts dec) {| lp_never := never; lp_name := []; lp_part := [] |} (snd s') h
      /\ need <= dh_val_len h
    else app_willing -> LSXPACK_MAX_STRLEN < need + 4).
Proof.
  intros Hn. unfold header_out_begin_literal. hsteps.
  eapply wp_mono; [by apply wp_begin_header|]. intros x [dec1 c1] (Ho & Hl & _ & Hx & Hm). cbn [fst snd] in *.
  destruct x as [h|].
  2: { hstep. split; [done|]. split; [done|]. intros Hw. specialize (Hm Hw). unfold overhead in Hm.
       destruct (http1x_opt dec); lia. }
  destruct Hm as [[Hsp Hneed Hf] Hoff]. hsteps. split; [by apply only_out_set|]. split; [done|].
  exists (if never then dh_flag LSXPACK_NEVER_INDEX (dh_set_overhead (overhead (http1x_opt dec)) h)
          else dh_set_overhead (overhead (http1x_opt dec)) h).
  assert (need <= dh_val_len h) as Hnd by (unfold overhead in Hneed; destruct (http1x_opt dec); lia).
  split; [|by destruct never]. split; [|done]. destruct Hsp. constructor.
  - done.
  - done.
  - by destruct never.
  - done.
  - destruct never; cbn; lia.
  - done.
  - destruct never; constructor; cbn; rewrite ?Hf; try done; unfold http1x_opt; by destruct (has_bits (qpd_opts dec) LSQPACK_DEC_OPT_HTTP1X).
  - by destruct never.
Qed.
End start.
