(* ===== verification/DecData.v ===== *)
(** * The rounds of [parse_header_data]

    Every state of the machine satisfies [line_post]: integers, references and the
    start of names and values here, strings in [DecText]. *)

From stdpp Require Import gmap.
From S2P Require Import Prelude Monad IntCodec HuffTables Huffman HuffStream StrCodec Xxhash.
From S2P Require Import StaticTable Ringbuf Rfc9204 EncTable EncEncode DecTable DecState DecStream.
From S2P Require Import DecSpec DecBlocked DecStrings DecReading DecCore DecRounds DecWinr DecHeader DecParse.
From S2P Require Import DecHset DecOut DecCompose DecWrite DecLine DecBegin.

(** ** Readers *)

Definition small_index (n : Z) (buf : bytes) : option (Z * bytes) :=
  if n <? 2 ^ 24 then Some (n, buf) else None.

Lemma read_index_split {A} p st buf (f : option (Z * bytes) -> option A) : f None = None ->
  f (read_index p st buf) = '(n, b) ← read_int_at p st buf; f (small_index n b).
Proof. intros H. unfold read_index, small_index. by destruct (read_int_at p st buf) as [[n b]|]. Qed.

Lemma small_index_small n buf : 0 <= n < 2 ^ 24 -> small_index n buf = Some (n, buf).
Proof. intros H. unfold small_index. by rewrite (proj2 (Z.ltb_lt _ _)) by lia. Qed.

Lemma small_index_large n buf : 2 ^ 24 <= n -> small_index n buf = None.
Proof. intros H. unfold small_index. by rewrite (proj2 (Z.ltb_ge _ _)) by lia. Qed.

Lemma with_value_inv never name flags r line flags' b :
  with_value never name flags r = Some (line, flags', b) ->
  exists v, r = Some (v, b) /\ line = {| hl_never := never; hl_field := (name, v) |} /\ flags' = flags.
Proof. unfold with_value. destruct r as [[v b']|]; [|done]. cbn. intros [= <- <- <-]. by exists v. Qed.

Section data.
Context {hset : Type} `{!HsetIf hset} `{!HsetOk hset}.
Variables (max : Z) (rel : bool) (t : dyn_table) (bufsz : Z).

Implicit Types (dec : lsqpack_dec hset) (c : header_block_read_ctx) (h : dec_header).
Implicit Types (s : lsqpack_dec hset * header_block_read_ctx).

Local Abbreviation quiet := (quiet max rel t).
Local Abbreviation only_out := (only_out max rel t).
Local Abbreviation advanced := (advanced max rel t).
Local Abbreviation post := (line_post max rel t).
Local Abbreviation ready := (line_ready max rel t).
Local Abbreviation rest_of := (rest_of t).

(** ** What stays the same *)

Lemma same_block_refl c : same_block c c.
Proof. by constructor. Qed.

Lemma same_block_trans c1 c2 c3 : same_block c1 c2 -> same_block c2 c3 -> same_block c1 c3.
Proof. intros [] []. constructor; try congruence. intros f Hf. rewrite sb_flags0, sb_flags by done. done. Qed.

Lemma same_block_out o n c : same_block c (set_hbrc_out o n c).
Proof. by constructor. Qed.

Lemma same_block_parse st c : same_block c (set_hbrc_parse st c).
Proof. by constructor. Qed.

Lemma advanced_refl s : advanced s s.
Proof. split; [apply quiet_refl|apply same_block_refl]. Qed.

Lemma advanced_trans s1 s2 s3 : advanced s1 s2 -> advanced s2 s3 -> advanced s1 s3.
Proof. intros [] []. split; [by eapply quiet_trans|by eapply same_block_trans]. Qed.

Lemma only_out_advanced s s' : only_out s s' -> advanced s s'.
Proof. intros [Hq (o & n & E)]. split; [done|]. rewrite E. apply same_block_out. Qed.

Lemma advanced_parse dec c st s : advanced s (dec, c) -> advanced s (dec, set_hbrc_parse st c).
Proof. intros [H1 H2]. split; [done|]. by eapply same_block_trans; [exact H2|]. Qed.

Lemma advanced_http1x s s' : advanced s s' -> http1x_opt (fst s') = http1x_opt (fst s).
Proof. intros [H _]. unfold http1x_opt. by rewrite (qu_opts _ _ _ _ _ H). Qed.

Lemma advanced_reading s s' : advanced s s' -> reading max rel (fst s) t -> reading max rel (fst s') t.
Proof. intros [H _]. apply (qu_reading _ _ _ _ _ H). Qed.

(** The environment does not change, and neither do the flags while a header is
    composed. *)
Lemma advanced_env s s' : advanced s s' ->
  env_of t (qpd_max_entries (qpd_tab (fst s'))) (snd s') = env_of t (qpd_max_entries (qpd_tab (fst s))) (snd s).
Proof.
  intros [Hq Hb]. unfold env_of. by rewrite (qu_entries _ _ _ _ _ Hq), (sb_base _ _ Hb), (sb_largest _ _ Hb).
Qed.

Definition env (s : lsqpack_dec hset * header_block_read_ctx) : line_env :=
  env_of t (qpd_max_entries (qpd_tab (fst s))) (snd s).

(** ** Ways a round ends *)

Lemma wp_return_error line rest rd cost buf s s0 :
  advanced s0 s -> log s = log s0 ->
  (forall r l flags b, is_bytes r -> rd (buf ++ r) = Some (l, flags, b) -> declined l) ->
  wp (return_error bufsz line rest) s (post rd cost buf s0).
Proof.
  intros Ha Hl Hd. unfold return_error. destruct s as [dec c]. hsteps. split; [|by split].
  destruct Ha as [Hq Hb]. split; [|done]. eapply quiet_trans; [exact Hq|apply quiet_err].
Qed.

Lemma wp_go g st used rest rd cost buf s s0 :
  advanced s0 s -> log s = log s0 -> reading max rel (fst s) t ->
  line_state_ok (qpd_opts (fst s)) g (snd s) st -> buf = used ++ rest ->
  (forall r, is_bytes r -> rd (buf ++ r) = rest_of g st s (rest ++ r)) ->
  (64 * length rest + line_cost (snd s) st < 64 * length buf + cost)%nat -> st <> DATA_STATE_NEXT_INSTRUCTION ->
  wp (go st rest) s (post rd cost buf s0).
Proof.
  intros Ha Hl Hr Hok -> Hrd Hm Hnn. unfold go, set_data. destruct s as [dec c]. hsteps.
  split; [by apply advanced_parse|]. exists used. split; [done|]. left. exists g, st.
  split; [|split; [done|split; [done|split; [done|]]]].
  - split; [done|done|]. by apply (line_state_ok_ext _ _ c).
  - cbn [snd] in *. unfold line_cost, room, out_offset in *. done.
Qed.

(** A line is complete: the next round starts another one. *)
Lemma wp_go_next line h flags used rest rd cost buf s s0 :
  advanced s0 s -> log s = log s0 ++ [(hbrc_hblock (snd s0), h)] -> shows (http1x_opt (fst s0)) line h ->
  reading max rel (fst s) t -> no_header (snd s) -> buf = used ++ rest -> hbrc_flags (snd s) = flags ->
  (forall r, is_bytes r -> rd (buf ++ r) = Some (line, flags, rest ++ r)) ->
  (64 * length rest < 64 * length buf + cost)%nat ->
  wp (go DATA_STATE_NEXT_INSTRUCTION rest) s (post rd cost buf s0).
Proof.
  intros Ha Hl Hs Hr Hn -> <- Hrd Hm. unfold go, set_data. destruct s as [dec c]. hsteps.
  split; [by apply advanced_parse|]. exists used. split; [done|]. right. exists line, h.
  split; [by split|]. done.
Qed.

Lemma line_post_prefix rd rd' cost buf used rest s r s0 :
  buf = used ++ rest -> used <> [] ->
  (forall r, is_bytes r -> rd (buf ++ r) = rd' (rest ++ r)) ->
  post rd' 64 rest s0 r s -> post rd cost buf s0 r s.
Proof.
  intros -> Hne Hrd. assert (0 < length used)%nat as Hu by (destruct used; [done|cbn; lia]).
  intros [Ha H]. split; [done|]. destruct r as [rest'|[]]; [|done|done| |].
  - destruct H as (used' & -> & H). exists (used ++ used'). split; [by rewrite app_assoc|].
    rewrite !length_app in *. destruct H as [(g & st & H1 & Hnn & H2 & H3 & H4)|(line & h & H1 & H2 & H3 & H4 & H5)].
    + left. exists g, st. split; [done|]. split; [done|]. split; [done|]. split; [intros r Hr; by rewrite Hrd, H3|lia].
    + right. exists line, h. split; [done|]. split; [done|]. split; [done|]. split; [intros r Hr; by rewrite Hrd, H4|lia].
  - destruct H as (g & st & H1 & H2 & H3 & H4). exists g, st. split; [done|]. split; [done|]. split; [done|].
    intros r Hr. by rewrite Hrd, H4.
  - destruct H as (H1 & H2). split; [done|]. intros r line flags b Hr. rewrite Hrd by done. by apply H2.
Qed.

Lemma line_post_ext rd rd' cost buf s r s0 :
  (forall r, is_bytes r -> rd (buf ++ r) = rd' (buf ++ r)) -> post rd' cost buf s0 r s -> post rd cost buf s0 r s.
Proof.
  intros Hrd [Ha H]. split; [done|]. destruct r as [rest'|[]]; [|done|done| |].
  - destruct H as (used & -> & H). exists used. split; [done|].
    destruct H as [(g & st & H1 & Hnn & H2 & H3 & H4)|(line & h & H1 & H2 & H3 & H4 & H5)].
    + left. exists g, st. split; [done|]. split; [done|]. split; [done|]. split; [intros r Hr; by rewrite Hrd, H3|done].
    + right. exists line, h. split; [done|]. split; [done|]. split; [done|]. split; [intros r Hr; by rewrite Hrd, H4|done].
  - destruct H as (g & st & H1 & H2 & H3 & H4). exists g, st. split; [done|]. split; [done|]. split; [done|].
    intros r Hr. by rewrite Hrd, H4.
  - destruct H as (H1 & H2). split; [done|]. intros r line flags b Hr. rewrite Hrd by done. by apply H2.
Qed.

Lemma only_out_flags s s' : only_out s s' -> hbrc_flags (snd s') = hbrc_flags (snd s).
Proof. intros [_ (o & n & ->)]. done. Qed.

Lemma only_out_opts s s' : only_out s s' -> qpd_opts (fst s') = qpd_opts (fst s).
Proof. intros [H _]. apply (qu_opts _ _ _ _ _ H). Qed.

(** A step before the round that only writes. *)
Lemma line_post_before rd cost buf s0 s1 r s :
  advanced s0 s1 -> log s1 = log s0 -> post rd cost buf s1 r s -> post rd cost buf s0 r s.
Proof.
  intros Ha Hl [Ha' H]. split; [by eapply advanced_trans|].
  pose proof (sb_hblock _ _ (proj2 Ha)) as Hb. pose proof (advanced_http1x _ _ Ha) as Hx.
  destruct r as [rest'|[]]; rewrite <- ?Hl, <- ?Hb, <- ?Hx; done.
Qed.

(** ** Integers *)

Lemma wp_on_int24 g p st0 buf again line k s rd K cost :
  buf <> [] -> is_bytes buf -> int_start p st0 -> reading max rel (fst s) t ->
  (forall b, rd b = '(n, b) ← read_int_at p st0 b; K n b) ->
  (forall st', int_pending st' ->
     line_state_ok (qpd_opts (fst s)) g (snd s) (again st') /\ again st' <> DATA_STATE_NEXT_INSTRUCTION
     /\ forall b, rest_of g (again st') s b = '(n, b) ← read_int_at 0 st' b; K n b) ->
  (forall n b line flags rest, 2 ^ 24 <= n -> K n b = Some (line, flags, rest) -> declined line) ->
  (forall v rest used, 0 <= v < 2 ^ 24 -> buf = used ++ rest -> wp (k v rest) s (post (K v) 64 rest s)) ->
  wp (on_int24 bufsz p st0 buf again line k) s (post rd cost buf s).
Proof.
  intros Hne Hb Hst Hr Hrd Hag Hbig Hk. unfold on_int24. destruct buf as [|b0 src]; [done|].
  pose proof (int24_result b0 src p st0 Hb Hst) as Hres.
  destruct (lsqpack_dec_int24 b0 src p st0) as [v rest|st'|]; cbn [int_result] in Hres.
  - destruct Hres as (Hv & (used & E & Hu) & Hrest). eapply wp_mono; [by apply (Hk v rest used)|].
    intros r s'. apply (line_post_prefix _ _ _ _ used); [done|done|]. intros r' _. by rewrite Hrd, Hrest.
  - destruct Hres as [Hp Hrest]. destruct (Hag st' Hp) as (Hok & Hnn & Hrem). unfold set_data. destruct s as [dec c].
    hsteps. split; [apply advanced_parse, advanced_refl|]. exists g, (again st').
    split; [|split; [done|split; [done|]]].
    + split; [done|done|]. by apply (line_state_ok_ext _ _ c).
    + intros r _. rewrite Hrd, Hrest. symmetry. apply Hrem.
  - apply wp_return_error; [apply advanced_refl|done|]. intros r l flags b _. rewrite Hrd.
    destruct (read_int_at p st0 ((b0 :: src) ++ r)) as [[n b']|] eqn:E; [|done]. cbn. eauto.
Qed.

(** An index: [f] is the rest of the reader. *)
Lemma wp_on_index (f : option (Z * bytes) -> line_result) g p st0 buf again line k s cost :
  f None = None ->
  buf <> [] -> is_bytes buf -> int_start p st0 -> reading max rel (fst s) t ->
  (forall st', int_pending st' ->
     line_state_ok (qpd_opts (fst s)) g (snd s) (again st') /\ again st' <> DATA_STATE_NEXT_INSTRUCTION
     /\ forall b, rest_of g (again st') s b = f (read_index 0 st' b)) ->
  (forall v rest used, 0 <= v < 2 ^ 24 -> buf = used ++ rest ->
     wp (k v rest) s (post (fun b => f (Some (v, b))) 64 rest s)) ->
  wp (on_int24 bufsz p st0 buf again line k) s (post (fun b => f (read_index p st0 b)) cost buf s).
Proof.
  intros Hf Hne Hb Hst Hr Hag Hk.
  eapply (wp_on_int24 g _ _ _ _ _ _ _ _ (fun n b => f (small_index n b))); [done..| | | |].
  - intros b. by apply (read_index_split _ _ _ f).
  - intros st' Hp. destruct (Hag st' Hp) as (H1 & H2 & H3). split; [done|]. split; [done|]. intros b.
    rewrite H3. by apply (read_index_split _ _ _ f).
  - intros n b l flags rest Hn. by rewrite small_index_large, Hf.
  - intros v rest used Hv E. eapply wp_mono; [by apply (Hk v rest used)|]. intros r s'. apply line_post_ext.
    intros r' _. by rewrite small_index_small.
Qed.

(** ** References *)

Lemma wp_from_base v s (Q : Z -> _ -> Prop) : Q (le_rel (env s) v) s -> wp (from_base v) s Q.
Proof. intros H. unfold from_base. destruct s. by hsteps. Qed.

Lemma wp_past_base v s (Q : Z -> _ -> Prop) : Q (le_post (env s) v) s -> wp (past_base v) s Q.
Proof. intros H. unfold past_base. destruct s. by hsteps. Qed.

Definition referred (id : Z) (c : header_block_read_ctx) : header_block_read_ctx :=
  set_hbrc_flags (ref_flags (hbrc_largest_ref c) (hbrc_flags c) id) c.

Lemma wp_check_dyn id dec c (Q : unit -> _ -> Prop) :
  Q tt (dec, referred id c) -> wp (check_dyn_table_errors id) (dec, c) Q.
Proof.
  intros H. unfold check_dyn_table_errors, or_flags. hsteps. unfold referred, ref_flags in H.
  destruct (has_bits (hbrc_flags c) HBRC_LARGEST_REF_SET); by hsteps.
Qed.

Lemma ref_flags_other largest flags id f :
  Z.land (Z.lor HBRC_LARGEST_REF_USED HBRC_DYN_USED_IN_ERR) f = 0 ->
  has_bits (ref_flags largest flags id) f = has_bits flags f.
Proof.
  intros Hf. assert (forall x, Z.land x (Z.lor HBRC_LARGEST_REF_USED HBRC_DYN_USED_IN_ERR) = x -> Z.land x f = 0) as H.
  { intros x <-. by rewrite <- Z.land_assoc, Hf, Z.land_0_r. }
  unfold ref_flags. apply has_bits_set. apply H.
  destruct (has_bits flags HBRC_LARGEST_REF_SET); [by destruct (id =? largest)|done].
Qed.

Lemma advanced_referred dec c id : advanced (dec, c) (dec, referred id c).
Proof. split; [apply quiet_refl|]. constructor; try done. intros f Hf. by apply ref_flags_other. Qed.

(** ** Indexed lines *)

(** The round ends with a whole header. *)
Lemma wp_delivered line r l2 rest flags c2 s s1 :
  delivered max rel t (http1x_opt (fst s)) line r s s1 -> reading max rel (fst s) t -> no_header (snd s) ->
  c2 = snd s /\ flags = hbrc_flags (snd s) \/ (exists id, c2 = referred id (snd s)
    /\ flags = ref_flags (hbrc_largest_ref (snd s)) (hbrc_flags (snd s)) id) ->
  wp (check bufsz (r =? 0) l2 rest (go DATA_STATE_NEXT_INSTRUCTION rest)) (fst s1, c2)
    (post (fun b => Some (line, flags, b)) 64 rest s).
Proof.
  intros (Hc & Hq & Hres) Hr Hn Hc2. destruct s as [dec c], s1 as [dec1 c1]. cbn [fst snd] in *. subst c1.
  assert (advanced (dec, c) (dec1, c2)) as Ha.
  { apply (advanced_trans _ (dec1, c)); [split; [done|apply same_block_refl]|].
    destruct Hc2 as [[-> _]|(id & -> & _)]; [apply advanced_refl|apply advanced_referred]. }
  assert (no_header c2 /\ hbrc_flags c2 = flags) as [Hn2 Hf] by by destruct Hc2 as [[-> ->]|(id & -> & ->)].
  unfold check. destruct (Z.eqb_spec r 0) as [->|Hr0].
  - destruct Hres as (h & Hl & Hs). eapply (wp_go_next line h flags []); try done; [|lia].
    by apply (qu_reading _ _ _ _ _ Hq).
  - destruct Hres as [Hl Hd]. apply wp_return_error; [done|exact Hl|]. intros r' l fl b _ [= <- _ _]. done.
Qed.

(** An indexed line with a reference to the dynamic table. *)
Definition dyn_indexed (s : lsqpack_dec hset * header_block_read_ctx) (id : Z) (b : bytes) : line_result :=
  '(f, flags) ← (f ← le_look (env s) id; Some (f, ref_flags (hbrc_largest_ref (snd s)) (hbrc_flags (snd s)) id));
  Some ({| hl_never := false; hl_field := f |}, flags, b).

Lemma wp_dyn_done id r l2 rest s s1 :
  match dyn_look t (qpd_max_entries (qpd_tab (fst s))) id with
  | Some f => delivered max rel t (http1x_opt (fst s)) (dyn_line f) r s s1
  | None => r = -1 /\ s1 = s
  end ->
  reading max rel (fst s) t -> no_header (snd s) ->
  wp (check bufsz (r =? 0) l2 rest (go DATA_STATE_NEXT_INSTRUCTION rest)) (fst s1, referred id (snd s1))
    (post (dyn_indexed s id) 64 rest s).
Proof.
  intros H Hr Hn. unfold dyn_indexed. cbn [env env_of le_look]. destruct (dyn_look t _ id) as [f|] eqn:El; cbn [mbind option_bind].
  - apply (wp_delivered _ r); [done..|]. right. exists id. by destruct H as (-> & _).
  - destruct H as [-> ->]. unfold check. destruct s as [dec c]. apply wp_return_error; [apply advanced_referred|done|].
    intros; done.
Qed.

Lemma wp_ihf p is_static st0 buf s cost :
  buf <> [] -> is_bytes buf -> int_start p st0 -> reading max rel (fst s) t -> no_header (snd s) ->
  wp (data_state_read_ihf_idx bufsz p is_static st0 buf) s
    (post (fun b => indexed (env s) (hbrc_flags (snd s)) (rel_kind is_static) (read_index p st0 b)) cost buf s).
Proof.
  intros Hne Hb Hst Hr Hn. unfold data_state_read_ihf_idx.
  apply (wp_on_index (indexed (env s) (hbrc_flags (snd s)) (rel_kind is_static)) {| lp_never := false; lp_name := []; lp_part := [] |}); try done.
  intros v rest used Hv _. hstep. destruct is_static; cbn [rel_kind].
  - destruct s as [dec c]. eapply wp_mono; [apply (wp_static_entry max rel t); lia|]. cbn beta. intros r s1 H.
    unfold indexed. cbn [mbind option_bind ref_field]. unfold static_field. destruct H as [[Hlt Hd]|(Hge & -> & ->)].
    + rewrite (proj2 (Z.ltb_lt _ _)) by lia. cbn [mbind option_bind].
      destruct s1 as [dec1 c1]. pose proof Hd as (Ec & _). cbn in Ec. subst c1.
      apply (wp_delivered (static_line v) r _ _ _ c (dec, c) (dec1, c)); [done..|by left].
    + rewrite (proj2 (Z.ltb_ge _ _)) by lia. cbn [mbind option_bind]. apply wp_return_error; [apply advanced_refl|done|by intros].
  - hstep. apply wp_from_base. hstep. destruct s as [dec c]. eapply wp_mono; [by apply (wp_dynamic_entry max rel t)|].
    cbn beta. intros r [dec1 c1] H. hstep. apply wp_check_dyn. hstep. by apply (wp_dyn_done _ r _ _ (dec, c) (dec1, c1)).
Qed.

Lemma wp_ipbi p st0 buf s cost :
  buf <> [] -> is_bytes buf -> int_start p st0 -> reading max rel (fst s) t -> no_header (snd s) ->
  wp (data_state_read_ipbi_idx bufsz p st0 buf) s
    (post (fun b => indexed (env s) (hbrc_flags (snd s)) RefPost (read_index p st0 b)) cost buf s).
Proof.
  intros Hne Hb Hst Hr Hn. unfold data_state_read_ipbi_idx.
  apply (wp_on_index (indexed (env s) (hbrc_flags (snd s)) RefPost) {| lp_never := false; lp_name := []; lp_part := [] |}); try done.
  intros v rest used Hv _. hstep. apply wp_past_base. hstep. destruct s as [dec c].
  eapply wp_mono; [by apply (wp_dynamic_entry max rel t)|].
  cbn beta. intros r [dec1 c1] H. hstep. apply wp_check_dyn. by apply (wp_dyn_done _ r _ _ (dec, c) (dec1, c1)).
Qed.

(** ** Lines with a name reference *)

Lemma wp_dynamic_nameref id never l1 l2 rest s :
  reading max rel (fst s) t -> no_header (snd s) ->
  wp (dynamic_nameref bufsz id never l1 l2 rest) s
    (post (fun b => '(f, flags) ← (f ← le_look (env s) id; Some (f, ref_flags (hbrc_largest_ref (snd s)) (hbrc_flags (snd s)) id));
           with_value never (fst f) flags (read_str 7 b)) 64 rest s).
Proof.
  intros Hr Hn. unfold dynamic_nameref. destruct s as [dec c]. hsteps. cbn [fst snd] in *.
  pose proof (reading_look max rel t dec id Hr) as Hl. cbn [env env_of le_look fst].
  destruct (qdec_get_table_entry_abs _ id) as [p|] eqn:Hid.
  - destruct Hl as (e & _ & _ & Hl). rewrite Hl. cbn [mbind option_bind]. hstep. apply wp_check_dyn. hstep.
    eapply wp_mono; [by apply (wp_begin_dynamic max rel t id p (dte_nameval e))|]. cbn beta.
    intros ok s1 (Ho & Hlog & Hm).
    assert (hbrc_flags (snd s1) = hbrc_flags (referred id c)) as Hfl by by apply only_out_flags in Ho.
    apply only_out_advanced in Ho.
    assert (advanced (dec, c) s1) as Ha by (eapply advanced_trans; [apply advanced_referred|exact Ho]).
    unfold check. destruct ok.
    + destruct Hm as [h Hv]. eapply (wp_go {| lp_never := never; lp_name := fst (dte_nameval e); lp_part := [] |} _ []); try done.
      * by apply (advanced_reading (dec, c)).
      * exists h. rewrite (qu_opts _ _ _ _ _ (proj1 Ha)). done.
      * intros r _. unfold rest_of. cbn [line_rest lp_never lp_name].
        by rewrite Hfl.
      * cbn [line_cost]. lia.
    + apply wp_return_error; [done|done|]. intros r l fl b _ E Hw Hok. specialize (Hm Hw).
      apply with_value_inv in E as (v & _ & -> & _). destruct Hok as [_ Hok]. unfold LSXPACK_MAX_STRLEN in Hm.
      cbn [hl_field fst snd dte_nameval] in *. lia.
  - rewrite Hl. apply wp_return_error; [apply advanced_refl|done|by intros].
Qed.

Lemma wp_lfinr p is_static never st0 buf s cost :
  buf <> [] -> is_bytes buf -> int_start p st0 -> reading max rel (fst s) t -> no_header (snd s) ->
  wp (data_state_read_lfinr_idx bufsz p is_static never st0 buf) s
    (post (fun b => nameref (env s) (hbrc_flags (snd s)) (rel_kind is_static) never (read_index p st0 b)) cost buf s).
Proof.
  intros Hne Hb Hst Hr Hn. unfold data_state_read_lfinr_idx.
  apply (wp_on_index (nameref (env s) (hbrc_flags (snd s)) (rel_kind is_static) never)
    {| lp_never := false; lp_name := []; lp_part := [] |}); try done.
  intros v rest used Hv _. unfold nameref. cbn [mbind option_bind]. destruct is_static; cbn [rel_kind ref_field].
  - hstep. destruct s as [dec c]. eapply wp_mono; [apply (wp_begin_static max rel t); [done|lia]|]. cbn beta.
    intros ok s1 (Ho & Hlog & Hm). pose proof (only_out_flags _ _ Ho) as Hfl. apply only_out_advanced in Ho.
    unfold check, static_field. destruct ok.
    + destruct Hm as (Hlt & h & Hv'). rewrite (proj2 (Z.ltb_lt _ _)) by lia. cbn [mbind option_bind fst].
      eapply (wp_go {| lp_never := never; lp_name := ste_name (ste_at v); lp_part := [] |} _ []); try done.
      * by apply (advanced_reading (dec, c)).
      * exists h. by rewrite (qu_opts _ _ _ _ _ (proj1 Ho)).
      * intros r _. unfold rest_of. cbn [line_rest lp_never lp_name]. by rewrite Hfl.
      * cbn [line_cost]. lia.
    + apply wp_return_error; [done|done|]. intros r l fl b _ E Hw Hok. destruct Hm as [Hge|Hw']; [|done].
      by rewrite (proj2 (Z.ltb_ge _ _)) in E by lia.
  - hstep. apply wp_from_base. by apply wp_dynamic_nameref.
Qed.

Lemma wp_lfpbnr p never st0 buf s cost :
  buf <> [] -> is_bytes buf -> int_start p st0 -> reading max rel (fst s) t -> no_header (snd s) ->
  wp (data_state_read_lfpbnr_idx bufsz p never st0 buf) s
    (post (fun b => nameref (env s) (hbrc_flags (snd s)) RefPost never (read_index p st0 b)) cost buf s).
Proof.
  intros Hne Hb Hst Hr Hn. unfold data_state_read_lfpbnr_idx.
  apply (wp_on_index (nameref (env s) (hbrc_flags (snd s)) RefPost never)
    {| lp_never := false; lp_name := []; lp_part := [] |}); try done.
  intros v rest used Hv _. hstep. apply wp_past_base. by apply wp_dynamic_nameref.
Qed.
End data.
