(* ===== verification/DecText.v ===== *)
(** * The strings of a field line

    The rounds that read the length and the bytes of a name or a value, in the header
    that is being composed. *)

From stdpp Require Import gmap.
From S2P Require Import Prelude Monad IntCodec HuffTables Huffman HuffStream StrCodec Xxhash.
From S2P Require Import StaticTable Ringbuf Rfc9204 EncTable EncEncode DecTable DecState DecStream.
From S2P Require Import DecSpec DecBlocked DecStrings DecReading DecCore DecRounds DecWinr DecHeader DecParse.
From S2P Require Import DecHset DecOut DecCompose DecWrite DecLine DecBegin DecData.

Section text.
Context {hset : Type} `{!HsetIf hset} `{!HsetOk hset}.
Variables (max : Z) (rel : bool) (t : dyn_table) (bufsz : Z).

Implicit Types (dec : lsqpack_dec hset) (c : header_block_read_ctx) (h : dec_header).
Implicit Types (s : lsqpack_dec hset * header_block_read_ctx).

Local Abbreviation only_out := (only_out max rel t).
Local Abbreviation advanced := (advanced max rel t).
Local Abbreviation post := (line_post max rel t).
Local Abbreviation rest_of := (rest_of t).

(** ** The two strings *)

(** [named] tells whether the name or the value is being read.  [text_of] is
    [name_of] or [value_of]; [text_line] is the rest of the line after the string;
    [write_text] is [header_out_write_name] or [header_out_write_value]. *)
Definition text_name (named : bool) (g : line_part) : option bytes := if named then Some (lp_name g) else None.

Definition text_of (named : bool) (opts : Z) (g : line_part) c h : Prop :=
  composing opts (lp_never g) (text_name named g) (lp_part g) c h /\ at_end (lp_part g) c.

Definition text_line (named : bool) (g : line_part) (flags : Z) (r : option (bytes * bytes)) : line_result :=
  if named then with_value (lp_never g) (lp_name g) flags r else literal (lp_never g) flags r.

Definition write_text (named : bool) (n : Z) (fin : bool) : st_m (lsqpack_dec hset * header_block_read_ctx) bool :=
  if named then header_out_write_value n fin else header_out_write_name n fin.

Definition text_huff (named : bool) : Z -> huff_decode_state -> data_state :=
  if named then DATA_STATE_READ_VAL_HUFFMAN else DATA_STATE_READ_NAME_HUFFMAN.

Definition text_plain (named : bool) : Z -> data_state :=
  if named then DATA_STATE_READ_VAL_PLAIN else DATA_STATE_READ_NAME_PLAIN.

Definition text_next (named : bool) : data_state :=
  if named then DATA_STATE_NEXT_INSTRUCTION else DATA_STATE_BEGIN_READ_VAL_LEN.

Definition with_part (g : line_part) (part : bytes) : line_part :=
  {| lp_never := lp_never g; lp_name := lp_name g; lp_part := part |}.

(** The length of a string bounds what it decodes to. *)
Lemma rest_str_long (hf : bool) n b v rest k :
  0 <= n -> rest_str hf n b = Some (v, rest) -> 30 * k + 7 < 8 * n -> k < Z.of_nat (length v).
Proof. intros Hn Hs Hk. pose proof (rest_str_code _ _ _ _ _ Hn Hs). lia. Qed.

Lemma text_line_inv named g flags r line fl b :
  text_line named g flags r = Some (line, fl, b) ->
  exists v b', r = Some (v, b') /\ (if named then line = {| hl_never := lp_never g; hl_field := (lp_name g, v) |}
                                    else fst (hl_field line) = v).
Proof.
  unfold text_line. destruct named.
  - intros (v & -> & -> & _)%with_value_inv. by exists v, b.
  - unfold literal. destruct r as [[v b']|]; [|done]. cbn. intros (v' & _ & -> & _)%with_value_inv. by exists v, b'.
Qed.

(** A string of more than 10000 bytes is too long for either. *)
Lemma text_too_long named g flags (hf : bool) n b line fl rest :
  0 <= n -> 300007 < 8 * n -> text_line named g flags (rest_str hf n b) = Some (line, fl, rest) -> declined line.
Proof.
  intros Hn Hbig E _ [_ Hok]. apply text_line_inv in E as (v & b' & Hs & Hv).
  pose proof (rest_str_long _ _ _ _ _ 10000 Hn Hs ltac:(lia)) as Hl.
  destruct named; [subst line; cbn [hl_field fst snd] in Hok|rewrite Hv in Hok]; lia.
Qed.

(** ** The end of a string *)

(** [ok] is the result of [write_text] at the end of a string whose bytes are [v]. *)
Definition text_done (named : bool) (opts : Z) (g : line_part) (v : bytes) s (ok : bool) s' : Prop :=
  only_out s s' /\
  if named then
    let line := {| hl_never := lp_never g; hl_field := (lp_name g, v) |} in
    if ok then hbrc_out (snd s') = no_out
      /\ exists h, log s' = log s ++ [(hbrc_hblock (snd s), h)] /\ shows (http1x_opt (fst s)) line h
    else log s' = log s /\ declined line
  else log s' = log s /\
    if ok then exists h, value_of opts {| lp_never := lp_never g; lp_name := v; lp_part := [] |} (snd s') h
    else app_willing -> LSXPACK_MAX_STRLEN < Z.of_nat (length v) + 2.

Lemma wp_write_done named n g v c h dec :
  composing (qpd_opts dec) (lp_never g) (text_name named g) v c h ->
  out_off (hbrc_out c) + n = Z.of_nat (length v) -> 0 <= n ->
  wp (write_text named n true) (dec, c) (text_done named (qpd_opts dec) g v (dec, c)).
Proof.
  intros Hc Hoff Hn. unfold write_text, text_done. destruct named; unfold header_out_write_value, header_out_write_name; hstep.
  - eapply wp_wrote; [exact Hc|done|done|]. intros c1 (o & m & E) Hc1 He1. hstep.
    eapply wp_cur_xhdr; [exact Hc1|]. eapply wp_mono; [apply (wp_value_done max rel t); [exact Hc1|exact He1]|].
    cbn beta. intros ok s1 [Ho Hm]. rewrite E in *. split.
    + eapply only_out_trans; [|exact Ho]. apply only_out_set, only_out_refl.
    + exact Hm.
  - eapply wp_wrote; [exact Hc|done|done|]. intros c1 (o & m & E) Hc1 He1. hstep.
    eapply wp_cur_xhdr; [exact Hc1|]. eapply wp_mono; [apply (wp_name_done max rel t); [exact Hc1|exact He1]|].
    cbn beta. intros ok s1 (Ho & Hl & Hm). rewrite E in *. split.
    + eapply only_out_trans; [|exact Ho]. apply only_out_set, only_out_refl.
    + split; [exact Hl|]. exact Hm.
Qed.

Lemma text_done_before named opts g v s0 s ok s' :
  only_out s0 s -> log s = log s0 -> text_done named opts g v s ok s' -> text_done named opts g v s0 ok s'.
Proof.
  intros Ho Hl [Ho' Hm]. split; [by eapply only_out_trans|].
  assert (http1x_opt (fst s) = http1x_opt (fst s0)) as Ex by (unfold http1x_opt; by rewrite (only_out_opts _ _ _ _ _ Ho)).
  assert (hbrc_hblock (snd s) = hbrc_hblock (snd s0)) as Eh by (destruct Ho as [_ (o & n & ->)]; done).
  by rewrite <- Hl, <- Ex, <- Eh.
Qed.

(** ... and in the middle of one. *)
Lemma wp_write_more named n g v c h dec (Q : bool -> _ -> Prop) :
  composing (qpd_opts dec) (lp_never g) (text_name named g) v c h ->
  out_off (hbrc_out c) + n = Z.of_nat (length v) -> 0 <= n ->
  (forall c', (exists o m, c' = set_hbrc_out o m c) -> text_of named (qpd_opts dec) (with_part g v) c' h -> Q true (dec, c')) ->
  wp (write_text named n false) (dec, c) Q.
Proof.
  intros Hc Hoff Hn HQ. unfold write_text.
  destruct named; unfold header_out_write_value, header_out_write_name; hstep;
    (eapply wp_wrote; [exact Hc|done|done|]; intros c1 E Hc1 He1; hstep; by apply HQ).
Qed.

(** The round after the end of a string. *)
Lemma wp_text_end named g v l2 err_rest used rest rd flags cost buf ok s s1 :
  text_done named (qpd_opts (fst s)) g v s ok s1 -> reading max rel (fst s) t -> buf = used ++ rest ->
  hbrc_flags (snd s) = flags ->
  (forall r, is_bytes r -> rd (buf ++ r) = text_line named g flags (Some (v, rest ++ r))) ->
  (64 * length rest < 64 * length buf + cost)%nat ->
  wp (check bufsz ok l2 err_rest (go (text_next named) rest)) s1 (post rd cost buf s).
Proof.
  intros [Ho Hm] Hr E Hf Hrd Hc. pose proof (only_out_flags _ _ _ _ _ Ho) as Hfl. apply only_out_advanced in Ho.
  pose proof (advanced_reading _ _ _ _ _ Ho Hr) as Hr1. unfold check. destruct named; cbn [text_next].
  - destruct ok.
    + destruct Hm as (Hout & h & Hl & Hs). eapply (wp_go_next max rel t _ h flags used); try done; [|congruence].
      unfold no_header. by rewrite Hout.
    + destruct Hm as [Hl Hd]. apply wp_return_error; [done|done|]. intros r line fl b Hb. rewrite Hrd by done.
      cbn. by intros [= <- _ _].
  - destruct Hm as [Hl Hm]. destruct ok.
    + destruct Hm as [h Hv]. eapply (wp_go max rel t {| lp_never := lp_never g; lp_name := v; lp_part := [] |} _ used); try done.
      * exists h. by rewrite (qu_opts _ _ _ _ _ (proj1 Ho)).
      * intros r Hb. rewrite Hrd by done. unfold rest_of. cbn [text_line literal mbind option_bind line_rest lp_never lp_name].
        by rewrite Hfl, Hf.
      * cbn [line_cost]. lia.
    + apply wp_return_error; [done|done|]. intros r line fl b Hb. rewrite Hrd by done. intros Hx Hw [_ Hok].
      specialize (Hm Hw). apply text_line_inv in Hx as (v' & b' & [= <- _] & Hv). rewrite Hv in Hok.
      unfold LSXPACK_MAX_STRLEN in Hm. lia.
Qed.

(** ** The length of a string *)

Lemma huff_left_fresh n : 0 <= n < 2 ^ 24 -> huff_left n huff_fresh [].
Proof.
  intros Hn. exists n, 0. split; [lia|]. split; [lia|]. apply huff_reading_fresh. lia.
Qed.

(** The room asked for a string is that of a string of allowed length. *)
Lemma room_large n (hf : bool) k :
  0 <= n < 2 ^ 24 -> 0 <= k <= 10002 -> LSXPACK_MAX_STRLEN < k + (if hf then u32 (n + n / 2) else n) ->
  30 * (10004 - k) + 7 < 8 * n.
Proof.
  intros Hn Hk. change (2 ^ 24) with 16777216 in *. unfold LSXPACK_MAX_STRLEN. destruct hf; [|lia].
  assert (0 <= n / 2 <= n) by dlia. rewrite u32_id by ulia. dlia.
Qed.

Lemma wp_name_len p never hf st0 buf s cost :
  buf <> [] -> is_bytes buf -> int_start p st0 -> reading max rel (fst s) t -> no_header (snd s) ->
  wp (data_state_read_lfonr_name_len bufsz p never hf st0 buf) s
    (post (fun b => literal never (hbrc_flags (snd s)) (rest_len_str hf p st0 b)) cost buf s).
Proof.
  intros Hne Hb Hst Hr Hn. unfold data_state_read_lfonr_name_len.
  set (g := {| lp_never := never; lp_name := []; lp_part := [] |}).
  apply (wp_on_int24 max rel t bufsz g p st0 _ _ _ _ _ _
    (fun n b => text_line false g (hbrc_flags (snd s)) (rest_str hf n b))); try done.
  - intros b. unfold rest_len_str. by destruct (read_int_at p st0 b) as [[n b']|].
  - intros st' Hp. split; [done|]. split; [done|]. intros b. unfold rest_of, rest_len_str. cbn [line_rest].
    unfold rest_len_str. by destruct (read_int_at 0 st' b) as [[n b']|].
  - intros n b line flags rest Hn'. apply text_too_long; change (2 ^ 24) with 16777216 in *; lia.
  - intros v rest used Hv E. rewrite Z.gtb_ltb. unfold LSXPACK_MAX_STRLEN at 1. destruct (Z.ltb_spec 65535 v) as [Hbig|Hsmall].
    { apply wp_return_error; [apply advanced_refl|done|]. intros r line flags b _. apply text_too_long; lia. }
    hstep. destruct s as [dec c]. eapply wp_mono; [by apply (wp_begin_literal max rel t)|]. cbn beta.
    intros ok s1 (Ho & Hl & Hm). pose proof (only_out_flags _ _ _ _ _ Ho) as Hfl.
    pose proof (only_out_opts _ _ _ _ _ Ho) as Eo. apply only_out_advanced in Ho.
    pose proof (advanced_reading _ _ _ _ _ Ho Hr) as Hr1. unfold check. destruct ok.
    + destruct Hm as (h & Hnm & Hsp). cbn [fst] in Eo. rewrite <- Eo in Hnm. destruct hf.
      * eapply (wp_go max rel t g _ []); try done.
        -- exists h. split; [done|]. split; [by apply huff_left_fresh|done].
        -- intros r _. unfold rest_of. cbn [line_rest g lp_never lp_part]. by rewrite Hfl.
        -- cbn [line_cost]. pose proof (huff_cost_max (room (snd s1)) huff_fresh). lia.
      * eapply (wp_go max rel t g _ []); try done.
        -- exists h. split; [done|]. cbn [g lp_part length]. split; [lia|]. split; [lia|done].
        -- intros r _. unfold rest_of. cbn [line_rest g lp_never lp_part]. by rewrite Hfl.
        -- cbn [line_cost]. lia.
    + apply wp_return_error; [done|done|]. intros r line flags b _ Hx Hw. specialize (Hm Hw).
      apply text_line_inv in Hx as Hx'. destruct Hx' as (nm & b' & Hs & Hnm). intros [_ Hok]. rewrite Hnm in Hok.
      pose proof (room_large v hf 4 Hv ltac:(lia) ltac:(lia)).
      pose proof (rest_str_long _ _ _ _ _ 10000 (proj1 Hv) Hs). lia.
Qed.

(** Room for the value. *)
Lemma wp_val_room n (hf : bool) l2 st rest g h s :
  value_of (qpd_opts (fst s)) g (snd s) h -> lp_part g = [] -> reading max rel (fst s) t ->
  0 < n < 2 ^ 24 ->
  let extra := if hf then u32 (n + n / 2) else n in
  (forall c' h', value_of (qpd_opts (fst s)) g c' h' ->
     Z.of_nat (length (composed (has_bits (qpd_opts (fst s)) LSQPACK_DEC_OPT_HTTP1X) (Some (lp_name g)) [])) + extra
     <= dh_val_len h' -> line_state_ok (qpd_opts (fst s)) g c' st) ->
  (forall E flags b, line_rest E flags g st b = text_line true g flags (rest_str hf n b)) ->
  (forall c', (line_cost c' st <= 53)%nat) -> st <> DATA_STATE_NEXT_INSTRUCTION ->
  wp (ok ← guarantee_out_bytes extra; check bufsz ok l2 rest (go st rest)) s
    (post (fun b => text_line true g (hbrc_flags (snd s)) (rest_str hf n b)) 64 rest s).
Proof.
  intros [Hc He] Hp Hr Hn extra Hok Hrest Hcost Hnn. rewrite Hp in Hc, He. hstep. destruct s as [dec c].
  eapply wp_mono; [by apply (wp_guarantee max rel t extra (qpd_opts dec) (lp_never g) (lp_name g) [] c h dec)|]. cbn beta.
  intros ok s1 (Ho & Hl & Hm). pose proof (only_out_flags _ _ _ _ _ Ho) as Hfl.
  pose proof (only_out_opts _ _ _ _ _ Ho) as Eo. apply only_out_advanced in Ho.
  pose proof (advanced_reading _ _ _ _ _ Ho Hr) as Hr1. unfold check. cbn [fst snd] in *. destruct ok.
  - destruct Hm as (h' & Hc' & He' & Hsp). eapply (wp_go max rel t g _ []); try done.
    + rewrite Eo. apply (Hok _ h'); [|done]. split; by rewrite Hp.
    + intros r _. unfold rest_of. by rewrite Hrest, Hfl.
    + specialize (Hcost (snd s1)). lia.
  - apply wp_return_error; [done|done|]. intros r line flags b _ Hx Hw. specialize (Hm Hw).
    apply text_line_inv in Hx as (nm & b' & Hs & ->). intros [_ Hle]. cbn [hl_field fst snd] in Hle.
    cbn [composed] in Hm. rewrite app_nil_r, length_app, Nat2Z.inj_add, length_separator in Hm.
    set (k := Z.of_nat (length (lp_name g)) + (if has_bits (qpd_opts dec) LSQPACK_DEC_OPT_HTTP1X then 2 else 0)) in *.
    assert (0 <= k <= Z.of_nat (length (lp_name g)) + 2) as Hk by (unfold k; destruct (has_bits _ _); lia).
    pose proof (room_large n hf k ltac:(lia) ltac:(lia) Hm).
    pose proof (rest_str_long hf n _ _ _ (10004 - k) ltac:(lia) Hs ltac:(lia)). lia.
Qed.

Lemma wp_val_len p hf st0 g h buf s cost :
  buf <> [] -> is_bytes buf -> int_start p st0 -> reading max rel (fst s) t ->
  value_of (qpd_opts (fst s)) g (snd s) h -> lp_part g = [] ->
  wp (data_state_read_val_len bufsz p hf st0 buf) s
    (post (fun b => with_value (lp_never g) (lp_name g) (hbrc_flags (snd s)) (rest_len_str hf p st0 b)) cost buf s).
Proof.
  intros Hne Hb Hst Hr Hv Hpart. unfold data_state_read_val_len.
  apply (wp_on_int24 max rel t bufsz g p st0 _ _ _ _ _ _
    (fun n b => text_line true g (hbrc_flags (snd s)) (rest_str hf n b))); try done.
  - intros b. unfold rest_len_str. by destruct (read_int_at p st0 b) as [[n b']|].
  - intros st' Hp. split; [split; [by exists h|done]|]. split; [done|]. intros b. unfold rest_of, rest_len_str. cbn [line_rest].
    unfold rest_len_str. by destruct (read_int_at 0 st' b) as [[n b']|].
  - intros n b line flags rest Hn'. apply text_too_long; change (2 ^ 24) with 16777216 in *; lia.
  - intros v rest used Hvr E. rewrite Z.gtb_ltb. unfold LSXPACK_MAX_STRLEN at 1. destruct (Z.ltb_spec 65535 v) as [Hbig|Hsmall].
    { apply wp_return_error; [apply advanced_refl|done|]. intros r line flags b _. apply text_too_long; lia. }
    destruct (Z.eqb_spec v 0) as [->|Hv0]; cbn [negb].
    + destruct Hv as [Hc He]. rewrite Hpart in *. destruct s as [dec c]. cbn [fst snd] in *.
      hstep. eapply wp_mono; [apply (wp_write_done true 0 g [] c h dec); [exact Hc|by rewrite He|done]|]. cbn beta.
      intros ok s1 Hd. apply (wp_text_end true g [] _ _ [] _ _ (hbrc_flags c) _ _ _ (dec, c)); try done; [|lia].
      intros r _. by rewrite rest_str_0.
    + destruct hf.
      * apply (wp_val_room v true _ _ _ g h); try done; [lia| | |].
        -- intros c' h' Hv' Hsp. exists h'. split; [done|]. rewrite Hpart. split; [by apply huff_left_fresh|lia].
        -- intros E' fl b. cbn [line_rest]. by rewrite Hpart.
        -- intros c'. apply huff_cost_max.
      * apply (wp_val_room v false _ _ _ g h); try done; [lia| | |].
        -- intros c' h' Hv' Hsp. exists h'. split; [done|]. rewrite Hpart. split; lia.
        -- intros E' fl b. cbn [line_rest]. by rewrite Hpart.
        -- intros c'. cbn. lia.
Qed.

(** ** Plain strings *)

(** A string without bytes is read on, and then refused, only as a name. *)
Lemma empty_name g flags b line fl rest v :
  v = [] -> text_line false g flags (Some (v, b)) = Some (line, fl, rest) -> declined line.
Proof.
  intros -> E _ [Hne _]. apply text_line_inv in E as (v' & b' & [= <- _] & Hv). by rewrite Hv in Hne.
Qed.

Lemma wp_plain_round named todo g h buf s l1 l2 l3 cost :
  buf <> [] -> is_bytes buf -> Z.of_nat (length buf) < 2 ^ 32 -> reading max rel (fst s) t ->
  text_of named (qpd_opts (fst s)) g (snd s) h -> 0 <= todo -> (todo = 0 -> named = false /\ lp_part g = []) ->
  Z.of_nat (length (composed (has_bits (qpd_opts (fst s)) LSQPACK_DEC_OPT_HTTP1X) (text_name named g) (lp_part g)))
    + todo <= dh_val_len h ->
  wp (plain_round bufsz todo buf (write_text named) (text_plain named) (text_next named) l1 l2 l3) s
    (post (fun b => text_line named g (hbrc_flags (snd s)) (rest_plain todo (lp_part g) b)) cost buf s).
Proof.
  intros Hne Hb Hlen Hr [Hc He] Htodo H0 Hroom. unfold plain_round. destruct s as [dec c]. cbn [fst snd] in *.
  change (2 ^ 32) with 4294967296 in *. rewrite u32_id by ulia.
  assert (0 < length buf)%nat as Hpos by (destruct buf; [done|cbn; lia]).
  pose proof (sp_len _ (cp_space _ _ _ _ _ _ Hc)) as Hvl. unfold LSXPACK_MAX_STRLEN in Hvl.
  set (size := Z.min (Z.of_nat (length buf)) todo). destruct (Z.eqb_spec size 0) as [Hs0|Hs0].
  { apply wp_return_error; [apply advanced_refl|done|]. intros r line fl b _. destruct H0 as [-> Hp]; [lia|].
    replace todo with 0 by lia. rewrite plain_done. by apply empty_name. }
  hstep. eapply wp_get_dst; [exact Hc|exact He|]. cbn beta iota zeta. rewrite Z.gtb_ltb.
  set (n := Z.of_nat (length (composed _ _ _))) in *. destruct (Z.ltb_spec (dh_val_len h - n) size); [lia|].
  hstep. eapply wp_cur_xhdr; [exact Hc|]. set (src := take (Z.to_nat size) buf).
  assert (Z.of_nat (length src) = size) as Hsl by (unfold src; rewrite length_take; lia).
  apply (wp_put_part (qpd_opts dec) (lp_never g) (text_name named g) (lp_part g) src c h dec); [done|fold n; lia|by apply is_bytes_take|].
  intros c1 h1 (o & m & E1) Hc1 Ho1 Hv1. unfold at_end in He. rewrite He in Ho1.
  assert (buf = src ++ drop (Z.to_nat size) buf) as Hbuf by (unfold src; by rewrite take_drop).
  assert (only_out (dec, c) (dec, c1)) as Hoo by (rewrite E1; apply only_out_set, only_out_refl).
  assert (forall r, rest_plain todo (lp_part g) (buf ++ r)
    = rest_plain (todo - size) (lp_part g ++ src) (drop (Z.to_nat size) buf ++ r)) as Hrest
    by (intros r; apply plain_step; lia).
  hstep. rewrite u32_id by ulia. destruct (Z.eqb_spec todo size) as [Hend|Hmore].
  - eapply wp_mono; [apply (wp_write_done named size g (lp_part g ++ src) c1 h1 dec); [done|rewrite length_app; lia|lia]|].
    cbn beta zeta. intros ok s1 Hd. rewrite (proj2 (Z.eqb_eq (todo - size) 0)) by lia.
    apply (text_done_before _ _ _ _ (dec, c)) in Hd; [|done..].
    apply (wp_text_end named g (lp_part g ++ src) _ _ src (drop (Z.to_nat size) buf) _ (hbrc_flags c) _ _ _ (dec, c)); try done.
    + intros r _. by rewrite Hrest, Hend, Z.sub_diag, plain_done.
    + rewrite length_drop. lia.
  - eapply (wp_write_more named size g (lp_part g ++ src)); [done|rewrite length_app; lia|lia|].
    intros c2 (o2 & m2 & E2) Ht2. cbn [check]. rewrite (proj2 (Z.eqb_neq (todo - size) 0)) by lia.
    assert (only_out (dec, c) (dec, c2)) as Hoo2 by (rewrite E2; by apply only_out_set).
    unfold check. eapply (wp_go max rel t (with_part g (lp_part g ++ src)) _ src); [by apply only_out_advanced|done|done| |done| | |by destruct named].
    + cbn [fst snd]. destruct named; exists h1; (split; [exact Ht2|]).
      * split; [lia|]. rewrite Hv1. cbn [with_part lp_name lp_part composed]. subst n. cbn [text_name composed] in Hroom.
        rewrite app_assoc, length_app, Nat2Z.inj_add, Hsl. lia.
      * cbn [with_part lp_part]. subst n. cbn [text_name composed] in Hroom. rewrite length_app, Nat2Z.inj_add, Hsl.
        split; [lia|]. split; [lia|]. intros. lia.
    + intros r _. rewrite Hrest. unfold rest_of. destruct named; by rewrite E2, E1.
    + rewrite length_drop. destruct named; cbn [line_cost text_plain]; lia.
Qed.

(** ** Huffman-coded strings *)

Lemma wp_huff_out {A} named len nread st g c h dec buf (k : huff_decode_retval * huff_decode_state -> _ A) (Q : A -> _ -> Prop) :
  text_of named (qpd_opts dec) g c h -> huff_reading len nread st (lp_part g) -> len <> 0 -> len < 2 ^ 24 ->
  is_bytes buf -> buf <> [] ->
  let todo := len - nread in
  let size := Z.min (Z.of_nat (length buf)) todo in
  let room := Z.to_nat (dh_val_len h
    - Z.of_nat (length (composed (has_bits (qpd_opts dec) LSQPACK_DEC_OPT_HTTP1X) (text_name named g) (lp_part g)))) in
  (forall hdr st' c' h', huff_step_spec len nread st (lp_part g) buf room hdr st' ->
     (exists o m, c' = set_hbrc_out o m c) -> out_off (hbrc_out c') = Z.of_nat (length (lp_part g)) ->
     dh_val_len h' = dh_val_len h ->
     composing (qpd_opts dec) (lp_never g) (text_name named g) (lp_part g ++ hdr_out hdr) c' h' ->
     wp (k (hdr, st')) (dec, c') Q) ->
  wp (x ← huff_out size buf st (todo =? size); k x) (dec, c) Q.
Proof.
  intros [Hc He] Hrd Hlen0 Hlen24 Hb Hne todo size room HQ. unfold huff_out. hstep. hstep.
  eapply wp_get_dst; [exact Hc|exact He|]. cbn beta iota zeta. fold room.
  pose proof (cp_fits _ _ _ _ _ _ Hc) as Hf. pose proof (cp_space _ _ _ _ _ _ Hc) as Hsp.
  set (n := Z.of_nat (length (composed _ _ _))) in *. pose proof (hr_len _ _ _ _ Hrd) as Hnr.
  assert (0 < length buf)%nat as Hpos by (destruct buf; [done|cbn; lia]).
  assert (nread < len) as Hlt by (destruct (hr_end _ _ _ _ Hrd) as [?|[? _]]; lia).
  destruct (huff_step len nread st (lp_part g) buf room Hrd ltac:(done) Hb Hne Hlen24)
    as (hdr & st' & E & [_ Hout Hob] & Hstep).
  assert ((nread + size =? len) = (todo =? size)) as Eq.
  { unfold todo. destruct (Z.eqb_spec (nread + size) len), (Z.eqb_spec (len - nread) size); (done || lia). }
  unfold size, todo in Eq. rewrite Eq in E. hstep. eapply wp_demand; [exact E|]. cbn beta iota.
  hstep. eapply wp_cur_xhdr; [exact Hc|]. hstep. apply wp_assert.
  { destruct Hsp as [Ho _ Hbf _ _]. apply andb_true_intro. split; apply Z.leb_le; lia. }
  apply (wp_put_part (qpd_opts dec) (lp_never g) (text_name named g) (lp_part g) (hdr_out hdr) c h dec); [done|fold n; lia|done|].
  intros c' h' Hc' Hcp Hoff Hvl. hstep. apply (HQ hdr st' c' h'); try done. by rewrite Hoff, He.
Qed.

(** The bytes that were decoded, if any, are counted. *)
Lemma wp_write_some named n g v c h dec (Q : bool -> _ -> Prop) :
  composing (qpd_opts dec) (lp_never g) (text_name named g) v c h ->
  out_off (hbrc_out c) + n = Z.of_nat (length v) -> 0 <= n ->
  (forall c', (exists o m, c' = set_hbrc_out o m c) -> text_of named (qpd_opts dec) (with_part g v) c' h -> Q true (dec, c')) ->
  wp (if negb (n =? 0) then write_text named n false else mret true) (dec, c) Q.
Proof.
  intros Hc Hoff Hn HQ. destruct (Z.eqb_spec n 0) as [->|]; cbn [negb]; [|by eapply wp_write_more].
  hstep. apply HQ; [exists (hbrc_out c), (hbrc_header_count c); symmetry; apply set_out_self|].
  split; [done|]. unfold at_end. cbn [with_part lp_part]. rewrite <- Hoff. lia.
Qed.

(** The next round goes on with the string. *)
Lemma wp_go_huff named st' n st len nread g v used rest buf rd cost h s s0 :
  only_out s0 s -> log s = log s0 -> reading max rel (fst s0) t ->
  text_of named (qpd_opts (fst s0)) (with_part g v) (snd s) h ->
  n = len - nread -> len < 2 ^ 24 -> huff_reading len nread st' v -> 0 < n -> buf = used ++ rest ->
  (forall r, is_bytes r -> rd (buf ++ r) = text_line named g (hbrc_flags (snd s0)) (rest_huff n st' v (rest ++ r))) ->
  (64 * length rest + huff_cost (dh_val_len h
     - Z.of_nat (length (composed (has_bits (qpd_opts (fst s0)) LSQPACK_DEC_OPT_HTTP1X) (text_name named g) v))) st'
   < 64 * length buf + cost)%nat ->
  st = text_huff named n st' ->
  wp (go st rest) s (post rd cost buf s0).
Proof.
  intros Ho Hl Hr Ht Hn Hlen Hrd Hpos E Hrest Hm ->. pose proof (only_out_flags _ _ _ _ _ Ho) as Hfl.
  pose proof (only_out_opts _ _ _ _ _ Ho) as Eo. apply only_out_advanced in Ho.
  eapply (wp_go max rel t (with_part g v) _ used); try done.
  - by apply (advanced_reading _ _ _ _ _ Ho).
  - rewrite Eo. destruct named; exists h; (split; [exact Ht|]); (split; [by exists len, nread|]); [done|lia].
  - intros r Hb. rewrite Hrest by done. unfold rest_of. rewrite Hfl. by destruct named.
  - enough (line_cost (snd s) (text_huff named n st') = huff_cost (dh_val_len h
     - Z.of_nat (length (composed (has_bits (qpd_opts (fst s0)) LSQPACK_DEC_OPT_HTTP1X) (text_name named g) v))) st') as -> by done.
    destruct Ht as [Hc He]. unfold text_huff. assert (room (snd s) = dh_val_len h
      - Z.of_nat (length (composed (has_bits (qpd_opts (fst s0)) LSQPACK_DEC_OPT_HTTP1X) (text_name named g) v))) as Hrm.
    { unfold room. rewrite (cp_hdr _ _ _ _ _ _ Hc), (out_offset_end _ _ _ _ _ _ Hc He). by destruct named. }
    destruct named; cbn [line_cost]; by rewrite Hrm.
  - by destruct named.
Qed.

(** A string that needs more room than there can be is in a line that is too long. *)
Lemma full_declined named g flags http1x n st out b line fl rest (room : nat) :
  40000 <= Z.of_nat (length (composed http1x (text_name named g) out)) + Z.of_nat room ->
  (forall v b', rest_huff n st out b = Some (v, b') -> (length out + room <= length v)%nat) ->
  text_line named g flags (rest_huff n st out b) = Some (line, fl, rest) -> declined line.
Proof.
  intros Hbig Hlong E _ [_ Hok]. apply text_line_inv in E as (v & b' & Hlen%Hlong & Hv).
  destruct named; cbn [text_name composed] in Hbig.
  - subst line. cbn [hl_field fst snd] in Hok. rewrite !length_app in *. destruct http1x; cbn in Hbig; lia.
  - rewrite Hv in Hok. lia.
Qed.

Lemma wp_huff_round named todo st g h buf s l1 l2 l3 l4 l5 l6 :
  buf <> [] -> is_bytes buf -> Z.of_nat (length buf) < 2 ^ 32 -> reading max rel (fst s) t ->
  text_of named (qpd_opts (fst s)) g (snd s) h -> huff_left todo st (lp_part g) -> (todo = 0 -> named = false) ->
  wp (huff_round bufsz todo st buf (write_text named) (text_huff named) (text_next named) l1 l2 l3 l4 l5 l6) s
    (post (fun b => text_line named g (hbrc_flags (snd s)) (rest_huff todo st (lp_part g) b))
       (huff_cost (dh_val_len h - Z.of_nat (length
          (composed (has_bits (qpd_opts (fst s)) LSQPACK_DEC_OPT_HTTP1X) (text_name named g) (lp_part g)))) st) buf s).
Proof.
  intros Hne Hb Hblen Hr Ht (len & nread & -> & Hlen & Hrd) H0. unfold huff_round. destruct s as [dec c]. cbn [fst snd] in *.
  change (2 ^ 32) with 4294967296 in *. change (2 ^ 24) with 16777216 in *. rewrite u32_id by ulia.
  assert (0 < length buf)%nat as Hpos by (destruct buf; [done|cbn; lia]). pose proof (hr_len _ _ _ _ Hrd) as Hnr.
  set (size := Z.min (Z.of_nat (length buf)) (len - nread)). destruct (Z.eqb_spec size 0) as [Hs0|Hs0].
  { apply wp_return_error; [apply advanced_refl|done|]. intros r line fl b _.
    assert (len = 0 /\ st = huff_fresh) as [-> ->] by (destruct (hr_end _ _ _ _ Hrd) as [?|?]; [lia|done]).
    destruct (huff_reading_bound _ _ _ _ Hrd) as [_ Hbd]. replace (0 - nread) with 0 in * by lia. rewrite (H0 eq_refl).
    assert (lp_part g = []) as -> by (destruct (lp_part g); [done|cbn in Hbd; lia]).
    change (rest_huff 0 huff_fresh [] ?x) with (rest_str true 0 x). rewrite rest_str_0. by apply empty_name. }
  apply (wp_huff_out named len nread st g c h dec buf); [done|done|lia|done|done|done|].
  intros hdr st' c1 h1 Hstep (o & m & E1) Hoff1 Hvl1 Hc1. cbn beta iota zeta. unfold huff_step_spec in Hstep.
  assert (only_out (dec, c) (dec, c1)) as Hoo by (rewrite E1; apply only_out_set, only_out_refl).
  set (n := Z.of_nat (length (composed _ _ (lp_part g)))) in *.
  assert (Z.of_nat (length (composed (has_bits (qpd_opts dec) LSQPACK_DEC_OPT_HTTP1X) (text_name named g) (lp_part g ++ hdr_out hdr)))
    = n + Z.of_nat (length (hdr_out hdr))) as Hn1.
  { unfold n, composed. destruct (text_name named g); rewrite !length_app; lia. }
  pose proof (cp_fits _ _ _ _ _ _ (proj1 Ht)) as Hfit. fold n in Hfit.
  assert (forall n', (n' <= length buf)%nat -> buf = take n' buf ++ drop n' buf) as Hsplit by (intros; by rewrite take_drop).
  destruct (hdr_status hdr).
  - destruct Hstep as (Hrest & Hn & Hnb & Hor & _). rewrite u32_id by ulia. rewrite (proj2 (Z.eqb_eq _ 0)) by lia.
    hstep. eapply wp_mono; [apply (wp_write_done named _ g (lp_part g ++ hdr_out hdr) c1 h1 dec); [done|rewrite length_app; lia|lia]|].
    cbn beta. intros ok s1 Hd. apply (text_done_before _ _ _ _ (dec, c)) in Hd; [|done..].
    apply (wp_text_end named g _ _ _ (take (hdr_n_src hdr) buf) (drop (hdr_n_src hdr) buf) _ (hbrc_flags c) _ _ _ (dec, c) _ Hd); try done.
    + by apply Hsplit.
    + intros r _. by rewrite Hrest.
    + rewrite length_drop. lia.
  - destruct Hstep as (Hrest & Hrd' & Hnb & Hor & Hall). pose proof (hr_len _ _ _ _ Hrd') as Hnr'.
    rewrite u32_id by ulia. hstep. apply (wp_write_some named _ g (lp_part g ++ hdr_out hdr) c1 h1); [done|rewrite length_app; lia|lia|].
    intros c2 (o2 & m2 & E2) Ht2. unfold check.
    eapply (wp_go_huff named st' (len - nread - Z.of_nat (hdr_n_src hdr)) _ len (nread + Z.of_nat (hdr_n_src hdr)) g (lp_part g ++ hdr_out hdr) (take (hdr_n_src hdr) buf));
      [rewrite E2; by apply only_out_set|done|done|exact Ht2|lia|done|done| |by apply Hsplit| | |by destruct named].
    + destruct (hr_end _ _ _ _ Hrd') as [?|[? _]]; lia.
    + intros r _. rewrite Hrest. do 2 f_equal. lia.
    + rewrite length_drop. match goal with |- context [huff_cost ?r st'] => pose proof (huff_cost_max r st') end. lia.
  - destruct Hstep as (Hrest & Hrd' & Hnb & Hor & Hprog & Hroom & Hfilled). pose proof (hr_len _ _ _ _ Hrd') as Hnr'.
    rewrite u32_id by ulia. hstep. apply (wp_write_some named _ g (lp_part g ++ hdr_out hdr) c1 h1); [done|rewrite length_app; lia|lia|].
    intros c2 (o2 & m2 & E2) [Hc2 He2]. unfold check at 1. hstep.
    assert (only_out (dec, c) (dec, c2)) as Hoo2 by (rewrite E2; by apply only_out_set).
    eapply wp_mono; [apply (wp_grow_buf max rel t _ _ _ _ c2 h1 dec Hc2 He2)|].
    cbn beta. change (text_name named (with_part g _)) with (text_name named g). cbn [with_part lp_part]. rewrite Hn1, Hvl1.
    intros ok s3 (Ho3 & Hl3 & Hm3). assert (only_out (dec, c) s3) as Hoo3 by by eapply only_out_trans.
    unfold check. destruct ok.
    + destruct Hm3 as (h3 & Hc3 & He3 & Hgrow).
      eapply (wp_go_huff named st' (len - nread - Z.of_nat (hdr_n_src hdr)) _ len (nread + Z.of_nat (hdr_n_src hdr)) g (lp_part g ++ hdr_out hdr) (take (hdr_n_src hdr) buf) _ _ _ _ h3);
        [done|done|done|by split|lia|done|done| |by apply Hsplit| | |by destruct named].
      * destruct (hr_end _ _ _ _ Hrd') as [?|[? _]]; lia.
      * intros r _. rewrite Hrest. do 2 f_equal. lia.
      * cbn [fst]. rewrite length_drop, Hn1.
        pose proof (huff_cost_grow _ (dh_val_len h3 - (n + Z.of_nat (length (hdr_out hdr)))) _ _ _
          Hprog ltac:(lia) ltac:(intros E0; rewrite E0 in *; cbn [length] in *; rewrite Z.add_0_r in *; lia) ltac:(dlia)). lia.
    + apply wp_return_error; [by apply only_out_advanced|done|]. intros r line fl b _ Hx Hw. specialize (Hm3 Hw).
      eapply (full_declined named g _ (has_bits (qpd_opts dec) LSQPACK_DEC_OPT_HTTP1X) _ _ _ _ _ _ _ (Z.to_nat (dh_val_len h - n)));
        [|exact (Hfilled r)|exact Hx|done]. fold n. unfold LSXPACK_MAX_STRLEN in Hm3. dlia.
  - apply wp_return_error; [by apply only_out_advanced|done|]. intros r line fl b _. rewrite Hstep.
    by destruct named.
Qed.
End text.
