(* ===== verification/DecLoop.v ===== *)
(** * The field lines of a block

    [block_lines] reads a whole sequence of field lines; [block_from] does so from
    the middle of one.  [wp_data_round] is one round of the loop, and [wp_data_loop] says what [parse_header_data] does with a chunk:
    the lines that are complete were delivered, and the rest of the block is read from
    where the chunk ends. *)

From stdpp Require Import gmap.
From S2P Require Import Prelude Monad IntCodec HuffTables Huffman HuffStream StrCodec Xxhash.
From S2P Require Import StaticTable Ringbuf Rfc9204 EncTable EncEncode DecTable DecState DecStream.
From S2P Require Import DecSpec DecBlocked DecStrings DecReading DecCore DecRounds DecWinr DecHeader DecParse.
From S2P Require Import DecHset DecOut DecCompose DecWrite DecLine DecBegin DecData DecText.

(** The length of a string, with what follows, is [rest_len_str]. *)
Lemma read_str_len p b0 src : is_bytes (b0 :: src) -> 1 <= p <= 7 ->
  read_str p (b0 :: src) = rest_len_str (has_bits b0 (Z.shiftl 1 p)) p dec_int_fresh (b0 :: src).
Proof. intros Hb Hp. rewrite has_bits_H by lia. by apply read_str_split. Qed.

Section round.
Context {hset : Type} `{!HsetIf hset} `{!HsetOk hset}.
Variables (max : Z) (rel : bool) (t : dyn_table).

Implicit Types (dec : lsqpack_dec hset) (c : header_block_read_ctx) (h : dec_header).
Implicit Types (s : lsqpack_dec hset * header_block_read_ctx).

Local Abbreviation only_out := (only_out max rel t).
Local Abbreviation advanced := (advanced max rel t).
Local Abbreviation post := (line_post max rel t).
Local Abbreviation rest_of := (rest_of t).
Local Abbreviation ready := (line_ready max rel t).

Lemma wp_data_round bufsz g st b0 src s :
  let buf := b0 :: src in
  is_bytes buf -> Z.of_nat (length buf) < 2 ^ 32 -> ready g st s ->
  wp (data_round bufsz st b0 src) s (post (rest_of g st s) (line_cost (snd s) st) buf s).
Proof.
  intros buf Hb Hlen [Hr _ Hok]. assert (buf <> []) as Hne by done.
  assert (forall p, 1 <= p <= 8 -> int_start p dec_int_fresh) as Hfr by apply int_fresh_start.
  destruct st as [|is_static st|st|is_static never st| |hf st|todo st|todo|never hf st|todo st|todo|never st];
    cbn [data_round line_state_ok line_cost] in *; fold buf.
  - set (rd := rest_of _ _ _). assert (forall r, rd (buf ++ r) = read_line (env t s) (hbrc_flags (snd s)) (buf ++ r)) as Hrd by done.
    destruct (has_bits b0 0x80) eqn:E7; [|destruct (has_bits b0 0x40) eqn:E6; [|destruct (has_bits b0 0x20) eqn:E5;
      [|destruct (has_bits b0 0x10) eqn:E4]]].
    + eapply wp_mono; [apply (wp_ihf max rel t); try done; by apply Hfr|]. intros r s'. apply line_post_ext. intros r' _.
      rewrite Hrd. cbn [read_line buf app]. by rewrite E7.
    + eapply wp_mono; [apply (wp_lfinr max rel t); try done; by apply Hfr|]. intros r s'. apply line_post_ext. intros r' _.
      rewrite Hrd. cbn [read_line buf app]. by rewrite E7, E6.
    + eapply wp_mono; [apply (wp_name_len max rel t); try done; by apply Hfr|]. intros r s'. apply line_post_ext. intros r' _.
      rewrite Hrd. cbn [read_line buf app]. by rewrite E7, E6, E5.
    + eapply wp_mono; [apply (wp_ipbi max rel t); try done; by apply Hfr|]. intros r s'. apply line_post_ext. intros r' _.
      rewrite Hrd. cbn [read_line buf app]. by rewrite E7, E6, E5, E4.
    + eapply wp_mono; [apply (wp_lfpbnr max rel t); try done; by apply Hfr|]. intros r s'. apply line_post_ext. intros r' _.
      rewrite Hrd. cbn [read_line buf app]. by rewrite E7, E6, E5, E4.
  - destruct Hok as [Hn Hp]. apply (wp_ihf max rel t); try done. by apply int_pending_start.
  - destruct Hok as [Hn Hp]. apply (wp_ipbi max rel t); try done. by apply int_pending_start.
  - destruct Hok as [Hn Hp]. apply (wp_lfinr max rel t); try done. by apply int_pending_start.
  - destruct Hok as (h & Hv & Hp). eapply wp_mono; [apply (wp_val_len max rel t _ 7 (has_bits b0 0x80) dec_int_fresh g h); try done; by apply Hfr|].
    intros r s'. apply line_post_ext. intros r' Hr'. unfold rest_of. cbn [line_rest buf app]. f_equal.
    apply read_str_len; [|lia]. by apply (is_bytes_app buf).
  - destruct Hok as [(h & Hv & Hp) Hi]. apply (wp_val_len max rel t _ 0 hf st g h); try done. by apply int_pending_start.
  - destruct Hok as (h & Hv & Hl & Hp). pose proof Hv as [Hc He].
    replace (room (snd s)) with (dh_val_len h
      - Z.of_nat (length (composed (has_bits (qpd_opts (fst s)) LSQPACK_DEC_OPT_HTTP1X) (text_name true g) (lp_part g)))).
    2: { unfold room. by rewrite (cp_hdr _ _ _ _ _ _ Hc), (out_offset_end _ _ _ _ _ _ Hc He). }
    apply (wp_huff_round max rel t _ true todo st g h); try done. lia.
  - destruct Hok as (h & Hv & Hp & Hroom).
    apply (wp_plain_round max rel t _ true todo g h); try done; lia.
  - destruct Hok as [Hn Hp]. apply (wp_name_len max rel t); try done. by apply int_pending_start.
  - destruct Hok as (h & Hv & Hl & Hp). pose proof Hv as [Hc He].
    replace (room (snd s)) with (dh_val_len h
      - Z.of_nat (length (composed (has_bits (qpd_opts (fst s)) LSQPACK_DEC_OPT_HTTP1X) (text_name false g) (lp_part g)))).
    2: { unfold room. by rewrite (cp_hdr _ _ _ _ _ _ Hc), (out_offset_end _ _ _ _ _ _ Hc He). }
    by apply (wp_huff_round max rel t _ false todo st g h).
  - destruct Hok as (h & Hv & Hp & Hroom & H0).
    apply (wp_plain_round max rel t _ false todo g h); try done. auto.
  - destruct Hok as [Hn Hp]. apply (wp_lfpbnr max rel t); try done. by apply int_pending_start.
Qed.
End round.

(** ** Reading lines *)

(** The lines in [buf], the flags being those after the lines before and after these. *)
Inductive block_lines (E : line_env) : Z -> bytes -> list hline -> Z -> Prop :=
  | block_nil flags : block_lines E flags [] [] flags
  | block_cons flags buf line flags1 rest lines flags2 :
      read_line E flags buf = Some (line, flags1, rest) -> block_lines E flags1 rest lines flags2 ->
      block_lines E flags buf (line :: lines) flags2.

Definition block_from (E : line_env) (flags : Z) (g : line_part) (st : data_state) (buf : bytes)
  (lines : list hline) (flags' : Z) : Prop :=
  (st = DATA_STATE_NEXT_INSTRUCTION /\ buf = [] /\ lines = [] /\ flags' = flags)
  \/ exists line flags1 rest lines', line_rest E flags g st buf = Some (line, flags1, rest)
       /\ block_lines E flags1 rest lines' flags' /\ lines = line :: lines'.

Lemma block_from_next E flags g buf lines flags' :
  block_from E flags g DATA_STATE_NEXT_INSTRUCTION buf lines flags' <-> block_lines E flags buf lines flags'.
Proof.
  split.
  - intros [(_ & -> & -> & ->)|(line & fl1 & rest & ls & H1 & H2 & ->)]; [constructor|by econstructor].
  - intros H. destruct H as [flags|flags buf line fl1 rest ls fl2 H1 H2]; [by left|]. right.
    by exists line, fl1, rest, ls.
Qed.

Lemma block_from_nonempty E flags g st buf lines flags' : buf <> [] \/ st <> DATA_STATE_NEXT_INSTRUCTION ->
  block_from E flags g st buf lines flags' <-> exists line flags1 rest lines',
    line_rest E flags g st buf = Some (line, flags1, rest) /\ block_lines E flags1 rest lines' flags'
    /\ lines = line :: lines'.
Proof.
  intros Hne. split; [|by right]. intros [(-> & -> & _)|H]; [by destruct Hne|done].
Qed.

(** The flags at the end of a block that is not refused. *)
Definition flags_ok (flags : Z) : bool :=
  negb (Z.land flags (Z.lor HBRC_LARGEST_REF_SET HBRC_LARGEST_REF_USED) =? HBRC_LARGEST_REF_SET)
  && negb (has_bits flags HBRC_DYN_USED_IN_ERR).

Section loop.
Context {hset : Type} `{!HsetIf hset} `{!HsetOk hset}.
Variables (max : Z) (rel : bool) (t : dyn_table).

Implicit Types (dec : lsqpack_dec hset) (c : header_block_read_ctx) (h : dec_header).
Implicit Types (s : lsqpack_dec hset * header_block_read_ctx).

Local Abbreviation advanced := (advanced max rel t).
Local Abbreviation post := (line_post max rel t).
Local Abbreviation ready := (line_ready max rel t).

(** In the middle of a line there is no line without more bytes. *)
Lemma line_rest_nil E flags g st opts c : line_state_ok opts g c st -> line_rest E flags g st [] = None.
Proof.
  assert (forall p, 1 <= p <= 7 -> read_str p [] = None) as Hs by done.
  destruct st as [|is_static st|st|is_static never st| |hf st|todo st|todo|never hf st|todo st|todo|never st];
    cbn [line_state_ok line_rest]; try done.
  - intros (h & _ & _ & Hpos). unfold rest_huff. cbn [length]. by rewrite (proj2 (Z.ltb_lt _ _)) by (cbn; lia).
  - intros (h & _ & Hpos & _). unfold rest_plain. cbn [length]. by rewrite (proj2 (Z.ltb_lt _ _)) by (cbn; lia).
  - intros _. unfold rest_huff. destruct (_ <? _); [done|]. destruct (huff_finish _ _); [|done]. cbn.
    by rewrite drop_nil.
  - intros _. unfold rest_plain. destruct (_ <? _); [done|]. cbn. by rewrite drop_nil.
Qed.

Definition block_of (g : line_part) (st : data_state) s : bytes -> list hline -> Z -> Prop :=
  block_from (env t s) (hbrc_flags (snd s)) g st.

(** [lines] have been delivered. *)
Definition delivered_lines (lines : list hline) s s' : Prop :=
  exists hs, log s' = log s ++ ((fun h => (hbrc_hblock (snd s), h)) <$> hs)
    /\ Forall2 (shows (http1x_opt (fst s))) lines hs.

Definition chunk_post (g : line_part) (st : data_state) (buf : bytes) s
  (r : lsqpack_read_header_status) s' : Prop :=
  advanced s s' /\ exists lines, delivered_lines lines s s' /\
  match r with
  | LQRHS_NEED => exists g' st', ready g' st' s'
      /\ (0 < hbrc_size (snd s) \/ st' <> DATA_STATE_NEXT_INSTRUCTION)
      /\ forall r all flags, is_bytes r ->
         block_of g st s (buf ++ r) all flags
         <-> exists more, all = lines ++ more /\ block_of g' st' s' r more flags
  | LQRHS_DONE => hbrc_size (snd s) <= 0 /\ block_of g st s buf lines (hbrc_flags (snd s'))
      /\ flags_ok (hbrc_flags (snd s')) = true
      /\ reading max rel (fst s') t /\ no_header (snd s')
  | LQRHS_ERROR => app_willing -> forall r all flags, is_bytes r -> Z.of_nat (length r) = hbrc_size (snd s) ->
      block_of g st s (buf ++ r) all flags -> Forall line_ok all -> flags_ok flags = true -> False
  | LQRHS_BLOCKED => False
  end.

Lemma delivered_nil s s' : log s' = log s -> delivered_lines [] s s'.
Proof. intros E. exists []. split; [by rewrite app_nil_r|constructor]. Qed.

Lemma advanced_hblock s s' : advanced s s' ->
  hbrc_hblock (snd s') = hbrc_hblock (snd s) /\ http1x_opt (fst s') = http1x_opt (fst s) /\ hbrc_size (snd s') = hbrc_size (snd s).
Proof. intros Ha. split_and!; [apply (sb_hblock _ _ (proj2 Ha))|by eapply advanced_http1x|apply (sb_size _ _ (proj2 Ha))]. Qed.

Lemma delivered_app l1 l2 s s1 s2 :
  advanced s s1 -> delivered_lines l1 s s1 -> delivered_lines l2 s1 s2 -> delivered_lines (l1 ++ l2) s s2.
Proof.
  intros Ha (h1 & E1 & F1) (h2 & E2 & F2). destruct (advanced_hblock _ _ Ha) as (Eh & Ex & _). exists (h1 ++ h2).
  rewrite E2, E1, Eh, fmap_app, app_assoc. split; [done|]. apply Forall2_app; [done|]. by rewrite <- Ex.
Qed.

(** A round, and what follows. *)
Lemma chunk_step (pre : list hline) g st buf s g1 st1 rest s1 r s' :
  advanced s s1 -> delivered_lines pre s s1 ->
  (forall r all flags, is_bytes r -> block_of g st s (buf ++ r) all flags
     <-> exists more, all = pre ++ more /\ block_of g1 st1 s1 (rest ++ r) more flags) ->
  chunk_post g1 st1 rest s1 r s' -> chunk_post g st buf s r s'.
Proof.
  intros Ha Hd Heq (Ha' & lines & Hd' & Hm). destruct (advanced_hblock _ _ Ha) as (Eh & Ex & Es).
  split; [by eapply advanced_trans|]. exists (pre ++ lines). split; [by eapply delivered_app|]. rewrite <- Es.
  destruct r; [| |destruct Hm as (g' & st' & Hr & Hsz & Hb); exists g', st'; split; [done|]; split; [done|]|].
  - destruct Hm as (H1 & H2 & H3). split; [done|]. split; [|done].
    specialize (Heq [] (pre ++ lines) (hbrc_flags (snd s')) (Forall_nil_2 _)). rewrite !app_nil_r in Heq. apply Heq.
    by exists lines.
  - done.
  - intros r all flags Hr'. rewrite Heq by done. split.
    + intros (more & -> & (more' & -> & Hb')%Hb); [|done]. exists more'. by rewrite app_assoc.
    + intros (more' & -> & Hb'). exists (lines ++ more'). rewrite app_assoc. split; [done|]. apply Hb; [done|]. by exists more'.
  - intros Hw r all flags Hr' Hl Hb Hok Hf. apply Heq in Hb as (more & -> & Hb); [|done].
    apply (Hm Hw r more flags); try done. by apply Forall_app in Hok as [_ ?].
Qed.

Lemma chunk_error g st buf s s' bufsz line :
  advanced s s' -> log s' = log s ->
  (forall r all flags, is_bytes r -> Z.of_nat (length r) = hbrc_size (snd s) ->
     block_of g st s (buf ++ r) all flags -> flags_ok flags = true -> False) ->
  wp (stop_status (return_error bufsz line [])) s' (chunk_post g st buf s).
Proof.
  intros Ha Hl Hno. unfold stop_status, return_error. destruct s' as [dec c]. hsteps. split.
  - destruct Ha as [Hq Hb]. split; [|done]. eapply quiet_trans; [exact Hq|apply quiet_err].
  - exists []. split; [by apply delivered_nil|]. intros _ r all flags Hr Hlen Hb _ Hf. by eapply Hno.
Qed.

Lemma wp_end_of_chunk bufsz g st s :
  ready g st s -> wp (end_of_chunk bufsz st) s (chunk_post g st [] s).
Proof.
  intros Hrd. pose proof Hrd as [Hr Hp Hok]. unfold end_of_chunk. destruct s as [dec c]. hsteps. cbn [fst snd] in *.
  rewrite Z.gtb_ltb. destruct (Z.ltb_spec 0 (hbrc_size c)) as [Hsz|Hsz].
  { hstep. split; [apply advanced_refl|]. exists []. split; [by apply delivered_nil|]. exists g, st. split; [done|].
    split; [by left|]. intros r all flags _. split; [intros Hb; by exists all|by intros (more & -> & Hb)]. }
  assert (forall r : bytes, Z.of_nat (length r) = hbrc_size c -> r = []) as Hnil by (intros [|]; [done|cbn; lia]).
  assert (st = DATA_STATE_NEXT_INSTRUCTION \/ st <> DATA_STATE_NEXT_INSTRUCTION) as [->|Hnn]
    by (destruct st; first [by left|by right]).
  - assert (forall all flags, block_of g DATA_STATE_NEXT_INSTRUCTION (dec, c) [] all flags -> flags = hbrc_flags c) as Hfl.
    { intros all flags Hb%block_from_next. by inversion Hb. }
    destruct (Z.land (hbrc_flags c) _ =? _) eqn:E1.
    { apply chunk_error; [apply advanced_refl|done|]. cbn. intros r all flags _ Hlr. rewrite (Hnil r Hlr).
      intros ->%Hfl. unfold flags_ok. by rewrite E1. }
    destruct (has_bits (hbrc_flags c) HBRC_DYN_USED_IN_ERR) eqn:E2.
    { apply chunk_error; [apply advanced_refl|done|]. cbn. intros r all flags _ Hlr. rewrite (Hnil r Hlr).
      intros ->%Hfl. unfold flags_ok. by rewrite E1, E2. }
    hstep. split; [apply advanced_refl|]. exists []. split; [by apply delivered_nil|]. split; [done|].
    split; [apply block_from_next; constructor|]. split; [unfold flags_ok; cbn [snd]; by rewrite E1, E2|]. by split.
  - assert (wp (stop_status (return_error bufsz 3900 [])) (dec, c) (chunk_post g st [] (dec, c))) as Herr.
    { apply chunk_error; [apply advanced_refl|done|]. cbn. intros r all flags _ Hlr. rewrite (Hnil r Hlr).
      intros [(? & _)|(line & fl & rest & ls & Hl & _)]; [done|]. by rewrite (line_rest_nil _ _ _ _ _ _ Hok) in Hl. }
    destruct st; try done.
Qed.

Lemma wp_data_loop bufsz fuel buf g st s :
  is_bytes buf -> Z.of_nat (length buf) < 2 ^ 32 -> ready g st s ->
  (64 * length buf + line_cost (snd s) st < fuel)%nat ->
  wp (data_loop bufsz fuel buf) s (chunk_post g st buf s).
Proof.
  revert buf g st s. induction fuel as [|fuel IH]; [lia|]. intros buf g st s Hb Hlen Hrd Hfuel.
  cbn [data_loop]. hstep. unfold cur_data. hstep. destruct s as [dec c]. hstep.
  pose proof (lr_state _ _ _ _ _ _ Hrd) as Est. cbn [fst snd] in *. rewrite Est. hstep.
  destruct buf as [|b0 src]; [by apply wp_end_of_chunk|]. hstep.
  eapply wp_mono; [by apply (wp_data_round max rel t bufsz g st b0 src (dec, c))|]. cbn beta.
  intros r s1 [Ha Hm]. set (buf := b0 :: src) in *. cbn [snd] in Hm.
  assert (forall r, buf ++ r <> []) as Hne by done.
  destruct r as [rest|[]]; [|done|done| |].
  - destruct Hm as (used & E & Hm). pose proof E as E'. unfold buf in Hb. fold buf in Hb. rewrite E in Hb.
    apply Forall_app in Hb as [_ Hb]. assert (length rest <= length buf)%nat as Hle by (rewrite E, length_app; lia).
    destruct Hm as [(g1 & st1 & Hrd1 & Hnn & Hl & Hrest & Hc)|(line & h & Hrd1 & Hl & Hs & Hrest & Hc)].
    + eapply wp_mono; [by apply (IH rest g1 st1 s1); try done; lia|]. intros r s'.
      apply (chunk_step []); [done|by apply delivered_nil|]. intros r' all flags Hr'. unfold block_of.
      rewrite !block_from_nonempty by auto. specialize (Hrest r' Hr'). unfold rest_of in Hrest.
      unfold env. rewrite (advanced_env _ _ _ _ _ Ha) in Hrest |- *. rewrite Hrest. split.
      * intros (line & fl & rst & ls & H1 & H2 & ->). exists (line :: ls). split; [done|]. apply block_from_nonempty; [auto|].
        by exists line, fl, rst, ls.
      * intros (more & -> & (line & fl & rst & ls & H1 & H2 & ->)%block_from_nonempty); [|auto].
        by exists line, fl, rst, ls.
    + eapply wp_mono; [eapply (IH rest _ _ s1); [done|lia|exact Hrd1|cbn [line_cost]; lia]|]. intros r s'.
      apply (chunk_step [line]); [done| |].
      { exists [h]. split; [done|]. by constructor. }
      intros r' all flags Hr'. unfold block_of. rewrite block_from_nonempty by auto. specialize (Hrest r' Hr').
      unfold rest_of in Hrest. unfold env. rewrite Hrest, (advanced_env _ _ _ _ _ Ha). split.
      * intros (l1 & fl & rst & ls & [= <- <- <-] & H2 & ->). exists ls. split; [done|]. by apply block_from_next.
      * intros (more & -> & H2%block_from_next). by eexists _, _, _, _.
  - destruct Hm as (g1 & st1 & Hrd1 & Hl & Hnn & Hrest). hstep. split; [done|]. exists [].
    split; [by apply delivered_nil|]. exists g1, st1. split; [done|]. split; [by right|].
    intros r all flags Hr'. unfold block_of. rewrite block_from_nonempty by auto. specialize (Hrest r Hr').
    unfold rest_of in Hrest. unfold env. rewrite (advanced_env _ _ _ _ _ Ha) in Hrest |- *. rewrite Hrest. split.
    + intros (line & fl & rst & ls & H1 & H2 & ->). exists (line :: ls). split; [done|]. apply block_from_nonempty; [auto|].
      by exists line, fl, rst, ls.
    + intros (more & -> & (line & fl & rst & ls & H1 & H2 & ->)%block_from_nonempty); [|auto].
      by exists line, fl, rst, ls.
  - destruct Hm as [Hl Hd]. hstep. split; [done|]. exists []. split; [by apply delivered_nil|].
    intros Hw r all flags Hr' _ Hb2 Hok _. apply block_from_nonempty in Hb2 as (line & fl & rst & ls & H1 & H2 & ->); [|auto].
    apply Forall_cons_1 in Hok as [Hok _]. by apply (Hd r line fl rst Hr' H1 Hw).
Qed.
End loop.
