(* ===== verification/DecPrefix.v ===== *)
(** * The prefix of a header block

    [parse_header_prefix] reads the Required Insert Count and the Base, whatever the
    chunks, and goes on with the field lines; [block_at] reads the rest of a block from
    any state of the two parsers, and [call_post] is the specification of one call. *)

From stdpp Require Import gmap.
From S2P Require Import Prelude Monad IntCodec HuffTables Huffman HuffStream StrCodec Xxhash.
From S2P Require Import StaticTable Ringbuf Rfc9204 EncTable EncEncode DecTable DecState DecStream.
From S2P Require Import DecSpec DecBlocked DecStrings DecReading DecCore DecRounds DecHeader DecParse DecHblock.
From S2P Require Import DecHset DecOut DecCompose DecLine DecData DecLoop.

(** ** Reading a block *)

(** The context after the Required Insert Count has been read. *)
Definition ric_ctx (M v : Z) (c : header_block_read_ctx) : header_block_read_ctx :=
  if v =? 0 then set_hbrc_flags (Z.lor (hbrc_flags c) HBRC_LARGEST_REF_READ) c
  else set_hbrc_flags (Z.lor (hbrc_flags c) (Z.lor HBRC_LARGEST_REF_READ HBRC_LARGEST_REF_SET))
         (set_hbrc_refs (ID_MINUS64 M v 2) (hbrc_base_index c) c).

(** ... and after the Base. *)
Definition base_ctx (M : Z) (sign : bool) (v : Z) (c : header_block_read_ctx) : header_block_read_ctx :=
  set_hbrc_refs (hbrc_largest_ref c)
    (if has_bits (hbrc_flags c) HBRC_LARGEST_REF_SET
     then if sign then ID_MINUS64 M (hbrc_largest_ref c) (u64 (v + 1)) else ID_PLUS64 M (hbrc_largest_ref c) v
     else 0) c.

(** The longest encoding of the Required Insert Count that is read. *)
Definition ric_length (M : Z) : Z := lsqpack_val2len (dec_max_encoded_RIC M) 8 + 1.

Section block.
Context {hset : Type} `{!HsetIf hset} `{!HsetOk hset}.
Variable t : dyn_table.

Implicit Types (dec : lsqpack_dec hset) (c : header_block_read_ctx).
Implicit Types (s : lsqpack_dec hset * header_block_read_ctx).

Local Abbreviation entries s := (qpd_max_entries (qpd_tab (fst s))).

Definition base_block (M : Z) (c : header_block_read_ctx) (sign : bool) (p : Z) (st : dec_int_state)
  (buf : bytes) (lines : list hline) (flags : Z) : Prop :=
  exists v rest, read_int_at p st buf = Some (v, rest)
    /\ block_lines (env_of t M (base_ctx M sign v c)) (hbrc_flags c) rest lines flags.

Definition begin_base (M : Z) (c : header_block_read_ctx) (buf : bytes) (lines : list hline) (flags : Z) : Prop :=
  exists b src, buf = b :: src /\ base_block M c (has_bits b 0x80) 7 dec_int_fresh buf lines flags.

(** [k] bytes of the block came before [buf]. *)
Definition ric_block (M : Z) (c : header_block_read_ctx) (k p : Z) (st : dec_int_state)
  (buf : bytes) (lines : list hline) (flags : Z) : Prop :=
  exists v used rest, buf = used ++ rest /\ read_int_at p st buf = Some (v, rest)
    /\ v <= dec_max_encoded_RIC M /\ k + Z.of_nat (length used) <= ric_length M
    /\ begin_base M (ric_ctx M v c) rest lines flags.

Definition block_at (k : Z) (g : line_part) s (buf : bytes) (lines : list hline) (flags : Z) : Prop :=
  match hbrc_parse (snd s) with
  | PARSE_DATA st => block_of t g st s buf lines flags
  | PARSE_PREFIX PREFIX_STATE_BEGIN_READING_LARGEST_REF =>
      ric_block (entries s) (snd s) k 8 dec_int_fresh buf lines flags
  | PARSE_PREFIX (PREFIX_STATE_READ_LARGEST_REF st) => ric_block (entries s) (snd s) k 0 st buf lines flags
  | PARSE_PREFIX PREFIX_STATE_BEGIN_READING_BASE_IDX => begin_base (entries s) (snd s) buf lines flags
  | PARSE_PREFIX (PREFIX_STATE_READ_DELTA_BASE_IDX sign st) =>
      base_block (entries s) (snd s) sign 0 st buf lines flags
  end.

(** The rest of the block is read from where the call has stopped, after [lines]. *)
Definition goes_on (k : Z) (g : line_part) (buf : bytes) s (lines : list hline) (g' : line_part) s' : Prop :=
  forall r all flags, is_bytes r ->
    block_at k g s (buf ++ r) all flags
    <-> exists more, all = lines ++ more /\ block_at (k + Z.of_nat (length buf)) g' s' r more flags.

End block.

Section prefix.
Context {hset : Type} `{!HsetIf hset} `{!HsetOk hset}.
Variables (max : Z) (rel : bool) (t : dyn_table).

Implicit Types (dec : lsqpack_dec hset) (c : header_block_read_ctx) (h : dec_header).
Implicit Types (s : lsqpack_dec hset * header_block_read_ctx).

Local Abbreviation quiet := (quiet max rel t).
Local Abbreviation advanced := (advanced max rel t).
Local Abbreviation ready := (line_ready max rel t).
Local Abbreviation entries s := (qpd_max_entries (qpd_tab (fst s))).

(** ** Between two calls *)

Definition ric_read c : bool := has_bits (hbrc_flags c) HBRC_LARGEST_REF_READ.

(** [k] bytes of the block have been read. *)
Definition prefix_ok (M k : Z) c (st : prefix_state) : Prop :=
  match st with
  | PREFIX_STATE_BEGIN_READING_LARGEST_REF => ric_read c = false /\ k + 1 <= ric_length M
  | PREFIX_STATE_READ_LARGEST_REF st => ric_read c = false /\ int_pending st /\ k + 1 <= ric_length M
  | PREFIX_STATE_BEGIN_READING_BASE_IDX => ric_read c = true
  | PREFIX_STATE_READ_DELTA_BASE_IDX _ st => ric_read c = true /\ int_pending st
  end.

Definition parse_ok (M opts k : Z) (g : line_part) c : Prop :=
  match hbrc_parse c with
  | PARSE_DATA st => line_state_ok opts g c st /\ ric_read c = true
  | PARSE_PREFIX st => prefix_ok M k c st /\ no_header c
  end.

Record block_ready (k : Z) (g : line_part) s : Prop := {
  br_reading : reading max rel (fst s) t;
  br_parse : parse_ok (entries s) (qpd_opts (fst s)) k g (snd s);
}.

(** What a call leaves as it was. *)
Record same_ctx c c' : Prop := {
  sc_hblock : hbrc_hblock c' = hbrc_hblock c;
  sc_stream : hbrc_stream_id c' = hbrc_stream_id c;
  sc_orig : hbrc_orig_size c' = hbrc_orig_size c;
  sc_size : hbrc_size c' = hbrc_size c;
  sc_blocked : is_blocked c' = is_blocked c;
  sc_ric : ric_read c = true -> ric_read c' = true /\ hbrc_largest_ref c' = hbrc_largest_ref c;
}.

Lemma same_ctx_refl c : same_ctx c c.
Proof. by constructor. Qed.

Lemma same_ctx_trans c1 c2 c3 : same_ctx c1 c2 -> same_ctx c2 c3 -> same_ctx c1 c3.
Proof.
  intros [H1 H2 H3 H4 H5 H6] [K1 K2 K3 K4 K5 K6]. constructor; try congruence.
  intros Hr. destruct (H6 Hr) as [Hr' E]. destruct (K6 Hr'). split; congruence.
Qed.

Lemma same_block_ctx c c' : same_block c c' -> same_ctx c c'.
Proof.
  intros []. constructor; try done; [by apply sb_flags|]. intros Hr. split; [|done].
  unfold ric_read. by rewrite sb_flags.
Qed.

Definition kept s s' : Prop := quiet (fst s) (fst s') /\ same_ctx (snd s) (snd s').

Lemma kept_refl s : kept s s.
Proof. split; [apply quiet_refl|apply same_ctx_refl]. Qed.

Lemma kept_trans s1 s2 s3 : kept s1 s2 -> kept s2 s3 -> kept s1 s3.
Proof. intros [] []. split; [by eapply quiet_trans|by eapply same_ctx_trans]. Qed.

Lemma advanced_kept s s' : advanced s s' -> kept s s'.
Proof. intros [H1 H2]. split; [done|by apply same_block_ctx]. Qed.

(** ** One call *)

(** The encoded Required Insert Count, from where its reading has stopped. *)
Definition ric_value c (buf : bytes) : option (Z * bytes) :=
  match hbrc_parse c with
  | PARSE_PREFIX PREFIX_STATE_BEGIN_READING_LARGEST_REF => read_int_at 8 dec_int_fresh buf
  | PARSE_PREFIX (PREFIX_STATE_READ_LARGEST_REF st) => read_int_at 0 st buf
  | _ => None
  end.

Definition in_prefix c : Prop := exists st, hbrc_parse c = PARSE_PREFIX st.

(** The bytes [buf], with [k] bytes before them.  A block without field lines is
    refused.  The table does not matter to the prefix. *)
Definition call_post (k : Z) (g : line_part) (buf : bytes) s (r : lsqpack_read_header_status) s' : Prop :=
  kept s s' /\ exists lines, delivered_lines lines s s' /\
  match r with
  | LQRHS_NEED => exists g', block_ready (k + Z.of_nat (length buf)) g' s' /\ goes_on t k g buf s lines g' s'
      /\ (in_prefix (snd s') -> in_prefix (snd s) /\ lines = [] /\ forall t2, goes_on t2 k g buf s [] g' s')
      /\ (ric_read (snd s') = false -> forall r, is_bytes r -> ric_value (snd s) (buf ++ r) = ric_value (snd s') r)
      /\ (0 < hbrc_size (snd s)
          \/ forall k more flags, block_at t k g' s' [] more flags -> in_prefix (snd s) /\ lines ++ more = [])
  | LQRHS_BLOCKED => lines = [] /\ in_prefix (snd s) /\ ric_read (snd s) = false /\ exists g', block_ready (k + Z.of_nat (length buf)) g' s' /\ (forall t2, goes_on t2 k g buf s lines g' s')
      /\ hbrc_parse (snd s') = PARSE_PREFIX PREFIX_STATE_BEGIN_READING_BASE_IDX
      /\ has_bits (hbrc_flags (snd s')) HBRC_LARGEST_REF_SET = true
      /\ qdec_in_future (entries s) (qpd_last_id (qpd_tab (fst s))) (hbrc_largest_ref (snd s')) = true
      /\ exists v, 0 < v <= dec_max_encoded_RIC (entries s) /\ hbrc_largest_ref (snd s') = ID_MINUS64 (entries s) v 2
           /\ forall r, is_bytes r -> ric_value (snd s) (buf ++ r) = Some (v, r)
  | LQRHS_DONE => hbrc_size (snd s) <= 0 /\ block_at t k g s buf lines (hbrc_flags (snd s'))
      /\ flags_ok (hbrc_flags (snd s')) = true
      /\ reading max rel (fst s') t /\ no_header (snd s')
  | LQRHS_ERROR => app_willing -> forall r all flags, is_bytes r -> Z.of_nat (length r) = hbrc_size (snd s) ->
      block_at t k g s (buf ++ r) all flags -> (in_prefix (snd s) -> all <> []) -> Forall line_ok all -> flags_ok flags = true -> False
  end.

(** ** Field lines *)

Lemma data_call k g st buf s :
  is_bytes buf -> Z.of_nat (length buf) < 2 ^ 32 -> hbrc_parse (snd s) = PARSE_DATA st -> block_ready k g s ->
  wp (parse_header_data buf) s (call_post k g buf s).
Proof.
  intros Hb Hlen Hst [Hr Hp]. unfold parse_ok in Hp. rewrite Hst in Hp. destruct Hp as [Hok Hric]. unfold parse_header_data.
  eapply wp_mono; [apply (wp_data_loop max rel t (Z.of_nat (length buf)) (64 * length buf + 64) buf g st s Hb Hlen)|].
  - by split.
  - assert (line_cost (snd s) st <= 53)%nat; [|lia]. destruct st; cbn [line_cost]; (apply huff_cost_max || lia).
  - intros r s' (Ha & lines & Hd & Hm). split; [by apply advanced_kept|]. exists lines. split; [done|]. unfold goes_on, block_at. rewrite Hst.
    assert (forall g' st', ready g' st' s' -> block_ready (k + Z.of_nat (length buf)) g' s') as Hbr.
    { intros g' st' [H1 H2 H3]. split; [done|]. unfold parse_ok. rewrite H2. split; [done|]. unfold ric_read in *.
      by rewrite (sb_flags _ _ (proj2 Ha)). }
    destruct r; [| |destruct Hm as (g' & st' & Hrd & Hsz & Hmore); exists g'|].
    + destruct Hm as (H1 & H2 & H3 & H4). done.
    + done.
    + split; [by eapply Hbr|]. rewrite (lr_state _ _ _ _ _ _ Hrd). split; [done|].
      split; [intros [? Hx]; by rewrite (lr_state _ _ _ _ _ _ Hrd) in Hx|].
      split; [intros Hx; unfold ric_read in *; by rewrite (sb_flags _ _ (proj2 Ha)), Hric in Hx|]. destruct Hsz as [?|Hnn]; [by left|right].
      intros _ more flags [(? & _)|(line & fl & rest & ls & Hl & _)]; [done|].
      by rewrite (line_rest_nil _ _ _ _ _ _ (lr_ok _ _ _ _ _ _ Hrd)) in Hl.
    + intros Hw r all flags H1 H2 H3 _. by eapply Hm.
Qed.

(** A step without new lines, and what follows. *)
Lemma call_step k g buf s k1 g1 rest s1 r s' :
  kept s s1 -> log s1 = log s -> k1 + Z.of_nat (length rest) = k + Z.of_nat (length buf) ->
  (forall t2 r all flags, is_bytes r ->
     block_at t2 k g s (buf ++ r) all flags <-> block_at t2 k1 g1 s1 (rest ++ r) all flags) ->
  in_prefix (snd s) -> ric_read (snd s) = true ->
  call_post k1 g1 rest s1 r s' -> call_post k g buf s r s'.
Proof.
  intros Hk Hl Hlen Heq Hpre Hric (Hk' & lines & Hd & Hm). pose proof (sc_size _ _ (proj2 Hk)) as Esz.
  pose proof (qu_entries _ _ _ _ _ (proj1 Hk)) as Een. pose proof (qu_last _ _ _ _ _ (proj1 Hk)) as Ela.
  split; [by eapply kept_trans|]. exists lines. split.
  { destruct Hd as (hs & E & F). exists hs. rewrite E, Hl, (sc_hblock _ _ (proj2 Hk)). split; [done|].
    unfold http1x_opt in *. by rewrite (qu_opts _ _ _ _ _ (proj1 Hk)) in F. }
  rewrite Esz in Hm. rewrite Een, Ela in Hm. unfold goes_on in *. rewrite Hlen in Hm. destruct r.
  - destruct Hm as (H1 & H2 & H3). split; [done|]. split; [|done].
    specialize (Heq t [] lines (hbrc_flags (snd s')) (Forall_nil_2 _)). rewrite !app_nil_r in Heq. by apply Heq.
  - destruct Hm as (_ & _ & Hrr & _). destruct (sc_ric _ _ (proj2 Hk) Hric). congruence.
  - destruct Hm as (g' & H1 & H2 & H3 & _ & H4). exists g'. split; [done|]. split; [|split; [|split]].
    + intros r all flags Hr. by rewrite Heq, H2.
    + intros Hx. destruct (H3 Hx) as (_ & -> & H5). split; [done|]. split; [done|]. intros t2 r all flags Hr.
      by rewrite Heq, (H5 t2).
    + intros Hx. destruct (sc_ric _ _ (proj2 Hk) Hric) as [Hr1 _]. destruct (sc_ric _ _ (proj2 Hk') Hr1). congruence.
    + destruct H4 as [?|H4]; [by left|right]. intros k' more flags Hx. by destruct (H4 k' more flags Hx).
  - intros Hw r all flags Hr Hsz Hb Hne. apply (Hm Hw r all flags Hr Hsz); [by apply Heq|auto].
Qed.

(** ** The Base *)

Lemma read_int_at_nil p st : read_int_at p st [] = None.
Proof. done. Qed.

Lemma error_post k g buf s s' :
  kept s s' -> log s' = log s ->
  (forall r all flags, is_bytes r -> Z.of_nat (length r) = hbrc_size (snd s) ->
     block_at t k g s (buf ++ r) all flags -> False) ->
  call_post k g buf s LQRHS_ERROR s'.
Proof.
  intros Hk Hl Hno. split; [done|]. exists []. split; [by apply delivered_nil|]. intros _ r all flags Hr Hsz Hb _ _ _. by eapply Hno.
Qed.

(** The result of a round: [More] is followed by the rest of [prefix_loop]. *)
Definition stops (Q : lsqpack_read_header_status -> lsqpack_dec hset * header_block_read_ctx -> Prop)
  (r : parse_step) s' : Prop :=
  match r with Stop st => Q st s' | More _ => False end.

Lemma wp_read_base k g p sign st0 b0 src dec c :
  let buf := b0 :: src in
  is_bytes buf -> Z.of_nat (length buf) < 2 ^ 32 -> int_start p st0 ->
  reading max rel dec t -> no_header c -> ric_read c = true -> in_prefix c ->
  (forall t2 b all flags, is_bytes b -> b <> [] -> take 1 b = [b0] -> block_at t2 k g (dec, c) b all flags
     <-> base_block t2 (qpd_max_entries (qpd_tab dec)) c sign p st0 b all flags) ->
  wp (read_delta_base_idx p sign st0 b0 src) (dec, c) (stops (call_post k g buf (dec, c))).
Proof.
  intros buf Hb Hlen Hst Hr Hn Hric Hpre Hat. unfold read_delta_base_idx, set_data. hsteps.
  assert (forall t2 r all flags, is_bytes r -> block_at t2 k g (dec, c) (buf ++ r) all flags
    <-> base_block t2 (qpd_max_entries (qpd_tab dec)) c sign p st0 (buf ++ r) all flags) as Hat'.
  { intros t2 r all flags Hr'. apply Hat; [by apply is_bytes_app|done|done]. }
  pose proof (dec_int_call b0 src p st0 Hb Hst) as Hres. fold buf in Hres.
  destruct (lsqpack_dec_int b0 src p st0) as [v rest|st'|].
  - destruct Hres as (Hv & (used & E & Hu) & Hrest). fold (base_ctx (max_entries_of dec) sign v c). hsteps.
    set (c1 := set_hbrc_parse (PARSE_DATA DATA_STATE_NEXT_INSTRUCTION) (base_ctx (max_entries_of dec) sign v c)).
    set (g1 := {| lp_never := false; lp_name := []; lp_part := [] |}).
    assert (kept (dec, c) (dec, c1)) as Hk by (split; [apply quiet_refl|by constructor]).
    assert (forall k', block_ready k' g1 (dec, c1)) as Hbr by by split.
    assert (forall t2 r all flags, is_bytes r -> block_at t2 k g (dec, c) (buf ++ r) all flags
      <-> block_at t2 (k + Z.of_nat (length used)) g1 (dec, c1) (rest ++ r) all flags) as Heq.
    { intros t2 r all flags Hr'. rewrite Hat' by done. change (block_at t2 _ g1 (dec, c1))
        with (block_from (env t2 (dec, c1)) (hbrc_flags c) g1 DATA_STATE_NEXT_INSTRUCTION). rewrite block_from_next.
      unfold base_block. rewrite Hrest. split.
      - intros (v' & rest' & [= <- <-] & Hbl). exact Hbl.
      - intros Hbl. by exists v, (rest ++ r). }
    assert (k + Z.of_nat (length used) + Z.of_nat (length rest) = k + Z.of_nat (length buf)) as Hkl.
    { rewrite E, length_app. lia. }
    destruct rest as [|b1 rest1].
    + hstep. cbn [stops]. split; [done|]. exists []. split; [by apply delivered_nil|]. exists g1. split; [done|].
      split; [|split; [by intros [? ?]|split; [intros Hx; cbn in Hx; unfold ric_read in *; cbn in Hx; congruence|right]]].
      * intros r all flags Hr'. rewrite Heq by done. cbn [app]. split; [intros Hx; by exists all|by intros (more & -> & Hx)].
      * intros k' more flags Hx. split; [done|].
        change (block_from (env t (dec, c1)) (hbrc_flags c) g1 DATA_STATE_NEXT_INSTRUCTION [] more flags) in Hx.
        apply block_from_next in Hx. by inversion Hx.
    + hstep. assert (is_bytes (b1 :: rest1)) as Hb1 by (rewrite E in Hb; by apply Forall_app in Hb as [_ ?]).
      eapply wp_mono; [eapply (data_call (k + Z.of_nat (length used)) g1 _ (b1 :: rest1) (dec, c1)); [done| |done|done]|].
      { rewrite E, length_app in Hlen. lia. }
      intros r s' Hcp. hstep. cbn [stops]. eapply (call_step _ _ _ _ (k + Z.of_nat (length used)) g1 _ (dec, c1)); done.
  - destruct Hres as [Hp Hrest]. unfold set_prefix. hsteps. cbn [stops].
    set (c1 := set_hbrc_parse (PARSE_PREFIX (PREFIX_STATE_READ_DELTA_BASE_IDX sign st')) c).
    eapply (call_step _ _ _ _ (k + Z.of_nat (length buf)) g [] (dec, c1)); [split; [apply quiet_refl|by constructor]|done|cbn; lia| |done|done|].
    + intros t2 r all flags Hr'. rewrite Hat' by done. unfold block_at. cbn [snd c1 set_hbrc_parse hbrc_parse fst app].
      unfold base_block. by rewrite Hrest.
    + split; [apply kept_refl|]. exists []. split; [by apply delivered_nil|]. exists g. split; [by split|].
      assert (forall t2, goes_on t2 (k + Z.of_nat (length buf)) g [] (dec, c1) [] g (dec, c1)) as Hgo.
      { intros t2 r all flags Hr'. cbn [app length]. rewrite Z.add_0_r. split; [intros Hx; by exists all|by intros (more & -> & Hx)]. }
      split; [apply Hgo|]. split; [done|]. split; [done|right; intros k' more flags (v & rest & Hx & _); done].
  - hstep. cbn [stops]. apply error_post; [apply kept_refl|done|]. intros r all flags Hr' _ (v & rest & Hx & _)%Hat'; [|done].
    by rewrite Hres in Hx.
Qed.

(** ** The Required Insert Count *)

(** After the count, the Base is next. *)
Definition ric_post (k : Z) (g : line_part) (buf : bytes) s (r : parse_step) s' : Prop :=
  match r with
  | Stop st => call_post k g buf s st s'
  | More rest => rest = [] /\ kept s s' /\ log s' = log s
      /\ block_ready (k + Z.of_nat (length buf)) g s' /\ (forall t2, goes_on t2 k g buf s [] g s')
      /\ ric_read (snd s') = true /\ forall k more flags, ~ block_at t k g s' [] more flags
  end.

Lemma ric_block_done t2 M c k p st buf v r all flags :
  (forall r, read_int_at p st (buf ++ r) = Some (v, r)) -> v <= dec_max_encoded_RIC M ->
  k + Z.of_nat (length buf) <= ric_length M ->
  ric_block t2 M c k p st (buf ++ r) all flags <-> begin_base t2 M (ric_ctx M v c) r all flags.
Proof.
  intros Hrest Hv Hk. unfold ric_block. split.
  - intros (v' & used & rest & E & Hx & _ & _ & Hb). rewrite Hrest in Hx. by injection Hx as <- <-.
  - intros Hb. by exists v, buf, r.
Qed.

Lemma ric_block_more t2 M c k p st buf st' r all flags :
  is_bytes r -> int_pending st' ->
  (forall r, read_int_at p st (buf ++ r) = read_int_at 0 st' r) ->
  ric_block t2 M c k p st (buf ++ r) all flags <-> ric_block t2 M c (k + Z.of_nat (length buf)) 0 st' r all flags.
Proof.
  intros Hr Hst Hrest. unfold ric_block. split.
  - intros (v & used & rest & E & Hx & Hv & Hk & Hb). rewrite Hrest in Hx.
    destruct r as [|b1 r]; [done|]. pose proof (dec_int_call b1 r 0 st' Hr (int_pending_start _ _ Hst)) as Hc.
    cbn [read_int_at] in Hx. destruct (lsqpack_dec_int b1 r 0 st') as [v' rest'|?|] eqn:Ed; [|done..].
    injection Hx as -> ->. destruct Hc as (_ & (used' & E' & _) & _). exists v, used', rest.
    split; [done|]. split; [cbn [read_int_at]; by rewrite Ed|]. split; [done|]. split; [|done].
    rewrite E', app_assoc in E. apply app_inv_tail in E as <-. rewrite length_app in Hk. lia.
  - intros (v & used & rest & E & Hx & Hv & Hk & Hb). exists v, (buf ++ used), rest.
    split; [by rewrite E, app_assoc|]. split; [by rewrite Hrest|]. split; [done|]. split; [rewrite length_app; lia|done].
Qed.

Lemma ric_block_long t2 M c k p st buf st' r all flags :
  is_bytes r -> int_pending st' ->
  (forall r, read_int_at p st (buf ++ r) = read_int_at 0 st' r) -> ric_length M <= k + Z.of_nat (length buf) ->
  ~ ric_block t2 M c k p st (buf ++ r) all flags.
Proof.
  intros Hr Hst Hrest Hlong Hb. apply ric_block_more with (st' := st') in Hb; [|done..].
  destruct Hb as (v & used & rest & E & Hx & _ & Hk & _).
  assert (used = []) as -> by (destruct used; [done|cbn [length] in Hk; lia]). cbn [app] in E. subst rest.
  destruct r as [|b1 r]; [done|]. pose proof (dec_int_call b1 r 0 st' Hr (int_pending_start _ _ Hst)) as Hc.
  cbn [read_int_at] in Hx. destruct (lsqpack_dec_int b1 r 0 st') as [v' rest'|?|]; [|done..].
  injection Hx as -> ->. destruct Hc as (_ & (used' & E' & Hne) & _).
  apply (f_equal length) in E'. rewrite length_app in E'. destruct used'; [done|cbn [length] in E'; lia].
Qed.

Lemma ric_block_parse t2 M ps c k p st buf all flags :
  ric_block t2 M (set_hbrc_parse ps c) k p st buf all flags <-> ric_block t2 M c k p st buf all flags.
Proof.
  assert (forall v r, begin_base t2 M (ric_ctx M v (set_hbrc_parse ps c)) r all flags
    <-> begin_base t2 M (ric_ctx M v c) r all flags) as Hb by (intros v r; unfold ric_ctx; by destruct (v =? 0)).
  unfold ric_block. split; intros (v & used & rest & H1 & H2 & H3 & H4 & H5%Hb); by exists v, used, rest.
Qed.

Lemma begin_base_nil t2 M c all flags : ~ begin_base t2 M c [] all flags.
Proof. by intros (b & src & ? & _). Qed.

(** The context [c1] after the count [v] in the byte [b0]. *)
Lemma after_ric k g p st0 b0 v dec c c1 :
  c1 = set_hbrc_parse (PARSE_PREFIX PREFIX_STATE_BEGIN_READING_BASE_IDX) (ric_ctx (max_entries_of dec) v c) ->
  reading max rel dec t -> no_header c -> ric_read c = false -> v <= dec_max_encoded_RIC (max_entries_of dec) ->
  k + Z.of_nat (length [b0]) <= ric_length (max_entries_of dec) ->
  (forall r, read_int_at p st0 ([b0] ++ r) = Some (v, r)) ->
  (forall t2 r all flags, is_bytes r -> block_at t2 k g (dec, c) ([b0] ++ r) all flags
     <-> ric_block t2 (max_entries_of dec) c k p st0 ([b0] ++ r) all flags) ->
  kept (dec, c) (dec, c1) /\ block_ready (k + Z.of_nat (length [b0])) g (dec, c1) /\ (forall t2, goes_on t2 k g [b0] (dec, c) [] g (dec, c1)).
Proof.
  intros -> Hr Hn Hric Hle Hk1 Hrest Hat. unfold ric_ctx. split; [|split].
  - split; [apply quiet_refl|]. destruct (v =? 0); constructor; try done; try (cbn [snd]; congruence); unfold is_blocked;
      cbn [snd set_hbrc_parse set_hbrc_flags hbrc_flags]; by rewrite has_bits_set.
  - split; [done|]. cbn [snd parse_ok]. unfold parse_ok. cbn [set_hbrc_parse hbrc_parse]. split; [|by destruct (v =? 0)].
    unfold prefix_ok, ric_read. destruct (v =? 0); cbn [set_hbrc_parse hbrc_flags set_hbrc_flags];
      [by apply has_bits_lor_self|].
    rewrite (Z.lor_comm HBRC_LARGEST_REF_READ), Z.lor_assoc. by apply has_bits_lor_self.
  - intros t2 r all flags Hr'. rewrite Hat by done. rewrite (ric_block_done t2 (max_entries_of dec) c k p st0 [b0] v) by done.
    unfold block_at, ric_ctx. cbn [snd set_hbrc_parse hbrc_parse].
    destruct (v =? 0); (split; [intros Hx; exists all; split; [done|exact Hx]|intros (more & -> & Hx); exact Hx]).
Qed.

Lemma wp_read_ric k g p st0 b0 dec c :
  is_u8 b0 -> int_start p st0 -> reading max rel dec t -> no_header c -> ric_read c = false -> in_prefix c ->
  0 <= k -> k + 1 <= ric_length (qpd_max_entries (qpd_tab dec)) -> ric_length (qpd_max_entries (qpd_tab dec)) < 2 ^ 32 ->
  hbrc_orig_size c - hbrc_size c = k + 1 ->
  (forall t2 r all flags, is_bytes r -> block_at t2 k g (dec, c) ([b0] ++ r) all flags
     <-> ric_block t2 (qpd_max_entries (qpd_tab dec)) c k p st0 ([b0] ++ r) all flags) ->
  (forall buf, ric_value c buf = read_int_at p st0 buf) ->
  wp (read_largest_ref p st0 b0 []) (dec, c) (ric_post k g [b0] (dec, c)).
Proof.
  intros Hb Hst Hr Hn Hric Hpre Hk Hlen Hsmall Hsz Hat Hval. unfold read_largest_ref, or_flags, set_prefix. hsteps.
  pose proof (dec_int_call b0 [] p st0 (Forall_cons_2 _ _ _ Hb (Forall_nil_2 _)) Hst) as Hres. fold (max_entries_of dec) in *.
  set (M := max_entries_of dec) in *.
  assert (k + Z.of_nat (length [b0]) <= ric_length M) as Hk1 by (cbn; lia).
  destruct (lsqpack_dec_int b0 [] p st0) as [v rest|st'|].
  - destruct Hres as (Hv & (used & E & Hu) & Hrest).
    assert (rest = []) as -> by (destruct used as [|? [|? ?]]; [done|by injection E|done]). cbn [app] in Hrest.
    assert (v <= dec_max_encoded_RIC M -> forall c1, c1 = set_hbrc_parse (PARSE_PREFIX PREFIX_STATE_BEGIN_READING_BASE_IDX) (ric_ctx M v c) ->
      kept (dec, c) (dec, c1) /\ block_ready (k + Z.of_nat (length [b0])) g (dec, c1) /\ (forall t2, goes_on t2 k g [b0] (dec, c) [] g (dec, c1))) as Hafter.
    { intros Hle c1 E1. by apply (after_ric k g p st0 b0 v). }
    unfold ric_ctx in Hafter.
    assert (forall c1, block_ready (k + Z.of_nat (length [b0])) g (dec, c1) ->
      hbrc_parse c1 = PARSE_PREFIX PREFIX_STATE_BEGIN_READING_BASE_IDX -> ric_read c1 = true) as Hafter'.
    { intros c1 [_ Hpk] E1. unfold parse_ok in Hpk. cbn [snd] in Hpk. rewrite E1 in Hpk. apply Hpk. }
    destruct (Z.eqb_spec v 0) as [->|Hv0]; cbn [negb].
    + hsteps. destruct (Hafter (proj1 (u32_range _)) _ eq_refl) as (H1 & H2 & H3). split; [done|]. split; [done|]. split; [done|].
      split; [done|]. split; [done|]. split; [by apply Hafter'|]. intros k' more flags. apply begin_base_nil.
    + rewrite Z.gtb_ltb. destruct (Z.ltb_spec (dec_max_encoded_RIC M) v) as [Hbig|Hle].
      { hstep. apply error_post; [apply kept_refl|done|]. intros r all flags Hr' _ Hx%Hat; [|done].
        destruct Hx as (v' & used' & rest' & _ & Hx & Hle & _). cbn [app] in Hx. rewrite Hrest in Hx. injection Hx as <- _. lia. }
      hsteps. destruct (Hafter Hle _ eq_refl) as (H1 & H2 & H3).
      destruct (qdec_in_future _ _ _) eqn:Ef.
      * hstep. split; [exact H1|]. exists []. split; [by apply delivered_nil|]. split; [done|]. split; [done|]. split; [done|].
        exists g. split; [done|]. split; [done|]. split; [done|]. split; [cbn; rewrite Z.lor_assoc; by apply has_bits_lor_self|].
        split; [exact Ef|]. exists v. cbn [fst]. fold (max_entries_of dec). fold M. split; [unfold is_u64 in Hv; lia|]. split; [done|].
        intros r _. cbn [snd]. rewrite Hval. exact (Hrest r).
      * hstep. split; [done|]. split; [done|]. split; [done|]. split; [done|]. split; [done|]. split; [by apply Hafter'|]. intros k' more flags. apply begin_base_nil.
  - destruct Hres as [Hp Hrest]. hsteps. rewrite u64_id by (rewrite Hsz; unfold is_u64; change (2 ^ 64) with 18446744073709551616; change (2 ^ 32) with 4294967296 in *; lia).
    rewrite Hsz. set (c1 := set_hbrc_parse (PARSE_PREFIX (PREFIX_STATE_READ_LARGEST_REF st')) c).
    assert (kept (dec, c) (dec, c1)) as Hkept by (split; [apply quiet_refl|by constructor]).
    destruct (Z.leb_spec (k + 1) (lsqpack_val2len (dec_max_encoded_RIC M) 8)) as [Hle|Hgt].
    + hstep. split; [done|]. exists []. split; [by apply delivered_nil|]. exists g.
      assert (forall t2, goes_on t2 k g [b0] (dec, c) [] g (dec, c1)) as Hgo.
      { intros t2 r all flags Hr'. rewrite Hat by done. rewrite (ric_block_more t2 M c k p st0 [b0] st') by done.
        unfold block_at. cbn [snd c1 set_hbrc_parse hbrc_parse app fst].
        fold (max_entries_of dec). fold M. fold c1. unfold c1. setoid_rewrite ric_block_parse.
        split; [intros Hx; by exists all|by intros (more & -> & Hx)]. }
      split; [|split; [apply Hgo|split; [done|split; [by intros _ r _; cbn [snd]; rewrite Hval|]]]].
      * split; [done|]. split; [|done]. cbn [prefix_ok]. split; [done|]. split; [done|]. unfold ric_length. cbn [length fst]. fold (max_entries_of dec). fold M. lia.
      * right. intros k' more flags (v & used & rest & _ & Hx & _). done.
    + hstep. apply error_post; [done|done|]. intros r all flags Hr' _ Hx%Hat; [|done].
      eapply (ric_block_long t M c k p st0 [b0] st' r); [done..| |exact Hx]. unfold ric_length. cbn [length]. lia.
  - hstep. apply error_post; [apply kept_refl|done|]. intros r all flags Hr' _ (v & used & rest & _ & Hx & _)%Hat; [|done].
    by rewrite Hres in Hx.
Qed.
End prefix.
