(* ===== verification/DecBlock.v ===== *)
(** * [qdec_read_header]

    One call on the bytes at hand: [wp_read_header] composes the calls of the two
    parsers.  [read_post] is what [qdec_header_process] may rely on. *)

From stdpp Require Import gmap.
From S2P Require Import Prelude Monad IntCodec HuffTables Huffman HuffStream StrCodec Xxhash.
From S2P Require Import StaticTable Ringbuf Rfc9204 EncTable EncEncode DecTable DecState DecStream.
From S2P Require Import DecSpec DecBlocked DecStrings DecReading DecCore DecRounds DecHeader DecParse DecHblock.
From S2P Require Import DecHset DecOut DecCompose DecLine DecData DecLoop DecPrefix.

Lemma ric_length_small M : 2 <= ric_length M < 2 ^ 32.
Proof.
  unfold ric_length. pose proof (val2len_pos (dec_max_encoded_RIC M) 8) as H.
  assert (is_u64 (dec_max_encoded_RIC M)) as Hu.
  { unfold dec_max_encoded_RIC. pose proof (u32_range (M * 2)). unfold is_u32, is_u64 in *.
    change (2 ^ 32) with 4294967296 in *. change (2 ^ 64) with 18446744073709551616. lia. }
  specialize (H Hu ltac:(lia)). split; [lia|]. unfold lsqpack_val2len. change (2 ^ 32) with 4294967296.
  assert (forall b, Z.b2z b <= 1) as Hb by (intros []; cbn; lia).
  repeat match goal with |- context [Z.b2z ?b] => pose proof (Hb b); generalize dependent (Z.b2z b); intros end. lia.
Qed.

Section block.
Context {hset : Type} `{!HsetIf hset} `{!HsetOk hset}.
Variables (max : Z) (rel : bool) (t : dyn_table).

Implicit Types (dec : lsqpack_dec hset) (c : header_block_read_ctx) (h : dec_header).
Implicit Types (s : lsqpack_dec hset * header_block_read_ctx).

Local Abbreviation quiet := (quiet max rel t).
Local Abbreviation kept := (kept max rel t).
Local Abbreviation block_ready := (block_ready max rel t).
Local Abbreviation call_post := (call_post max rel t).
Local Abbreviation block_at := (block_at t).

(** ** One call of the parser *)

Lemma wp_prefix_call k g ps b0 src s :
  let buf := b0 :: src in
  is_bytes buf -> Z.of_nat (length buf) < 2 ^ 32 -> hbrc_parse (snd s) = PARSE_PREFIX ps -> block_ready k g s ->
  (ric_read (snd s) = false -> src = []) -> 0 <= k ->
  hbrc_orig_size (snd s) - hbrc_size (snd s) = k + Z.of_nat (length buf) ->
  wp (parse_header_prefix buf) s (call_post k g buf s).
Proof.
  intros buf Hb Hlen Hps [Hr Hp] Hone Hk Hsz. unfold parse_ok in Hp. rewrite Hps in Hp. destruct Hp as [Hok Hn].
  assert (in_prefix (snd s)) as Hin by by exists ps.
  unfold parse_header_prefix, buf. cbn [length prefix_loop]. hsteps. rewrite Hps. hstep. destruct s as [dec c]. cbn [fst snd] in *.
  assert (forall t2 b all flags, DecPrefix.block_at t2 k g (dec, c) b all flags <-> match ps with
      | PREFIX_STATE_BEGIN_READING_LARGEST_REF => ric_block t2 (qpd_max_entries (qpd_tab dec)) c k 8 dec_int_fresh b all flags
      | PREFIX_STATE_READ_LARGEST_REF st => ric_block t2 (qpd_max_entries (qpd_tab dec)) c k 0 st b all flags
      | PREFIX_STATE_BEGIN_READING_BASE_IDX => begin_base t2 (qpd_max_entries (qpd_tab dec)) c b all flags
      | PREFIX_STATE_READ_DELTA_BASE_IDX sign st => base_block t2 (qpd_max_entries (qpd_tab dec)) c sign 0 st b all flags
      end) as Hat.
  { intros t2 b all flags. unfold DecPrefix.block_at. cbn [fst snd]. rewrite Hps. by destruct ps. }
  assert (forall m, wp m (dec, c) (ric_post max rel t k g [b0] (dec, c)) -> src = [] ->
    wp m (dec, c) (fun r0 s' => wp (match r0 with More rest => prefix_loop (length src) rest | Stop r => mret r end) s'
      (call_post k g buf (dec, c)))) as Hric.
  { intros m Hm E. unfold buf. subst src. eapply wp_mono; [exact Hm|]. intros [rest|st] s'; [|intros Hx; by hstep].
    intros (-> & Hkept & Hl & Hbr & Hgo & Hrr & Hno). cbn [length prefix_loop]. hsteps. rewrite Z.gtb_ltb.
    rewrite (sc_size _ _ (proj2 Hkept)). cbn [snd]. destruct (Z.ltb_spec 0 (hbrc_size c)) as [Hpos|Hz]; hstep.
    - split; [done|]. exists []. split; [by apply delivered_nil|]. exists g. split; [done|]. split; [apply Hgo|]. split; [done|]. split; [congruence|by left].
    - apply error_post; [done|done|]. intros r all flags Hr' Hlr Hx. cbn [snd] in Hlr.
      assert (r = []) as -> by (destruct r; [done|cbn in Hlr; lia]).
      apply (Hgo t) in Hx as (more & _ & Hx); [|constructor]. by eapply Hno. }
  assert (forall m, wp m (dec, c) (stops (call_post k g buf (dec, c))) ->
    wp m (dec, c) (fun r0 s' => wp (match r0 with More rest => prefix_loop (length src) rest | Stop r => mret r end) s'
      (call_post k g buf (dec, c)))) as Hbase.
  { intros m Hm. eapply wp_mono; [exact Hm|]. intros [rest|st] s'; [done|]. intros Hx. by hstep. }
  pose proof (ric_length_small (qpd_max_entries (qpd_tab dec))) as [_ Hrl].
  assert (is_u8 b0) as Hb0 by by apply Forall_cons_1 in Hb as [? _].
  destruct ps as [|st| |sign st]; cbn [prefix_round prefix_ok] in *.
  - destruct Hok as [Hrr Hkl]. apply Hric; [|by apply Hone]. unfold buf in Hsz. rewrite (Hone Hrr) in Hsz |- *.
    apply wp_read_ric; try done; try (by apply int_fresh_start); intros; first [apply Hat|unfold ric_value; by rewrite Hps].
  - destruct Hok as (Hrr & Hp & Hkl). apply Hric; [|by apply Hone]. unfold buf in Hsz. rewrite (Hone Hrr) in Hsz |- *.
    apply wp_read_ric; try done; try (by apply int_pending_start); intros; first [apply Hat|unfold ric_value; by rewrite Hps].
  - apply Hbase. apply wp_read_base; try done; try (by apply int_fresh_start). intros t2 b all flags Hbb Hne Htk. rewrite Hat.
    unfold begin_base. destruct b as [|b1 b]; [done|]. injection Htk as ->. split.
    + intros (b' & src' & [= <- <-] & Hx). done.
    + intros Hx. by exists b0, b.
  - destruct Hok as (Hrr & Hp). apply Hbase. apply wp_read_base; try done; try (by apply int_pending_start).
Qed.

Lemma wp_parse_call k g b0 src s :
  let buf := b0 :: src in
  is_bytes buf -> Z.of_nat (length buf) < 2 ^ 32 -> block_ready k g s ->
  (ric_read (snd s) = false -> src = []) -> 0 <= k ->
  hbrc_orig_size (snd s) - hbrc_size (snd s) = k + Z.of_nat (length buf) ->
  wp (hbrc_parse_call buf) s (call_post k g buf s).
Proof.
  intros buf Hb Hlen Hbr Hone Hk Hsz. unfold hbrc_parse_call. hsteps. destruct (hbrc_parse (snd s)) as [ps|st] eqn:E.
  - by apply (wp_prefix_call k g ps).
  - by apply (data_call max rel t k g st).
Qed.

(** ** The size of the block *)

Definition sized (n : Z) s : lsqpack_dec hset * header_block_read_ctx := (fst s, set_hbrc_size n (snd s)).

Lemma ric_ctx_size t2 M n v c buf all flags :
  begin_base t2 M (ric_ctx M v (set_hbrc_size n c)) buf all flags <-> begin_base t2 M (ric_ctx M v c) buf all flags.
Proof. unfold ric_ctx. by destruct (v =? 0). Qed.

Lemma ric_block_size t2 M n c k p st buf all flags :
  ric_block t2 M (set_hbrc_size n c) k p st buf all flags <-> ric_block t2 M c k p st buf all flags.
Proof.
  unfold ric_block. split; intros (v & used & rest & H1 & H2 & H3 & H4 & H5); exists v, used, rest; split_and!; try done;
    by apply (ric_ctx_size t2 M n v c).
Qed.

Lemma block_at_sized t2 n k g s buf all flags :
  DecPrefix.block_at t2 k g (sized n s) buf all flags <-> DecPrefix.block_at t2 k g s buf all flags.
Proof.
  unfold DecPrefix.block_at, sized. cbn [fst snd set_hbrc_size hbrc_parse].
  destruct (hbrc_parse (snd s)) as [[|st| |sign st]|st]; [apply ric_block_size|apply ric_block_size|done..].
Qed.

Lemma goes_on_sized t2 n k g buf s lines g' s' : goes_on t2 k g buf (sized n s) lines g' s' -> goes_on t2 k g buf s lines g' s'.
Proof. intros H r all flags Hr. rewrite <- (block_at_sized t2 n). by apply H. Qed.

Lemma block_ready_sized n k g s : block_ready k g s -> block_ready k g (sized n s).
Proof.
  intros [Hr Hp]. split; [done|]. unfold parse_ok, sized in *. cbn [fst snd set_hbrc_size hbrc_parse] in *.
  destruct (hbrc_parse (snd s)) as [ps|st]; [destruct Hp as [Hps Hn]; split; [by destruct ps; exact Hps|done]|].
  destruct Hp as [Hl Hric]. split; [|done].
  exact (line_state_ok_ext _ _ (snd s) (set_hbrc_size n (snd s)) st eq_refl Hl).
Qed.

Lemma kept_sized n s s' : kept (sized n s) s' ->
  quiet (fst s) (fst s') /\ same_ctx (set_hbrc_size n (snd s)) (snd s').
Proof. done. Qed.

(** ** One call of [qdec_read_header] *)

(** [used] bytes of the block have been read. *)
Definition consumed (used : bytes) s s' : Prop :=
  quiet (fst s) (fst s') /\ same_ctx (set_hbrc_size (hbrc_size (snd s) - Z.of_nat (length used)) (snd s)) (snd s').

Definition read_post (k : Z) (g : line_part) (buf : bytes) s
  (r : lsqpack_read_header_status * bytes) s' : Prop :=
  exists used lines, buf = used ++ snd r /\ consumed used s s' /\ 0 <= hbrc_size (snd s') /\ delivered_lines lines s s' /\
  let k' := k + Z.of_nat (length used) in
  match fst r with
  | LQRHS_NEED => snd r = [] /\ 0 < hbrc_size (snd s') /\ exists g', block_ready k' g' s' /\ goes_on t k g used s lines g' s'
      /\ (in_prefix (snd s') -> in_prefix (snd s) /\ lines = [] /\ forall t2, goes_on t2 k g used s [] g' s')
      /\ (ric_read (snd s') = false -> forall r, is_bytes r -> ric_value (snd s) (used ++ r) = ric_value (snd s') r)
  | LQRHS_BLOCKED => lines = [] /\ in_prefix (snd s) /\ ric_read (snd s) = false /\ exists g', block_ready k' g' s' /\ (forall t2, goes_on t2 k g used s lines g' s')
      /\ hbrc_parse (snd s') = PARSE_PREFIX PREFIX_STATE_BEGIN_READING_BASE_IDX
      /\ has_bits (hbrc_flags (snd s')) HBRC_LARGEST_REF_SET = true
      /\ qdec_in_future (qpd_max_entries (qpd_tab (fst s))) (qpd_last_id (qpd_tab (fst s))) (hbrc_largest_ref (snd s')) = true
      /\ exists v, 0 < v <= dec_max_encoded_RIC (qpd_max_entries (qpd_tab (fst s)))
           /\ hbrc_largest_ref (snd s') = ID_MINUS64 (qpd_max_entries (qpd_tab (fst s))) v 2
           /\ forall r, is_bytes r -> ric_value (snd s) (used ++ r) = Some (v, r)
  | LQRHS_DONE => hbrc_size (snd s') = 0 /\ block_at k g s used lines (hbrc_flags (snd s'))
      /\ flags_ok (hbrc_flags (snd s')) = true /\ reading max rel (fst s') t
  | LQRHS_ERROR => app_willing -> forall r all flags, is_bytes r -> Z.of_nat (length r) = hbrc_size (snd s') ->
      block_at k g s (used ++ r) all flags -> (in_prefix (snd s) -> all <> []) -> Forall line_ok all -> flags_ok flags = true -> False
  end.

Lemma delivered_trans l1 l2 s s1 s2 :
  hbrc_hblock (snd s1) = hbrc_hblock (snd s) -> http1x_opt (fst s1) = http1x_opt (fst s) ->
  delivered_lines l1 s s1 -> delivered_lines l2 s1 s2 -> delivered_lines (l1 ++ l2) s s2.
Proof.
  intros Eh Ex (h1 & E1 & F1) (h2 & E2 & F2). exists (h1 ++ h2). rewrite E2, E1, Eh, fmap_app, app_assoc.
  split; [done|]. apply Forall2_app; [done|]. by rewrite <- Ex.
Qed.

Lemma quiet_http1x dec dec' : quiet dec dec' -> http1x_opt dec' = http1x_opt dec.
Proof. intros Hq. unfold http1x_opt. by rewrite (qu_opts _ _ _ _ _ Hq). Qed.

Lemma consumed_trans u1 u2 s s1 s2 : consumed u1 s s1 -> consumed u2 s1 s2 -> consumed (u1 ++ u2) s s2.
Proof.
  intros [Q1 [H1 H2 H3 H4 H5 H6]] [Q2 [K1 K2 K3 K4 K5 K6]]. split; [by eapply quiet_trans|].
  unfold is_blocked in *. cbn [snd set_hbrc_size hbrc_hblock hbrc_stream_id hbrc_orig_size hbrc_size hbrc_flags] in *.
  constructor; cbn [set_hbrc_size hbrc_hblock hbrc_stream_id hbrc_orig_size hbrc_size]; try congruence.
  - rewrite K4, H4, length_app. lia.
  - unfold is_blocked. cbn [set_hbrc_size hbrc_flags]. congruence.
  - intros Hr. destruct (H6 Hr) as [Hr' E]. destruct (K6 Hr') as [? E']. split; [done|]. rewrite E'. exact E.
Qed.

Lemma goes_on_read t2 k g chunk s l1 g1 s1 used l2 g2 s2 :
  is_bytes used -> goes_on t2 k g chunk s l1 g1 s1 -> goes_on t2 (k + Z.of_nat (length chunk)) g1 used s1 l2 g2 s2 ->
  goes_on t2 k g (chunk ++ used) s (l1 ++ l2) g2 s2.
Proof.
  intros Hu H1 H2 r all flags Hr. rewrite <- app_assoc, (H1 (used ++ r) all flags ltac:(by apply is_bytes_app)). rewrite length_app, Nat2Z.inj_add, Z.add_assoc. split.
  - intros (more & -> & (more' & -> & Hx)%H2); [|done]. exists more'. by rewrite app_assoc.
  - intros (more' & -> & Hx). exists (l2 ++ more'). rewrite app_assoc. split; [done|]. apply H2; [done|]. by exists more'.
Qed.

Lemma read_step k g chunk buf s lines1 g1 s1 r s2 :
  is_bytes buf -> consumed chunk s s1 -> delivered_lines lines1 s s1 -> goes_on t k g chunk s lines1 g1 s1 ->
  (in_prefix (snd s1) -> in_prefix (snd s) /\ lines1 = [] /\ forall t2, goes_on t2 k g chunk s [] g1 s1) ->
  (ric_read (snd s1) = false -> forall r, is_bytes r -> ric_value (snd s) (chunk ++ r) = ric_value (snd s1) r) ->
  read_post (k + Z.of_nat (length chunk)) g1 buf s1 r s2 -> read_post k g (chunk ++ buf) s r s2.
Proof.
  intros Hb Hc Hd Hgo Hpre Hval (used & lines & E & Hc2 & Hsz & Hd2 & Hm). rewrite E in Hb. apply Forall_app in Hb as [Hu _].
  exists (chunk ++ used), (lines1 ++ lines). split; [by rewrite E, app_assoc|]. split; [by eapply consumed_trans|].
  split; [done|]. split.
  { eapply delivered_trans; [apply (sc_hblock _ _ (proj2 Hc))|by apply quiet_http1x, Hc|done|done]. }
  assert (k + Z.of_nat (length chunk) + Z.of_nat (length used) = k + Z.of_nat (length (chunk ++ used))) as Ek
    by (rewrite length_app; lia).
  cbn zeta in *. destruct (fst r).
  - destruct Hm as (H1 & H2 & H3). split; [done|]. split; [|done].
    pose proof (Hgo used (lines1 ++ lines) (hbrc_flags (snd s2)) Hu) as Hx. apply Hx. by exists lines.
  - destruct Hm as (-> & Hin & Hrr & g' & H1 & H2 & H3 & H4 & H5 & H6). destruct (Hpre Hin) as (Hp & -> & Hgo2). rewrite Ek in *.
    split; [done|]. split; [done|]. split.
    { apply not_true_is_false. intros Hr. destruct (sc_ric _ _ (proj2 Hc) Hr). congruence. }
    exists g'. split; [done|]. split; [|split; [done|split; [done|split]]].
    + intros t2. apply (goes_on_read t2 k g chunk s [] g1 s1 used [] g' s2); [done|apply Hgo2|apply H2].
    + by rewrite <- (qu_entries _ _ _ _ _ (proj1 Hc)), <- (qu_last _ _ _ _ _ (proj1 Hc)).
    + destruct H6 as (v & H6 & H7 & H8). exists v. rewrite <- (qu_entries _ _ _ _ _ (proj1 Hc)). split; [done|]. split; [done|].
      intros r' Hr'. rewrite <- app_assoc, Hval by (done || by apply is_bytes_app). by apply H8.
  - destruct Hm as (H1 & H2 & g' & H3 & H4 & H5 & H6). split; [done|]. split; [done|]. exists g'. rewrite Ek in *. split; [done|].
    split; [apply (goes_on_read t k g chunk s _ g1 s1 used _ g' s2); [done..]|]. split.
    2:{ intros Hr r' Hr'. rewrite <- app_assoc, Hval; [by apply H6| |by apply is_bytes_app].
      apply not_true_is_false. intros Hr1. destruct (sc_ric _ _ (proj2 Hc2) Hr1). congruence. }
    intros Hx. destruct (H5 Hx) as (Hp & -> & H7). destruct (Hpre Hp) as (? & -> & Hgo2). split; [done|]. split; [done|].
    intros t2. apply (goes_on_read t2 k g chunk s [] g1 s1 used [] g' s2); [done|apply Hgo2|apply H7].
  - intros Hw r' all flags Hr' Hlr Hx Hne Hok Hf. rewrite <- app_assoc in Hx. apply Hgo in Hx as (more & -> & Hx); [|by apply is_bytes_app].
    apply Forall_app in Hok as [_ Hok]. apply (Hm Hw r' more flags); try done. intros Hp ->.
    destruct (Hpre Hp) as (Hp0 & -> & _). by apply Hne.
Qed.

(** ** The loop *)

Lemma call_read k g chunk rest s st s1 :
  call_post k g chunk (sized (hbrc_size (snd s) - Z.of_nat (length chunk)) s) st s1 ->
  0 <= hbrc_size (snd s) - Z.of_nat (length chunk) -> st <> LQRHS_NEED ->
  read_post k g (chunk ++ rest) s (st, rest) s1.
Proof.
  intros (Hk & lines & Hd & Hm) Hsz Hst. exists chunk, lines. split; [done|]. split; [done|].
  pose proof (sc_size _ _ (proj2 Hk)) as Es. cbn in Es. rewrite Es. split; [done|]. split; [done|]. destruct st; cbn in *; [| |done|].
  - destruct Hm as (H1 & H2%block_at_sized & H3 & H4 & _). split_and!; [lia|done|done|done].
  - destruct Hm as (H1 & H0 & Hrr & g' & H2 & H3 & H4). split; [done|]. split; [done|]. split; [done|]. exists g'. split; [done|].
    split; [|exact H4]. intros t2. eapply goes_on_sized, H3.
  - intros Hw r all flags Hr Hlr Hx Hne Hok Hf. eapply (Hm Hw r all flags Hr Hlr); [by apply block_at_sized|exact Hne|done|done].
Qed.

Lemma call_need k g chunk s s1 :
  call_post k g chunk (sized (hbrc_size (snd s) - Z.of_nat (length chunk)) s) LQRHS_NEED s1 ->
  exists lines g1, consumed chunk s s1 /\ delivered_lines lines s s1
    /\ goes_on t k g chunk s lines g1 s1 /\ (in_prefix (snd s1) -> in_prefix (snd s) /\ lines = [] /\ forall t2, goes_on t2 k g chunk s [] g1 s1)
    /\ (ric_read (snd s1) = false -> forall r, is_bytes r -> ric_value (snd s) (chunk ++ r) = ric_value (snd s1) r)
    /\ block_ready (k + Z.of_nat (length chunk)) g1 s1
    /\ (0 < hbrc_size (snd s) - Z.of_nat (length chunk)
        \/ forall k more flags, block_at k g1 s1 [] more flags -> in_prefix (snd s) /\ lines ++ more = []).
Proof.
  intros (Hk & lines & Hd & g1 & H1 & H2%goes_on_sized & H3 & Hv & H4). exists lines, g1. split_and!; try done.
  intros Hx. destruct (H3 Hx) as (? & ? & H5). split; [done|]. split; [done|]. intros t2. eapply goes_on_sized, H5.
Qed.

Definition to_read k s : Prop := 0 <= k /\ hbrc_orig_size (snd s) - hbrc_size (snd s) = k /\ is_u64 (hbrc_size (snd s)).

Lemma consumed_nil s : consumed [] s s.
Proof. split; [apply quiet_refl|]. constructor; try done. cbn. lia. Qed.

Lemma read_nothing k g s : block_ready k g s -> 0 < hbrc_size (snd s) -> read_post k g [] s (LQRHS_NEED, []) s.
Proof.
  intros Hbr Hpos. exists [], []. split; [done|]. split; [apply consumed_nil|]. split; [lia|]. split; [by apply delivered_nil|].
  cbn [fst snd length]. split; [done|]. split; [done|]. exists g. rewrite Z.add_0_r. split; [done|].
  assert (forall t2, goes_on t2 k g [] s [] g s) as Hgo; [|by split].
  intros t2 r all flags Hr. cbn [app length]. rewrite Z.add_0_r. split; [intros Hx; by exists all|by intros (more & -> & Hx)].
Qed.

(** The bytes the parser is given. *)
Lemma chunk_size c (buf : bytes) n : is_u64 (hbrc_size c) -> 0 < hbrc_size c ->
  n = Z.to_nat (Z.min (max_to_read c) (Z.of_nat (length buf))) ->
  (n <= length buf)%nat /\ Z.of_nat n <= hbrc_size c /\ (n = 0%nat -> buf = []) /\ (ric_read c = false -> (n <= 1)%nat).
Proof.
  intros Hu Hpos ->. unfold max_to_read, ric_read. destruct (has_bits _ _); split_and!; try lia; try done;
    intros; destruct buf; cbn [length] in *; try done; lia.
Qed.

Lemma wp_one_call k g b0 src s :
  let buf := b0 :: src in
  is_bytes buf -> Z.of_nat (length buf) < 2 ^ 32 -> block_ready k g s -> to_read k s ->
  (ric_read (snd s) = false -> src = []) -> Z.of_nat (length buf) <= hbrc_size (snd s) ->
  wp (hbrc_parse_call buf) (sized (hbrc_size (snd s) - Z.of_nat (length buf)) s)
    (call_post k g buf (sized (hbrc_size (snd s) - Z.of_nat (length buf)) s)).
Proof.
  intros buf Hb Hlen Hbr (Hk & Hks & Hu) Hone Hle. apply wp_parse_call; try done; [by apply block_ready_sized|].
  cbn [sized snd set_hbrc_size hbrc_orig_size hbrc_size]. fold buf. lia.
Qed.

Lemma to_read_after k chunk s s1 : to_read k s -> consumed chunk s s1 -> Z.of_nat (length chunk) <= hbrc_size (snd s) ->
  to_read (k + Z.of_nat (length chunk)) s1.
Proof.
  intros (Hk & Hks & Hu) [_ Hc] Hle. pose proof (sc_size _ _ Hc) as E1. pose proof (sc_orig _ _ Hc) as E2.
  cbn in E1, E2. unfold to_read, is_u64 in *. rewrite E1, E2. lia.
Qed.

(** The parser wants more, but the block has no more. *)
Lemma read_too_short k g chunk rest lines g1 s s1 :
  consumed chunk s s1 -> delivered_lines lines s s1 -> goes_on t k g chunk s lines g1 s1 ->
  hbrc_size (snd s) - Z.of_nat (length chunk) = 0 ->
  (forall k more flags, block_at k g1 s1 [] more flags -> in_prefix (snd s) /\ lines ++ more = []) ->
  read_post k g (chunk ++ rest) s (LQRHS_ERROR, rest) s1.
Proof.
  intros Hc Hd Hgo Hsz Hno. pose proof (sc_size _ _ (proj2 Hc)) as Es. cbn in Es. rewrite Hsz in Es.
  exists chunk, lines. cbn [fst snd]. rewrite Es. split_and!; try done. intros _ r all flags Hr Hlr Hx Hne _ _.
  assert (r = []) as -> by (destruct r; [done|cbn in Hlr; lia]).
  apply Hgo in Hx as (more & -> & Hx); [|done]. destruct (Hno _ _ _ Hx) as [Hp Hnil]. by apply Hne.
Qed.

Lemma wp_read_loop fuel k g buf s :
  is_bytes buf -> Z.of_nat (length buf) < 2 ^ 32 -> (length buf <= fuel)%nat ->
  block_ready k g s -> to_read k s -> 0 < hbrc_size (snd s) ->
  wp (read_header_loop fuel buf) s (read_post k g buf s).
Proof.
  revert k g buf s. induction fuel as [|fuel IH]; intros k g buf s Hb Hlen Hfuel Hbr Hto Hpos;
    cbn [read_header_loop]; destruct s as [dec c]; hsteps; cbn [snd] in Hpos;
    rewrite Z.gtb_ltb, (proj2 (Z.ltb_lt 0 (hbrc_size c)) Hpos);
    destruct (chunk_size c buf _ (proj2 (proj2 Hto)) Hpos eq_refl) as (Hn1 & Hn2 & Hn3 & Hn4);
    set (n := Z.to_nat (Z.min (max_to_read c) (Z.of_nat (length buf)))) in *;
    (destruct n as [|m] eqn:En; [hstep; rewrite (Hn3 eq_refl); by apply read_nothing|]); [lia|].
  rewrite <- En in *. assert (0 < n)%nat as Hn0 by lia. clear En. hstep. hstep. cbn [fst snd]. set (s0 := (dec, c)) in *.
  rewrite u64_id by (destruct Hto as (_ & _ & Hu); unfold is_u64 in *; cbn in Hu; lia).
  assert (length (take n buf) = n) as Ln by (rewrite length_take; lia).
  destruct (take n buf) as [|b0 src] eqn:Et; [cbn in Ln; lia|].
  assert (buf = (b0 :: src) ++ drop n buf) as Eb by (rewrite <- Et; by rewrite take_drop).
  assert (is_bytes (b0 :: src) /\ is_bytes (drop n buf)) as [Hb1 Hb2] by (apply Forall_app; by rewrite <- Eb).
  assert (Z.of_nat (length (b0 :: src)) <= hbrc_size (snd s0)) as Hle by (rewrite Ln; done).
  hstep. eapply wp_mono.
  { rewrite <- Ln. apply (wp_one_call k g b0 src s0); try done; [rewrite Ln; lia|]. cbn [snd s0]. intros Hr.
    specialize (Hn4 Hr). destruct src; [done|cbn in Ln; lia]. }
  intros st s1 Hcp. set (rest := drop n buf) in *. rewrite Eb.
  destruct st; [hstep; apply call_read; [exact Hcp|lia|done]..| |hstep; apply call_read; [exact Hcp|lia|done]].
  destruct (call_need _ _ _ _ _ Hcp) as (lines & g1 & Hc & Hd & Hgo & Hpre & Hval & Hbr1 & Hend).
  pose proof (sc_size _ _ (proj2 Hc)) as Es. cbn [snd set_hbrc_size hbrc_size] in Es. hsteps. rewrite Es.
  destruct (Z.eqb_spec (hbrc_size (snd s0) - Z.of_nat (length (b0 :: src))) 0) as [Hz|Hnz].
  - hstep. eapply read_too_short; try done. destruct Hend as [?|?]; [lia|done].
  - eapply wp_mono; [apply (IH (k + Z.of_nat (length (b0 :: src))) g1 rest s1)|]; try done.
    + unfold rest. rewrite length_drop. lia.
    + unfold rest. rewrite length_drop. lia.
    + by eapply to_read_after.
    + rewrite Es. cbn [snd s0] in *. lia.
    + intros r s2. by apply (read_step _ _ _ _ _ lines g1 s1).
Qed.

(** What [qdec_header_process] may rely on. *)
Lemma wp_read_header k g buf s :
  is_bytes buf -> Z.of_nat (length buf) < 2 ^ 32 -> block_ready k g s -> to_read k s -> 0 < hbrc_size (snd s) ->
  wp (qdec_read_header buf) s (read_post k g buf s).
Proof. intros. by apply wp_read_loop. Qed.
End block.
