(* ===== verification/DecView.v ===== *)
(** * A header block as the interface sees it

    [block_is] reads the rest of a header block from any state of its context, with
    the checks at the end of the block; the flags that say where the context is kept
    ([HBRC_ON_LIST], [HBRC_BLOCKED]) and the count of bytes left do not matter. *)

From stdpp Require Import gmap.
From S2P Require Import Prelude Monad IntCodec HuffTables Huffman HuffStream StrCodec Xxhash.
From S2P Require Import StaticTable Ringbuf Rfc9204 EncTable EncEncode DecTable DecState DecStream.
From S2P Require Import DecSpec DecBlocked DecStrings DecReading DecCore DecRounds DecHeader DecParse DecHblock.
From S2P Require Import DecHset DecOut DecCompose DecLine DecData DecLoop DecPrefix DecBlock.

(** ** Flags *)

(** The flags the parsers look at. *)
Record flags_sim (f f' : Z) : Prop := {
  fs_read : has_bits f' HBRC_LARGEST_REF_READ = has_bits f HBRC_LARGEST_REF_READ;
  fs_set : has_bits f' HBRC_LARGEST_REF_SET = has_bits f HBRC_LARGEST_REF_SET;
  fs_used : has_bits f' HBRC_LARGEST_REF_USED = has_bits f HBRC_LARGEST_REF_USED;
  fs_err : has_bits f' HBRC_DYN_USED_IN_ERR = has_bits f HBRC_DYN_USED_IN_ERR;
}.

#[global] Instance flags_sim_equiv : Equivalence flags_sim.
Proof.
  split; [by constructor| |]; intros f1 f2; [intros []; constructor; congruence|].
  intros f3 [] []. constructor; congruence.
Qed.

Lemma flags_sim_or f x : Z.land x 99 = 0 -> flags_sim f (Z.lor f x).
Proof.
  intros H. assert (forall b, Z.land 99 b = b -> Z.land x b = 0) as Hb.
  { intros b <-. by rewrite Z.land_assoc, H. }
  constructor; by apply has_bits_set, Hb.
Qed.

Lemma flags_sim_clear f : flags_sim f (Z.land f (Z.lnot HBRC_BLOCKED)).
Proof.
  assert (forall p, 0 <= p -> p <> 2 -> has_bits (Z.land f (Z.lnot HBRC_BLOCKED)) (2 ^ p) = has_bits f (2 ^ p)) as H.
  { intros p Hp Hne. rewrite !has_bits_pow2 by done. rewrite Z.land_spec, Z.lnot_spec by done. change HBRC_BLOCKED with (2 ^ 2).
    rewrite Z.pow2_bits_false by done. by rewrite andb_true_r. }
  constructor; [apply (H 0)|apply (H 1)|apply (H 5)|apply (H 6)]; done.
Qed.

Lemma has_bits_or f g b : has_bits (Z.lor f g) b = has_bits f b || has_bits g b.
Proof.
  unfold has_bits. rewrite Z.land_lor_distr_l. destruct (Z.eqb_spec (Z.lor (Z.land f b) (Z.land g b)) 0) as [E|E].
  - apply Z.lor_eq_0_iff in E as [-> ->]. done.
  - destruct (Z.eqb_spec (Z.land f b) 0) as [E1|], (Z.eqb_spec (Z.land g b) 0) as [E2|]; try done. by rewrite E1, E2 in E.
Qed.

Lemma flags_sim_same f f' x : flags_sim f f' -> flags_sim (Z.lor f x) (Z.lor f' x).
Proof.
  intros [H1 H2 H3 H4].
  constructor; by rewrite !has_bits_or, ?H1, ?H2, ?H3, ?H4.
Qed.

Lemma flags_sim_ref largest f f' id : flags_sim f f' -> flags_sim (ref_flags largest f id) (ref_flags largest f' id).
Proof. intros H. unfold ref_flags. rewrite (fs_set _ _ H). by apply flags_sim_same. Qed.

Lemma set_unused f : (Z.land f (Z.lor HBRC_LARGEST_REF_SET HBRC_LARGEST_REF_USED) =? HBRC_LARGEST_REF_SET)
  = has_bits f HBRC_LARGEST_REF_SET && negb (has_bits f HBRC_LARGEST_REF_USED).
Proof.
  rewrite Z.land_lor_distr_r. change HBRC_LARGEST_REF_SET with (2 ^ 1). change HBRC_LARGEST_REF_USED with (2 ^ 5).
  rewrite !has_bits_pow2, !land_pow2 by lia. by destruct (Z.testbit f 1), (Z.testbit f 5).
Qed.

Lemma flags_ok_sim f f' : flags_sim f f' -> flags_ok f' = flags_ok f.
Proof. intros H. unfold flags_ok. by rewrite !set_unused, (fs_set _ _ H), (fs_used _ _ H), (fs_err _ _ H). Qed.

(** ** Reading with other flags *)

Definition result_sim (r r' : line_result) : Prop :=
  match r, r' with
  | Some (line, f, buf), Some (line', f', buf') => line' = line /\ buf' = buf /\ flags_sim f f'
  | None, None => True
  | _, _ => False
  end.

Lemma with_value_sim never name f f' r : flags_sim f f' -> result_sim (with_value never name f r) (with_value never name f' r).
Proof. intros H. unfold with_value. by destruct r as [[v buf]|]. Qed.

Lemma ref_field_sim E f f' k n : flags_sim f f' ->
  match ref_field E f k n, ref_field E f' k n with
  | Some (x, g), Some (x', g') => x' = x /\ flags_sim g g'
  | None, None => True
  | _, _ => False
  end.
Proof.
  intros H. unfold ref_field. destruct k.
  - by destruct (static_field n).
  - destruct (le_look E (le_rel E n)); [|done]. split; [done|]. by apply flags_sim_ref.
  - destruct (le_look E (le_post E n)); [|done]. split; [done|]. by apply flags_sim_ref.
Qed.

Lemma indexed_sim E f f' k r : flags_sim f f' -> result_sim (indexed E f k r) (indexed E f' k r).
Proof.
  intros H. unfold indexed. destruct r as [[n buf]|]; [|done]. cbn [mbind option_bind].
  pose proof (ref_field_sim E f f' k n H) as Hr. destruct (ref_field E f k n) as [[x g]|], (ref_field E f' k n) as [[x' g']|]; try done.
  by destruct Hr as [-> ?].
Qed.

Lemma nameref_sim E f f' k never r : flags_sim f f' -> result_sim (nameref E f k never r) (nameref E f' k never r).
Proof.
  intros H. unfold nameref. destruct r as [[n buf]|]; [|done]. cbn [mbind option_bind].
  pose proof (ref_field_sim E f f' k n H) as Hr. destruct (ref_field E f k n) as [[x g]|], (ref_field E f' k n) as [[x' g']|]; try done.
  destruct Hr as [-> ?]. by apply with_value_sim.
Qed.

Lemma literal_sim never f f' r : flags_sim f f' -> result_sim (literal never f r) (literal never f' r).
Proof. intros H. unfold literal. destruct r as [[n buf]|]; [|done]. by apply with_value_sim. Qed.

#[local] Hint Resolve with_value_sim indexed_sim nameref_sim literal_sim : core.

Lemma read_line_sim E f f' buf : flags_sim f f' -> result_sim (read_line E f buf) (read_line E f' buf).
Proof. intros H. unfold read_line. destruct buf; [done|]. repeat case_match; auto. Qed.

Lemma line_rest_sim E f f' g st buf : flags_sim f f' -> result_sim (line_rest E f g st buf) (line_rest E f' g st buf).
Proof. intros H. destruct st; cbn [line_rest]; auto. by apply read_line_sim. Qed.

Lemma result_sim_some r r' line f buf : result_sim r r' -> r = Some (line, f, buf) ->
  exists f', r' = Some (line, f', buf) /\ flags_sim f f'.
Proof. intros H ->. destruct r' as [[[line' f'] buf']|]; [|done]. destruct H as (-> & -> & H). by exists f'. Qed.

Lemma block_lines_sim E f f' buf lines f1 : flags_sim f f' -> block_lines E f buf lines f1 ->
  exists f1', block_lines E f' buf lines f1' /\ flags_sim f1 f1'.
Proof.
  intros H Hb. revert f' H. induction Hb as [f|f buf line f1 rest ls f2 Hr Hb IH]; intros f' H.
  - exists f'. by split; [constructor|].
  - destruct (result_sim_some _ _ _ _ _ (read_line_sim E f f' buf H) Hr) as (g & Hg & Hs).
    destruct (IH g Hs) as (g' & Hg' & Hs'). exists g'. split; [by econstructor|done].
Qed.

Lemma block_from_sim E f f' g st buf lines f1 : flags_sim f f' -> block_from E f g st buf lines f1 ->
  exists f1', block_from E f' g st buf lines f1' /\ flags_sim f1 f1'.
Proof.
  intros H [(-> & -> & -> & ->)|(line & fl & rest & ls & H1 & H2 & ->)].
  - exists f'. by split; [left|].
  - destruct (result_sim_some _ _ _ _ _ (line_rest_sim E f f' g st buf H) H1) as (fl' & Hg & Hs).
    destruct (block_lines_sim _ _ _ _ _ _ Hs H2) as (f2 & Hb & Hs'). exists f2. split; [|done]. right. by exists line, fl', rest, ls.
Qed.

(** ** Contexts *)

(** What the parser's state is, besides [hbrc_out]. *)
Record ctx_sim (c c' : header_block_read_ctx) : Prop := {
  cs_parse : hbrc_parse c' = hbrc_parse c;
  cs_largest : hbrc_largest_ref c' = hbrc_largest_ref c;
  cs_base : hbrc_base_index c' = hbrc_base_index c;
  cs_flags : flags_sim (hbrc_flags c) (hbrc_flags c');
}.

Lemma ctx_sim_refl c : ctx_sim c c.
Proof. by constructor. Qed.

Lemma ctx_sim_sym c c' : ctx_sim c c' -> ctx_sim c' c.
Proof. intros []. by constructor. Qed.

Lemma ctx_sim_trans c c1 c2 : ctx_sim c c1 -> ctx_sim c1 c2 -> ctx_sim c c2.
Proof. intros [] []. constructor; congruence || by etrans. Qed.

Lemma env_of_sim t M c c' : ctx_sim c c' -> env_of t M c' = env_of t M c.
Proof. intros [_ Hl Hb _]. unfold env_of. by rewrite Hl, Hb. Qed.

Lemma base_ctx_sim M sign v c c' : ctx_sim c c' -> ctx_sim (base_ctx M sign v c) (base_ctx M sign v c').
Proof.
  intros [Hp Hl Hb Hf]. constructor; cbn; try done. by rewrite (fs_set _ _ Hf), Hl.
Qed.

Lemma ric_ctx_sim M v c c' : ctx_sim c c' -> ctx_sim (ric_ctx M v c) (ric_ctx M v c').
Proof. intros [Hp Hl Hb Hf]. unfold ric_ctx. destruct (v =? 0); constructor; cbn; try done; by apply flags_sim_same. Qed.

Section reading.
Variables (t : dyn_table) (M : Z).

Lemma base_block_sim c c' sign p st buf lines f : ctx_sim c c' -> base_block t M c sign p st buf lines f ->
  exists f', base_block t M c' sign p st buf lines f' /\ flags_sim f f'.
Proof.
  intros H (v & rest & Hr & Hb). destruct (block_lines_sim _ _ _ _ _ _ (cs_flags _ _ H) Hb) as (f' & Hb' & Hs).
  exists f'. split; [|done]. exists v, rest. split; [done|]. by rewrite (env_of_sim _ _ _ _ (base_ctx_sim M sign v _ _ H)).
Qed.

Lemma begin_base_sim c c' buf lines f : ctx_sim c c' -> begin_base t M c buf lines f ->
  exists f', begin_base t M c' buf lines f' /\ flags_sim f f'.
Proof.
  intros H (b & src & E & Hb). destruct (base_block_sim _ _ _ _ _ _ _ _ H Hb) as (f' & Hb' & Hs).
  exists f'. split; [|done]. by exists b, src.
Qed.

Lemma ric_block_sim c c' k p st buf lines f : ctx_sim c c' -> ric_block t M c k p st buf lines f ->
  exists f', ric_block t M c' k p st buf lines f' /\ flags_sim f f'.
Proof.
  intros H (v & used & rest & E & Hr & Hv & Hk & Hb).
  destruct (begin_base_sim _ _ _ _ _ (ric_ctx_sim M v _ _ H) Hb) as (f' & Hb' & Hs).
  exists f'. split; [|done]. by exists v, used, rest.
Qed.
End reading.

(** Nothing of a line has been read. *)
Definition no_part : line_part := {| lp_never := false; lp_name := []; lp_part := [] |}.

(** ** The rest of a block *)

Section view.
Context {hset : Type} `{!HsetIf hset} `{!HsetOk hset}.
Variables (t : dyn_table).

Implicit Types (dec : lsqpack_dec hset) (c : header_block_read_ctx).

Lemma block_at_sim k g dec dec' c c' buf lines f :
  qpd_max_entries (qpd_tab dec') = qpd_max_entries (qpd_tab dec) -> ctx_sim c c' ->
  block_at t k g (dec, c) buf lines f -> exists f', block_at t k g (dec', c') buf lines f' /\ flags_sim f f'.
Proof.
  intros EM H. unfold block_at. cbn [fst snd]. rewrite (cs_parse _ _ H), EM.
  destruct (hbrc_parse c) as [[|st| |sign st]|st].
  - by apply ric_block_sim.
  - by apply ric_block_sim.
  - by apply begin_base_sim.
  - by apply base_block_sim.
  - unfold block_of. cbn [fst snd]. intros Hb. destruct (block_from_sim _ _ _ _ _ _ _ _ (cs_flags _ _ H) Hb) as (f' & Hb' & Hs).
    exists f'. split; [|done]. unfold env in *. cbn [fst snd] in *. rewrite EM. by rewrite (env_of_sim _ _ _ _ H).
Qed.

(** [k] bytes of the block came before [buf], which is the rest of it: [lines] are its
    field lines, [dyn] says whether its Required Insert Count is not zero. *)
Definition block_is (k : Z) (g : line_part) dec c (buf : bytes) (lines : list hline) (dyn : bool) : Prop :=
  exists flags, block_at t k g (dec, c) buf lines flags /\ flags_ok flags = true
    /\ has_bits flags HBRC_LARGEST_REF_SET = dyn.

Lemma block_is_sim k g dec dec' c c' buf lines dyn :
  qpd_max_entries (qpd_tab dec') = qpd_max_entries (qpd_tab dec) -> ctx_sim c c' ->
  block_is k g dec c buf lines dyn <-> block_is k g dec' c' buf lines dyn.
Proof.
  intros EM H. split; intros (f & Hb & Hok & Hs).
  - destruct (block_at_sim _ _ _ dec' _ c' _ _ _ EM H Hb) as (f' & Hb' & Hs'). exists f'.
    split; [done|]. split; [by rewrite (flags_ok_sim _ _ Hs')|by rewrite (fs_set _ _ Hs')].
  - destruct (block_at_sim _ _ _ dec _ c _ _ _ (eq_sym EM) (ctx_sim_sym _ _ H) Hb) as (f' & Hb' & Hs'). exists f'.
    split; [done|]. split; [by rewrite (flags_ok_sim _ _ Hs')|by rewrite (fs_set _ _ Hs')].
Qed.

(** After [buf] and [lines] the rest of the block is read from the context [c']. *)
Definition continues (k : Z) (g : line_part) dec c (buf : bytes) (lines : list hline) (g' : line_part) dec' c' : Prop :=
  forall r all dyn, is_bytes r ->
    block_is k g dec c (buf ++ r) all dyn
    <-> exists more, all = lines ++ more /\ block_is (k + Z.of_nat (length buf)) g' dec' c' r more dyn.

Lemma goes_on_continues k g buf dec c lines g' dec' c' :
  goes_on t k g buf (dec, c) lines g' (dec', c') -> continues k g dec c buf lines g' dec' c'.
Proof.
  intros H r all dyn Hr. split.
  - intros (f & Hb & Hok & Hs). apply H in Hb as (more & -> & Hb); [|done]. exists more. split; [done|]. by exists f.
  - intros (more & -> & f & Hb & Hok & Hs). exists f. split; [|done]. apply H; [done|]. by exists more.
Qed.

Lemma continues_sim k g buf dec c lines g' dec1 c1 dec2 c2 :
  qpd_max_entries (qpd_tab dec2) = qpd_max_entries (qpd_tab dec1) -> ctx_sim c1 c2 ->
  continues k g dec c buf lines g' dec1 c1 -> continues k g dec c buf lines g' dec2 c2.
Proof.
  intros EM H Hc r all dyn Hr. rewrite (Hc r all dyn Hr). split; intros (more & -> & Hb); exists more; (split; [done|]);
    by apply (block_is_sim _ _ dec1 dec2 c1 c2).
Qed.
End view.
