(* ===== verification/DecProcess.v ===== *)
(** * One call for a header block

    [qdec_header_process]: the context is kept, blocked or destroyed as the status of
    [qdec_read_header] says; what holds of every context that is kept ([ctx_ready]). *)

From stdpp Require Import gmap.
From S2P Require Import Prelude Monad IntCodec HuffTables Huffman HuffStream StrCodec Xxhash.
From S2P Require Import StaticTable Ringbuf Rfc9204 EncTable EncEncode Float DecTable DecState DecStream.
From S2P Require Import DecSpec DecBlocked DecStrings DecReading DecCore DecEncIn DecHeader DecParse DecHblock.
From S2P Require Import DecHset DecOut DecCompose DecLine DecData DecLoop DecPrefix DecBlock DecView.

(** ** Ids in the future *)

Lemma mod_of_range M a b : 0 < M -> 0 <= b < 2 * M -> (exists q, a = 2 * M * q + b) -> a mod (2 * M) = b.
Proof. intros HM Hb (q & ->). rewrite Z.add_comm, Z.mul_comm, Z.mod_add by lia. by apply Z.mod_small. Qed.

(** The ids [qdec_in_future] says yes to are those of the next [M] insertions. *)
Lemma in_future_waiting M n id :
  0 < M < 2 ^ 27 -> 0 <= id < 2 * M ->
  qdec_in_future M ((n - 1) mod (2 * M)) id = true <-> exists ric, n < ric <= n + M /\ id = (ric - 1) mod (2 * M).
Proof.
  intros HM Hid. change (2 ^ 27) with 134217728 in HM.
  pose proof (Z.mod_pos_bound (n - 1) (2 * M) ltac:(lia)) as Hl. set (l := (n - 1) mod (2 * M)) in *.
  pose proof (Z.div_mod (n - 1) (2 * M) ltac:(lia)) as Hn. fold l in Hn. set (q := (n - 1) / (2 * M)) in *.
  assert (qdec_in_future M l id = true <-> l < id <= l + M \/ id <= l - M) as ->.
  { unfold qdec_in_future. destruct (Z.ltb_spec l M) as [Hlt|Hge].
    - rewrite u32_id by (unfold is_u32; change (2 ^ 32) with 4294967296; lia). lia.
    - rewrite u32_id by (unfold is_u32; change (2 ^ 32) with 4294967296; lia).
      rewrite negb_true_iff, andb_false_iff, !Z.leb_gt. lia. }
  split.
  - intros [H|H].
    + exists (n + (id - l)). split; [lia|]. symmetry. apply mod_of_range; [lia|lia|]. exists q. lia.
    + exists (n + (id + 2 * M - l)). split; [lia|]. symmetry. apply mod_of_range; [lia|lia|]. exists (q + 1). lia.
  - intros (ric & Hr & ->). destruct (Z.lt_ge_cases (l + (ric - n)) (2 * M)) as [Hw|Hw].
    + left. rewrite (mod_of_range M (ric - 1) (l + (ric - n))); [lia|lia|lia|]. exists q. lia.
    + right. rewrite (mod_of_range M (ric - 1) (l + (ric - n) - 2 * M)); [lia|lia|lia|]. exists (q + 1). lia.
Qed.

Lemma id_minus64_range M a b : 0 < M < 2 ^ 27 -> 0 <= ID_MINUS64 M a b < 2 * M.
Proof.
  intros HM. unfold ID_MINUS64. destruct (Z.eqb_spec M 0); [lia|]. change (2 ^ 27) with 134217728 in HM.
  rewrite (u32_id (2 * M)) by (unfold is_u32; change (2 ^ 32) with 4294967296; lia). apply Z.mod_pos_bound. lia.
Qed.

Section process.
Context {hset : Type} `{!HsetIf hset} `{!HsetOk hset}.
Variables (max : Z) (rel : bool) (t : dyn_table).

Implicit Types (dec : lsqpack_dec hset) (c : header_block_read_ctx).

Local Abbreviation reading := (reading max rel).
Local Abbreviation entries dec := (qpd_max_entries (qpd_tab dec)).
Local Abbreviation block_is := (block_is t).

(** ** The decoder between two calls *)

Lemma reading_ext dec dec' :
  qpd_tab dec' = qpd_tab dec -> qpd_mallocs dec' = qpd_mallocs dec -> qpd_enc_state dec' = qpd_enc_state dec ->
  ctxs_ok (dt_inserted t) (entries dec) (qpd_ctxs dec') -> reading dec t -> reading dec' t.
Proof.
  intros Et Em Es Hcx (l & name & [H1 H2 H3 H4 H5 H6] & Hst). exists l, name. rewrite Es. split; [constructor|]; rewrite ?Et, ?Em; try done.
  unfold own_entry in *. by rewrite Et.
Qed.

Lemma reading_ctxs dec : reading dec t -> ctxs_ok (dt_inserted t) (entries dec) (qpd_ctxs dec).
Proof. intros (l & name & Hc & _). apply (dc_ctxs _ _ _ _ _ _ _ _ Hc). Qed.

Lemma reading_entries dec : reading dec t -> 0 <= entries dec < 2 ^ 27
  /\ (0 < entries dec -> qpd_last_id (qpd_tab dec) = (dt_inserted t - 1) mod (2 * entries dec)).
Proof.
  intros (l & name & Hc & _). pose proof (tr_core _ _ _ _ _ (dc_tab _ _ _ _ _ _ _ _ Hc)) as Ht.
  split; [|apply (tc_last _ _ _ _ _ Ht)]. rewrite (tc_entries _ _ _ _ _ Ht). pose proof (tc_max _ _ _ _ _ Ht) as Hm.
  change (2 ^ 31) with 2147483648 in Hm. change (2 ^ 27) with 134217728.
  split; [apply Z.div_pos; [|lia]; pose proof (tc_cap _ _ _ _ _ Ht); lia|]. apply Z.div_lt_upper_bound; lia.
Qed.

(** The bytes of the block that have been read. *)
Definition got c : Z := hbrc_orig_size c - hbrc_size c.

(** A context that is kept.  It may have no more bytes to come only when it has stopped
    behind the Required Insert Count. *)
Record ctx_at (M opts : Z) (g : line_part) c : Prop := {
  ca_parse : parse_ok M opts (got c) g c;
  ca_got : 0 <= got c;
  ca_size : is_u64 (hbrc_size c);
  ca_more : hbrc_size c = 0 -> hbrc_parse c = PARSE_PREFIX PREFIX_STATE_BEGIN_READING_BASE_IDX;
  ca_blocked : is_blocked c = true -> ric_read c = true;
}.

Lemma ctx_at_sim M opts g c c' :
  ctx_sim c c' -> hbrc_out c' = hbrc_out c -> hbrc_size c' = hbrc_size c -> hbrc_orig_size c' = hbrc_orig_size c ->
  (is_blocked c' = true -> ric_read c = true) -> ctx_at M opts g c -> ctx_at M opts g c'.
Proof.
  intros [Hp _ _ Hf] Ho Hs Hz Hb [H1 H2 H3 H4 H5]. unfold got in *.
  assert (ric_read c' = ric_read c) as Hr by apply (fs_read _ _ Hf).
  constructor; unfold got; rewrite ?Hs, ?Hz, ?Hp; try done; [|by rewrite Hr].
  unfold parse_ok in *. rewrite Hp. destruct (hbrc_parse c) as [ps|st].
  - destruct H1 as [H1 Hn]. split; [|unfold no_header in *; by rewrite Ho]. destruct ps; cbn [prefix_ok] in *; by rewrite Hr.
  - destruct H1 as [H1 Hrr]. split; [by eapply line_state_ok_ext|by rewrite Hr].
Qed.

Record dec_ready dec : Prop := {
  dr_reading : reading dec t;
  dr_ctxs : forall p c, cx_mem (qpd_ctxs dec) !! p = Some c -> exists g, ctx_at (entries dec) (qpd_opts dec) g c;
  dr_risked : is_u32 (qpd_max_risked_streams dec);
}.

(** What a call for a header block leaves as it was. *)
Record same_dec dec dec' : Prop := {
  sd_opts : qpd_opts dec' = qpd_opts dec;
  sd_risked : qpd_max_risked_streams dec' = qpd_max_risked_streams dec;
  sd_last : qpd_last_id (qpd_tab dec') = qpd_last_id (qpd_tab dec);
  sd_entries : entries dec' = entries dec;
  sd_state : qpd_enc_state dec' = qpd_enc_state dec;
  sd_reader : reader dec' = reader dec;
}.

Lemma same_dec_trans dec dec1 dec2 : same_dec dec dec1 -> same_dec dec1 dec2 -> same_dec dec dec2.
Proof. intros [] []. constructor; congruence. Qed.

Lemma quiet_same_dec dec dec' : quiet max rel t dec dec' -> same_dec dec dec'.
Proof. intros []. by constructor. Qed.

(** The table and the contexts are as they were, or only the contexts are others. *)
Lemma same_dec_tab dec dec' :
  qpd_opts dec' = qpd_opts dec -> qpd_max_risked_streams dec' = qpd_max_risked_streams dec ->
  qpd_tab dec' = qpd_tab dec -> qpd_enc_state dec' = qpd_enc_state dec -> same_dec dec dec'.
Proof.
  intros Eo Er Et Es. constructor; try done; rewrite ?Et; try done. unfold reader, own_entry. by rewrite Et, Es.
Qed.

(** ** The store of contexts *)

Local Abbreviation mem dec := (cx_mem (qpd_ctxs dec)).

(** Only the contexts have changed, and what [malloc] gives next. *)
Record only_ctxs dec dec' : Prop := {
  oc_same : same_dec dec dec';
  oc_reading : reading dec' t;
  oc_app : qpd_app dec' = qpd_app dec;
  oc_known : qpd_largest_known_id dec' = qpd_largest_known_id dec;
}.

Lemma only_ctxs_refl dec : reading dec t -> only_ctxs dec dec.
Proof. intros Hr. by repeat constructor. Qed.

Lemma only_ctxs_trans dec dec1 dec2 : only_ctxs dec dec1 -> only_ctxs dec1 dec2 -> only_ctxs dec dec2.
Proof. intros [] []. constructor; try congruence. by eapply same_dec_trans. Qed.

Lemma set_ctxs_only cs dec :
  reading dec t -> ctxs_ok (dt_inserted t) (entries dec) cs -> only_ctxs dec (set_ctxs cs dec).
Proof. intros Hr Hcs. constructor; [by apply same_dec_tab|by apply (reading_ext dec)|done|done]. Qed.

Lemma malloc_only dec m ms : reading dec t -> malloc (qpd_mallocs dec) = (m, ms) ->
  only_ctxs dec (set_mallocs ms dec) /\ (m = None -> rel = false).
Proof.
  intros (l & name & Hc & Hst) E. pose proof (wp_malloc max rel t l _ _ name dec Hc) as H.
  unfold wp, dec_malloc in H. rewrite E in H. destruct H as (Hc' & _ & _ & Hm). split; [|done].
  constructor; [by apply same_dec_tab| |done|done]. by exists l, name.
Qed.

(** Where the context is or will be, and what is written there. *)
Definition addr (p : option Z) dec : Z := match p with Some q => q | None => cx_next (qpd_ctxs dec) end.
Definition listed (p : option Z) c : header_block_read_ctx :=
  match p with Some _ => c | None => set_hbrc_flags (Z.lor (hbrc_flags c) HBRC_ON_LIST) c end.

(** [c] is in the place [p], or on the stack and not blocked. *)
Definition placed (p : option Z) c dec : Prop :=
  match p with Some q => mem dec !! q = Some c | None => is_blocked c = false end.

(** [c'] may be put in the place of [c]. *)
Definition replaces c' c : Prop :=
  is_blocked c' = is_blocked c /\ (is_blocked c = true -> hbrc_largest_ref c' = hbrc_largest_ref c).

Lemma wp_keep_ctx p c c' dec :
  reading dec t -> placed p c dec -> replaces c' c ->
  wp (keep_ctx p c') dec (fun o dec' => only_ctxs dec dec' /\ qpd_n_blocked (qpd_ctxs dec') = qpd_n_blocked (qpd_ctxs dec)
    /\ match o with
       | Some q => q = addr p dec /\ mem dec' = <[q := listed p c']> (mem dec)
       | None => p = None /\ rel = false /\ mem dec' = mem dec
       end).
Proof.
  intros Hr Hp [Hb Hl]. unfold keep_ctx. destruct p as [q|]; cbn [placed] in Hp.
  - wpsteps. split; [|done]. apply set_ctxs_only; [done|]. eapply set_ctx_ok; [by apply reading_ctxs|done|done|done].
  - wpstep. unfold wp at 1, dec_malloc. destruct (malloc (qpd_mallocs dec)) as [m ms] eqn:E.
    destruct (malloc_only dec m ms Hr E) as [Ho Hm]. destruct m as [m|].
    + unfold qdec_insert_header_block. wpsteps. split; [|done]. eapply only_ctxs_trans; [exact Ho|].
      apply set_ctxs_only; [by apply Ho|]. apply insert_ctx_ok; [by apply reading_ctxs, Ho|congruence].
    + wpsteps. split; [done|]. split; [done|]. by split_and!; [|apply Hm|].
Qed.

Lemma wp_stash q c dec :
  reading dec t -> mem dec !! q = Some c -> is_blocked c = false -> waiting (dt_inserted t) (entries dec) c ->
  is_u32 (qpd_max_risked_streams dec) ->
  wp (stash_blocked_header q) dec (fun ok dec' => only_ctxs dec dec' /\
    if ok : bool then mem dec' = <[q := set_hbrc_flags (Z.lor (hbrc_flags c) HBRC_BLOCKED) c]> (mem dec)
    else mem dec' = mem dec /\ qpd_max_risked_streams dec <= qpd_n_blocked (qpd_ctxs dec)).
Proof.
  intros Hr Hq Hb Hw Hu. unfold stash_blocked_header. wpsteps. destruct (Z.ltb_spec (qpd_n_blocked (qpd_ctxs dec)) (qpd_max_risked_streams dec)).
  - wpstep. eapply wp_demand; [exact Hq|]. wpsteps. split; [|done]. apply set_ctxs_only; [done|].
    apply block_ctx_ok; [by apply reading_ctxs|done|done|done|]. unfold is_u32 in Hu. lia.
  - wpsteps. by split; [apply only_ctxs_refl|].
Qed.

Lemma destroy_ok n M q c cs : ctxs_ok n M cs -> cx_mem cs !! q = Some c ->
  ctxs_ok n M (removed q (if is_blocked c then taken_out q (hbrc_largest_ref c) cs else cs)).
Proof.
  intros H Hq. destruct (is_blocked c) eqn:Hb; [|by eapply removed_ok].
  set (c' := set_hbrc_flags (Z.land (hbrc_flags c) (Z.lnot HBRC_BLOCKED)) c).
  pose proof (unblock_buckets _ _ _ _ _ c' H Hq Hb (is_blocked_cleared c)) as Hu.
  eapply (removed_ok _ _ q c') in Hu; [|cbn; by rewrite lookup_insert_eq|by apply is_blocked_cleared].
  unfold removed, taken_out, set_ctx in *. cbn in *. by rewrite delete_insert_eq in Hu.
Qed.

Lemma wp_destroy q c dec :
  reading dec t -> mem dec !! q = Some c ->
  wp (destroy_header_block_read_ctx q) dec (fun _ dec' => only_ctxs dec dec' /\ mem dec' = delete q (mem dec)).
Proof.
  intros Hr Hq. unfold destroy_header_block_read_ctx. wpsteps. eapply wp_demand; [exact Hq|]. wpsteps.
  pose proof (reading_ctxs dec Hr) as Hctx. pose proof (destroy_ok _ _ _ _ _ Hctx Hq) as Hok.
  assert (q ∈ qpd_hbrcs (qpd_ctxs dec)) as Hin by (apply (co_mem _ _ _ Hctx); by exists c).
  eapply wp_part; [unfold remove_ctx; by rewrite (tailq_remove_Some _ _ Hin)|]. wpstep.
  set (cs := if is_blocked c then taken_out q (hbrc_largest_ref c) (qpd_ctxs dec) else qpd_ctxs dec) in *.
  eapply (wp_mono _ _ (fun _ dec1 => dec1 = set_ctxs {| cx_mem := mem dec; cx_next := cx_next (qpd_ctxs dec);
    qpd_hbrcs := filter (fun p => p <> q) (qpd_hbrcs (qpd_ctxs dec));
    qpd_blocked_headers := qpd_blocked_headers cs; qpd_n_blocked := qpd_n_blocked cs |} dec)).
  { fold (is_blocked c). subst cs. destruct (is_blocked c) eqn:Hb; [|by apply wp_ret].
    eapply wp_part; [by apply (unblock_taken_out _ _ (qpd_ctxs dec) _ q c Hctx)|done]. }
  intros u dec1 ->. eapply wp_part; [unfold free_context; cbn; by rewrite Hq|]. cbn [set_ctxs qpd_ctxs].
  assert (cx_mem cs = mem dec /\ cx_next cs = cx_next (qpd_ctxs dec) /\ qpd_hbrcs cs = qpd_hbrcs (qpd_ctxs dec))
    as (E1 & E2 & E3) by (subst cs; by destruct (is_blocked c)).
  unfold removed in Hok. rewrite E1, E2, E3 in Hok. split; [|done].
  eapply (set_ctxs_only _ _ Hr), Hok.
Qed.

(** The contexts once that of the block is gone. *)
Definition without (p : option Z) dec : gmap Z header_block_read_ctx :=
  match p with Some q => delete q (mem dec) | None => mem dec end.

Lemma wp_destroy_if_kept p c c' dec :
  reading dec t -> placed p c dec -> replaces c' c ->
  wp (destroy_if_kept p c') dec (fun _ dec' => only_ctxs dec dec' /\ mem dec' = without p dec).
Proof.
  intros Hr Hp [Hb Hl]. unfold destroy_if_kept. destruct p as [q|]; cbn [placed without] in *; [|wpsteps; by split; [apply only_ctxs_refl|]].
  assert (only_ctxs dec (set_ctxs (set_ctx q c' (qpd_ctxs dec)) dec)) as Ho.
  { apply set_ctxs_only; [done|]. by eapply set_ctx_ok; [apply reading_ctxs|..]. }
  wpsteps. eapply wp_mono; [apply (wp_destroy q c'); [apply Ho|cbn; by rewrite lookup_insert_eq]|].
  intros _ dec' [Ho' E]. split; [by eapply only_ctxs_trans|]. rewrite E. cbn. by rewrite delete_insert_eq.
Qed.

(** ** A block that is done *)

(** The acknowledgement; [dyn] says that the Required Insert Count is not zero. *)
Definition ack_bytes (dyn : bool) (stream_id : Z) (dec_buf : option bytes) : option bytes :=
  match dec_buf with
  | Some room => if dyn then written (put_int 0x80 room stream_id 7) else Some []
  | None => Some []
  end.

(** The largest id the encoder knows to be received, after the block. *)
Definition known_after (M : Z) (dyn : bool) (largest known : Z) (dec_buf : option bytes) : Z :=
  if bool_decide (is_Some dec_buf) && dyn && (ID_MINUS M largest known >? 0) && (ID_MINUS M largest known <=? M)
  then largest else known.

(** Only counters have changed. *)
Record counted dec dec' : Prop := {
  cn_same : same_dec dec dec';
  cn_reading : reading dec' t;
  cn_app : qpd_app dec' = qpd_app dec;
  cn_ctxs : qpd_ctxs dec' = qpd_ctxs dec;
}.

Lemma counted_trans dec dec1 dec2 : counted dec dec1 -> counted dec1 dec2 -> counted dec dec2.
Proof. intros [] []. constructor; try congruence. by eapply same_dec_trans. Qed.

Lemma counted_intro dec dec' :
  reading dec t -> qpd_opts dec' = qpd_opts dec -> qpd_max_risked_streams dec' = qpd_max_risked_streams dec ->
  qpd_tab dec' = qpd_tab dec -> qpd_enc_state dec' = qpd_enc_state dec -> qpd_app dec' = qpd_app dec ->
  qpd_ctxs dec' = qpd_ctxs dec -> qpd_mallocs dec' = qpd_mallocs dec -> counted dec dec'.
Proof.
  intros Hr Eo Er Et Es Ea Ec Em. constructor; [by apply same_dec_tab| |done|done].
  apply (reading_ext dec); try done. rewrite Ec. by apply reading_ctxs.
Qed.

Lemma counted_reset dec : reading dec t -> counted dec (reset_counters dec) /\ qpd_largest_known_id (reset_counters dec) = qpd_largest_known_id dec.
Proof. intros Hr. unfold reset_counters. destruct (qpd_bytes_out dec >? 2 ^ 31); (split; [by apply counted_intro|done]). Qed.

Lemma wp_block_done c buf rest dec_buf dec :
  reading dec t ->
  let dyn := has_bits (hbrc_flags c) HBRC_LARGEST_REF_SET in
  wp (header_block_done c buf rest dec_buf) dec (fun r dec' => counted dec dec' /\
    match ack_bytes dyn (hbrc_stream_id c) dec_buf with
    | Some b => r = {| hr_status := LQRHS_DONE; hr_rest := rest; hr_ack := b |}
        /\ qpd_largest_known_id dec'
           = known_after (entries dec) dyn (hbrc_largest_ref c) (qpd_largest_known_id dec) dec_buf
    | None => r = {| hr_status := LQRHS_ERROR; hr_rest := buf; hr_ack := [] |}
        /\ qpd_largest_known_id dec' = qpd_largest_known_id dec
    end).
Proof.
  intros Hr dyn. unfold header_block_done, ack_bytes, known_after. fold dyn.
  set (dec1 := set_hlist_size_ema (update_ema (qpd_hlist_size_ema dec) (hbrc_header_count c)) dec).
  assert (counted dec dec1) as H1 by by apply counted_intro.
  assert (forall dec2, counted dec dec2 ->
      let dec' := reset_counters (set_bytes_in (u32 (qpd_bytes_in dec2 + hbrc_orig_size c)) dec2) in
      counted dec dec' /\ qpd_largest_known_id dec' = qpd_largest_known_id dec2) as Hend.
  { intros dec2 H2 dec'. set (dec3 := set_bytes_in (u32 (qpd_bytes_in dec2 + hbrc_orig_size c)) dec2) in dec'.
    assert (counted dec2 dec3) as H3 by (by apply counted_intro; [apply H2|..]).
    destruct (counted_reset dec3 (cn_reading _ _ H3)) as [H4 E]. split; [|by unfold dec'; rewrite E].
    eapply counted_trans; [exact H2|]. by eapply counted_trans. }
  wpstep. wpstep. wpstep. fold dec1. destruct dec_buf as [room|].
  2:{ wpsteps. destruct (Hend dec1 H1) as [H2 E]. split; [done|]. split; [done|]. by rewrite E. }
  destruct dyn; [|wpsteps; destruct (Hend dec1 H1) as [H2 E]; split; [done|]; split; [done|]; by rewrite E, andb_false_r].
  unfold qdec_try_writing_header_ack. destruct (put_int 0x80 room (hbrc_stream_id c) 7) as [b x|x]; cbn [written].
  - unfold qdec_maybe_update_largest_known. wpsteps. set (dec2 := set_bytes_in (u32 (qpd_bytes_in dec1 + Z.of_nat (length b))) dec1).
    assert (counted dec dec2) as H2 by (eapply counted_trans; [exact H1|]; by apply counted_intro; [apply H1|..]).
    change (qpd_largest_known_id dec2) with (qpd_largest_known_id dec). change (entries dec2) with (entries dec).
    rewrite bool_decide_true by done. cbn [andb]. destruct (_ && _).
    + wpsteps. set (dec3 := set_largest_known_id (hbrc_largest_ref c) dec2).
      assert (counted dec dec3) as H3 by (eapply counted_trans; [exact H2|]; by apply counted_intro; [apply H2|..]).
      destruct (Hend dec3 H3) as [H4 E]. split; [done|]. split; [done|]. by rewrite E.
    + wpsteps. destruct (Hend dec2 H2) as [H4 E]. split; [done|]. split; [done|]. by rewrite E.
  - by wpsteps.
Qed.
End process.
