(* ===== verification/DecCall.v ===== *)
(** * The calls for header blocks

    What [lsqpack_dec_header_in] and [lsqpack_dec_header_read] return and leave behind
    for one block ([process_post]): the lines that were complete have been handed over;
    the context reads the rest of the block, or is gone. *)

From stdpp Require Import gmap.
From S2P Require Import Prelude Monad IntCodec HuffTables Huffman HuffStream StrCodec Xxhash.
From S2P Require Import StaticTable Ringbuf Rfc9204 EncTable EncEncode Float DecTable DecState DecStream.
From S2P Require Import DecSpec DecBlocked DecStrings DecReading DecCore DecEncIn DecHeader DecParse DecHblock.
From S2P Require Import DecHset DecOut DecCompose DecLine DecData DecLoop DecPrefix DecBlock DecView DecProcess.

Section call.
Context {hset : Type} `{!HsetIf hset} `{!HsetOk hset}.
Variables (max : Z) (rel : bool) (t : dyn_table).

Implicit Types (dec : lsqpack_dec hset) (c : header_block_read_ctx).

Local Abbreviation reading := (reading max rel).
Local Abbreviation entries dec := (qpd_max_entries (qpd_tab dec)).
Local Abbreviation mem dec := (cx_mem (qpd_ctxs dec)).
Local Abbreviation dec_ready := (dec_ready max rel t).
Local Abbreviation only_ctxs := (only_ctxs max rel t).

(** ** The specification of a call *)

(** The application has got [lines] for the block of [c]. *)
Definition delivered_to c (lines : list hline) dec dec' : Prop :=
  exists hs, app_headers (qpd_app dec') = app_headers (qpd_app dec) ++ ((fun h => (hbrc_hblock c, h)) <$> hs)
    /\ Forall2 (shows (http1x_opt dec)) lines hs.

(** The same block, [n] bytes later. *)
Record later (n : nat) c c' : Prop := {
  lt_hblock : hbrc_hblock c' = hbrc_hblock c;
  lt_stream : hbrc_stream_id c' = hbrc_stream_id c;
  lt_orig : hbrc_orig_size c' = hbrc_orig_size c;
  lt_size : hbrc_size c' = hbrc_size c - Z.of_nat n;
}.

(** [block] is or may become what is left of the block, [buf] being the bytes at hand. *)
Definition matches (block buf : bytes) c : Prop :=
  is_bytes block /\ Z.of_nat (length block) = hbrc_size c /\ exists more, block ++ more = buf \/ buf ++ more = block.

(** The block does not have to wait. *)
Definition no_wait c (block : bytes) dec : Prop :=
  forall v r, ric_value c block = Some (v, r) -> v <> 0 ->
    qdec_in_future (entries dec) (qpd_last_id (qpd_tab dec)) (ID_MINUS64 (entries dec) v 2) = false.

(** Nothing outside of the block makes the call fail: the memory, the number of blocked
    streams and the room for an acknowledgement suffice. *)
Definition resources_ok c (block : bytes) (dec_buf : option bytes) dec : Prop :=
  rel = true /\ (qpd_n_blocked (qpd_ctxs dec) < qpd_max_risked_streams dec \/ no_wait c block dec)
  /\ forall dyn, is_Some (ack_bytes dyn (hbrc_stream_id c) dec_buf).

(** The decoder takes the block if the application does. *)
Definition acceptable c (all : list hline) : Prop := Forall line_ok all /\ (in_prefix c -> all <> []).

(** The Required Insert Count is not yet known after [buf] ... *)
Definition ric_goes_on c (buf : bytes) c' : Prop :=
  ric_read c' = false -> forall r, is_bytes r -> ric_value c (buf ++ r) = ric_value c' r.

(** ... or it is, and it is encoded as [v]. *)
Definition ric_known (M : Z) c (used : bytes) c' : Prop :=
  has_bits (hbrc_flags c') HBRC_LARGEST_REF_SET = true
  /\ exists v, 0 < v <= dec_max_encoded_RIC M /\ hbrc_largest_ref c' = ID_MINUS64 M v 2
       /\ forall r, is_bytes r -> ric_value c (used ++ r) = Some (v, r).

Definition process_post (p : option Z) (g : line_part) c (buf : bytes) (dec_buf : option bytes) dec
  (r : header_result) dec' : Prop :=
  same_dec dec dec' /\ dec_ready dec' /\ exists lines, delivered_to c lines dec dec' /\
  match hr_status r with
  | LQRHS_NEED => hr_rest r = [] /\ hr_ack r = [] /\ qpd_largest_known_id dec' = qpd_largest_known_id dec /\
      exists c' g', mem dec' = <[addr p dec := c']> (mem dec) /\ later (length buf) c c' /\ is_blocked c' = is_blocked c
        /\ 0 < hbrc_size c' /\ ctx_at (entries dec) (qpd_opts dec) g' c'
        /\ continues t (got c) g dec c buf lines g' dec' c'
        /\ (in_prefix c' -> in_prefix c /\ lines = [] /\ forall t2, continues t2 (got c) g dec c buf [] g' dec' c')
        /\ ric_goes_on c buf c'
  | LQRHS_BLOCKED => lines = [] /\ hr_ack r = [] /\ qpd_largest_known_id dec' = qpd_largest_known_id dec /\
      exists used c' g', buf = used ++ hr_rest r /\ mem dec' = <[addr p dec := c']> (mem dec) /\ later (length used) c c'
        /\ is_blocked c' = true /\ waiting (dt_inserted t) (entries dec) c'
        /\ hbrc_parse c' = PARSE_PREFIX PREFIX_STATE_BEGIN_READING_BASE_IDX
        /\ ctx_at (entries dec) (qpd_opts dec) g' c' /\ ric_known (entries dec) c used c'
        /\ forall t2, continues t2 (got c) g dec c used [] g' dec' c'
  | LQRHS_DONE => mem dec' = without p dec /\ exists used dyn largest, buf = used ++ hr_rest r
      /\ Z.of_nat (length used) = hbrc_size c
      /\ (0 < hbrc_size c -> block_is t (got c) g dec c used lines dyn) /\ (hbrc_size c = 0 -> lines = [])
      /\ ack_bytes dyn (hbrc_stream_id c) dec_buf = Some (hr_ack r)
      /\ qpd_largest_known_id dec' = known_after (entries dec) dyn largest (qpd_largest_known_id dec) dec_buf
  | LQRHS_ERROR => hr_rest r = buf /\ hr_ack r = [] /\ qpd_largest_known_id dec' = qpd_largest_known_id dec
      /\ mem dec' = without p dec
      /\ (app_willing -> forall block all dyn, resources_ok c block dec_buf dec -> matches block buf c ->
            block_is t (got c) g dec c block all dyn -> acceptable c all -> False)
  end.

(** ** The call of [qdec_read_header] *)

(** The pair of the decoder and the context after it, for a block with no more bytes
    too. *)
Definition run_post (g : line_part) c (buf : bytes) dec (st : lsqpack_read_header_status) (rest : bytes) dec' c' : Prop :=
  (0 < hbrc_size c /\ read_post max rel t (got c) g buf (dec, c) (st, rest) (dec', c'))
  \/ (hbrc_size c = 0 /\ st = LQRHS_DONE /\ rest = buf /\ dec' = dec /\ c' = c).

Lemma read_header_run g c buf dec :
  chunk_ok buf -> reading dec t -> ctx_at (entries dec) (qpd_opts dec) g c ->
  exists st rest dec' c', qdec_read_header buf (dec, c) = Some (st, rest, (dec', c')) /\ run_post g c buf dec st rest dec' c'.
Proof.
  intros [Hb Hlen] Hr [Hp Hg Hs Hm Hbl]. destruct (Z.eq_dec (hbrc_size c) 0) as [Hz|Hnz].
  - exists LQRHS_DONE, buf, dec, c. split; [|by right]. unfold qdec_read_header. destruct (length buf); cbn [read_header_loop];
      unfold mbind, st_m_bind, get_ctx, gets; cbn [snd]; by rewrite Hz.
  - assert (0 < hbrc_size c) as Hpos by (unfold is_u64 in Hs; lia).
    destruct (wp_run _ _ _ (wp_read_header max rel t (got c) g buf (dec, c) Hb Hlen ltac:(by split) ltac:(by split_and!) Hpos))
      as ([st rest] & [dec' c'] & E & H). exists st, rest, dec', c'. split; [done|by left].
Qed.

(** ** After it *)

(** What [used] and [lines] did, whatever the status. *)
Record ran c dec (used : bytes) (lines : list hline) dec1 c1 : Prop := {
  rn_quiet : quiet max rel t dec dec1;
  rn_replaces : replaces c1 c;
  rn_lines : delivered_to c lines dec dec1;
  rn_later : later (length used) c c1;
  rn_ric : ric_read c = true -> ric_read c1 = true;
}.

Lemma consumed_ran g c dec used lines dec1 c1 :
  ctx_at (entries dec) (qpd_opts dec) g c -> consumed max rel t used (dec, c) (dec1, c1) ->
  delivered_lines lines (dec, c) (dec1, c1) -> ran c dec used lines dec1 c1.
Proof.
  intros Hc [Hq [H1 H2 H3 H4 H5 H6]] Hd. cbn [fst snd] in *. constructor; [done| |done|by constructor|by intros Hr; destruct (H6 Hr)].
  split; [done|]. intros Hb. by apply H6, (ca_blocked _ _ _ _ Hc).
Qed.

Lemma ran_nothing c dec : reading dec t -> ran c dec [] [] dec c.
Proof.
  intros Hr. constructor; [apply quiet_refl|done| | |done].
  - exists []. by rewrite app_nil_r.
  - constructor; try done. cbn. lia.
Qed.

Lemma ran_reading c dec used lines dec1 c1 : dec_ready dec -> ran c dec used lines dec1 c1 -> reading dec1 t.
Proof. intros Hd Hrn. apply (qu_reading _ _ _ _ _ (rn_quiet _ _ _ _ _ _ Hrn)), Hd. Qed.

Lemma ran_ctxs c dec used lines dec1 c1 : ran c dec used lines dec1 c1 -> qpd_ctxs dec1 = qpd_ctxs dec.
Proof. intros Hrn. apply (qu_ctxs _ _ _ _ _ (rn_quiet _ _ _ _ _ _ Hrn)). Qed.

(** From [dec1] on only contexts and counters have changed. *)
Record settled dec1 dec2 : Prop := {
  se_same : same_dec dec1 dec2;
  se_reading : reading dec2 t;
  se_app : qpd_app dec2 = qpd_app dec1;
}.

Lemma only_settled dec1 dec2 : only_ctxs dec1 dec2 -> settled dec1 dec2.
Proof. intros []. by constructor. Qed.

Lemma counted_settled dec1 dec2 dec3 : counted max rel t dec1 dec2 -> settled dec2 dec3 -> settled dec1 dec3.
Proof. intros [] []. constructor; try congruence. by eapply same_dec_trans. Qed.

(** The contexts at the end are those at the beginning, but for one. *)
Lemma ready_after p c dec dec1 used lines c1 dec2 mem' :
  dec_ready dec -> ran c dec used lines dec1 c1 -> settled dec1 dec2 -> mem dec2 = mem' ->
  (forall q x, mem' !! q = Some x -> q = p \/ mem dec !! q = Some x) ->
  (forall x, mem' !! p = Some x -> mem dec !! p = Some x \/ exists g, ctx_at (entries dec) (qpd_opts dec) g x) ->
  same_dec dec dec2 /\ dec_ready dec2 /\ delivered_to c lines dec dec2.
Proof.
  intros Hd Hrn Ho Hm Hother Hp. pose proof (quiet_same_dec _ _ _ _ _ (rn_quiet _ _ _ _ _ _ Hrn)) as Hs1.
  assert (same_dec dec dec2) as Hs by (eapply same_dec_trans; [exact Hs1|apply Ho]). split; [done|]. split.
  - split; [apply Ho| |by rewrite (sd_risked _ _ Hs); apply Hd].
    intros q x Hq. rewrite Hm in Hq. rewrite (sd_entries _ _ Hs), (sd_opts _ _ Hs). destruct (Hother q x Hq) as [->|Hx].
    + destruct (Hp x Hq) as [Hx|Hx]; [by eapply dr_ctxs|done].
    + by eapply dr_ctxs.
  - destruct (rn_lines _ _ _ _ _ _ Hrn) as (hs & E & F). exists hs. by rewrite (se_app _ _ Ho), E.
Qed.

(** The context is gone. *)
Lemma ready_without p c dec dec1 used lines c1 dec2 :
  dec_ready dec -> ran c dec used lines dec1 c1 -> settled dec1 dec2 -> mem dec2 = without p dec ->
  same_dec dec dec2 /\ dec_ready dec2 /\ delivered_to c lines dec dec2.
Proof.
  intros Hd Hrn Ho Hm. apply (ready_after 0 c dec dec1 used lines c1 dec2 (without p dec)); try done.
  - intros q x. unfold without. destruct p as [p|]; [|by right]. intros [_ ?]%lookup_delete_Some. by right.
  - intros x. unfold without. destruct p as [p|]; [|by left]. intros [_ ?]%lookup_delete_Some. by left.
Qed.

(** The context is kept. *)
Lemma ready_kept p c dec dec1 used lines c1 dec2 c2 g :
  dec_ready dec -> ran c dec used lines dec1 c1 -> settled dec1 dec2 -> mem dec2 = <[addr p dec := c2]> (mem dec) ->
  ctx_at (entries dec) (qpd_opts dec) g c2 ->
  same_dec dec dec2 /\ dec_ready dec2 /\ delivered_to c lines dec dec2.
Proof.
  intros Hd Hrn Ho Hm Hc. apply (ready_after (addr p dec) c dec dec1 used lines c1 dec2 (<[addr p dec := c2]> (mem dec))); try done.
  - intros q x. destruct (decide (q = addr p dec)) as [->|Hne]; [by left|]. rewrite lookup_insert_ne by done. by right.
  - intros x. rewrite lookup_insert_eq. intros [= <-]. right. by exists g.
Qed.

(** ** Each status *)

Definition failed (buf : bytes) : header_result := {| hr_status := LQRHS_ERROR; hr_rest := buf; hr_ack := [] |}.

Lemma failed_post p g c buf dec_buf dec dec1 used lines c1 dec2 :
  dec_ready dec -> ran c dec used lines dec1 c1 -> only_ctxs dec1 dec2 -> mem dec2 = without p dec ->
  (app_willing -> forall block all dyn, resources_ok c block dec_buf dec -> matches block buf c ->
     block_is t (got c) g dec c block all dyn -> acceptable c all -> False) ->
  process_post p g c buf dec_buf dec (failed buf) dec2.
Proof.
  intros Hd Hrn Ho Hm Hno. destruct (ready_without p c dec dec1 used lines c1 dec2 Hd Hrn (only_settled _ _ Ho) Hm) as (H1 & H2 & H3).
  split; [done|]. split; [done|]. exists lines. split; [done|]. cbn. split_and!; try done.
  by rewrite (oc_known _ _ _ _ _ Ho), (qu_known _ _ _ _ _ (rn_quiet _ _ _ _ _ _ Hrn)).
Qed.

(** What is left of the block begins with the bytes that were read. *)
Lemma matches_used block used rest c : matches block (used ++ rest) c -> Z.of_nat (length used) <= hbrc_size c ->
  exists r, block = used ++ r.
Proof.
  intros (_ & Hl & more & H) Hle. exists (drop (length used) block).
  assert (take (length used) block = used) as E; [|rewrite <- (take_drop (length used) block) at 1; by rewrite E].
  destruct H as [H|<-].
  - apply (f_equal (take (length used))) in H. rewrite take_app_length in H. by rewrite take_app_le in H by lia.
  - by rewrite <- app_assoc, take_app_length.
Qed.

Lemma wp_process_error p g c buf dec_buf dec used lines rest dec1 c1 :
  dec_ready dec -> ctx_at (entries dec) (qpd_opts dec) g c -> placed p c dec ->
  ran c dec used lines dec1 c1 -> buf = used ++ rest -> 0 <= hbrc_size c1 ->
  (app_willing -> forall r all flags, is_bytes r -> Z.of_nat (length r) = hbrc_size c1 ->
     block_at t (got c) g (dec, c) (used ++ r) all flags -> (in_prefix c -> all <> []) -> Forall line_ok all -> flags_ok flags = true -> False) ->
  wp (destroy_if_kept p c1;; mret (failed buf)) dec1 (process_post p g c buf dec_buf dec).
Proof.
  intros Hd Hc Hp Hrn Eb Hsz Hno. wpstep. eapply wp_mono.
  { apply (wp_destroy_if_kept max rel t p c c1 dec1); [by eapply ran_reading|unfold placed; by rewrite (ran_ctxs _ _ _ _ _ _ Hrn)|apply Hrn]. }
  intros _ dec2 [Ho Hm]. wpstep. eapply failed_post; try done.
  { rewrite Hm. unfold without. by rewrite (ran_ctxs _ _ _ _ _ _ Hrn). }
  intros Hw block all dyn _ Hmt (flags & Hb & Hok & _) [Hl Hne]. pose proof (lt_size _ _ _ (rn_later _ _ _ _ _ _ Hrn)) as Es.
  rewrite Eb in Hmt. destruct (matches_used _ _ _ _ Hmt ltac:(lia)) as [r ->]. destruct Hmt as (Hbb & Hbl & _).
  apply Forall_app in Hbb as [_ Hbb]. rewrite length_app in Hbl. apply (Hno Hw r all flags); try done. lia.
Qed.

Lemma wp_process_done p g c buf dec_buf dec rest dec1 c1 :
  dec_ready dec -> ctx_at (entries dec) (qpd_opts dec) g c -> placed p c dec ->
  run_post g c buf dec LQRHS_DONE rest dec1 c1 ->
  wp (r ← header_block_done c1 buf rest dec_buf; destroy_if_kept p c1;; mret r) dec1 (process_post p g c buf dec_buf dec).
Proof.
  intros Hd Hc Hp Hrun.
  assert (exists used lines dyn, buf = used ++ rest /\ ran c dec used lines dec1 c1 /\ Z.of_nat (length used) = hbrc_size c
    /\ (0 < hbrc_size c -> block_is t (got c) g dec c used lines dyn) /\ (hbrc_size c = 0 -> lines = [])
    /\ dyn = has_bits (hbrc_flags c1) HBRC_LARGEST_REF_SET) as (used & lines & dyn & Eb & Hrn & Hsz & Hbl & Hz & Hdyn).
  { destruct Hrun as [(Hpos & used & lines & Eb & Hcs & Hsz & Hdl & Hz & Hb & Hok & _)|(Hz & _ & -> & -> & ->)].
    - exists used, lines, (has_bits (hbrc_flags c1) HBRC_LARGEST_REF_SET). cbn [fst snd] in *.
      pose proof (consumed_ran g c dec used lines dec1 c1 Hc Hcs Hdl) as Hrn.
      pose proof (lt_size _ _ _ (rn_later _ _ _ _ _ _ Hrn)). split_and!; try done; try lia. intros _. by eexists.
    - exists [], [], (has_bits (hbrc_flags c) HBRC_LARGEST_REF_SET). split_and!; try done; [by apply ran_nothing, Hd|lia]. }
  pose proof (ran_reading _ _ _ _ _ _ Hd Hrn) as Hr1. pose proof (ran_ctxs _ _ _ _ _ _ Hrn) as Ec.
  wpstep. eapply wp_mono; [by apply (wp_block_done max rel t c1 buf rest dec_buf dec1)|]. cbn zeta. rewrite <- Hdyn.
  intros r dec2 [Hcn Hres]. wpstep. eapply wp_mono.
  { apply (wp_destroy_if_kept max rel t p c c1 dec2); [apply Hcn|unfold placed; by rewrite (cn_ctxs _ _ _ _ _ Hcn), Ec|apply Hrn]. }
  intros _ dec3 [Ho Hm]. assert (mem dec3 = without p dec) as Hm3.
  { rewrite Hm. unfold without. by rewrite (cn_ctxs _ _ _ _ _ Hcn), Ec. }
  pose proof (counted_settled _ _ _ Hcn (only_settled _ _ Ho)) as Hse.
  destruct (ready_without p c dec dec1 used lines c1 dec3 Hd Hrn Hse Hm3) as (H1 & H2 & H3).
  wpstep. split; [done|]. split; [done|]. exists lines. split; [done|].
  rewrite (lt_stream _ _ _ (rn_later _ _ _ _ _ _ Hrn)) in Hres.
  pose proof (qu_known _ _ _ _ _ (rn_quiet _ _ _ _ _ _ Hrn)) as Ek. pose proof (qu_entries _ _ _ _ _ (rn_quiet _ _ _ _ _ _ Hrn)) as Ee.
  destruct (ack_bytes dyn (hbrc_stream_id c) dec_buf) as [b|] eqn:Ea; destruct Hres as [-> Hk]; cbn.
  - split; [done|]. exists used, dyn, (hbrc_largest_ref c1). split_and!; try done. by rewrite (oc_known _ _ _ _ _ Ho), Hk, Ek, Ee.
  - split_and!; try done; [by rewrite (oc_known _ _ _ _ _ Ho), Hk, Ek|]. intros _ block all dyn' (_ & _ & Hroom). destruct (Hroom dyn) as [x Hx].
    by rewrite Ea in Hx.
Qed.

(** The context when it is put on the list. *)
Lemma listed_sim p c : ctx_sim c (listed p c) /\ is_blocked (listed p c) = is_blocked c /\ later 0 c (listed p c)
  /\ hbrc_out (listed p c) = hbrc_out c.
Proof.
  destruct p; cbn [listed]; [by split_and!; [apply ctx_sim_refl|..]; constructor; cbn; lia || done|].
  split_and!; [constructor; cbn; [done..|by apply flags_sim_or]|by apply is_blocked_or| |done]. constructor; cbn; lia || done.
Qed.

Lemma ran_ctx g g' c dec used lines dec1 c1 :
  ctx_at (entries dec) (qpd_opts dec) g c -> ran c dec used lines dec1 c1 ->
  block_ready max rel t (got c + Z.of_nat (length used)) g' (dec1, c1) -> 0 <= hbrc_size c1 ->
  (hbrc_size c1 = 0 -> hbrc_parse c1 = PARSE_PREFIX PREFIX_STATE_BEGIN_READING_BASE_IDX) ->
  ctx_at (entries dec) (qpd_opts dec) g' c1.
Proof.
  intros [H1 H2 H3 H4 H5] [Hq [Hb _] _ [L1 L2 L3 L4] Hric] [_ Hp] Hsz Hmore. cbn [fst snd] in Hp.
  rewrite (qu_entries _ _ _ _ _ Hq), (qu_opts _ _ _ _ _ Hq) in Hp.
  assert (got c1 = got c + Z.of_nat (length used)) as Eg by (unfold got; rewrite L3, L4; lia).
  constructor; [by rewrite Eg|lia|unfold is_u64 in *; lia|done|]. rewrite Hb. auto.
Qed.

Lemma wp_process_need p g c buf dec_buf dec rest dec1 c1 :
  dec_ready dec -> ctx_at (entries dec) (qpd_opts dec) g c -> placed p c dec ->
  read_post max rel t (got c) g buf (dec, c) (LQRHS_NEED, rest) (dec1, c1) ->
  wp (kept ← keep_ctx p c1;
      match kept with
      | None => mret (failed buf)
      | Some q =>
          ok ← mret true;
          if ok : bool then mret {| hr_status := LQRHS_NEED; hr_rest := rest; hr_ack := [] |}
          else destroy_header_block_read_ctx q;; mret (failed buf)
      end) dec1 (process_post p g c buf dec_buf dec).
Proof.
  intros Hd Hc Hp (used & lines & Eb & Hcs & Hsz & Hdl & Hrest & Hpos & g' & Hbr & Hgo & Hpre & Hval). cbn [fst snd] in *. subst rest.
  rewrite app_nil_r in Eb. subst used.
  pose proof (consumed_ran g c dec buf lines dec1 c1 Hc Hcs Hdl) as Hrn.
  pose proof (ran_reading _ _ _ _ _ _ Hd Hrn) as Hr1. pose proof (ran_ctxs _ _ _ _ _ _ Hrn) as Ec.
  pose proof (quiet_same_dec _ _ _ _ _ (rn_quiet _ _ _ _ _ _ Hrn)) as Hs1. pose proof (rn_later _ _ _ _ _ _ Hrn) as Hlt.
  wpstep. eapply wp_mono; [apply (wp_keep_ctx max rel t p c c1 dec1 Hr1); [unfold placed; by rewrite Ec|apply Hrn]|].
  pose proof (ran_ctx g g' c dec buf lines dec1 c1 Hc Hrn Hbr Hsz ltac:(lia)) as Hc1.
  intros [q|] dec2 (Ho & _ & Hq).
  - destruct Hq as [-> Hm]. wpsteps. destruct (listed_sim p c1) as (Hsim & Hlb & Hl0 & Hlo).
    assert (mem dec2 = <[addr p dec := listed p c1]> (mem dec)) as Hm2 by (unfold addr in *; by rewrite Hm, Ec).
    assert (ctx_at (entries dec) (qpd_opts dec) g' (listed p c1)) as Hc2.
    { eapply ctx_at_sim; [exact Hsim|done|rewrite (lt_size _ _ _ Hl0); cbn; lia|apply Hl0| |].
      - intros Hx. rewrite Hlb in Hx. by apply (ca_blocked _ _ _ _ Hc1).
      - done. }
    destruct (ready_kept p c dec dec1 buf lines c1 dec2 _ g' Hd Hrn (only_settled _ _ Ho) Hm2 Hc2) as (H1 & H2 & H3).
    split; [done|]. split; [done|]. exists lines. split; [done|]. cbn. split_and!; try done.
    { by rewrite (oc_known _ _ _ _ _ Ho), (qu_known _ _ _ _ _ (rn_quiet _ _ _ _ _ _ Hrn)). }
    exists (listed p c1), g'. split_and!; try done.
    + destruct Hlt, Hl0. constructor; try congruence. lia.
    + by rewrite Hlb; apply Hrn.
    + rewrite (lt_size _ _ _ Hl0). cbn. lia.
    + eapply continues_sim; [|exact Hsim|by apply goes_on_continues]. apply Ho.
    + intros [st Hin]. destruct Hpre as (Hpc & -> & Hgo2); [exists st; by rewrite <- (cs_parse _ _ Hsim)|].
      split; [done|]. split; [done|]. intros t2. eapply continues_sim; [|exact Hsim|apply goes_on_continues, Hgo2]. apply Ho.
    + unfold ric_goes_on, ric_read, ric_value in *. rewrite (fs_read _ _ (cs_flags _ _ Hsim)), (cs_parse _ _ Hsim). exact Hval.
  - destruct Hq as (-> & Hrel & Hm). wpsteps. eapply failed_post; try done; [cbn; by rewrite Hm, Ec|].
    intros _ block all dyn (Hrel' & _). by rewrite Hrel in Hrel'.
Qed.

(** The insertion a blocked block waits for is one of the next ones. *)
Lemma future_waiting dec c : reading dec t ->
  qdec_in_future (entries dec) (qpd_last_id (qpd_tab dec)) (hbrc_largest_ref c) = true ->
  (exists v, 0 < v <= dec_max_encoded_RIC (entries dec) /\ hbrc_largest_ref c = ID_MINUS64 (entries dec) v 2) ->
  waiting (dt_inserted t) (entries dec) c.
Proof.
  intros Hr Hf (v & Hv & Hl). destruct (reading_entries max rel t dec Hr) as [HM Hlast].
  assert (0 < entries dec) as HM0.
  { destruct (Z.eq_dec (entries dec) 0) as [E|]; [|lia]. rewrite E in Hv. change (dec_max_encoded_RIC 0) with 0 in Hv. lia. }
  rewrite Hlast in Hf by done.
  assert (0 < entries dec < 2 ^ 27) as HM1 by lia.
  apply in_future_waiting in Hf as (ric & Hric & E); [|done|rewrite Hl; by apply id_minus64_range].
  by exists ric.
Qed.

(** The context when it is on the list and blocked. *)
Definition blocked_ctx p c : header_block_read_ctx :=
  set_hbrc_flags (Z.lor (hbrc_flags (listed p c)) HBRC_BLOCKED) (listed p c).

Lemma blocked_ctx_sim p c : ctx_sim c (blocked_ctx p c) /\ is_blocked (blocked_ctx p c) = true /\ later 0 c (blocked_ctx p c)
  /\ hbrc_out (blocked_ctx p c) = hbrc_out c.
Proof.
  destruct (listed_sim p c) as (H1 & H2 & [L1 L2 L3 L4] & H4). unfold blocked_ctx. split_and!.
  - eapply ctx_sim_trans; [exact H1|]. constructor; cbn; [done..|by apply flags_sim_or].
  - by apply is_blocked_set.
  - by constructor.
  - done.
Qed.

Lemma later_zero n c c1 c2 : later n c c1 -> later 0 c1 c2 -> later n c c2.
Proof. intros [] []. constructor; try congruence. lia. Qed.

Lemma wp_process_blocked p g c buf dec_buf dec rest dec1 c1 :
  dec_ready dec -> ctx_at (entries dec) (qpd_opts dec) g c -> placed p c dec ->
  read_post max rel t (got c) g buf (dec, c) (LQRHS_BLOCKED, rest) (dec1, c1) ->
  wp (kept ← keep_ctx p c1;
      match kept with
      | None => mret (failed buf)
      | Some q =>
          ok ← stash_blocked_header q;
          if ok : bool then mret {| hr_status := LQRHS_BLOCKED; hr_rest := rest; hr_ack := [] |}
          else destroy_header_block_read_ctx q;; mret (failed buf)
      end) dec1 (process_post p g c buf dec_buf dec).
Proof.
  intros Hd Hc Hp (used & lines & Eb & Hcs & Hsz & Hdl & -> & _ & Hrr & g' & Hbr & Hgo & Hps & Hset & Hfut & Hv). cbn [fst snd] in *.
  pose proof (consumed_ran g c dec used [] dec1 c1 Hc Hcs Hdl) as Hrn.
  pose proof (ran_reading _ _ _ _ _ _ Hd Hrn) as Hr1. pose proof (ran_ctxs _ _ _ _ _ _ Hrn) as Ec.
  pose proof (rn_later _ _ _ _ _ _ Hrn) as Hlt.
  pose proof (ran_ctx g g' c dec used [] dec1 c1 Hc Hrn Hbr Hsz ltac:(done)) as Hc1.
  assert (is_blocked c1 = false) as Hnb.
  { rewrite (proj1 (rn_replaces _ _ _ _ _ _ Hrn)). apply not_true_is_false. intros Hx.
    apply (ca_blocked _ _ _ _ Hc) in Hx. congruence. }
  assert (ric_read c1 = true) as Hric.
  { destruct Hbr as [_ Hpk]. unfold parse_ok in Hpk. cbn [snd] in Hpk. rewrite Hps in Hpk. by destruct Hpk. }
  wpstep. eapply wp_mono; [apply (wp_keep_ctx max rel t p c c1 dec1 Hr1); [unfold placed; by rewrite Ec|apply Hrn]|].
  intros [q|] dec2 (Ho & Hnbl & Hq).
  2:{ destruct Hq as (-> & Hrel & Hm). wpsteps. eapply failed_post; try done; [cbn; by rewrite Hm, Ec|].
    intros _ block all dyn (Hrel' & _). by rewrite Hrel in Hrel'. }
  destruct Hq as [-> Hm]. destruct (listed_sim p c1) as (Hsim & Hlb & Hl0 & Hlo).
  assert (addr p dec1 = addr p dec) as Ea by (unfold addr; by rewrite Ec). rewrite Ea in *.
  pose proof (qu_entries _ _ _ _ _ (rn_quiet _ _ _ _ _ _ Hrn)) as Ee. pose proof (sd_entries _ _ (oc_same _ _ _ _ _ Ho)) as Ee2.
  assert (waiting (dt_inserted t) (entries dec) c1) as Hw1.
  { apply future_waiting; [apply Hd|done|]. destruct Hv as (v & ? & ? & _). by exists v. }
  wpstep. eapply wp_mono.
  { apply (wp_stash max rel t (addr p dec) (listed p c1) dec2); [apply Ho|rewrite Hm; by rewrite lookup_insert_eq|congruence| |].
    - rewrite Ee2, Ee. unfold waiting, waits_for in *. by rewrite (cs_largest _ _ Hsim).
    - rewrite (sd_risked _ _ (oc_same _ _ _ _ _ Ho)), (qu_risked _ _ _ _ _ (rn_quiet _ _ _ _ _ _ Hrn)). apply Hd. }
  intros [] dec3 [Ho3 Hm3]; cbv iota.
  - wpsteps. destruct (blocked_ctx_sim p c1) as (Hsim2 & Hb2 & Hl2 & Hlo2).
    assert (mem dec3 = <[addr p dec := blocked_ctx p c1]> (mem dec)) as Hm4 by (rewrite Hm3, Hm, insert_insert_eq; by rewrite Ec).
    assert (ctx_at (entries dec) (qpd_opts dec) g' (blocked_ctx p c1)) as Hc2.
    { eapply ctx_at_sim; [exact Hsim2|done|rewrite (lt_size _ _ _ Hl2); cbn; lia|apply Hl2|done|done]. }
    pose proof (only_ctxs_trans _ _ _ _ _ _ Ho Ho3) as Ho4.
    destruct (ready_kept p c dec dec1 used [] c1 dec3 _ g' Hd Hrn (only_settled _ _ Ho4) Hm4 Hc2) as (H1 & H2 & H3).
    split; [done|]. split; [done|]. exists []. split; [done|]. cbn. split_and!; try done.
    { by rewrite (oc_known _ _ _ _ _ Ho4), (qu_known _ _ _ _ _ (rn_quiet _ _ _ _ _ _ Hrn)). }
    exists used, (blocked_ctx p c1), g'. split_and!; try done.
    + by eapply later_zero.
    + unfold waiting, waits_for in *. by rewrite (cs_largest _ _ Hsim2).
    + by rewrite (cs_parse _ _ Hsim2).
    + split; [by rewrite (fs_set _ _ (cs_flags _ _ Hsim2))|]. destruct Hv as (v & H4 & H5 & H6). exists v.
      split; [done|]. split; [by rewrite (cs_largest _ _ Hsim2)|done].
    + intros t2. eapply continues_sim; [|exact Hsim2|apply goes_on_continues, Hgo]. apply Ho4.
  - destruct Hm3 as [Hm3 Hfull]. wpstep. eapply wp_mono.
    { apply (wp_destroy max rel t (addr p dec) (listed p c1) dec3); [apply Ho3|rewrite Hm3, Hm; by rewrite lookup_insert_eq]. }
    intros _ dec4 [Ho4 Hm4]. wpstep.
    assert (only_ctxs dec1 dec4) as Ho5 by (eapply only_ctxs_trans; [exact Ho|]; by eapply only_ctxs_trans).
    eapply failed_post; try done.
    + rewrite Hm4, Hm3, Hm, delete_insert_eq, Ec. destruct p as [p|]; [done|]. cbn [addr without].
      apply delete_id. eapply ctxs_new. by apply (reading_ctxs max rel), Hd.
    + intros _ block all dyn (_ & Hlim & _) Hmt. rewrite (sd_risked _ _ (oc_same _ _ _ _ _ Ho)), (qu_risked _ _ _ _ _ (rn_quiet _ _ _ _ _ _ Hrn)), Hnbl, Ec in Hfull.
      destruct Hlim as [Hlim|Hnw]; [lia|]. exfalso. destruct Hv as (v & Hv & El & Hval). pose proof (lt_size _ _ _ Hlt) as Es.
      rewrite Eb in Hmt. destruct (matches_used _ _ _ _ Hmt ltac:(lia)) as [r ->]. destruct Hmt as (Hbb & _).
      apply Forall_app in Hbb as [_ Hbb]. specialize (Hnw v r (Hval r Hbb) ltac:(lia)). congruence.
Qed.

Lemma wp_header_process p g c buf dec_buf dec :
  chunk_ok buf -> dec_ready dec -> ctx_at (entries dec) (qpd_opts dec) g c -> placed p c dec ->
  wp (qdec_header_process p c buf dec_buf) dec (process_post p g c buf dec_buf dec).
Proof.
  intros Hb Hd Hc Hp. destruct (read_header_run g c buf dec Hb (dr_reading _ _ _ _ Hd) Hc) as (st & rest & dec1 & c1 & E & Hrun).
  unfold qdec_header_process. wpsteps. eapply wp_demand; [by rewrite E|]. cbn beta iota. wpsteps. destruct st.
  - by apply (wp_process_done p g c buf dec_buf dec rest).
  - destruct Hrun as [[_ Hpost]|(_ & ? & _)]; [|done]. by apply (wp_process_blocked p g c buf dec_buf dec rest).
  - destruct Hrun as [[_ Hpost]|(_ & ? & _)]; [|done]. by apply (wp_process_need p g c buf dec_buf dec rest).
  - destruct Hrun as [[_ (used & lines & Eb & Hcs & Hsz & Hdl & Hno)]|(_ & ? & _)]; [|done].
    apply (wp_process_error p g c buf dec_buf dec used lines rest); try done. by eapply consumed_ran.
Qed.
End call.
