(* ===== verification/DecFrame.v ===== *)
(** * What the encoder stream leaves alone

    [lsqpack_dec_enc_in] touches the header blocks being read only to unblock them, and
    the application only to tell it so ([woken]).  The proof goes through the code once
    more, with the predicate [Keeps] on its computations. *)

From stdpp Require Import gmap.
From S2P Require Import Prelude Monad IntCodec HuffTables Huffman HuffStream StrCodec Xxhash.
From S2P Require Import StaticTable Ringbuf Rfc9204 EncTable EncEncode DecTable DecState DecStream.
From S2P Require Import DecBlocked.

(** The context of a block that has been unblocked. *)
Definition cleared (c : header_block_read_ctx) : header_block_read_ctx :=
  set_hbrc_flags (Z.land (hbrc_flags c) (Z.lnot HBRC_BLOCKED)) c.

Lemma cleared_twice c : cleared (cleared c) = cleared c.
Proof.
  unfold cleared, set_hbrc_flags. cbn. f_equal. rewrite <- Z.land_assoc. by rewrite Z.land_diag.
Qed.

Section frame.
Context {hset : Type} `{!HsetIf hset}.
Implicit Types (dec : lsqpack_dec hset).

Local Abbreviation mem dec := (cx_mem (qpd_ctxs dec)).

(** The application is told of the blocks [hs]. *)
Definition tell (hs : list Z) (app : hset) : hset := fold_left (fun a h => dhi_unblocked h a) hs app.

Definition ctx_woken (hs : list Z) (o o' : option header_block_read_ctx) : Prop :=
  match o, o' with
  | Some c, Some c' => c' = c \/ (c' = cleared c /\ hbrc_hblock c ∈ hs)
  | None, None => True
  | _, _ => False
  end.

Record woken dec (hs : list Z) dec' : Prop := {
  wk_opts : qpd_opts dec' = qpd_opts dec;
  wk_risked : qpd_max_risked_streams dec' = qpd_max_risked_streams dec;
  wk_known : qpd_largest_known_id dec' = qpd_largest_known_id dec;
  wk_app : qpd_app dec' = tell hs (qpd_app dec);
  wk_ctxs : forall p, ctx_woken hs (mem dec !! p) (mem dec' !! p);
  wk_told : forall h, h ∈ hs -> exists p c, mem dec !! p = Some c /\ hbrc_hblock c = h /\ mem dec' !! p = Some (cleared c);
}.

Lemma woken_refl dec : woken dec [] dec.
Proof. constructor; try done; [|by intros h ?%elem_of_nil]. intros p. destruct (mem dec !! p); [by left|done]. Qed.

Lemma woken_trans dec h1 dec1 h2 dec2 : woken dec h1 dec1 -> woken dec1 h2 dec2 -> woken dec (h1 ++ h2) dec2.
Proof.
  intros [A1 A2 A3 A4 A5 A6] [B1 B2 B3 B4 B5 B6]. constructor; try congruence.
  - rewrite B4, A4. unfold tell. by rewrite fold_left_app.
  - intros p. specialize (A5 p). specialize (B5 p). unfold ctx_woken in *.
    destruct (mem dec !! p) as [c|], (mem dec1 !! p) as [c1|], (mem dec2 !! p) as [c2|]; try done.
    destruct A5 as [->|[-> Hh]], B5 as [->|[-> Hh']]; [by left|right..].
    + split; [done|]. apply elem_of_app. by right.
    + split; [done|]. apply elem_of_app. by left.
    + split; [apply cleared_twice|]. apply elem_of_app. by left.
  - intros h [Hh|Hh]%elem_of_app.
    + destruct (A6 h Hh) as (p & c & Hp & Hc & Hp1). exists p, c. split; [done|]. split; [done|].
      specialize (B5 p). rewrite Hp1 in B5. destruct (mem dec2 !! p) as [c2|]; [|done].
      destruct B5 as [->|[-> _]]; [done|by rewrite cleared_twice].
    + destruct (B6 h Hh) as (p & c & Hp & Hc & Hp2). specialize (A5 p). rewrite Hp in A5.
      destruct (mem dec !! p) as [c0|] eqn:E; [|done]. exists p, c0. split; [done|].
      destruct A5 as [->|[-> _]]; [done|]. by rewrite cleared_twice in Hp2.
Qed.

(** ** Computations that only wake *)

Definition Keeps {A} (m : dec_m hset A) : Prop :=
  forall dec x dec', m dec = Some (x, dec') -> exists hs, woken dec hs dec'.

Lemma keeps_ret {A} (x : A) : Keeps (mret x).
Proof. intros dec y dec' [= <- <-]. exists []. apply woken_refl. Qed.

Lemma keeps_get : Keeps get.
Proof. intros dec y dec' [= <- <-]. exists []. apply woken_refl. Qed.

Lemma keeps_stuck {A} : Keeps (stuck : dec_m hset A).
Proof. done. Qed.

Lemma keeps_assert b : Keeps (assert_that b).
Proof. intros dec y dec'. unfold assert_that. destruct b; [|done]. intros [= <- <-]. exists []. apply woken_refl. Qed.

Lemma keeps_demand {A} (o : option A) : Keeps (demand o).
Proof. intros dec y dec'. unfold demand. destruct o; [|done]. intros [= <- <-]. exists []. apply woken_refl. Qed.

Lemma keeps_the_entry p : Keeps (the_entry p).
Proof. intros dec y dec'. unfold the_entry. destruct (_ !! _); [|done]. intros [= <- <-]. exists []. apply woken_refl. Qed.

Lemma keeps_bind {A B} (m : dec_m hset A) (f : A -> dec_m hset B) : Keeps m -> (forall x, Keeps (f x)) -> Keeps (m ≫= f).
Proof.
  intros Hm Hf dec y dec'. unfold mbind, st_m_bind. destruct (m dec) as [[x dec1]|] eqn:E; [|done]. intros E'.
  destruct (Hm _ _ _ E) as [h1 H1]. destruct (Hf _ _ _ _ E') as [h2 H2]. exists (h1 ++ h2). by eapply woken_trans.
Qed.

(** Neither the contexts nor the application nor the settings. *)
Definition aside dec dec' : Prop :=
  qpd_opts dec' = qpd_opts dec /\ qpd_max_risked_streams dec' = qpd_max_risked_streams dec
  /\ qpd_largest_known_id dec' = qpd_largest_known_id dec /\ qpd_app dec' = qpd_app dec /\ qpd_ctxs dec' = qpd_ctxs dec.

Lemma aside_woken dec dec' : aside dec dec' -> woken dec [] dec'.
Proof.
  intros (H1 & H2 & H3 & H4 & H5). destruct (woken_refl dec) as [_ _ _ _ K _]. constructor; try done; [by rewrite H5|].
  by intros h ?%elem_of_nil.
Qed.

Lemma keeps_modify f : (forall dec, aside dec (f dec)) -> Keeps (modify f).
Proof. intros Hf dec y dec' [= <- <-]. exists []. by apply aside_woken. Qed.

Lemma keeps_on_table f : Keeps (on_table f).
Proof.
  intros dec y dec'. unfold on_table, part. destruct (f (qpd_tab dec)); [|done]. intros [= <- <-].
  exists []. by apply aside_woken.
Qed.

Lemma keeps_malloc : Keeps dec_malloc.
Proof.
  intros dec y dec'. unfold dec_malloc. destruct (malloc (qpd_mallocs dec)). intros [= <- <-].
  exists []. by apply aside_woken.
Qed.

Lemma keeps_set_resume st : Keeps (set_resume st).
Proof. by apply keeps_modify. Qed.

Lemma keeps_process last_id ps : Keeps (process_blocked last_id ps).
Proof.
  induction ps as [|p ps IH]; cbn [process_blocked]; [apply keeps_ret|].
  intros dec y dec'. unfold mbind at 1, st_m_bind at 1. cbn [get]. unfold mbind at 1, st_m_bind at 1, demand.
  destruct (mem dec !! p) as [c|] eqn:Ep; [|done]. destruct (hbrc_largest_ref c =? last_id).
  - unfold mbind at 1, st_m_bind at 1, mbind at 1, st_m_bind at 1. cbn [modify].
    unfold mbind at 1, st_m_bind at 1. unfold part. cbn [qpd_ctxs set_ctxs].
    destruct (unblock p last_id _) as [cs|] eqn:Eu; [|done]. apply unblock_kept in Eu as [Em Eh].
    cbn [modify]. intros E.
    destruct (IH _ _ _ E) as [hs H]. exists ([hbrc_hblock c] ++ hs). eapply woken_trans; [|exact H].
    constructor; try done.
    + intros q. cbn. rewrite Em. cbn. destruct (decide (q = p)) as [->|Hne].
      * rewrite lookup_insert_eq, Ep. right. split; [done|]. by left.
      * rewrite lookup_insert_ne by done. destruct (mem dec !! q); [by left|done].
    + intros h ->%list_elem_of_singleton. exists p, c. cbn. rewrite Em. cbn. by rewrite lookup_insert_eq.
  - unfold mbind at 1, st_m_bind at 1. cbn [mret st_m_ret]. apply IH.
Qed.
End frame.

(** ** The code *)

Create HintDb keeps.

#[local] Hint Resolve keeps_ret keeps_get keeps_stuck keeps_assert keeps_demand keeps_the_entry keeps_on_table
  keeps_malloc keeps_set_resume keeps_process : keeps.

(** [keeps]: go through a computation. *)
Ltac keeps := repeat (
  match goal with
  | |- forall _, _ => intros ?
  | |- Keeps (_ ≫= _) => apply keeps_bind
  | |- Keeps (modify _) => by apply keeps_modify
  | |- Keeps (match ?x with _ => _ end) => destruct x
  | |- Keeps (let '(_, _) := ?x in _) => destruct x
  | |- Keeps _ => solve [auto with keeps]
  end).

Section code.
Context {hset : Type} `{!HsetIf hset}.

Lemma keeps_push p : Keeps (hset:=hset) (lsqpack_dec_push_entry p).
Proof. unfold lsqpack_dec_push_entry, qdec_process_blocked_headers. keeps. Qed.

Lemma keeps_malloc_entry n : Keeps (hset:=hset) (malloc_entry n).
Proof. unfold malloc_entry. keeps. Qed.

Lemma keeps_realloc_entry p n : Keeps (hset:=hset) (realloc_entry p n).
Proof. unfold realloc_entry. keeps. Qed.

#[local] Hint Resolve keeps_push keeps_malloc_entry keeps_realloc_entry : keeps.

Lemma keeps_insert p st rest : Keeps (hset:=hset) (insert_entry p st rest).
Proof. unfold insert_entry. keeps. Qed.

Lemma keeps_int r again k : (forall v rest, Keeps (hset:=hset) (k v rest)) -> Keeps (with_int r again k).
Proof. intros Hk. unfold with_int. keeps. Qed.

Lemma keeps_store p off src : Keeps (hset:=hset) (store p off src).
Proof. unfold store. keeps. Qed.

#[local] Hint Resolve keeps_insert keeps_store : keeps.

Lemma keeps_huff_into p off room src st final : Keeps (hset:=hset) (huff_into p off room src st final).
Proof. unfold huff_into. keeps. Qed.

Lemma keeps_winr_insert w n f rest : Keeps (hset:=hset) (winr_insert_entry w n f rest).
Proof. unfold winr_insert_entry, read_name, finish_entry. keeps. Qed.

Lemma keeps_wonr_insert w n f rest : Keeps (hset:=hset) (wonr_insert_entry w n f rest).
Proof. unfold wonr_insert_entry. keeps. Qed.

#[local] Hint Resolve keeps_huff_into keeps_winr_insert keeps_wonr_insert : keeps.

Lemma keeps_round b0 src : Keeps (hset:=hset) (enc_in_round b0 src).
Proof.
  unfold enc_in_round, dei_winr_read_name_idx, dei_winr_read_val_len, dei_winr_read_value_huffman, dei_winr_read_value_plain,
    dei_wonr_read_name_len, dei_wonr_read_name_huffman, dei_wonr_read_name_plain, dei_wonr_read_val_len,
    dei_wonr_read_value_huffman, dei_wonr_read_value_plain, dei_dup_read_idx, dei_size_upd_read_idx, wonr_fit,
    wonr_name_done, winr_name.
  keeps; apply keeps_int; keeps.
Qed.

Lemma keeps_loop fuel buf : Keeps (hset:=hset) (enc_in_loop fuel buf).
Proof. revert buf. induction fuel as [|fuel IH]; intros [|b0 src]; cbn [enc_in_loop]; keeps; auto using keeps_round. Qed.

Lemma enc_in_woken buf (dec : lsqpack_dec hset) r dec' : lsqpack_dec_enc_in buf dec = Some (r, dec') -> exists hs, woken dec hs dec'.
Proof. assert (Keeps (lsqpack_dec_enc_in (hset:=hset) buf)) as H; [|apply H]. unfold lsqpack_dec_enc_in. keeps. apply keeps_loop. Qed.
End code.
