(* ===== verification/DecApi.v ===== *)
(** * The decoder's interface

    Every call of the interface keeps the decoder's invariant [dec_ready]; the calls in
    any order as a program ([run_calls]), up to a failure of [lsqpack_dec_enc_in],
    after which only [lsqpack_dec_cleanup] may be called. *)

From stdpp Require Import gmap.
From S2P Require Import Prelude Monad IntCodec HuffTables Huffman HuffStream StrCodec Xxhash.
From S2P Require Import StaticTable Ringbuf Rfc9204 EncTable EncEncode Float DecTable DecState DecStream.
From S2P Require Import DecSpec DecBlocked DecStrings DecReading DecCore DecEncIn DecCleanup DecHeader DecParse DecHblock.
From S2P Require Import DecHset DecOut DecCompose DecLine DecData DecLoop DecPrefix DecBlock DecView.
From S2P Require Import DecProcess DecCall DecFrame.

Section api.
Context {hset : Type} `{!HsetIf hset} `{!HsetOk hset}.
Variables (max : Z) (rel : bool).

Implicit Types (dec : lsqpack_dec hset) (c : header_block_read_ctx) (t : dyn_table).

Local Abbreviation entries dec := (qpd_max_entries (qpd_tab dec)).
Local Abbreviation mem dec := (cx_mem (qpd_ctxs dec)).
Local Abbreviation dec_ready dec t := (dec_ready max rel t dec).
Local Abbreviation process_post t := (process_post max rel t).

(** ** Header blocks *)

Lemma new_ctx_at M opts hblock stream_id header_size : is_u64 header_size -> 2 <= header_size ->
  ctx_at M opts {| lp_never := false; lp_name := []; lp_part := [] |} (new_ctx hblock stream_id header_size).
Proof.
  intros Hu H2. assert (got (new_ctx hblock stream_id header_size) = 0) as E by (unfold got; cbn; lia).
  constructor; rewrite ?E; try done; [|cbn; lia]. unfold parse_ok. cbn [new_ctx hbrc_parse prefix_ok].
  split; [|done]. split; [done|]. pose proof (ric_length_small M). lia.
Qed.

(** The context of a block that is being read, by the application's name for it. *)
Definition ctx_of dec (hblock : Z) : option header_block_read_ctx :=
  p ← find_header_block_read_ctx hblock (qpd_ctxs dec); mem dec !! p.

Lemma find_ctx n M cs hblock p : ctxs_ok n M cs -> find_header_block_read_ctx hblock cs = Some p ->
  exists c, cx_mem cs !! p = Some c /\ hbrc_hblock c = hblock.
Proof.
  intros Hok. unfold find_header_block_read_ctx. intros [[i q] [Hf ->]]%fmap_Some.
  apply list_find_Some in Hf as (_ & Hq & _). cbn. destruct (cx_mem cs !! q) as [c|]; [|done]. injection Hq as Hq. eauto.
Qed.

Definition header_in_post t hblock stream_id header_size (buf : bytes) (dec_buf : option bytes) dec (r : header_result) dec' : Prop :=
  if header_size <? 2 then r = {| hr_status := LQRHS_ERROR; hr_rest := buf; hr_ack := [] |}
    /\ exists e, dec' = set_err (Some e) dec
  else process_post t None {| lp_never := false; lp_name := []; lp_part := [] |}
         (new_ctx hblock stream_id header_size) buf dec_buf dec r dec'.

Lemma wp_header_in t hblock stream_id header_size buf dec_buf dec :
  dec_ready dec t -> chunk_ok buf -> is_u64 header_size ->
  wp (lsqpack_dec_header_in hblock stream_id header_size buf dec_buf) dec
    (header_in_post t hblock stream_id header_size buf dec_buf dec).
Proof.
  intros Hd Hb Hu. unfold lsqpack_dec_header_in, header_in_post. destruct (Z.ltb_spec header_size 2).
  - wpsteps. split; [done|]. by eexists.
  - apply wp_header_process; try done. by apply new_ctx_at.
Qed.

Definition header_read_post t hblock (buf : bytes) (dec_buf : option bytes) dec (r : header_result) dec' : Prop :=
  match find_header_block_read_ctx hblock (qpd_ctxs dec) with
  | None => r = {| hr_status := LQRHS_ERROR; hr_rest := buf; hr_ack := [] |} /\ dec' = dec
  | Some p => exists c g, mem dec !! p = Some c /\ hbrc_hblock c = hblock /\ ctx_at (entries dec) (qpd_opts dec) g c
      /\ forall g, ctx_at (entries dec) (qpd_opts dec) g c -> process_post t (Some p) g c buf dec_buf dec r dec'
  end.

Lemma wp_header_read t hblock buf dec_buf dec :
  dec_ready dec t -> chunk_ok buf ->
  wp (lsqpack_dec_header_read hblock buf dec_buf) dec (header_read_post t hblock buf dec_buf dec).
Proof.
  intros Hd Hb. unfold lsqpack_dec_header_read, header_read_post. wpsteps.
  destruct (find_header_block_read_ctx hblock (qpd_ctxs dec)) as [p|] eqn:Ef; [|by wpsteps].
  destruct (find_ctx _ _ _ _ _ (reading_ctxs max rel t dec (dr_reading _ _ _ _ Hd)) Ef) as (c & Hc & Hh).
  wpstep. eapply wp_demand; [exact Hc|]. destruct (dr_ctxs _ _ _ _ Hd p c Hc) as [g Hg].
  pose proof (wp_header_process max rel t) as Hw. unfold wp in *.
  destruct (qdec_header_process (Some p) c buf dec_buf dec) as [[r dec']|] eqn:E.
  - exists c, g. split; [done|]. split; [done|]. split; [done|]. intros g' Hg'.
    specialize (Hw (Some p) g' c buf dec_buf dec Hb Hd Hg' Hc). by rewrite E in Hw.
  - specialize (Hw (Some p) g c buf dec_buf dec Hb Hd Hg Hc). by rewrite E in Hw.
Qed.

Lemma header_in_ready t hblock stream_id header_size buf dec_buf dec r dec' :
  dec_ready dec t -> header_in_post t hblock stream_id header_size buf dec_buf dec r dec' ->
  dec_ready dec' t /\ same_dec dec dec'.
Proof.
  intros Hd. unfold header_in_post. destruct (_ <? _).
  - intros (_ & e & ->). assert (same_dec dec (set_err (Some e) dec)) as Hs by by apply same_dec_tab.
    split; [|done]. destruct Hd as [H1 H2 H3]. split; [|done|done]. apply (reading_ext max rel t dec); try done. exact (reading_ctxs max rel t dec H1).
  - by intros (H1 & H2 & _).
Qed.

Lemma header_read_ready t hblock buf dec_buf dec r dec' :
  dec_ready dec t -> header_read_post t hblock buf dec_buf dec r dec' -> dec_ready dec' t /\ same_dec dec dec'.
Proof.
  intros Hd. unfold header_read_post. destruct (find_header_block_read_ctx hblock (qpd_ctxs dec)) as [p|].
  - intros (c & g & _ & _ & Hg & H). destruct (H g Hg) as (H1 & H2 & _). done.
  - intros [_ ->]. by split.
Qed.

(** ** The decoder stream *)

(** An instruction with a 6-bit prefix, or no room for it. *)
Definition inst_result (first value : Z) (room : bytes) (r : Z * bytes) : Prop :=
  match put_int first room value 6 with
  | Wrote b _ => r = (Z.of_nat (length b), b)
  | NoRoom _ => r = (-1, [])
  end.

(** A decoder that differs in counters and in the largest id acknowledged. *)
Lemma counted_ready t dec dec' : dec_ready dec t -> counted max rel t dec dec' -> dec_ready dec' t.
Proof.
  intros [H1 H2 H3] [Hs Hr Ha Hc]. split; [done| |by rewrite (sd_risked _ _ Hs)]. rewrite (sd_entries _ _ Hs), (sd_opts _ _ Hs), Hc. done.
Qed.

Lemma wp_write_dec_inst t first value room dec : dec_ready dec t ->
  wp (write_dec_inst first value room) dec (fun r dec' => inst_result first value room r /\ counted max rel t dec dec'
    /\ qpd_largest_known_id dec' = qpd_largest_known_id dec).
Proof.
  intros Hd. unfold write_dec_inst, inst_result. destruct (put_int first room value 6) as [b x|x]; wpsteps;
    (split; [done|]; split; [|done]; apply counted_intro; try done; by apply Hd).
Qed.

(** The Insert Count Increment covers the insertions that have not been acknowledged. *)
Definition ici_post t (room : bytes) dec (r : Z * bytes) dec' : Prop :=
  counted max rel t dec dec' /\
  let last := qpd_last_id (qpd_tab dec) in
  if last =? qpd_largest_known_id dec then r = (0, []) /\ dec' = dec
  else inst_result 0 (ID_MINUS (entries dec) last (qpd_largest_known_id dec)) room r
    /\ qpd_largest_known_id dec' = if fst r >? 0 then last else qpd_largest_known_id dec.

Lemma wp_write_ici t room dec : dec_ready dec t -> wp (lsqpack_dec_write_ici room) dec (ici_post t room dec).
Proof.
  intros Hd. unfold lsqpack_dec_write_ici, ici_post. wpsteps. destruct (Z.eqb_spec (qpd_last_id (qpd_tab dec)) (qpd_largest_known_id dec)); cbn [negb].
  { wpsteps. split; [|done]. apply counted_intro; try done. apply Hd. }
  wpstep. eapply wp_mono; [by apply wp_write_dec_inst|]. intros r dec1 (Hres & Hc & Hk). wpstep.
  destruct (fst r >? 0) eqn:E; wpsteps; rewrite E; [|by split].
  split; [|done]. eapply counted_trans; [exact Hc|]. apply counted_intro; try done. apply Hc.
Qed.

Lemma wp_cancel_stream_id t stream_id room dec : dec_ready dec t ->
  wp (lsqpack_dec_cancel_stream_id stream_id room) dec (fun r dec' => counted max rel t dec dec'
    /\ qpd_largest_known_id dec' = qpd_largest_known_id dec
    /\ if max =? 0 then r = (0, []) else inst_result 0x40 stream_id room r).
Proof.
  intros Hd. unfold lsqpack_dec_cancel_stream_id. wpsteps.
  assert (qpd_max_capacity (qpd_tab dec) = max) as ->.
  { destruct (dr_reading _ _ _ _ Hd) as (l & name & Hc & _). apply (dc_max _ _ _ _ _ _ _ _ Hc). }
  destruct (max =? 0).
  - wpsteps. split; [|done]. apply counted_intro; try done. apply Hd.
  - eapply wp_mono; [by apply wp_write_dec_inst|]. by intros r dec' (H1 & H2 & H3).
Qed.

(** The block is given up: its context is gone. *)
Definition dropped t (p : Z) dec dec' : Prop :=
  only_ctxs max rel t dec dec' /\ mem dec' = delete p (mem dec).

Lemma dropped_ready t p dec dec' : dec_ready dec t -> dropped t p dec dec' -> dec_ready dec' t.
Proof.
  intros [H1 H2 H3] [[Hs Hr Ha Hk] Hm]. split; [done| |by rewrite (sd_risked _ _ Hs)].
  intros q c. rewrite Hm, (sd_entries _ _ Hs), (sd_opts _ _ Hs). intros [_ Hq]%lookup_delete_Some. by eapply H2.
Qed.

Lemma wp_unref t hblock dec : dec_ready dec t ->
  wp (lsqpack_dec_unref_stream hblock) dec (fun r dec' =>
    match find_header_block_read_ctx hblock (qpd_ctxs dec) with
    | Some p => r = 0 /\ dropped t p dec dec'
    | None => r = -1 /\ dec' = dec
    end).
Proof.
  intros Hd. unfold lsqpack_dec_unref_stream. wpsteps.
  destruct (find_header_block_read_ctx hblock (qpd_ctxs dec)) as [p|] eqn:Ef; [|by wpsteps].
  destruct (find_ctx _ _ _ _ _ (reading_ctxs max rel t dec (dr_reading _ _ _ _ Hd)) Ef) as (c & Hc & _).
  wpstep. eapply wp_mono; [apply (wp_destroy max rel t p c); [apply Hd|done]|]. intros u dec' H. by wpstep.
Qed.

Lemma wp_cancel_stream t hblock room dec : dec_ready dec t ->
  wp (lsqpack_dec_cancel_stream hblock room) dec (fun r dec' =>
    match find_header_block_read_ctx hblock (qpd_ctxs dec) with
    | Some p => exists c dec1, mem dec !! p = Some c /\ inst_result 0x40 (hbrc_stream_id c) room r
        /\ counted max rel t dec dec1 /\ qpd_largest_known_id dec1 = qpd_largest_known_id dec
        /\ if fst r >? 0 then dropped t p dec1 dec' else dec' = dec1
    | None => r = (0, []) /\ dec' = dec
    end).
Proof.
  intros Hd. unfold lsqpack_dec_cancel_stream. wpsteps.
  destruct (find_header_block_read_ctx hblock (qpd_ctxs dec)) as [p|] eqn:Ef; [|by wpsteps].
  destruct (find_ctx _ _ _ _ _ (reading_ctxs max rel t dec (dr_reading _ _ _ _ Hd)) Ef) as (c & Hc & _).
  wpstep. eapply wp_demand; [exact Hc|]. wpstep. eapply wp_mono; [by apply wp_write_dec_inst|].
  intros r dec1 (H1 & H2 & H3). wpstep. destruct (fst r >? 0) eqn:E.
  - eapply wp_mono; [apply (wp_destroy max rel t p c); [apply H2|by rewrite (cn_ctxs _ _ _ _ _ H2)]|].
    intros u dec' H. wpsteps. exists c, dec1. by rewrite E.
  - wpsteps. exists c, dec1. by rewrite E.
Qed.

(** ** The encoder stream *)

Lemma reading_max_entries t dec : reading max rel dec t -> entries dec = max / 32.
Proof.
  intros (l & name & Hc & _). pose proof (tr_core _ _ _ _ _ (dc_tab _ _ _ _ _ _ _ _ Hc)) as Ht.
  by rewrite (tc_entries _ _ _ _ _ Ht), (dc_max _ _ _ _ _ _ _ _ Hc).
Qed.

Lemma cleared_at M opts g c : ctx_at M opts g c -> ctx_at M opts g (cleared c).
Proof.
  intros H. apply (ctx_at_sim M opts g c); try done.
  - constructor; try done. apply flags_sim_clear.
  - unfold cleared. by rewrite is_blocked_cleared.
Qed.

Lemma woken_ready t t' hs dec dec' : dec_ready dec t -> reading max rel dec' t' -> woken dec hs dec' -> dec_ready dec' t'.
Proof.
  intros [H1 H2 H3] Hr [W1 W2 W3 W4 W5 W6]. split; [done| |by rewrite W2].
  intros p c' Hp. rewrite (reading_max_entries _ _ Hr), W1. specialize (W5 p). rewrite Hp in W5.
  destruct (mem dec !! p) as [c|] eqn:E; [|done]. destruct (H2 p c E) as [g Hg].
  rewrite (reading_max_entries _ _ H1) in Hg. exists g. destruct W5 as [->|[-> _]]; [done|by apply cleared_at].
Qed.

(** The decoder between two calls: [pend] is the beginning of an instruction. *)
Definition live dec t (pend : bytes) : Prop := decoding max rel dec t pend /\ dec_ready dec t.

Lemma same_live t pend dec dec' : live dec t pend -> dec_ready dec' t -> same_dec dec dec' -> live dec' t pend.
Proof.
  intros [(Hr & Hp & Hrd) Hd] Hd' Hs. split; [|done]. split; [apply Hd'|]. split; [done|]. by rewrite (sd_reader _ _ Hs).
Qed.

Lemma wp_enc_in_live t pend buf dec : live dec t pend -> chunk_ok buf ->
  wp (lsqpack_dec_enc_in buf) dec (fun r dec' => (exists hs, woken dec hs dec') /\
    ((r = 0 /\ exists b l pend' t', pend ++ buf = b ++ pend' /\ instructions b l /\ dec_applys max t l = Some t' /\ live dec' t' pend')
     \/ (r = -1 /\ rejected max rel t (pend ++ buf) dec'))).
Proof.
  intros [Hd Hrd] [Hb Hl]. pose proof (wp_enc_in max rel t pend buf dec Hd Hb Hl) as H. unfold wp in *.
  destruct (lsqpack_dec_enc_in buf dec) as [[r dec']|] eqn:E; [|done]. destruct (enc_in_woken _ _ _ _ E) as [hs Hw].
  split; [by exists hs|]. destruct H as [[-> (b & l & pend' & t' & E1 & E2 & E3 & E4)]|[-> H]]; [left|by right].
  split; [done|]. exists b, l, pend', t'. split; [done|]. split; [done|]. split; [done|]. split; [done|].
  eapply woken_ready; [exact Hrd|apply E4|exact Hw].
Qed.

Lemma init_live risked opts app ms :
  0 <= max < 2 ^ 31 -> (rel = true -> Forall is_Some ms) -> is_u32 risked ->
  live (lsqpack_dec_init max risked opts app ms) (Dyn 0 max []) [].
Proof.
  intros Hm Hms Hr. pose proof (init_decoding max rel risked opts app ms Hm Hms) as Hd. split; [done|]. split; [apply Hd| |done].
  intros p c. cbn. by rewrite lookup_empty.
Qed.

(** ** Any calls *)

Inductive dec_call :=
  | CallEncIn (buf : bytes)
  | CallHeaderIn (hblock stream_id header_size : Z) (buf : bytes) (dec_buf : option bytes)
  | CallHeaderRead (hblock : Z) (buf : bytes) (dec_buf : option bytes)
  | CallWriteIci (room : bytes)
  | CallUnref (hblock : Z)
  | CallCancel (hblock : Z) (room : bytes)
  | CallCancelId (stream_id : Z) (room : bytes).

(** The buffers are at most 4 GB long. *)
Definition call_ok (call : dec_call) : Prop :=
  match call with
  | CallEncIn buf | CallHeaderRead _ buf _ => chunk_ok buf
  | CallHeaderIn _ _ header_size buf _ => chunk_ok buf /\ is_u64 header_size
  | _ => True
  end.

(** False after a failure that the decoder does not survive. *)
Definition run_call (call : dec_call) : dec_m hset bool :=
  match call with
  | CallEncIn buf => r ← lsqpack_dec_enc_in buf; mret (r =? 0)
  | CallHeaderIn hblock stream_id header_size buf dec_buf =>
      lsqpack_dec_header_in hblock stream_id header_size buf dec_buf;; mret true
  | CallHeaderRead hblock buf dec_buf => lsqpack_dec_header_read hblock buf dec_buf;; mret true
  | CallWriteIci room => lsqpack_dec_write_ici room;; mret true
  | CallUnref hblock => lsqpack_dec_unref_stream hblock;; mret true
  | CallCancel hblock room => lsqpack_dec_cancel_stream hblock room;; mret true
  | CallCancelId stream_id room => lsqpack_dec_cancel_stream_id stream_id room;; mret true
  end.

Fixpoint run_calls (calls : list dec_call) : dec_m hset unit :=
  match calls with
  | [] => mret tt
  | call :: calls => ok ← run_call call; if ok : bool then run_calls calls else mret tt
  end.

Lemma wp_run_call t pend call dec : live dec t pend -> call_ok call ->
  wp (run_call call) dec (fun ok dec' => if ok : bool then exists t' pend', live dec' t' pend' else stopped max rel dec').
Proof.
  intros Hl Hc. pose proof (proj2 Hl) as Hd. destruct call as [buf|hb sid n buf db|hb buf db|room|hb|hb room|sid room]; cbn [run_call call_ok] in *; wpstep.
  - eapply wp_mono; [by apply (wp_enc_in_live t pend)|]. intros r dec' [_ [[-> (b & l & p & t' & _ & _ & _ & H)]|[-> [H _]]]]; wpstep; [|done].
    by exists t', p.
  - destruct Hc as [Hc Hu]. eapply wp_mono; [by apply (wp_header_in t)|]. intros r dec' H. wpstep. exists t, pend.
    destruct (header_in_ready _ _ _ _ _ _ _ _ _ Hd H). by eapply same_live.
  - eapply wp_mono; [by apply (wp_header_read t)|]. intros r dec' H. wpstep. exists t, pend.
    destruct (header_read_ready _ _ _ _ _ _ _ Hd H). by eapply same_live.
  - eapply wp_mono; [by apply (wp_write_ici t)|]. intros r dec' [H _]. wpstep. exists t, pend.
    eapply same_live; [exact Hl|by eapply counted_ready|apply H].
  - eapply wp_mono; [by apply (wp_unref t)|]. intros r dec' H. wpstep. exists t, pend.
    destruct (find_header_block_read_ctx hb (qpd_ctxs dec)) as [p|]; [|by destruct H as [_ ->]].
    destruct H as [_ H]. eapply same_live; [exact Hl|by eapply dropped_ready|apply H].
  - eapply wp_mono; [by apply (wp_cancel_stream t)|]. intros r dec' H. wpstep. exists t, pend.
    destruct (find_header_block_read_ctx hb (qpd_ctxs dec)) as [p|]; [|by destruct H as [_ ->]].
    destruct H as (c & dec1 & _ & _ & Hcn & _ & H).
    assert (live dec1 t pend) as Hl1 by (eapply same_live; [exact Hl|by eapply counted_ready|apply Hcn]).
    destruct (fst r >? 0); [|by subst dec']. eapply same_live; [exact Hl1|eapply dropped_ready; [apply Hl1|exact H]|apply H].
  - eapply wp_mono; [by apply (wp_cancel_stream_id t)|]. intros r dec' [H _]. wpstep. exists t, pend.
    eapply same_live; [exact Hl|by eapply counted_ready|apply H].
Qed.

Lemma wp_run_calls calls t pend dec : live dec t pend -> Forall call_ok calls ->
  wp (run_calls calls) dec (fun _ dec' => stopped max rel dec').
Proof.
  intros Hl Hc. revert t pend dec Hl. induction Hc as [|call calls Hc _ IH]; intros t pend dec Hl; cbn [run_calls].
  - wpstep. destruct Hl as [[Hr _] _]. by eapply reading_stopped.
  - wpstep. eapply wp_mono; [by eapply wp_run_call|]. intros [] dec'; [|by intros; wpstep].
    intros (t' & pend' & Hl'). by eapply IH.
Qed.
End api.
