(* ===== verification/DecRfc.v ===== *)
(** * Header blocks of RFC 9204 as the decoder reads them

    The decoder reads ids modulo twice the number of entries and a prefix in its own
    way; a header block that is valid by [Rfc9204.header_block] is read as the field
    lines it stands for ([header_block_is], [section_is]), provided the Base is not far
    from the Required Insert Count and from the table ([base_near]) and the latter is
    not encoded in more bytes than it may take ([ric_length]). *)

From stdpp Require Import gmap.
From S2P Require Import Prelude Monad IntCodec HuffTables Huffman HuffStream StrCodec Xxhash.
From S2P Require Import StaticTable Ringbuf Rfc9204 EncTable EncEncode DecTable DecState DecStream.
From S2P Require Import DecSpec DecBlocked DecStrings DecReading DecCore DecEncIn DecHeader DecParse DecHblock.
From S2P Require Import DecHset DecOut DecCompose DecLine DecData DecLoop DecPrefix DecBlock DecView.

(** A field line of RFC 9204 as a line. *)
Definition line_of (x : representation * hfield) : hline :=
  {| hl_never := never_indexed (fst x); hl_field := snd x |}.

(** The flags after a reference. *)
Definition flags_after (M largest flags : Z) (r : representation) : Z :=
  match reference r with Some id => ref_flags largest flags ((id - 1) mod (2 * M)) | None => flags end.

(** The Base is not far from the Required Insert Count and the [total] insertions. *)
Definition base_near (M total ric base : Z) : Prop := 0 < ric -> ric - 2 * M <= base <= total + M.

(** ** One line *)

Section line.
Variables (t : dyn_table) (M : Z).

(** The indices relative to [base] are those of the entries of [t] up to [ric]. *)
Record env_for (E : line_env) (ric base : Z) : Prop := {
  ef_rel : forall n f, 0 <= n -> base - n <= ric -> dt_get t (base - n) = Some f ->
    n < 2 ^ 24 /\ le_rel E n = (base - n - 1) mod (2 * M);
  ef_post : forall n f, 0 <= n -> base + n + 1 <= ric -> dt_get t (base + n + 1) = Some f ->
    n < 2 ^ 24 /\ le_post E n = (base + n) mod (2 * M);
  ef_look : forall id f, id <= ric -> dt_get t id = Some f -> le_look E ((id - 1) mod (2 * M)) = Some f;
}.

Lemma read_int_nonneg p buf n rest : is_bytes buf -> 1 <= p <= 8 -> read_int p buf = Some (n, rest) -> is_u64 n /\ is_bytes rest.
Proof.
  intros Hb Hp. destruct buf as [|b0 src]; [done|]. cbn [read_int].
  pose proof (dec_int_call b0 src p dec_int_fresh Hb (int_fresh_start p Hp)) as H.
  destruct (lsqpack_dec_int b0 src p dec_int_fresh) as [v r| |]; [|done..]. intros [= -> ->].
  destruct H as (Hv & (used & E & _) & _). split; [done|]. rewrite E in Hb. by apply Forall_app in Hb as [_ ?].
Qed.

Lemma read_index_small p buf n rest : read_int p buf = Some (n, rest) -> n < 2 ^ 24 ->
  read_index p dec_int_fresh buf = Some (n, rest).
Proof.
  intros H Hn. unfold read_index. rewrite <- read_int_fresh, H. cbn [mbind option_bind].
  by destruct (Z.ltb_spec n (2 ^ 24)); [|lia].
Qed.

Lemma ref_static_at E flags n : 0 <= n < 99 ->
  n < 2 ^ 24 /\ ref_field E flags RefStatic n = Some ((ste_name (ste_at n), ste_val (ste_at n)), flags).
Proof.
  intros Hn. split; [change (2 ^ 24) with 16777216; lia|]. cbn [ref_field]. unfold static_field.
  by destruct (Z.ltb_spec n 99); [|lia].
Qed.

Lemma ref_rel_at E ric base flags n f : env_for E ric base -> 0 <= n -> base - n <= ric -> dt_get t (base - n) = Some f ->
  n < 2 ^ 24 /\ ref_field E flags RefRel n = Some (f, ref_flags (le_largest E) flags ((base - n - 1) mod (2 * M))).
Proof.
  intros HE Hn Hi Hg. destruct (ef_rel _ _ _ HE n f Hn Hi Hg) as [Hs Er]. split; [done|]. cbn [ref_field].
  by rewrite Er, (ef_look _ _ _ HE _ _ Hi Hg).
Qed.

Lemma ref_post_at E ric base flags n f : env_for E ric base -> 0 <= n -> base + n + 1 <= ric -> dt_get t (base + n + 1) = Some f ->
  n < 2 ^ 24 /\ ref_field E flags RefPost n = Some (f, ref_flags (le_largest E) flags ((base + n + 1 - 1) mod (2 * M))).
Proof.
  intros HE Hn Hi Hg. destruct (ef_post _ _ _ HE n f Hn Hi Hg) as [Hs Er]. split; [done|]. cbn [ref_field].
  rewrite Er. replace ((base + n) mod (2 * M)) with ((base + n + 1 - 1) mod (2 * M)) by (f_equal; lia).
  by rewrite (ef_look _ _ _ HE _ _ Hi Hg).
Qed.

Lemma indexed_at E flags k p buf n rest f flags' :
  read_int p buf = Some (n, rest) -> n < 2 ^ 24 /\ ref_field E flags k n = Some (f, flags') ->
  indexed E flags k (read_index p dec_int_fresh buf) = Some ({| hl_never := false; hl_field := f |}, flags', rest).
Proof. intros Hr [Hn Hf]. unfold indexed. rewrite (read_index_small _ _ _ _ Hr Hn). cbn [mbind option_bind]. by rewrite Hf. Qed.

Lemma nameref_at E flags k never p buf n v rest f flags' :
  read_int_str p buf = Some (n, v, rest) -> n < 2 ^ 24 /\ ref_field E flags k n = Some (f, flags') ->
  nameref E flags k never (read_index p dec_int_fresh buf)
  = Some ({| hl_never := never; hl_field := (fst f, v) |}, flags', rest).
Proof.
  unfold read_int_str. intros Hr [Hn Hf]. destruct (read_int p buf) as [[n' buf']|] eqn:E1; [|done].
  cbn [mbind option_bind] in Hr. destruct (read_str 7 buf') as [[v' buf'']|] eqn:E2; [|done]. injection Hr as -> -> ->.
  unfold nameref. rewrite (read_index_small _ _ _ _ E1 Hn). cbn [mbind option_bind]. rewrite Hf. cbn [mbind option_bind].
  unfold with_value. by rewrite E2.
Qed.

Lemma read_int_str_nonneg p buf n v rest : is_bytes buf -> 1 <= p <= 8 -> read_int_str p buf = Some (n, v, rest) -> 0 <= n.
Proof.
  intros Hb Hp. unfold read_int_str. destruct (read_int p buf) as [[n' buf']|] eqn:E1; [|done]. cbn [mbind option_bind].
  destruct (read_int_nonneg _ _ _ _ Hb Hp E1) as [[Hn _] _].
  destruct (read_str 7 buf') as [[v' buf'']|]; [|done]. by intros [= -> _ _].
Qed.

Lemma literal_at never flags b0 src name v rest :
  is_bytes (b0 :: src) -> read_str_str 3 (b0 :: src) = Some (name, v, rest) ->
  literal never flags (rest_len_str (Z.testbit b0 3) 3 dec_int_fresh (b0 :: src))
  = Some ({| hl_never := never; hl_field := (name, v) |}, flags, rest).
Proof.
  intros Hb. unfold read_str_str. rewrite (read_str_split 3 b0 src Hb) by lia. fold (rest_len_str (Z.testbit b0 3) 3 dec_int_fresh (b0 :: src)).
  destruct (rest_len_str _ _ _ _) as [[name' buf']|]; [|done]. cbn [mbind option_bind].
  destruct (read_str 7 buf') as [[v' buf'']|] eqn:E2; [|done]. intros [= -> -> ->].
  cbn [literal mbind option_bind]. unfold with_value. by rewrite E2.
Qed.

(** A representation that stands for a field is read as that field. *)
Lemma read_line_rfc E ric base flags buf r rest f :
  is_bytes buf -> env_for E ric base -> (forall id, reference r = Some id -> id <= ric) -> read_representation base buf = Some (r, rest) -> resolve t r = Some f ->
  read_line E flags buf = Some (line_of (r, f), flags_after M (le_largest E) flags r, rest).
Proof.
  intros Hb HE Hric Hr Hf. destruct buf as [|b0 src]; [done|]. cbn [read_representation] in Hr. cbn [read_line].
  change 0x80 with (2 ^ 7). change 0x40 with (2 ^ 6). change 0x20 with (2 ^ 5). change 0x10 with (2 ^ 4). change 0x08 with (2 ^ 3).
  rewrite !has_bits_test by lia.
  destruct (Z.testbit b0 7); [|destruct (Z.testbit b0 6); [|destruct (Z.testbit b0 5); [|destruct (Z.testbit b0 4) eqn:E4]]].
  - destruct (read_int 6 (b0 :: src)) as [[n buf]|] eqn:E1; [|done]. cbn [mbind option_bind] in Hr.
    destruct (read_int_nonneg 6 _ _ _ Hb ltac:(lia) E1) as [[Hn _] _].
    destruct (Z.testbit b0 6); injection Hr as <- <-; cbn [resolve] in Hf; cbn [reference] in Hric; cbn [rel_kind].
    + destruct (Z.leb_spec 0 n), (Z.ltb_spec n 99); try done. injection Hf as <-.
      by apply (indexed_at _ _ _ _ _ _ _ _ _ E1), ref_static_at.
    + apply (indexed_at _ _ _ _ _ _ _ _ _ E1). apply (ref_rel_at E ric base); auto.
  - destruct (read_int_str 4 (b0 :: src)) as [[[n v] buf]|] eqn:E1; [|done]. cbn [mbind option_bind] in Hr.
    pose proof (read_int_str_nonneg 4 _ _ _ _ Hb ltac:(lia) E1) as Hn.
    destruct (Z.testbit b0 4); injection Hr as <- <-; cbn [resolve] in Hf; cbn [reference] in Hric; cbn [rel_kind].
    + destruct (Z.leb_spec 0 n), (Z.ltb_spec n 99); try done. injection Hf as <-.
      exact (nameref_at E flags RefStatic _ 4 _ n v buf _ _ E1 (ref_static_at E flags n (conj Hn H0))).
    + destruct (dt_get t (base - n)) as [g|] eqn:Eg; [|done]. injection Hf as <-.
      exact (nameref_at E flags RefRel _ 4 _ n v buf _ _ E1 (ref_rel_at E ric base flags n g HE Hn (Hric _ eq_refl) Eg)).
  - destruct (read_str_str 3 (b0 :: src)) as [[[name v] buf]|] eqn:E1; [|done]. injection Hr as <- <-. injection Hf as <-.
    by apply literal_at.
  - destruct (read_int 4 (b0 :: src)) as [[n buf]|] eqn:E1; [|done]. injection Hr as <- <-. cbn [resolve] in Hf; cbn [reference] in Hric.
    destruct (read_int_nonneg 4 _ _ _ Hb ltac:(lia) E1) as [[Hn _] _].
    apply (indexed_at _ _ _ _ _ _ _ _ _ E1). apply (ref_post_at E ric base); auto.
  - destruct (read_int_str 3 (b0 :: src)) as [[[n v] buf]|] eqn:E1; [|done]. injection Hr as <- <-. cbn [resolve] in Hf; cbn [reference] in Hric.
    pose proof (read_int_str_nonneg 3 _ _ _ _ Hb ltac:(lia) E1) as Hn.
    destruct (dt_get t (base + n + 1)) as [g|] eqn:Eg; [|done]. injection Hf as <-.
    exact (nameref_at E flags RefPost _ 3 _ n v buf _ _ E1 (ref_post_at E ric base flags n g HE Hn (Hric _ eq_refl) Eg)).
Qed.

(** ** The lines of a block *)

Fixpoint flags_after_all (largest flags : Z) (l : list (representation * hfield)) : Z :=
  match l with
  | [] => flags
  | (r, _) :: l => flags_after_all largest (flags_after M largest flags r) l
  end.

Lemma section_lines E ric base buf l flags :
  is_bytes buf -> env_for E ric base -> (forall r f id, (r, f) ∈ l -> reference r = Some id -> id <= ric) ->
  field_section t base buf l ->
  block_lines E flags buf (line_of <$> l) (flags_after_all (le_largest E) flags l).
Proof.
  intros Hb HE Hric Hs. revert flags Hric. induction Hs as [|b r f bs l Hr Hf Hs IH]; intros flags Hric; [constructor|].
  assert (is_bytes bs) as Hbs by by apply Forall_app in Hb as [_ ?].
  change (line_of <$> (r, f) :: l) with (line_of (r, f) :: (line_of <$> l)). cbn [flags_after_all].
  eapply block_cons; [|apply IH; [done|]].
  - apply (read_line_rfc E ric base); try done. intros id. apply (Hric r f). by left.
  - intros r' f' id Hx. apply (Hric r' f'). by right.
Qed.

(** ** The flags *)

Lemma ref_flags_set largest flags id : has_bits flags HBRC_LARGEST_REF_SET = true ->
  ref_flags largest flags id = if id =? largest then Z.lor flags HBRC_LARGEST_REF_USED else flags.
Proof. intros H. unfold ref_flags. rewrite H. destruct (id =? largest); [done|]. cbn. by rewrite Z.lor_0_r. Qed.

(** With a Required Insert Count the largest reference has to be used. *)
Lemma flags_after_used largest flags l :
  has_bits flags HBRC_LARGEST_REF_SET = true -> has_bits flags HBRC_DYN_USED_IN_ERR = false ->
  let flags' := flags_after_all largest flags l in
  has_bits flags' HBRC_LARGEST_REF_SET = true /\ has_bits flags' HBRC_DYN_USED_IN_ERR = false
  /\ (has_bits flags HBRC_LARGEST_REF_USED = true
      \/ (exists r f id, (r, f) ∈ l /\ reference r = Some id /\ (id - 1) mod (2 * M) = largest) ->
      has_bits flags' HBRC_LARGEST_REF_USED = true).
Proof.
  revert flags. induction l as [|[r f] l IH]; intros flags Hs He; cbn [flags_after_all].
  - split; [done|]. split; [done|]. intros [?|(r & f & id & Hx & _)]; [done|]. by apply elem_of_nil in Hx.
  - assert (let g := flags_after M largest flags r in has_bits g HBRC_LARGEST_REF_SET = true
      /\ has_bits g HBRC_DYN_USED_IN_ERR = false /\ (has_bits flags HBRC_LARGEST_REF_USED = true -> has_bits g HBRC_LARGEST_REF_USED = true)
      /\ (forall id, reference r = Some id -> (id - 1) mod (2 * M) = largest -> has_bits g HBRC_LARGEST_REF_USED = true)) as (H1 & H2 & H3 & H4).
    { cbn zeta. unfold flags_after. destruct (reference r) as [id|]; [|by split_and!]. rewrite ref_flags_set by done.
      destruct (Z.eqb_spec ((id - 1) mod (2 * M)) largest) as [E|E]; [|split_and!; try done; by intros ? [= <-]].
      rewrite !has_bits_or, Hs, He. split_and!; try done; intros; by rewrite orb_true_r. }
    destruct (IH _ H1 H2) as (H5 & H6 & H7). split; [done|]. split; [done|]. intros [Hu|(r' & f' & id & Hx & Hid & El)]; apply H7; [left; by apply H3|].
    apply elem_of_cons in Hx as [[= -> ->]|Hx]; [left; by eapply H4|]. right. by exists r', f', id.
Qed.
End line.

(** ** The environment of a block *)

(** A table is never larger than its capacity allows. *)
Definition table_fits (M : Z) (t : dyn_table) : Prop :=
  Z.of_nat (length (dt_entries t)) <= M /\ Z.of_nat (length (dt_entries t)) <= dt_inserted t.

Lemma fits_id M t id f : table_fits M t -> dt_get t id = Some f -> 0 < id /\ dt_inserted t - M < id <= dt_inserted t.
Proof. intros [H1 H2] H. apply dt_get_range in H. unfold dt_oldest in H. lia. Qed.

Lemma look_id M t id f : 0 <= M <= 2 ^ 22 -> table_fits M t -> dt_get t id = Some f -> dyn_look t M ((id - 1) mod (2 * M)) = Some f.
Proof.
  intros HM Hf Hg. pose proof (fits_id _ _ _ _ Hf Hg). unfold dyn_look. change (2 ^ 22) with 4194304 in HM.
  pose proof (Z.mod_pos_bound (dt_inserted t - 1) (2 * M) ltac:(lia)). pose proof (Z.mod_pos_bound (id - 1) (2 * M) ltac:(lia)).
  rewrite id_minus_mod by (change (2 ^ 27) with 134217728; change (2 ^ 31) with 2147483648; lia).
  rewrite <- Zminus_mod. rewrite Z.mod_small by lia. by replace (dt_inserted t - _) with id by lia.
Qed.

Lemma env_of_rfc M t c ric base :
  0 <= M <= 2 ^ 22 -> table_fits M t -> base_near M (dt_inserted t) ric base ->
  (0 < ric -> hbrc_base_index c = (base - 1) mod (2 * M)) -> env_for t M (env_of t M c) ric base.
Proof.
  intros HM Hf Hn Hb. change (2 ^ 22) with 4194304 in HM. split.
  - intros n f Hn0 Hi Hg. pose proof (fits_id _ _ _ _ Hf Hg). specialize (Hn ltac:(lia)). change (2 ^ 24) with 16777216. split; [lia|].
    cbn [env_of le_rel]. rewrite Hb by lia. pose proof (Z.mod_pos_bound (base - 1) (2 * M) ltac:(lia)).
    rewrite id_minus_mod by (change (2 ^ 27) with 134217728; change (2 ^ 31) with 2147483648; lia).
    rewrite Zminus_mod_idemp_l. f_equal. lia.
  - intros n f Hn0 Hi Hg. pose proof (fits_id _ _ _ _ Hf Hg). specialize (Hn ltac:(lia)). change (2 ^ 24) with 16777216. split; [lia|].
    cbn [env_of le_post]. rewrite Hb by lia. pose proof (Z.mod_pos_bound (base - 1) (2 * M) ltac:(lia)).
    unfold ID_PLUS. destruct (Z.eqb_spec M 0); [lia|]. rewrite (u32_id (2 * M)), (u32_id (n + 1)), u32_id by ulia.
    rewrite Zplus_mod_idemp_l. f_equal. lia.
  - intros id f Hi Hg. by apply look_id.
Qed.

(** ** The prefix *)

Lemma decode_insert_count_inv M total v ric :
  0 <= M -> 0 <= total -> 0 <= v -> decode_insert_count M total v = Some ric ->
  v = 0 /\ ric = 0
  \/ 0 < M /\ 0 < v <= 2 * M /\ 0 < ric /\ total - M < ric <= total + M /\ exists q, ric = v - 1 + q * (2 * M).
Proof.
  intros HM Ht Hv. unfold decode_insert_count. destruct (Z.eqb_spec v 0) as [->|Hv0]; [intros [= <-]; by left|].
  rewrite !Z.gtb_ltb. destruct (Z.ltb_spec (2 * M) v) as [|Hle]; [done|]. intros H. right.
  assert (0 < M) as HM0 by lia. pose proof (Z.div_mod (total + M) (2 * M) ltac:(lia)) as Hd.
  pose proof (Z.mod_pos_bound (total + M) (2 * M) ltac:(lia)) as Hm. set (q := (total + M) / (2 * M)) in *.
  replace (q * (2 * M)) with (2 * M * q) in H by lia. set (w := 2 * M * q) in *.
  destruct (Z.ltb_spec (total + M) (w + v - 1)).
  - destruct (Z.leb_spec (w + v - 1) (2 * M)); [done|]. destruct (_ =? 0); [done|]. injection H as <-.
    split_and!; try lia. exists (q - 1). unfold w. lia.
  - destruct (Z.eqb_spec (w + v - 1) 0); [done|]. injection H as <-.
    assert (0 <= q) by (apply Z.div_pos; lia). assert (0 <= w) by (unfold w; nia).
    split_and!; try lia. exists q. unfold w. lia.
Qed.

Lemma mod_of_eq M a b : 0 < M -> (exists q, a = b + q * (2 * M)) -> a mod (2 * M) = b mod (2 * M).
Proof. intros HM [q ->]. by rewrite Z_mod_plus_full. Qed.

(** The Required Insert Count is encoded in at most a byte more than it needs. *)
Definition ric_short (M : Z) (buf : bytes) : Prop :=
  forall v rest, read_int 8 buf = Some (v, rest) -> Z.of_nat (length buf) - Z.of_nat (length rest) <= ric_length M.

Lemma is_u64_small z : 0 <= z < 2 ^ 27 -> is_u64 z.
Proof. unfold is_u64. change (2 ^ 27) with 134217728. change (2 ^ 64) with 18446744073709551616. lia. Qed.

(** The index of the Base, from the largest reference. *)
Lemma base_index_sub M ric d : 0 < M <= 2 ^ 22 -> 0 <= d -> d + 1 <= 2 * M ->
  ID_MINUS64 M ((ric - 1) mod (2 * M)) (u64 (d + 1)) = (ric - d - 1 - 1) mod (2 * M).
Proof.
  intros HM Hd Hle. change (2 ^ 22) with 4194304 in HM. pose proof (Z.mod_pos_bound (ric - 1) (2 * M) ltac:(lia)).
  unfold ID_MINUS64. destruct (Z.eqb_spec M 0); [lia|].
  rewrite (u64_id (d + 1)), u64_id, (u32_id (2 * M)) by (ulia || apply is_u64_small; change (2 ^ 27) with 134217728; lia).
  replace ((ric - 1) mod (2 * M) + 2 * M - (d + 1)) with ((ric - 1) mod (2 * M) - (d + 1) + 1 * (2 * M)) by lia.
  rewrite Z_mod_plus_full, Zminus_mod_idemp_l. f_equal. lia.
Qed.

Lemma base_index_add M ric d : 0 < M <= 2 ^ 22 -> 0 <= d <= 2 * M ->
  ID_PLUS64 M ((ric - 1) mod (2 * M)) d = (ric + d - 1) mod (2 * M).
Proof.
  intros HM Hd. change (2 ^ 22) with 4194304 in HM. pose proof (Z.mod_pos_bound (ric - 1) (2 * M) ltac:(lia)).
  unfold ID_PLUS64. destruct (Z.eqb_spec M 0); [lia|].
  rewrite u64_id, (u32_id (2 * M)) by (ulia || apply is_u64_small; change (2 ^ 27) with 134217728; lia).
  rewrite Zplus_mod_idemp_l. f_equal. lia.
Qed.

Lemma largest_index M v ric : 0 < M <= 2 ^ 22 -> 0 < v <= 2 * M -> (exists q, ric = v - 1 + q * (2 * M)) ->
  ID_MINUS64 M v 2 = (ric - 1) mod (2 * M).
Proof.
  intros HM Hv [q ->]. change (2 ^ 22) with 4194304 in HM. unfold ID_MINUS64. destruct (Z.eqb_spec M 0); [lia|].
  rewrite u64_id, (u32_id (2 * M)) by (ulia || apply is_u64_small; change (2 ^ 27) with 134217728; lia).
  replace (v + 2 * M - 2) with (v - 2 + 1 * (2 * M)) by lia. rewrite Z_mod_plus_full.
  replace (v - 1 + q * (2 * M) - 1) with (v - 2 + q * (2 * M)) by lia. by rewrite Z_mod_plus_full.
Qed.

(** What is asked of a block besides that it is valid. *)
Record section_fits (M : Z) (t : dyn_table) (buf : bytes) (ric base : Z) : Prop := {
  sf_entries : 0 <= M <= 2 ^ 22;
  sf_table : table_fits M t;
  sf_base : base_near M (dt_inserted t) ric base;
  sf_bytes : is_bytes buf;
}.

Definition block_fits (M : Z) (t : dyn_table) (buf : bytes) (ric base : Z) : Prop :=
  section_fits M t buf ric base /\ ric_short M buf.

(** The largest reference is in the table. *)
Lemma required_in_table M t base buf ric l : table_fits M t -> field_section t base buf l -> required_by ric l ->
  0 < ric -> dt_inserted t - M < ric <= dt_inserted t.
Proof.
  intros Hf Hs [_ Hl] Hr. destruct (Hl Hr) as (r & f & Hin & Href). clear Hl.
  induction Hs as [|b r' f' bs l Hrep Hres Hs IH]; [by apply elem_of_nil in Hin|].
  apply elem_of_cons in Hin as [[= <- <-]|Hin]; [|by apply IH].
  pose proof (resolve_reference _ _ _ _ Hres Href) as H. destruct Hf. unfold dt_oldest in H. lia.
Qed.

Section block.
Context {hset : Type} `{!HsetIf hset} `{!HsetOk hset}.
Variables (t : dyn_table).

Implicit Types (dec : lsqpack_dec hset) (c : header_block_read_ctx).

(** The field lines, once the Required Insert Count has been read. *)
Lemma section_begin M c b0 src d rest ric base l :
  section_fits M t (b0 :: src) ric base -> (0 < ric -> 0 < M) -> 0 <= ric ->
  read_int 7 (b0 :: src) = Some (d, rest) -> base = (if Z.testbit b0 7 then ric - d - 1 else ric + d) ->
  field_section t base rest l -> required_by ric l ->
  has_bits (hbrc_flags c) HBRC_LARGEST_REF_SET = (0 <? ric) -> has_bits (hbrc_flags c) HBRC_DYN_USED_IN_ERR = false ->
  (0 < ric -> hbrc_largest_ref c = (ric - 1) mod (2 * M)) ->
  begin_base t M c (b0 :: src) (line_of <$> l) (flags_after_all M (hbrc_largest_ref c) (hbrc_flags c) l).
Proof.
  intros [HM Hf Hn Hb] HM0 Hr Hd Eb Hs Hreq Hset Herr Hl. destruct (read_int_nonneg 7 _ _ _ Hb ltac:(lia) Hd) as [[Hd0 _] Hbr].
  exists b0, src. split; [done|]. exists d, rest. split; [by rewrite <- read_int_fresh|].
  change 0x80 with (2 ^ 7). rewrite has_bits_test by lia.
  apply (section_lines t M (env_of t M (base_ctx M (Z.testbit b0 7) d c)) ric base rest l); [done| |apply Hreq|done].
  apply env_of_rfc; try done. intros Hpos. specialize (HM0 Hpos). specialize (Hn Hpos). specialize (Hl Hpos).
  pose proof (required_in_table M t base rest ric l Hf Hs Hreq Hpos).
  unfold base_ctx. cbn [set_hbrc_refs hbrc_base_index]. rewrite Hset, (proj2 (Z.ltb_lt 0 ric) Hpos), Hl, Eb.
  destruct (Z.testbit b0 7); [apply base_index_sub; lia|apply base_index_add; lia].
Qed.

(** The flags at the end of the block. *)
Lemma section_flags M c ric l :
  required_by ric l -> (forall r f id, (r, f) ∈ l -> reference r = Some id -> 0 < id) -> 0 <= ric ->
  has_bits (hbrc_flags c) HBRC_LARGEST_REF_SET = (0 <? ric) -> has_bits (hbrc_flags c) HBRC_DYN_USED_IN_ERR = false ->
  (0 < ric -> hbrc_largest_ref c = (ric - 1) mod (2 * M)) ->
  let flags := flags_after_all M (hbrc_largest_ref c) (hbrc_flags c) l in
  flags_ok flags = true /\ has_bits flags HBRC_LARGEST_REF_SET = (0 <? ric).
Proof.
  intros [Hle Hin] Hpos Hr Hset Herr Hl flags. unfold flags_ok. rewrite set_unused. destruct (Z.ltb_spec 0 ric) as [Hp|Hp].
  - destruct (flags_after_used M (hbrc_largest_ref c) (hbrc_flags c) l Hset Herr) as (H1 & H2 & H3). fold flags in H1, H2, H3.
    rewrite H1, H2, H3; [done|]. right. destruct (Hin Hp) as (r & f & Hx & Hid). exists r, f, ric. split; [done|]. split; [done|].
    by rewrite Hl.
  - assert (flags = hbrc_flags c) as ->; [|by rewrite Hset, Herr]. unfold flags. clear flags Hin.
    generalize (hbrc_flags c). induction l as [|[r f] l IH]; intros flags; cbn [flags_after_all]; [done|].
    unfold flags_after at 1. destruct (reference r) as [id|] eqn:E.
    + pose proof (Hle r f id ltac:(by left) E). pose proof (Hpos r f id ltac:(by left) E). lia.
    + apply IH; intros r' f' id Hx; [apply (Hle r' f')|apply (Hpos r' f')]; by right.
Qed.

Lemma section_ids M base buf l : table_fits M t -> field_section t base buf l ->
  forall r f id, (r, f) ∈ l -> reference r = Some id -> 0 < id.
Proof.
  intros Hf Hs r f id. induction Hs as [|b r' f' bs l Hrep Hres Hs IH]; [by intros ?%elem_of_nil|].
  intros [[= -> ->]|Hin]%elem_of_cons Hid; [|by apply IH].
  pose proof (resolve_reference _ _ _ _ Hres Hid) as H. destruct Hf. unfold dt_oldest in H. lia.
Qed.

(** ** A whole block *)

Lemma read_prefix_inv M total buf ric base rest : read_prefix M total buf = Some (ric, base, rest) ->
  exists v b1 src d, read_int 8 buf = Some (v, b1 :: src) /\ decode_insert_count M total v = Some ric
    /\ read_int 7 (b1 :: src) = Some (d, rest) /\ base = (if Z.testbit b1 7 then ric - d - 1 else ric + d).
Proof.
  unfold read_prefix. destruct (read_int 8 buf) as [[v buf1]|] eqn:E1; [|done]. cbn [mbind option_bind].
  destruct (decode_insert_count M total v) as [ric'|] eqn:E2; [|done]. cbn [mbind option_bind].
  destruct buf1 as [|b1 src]; [done|]. destruct (read_int 7 (b1 :: src)) as [[d rest']|] eqn:E3; [|done]. cbn [mbind option_bind].
  intros H. exists v, b1, src, d. destruct (Z.testbit b1 7) eqn:E7.
  - destruct (_ <? 0); [done|]. by injection H as <- <- <-.
  - by injection H as <- <- <-.
Qed.

(** The context after the Required Insert Count. *)
Lemma ric_ctx_rfc M total v ric c : 0 <= M <= 2 ^ 22 -> 0 <= total -> 0 <= v -> decode_insert_count M total v = Some ric ->
  flags_sim 0 (hbrc_flags c) ->
  v <= 2 * M /\ 0 <= ric /\ (0 < ric -> 0 < M)
  /\ has_bits (hbrc_flags (ric_ctx M v c)) HBRC_LARGEST_REF_SET = (0 <? ric)
  /\ has_bits (hbrc_flags (ric_ctx M v c)) HBRC_DYN_USED_IN_ERR = false
  /\ (0 < ric -> hbrc_largest_ref (ric_ctx M v c) = (ric - 1) mod (2 * M)).
Proof.
  intros HM Ht Hv Hd [_ Hs _ He].
  destruct (decode_insert_count_inv M total v ric ltac:(lia) Ht Hv Hd) as [[-> ->]|(HM0 & Hv0 & Hr & _ & Hq)].
  - unfold ric_ctx. cbn [Z.eqb set_hbrc_flags hbrc_flags]. rewrite !has_bits_or, Hs, He. split_and!; try done; lia.
  - unfold ric_ctx. destruct (Z.eqb_spec v 0); [lia|]. cbn [set_hbrc_flags hbrc_flags set_hbrc_refs hbrc_largest_ref].
    rewrite !has_bits_or, Hs, He, (proj2 (Z.ltb_lt 0 ric) Hr). split_and!; try done; try lia.
    intros _. apply largest_index; lia || done.
Qed.

Lemma header_block_is M total k g dec c buf ric base l :
  hbrc_parse c = PARSE_PREFIX PREFIX_STATE_BEGIN_READING_LARGEST_REF -> flags_sim 0 (hbrc_flags c) ->
  qpd_max_entries (qpd_tab dec) = M -> 0 <= total -> k = 0 ->
  header_block M total t buf ric base l -> block_fits M t buf ric base ->
  block_is t k g dec c buf (line_of <$> l) (0 <? ric).
Proof.
  intros Hps Hfl EM Ht -> (rest & Hp & Hs & Hreq) Hfits. destruct Hfits as [[HM Hf Hn Hb] Hsh].
  destruct (read_prefix_inv _ _ _ _ _ _ Hp) as (v & b1 & src & d & E1 & E2 & E3 & Eb).
  destruct (read_int_nonneg 8 _ _ _ Hb ltac:(lia) E1) as [[Hv _] Hb1].
  destruct (ric_ctx_rfc M total v ric c HM Ht Hv E2 Hfl) as (Hv2 & Hr & HM0 & Hset & Herr & Hl).
  exists (flags_after_all M (hbrc_largest_ref (ric_ctx M v c)) (hbrc_flags (ric_ctx M v c)) l).
  split; [|by apply section_flags; try done; apply (section_ids M base rest l)].
  unfold block_at. cbn [fst snd]. rewrite Hps, EM.
  destruct (read_int_local 8 ltac:(lia) _ _ _ Hb E1) as (used & Eu & _).
  exists v, used, (b1 :: src). split; [done|]. split; [by rewrite <- read_int_fresh|].
  split; [unfold dec_max_encoded_RIC; rewrite u32_id; [lia|]; change (2 ^ 22) with 4194304 in HM; ulia|].
  split; [pose proof (Hsh _ _ E1) as Hx; rewrite Eu, length_app in Hx; lia|].
  by apply (section_begin M (ric_ctx M v c) b1 src d rest ric base l).
Qed.
End block.
