(* ===== verification/DecChunks.v ===== *)
(** * A header block in any number of calls

    [read_block] is an application that passes the bytes of a header block on as they
    arrive, in any pieces: the first with [lsqpack_dec_header_in], the others with
    [lsqpack_dec_header_read] as long as the decoder asks for more.  A block that is
    valid and need not wait is read to its end ([wp_header_reads]); one that has to
    wait is put aside once its Required Insert Count has been read ([wp_reads_wait]). *)

From stdpp Require Import gmap.
From S2P Require Import Prelude Monad IntCodec HuffTables Huffman HuffStream StrCodec Xxhash.
From S2P Require Import StaticTable Ringbuf Rfc9204 EncTable EncEncode Float DecTable DecState DecStream.
From S2P Require Import DecSpec DecBlocked DecStrings DecReading DecCore DecEncIn DecCleanup DecHeader DecParse DecHblock.
From S2P Require Import DecHset DecOut DecCompose DecLine DecData DecLoop DecPrefix DecBlock DecView.
From S2P Require Import DecProcess DecCall DecFrame DecApi.

(** ** A block is read in one way only *)

Lemma block_lines_fun E f buf l1 f1 l2 f2 : block_lines E f buf l1 f1 -> block_lines E f buf l2 f2 -> l1 = l2 /\ f1 = f2.
Proof.
  intros H1. revert l2 f2. induction H1 as [f|f buf line f' rest l1 f1 Hr _ IH]; intros l2 f2 H2; inversion H2; subst; try done.
  rewrite Hr in *. simplify_eq. by destruct (IH _ _ ltac:(eassumption)) as [-> ->].
Qed.

Lemma block_from_fun E f g st buf l1 f1 l2 f2 : block_from E f g st buf l1 f1 -> block_from E f g st buf l2 f2 -> l1 = l2 /\ f1 = f2.
Proof.
  intros [(Hs & Hb & -> & ->)|(x & fx & rx & lx & H1 & H2 & ->)] [(Hs' & Hb' & -> & ->)|(y & fy & ry & ly & H3 & H4 & ->)]; subst; try done.
  rewrite H1 in H3. simplify_eq. by destruct (block_lines_fun _ _ _ _ _ _ _ H2 H4) as [-> ->].
Qed.

Lemma base_block_fun t M c sign p st buf l1 f1 l2 f2 :
  base_block t M c sign p st buf l1 f1 -> base_block t M c sign p st buf l2 f2 -> l1 = l2 /\ f1 = f2.
Proof. intros (v & r & H1 & H2) (v' & r' & H3 & H4). rewrite H1 in H3. simplify_eq. by eapply block_lines_fun. Qed.

Lemma begin_base_fun t M c buf l1 f1 l2 f2 : begin_base t M c buf l1 f1 -> begin_base t M c buf l2 f2 -> l1 = l2 /\ f1 = f2.
Proof. intros (b & src & -> & H1) (b' & src' & E & H2). simplify_eq. by eapply base_block_fun. Qed.

Lemma ric_block_fun t M c k p st buf l1 f1 l2 f2 :
  ric_block t M c k p st buf l1 f1 -> ric_block t M c k p st buf l2 f2 -> l1 = l2 /\ f1 = f2.
Proof.
  intros (v & u & r & _ & H1 & _ & _ & H2) (v' & u' & r' & _ & H3 & _ & _ & H4). rewrite H1 in H3. simplify_eq. by eapply begin_base_fun.
Qed.

(** ** The application *)

Section driver.
Context {hset : Type} `{!HsetIf hset}.

Definition need_more : header_result := {| hr_status := LQRHS_NEED; hr_rest := []; hr_ack := [] |}.

(** The result of the last call, and the pieces that were not passed on. *)
Fixpoint header_reads (hblock : Z) (chunks : list bytes) (dec_buf : option bytes) (r : header_result)
  : dec_m hset (header_result * list bytes) :=
  match hr_status r, chunks with
  | LQRHS_NEED, chunk :: chunks =>
      r ← lsqpack_dec_header_read hblock chunk dec_buf;
      header_reads hblock chunks dec_buf r
  | _, _ => mret (r, chunks)
  end.

Definition read_block (hblock stream_id header_size : Z) (chunks : list bytes) (dec_buf : option bytes)
  : dec_m hset (header_result * list bytes) :=
  match chunks with
  | [] => mret (need_more, [])
  | chunk :: chunks =>
      r ← lsqpack_dec_header_in hblock stream_id header_size chunk dec_buf;
      header_reads hblock chunks dec_buf r
  end.

(** What the application still has. *)
Definition unread (x : header_result * list bytes) : bytes := hr_rest (fst x) ++ concat (snd x).
End driver.

Section chunks.
Context {hset : Type} `{!HsetIf hset} `{!HsetOk hset}.
Variables (max : Z) (rel : bool) (t : dyn_table).

Implicit Types (dec : lsqpack_dec hset) (c : header_block_read_ctx).

Local Abbreviation entries dec := (qpd_max_entries (qpd_tab dec)).
Local Abbreviation mem dec := (cx_mem (qpd_ctxs dec)).
Local Abbreviation dec_ready := (dec_ready max rel t).
Local Abbreviation process_post := (process_post max rel t).

Lemma block_is_fun k g dec c buf l1 d1 l2 d2 : block_is t k g dec c buf l1 d1 -> block_is t k g dec c buf l2 d2 -> l1 = l2 /\ d1 = d2.
Proof.
  intros (f1 & H1 & _ & <-) (f2 & H2 & _ & <-). assert (l1 = l2 /\ f1 = f2) as [-> ->]; [|done]. unfold block_at in *. cbn [fst snd] in *.
  destruct (hbrc_parse c) as [[|st| |sign st]|st].
  - by eapply ric_block_fun.
  - by eapply ric_block_fun.
  - by eapply begin_base_fun.
  - by eapply base_block_fun.
  - by eapply block_from_fun.
Qed.

(** ** The block among the others *)

(** [p] is where the context of the application's block is. *)
Definition at_block dec (hblock p : Z) c : Prop :=
  mem dec !! p = Some c /\ hbrc_hblock c = hblock /\ forall q x, mem dec !! q = Some x -> hbrc_hblock x = hblock -> q = p.

(** No block of that name is being read. *)
Definition unused dec (hblock : Z) : Prop := forall q x, mem dec !! q = Some x -> hbrc_hblock x <> hblock.

Lemma at_block_find dec hblock p c : dec_ready dec -> at_block dec hblock p c ->
  find_header_block_read_ctx hblock (qpd_ctxs dec) = Some p.
Proof.
  intros Hd (Hp & Hh & Hu). pose proof (reading_ctxs max rel t dec (dr_reading _ _ _ _ Hd)) as Hok.
  assert (p ∈ qpd_hbrcs (qpd_ctxs dec)) as Hin by (apply (co_mem _ _ _ Hok); by exists c).
  unfold find_header_block_read_ctx.
  destruct (list_find _ (qpd_hbrcs (qpd_ctxs dec))) as [[i q]|] eqn:E.
  - apply list_find_Some in E as (_ & Hq & _). cbn. f_equal. destruct (mem dec !! q) as [x|] eqn:Eq; [|done].
    injection Hq as Hq. by apply (Hu q x).
  - eapply list_find_None in E. rewrite Forall_forall in E. specialize (E p Hin). rewrite Hp in E. cbn in E. congruence.
Qed.

Lemma at_block_keep dec dec' hblock p c c' :
  at_block dec hblock p c -> mem dec' = <[p := c']> (mem dec) -> hbrc_hblock c' = hbrc_hblock c -> at_block dec' hblock p c'.
Proof.
  intros (Hp & Hh & Hu) E Eh. unfold at_block. rewrite E. split; [by rewrite lookup_insert_eq|]. split; [congruence|].
  intros q x. destruct (decide (q = p)) as [->|Hne]; [done|]. rewrite lookup_insert_ne by done. apply Hu.
Qed.

Lemma unused_new dec dec' hblock p c : unused dec hblock -> mem dec' = <[p := c]> (mem dec) -> hbrc_hblock c = hblock ->
  at_block dec' hblock p c.
Proof.
  intros Hu E Eh. unfold at_block. rewrite E. split; [by rewrite lookup_insert_eq|]. split; [done|].
  intros q x. destruct (decide (q = p)) as [->|Hne]; [done|]. rewrite lookup_insert_ne by done. intros Hq Hx. by destruct (Hu q x).
Qed.

(** ** Pieces *)

(** The piece [buf] and what follows, of a block [block] and what follows. *)
Lemma piece_matches (block tail buf more : bytes) c :
  buf ++ more = block ++ tail -> is_bytes block -> Z.of_nat (length block) = hbrc_size c -> matches block buf c.
Proof.
  intros E Hb Hl. split; [done|]. split; [done|]. apply app_eq_inv in E as [(k & -> & ->)|(k & -> & ->)].
  - exists k. by left.
  - exists k. by right.
Qed.

Lemma piece_within (block tail buf more : bytes) : buf ++ more = block ++ tail -> (length buf <= length block)%nat ->
  exists r, block = buf ++ r /\ more = r ++ tail.
Proof.
  intros E Hl. apply app_eq_inv in E as [(k & -> & ->)|(k & -> & ->)]; [|by exists k].
  rewrite length_app in Hl. assert (k = []) as -> by (destruct k; [done|cbn in Hl; lia]).
  exists []. by rewrite !app_nil_r.
Qed.

Lemma delivered_to_trans c c' l1 l2 dec dec1 dec2 :
  hbrc_hblock c' = hbrc_hblock c -> same_dec dec dec1 ->
  delivered_to c l1 dec dec1 -> delivered_to c' l2 dec1 dec2 -> delivered_to c (l1 ++ l2) dec dec2.
Proof.
  intros Eh Hs (h1 & E1 & F1) (h2 & E2 & F2). exists (h1 ++ h2). rewrite E2, E1, Eh, fmap_app, app_assoc.
  split; [done|]. apply Forall2_app; [done|]. unfold http1x_opt in *. by rewrite (sd_opts _ _ Hs) in F2.
Qed.

(** ** A valid block that does not have to wait *)

(** What is left of the block, the lines in it, and whether it refers to the table. *)
Record left_of dec c (g : line_part) (block : bytes) (lines : list hline) (dyn : bool) : Prop := {
  lf_ctx : ctx_at (entries dec) (qpd_opts dec) g c;
  lf_is : block_is t (got c) g dec c block lines dyn;
  lf_bytes : is_bytes block;
  lf_len : Z.of_nat (length block) = hbrc_size c;
  lf_ok : acceptable c lines;
  lf_wait : no_wait c block dec;
}.

(** Nothing that the application has to do with makes a call fail. *)
Definition no_obstacle c (dec_buf : option bytes) : Prop :=
  app_willing /\ rel = true /\ forall dyn, is_Some (ack_bytes dyn (hbrc_stream_id c) dec_buf).

Lemma ric_value_read M opts k g c r : parse_ok M opts k g c -> ric_read c = true -> ric_value c r = None.
Proof.
  unfold parse_ok, ric_value. intros Hp Hr. destruct (hbrc_parse c) as [[|st| |sign st]|st]; try done;
    cbn [prefix_ok] in Hp; [destruct Hp as [[Hp _] _]|destruct Hp as [[Hp _] _]]; congruence.
Qed.

Lemma no_wait_goes_on dec dec' g c c' buf r : same_dec dec dec' -> ctx_at (entries dec) (qpd_opts dec) g c' ->
  ric_goes_on c buf c' -> is_bytes r -> no_wait c (buf ++ r) dec -> no_wait c' r dec'.
Proof.
  intros Hs Hc Hg Hr Hw v x. rewrite (sd_entries _ _ Hs), (sd_last _ _ Hs). destruct (ric_read c') eqn:E.
  - by rewrite (ric_value_read _ _ _ _ _ r (ca_parse _ _ _ _ Hc) E).
  - rewrite <- (Hg E r Hr). apply Hw.
Qed.

(** A block that waits has a count of insertions to come. *)
Lemma waiting_future dec c' v : dec_ready dec -> waiting (dt_inserted t) (entries dec) c' ->
  0 < v <= dec_max_encoded_RIC (entries dec) -> hbrc_largest_ref c' = ID_MINUS64 (entries dec) v 2 ->
  qdec_in_future (entries dec) (qpd_last_id (qpd_tab dec)) (ID_MINUS64 (entries dec) v 2) = true.
Proof.
  intros Hd (ric & Hric & _ & Hw) Hv <-. destruct (reading_entries max rel t dec (dr_reading _ _ _ _ Hd)) as [HM Hlast].
  assert (0 < entries dec) as HM0.
  { destruct (Z.eq_dec (entries dec) 0) as [E|]; [|lia]. rewrite E in Hv. change (dec_max_encoded_RIC 0) with 0 in Hv. lia. }
  rewrite Hlast by done. rewrite Hw. apply in_future_waiting; [lia|apply Z.mod_pos_bound; lia|]. by exists ric.
Qed.

(** The two ends of a call on the piece [buf]. *)
Definition block_done (p : option Z) c (lines : list hline) (dyn : bool) (dec_buf : option bytes) dec (tail more : bytes)
  (r : header_result) dec' : Prop :=
  hr_status r = LQRHS_DONE /\ hr_rest r ++ more = tail /\ delivered_to c lines dec dec' /\ mem dec' = without p dec
  /\ ack_bytes dyn (hbrc_stream_id c) dec_buf = Some (hr_ack r)
  /\ exists largest, qpd_largest_known_id dec' = known_after (entries dec) dyn largest (qpd_largest_known_id dec) dec_buf.

Definition block_goes_on (p : option Z) c (lines : list hline) (dyn : bool) dec (tail more : bytes) (r : header_result) dec' : Prop :=
  hr_status r = LQRHS_NEED /\ exists c' g' l1 l2 rest, lines = l1 ++ l2 /\ delivered_to c l1 dec dec' /\ more = rest ++ tail
    /\ mem dec' = <[addr p dec := c']> (mem dec) /\ hbrc_hblock c' = hbrc_hblock c /\ hbrc_stream_id c' = hbrc_stream_id c
    /\ qpd_largest_known_id dec' = qpd_largest_known_id dec /\ left_of dec' c' g' rest l2 dyn.

Lemma one_piece p c g buf more block tail lines dyn dec_buf dec r dec' :
  dec_ready dec -> process_post p g c buf dec_buf dec r dec' -> left_of dec c g block lines dyn -> no_obstacle c dec_buf ->
  buf ++ more = block ++ tail ->
  dec_ready dec' /\ same_dec dec dec'
  /\ (block_done p c lines dyn dec_buf dec tail more r dec' \/ block_goes_on p c lines dyn dec tail more r dec').
Proof.
  intros Hd (Hs & Hd' & l1 & Hdl & Hst) [Hc Hb Hbb Hbl Hok Hw] (Hwill & Hrel & Hack) E. split; [done|]. split; [done|].
  pose proof (piece_matches _ _ _ _ c E Hbb Hbl) as Hm.
  assert (0 < hbrc_size c) as Hpos.
  { pose proof (ca_size _ _ _ _ Hc) as Hu. destruct (Z.eq_dec (hbrc_size c) 0) as [Hz|]; [|unfold is_u64 in Hu; lia]. exfalso.
    destruct Hb as (f & Hb & _). unfold block_at in Hb. cbn [fst snd] in Hb. rewrite (ca_more _ _ _ _ Hc Hz) in Hb.
    assert (block = []) as -> by (destruct block; [done|cbn in Hbl; lia]). by apply begin_base_nil in Hb. }
  destruct (hr_status r) eqn:Est.
  - left. destruct Hst as (Hmem & used & dyn' & largest & Eb & Hu & Hbi & _ & Ha & Hk). specialize (Hbi Hpos).
    assert (used = block) as ->.
    { rewrite Eb, <- app_assoc in E. apply app_inj_1 in E as [E _]; [done|lia]. }
    destruct (block_is_fun _ _ _ _ _ _ _ _ _ Hbi Hb) as [-> ->].
    rewrite Eb, <- app_assoc in E. apply app_inv_head in E. split_and!; try done. by exists largest.
  - exfalso. destruct Hst as (_ & _ & _ & used & c' & g' & Eb & _ & Hlt & _ & Hwt & _ & Hc' & (_ & v & Hv & El & Hval) & _).
    pose proof (ca_size _ _ _ _ Hc') as Hu. pose proof (lt_size _ _ _ Hlt). rewrite Eb in Hm.
    destruct (matches_used _ _ _ _ Hm ltac:(unfold is_u64 in Hu; lia)) as [x ->]. apply Forall_app in Hbb as [_ Hbx].
    specialize (Hw v x (Hval x Hbx) ltac:(lia)). rewrite (waiting_future dec c' v) in Hw; done.
  - right. split; [done|]. destruct Hst as (_ & _ & Hk & c' & g' & Hmem & Hlt & _ & Hpos' & Hc' & Hgo & Hpre & Hval).
    pose proof (lt_size _ _ _ Hlt) as Hsz. destruct (piece_within _ _ _ _ E ltac:(lia)) as (x & -> & ->).
    apply Forall_app in Hbb as [_ Hbx]. rewrite length_app in Hbl. apply Hgo in Hb as (l2 & -> & Hb); [|done].
    exists c', g', l1, l2, x. split; [done|]. split; [done|]. split; [done|]. split; [done|]. split; [apply Hlt|]. split; [apply Hlt|]. split; [done|].
    assert (got c' = got c + Z.of_nat (length buf)) as Eg by (unfold got; rewrite Hsz, (lt_orig _ _ _ Hlt); lia).
    constructor; [by rewrite (sd_entries _ _ Hs), (sd_opts _ _ Hs)|by rewrite Eg|done|lia| |by eapply no_wait_goes_on].
    destruct Hok as [Hl Hne]. split; [by apply Forall_app in Hl as [_ ?]|]. intros Hin. destruct (Hpre Hin) as (Hp & -> & _). by apply Hne.
  - exfalso. destruct Hst as (_ & _ & _ & _ & Hno). apply (Hno Hwill block lines dyn); try done. split; [done|]. split; [by right|done].
Qed.

(** ** All of it *)

(** The block of [c] has been read to its end. *)
Record finished (p : option Z) c (lines : list hline) (dyn : bool) (dec_buf : option bytes) dec (tail : bytes)
  (x : header_result * list bytes) dec' : Prop := {
  fi_status : hr_status (fst x) = LQRHS_DONE;
  fi_unread : unread x = tail;
  fi_lines : delivered_to c lines dec dec';
  fi_mem : mem dec' = without p dec;
  fi_ack : ack_bytes dyn (hbrc_stream_id c) dec_buf = Some (hr_ack (fst x));
  fi_known : exists largest, qpd_largest_known_id dec' = known_after (entries dec) dyn largest (qpd_largest_known_id dec) dec_buf;
  fi_ready : dec_ready dec';
  fi_same : same_dec dec dec';
}.

Lemma header_reads_stop hblock chunks dec_buf r dec : hr_status r <> LQRHS_NEED ->
  header_reads hblock chunks dec_buf r dec = Some ((r, chunks), dec).
Proof. intros H. destruct chunks; cbn [header_reads]; by destruct (hr_status r). Qed.

Lemma header_read_at hblock p c g buf dec_buf dec : dec_ready dec -> at_block dec hblock p c -> chunk_ok buf ->
  ctx_at (entries dec) (qpd_opts dec) g c ->
  wp (lsqpack_dec_header_read hblock buf dec_buf) dec (process_post (Some p) g c buf dec_buf dec).
Proof.
  intros Hd Ha Hb Hc. eapply wp_mono; [by apply (wp_header_read max rel t)|]. intros r dec'. unfold header_read_post.
  rewrite (at_block_find _ _ _ _ Hd Ha). intros (c1 & g1 & Hp & _ & _ & H). destruct Ha as [Hp' _].
  rewrite Hp' in Hp. injection Hp as <-. by apply H.
Qed.

(** After one piece, whatever the way it was passed on. *)
Lemma finish_step p q c l1 l2 dyn dec_buf dec dec1 tail x dec2 c1 :
  dec_ready dec -> same_dec dec dec1 -> delivered_to c l1 dec dec1 -> mem dec1 = <[addr p dec := c1]> (mem dec) -> q = addr p dec ->
  hbrc_hblock c1 = hbrc_hblock c -> hbrc_stream_id c1 = hbrc_stream_id c -> placed p c dec ->
  qpd_largest_known_id dec1 = qpd_largest_known_id dec ->
  finished (Some q) c1 l2 dyn dec_buf dec1 tail x dec2 -> finished p c (l1 ++ l2) dyn dec_buf dec tail x dec2.
Proof.
  intros Hd Hs Hdl Hm -> Eh Es Hp Hk [H1 H2 H3 H4 H5 H6 H7 H8]. constructor; try done.
  - by eapply delivered_to_trans.
  - rewrite H4. cbn [without]. rewrite Hm, delete_insert_eq. destruct p as [p|]; [done|]. cbn [addr without].
    apply delete_id. eapply ctxs_new. by apply (reading_ctxs max rel), Hd.
  - by rewrite <- Es.
  - by rewrite <- (sd_entries _ _ Hs), <- Hk.
  - by eapply same_dec_trans.
Qed.

Lemma wp_header_reads chunks r hblock p c g block lines dyn dec_buf tail dec :
  dec_ready dec -> at_block dec hblock p c -> left_of dec c g block lines dyn -> no_obstacle c dec_buf ->
  Forall chunk_ok chunks -> concat chunks = block ++ tail -> hr_status r = LQRHS_NEED ->
  wp (header_reads hblock chunks dec_buf r) dec (finished (Some p) c lines dyn dec_buf dec tail).
Proof.
  revert r c g block lines dec. induction chunks as [|buf chunks IH]; intros r0 c g block lines dec Hd Ha Hl Hno Hc E Hr0.
  { exfalso. destruct block; [|done]. destruct Hl as [Hc' (f & Hb & _) _ Hlen _ _].
    unfold block_at in Hb. cbn [fst snd] in Hb. rewrite (ca_more _ _ _ _ Hc') in Hb by (cbn in Hlen; lia). by apply begin_base_nil in Hb. }
  apply Forall_cons_1 in Hc as [Hb Hc]. cbn [header_reads]. rewrite Hr0. wpstep. eapply wp_mono.
  { apply (header_read_at hblock p c g buf dec_buf dec); try done. apply Hl. }
  intros r dec1 Hpost. cbn [concat] in E.
  destruct (one_piece (Some p) c g buf (concat chunks) block tail lines dyn dec_buf dec r dec1 Hd Hpost Hl Hno E)
    as (Hd1 & Hs & [(Hst & Hr & Hdl & Hm & Hack & Hk)|(Hst & c1 & g1 & l1 & l2 & rest & -> & Hdl & Er & Hm & Eh & Es & Hk & Hl1)]).
  - unfold wp. rewrite header_reads_stop by (by rewrite Hst). by constructor.
  - eapply wp_mono; [|intros x dec2 Hf; by eapply (finish_step (Some p) p c l1 l2 dyn dec_buf dec dec1); [..|apply Ha| |exact Hf]].
    apply (IH r c1 g1 rest l2 dec1); try done.
    + by eapply at_block_keep.
    + destruct Hno as (H1 & H2 & H3). split_and!; try done. by rewrite Es.
Qed.

(** ** From the beginning *)

Lemma new_ctx_left dec hblock stream_id block lines dyn :
  block_is t 0 no_part dec (new_ctx hblock stream_id (Z.of_nat (length block))) block lines dyn ->
  is_bytes block -> (2 <= length block)%nat -> is_u64 (Z.of_nat (length block)) -> Forall line_ok lines -> lines <> [] ->
  no_wait (new_ctx hblock stream_id (Z.of_nat (length block))) block dec ->
  left_of dec (new_ctx hblock stream_id (Z.of_nat (length block))) no_part block lines dyn.
Proof.
  intros Hb Hbb H2 Hu Hl Hne Hw. constructor; try done; [by apply new_ctx_at; [|lia]|].
  unfold got. cbn [new_ctx hbrc_orig_size hbrc_size]. by rewrite Z.sub_diag.
Qed.

(** A block that is valid now, in any pieces. *)
Lemma wp_read_block hblock stream_id chunks block lines dyn dec_buf tail dec :
  let c := new_ctx hblock stream_id (Z.of_nat (length block)) in
  dec_ready dec -> unused dec hblock -> left_of dec c no_part block lines dyn -> no_obstacle c dec_buf ->
  (2 <= length block)%nat -> is_u64 (Z.of_nat (length block)) ->
  Forall chunk_ok chunks -> concat chunks = block ++ tail ->
  wp (read_block hblock stream_id (Z.of_nat (length block)) chunks dec_buf) dec (finished None c lines dyn dec_buf dec tail).
Proof.
  intros c Hd Hu Hl Hno H2 Hu64 Hc E. destruct chunks as [|buf chunks]; [destruct block; cbn in *; [lia|done]|].
  apply Forall_cons_1 in Hc as [Hb Hc]. cbn [read_block]. wpstep.
  eapply wp_mono; [by apply (wp_header_in max rel t)|]. intros r dec1 Hpost. cbn [concat] in E. unfold header_in_post in Hpost.
  destruct (Z.ltb_spec (Z.of_nat (length block)) 2); [lia|].
  destruct (one_piece None c no_part buf (concat chunks) block tail lines dyn dec_buf dec r dec1 Hd Hpost Hl Hno E)
    as (Hd1 & Hs & [(Hst & Hr & Hdl & Hm & Hack & Hk)|(Hst & c1 & g1 & l1 & l2 & rest & -> & Hdl & Er & Hm & Eh & Es & Hk & Hl1)]).
  - unfold wp. rewrite header_reads_stop by (by rewrite Hst). by constructor.
  - eapply wp_mono; [|intros x dec2 Hf; by eapply (finish_step None (addr None dec) c l1 l2 dyn dec_buf dec dec1)].
    eapply (wp_header_reads chunks r hblock _ c1 g1 rest l2); try done.
    + by eapply unused_new.
    + destruct Hno as (H3 & H4 & H5). split_and!; try done. by rewrite Es.
Qed.
End chunks.
