(* ===== verification/DecWaits.v ===== *)
(** * A header block that has to wait

    A block whose Required Insert Count is to come is put aside as soon as the count has
    been read ([wp_count]); the insertion it waits for unblocks it ([told_of]). *)

From stdpp Require Import gmap.
From S2P Require Import Prelude Monad IntCodec HuffTables Huffman HuffStream StrCodec Xxhash.
From S2P Require Import StaticTable Ringbuf Rfc9204 EncTable EncEncode Float DecTable DecState DecStream.
From S2P Require Import DecSpec DecBlocked DecStrings DecReading DecCore DecRounds DecEncIn DecCleanup DecHeader DecParse DecHblock.
From S2P Require Import DecHset DecOut DecCompose DecLine DecData DecLoop DecPrefix DecBlock DecView.
From S2P Require Import DecProcess DecCall DecFrame DecApi DecChunks.

Section waits.
Context {hset : Type} `{!HsetIf hset} `{!HsetOk hset}.

Implicit Types (dec : lsqpack_dec hset) (c : header_block_read_ctx).

Local Abbreviation entries dec := (qpd_max_entries (qpd_tab dec)).
Local Abbreviation mem dec := (cx_mem (qpd_ctxs dec)).

(** ** Reading the count *)

(** The bytes [u], which are not all of the block, hold the rest of the count [v]. *)
Record unread_count (M : Z) c (u : bytes) (v : Z) : Prop := {
  uc_parse : exists p st0 ps, hbrc_parse c = PARSE_PREFIX ps /\ int_start p st0
    /\ (forall b src, prefix_round (hset:=hset) ps b src = read_largest_ref p st0 b src)
    /\ forall buf, ric_value c buf = read_int_at p st0 buf;
  uc_value : forall r, ric_value c (u ++ r) = Some (v, r);
  uc_bytes : is_bytes u;
  uc_unread : ric_read c = false;
  uc_got : 0 <= got c;
  uc_long : got c + Z.of_nat (length u) <= ric_length M;
  uc_more : Z.of_nat (length u) < hbrc_size c;
  uc_size : is_u64 (hbrc_size c);
}.

(** The count is one of an insertion to come. *)
Definition to_come dec (v : Z) : Prop :=
  0 < v <= dec_max_encoded_RIC (entries dec)
  /\ qdec_in_future (entries dec) (qpd_last_id (qpd_tab dec)) (ID_MINUS64 (entries dec) v 2) = true.

Lemma count_goes_on M n : 0 <= n -> n + 1 <= ric_length M -> (u64 n <=? lsqpack_val2len (dec_max_encoded_RIC M) 8) = true.
Proof.
  pose proof (ric_length_small M) as [_ Hrl]. revert Hrl. unfold ric_length.
  generalize (lsqpack_val2len (dec_max_encoded_RIC M) 8). intros m Hrl Hn Hle.
  rewrite u64_id by (unfold is_u64; change (2 ^ 64) with 18446744073709551616; change (2 ^ 32) with 4294967296 in *; lia).
  apply Z.leb_le. lia.
Qed.

(** One byte. *)
Lemma wp_count_byte b u v dec c :
  unread_count (entries dec) c (b :: u) v -> to_come dec v ->
  wp (hbrc_parse_call [b]) (dec, set_hbrc_size (hbrc_size c - 1) c) (fun st s' => fst s' = dec /\
    if bool_decide (u = []) then st = LQRHS_BLOCKED
    else st = LQRHS_NEED /\ exists st', int_pending st'
      /\ snd s' = set_hbrc_parse (PARSE_PREFIX (PREFIX_STATE_READ_LARGEST_REF st')) (set_hbrc_size (hbrc_size c - 1) c)
      /\ forall r, read_int_at 0 st' (u ++ r) = Some (v, r)).
Proof.
  intros [(p & st0 & ps & Hps & Hst & Hround & Hval) Hv Hb Hun Hg Hlong Hmore Hsz] [Hvr Hfut].
  apply Forall_cons_1 in Hb as [Hb Hbu].
  assert (forall r, read_int_at p st0 ((b :: u) ++ r) = Some (v, r)) as Hr by (intros r; by rewrite <- Hval).
  pose proof (dec_int_call b [] p st0 (Forall_cons_2 _ _ _ Hb (Forall_nil_2 _)) Hst) as Hc.
  unfold hbrc_parse_call. hsteps. cbn [set_hbrc_size hbrc_parse]. rewrite Hps.
  unfold parse_header_prefix. cbn [length prefix_loop]. hsteps. cbn [set_hbrc_size hbrc_parse]. rewrite Hps, Hround.
  hstep. unfold read_largest_ref, or_flags, set_prefix. hsteps.
  destruct (lsqpack_dec_int b [] p st0) as [v' rest|st'|].
  - destruct Hc as (_ & (used & E & Hne) & Hc).
    assert (rest = []) as -> by (destruct used as [|x used]; [done|]; injection E as _ E; by symmetry in E; apply app_eq_nil in E as [_ ?]). cbn [app] in Hc.
    assert (v' = v /\ u = []) as [-> ->].
    { specialize (Hr []). rewrite app_nil_r in Hr. specialize (Hc u). cbn [app] in Hc. rewrite Hc in Hr. by injection Hr. }
    rewrite bool_decide_true by done. destruct (Z.eqb_spec v 0); [lia|]. cbn [negb]. rewrite Z.gtb_ltb.
    destruct (Z.ltb_spec (dec_max_encoded_RIC (max_entries_of dec)) v); [unfold max_entries_of in *; lia|]. hsteps.
    unfold max_entries_of. rewrite Hfut. by hsteps.
  - destruct Hc as [Hp Hc]. assert (forall r, read_int_at 0 st' (u ++ r) = Some (v, r)) as Hc' by (intros r; rewrite <- Hc; apply Hr).
    assert (u <> []) as Hu by (intros ->; by specialize (Hc' [])). rewrite bool_decide_false by done. hsteps.
    cbn [set_hbrc_size hbrc_orig_size hbrc_size]. unfold got, max_entries_of in *.
    assert (0 < length u)%nat by (destruct u; [done|cbn; lia]). cbn [length] in Hlong.
    rewrite (count_goes_on (entries dec) (hbrc_orig_size c - (hbrc_size c - 1))) by lia.
    hsteps. split; [done|]. split; [done|]. by exists st'.
  - specialize (Hr []). specialize (Hc u). rewrite app_nil_r in Hr. cbn [app] in Hc. by rewrite Hr in Hc.
Qed.

Lemma unread_next M c b u v st' : unread_count M c (b :: u) v -> u <> [] -> int_pending st' ->
  (forall r, read_int_at 0 st' (u ++ r) = Some (v, r)) ->
  unread_count M (set_hbrc_parse (PARSE_PREFIX (PREFIX_STATE_READ_LARGEST_REF st')) (set_hbrc_size (hbrc_size c - 1) c)) u v.
Proof.
  intros [_ _ Hb Hun Hg Hlong Hmore Hsz] Hu Hp Hv. cbn [length] in *. unfold got in *. apply Forall_cons_1 in Hb as [_ Hb].
  constructor; cbn [set_hbrc_parse set_hbrc_size hbrc_size hbrc_orig_size]; unfold got, is_u64 in *;
    cbn [set_hbrc_parse set_hbrc_size hbrc_size hbrc_orig_size]; try done; try lia.
  exists 0, st', (PREFIX_STATE_READ_LARGEST_REF st'). split; [done|]. split; [by apply int_pending_start|]. by split.
Qed.

(** [buf] ends before the count, or goes on behind it. *)
Definition count_ends (u buf : bytes) : Prop := (exists rest, buf = u ++ rest) \/ (exists u', u = buf ++ u' /\ u' <> []).

(** The context while the count is being read. *)
Definition same_but_parse c c' : Prop :=
  hbrc_hblock c' = hbrc_hblock c /\ hbrc_flags c' = hbrc_flags c /\ hbrc_largest_ref c' = hbrc_largest_ref c.

Lemma wp_count fuel buf u v dec c :
  unread_count (entries dec) c u v -> u <> [] -> to_come dec v -> (length buf <= fuel)%nat -> count_ends u buf ->
  wp (read_header_loop fuel buf) (dec, c) (fun r s' => fst s' = dec /\
    ((exists rest, buf = u ++ rest /\ fst r = LQRHS_BLOCKED)
     \/ exists u', u = buf ++ u' /\ u' <> [] /\ fst r = LQRHS_NEED /\ unread_count (entries dec) (snd s') u' v /\ same_but_parse c (snd s'))).
Proof.
  revert buf u c. induction fuel as [|fuel IH]; intros buf u c Huc Hu Htc Hf He; cbn [read_header_loop]; hsteps;
    pose proof (uc_more _ _ _ _ Huc) as Hmore; rewrite Z.gtb_ltb; (destruct (Z.ltb_spec 0 (hbrc_size c)); [|lia]);
    unfold max_to_read; pose proof (uc_unread _ _ _ _ Huc) as Hun; unfold ric_read in Hun; rewrite Hun;
    (destruct buf as [|b buf]; [cbn; hsteps; split; [done|]; right; exists u; by split_and!|]); [cbn in Hf; lia|].
  replace (Z.to_nat (Z.min 1 (Z.of_nat (length (b :: buf))))) with 1%nat by (cbn [length]; lia). cbn [take drop].
  assert (exists u1, u = b :: u1 /\ count_ends u1 buf) as (u1 & -> & He1).
  { destruct He as [(rest & E)|(u' & -> & Hne)].
    - destruct u as [|b' u1]; [done|]. injection E as -> ->. exists u1. split; [done|]. left. by exists rest.
    - exists (buf ++ u'). split; [done|]. right. by exists u'. }
  hstep. hstep. cbn [fst snd]. change (Z.of_nat 1) with 1.
  rewrite u64_id by (pose proof (uc_size _ _ _ _ Huc); unfold is_u64 in *; lia). hstep.
  eapply wp_mono; [by apply (wp_count_byte b u1 v)|]. intros st [dec1 c1] (E & Hst). cbn [fst] in E. subst dec1.
  destruct (bool_decide_reflect (u1 = [])) as [->|Hu1].
  - subst st. hsteps. split; [done|]. left. by exists buf.
  - destruct Hst as (-> & st' & Hp & E & Hv). cbn [snd] in E. hsteps. pose proof (unread_next _ _ _ _ _ _ Huc Hu1 Hp Hv) as Huc1.
    rewrite <- E in Huc1. pose proof (uc_more _ _ _ _ Huc1). destruct (Z.eqb_spec (hbrc_size c1) 0); [lia|].
    eapply wp_mono; [apply (IH buf u1 c1); try done; cbn in Hf; lia|]. intros r s' (Es & [(rest & -> & Hr)|(u' & -> & Hne & Hr & Huc' & Hs)]);
      (split; [done|]); [left; by exists rest|right]. exists u'. split; [done|]. split; [done|]. split; [done|]. split; [done|]. by subst c1.
Qed.

(** ** The call *)

Section call.
Variables (max : Z) (rel : bool) (t : dyn_table).

Local Abbreviation dec_ready := (dec_ready max rel t).

(** There is room for another blocked stream. *)
Definition may_block dec : Prop := qpd_n_blocked (qpd_ctxs dec) < qpd_max_risked_streams dec.

(** What a call does with a piece of a block whose count is to come. *)
Definition count_post (p : option Z) c (buf u : bytes) (v : Z) dec (r : header_result) dec' : Prop :=
  (exists rest, buf = u ++ rest /\ hr_status r = LQRHS_BLOCKED)
  \/ exists u' c1, u = buf ++ u' /\ u' <> [] /\ hr_status r = LQRHS_NEED /\ unread_count (entries dec) c1 u' v
       /\ same_but_parse c c1 /\ mem dec' = <[addr p dec := listed p c1]> (mem dec)
       /\ qpd_n_blocked (qpd_ctxs dec') = qpd_n_blocked (qpd_ctxs dec).

Lemma wp_keeps_count p c c1 dec : reading max rel dec t -> placed p c dec -> rel = true -> replaces c1 c ->
  wp (keep_ctx p c1) dec (fun o dec' => o = Some (addr p dec) /\ only_ctxs max rel t dec dec'
    /\ qpd_n_blocked (qpd_ctxs dec') = qpd_n_blocked (qpd_ctxs dec) /\ mem dec' = <[addr p dec := listed p c1]> (mem dec)).
Proof.
  intros Hr Hp Hrel Hc. eapply wp_mono; [by apply (wp_keep_ctx max rel t p c c1 dec)|].
  intros [q|] dec' (Ho & Hn & Hq); [|destruct Hq as (_ & E & _); congruence]. by destruct Hq as [-> ?].
Qed.

Lemma wp_process_count p g c buf u v dec_buf dec :
  dec_ready dec -> ctx_at (entries dec) (qpd_opts dec) g c -> placed p c dec -> rel = true -> may_block dec -> chunk_ok buf ->
  unread_count (entries dec) c u v -> u <> [] -> to_come dec v -> count_ends u buf ->
  wp (qdec_header_process p c buf dec_buf) dec (count_post p c buf u v dec).
Proof.
  intros Hd Hc Hp Hrel Hmay Hb Huc Hu Htc He.
  destruct (read_header_run max rel t g c buf dec Hb (dr_reading _ _ _ _ Hd) Hc) as (st & rest & dec1 & c1 & E & Hrun).
  pose proof (wp_count (length buf) buf u v dec c Huc Hu Htc (le_n _) He) as Hcount. unfold wp in Hcount.
  fold (qdec_read_header (hset:=hset) buf) in Hcount. rewrite E in Hcount. cbn [fst snd] in Hcount. destruct Hcount as [-> Hst].
  pose proof (dr_reading _ _ _ _ Hd) as Hr.
  assert (is_blocked c = false) as Hnb.
  { apply not_true_is_false. intros Hx. apply (ca_blocked _ _ _ _ Hc) in Hx. pose proof (uc_unread _ _ _ _ Huc). congruence. }
  unfold qdec_header_process. wpsteps. eapply wp_demand; [by rewrite E|]. cbn beta iota. wpsteps.
  destruct Hst as [(rest' & -> & ->)|(u' & -> & Hne & -> & Huc1 & Hs)].
  - destruct Hrun as [[_ (used & lines & Eb & Hcs & Hsz & Hdl & -> & _ & Hrr & g' & Hbr & _ & _ & _ & Hfut & v' & Hv & El & _)]|(_ & ? & _)]; [|done].
    cbn [fst snd] in *. pose proof (consumed_ran max rel t g c dec used [] dec c1 Hc Hcs Hdl) as Hrn.
    wpstep. eapply wp_mono; [apply (wp_keeps_count p c c1 dec Hr Hp Hrel), Hrn|]. intros o dec2 (-> & Ho & Hnbl & Hm).
    destruct (listed_sim p c1) as (Hsim & Hlb & _ & _).
    assert (waiting (dt_inserted t) (entries dec) c1) as Hw by (apply (future_waiting max rel t); [done|done|by exists v']).
    wpstep. eapply wp_mono.
    { apply (wp_stash max rel t (addr p dec) (listed p c1) dec2); [apply Ho|rewrite Hm; by rewrite lookup_insert_eq| | |].
      - rewrite Hlb, (proj1 (rn_replaces _ _ _ _ _ _ _ _ _ Hrn)). done.
      - rewrite (sd_entries _ _ (oc_same _ _ _ _ _ Ho)). unfold waiting, waits_for in *. by rewrite (cs_largest _ _ Hsim).
      - rewrite (sd_risked _ _ (oc_same _ _ _ _ _ Ho)). apply Hd. }
    intros [] dec3 [Ho3 Hm3]; cbv iota.
    + wpsteps. left. by exists rest'.
    + exfalso. destruct Hm3 as [_ Hfull]. rewrite (sd_risked _ _ (oc_same _ _ _ _ _ Ho)), Hnbl in Hfull. unfold may_block in Hmay. lia.
  - assert (replaces c1 c) as Hrep.
    { destruct Hs as (_ & Hf & Hl). split; [unfold is_blocked; by rewrite Hf|done]. }
    wpstep. eapply wp_mono; [by apply (wp_keeps_count p c c1 dec Hr Hp Hrel)|]. intros o dec2 (-> & Ho & Hnbl & Hm). wpsteps.
    right. exists u', c1. split_and!; try done; apply Hs.
Qed.

(** ** The block *)

(** What is left of a block, [block], begins with its count; the lines are those of a
    later table [t2]. *)
Record to_wait (t2 : dyn_table) dec c (g : line_part) (u block : bytes) (v : Z) (lines : list hline) (dyn : bool) : Prop := {
  tw_ctx : ctx_at (entries dec) (qpd_opts dec) g c;
  tw_count : unread_count (entries dec) c u v;
  tw_some : u <> [];
  tw_rest : exists r, block = u ++ r;
  tw_come : to_come dec v;
  tw_is : block_is t2 (got c) g dec c block lines dyn;
  tw_bytes : is_bytes block;
  tw_len : Z.of_nat (length block) = hbrc_size c;
  tw_may : may_block dec;
}.

(** The block has been put aside: [rest] of it has not been read. *)
Record put_aside (t2 : dyn_table) (p : option Z) c (v : Z) (lines : list hline) (dyn : bool) dec (tail : bytes)
  (x : header_result * list bytes) dec' : Prop := {
  pa_status : hr_status (fst x) = LQRHS_BLOCKED;
  pa_lines : app_headers (qpd_app dec') = app_headers (qpd_app dec);
  pa_known : qpd_largest_known_id dec' = qpd_largest_known_id dec;
  pa_ready : dec_ready dec';
  pa_same : same_dec dec dec';
  pa_pieces : Forall chunk_ok (hr_rest (fst x) :: snd x);
  pa_ctx : exists c' g' rest, mem dec' = <[addr p dec := c']> (mem dec) /\ unread x = rest ++ tail
    /\ hbrc_hblock c' = hbrc_hblock c /\ hbrc_stream_id c' = hbrc_stream_id c
    /\ is_blocked c' = true /\ waiting (dt_inserted t) (entries dec) c' /\ hbrc_largest_ref c' = ID_MINUS64 (entries dec) v 2
    /\ hbrc_parse c' = PARSE_PREFIX PREFIX_STATE_BEGIN_READING_BASE_IDX
    /\ ctx_at (entries dec) (qpd_opts dec) g' c' /\ block_is t2 (got c') g' dec' c' rest lines dyn
    /\ is_bytes rest /\ Z.of_nat (length rest) = hbrc_size c';
}.

(** ... or more of its count is to come. *)
Definition count_goes_on_post (t2 : dyn_table) (p : option Z) c (v : Z) (lines : list hline) (dyn : bool) dec (tail more : bytes)
  (r : header_result) dec' : Prop :=
  hr_status r = LQRHS_NEED /\ app_headers (qpd_app dec') = app_headers (qpd_app dec)
  /\ qpd_largest_known_id dec' = qpd_largest_known_id dec /\ exists c' g' u' rest, more = rest ++ tail
    /\ mem dec' = <[addr p dec := c']> (mem dec) /\ hbrc_hblock c' = hbrc_hblock c /\ hbrc_stream_id c' = hbrc_stream_id c
    /\ to_wait t2 dec' c' g' u' rest v lines dyn.

Lemma delivered_none c dec dec' : delivered_to c [] dec dec' -> app_headers (qpd_app dec') = app_headers (qpd_app dec).
Proof. intros (hs & E & F). apply Forall2_nil_inv_l in F as ->. by rewrite E, app_nil_r. Qed.

Lemma later_got n c c' : later n c c' -> got c' = got c + Z.of_nat n.
Proof. intros [_ _ H1 H2]. unfold got. rewrite H1, H2. lia. Qed.

Lemma unread_listed M p c u v : unread_count M c u v -> unread_count M (listed p c) u v.
Proof.
  destruct p as [p|]; [done|]. intros [H1 H2 H3 H4 H5 H6 H7 H8]. constructor; try done. cbn [listed].
  unfold ric_read in *. cbn. by rewrite has_bits_set.
Qed.

Lemma one_wait t2 p c g buf more u block v tail lines dyn dec_buf dec r dec' :
  dec_ready dec -> chunk_ok buf -> process_post max rel t p g c buf dec_buf dec r dec' -> count_post p c buf u v dec r dec' ->
  to_wait t2 dec c g u block v lines dyn -> buf ++ more = block ++ tail ->
  dec_ready dec' /\ same_dec dec dec'
  /\ ((forall chunks, Forall chunk_ok chunks -> concat chunks = more -> put_aside t2 p c v lines dyn dec tail (r, chunks) dec')
      \/ count_goes_on_post t2 p c v lines dyn dec tail more r dec').
Proof.
  intros Hd Hck (Hs & Hd' & l1 & Hdl & Hst) Hcp [Hc Huc Hu [rb Eb] Htc Hbi Hbb Hbl Hmay] E. split; [done|]. split; [done|].
  destruct Hcp as [(rest0 & _ & Hr)|(u' & c1 & Eu & Hne & Hr & Huc1 & _ & Hm1 & Hnb)]; rewrite Hr in Hst.
  - left. intros chunks Hcks Ech. destruct Hst as (-> & _ & Hk & used & c' & g' & Ebuf & Hm & Hlt & Hblk & Hw & Hps & Hc' & (Hset & v' & Hv' & El & Hval) & Hgo).
    pose proof (ca_size _ _ _ _ Hc') as Hsz'. pose proof (lt_size _ _ _ Hlt) as Hsz. pose proof (piece_matches _ _ _ _ c E Hbb Hbl) as Hmt.
    rewrite Ebuf in Hmt. destruct (matches_used _ _ _ _ Hmt ltac:(unfold is_u64 in Hsz'; lia)) as [x Ex].
    assert (is_bytes x) as Hbx by (rewrite Ex in Hbb; by apply Forall_app in Hbb as [_ ?]).
    pose proof (Hval x Hbx) as Hv1. rewrite <- Ex, Eb, (uc_value _ _ _ _ Huc) in Hv1. injection Hv1 as -> ->.
    assert (used = u) as -> by (rewrite Eb in Ex; by apply app_inv_tail in Ex).
    constructor; try done; [by eapply delivered_none| |].
    { constructor; [|done]. destruct Hck as [Hck1 Hck2]. rewrite Ebuf in Hck1, Hck2. apply Forall_app in Hck1 as [_ ?].
      rewrite length_app in Hck2. cbn [fst]. split; [done|lia]. }
    exists c', g', x. split; [done|]. split.
    { unfold unread. cbn [fst snd]. rewrite Ech. rewrite Ebuf, Eb, <- !app_assoc in E. by apply app_inv_head in E. }
    split; [apply Hlt|]. split; [apply Hlt|]. split; [done|]. split; [done|]. split; [done|]. split; [done|]. split; [done|].
    rewrite (later_got _ _ _ Hlt). rewrite Eb in Hbi. apply (Hgo t2) in Hbi as (l2 & -> & Hbi); [|done]. split; [done|]. split; [done|].
    rewrite Eb, length_app in Hbl. lia.
  - right. split; [done|]. destruct Hst as (_ & _ & Hk & c' & g' & Hm & Hlt & _ & _ & Hc' & _ & Hpre & _).
    assert (c' = listed p c1) as ->.
    { rewrite Hm in Hm1. apply (f_equal (lookup (addr p dec))) in Hm1. rewrite !lookup_insert_eq in Hm1. by injection Hm1. }
    pose proof (unread_listed _ p _ _ _ Huc1) as Huc'. destruct (uc_parse _ _ _ _ Huc') as (pp & st0 & ps & Hps & _).
    destruct Hpre as (_ & -> & Hgo); [by exists ps|]. split; [by eapply delivered_none|]. split; [done|].
    rewrite Eu, <- app_assoc in Eb. subst block. rewrite <- app_assoc in E. apply app_inv_head in E.
    apply Forall_app in Hbb as [_ Hbx]. pose proof (lt_size _ _ _ Hlt) as Hsz. rewrite length_app in Hbl.
    exists (listed p c1), g', u', (u' ++ rb). split; [done|]. split; [done|]. split; [apply Hlt|]. split; [apply Hlt|].
    constructor; try done.
    + by rewrite (sd_entries _ _ Hs), (sd_opts _ _ Hs).
    + by rewrite (sd_entries _ _ Hs).
    + by exists rb.
    + unfold to_come. by rewrite (sd_entries _ _ Hs), (sd_last _ _ Hs).
    + rewrite (later_got _ _ _ Hlt). apply (Hgo t2) in Hbi as (l2 & -> & Hbi); [|done]. done.
    + lia.
    + unfold may_block in *. by rewrite Hnb, (sd_risked _ _ Hs).
Qed.

(** ** In any pieces *)

Lemma count_piece (u rb buf more tail : bytes) : buf ++ more = (u ++ rb) ++ tail -> count_ends u buf.
Proof.
  rewrite <- app_assoc. intros [(k & -> & _)|(k & -> & _)]%app_eq_inv; [left; by exists k|].
  destruct k as [|b k]; [left; exists []; by rewrite !app_nil_r|right]. by exists (b :: k).
Qed.

(** After a piece that ends before the count. *)
Lemma put_aside_step t2 p q c c1 v lines dyn dec dec1 tail x dec2 :
  dec_ready dec -> same_dec dec dec1 -> app_headers (qpd_app dec1) = app_headers (qpd_app dec) ->
  qpd_largest_known_id dec1 = qpd_largest_known_id dec -> mem dec1 = <[addr p dec := c1]> (mem dec) -> q = addr p dec ->
  hbrc_hblock c1 = hbrc_hblock c -> hbrc_stream_id c1 = hbrc_stream_id c ->
  put_aside t2 (Some q) c1 v lines dyn dec1 tail x dec2 -> put_aside t2 p c v lines dyn dec tail x dec2.
Proof.
  intros Hd Hs Ha Hk Hm -> Eh Es [H1 H2 H3 H4 H5 Hck (c' & g' & rest & K1 & K2 & K3 & K4 & K5 & K6 & K7 & K8 & K9 & K10)].
  constructor; try congruence; [by eapply same_dec_trans|]. exists c', g', rest. rewrite (sd_entries _ _ Hs), ?(sd_opts _ _ Hs) in *.
  split; [|by rewrite <- Eh, <- Es]. rewrite K1. cbn [addr]. by rewrite Hm, insert_insert_eq.
Qed.

Lemma unwaited t2 dec c g u v lines dyn : to_wait t2 dec c g u [] v lines dyn -> False.
Proof. intros [_ _ Hu [r E] _ _ _ _ _]. symmetry in E. apply app_eq_nil in E as [? _]. done. Qed.

Lemma wp_reads_wait t2 chunks r0 hblock p c g u block v lines dyn dec_buf tail dec :
  dec_ready dec -> at_block dec hblock p c -> to_wait t2 dec c g u block v lines dyn -> rel = true ->
  Forall chunk_ok chunks -> concat chunks = block ++ tail -> hr_status r0 = LQRHS_NEED ->
  wp (header_reads hblock chunks dec_buf r0) dec (put_aside t2 (Some p) c v lines dyn dec tail).
Proof.
  intros Hd Ha Htw Hrel Hc E Hr0. revert r0 c g u block dec Hd Ha Htw E Hr0.
  induction Hc as [|buf chunks Hb Hc IH]; intros r0 c g u block dec Hd Ha Htw E Hr0.
  { symmetry in E. apply app_eq_nil in E as [-> _]. exfalso. by eapply (unwaited t2 dec c g u v lines dyn). }
  cbn [header_reads]. rewrite Hr0. wpstep. cbn [concat] in E.
  pose proof (tw_rest _ _ _ _ _ _ _ _ _ Htw) as [rb Eb].
  eapply wp_mono.
  { apply wp_both; [apply (header_read_at max rel t hblock p c g buf dec_buf dec); try done; apply Htw|].
    unfold lsqpack_dec_header_read. wpsteps. rewrite (at_block_find max rel t _ _ _ _ Hd Ha). wpstep. eapply wp_demand; [apply Ha|].
    apply (wp_process_count (Some p) g c buf u v dec_buf dec); try done; try apply Htw; [apply Ha|].
    rewrite Eb in E. by eapply count_piece. }
  intros r dec1 [Hpost Hcp].
  destruct (one_wait t2 (Some p) c g buf (concat chunks) u block v tail lines dyn dec_buf dec r dec1 Hd Hb Hpost Hcp Htw E)
    as (Hd1 & Hs & [Hpa|(Hst & Hap & Hk & c1 & g1 & u1 & rest & Er & Hm & Eh & Es & Htw1)]).
  - pose proof (Hpa chunks Hc eq_refl) as Hx. unfold wp. rewrite header_reads_stop; [done|]. pose proof (pa_status _ _ _ _ _ _ _ _ _ _ Hx) as Hst. cbn in Hst. congruence.
  - eapply wp_mono; [|intros x dec2 Hf; by eapply (put_aside_step t2 (Some p) p c c1 v lines dyn dec dec1)].
    eapply (IH r c1 g1 u1 rest dec1); try done. by eapply at_block_keep.
Qed.

Lemma wp_read_block_wait t2 hblock stream_id chunks block u v lines dyn dec_buf tail dec :
  let c := new_ctx hblock stream_id (Z.of_nat (length block)) in
  dec_ready dec -> unused dec hblock -> to_wait t2 dec c no_part u block v lines dyn -> rel = true ->
  (2 <= length block)%nat -> is_u64 (Z.of_nat (length block)) -> Forall chunk_ok chunks -> concat chunks = block ++ tail ->
  wp (read_block hblock stream_id (Z.of_nat (length block)) chunks dec_buf) dec (put_aside t2 None c v lines dyn dec tail).
Proof.
  intros c Hd Hu Htw Hrel H2 Hu64 Hc E. destruct chunks as [|buf chunks]; [destruct block; cbn in *; [lia|done]|].
  apply Forall_cons_1 in Hc as [Hb Hc]. cbn [read_block]. wpstep. cbn [concat] in E.
  pose proof (tw_rest _ _ _ _ _ _ _ _ _ Htw) as [rb Eb].
  eapply wp_mono.
  { apply wp_both; [by apply (wp_header_in max rel t)|]. unfold lsqpack_dec_header_in.
    destruct (Z.ltb_spec (Z.of_nat (length block)) 2); [lia|].
    apply (wp_process_count None no_part c buf u v dec_buf dec); try done; try apply Htw.
    rewrite Eb in E. by eapply count_piece. }
  intros r dec1 [Hpost Hcp]. unfold header_in_post in Hpost. destruct (Z.ltb_spec (Z.of_nat (length block)) 2); [lia|].
  destruct (one_wait t2 None c no_part buf (concat chunks) u block v tail lines dyn dec_buf dec r dec1 Hd Hb Hpost Hcp Htw E)
    as (Hd1 & Hs & [Hpa|(Hst & Hap & Hk & c1 & g1 & u1 & rest & Er & Hm & Eh & Es & Htw1)]).
  - pose proof (Hpa chunks Hc eq_refl) as Hx. unfold wp. rewrite header_reads_stop; [done|]. pose proof (pa_status _ _ _ _ _ _ _ _ _ _ Hx) as Hst. cbn in Hst. congruence.
  - eapply wp_mono; [|intros x dec2 Hf; by eapply (put_aside_step t2 None (addr None dec) c c1 v lines dyn dec dec1)].
    eapply (wp_reads_wait t2 chunks r hblock _ c1 g1 u1 rest); try done. by eapply unused_new.
Qed.
End call.
End waits.
