(* ===== verification/DecHeaders.v ===== *)
(** * Header blocks, from the bytes to the application

    A header block of RFC 9204, in any pieces, is handed to the application field by
    field, acknowledged and forgotten ([wp_block_delivered]); one that comes too early is
    put aside and goes on, when the insertions it waits for have come and the
    application has been told ([wp_block_waits], [wp_resumed]). *)

From stdpp Require Import gmap.
From S2P Require Import Prelude Monad IntCodec HuffTables Huffman HuffStream StrCodec Xxhash.
From S2P Require Import StaticTable Ringbuf Rfc9204 EncTable EncEncode Float DecTable DecState DecStream.
From S2P Require Import DecSpec DecBlocked DecStrings DecReading DecCore DecRounds DecEncIn DecCleanup DecTrace DecHeader.
From S2P Require Import DecParse DecHblock DecHset DecOut DecCompose DecLine DecData DecLoop DecPrefix DecBlock.
From S2P Require Import DecView DecProcess DecCall DecFrame DecApi DecRfc DecChunks DecWaits.

Section headers.
Context {hset : Type} `{!HsetIf hset} `{!HsetOk hset}.
Variables (max : Z).

Implicit Types (dec : lsqpack_dec hset) (c : header_block_read_ctx) (t : dyn_table).

Local Abbreviation entries dec := (qpd_max_entries (qpd_tab dec)).
Local Abbreviation mem dec := (cx_mem (qpd_ctxs dec)).
Local Abbreviation M := (max / 32).
Local Abbreviation live := (live max true).
Local Abbreviation dec_ready dec t := (dec_ready max true t dec).

(** ** What the application and the buffers have to do with it *)

(** The application takes the fields [l], and there is room for an acknowledgement. *)
Record takes (stream_id : Z) (dec_buf : option bytes) (l : list (representation * hfield)) : Prop := {
  tk_willing : app_willing;
  tk_lines : Forall line_ok (line_of <$> l);
  tk_some : l <> [];
  tk_ack : forall dyn, is_Some (ack_bytes dyn stream_id dec_buf);
}.

(** The application has got the fields [l] of the block [hblock]. *)
Definition got_fields (hblock : Z) (l : list (representation * hfield)) dec dec' : Prop :=
  exists hs, app_headers (qpd_app dec') = app_headers (qpd_app dec) ++ ((fun h => (hblock, h)) <$> hs)
    /\ Forall2 (shows (http1x_opt dec)) (line_of <$> l) hs.

(** ** The bytes of a block *)

(** A block has a count [v] in the bytes [u], and more than that. *)
Lemma block_count total t block ric base l : header_block M total t block ric base l -> is_bytes block ->
  exists v u r, block = u ++ r /\ u <> [] /\ r <> [] /\ is_u64 v /\ decode_insert_count M total v = Some ric
    /\ forall tail, read_int_at 8 dec_int_fresh (u ++ tail) = Some (v, tail).
Proof.
  intros (rest & Hp & _) Hb. destruct (read_prefix_inv _ _ _ _ _ _ Hp) as (v & b1 & src & d & E1 & E2 & _).
  destruct (read_int_nonneg 8 _ _ _ Hb ltac:(lia) E1) as [Hv _].
  destruct (read_int_local 8 ltac:(lia) _ _ _ Hb E1) as (u & Eu & Hu). exists v, u, (b1 :: src). split; [done|].
  split; [intros ->; specialize (Hu []); by cbn in Hu|]. split; [done|]. split; [done|]. split; [done|]. intros tail. rewrite <- read_int_fresh. apply Hu.
Qed.

Lemma block_length total t block ric base l : header_block M total t block ric base l -> is_bytes block -> (2 <= length block)%nat.
Proof.
  intros Hbl Hb. destruct (block_count _ _ _ _ _ _ Hbl Hb) as (v & u & r & -> & Hu & Hr & _).
  destruct u, r; try done. rewrite length_app. cbn. lia.
Qed.

(** The largest reference of a count. *)
Lemma count_index total v ric : 0 <= M <= 2 ^ 22 -> 0 <= total -> is_u64 v -> decode_insert_count M total v = Some ric -> v <> 0 ->
  0 < M /\ 0 < v <= 2 * M /\ ID_MINUS64 M v 2 = (ric - 1) mod (2 * M) /\ total - M < ric <= total + M.
Proof.
  intros HM Ht [Hv _] Hd Hv0. destruct (decode_insert_count_inv M total v ric ltac:(lia) Ht Hv Hd) as [[? _]|(H1 & H2 & H3 & H4 & H5)]; [done|].
  split; [done|]. split; [done|]. split; [|done]. apply largest_index; lia || done.
Qed.

Lemma future_index dec t ric : dec_ready dec t -> 0 < entries dec ->
  qdec_in_future (entries dec) (qpd_last_id (qpd_tab dec)) ((ric - 1) mod (2 * entries dec)) = true
  <-> exists q, dt_inserted t < ric + q * (2 * entries dec) <= dt_inserted t + entries dec.
Proof.
  intros Hd HM. destruct (reading_entries max true t dec (dr_reading _ _ _ _ Hd)) as [HM' Hlast]. rewrite Hlast by done.
  rewrite in_future_waiting by (lia || apply Z.mod_pos_bound; lia). split.
  - intros (ric' & Hr & E). exists ((ric' - ric) / (2 * entries dec)).
    assert ((ric' - ric) mod (2 * entries dec) = 0) as Hz.
    { replace (ric' - ric) with (ric' - 1 - (ric - 1)) by lia. rewrite Zminus_mod, E, Z.sub_diag. apply Zmod_0_l. }
    pose proof (Z.div_mod (ric' - ric) (2 * entries dec) ltac:(lia)). lia.
  - intros [q Hq]. exists (ric + q * (2 * entries dec)). split; [done|].
    replace (ric + q * (2 * entries dec) - 1) with (ric - 1 + q * (2 * entries dec)) by lia. by rewrite Z_mod_plus_full.
Qed.

Lemma ready_entries dec t : dec_ready dec t -> entries dec = M.
Proof. intros Hd. exact (reading_max_entries max true t dec (dr_reading _ _ _ _ Hd)). Qed.

(** An insertion within reach of the table is not one to come. *)
Lemma not_to_come dec t ric : dec_ready dec t -> 0 < M -> dt_inserted t - M < ric <= dt_inserted t ->
  qdec_in_future (entries dec) (qpd_last_id (qpd_tab dec)) ((ric - 1) mod (2 * entries dec)) = false.
Proof.
  intros Hd HM Hr. pose proof (ready_entries dec t Hd) as EM. apply not_true_is_false. intros [q Hq]%(future_index dec t ric Hd ltac:(lia)).
  rewrite EM in Hq. assert (q = 0 \/ q <= -1 \/ 1 <= q) as [->|[?|?]] by lia; [lia|nia|nia].
Qed.

(** ** A block that is valid now *)

Lemma new_ctx_is hblock stream_id n : hbrc_parse (new_ctx hblock stream_id n) = PARSE_PREFIX PREFIX_STATE_BEGIN_READING_LARGEST_REF
  /\ flags_sim 0 (hbrc_flags (new_ctx hblock stream_id n)).
Proof. split; [done|]. by constructor. Qed.

Lemma ready_inserted dec t : dec_ready dec t -> 0 <= dt_inserted t.
Proof.
  intros Hd. destruct (reading_core max true t dec (dr_reading _ _ _ _ Hd)) as (l & held & own & Hrep & _).
  pose proof (tc_inserted _ _ _ _ _ (tr_core _ _ _ _ _ Hrep)). lia.
Qed.

Lemma block_left hblock stream_id dec t block ric base l :
  dec_ready dec t -> header_block M (dt_inserted t) t block ric base l -> block_fits M t block ric base ->
  Forall line_ok (line_of <$> l) -> l <> [] -> is_u64 (Z.of_nat (length block)) ->
  left_of t dec (new_ctx hblock stream_id (Z.of_nat (length block))) no_part block (line_of <$> l) (0 <? ric).
Proof.
  intros Hd Hbl Hf Hl Hne Hu. pose proof Hf as [[HM Htf Hn Hb] Hsh]. pose proof (ready_entries dec t Hd) as EM.
  destruct (new_ctx_is hblock stream_id (Z.of_nat (length block))) as [Hps Hfl]. pose proof (ready_inserted dec t Hd) as Hin.
  apply new_ctx_left; try done.
  - by apply (header_block_is t M (dt_inserted t) 0 no_part dec _ block ric base l).
  - by eapply block_length.
  - by destruct l.
  - intros v x Hv Hv0. destruct (block_count _ _ _ _ _ _ Hbl Hb) as (v' & u & r & -> & _ & _ & Hvu & Hdec & Hval).
    unfold ric_value in Hv. rewrite Hps, Hval in Hv. injection Hv as -> ->.
    destruct (count_index (dt_inserted t) v ric HM Hin Hvu Hdec Hv0) as (HM0 & Hv & Eid & Hr). rewrite EM, Eid, <- EM.
    apply (not_to_come dec t); [done|done|]. destruct Hbl as (rest & _ & Hs & Hreq).
    apply (required_in_table M t base rest ric l Htf Hs Hreq).
    destruct (decode_insert_count_inv M (dt_inserted t) v ric ltac:(lia) Hin (proj1 Hvu) Hdec) as [[? _]|(_ & _ & ? & _)]; done.
Qed.

Lemma takes_no_obstacle hblock stream_id n dec_buf l : takes stream_id dec_buf l ->
  no_obstacle true (new_ctx hblock stream_id n) dec_buf.
Proof. intros []. by split_and!. Qed.

(** What an application has of a block that was read to its end. *)
Record delivered_block (hblock stream_id ric : Z) (l : list (representation * hfield)) (dec_buf : option bytes) dec (tail : bytes)
  (x : header_result * list bytes) t dec' : Prop := {
  db_status : hr_status (fst x) = LQRHS_DONE;
  db_unread : unread x = tail;
  db_fields : got_fields hblock l dec dec';
  db_ack : ack_bytes (0 <? ric) stream_id dec_buf = Some (hr_ack (fst x));
  db_gone : unused dec' hblock;
  db_ready : dec_ready dec' t;
  db_same : same_dec dec dec';
}.

Lemma wp_block_delivered hblock stream_id chunks block tail ric base l dec_buf t dec :
  dec_ready dec t -> unused dec hblock -> header_block M (dt_inserted t) t block ric base l -> block_fits M t block ric base ->
  takes stream_id dec_buf l -> is_u64 (Z.of_nat (length block)) -> Forall chunk_ok chunks -> concat chunks = block ++ tail ->
  wp (read_block hblock stream_id (Z.of_nat (length block)) chunks dec_buf) dec
    (fun x dec' => delivered_block hblock stream_id ric l dec_buf dec tail x t dec').
Proof.
  intros Hd Hun Hbl Hf Htk Hu Hc E. eapply wp_mono.
  { apply (wp_read_block max true t hblock stream_id chunks block (line_of <$> l) (0 <? ric) dec_buf tail dec); try done.
    - by apply (block_left hblock stream_id dec t block ric base l); [..|apply Htk|apply Htk|].
    - by eapply takes_no_obstacle.
    - eapply block_length; [done|]. apply Hf. }
  intros x dec' [H1 H2 H3 H4 H5 H6 H7 H8]. constructor; try done. intros q y. cbn [without] in H4. rewrite H4. apply Hun.
Qed.

(** ** A block that comes too early *)

Lemma block_to_wait hblock stream_id dec t t2 block ric base l :
  dec_ready dec t -> header_block M (dt_inserted t) t2 block ric base l -> block_fits M t2 block ric base ->
  dt_inserted t < ric -> may_block dec -> is_u64 (Z.of_nat (length block)) ->
  exists u v, ID_MINUS64 (entries dec) v 2 = (ric - 1) mod (2 * M) /\ ric <= dt_inserted t + M /\
    to_wait t2 dec (new_ctx hblock stream_id (Z.of_nat (length block))) no_part u block v (line_of <$> l) true.
Proof.
  intros Hd Hbl Hf Hric Hmay Hu. pose proof Hf as [[HM Htf Hn Hb] Hsh]. pose proof (ready_entries dec t Hd) as EM.
  destruct (new_ctx_is hblock stream_id (Z.of_nat (length block))) as [Hps Hfl]. pose proof (ready_inserted dec t Hd) as Hin.
  destruct (block_count _ _ _ _ _ _ Hbl Hb) as (v & u & r & Eb & Hne & Hr & Hvu & Hdec & Hval).
  assert (v <> 0) as Hv0.
  { destruct (decode_insert_count_inv M (dt_inserted t) v ric ltac:(lia) Hin (proj1 Hvu) Hdec) as [[_ ->]|?]; lia. }
  destruct (count_index (dt_inserted t) v ric HM Hin Hvu Hdec Hv0) as (HM0 & Hv & Eid & Hrange).
  exists u, v. rewrite EM. split; [done|]. split; [lia|].
  assert (got (new_ctx hblock stream_id (Z.of_nat (length block))) = 0) as Eg by (unfold got; cbn; lia).
  pose proof (block_length _ _ _ _ _ _ Hbl Hb) as H2.
  assert (0 < length r)%nat as Hr0 by (destruct r; [done|cbn; lia]).
  constructor; try done.
  - by apply new_ctx_at; [|lia].
  - constructor; rewrite ?Eg; try done; rewrite ?EM.
    + exists 8, dec_int_fresh, PREFIX_STATE_BEGIN_READING_LARGEST_REF. split; [done|]. split; [by apply int_fresh_start|]. by split.
    + rewrite Eb in Hb. by apply Forall_app in Hb as [? _].
    + assert (read_int 8 block = Some (v, r)) as E1 by (rewrite read_int_fresh, Eb; apply Hval).
      pose proof (Hsh v r E1) as Hx. rewrite Eb, length_app in Hx. lia.
    + cbn. rewrite Eb, length_app. lia.
  - by exists r.
  - split; [|rewrite EM, Eid, <- EM; apply (future_index dec t ric Hd ltac:(lia)); exists 0; lia].
    rewrite EM. unfold dec_max_encoded_RIC. rewrite u32_id; [lia|]. change (2 ^ 22) with 4194304 in HM. unfold is_u32. change (2 ^ 32) with 4294967296. lia.
  - rewrite Eg. replace true with (0 <? ric) by (apply Z.ltb_lt; lia).
    by apply (header_block_is t2 M (dt_inserted t) 0 no_part dec _ block ric base l).
Qed.

(** The block has been put aside until the insertion [ric]. *)
Record waits_for_insertion (hblock stream_id ric : Z) (l : list (representation * hfield)) t t2 dec (tail : bytes)
  (x : header_result * list bytes) dec' : Prop := {
  wi_status : hr_status (fst x) = LQRHS_BLOCKED;
  wi_nothing : app_headers (qpd_app dec') = app_headers (qpd_app dec);
  wi_pieces : Forall chunk_ok (hr_rest (fst x) :: snd x);
  wi_ready : dec_ready dec' t;
  wi_same : same_dec dec dec';
  wi_ctx : exists p c g rest, at_block dec' hblock p c /\ unread x = rest ++ tail /\ hbrc_stream_id c = stream_id
    /\ is_blocked c = true /\ hbrc_largest_ref c = (ric - 1) mod (2 * M)
    /\ hbrc_parse c = PARSE_PREFIX PREFIX_STATE_BEGIN_READING_BASE_IDX /\ ctx_at M (qpd_opts dec) g c
    /\ block_is t2 (got c) g dec' c rest (line_of <$> l) true /\ is_bytes rest /\ Z.of_nat (length rest) = hbrc_size c;
}.

Lemma wp_block_waits hblock stream_id chunks block tail ric base l dec_buf t t2 dec :
  dec_ready dec t -> unused dec hblock -> header_block M (dt_inserted t) t2 block ric base l -> block_fits M t2 block ric base ->
  dt_inserted t < ric -> may_block dec -> is_u64 (Z.of_nat (length block)) -> Forall chunk_ok chunks -> concat chunks = block ++ tail ->
  wp (read_block hblock stream_id (Z.of_nat (length block)) chunks dec_buf) dec
    (waits_for_insertion hblock stream_id ric l t t2 dec tail).
Proof.
  intros Hd Hun Hbl Hf Hric Hmay Hu Hc E. pose proof (ready_entries dec t Hd) as EM.
  destruct (block_to_wait hblock stream_id dec t t2 block ric base l Hd Hbl Hf Hric Hmay Hu) as (u & v & Ev & _ & Htw).
  eapply wp_mono.
  { apply (wp_read_block_wait max true t t2 hblock stream_id chunks block u v (line_of <$> l) true dec_buf tail dec); try done.
    eapply block_length; [done|]. apply Hf. }
  intros x dec' [H1 H2 H3 H4 H5 H6 (c & g & rest & K1 & K2 & K3 & K4 & K5 & K6 & K7 & K8 & K9 & K10 & K11 & K12)].
  constructor; try done. exists (addr None dec), c, g, rest. rewrite EM in K9. rewrite Ev in K7. split_and!; try done. by eapply unused_new.
Qed.

(** ** When the insertion has come *)

Lemma keeps_feed chunks : Keeps (hset:=hset) (feed chunks).
Proof.
  induction chunks as [|buf chunks IH]; cbn [feed]; [apply keeps_ret|]. apply keeps_bind.
  - intros dec r dec'. apply enc_in_woken.
  - intros r. destruct (r =? 0); [done|apply keeps_ret].
Qed.

(** A valid encoder stream, of which [more] is still to come. *)
Lemma wp_feed_part t pend chunks more insts t2 dec :
  live dec t pend -> max <= 2 ^ 22 -> Forall chunk_ok chunks -> is_bytes more ->
  instructions ((pend ++ concat chunks) ++ more) insts -> spec_applys max t insts = Some t2 ->
  wp (feed chunks) dec (fun r dec' => r = 0 /\ (exists hs, woken dec hs dec')
    /\ exists t1 pend' rest, live dec' t1 pend' /\ instructions (pend' ++ more) rest /\ spec_applys max t1 rest = Some t2).
Proof.
  intros [Hdc Hd] Hmax Hc Hm Hi Hs. pose proof (wp_feed max true chunks t pend dec Hdc Hc) as H. unfold wp in *.
  destruct (feed chunks dec) as [[r dec']|] eqn:Ef; [|done]. destruct (keeps_feed chunks dec r dec' Ef) as [hs Hw].
  destruct H as [(-> & b & l1 & pend' & t1 & E & Hl1 & Ht1 & Hd1)|(-> & H)].
  - split; [done|]. split; [by exists hs|]. rewrite E, <- app_assoc in Hi.
    destruct (instructions_split _ _ _ _ _ Hi Hl1 eq_refl) as (l2 & -> & Hl2). exists t1, pend', l2.
    split; [split; [done|eapply woken_ready; [exact Hd|apply Hd1|exact Hw]]|]. split; [done|].
    rewrite spec_applys_app in Hs. destruct (spec_applys max t l1) as [t1'|] eqn:E1; [|done].
    apply spec_dec_applys in E1. assert (t1' = t1) as -> by congruence. exact Hs.
  - exfalso. by eapply (valid_not_rejected max true t (pend ++ concat chunks) more insts t2 dec').
Qed.

Lemma wp_feed_all t pend chunks insts t2 dec :
  live dec t pend -> max <= 2 ^ 22 -> Forall chunk_ok chunks -> instructions (pend ++ concat chunks) insts ->
  spec_applys max t insts = Some t2 ->
  wp (feed chunks) dec (fun r dec' => r = 0 /\ live dec' t2 [] /\ exists hs, woken dec hs dec').
Proof.
  intros Hlv Hmax Hc Hi Hs. eapply wp_mono; [apply (wp_feed_part t pend chunks [] insts t2 dec); [done|done|done|by apply Forall_nil|by rewrite app_nil_r|done]|].
  intros r dec' (-> & Hw & t1 & pend' & rest & Hl & Hi' & Hs'). split; [done|]. split; [|done].
  rewrite app_nil_r in Hi'. pose proof (decoding_incomplete _ _ _ _ _ (proj1 Hl)) as Hnone.
  destruct Hi' as [|b i bs l Hb _]; [by injection Hs' as <-|by rewrite (Hb bs) in Hnone].
Qed.

(** A block that waited for an insertion that has come is not blocked any more, and the
    application has been told of it. *)
Lemma told_of t2 hblock p c ric hs dec dec' : dec_ready dec' t2 -> woken dec hs dec' -> at_block dec hblock p c ->
  is_blocked c = true -> 0 < M -> hbrc_largest_ref c = (ric - 1) mod (2 * M) -> dt_inserted t2 - M < ric <= dt_inserted t2 ->
  at_block dec' hblock p (cleared c) /\ hblock ∈ hs.
Proof.
  intros Hd Hw (Hp & Hh & Hu) Hb HM El Hr. pose proof (ready_entries dec' t2 Hd) as EM.
  assert (mem dec' !! p = Some (cleared c) /\ hblock ∈ hs) as [Hp' Hin].
  { pose proof (wk_ctxs _ _ _ Hw p) as Hx. rewrite Hp in Hx. destruct (mem dec' !! p) as [c'|] eqn:Ep; [|done].
    destruct Hx as [->|[-> Hin]]; [|split; [done|congruence]]. exfalso.
    destruct (co_waiting _ _ _ (reading_ctxs max true t2 dec' (dr_reading _ _ _ _ Hd)) p c Ep Hb) as (ric' & Hr' & _ & El').
    pose proof (not_to_come dec' t2 ric Hd HM Hr) as Hn. rewrite EM in *.
    assert (exists q, dt_inserted t2 < ric + q * (2 * entries dec') <= dt_inserted t2 + entries dec') as Hq.
    { exists ((ric' - ric) / (2 * entries dec')). rewrite EM. assert ((ric' - ric) mod (2 * M) = 0) as Hz.
      { replace (ric' - ric) with (ric' - 1 - (ric - 1)) by lia. rewrite Zminus_mod, <- El', El, Z.sub_diag. apply Zmod_0_l. }
      pose proof (Z.div_mod (ric' - ric) (2 * M) ltac:(lia)). lia. }
    apply (future_index dec' t2 ric Hd ltac:(lia)) in Hq. rewrite EM in Hq. congruence. }
  split; [|done]. split; [done|]. split; [done|]. intros q x Hq Hx. pose proof (wk_ctxs _ _ _ Hw q) as Hy. rewrite Hq in Hy.
  destruct (mem dec !! q) as [y|] eqn:Eq; [|done]. apply (Hu q y Eq). by destruct Hy as [->|[-> _]].
Qed.

Lemma unused_delete dec dec' hblock p c : at_block dec hblock p c -> mem dec' = delete p (mem dec) -> unused dec' hblock.
Proof.
  intros (_ & _ & Hu) E q x. rewrite E. intros [Hne Hq]%lookup_delete_Some Hx. by apply Hne, eq_sym, (Hu q x).
Qed.

(** The application passes on what it still has of the block. *)
Lemma wp_resumed hblock stream_id ric l dec_buf p c g rest tail chunks t2 opts dec :
  dec_ready dec t2 -> qpd_opts dec = opts -> at_block dec hblock p c -> hbrc_stream_id c = stream_id ->
  hbrc_parse c = PARSE_PREFIX PREFIX_STATE_BEGIN_READING_BASE_IDX -> ctx_at M opts g c ->
  block_is t2 (got c) g dec c rest (line_of <$> l) (0 <? ric) -> is_bytes rest -> Z.of_nat (length rest) = hbrc_size c ->
  takes stream_id dec_buf l -> Forall chunk_ok chunks -> concat chunks = rest ++ tail ->
  wp (header_reads hblock chunks dec_buf need_more) dec
    (fun x dec' => delivered_block hblock stream_id ric l dec_buf dec tail x t2 dec').
Proof.
  intros Hd Eo Ha Es Hps Hc Hb Hbb Hlen Htk Hck E. pose proof (ready_entries dec t2 Hd) as EM.
  eapply wp_mono.
  { apply (wp_header_reads max true t2 chunks need_more hblock p c g rest (line_of <$> l) (0 <? ric) dec_buf tail dec); try done.
    - constructor; try done; [by rewrite EM, Eo| |].
      + split; [apply Htk|]. intros _. pose proof (tk_some _ _ _ Htk). by destruct l.
      + intros v x Hv. unfold ric_value in Hv. by rewrite Hps in Hv.
    - destruct Htk. split; [done|]. split; [done|]. by rewrite Es. }
  intros x dec' [H1 H2 H3 H4 H5 H6 H7 H8]. pose proof Ha as (_ & Hh & _). constructor; try done.
  - destruct H3 as (hs & E1 & F). exists hs. by rewrite <- Hh.
  - by rewrite <- Es.
  - by eapply unused_delete.
Qed.

Lemma app_headers_tell hs (app : hset) : app_headers (tell hs app) = app_headers app.
Proof. revert app. induction hs as [|h hs IH]; intros app; [done|]. cbn. unfold tell in IH. rewrite IH. apply app_unblocked. Qed.

(** The insertion a block waits for is within reach of the table that has it. *)
Lemma count_in_reach dec t t2 block ric base l : dec_ready dec t ->
  header_block M (dt_inserted t) t2 block ric base l -> block_fits M t2 block ric base -> dt_inserted t < ric ->
  0 < M /\ 0 < ric /\ dt_inserted t2 - M < ric <= dt_inserted t2.
Proof.
  intros Hd (rb & Hp & Hsec & Hreq) Hf Hric. pose proof (ready_inserted dec t Hd).
  pose proof (required_in_table _ t2 base rb ric l (sf_table _ _ _ _ _ (proj1 Hf)) Hsec Hreq ltac:(lia)). lia.
Qed.

(** What follows once the insertions have come. *)
Lemma wp_told_resumes hblock stream_id ric l dec_buf t t2 tail x told dec dec1 dec2 :
  waits_for_insertion hblock stream_id ric l t t2 dec tail x dec1 -> dec_ready dec2 t2 -> woken dec1 told dec2 ->
  0 < M -> 0 < ric -> dt_inserted t2 - M < ric <= dt_inserted t2 -> takes stream_id dec_buf l ->
  hblock ∈ told /\ wp (header_reads hblock (hr_rest (fst x) :: snd x) dec_buf need_more) dec2
    (fun y dec3 => delivered_block hblock stream_id ric l dec_buf dec2 tail y t2 dec3 /\ got_fields hblock l dec dec3).
Proof.
  intros [_ Hap Hck Hd1 Hs (p & c & g & rest & K1 & K2 & K3 & K4 & K5 & K6 & K7 & K8 & K9 & K10)] Hd2 Hw HM Hpos Hr Htk.
  destruct (told_of t2 hblock p c ric told dec1 dec2 Hd2 Hw K1 K4 HM K5 Hr) as [Ha2 Hin]. split; [done|].
  assert (qpd_opts dec2 = qpd_opts dec) as Eo by (rewrite (wk_opts _ _ _ Hw); apply Hs).
  eapply wp_mono.
  - apply (wp_resumed hblock stream_id ric l dec_buf p (cleared c) g rest tail _ t2 (qpd_opts dec) dec2); try done; [by apply cleared_at|].
    rewrite (proj2 (Z.ltb_lt 0 ric) Hpos). apply (block_is_sim t2 (got c) g dec1 dec2 c (cleared c)); [| |done].
    + by rewrite (ready_entries dec1 t Hd1), (ready_entries dec2 t2 Hd2).
    + constructor; try done. apply flags_sim_clear.
  - intros y dec3 Hdb. split; [done|]. destruct (db_fields _ _ _ _ _ _ _ _ _ _ Hdb) as (hs & E1 & F). exists hs.
    rewrite (wk_app _ _ _ Hw), app_headers_tell, Hap in E1. split; [done|]. unfold http1x_opt in *. by rewrite Eo in F.
Qed.
End headers.
