(* ===== verification/DecInterface.v ===== *)
(** * What the decoder promises

    The theorems about the calls of the decoder's interface, from the lemmas of
    [DecApi] and [DecHeaders]. *)

From stdpp Require Import gmap.
From S2P Require Import Prelude Monad IntCodec HuffTables Huffman HuffStream StrCodec Xxhash.
From S2P Require Import StaticTable Ringbuf Rfc9204 EncTable EncEncode Float DecTable DecState DecStream.
From S2P Require Import DecSpec DecBlocked DecStrings DecReading DecCore DecRounds DecEncIn DecCleanup DecTrace DecHeader.
From S2P Require Import DecParse DecHblock DecHset DecOut DecCompose DecLine DecData DecLoop DecPrefix DecBlock.
From S2P Require Import DecView DecProcess DecCall DecFrame DecApi DecRfc DecChunks DecWaits DecHeaders.

Section interface.
Context {hset : Type} `{!HsetIf hset} `{!HsetOk hset}.

Implicit Types (dec : lsqpack_dec hset) (t : dyn_table) (app : hset).

(** C10: whatever calls an application makes, in whatever order and with whatever bytes,
    none of them runs into undefined behaviour, a failed assertion or a loop without
    end, and [lsqpack_dec_cleanup] then frees everything that is left, once.  A failure
    of [lsqpack_dec_enc_in] ends the connection. *)
Theorem decoder_calls_safe max risked opts app ms calls :
  0 <= max < 2 ^ 31 -> is_u32 risked -> Forall call_ok calls ->
  exists dec dec', run_calls calls (lsqpack_dec_init max risked opts app ms) = Some (tt, dec)
    /\ lsqpack_dec_cleanup dec = Some (tt, dec') /\ nothing_left dec'.
Proof.
  intros Hm Hr Hc. pose proof (init_live max false risked opts app ms Hm ltac:(done) Hr) as Hl.
  destruct (wp_run _ _ _ (wp_run_calls max false calls _ _ _ Hl Hc)) as ([] & dec & E & Hs).
  destruct (wp_run _ _ _ (wp_cleanup max false dec Hs)) as ([] & dec' & E' & Hn). by exists dec, dec'.
Qed.

(** C5: a header block that is valid by RFC 9204 and refers to entries the decoder has, cut
    into any pieces and followed by any bytes, is read to its end and not further; the
    application gets its fields in order, each with its N bit; if the block refers to
    the dynamic table it is acknowledged; the decoder forgets it. *)
Theorem header_block_delivered max t pend dec hblock stream_id chunks block tail ric base l dec_buf :
  live max true dec t pend -> unused dec hblock ->
  header_block (max / 32) (dt_inserted t) t block ric base l -> block_fits (max / 32) t block ric base ->
  takes stream_id dec_buf l -> is_u64 (Z.of_nat (length block)) ->
  Forall chunk_ok chunks -> concat chunks = block ++ tail ->
  exists x dec', read_block hblock stream_id (Z.of_nat (length block)) chunks dec_buf dec = Some (x, dec')
    /\ hr_status (fst x) = LQRHS_DONE /\ unread x = tail /\ got_fields hblock l dec dec'
    /\ ack_bytes (0 <? ric) stream_id dec_buf = Some (hr_ack (fst x))
    /\ unused dec' hblock /\ live max true dec' t pend.
Proof.
  intros Hlv Hu Hb Hf Htk Hlen Hc E.
  destruct (wp_run _ _ _ (wp_block_delivered max hblock stream_id chunks block tail ric base l dec_buf t dec
    (proj2 Hlv) Hu Hb Hf Htk Hlen Hc E)) as (x & dec' & Er & [H1 H2 H3 H4 H5 H6 H7]).
  exists x, dec'. split_and!; try done; by eapply same_live.
Qed.

(** C6: a header block that comes before the insertions it needs is put aside without
    giving the application anything.  Once the encoder stream has brought those
    insertions the application is told, and when it passes on what it still has of the
    block it gets the fields. *)
Theorem blocked_block_completes max t t2 pend dec hblock stream_id chunks block tail ric base l dec_buf :
  live max true dec t pend -> unused dec hblock -> max <= 2 ^ 22 ->
  header_block (max / 32) (dt_inserted t) t2 block ric base l -> block_fits (max / 32) t2 block ric base ->
  dt_inserted t < ric -> may_block dec -> takes stream_id dec_buf l -> is_u64 (Z.of_nat (length block)) ->
  Forall chunk_ok chunks -> concat chunks = block ++ tail ->
  exists x dec1, read_block hblock stream_id (Z.of_nat (length block)) chunks dec_buf dec = Some (x, dec1)
    /\ hr_status (fst x) = LQRHS_BLOCKED /\ app_headers (qpd_app dec1) = app_headers (qpd_app dec)
    /\ forall echunks insts, Forall chunk_ok echunks -> instructions (pend ++ concat echunks) insts ->
         spec_applys max t insts = Some t2 ->
         exists dec2 told, feed echunks dec1 = Some (0, dec2) /\ qpd_app dec2 = tell told (qpd_app dec1) /\ hblock ∈ told
           /\ exists y dec3, header_reads hblock (hr_rest (fst x) :: snd x) dec_buf need_more dec2 = Some (y, dec3)
                /\ hr_status (fst y) = LQRHS_DONE /\ unread y = tail /\ got_fields hblock l dec dec3
                /\ ack_bytes true stream_id dec_buf = Some (hr_ack (fst y)) /\ unused dec3 hblock /\ live max true dec3 t2 [].
Proof.
  intros Hlv Hu Hmax Hb Hf Hric Hmay Htk Hlen Hc E. pose proof Hlv as [Hdc Hd].
  destruct (wp_run _ _ _ (wp_block_waits max hblock stream_id chunks block tail ric base l dec_buf t t2 dec
    Hd Hu Hb Hf Hric Hmay Hlen Hc E)) as (x & dec1 & Er & Hwi).
  exists x, dec1. split; [done|]. split; [apply Hwi|]. split; [apply Hwi|]. intros echunks insts Hec Hi Hs.
  assert (live max true dec1 t pend) as Hlv1 by (by eapply same_live; [exact Hlv|apply Hwi..]).
  destruct (wp_run _ _ _ (wp_feed_all max t pend echunks insts t2 dec1 Hlv1 Hmax Hec Hi Hs)) as (r & dec2 & Ef & -> & Hlv2 & told & Hw).
  destruct (count_in_reach max dec t t2 block ric base l Hd Hb Hf Hric) as (HM & Hpos & Hr2).
  destruct (wp_told_resumes max hblock stream_id ric l dec_buf t t2 tail x told dec dec1 dec2 Hwi (proj2 Hlv2) Hw HM Hpos Hr2 Htk) as [Hin Hwp].
  exists dec2, told. split; [done|]. split; [apply Hw|]. split; [done|].
  destruct (wp_run _ _ _ Hwp) as (y & dec3 & Ey & [G1 G2 G3 G4 G5 G6 G7] & Hgot). exists y, dec3.
  rewrite (proj2 (Z.ltb_lt 0 ric) Hpos) in G4. split_and!; try done; by eapply same_live.
Qed.
End interface.
