(* ===== verification/Connection.v ===== *)
(** * An encoder and a decoder

    A header block that the encoder made, and the encoder stream it wrote, in any pieces
    and in any order: the decoder hands the application the fields the client of the
    encoder asked for ([header_roundtrip]). *)

From stdpp Require Import gmap sets.
From S2P Require Import Prelude Monad IntCodec HuffTables Huffman HuffStream StrCodec Xxhash StaticTable Ringbuf Rfc9204.
From S2P Require Import EncTable EncHinfo EncState EncPolicy EncEncode Encoder EncInv EncAbs EncWire EncExec EncField.
From S2P Require Import EncOps EncPeer EncTrace EncBlock.
From S2P Require Import DecTable DecState DecStream DecSpec DecBlocked DecStrings DecReading DecCore DecRounds.
From S2P Require Import DecEncIn DecCleanup DecTrace DecHeader DecParse DecHblock DecHset DecOut DecCompose DecLine.
From S2P Require Import DecData DecLoop DecPrefix DecBlock DecView DecProcess DecCall DecFrame DecApi DecRfc.
From S2P Require Import DecChunks DecWaits DecHeaders.

(** ** Tables that extend each other *)

(** [t2] is [t1] after some insertions and evictions. *)
Definition extends (t1 t2 : dyn_table) : Prop :=
  exists gone more, dt_entries t1 ++ more = gone ++ dt_entries t2
    /\ dt_inserted t2 = dt_inserted t1 + Z.of_nat (length more).

#[global] Instance extends_preorder : PreOrder extends.
Proof.
  split.
  - intros t. exists [], []. rewrite app_nil_r. split; [done|]. cbn. lia.
  - intros x y z (p1 & m1 & E1 & I1) (p2 & m2 & E2 & I2). exists (p1 ++ p2), (m1 ++ m2).
    rewrite app_assoc, E1, <- !app_assoc, E2, length_app. split; [done|]. lia.
Qed.

Lemma evict_extends t cap : extends t (Dyn (dt_inserted t) cap (dt_evict cap (dt_entries t))).
Proof.
  destruct (dt_evict_suffix cap (dt_entries t)) as [pre E]. exists pre, []. cbn. rewrite app_nil_r. split; [done|lia].
Qed.

Lemma insert_extends f t t' : dt_insert f t = Some t' -> extends t t'.
Proof.
  unfold dt_insert. destruct (_ >? _); [done|]. intros [= <-].
  destruct (dt_evict_suffix (dt_capacity t - field_size f) (dt_entries t)) as [pre E]. exists pre, [f]. cbn.
  by rewrite app_assoc, <- E.
Qed.

Lemma apply_extends t i t' : apply_instruction t i = Some t' -> extends t t'.
Proof.
  destruct i; cbn [apply_instruction].
  - intros [= <-]. apply evict_extends.
  - destruct (_ && _); [apply insert_extends|done].
  - destruct (dt_get _ _); [apply insert_extends|done].
  - apply insert_extends.
  - destruct (dt_get _ _); [apply insert_extends|done].
Qed.

Lemma applys_extends max l : forall t t', spec_applys max t l = Some t' -> extends t t'.
Proof.
  induction l as [|i l IH]; intros t t'; cbn [spec_applys]; [by intros [= <-]|].
  destruct (spec_apply max t i) as [t1|] eqn:E; [|done]. intros H. etrans; [|by apply IH].
  apply (apply_extends t i). revert E. destruct i; cbn [spec_apply]; try done. by destruct (_ <=? _).
Qed.

Lemma same_extends t t' : same_entries t t' -> extends t' t.
Proof. intros [E1 E2]. exists [], []. rewrite E1, E2, app_nil_r. split; [done|]. cbn. lia. Qed.

(** What is left of [t1] in [t2] was in [t1]. *)
Lemma extends_get t1 t2 id f :
  extends t1 t2 -> id <= dt_inserted t1 -> dt_get t2 id = Some f -> dt_get t1 id = Some f.
Proof.
  intros (gone & more & E & Ei) Hid H. pose proof (dt_get_range _ _ _ H) as Hr. revert H. unfold dt_get.
  assert (dt_oldest t2 = dt_oldest t1 + Z.of_nat (length gone)) as Eo.
  { unfold dt_oldest. apply (f_equal length) in E. rewrite !length_app in E. lia. }
  rewrite Eo in *.
  rewrite (proj2 (Z.leb_le (dt_oldest t1) id)), (proj2 (Z.leb_le id (dt_inserted t1))) by lia. cbn [andb].
  destruct (_ && _); [|done]. intros H.
  assert ((dt_entries t1 ++ more) !! Z.to_nat (id - dt_oldest t1) = Some f) as Hl.
  { rewrite E, lookup_app_r by lia. rewrite <- H. f_equal. lia. }
  rewrite lookup_app_l in Hl; [done|]. unfold dt_oldest in *. lia.
Qed.

Lemma extends_resolve t1 t2 r f : extends t1 t2 -> (forall id, reference r = Some id -> id <= dt_inserted t1) ->
  resolve t2 r = Some f -> resolve t1 r = Some f.
Proof.
  intros Hx Hr. destruct r as [|id| |never id v|]; cbn [resolve reference] in *; try done.
  - apply extends_get; auto.
  - destruct (dt_get t2 id) as [g|] eqn:E; [|done]. by rewrite (extends_get _ _ _ _ Hx (Hr id eq_refl) E).
Qed.

Lemma extends_section t1 t2 base buf l : extends t1 t2 -> field_section t2 base buf l ->
  (forall r f id, (r, f) ∈ l -> reference r = Some id -> id <= dt_inserted t1) -> field_section t1 base buf l.
Proof.
  intros Hx. induction 1 as [|b r f bs l Hr Hf _ IH]; intros Hl; [constructor|]. constructor; [done| |].
  - apply (extends_resolve t1 t2); [done| |done]. intros id. apply (Hl r f). by left.
  - apply IH. intros r' f' id Hin. apply (Hl r' f'). by right.
Qed.

(** ** A block of the encoder's at the decoder *)

Lemma b2z_leb_mono k v w : v <= w -> Z.b2z (k <=? v) <= Z.b2z (k <=? w).
Proof. intros H. destruct (Z.leb_spec k v), (Z.leb_spec k w); cbn; lia. Qed.

Lemma val2len_mono p v w : v <= w -> lsqpack_val2len v p <= lsqpack_val2len w p.
Proof. intros H. unfold lsqpack_val2len. repeat apply Z.add_le_mono; try apply b2z_leb_mono; lia. Qed.

Lemma minimal_short M total t block ric base l : 0 <= M <= 2 ^ 22 -> 0 <= total -> is_bytes block ->
  header_block M total t block ric base l -> count_minimal block -> ric_short M block.
Proof.
  intros HM Ht Hb (rest & Hp & _) Hm v r Hv. specialize (Hm [] v r). rewrite app_nil_r in Hm. rewrite (Hm Hv).
  destruct (read_prefix_inv _ _ _ _ _ _ Hp) as (v' & b1 & src & d & E1 & E2 & _). rewrite E1 in Hv. injection Hv as <- <-.
  destruct (read_int_nonneg 8 _ _ _ Hb ltac:(lia) E1) as [Hv' _].
  assert (v' <= dec_max_encoded_RIC M) as Hle.
  { change (2 ^ 22) with 4194304 in HM. unfold dec_max_encoded_RIC. rewrite u32_id by ulia.
    destruct (decode_insert_count_inv M total v' ric ltac:(lia) Ht (proj1 Hv') E2) as [[-> _]|(? & ? & _)]; lia. }
  pose proof (val2len_mono 8 _ _ Hle). unfold ric_length. lia.
Qed.

(** The block is valid for a decoder whose table [t] the encoder's extends, if it is not
    too far behind. *)
Lemma block_at M A l block ric reps t total :
  block_for M A l block ric reps -> 0 <= M <= 2 ^ 22 -> extends t A -> table_fits M t -> is_bytes block ->
  ric <= dt_inserted t -> dt_inserted A <= dt_inserted t + M -> 0 <= total ->
  (0 < ric -> total - M < ric <= total + M) ->
  exists base, header_block M total t block ric base reps /\ block_fits M t block ric base.
Proof.
  intros [_ _ Hr Hm Hv] HM Hx Hf Hb Hric Hfar Ht Hrange. destruct (Hv total Ht Hrange) as (base & Hbl & Hbase).
  destruct Hbl as (rest & Hp & Hs & Hreq). exists base.
  assert (header_block M total t block ric base reps) as Hbt.
  { exists rest. split; [done|]. split; [|done]. apply (extends_section t A); [done|done|]. intros r f id Hin Hid.
    pose proof (proj1 Hreq r f id Hin Hid). lia. }
  split; [done|]. split; [constructor; try done; intros H0; specialize (Hbase H0); lia|].
  by eapply minimal_short.
Qed.

(** The client of the encoder, and what it hands to the decoder's application. *)
Definition line_fits (c : field_call) : Prop :=
  fst (asked_field c) <> [] /\ Z.of_nat (length (fst (asked_field c))) + Z.of_nat (length (snd (asked_field c))) <= 10000.

Lemma lines_fit M A l block ric reps : block_for M A l block ric reps -> Forall line_fits l -> Forall line_ok (line_of <$> reps).
Proof.
  intros [Hf _ _ _ _] Hl. clear A block ric M. revert l Hf Hl. induction reps as [|[r f] reps IH]; intros l Hf Hl.
  - by apply Forall_nil.
  - destruct l as [|c l]; [done|]. rewrite !fmap_cons in Hf. injection Hf as -> Hf. apply Forall_cons in Hl as [Hc Hl].
    rewrite fmap_cons. apply Forall_cons. split; [exact Hc|by apply (IH l)].
Qed.

(** The header [h] is the field asked for; it has the N bit only if that was asked for. *)
Definition as_asked (http1x : bool) (c : field_call) (h : dec_header) : Prop :=
  exists never, shows http1x {| hl_never := never; hl_field := asked_field c |} h
    /\ (never = true -> asks_never (fc_xhdr c) (fc_flags c) = true).

Lemma shown_as_asked http1x M A l block ric reps hs : block_for M A l block ric reps ->
  Forall2 (shows http1x) (line_of <$> reps) hs -> Forall2 (as_asked http1x) l hs.
Proof.
  intros [Hf Hn _ _ _]. clear A block ric M. revert l Hf Hn hs. induction reps as [|[r f] reps IH]; intros l Hf Hn hs Hs.
  - inversion Hn; subst. by inversion Hs.
  - inversion Hn as [|c x l' reps' Hc Hn' E1 E2]; subst. inversion Hs as [|line h lines hs' Hh Hs' E3 E4]; subst.
    rewrite !fmap_cons in Hf. injection Hf as -> Hf. constructor; [|by apply IH].
    exists (never_indexed r). split; [done|]. intros Hne. by destruct r; cbn in *; try done; subst.
Qed.

(** ** Both sides *)

Section connection.
Context {hset : Type} `{!HsetIf hset} `{!HsetOk hset}.
Variables (max : Z).
Hypothesis Hmax : 0 <= max <= 2 ^ 22.

Implicit Types (dec : lsqpack_dec hset) (app : hset).

Local Abbreviation M := (max / 32).

Lemma max_entries_le : 0 <= M <= 2 ^ 22.
Proof.
  change (2 ^ 22) with 4194304 in *. split; [apply Z.div_pos; lia|]. apply Z.div_le_upper_bound; lia.
Qed.

(** A decoder's table is never larger than its capacity allows. *)
Lemma live_fits t pend dec : live max true dec t pend -> table_fits M t.
Proof.
  intros [_ Hd]. destruct (reading_core max true t dec (dr_reading _ _ _ _ Hd)) as (l & held & own & [Ht Hfit] & E & _).
  pose proof (reading_max_entries max true t dec (dr_reading _ _ _ _ Hd)) as EM. rewrite <- E. unfold table_fits. cbn [dyn_of dt_entries dt_inserted].
  unfold fields. rewrite length_fmap. split; [|apply (tc_inserted _ _ _ _ _ Ht)].
  pose proof (tc_cap _ _ _ _ _ Ht). rewrite (tc_size _ _ _ _ _ Ht) in Hfit. rewrite <- EM, (tc_entries _ _ _ _ _ Ht).
  apply Z.div_le_lower_bound; [lia|].
  assert (32 * Z.of_nat (length l) <= fields_size (fields (dt_heap (qpd_tab dec)) l)); [|lia].
  clear. induction l as [|p l IH]; [done|]. cbn [fields fmap list_fmap fields_size length].
  pose proof (field_size_pos (dte_nameval (entry_at (dt_heap (qpd_tab dec)) p))). unfold fields in IH. lia.
Qed.

(** Without header blocks nothing is blocked and no name is taken. *)
Lemma no_blocks dec t pend hblock risked opts app ms hs :
  live max true dec t pend -> woken (lsqpack_dec_init max risked opts app ms) hs dec -> 0 < risked ->
  unused dec hblock /\ may_block dec.
Proof.
  intros [_ Hd] Hw Hr.
  assert (forall p c, cx_mem (qpd_ctxs dec) !! p = Some c -> False) as Hno.
  { intros p c Hp. pose proof (wk_ctxs _ _ _ Hw p) as Hc. rewrite Hp in Hc. cbn in Hc. by rewrite lookup_empty in Hc. }
  split; [by intros p c Hp; destruct (Hno p c)|]. unfold may_block. rewrite (wk_risked _ _ _ Hw). cbn.
  pose proof (reading_ctxs max true t dec (dr_reading _ _ _ _ Hd)) as Hc. rewrite (co_count _ _ _ Hc).
  assert (concat (qpd_blocked_headers (qpd_ctxs dec)) = []) as ->; [|cbn; lia].
  destruct (concat _) as [|p ps] eqn:E; [done|]. exfalso.
  assert (p ∈ concat (qpd_blocked_headers (qpd_ctxs dec))) as Hin by (rewrite E; by left).
  apply list_elem_of_In, in_concat in Hin as (b & Hb%list_elem_of_In & Hp%list_elem_of_In).
  apply list_elem_of_lookup in Hb as [i Hi]. destruct (co_bucket _ _ _ Hc i b Hi) as [_ Hk].
  apply Hk in Hp as (c & Hp & _). by apply (Hno p c).
Qed.

(** The application has got the fields that were asked for, as headers of [hblock]. *)
Definition fields_delivered (hblock opts : Z) (l : list field_call) app dec' : Prop :=
  exists hs, app_headers (qpd_app dec') = app_headers app ++ ((fun h => (hblock, h)) <$> hs)
    /\ Forall2 (as_asked (has_bits opts LSQPACK_DEC_OPT_HTTP1X)) l hs.

Lemma got_delivered A l block ric reps hblock opts app dec dec' hs :
  block_for M A l block ric reps -> qpd_opts dec = opts -> qpd_app dec = tell hs app ->
  got_fields hblock reps dec dec' -> fields_delivered hblock opts l app dec'.
Proof.
  intros Hb Eo Ea (hs' & E & F). exists hs'. rewrite Ea, app_headers_tell in E. split; [done|].
  unfold http1x_opt in F. rewrite Eo in F. by eapply shown_as_asked.
Qed.

(** How a header block fares at a decoder that has received a part of the encoder stream:
    it is read, or put aside until the rest has come; at its end [ack] is written. *)
Definition block_arrives (hblock stream_id : Z) (block : bytes) (pieces echunks : list bytes) (tail : bytes)
  (dec_buf : option bytes) (ack : bytes) (opts : Z) (l : list field_call) app dec : Prop :=
  exists x dec1, read_block hblock stream_id (Z.of_nat (length block)) pieces dec_buf dec = Some (x, dec1) /\
    ((hr_status (fst x) = LQRHS_DONE /\ unread x = tail /\ hr_ack (fst x) = ack /\ fields_delivered hblock opts l app dec1)
     \/ (hr_status (fst x) = LQRHS_BLOCKED
         /\ exists dec2 told, feed echunks dec1 = Some (0, dec2) /\ qpd_app dec2 = tell told (qpd_app dec1) /\ hblock ∈ told
              /\ exists y dec3, header_reads hblock (hr_rest (fst x) :: snd x) dec_buf need_more dec2 = Some (y, dec3)
                   /\ hr_status (fst y) = LQRHS_DONE /\ unread y = tail /\ hr_ack (fst y) = ack /\ fields_delivered hblock opts l app dec3)).

Lemma block_at_decoder A t1 t2 pend insts l block ric reps hblock stream_id pieces echunks tail dec_buf risked opts app ms hs dec :
  block_for M A l block ric reps -> live max true dec t1 pend -> woken (lsqpack_dec_init max risked opts app ms) hs dec -> 0 < risked ->
  instructions (pend ++ concat echunks) insts -> spec_applys max t1 insts = Some t2 -> same_entries A t2 ->
  table_fits M t2 -> dt_inserted A <= dt_inserted t1 + M ->
  app_willing -> l <> [] -> Forall line_fits l -> (forall dyn, is_Some (ack_bytes dyn stream_id dec_buf)) ->
  is_u64 (Z.of_nat (length block)) -> Forall chunk_ok echunks -> Forall chunk_ok pieces -> concat pieces = block ++ tail ->
  exists ack, ack_bytes (0 <? ric) stream_id dec_buf = Some ack
    /\ block_arrives hblock stream_id block pieces echunks tail dec_buf ack opts l app dec.
Proof.
  intros Hbl Hlv Hw Hrisk Hi Hs Hsame Hf2 Hfar Hwill Hne Hlf Hack Hlen Hec Hpc Ep.
  pose proof max_entries_le as HM. destruct (no_blocks _ _ _ hblock _ _ _ _ _ Hlv Hw Hrisk) as [Hun Hmay].
  assert (is_bytes block) as Hb by (apply is_bytes_concat in Hpc; rewrite Ep in Hpc; by apply Forall_app in Hpc as [? _]).
  assert (takes stream_id dec_buf reps) as Htk.
  { constructor; [done|by eapply lines_fit| |done]. intros ->. pose proof (bk_fields _ _ _ _ _ _ Hbl) as E. by destruct l. }
  assert (extends t2 A) as H2A by (by apply same_extends).
  assert (extends t1 A) as H1A by (etrans; [by apply (applys_extends max insts)|done]).
  assert (0 <= dt_inserted t1) as Hin by (by apply (ready_inserted max dec t1), Hlv).
  destruct (bk_range _ _ _ _ _ _ Hbl) as [Hric Hric'].
  assert (dt_inserted t1 <= dt_inserted A) as Hle by (destruct H1A as (? & ? & _ & ->); lia).
  assert (0 < ric -> dt_inserted t1 - M < ric <= dt_inserted t1 + M) as Hrange by (intros H0; specialize (Hric' H0); lia).
  assert (qpd_app dec = tell hs app) as Ea by apply Hw. assert (qpd_opts dec = opts) as Eo by apply Hw.
  destruct (Z.le_gt_cases ric (dt_inserted t1)) as [Hnow|Hlater].
  - destruct (block_at M A l block ric reps t1 (dt_inserted t1) Hbl HM H1A (live_fits _ _ _ Hlv) Hb Hnow Hfar Hin Hrange) as (base & Hh & Hf).
    destruct (wp_run _ _ _ (wp_block_delivered max hblock stream_id pieces block tail ric base reps dec_buf t1 dec
      (proj2 Hlv) Hun Hh Hf Htk Hlen Hpc Ep)) as (x & dec1 & Er & [H1 H2 H3 H4 _ _ _]).
    exists (hr_ack (fst x)). split; [exact H4|]. exists x, dec1. split; [done|]. left. split; [done|]. split; [done|].
    split; [done|]. by eapply got_delivered.
  - assert (dt_inserted A = dt_inserted t2) as EA by (by destruct Hsame).
    destruct (block_at M A l block ric reps t2 (dt_inserted t1) Hbl HM H2A Hf2 Hb ltac:(lia) ltac:(lia) Hin Hrange) as (base & Hh & Hf).
    destruct (wp_run _ _ _ (wp_block_waits max hblock stream_id pieces block tail ric base reps dec_buf t1 t2 dec
      (proj2 Hlv) Hun Hh Hf Hlater Hmay Hlen Hpc Ep)) as (x & dec1 & Er & Hwi).
    assert (live max true dec1 t1 pend) as Hlv1 by (by eapply same_live; [exact Hlv|apply Hwi..]).
    destruct (wp_run _ _ _ (wp_feed_all max t1 pend echunks insts t2 dec1 Hlv1 ltac:(lia) Hec Hi Hs)) as (r & dec2 & Ef & -> & Hlv2 & told & Hw2).
    destruct (count_in_reach max dec t1 t2 block ric base reps (proj2 Hlv) Hh Hf Hlater) as (HM0 & Hpos & Hr2).
    destruct (wp_told_resumes max hblock stream_id ric reps dec_buf t1 t2 tail x told dec dec1 dec2 Hwi (proj2 Hlv2) Hw2 HM0 Hpos Hr2 Htk) as [Hinn Hwp].
    destruct (wp_run _ _ _ Hwp) as (y & dec3 & Ey & [G1 G2 _ G4 _ _ _] & Hgot).
    exists (hr_ack (fst y)). split; [exact G4|]. exists x, dec1. split; [done|]. right. split; [apply Hwi|].
    exists dec2, told. split; [done|]. split; [apply Hw2|]. split; [done|]. exists y, dec3.
    split_and!; try done. by eapply got_delivered.
Qed.

(** A block made after any calls, and what a decoder does with it that may have received
    a part of the encoder stream. *)
Lemma block_across dyn_size erisked eopts tsu ems out enc0 bs enc stream_id seqno l buf stream block enc'
  risked opts app ms chunks echunks hblock pieces tail dec_buf :
  is_u32 dyn_size -> is_u32 erisked -> is_u32 risked -> 0 < risked ->
  lsqpack_enc_init (lsqpack_enc_preinit ems) max dyn_size erisked eopts tsu = (ENC_OK, out, enc0) ->
  run enc0 bs enc -> arrs_guarded enc -> Forall field_call_ok l ->
  encode_block stream_id seqno l buf enc = Some ((stream, Some block), enc') ->
  Forall is_Some ms -> app_willing -> Forall chunk_ok chunks -> Forall chunk_ok echunks -> Forall chunk_ok pieces ->
  concat chunks ++ concat echunks = (out ++ bs) ++ stream -> concat pieces = block ++ tail ->
  l <> [] -> Forall line_fits l -> (forall dyn, is_Some (ack_bytes dyn stream_id dec_buf)) -> is_u64 (Z.of_nat (length block)) ->
  exists ric reps dec t1, ready enc' /\ block_for M (abs_table (qpe_table enc')) l block ric reps /\ left_open enc stream_id ric enc'
    /\ 0 <= qpe_max_acked_id enc
    /\ feed chunks (lsqpack_dec_init max risked opts app ms) = Some (0, dec) /\ holds dec t1
    /\ (qpe_ins_count (qpe_table enc') <= dt_inserted t1 + M ->
        exists ack, ack_bytes (0 <? ric) stream_id dec_buf = Some ack
          /\ block_arrives hblock stream_id block pieces echunks tail dec_buf ack opts l app dec).
Proof.
  intros Hds Her Hr Hrisk Hinit Hrun Hg Hl He Hms Hwill Hc1 Hc2 Hpc Ecat Ep Hne Hlf Hack Hlen.
  assert (max < 2 ^ 31) as Hm31 by (change (2 ^ 22) with 4194304 in Hmax; change (2 ^ 31) with 2147483648; lia).
  destruct (init_ok _ _ _ _ _ _ _ _ Hds Hm31 Her Hinit) as (Hrd0 & _ & _ & Hreal0 & _).
  destruct (run_ok _ _ _ Hrun Hrd0) as (Hrd & _ & _ & Hreal).
  destruct (stream_instructions _ _ _ _ _ _ _ _ _ _ Hds Hm31 Her Hinit Hrun) as (l0 & Hl0 & Ha0 & Hw0).
  pose proof (wp_encode_block stream_id seqno l buf enc Hrd Hg Hl) as Hwp. unfold wp in Hwp. rewrite He in Hwp. cbn [fst snd] in Hwp.
  destruct Hwp as (Hrd' & (l1 & Hl1 & Ha1 & Hw1) & Em & Hblk). destruct (Hblk block eq_refl) as (ric & reps & Hbf & Hopen).
  assert (qpe_max_entries enc = M) as EM by (rewrite (proj1 (ec_max_entries _ (ok_core _ (proj1 Hrd)))), Hreal, Hreal0; done).
  rewrite EM in Hbf.
  destruct (applys_from_init max (l0 ++ l1) (abs_table (qpe_table enc'))) as (t2 & Ht2 & Hsame & _).
  { apply Forall_app. split; [done|]. by rewrite Hreal, Hreal0 in Hw1. }
  { by rewrite (apply_instructions_app _ _ _ _ Ha0). }
  pose proof (init_live max true risked opts app ms ltac:(lia) ltac:(done) Hr) as Hlv0.
  assert (instructions (concat chunks ++ concat echunks) (l0 ++ l1)) as Hi by (rewrite Ecat; by apply instructions_app).
  destruct (wp_run _ _ _ (wp_feed_part max (Dyn 0 max []) [] chunks (concat echunks) (l0 ++ l1) t2 _ Hlv0 ltac:(lia) Hc1
    ltac:(by apply is_bytes_concat) Hi Ht2)) as (r & dec & Ef & -> & [hs Hw] & t1 & pend & insts & Hlv & Hi2 & Hs2).
  exists ric, reps, dec, t1. split; [done|]. split; [done|]. split; [done|].
  split; [destruct (ec_acked _ (ok_core _ (proj1 Hrd))); lia|].
  split; [done|]. split; [eapply reading_holds; apply Hlv|]. intros Hfar.
  eapply block_at_decoder; try done.
  pose proof (proj1 Hrd') as Hok'. destruct Hsame as [E1 E2]. unfold table_fits. rewrite E1, E2. cbn [abs_table dt_entries dt_inserted].
  rewrite length_fmap. pose proof (entries_fit enc' Hok') as Hfit. rewrite Em, EM in Hfit.
  split; [exact Hfit|]. pose proof (ec_table _ (ok_core _ Hok')) as Htw. rewrite <- (wf_nelem _ Htw). apply (wf_nelem_ins _ Htw).
Qed.

(** C1: an encoder and a decoder together.  The client of an encoder, after any calls, has
    it encode a header block of the fields [l].  Whatever pieces the encoder stream and
    the header block arrive in, and whichever is first, the decoder's application gets
    exactly those fields, in order: at once, or once it has been told that the rest of
    the encoder stream has brought the insertions the block waits for.  The decoder may
    be at most as many insertions behind as its table can have entries. *)
Theorem header_roundtrip dyn_size erisked eopts tsu ems out enc0 bs enc stream_id seqno l buf stream block enc'
  risked opts app ms chunks echunks hblock pieces tail dec_buf :
  is_u32 dyn_size -> is_u32 erisked -> is_u32 risked -> 0 < risked ->
  lsqpack_enc_init (lsqpack_enc_preinit ems) max dyn_size erisked eopts tsu = (ENC_OK, out, enc0) ->
  run enc0 bs enc -> arrs_guarded enc -> Forall field_call_ok l ->
  encode_block stream_id seqno l buf enc = Some ((stream, Some block), enc') ->
  Forall is_Some ms -> app_willing -> Forall chunk_ok chunks -> Forall chunk_ok echunks -> Forall chunk_ok pieces ->
  concat chunks ++ concat echunks = (out ++ bs) ++ stream -> concat pieces = block ++ tail ->
  l <> [] -> Forall line_fits l -> (forall dyn, is_Some (ack_bytes dyn stream_id dec_buf)) -> is_u64 (Z.of_nat (length block)) ->
  exists dec t1, feed chunks (lsqpack_dec_init max risked opts app ms) = Some (0, dec) /\ holds dec t1
    /\ (qpe_ins_count (qpe_table enc') <= dt_inserted t1 + M -> exists ack,
        block_arrives hblock stream_id block pieces echunks tail dec_buf ack opts l app dec).
Proof.
  intros Hds Her Hr Hrisk Hinit Hrun Hg Hl He Hms Hwill Hc1 Hc2 Hpc Ecat Ep Hne Hlf Hack Hlen.
  destruct (block_across dyn_size erisked eopts tsu ems out enc0 bs enc stream_id seqno l buf stream block enc'
    risked opts app ms chunks echunks hblock pieces tail dec_buf) as (ric & reps & dec & t1 & _ & _ & _ & _ & Ef & Hh & H); [done..|].
  exists dec, t1. split; [exact Ef|]. split; [exact Hh|]. intros (ack & _ & Ha)%H. by exists ack.
Qed.
End connection.
