(* ===== verification/PeerStream.v ===== *)
(** * The decoder stream as the encoder reads it

    lsqpack_enc_decoder_in carries out exactly the decoder instructions of RFC 9204,
    section 4.4, whatever chunks their bytes come in ([wp_listen]). *)

From stdpp Require Import sets.
From S2P Require Import Prelude Monad IntCodec Rfc9204 StaticTable EncTable EncHinfo EncState EncPolicy EncEncode Encoder.
From S2P Require Import EncInv EncExec EncOps EncPeer DecSpec.

(** ** Carrying out instructions *)

Definition perform (i : dec_instruction) : enc_m bool :=
  match i with
  | DSectionAck stream_id => enc_proc_header_ack stream_id
  | DStreamCancel stream_id => enc_proc_stream_cancel stream_id
  | DInsertCount increment => enc_proc_ici increment
  end.

(** One after the other, until one is an error. *)
Fixpoint performs (l : list dec_instruction) : enc_m bool :=
  match l with
  | [] => mret true
  | i :: l => ok ← perform i; if ok : bool then performs l else mret false
  end.

(** The calls for the chunks of the decoder stream, until one fails. *)
Fixpoint listen (chunks : list bytes) : enc_m bool :=
  match chunks with
  | [] => mret true
  | buf :: chunks => ok ← lsqpack_enc_decoder_in buf; if ok : bool then listen chunks else mret false
  end.

Definition inst_of (h : dec_handler) (v : Z) : dec_instruction :=
  match h with
  | enc_proc_header_ack_h => DSectionAck v
  | enc_proc_ici_h => DInsertCount v
  | enc_proc_stream_cancel_h => DStreamCancel v
  end.

Lemma run_handler_perform h v : run_handler (Some h) v = perform (inst_of h v).
Proof. by destruct h. Qed.

(** ** What the reader keeps to itself *)

(** The state with another reader and another byte count. *)
Definition aside (s : dec_stream_state) (n : Z) (enc : lsqpack_enc) : lsqpack_enc :=
  set_bytes_out n (set_dec_stream_state s enc).

Definition apart (enc enc' : lsqpack_enc) : Prop := exists s n, enc' = aside s n enc.

Lemma apart_refl enc : apart enc enc.
Proof. exists (qpe_dec_stream_state enc), (qpe_bytes_out enc). by destruct enc. Qed.

Lemma apart_trans x y z : apart x y -> apart y z -> apart x z.
Proof. intros (s1 & n1 & ->) (s2 & n2 & ->). by exists s2, n2. Qed.

Lemma apart_stream s enc : apart enc (set_dec_stream_state s enc).
Proof. exists s, (qpe_bytes_out enc). by destruct enc. Qed.

(** A computation that neither looks at them nor changes them. *)
Definition blind {A} (m : enc_m A) : Prop :=
  forall s n enc, m (aside s n enc) = (fun r => (fst r, aside s n (snd r))) <$> m enc.

Lemma blind_ret {A} (x : A) : blind (mret x).
Proof. done. Qed.

Lemma blind_bind {A B} (m : enc_m A) (k : A -> enc_m B) : blind m -> (forall x, blind (k x)) -> blind (x ← m; k x).
Proof.
  intros Hm Hk s n enc. unfold mbind, st_m_bind. rewrite Hm. destruct (m enc) as [[x enc1]|]; [|done]. cbn. apply Hk.
Qed.

(** What [get] returns may be looked at elsewhere. *)
Lemma blind_get {B} (k : lsqpack_enc -> enc_m B) :
  (forall s n enc, k (aside s n enc) = k enc) -> (forall enc, blind (k enc)) -> blind (enc ← get; k enc).
Proof. intros He Hk s n enc. unfold mbind, st_m_bind. cbn. rewrite He. apply Hk. Qed.

Lemma blind_gets {P} (f : lsqpack_enc -> P) : (forall s n enc, f (aside s n enc) = f enc) -> blind (gets f).
Proof. intros H s n enc. unfold gets. by rewrite H. Qed.

Lemma blind_modify f : (forall s n enc, f (aside s n enc) = aside s n (f enc)) -> blind (modify f).
Proof. intros H s n enc. unfold modify. by rewrite H. Qed.

Lemma blind_hinfos f : blind (part qpe_hinfos set_hinfos f).
Proof. intros s n enc. unfold part. cbn [aside set_bytes_out set_dec_stream_state qpe_hinfos]. by destruct (f (qpe_hinfos enc)). Qed.

Lemma blind_update : blind enc_update_risked.
Proof. intros s n enc. apply blind_hinfos. Qed.

Lemma blind_header_ack stream_id : blind (enc_proc_header_ack stream_id).
Proof.
  unfold enc_proc_header_ack. destruct (_ >? _); [apply blind_ret|]. apply blind_get; [done|]. intros enc.
  destruct (find_acked _ _ _ _) as [p|]; [|apply blind_ret].
  apply blind_bind; [|intros _; apply blind_bind; [apply blind_hinfos|intros _; apply blind_ret]].
  destruct (_ >? _); [|apply blind_ret]. apply blind_bind; [apply blind_hinfos|]. intros _.
  apply blind_bind; [by apply blind_modify|]. intros _. apply blind_update.
Qed.

Lemma blind_ici ins_count : blind (enc_proc_ici ins_count).
Proof.
  unfold enc_proc_ici. destruct (_ =? _); [apply blind_ret|]. destruct (ins_count >? _); [apply blind_ret|].
  apply blind_get; [done|]. intros enc. destruct (_ >? u64 _); [apply blind_ret|].
  apply blind_bind; [|intros _; apply blind_ret]. destruct (_ >? _); [|apply blind_ret].
  apply blind_bind; [by apply blind_modify|]. intros _. apply blind_bind; [by apply blind_modify|]. intros _. apply blind_update.
Qed.

Lemma blind_cancel_loop stream_id ps : blind (cancel_loop stream_id ps).
Proof.
  induction ps as [|p ps IH]; cbn [cancel_loop]; [apply blind_ret|]. apply blind_get; [done|]. intros enc.
  apply blind_bind; [|done]. destruct (_ =? _); [|apply blind_ret].
  apply blind_bind; [destruct (qenc_hinfo_at_risk _ _); [apply blind_hinfos|apply blind_ret]|]. intros _. apply blind_hinfos.
Qed.

Lemma blind_perform i : blind (perform i).
Proof.
  destruct i; cbn [perform]; [apply blind_header_ack| |apply blind_ici]. unfold enc_proc_stream_cancel.
  destruct (_ >? _); [apply blind_ret|]. apply blind_bind; [by apply blind_gets|]. intros ps.
  apply blind_bind; [apply blind_cancel_loop|]. intros _. apply blind_ret.
Qed.

Lemma blind_performs l : blind (performs l).
Proof.
  induction l as [|i l IH]; cbn [performs]; [apply blind_ret|]. apply blind_bind; [apply blind_perform|].
  intros []; [done|apply blind_ret].
Qed.

(** The instructions [l] were carried out with the result [ok], the reader apart. *)
Definition performed (l : list dec_instruction) (enc : lsqpack_enc) (ok : bool) (enc' : lsqpack_enc) : Prop :=
  exists enc1, performs l enc = Some (ok, enc1) /\ apart enc1 enc'.

Lemma performed_apart l enc enc0 ok enc' : apart enc enc0 -> performed l enc0 ok enc' -> performed l enc ok enc'.
Proof.
  intros (s & n & ->) (enc1 & E & Ha). rewrite (blind_performs l) in E. destruct (performs l enc) as [[ok2 enc2]|] eqn:Ep; [|done].
  cbn in E. injection E as -> <-. exists enc2. split; [done|]. eapply apart_trans; [|exact Ha]. by exists s, n.
Qed.

Lemma performed_cons i l enc enc1 ok enc' :
  perform i enc = Some (true, enc1) -> performed l enc1 ok enc' -> performed (i :: l) enc ok enc'.
Proof. intros E (enc2 & E2 & Ha). exists enc2. split; [|done]. cbn [performs]. unfold mbind, st_m_bind. by rewrite E. Qed.

Lemma performed_failed i enc enc1 : perform i enc = Some (false, enc1) -> performed [i] enc false enc1.
Proof. intros E. exists enc1. split; [|apply apart_refl]. cbn [performs]. unfold mbind, st_m_bind. by rewrite E. Qed.

Lemma performed_app l1 l2 enc enc1 ok enc2 :
  performed l1 enc true enc1 -> performed l2 enc1 ok enc2 -> performed (l1 ++ l2) enc ok enc2.
Proof.
  revert enc. induction l1 as [|i l1 IH]; intros enc (e & E & Ha) H2; cbn [performs app] in *.
  - injection E as <-. by eapply performed_apart.
  - unfold mbind, st_m_bind in E. destruct (perform i enc) as [[[] e1]|] eqn:Ei; [|discriminate E|discriminate E].
    eapply performed_cons; [exact Ei|]. apply IH; [by exists e|done].
Qed.

(** ** Reading *)

Lemma read_dec_local : local read_dec_instruction.
Proof.
  intros [|b src] i rest Hb H; [done|]. cbn [read_dec_instruction] in H. destruct (Z.testbit b 7) eqn:E7.
  - eapply (local_head _ DSectionAck read_dec_instruction); [exact (read_int_local 7 ltac:(lia))|done|exact Hb| |cbn [read_dec_instruction]; by rewrite E7].
    intros s. cbn [read_dec_instruction]. by rewrite E7.
  - eapply (local_head _ (fun n => if Z.testbit b 6 then DStreamCancel n else DInsertCount n) read_dec_instruction);
      [exact (read_int_local 6 ltac:(lia))|done|exact Hb| |cbn [read_dec_instruction]; by rewrite E7].
    intros s. cbn [read_dec_instruction]. by rewrite E7.
Qed.

(** The state an integer starts from has no influence. *)
Lemma dec_loop_unresumed st src : dis_resume st = false -> forall c v m,
  dec_int_loop st c v m src = dec_int_loop dec_int_fresh c v m src.
Proof. intros Hr. induction src as [|b src IH]; intros c v m; cbn [dec_int_loop]; [by rewrite Hr|by rewrite IH]. Qed.

Lemma dec_int_unresumed st b0 src p : dis_resume st = false ->
  lsqpack_dec_int b0 src p st = lsqpack_dec_int b0 src p dec_int_fresh.
Proof. intros Hr. unfold lsqpack_dec_int. rewrite Hr. by rewrite dec_loop_unresumed. Qed.

(** The first byte says which instruction it is. *)
Lemma read_dec_head b0 src : is_u8 b0 ->
  read_dec_instruction (b0 :: src) =
  '(v, rest) ← read_int_at (fst (dec_stream_inst b0)) dec_int_fresh (b0 :: src); Some (inst_of (snd (dec_stream_inst b0)) v, rest).
Proof.
  intros Hb. cbn [read_dec_instruction]. unfold dec_stream_inst. change 0x80 with (2 ^ 7). rewrite (has_bits_pow2 b0 7) by lia.
  destruct (Z.testbit b0 7) eqn:E7; [done|].
  assert ((Z.land b0 0xC0 =? 0) = negb (Z.testbit b0 6)) as ->.
  { apply eq_true_iff_eq. rewrite Z.eqb_eq, negb_true_iff. split.
    - intros E. apply (f_equal (fun z => Z.testbit z 6)) in E. rewrite Z.land_spec in E. change (Z.testbit 192 6) with true in E.
      by rewrite andb_true_r in E.
    - intros E6. apply Z.bits_inj'. intros k Hk. rewrite Z.land_spec, Z.bits_0.
      destruct (Z.eq_dec k 6) as [->|]; [by rewrite E6|]. destruct (Z.eq_dec k 7) as [->|]; [by rewrite E7|].
      change 192 with (Z.lor (2 ^ 6) (2 ^ 7)). rewrite Z.lor_spec, !Z.pow2_bits_false by lia. by rewrite andb_false_r. }
  destruct (Z.testbit b0 6); done.
Qed.

(** ** Between calls *)

Local Abbreviation st_of enc := (dss_dec_int_state (qpe_dec_stream_state enc)).

(** What will be read from the bytes to come. *)
Definition next_inst (enc : lsqpack_enc) (buf : bytes) : option (dec_instruction * bytes) :=
  if dis_resume (st_of enc) then
    match dss_handler (qpe_dec_stream_state enc) with
    | Some h => '(v, rest) ← read_int_at 0 (st_of enc) buf; Some (inst_of h v, rest)
    | None => None
    end
  else read_dec_instruction buf.

(** The encoder has read the beginning [pend] of an instruction. *)
Definition listening (enc : lsqpack_enc) (pend : bytes) : Prop :=
  enc_ok enc /\ idle enc /\ stream_ok enc /\ is_bytes pend
  /\ forall r, next_inst enc r = read_dec_instruction (pend ++ r).

(** The bytes [rest] cannot begin an instruction: the integer is too large. *)
Definition hopeless (rest : bytes) : Prop :=
  rest <> [] /\ forall more, read_dec_instruction (rest ++ more) = None.

(** What the bytes [stream] did to an encoder: they were carried out as far as they are
    complete; or an instruction failed, or its integer is too large. *)
Definition heard (enc : lsqpack_enc) (stream : bytes) (ok : bool) (enc' : lsqpack_enc) : Prop :=
  exists b l rest, stream = b ++ rest /\ dec_instructions b l /\
    if ok then performed l enc true enc' /\ listening enc' rest
    else performed l enc false enc' \/ (performed l enc true enc' /\ hopeless rest).

Lemma heard_apart enc enc0 stream ok enc' : apart enc enc0 -> heard enc0 stream ok enc' -> heard enc stream ok enc'.
Proof.
  intros Ha (b & l & rest & E & Hl & H). exists b, l, rest. split; [done|]. split; [done|].
  assert (forall o, performed l enc0 o enc' -> performed l enc o enc') as Hp by (intros o; by apply performed_apart).
  destruct ok; [|destruct H as [H|[H1 H2]]; [left|right]]; try (split; [|by destruct H]); auto. destruct H. auto.
Qed.

Lemma heard_cons used i rest enc enc1 ok enc' :
  is_dec_instruction used i -> perform i enc = Some (true, enc1) -> heard enc1 rest ok enc' -> heard enc (used ++ rest) ok enc'.
Proof.
  intros Hi E (b & l & rest' & -> & Hl & H). exists (used ++ b), (i :: l), rest'. split; [by rewrite app_assoc|].
  split; [by constructor|].
  assert (forall o, performed l enc1 o enc' -> performed (i :: l) enc o enc') as Hp by (intros o; by apply performed_cons).
  destruct ok; [destruct H; auto|]. destruct H as [H|[H1 H2]]; auto.
Qed.

Lemma heard_failed used i rest enc enc1 :
  is_dec_instruction used i -> perform i enc = Some (false, enc1) -> heard enc (used ++ rest) false enc1.
Proof.
  intros Hi E. exists used, [i], rest. split; [done|].
  split; [rewrite <- (app_nil_r used); constructor; [done|constructor]|]. left. by apply performed_failed.
Qed.

Lemma heard_nothing enc enc' pend : apart enc enc' -> listening enc' pend -> heard enc pend true enc'.
Proof. intros Ha Hl. exists [], [], pend. split; [done|]. split; [constructor|]. split; [|done]. by exists enc. Qed.

Lemma listening_idle enc enc' pend : listening enc pend -> peer_run enc enc' -> enc_ok enc' /\ idle enc'.
Proof. intros (_ & Hi & _) H. split; [by eapply peer_run_ok|by eapply peer_run_idle]. Qed.

(** The first round on a chunk: the reader and the prefix are those of [pend]. *)
Lemma wp_prefix b0 src pend enc : is_bytes (b0 :: src) -> listening enc pend ->
  wp (if dis_resume (st_of enc) then mret 0
      else let '(prefix_bits, h) := dec_stream_inst b0 in modify (set_handler h);; mret prefix_bits) enc
    (fun p enc1 => apart enc enc1 /\ enc_ok enc1 /\ idle enc1 /\ st_of enc1 = st_of enc /\ int_start p (st_of enc)
      /\ exists h, dss_handler (qpe_dec_stream_state enc1) = Some h /\ forall more,
           read_dec_instruction (pend ++ (b0 :: src) ++ more)
           = '(v, rest) ← read_int_at p (st_of enc) ((b0 :: src) ++ more); Some (inst_of h v, rest)).
Proof.
  intros Hb (Hok & Hi & [Hwf Hh] & Hp & Hn). destruct (dis_resume (st_of enc)) eqn:Er.
  - apply wp_ret. split; [apply apart_refl|]. split; [done|]. split; [done|]. split; [done|]. split; [split; [done|by left]|].
    destruct (dss_handler (qpe_dec_stream_state enc)) as [h|] eqn:Eh; [|by destruct (Hh eq_refl)]. exists h. split; [done|].
    intros more. rewrite <- Hn. unfold next_inst. by rewrite Er, Eh.
  - pose proof (dec_stream_inst_prefix b0) as Hpre. pose proof (read_dec_head b0) as Hhead.
    destruct (dec_stream_inst b0) as [p h]. cbn [fst snd] in *. unfold set_handler. wpsteps.
    split; [apply apart_stream|]. split; [by apply set_stream_ok|]. split; [done|]. split; [done|]. split; [split; [done|by right]|].
    exists h. split; [done|]. intros more. rewrite <- Hn. unfold next_inst. rewrite Er.
    apply Forall_cons in Hb as [Hb0 _]. cbn [app]. rewrite Hhead by done. cbn [read_int_at]. by rewrite (dec_int_unresumed _ _ _ _ Er).
Qed.

(** After an instruction the reader starts afresh. *)
Lemma listening_fresh enc : enc_ok enc -> idle enc -> dis_resume (st_of enc) = false -> listening enc [].
Proof.
  intros Hok Hi Hr. split; [done|]. split; [done|]. split; [split; congruence|]. split; [by apply Forall_nil|].
  intros r. unfold next_inst. by rewrite Hr.
Qed.

Lemma wp_listen_loop fuel : forall buf pend enc,
  (length buf <= fuel)%nat -> is_bytes buf -> listening enc pend ->
  wp (decoder_in_loop fuel buf) enc (fun r enc' => heard enc (pend ++ buf) (bool_decide (is_Some r)) enc').
Proof.
  induction fuel as [|fuel IH]; intros [|b0 src] pend enc Hf Hb Hl; cbn [decoder_in_loop]; try (cbn in Hf; lia);
    try (apply wp_ret; rewrite app_nil_r; apply heard_nothing; [apply apart_refl|done]).
  wpsteps. eapply wp_mono; [by apply (wp_prefix b0 src pend enc)|].
  intros p enc1 (Ha & Hok1 & Hi1 & Est & Hst & h & Eh & Hread). wpsteps. rewrite Est, Eh.
  pose proof (dec_int_call b0 src p (st_of enc) Hb Hst) as Hd.
  assert (is_bytes (pend ++ b0 :: src)) as Hpb by (apply Forall_app; split; [apply Hl|done]).
  destruct (lsqpack_dec_int b0 src p (st_of enc)) as [v rest|st'|].
  - destruct Hd as (Hv & (used & Hu & Hne) & Hr).
    assert (read_dec_instruction (pend ++ b0 :: src) = Some (inst_of h v, rest)) as Hread0.
    { specialize (Hread []). specialize (Hr []). rewrite !app_nil_r in *. by rewrite Hread, Hr. }
    destruct (read_dec_local _ _ _ Hpb Hread0) as (whole & Ew & Hw). rewrite Ew.
    wpstep. rewrite run_handler_perform. pose proof (wp_run_handler h v enc1 Hok1 Hi1 ltac:(apply Hv)) as Hwp.
    rewrite run_handler_perform in Hwp. unfold wp in *. destruct (perform (inst_of h v) enc1) as [[ok enc2]|] eqn:Ep; [|done].
    pose proof (ps_ok _ _ Hwp) as Hok2. pose proof (peer_idle _ _ Hwp Hi1) as Hi2. destruct ok.
    + set (enc3 := set_dec_int_state (with_resume false (st_of enc2)) enc2).
      assert (listening enc3 []) as Hl3 by (apply listening_fresh; [by apply set_stream_ok|done|done]).
      assert (is_bytes rest) as Hrb by (rewrite Hu in Hb; by apply Forall_app in Hb as [_ ?]).
      assert (length rest <= fuel)%nat as Hfr.
      { apply (f_equal length) in Hu. rewrite length_app in Hu. destruct used; [done|]. cbn in Hu, Hf. lia. }
      eapply wp_mono; [by apply (IH rest [] enc3)|]. intros r enc' H. cbn [app] in H.
      eapply heard_apart; [exact Ha|]. eapply heard_cons; [exact Hw|exact Ep|]. eapply heard_apart; [|exact H]. apply apart_stream.
    + eapply heard_apart; [exact Ha|]. by eapply heard_failed.
  - destruct Hd as [[Hwf' Hr'] Hr]. wpsteps. rewrite bool_decide_true by done. apply heard_nothing.
    + eapply apart_trans; [exact Ha|]. apply apart_stream.
    + split; [by apply set_stream_ok|]. split; [done|]. split.
      { split; [intros _; by apply Hwf'|]. intros _. cbn. by rewrite Eh. }
      split; [done|]. intros r. unfold next_inst. cbn. rewrite Eh, <- app_assoc, Hread, Hr.
      destruct st' as [rs m nr vl]. cbn in Hr'. by subst rs.
  - wpsteps. rewrite bool_decide_false by (by intros []). exists [], [], (pend ++ b0 :: src). split; [done|].
    split; [constructor|]. right. split; [by exists enc|]. split; [by destruct pend|].
    intros more. rewrite <- app_assoc, Hread, Hd. done.
Qed.

(** ** A call, and the calls for all chunks *)

Lemma dec_instructions_app b1 l1 b2 l2 :
  dec_instructions b1 l1 -> dec_instructions b2 l2 -> dec_instructions (b1 ++ b2) (l1 ++ l2).
Proof. intros H1 H2. induction H1; [done|]. rewrite <- app_assoc. by constructor. Qed.

(** The chunk after a chunk. *)
Lemma heard_next b l rest buf enc enc1 ok enc' :
  dec_instructions b l -> performed l enc true enc1 -> heard enc1 (rest ++ buf) ok enc' ->
  heard enc ((b ++ rest) ++ buf) ok enc'.
Proof.
  intros Hb Hp (b2 & l2 & rest2 & E & Hb2 & H). exists (b ++ b2), (l ++ l2), rest2.
  split; [by rewrite <- !app_assoc, E|]. split; [by apply dec_instructions_app|].
  destruct ok; [destruct H as [H HL]; split; [by eapply performed_app|done]|].
  destruct H as [H|[H HL]]; [left; by eapply performed_app|right; split; [by eapply performed_app|done]].
Qed.

(** What comes after a failure changes nothing. *)
Lemma heard_unread stream more enc enc' : heard enc stream false enc' -> heard enc (stream ++ more) false enc'.
Proof.
  intros (b & l & rest & -> & Hb & H). exists b, l, (rest ++ more). split; [by rewrite app_assoc|]. split; [done|].
  destruct H as [H|(H & Hne & Hno)]; [by left|]. right. split; [done|]. split; [by destruct rest|].
  intros r. by rewrite <- app_assoc.
Qed.

Lemma listening_bytes n enc pend : listening enc pend -> listening (set_bytes_out n enc) pend.
Proof. intros (Hok & Hi & H). split; [|by split]. pose proof (ok_core _ Hok) as []. constructor; [by constructor|..]; apply Hok. Qed.

Lemma wp_decoder_chunk buf pend enc : is_bytes buf -> listening enc pend ->
  wp (lsqpack_enc_decoder_in buf) enc (fun ok enc' => heard enc (pend ++ buf) ok enc').
Proof.
  intros Hb Hl. unfold lsqpack_enc_decoder_in. wpstep. eapply wp_mono; [by apply (wp_listen_loop _ _ pend)|].
  intros [[]|] enc' H; cbn [bool_decide is_Some] in H; wpsteps; try done.
  destruct H as (b & l & rest & E & Hb' & (enc1 & Ep & Ha) & HL). exists b, l, rest. split; [done|]. split; [done|].
  split; [|by apply listening_bytes]. exists enc1. split; [done|]. eapply apart_trans; [exact Ha|].
  eexists (qpe_dec_stream_state enc'), _. reflexivity.
Qed.

Lemma wp_chunks chunks : forall pend enc, Forall is_bytes chunks -> listening enc pend ->
  wp (listen chunks) enc (fun ok enc' => heard enc (pend ++ concat chunks) ok enc').
Proof.
  induction chunks as [|buf chunks IH]; intros pend enc Hb Hl; cbn [listen concat].
  - apply wp_ret. rewrite app_nil_r. by apply heard_nothing; [apply apart_refl|].
  - apply Forall_cons in Hb as [Hb Hbs]. wpstep. eapply wp_mono; [by apply wp_decoder_chunk|].
    intros [] enc1 H; rewrite app_assoc; [|apply wp_ret; by apply heard_unread].
    destruct H as (b & l & rest & -> & Hb' & Hp & HL). eapply wp_mono; [by apply (IH rest)|].
    intros ok enc' H. by eapply heard_next.
Qed.

(** What is left waits for more: it is not an instruction. *)
Lemma listening_waits enc rest : listening enc rest -> read_dec_instruction rest = None.
Proof.
  intros (_ & _ & _ & _ & Hn). rewrite <- (app_nil_r rest), <- Hn. unfold next_inst.
  destruct (dis_resume _); [|done]. by destruct (dss_handler _).
Qed.

(** C12: the decoder stream, whatever chunks it comes in, is carried out as the decoder
    instructions of RFC 9204, section 4.4, that its bytes spell.  The calls succeed if
    every instruction that is complete does, and the rest is then kept for later; they
    fail if one of the instructions does, those before it having been carried out, or if
    the bytes after them can begin no instruction.  Nothing but the reader's own state
    and a byte count differs. *)
Theorem decoder_stream_heard chunks enc :
  enc_ok enc -> idle enc -> dis_resume (st_of enc) = false -> Forall is_bytes chunks ->
  exists ok enc' b l rest, listen chunks enc = Some (ok, enc')
    /\ concat chunks = b ++ rest /\ dec_instructions b l
    /\ if ok then performed l enc true enc' /\ read_dec_instruction rest = None
       else performed l enc false enc' \/ (performed l enc true enc' /\ hopeless rest).
Proof.
  intros Hok Hi Hr Hb. destruct (wp_run _ _ _ (wp_chunks chunks [] enc Hb (listening_fresh _ Hok Hi Hr)))
    as (ok & enc' & E & b & l & rest & Ec & Hl & H).
  exists ok, enc', b, l, rest. split; [done|]. split; [done|]. split; [done|].
  destruct ok; [|done]. destruct H as [H HL]. split; [done|by eapply listening_waits].
Qed.
