(* ===== verification/Acknowledge.v ===== *)
(** * The acknowledgement of a header block

    What the decoder writes at the end of a header block goes back to the encoder
    ([acknowledged]): it frees the block, and the encoder knows that every insertion the
    block refers to has been received. *)

From stdpp Require Import sets.
From S2P Require Import Prelude Monad IntCodec Rfc9204 EncTable EncHinfo EncState EncPolicy EncEncode Encoder.
From S2P Require Import EncInv EncAbs EncWire EncExec EncField EncOps EncPeer EncTrace EncBlock DecTable DecState.
From S2P Require Import DecEncIn DecTrace DecHeader DecHset DecProcess DecChunks DecHeaders Connection PeerStream.

(** ** One instruction on the decoder stream *)

Lemma no_instruction i : ~ is_dec_instruction [] i.
Proof. intros H. by specialize (H []). Qed.

(** The bytes of one instruction are only that. *)
Lemma one_instruction b i b' l rest : is_dec_instruction b i -> b = b' ++ rest -> dec_instructions b' l ->
  (l = [i] /\ rest = []) \/ (l = [] /\ rest = b).
Proof.
  intros Hi -> Hl. destruct Hl as [|b1 j bs l Hj Hl]; [by right|]. left. specialize (Hi []).
  rewrite app_nil_r, <- app_assoc, (Hj _) in Hi. injection Hi as -> Hrest. apply app_eq_nil in Hrest as [-> ->].
  split; [|done]. inversion Hl as [|b2 j2 bs2 l2 Hj2 Hl2 E]; [done|]. apply app_eq_nil in E as [-> _].
  by apply no_instruction in Hj2.
Qed.

(** An encoder that can carry the instruction out does, whatever chunks it comes in. *)
Lemma wp_listen_one chunks i enc enc1 : is_dec_instruction (concat chunks) i -> Forall is_bytes chunks ->
  enc_ok enc -> idle enc -> dis_resume (dss_dec_int_state (qpe_dec_stream_state enc)) = false ->
  perform i enc = Some (true, enc1) ->
  wp (listen chunks) enc (fun ok enc2 => ok = true /\ apart enc1 enc2).
Proof.
  intros Hi Hb Hok Hidle Hr Hp. eapply wp_mono; [apply (wp_chunks chunks [] enc Hb); by apply listening_fresh|].
  intros ok enc2 (b & l & rest & E & Hl & H). pose proof (Hi []) as Hread. rewrite app_nil_r in Hread.
  destruct (one_instruction _ _ _ _ _ Hi E Hl) as [[-> ->]|[-> ->]].
  - assert (forall o, performed [i] enc o enc2 -> o = true /\ apart enc1 enc2) as Hone.
    { intros o (e & Ee & Ha). cbn [performs] in Ee. unfold mbind, st_m_bind in Ee. rewrite Hp in Ee.
      injection Ee as <- <-. done. }
    destruct ok; [apply Hone, H|]. destruct H as [H|[_ [Hno _]]]; [by apply Hone|done].
  - exfalso. destruct ok.
    + destruct H as [_ HL]. apply listening_waits in HL. congruence.
    + destruct H as [(e & Ee & _)|[_ [_ Hno]]]; [done|]. specialize (Hno []). rewrite app_nil_r in Hno. congruence.
Qed.

Lemma wp_listen_nothing chunks enc : concat chunks = [] -> Forall is_bytes chunks -> enc_ok enc -> idle enc ->
  dis_resume (dss_dec_int_state (qpe_dec_stream_state enc)) = false ->
  wp (listen chunks) enc (fun ok enc2 => ok = true /\ apart enc enc2).
Proof.
  intros E Hb Hok Hidle Hr. eapply wp_mono; [apply (wp_chunks chunks [] enc Hb); by apply listening_fresh|].
  intros ok enc2 (b & l & rest & Eb & Hl & H). rewrite E in Eb. symmetry in Eb. apply app_eq_nil in Eb as [-> ->].
  assert (l = []) as ->.
  { inversion Hl as [|b1 j bs l1 Hj _ E1]; [done|]. apply app_eq_nil in E1 as [-> _]. by apply no_instruction in Hj. }
  destruct ok.
  - destruct H as [(e & Ee & Ha) _]. injection Ee as <-. done.
  - destruct H as [(e & Ee & _)|[_ [Hno _]]]; done.
Qed.

(** ** The acknowledgement of the last block *)

Lemma apart_same enc enc' : apart enc enc' ->
  qpe_max_acked_id enc' = qpe_max_acked_id enc /\ forall stream_id, outstanding enc' stream_id <-> outstanding enc stream_id.
Proof. intros (s & n & ->). done. Qed.

(** The block is the only one outstanding on its stream. *)
Lemma ack_closes enc stream_id ric enc' : enc_ok enc' -> left_open enc stream_id ric enc' -> ~ outstanding enc stream_id ->
  0 < ric -> stream_id <= MAX_QUIC_STREAM_ID ->
  exists enc1, enc_proc_header_ack stream_id enc' = Some (true, enc1) /\ ~ outstanding enc1 stream_id
    /\ qpe_max_acked_id enc1 = Z.max (qpe_max_acked_id enc) ric.
Proof.
  intros Hok [Hidle Ha [p0 Hall] Hj] Hno Hpos Hmax.
  destruct (wp_run _ _ _ (wp_header_ack stream_id enc' Hok Hidle)) as (b & enc1 & Hrun & Hp & Hf & Ht).
  destruct b; [|by destruct (Hf eq_refl) as [_ []]; split; [|apply Hj]]. exists enc1. split; [done|].
  assert (forall q, q ∈ all_hinfos enc' -> qhi_stream_id (hinfo_of enc' q) = stream_id ->
    q = p0 /\ qhi_max_id (hinfo_of enc' q) = ric) as Honly.
  { intros q Hq Hs. destruct (Hall q Hq) as [[Hold E]|(-> & _ & ->)]; [|done].
    destruct Hno. exists q. split; [done|congruence]. }
  destruct (Ht eq_refl) as (_ & p & Hin & Hs & Hgone & Hk). destruct (Honly p Hin Hs) as [-> Em]. split.
  - intros (q & Hq & Hsq). apply (ps_all _ _ Hp) in Hq as Hq'.
    pose proof (same_but_links_fields _ _ (ps_info _ _ Hp q)) as (E & _). rewrite E in Hsq.
    by destruct (Honly q Hq' Hsq) as [-> _].
  - by rewrite Hk, Em, Ha.
Qed.

(** Without references there is nothing to acknowledge. *)
Lemma nothing_open enc stream_id ric enc' : left_open enc stream_id ric enc' -> ~ outstanding enc stream_id -> ric <= 0 ->
  ~ outstanding enc' stream_id.
Proof.
  intros [_ _ [p Hall] _] Hno Hric (q & Hq & Hs). destruct (Hall q Hq) as [[Hold E]|(_ & ? & _)]; [|lia].
  destruct Hno. exists q. split; [done|congruence].
Qed.

(** What the decoder writes, at the encoder. *)
Lemma ack_heard enc stream_id ric enc' room ack chunks : enc_ok enc' -> left_open enc stream_id ric enc' ->
  ~ outstanding enc stream_id -> 0 <= ric -> 0 <= qpe_max_acked_id enc -> 0 <= stream_id <= MAX_QUIC_STREAM_ID ->
  dis_resume (dss_dec_int_state (qpe_dec_stream_state enc')) = false ->
  ack_bytes (0 <? ric) stream_id (Some room) = Some ack -> Forall is_bytes chunks -> concat chunks = ack ->
  exists enc2, listen chunks enc' = Some (true, enc2) /\ ~ outstanding enc2 stream_id
    /\ qpe_max_acked_id enc2 = Z.max (qpe_max_acked_id enc) ric.
Proof.
  intros Hok Hopen Hno Hric Ha Hid Hr Eack Hb E. pose proof (lo_idle _ _ _ _ Hopen) as Hidle. cbn [ack_bytes] in Eack.
  destruct (Z.ltb_spec 0 ric) as [Hpos|Hz].
  - destruct (put_int 0x80 room stream_id 7) as [b r|r] eqn:Ep; [|done]. injection Eack as ->.
    unfold MAX_QUIC_STREAM_ID in Hid. change (2 ^ 62 - 1) with 4611686018427387903 in Hid.
    destruct (put_int_spec 0x80 room stream_id 7 ack r) as [Hw _]; [lia|unfold is_u8; lia|done| |done|].
    { unfold is_u64. change (2 ^ 64) with 18446744073709551616. lia. }
    assert (is_dec_instruction (concat chunks) (DSectionAck stream_id)) as Hi.
    { rewrite E. intros tail. destruct (iw_head _ _ _ _ Hw tail) as (c & rest & Ec & Hc). rewrite Ec. cbn [read_dec_instruction].
      rewrite Hc by lia. change (Z.testbit 128 7) with true. cbn iota. by rewrite <- Ec, (iw_read _ _ _ _ Hw). }
    destruct (ack_closes enc stream_id ric enc' Hok Hopen Hno Hpos) as (enc1 & E1 & Hno1 & Ha1);
      [unfold MAX_QUIC_STREAM_ID; lia|].
    destruct (wp_run _ _ _ (wp_listen_one chunks _ enc' enc1 Hi Hb Hok Hidle Hr E1)) as (ok & enc2 & El & -> & Hap).
    exists enc2. destruct (apart_same _ _ Hap) as [-> Hout]. by rewrite Hout.
  - injection Eack as <-. destruct (wp_run _ _ _ (wp_listen_nothing chunks enc' E Hb Hok Hidle Hr)) as (ok & enc2 & El & -> & Hap).
    exists enc2. destruct (apart_same _ _ Hap) as [-> Hout]. rewrite Hout, (lo_acked _ _ _ _ Hopen). split; [done|]. split; [|lia].
    by eapply nothing_open.
Qed.

Section acknowledge.
Context {hset : Type} `{!HsetIf hset} `{!HsetOk hset}.
Variables (max : Z).
Hypothesis Hmax : 0 <= max <= 2 ^ 22.

Implicit Types (app : hset).

Local Abbreviation M := (max / 32).

(** C2: the way there and back.  An encoder makes a header block on a stream that has none
    outstanding; the decoder gives its application the fields; what the decoder writes
    then, in any pieces, is accepted by the encoder: no block of the stream is
    outstanding any more, and the known received count has reached the Required Insert
    Count that the block was written with. *)
Theorem block_acknowledged dyn_size erisked eopts tsu ems out enc0 bs enc stream_id seqno l buf stream block enc'
  risked opts app ms chunks echunks hblock pieces tail room :
  is_u32 dyn_size -> is_u32 erisked -> is_u32 risked -> 0 < risked ->
  lsqpack_enc_init (lsqpack_enc_preinit ems) max dyn_size erisked eopts tsu = (ENC_OK, out, enc0) ->
  run enc0 bs enc -> arrs_guarded enc -> Forall field_call_ok l ->
  encode_block stream_id seqno l buf enc = Some ((stream, Some block), enc') ->
  Forall is_Some ms -> app_willing -> Forall chunk_ok chunks -> Forall chunk_ok echunks -> Forall chunk_ok pieces ->
  concat chunks ++ concat echunks = (out ++ bs) ++ stream -> concat pieces = block ++ tail ->
  l <> [] -> Forall line_fits l -> (forall dyn, is_Some (ack_bytes dyn stream_id (Some room))) -> is_u64 (Z.of_nat (length block)) ->
  0 <= stream_id <= MAX_QUIC_STREAM_ID -> ~ outstanding enc stream_id ->
  dis_resume (dss_dec_int_state (qpe_dec_stream_state enc')) = false ->
  exists dec t1, feed chunks (lsqpack_dec_init max risked opts app ms) = Some (0, dec) /\ holds dec t1
    /\ (qpe_ins_count (qpe_table enc') <= dt_inserted t1 + M ->
        exists ack, block_arrives hblock stream_id block pieces echunks tail (Some room) ack opts l app dec
          /\ forall achunks, Forall is_bytes achunks -> concat achunks = ack ->
             exists enc2 ric base rest, listen achunks enc' = Some (true, enc2) /\ ~ outstanding enc2 stream_id
               /\ read_prefix M (qpe_ins_count (qpe_table enc')) block = Some (ric, base, rest)
               /\ qpe_max_acked_id enc2 = Z.max (qpe_max_acked_id enc) ric).
Proof.
  intros Hds Her Hr Hrisk Hinit Hrun Hg Hl He Hms Hwill Hc1 Hc2 Hpc Ecat Ep Hne Hlf Hack Hlen Hid Hno Hres.
  destruct (block_across max Hmax dyn_size erisked eopts tsu ems out enc0 bs enc stream_id seqno l buf stream block enc'
    risked opts app ms chunks echunks hblock pieces tail (Some room))
    as (ric & reps & dec & t1 & Hrd & Hbf & Hopen & Ha & Ef & Hh & H); [done..|].
  exists dec, t1. split; [exact Ef|]. split; [exact Hh|]. intros (ack & Eack & Harr)%H. exists ack. split; [exact Harr|].
  intros achunks Hb E. destruct (bk_range _ _ _ _ _ _ Hbf) as [Hric Hric']. cbn [abs_table dt_inserted] in Hric, Hric'.
  destruct (bk_valid _ _ _ _ _ _ Hbf (qpe_ins_count (qpe_table enc'))) as (base & (rest & Hpre & _) & _); [lia|lia|].
  destruct (ack_heard enc stream_id ric enc' room ack achunks (proj1 Hrd) Hopen Hno (proj1 Hric) Ha Hid Hres Eack Hb E)
    as (enc2 & El & Hno2 & Ha2).
  exists enc2, ric, base, rest. done.
Qed.
End acknowledge.
