(* ===== verification/DecExamples.v ===== *)
(** * The decoder at work

    Concrete decoders, fed with the stream of the encoder of [EncExamples] or with
    streams of their own, on which the theorems about the decoder are applied. *)

From Stdlib Require Import String.
From stdpp Require Import gmap.
From S2P Require Import Prelude Monad IntCodec HuffTables Huffman HuffStream StrCodec Xxhash.
From S2P Require Import StaticTable Ringbuf Rfc9204 EncTable EncState EncAbs EncTrace EncExamples.
From S2P Require Import DecTable DecState DecStream DecSpec DecBlocked DecStrings DecReading.
From S2P Require Import DecCore DecRounds DecEncIn DecCleanup DecTrace.

(** An application that keeps the header blocks it was told about. *)
#[local] Instance log_app : HsetIf (list Z) := {
  dhi_unblocked hblock log := log ++ [hblock];
  dhi_prepare_decode hblock xhdr space log := (xhdr, log);
  dhi_process_header hblock xhdr log := (0, log);
}.

Definition ex_dec : lsqpack_dec (list Z) := lsqpack_dec_init 4096 10 0 [] ex_mallocs.

(** Bytes one at a time. *)
Definition one_by_one (bs : bytes) : list bytes := (fun b => [b]) <$> bs.

Lemma one_by_one_concat bs : concat (one_by_one bs) = bs.
Proof. induction bs as [|b bs IH]; [done|]. cbn. by f_equal. Qed.

Lemma one_by_one_ok bs : is_bytes bs -> Forall chunk_ok (one_by_one bs).
Proof. intros H. apply Forall_fmap. eapply Forall_impl; [exact H|]. intros b Hb. split; [by constructor|done]. Qed.

Definition bytes_ok (bs : bytes) : bool := forallb (fun b => (0 <=? b) && (b <? 256)) bs.

Lemma bytes_ok_spec bs : bytes_ok bs = true -> is_bytes bs.
Proof.
  unfold bytes_ok. rewrite forallb_forall. intros H. apply Forall_forall. intros b Hb.
  apply list_elem_of_In, H in Hb. unfold is_u8. lia.
Qed.

Lemma ex_mallocs_succeed : Forall is_Some ex_mallocs.
Proof. apply Forall_replicate. by eexists. Qed.

(** ** A stream of its own *)

(** Capacity 220, an insertion with the name of static entry 0 and a Huffman-coded
    value, one with a literal name, a duplicate. *)
Definition ex_stream : bytes :=
  [0x3f; 0xbd; 0x01] ++ [0xc0; 0x8c; 0xf1; 0xe3; 0xc2; 0xe5; 0xf2; 0x3a; 0x6b; 0xa0; 0xab; 0x90; 0xf4; 0xff]
  ++ [0x43; 0x78; 0x2d; 0x61; 0x01; 0x62] ++ [0x01].

Definition ex_insts : list instruction :=
  [ISetCapacity 220; IInsertStaticName 0 (str_bytes "www.example.com"%string);
   IInsertLiteral (str_bytes "x-a"%string) (str_bytes "b"%string); IDuplicate 1].

Lemma ex_stream_bytes : is_bytes ex_stream.
Proof. apply bytes_ok_spec. vm_compute. reflexivity. Qed.

(** A stream [read_instructions] reads is made of instructions. *)
Lemma read_instructions_sound fuel bs l :
  is_bytes bs -> read_instructions fuel bs = Some l -> instructions bs l.
Proof.
  revert bs l. induction fuel as [|fuel IH]; intros [|b bs] l Hb; cbn [read_instructions];
    try (by intros [= <-]; apply instructions_nil); try done.
  destruct (read_instruction (b :: bs)) as [[i rest]|] eqn:E; [|done]. cbn [mbind option_bind].
  destruct (read_instruction_local _ _ _ Hb E) as (used & Hu & Ht). rewrite Hu in Hb |- *.
  apply Forall_app in Hb as [_ Hb]. destruct (read_instructions fuel rest) as [l'|] eqn:El; [|done].
  intros [= <-]. constructor; [exact Ht|by apply IH].
Qed.

Lemma ex_instructions : instructions ex_stream ex_insts.
Proof.
  apply (read_instructions_sound 24); [exact ex_stream_bytes|]. vm_compute. reflexivity.
Qed.

Definition ex_table : dyn_table := default (Dyn 0 0 []) (spec_applys 4096 (Dyn 0 4096 []) ex_insts).

Lemma ex_table_eq : spec_applys 4096 (Dyn 0 4096 []) ex_insts = Some ex_table.
Proof. vm_compute. reflexivity. Qed.

Example ex_table_entries : dt_entries ex_table =
  [(str_bytes ":authority"%string, str_bytes "www.example.com"%string);
   (str_bytes "x-a"%string, str_bytes "b"%string);
   (str_bytes ":authority"%string, str_bytes "www.example.com"%string)].
Proof. vm_compute. reflexivity. Qed.

(** A byte at a time, and the result. *)
Example ex_feed :
  (fun r => (fst r, ringbuf_count (qpd_dyn_table (qpd_tab (snd r))))) <$> feed (one_by_one ex_stream) ex_dec
  = Some (0, 3).
Proof. vm_compute. reflexivity. Qed.

Lemma valid_stream_accepted_witness :
  exists dec, feed (one_by_one ex_stream) ex_dec = Some (0, dec) /\ holds dec ex_table.
Proof.
  apply (valid_stream_accepted 4096 10 0 [] ex_mallocs (one_by_one ex_stream) ex_insts ex_table).
  - lia.
  - exact ex_mallocs_succeed.
  - exact (one_by_one_ok _ ex_stream_bytes).
  - rewrite one_by_one_concat. exact ex_instructions.
  - exact ex_table_eq.
Defined.

(** The same stream with a byte missing and then nonsense: an index into the static
    table that is out of range. *)
Definition ex_bad_chunks : list bytes := [removelast ex_stream; [0xff; 0x7f]; [0x01; 0x61]].

Lemma ex_bad_chunks_ok : Forall chunk_ok ex_bad_chunks.
Proof.
  repeat (apply Forall_cons; split; [split; [apply bytes_ok_spec; vm_compute; reflexivity|vm_compute; reflexivity]|]).
  by apply Forall_nil.
Qed.

Lemma enc_in_reads_stream_witness :
  exists r dec, feed ex_bad_chunks ex_dec = Some (r, dec)
    /\ exists b rest l t, concat ex_bad_chunks = b ++ rest /\ instructions b l
    /\ dec_applys 4096 (Dyn 0 4096 []) l = Some t
    /\ ((r = 0 /\ read_instruction rest = None /\ holds dec t)
        \/ (r = -1 /\ rest <> []
            /\ (mallocs_succeed ex_mallocs = true -> 4096 <= 2 ^ 22 -> forall more i tail, is_bytes more ->
                  read_instruction (rest ++ more) = Some (i, tail) -> spec_apply 4096 t i = None))).
Proof.
  apply (enc_in_reads_stream 4096 10 0 [] ex_mallocs ex_bad_chunks); [lia|exact ex_bad_chunks_ok].
Defined.

Example ex_bad_result : (fst <$> feed ex_bad_chunks ex_dec) = Some (-1).
Proof. vm_compute. reflexivity. Qed.

(** ** The encoder's stream *)

Definition ex_enc_stream : bytes := snd (fst ex_init) ++ ex_bytes.

Lemma encoder_decoder_in_sync_witness :
  exists dec t, feed (one_by_one ex_enc_stream) ex_dec = Some (0, dec)
    /\ holds dec t /\ same_entries (abs_table (qpe_table ex_enc4)) t.
Proof.
  apply (encoder_decoder_in_sync 4096 4096 10 LSQPACK_ENC_OPT_IX_AGGR (Some (replicate 6 0)) ex_mallocs
    (snd (fst ex_init)) ex_enc0 ex_bytes ex_enc4 10 0 [] ex_mallocs (one_by_one ex_enc_stream)).
  - lia.
  - exact u32_4096.
  - exact u32_10.
  - exact ex_init_eq.
  - exact ex_run.
  - exact ex_mallocs_succeed.
  - apply one_by_one_ok, bytes_ok_spec. vm_compute. reflexivity.
  - apply one_by_one_concat.
Defined.

(** ** Lookups *)

Definition ex_dec3 : lsqpack_dec (list Z) :=
  match feed (one_by_one ex_stream) ex_dec with Some (_, dec) => dec | None => ex_dec end.

Lemma ex_dec3_holds : holds ex_dec3 ex_table.
Proof.
  unfold ex_dec3.
  destruct (feed_valid 4096 true (one_by_one ex_stream) ex_insts (Dyn 0 4096 []) ex_table ex_dec)
    as (dec & -> & H); [done|lia| |exact (one_by_one_ok _ ex_stream_bytes)| |exact ex_table_eq|exact H].
  - apply init_decoding; [lia|]. intros _. exact ex_mallocs_succeed.
  - rewrite one_by_one_concat. exact ex_instructions.
Qed.

Lemma get_table_entry_correct_witness :
  entry_fields (qpd_tab ex_dec3) (qdec_get_table_entry_rel (qpd_tab ex_dec3) 1)
    = Some (str_bytes "x-a"%string, str_bytes "b"%string)
  /\ entry_fields (qpd_tab ex_dec3) (qdec_get_table_entry_abs (qpd_tab ex_dec3) 1)
    = Some (str_bytes "x-a"%string, str_bytes "b"%string).
Proof.
  destruct (get_table_entry_correct ex_dec3 ex_table ex_dec3_holds) as [H1 H2]. split.
  - rewrite (H1 1 ltac:(lia)). vm_compute. reflexivity.
  - specialize (H2 2). assert (qpd_max_entries (qpd_tab ex_dec3) = 128) as HM by (vm_compute; reflexivity).
    rewrite HM in H2. change ((2 - 1) mod (2 * 128)) with 1 in H2. rewrite H2; [vm_compute; reflexivity|lia|].
    change (dt_inserted ex_table) with 3. lia.
Defined.

(** ** A blocked header block *)

(** It waits for the first insertion, another for the second. *)
Definition ex_ctx (hblock largest_ref : Z) : header_block_read_ctx :=
  {| hbrc_hblock := hblock; hbrc_stream_id := 4; hbrc_orig_size := 3; hbrc_size := 1;
     hbrc_largest_ref := largest_ref; hbrc_base_index := largest_ref; hbrc_header_count := 0;
     hbrc_out := no_out; hbrc_parse := PARSE_DATA DATA_STATE_NEXT_INSTRUCTION;
     hbrc_flags := HBRC_LARGEST_REF_SET |}.

Definition ex_cs0 : read_ctxs := insert_ctx (ex_ctx 71 1) (insert_ctx (ex_ctx 70 0) no_ctxs).
Definition ex_on_list (hblock largest_ref : Z) : header_block_read_ctx :=
  set_hbrc_flags (Z.lor HBRC_LARGEST_REF_SET HBRC_ON_LIST) (ex_ctx hblock largest_ref).
Definition ex_cs : read_ctxs := block 2 (ex_on_list 71 1) (block 1 (ex_on_list 70 0) ex_cs0).

Lemma ex_cs_ok : ctxs_ok 0 128 ex_cs.
Proof.
  assert (ctxs_ok 0 128 ex_cs0) as H by (do 2 (apply insert_ctx_ok; [|reflexivity]); apply no_ctxs_ok).
  apply block_ctx_ok; [apply block_ctx_ok; [exact H|reflexivity..| |]|reflexivity..| |].
  - exists 1. split; [lia|]. by split.
  - vm_compute. reflexivity.
  - exists 2. split; [lia|]. by split.
  - vm_compute. reflexivity.
Qed.

(** The decoder when the first entry has been inserted. *)
Definition ex_dec_blocked : lsqpack_dec (list Z) :=
  set_tab (with_ring (qpd_dyn_table (qpd_tab ex_dec)) 0 0 (qpd_tab ex_dec)) (set_ctxs ex_cs ex_dec).

Lemma process_blocked_exact_witness :
  exists dec', qdec_process_blocked_headers ex_dec_blocked = Some (tt, dec') /\ qpd_app dec' = [70]
    /\ (is_blocked <$> cx_mem (qpd_ctxs dec') !! 1) = Some false
    /\ (is_blocked <$> cx_mem (qpd_ctxs dec') !! 2) = Some true.
Proof.
  destruct (process_blocked_exact 0 128 ex_dec_blocked ex_cs_ok ltac:(lia) ltac:(reflexivity))
    as (dec' & E & _ & _ & H & _ & ps & Hps & Happ).
  exists dec'. split; [exact E|]. split; [|split].
  - rewrite Happ. vm_compute in Hps. injection Hps as <-. vm_compute. reflexivity.
  - destruct (H 1 _ 1 ltac:(reflexivity) ltac:(reflexivity) ltac:(lia) ltac:(by split)) as (c' & -> & Hb & _).
    cbn. by rewrite Hb.
  - destruct (H 2 _ 2 ltac:(reflexivity) ltac:(reflexivity) ltac:(lia) ltac:(by split)) as (c' & -> & Hb & _).
    cbn. by rewrite Hb.
Defined.
