(* ===== verification/HeaderExamples.v ===== *)
(** * Header blocks at work

    An application as src/bin/interop-decode.c has it, which meets the contract
    [HsetOk]; a reader for header blocks of RFC 9204 that can be run; and concrete
    header blocks on which the theorems of [DecInterface] are applied. *)

From Stdlib Require Import String.
From stdpp Require Import gmap.
From S2P Require Import Prelude Monad IntCodec HuffTables Huffman HuffStream StrCodec Xxhash.
From S2P Require Import StaticTable Ringbuf Rfc9204 EncTable EncHinfo EncState EncInv EncAbs EncTrace EncExamples.
From S2P Require Import DecTable DecState DecStream DecSpec DecBlocked DecStrings DecReading.
From S2P Require Import DecCore DecRounds DecEncIn DecCleanup DecTrace DecHeader DecParse DecHblock DecHset DecOut.
From S2P Require Import DecCompose DecLine DecData DecLoop DecPrefix DecBlock DecView DecProcess DecCall.
From S2P Require Import DecFrame DecApi DecRfc DecChunks DecWaits DecHeaders DecInterface DecExamples.
From S2P Require Import EncChoice EncEncode Encoder EncOps EncPeer EncBlock Connection PeerStream Acknowledge.

(** ** The application *)

(** It keeps the headers it got, and which blocks it was told about. *)
Record buffers := { bf_got : list (Z * dec_header); bf_told : list Z }.

Definition bf_alloc (space : Z) : dec_header :=
  {| dh_buf := replicate (Z.to_nat space) 0; dh_name_hash := 0; dh_nameval_hash := 0; dh_name_offset := 0;
     dh_val_offset := 0; dh_name_len := 0; dh_val_len := Z.of_nat (Z.to_nat space); dh_qpack_index := 0;
     dh_flags := 0; dh_dec_overhead := 0 |}.

Definition bf_realloc (space : Z) (h : dec_header) : dec_header :=
  {| dh_buf := take (Z.to_nat (dh_name_offset h + dh_val_len h)) (dh_buf h)
               ++ replicate (Z.to_nat (space - dh_val_len h)) 0;
     dh_name_hash := dh_name_hash h; dh_nameval_hash := dh_nameval_hash h;
     dh_name_offset := dh_name_offset h; dh_val_offset := dh_val_offset h;
     dh_name_len := dh_name_len h; dh_val_len := space; dh_qpack_index := dh_qpack_index h;
     dh_flags := dh_flags h; dh_dec_overhead := dh_dec_overhead h |}.

(** [prepare_decode] refuses more than [LSXPACK_MAX_STRLEN] bytes. *)
Definition bf_prepare (xhdr : option dec_header) (space : Z) : option dec_header :=
  if space >? LSXPACK_MAX_STRLEN then None
  else match xhdr with
       | Some h => if dh_name_offset h >? 32767 then None else Some (bf_realloc space h)
       | None => Some (bf_alloc space)
       end.

#[local] Instance buffers_app : HsetIf buffers := {
  dhi_unblocked hblock app := {| bf_got := bf_got app; bf_told := bf_told app ++ [hblock] |};
  dhi_prepare_decode hblock xhdr space app := (bf_prepare xhdr space, app);
  dhi_process_header hblock xhdr app := (0, {| bf_got := bf_got app ++ [(hblock, xhdr)]; bf_told := bf_told app |});
}.

Lemma replicate_zero_bytes n : is_bytes (replicate n 0).
Proof. apply Forall_replicate. unfold is_u8. lia. Qed.

Lemma bf_alloc_fresh space : space <= LSXPACK_MAX_STRLEN -> fresh_header space (bf_alloc space).
Proof.
  unfold LSXPACK_MAX_STRLEN. intros H. split; [split|..]; cbn; rewrite ?length_replicate; unfold LSXPACK_MAX_STRLEN; try lia.
  apply replicate_zero_bytes.
Qed.

Lemma bf_realloc_grown space h : space_ok h -> dh_val_len h < space -> space <= LSXPACK_MAX_STRLEN ->
  dh_name_offset h <= 32767 -> grown_header space h (bf_realloc space h).
Proof.
  unfold LSXPACK_MAX_STRLEN. intros [H1 H2 H3 H4 H5] Hlt Hle Ho.
  assert (length (dh_buf (bf_realloc space h)) = Z.to_nat (dh_name_offset h + space)) as El.
  { cbn. rewrite length_app, length_take, length_replicate. lia. }
  split; [split| | | |by eexists _, _].
  - done.
  - unfold LSXPACK_MAX_STRLEN. cbn. lia.
  - rewrite El. cbn. lia.
  - rewrite El. lia.
  - cbn. apply Forall_app. split; [by apply Forall_take|apply replicate_zero_bytes].
  - cbn. lia.
  - unfold stored. cbn [bf_realloc dh_name_offset dh_buf]. rewrite drop_app_le by (rewrite length_take; lia).
    rewrite take_app_le by (rewrite length_drop, length_take; lia).
    replace (Z.to_nat (dh_name_offset h + dh_val_len h)) with (Z.to_nat (dh_name_offset h) + Z.to_nat (dh_val_len h))%nat by lia.
    rewrite <- take_drop_commute, take_take. f_equal. lia.
  - cbn. lia.
Qed.

#[local] Program Instance buffers_ok : HsetOk buffers := { app_headers := bf_got; app_willing := True }.
Next Obligation.
  intros hb space app h app'. unfold dhi_prepare_decode, buffers_app, bf_prepare. rewrite Z.gtb_ltb. destruct (Z.ltb_spec LSXPACK_MAX_STRLEN space); [done|].
  intros [= <- _]. by apply bf_alloc_fresh.
Qed.
Next Obligation.
  intros hb space app h h' app' Hs Hl. unfold dhi_prepare_decode, buffers_app, bf_prepare. rewrite !Z.gtb_ltb. destruct (Z.ltb_spec LSXPACK_MAX_STRLEN space); [done|].
  destruct (Z.ltb_spec 32767 (dh_name_offset h)); [done|]. intros [= <- _]. by apply bf_realloc_grown.
Qed.
Next Obligation. done. Qed.
Next Obligation. done. Qed.
Next Obligation. done. Qed.
Next Obligation.
  intros _ hb space app Hs. unfold dhi_prepare_decode, buffers_app, bf_prepare. rewrite Z.gtb_ltb. destruct (Z.ltb_spec LSXPACK_MAX_STRLEN space); [lia|by eexists].
Qed.
Next Obligation.
  intros _ hb h space app Hs Ho _ _. unfold dhi_prepare_decode, buffers_app, bf_prepare. rewrite !Z.gtb_ltb. destruct (Z.ltb_spec LSXPACK_MAX_STRLEN space); [lia|].
  destruct (Z.ltb_spec 32767 (dh_name_offset h)); [lia|by eexists].
Qed.
Next Obligation.
  intros _ hb space app h app'. unfold dhi_prepare_decode, buffers_app, bf_prepare. destruct (_ >? _); [done|]. intros [= <- _]. done.
Qed.
Next Obligation. done. Qed.

(** ** Reading a header block *)

(** ** Reading a header block *)

Fixpoint read_section (fuel : nat) (t : dyn_table) (base : Z) (buf : bytes) : option (list (representation * hfield)) :=
  match buf, fuel with
  | [], _ => Some []
  | _, O => None
  | _, S fuel =>
      '(r, rest) ← read_representation base buf;
      f ← resolve t r;
      l ← read_section fuel t base rest;
      Some ((r, f) :: l)
  end.

Definition refers (P : Z -> bool) (x : representation * hfield) : bool :=
  match reference (fst x) with Some id => P id | None => false end.

Definition required_byb (ric : Z) (l : list (representation * hfield)) : bool :=
  negb (existsb (refers (fun id => ric <? id)) l) && ((ric <=? 0) || existsb (refers (Z.eqb ric)) l).

Definition read_header_block (max_entries total : Z) (t : dyn_table) (buf : bytes)
  : option (Z * Z * list (representation * hfield)) :=
  '(ric, base, rest) ← read_prefix max_entries total buf;
  l ← read_section (length rest) t base rest;
  if required_byb ric l then Some (ric, base, l) else None.

Lemma read_section_sound fuel t base buf l :
  is_bytes buf -> read_section fuel t base buf = Some l -> field_section t base buf l.
Proof.
  revert buf l. induction fuel as [|fuel IH]; intros [|b buf] l Hb; cbn [read_section];
    try (by intros [= <-]; constructor); try done.
  destruct (read_representation base (b :: buf)) as [[r rest]|] eqn:E; [|done]. cbn [mbind option_bind].
  destruct (read_representation_local base _ _ _ Hb E) as (used & Hu & Ht). rewrite Hu in Hb |- *.
  apply Forall_app in Hb as [_ Hb]. destruct (resolve t r) as [f|] eqn:Er; [|done]. cbn [mbind option_bind].
  destruct (read_section fuel t base rest) as [l'|] eqn:El; [|done].
  intros [= <-]. constructor; [exact Ht|exact Er|by apply IH].
Qed.

Lemma required_byb_sound ric l : required_byb ric l = true -> required_by ric l.
Proof.
  unfold required_byb. intros [H1 H2]%andb_true_iff. apply negb_true_iff in H1. split.
  - intros r f id Hin Hr. apply not_true_iff_false in H1. apply Z.nlt_ge. intros Hlt. apply H1, existsb_exists.
    exists (r, f). split; [by apply list_elem_of_In|]. unfold refers. cbn. rewrite Hr. by apply Z.ltb_lt.
  - intros Hr. apply orb_true_iff in H2 as [H2|H2]; [apply Z.leb_le in H2; lia|].
    apply existsb_exists in H2 as ([r f] & Hin%list_elem_of_In & H2). exists r, f. split; [done|]. unfold refers in H2. cbn in H2.
    destruct (reference r); [|done]. f_equal. symmetry. by apply Z.eqb_eq.
Qed.

Lemma read_prefix_bytes M total buf ric base rest :
  is_bytes buf -> read_prefix M total buf = Some (ric, base, rest) -> is_bytes rest.
Proof.
  intros Hb H. destruct (read_prefix_inv _ _ _ _ _ _ H) as (v & b1 & src & d & E1 & _ & E2 & _).
  destruct (read_int_local 8 ltac:(lia) _ _ _ Hb E1) as (u1 & E & _). rewrite E in Hb. apply Forall_app in Hb as [_ Hb].
  destruct (read_int_local 7 ltac:(lia) _ _ _ Hb E2) as (u2 & E' & _). rewrite E' in Hb. by apply Forall_app in Hb as [_ Hb].
Qed.

Lemma read_header_block_sound M total t buf ric base l :
  is_bytes buf -> read_header_block M total t buf = Some (ric, base, l) -> header_block M total t buf ric base l.
Proof.
  intros Hb. unfold read_header_block. destruct (read_prefix M total buf) as [[[r b] rest]|] eqn:E; [|done]. cbn [mbind option_bind].
  destruct (read_section (length rest) t b rest) as [l'|] eqn:El; [|done]. cbn [mbind option_bind].
  destruct (required_byb r l') eqn:Er; [|done]. intros [= -> -> ->]. exists rest. split; [done|].
  split; [|by apply required_byb_sound]. eapply read_section_sound; [by eapply read_prefix_bytes|done].
Qed.

(** ** A block *)

(** For a decoder that has seen 3 insertions, or has yet to: "x-a: b" as an indexed line
    relative to the Base 2, "GET" from the static table, the newest entry as a post-base
    line, its name with another value and the N bit, and a literal line. *)
Definition ex_block : bytes :=
  [0x04; 0x80] ++ [0x80] ++ [0xd1] ++ [0x10] ++ [0x08; 0x01; 0x63] ++ [0x21; 0x79; 0x01; 0x7a].

Definition ex_lines : list (representation * hfield) :=
  let authority := str_bytes ":authority"%string in
  [(RIndexedDyn 2, (str_bytes "x-a"%string, str_bytes "b"%string));
   (RIndexedStatic 17, (str_bytes ":method"%string, str_bytes "GET"%string));
   (RIndexedDyn 3, (authority, str_bytes "www.example.com"%string));
   (RLiteralDyn true 3 (str_bytes "c"%string), (authority, str_bytes "c"%string));
   (RLiteral false (str_bytes "y"%string) (str_bytes "z"%string), (str_bytes "y"%string, str_bytes "z"%string))].

Lemma ex_block_bytes : is_bytes ex_block.
Proof. apply bytes_ok_spec. vm_compute. reflexivity. Qed.

(** It is the same block before the insertions and after them. *)
Lemma ex_block_is total : total = 0 \/ total = 3 -> header_block (4096 / 32) total ex_table ex_block 3 2 ex_lines.
Proof. intros [-> | ->]; (apply read_header_block_sound; [exact ex_block_bytes|vm_compute; reflexivity]). Qed.

Lemma ex_block_fits : block_fits (4096 / 32) ex_table ex_block 3 2.
Proof.
  split; [split|].
  - vm_compute. split; congruence.
  - vm_compute. split; congruence.
  - intros _. vm_compute. split; congruence.
  - exact ex_block_bytes.
  - intros v rest H. vm_compute in H. injection H as <- <-. vm_compute. congruence.
Qed.

Definition ex_room : option bytes := Some [0; 0].

Lemma ex_lines_taken : takes 4 ex_room ex_lines.
Proof.
  split; [done| |done|by intros []; eexists].
  repeat (apply Forall_cons; split; [split; [vm_compute; congruence|vm_compute; congruence]|]). by apply Forall_nil.
Qed.

(** A decoder with the options [opts], and one that has read the encoder stream too. *)
Definition ex_new (opts : Z) : lsqpack_dec buffers :=
  lsqpack_dec_init 4096 10 opts {| bf_got := []; bf_told := [] |} ex_mallocs.

Definition ex_fed (opts : Z) : lsqpack_dec buffers :=
  match feed (one_by_one ex_stream) (ex_new opts) with Some (_, dec) => dec | None => ex_new opts end.

Lemma ex_new_live opts : live 4096 true (ex_new opts) (Dyn 0 4096 []) [].
Proof. apply init_live; [lia|intros _; exact ex_mallocs_succeed|vm_compute; split; congruence]. Qed.

Lemma ex_fed_live opts : live 4096 true (ex_fed opts) ex_table [].
Proof.
  destruct (wp_run _ _ _ (wp_feed_all 4096 (Dyn 0 4096 []) [] (one_by_one ex_stream) ex_insts ex_table (ex_new opts)
    (ex_new_live opts) ltac:(lia) (one_by_one_ok _ ex_stream_bytes) ltac:(rewrite one_by_one_concat; exact ex_instructions) ex_table_eq))
    as (r & dec & E & _ & H & _).
  unfold ex_fed. by rewrite E.
Qed.

Definition ex_tail : bytes := [0xff; 0x00].

(** In HTTP/1.x mode, with hashes, and an acknowledgement asked for. *)
Definition ex_opts : Z := Z.lor LSQPACK_DEC_OPT_HTTP1X LSQPACK_DEC_OPT_HASH_NAME.

Definition ex_pieces : list bytes := one_by_one (ex_block ++ ex_tail).

Lemma ex_pieces_ok : Forall chunk_ok ex_pieces.
Proof. apply one_by_one_ok, bytes_ok_spec. vm_compute. reflexivity. Qed.

Example ex_delivered :
  (fun x => (fst (fst x), snd (fst x), (fun g => (dh_read (dh_name_offset (snd g)) (dh_name_len (snd g)) (snd g),
     dh_read (dh_val_offset (snd g)) (dh_val_len (snd g)) (snd g))) <$> bf_got (qpd_app (snd x))))
   <$> read_block 70 4 (Z.of_nat (length ex_block)) ex_pieces ex_room (ex_fed ex_opts)
  = Some ({| hr_status := LQRHS_DONE; hr_rest := []; hr_ack := [0x84] |}, one_by_one ex_tail,
          (fun x => (Some (fst (snd x)), Some (snd (snd x)))) <$> ex_lines).
Proof. vm_compute. reflexivity. Qed.

Lemma ex_unused opts : unused (ex_new opts) 70 /\ unused (ex_fed opts) 70.
Proof.
  assert (cx_mem (qpd_ctxs (ex_new opts)) = ∅) as Hm by done.
  assert (unused (ex_new opts) 70) as H by (intros p c; by rewrite Hm, lookup_empty). split; [done|]. unfold ex_fed.
  generalize dependent (ex_new opts). intros dec0 Hm H. destruct (feed (one_by_one ex_stream) dec0) as [[r dec]|] eqn:E; [|done].
  destruct (keeps_feed _ _ _ _ E) as [hs Hw]. intros p c Hp. pose proof (wk_ctxs _ _ _ Hw p) as Hc.
  rewrite Hp, Hm, lookup_empty in Hc. done.
Qed.

Lemma ex_block_len : is_u64 (Z.of_nat (length ex_block)).
Proof. vm_compute. split; congruence. Qed.

Lemma ex_pieces_block : concat ex_pieces = ex_block ++ ex_tail.
Proof. apply one_by_one_concat. Qed.

Lemma header_block_delivered_witness :
  exists x dec', read_block 70 4 (Z.of_nat (length ex_block)) ex_pieces ex_room (ex_fed ex_opts) = Some (x, dec')
    /\ hr_status (fst x) = LQRHS_DONE /\ unread x = ex_tail /\ got_fields 70 ex_lines (ex_fed ex_opts) dec'
    /\ Some [0x84] = Some (hr_ack (fst x))
    /\ unused dec' 70 /\ live 4096 true dec' ex_table [].
Proof.
  apply (header_block_delivered 4096 ex_table [] (ex_fed ex_opts) 70 4 ex_pieces ex_block ex_tail 3 2 ex_lines ex_room).
  - apply ex_fed_live.
  - exact (proj2 (ex_unused ex_opts)).
  - apply ex_block_is. by right.
  - exact ex_block_fits.
  - exact ex_lines_taken.
  - exact ex_block_len.
  - exact ex_pieces_ok.
  - exact ex_pieces_block.
Defined.

(** The same block for a decoder that has not read the encoder stream yet. *)
Lemma blocked_block_completes_witness :
  exists x dec1, read_block 70 4 (Z.of_nat (length ex_block)) ex_pieces ex_room (ex_new ex_opts) = Some (x, dec1)
    /\ hr_status (fst x) = LQRHS_BLOCKED /\ bf_got (qpd_app dec1) = []
    /\ exists dec2 (told : list Z), feed (one_by_one ex_stream) dec1 = Some (0, dec2) /\ 70 ∈ told
         /\ exists y dec3, header_reads 70 (hr_rest (fst x) :: snd x) ex_room need_more dec2 = Some (y, dec3)
              /\ hr_status (fst y) = LQRHS_DONE /\ unread y = ex_tail /\ got_fields 70 ex_lines (ex_new ex_opts) dec3
              /\ unused dec3 70 /\ live 4096 true dec3 ex_table [].
Proof.
  destruct (blocked_block_completes 4096 (Dyn 0 4096 []) ex_table [] (ex_new ex_opts) 70 4 ex_pieces ex_block ex_tail 3 2 ex_lines ex_room)
    as (x & dec1 & E & Hst & Happ & Hk).
  - apply ex_new_live.
  - exact (proj1 (ex_unused ex_opts)).
  - lia.
  - apply ex_block_is. by left.
  - exact ex_block_fits.
  - reflexivity.
  - reflexivity.
  - exact ex_lines_taken.
  - exact ex_block_len.
  - exact ex_pieces_ok.
  - exact ex_pieces_block.
  - exists x, dec1. split; [exact E|]. split; [exact Hst|]. split; [exact Happ|].
    destruct (Hk (one_by_one ex_stream) ex_insts (one_by_one_ok _ ex_stream_bytes)
      ltac:(rewrite one_by_one_concat; exact ex_instructions) ex_table_eq) as (dec2 & told & E2 & _ & Hin & y & dec3 & E3 & H1 & H2 & H3 & _ & H4 & H5).
    exists dec2, told. split; [exact E2|]. split; [exact Hin|]. exists y, dec3. by split_and!.
Defined.

(** Calls in a strange order: a block that is not valid, bytes for blocks that are not there,
    an encoder stream that is refused at its end. *)
Definition ex_calls : list dec_call :=
  [CallHeaderIn 70 4 3 [0x04; 0x80; 0x80] ex_room; CallHeaderIn 71 8 3 [0x00; 0x00; 0xff] None;
   CallHeaderRead 70 [0x00] None; CallCancel 70 [0]; CallWriteIci [0; 0];
   CallHeaderIn 72 12 200 [0x04] ex_room; CallEncIn ex_stream; CallUnref 99; CallCancelId 12 [];
   CallHeaderIn 73 16 12 (take 5 ex_block) ex_room; CallEncIn [0xff; 0xff; 0xff]].

Lemma ex_calls_ok : Forall call_ok ex_calls.
Proof.
  assert (forall bs, bytes_ok bs && (Z.of_nat (length bs) <? 2 ^ 32) = true -> chunk_ok bs) as H.
  { intros bs [H1 H2]%andb_true_iff. split; [by apply bytes_ok_spec|by apply Z.ltb_lt]. }
  assert (forall n, (0 <=? n) && (n <? 2 ^ 64) = true -> is_u64 n) as Hu.
  { intros n [H1 H2]%andb_true_iff. split; [by apply Z.leb_le|by apply Z.ltb_lt]. }
  repeat (apply Forall_cons; split; [cbn [call_ok]; try split; try (apply H; vm_compute; reflexivity);
    try (apply Hu; vm_compute; reflexivity); exact I|]). by apply Forall_nil.
Qed.

Lemma decoder_calls_safe_witness :
  exists dec dec', run_calls ex_calls (ex_new 0) = Some (tt, dec)
    /\ lsqpack_dec_cleanup dec = Some (tt, dec') /\ nothing_left dec'.
Proof.
  apply (decoder_calls_safe 4096 10 0 {| bf_got := []; bf_told := [] |} ex_mallocs ex_calls).
  - lia.
  - vm_compute. split; congruence.
  - exact ex_calls_ok.
Defined.

Example ex_calls_end :
  (fun x => length (map_to_list (cx_mem (qpd_ctxs (snd x))))) <$> run_calls ex_calls (ex_new 0) = Some 2%nat.
Proof. vm_compute. reflexivity. Qed.

(** ** An encoder's block *)

(** After the block of [EncExamples], another on stream 4: a field that is in the table by
    now, one that is not, a static one, and one with the N bit. *)
Definition ex_ask (name value : string) (flags : Z) : field_call :=
  {| fc_bits0 := 0; fc_enc_buf := replicate 64 0; fc_hea_buf := replicate 64 0; fc_xhdr := ex_field name value; fc_flags := flags |}.

Definition ex_asked : list field_call :=
  [ex_ask "x-a" "b" 0; ex_ask "x-long" "value" 0; ex_ask ":method" "GET" 0; ex_ask "cookie" "secret" LQEF_NEVER_INDEX].

Definition ex_made : (bytes * option bytes) * lsqpack_enc :=
  match encode_block 4 0 ex_asked (replicate 16 0) ex_enc4 with Some r => r | None => (([], None), ex_enc4) end.
Definition ex_made_stream : bytes := fst (fst ex_made).
Definition ex_made_block : bytes := default [] (snd (fst ex_made)).

Lemma ex_made_eq : encode_block 4 0 ex_asked (replicate 16 0) ex_enc4 = Some ((ex_made_stream, Some ex_made_block), snd ex_made).
Proof. vm_compute. reflexivity. Qed.

(** It waits for insertions. *)
Example ex_made_shape : (length ex_made_stream, length ex_made_block, take 2 ex_made_block) = (11%nat, 11%nat, [3; 128]).
Proof. vm_compute. reflexivity. Qed.

Lemma bytes_chunks_ok bs : bytes_ok bs = true -> Forall chunk_ok (one_by_one bs).
Proof. intros H. by apply one_by_one_ok, bytes_ok_spec. Qed.

Lemma ex_asked_ok : Forall field_call_ok ex_asked.
Proof.
  repeat (apply Forall_cons; split; [split; [|split; apply bytes_ok_spec; vm_compute; reflexivity]|]); [..|by apply Forall_nil];
    (constructor; [apply bytes_ok_spec; vm_compute; reflexivity|apply bytes_ok_spec; vm_compute; reflexivity|
       vm_compute; discriminate|vm_compute; discriminate|vm_compute; split; congruence|vm_compute; split; congruence|
       vm_compute; discriminate|vm_compute; discriminate|vm_compute; discriminate..]).
Qed.

Lemma ex_asked_fit : Forall line_fits ex_asked.
Proof. repeat (apply Forall_cons; split; [split; vm_compute; discriminate|]). by apply Forall_nil. Qed.

(** The decoder has not got the encoder stream of the block yet. *)
Lemma header_roundtrip_witness :
  exists dec ack, feed (one_by_one ex_enc_stream) (ex_new ex_opts) = Some (0, dec)
    /\ block_arrives 71 4 ex_made_block (one_by_one (ex_made_block ++ ex_tail)) (one_by_one ex_made_stream) ex_tail ex_room ack ex_opts
          ex_asked {| bf_got := []; bf_told := [] |} dec.
Proof.
  destruct (header_roundtrip 4096 ltac:(lia) 4096 10 LSQPACK_ENC_OPT_IX_AGGR (Some (replicate 6 0)) ex_mallocs
    (snd (fst ex_init)) ex_enc0 ex_bytes ex_enc4 4 0 ex_asked (replicate 16 0) ex_made_stream ex_made_block (snd ex_made)
    10 ex_opts {| bf_got := []; bf_told := [] |} ex_mallocs (one_by_one ex_enc_stream) (one_by_one ex_made_stream)
    71 (one_by_one (ex_made_block ++ ex_tail)) ex_tail ex_room) as (dec & t1 & H1 & (hl & held & own & [Ht _] & _) & H3).
  - exact u32_4096.
  - exact u32_10.
  - exact u32_10.
  - lia.
  - exact ex_init_eq.
  - exact ex_run.
  - vm_compute. discriminate.
  - exact ex_asked_ok.
  - exact ex_made_eq.
  - exact ex_mallocs_succeed.
  - exact I.
  - apply bytes_chunks_ok. vm_compute. reflexivity.
  - apply bytes_chunks_ok. vm_compute. reflexivity.
  - apply bytes_chunks_ok. vm_compute. reflexivity.
  - by rewrite !one_by_one_concat.
  - apply one_by_one_concat.
  - discriminate.
  - exact ex_asked_fit.
  - intros []; eexists; vm_compute; reflexivity.
  - vm_compute. split; congruence.
  - destruct H3 as [ack Ha].
    { pose proof (tc_inserted _ _ _ _ _ Ht). change (4096 / 32) with 128.
      replace (qpe_ins_count (qpe_table (snd ex_made))) with 2 by (vm_compute; reflexivity). lia. }
    exists dec, ack. split; [exact H1|exact Ha].
Defined.

(** ... and what the encoder makes of the acknowledgement. *)
Lemma ex_none_open : Forall (fun q => qhi_stream_id (hinfo_of ex_enc4 q) <> 4) (all_hinfos ex_enc4).
Proof. vm_compute. repeat constructor; discriminate. Qed.

Lemma block_acknowledged_witness :
  exists dec ack, feed (one_by_one ex_enc_stream) (ex_new ex_opts) = Some (0, dec)
    /\ block_arrives 71 4 ex_made_block (one_by_one (ex_made_block ++ ex_tail)) (one_by_one ex_made_stream) ex_tail ex_room ack ex_opts
          ex_asked {| bf_got := []; bf_told := [] |} dec
    /\ forall achunks, Forall is_bytes achunks -> concat achunks = ack ->
         exists enc2, listen achunks (snd ex_made) = Some (true, enc2) /\ ~ outstanding enc2 4.
Proof.
  destruct (block_acknowledged 4096 ltac:(lia) 4096 10 LSQPACK_ENC_OPT_IX_AGGR (Some (replicate 6 0)) ex_mallocs
    (snd (fst ex_init)) ex_enc0 ex_bytes ex_enc4 4 0 ex_asked (replicate 16 0) ex_made_stream ex_made_block (snd ex_made)
    10 ex_opts {| bf_got := []; bf_told := [] |} ex_mallocs (one_by_one ex_enc_stream) (one_by_one ex_made_stream)
    71 (one_by_one (ex_made_block ++ ex_tail)) ex_tail (default [] ex_room)) as (dec & t1 & H1 & (hl & held & own & [Ht _] & _) & H3).
  - exact u32_4096.
  - exact u32_10.
  - exact u32_10.
  - lia.
  - exact ex_init_eq.
  - exact ex_run.
  - vm_compute. discriminate.
  - exact ex_asked_ok.
  - exact ex_made_eq.
  - exact ex_mallocs_succeed.
  - exact I.
  - apply bytes_chunks_ok. vm_compute. reflexivity.
  - apply bytes_chunks_ok. vm_compute. reflexivity.
  - apply bytes_chunks_ok. vm_compute. reflexivity.
  - by rewrite !one_by_one_concat.
  - apply one_by_one_concat.
  - discriminate.
  - exact ex_asked_fit.
  - intros []; eexists; vm_compute; reflexivity.
  - vm_compute. split; congruence.
  - done.
  - intros (q & Hq & Hs). revert Hs. apply (proj1 (Forall_forall _ _) ex_none_open q Hq).
  - vm_compute. reflexivity.
  - destruct H3 as (ack & Ha & Hl).
    { pose proof (tc_inserted _ _ _ _ _ Ht). change (4096 / 32) with 128.
      replace (qpe_ins_count (qpe_table (snd ex_made))) with 2 by (vm_compute; reflexivity). lia. }
    exists dec, ack. split; [exact H1|]. split; [exact Ha|]. intros achunks Hb E.
    destruct (Hl achunks Hb E) as (enc2 & ric & base & rest & H4 & H5 & _). exists enc2. split; [exact H4|exact H5].
Defined.

(** The decoder stream: an acknowledgment, and a cancellation. *)
Lemma decoder_stream_heard_witness :
  exists ok enc' b l rest, listen [[0x80]; [0x41]] ex_enc4 = Some (ok, enc')
    /\ [0x80; 0x41] = b ++ rest /\ dec_instructions b l.
Proof.
  destruct (decoder_stream_heard [[0x80]; [0x41]] ex_enc4 (proj1 ex_ready4) ex_idle4 ltac:(vm_compute; reflexivity)
    ltac:(repeat constructor; unfold is_u8; lia)) as (ok & enc' & b & l & rest & H1 & H2 & H3 & _).
  exists ok, enc', b, l, rest. split; [exact H1|]. split; [exact H2|exact H3].
Defined.
